(* ===== verification/_CoqProject ===== *)
-Q . S2P
Prelude.v
OrdMap.v
AllocCache.v
LaneCache.v
ManagedAdvice.v
Events.v
AsyncSeq.v
Va.v
RpcCore.v
RpcPayload.v
Fence.v
VisibleDevices.v
FatbinFilter.v
Routing.v
Ipc.v
Dispatch.v
CheckpointGate.v
Transport.v
H2State.v
H2Receive.v
H2Send.v
LaneEnd.v
H2Handoff.v
H2Handshake.v
HostMem.v
HostMirror.v
HostCoherence.v
HostFlush.v
HostExpose.v
HostShared.v
RpcIds.v
Registry.v
Stub.v
StubSafe.v
StubAgree.v
StubCall.v
StubRefine.v
StubClient.v
StubServer.v
Stubs.v
Symbols.v
Lane.v
Annotations.v
Codegen.v
DtohPipe.v
Bulk.v
BulkPull.v
Smemcpy.v
Htod.v
HtodCopy.v
DeviceIoctl.v
Monitor.v
ParamLayout.v
Launch.v
GraphNode.v
Contexts.v
