(* ===== verification/Prelude.v ===== *)
(** * Lupine: a verification of its core

    Lupine runs CUDA programs against GPUs of remote machines.  A client library
    stands in for the CUDA driver, turns calls into RPCs over HTTP/2 and sends
    each to the server that owns the device, context or pointer it is about; a
    server forks a child per connection, dispatches the requests of each lane and
    brokers descriptors between its children.  The program is C++ (under [src/]);
    this library models its own core logic and the generated forwarding of CUDA
    calls, and leaves third-party libraries outside.

    ** Files

    - [Prelude]: fixed-width integers with their wrap-around, power-of-two masks,
      little-endian images, the tactics ([breflect], [case_if]) and hint databases
      that the other files use.
    - [OrdMap]: [std::map] as a sorted association list (lower_bound, erase,
      emplace) with its refinement to finite maps.
    - [AllocCache], [LaneCache] ([cache.cpp]): the index of device allocations with
      its overlap counter; the epoch-validated context caches of a thread.
    - [ManagedAdvice] ([managed_advice.h]): advice on page ranges.
    - [Events] ([events.cpp]): the cache of event completion and the protocol of
      recordings, queries in flight and answers around it, as a step relation.
    - [AsyncSeq], [RpcCore], [RpcPayload] ([rpc.cpp], [rpc.h]): the completion
      prefix of fire-and-forget requests; the connection, the thread-local I/O
      state and every operation that builds, sends, dispatches and reads requests,
      in a small state-and-error monad over an abstract HTTP/2 transport (class
      [Transport] with [TransportLaws]); payload-level results.
    - [Va] ([rpc.cpp], [transport.cpp]): address arenas over an abstract address
      space (class [AddressSpace] with [AddressSpaceLaws]), concurrent bump claims,
      and the negotiation of an arena with a peer.
    - [Fence]: both ends of one connection as a step relation assembled from the
      definitions of [RpcCore] and [AsyncSeq].
    - [VisibleDevices], [FatbinFilter]: the CUDA_VISIBLE_DEVICES parser and the
      filter of fat binaries.
    - [Routing] ([routing.cpp], [client_routing.h]): the virtual device table, the
      owners of handles and pointers, disjoint allocations, current contexts and
      default routes, over the class [ClientEnv].
    - [Ipc] ([ipc.cpp]): proxy files, tokens, and the broker with the descriptor
      tables of parent and children.
    - [Dispatch] ([dispatch.cpp], [client_bundle.cpp]): protocol detection, the
      HTTP/1.x request loop, routes and client bundles.
    - [CheckpointGate] ([checkpoint.cpp]): the call gate at the granularity of its
      atomic operations, and the capture gate.
    - [Transport] ([transport.cpp]): LUPINE_SERVER, the pool of connections and the
      bulk lanes; its invariant discharges [ClientEnvLaws].
    - [H2State], [H2Receive], [H2Send], [LaneEnd], [H2Handoff], [H2Handshake] ([h2.cpp]): the
      streams of an HTTP/2 transport with their staging buffers and their zstd
      coders (class [Zstd] with [ZstdLaws], and a stored-block coder that meets
      them); the receive path from DATA frame to reader; the send path from write
      cursor to DATA frame, with the session, the peer's windows and the other
      threads as parameters; both of them joined; control frames, the writer thread and the
      replacement of a socket under it; headers, statuses and the opening handshake.
    - [HostMem], [HostMirror] ([cuda_client_memcpy.cpp], with the entry points of
      [cuda_client.cpp]): the registry of pinned and managed host memory with its
      lookups and translations; and the mirror between the client's pages and the
      servers' backings, that is write tracking by page protection and faults,
      demand fetches with read-ahead, flushes, invalidations, portable
      registrations, launches and synchronizations, over the class [MirrorEnv].
      [HostCoherence], [HostFlush], [HostExpose] and [HostShared] hold the proofs:
      the coherence invariant with faults and fetches, flushes, the start of
      tracking, and synchronizations with the refinement of one shared memory.
    - [RpcIds], [Registry] ([codegen/gen_rpc_ids.h], [codegen/registry.cpp],
      [rpc_server.cpp], [server.cpp]): the operation ids, the registry of handlers
      under every combination of build conditions, and the dispatch of an operation.
    - [Stub]: a small language for the generated functions of
      [codegen/gen_cuda_client.cpp] and [codegen/gen_cuda_server.cpp], with its meaning
      over the classes [CTypes], [Allocator] and [Driver].  [StubSafe], [StubAgree],
      [StubCall] and [StubRefine] decide memory safety, agreement of a client function
      with its handler, and the shape of driver calls, and prove the decisions sound.
      [StubClient] and [StubServer] hold the functions, [Stubs] the theorems on them.
    - [Lane]: the loop of a lane's worker, from frames on the wire to driver calls.
    - [Symbols] ([cuda_client.cpp], [codegen/gen_cuda_client.cpp]): dlsym, both
      versions of cuGetProcAddress and the tables behind them.
    - [Annotations], [Codegen] ([codegen/annotations_cuda.h], [codegen/codegen.py],
      [codegen/ops.py], [codegen/emit.py]): the annotated declarations as data, and the
      generator that makes client functions and handlers of them.
    - [DtohPipe] ([cuda_server_memcpy.cpp], [cuda_client_memcpy.cpp]): device-to-host
      copies, pipelined over two pinned slots or serial, and their reassembly.
    - [Bulk], [BulkPull] (the same files): copies striped over the bulk connections, to
      the device and from it, as steps of the threads of both sides.
    - [Smemcpy] ([ops/smemcpy_dispatch.cpp], [ops/cuda_smemcpy.cu]): the choice of a
      scatter kernel and what the threads of each kernel do.
    - [Htod], [HtodCopy] ([cuda_server_memcpy.cpp], [ops/smemcpy_module.cpp]):
      host-to-device copies, cut into fragments that are fetched from the client over
      the device-to-host copies it has not got yet, or taken from the request, and
      scattered to their destination; a monad over the results of driver calls, with
      weakest preconditions.
    - [DeviceIoctl] ([device_ioctl_preload.cpp], [device_ioctl_proxy.cpp],
      [device_ioctl_client.cpp], [device_ioctl_server.cpp]): descriptors of device files
      that stand for descriptors of a server, through open, dup, close and ioctl.
    - [Monitor] ([monitoring.h], [monitor_client.cpp], [monitor_server.cpp]): what clients
      report, the registry that the server's processes share and the discovery of their
      ids on the host, and the samples and labels of the metrics.
    - [ParamLayout], [Launch], [GraphNode] ([cuda_client.cpp], [cuda_server.cpp]): the
      caches of parameter layouts through loads and unloads, kernel launches and the
      kernel nodes of graphs on both sides, and the errors of unanswered requests.
    - [Contexts] ([cuda_client.cpp]): the retains and the cached state of a device's primary
      context over the class [PrimaryDriver], and the stack of current contexts of a thread.

    Definitions keep the names of the C++ functions.  Machine integers are [Z] with
    [wrap64], [wrap32] and [sint32] written where the code computes; pointers are
    addresses with 0 for null; an output pointer that may be null is an option or a
    flag.  Operations pass the state they change explicitly.

    ** What the theorems show

    - Ordering ([Fence]): a request runs on the server only after every
      fire-and-forget request sent before it was entered has ended, which is told by the
      requests in flight and not by the server's counter
      ([dispatch_after_earlier_async]), and the waits that ensure this drain
      ([fence_waits_drain]), unless a write fails ([lost_sequence_blocks_lane]);
      the completion prefix itself ([async_wait_iff_prefix_ended],
      [async_wait_result]).
    - Generated calls: for 222 functions, a call through a server is one driver call
      with the application's arguments, null pointers included, and its results
      ([generated_calls_transparent]), and a lane of such calls runs in order
      ([lane_serves_calls_in_order]); handlers stay inside their objects whatever arrives
      ([generated_handlers_memory_safe],
      [generated_calls_well_typed]) and clients whatever is answered
      ([generated_clients_stay_inside]).  The functions are what the generator makes of
      the annotations ([checked_in_code_is_generated]), which sends sizes before what
      they size ([hoist_sizes_first]).
    - Names: ids ([rpc_ids_identify]), registration ([dispatch_runs_own_handler]) and
      the resolution of symbols ([symbol_resolution_agrees]).
    - Lanes ([H2Receive], [H2Send], [LaneEnd]): what the readers of a stream get is what
      [rpc_http2_write_stream] was given at the other end, in either direction
      ([lane_end_to_end]), by way of the receiving
      half ([lane_is_byte_stream], [read_gets_next_bytes]) and the sending half
      ([write_stream_accepts_cursors], [framed_payload_decodes]); the bounds of
      DATA frames and of the staging pool.
    - Opening and moving a connection: both ends of a handshake agree on the arena
      and on the bundle ([handshake_agrees]); the output is cut at the barrier of a
      handoff, what is before it on the old socket and what is behind it on the
      replacement, and the barrier is reached ([handoff_cuts_output],
      [barrier_reached_in_one_turn]); control frames ([control_frame_roundtrip]).
    - Mirrored memory: a program of one thread, of host accesses, launches and
      synchronizations without copies and with a network that answers, behaves as over
      one memory that host and device share ([mirror_refines_shared_memory]); a request publishes the host's writes
      ([prepare_rpc_publishes]), an access settles within two faults
      ([access_settles_in_two_faults]), a failed flush forgets nothing
      ([failed_flush_restores]), merging loses no byte ([merged_ranges_exact]),
      tracking starts coherent ([exposure_starts_tracking]); the registry's lookups
      ([host_range_translates], [host_range_registered_iff]).
    - Copies: what the client gets of a device-to-host copy that succeeds is the device's
      bytes ([dtoh_copy_delivers]), and no slot is freed under a copy
      ([dtoh_no_dma_after_free]); striped copies deliver under every interleaving
      ([bulk_push_delivers], [bulk_pull_delivers]) and do not get stuck
      ([bulk_pull_not_stuck]); a scatter launch writes every byte to its place
      ([smemcpy_launch_scatters]); a host-to-device copy delivers what the client's
      memory holds, when its fetches are answered ([pulled_copy_delivers], with
      [fetch_sees_undelivered]), or the
      request carries ([pushed_copy_delivers]), and leaves the lane in step
      ([pushed_copy_consumes]).
    - Launches: the layouts that launches read are those of what a handle stands for now,
      through loads, unloads of modules and contexts that are destroyed or reset
      ([param_sizes_exact]); a launch calls the driver with the application's arguments
      ([kernel_launch_delivered], [configured_launch_delivered],
      [cooperative_launch_delivered]), as does a kernel node ([kernel_node_delivered],
      [kernel_node_set_delivered], [kernel_node_read_back]); an error that is kept is
      reported once ([async_errors_reported_once], [event_query_answers]).
    - Contexts: a remote device's primary context behaves as documented although few of its
      calls are forwarded ([primary_context_transparent]), and the current context is the top
      of the documented stack ([context_stack_refines]).
    - Devices: proxied descriptors behave as the kernel's own
      ([device_descriptors_refine]), are open at the server exactly while something
      refers to them ([device_tokens_exact]), and an ioctl is the driver's
      ([device_ioctl_transparent]).
    - Metrics: workload ids are UTF-8 ([workload_id_is_utf8]), reports arrive
      ([metadata_roundtrip]), what a process of the host uses is accounted to the child that
      is this process ([host_process_found], [host_pids_distinct], [client_samples_are_sums],
      [utilization_is_newest], [workload_ids_agree]), and no client can forge a label
      ([client_labels_read_back]).
    - Framing and locking of requests, nested requests included
      ([request_framing_roundtrip], [request_locks_balanced],
      [nested_request_preserves_response]), pitched payloads and host-allocation
      writes ([pitched_transfer_roundtrip], [host_write_recorded]).
    - Where pointers, devices and contexts go: [pointer_routes_to_owner],
      [disjoint_allocation_terminates], [device_table_enumerates],
      [mem_location_roundtrip], [default_route_binds_context], on top of the index
      ([allocation_lookup_equiv], [allocation_cache_refines_map],
      [allocation_overlap_query]) and the caches ([local_answer_is_current],
      [lane_cache_sound]).
    - Checkpoints: exclusion and wakeups of the call gate
      ([drained_gate_excludes_calls], [no_lost_wakeup]).
    - Arenas: disjoint claims, lowest fit, negotiation ([va_claims_disjoint],
      [va_claim_lowest_fit], [negotiate_arena_terminates]).
    - The broker as a finite map, protocol detection and bundles, advice, fat
      binaries, visible devices, the pool of connections: the theorems of [Ipc],
      [Dispatch], [ManagedAdvice], [FatbinFilter], [VisibleDevices], [Transport].

    [lost_sequence_blocks_lane], [allocation_overlap_query_wraps],
    [lost_reply_reports_success], [minus_one_entry_selects_device],
    [bulk_lanes_outlive_close], [stale_client_told_of_arena],
    [cancel_before_barrier_pauses], [unchecked_note_takes_over],
    [unflushed_writes_are_lost], [coredump_size_unchecked], [dlsym_ignores_abi],
    [bulk_lost_connection_writes_freed_staging], [smemcpy_narrow_leaves_bytes_out],
    [failed_fetch_copies_stale], [child_open_sends_requests],
    [library_unload_leaves_layouts], [primary_release_leaves_layouts],
    [cooperative_error_lost], [wait_event_error_lost], [event_query_count_unchecked], [launch_sizes_wrap], [stale_primary_state],
    [set_current_null_keeps_stack] and the last part of [dispatch_by_first_bytes]
    state behaviour of the code that differs from what its comments or its other
    parts intend.

    ** Fuel

    Loops whose recursion is not structural take fuel: the header loop of
    [rpc_dispatch] and the drains (more than the bytes available suffices, and the
    theorems say so), the claim and negotiation loops (bounded by the arena and by
    the slots), the retry loop of disjoint allocations (bounded by the bytes held
    by other routes), the detection loop (bounded by the events to come), and the
    loops around the zstd coders and the waits of a writer (total by [decode_loop_total],
    [encode_total] and [write_stream_settles]), the loop of flushes before a request
    (one turn when no other thread writes) and the retries of a faulting access
    (two).  In these running out of fuel is a result of its own ([None] or [Blocked]),
    never a success.  The loops of [DtohPipe], [Smemcpy], [Htod] and [HtodCopy] move by at
    least a byte a turn and have the number of bytes as fuel; their theorems say that
    every byte is moved, so the fuel does not run out.  Reading a layout takes a turn for
    each parameter and one more.

    ** What is not modelled

    The nghttp2 and zstd libraries (parameters with laws), sockets below the byte
    stream, TLS, the heartbeat and graceful shutdown of a session, thread creation,
    the server's accept loop and process supervision, the text of the metrics
    other than the labels of clients and the queries of device properties,
    the allocation, registration and release of host memory, the hand-written wrappers
    and handlers of CUDA calls other than the copies, launches, kernel nodes and event
    calls above, copies in captured streams
    and graphs and from device memory of another route, all of NCCL, NVML, NVSHMEM and HIP, RPC statistics and
    logging.  Of the generated CUDA code, 35 client functions and 10 handlers with steps
    of their own are left out; the others are taken as under the newest headers
    (their build conditions are not modelled), pointer arguments are distinct objects,
    and calls into the client's own bookkeeping are recorded, not run.  Memory exhaustion appears
    where the code handles it (growing a queue or the copy buffer) and nowhere
    else.  Mutexes are assumed to lock and unlock.
    The coherence of mirrored memory is proved for one application thread, with
    allocations that are not portable and no deferred copies into tracked memory;
    [unflushed_writes_are_lost] shows why. *)
From Stdlib Require Export ZArith Lia Sorted.
From stdpp Require Export base tactics numbers gmap sets
  strings relations option list_numbers list.
#[global] Open Scope Z_scope.
#[global] Set Default Goal Selector "!".

(** * Machine integers *)

Declare Scope lupine_scope.
Delimit Scope lupine_scope with lupine.

(** Unsigned wrap-around at 64 and 32 bits, as C++ computes on [size_t],
    [uint64_t], [uintptr_t] and [uint32_t]. *)
Definition wrap64 (z : Z) : Z := z mod 2 ^ 64.
Definition wrap32 (z : Z) : Z := z mod 2 ^ 32.

(** Two's-complement reading of a 32-bit pattern ([int], [int32_t]). *)
Definition sint32 (z : Z) : Z :=
  let w := wrap32 z in if w <? 2 ^ 31 then w else w - 2 ^ 32.

#[global] Arguments wrap64 : simpl never.
#[global] Arguments wrap32 : simpl never.
#[global] Arguments sint32 : simpl never.
#[global] Arguments Z.b2z : simpl never.

Definition is_u64 (z : Z) : Prop := 0 <= z < 2 ^ 64.
Definition is_u32 (z : Z) : Prop := 0 <= z < 2 ^ 32.
Definition is_int (z : Z) : Prop := - 2 ^ 31 <= z < 2 ^ 31.
Definition INT_MAX : Z := 2 ^ 31 - 1.

Notation "a +64 b" := (wrap64 (a + b)) (at level 50, left associativity)
  : lupine_scope.
Notation "a -64 b" := (wrap64 (a - b)) (at level 50, left associativity)
  : lupine_scope.

Lemma wrap64_id z : is_u64 z -> wrap64 z = z.
Proof. apply Z.mod_small. Qed.

Lemma wrap64_range z : is_u64 (wrap64 z).
Proof. apply Z.mod_pos_bound. lia. Qed.

Lemma wrap64_unique z r : is_u64 r -> (exists k, z = r + k * 2 ^ 64) -> wrap64 z = r.
Proof.
  intros Hr [k ->]. unfold wrap64. rewrite Z_mod_plus_full. by apply Z.mod_small.
Qed.

Lemma wrap64_wrap64_add a b : wrap64 (wrap64 a + b) = wrap64 (a + b).
Proof. unfold wrap64. by rewrite Zplus_mod_idemp_l. Qed.

Lemma wrap64_wrap64_sub a b : wrap64 (wrap64 a - b) = wrap64 (a - b).
Proof. unfold wrap64. by rewrite Zminus_mod_idemp_l. Qed.

Lemma wrap64_neg z : - 2 ^ 64 <= z < 0 -> wrap64 z = z + 2 ^ 64.
Proof.
  intros Hz. unfold wrap64. symmetry. apply (Z.mod_unique _ _ (-1)); lia.
Qed.

Lemma sint32_id z : is_int z -> sint32 z = z.
Proof.
  unfold is_int, sint32, wrap32. intros Hz.
  destruct (decide (0 <= z)).
  - rewrite Z.mod_small by lia. destruct (Z.ltb_spec z (2 ^ 31)); lia.
  - assert (z mod 2 ^ 32 = z + 2 ^ 32) as ->.
    { symmetry. apply (Z.mod_unique _ _ (-1)); lia. }
    destruct (Z.ltb_spec (z + 2 ^ 32) (2 ^ 31)); lia.
Qed.

Lemma sint32_wrap32 z : sint32 (wrap32 z) = sint32 z.
Proof. unfold sint32, wrap32. by rewrite Z.mod_mod by lia. Qed.

(** * Boolean reflection *)

(** Turns every boolean comparison of the context into the proposition it
    decides; the components' guards are all of this form. *)
Ltac breflect :=
  repeat match goal with
  | H : (_ && _)%bool = true |- _ => apply andb_true_iff in H; destruct H
  | H : (_ || _)%bool = false |- _ => apply orb_false_iff in H; destruct H
  | H : (_ && _)%bool = false |- _ => apply andb_false_iff in H
  | H : (_ || _)%bool = true |- _ => apply orb_true_iff in H
  | H : negb _ = true |- _ => apply negb_true_iff in H
  | H : negb _ = false |- _ => apply negb_false_iff in H
  | H : (_ =? _) = true |- _ => apply Z.eqb_eq in H
  | H : (_ =? _) = false |- _ => apply Z.eqb_neq in H
  | H : (_ <? _) = true |- _ => apply Z.ltb_lt in H
  | H : (_ <? _) = false |- _ => apply Z.ltb_ge in H
  | H : (_ <=? _) = true |- _ => apply Z.leb_le in H
  | H : (_ <=? _) = false |- _ => apply Z.leb_gt in H
  | H : bool_decide _ = true |- _ => apply bool_decide_eq_true in H
  | H : bool_decide _ = false |- _ => apply bool_decide_eq_false in H
  end.

(** Case analysis on the first [if] or [match] of the goal, keeping the
    equation, with the boolean tests reflected. *)
Ltac case_if :=
  match goal with
  | |- context [if ?b then _ else _] =>
      let E := fresh "E" in destruct b eqn:E; breflect
  end.

Ltac case_if_in H :=
  match type of H with
  | context [if ?b then _ else _] =>
      let E := fresh "E" in destruct b eqn:E; breflect
  end.

(** Weakens a [Forall] hypothesis to the goal by arithmetic on its elements. *)
Ltac forall_lia H := eapply Forall_impl; [exact H|]; simpl; intros; lia.

Create HintDb lupine.
Create Rewrite HintDb lupine.
#[export] Hint Resolve wrap64_range : lupine.

(** * Power-of-two masks *)

(** [x & mask] with [mask = ~(alignment - 1)] on 64-bit values. *)
Definition mask_down (x alignment : Z) : Z :=
  Z.land x (wrap64 (Z.lnot (alignment - 1))).

(** The C++ power-of-two test [(a & (a - 1)) == 0] for a nonzero [a]. *)
Lemma land_pred_pow2 a : 0 < a -> Z.land a (a - 1) = 0 -> exists k, 0 <= k /\ a = 2 ^ k.
Proof.
  intros Ha Hland. exists (Z.log2 a). split; [apply Z.log2_nonneg|].
  pose proof (Z.log2_spec a Ha) as [Hlo Hhi].
  destruct (decide (a = 2 ^ Z.log2 a)) as [|Hne]; [done|exfalso].
  assert (Z.log2 (a - 1) = Z.log2 a) as Hlog.
  { apply Z.log2_unique; [apply Z.log2_nonneg|lia]. }
  assert (Z.testbit (Z.land a (a - 1)) (Z.log2 a) = true) as Hbit.
  { rewrite Z.land_spec, Z.bit_log2 by lia. rewrite <- Hlog. apply Z.bit_log2.
    assert (0 < 2 ^ Z.log2 a) by (apply Z.pow_pos_nonneg; [lia|apply Z.log2_nonneg]).
    lia. }
  by rewrite Hland, Z.bits_0 in Hbit.
Qed.

Lemma mask_down_pow2 x k :
  is_u64 x -> 0 <= k < 64 -> mask_down x (2 ^ k) = x - x mod 2 ^ k.
Proof.
  intros Hx Hk. unfold mask_down, wrap64.
  rewrite <- (Z.land_ones _ 64) by lia.
  rewrite (Z.land_comm (Z.lnot _)), Z.land_assoc, Z.land_ones by lia.
  rewrite Z.mod_small by done.
  replace (2 ^ k - 1) with (Z.ones k) by (rewrite Z.ones_equiv; lia).
  rewrite <- Z.ldiff_land, Z.ldiff_ones_r by lia.
  rewrite Z.shiftl_mul_pow2, Z.shiftr_div_pow2 by lia.
  pose proof (Z.div_mod x (2 ^ k) ltac:(apply Z.pow_nonzero; lia)). lia.
Qed.

(** Rounding up to a power of two with the add-and-mask idiom: the least
    multiple that is at least [x], when the sum does not wrap. *)
Lemma mask_up_spec x k :
  0 <= x -> 0 <= k < 64 -> x + 2 ^ k - 1 < 2 ^ 64 ->
  let r := mask_down (wrap64 (x + 2 ^ k - 1)) (2 ^ k) in
  x <= r < x + 2 ^ k /\ (2 ^ k | r).
Proof.
  intros Hx Hk Hb r. assert (0 < 2 ^ k) by (apply Z.pow_pos_nonneg; lia).
  assert (is_u64 (x + 2 ^ k - 1)) as Hu by (unfold is_u64; lia).
  subst r. rewrite wrap64_id by done. rewrite mask_down_pow2 by done.
  pose proof (Z.mod_pos_bound (x + 2 ^ k - 1) (2 ^ k) ltac:(lia)).
  split; [lia|]. exists ((x + 2 ^ k - 1) / 2 ^ k).
  pose proof (Z.div_mod (x + 2 ^ k - 1) (2 ^ k) ltac:(lia)). lia.
Qed.

(** When the sum wraps, the masked result falls below the input, which is what
    the code's [next < current] test detects. *)
Lemma mask_up_wrap x k :
  is_u64 x -> 0 <= k < 64 -> 2 ^ 64 <= x + 2 ^ k - 1 ->
  mask_down (wrap64 (x + 2 ^ k - 1)) (2 ^ k) < x.
Proof.
  intros Hx Hk Hb. unfold is_u64 in Hx.
  assert (0 < 2 ^ k <= 2 ^ 63) as [Hp Hp'].
  { split; [apply Z.pow_pos_nonneg; lia|apply Z.pow_le_mono_r; lia]. }
  assert (wrap64 (x + 2 ^ k - 1) = x + 2 ^ k - 1 - 2 ^ 64) as ->.
  { apply wrap64_unique; [unfold is_u64; lia|exists 1; lia]. }
  rewrite mask_down_pow2 by (done || unfold is_u64; lia).
  pose proof (Z.mod_pos_bound (x + 2 ^ k - 1 - 2 ^ 64) (2 ^ k) ltac:(lia)). lia.
Qed.

(** * Bytes *)

(** A byte is an integer in [0, 256); memory images are lists of bytes. *)
Abbreviation byte := Z (only parsing).
Definition is_byte (b : Z) : Prop := 0 <= b < 256.

(** Little-endian image of an integer of [n] bytes, as [memcpy] of an integer
    object writes it on the supported (little-endian) targets. *)
Fixpoint le_bytes (n : nat) (z : Z) : list byte :=
  match n with
  | O => []
  | S n' => z mod 256 :: le_bytes n' (z / 256)
  end.

Fixpoint le_val (bs : list byte) : Z :=
  match bs with
  | [] => 0
  | b :: bs' => b + 256 * le_val bs'
  end.

Lemma length_le_bytes n z : length (le_bytes n z) = n.
Proof. revert z. induction n; intros z; simpl; auto. Qed.

Lemma le_bytes_is_byte n z : Forall is_byte (le_bytes n z).
Proof.
  revert z. induction n; intros z; simpl; constructor; [|done].
  unfold is_byte. apply Z.mod_pos_bound. lia.
Qed.

Lemma le_val_bytes n z : le_val (le_bytes n z) = z mod 256 ^ Z.of_nat n.
Proof.
  revert z. induction n as [|n IH]; intros z; simpl le_bytes; simpl le_val.
  - by rewrite Z.mod_1_r.
  - rewrite IH, Nat2Z.inj_succ, Z.pow_succ_r by lia.
    rewrite Z.rem_mul_r by lia. lia.
Qed.

Lemma le_val_range bs :
  Forall is_byte bs -> 0 <= le_val bs < 256 ^ Z.of_nat (length bs).
Proof.
  induction 1 as [|b bs Hb _ IH]; simpl length; simpl le_val; [lia|].
  rewrite Nat2Z.inj_succ, Z.pow_succ_r by lia. unfold is_byte in Hb. lia.
Qed.

Lemma le_bytes_val bs :
  Forall is_byte bs -> le_bytes (length bs) (le_val bs) = bs.
Proof.
  induction 1 as [|b bs Hb _ IH]; simpl; [done|]. unfold is_byte in Hb.
  rewrite (Z.mul_comm 256), Z_mod_plus_full, Z.mod_small by lia.
  rewrite Z_div_plus_full, Z.div_small, Z.add_0_l by lia. by rewrite IH.
Qed.

Lemma le_val_bytes8 z : is_u64 z -> le_val (le_bytes 8 z) = z.
Proof. intros. rewrite le_val_bytes. by apply Z.mod_small. Qed.

Lemma le_val_bytes4 z : is_u32 z -> le_val (le_bytes 4 z) = z.
Proof. intros. rewrite le_val_bytes. by apply Z.mod_small. Qed.

Lemma sint32_le_bytes z : is_int z -> sint32 (le_val (le_bytes 4 z)) = z.
Proof.
  intros Hz. rewrite le_val_bytes. change (256 ^ Z.of_nat 4) with (2 ^ 32).
  change (z mod 2 ^ 32) with (wrap32 z). rewrite sint32_wrap32. by apply sint32_id.
Qed.

Lemma le_bytes_inj n a b :
  0 <= a < 256 ^ Z.of_nat n -> 0 <= b < 256 ^ Z.of_nat n ->
  le_bytes n a = le_bytes n b -> a = b.
Proof.
  intros Ha Hb Heq. rewrite <- (Z.mod_small a (256 ^ Z.of_nat n)) by done.
  rewrite <- (Z.mod_small b (256 ^ Z.of_nat n)) by done.
  by rewrite <- !le_val_bytes, Heq.
Qed.
#[export] Hint Resolve le_bytes_is_byte : lupine.
#[export] Hint Rewrite length_le_bytes : lupine.
#[global] Arguments le_bytes : simpl never.
