(* ===== verification/OrdMap.v ===== *)
(** [std::map] with 64-bit keys: a strictly sorted association list, with the
  iterator operations the sources use ([lower_bound], [upper_bound],
  [std::prev], [std::next]) as splits of that list, and the refinement of the
  whole interface to the extensional finite map [gmap Z V]. *)
From S2P Require Import Prelude.

Section OrdMap.
Context {V : Type}.
Implicit Types (l : list (Z * V)) (k : Z) (v : V).

(** Keys increase strictly from left to right. *)
Definition om_sorted (l : list (Z * V)) : Prop :=
  StronglySorted (fun a b => a.1 < b.1) l.

(** [lower_bound k]: the iterator is the point that separates the entries
    whose key is below [k] from the others. *)
Fixpoint om_lower_bound (k : Z) (l : list (Z * V)) : list (Z * V) * list (Z * V) :=
  match l with
  | [] => ([], [])
  | e :: l' =>
      if e.1 <? k then let '(a, b) := om_lower_bound k l' in (e :: a, b)
      else ([], l)
  end.

(** [upper_bound k]: the same with the entries at or below [k]. *)
Definition om_upper_bound (k : Z) (l : list (Z * V)) := om_lower_bound (k + 1) l.

Fixpoint om_find (k : Z) (l : list (Z * V)) : option V :=
  match l with
  | [] => None
  | e :: l' => if e.1 =? k then Some e.2 else om_find k l'
  end.

(** [map[k] = v] (insert or overwrite). *)
Definition om_set (k : Z) (v : V) (l : list (Z * V)) : list (Z * V) :=
  let '(a, b) := om_lower_bound k l in
  a ++ (k, v) :: (if (match b with e :: _ => e.1 =? k | [] => false end)
                  then tail b else b).

(** [emplace(k, v)]: an existing entry is left alone. *)
Definition om_emplace (k : Z) (v : V) (l : list (Z * V)) : list (Z * V) :=
  match om_find k l with Some _ => l | None => om_set k v l end.

Definition om_erase (k : Z) (l : list (Z * V)) : list (Z * V) :=
  List.filter (fun e => negb (e.1 =? k)) l.

(** The abstract value of the container. *)
Definition om_map (l : list (Z * V)) : gmap Z V := list_to_map l.

Lemma om_sorted_nil : om_sorted [].
Proof. constructor. Qed.

Lemma om_sorted_cons e l :
  om_sorted (e :: l) <-> om_sorted l /\ Forall (fun b => e.1 < b.1) l.
Proof.
  split.
  - intros H. by apply StronglySorted_inv in H.
  - intros [H1 H2]. by constructor.
Qed.

Lemma om_sorted_app l1 l2 :
  om_sorted (l1 ++ l2) <->
  om_sorted l1 /\ om_sorted l2 /\
  (forall a b, a ∈ l1 -> b ∈ l2 -> a.1 < b.1).
Proof.
  induction l1 as [|e l1 IH]; simpl.
  - split; [|tauto]. intros H. split; [constructor|]. split; [done|].
    intros a b Ha. by apply not_elem_of_nil in Ha.
  - rewrite !om_sorted_cons, IH, Forall_app, !Forall_forall. split.
    + intros [(Hs1&Hs2&H) [Ha Hb]]. split_and!; [done..|].
      intros a b [->|Hin]%elem_of_cons; auto.
    + intros [[Hs1 Ha] [Hs2 H]]. split_and!; [done..| |done|].
      * intros a b Hin. apply H. by right.
      * intros b Hin. apply H; [by left|done].
Qed.

Lemma om_lower_bound_split k l a b :
  om_lower_bound k l = (a, b) ->
  l = a ++ b /\ Forall (fun e => e.1 < k) a /\
  (match b with [] => True | e :: _ => k <= e.1 end).
Proof.
  revert a b. induction l as [|e l IH]; intros a b; simpl.
  - intros [= <- <-]. split_and!; [done|constructor|done].
  - case_if.
    + destruct (om_lower_bound k l) as [a' b'] eqn:Hlb. intros [= <- <-].
      destruct (IH _ _ eq_refl) as (->&?&?). split_and!; [done|by constructor|done].
    + intros [= <- <-]. split_and!; [done|constructor|done].
Qed.

Lemma om_lower_bound_spec k l a b :
  om_sorted l -> om_lower_bound k l = (a, b) ->
  l = a ++ b /\ Forall (fun e => e.1 < k) a /\ Forall (fun e => k <= e.1) b.
Proof.
  intros Hs Hlb. destruct (om_lower_bound_split _ _ _ _ Hlb) as (->&Ha&Hb).
  split_and!; [done..|]. apply om_sorted_app in Hs as (_&Hsb&_).
  destruct b as [|e b]; [constructor|].
  apply om_sorted_cons in Hsb as [_ Hb']. constructor; [done|].
  eapply Forall_impl; [done|]. simpl. intros; lia.
Qed.

(** The entry before [upper_bound x] is the last one at or below [x]. *)
Lemma om_before_upper x l b v :
  om_sorted l -> (b, v) ∈ l -> b <= x -> (forall e, e ∈ l -> e.1 <= x -> e.1 <= b) ->
  last (om_upper_bound x l).1 = Some (b, v).
Proof.
  intros Hs Hin Hb Hmax. unfold om_upper_bound.
  destruct (om_lower_bound (x + 1) l) as [a c] eqn:Hlb.
  destruct (om_lower_bound_spec _ _ _ _ Hs Hlb) as (->&Ha&Hc). simpl.
  apply elem_of_app in Hin as [Hin|Hin].
  2:{ rewrite Forall_forall in Hc. specialize (Hc _ Hin). simpl in Hc. lia. }
  apply om_sorted_app in Hs as (Hs&_&_).
  destruct a as [|e a' _] using rev_ind; [by apply elem_of_nil in Hin|].
  rewrite last_snoc. f_equal. apply om_sorted_app in Hs as (_&_&Hlt).
  apply elem_of_app in Hin as [Hin|Hin%list_elem_of_singleton]; [|done].
  specialize (Hlt (b, v) e Hin ltac:(left)). rewrite Forall_forall in Ha.
  assert (e ∈ a' ++ [e]) as He by (apply elem_of_app; right; left).
  specialize (Ha e He). specialize (Hmax e ltac:(apply elem_of_app; by left)). simpl in *. lia.
Qed.

Lemma om_before_in x l e :
  om_sorted l -> last (om_upper_bound x l).1 = Some e -> e ∈ l /\ e.1 <= x.
Proof.
  intros Hs He. unfold om_upper_bound in He.
  destruct (om_lower_bound (x + 1) l) as [a c] eqn:Hlb.
  destruct (om_lower_bound_spec _ _ _ _ Hs Hlb) as (->&Ha&_). simpl in He.
  apply last_Some in He as [a' ->]. assert (e ∈ a' ++ [e]) as He by (apply elem_of_app; right; left). rewrite Forall_forall in Ha. specialize (Ha _ He).
  split; [apply elem_of_app; by left|lia].
Qed.

Lemma om_find_app k l1 l2 :
  om_find k (l1 ++ l2) = match om_find k l1 with Some v => Some v | None => om_find k l2 end.
Proof. induction l1 as [|e l1 IH]; simpl; [done|]. by case_if. Qed.

Lemma om_find_None k l : (forall e, e ∈ l -> e.1 <> k) -> om_find k l = None.
Proof.
  induction l as [|e l IH]; simpl; [done|]. intros H. case_if.
  - exfalso. apply (H e); [by left|done].
  - apply IH. intros e' ?. apply H. by right.
Qed.

Lemma om_find_lookup k l : om_find k l = om_map l !! k.
Proof.
  unfold om_map. induction l as [|[k' v] l IH]; simpl; [by rewrite lookup_empty|].
  case_if; simpl in *; subst.
  - by rewrite lookup_insert_eq.
  - by rewrite lookup_insert_ne.
Qed.

Lemma om_find_elem k v l : om_sorted l -> om_find k l = Some v <-> (k, v) ∈ l.
Proof.
  induction l as [|e l IH]; simpl.
  - intros _. split; [done|]. intros H. by apply not_elem_of_nil in H.
  - rewrite om_sorted_cons. intros [Hs Hall]. rewrite elem_of_cons.
    rewrite Forall_forall in Hall. case_if.
    + split.
      * intros [= <-]. left. destruct e; simpl in *. by subst.
      * intros [<-|Hin]; [done|]. apply Hall in Hin. simpl in Hin. lia.
    + rewrite IH by done. split; [by right|]. intros [<-|?]; done.
Qed.

Lemma om_find_some k v l : om_find k l = Some v -> (k, v) ∈ l.
Proof.
  induction l as [|e l IH]; simpl; [done|]. case_if.
  - intros [= <-]. destruct e; simpl in *; subst. by left.
  - intros. right. auto.
Qed.

(** The three parts of a sorted map around a key. *)
Lemma om_split_at k l :
  om_sorted l ->
  exists a b, l = a ++ (match om_find k l with Some v => [(k, v)] | None => [] end) ++ b /\
    om_lower_bound k l = (a, (match om_find k l with Some v => [(k, v)] | None => [] end) ++ b) /\
    Forall (fun e => e.1 < k) a /\ Forall (fun e => k < e.1) b.
Proof.
  intros Hs. destruct (om_lower_bound k l) as [a c] eqn:Hlb.
  destruct (om_lower_bound_spec _ _ _ _ Hs Hlb) as (->&Ha&Hc).
  assert (om_find k a = None) as Hfa.
  { apply om_find_None. intros e He. rewrite Forall_forall in Ha. specialize (Ha _ He). lia. }
  rewrite om_find_app, Hfa. apply om_sorted_app in Hs as (_&Hsc&_).
  destruct c as [|e c]; simpl.
  - exists a, []. by split_and!.
  - apply om_sorted_cons in Hsc as [_ Hc']. apply Forall_cons in Hc as [He Hc].
    case_if.
    + destruct e as [k' v]; simpl in *; subst. exists a, c. by split_and!.
    + rewrite (om_find_None k c).
      { exists a, (e :: c). split_and!; [done..|]. constructor; [lia|].
        forall_lia Hc'. }
      intros e' He'. rewrite Forall_forall in Hc'. specialize (Hc' _ He'). simpl in *. lia.
Qed.

Lemma om_erase_app k l1 l2 : om_erase k (l1 ++ l2) = om_erase k l1 ++ om_erase k l2.
Proof. apply List.filter_app. Qed.

Lemma om_erase_id k l : (forall e, e ∈ l -> e.1 <> k) -> om_erase k l = l.
Proof.
  induction l as [|e l IH]; simpl; [done|]. intros H. case_if.
  - f_equal. apply IH. intros e' ?. apply H. by right.
  - exfalso. apply (H e); [by left|done].
Qed.

Lemma om_erase_Forall (P : Z * V -> Prop) k l : Forall P l -> Forall P (om_erase k l).
Proof.
  rewrite !Forall_forall. intros HP x Hx. apply HP. unfold om_erase in Hx.
  apply list_elem_of_In in Hx. apply List.filter_In in Hx as [Hx _].
  by apply list_elem_of_In.
Qed.

(** Every mutation of the container is a local change between the entries
    below the key and the entries above it. *)
Lemma om_update_split k l :
  om_sorted l ->
  exists a b,
    l = a ++ (match om_find k l with Some v => [(k, v)] | None => [] end) ++ b /\
    om_lower_bound k l =
      (a, (match om_find k l with Some v => [(k, v)] | None => [] end) ++ b) /\
    (forall v, om_set k v l = a ++ (k, v) :: b) /\
    om_erase k l = a ++ b /\
    Forall (fun e => e.1 < k) a /\ Forall (fun e => k < e.1) b.
Proof.
  intros Hs. destruct (om_split_at k l Hs) as (a&b&Hl&Hlb&Ha&Hb).
  exists a, b. split_and!; [done|done| | |done|done].
  - intros v. unfold om_set. rewrite Hlb. f_equal. f_equal.
    destruct (om_find k l); simpl; [by rewrite Z.eqb_refl|].
    destruct b as [|e b]; [done|]. apply Forall_cons in Hb as [He _].
    by rewrite (proj2 (Z.eqb_neq _ _)) by lia.
  - rewrite Hl at 1. rewrite !om_erase_app.
    rewrite !(om_erase_id _ a), !(om_erase_id _ b).
    + destruct (om_find k l); simpl; [by rewrite Z.eqb_refl|done].
    + intros e He. rewrite Forall_forall in Hb. specialize (Hb _ He). lia.
    + intros e He. rewrite Forall_forall in Ha. specialize (Ha _ He). lia.
Qed.

Lemma om_sorted_mid k v a b :
  Forall (fun e => e.1 < k) a -> Forall (fun e => k < e.1) b ->
  om_sorted (a ++ b) -> om_sorted (a ++ (k, v) :: b).
Proof.
  rewrite !Forall_forall. intros Ha Hb (Hsa&Hsb&Hab)%om_sorted_app.
  apply om_sorted_app. split_and!; [done| |].
  - apply om_sorted_cons. split; [done|]. by apply Forall_forall.
  - intros x y Hx [->|Hy]%elem_of_cons; simpl; auto.
Qed.

Lemma om_sorted_erase k l : om_sorted l -> om_sorted (om_erase k l).
Proof.
  intros Hs. destruct (om_update_split k l Hs) as (a&b&Hl&_&_&->&_&_).
  rewrite Hl in Hs. apply om_sorted_app in Hs as (Hsa&Hsb&Hab).
  apply om_sorted_app in Hsb as (_&Hsb&_). apply om_sorted_app. split_and!; [done..|].
  intros x y Hx Hy. apply Hab; [done|]. apply elem_of_app. by right.
Qed.

Lemma om_sorted_set k v l : om_sorted l -> om_sorted (om_set k v l).
Proof.
  intros Hs. pose proof (om_sorted_erase k l Hs) as Hse.
  destruct (om_update_split k l Hs) as (a&b&_&_&->&He&Ha&Hb). rewrite He in Hse.
  by apply om_sorted_mid.
Qed.

Lemma om_sorted_emplace k v l : om_sorted l -> om_sorted (om_emplace k v l).
Proof. unfold om_emplace. intros. case_match; [done|]. by apply om_sorted_set. Qed.

Lemma om_find_set k v l k' :
  om_sorted l -> om_find k' (om_set k v l) = if k =? k' then Some v else om_find k' l.
Proof.
  intros Hs. destruct (om_update_split k l Hs) as (a&b&Hl&_&->&_&Ha&Hb).
  rewrite om_find_app. simpl. case_if.
  - subst. rewrite om_find_None; [done|]. intros e He.
    rewrite Forall_forall in Ha. specialize (Ha _ He). lia.
  - rewrite Hl at 1. rewrite !om_find_app.
    destruct (om_find k l); simpl; [|done].
    by rewrite (proj2 (Z.eqb_neq _ _)).
Qed.

Lemma om_find_erase k l k' :
  om_sorted l -> om_find k' (om_erase k l) = if k =? k' then None else om_find k' l.
Proof.
  intros Hs. destruct (om_update_split k l Hs) as (a&b&Hl&_&_&->&Ha&Hb). case_if.
  - subst. apply om_find_None. intros e [He|He]%elem_of_app.
    + rewrite Forall_forall in Ha. specialize (Ha _ He). lia.
    + rewrite Forall_forall in Hb. specialize (Hb _ He). lia.
  - rewrite Hl at 1. rewrite !om_find_app.
    destruct (om_find k l); simpl; [|done].
    by rewrite (proj2 (Z.eqb_neq _ _)).
Qed.

Lemma om_set_Forall (P : Z * V -> Prop) k v l :
  om_sorted l -> Forall P l -> P (k, v) -> Forall P (om_set k v l).
Proof.
  intros Hs HP Hkv. pose proof (om_erase_Forall P k l HP) as He.
  destruct (om_update_split k l Hs) as (a&b&_&_&->&He'&_&_). rewrite He' in He.
  apply Forall_app in He as [? ?]. apply Forall_app. split; [done|]. by constructor.
Qed.

(** Refinement to the extensional map. *)
Lemma om_map_set k v l : om_sorted l -> om_map (om_set k v l) = <[k := v]> (om_map l).
Proof.
  intros Hs. apply map_eq. intros i. rewrite <- om_find_lookup, om_find_set by done.
  rewrite lookup_insert. case_if; case_decide; [done..|]. by rewrite om_find_lookup.
Qed.

Lemma om_map_erase k l : om_sorted l -> om_map (om_erase k l) = delete k (om_map l).
Proof.
  intros Hs. apply map_eq. intros i. rewrite <- om_find_lookup, om_find_erase by done.
  rewrite lookup_delete. case_if; case_decide; [done..|]. by rewrite om_find_lookup.
Qed.

(** Sortedness is a matter of the keys alone. *)
Lemma om_sorted_keys l1 l2 : l1.*1 = l2.*1 -> om_sorted l1 -> om_sorted l2.
Proof.
  revert l2. induction l1 as [|e l1 IH]; intros [|e' l2]; simpl; try done.
  intros [= He Hl]. rewrite !om_sorted_cons. intros [Hs Hall]. split; [by apply IH|].
  clear -He Hl Hall. revert l2 Hl. induction Hall as [|x l1 Hx _ IH]; intros [|y l2]; simpl;
    try done. intros [= Hy Hl]. constructor; [lia|by apply IH].
Qed.

(** The number of entries is bounded by the width of the key range. *)
Lemma om_length_bound l lo hi :
  om_sorted l -> Forall (fun e => lo <= e.1 < hi) l -> lo <= hi ->
  Z.of_nat (length l) <= hi - lo.
Proof.
  revert lo. induction l as [|e l IH]; intros lo Hs Hall Hlh; simpl length; [lia|].
  apply om_sorted_cons in Hs as [Hs He]. apply Forall_cons in Hall as [Hel Hall].
  enough (Z.of_nat (length l) <= hi - (e.1 + 1)) by lia.
  apply IH; [done| |lia]. rewrite Forall_forall in *. intros x Hx.
  specialize (He _ Hx). specialize (Hall _ Hx). lia.
Qed.
End OrdMap.

#[export] Hint Resolve om_sorted_nil om_sorted_set om_sorted_erase
  om_sorted_emplace : lupine.
