(* ===== verification/AllocCache.v ===== *)
(** The client's index of device allocations ([cache.cpp], first half): a
    [std::map] from base address to record, plus a counter of adjacent
    overlapping records that lets the lookup stop at the predecessor when no
    records overlap.  The optimised lookup is proved equal to a linear scan of
    every record, and the counter is proved exact under every mutation. *)
From S2P Require Import Prelude OrdMap.

Record lupine_deviceptr_allocation_record := AllocRecord {
  alloc_size : Z;
  alloc_route_id : Z;
  alloc_context : Z;
}.
#[export] Instance lupine_deviceptr_allocation_record_eq_dec :
  EqDecision lupine_deviceptr_allocation_record.
Proof. solve_decision. Defined.

Abbreviation alloc_entry := (Z * lupine_deviceptr_allocation_record)%type.
Abbreviation deviceptr_allocations := (list (Z * lupine_deviceptr_allocation_record)).

Record deviceptr_allocation_cache := AllocCache {
  allocations : deviceptr_allocations;
  overlapping_neighbors : Z;
}.

Definition empty_allocation_cache : deviceptr_allocation_cache := AllocCache [] 0.

(** * Operations *)

(** An iterator is the split of the map at its position; the element before it
    is [predecessor], [end()] is [None]. *)
Definition predecessor (before : deviceptr_allocations) : option alloc_entry :=
  last before.

Definition overlaps (first second : option alloc_entry) : bool :=
  match first, second with
  | Some a, Some b => wrap64 (b.1 - a.1) <? alloc_size a.2
  | _, _ => false
  end.

#[global] Arguments overlaps : simpl never.

(** [size_t += bool] and [size_t -= bool]. *)
Definition count_add (n : Z) (b : bool) : Z := wrap64 (n + Z.b2z b).
Definition count_sub (n : Z) (b : bool) : Z := wrap64 (n - Z.b2z b).

Definition lupine_deviceptr_allocation_cache_erase
    (base : Z) (cache : deviceptr_allocation_cache) : deviceptr_allocation_cache :=
  let '(before, found) := om_lower_bound base (allocations cache) in
  match found with
  | entry :: after =>
      if entry.1 =? base then
        let previous := predecessor before in
        let next := head after in
        let n := overlapping_neighbors cache in
        let n := count_sub n (overlaps previous (Some entry)) in
        let n := count_sub n (overlaps (Some entry) next) in
        let n := count_add n (overlaps previous next) in
        AllocCache (before ++ after) n
      else cache
  | [] => cache
  end.

Definition lupine_deviceptr_allocation_cache_insert
    (base size route_id context : Z) (cache : deviceptr_allocation_cache)
    : deviceptr_allocation_cache :=
  if (base =? 0) || (size =? 0)
  then lupine_deviceptr_allocation_cache_erase base cache
  else
    let '(before, next) := om_lower_bound base (allocations cache) in
    let '(next, n) :=
      match next with
      | entry :: after =>
          if entry.1 =? base then
            let previous := predecessor before in
            let n := overlapping_neighbors cache in
            let n := count_sub n (overlaps previous (Some entry)) in
            let n := count_sub n (overlaps (Some entry) (head after)) in
            let n := count_add n (overlaps previous (head after)) in
            (after, n)
          else (next, overlapping_neighbors cache)
      | [] => (next, overlapping_neighbors cache)
      end in
    let previous := predecessor before in
    let inserted := (base, AllocRecord size route_id context) in
    let n := count_sub n (overlaps previous (head next)) in
    let n := count_add n (overlaps previous (Some inserted)) in
    let n := count_add n (overlaps (Some inserted) (head next)) in
    AllocCache (before ++ inserted :: next) n.

(** The backward walk of the lookup, over the entries before the iterator in
    reverse order.  The result keeps the key: it identifies the record whose
    address the code returns. *)
Fixpoint lookup_scan (ptr neighbors : Z) (rbefore : deviceptr_allocations)
    : option alloc_entry :=
  match rbefore with
  | [] => None
  | entry :: rest =>
      if wrap64 (ptr - entry.1) <? alloc_size entry.2 then Some entry
      else if neighbors =? 0 then None
      else lookup_scan ptr neighbors rest
  end.

Definition lupine_deviceptr_allocation_cache_lookup
    (ptr : Z) (cache : deviceptr_allocation_cache) : option alloc_entry :=
  lookup_scan ptr (overlapping_neighbors cache)
    (rev (om_upper_bound ptr (allocations cache)).1).

Fixpoint overlap_scan (base route_id neighbors : Z) (rbefore : deviceptr_allocations)
    : bool :=
  match rbefore with
  | [] => false
  | entry :: rest =>
      let overlap :=
        (base <=? entry.1) || (wrap64 (base - entry.1) <? alloc_size entry.2) in
      if overlap && negb (alloc_route_id entry.2 =? route_id) then true
      else if (entry.1 <? base) && (neighbors =? 0) then false
      else overlap_scan base route_id neighbors rest
  end.

Definition lupine_deviceptr_allocation_cache_overlaps_other_route
    (base size route_id : Z) (cache : deviceptr_allocation_cache) : bool :=
  overlap_scan base route_id (overlapping_neighbors cache)
    (rev (om_lower_bound (wrap64 (base + size)) (allocations cache)).1).

(** * Specification *)

(** The reference the lookup is meant to agree with: among all records that
    contain the address, the one with the greatest base. *)
Definition contains (ptr : Z) (entry : alloc_entry) : bool :=
  (entry.1 <=? ptr) && (ptr - entry.1 <? alloc_size entry.2).

Definition reference_lookup (ptr : Z) (l : deviceptr_allocations) : option alloc_entry :=
  last (List.filter (contains ptr) l).

(** The half-open byte range of a record meets [[base, base + size)]. *)
Definition meets (base size : Z) (entry : alloc_entry) : bool :=
  (entry.1 <? base + size) && (base <? entry.1 + alloc_size entry.2).

Fixpoint adjacent_overlaps (l : deviceptr_allocations) : Z :=
  match l with
  | a :: l' => Z.b2z (overlaps (Some a) (head l')) + adjacent_overlaps l'
  | [] => 0
  end.

Definition entry_ok (e : alloc_entry) : Prop :=
  0 < e.1 < 2 ^ 64 /\ 0 < alloc_size e.2 < 2 ^ 64.

Record alloc_inv (c : deviceptr_allocation_cache) : Prop := {
  inv_sorted : om_sorted (allocations c);
  inv_entries : Forall entry_ok (allocations c);
  inv_count : overlapping_neighbors c = adjacent_overlaps (allocations c);
}.

(** * The counter *)

Lemma overlaps_None_l e : overlaps None e = false.
Proof. done. Qed.

Lemma overlaps_None_r e : overlaps e None = false.
Proof. by destruct e. Qed.

Lemma adjacent_overlaps_app l1 l2 :
  adjacent_overlaps (l1 ++ l2) =
  adjacent_overlaps l1 + Z.b2z (overlaps (last l1) (head l2)) + adjacent_overlaps l2.
Proof.
  induction l1 as [|a l1 IH].
  { simpl. rewrite overlaps_None_l. unfold Z.b2z. lia. }
  destruct l1 as [|b l1].
  { simpl. rewrite overlaps_None_r. unfold Z.b2z at 2. lia. }
  change (last (a :: b :: l1)) with (last (b :: l1)). simpl in *. lia.
Qed.

Lemma adjacent_overlaps_range l :
  0 <= adjacent_overlaps l <= Z.of_nat (length l).
Proof.
  induction l as [|a l IH]; simpl length; simpl adjacent_overlaps; [lia|].
  destruct (overlaps (Some a) (head l)); unfold Z.b2z; lia.
Qed.

Lemma adjacent_overlaps_u64 l :
  om_sorted l -> Forall entry_ok l -> is_u64 (adjacent_overlaps l).
Proof.
  intros Hs Hall. pose proof (adjacent_overlaps_range l).
  pose proof (om_length_bound l 1 (2 ^ 64) Hs) as Hlen.
  unfold is_u64. enough (Z.of_nat (length l) <= 2 ^ 64 - 1) by lia. apply Hlen; [|lia].
  eapply Forall_impl; [exact Hall|]. unfold entry_ok. intros; lia.
Qed.

(** A chain of [size_t] increments and decrements computes the exact value
    whenever that value is representable. *)
Lemma count_chain3 n b1 b2 b3 :
  count_add (count_sub (count_sub n b1) b2) b3 =
  wrap64 (n - Z.b2z b1 - Z.b2z b2 + Z.b2z b3).
Proof.
  unfold count_add, count_sub. by rewrite wrap64_wrap64_sub, wrap64_wrap64_add.
Qed.

Lemma count_chain3' n b1 b2 b3 :
  count_add (count_add (count_sub n b1) b2) b3 =
  wrap64 (n - Z.b2z b1 + Z.b2z b2 + Z.b2z b3).
Proof.
  unfold count_add, count_sub.
  rewrite wrap64_wrap64_add. by rewrite <- Z.add_assoc, wrap64_wrap64_add, Z.add_assoc.
Qed.

(** * Functional correctness of the mutations *)

(** The counter of a map with an entry in the middle, against the two maps
    around it. *)
Lemma adjacent_overlaps_mid before e after :
  adjacent_overlaps (before ++ e :: after) =
  adjacent_overlaps (before ++ after)
  - Z.b2z (overlaps (last before) (head after))
  + Z.b2z (overlaps (last before) (Some e)) + Z.b2z (overlaps (Some e) (head after)).
Proof. rewrite !adjacent_overlaps_app. simpl. lia. Qed.

(** What [erase] does to the state, in closed form. *)
Lemma cache_erase_spec base c :
  alloc_inv c ->
  lupine_deviceptr_allocation_cache_erase base c =
  AllocCache (om_erase base (allocations c))
    (adjacent_overlaps (om_erase base (allocations c))).
Proof.
  intros [Hs Hok Hn]. unfold lupine_deviceptr_allocation_cache_erase.
  pose proof (adjacent_overlaps_u64 _ (om_sorted_erase base _ Hs)) as Hu.
  destruct (om_update_split base (allocations c) Hs)
    as (before&after&Hl&->&_&He&_&Hafter).
  rewrite He in *. destruct c as [l n]; simpl in *. subst n.
  destruct (om_find base l) as [r|]; simpl in Hl; simpl.
  - rewrite Z.eqb_refl, count_chain3. f_equal. rewrite Hl, adjacent_overlaps_mid. simpl.
    unfold predecessor. rewrite <- (wrap64_id (adjacent_overlaps (before ++ after))) at 2.
    + f_equal. lia.
    + apply Hu. rewrite <- He. by apply om_erase_Forall.
  - rewrite <- Hl. destruct after as [|e after]; [done|].
    apply Forall_cons in Hafter as [Hlt _]. by rewrite (proj2 (Z.eqb_neq _ _)) by lia.
Qed.

Lemma cache_insert_spec base size route_id context c :
  alloc_inv c -> 0 < base < 2 ^ 64 -> 0 < size < 2 ^ 64 ->
  let l' := om_set base (AllocRecord size route_id context) (allocations c) in
  lupine_deviceptr_allocation_cache_insert base size route_id context c =
  AllocCache l' (adjacent_overlaps l').
Proof.
  intros [Hs Hok Hn] Hbase Hsize l'.
  unfold lupine_deviceptr_allocation_cache_insert.
  rewrite !(proj2 (Z.eqb_neq _ 0)) by lia. simpl.
  pose proof (om_sorted_set base (AllocRecord size route_id context) _ Hs) as Hs'.
  pose proof (om_erase_Forall _ base _ Hok) as Hok'.
  destruct (om_update_split base (allocations c) Hs)
    as (before&after&Hl&->&Hset&He&_&Hafter).
  subst l'. rewrite Hset, He in *. destruct c as [l n]; simpl in *. subst n.
  set (ins := (base, AllocRecord size route_id context)) in *.
  assert (is_u64 (adjacent_overlaps (before ++ ins :: after))) as Hu.
  { apply adjacent_overlaps_u64; [done|]. apply Forall_app in Hok' as [? ?].
    apply Forall_app. split; [done|]. constructor; [|done]. unfold entry_ok. simpl. lia. }
  assert (forall n, n = adjacent_overlaps (before ++ after) \/
      n = wrap64 (adjacent_overlaps (before ++ after)) ->
    AllocCache (before ++ ins :: after)
      (count_add (count_add (count_sub n (overlaps (predecessor before) (head after)))
         (overlaps (predecessor before) (Some ins))) (overlaps (Some ins) (head after))) =
    AllocCache (before ++ ins :: after) (adjacent_overlaps (before ++ ins :: after))) as Hgo.
  { intros n Hn. f_equal. rewrite count_chain3'.
    rewrite <- (wrap64_id _ Hu), adjacent_overlaps_mid. unfold predecessor.
    destruct Hn as [->| ->]; [done|].
    rewrite <- !Z.add_opp_r, <- !Z.add_assoc. apply wrap64_wrap64_add. }
  destruct (om_find base l) as [r|]; simpl in Hl; simpl.
  - rewrite Z.eqb_refl. apply Hgo. right. rewrite count_chain3. f_equal.
    rewrite Hl, adjacent_overlaps_mid. unfold predecessor. lia.
  - rewrite Hl. destruct after as [|e after]; [apply Hgo; by left|].
    apply Forall_cons in Hafter as [Hlt _].
    rewrite (proj2 (Z.eqb_neq _ _)) by lia. apply Hgo. by left.
Qed.

(** * Lookup against the reference *)

Lemma overlaps_sub a b :
  entry_ok a -> entry_ok b -> a.1 < b.1 ->
  overlaps (Some a) (Some b) = (b.1 - a.1 <? alloc_size a.2).
Proof.
  intros [??] [??] ?. unfold overlaps. rewrite wrap64_id; [done|]. unfold is_u64. lia.
Qed.

(** With the counter at zero no record reaches any later one. *)
Lemma no_neighbors_disjoint e l :
  om_sorted (e :: l) -> Forall entry_ok (e :: l) -> adjacent_overlaps (e :: l) = 0 ->
  Forall (fun x => e.1 + alloc_size e.2 <= x.1) l.
Proof.
  revert e. induction l as [|x l IH]; intros e Hs Hok H0; [constructor|].
  apply om_sorted_cons in Hs as [Hs Hlt]. apply Forall_cons in Hlt as [Hx Hlt].
  apply Forall_cons in Hok as [He Hok]. pose proof Hok as [Hx' _]%Forall_cons.
  pose proof (adjacent_overlaps_range (x :: l)). simpl in H0.
  rewrite overlaps_sub in H0 by done. simpl in H.
  destruct (x.1 - e.1 <? alloc_size e.2) eqn:E; unfold Z.b2z in H0 at 1; breflect;
    [exfalso; lia|].
  constructor; [lia|]. eapply Forall_impl; [apply (IH x); [done..|simpl; lia]|].
  simpl. intros y Hy. destruct Hx' as [_ ?]. lia.
Qed.

Lemma adjacent_overlaps_suffix l1 l2 :
  adjacent_overlaps (l1 ++ l2) = 0 -> adjacent_overlaps l2 = 0.
Proof.
  rewrite adjacent_overlaps_app. pose proof (adjacent_overlaps_range l1).
  pose proof (adjacent_overlaps_range l2).
  destruct (overlaps (last l1) (head l2)); unfold Z.b2z; lia.
Qed.

Lemma no_neighbors_before before e :
  om_sorted (before ++ [e]) -> Forall entry_ok (before ++ [e]) ->
  adjacent_overlaps (before ++ [e]) = 0 ->
  Forall (fun x => x.1 + alloc_size x.2 <= e.1) before.
Proof.
  induction before as [|x before IH]; intros Hs Hok Hn; [constructor|]. simpl in *.
  pose proof (no_neighbors_disjoint x _ Hs Hok Hn) as Hd.
  apply Forall_app in Hd as [_ Hd]. rewrite Forall_singleton in Hd.
  apply om_sorted_cons in Hs as [Hs _]. apply Forall_cons in Hok as [_ Hok].
  constructor; [done|]. apply IH; [done..|].
  by apply (adjacent_overlaps_suffix [x]).
Qed.

Lemma last_filter_rev {A} (P : A -> bool) l :
  last (List.filter P l) = List.find P (rev l).
Proof.
  induction l as [|x l IH] using rev_ind; [done|].
  rewrite List.filter_app, rev_app_distr. simpl. destruct (P x).
  - by rewrite last_snoc.
  - by rewrite app_nil_r.
Qed.

Lemma filter_none {A} (P : A -> bool) l :
  Forall (fun x => P x = false) l -> List.filter P l = [].
Proof. induction 1 as [|x l Hx _ IH]; simpl; [done|]. by rewrite Hx. Qed.

Lemma contains_sub ptr e :
  entry_ok e -> is_u64 ptr -> e.1 <= ptr ->
  (wrap64 (ptr - e.1) <? alloc_size e.2) = contains ptr e.
Proof.
  intros [??] ??. unfold contains. rewrite wrap64_id by (unfold is_u64 in *; lia).
  by rewrite (proj2 (Z.leb_le _ _)).
Qed.

(** The walk over entries at or below the address. *)
Lemma lookup_scan_spec ptr n before :
  is_u64 ptr -> om_sorted before -> Forall entry_ok before ->
  Forall (fun e => e.1 <= ptr) before ->
  (n = 0 -> adjacent_overlaps before = 0) ->
  lookup_scan ptr n (rev before) = reference_lookup ptr before.
Proof.
  intros Hptr. unfold reference_lookup.
  induction before as [|e before IH] using rev_ind; intros Hs Hok Hle Hn; [done|].
  rewrite rev_app_distr, List.filter_app. simpl. pose proof Hs as Hse. pose proof Hok as Hoke.
  apply Forall_app in Hok as [Hok He]. apply Forall_app in Hle as [Hle Hel].
  rewrite Forall_singleton in He, Hel. rewrite (contains_sub ptr e He Hptr Hel).
  apply om_sorted_app in Hs as (Hs&_&_).
  destruct (contains ptr e) eqn:E; [by rewrite last_snoc|].
  rewrite app_nil_r. destruct (n =? 0) eqn:En; breflect.
  - rewrite filter_none; [done|].
    pose proof (no_neighbors_before before e Hse Hoke (Hn En)) as Hd.
    eapply Forall_impl; [exact Hd|]. simpl. intros x Hx.
    unfold contains. apply andb_false_iff. right. apply Z.ltb_ge. lia.
  - apply IH; [done..|]. intros ->. done.
Qed.

Lemma reference_lookup_app ptr l1 l2 :
  Forall (fun e => ptr < e.1) l2 -> reference_lookup ptr (l1 ++ l2) = reference_lookup ptr l1.
Proof.
  intros H. unfold reference_lookup. rewrite List.filter_app.
  rewrite (filter_none _ l2), app_nil_r; [done|].
  eapply Forall_impl; [exact H|]. intros e He. simpl in He. unfold contains.
  by rewrite (proj2 (Z.leb_gt _ _)).
Qed.

Lemma no_neighbors_prefix n before rest :
  n = adjacent_overlaps (before ++ rest) -> n = 0 -> adjacent_overlaps before = 0.
Proof.
  intros -> Hn. rewrite adjacent_overlaps_app in Hn.
  pose proof (adjacent_overlaps_range before). pose proof (adjacent_overlaps_range rest).
  destruct (overlaps (last before) (head rest)); unfold Z.b2z in Hn; lia.
Qed.

Lemma cache_lookup_spec ptr c :
  alloc_inv c -> is_u64 ptr ->
  lupine_deviceptr_allocation_cache_lookup ptr c = reference_lookup ptr (allocations c).
Proof.
  intros [Hs Hok Hn] Hptr. unfold lupine_deviceptr_allocation_cache_lookup, om_upper_bound.
  destruct (om_lower_bound (ptr + 1) (allocations c)) as [before rest] eqn:Hlb.
  destruct (om_lower_bound_spec _ _ _ _ Hs Hlb) as (Hl&Hb&Hr). rewrite Hl. simpl.
  rewrite reference_lookup_app
    by (forall_lia Hr).
  rewrite Hl in Hs, Hok, Hn. apply om_sorted_app in Hs as (?&_&_).
  apply Forall_app in Hok as [? _]. apply lookup_scan_spec; [done..| |].
  - forall_lia Hb.
  - by eapply no_neighbors_prefix.
Qed.

(** * Overlap with another route's allocations *)

Lemma overlap_scan_spec base size route_id n before :
  is_u64 base -> om_sorted before -> Forall entry_ok before ->
  Forall (fun e => e.1 < base + size) before ->
  (n = 0 -> adjacent_overlaps before = 0) ->
  overlap_scan base route_id n (rev before) =
  existsb (fun e => meets base size e && negb (alloc_route_id e.2 =? route_id)) before.
Proof.
  intros Hb. induction before as [|e before IH] using rev_ind; intros Hs Hok Hlt Hn; [done|].
  rewrite rev_app_distr, existsb_app. simpl. pose proof Hs as Hse. pose proof Hok as Hoke.
  apply Forall_app in Hok as [Hok He]. apply Forall_app in Hlt as [Hlt Hel].
  rewrite Forall_singleton in He, Hel. apply om_sorted_app in Hs as (Hs&_&_).
  assert ((base <=? e.1) || (wrap64 (base - e.1) <? alloc_size e.2) = meets base size e) as ->.
  { destruct He as [??]. unfold is_u64 in Hb. unfold meets.
    rewrite (proj2 (Z.ltb_lt e.1 (base + size))) by done. simpl.
    destruct (Z.leb_spec base e.1); simpl.
    - symmetry. apply Z.ltb_lt. lia.
    - rewrite wrap64_id by (unfold is_u64; lia). apply eq_bool_prop_intro.
      rewrite !Is_true_true, !Z.ltb_lt. lia. }
  destruct (meets base size e && negb (alloc_route_id e.2 =? route_id)); simpl;
    [by rewrite orb_true_r|].
  rewrite orb_false_r. destruct ((e.1 <? base) && (n =? 0)) eqn:Eb; breflect.
  - symmetry. apply not_true_is_false. intros (x&Hx&Hm)%existsb_exists.
    pose proof (no_neighbors_before before e Hse Hoke (Hn ltac:(done))) as Hd.
    rewrite Forall_forall in Hd. apply list_elem_of_In in Hx. specialize (Hd _ Hx).
    unfold meets in Hm. breflect. lia.
  - apply IH; [done..|]. intros Hz. by apply (no_neighbors_prefix n _ [e]); [rewrite Hn|].
Qed.

Lemma cache_overlaps_spec base size route_id c :
  alloc_inv c -> is_u64 base -> is_u64 size -> base + size < 2 ^ 64 ->
  lupine_deviceptr_allocation_cache_overlaps_other_route base size route_id c =
  existsb (fun e => meets base size e && negb (alloc_route_id e.2 =? route_id))
    (allocations c).
Proof.
  intros [Hs Hok Hn] Hb Hsz Hsum.
  unfold lupine_deviceptr_allocation_cache_overlaps_other_route.
  rewrite wrap64_id by (unfold is_u64 in *; lia).
  destruct (om_lower_bound (base + size) (allocations c)) as [before rest] eqn:Hlb.
  destruct (om_lower_bound_spec _ _ _ _ Hs Hlb) as (Hl&Hbe&Hr). rewrite Hl. simpl.
  rewrite Hl in Hs, Hok, Hn. apply om_sorted_app in Hs as (?&_&_).
  apply Forall_app in Hok as [? _].
  rewrite (overlap_scan_spec _ size); [|done..|by eapply no_neighbors_prefix].
  rewrite existsb_app. enough (existsb (fun e => meets base size e &&
    negb (alloc_route_id e.2 =? route_id)) rest = false) as -> by (by rewrite orb_false_r).
  apply not_true_is_false. intros (x&Hx&Hm)%existsb_exists.
  apply list_elem_of_In in Hx. rewrite Forall_forall in Hr. specialize (Hr _ Hx).
  unfold meets in Hm. breflect. lia.
Qed.

(** * Sequences of mutations *)

Inductive alloc_op :=
  | OpInsert (base size route_id context : Z)
  | OpErase (base : Z).

(** Arguments are 64-bit values, as the C++ types make them. *)
Definition alloc_op_ok (op : alloc_op) : Prop :=
  match op with
  | OpInsert base size _ _ => is_u64 base /\ is_u64 size
  | OpErase base => is_u64 base
  end.

Definition alloc_step (op : alloc_op) (c : deviceptr_allocation_cache) :=
  match op with
  | OpInsert base size route_id context =>
      lupine_deviceptr_allocation_cache_insert base size route_id context c
  | OpErase base => lupine_deviceptr_allocation_cache_erase base c
  end.

Definition alloc_run (ops : list alloc_op) : deviceptr_allocation_cache :=
  foldl (fun c op => alloc_step op c) empty_allocation_cache ops.

(** The abstract contract: a finite map from base to record. *)
Definition alloc_spec_step (op : alloc_op)
    (m : gmap Z lupine_deviceptr_allocation_record) :=
  match op with
  | OpInsert base size route_id context =>
      if (base =? 0) || (size =? 0) then delete base m
      else <[base := AllocRecord size route_id context]> m
  | OpErase base => delete base m
  end.

Definition alloc_spec_run (ops : list alloc_op) :=
  foldl (fun m op => alloc_spec_step op m) ∅ ops.

Lemma cache_erase_inv base c : alloc_inv c ->
  alloc_inv (lupine_deviceptr_allocation_cache_erase base c).
Proof.
  intros Hc. rewrite cache_erase_spec by done. destruct Hc as [Hs Hok _].
  split; simpl; [by apply om_sorted_erase|by apply om_erase_Forall|done].
Qed.

Lemma cache_insert_inv base size route_id context c :
  alloc_inv c -> is_u64 base -> is_u64 size ->
  alloc_inv (lupine_deviceptr_allocation_cache_insert base size route_id context c).
Proof.
  intros Hc Hb Hsz. unfold is_u64 in *.
  destruct (decide (base = 0 \/ size = 0)) as [Hz|Hz].
  - unfold lupine_deviceptr_allocation_cache_insert.
    rewrite (proj2 (orb_true_iff _ _)) by (rewrite !Z.eqb_eq; done).
    by apply cache_erase_inv.
  - rewrite cache_insert_spec by (done || lia). destruct Hc as [Hs Hok _].
    split; simpl; [by apply om_sorted_set| |done].
    apply om_set_Forall; [done..|]. unfold entry_ok. simpl. lia.
Qed.

Lemma empty_allocation_cache_inv : alloc_inv empty_allocation_cache.
Proof. split; [constructor..|done]. Qed.

Lemma alloc_step_refines op c :
  alloc_op_ok op -> alloc_inv c ->
  alloc_inv (alloc_step op c) /\
  om_map (allocations (alloc_step op c)) = alloc_spec_step op (om_map (allocations c)).
Proof.
  intros Hop Hc. destruct op as [base size route_id context|base]; simpl in *.
  - destruct Hop as [Hb Hsz]. split; [by apply cache_insert_inv|].
    case_if.
    + unfold lupine_deviceptr_allocation_cache_insert.
      rewrite (proj2 (orb_true_iff _ _)) by done.
      rewrite cache_erase_spec by done. simpl. apply om_map_erase. by destruct Hc.
    + unfold is_u64 in *. rewrite cache_insert_spec by (done || lia). simpl.
      apply om_map_set. by destruct Hc.
  - split; [by apply cache_erase_inv|]. rewrite cache_erase_spec by done. simpl.
    apply om_map_erase. by destruct Hc.
Qed.

Lemma alloc_run_refines ops :
  Forall alloc_op_ok ops ->
  alloc_inv (alloc_run ops) /\
  om_map (allocations (alloc_run ops)) = alloc_spec_run ops.
Proof.
  unfold alloc_run, alloc_spec_run.
  induction ops as [|op ops IH] using rev_ind; intros Hops.
  - split; [apply empty_allocation_cache_inv|done].
  - apply Forall_app in Hops as [Hops Hop]. rewrite Forall_singleton in Hop.
    destruct (IH Hops) as [Hinv Hmap]. rewrite !foldl_snoc.
    destruct (alloc_step_refines op _ Hop Hinv) as [? ->]. by rewrite Hmap.
Qed.

(** * Theorems *)

(** C35: after any sequence of insertions and erasures the optimised lookup, which
    stops at the predecessor while the overlap counter is zero, returns for
    every address exactly the record a linear scan of all records returns (the
    containing record with the greatest base). *)
Theorem allocation_lookup_equiv (ops : list alloc_op) (ptr : Z)
    (Hops : Forall alloc_op_ok ops) (Hptr : is_u64 ptr) :
  lupine_deviceptr_allocation_cache_lookup ptr (alloc_run ops) =
  reference_lookup ptr (allocations (alloc_run ops)).
Proof. apply cache_lookup_spec; [by apply alloc_run_refines|done]. Qed.

Definition nested_ops : list alloc_op :=
  [OpInsert 100 100 0 2; OpInsert 120 10 1 3; OpInsert 140 10 2 4; OpErase 120].

Lemma nested_ops_ok : Forall alloc_op_ok nested_ops.
Proof. repeat constructor; unfold is_u64; lia. Qed.

Lemma allocation_lookup_equiv_witness :
  lupine_deviceptr_allocation_cache_lookup 190 (alloc_run nested_ops) =
    Some (100, AllocRecord 100 0 2) /\
  lupine_deviceptr_allocation_cache_lookup 190 (alloc_run nested_ops) =
  reference_lookup 190 (allocations (alloc_run nested_ops)).
Proof.
  split; [reflexivity|].
  apply (allocation_lookup_equiv nested_ops 190); [apply nested_ops_ok|unfold is_u64; lia].
Defined.

(** Every sequence of mutations keeps the index well formed (strictly sorted
    bases, nonzero sizes, and [overlapping_neighbors] exactly the number of
    adjacent overlapping records, never wrapped) and refines the finite map
    that inserts, overwrites and deletes by base. *)
Theorem allocation_cache_refines_map (ops : list alloc_op)
    (Hops : Forall alloc_op_ok ops) :
  alloc_inv (alloc_run ops) /\
  om_map (allocations (alloc_run ops)) = alloc_spec_run ops.
Proof. by apply alloc_run_refines. Qed.

Lemma allocation_cache_refines_map_witness :
  overlapping_neighbors (alloc_run nested_ops) = 1 /\
  alloc_inv (alloc_run nested_ops) /\
  om_map (allocations (alloc_run nested_ops)) = alloc_spec_run nested_ops.
Proof.
  split; [reflexivity|]. apply (allocation_cache_refines_map nested_ops), nested_ops_ok.
Defined.

(** The overlap query answers exactly whether some recorded allocation of
    another route shares a byte with [[base, base + size)], for every range
    that does not reach the end of the address space. *)
Theorem allocation_overlap_query (ops : list alloc_op) (base size route_id : Z)
    (Hops : Forall alloc_op_ok ops) (Hbase : is_u64 base) (Hsize : is_u64 size)
    (Hend : base + size < 2 ^ 64) :
  lupine_deviceptr_allocation_cache_overlaps_other_route base size route_id
    (alloc_run ops) =
  existsb (fun e => meets base size e && negb (alloc_route_id e.2 =? route_id))
    (allocations (alloc_run ops)).
Proof. apply cache_overlaps_spec; [by apply alloc_run_refines|done..]. Qed.

Lemma allocation_overlap_query_witness :
  lupine_deviceptr_allocation_cache_overlaps_other_route 190 50 1 (alloc_run nested_ops)
    = true /\
  lupine_deviceptr_allocation_cache_overlaps_other_route 190 50 1 (alloc_run nested_ops) =
  existsb (fun e => meets 190 50 e && negb (alloc_route_id e.2 =? 1))
    (allocations (alloc_run nested_ops)).
Proof.
  split; [reflexivity|].
  apply (allocation_overlap_query nested_ops 190 50 1);
    [apply nested_ops_ok|unfold is_u64; lia..|lia].
Defined.

(** At the top of the address space the query's end [base + size] wraps to
    zero, so it inspects no record and misses an allocation of another route
    that occupies exactly the same bytes, which the lookup still finds. *)
Theorem allocation_overlap_query_wraps :
  let c := alloc_run [OpInsert (2 ^ 64 - 256) 256 1 7] in
  lupine_deviceptr_allocation_cache_overlaps_other_route (2 ^ 64 - 256) 256 0 c = false /\
  lupine_deviceptr_allocation_cache_lookup (2 ^ 64 - 1) c =
    Some (2 ^ 64 - 256, AllocRecord 256 1 7).
Proof. split; reflexivity. Qed.
