(* ===== verification/LaneCache.v ===== *)
(** Per-thread context caches of the client ([cache.cpp], second half): which
    device the current context sits on, and which context each server lane of
    the thread was last given.  Both are validated by a process-wide epoch that
    any thread may bump.  The caches are proved sound against an abstract map
    of what was last established and not invalidated since. *)
From S2P Require Import Prelude.

Definition kLaneContextCacheSlots : nat := 32.

Record current_context_device_cache_entry := DeviceEntry {
  dev_epoch : Z;
  dev_context : Z;
  dev_device : Z;
}.

Record lane_context_cache_entry := LaneEntry {
  lane_epoch : Z;
  lane_route_id : Z;
  lane_context : Z;
}.

(** The process-wide epochs and one thread's caches. *)
Record context_caches := ContextCaches {
  current_context_device_cache_epoch : Z;
  lane_context_cache_epoch : Z;
  current_context_device_cache : current_context_device_cache_entry;
  lane_context_cache : list lane_context_cache_entry;
}.

Definition initial_context_caches : context_caches :=
  ContextCaches 1 1 (DeviceEntry 0 0 (-1))
    (replicate kLaneContextCacheSlots (LaneEntry 0 (-2) 0)).

Definition set_device_entry (e : current_context_device_cache_entry) (c : context_caches) :=
  ContextCaches (current_context_device_cache_epoch c) (lane_context_cache_epoch c) e
    (lane_context_cache c).

Definition set_lanes (l : list lane_context_cache_entry) (c : context_caches) :=
  ContextCaches (current_context_device_cache_epoch c) (lane_context_cache_epoch c)
    (current_context_device_cache c) l.

(** * Operations *)

(** The slot of a route, or [None] where the code returns a null entry. *)
Definition lane_context_cache_entry_for (route_id : Z) : option nat :=
  if route_id <? -1 then None
  else Some (Z.to_nat (Z.land (wrap64 route_id) (Z.of_nat kLaneContextCacheSlots - 1))).

(** The answer is the device to store through the caller's pointer; [device] is
    whether that pointer is non-null. *)
Definition lupine_current_context_device_cache_lookup
    (context : Z) (device : bool) (c : context_caches) : option Z :=
  let entry := current_context_device_cache c in
  if (context =? 0) || negb device
     || negb (dev_epoch entry =? current_context_device_cache_epoch c)
     || negb (dev_context entry =? context)
  then None
  else Some (dev_device entry).

Definition lupine_current_context_device_cache_insert
    (context device : Z) (c : context_caches) : context_caches :=
  if context =? 0 then c
  else set_device_entry
         (DeviceEntry (current_context_device_cache_epoch c) context device) c.

Definition lupine_current_context_device_cache_invalidate (c : context_caches) :=
  ContextCaches (wrap64 (current_context_device_cache_epoch c + 1))
    (lane_context_cache_epoch c) (current_context_device_cache c) (lane_context_cache c).

Definition lupine_lane_context_cache_epoch (c : context_caches) : Z :=
  lane_context_cache_epoch c.

Definition lupine_lane_context_cache_matches
    (route_id context : Z) (c : context_caches) : bool :=
  match lane_context_cache_entry_for route_id with
  | None => false
  | Some slot =>
      match lane_context_cache c !! slot with
      | None => false
      | Some entry =>
          (lane_route_id entry =? route_id) && (lane_context entry =? context)
          && (lane_epoch entry =? lane_context_cache_epoch c)
      end
  end.

Definition lupine_lane_context_cache_update
    (route_id context epoch : Z) (succeeded : bool) (c : context_caches) : context_caches :=
  match lane_context_cache_entry_for route_id with
  | None => c
  | Some slot =>
      match lane_context_cache c !! slot with
      | None => c
      | Some entry =>
          if negb succeeded || negb (lane_context_cache_epoch c =? epoch) then
            if lane_route_id entry =? route_id
            then set_lanes (<[slot := LaneEntry 0 (lane_route_id entry) (lane_context entry)]>
                              (lane_context_cache c)) c
            else c
          else set_lanes (<[slot := LaneEntry epoch route_id context]> (lane_context_cache c)) c
      end
  end.

Definition lupine_lane_context_cache_store (route_id context : Z) (c : context_caches) :=
  lupine_lane_context_cache_update route_id context (lupine_lane_context_cache_epoch c) true c.

Definition lupine_invalidate_current_context_cache (c : context_caches) : context_caches :=
  let c := lupine_current_context_device_cache_invalidate c in
  ContextCaches (current_context_device_cache_epoch c)
    (wrap64 (lane_context_cache_epoch c + 1))
    (current_context_device_cache c) (lane_context_cache c).

Definition lupine_note_device_binding_changed (c : context_caches) : context_caches :=
  set_lanes ((fun e => LaneEntry 0 (lane_route_id e) (lane_context e)) <$> lane_context_cache c) c.

(** * Traces and the abstract contract *)

(** What one thread and the rest of the process do to the thread's caches.  An
    update carries the epoch its caller read before the call that may have been
    followed by any number of invalidations. *)
Inductive cache_event :=
  | EvDeviceInsert (context device : Z)
  | EvDeviceInvalidate
  | EvLaneUpdate (route_id context epoch : Z) (succeeded : bool)
  | EvInvalidateAll
  | EvBindingChanged.

Definition cache_step (c : context_caches) (ev : cache_event) : context_caches :=
  match ev with
  | EvDeviceInsert context device => lupine_current_context_device_cache_insert context device c
  | EvDeviceInvalidate => lupine_current_context_device_cache_invalidate c
  | EvLaneUpdate route_id context epoch succeeded =>
      lupine_lane_context_cache_update route_id context epoch succeeded c
  | EvInvalidateAll => lupine_invalidate_current_context_cache c
  | EvBindingChanged => lupine_note_device_binding_changed c
  end.

Definition cache_run (evs : list cache_event) : context_caches :=
  foldl cache_step initial_context_caches evs.

(** The abstract knowledge: the device of the last context noted, and for each
    route the context last established by a successful call that no
    invalidation crossed. *)
Record context_truth := ContextTruth {
  truth_epoch : Z;
  truth_device : option (Z * Z);
  truth_lanes : gmap Z Z;
}.

Definition truth_step (t : context_truth) (ev : cache_event) : context_truth :=
  match ev with
  | EvDeviceInsert context device =>
      if context =? 0 then t
      else ContextTruth (truth_epoch t) (Some (context, device)) (truth_lanes t)
  | EvDeviceInvalidate => ContextTruth (truth_epoch t) None (truth_lanes t)
  | EvLaneUpdate route_id context epoch succeeded =>
      if succeeded && (truth_epoch t =? epoch)
      then ContextTruth (truth_epoch t) (truth_device t) (<[route_id := context]> (truth_lanes t))
      else ContextTruth (truth_epoch t) (truth_device t) (delete route_id (truth_lanes t))
  | EvInvalidateAll => ContextTruth (truth_epoch t + 1) None ∅
  | EvBindingChanged => ContextTruth (truth_epoch t) (truth_device t) ∅
  end.

Definition truth_run (evs : list cache_event) : context_truth :=
  foldl truth_step (ContextTruth 1 None ∅) evs.

(** * Soundness *)

Record caches_inv (n : Z) (c : context_caches) (t : context_truth) : Prop := {
  ci_lane_epoch : lane_context_cache_epoch c = truth_epoch t;
  ci_lane_bound : 1 <= truth_epoch t <= 1 + n;
  ci_dev_bound : 1 <= current_context_device_cache_epoch c <= 1 + n;
  ci_lanes : forall slot e, lane_context_cache c !! slot = Some e ->
    lane_epoch e <= truth_epoch t /\
    (lane_epoch e = truth_epoch t ->
     truth_lanes t !! lane_route_id e = Some (lane_context e) /\
     lane_context_cache_entry_for (lane_route_id e) = Some slot);
  ci_device :
    let e := current_context_device_cache c in
    dev_epoch e <= current_context_device_cache_epoch c /\
    (dev_epoch e = current_context_device_cache_epoch c ->
     dev_context e <> 0 /\ truth_device t = Some (dev_context e, dev_device e)) /\
    (dev_epoch e <> current_context_device_cache_epoch c -> truth_device t = None);
}.

Lemma caches_inv_init : caches_inv 0 initial_context_caches (ContextTruth 1 None ∅).
Proof.
  unfold initial_context_caches. generalize kLaneContextCacheSlots. intros slots.
  split; simpl; [done|lia|lia| |].
  - intros slot e [-> _]%lookup_replicate. simpl. lia.
  - split_and!; lia || done.
Qed.

(** The slot a live entry of [route_id] would occupy is the one inspected. *)
Lemma lanes_update_inv n c t route_id context epoch succeeded :
  caches_inv n c t ->
  caches_inv n (lupine_lane_context_cache_update route_id context epoch succeeded c)
    (truth_step t (EvLaneUpdate route_id context epoch succeeded)).
Proof.
  intros [He Hb Hd Hl Hdev]. unfold lupine_lane_context_cache_update. simpl.
  assert (forall m, (forall slot e, lane_context_cache c !! slot = Some e ->
      lane_epoch e = truth_epoch t -> m !! lane_route_id e = Some (lane_context e)) ->
    caches_inv n c (ContextTruth (truth_epoch t) (truth_device t) m)) as Hkeep.
  { intros m Hm. split; simpl; [done..| |done]. intros slot e Hs.
    destruct (Hl slot e Hs) as [? Hlive]. split; [done|]. intros Heq.
    split; [by eapply Hm|by apply Hlive]. }
  assert (forall slot e, lane_context_cache_entry_for route_id <> Some slot ->
    lane_context_cache c !! slot = Some e -> lane_epoch e = truth_epoch t ->
    lane_route_id e <> route_id) as Hother.
  { intros slot e Hslot Hs Heq Hr. destruct (Hl slot e Hs) as [_ Hlive].
    destruct (Hlive Heq) as [_ Hfor]. congruence. }
  rewrite He. destruct (lane_context_cache_entry_for route_id) as [slot|] eqn:Hfor.
  2:{ case_if; apply Hkeep; intros slot e Hs Heq;
        rewrite ?lookup_insert_ne, ?lookup_delete_ne
          by (apply not_eq_sym; by eapply Hother); by eapply Hl. }
  destruct (lane_context_cache c !! slot) as [entry|] eqn:Hslot.
  2:{ case_if; apply Hkeep; intros slot' e Hs Heq;
        rewrite ?lookup_insert_ne, ?lookup_delete_ne
          by (apply not_eq_sym; eapply Hother; [|done..]; congruence); by eapply Hl. }
  rewrite <- negb_andb. destruct (succeeded && (truth_epoch t =? epoch)) eqn:Eok; simpl.
  - breflect. split; simpl; [done..| |done]. intros slot' e.
    rewrite list_lookup_insert. case_decide as Hd'.
    + destruct Hd' as [-> _]. intros [= <-]. simpl. split; [lia|]. intros _.
      by rewrite lookup_insert_eq.
    + intros Hs. destruct (Hl slot' e Hs) as [? Hlive]. split; [done|]. intros Heq.
      destruct (Hlive Heq). rewrite lookup_insert_ne; [done|].
      apply not_eq_sym. eapply Hother; [|done..]. intros [= <-]. apply Hd'.
      split; [done|]. by eapply lookup_lt_Some.
  - destruct (lane_route_id entry =? route_id) eqn:Er; breflect.
    + split; simpl; [done..| |done]. intros slot' e. rewrite list_lookup_insert.
      case_decide as Hd'.
      * intros [= <-]. simpl. lia.
      * intros Hs. destruct (Hl slot' e Hs) as [? Hlive]. split; [done|]. intros Heq.
        destruct (Hlive Heq). rewrite lookup_delete_ne; [done|].
        apply not_eq_sym. eapply Hother; [|done..]. intros [= <-]. apply Hd'.
        split; [done|]. by eapply lookup_lt_Some.
    + apply Hkeep. intros slot' e Hs Heq. rewrite lookup_delete_ne; [by eapply Hl|].
      intros Hr. destruct (Hl slot' e Hs) as [_ Hlive]. destruct (Hlive Heq) as [_ Hf].
      rewrite <- Hr, Hfor in Hf. congruence.
Qed.

Lemma caches_step_inv n c t ev :
  caches_inv n c t -> 0 <= n < 2 ^ 64 - 2 ->
  caches_inv (n + 1) (cache_step c ev) (truth_step t ev).
Proof.
  intros Hinv Hn.
  assert (forall c t, caches_inv n c t -> caches_inv (n + 1) c t) as Hmono.
  { intros ?? []. split; [done|lia|lia|done|done]. }
  destruct ev; [| |by apply Hmono, lanes_update_inv|..];
    destruct Hinv as [He Hb Hd Hl (Hle&Hlive&Hdead)].
  - simpl. unfold lupine_current_context_device_cache_insert. case_if; [by apply Hmono|].
    split; simpl; [done|lia..|done|]. split_and!; [lia|done|done].
  - split; simpl; [done|lia| |done|].
    + rewrite wrap64_id by (unfold is_u64; lia). lia.
    + rewrite wrap64_id by (unfold is_u64; lia). split_and!; [lia|lia|done].
  - split; simpl.
    + rewrite wrap64_id by (unfold is_u64; lia). by rewrite He.
    + lia.
    + rewrite wrap64_id by (unfold is_u64; lia). lia.
    + intros slot e Hs. destruct (Hl slot e Hs). split; [lia|]. intros. lia.
    + rewrite wrap64_id by (unfold is_u64; lia). split_and!; [lia|lia|done].
  - split; simpl; [done|lia|lia| |done]. intros slot e.
    rewrite list_lookup_fmap. intros (e'&Hs&->)%fmap_Some. simpl. lia.
Qed.

Lemma caches_run_inv evs :
  Z.of_nat (length evs) < 2 ^ 64 - 2 ->
  caches_inv (Z.of_nat (length evs)) (cache_run evs) (truth_run evs).
Proof.
  unfold cache_run, truth_run. induction evs as [|ev evs IH] using rev_ind; intros Hlen.
  - apply caches_inv_init.
  - rewrite !foldl_snoc, length_app in *. simpl in *.
    replace (Z.of_nat (length evs + 1)) with (Z.of_nat (length evs) + 1) by lia.
    apply caches_step_inv; [apply IH|]; lia.
Qed.

(** The lane cache never claims a context that is not the one last
    established on that route by a successful call with no invalidation since,
    whatever routes share its slots; 2^64 - 2 bounds the epoch counter. *)
Theorem lane_cache_sound (evs : list cache_event) (route_id context : Z)
    (Hlen : Z.of_nat (length evs) < 2 ^ 64 - 2)
    (Hm : lupine_lane_context_cache_matches route_id context (cache_run evs) = true) :
  truth_lanes (truth_run evs) !! route_id = Some context.
Proof.
  destruct (caches_run_inv evs Hlen) as [He _ _ Hl _].
  unfold lupine_lane_context_cache_matches in Hm.
  destruct (lane_context_cache_entry_for route_id) as [slot|]; [|done].
  destruct (lane_context_cache (cache_run evs) !! slot) as [e|] eqn:Hs; [|done].
  breflect. subst. destruct (Hl slot e Hs) as [_ Hlive]. apply Hlive. congruence.
Qed.

(** Routes 2 and 34 share slot 2: the entry of one never answers for the other. *)
Definition colliding_events : list cache_event :=
  [EvLaneUpdate 2 70 1 true; EvLaneUpdate 34 80 1 true; EvLaneUpdate 2 70 1 false;
   EvInvalidateAll; EvLaneUpdate 34 90 2 true].

Lemma lane_cache_sound_witness :
  truth_lanes (truth_run colliding_events) !! 34 = Some 90.
Proof. apply lane_cache_sound; [simpl; lia|reflexivity]. Defined.

(** The device cache answers exactly: a lookup hits if and only if the
    context asked about is the last one noted and no invalidation followed, and
    then returns the device noted for it. *)
Theorem device_cache_exact (evs : list cache_event) (context : Z)
    (Hlen : Z.of_nat (length evs) < 2 ^ 64 - 2) (Hctx : context <> 0) :
  lupine_current_context_device_cache_lookup context true (cache_run evs) =
  match truth_device (truth_run evs) with
  | Some (c, d) => if c =? context then Some d else None
  | None => None
  end.
Proof.
  destruct (caches_run_inv evs Hlen) as [_ _ _ _ (_&Hlive&Hdead)].
  unfold lupine_current_context_device_cache_lookup. simpl.
  rewrite (proj2 (Z.eqb_neq context 0)) by done. simpl.
  destruct (Z.eqb_spec (dev_epoch (current_context_device_cache (cache_run evs)))
    (current_context_device_cache_epoch (cache_run evs))) as [Heq|Hne]; simpl.
  - destruct (Hlive Heq) as [_ ->]. by destruct (_ =? _).
  - by rewrite (Hdead Hne).
Qed.

Lemma device_cache_exact_witness :
  lupine_current_context_device_cache_lookup 7 true
    (cache_run [EvDeviceInsert 5 0; EvDeviceInsert 7 3]) = Some 3.
Proof. rewrite (device_cache_exact [EvDeviceInsert 5 0; EvDeviceInsert 7 3] 7); [reflexivity|simpl; lia|lia]. Defined.
