(* ===== verification/ManagedAdvice.v ===== *)
(** [managed_advice.h]: memory advice retained per page range for VMM-backed
    managed allocations.  The range map is proved to denote one advice state per
    page, [advise] to update exactly the pages of its byte range, and [query] to
    combine exactly the pages of its byte range. *)
From stdpp Require Import sorting.
From S2P Require Import Prelude OrdMap.

(** Constants of the CUDA header, with what the code relies on. *)
Class CudaDeviceIds := {
  CU_DEVICE_CPU : Z;
  CU_DEVICE_INVALID : Z;
  cu_device_cpu_neg : CU_DEVICE_CPU < 0;
  cu_device_invalid_neg : CU_DEVICE_INVALID < 0;
  cu_device_cpu_valid : CU_DEVICE_CPU <> CU_DEVICE_INVALID;
}.

(** The values the header documents. *)
Definition documented_device_ids : CudaDeviceIds.
Proof.
  refine {| CU_DEVICE_CPU := -1; CU_DEVICE_INVALID := -2 |}; lia.
Defined.

Inductive CUmem_advise :=
  | CU_MEM_ADVISE_SET_READ_MOSTLY
  | CU_MEM_ADVISE_UNSET_READ_MOSTLY
  | CU_MEM_ADVISE_SET_PREFERRED_LOCATION
  | CU_MEM_ADVISE_UNSET_PREFERRED_LOCATION
  | CU_MEM_ADVISE_SET_ACCESSED_BY
  | CU_MEM_ADVISE_UNSET_ACCESSED_BY
  | CU_MEM_ADVISE_OUT_OF_RANGE.

Inductive CUmem_range_attribute :=
  | CU_MEM_RANGE_ATTRIBUTE_READ_MOSTLY
  | CU_MEM_RANGE_ATTRIBUTE_PREFERRED_LOCATION
  | CU_MEM_RANGE_ATTRIBUTE_ACCESSED_BY
  | CU_MEM_RANGE_ATTRIBUTE_OTHER.

Inductive advice_result := ADVICE_SUCCESS | ADVICE_INVALID_VALUE.

Section Advice.
Context `{CudaDeviceIds}.

Record state := AdviceState {
  read_mostly : bool;
  preferred : Z;
  accessed_by : gset Z;
}.
#[export] Instance state_eq_dec : EqDecision state.
Proof. solve_decision. Defined.

Definition default_state : state := AdviceState false CU_DEVICE_INVALID ∅.

Abbreviation ranges := (list (Z * state)).

(** * Operations *)

(** [std::prev(ranges_.upper_bound(page))]. *)
Definition range_before (page : Z) (l : ranges) : option (Z * state) :=
  last (om_upper_bound page l).1.

Definition split (page : Z) (l : ranges) : ranges :=
  let l := match l with [] => [(0, default_state)] | _ => l end in
  match range_before page l with
  | Some it => om_emplace page it.2 l
  | None => l
  end.

Definition apply_advice (advice : CUmem_advise) (device : Z) (value : state) : state :=
  match advice with
  | CU_MEM_ADVISE_SET_READ_MOSTLY =>
      AdviceState true (preferred value) (accessed_by value)
  | CU_MEM_ADVISE_UNSET_READ_MOSTLY =>
      AdviceState false (preferred value) (accessed_by value)
  | CU_MEM_ADVISE_SET_PREFERRED_LOCATION =>
      AdviceState (read_mostly value) device (accessed_by value)
  | CU_MEM_ADVISE_UNSET_PREFERRED_LOCATION =>
      AdviceState (read_mostly value) CU_DEVICE_INVALID (accessed_by value)
  | CU_MEM_ADVISE_SET_ACCESSED_BY =>
      AdviceState (read_mostly value) (preferred value) ({[device]} ∪ accessed_by value)
  | CU_MEM_ADVISE_UNSET_ACCESSED_BY =>
      AdviceState (read_mostly value) (preferred value) (accessed_by value ∖ {[device]})
  | CU_MEM_ADVISE_OUT_OF_RANGE => value
  end.

(** The loop between the two iterators. *)
Definition update_between (first last : Z) (f : state -> state) (l : ranges) : ranges :=
  let '(before, rest) := om_lower_bound first l in
  let '(inside, after) := om_lower_bound last rest in
  before ++ ((fun e => (e.1, f e.2)) <$> inside) ++ after.

(** The erase loop that merges equal neighbours. *)
Fixpoint coalesce_from (prev : state) (l : ranges) : ranges :=
  match l with
  | [] => []
  | e :: l' =>
      if bool_decide (prev = e.2) then coalesce_from prev l'
      else e :: coalesce_from e.2 l'
  end.

Definition coalesce (l : ranges) : ranges :=
  match l with
  | [] => []
  | e :: l' => e :: coalesce_from e.2 l'
  end.

Definition advise (offset count page_size : Z) (advice : CUmem_advise) (device : Z)
    (l : ranges) : advice_result * ranges :=
  if (count =? 0) || (page_size =? 0) || (wrap64 (2 ^ 64 - 1 - offset) <? count)
     || (match advice with CU_MEM_ADVISE_OUT_OF_RANGE => true | _ => false end)
  then (ADVICE_INVALID_VALUE, l)
  else
    let first := offset / page_size in
    let last := wrap64 (wrap64 (wrap64 (offset + count) - 1) / page_size + 1) in
    let l := split first l in
    let l := split last l in
    let l := update_between first last (apply_advice advice device) l in
    (ADVICE_SUCCESS, coalesce l).

Definition supports (attribute : CUmem_range_attribute) : bool :=
  match attribute with
  | CU_MEM_RANGE_ATTRIBUTE_READ_MOSTLY
  | CU_MEM_RANGE_ATTRIBUTE_PREFERRED_LOCATION
  | CU_MEM_RANGE_ATTRIBUTE_ACCESSED_BY => true
  | CU_MEM_RANGE_ATTRIBUTE_OTHER => false
  end.

Definition is_accessed_by (attribute : CUmem_range_attribute) : bool :=
  match attribute with CU_MEM_RANGE_ATTRIBUTE_ACCESSED_BY => true | _ => false end.

(** The body of the accumulation loop. *)
Definition merge_state (value other : state) : state :=
  AdviceState (read_mostly value && read_mostly other)
    (if preferred value =? preferred other then preferred value else CU_DEVICE_INVALID)
    (filter (fun d => d ∈ accessed_by other) (accessed_by value)).

Fixpoint merge_until (last_page : Z) (value : state) (l : ranges) : state :=
  match l with
  | [] => value
  | it :: l' =>
      if it.1 <=? last_page then merge_until last_page (merge_state value it.2) l'
      else value
  end.

(** Iteration order of [std::set<int>]. *)
Definition set_order (s : gset Z) : list Z := merge_sort Z.le (elements s).

(** The [int] array written through [data]. *)
Definition accessed_by_output (slots : nat) (devices : gset Z) : list Z :=
  let gpus := take slots (List.filter (fun d => 0 <=? d) (set_order devices)) in
  let cpu := if bool_decide (CU_DEVICE_CPU ∈ devices) && (length gpus <? slots)%nat
             then [CU_DEVICE_CPU] else [] in
  gpus ++ cpu ++ replicate (slots - length gpus - length cpu)%nat CU_DEVICE_INVALID.

Definition query_value (offset count page_size : Z) (l : ranges) : state :=
  match l with
  | [] => default_state
  | _ =>
      let '(before, after) := om_upper_bound (offset / page_size) l in
      match last before with
      | Some it =>
          merge_until (wrap64 (wrap64 (offset + count) - 1) / page_size) it.2 after
      | None => default_state
      end
  end.

Definition query (data : bool) (data_size : Z) (attribute : CUmem_range_attribute)
    (offset count page_size : Z) (l : ranges) : advice_result * list Z :=
  if (count =? 0) || (page_size =? 0) || (wrap64 (2 ^ 64 - 1 - offset) <? count)
     || negb data || negb (supports attribute) || (data_size =? 0)
     || negb (data_size mod 4 =? 0)
     || (negb (is_accessed_by attribute) && negb (data_size =? 4))
  then (ADVICE_INVALID_VALUE, [])
  else
    let value := query_value offset count page_size l in
    if is_accessed_by attribute
    then (ADVICE_SUCCESS, accessed_by_output (Z.to_nat (data_size / 4)) (accessed_by value))
    else
      (ADVICE_SUCCESS,
       [match attribute with
        | CU_MEM_RANGE_ATTRIBUTE_READ_MOSTLY => Z.b2z (read_mostly value)
        | _ => preferred value
        end]).

(** * Denotation: one state per page *)

Definition state_at (l : ranges) (page : Z) : state :=
  match range_before page l with Some e => e.2 | None => default_state end.

(** The same by recursion, with the state in force before the list. *)
Fixpoint at_from (d : state) (l : ranges) (page : Z) : state :=
  match l with
  | [] => d
  | e :: l' => if e.1 <=? page then at_from e.2 l' page else d
  end.

Lemma state_at_from l page : state_at l page = at_from default_state l page.
Proof.
  unfold state_at, range_before, om_upper_bound.
  enough (forall d, (match last (om_lower_bound (page + 1) l).1 with
    Some e => e.2 | None => d end) = at_from d l page) by auto.
  induction l as [|e l IH]; intros d; simpl; [done|].
  destruct (Z.ltb_spec e.1 (page + 1)), (Z.leb_spec e.1 page); try lia; [|done].
  rewrite <- (IH e.2). destruct (om_lower_bound (page + 1) l) as [a b]; simpl.
  rewrite last_cons. by destruct (last a).
Qed.

Lemma at_from_app d a b page :
  Forall (fun e => e.1 <= page) a ->
  at_from d (a ++ b) page = at_from (at_from d a page) b page.
Proof.
  intros Ha. revert d. induction Ha as [|e a He _ IH]; intros d; simpl; [done|].
  rewrite (proj2 (Z.leb_le _ _)) by done. apply IH.
Qed.

Lemma at_from_above d l page : Forall (fun e => page < e.1) l -> at_from d l page = d.
Proof. intros [|e l' He _]; simpl; [done|]. by rewrite (proj2 (Z.leb_gt _ _)). Qed.

(** A sorted list read at a page: everything after the first larger key is
    irrelevant. *)
Lemma at_from_cut d a b page :
  om_sorted (a ++ b) -> Exists (fun e => page < e.1) a ->
  at_from d (a ++ b) page = at_from d a page.
Proof.
  intros Hs Hex. revert d Hs. induction Hex as [e a He|e a _ IH]; intros d Hs; simpl.
  - by rewrite (proj2 (Z.leb_gt _ _)).
  - simpl in Hs. apply om_sorted_cons in Hs as [Hs _]. case_if; [by apply IH|done].
Qed.

Lemma at_from_map (f : state -> state) d l page :
  at_from (f d) ((fun e => (e.1, f e.2)) <$> l) page = f (at_from d l page).
Proof.
  revert d. induction l as [|e l IH]; intros d; simpl; [done|]. case_if; [apply IH|done].
Qed.

Lemma at_from_irrel d d' e l page : e.1 <= page -> at_from d (e :: l) page = at_from d' (e :: l) page.
Proof. intros ?. simpl. by rewrite (proj2 (Z.leb_le _ _)). Qed.

Lemma Forall_or_Exists_le (l : ranges) page :
  Forall (fun e => e.1 <= page) l \/ Exists (fun e => page < e.1) l.
Proof.
  induction l as [|e l [IH|IH]]; [by left| |by right; right].
  destruct (Z.le_gt_cases e.1 page); [left; by constructor|right; by left].
Qed.

(** Splitting at a page leaves every page's state alone. *)
Lemma at_from_emplace d l k page :
  om_sorted l -> at_from d (om_emplace k (at_from d l k) l) page = at_from d l page.
Proof.
  intros Hs. unfold om_emplace. destruct (om_find k l) eqn:Hf; [done|].
  destruct (om_update_split k l Hs) as (a&b&Hl&_&->&_&Ha&Hb). rewrite Hf in Hl. simpl in Hl.
  assert (at_from d l k = at_from d a k) as ->.
  { rewrite Hl, at_from_app by (forall_lia Ha).
    apply at_from_above. forall_lia Hb. }
  rewrite Hl in Hs. rewrite Hl.
  destruct (Forall_or_Exists_le a page) as [Hle|Hex].
  - rewrite !at_from_app by done. simpl. case_if.
    + f_equal. clear -Ha Hle. revert d. induction Ha as [|e a He _ IH]; intros d; simpl; [done|].
      apply Forall_cons in Hle as [? ?]. rewrite !(proj2 (Z.leb_le _ _)) by (simpl in *; lia).
      by apply IH.
    + symmetry. apply at_from_above. forall_lia Hb.
  - rewrite !at_from_cut; try done. by apply om_sorted_mid.
Qed.

(** Merging equal neighbours leaves every page's state alone. *)
Lemma at_from_coalesce v l page :
  om_sorted l -> at_from v (coalesce_from v l) page = at_from v l page.
Proof.
  revert v. induction l as [|e l IH]; intros v Hs; simpl; [done|].
  apply om_sorted_cons in Hs as [Hs Hlt]. case_bool_decide as Hv; simpl.
  - subst v. rewrite IH by done. case_if; [done|]. apply at_from_above.
    forall_lia Hlt.
  - case_if; [by apply IH|done].
Qed.

(** * Well-formedness *)

(** Keys strictly increase from page 0, which is present once anything is. *)
Definition adv_wf (l : ranges) : Prop :=
  om_sorted l /\ match l with [] => True | e :: _ => e.1 = 0 end.

(** No two neighbours carry the same state. *)
Fixpoint distinct_from (v : state) (l : ranges) : Prop :=
  match l with
  | [] => True
  | e :: l' => v <> e.2 /\ distinct_from e.2 l'
  end.

Definition adv_minimal (l : ranges) : Prop :=
  match l with [] => True | e :: l' => distinct_from e.2 l' end.

Lemma om_emplace_find_eq (k : Z) (v : state) l :
  om_sorted l -> is_Some (om_find k (om_emplace k v l)).
Proof.
  intros Hs. unfold om_emplace. destruct (om_find k l) eqn:E; [by rewrite E|].
  rewrite om_find_set, Z.eqb_refl by done. done.
Qed.

Lemma om_emplace_find_mono (k : Z) (v : state) l k' :
  om_sorted l -> is_Some (om_find k' l) -> is_Some (om_find k' (om_emplace k v l)).
Proof.
  intros Hs Hk. unfold om_emplace. destruct (om_find k l) eqn:E; [done|].
  rewrite om_find_set by done. by case_if.
Qed.

Lemma om_emplace_wf k v l :
  om_sorted l -> (match l with [] => False | e :: _ => e.1 = 0 end) -> 0 <= k ->
  adv_wf (om_emplace k v l).
Proof.
  intros Hs Hhd Hk. split; [by apply om_sorted_emplace|]. unfold om_emplace.
  destruct (om_find k l) eqn:E; [by destruct l|].
  destruct (om_update_split k l Hs) as (a&b&Hl&_&->&_&Ha&Hb). rewrite E in Hl. simpl in Hl.
  destruct a as [|x a]; simpl in *; subst l; [|done].
  destruct b as [|y b]; [done|]. apply Forall_cons in Hb as [? _]. lia.
Qed.

(** What [split] guarantees its caller. *)
Lemma split_spec page l :
  adv_wf l -> 0 <= page ->
  adv_wf (split page l) /\ is_Some (om_find page (split page l)) /\
  (forall k, is_Some (om_find k l) -> is_Some (om_find k (split page l))) /\
  (forall p, 0 <= p -> state_at (split page l) p = state_at l p).
Proof.
  intros [Hs Hhd] Hpage. unfold split.
  set (l0 := match l with [] => [(0, default_state)] | _ => l end).
  assert (om_sorted l0 /\ (match l0 with [] => False | e :: _ => e.1 = 0 end)) as [Hs0 Hhd0].
  { subst l0. destruct l; [|done]. split; [repeat constructor|done]. }
  assert (forall p, 0 <= p -> state_at l0 p = state_at l p) as Hst.
  { intros p Hp. rewrite !state_at_from. subst l0. destruct l; simpl; [by case_if|done]. }
  assert (forall k, is_Some (om_find k l) -> is_Some (om_find k l0)) as Hfind.
  { subst l0. intros k. destruct l; [|done]. simpl. by intros [? ?]. }
  clearbody l0. destruct (range_before page l0) as [it|] eqn:Hrb.
  - assert (it.2 = at_from default_state l0 page) as ->.
    { rewrite <- state_at_from. unfold state_at. by rewrite Hrb. }
    split_and!.
    + by apply om_emplace_wf.
    + by apply om_emplace_find_eq.
    + intros k Hk. apply om_emplace_find_mono; auto.
    + intros p Hp. rewrite state_at_from, at_from_emplace, <- state_at_from by done. auto.
  - exfalso. unfold range_before, om_upper_bound in Hrb. destruct l0 as [|e l0]; [done|].
    simpl in Hrb. rewrite Hhd0, (proj2 (Z.ltb_lt _ _)) in Hrb by lia.
    destruct (om_lower_bound (page + 1) l0). simpl in Hrb. rewrite last_cons in Hrb.
    by destruct (last l1).
Qed.

(** Splits of a sorted map at a key it holds start with that key. *)
Lemma lower_bound_at k (l : ranges) a b :
  om_sorted l -> is_Some (om_find k l) -> om_lower_bound k l = (a, b) ->
  exists v b', b = (k, v) :: b' /\ l = a ++ b /\
    Forall (fun e => e.1 < k) a /\ Forall (fun e => k < e.1) b'.
Proof.
  intros Hs [v Hv] Hlb. destruct (om_update_split k l Hs) as (a'&b'&Hl&Hlb'&_&_&Ha&Hb).
  rewrite Hv in *. rewrite Hlb in Hlb'. simplify_eq/=. exists v, b'. by split_and!.
Qed.

Lemma at_from_prefix d a b page :
  om_sorted (a ++ b) -> Forall (fun e => page < e.1) b ->
  at_from d (a ++ b) page = at_from d a page.
Proof.
  intros Hs Hb. destruct (Forall_or_Exists_le a page) as [Hle|Hex].
  - rewrite at_from_app by done. by apply at_from_above.
  - by apply at_from_cut.
Qed.

Lemma mapped_keys (f : state -> state) (a i c : ranges) :
  (a ++ ((fun e => (e.1, f e.2)) <$> i) ++ c).*1 = (a ++ i ++ c).*1.
Proof. rewrite !fmap_app. do 2 f_equal. by rewrite <- list_fmap_compose. Qed.

(** The three parts the update loop sees. *)
Lemma update_parts first last (l : ranges) :
  om_sorted l -> is_Some (om_find first l) -> is_Some (om_find last l) -> first < last ->
  exists a v ins w after,
    l = a ++ ((first, v) :: ins) ++ (last, w) :: after /\
    (forall f, update_between first last f l =
      a ++ ((fun e => (e.1, f e.2)) <$> ((first, v) :: ins)) ++ (last, w) :: after) /\
    Forall (fun e => e.1 < first) a /\
    Forall (fun e => first <= e.1 < last) ((first, v) :: ins) /\
    Forall (fun e => last <= e.1) ((last, w) :: after).
Proof.
  intros Hs Hf Hl Hlt. unfold update_between.
  destruct (om_lower_bound first l) as [a rest] eqn:Hlb1.
  destruct (lower_bound_at _ _ _ _ Hs Hf Hlb1) as (v&rest'&->&Hl1&Ha&Hrest).
  pose proof Hs as Hs'. rewrite Hl1 in Hs'. apply om_sorted_app in Hs' as (_&Hsr&_).
  assert (is_Some (om_find last ((first, v) :: rest'))) as Hlr.
  { rewrite Hl1, om_find_app, om_find_None in Hl; [done|]. intros e He.
    rewrite Forall_forall in Ha. specialize (Ha _ He). lia. }
  destruct (om_lower_bound last ((first, v) :: rest')) as [ins after] eqn:Hlb2.
  destruct (lower_bound_at _ _ _ _ Hsr Hlr Hlb2) as (w&after'&->&Hl2&Hi&Haf).
  destruct ins as [|x ins]; simpl in Hl2; [simplify_eq; lia|].
  injection Hl2 as <- Hl2. subst rest'. exists a, v, ins, w, after'.
  apply Forall_app in Hrest as [Hri _]. apply Forall_cons in Hi as [_ Hi].
  split_and!; [done..| |].
  - constructor; [simpl; lia|]. rewrite Forall_forall in *. intros e He.
    specialize (Hri _ He). specialize (Hi _ He). lia.
  - constructor; [simpl; lia|]. forall_lia Haf.
Qed.

Lemma update_between_spec first last f l :
  adv_wf l -> is_Some (om_find first l) -> is_Some (om_find last l) -> first < last ->
  adv_wf (update_between first last f l) /\
  forall p, state_at (update_between first last f l) p =
    if (first <=? p) && (p <? last) then f (state_at l p) else state_at l p.
Proof.
  intros [Hs Hhd] Hf Hl Hlt.
  destruct (update_parts _ _ _ Hs Hf Hl Hlt) as (a&v&ins&w&after&Hl1&->&Ha&Hi&Haf).
  pose proof (mapped_keys f a ((first, v) :: ins) ((last, w) :: after)) as Hkeys.
  subst l. symmetry in Hkeys. pose proof (om_sorted_keys _ _ Hkeys Hs) as Hs'.
  split; [split; [done|by destruct a]|]. intros p. rewrite !state_at_from.
  clear Hkeys. set (ins' := (fun e => (e.1, f e.2)) <$> ((first, v) :: ins)) in *.
  assert (Forall (fun e => first <= e.1 < last) ins') as Hi' by (by apply Forall_fmap).
  destruct (Z.leb_spec first p) as [Hfp|Hfp]; simpl andb.
  2:{ rewrite !at_from_prefix; [done|done| |done|]; (apply Forall_app; split);
      solve [forall_lia Hi|forall_lia Hi'|forall_lia Haf]. }
  assert (Forall (fun e => e.1 <= p) a) as Hap by (forall_lia Ha).
  rewrite !(at_from_app _ a) by done. set (d := at_from default_state a p).
  apply om_sorted_app in Hs as (_&Hs&_). apply om_sorted_app in Hs' as (_&Hs'&_).
  destruct (Z.ltb_spec p last) as [Hpl|Hpl].
  - rewrite !at_from_prefix; try done; try (forall_lia Haf).
    rewrite <- (at_from_map f). by apply at_from_irrel.
  - assert (forall x : ranges, Forall (fun e => first <= e.1 < last) x ->
      Forall (fun e => e.1 <= p) x) as Hxp.
    { intros x Hx. forall_lia Hx. }
    rewrite !at_from_app by (by apply Hxp). by apply at_from_irrel.
Qed.

Lemma coalesce_from_Forall (P : Z * state -> Prop) v l :
  Forall P l -> Forall P (coalesce_from v l).
Proof.
  intros HP. revert v. induction HP as [|e l He _ IH]; intros v; simpl; [constructor|].
  case_bool_decide; [by apply IH|by constructor].
Qed.

Lemma coalesce_from_sorted v l : om_sorted l -> om_sorted (coalesce_from v l).
Proof.
  revert v. induction l as [|e l IH]; intros v; simpl; [done|].
  rewrite om_sorted_cons. intros [Hs Hlt]. case_bool_decide; [by apply IH|].
  apply om_sorted_cons. split; [by apply IH|by apply coalesce_from_Forall].
Qed.

Lemma coalesce_from_distinct v l : distinct_from v (coalesce_from v l).
Proof.
  revert v. induction l as [|e l IH]; intros v; simpl; [done|].
  case_bool_decide as Hv; [apply IH|]. simpl. split; [done|apply IH].
Qed.

Lemma coalesce_spec l :
  adv_wf l ->
  adv_wf (coalesce l) /\ adv_minimal (coalesce l) /\
  forall p, state_at (coalesce l) p = state_at l p.
Proof.
  intros [Hs Hhd]. destruct l as [|e l]; [done|]. simpl in *.
  apply om_sorted_cons in Hs as [Hs Hlt]. split_and!.
  - split; [|done]. apply om_sorted_cons.
    split; [by apply coalesce_from_sorted|by apply coalesce_from_Forall].
  - apply coalesce_from_distinct.
  - intros p. rewrite !state_at_from. simpl. case_if; [by apply at_from_coalesce|done].
Qed.

(** The argument check shared by [advise] and [query]: the byte range is not
    empty and ends below the top of the address space. *)
Definition range_ok (offset count page_size : Z) : Prop :=
  0 < count /\ 0 < page_size /\ offset + count < 2 ^ 64.

Lemma range_check offset count page_size :
  is_u64 offset -> is_u64 count -> is_u64 page_size ->
  (count =? 0) || (page_size =? 0) || (wrap64 (2 ^ 64 - 1 - offset) <? count) = false <->
  range_ok offset count page_size.
Proof.
  unfold is_u64, range_ok. intros ???. rewrite wrap64_id by (unfold is_u64; lia).
  rewrite !orb_false_iff, !Z.eqb_neq, Z.ltb_ge. lia.
Qed.

(** The last page of a valid range, as the code computes it. *)
Lemma last_page_eq offset count page_size :
  is_u64 offset -> range_ok offset count page_size ->
  wrap64 (wrap64 (offset + count) - 1) / page_size = (offset + count - 1) / page_size /\
  wrap64 ((offset + count - 1) / page_size + 1) = (offset + count - 1) / page_size + 1 /\
  0 <= offset / page_size <= (offset + count - 1) / page_size.
Proof.
  unfold is_u64, range_ok. intros ??.
  rewrite (wrap64_id (offset + count)) by (unfold is_u64; lia).
  rewrite wrap64_id by (unfold is_u64; lia).
  assert ((offset + count - 1) / page_size <= offset + count - 1) by (apply Z.div_le_upper_bound; nia).
  assert (0 <= offset / page_size) by (apply Z.div_pos; lia).
  assert (offset / page_size <= (offset + count - 1) / page_size) by (apply Z.div_le_mono; lia).
  rewrite wrap64_id by (unfold is_u64; lia). lia.
Qed.

Lemma advise_success offset count page_size advice device l :
  adv_wf l -> is_u64 offset -> is_u64 count -> is_u64 page_size ->
  range_ok offset count page_size -> advice <> CU_MEM_ADVISE_OUT_OF_RANGE ->
  exists l', advise offset count page_size advice device l = (ADVICE_SUCCESS, l') /\
    adv_wf l' /\ adv_minimal l' /\
    forall p, 0 <= p -> state_at l' p =
      if (offset / page_size <=? p) && (p <=? (offset + count - 1) / page_size)
      then apply_advice advice device (state_at l p) else state_at l p.
Proof.
  intros Hwf Ho Hc Hp Hok Hadv. unfold advise.
  rewrite (proj2 (range_check _ _ _ Ho Hc Hp)) by done.
  destruct (last_page_eq _ _ _ Ho Hok) as (->&->&Hle). simpl.
  set (first := offset / page_size) in *. set (lastp := (offset + count - 1) / page_size) in *.
  destruct (split_spec first l Hwf ltac:(lia)) as (Hwf1&Hf1&_&Hst1).
  destruct (split_spec (lastp + 1) _ Hwf1 ltac:(lia)) as (Hwf2&Hl2&Hmono2&Hst2).
  destruct (update_between_spec first (lastp + 1) (apply_advice advice device) _ Hwf2
    (Hmono2 _ Hf1) Hl2 ltac:(lia)) as [Hwf3 Hst3].
  destruct (coalesce_spec _ Hwf3) as (Hwf4&Hmin&Hst4).
  eexists. split; [by destruct advice|]. split_and!; [done..|]. intros p Hpp.
  rewrite Hst4, Hst3, Hst2, Hst1 by lia.
  replace (p <? lastp + 1) with (p <=? lastp); [done|].
  apply eq_bool_prop_intro. rewrite !Is_true_true, Z.leb_le, Z.ltb_lt. lia.
Qed.

(** * Queries *)

Lemma merge_until_Forall last_page v (l : ranges) (P : state -> Prop) :
  om_sorted l ->
  (forall a b, P (merge_state a b) <-> P a /\ P b) ->
  P (merge_until last_page v l) <->
  P v /\ forall e, e ∈ l -> e.1 <= last_page -> P e.2.
Proof.
  intros Hs HP. revert v. induction l as [|e l IH]; intros v; simpl.
  - split; [|tauto]. intros Hv. split; [done|]. intros e He. by apply not_elem_of_nil in He.
  - apply om_sorted_cons in Hs as [Hs Hlt]. case_if.
    + rewrite IH, HP by done. split.
      * intros [[Hv He] Hall]. split; [done|]. intros x [->|Hx]%elem_of_cons; auto.
      * intros [Hv Hall]. split_and!; [done|apply Hall; [by left|done]|].
        intros x Hx. apply Hall. by right.
    + split; [|tauto]. intros Hv. split; [done|]. intros x [->|Hx]%elem_of_cons Hle; [lia|].
      rewrite Forall_forall in Hlt. specialize (Hlt _ Hx). lia.
Qed.

(** The entries a query visits are exactly the states its pages have. *)
Lemma query_pages first last_page l before after it (P : state -> Prop) :
  adv_wf l -> 0 <= first <= last_page -> om_upper_bound first l = (before, after) ->
  last before = Some it ->
  (P it.2 /\ forall e, e ∈ after -> e.1 <= last_page -> P e.2) <->
  forall p, first <= p <= last_page -> P (state_at l p).
Proof.
  intros [Hs Hhd] Hle Hub Hlast.
  assert (forall p, first <= p -> state_at l p = at_from it.2 after p) as Hat.
  { intros p Hp. unfold om_upper_bound in Hub.
    destruct (om_lower_bound_spec _ _ _ _ Hs Hub) as (Hl&Hb&_).
    rewrite state_at_from, Hl, at_from_app by forall_lia Hb. f_equal.
    apply last_Some in Hlast as [b ->]. apply Forall_app in Hb as [Hb Hit].
    rewrite Forall_singleton in Hit. rewrite at_from_app by forall_lia Hb. simpl.
    by rewrite (proj2 (Z.leb_le _ _)) by lia. }
  unfold om_upper_bound in Hub.
  destruct (om_lower_bound_spec _ _ _ _ Hs Hub) as (Hl&_&Ha). rewrite Hl in Hs.
  apply om_sorted_app in Hs as (_&Hsa&_). clear Hl Hub Hhd Hlast.
  split.
  - intros [Hit Hafter] p [Hp1 Hp2]. rewrite Hat by done.
    revert Hit Hafter. generalize it.2. clear Ha Hat. induction after as [|e after IH];
      intros v Hv Hafter; simpl; [done|]. apply om_sorted_cons in Hsa as [Hsa _].
    case_if; [|done]. apply IH; [done|apply Hafter; [by left|lia]|].
    intros x Hx. apply Hafter. by right.
  - intros Hall. split.
    + specialize (Hall first ltac:(lia)). rewrite Hat, at_from_above in Hall; [done| |lia].
      forall_lia Ha.
    + intros e He Hep. apply list_elem_of_split in He as (l1&l2&->).
      apply Forall_app in Ha as [_ Ha]. apply Forall_cons in Ha as [Hfe _].
      specialize (Hall e.1 ltac:(lia)). rewrite Hat in Hall by lia.
      apply om_sorted_app in Hsa as (_&Hse&Hlt). apply om_sorted_cons in Hse as [_ Hgt].
      rewrite at_from_app in Hall.
      * simpl in Hall. rewrite (proj2 (Z.leb_le _ _)), at_from_above in Hall by done. done.
      * apply Forall_forall. intros x Hx. enough (x.1 < e.1) by lia. apply Hlt; [done|by left].
Qed.

Lemma query_value_Forall offset count page_size l (P : state -> Prop) :
  adv_wf l -> is_u64 offset -> range_ok offset count page_size ->
  (forall a b, P (merge_state a b) <-> P a /\ P b) ->
  P (query_value offset count page_size l) <->
  forall p, offset / page_size <= p <= (offset + count - 1) / page_size -> P (state_at l p).
Proof.
  intros Hwf Ho Hok HP. destruct (last_page_eq _ _ _ Ho Hok) as (Hlp&_&Hle).
  unfold query_value. destruct l as [|e l].
  { split; [done|]. intros Hall. apply (Hall (offset / page_size)). lia. }
  destruct (om_upper_bound (offset / page_size) (e :: l)) as [before after] eqn:Hub.
  destruct (last before) as [it|] eqn:Hlast.
  - rewrite Hlp, merge_until_Forall; [by apply (query_pages _ _ _ before)| |done].
    destruct Hwf as [Hs _]. destruct (om_lower_bound_spec _ _ _ _ Hs Hub) as (Hl&_&_).
    rewrite Hl in Hs. by apply om_sorted_app in Hs as (_&?&_).
  - exfalso. unfold om_upper_bound in Hub. simpl in Hub. destruct Hwf as [_ Hhd].
    rewrite Hhd, (proj2 (Z.ltb_lt _ _)) in Hub by lia.
    destruct (om_lower_bound _ l) as [a b]. simplify_eq/=. rewrite last_cons in Hlast.
    by destruct (last a).
Qed.

Lemma merge_preferred d a b :
  d <> CU_DEVICE_INVALID ->
  preferred (merge_state a b) = d <-> preferred a = d /\ preferred b = d.
Proof. intros Hd. simpl. case_if; [split; [by intros; split; congruence|by intros [??]]|]. split; [by intros|]. intros [??]; congruence. Qed.

Lemma query_unfold data_size attribute offset count page_size l :
  is_u64 offset -> is_u64 count -> is_u64 page_size -> range_ok offset count page_size ->
  supports attribute = true -> 0 < data_size -> data_size mod 4 = 0 ->
  (is_accessed_by attribute = false -> data_size = 4) ->
  query true data_size attribute offset count page_size l =
  (ADVICE_SUCCESS,
   if is_accessed_by attribute
   then accessed_by_output (Z.to_nat (data_size / 4))
          (accessed_by (query_value offset count page_size l))
   else [match attribute with
         | CU_MEM_RANGE_ATTRIBUTE_READ_MOSTLY =>
             Z.b2z (read_mostly (query_value offset count page_size l))
         | _ => preferred (query_value offset count page_size l)
         end]).
Proof.
  intros Ho Hc Hp Hok Hsup Hds Hmod H4. unfold query.
  rewrite (proj2 (range_check _ _ _ Ho Hc Hp)) by done. rewrite Hsup. simpl.
  rewrite (proj2 (Z.eqb_neq data_size 0)), Hmod by lia. simpl.
  destruct (is_accessed_by attribute); simpl; [done|]. by rewrite H4.
Qed.

Lemma set_order_perm s : set_order s ≡ₚ elements s.
Proof. unfold set_order. apply merge_sort_Permutation. Qed.

(** The GPU ordinals of a device set in iteration order. *)
Definition gpu_ordinals (devices : gset Z) : list Z :=
  List.filter (fun d => 0 <=? d) (set_order devices).

Lemma gpu_ordinals_elem devices d : d ∈ gpu_ordinals devices <-> d ∈ devices /\ 0 <= d.
Proof.
  unfold gpu_ordinals. rewrite list_elem_of_In, List.filter_In, <- list_elem_of_In.
  by rewrite set_order_perm, elem_of_elements, Z.leb_le.
Qed.

(** The CPU entry is never one of them, so it still has a slot. *)
Lemma gpu_ordinals_length devices :
  Z.of_nat (length (gpu_ordinals devices))
    + Z.b2z (bool_decide (CU_DEVICE_CPU ∈ devices)) <= Z.of_nat (size devices).
Proof.
  unfold gpu_ordinals.
  pose proof (List.filter_length (fun d => 0 <=? d) (set_order devices)) as Hsum.
  assert (length (set_order devices) = size devices) as Hsz by (by rewrite set_order_perm).
  rewrite Hsz in Hsum. case_bool_decide as Hin; unfold Z.b2z; [|lia].
  destruct (List.filter (fun x => negb (0 <=? x)) (set_order devices)) as [|x r] eqn:E;
    [|simpl in Hsum; lia].
  assert (In CU_DEVICE_CPU []) as []. rewrite <- E. apply List.filter_In.
  rewrite <- list_elem_of_In, set_order_perm, elem_of_elements. split; [done|].
  apply negb_true_iff, Z.leb_gt, cu_device_cpu_neg.
Qed.

Lemma accessed_by_output_length slots devices :
  length (accessed_by_output slots devices) = slots.
Proof.
  unfold accessed_by_output. fold (gpu_ordinals devices).
  pose proof (length_take (gpu_ordinals devices) slots). rewrite !length_app, length_replicate.
  destruct (bool_decide _ && _) eqn:E; simpl;
    [apply andb_true_iff in E as [_ E%Nat.ltb_lt]|]; lia.
Qed.

Lemma accessed_by_output_sound slots devices d :
  d ∈ accessed_by_output slots devices ->
  d = CU_DEVICE_INVALID \/ (d ∈ devices /\ (0 <= d \/ d = CU_DEVICE_CPU)).
Proof.
  unfold accessed_by_output. fold (gpu_ordinals devices).
  rewrite !elem_of_app. intros [Hd|[Hd|Hd]].
  - right. apply elem_of_take in Hd as (i&Hi&_).
    apply list_elem_of_lookup_2, gpu_ordinals_elem in Hi. tauto.
  - case_if_in Hd; [|by apply not_elem_of_nil in Hd].
    apply list_elem_of_singleton in Hd as ->. right. split; [done|by right].
  - apply elem_of_replicate in Hd as [-> _]. by left.
Qed.

Lemma accessed_by_output_complete slots devices d :
  Z.of_nat (size devices) <= Z.of_nat slots -> d ∈ devices -> 0 <= d \/ d = CU_DEVICE_CPU ->
  d ∈ accessed_by_output slots devices.
Proof.
  intros Hsl Hin Hd. pose proof (gpu_ordinals_length devices) as Hlen.
  unfold accessed_by_output. fold (gpu_ordinals devices).
  assert (0 <= Z.b2z (bool_decide (CU_DEVICE_CPU ∈ devices))).
  { destruct (bool_decide _); unfold Z.b2z; lia. }
  rewrite take_ge by lia. rewrite !elem_of_app. destruct Hd as [Hd| ->].
  - left. by apply gpu_ordinals_elem.
  - right. left. rewrite bool_decide_true in * by done. unfold Z.b2z in Hlen.
    rewrite (proj2 (Nat.ltb_lt _ _)) by lia. by apply list_elem_of_singleton.
Qed.

(** * Theorems *)

(** A valid [advise] call succeeds, changes the advice of exactly the pages
    its byte range touches, leaves every other page alone, and keeps the range
    map well formed (sorted from page 0) and minimal (no two neighbours equal). *)
Theorem advise_updates_pages (l : ranges) (offset count page_size : Z)
    (advice : CUmem_advise) (device : Z)
    (Hwf : adv_wf l) (Ho : is_u64 offset) (Hc : is_u64 count) (Hp : is_u64 page_size)
    (Hok : range_ok offset count page_size) (Hadv : advice <> CU_MEM_ADVISE_OUT_OF_RANGE) :
  let '(result, l') := advise offset count page_size advice device l in
  result = ADVICE_SUCCESS /\ adv_wf l' /\ adv_minimal l' /\
  forall page, 0 <= page ->
    state_at l' page =
    if (offset / page_size <=? page) && (page <=? (offset + count - 1) / page_size)
    then apply_advice advice device (state_at l page) else state_at l page.
Proof.
  destruct (advise_success offset count page_size advice device l) as (l'&->&?); done.
Qed.

(** [advise] and [query] refuse an empty range, a zero page size, a range
    that runs past the top of the address space and an unknown advice, and a
    refused [advise] changes nothing. *)
Theorem advice_rejects (l : ranges) (offset count page_size : Z) (advice : CUmem_advise)
    (device data_size : Z) (data : bool) (attribute : CUmem_range_attribute)
    (Ho : is_u64 offset) (Hc : is_u64 count) (Hp : is_u64 page_size) :
  (~ range_ok offset count page_size \/ advice = CU_MEM_ADVISE_OUT_OF_RANGE ->
   advise offset count page_size advice device l = (ADVICE_INVALID_VALUE, l)) /\
  (~ range_ok offset count page_size \/ data = false \/ supports attribute = false \/
   data_size mod 4 <> 0 ->
   query data data_size attribute offset count page_size l = (ADVICE_INVALID_VALUE, [])).
Proof.
  pose proof (range_check offset count page_size Ho Hc Hp) as Hrc. unfold advise, query.
  destruct ((count =? 0) || (page_size =? 0) || (wrap64 (2 ^ 64 - 1 - offset) <? count)).
  - split; done.
  - split.
    + intros [[]| ->]; [by apply Hrc|done].
    + intros [[]|[->|[->|Hmod]]]; [by apply Hrc|simpl; done|simpl; by rewrite orb_true_r|].
      rewrite (proj2 (Z.eqb_neq (data_size mod 4) 0)) by done.
      simpl. by rewrite !orb_true_r.
Qed.

(** A valid [query] reports what holds on every page of its range: the
    read-mostly flag is set iff all pages have it, a preferred location other
    than the invalid device is reported iff all pages prefer it, and the
    accessed-by output (padded to the caller's slots) lists a device iff every
    page lists it, when it has room. *)
Theorem query_combines_pages (l : ranges) (offset count page_size slots : Z)
    (Hwf : adv_wf l) (Ho : is_u64 offset) (Hc : is_u64 count) (Hp : is_u64 page_size)
    (Hok : range_ok offset count page_size) (Hslots : 0 < slots) :
  let pages p := offset / page_size <= p <= (offset + count - 1) / page_size in
  (exists b, query true 4 CU_MEM_RANGE_ATTRIBUTE_READ_MOSTLY offset count page_size l =
     (ADVICE_SUCCESS, [Z.b2z b]) /\
     (b = true <-> forall p, pages p -> read_mostly (state_at l p) = true)) /\
  (exists d, query true 4 CU_MEM_RANGE_ATTRIBUTE_PREFERRED_LOCATION offset count page_size l =
     (ADVICE_SUCCESS, [d]) /\
     forall d', d' <> CU_DEVICE_INVALID ->
       d = d' <-> forall p, pages p -> preferred (state_at l p) = d') /\
  (exists (out : list Z) (devices : gset Z),
     query true (4 * slots) CU_MEM_RANGE_ATTRIBUTE_ACCESSED_BY offset count page_size l =
     (ADVICE_SUCCESS, out) /\ Z.of_nat (length out) = slots /\
     (forall d, d ∈ devices <-> forall p, pages p -> d ∈ accessed_by (state_at l p)) /\
     (forall d, d ∈ out -> d <> CU_DEVICE_INVALID -> d ∈ devices) /\
     (Z.of_nat (size devices) <= slots -> forall d, 0 <= d \/ d = CU_DEVICE_CPU ->
        d ∈ devices -> d ∈ out)).
Proof.
  intros pages. pose proof (query_value_Forall offset count page_size l) as HF.
  set (v := query_value offset count page_size l) in *. split_and!.
  - exists (read_mostly v). split; [by apply query_unfold|].
    apply (HF (fun s => read_mostly s = true)); [done..|]. intros a b. simpl. by rewrite andb_true_iff.
  - exists (preferred v). split; [by apply query_unfold|]. intros d' Hd'.
    apply (HF (fun s => preferred s = d')); [done..|]. intros. by apply merge_preferred.
  - exists (accessed_by_output (Z.to_nat slots) (accessed_by v)), (accessed_by v). split_and!.
    + rewrite query_unfold; [simpl|done..|lia| |done].
      * f_equal. f_equal. rewrite Z.mul_comm, Z.div_mul by lia. done.
      * rewrite Z.mul_comm. apply Z.mod_mul. lia.
    + rewrite accessed_by_output_length. lia.
    + intros d. apply (HF (fun s => d ∈ accessed_by s)); [done..|]. intros a b. simpl.
      rewrite elem_of_filter. tauto.
    + intros d [?|[? _]]%accessed_by_output_sound Hne; done.
    + intros Hsz d Hd Hin. apply accessed_by_output_complete; [lia|done..].
Qed.
End Advice.

#[local] Existing Instance documented_device_ids.

Lemma empty_wf : adv_wf [].
Proof. split; [constructor|done]. Qed.

Lemma advise_updates_pages_witness :
  let '(result, l') :=
    advise 4096 8192 4096 CU_MEM_ADVISE_SET_READ_MOSTLY 0 [] in
  result = ADVICE_SUCCESS /\ adv_wf l' /\ adv_minimal l' /\
  forall page, 0 <= page ->
    state_at l' page =
    if (1 <=? page) && (page <=? 2)
    then apply_advice CU_MEM_ADVISE_SET_READ_MOSTLY 0 (state_at [] page) else state_at [] page.
Proof.
  apply (advise_updates_pages [] 4096 8192 4096 CU_MEM_ADVISE_SET_READ_MOSTLY 0);
    [apply empty_wf|unfold is_u64; lia..|unfold range_ok; lia|done].
Defined.

Lemma advice_rejects_witness :
  advise (2 ^ 64 - 4096) 4096 4096 CU_MEM_ADVISE_SET_READ_MOSTLY 0 [] =
    (ADVICE_INVALID_VALUE, []).
Proof.
  apply (advice_rejects [] (2 ^ 64 - 4096) 4096 4096 CU_MEM_ADVISE_SET_READ_MOSTLY 0 4 true
           CU_MEM_RANGE_ATTRIBUTE_READ_MOSTLY); [unfold is_u64; lia..|].
  left. unfold range_ok. lia.
Defined.

Lemma query_combines_pages_witness :
  exists d, query true 4 CU_MEM_RANGE_ATTRIBUTE_PREFERRED_LOCATION 4096 8192 4096
    [(0, default_state)] = (ADVICE_SUCCESS, [d]) /\
    (d = 5 <-> forall p, 1 <= p <= 2 -> preferred (state_at [(0, default_state)] p) = 5).
Proof.
  destruct (query_combines_pages [(0, default_state)] 4096 8192 4096 2) as (_&(d&Hq&Hd)&_);
    [split; [repeat constructor|done]|unfold is_u64; lia..|unfold range_ok; lia|lia|].
  exists d. split; [exact Hq|]. apply Hd. simpl. lia.
Defined.
