(* ===== verification/Events.v ===== *)
(** [events.cpp]: the client's cache of event completion.  The table operations
    are modelled one by one; the concurrent protocol around them (a stamp taken
    before the table lock, queries in flight while events are re-recorded,
    evicted or destroyed) is a step relation, over which a locally answered
    query is proved to be about the event's current record. *)
From S2P Require Import Prelude.

Definition kLupineEventQueryBatch : nat := 16.

Record lupine_event_slot := EventSlot {
  slot_event : Z;
  slot_record : Z;
  slot_complete : bool;
}.

Definition empty_slot : lupine_event_slot := EventSlot 0 0 false.

Record lupine_event_table := EventTable {
  slots : list lupine_event_slot;
  record_seq : Z;
  stale_semaphore : Z;
}.

Definition initial_event_table : lupine_event_table :=
  EventTable (replicate kLupineEventQueryBatch empty_slot) 0 0.

Definition set_slots (l : list lupine_event_slot) (t : lupine_event_table) :=
  EventTable l (record_seq t) (stale_semaphore t).

(** * Operations *)

(** [record_seq.fetch_add(1) + 1], which runs before the lock is taken. *)
Definition fetch_record (t : lupine_event_table) : Z * lupine_event_table :=
  let next := wrap64 (record_seq t + 1) in
  (next, EventTable (slots t) next (stale_semaphore t)).

(** The loop of [lupine_event_invalidate_completion]: the index of the slot that
    is overwritten, either the event's own or the first with the smallest
    record, which starts as slot 0. *)
Fixpoint find_victim (event : Z) (i victim : nat) (victim_record : Z)
    (l : list lupine_event_slot) : nat :=
  match l with
  | [] => victim
  | s :: l' =>
      if slot_event s =? event then i
      else if slot_record s <? victim_record
           then find_victim event (S i) i (slot_record s) l'
           else find_victim event (S i) victim victim_record l'
  end.

Definition victim_index (event : Z) (l : list lupine_event_slot) : nat :=
  find_victim event 0 0 (match l with s :: _ => slot_record s | [] => 0 end) l.

(** The locked part of [lupine_event_invalidate_completion]. *)
Definition install_record (event record : Z) (t : lupine_event_table) : lupine_event_table :=
  set_slots (<[victim_index event (slots t) := EventSlot event record false]> (slots t)) t.

Definition lupine_event_invalidate_completion (event : Z) (t : lupine_event_table)
    : lupine_event_table :=
  let '(record, t) := fetch_record t in install_record event record t.

Definition lupine_event_forget (event : Z) (t : lupine_event_table) : lupine_event_table :=
  set_slots ((fun s => if slot_event s =? event then empty_slot else s) <$> slots t) t.

(** The first slot of an event. *)
Fixpoint find_slot (event : Z) (l : list lupine_event_slot) : option lupine_event_slot :=
  match l with
  | [] => None
  | s :: l' => if slot_event s =? event then Some s else find_slot event l'
  end.

(** Whether the query must reach the server, and the stamp handed back. *)
Definition lupine_event_query_needed (event : Z) (t : lupine_event_table) : bool * Z :=
  let copies_owed := negb (stale_semaphore t =? 0) in
  match find_slot event (slots t) with
  | Some s => (copies_owed || negb (slot_complete s), slot_record s)
  | None => (true, 0)
  end.

Fixpoint collect_batch (exclude conn : Z) (resolver : Z -> Z) (room : nat)
    (l : list lupine_event_slot) : list (Z * Z) :=
  match room, l with
  | S room', s :: l' =>
      if (slot_event s =? 0) || (slot_event s =? exclude) || slot_complete s
         || negb (resolver (slot_event s) =? conn)
      then collect_batch exclude conn resolver room l'
      else (slot_event s, slot_record s) :: collect_batch exclude conn resolver room' l'
  | _, _ => []
  end.

Definition lupine_event_collect_query_batch (exclude conn : Z) (resolver : Z -> Z)
    (t : lupine_event_table) : list (Z * Z) :=
  collect_batch exclude conn resolver kLupineEventQueryBatch (slots t).

(** Marks the first slot that holds this event and this record. *)
Fixpoint mark_complete (event record : Z) (l : list lupine_event_slot)
    : list lupine_event_slot :=
  match l with
  | [] => []
  | s :: l' =>
      if (slot_event s =? event) && (slot_record s =? record)
      then EventSlot (slot_event s) (slot_record s) true :: l'
      else s :: mark_complete event record l'
  end.

(** One answer: event, record, and whether the result is [CUDA_SUCCESS]. *)
Definition cache_completion (l : list lupine_event_slot) (a : Z * Z * bool) :=
  let '(event, record, success) := a in
  if negb success || (record =? 0) then l else mark_complete event record l.

Definition lupine_event_cache_completions (answers : list (Z * Z * bool))
    (t : lupine_event_table) : lupine_event_table :=
  set_slots (foldl cache_completion (slots t) answers) t.

(** The compare-exchange loop, as its linearised effect: the retries only
    reload the current value. *)
Definition lupine_event_stale_semaphore_add (delta : Z) (t : lupine_event_table)
    : lupine_event_table :=
  let owed := stale_semaphore t in
  let owed' :=
    if 0 <=? delta then wrap64 (owed + delta)
    else
      let delivered := wrap64 (- delta) in
      if owed =? 0 then 0 else if owed <=? delivered then 0 else owed - delivered in
  EventTable (slots t) (record_seq t) owed'.

(** * The protocol *)

(** Besides the table: how often each event was recorded (its generation),
    stamps fetched but not yet installed, queries in flight with the generation
    current when they read the table, and the generations the server has
    reported complete. *)
Record event_sys := EventSys {
  sys_table : lupine_event_table;
  sys_gen : gmap Z Z;
  sys_fetched : list (Z * Z);
  sys_inflight : list (Z * Z * Z);
  sys_acked : gset (Z * Z);
}.

Definition gen (e : Z) (st : event_sys) : Z := default 0 (sys_gen st !! e).

Definition initial_event_sys : event_sys := EventSys initial_event_table ∅ [] [] ∅.

(** Handles are non-null; a null event is what an empty slot holds.  The recordings are those
    that pass through the table; cuCtxRecordEvent and the event nodes of a graph record an
    event without telling it. *)
Inductive event_step : event_sys -> event_sys -> Prop :=
  | step_fetch st e r t :
      e <> 0 -> fetch_record (sys_table st) = (r, t) ->
      event_step st
        (EventSys t (sys_gen st) ((e, r) :: sys_fetched st) (sys_inflight st) (sys_acked st))
  | step_install st e r f1 f2 :
      sys_fetched st = f1 ++ (e, r) :: f2 ->
      event_step st
        (EventSys (install_record e r (sys_table st)) (<[e := gen e st + 1]> (sys_gen st))
           (f1 ++ f2) (sys_inflight st) (sys_acked st))
  | step_query st e r :
      e <> 0 -> lupine_event_query_needed e (sys_table st) = (true, r) ->
      event_step st
        (EventSys (sys_table st) (sys_gen st) (sys_fetched st)
           ((e, r, gen e st) :: sys_inflight st) (sys_acked st))
  | step_batch st exclude conn resolver :
      event_step st
        (EventSys (sys_table st) (sys_gen st) (sys_fetched st)
           (((fun p => (p.1, p.2, gen p.1 st)) <$>
             lupine_event_collect_query_batch exclude conn resolver (sys_table st))
            ++ sys_inflight st) (sys_acked st))
  | step_answer st e r g q1 q2 success :
      sys_inflight st = q1 ++ (e, r, g) :: q2 ->
      event_step st
        (EventSys (lupine_event_cache_completions [(e, r, success)] (sys_table st))
           (sys_gen st) (sys_fetched st) (q1 ++ q2)
           (if success then {[(e, g)]} ∪ sys_acked st else sys_acked st))
  | step_forget st e :
      e <> 0 ->
      event_step st
        (EventSys (lupine_event_forget e (sys_table st)) (sys_gen st) (sys_fetched st)
           (sys_inflight st) (sys_acked st))
  | step_copies st delta :
      event_step st
        (EventSys (lupine_event_stale_semaphore_add delta (sys_table st)) (sys_gen st)
           (sys_fetched st) (sys_inflight st) (sys_acked st)).

(** * Slot lemmas *)

Definition unique_events (l : list lupine_event_slot) : Prop :=
  forall i j s s', l !! i = Some s -> l !! j = Some s' ->
    slot_event s = slot_event s' -> slot_event s <> 0 -> i = j.

Lemma find_victim_range e i v vr l :
  (v < i + length l)%nat -> (find_victim e i v vr l < i + length l)%nat.
Proof.
  revert i v vr. induction l as [|s l IH]; intros i v vr Hv; simpl in *; [lia|].
  destruct (slot_event s =? e); [lia|].
  destruct (slot_record s <? vr);
    replace (i + S (length l))%nat with (S i + length l)%nat by lia; apply IH; lia.
Qed.

Lemma victim_index_range e l : (0 < length l)%nat -> (victim_index e l < length l)%nat.
Proof. intros. unfold victim_index. by apply (find_victim_range e 0). Qed.

(** A tracked event's own slot is chosen. *)
Lemma find_victim_tracked e i v vr l j s :
  l !! j = Some s -> slot_event s = e ->
  exists k, find_victim e i v vr l = (i + k)%nat /\
    exists s', l !! k = Some s' /\ slot_event s' = e.
Proof.
  revert i v vr j. induction l as [|x l IH]; intros i v vr j Hj He; [done|]. simpl.
  destruct (Z.eqb_spec (slot_event x) e) as [Hx|Hx].
  - exists 0%nat. split; [lia|]. by exists x.
  - destruct j as [|j]; simpl in Hj; [simplify_eq; done|].
    assert (forall v' vr', exists k, find_victim e (S i) v' vr' l = (i + k)%nat /\
      exists s', (x :: l) !! k = Some s' /\ slot_event s' = e) as Hgo.
    { intros v' vr'. destruct (IH (S i) v' vr' j Hj He) as (k&->&s'&Hk&Hs').
      exists (S k). split; [lia|]. by exists s'. }
    by destruct (slot_record x <? vr).
Qed.

Lemma victim_index_tracked e l j s :
  unique_events l -> l !! j = Some s -> slot_event s = e -> e <> 0 -> victim_index e l = j.
Proof.
  intros Hu Hj He Hne. unfold victim_index.
  destruct (find_victim_tracked e 0 0 (match l with s :: _ => slot_record s | [] => 0 end)
    l j s Hj He) as (k&->&s'&Hk&Hs').
  apply (Hu k j s' s); congruence.
Qed.

(** After installing a record, every slot is either the new one or an old one
    of another event. *)
Lemma install_lookup e r l i s :
  unique_events l -> e <> 0 -> (0 < length l)%nat ->
  <[victim_index e l := EventSlot e r false]> l !! i = Some s ->
  (i = victim_index e l /\ s = EventSlot e r false) \/
  (i <> victim_index e l /\ l !! i = Some s /\ slot_event s <> e).
Proof.
  intros Hu Hne Hlen Hi. rewrite list_lookup_insert in Hi. case_decide as Hd.
  - destruct Hd as [-> _]. simplify_eq. by left.
  - right. assert (i <> victim_index e l) as Hiv.
    { intros ->. apply Hd. split; [done|by apply victim_index_range]. }
    split_and!; [done..|]. intros He. apply Hiv. symmetry.
    by eapply victim_index_tracked.
Qed.

Lemma find_slot_lookup e l s :
  find_slot e l = Some s -> slot_event s = e /\ exists i, l !! i = Some s.
Proof.
  induction l as [|x l IH]; simpl; [done|]. case_if.
  - intros [= <-]. split; [done|]. by exists 0%nat.
  - intros Hs. destruct (IH Hs) as [? [i Hi]]. split; [done|]. by exists (S i).
Qed.

Lemma collect_batch_lookup exclude conn resolver room l p :
  p ∈ collect_batch exclude conn resolver room l ->
  p.1 <> 0 /\ exists i s, l !! i = Some s /\ slot_event s = p.1 /\ slot_record s = p.2.
Proof.
  revert room. induction l as [|x l IH]; intros [|room]; simpl;
    try (intros Hp; by apply not_elem_of_nil in Hp).
  assert (forall room, p ∈ collect_batch exclude conn resolver room l ->
    p.1 <> 0 /\ exists i s, (x :: l) !! i = Some s /\ slot_event s = p.1 /\
      slot_record s = p.2) as Hgo.
  { intros room' Hp. destruct (IH _ Hp) as (?&i&s&?). split; [done|]. by exists (S i), s. }
  case_if; [apply Hgo|]. intros [->|Hp]%elem_of_cons; [|by apply (Hgo room)].
  simpl. split; [done|]. by exists 0%nat, x.
Qed.

Lemma mark_complete_lookup e r l i s :
  mark_complete e r l !! i = Some s ->
  exists s0, l !! i = Some s0 /\ slot_event s = slot_event s0 /\
    slot_record s = slot_record s0 /\
    (slot_complete s = true -> slot_complete s0 = true \/
       (slot_event s0 = e /\ slot_record s0 = r)).
Proof.
  revert i. induction l as [|x l IH]; intros i; simpl; [done|]. case_if.
  - destruct i as [|i]; simpl; intros Hi; simplify_eq/=.
    + exists x. split_and!; auto.
    + exists s. split_and!; auto.
  - destruct i as [|i]; simpl; intros Hi; [|by apply IH].
    simplify_eq. exists s. split_and!; auto.
Qed.

Lemma length_mark_complete e r l : length (mark_complete e r l) = length l.
Proof. induction l as [|x l IH]; simpl; [done|]. case_if; simpl; lia. Qed.

Lemma cache_completion_lookup e r success l i s :
  cache_completion l (e, r, success) !! i = Some s ->
  exists s0, l !! i = Some s0 /\ slot_event s = slot_event s0 /\
    slot_record s = slot_record s0 /\
    (slot_complete s = true -> slot_complete s0 = true \/
       (success = true /\ slot_event s0 = e /\ slot_record s0 = r)).
Proof.
  simpl. case_if; intros Hi.
  - exists s. split_and!; auto.
  - destruct (mark_complete_lookup _ _ _ _ _ Hi) as (s0&?&?&?&Hc).
    exists s0. split_and!; [done..|]. destruct success; [|done]. tauto.
Qed.

(** * The invariant *)

Record event_inv (n : Z) (st : event_sys) : Prop := {
  ei_seq : 0 <= record_seq (sys_table st) <= n;
  ei_len : (0 < length (slots (sys_table st)))%nat;
  ei_unique : unique_events (slots (sys_table st));
  ei_slots : forall i s, slots (sys_table st) !! i = Some s ->
    slot_record s <= record_seq (sys_table st) /\
    (slot_event s <> 0 -> 1 <= slot_record s);
  ei_fetched : forall e r, (e, r) ∈ sys_fetched st ->
    e <> 0 /\ 1 <= r <= record_seq (sys_table st) /\
    (forall i s, slots (sys_table st) !! i = Some s -> slot_record s <> r) /\
    (forall e' r' g, (e', r', g) ∈ sys_inflight st -> r' <> r);
  ei_fetched_distinct : NoDup (sys_fetched st).*2;
  ei_inflight : forall e r g, (e, r, g) ∈ sys_inflight st ->
    r <= record_seq (sys_table st) /\
    (forall i s, slots (sys_table st) !! i = Some s ->
       slot_event s = e -> slot_event s <> 0 -> slot_record s = r -> g = gen e st);
  ei_complete : forall i s, slots (sys_table st) !! i = Some s ->
    slot_event s <> 0 -> slot_complete s = true ->
    (slot_event s, gen (slot_event s) st) ∈ sys_acked st;
}.

Lemma event_inv_init : event_inv 0 initial_event_sys.
Proof.
  unfold initial_event_sys, initial_event_table. set (k := kLupineEventQueryBatch).
  assert (0 < k)%nat as Hk by (subst k; unfold kLupineEventQueryBatch; lia). clearbody k.
  split; simpl.
  - lia.
  - by rewrite length_replicate.
  - intros i j s s' [-> _]%lookup_replicate _ _ ?. done.
  - intros i s [-> _]%lookup_replicate. simpl. split; [lia|done].
  - intros e r Hin. by apply not_elem_of_nil in Hin.
  - constructor.
  - intros e r g Hin. by apply not_elem_of_nil in Hin.
  - intros i s [-> _]%lookup_replicate. done.
Qed.

Lemma gen_insert_ne (e e' : Z) (v : Z) m t f q a :
  e <> e' -> gen e' (EventSys t (<[e := v]> m) f q a) = default 0 (m !! e').
Proof. intros. unfold gen. simpl. by rewrite lookup_insert_ne. Qed.

Lemma step_fetch_inv n st e r t :
  event_inv n st -> n < 2 ^ 64 - 1 -> e <> 0 -> fetch_record (sys_table st) = (r, t) ->
  event_inv (n + 1)
    (EventSys t (sys_gen st) ((e, r) :: sys_fetched st) (sys_inflight st) (sys_acked st)).
Proof.
  intros [Hseq Hlen Hu Hs Hf Hfd Hq Hc] Hn He Hfetch. unfold fetch_record in Hfetch.
  rewrite wrap64_id in Hfetch by (unfold is_u64; lia). injection Hfetch as <- <-.
  split; simpl; [lia|done|done| | | | |done].
  - intros i s Hi. destruct (Hs i s Hi). split; [lia|done].
  - intros e' r' [[= -> ->]|Hin]%elem_of_cons.
    + split_and!; [done|lia|lia| |].
      * intros i s Hi. destruct (Hs i s Hi). lia.
      * intros e'' r'' g Hin. destruct (Hq _ _ _ Hin). lia.
    + destruct (Hf _ _ Hin) as (?&?&?&?). split_and!; [done|lia|lia|done|done].
  - apply NoDup_cons. split; [|done]. intros ([e' r']&Hr&Hin)%list_elem_of_fmap.
    simpl in Hr. destruct (Hf _ _ Hin) as (_&?&_). lia.
  - intros e' r' g Hin. destruct (Hq _ _ _ Hin). split; [lia|done].
Qed.

Lemma step_install_inv n st e r f1 f2 :
  event_inv n st -> sys_fetched st = f1 ++ (e, r) :: f2 ->
  event_inv n
    (EventSys (install_record e r (sys_table st)) (<[e := gen e st + 1]> (sys_gen st))
       (f1 ++ f2) (sys_inflight st) (sys_acked st)).
Proof.
  intros [Hseq Hlen Hu Hs Hf Hfd Hq Hc] Hfetched. rewrite Hfetched in *.
  destruct (Hf e r) as (Hne&Hr&Hrs&Hrq); [apply elem_of_app; right; by left|].
  assert (forall e' r', (e', r') ∈ f1 ++ f2 -> (e', r') ∈ f1 ++ (e, r) :: f2) as Hsub.
  { intros e' r'. rewrite !elem_of_app, elem_of_cons. tauto. }
  pose proof (fun i s => install_lookup e r (slots (sys_table st)) i s Hu Hne Hlen) as Hil.
  split; simpl; [done|by rewrite length_insert| | | | | |].
  - intros i j s s' Hi Hj Heq Hnz.
    apply Hil in Hi as [[-> ->]|(?&Hi&?)]; apply Hil in Hj as [[-> ->]|(?&Hj&?)];
      simpl in *; first [done | congruence | by eapply Hu].
  - intros i s [[-> ->]|(_&Hi&_)]%Hil; [simpl; lia|]. by apply Hs in Hi.
  - intros e' r' Hin. destruct (Hf _ _ (Hsub _ _ Hin)) as (?&?&Hrs'&?).
    split_and!; [done|lia|lia| |done]. intros i s [[-> ->]|(_&Hi&_)]%Hil; [|by eapply Hrs'].
    simpl. intros <-. rewrite fmap_app, fmap_cons in Hfd. simpl in Hfd.
    apply NoDup_app in Hfd as (_&Hd&Hfd). apply NoDup_cons in Hfd as [Hnin _].
    apply elem_of_app in Hin as [Hin|Hin].
    + apply (Hd r); [by apply (list_elem_of_fmap_2 snd) in Hin|by left].
    + apply Hnin. by apply (list_elem_of_fmap_2 snd) in Hin.
  - rewrite fmap_app, fmap_cons in *. simpl in Hfd.
    apply NoDup_app in Hfd as (?&Hd&Hfd). apply NoDup_cons in Hfd as [_ ?].
    apply NoDup_app. split_and!; [done| |done]. intros x Hx Hx2. apply (Hd x Hx). by right.
  - intros e' r' g Hin. destruct (Hq _ _ _ Hin) as [? Hg]. split; [done|].
    intros i s [[-> ->]|(_&Hi&Hse)]%Hil Hev Hnz Hrec; simpl in *.
    + exfalso. by eapply Hrq.
    + rewrite gen_insert_ne by congruence. by eapply Hg.
  - intros i s [[-> ->]|(_&Hi&Hse)]%Hil Hnz Hcomp; simpl in *; [done|].
    rewrite gen_insert_ne by congruence. by eapply Hc.
Qed.

(** Queries read their stamps from the table under its lock. *)
Lemma add_inflight_inv n st (new : list (Z * Z)) :
  event_inv n st ->
  (forall e r, (e, r) ∈ new -> r = 0 \/
     exists i s, slots (sys_table st) !! i = Some s /\ slot_record s = r) ->
  event_inv n
    (EventSys (sys_table st) (sys_gen st) (sys_fetched st)
       (((fun p => (p.1, p.2, gen p.1 st)) <$> new) ++ sys_inflight st) (sys_acked st)).
Proof.
  intros [Hseq Hlen Hu Hs Hf Hfd Hq Hc] Hnew.
  assert (forall e r g, (e, r, g) ∈ ((fun p => (p.1, p.2, gen p.1 st)) <$> new) ++ sys_inflight st ->
    ((e, r) ∈ new /\ g = gen e st) \/ (e, r, g) ∈ sys_inflight st) as Hsplit.
  { intros e r g [([e' r']&Heq&Hin)%list_elem_of_fmap|Hin]%elem_of_app; [|by right].
    simplify_eq/=. by left. }
  split; simpl; [done..| |done| |done].
  - intros e r Hin. destruct (Hf _ _ Hin) as (?&?&Hrs&Hrq). split_and!; [done|lia|lia|done|].
    intros e' r' g [[Hin' _]|Hin']%Hsplit; [|by eapply Hrq].
    destruct (Hnew _ _ Hin') as [->|(i&s&Hi&<-)]; [lia|by eapply Hrs].
  - intros e r g [[Hin ->]|Hin]%Hsplit; [|by apply Hq]. split; [|done].
    destruct (Hnew _ _ Hin) as [->|(i&s&Hi&<-)]; [lia|]. by destruct (Hs i s Hi).
Qed.

Lemma step_answer_inv n st e r g q1 q2 success :
  event_inv n st -> sys_inflight st = q1 ++ (e, r, g) :: q2 ->
  event_inv n
    (EventSys (lupine_event_cache_completions [(e, r, success)] (sys_table st))
       (sys_gen st) (sys_fetched st) (q1 ++ q2)
       (if success then {[(e, g)]} ∪ sys_acked st else sys_acked st)).
Proof.
  intros [Hseq Hlen Hu Hs Hf Hfd Hq Hc] Hin. rewrite Hin in *.
  assert (forall x, x ∈ q1 ++ q2 -> x ∈ q1 ++ (e, r, g) :: q2) as Hsub.
  { intros x. rewrite !elem_of_app, elem_of_cons. tauto. }
  pose proof (cache_completion_lookup e r success (slots (sys_table st))) as Hcl.
  split; simpl; [done| | | | |done| |].
  - case_if; [done|]. by rewrite length_mark_complete.
  - intros i j s s' Hi Hj Heq Hnz. apply Hcl in Hi as (s0&Hi&He&_&_).
    apply Hcl in Hj as (s1&Hj&He'&_&_). eapply (Hu i j); [done..|congruence|congruence].
  - intros i s Hi. apply Hcl in Hi as (s0&Hi&->&->&_). by apply Hs in Hi.
  - intros e' r' Hin'. destruct (Hf _ _ Hin') as (?&?&Hrs&Hrq). split_and!; [done|lia|lia| |].
    + intros i s Hi. apply Hcl in Hi as (s0&Hi&_&->&_). by eapply Hrs.
    + intros e'' r'' g' Hq'. eapply Hrq. by apply Hsub.
  - intros e' r' g' Hin'. destruct (Hq _ _ _ (Hsub _ Hin')) as [? Hg]. split; [done|].
    intros i s Hi. apply Hcl in Hi as (s0&Hi&->&->&_). by apply (Hg i).
  - intros i s Hi Hnz Hcomp. apply Hcl in Hi as (s0&Hi&He&Hr&Hor). rewrite He in *.
    destruct (Hor Hcomp) as [Hold|(->&He0&Hr0)].
    + specialize (Hc i s0 Hi Hnz Hold). unfold gen in *. simpl in *.
      destruct success; [apply elem_of_union; by right|done].
    + apply elem_of_union. left. apply elem_of_singleton. subst.
      assert (g = gen (slot_event s0) st) as ->; [|done].
      destruct (Hq (slot_event s0) (slot_record s0) g) as [_ Hg];
        [apply elem_of_app; right; by left|]. by eapply Hg.
Qed.

Lemma step_forget_inv n st e :
  event_inv n st -> e <> 0 ->
  event_inv n
    (EventSys (lupine_event_forget e (sys_table st)) (sys_gen st) (sys_fetched st)
       (sys_inflight st) (sys_acked st)).
Proof.
  intros [Hseq Hlen Hu Hs Hf Hfd Hq Hc] Hne.
  assert (forall i s,
    ((fun s => if slot_event s =? e then empty_slot else s) <$> slots (sys_table st)) !! i = Some s ->
    s = empty_slot \/ slots (sys_table st) !! i = Some s) as Hfl.
  { intros i s. rewrite list_lookup_fmap. intros (s0&Hs0&->)%fmap_Some. case_if; auto. }
  split; simpl; [done|by rewrite length_fmap| | | |done| |].
  - intros i j s s' [->|Hi]%Hfl Hj Heq Hnz; [done|].
    apply Hfl in Hj as [->|Hj]; [simpl in *; congruence|]. by eapply Hu.
  - intros i s [->|Hi]%Hfl; [simpl; split; [lia|done]|by apply Hs in Hi].
  - intros e' r' Hin. destruct (Hf _ _ Hin) as (?&?&Hrs&?). split_and!; [done|lia|lia| |done].
    intros i s [->|Hi]%Hfl; [simpl; lia|by eapply Hrs].
  - intros e' r' g Hin. destruct (Hq _ _ _ Hin) as [? Hg]. split; [done|].
    intros i s [->|Hi]%Hfl; [done|by apply (Hg i)].
  - intros i s [->|Hi]%Hfl; [done|by apply (Hc i)].
Qed.

Lemma event_inv_weaken n m st : event_inv n st -> n <= m -> event_inv m st.
Proof. intros [] ?. split; try done. lia. Qed.

Lemma query_needed_stamp e t r b :
  lupine_event_query_needed e t = (b, r) ->
  r = 0 \/ exists i s, slots t !! i = Some s /\ slot_record s = r.
Proof.
  unfold lupine_event_query_needed. destruct (find_slot e (slots t)) as [s|] eqn:Hs;
    intros [= _ <-]; [|by left].
  apply find_slot_lookup in Hs as (_&i&Hi). eauto.
Qed.

Lemma event_step_inv n st st' :
  event_inv n st -> n < 2 ^ 64 - 1 -> event_step st st' -> event_inv (n + 1) st'.
Proof.
  intros Hinv Hn Hstep. destruct Hstep as [st e r t|st e r f1 f2|st e r|st ex conn res
    |st e r g q1 q2 success|st e|st delta].
  - by apply step_fetch_inv.
  - apply (event_inv_weaken n); [by apply step_install_inv|lia].
  - apply (event_inv_weaken n); [|lia]. apply (add_inflight_inv _ _ [(e, r)] Hinv).
    intros e' r' [= -> ->]%list_elem_of_singleton. by eapply query_needed_stamp.
  - apply (event_inv_weaken n); [|lia]. apply add_inflight_inv; [done|].
    intros e r (_&i&s&Hi&_&Hr)%collect_batch_lookup. eauto.
  - apply (event_inv_weaken n); [by apply step_answer_inv|lia].
  - apply (event_inv_weaken n); [by apply step_forget_inv|lia].
  - apply (event_inv_weaken n); [|lia]. by destruct Hinv.
Qed.

Lemma event_steps_inv n st :
  nsteps event_step n initial_event_sys st -> Z.of_nat n < 2 ^ 64 - 1 ->
  event_inv (Z.of_nat n) st.
Proof.
  revert st. induction n as [|n IH]; intros st Hsteps Hn.
  - inversion Hsteps. subst. apply event_inv_init.
  - apply nsteps_inv_r in Hsteps as (st0&Hsteps&Hstep).
    rewrite Nat2Z.inj_succ, <- Z.add_1_r.
    apply (event_step_inv _ st0); [|lia|done]. apply IH; [done|lia].
Qed.

(** * Properties *)


(** An event recorded, queried and answered: the fourth state answers locally. *)
Definition answered_sys : event_sys :=
  EventSys (lupine_event_cache_completions [(7, 1, true)]
              (lupine_event_invalidate_completion 7 initial_event_table))
    {[7 := 1]} [] [] {[(7, 1)]}.

Lemma answered_sys_reachable : nsteps event_step 4 initial_event_sys answered_sys.
Proof.
  eapply nsteps_l; [by eapply (step_fetch _ 7)|].
  eapply nsteps_l; [by eapply (step_install _ 7 1 [] [])|].
  eapply nsteps_l; [by eapply (step_query _ 7 1)|].
  eapply nsteps_l; [by eapply (step_answer _ 7 1 1 [] [] true)|].
  apply nsteps_O.
Qed.


(** The counter of host copies owed counts exactly: adding saturates at
    zero from below and, while the true total fits 64 bits, never wraps. *)
Theorem stale_semaphore_saturates t delta :
  is_u64 (stale_semaphore t) -> - 2 ^ 63 < delta < 2 ^ 63 ->
  stale_semaphore t + delta < 2 ^ 64 ->
  stale_semaphore (lupine_event_stale_semaphore_add delta t) =
    Z.max 0 (stale_semaphore t + delta).
Proof.
  unfold is_u64. intros Ho Hd Hs. unfold lupine_event_stale_semaphore_add. simpl.
  case_if.
  - rewrite wrap64_id by (unfold is_u64; lia). lia.
  - rewrite wrap64_id by (unfold is_u64; lia). repeat case_if; lia.
Qed.

Lemma stale_semaphore_saturates_witness :
  stale_semaphore (lupine_event_stale_semaphore_add (-5) (EventTable [] 0 3)) = Z.max 0 (3 + -5).
Proof.
  apply (stale_semaphore_saturates (EventTable [] 0 3) (-5)); simpl; [unfold is_u64; lia|lia|lia].
Defined.
