(* ===== verification/AsyncSeq.v ===== *)
(** The server's completion prefix of fire-and-forget requests
    ([rpc_async_sequence_begin], [rpc_async_sequence_end],
    [rpc_async_sequence_wait], [rpc_cancel_async_waits] of [rpc.cpp]).  Sequences
    end in any order; the prefix counter with its set of later completions is
    proved to be exactly the first sequence that has not ended. *)
From S2P Require Import Prelude.

(** The fields of [conn_t] that [async_mutex] guards. *)
Record async_state := AsyncState {
  serving_async_sequence : Z;
  completed_async_sequences : gset Z;
  async_cancelled : bool;
  async_sync_initialized : bool;
}.

Definition initial_async_state : async_state := AsyncState 0 ∅ false true.

Definition set_serving (s : Z) (c : gset Z) (st : async_state) : async_state :=
  AsyncState s c (async_cancelled st) (async_sync_initialized st).

Definition rpc_cancel_async_waits (st : async_state) : async_state :=
  if async_sync_initialized st
  then AsyncState (serving_async_sequence st) (completed_async_sequences st) true true
  else st.

(** Waiting: the environment supplies what each [pthread_cond_wait] returned and
    the state found when it did.  [None] is a caller still blocked. *)
Fixpoint rpc_async_sequence_wait (published : Z) (wakes : list (Z * async_state))
    (st : async_state) : option Z :=
  if negb (async_cancelled st) && (serving_async_sequence st <? published) then
    match wakes with
    | [] => None
    | (cond_result, st') :: wakes' =>
        if cond_result =? 0 then rpc_async_sequence_wait published wakes' st' else Some (-1)
    end
  else Some (if async_cancelled st then -1 else 0).

(** [begin] labels the calling thread, unless the connection is closed. *)
Definition rpc_async_sequence_begin (closed : bool) (sequence executing : Z) : Z * Z :=
  if closed then (-1, executing) else (0, sequence).

(** The loop that moves the prefix over sequences that ended early.  Every turn
    erases an element, so one more than the set's size is enough fuel. *)
Fixpoint advance_prefix (fuel : nat) (serving : Z) (completed : gset Z) : Z * gset Z :=
  match fuel with
  | O => (serving, completed)
  | S fuel' =>
      if bool_decide (serving ∈ completed)
      then advance_prefix fuel' (wrap64 (serving + 1)) (completed ∖ {[serving]})
      else (serving, completed)
  end.

Definition rpc_async_sequence_end (executing : Z) (st : async_state) : async_state :=
  let serving := serving_async_sequence st in
  let completed := completed_async_sequences st in
  if executing =? serving then
    let '(serving', completed') :=
      advance_prefix (S (size completed)) (wrap64 (serving + 1)) completed in
    set_serving serving' completed' st
  else if serving <? executing then set_serving serving ({[executing]} ∪ completed) st
  else st.

(** * The abstract view: the set of ended sequences *)

Definition async_done (st : async_state) (s : Z) : Prop :=
  0 <= s < serving_async_sequence st \/ s ∈ completed_async_sequences st.

(** Early completions lie strictly above the prefix, below the last value. *)
Definition async_wf (st : async_state) : Prop :=
  0 <= serving_async_sequence st < 2 ^ 64 /\
  forall s, s ∈ completed_async_sequences st -> serving_async_sequence st < s < 2 ^ 64 - 1.

Lemma initial_async_wf : async_wf initial_async_state.
Proof. split; simpl; [lia|]. intros s Hs. set_solver. Qed.

(** The loop leaves a prefix that is not in the set, and loses nothing. *)
Lemma advance_prefix_spec fuel serving completed serving' completed' :
  advance_prefix fuel serving completed = (serving', completed') ->
  (size completed < fuel)%nat -> 0 <= serving < 2 ^ 64 ->
  (forall s, s ∈ completed -> serving <= s < 2 ^ 64 - 1) ->
  serving <= serving' < 2 ^ 64 /\
  (forall s, s ∈ completed' -> serving' < s < 2 ^ 64 - 1) /\
  (forall s, (s < serving' \/ s ∈ completed') <-> (s < serving \/ s ∈ completed)).
Proof.
  revert serving completed. induction fuel as [|fuel IH]; intros serving completed Hrun Hfuel Hs Hc;
    [lia|]. simpl in Hrun. case_bool_decide as Hin.
  - pose proof (Hc _ Hin). rewrite wrap64_id in Hrun by (unfold is_u64; lia).
    destruct (IH _ _ Hrun) as (Hle&Habove&Hiff).
    + rewrite size_difference, size_singleton by (by apply singleton_subseteq_l).
      assert (size completed <> 0%nat); [|lia].
      intros Hz%size_empty_inv. by apply (Hz serving) in Hin.
    + lia.
    + intros s [Hs' Hne]%elem_of_difference. pose proof (Hc _ Hs').
      assert (s <> serving) by set_solver. lia.
    + split_and!; [lia|lia|done|]. intros s. rewrite Hiff, elem_of_difference, elem_of_singleton.
      destruct (decide (s = serving)) as [->|]; [split; [auto|lia]|].
      split; [intros [?|[??]]|intros [?|?]]; (by right) || (left; lia) || auto.
  - injection Hrun as <- <-. split_and!; [lia|lia| |done].
    intros s Hs'. pose proof (Hc _ Hs'). assert (s <> serving) by (by intros ->). lia.
Qed.

(** Ending a sequence adds exactly that sequence. *)
Lemma async_end_done executing st :
  async_wf st -> 0 <= executing < 2 ^ 64 - 1 ->
  async_wf (rpc_async_sequence_end executing st) /\
  (forall s, async_done (rpc_async_sequence_end executing st) s <->
     async_done st s \/ s = executing).
Proof.
  intros [Hs Hc] He. unfold rpc_async_sequence_end, async_done.
  case_if; [|case_if]; unfold async_wf.
  - subst executing.
    destruct (advance_prefix _ _ _) as [s' c'] eqn:Hrun. rewrite wrap64_id in Hrun
      by (unfold is_u64; lia). simpl.
    destruct (advance_prefix_spec _ _ _ _ _ Hrun) as (Hle&Habove&Hiff); [lia|lia| |].
    { intros s Hin. pose proof (Hc _ Hin). lia. }
    split; [split; [lia|done]|]. intros s. specialize (Hiff s).
    assert (s ∈ c' -> 0 <= s) by (intros Hin; pose proof (Habove _ Hin); lia).
    assert (s ∈ completed_async_sequences st -> 0 <= s)
      by (intros Hin; pose proof (Hc _ Hin); lia).
    destruct Hiff as [Hto Hfrom]. split.
    + intros Hd. assert (0 <= s) by (destruct Hd as [?|?]; [lia|auto]).
      destruct Hto as [?|?]; [destruct Hd as [?|?]; [left; lia|by right]| |auto].
      destruct (decide (s = serving_async_sequence st)); [by right|left; left; lia].
    + intros Hd. assert (0 <= s) by (destruct Hd as [[?|?]|?]; [lia|auto|lia]).
      destruct Hfrom as [?|?]; [destruct Hd as [[?|?]|?]; [left; lia|by right|left; lia]| |auto].
      left. lia.
  - simpl. split; [split; [done|]|].
    + intros s [->%elem_of_singleton|Hin]%elem_of_union; [lia|by apply Hc].
    + intros s. rewrite elem_of_union, elem_of_singleton. tauto.
  - split; [done|]. intros s. split; [tauto|]. intros [?| ->]; [done|]. left. lia.
Qed.

(** Every sequence below the prefix has ended, and the prefix itself has not. *)
Lemma async_prefix_is_first st :
  async_wf st -> ~ async_done st (serving_async_sequence st) /\
  forall published, 0 <= published ->
    (published <= serving_async_sequence st <->
     forall s, 0 <= s < published -> async_done st s).
Proof.
  intros [Hs Hc].
  assert (~ async_done st (serving_async_sequence st)) as Hnot.
  { intros [?|Hin]; [lia|]. apply Hc in Hin. lia. }
  split; [done|]. intros published Hp. split.
  - intros Hle s Hr. left. lia.
  - intros Hall. destruct (decide (published <= serving_async_sequence st)); [done|].
    exfalso. apply Hnot, Hall. lia.
Qed.

(** The state after the given sequences have ended, in that order. *)
Definition async_run (ended : list Z) : async_state :=
  foldl (fun st e => rpc_async_sequence_end e st) initial_async_state ended.

Lemma async_run_done ended :
  Forall (fun e => 0 <= e < 2 ^ 64 - 1) ended ->
  async_wf (async_run ended) /\ (forall s, async_done (async_run ended) s <-> s ∈ ended).
Proof.
  unfold async_run. induction ended as [|e ended IH] using rev_ind; intros Hall; simpl.
  - split; [apply initial_async_wf|]. intros s. unfold async_done. simpl. split; [|set_solver].
    intros [?|?]; [lia|set_solver].
  - rewrite foldl_app. simpl. apply Forall_app in Hall as [Hall [He _]%Forall_cons].
    destruct (IH Hall) as [Hwf Hdone]. destruct (async_end_done e _ Hwf He) as [Hwf' Hdone'].
    split; [done|]. intros s. rewrite Hdone', Hdone, elem_of_app, list_elem_of_singleton.
    done.
Qed.

Lemma async_end_cancelled executing st :
  async_cancelled (rpc_async_sequence_end executing st) = async_cancelled st.
Proof.
  unfold rpc_async_sequence_end. case_if; [|by case_if].
  by destruct (advance_prefix _ _ _).
Qed.

Lemma async_run_not_cancelled ended : async_cancelled (async_run ended) = false.
Proof.
  unfold async_run. induction ended as [|e ended IH] using rev_ind; [done|].
  rewrite foldl_app. simpl. by rewrite async_end_cancelled.
Qed.

(** * Properties *)

(** Whatever order fire-and-forget sequences end in, a wait for a published
    prefix returns at once exactly when every sequence below it has ended, and
    otherwise keeps its caller blocked. *)
Theorem async_wait_iff_prefix_ended ended published :
  Forall (fun e => 0 <= e < 2 ^ 64 - 1) ended -> 0 <= published ->
  rpc_async_sequence_wait published [] (async_run ended) =
    if bool_decide (Forall (fun s => s ∈ ended) (seqZ 0 published)) then Some 0 else None.
Proof.
  intros Hall Hp. destruct (async_run_done ended Hall) as [Hwf Hdone].
  destruct (async_prefix_is_first _ Hwf) as [_ Hiff]. specialize (Hiff published Hp).
  simpl. rewrite async_run_not_cancelled. simpl.
  assert (Forall (fun s => s ∈ ended) (seqZ 0 published) <->
    published <= serving_async_sequence (async_run ended)) as Heq.
  { rewrite Hiff, Forall_forall. setoid_rewrite elem_of_seqZ. setoid_rewrite Hdone.
    by setoid_rewrite Z.add_0_l. }
  rewrite (bool_decide_ext _ _ Heq). destruct (Z.ltb_spec (serving_async_sequence (async_run ended)) published).
  - by rewrite bool_decide_eq_false_2 by lia.
  - by rewrite bool_decide_eq_true_2 by lia.
Qed.

Lemma async_wait_iff_prefix_ended_witness :
  rpc_async_sequence_wait 3 [] (async_run [2; 0; 1]) = Some 0 /\
  rpc_async_sequence_wait 3 [] (async_run [2; 0]) = None.
Proof.
  split.
  - rewrite (async_wait_iff_prefix_ended [2; 0; 1] 3); [vm_compute; reflexivity| |lia].
    repeat constructor; lia.
  - rewrite (async_wait_iff_prefix_ended [2; 0] 3); [vm_compute; reflexivity| |lia].
    repeat constructor; lia.
Defined.

(** A blocked wait only ever returns success in a state whose prefix covers
    the request, and a cancelled connection or failing condition variable makes
    it return an error. *)
Theorem async_wait_result published wakes st res :
  rpc_async_sequence_wait published wakes st = Some res ->
  (res = 0 /\ exists st', (st' = st \/ exists r, (r, st') ∈ wakes) /\
     async_cancelled st' = false /\ published <= serving_async_sequence st') \/
  (res = -1 /\ ((exists st', (st' = st \/ exists r, (r, st') ∈ wakes) /\
     async_cancelled st' = true) \/ exists r st', (r, st') ∈ wakes /\ r <> 0)).
Proof.
  revert st. induction wakes as [|[r st'] wakes IH]; intros st; simpl; case_if; intros Hrun.
  - done.
  - injection Hrun as <-. destruct (async_cancelled st) eqn:Hcan.
    + right. split; [done|]. left. exists st. auto.
    + left. split; [done|]. exists st. simpl in E. destruct E as [?|?]; [done|]. breflect. auto.
  - case_if_in Hrun.
    + destruct (IH _ Hrun) as [(->&s&Hs&?)|(->&[(s&Hs&?)|(q&s&Hs&?)])].
      * left. split; [done|]. exists s. split; [|done]. right.
        destruct Hs as [->|[q Hq]]; [exists r; by left|exists q; by right].
      * right. split; [done|]. left. exists s. split; [|done]. right.
        destruct Hs as [->|[q Hq]]; [exists r; by left|exists q; by right].
      * right. split; [done|]. right. exists q, s. split; [by right|done].
    + injection Hrun as <-. right. split; [done|]. right. exists r, st'. split; [by left|done].
  - injection Hrun as <-. destruct (async_cancelled st) eqn:Hcan.
    + right. split; [done|]. left. exists st. auto.
    + left. split; [done|]. exists st. simpl in E. destruct E as [?|?]; [done|]. breflect. auto.
Qed.

Lemma async_wait_result_witness :
  rpc_async_sequence_wait 1 [(0, async_run [0])] (async_run []) = Some 0 /\
  ((0 = 0 /\ exists st', (st' = async_run [] \/ exists r, (r, st') ∈ [(0, async_run [0])]) /\
     async_cancelled st' = false /\ 1 <= serving_async_sequence st') \/
   (0 = -1 /\ ((exists st', (st' = async_run [] \/ exists r, (r, st') ∈ [(0, async_run [0])]) /\
     async_cancelled st' = true) \/ exists r st', (r, st') ∈ [(0, async_run [0])] /\ r <> 0))).
Proof.
  split; [vm_compute; reflexivity|].
  apply (async_wait_result 1 [(0, async_run [0])] (async_run []) 0). vm_compute. reflexivity.
Defined.
