(* ===== verification/Va.v ===== *)
(** The virtual-address arenas of a connection: reservation on client and server
    and release ([rpc.cpp] 28-145), the containment test of [rpc.h], bump claims
    under contention, and the client's negotiation of an arena with its peer
    ([connect_endpoint] of [transport.cpp]).  The kernel's [mmap] and [munmap]
    are an interface with the documented behaviour of [MAP_FIXED_NOREPLACE]. *)
From S2P Require Import Prelude.

Definition LUPINE_VA_FIRST_BASE : Z := 0x700000000000.
Definition LUPINE_VA_ARENA_SIZE : Z := 0x010000000000.
Definition LUPINE_VA_ARENA_COUNT : nat := 8.
Definition LUPINE_VA_WRITE_BASE : Z := 0x500000000000.

Record lupine_va_window := VaWindow { win_base : Z; win_size : Z }.

(** The arena fields of [conn_t]. *)
Record va_fields := VaFields {
  va_base : Z;
  va_size : Z;
  va_next : Z;
  w_offset : Z;
}.

#[global] Instance lupine_va_window_eq_dec : EqDecision lupine_va_window.
Proof. solve_decision. Defined.

#[global] Instance va_fields_eq_dec : EqDecision va_fields.
Proof. solve_decision. Defined.

Definition lupine_va_local_window : lupine_va_window :=
  VaWindow LUPINE_VA_FIRST_BASE (wrap64 (LUPINE_VA_ARENA_SIZE * Z.of_nat LUPINE_VA_ARENA_COUNT)).

Definition lupine_va_contains (conn : option va_fields) (address size : Z) : bool :=
  match conn with
  | None => false
  | Some c =>
      negb (va_size c =? 0) && (size <=? va_size c) && (va_base c <=? address)
      && (address - va_base c <=? va_size c - size)
  end.

(** * Mappings *)

(** An address space with the two system calls.  [map_noreplace] is [mmap] with
    [MAP_FIXED_NOREPLACE]: it returns an address that was free and now is mapped
    (older kernels treat the base as a hint) or fails without effect. *)
Class AddressSpace (M : Type) := {
  mapped : M -> Z -> bool;
  map_noreplace : Z -> Z -> M -> option Z * M;
  unmap : Z -> Z -> M -> M;
}.

Definition in_span (base size x : Z) : bool := (base <=? x) && (x <? base + size).

Class AddressSpaceLaws (M : Type) `{AddressSpace M} := {
  map_noreplace_some : forall base size m a m', 0 < size ->
    map_noreplace base size m = (Some a, m') ->
    (forall x, in_span a size x = true -> mapped m x = false) /\
    (forall x, mapped m' x = in_span a size x || mapped m x);
  map_noreplace_none : forall base size m m', 0 < size ->
    map_noreplace base size m = (None, m') -> forall x, mapped m' x = mapped m x;
  unmap_spec : forall base size m x, 0 < size ->
    mapped (unmap base size m) x = mapped m x && negb (in_span base size x);
}.

(** * Reservation and release *)

Section reservation.
Context {M : Type} `{AddressSpace M}.

Definition lupine_va_reserve_exact (base size : Z) (m : M) : bool * M :=
  match map_noreplace base size m with
  | (None, m') => (false, m')
  | (Some mapping, m') =>
      if mapping =? base then (true, m') else (false, unmap mapping size m')
  end.

Definition lupine_va_release (c : va_fields) (m : M) : va_fields * M :=
  if va_size c =? 0 then (c, m)
  else
    let m := unmap (wrap64 (va_base c + w_offset c)) (va_size c) m in
    let m := unmap (va_base c) (va_size c) m in
    (VaFields 0 0 0 (w_offset c), m).

(** The candidate loop, from [candidate] with [n] slots left. *)
Fixpoint reserve_candidates (window : lupine_va_window) (arena : Z) (candidate : Z) (n : nat)
    (c : va_fields) (m : M) : Z * option Z * va_fields * M :=
  match n with
  | O => (-1, None, c, m)
  | S n' =>
      let offset := wrap64 (candidate * arena) in
      let base := wrap64 (win_base window + offset) in
      let write_base := wrap64 (LUPINE_VA_WRITE_BASE + offset) in
      match lupine_va_reserve_exact base arena m with
      | (false, m) => reserve_candidates window arena (candidate + 1) n' c m
      | (true, m) =>
          match lupine_va_reserve_exact write_base arena m with
          | (false, m) =>
              reserve_candidates window arena (candidate + 1) n' c (unmap base arena m)
          | (true, m) => (0, Some candidate, VaFields base arena 0 (write_base - base), m)
          end
      end
  end.

(** Result code, slot, connection, address space. *)
Definition lupine_va_reserve_client (window : lupine_va_window) (min_slot : Z)
    (c : va_fields) (m : M) : Z * option Z * va_fields * M :=
  let arena := win_size window / Z.of_nat LUPINE_VA_ARENA_COUNT in
  if negb (va_size c =? 0) || (arena =? 0) then (-1, None, c, m)
  else reserve_candidates window arena min_slot
         (LUPINE_VA_ARENA_COUNT - Z.to_nat min_slot) c m.

Definition lupine_va_reserve_server (base size : Z) (c : va_fields) (m : M)
    : Z * va_fields * M :=
  if negb (va_size c =? 0) then (-1, c, m)
  else match lupine_va_reserve_exact base size m with
       | (false, m) => (-1, c, m)
       | (true, m) => (0, VaFields base size base (w_offset c), m)
       end.

End reservation.

(** * Claims *)

Definition va_claim_guard (c : va_fields) (size alignment : Z) : bool :=
  negb ((va_size c =? 0) || (size =? 0) || (alignment =? 0)
        || negb (Z.land alignment (alignment - 1) =? 0) || (va_size c <? size)).

(** One turn of the loop: the address it would claim from [current]. *)
Definition claim_attempt (c : va_fields) (current size alignment : Z) : option Z :=
  let next_claim := mask_down (wrap64 (current + alignment - 1)) alignment in
  if (next_claim <? current) || (next_claim <? va_base c)
     || (va_size c - size <? next_claim - va_base c)
  then None else Some next_claim.

(** The loop against an environment: [failures] are the values of [va_next] that
    its failing compare-exchanges load, the next one succeeds. *)
Fixpoint claim_loop (c : va_fields) (size alignment current : Z) (failures : list Z)
    : option (Z * Z) :=
  match claim_attempt c current size alignment with
  | None => None
  | Some next_claim =>
      match failures with
      | [] => Some (next_claim, wrap64 (next_claim + size))
      | current' :: failures' => claim_loop c size alignment current' failures'
      end
  end.

Definition lupine_va_claim (conn : option va_fields) (size alignment : Z) (failures : list Z)
    : option (Z * Z) :=
  match conn with
  | None => None
  | Some c =>
      if va_claim_guard c size alignment
      then claim_loop c size alignment (va_next c) failures else None
  end.

(** Concurrent claimers of one connection: each pending claim has its own
    [current]; [cs_claims] collects what was handed out. *)
Record pending_claim := PendingClaim { pc_size : Z; pc_alignment : Z; pc_current : Z }.
Record span := Span { sp_start : Z; sp_size : Z; sp_alignment : Z }.

Record claim_sys := ClaimSys {
  cs_conn : va_fields;
  cs_pending : list pending_claim;
  cs_claims : list span;
}.

Definition set_va_next (v : Z) (c : va_fields) : va_fields :=
  VaFields (va_base c) (va_size c) v (w_offset c).

Inductive claim_step : claim_sys -> claim_sys -> Prop :=
  | claim_enter c pending claims size alignment :
      is_u64 size -> is_u64 alignment -> va_claim_guard c size alignment = true ->
      claim_step (ClaimSys c pending claims)
        (ClaimSys c (PendingClaim size alignment (va_next c) :: pending) claims)
  | claim_reject c p1 p p2 claims :
      claim_attempt c (pc_current p) (pc_size p) (pc_alignment p) = None ->
      claim_step (ClaimSys c (p1 ++ p :: p2) claims) (ClaimSys c (p1 ++ p2) claims)
  | claim_exchange c p1 p p2 claims next_claim :
      claim_attempt c (pc_current p) (pc_size p) (pc_alignment p) = Some next_claim ->
      pc_current p = va_next c ->
      claim_step (ClaimSys c (p1 ++ p :: p2) claims)
        (ClaimSys (set_va_next (wrap64 (next_claim + pc_size p)) c) (p1 ++ p2)
           (Span next_claim (pc_size p) (pc_alignment p) :: claims))
  | claim_retry c p1 p p2 claims next_claim :
      claim_attempt c (pc_current p) (pc_size p) (pc_alignment p) = Some next_claim ->
      claim_step (ClaimSys c (p1 ++ p :: p2) claims)
        (ClaimSys c
           (p1 ++ PendingClaim (pc_size p) (pc_alignment p) (va_next c) :: p2) claims).

(** * Lemmas on claims *)

Definition va_wf (c : va_fields) : Prop :=
  0 <= va_base c /\ 0 <= va_size c /\ va_base c + va_size c < 2 ^ 64 /\ is_u64 (va_next c).

Lemma guard_alignment c size alignment :
  va_claim_guard c size alignment = true -> is_u64 size -> is_u64 alignment ->
  0 < size <= va_size c /\ exists k, 0 <= k < 64 /\ alignment = 2 ^ k.
Proof.
  unfold va_claim_guard, is_u64. intros Hg Hs Ha. breflect.
  destruct (land_pred_pow2 alignment) as (k&Hk&->); [lia|done|].
  split; [lia|]. exists k. split; [|done]. split; [done|].
  apply (Z.pow_lt_mono_r_iff 2); lia.
Qed.

(** An attempt claims the least aligned address from [current] on. *)
Lemma claim_attempt_some c current size alignment n :
  va_wf c -> va_claim_guard c size alignment = true -> is_u64 size -> is_u64 alignment ->
  is_u64 current -> claim_attempt c current size alignment = Some n ->
  current <= n < current + alignment /\ (alignment | n) /\
  va_base c <= n /\ n + size <= va_base c + va_size c.
Proof.
  intros Hwf Hg Hs Ha Hc Hat. destruct (guard_alignment _ _ _ Hg Hs Ha) as (Hsz&k&Hk&->).
  unfold claim_attempt in Hat. case_if_in Hat; [done|]. injection Hat as <-. breflect.
  destruct (decide (current + 2 ^ k - 1 < 2 ^ 64)).
  - destruct (mask_up_spec current k) as [? ?]; [unfold is_u64 in Hc; lia|done|done|].
    split_and!; try done; lia.
  - pose proof (mask_up_wrap current k Hc Hk). lia.
Qed.

Lemma aligned_next_le a x y :
  0 < a -> (a | x) -> (a | y) -> x < y + a -> x <= y.
Proof.
  intros Ha [p ->] [q ->] Hlt. apply Z.mul_le_mono_nonneg_r; [lia|].
  assert (p < q + 1); [|lia]. apply (Z.mul_lt_mono_pos_r a); lia.
Qed.

Lemma claim_attempt_none c current size alignment a :
  va_wf c -> va_claim_guard c size alignment = true -> is_u64 size -> is_u64 alignment ->
  is_u64 current -> va_base c <= current -> claim_attempt c current size alignment = None ->
  (alignment | a) -> current <= a -> va_base c + va_size c < a + size.
Proof.
  intros Hwf Hg Hs Ha Hc Hb Hat Hdiv Hle.
  destruct (guard_alignment _ _ _ Hg Hs Ha) as (Hsz&k&Hk&->).
  assert (0 < 2 ^ k) by (apply Z.pow_pos_nonneg; lia).
  destruct Hwf as (?&?&?&?). unfold is_u64 in *.
  unfold claim_attempt in Hat. case_if_in Hat; [|done].
  destruct (decide (current + 2 ^ k - 1 < 2 ^ 64)) as [Hfit|Hwrap].
  - destruct (mask_up_spec current k) as [Hr Hd]; [lia|done|done|].
    set (r := mask_down _ _) in *.
    assert (r <= a) by (apply (aligned_next_le (2 ^ k)); [lia|done|done|lia]).
    destruct E as [E|E]; breflect; [destruct E; breflect|]; lia.
  - (* the next multiple of the alignment after [current] is 2^64 *)
    assert ((2 ^ k | 2 ^ 64)) as Hd64.
    { exists (2 ^ (64 - k)). rewrite <- Z.pow_add_r by lia. f_equal. lia. }
    assert (2 ^ 64 <= a); [|lia]. apply (aligned_next_le (2 ^ k)); [lia|done|done|lia].
Qed.

Definition spans_disjoint (a b : span) : Prop :=
  sp_start a + sp_size a <= sp_start b \/ sp_start b + sp_size b <= sp_start a.

Definition span_ok (c : va_fields) (s : span) : Prop :=
  0 < sp_size s /\ (sp_alignment s | sp_start s) /\
  va_base c <= sp_start s /\ sp_start s + sp_size s <= va_base c + va_size c.

Record claim_inv (s : claim_sys) : Prop := {
  ci_wf : va_wf (cs_conn s);
  ci_pending : Forall (fun p => is_u64 (pc_size p) /\ is_u64 (pc_alignment p) /\
    is_u64 (pc_current p) /\ va_claim_guard (cs_conn s) (pc_size p) (pc_alignment p) = true)
    (cs_pending s);
  ci_claims : Forall (fun x => span_ok (cs_conn s) x /\
    sp_start x + sp_size x <= va_next (cs_conn s)) (cs_claims s);
  ci_disjoint : ForallOrdPairs spans_disjoint (cs_claims s);
}.

(** A successful exchange hands out a span above everything claimed before. *)
Lemma claim_exchange_inv c p1 p p2 claims n :
  claim_inv (ClaimSys c (p1 ++ p :: p2) claims) ->
  claim_attempt c (pc_current p) (pc_size p) (pc_alignment p) = Some n ->
  pc_current p = va_next c ->
  claim_inv (ClaimSys (set_va_next (wrap64 (n + pc_size p)) c) (p1 ++ p2)
    (Span n (pc_size p) (pc_alignment p) :: claims)).
Proof.
  intros [Hwf Hp Hcl Hd] Hat Hcur. simpl in *.
  apply Forall_app in Hp as [Hp1 [(Hs&Ha&Hc&Hg) Hp2]%Forall_cons].
  destruct (claim_attempt_some _ _ _ _ _ Hwf Hg Hs Ha Hc Hat) as (Hn&Hdiv&Hlo&Hhi).
  destruct (guard_alignment _ _ _ Hg Hs Ha) as [Hsz _].
  destruct Hwf as (?&?&?&?). unfold is_u64 in *.
  rewrite wrap64_id by (unfold is_u64; lia).
  split; simpl.
  - unfold va_wf, is_u64. simpl. lia.
  - apply Forall_app. split; done.
  - constructor.
    + unfold span_ok. simpl. split_and!; done || lia.
    + eapply Forall_impl; [exact Hcl|]. unfold span_ok. simpl. intros x [? ?]. split; [done|lia].
  - constructor; [|done]. eapply Forall_impl; [exact Hcl|]. simpl. intros x [? ?].
    right. simpl. lia.
Qed.

Lemma claim_step_inv s s' : claim_inv s -> claim_step s s' -> claim_inv s'.
Proof.
  intros Hinv Hstep. destruct Hstep as [c p cl size al Hs Ha Hg|c p1 p p2 cl Hat
    |c p1 p p2 cl n Hat Hcur|c p1 p p2 cl n Hat].
  - destruct Hinv as [Hwf Hp Hcl Hd]. split; simpl in *; [done| |done|done].
    constructor; [|done]. simpl. split_and!; try done; apply Hs || apply Ha || apply Hwf.
  - destruct Hinv as [Hwf Hp Hcl Hd]. split; simpl in *; [done| |done|done].
    apply Forall_app in Hp as [? [_ ?]%Forall_cons]. by apply Forall_app.
  - by apply claim_exchange_inv.
  - destruct Hinv as [Hwf Hp Hcl Hd]. split; simpl in *; [done| |done|done].
    apply Forall_app in Hp as [? [(?&?&?&?) ?]%Forall_cons]. apply Forall_app.
    split; [done|]. constructor; [|done]. simpl. split_and!; try done; apply Hwf.
Qed.

Lemma claim_steps_inv s s' : claim_inv s -> rtc claim_step s s' -> claim_inv s'.
Proof. intros Hinv Hs. induction Hs; eauto using claim_step_inv. Qed.

Lemma initial_claim_inv c : va_wf c -> claim_inv (ClaimSys c [] []).
Proof. intros. split; simpl; [done|constructor..]. Qed.

(** * Negotiating an arena *)

Definition LUPINE_RPC_HTTP2_VA_CONFLICT : Z := -3.

(** The peer as the loop of [connect_endpoint] sees it: the result of the n-th
    handshake for a connection, the window its response stated, whether TLS comes
    up, and the result of waiting for a response when no arena was requested. *)
Record peer := Peer {
  peer_tls : Z;
  peer_handshake : nat -> va_fields -> Z;
  peer_window : nat -> option lupine_va_window;
  peer_await_ready : nat -> Z;
}.

Section negotiation.
Context {M : Type} `{AddressSpace M} (p : peer).

(** [reset_connection] for the arena: destroying the connection releases it. *)
Definition reset_arena (c : va_fields) (m : M) : va_fields * M :=
  let '(_, m) := lupine_va_release c m in (VaFields 0 0 0 0, m).

(** One turn of the loop: either the final result or the next window and slot. *)
Definition negotiate_turn (i : nat) (window : lupine_va_window) (min_slot : Z)
    (c : va_fields) (m : M)
    : (Z * va_fields * M) + (lupine_va_window * Z * va_fields * M) :=
  let '(failed, slot, c, m) :=
    if negb (w_offset c =? 0) && negb (win_size window =? 0) then
      let '(res, slot, c, m) := lupine_va_reserve_client window min_slot c m in
      (res <? 0, default min_slot slot, c, m)
    else (false, min_slot, c, m) in
  if failed || ((i =? 0)%nat && (peer_tls p <? 0)) then
    let '(c, m) := reset_arena c m in inl (-1, c, m)
  else
    let http2_result := peer_handshake p i c in
    let http2_result :=
      if (http2_result =? 0) && (va_size c =? 0) then peer_await_ready p i else http2_result in
    let finish c m :=
      if http2_result <? 0 then let '(c, m) := reset_arena c m in inl (-1, c, m)
      else inl (0, c, m) in
    if (http2_result =? LUPINE_RPC_HTTP2_VA_CONFLICT) && negb (va_size c =? 0) then
      let '(c, m) := lupine_va_release c m in
      match peer_window p i with
      | Some stated =>
          if bool_decide (stated <> window) then inr (stated, 0, c, m)
          else if slot + 1 <? Z.of_nat LUPINE_VA_ARENA_COUNT
               then inr (window, slot + 1, c, m) else finish c m
      | None =>
          if slot + 1 <? Z.of_nat LUPINE_VA_ARENA_COUNT
          then inr (window, slot + 1, c, m) else finish c m
      end
    else finish c m.

Fixpoint negotiate_loop (fuel i : nat) (window : lupine_va_window) (min_slot : Z)
    (c : va_fields) (m : M) : option (Z * va_fields * M) :=
  match fuel with
  | O => None
  | S fuel' =>
      match negotiate_turn i window min_slot c m with
      | inl result => Some result
      | inr (window, min_slot, c, m) => negotiate_loop fuel' (S i) window min_slot c m
      end
  end.

(** From a fresh connection, whose [w_offset] is the configured one. *)
Definition negotiate_arena (fuel : nat) (config_w_offset : Z) (m : M) :=
  negotiate_loop fuel 0 lupine_va_local_window 0 (VaFields 0 0 0 config_w_offset) m.

End negotiation.

(** * Lemmas on reservations *)

Section reservation_lemmas.
Context {M : Type} `{AddressSpaceLaws M}.

Definition same_space (m m' : M) : Prop := forall x, mapped m' x = mapped m x.

Definition adds_span (base size : Z) (m m' : M) : Prop :=
  (forall x, in_span base size x = true -> mapped m x = false) /\
  (forall x, mapped m' x = in_span base size x || mapped m x).

Lemma unmap_adds base size m m' m'' :
  0 < size -> adds_span base size m m' -> same_space m' m'' ->
  same_space m (unmap base size m'').
Proof.
  intros Hs [Hfree Hadd] Hsame x. rewrite unmap_spec, Hsame, Hadd by done.
  specialize (Hfree x). destruct (in_span base size x); simpl; [|by rewrite andb_true_r].
  by rewrite Hfree.
Qed.

Lemma reserve_exact_spec base size m ok m' :
  0 < size -> lupine_va_reserve_exact base size m = (ok, m') ->
  if ok then adds_span base size m m' else same_space m m'.
Proof.
  intros Hs. unfold lupine_va_reserve_exact.
  destruct (map_noreplace base size m) as [[a|] m1] eqn:Hmap.
  - apply map_noreplace_some in Hmap as Hspec; [|done].
    case_if; intros [= <- <-]; [by subst|]. by eapply unmap_adds.
  - intros [= <- <-]. intros x. by eapply map_noreplace_none.
Qed.

Lemma same_space_trans m1 m2 m3 : same_space m1 m2 -> same_space m2 m3 -> same_space m1 m3.
Proof. intros H1 H2 x. by rewrite H2, H1. Qed.

Lemma adds_span_same base size m1 m2 m3 :
  same_space m1 m2 -> adds_span base size m2 m3 -> adds_span base size m1 m3.
Proof.
  intros Hsame [Hf Ha]. split; intros x.
  - rewrite <- Hsame. apply Hf.
  - by rewrite Ha, Hsame.
Qed.

(** What a reservation attempt leaves behind. *)
Definition reserve_outcome (window : lupine_va_window) (min_slot : Z) (c : va_fields) (m : M)
    (out : Z * option Z * va_fields * M) : Prop :=
  let '(res, slot, c', m') := out in
  (res = -1 /\ slot = None /\ c' = c /\ same_space m m') \/
  (res = 0 /\ exists k, slot = Some k /\ min_slot <= k < Z.of_nat LUPINE_VA_ARENA_COUNT /\
     va_base c' = wrap64 (win_base window + wrap64 (k * va_size c')) /\
     va_size c' = win_size window / Z.of_nat LUPINE_VA_ARENA_COUNT /\ 0 < va_size c' /\
     exists m1, adds_span (va_base c') (va_size c') m m1 /\
       adds_span (wrap64 (va_base c' + w_offset c')) (va_size c') m1 m').

Lemma reserve_candidates_spec window arena candidate n c m :
  0 < arena -> arena = win_size window / Z.of_nat LUPINE_VA_ARENA_COUNT ->
  candidate + Z.of_nat n = Z.of_nat LUPINE_VA_ARENA_COUNT \/ n = 0%nat ->
  reserve_outcome window candidate c m (reserve_candidates window arena candidate n c m).
Proof.
  intros Ha Harena. revert candidate m.
  induction n as [|n IH]; intros candidate m Hn; simpl; [by left|].
  assert (forall m', same_space m m' ->
    reserve_outcome window candidate c m
      (reserve_candidates window arena (candidate + 1) n c m')) as Hgo.
  { intros m' Hsame. specialize (IH (candidate + 1) m' ltac:(lia)).
    destruct (reserve_candidates window arena (candidate + 1) n c m') as [[[res slot] c'] m''].
    destruct IH as [(->&->&->&Hsame')|(->&k&->&Hk&Hb&Hsz&Hpos&m1&Hadd1&Hadd2)].
    - left. split_and!; [done..|]. by eapply same_space_trans.
    - right. split; [done|]. exists k. split_and!; [done|lia|lia|done|done|done|].
      exists m1. split; [by eapply adds_span_same|done]. }
  destruct (lupine_va_reserve_exact _ arena m) as [[] m1] eqn:E1;
    apply reserve_exact_spec in E1; [|done| |done]; [|by apply Hgo].
  destruct (lupine_va_reserve_exact (wrap64 (LUPINE_VA_WRITE_BASE + _)) arena m1)
    as [[] m2] eqn:E2; apply reserve_exact_spec in E2; [|done| |done].
  - right. split; [done|]. exists candidate. simpl.
    split_and!; [done|lia|lia|done|done|done|]. exists m1. split; [done|].
    by rewrite Z.add_sub_assoc, Z.add_simpl_l, wrap64_id by apply wrap64_range.
  - apply Hgo. by eapply unmap_adds.
Qed.

Lemma reserve_client_spec window min_slot c m :
  0 <= min_slot -> 0 <= win_size window ->
  reserve_outcome window min_slot c m (lupine_va_reserve_client window min_slot c m).
Proof.
  intros Hm Hw. unfold lupine_va_reserve_client. case_if; [by left|].
  apply reserve_candidates_spec; [|done|].
  - pose proof (Z.div_pos (win_size window) (Z.of_nat LUPINE_VA_ARENA_COUNT)). 
    unfold LUPINE_VA_ARENA_COUNT in *. lia.
  - unfold LUPINE_VA_ARENA_COUNT. lia.
Qed.

(** Releasing a reservation gives the address space back. *)
Lemma release_reserved c m m1 m2 :
  0 < va_size c -> adds_span (va_base c) (va_size c) m m1 ->
  adds_span (wrap64 (va_base c + w_offset c)) (va_size c) m1 m2 ->
  same_space m (lupine_va_release c m2).2.
Proof.
  intros Hs H1 H2. unfold lupine_va_release. rewrite (proj2 (Z.eqb_neq _ _)) by lia. simpl.
  eapply unmap_adds; [done|done|]. by eapply unmap_adds.
Qed.

End reservation_lemmas.

(** * Lemmas on the negotiation *)

Section negotiation_lemmas.
Context {M : Type} `{AddressSpaceLaws M} (p : peer).

(** A final result: failure leaves nothing reserved and the arena fields reset,
    success leaves nothing or exactly the arena and its writable alias. *)
Definition negotiation_result (m : M) (out : Z * va_fields * M) : Prop :=
  let '(res, c', m') := out in
  (res = -1 /\ c' = VaFields 0 0 0 0 /\ same_space m m') \/
  (res = 0 /\ va_size c' = 0 /\ same_space m m') \/
  (res = 0 /\ 0 < va_size c' /\ exists m1, adds_span (va_base c') (va_size c') m m1 /\
     adds_span (wrap64 (va_base c' + w_offset c')) (va_size c') m1 m').

Lemma release_unreserved c (m : M) : va_size c = 0 -> lupine_va_release c m = (c, m).
Proof. intros Hz. unfold lupine_va_release. by rewrite Hz. Qed.

Lemma release_fields c (m : M) : va_size (lupine_va_release c m).1 = 0.
Proof. unfold lupine_va_release. by case_if. Qed.

(** The connection after the optional reservation of a turn. *)
Definition turn_reserved (m : M) (c' : va_fields) (m' : M) : Prop :=
  (va_size c' = 0 /\ same_space m m') \/
  (0 < va_size c' /\ exists m1, adds_span (va_base c') (va_size c') m m1 /\
     adds_span (wrap64 (va_base c' + w_offset c')) (va_size c') m1 m').

Lemma turn_reserved_release (m : M) c' m' :
  turn_reserved m c' m' -> same_space m (lupine_va_release c' m').2.
Proof.
  intros [[Hz Hs]|(Hpos&m1&Ha&Hb)].
  - by rewrite release_unreserved.
  - by eapply release_reserved.
Qed.

Lemma turn_reserved_reset (m : M) c' m' :
  turn_reserved m c' m' ->
  negotiation_result m (let '(c, m) := reset_arena c' m' in (-1, c, m)).
Proof.
  intros Hr%turn_reserved_release. unfold reset_arena.
  destruct (lupine_va_release c' m') as [c2 m2]. left. by split_and!.
Qed.

Definition turn_next (i : nat) (window : lupine_va_window) (min_slot : Z) (m : M)
    (out : lupine_va_window * Z * va_fields * M) : Prop :=
  let '(window', slot', c', m') := out in
  va_size c' = 0 /\ same_space m m' /\
  ((peer_window p i = Some window' /\ window' <> window /\ slot' = 0) \/
   (window' = window /\ (forall w, peer_window p i = Some w -> w = window) /\
    min_slot < slot' < Z.of_nat LUPINE_VA_ARENA_COUNT)).

Lemma negotiate_turn_spec i window min_slot c (m : M) :
  va_size c = 0 -> 0 <= min_slot -> 0 <= win_size window ->
  match negotiate_turn p i window min_slot c m with
  | inl out => negotiation_result m out
  | inr out => turn_next i window min_slot m out
  end.
Proof.
  intros Hc Hm Hw. unfold negotiate_turn.
  set (choice := if negb (w_offset c =? 0) && negb (win_size window =? 0) then _ else _).
  assert (let '(failed, slot, c', m') := choice in
    min_slot <= slot /\ turn_reserved m c' m') as Hchoice.
  { subst choice. case_if; [|split; [lia|by left]].
    pose proof (reserve_client_spec window min_slot c m Hm Hw) as Hout.
    destruct (lupine_va_reserve_client window min_slot c m) as [[[res slot] c'] m'].
    destruct Hout as [(->&->&->&Hsame)|(->&k&->&Hk&_&_&Hpos&m1&Hadd)]; simpl.
    - split; [lia|by left].
    - split; [lia|right]. eauto. }
  destruct choice as [[[failed slot] c'] m']. destruct Hchoice as [Hslot Hres].
  case_if.
  { pose proof (turn_reserved_reset m c' m' Hres). by destruct (reset_arena c' m'). }
  set (result := if (peer_handshake p i c' =? 0) && _ then _ else _).
  assert (forall c'' m'', turn_reserved m c'' m'' ->
    match (if result <? 0 then let '(c, m) := reset_arena c'' m'' in inl (-1, c, m)
           else inl (0, c'', m''))
    with inl out => negotiation_result m out | inr out => turn_next i window min_slot m out end)
    as Hfinish.
  { intros c'' m'' Hr. case_if.
    - pose proof (turn_reserved_reset m c'' m'' Hr). by destruct (reset_arena c'' m'').
    - destruct Hr as [(?&?)|(?&?)]; right; [left|right]; by split_and!. }
  case_if; [|by apply Hfinish].
  pose proof (turn_reserved_release m c' m' Hres) as Hrel.
  pose proof (release_fields c' m') as Hz.
  destruct (lupine_va_release c' m') as [c2 m2]. simpl in Hrel, Hz.
  destruct (peer_window p i) as [stated|] eqn:Hstated.
  - case_bool_decide as Hne; [split_and!; auto|].
    case_if; [|apply Hfinish; by left]. split_and!; [done..|]. right.
    split_and!; [done| |lia|lia]. intros w. rewrite Hstated. congruence.
  - case_if; [|apply Hfinish; by left]. split_and!; [done..|]. right.
    split_and!; [done| |lia|lia]. intros w. by rewrite Hstated.
Qed.

(** Turns left when the peer always states the same window (or none): one to
    adopt it, then one per slot. *)
Definition turns_left (stated : option lupine_va_window) (window : lupine_va_window)
    (min_slot : Z) : nat :=
  match stated with
  | Some w => if bool_decide (w <> window) then 9 else Z.to_nat (8 - min_slot)
  | None => Z.to_nat (8 - min_slot)
  end.

Lemma negotiate_loop_spec stated fuel i window min_slot c (m0 m : M) :
  (forall i, peer_window p i = stated) ->
  (forall w, stated = Some w -> 0 <= win_size w) ->
  va_size c = 0 -> 0 <= min_slot < 8 -> 0 <= win_size window -> same_space m0 m ->
  (turns_left stated window min_slot <= fuel)%nat ->
  exists out, negotiate_loop p fuel i window min_slot c m = Some out /\ negotiation_result m0 out.
Proof.
  intros Hconst Hsz. revert i window min_slot c m.
  induction fuel as [|fuel IH]; intros i window min_slot c m Hc Hm Hw Hsame Hfuel.
  { exfalso. unfold turns_left in Hfuel. destruct stated as [w|]; [case_bool_decide|]; lia. }
  simpl. pose proof (negotiate_turn_spec i window min_slot c m Hc ltac:(lia) Hw) as Hturn.
  destruct (negotiate_turn p i window min_slot c m)
    as [[[res c'] m']|[[[window' slot'] c'] m']].
  - eexists. split; [done|]. simpl in *.
    destruct Hturn as [(->&->&Hs)|[(->&?&Hs)|(->&?&m1&Ha&Hb)]].
    + left. split_and!; [done..|by eapply same_space_trans].
    + right. left. split_and!; [done..|by eapply same_space_trans].
    + right. right. split_and!; [done..|]. exists m1. split; [by eapply adds_span_same|done].
  - destruct Hturn as (Hz&Hs&Hnext).
    assert (same_space m0 m') as Hs' by (by eapply same_space_trans).
    unfold LUPINE_VA_ARENA_COUNT in Hnext. rewrite Hconst in Hnext. unfold turns_left in *.
    destruct Hnext as [(Hst&Hne&->)|(->&Hall&Hk)].
    + rewrite Hst in *. rewrite bool_decide_eq_true_2 in Hfuel by done.
      apply IH; [done|lia|by apply Hsz|done|].
      rewrite bool_decide_eq_false_2 by (intros Hx; by apply Hx). lia.
    + apply IH; [done|lia|done|done|]. destruct stated as [w|]; [|lia].
      rewrite bool_decide_eq_false_2 in * by (intros Hx; apply Hx; by apply Hall). lia.
Qed.

End negotiation_lemmas.

(** * A concrete address space *)

(** Mapped regions as a list of spans; [mmap] never honours the base as a hint. *)
#[global] Instance span_space : AddressSpace (list (Z * Z)) := {
  mapped m x := existsb (fun s => in_span s.1 s.2 x) m;
  map_noreplace base size m :=
    if existsb (fun s => (s.1 <? base + size) && (base <? s.1 + s.2)) m
    then (None, m) else (Some base, (base, size) :: m);
  unmap base size m :=
    List.filter (fun s => 0 <? s.2)
      (flat_map (fun s => [(s.1, Z.min (s.1 + s.2) base - s.1);
                           (Z.max s.1 (base + size), s.1 + s.2 - Z.max s.1 (base + size))]) m);
}.

Lemma in_span_iff base size x : in_span base size x = true <-> base <= x < base + size.
Proof. unfold in_span. rewrite andb_true_iff, Z.leb_le, Z.ltb_lt. lia. Qed.

(** Dropping empty spans unmaps nothing. *)
Lemma existsb_drop_empty (m : list (Z * Z)) x :
  existsb (fun s => in_span s.1 s.2 x) (List.filter (fun s => 0 <? s.2) m) =
  existsb (fun s => in_span s.1 s.2 x) m.
Proof.
  induction m as [|s m IH]; simpl; [done|]. destruct (Z.ltb_spec 0 s.2); simpl; rewrite IH; [done|].
  destruct (in_span s.1 s.2 x) eqn:Hx; [|done]. apply in_span_iff in Hx. lia.
Qed.

#[global] Instance span_space_laws : AddressSpaceLaws (list (Z * Z)).
Proof.
  split; simpl.
  - intros base size m a m' Hs Hmap. destruct (existsb _ m) eqn:Hex; [done|].
    injection Hmap as <- <-. split; [|done]. intros x Hx.
    apply not_true_is_false. intros (s&Hin&Hsx)%existsb_exists.
    apply not_true_iff_false in Hex. apply Hex. apply existsb_exists. exists s. split; [done|].
    apply in_span_iff in Hx, Hsx. apply andb_true_iff. rewrite !Z.ltb_lt. lia.
  - intros base size m m' Hs Hmap x. destruct (existsb _ m); by simplify_eq.
  - intros base size m x Hs. rewrite existsb_drop_empty. induction m as [|[b n] m IH]; simpl; [done|]. rewrite IH.
    rewrite orb_assoc, andb_orb_distrib_l. f_equal. apply Bool.eq_iff_eq_true.
    rewrite orb_true_iff, andb_true_iff, negb_true_iff, <- not_true_iff_false, !in_span_iff.
    simpl. lia.
Qed.

(** * Properties *)

(** C38: concurrent bump claims of one arena, whatever the interleaving and the
    failing compare-exchanges, hand out aligned spans that lie inside the arena
    and never overlap. *)
Theorem va_claims_disjoint c pending c' claims :
  va_wf c -> rtc claim_step (ClaimSys c [] []) (ClaimSys c' pending claims) ->
  Forall (span_ok c') claims /\ ForallOrdPairs spans_disjoint claims.
Proof.
  intros Hwf Hsteps. apply claim_steps_inv in Hsteps as [_ _ Hcl Hd]; [|by apply initial_claim_inv].
  split; [|done]. eapply Forall_impl; [exact Hcl|]. simpl. tauto.
Qed.

(** Two claimers race from the same cursor; the loser retries. *)
Lemma va_claims_disjoint_witness :
  let c := VaFields 0x2000000000 0x800000 0x2000000000 0 in
  let c' := VaFields 0x2000000000 0x800000 0x2000200100 0 in
  let claims := [Span 0x2000200000 0x100 0x200000; Span 0x2000000000 0x100 0x200000] in
  Forall (span_ok c') claims /\ ForallOrdPairs spans_disjoint claims.
Proof.
  intros c c' claims. apply (va_claims_disjoint c [] c' claims).
  - unfold va_wf, is_u64. simpl. lia.
  - eapply rtc_l; [by eapply (claim_enter c [] [] 0x100 0x200000)|].
    eapply rtc_l; [by eapply (claim_enter c _ [] 0x100 0x200000)|].
    eapply rtc_l; [by eapply (claim_exchange c [] (PendingClaim 0x100 0x200000 0x2000000000))|].
    eapply rtc_l; [by eapply (claim_retry _ [] (PendingClaim 0x100 0x200000 0x2000000000) [])|].
    eapply rtc_l; [by eapply (claim_exchange _ [] (PendingClaim 0x100 0x200000 0x2000000100) [])|].
    apply rtc_refl.
Defined.

(** An uncontended claim returns the lowest aligned address at or above the
    cursor, and it fails exactly when no aligned span of that size is left in
    the arena (or the request itself is invalid). *)
Theorem va_claim_lowest_fit c size alignment :
  va_wf c -> va_base c <= va_next c -> is_u64 size -> is_u64 alignment ->
  va_claim_guard c size alignment = true ->
  match lupine_va_claim (Some c) size alignment [] with
  | Some (claimed, next) =>
      next = claimed + size /\ va_next c <= claimed /\ (alignment | claimed) /\
      claimed + size <= va_base c + va_size c /\
      forall a, (alignment | a) -> va_next c <= a -> claimed <= a
  | None => forall a, (alignment | a) -> va_next c <= a -> va_base c + va_size c < a + size
  end.
Proof.
  intros Hwf Hb Hs Ha Hg. unfold lupine_va_claim. rewrite Hg. simpl.
  pose proof Hwf as (?&?&?&Hn). destruct (guard_alignment _ _ _ Hg Hs Ha) as (Hsz&k&Hk&Hak).
  destruct (claim_attempt c (va_next c) size alignment) as [claimed|] eqn:Hat.
  - destruct (claim_attempt_some _ _ _ _ _ Hwf Hg Hs Ha Hn Hat) as (Hr&Hd&Hlo&Hhi).
    unfold is_u64 in *. rewrite wrap64_id by (unfold is_u64; lia). split_and!; [done|lia|done|lia|].
    intros a Hda Hle. apply (aligned_next_le alignment); [lia|done|done|lia].
  - intros a Hda Hle. by eapply claim_attempt_none.
Qed.

Lemma va_claim_lowest_fit_witness :
  match lupine_va_claim (Some (VaFields 0x2000000000 0x800000 0x2000000100 0)) 0x100 0x200000 [] with
  | Some (claimed, next) =>
      next = claimed + 0x100 /\ 0x2000000100 <= claimed /\ (0x200000 | claimed) /\
      claimed + 0x100 <= 0x2000000000 + 0x800000 /\
      forall a, (0x200000 | a) -> 0x2000000100 <= a -> claimed <= a
  | None => forall a, (0x200000 | a) -> 0x2000000100 <= a -> 0x2000000000 + 0x800000 < a + 0x100
  end.
Proof.
  apply (va_claim_lowest_fit (VaFields 0x2000000000 0x800000 0x2000000100 0) 0x100 0x200000);
    [unfold va_wf, is_u64; simpl; lia|simpl; lia|unfold is_u64; lia|unfold is_u64; lia|reflexivity].
Defined.

(** Negotiating an arena with a peer that keeps stating the same window (or
    none) takes at most nine handshakes, and whatever the outcome leaks no
    reservation: a failure gives the address space back, a success holds exactly
    the agreed arena and its writable alias, both free before. *)
Theorem negotiate_arena_terminates {M : Type} `{AddressSpaceLaws M} p stated config_w_offset (m : M) :
  (forall i, peer_window p i = stated) -> (forall w, stated = Some w -> 0 <= win_size w) ->
  exists out, negotiate_arena p 9 config_w_offset m = Some out /\ negotiation_result m out.
Proof.
  intros Hconst Hsz. unfold negotiate_arena.
  apply (negotiate_loop_spec p stated); try done.
  unfold turns_left. destruct stated as [w|]; [case_bool_decide|]; lia.
Qed.

(** A peer that refuses the local window's first slot and hosts another window. *)
Definition stubborn_peer : peer := Peer 0
  (fun i c => if va_base c =? 0x100000000000 then 0 else LUPINE_RPC_HTTP2_VA_CONFLICT)
  (fun _ => Some (VaWindow 0x0f0000000000 0x080000000000)) (fun _ => 0).

Lemma negotiate_arena_terminates_witness :
  (exists out, negotiate_arena stubborn_peer 9 (-0x400000000000) ([] : list (Z * Z)) = Some out /\
     negotiation_result [] out) /\
  negotiate_arena stubborn_peer 9 (-0x400000000000) ([] : list (Z * Z)) =
    Some (0, VaFields 0x100000000000 0x010000000000 0 0x410000000000,
          [(0x510000000000, 0x010000000000); (0x100000000000, 0x010000000000)]).
Proof.
  split.
  - apply (negotiate_arena_terminates stubborn_peer (Some (VaWindow 0x0f0000000000 0x080000000000))).
    + reflexivity.
    + intros w [= <-]. simpl. lia.
  - vm_compute. reflexivity.
Defined.
