(* ===== verification/RpcCore.v ===== *)
(** The RPC core of [rpc.cpp]: the connection, the calling thread's I/O state,
    the request builder with its nested responses, the framing written by
    [rpc_write_end] and read by [rpc_dispatch] and [rpc_read_start], and the read
    side.  Operations are written in a small state monad over the connection, the
    thread's state, the process's hooks, memory and the transport; the HTTP/2
    layer is an interface whose laws say that a stream is a byte queue. *)
From S2P Require Import Prelude AsyncSeq Va.

(** * Data *)

(** A cursor references caller-owned bytes; a non-zero [cur_refill] names a
    refill function with its context. *)
Record rpc_write_cursor := WriteCursor {
  cur_data : Z;
  cur_size : Z;
  cur_refill : Z;
}.

Definition empty_cursor : rpc_write_cursor := WriteCursor 0 0 0.

(** The fields of [conn_t] that a request under construction owns: those that
    [rpc_nested_write_frame] saves. *)
Record write_builder := WriteBuilder {
  write_id : Z;
  write_op : Z;
  write_stream_id : Z;
  write_dependency : Z;
  write_queue : list rpc_write_cursor;
  write_copy_buffer : Z;
  write_copy_capacity : Z;
  write_copy_offset : Z;
}.

Definition empty_builder : write_builder := WriteBuilder 0 0 0 0 [] 0 0 0.

(** The fields with which a client orders its requests behind earlier
    fire-and-forget ones. *)
Record async_sender := AsyncSender {
  async_prefix_stream : Z;
  async_prefix : Z;
  issued_async_sequence : Z;
  published_async_sequence : Z;
}.

Record rpc_host_allocation_write := HostWrite { hw_start : Z; hw_size : Z }.

(** [conn_self] is the connection's address; the mutexes are whether they are
    held. *)
Record conn_t := Conn {
  conn_self : Z;
  connfd : Z;
  request_id : Z;
  local_request_parity : Z;
  builder : write_builder;
  sender : async_sender;
  async : async_state;
  conn_va : va_fields;
  host_allocation_writes : list rpc_host_allocation_write;
  host_allocation_writes_pending : bool;
  closed : bool;
  call_mutex : bool;
  write_mutex : bool;
}.

Record rpc_read_frame := ReadFrame { rf_stream_id : Z; rf_request_id : Z; rf_op : Z }.
Record rpc_response_route := ResponseRoute { rr_request_id : Z; rr_stream_id : Z }.

Definition empty_read_frame : rpc_read_frame := ReadFrame (-1) 0 0.
Definition empty_response_route : rpc_response_route := ResponseRoute 0 (-1).

(** Connection pointers are addresses, 0 is null. *)
Record rpc_thread_io := ThreadIo {
  bound_conn : Z;
  bound_stream : Z;
  read_conn : Z;
  read : rpc_read_frame;
  write_conn : Z;
  nested_write : Z * write_builder;
  response_conn : Z;
  response : rpc_response_route;
  held_call_lock : Z;
}.

Definition empty_nested : Z * write_builder :=
  (0, WriteBuilder 0 0 (-1) 0 [] 0 0 0).

Definition initial_thread_io : rpc_thread_io :=
  ThreadIo 0 (-1) 0 empty_read_frame 0 empty_nested 0 empty_response_route 0.

(** The process-wide hooks: which are installed, and the answer of the one that
    returns a value. *)
Record rpc_lifecycle_hooks := Hooks {
  hook_connection_closed : bool;
  hook_thread_lane_destroyed : bool;
  hook_response_completed : bool;
  hook_host_range_is_protected : option (Z -> Z -> bool);
}.

Record hook_state := HookState {
  lifecycle_hooks_set : bool;
  installed : rpc_lifecycle_hooks;
}.

Definition initial_hook_state : hook_state := HookState false (Hooks false false false None).

Inductive hook_call :=
  | connection_closed (conn : Z)
  | thread_lane_destroyed (lane : Z)
  | response_completed (conn stream_id : Z).

(** * The environment *)

Record rpc_env := RpcEnv {
  env_malloc : Z -> Z;
  env_grow : Z -> bool;
  env_refill : Z -> list byte * bool;
  env_page_size : Z;
  env_mprotect : Z -> Z -> Z -> Z;
  env_lane_id : Z;
}.

Definition LUPINE_RPC_HTTP2_STREAM_END : Z := -2.

(** The HTTP/2 layer.  A read returns [None] while it must wait for bytes; a
    write gets the bytes of the cursors and whether a refill failed after them. *)
Class Transport (T : Type) := {
  rpc_http2_read_stream : T -> Z -> Z -> option (Z * list byte * T);
  rpc_http2_write_stream : T -> Z -> list byte -> bool -> Z * T;
  rpc_http2_dispatch_stream : T -> Z;
  rpc_http2_lane_stream : T -> Z -> Z * T;
  lupine_handoff_request_begin : T -> Z -> bool -> Z;
}.

(** What the core relies on: each stream is a queue of bytes in each direction. *)
Class TransportLaws (T : Type) `{Transport T} := {
  stream_input : T -> Z -> list byte;
  stream_output : T -> Z -> list byte;
  read_available : forall t s n, 0 <= n <= Z.of_nat (length (stream_input t s)) ->
    exists t', rpc_http2_read_stream t s n = Some (0, take (Z.to_nat n) (stream_input t s), t') /\
      stream_input t' s = drop (Z.to_nat n) (stream_input t s) /\
      (forall s', s' <> s -> stream_input t' s' = stream_input t s') /\
      (forall s', stream_output t' s' = stream_output t s');
  write_accepted : forall t s bs failed r t',
    rpc_http2_write_stream t s bs failed = (r, t') -> r = 0 ->
    failed = false /\ stream_output t' s = stream_output t s ++ bs /\
    (forall s', s' <> s -> stream_output t' s' = stream_output t s') /\
    (forall s', stream_input t' s' = stream_input t s');
  lane_stream_quiet : forall t l s t', rpc_http2_lane_stream t l = (s, t') ->
    (forall s', stream_output t' s' = stream_output t s') /\
    (forall s', stream_input t' s' = stream_input t s');
}.

(** * The monad *)

Record world (T : Type) := World {
  w_conn : conn_t;
  w_io : rpc_thread_io;
  w_hooks : hook_state;
  w_calls : list hook_call;
  w_mem : Z -> byte;
  w_protected : list (Z * Z * Z);
  w_net : T;
}.
#[global] Arguments World {T}.
#[global] Arguments w_conn {T}.
#[global] Arguments w_io {T}.
#[global] Arguments w_hooks {T}.
#[global] Arguments w_calls {T}.
#[global] Arguments w_mem {T}.
#[global] Arguments w_protected {T}.
#[global] Arguments w_net {T}.

(** A call returns, waits for a lock, for bytes or for a prefix, or aborts. *)
Inductive outcome (T A : Type) :=
  | Done (a : A) (w : world T)
  | Blocked
  | Aborted.
#[global] Arguments Done {T A}.
#[global] Arguments Blocked {T A}.
#[global] Arguments Aborted {T A}.

Definition rpc (T A : Type) : Type := world T -> outcome T A.

Definition rret {T A} (a : A) : rpc T A := fun w => Done a w.
Definition rbind {T A B} (m : rpc T A) (f : A -> rpc T B) : rpc T B := fun w =>
  match m w with
  | Done a w' => f a w'
  | Blocked => Blocked
  | Aborted => Aborted
  end.
Definition rget {T A} (f : world T -> A) : rpc T A := fun w => Done (f w) w.
Definition rput {T} (f : world T -> world T) : rpc T unit := fun w => Done tt (f w).

Notation "'let*' x ':=' m 'in' k" := (rbind m (fun x => k))
  (at level 10, x pattern, m at level 100, k at level 200) : lupine_scope.
Notation "m ';;;' k" := (rbind m (fun _ => k))
  (at level 199, right associativity) : lupine_scope.
#[global] Open Scope lupine_scope.

Definition set_conn {T} (c : conn_t) (w : world T) : world T :=
  World c (w_io w) (w_hooks w) (w_calls w) (w_mem w) (w_protected w) (w_net w).
Definition set_io {T} (io : rpc_thread_io) (w : world T) : world T :=
  World (w_conn w) io (w_hooks w) (w_calls w) (w_mem w) (w_protected w) (w_net w).
Definition set_net {T} (t : T) (w : world T) : world T :=
  World (w_conn w) (w_io w) (w_hooks w) (w_calls w) (w_mem w) (w_protected w) t.
Definition set_mem {T} (m : Z -> byte) (w : world T) : world T :=
  World (w_conn w) (w_io w) (w_hooks w) (w_calls w) m (w_protected w) (w_net w).
Definition add_call {T} (h : hook_call) (w : world T) : world T :=
  World (w_conn w) (w_io w) (w_hooks w) (w_calls w ++ [h]) (w_mem w) (w_protected w) (w_net w).
Definition add_protected {T} (p : Z * Z * Z) (w : world T) : world T :=
  World (w_conn w) (w_io w) (w_hooks w) (w_calls w) (w_mem w) (w_protected w ++ [p]) (w_net w).

Definition mod_conn {T} (f : conn_t -> conn_t) : rpc T unit :=
  rput (fun w => set_conn (f (w_conn w)) w).
Definition mod_io {T} (f : rpc_thread_io -> rpc_thread_io) : rpc T unit :=
  rput (fun w => set_io (f (w_io w)) w).
Definition get_conn {T} : rpc T conn_t := rget w_conn.
Definition get_io {T} : rpc T rpc_thread_io := rget w_io.

(** Field updates. *)
Definition upd_builder (b : write_builder) (c : conn_t) : conn_t :=
  Conn (conn_self c) (connfd c) (request_id c) (local_request_parity c) b (sender c) (async c)
    (conn_va c) (host_allocation_writes c) (host_allocation_writes_pending c) (closed c)
    (call_mutex c) (write_mutex c).
Definition upd_sender (s : async_sender) (c : conn_t) : conn_t :=
  Conn (conn_self c) (connfd c) (request_id c) (local_request_parity c) (builder c) s (async c)
    (conn_va c) (host_allocation_writes c) (host_allocation_writes_pending c) (closed c)
    (call_mutex c) (write_mutex c).
Definition upd_request_id (i : Z) (c : conn_t) : conn_t :=
  Conn (conn_self c) (connfd c) i (local_request_parity c) (builder c) (sender c) (async c)
    (conn_va c) (host_allocation_writes c) (host_allocation_writes_pending c) (closed c)
    (call_mutex c) (write_mutex c).
Definition upd_async (a : async_state) (cl : bool) (c : conn_t) : conn_t :=
  Conn (conn_self c) (connfd c) (request_id c) (local_request_parity c) (builder c) (sender c) a
    (conn_va c) (host_allocation_writes c) (host_allocation_writes_pending c) cl
    (call_mutex c) (write_mutex c).
Definition upd_host_writes (l : list rpc_host_allocation_write) (p : bool) (c : conn_t) : conn_t :=
  Conn (conn_self c) (connfd c) (request_id c) (local_request_parity c) (builder c) (sender c)
    (async c) (conn_va c) l p (closed c) (call_mutex c) (write_mutex c).
Definition upd_call_mutex (b : bool) (c : conn_t) : conn_t :=
  Conn (conn_self c) (connfd c) (request_id c) (local_request_parity c) (builder c) (sender c)
    (async c) (conn_va c) (host_allocation_writes c) (host_allocation_writes_pending c) (closed c)
    b (write_mutex c).
Definition upd_write_mutex (b : bool) (c : conn_t) : conn_t :=
  Conn (conn_self c) (connfd c) (request_id c) (local_request_parity c) (builder c) (sender c)
    (async c) (conn_va c) (host_allocation_writes c) (host_allocation_writes_pending c) (closed c)
    (call_mutex c) b.

(** * Operations *)

Section operations.
Context {T : Type} `{Transport T} (env : rpc_env).

Definition lock_call : rpc T unit := fun w =>
  if call_mutex (w_conn w) then Blocked else Done tt (set_conn (upd_call_mutex true (w_conn w)) w).
Definition unlock_call : rpc T unit := mod_conn (upd_call_mutex false).
Definition trylock_call : rpc T bool := fun w =>
  if call_mutex (w_conn w) then Done false w
  else Done true (set_conn (upd_call_mutex true (w_conn w)) w).
Definition lock_write : rpc T unit := fun w =>
  if write_mutex (w_conn w) then Blocked else Done tt (set_conn (upd_write_mutex true (w_conn w)) w).
Definition unlock_write : rpc T unit := mod_conn (upd_write_mutex false).

(** ** Hooks *)

Definition rpc_set_lifecycle_hooks (hooks : option rpc_lifecycle_hooks) : rpc T Z := fun w =>
  match hooks with
  | None => Done (-1) w
  | Some h =>
      if lifecycle_hooks_set (w_hooks w) then Done (-1) w
      else Done 0 (World (w_conn w) (w_io w) (HookState true h) (w_calls w) (w_mem w)
                     (w_protected w) (w_net w))
  end.

Definition call_hook (present : rpc_lifecycle_hooks -> bool) (h : hook_call) : rpc T unit :=
  rput (fun w => if present (installed (w_hooks w)) then add_call h w else w).

Definition rpc_mark_connection_closed : rpc T unit :=
  mod_conn (fun c => upd_async (rpc_cancel_async_waits (async c)) true c) ;;;
  let* c := get_conn in
  call_hook hook_connection_closed (connection_closed (conn_self c)).

(** The destructor of the thread's lane. *)
Definition rpc_thread_lane_exit : rpc T unit :=
  call_hook hook_thread_lane_destroyed (thread_lane_destroyed (env_lane_id env)).

(** ** The builder *)

Definition release_buffer (b : write_builder) : write_builder :=
  WriteBuilder (write_id b) (write_op b) (write_stream_id b) (write_dependency b)
    (write_queue b) 0 0 0.
Definition upd_queue (q : list rpc_write_cursor) (b : write_builder) : write_builder :=
  WriteBuilder (write_id b) (write_op b) (write_stream_id b) (write_dependency b) q
    (write_copy_buffer b) (write_copy_capacity b) (write_copy_offset b).

Definition mod_builder (f : write_builder -> write_builder) : rpc T unit :=
  mod_conn (fun c => upd_builder (f (builder c)) c).

Definition rpc_write_buffer_release : rpc T unit := mod_builder release_buffer.

Definition rpc_write_queue_reset (count : nat) : rpc T Z :=
  rpc_write_buffer_release ;;;
  mod_builder (upd_queue []) ;;;
  if env_grow env (Z.of_nat count) then
    mod_builder (upd_queue (replicate count empty_cursor)) ;;; rret 0
  else rret (-1).

(** [max_size] of a vector of 32-byte cursors. *)
Definition queue_max_size : Z := (2 ^ 63 - 1) / 32.

Definition rpc_write_queue_push (cursor : rpc_write_cursor) : rpc T Z :=
  let* c := get_conn in
  let q := write_queue (builder c) in
  let n := Z.of_nat (length q) in
  if (conn_self c =? 0) || (INT_MAX <=? n) || (n =? queue_max_size) then rret (-1)
  else if env_grow env (n + 1) then mod_builder (upd_queue (q ++ [cursor])) ;;; rret 0
  else rret (-1).

(** The outer response moves into the frame and leaves an empty queue and no
    copy buffer behind. *)
Definition rpc_save_outer_response : rpc T unit :=
  let* c := get_conn in
  mod_io (fun io => ThreadIo (bound_conn io) (bound_stream io) (read_conn io) (read io)
    (write_conn io) (conn_self c, builder c) (response_conn io) (response io)
    (held_call_lock io)) ;;;
  mod_builder (fun b => upd_queue [] (release_buffer b)).

Definition rpc_restore_outer_response : rpc T unit :=
  let* io := get_io in
  mod_builder (fun _ => (nested_write io).2) ;;;
  mod_io (fun io => ThreadIo (bound_conn io) (bound_stream io) (read_conn io) (read io)
    (write_conn io) empty_nested (response_conn io) (response io) (held_call_lock io)).

Definition set_write_conn (v : Z) (io : rpc_thread_io) : rpc_thread_io :=
  ThreadIo (bound_conn io) (bound_stream io) (read_conn io) (read io) v (nested_write io)
    (response_conn io) (response io) (held_call_lock io).

Definition rpc_release_write_builder (request_nested_in_response : bool) : rpc T unit :=
  rpc_write_buffer_release ;;;
  if request_nested_in_response then rpc_restore_outer_response
  else mod_io (set_write_conn 0) ;;; unlock_write.

Definition set_held_call_lock (v : Z) (io : rpc_thread_io) : rpc_thread_io :=
  ThreadIo (bound_conn io) (bound_stream io) (read_conn io) (read io) (write_conn io)
    (nested_write io) (response_conn io) (response io) v.

Definition rpc_release_held_call_lock : rpc T unit :=
  let* c := get_conn in
  let* io := get_io in
  if held_call_lock io =? conn_self c then mod_io (set_held_call_lock 0) ;;; unlock_call
  else rret tt.

(** ** Streams *)

Definition set_bound (conn stream : Z) (io : rpc_thread_io) : rpc_thread_io :=
  ThreadIo conn stream (read_conn io) (read io) (write_conn io) (nested_write io)
    (response_conn io) (response io) (held_call_lock io).

Definition rpc_bind_http2_stream (stream_id : Z) : rpc T Z :=
  let* c := get_conn in
  if (conn_self c =? 0) || (stream_id <? 0) then rret (-1)
  else mod_io (set_bound (conn_self c) stream_id) ;;; rret 0.

Definition rpc_unbind_http2_stream : rpc T unit :=
  let* c := get_conn in
  let* io := get_io in
  if bound_conn io =? conn_self c then mod_io (set_bound 0 (-1)) else rret tt.

Definition rpc_current_http2_stream : rpc T Z :=
  let* c := get_conn in
  let* io := get_io in
  if read_conn io =? conn_self c then rret (rf_stream_id (read io))
  else if bound_conn io =? conn_self c then rret (bound_stream io)
  else rget (fun w => rpc_http2_dispatch_stream (w_net w)).

Definition net_read (stream size : Z) : rpc T (Z * list byte) := fun w =>
  match rpc_http2_read_stream (w_net w) stream size with
  | None => Blocked
  | Some (r, bs, t) => Done (r, bs) (set_net t w)
  end.

Definition net_lane_stream : rpc T Z := fun w =>
  let '(s, t) := rpc_http2_lane_stream (w_net w) (env_lane_id env) in Done s (set_net t w).

Definition net_write (stream : Z) (bs : list byte) (failed : bool) : rpc T Z := fun w =>
  let '(r, t) := rpc_http2_write_stream (w_net w) stream bs failed in Done r (set_net t w).

(** ** Dispatch *)

(** [int header[2]]. *)
Definition header_fields (bs : list byte) : Z * Z :=
  (sint32 (le_val (take 4 bs)), sint32 (le_val (take 4 (drop 4 bs)))).

Definition set_read (conn : Z) (f : rpc_read_frame) (io : rpc_thread_io) : rpc_thread_io :=
  ThreadIo (bound_conn io) (bound_stream io) conn f (write_conn io) (nested_write io)
    (response_conn io) (response io) (held_call_lock io).

(** The wait on the completion prefix, which blocks while it is not covered. *)
Definition wait_published (published : Z) : rpc T Z := fun w =>
  match rpc_async_sequence_wait published [] (async (w_conn w)) with
  | None => Blocked
  | Some r => Done r w
  end.

(** The header loop.  Each wait marker consumes sixteen bytes of input, so fuel
    beyond the available input suffices. *)
Fixpoint dispatch_header (fuel : nat) (stream_id parity : Z) : rpc T (option (Z * Z)) :=
  match fuel with
  | O => fun _ => Blocked
  | S fuel' =>
      let* (result, bs) := net_read stream_id 8 in
      if negb (result =? 0) then
        (if negb (result =? LUPINE_RPC_HTTP2_STREAM_END)
         then rpc_mark_connection_closed else rret tt) ;;;
        rret None
      else
        let '(h0, h1) := header_fields bs in
        if negb (parity =? 0) || negb (h0 =? 0) then rret (Some (h0, h1))
        else if negb (h1 =? 0) then rpc_mark_connection_closed ;;; rret None
        else
          let* (result, bs) := net_read stream_id 8 in
          if negb (result =? 0) then rpc_mark_connection_closed ;;; rret None
          else
            let* waited := wait_published (le_val bs) in
            if waited <? 0 then rpc_mark_connection_closed ;;; rret None
            else dispatch_header fuel' stream_id parity
  end.

Definition rpc_dispatch (fuel : nat) (parity : Z) : rpc T Z :=
  let* c := get_conn in
  if (conn_self c =? 0) || closed c then rret (-1)
  else
    let* stream_id := rpc_current_http2_stream in
    if stream_id <? 0 then rret (-1)
    else
      let* header := dispatch_header fuel stream_id parity in
      match header with
      | None => rret (-1)
      | Some (h0, h1) =>
          if (h0 <? 2) || negb (Z.rem h0 2 =? parity)
          then rpc_mark_connection_closed ;;; rret (-1)
          else mod_io (set_read (conn_self c) (ReadFrame stream_id h0 h1)) ;;; rret h1
      end.

Definition rpc_read_start (wid : Z) : rpc T Z :=
  let* c := get_conn in
  let* io := get_io in
  if negb (response_conn io =? conn_self c) || negb (rr_request_id (response io) =? wid)
  then rpc_release_held_call_lock ;;; rret (-1)
  else
    let stream_id := rr_stream_id (response io) in
    let* (result, bs) := net_read stream_id 8 in
    let '(h0, h1) := header_fields bs in
    if negb (result =? 0) || negb (h0 =? wid) || negb (h1 =? -1)
    then rpc_mark_connection_closed ;;; rpc_release_held_call_lock ;;; rret (-1)
    else mod_io (set_read (conn_self c) (ReadFrame stream_id h0 h1)) ;;; rret 0.

(** ** Host allocations *)

Definition LUPINE_HOST_ALLOCATION_SERVER_BASE : Z := 0x700000000000.
Definition LUPINE_HOST_ALLOCATION_WINDOW_SIZE : Z := 0x100000000000.
Definition LUPINE_HOST_ALLOCATION_R_OFFSET : Z := -0x500000000000.

(** The writable alias of a client view, or null. *)
Definition rpc_host_allocation_alias (va : va_fields) (address size : Z) : Z :=
  if negb (va_size va =? 0) && negb (w_offset va =? 0)
     && lupine_va_contains (Some va) address size
  then wrap64 (address + w_offset va)
  else if (va_size va =? 0) && negb (w_offset va =? 0) then
    let read_base :=
      wrap64 (LUPINE_HOST_ALLOCATION_SERVER_BASE + LUPINE_HOST_ALLOCATION_R_OFFSET) in
    if (read_base <=? address) && (size <=? LUPINE_HOST_ALLOCATION_WINDOW_SIZE)
       && (address - read_base <=? LUPINE_HOST_ALLOCATION_WINDOW_SIZE - size)
    then
      let server_address := wrap64 (address - LUPINE_HOST_ALLOCATION_R_OFFSET) in
      wrap64 (server_address + w_offset va)
    else 0
  else 0.

(** Extends the last record when the write continues it. *)
Definition record_host_write (start written : Z) (l : list rpc_host_allocation_write)
    : list rpc_host_allocation_write :=
  match last l with
  | Some b =>
      if wrap64 (hw_start b + hw_size b) =? start
      then take (length l - 1) l ++ [HostWrite (hw_start b) (wrap64 (hw_size b + written))]
      else l ++ [HostWrite start written]
  | None => l ++ [HostWrite start written]
  end.

Definition host_write_extends (start : Z) (l : list rpc_host_allocation_write) : bool :=
  match last l with
  | Some b => wrap64 (hw_start b + hw_size b) =? start
  | None => false
  end.

Definition PROT_READ : Z := 1.
Definition PROT_WRITE : Z := 2.

Definition rpc_note_host_allocation_write (start written : Z) : rpc T Z :=
  lock_write ;;;
  let* c := get_conn in
  let l := host_allocation_writes c in
  if negb (host_write_extends start l) && negb (env_grow env (Z.of_nat (length l) + 1))
  then unlock_write ;;; rret (-1)
  else
    mod_conn (fun c => upd_host_writes (record_host_write start written l)
                (host_allocation_writes_pending c || negb (written =? 0)) c) ;;;
    unlock_write ;;;
    if written =? 0 then rret 0
    else
      let* hooks := rget (fun w => installed (w_hooks w)) in
      let page_size := env_page_size env in
      let page_start := mask_down start page_size in
      let page_end := mask_down (wrap64 (start + written + page_size - 1)) page_size in
      let protection :=
        match hook_host_range_is_protected hooks with
        | None => PROT_READ
        | Some protected_range =>
            if protected_range start written then PROT_READ else Z.lor PROT_READ PROT_WRITE
        end in
      rput (add_protected (page_start, wrap64 (page_end - page_start), protection)) ;;;
      if env_mprotect env page_start (wrap64 (page_end - page_start)) protection <? 0
      then rret (-1) else rret 0.

(** ** Reads *)

Definition mem_store (m : Z -> byte) (addr : Z) (bs : list byte) : Z -> byte := fun x =>
  if (addr <=? x) && (x <? addr + Z.of_nat (length bs))
  then nth (Z.to_nat (x - addr)) bs 0 else m x.

Definition mem_load (m : Z -> byte) (addr size : Z) : list byte := m <$> seqZ addr size.

Definition rpc_read_http2 (data size : Z) : rpc T Z :=
  let* stream_id := rpc_current_http2_stream in
  if stream_id <? 0 then rret (-1)
  else
    let* (result, bs) := net_read stream_id size in
    rput (fun w => set_mem (mem_store (w_mem w) data bs) w) ;;;
    rret result.

Definition rpc_read (data size : Z) : rpc T Z :=
  let* c := get_conn in
  let alias := rpc_host_allocation_alias (conn_va c) data size in
  let* result := rpc_read_http2 (if negb (alias =? 0) then alias else data) size in
  if (result <? 0) || (alias =? 0) then rret result
  else
    let* noted := rpc_note_host_allocation_write data size in
    rret (if noted <? 0 then -1 else 0).

(** The rows of a pitched region, slice by slice. *)
Definition pitched_rows (data : Z) (rows : nat) (row_stride : Z) (slices : nat)
    (slice_stride : Z) : list Z :=
  z ← seqZ 0 (Z.of_nat slices);
  (fun row => wrap64 (data + z * slice_stride + row * row_stride)) <$> seqZ 0 (Z.of_nat rows).

Fixpoint read_rows (width : Z) (rows : list Z) : rpc T Z :=
  match rows with
  | [] => rret 0
  | row :: rows' =>
      let* result := rpc_read row width in
      if result <? 0 then rret (-1) else read_rows width rows'
  end.

Definition rpc_read_pitched (data width : Z) (rows : nat) (row_stride : Z) (slices : nat)
    (slice_stride : Z) : rpc T Z :=
  read_rows width (pitched_rows data rows row_stride slices slice_stride).

Definition drain_chunk : Z := 64 * 1024.

(** The loop of [rpc_drain], whose scratch buffer is at [buffer]. *)
Fixpoint drain_loop (fuel : nat) (buffer offset size : Z) : rpc T Z :=
  if negb (offset <? size) then rret 0
  else
    match fuel with
    | O => fun _ => Blocked
    | S fuel' =>
        let chunk := Z.min drain_chunk (size - offset) in
        let* result := rpc_read buffer chunk in
        if result <? 0 then rret (-1) else drain_loop fuel' buffer (offset + chunk) size
    end.

Definition rpc_drain (buffer size : Z) : rpc T Z :=
  drain_loop (Z.to_nat (size / drain_chunk + 1)) buffer 0 size.

Definition rpc_read_end : rpc T Z :=
  let* c := get_conn in
  let* io := get_io in
  if read_conn io =? conn_self c then
    let frame := read io in
    mod_io (set_read 0 empty_read_frame) ;;;
    rpc_release_held_call_lock ;;;
    (if rf_op frame =? -1
     then call_hook hook_response_completed (response_completed (conn_self c) (rf_stream_id frame))
     else rret tt) ;;;
    rret (rf_request_id frame)
  else rpc_release_held_call_lock ;;; rret (-1).

(** ** Starting a request or a response *)

Definition rpc_write_start_request (op : Z) : rpc T Z :=
  let* c := get_conn in
  let* io := get_io in
  if (conn_self c =? 0) || closed c then rret (-1)
  else
    let nested := (write_conn io =? conn_self c) && ((nested_write io).1 =? 0)
                  && (write_op (builder c) =? -1) in
    if negb (write_conn io =? 0) && negb nested then rret (-1)
    else
      let dependency :=
        if local_request_parity c =? 0 then published_async_sequence (sender c) else 0 in
      let* locked := if nested then trylock_call else (lock_call ;;; rret true) in
      if negb locked then rret (-1)
      else
        let callback := nested || ((read_conn io =? conn_self c) && negb (rf_op (read io) =? -1)) in
        let* began := rget (fun w => lupine_handoff_request_begin (w_net w) op callback) in
        let* c' := get_conn in
        if (began <? 0) || closed c' then unlock_call ;;; rret (-1)
        else
          (if nested then rpc_save_outer_response
           else lock_write ;;; mod_io (set_write_conn (conn_self c))) ;;;
          let* reset := rpc_write_queue_reset 2 in
          if reset <? 0 then rpc_release_write_builder nested ;;; unlock_call ;;; rret (-1)
          else
            mod_conn (fun c => upd_request_id (request_id c + 2) c) ;;;
            let* stream := net_lane_stream in
            mod_conn (fun c => upd_builder
              (WriteBuilder (request_id c) op stream dependency (write_queue (builder c))
                 (write_copy_buffer (builder c)) (write_copy_capacity (builder c))
                 (write_copy_offset (builder c))) c) ;;;
            if stream <? 0 then rpc_release_write_builder nested ;;; unlock_call ;;; rret (-1)
            else rret 0.

(** Result and the sequence handed to the caller. *)
Definition rpc_write_start_async_request (op : Z) : rpc T (Z * option Z) :=
  let* started := rpc_write_start_request op in
  if started <? 0 then rret (-1, None)
  else
    let* c := get_conn in
    let s := sender c in
    mod_conn (upd_sender (AsyncSender (async_prefix_stream s) (async_prefix s)
      (wrap64 (issued_async_sequence s + 1)) (published_async_sequence s))) ;;;
    rret (0, Some (issued_async_sequence s)).

Definition rpc_write_start_response (read_id : Z) : rpc T Z :=
  let* c := get_conn in
  let* io := get_io in
  if (conn_self c =? 0) || closed c || negb (write_conn io =? 0) then rret (-1)
  else
    lock_write ;;;
    mod_io (set_write_conn (conn_self c)) ;;;
    let* reset := rpc_write_queue_reset 2 in
    if reset <? 0 then mod_io (set_write_conn 0) ;;; unlock_write ;;; rret (-1)
    else
      let* stream := rpc_current_http2_stream in
      mod_builder (fun b => WriteBuilder read_id (-1) stream (write_dependency b)
        (write_queue b) (write_copy_buffer b) (write_copy_capacity b) (write_copy_offset b)) ;;;
      if stream <? 0 then mod_io (set_write_conn 0) ;;; unlock_write ;;; rret (-1)
      else rret 0.

(** ** Queueing payload *)

Definition rpc_write (data size : Z) : rpc T Z :=
  if size =? 0 then rret 0 else rpc_write_queue_push (WriteCursor data size 0).

Fixpoint write_rows (width : Z) (rows : list Z) : rpc T Z :=
  match rows with
  | [] => rret 0
  | row :: rows' =>
      let* result := rpc_write row width in
      if result <? 0 then rret (-1) else write_rows width rows'
  end.

Definition rpc_write_pitched (data width : Z) (rows : nat) (row_stride : Z) (slices : nat)
    (slice_stride : Z) : rpc T Z :=
  write_rows width (pitched_rows data rows row_stride slices slice_stride).

Definition upd_copy (buffer capacity offset : Z) (b : write_builder) : write_builder :=
  WriteBuilder (write_id b) (write_op b) (write_stream_id b) (write_dependency b) (write_queue b)
    buffer capacity offset.

Definition rpc_copy_alloc (size : Z) : rpc T Z :=
  let* c := get_conn in
  let b := builder c in
  if (conn_self c =? 0) || negb (write_copy_buffer b =? 0) || negb (write_copy_capacity b =? 0)
     || negb (write_copy_offset b =? 0)
  then rret (-1)
  else if size =? 0 then rret 0
  else
    let buffer := env_malloc env size in
    if buffer =? 0 then fun _ => Aborted
    else mod_builder (upd_copy buffer size (write_copy_offset b)) ;;; rret 0.

(** The pointer handed to the caller, 0 on failure.  [alignment] is non-zero. *)
Definition rpc_write_buffer (size alignment : Z) : rpc T Z :=
  let* c := get_conn in
  let b := builder c in
  if (conn_self c =? 0) || (write_copy_buffer b =? 0) then rret 0
  else
    let offset :=
      wrap64 (wrap64 (write_copy_offset b + alignment - 1) / alignment * alignment) in
    let required := wrap64 (offset + size) in
    if write_copy_capacity b <? required then rret 0
    else
      let buffer := wrap64 (write_copy_buffer b + offset) in
      mod_builder (upd_copy (write_copy_buffer b) (write_copy_capacity b) required) ;;;
      let* pushed := rpc_write buffer size in
      if pushed <? 0 then rret 0 else rret buffer.

Fixpoint push_cursors (cursors : list rpc_write_cursor) : rpc T Z :=
  match cursors with
  | [] => rret 0
  | cur :: cursors' =>
      if (cur_data cur =? 0) && negb (cur_size cur =? 0) then rret (-1)
      else mod_builder (fun b => upd_queue (write_queue b ++ [cur]) b) ;;; push_cursors cursors'
  end.

Definition rpc_write_cursors (cursors : list rpc_write_cursor) : rpc T Z :=
  let count := Z.of_nat (length cursors) in
  if count =? 0 then rret 0
  else
    let* c := get_conn in
    let n := Z.of_nat (length (write_queue (builder c))) in
    if (conn_self c =? 0) || (INT_MAX - n <? count) || (queue_max_size - n <? count)
    then rret (-1)
    else if negb (env_grow env (n + count)) then rret (-1)
    else push_cursors cursors.

(** ** Ending a request or a response *)

(** The bytes of the cursors, and whether a refill failed after them. *)
Fixpoint cursor_bytes (m : Z -> byte) (q : list rpc_write_cursor) : list byte * bool :=
  match q with
  | [] => ([], false)
  | cur :: q' =>
      let span := mem_load m (cur_data cur) (cur_size cur) in
      let '(more, failed) :=
        if cur_refill cur =? 0 then ([], false) else env_refill env (cur_refill cur) in
      if failed then (span ++ more, true)
      else let '(rest, failed) := cursor_bytes m q' in (span ++ more ++ rest, failed)
  end.

Definition frame_header (fence : option Z) (wid op : Z) : list byte :=
  match fence with
  | Some published => le_bytes 4 0 ++ le_bytes 4 0 ++ le_bytes 8 published
  | None => []
  end ++ le_bytes 4 wid ++ le_bytes 4 op.

(** The sender after a client request went out on [stream]. *)
Definition note_sent (dependency : Z) (s : async_sender) : async_sender :=
  let prefix := Z.max (async_prefix s) dependency in
  let published := issued_async_sequence s in
  if published =? published_async_sequence s
  then AsyncSender (async_prefix_stream s) prefix (issued_async_sequence s)
         (published_async_sequence s)
  else AsyncSender (async_prefix_stream s)
         (if published =? wrap64 (prefix + 1) then published else prefix)
         (issued_async_sequence s) published.

Definition switch_lane (stream : Z) (s : async_sender) : async_sender :=
  if negb (async_prefix_stream s =? stream)
  then AsyncSender stream 0 (issued_async_sequence s) (published_async_sequence s) else s.

Definition rpc_write_end : rpc T Z :=
  let* c := get_conn in
  let* io := get_io in
  if (conn_self c =? 0) || negb (write_conn io =? conn_self c) then rret (-1)
  else
    let request := negb (write_op (builder c) =? -1) in
    let nested := (nested_write io).1 =? conn_self c in
    if closed c then
      rpc_release_write_builder nested ;;;
      (if request then unlock_call else rret tt) ;;;
      rret (-1)
    else
      let b := builder c in
      let client_request := request && (local_request_parity c =? 0) in
      (if client_request
       then mod_conn (fun c => upd_sender (switch_lane (write_stream_id b) (sender c)) c)
       else rret tt) ;;;
      let* s := rget (fun w => sender (w_conn w)) in
      let* result :=
        if (length (write_queue b) <? 2)%nat then rret (-1)
        else
          let fence :=
            if client_request && (async_prefix s <? write_dependency b)
            then Some (write_dependency b) else None in
          let* m := rget w_mem in
          let '(payload, failed) := cursor_bytes m (drop 2 (write_queue b)) in
          let* result := net_write (write_stream_id b)
            (frame_header fence (write_id b) (write_op b) ++ payload) failed in
          (if (result =? 0) && client_request
           then mod_conn (fun c => upd_sender (note_sent (write_dependency b) (sender c)) c)
           else rret tt) ;;;
          rret result in
      rpc_release_write_builder nested ;;;
      (if request then
         (if result =? 0
          then mod_io (fun io => ThreadIo (bound_conn io) (bound_stream io) (read_conn io)
                 (read io) (write_conn io) (nested_write io) (conn_self c)
                 (ResponseRoute (write_id b) (write_stream_id b)) (held_call_lock io))
          else rret tt) ;;;
         (if (result =? 0) && (local_request_parity c =? 1)
          then mod_io (set_held_call_lock (conn_self c)) else unlock_call)
       else rret tt) ;;;
      rret (if result =? 0 then write_id b else -1).

Definition rpc_wait_for_response : rpc T Z :=
  let* wid := rpc_write_end in
  if wid <? 0 then rret (-1)
  else
    let* result := rpc_read_start wid in
    rret (if result <? 0 then -1 else 0).

(** ** Connections *)

(** [*conn = {}] and the fields a new connection gets; [sync_ok] is whether the
    mutexes and the condition variable could be made. *)
Definition rpc_conn_init (self fd rid : Z) (sync_ok : bool) : Z * conn_t :=
  if sync_ok
  then (0, Conn self fd rid (Z.land rid 1) empty_builder (AsyncSender 0 0 0 0)
             (AsyncState 0 ∅ false true) (VaFields 0 0 0 0) [] false false false false)
  else (-1, Conn self (-1) 0 0 empty_builder (AsyncSender 0 0 0 0)
              (AsyncState 0 ∅ false false) (VaFields 0 0 0 0) [] false false false false).

Definition rpc_shutdown_transport (c : conn_t) : conn_t :=
  upd_async (rpc_cancel_async_waits (async c)) true c.

End operations.

(** * Framing lemmas *)

#[global] Arguments frame_header : simpl never.
#[global] Arguments header_fields : simpl never.

(** Unfolds the monad on the goal and on a hypothesis. *)
Ltac run := unfold rbind, rret, rget, rput, mod_conn, mod_io, get_conn, get_io; simpl.
Ltac run_in Hw := unfold rbind, rret, rget, rput, mod_conn, mod_io, get_conn, get_io in Hw;
  simpl in Hw.

Lemma header_fields_bytes a b rest :
  is_int a -> is_int b -> header_fields (le_bytes 4 a ++ le_bytes 4 b ++ rest) = (a, b).
Proof.
  intros Ha Hb. unfold header_fields. rewrite take_app_length', drop_app_length', take_app_length'
    by (by rewrite length_le_bytes).
  by rewrite !sint32_le_bytes.
Qed.

Lemma header_fields_bytes' a b :
  is_int a -> is_int b -> header_fields (le_bytes 4 a ++ le_bytes 4 b) = (a, b).
Proof. intros. rewrite <- (app_nil_r (le_bytes 4 b)). by apply header_fields_bytes. Qed.

Lemma length_frame_header fence wid op :
  length (frame_header fence wid op) = match fence with Some _ => 24%nat | None => 8%nat end.
Proof. unfold frame_header. destruct fence; by rewrite !length_app, !length_le_bytes. Qed.

Section framing.
Context {T : Type} `{TransportLaws T}.

(** Reading exactly the bytes at the head of a stream. *)
Lemma net_read_prefix (w : world T) s n bs rest :
  stream_input (w_net w) s = bs ++ rest -> n = Z.of_nat (length bs) ->
  exists t, net_read s n w = Done (0, bs) (set_net t w) /\
    stream_input t s = rest /\
    (forall s', s' <> s -> stream_input t s' = stream_input (w_net w) s') /\
    (forall s', stream_output t s' = stream_output (w_net w) s').
Proof.
  intros Hin ->. unfold net_read.
  destruct (read_available (w_net w) s (Z.of_nat (length bs))) as (t&->&Hi&Hother&Hout).
  { rewrite Hin, length_app. lia. }
  rewrite Hin, Nat2Z.id in *. rewrite take_app_length, drop_app_length in *. eauto.
Qed.

(** The marker: a lane that reads it then waits for the prefix. *)
Lemma dispatch_header_marker (w : world T) s d wid op rest fuel :
  stream_input (w_net w) s = frame_header (Some d) wid op ++ rest -> is_u64 d ->
  exists t, stream_input t s = frame_header None wid op ++ rest /\
    dispatch_header (S fuel) s 0 w =
      match rpc_async_sequence_wait d [] (async (w_conn w)) with
      | None => Blocked
      | Some r =>
          if r <? 0 then (rpc_mark_connection_closed ;;; rret None) (set_net t w)
          else dispatch_header fuel s 0 (set_net t w)
      end.
Proof.
  intros Hin Hd. cbn [dispatch_header]. unfold rbind at 1.
  destruct (net_read_prefix w s 8 (le_bytes 4 0 ++ le_bytes 4 0)
    (le_bytes 8 d ++ le_bytes 4 wid ++ le_bytes 4 op ++ rest)) as (t&->&Hi&_);
    [by rewrite Hin; unfold frame_header; rewrite <- !app_assoc|done|].
  simpl negb. cbv iota beta. rewrite (header_fields_bytes' 0 0) by done.
  rewrite !Z.eqb_refl. cbn [negb orb]. unfold rbind at 1.
  destruct (net_read_prefix (set_net t w) s 8 (le_bytes 8 d) (le_bytes 4 wid ++ le_bytes 4 op ++ rest))
    as (t2&->&Hi2&_); [done|by rewrite length_le_bytes|].
  exists t2. split; [rewrite Hi2; unfold frame_header; by rewrite <- app_assoc|].
  rewrite Z.eqb_refl. cbn [negb]. unfold rbind at 1, wait_published. rewrite le_val_bytes8 by done.
  cbn [w_conn set_net]. destruct (rpc_async_sequence_wait d [] (async (w_conn w))) as [r|]; [by destruct (r <? 0)|done].
Qed.

Lemma dispatch_header_plain (w : world T) s wid op rest fuel :
  stream_input (w_net w) s = frame_header None wid op ++ rest ->
  is_int wid -> wid <> 0 -> is_int op ->
  exists t, dispatch_header (S fuel) s 0 w = Done (Some (wid, op)) (set_net t w) /\
    stream_input t s = rest.
Proof.
  intros Hin Hwid Hnz Hop. cbn [dispatch_header]. unfold rbind at 1.
  destruct (net_read_prefix w s 8 (le_bytes 4 wid ++ le_bytes 4 op) rest) as (t&->&Hi&_);
    [done|by rewrite length_app, !length_le_bytes|].
  simpl negb. cbv iota beta. rewrite header_fields_bytes' by done.
  rewrite (proj2 (Z.eqb_neq wid 0)) by done. rewrite !Z.eqb_refl. cbn [negb orb]. eauto.
Qed.

(** The header loop on a frame: without a marker, or with one whose prefix has
    been reached. *)
Lemma dispatch_header_frame (w : world T) s fence wid op rest fuel :
  stream_input (w_net w) s = frame_header fence wid op ++ rest ->
  (forall d, fence = Some d -> is_u64 d /\
     rpc_async_sequence_wait d [] (async (w_conn w)) = Some 0) ->
  is_int wid -> wid <> 0 -> is_int op ->
  exists t, dispatch_header (S (S fuel)) s 0 w = Done (Some (wid, op)) (set_net t w) /\
    stream_input t s = rest.
Proof.
  intros Hin Hfence Hwid Hnz Hop. destruct fence as [d|]; [|by apply dispatch_header_plain].
  destruct (Hfence d eq_refl) as [Hd Hwait].
  destruct (dispatch_header_marker w s d wid op rest (S fuel) Hin Hd) as (t&Hi&->).
  rewrite Hwait. change (0 <? 0) with false. cbv iota.
  destruct (dispatch_header_plain (set_net t w) s wid op rest fuel) as (t2&->&?); eauto.
Qed.

End framing.

(** * Ending a request *)

(** The marker a request in construction is sent with. *)
Definition end_fence (c : conn_t) : option Z :=
  let b := builder c in
  let client_request := negb (write_op b =? -1) && (local_request_parity c =? 0) in
  if client_request && (async_prefix (switch_lane (write_stream_id b) (sender c)) <? write_dependency b)
  then Some (write_dependency b) else None.

(** The sender after a successful end. *)
Definition end_sender (c : conn_t) : async_sender :=
  let b := builder c in
  if negb (write_op b =? -1) && (local_request_parity c =? 0)
  then note_sent (write_dependency b) (switch_lane (write_stream_id b) (sender c))
  else sender c.

(** The world after releasing a builder. *)
Definition released {T} (nested : bool) (w : world T) : world T :=
  let c := w_conn w in
  let io := w_io w in
  if nested
  then set_io (ThreadIo (bound_conn io) (bound_stream io) (read_conn io) (read io) (write_conn io)
         empty_nested (response_conn io) (response io) (held_call_lock io))
         (set_conn (upd_builder (nested_write io).2 c) w)
  else set_io (set_write_conn 0 io)
         (set_conn (upd_write_mutex false (upd_builder (release_buffer (builder c)) c)) w).

Lemma release_builder_run {T} nested (w : world T) :
  rpc_release_write_builder nested w = Done tt (released nested w).
Proof. by destruct nested. Qed.

Lemma released_net {T} nested (w : world T) : w_net (released nested w) = w_net w.
Proof. by destruct nested. Qed.
Lemma released_sender {T} nested (w : world T) :
  sender (w_conn (released nested w)) = sender (w_conn w).
Proof. by destruct nested. Qed.
#[export] Hint Rewrite @release_builder_run @released_net @released_sender : lupine.

Section write_end.
Context {T : Type} `{TransportLaws T} (env : rpc_env).

Lemma write_end_sent (w w' : world T) rid :
  rpc_write_end env w = Done rid w' -> 0 <= rid ->
  let b := builder (w_conn w) in
  rid = write_id b /\ sender (w_conn w') = end_sender (w_conn w) /\
  exists payload,
    cursor_bytes env (w_mem w) (drop 2 (write_queue b)) = (payload, false) /\
    stream_output (w_net w') (write_stream_id b) =
      stream_output (w_net w) (write_stream_id b) ++
      frame_header (end_fence (w_conn w)) (write_id b) (write_op b) ++ payload /\
    (forall s, s <> write_stream_id b ->
       stream_output (w_net w') s = stream_output (w_net w) s).
Proof.
  intros Hrun Hrid b. unfold rpc_write_end in Hrun. run_in Hrun. fold b in Hrun.
  case_if_in Hrun; [simplify_eq; lia|].
  destruct (closed (w_conn w)) eqn:Hclosed.
  { exfalso. revert Hrun. rewrite release_builder_run. repeat case_if; run; intros; simplify_eq; lia. }
  unfold end_fence, end_sender. fold b. revert Hrun.
  destruct (negb (write_op b =? -1) && (local_request_parity (w_conn w) =? 0)) eqn:Hclient;
    simpl andb; cbv iota.
  all: destruct (length (write_queue b) <? 2)%nat;
    [simpl; rewrite release_builder_run; repeat case_if; run; intros; simplify_eq; lia|].
  all: destruct (cursor_bytes env (w_mem w) (drop 2 (write_queue b))) as [payload failed] eqn:Hpay.
  all: simpl; unfold net_write; run; rewrite ?Hpay; simpl.
  all: match goal with |- context [rpc_http2_write_stream ?t ?s ?bs ?f] =>
    destruct (rpc_http2_write_stream t s bs f) as [r t'] eqn:Hwrite end.
  all: simpl; destruct (r =? 0) eqn:Hr; simpl; rewrite release_builder_run; run; rewrite ?Hr.
  all: destruct (negb (write_op b =? -1)), (local_request_parity (w_conn w) =? 1);
    run; rewrite ?Hr; run; intros; simplify_eq; try lia; simpl; apply Z.eqb_eq in Hr as ->.
  all: rewrite ?released_net, ?released_sender; simpl.
  all: apply write_accepted in Hwrite as (->&Hout&Hother&_); [|done].
  all: split_and!; [done..|]; exists payload; by split_and!.
Qed.

End write_end.

(** * Building a request *)

(** Queueing payload touches nothing but the queue and the copy buffer. *)
Definition only_payload {T} (w w' : world T) : Prop :=
  w_io w' = w_io w /\ w_net w' = w_net w /\ w_mem w' = w_mem w /\
  exists q buf cap off, let b := builder (w_conn w) in
    w_conn w' = upd_builder (WriteBuilder (write_id b) (write_op b) (write_stream_id b)
      (write_dependency b) q buf cap off) (w_conn w).

Section building.
Context {T : Type} (env : rpc_env).
Implicit Types w : world T.

Lemma only_payload_refl w : only_payload w w.
Proof. split_and!; [done..|]. destruct w as [[? ? ? ? []] ? ? ? ? ? ?]. by eexists _, _, _, _. Qed.

Lemma only_payload_trans w1 w2 w3 : only_payload w1 w2 -> only_payload w2 w3 -> only_payload w1 w3.
Proof.
  intros (Hio&Hn&Hm&q&bu&ca&off&Hc) (Hio'&Hn'&Hm'&q'&bu'&ca'&off'&Hc').
  split_and!; [congruence..|]. exists q', bu', ca', off'. rewrite Hc', Hc. done.
Qed.

Lemma mod_builder_only_payload (f : write_builder -> write_builder) w :
  (forall b, write_id (f b) = write_id b /\ write_op (f b) = write_op b /\
     write_stream_id (f b) = write_stream_id b /\ write_dependency (f b) = write_dependency b) ->
  only_payload w (set_conn (upd_builder (f (builder (w_conn w))) (w_conn w)) w).
Proof.
  intros Hf. destruct (Hf (builder (w_conn w))) as (Hid&Hop&Hs&Hd). split_and!; [done..|].
  set (b' := f (builder (w_conn w))) in *.
  exists (write_queue b'), (write_copy_buffer b'), (write_copy_capacity b'), (write_copy_offset b').
  simpl. rewrite <- Hid, <- Hop, <- Hs, <- Hd. f_equal. by destruct b'.
Qed.

Lemma push_only_payload cur w r w' :
  rpc_write_queue_push env cur w = Done r w' -> only_payload w w'.
Proof.
  unfold rpc_write_queue_push. run. repeat case_if; unfold mod_builder; run; intros; simplify_eq;
    try apply only_payload_refl.
  by apply (mod_builder_only_payload (upd_queue _)).
Qed.

Lemma write_only_payload data size w r w' :
  rpc_write env data size w = Done r w' -> only_payload w w'.
Proof.
  unfold rpc_write. case_if; [|apply push_only_payload]. run. intros. simplify_eq.
  apply only_payload_refl.
Qed.

Lemma write_rows_only_payload width rows w r w' :
  write_rows env width rows w = Done r w' -> only_payload w w'.
Proof.
  revert w. induction rows as [|row rows IH]; intros w; simpl.
  - run. intros. simplify_eq. apply only_payload_refl.
  - unfold rbind. destruct (rpc_write env row width w) as [a w1| |] eqn:Hw; [|done..].
    apply write_only_payload in Hw. case_if.
    + run. intros. by simplify_eq.
    + intros Hr. eapply only_payload_trans; [done|by eapply IH].
Qed.

Lemma copy_alloc_only_payload size w r w' :
  rpc_copy_alloc env size w = Done r w' -> only_payload w w'.
Proof.
  unfold rpc_copy_alloc. run. repeat case_if; unfold mod_builder; run; intros; simplify_eq;
    try apply only_payload_refl.
  by apply (mod_builder_only_payload (upd_copy _ _ _)).
Qed.

Lemma write_buffer_only_payload size alignment w r w' :
  rpc_write_buffer env size alignment w = Done r w' -> only_payload w w'.
Proof.
  unfold rpc_write_buffer. run. repeat case_if; run; intros Hrun; simplify_eq;
    try apply only_payload_refl.
  unfold mod_builder in Hrun. run_in Hrun.
  match type of Hrun with context [rpc_write env ?p ?n ?w0] =>
    destruct (rpc_write env p n w0) as [a w1| |] eqn:Hw; [|done..] end.
  apply write_only_payload in Hw.
  assert (only_payload w w1) as Hall.
  { eapply only_payload_trans; [|done]. by apply (mod_builder_only_payload (upd_copy _ _ _)). }
  case_if_in Hrun; run_in Hrun; by simplify_eq.
Qed.

Lemma push_cursors_only_payload cursors w r w' :
  push_cursors cursors w = Done r w' -> only_payload w w'.
Proof.
  revert w. induction cursors as [|cur cursors IH]; intros w; simpl.
  - run. intros. simplify_eq. apply only_payload_refl.
  - case_if; unfold mod_builder; run; intros; simplify_eq; [apply only_payload_refl|].
    eapply only_payload_trans; [|by eapply IH].
    by apply (mod_builder_only_payload (fun b => upd_queue _ b)).
Qed.

Lemma write_cursors_only_payload cursors w r w' :
  rpc_write_cursors env cursors w = Done r w' -> only_payload w w'.
Proof.
  unfold rpc_write_cursors. run. repeat case_if; run; intros; simplify_eq;
    try apply only_payload_refl.
  by eapply push_cursors_only_payload.
Qed.

(** Any sequence of payload calls. *)
Inductive payload_call : world T -> world T -> Prop :=
  | call_write data size w r w' : rpc_write env data size w = Done r w' -> payload_call w w'
  | call_write_pitched data width rows rs slices ss w r w' :
      rpc_write_pitched env data width rows rs slices ss w = Done r w' -> payload_call w w'
  | call_copy_alloc size w r w' : rpc_copy_alloc env size w = Done r w' -> payload_call w w'
  | call_write_buffer size al w r w' :
      rpc_write_buffer env size al w = Done r w' -> payload_call w w'
  | call_write_cursors cs w r w' : rpc_write_cursors env cs w = Done r w' -> payload_call w w'.

Lemma payload_calls_only_payload w w' : rtc payload_call w w' -> only_payload w w'.
Proof.
  induction 1 as [|w1 w2 w3 Hc _ IH]; [apply only_payload_refl|].
  eapply only_payload_trans; [|done]. destruct Hc.
  - by eapply write_only_payload.
  - by eapply write_rows_only_payload.
  - by eapply copy_alloc_only_payload.
  - by eapply write_buffer_only_payload.
  - by eapply write_cursors_only_payload.
Qed.

End building.

(** * Starting and ending under the locks *)

Section locks.
Context {T : Type} `{Transport T} (env : rpc_env).
Implicit Types w : world T.

Definition same_identity (c c' : conn_t) : Prop :=
  conn_self c' = conn_self c /\ local_request_parity c' = local_request_parity c.

Lemma queue_reset_run n w :
  rpc_write_queue_reset env n w =
    let b q := upd_builder (upd_queue q (release_buffer (builder (w_conn w)))) (w_conn w) in
    if env_grow env (Z.of_nat n) then Done 0 (set_conn (b (replicate n empty_cursor)) w)
    else Done (-1) (set_conn (b []) w).
Proof. unfold rpc_write_queue_reset. run. by destruct (env_grow env (Z.of_nat n)). Qed.

(** A thread with no request in construction either gets both locks and a fresh
    builder, or leaves the locks and its own state as they were. *)
Lemma start_request_idle w op r w' :
  write_conn (w_io w) = 0 -> conn_self (w_conn w) <> 0 ->
  rpc_write_start_request env op w = Done r w' ->
  same_identity (w_conn w) (w_conn w') /\
  ((r = -1 /\ w_io w' = w_io w /\ call_mutex (w_conn w') = call_mutex (w_conn w) /\
      write_mutex (w_conn w') = write_mutex (w_conn w)) \/
   (r = 0 /\ call_mutex (w_conn w) = false /\ write_mutex (w_conn w) = false /\
      call_mutex (w_conn w') = true /\ write_mutex (w_conn w') = true /\
      w_io w' = set_write_conn (conn_self (w_conn w)) (w_io w) /\
      exists stream, 0 <= stream /\ builder (w_conn w') =
        WriteBuilder (request_id (w_conn w) + 2) op stream
          (if local_request_parity (w_conn w) =? 0
           then published_async_sequence (sender (w_conn w)) else 0)
          [empty_cursor; empty_cursor] 0 0 0)).
Proof.
  intros Hidle Hself. unfold rpc_write_start_request. run. rewrite Hidle.
  rewrite (proj2 (Z.eqb_neq _ 0) Hself), (proj2 (Z.eqb_neq 0 (conn_self (w_conn w)))) by congruence. simpl.
  destruct (closed (w_conn w)) eqn:Hcl.
  { run. intros. simplify_eq. split; [done|]. left. by split_and!. }
  unfold lock_call. destruct (call_mutex (w_conn w)) eqn:Hcall; [done|]. run.
  assert (set_write_conn 0 (set_write_conn (conn_self (w_conn w)) (w_io w)) = w_io w) as Hio
    by (destruct (w_io w); simpl in *; by subst).
  destruct (lupine_handoff_request_begin (w_net w) op _ <? 0); simpl.
  { intros. simplify_eq. split; [done|]. left. by split_and!. }
  rewrite Hcl. simpl. unfold lock_write.
  destruct (write_mutex (w_conn w)) eqn:Hwr; simpl; rewrite ?Hwr; [done|]. simpl.
  rewrite queue_reset_run. destruct (env_grow env (Z.of_nat 2)); simpl.
  - unfold net_lane_stream. simpl. destruct (rpc_http2_lane_stream (w_net w) _) as [stream t]. simpl.
    case_if; run; intros; simplify_eq; (split; [done|]).
    + left. by split_and!.
    + right. split_and!; try done. exists stream. split; [lia|done].
  - run. intros. simplify_eq. split; [done|]. left. by split_and!.
Qed.

(** A request started inside a response puts the response aside. *)
Lemma start_request_nested w op r w' :
  write_conn (w_io w) = conn_self (w_conn w) -> nested_write (w_io w) = empty_nested ->
  write_op (builder (w_conn w)) = -1 -> conn_self (w_conn w) <> 0 ->
  rpc_write_start_request env op w = Done r w' ->
  same_identity (w_conn w) (w_conn w') /\ write_mutex (w_conn w') = write_mutex (w_conn w) /\
  ((r = -1 /\ w_io w' = w_io w /\ builder (w_conn w') = builder (w_conn w) /\
      call_mutex (w_conn w') = call_mutex (w_conn w)) \/
   (r = 0 /\ call_mutex (w_conn w) = false /\ call_mutex (w_conn w') = true /\
      nested_write (w_io w') = (conn_self (w_conn w), builder (w_conn w)) /\
      write_conn (w_io w') = conn_self (w_conn w) /\ write_op (builder (w_conn w')) = op)).
Proof.
  intros Hwc Hnest Hop Hself. unfold rpc_write_start_request. run. rewrite Hwc, Hnest, Hop.
  rewrite (proj2 (Z.eqb_neq _ 0) Hself), Z.eqb_refl. simpl.
  destruct (closed (w_conn w)) eqn:Hcl.
  { run. intros. simplify_eq. split; [done|]. split; [done|]. left. by split_and!. }
  unfold trylock_call. destruct (call_mutex (w_conn w)) eqn:Hcall; run.
  { intros. simplify_eq. split; [done|]. split; [done|]. left. by split_and!. }
  destruct (lupine_handoff_request_begin (w_net w) op _ <? 0); simpl.
  { intros. simplify_eq. split; [done|]. split; [done|]. left. by split_and!. }
  rewrite Hcl. simpl.
  assert (forall io' : rpc_thread_io, io' = w_io w -> ThreadIo (bound_conn io') (bound_stream io')
    (read_conn io') (read io') (write_conn io') empty_nested (response_conn io') (response io')
    (held_call_lock io') = w_io w) as Hio.
  { intros io' ->. destruct (w_io w); simpl in *; by subst. }
  rewrite queue_reset_run. destruct (env_grow env (Z.of_nat 2)); simpl.
  - unfold net_lane_stream. simpl. destruct (rpc_http2_lane_stream (w_net w) _) as [stream t]. simpl.
    case_if; run; intros; simplify_eq; (split; [done|]); (split; [done|]).
    + left. split_and!; [done|by rewrite <- (Hio (w_io w))|done|done].
    + right. by split_and!.
  - run. intros. simplify_eq. split; [done|]. split; [done|]. left.
    split_and!; [done|by rewrite <- (Hio (w_io w))|done|done].
Qed.

(** Ending a request: the builder is given up, or the outer response restored. *)
Lemma write_end_locks w r w' :
  write_conn (w_io w) = conn_self (w_conn w) -> conn_self (w_conn w) <> 0 ->
  write_op (builder (w_conn w)) <> -1 ->
  rpc_write_end env w = Done r w' ->
  let nested := (nested_write (w_io w)).1 =? conn_self (w_conn w) in
  same_identity (w_conn w) (w_conn w') /\
  (if nested
   then write_mutex (w_conn w') = write_mutex (w_conn w) /\
        builder (w_conn w') = (nested_write (w_io w)).2 /\
        write_conn (w_io w') = conn_self (w_conn w) /\ nested_write (w_io w') = empty_nested
   else write_mutex (w_conn w') = false /\ write_conn (w_io w') = 0) /\
  (call_mutex (w_conn w') = false \/
   (call_mutex (w_conn w') = call_mutex (w_conn w) /\ local_request_parity (w_conn w) = 1 /\
    held_call_lock (w_io w') = conn_self (w_conn w))).
Proof.
  intros Hwc Hself Hop. unfold rpc_write_end. run. rewrite Hwc, Z.eqb_refl.
  rewrite (proj2 (Z.eqb_neq _ 0) Hself), (proj2 (Z.eqb_neq _ (-1)) Hop). simpl.
  set (nested := (nested_write (w_io w)).1 =? conn_self (w_conn w)).
  destruct (closed (w_conn w)).
  { rewrite release_builder_run. run. intros [= _ <-]. destruct nested; simpl; by split_and!; auto. }
  destruct (local_request_parity (w_conn w) =? 0) eqn:Hpar; simpl.
  all: destruct (length (write_queue (builder (w_conn w))) <? 2)%nat; simpl.
  all: try (rewrite release_builder_run; simpl; intros [= _ <-];
    destruct nested; simpl; split_and!; auto; done).
  all: destruct (cursor_bytes env (w_mem w) (drop 2 (write_queue (builder (w_conn w)))))
    as [payload failed]; unfold net_write; simpl.
  all: match goal with |- context [rpc_http2_write_stream ?t ?s ?bs ?f] =>
    destruct (rpc_http2_write_stream t s bs f) as [res t'] end; simpl.
  all: destruct (res =? 0) eqn:Hres; simpl; rewrite release_builder_run; run; rewrite ?Hres; simpl.
  all: clearbody nested; destruct (Z.eqb_spec (local_request_parity (w_conn w)) 1);
    run; intros; simplify_eq; destruct nested; simpl; split_and!; auto; done.
Qed.

End locks.

(** * A concrete transport *)

(** In-memory byte queues per stream; lanes get odd stream ids as a client's. *)
Record lanes := Lanes {
  lane_in : gmap Z (list byte);
  lane_out : gmap Z (list byte);
  lane_ended : gset Z;
  lane_ids : gmap Z Z;
  lane_next : Z;
  lane_dispatch : Z;
}.

Definition queue_of (m : gmap Z (list byte)) (s : Z) : list byte := default [] (m !! s).

#[global] Instance lanes_transport : Transport lanes := {
  rpc_http2_read_stream t s n :=
    let q := queue_of (lane_in t) s in
    if n <=? Z.of_nat (length q)
    then Some (0, take (Z.to_nat n) q,
               Lanes (<[s := drop (Z.to_nat n) q]> (lane_in t)) (lane_out t) (lane_ended t)
                 (lane_ids t) (lane_next t) (lane_dispatch t))
    else if bool_decide (s ∈ lane_ended t)
    then Some (LUPINE_RPC_HTTP2_STREAM_END, q,
               Lanes (<[s := []]> (lane_in t)) (lane_out t) (lane_ended t) (lane_ids t)
                 (lane_next t) (lane_dispatch t))
    else None;
  rpc_http2_write_stream t s bs failed :=
    (if failed : bool then -1 else 0,
     Lanes (lane_in t) (<[s := queue_of (lane_out t) s ++ bs]> (lane_out t)) (lane_ended t)
       (lane_ids t) (lane_next t) (lane_dispatch t));
  rpc_http2_dispatch_stream t := lane_dispatch t;
  rpc_http2_lane_stream t l :=
    match lane_ids t !! l with
    | Some s => (s, t)
    | None =>
        (lane_next t, Lanes (lane_in t) (lane_out t) (lane_ended t)
           (<[l := lane_next t]> (lane_ids t)) (lane_next t + 2) (lane_dispatch t))
    end;
  lupine_handoff_request_begin t op callback := 0;
}.

Lemma queue_of_insert m s q s' :
  queue_of (<[s := q]> m) s' = if decide (s = s') then q else queue_of m s'.
Proof.
  unfold queue_of. case_decide as Hs; [subst; by rewrite lookup_insert_eq|].
  by rewrite lookup_insert_ne.
Qed.

#[global, refine] Instance lanes_laws : TransportLaws lanes := {
  stream_input t s := queue_of (lane_in t) s;
  stream_output t s := queue_of (lane_out t) s;
}.
Proof.
  - intros t s n Hn. simpl. rewrite (proj2 (Z.leb_le _ _)) by lia. eexists. split; [done|].
    simpl. rewrite queue_of_insert, decide_True by done. split_and!; [done| |done].
    intros s' Hs. by rewrite queue_of_insert, decide_False by done.
  - intros t s bs failed r t'. simpl. intros [= <- <-] Hr. destruct failed; [done|]. simpl.
    rewrite queue_of_insert, decide_True by done. split_and!; [done..| |done].
    intros s' Hs. by rewrite queue_of_insert, decide_False by done.
  - intros t l s t'. simpl. destruct (lane_ids t !! l); by intros [= <- <-].
Defined.

(** * Properties *)

(** Waiting for a request's marker, if it has one. *)
Definition fence_wait (fence : option Z) (st : async_state) : option Z :=
  match fence with
  | Some d => rpc_async_sequence_wait d [] st
  | None => Some 0
  end.

(** C33: what [rpc_write_end] puts on a stream, [rpc_dispatch] takes off again.
    For a client request the receiving lane returns the operation, knows the
    request id and its stream, and finds exactly the queued payload next, once
    the completion prefix covers the request's marker if it carries one; before
    that, the lane stays blocked in front of the request. *)
Theorem request_framing_roundtrip {Tc Ts : Type} `{TransportLaws Tc} `{TransportLaws Ts}
    env (wc wc' : world Tc) rid :
  let b := builder (w_conn wc) in
  rpc_write_end env wc = Done rid wc' -> 0 <= rid ->
  2 <= write_id b -> is_int (write_id b) -> Z.rem (write_id b) 2 = 0 ->
  is_int (write_op b) -> is_u64 (write_dependency b) ->
  exists bytes payload,
    stream_output (w_net wc') (write_stream_id b) =
      stream_output (w_net wc) (write_stream_id b) ++ bytes /\
    cursor_bytes env (w_mem wc) (drop 2 (write_queue b)) = (payload, false) /\
    forall (ws : world Ts) s rest fuel,
      rpc_current_http2_stream ws = Done s ws -> 0 <= s ->
      conn_self (w_conn ws) <> 0 -> closed (w_conn ws) = false ->
      stream_input (w_net ws) s = bytes ++ rest ->
      match fence_wait (end_fence (w_conn wc)) (async (w_conn ws)) with
      | Some 0 =>
          exists ws', rpc_dispatch (S (S fuel)) 0 ws = Done (write_op b) ws' /\
            read_conn (w_io ws') = conn_self (w_conn ws) /\
            read (w_io ws') = ReadFrame s (write_id b) (write_op b) /\
            stream_input (w_net ws') s = payload ++ rest
      | None => rpc_dispatch (S (S fuel)) 0 ws = Blocked
      | Some _ => True
      end.
Proof.
  intros b Hend Hrid Hid Hint Hpar Hop Hdep.
  destruct (write_end_sent env wc wc' rid Hend Hrid) as (_&_&payload&Hpay&Hout&_).
  fold b in Hpay, Hout. eexists _, payload. split_and!; [exact Hout|done|].
  intros ws s rest fuel Hcur Hs Hself Hopen Hin. rewrite <- app_assoc in Hin.
  assert (forall d, end_fence (w_conn wc) = Some d -> is_u64 d) as Hd.
  { intros d. unfold end_fence. case_if; [|done]. by intros [= <-]. }
  assert (forall header, dispatch_header (S (S fuel)) s 0 ws = header ->
    rpc_dispatch (S (S fuel)) 0 ws =
      match header with
      | Done h w => (match h with None => rret (-1) | Some (h0, h1) =>
          if (h0 <? 2) || negb (Z.rem h0 2 =? 0) then rpc_mark_connection_closed ;;; rret (-1)
          else mod_io (set_read (conn_self (w_conn ws)) (ReadFrame s h0 h1)) ;;; rret h1 end) w
      | Blocked => Blocked | Aborted => Aborted end) as Hunfold.
  { intros header <-. unfold rpc_dispatch, get_conn, rget. unfold rbind at 1.
    rewrite (proj2 (Z.eqb_neq _ _) Hself), Hopen. cbn [orb].
    unfold rbind at 1. rewrite Hcur, (proj2 (Z.ltb_ge s 0)) by lia. done. }
  destruct (fence_wait _ (async (w_conn ws))) as [[| |]|] eqn:Hwait; try done.
  - destruct (dispatch_header_frame ws s _ _ _ _ fuel Hin) as (t&Hdisp&Hrest); [|done|lia|done|].
    { intros d Hf. rewrite Hf in Hwait. by split; [apply Hd|]. }
    rewrite (Hunfold _ Hdisp). rewrite (proj2 (Z.ltb_ge _ _)) by lia. rewrite Hpar. simpl.
    eexists. split; [done|]. by split_and!.
  - destruct (end_fence (w_conn wc)) as [d|] eqn:Hf; [|done].
    destruct (dispatch_header_marker ws s d _ _ _ (S fuel) Hin (Hd d eq_refl)) as (t&_&Hdisp).
    change (rpc_async_sequence_wait d [] (async (w_conn ws)) = None) in Hwait.
    rewrite Hwait in Hdisp. by rewrite (Hunfold _ Hdisp).
Qed.

(** A client with two published sequences sends operation 102 on a fresh lane. *)
Definition sample_env : rpc_env :=
  RpcEnv (fun _ => 4096) (fun _ => true) (fun _ => ([], false)) 4096 (fun _ _ _ => 0) 9.

Definition sample_net : lanes := Lanes ∅ ∅ ∅ ∅ 3 1.

Definition sample_conn (parity : Z) (s : async_sender) (a : async_state) : conn_t :=
  Conn 64 5 parity parity empty_builder s a (VaFields 0 0 0 0) [] false false false false.

Definition sample_world (c : conn_t) (t : lanes) : world lanes :=
  World c initial_thread_io initial_hook_state [] (fun x => x mod 256) [] t.

Definition sample_started : world lanes :=
  match (let* _ := rpc_write_start_request sample_env 102 in rpc_write sample_env 7 3)
          (sample_world (sample_conn 0 (AsyncSender 0 0 2 2) initial_async_state) sample_net) with
  | Done _ w => w
  | _ => sample_world (sample_conn 0 (AsyncSender 0 0 0 0) initial_async_state) sample_net
  end.

Definition sample_ended : world lanes :=
  match rpc_write_end sample_env sample_started with Done _ w => w | _ => sample_started end.

Lemma request_framing_roundtrip_witness :
  let b := builder (w_conn sample_started) in
  rpc_write_end sample_env sample_started = Done 2 sample_ended /\
  exists bytes payload,
    stream_output (w_net sample_ended) (write_stream_id b) =
      stream_output (w_net sample_started) (write_stream_id b) ++ bytes /\
    cursor_bytes sample_env (w_mem sample_started) (drop 2 (write_queue b)) = (payload, false) /\
    forall (ws : world lanes) s rest fuel,
      rpc_current_http2_stream ws = Done s ws -> 0 <= s ->
      conn_self (w_conn ws) <> 0 -> closed (w_conn ws) = false ->
      stream_input (w_net ws) s = bytes ++ rest ->
      match fence_wait (end_fence (w_conn sample_started)) (async (w_conn ws)) with
      | Some 0 =>
          exists ws', rpc_dispatch (S (S fuel)) 0 ws = Done (write_op b) ws' /\
            read_conn (w_io ws') = conn_self (w_conn ws) /\
            read (w_io ws') = ReadFrame s (write_id b) (write_op b) /\
            stream_input (w_net ws') s = payload ++ rest
      | None => rpc_dispatch (S (S fuel)) 0 ws = Blocked
      | Some _ => True
      end.
Proof.
  intros b.
  assert (rpc_write_end sample_env sample_started = Done 2 sample_ended) as Hend
    by (vm_compute; reflexivity).
  assert (b = WriteBuilder 2 102 3 2 [empty_cursor; empty_cursor; WriteCursor 7 3 0] 0 0 0) as Hb
    by (vm_compute; reflexivity).
  split; [exact Hend|].
  apply (request_framing_roundtrip sample_env sample_started sample_ended 2);
    [exact Hend|lia|..]; fold b; rewrite Hb; unfold is_int, is_u64; simpl; first [lia|reflexivity].
Defined.

Lemma read_end_releases {T} (w w' : world T) r :
  rpc_read_end w = Done r w' ->
  call_mutex (w_conn w) = false \/ held_call_lock (w_io w) = conn_self (w_conn w) ->
  call_mutex (w_conn w') = false.
Proof.
  unfold rpc_read_end, rpc_release_held_call_lock, call_hook. run.
  destruct (Z.eqb_spec (held_call_lock (w_io w)) (conn_self (w_conn w))) as [Hh|Hh]; case_if; run.
  all: rewrite ?(proj2 (Z.eqb_eq _ _) Hh), ?(proj2 (Z.eqb_neq _ _) Hh); run.
  all: repeat case_if; run; intros; simplify_eq; simpl; repeat case_if; simpl; intuition congruence.
Qed.

(** A request takes both locks when it starts and, whatever payload calls
    follow, gives the builder lock back when it ends; the call lock is free again
    too, except on a server that waits for its answer, where the thread holds it
    until the response has been read. *)
Theorem request_locks_balanced {T} `{Transport T} env op (w w1 w2 w3 w4 : world T) r r' :
  conn_self (w_conn w) <> 0 -> write_conn (w_io w) = 0 -> (nested_write (w_io w)).1 = 0 ->
  op <> -1 -> rpc_write_start_request env op w = Done 0 w1 ->
  rtc (payload_call env) w1 w2 -> rpc_write_end env w2 = Done r w3 ->
  rpc_read_end w3 = Done r' w4 ->
  (call_mutex (w_conn w1) = true /\ write_mutex (w_conn w1) = true) /\
  (write_mutex (w_conn w3) = false /\ write_conn (w_io w3) = 0) /\
  (local_request_parity (w_conn w) <> 1 -> call_mutex (w_conn w3) = false) /\
  call_mutex (w_conn w4) = false.
Proof.
  intros Hself Hidle Hnest Hop Hstart Hpay Hend Hread.
  destruct (start_request_idle env w op 0 w1 Hidle Hself Hstart)
    as [[Hs1 Hp1] [[? _]|(_&_&_&Hc1&Hw1&Hio1&stream&_&Hb1)]]; [done|].
  apply payload_calls_only_payload in Hpay as (Hio2&_&_&q&bu&ca&off&Hc2).
  destruct (write_end_locks env w2 r w3) as ([Hs3 Hp3]&Hrel&Hcall); [..|done|].
  - rewrite Hio2, Hio1, Hc2. simpl. congruence.
  - rewrite Hc2. simpl. congruence.
  - rewrite Hc2, Hb1. done.
  - rewrite Hio2, Hio1, Hc2 in Hrel. rewrite Hc2 in Hs3, Hcall. simpl in *. rewrite Hnest in Hrel.
    rewrite (proj2 (Z.eqb_neq 0 _)) in Hrel by congruence.
    split_and!; [done..|tauto|tauto| |].
    + intros Hpar. destruct Hcall as [?|(_&?&_)]; [done|]. congruence.
    + eapply read_end_releases; [done|].
      destruct Hcall as [?|(_&_&Hheld)]; [by left|right]. congruence.
Qed.

(** The response in construction and its hold on the builder are unchanged. *)
Definition response_intact {T} (w w' : world T) : Prop :=
  builder (w_conn w') = builder (w_conn w) /\ write_conn (w_io w') = write_conn (w_io w) /\
  nested_write (w_io w') = nested_write (w_io w) /\
  write_mutex (w_conn w') = write_mutex (w_conn w).

(** A request issued while a response is being built (a side effect that
    calls back) leaves that response exactly as it was, whether it fails to start
    or runs to its end: its id, stream, queued cursors and copy buffer, the
    builder lock and its owner. *)
Theorem nested_request_preserves_response {T} `{Transport T} env op (w w1 : world T) r0 :
  conn_self (w_conn w) <> 0 -> write_conn (w_io w) = conn_self (w_conn w) ->
  nested_write (w_io w) = empty_nested -> write_op (builder (w_conn w)) = -1 -> op <> -1 ->
  rpc_write_start_request env op w = Done r0 w1 ->
  (r0 = -1 /\ response_intact w w1) \/
  (r0 = 0 /\ forall w2 w3 r, rtc (payload_call env) w1 w2 -> rpc_write_end env w2 = Done r w3 ->
     response_intact w w3).
Proof.
  intros Hself Hwc Hnest Hop Hne Hstart.
  destruct (start_request_nested env w op r0 w1 Hwc Hnest Hop Hself Hstart)
    as ([Hs1 _]&Hw1&[(->&Hio&Hb&_)|(->&_&_&Hn1&Hwc1&Hop1)]).
  - left. split; [done|]. unfold response_intact. rewrite Hio. by split_and!.
  - right. split; [done|]. intros w2 w3 r Hpay Hend.
    apply payload_calls_only_payload in Hpay as (Hio2&_&_&q&bu&ca&off&Hc2).
    destruct (write_end_locks env w2 r w3) as (_&Hrel&_); [..|done|].
    + rewrite Hio2, Hc2. simpl. congruence.
    + rewrite Hc2. simpl. congruence.
    + rewrite Hc2. simpl. congruence.
    + rewrite Hio2, Hc2, Hn1 in Hrel. simpl in Hrel. rewrite Hs1, Z.eqb_refl in Hrel.
      destruct Hrel as (?&?&?&?). unfold response_intact. split_and!; congruence.
Qed.

(** The world after a call that returns. *)
Definition after {A} (m : rpc lanes A) (w : world lanes) : world lanes :=
  match m w with Done _ w' => w' | _ => w end.

Definition lock_world : world lanes :=
  sample_world (sample_conn 1 (AsyncSender 0 0 0 0) initial_async_state) sample_net.

Lemma request_locks_balanced_witness :
  let w1 := after (rpc_write_start_request sample_env 5) lock_world in
  let w2 := after (rpc_write sample_env 7 3) w1 in
  let w3 := after (rpc_write_end sample_env) w2 in
  let w4 := after rpc_read_end w3 in
  (call_mutex (w_conn w1) = true /\ write_mutex (w_conn w1) = true) /\
  (write_mutex (w_conn w3) = false /\ write_conn (w_io w3) = 0) /\
  (local_request_parity (w_conn lock_world) <> 1 -> call_mutex (w_conn w3) = false) /\
  call_mutex (w_conn w4) = false.
Proof.
  intros w1 w2 w3 w4.
  apply (request_locks_balanced sample_env 5 lock_world w1 w2 w3 w4 3 (-1));
    [done|done|done|done|vm_compute; reflexivity| |vm_compute; reflexivity|vm_compute; reflexivity].
  apply rtc_once. eapply (call_write _ 7 3). vm_compute. reflexivity.
Defined.

(** A server thread answering request 4 sends request 5 from within. *)
Definition nested_world : world lanes :=
  after (let* _ := rpc_bind_http2_stream 3 in rpc_write_start_response sample_env 4) lock_world.

Lemma nested_request_preserves_response_witness :
  let w1 := after (rpc_write_start_request sample_env 5) nested_world in
  (0 = -1 /\ response_intact nested_world w1) \/
  (0 = 0 /\ forall w2 w3 r, rtc (payload_call sample_env) w1 w2 ->
     rpc_write_end sample_env w2 = Done r w3 -> response_intact nested_world w3).
Proof.
  intros w1.
  apply (nested_request_preserves_response sample_env 5 nested_world w1 0);
    [done|vm_compute; reflexivity|vm_compute; reflexivity|vm_compute; reflexivity|done
    |vm_compute; reflexivity].
Defined.
