(* ===== verification/RpcPayload.v ===== *)
(** Payload transfer of the RPC core: the request-owned copy buffer, pitched
    regions, draining, and the record of writes to host allocations
    ([rpc_copy_alloc], [rpc_write_buffer], [rpc_write_pitched],
    [rpc_read_pitched], [rpc_drain], [rpc_note_host_allocation_write]). *)
From S2P Require Import Prelude AsyncSeq Va RpcCore.

(** * The copy buffer *)

Definition buffer_bound : Z := 2 ^ 62.

Section buffer.
Context {T : Type} (env : rpc_env).
Implicit Types w : world T.

(** Offset arithmetic of one span: rounding up to a multiple. *)
Lemma round_up_spec off al :
  0 <= off -> 0 < al -> off <= (off + al - 1) / al * al < off + al.
Proof.
  intros Hoff Hal. pose proof (Z.div_mod (off + al - 1) al ltac:(lia)).
  pose proof (Z.mod_pos_bound (off + al - 1) al ltac:(lia)). lia.
Qed.

Lemma write_buffer_spec w w' size al p :
  rpc_write_buffer env size al w = Done p w' -> p <> 0 ->
  0 <= size < buffer_bound -> 0 < al < buffer_bound ->
  let b := builder (w_conn w) in
  0 <= write_copy_offset b <= write_copy_capacity b -> write_copy_capacity b < buffer_bound ->
  0 <= write_copy_buffer b -> write_copy_buffer b + write_copy_capacity b < 2 ^ 64 ->
  exists off, write_copy_offset b <= off /\ (al | off) /\ p = write_copy_buffer b + off /\
    off + size <= write_copy_capacity b /\
    builder (w_conn w') = upd_copy (write_copy_buffer b) (write_copy_capacity b) (off + size)
      (upd_queue (write_queue b ++ if size =? 0 then [] else [WriteCursor p size 0]) b).
Proof.
  intros Hrun Hp Hsize Hal b Hoff Hcap Hbuf Hend. unfold buffer_bound in *.
  unfold rpc_write_buffer in Hrun. run_in Hrun. fold b in Hrun.
  case_if_in Hrun; [by simplify_eq|].
  pose proof (round_up_spec (write_copy_offset b) al ltac:(lia) ltac:(lia)) as Hround.
  set (off := (write_copy_offset b + al - 1) / al * al) in *.
  assert (wrap64 (wrap64 (write_copy_offset b + al - 1) / al * al) = off) as Hoffe.
  { rewrite (wrap64_id (write_copy_offset b + al - 1)) by (unfold is_u64; lia). fold off.
    apply wrap64_id. unfold is_u64. lia. }
  rewrite Hoffe in Hrun. rewrite (wrap64_id (off + size)) in Hrun by (unfold is_u64; lia).
  case_if_in Hrun; [by simplify_eq|].
  rewrite (wrap64_id (write_copy_buffer b + off)) in Hrun by (unfold is_u64; lia).
  exists off. split; [lia|]. split; [by exists ((write_copy_offset b + al - 1) / al)|].
  unfold mod_builder in Hrun. run_in Hrun. unfold rpc_write, rpc_write_queue_push in Hrun.
  destruct (size =? 0) eqn:Hz.
  - run_in Hrun. simplify_eq. split_and!; [done|lia|]. simpl. fold b. by rewrite app_nil_r.
  - unfold mod_builder in Hrun. run_in Hrun. fold b in Hrun.
    case_if_in Hrun; [run_in Hrun; by simplify_eq|].
    case_if_in Hrun; run_in Hrun; simplify_eq. split_and!; [done|lia|done].
Qed.

(** Successive spans of one request; a null pointer ends the sequence. *)
Fixpoint write_buffers (reqs : list (Z * Z)) : rpc T (list Z) :=
  match reqs with
  | [] => rret []
  | (size, al) :: reqs' =>
      let* p := rpc_write_buffer env size al in
      if p =? 0 then rret []
      else let* ps := write_buffers reqs' in rret (p :: ps)
  end.

(** Each pointer with its request. *)
Definition spans_of (reqs : list (Z * Z)) (ps : list Z) : list (Z * Z * Z) :=
  zip_with (fun r p => (p, r.1, r.2)) reqs ps.

Lemma write_buffers_spec reqs w ps w' :
  write_buffers reqs w = Done ps w' ->
  Forall (fun r => 0 <= r.1 < buffer_bound /\ 0 < r.2 < buffer_bound) reqs ->
  let b := builder (w_conn w) in
  0 <= write_copy_offset b <= write_copy_capacity b -> write_copy_capacity b < buffer_bound ->
  0 <= write_copy_buffer b -> write_copy_buffer b + write_copy_capacity b < 2 ^ 64 ->
  Forall (fun '(p, size, al) =>
    write_copy_buffer b + write_copy_offset b <= p /\ (al | p - write_copy_buffer b) /\
    p + size <= write_copy_buffer b + write_copy_capacity b) (spans_of reqs ps) /\
  ForallOrdPairs (fun s t => s.1.1 + s.1.2 <= t.1.1) (spans_of reqs ps) /\
  (length ps = length reqs -> write_queue (builder (w_conn w')) = write_queue b ++
    ((fun s => WriteCursor s.1.1 s.1.2 0) <$>
       List.filter (fun s => negb (s.1.2 =? 0)) (spans_of reqs ps))).
Proof.
  revert w ps. induction reqs as [|[size al] reqs IH]; intros w ps Hrun Hall b Hoff Hcap Hbuf Hend.
  - simpl in Hrun. run_in Hrun. simplify_eq. simpl. rewrite app_nil_r. split; [constructor|]. by split; [constructor|].
  - simpl in Hrun. unfold rbind at 1 in Hrun. apply Forall_cons in Hall as [[Hsz Hal] Hall].
    destruct (rpc_write_buffer env size al w) as [p w1| |] eqn:Hb; [|done..].
    destruct (Z.eqb_spec p 0) as [->|Hp].
    { run_in Hrun. simplify_eq. split; [constructor|]. split; [constructor|done]. }
    destruct (write_buffer_spec _ _ _ _ _ Hb Hp Hsz Hal Hoff Hcap Hbuf Hend)
      as (off&Hle&Hdiv&->&Hfit&Hb1). fold b in Hle, Hfit, Hb1, Hp |- *.
    unfold rbind in Hrun. destruct (write_buffers reqs w1) as [ps1 w2| |] eqn:Hrest; [|done..].
    unfold rret in Hrun. simplify_eq. apply IH in Hrest as (HF&Hord&Hq); [|done|..];
      rewrite ?Hb1; simpl in *; try lia.
    rewrite Hb1 in HF, Hq. simpl in HF, Hq. subst b. split_and!.
    + constructor.
      * simpl. split_and!; [lia| |lia]. by rewrite Z.add_simpl_l.
      * eapply Forall_impl; [exact HF|]. intros [[p' s'] a'] (?&?&?). split_and!; [lia|done|lia].
    + constructor; [|done]. eapply Forall_impl; [exact HF|]. intros [[p' s'] a'] (?&?&?). simpl. lia.
    + intros Hlen. rewrite Hq by (simpl in Hlen; lia). simpl. destruct (size =? 0); simpl; [by rewrite app_nil_r|]. by rewrite <- app_assoc.
Qed.

End buffer.

(** * Pitched regions and draining *)

Lemma length_mem_load m addr size : length (mem_load m addr size) = Z.to_nat size.
Proof. unfold mem_load. by rewrite length_fmap, length_seqZ. Qed.

Lemma mem_load_store_same m addr bs :
  mem_load (mem_store m addr bs) addr (Z.of_nat (length bs)) = bs.
Proof.
  apply list_eq. intros i. unfold mem_load. rewrite list_lookup_fmap.
  destruct (decide (i < length bs)%nat) as [Hi|Hi].
  - rewrite lookup_seqZ_lt by lia. simpl. unfold mem_store.
    replace ((addr <=? addr + Z.of_nat i) && (addr + Z.of_nat i <? addr + Z.of_nat (length bs)))
      with true by (symmetry; apply andb_true_iff; rewrite Z.leb_le, Z.ltb_lt; lia).
    replace (Z.to_nat (addr + Z.of_nat i - addr)) with i by lia.
    destruct (lookup_lt_is_Some_2 bs i Hi) as [x Hx]. rewrite Hx. f_equal.
    by apply nth_lookup_Some.
  - rewrite lookup_seqZ_ge by lia. by rewrite lookup_ge_None_2 by lia.
Qed.

Lemma mem_load_store_disjoint m addr bs a n :
  a + n <= addr \/ addr + Z.of_nat (length bs) <= a ->
  mem_load (mem_store m addr bs) a n = mem_load m a n.
Proof.
  intros Hd. unfold mem_load. apply list_fmap_ext. intros i x Hx.
  apply lookup_seqZ in Hx as [-> Hi]. unfold mem_store.
  destruct (Z.leb_spec addr (a + Z.of_nat i)), (Z.ltb_spec (a + Z.of_nat i) (addr + Z.of_nat (length bs)));
    simpl; (done || lia).
Qed.

Section transfer.
Context {T : Type} `{TransportLaws T} (env : rpc_env).
Implicit Types w : world T.

(** The reader is on stream [s] and its connection has no host alias. *)
Definition reads_on (s : Z) w : Prop :=
  0 <= s /\ w_offset (conn_va (w_conn w)) = 0 /\
  ((read_conn (w_io w) = conn_self (w_conn w) /\ rf_stream_id (read (w_io w)) = s) \/
   (read_conn (w_io w) <> conn_self (w_conn w) /\ bound_conn (w_io w) = conn_self (w_conn w) /\
    bound_stream (w_io w) = s)).

Lemma no_alias va addr size : w_offset va = 0 -> rpc_host_allocation_alias va addr size = 0.
Proof. intros Hw. unfold rpc_host_allocation_alias. by rewrite Hw, !andb_false_r. Qed.

Lemma current_stream_reads s w : reads_on s w -> rpc_current_http2_stream w = Done s w.
Proof.
  intros (_&_&Hs). unfold rpc_current_http2_stream. run.
  destruct Hs as [[Hr <-]|(Hr&Hb&<-)].
  - by rewrite (proj2 (Z.eqb_eq _ _) Hr).
  - by rewrite (proj2 (Z.eqb_neq _ _) Hr), (proj2 (Z.eqb_eq _ _) Hb).
Qed.

(** A read takes its bytes off the stream and stores them. *)
Lemma read_spec s w data bs rest :
  reads_on s w -> stream_input (w_net w) s = bs ++ rest ->
  exists t, rpc_read env data (Z.of_nat (length bs)) w =
      Done 0 (set_mem (mem_store (w_mem w) data bs) (set_net t w)) /\
    stream_input t s = rest.
Proof.
  intros Hs Hin. pose proof Hs as (Hpos&Hva&_). unfold rpc_read. run.
  rewrite no_alias by done. rewrite Z.eqb_refl. simpl.
  unfold rpc_read_http2. unfold rbind at 1. rewrite (current_stream_reads s w Hs).
  rewrite (proj2 (Z.ltb_ge s 0)) by done. unfold rbind at 1.
  destruct (net_read_prefix w s _ bs rest Hin eq_refl) as (t&->&Hrest&_).
  run. exists t. by split.
Qed.

Lemma reads_on_store s w t m : reads_on s w -> reads_on s (set_mem m (set_net t w)).
Proof. done. Qed.

(** The bytes of consecutive rows. *)
Definition rows_bytes (m : Z -> byte) (width : Z) (rows : list Z) : list byte :=
  row ← rows; mem_load m row width.

Definition rows_disjoint (width : Z) (rows : list Z) : Prop :=
  ForallOrdPairs (fun a b => a + width <= b \/ b + width <= a) rows.

Lemma read_rows_spec s width (m : Z -> byte) src dst w rest :
  0 <= width -> length src = length dst -> rows_disjoint width dst -> reads_on s w ->
  stream_input (w_net w) s = rows_bytes m width src ++ rest ->
  exists w', read_rows env width dst w = Done 0 w' /\ stream_input (w_net w') s = rest /\
    Forall2 (fun a b => mem_load (w_mem w') b width = mem_load m a width) src dst /\
    (forall a n, Forall (fun b => a + n <= b \/ b + width <= a) dst ->
       mem_load (w_mem w') a n = mem_load (w_mem w) a n).
Proof.
  intros Hw. revert src w. induction dst as [|d dst IH]; intros [|a src] w Hlen Hdis Hs Hin;
    try discriminate Hlen.
  - exists w. split_and!; [done..|constructor|done].
  - unfold rows_bytes in Hin. simpl in Hin. rewrite <- app_assoc in Hin.
    destruct (read_spec s w d _ _ Hs Hin) as (t&Hread&Hrest).
    rewrite length_mem_load, Z2Nat.id in Hread by done.
    simpl. unfold rbind. rewrite Hread. simpl.
    inversion Hdis as [|? ? Hd Hdis']; subst.
    set (w1 := set_mem (mem_store (w_mem w) d (mem_load m a width)) (set_net t w)).
    destruct (IH src w1) as (w'&Hrun&Hrest'&Hall&Hframe);
      [simpl in Hlen; lia|done|by apply reads_on_store|done|].
    exists w'. split_and!; [done..| |].
    + constructor; [|done]. rewrite Hframe by done. simpl.
      pose proof (mem_load_store_same (w_mem w) d (mem_load m a width)) as Hsame.
      by rewrite length_mem_load, Z2Nat.id in Hsame.
    + intros a' n Hall'. apply Forall_cons in Hall' as [Hd' Hall'].
      rewrite Hframe by done. simpl. apply mem_load_store_disjoint.
      rewrite length_mem_load. lia.
Qed.

(** Queued rows. *)
Lemma write_rows_spec width rows w w' :
  width <> 0 -> write_rows env width rows w = Done 0 w' ->
  write_queue (builder (w_conn w')) =
    write_queue (builder (w_conn w)) ++ ((fun row => WriteCursor row width 0) <$> rows).
Proof.
  intros Hw. revert w. induction rows as [|row rows IH]; intros w; simpl.
  - run. intros. simplify_eq. by rewrite app_nil_r.
  - unfold rbind, rpc_write at 1. rewrite (proj2 (Z.eqb_neq _ _) Hw).
    unfold rpc_write_queue_push, mod_builder. run. repeat case_if; run; intros Hr; try discriminate; try lia.
    rewrite (IH _ Hr). simpl. by rewrite <- app_assoc.
Qed.

(** The wire image of queued rows is the rows back to back. *)
Lemma cursor_bytes_rows m width rows q :
  0 <= width ->
  cursor_bytes env m (((fun row => WriteCursor row width 0) <$> rows) ++ q) =
    let '(rest, failed) := cursor_bytes env m q in (rows_bytes m width rows ++ rest, failed).
Proof.
  intros Hw. unfold rows_bytes. induction rows as [|row rows IH].
  - simpl. by destruct (cursor_bytes env m q).
  - rewrite fmap_cons. cbn [app cursor_bytes cur_refill cur_data cur_size Z.eqb].
    rewrite IH. destruct (cursor_bytes env m q) as [rest failed]. simpl. by rewrite <- app_assoc.
Qed.

(** Draining consumes its bytes chunk by chunk. *)
Lemma drain_loop_spec s fuel w buffer offset size bs rest :
  reads_on s w -> 0 <= offset <= size -> Z.of_nat (length bs) = size - offset ->
  size - offset <= drain_chunk * Z.of_nat fuel ->
  stream_input (w_net w) s = bs ++ rest ->
  exists w', drain_loop env fuel buffer offset size w = Done 0 w' /\
    stream_input (w_net w') s = rest.
Proof.
  revert w offset bs. induction fuel as [|fuel IH]; intros w offset bs Hs Hoff Hlen Hfuel Hin; simpl.
  - rewrite (proj2 (Z.ltb_ge offset size)) by lia. exists w. split; [done|].
    destruct bs; [done|simpl in Hlen; lia].
  - destruct (Z.ltb_spec offset size) as [Hlt|Hge]; simpl.
    + set (chunk := Z.min drain_chunk (size - offset)).
      assert (0 < chunk <= size - offset) as Hc by (subst chunk; unfold drain_chunk; lia).
      assert (Z.of_nat (length (take (Z.to_nat chunk) bs)) = chunk) as Hl
        by (rewrite length_take; lia).
      destruct (read_spec s w buffer (take (Z.to_nat chunk) bs) (drop (Z.to_nat chunk) bs ++ rest))
        as (t&Hread&Hrest); [done|by rewrite app_assoc, take_drop|].
      rewrite Hl in Hread. unfold rbind. rewrite Hread. simpl.
      eapply (IH _ _ (drop (Z.to_nat chunk) bs)); [by apply reads_on_store|lia| | |done].
      * rewrite length_drop. lia.
      * subst chunk. unfold drain_chunk in *. lia.
    + exists w. split; [done|]. destruct bs; [done|simpl in Hlen; lia].
Qed.

End transfer.

(** * The record of writes to host allocations *)

Definition host_covered (l : list rpc_host_allocation_write) (x : Z) : Prop :=
  exists h, h ∈ l /\ hw_start h <= x < hw_start h + hw_size h.

(** Recorded spans do not reach the end of the address space. *)
Definition host_writes_wf (l : list rpc_host_allocation_write) : Prop :=
  Forall (fun h => 0 <= hw_start h /\ 0 <= hw_size h /\ hw_start h + hw_size h < 2 ^ 64) l.

Lemma host_covered_snoc l h x :
  host_covered (l ++ [h]) x <-> host_covered l x \/ hw_start h <= x < hw_start h + hw_size h.
Proof.
  unfold host_covered. split.
  - intros (h'&[Hin|Hin]%elem_of_app&Hx); [left; eauto|].
    apply list_elem_of_singleton in Hin as ->. by right.
  - intros [(h'&Hin&Hx)|Hx]; [exists h'|exists h]; (split; [|done]); apply elem_of_app;
      [by left|right]. by apply list_elem_of_singleton.
Qed.

(** Recording a write, merged into the last record or not, adds its bytes. *)
Lemma record_host_write_covers start written l x :
  host_writes_wf l -> 0 <= start -> 0 <= written -> start + written < 2 ^ 64 ->
  (host_covered (record_host_write start written l) x <->
     host_covered l x \/ start <= x < start + written) /\
  host_writes_wf (record_host_write start written l).
Proof.
  intros Hwf Hs Hw Hb. unfold record_host_write.
  destruct (last l) as [b|] eqn:Hlast.
  - apply last_Some in Hlast as [l' ->]. apply Forall_app in Hwf as [Hwf' [(?&?&?) _]%Forall_cons].
    rewrite wrap64_id by (unfold is_u64; lia). case_if.
    + replace (take (length (l' ++ [b]) - 1) (l' ++ [b])) with l'.
      2: { rewrite length_app, take_app_length'; [done|simpl; lia]. }
      rewrite wrap64_id by (unfold is_u64; lia). split.
      * rewrite !host_covered_snoc. simpl. lia || (split; intros; destruct_or?; auto; lia).
      * apply Forall_app. split; [done|]. repeat constructor; simpl; lia.
    + split; [by rewrite (host_covered_snoc _ (HostWrite start written))|].
      apply Forall_app. split; [by apply Forall_app; repeat constructor|].
      repeat constructor; simpl; lia.
  - split; [by rewrite (host_covered_snoc _ (HostWrite start written))|].
    apply Forall_app. split; [done|]. repeat constructor; simpl; lia.
Qed.

(** * Properties *)

(** The spans a request takes from its copy buffer lie inside the
    allocation, are aligned relative to it, follow one another without overlap,
    and, when all fit, are queued in order, the empty ones left out. *)
Theorem copy_buffer_spans {T} env (w w1 w2 : world T) size reqs ps :
  rpc_copy_alloc env size w = Done 0 w1 -> 0 < size < buffer_bound ->
  0 < env_malloc env size -> env_malloc env size + size < 2 ^ 64 ->
  Forall (fun r => 0 <= r.1 < buffer_bound /\ 0 < r.2 < buffer_bound) reqs ->
  write_buffers env reqs w1 = Done ps w2 ->
  let buf := env_malloc env size in
  Forall (fun '(p, n, al) => buf <= p /\ (al | p - buf) /\ p + n <= buf + size)
    (spans_of reqs ps) /\
  ForallOrdPairs (fun s t => s.1.1 + s.1.2 <= t.1.1) (spans_of reqs ps) /\
  (length ps = length reqs -> write_queue (builder (w_conn w2)) =
    write_queue (builder (w_conn w)) ++ ((fun s => WriteCursor s.1.1 s.1.2 0) <$>
       List.filter (fun s => negb (s.1.2 =? 0)) (spans_of reqs ps))).
Proof.
  intros Halloc Hsize Hbuf Hend Hreqs Hrun buf. unfold rpc_copy_alloc, mod_builder in Halloc.
  run_in Halloc. case_if_in Halloc; [run_in Halloc; by simplify_eq|].
  rewrite (proj2 (Z.eqb_neq size 0)), (proj2 (Z.eqb_neq (env_malloc env size) 0)) in Halloc by lia.
  run_in Halloc. simplify_eq.
  apply write_buffers_spec in Hrun as (HF&Hord&Hq); simpl in *; [|done|lia|lia|lia|lia].
  split_and!; [|done|done]. eapply Forall_impl; [exact HF|].
  intros [[p n] al] (?&?&?). split_and!; [subst buf; lia|done|done].
Qed.

Definition alloc_world : world lanes :=
  after (rpc_copy_alloc sample_env 32) (after (rpc_write_start_request sample_env 5) lock_world).
Definition alloc_reqs : list (Z * Z) := [(5, 1); (0, 8); (8, 8)].

Lemma copy_buffer_spans_witness :
  let w := after (rpc_write_start_request sample_env 5) lock_world in
  let ps := [4096; 4104; 4104] in
  Forall (fun '(p, n, al) => 4096 <= p /\ (al | p - 4096) /\ p + n <= 4096 + 32)
    (spans_of alloc_reqs ps) /\
  ForallOrdPairs (fun s t => s.1.1 + s.1.2 <= t.1.1) (spans_of alloc_reqs ps) /\
  (length ps = length alloc_reqs ->
   write_queue (builder (w_conn (after (write_buffers sample_env alloc_reqs) alloc_world))) =
    write_queue (builder (w_conn w)) ++ ((fun s => WriteCursor s.1.1 s.1.2 0) <$>
       List.filter (fun s => negb (s.1.2 =? 0)) (spans_of alloc_reqs ps))).
Proof.
  intros w ps.
  apply (copy_buffer_spans sample_env w alloc_world
    (after (write_buffers sample_env alloc_reqs) alloc_world) 32 alloc_reqs ps).
  - vm_compute. reflexivity.
  - unfold buffer_bound. lia.
  - simpl. lia.
  - simpl. lia.
  - unfold buffer_bound, alloc_reqs. repeat constructor; simpl; lia.
  - vm_compute. reflexivity.
Defined.

(** A pitched transfer is independent of the two sides' layouts: rows queued
    with one geometry travel back to back, and reading them with any geometry of
    as many disjoint rows stores each row unchanged and consumes exactly them. *)
Theorem pitched_transfer_roundtrip {Tc Ts} `{TransportLaws Ts} envc envs
    (wc wc' : world Tc) (ws : world Ts) s width rest
    data rows row_stride slices slice_stride data' rows' row_stride' slices' slice_stride' :
  let src := pitched_rows data rows row_stride slices slice_stride in
  let dst := pitched_rows data' rows' row_stride' slices' slice_stride' in
  0 < width -> length src = length dst -> rows_disjoint width dst ->
  rpc_write_pitched envc data width rows row_stride slices slice_stride wc = Done 0 wc' ->
  write_queue (builder (w_conn wc)) = [empty_cursor; empty_cursor] -> reads_on s ws ->
  stream_input (w_net ws) s =
    (cursor_bytes envc (w_mem wc) (drop 2 (write_queue (builder (w_conn wc'))))).1 ++ rest ->
  exists ws', rpc_read_pitched envs data' width rows' row_stride' slices' slice_stride' ws =
      Done 0 ws' /\
    stream_input (w_net ws') s = rest /\
    Forall2 (fun a b => mem_load (w_mem ws') b width = mem_load (w_mem wc) a width) src dst.
Proof.
  intros src dst Hwidth Hlen Hdis Hwrite Hq Hs Hin.
  unfold rpc_write_pitched in Hwrite. fold src in Hwrite.
  apply write_rows_spec in Hwrite; [|lia]. rewrite Hwrite, Hq in Hin.
  change (drop 2 ([empty_cursor; empty_cursor] ++ ?l)) with l in Hin.
  pose proof (cursor_bytes_rows envc (w_mem wc) width src [] ltac:(lia)) as Hbytes.
  simpl in Hbytes. rewrite !app_nil_r in Hbytes. simpl in Hin. rewrite Hbytes in Hin. simpl in Hin.
  destruct (read_rows_spec envs s width (w_mem wc) src dst ws rest) as (ws'&Hrun&?&?&_);
    [lia|done..|]. exists ws'. by split_and!.
Qed.

(** Draining consumes exactly the requested number of bytes, in chunks of at
    most 64 KiB, and always ends when they are there. *)
Theorem drain_consumes_exactly {T} `{TransportLaws T} env (w : world T) s buffer bs rest :
  reads_on s w -> stream_input (w_net w) s = bs ++ rest ->
  exists w', rpc_drain env buffer (Z.of_nat (length bs)) w = Done 0 w' /\
    stream_input (w_net w') s = rest.
Proof.
  intros Hs Hin. unfold rpc_drain.
  apply (drain_loop_spec env s _ w buffer 0 _ bs); [done|lia|lia| |done].
  unfold drain_chunk. pose proof (Z.div_mod (Z.of_nat (length bs)) (64 * 1024) ltac:(lia)).
  pose proof (Z.mod_pos_bound (Z.of_nat (length bs)) (64 * 1024) ltac:(lia)). lia.
Qed.

(** A server lane bound to stream 3 with five payload bytes pending. *)
Definition reading_world : world lanes :=
  after (rpc_bind_http2_stream 3)
    (sample_world (sample_conn 1 (AsyncSender 0 0 0 0) initial_async_state)
       (Lanes {[3 := [1; 2; 3; 4; 5]]} ∅ ∅ ∅ 3 1)).

Lemma reading_world_reads : reads_on 3 reading_world.
Proof. vm_compute. split; [discriminate|]. split; [reflexivity|]. right. by split_and!. Qed.

Lemma drain_consumes_exactly_witness :
  exists w', rpc_drain sample_env 8192 (Z.of_nat (length [1; 2; 3])) reading_world = Done 0 w' /\
    stream_input (w_net w') 3 = [4; 5].
Proof.
  apply (drain_consumes_exactly sample_env reading_world 3 8192 [1; 2; 3] [4; 5]).
  - apply reading_world_reads.
  - vm_compute. reflexivity.
Defined.

(** Two rows of two bytes, four bytes apart at the sender and three at the reader. *)
Definition pitched_writer : world lanes :=
  after (rpc_write_start_request sample_env 5) lock_world.

Definition pitched_reader : world lanes :=
  after (rpc_bind_http2_stream 3)
    (sample_world (sample_conn 1 (AsyncSender 0 0 0 0) initial_async_state)
       (Lanes {[3 := [16; 17; 20; 21; 99]]} ∅ ∅ ∅ 3 1)).

Lemma pitched_transfer_roundtrip_witness :
  exists ws', rpc_read_pitched sample_env 512 2 1 0 2 3 pitched_reader = Done 0 ws' /\
    stream_input (w_net ws') 3 = [99] /\
    Forall2 (fun a b => mem_load (w_mem ws') b 2 = mem_load (w_mem pitched_writer) a 2)
      (pitched_rows 16 2 4 1 0) (pitched_rows 512 1 0 2 3).
Proof.
  apply (pitched_transfer_roundtrip sample_env sample_env pitched_writer
    (after (rpc_write_pitched sample_env 16 2 2 4 1 0) pitched_writer) pitched_reader 3 2 [99]).
  - lia.
  - reflexivity.
  - vm_compute. repeat constructor; discriminate.
  - vm_compute. reflexivity.
  - vm_compute. reflexivity.
  - vm_compute. split; [discriminate|]. split; [reflexivity|]. right. by split_and!.
  - vm_compute. reflexivity.
Defined.

(** A write to a host allocation that arrives through its writable alias is
    recorded exactly: the recorded ranges cover the earlier ones and the new
    bytes and nothing else, the pending flag is raised, and the pages changed in
    protection are whole pages around those bytes. *)
Theorem host_write_recorded {T} env (w w' : world T) start written k :
  let l := host_allocation_writes (w_conn w) in
  rpc_note_host_allocation_write env start written w = Done 0 w' -> host_writes_wf l ->
  env_page_size env = 2 ^ k -> 0 <= k < 64 ->
  0 <= start -> 0 < written -> start + written + 2 ^ k < 2 ^ 64 ->
  (forall x, host_covered (host_allocation_writes (w_conn w')) x <->
     host_covered l x \/ start <= x < start + written) /\
  host_allocation_writes_pending (w_conn w') = true /\
  exists first size protection, w_protected w' = w_protected w ++ [(first, size, protection)] /\
    first <= start /\ start + written <= first + size /\ (2 ^ k | first) /\ (2 ^ k | size).
Proof.
  intros l Hrun Hwf Hpage Hk Hs Hw Hb. assert (0 < 2 ^ k) by (apply Z.pow_pos_nonneg; lia).
  unfold rpc_note_host_allocation_write, lock_write, unlock_write in Hrun. run_in Hrun.
  destruct (write_mutex (w_conn w)); [done|]. run_in Hrun. fold l in Hrun.
  case_if_in Hrun; [run_in Hrun; by simplify_eq|]. run_in Hrun.
  rewrite (proj2 (Z.eqb_neq written 0)) in Hrun by lia. run_in Hrun. rewrite Hpage in Hrun.
  set (prot := match hook_host_range_is_protected _ with None => _ | Some _ => _ end) in Hrun.
  case_if_in Hrun; run_in Hrun; simplify_eq. simpl.
  rewrite mask_down_pow2 by (unfold is_u64; lia || done).
  pose proof (Z.mod_pos_bound start (2 ^ k) ltac:(lia)).
  destruct (mask_up_spec (start + written) k) as [Hup Hdiv]; [lia|done|lia|].
  set (stop := mask_down (wrap64 (start + written + 2 ^ k - 1)) (2 ^ k)) in *.
  clearbody stop. pose proof (Z.mod_le start (2 ^ k) ltac:(lia) ltac:(lia)). split_and!.
  - intros x. by apply record_host_write_covers; try done; lia.
  - by rewrite orb_true_r.
  - eexists _, _, _. split; [done|]. rewrite wrap64_id by (unfold is_u64; lia).
    assert ((2 ^ k | start - start mod 2 ^ k)) as Hfirst.
    { exists (start / 2 ^ k). pose proof (Z.div_mod start (2 ^ k) ltac:(lia)). lia. }
    split_and!; [lia|lia|done|]. by apply Z.divide_sub_r.
Qed.

Lemma host_write_recorded_witness :
  let w := after (rpc_note_host_allocation_write sample_env 4000 96) lock_world in
  let w' := after (rpc_note_host_allocation_write sample_env 4096 5000) w in
  (forall x, host_covered (host_allocation_writes (w_conn w')) x <->
     host_covered (host_allocation_writes (w_conn w)) x \/ 4096 <= x < 4096 + 5000) /\
  host_allocation_writes_pending (w_conn w') = true /\
  exists first size protection, w_protected w' = w_protected w ++ [(first, size, protection)] /\
    first <= 4096 /\ 4096 + 5000 <= first + size /\ (2 ^ 12 | first) /\ (2 ^ 12 | size).
Proof.
  intros w w'. apply (host_write_recorded sample_env w w' 4096 5000 12);
    [vm_compute; reflexivity| |reflexivity|lia|lia|lia|lia].
  assert (host_allocation_writes (w_conn w) = [HostWrite 4000 96]) as -> by (vm_compute; reflexivity).
  repeat constructor; simpl; lia.
Defined.
