(* ===== verification/Fence.v ===== *)
(** Ordering of requests behind fire-and-forget ones, across both ends of a
    connection: client threads that take an entry snapshot before the builder
    lock ([rpc_write_start_request]), the lane cache and wait markers of
    [rpc_write_end], FIFO lanes, and server lanes that wait in [rpc_dispatch] and
    report completion with [rpc_async_sequence_end].  The system is a step
    relation built from the definitions of the components. *)
From S2P Require Import Prelude AsyncSeq Va RpcCore.

(** * The system *)

(** What a request sees when it is entered: the published count, and (for the
    specification only) the sequences sent by then. *)
Record entry := Entry { en_dep : Z; en_before : gset Z }.

(** A request on its way: its lane, its sequence when it is fire-and-forget, the
    marker it was sent with, its entry, and whether its lane has dispatched it. *)
Record flight := Flight {
  fl_lane : Z;
  fl_seq : option Z;
  fl_fence : option Z;
  fl_entry : entry;
  fl_running : bool;
}.

(** Requests are kept in the order they were written; a lane's queue is the
    sublist of its requests.  [fs_entered] are the snapshots of threads waiting
    for the builder lock, [fs_building] is its holder. *)
Record fence_sys := FenceSys {
  fs_sender : async_sender;
  fs_entered : list entry;
  fs_building : option (entry * Z * option Z);
  fs_flight : list flight;
  fs_async : async_state;
  fs_sent : gset Z;
}.

Definition initial_fence_sys : fence_sys :=
  FenceSys (AsyncSender 0 0 0 0) [] None [] initial_async_state ∅.

(** The marker decision of [rpc_write_end] for a client request. *)
Definition fence_of (dep lane : Z) (s : async_sender) : option Z :=
  if async_prefix (switch_lane lane s) <? dep then Some dep else None.

Definition issue (async_request : bool) (s : async_sender) : option Z * async_sender :=
  if async_request
  then (Some (issued_async_sequence s),
        AsyncSender (async_prefix_stream s) (async_prefix s)
          (wrap64 (issued_async_sequence s + 1)) (published_async_sequence s))
  else (None, s).

Definition end_request (x : flight) (st : async_state) : async_state :=
  match fl_seq x with
  | Some s => rpc_async_sequence_end s st
  | None => st
  end.

Definition run_flight (x : flight) : flight :=
  Flight (fl_lane x) (fl_seq x) (fl_fence x) (fl_entry x) true.

(** Client steps. *)
Inductive client_step : fence_sys -> fence_sys -> Prop :=
  | client_enter sd en bu fl sv sent :
      client_step (FenceSys sd en bu fl sv sent)
        (FenceSys sd (Entry (published_async_sequence sd) sent :: en) bu fl sv sent)
  | client_start sd e1 e e2 fl sv sent lane async_request seq sd' :
      issue async_request sd = (seq, sd') ->
      client_step (FenceSys sd (e1 ++ e :: e2) None fl sv sent)
        (FenceSys sd' (e1 ++ e2) (Some (e, lane, seq)) fl sv sent)
  | client_end sd en e lane seq fl sv sent :
      client_step (FenceSys sd en (Some (e, lane, seq)) fl sv sent)
        (FenceSys (note_sent (en_dep e) (switch_lane lane sd)) en None
           (fl ++ [Flight lane seq (fence_of (en_dep e) lane sd) e false]) sv
           (match seq with Some s => {[s]} ∪ sent | None => sent end)).

(** A write that the transport rejects: the lane cache may have switched, the
    sequence is spent, nothing is sent. *)
Inductive failed_write : fence_sys -> fence_sys -> Prop :=
  | client_fail sd en e lane seq fl sv sent :
      failed_write (FenceSys sd en (Some (e, lane, seq)) fl sv sent)
        (FenceSys (switch_lane lane sd) en None fl sv sent).

(** Server steps: a lane dispatches its oldest request once its marker's wait is
    over, and a dispatched request ends. *)
Inductive server_step : fence_sys -> fence_sys -> Prop :=
  | server_dispatch sd en bu l1 x l2 sv sent :
      fl_running x = false -> Forall (fun y => fl_lane y <> fl_lane x) l1 ->
      fence_wait (fl_fence x) sv = Some 0 ->
      server_step (FenceSys sd en bu (l1 ++ x :: l2) sv sent)
        (FenceSys sd en bu (l1 ++ run_flight x :: l2) sv sent)
  | server_finish sd en bu l1 x l2 sv sent :
      fl_running x = true ->
      server_step (FenceSys sd en bu (l1 ++ x :: l2) sv sent)
        (FenceSys sd en bu (l1 ++ l2) (end_request x sv) sent).

Definition fence_step (st st' : fence_sys) : Prop := client_step st st' \/ server_step st st'.

Definition fence_step_or_fail (st st' : fence_sys) : Prop :=
  fence_step st st' \/ failed_write st st'.

(** * Lists in order *)

(** [P before x] holds of every element with what precedes it. *)
Fixpoint each_after {A} (P : list A -> A -> Prop) (before l : list A) : Prop :=
  match l with
  | [] => True
  | x :: l' => P before x /\ each_after P (before ++ [x]) l'
  end.

Lemma each_after_app {A} (P : list A -> A -> Prop) before l1 l2 :
  each_after P before (l1 ++ l2) <-> each_after P before l1 /\ each_after P (before ++ l1) l2.
Proof.
  revert before. induction l1 as [|x l1 IH]; intros before; simpl.
  - rewrite app_nil_r. tauto.
  - rewrite IH, <- app_assoc. simpl. tauto.
Qed.

(** Changing the predicate and what precedes, in step. *)
Lemma each_after_mono {A} (P Q : list A -> A -> Prop) before before' l :
  (forall l' x, x ∈ l -> P (before ++ l') x -> Q (before' ++ l') x) ->
  each_after P before l -> each_after Q before' l.
Proof.
  revert before before'. induction l as [|x l IH]; intros before before' Hpq; simpl; [done|].
  intros [Hx Hl]. split.
  - specialize (Hpq [] x). rewrite !app_nil_r in Hpq. apply Hpq; [by left|done].
  - apply (IH (before ++ [x])); [|done]. intros l' y Hy. rewrite <- !app_assoc.
    apply Hpq. by right.
Qed.

(** The marker and the sender update are those of [rpc_write_end]. *)
Lemma end_fence_client c :
  write_op (builder c) <> -1 -> local_request_parity c = 0 ->
  end_fence c = fence_of (write_dependency (builder c)) (write_stream_id (builder c)) (sender c) /\
  end_sender c = note_sent (write_dependency (builder c))
                   (switch_lane (write_stream_id (builder c)) (sender c)).
Proof.
  intros Hop%Z.eqb_neq Hpar%Z.eqb_eq. unfold end_fence, end_sender, fence_of.
  by rewrite Hop, Hpar.
Qed.

(** * Safety *)

(** A request of [lane] among [l] that brings sequence [s] to its end before
    anything later on that lane: it carries [s], or it waits for it. *)
Definition covers (l : list flight) (lane s : Z) : Prop :=
  exists y, y ∈ l /\ fl_lane y = lane /\
    (fl_seq y = Some s \/ (fl_running y = false /\ exists f, fl_fence y = Some f /\ s < f)).

(** A waiting request will find every sent sequence of its snapshot ended. *)
Definition fenced (sent : gset Z) (sv : async_state) (before : list flight) (x : flight) : Prop :=
  fl_running x = false -> forall s, s ∈ sent -> s < en_dep (fl_entry x) ->
    async_done sv s \/ covers before (fl_lane x) s \/ (exists f, fl_fence x = Some f /\ s < f).

Definition entry_ok (published : Z) (sent : gset Z) (e : entry) : Prop :=
  0 <= en_dep e <= published /\
  forall s, s ∈ en_before e -> s ∈ sent /\ s < en_dep e.

Definition flight_ok (published : Z) (sent : gset Z) (x : flight) : Prop :=
  entry_ok published sent (fl_entry x) /\ (forall s, fl_seq x = Some s -> 0 <= s < published) /\
  (forall f, fl_fence x = Some f -> 0 <= f <= published).

Definition building_ok (sd : async_sender) (sent : gset Z) (bu : option (entry * Z * option Z))
    : Prop :=
  match bu with
  | None => True
  | Some (e, _, seq) =>
      entry_ok (published_async_sequence sd) sent e /\
      forall s, seq = Some s ->
        s + 1 = issued_async_sequence sd /\ published_async_sequence sd <= s
  end.

Record fence_inv (n : Z) (st : fence_sys) : Prop := {
  fi_prefix : 0 <= async_prefix (fs_sender st) <= published_async_sequence (fs_sender st);
  fi_issued : published_async_sequence (fs_sender st) <= issued_async_sequence (fs_sender st) <= n;
  fi_entered : Forall (entry_ok (published_async_sequence (fs_sender st)) (fs_sent st))
    (fs_entered st);
  fi_building : building_ok (fs_sender st) (fs_sent st) (fs_building st);
  fi_sent : forall s, s ∈ fs_sent st -> 0 <= s < published_async_sequence (fs_sender st);
  fi_flight : Forall (flight_ok (published_async_sequence (fs_sender st)) (fs_sent st))
    (fs_flight st);
  fi_async : async_wf (fs_async st) /\ async_cancelled (fs_async st) = false;
  fi_covered : forall s, s ∈ fs_sent st -> s < async_prefix (fs_sender st) ->
    async_done (fs_async st) s \/ covers (fs_flight st) (async_prefix_stream (fs_sender st)) s;
  fi_fenced : each_after (fenced (fs_sent st) (fs_async st)) [] (fs_flight st);
}.

Lemma fence_inv_init : fence_inv 0 initial_fence_sys.
Proof.
  split; simpl; done.
Qed.

Lemma covers_app l1 l2 lane s :
  covers (l1 ++ l2) lane s <-> covers l1 lane s \/ covers l2 lane s.
Proof.
  unfold covers. setoid_rewrite elem_of_app. split.
  - intros (y&[?|?]&?); [left|right]; eauto.
  - intros [(y&?&?)|(y&?&?)]; eauto.
Qed.

Lemma entry_ok_mono p p' sent sent' e :
  entry_ok p sent e -> p <= p' -> sent ⊆ sent' -> entry_ok p' sent' e.
Proof.
  intros (Hd&Hb) Hle Hsub. split; [lia|]. intros s Hs. destruct (Hb s Hs). split; [|done].
  by apply Hsub.
Qed.

Lemma flight_ok_mono p p' sent sent' x :
  flight_ok p sent x -> p <= p' -> sent ⊆ sent' -> flight_ok p' sent' x.
Proof.
  intros (Hd&Hs&Hf) Hle Hsub.
  split_and!; [by eapply entry_ok_mono|intros s Hs'; specialize (Hs s Hs'); lia|].
  intros f Hf'. specialize (Hf f Hf'). lia.
Qed.

(** What a successful end leaves in the sender. *)
Lemma note_sent_spec n sent e lane seq sd :
  0 <= async_prefix sd <= published_async_sequence sd ->
  published_async_sequence sd <= issued_async_sequence sd <= n -> n < 2 ^ 64 - 1 ->
  building_ok sd sent (Some (e, lane, seq)) ->
  let sw := switch_lane lane sd in
  let sd' := note_sent (en_dep e) sw in
  async_prefix_stream sd' = lane /\ issued_async_sequence sd' = issued_async_sequence sd /\
  published_async_sequence sd' = issued_async_sequence sd /\
  0 <= async_prefix sw <= published_async_sequence sd /\
  async_prefix sd' <= issued_async_sequence sd /\
  (async_prefix sd' = Z.max (async_prefix sw) (en_dep e) \/
   (async_prefix sd' = issued_async_sequence sd /\
    Z.max (async_prefix sw) (en_dep e) = issued_async_sequence sd - 1 /\
    published_async_sequence sd < issued_async_sequence sd)).
Proof.
  intros Hp Hi Hn [[Hd _] Hseq]. unfold note_sent, switch_lane.
  destruct (Z.eqb_spec (async_prefix_stream sd) lane) as [Hl|Hl]; simpl.
  all: destruct (Z.eqb_spec (issued_async_sequence sd) (published_async_sequence sd)) as [Hpub|Hpub];
    simpl; rewrite ?wrap64_id by (unfold is_u64; lia).
  all: try (split_and!; try done; try lia; left; lia).
  all: match goal with |- context [?a =? ?b] => destruct (Z.eqb_spec a b) end.
  all: split_and!; try done; lia.
Qed.

Lemma switch_lane_prefix lane sd :
  async_prefix (switch_lane lane sd) = if async_prefix_stream sd =? lane then async_prefix sd else 0.
Proof. unfold switch_lane. by destruct (async_prefix_stream sd =? lane). Qed.

(** Sending preserves the invariant: the new request is fenced, and the lane's
    cached prefix is covered by what the lane now carries. *)
Lemma client_end_inv n sd en e lane seq fl sv sent :
  fence_inv n (FenceSys sd en (Some (e, lane, seq)) fl sv sent) -> n < 2 ^ 64 - 1 ->
  fence_inv n (FenceSys (note_sent (en_dep e) (switch_lane lane sd)) en None
    (fl ++ [Flight lane seq (fence_of (en_dep e) lane sd) e false]) sv
    (match seq with Some s => {[s]} ∪ sent | None => sent end)).
Proof.
  intros [Hp Hi He Hb Hsent Hfl Ha Hc Hf] Hn. simpl in *.
  destruct (note_sent_spec n sent e lane seq sd Hp Hi Hn Hb) as (Hl&His&Hpub&Hsw&Hle&Hpre).
  set (dep := en_dep e) in *.
  set (sd' := note_sent dep (switch_lane lane sd)) in *.
  set (x := Flight lane seq (fence_of dep lane sd) e false).
  destruct Hb as [Hent Hseq]. pose proof (proj1 Hent) as Hdep. fold dep in Hdep.
  assert (sent ⊆ match seq with Some s => {[s]} ∪ sent | None => sent end) as Hgrow
    by (destruct seq; [apply union_subseteq_r|done]).
  assert (forall s, s ∈ (match seq with Some s => {[s]} ∪ sent | None => sent end) ->
    (s ∈ sent /\ 0 <= s < published_async_sequence sd) \/
    (seq = Some s /\ published_async_sequence sd <= s < issued_async_sequence sd)) as Hnew.
  { intros s. destruct seq as [s0|]; [|by left; auto].
    intros [->%elem_of_singleton|Hs]%elem_of_union; [right|left; auto].
    split; [done|]. destruct (Hseq s0 eq_refl). lia. }
  assert (forall s, s ∈ sent -> s < async_prefix (switch_lane lane sd) ->
    async_done sv s \/ covers fl lane s) as Hcov.
  { intros s Hs Hlt. rewrite switch_lane_prefix in Hlt. specialize (Hsent s Hs).
    destruct (Z.eqb_spec (async_prefix_stream sd) lane) as [<-|?]; [auto|lia]. }
  assert (forall s, fence_of dep lane sd = None -> s < dep -> s < async_prefix (switch_lane lane sd))
    as Hnofence.
  { intros s Hnf Hlt. unfold fence_of in Hnf. case_if_in Hnf; [done|lia]. }
  assert (forall s, s < dep -> covers [x] lane s \/ fence_of dep lane sd = None) as Hown.
  { intros s Hlt. destruct (fence_of dep lane sd) as [f|] eqn:Hfe; [|by right]. left.
    exists x. split; [by left|]. split; [done|]. right. split; [done|]. exists f.
    split; [done|]. unfold fence_of in Hfe. case_if_in Hfe; by simplify_eq. }
  split; simpl; rewrite ?Hpub, ?His, ?Hl.
  - lia.
  - lia.
  - eapply Forall_impl; [exact He|]. intros d Hd. eapply entry_ok_mono; [done|lia|done].
  - done.
  - intros s Hs. destruct (Hnew s Hs) as [[_ ?]|[_ ?]]; lia.
  - apply Forall_app. split.
    + eapply Forall_impl; [exact Hfl|]. intros y Hy. eapply flight_ok_mono; [done|lia|done].
    + constructor; [|done]. split_and!; simpl; [eapply entry_ok_mono; [done|lia|done]| |].
      * intros s ->. destruct (Hseq s eq_refl). lia.
      * unfold fence_of. case_if; [|done]. intros f [= <-]. lia.
  - done.
  - intros s Hs Hlt. rewrite covers_app. destruct (Hnew s Hs) as [[Hs' Hr]|[-> Hr]].
    + destruct (decide (s < async_prefix (switch_lane lane sd))) as [Hlow|Hlow].
      { destruct (Hcov s Hs' Hlow); auto. }
      destruct (Hown s) as [?|Hnf]; [lia|auto|]. specialize (Hnofence s Hnf). lia.
    + right. right. exists x. split; [by left|]. split; [done|]. by left.
  - apply each_after_app. split.
    + eapply each_after_mono; [|exact Hf]. simpl. intros l' y Hy Hfen Hrun s Hs Hlt.
      destruct (Hnew s Hs) as [[Hs' _]|[_ Hr]]; [by apply Hfen|].
      rewrite Forall_forall in Hfl. destruct (Hfl y Hy) as [[? _] _]. lia.
    + simpl. split; [|done]. intros _ s Hs Hlt. simpl in *.
      destruct (Hnew s Hs) as [[Hs' _]|[_ Hr]]; [|lia].
      destruct (fence_of dep lane sd) as [f|] eqn:Hfe.
      * right. right. exists f. split; [done|]. unfold fence_of in Hfe.
        case_if_in Hfe; by simplify_eq.
      * destruct (Hcov s Hs'); [by apply Hnofence|auto|auto].
Qed.

Lemma fence_wait_done fence sv f s :
  fence_wait fence sv = Some 0 -> async_wf sv -> fence = Some f -> 0 <= s < f -> async_done sv s.
Proof.
  intros Hw Hwf -> Hs. destruct (async_prefix_is_first sv Hwf) as [_ Hiff].
  apply (Hiff f); [lia| |done]. simpl in Hw. case_if_in Hw; [done|].
  destruct (async_cancelled sv); [done|]. simpl in E. destruct E as [?|?]; [done|]. breflect. lia.
Qed.

Lemma end_request_done x sv :
  async_wf sv -> (forall s, fl_seq x = Some s -> 0 <= s < 2 ^ 64 - 1) ->
  async_wf (end_request x sv) /\ async_cancelled (end_request x sv) = async_cancelled sv /\
  (forall s, async_done (end_request x sv) s <-> async_done sv s \/ fl_seq x = Some s).
Proof.
  intros Hwf Hs. unfold end_request. destruct (fl_seq x) as [s|].
  - destruct (async_end_done s sv Hwf (Hs s eq_refl)) as [Hwf' Hd].
    split_and!; [done|apply async_end_cancelled|]. intros s'. rewrite Hd. split; intros [?|?]; auto; right; congruence.
  - split_and!; [done..|]. intros s'. split; [by left|]. by intros [?|?].
Qed.

(** When one element of the flight list changes or goes away, what it covered
    must be done by now. *)
Lemma covers_replace l1 x l2 l' lane s (done : Prop) :
  covers (l1 ++ x :: l2) lane s ->
  (covers [x] lane s -> done \/ covers l' lane s) ->
  done \/ covers (l1 ++ l' ++ l2) lane s.
Proof.
  rewrite (covers_app l1 (x :: l2)), (covers_app [x] l2), !covers_app. tauto.
Qed.

Lemma server_dispatch_inv n sd en bu l1 x l2 sv sent :
  fence_inv n (FenceSys sd en bu (l1 ++ x :: l2) sv sent) ->
  fence_wait (fl_fence x) sv = Some 0 ->
  fence_inv n (FenceSys sd en bu (l1 ++ run_flight x :: l2) sv sent).
Proof.
  intros [Hp Hi He Hb Hsent Hfl [Hwf Hcan] Hc Hf] Hwait. simpl in *.
  assert (forall lane s, s ∈ sent -> covers [x] lane s ->
    async_done sv s \/ covers [run_flight x] lane s) as Hx.
  { intros lane s Hs (y&->%list_elem_of_singleton&Hl&[Hq|(_&f&Hfe&Hlt)]).
    - right. exists (run_flight x). split; [by left|]. split; [done|]. by left.
    - left. eapply fence_wait_done; [done..|]. specialize (Hsent s Hs). lia. }
  split; simpl; try done.
  - apply Forall_app in Hfl as [? [? ?]%Forall_cons]. apply Forall_app. split; [done|by constructor].
  - intros s Hs Hlt. destruct (Hc s Hs Hlt) as [?|Hcov]; [by left|].
    apply (covers_replace l1 x l2 [run_flight x] _ s _ Hcov), (Hx _ s Hs).
  - apply each_after_app in Hf as [Hf1 [_ Hf2]]. apply each_after_app. split; [done|].
    split; [done|]. eapply each_after_mono; [|exact Hf2].
    intros l' y _ Hfen Hrun s Hs Hlt. simpl in *.
    destruct (Hfen Hrun s Hs Hlt) as [?|[Hcov|?]]; [by left| |by right; right].
    rewrite <- app_assoc in *. simpl in *.
    destruct (covers_replace l1 x l' [run_flight x] _ s _ Hcov (Hx _ s Hs)); auto.
Qed.

Lemma server_finish_inv n sd en bu l1 x l2 sv sent :
  fence_inv n (FenceSys sd en bu (l1 ++ x :: l2) sv sent) -> n < 2 ^ 64 - 1 ->
  fl_running x = true ->
  fence_inv n (FenceSys sd en bu (l1 ++ l2) (end_request x sv) sent).
Proof.
  intros [Hp Hi He Hb Hsent Hfl [Hwf Hcan] Hc Hf] Hn Hrunx. simpl in *.
  apply Forall_app in Hfl as [Hfl1 [Hflx Hfl2]%Forall_cons].
  destruct (end_request_done x sv Hwf) as (Hwf'&Hcan'&Hdone).
  { intros s Hs. destruct Hflx as (_&Hseq&_). specialize (Hseq s Hs). lia. }
  assert (forall lane s, covers [x] lane s -> async_done (end_request x sv) s \/ covers [] lane s)
    as Hx.
  { intros lane s (y&->%list_elem_of_singleton&Hl&[Hq|(Hr&_)]); [|congruence].
    left. rewrite Hdone. by right. }
  split; simpl; try done.
  - by apply Forall_app.
  - split; [done|congruence].
  - intros s Hs Hlt. rewrite Hdone. destruct (Hc s Hs Hlt) as [?|Hcov]; [by left; left|].
    destruct (covers_replace l1 x l2 [] _ s _ Hcov (Hx _ s)) as [Hd|?]; [|by right].
    rewrite Hdone in Hd. by left.
  - apply each_after_app in Hf as [Hf1 [_ Hf2]]. apply each_after_app. split.
    + eapply each_after_mono; [|exact Hf1]. intros l' y _ Hfen Hrun s Hs Hlt. rewrite Hdone.
      destruct (Hfen Hrun s Hs Hlt) as [?|[?|?]]; auto.
    + eapply each_after_mono; [|exact Hf2]. intros l' y _ Hfen Hrun s Hs Hlt. simpl in *.
      destruct (Hfen Hrun s Hs Hlt) as [?|[Hcov|?]]; [rewrite Hdone; auto| |auto].
      rewrite <- app_assoc in Hcov. simpl in Hcov.
      destruct (covers_replace l1 x l' [] _ s _ Hcov (Hx _ s)) as [?|?]; auto.
Qed.

Lemma fence_inv_weaken n m st : fence_inv n st -> n <= m -> fence_inv m st.
Proof. intros [] ?. split; try done. lia. Qed.

Lemma client_step_inv n st st' :
  fence_inv n st -> n < 2 ^ 64 - 1 -> client_step st st' -> fence_inv (n + 1) st'.
Proof.
  intros Hinv Hn Hstep. destruct Hstep as [sd en bu fl sv sent
    |sd e1 e e2 fl sv sent lane ar seq sd' Hissue|sd en e lane seq fl sv sent].
  - apply (fence_inv_weaken n); [|lia]. destruct Hinv as [Hp Hi He Hb Hsent].
    split; simpl in *; try done. constructor; [|done]. split; simpl; [lia|].
    intros s Hs. split; [done|]. specialize (Hsent s Hs). lia.
  - destruct Hinv as [Hp Hi He Hb Hsent Hfl Ha Hc Hf]. simpl in *.
    apply Forall_app in He as [He1 [Hd He2]%Forall_cons].
    destruct ar; simpl in Hissue; simplify_eq; split; simpl in *;
      rewrite ?wrap64_id by (unfold is_u64; lia); try done; try lia.
    + by apply Forall_app.
    + split; [done|]. intros s [= <-]. lia.
    + by apply Forall_app.
  - apply (fence_inv_weaken n); [by apply client_end_inv|lia].
Qed.

Lemma server_step_inv n st st' :
  fence_inv n st -> n < 2 ^ 64 - 1 -> server_step st st' -> fence_inv n st'.
Proof.
  intros Hinv Hn Hstep.
  destruct Hstep as [sd en bu l1 x l2 sv sent ? ? ?|sd en bu l1 x l2 sv sent ?]; [by apply server_dispatch_inv|by apply server_finish_inv].
Qed.

Lemma failed_write_inv n st st' : fence_inv n st -> failed_write st st' -> fence_inv n st'.
Proof.
  intros [Hp Hi He Hb Hsent Hfl Ha Hc Hf] Hstep.
  destruct Hstep as [sd en e lane seq fl sv sent]. simpl in *. unfold switch_lane.
  destruct (Z.eqb_spec (async_prefix_stream sd) lane) as [<-|?]; simpl; split; simpl; try done; try lia.
  intros s Hs Hlt. specialize (Hsent s Hs). lia.
Qed.

Lemma fence_steps_inv k st :
  nsteps fence_step_or_fail k initial_fence_sys st -> Z.of_nat k < 2 ^ 64 - 1 ->
  fence_inv (Z.of_nat k) st.
Proof.
  revert st. induction k as [|k IH]; intros st Hsteps Hk.
  - inversion Hsteps. subst. apply fence_inv_init.
  - apply nsteps_inv_r in Hsteps as (st0&Hsteps&Hstep). specialize (IH _ Hsteps ltac:(lia)).
    rewrite Nat2Z.inj_succ, <- Z.add_1_r. destruct Hstep as [[Hc|Hs]|Hf].
    + apply (client_step_inv _ st0); [done|lia|done].
    + apply (fence_inv_weaken (Z.of_nat k)); [|lia]. eapply server_step_inv; [done|lia|done].
    + apply (fence_inv_weaken (Z.of_nat k)); [|lia]. by eapply failed_write_inv.
Qed.

(** * What has ended

    A request is in flight from its write to its end on the server, whatever the server's counters
    say. *)

Definition carried (l : list flight) (s : Z) : Prop := Some s ∈ fl_seq <$> l.

(** Only requests that left the flight count as done, and each sequence flies once. *)
Record ended_inv (st : fence_sys) : Prop := {
  ei_done : forall s, async_done (fs_async st) s -> ~ carried (fs_flight st) s /\ s ∈ fs_sent st;
  ei_sent : forall s, carried (fs_flight st) s -> s ∈ fs_sent st;
  ei_once : NoDup (omap fl_seq (fs_flight st));
}.

Lemma ended_inv_init : ended_inv initial_fence_sys.
Proof.
  split; simpl; [|intros s Hc; by apply not_elem_of_nil in Hc|constructor].
  unfold async_done. simpl. intros s [?|?]; [lia|set_solver].
Qed.

Lemma carried_app l1 l2 s : carried (l1 ++ l2) s <-> carried l1 s \/ carried l2 s.
Proof. unfold carried. by rewrite fmap_app, elem_of_app. Qed.

Lemma carried_cons x l s : carried (x :: l) s <-> fl_seq x = Some s \/ carried l s.
Proof. unfold carried. rewrite fmap_cons, elem_of_cons. by split; intros [?|?]; auto. Qed.

Lemma carried_omap l s : carried l s <-> s ∈ omap fl_seq l.
Proof. unfold carried. rewrite list_elem_of_fmap, list_elem_of_omap. split; intros (y&?&?); eauto. Qed.

Lemma client_end_ended n sd en e lane seq fl sv sent :
  fence_inv n (FenceSys sd en (Some (e, lane, seq)) fl sv sent) ->
  ended_inv (FenceSys sd en (Some (e, lane, seq)) fl sv sent) ->
  ended_inv (FenceSys (note_sent (en_dep e) (switch_lane lane sd)) en None
    (fl ++ [Flight lane seq (fence_of (en_dep e) lane sd) e false]) sv
    (match seq with Some s => {[s]} ∪ sent | None => sent end)).
Proof.
  intros [_ _ _ [_ Hseq] Hsent _ _ _ _] [Hd Hs Ho]. simpl in *.
  assert (forall s, seq = Some s -> s ∉ sent) as Hnew.
  { intros s Hq Hin. destruct (Hseq s Hq). specialize (Hsent s Hin). lia. }
  split; simpl.
  - intros s Hdone. destruct (Hd s Hdone) as [Hn Hin]. rewrite carried_app, carried_cons. split.
    + intros [?|[Hq|Hc]]; [done|by apply (Hnew s)|by apply not_elem_of_nil in Hc].
    + destruct seq; set_solver.
  - intros s. rewrite carried_app, carried_cons. simpl. intros [?|[->|Hc]]; [|set_solver|by apply not_elem_of_nil in Hc].
    destruct seq; set_solver.
  - rewrite omap_app. destruct seq as [s|]; simpl; [|by rewrite app_nil_r].
    apply NoDup_app. split_and!; [done| |apply NoDup_singleton].
    intros s' Hin%carried_omap ->%list_elem_of_singleton. by apply (Hnew s), Hs.
Qed.

Lemma server_finish_ended n sd en bu l1 x l2 sv sent :
  fence_inv n (FenceSys sd en bu (l1 ++ x :: l2) sv sent) -> n < 2 ^ 64 - 1 ->
  ended_inv (FenceSys sd en bu (l1 ++ x :: l2) sv sent) ->
  ended_inv (FenceSys sd en bu (l1 ++ l2) (end_request x sv) sent).
Proof.
  intros [_ Hi _ _ _ Hfl [Hwf _] _ _] Hn [Hd Hs Ho]. simpl in *.
  apply Forall_app in Hfl as [_ [(_&Hseq&_) _]%Forall_cons].
  destruct (end_request_done x sv Hwf) as (_&_&Hdone); [intros s Hq; specialize (Hseq s Hq); lia|].
  setoid_rewrite carried_app in Hd. setoid_rewrite carried_cons in Hd.
  setoid_rewrite carried_app in Hs. setoid_rewrite carried_cons in Hs.
  rewrite omap_app in Ho. simpl in Ho. split; simpl.
  - intros s. rewrite Hdone, carried_app. intros [?|Hq]; [destruct (Hd s); tauto|]. rewrite Hq in Ho.
    split; [|auto]. rewrite !carried_omap, <- elem_of_app. rewrite <- Permutation_middle in Ho. by apply NoDup_cons in Ho as [? _].
  - intros s. rewrite carried_app. intros [?|?]; auto.
  - rewrite omap_app. destruct (fl_seq x); [|done]. rewrite <- Permutation_middle in Ho. by apply NoDup_cons in Ho as [_ ?].
Qed.

Lemma fence_step_ended n st st' :
  fence_inv n st -> n < 2 ^ 64 - 1 -> ended_inv st -> fence_step_or_fail st st' -> ended_inv st'.
Proof.
  intros Hinv Hn He Hstep. destruct Hstep as [[Hc|Hv]|Hf].
  - destruct Hc; [|by destruct He|by eapply client_end_ended]. by destruct He.
  - destruct Hv; [|by eapply server_finish_ended]. destruct He as [Hd Hs Ho]. simpl in *.
    assert (fl_seq <$> (l1 ++ run_flight x :: l2) = fl_seq <$> (l1 ++ x :: l2)) as Hq
      by (by rewrite !fmap_app, !fmap_cons).
    split; simpl; [unfold carried; by rewrite Hq|unfold carried; by rewrite Hq|].
    by rewrite omap_app in *.
  - destruct Hf. by destruct He.
Qed.

Lemma fence_steps_ended k st :
  nsteps fence_step_or_fail k initial_fence_sys st -> Z.of_nat k < 2 ^ 64 - 1 -> ended_inv st.
Proof.
  revert st. induction k as [|k IH]; intros st Hsteps Hk.
  - inversion Hsteps. subst. apply ended_inv_init.
  - apply nsteps_inv_r in Hsteps as (st0&Hsteps&Hstep). specialize (IH _ Hsteps ltac:(lia)).
    eapply (fence_step_ended (Z.of_nat k)); [apply fence_steps_inv; [done|lia]|lia|done..].
Qed.

(** * Progress *)

(** Everything a marker waits for is done or was written earlier. *)
Definition behind (sv : async_state) (before : list flight) (x : flight) : Prop :=
  fl_running x = false -> forall f, fl_fence x = Some f ->
    forall s, 0 <= s < f -> async_done sv s \/ carried before s.

(** When no write fails, published sequences are on their way or done. *)
Record live_inv (st : fence_sys) : Prop := {
  li_issued : match fs_building st with
    | Some (_, _, Some s) => s = published_async_sequence (fs_sender st) /\
        issued_async_sequence (fs_sender st) = published_async_sequence (fs_sender st) + 1
    | _ => issued_async_sequence (fs_sender st) = published_async_sequence (fs_sender st)
    end;
  li_published : forall s, 0 <= s < published_async_sequence (fs_sender st) ->
    async_done (fs_async st) s \/ carried (fs_flight st) s;
  li_behind : each_after (behind (fs_async st)) [] (fs_flight st);
}.

Lemma live_inv_init : live_inv initial_fence_sys.
Proof. split; simpl; [done| |done]. intros s Hs. lia. Qed.

Lemma client_step_live n st st' :
  fence_inv n st -> n < 2 ^ 64 - 1 -> live_inv st -> client_step st st' -> live_inv st'.
Proof.
  intros Hinv Hn [Hi Hpub Hbeh] Hstep. destruct Hstep as [sd en bu fl sv sent
    |sd e1 e e2 fl sv sent lane ar seq sd' Hissue|sd en e lane seq fl sv sent]; simpl in *.
  - by split.
  - destruct Hinv as [Hp Hb]. simpl in Hp, Hb.
    destruct ar; simpl in Hissue; simplify_eq; split; simpl; try done.
    split; [done|]. rewrite wrap64_id; [lia|]. unfold is_u64. lia.
  - destruct Hinv as [Hp His He Hb]. simpl in *.
    destruct (note_sent_spec n sent e lane seq sd Hp His Hn Hb) as (_&Hiss&Hpu&_).
    assert (forall s, 0 <= s < issued_async_sequence sd -> async_done sv s \/
      carried (fl ++ [Flight lane seq (fence_of (en_dep e) lane sd) e false]) s) as Hall.
    { intros s Hs. unfold carried. rewrite fmap_app, elem_of_app. simpl.
      destruct (decide (s < published_async_sequence sd)) as [Hlt|Hge].
      - destruct (Hpub s) as [?|?]; [lia|by left|by right; left].
      - destruct seq as [s0|]; [|lia]. right. right. replace s0 with s by lia. by left. }
    split; simpl; rewrite ?Hpu, ?Hiss; [done|done|].
    apply each_after_app. split; [done|]. split; [|done]. intros _ f Hf s Hs. simpl in Hf.
    unfold fence_of in Hf. case_if_in Hf; [|done]. injection Hf as <-.
    destruct Hb as [[Hd _] _]. apply Hpub. lia.
Qed.

Lemma server_step_live n st st' :
  fence_inv n st -> n < 2 ^ 64 - 1 -> live_inv st -> server_step st st' -> live_inv st'.
Proof.
  intros Hinv Hn [Hi Hpub Hbeh] Hstep.
  destruct Hstep as [sd en bu l1 x l2 sv sent Hr Hl Hw|sd en bu l1 x l2 sv sent Hr]; simpl in *.
  - assert (fl_seq <$> (l1 ++ run_flight x :: l2) = fl_seq <$> (l1 ++ x :: l2)) as Hseq
      by (by rewrite !fmap_app, !fmap_cons).
    split; simpl; [done|unfold carried; by rewrite Hseq|].
    apply each_after_app in Hbeh as [Hb1 [_ Hb2]]. apply each_after_app. split; [done|].
    split; [done|]. eapply each_after_mono; [|exact Hb2].
    intros l' y _ Hbh Hrun f Hf s Hs. destruct (Hbh Hrun f Hf s Hs) as [?|Hc]; [by left|right].
    unfold carried in *. by rewrite !fmap_app in *.
  - destruct Hinv as [_ His _ _ _ Hfl [Hwf _]]. simpl in *.
    apply Forall_app in Hfl as [_ [(_&Hseq&_) _]%Forall_cons].
    destruct (end_request_done x sv Hwf) as (_&_&Hdone).
    { intros s Hs. specialize (Hseq s Hs). lia. }
    assert (forall l' s, async_done sv s \/ carried (l1 ++ x :: l') s ->
      async_done (end_request x sv) s \/ carried (l1 ++ l') s) as Hgo.
    { intros l' s. rewrite Hdone. unfold carried. rewrite !fmap_app, fmap_cons, !elem_of_app,
        elem_of_cons. intros [?|[?|[?|?]]]; auto. }
    split; simpl; [done|intros s Hs; apply Hgo; auto|].
    apply each_after_app in Hbeh as [Hb1 [_ Hb2]]. apply each_after_app. split.
    + eapply each_after_mono; [|exact Hb1]. intros l' y _ Hbh Hrun f Hf s Hs. rewrite Hdone.
      destruct (Hbh Hrun f Hf s Hs) as [?|?]; auto.
    + eapply each_after_mono; [|exact Hb2]. intros l' y _ Hbh Hrun f Hf s Hs. simpl in *.
      specialize (Hbh Hrun f Hf s Hs). rewrite <- app_assoc in Hbh. by apply Hgo.
Qed.

Lemma fence_steps_live k st :
  nsteps fence_step k initial_fence_sys st -> Z.of_nat k < 2 ^ 64 - 1 ->
  fence_inv (Z.of_nat k) st /\ live_inv st.
Proof.
  revert st. induction k as [|k IH]; intros st Hsteps Hk.
  - inversion Hsteps. subst. split; [apply fence_inv_init|apply live_inv_init].
  - apply nsteps_inv_r in Hsteps as (st0&Hsteps&Hstep).
    destruct (IH _ Hsteps ltac:(lia)) as [Hinv Hlive].
    rewrite Nat2Z.inj_succ, <- Z.add_1_r. destruct Hstep as [Hc|Hs].
    + split; [apply (client_step_inv _ st0); [done|lia|done]|].
      eapply (client_step_live (Z.of_nat k)); [done|lia|done|done].
    + split; [apply (fence_inv_weaken (Z.of_nat k)); [|lia]; eapply server_step_inv; [done|lia|done]|].
      eapply (server_step_live (Z.of_nat k)); [done|lia|done|done].
Qed.

(** The oldest request can always move. *)
Lemma oldest_moves n st :
  fence_inv n st -> live_inv st -> fs_flight st <> [] -> exists st', server_step st st'.
Proof.
  intros [_ _ _ _ _ Hfl [Hwf Hcan] _ _] [_ _ Hbeh]. destruct st as [sd en bu fl sv sent]. simpl in *.
  destruct fl as [|x l]; [done|]. intros _.
  destruct (fl_running x) eqn:Hr; [eexists; by apply (server_finish sd en bu [] x l)|].
  eexists. apply (server_dispatch sd en bu [] x l); [done|constructor|].
  apply Forall_cons in Hfl as [(_&_&Hf) _]. destruct Hbeh as [Hb _]. specialize (Hb Hr).
  destruct (fl_fence x) as [f|]; [|done]. specialize (Hb f eq_refl). specialize (Hf f eq_refl).
  destruct (async_prefix_is_first sv Hwf) as [_ Hiff].
  assert (f <= serving_async_sequence sv) as Hle.
  { apply Hiff; [lia|]. intros s Hs. destruct (Hb s Hs) as [?|Hc]; [done|].
    by apply not_elem_of_nil in Hc. }
  simpl. rewrite Hcan. simpl. by rewrite (proj2 (Z.ltb_ge _ _)) by lia.
Qed.

(** Each server step uses up part of the work in flight. *)
Definition work (l : list flight) : nat :=
  sum_list_with (fun x => if fl_running x then 1 else 2)%nat l.

Lemma server_step_work st st' :
  server_step st st' -> S (work (fs_flight st')) = work (fs_flight st).
Proof.
  intros Hstep. destruct Hstep as [sd en bu l1 x l2 sv sent Hr Hl Hw|sd en bu l1 x l2 sv sent Hr];
    unfold work; simpl; rewrite !sum_list_with_app; simpl; rewrite Hr; lia.
Qed.

Lemma server_nsteps_work m st st' :
  nsteps server_step m st st' -> (m + work (fs_flight st') = work (fs_flight st))%nat.
Proof.
  induction 1 as [|m st1 st2 st3 Hstep _ IH]; [done|].
  rewrite <- (server_step_work _ _ Hstep). lia.
Qed.

Lemma server_rtc_inv n st st' :
  fence_inv n st -> live_inv st -> n < 2 ^ 64 - 1 -> rtc server_step st st' ->
  fence_inv n st' /\ live_inv st' /\ fs_sender st' = fs_sender st.
Proof.
  intros Hinv Hlive Hn Hsteps. induction Hsteps as [|st1 st2 st3 Hstep _ IH]; [done|].
  destruct IH as (?&?&Hs); [by eapply server_step_inv|by eapply server_step_live|].
  split_and!; [done..|]. rewrite Hs. by destruct Hstep.
Qed.

(** * Properties *)

(** C1: when a lane of the server may dispatch a request, no fire-and-forget request that had been
    sent when it was entered is in flight any more: each has been dispatched and has ended there,
    whichever threads and lanes are involved, however their builder lock interleaves, with markers
    elided by the lane cache, and even if writes fail in between. *)
Theorem dispatch_after_earlier_async k sd en bu l1 x l2 sv sent :
  nsteps fence_step_or_fail k initial_fence_sys (FenceSys sd en bu (l1 ++ x :: l2) sv sent) ->
  Z.of_nat k < 2 ^ 64 - 1 ->
  fl_running x = false -> Forall (fun y => fl_lane y <> fl_lane x) l1 ->
  fence_wait (fl_fence x) sv = Some 0 ->
  forall s, s ∈ en_before (fl_entry x) ->
    async_done sv s /\ s ∈ sent /\ forall y, y ∈ l1 ++ x :: l2 -> fl_seq y <> Some s.
Proof.
  intros Hsteps Hk Hrun Hhead Hwait s Hs.
  assert (async_done sv s) as Hdone.
  { destruct (fence_steps_inv _ _ Hsteps Hk) as [_ _ _ _ Hsent Hfl [Hwf _] _ Hf]. simpl in *.
    apply Forall_app in Hfl as [_ [(Hent&_&_) _]%Forall_cons]. destruct (proj2 Hent s Hs) as [Hin Hlt].
    apply each_after_app in Hf as [_ [Hfx _]]. specialize (Hsent s Hin).
    destruct (Hfx Hrun s Hin Hlt) as [?|[(y&Hy&Hl&_)|(f&Hfe&Hlf)]]; [done| |eapply fence_wait_done; [done..|lia]].
    rewrite Forall_forall in Hhead. by destruct (Hhead y Hy). }
  destruct (fence_steps_ended _ _ Hsteps Hk) as [Hd _ _]. destruct (Hd s Hdone) as [Hnot Hin].
  split_and!; [done..|]. intros y Hy Hq. apply Hnot. unfold carried. rewrite <- Hq. by apply list_elem_of_fmap_2.
Qed.

(** Lane 1 sends sequence 0; a request on lane 3 entered afterwards carries a
    marker and is dispatched after it ended. *)
Definition ordered_sys : fence_sys :=
  let e := Entry 1 {[0]} in
  FenceSys (AsyncSender 3 1 1 1) [] None ([] ++ [Flight 3 None (Some 1) e false])
    (rpc_async_sequence_end 0 initial_async_state) ({[0]} ∪ ∅).

Lemma ordered_sys_reachable : nsteps fence_step 8 initial_fence_sys ordered_sys.
Proof.
  eapply nsteps_l; [left; apply client_enter|].
  eapply nsteps_l; [left; by eapply (client_start _ [] _ [] _ _ _ 1 true)|].
  eapply nsteps_l; [left; apply client_end|].
  eapply nsteps_l; [left; apply client_enter|].
  eapply nsteps_l; [left; by eapply (client_start _ [] _ [] _ _ _ 3 false)|].
  eapply nsteps_l; [left; apply client_end|].
  eapply nsteps_l; [right; by apply (server_dispatch _ _ _ [])|].
  eapply nsteps_l; [right; by apply (server_finish _ _ _ [])|].
  vm_compute. apply nsteps_O.
Qed.

Lemma fence_steps_weaken k st st' :
  nsteps fence_step k st st' -> nsteps fence_step_or_fail k st st'.
Proof. induction 1; [constructor|]. econstructor; [by left|done]. Qed.

Lemma dispatch_after_earlier_async_witness :
  0 ∈ en_before (Entry 1 {[0]}) /\
  forall y, y ∈ [] ++ [Flight 3 None (Some 1) (Entry 1 {[0]}) false] -> fl_seq y <> Some 0.
Proof.
  split; [set_solver|].
  apply (dispatch_after_earlier_async 8 (AsyncSender 3 1 1 1) [] None []
    (Flight 3 None (Some 1) (Entry 1 {[0]}) false) []
    (rpc_async_sequence_end 0 initial_async_state) ({[0]} ∪ ∅)).
  - exact (fence_steps_weaken _ _ _ ordered_sys_reachable).
  - lia.
  - done.
  - constructor.
  - vm_compute. reflexivity.
  - set_solver.
Defined.

(** C2: the waits cannot deadlock.  As long as no write fails, from every
    reachable state each run of the server's lanes is finite, and it can only
    stop when every request has been dispatched and has ended, and with it every
    published sequence. *)
Theorem fence_waits_drain k st :
  nsteps fence_step k initial_fence_sys st -> Z.of_nat k < 2 ^ 64 - 1 ->
  (forall m st', nsteps server_step m st st' -> (m <= work (fs_flight st))%nat) /\
  (forall st', rtc server_step st st' -> (forall st'', ~ server_step st' st'') ->
     fs_flight st' = [] /\
     forall s, 0 <= s < published_async_sequence (fs_sender st) -> async_done (fs_async st') s).
Proof.
  intros Hsteps Hk. destruct (fence_steps_live _ _ Hsteps Hk) as [Hinv Hlive]. split.
  - intros m st' Hm%server_nsteps_work. lia.
  - intros st' Hrtc Hstuck.
    destruct (server_rtc_inv _ _ _ Hinv Hlive Hk Hrtc) as (Hinv'&Hlive'&Hs).
    assert (fs_flight st' = []) as Hempty.
    { destruct (fs_flight st') eqn:Hfl; [done|exfalso].
      destruct (oldest_moves _ _ Hinv' Hlive') as [st'' Hst]; [by rewrite Hfl|].
      by apply (Hstuck st''). }
    split; [done|]. intros s Hlt. rewrite <- Hs in Hlt.
    destruct (li_published _ Hlive' s Hlt) as [?|Hc]; [done|].
    rewrite Hempty in Hc. by apply not_elem_of_nil in Hc.
Qed.

Lemma fence_waits_drain_witness :
  (forall m st', nsteps server_step m ordered_sys st' -> (m <= work (fs_flight ordered_sys))%nat) /\
  (forall st', rtc server_step ordered_sys st' -> (forall st'', ~ server_step st' st'') ->
     fs_flight st' = [] /\
     forall s, 0 <= s < published_async_sequence (fs_sender ordered_sys) ->
       async_done (fs_async st') s).
Proof.
  apply (fence_waits_drain 8); [apply ordered_sys_reachable|lia].
Defined.

(** A fire-and-forget request whose write fails (the first on lane 1), then a
    request on lane 1 and one on lane 3, of which lane 1's has ended. *)
Definition lost_sys : fence_sys :=
  FenceSys (AsyncSender 3 1 1 1) [] None ([] ++ [Flight 3 None (Some 1) (Entry 1 ∅) false])
    initial_async_state ∅.

(** Without the premise of the previous property the wait can last until the
    connection is cancelled: after a failed write of a fire-and-forget request
    its sequence stays issued, the next successful request publishes it, and a
    later request of another lane carries a marker for a sequence that never
    reaches the server. *)
Theorem lost_sequence_blocks_lane :
  nsteps fence_step_or_fail 11 initial_fence_sys lost_sys /\
  fs_flight lost_sys <> [] /\ forall st', ~ server_step lost_sys st'.
Proof.
  split; [|split; [done|]].
  - eapply nsteps_l; [left; left; apply client_enter|].
    eapply nsteps_l; [left; left; by eapply (client_start _ [] _ [] _ _ _ 1 true)|].
    eapply nsteps_l; [right; apply client_fail|].
    eapply nsteps_l; [left; left; apply client_enter|].
    eapply nsteps_l; [left; left; by eapply (client_start _ [] _ [] _ _ _ 1 false)|].
    eapply nsteps_l; [left; left; apply client_end|].
    eapply nsteps_l; [left; left; apply client_enter|].
    eapply nsteps_l; [left; left; by eapply (client_start _ [] _ [] _ _ _ 3 false)|].
    eapply nsteps_l; [left; left; apply client_end|].
    eapply nsteps_l; [left; right; by apply (server_dispatch _ _ _ [])|].
    eapply nsteps_l; [left; right; by apply (server_finish _ _ _ [])|].
    vm_compute. apply nsteps_O.
  - intros st' Hstep. inversion Hstep as [? ? ? l1 x l2 ? ? Hr Hh Hw Heq|? ? ? l1 x l2 ? ? Hr Heq];
      destruct l1 as [|? [|]]; simplify_eq/=; done.
Qed.
