(* ===== verification/VisibleDevices.v ===== *)
(** [visible_devices.cpp]: which devices [CUDA_VISIBLE_DEVICES] leaves visible
    and in which order.  Text is a list of character codes, as in the C string. *)
From S2P Require Import Prelude.

(** * Text *)

Definition chars (s : string) : list Z :=
  (fun a => Z.of_N (Ascii.N_of_ascii a)) <$> String.list_ascii_of_string s.

Definition ch_tab : Z := 9.
Definition ch_space : Z := 32.
Definition ch_comma : Z := 44.
Definition ch_hyphen : Z := 45.
Definition ch_0 : Z := 48.
Definition ch_9 : Z := 57.

Definition is_blank (c : Z) : bool := (c =? ch_space) || (c =? ch_tab).
Definition is_digit (c : Z) : bool := (ch_0 <=? c) && (c <=? ch_9).

(** [tolower] in the C locale. *)
Definition tolower (c : Z) : Z := if (65 <=? c) && (c <=? 90) then c + 32 else c.

Fixpoint drop_while (P : Z -> bool) (l : list Z) : list Z :=
  match l with
  | [] => []
  | c :: l' => if P c then drop_while P l' else l
  end.

(** From [find_first_not_of] to [find_last_not_of]. *)
Definition trim (l : list Z) : list Z := rev (drop_while is_blank (rev (drop_while is_blank l))).

Definition gpu_prefix : list Z := chars "GPU-".

Fixpoint starts_with (p l : list Z) : bool :=
  match p, l with
  | [], _ => true
  | a :: p', b :: l' => (a =? b) && starts_with p' l'
  | _ :: _, [] => false
  end.

Definition strip_hyphens (l : list Z) : list Z :=
  map tolower (List.filter (fun c => negb (c =? ch_hyphen)) l).

Definition normalize_token (token : list Z) : list Z :=
  let token := trim token in
  let token := if starts_with gpu_prefix token then drop 4 token else token in
  strip_hyphens token.

(** The pieces between commas, as the [find]/[substr] loop visits them. *)
Fixpoint split_commas (text : list Z) : list (list Z) :=
  match text with
  | [] => [[]]
  | c :: text' =>
      if c =? ch_comma then [] :: split_commas text'
      else match split_commas text' with
           | piece :: rest => (c :: piece) :: rest
           | [] => [[c]]
           end
  end.

Definition LONG_MAX : Z := 2 ^ 63 - 1.

Definition digits_value (l : list Z) : Z := fold_left (fun v c => v * 10 + (c - ch_0)) l 0.

(** [strtol] on a string of digits, which saturates. *)
Definition strtol (l : list Z) : Z := Z.min (digits_value l) LONG_MAX.

(** * Selection *)

(** The first device whose readable UUID is this one. *)
Definition find_uuid (uuid_hex : Z -> list Z) (count : Z) (token : list Z) : option Z :=
  List.find (fun i => negb (bool_decide (uuid_hex i = [])) && bool_decide (uuid_hex i = token))
    (seqZ 0 count).

(** What one normalized entry adds. *)
Definition select_token (uuid_hex : Z -> list Z) (count : Z) (token : list Z) : list Z :=
  match token with
  | [] => []
  | _ =>
      if forallb is_digit token then
        let index := strtol token in
        if (0 <=? index) && (index <? count) then [index] else []
      else if (16 <=? length token)%nat then
        match find_uuid uuid_hex count token with Some i => [i] | None => [] end
      else []
  end.

Definition lupine_select_visible_devices (spec : option (list Z)) (count : Z)
    (uuid_hex : Z -> list Z) : list Z :=
  if count <=? 0 then []
  else
    match spec with
    | None => seqZ 0 count
    | Some text =>
        if bool_decide (text = []) || bool_decide (text = chars "-1") then []
        else flat_map (fun piece => select_token uuid_hex count (normalize_token piece))
               (split_commas text)
    end.

(** * Decimal indices *)

(** The decimal digits of a number below [10 ^ n]. *)
Fixpoint decimal_digits (n : nat) (z : Z) (acc : list Z) : list Z :=
  match n with
  | O => acc
  | S n' =>
      if z <? 10 then (ch_0 + z) :: acc
      else decimal_digits n' (z / 10) ((ch_0 + z mod 10) :: acc)
  end.

Definition decimal (z : Z) : list Z := decimal_digits 20 z [].

Fixpoint join_commas (l : list (list Z)) : list Z :=
  match l with
  | [] => []
  | [p] => p
  | p :: l' => p ++ ch_comma :: join_commas l'
  end.

Lemma digits_value_acc l v : fold_left (fun v c => v * 10 + (c - ch_0)) l v =
  v * 10 ^ Z.of_nat (length l) + digits_value l.
Proof.
  unfold digits_value. revert v. induction l as [|c l IH]; intros v; simpl length; simpl fold_left.
  - change (10 ^ Z.of_nat 0) with 1. lia.
  - rewrite (IH (v * 10 + _)), (IH (0 * 10 + _)), Nat2Z.inj_succ, Z.pow_succ_r by lia. lia.
Qed.

Lemma decimal_digits_spec n z acc :
  (0 < n)%nat -> 0 <= z < 10 ^ Z.of_nat n ->
  Forall (fun c => is_digit c = true) acc ->
  Forall (fun c => is_digit c = true) (decimal_digits n z acc) /\
  decimal_digits n z acc <> [] /\
  digits_value (decimal_digits n z acc) = z * 10 ^ Z.of_nat (length acc) + digits_value acc.
Proof.
  assert (forall d, 0 <= d < 10 -> is_digit (ch_0 + d) = true) as Hdigit.
  { intros d Hd. unfold is_digit, ch_0, ch_9. apply andb_true_iff. rewrite !Z.leb_le. lia. }
  assert (forall d l, digits_value (ch_0 + d :: l) = d * 10 ^ Z.of_nat (length l) + digits_value l)
    as Hcons.
  { intros d l. unfold digits_value at 1. simpl fold_left. rewrite digits_value_acc.
    rewrite Z.add_simpl_l. lia. }
  revert z acc. induction n as [|n IH]; intros z acc Hn Hz Hacc; [lia|]. simpl. case_if.
  - split_and!; [constructor; [by apply Hdigit; lia|done]|done|]. apply Hcons.
  - rewrite Nat2Z.inj_succ, Z.pow_succ_r in Hz by lia.
    pose proof (Z.mod_pos_bound z 10 ltac:(lia)). pose proof (Z.div_mod z 10 ltac:(lia)).
    destruct n as [|n]; [simpl in Hz; lia|].
    destruct (IH (z / 10) ((ch_0 + z mod 10) :: acc)) as (HF&Hne&Hv).
    + lia.
    + split; [apply Z.div_pos; lia|]. apply Z.div_lt_upper_bound; lia.
    + constructor; [by apply Hdigit|done].
    + split_and!; [done..|]. rewrite Hv, Hcons. simpl length.
      rewrite Nat2Z.inj_succ, Z.pow_succ_r by lia. nia.
Qed.

Lemma decimal_spec z : 0 <= z < 10 ^ 20 ->
  Forall (fun c => is_digit c = true) (decimal z) /\ decimal z <> [] /\ digits_value (decimal z) = z.
Proof.
  intros Hz. destruct (decimal_digits_spec 20 z []) as (?&?&Hv); [lia|done|constructor|].
  split_and!; [done..|]. unfold decimal. rewrite Hv. simpl length.
  change (10 ^ Z.of_nat 0) with 1. change (digits_value []) with 0. lia.
Qed.

(** A digit is neither blank, comma nor hyphen, and is its own lower case. *)
Lemma digit_plain c : is_digit c = true ->
  is_blank c = false /\ (c =? ch_comma) = false /\ (c =? ch_hyphen) = false /\ tolower c = c.
Proof.
  unfold is_digit, is_blank, tolower, ch_0, ch_9, ch_space, ch_tab, ch_comma, ch_hyphen.
  intros H. breflect. rewrite orb_false_iff, !Z.eqb_neq.
  split_and!; try lia. case_if; lia.
Qed.

Lemma drop_while_head P c l : P c = false -> drop_while P (c :: l) = c :: l.
Proof. simpl. by intros ->. Qed.

Lemma trim_plain l : Forall (fun c => is_blank c = false) l -> trim l = l.
Proof.
  intros Hall. assert (forall l, Forall (fun c => is_blank c = false) l -> drop_while is_blank l = l)
    as Hd by (intros l0 [|c l1 Hc Hl]; [done|by apply drop_while_head]).
  unfold trim. rewrite (Hd l Hall), Hd, rev_involutive; [done|]. by apply Forall_rev.
Qed.

Lemma strip_hyphens_plain l :
  Forall (fun c => (c =? ch_hyphen) = false /\ tolower c = c) l -> strip_hyphens l = l.
Proof.
  unfold strip_hyphens. induction 1 as [|c l [Hc Ht] _ IH]; simpl; [done|].
  rewrite Hc. simpl. by rewrite Ht, IH.
Qed.

Lemma normalize_digits l :
  l <> [] -> Forall (fun c => is_digit c = true) l -> normalize_token l = l.
Proof.
  intros Hne Hall. unfold normalize_token.
  rewrite trim_plain by (eapply Forall_impl; [exact Hall|]; intros c Hc; by apply digit_plain).
  destruct (starts_with gpu_prefix l) eqn:Hp.
  - destruct l as [|c l]; [done|]. apply Forall_cons in Hall as [Hc _].
    change gpu_prefix with [71; 80; 85; 45] in Hp. cbn [starts_with] in Hp.
    apply andb_true_iff in Hp as [<-%Z.eqb_eq _]. done.
  - apply strip_hyphens_plain. eapply Forall_impl; [exact Hall|]. intros c Hc.
    by destruct (digit_plain c Hc) as (_&_&?&?).
Qed.

Lemma split_commas_plain l :
  Forall (fun c => (c =? ch_comma) = false) l -> split_commas l = [l].
Proof. induction 1 as [|c l Hc _ IH]; simpl; [done|]. by rewrite Hc, IH. Qed.

Lemma split_commas_app l text :
  Forall (fun c => (c =? ch_comma) = false) l ->
  split_commas (l ++ ch_comma :: text) = l :: split_commas text.
Proof. induction 1 as [|c l Hc _ IH]; simpl; [done|]. by rewrite Hc, IH. Qed.

Lemma split_join l :
  l <> [] -> Forall (Forall (fun c => (c =? ch_comma) = false)) l ->
  split_commas (join_commas l) = l.
Proof.
  induction l as [|p l IH]; [done|]. intros _ [Hp Hl]%Forall_cons.
  destruct l as [|q l]; simpl; [by apply split_commas_plain|].
  rewrite split_commas_app by done. f_equal. by apply IH.
Qed.

(** * Spellings of a UUID *)

Definition is_hex (c : Z) : bool := is_digit c || ((97 <=? c) && (c <=? 102)).

(** A character of a spelled UUID: a hyphen, or a hexadecimal digit in either
    case; such a character is neither blank nor comma nor a capital G. *)
Lemma spelled_char c :
  c = ch_hyphen \/ is_hex (tolower c) = true ->
  is_blank c = false /\ (c =? ch_comma) = false /\ c <> 71.
Proof.
  unfold is_hex, is_digit, tolower, is_blank, ch_0, ch_9, ch_space, ch_tab, ch_comma, ch_hyphen.
  intros H. rewrite orb_false_iff, !Z.eqb_neq. destruct H as [->|H]; [lia|].
  revert H. case_if; rewrite orb_true_iff, !andb_true_iff, !Z.leb_le; breflect; intros;
    try (destruct E; breflect); lia.
Qed.

Lemma spelled_chars s u :
  strip_hyphens s = u -> forallb is_hex u = true ->
  Forall (fun c => is_blank c = false /\ (c =? ch_comma) = false /\ c <> 71) s.
Proof.
  intros <-. unfold strip_hyphens. induction s as [|c s IH]; [constructor|].
  cbn [List.filter]. destruct (Z.eqb_spec c ch_hyphen) as [Hc|Hc]; cbn [negb map forallb]; intros Hall.
  - constructor; [apply spelled_char; by left|by apply IH].
  - apply andb_true_iff in Hall as [Hh Hall]. constructor; [apply spelled_char; by right|by apply IH].
Qed.

Lemma drop_while_app P l1 l2 :
  Forall (fun c => P c = true) l1 -> drop_while P (l1 ++ l2) = drop_while P l2.
Proof. induction 1 as [|c l Hc _ IH]; simpl; [done|]. by rewrite Hc. Qed.

Lemma trim_padded pre body post :
  Forall (fun c => is_blank c = true) pre -> Forall (fun c => is_blank c = true) post ->
  Forall (fun c => is_blank c = false) body -> body <> [] ->
  trim (pre ++ body ++ post) = body.
Proof.
  intros Hpre Hpost Hbody Hne. unfold trim. rewrite drop_while_app by done.
  assert (forall b p, Forall (fun c => is_blank c = false) b -> b <> [] ->
    drop_while is_blank (b ++ p) = b ++ p) as Hd.
  { intros [|c b] p Hb Hb'; [done|]. apply Forall_cons in Hb as [Hc _]. by apply drop_while_head. }
  rewrite Hd by done. rewrite rev_app_distr, drop_while_app by (by apply Forall_rev).
  rewrite <- (app_nil_r (rev body)), Hd, app_nil_r, rev_involutive; [done|by apply Forall_rev|].
  intros Hr. apply Hne. by rewrite <- (rev_involutive body), Hr.
Qed.

(** Padding, prefix, hyphens and case do not matter. *)
Lemma normalize_spelling pre prefixed s post u :
  Forall (fun c => is_blank c = true) pre -> Forall (fun c => is_blank c = true) post ->
  strip_hyphens s = u -> forallb is_hex u = true -> u <> [] ->
  normalize_token (pre ++ ((if prefixed : bool then gpu_prefix else []) ++ s) ++ post) = u.
Proof.
  intros Hpre Hpost Hs Hhex Hne. pose proof (spelled_chars s u Hs Hhex) as Hch.
  assert (s <> []) as Hsne by (intros ->; by subst u).
  unfold normalize_token. rewrite trim_padded; [|done|done| |].
  - destruct prefixed.
    + change (starts_with gpu_prefix (gpu_prefix ++ s)) with true. by rewrite drop_app_length'.
    + destruct s as [|c s]; [done|]. apply Forall_cons in Hch as [(_&_&Hc) _]. simpl app.
      replace (starts_with gpu_prefix (c :: s)) with false; [done|].
      change gpu_prefix with [71; 80; 85; 45]. cbn [starts_with].
      by rewrite (proj2 (Z.eqb_neq 71 c)) by congruence.
  - apply Forall_app. split; [destruct prefixed; repeat constructor|].
    eapply Forall_impl; [exact Hch|]. by intros c (?&_).
  - by destruct prefixed, s.
Qed.

Lemma find_skip {A} (f : A -> bool) l1 l2 :
  Forall (fun x => f x = false) l1 -> List.find f (l1 ++ l2) = List.find f l2.
Proof. induction 1 as [|x l Hx _ IH]; simpl; [done|]. by rewrite Hx. Qed.

Lemma select_uuid_token uuid_hex count u :
  forallb is_digit u = false -> (16 <= length u)%nat ->
  select_token uuid_hex count u =
    match find_uuid uuid_hex count u with Some i => [i] | None => [] end.
Proof.
  intros Hnd Hlen. unfold select_token. rewrite Hnd, (proj2 (Nat.leb_le 16 _) Hlen).
  by destruct u.
Qed.

(** * Properties *)

(** A list of device indices written in decimal and separated by commas
    selects exactly those devices, in that order, and an unset variable selects
    every device in its own order. *)
Theorem visible_indices_roundtrip (indices : list Z) (count : Z) (uuid_hex : Z -> list Z) :
  indices <> [] -> Forall (fun i => 0 <= i < count) indices -> 0 < count <= INT_MAX ->
  lupine_select_visible_devices (Some (join_commas (decimal <$> indices))) count uuid_hex = indices /\
  lupine_select_visible_devices None count uuid_hex = seqZ 0 count.
Proof.
  unfold INT_MAX. intros Hne Hall Hcount. unfold lupine_select_visible_devices.
  rewrite (proj2 (Z.leb_gt count 0)) by lia. split; [|done].
  assert (Forall (fun i => Forall (fun c => is_digit c = true) (decimal i) /\ decimal i <> [] /\
    digits_value (decimal i) = i /\ i < count /\ 0 <= i) indices) as Hdec.
  { eapply Forall_impl; [exact Hall|]. simpl. intros i Hi.
    destruct (decimal_spec i) as (?&?&?); [lia|]. split_and!; (done || lia). }
  destruct indices as [|i0 rest]; [done|]. pose proof Hdec as [(Hd0&Hn0&_) _]%Forall_cons.
  assert (exists c t, join_commas (decimal <$> i0 :: rest) = c :: t /\ is_digit c = true)
    as (c&t&Htext&Hc).
  { rewrite fmap_cons. destruct (decimal i0) as [|c d]; [done|].
    apply Forall_cons in Hd0 as [Hc _]. destruct (decimal <$> rest) as [|q l]; [by exists c, d|].
    eexists c, _. split; [simpl; reflexivity|done]. }
  rewrite bool_decide_eq_false_2 by (by rewrite Htext).
  rewrite bool_decide_eq_false_2 by (rewrite Htext; intros [= -> ->]; done). simpl orb. cbv iota.
  rewrite split_join; [|done|].
  - clear Htext Hc Hd0 Hn0 Hne Hall. set (l := i0 :: rest) in *. clearbody l.
    induction Hdec as [|i l (Hd&Hn&Hv&Hi&Hi0) _ IH]; [done|].
    rewrite fmap_cons. cbn [flat_map]. rewrite IH, normalize_digits by done. unfold select_token.
    destruct (decimal i) as [|c0 d] eqn:Hdi; [done|]. rewrite <- Hdi in *.
    replace (forallb is_digit (decimal i)) with true
      by (symmetry; apply forallb_forall; intros x Hx; rewrite Forall_forall in Hd;
          by apply Hd, list_elem_of_In).
    unfold strtol. rewrite Hv. unfold LONG_MAX. rewrite Z.min_l by lia.
    rewrite (proj2 (Z.leb_le 0 i)), (proj2 (Z.ltb_lt i count)) by lia. done.
  - rewrite Forall_fmap. eapply Forall_impl; [exact Hdec|]. simpl. intros i (Hd&_).
    eapply Forall_impl; [exact Hd|]. intros c' Hc'. by apply digit_plain.
Qed.

Lemma visible_indices_roundtrip_witness :
  lupine_select_visible_devices (Some (join_commas (decimal <$> [3; 11; 0]))) 12 (fun _ => []) = [3; 11; 0] /\
  lupine_select_visible_devices None 12 (fun _ => []) = seqZ 0 12.
Proof.
  apply (visible_indices_roundtrip [3; 11; 0] 12 (fun _ => []));
    [done|repeat constructor; lia|unfold INT_MAX; lia].
Defined.

(** A device named by its UUID is found however the UUID is spelled: with or
    without the GPU prefix, with hyphens anywhere, in either case and padded with
    blanks; a device whose UUID cannot be read never matches. *)
Theorem visible_uuid_spelling (u s pre post : list Z) (prefixed : bool) (count i : Z)
    (uuid_hex : Z -> list Z) :
  let text := pre ++ ((if prefixed then gpu_prefix else []) ++ s) ++ post in
  Forall (fun c => is_blank c = true) pre -> Forall (fun c => is_blank c = true) post ->
  strip_hyphens s = u -> forallb is_hex u = true -> forallb is_digit u = false ->
  (16 <= length u)%nat -> 0 <= i < count -> uuid_hex i = u ->
  (forall j, 0 <= j < i -> uuid_hex j <> u) ->
  lupine_select_visible_devices (Some text) count uuid_hex = [i].
Proof.
  intros text Hpre Hpost Hs Hhex Hnd Hlen Hi Hu Hfirst.
  assert (u <> []) as Hne by (by destruct u; [simpl in Hlen; lia|]).
  pose proof (normalize_spelling pre prefixed s post u Hpre Hpost Hs Hhex Hne) as Hnorm.
  fold text in Hnorm. unfold lupine_select_visible_devices.
  rewrite (proj2 (Z.leb_gt count 0)) by lia.
  assert (text <> []) as Htne by (intros Ht; rewrite Ht in Hnorm; by subst u).
  assert (text <> chars "-1") as Htm.
  { intros Ht. rewrite Ht in Hnorm. change (normalize_token (chars "-1")) with [49] in Hnorm.
    rewrite <- Hnorm in Hlen. simpl in Hlen. lia. }
  rewrite !bool_decide_eq_false_2 by done. simpl orb. cbv iota.
  rewrite split_commas_plain.
  - simpl. rewrite app_nil_r, Hnorm, select_uuid_token by done. unfold find_uuid.
    replace (seqZ 0 count) with (seqZ 0 i ++ i :: seqZ (i + 1) (count - i - 1)).
    + rewrite find_skip.
      * simpl. rewrite bool_decide_eq_false_2, bool_decide_eq_true_2; [done|done|]. by rewrite Hu.
      * apply Forall_forall. intros j Hj%elem_of_seqZ.
        rewrite (bool_decide_eq_false_2 (uuid_hex j = u)) by (apply Hfirst; lia).
        apply andb_false_r.
    + replace (i :: seqZ (i + 1) (count - i - 1)) with (seqZ i (count - i)).
      * replace (seqZ 0 count) with (seqZ 0 (i + (count - i))) by (f_equal; lia).
        rewrite seqZ_app by lia. by rewrite Z.add_0_l.
      * rewrite seqZ_cons by lia. f_equal; f_equal; lia.
  - pose proof (spelled_chars s u Hs Hhex) as Hch.
    assert (forall l, Forall (fun c => is_blank c = true) l ->
      Forall (fun c => (c =? ch_comma) = false) l) as Hbl.
    { intros l Hl. eapply Forall_impl; [exact Hl|]. intros c Hc. unfold is_blank, ch_comma in *.
      apply Z.eqb_neq. intros ->. done. }
    apply Forall_app. split; [by apply Hbl|]. apply Forall_app. split; [|by apply Hbl].
    apply Forall_app. split; [destruct prefixed; repeat constructor|].
    eapply Forall_impl; [exact Hch|]. by intros c (_&?&_).
Qed.

(** Device 2 of a fleet whose identifiers differ in the last digit, spelled in
    capitals with hyphens. *)
Definition sample_uuid (i : Z) : list Z := replicate 31 97 ++ [ch_0 + i].

Lemma visible_uuid_spelling_witness :
  lupine_select_visible_devices
    (Some ([ch_space] ++ (gpu_prefix ++
       (replicate 8 65 ++ [ch_hyphen] ++ replicate 23 65 ++ [ch_0 + 2])) ++ [ch_tab])) 4 sample_uuid
  = [2].
Proof.
  apply (visible_uuid_spelling (sample_uuid 2) (replicate 8 65 ++ [ch_hyphen] ++ replicate 23 65 ++ [ch_0 + 2])
    [ch_space] [ch_tab] true 4 2 sample_uuid).
  - by repeat constructor.
  - by repeat constructor.
  - reflexivity.
  - reflexivity.
  - reflexivity.
  - apply Nat.leb_le. reflexivity.
  - lia.
  - reflexivity.
  - intros j Hj. unfold sample_uuid. intros Heq. apply app_inj_tail in Heq as [_ Heq].
    unfold ch_0 in Heq. lia.
Defined.

(** Every selected index is an index of the device list, so narrowing the
    device table never reads outside it. *)
Theorem visible_in_range spec count uuid_hex :
  Forall (fun i => 0 <= i < count) (lupine_select_visible_devices spec count uuid_hex).
Proof.
  unfold lupine_select_visible_devices. case_if; [apply Forall_nil_2|].
  destruct spec as [text|].
  - case_if; [apply Forall_nil_2|]. apply Forall_flat_map, Forall_forall. intros piece _.
    unfold select_token. destruct (normalize_token piece) as [|c t]; [constructor|].
    repeat case_if; [by constructor; [lia|]|apply Forall_nil_2| |apply Forall_nil_2].
    unfold find_uuid. destruct (List.find _ _) as [i|] eqn:Hf; [|constructor].
    apply List.find_some in Hf as [Hin%list_elem_of_In%elem_of_seqZ _]. constructor; [lia|constructor].
  - apply Forall_forall. intros i Hi%elem_of_seqZ. lia.
Qed.

(** The hyphen that UUIDs may carry is also dropped from a number, so an
    entry that names no device can select one: "0,-1" selects devices 0 and 1,
    and a padded "-1" selects device 1, although "-1" by itself selects nothing. *)
Theorem minus_one_entry_selects_device uuid_hex :
  lupine_select_visible_devices (Some (chars "0,-1")) 4 uuid_hex = [0; 1] /\
  lupine_select_visible_devices (Some (chars " -1")) 4 uuid_hex = [1] /\
  lupine_select_visible_devices (Some (chars "-1")) 4 uuid_hex = [].
Proof. vm_compute. auto. Qed.
