(* ===== verification/FatbinFilter.v ===== *)
(** [fatbin_filter.h] over the layout of [lupine_fatbin.h]: dropping the members
    of a fat binary that no device of the destination server can use. *)
From S2P Require Import Prelude.

(** * Layout *)

Definition LUPINE_FATBIN_MAGIC : Z := 0xba55ed50.
Definition LUPINE_FATBIN_VERSION : Z := 1.
Definition LUPINE_FATBIN_ENTRY_VERSION : Z := 0x0101.
Definition LUPINE_FATBIN_ENTRY_PTX : Z := 1.
Definition LUPINE_FATBIN_ENTRY_CUBIN : Z := 2.

(** A little-endian field of [n] bytes at [off]. *)
Definition field (bs : list byte) (off n : nat) : Z := le_val (take n (drop off bs)).

Record lupine_fatbin_header := FatbinHeader {
  h_magic : Z;
  h_version : Z;
  h_header_size : Z;
  h_files_size : Z;
}.

Definition header_bytes : nat := 16.

Definition read_header (bs : list byte) : lupine_fatbin_header :=
  FatbinHeader (field bs 0 4) (field bs 4 2) (field bs 6 2) (field bs 8 8).

Definition write_header (h : lupine_fatbin_header) : list byte :=
  le_bytes 4 (h_magic h) ++ le_bytes 2 (h_version h) ++ le_bytes 2 (h_header_size h) ++
  le_bytes 8 (h_files_size h).

(** The fields of an entry that the filter reads. *)
Record lupine_fatbin_entry := FatbinEntry {
  e_kind : Z;
  e_version : Z;
  e_header_size : Z;
  e_payload_size : Z;
  e_arch : Z;
}.

Definition entry_bytes : nat := 32.

Definition read_entry (bs : list byte) : lupine_fatbin_entry :=
  FatbinEntry (field bs 0 2) (field bs 2 2) (field bs 4 4) (field bs 8 8) (field bs 28 4).

(** * The filter *)

Definition serves (e : lupine_fatbin_entry) (device : Z) : bool :=
  if e_kind e =? LUPINE_FATBIN_ENTRY_PTX then e_arch e <=? device
  else (e_arch e / 10 =? device / 10) && (e_arch e <=? device).

Definition keeps (devices : list Z) (e : lupine_fatbin_entry) : bool := existsb (serves e) devices.

Definition entry_valid (e : lupine_fatbin_entry) (left : Z) : bool :=
  negb (negb (e_version e =? LUPINE_FATBIN_ENTRY_VERSION)
        || (e_header_size e <? Z.of_nat entry_bytes) || (left <? e_header_size e)
        || (left - e_header_size e <? e_payload_size e) || (e_arch e =? 0)
        || (negb (e_kind e =? LUPINE_FATBIN_ENTRY_CUBIN)
            && negb (e_kind e =? LUPINE_FATBIN_ENTRY_PTX))).

(** The member loop from offset [pos]: the kept spans.  Every member advances by
    at least 32 bytes, so the image's length is enough fuel. *)
Fixpoint walk (fuel : nat) (image : list byte) (devices : list Z) (pos : Z) : option (list (Z * Z)) :=
  let size := Z.of_nat (length image) in
  if negb (pos <? size) then Some []
  else
    match fuel with
    | O => None
    | S fuel' =>
        if size - pos <? Z.of_nat entry_bytes then None
        else
          let e := read_entry (drop (Z.to_nat pos) image) in
          if negb (entry_valid e (size - pos)) then None
          else
            let len := wrap64 (e_header_size e + e_payload_size e) in
            match walk fuel' image devices (pos + len) with
            | None => None
            | Some kept => Some (if keeps devices e then (pos, len) :: kept else kept)
            end
    end.

Definition span_bytes (image : list byte) (s : Z * Z) : list byte :=
  take (Z.to_nat s.2) (drop (Z.to_nat s.1) image).

(** The empty result means that the image is forwarded unchanged. *)
Definition lupine_filter_fatbin (image : option (list byte)) (devices : list Z) : list byte :=
  match image with
  | None => []
  | Some image =>
      let size := Z.of_nat (length image) in
      if (size <? Z.of_nat header_bytes) || bool_decide (devices = []) || bool_decide (0 ∈ devices)
      then []
      else
        let header := read_header image in
        if negb (h_magic header =? LUPINE_FATBIN_MAGIC)
           || negb (h_version header =? LUPINE_FATBIN_VERSION)
           || negb (h_header_size header =? Z.of_nat header_bytes)
           || negb (h_files_size header =? size - Z.of_nat header_bytes)
        then []
        else
          match walk (length image) image devices (Z.of_nat header_bytes) with
          | None => []
          | Some kept =>
              let selected_size :=
                fold_left (fun n s => wrap64 (n + s.2)) kept (Z.of_nat header_bytes) in
              if bool_decide (kept = []) || (selected_size =? size) then []
              else
                write_header (FatbinHeader (h_magic header) (h_version header)
                  (h_header_size header) (wrap64 (selected_size - Z.of_nat header_bytes)))
                ++ concat (span_bytes image <$> kept)
          end
  end.

(** * A fat binary as its members *)

(** One member: an entry header and its payload, together. *)
Definition member_ok (m : list byte) : Prop :=
  (entry_bytes <= length m)%nat /\
  Z.of_nat (length m) = e_header_size (read_entry m) + e_payload_size (read_entry m) /\
  Z.of_nat entry_bytes <= e_header_size (read_entry m) /\ 0 <= e_payload_size (read_entry m) /\
  e_version (read_entry m) = LUPINE_FATBIN_ENTRY_VERSION /\ e_arch (read_entry m) <> 0 /\
  (e_kind (read_entry m) = LUPINE_FATBIN_ENTRY_CUBIN \/
   e_kind (read_entry m) = LUPINE_FATBIN_ENTRY_PTX).

Definition fatbin (members : list (list byte)) : list byte :=
  write_header (FatbinHeader LUPINE_FATBIN_MAGIC LUPINE_FATBIN_VERSION (Z.of_nat header_bytes)
    (Z.of_nat (length (concat members)))) ++ concat members.

Definition kept_members (devices : list Z) (members : list (list byte)) : list (list byte) :=
  List.filter (fun m => keeps devices (read_entry m)) members.

Lemma length_write_header h : length (write_header h) = header_bytes.
Proof. unfold write_header. by rewrite !length_app, !length_le_bytes. Qed.

Lemma field_app m rest off n : (off + n <= length m)%nat -> field (m ++ rest) off n = field m off n.
Proof.
  intros Hlen. unfold field. rewrite drop_app_le by lia.
  rewrite take_app_le; [done|]. rewrite length_drop. lia.
Qed.

Lemma read_entry_app m rest : (entry_bytes <= length m)%nat -> read_entry (m ++ rest) = read_entry m.
Proof.
  unfold entry_bytes. intros Hlen. unfold read_entry. by rewrite !field_app by lia.
Qed.

Lemma field_at a b c n : length b = n -> field (a ++ b ++ c) (length a) n = le_val b.
Proof. intros <-. unfold field. by rewrite drop_app_length, take_app_length. Qed.

Lemma read_write_header h rest :
  0 <= h_magic h < 2 ^ 32 -> 0 <= h_version h < 2 ^ 16 -> 0 <= h_header_size h < 2 ^ 16 ->
  is_u64 (h_files_size h) -> read_header (write_header h ++ rest) = h.
Proof.
  intros Hm Hv Hh Hf. destruct h as [m v hs fs]. simpl in Hm, Hv, Hh, Hf.
  unfold read_header, write_header. cbn [h_magic h_version h_header_size h_files_size]. f_equal.
  - unfold field. rewrite drop_0, <- app_assoc, take_app_length' by (by rewrite length_le_bytes).
    rewrite le_val_bytes. by apply Z.mod_small.
  - rewrite <- !app_assoc. replace 4%nat with (length (le_bytes 4 m)) at 2 by apply length_le_bytes.
    rewrite field_at by (by rewrite length_le_bytes). rewrite le_val_bytes. by apply Z.mod_small.
  - rewrite <- !app_assoc, (app_assoc (le_bytes 4 m)).
    replace 6%nat with (length (le_bytes 4 m ++ le_bytes 2 v)) by (by rewrite length_app, !length_le_bytes).
    rewrite field_at by (by rewrite length_le_bytes). rewrite le_val_bytes. by apply Z.mod_small.
  - rewrite <- !app_assoc, (app_assoc (le_bytes 4 m)), (app_assoc (_ ++ _) (le_bytes 2 hs)).
    replace 8%nat with (length ((le_bytes 4 m ++ le_bytes 2 v) ++ le_bytes 2 hs)) at 2
      by (by rewrite !length_app, !length_le_bytes).
    rewrite field_at by (by rewrite length_le_bytes). rewrite le_val_bytes. by apply Z.mod_small.
Qed.

(** * The walk *)

Lemma member_valid m rest :
  member_ok m -> entry_valid (read_entry m) (Z.of_nat (length (m ++ rest))) = true.
Proof.
  intros (Hl&Hsum&Hh&Hp&Hv&Ha&Hk). unfold entry_valid. rewrite length_app.
  apply negb_true_iff. rewrite !orb_false_iff, negb_false_iff, Z.eqb_eq, !Z.ltb_ge, Z.eqb_neq,
    andb_false_iff, !negb_false_iff, !Z.eqb_eq. split_and!; try done; lia.
Qed.

Lemma walk_members devices members pre image fuel :
  Forall member_ok members -> image = pre ++ concat members ->
  Z.of_nat (length image) < 2 ^ 64 -> (length members <= fuel)%nat ->
  exists kept, walk fuel image devices (Z.of_nat (length pre)) = Some kept /\
    span_bytes image <$> kept = kept_members devices members /\
    kept.*2 = (fun m => Z.of_nat (length m)) <$> kept_members devices members.
Proof.
  intros Hok. revert pre fuel.
  induction Hok as [|m members Hm _ IH]; intros pre fuel Himg Hsize Hfuel.
  - exists []. split_and!; [|done..]. rewrite Himg. cbn [concat]. rewrite app_nil_r.
    destruct fuel; cbn [walk]; by rewrite (proj2 (Z.ltb_ge _ _)) by lia.
  - destruct fuel as [|fuel]; [simpl in Hfuel; lia|]. cbn [concat] in Himg.
    pose proof Hm as (Hl&Hsum&Hh&Hp&_). unfold entry_bytes in Hl, Hh.
    assert (length image = length pre + length m + length (concat members))%nat as Hlen
      by (rewrite Himg, !length_app; lia).
    destruct (IH (pre ++ m) fuel) as (kept&Hwalk&Hbytes&Hlens);
      [by rewrite <- app_assoc|done|simpl in Hfuel; lia|].
    cbn [walk]. rewrite (proj2 (Z.ltb_lt _ _)) by lia.
    rewrite (proj2 (Z.ltb_ge _ _)) by (unfold entry_bytes; lia). cbn [negb].
    assert (drop (length pre) image = m ++ concat members) as Hdrop
      by (rewrite Himg; apply drop_app_length).
    rewrite Nat2Z.id, Hdrop, read_entry_app by done.
    replace (Z.of_nat (length image) - Z.of_nat (length pre))
      with (Z.of_nat (length (m ++ concat members))) by (rewrite length_app; lia).
    rewrite member_valid by done. cbn [negb].
    rewrite wrap64_id, <- Hsum by (unfold is_u64; lia).
    rewrite length_app, Nat2Z.inj_add in Hwalk. rewrite Hwalk.
    exists (if keeps devices (read_entry m)
            then (Z.of_nat (length pre), Z.of_nat (length m)) :: kept else kept).
    split; [done|].
    unfold kept_members. cbn [List.filter]. fold (kept_members devices members).
    destruct (keeps devices (read_entry m)); [|done]. rewrite !fmap_cons.
    split; f_equal; try done. unfold span_bytes. cbn [fst snd]. rewrite !Nat2Z.id, Hdrop.
    by rewrite take_app_length.
Qed.

Lemma sum_nonneg (l : list Z) : Forall (fun x => 0 <= x) l -> 0 <= foldr Z.add 0 l.
Proof. induction 1; simpl; lia. Qed.

Lemma sum_spans l n :
  Forall (fun x => 0 <= x) l.*2 -> 0 <= n -> n + foldr Z.add 0 l.*2 < 2 ^ 64 ->
  fold_left (fun n (s : Z * Z) => wrap64 (n + s.2)) l n = n + foldr Z.add 0 l.*2.
Proof.
  revert n. induction l as [|s l IH]; intros n Hall Hn Hb; [cbn; lia|].
  rewrite fmap_cons in *. cbn [foldr fold_left] in *.
  apply Forall_cons in Hall as [Hs Hall].
  pose proof (sum_nonneg _ Hall).
  rewrite wrap64_id by (unfold is_u64; lia). rewrite IH by (done || lia). lia.
Qed.

Lemma length_concat_sum (l : list (list Z)) :
  foldr Z.add 0 ((fun m => Z.of_nat (length m)) <$> l) = Z.of_nat (length (concat l)).
Proof.
  induction l as [|m l IH]; [done|]. rewrite fmap_cons. cbn [foldr concat]. rewrite IH, length_app. lia.
Qed.

Lemma kept_members_length devices members :
  (length (concat (kept_members devices members)) <= length (concat members))%nat.
Proof.
  induction members as [|m members IH]; [done|]. unfold kept_members. cbn [List.filter concat].
  fold (kept_members devices members). destruct (keeps devices (read_entry m)); cbn [concat];
    rewrite ?length_app; lia.
Qed.

(** Dropping any member makes the binary shorter. *)
Lemma kept_members_all devices members :
  Forall member_ok members ->
  length (concat (kept_members devices members)) = length (concat members) ->
  kept_members devices members = members.
Proof.
  induction 1 as [|m members Hm _ IH]; [done|]. unfold kept_members. cbn [List.filter concat].
  fold (kept_members devices members). pose proof (kept_members_length devices members).
  destruct Hm as [Hl _]. unfold entry_bytes in Hl.
  destruct (keeps devices (read_entry m)); cbn [concat]; rewrite ?length_app; intros Heq.
  - f_equal. apply IH. lia.
  - lia.
Qed.

Lemma length_fatbin members :
  Z.of_nat (length (fatbin members)) = Z.of_nat header_bytes + Z.of_nat (length (concat members)).
Proof. unfold fatbin. rewrite length_app, length_write_header. lia. Qed.

Lemma members_fuel members : Forall member_ok members -> (length members <= length (concat members))%nat.
Proof.
  induction 1 as [|m members [Hl _] _ IH]; [done|]. cbn [concat length]. rewrite length_app.
  unfold entry_bytes in Hl. lia.
Qed.

Lemma filter_fatbin_members devices members :
  Forall member_ok members -> devices <> [] -> 0 ∉ devices ->
  Z.of_nat (length (concat members)) < 2 ^ 63 ->
  lupine_filter_fatbin (Some (fatbin members)) devices =
    let kept := kept_members devices members in
    if bool_decide (kept = []) || bool_decide (kept = members) then [] else fatbin kept.
Proof.
  intros Hok Hdev Hzero Hsize. unfold lupine_filter_fatbin.
  pose proof (length_fatbin members) as Hlen.
  set (h := FatbinHeader LUPINE_FATBIN_MAGIC LUPINE_FATBIN_VERSION (Z.of_nat header_bytes)
    (Z.of_nat (length (concat members)))).
  assert (read_header (fatbin members) = h) as Hh.
  { unfold fatbin. fold h. apply read_write_header; unfold h; cbn; unfold is_u64; try done; lia. }
  rewrite Hh. rewrite (proj2 (Z.ltb_ge _ _)) by lia.
  rewrite (bool_decide_eq_false_2 (devices = [])), (bool_decide_eq_false_2 (0 ∈ devices)) by done.
  cbn [orb]. unfold h at 1 2 3 4. cbn [h_magic h_version h_header_size h_files_size].
  rewrite !Z.eqb_refl. replace (Z.of_nat (length (concat members)) =?
    Z.of_nat (length (fatbin members)) - Z.of_nat header_bytes) with true
    by (symmetry; apply Z.eqb_eq; lia).
  cbn [negb orb].
  destruct (walk_members devices members (write_header h) (fatbin members) (length (fatbin members)))
    as (kept&Hwalk&Hbytes&Hlens); [done|done|unfold header_bytes in *; lia| |].
  { pose proof (members_fuel members Hok). lia. }
  rewrite length_write_header in Hwalk. rewrite Hwalk.
  pose proof (kept_members_length devices members) as Hkl.
  rewrite sum_spans.
  2: { rewrite Hlens. apply Forall_fmap, Forall_forall. intros m _. simpl. lia. }
  2: { unfold header_bytes. lia. }
  2: { rewrite Hlens, length_concat_sum. unfold header_bytes. lia. }
  rewrite Hlens, length_concat_sum, Hlen. cbv zeta.
  replace (bool_decide (kept = [])) with (bool_decide (kept_members devices members = [])).
  2: { apply bool_decide_ext. rewrite <- Hbytes. split; [by intros ?%fmap_nil_inv|by intros ->]. }
  replace (Z.of_nat header_bytes + Z.of_nat (length (concat (kept_members devices members))) =?
    Z.of_nat header_bytes + Z.of_nat (length (concat members)))
    with (bool_decide (kept_members devices members = members)).
  2: { apply Bool.eq_iff_eq_true. rewrite bool_decide_eq_true, Z.eqb_eq. split; [by intros ->|].
       intros Heq. apply kept_members_all; [done|lia]. }
  case_if; [done|]. rewrite Hbytes. unfold fatbin. do 2 f_equal.
  rewrite Z.add_simpl_l, wrap64_id by (unfold is_u64; lia). done.
Qed.

(** * Malformed images *)

Lemma field_range bs off n :
  Forall is_byte bs -> (off + n <= length bs)%nat -> 0 <= field bs off n < 256 ^ Z.of_nat n.
Proof.
  intros Hb Hlen. unfold field.
  assert (Forall is_byte (take n (drop off bs))) as Hf by (by apply Forall_take, Forall_drop).
  pose proof (le_val_range _ Hf) as Hr. by rewrite length_take, length_drop, Nat.min_l in Hr by lia.
Qed.

(** Where the walk succeeds, the rest of the image is a sequence of members. *)
Lemma walk_inv fuel image devices pos kept :
  Forall is_byte image -> 0 <= pos <= Z.of_nat (length image) -> Z.of_nat (length image) < 2 ^ 64 ->
  walk fuel image devices pos = Some kept ->
  exists members, drop (Z.to_nat pos) image = concat members /\ Forall member_ok members.
Proof.
  intros Hb. revert pos kept. induction fuel as [|fuel IH]; intros pos kept Hpos Hsize; cbn [walk].
  - destruct (Z.ltb_spec pos (Z.of_nat (length image))); [done|]. intros _. exists [].
    split; [|constructor]. apply drop_ge. lia.
  - destruct (Z.ltb_spec pos (Z.of_nat (length image))) as [Hlt|Hge]; cbn [negb].
    2: { intros _. exists []. split; [|constructor]. apply drop_ge. lia. }
    set (rest := drop (Z.to_nat pos) image).
    assert (Z.of_nat (length rest) = Z.of_nat (length image) - pos) as Hrl
      by (unfold rest; rewrite length_drop; lia).
    assert (Forall is_byte rest) as Hrb by (by apply Forall_drop).
    destruct (Z.ltb_spec (Z.of_nat (length image) - pos) (Z.of_nat entry_bytes)) as [|Hent]; [done|].
    unfold entry_bytes in Hent.
    destruct (entry_valid (read_entry rest) (Z.of_nat (length image) - pos)) eqn:Hvalid; [|done].
    cbn [negb]. unfold entry_valid in Hvalid. apply negb_true_iff in Hvalid.
    rewrite !orb_false_iff, negb_false_iff, Z.eqb_eq, !Z.ltb_ge, Z.eqb_neq, andb_false_iff,
      !negb_false_iff, !Z.eqb_eq in Hvalid. destruct Hvalid as [[[[[Hv Hh] Hhl] Hpl] Ha] Hk].
    assert (0 <= e_payload_size (read_entry rest)) as Hp.
    { destruct (field_range rest 8 8) as [Hp _]; [done|lia|]. exact Hp. }
    set (len := e_header_size (read_entry rest) + e_payload_size (read_entry rest)) in *.
    unfold entry_bytes in Hh. rewrite wrap64_id by (unfold is_u64; lia).
    destruct (walk fuel image devices (pos + len)) as [kept'|] eqn:Hwalk; [|done]. intros _.
    destruct (IH (pos + len) kept') as (members&Hrest&Hok); [lia|done|done|].
    set (m := take (Z.to_nat len) rest).
    assert (length m = Z.to_nat len) as Hml by (unfold m; rewrite length_take; lia).
    assert (rest = m ++ concat members) as Hsplit.
    { rewrite <- Hrest. unfold m. rewrite <- (take_drop (Z.to_nat len) rest) at 1. f_equal.
      unfold rest. rewrite drop_drop. f_equal. lia. }
    exists (m :: members). split; [exact Hsplit|]. constructor; [|done].
    assert (read_entry rest = read_entry m) as Hre.
    { rewrite Hsplit. apply read_entry_app. unfold entry_bytes. lia. }
    unfold member_ok. rewrite <- Hre. unfold entry_bytes. split_and!; try done; lia.
Qed.

Lemma field_bytes bs off n v :
  Forall is_byte bs -> (off + n <= length bs)%nat -> field bs off n = v ->
  take n (drop off bs) = le_bytes n v.
Proof.
  intros Hb Hlen <-. unfold field.
  assert (length (take n (drop off bs)) = n) as Hl by (rewrite length_take, length_drop; lia).
  assert (Forall is_byte (take n (drop off bs))) as Hf by (by apply Forall_take, Forall_drop).
  pose proof (le_bytes_val _ Hf) as Hv. by rewrite Hl in Hv.
Qed.

(** Sixteen bytes are their four fields. *)
Lemma take_drop_at (bs : list Z) k n : take n (drop k bs) ++ drop (k + n) bs = drop k bs.
Proof. rewrite <- (take_drop n (drop k bs)) at 2. by rewrite drop_drop. Qed.

Lemma header_split (bs : list Z) :
  take 4 (drop 0 bs) ++ take 2 (drop 4 bs) ++ take 2 (drop 6 bs) ++ take 8 (drop 8 bs) ++ drop 16 bs = bs.
Proof.
  change 16%nat with (8 + 8)%nat. rewrite (take_drop_at bs 8 8).
  change 8%nat with (6 + 2)%nat at 1. rewrite (take_drop_at bs 6 2).
  change 6%nat with (4 + 2)%nat at 1. rewrite (take_drop_at bs 4 2).
  change 4%nat with (0 + 4)%nat at 2. apply (take_drop_at bs 0 4).
Qed.

Lemma filter_fatbin_wellformed image devices :
  Forall is_byte image -> Z.of_nat (length image) < 2 ^ 64 ->
  lupine_filter_fatbin (Some image) devices <> [] ->
  exists members, image = fatbin members /\ Forall member_ok members.
Proof.
  intros Hb Hsize. unfold lupine_filter_fatbin.
  destruct (Z.ltb_spec (Z.of_nat (length image)) (Z.of_nat header_bytes)) as [|Hlen]; [done|].
  unfold header_bytes in Hlen. destruct (false || _ || _); [done|].
  match goal with |- context [if ?b then _ else _] => destruct b eqn:E end; [done|].
  rewrite !orb_false_iff, !negb_false_iff, !Z.eqb_eq in E.
  destruct E as [[[Hm Hv] Hh] Hf]. cbn [h_magic h_version h_header_size h_files_size read_header]
    in Hm, Hv, Hh, Hf.
  destruct (walk (length image) image devices (Z.of_nat header_bytes)) as [kept|] eqn:Hwalk; [|done].
  intros _. destruct (walk_inv (length image) image devices (Z.of_nat header_bytes) kept Hb)
    as (members&Hrest&Hok); [unfold header_bytes; lia|done|done|].
  exists members. split; [|done]. unfold fatbin, write_header.
  cbn [h_magic h_version h_header_size h_files_size]. rewrite <- Hrest.
  rewrite <- (header_split image) at 1. rewrite <- !app_assoc.
  rewrite (field_bytes image 0 4 _ Hb ltac:(lia) Hm), (field_bytes image 4 2 _ Hb ltac:(lia) Hv),
    (field_bytes image 6 2 _ Hb ltac:(lia) Hh), (field_bytes image 8 8 _ Hb ltac:(lia) Hf).
  rewrite length_drop. unfold header_bytes. do 4 f_equal. f_equal. lia.
Qed.

(** * Properties *)

Lemma kept_members_idem devices members :
  kept_members devices (kept_members devices members) = kept_members devices members.
Proof.
  induction members as [|m members IH]; [done|]. unfold kept_members in *. cbn [List.filter].
  destruct (keeps devices (read_entry m)) eqn:Hk; [|done]. cbn [List.filter]. by rewrite Hk, IH.
Qed.

Lemma kept_members_ok devices members :
  Forall member_ok members -> Forall member_ok (kept_members devices members).
Proof.
  induction 1 as [|m members Hm _ IH]; [constructor|]. unfold kept_members in *. cbn [List.filter].
  destruct (keeps devices (read_entry m)); [by constructor|done].
Qed.

(** Filtering a fat binary keeps exactly the members some device can use, in
    order and byte for byte, under a header whose size is theirs; when none or
    all are kept the image is forwarded unchanged, and what was filtered once is
    not filtered again. *)
Theorem fatbin_filter_selects devices members :
  Forall member_ok members -> devices <> [] -> 0 ∉ devices ->
  Z.of_nat (length (concat members)) < 2 ^ 63 ->
  let kept := kept_members devices members in
  lupine_filter_fatbin (Some (fatbin members)) devices =
    (if bool_decide (kept = []) || bool_decide (kept = members) then [] else fatbin kept) /\
  lupine_filter_fatbin (Some (fatbin kept)) devices = [].
Proof.
  intros Hok Hdev Hzero Hsize kept. split; [by apply filter_fatbin_members|].
  pose proof (kept_members_length devices members).
  rewrite filter_fatbin_members; [|by apply kept_members_ok|done|done|fold kept in H; lia].
  cbv zeta. unfold kept. rewrite kept_members_idem.
  rewrite (bool_decide_eq_true_2 (kept_members devices members = kept_members devices members))
    by done.
  by rewrite orb_true_r.
Qed.

(** A PTX member for 7.5 and two machine-code members, for 8.0 and 9.0. *)
Definition sample_member (kind arch : Z) : list byte :=
  le_bytes 2 kind ++ le_bytes 2 LUPINE_FATBIN_ENTRY_VERSION ++ le_bytes 4 32 ++ le_bytes 8 4 ++
  replicate 12 0 ++ le_bytes 4 arch ++ [1; 2; 3; 4].

Definition sample_members : list (list byte) :=
  [sample_member LUPINE_FATBIN_ENTRY_PTX 75; sample_member LUPINE_FATBIN_ENTRY_CUBIN 80;
   sample_member LUPINE_FATBIN_ENTRY_CUBIN 90].

Lemma sample_member_ok kind arch :
  (kind, arch) ∈ [(LUPINE_FATBIN_ENTRY_PTX, 75); (LUPINE_FATBIN_ENTRY_CUBIN, 80);
                  (LUPINE_FATBIN_ENTRY_CUBIN, 90)] -> member_ok (sample_member kind arch).
Proof.
  intros Hin. repeat (apply elem_of_cons in Hin as [[= -> ->]|Hin];
    [unfold member_ok; split_and!; vm_compute;
     first [reflexivity|discriminate|left; reflexivity|right; reflexivity|by apply Nat.leb_le]|]).
  by apply not_elem_of_nil in Hin.
Qed.

Lemma fatbin_filter_selects_witness :
  let kept := kept_members [86] sample_members in
  lupine_filter_fatbin (Some (fatbin sample_members)) [86] =
    (if bool_decide (kept = []) || bool_decide (kept = sample_members) then [] else fatbin kept) /\
  lupine_filter_fatbin (Some (fatbin kept)) [86] = [].
Proof.
  apply (fatbin_filter_selects [86] sample_members).
  - repeat constructor; apply sample_member_ok; set_solver.
  - done.
  - by intros ?%list_elem_of_singleton.
  - vm_compute. reflexivity.
Defined.

(** Only a well-formed fat binary is ever rewritten; anything else (a foreign
    magic, a wrong size, a truncated or unknown member) is forwarded unchanged. *)
Theorem fatbin_filter_rejects_malformed image devices :
  Forall is_byte image -> Z.of_nat (length image) < 2 ^ 64 ->
  lupine_filter_fatbin (Some image) devices <> [] ->
  exists members, image = fatbin members /\ Forall member_ok members.
Proof. apply filter_fatbin_wellformed. Qed.

Lemma fatbin_filter_rejects_malformed_witness :
  exists members, fatbin sample_members = fatbin members /\ Forall member_ok members.
Proof.
  apply (fatbin_filter_rejects_malformed (fatbin sample_members) [86]).
  - apply (bool_decide_unpack _). vm_compute. exact I.
  - vm_compute. reflexivity.
  - vm_compute. discriminate.
Defined.
