(* ===== verification/Routing.v ===== *)
(** [routing.cpp] and [client_routing.h]: how the client decides which server a
    CUDA call belongs to.  The state is the virtual device table, the owner of
    every handle, the allocation index, the calling thread's context caches and
    context hints.  The client's connections, the local driver and the remote
    servers' answers come in through the class [ClientEnv]; the laws of the
    connection table are [ClientEnvLaws]. *)
From S2P Require Import Prelude OrdMap AllocCache LaneCache Events VisibleDevices.

(** * Interface to the transport, the local driver and the servers *)

Definition CUDA_SUCCESS : Z := 0.
Definition CUDA_ERROR_INVALID_VALUE : Z := 1.
Definition CUDA_ERROR_DEVICE_UNAVAILABLE : Z := 46.
Definition CUDA_ERROR_INVALID_DEVICE : Z := 101.

(** A connection is its address, 0 for null.  A remote answer is [None] when
    any step of the request fails in transport, else the values the reply
    carries. *)
Class ClientEnv := {
  rpc_open : Z;
  lupine_client_transport_size : Z;
  transport_connection : Z -> Z;
  logical_index : Z -> Z;
  conn_va_size : Z -> Z;
  lupine_local_cuda_available : bool;
  local_device_count : Z * Z;
  local_device_get : Z -> Z * Z;
  local_device_uuid : Z -> Z * list Z;
  local_set_current : Z -> Z;
  remote_device_count : Z -> option (Z * Z);
  remote_device_get : Z -> Z -> option (Z * Z);
  remote_device_uuid : Z -> Z -> option (list Z * Z);
  remote_set_current : Z -> Z -> option Z;
  CUDA_VISIBLE_DEVICES : option (list Z);
}.

(** The connection array: every slot below the count is a connection that
    carries its own index. *)
Class ClientEnvLaws (E : ClientEnv) : Prop := {
  transport_size_range : 0 <= lupine_client_transport_size < 2 ^ 31;
  transport_connection_nonnull : forall i,
    0 <= i < lupine_client_transport_size -> transport_connection i <> 0;
  transport_connection_index : forall i,
    0 <= i < lupine_client_transport_size -> logical_index (transport_connection i) = i;
}.

(** * State *)

Record lupine_device_entry := DeviceTableEntry {
  local : bool;
  local_device : Z;
  conn_index : Z;
  remote_device : Z;
}.
#[export] Instance lupine_device_entry_eq_dec : EqDecision lupine_device_entry.
Proof. solve_decision. Defined.

Record lupine_owner_record := OwnerRecord {
  route_id : Z;
  is_green_context : bool;
  pointer_context : Z;
}.

Definition default_owner_record : lupine_owner_record := OwnerRecord (-2) false 0.

(** The handle types the owner tables are instantiated at. *)
Inductive handle_kind :=
  | CUcontext | CUmodule | CUlibrary | CUfunction | CUstream | CUevent
  | CUmemoryPool | CUgraph | CUgraphNode | CUgraphExec | CUdeviceptr.
#[export] Instance handle_kind_eq_dec : EqDecision handle_kind.
Proof. solve_decision. Defined.

Definition handle_kind_code (k : handle_kind) : nat :=
  match k with
  | CUcontext => 0 | CUmodule => 1 | CUlibrary => 2 | CUfunction => 3 | CUstream => 4
  | CUevent => 5 | CUmemoryPool => 6 | CUgraph => 7 | CUgraphNode => 8
  | CUgraphExec => 9 | CUdeviceptr => 10
  end%nat.

Definition handle_kind_of_code (n : nat) : option handle_kind :=
  [CUcontext; CUmodule; CUlibrary; CUfunction; CUstream; CUevent; CUmemoryPool; CUgraph;
   CUgraphNode; CUgraphExec; CUdeviceptr] !! n.

#[export] Instance handle_kind_countable : Countable handle_kind.
Proof. apply (inj_countable handle_kind_code handle_kind_of_code). by intros []. Defined.

Record routing_state := RoutingState {
  device_table : list lupine_device_entry;
  device_table_ready : bool;
  owners : gmap (handle_kind * Z) lupine_owner_record;
  allocation_cache : deviceptr_allocation_cache;
  caches : context_caches;
  current_context : Z;
  default_context_hint : Z;
  global_default_context_hint : Z;
  event_table : lupine_event_table;
  allocating_again : bool;
}.

Definition initial_routing_state : routing_state :=
  RoutingState [] false ∅ empty_allocation_cache initial_context_caches 0 0 0
    initial_event_table false.

Definition set_device_table (devices : list lupine_device_entry) (ready : bool)
    (st : routing_state) : routing_state :=
  RoutingState devices ready (owners st) (allocation_cache st) (caches st)
    (current_context st) (default_context_hint st) (global_default_context_hint st)
    (event_table st) (allocating_again st).

Definition set_owners (o : gmap (handle_kind * Z) lupine_owner_record)
    (st : routing_state) : routing_state :=
  RoutingState (device_table st) (device_table_ready st) o (allocation_cache st) (caches st)
    (current_context st) (default_context_hint st) (global_default_context_hint st)
    (event_table st) (allocating_again st).

Definition set_allocation_cache (c : deviceptr_allocation_cache)
    (st : routing_state) : routing_state :=
  RoutingState (device_table st) (device_table_ready st) (owners st) c (caches st)
    (current_context st) (default_context_hint st) (global_default_context_hint st)
    (event_table st) (allocating_again st).

Definition set_caches (c : context_caches) (st : routing_state) : routing_state :=
  RoutingState (device_table st) (device_table_ready st) (owners st) (allocation_cache st) c
    (current_context st) (default_context_hint st) (global_default_context_hint st)
    (event_table st) (allocating_again st).

Definition set_current_hint (ctx : Z) (st : routing_state) : routing_state :=
  RoutingState (device_table st) (device_table_ready st) (owners st) (allocation_cache st)
    (caches st) ctx (default_context_hint st) (global_default_context_hint st)
    (event_table st) (allocating_again st).

Definition set_event_table (t : lupine_event_table) (st : routing_state) : routing_state :=
  RoutingState (device_table st) (device_table_ready st) (owners st) (allocation_cache st)
    (caches st) (current_context st) (default_context_hint st)
    (global_default_context_hint st) t (allocating_again st).

Definition set_allocating_again (b : bool) (st : routing_state) : routing_state :=
  RoutingState (device_table st) (device_table_ready st) (owners st) (allocation_cache st)
    (caches st) (current_context st) (default_context_hint st)
    (global_default_context_hint st) (event_table st) b.

(** * Routes *)

Definition LUPINE_ROUTE_REMOTE : Z := 0.
Definition LUPINE_ROUTE_LOCAL : Z := 1.
Definition LUPINE_ROUTE_INVALID : Z := 2.
Definition LUPINE_ROUTE_UNKNOWN_DEVICE : Z := 3.

Record lupine_route := Route { kind : Z; conn : Z }.

Definition invalid_route : lupine_route := Route LUPINE_ROUTE_INVALID 0.

Section Routing.
Context {E : ClientEnv}.

(** [static_cast<int>] of the connection count. *)
Definition rpc_size : Z := sint32 lupine_client_transport_size.

Definition lupine_client_transport_connection (index : Z) : Z :=
  if index <? lupine_client_transport_size then transport_connection index else 0.

Definition rpc_client_get_connection (index : Z) : Z :=
  if rpc_open <? 0 then 0 else lupine_client_transport_connection index.

Definition lupine_conn_index (c : Z) : Z :=
  if c =? 0 then -1
  else
    let index := logical_index c in
    if (0 <=? index) && (index <? rpc_size) then index else -1.

Definition lupine_thread_conn_by_index (index : Z) : Z := rpc_client_get_connection index.

Definition lupine_route_is_local (route : lupine_route) : bool :=
  kind route =? LUPINE_ROUTE_LOCAL.

Definition lupine_route_remote_conn (route : lupine_route) : Z :=
  if kind route =? LUPINE_ROUTE_REMOTE then conn route else 0.

Definition lupine_remote_route_for_conn (c : Z) : lupine_route :=
  if c =? 0 then invalid_route else Route LUPINE_ROUTE_REMOTE c.

Definition lupine_local_route : lupine_route := Route LUPINE_ROUTE_LOCAL 0.

Definition lupine_route_identity (route : lupine_route) : Z :=
  if kind route =? LUPINE_ROUTE_LOCAL then -1
  else if kind route =? LUPINE_ROUTE_REMOTE then
    let index := lupine_conn_index (conn route) in
    if 0 <=? index then index else -2
  else -2.

Definition lupine_routes_share_server (first second : lupine_route) : bool :=
  lupine_route_identity first =? lupine_route_identity second.

Definition lupine_route_from_identity (id : Z) : lupine_route :=
  if id =? -1 then lupine_local_route
  else if 0 <=? id then
    lupine_remote_route_for_conn (lupine_thread_conn_by_index (wrap32 id))
  else invalid_route.

(** * Remote device queries: result code and answer *)

(** [lupine_prepare_rpc] refuses a null connection; any failed step reads as an
    unavailable device. *)
Definition lupine_remote_cuDeviceGetCount (c : Z) : Z * Z :=
  if c =? 0 then (CUDA_ERROR_DEVICE_UNAVAILABLE, 0)
  else match remote_device_count c with
       | None => (CUDA_ERROR_DEVICE_UNAVAILABLE, 0)
       | Some (count, result) => (result, count)
       end.

Definition lupine_remote_cuDeviceGet (c ordinal : Z) : Z * Z :=
  if c =? 0 then (CUDA_ERROR_DEVICE_UNAVAILABLE, 0)
  else match remote_device_get c ordinal with
       | None => (CUDA_ERROR_DEVICE_UNAVAILABLE, 0)
       | Some (device, result) => (result, device)
       end.

Definition lupine_remote_cuDeviceGetUuid (c device : Z) : Z * list Z :=
  if c =? 0 then (CUDA_ERROR_DEVICE_UNAVAILABLE, [])
  else match remote_device_uuid c device with
       | None => (CUDA_ERROR_DEVICE_UNAVAILABLE, [])
       | Some (uuid, result) => (result, uuid)
       end.

Definition hex_digit (n : Z) : Z := if n <? 10 then ch_0 + n else 97 + (n - 10).

(** Sixteen bytes, two digits each. *)
Definition lupine_uuid_hex (uuid : list Z) : list Z :=
  flat_map (fun byte => [hex_digit (Z.land (Z.shiftr byte 4) 15); hex_digit (Z.land byte 15)])
    (take 16 uuid).

(** * The device table *)

Definition entry_uuid_hex (devices : list lupine_device_entry) (index : Z) : list Z :=
  match devices !! Z.to_nat index with
  | None => []
  | Some entry =>
      let '(result, uuid) :=
        if local entry then local_device_uuid (local_device entry)
        else lupine_remote_cuDeviceGetUuid
               (rpc_client_get_connection (conn_index entry)) (remote_device entry) in
      if result =? CUDA_SUCCESS then lupine_uuid_hex uuid else []
  end.

Definition lupine_apply_visible_devices (devices : list lupine_device_entry)
    : list lupine_device_entry :=
  match CUDA_VISIBLE_DEVICES with
  | None => devices
  | Some spec =>
      omap (fun index => devices !! Z.to_nat index)
        (lupine_select_visible_devices (Some spec) (sint32 (Z.of_nat (length devices)))
           (entry_uuid_hex devices))
  end.

(** The loop over local ordinals skips a device the driver refuses. *)
Fixpoint local_devices (ordinals : list Z) : list lupine_device_entry :=
  match ordinals with
  | [] => []
  | ordinal :: rest =>
      let '(result, device) := local_device_get ordinal in
      if result =? CUDA_SUCCESS
      then DeviceTableEntry true device 0 0 :: local_devices rest
      else local_devices rest
  end.

(** The two nested loops over connections and their ordinals: [inl] is the
    error that clears the table. *)
Fixpoint remote_devices (c i : Z) (ordinals : list Z) (devices : list lupine_device_entry)
    : Z + list lupine_device_entry :=
  match ordinals with
  | [] => inr devices
  | ordinal :: rest =>
      let '(result, device) := lupine_remote_cuDeviceGet c ordinal in
      if negb (result =? CUDA_SUCCESS) then inl result
      else remote_devices c i rest (devices ++ [DeviceTableEntry false (-1) i device])
  end.

Fixpoint connection_devices (connections : list Z) (devices : list lupine_device_entry)
    : Z + list lupine_device_entry :=
  match connections with
  | [] => inr devices
  | i :: rest =>
      let c := rpc_client_get_connection i in
      let '(result, count) := lupine_remote_cuDeviceGetCount c in
      if negb (result =? CUDA_SUCCESS) then inl result
      else match remote_devices c i (seqZ 0 count) devices with
           | inl error => inl error
           | inr devices => connection_devices rest devices
           end
  end.

Definition lupine_ensure_device_table (st : routing_state) : Z * routing_state :=
  if device_table_ready st then (CUDA_SUCCESS, st)
  else
    let devices :=
      if lupine_local_cuda_available then
        let '(result, count) := local_device_count in
        if (result =? CUDA_SUCCESS) && (0 <? count)
        then local_devices (seqZ 0 count) else []
      else [] in
    match (if rpc_open =? 0 then connection_devices (seqZ 0 rpc_size) devices
           else inr devices) with
    | inl error => (error, set_device_table [] false st)
    | inr [] => (CUDA_ERROR_DEVICE_UNAVAILABLE, set_device_table [] false st)
    | inr devices =>
        (CUDA_SUCCESS, set_device_table (lupine_apply_visible_devices devices) true st)
    end.

Definition table_size (st : routing_state) : Z :=
  sint32 (Z.of_nat (length (device_table st))).

Definition lupine_connection_supports_concurrent_managed_access (c : Z)
    (st : routing_state) : bool * routing_state :=
  if (c =? 0) || (conn_va_size c =? 0) then (false, st)
  else
    let '(result, st) := lupine_ensure_device_table st in
    if negb (result =? CUDA_SUCCESS) then (false, st)
    else
      let index := lupine_conn_index c in
      if index <? 0 then (false, st)
      else
        (negb (bool_decide (device_table st = []))
         && forallb (fun d => negb (local d) && (conn_index d =? index)) (device_table st),
         st).

(** The [nullptr] test of an output pointer is the argument [count]/[device];
    the value stored through it is the second component. *)
Definition lupine_virtual_device_count (count : bool) (st : routing_state)
    : Z * Z * routing_state :=
  if negb count then (CUDA_ERROR_INVALID_VALUE, 0, st)
  else
    let '(result, st) := lupine_ensure_device_table st in
    if negb (result =? CUDA_SUCCESS) then (result, 0, st)
    else (CUDA_SUCCESS, table_size st, st).

Definition lupine_devices_span_routes (st : routing_state) : bool * routing_state :=
  let '(_, st) := lupine_ensure_device_table st in
  (match device_table st with
   | [] => false
   | front :: _ =>
       existsb (fun d => negb (eqb (local d) (local front))
                         || (negb (local d) && negb (conn_index d =? conn_index front)))
         (device_table st)
   end, st).

Definition lupine_virtual_device_for_ordinal (device : bool) (ordinal : Z)
    (st : routing_state) : Z * Z * routing_state :=
  if negb device then (CUDA_ERROR_INVALID_VALUE, 0, st)
  else
    let '(result, st) := lupine_ensure_device_table st in
    if negb (result =? CUDA_SUCCESS) then (result, 0, st)
    else if (ordinal <? 0) || (table_size st <=? ordinal)
         then (CUDA_ERROR_INVALID_DEVICE, 0, st)
         else (CUDA_SUCCESS, ordinal, st).

(** The first index of the table whose entry satisfies the test, else -1. *)
Fixpoint find_index (matches : lupine_device_entry -> bool) (i : Z)
    (devices : list lupine_device_entry) : Z :=
  match devices with
  | [] => -1
  | candidate :: rest => if matches candidate then i else find_index matches (i + 1) rest
  end.

Definition lupine_virtual_device_for_route (route : lupine_route) (route_device : Z)
    (st : routing_state) : Z * routing_state :=
  let '(result, st) := lupine_ensure_device_table st in
  if negb (result =? CUDA_SUCCESS) then (-1, st)
  else if kind route =? LUPINE_ROUTE_REMOTE then
    let index := lupine_conn_index (conn route) in
    if index <? 0 then (-1, st)
    else
      (find_index (fun d => negb (local d) && (conn_index d =? wrap32 index)
                            && (remote_device d =? route_device)) 0 (device_table st), st)
  else if negb (kind route =? LUPINE_ROUTE_LOCAL) then (-1, st)
  else
    (find_index (fun d => local d && (local_device d =? route_device)) 0 (device_table st), st).

(** The callback answers a result code and the device it found on a route. *)
Fixpoint lookup_on_routes (lookup : lupine_route -> Z * Z) (routes : list Z)
    (first_error : Z) (st : routing_state) : Z * option Z * routing_state :=
  match routes with
  | [] => (first_error, None, st)
  | i :: rest =>
      let route := if i <? 0 then lupine_local_route
                   else lupine_remote_route_for_conn (rpc_client_get_connection (wrap32 i)) in
      let '(result, route_device) := lookup route in
      if negb (result =? CUDA_SUCCESS) then
        lookup_on_routes lookup rest
          (if (first_error =? CUDA_ERROR_INVALID_DEVICE)
              && negb (result =? CUDA_ERROR_INVALID_DEVICE) then result else first_error) st
      else
        let '(virtual_device, st) := lupine_virtual_device_for_route route route_device st in
        if virtual_device <? 0 then lookup_on_routes lookup rest first_error st
        else (CUDA_SUCCESS, Some virtual_device, st)
  end.

Definition lupine_lookup_device_on_all_routes_impl (device : bool)
    (lookup : lupine_route -> Z * Z) (st : routing_state) : Z * option Z * routing_state :=
  if negb device then (CUDA_ERROR_INVALID_VALUE, None, st)
  else
    let '(result, st) := lupine_ensure_device_table st in
    if negb (result =? CUDA_SUCCESS) then (result, None, st)
    else
      let has_local_device := existsb local (device_table st) in
      let first := if has_local_device then -1 else 0 in
      lookup_on_routes lookup (seqZ first (rpc_size - first)) CUDA_ERROR_INVALID_DEVICE st.

(** [None] is a null device pointer; the value afterwards is the second
    component. *)
Definition lupine_route_for_device (device : option Z) (st : routing_state)
    : lupine_route * option Z * routing_state :=
  match device with
  | None => (invalid_route, None, st)
  | Some d =>
      let '(result, st) := lupine_ensure_device_table st in
      if negb (result =? CUDA_SUCCESS) then (invalid_route, Some d, st)
      else if (d <? 0) || (table_size st <=? d)
           then (Route LUPINE_ROUTE_UNKNOWN_DEVICE 0, Some d, st)
           else match device_table st !! Z.to_nat d with
                | None => (Route LUPINE_ROUTE_UNKNOWN_DEVICE 0, Some d, st)
                | Some mapped =>
                    if local mapped then (lupine_local_route, Some (local_device mapped), st)
                    else (lupine_remote_route_for_conn
                            (lupine_thread_conn_by_index (conn_index mapped)),
                          Some (remote_device mapped), st)
                end
  end.

Definition lupine_rpc_conn_for_device (device : option Z) (st : routing_state)
    : Z * option Z * routing_state :=
  let '(route, device, st) := lupine_route_for_device device st in
  (lupine_route_remote_conn route, device, st).

Definition lupine_translate_device_for_conn (c : Z) (device : option Z) (st : routing_state)
    : bool * option Z * routing_state :=
  match device with
  | None => (false, None, st)
  | Some d =>
      if c =? 0 then (false, device, st)
      else
        let '(result, st) := lupine_ensure_device_table st in
        if negb (result =? CUDA_SUCCESS) then (false, device, st)
        else
          let index := lupine_conn_index c in
          if (index <? 0) || (d <? 0) || (table_size st <=? d) then (false, device, st)
          else match device_table st !! Z.to_nat d with
               | None => (false, device, st)
               | Some mapped =>
                   if local mapped || negb (conn_index mapped =? wrap32 index)
                   then (false, device, st)
                   else (true, Some (remote_device mapped), st)
               end
  end.

Definition lupine_local_device_for_remote (c remote : Z) (st : routing_state)
    : Z * routing_state :=
  if c =? 0 then (-1, st)
  else
    let '(result, st) := lupine_ensure_device_table st in
    if negb (result =? CUDA_SUCCESS) then (-1, st)
    else lupine_virtual_device_for_route (lupine_remote_route_for_conn c) remote st.

(** * Owners *)

(** [owners[handle]] default-constructs a record; only device pointers carry the
    context they were allocated under. *)
Definition note_owner_id (k : handle_kind) (handle id : Z) (st : routing_state)
    : routing_state :=
  let owner := default default_owner_record (owners st !! (k, handle)) in
  let context := if decide (k = CUdeviceptr) then current_context st
                 else pointer_context owner in
  set_owners (<[(k, handle) := OwnerRecord id (is_green_context owner) context]> (owners st)) st.

Definition lupine_note_owner (k : handle_kind) (handle c : Z) (st : routing_state)
    : routing_state :=
  let index := lupine_conn_index c in
  if (handle =? 0) || (index <? 0) then st else note_owner_id k handle index st.

Definition lupine_note_owner_route (k : handle_kind) (handle : Z) (route : lupine_route)
    (st : routing_state) : routing_state :=
  let id := lupine_route_identity route in
  if (handle =? 0) || (id <? -1) then st else note_owner_id k handle id st.

Definition lupine_note_deviceptr_allocation_owner_locked (ptr size id context : Z)
    (st : routing_state) : routing_state :=
  let owner := default default_owner_record (owners st !! (CUdeviceptr, ptr)) in
  let st := set_owners
    (<[(CUdeviceptr, ptr) := OwnerRecord id (is_green_context owner) context]> (owners st)) st in
  set_allocation_cache
    (lupine_deviceptr_allocation_cache_insert ptr size id context (allocation_cache st)) st.

Definition lupine_note_deviceptr_allocation (ptr size c : Z) (st : routing_state)
    : routing_state :=
  let index := lupine_conn_index c in
  if (ptr =? 0) || (index <? 0) then st
  else lupine_note_deviceptr_allocation_owner_locked ptr size index (current_context st) st.

Definition lupine_note_deviceptr_allocation_route (ptr size : Z) (route : lupine_route)
    (st : routing_state) : routing_state :=
  if (ptr =? 0) || (kind route =? LUPINE_ROUTE_INVALID) then st
  else if kind route =? LUPINE_ROUTE_REMOTE
  then lupine_note_deviceptr_allocation ptr size (conn route) st
  else lupine_note_deviceptr_allocation_owner_locked ptr size (-1) (current_context st) st.

Definition lupine_note_disjoint_deviceptr_allocation (ptr size : Z) (route : lupine_route)
    (st : routing_state) : bool * routing_state :=
  let id := lupine_route_identity route in
  if (ptr =? 0) || (id <? -1) then (true, st)
  else if lupine_deviceptr_allocation_cache_overlaps_other_route ptr size id
            (allocation_cache st)
  then (false, st)
  else (true, lupine_note_deviceptr_allocation_owner_locked ptr size id
                (current_context st) st).

(** The retry loop.  [again n] is the n-th repetition of the allocation: the
    result code, the address now in [*ptr], and the state it leaves.  The
    answer is [None] when [fuel] runs out. *)
Fixpoint disjoint_loop (fuel : nat) (again : nat -> routing_state -> Z * Z * routing_state)
    (n : nat) (result ptr size : Z) (route : lupine_route) (st : routing_state)
    : option (Z * Z * routing_state) :=
  if negb (result =? CUDA_SUCCESS) then Some (result, ptr, st)
  else
    let '(recorded, st) := lupine_note_disjoint_deviceptr_allocation ptr size route st in
    if recorded then Some (result, ptr, st)
    else match fuel with
         | O => None
         | S fuel =>
             let '(result, ptr, st) := again n (set_allocating_again true st) in
             disjoint_loop fuel again (S n) result ptr size route
               (set_allocating_again false st)
         end.

Definition lupine_record_disjoint_allocation (fuel : nat)
    (again : nat -> routing_state -> Z * Z * routing_state)
    (ptr size : Z) (route : lupine_route) (st : routing_state)
    : option (Z * Z * routing_state) :=
  if allocating_again st then Some (CUDA_SUCCESS, ptr, st)
  else disjoint_loop fuel again 0 CUDA_SUCCESS ptr size route st.

Definition lupine_forget_deviceptr_owner (ptr : Z) (st : routing_state) : routing_state :=
  let st := set_owners (delete (CUdeviceptr, ptr) (owners st)) st in
  set_allocation_cache (lupine_deviceptr_allocation_cache_erase ptr (allocation_cache st)) st.

Definition lupine_forget_context_owner (ctx : Z) (st : routing_state) : routing_state :=
  set_owners (delete (CUcontext, ctx) (owners st)) st.

Definition lupine_mark_context_green (ctx : Z) (st : routing_state) : routing_state :=
  if ctx =? 0 then st
  else
    let owner := default default_owner_record (owners st !! (CUcontext, ctx)) in
    set_owners (<[(CUcontext, ctx) := OwnerRecord (route_id owner) true (pointer_context owner)]>
                  (owners st)) st.

Definition lupine_context_is_green (ctx : Z) (st : routing_state) : bool :=
  if ctx =? 0 then false
  else match owners st !! (CUcontext, ctx) with
       | Some owner => is_green_context owner
       | None => false
       end.

Definition lupine_forget_stream_owner (stream : Z) (st : routing_state) : routing_state :=
  set_owners (delete (CUstream, stream) (owners st)) st.

Definition lupine_forget_event_owner (event : Z) (st : routing_state) : routing_state :=
  let st := set_owners (delete (CUevent, event) (owners st)) st in
  set_event_table (lupine_event_forget event (event_table st)) st.

Definition lupine_route_for_known_owner (k : handle_kind) (handle : Z) (st : routing_state)
    : lupine_route :=
  if handle =? 0 then invalid_route
  else match owners st !! (k, handle) with
       | None => invalid_route
       | Some owner => lupine_route_from_identity (route_id owner)
       end.

(** * Current contexts and the default route *)

Definition lupine_set_current_context_on_route (route : lupine_route) (ctx : Z)
    (st : routing_state) : Z * routing_state :=
  if kind route =? LUPINE_ROUTE_INVALID then (CUDA_ERROR_DEVICE_UNAVAILABLE, st)
  else if negb (lupine_route_is_local route)
          && lupine_lane_context_cache_matches (lupine_route_identity route) ctx (caches st)
  then (CUDA_SUCCESS, st)
  else
    let epoch := lupine_lane_context_cache_epoch (caches st) in
    let result :=
      if lupine_route_is_local route then local_set_current ctx
      else
        let c := lupine_route_remote_conn route in
        if c =? 0 then CUDA_ERROR_DEVICE_UNAVAILABLE
        else default CUDA_ERROR_DEVICE_UNAVAILABLE (remote_set_current c ctx) in
    let caches1 := lupine_note_device_binding_changed (caches st) in
    let caches2 := lupine_lane_context_cache_update (lupine_route_identity route) ctx epoch
                     (result =? CUDA_SUCCESS) caches1 in
    (result, set_caches caches2 st).

Definition lupine_accept_current_context_hint (ctx : Z) (st : routing_state) : routing_state :=
  if negb (current_context st =? ctx) then set_current_hint ctx st else st.

Definition lupine_route_for_default_context_hint (ctx : Z) (st : routing_state)
    : lupine_route * routing_state :=
  if ctx =? 0 then (invalid_route, st)
  else
    let route := lupine_route_for_known_owner CUcontext ctx st in
    if kind route =? LUPINE_ROUTE_INVALID then (route, st)
    else if negb (lupine_lane_context_cache_matches (lupine_route_identity route) ctx
                    (caches st))
    then
      let '(result, st) := lupine_set_current_context_on_route route ctx st in
      if negb (result =? CUDA_SUCCESS) then (invalid_route, st)
      else (route, lupine_accept_current_context_hint ctx st)
    else (route, lupine_accept_current_context_hint ctx st).

Definition lupine_route_for_default (st : routing_state) : lupine_route * routing_state :=
  let '(route, st) :=
    if negb (current_context st =? 0)
    then lupine_route_for_default_context_hint (current_context st) st
    else (invalid_route, st) in
  if negb (kind route =? LUPINE_ROUTE_INVALID) then (route, st)
  else
    let '(route, st) :=
      if negb (default_context_hint st =? 0)
      then lupine_route_for_default_context_hint (default_context_hint st) st
      else (invalid_route, st) in
    if negb (kind route =? LUPINE_ROUTE_INVALID) then (route, st)
    else
      let '(route, st) :=
        if negb (global_default_context_hint st =? 0)
        then lupine_route_for_default_context_hint (global_default_context_hint st) st
        else (invalid_route, st) in
      if negb (kind route =? LUPINE_ROUTE_INVALID) then (route, st)
      else
        let c := lupine_thread_conn_by_index 0 in
        if negb (c =? 0) then (lupine_remote_route_for_conn c, st)
        else (if lupine_local_cuda_available then lupine_local_route else invalid_route, st).

Definition lupine_route_for_owner_or_default (k : handle_kind) (handle : Z)
    (st : routing_state) : lupine_route * routing_state :=
  let route := lupine_route_for_known_owner k handle st in
  if kind route =? LUPINE_ROUTE_INVALID then lupine_route_for_default st else (route, st).

Definition lupine_route_for_current_context (st : routing_state)
    : lupine_route * routing_state :=
  lupine_route_for_owner_or_default CUcontext (current_context st) st.

(** * Device pointers *)

Definition lupine_deviceptr_is_tracked (ptr : Z) (st : routing_state) : bool :=
  match owners st !! (CUdeviceptr, ptr) with
  | Some _ => true
  | None =>
      match lupine_deviceptr_allocation_cache_lookup ptr (allocation_cache st) with
      | Some _ => true
      | None => false
      end
  end.

(** Both lookups return the address of a record; records are compared by key. *)
Definition lupine_deviceptr_allocation_covers (ptr bytes id : Z) (st : routing_state) : bool :=
  if bytes =? 0 then false
  else match lupine_deviceptr_allocation_cache_lookup ptr (allocation_cache st) with
       | None => false
       | Some allocation =>
           (alloc_route_id allocation.2 =? id)
           && match lupine_deviceptr_allocation_cache_lookup (wrap64 (ptr + bytes - 1))
                      (allocation_cache st) with
              | Some last => allocation.1 =? last.1
              | None => false
              end
       end.

Definition lupine_route_for_deviceptr (ptr : Z) (st : routing_state)
    : lupine_route * routing_state :=
  match owners st !! (CUdeviceptr, ptr) with
  | Some owner => (lupine_route_from_identity (route_id owner), st)
  | None =>
      match lupine_deviceptr_allocation_cache_lookup ptr (allocation_cache st) with
      | Some allocation => (lupine_route_from_identity (alloc_route_id allocation.2), st)
      | None => lupine_route_for_default st
      end
  end.

Definition lupine_deviceptrs_share_route (first second : Z) (st : routing_state)
    : bool * routing_state :=
  let '(route1, st) := lupine_route_for_deviceptr first st in
  let '(route2, st) := lupine_route_for_deviceptr second st in
  (lupine_routes_share_server route1 route2, st).

Definition lupine_context_for_deviceptr (ptr : Z) (st : routing_state) : Z :=
  let from_allocation :=
    match lupine_deviceptr_allocation_cache_lookup ptr (allocation_cache st) with
    | Some allocation => alloc_context allocation.2
    | None => 0
    end in
  match owners st !! (CUdeviceptr, ptr) with
  | Some owner =>
      if negb (pointer_context owner =? 0) then pointer_context owner else from_allocation
  | None => from_allocation
  end.

Definition lupine_rpc_conn_for_owner (k : handle_kind) (handle : Z) (st : routing_state)
    : Z * routing_state :=
  let '(route, st) := lupine_route_for_owner_or_default k handle st in
  (lupine_route_remote_conn route, st).

Definition lupine_rpc_conn_for_deviceptr (ptr : Z) (st : routing_state) : Z * routing_state :=
  let '(route, st) := lupine_route_for_deviceptr ptr st in
  (lupine_route_remote_conn route, st).

(** * Memory locations *)

Definition CU_MEM_LOCATION_TYPE_DEVICE : Z := 1.

Record CUmemLocation := MemLocation { location_type : Z; location_id : Z }.

Definition lupine_translate_mem_location (route : lupine_route) (location : CUmemLocation)
    (st : routing_state) : Z * CUmemLocation * routing_state :=
  if negb (location_type location =? CU_MEM_LOCATION_TYPE_DEVICE)
  then (CUDA_SUCCESS, location, st)
  else
    let '(device_route, device, st) :=
      lupine_route_for_device (Some (location_id location)) st in
    if kind device_route =? LUPINE_ROUTE_UNKNOWN_DEVICE
    then (CUDA_ERROR_INVALID_DEVICE, location, st)
    else if kind device_route =? LUPINE_ROUTE_INVALID
    then (CUDA_ERROR_DEVICE_UNAVAILABLE, location, st)
    else if negb (lupine_routes_share_server route device_route)
    then (CUDA_ERROR_INVALID_VALUE, location, st)
    else (CUDA_SUCCESS,
          MemLocation (location_type location) (default (location_id location) device), st).

Definition lupine_restore_mem_location (route : lupine_route) (location : CUmemLocation)
    (st : routing_state) : CUmemLocation * routing_state :=
  if location_type location =? CU_MEM_LOCATION_TYPE_DEVICE then
    let '(device, st) := lupine_virtual_device_for_route route (location_id location) st in
    (MemLocation (location_type location) device, st)
  else (location, st).

(** * Connections and identities *)

Section Laws.
Context {L : ClientEnvLaws E}.

Definition route_id_ok (id : Z) : Prop :=
  id = -1 \/ (rpc_open = 0 /\ 0 <= id < lupine_client_transport_size).

Lemma rpc_size_eq : rpc_size = lupine_client_transport_size.
Proof. apply sint32_id. pose proof transport_size_range. unfold is_int. lia. Qed.

Lemma get_connection_spec i :
  rpc_open = 0 -> 0 <= i < lupine_client_transport_size ->
  rpc_client_get_connection i = transport_connection i /\
  transport_connection i <> 0 /\ lupine_conn_index (transport_connection i) = i.
Proof.
  intros Ho Hi. unfold rpc_client_get_connection, lupine_client_transport_connection.
  rewrite Ho. simpl. rewrite (proj2 (Z.ltb_lt _ _)) by lia.
  pose proof (transport_connection_nonnull i Hi) as Hn. split_and!; [done..|].
  unfold lupine_conn_index. rewrite (proj2 (Z.eqb_neq _ 0)) by done.
  rewrite transport_connection_index, rpc_size_eq by done.
  rewrite (proj2 (Z.leb_le _ _)), (proj2 (Z.ltb_lt i _)) by lia. done.
Qed.

Lemma wrap32_id z : is_u32 z -> wrap32 z = z.
Proof. apply Z.mod_small. Qed.

Lemma remote_route_identity i :
  rpc_open = 0 -> 0 <= i < lupine_client_transport_size ->
  lupine_remote_route_for_conn (rpc_client_get_connection i) =
    Route LUPINE_ROUTE_REMOTE (transport_connection i) /\
  lupine_route_identity (Route LUPINE_ROUTE_REMOTE (transport_connection i)) = i.
Proof.
  intros Ho Hi. destruct (get_connection_spec i Ho Hi) as (->&Hn&Hc).
  unfold lupine_remote_route_for_conn, lupine_route_identity. simpl.
  rewrite (proj2 (Z.eqb_neq _ 0)) by done. rewrite Hc, (proj2 (Z.leb_le _ _)) by lia. done.
Qed.

(** A stored identity names the route it was taken from. *)
Lemma route_identity_roundtrip id :
  route_id_ok id ->
  lupine_route_identity (lupine_route_from_identity id) = id /\
  kind (lupine_route_from_identity id) <> LUPINE_ROUTE_INVALID.
Proof.
  intros [->|[Ho Hi]]; [done|]. unfold lupine_route_from_identity.
  pose proof transport_size_range.
  rewrite (proj2 (Z.eqb_neq _ _)), (proj2 (Z.leb_le _ _)) by lia.
  unfold lupine_thread_conn_by_index. rewrite wrap32_id by (unfold is_u32; lia).
  destruct (remote_route_identity id Ho Hi) as [-> ->]. done.
Qed.

(** * The device table *)

Definition entry_wf (e : lupine_device_entry) : Prop :=
  if local e then conn_index e = 0 /\ remote_device e = 0
  else local_device e = -1 /\ rpc_open = 0 /\
       0 <= conn_index e < lupine_client_transport_size.

Definition table_ok (st : routing_state) : Prop :=
  device_table_ready st = true -> Forall entry_wf (device_table st).

(** What enumerating the fleet is meant to give: every local device the driver
    hands out, then every device of every connection in connection order;
    [None] when any remote answer is missing or an error. *)
Definition connection_reference (i : Z) : option (list lupine_device_entry) :=
  let c := rpc_client_get_connection i in
  match lupine_remote_cuDeviceGetCount c with
  | (result, count) =>
      if result =? CUDA_SUCCESS then
        mapM (fun ordinal =>
          match lupine_remote_cuDeviceGet c ordinal with
          | (result, device) =>
              if result =? CUDA_SUCCESS then Some (DeviceTableEntry false (-1) i device)
              else None
          end) (seqZ 0 count)
      else None
  end.

Definition local_reference : list lupine_device_entry :=
  if lupine_local_cuda_available && (local_device_count.1 =? CUDA_SUCCESS) then
    (fun ordinal => DeviceTableEntry true (local_device_get ordinal).2 0 0) <$>
      List.filter (fun ordinal => (local_device_get ordinal).1 =? CUDA_SUCCESS)
        (seqZ 0 local_device_count.2)
  else [].

Definition fleet_reference : option (list lupine_device_entry) :=
  remote ← (if rpc_open =? 0 then mapM connection_reference (seqZ 0 rpc_size) else Some []);
  Some (local_reference ++ concat remote).

Lemma local_devices_spec ordinals :
  local_devices ordinals =
  (fun ordinal => DeviceTableEntry true (local_device_get ordinal).2 0 0) <$>
    List.filter (fun ordinal => (local_device_get ordinal).1 =? CUDA_SUCCESS) ordinals.
Proof.
  induction ordinals as [|o os IH]; [done|]. simpl.
  destruct (local_device_get o) as [r d] eqn:Ho. simpl.
  destruct (r =? CUDA_SUCCESS); [|done]. rewrite fmap_cons, Ho, IH. done.
Qed.

Lemma remote_devices_spec c i ordinals devices :
  match mapM (fun ordinal =>
          match lupine_remote_cuDeviceGet c ordinal with
          | (result, device) =>
              if result =? CUDA_SUCCESS then Some (DeviceTableEntry false (-1) i device)
              else None
          end) ordinals with
  | Some l => remote_devices c i ordinals devices = inr (devices ++ l)
  | None => exists e, e <> CUDA_SUCCESS /\ remote_devices c i ordinals devices = inl e
  end.
Proof.
  revert devices. induction ordinals as [|o os IH]; intros devices; simpl.
  { by rewrite app_nil_r. }
  destruct (lupine_remote_cuDeviceGet c o) as [r d].
  destruct (r =? CUDA_SUCCESS) eqn:Er; breflect; simpl; [|by exists r].
  specialize (IH (devices ++ [DeviceTableEntry false (-1) i d])).
  destruct (mapM _ os) as [l|]; simpl; [|done]. rewrite IH. by rewrite <- app_assoc.
Qed.

Lemma connection_devices_spec cs devices :
  match mapM connection_reference cs with
  | Some ls => connection_devices cs devices = inr (devices ++ concat ls)
  | None => exists e, e <> CUDA_SUCCESS /\ connection_devices cs devices = inl e
  end.
Proof.
  revert devices. induction cs as [|i cs IH]; intros devices; simpl.
  { by rewrite app_nil_r. }
  pose proof (eq_refl (connection_reference i)) as Hi.
  unfold connection_reference at 2 in Hi.
  destruct (lupine_remote_cuDeviceGetCount _) as [r count].
  destruct (r =? CUDA_SUCCESS) eqn:Er; breflect; rewrite Hi; simpl; [|by exists r].
  pose proof (remote_devices_spec (rpc_client_get_connection i) i (seqZ 0 count) devices) as Hr.
  destruct (mapM _ (seqZ 0 count)) as [l|]; simpl.
  - rewrite Hr. specialize (IH (devices ++ l)).
    destruct (mapM connection_reference cs) as [ls|]; simpl; [|done].
    rewrite IH. by rewrite <- app_assoc.
  - destruct Hr as (e&He&->). by exists e.
Qed.

Lemma ensure_spec st :
  device_table_ready st = false ->
  match fleet_reference with
  | Some (d :: ds) =>
      lupine_ensure_device_table st =
      (CUDA_SUCCESS, set_device_table (lupine_apply_visible_devices (d :: ds)) true st)
  | _ => exists e, e <> CUDA_SUCCESS /\
      lupine_ensure_device_table st = (e, set_device_table [] false st)
  end.
Proof.
  intros Hr. unfold lupine_ensure_device_table, fleet_reference. rewrite Hr.
  assert ((if lupine_local_cuda_available then
        let '(result, count) := local_device_count in
        if (result =? CUDA_SUCCESS) && (0 <? count) then local_devices (seqZ 0 count) else []
      else []) = local_reference) as ->.
  { unfold local_reference. destruct lupine_local_cuda_available; [|done]. simpl.
    destruct local_device_count as [r count]; simpl.
    destruct (r =? CUDA_SUCCESS); [|done]. simpl. rewrite local_devices_spec.
    destruct (0 <? count) eqn:Ec; breflect; [done|]. by rewrite seqZ_nil by lia. }
  assert (match mapM connection_reference (seqZ 0 rpc_size) with
    | Some ls => connection_devices (seqZ 0 rpc_size) local_reference =
                 inr (local_reference ++ concat ls)
    | None => exists e, e <> CUDA_SUCCESS /\
        connection_devices (seqZ 0 rpc_size) local_reference = inl e end) as Hc
    by apply connection_devices_spec.
  destruct (rpc_open =? 0).
  - destruct (mapM connection_reference _) as [ls|]; simpl.
    + rewrite Hc. destruct (local_reference ++ concat ls); [|done]. by exists CUDA_ERROR_DEVICE_UNAVAILABLE.
    + destruct Hc as (e&He&->). by exists e.
  - simpl. rewrite app_nil_r. destruct local_reference; [|done]. by exists CUDA_ERROR_DEVICE_UNAVAILABLE.
Qed.

Lemma fleet_wf l : fleet_reference = Some l -> Forall entry_wf l.
Proof.
  unfold fleet_reference. destruct (rpc_open =? 0) eqn:Ho; breflect.
  - destruct (mapM connection_reference _) as [ls|] eqn:Hm; simpl; [|done]. intros [= <-].
    apply Forall_app. split.
    + unfold local_reference. case_if; [|constructor]. by apply Forall_fmap, Forall_true.
    + apply mapM_Some_1 in Hm. apply Forall_concat, Forall_forall. intros l [j Hj]%list_elem_of_lookup.
      destruct (Forall2_lookup_r _ _ _ _ _ Hm Hj) as (i&Hi&Hl).
      apply lookup_seqZ in Hi as [-> Hr]. unfold connection_reference in Hl.
      destruct (lupine_remote_cuDeviceGetCount _) as [r count]. case_if_in Hl; [|done].
      apply mapM_Some_1 in Hl. apply Forall_forall. intros e [k Hk]%list_elem_of_lookup.
      destruct (Forall2_lookup_r _ _ _ _ _ Hl Hk) as (o&_&He).
      destruct (lupine_remote_cuDeviceGet _ _) as [r' d]. case_if_in He; [|done].
      injection He as <-. rewrite rpc_size_eq in Hr. unfold entry_wf. simpl.
      split_and!; [done..|lia|lia].
  - simpl. intros [= <-]. rewrite app_nil_r. unfold local_reference.
    case_if; [|constructor]. by apply Forall_fmap, Forall_true.
Qed.

Lemma apply_visible_Forall (P : lupine_device_entry -> Prop) l :
  Forall P l -> Forall P (lupine_apply_visible_devices l).
Proof.
  intros Hl. unfold lupine_apply_visible_devices. destruct CUDA_VISIBLE_DEVICES; [|done].
  apply Forall_forall. intros e (i&_&Hi)%list_elem_of_omap.
  rewrite Forall_lookup in Hl. by eapply Hl.
Qed.

(** After a successful call the table is ready and well formed, and a further
    call changes nothing. *)
Lemma ensure_ok st r st' :
  table_ok st -> lupine_ensure_device_table st = (r, st') ->
  table_ok st' /\
  (r = CUDA_SUCCESS -> device_table_ready st' = true /\ Forall entry_wf (device_table st')).
Proof.
  intros Hok. destruct (device_table_ready st) eqn:Hr.
  - unfold lupine_ensure_device_table. rewrite Hr. intros [= <- <-]. auto.
  - pose proof (ensure_spec st Hr) as Hs. pose proof fleet_wf as Hwf.
    destruct fleet_reference as [[|d ds]|].
    + destruct Hs as (e&He&->). intros [= <- <-]. done.
    + rewrite Hs. intros [= <- <-].
      assert (Forall entry_wf (lupine_apply_visible_devices (d :: ds)))
        by (apply apply_visible_Forall, Hwf; done).
      split; [by intros _|done].
    + destruct Hs as (e&He&->). intros [= <- <-]. done.
Qed.

Lemma ensure_ready st :
  device_table_ready st = true -> lupine_ensure_device_table st = (CUDA_SUCCESS, st).
Proof. intros Hr. unfold lupine_ensure_device_table. by rewrite Hr. Qed.

(** * Devices and ordinals *)

Lemma find_index_spec P i l k e :
  l !! k = Some e -> P e = true ->
  exists j e', (j <= k)%nat /\ l !! j = Some e' /\ P e' = true /\
    find_index P i l = i + Z.of_nat j.
Proof.
  revert i k. induction l as [|x l IH]; intros i k Hk Hp; [done|]. simpl.
  destruct (P x) eqn:Hx; [exists O, x; split_and!; [lia|done|done|lia]|].
  destruct k as [|k]; [simpl in Hk; congruence|].
  destruct (IH (i + 1) k Hk Hp) as (j&e'&Hj&Hl&Hpe&->).
  exists (S j), e'. split_and!; [lia|done|done|lia].
Qed.

Lemma route_for_device_spec st d route dev st' :
  lupine_route_for_device (Some d) st = (route, dev, st') ->
  kind route <> LUPINE_ROUTE_UNKNOWN_DEVICE -> kind route <> LUPINE_ROUTE_INVALID ->
  lupine_ensure_device_table st = (CUDA_SUCCESS, st') /\ 0 <= d /\
  exists e, device_table st' !! Z.to_nat d = Some e /\
    dev = Some (if local e then local_device e else remote_device e) /\
    route = if local e then lupine_local_route
            else lupine_remote_route_for_conn (rpc_client_get_connection (conn_index e)).
Proof.
  unfold lupine_route_for_device.
  destruct (lupine_ensure_device_table st) as [r st1] eqn:He.
  destruct (r =? CUDA_SUCCESS) eqn:Er; breflect; subst; simpl; [|by intros [= <- <- <-]].
  case_if; [by intros [= <- <- <-]|].
  destruct (device_table st1 !! Z.to_nat d) as [e|] eqn:Hd; [|by intros [= <- <- <-]].
  intros Heq Hk1 Hk2. destruct (local e) eqn:Hl; injection Heq as <- <- <-;
    (split_and!; [done|lia|exists e; by rewrite Hl]).
Qed.

(** Two well-formed entries of the same route and device are the same entry. *)
Lemma entry_wf_eq e1 e2 :
  entry_wf e1 -> entry_wf e2 -> local e1 = local e2 ->
  (if local e1 then local_device e1 else remote_device e1) =
  (if local e2 then local_device e2 else remote_device e2) ->
  (local e1 = false -> conn_index e1 = conn_index e2) -> e1 = e2.
Proof.
  unfold entry_wf. intros H1 H2 Hl Hd Hc. destruct e1 as [l1 ? c1 ?], e2 as [l2 ? c2 ?].
  simpl in *. subst l2. destruct l1; f_equal; intuition congruence.
Qed.

(** The route a device resolves to, seen from the entry. *)
Lemma entry_route e :
  entry_wf e ->
  let route := if local e then lupine_local_route
               else lupine_remote_route_for_conn (rpc_client_get_connection (conn_index e)) in
  lupine_route_identity route = if local e then -1 else conn_index e.
Proof.
  unfold entry_wf. destruct (local e); [done|]. intros (_&Ho&Hi). simpl.
  by destruct (remote_route_identity (conn_index e) Ho Hi) as [-> ->].
Qed.

Lemma identity_kind route :
  (lupine_route_identity route = -1 -> kind route = LUPINE_ROUTE_LOCAL) /\
  (0 <= lupine_route_identity route ->
   kind route = LUPINE_ROUTE_REMOTE /\
   lupine_conn_index (conn route) = lupine_route_identity route).
Proof.
  unfold lupine_route_identity. destruct (kind route =? LUPINE_ROUTE_LOCAL) eqn:E1; breflect.
  { split; [done|lia]. }
  destruct (kind route =? LUPINE_ROUTE_REMOTE) eqn:E2; breflect; [|lia].
  destruct (0 <=? lupine_conn_index (conn route)) eqn:E3; breflect; [split; [lia|done]|lia].
Qed.

Lemma virtual_device_for_entry st route k e :
  device_table_ready st = true -> Forall entry_wf (device_table st) ->
  device_table st !! k = Some e ->
  lupine_route_identity route = (if local e then -1 else conn_index e) ->
  exists j, (j <= k)%nat /\ device_table st !! j = Some e /\
    lupine_virtual_device_for_route route
      (if local e then local_device e else remote_device e) st = (Z.of_nat j, st).
Proof.
  intros Hr Hwf Hk Hid. unfold lupine_virtual_device_for_route.
  rewrite ensure_ready by done. cbn [Z.eqb negb CUDA_SUCCESS].
  rewrite Forall_lookup in Hwf. pose proof (Hwf _ _ Hk) as He.
  destruct (identity_kind route) as [Hloc Hrem]. pose proof transport_size_range.
  destruct (local e) eqn:Hl.
  - rewrite (Hloc Hid). simpl.
    destruct (find_index_spec (fun d => local d && (local_device d =? local_device e)) 0
      (device_table st) k e Hk) as (j&e'&Hj&Hjl&Hp&->); [by rewrite Hl, Z.eqb_refl|].
    exists j. split_and!; [done| |by rewrite Z.add_0_l]. rewrite Hjl. breflect.
    f_equal. apply entry_wf_eq; [by eapply Hwf|done|congruence| |congruence].
    by rewrite Hl, H0.
  - unfold entry_wf in He. rewrite Hl in He. destruct He as (?&?&?).
    destruct (Hrem ltac:(lia)) as [-> Hci]. simpl. rewrite Hci, Hid.
    rewrite (proj2 (Z.ltb_ge _ 0)), wrap32_id by (unfold is_u32; lia).
    destruct (find_index_spec (fun d => negb (local d) && (conn_index d =? conn_index e)
        && (remote_device d =? remote_device e)) 0
      (device_table st) k e Hk) as (j&e'&Hj&Hjl&Hp&->); [by rewrite Hl, !Z.eqb_refl|].
    exists j. split_and!; [done| |by rewrite Z.add_0_l]. rewrite Hjl. breflect.
    f_equal. apply entry_wf_eq; [by eapply Hwf|by eapply Hwf|congruence| |done].
    match goal with Hx : local e' = false |- _ => by rewrite Hx, Hl end.
Qed.

(** * Histories of pointer and owner bookkeeping *)

(** The routing operations of a client between two queries: recording device
    allocations with the check for other routes and without it, noting owners by
    connection and by route, forgetting, and what changes hints, caches or the
    table. *)
Inductive routing_op :=
  | OpRecord (ptr size : Z) (route : lupine_route)
  | OpNoteConn (ptr size c : Z)
  | OpNoteAllocation (ptr size : Z) (route : lupine_route)
  | OpNoteOwnerConn (k : handle_kind) (handle c : Z)
  | OpForget (ptr : Z)
  | OpNoteOwner (k : handle_kind) (handle : Z) (route : lupine_route)
  | OpForgetContext (ctx : Z)
  | OpMarkGreen (ctx : Z)
  | OpForgetStream (stream : Z)
  | OpForgetEvent (event : Z)
  | OpSetCurrent (route : lupine_route) (ctx : Z)
  | OpRouteDefault
  | OpEnsureTable.

Definition routing_step (st : routing_state) (op : routing_op) : routing_state :=
  match op with
  | OpRecord ptr size route => (lupine_note_disjoint_deviceptr_allocation ptr size route st).2
  | OpNoteConn ptr size c => lupine_note_deviceptr_allocation ptr size c st
  | OpNoteAllocation ptr size route => lupine_note_deviceptr_allocation_route ptr size route st
  | OpNoteOwnerConn k handle c => lupine_note_owner k handle c st
  | OpForget ptr => lupine_forget_deviceptr_owner ptr st
  | OpNoteOwner k handle route => lupine_note_owner_route k handle route st
  | OpForgetContext ctx => lupine_forget_context_owner ctx st
  | OpMarkGreen ctx => lupine_mark_context_green ctx st
  | OpForgetStream stream => lupine_forget_stream_owner stream st
  | OpForgetEvent event => lupine_forget_event_owner event st
  | OpSetCurrent route ctx => (lupine_set_current_context_on_route route ctx st).2
  | OpRouteDefault => (lupine_route_for_default st).2
  | OpEnsureTable => (lupine_ensure_device_table st).2
  end.

Definition routing_run (ops : list routing_op) (st : routing_state) : routing_state :=
  foldl routing_step st ops.

(** Nothing that another route has recorded or noted lies in the range. *)
Definition apart (ptr size id : Z) (st : routing_state) : Prop :=
  (forall e, e ∈ allocations (allocation_cache st) -> meets ptr size e = true -> alloc_route_id e.2 = id) /\
  (forall q o, owners st !! (CUdeviceptr, q) = Some o -> ptr <= q < ptr + size -> route_id o = id).

(** The identity that [lupine_note_deviceptr_allocation_route] notes. *)
Definition noted_id (route : lupine_route) : Z :=
  if kind route =? LUPINE_ROUTE_REMOTE then lupine_conn_index (conn route) else -1.

(** Allocations are nonempty ranges below the end of the address space.  The check of
    [lupine_note_disjoint_deviceptr_allocation] does not see an owner that was noted without
    an allocation, and the other ways to note a pointer check nothing: these do not meet
    what belongs to another route. *)
Definition routing_op_ok (st : routing_state) (op : routing_op) : Prop :=
  match op with
  | OpRecord ptr size route => 0 <= ptr /\ 0 < size /\ ptr + size < 2 ^ 64 /\
      ((lupine_note_disjoint_deviceptr_allocation ptr size route st).1 = true -> forall q o, owners st !! (CUdeviceptr, q) = Some o -> om_find q (allocations (allocation_cache st)) = None ->
        ptr <= q < ptr + size -> route_id o = lupine_route_identity route)
  | OpNoteConn ptr size c => 0 <= ptr /\ 0 < size /\ ptr + size < 2 ^ 64 /\ apart ptr size (lupine_conn_index c) st
  | OpNoteAllocation ptr size route => 0 <= ptr /\ 0 < size /\ ptr + size < 2 ^ 64 /\ apart ptr size (noted_id route) st
  | OpNoteOwnerConn CUdeviceptr ptr c => apart ptr 1 (lupine_conn_index c) st
  | OpNoteOwner CUdeviceptr ptr route => apart ptr 1 (lupine_route_identity route) st
  | OpForget ptr => is_u64 ptr
  | _ => True
  end.

Fixpoint run_ok (st : routing_state) (ops : list routing_op) : Prop :=
  match ops with [] => True | op :: ops => routing_op_ok st op /\ run_ok (routing_step st op) ops end.

(** The same by evaluation. *)
Definition owners_agree (ptr size id : Z) (relevant : Z -> bool) (st : routing_state) : bool :=
  forallb (fun x => negb (bool_decide (x.1.1 = CUdeviceptr) && relevant x.1.2 && (ptr <=? x.1.2) && (x.1.2 <? ptr + size))
                    || (route_id x.2 =? id)) (map_to_list (owners st)).

Definition apartb (ptr size id : Z) (st : routing_state) : bool :=
  forallb (fun e => negb (meets ptr size e) || (alloc_route_id e.2 =? id)) (allocations (allocation_cache st)) &&
  owners_agree ptr size id (fun _ => true) st.

Definition range_okb (ptr size : Z) : bool := (0 <=? ptr) && (0 <? size) && (ptr + size <? 2 ^ 64).

Definition op_okb (st : routing_state) (op : routing_op) : bool :=
  match op with
  | OpRecord ptr size route => range_okb ptr size &&
      (negb (lupine_note_disjoint_deviceptr_allocation ptr size route st).1 ||
       owners_agree ptr size (lupine_route_identity route)
         (fun q => bool_decide (om_find q (allocations (allocation_cache st)) = None)) st)
  | OpNoteConn ptr size c => range_okb ptr size && apartb ptr size (lupine_conn_index c) st
  | OpNoteAllocation ptr size route => range_okb ptr size && apartb ptr size (noted_id route) st
  | OpNoteOwnerConn CUdeviceptr ptr c => apartb ptr 1 (lupine_conn_index c) st
  | OpNoteOwner CUdeviceptr ptr route => apartb ptr 1 (lupine_route_identity route) st
  | OpForget ptr => (0 <=? ptr) && (ptr <? 2 ^ 64)
  | _ => true
  end.

Fixpoint run_okb (st : routing_state) (ops : list routing_op) : bool :=
  match ops with [] => true | op :: ops => op_okb st op && run_okb (routing_step st op) ops end.

Lemma owners_agree_ok ptr size id relevant st : owners_agree ptr size id relevant st = true ->
  forall q o, owners st !! (CUdeviceptr, q) = Some o -> relevant q = true -> ptr <= q < ptr + size -> route_id o = id.
Proof.
  unfold owners_agree. rewrite forallb_forall. intros Hf q o Ho Hr Hq.
  specialize (Hf ((CUdeviceptr, q), o) ltac:(by apply list_elem_of_In, elem_of_map_to_list)). simpl in Hf.
  rewrite Hr, (proj2 (Z.leb_le _ _)), (proj2 (Z.ltb_lt _ _)) in Hf by lia. by apply Z.eqb_eq.
Qed.

Lemma apartb_ok ptr size id st : apartb ptr size id st = true -> apart ptr size id st.
Proof.
  intros [Ha Ho]%andb_true_iff. split.
  - intros e He%list_elem_of_In Hm. rewrite forallb_forall in Ha. specialize (Ha e He). rewrite Hm in Ha. by apply Z.eqb_eq.
  - intros q o Hq. by apply (owners_agree_ok _ _ _ _ _ Ho q o).
Qed.

Lemma op_okb_ok st op : op_okb st op = true -> routing_op_ok st op.
Proof.
  assert (Hrange : forall ptr size, range_okb ptr size = true -> 0 <= ptr /\ 0 < size /\ ptr + size < 2 ^ 64).
  { intros ptr size Hr. unfold range_okb in Hr. breflect. lia. }
  destruct op as [p z r|p z c|p z r|k h c|p|k h r|c|c|s|e|r c| |]; simpl; try done.
  - intros [Hr Ho]%andb_true_iff. destruct (Hrange _ _ Hr) as (? & ? & ?). split_and!; try done.
    intros Hacc q o Hq Hn. rewrite Hacc in Ho. apply (owners_agree_ok _ _ _ _ _ Ho q o Hq). by apply bool_decide_eq_true.
  - intros [Hr Ho]%andb_true_iff. destruct (Hrange _ _ Hr) as (? & ? & ?). split_and!; try done; by apply apartb_ok.
  - intros [Hr Ho]%andb_true_iff. destruct (Hrange _ _ Hr) as (? & ? & ?). split_and!; try done; by apply apartb_ok.
  - destruct k; try done. apply apartb_ok.
  - intros Hp. unfold is_u64. breflect. lia.
  - destruct k; try done. apply apartb_ok.
Qed.

Lemma run_okb_ok ops : forall st, run_okb st ops = true -> run_ok st ops.
Proof.
  induction ops as [|op ops IH]; intros st; [done|]. intros [Ho Hr]%andb_true_iff. split; [by apply op_okb_ok|by apply IH].
Qed.

(** The step neither records nor forgets the allocation at [base]. *)
Definition spares (base : Z) (op : routing_op) : Prop :=
  match op with
  | OpRecord ptr _ _ | OpNoteConn ptr _ _ | OpNoteAllocation ptr _ _ => ptr <> base
  | OpForget ptr => ptr <> base
  | _ => True
  end.

Record pointer_inv (st : routing_state) : Prop := {
  pi_alloc : alloc_inv (allocation_cache st);
  pi_range : Forall (fun e => e.1 + alloc_size e.2 < 2 ^ 64) (allocations (allocation_cache st));
  pi_owner : forall ptr o e, owners st !! (CUdeviceptr, ptr) = Some o ->
    e ∈ allocations (allocation_cache st) -> contains ptr e = true -> alloc_route_id e.2 = route_id o;
  pi_disjoint : forall e1 e2, e1 ∈ allocations (allocation_cache st) ->
    e2 ∈ allocations (allocation_cache st) -> meets e1.1 (alloc_size e1.2) e2 = true ->
    alloc_route_id e1.2 = alloc_route_id e2.2;
}.

(** What the steps that are not about allocations leave alone. *)
Definition same_pointers (st st' : routing_state) : Prop :=
  allocation_cache st' = allocation_cache st /\
  forall ptr, owners st' !! (CUdeviceptr, ptr) = owners st !! (CUdeviceptr, ptr).

Lemma same_pointers_refl st : same_pointers st st.
Proof. done. Qed.

Lemma same_pointers_trans st1 st2 st3 :
  same_pointers st1 st2 -> same_pointers st2 st3 -> same_pointers st1 st3.
Proof. intros [? H1] [? H2]. split; [congruence|]. intros p. by rewrite H2, H1. Qed.

Lemma same_pointers_inv st st' : same_pointers st st' -> pointer_inv st -> pointer_inv st'.
Proof.
  intros [Hc Ho] [Ha Hr Hw Hd]. split; rewrite ?Hc; [done..| |done].
  intros ptr o e. rewrite Ho. apply Hw.
Qed.

Lemma ensure_same_pointers st : same_pointers st (lupine_ensure_device_table st).2.
Proof.
  unfold lupine_ensure_device_table. case_if; [done|].
  destruct (if rpc_open =? 0 then _ else _) as [e|[|d ds]]; done.
Qed.

Lemma set_current_same_pointers route ctx st :
  same_pointers st (lupine_set_current_context_on_route route ctx st).2.
Proof. unfold lupine_set_current_context_on_route. by repeat case_if. Qed.

Lemma accept_same_pointers ctx st :
  same_pointers st (lupine_accept_current_context_hint ctx st).
Proof. unfold lupine_accept_current_context_hint. by case_if. Qed.

Lemma default_hint_same_pointers ctx st :
  same_pointers st (lupine_route_for_default_context_hint ctx st).2.
Proof.
  unfold lupine_route_for_default_context_hint. case_if; [done|]. case_if; [done|].
  case_if; [|apply accept_same_pointers].
  pose proof (set_current_same_pointers (lupine_route_for_known_owner CUcontext ctx st) ctx st) as Hs.
  destruct (lupine_set_current_context_on_route _ _ _) as [r st1]; simpl in *.
  case_if; [done|]. simpl. eapply same_pointers_trans; [done|apply accept_same_pointers].
Qed.

Lemma try_hint_same_pointers (b : bool) ctx st :
  same_pointers st (if b then lupine_route_for_default_context_hint ctx st
                    else (invalid_route, st)).2.
Proof. destruct b; [apply default_hint_same_pointers|done]. Qed.

Lemma route_default_same_pointers st : same_pointers st (lupine_route_for_default st).2.
Proof.
  unfold lupine_route_for_default.
  pose proof (try_hint_same_pointers (negb (current_context st =? 0)) (current_context st) st) as H1.
  destruct (if negb (current_context st =? 0) then _ else _) as [r1 st1]; simpl in H1.
  case_if; [done|].
  pose proof (try_hint_same_pointers (negb (default_context_hint st1 =? 0))
    (default_context_hint st1) st1) as H2.
  destruct (if negb (default_context_hint st1 =? 0) then _ else _) as [r2 st2]; simpl in H2.
  case_if; [by eapply same_pointers_trans|].
  pose proof (try_hint_same_pointers (negb (global_default_context_hint st2 =? 0))
    (global_default_context_hint st2) st2) as H3.
  destruct (if negb (global_default_context_hint st2 =? 0) then _ else _) as [r3 st3]; simpl in H3.
  assert (same_pointers st st3) by (do 2 (eapply same_pointers_trans; [done|]); done).
  case_if; [done|]. by case_if.
Qed.

(** Steps that say nothing of a device pointer. *)
Definition not_of_pointers (op : routing_op) : Prop :=
  match op with
  | OpRecord _ _ _ | OpNoteConn _ _ _ | OpNoteAllocation _ _ _ | OpForget _ => False
  | OpNoteOwner k _ _ | OpNoteOwnerConn k _ _ => k <> CUdeviceptr
  | _ => True
  end.

Lemma note_id_same_pointers k h id st : k <> CUdeviceptr -> same_pointers st (note_owner_id k h id st).
Proof. intros Hk. split; [done|]. intros ptr. simpl. rewrite lookup_insert_ne; congruence. Qed.

Lemma other_step_same_pointers st op : not_of_pointers op -> same_pointers st (routing_step st op).
Proof.
  intros Hok. destruct op as [p z r|p z c|p z r|k h c|p|k h r|c|c|s|e|r c| |]; simpl in *; try done.
  - unfold lupine_note_owner. case_if; [done|]. by apply note_id_same_pointers.
  - unfold lupine_note_owner_route. case_if; [done|]. by apply note_id_same_pointers.
  - split; [done|]. intros ptr. simpl. rewrite lookup_delete_ne; congruence.
  - unfold lupine_mark_context_green. case_if; [done|]. split; [done|]. intros ptr. simpl.
    rewrite lookup_insert_ne; congruence.
  - split; [done|]. intros ptr. simpl. rewrite lookup_delete_ne; congruence.
  - split; [done|]. intros ptr. simpl. rewrite lookup_delete_ne; congruence.
  - apply set_current_same_pointers.
  - apply route_default_same_pointers.
  - apply ensure_same_pointers.
Qed.

Lemma initial_pointer_inv : pointer_inv initial_routing_state.
Proof.
  split; simpl.
  - apply empty_allocation_cache_inv.
  - constructor.
  - intros ptr o e. by rewrite lookup_empty.
  - by intros e1 e2 ?%not_elem_of_nil.
Qed.

(** A record that was accepted. *)
Lemma record_accepted ptr size route st st' :
  pointer_inv st -> 0 < ptr -> 0 < size -> ptr + size < 2 ^ 64 ->
  -1 <= lupine_route_identity route ->
  lupine_note_disjoint_deviceptr_allocation ptr size route st = (true, st') ->
  let id := lupine_route_identity route in
  allocations (allocation_cache st') =
    om_set ptr (AllocRecord size id (current_context st)) (allocations (allocation_cache st)) /\
  (forall p, owners st' !! (CUdeviceptr, p) =
     if decide (p = ptr)
     then Some (OwnerRecord id (is_green_context (default default_owner_record
                  (owners st !! (CUdeviceptr, ptr)))) (current_context st))
     else owners st !! (CUdeviceptr, p)) /\
  existsb (fun e => meets ptr size e && negb (alloc_route_id e.2 =? id))
    (allocations (allocation_cache st)) = false /\
  alloc_inv (allocation_cache st').
Proof.
  intros [Ha Hr Hw Hd] Hp Hs He Hid. unfold lupine_note_disjoint_deviceptr_allocation.
  rewrite (proj2 (Z.eqb_neq _ _)), (proj2 (Z.ltb_ge _ _)) by lia. simpl.
  rewrite cache_overlaps_spec by (done || unfold is_u64; lia).
  case_if; [done|]. intros [= <-].
  unfold lupine_note_deviceptr_allocation_owner_locked. simpl.
  split_and!.
  - rewrite cache_insert_spec by (done || lia). done.
  - intros p. case_decide as Hpp; [subst; by rewrite lookup_insert_eq|].
    rewrite lookup_insert_ne; congruence.
  - done.
  - apply cache_insert_inv; [done|unfold is_u64; lia..].
Qed.

Lemma not_foreign e l ptr size id :
  existsb (fun e => meets ptr size e && negb (alloc_route_id e.2 =? id)) l = false ->
  e ∈ l -> meets ptr size e = true -> alloc_route_id e.2 = id.
Proof.
  intros Hf Hin Hm. destruct (Z.eqb_spec (alloc_route_id e.2) id) as [|Hne]; [done|exfalso].
  apply not_true_iff_false in Hf. apply Hf, existsb_exists. exists e.
  split; [by apply list_elem_of_In|]. rewrite Hm. by rewrite (proj2 (Z.eqb_neq _ _)).
Qed.

Lemma meets_sym b s e : meets b s e = meets e.1 (alloc_size e.2) (b, AllocRecord s 0 0).
Proof. unfold meets. simpl. rewrite andb_comm. done. Qed.

Lemma om_set_elem k (v : lupine_deviceptr_allocation_record) l e :
  om_sorted l -> e ∈ om_set k v l -> e = (k, v) \/ e ∈ l.
Proof.
  intros Hs Hin. destruct e as [k' v'].
  apply om_find_elem in Hin; [|by apply om_sorted_set].
  rewrite om_find_set in Hin by done. case_if_in Hin; [left; congruence|right].
  by apply om_find_elem.
Qed.

(** A pointer that is noted apart from the other routes. *)
Lemma locked_inv ptr size id context st : pointer_inv st -> 0 < ptr -> 0 < size -> ptr + size < 2 ^ 64 ->
  apart ptr size id st -> pointer_inv (lupine_note_deviceptr_allocation_owner_locked ptr size id context st).
Proof.
  intros [Ha Hr Hw Hd] Hp Hs He [Hall Hown]. pose proof (inv_sorted _ Ha) as Hsort.
  unfold lupine_note_deviceptr_allocation_owner_locked. split; cbn [allocation_cache owners set_allocation_cache set_owners].
  - apply cache_insert_inv; [done|unfold is_u64; lia..].
  - rewrite cache_insert_spec by (done || lia). cbn [allocations]. apply om_set_Forall; [done|done|]. simpl. lia.
  - rewrite cache_insert_spec by (done || lia). cbn [allocations]. intros q o e Ho Hin%om_set_elem Hc; [|done].
    unfold contains in Hc. breflect. destruct (decide (q = ptr)) as [->|Hne].
    + rewrite lookup_insert_eq in Ho. injection Ho as <-. cbn [route_id]. destruct Hin as [->|Hin]; [done|].
      apply Hall; [done|]. unfold meets. apply andb_true_iff. split; apply Z.ltb_lt; lia.
    + rewrite lookup_insert_ne in Ho by congruence. destruct Hin as [->|Hin].
      * symmetry. apply (Hown q o Ho). simpl in *. lia.
      * apply (Hw q o e Ho Hin). unfold contains. apply andb_true_iff. split; [by apply Z.leb_le|by apply Z.ltb_lt].
  - rewrite cache_insert_spec by (done || lia). cbn [allocations]. intros e1 e2 H1%om_set_elem H2%om_set_elem Hm; [|done..].
    destruct H1 as [->|H1], H2 as [->|H2]; simpl in *; [done| | |by apply Hd].
    + symmetry. by apply Hall.
    + apply Hall; [done|]. by rewrite meets_sym.
Qed.

(** A range that the check lets through is apart when the owners without an allocation are. *)
Lemma record_apart ptr size id st : pointer_inv st -> 0 <= ptr -> 0 < size -> ptr + size < 2 ^ 64 ->
  existsb (fun e => meets ptr size e && negb (alloc_route_id e.2 =? id)) (allocations (allocation_cache st)) = false ->
  (forall q o, owners st !! (CUdeviceptr, q) = Some o -> om_find q (allocations (allocation_cache st)) = None ->
     ptr <= q < ptr + size -> route_id o = id) ->
  apart ptr size id st.
Proof.
  intros [Ha Hr Hw Hd] Hp Hs He Hf Hb. split; [intros e Hin Hm; by eapply not_foreign|].
  intros q o Ho Hq. destruct (om_find q (allocations (allocation_cache st))) as [r|] eqn:Eq; [|by apply (Hb q)].
  apply om_find_elem in Eq; [|by apply inv_sorted]. pose proof (inv_entries _ Ha) as Hok. rewrite Forall_forall in Hok.
  pose proof (Hok _ Eq) as [Hge Hsz]. simpl in *. rewrite <- (Hw q o (q, r) Ho Eq).
  - apply (not_foreign (q, r) _ ptr size id Hf Eq). unfold meets. simpl. apply andb_true_iff. split; apply Z.ltb_lt; lia.
  - unfold contains. simpl. rewrite Z.leb_refl, (proj2 (Z.ltb_lt _ _)) by lia. done.
Qed.

Lemma record_inv ptr size route st : pointer_inv st -> routing_op_ok st (OpRecord ptr size route) ->
  pointer_inv (lupine_note_disjoint_deviceptr_allocation ptr size route st).2.
Proof.
  intros Hinv (Hp & Hs & He & Hb). revert Hb. unfold lupine_note_disjoint_deviceptr_allocation. case_if; [done|].
  rewrite cache_overlaps_spec by (apply Hinv || unfold is_u64; lia). case_if; [done|]. intros Hb.
  apply locked_inv; try done; [breflect; lia|]. apply record_apart; try done. by apply Hb.
Qed.

(** Notes that check nothing. *)
Lemma note_conn_cases ptr size c st : lupine_note_deviceptr_allocation ptr size c st = st \/
  ptr <> 0 /\ lupine_note_deviceptr_allocation ptr size c st =
    lupine_note_deviceptr_allocation_owner_locked ptr size (lupine_conn_index c) (current_context st) st.
Proof. unfold lupine_note_deviceptr_allocation. case_if; [by left|right]. split; [|done]. by intros ->. Qed.

Lemma note_route_cases ptr size route st : lupine_note_deviceptr_allocation_route ptr size route st = st \/
  ptr <> 0 /\ lupine_note_deviceptr_allocation_route ptr size route st =
    lupine_note_deviceptr_allocation_owner_locked ptr size (noted_id route) (current_context st) st.
Proof.
  unfold lupine_note_deviceptr_allocation_route, noted_id. case_if; [by left|]. case_if; [apply note_conn_cases|right].
  split; [|done]. by intros ->.
Qed.

Lemma note_owner_inv ptr id st : pointer_inv st -> apart ptr 1 id st -> pointer_inv (note_owner_id CUdeviceptr ptr id st).
Proof.
  intros [Ha Hr Hw Hd] [Hall Hown]. split; cbn [note_owner_id set_owners allocation_cache owners]; [done|done| |done].
  intros q o e Ho Hin Hc. destruct (decide (q = ptr)) as [->|Hne].
  - rewrite lookup_insert_eq in Ho. injection Ho as <-. cbn [route_id]. apply Hall; [done|].
    unfold contains in Hc. breflect. unfold meets. apply andb_true_iff. split; apply Z.ltb_lt; lia.
  - rewrite lookup_insert_ne in Ho by congruence. by apply (Hw q o e).
Qed.

Lemma forget_inv ptr st : pointer_inv st -> pointer_inv (lupine_forget_deviceptr_owner ptr st).
Proof.
  intros [Ha Hr Hw Hd]. unfold lupine_forget_deviceptr_owner.
  split; cbn [allocation_cache owners set_allocation_cache set_owners];
    rewrite ?cache_erase_spec by done; cbn [allocations].
  - rewrite <- cache_erase_spec by done. by apply cache_erase_inv.
  - by apply om_erase_Forall.
  - intros p o e. destruct (decide (p = ptr)) as [->|Hne]; [by rewrite lookup_delete_eq|].
    rewrite lookup_delete_ne by congruence. intros Hq H. apply Hw; [done|].
    apply list_elem_of_In, List.filter_In in H as [H _]. by apply list_elem_of_In.
  - intros e1 e2 H1 H2. apply Hd; [clear H2; rename H1 into H|clear H1; rename H2 into H];
      apply list_elem_of_In, List.filter_In in H as [H _]; by apply list_elem_of_In.
Qed.

Lemma routing_step_inv st op :
  routing_op_ok st op -> pointer_inv st -> pointer_inv (routing_step st op).
Proof.
  intros Hok Hinv. assert (Hsame : not_of_pointers op -> pointer_inv (routing_step st op)).
  { intros Hn. by eapply same_pointers_inv; [apply other_step_same_pointers|]. }
  destruct op as [p z r|p z c|p z r|k h c|p|k h r|c|c|s|e|r c| |]; try by apply Hsame.
  - by apply record_inv.
  - destruct Hok as (? & ? & ? & ?). simpl. destruct (note_conn_cases p z c st) as [->|[? ->]]; [done|apply locked_inv; done || lia].
  - destruct Hok as (? & ? & ? & ?). simpl. destruct (note_route_cases p z r st) as [->|[? ->]]; [done|apply locked_inv; done || lia].
  - destruct (decide (k = CUdeviceptr)) as [->|]; [|by apply Hsame]. simpl. unfold lupine_note_owner. case_if; [done|].
    by apply note_owner_inv.
  - by apply forget_inv.
  - destruct (decide (k = CUdeviceptr)) as [->|]; [|by apply Hsame]. simpl. unfold lupine_note_owner_route. case_if; [done|].
    by apply note_owner_inv.
Qed.

Lemma routing_run_inv ops st : run_ok st ops -> pointer_inv st -> pointer_inv (routing_run ops st).
Proof.
  revert st. induction ops as [|op ops IH]; intros st; [done|]. intros [Hop Hops] Hinv.
  by apply IH, routing_step_inv.
Qed.

Abbreviation recorded_at st base := (om_find base (allocations (allocation_cache st))).

Lemma locked_spares ptr size id context st base : pointer_inv st -> 0 < ptr -> 0 < size -> ptr + size < 2 ^ 64 -> ptr <> base ->
  recorded_at (lupine_note_deviceptr_allocation_owner_locked ptr size id context st) base = recorded_at st base.
Proof.
  intros Hinv Hp Hs He Hne. cbn [lupine_note_deviceptr_allocation_owner_locked set_allocation_cache set_owners allocation_cache].
  rewrite cache_insert_spec by (apply Hinv || lia). cbn [allocations].
  rewrite om_find_set by apply Hinv. by rewrite (proj2 (Z.eqb_neq _ _)).
Qed.

Lemma spared_step st op base :
  routing_op_ok st op -> pointer_inv st -> spares base op ->
  recorded_at (routing_step st op) base = recorded_at st base.
Proof.
  intros Hok Hinv Hsp.
  assert (not_of_pointers op -> recorded_at (routing_step st op) base = recorded_at st base) as Hgo.
  { intros Hn. by destruct (other_step_same_pointers st op Hn) as [-> _]. }
  destruct op as [p z r|p z c|p z r|k h c|p|k h r|c|c|s|e|r c| |]; simpl in Hok, Hsp; try by apply Hgo.
  - cbn [routing_step]. unfold lupine_note_disjoint_deviceptr_allocation.
    case_if; [done|]. case_if; [done|]. apply locked_spares; done || (breflect; lia).
  - simpl. destruct (note_conn_cases p z c st) as [->|[? ->]]; [done|apply locked_spares; done || lia].
  - simpl. destruct (note_route_cases p z r st) as [->|[? ->]]; [done|apply locked_spares; done || lia].
  - simpl. unfold lupine_note_owner. by case_if.
  - cbn [routing_step lupine_forget_deviceptr_owner set_allocation_cache set_owners
         allocation_cache].
    rewrite cache_erase_spec by apply Hinv. cbn [allocations].
    rewrite om_find_erase by apply Hinv. by rewrite (proj2 (Z.eqb_neq _ _)).
  - simpl. unfold lupine_note_owner_route. by case_if.
Qed.

Lemma spared_run ops st base :
  run_ok st ops -> pointer_inv st -> Forall (spares base) ops ->
  recorded_at (routing_run ops st) base = recorded_at st base.
Proof.
  revert st. induction ops as [|op ops IH]; intros st; [done|]. intros [Hop Hops] Hinv [Ho Hsp]%Forall_cons. simpl.
  change (routing_run ops (routing_step st op)) with (foldl routing_step (routing_step st op) ops) in *.
  etransitivity; [apply IH; [done|by apply routing_step_inv|done]|by apply spared_step].
Qed.

(** Every address of a recorded range resolves to the range's route. *)
Lemma recorded_routes st base r q :
  pointer_inv st -> recorded_at st base = Some r -> base <= q < base + alloc_size r ->
  lupine_route_for_deviceptr q st = (lupine_route_from_identity (alloc_route_id r), st).
Proof.
  intros [Ha Hr Hw Hd] Hrec Hq. unfold lupine_route_for_deviceptr.
  pose proof (inv_sorted _ Ha) as Hs. apply om_find_elem in Hrec; [|done].
  pose proof (inv_entries _ Ha) as Hok. rewrite Forall_forall in Hok, Hr.
  pose proof (Hok _ Hrec) as [??]. pose proof (Hr _ Hrec). simpl in *.
  assert (forall e, e ∈ allocations (allocation_cache st) -> contains q e = true ->
    alloc_route_id e.2 = alloc_route_id r) as Hsame.
  { intros e He Hc. unfold contains in Hc. breflect. apply (Hd e (base, r)); [done..|].
    unfold meets. simpl. apply andb_true_iff. split; apply Z.ltb_lt; lia. }
  destruct (owners st !! (CUdeviceptr, q)) as [o|] eqn:Ho.
  - rewrite <- (Hw q o (base, r) Ho Hrec); [done|]. unfold contains. simpl.
    rewrite (proj2 (Z.leb_le _ _)), (proj2 (Z.ltb_lt _ _)) by lia. done.
  - rewrite cache_lookup_spec by (done || unfold is_u64; lia). unfold reference_lookup.
    destruct (last (List.filter (contains q) _)) as [e|] eqn:Hlast.
    + apply last_Some in Hlast as [l' Hl'].
      assert (e ∈ List.filter (contains q) (allocations (allocation_cache st))) as He
        by (rewrite Hl'; apply elem_of_app; right; by left).
      apply list_elem_of_In, List.filter_In in He as [He Hc]. apply list_elem_of_In in He.
      by rewrite (Hsame _ He Hc).
    + apply last_None in Hlast. exfalso.
      assert ((base, r) ∈ List.filter (contains q) (allocations (allocation_cache st))) as Hin.
      { apply list_elem_of_In, List.filter_In. split; [by apply list_elem_of_In|].
        unfold contains. simpl. rewrite (proj2 (Z.leb_le _ _)), (proj2 (Z.ltb_lt _ _)) by lia.
        done. }
      rewrite Hlast in Hin. by apply not_elem_of_nil in Hin.
Qed.

(** * The retry loop *)

(** The bytes that allocations of other routes hold. *)
Definition foreign_bytes (id : Z) (l : deviceptr_allocations) : list Z :=
  flat_map (fun e => if alloc_route_id e.2 =? id then [] else seqZ e.1 (alloc_size e.2)) l.

Lemma foreign_byte base size id l :
  0 < size -> Forall entry_ok l ->
  existsb (fun e => meets base size e && negb (alloc_route_id e.2 =? id)) l = true ->
  exists b, b ∈ foreign_bytes id l /\ base <= b < base + size.
Proof.
  intros Hsz Hok (e&He&Hm)%existsb_exists. unfold meets in Hm. breflect.
  rewrite Forall_forall in Hok. pose proof (Hok e ltac:(by apply list_elem_of_In)) as [??].
  exists (Z.max base e.1). split; [|lia]. apply list_elem_of_In, in_flat_map. exists e.
  split; [done|]. rewrite (proj2 (Z.eqb_neq _ _)) by done.
  apply list_elem_of_In, elem_of_seqZ. lia.
Qed.

(** Pairwise disjoint ranges that each hold a byte of [pool] are no more than
    the bytes of [pool]. *)
Lemma disjoint_ranges_bound (pool : list Z) (a : nat -> Z) size n :
  (forall i j, (i < n)%nat -> (j < n)%nat -> i <> j ->
     a i + size <= a j \/ a j + size <= a i) ->
  (forall i, (i < n)%nat -> exists b, b ∈ pool /\ a i <= b < a i + size) ->
  (n <= length pool)%nat.
Proof.
  intros Hdis Hb.
  assert (exists bs, length bs = n /\ NoDup bs /\ (forall b, b ∈ bs -> b ∈ pool) /\
    forall k b, bs !! k = Some b -> a k <= b < a k + size) as (bs&<-&Hnd&Hin&_).
  { induction n as [|n IH].
    { exists []. split_and!; [done|constructor|by intros b ?%not_elem_of_nil|done]. }
    destruct IH as (bs&Hlen&Hnd&Hin&Hk); [intros; apply Hdis; lia|intros; apply Hb; lia|].
    destruct (Hb n ltac:(lia)) as (b&Hbp&Hbr). exists (bs ++ [b]). split_and!.
    - rewrite length_app. simpl. lia.
    - apply NoDup_app. split_and!; [done| |apply NoDup_singleton].
      intros x [k Hx]%list_elem_of_lookup ->%list_elem_of_singleton.
      pose proof (lookup_lt_Some _ _ _ Hx). pose proof (Hk _ _ Hx).
      destruct (Hdis k n ltac:(lia) ltac:(lia) ltac:(lia)); lia.
    - intros x [Hx| ->%list_elem_of_singleton]%elem_of_app; auto.
    - intros k x Hx. apply lookup_app_Some in Hx as [Hx|[Hge Hx]]; [by apply Hk|].
      apply list_lookup_singleton_Some in Hx as [Hz <-].
      replace k with n by lia. done. }
  apply NoDup_incl_length; [by apply NoDup_ListNoDup|].
  intros b Hb'%list_elem_of_In. by apply list_elem_of_In, Hin.
Qed.

(** One test of the loop, with a valid route. *)
Lemma note_disjoint_cases ptr size route st :
  alloc_inv (allocation_cache st) -> 0 < ptr -> 0 < size -> ptr + size < 2 ^ 64 ->
  -1 <= lupine_route_identity route ->
  let id := lupine_route_identity route in
  let blocked := existsb (fun e => meets ptr size e && negb (alloc_route_id e.2 =? id))
                   (allocations (allocation_cache st)) in
  lupine_note_disjoint_deviceptr_allocation ptr size route st =
  if blocked then (false, st)
  else (true, lupine_note_deviceptr_allocation_owner_locked ptr size id (current_context st) st).
Proof.
  intros Ha Hp Hs He Hid id blocked. unfold lupine_note_disjoint_deviceptr_allocation.
  rewrite (proj2 (Z.eqb_neq _ _)), (proj2 (Z.ltb_ge _ _)) by lia. simpl.
  by rewrite cache_overlaps_spec by (done || unfold is_u64; lia).
Qed.

(** When the loop runs out of fuel every address it saw was blocked. *)
Lemma disjoint_loop_spec fuel again n size route st (a : nat -> Z) (r : nat -> Z) :
  alloc_inv (allocation_cache st) -> 0 < size -> -1 <= lupine_route_identity route ->
  (forall i st', (again i st').1 = (r (S i), a (S i)) /\
     allocation_cache (again i st').2 = allocation_cache st') ->
  (forall i, (n <= i <= n + fuel)%nat -> 0 < a i /\ a i + size < 2 ^ 64) ->
  let id := lupine_route_identity route in
  let blocked p := existsb (fun e => meets p size e && negb (alloc_route_id e.2 =? id))
                     (allocations (allocation_cache st)) in
  match disjoint_loop fuel again n (r n) (a n) size route st with
  | None => forall i, (n <= i <= n + fuel)%nat -> blocked (a i) = true
  | Some (result, ptr, st') =>
      result = CUDA_SUCCESS ->
      blocked ptr = false /\ 0 < ptr /\
      exists context, recorded_at st' ptr = Some (AllocRecord size id context)
  end.
Proof.
  intros Ha Hsz Hid Hagain Hr id. revert n st Ha Hr.
  induction fuel as [|fuel IH]; intros n st Ha Hr blocked; cbn [disjoint_loop];
    (destruct (r n =? CUDA_SUCCESS) eqn:Er; breflect; cbn [negb]; [|done]);
    destruct (Hr n ltac:(lia)) as [Hp He];
    rewrite note_disjoint_cases by (done || lia); fold id; fold (blocked (a n));
    (destruct (blocked (a n)) eqn:Eb;
      [|intros _; split_and!; [done|done|]; exists (current_context st);
        cbn [lupine_note_deviceptr_allocation_owner_locked set_allocation_cache set_owners
             allocation_cache];
        rewrite cache_insert_spec by (done || lia); cbn [allocations];
        rewrite om_find_set by apply Ha; by rewrite Z.eqb_refl]).
  - intros i Hi. by replace i with n by lia.
  - destruct (Hagain n (set_allocating_again true st)) as [Heq Hc].
    destruct (again n (set_allocating_again true st)) as [[r' a'] st'].
    cbn [fst snd] in Heq, Hc. injection Heq as -> ->. cbn [allocation_cache] in Hc.
    specialize (IH (S n) (set_allocating_again false st')).
    cbn [set_allocating_again allocation_cache] in IH, Hc. rewrite Hc in IH.
    specialize (IH Ha ltac:(intros; apply Hr; lia)). cbn zeta in IH.
    fold (set_allocating_again false st') in IH.
    destruct (disjoint_loop fuel again (S n) _ _ _ _ _) as [[[? ?] ?]|]; [done|].
    intros i Hi. destruct (decide (i = n)) as [->|]; [done|]. apply IH. lia.
Qed.

(** * The current context of a lane *)

(** The counter starts at 1 and the caches have one entry per slot. *)
Definition lanes_ok (c : context_caches) : Prop :=
  lane_context_cache_epoch c <> 0 /\ length (lane_context_cache c) = kLaneContextCacheSlots.

Lemma lane_slot_range id slot :
  lane_context_cache_entry_for id = Some slot -> (slot < kLaneContextCacheSlots)%nat.
Proof.
  unfold lane_context_cache_entry_for. case_if; [done|]. intros [= <-].
  change (Z.of_nat kLaneContextCacheSlots - 1) with (Z.ones 5).
  rewrite Z.land_ones by lia. unfold kLaneContextCacheSlots.
  pose proof (Z.mod_pos_bound (wrap64 id) (2 ^ 5) ltac:(lia)). lia.
Qed.

(** A successful set leaves the lane cached at the context. *)
Lemma set_current_binds route ctx st :
  lanes_ok (caches st) -> -1 <= lupine_route_identity route ->
  (lupine_set_current_context_on_route route ctx st).1 = CUDA_SUCCESS ->
  kind route <> LUPINE_ROUTE_INVALID ->
  let st' := (lupine_set_current_context_on_route route ctx st).2 in
  lupine_lane_context_cache_matches (lupine_route_identity route) ctx (caches st') = true.
Proof.
  intros [He Hlen] Hid. unfold lupine_set_current_context_on_route.
  case_if; [done|]. case_if; [done|]. cbn [fst snd caches set_caches]. intros Hres _.
  rewrite Hres, Z.eqb_refl.
  destruct (lane_context_cache_entry_for (lupine_route_identity route)) as [slot|] eqn:Hs.
  2:{ unfold lane_context_cache_entry_for in Hs. case_if_in Hs; [lia|done]. }
  pose proof (lane_slot_range _ _ Hs) as Hr. rewrite <- Hlen in Hr.
  destruct (lookup_lt_is_Some_2 _ _ Hr) as [entry Hentry].
  unfold lupine_lane_context_cache_update, lupine_lane_context_cache_matches.
  rewrite Hs. cbn [lupine_note_device_binding_changed set_lanes lane_context_cache
    lane_context_cache_epoch lupine_lane_context_cache_epoch].
  rewrite list_lookup_fmap, Hentry. cbn [fmap option_fmap option_map].
  unfold lupine_lane_context_cache_epoch. rewrite Z.eqb_refl. cbn [negb orb].
  cbn [set_lanes lane_context_cache lane_context_cache_epoch].
  rewrite list_lookup_insert_eq by (by rewrite length_fmap).
  cbn [lane_route_id lane_context lane_epoch]. by rewrite !Z.eqb_refl.
Qed.

(** A failed set leaves no lane of the thread cached. *)
Lemma set_current_failure_unbinds route ctx st id c :
  lanes_ok (caches st) -> kind route <> LUPINE_ROUTE_INVALID ->
  (lupine_set_current_context_on_route route ctx st).1 <> CUDA_SUCCESS ->
  lupine_lane_context_cache_matches id c
    (caches (lupine_set_current_context_on_route route ctx st).2) = false.
Proof.
  intros [He Hlen] Hk. unfold lupine_set_current_context_on_route.
  rewrite (proj2 (Z.eqb_neq _ _)) by done. case_if; [done|].
  cbn [fst snd caches set_caches]. intros Hres. rewrite (proj2 (Z.eqb_neq _ _)) by done.
  unfold lupine_lane_context_cache_matches.
  destruct (lane_context_cache_entry_for id) as [slot|]; [|done].
  set (cc := lupine_lane_context_cache_update _ _ _ _ _).
  assert (lane_context_cache_epoch cc = lane_context_cache_epoch (caches st) /\
    Forall (fun e => lane_epoch e = 0) (lane_context_cache cc)) as [Hep Hz].
  { subst cc. unfold lupine_lane_context_cache_update.
    assert (Forall (fun e => lane_epoch e = 0)
      (lane_context_cache (lupine_note_device_binding_changed (caches st)))) as H0
      by (simpl; by apply Forall_fmap, Forall_true).
    destruct (lane_context_cache_entry_for _) as [slot'|]; [|done].
    destruct (_ !! slot'); [|done]. cbn [negb orb]. case_if; [|done].
    split; [done|]. cbn [set_lanes lane_context_cache]. by apply Forall_insert. }
  destruct (lane_context_cache cc !! slot) as [e|] eqn:Hl; [|done].
  rewrite Forall_lookup in Hz. rewrite (Hz _ _ Hl), Hep.
  rewrite (proj2 (Z.eqb_neq 0 _)) by done. by rewrite andb_false_r.
Qed.

Lemma from_identity_valid id :
  kind (lupine_route_from_identity id) <> LUPINE_ROUTE_INVALID ->
  -1 <= lupine_route_identity (lupine_route_from_identity id).
Proof.
  unfold lupine_route_from_identity. case_if; [done|]. case_if; [|done].
  unfold lupine_thread_conn_by_index, rpc_client_get_connection,
    lupine_client_transport_connection.
  case_if; [done|]. case_if; [|done]. pose proof (Z.mod_pos_bound id (2 ^ 32) ltac:(lia)).
  assert (0 <= wrap32 id < lupine_client_transport_size) as Hi by (unfold wrap32 in *; lia).
  pose proof (transport_connection_nonnull _ Hi) as Hn.
  unfold lupine_remote_route_for_conn, lupine_route_identity, lupine_conn_index.
  apply Z.eqb_neq in Hn. rewrite Hn. cbn [kind conn]. rewrite Hn. intros _.
  rewrite transport_connection_index, rpc_size_eq by done. simpl.
  rewrite (proj2 (Z.leb_le 0 (wrap32 id))), (proj2 (Z.ltb_lt (wrap32 id) _)) by lia. simpl.
  rewrite (proj2 (Z.leb_le 0 _)) by lia. lia.
Qed.

Lemma known_owner_valid k h st :
  kind (lupine_route_for_known_owner k h st) <> LUPINE_ROUTE_INVALID ->
  -1 <= lupine_route_identity (lupine_route_for_known_owner k h st).
Proof.
  unfold lupine_route_for_known_owner. case_if; [done|].
  destruct (owners st !! (k, h)); [apply from_identity_valid|done].
Qed.

Definition hints_of (st : routing_state) : list Z :=
  [current_context st; default_context_hint st; global_default_context_hint st].

(** What neither a hint that fails nor one that succeeds changes. *)
Record same_hints (st st' : routing_state) : Prop := {
  sh_owners : owners st' = owners st;
  sh_default : default_context_hint st' = default_context_hint st;
  sh_global : global_default_context_hint st' = global_default_context_hint st;
}.

Lemma set_current_frame route ctx st :
  lanes_ok (caches st) ->
  let st' := (lupine_set_current_context_on_route route ctx st).2 in
  lanes_ok (caches st') /\ same_hints st st' /\ current_context st' = current_context st.
Proof.
  intros [He Hlen]. unfold lupine_set_current_context_on_route.
  case_if; [done|]. case_if; [done|]. cbn [snd]. split_and!; [|done|done].
  cbn [caches set_caches]. unfold lupine_lane_context_cache_update.
  assert (lanes_ok (lupine_note_device_binding_changed (caches st))) as Hb.
  { split; [done|]. simpl. by rewrite length_fmap. }
  destruct (lane_context_cache_entry_for _) as [slot|]; [|done].
  destruct (_ !! slot); [|done]. destruct Hb as [Hb1 Hb2].
  case_if; [case_if; [|done]|]; (split; [done|]); cbn [set_lanes lane_context_cache];
    by rewrite length_insert.
Qed.

Lemma default_hint_spec ctx st route st' :
  lanes_ok (caches st) ->
  lupine_route_for_default_context_hint ctx st = (route, st') ->
  lanes_ok (caches st') /\ same_hints st st' /\
  (kind route = LUPINE_ROUTE_INVALID -> current_context st' = current_context st) /\
  (kind route <> LUPINE_ROUTE_INVALID ->
   ctx <> 0 /\ route = lupine_route_for_known_owner CUcontext ctx st /\
   current_context st' = ctx /\
   lupine_lane_context_cache_matches (lupine_route_identity route) ctx (caches st') = true).
Proof.
  intros Hl. unfold lupine_route_for_default_context_hint.
  case_if; [by intros [= <- <-]|]. case_if; [by intros [= <- <-]|].
  set (rt := lupine_route_for_known_owner CUcontext ctx st) in *.
  assert (forall s, caches (lupine_accept_current_context_hint ctx s) = caches s /\
    same_hints s (lupine_accept_current_context_hint ctx s) /\
    current_context (lupine_accept_current_context_hint ctx s) = ctx) as Hacc.
  { intros s. unfold lupine_accept_current_context_hint. case_if; done. }
  destruct (lupine_lane_context_cache_matches _ ctx (caches st)) eqn:Em; simpl.
  - intros [= <- <-]. destruct (Hacc st) as (->&?&->). split_and!; done.
  - pose proof (set_current_frame rt ctx st Hl) as (Hl1&Hs1&Hc1).
    pose proof (set_current_binds rt ctx st Hl) as Hb.
    destruct (lupine_set_current_context_on_route rt ctx st) as [r st1]; simpl in *.
    destruct (r =? CUDA_SUCCESS) eqn:Er; breflect; simpl; intros [= <- <-].
    + destruct (Hacc st1) as (->&[Ho2 Hd2 Hg2]&->). destruct Hs1 as [Ho1 Hd1 Hg1].
      split_and!; [done|split; congruence|done|]. intros Hk. split_and!; try done.
      apply Hb; [by apply known_owner_valid|done|done].
    + split_and!; done.
Qed.

(** One of the three attempts of the default route. *)
Lemma try_hint_spec ctx st route st' :
  lanes_ok (caches st) ->
  (if negb (ctx =? 0) then lupine_route_for_default_context_hint ctx st
   else (invalid_route, st)) = (route, st') ->
  lanes_ok (caches st') /\ same_hints st st' /\
  (kind route = LUPINE_ROUTE_INVALID -> current_context st' = current_context st) /\
  (kind route <> LUPINE_ROUTE_INVALID ->
   ctx <> 0 /\ route = lupine_route_for_known_owner CUcontext ctx st /\
   current_context st' = ctx /\
   lupine_lane_context_cache_matches (lupine_route_identity route) ctx (caches st') = true).
Proof.
  intros Hl. case_if; [by apply default_hint_spec|]. intros [= <- <-]. done.
Qed.

Lemma known_owner_owners k h st st' :
  owners st' = owners st ->
  lupine_route_for_known_owner k h st' = lupine_route_for_known_owner k h st.
Proof. unfold lupine_route_for_known_owner. by intros ->. Qed.

Definition fallback_route : lupine_route :=
  if negb (lupine_thread_conn_by_index 0 =? 0)
  then lupine_remote_route_for_conn (lupine_thread_conn_by_index 0)
  else if lupine_local_cuda_available then lupine_local_route else invalid_route.

Lemma route_default_spec st :
  lanes_ok (caches st) ->
  let '(route, st') := lupine_route_for_default st in
  (exists ctx, ctx ∈ hints_of st /\ ctx <> 0 /\ kind route <> LUPINE_ROUTE_INVALID /\
     route = lupine_route_for_known_owner CUcontext ctx st /\ current_context st' = ctx /\
     lupine_lane_context_cache_matches (lupine_route_identity route) ctx (caches st') = true) \/
  (current_context st' = current_context st /\ route = fallback_route).
Proof.
  intros Hl. unfold lupine_route_for_default, hints_of.
  destruct (if negb (current_context st =? 0) then _ else _) as [r1 st1] eqn:H1.
  apply try_hint_spec in H1 as (Hl1&[Ho1 Hd1 Hg1]&Hc1&Hv1); [|done].
  case_if. { left. exists (current_context st). split; [by left|]. destruct (Hv1 ltac:(done)) as (?&?&?&?). done. }
  destruct (if negb (default_context_hint st1 =? 0) then _ else _) as [r2 st2] eqn:H2.
  apply try_hint_spec in H2 as (Hl2&[Ho2 Hd2 Hg2]&Hc2&Hv2); [|done].
  case_if.
  { left. exists (default_context_hint st). rewrite Hd1 in Hv2.
    rewrite (known_owner_owners _ _ _ _ Ho1) in Hv2. split; [right; by left|]. destruct (Hv2 ltac:(done)) as (?&?&?&?). done. }
  destruct (if negb (global_default_context_hint st2 =? 0) then _ else _) as [r3 st3] eqn:H3.
  apply try_hint_spec in H3 as (Hl3&[Ho3 Hd3 Hg3]&Hc3&Hv3); [|done].
  case_if.
  { left. exists (global_default_context_hint st). rewrite Hg2, Hg1 in Hv3.
    rewrite (known_owner_owners _ _ st st2) in Hv3 by congruence.
    split; [do 2 right; by left|]. destruct (Hv3 ltac:(done)) as (?&?&?&?). done. }
  unfold fallback_route.
  assert (current_context st3 = current_context st).
  { rewrite Hc3, Hc2, Hc1; auto. }
  case_if; right; done.
Qed.

(** * Theorems *)

(** Enumerating the fleet is all or nothing.  If every connection answers
    its count and each of its devices, the table becomes the local devices
    followed by every connection's devices in order, narrowed to
    CUDA_VISIBLE_DEVICES; if one answer is missing or an error, or there is no
    device at all, the call fails and the table is left empty and not ready, so
    a later call starts over. *)
Theorem device_table_enumerates (st : routing_state) (Hr : device_table_ready st = false) :
  match fleet_reference with
  | Some (d :: ds) =>
      lupine_ensure_device_table st =
      (CUDA_SUCCESS, set_device_table (lupine_apply_visible_devices (d :: ds)) true st)
  | _ => exists e, e <> CUDA_SUCCESS /\
      lupine_ensure_device_table st = (e, set_device_table [] false st)
  end.
Proof. by apply ensure_spec. Qed.

(** Translating a device location for a route and restoring it gives back an
    ordinal of the same device, and the very same ordinal whenever no device is
    listed twice; the table is enumerated on the way if it was not yet. *)
Theorem mem_location_roundtrip (route : lupine_route) (location location' : CUmemLocation)
    (st st' : routing_state) (Hok : table_ok st)
    (Hdev : location_type location = CU_MEM_LOCATION_TYPE_DEVICE)
    (Ht : lupine_translate_mem_location route location st = (CUDA_SUCCESS, location', st')) :
  exists j : nat,
    lupine_restore_mem_location route location' st' =
      (MemLocation CU_MEM_LOCATION_TYPE_DEVICE (Z.of_nat j), st') /\
    0 <= Z.of_nat j <= location_id location /\
    device_table st' !! j = device_table st' !! Z.to_nat (location_id location) /\
    (NoDup (device_table st') -> Z.of_nat j = location_id location).
Proof.
  revert Ht. unfold lupine_translate_mem_location. rewrite Hdev. simpl negb. cbn iota.
  destruct (lupine_route_for_device _ st) as [[dr dev] st1] eqn:Hd.
  case_if; [done|]. case_if; [done|]. case_if; [done|]. intros [= <- <-].
  apply route_for_device_spec in Hd as (He&Hpos&e&Hl&->&Hdr); [|done..].
  destruct (ensure_ok _ _ _ Hok He) as [_ [Hr Hwf]]; [done|].
  assert (lupine_route_identity route = if local e then -1 else conn_index e) as Hid.
  { unfold lupine_routes_share_server in *. breflect. subst dr.
    rewrite <- entry_route; [done|]. rewrite Forall_lookup in Hwf. by eapply Hwf. }
  destruct (virtual_device_for_entry st1 route _ e Hr Hwf Hl Hid) as (j&Hj&Hjl&Hv).
  exists j. unfold lupine_restore_mem_location. cbn [location_type location_id default].
  rewrite Z.eqb_refl. cbn [from_option id]. rewrite Hv. split_and!; [done|lia|lia|congruence|].
  intros Hnd. rewrite (NoDup_lookup _ _ _ _ Hnd Hjl Hl). lia.
Qed.

(** C34: once an allocation was recorded for a route, every address inside it
    resolves to that route until the allocation is forgotten or its base is
    recorded anew, whatever other allocations, owners, handles, hints, contexts and
    table refreshes come before and after it: recorded with the check for other
    routes, or without it where the range does not meet what another route has
    ([run_ok]).  An unchecked note on top of another route's allocation takes its
    addresses over ([unchecked_note_takes_over]). *)
Theorem pointer_routes_to_owner (before after : list routing_op) (ptr size q : Z)
    (route : lupine_route) (st1 := routing_run before initial_routing_state)
    (st2 := (lupine_note_disjoint_deviceptr_allocation ptr size route st1).2)
    (Hbefore : run_ok initial_routing_state before)
    (Hrecord : routing_op_ok st1 (OpRecord ptr size route))
    (Hafter : run_ok st2 after) (Hspare : Forall (spares ptr) after)
    (Hptr : 0 < ptr) (Hroute : -1 <= lupine_route_identity route)
    (Hacc : (lupine_note_disjoint_deviceptr_allocation ptr size route st1).1 = true)
    (Hq : ptr <= q < ptr + size) :
  let st := routing_run (before ++ OpRecord ptr size route :: after) initial_routing_state in
  lupine_route_for_deviceptr q st =
    (lupine_route_from_identity (lupine_route_identity route), st).
Proof.
  intros st. pose proof (routing_run_inv before _ Hbefore initial_pointer_inv) as H1.
  pose proof (record_inv ptr size route _ H1 Hrecord) as H2. fold st1 in H1. fold st2 in H2.
  destruct Hrecord as (_ & Hsize & Hend & _).
  assert (Hn : lupine_note_disjoint_deviceptr_allocation ptr size route st1 = (true, st2)).
  { unfold st2. destruct (lupine_note_disjoint_deviceptr_allocation ptr size route st1). simpl in Hacc. by subst. }
  destruct (record_accepted _ _ _ _ _ H1 Hptr Hsize Hend Hroute Hn) as (Hal&_&_&_).
  assert (st = routing_run after st2) as Hst.
  { subst st. unfold routing_run. rewrite foldl_app. done. }
  pose proof (spared_run after st2 ptr Hafter H2 Hspare) as Hrec.
  rewrite Hal, om_find_set, Z.eqb_refl in Hrec by apply H1. rewrite <- Hst in Hrec.
  apply (recorded_routes st ptr _ q) in Hrec; [done| |done].
  rewrite Hst. by apply routing_run_inv.
Qed.

(** The retry loop around an allocation that lands on another server's
    address range ends.  A server that keeps the colliding allocations hands
    out pairwise disjoint ranges, so at most as many repetitions as there are
    bytes held by other routes can collide; the loop then returns either the
    failure of a repetition or an address whose range meets no other route's
    allocation, recorded for this route. *)
Theorem disjoint_allocation_terminates (fuel : nat)
    (again : nat -> routing_state -> Z * Z * routing_state) (size : Z) (route : lupine_route)
    (st : routing_state) (a r : nat -> Z)
    (Hinv : alloc_inv (allocation_cache st)) (Hfirst : allocating_again st = false)
    (Hsize : 0 < size) (Hroute : -1 <= lupine_route_identity route)
    (Hagain : forall i st', (again i st').1 = (r (S i), a (S i)) /\
       allocation_cache (again i st').2 = allocation_cache st')
    (Hr0 : r O = CUDA_SUCCESS)
    (Hrange : forall i, (i <= fuel)%nat -> 0 < a i /\ a i + size < 2 ^ 64)
    (Hdis : forall i j, (i <= fuel)%nat -> (j <= fuel)%nat -> i <> j ->
       a i + size <= a j \/ a j + size <= a i)
    (Hfuel : (length (foreign_bytes (lupine_route_identity route)
                (allocations (allocation_cache st))) <= fuel)%nat) :
  exists result ptr st',
    lupine_record_disjoint_allocation fuel again (a O) size route st =
      Some (result, ptr, st') /\
    (result = CUDA_SUCCESS ->
     existsb (fun e => meets ptr size e
                       && negb (alloc_route_id e.2 =? lupine_route_identity route))
       (allocations (allocation_cache st)) = false /\
     exists context,
       recorded_at st' ptr = Some (AllocRecord size (lupine_route_identity route) context)).
Proof.
  unfold lupine_record_disjoint_allocation. rewrite Hfirst, <- Hr0.
  pose proof (disjoint_loop_spec fuel again 0 size route st a r Hinv Hsize Hroute Hagain) as Hs.
  specialize (Hs ltac:(intros; apply Hrange; lia)). cbn zeta in Hs.
  destruct (disjoint_loop fuel again 0 (r 0%nat) (a 0%nat) size route st)
    as [[[result ptr] st']|] eqn:Hl.
  - exists result, ptr, st'. split; [done|]. rewrite Hr0. intros Hok.
    destruct (Hs Hok) as (?&_&?). done.
  - exfalso.
    enough (S fuel <= length (foreign_bytes (lupine_route_identity route)
      (allocations (allocation_cache st))))%nat by lia.
    apply (disjoint_ranges_bound _ a size); [intros; apply Hdis; lia|].
    intros i Hi. apply foreign_byte; [done|apply Hinv|]. apply Hs. lia.
Qed.

(** When the default route is taken from a context hint, the hint is nonnull,
    its owner is known, it has become the thread's current context and the lane
    of the returned route is cached as bound to it, so the call that follows
    runs under the context that chose its server; otherwise the current context
    is untouched and the route is the first connection, the local driver or
    invalid, in that order. *)
Theorem default_route_binds_context (st : routing_state) (Hl : lanes_ok (caches st)) :
  let '(route, st') := lupine_route_for_default st in
  (exists ctx, ctx ∈ hints_of st /\ ctx <> 0 /\ kind route <> LUPINE_ROUTE_INVALID /\
     route = lupine_route_for_known_owner CUcontext ctx st /\ current_context st' = ctx /\
     lupine_lane_context_cache_matches (lupine_route_identity route) ctx (caches st') = true) \/
  (current_context st' = current_context st /\ route = fallback_route).
Proof. by apply route_default_spec. Qed.

End Laws.
End Routing.

(** * Witnesses *)

(** A client of two servers, with two devices and one, and one local device. *)
#[local] Instance two_servers : ClientEnv := {|
  rpc_open := 0;
  lupine_client_transport_size := 2;
  transport_connection := fun i => 1000 + i;
  logical_index := fun c => c - 1000;
  conn_va_size := fun _ => 4096;
  lupine_local_cuda_available := true;
  local_device_count := (0, 1);
  local_device_get := fun ordinal => (0, 7 + ordinal);
  local_device_uuid := fun _ => (0, replicate 16 1);
  local_set_current := fun _ => 0;
  remote_device_count := fun c => Some (1002 - c, 0);
  remote_device_get := fun _ ordinal => Some (ordinal, 0);
  remote_device_uuid := fun _ _ => None;
  remote_set_current := fun c ctx => if c =? 1000 then Some 0 else None;
  CUDA_VISIBLE_DEVICES := None;
|}.

#[local] Instance two_servers_laws : ClientEnvLaws two_servers.
Proof. split; simpl; lia. Qed.

Definition server_route (i : Z) : lupine_route := Route LUPINE_ROUTE_REMOTE (1000 + i).

Lemma device_table_enumerates_witness :
  lupine_ensure_device_table initial_routing_state =
  (CUDA_SUCCESS,
   set_device_table [DeviceTableEntry true 7 0 0; DeviceTableEntry false (-1) 0 0;
     DeviceTableEntry false (-1) 0 1; DeviceTableEntry false (-1) 1 0] true
     initial_routing_state).
Proof. exact (device_table_enumerates initial_routing_state eq_refl). Defined.

(** Ordinal 2 is device 1 of the first server. *)
Lemma mem_location_roundtrip_witness :
  let st := (lupine_ensure_device_table initial_routing_state).2 in
  lupine_translate_mem_location (server_route 0) (MemLocation 1 2) initial_routing_state =
    (CUDA_SUCCESS, MemLocation 1 1, st) /\
  exists j : nat,
    lupine_restore_mem_location (server_route 0) (MemLocation 1 1) st =
      (MemLocation CU_MEM_LOCATION_TYPE_DEVICE (Z.of_nat j), st) /\
    0 <= Z.of_nat j <= 2 /\ device_table st !! j = device_table st !! 2%nat /\
    (NoDup (device_table st) -> Z.of_nat j = 2).
Proof.
  split; [reflexivity|].
  refine (mem_location_roundtrip (server_route 0) (MemLocation 1 2) (MemLocation 1 1)
    initial_routing_state _ _ _ _); [done|reflexivity|reflexivity].
Defined.

Definition noise_before : list routing_op :=
  [OpRecord 4096 256 (server_route 1); OpEnsureTable; OpNoteOwner CUcontext 50 (server_route 0);
   OpNoteOwner CUdeviceptr 8256 (server_route 0); OpNoteConn 12288 64 1001].
Definition noise_after : list routing_op :=
  [OpRecord 8300 64 (server_route 0); OpRecord 8200 64 (server_route 1);
   OpNoteAllocation 8200 32 (server_route 0); OpNoteAllocation 16384 64 lupine_local_route; OpForget 4096;
   OpSetCurrent (server_route 0) 50; OpRouteDefault; OpMarkGreen 50; OpForgetEvent 3].

Lemma pointer_routes_to_owner_witness :
  let st := routing_run (noise_before ++ OpRecord 8192 128 (server_route 0) :: noise_after)
              initial_routing_state in
  lupine_route_for_deviceptr 8310 st = (server_route 0, st) /\
  lupine_route_for_deviceptr 8256 st = (server_route 0, st).
Proof.
  assert (H : forall q, 8192 <= q < 8320 ->
    let st := routing_run (noise_before ++ OpRecord 8192 128 (server_route 0) :: noise_after) initial_routing_state in
    lupine_route_for_deviceptr q st = (server_route 0, st)).
  { intros q Hq. refine (pointer_routes_to_owner noise_before noise_after 8192 128 q (server_route 0)
      _ _ _ _ _ _ _ _); try lia; try reflexivity.
    - apply run_okb_ok. vm_compute. reflexivity.
    - apply op_okb_ok. vm_compute. reflexivity.
    - apply run_okb_ok. vm_compute. reflexivity.
    - repeat constructor; simpl; lia.
    - vm_compute. discriminate. }
  split; apply H; lia.
Defined.

(** A note of the second server inside an allocation of the first. *)
Example unchecked_note_takes_over :
  let st := routing_run [OpRecord 8192 128 (server_route 0)] initial_routing_state in
  lupine_route_for_deviceptr 8210 st = (server_route 0, st) /\
  let st' := routing_step st (OpNoteAllocation 8200 32 (server_route 1)) in
  lupine_route_for_deviceptr 8210 st' = (server_route 1, st') /\
  (lupine_note_disjoint_deviceptr_allocation 8200 32 (server_route 1) st).1 = false.
Proof. vm_compute. done. Qed.

(** The second server holds [[100, 110)]; the first server's allocator walks up
    from 96 in steps of 16. *)
Definition held_state : routing_state :=
  routing_run [OpRecord 100 10 (server_route 1)] initial_routing_state.

Lemma disjoint_allocation_terminates_witness :
  exists result ptr st',
    lupine_record_disjoint_allocation 10
      (fun i st => (CUDA_SUCCESS, 96 + 16 * Z.of_nat (S i), st)) (96 + 16 * Z.of_nat 0) 16
      (server_route 0)
      held_state = Some (result, ptr, st') /\
    (result = CUDA_SUCCESS ->
     existsb (fun e => meets ptr 16 e
                       && negb (alloc_route_id e.2 =? lupine_route_identity (server_route 0)))
       (allocations (allocation_cache held_state)) = false /\
     exists context, om_find ptr (allocations (allocation_cache st')) =
       Some (AllocRecord 16 (lupine_route_identity (server_route 0)) context)).
Proof.
  apply (disjoint_allocation_terminates 10
    (fun i st => (CUDA_SUCCESS, 96 + 16 * Z.of_nat (S i), st)) 16 (server_route 0) held_state
    (fun i => 96 + 16 * Z.of_nat i) (fun _ => CUDA_SUCCESS)).
  - apply (cache_insert_inv 100 10 1 0 empty_allocation_cache);
      [apply empty_allocation_cache_inv|unfold is_u64; lia..].
  - reflexivity.
  - lia.
  - vm_compute. discriminate.
  - done.
  - reflexivity.
  - intros i Hi. lia.
  - intros i j Hi Hj Hij. lia.
  - vm_compute. lia.
Defined.

(** The thread's hint is a context of the first server that no lane has yet. *)
Definition hinted_state : routing_state :=
  set_current_hint 50 (lupine_note_owner CUcontext 50 1000 initial_routing_state).

Lemma default_route_binds_context_witness :
  lupine_lane_context_cache_matches 0 50 (caches hinted_state) = false /\
  let '(route, st') := lupine_route_for_default hinted_state in
  (exists ctx, ctx ∈ hints_of hinted_state /\ ctx <> 0 /\ kind route <> LUPINE_ROUTE_INVALID /\
     route = lupine_route_for_known_owner CUcontext ctx hinted_state /\
     current_context st' = ctx /\
     lupine_lane_context_cache_matches (lupine_route_identity route) ctx (caches st') = true) \/
  (current_context st' = current_context hinted_state /\ route = fallback_route).
Proof.
  split; [reflexivity|]. apply (default_route_binds_context hinted_state).
  split; [simpl; lia|reflexivity].
Defined.
