(* ===== verification/Ipc.v ===== *)
(** [ipc.cpp]: shareable CUDA handles.  The client gives the application a proxy
    file that carries a random token; the server's parent process brokers the
    real file descriptors between its forked children under that token.  Files
    are abstract names, a process is its descriptor table, and a socket message
    is the bytes of the struct with at most one file attached, as [sendmsg] and
    [recvmsg] with SCM_RIGHTS pass it. *)
From S2P Require Import Prelude.

(** * Descriptor tables *)

Abbreviation file := Z (only parsing).
Abbreviation fd_table := (gmap Z Z).

(** The lowest descriptor not in use, which is the one the kernel installs. *)
Fixpoint lowest_free (fuel : nat) (fd : Z) (t : fd_table) : Z :=
  match fuel with
  | O => fd
  | S fuel => match t !! fd with
              | Some _ => lowest_free fuel (fd + 1) t
              | None => fd
              end
  end.

Definition fresh_fd (t : fd_table) : Z := lowest_free (S (size t)) 0 t.

(** * Tokens *)

Abbreviation lupine_ipc_token := (list Z) (only parsing).
Definition token_size : nat := 16.

(** One answer of the entropy source: some bytes, an interruption, another
    error ([enosys] tells whether it is ENOSYS), or zero bytes. *)
Inductive entropy := Bytes (bs : list Z) | Interrupted | Failed (enosys : bool) | NoBytes.

(** The [getrandom] loop.  [inl] ends the whole function with that result;
    [inr] falls through to the device with nothing read.  [None] is an answer
    list that ends before the loop does. *)
Fixpoint getrandom_loop (answers : list entropy) (size : nat) (acc : list Z)
    : option ((Z * list Z) + unit) :=
  if (size <=? length acc)%nat then Some (inl (0, acc))
  else match answers with
       | [] => None
       | Bytes bs :: rest =>
           if (length bs =? 0)%nat then None
           else getrandom_loop rest size (acc ++ take (size - length acc) bs)
       | Interrupted :: rest => getrandom_loop rest size acc
       | Failed enosys :: _ =>
           if negb (length acc =? 0)%nat || negb enosys then Some (inl (-1, acc))
           else Some (inr tt)
       | NoBytes :: _ =>
           if negb (length acc =? 0)%nat then Some (inl (-1, acc)) else Some (inr tt)
       end.

(** The [/dev/urandom] loop; [closed] is whether [close] succeeds. *)
Fixpoint urandom_loop (answers : list entropy) (size : nat) (closed : bool) (acc : list Z)
    : option (Z * list Z) :=
  if (size <=? length acc)%nat then Some (if closed then 0 else -1, acc)
  else match answers with
       | [] => None
       | Bytes bs :: rest =>
           if (length bs =? 0)%nat then None
           else urandom_loop rest size closed (acc ++ take (size - length acc) bs)
       | Interrupted :: rest => urandom_loop rest size closed acc
       | Failed _ :: _ | NoBytes :: _ => Some (-1, acc)
       end.

Definition lupine_random_bytes (size : nat) (getrandom : list entropy) (opened : bool)
    (urandom : list entropy) (closed : bool) : option (Z * list Z) :=
  match getrandom_loop getrandom size [] with
  | None => None
  | Some (inl result) => Some result
  | Some (inr _) =>
      if negb opened then Some (-1, []) else urandom_loop urandom size closed []
  end.

(** [token] is whether the output pointer is non-null. *)
Definition lupine_ipc_make_token (token : bool) (getrandom : list entropy) (opened : bool)
    (urandom : list entropy) (closed : bool) : option (Z * list Z) :=
  if negb token then Some (-1, [])
  else lupine_random_bytes token_size getrandom opened urandom closed.

(** * Proxy files *)

Definition LUPINE_IPC_FD_MAGIC : Z := 0x4446454e4950554c.
Definition LUPINE_IPC_FD_VERSION : Z := 1.

Record lupine_ipc_fd_payload := FdPayload {
  payload_magic : Z;
  payload_version : Z;
  payload_kind : Z;
  payload_token : lupine_ipc_token;
}.

(** The 32-byte object image: the members have no padding between them. *)
Definition payload_size : nat := 32.

Definition payload_bytes (p : lupine_ipc_fd_payload) : list Z :=
  le_bytes 8 (payload_magic p) ++ le_bytes 4 (payload_version p) ++
  le_bytes 4 (payload_kind p) ++ payload_token p.

Definition payload_of_bytes (bs : list Z) : lupine_ipc_fd_payload :=
  FdPayload (le_val (take 8 bs)) (le_val (take 4 (drop 8 bs)))
    (le_val (take 4 (drop 12 bs))) (take 16 (drop 16 bs)).

(** A process with files it can read and write through its descriptors: the
    table and the contents of each file. *)
Record file_system := FileSystem {
  fs_fds : fd_table;
  fs_contents : gmap Z (list Z);
}.

(** [memfd_create] or [mkstemp] gives a new empty file; [created] is [None]
    when both fail. *)
Definition lupine_temporary_proxy_fd (created : option file) (fs : file_system)
    : Z * file_system :=
  match created with
  | None => (-1, fs)
  | Some f =>
      let fd := fresh_fd (fs_fds fs) in
      (fd, FileSystem (<[fd := f]> (fs_fds fs)) (<[f := []]> (fs_contents fs)))
  end.

(** [pwrite] at offset 0 of a new file stores the first [written] bytes. *)
Definition lupine_ipc_create_proxy_fd (kind : Z) (token : option lupine_ipc_token)
    (out_fd : bool) (created : option file) (written : nat) (fs : file_system)
    : Z * option Z * file_system :=
  match token with
  | None => (-1, None, fs)
  | Some token =>
      if negb out_fd then (-1, None, fs)
      else
        let '(fd, fs) := lupine_temporary_proxy_fd created fs in
        if fd <? 0 then (-1, None, fs)
        else
          let image := payload_bytes
            (FdPayload LUPINE_IPC_FD_MAGIC LUPINE_IPC_FD_VERSION kind token) in
          let fs := FileSystem (fs_fds fs)
            (match fs_fds fs !! fd with
             | Some f => <[f := take written image]> (fs_contents fs)
             | None => fs_contents fs
             end) in
          if negb (Z.of_nat (length (take written image)) =? Z.of_nat payload_size)
          then (-1, None, FileSystem (delete fd (fs_fds fs)) (fs_contents fs))
          else (0, Some fd, fs)
  end.

(** [pread] of 32 bytes at offset 0; an unknown descriptor is an error. *)
Definition lupine_ipc_read_proxy_fd (fd : Z) (out : bool) (fs : file_system)
    : Z * option (Z * lupine_ipc_token) :=
  if (fd <? 0) || negb out then (-1, None)
  else match fs_fds fs !! fd ≫= (fun f => fs_contents fs !! f) with
       | None => (-1, None)
       | Some contents =>
           let bs := take payload_size contents in
           let payload := payload_of_bytes bs in
           if negb (Z.of_nat (length bs) =? Z.of_nat payload_size)
              || negb (payload_magic payload =? LUPINE_IPC_FD_MAGIC)
              || negb (payload_version payload =? LUPINE_IPC_FD_VERSION)
           then (-1, None)
           else (0, Some (payload_kind payload, payload_token payload))
       end.

(** * Broker messages *)

Definition LUPINE_IPC_BROKER_REGISTER : Z := 1.
Definition LUPINE_IPC_BROKER_GET : Z := 2.

Record lupine_ipc_broker_msg := BrokerMsg {
  cmd : Z;
  msg_kind : Z;
  status : Z;
  reserved : Z;
  msg_token : lupine_ipc_token;
}.

Definition zero_msg : lupine_ipc_broker_msg := BrokerMsg 0 0 0 0 (replicate token_size 0).

Definition msg_size : nat := 32.

Definition msg_bytes (m : lupine_ipc_broker_msg) : list Z :=
  le_bytes 4 (cmd m) ++ le_bytes 4 (msg_kind m) ++ le_bytes 4 (status m) ++
  le_bytes 4 (reserved m) ++ msg_token m.

Definition msg_of_bytes (bs : list Z) : lupine_ipc_broker_msg :=
  BrokerMsg (le_val (take 4 bs)) (le_val (take 4 (drop 4 bs)))
    (sint32 (le_val (take 4 (drop 8 bs)))) (le_val (take 4 (drop 12 bs)))
    (take 16 (drop 16 bs)).

(** The map key of the parent: the object bytes of the kind, then the token. *)
Definition lupine_ipc_key (kind : Z) (token : lupine_ipc_token) : list Z :=
  le_bytes 4 kind ++ token.

(** What travels on a socket. *)
Abbreviation packet := (list Z * option file)%type.

(** The file a non-negative descriptor names is attached; [sendmsg] fails on a
    descriptor that is not open ([EBADF]) or when the socket refuses ([ok]).
    Interruptions retry. *)
Definition lupine_send_broker_msg (ok : bool) (m : lupine_ipc_broker_msg) (fd : Z)
    (t : fd_table) : Z * option packet :=
  if negb ok then (-1, None)
  else if 0 <=? fd then
    match t !! fd with
    | Some f => (0, Some (msg_bytes m, Some f))
    | None => (-1, None)
    end
  else (0, Some (msg_bytes m, None)).

(** The kernel installs the attached file at a free descriptor.  [None] is a
    socket that is closed or fails. *)
Definition lupine_recv_broker_msg (incoming : option packet) (t : fd_table)
    : Z * lupine_ipc_broker_msg * fd_table :=
  match incoming with
  | None => (-1, zero_msg, t)
  | Some (bs, attached) =>
      let '(fd, t) := match attached with
                      | Some f => (fresh_fd t, <[fresh_fd t := f]> t)
                      | None => (-1, t)
                      end in
      if negb (Z.of_nat (length bs) =? Z.of_nat msg_size) then (-1, zero_msg, t)
      else (fd, msg_of_bytes bs, t)
  end.

Definition close_fd (fd : Z) (t : fd_table) : fd_table := delete fd t.

(** * A child: one exchange with the parent *)

Record broker_child := BrokerChild {
  child_fds : fd_table;
  broker_fd : Z;
}.

Definition lupine_ipc_set_broker_fd (fd : Z) (c : broker_child) : broker_child :=
  BrokerChild (child_fds c) fd.

(** The parent as the child sees it: what it answers to a request, [None] when
    no answer arrives. *)
Definition lupine_ipc_broker_exchange (m : lupine_ipc_broker_msg) (fd : Z) (ok : bool)
    (parent : packet -> option packet) (c : broker_child)
    : Z * lupine_ipc_broker_msg * broker_child :=
  let failed := BrokerMsg 0 0 (-1) 0 (replicate token_size 0) in
  if broker_fd c <? 0 then (-1, failed, c)
  else match lupine_send_broker_msg ok m fd (child_fds c) with
       | (_, None) => (-1, failed, c)
       | (_, Some request) =>
           let '(reply_fd, reply, t) :=
             lupine_recv_broker_msg (parent request) (child_fds c) in
           (reply_fd, reply, BrokerChild t (broker_fd c))
       end.

Definition lupine_ipc_broker_register_fd (kind : Z) (token : option lupine_ipc_token) (fd : Z)
    (ok : bool) (parent : packet -> option packet) (c : broker_child) : Z * broker_child :=
  match token with
  | None => (-1, c)
  | Some token =>
      if fd <? 0 then (-1, c)
      else
        let m := BrokerMsg LUPINE_IPC_BROKER_REGISTER kind 0 0 token in
        let '(reply_fd, reply, c) := lupine_ipc_broker_exchange m fd ok parent c in
        let c := if 0 <=? reply_fd
                 then BrokerChild (close_fd reply_fd (child_fds c)) (broker_fd c) else c in
        (if status reply =? 0 then 0 else -1, c)
  end.

Definition lupine_ipc_broker_get_fd (kind : Z) (token : option lupine_ipc_token)
    (ok : bool) (parent : packet -> option packet) (c : broker_child) : Z * broker_child :=
  match token with
  | None => (-1, c)
  | Some token =>
      let m := BrokerMsg LUPINE_IPC_BROKER_GET kind 0 0 token in
      let '(fd, reply, c) := lupine_ipc_broker_exchange m (-1) ok parent c in
      if negb (status reply =? 0) then
        (-1, if 0 <=? fd then BrokerChild (close_fd fd (child_fds c)) (broker_fd c) else c)
      else (fd, c)
  end.

Definition lupine_ipc_send_fd (ok : bool) (fd : Z) (t : fd_table) : Z * option packet :=
  lupine_send_broker_msg ok zero_msg fd t.

Definition lupine_ipc_recv_fd (incoming : option packet) (t : fd_table) : Z * fd_table :=
  let '(fd, _, t) := lupine_recv_broker_msg incoming t in (fd, t).

(** * The parent *)

Record broker_parent := BrokerParent {
  parent_fds : fd_table;
  broker_table : gmap (list Z) Z;
}.

(** One request from one child's socket; [ok] is whether the reply can be sent. *)
Definition lupine_ipc_broker_parent_handle (incoming : option packet) (ok : bool)
    (p : broker_parent) : Z * option packet * broker_parent :=
  let '(received_fd, m, t) := lupine_recv_broker_msg incoming (parent_fds p) in
  let key := lupine_ipc_key (msg_kind m) (msg_token m) in
  let reply s := BrokerMsg 0 (msg_kind m) s 0 (msg_token m) in
  if cmd m =? LUPINE_IPC_BROKER_REGISTER then
    if received_fd <? 0 then
      (lupine_send_broker_msg ok (reply (-1)) (-1) t, BrokerParent t (broker_table p))
    else
      let t := match broker_table p !! key with
               | Some existing => close_fd existing t
               | None => t
               end in
      (lupine_send_broker_msg ok (reply 0) (-1) t,
       BrokerParent t (<[key := received_fd]> (broker_table p)))
  else if cmd m =? LUPINE_IPC_BROKER_GET then
    match broker_table p !! key with
    | None => (lupine_send_broker_msg ok (reply (-1)) (-1) t, BrokerParent t (broker_table p))
    | Some found =>
        (lupine_send_broker_msg ok (reply 0) found t, BrokerParent t (broker_table p))
    end
  else
    (-1, None, BrokerParent (if 0 <=? received_fd then close_fd received_fd t else t)
                 (broker_table p)).

(** * The processes together *)

(** Every child reaches the same parent; requests of different children are
    served one at a time, and a child's exchange is atomic under its mutex. *)
Record broker_system := BrokerSystem {
  the_parent : broker_parent;
  children : gmap nat broker_child;
}.

Inductive broker_call :=
  | CallRegister (child : nat) (kind : Z) (token : lupine_ipc_token) (fd : Z)
  | CallGet (child : nat) (kind : Z) (token : lupine_ipc_token)
  (** anything else a child does to its own descriptors *)
  | ChildFds (child : nat) (t : fd_table).

(** The parent's side of an exchange: its reply, and its state afterwards. *)
Definition parent_reply (p : broker_parent) (request : packet) : option packet :=
  (lupine_ipc_broker_parent_handle (Some request) true p).1.2.

Definition parent_after (p : broker_parent) (request : option packet) : broker_parent :=
  match request with
  | Some request => (lupine_ipc_broker_parent_handle (Some request) true p).2
  | None => p
  end.

Definition broker_step (s : broker_system) (call : broker_call) : Z * broker_system :=
  match call with
  | CallRegister i kind token fd =>
      match children s !! i with
      | None => (-1, s)
      | Some c =>
          let request :=
            if (fd <? 0) || (broker_fd c <? 0) then None
            else (lupine_send_broker_msg true
                    (BrokerMsg LUPINE_IPC_BROKER_REGISTER kind 0 0 token) fd (child_fds c)).2 in
          let '(result, c') := lupine_ipc_broker_register_fd kind (Some token) fd true
                                 (parent_reply (the_parent s)) c in
          (result, BrokerSystem (parent_after (the_parent s) request)
                     (<[i := c']> (children s)))
      end
  | CallGet i kind token =>
      match children s !! i with
      | None => (-1, s)
      | Some c =>
          let request :=
            if broker_fd c <? 0 then None
            else (lupine_send_broker_msg true
                    (BrokerMsg LUPINE_IPC_BROKER_GET kind 0 0 token) (-1) (child_fds c)).2 in
          let '(result, c') := lupine_ipc_broker_get_fd kind (Some token) true
                                 (parent_reply (the_parent s)) c in
          (result, BrokerSystem (parent_after (the_parent s) request)
                     (<[i := c']> (children s)))
      end
  | ChildFds i t =>
      match children s !! i with
      | None => (0, s)
      | Some c => (0, BrokerSystem (the_parent s)
                        (<[i := BrokerChild t (broker_fd c)]> (children s)))
      end
  end.

Definition broker_run (calls : list broker_call) (s : broker_system) : broker_system :=
  foldl (fun s call => (broker_step s call).2) s calls.

(** * Descriptors *)

Lemma lowest_free_ge fuel fd t : fd <= lowest_free fuel fd t.
Proof.
  revert fd. induction fuel as [|fuel IH]; intros fd; simpl; [lia|].
  destruct (t !! fd); [|lia]. specialize (IH (fd + 1)). lia.
Qed.

(** Either the search stops at a free descriptor or it saw [fuel] used ones. *)
Lemma lowest_free_spec fuel fd t :
  t !! lowest_free fuel fd t = None \/
  forall i, fd <= i < fd + Z.of_nat fuel -> is_Some (t !! i).
Proof.
  revert fd. induction fuel as [|fuel IH]; intros fd; simpl; [right; lia|].
  destruct (t !! fd) eqn:Hfd; [|by left]. destruct (IH (fd + 1)) as [|Hall]; [by left|].
  right. intros i Hi. destruct (decide (i = fd)) as [->|]; [by eexists|]. apply Hall. lia.
Qed.

Lemma fresh_fd_spec t : t !! fresh_fd t = None /\ 0 <= fresh_fd t.
Proof.
  split; [|apply lowest_free_ge]. unfold fresh_fd.
  destruct (lowest_free_spec (S (size t)) 0 t) as [|Hall]; [done|exfalso].
  assert (list_to_set (seqZ 0 (Z.of_nat (S (size t)))) ⊆@{gset Z} dom t) as Hsub.
  { intros i Hi%elem_of_list_to_set%elem_of_seqZ. apply elem_of_dom, Hall. lia. }
  apply subseteq_size in Hsub. rewrite size_list_to_set, length_seqZ, size_dom in Hsub
    by apply NoDup_seqZ. lia.
Qed.

(** * Object images *)

Definition token_ok (token : lupine_ipc_token) : Prop :=
  length token = token_size /\ Forall is_byte token.

Definition msg_ok (m : lupine_ipc_broker_msg) : Prop :=
  is_u32 (cmd m) /\ is_u32 (msg_kind m) /\ is_int (status m) /\ is_u32 (reserved m) /\
  token_ok (msg_token m).

Lemma length_msg_bytes m : msg_ok m -> length (msg_bytes m) = msg_size.
Proof.
  intros (_&_&_&_&Hl&_). unfold msg_bytes. rewrite !length_app, !length_le_bytes, Hl. done.
Qed.

(** Fields of a concatenation, by their lengths. *)
Lemma take_field (n : nat) (z : Z) (rest : list Z) : take n (le_bytes n z ++ rest) = le_bytes n z.
Proof. by rewrite take_app_length' by (by rewrite length_le_bytes). Qed.

Lemma drop_field (n k : nat) (z : Z) (rest : list Z) :
  drop (n + k) (le_bytes n z ++ rest) = drop k rest.
Proof. by rewrite <- drop_drop, drop_app_length' by (by rewrite length_le_bytes). Qed.

Lemma msg_roundtrip m : msg_ok m -> msg_of_bytes (msg_bytes m) = m.
Proof.
  intros (Hc&Hk&Hs&Hr&Hl&_). destruct m as [c k s r t]. unfold msg_of_bytes, msg_bytes.
  cbn [cmd msg_kind status reserved msg_token] in *.
  rewrite take_field. rewrite (drop_field 4 0 c), drop_0, take_field.
  rewrite (drop_field 4 4 c), (drop_field 4 0 k), drop_0, take_field.
  rewrite (drop_field 4 8 c), (drop_field 4 4 k), (drop_field 4 0 s), drop_0, take_field.
  rewrite (drop_field 4 12 c), (drop_field 4 8 k), (drop_field 4 4 s), (drop_field 4 0 r), drop_0.
  rewrite sint32_le_bytes, !le_val_bytes4 by done. by rewrite take_ge by (by rewrite Hl).
Qed.

Lemma key_inj k1 t1 k2 t2 :
  is_u32 k1 -> is_u32 k2 -> lupine_ipc_key k1 t1 = lupine_ipc_key k2 t2 -> k1 = k2 /\ t1 = t2.
Proof.
  intros H1 H2 Heq. apply app_inj_1 in Heq as [Hk ->]; [|by rewrite !length_le_bytes].
  split; [|done]. by apply le_bytes_inj in Hk.
Qed.

(** * The registry the broker implements *)

(** The contract: a finite map from kind and token to the file last registered. *)
Abbreviation registry := (gmap (Z * list Z) Z).

(** The file a child's call offers, when it reaches the parent. *)
Definition offered (s : broker_system) (i : nat) (fd : Z) : option file :=
  c ← children s !! i;
  if (fd <? 0) || (broker_fd c <? 0) then None else child_fds c !! fd.

Definition registry_step (s : broker_system) (reg : registry) (call : broker_call) : registry :=
  match call with
  | CallRegister i kind token fd =>
      match offered s i fd with
      | Some f => <[(kind, token) := f]> reg
      | None => reg
      end
  | _ => reg
  end.

Fixpoint registry_run (calls : list broker_call) (s : broker_system) (reg : registry) : registry :=
  match calls with
  | [] => reg
  | call :: rest => registry_run rest (broker_step s call).2 (registry_step s reg call)
  end.

Definition call_ok (call : broker_call) : Prop :=
  match call with
  | CallRegister _ kind token _ | CallGet _ kind token => is_u32 kind /\ token_ok token
  | ChildFds _ _ => True
  end.

Record broker_inv (p : broker_parent) (reg : registry) : Prop := {
  bi_live : forall kind token f, reg !! (kind, token) = Some f ->
    is_u32 kind /\ exists fd,
      broker_table p !! lupine_ipc_key kind token = Some fd /\ 0 <= fd /\
      parent_fds p !! fd = Some f;
  bi_known : forall key fd, broker_table p !! key = Some fd ->
    exists kind token, key = lupine_ipc_key kind token /\ is_u32 kind /\
      is_Some (reg !! (kind, token));
  bi_distinct : forall key1 key2 fd, broker_table p !! key1 = Some fd ->
    broker_table p !! key2 = Some fd -> key1 = key2;
}.

Lemma broker_inv_lookup p reg kind token :
  broker_inv p reg -> is_u32 kind ->
  match reg !! (kind, token) with
  | Some f => exists fd, broker_table p !! lupine_ipc_key kind token = Some fd /\ 0 <= fd /\
      parent_fds p !! fd = Some f
  | None => broker_table p !! lupine_ipc_key kind token = None
  end.
Proof.
  intros [Hl Hk _] Hu. destruct (reg !! (kind, token)) as [f|] eqn:Hr; [by apply Hl|].
  destruct (broker_table p !! _) as [fd|] eqn:Ht; [|done].
  destruct (Hk _ _ Ht) as (k&t&He&Hu'&[f Hf]). apply key_inj in He as [-> ->]; [|done..].
  congruence.
Qed.

(** Receiving an attached file installs it beside the others. *)
Lemma recv_attached m f t :
  msg_ok m ->
  lupine_recv_broker_msg (Some (msg_bytes m, Some f)) t =
  (fresh_fd t, m, <[fresh_fd t := f]> t).
Proof.
  intros Hm. unfold lupine_recv_broker_msg. rewrite length_msg_bytes by done.
  by rewrite Z.eqb_refl, msg_roundtrip.
Qed.

Lemma recv_plain m t :
  msg_ok m -> lupine_recv_broker_msg (Some (msg_bytes m, None)) t = (-1, m, t).
Proof.
  intros Hm. unfold lupine_recv_broker_msg. rewrite length_msg_bytes by done.
  by rewrite Z.eqb_refl, msg_roundtrip.
Qed.

Lemma request_ok c kind token :
  is_u32 c -> is_u32 kind -> token_ok token -> msg_ok (BrokerMsg c kind 0 0 token).
Proof. intros ?? [??]. split_and!; simpl; try done; unfold is_u32, is_int; lia. Qed.

Lemma reply_ok kind token s :
  is_u32 kind -> token_ok token -> s = 0 \/ s = -1 -> msg_ok (BrokerMsg 0 kind s 0 token).
Proof. intros ? [??] ?. split_and!; simpl; try done; unfold is_u32, is_int; lia. Qed.

(** The parent on a registration. *)
Lemma parent_register p kind token f :
  is_u32 kind -> token_ok token ->
  let t := <[fresh_fd (parent_fds p) := f]> (parent_fds p) in
  lupine_ipc_broker_parent_handle
    (Some (msg_bytes (BrokerMsg LUPINE_IPC_BROKER_REGISTER kind 0 0 token), Some f)) true p =
  (0, Some (msg_bytes (BrokerMsg 0 kind 0 0 token), None),
   BrokerParent
     (match broker_table p !! lupine_ipc_key kind token with
      | Some existing => close_fd existing t
      | None => t
      end)
     (<[lupine_ipc_key kind token := fresh_fd (parent_fds p)]> (broker_table p))).
Proof.
  intros Hk Ht t. unfold lupine_ipc_broker_parent_handle.
  rewrite recv_attached by (apply request_ok; [by split|done..]).
  cbn [cmd msg_kind msg_token]. rewrite Z.eqb_refl.
  destruct (fresh_fd_spec (parent_fds p)) as [_ Hpos].
  rewrite (proj2 (Z.ltb_ge _ _)) by lia. done.
Qed.

(** The parent on a fetch: it only looks up. *)
Lemma parent_get p kind token :
  is_u32 kind -> token_ok token ->
  lupine_ipc_broker_parent_handle
    (Some (msg_bytes (BrokerMsg LUPINE_IPC_BROKER_GET kind 0 0 token), None)) true p =
  match broker_table p !! lupine_ipc_key kind token with
  | None => (0, Some (msg_bytes (BrokerMsg 0 kind (-1) 0 token), None), p)
  | Some found =>
      (lupine_send_broker_msg true (BrokerMsg 0 kind 0 0 token) found (parent_fds p), p)
  end.
Proof.
  intros Hk Ht. unfold lupine_ipc_broker_parent_handle.
  rewrite recv_plain by (apply request_ok; [by split|done..]).
  cbn [cmd msg_kind msg_token]. change (LUPINE_IPC_BROKER_GET =? LUPINE_IPC_BROKER_REGISTER) with false.
  rewrite Z.eqb_refl. destruct p as [t tab]. cbn [parent_fds broker_table].
  by destruct (tab !! lupine_ipc_key kind token).
Qed.

Lemma parent_register_inv p reg kind token f :
  broker_inv p reg -> is_u32 kind -> token_ok token ->
  broker_inv (lupine_ipc_broker_parent_handle
    (Some (msg_bytes (BrokerMsg LUPINE_IPC_BROKER_REGISTER kind 0 0 token), Some f)) true p).2
    (<[(kind, token) := f]> reg).
Proof.
  intros Hinv Hk Ht. rewrite parent_register by done. cbn [snd].
  destruct (fresh_fd_spec (parent_fds p)) as [Hfree Hpos].
  set (new := fresh_fd (parent_fds p)) in *.
  pose proof Hinv as [Hl Hkn Hd].
  assert (forall key fd, broker_table p !! key = Some fd -> fd <> new) as Hnew.
  { intros key fd Htab ->. destruct (Hkn _ _ Htab) as (k&t&->&Hu&[f' Hr]).
    destruct (Hl _ _ _ Hr) as (_&fd&Htab'&_&Hp). congruence. }
  split; cbn [broker_table parent_fds].
  - intros k t f'. destruct (decide ((k, t) = (kind, token))) as [[= -> ->]|Hne].
    + rewrite !lookup_insert_eq. intros [= <-]. split; [done|]. exists new.
      split_and!; [done|done|].
      destruct (broker_table p !! lupine_ipc_key kind token) as [old|] eqn:Hold;
        [|by rewrite lookup_insert_eq].
      unfold close_fd. rewrite lookup_delete_ne by (by eapply Hnew).
      by rewrite lookup_insert_eq.
    + rewrite lookup_insert_ne by congruence. intros Hr.
      destruct (Hl _ _ _ Hr) as (Hu&fd&Htab&Hfd&Hp). split; [done|]. exists fd.
      assert (lupine_ipc_key kind token <> lupine_ipc_key k t) as Hkey.
      { intros He. apply key_inj in He as [-> ->]; done. }
      rewrite lookup_insert_ne by done. split_and!; [done|done|].
      assert (<[new:=f]> (parent_fds p) !! fd = Some f') as Hin.
      { rewrite lookup_insert_ne; [done|]. apply not_eq_sym. by eapply Hnew. }
      destruct (broker_table p !! lupine_ipc_key kind token) as [old|] eqn:Hold; [|done].
      unfold close_fd. rewrite lookup_delete_ne; [done|]. intros ->.
      apply Hkey. by eapply Hd.
  - intros key fd Hkey. destruct (decide (key = lupine_ipc_key kind token)) as [->|Hne].
    + exists kind, token. rewrite lookup_insert_eq. split_and!; [done..|by eexists].
    + rewrite lookup_insert_ne in Hkey by done.
      destruct (Hkn _ _ Hkey) as (k&t&->&Hu&Hr). exists k, t. split_and!; [done..|].
      apply lookup_insert_is_Some'. by right.
  - intros key1 key2 fd.
    destruct (decide (key1 = lupine_ipc_key kind token)) as [->|H1],
      (decide (key2 = lupine_ipc_key kind token)) as [->|H2];
      rewrite ?lookup_insert_eq, ?lookup_insert_ne by done; [done| | |by apply Hd].
    + intros [= <-] Hc. by destruct (Hnew _ _ Hc).
    + intros Hc [= <-]. by destruct (Hnew _ _ Hc).
Qed.

(** A child's registration, end to end. *)
Lemma register_step s reg i c kind token fd f :
  broker_inv (the_parent s) reg -> is_u32 kind -> token_ok token ->
  children s !! i = Some c -> offered s i fd = Some f ->
  let '(result, s') := broker_step s (CallRegister i kind token fd) in
  result = 0 /\ broker_inv (the_parent s') (<[(kind, token) := f]> reg) /\
  children s' = <[i := c]> (children s).
Proof.
  intros Hinv Hk Ht Hc Hof. unfold offered in Hof. rewrite Hc in Hof. simpl in Hof.
  case_if_in Hof; [done|]. simpl. rewrite Hc.
  unfold lupine_ipc_broker_register_fd, lupine_ipc_broker_exchange, lupine_send_broker_msg.
  rewrite !(proj2 (Z.ltb_ge _ 0)), (proj2 (Z.leb_le 0 fd)) by lia. cbn [orb negb]. rewrite Hof.
  cbn [snd]. unfold parent_reply, parent_after.
  pose proof (parent_register_inv _ _ kind token f Hinv Hk Ht) as Hinv'.
  rewrite parent_register in * by done. cbn [fst snd] in *.
  rewrite recv_plain by (apply reply_ok; auto). cbn [status Z.leb Z.compare Z.eqb].
  split_and!; [done|done|]. by destruct c.
Qed.

(** A child's fetch, end to end. *)
Lemma get_step s reg i c kind token :
  broker_inv (the_parent s) reg -> is_u32 kind -> token_ok token ->
  children s !! i = Some c -> 0 <= broker_fd c ->
  let '(result, s') := broker_step s (CallGet i kind token) in
  the_parent s' = the_parent s /\
  match reg !! (kind, token) with
  | Some f =>
      0 <= result /\ child_fds c !! result = None /\
      children s' = <[i := BrokerChild (<[result := f]> (child_fds c)) (broker_fd c)]> (children s)
  | None => result = -1 /\ children s' = <[i := c]> (children s)
  end.
Proof.
  intros Hinv Hk Ht Hc Hb. simpl. rewrite Hc.
  unfold lupine_ipc_broker_get_fd, lupine_ipc_broker_exchange.
  rewrite !(proj2 (Z.ltb_ge _ 0)) by lia. cbn [lupine_send_broker_msg negb Z.leb Z.compare snd].
  unfold parent_reply, parent_after. rewrite parent_get by done.
  pose proof (broker_inv_lookup _ _ kind token Hinv Hk) as Hlook.
  destruct (reg !! (kind, token)) as [f|].
  - destruct Hlook as (fd&->&Hfd&Hp). cbn [fst snd].
    unfold lupine_send_broker_msg. rewrite (proj2 (Z.leb_le 0 fd)), Hp by lia. cbn [negb snd].
    rewrite recv_attached by (apply reply_ok; auto). cbn [status Z.eqb negb].
    destruct (fresh_fd_spec (child_fds c)). by split_and!.
  - rewrite Hlook. cbn [fst snd]. rewrite recv_plain by (apply reply_ok; auto).
    cbn [status Z.eqb negb Z.leb Z.compare]. split_and!; [done..|]. by destruct c.
Qed.

Lemma broker_step_inv s reg call :
  call_ok call -> broker_inv (the_parent s) reg ->
  broker_inv (the_parent (broker_step s call).2) (registry_step s reg call).
Proof.
  intros Hok Hinv. destruct call as [i kind token fd|i kind token|i t].
  - destruct Hok as [Hk Ht]. simpl registry_step.
    destruct (children s !! i) as [c|] eqn:Hc.
    2:{ unfold offered. simpl. by rewrite Hc. }
    destruct (offered s i fd) as [f|] eqn:Hof.
    + pose proof (register_step s reg i c kind token fd f Hinv Hk Ht Hc Hof) as Hs.
      destruct (broker_step s _). apply Hs.
    + unfold offered in Hof. rewrite Hc in Hof. simpl in Hof. cbn [broker_step]. rewrite Hc.
      destruct (lupine_ipc_broker_register_fd _ _ _ _ _ _) as [r c']. cbn [snd the_parent].
      case_if; [done|]. 
      unfold lupine_send_broker_msg. cbn [negb]. case_if; [by rewrite Hof|lia].
  - destruct Hok as [Hk Ht]. simpl registry_step.
    destruct (children s !! i) as [c|] eqn:Hc.
    2:{ simpl. by rewrite Hc. }
    destruct (decide (0 <= broker_fd c)) as [Hb|Hb].
    + pose proof (get_step s reg i c kind token Hinv Hk Ht Hc Hb) as Hs.
      destruct (broker_step s _) as [r s']. destruct Hs as [Hs _]. cbn [snd]. by rewrite Hs.
    + cbn [broker_step]. rewrite Hc, (proj2 (Z.ltb_lt (broker_fd c) 0)) by lia.
      by destruct (lupine_ipc_broker_get_fd _ _ _ _ _).
  - simpl. by destruct (children s !! i).
Qed.

Lemma broker_run_inv calls s reg :
  Forall call_ok calls -> broker_inv (the_parent s) reg ->
  broker_inv (the_parent (broker_run calls s)) (registry_run calls s reg).
Proof.
  intros Hok. revert s reg. induction Hok as [|call calls Hc _ IH]; intros s reg Hinv; [done|].
  simpl. by apply IH, broker_step_inv.
Qed.

(** * Theorems *)

(** C39: whatever registrations, fetches and descriptor changes any children of
    the server made before, a fetch by a connected child returns a new
    descriptor of that child for the file last registered under the kind and
    token, by any child, and -1 exactly when there is none; the parent never
    loses or mixes up a registered file when it replaces or closes others. *)
Theorem broker_returns_last_registration (calls : list broker_call) (s : broker_system)
    (i : nat) (c : broker_child) (kind : Z) (token : lupine_ipc_token)
    (Hcalls : Forall call_ok calls) (Hempty : broker_table (the_parent s) = ∅)
    (Hkind : is_u32 kind) (Htoken : token_ok token)
    (Hchild : children (broker_run calls s) !! i = Some c) (Hbroker : 0 <= broker_fd c) :
  let '(fd, s') := broker_step (broker_run calls s) (CallGet i kind token) in
  the_parent s' = the_parent (broker_run calls s) /\
  match registry_run calls s ∅ !! (kind, token) with
  | Some f =>
      0 <= fd /\ child_fds c !! fd = None /\
      children s' = <[i := BrokerChild (<[fd := f]> (child_fds c)) (broker_fd c)]>
                      (children (broker_run calls s))
  | None => fd = -1 /\ children s' = <[i := c]> (children (broker_run calls s))
  end.
Proof.
  apply get_step; [|done..]. apply broker_run_inv; [done|].
  split; intros *; rewrite ?Hempty, ?lookup_empty; done.
Qed.

Definition sample_token (b : Z) : lupine_ipc_token := replicate 16 b.

(** Child 0 registers two files, the second replacing the first, and child 1
    another one; child 1 then fetches what child 0 left. *)
Definition sample_calls : list broker_call :=
  [CallRegister 0 1 (sample_token 9) 3; CallRegister 1 1 (sample_token 8) 3;
   CallRegister 0 1 (sample_token 9) 4].

Definition sample_system : broker_system :=
  BrokerSystem (BrokerParent {[0 := 500; 1 := 501]} ∅)
    {[0%nat := BrokerChild {[3 := 70; 4 := 71]} 5; 1%nat := BrokerChild {[3 := 80]} 5]}.

Lemma sample_token_ok b : is_byte b -> token_ok (sample_token b).
Proof. intros Hb. split; [done|]. by apply Forall_replicate. Qed.

Lemma broker_returns_last_registration_witness :
  exists fd s',
    broker_step (broker_run sample_calls sample_system) (CallGet 1 1 (sample_token 9)) = (fd, s') /\
    0 <= fd /\ children s' !! 1%nat = Some (BrokerChild (<[fd := 71]> {[3 := 80]}) 5).
Proof.
  pose proof (broker_returns_last_registration sample_calls sample_system 1
    (BrokerChild {[3 := 80]} 5) 1 (sample_token 9)) as H.
  destruct (broker_step (broker_run sample_calls sample_system) (CallGet 1 1 (sample_token 9)))
    as [fd s']. exists fd, s'. destruct H as (_&Hr).
  - repeat constructor; simpl; try (unfold is_u32; lia); apply Forall_replicate; unfold is_byte; lia.
  - reflexivity.
  - unfold is_u32; lia.
  - apply sample_token_ok. unfold is_byte. lia.
  - vm_compute. reflexivity.
  - simpl. lia.
  - assert (registry_run sample_calls sample_system ∅ !! (1, sample_token 9) = Some 71) as He
      by (vm_compute; reflexivity).
    rewrite He in Hr. destruct Hr as (Hfd&_&->). split_and!; [done|done|].
    by rewrite lookup_insert_eq.
Defined.

(** A registration whose answer never arrives is reported as done: the reply
    buffer is zeroed when the parent's socket gives no whole message, and a zero
    status means success.  The child below is told 0 while nothing was
    registered; had the request not been sent at all the answer would be -1. *)
Theorem lost_reply_reports_success (kind : Z) (token : lupine_ipc_token) (c : broker_child)
    (fd f : Z) (Hb : 0 <= broker_fd c) (Hfd : 0 <= fd) (Hf : child_fds c !! fd = Some f) :
  lupine_ipc_broker_register_fd kind (Some token) fd true (fun _ => None) c = (0, c) /\
  lupine_ipc_broker_register_fd kind (Some token) fd false (fun _ => None) c = (-1, c).
Proof.
  unfold lupine_ipc_broker_register_fd, lupine_ipc_broker_exchange, lupine_send_broker_msg.
  rewrite !(proj2 (Z.ltb_ge _ 0)), (proj2 (Z.leb_le 0 fd)) by lia. cbn [negb]. rewrite Hf.
  cbn. by destruct c.
Qed.

Lemma lost_reply_reports_success_witness :
  lupine_ipc_broker_register_fd 1 (Some (sample_token 9)) 3 true (fun _ => None)
    (BrokerChild {[3 := 70]} 5) = (0, BrokerChild {[3 := 70]} 5) /\
  lupine_ipc_broker_register_fd 1 (Some (sample_token 9)) 3 false (fun _ => None)
    (BrokerChild {[3 := 70]} 5) = (-1, BrokerChild {[3 := 70]} 5).
Proof. apply (lost_reply_reports_success 1 (sample_token 9) _ 3 70); simpl; lia || reflexivity. Defined.

(** * Proxy files and tokens *)

Lemma payload_image kind token :
  is_u32 kind -> token_ok token ->
  let p := FdPayload LUPINE_IPC_FD_MAGIC LUPINE_IPC_FD_VERSION kind token in
  length (payload_bytes p) = payload_size /\ payload_of_bytes (payload_bytes p) = p.
Proof.
  intros Hk [Hl _] p. subst p. unfold payload_bytes, payload_of_bytes.
  cbn [payload_magic payload_version payload_kind payload_token]. split.
  { rewrite !length_app, !length_le_bytes, Hl. done. }
  rewrite take_field. rewrite (drop_field 8 0), drop_0, take_field.
  rewrite (drop_field 8 4), (drop_field 4 0), drop_0, take_field.
  rewrite (drop_field 8 8), (drop_field 4 4), (drop_field 4 0), drop_0.
  rewrite le_val_bytes8, !le_val_bytes4 by (done || by split).
  by rewrite take_ge by (by rewrite Hl).
Qed.

(** A proxy descriptor that was created reads back its kind and token, beside
    every other file of the process, and a descriptor in use is never reused. *)
Theorem proxy_fd_roundtrip (kind : Z) (token : lupine_ipc_token) (f : Z) (fs fs' : file_system)
    (fd : Z) (Hkind : is_u32 kind) (Htoken : token_ok token)
    (Hc : lupine_ipc_create_proxy_fd kind (Some token) true (Some f) payload_size fs =
          (0, Some fd, fs')) :
  lupine_ipc_read_proxy_fd fd true fs' = (0, Some (kind, token)) /\
  fs_fds fs !! fd = None.
Proof.
  revert Hc. unfold lupine_ipc_create_proxy_fd, lupine_temporary_proxy_fd.
  destruct (fresh_fd_spec (fs_fds fs)) as [Hfree Hpos]. cbn [negb].
  rewrite (proj2 (Z.ltb_ge _ 0)) by lia. cbn [fs_fds fs_contents]. rewrite lookup_insert_eq.
  destruct (payload_image kind token Hkind Htoken) as [Hlen Himg].
  set (image := payload_bytes _) in *. clearbody image.
  rewrite (take_ge image) by (by rewrite Hlen).
  case_if; [done|]. intros [= <- <-]. split; [|done].
  unfold lupine_ipc_read_proxy_fd. rewrite (proj2 (Z.ltb_ge _ 0)) by lia.
  cbn [orb negb fs_fds fs_contents]. rewrite lookup_insert_eq. cbn [mbind option_bind].
  rewrite lookup_insert_eq, take_ge by (by rewrite Hlen).
  by rewrite Hlen, Himg.
Qed.

(** When a token is made, all sixteen of its bytes came from one of the entropy
    sources, in order. *)
Definition given (answers : list entropy) : list Z :=
  flat_map (fun a => match a with Bytes bs => bs | _ => [] end) answers.

(** Bytes found in a chunk that was cut to size are bytes of the chunk. *)
Lemma chunk_given (acc chunk : list Z) (n : nat) (rest bs : list Z) :
  Forall (fun b => b ∈ (acc ++ take n chunk) ++ rest) bs ->
  Forall (fun b => b ∈ acc ++ chunk ++ rest) bs.
Proof.
  intros Hall. eapply Forall_impl; [exact Hall|]. simpl. intros b Hb.
  rewrite !elem_of_app in *. destruct Hb as [[Hb|Hb]|Hb]; [by left| |by do 2 right].
  apply elem_of_take in Hb as (j&Hj&_). right. left. by eapply list_elem_of_lookup_2.
Qed.

Lemma filled_given (size : nat) (acc rest : list Z) :
  (length acc <= size)%nat -> (size <=? length acc)%nat = true ->
  length acc = size /\ Forall (fun b => b ∈ acc ++ rest) acc.
Proof.
  intros Hle He%Nat.leb_le. split; [lia|]. apply Forall_forall. intros b Hb.
  apply elem_of_app. by left.
Qed.

Lemma getrandom_loop_spec answers size acc bs :
  (length acc <= size)%nat ->
  getrandom_loop answers size acc = Some (inl (0, bs)) ->
  length bs = size /\ Forall (fun b => b ∈ acc ++ given answers) bs.
Proof.
  revert acc. induction answers as [|a answers IH]; intros acc Hacc; simpl;
    (destruct (size <=? length acc)%nat eqn:E; [intros [= <-]; by apply filled_given|]); [done|].
  apply Nat.leb_gt in E. destruct a as [chunk| |enosys|]; simpl.
  - case_if; [done|]. intros Hl.
    apply IH in Hl as [? ?]; [|rewrite length_app, length_take; lia].
    split; [done|]. by eapply chunk_given.
  - by apply IH.
  - by case_if.
  - by case_if.
Qed.

Lemma urandom_loop_spec answers size closed acc bs :
  (length acc <= size)%nat ->
  urandom_loop answers size closed acc = Some (0, bs) ->
  length bs = size /\ Forall (fun b => b ∈ acc ++ given answers) bs.
Proof.
  revert acc. induction answers as [|a answers IH]; intros acc Hacc; simpl;
    (destruct (size <=? length acc)%nat eqn:E; [intros [= _ <-]; by apply filled_given|]); [done|].
  apply Nat.leb_gt in E. destruct a as [chunk| |enosys|]; simpl; [|by apply IH|done..].
  case_if; [done|]. intros Hl.
  apply IH in Hl as [? ?]; [|rewrite length_app, length_take; lia].
  split; [done|]. by eapply chunk_given.
Qed.

Lemma make_token_filled getrandom opened urandom closed bs :
  lupine_ipc_make_token true getrandom opened urandom closed = Some (0, bs) ->
  length bs = token_size /\
  (Forall (fun b => b ∈ given getrandom) bs \/ Forall (fun b => b ∈ given urandom) bs).
Proof.
  unfold lupine_ipc_make_token, lupine_random_bytes. cbn [negb].
  destruct (getrandom_loop getrandom token_size []) as [[[r bs']|u]|] eqn:Hg; [| |done].
  - intros [= -> ->]. apply getrandom_loop_spec in Hg as [? ?]; [|simpl; lia]. auto.
  - case_if; [done|]. intros Hu. apply urandom_loop_spec in Hu as [? ?]; [|simpl; lia]. auto.
Qed.
