(* ===== verification/Dispatch.v ===== *)
(** [dispatch.cpp] and [client_bundle.cpp]: what the server does with the first
    bytes of an accepted connection.  A socket is the bytes already queued and
    the events still to come; peeking leaves the queue alone.  Connections that
    open with the HTTP/2 preface go to the RPC session untouched, everything
    else is answered as one HTTP/1.x request. *)
From S2P Require Import Prelude VisibleDevices.

(** * Strings *)

Definition ch_cr : Z := 13.
Definition ch_lf : Z := 10.
Definition ch_colon : Z := 58.
Definition crlf : list Z := [ch_cr; ch_lf].

(** [std::string::find] of a pattern, from the start of the text. *)
Fixpoint find_sub (pattern text : list Z) : option nat :=
  if starts_with pattern text then Some O
  else match text with
       | [] => None
       | _ :: rest => S <$> find_sub pattern rest
       end.

(** * Sockets *)

(** [Quiet] is a pause of the peer that outlasts a poll. *)
Inductive socket_event := Arrive (bs : list Z) | Quiet | Interrupt | Fail.

Record socket := Socket {
  queue : list Z;
  future : list socket_event;
}.

(** Blocking for data on an empty queue. *)
Fixpoint await (events : list socket_event) : list Z * list socket_event :=
  match events with
  | Arrive [] :: rest | Quiet :: rest => await rest
  | Arrive bs :: rest => (bs, rest)
  | _ => ([], events)
  end.

Definition blocked_read (s : socket) : socket :=
  match queue s with
  | [] => let '(q, f) := await (future s) in Socket q f
  | _ => s
  end.

(** The result of a socket read; [Received []] is the end of the stream. *)
Inductive received := Received (bs : list Z) | Interrupted | Failed.

Definition peek_bytes (size : nat) (s : socket) : received * socket :=
  let s := blocked_read s in
  match queue s, future s with
  | [], Interrupt :: rest => (Interrupted, Socket [] rest)
  | [], Fail :: rest => (Failed, Socket [] rest)
  | q, _ => (Received (take size q), s)
  end.

Definition lupine_socket_recv (size : nat) (s : socket) : received * socket :=
  match peek_bytes size s with
  | (Received bs, s) => (Received bs, Socket (drop size (queue s)) (future s))
  | other => other
  end.

(** Ten milliseconds pass: at most one event happens, and an interruption does
    not cut the sleep short. *)
Definition sleep (s : socket) : socket :=
  match future s with
  | Arrive bs :: rest => Socket (queue s ++ bs) rest
  | (Quiet | Interrupt) :: rest => Socket (queue s) rest
  | _ => s
  end.

(** * Writing *)

(** What the peer has been sent, and the results of the coming [sendv] calls
    (all further calls accept everything). *)
Record output := Output {
  sent : list Z;
  sendv_results : list Z;
}.

Fixpoint send_loop (results data out : list Z) : bool * output :=
  match data, results with
  | [], _ => (true, Output out results)
  | _, [] => (true, Output (out ++ data) [])
  | _, n :: rest =>
      if n <=? 0 then (false, Output out rest)
      else send_loop rest (drop (Z.to_nat n) data) (out ++ take (Z.to_nat n) data)
  end.

Definition send_all (data : list Z) (o : output) : bool * output :=
  send_loop (sendv_results o) data (sent o).

(** * Client bundles *)

(** A chunk is its bytes, [None] for a null data pointer. *)
Record lupine_client_bundle_payload := BundlePayload {
  etag : list Z;
  content_digest : list Z;
  chunks : list (option (list Z));
  bundle_size : Z;
}.

(** An entry's platform and payload pointers may be null. *)
Record lupine_client_bundle_entry := BundleEntry {
  entry_platform : option (list Z);
  entry_payload : option lupine_client_bundle_payload;
}.

Abbreviation lupine_client_bundle_registry := (list lupine_client_bundle_entry) (only parsing).

Definition kClientBundlePrefix : list Z := chars "/.well-known/lupine/client/v1/".
Definition kClientPlatforms : list (list Z) :=
  [chars "linux/amd64"; chars "linux/arm64"; chars "macos/amd64"; chars "macos/arm64";
   chars "windows/amd64"; chars "windows/arm64"].

Definition platform_supported (platform : list Z) : bool :=
  existsb (fun supported => bool_decide (platform = supported)) kClientPlatforms.

Fixpoint lookup_entries (entries : lupine_client_bundle_registry) (platform : list Z)
    : option lupine_client_bundle_payload :=
  match entries with
  | [] => None
  | entry :: rest =>
      match entry_platform entry, entry_payload entry with
      | Some p, Some payload =>
          if bool_decide (platform = p) then Some payload else lookup_entries rest platform
      | _, _ => lookup_entries rest platform
      end
  end.

Definition lupine_client_bundle_lookup (registry : option lupine_client_bundle_registry)
    (platform : list Z) : option lupine_client_bundle_payload :=
  match registry with
  | None => None
  | Some entries => lookup_entries entries platform
  end.

Definition lupine_client_bundle_request_platform (path : list Z) : option (list Z) :=
  if starts_with kClientBundlePrefix path then
    let candidate := drop (length kClientBundlePrefix) path in
    if platform_supported candidate then Some candidate else None
  else None.

(** * HTTP/1.x responses *)

Record rpc_http2_server_metadata := ServerMetadata {
  backend_version : option (list Z);
  client_bundles : option lupine_client_bundle_registry;
}.

Abbreviation http_header := (list Z * list Z)%type.

Definition header_line (h : http_header) : list Z := h.1 ++ chars ": " ++ h.2 ++ crlf.

Definition version_line (metadata : option rpc_http2_server_metadata) : list Z :=
  match metadata ≫= backend_version with
  | Some (c :: v) => header_line (chars "x-lupine-cuda-version", c :: v)
  | _ => []
  end.

Definition http1_headers (status : Z) (reason : list Z) (content_length : Z)
    (content_type : option (list Z)) (headers : list http_header)
    (metadata : option rpc_http2_server_metadata) : list Z :=
  chars "HTTP/1.1 " ++ decimal status ++ chars " " ++ reason ++ crlf ++
  version_line metadata ++
  (match content_type with
   | Some t => header_line (chars "content-type", t)
   | None => []
   end) ++
  flat_map header_line headers ++
  chars "content-length: " ++ decimal content_length ++ crlf ++
  chars "connection: close" ++ crlf ++ crlf.

Definition http1_response (status : Z) (reason body : list Z) (include_body : bool)
    (metadata : option rpc_http2_server_metadata) (headers : list http_header)
    (content_type : option (list Z)) : list Z :=
  http1_headers status reason (Z.of_nat (length body)) content_type headers metadata ++
  (if include_body then body else []).

Definition text_plain : option (list Z) := Some (chars "text/plain").

Fixpoint send_chunks (cs : list (option (list Z))) (count : Z) (o : output)
    : option Z * output :=
  match cs with
  | [] => (Some count, o)
  | None :: _ => (None, o)
  | Some data :: rest =>
      let '(ok, o) := send_all data o in
      if negb ok then (None, o) else send_chunks rest (wrap64 (count + Z.of_nat (length data))) o
  end.

Definition send_bundle (bundle : lupine_client_bundle_payload) (o : output) : bool * output :=
  match send_chunks (chunks bundle) 0 o with
  | (Some count, o) => (count =? bundle_size bundle, o)
  | (None, o) => (false, o)
  end.

Definition ascii_lower (value : list Z) : list Z := tolower <$> value.

(** The loop over the header lines; [text] is the request from [line_start] on. *)
Fixpoint header_loop (fuel : nat) (text wanted : list Z) : list Z :=
  match fuel with
  | O => []
  | S fuel =>
      match find_sub crlf text with
      | None | Some O => []
      | Some line_end =>
          let next := header_loop fuel (drop (line_end + 2) text) wanted in
          match find_sub [ch_colon] text with
          | None => next
          | Some colon =>
              if (colon <? line_end)%nat
                 && bool_decide (ascii_lower (take colon text) = wanted)
              then trim (take (line_end - (colon + 1)) (drop (colon + 1) text))
              else next
          end
      end
  end.

(** Every turn of the loop drops at least three bytes. *)
Definition request_header (request wanted : list Z) : list Z :=
  match find_sub crlf request with
  | None => []
  | Some line_end => header_loop (length request) (drop (line_end + 2) request) wanted
  end.

(** * Routes *)

Definition GET : list Z := chars "GET".
Definition HEAD : list Z := chars "HEAD".

Definition bundle_type : option (list Z) :=
  Some (chars "application/vnd.lupine.client-bundle.v1+zip").

Definition serve_client_bundle (method path request : list Z)
    (metadata : option rpc_http2_server_metadata) (o : output) : Z * output :=
  let head := bool_decide (method = HEAD) in
  if negb head && negb (bool_decide (method = GET)) then
    (1, (send_all (http1_response 405 (chars "Method Not Allowed")
                     (chars "method not allowed" ++ [ch_lf]) true metadata
                     [(chars "allow", chars "GET, HEAD")] text_plain) o).2)
  else
    match lupine_client_bundle_request_platform path with
    | None => (0, o)
    | Some platform =>
        match lupine_client_bundle_lookup (metadata ≫= client_bundles) platform with
        | None =>
            (1, (send_all (http1_response 503 (chars "Service Unavailable")
                             (chars "client bundle unavailable" ++ [ch_lf]) (negb head)
                             metadata [] text_plain) o).2)
        | Some bundle =>
            let headers := [(chars "etag", etag bundle);
                            (chars "content-digest", content_digest bundle);
                            (chars "cache-control", chars "no-cache")] in
            if bool_decide (request_header request (chars "if-none-match") = etag bundle) then
              let '(ok, o) := send_all (http1_headers 304 (chars "Not Modified") 0 None
                                          headers metadata) o in
              (if ok then 1 else -1, o)
            else
              let '(ok, o) := send_all (http1_headers 200 (chars "OK") (bundle_size bundle)
                                          bundle_type headers metadata) o in
              if negb ok then (-1, o)
              else if head then (1, o)
              else let '(ok, o) := send_bundle bundle o in (if ok then 1 else -1, o)
        end
    end.

Definition metrics_type : option (list Z) :=
  Some (chars "text/plain; version=0.0.4; charset=utf-8").

(** The part of [serve_http1] after the request has been read. *)
Definition serve_request (request : list Z) (metadata : option rpc_http2_server_metadata)
    (metrics : option (list Z)) (o : output) : Z * output :=
  let line := match find_sub crlf request with
              | Some n => take n request
              | None => request
              end in
  let bad_request :=
    (1, (send_all (http1_response 400 (chars "Bad Request") (chars "bad request" ++ [ch_lf])
                     true metadata [] text_plain) o).2) in
  match find_sub [ch_space] line with
  | None => bad_request
  | Some method_end =>
      match find_sub [ch_space] (drop (method_end + 1) line) with
      | None => bad_request
      | Some path_length =>
          let method := take method_end line in
          let path := take path_length (drop (method_end + 1) line) in
          let '(result, o) :=
            if starts_with kClientBundlePrefix path
            then serve_client_bundle method path request metadata o else (0, o) in
          if negb (result =? 0) then (result, o)
          else
            let head := bool_decide (method = HEAD) in
            let get := bool_decide (method = GET) in
            if bool_decide (path = chars "/") && (head || get) then
              (1, (send_all (http1_response 200 (chars "OK") (chars "lupine" ++ [ch_lf])
                               (negb head) metadata [] text_plain) o).2)
            else
              match metrics with
              | Some text =>
                  if get && (bool_decide (path = chars "/metrics")
                             || starts_with (chars "/metrics?") path)
                  then (1, (send_all (http1_response 200 (chars "OK") text true metadata []
                                        metrics_type) o).2)
                  else (1, (send_all (http1_response 404 (chars "Not Found")
                                        (chars "not found" ++ [ch_lf]) (negb head) metadata []
                                        text_plain) o).2)
              | None =>
                  (1, (send_all (http1_response 404 (chars "Not Found")
                                   (chars "not found" ++ [ch_lf]) (negb head) metadata []
                                   text_plain) o).2)
              end
      end
  end.

Definition kMaxHttp1RequestBytes : nat := (8 * 1024)%nat.

(** The read loop: [inl] is the result it returns early. *)
Fixpoint read_request (fuel : nat) (request : list Z) (s : socket)
    : option ((Z * socket) + (list Z * socket)) :=
  match find_sub (crlf ++ crlf) request with
  | Some _ => Some (inr (request, s))
  | None =>
      if (kMaxHttp1RequestBytes <=? length request)%nat then Some (inl (-1, s))
      else match fuel with
           | O => None
           | S fuel =>
               match lupine_socket_recv 1024 s with
               | (Interrupted, s) => read_request fuel request s
               | (Failed, s) | (Received [], s) => Some (inl (-1, s))
               | (Received chunk, s) => read_request fuel (request ++ chunk) s
               end
           end
  end.

Definition serve_http1 (fuel : nat) (metadata : option rpc_http2_server_metadata)
    (metrics : option (list Z)) (s : socket) (o : output) : option (Z * socket * output) :=
  match read_request fuel [] s with
  | None => None
  | Some (inl (result, s)) => Some (result, s, o)
  | Some (inr (request, s)) =>
      let '(result, o) := serve_request request metadata metrics o in Some (result, s, o)
  end.

(** * Protocol detection *)

Definition kH2Preface : list Z :=
  chars "PRI * HTTP/2.0" ++ crlf ++ crlf ++ chars "SM" ++ crlf ++ crlf.
Definition kH2PrefaceLength : nat := 24.

Definition lupine_h2_preface_check (data : list Z) : Z :=
  let compare := Nat.min (length data) kH2PrefaceLength in
  if negb (bool_decide (take compare data = take compare kH2Preface)) then -1
  else if (kH2PrefaceLength <=? length data)%nat then 1 else 0.

(** One turn of the detection loop: go on, answer, or hand over. *)
Inductive verdict := Again (s : socket) | Answer (result : Z) (s : socket) | Http1 (s : socket).

Definition dispatch_turn (s : socket) : verdict :=
  match peek_bytes kH2PrefaceLength s with
  | (Interrupted, s) => Again s
  | (Failed, s) | (Received [], s) => Answer (-1) s
  | (Received data, s) =>
      let v := lupine_h2_preface_check data in
      if 0 <? v then Answer 0 s
      else if v <? 0 then Http1 s
      else Again (sleep s)
  end.

(** [None] is a loop that has not ended within [fuel] turns ([read_fuel] for the
    loop that reads an HTTP/1.x request). *)
Fixpoint lupine_connection_dispatch (fuel read_fuel : nat)
    (metadata : option rpc_http2_server_metadata) (metrics : option (list Z))
    (s : socket) (o : output) : option (Z * socket * output) :=
  match fuel with
  | O => None
  | S fuel =>
      match dispatch_turn s with
      | Again s => lupine_connection_dispatch fuel read_fuel metadata metrics s o
      | Answer result s => Some (result, s, o)
      | Http1 s => serve_http1 read_fuel metadata metrics s o
      end
  end.

(** * The stream a socket delivers *)

Definition arrivals (events : list socket_event) : list Z :=
  flat_map (fun e => match e with Arrive bs => bs | _ => [] end) events.

(** Everything the peer has sent and will send. *)
Definition stream (s : socket) : list Z := queue s ++ arrivals (future s).

(** The connection does not break. *)
Definition unbroken (events : list socket_event) : Prop := Forall (fun e => e <> Fail) events.

Lemma await_spec events bs rest :
  await events = (bs, rest) -> unbroken events ->
  bs ++ arrivals rest = arrivals events /\ unbroken rest /\
  (length rest <= length events)%nat /\
  (bs = [] -> rest = [] \/ exists r, rest = Interrupt :: r).
Proof.
  revert bs rest. induction events as [|e events IH]; intros bs rest; simpl.
  { intros [= <- <-] Hu. split_and!; [done|done|simpl; lia|by left]. }
  intros Ha Hu. apply Forall_cons in Hu as [He Hu].
  destruct e as [[|b bs']| | |]; simpl.
  - destruct (IH _ _ Ha Hu) as (?&?&?&?). split_and!; [done|done|lia|done].
  - injection Ha as <- <-. split_and!; [done|done|lia|done].
  - destruct (IH _ _ Ha Hu) as (?&?&?&?). split_and!; [done|done|lia|done].
  - injection Ha as <- <-. split_and!; [done|by constructor|simpl; lia|]. intros _. right. eauto.
  - done.
Qed.

(** What one peek shows of the stream. *)
Lemma peek_spec n s r s' :
  (0 < n)%nat -> unbroken (future s) -> peek_bytes n s = (r, s') ->
  stream s' = stream s /\ unbroken (future s') /\
  match r with
  | Received bs => bs = take n (queue s') /\ (length (future s') <= length (future s))%nat /\
      (bs = [] -> stream s = [])
  | Interrupted => (length (future s') < length (future s))%nat
  | Failed => False
  end.
Proof.
  intros Hn Hu. unfold peek_bytes, blocked_read, stream.
  destruct s as [[|b q] f]; cbn [queue future] in *.
  2:{ intros [= <- <-]. cbn [queue future]. split_and!; [done..|].
      destruct n; [lia|]. done. }
  destruct (await f) as [bs rest] eqn:Ha.
  destruct (await_spec _ _ _ Ha Hu) as (Hst&Hu'&Hlen&Hend).
  destruct bs as [|b bs]; cbn [queue future].
  - destruct Hend as [->|[r' ->]]; [done| |].
    + intros [= <- <-]. cbn [queue future]. rewrite take_nil. split_and!; [done..|].
      intros _. by rewrite <- Hst.
    + intros [= <- <-]. cbn [queue future] in *. apply Forall_cons in Hu' as [_ Hu'].
      split_and!; [done|done|]. simpl in Hlen. lia.
  - intros [= <- <-]. cbn [queue future]. split_and!; [done..|]. destruct n; [lia|]. done.
Qed.

Lemma sleep_spec s :
  unbroken (future s) ->
  stream (sleep s) = stream s /\ unbroken (future (sleep s)) /\
  ((length (future (sleep s)) < length (future s))%nat \/ (future s = [] /\ sleep s = s)).
Proof.
  destruct s as [q f]. unfold sleep, stream. cbn [queue future]. intros Hu.
  destruct f as [|e f]; [by auto|]. apply Forall_cons in Hu as [He Hu].
  destruct e; cbn [queue future]; [| | |done];
    (split_and!; [|done|left; simpl; lia]); [by rewrite <- app_assoc|done|done].
Qed.

(** * Prefixes *)

Lemma starts_with_spec p l : starts_with p l = true <-> p `prefix_of` l.
Proof.
  revert l. induction p as [|a p IH]; intros l; simpl.
  { split; [intros _; apply prefix_nil|done]. }
  destruct l as [|b l]; [split; [done|by intros ?%prefix_nil_not]|].
  rewrite andb_true_iff, Z.eqb_eq, IH. split.
  - intros [-> ?]. by apply prefix_cons.
  - intros Hp. split; [by eapply prefix_cons_inv_1|by eapply prefix_cons_inv_2].
Qed.

Lemma starts_with_false p l : starts_with p l = false <-> ~ p `prefix_of` l.
Proof. rewrite <- starts_with_spec. by destruct (starts_with p l). Qed.

(** The check against the first bytes of the queue decides the whole stream. *)
Lemma preface_check_spec q rest :
  let v := lupine_h2_preface_check (take kH2PrefaceLength q) in
  (v = 1 -> kH2Preface `prefix_of` q ++ rest) /\
  (v = -1 -> ~ kH2Preface `prefix_of` q ++ rest /\ ~ (q ++ rest) `prefix_of` kH2Preface) /\
  (v = 0 -> q `prefix_of` kH2Preface /\ (length q < kH2PrefaceLength)%nat) /\
  (v = 1 \/ v = -1 \/ v = 0).
Proof.
  intros v. subst v. unfold lupine_h2_preface_check.
  assert (length kH2Preface = kH2PrefaceLength) as Hlen by done.
  set (P := kH2Preface) in *. clearbody P. set (n := kH2PrefaceLength) in *. clearbody n.
  rewrite length_take, take_take.
  replace (Nat.min (Nat.min (Nat.min n (length q)) n) n) with (Nat.min n (length q)) by lia.
  replace (Nat.min (Nat.min n (length q)) n) with (Nat.min n (length q)) by lia.
  destruct (bool_decide _) eqn:Eb; breflect; cbn [negb].
  - destruct (n <=? Nat.min n (length q))%nat eqn:En.
    + apply Nat.leb_le in En. split_and!; [|done|done|by left]. intros _.
      replace (Nat.min n (length q)) with n in Eb by lia.
      rewrite (take_ge P) in Eb by lia. rewrite <- Eb.
      apply prefix_app_r. by apply prefix_take.
    + apply Nat.leb_gt in En. split_and!; [done|done| |auto]. intros _.
      replace (Nat.min n (length q)) with (length q) in Eb by lia.
      rewrite take_ge in Eb by lia. split; [|lia]. rewrite Eb. by apply prefix_take.
  - split_and!; [done| |done|auto]. intros _.
    assert (forall k, (k <= length q)%nat -> take k q = take k (q ++ rest)) as Htk
      by (intros; by rewrite take_app_le).
    split; intros [k Hk]; apply Eb; rewrite Htk by lia.
    + rewrite Hk. by rewrite take_app_le by lia.
    + rewrite Hk. rewrite (take_app_le (q ++ rest)); [done|]. rewrite length_app. lia.
Qed.

(** One turn of the detection loop, against the stream. *)
Lemma dispatch_turn_spec s :
  unbroken (future s) ->
  match dispatch_turn s with
  | Again s' =>
      stream s' = stream s /\ unbroken (future s') /\
      ((length (future s') < length (future s))%nat \/
       (future s = [] /\ s' = s /\ stream s <> [] /\ stream s `prefix_of` kH2Preface /\
        (length (stream s) < kH2PrefaceLength)%nat))
  | Answer result s' =>
      stream s' = stream s /\
      ((result = 0 /\ kH2Preface `prefix_of` stream s) \/ (result = -1 /\ stream s = []))
  | Http1 s' =>
      stream s' = stream s /\ ~ kH2Preface `prefix_of` stream s /\
      ~ stream s `prefix_of` kH2Preface
  end.
Proof.
  intros Hu. unfold dispatch_turn.
  destruct (peek_bytes kH2PrefaceLength s) as [r s1] eqn:Hp.
  assert (0 < kH2PrefaceLength)%nat as Hpos by (unfold kH2PrefaceLength; lia).
  destruct (peek_spec _ _ _ _ Hpos Hu Hp) as (Hst&Hu1&Hr).
  destruct r as [data| |]; [|by auto|done]. destruct Hr as (Hdata&Hlen&Hnil).
  destruct (decide (data = [])) as [Hd|Hd]; [subst data; rewrite Hd; by auto|].
  destruct (preface_check_spec (queue s1) (arrivals (future s1))) as (H1&Hm1&H0&Hcase).
  rewrite <- Hdata in *. fold (stream s1) in H1, Hm1. rewrite Hst in H1, Hm1.
  destruct data as [|d data]; [done|].
  destruct Hcase as [Hv|[Hv|Hv]]; rewrite Hv; simpl.
  - split; [done|]. left. auto.
  - split; [done|]. auto.
  - destruct (sleep_spec s1 Hu1) as (Hs&Hus&Hprog). split_and!; [congruence|done|].
    destruct Hprog as [?|[Hf Hsl]]; [left; lia|].
    destruct (decide (length (future s) = 0)%nat) as [Hz|Hz].
    + apply nil_length_inv in Hz. right. destruct (H0 Hv) as [Hpre Hlt].
      assert (s1 = s) as ->.
      { destruct s as [q f]. simpl in Hz. subst f. unfold peek_bytes, blocked_read in Hp.
        destruct q; simpl in Hp; congruence. }
      assert (stream s = queue s) as Hq by (unfold stream; rewrite Hz; apply app_nil_r).
      split_and!; [done|by rewrite Hsl| |by rewrite Hq|by rewrite Hq].
      rewrite Hq. intros Hq0. rewrite Hq0 in Hdata. simpl in Hdata. done.
    + left. rewrite Hsl, Hf. simpl. lia.
Qed.

Lemma dispatch_stuck fuel read_fuel metadata metrics s o :
  dispatch_turn s = Again s ->
  lupine_connection_dispatch fuel read_fuel metadata metrics s o = None.
Proof. intros Hs. induction fuel as [|fuel IH]; [done|]. simpl. by rewrite Hs. Qed.

Lemma dispatch_spec fuel read_fuel metadata metrics s o :
  unbroken (future s) -> (length (future s) < fuel)%nat ->
  let result := lupine_connection_dispatch fuel read_fuel metadata metrics s o in
  (exists s', stream s' = stream s /\ result = Some (0, s', o) /\
     kH2Preface `prefix_of` stream s) \/
  (exists s', stream s' = stream s /\ result = Some (-1, s', o) /\ stream s = []) \/
  (exists s', stream s' = stream s /\ result = serve_http1 read_fuel metadata metrics s' o /\
     ~ kH2Preface `prefix_of` stream s /\ ~ stream s `prefix_of` kH2Preface) \/
  (result = None /\ stream s <> [] /\ stream s `prefix_of` kH2Preface /\
     (length (stream s) < kH2PrefaceLength)%nat).
Proof.
  revert s. induction fuel as [|fuel IH]; intros s Hu Hf result; [lia|].
  pose proof (dispatch_turn_spec s Hu) as Ht. subst result. simpl.
  destruct (dispatch_turn s) as [s'|r s'|s'] eqn:Hturn.
  - destruct Ht as (Hst&Hu'&[Hlt|(Hnil&->&Hne&Hpre&Hlen)]).
    + rewrite <- Hst. apply IH; [done|lia].
    + do 3 right. split_and!; [by apply dispatch_stuck|done..].
  - destruct Ht as (Hst&[[-> ?]|[-> ?]]); [left|right; left]; by exists s'.
  - destruct Ht as (Hst&?&?). do 2 right. left. by exists s'.
Qed.

(** The protocol is decided by the bytes the peer sends, not by how they are
    cut up or delayed.  A stream that opens with the HTTP/2 preface is handed to
    the RPC session with every byte in place; one that differs from the preface
    is answered as an HTTP/1.x request from its first byte; an empty one fails.
    But a peer that sends only part of the preface and disconnects is never
    given up on: the queued bytes keep satisfying the peek, and the loop goes
    on for ever. *)
Theorem dispatch_by_first_bytes (fuel read_fuel : nat)
    (metadata : option rpc_http2_server_metadata) (metrics : option (list Z))
    (s : socket) (o : output)
    (Hunbroken : unbroken (future s)) (Hfuel : (length (future s) < fuel)%nat) :
  let result := lupine_connection_dispatch fuel read_fuel metadata metrics s o in
  (kH2Preface `prefix_of` stream s ->
   exists s', result = Some (0, s', o) /\ stream s' = stream s) /\
  (~ kH2Preface `prefix_of` stream s -> ~ stream s `prefix_of` kH2Preface ->
   exists s', result = serve_http1 read_fuel metadata metrics s' o /\ stream s' = stream s) /\
  (stream s = [] -> exists s', result = Some (-1, s', o)) /\
  (stream s <> [] -> stream s `prefix_of` kH2Preface ->
   (length (stream s) < kH2PrefaceLength)%nat -> result = None).
Proof.
  intros result. subst result.
  assert (length kH2Preface = kH2PrefaceLength) as HP by done.
  destruct (dispatch_spec fuel read_fuel metadata metrics s o Hunbroken Hfuel)
    as [(s'&Hst&->&Hp)|[(s'&Hst&->&Hn)|[(s'&Hst&->&H1&H2)|(->&Hne&Hp&Hl)]]];
    split_and!; intros; try done.
  - by exists s'.
  - rewrite H in Hp. by apply prefix_nil_not in Hp.
  - apply prefix_length in Hp. lia.
  - rewrite Hn in H. by apply prefix_nil_not in H.
  - destruct H0. rewrite Hn. apply prefix_nil.
  - by exists s'.
  - by exists s'.
  - destruct H2. rewrite H. apply prefix_nil.
  - apply prefix_length in H. lia.
Qed.

(** The preface in two pieces with a pause between them. *)
Lemma dispatch_by_first_bytes_witness :
  let s := Socket [] [Arrive (take 5 kH2Preface); Quiet; Arrive (drop 5 kH2Preface ++ [0; 0])] in
  exists s', lupine_connection_dispatch 4 0 None None s (Output [] []) =
    Some (0, s', Output [] []) /\ stream s' = stream s.
Proof.
  intros s. destruct (dispatch_by_first_bytes 4 0 None None s (Output [] [])) as (H&_).
  - repeat constructor; discriminate.
  - simpl. lia.
  - apply H. exists [0; 0]. reflexivity.
Defined.

(** * Parsing a printed request *)

Lemma find_sub_crlf l rest :
  ch_cr ∉ l -> find_sub crlf (l ++ crlf ++ rest) = Some (length l).
Proof.
  induction l as [|c l IH]; intros Hl; [done|].
  apply not_elem_of_cons in Hl as [Hc Hl].
  change ((c :: l) ++ crlf ++ rest) with (c :: (l ++ crlf ++ rest)).
  cbn [find_sub starts_with crlf]. rewrite (proj2 (Z.eqb_neq _ _)) by done. cbn [andb].
  fold crlf. by rewrite IH.
Qed.

Lemma find_sub_char c l rest :
  c ∉ l -> find_sub [c] (l ++ c :: rest) = Some (length l).
Proof.
  induction l as [|x l IH]; intros Hl; simpl.
  { by rewrite Z.eqb_refl. }
  apply not_elem_of_cons in Hl as [Hc Hl].
  rewrite (proj2 (Z.eqb_neq _ _)) by done. simpl. by rewrite IH.
Qed.

(** A header line as a client may write it: the name, a colon and the rest of
    the line with its padding. *)
Definition raw_line (h : http_header) : list Z := h.1 ++ ch_colon :: h.2.

Definition print_headers (hs : list http_header) : list Z :=
  flat_map (fun h => raw_line h ++ crlf) hs.

Definition header_ok (h : http_header) : Prop :=
  (ch_colon ∉ h.1) /\ (ch_cr ∉ h.1) /\ (ch_cr ∉ h.2).

(** The value of the first header of that name, without its padding. *)
Fixpoint first_header (hs : list http_header) (wanted : list Z) : list Z :=
  match hs with
  | [] => []
  | h :: rest =>
      if bool_decide (ascii_lower h.1 = wanted) then trim h.2 else first_header rest wanted
  end.

Lemma header_loop_spec fuel hs wanted extra :
  Forall header_ok hs -> (length hs < fuel)%nat ->
  header_loop fuel (print_headers hs ++ crlf ++ extra) wanted = first_header hs wanted.
Proof.
  revert fuel. induction hs as [|h hs IH]; intros fuel Hok Hf.
  { destruct fuel; [simpl in Hf; lia|reflexivity]. }
  apply Forall_cons in Hok as [(Hcolon&Hcr1&Hcr2) Hok]. simpl in Hf.
  destruct fuel as [|fuel]; [lia|]. cbn [print_headers flat_map].
  set (rest := print_headers hs ++ crlf ++ extra).
  assert ((((raw_line h ++ crlf) ++ flat_map (fun h => raw_line h ++ crlf) hs) ++ crlf ++ extra)
    = raw_line h ++ crlf ++ rest) as -> by (subst rest; by rewrite <- !app_assoc).
  assert (ch_cr ∉ raw_line h) as Hcr.
  { unfold raw_line. rewrite not_elem_of_app, not_elem_of_cons. done. }
  cbn [header_loop]. rewrite find_sub_crlf by done.
  assert (length (raw_line h) = S (length h.1 + length h.2)) as Hlen
    by (unfold raw_line; rewrite length_app; simpl; lia).
  rewrite Hlen. cbn beta iota zeta. rewrite <- Hlen.
  rewrite drop_app_add. change (drop 2 (crlf ++ rest)) with rest.
  unfold raw_line at 1. rewrite <- app_assoc. cbn [app]. rewrite find_sub_char by done.
  rewrite (proj2 (Nat.ltb_lt _ _)) by lia. cbn [andb first_header].
  unfold raw_line. rewrite <- app_assoc, take_app_length.
  case_bool_decide; [|apply IH; [done|lia]]. f_equal.
  rewrite drop_app_add. cbn [app drop].
  replace (length (h.1 ++ ch_colon :: h.2) - (length h.1 + 1))%nat with (length h.2)
    by (rewrite length_app; simpl; lia).
  by rewrite drop_0, take_app_length.
Qed.

Definition print_request (method path version : list Z) (hs : list http_header)
    (extra : list Z) : list Z :=
  (method ++ ch_space :: path ++ ch_space :: version) ++ crlf ++
  print_headers hs ++ crlf ++ extra.

Lemma length_print_headers hs : (length hs <= length (print_headers hs))%nat.
Proof.
  induction hs as [|h hs IH]; simpl; [lia|]. unfold print_headers in *. simpl.
  rewrite !length_app. simpl. lia.
Qed.

Lemma request_header_spec method path version hs extra wanted :
  ch_cr ∉ (method ++ ch_space :: path ++ ch_space :: version) -> Forall header_ok hs ->
  request_header (print_request method path version hs extra) wanted = first_header hs wanted.
Proof.
  intros Hcr Hok. unfold request_header, print_request. rewrite find_sub_crlf by done.
  rewrite drop_app_add.
  match goal with |- context [drop 2 (crlf ++ ?x)] => change (drop 2 (crlf ++ x)) with x end.
  apply header_loop_spec; [done|]. pose proof (length_print_headers hs).
  rewrite !length_app. simpl. lia.
Qed.

(** * Serving a bundle *)

Lemma send_all_ok data out : send_all data (Output out []) = (true, Output (out ++ data) []).
Proof. unfold send_all. simpl. destruct data; [by rewrite app_nil_r|done]. Qed.

Definition bundle_body (bundle : lupine_client_bundle_payload) : list Z :=
  flat_map (fun c => default [] c) (chunks bundle).

(** Every chunk has its data, and the recorded size is theirs. *)
Definition bundle_ok (bundle : lupine_client_bundle_payload) : Prop :=
  Forall is_Some (chunks bundle) /\
  bundle_size bundle = Z.of_nat (length (bundle_body bundle)) /\ is_u64 (bundle_size bundle).

Lemma send_chunks_ok cs count out :
  Forall is_Some cs -> 0 <= count ->
  count + Z.of_nat (length (flat_map (fun c => default [] c) cs)) < 2 ^ 64 ->
  send_chunks cs count (Output out []) =
  (Some (count + Z.of_nat (length (flat_map (fun c => default [] c) cs))),
   Output (out ++ flat_map (fun c => default [] c) cs) []).
Proof.
  revert count out. induction cs as [|c cs IH]; intros count out Hall Hc Hb; simpl in *.
  { by rewrite Z.add_0_r, app_nil_r. }
  apply Forall_cons in Hall as [[data ->] Hall]. simpl in *. rewrite length_app in *.
  rewrite send_all_ok. cbn [negb]. rewrite wrap64_id by (unfold is_u64; lia).
  rewrite IH by (done || lia). rewrite <- app_assoc. do 2 f_equal. lia.
Qed.

Lemma send_bundle_ok bundle out :
  bundle_ok bundle ->
  send_bundle bundle (Output out []) = (true, Output (out ++ bundle_body bundle) []).
Proof.
  intros (Hall&Hsz&Hu). unfold send_bundle, bundle_body in *.
  rewrite send_chunks_ok by (done || unfold is_u64 in Hu; lia).
  rewrite Z.add_0_l, <- Hsz, Z.eqb_refl. done.
Qed.

Lemma elem_of_chars_forallb (P : Z -> bool) l c : forallb P l = true -> P c = false -> c ∉ l.
Proof.
  intros Hl Hc Hin. rewrite forallb_forall in Hl.
  specialize (Hl c ltac:(by apply list_elem_of_In)). congruence.
Qed.

Lemma platform_path platform :
  platform ∈ kClientPlatforms ->
  let path := kClientBundlePrefix ++ platform in
  lupine_client_bundle_request_platform path = Some platform /\
  starts_with kClientBundlePrefix path = true /\
  (ch_space ∉ path) /\ (ch_cr ∉ path).
Proof.
  intros Hp path. subst path. unfold lupine_client_bundle_request_platform.
  assert (starts_with kClientBundlePrefix (kClientBundlePrefix ++ platform) = true) as ->
    by (apply starts_with_spec; by apply prefix_app_r).
  rewrite drop_app_length.
  assert (platform_supported platform = true) as ->.
  { apply existsb_exists. exists platform. split; [by apply list_elem_of_In|].
    by apply bool_decide_eq_true. }
  assert (forallb (fun c => negb (c =? ch_space) && negb (c =? ch_cr))
    (kClientBundlePrefix ++ platform) = true) as Hplain.
  { rewrite forallb_app. apply andb_true_iff. split; [done|].
    unfold kClientPlatforms in Hp. rewrite !elem_of_cons in Hp.
    destruct Hp as [->|[->|[->|[->|[->|[->|Hp]]]]]]; try reflexivity.
    by apply not_elem_of_nil in Hp. }
  split_and!; [done|done|by eapply elem_of_chars_forallb..].
Qed.

(** A GET for the bundle of a supported platform, however its headers are
    spelled and padded, is answered with the whole bundle under its size, etag
    and digest, or with 304 and no body exactly when the first If-None-Match
    header carries the bundle's etag. *)
Theorem bundle_request_answered (platform version : list Z) (hs : list http_header)
    (extra : list Z) (metadata : rpc_http2_server_metadata) (metrics : option (list Z))
    (bundle : lupine_client_bundle_payload) (out : list Z)
    (Hplatform : platform ∈ kClientPlatforms)
    (Hversion : ch_cr ∉ version) (Hheaders : Forall header_ok hs)
    (Hbundle : lupine_client_bundle_lookup (client_bundles metadata) platform = Some bundle)
    (Hok : bundle_ok bundle) :
  let headers := [(chars "etag", etag bundle); (chars "content-digest", content_digest bundle);
                  (chars "cache-control", chars "no-cache")] in
  serve_request (print_request GET (kClientBundlePrefix ++ platform) version hs extra)
    (Some metadata) metrics (Output out []) =
  (1, Output (out ++
     if bool_decide (first_header hs (chars "if-none-match") = etag bundle)
     then http1_headers 304 (chars "Not Modified") 0 None headers (Some metadata)
     else http1_headers 200 (chars "OK") (Z.of_nat (length (bundle_body bundle))) bundle_type
            headers (Some metadata) ++ bundle_body bundle) []).
Proof.
  intros headers. destruct (platform_path platform Hplatform) as (Hreq&Hsw&Hsp&Hcr).
  assert (ch_cr ∉ (GET ++ ch_space :: (kClientBundlePrefix ++ platform) ++ ch_space :: version))
    as Hline.
  { rewrite not_elem_of_app, not_elem_of_cons, not_elem_of_app, not_elem_of_cons.
    split_and!; [by apply (elem_of_chars_forallb (fun c => negb (c =? ch_cr)))|done..]. }
  pose proof (request_header_spec _ _ _ _ extra (chars "if-none-match") Hline Hheaders) as Hrh.
  set (request := print_request _ _ _ _ _) in *.
  unfold serve_request.
  assert (find_sub crlf request = Some (length (GET ++ ch_space ::
    (kClientBundlePrefix ++ platform) ++ ch_space :: version))) as -> by by apply find_sub_crlf.
  assert (take (length (GET ++ ch_space :: (kClientBundlePrefix ++ platform) ++ ch_space :: version))
    request = GET ++ ch_space :: (kClientBundlePrefix ++ platform) ++ ch_space :: version) as ->
    by (unfold request, print_request; by rewrite take_app_length).
  set (path := kClientBundlePrefix ++ platform) in *.
  rewrite find_sub_char by (by apply (elem_of_chars_forallb (fun c => negb (c =? ch_space)))).
  rewrite drop_app_add. cbn [drop]. rewrite drop_0. rewrite find_sub_char by done.
  rewrite take_app_length, take_app_length, Hsw.
  unfold serve_client_bundle.
  change (bool_decide (GET = HEAD)) with false. change (bool_decide (GET = GET)) with true.
  cbn [negb andb]. rewrite Hreq. cbn [mbind option_bind]. rewrite Hbundle, Hrh.
  destruct Hok as (Hall&Hsz&Hu) eqn:Hok'. clear Hok'.
  case_bool_decide; fold headers.
  - rewrite send_all_ok. done.
  - rewrite send_all_ok. cbn [negb]. rewrite send_bundle_ok by done. cbn.
    by rewrite Hsz, <- app_assoc.
Qed.

Definition sample_bundle : lupine_client_bundle_payload :=
  BundlePayload (chars "v7") (chars "sha") [Some [80; 75]; Some [3; 4; 5]] 5.

Definition sample_metadata : rpc_http2_server_metadata :=
  ServerMetadata (Some (chars "13.0"))
    (Some [BundleEntry None (Some sample_bundle);
           BundleEntry (Some (chars "linux/arm64")) (Some sample_bundle)]).

(** The header is spelled in capitals and padded. *)
Lemma bundle_request_answered_witness :
  serve_request
    (print_request GET (kClientBundlePrefix ++ chars "linux/arm64") (chars "HTTP/1.1")
       [(chars "Host", chars " server:1"); (chars "IF-NONE-MATCH", chars "  v7 ")] [])
    (Some sample_metadata) None (Output [] []) =
  (1, Output (http1_headers 304 (chars "Not Modified") 0 None
        [(chars "etag", chars "v7"); (chars "content-digest", chars "sha");
         (chars "cache-control", chars "no-cache")] (Some sample_metadata)) []).
Proof.
  refine (bundle_request_answered (chars "linux/arm64") (chars "HTTP/1.1") _ [] sample_metadata
    None sample_bundle [] _ _ _ _ _).
  - right. left.
  - by apply (elem_of_chars_forallb (fun c => negb (c =? ch_cr))).
  - repeat constructor; simpl;
      (by apply (elem_of_chars_forallb (fun c => negb (c =? ch_cr)))) ||
      (by apply (elem_of_chars_forallb (fun c => negb (c =? ch_colon)))).
  - reflexivity.
  - split_and!; [do 2 (apply Forall_cons; split; [by eexists|]); by apply Forall_nil_2|reflexivity|by split..].
Defined.
