(* ===== verification/CheckpointGate.v ===== *)
(** [checkpoint.cpp]: the two process-wide gates that quiesce a server before a
    checkpoint.  The CUDA call gate mixes lock-free atomics with a mutex and a
    condition variable, so it is a step relation over any number of threads at
    the granularity of its atomic operations; the capture gate does everything
    under its mutex, so its operations are the steps. *)
From S2P Require Import Prelude.

(** * [cuda_call_gate] *)

Module CallGate.

Record cuda_call_gate := Gate {
  active_calls_ : Z;
  pending_ : bool;
  drain_waiters_ : Z;
  draining_ : bool;
}.

Definition initial_gate : cuda_call_gate := Gate 0 false 0 false.

(** Where a thread stands.  [Undo] is the call of [end] inside [begin]; the
    flag of [EndCheck] and [EndNotify] tells whether it goes on into the locked
    part of [begin]. *)
Inductive pc :=
  | Idle
  | BeginAdd            (** [begin] saw no drain pending *)
  | BeginRecheck        (** counted itself, about to re-read [pending_] *)
  | Undo                (** saw a drain, about to take its count back *)
  | BeginWait           (** holds the mutex, about to test the condition *)
  | BeginSleep          (** in [condition_.wait] of [begin] *)
  | InCall            (** [begin] has returned, the handler runs *)
  | EndCheck (again : bool)
  | EndNotify (again : bool)
  | DrainQueue          (** announced, about to test for another drain *)
  | DrainQueueSleep
  | DrainWait           (** owns the gate, about to test the count *)
  | DrainWaitSleep
  | Drained.            (** [drain] has returned *)
#[export] Instance pc_eq_dec : EqDecision pc.
Proof. solve_decision. Defined.

(** One atomic action: the gate, where the thread goes, and whether it notified
    every sleeper. *)
Abbreviation action := (cuda_call_gate * pc * bool)%type.

Definition begin_load (g : cuda_call_gate) : action :=
  (g, if pending_ g then BeginWait else BeginAdd, false).

Definition begin_add (g : cuda_call_gate) : action :=
  (Gate (wrap64 (active_calls_ g + 1)) (pending_ g) (drain_waiters_ g) (draining_ g),
   BeginRecheck, false).

Definition begin_recheck (g : cuda_call_gate) : action :=
  (g, if pending_ g then Undo else InCall, false).

Definition begin_wait (g : cuda_call_gate) : action :=
  if negb (draining_ g) && (drain_waiters_ g =? 0)
  then (Gate (wrap64 (active_calls_ g + 1)) (pending_ g) (drain_waiters_ g) (draining_ g),
        InCall, false)
  else (g, BeginSleep, false).

(** The compare-and-swap loop of [end] takes effect at its last iteration. *)
Definition end_exchange (again : bool) (g : cuda_call_gate) : action :=
  let back := if again then BeginWait else Idle in
  let active := active_calls_ g in
  if active =? 0 then (g, back, false)
  else
    (Gate (wrap64 (active - 1)) (pending_ g) (drain_waiters_ g) (draining_ g),
     if active =? 1 then EndCheck again else back, false).

Definition end_check (again : bool) (g : cuda_call_gate) : action :=
  (g, if pending_ g then EndNotify again else if again then BeginWait else Idle, false).

Definition end_notify (again : bool) (g : cuda_call_gate) : action :=
  (g, if again then BeginWait else Idle, true).

(** [drain] up to its first wait. *)
Definition drain_enter (g : cuda_call_gate) : action :=
  (Gate (active_calls_ g) true (wrap64 (drain_waiters_ g + 1)) (draining_ g),
   DrainQueue, false).

Definition drain_queue (g : cuda_call_gate) : action :=
  if draining_ g then (g, DrainQueueSleep, false)
  else (Gate (active_calls_ g) (pending_ g) (wrap64 (drain_waiters_ g - 1)) true,
        DrainWait, false).

Definition drain_wait (g : cuda_call_gate) : action :=
  (g, if active_calls_ g =? 0 then Drained else DrainWaitSleep, false).

Definition resume (g : cuda_call_gate) : action :=
  if negb (draining_ g) then (g, Idle, false)
  else (Gate (active_calls_ g) (negb (drain_waiters_ g =? 0)) (drain_waiters_ g) false,
        Idle, true).

(** [notify_all], and also a spurious wakeup of one thread. *)
Definition wake (p : pc) : pc :=
  match p with
  | BeginSleep => BeginWait
  | DrainQueueSleep => DrainQueue
  | DrainWaitSleep => DrainWait
  | p => p
  end.

(** What a thread may do next: an idle one starts a call, a drain, or a resume
    that is not its to make while nobody drains. *)
Inductive thread_action (g : cuda_call_gate) : pc -> action -> Prop :=
  | act_begin : thread_action g Idle (begin_load g)
  | act_add : thread_action g BeginAdd (begin_add g)
  | act_recheck : thread_action g BeginRecheck (begin_recheck g)
  | act_undo : thread_action g Undo (end_exchange true g)
  | act_wait : thread_action g BeginWait (begin_wait g)
  | act_end : thread_action g InCall (end_exchange false g)
  | act_check again : thread_action g (EndCheck again) (end_check again g)
  | act_notify again : thread_action g (EndNotify again) (end_notify again g)
  | act_drain : thread_action g Idle (drain_enter g)
  | act_queue : thread_action g DrainQueue (drain_queue g)
  | act_drain_wait : thread_action g DrainWait (drain_wait g)
  | act_resume : thread_action g Drained (resume g)
  | act_stray_resume : draining_ g = false -> thread_action g Idle (resume g)
  | act_spurious p : thread_action g p (g, wake p, false).

Definition state : Type := cuda_call_gate * list pc.

Inductive gate_step : state -> state -> Prop :=
  | step_thread g before p after g' p' notified :
      thread_action g p (g', p', notified) ->
      gate_step (g, before ++ p :: after)
        (g', if (notified : bool) then (wake <$> before) ++ p' :: (wake <$> after)
             else before ++ p' :: after).

(** * Counting threads *)

Fixpoint count (P : pc -> bool) (l : list pc) : Z :=
  match l with
  | [] => 0
  | p :: l => Z.b2z (P p) + count P l
  end.

(** Threads that [active_calls_] counts, that queue for the gate, that own it. *)
Definition counted (p : pc) : bool :=
  match p with BeginRecheck | Undo | InCall => true | _ => false end.
Definition queued (p : pc) : bool :=
  match p with DrainQueue | DrainQueueSleep => true | _ => false end.
Definition owner (p : pc) : bool :=
  match p with DrainWait | DrainWaitSleep | Drained => true | _ => false end.
Definition notifier (p : pc) : bool :=
  match p with EndCheck _ | EndNotify _ => true | _ => false end.

Definition is_admitted (p : pc) : bool := match p with InCall => true | _ => false end.
Definition is_drained (p : pc) : bool := match p with Drained => true | _ => false end.
Definition drain_asleep (p : pc) : bool := match p with DrainWaitSleep => true | _ => false end.
Definition queue_asleep (p : pc) : bool := match p with DrainQueueSleep => true | _ => false end.
Definition begin_asleep (p : pc) : bool := match p with BeginSleep => true | _ => false end.

Record gate_inv (s : state) : Prop := {
  gi_threads : Z.of_nat (length s.2) < 2 ^ 64;
  gi_active : active_calls_ s.1 = count counted s.2;
  gi_waiters : drain_waiters_ s.1 = count queued s.2;
  gi_owner : Z.b2z (draining_ s.1) = count owner s.2;
  gi_pending : pending_ s.1 = draining_ s.1 || negb (drain_waiters_ s.1 =? 0);
  gi_excluded : 0 < count is_drained s.2 -> count is_admitted s.2 = 0;
  gi_drain_sleep : 0 < count drain_asleep s.2 ->
    0 < active_calls_ s.1 \/ 0 < count notifier s.2;
  gi_queue_sleep : 0 < count queue_asleep s.2 -> draining_ s.1 = true;
  gi_begin_sleep : 0 < count begin_asleep s.2 ->
    draining_ s.1 = true \/ drain_waiters_ s.1 <> 0;
}.

Lemma count_app P l1 l2 : count P (l1 ++ l2) = count P l1 + count P l2.
Proof. induction l1 as [|p l1 IH]; simpl; [done|]. lia. Qed.

(** Waking changes neither who is counted nor who queues or owns. *)
Lemma count_wake P l : (forall p, P (wake p) = P p) -> count P (wake <$> l) = count P l.
Proof. intros HP. induction l as [|p l IH]; [done|]. cbn. by rewrite HP, IH. Qed.

(** And nobody sleeps afterwards. *)
Lemma count_awake P l : (forall p, P (wake p) = false) -> count P (wake <$> l) = 0.
Proof. intros HP. induction l as [|p l IH]; [done|]. cbn. by rewrite HP, IH. Qed.

(** The inclusions between the classes, for one list of threads. *)
Lemma count_classes l :
  0 <= count is_admitted l <= count counted l /\
  0 <= count queue_asleep l <= count queued l /\
  0 <= count is_drained l /\ 0 <= count drain_asleep l /\
  count is_drained l + count drain_asleep l <= count owner l /\
  0 <= count notifier l /\ 0 <= count begin_asleep l /\
  count counted l <= Z.of_nat (length l) /\ count queued l <= Z.of_nat (length l).
Proof.
  induction l as [|p l IH]; simpl; [lia|]. destruct p; simpl; unfold Z.b2z; lia.
Qed.

(** Sums over a state with one thread singled out. *)
Lemma count_mid P before p after :
  count P (before ++ p :: after) = count P before + Z.b2z (P p) + count P after.
Proof. rewrite count_app. simpl. lia. Qed.

Lemma length_mid {A} (before : list A) p after :
  length (before ++ p :: after) = (length before + S (length after))%nat.
Proof. by rewrite length_app. Qed.

(** The invariant as arithmetic on the counts. *)
Definition counts_inv (g : cuda_call_gate) (n : Z) (l : (pc -> bool) -> Z) : Prop :=
  n < 2 ^ 64 /\ active_calls_ g = l counted /\ drain_waiters_ g = l queued /\
  Z.b2z (draining_ g) = l owner /\
  (Z.b2z (pending_ g) = 1 <-> Z.b2z (draining_ g) = 1 \/ drain_waiters_ g <> 0) /\
  (0 < l is_drained -> l is_admitted = 0) /\
  (0 < l drain_asleep -> 0 < active_calls_ g \/ 0 < l notifier) /\
  (0 < l queue_asleep -> Z.b2z (draining_ g) = 1) /\
  (0 < l begin_asleep -> Z.b2z (draining_ g) = 1 \/ drain_waiters_ g <> 0).

Lemma b2z_true b : Z.b2z b = 1 <-> b = true.
Proof. by destruct b. Qed.

Lemma gate_inv_counts g ts :
  gate_inv (g, ts) <-> counts_inv g (Z.of_nat (length ts)) (fun P => count P ts).
Proof.
  unfold counts_inv. rewrite !b2z_true. split.
  - intros [? ? ? ? Hp ? ? ? ?]. simpl in *. split_and!; try done. rewrite Hp.
    rewrite orb_true_iff, negb_true_iff, Z.eqb_neq. done.
  - intros (?&?&?&?&Hp&?&?&?&?). split; try done. simpl. apply eq_true_iff_eq.
    rewrite Hp, orb_true_iff, negb_true_iff, Z.eqb_neq. done.
Qed.

(** What the inclusions give for the threads other than the one that moves. *)
Definition others_ok (c : (pc -> bool) -> Z) : Prop :=
  0 <= c is_admitted <= c counted /\ 0 <= c queue_asleep <= c queued /\
  0 <= c is_drained /\ 0 <= c drain_asleep /\
  c is_drained + c drain_asleep <= c owner /\ 0 <= c notifier /\ 0 <= c begin_asleep.

(** Splits on the gate's flags and the tests of an action, then counts. *)
Ltac gate_arith :=
  repeat case_match; simplify_eq;
  unfold counts_inv, others_ok in *;
  cbn [active_calls_ pending_ drain_waiters_ draining_ counted queued owner notifier
       is_admitted is_drained drain_asleep queue_asleep begin_asleep wake negb andb] in *;
  unfold Z.b2z in *; breflect; destruct_and?;
  rewrite ?wrap64_id by (unfold is_u64; lia); split_and?; lia.

(** A thread's step that notifies nobody preserves the invariant. *)
Lemma quiet_step_inv g p g' p' c n :
  thread_action g p (g', p', false) -> others_ok c -> c counted < n -> c queued < n ->
  counts_inv g n (fun P => c P + Z.b2z (P p)) ->
  counts_inv g' n (fun P => c P + Z.b2z (P p')).
Proof.
  intros Hact Hc Hn1 Hn2 Hinv. destruct g as [act [] wait []];
  inversion Hact; subst; clear Hact;
  unfold begin_load, begin_add, begin_recheck, begin_wait, end_exchange, end_check, end_notify,
    drain_enter, drain_queue, drain_wait, resume in *;
  cbn [active_calls_ pending_ drain_waiters_ draining_ negb andb] in *;
  try (match goal with |- context [wake ?p] => destruct p end); gate_arith.
Qed.

(** A step that notifies leaves nobody asleep. *)
Lemma notify_step_inv g p g' p' c c' n :
  thread_action g p (g', p', true) -> others_ok c -> c counted < n -> c queued < n ->
  c' counted = c counted -> c' queued = c queued -> c' owner = c owner ->
  c' notifier = c notifier -> c' is_admitted = c is_admitted ->
  c' is_drained = c is_drained -> c' drain_asleep = 0 -> c' queue_asleep = 0 ->
  c' begin_asleep = 0 ->
  counts_inv g n (fun P => c P + Z.b2z (P p)) ->
  counts_inv g' n (fun P => c' P + Z.b2z (P p')).
Proof.
  intros Hact Hc Hn1 Hn2 H1 H2 H3 H4 H5 H6 H7 H8 H9 Hinv.
  destruct g as [act [] wait []];
  inversion Hact; subst; clear Hact;
  unfold end_exchange, end_notify, begin_wait, drain_queue, resume in *;
  cbn [active_calls_ pending_ drain_waiters_ draining_ negb andb] in *;
  repeat case_match; simplify_eq; unfold counts_inv; cbn beta;
  rewrite ?H1, ?H2, ?H3, ?H4, ?H5, ?H6, ?H7, ?H8, ?H9; destruct (wait =? 0) eqn:?; gate_arith.
Qed.

Lemma others_counts before after :
  others_ok (fun P => count P before + count P after) /\
  count counted before + count counted after < Z.of_nat (length before + S (length after)) /\
  count queued before + count queued after < Z.of_nat (length before + S (length after)).
Proof.
  pose proof (count_classes before). pose proof (count_classes after). unfold others_ok. lia.
Qed.

Lemma counts_inv_ext g n l l' :
  (forall P, l P = l' P) -> counts_inv g n l -> counts_inv g n l'.
Proof. intros Hl. unfold counts_inv. by rewrite !Hl. Qed.

Lemma gate_step_inv s s' : gate_step s s' -> gate_inv s -> gate_inv s'.
Proof.
  intros Hstep. inversion Hstep as [g before p after g' p' notified Hact]; subst.
  destruct (others_counts before after) as (Hc&Hn1&Hn2). rewrite !gate_inv_counts, length_mid.
  intros Hinv.
  apply (counts_inv_ext _ _ _ (fun P => (count P before + count P after) + Z.b2z (P p))) in Hinv;
    [|intros P; rewrite count_mid; lia].
  destruct notified.
  - rewrite length_mid, !length_fmap.
    eapply counts_inv_ext; [intros P; symmetry; rewrite count_mid; instantiate (1 := fun P =>
      (count P (wake <$> before) + count P (wake <$> after)) + Z.b2z (P p')); simpl; lia|].
    eapply notify_step_inv; [exact Hact|exact Hc|done|done|..|exact Hinv]; cbn beta;
      rewrite ?count_wake by (by intros []); rewrite ?count_awake by (by intros []); done.
  - rewrite length_mid.
    eapply counts_inv_ext; [intros P; symmetry; rewrite count_mid; instantiate (1 := fun P =>
      (count P before + count P after) + Z.b2z (P p')); simpl; lia|].
    by eapply quiet_step_inv.
Qed.

Lemma idle_counts P n : P Idle = false -> count P (replicate n Idle) = 0.
Proof. intros HP. induction n as [|n IH]; simpl; [done|]. rewrite HP. unfold Z.b2z. lia. Qed.

Definition initial_state (n : nat) : state := (initial_gate, replicate n Idle).

Lemma initial_gate_inv n : Z.of_nat n < 2 ^ 64 -> gate_inv (initial_state n).
Proof.
  intros Hn. split; unfold initial_state; cbn [fst snd];
    rewrite ?length_replicate, ?idle_counts by done; simpl; try done; lia.
Qed.

Lemma gate_reachable_inv n s :
  Z.of_nat n < 2 ^ 64 -> rtc gate_step (initial_state n) s -> gate_inv s.
Proof.
  intros Hn Hs. pose proof (initial_gate_inv n Hn) as Hinv.
  induction Hs as [|x y z Hxy _ IH]; [done|]. by apply IH, (gate_step_inv x).
Qed.

Lemma count_pos P p l : p ∈ l -> P p = true -> 0 < count P l.
Proof.
  intros Hin HP. apply list_elem_of_split in Hin as (l1&l2&->). rewrite count_mid, HP.
  assert (forall l, 0 <= count P l) as Hpos.
  { intros l. induction l as [|q l IH]; simpl; [lia|]. destruct (P q); unfold Z.b2z; lia. }
  pose proof (Hpos l1). pose proof (Hpos l2). unfold Z.b2z. lia.
Qed.

(** C36: from the moment a drain returns until its resume, no call handler is
    between [begin] and [end], whatever the interleaving of any number of
    threads that begin, back off, end, drain, resume and wake up spuriously;
    and at most one drain is in that state. *)
Theorem drained_gate_excludes_calls (n : nat) (g : cuda_call_gate) (threads : list pc)
    (Hn : Z.of_nat n < 2 ^ 64)
    (Hreach : rtc gate_step (initial_state n) (g, threads)) (Hdrained : Drained ∈ threads) :
  (InCall ∉ threads) /\ draining_ g = true /\ pending_ g = true /\
  count is_drained threads = 1.
Proof.
  destruct (gate_reachable_inv _ _ Hn Hreach) as [_ _ _ Ho Hp Hx _ _ _]; simpl in *.
  pose proof (count_pos is_drained _ _ Hdrained eq_refl) as Hd.
  pose proof (count_classes threads) as Hcl.
  assert (draining_ g = true) as Hdr by (destruct (draining_ g); unfold Z.b2z in Ho; [done|lia]).
  rewrite Hdr in *. split_and!; [|done|done|].
  - intros Ha. pose proof (count_pos is_admitted _ _ Ha eq_refl). specialize (Hx Hd). lia.
  - unfold Z.b2z in Ho. lia.
Qed.

(** C37: no wakeup is lost.  A drain asleep on the count while no call is counted
    has a notification on its way, a queued drain sleeps only while another one
    owns the gate, and a call sleeps in [begin] only while some drain owns the
    gate or queues for it. *)
Theorem no_lost_wakeup (n : nat) (g : cuda_call_gate) (threads : list pc)
    (Hn : Z.of_nat n < 2 ^ 64) (Hreach : rtc gate_step (initial_state n) (g, threads)) :
  (DrainWaitSleep ∈ threads -> active_calls_ g = 0 -> 0 < count notifier threads) /\
  (DrainQueueSleep ∈ threads -> 0 < count owner threads) /\
  (BeginSleep ∈ threads -> 0 < count owner threads + count queued threads).
Proof.
  destruct (gate_reachable_inv _ _ Hn Hreach) as [_ _ Hw Ho _ _ H1 H2 H3]; simpl in *.
  pose proof (count_classes threads) as Hcl. split_and!.
  - intros Hin Hz. pose proof (count_pos drain_asleep _ _ Hin eq_refl) as Hp.
    destruct (H1 Hp); lia.
  - intros Hin. pose proof (count_pos queue_asleep _ _ Hin eq_refl) as Hp.
    rewrite (H2 Hp) in Ho. unfold Z.b2z in Ho. lia.
  - intros Hin. pose proof (count_pos begin_asleep _ _ Hin eq_refl) as Hp.
    destruct (H3 Hp) as [Hd|Hd]; [rewrite Hd in Ho; unfold Z.b2z in Ho|]; lia.
Qed.

(** Two threads: a call is admitted, a drain has to wait for it, the call ends
    and wakes the drain, which returns. *)
Lemma step_first g p q act g' p' (b : bool) :
  thread_action g p act -> act = (g', p', b) ->
  gate_step (g, [p; q]) (g', if b then [p'; wake q] else [p'; q]).
Proof. intros H ->. by apply (step_thread g [] p [q] g' p' b). Qed.

Lemma step_second g p q act g' q' (b : bool) :
  thread_action g q act -> act = (g', q', b) ->
  gate_step (g, [p; q]) (g', if b then [wake p; q'] else [p; q']).
Proof. intros H ->. by apply (step_thread g [p] q [] g' q' b). Qed.

Ltac gate_run step act :=
  eapply rtc_l; [eapply step; [apply act|cbv; reflexivity]|].

Lemma sleeping_drain_reachable :
  rtc gate_step (initial_state 2) (Gate 1 true 0 true, [InCall; DrainWaitSleep]).
Proof.
  gate_run step_first act_begin.
  gate_run step_first act_add.
  gate_run step_first act_recheck.
  gate_run step_second act_drain.
  gate_run step_second act_queue.
  gate_run step_second act_drain_wait.
  apply rtc_refl.
Qed.

Lemma drained_reachable :
  rtc gate_step (initial_state 2) (Gate 0 true 0 true, [Idle; Drained]).
Proof.
  etransitivity; [apply sleeping_drain_reachable|].
  gate_run step_first act_end.
  gate_run step_first act_check.
  gate_run step_first act_notify.
  gate_run step_second act_drain_wait.
  apply rtc_refl.
Qed.

Lemma drained_gate_excludes_calls_witness :
  (InCall ∉ [Idle; Drained]) /\ draining_ (Gate 0 true 0 true) = true /\
  pending_ (Gate 0 true 0 true) = true /\ count is_drained [Idle; Drained] = 1.
Proof.
  apply (drained_gate_excludes_calls 2); [lia|apply drained_reachable|right; left].
Defined.

(** Four threads: a call has taken its count back to zero while a drain sleeps on it, a
    second drain is queued and another call waits in [begin]. *)
Lemma step_at before after g p act g' p' :
  thread_action g p act -> act = (g', p', false) -> gate_step (g, before ++ p :: after) (g', before ++ p' :: after).
Proof. intros H ->. by apply (step_thread g before p after g' p' false). Qed.

Lemma sleepers_reachable :
  rtc gate_step (initial_state 4)
    (Gate 0 true 1 true, [EndCheck false; DrainWaitSleep; DrainQueueSleep; BeginSleep]).
Proof.
  unfold initial_state. simpl.
  gate_run (step_at [] [Idle; Idle; Idle]) act_begin.
  gate_run (step_at [] [Idle; Idle; Idle]) act_add.
  gate_run (step_at [] [Idle; Idle; Idle]) act_recheck.
  gate_run (step_at [InCall] [Idle; Idle]) act_drain.
  gate_run (step_at [InCall] [Idle; Idle]) act_queue.
  gate_run (step_at [InCall] [Idle; Idle]) act_drain_wait.
  gate_run (step_at [InCall; DrainWaitSleep] [Idle]) act_drain.
  gate_run (step_at [InCall; DrainWaitSleep] [Idle]) act_queue.
  gate_run (step_at [InCall; DrainWaitSleep; DrainQueueSleep] []) act_begin.
  gate_run (step_at [InCall; DrainWaitSleep; DrainQueueSleep] []) act_wait.
  gate_run (step_at [] [DrainWaitSleep; DrainQueueSleep; BeginSleep]) act_end.
  apply rtc_refl.
Qed.

Lemma no_lost_wakeup_witness :
  let threads := [EndCheck false; DrainWaitSleep; DrainQueueSleep; BeginSleep] in
  0 < count notifier threads /\ 0 < count owner threads /\ 0 < count owner threads + count queued threads.
Proof.
  cbv zeta. destruct (no_lost_wakeup 4 _ _ ltac:(lia) sleepers_reachable) as (H1 & H2 & H3).
  split; [apply H1; [right; left|reflexivity]|]. split; [apply H2; right; right; left|].
  apply H3. right. right. right. left.
Defined.

End CallGate.

(** * [capture_gate] *)

Module CaptureGate.

Record capture_gate := Gate {
  admitted_begins_ : Z;
  active_captures_ : Z;
  checkpoint_waiters_ : Z;
  checkpoint_active_ : bool;
}.

Definition initial_gate : capture_gate := Gate 0 0 0 false.

(** Operations that wait answer [None] while their condition is false. *)
Definition begin (g : capture_gate) : option capture_gate :=
  if negb (checkpoint_active_ g) && (checkpoint_waiters_ g =? 0)
  then Some (Gate (wrap64 (admitted_begins_ g + 1)) (active_captures_ g)
               (checkpoint_waiters_ g) (checkpoint_active_ g))
  else None.

Definition begin_complete (started : bool) (g : capture_gate) : capture_gate :=
  if admitted_begins_ g =? 0 then g
  else Gate (wrap64 (admitted_begins_ g - 1))
         (if started then wrap64 (active_captures_ g + 1) else active_captures_ g)
         (checkpoint_waiters_ g) (checkpoint_active_ g).

Definition end_ (g : capture_gate) : capture_gate :=
  if active_captures_ g =? 0 then g
  else Gate (admitted_begins_ g) (wrap64 (active_captures_ g - 1)) (checkpoint_waiters_ g)
         (checkpoint_active_ g).

(** [wait_for_captures] in its three parts: announce, take the gate, and find
    it quiet. *)
Definition wait_announce (g : capture_gate) : capture_gate :=
  Gate (admitted_begins_ g) (active_captures_ g) (wrap64 (checkpoint_waiters_ g + 1))
    (checkpoint_active_ g).

Definition wait_take (g : capture_gate) : option capture_gate :=
  if checkpoint_active_ g then None
  else Some (Gate (admitted_begins_ g) (active_captures_ g)
               (wrap64 (checkpoint_waiters_ g - 1)) true).

Definition wait_quiet (g : capture_gate) : bool :=
  (admitted_begins_ g =? 0) && (active_captures_ g =? 0).

Definition resume_captures (g : capture_gate) : capture_gate :=
  if negb (checkpoint_active_ g) then g
  else Gate (admitted_begins_ g) (active_captures_ g) (checkpoint_waiters_ g) false.

(** The checkpointing threads: how many have announced, and the one that has
    taken the gate, with whether its wait has returned. *)
Record capture_state := CaptureState {
  gate : capture_gate;
  announced : Z;
  holder : option bool;
}.

Inductive capture_step : capture_state -> capture_state -> Prop :=
  | capture_begin g g' a h : begin g = Some g' ->
      capture_step (CaptureState g a h) (CaptureState g' a h)
  | capture_begin_complete g started a h :
      capture_step (CaptureState g a h) (CaptureState (begin_complete started g) a h)
  | capture_end g a h :
      capture_step (CaptureState g a h) (CaptureState (end_ g) a h)
  | checkpoint_announce g a h : a + 1 < 2 ^ 64 ->
      capture_step (CaptureState g a h) (CaptureState (wait_announce g) (a + 1) h)
  | checkpoint_take g g' a h : 0 < a -> wait_take g = Some g' ->
      capture_step (CaptureState g a h) (CaptureState g' (a - 1) (Some false))
  | checkpoint_quiet g a : wait_quiet g = true ->
      capture_step (CaptureState g a (Some false)) (CaptureState g a (Some true))
  | checkpoint_resume g a :
      capture_step (CaptureState g a (Some true)) (CaptureState (resume_captures g) a None).

Record capture_inv (s : capture_state) : Prop := {
  ci_waiters : checkpoint_waiters_ (gate s) = announced s /\ 0 <= announced s < 2 ^ 64;
  ci_active : checkpoint_active_ (gate s) = match holder s with Some _ => true | None => false end;
  ci_quiet : holder s = Some true ->
    admitted_begins_ (gate s) = 0 /\ active_captures_ (gate s) = 0;
}.

Lemma capture_step_inv s s' : capture_step s s' -> capture_inv s -> capture_inv s'.
Proof.
  intros Hstep [[Hw Ha] Hact Hq].
  destruct Hstep as [g g' a h Hb|g started a h|g a h|g a h Hlt|g g' a h Hpos Ht|g a Hquiet|g a];
    destruct g as [ab ac cw act]; simpl in *.
  - unfold begin in Hb. case_if_in Hb; simplify_eq. simpl in *. breflect.
    split; simpl; [done|done|]. intros ->. congruence.
  - unfold begin_complete. simpl. destruct (Z.eqb_spec ab 0); [by split|].
    split; simpl; [done|done|]. intros Hh. destruct (Hq Hh). lia.
  - unfold end_. simpl. destruct (Z.eqb_spec ac 0); [by split|].
    split; simpl; [done|done|]. intros Hh. destruct (Hq Hh). lia.
  - split; simpl; [|done|done]. rewrite wrap64_id by (unfold is_u64; lia). lia.
  - unfold wait_take in Ht. simpl in Ht. case_if_in Ht; simplify_eq. split; simpl; [|done|done].
    rewrite wrap64_id by (unfold is_u64; lia). lia.
  - unfold wait_quiet in Hquiet. simpl in Hquiet. breflect. by split.
  - unfold resume_captures. simpl. rewrite Hact. simpl. by split.
Qed.

(** From the return of [wait_for_captures] to its resume no capture is active
    and no capture start is admitted, and both counters stay at zero. *)
Theorem quiesced_gate_has_no_captures (s : capture_state)
    (Hreach : rtc capture_step (CaptureState initial_gate 0 None) s)
    (Hheld : holder s = Some true) :
  admitted_begins_ (gate s) = 0 /\ active_captures_ (gate s) = 0 /\ begin (gate s) = None.
Proof.
  assert (capture_inv s) as [_ Hact Hq].
  { assert (capture_inv (CaptureState initial_gate 0 None)) as Hinv by (by split).
    induction Hreach as [|x y z Hxy _ IH]; [done|]. apply IH; [done|].
    by apply (capture_step_inv x). }
  destruct (Hq Hheld). rewrite Hheld in Hact. unfold begin. by rewrite Hact.
Qed.

End CaptureGate.
