(* ===== verification/Transport.v ===== *)
(** [transport.cpp]: the client's pool of server connections.  Parsing of
    LUPINE_SERVER, opening and closing the pool, the connection table, and the
    extra bulk connections of a server.  Dialing one endpoint (TCP, TLS, the
    HTTP/2 handshake and the arena negotiation of [Va]) is an argument of
    [connect_endpoint]; the pool's invariant discharges the laws that routing
    assumes of its environment. *)
From S2P Require Import Prelude VisibleDevices Dispatch Routing.

Definition kTransportCapacity : nat := 16.
Definition kDefaultPort : list Z := chars "14833".

(** * LUPINE_SERVER *)

Record lupine_client_endpoint := Endpoint {
  host : list Z;
  port : list Z;
  label : list Z;
  tls : bool;
}.
#[export] Instance lupine_client_endpoint_eq_dec : EqDecision lupine_client_endpoint.
Proof. solve_decision. Defined.

Definition empty_endpoint : lupine_client_endpoint := Endpoint [] [] [] false.

Definition endpoint_has_invalid_scheme (endpoint : list Z) : bool :=
  match find_sub (chars "://") endpoint with Some _ => true | None => false end
  || starts_with (chars "http:") endpoint || starts_with (chars "https:") endpoint.

(** One entry of the list; [None] is an entry that is skipped. *)
Definition parse_endpoint (strict : bool) (token : list Z) : option lupine_client_endpoint :=
  if strict && bool_decide (token = []) then None
  else
    let scheme :=
      if starts_with (chars "https://") token then Some (true, chars "443", drop 8 token)
      else if starts_with (chars "http://") token then Some (false, kDefaultPort, drop 7 token)
      else if strict && endpoint_has_invalid_scheme token then None
      else Some (false, kDefaultPort, token) in
    match scheme with
    | None => None
    | Some (tls, default_port, token) =>
        let '(host, port) :=
          match find_sub [ch_colon] token with
          | Some colon => (take colon token, drop (colon + 1) token)
          | None => (token, default_port)
          end in
        if strict && (bool_decide (host = []) || bool_decide (port = [])) then None
        else Some (Endpoint host port
                     (if bool_decide (port = kDefaultPort) then host
                      else host ++ [ch_colon] ++ port) tls)
    end.

(** The result code and the endpoints. *)
Definition parse_endpoints (servers : list Z) (strict : bool)
    : Z * list lupine_client_endpoint :=
  let endpoints := omap (parse_endpoint strict) (split_commas servers) in
  (if bool_decide (endpoints = []) then -1 else 0, endpoints).

(** * Checkpoint names *)

(** [session] is LUPINE_SESSION. *)
Definition valid_checkpoint (session : option (list Z)) (checkpoint : list Z) : bool :=
  match session with
  | None => false
  | Some session =>
      if bool_decide (session = []) || bool_decide (ch_cr ∈ session)
         || bool_decide (ch_lf ∈ session)
      then false
      else
        let prefix := session ++ [46] in
        if negb (starts_with prefix checkpoint)
           || (length checkpoint <=? length prefix)%nat
           || bool_decide (checkpoint !! length prefix = Some ch_0)
        then false
        else forallb is_digit (drop (length prefix) checkpoint)
  end.

(** * The pool *)

(** What the pool keeps of a connection: its index, whether it is closed, and
    the session its dial established. *)
Record transport_conn := TransportConn {
  conn_logical_index : Z;
  conn_closed : bool;
  conn_session : Z;
}.

Definition empty_conn : transport_conn := TransportConn 0 false 0.

Record lupine_bulk_lanes := BulkLanes {
  lane_slots : list (Z * Z);
  lane_count : nat;
  lanes_failed : bool;
}.

Definition LUPINE_BULK_CONNECTIONS_MAX : nat := 8.

Definition empty_lanes : lupine_bulk_lanes :=
  BulkLanes (replicate LUPINE_BULK_CONNECTIONS_MAX (0, 0)) 0 false.

Record client_transport_state := TransportState {
  connections : list transport_conn;
  endpoints : list lupine_client_endpoint;
  bulk : list lupine_bulk_lanes;
  bulk_dialed : list bool;
  tcount : nat;
  shutting_down : bool;
}.

Definition initial_transport : client_transport_state :=
  TransportState (replicate kTransportCapacity empty_conn)
    (replicate kTransportCapacity empty_endpoint) (replicate kTransportCapacity empty_lanes)
    (replicate kTransportCapacity false) 0 false.

Definition set_slot (index : nat) (c : transport_conn) (e : lupine_client_endpoint)
    (st : client_transport_state) : client_transport_state :=
  TransportState (<[index := c]> (connections st)) (<[index := e]> (endpoints st)) (bulk st)
    (bulk_dialed st) (tcount st) (shutting_down st).

Definition set_count (n : nat) (st : client_transport_state) : client_transport_state :=
  TransportState (connections st) (endpoints st) (bulk st) (bulk_dialed st) n (shutting_down st).

(** How far a dial got: no session, a session that was torn down after the
    endpoint had been recorded, or a session in use. *)
Inductive dial_outcome := DialFailed | DialAbandoned | DialOk (session : Z).

(** [dial] is the part of the function before its outcome is known: address
    lookup, TCP and TLS connect, the HTTP/2 session request and the arena
    negotiation, whose loop is [Va.negotiate_arena]. *)
Definition connect_endpoint (dial : lupine_client_endpoint -> dial_outcome)
    (endpoint : lupine_client_endpoint) (index : nat) (st : client_transport_state)
    : Z * client_transport_state :=
  match dial endpoint with
  | DialFailed =>
      (-1, set_slot index empty_conn (default empty_endpoint (endpoints st !! index)) st)
  | DialAbandoned => (-1, set_slot index empty_conn endpoint st)
  | DialOk session =>
      (0, set_slot index (TransportConn (Z.of_nat index) false session) endpoint st)
  end.

Fixpoint open_loop (dial : lupine_client_endpoint -> dial_outcome)
    (es : list lupine_client_endpoint) (st : client_transport_state) : client_transport_state :=
  match es with
  | [] => st
  | endpoint :: rest =>
      if (tcount st =? kTransportCapacity)%nat then st
      else
        let '(result, st) := connect_endpoint dial endpoint (tcount st) st in
        open_loop dial rest (if result =? 0 then set_count (S (tcount st)) st else st)
  end.

Definition lupine_client_transport_open (strict : bool) (servers LUPINE_SERVER : option (list Z))
    (dial : lupine_client_endpoint -> dial_outcome) (st : client_transport_state)
    : Z * client_transport_state :=
  if negb (tcount st =? 0)%nat then (0, st)
  else match (match servers with Some s => Some s | None => LUPINE_SERVER end) with
       | None => (-1, st)
       | Some servers =>
           let '(result, es) := parse_endpoints servers strict in
           if result <? 0 then (-1, st)
           else
             let st := open_loop dial es st in
             (if (tcount st =? 0)%nat then -1 else 0, st)
       end.

(** Closing: under the mutex every connection in use is shut down, unless a
    close is already under way; then, with their threads joined, the connections
    are reset and their endpoints forgotten. *)
Definition close_begin (st : client_transport_state) : option client_transport_state :=
  if shutting_down st then None
  else Some
    (TransportState
       (imap (fun i c => if (i <? tcount st)%nat
                         then TransportConn (conn_logical_index c) true (conn_session c) else c)
          (connections st))
       (endpoints st) (bulk st) (bulk_dialed st) (tcount st) true).

Definition close_finish (st : client_transport_state) : client_transport_state :=
  TransportState
    (imap (fun i c => if (i <? tcount st)%nat then empty_conn else c) (connections st))
    (imap (fun i e => if (i <? tcount st)%nat then empty_endpoint else e) (endpoints st))
    (bulk st) (bulk_dialed st) 0 false.

Definition lupine_client_transport_close (st : client_transport_state)
    : client_transport_state :=
  match close_begin st with Some st => close_finish st | None => st end.

Definition transport_size (st : client_transport_state) : Z := Z.of_nat (tcount st).

(** The slot of an index, [None] for a null pointer. *)
Definition transport_connection_slot (index : Z) (st : client_transport_state) : option nat :=
  if index <? Z.of_nat (tcount st) then Some (Z.to_nat index) else None.

Definition lupine_client_transport_endpoint (index : Z) (st : client_transport_state)
    : option lupine_client_endpoint :=
  if index <? Z.of_nat (tcount st) then endpoints st !! Z.to_nat index else None.

(** The connections that are told about a retired lane. *)
Definition lupine_client_transport_retire_lane (st : client_transport_state) : list nat :=
  if shutting_down st then []
  else List.filter
    (fun i => match connections st !! i with Some c => negb (conn_closed c) | None => false end)
    (seq 0 (tcount st)).

(** * Bulk lanes *)

(** The slots as the dialers leave them: each writes its own, and only when its
    dial succeeds. *)
Fixpoint fill_slots (i : nat) (dials : list (option (Z * Z))) (slots : list (Z * Z))
    : list (Z * Z) :=
  match dials with
  | [] => slots
  | Some lane :: rest => fill_slots (S i) rest (<[i := lane]> slots)
  | None :: rest => fill_slots (S i) rest slots
  end.

(** The compaction loop, in place. *)
Fixpoint compact (i count : nat) (dialed : list bool) (slots : list (Z * Z))
    : nat * list (Z * Z) :=
  match dialed with
  | [] => (count, slots)
  | true :: rest =>
      compact (S i) (S count) rest
        (match slots !! i with Some lane => <[count := lane]> slots | None => slots end)
  | false :: rest => compact (S i) count rest slots
  end.

(** [configured] is what [atoi] makes of LUPINE_BULK_CONNECTIONS; [dial] is the
    connection and stream of each dial that succeeds. *)
Definition dial_bulk_lanes (token : option (list Z)) (configured : option Z)
    (dial : nat -> option (Z * Z)) (index : nat) (st : client_transport_state)
    : lupine_bulk_lanes :=
  let lanes := default empty_lanes (bulk st !! index) in
  let count := match configured with None => 4 | Some v => wrap32 v end in
  let count := Nat.min (Z.to_nat count) LUPINE_BULK_CONNECTIONS_MAX in
  if bool_decide (token = None)
     || (match endpoints st !! index with Some e => tls e | None => false end)
     || (count =? 0)%nat
  then lanes
  else
    let dials := dial <$> seq 0 count in
    let slots := fill_slots 0 dials (lane_slots lanes) in
    let dialed := (fun d => match d with Some _ => true | None => false end) <$> dials in
    let '(n, slots) := compact 0 (lane_count lanes) dialed slots in
    BulkLanes slots n (lanes_failed lanes).

(** [logical] is the connection's index, [None] for a null connection. *)
Definition lupine_client_transport_bulk_lanes (logical : option Z) (token : option (list Z))
    (configured : option Z) (dial : nat -> option (Z * Z)) (st : client_transport_state)
    : option lupine_bulk_lanes * client_transport_state :=
  match logical with
  | None => (None, st)
  | Some i =>
      if (i <? 0) || (Z.of_nat (tcount st) <=? i) then (None, st)
      else
        let index := Z.to_nat i in
        let st :=
          if negb (default false (bulk_dialed st !! index)) && negb (shutting_down st)
          then TransportState (connections st) (endpoints st)
                 (<[index := dial_bulk_lanes token configured dial index st]> (bulk st))
                 (<[index := true]> (bulk_dialed st)) (tcount st) (shutting_down st)
          else st in
        let lanes := default empty_lanes (bulk st !! index) in
        (if negb (lane_count lanes =? 0)%nat && negb (lanes_failed lanes) then Some lanes
         else None, st)
  end.

(** The lanes a caller may use. *)
Definition lanes_in_use (lanes : lupine_bulk_lanes) : list (Z * Z) :=
  take (lane_count lanes) (lane_slots lanes).

(** * The pool's invariant *)

Record pool_inv (st : client_transport_state) : Prop := {
  pool_lengths : length (connections st) = kTransportCapacity /\
    length (endpoints st) = kTransportCapacity /\ length (bulk st) = kTransportCapacity /\
    length (bulk_dialed st) = kTransportCapacity;
  pool_count : (tcount st <= kTransportCapacity)%nat;
  pool_index : forall i, (i < tcount st)%nat -> exists c,
    connections st !! i = Some c /\ conn_logical_index c = Z.of_nat i;
}.

Lemma initial_pool_inv : pool_inv initial_transport.
Proof.
  split; simpl; [done|lia|intros; lia].
Qed.

(** Writing the first free slot keeps the slots in use. *)
Lemma set_slot_inv c e st :
  pool_inv st -> pool_inv (set_slot (tcount st) c e st).
Proof.
  intros [Hl Hc Hi]. split; simpl; [by rewrite !length_insert|done|].
  intros i Hlt. rewrite list_lookup_insert_ne by lia. by apply Hi.
Qed.

Definition dial_ok (dial : lupine_client_endpoint -> dial_outcome)
    (e : lupine_client_endpoint) : bool :=
  match dial e with DialOk _ => true | _ => false end.

(** The endpoints of the slots in use. *)
Definition in_use (st : client_transport_state) : list lupine_client_endpoint :=
  take (tcount st) (endpoints st).

Lemma open_loop_spec dial es st :
  pool_inv st ->
  pool_inv (open_loop dial es st) /\
  in_use (open_loop dial es st) =
  take kTransportCapacity (in_use st ++ List.filter (dial_ok dial) es).
Proof.
  assert (forall st, pool_inv st -> length (in_use st) = tcount st) as Hlen.
  { intros st' [(_&He&_) Hc _]. unfold in_use. rewrite length_take. lia. }
  revert st. induction es as [|e es IH]; intros st Hinv; simpl.
  { split; [done|]. rewrite app_nil_r, take_ge; [done|]. rewrite Hlen by done. apply Hinv. }
  destruct (tcount st =? kTransportCapacity)%nat eqn:Ef.
  { apply Nat.eqb_eq in Ef. split; [done|].
    rewrite take_app_le by (rewrite Hlen, Ef by done; lia).
    rewrite take_ge; [done|]. rewrite Hlen, Ef by done. lia. }
  apply Nat.eqb_neq in Ef. pose proof Hinv as [(Hl1&Hl2&_) Hc Hi].
  assert (forall c e', in_use (set_slot (tcount st) c e' st) = in_use st) as Hkeep.
  { intros c e'. unfold in_use. simpl. apply take_insert_ge. lia. }
  unfold connect_endpoint, dial_ok. destruct (dial e) as [| |session]; simpl.
  - rewrite <- (Hkeep empty_conn (default empty_endpoint (endpoints st !! tcount st))).
    apply IH, set_slot_inv, Hinv.
  - rewrite <- (Hkeep empty_conn e). apply IH, set_slot_inv, Hinv.
  - set (st' := set_count _ _).
    assert (pool_inv st') as Hinv'.
    { split; simpl; [by rewrite !length_insert; apply Hinv|lia|].
      intros i Hlt. destruct (decide (i = tcount st)) as [->|Hne].
      - rewrite list_lookup_insert_eq by lia. by eexists.
      - rewrite list_lookup_insert_ne by lia. apply Hi. lia. }
    destruct (IH st' Hinv') as [? ->]. split; [done|]. f_equal.
    assert (in_use st' = in_use st ++ [e]) as ->.
    { unfold in_use. simpl. rewrite (take_S_r _ _ e); [|by rewrite list_lookup_insert_eq by lia].
      by rewrite take_insert_ge by lia. }
    by rewrite <- app_assoc.
Qed.

Lemma close_inv st : pool_inv st -> pool_inv (lupine_client_transport_close st).
Proof.
  intros Hinv. unfold lupine_client_transport_close, close_begin. case_if; [done|].
  split; simpl; [|lia|intros; lia]. rewrite !length_imap. apply Hinv.
Qed.

Lemma bulk_inv logical token configured dial st :
  pool_inv st ->
  pool_inv (lupine_client_transport_bulk_lanes logical token configured dial st).2.
Proof.
  intros Hinv. unfold lupine_client_transport_bulk_lanes. destruct logical as [i|]; [|done].
  case_if; [done|]. simpl. case_if; [|done].
  destruct Hinv as [Hl Hc Hi]. split; simpl; [by rewrite !length_insert|done..].
Qed.

(** * Compaction *)

(** After the dials the slots hold what each successful dial left. *)
Lemma fill_slots_lookup dials i slots j :
  (i + length dials <= length slots)%nat ->
  fill_slots i dials slots !! j =
  if decide (i <= j < i + length dials)%nat
  then match dials !! (j - i)%nat with
       | Some (Some lane) => Some lane
       | _ => slots !! j
       end
  else slots !! j.
Proof.
  revert i slots. induction dials as [|d dials IH]; intros i slots Hlen; simpl in *.
  { rewrite decide_False by lia. done. }
  destruct d as [lane|]; rewrite IH by (rewrite ?length_insert; lia);
    destruct (decide (j = i)) as [->|Hne].
  - rewrite (decide_False (P := (S i <= i < _)%nat)) by lia. rewrite decide_True by lia.
    rewrite Nat.sub_diag. by rewrite list_lookup_insert_eq by lia.
  - destruct (decide (S i <= j < S i + length dials)%nat).
    + rewrite decide_True by lia. replace (j - i)%nat with (S (j - S i)) by lia. simpl.
      by rewrite list_lookup_insert_ne by lia.
    + rewrite decide_False by lia. by rewrite list_lookup_insert_ne by lia.
  - rewrite (decide_False (P := (S i <= i < _)%nat)) by lia. rewrite decide_True by lia.
    by rewrite Nat.sub_diag.
  - destruct (decide (S i <= j < S i + length dials)%nat).
    + rewrite decide_True by lia. by replace (j - i)%nat with (S (j - S i)) by lia.
    + rewrite decide_False by lia. done.
Qed.

Lemma length_fill_slots dials i slots : length (fill_slots i dials slots) = length slots.
Proof.
  revert i slots. induction dials as [|[lane|] dials IH]; intros i slots; simpl; [done| |done].
  by rewrite IH, length_insert.
Qed.

(** The lanes of the successful dials. *)
Fixpoint successes (dials : list (option (Z * Z))) : list (Z * Z) :=
  match dials with
  | [] => []
  | Some lane :: rest => lane :: successes rest
  | None :: rest => successes rest
  end.

(** The loop moves the lanes of the successful dials to the front, in order,
    and never overwrites one it has yet to read. *)
Lemma compact_spec dials i count slots :
  (count <= i)%nat -> (i + length dials <= length slots)%nat ->
  (forall j lane, dials !! j = Some (Some lane) -> slots !! (i + j)%nat = Some lane) ->
  let dialed := (fun d : option (Z * Z) => match d with Some _ => true | None => false end) <$> dials in
  let '(n, slots') := compact i count dialed slots in
  take n slots' = take count slots ++ successes dials /\
  n = (count + length (successes dials))%nat.
Proof.
  revert i count slots. induction dials as [|d dials IH]; intros i count slots Hci Hlen Hs; simpl.
  { rewrite app_nil_r. split; [done|lia]. }
  simpl in Hlen.
  destruct d as [lane|]; simpl.
  - pose proof (Hs 0%nat lane eq_refl) as H0. rewrite Nat.add_0_r in H0. rewrite H0.
    specialize (IH (S i) (S count) (<[count:=lane]> slots)). simpl in IH.
    destruct (compact (S i) (S count) _ _) as [n slots'].
    destruct IH as [Ht ->]; [lia|rewrite length_insert; lia| |].
    { intros j l Hj. rewrite list_lookup_insert_ne by lia. apply (Hs (S j)) in Hj.
      by rewrite <- Hj, Nat.add_succ_r. }
    split; [|simpl; lia]. rewrite Ht.
    rewrite (take_S_r _ _ lane) by (by rewrite list_lookup_insert_eq by lia).
    rewrite take_insert_ge by lia. by rewrite <- app_assoc.
  - apply IH; [lia|lia|]. intros j l Hj. apply (Hs (S j)) in Hj.
    by rewrite <- Hj, Nat.add_succ_r.
Qed.

Lemma dial_bulk_lanes_spec token configured dial index st :
  bulk st !! index = Some empty_lanes ->
  let count := Nat.min (Z.to_nat (match configured with None => 4 | Some v => wrap32 v end))
                 LUPINE_BULK_CONNECTIONS_MAX in
  token <> None -> (forall e, endpoints st !! index = Some e -> tls e = false) ->
  lanes_in_use (dial_bulk_lanes token configured dial index st) = omap dial (seq 0 count).
Proof.
  intros Hb count Htok Htls. unfold dial_bulk_lanes. rewrite Hb. simpl default.
  fold count. rewrite bool_decide_eq_false_2 by done. cbn [orb].
  assert ((match endpoints st !! index with Some e => tls e | None => false end) = false) as ->.
  { destruct (endpoints st !! index) as [e|]; [by apply Htls|done]. }
  cbn [orb]. destruct (count =? 0)%nat eqn:Ec.
  { apply Nat.eqb_eq in Ec. rewrite Ec. done. }
  cbn [lane_slots lane_count lanes_failed empty_lanes].
  set (slots := fill_slots 0 (dial <$> seq 0 count) _).
  assert (length slots = LUPINE_BULK_CONNECTIONS_MAX) as Hlen
    by (subst slots; rewrite length_fill_slots; apply length_replicate).
  pose proof (compact_spec (dial <$> seq 0 count) 0 0 slots) as Hc. cbn zeta in Hc.
  destruct (compact 0 0 _ slots) as [n slots'].
  destruct Hc as [Ht _]; [lia|rewrite length_fmap, length_seq, Hlen; lia| |].
  { intros j lane Hj. subst slots. rewrite fill_slots_lookup
      by (rewrite length_fmap, length_seq, length_replicate; lia).
    pose proof (lookup_lt_Some _ _ _ Hj) as Hlt.
    rewrite decide_True by lia. simpl. rewrite Nat.sub_0_r. by rewrite Hj. }
  unfold lanes_in_use. cbn [lane_count lane_slots]. rewrite Ht. simpl.
  clear. induction (seq 0 count) as [|k l IH]; [done|]. cbn. by destruct (dial k); rewrite IH.
Qed.

(** * The pool as routing's environment *)

(** Connections are addressed by their slot; the other services of a client
    environment are kept. *)
Definition pool_env (st : client_transport_state) (E : ClientEnv) : ClientEnv := {|
  rpc_open := if (tcount st =? 0)%nat then -1 else 0;
  lupine_client_transport_size := transport_size st;
  transport_connection := fun i => i + 1;
  logical_index := fun c =>
    match connections st !! Z.to_nat (c - 1) with
    | Some c => conn_logical_index c
    | None => 0
    end;
  conn_va_size := @conn_va_size E;
  lupine_local_cuda_available := @lupine_local_cuda_available E;
  local_device_count := @local_device_count E;
  local_device_get := @local_device_get E;
  local_device_uuid := @local_device_uuid E;
  local_set_current := @local_set_current E;
  remote_device_count := @remote_device_count E;
  remote_device_get := @remote_device_get E;
  remote_device_uuid := @remote_device_uuid E;
  remote_set_current := @remote_set_current E;
  CUDA_VISIBLE_DEVICES := @CUDA_VISIBLE_DEVICES E;
|}.

(** Every pool that the operations produce meets the laws that the routing
    theorems assume. *)
Lemma pool_env_laws st E : pool_inv st -> ClientEnvLaws (pool_env st E).
Proof.
  intros [_ Hc Hi]. unfold kTransportCapacity in Hc. split; simpl; unfold transport_size.
  - lia.
  - intros i Hr. lia.
  - intros i Hr. destruct (Hi (Z.to_nat i) ltac:(lia)) as (c&Hl&Hx).
    replace (i + 1 - 1) with i by lia. rewrite Hl, Hx. lia.
Qed.

(** * Theorems *)

(** Opening the pool dials the listed servers in order and keeps those that
    answer, at most sixteen, in consecutive slots: the slots in use hold exactly
    the first sixteen reachable endpoints, each connection carries the index of
    its slot, which is what the routing of handles relies on, and the call fails
    exactly when no server answered. *)
Theorem open_connects_in_order (strict : bool) (servers : list Z) (env : option (list Z))
    (dial : lupine_client_endpoint -> dial_outcome) (st : client_transport_state) (E : ClientEnv)
    (Hinv : pool_inv st) (Hclosed : tcount st = 0%nat)
    (Hparse : (parse_endpoints servers strict).1 = 0) :
  let '(result, st') := lupine_client_transport_open strict (Some servers) env dial st in
  pool_inv st' /\ ClientEnvLaws (pool_env st' E) /\
  in_use st' =
    take kTransportCapacity (List.filter (dial_ok dial) (parse_endpoints servers strict).2) /\
  result = if bool_decide (in_use st' = []) then -1 else 0.
Proof.
  unfold lupine_client_transport_open. rewrite Hclosed. cbn [Nat.eqb negb].
  destruct (parse_endpoints servers strict) as [r es]. simpl in Hparse. subst r. simpl.
  destruct (open_loop_spec dial es st Hinv) as [Hinv' Huse].
  assert (in_use st = []) as Hempty by (unfold in_use; by rewrite Hclosed).
  rewrite Hempty in Huse. split_and!; [done|by apply pool_env_laws|done|].
  destruct Hinv' as [(_&Hl&_) Hc _]. unfold in_use.
  destruct (tcount (open_loop dial es st) =? 0)%nat eqn:Ez.
  - apply Nat.eqb_eq in Ez. rewrite Ez. done.
  - apply Nat.eqb_neq in Ez. rewrite bool_decide_eq_false_2; [done|].
    intros Hn%(f_equal length). rewrite length_take in Hn. simpl in Hn. lia.
Qed.

(** ** Printing endpoints *)

(** Hosts and ports without commas, colons or slashes. *)
Definition plain (l : list Z) : Prop :=
  l <> [] /\ Forall (fun c => c <> ch_comma /\ c <> ch_colon) l.

Definition print_endpoint (e : lupine_client_endpoint) : list Z :=
  (if tls e then chars "https://" else chars "http://") ++ host e ++ ch_colon :: port e.

Definition endpoint_ok (e : lupine_client_endpoint) : Prop :=
  plain (host e) /\ plain (port e) /\
  label e = if bool_decide (port e = kDefaultPort) then host e
            else host e ++ [ch_colon] ++ port e.

Lemma plain_no_colon l : plain l -> ch_colon ∉ l.
Proof. intros [_ Hl] Hin. rewrite Forall_forall in Hl. by destruct (Hl _ Hin). Qed.

Lemma plain_no_comma l : plain l -> Forall (fun c => (c =? ch_comma) = false) l.
Proof. intros [_ Hl]. eapply Forall_impl; [exact Hl|]. intros c [? _]. by apply Z.eqb_neq. Qed.

Lemma parse_printed strict e :
  endpoint_ok e -> parse_endpoint strict (print_endpoint e) = Some e.
Proof.
  intros (Hh&Hp&Hlabel). destruct e as [h p lb t]. simpl in *. subst lb.
  unfold parse_endpoint, print_endpoint. cbn [tls host port].
  rewrite (bool_decide_eq_false_2 (_ ++ _ = [])), andb_false_r by (by destruct t).
  assert (forall t', (let '(host, port) := match find_sub [ch_colon] (h ++ ch_colon :: p) with
      | Some colon => (take colon (h ++ ch_colon :: p), drop (colon + 1) (h ++ ch_colon :: p))
      | None => (h ++ ch_colon :: p, if t' : bool then chars "443" else kDefaultPort) end in
    if strict && (bool_decide (host = []) || bool_decide (port = [])) then None
    else Some (Endpoint host port (if bool_decide (port = kDefaultPort) then host
                 else host ++ [ch_colon] ++ port) t')) =
    Some (Endpoint h p (if bool_decide (p = kDefaultPort) then h else h ++ [ch_colon] ++ p) t'))
    as Hgo.
  { intros t'. rewrite find_sub_char by (by apply plain_no_colon).
    rewrite take_app_length, drop_app_add. cbn [drop]. rewrite drop_0.
    rewrite !bool_decide_eq_false_2 by (apply Hh || apply Hp). by rewrite andb_false_r. }
  destruct t; [apply (Hgo true)|apply (Hgo false)].
Qed.

Lemma printed_no_comma e :
  endpoint_ok e -> Forall (fun c => (c =? ch_comma) = false) (print_endpoint e).
Proof.
  intros (Hh&Hp&_). unfold print_endpoint. apply Forall_app. split.
  - destruct (tls e); by repeat constructor.
  - apply Forall_app. split; [by apply plain_no_comma|]. constructor; [done|].
    by apply plain_no_comma.
Qed.

(** An endpoint list survives being printed and parsed: every host and port,
    with or without TLS, comes back as written, strict or not, with the label
    that leaves out the default port. *)
Theorem endpoints_roundtrip (es : list lupine_client_endpoint) (strict : bool)
    (Hne : es <> []) (Hok : Forall endpoint_ok es) :
  parse_endpoints (join_commas (print_endpoint <$> es)) strict = (0, es).
Proof.
  unfold parse_endpoints. rewrite split_join.
  - assert (omap (parse_endpoint strict) (print_endpoint <$> es) = es) as ->.
    { clear Hne. induction Hok as [|e es He _ IH]; [done|]. rewrite fmap_cons. cbn.
      rewrite parse_printed by done. by rewrite <- IH at 2. }
    by rewrite bool_decide_eq_false_2.
  - by destruct es.
  - apply Forall_fmap. eapply Forall_impl; [exact Hok|]. apply printed_no_comma.
Qed.

Definition sample_endpoints : list lupine_client_endpoint :=
  [Endpoint (chars "gpu1") kDefaultPort (chars "gpu1") false;
   Endpoint (chars "gpu2") (chars "443") (chars "gpu2:443") true].

Lemma sample_endpoints_ok : Forall endpoint_ok sample_endpoints.
Proof.
  repeat (apply Forall_cons; split); [split_and!|split_and!|by apply Forall_nil_2];
    try done; (split; [done|by repeat constructor]).
Qed.

Lemma endpoints_roundtrip_witness :
  parse_endpoints (chars "http://gpu1:14833,https://gpu2:443") true = (0, sample_endpoints).
Proof. apply (endpoints_roundtrip sample_endpoints true); [done|apply sample_endpoints_ok]. Defined.

(** Of three servers the second does not answer. *)
Definition sample_dial (e : lupine_client_endpoint) : dial_outcome :=
  if bool_decide (host e = chars "b") then DialFailed else DialOk (Z.of_nat (length (port e))).

Lemma open_connects_in_order_witness :
  exists st', lupine_client_transport_open false (Some (chars "a,b,c:7")) None sample_dial
      initial_transport = (0, st') /\
    host <$> in_use st' = [chars "a"; chars "c"] /\
    ClientEnvLaws (pool_env st' two_servers).
Proof.
  pose proof (open_connects_in_order false (chars "a,b,c:7") None sample_dial initial_transport
    two_servers initial_pool_inv eq_refl eq_refl) as H.
  destruct (lupine_client_transport_open _ _ _ _ _) as [r st']. destruct H as (_&HL&Hu&Hr).
  exists st'. rewrite Hr, Hu. vm_compute in Hu. split_and!; [|reflexivity|done].
  f_equal.
Defined.

(** ** Bulk lanes across sessions *)

Lemma open_loop_bulk dial es st :
  bulk (open_loop dial es st) = bulk st /\ bulk_dialed (open_loop dial es st) = bulk_dialed st.
Proof.
  revert st. induction es as [|e es IH]; intros st; [done|]. simpl. case_if; [done|].
  unfold connect_endpoint.
  by destruct (dial e); cbn [Z.eqb]; rewrite !(proj1 (IH _)), !(proj2 (IH _)).
Qed.

Lemma open_bulk strict servers env dial st :
  let st' := (lupine_client_transport_open strict servers env dial st).2 in
  bulk st' = bulk st /\ bulk_dialed st' = bulk_dialed st.
Proof.
  unfold lupine_client_transport_open. case_if; [done|].
  destruct (match servers with Some s => Some s | None => env end) as [text|]; [|done].
  destruct (parse_endpoints text strict) as [r es]. case_if; [done|]. apply open_loop_bulk.
Qed.

(** Closing the pool resets its connections but neither the bulk lanes nor
    the flag that says they were dialed, so a pool that is opened again hands
    out the lanes of the session that was closed, whatever server now holds the
    slot, and never dials new ones. *)
Theorem bulk_lanes_outlive_close (strict : bool) (servers env : option (list Z))
    (dial : lupine_client_endpoint -> dial_outcome) (st : client_transport_state) (i : nat)
    (lanes : lupine_bulk_lanes) (token : option (list Z)) (configured : option Z)
    (bulk_dial : nat -> option (Z * Z))
    (Hdialed : bulk_dialed st !! i = Some true) (Hlanes : bulk st !! i = Some lanes)
    (Husable : lane_count lanes <> 0%nat /\ lanes_failed lanes = false) :
  let st' := (lupine_client_transport_open strict servers env dial
                (lupine_client_transport_close st)).2 in
  (i < tcount st')%nat ->
  lupine_client_transport_bulk_lanes (Some (Z.of_nat i)) token configured bulk_dial st' =
    (Some lanes, st').
Proof.
  intros st' Hi.
  assert (bulk st' = bulk st /\ bulk_dialed st' = bulk_dialed st) as [Hb Hd].
  { destruct (open_bulk strict servers env dial (lupine_client_transport_close st)) as [H1 H2].
    subst st'. rewrite H1, H2. unfold lupine_client_transport_close, close_begin.
    by destruct (shutting_down st). }
  destruct Husable as [Hn Hf]. unfold lupine_client_transport_bulk_lanes.
  rewrite (proj2 (Z.ltb_ge _ 0)), (proj2 (Z.leb_gt _ _)) by lia. cbn [orb]. rewrite Nat2Z.id.
  rewrite Hd, Hdialed. cbn [default from_option id negb andb].
  rewrite Hb, Hlanes. cbn [default from_option id]. rewrite Hf.
  by rewrite (proj2 (Nat.eqb_neq _ _)).
Qed.

(** A pool on server [a] dials lanes 11 and 12, closes, and reopens on [c]. *)
Definition pool_a : client_transport_state :=
  (lupine_client_transport_bulk_lanes (Some 0) (Some (chars "t")) (Some 3)
     (fun k => match k with 0%nat => Some (11, 1) | 2%nat => Some (12, 1) | _ => None end)
     (lupine_client_transport_open false (Some (chars "a")) None sample_dial
        initial_transport).2).2.

Lemma bulk_lanes_outlive_close_witness :
  let st' := (lupine_client_transport_open false (Some (chars "c")) None sample_dial
                (lupine_client_transport_close pool_a)).2 in
  option_map lanes_in_use (lupine_client_transport_bulk_lanes (Some 0) (Some (chars "u")) None
     (fun k => Some (21, 1)) st').1 = Some [(11, 1); (12, 1)].
Proof.
  assert (exists lanes, bulk pool_a !! 0%nat = Some lanes /\ bulk_dialed pool_a !! 0%nat = Some true
    /\ lane_count lanes = 2%nat /\ lanes_failed lanes = false /\
    lanes_in_use lanes = [(11, 1); (12, 1)]) as (lanes&Hb&Hd&Hn&Hf&Hu).
  { eexists. split; [vm_compute; reflexivity|]. by vm_compute. }
  pose proof (bulk_lanes_outlive_close false (Some (chars "c")) None sample_dial pool_a 0 lanes
    (Some (chars "u")) None (fun k => Some (21, 1)) Hd Hb) as H.
  intros st'. change (Z.of_nat 0) with 0 in H. fold st' in H. rewrite H.
  - simpl. by rewrite Hu.
  - rewrite Hn. split; [lia|done].
  - vm_compute. lia.
Defined.
