(* ===== verification/H2State.v ===== *)
(** [h2.cpp]: the state of an HTTP/2 transport and of its streams, and the
    interface of the compression library.

    A stream's fields are grouped by the half of the lane that uses them; the
    transport's by the component: the lanes and their staging pool here, the
    handshake's strings in [H2Handshake].  Condition variables are not state: a
    wait is a step that is enabled when its condition holds. *)
From S2P Require Import Prelude.

(** * The compression library *)

Inductive ZSTD_EndDirective := ZSTD_e_continue | ZSTD_e_flush | ZSTD_e_end.

(** A streaming call gets a context, the rest of the input and the room in the
    output.  It answers the context and, unless it failed, how much input it took,
    the bytes it produced and its result code. *)
Class Zstd := {
  cctx : Type;
  dctx : Type;
  ZSTD_createCCtx : cctx;
  ZSTD_createDCtx : dctx;
  ZSTD_CStreamOutSize : nat;
  ZSTD_compressStream2 :
    cctx -> list byte -> nat -> ZSTD_EndDirective -> cctx * option (nat * list byte * nat);
  ZSTD_decompressStream :
    dctx -> list byte -> nat -> dctx * option (nat * list byte * nat);
}.

(** The streaming contract of zstd.h.  [contents] is what a decoder regenerates
    from a prefix of a frame.  A decoder that left room in the output, or
    finished its frame, has flushed everything it could; an encoder that
    completed a flush or an end has flushed all its input.  [cctx_ok dir] says
    that the context may be called with [dir]: an end that was begun has to be
    completed, and a completed one closes the frame. *)
Class ZstdLaws `{Zstd} := {
  contents : list byte -> list byte;
  contents_nil : contents [] = [];
  contents_mono : forall a b, contents a `prefix_of` contents (a ++ b);
  (** what a decoder consumed and produced *)
  dctx_fed : dctx -> list byte;
  dctx_out : dctx -> list byte;
  dctx_new : dctx_fed ZSTD_createDCtx = [] /\ dctx_out ZSTD_createDCtx = [];
  decompress_spec : forall d input room d' n bs r,
    dctx_out d `prefix_of` contents (dctx_fed d) ->
    ZSTD_decompressStream d input room = (d', Some (n, bs, r)) ->
    (n <= length input)%nat /\ (length bs <= room)%nat /\
    dctx_fed d' = dctx_fed d ++ take n input /\ dctx_out d' = dctx_out d ++ bs /\
    dctx_out d' `prefix_of` contents (dctx_fed d') /\
    ((length bs < room)%nat \/ r = O -> dctx_out d' = contents (dctx_fed d'));
  (** what an encoder accepted and produced, and the most it can still produce
      while it takes [input] *)
  cctx_ok : ZSTD_EndDirective -> cctx -> Prop;
  cctx_input : cctx -> list byte;
  cctx_output : cctx -> list byte;
  cctx_bound : cctx -> list byte -> nat;
  cctx_new : (forall dir, cctx_ok dir ZSTD_createCCtx) /\
    cctx_input ZSTD_createCCtx = [] /\ cctx_output ZSTD_createCCtx = [];
  out_size_positive : (0 < ZSTD_CStreamOutSize)%nat;
  compress_spec : forall c input room dir c' n bs r,
    cctx_ok dir c -> ZSTD_compressStream2 c input room dir = (c', Some (n, bs, r)) ->
    (n <= length input)%nat /\ (length bs <= room)%nat /\
    cctx_input c' = cctx_input c ++ take n input /\ cctx_output c' = cctx_output c ++ bs /\
    (cctx_bound c' (drop n input) + length bs <= cctx_bound c input)%nat /\
    contents (cctx_output c') `prefix_of` cctx_input c' /\
    (dir <> ZSTD_e_continue -> n = length input -> r = O ->
       contents (cctx_output c') = cctx_input c') /\
    ((0 < room)%nat -> input <> [] \/ r <> O -> (0 < n)%nat \/ bs <> []) /\
    (dir <> ZSTD_e_end -> forall dir', cctx_ok dir' c') /\ (r <> O -> cctx_ok dir c');
}.

(** * Streams *)

(** A staged vector with its read position and its capacity. *)
Record h2_buffer := Buffer {
  buf_data : list byte;
  buf_offset : nat;
  buf_capacity : Z;
}.

Section State.
Context `{Zstd}.

(** [read_destination] is what the waiting reader's buffer holds so far. *)
Record h2_inbound := Inbound {
  local_out : list h2_buffer;
  read_destination : option (list byte);
  read_remaining : nat;
  decoder : option dctx;
  decoder_finished : bool;
}.

(** [encoded] is the vector; its valid bytes end at [encoded_size] and those
    before [encoded_offset] have been framed. *)
Record h2_outbound := Outbound {
  encoder : option cctx;
  encoder_started : bool;
  encoder_finished : bool;
  provider_submitted : bool;
  provider_deferred : bool;
  flush_queued : bool;
  encoded : list byte;
  encoded_size : nat;
  encoded_offset : nat;
}.

Record h2_headers := Headers {
  content_encoding_seen : bool;
  zstd_encoded : bool;
  response_received : bool;
  response_sent : bool;
  response_status : Z;
  requested_va_base : list Z;
  requested_va_size : list Z;
}.

Record h2_stream := Stream {
  s_in : h2_inbound;
  s_out : h2_outbound;
  s_head : h2_headers;
  closed : bool;
  remote_end : bool;
}.

Definition new_stream : h2_stream :=
  Stream (Inbound [] None 0 None false)
    (Outbound None false false false false false [] 0 0)
    (Headers false false false false 0 [] []) false false.

Record h2_transport := H2Transport {
  server : bool;
  dispatch_stream_id : Z;
  streams : gmap Z h2_stream;
  incoming_streams : list Z;
  local_lanes : gmap Z Z;
  buffer_pool : list h2_buffer;
  buffer_pool_bytes : Z;
  outbound : list byte;
  flush_pending : list Z;
  write_failed : bool;
  transport_failed : bool;
}.

Definition new_transport (is_server : bool) : h2_transport :=
  H2Transport is_server (-1) ∅ [] ∅ [] 0 [] [] false false.

(** Lookup recreates a missing stream, and the callers hold a reference. *)
Definition h2_get_stream (t : h2_transport) (stream_id : Z) : h2_stream :=
  default new_stream (streams t !! stream_id).

Definition put_stream (id : Z) (s : h2_stream) (t : h2_transport) : h2_transport :=
  H2Transport (server t) (dispatch_stream_id t) (<[id := s]> (streams t)) (incoming_streams t)
    (local_lanes t) (buffer_pool t) (buffer_pool_bytes t) (outbound t) (flush_pending t)
    (write_failed t) (transport_failed t).

Definition set_pool (p : list h2_buffer * Z) (t : h2_transport) : h2_transport :=
  H2Transport (server t) (dispatch_stream_id t) (streams t) (incoming_streams t)
    (local_lanes t) p.1 p.2 (outbound t) (flush_pending t) (write_failed t) (transport_failed t).

Definition set_in (i : h2_inbound) (s : h2_stream) : h2_stream :=
  Stream i (s_out s) (s_head s) (closed s) (remote_end s).

Definition set_out (o : h2_outbound) (s : h2_stream) : h2_stream :=
  Stream (s_in s) o (s_head s) (closed s) (remote_end s).

Definition set_closed (s : h2_stream) : h2_stream :=
  Stream (s_in s) (s_out s) (s_head s) true (remote_end s).

(** The waits that it also cancels are those of [AsyncSeq.rpc_cancel_async_waits]. *)
Definition h2_fail_transport_locked (t : h2_transport) : h2_transport :=
  H2Transport (server t) (dispatch_stream_id t) (streams t) (incoming_streams t)
    (local_lanes t) (buffer_pool t) (buffer_pool_bytes t) (outbound t) (flush_pending t)
    (write_failed t) true.

Definition h2_retryable_handshake_rejection (t : h2_transport) (s : h2_stream) : bool :=
  negb (server t) && response_received (s_head s) && (response_status (s_head s) =? 409).

(** * Lookup after update *)

Lemma get_put_same id s t : h2_get_stream (put_stream id s t) id = s.
Proof. unfold h2_get_stream. simpl. by rewrite lookup_insert_eq. Qed.

Lemma get_put_other id id' s t :
  id <> id' -> h2_get_stream (put_stream id s t) id' = h2_get_stream t id'.
Proof. intros. unfold h2_get_stream. simpl. by rewrite lookup_insert_ne. Qed.

Lemma put_put id s s' t : put_stream id s' (put_stream id s t) = put_stream id s' t.
Proof. unfold put_stream. simpl. by rewrite insert_insert_eq. Qed.

Lemma get_pool id p t : h2_get_stream (set_pool p t) id = h2_get_stream t id.
Proof. done. Qed.

(** The stream [id] of a transport whose [id'] was replaced. *)
Lemma get_put id id' s t :
  h2_get_stream (put_stream id s t) id' = if decide (id = id') then s else h2_get_stream t id'.
Proof. case_decide; subst; [apply get_put_same|by apply get_put_other]. Qed.
End State.

#[export] Hint Rewrite @get_put_same @get_pool @put_put : lupine.

(** * A codec that meets the contract *)

(** Every byte is stored behind a 1, and a 0 ends the frame.  The encoder keeps
    its input until it is flushed; the decoder takes all its input at once and
    keeps what the output has no room for. *)
Module Stored.
Fixpoint body (input : list byte) : list byte :=
  match input with [] => [] | b :: rest => 1 :: b :: body rest end.

Fixpoint stored_contents (frame : list byte) : list byte :=
  match frame with
  | tag :: b :: rest => if tag =? 1 then b :: stored_contents rest else []
  | _ => []
  end.

Definition stored_cctx : Type := list byte * list byte * bool.
Definition stored_dctx : Type := list byte * list byte.

Definition target (c : stored_cctx) : list byte := body c.1.1 ++ if c.2 then [0] else [].

Definition is_end (dir : ZSTD_EndDirective) : bool :=
  match dir with ZSTD_e_end => true | _ => false end.

Definition stored_compress (c : stored_cctx) (input : list byte) (room : nat)
    (dir : ZSTD_EndDirective) : stored_cctx * option (nat * list byte * nat) :=
  let '(fed, out, ended) := c in
  if ended && negb (bool_decide (input = [])) then (c, None)
  else
    let fed := fed ++ input in
    let ended := ended || is_end dir in
    match dir with
    | ZSTD_e_continue => ((fed, out, ended), Some (length input, [], O))
    | _ =>
        let rest := drop (length out) (target (fed, out, ended)) in
        let bs := take room rest in
        ((fed, out ++ bs, ended), Some (length input, bs, length rest - length bs)%nat)
    end.

Definition ends (frame : list byte) : bool :=
  bool_decide (last frame = Some 0) && Nat.odd (length frame).

Definition stored_decompress (d : stored_dctx) (input : list byte) (room : nat)
    : stored_dctx * option (nat * list byte * nat) :=
  let fed := d.1 ++ input in
  let rest := drop (length d.2) (stored_contents fed) in
  let bs := take room rest in
  ((fed, d.2 ++ bs),
   Some (length input, bs, if ends fed && (length rest <=? room)%nat then O else 1%nat)).

#[export] Instance stored : Zstd := {
  cctx := stored_cctx;
  dctx := stored_dctx;
  ZSTD_createCCtx := ([], [], false);
  ZSTD_createDCtx := ([], []);
  ZSTD_CStreamOutSize := 4;
  ZSTD_compressStream2 := stored_compress;
  ZSTD_decompressStream := stored_decompress;
}.

Lemma body_app a b : body (a ++ b) = body a ++ body b.
Proof. induction a; simpl; congruence. Qed.

Lemma length_body a : length (body a) = (2 * length a)%nat.
Proof. induction a; simpl; lia. Qed.

(** Induction two bytes at a time. *)
Lemma contents_mono_stored a b : stored_contents a `prefix_of` stored_contents (a ++ b).
Proof.
  remember (length a) as n eqn:Hn. revert a Hn.
  induction n as [n IH] using lt_wf_ind. intros [|x [|y a]] ->; simpl; [apply prefix_nil..|].
  destruct (x =? 1); [|apply prefix_nil]. apply prefix_cons. eapply IH; [|done]. simpl. lia.
Qed.

Lemma contents_target input fin : fin = [] \/ fin = [0] -> stored_contents (body input ++ fin) = input.
Proof. intros [-> | ->]; induction input; simpl; [done| |done|]; congruence. Qed.

Definition stored_ok (dir : ZSTD_EndDirective) (c : stored_cctx) : Prop :=
  c.1.2 `prefix_of` target c /\ (c.2 = true -> dir = ZSTD_e_end).

Lemma contents_out c : c.1.2 `prefix_of` target c -> stored_contents c.1.2 `prefix_of` c.1.1.
Proof.
  intros [k Hk]. rewrite <- (contents_target c.1.1 (if c.2 then [0] else [])).
  - change (body c.1.1 ++ _) with (target c). rewrite Hk. apply contents_mono_stored.
  - destruct c.2; auto.
Qed.

Lemma take_rest {A} (out full : list A) room :
  out `prefix_of` full ->
  out ++ take room (drop (length out) full) `prefix_of` full /\
  ((length (drop (length out) full) <= room)%nat ->
     out ++ take room (drop (length out) full) = full).
Proof.
  intros [k ->]. rewrite drop_app_length. split.
  - apply prefix_app, prefix_take.
  - intros. by rewrite take_ge.
Qed.

Lemma stored_compress_spec c input room dir c' n bs r :
  stored_ok dir c -> stored_compress c input room dir = (c', Some (n, bs, r)) ->
  n = length input /\ (length bs <= room)%nat /\ c'.1.1 = c.1.1 ++ input /\
  c'.1.2 = c.1.2 ++ bs /\ c'.2 = c.2 || is_end dir /\ c'.1.2 `prefix_of` target c' /\
  (dir <> ZSTD_e_continue -> r = O -> c'.1.2 = target c') /\
  ((0 < room)%nat -> r <> O -> bs <> []).
Proof.
  destruct c as [[fed out] ended]. intros [[k Hpre] Hend] Hc. unfold stored_compress in Hc.
  simpl in *. destruct (ended && _) eqn:Ee; [done|].
  assert (out `prefix_of` target (fed ++ input, out, ended || is_end dir)) as Hpre'.
  { unfold target in *. simpl in *. rewrite body_app. destruct ended; simpl in *.
    - apply negb_false_iff, bool_decide_eq_true in Ee as ->. simpl. rewrite app_nil_r.
      by eexists.
    - rewrite app_nil_r in Hpre. rewrite Hpre, <- !app_assoc. by eexists. }
  destruct dir; simplify_eq/=; cycle 1.
  1, 2: destruct (take_rest out _ room Hpre') as [Hp Hfull];
    (split_and!; [done|rewrite length_take; lia|done..| |]).
  - intros _ Hr. apply Hfull. rewrite length_take in Hr. lia.
  - intros Hroom Hr Hbs. rewrite Hbs in Hr. apply (f_equal length) in Hbs.
    rewrite length_take in Hbs. simpl in *. lia.
  - intros _ Hr. apply Hfull. rewrite length_take in Hr. lia.
  - intros Hroom Hr Hbs. rewrite Hbs in Hr. apply (f_equal length) in Hbs.
    rewrite length_take in Hbs. simpl in *. lia.
  - split_and!; try done; [simpl; lia|by rewrite app_nil_r].
Qed.

Definition stored_bound (c : stored_cctx) (input : list byte) : nat :=
  length (body (c.1.1 ++ input)) + 1 - length c.1.2.

Lemma stored_decompress_spec d input room d' n bs r :
  d.2 `prefix_of` stored_contents d.1 ->
  stored_decompress d input room = (d', Some (n, bs, r)) ->
  n = length input /\ (length bs <= room)%nat /\ d'.1 = d.1 ++ input /\ d'.2 = d.2 ++ bs /\
  d'.2 `prefix_of` stored_contents d'.1 /\
  ((length bs < room)%nat \/ r = O -> d'.2 = stored_contents d'.1).
Proof.
  unfold stored_decompress. intros Hpre Heq. simplify_eq/=.
  assert (d.2 `prefix_of` stored_contents (d.1 ++ input)) as Hpre'.
  { etrans; [done|]. apply contents_mono_stored. }
  destruct (take_rest d.2 _ room Hpre') as [Hp Hfull]. split_and!; try done.
  - rewrite length_take. lia.
  - intros [Hl|Hr]; apply Hfull.
    + rewrite length_take in Hl. lia.
    + case_if_in Hr; [|done]. by apply Nat.leb_le.
Qed.

#[export, refine] Instance stored_laws : ZstdLaws := {
  contents := stored_contents;
  dctx_fed := fst;
  dctx_out := snd;
  cctx_ok := stored_ok;
  cctx_input c := c.1.1;
  cctx_output c := c.1.2;
  cctx_bound := stored_bound;
}.
Proof.
  - done.
  - apply contents_mono_stored.
  - done.
  - intros d input room d' n bs r Hpre Hd.
    destruct (stored_decompress_spec _ _ _ _ _ _ _ Hpre Hd) as (->&?&?&?&?&?).
    split_and!; try done. by rewrite take_ge.
  - split_and!; [|done|done]. intros dir. split; [by exists []|done].
  - simpl. lia.
  - intros c input room dir c' n bs r Hok Hc. pose proof (proj2 Hok) as Hend.
    destruct (stored_compress_spec _ _ _ _ _ _ _ _ Hok Hc) as (->&Hl&Hin&Hout&He&Hp&Hfull&Hprog).
    split_and!; try done.
    + by rewrite take_ge.
    + unfold stored_bound. rewrite Hin, Hout, drop_ge, app_nil_r, length_app by done.
      apply prefix_length in Hp. unfold target in Hp. rewrite Hout, Hin, !length_app in Hp.
      revert Hp. simpl. destruct c'.2; simpl; lia.
    + by apply contents_out.
    + intros Hdir _ Hr. rewrite (Hfull Hdir Hr). apply contents_target. destruct c'.2; auto.
    + intros Hroom [Hne|Hr]; [left|right; auto]. destruct input; simpl; [done|lia].
    + intros Hdir dir'. split; [done|]. rewrite He. intros [Hc2|Hd]%orb_true_iff.
      * by apply Hend in Hc2.
      * by destruct dir.
    + intros Hr. split; [done|]. rewrite He. intros [Hc2|Hd]%orb_true_iff; [auto|].
      by destruct dir.
Defined.
End Stored.
