(* ===== verification/H2Receive.v ===== *)
(** The receiving half of a lane in [h2.cpp]: DATA frames are decompressed into
    the buffer of a waiting reader or into staged buffers, and reads drain what is
    staged before they wait.  The theorems show that a lane is a byte stream:
    every interleaving of frames and reads hands out exactly the contents of what
    was received, in order. *)
From S2P Require Import Prelude H2State.

Definition kH2DecodeBufferBytes : nat := 64 * 1024.
Definition kH2StagingPoolBytes : Z := 4 * 1024 * 1024.
Definition NGHTTP2_ERR_CALLBACK_FAILURE : Z := -902.
Definition READ_STREAM_END : Z := -2.

Section Receive.
Context `{Zstd}.

(** * Staging *)

(** Writes into the waiting reader's buffer and moves its position. *)
Definition deliver (bytes : list byte) (i : h2_inbound) : h2_inbound :=
  Inbound (local_out i) (Some (default [] (read_destination i) ++ bytes))
    (read_remaining i - length bytes) (decoder i) (decoder_finished i).

(** [vector::assign] keeps a capacity that is large enough. *)
Definition assign (data : list byte) (b : h2_buffer) : h2_buffer :=
  Buffer data 0 (Z.max (buf_capacity b) (Z.of_nat (length data))).

(** The staging buffer comes from the back of the pool when it has one. *)
Definition take_buffer (pool : list h2_buffer * Z) : h2_buffer * (list h2_buffer * Z) :=
  match last pool.1 with
  | Some b => (b, (take (length pool.1 - 1) pool.1, wrap64 (pool.2 - buf_capacity b)))
  | None => (Buffer [] 0 0, pool)
  end.

Definition stage (data : list byte) (i : h2_inbound) (pool : list h2_buffer * Z)
    : h2_inbound * (list h2_buffer * Z) :=
  let '(b, pool) := take_buffer pool in
  (Inbound (local_out i ++ [assign data b]) (read_destination i) (read_remaining i)
     (decoder i) (decoder_finished i), pool).

Definition pool_of (t : h2_transport) : list h2_buffer * Z := (buffer_pool t, buffer_pool_bytes t).

Definition receive_bytes (id : Z) (data : list byte) (t : h2_transport) : h2_transport :=
  if bool_decide (data = []) then t
  else
    let s := h2_get_stream t id in
    let direct := Nat.min (length data) (read_remaining (s_in s)) in
    let i := if (direct =? 0)%nat then s_in s else deliver (take direct data) (s_in s) in
    let data := drop direct data in
    if bool_decide (data = []) then put_stream id (set_in i s) t
    else
      let '(i, pool) := stage data i (pool_of t) in
      set_pool pool (put_stream id (set_in i s) t).

(** * DATA frames *)

Definition set_decoder (d : dctx) (i : h2_inbound) : h2_inbound :=
  Inbound (local_out i) (read_destination i) (read_remaining i) (Some d) (decoder_finished i).

Definition finish_decoder (i : h2_inbound) : h2_inbound :=
  Inbound (local_out i) (read_destination i) (read_remaining i) (decoder i) true.

Definition update_in (id : Z) (f : h2_inbound -> h2_inbound) (t : h2_transport) : h2_transport :=
  let s := h2_get_stream t id in put_stream id (set_in (f (s_in s)) s) t.

(** One call of the decompressor: into the reader's buffer or a local one. *)
Definition decode_room (i : h2_inbound) : nat :=
  if (0 <? read_remaining i)%nat then read_remaining i else kH2DecodeBufferBytes.

(** The loop of the data callback over the rest of the chunk; [None] when the
    fuel runs out. *)
Fixpoint decode_loop (fuel : nat) (id : Z) (d : dctx) (data : list byte) (t : h2_transport)
    : option (Z * h2_transport) :=
  match fuel with
  | O => None
  | S fuel =>
      let i := s_in (h2_get_stream t id) in
      let direct := (0 <? read_remaining i)%nat in
      let room := decode_room i in
      match ZSTD_decompressStream d data room with
      | (d, None) => Some (NGHTTP2_ERR_CALLBACK_FAILURE, update_in id (set_decoder d) t)
      | (d, Some (input, produced, result)) =>
          let t := update_in id (set_decoder d) t in
          let t := if direct then update_in id (deliver produced) t
                   else receive_bytes id produced t in
          let data := drop input data in
          if (result =? 0)%nat then
            if negb (bool_decide (data = [])) then Some (NGHTTP2_ERR_CALLBACK_FAILURE, t)
            else Some (0, update_in id finish_decoder t)
          else if (input =? 0)%nat && bool_decide (produced = []) then
            if negb (bool_decide (data = [])) then Some (NGHTTP2_ERR_CALLBACK_FAILURE, t)
            else Some (0, t)
          else if bool_decide (data = []) && (length produced <? room)%nat then Some (0, t)
          else decode_loop fuel id d data t
      end
  end.

(** [created] says whether a new decoder could be set up. *)
Definition h2_on_data_chunk_recv_callback (fuel : nat) (created : bool) (id : Z)
    (data : list byte) (t : h2_transport) : option (Z * h2_transport) :=
  let s := h2_get_stream t id in
  if negb (zstd_encoded (s_head s)) || decoder_finished (s_in s)
  then Some (NGHTTP2_ERR_CALLBACK_FAILURE, put_stream id s t)
  else
    match decoder (s_in s) with
    | Some d => decode_loop fuel id d data (put_stream id s t)
    | None =>
        if created
        then decode_loop fuel id ZSTD_createDCtx data
               (update_in id (set_decoder ZSTD_createDCtx) t)
        else Some (NGHTTP2_ERR_CALLBACK_FAILURE, put_stream id s t)
    end.

(** Codecs are released; the entry stays so that late readers see it closed. *)
Definition h2_on_stream_close_callback (id : Z) (t : h2_transport) : h2_transport :=
  let s := h2_get_stream t id in
  let i := s_in s in
  let o := s_out s in
  let s := Stream (Inbound [] (read_destination i) (read_remaining i) None (decoder_finished i))
             (Outbound None (encoder_started o) (encoder_finished o) (provider_submitted o)
                (provider_deferred o) (flush_queued o) [] (encoded_size o) (encoded_offset o))
             (s_head s) true (remote_end s) in
  let t := put_stream id s t in
  if (id =? dispatch_stream_id t) && negb (h2_retryable_handshake_rejection t s)
  then h2_fail_transport_locked t else t.

(** * Reads *)

(** A drained buffer goes back to the pool while its capacity fits. *)
Definition recycle (b : h2_buffer) (pool : list h2_buffer * Z) : list h2_buffer * Z :=
  if wrap64 (pool.2 + buf_capacity b) <=? kH2StagingPoolBytes
  then (pool.1 ++ [b], wrap64 (pool.2 + buf_capacity b)) else pool.

Fixpoint drain_staged (want : nat) (queue : list h2_buffer) (pool : list h2_buffer * Z)
    : list byte * list h2_buffer * (list h2_buffer * Z) :=
  match queue with
  | [] => ([], [], pool)
  | front :: rest =>
      if (want =? 0)%nat then ([], queue, pool)
      else
        let available := (length (buf_data front) - buf_offset front)%nat in
        let chunk := Nat.min available want in
        let bytes := take chunk (drop (buf_offset front) (buf_data front)) in
        let front := Buffer (buf_data front) (buf_offset front + chunk) (buf_capacity front) in
        if (buf_offset front =? length (buf_data front))%nat then
          let '(more, queue, pool) := drain_staged (want - chunk) rest (recycle front pool) in
          (bytes ++ more, queue, pool)
        else (bytes, front :: rest, pool)
  end.

Definition bad_status (s : h2_stream) : bool :=
  negb (response_status (s_head s) =? 0) && negb (response_status (s_head s) =? 200).

(** A read returns with its result and the bytes it placed, or waits. *)
Inductive read_outcome := ReadReturns (result : Z) (bytes : list byte) | ReadWaits.

(** [rpc_http2_read_stream] up to its wait. *)
Definition read_stream_begin (id : Z) (size : nat) (t : h2_transport)
    : read_outcome * h2_transport :=
  let s := h2_get_stream t id in
  let i := s_in s in
  let '(bytes, queue, pool) := drain_staged size (local_out i) (pool_of t) in
  let i := Inbound queue (read_destination i) (read_remaining i) (decoder i)
             (decoder_finished i) in
  let t := set_pool pool (put_stream id (set_in i s) t) in
  if (length bytes =? size)%nat then (ReadReturns 0 bytes, t)
  else if bool_decide (is_Some (read_destination i)) || bad_status s
  then (ReadReturns (-1) bytes, t)
  else if transport_failed t || closed s || remote_end s
  then (ReadReturns (if remote_end s then READ_STREAM_END else -1) bytes, t)
  else (ReadWaits, put_stream id
          (set_in (Inbound queue (Some bytes) (size - length bytes) (decoder i)
                     (decoder_finished i)) s) t).

(** From the end of the wait; [None] while the wait goes on. *)
Definition read_stream_end (id : Z) (t : h2_transport)
    : option (Z * list byte * h2_transport) :=
  let s := h2_get_stream t id in
  let i := s_in s in
  if negb (read_remaining i =? 0)%nat && negb (transport_failed t) && negb (closed s)
     && negb (remote_end s) && negb (bad_status s)
  then None
  else
    let complete := (read_remaining i =? 0)%nat in
    let bytes := default [] (read_destination i) in
    let t := put_stream id (set_in (Inbound (local_out i) None 0 (decoder i)
                                      (decoder_finished i)) s) t in
    Some (if complete then 0 else if remote_end s then READ_STREAM_END else -1, bytes, t).

(** * Interleavings *)

Inductive recv_event :=
  | Received (id : Z) (data : list byte)
  | Handed (id : Z) (bytes : list byte).

Definition received_part (id : Z) (e : recv_event) : list byte :=
  match e with Received id' data => if id =? id' then data else [] | Handed _ _ => [] end.

Definition handed_part (id : Z) (e : recv_event) : list byte :=
  match e with Handed id' bytes => if id =? id' then bytes else [] | Received _ _ => [] end.

(** The DATA payload that arrived on a stream and the bytes that its readers
    were given, in order. *)
Definition received (id : Z) (tr : list recv_event) : list byte := tr ≫= received_part id.
Definition handed (id : Z) (tr : list recv_event) : list byte := tr ≫= handed_part id.

(** Everything that leaves the receiving halves alone. *)
Definition receive_frame (t t' : h2_transport) : Prop :=
  (forall id, s_in (h2_get_stream t' id) = s_in (h2_get_stream t id) /\
              closed (h2_get_stream t' id) = closed (h2_get_stream t id)) /\
  pool_of t' = pool_of t /\ (transport_failed t = true -> transport_failed t' = true).

(** A callback that fails makes the session fail, and with it the transport.  The
    session delivers nothing on a closed stream.  A lane has one reader, the
    thread that holds its call lock. *)
Inductive recv_step : h2_transport -> list recv_event -> h2_transport -> Prop :=
  | recv_chunk fuel created id data t r t' :
      transport_failed t = false -> closed (h2_get_stream t id) = false ->
      h2_on_data_chunk_recv_callback fuel created id data t = Some (r, t') ->
      recv_step t [Received id data] (if r =? 0 then t' else h2_fail_transport_locked t')
  | recv_read id size t r bytes t' :
      read_destination (s_in (h2_get_stream t id)) = None ->
      read_stream_begin id size t = (ReadReturns r bytes, t') ->
      recv_step t [Handed id bytes] t'
  | recv_wait id size t t' :
      read_destination (s_in (h2_get_stream t id)) = None ->
      read_stream_begin id size t = (ReadWaits, t') -> recv_step t [] t'
  | recv_wake id t r bytes t' :
      is_Some (read_destination (s_in (h2_get_stream t id))) ->
      read_stream_end id t = Some (r, bytes, t') -> recv_step t [Handed id bytes] t'
  | recv_close id t : recv_step t [] (h2_on_stream_close_callback id t)
  | recv_other t t' : receive_frame t t' -> recv_step t [] t'.

Inductive recv_run (is_server : bool) : list recv_event -> h2_transport -> Prop :=
  | recv_run_start : recv_run is_server [] (new_transport is_server)
  | recv_run_step tr t e t' :
      recv_run is_server tr t -> recv_step t e t' -> recv_run is_server (tr ++ e) t'.

(** * What has not been handed out *)

Definition buffered (b : h2_buffer) : list byte := drop (buf_offset b) (buf_data b).

Definition staged (i : h2_inbound) : list byte := local_out i ≫= buffered.

Definition unread (i : h2_inbound) : list byte :=
  default [] (read_destination i) ++ staged i.

Definition buffer_ok (b : h2_buffer) : Prop :=
  (buf_offset b <= length (buf_data b))%nat /\
  0 <= buf_capacity b <= Z.of_nat kH2DecodeBufferBytes.

(** A reader waits only when nothing is staged, and has a buffer while it waits. *)
Record inbound_ok (i : h2_inbound) : Prop := InboundOk {
  in_buffers : Forall buffer_ok (local_out i);
  in_destination : read_destination i = None -> read_remaining i = O;
  in_waiting : (0 < read_remaining i)%nat -> local_out i = [];
}.

(** The rest of the transport while stream [id] receives. *)
Definition same_but_in (id : Z) (t t' : h2_transport) : Prop :=
  (forall id', id' <> id -> h2_get_stream t' id' = h2_get_stream t id') /\
  closed (h2_get_stream t' id) = closed (h2_get_stream t id) /\
  transport_failed t' = transport_failed t.

Lemma same_but_in_refl id t : same_but_in id t t.
Proof. done. Qed.

Lemma same_but_in_trans id t1 t2 t3 :
  same_but_in id t1 t2 -> same_but_in id t2 t3 -> same_but_in id t1 t3.
Proof.
  intros (H1&H2&H3) (H4&H5&H6). split_and!; [|congruence..].
  intros id' ?. by rewrite H4, H1.
Qed.

Lemma put_in_same id i t :
  same_but_in id t (put_stream id (set_in i (h2_get_stream t id)) t).
Proof.
  split_and!; [|by rewrite get_put_same|done]. intros id' ?. by rewrite get_put_other.
Qed.

Lemma update_in_spec id f t :
  s_in (h2_get_stream (update_in id f t) id) = f (s_in (h2_get_stream t id)) /\
  same_but_in id t (update_in id f t) /\ pool_of (update_in id f t) = pool_of t.
Proof.
  unfold update_in. split_and!; [by rewrite get_put_same|apply put_in_same|done].
Qed.

Lemma unread_deliver bytes i :
  inbound_ok i -> (0 < read_remaining i)%nat -> (length bytes <= read_remaining i)%nat ->
  unread (deliver bytes i) = unread i ++ bytes /\ inbound_ok (deliver bytes i).
Proof.
  intros [Hb Hd Hw] Hpos Hlen. pose proof (Hw Hpos) as Hq. split.
  - unfold unread, staged. simpl. rewrite Hq. simpl. by rewrite !app_nil_r.
  - constructor; simpl; [done|done|]. intros _. done.
Qed.

(** * The staging pool *)

Definition capacity_sum (bs : list h2_buffer) : Z := foldr (fun b n => buf_capacity b + n) 0 bs.

(** The counter is the capacity kept, and the capacity kept is bounded. *)
Record pool_ok (p : list h2_buffer * Z) : Prop := PoolOk {
  pool_buffers : Forall buffer_ok p.1;
  pool_count : p.2 = capacity_sum p.1;
  pool_bound : p.2 <= kH2StagingPoolBytes;
}.

Lemma capacity_sum_app a b : capacity_sum (a ++ b) = capacity_sum a + capacity_sum b.
Proof. induction a; simpl; lia. Qed.

Lemma capacity_sum_nonneg bs : Forall buffer_ok bs -> 0 <= capacity_sum bs.
Proof. induction 1 as [|b bs [_ Hb] _ IH]; simpl; lia. Qed.

Lemma take_buffer_ok pool b pool' :
  pool_ok pool -> take_buffer pool = (b, pool') ->
  0 <= buf_capacity b <= Z.of_nat kH2DecodeBufferBytes /\ pool_ok pool'.
Proof.
  destruct pool as [bs n]. intros [Hb Hn Hm]. unfold take_buffer. simpl in *.
  destruct (last bs) as [b'|] eqn:El; intros [= <- <-].
  - apply last_Some in El as [bs' ->]. rewrite length_app, Nat.add_sub, take_app_length.
    rewrite capacity_sum_app in Hn. simpl in Hn.
    apply Forall_app in Hb as [Hb [[Ho Hc] _]%Forall_cons]. split; [done|].
    pose proof (capacity_sum_nonneg _ Hb). unfold kH2StagingPoolBytes in *.
    rewrite wrap64_id by (unfold is_u64; lia). constructor; simpl; [done|lia|].
    unfold kH2StagingPoolBytes. lia.
  - simpl. split; [lia|]. by constructor.
Qed.

Lemma stage_spec data i pool i' pool' :
  stage data i pool = (i', pool') -> inbound_ok i -> pool_ok pool -> read_remaining i = O ->
  (length data <= kH2DecodeBufferBytes)%nat ->
  unread i' = unread i ++ data /\ inbound_ok i' /\ pool_ok pool' /\ decoder i' = decoder i.
Proof.
  unfold stage. destruct (take_buffer pool) as [b p] eqn:Eb. intros [= <- <-] [Hb Hd Hw] Hp Hr Hl.
  destruct (take_buffer_ok _ _ _ Hp Eb) as [Hc Hp']. split_and!; [| |done|done].
  - unfold unread, staged. simpl. by rewrite bind_app, app_assoc; simpl; rewrite app_nil_r.
  - constructor; simpl; [|done|lia]. apply Forall_app. split; [done|].
    constructor; [|constructor]. split; simpl; lia.
Qed.

Lemma recycle_ok b pool : buffer_ok b -> pool_ok pool -> pool_ok (recycle b pool).
Proof.
  destruct pool as [bs n]. intros Hb [Hbs Hn Hm]. unfold recycle. simpl in *.
  pose proof (capacity_sum_nonneg _ Hbs). pose proof (proj2 Hb) as Hc.
  unfold kH2StagingPoolBytes, kH2DecodeBufferBytes in *.
  rewrite wrap64_id by (unfold is_u64; lia). case_if; [|by constructor].
  constructor; simpl; [|rewrite capacity_sum_app; simpl; lia|done].
  by rewrite Forall_app, Forall_singleton.
Qed.

Lemma drain_staged_spec want queue pool bytes queue' pool' :
  drain_staged want queue pool = (bytes, queue', pool') ->
  Forall buffer_ok queue -> pool_ok pool ->
  bytes = take want (queue ≫= buffered) /\ queue' ≫= buffered = drop want (queue ≫= buffered) /\
  Forall buffer_ok queue' /\ pool_ok pool' /\ ((length bytes < want)%nat -> queue' = []).
Proof.
  revert want pool bytes queue' pool'.
  induction queue as [|b queue IH]; intros want pool bytes queue' pool' Hd Hq Hp; simpl in Hd.
  { injection Hd as <- <- <-. simpl. by rewrite take_nil, drop_nil. }
  apply Forall_cons in Hq as [[Ho Hc] Hq].
  destruct (want =? 0)%nat eqn:Ew.
  { apply Nat.eqb_eq in Ew as ->. injection Hd as <- <- <-. split_and!; try done.
    - by constructor.
    - simpl. lia. }
  apply Nat.eqb_neq in Ew. simpl.
  set (avail := (length (buf_data b) - buf_offset b)%nat) in *.
  assert (length (buffered b) = avail) as Hav by (unfold buffered; by rewrite length_drop).
  destruct (buf_offset b + avail `min` want =? length (buf_data b))%nat eqn:Ef.
  - apply Nat.eqb_eq in Ef. assert (avail <= want)%nat as Hle by lia.
    rewrite Nat.min_l in * by done.
    destruct (drain_staged _ queue _) as [[more queue''] pool''] eqn:Er.
    injection Hd as <- <- <-.
    destruct (IH _ _ _ _ _ Er Hq) as (->&Hq'&Hok&Hp'&Hshort).
    { apply recycle_ok; [|done]. split; simpl; [lia|done]. }
    fold (buffered b). rewrite (take_ge (buffered b)) by lia.
    split_and!; [|by rewrite Hq', drop_app_ge, Hav by lia|done|done|].
    + rewrite take_app, (take_ge (buffered b)) by lia. by rewrite Hav.
    + rewrite length_app, length_take in *. intros. apply Hshort. lia.
  - apply Nat.eqb_neq in Ef. injection Hd as <- <- <-.
    assert (want < avail)%nat by lia. rewrite Nat.min_r in * by lia.
    fold (buffered b). split_and!; [by rewrite take_app_le by lia| | |done|].
    + simpl. rewrite drop_app_le by lia. unfold buffered. simpl. by rewrite drop_drop.
    + constructor; [|done]. split; simpl; [lia|done].
    + rewrite length_take. lia.
Qed.
(** * Chunks *)

(** What an update of stream [id] that appends [data] to its unread bytes keeps. *)
Record appended (id : Z) (data : list byte) (d : option dctx) (t t' : h2_transport) : Prop :=
  Appended {
  app_unread : unread (s_in (h2_get_stream t' id)) = unread (s_in (h2_get_stream t id)) ++ data;
  app_ok : inbound_ok (s_in (h2_get_stream t' id));
  app_pool : pool_ok (pool_of t');
  app_decoder : decoder (s_in (h2_get_stream t' id)) = d;
  app_same : same_but_in id t t';
}.

Lemma put_appended id data i p t :
  unread i = unread (s_in (h2_get_stream t id)) ++ data -> inbound_ok i -> pool_ok p ->
  appended id data (decoder i) t
    (set_pool p (put_stream id (set_in i (h2_get_stream t id)) t)).
Proof.
  intros Hu Hi Hp. constructor; rewrite ?get_pool, ?get_put_same; try done.
  - by destruct p.
  - destruct (put_in_same id i t) as (?&?&?). by split_and!.
Qed.

Lemma receive_bytes_spec id data t :
  inbound_ok (s_in (h2_get_stream t id)) -> pool_ok (pool_of t) ->
  (length data <= kH2DecodeBufferBytes)%nat ->
  appended id data (decoder (s_in (h2_get_stream t id))) t (receive_bytes id data t).
Proof.
  intros Hi Hp Hl. unfold receive_bytes. case_bool_decide as He.
  { subst. constructor; try done. by rewrite app_nil_r. }
  set (i := s_in (h2_get_stream t id)) in *.
  set (direct := Nat.min (length data) (read_remaining i)).
  set (i1 := if (direct =? 0)%nat then i else deliver (take direct data) i).
  assert (unread i1 = unread i ++ take direct data /\ inbound_ok i1 /\ decoder i1 = decoder i /\
          read_remaining i1 = (read_remaining i - direct)%nat) as (Hu&Hi1&Hd1&Hr1).
  { unfold i1. destruct (direct =? 0)%nat eqn:E0.
    - apply Nat.eqb_eq in E0 as ->. rewrite app_nil_r. split_and!; [done..|lia].
    - apply Nat.eqb_neq in E0. destruct (unread_deliver (take direct data) i) as [Hu Hok].
      + done.
      + lia.
      + rewrite length_take. lia.
      + split_and!; [done..|]. simpl. rewrite length_take. lia. }
  rewrite <- Hd1. case_bool_decide as Hdrop.
  - apply (put_appended id data i1 (pool_of t) t); [|done..].
    fold i. rewrite Hu. f_equal. rewrite <- (take_drop direct data) at 2.
    by rewrite Hdrop, app_nil_r.
  - destruct (stage _ _ _) as [i2 p2] eqn:Es.
    assert (length (drop direct data) <> O) as Hne by by destruct (drop direct data).
    rewrite length_drop in Hne.
    destruct (stage_spec _ _ _ _ _ Es Hi1 Hp) as (Hu2&Hi2&Hp2&Hd2).
    + lia.
    + rewrite length_drop. lia.
    + rewrite <- Hd2. apply put_appended; [|done..].
      by rewrite Hu2, Hu, <- app_assoc, take_drop.
Qed.

Lemma place_spec id d produced t :
  inbound_ok (s_in (h2_get_stream t id)) -> pool_ok (pool_of t) ->
  (length produced <= decode_room (s_in (h2_get_stream t id)))%nat ->
  appended id produced (Some d) t
    (if (0 <? read_remaining (s_in (h2_get_stream t id)))%nat
     then update_in id (deliver produced) (update_in id (set_decoder d) t)
     else receive_bytes id produced (update_in id (set_decoder d) t)).
Proof.
  intros Hi Hp Hl. destruct (update_in_spec id (set_decoder d) t) as (Hs&Hsame&Hpool).
  set (t1 := update_in id (set_decoder d) t) in *.
  set (i := s_in (h2_get_stream t id)) in *.
  assert (inbound_ok (set_decoder d i)) as Hi1 by (destruct Hi; by constructor).
  unfold decode_room in Hl. destruct (0 <? read_remaining i)%nat eqn:Er.
  - apply Nat.ltb_lt in Er. destruct (update_in_spec id (deliver produced) t1) as (Hs2&Hsame2&Hp2).
    destruct (unread_deliver produced (set_decoder d i)) as [Hu Hok]; [done..|].
    constructor; rewrite ?Hs2, ?Hs; [done|done|by rewrite Hp2, Hpool|done|].
    by eapply same_but_in_trans.
  - destruct (receive_bytes_spec id produced t1) as [Hu Hok Hp2 Hd Hsame2];
      [by rewrite Hs|by rewrite Hpool|done|].
    rewrite Hs in Hu, Hd. constructor; [done..|]. by eapply same_but_in_trans.
Qed.
End Receive.

Section Laws.
Context `{ZstdLaws}.

(** What a decoder has produced is what the stream's readers got or will get. *)
Definition decoding (before : list byte) (d : dctx) (i : h2_inbound) : Prop :=
  before ++ unread i = dctx_out d /\ dctx_out d `prefix_of` contents (dctx_fed d).

Definition chunk_done (id : Z) (before R : list byte) (r : Z) (t t' : h2_transport) : Prop :=
  let i := s_in (h2_get_stream t' id) in
  same_but_in id t t' /\ inbound_ok i /\ pool_ok (pool_of t') /\
  before ++ unread i `prefix_of` contents R /\
  (r = 0 -> before ++ unread i = contents R /\
     exists d, decoder i = Some d /\ dctx_fed d = R /\ dctx_out d = contents R).

(** One call of the decompressor keeps the loop's invariant, and completes it
    when it took all the input and left room, or ended the frame. *)
Lemma decode_turn_spec id d d' data t before n produced r :
  ZSTD_decompressStream d data (decode_room (s_in (h2_get_stream t id))) =
    (d', Some (n, produced, r)) ->
  inbound_ok (s_in (h2_get_stream t id)) -> pool_ok (pool_of t) ->
  decoding before d (s_in (h2_get_stream t id)) ->
  exists t', t' = (if (0 <? read_remaining (s_in (h2_get_stream t id)))%nat
              then update_in id (deliver produced) (update_in id (set_decoder d') t)
              else receive_bytes id produced (update_in id (set_decoder d') t)) /\
  appended id produced (Some d') t t' /\
  decoding before d' (s_in (h2_get_stream t' id)) /\
  dctx_fed d' ++ drop n data = dctx_fed d ++ data /\
  (length (drop n data) + n = length data)%nat /\
  length (dctx_out d') = (length (dctx_out d) + length produced)%nat /\
  ((length produced < decode_room (s_in (h2_get_stream t id)))%nat \/ r = O ->
     dctx_out d' = contents (dctx_fed d')).
Proof.
  intros Hz Hi Hp [Hb Hpre].
  apply (decompress_spec _ _ _ _ _ _ _ Hpre) in Hz as (Hn&Hl&Hfed&Hout&Hpre'&Hall).
  eexists. split; [done|]. pose proof (place_spec id d' produced t Hi Hp Hl) as Happ.
  split_and!; [done| | | | |done].
  - split; [|done]. by rewrite (app_unread _ _ _ _ _ Happ), app_assoc, Hb.
  - by rewrite Hfed, <- app_assoc, take_drop.
  - rewrite length_drop. lia.
  - by rewrite Hout, length_app.
Qed.

Lemma appended_done id produced d t t' before R r :
  appended id produced (Some d) t t' -> decoding before d (s_in (h2_get_stream t' id)) ->
  dctx_fed d `prefix_of` R ->
  (r = 0 -> dctx_fed d = R /\ dctx_out d = contents (dctx_fed d)) ->
  chunk_done id before R r t t'.
Proof.
  intros [Hu Hok Hp Hd Hsame] [Hb Hpre] [k HR] Hr. unfold chunk_done. rewrite Hb.
  split_and!; [done..| |].
  - etrans; [done|]. rewrite HR. apply contents_mono.
  - intros Hr0. destruct (Hr Hr0) as [<- Ho]. eauto.
Qed.

Lemma chunk_done_weaken id before R r t1 t2 t3 :
  same_but_in id t1 t2 -> chunk_done id before R r t2 t3 -> chunk_done id before R r t1 t3.
Proof. intros H1 (H2&?). split; [by eapply same_but_in_trans|done]. Qed.

Lemma update_in_done id f before R r t t' :
  (forall i, unread (f i) = unread i /\ (r = 0 -> decoder (f i) = decoder i) /\
             (inbound_ok i -> inbound_ok (f i))) ->
  chunk_done id before R r t t' -> chunk_done id before R r t (update_in id f t').
Proof.
  intros Hf (Hsame&Hok&Hp&Hpre&Hr). destruct (update_in_spec id f t') as (Hs&Hs'&Hpool).
  unfold chunk_done. rewrite Hs, Hpool. destruct (Hf (s_in (h2_get_stream t' id))) as (->&Hd&Hk).
  split_and!; [by eapply same_but_in_trans|by apply Hk|done..|].
  intros Hr0. by rewrite (Hd Hr0); apply Hr.
Qed.

Lemma decode_loop_spec fuel id d data t r t' before R :
  decode_loop fuel id d data t = Some (r, t') ->
  inbound_ok (s_in (h2_get_stream t id)) -> pool_ok (pool_of t) ->
  decoding before d (s_in (h2_get_stream t id)) -> dctx_fed d ++ data = R ->
  chunk_done id before R r t t'.
Proof.
  revert d data t. induction fuel as [|fuel IH]; intros d data t Hl Hi Hp Hdec HR; [done|].
  simpl in Hl. destruct (ZSTD_decompressStream d data _) as [d' [[[n produced] res]|]] eqn:Ez.
  - destruct (decode_turn_spec _ _ _ _ _ _ _ _ _ Ez Hi Hp Hdec)
      as (t1&Ht1&Happ&Hdec1&Hfed&Hdrop&_&Hall).
    rewrite <- Ht1 in Hl. clear Ht1. rewrite HR in Hfed.
    assert (dctx_fed d' `prefix_of` R) as Hpre by (by eexists).
    assert (forall q, (q = 0 -> drop n data = [] /\ dctx_out d' = contents (dctx_fed d')) ->
              chunk_done id before R q t t1) as Hstop.
    { intros q Hq. eapply appended_done; [done..|]. intros [He Ho]%Hq. split; [|done].
      by rewrite <- Hfed, He, app_nil_r. }
    destruct (res =? 0)%nat eqn:Er; [|destruct ((n =? 0)%nat && _) eqn:E0;
      [|destruct (bool_decide (drop n data = []) && _) eqn:E1]].
    + apply Nat.eqb_eq in Er. case_bool_decide; injection Hl as <- <-.
      * apply update_in_done; [|by apply Hstop; auto].
        intros i. split_and!; [done..|]. intros []. by constructor.
      * apply Hstop. done.
    + apply andb_true_iff in E0 as [_ He]. apply bool_decide_eq_true in He as ->.
      case_bool_decide; injection Hl as <- <-; apply Hstop; [|done].
      intros _. split; [done|]. apply Hall. left. simpl. unfold decode_room, kH2DecodeBufferBytes.
      destruct (0 <? _)%nat eqn:?; [by apply Nat.ltb_lt|lia].
    + apply andb_true_iff in E1 as [He Hlt]. apply bool_decide_eq_true in He.
      apply Nat.ltb_lt in Hlt. injection Hl as <- <-. apply Hstop. auto.
    + eapply chunk_done_weaken; [apply Happ|]. eapply IH; [done|apply Happ|apply Happ|done..].
  - injection Hl as <- <-. apply update_in_done.
    { intros i. split_and!; [done..|]. intros []. by constructor. }
    destruct Hdec as [Hb Hpre]. unfold chunk_done. rewrite Hb. split_and!; [done..| |done].
    etrans; [done|]. rewrite <- HR. apply contents_mono.
Qed.

(** Turns the loop can still take: every one but the last takes input or
    produces output, and both are bounded. *)
Definition turns_bound (d : dctx) (data : list byte) : nat :=
  length data + (length (contents (dctx_fed d ++ data)) - length (dctx_out d)).

Lemma decode_loop_total fuel id d data t before :
  inbound_ok (s_in (h2_get_stream t id)) -> pool_ok (pool_of t) ->
  decoding before d (s_in (h2_get_stream t id)) -> (turns_bound d data < fuel)%nat ->
  is_Some (decode_loop fuel id d data t).
Proof.
  revert d data t. induction fuel as [|fuel IH]; intros d data t Hi Hp Hdec Hf; [lia|].
  simpl. destruct (ZSTD_decompressStream d data _) as [d' [[[n produced] res]|]] eqn:Ez; [|done].
  destruct (decode_turn_spec _ _ _ _ _ _ _ _ _ Ez Hi Hp Hdec)
    as (t1&Ht1&Happ&Hdec1&Hfed&Hdrop&Hlen&_).
  rewrite <- Ht1. clear Ht1. destruct (res =? 0)%nat; [by destruct (negb _)|].
  destruct ((n =? 0)%nat && _) eqn:E0; [by destruct (negb _)|].
  destruct (bool_decide (drop n data = []) && _); [done|].
  eapply IH; [apply Happ|apply Happ|done|]. unfold turns_bound in *. rewrite Hfed.
  assert (length (dctx_out d') <= length (contents (dctx_fed d ++ data)))%nat as Hle.
  { apply prefix_length. etrans; [apply Hdec1|]. rewrite <- Hfed. apply contents_mono. }
  assert (0 < n + length produced)%nat; [|lia].
  apply andb_false_iff in E0 as [E0%Nat.eqb_neq|E0%bool_decide_eq_false]; [lia|].
  destruct produced; simpl; [done|lia].
Qed.

(** * The invariant of a run *)

Record lane_inv (id : Z) (tr : list recv_event) (t : h2_transport) : Prop := LaneInv {
  lane_in : inbound_ok (s_in (h2_get_stream t id));
  lane_prefix : handed id tr ++ unread (s_in (h2_get_stream t id))
                  `prefix_of` contents (received id tr);
  lane_open : closed (h2_get_stream t id) = false -> transport_failed t = false ->
    handed id tr ++ unread (s_in (h2_get_stream t id)) = contents (received id tr) /\
    match decoder (s_in (h2_get_stream t id)) with
    | Some d => dctx_fed d = received id tr /\ dctx_out d = contents (received id tr)
    | None => received id tr = []
    end;
}.

Definition run_inv (tr : list recv_event) (t : h2_transport) : Prop :=
  pool_ok (pool_of t) /\ forall id, lane_inv id tr t.

Lemma received_app id tr e : received id (tr ++ e) = received id tr ++ received id e.
Proof. apply bind_app. Qed.

Lemma handed_app id tr e : handed id (tr ++ e) = handed id tr ++ handed id e.
Proof. apply bind_app. Qed.

Lemma start_inv is_server : run_inv [] (new_transport is_server).
Proof.
  split.
  - constructor; simpl; [constructor|done|]. unfold kH2StagingPoolBytes. lia.
  - intros id. constructor; unfold h2_get_stream; simpl; rewrite ?lookup_empty; simpl.
    + constructor; simpl; [constructor|done|lia].
    + apply prefix_nil.
    + by rewrite contents_nil.
Qed.

(** A step on another stream. *)
Lemma other_lane_inv id id' tr e t t' :
  id' <> id -> h2_get_stream t' id' = h2_get_stream t id' ->
  (transport_failed t = true -> transport_failed t' = true) ->
  received id' e = [] -> handed id' e = [] ->
  lane_inv id' tr t -> lane_inv id' (tr ++ e) t'.
Proof.
  intros Hne Hs Hf Hr Hh [Hi Hp Ho].
  constructor; rewrite ?received_app, ?handed_app, ?Hr, ?Hh, ?app_nil_r, ?Hs; [done..|].
  intros Hc Hft. apply Ho; [done|]. destruct (transport_failed t); [|done]. by rewrite Hf in Hft.
Qed.

Lemma chunk_lane_inv id tr data t r t' :
  chunk_done id (handed id tr) (received id tr ++ data) r t t' ->
  lane_inv id (tr ++ [Received id data]) (if r =? 0 then t' else h2_fail_transport_locked t').
Proof.
  intros (Hsame&Hok&_&Hpre&Hr).
  assert (received id (tr ++ [Received id data]) = received id tr ++ data) as HR.
  { rewrite received_app. simpl. by rewrite Z.eqb_refl, app_nil_r. }
  assert (handed id (tr ++ [Received id data]) = handed id tr) as HH.
  { rewrite handed_app. simpl. by rewrite app_nil_r. }
  destruct (r =? 0) eqn:E; breflect; constructor; rewrite ?HR, ?HH; try done.
  intros _ _. destruct (Hr E) as [? (d&->&?&?)]. done.
Qed.

(** The decoder that a chunk of an open stream is decoded with. *)
Lemma chunk_decoding id tr t :
  lane_inv id tr t -> closed (h2_get_stream t id) = false -> transport_failed t = false ->
  decoding (handed id tr) (default ZSTD_createDCtx (decoder (s_in (h2_get_stream t id))))
    (s_in (h2_get_stream t id)) /\
  dctx_fed (default ZSTD_createDCtx (decoder (s_in (h2_get_stream t id)))) = received id tr.
Proof.
  intros [_ _ Ho] Hc Hf. destruct (Ho Hc Hf) as [Hu Hd]. unfold decoding. rewrite Hu.
  destruct (decoder _) as [d|]; simpl.
  - destruct Hd as [-> ->]. done.
  - destruct dctx_new as [-> ->]. rewrite Hd, contents_nil. by split_and!.
Qed.

Lemma same_get_put id t : h2_get_stream (put_stream id (h2_get_stream t id) t) id = h2_get_stream t id.
Proof. apply get_put_same. Qed.

Lemma touch_same id t : same_but_in id t (put_stream id (h2_get_stream t id) t).
Proof.
  split_and!; [|by rewrite same_get_put|done]. intros id' ?. by apply get_put_other.
Qed.

Lemma chunk_rejected id tr data t r :
  lane_inv id tr t -> pool_ok (pool_of t) -> r <> 0 ->
  chunk_done id (handed id tr) (received id tr ++ data) r t (put_stream id (h2_get_stream t id) t).
Proof.
  intros [Hi Hpre _] Hp Hr. unfold chunk_done. rewrite same_get_put.
  split; [apply touch_same|]. split_and!; [done..| |done]. etrans; [done|]. apply contents_mono.
Qed.

Lemma callback_spec fuel created id tr data t r t' :
  h2_on_data_chunk_recv_callback fuel created id data t = Some (r, t') ->
  lane_inv id tr t -> pool_ok (pool_of t) ->
  closed (h2_get_stream t id) = false -> transport_failed t = false ->
  chunk_done id (handed id tr) (received id tr ++ data) r t t'.
Proof.
  intros Hcb Hinv Hp Hc Hf. unfold h2_on_data_chunk_recv_callback in Hcb.
  destruct (chunk_decoding _ _ _ Hinv Hc Hf) as [Hdec Hfed]. pose proof (lane_in _ _ _ Hinv) as Hi.
  case_if_in Hcb; [injection Hcb as <- <-; by apply chunk_rejected|].
  destruct (decoder _) as [d|] eqn:Ed; simpl in *.
  - eapply chunk_done_weaken; [apply touch_same|].
    eapply decode_loop_spec; [done|by rewrite same_get_put|done|by rewrite same_get_put|].
    by rewrite Hfed.
  - destruct created; [|injection Hcb as <- <-; by apply chunk_rejected].
    destruct (update_in_spec id (set_decoder ZSTD_createDCtx) t) as (Hs&Hsame&Hpool).
    eapply chunk_done_weaken; [done|].
    eapply decode_loop_spec; [done|rewrite Hs|by rewrite Hpool|by rewrite Hs|by rewrite Hfed].
    destruct Hi. by constructor.
Qed.

Lemma callback_total created id tr data t :
  lane_inv id tr t -> pool_ok (pool_of t) ->
  closed (h2_get_stream t id) = false -> transport_failed t = false ->
  exists fuel, is_Some (h2_on_data_chunk_recv_callback fuel created id data t).
Proof.
  intros Hinv Hp Hc Hf. unfold h2_on_data_chunk_recv_callback.
  destruct (chunk_decoding _ _ _ Hinv Hc Hf) as [Hdec _]. pose proof (lane_in _ _ _ Hinv) as Hi.
  set (d := default ZSTD_createDCtx (decoder (s_in (h2_get_stream t id)))) in *.
  exists (S (turns_bound d data)). case_if; [done|].
  destruct (decoder _) as [d'|]; simpl in d; subst d.
  - eapply decode_loop_total; [by rewrite same_get_put|done|by rewrite same_get_put|lia].
  - destruct created; [|done].
    destruct (update_in_spec id (set_decoder ZSTD_createDCtx) t) as (Hs&Hsame&Hpool).
    eapply decode_loop_total; [rewrite Hs|by rewrite Hpool|by rewrite Hs|lia].
    destruct Hi. by constructor.
Qed.

(** * Reads *)

(** A read takes [bytes] from the front of what is unread. *)
Lemma read_lane_inv id tr t t' bytes :
  lane_inv id tr t -> inbound_ok (s_in (h2_get_stream t' id)) ->
  unread (s_in (h2_get_stream t id)) = bytes ++ unread (s_in (h2_get_stream t' id)) ->
  decoder (s_in (h2_get_stream t' id)) = decoder (s_in (h2_get_stream t id)) ->
  closed (h2_get_stream t' id) = closed (h2_get_stream t id) ->
  transport_failed t' = transport_failed t ->
  lane_inv id (tr ++ [Handed id bytes]) t'.
Proof.
  intros [Hi Hp Ho] Hi' Hu Hd Hc Hf. rewrite Hu in Hp, Ho.
  assert (received id (tr ++ [Handed id bytes]) = received id tr) as HR.
  { rewrite received_app. simpl. by rewrite app_nil_r. }
  assert (handed id (tr ++ [Handed id bytes]) = handed id tr ++ bytes) as HH.
  { rewrite handed_app. simpl. by rewrite Z.eqb_refl, app_nil_r. }
  constructor; rewrite ?HR, ?HH, <- ?app_assoc, ?Hd, ?Hc, ?Hf; done.
Qed.

Lemma read_begin_spec id size t out t' :
  read_stream_begin id size t = (out, t') ->
  inbound_ok (s_in (h2_get_stream t id)) -> pool_ok (pool_of t) ->
  read_destination (s_in (h2_get_stream t id)) = None ->
  let i := s_in (h2_get_stream t id) in let i' := s_in (h2_get_stream t' id) in
  same_but_in id t t' /\ pool_ok (pool_of t') /\ inbound_ok i' /\ decoder i' = decoder i /\
  match out with
  | ReadReturns r bytes =>
      bytes = take size (unread i) /\ unread i' = drop size (unread i) /\
      (r = 0 <-> (size <= length (unread i))%nat)
  | ReadWaits => unread i' = unread i /\ (length (unread i) < size)%nat
  end.
Proof.
  intros Hrd Hi Hp Hnone i i'. unfold read_stream_begin in Hrd. fold i in Hrd, Hnone, Hi.
  destruct (drain_staged _ _ _) as [[bytes queue] pool] eqn:Edr.
  destruct Hi as [Hbuf Hdst Hwait].
  destruct (drain_staged_spec _ _ _ _ _ _ Edr Hbuf Hp) as (Hb&Hq&Hqok&Hpok&Hshort).
  set (j := Inbound queue (read_destination i) (read_remaining i) (decoder i)
              (decoder_finished i)) in *.
  assert (unread i = staged i) as Hui by (unfold unread; by rewrite Hnone).
  assert (unread j = drop size (unread i)) as Huj.
  { rewrite Hui. unfold unread, staged. simpl. by rewrite Hnone. }
  assert (inbound_ok j) as Hj by (constructor; simpl; [done..|]; rewrite Hdst by done; lia).
  fold (staged i) in Hb. rewrite <- Hui in Hb.
  assert (length bytes = Nat.min size (length (unread i))) as Hlen by by rewrite Hb, length_take.
  assert (forall r, (r = 0 <-> (size <= length (unread i))%nat) ->
    (ReadReturns r bytes, set_pool pool (put_stream id (set_in j (h2_get_stream t id)) t)) =
      (out, t') -> same_but_in id t t' /\ pool_ok (pool_of t') /\ inbound_ok i' /\
      decoder i' = decoder i /\
      match out with
      | ReadReturns r bytes =>
          bytes = take size (unread i) /\ unread i' = drop size (unread i) /\
          (r = 0 <-> (size <= length (unread i))%nat)
      | ReadWaits => unread i' = unread i /\ (length (unread i) < size)%nat
      end) as Hret.
  { intros r Hr [= <- <-]. subst i'. rewrite get_pool, get_put_same.
    split; [apply put_in_same|]. by destruct pool. }
  destruct (length bytes =? size)%nat eqn:El.
  { apply Nat.eqb_eq in El. apply (Hret 0); [|done]. lia. }
  apply Nat.eqb_neq in El. case_if_in Hrd; [apply (Hret (-1)); [|done]; split; lia|].
  case_if_in Hrd; [revert Hrd; apply Hret; destruct (remote_end _); unfold READ_STREAM_END; lia|].
  injection Hrd as <- <-. subst i'. rewrite get_put_same. rewrite Hshort in * by lia.
  split; [eapply same_but_in_trans; [apply (put_in_same id j t)|]|].
  - split_and!; [|by rewrite !get_put_same|done]. intros id' ?. by rewrite get_put_other.
  - split_and!; [by destruct pool| |done|..].
    + constructor; simpl; [constructor|done..].
    + unfold unread, staged. simpl. rewrite app_nil_r, Hb, take_ge by lia. done.
    + lia.
Qed.

Lemma read_end_spec id t r bytes t' :
  read_stream_end id t = Some (r, bytes, t') -> inbound_ok (s_in (h2_get_stream t id)) ->
  let i := s_in (h2_get_stream t id) in let i' := s_in (h2_get_stream t' id) in
  same_but_in id t t' /\ pool_of t' = pool_of t /\ inbound_ok i' /\ decoder i' = decoder i /\
  bytes = default [] (read_destination i) /\ unread i = bytes ++ unread i' /\
  (r = 0 <-> read_remaining i = O).
Proof.
  intros Hre [Hb Hd Hw] i i'. unfold read_stream_end in Hre. fold i in Hre, Hb, Hd, Hw.
  case_if_in Hre; [done|]. injection Hre as <- <- <-. subst i'. rewrite get_put_same.
  split; [apply put_in_same|]. split_and!; try done.
  - constructor; simpl; [done..|lia].
  - destruct (read_remaining i =? 0)%nat eqn:E'; [apply Nat.eqb_eq in E'; lia|].
    apply Nat.eqb_neq in E'. destruct (remote_end _); unfold READ_STREAM_END; lia.
Qed.

Lemma fail_unless id (b : bool) t :
  h2_get_stream (if b then h2_fail_transport_locked t else t) id = h2_get_stream t id.
Proof. by destruct b. Qed.

Lemma lane_close_inv id tr t :
  run_inv tr t -> run_inv (tr ++ []) (h2_on_stream_close_callback id t).
Proof.
  intros [Hp Hl]. unfold h2_on_stream_close_callback. set (s := Stream _ _ _ _ _).
  set (b := (_ =? _) && _). split; [by destruct b|]. intros id'.
  destruct (decide (id' = id)) as [->|Hne].
  - rewrite app_nil_r. destruct (Hl id) as [Hi Hpre _].
    constructor; rewrite fail_unless, get_put_same; simpl; [|etrans; [|done]|done].
    + destruct Hi. by constructor.
    + apply prefix_app. unfold unread, staged. simpl. rewrite app_nil_r. by eexists.
  - eapply (other_lane_inv id); [done|by rewrite fail_unless, get_put_other| |done..].
    by destruct b.
Qed.

(** A step on stream [id] that keeps its own invariant keeps the run's. *)
Lemma lane_step_inv id tr e t t' :
  run_inv tr t -> same_but_in id t t' -> pool_ok (pool_of t') ->
  (forall id', id' <> id -> received id' e = [] /\ handed id' e = []) ->
  lane_inv id (tr ++ e) t' -> run_inv (tr ++ e) t'.
Proof.
  intros [_ Hl] (Hs&Hc&Hf) Hp He Hi. split; [done|]. intros id'.
  destruct (decide (id' = id)) as [->|Hne]; [done|]. destruct (He id' Hne).
  eapply (other_lane_inv id); [done|by apply Hs|by rewrite Hf|done..].
Qed.

Lemma received_other id id' data : id' <> id -> received id' [Received id data] = [].
Proof. intros. simpl. rewrite app_nil_r. by destruct (Z.eqb_spec id' id). Qed.

Lemma handed_other id id' data : id' <> id -> handed id' [Handed id data] = [].
Proof. intros. simpl. rewrite app_nil_r. by destruct (Z.eqb_spec id' id). Qed.

Lemma chunk_inv fuel created id data tr t r t' :
  run_inv tr t -> transport_failed t = false -> closed (h2_get_stream t id) = false ->
  h2_on_data_chunk_recv_callback fuel created id data t = Some (r, t') ->
  run_inv (tr ++ [Received id data]) (if r =? 0 then t' else h2_fail_transport_locked t').
Proof.
  intros [Hp Hl] Hf Hc Hcb. pose proof (callback_spec _ _ _ _ _ _ _ _ Hcb (Hl id) Hp Hc Hf) as Hd.
  pose proof (chunk_lane_inv _ _ _ _ _ _ Hd) as Hi. destruct Hd as ((Hs&_&_)&_&Hp'&_).
  split; [by destruct (r =? 0)|]. intros id'.
  destruct (decide (id' = id)) as [->|Hne]; [done|].
  eapply (other_lane_inv id); [done| |by rewrite Hf|by apply received_other|done|apply Hl].
  destruct (r =? 0); by apply Hs.
Qed.

Lemma step_inv tr t e t' : run_inv tr t -> recv_step t e t' -> run_inv (tr ++ e) t'.
Proof.
  intros Hinv Hstep.
  destruct Hstep as [fuel created id data t r t' Hf Hc Hcb|id size t r bytes t' Hd Hb
                    |id size t t' Hd Hb|id t r bytes t' Hd Hb|id t|t t' (Hin&Hpool&Hf)].
  - by eapply chunk_inv.
  - destruct (read_begin_spec _ _ _ _ _ Hb (lane_in _ _ _ (proj2 Hinv id)) (proj1 Hinv) Hd)
      as (Hs&Hp&Hi&Hdec&->&Hu&_).
    eapply lane_step_inv; [done..|intros; split; [done|by apply handed_other]|].
    eapply read_lane_inv; [apply Hinv|done|by rewrite Hu, take_drop|done|apply Hs..].
  - destruct (read_begin_spec _ _ _ _ _ Hb (lane_in _ _ _ (proj2 Hinv id)) (proj1 Hinv) Hd)
      as (Hs&Hp&Hi&Hdec&Hu&_).
    eapply lane_step_inv; [done..|]. rewrite app_nil_r.
    destruct (proj2 Hinv id) as [_ Hpre Ho], Hs as (_&Hcl&Hft).
    constructor; rewrite ?Hu, ?Hdec, ?Hcl, ?Hft; done.
  - destruct (read_end_spec _ _ _ _ _ Hb (lane_in _ _ _ (proj2 Hinv id)))
      as (Hs&Hp&Hi&Hdec&_&Hu&_).
    eapply lane_step_inv; [done..|rewrite Hp; apply Hinv|intros; split; [done|by apply handed_other]|].
    eapply read_lane_inv; [apply Hinv|done..|apply Hs|apply Hs].
  - by apply lane_close_inv.
  - rewrite app_nil_r. split; [rewrite Hpool; apply Hinv|]. intros id.
    destruct (proj2 Hinv id) as [Hi Hpre Ho], (Hin id) as [Hs Hc].
    constructor; rewrite ?Hs, ?Hc; [done..|]. intros Hc' Hft. apply Ho; [done|].
    destruct (transport_failed t); [|done]. by rewrite Hf in Hft.
Qed.

Lemma run_keeps_inv is_server tr t : recv_run is_server tr t -> run_inv tr t.
Proof. induction 1; [apply start_inv|by eapply step_inv]. Qed.
End Laws.

(** C9: a lane is a byte stream.  In every interleaving of DATA frames, reads,
    waits and closes, the bytes handed to a lane's readers are a prefix of the
    contents of the payload it received; while the lane is open they are, with
    what is staged or already in a waiting reader's buffer, all of it, and the
    callback returns for every further chunk. *)
Theorem lane_is_byte_stream `{ZstdLaws} is_server tr t id :
  recv_run is_server tr t ->
  handed id tr `prefix_of` contents (received id tr) /\
  (closed (h2_get_stream t id) = false -> transport_failed t = false ->
     handed id tr ++ unread (s_in (h2_get_stream t id)) = contents (received id tr) /\
     forall created data, exists fuel,
       is_Some (h2_on_data_chunk_recv_callback fuel created id data t)).
Proof.
  intros [Hp Hl]%run_keeps_inv. destruct (Hl id) as [_ Hpre Ho]. split.
  - etrans; [|done]. by eexists.
  - intros Hc Hf. split; [by apply Ho|]. intros. by eapply callback_total.
Qed.

(** A read gets the next bytes.  On an open lane, a read of [size] bytes
    returns at once with the next [size] bytes of the stream when they have
    arrived, and a waiting reader is released, with success and the bytes it asked
    for, as soon as they have. *)
Theorem read_gets_next_bytes `{ZstdLaws} is_server tr t id :
  recv_run is_server tr t ->
  closed (h2_get_stream t id) = false -> transport_failed t = false ->
  let rest := drop (length (handed id tr)) (contents (received id tr)) in
  match read_destination (s_in (h2_get_stream t id)) with
  | None => forall size, (size <= length rest)%nat ->
      exists t', read_stream_begin id size t = (ReadReturns 0 (take size rest), t')
  | Some got =>
      let size := (length got + read_remaining (s_in (h2_get_stream t id)))%nat in
      got `prefix_of` rest /\
      ((size <= length rest)%nat ->
       exists t', read_stream_end id t = Some (0, take size rest, t'))
  end.
Proof.
  intros [Hp Hl]%run_keeps_inv Hc Hf rest. destruct (Hl id) as [Hi _ Ho].
  destruct (Ho Hc Hf) as [Hu _].
  assert (rest = unread (s_in (h2_get_stream t id))) as Hrest.
  { unfold rest. by rewrite <- Hu, drop_app_length. }
  rewrite Hrest. clear rest Hrest. destruct (read_destination _) as [got|] eqn:Ed.
  - simpl. split; [unfold unread; rewrite Ed; by eexists|]. intros Hs.
    destruct (read_remaining (s_in (h2_get_stream t id))) as [|k] eqn:Er.
    + unfold read_stream_end. rewrite Er, Ed. simpl. rewrite Nat.add_0_r.
      eexists. unfold unread. by rewrite Ed, take_app_length.
    + exfalso. unfold unread, staged in Hs. rewrite (in_waiting _ Hi), Ed in Hs by lia.
      simpl in Hs. rewrite app_nil_r in Hs. lia.
  - intros size Hs. destruct (read_stream_begin id size t) as [out t'] eqn:Eb.
    destruct (read_begin_spec _ _ _ _ _ Eb Hi Hp Ed) as (_&_&_&_&Hout).
    destruct out as [r bytes|]; [|lia]. destruct Hout as (->&_&Hr). exists t'.
    by rewrite (proj2 Hr Hs).
Qed.

(** The staging pool is bounded.  Its byte counter never wraps: it is the sum
    of the capacities it keeps, which stays within the limit whatever arrives, and
    no staged buffer is larger than the decode buffer. *)
Theorem staging_pool_bounded `{ZstdLaws} is_server tr t :
  recv_run is_server tr t ->
  buffer_pool_bytes t = capacity_sum (buffer_pool t) /\
  0 <= buffer_pool_bytes t <= kH2StagingPoolBytes /\
  forall id b, b ∈ local_out (s_in (h2_get_stream t id)) ++ buffer_pool t ->
    0 <= buf_capacity b <= Z.of_nat kH2DecodeBufferBytes.
Proof.
  intros [[Hb Hn Hm] Hl]%run_keeps_inv. simpl in *. split; [done|]. split.
  - rewrite Hn in *. split; [by apply capacity_sum_nonneg|done].
  - intros id b [Hin|Hin]%elem_of_app.
    + destruct (Hl id) as [[Hbuf _ _] _ _]. by apply (proj1 (Forall_forall _ _) Hbuf b Hin).
    + by apply (proj1 (Forall_forall _ _) Hb b Hin).
Qed.

(** * A run *)

(** With the storing codec: a reader waits for three bytes on stream 3, which
    arrive in two chunks that split a symbol, with a fourth byte behind them. *)
Module Sample.
Import Stored.

Definition open_stream : h2_stream :=
  Stream (s_in new_stream) (s_out new_stream) (Headers true true true false 200 [] [])
    false false.

Definition opened (is_server : bool) : h2_transport :=
  put_stream 3 open_stream (new_transport is_server).

Definition waiting : h2_transport := (read_stream_begin 3 3 (opened false)).2.

Definition feed (data : list byte) (t : h2_transport) : h2_transport :=
  match h2_on_data_chunk_recv_callback 4 true 3 data t with Some (_, t') => t' | None => t end.

Definition filled : h2_transport := feed [12; 1; 13] (feed [1; 10; 1; 11; 1] waiting).

Definition woken : h2_transport :=
  match read_stream_end 3 filled with Some (_, _, t') => t' | None => filled end.

Definition filled_events : list recv_event :=
  [Received 3 [1; 10; 1; 11; 1]; Received 3 [12; 1; 13]].

Lemma opened_run is_server : recv_run is_server [] (opened is_server).
Proof.
  apply (recv_run_step _ [] (new_transport is_server) []); [constructor|].
  apply recv_other. split_and!; [|done|done]. intros id. unfold opened.
  rewrite get_put. by case_decide.
Qed.

Lemma feed_run is_server tr data t :
  recv_run is_server tr t ->
  option_map fst (h2_on_data_chunk_recv_callback 4 true 3 data t) = Some 0 ->
  transport_failed t = false -> closed (h2_get_stream t 3) = false ->
  recv_run is_server (tr ++ [Received 3 data]) (feed data t).
Proof.
  intros Hrun Hcb Hf Hc. unfold feed.
  destruct (h2_on_data_chunk_recv_callback 4 true 3 data t) as [[r t']|] eqn:E; [|done].
  simplify_eq/=. eapply recv_run_step; [done|]. exact (recv_chunk _ _ _ _ _ _ _ Hf Hc E).
Qed.

Lemma filled_run : recv_run false filled_events filled.
Proof.
  apply (feed_run _ [Received 3 [1; 10; 1; 11; 1]]); [|by vm_compute..].
  apply (feed_run _ [] [1; 10; 1; 11; 1]); [|by vm_compute..].
  eapply (recv_run_step false [] (opened false) []); [apply opened_run|].
  by apply (recv_wait 3 3).
Qed.

Lemma woken_run : recv_run false (filled_events ++ [Handed 3 [10; 11; 12]]) woken.
Proof.
  eapply recv_run_step; [apply filled_run|].
  eapply (recv_wake 3); [|by vm_compute]. by eexists.
Qed.
End Sample.
Import Stored.

Lemma lane_is_byte_stream_witness :
  [10; 11; 12] `prefix_of` Stored.stored_contents [1; 10; 1; 11; 1; 12; 1; 13] /\
  [10; 11; 12] ++ unread (s_in (h2_get_stream Sample.woken 3)) = [10; 11; 12; 13].
Proof.
  destruct (lane_is_byte_stream false _ _ 3 Sample.woken_run) as [Hpre Hopen].
  split; [exact Hpre|]. apply Hopen; by vm_compute.
Defined.

Lemma read_gets_next_bytes_witness :
  (exists t', read_stream_end 3 Sample.filled = Some (0, [10; 11; 12], t')) /\
  (exists t', read_stream_begin 3 1 Sample.woken = (ReadReturns 0 [13], t')).
Proof.
  split.
  - pose proof (read_gets_next_bytes false _ _ 3 Sample.filled_run eq_refl eq_refl) as Hend.
    vm_compute in Hend. vm_compute. apply (proj2 Hend). lia.
  - pose proof (read_gets_next_bytes false _ _ 3 Sample.woken_run eq_refl eq_refl) as Hnext.
    vm_compute in Hnext. vm_compute. apply (Hnext 1%nat). lia.
Defined.

Lemma staging_pool_bounded_witness :
  buffer_pool_bytes Sample.woken = capacity_sum (buffer_pool Sample.woken) /\
  0 <= buffer_pool_bytes Sample.woken <= kH2StagingPoolBytes.
Proof.
  destruct (staging_pool_bounded false _ _ Sample.woken_run) as (Hn&Hb&_). exact (conj Hn Hb).
Defined.
