(* ===== verification/H2Send.v ===== *)
(** The sending half of a lane in [h2.cpp]: cursors are compressed into the
    stream's encoded bytes, the session frames those bytes as the peer's windows
    allow, and the write thread flushes the tails.  The theorems show that the
    payload framed on a stream decodes to a prefix of what was written to it, all
    of it once the stream is flushed and drained, and, with the receiving half,
    that a lane delivers what was written. *)
From S2P Require Import Prelude H2State H2Receive.

Definition kH2CompressionBlockBytes : nat := 256 * 1024.
Definition kH2MaxDataFrameBytes : Z := 1024 * 1024.
Definition kH2OutboundLimitBytes : Z := 8 * 1024 * 1024.

Section Send.
Context `{Zstd}.

(** * The encoded bytes of a stream *)

(** Encoded and not yet framed. *)
Definition backlog (o : h2_outbound) : list byte :=
  take (encoded_size o - encoded_offset o) (drop (encoded_offset o) (encoded o)).

Definition backlog_size (o : h2_outbound) : Z :=
  Z.of_nat (encoded_size o) - Z.of_nat (encoded_offset o).

Definition set_encoded (v : list byte) (size offset : nat) (o : h2_outbound) : h2_outbound :=
  Outbound (encoder o) (encoder_started o) (encoder_finished o) (provider_submitted o)
    (provider_deferred o) (flush_queued o) v size offset.

Definition set_encoder (c : option cctx) (started finished : bool) (o : h2_outbound)
    : h2_outbound :=
  Outbound c started finished (provider_submitted o) (provider_deferred o) (flush_queued o)
    (encoded o) (encoded_size o) (encoded_offset o).

Definition set_provider (submitted deferred : bool) (o : h2_outbound) : h2_outbound :=
  Outbound (encoder o) (encoder_started o) (encoder_finished o) submitted deferred
    (flush_queued o) (encoded o) (encoded_size o) (encoded_offset o).

Definition set_flush_queued (queued : bool) (o : h2_outbound) : h2_outbound :=
  Outbound (encoder o) (encoder_started o) (encoder_finished o) (provider_submitted o)
    (provider_deferred o) queued (encoded o) (encoded_size o) (encoded_offset o).

Definition update_out (id : Z) (f : h2_outbound -> h2_outbound) (t : h2_transport)
    : h2_transport :=
  let s := h2_get_stream t id in put_stream id (set_out (f (s_out s)) s) t.

Definition resize (n : nat) (v : list byte) : list byte := v ++ replicate (n - length v) 0.

(** Room for [capacity] more bytes: the framed prefix is reclaimed when it is at
    least as long as what has to move. *)
Definition h2_reserve_encoded (capacity : nat) (o : h2_outbound) : h2_outbound :=
  let required := (encoded_size o + capacity)%nat in
  let rest := (encoded_size o - encoded_offset o)%nat in
  let '(o, required) :=
    if (length (encoded o) <? required)%nat && negb (encoded_offset o =? 0)%nat
       && (rest <=? encoded_offset o)%nat
    then (set_encoded
            (take rest (drop (encoded_offset o) (encoded o)) ++ drop rest (encoded o)) rest 0 o,
          (rest + capacity)%nat)
    else (o, required) in
  if (length (encoded o) <? required)%nat
  then set_encoded (resize required (encoded o)) (encoded_size o) (encoded_offset o) o else o.

(** The compressor's output lands behind the valid bytes. *)
Definition append_encoded (bs : list byte) (o : h2_outbound) : h2_outbound :=
  set_encoded
    (take (encoded_size o) (encoded o) ++ bs ++ drop (encoded_size o + length bs) (encoded o))
    (encoded_size o + length bs) (encoded_offset o) o.

(** [created] and [configured]: whether the context was allocated and took its
    parameters. *)
Definition h2_start_encoder_locked (created configured : bool) (o : h2_outbound)
    : Z * h2_outbound :=
  if negb created then (-1, set_encoder None (encoder_started o) (encoder_finished o) o)
  else if negb configured
  then (-1, set_encoder (Some ZSTD_createCCtx) (encoder_started o) (encoder_finished o) o)
  else (0, set_encoder (Some ZSTD_createCCtx) true (encoder_finished o) o).

(** Compresses [data]; [None] when the fuel runs out. *)
Fixpoint h2_encode_locked (fuel : nat) (c : cctx) (data : list byte) (o : h2_outbound)
    : option (Z * h2_outbound) :=
  match fuel with
  | O => None
  | S fuel =>
      let o := h2_reserve_encoded ZSTD_CStreamOutSize o in
      match ZSTD_compressStream2 c data ZSTD_CStreamOutSize ZSTD_e_continue with
      | (c, None) =>
          Some (-1, set_encoder (Some c) (encoder_started o) (encoder_finished o) o)
      | (c, Some (n, bs, _)) =>
          let o := append_encoded bs
                     (set_encoder (Some c) (encoder_started o) (encoder_finished o) o) in
          let data := drop n data in
          if bool_decide (data = []) then Some (0, o) else h2_encode_locked fuel c data o
      end
  end.

Fixpoint h2_encode_terminal_locked (fuel : nat) (c : cctx) (finish : bool) (o : h2_outbound)
    : option (Z * h2_outbound) :=
  match fuel with
  | O => None
  | S fuel =>
      let o := h2_reserve_encoded ZSTD_CStreamOutSize o in
      match ZSTD_compressStream2 c [] ZSTD_CStreamOutSize
              (if finish then ZSTD_e_end else ZSTD_e_flush) with
      | (c, None) =>
          Some (-1, set_encoder (Some c) (encoder_started o) (encoder_finished o) o)
      | (c, Some (_, bs, remaining)) =>
          let o := append_encoded bs
                     (set_encoder (Some c) (encoder_started o) (encoder_finished o) o) in
          if (remaining =? 0)%nat
          then Some (0, if finish then set_encoder (encoder o) (encoder_started o) true o else o)
          else h2_encode_terminal_locked fuel c finish o
      end
  end.

(** * Framing *)

Definition h2_queue_output (bytes : list byte) (t : h2_transport) : h2_transport :=
  H2Transport (server t) (dispatch_stream_id t) (streams t) (incoming_streams t)
    (local_lanes t) (buffer_pool t) (buffer_pool_bytes t) (outbound t ++ bytes)
    (flush_pending t) (write_failed t) (transport_failed t).

Inductive data_source := Deferred | Produced (length : nat) (eof : bool).

Definition h2_data_source_read_length_callback (id session_window stream_window max_frame : Z)
    (t : h2_transport) : Z :=
  let window := Z.min session_window stream_window in
  if window <=? 0 then NGHTTP2_ERR_CALLBACK_FAILURE
  else
    let max_len := Z.min kH2MaxDataFrameBytes max_frame in
    let max_len := Z.min max_len (backlog_size (s_out (h2_get_stream t id))) in
    let max_len := Z.min max_len window in
    Z.max 1 max_len.

Definition h2_data_source_read_callback (id : Z) (length : nat) (t : h2_transport)
    : data_source * h2_transport :=
  let o := s_out (h2_get_stream t id) in
  let available := (encoded_size o - encoded_offset o)%nat in
  if (available =? 0)%nat
  then (Deferred, update_out id (fun o => set_provider (provider_submitted o) true o) t)
  else
    let produced := Nat.min available length in
    (Produced produced ((produced =? available)%nat && encoder_finished o),
     update_out id (fun o => o) t).

Definition frame_encoded (length : nat) (o : h2_outbound) : h2_outbound :=
  let offset := (encoded_offset o + length)%nat in
  if (offset =? encoded_size o)%nat then set_encoded (encoded o) 0 0 o
  else set_encoded (encoded o) (encoded_size o) offset o.

(** The frame header is the session's; the payload is the encoded bytes. *)
Definition h2_send_data_callback (id : Z) (framehd : list byte) (length : nat)
    (t : h2_transport) : list byte * h2_transport :=
  let o := s_out (h2_get_stream t id) in
  let payload := take length (drop (encoded_offset o) (encoded o)) in
  (payload, update_out id (frame_encoded length) (h2_queue_output (framehd ++ payload) t)).

(** What the session does when it is asked to send: bytes of its own, and DATA
    frames of streams whose item is active, each by asking for a length, then for
    the data, then for the frame to be sent. *)
Inductive session_output :=
  | SessionBytes (data : list byte)
  | SessionData (id session_window stream_window max_frame : Z) (framehd : list byte).

Record data_frame := DataFrame { df_stream : Z; df_payload : list byte; df_end : bool }.

Definition session_frame (out : session_output) (t : h2_transport)
    : bool * list data_frame * h2_transport :=
  match out with
  | SessionBytes data => (true, [], h2_queue_output data t)
  | SessionData id session_window stream_window max_frame framehd =>
      let o := s_out (h2_get_stream t id) in
      if negb (provider_submitted o) || provider_deferred o || closed (h2_get_stream t id)
      then (true, [], t)
      else
        let length :=
          h2_data_source_read_length_callback id session_window stream_window max_frame t in
        if length <=? 0 then (false, [], t)
        else
          match h2_data_source_read_callback id (Z.to_nat length) t with
          | (Deferred, t) => (true, [], t)
          | (Produced n eof, t) =>
              let '(payload, t) := h2_send_data_callback id framehd n t in
              (true, [DataFrame id payload eof], t)
          end
  end.

Fixpoint session_send (plan : list session_output) (t : h2_transport)
    : bool * list data_frame * h2_transport :=
  match plan with
  | [] => (true, [], t)
  | out :: plan =>
      let '(ok, frames, t) := session_frame out t in
      if ok then
        let '(ok, more, t) := session_send plan t in (ok, frames ++ more, t)
      else (false, frames, t)
  end.
End Send.

(** * Operations *)

(** How the session answers a call: whether it accepts a submission, what it
    sends, and whether sending succeeds. *)
Record session_answer := SessionAnswer {
  accepts : bool;
  sends : list session_output;
  sent : bool;
}.

(** The bytes of a cursor and the answers of its refill function: the code it
    returns and what it puts into the cursor. *)
Record write_cursor := Cursor {
  cursor_bytes : list byte;
  cursor_refill : option (list (Z * list byte));
}.

Section Operations.
Context `{Zstd}.
(** The session, what the other threads do while the session mutex is free, and
    whether a compressor can be set up. *)
Variable nghttp2 : h2_transport -> session_answer.
Variable others : h2_transport -> h2_transport.
Variable created configured : bool.

Definition h2_flush_session_locked (t : h2_transport) : Z * list data_frame * h2_transport :=
  let answer := nghttp2 t in
  let '(ok, frames, t) := session_send (sends answer) t in
  (if ok && sent answer then 0 else -1, frames, t).

Definition h2_pump_stream_locked (id : Z) (t : h2_transport)
    : Z * list data_frame * h2_transport :=
  let o := s_out (h2_get_stream t id) in
  if (encoded_offset o =? encoded_size o)%nat then (0, [], t)
  else if negb (provider_submitted o) then
    if negb (accepts (nghttp2 t)) then (-1, [], t)
    else h2_flush_session_locked (update_out id (fun o => set_provider true (provider_deferred o) o) t)
  else if provider_deferred o then
    if negb (accepts (nghttp2 t)) then (-1, [], t)
    else h2_flush_session_locked (update_out id (fun o => set_provider true false o) t)
  else h2_flush_session_locked t.

(** Waits that release the mutex; [None] when the fuel runs out. *)
Fixpoint wait_while (fuel : nat) (condition : h2_transport -> bool) (t : h2_transport)
    : option h2_transport :=
  if condition t
  then match fuel with O => None | S fuel => wait_while fuel condition (others t) end
  else Some t.

Definition lane_congested (id : Z) (t : h2_transport) : bool :=
  negb (transport_failed t) && negb (closed (h2_get_stream t id))
  && (kH2OutboundLimitBytes <? backlog_size (s_out (h2_get_stream t id))).

Definition output_congested (t : h2_transport) : bool :=
  negb (write_failed t) && (kH2OutboundLimitBytes <? Z.of_nat (length (outbound t))).

(** One block: compress, and hand what came out to the session. *)
Definition write_block (fuel : nat) (id : Z) (data : list byte) (t : h2_transport)
    : option (Z * h2_transport) :=
  let o := s_out (h2_get_stream t id) in
  match encoder o with
  | None => Some (-1, t)
  | Some c =>
      '(r, o') ← h2_encode_locked fuel c data o;
      let t := update_out id (fun _ => o') t in
      if r <? 0 then Some (-1, t)
      else if backlog_size o' =? backlog_size o then Some (0, t)
      else let '(r, _, t) := h2_pump_stream_locked id t in Some (if r <? 0 then -1 else 0, t)
  end.

Fixpoint write_bytes (turns fuel : nat) (id : Z) (data : list byte) (t : h2_transport)
    : option (Z * h2_transport) :=
  if bool_decide (data = []) then Some (0, t)
  else
    match turns with
    | O => None
    | S turns =>
        '(r, t) ← write_block fuel id (take kH2CompressionBlockBytes data) t;
        if r <? 0 then Some (-1, t)
        else
          t ← wait_while fuel (lane_congested id) t;
          t ← wait_while fuel output_congested t;
          if transport_failed t || closed (h2_get_stream t id) then Some (-1, t)
          else write_bytes turns fuel id (drop kH2CompressionBlockBytes data) t
    end.

(** The refill function runs without the mutex; no answer left is its end. *)
Fixpoint write_refills (turns fuel : nat) (id : Z) (answers : list (Z * list byte))
    (t : h2_transport) : option (Z * h2_transport) :=
  let t := others t in
  match answers with
  | [] => Some (if transport_failed t || closed (h2_get_stream t id) then -1 else 0, t)
  | (refill, bytes) :: answers =>
      if transport_failed t || closed (h2_get_stream t id) || (refill <? 0)
         || ((refill =? 0) && negb (bool_decide (bytes = [])))
         || ((0 <? refill) && bool_decide (bytes = []))
      then Some (-1, t)
      else if refill =? 0 then Some (0, t)
      else
        '(r, t) ← write_bytes turns fuel id bytes t;
        if r <? 0 then Some (-1, t) else write_refills turns fuel id answers t
  end.

Fixpoint write_cursors (turns fuel : nat) (id : Z) (cursors : list write_cursor)
    (t : h2_transport) : option (Z * h2_transport) :=
  match cursors with
  | [] => Some (0, t)
  | cursor :: cursors =>
      '(r, t) ← write_bytes turns fuel id (cursor_bytes cursor) t;
      if r <? 0 then Some (-1, t)
      else
        '(r, t) ← match cursor_refill cursor with
                  | None => Some (0, t)
                  | Some answers => write_refills turns fuel id answers t
                  end;
        if r <? 0 then Some (-1, t) else write_cursors turns fuel id cursors t
  end.

Definition set_flush_pending (ids : list Z) (t : h2_transport) : h2_transport :=
  H2Transport (server t) (dispatch_stream_id t) (streams t) (incoming_streams t)
    (local_lanes t) (buffer_pool t) (buffer_pool_bytes t) (outbound t) ids (write_failed t)
    (transport_failed t).

Definition queue_flush (id : Z) (t : h2_transport) : h2_transport :=
  if flush_queued (s_out (h2_get_stream t id)) then t
  else update_out id (set_flush_queued true) (set_flush_pending (flush_pending t ++ [id]) t).

(** The encoder of an open stream, started on first use. *)
Definition ready_encoder (id : Z) (t : h2_transport) : Z * h2_transport :=
  let s := h2_get_stream t id in
  if closed s || encoder_finished (s_out s) then (-1, update_out id (fun o => o) t)
  else if encoder_started (s_out s) then (0, update_out id (fun o => o) t)
  else
    let '(r, o) := h2_start_encoder_locked created configured (s_out s) in
    (r, update_out id (fun _ => o) t).

Definition h2_write_stream_locked (turns fuel : nat) (id : Z) (cursors : list write_cursor)
    (t : h2_transport) : option (Z * h2_transport) :=
  let '(r, t) := ready_encoder id t in
  if r <? 0 then Some (-1, t)
  else
    '(r, t) ← write_cursors turns fuel id cursors t;
    Some (if r <? 0 then (-1, t) else (0, queue_flush id t)).

Definition cursor_pending (c : write_cursor) : bool :=
  negb (bool_decide (cursor_bytes c = [])) || bool_decide (is_Some (cursor_refill c)).

Definition rpc_http2_write_stream (turns fuel : nat) (id : Z) (cursors : list write_cursor)
    (t : h2_transport) : option (Z * h2_transport) :=
  if forallb (fun c => negb (cursor_pending c)) cursors then Some (0, t)
  else h2_write_stream_locked turns fuel id cursors t.

(** Flushes the encoder of one stream and pumps it. *)
Definition finish_or_flush (fuel : nat) (finish : bool) (id : Z) (t : h2_transport)
    : option (Z * h2_transport) :=
  let o := s_out (h2_get_stream t id) in
  match encoder o with
  | None => Some (-1, t)
  | Some c =>
      '(r, o') ← h2_encode_terminal_locked fuel c finish o;
      let t := update_out id (fun _ => o') t in
      if r <? 0 then Some (-1, t)
      else let '(r, _, t) := h2_pump_stream_locked id t in Some (r, t)
  end.

Fixpoint flush_streams (fuel : nat) (ids : list Z) (result : Z) (t : h2_transport)
    : option (Z * h2_transport) :=
  match ids with
  | [] => Some (result, t)
  | id :: ids =>
      let t := update_out id (set_flush_queued false) t in
      if closed (h2_get_stream t id) || encoder_finished (s_out (h2_get_stream t id))
      then flush_streams fuel ids result t
      else
        '(r, t) ← finish_or_flush fuel false id t;
        flush_streams fuel ids (if r <? 0 then -1 else result) t
  end.

Definition h2_flush_pending_locked (fuel : nat) (t : h2_transport) : option (Z * h2_transport) :=
  '(result, t) ← flush_streams fuel (flush_pending t) 0 t;
  Some (result, set_flush_pending [] t).

Definition h2_end_stream_locked (fuel : nat) (id : Z) (t : h2_transport)
    : option (Z * h2_transport) :=
  let '(r, t) := ready_encoder id t in
  if r <? 0 then Some (-1, t) else finish_or_flush fuel true id t.

Definition rpc_http2_end_stream (fuel : nat) (id : Z) (t : h2_transport)
    : option (Z * h2_transport) :=
  if id <? 0 then Some (-1, t)
  else '(r, t) ← h2_end_stream_locked fuel id t; Some (if r =? 0 then 0 else -1, t).

(** * Lanes *)

Definition set_lanes (lanes : gmap Z Z) (t : h2_transport) : h2_transport :=
  H2Transport (server t) (dispatch_stream_id t) (streams t) (incoming_streams t) lanes
    (buffer_pool t) (buffer_pool_bytes t) (outbound t) (flush_pending t) (write_failed t)
    (transport_failed t).

(** [fresh] is the stream the session opens for the request, negative when it
    refuses. *)
Definition rpc_http2_lane_stream (fresh : Z) (lane : Z) (t : h2_transport) : Z * h2_transport :=
  if server t then (dispatch_stream_id t, t)
  else
    match local_lanes t !! lane with
    | Some id => (id, t)
    | None =>
        if transport_failed t then (-1, t)
        else if fresh <? 0 then (fresh, t)
        else
          let t := set_lanes (<[lane := fresh]> (local_lanes t)) (update_out fresh (fun o => o) t) in
          let '(r, _, t) := h2_flush_session_locked t in
          if r <? 0 then (-1, h2_fail_transport_locked t) else (fresh, t)
    end.

(** [conn_closed] is the flag of the connection. *)
Definition rpc_write_lane_termination (fuel : nat) (conn_closed : bool) (lane : Z)
    (t : h2_transport) : option (Z * h2_transport) :=
  if conn_closed then Some (-1, t)
  else
    match local_lanes t !! lane with
    | None => Some (0, t)
    | Some id =>
        '(r, t) ← h2_end_stream_locked fuel id (set_lanes (delete lane (local_lanes t)) t);
        Some (if r =? 0 then 0 else -1, t)
    end.

(** [None] while the wait goes on. *)
Definition rpc_http2_accept_stream (t : h2_transport) : option (Z * h2_transport) :=
  match incoming_streams t with
  | [] => if transport_failed t then Some (-1, t) else None
  | id :: rest =>
      Some (id, H2Transport (server t) (dispatch_stream_id t) (streams t) rest (local_lanes t)
                  (buffer_pool t) (buffer_pool_bytes t) (outbound t) (flush_pending t)
                  (write_failed t) (transport_failed t))
  end.
End Operations.

(** * The encoded vector *)

Section Vector.
Context `{Zstd}.

Definition buf_ok (o : h2_outbound) : Prop :=
  (encoded_offset o <= encoded_size o <= length (encoded o))%nat.

(** The fields that the encoded vector is not part of. *)
Definition same_flags (o o' : h2_outbound) : Prop :=
  encoder_started o' = encoder_started o /\ encoder_finished o' = encoder_finished o /\
  provider_submitted o' = provider_submitted o /\ provider_deferred o' = provider_deferred o /\
  flush_queued o' = flush_queued o.

Lemma same_flags_trans o1 o2 o3 : same_flags o1 o2 -> same_flags o2 o3 -> same_flags o1 o3.
Proof. unfold same_flags. intuition congruence. Qed.

Lemma length_resize n v : (length v <= n)%nat -> length (resize n v) = n.
Proof. intros. unfold resize. rewrite length_app, length_replicate. lia. Qed.

Lemma backlog_set_encoded v size offset o :
  backlog (set_encoded v size offset o) = take (size - offset) (drop offset v).
Proof. done. Qed.

(** Growing the vector does not touch its valid bytes. *)
Lemma backlog_resize n o :
  buf_ok o ->
  backlog (set_encoded (resize n (encoded o)) (encoded_size o) (encoded_offset o) o) = backlog o.
Proof.
  intros [H1 H2]. rewrite backlog_set_encoded. unfold backlog, resize.
  rewrite drop_app_le by lia. apply take_app_le. rewrite length_drop. lia.
Qed.

(** Reclaiming the framed prefix moves the backlog to the front. *)
Lemma backlog_compact o :
  buf_ok o ->
  let rest := (encoded_size o - encoded_offset o)%nat in
  let o' := set_encoded
    (take rest (drop (encoded_offset o) (encoded o)) ++ drop rest (encoded o)) rest 0 o in
  backlog o' = backlog o /\ buf_ok o' /\ length (encoded o') = length (encoded o).
Proof.
  intros [H1 H2] rest o'. unfold o', buf_ok. rewrite backlog_set_encoded. simpl.
  rewrite Nat.sub_0_r, drop_0, length_app, length_take, !length_drop. split_and!; try lia.
  rewrite take_app_le by (rewrite length_take, length_drop; lia).
  by rewrite take_take, Nat.min_id.
Qed.

Lemma reserve_spec capacity o :
  buf_ok o ->
  let o' := h2_reserve_encoded capacity o in
  backlog o' = backlog o /\ buf_ok o' /\ encoder o' = encoder o /\ same_flags o o' /\
  (encoded_size o' + capacity <= length (encoded o'))%nat.
Proof.
  intros Hb o'. unfold o', h2_reserve_encoded.
  set (rest := (encoded_size o - encoded_offset o)%nat).
  assert (forall o1, buf_ok o1 ->
    let o2 := if (length (encoded o1) <? encoded_size o1 + capacity)%nat
              then set_encoded (resize (encoded_size o1 + capacity) (encoded o1))
                     (encoded_size o1) (encoded_offset o1) o1 else o1 in
    backlog o2 = backlog o1 /\ buf_ok o2 /\ encoder o2 = encoder o1 /\ same_flags o1 o2 /\
    (encoded_size o2 + capacity <= length (encoded o2))%nat) as Hgrow.
  { intros o1 Hb1. destruct (length (encoded o1) <? _)%nat eqn:E; simpl.
    - apply Nat.ltb_lt in E. split; [by apply backlog_resize|]. destruct Hb1.
      unfold buf_ok. simpl. rewrite length_resize by lia. split_and!; [lia..|done|done|lia].
    - apply Nat.ltb_ge in E. by split_and!. }
  destruct (_ && _ && _); [|by apply Hgrow].
  destruct (backlog_compact o Hb) as (Hc&Hb'&_). fold rest in Hc, Hb'.
  destruct (Hgrow _ Hb') as (Hg&Hrest). split; [etrans; [exact Hg|exact Hc]|exact Hrest].
Qed.

Lemma append_spec bs o :
  buf_ok o -> (encoded_size o + length bs <= length (encoded o))%nat ->
  backlog (append_encoded bs o) = backlog o ++ bs /\ buf_ok (append_encoded bs o) /\
  encoder (append_encoded bs o) = encoder o /\ same_flags o (append_encoded bs o).
Proof.
  intros [H1 H2] Hl. unfold append_encoded. split_and!; [|split; simpl|done|done..].
  - rewrite backlog_set_encoded. unfold backlog.
    rewrite drop_app_le by (rewrite length_take; lia).
    replace (encoded_size o + length bs - encoded_offset o)%nat
      with (length (drop (encoded_offset o) (take (encoded_size o) (encoded o))) + length bs)%nat
      by (rewrite length_drop, length_take; lia).
    rewrite take_app_add, take_app_length. f_equal. apply skipn_firstn_comm.
  - lia.
  - rewrite !length_app, length_take, length_drop. lia.
Qed.

Lemma frame_spec n o :
  buf_ok o -> (n <= encoded_size o - encoded_offset o)%nat ->
  backlog o = take n (drop (encoded_offset o) (encoded o)) ++ backlog (frame_encoded n o) /\
  buf_ok (frame_encoded n o) /\ encoder (frame_encoded n o) = encoder o /\
  same_flags o (frame_encoded n o).
Proof.
  intros [H1 H2] Hn. unfold frame_encoded.
  destruct (_ =? _)%nat eqn:E; [apply Nat.eqb_eq in E|apply Nat.eqb_neq in E].
  - split_and!; [|split; simpl; lia|done|done..]. unfold backlog. simpl.
    rewrite app_nil_r. f_equal. lia.
  - split_and!; [|split; simpl; lia|done|done..]. rewrite backlog_set_encoded.
    unfold backlog. rewrite <- (take_drop n (take _ _)), take_take, Nat.min_l by lia.
    f_equal. rewrite skipn_firstn_comm, drop_drop. f_equal. lia.
Qed.
End Vector.

(** * Encoding *)

Section Encoding.
Context `{ZstdLaws}.

(** The encoder [c] became [c'] by taking [data], and what it produced is behind
    the backlog. *)
Definition encodes (c : cctx) (data : list byte) (o : h2_outbound) (c' : cctx)
    (o' : h2_outbound) : Prop :=
  buf_ok o' /\ encoder o' = Some c' /\ cctx_input c' = cctx_input c ++ data /\
  (exists bs, cctx_output c' = cctx_output c ++ bs /\ backlog o' = backlog o ++ bs) /\
  contents (cctx_output c') `prefix_of` cctx_input c'.

Lemma encodes_trans c1 c2 c3 d1 d2 o1 o2 o3 :
  encodes c1 d1 o1 c2 o2 -> encodes c2 d2 o2 c3 o3 -> encodes c1 (d1 ++ d2) o1 c3 o3.
Proof.
  intros (_&_&Hi&(bs&Ho&Hb)&_) (?&?&Hi'&(bs'&Ho'&Hb')&?). split_and!; [done..| | |done].
  - by rewrite Hi', Hi, app_assoc.
  - exists (bs ++ bs'). by rewrite Ho', Ho, Hb', Hb, !app_assoc.
Qed.

(** One call of the compressor. *)
Lemma encode_turn c data dir o c' n bs r :
  buf_ok o -> cctx_ok dir c ->
  ZSTD_compressStream2 c data ZSTD_CStreamOutSize dir = (c', Some (n, bs, r)) ->
  let o1 := h2_reserve_encoded ZSTD_CStreamOutSize o in
  let o2 := append_encoded bs
              (set_encoder (Some c') (encoder_started o1) (encoder_finished o1) o1) in
  encodes c (take n data) o c' o2 /\ same_flags o o2.
Proof.
  intros Hb Hok Hc o1 o2. apply compress_spec in Hc as (_&Hl&Hi&Ho&_&Hp&_); [|done].
  destruct (reserve_spec ZSTD_CStreamOutSize o Hb) as (Hbk&Hb1&_&Hf&Hroom). fold o1 in Hbk, Hb1, Hf, Hroom.
  destruct (append_spec bs (set_encoder (Some c') (encoder_started o1) (encoder_finished o1) o1))
    as (Hbk2&Hb2&He2&Hf2); [done|simpl; lia|]. fold o2 in Hbk2, Hb2, He2, Hf2.
  split; [|eapply same_flags_trans; [exact Hf|exact Hf2]].
  split_and!; try done. exists bs. split; [done|]. rewrite Hbk2. f_equal. exact Hbk.
Qed.

Lemma encode_spec fuel c data o r o' :
  h2_encode_locked fuel c data o = Some (r, o') -> r = 0 ->
  buf_ok o -> (forall dir, cctx_ok dir c) ->
  same_flags o o' /\ exists c', encodes c data o c' o' /\ forall dir, cctx_ok dir c'.
Proof.
  revert c data o. induction fuel as [|fuel IH]; intros c data o He -> Hb Hok; [done|].
  simpl in He. destruct (ZSTD_compressStream2 _ _ _ _) as [c1 [[[n bs] rem]|]] eqn:Ec; [|done].
  destruct (encode_turn _ _ _ _ _ _ _ _ Hb (Hok _) Ec) as [Hturn Hf].
  apply compress_spec in Ec as (Hn&_&_&_&_&_&_&_&Hok1&_); [|done].
  specialize (Hok1 ltac:(done)). case_bool_decide as Hd.
  - injection He as <-. split; [done|]. exists c1. split; [|done].
    rewrite <- (take_drop n data), Hd, app_nil_r. exact Hturn.
  - destruct (IH _ _ _ He eq_refl (proj1 Hturn) Hok1) as (Hf'&c'&Henc&Hok').
    split; [by eapply same_flags_trans|]. exists c'. split; [|done].
    rewrite <- (take_drop n data). by eapply encodes_trans.
Qed.

Lemma terminal_spec fuel c finish o r o' :
  h2_encode_terminal_locked fuel c finish o = Some (r, o') -> r = 0 -> buf_ok o ->
  cctx_ok (if finish then ZSTD_e_end else ZSTD_e_flush) c ->
  encoder_started o' = encoder_started o /\
  encoder_finished o' = (finish || encoder_finished o) /\
  provider_submitted o' = provider_submitted o /\ provider_deferred o' = provider_deferred o /\
  exists c', encodes c [] o c' o' /\ contents (cctx_output c') = cctx_input c' /\
    (finish = false -> forall dir, cctx_ok dir c').
Proof.
  revert c o. induction fuel as [|fuel IH]; intros c o He -> Hb Hok; [done|].
  simpl in He. set (dir := if finish then ZSTD_e_end else ZSTD_e_flush) in *.
  destruct (ZSTD_compressStream2 _ _ _ _) as [c1 [[[n bs] rem]|]] eqn:Ec; [|done].
  destruct (encode_turn _ _ _ _ _ _ _ _ Hb Hok Ec) as [Hturn Hf]. rewrite take_nil in Hturn.
  apply compress_spec in Ec as (Hn&_&_&_&_&_&Hall&_&Hokf&Hoke); [|done].
  destruct (rem =? 0)%nat eqn:Er; [apply Nat.eqb_eq in Er|apply Nat.eqb_neq in Er].
  - injection He as <-. destruct Hf as (Hf1&Hf2&Hf3&Hf4&_).
    assert (contents (cctx_output c1) = cctx_input c1).
    { apply Hall; [|simpl in *; lia|done]. unfold dir. by destruct finish. }
    unfold dir in *. destruct finish; simpl.
    + split_and!; [exact Hf1|done|exact Hf3|exact Hf4|].
      exists c1. split_and!; [exact Hturn|done|done].
    + split_and!; [exact Hf1|exact Hf2|exact Hf3|exact Hf4|].
      exists c1. split_and!; [exact Hturn|done|]. intros _. by apply Hokf.
  - destruct (IH _ _ He eq_refl (proj1 Hturn) (Hoke Er)) as (?&?&?&?&c'&Henc&Hc&Hfin).
    destruct Hf as (Hf1&Hf2&Hf3&Hf4&_). split_and!; [congruence..|]. exists c'.
    split_and!; [|done..]. by eapply (encodes_trans _ _ _ [] []).
Qed.

(** Both loops return: every turn but the last takes input or produces output. *)
Lemma encode_total fuel c data o :
  (forall dir, cctx_ok dir c) -> (length data + cctx_bound c data < fuel)%nat ->
  is_Some (h2_encode_locked fuel c data o).
Proof.
  revert c data o. induction fuel as [|fuel IH]; intros c data o Hok Hf; [lia|].
  simpl. destruct (ZSTD_compressStream2 _ _ _ _) as [c1 [[[n bs] rem]|]] eqn:Ec; [|done].
  apply compress_spec in Ec as (Hn&_&_&_&Hbd&_&_&Hprog&Hok1&_); [|done].
  case_bool_decide as Hd; [done|]. apply IH; [by apply Hok1|]. rewrite length_drop.
  assert (data <> []) as Hne by (intros ->; by rewrite drop_nil in Hd).
  destruct (Hprog out_size_positive (or_introl Hne)) as [?|Hbs]; [lia|].
  destruct bs; [done|]. simpl in Hbd. lia.
Qed.

Lemma terminal_total fuel c (finish : bool) o :
  cctx_ok (if finish then ZSTD_e_end else ZSTD_e_flush) c -> (cctx_bound c [] < fuel)%nat ->
  is_Some (h2_encode_terminal_locked fuel c finish o).
Proof.
  revert c o. induction fuel as [|fuel IH]; intros c o Hok Hf; [lia|].
  simpl. destruct (ZSTD_compressStream2 _ _ _ _) as [c1 [[[n bs] rem]|]] eqn:Ec; [|done].
  apply compress_spec in Ec as (Hn&_&_&_&Hbd&_&_&Hprog&_&Hoke); [|done].
  destruct (rem =? 0)%nat eqn:Er; [done|apply Nat.eqb_neq in Er].
  apply IH; [by apply Hoke|]. rewrite drop_nil in Hbd. simpl in Hn.
  destruct (Hprog out_size_positive (or_intror Er)) as [?|Hbs]; [lia|].
  destruct bs; [done|]. simpl in Hbd. lia.
Qed.
End Encoding.

(** * Runs *)

Inductive send_event :=
  | Accepted (id : Z) (bytes : list byte)
  | Framed (frame : data_frame)
  | Broken (id : Z).

Definition frame_part (id : Z) (f : data_frame) : list byte :=
  if id =? df_stream f then df_payload f else [].

Definition accepted_part (id : Z) (e : send_event) : list byte :=
  match e with Accepted id' bytes => if id =? id' then bytes else [] | _ => [] end.

Definition framed_part (id : Z) (e : send_event) : list byte :=
  match e with Framed f => frame_part id f | _ => [] end.

(** The bytes that a stream's encoder accepted and the payload of its frames. *)
Definition accepted (id : Z) (evs : list send_event) : list byte := evs ≫= accepted_part id.
Definition framed (id : Z) (evs : list send_event) : list byte := evs ≫= framed_part id.

Section Runs.
Context `{Zstd}.

(** Everything that leaves the encoders and their output alone. *)
Definition send_frame (t t' : h2_transport) : Prop :=
  forall id, let o := s_out (h2_get_stream t id) in let o' := s_out (h2_get_stream t' id) in
    closed (h2_get_stream t' id) = closed (h2_get_stream t id) /\
    encoder o' = encoder o /\ encoder_started o' = encoder_started o /\
    encoder_finished o' = encoder_finished o /\ encoded o' = encoded o /\
    encoded_size o' = encoded_size o /\ encoded_offset o' = encoded_offset o.

Definition encoder_open (id : Z) (t : h2_transport) (c : cctx) : Prop :=
  closed (h2_get_stream t id) = false /\ encoder_started (s_out (h2_get_stream t id)) = true /\
  encoder_finished (s_out (h2_get_stream t id)) = false /\
  encoder (s_out (h2_get_stream t id)) = Some c.

(** A compressor that reports an error breaks its stream. *)
Inductive send_step : h2_transport -> list send_event -> h2_transport -> Prop :=
  | send_start created configured id t :
      closed (h2_get_stream t id) = false ->
      encoder_finished (s_out (h2_get_stream t id)) = false ->
      encoder_started (s_out (h2_get_stream t id)) = false ->
      send_step t [] (update_out id (fun o => (h2_start_encoder_locked created configured o).2) t)
  | send_encode fuel id c data t r o :
      encoder_open id t c ->
      h2_encode_locked fuel c data (s_out (h2_get_stream t id)) = Some (r, o) ->
      send_step t [if r =? 0 then Accepted id data else Broken id] (update_out id (fun _ => o) t)
  | send_terminal fuel id c finish t r o :
      encoder_open id t c ->
      h2_encode_terminal_locked fuel c finish (s_out (h2_get_stream t id)) = Some (r, o) ->
      send_step t (if r =? 0 then [] else [Broken id]) (update_out id (fun _ => o) t)
  | send_session plan t ok frames t' :
      session_send plan t = (ok, frames, t') -> send_step t (map Framed frames) t'
  | send_close id t : send_step t [] (h2_on_stream_close_callback id t)
  | send_other t t' : send_frame t t' -> send_step t [] t'.

Inductive send_run : h2_transport -> list send_event -> h2_transport -> Prop :=
  | send_run_nil t : send_run t [] t
  | send_run_step t1 e t2 evs t3 :
      send_step t1 e t2 -> send_run t2 evs t3 -> send_run t1 (e ++ evs) t3.

Lemma send_run_one t e t' : send_step t e t' -> send_run t e t'.
Proof. intros. rewrite <- (app_nil_r e). eapply send_run_step; [done|constructor]. Qed.

Lemma send_run_trans t1 e1 t2 e2 t3 :
  send_run t1 e1 t2 -> send_run t2 e2 t3 -> send_run t1 (e1 ++ e2) t3.
Proof.
  induction 1; intros; [done|]. rewrite <- app_assoc. eapply send_run_step; eauto.
Qed.

Lemma get_update_out id id' f t :
  h2_get_stream (update_out id f t) id' =
  if decide (id = id') then set_out (f (s_out (h2_get_stream t id))) (h2_get_stream t id)
  else h2_get_stream t id'.
Proof. unfold update_out. apply get_put. Qed.

(** * What a session sends *)

Definition framed_by (id : Z) (frames : list data_frame) : list byte := frames ≫= frame_part id.

Definition framing (t t' : h2_transport) (frames : list data_frame) : Prop :=
  forall id, let o := s_out (h2_get_stream t id) in let o' := s_out (h2_get_stream t' id) in
    closed (h2_get_stream t' id) = closed (h2_get_stream t id) /\
    (closed (h2_get_stream t id) = true -> framed_by id frames = []) /\
    encoder o' = encoder o /\ encoder_started o' = encoder_started o /\
    encoder_finished o' = encoder_finished o /\
    (buf_ok o -> buf_ok o' /\ backlog o = framed_by id frames ++ backlog o').

Lemma framing_trans t1 t2 t3 f1 f2 :
  framing t1 t2 f1 -> framing t2 t3 f2 -> framing t1 t3 (f1 ++ f2).
Proof.
  intros H1 H2 id. destruct (H1 id) as (Hc1&Hn1&He1&Hs1&Hf1&Hb1).
  destruct (H2 id) as (Hc2&Hn2&He2&Hs2&Hf2&Hb2). unfold framed_by in *. rewrite bind_app.
  split_and!; [congruence| |congruence..|].
  - intros Hcl. rewrite Hn1, Hn2; [done|congruence|done].
  - intros Hb. destruct (Hb1 Hb) as [Hb' ->]. destruct (Hb2 Hb') as [? ->].
    by rewrite app_assoc.
Qed.

Lemma framing_refl t t' :
  (forall id, h2_get_stream t' id = h2_get_stream t id) -> framing t t' [].
Proof. intros Heq id. simpl. rewrite Heq. by split_and!. Qed.

(** An update of one stream's sending half that keeps its encoder. *)
Lemma framing_update id t f frames :
  closed (h2_get_stream t id) = false ->
  (forall id', id' <> id -> framed_by id' frames = []) ->
  (let o := s_out (h2_get_stream t id) in
   encoder (f o) = encoder o /\ encoder_started (f o) = encoder_started o /\
   encoder_finished (f o) = encoder_finished o /\
   (buf_ok o -> buf_ok (f o) /\ backlog o = framed_by id frames ++ backlog (f o))) ->
  framing t (update_out id f t) frames.
Proof.
  intros Hc Hother Hf id'. rewrite get_update_out. case_decide as Hid; [subst id'|].
  - simpl. split_and!; [done| |apply Hf..]. by rewrite Hc.
  - simpl. rewrite Hother by done. by split_and!.
Qed.

Lemma session_frame_spec out t ok frames t' :
  session_frame out t = (ok, frames, t') -> framing t t' frames.
Proof.
  destruct out as [data|id sw stw mf hd]; simpl; [by intros [= <- <- <-]; apply framing_refl|].
  destruct (_ || _ || _) eqn:Eg; [by intros [= <- <- <-]; apply framing_refl|].
  apply orb_false_iff in Eg as [_ Hc].
  destruct (_ <=? 0); [by intros [= <- <- <-]; apply framing_refl|].
  set (len := h2_data_source_read_length_callback id sw stw mf t).
  unfold h2_data_source_read_callback, h2_send_data_callback.
  set (o := s_out (h2_get_stream t id)). set (avail := (encoded_size o - encoded_offset o)%nat).
  destruct (avail =? 0)%nat; intros [= <- <- <-].
  { apply framing_update; [done|done|]. simpl. by split_and!. }
  assert (s_out (h2_get_stream (update_out id (fun o => o) t) id) = o) as Ho.
  { rewrite get_update_out, decide_True by done. done. }
  rewrite Ho. set (t1 := update_out id (fun o => o) t) in *.
  apply (framing_trans _ t1 _ [] _); [by apply framing_update|].
  apply (framing_trans _ (h2_queue_output (hd ++ take (avail `min` Z.to_nat len)
    (drop (encoded_offset o) (encoded o))) t1) _ [] _); [by apply framing_refl|].
  apply framing_update.
  - change (closed (h2_get_stream t1 id) = false). unfold t1.
    rewrite get_update_out, decide_True by done. done.
  - intros id' Hne. unfold framed_by, frame_part. simpl. by destruct (Z.eqb_spec id' id).
  - change (s_out (h2_get_stream (h2_queue_output _ t1) id)) with (s_out (h2_get_stream t1 id)).
    rewrite Ho. simpl. unfold frame_part. simpl. rewrite Z.eqb_refl, app_nil_r.
    split_and!; [by unfold frame_encoded; case_if..|]. intros Hb.
    destruct (frame_spec (avail `min` Z.to_nat len) o Hb) as (?&?&_); [lia|done].
Qed.

Lemma session_send_spec plan t ok frames t' :
  session_send plan t = (ok, frames, t') -> framing t t' frames.
Proof.
  revert t ok frames t'. induction plan as [|out plan IH]; intros t ok frames t' Hs; simpl in Hs.
  { injection Hs as <- <- <-. by apply framing_refl. }
  destruct (session_frame out t) as [[ok1 f1] t1] eqn:Ef. apply session_frame_spec in Ef.
  destruct ok1; [|by injection Hs as <- <- <-].
  destruct (session_send plan t1) as [[ok2 f2] t2] eqn:Er. injection Hs as <- <- <-.
  eapply framing_trans; [done|]. by eapply IH.
Qed.
End Runs.

(** * The invariant *)

Section SendLaws.
Context `{ZstdLaws}.

(** The encoder accounts for all that was accepted, its output for all that was
    framed and what is left. *)
Definition encoder_accounts (acc fr : list byte) (o : h2_outbound) : Prop :=
  buf_ok o /\
  if encoder_started o then
    exists c, encoder o = Some c /\ cctx_input c = acc /\ cctx_output c = fr ++ backlog o /\
      contents (cctx_output c) `prefix_of` cctx_input c /\
      (encoder_finished o = false -> forall dir, cctx_ok dir c) /\
      (encoder_finished o = true -> contents (cctx_output c) = cctx_input c)
  else acc = [] /\ fr = [] /\ backlog o = [] /\ encoder_finished o = false.

Record out_inv (id : Z) (evs : list send_event) (t : h2_transport) : Prop := OutInv {
  out_prefix : Broken id ∉ evs -> contents (framed id evs) `prefix_of` accepted id evs;
  out_open : Broken id ∉ evs -> closed (h2_get_stream t id) = false ->
    encoder_accounts (accepted id evs) (framed id evs) (s_out (h2_get_stream t id));
}.

Lemma accepted_app id a b : accepted id (a ++ b) = accepted id a ++ accepted id b.
Proof. apply bind_app. Qed.

Lemma framed_app id a b : framed id (a ++ b) = framed id a ++ framed id b.
Proof. apply bind_app. Qed.

Lemma accounts_prefix acc fr o :
  encoder_accounts acc fr o -> contents fr `prefix_of` acc.
Proof.
  intros [_ Ha]. destruct (encoder_started o).
  - destruct Ha as (c&_&<-&Ho&Hp&_). etrans; [|exact Hp]. rewrite Ho. apply contents_mono.
  - destruct Ha as (->&->&_). by rewrite contents_nil.
Qed.

(** A step keeps the invariant of a stream if it keeps the account while the
    stream stays open and sends nothing of it once it is closed. *)
Lemma out_inv_step id evs e t t' :
  out_inv id evs t ->
  (Broken id ∉ e -> closed (h2_get_stream t id) = true -> framed id e = []) ->
  (closed (h2_get_stream t' id) = true -> closed (h2_get_stream t id) = false -> e = []) ->
  (closed (h2_get_stream t' id) = false -> closed (h2_get_stream t id) = false) ->
  (Broken id ∉ e -> closed (h2_get_stream t' id) = false ->
   encoder_accounts (accepted id evs) (framed id evs) (s_out (h2_get_stream t id)) ->
   encoder_accounts (accepted id (evs ++ e)) (framed id (evs ++ e)) (s_out (h2_get_stream t' id))) ->
  out_inv id (evs ++ e) t'.
Proof.
  intros [Hp Ho] Hfr Hcl Hmono Hstep.
  assert (Broken id ∉ (evs ++ e) -> (Broken id ∉ evs) /\ (Broken id ∉ e)) as Hsplit by set_solver.
  assert (Broken id ∉ (evs ++ e) -> closed (h2_get_stream t' id) = false ->
    encoder_accounts (accepted id (evs ++ e)) (framed id (evs ++ e))
      (s_out (h2_get_stream t' id))) as Hopen by (intros []%Hsplit ?; auto).
  constructor; [|done]. intros Hb. destruct (Hsplit Hb) as [Hb1 Hb2].
  destruct (closed (h2_get_stream t' id)) eqn:Ec'; [|eapply accounts_prefix; eauto].
  rewrite framed_app, accepted_app. destruct (closed (h2_get_stream t id)) eqn:Ec.
  - rewrite (Hfr Hb2 eq_refl), app_nil_r. etrans; [by apply Hp|]. by eexists.
  - rewrite (Hcl eq_refl eq_refl). simpl. rewrite !app_nil_r. by apply Hp.
Qed.

(** Updates of the sending half of one open stream. *)
Lemma update_out_inv id f evs e t :
  (forall id', out_inv id' evs t) -> closed (h2_get_stream t id) = false ->
  (forall id', id' <> id -> accepted id' e = [] /\ framed id' e = []) ->
  (Broken id ∉ e ->
   encoder_accounts (accepted id evs) (framed id evs) (s_out (h2_get_stream t id)) ->
   encoder_accounts (accepted id evs ++ accepted id e) (framed id evs ++ framed id e)
     (f (s_out (h2_get_stream t id)))) ->
  forall id', out_inv id' (evs ++ e) (update_out id f t).
Proof.
  intros Hinv Hc Hother Hf id'. destruct (decide (id = id')) as [<-|Hne].
  - apply (out_inv_step _ _ _ t); rewrite ?get_update_out, ?decide_True by done; simpl;
      rewrite ?Hc; try done.
    rewrite accepted_app, framed_app. intros; auto.
  - destruct (Hother id' ltac:(done)) as [Ha Hfr].
    apply (out_inv_step _ _ _ t); rewrite ?get_update_out, ?decide_False by done; try done.
    + intros -> ?. done.
    + by rewrite accepted_app, framed_app, Ha, Hfr, !app_nil_r.
Qed.

Lemma framed_map id frames : framed id (map Framed frames) = framed_by id frames.
Proof. induction frames as [|f frames IH]; [done|]. simpl. f_equal. exact IH. Qed.

Lemma accepted_map id frames : accepted id (map Framed frames) = [].
Proof. unfold accepted. by induction frames. Qed.

Lemma framing_inv evs t t' frames id :
  framing t t' frames -> out_inv id evs t -> out_inv id (evs ++ map Framed frames) t'.
Proof.
  intros Hfr Hinv. destruct (Hfr id) as (Hc&Hn&He&Hs&Hf&Hb).
  apply (out_inv_step _ _ _ t); rewrite ?Hc; [done|..|done|].
  - intros _. by rewrite framed_map.
  - by intros ->.
  - rewrite accepted_app, framed_app, accepted_map, framed_map, app_nil_r.
    intros _ _ [Hbuf Ha]. destruct (Hb Hbuf) as [Hbuf' Hbk]. split; [done|].
    rewrite Hs. destruct (encoder_started (s_out (h2_get_stream t id))).
    + destruct Ha as (c&Hce&Hi&Ho&Hp&Hok&Hfin). exists c. rewrite He, Hf.
      split_and!; [done|done| |done..]. by rewrite Ho, Hbk, app_assoc.
    + destruct Ha as (?&->&Hbk0&?). rewrite Hbk0 in Hbk. symmetry in Hbk.
      apply app_nil in Hbk as [Hfn Hbn]. by rewrite Hfn, Hbn, Hf.
Qed.

Lemma start_accounts created configured acc fr o :
  encoder_started o = false -> encoder_accounts acc fr o ->
  encoder_accounts acc fr (h2_start_encoder_locked created configured o).2.
Proof.
  intros Hs [Hb Ha]. rewrite Hs in Ha. destruct Ha as (->&->&Hbk&Hf).
  unfold h2_start_encoder_locked. destruct created, configured; simpl; split; try done;
    simpl; rewrite ?Hs; try done.
  destruct cctx_new as (Hok&Hi&Ho). exists ZSTD_createCCtx. rewrite Hi, Ho, Hf.
  change (backlog (set_encoder _ _ _ o)) with (backlog o). rewrite Hbk, contents_nil.
  split_and!; done.
Qed.

Lemma encode_accounts fuel c data acc fr o o' :
  h2_encode_locked fuel c data o = Some (0, o') ->
  encoder_started o = true -> encoder_finished o = false -> encoder o = Some c ->
  encoder_accounts acc fr o -> encoder_accounts (acc ++ data) fr o'.
Proof.
  intros He Hs Hf Hc [Hb Ha]. rewrite Hs in Ha.
  destruct Ha as (c0&Hc0&Hi&Ho&Hp&Hok&_). simplify_eq/=.
  destruct (encode_spec _ _ _ _ _ _ He eq_refl Hb (Hok Hf))
    as ((Hs'&Hf'&_)&c'&(Hb'&Hc'&Hi'&(bs&Ho'&Hbk)&Hp')&Hok').
  split; [done|]. rewrite Hs', Hs. exists c'. rewrite Hi', Ho', Ho, Hbk, Hf', Hf, app_assoc.
  rewrite Hi', Ho', Ho in Hp'. by split_and!.
Qed.

Lemma terminal_accounts fuel c finish acc fr o o' :
  h2_encode_terminal_locked fuel c finish o = Some (0, o') ->
  encoder_started o = true -> encoder_finished o = false -> encoder o = Some c ->
  encoder_accounts acc fr o ->
  encoder_accounts acc fr o' /\ contents (fr ++ backlog o') = acc.
Proof.
  intros He Hs Hf Hc [Hb Ha]. rewrite Hs in Ha.
  destruct Ha as (c0&Hc0&Hi&Ho&Hp&Hok&_). simplify_eq/=.
  destruct (terminal_spec _ _ _ _ _ _ He eq_refl Hb (Hok Hf _))
    as (Hs'&Hf'&_&_&c'&(Hb'&Hc'&Hi'&(bs&Ho'&Hbk)&Hp')&Hall&Hok').
  rewrite app_nil_r in Hi'. assert (cctx_output c' = fr ++ backlog o') as Ho2.
  { by rewrite Ho', Ho, Hbk, app_assoc. }
  split; [|by rewrite <- Ho2, Hall]. split; [done|]. rewrite Hs', Hs. exists c'.
  rewrite Hf', Hf, orb_false_r. by split_and!.
Qed.

Lemma close_out id t id' :
  h2_get_stream (h2_on_stream_close_callback id t) id' = h2_get_stream t id' \/
  closed (h2_get_stream (h2_on_stream_close_callback id t) id') = true.
Proof.
  unfold h2_on_stream_close_callback. rewrite fail_unless, get_put. case_decide; auto.
Qed.

Lemma send_step_inv evs t e t' :
  (forall id, out_inv id evs t) -> send_step t e t' -> forall id, out_inv id (evs ++ e) t'.
Proof.
  intros Hinv Hstep. destruct Hstep as
    [created configured id t Hc Hf Hs|fuel id c data t r o (Hc&Hs&Hf&He) Henc
    |fuel id c finish t r o (Hc&Hs&Hf&He) Henc|plan t ok frames t' Hp|id t|t t' Hfr].
  - apply update_out_inv; [done..|]. rewrite !app_nil_r. intros _. by apply start_accounts.
  - apply update_out_inv; [done|done| |].
    + intros id' Hne. destruct (r =? 0); [|done]. simpl. by destruct (Z.eqb_spec id' id).
    + destruct (Z.eqb_spec r 0) as [->|]; [|set_solver].
      intros _ Ha. simpl. rewrite Z.eqb_refl, !app_nil_r. by eapply encode_accounts.
  - apply update_out_inv; [done|done| |].
    + intros id' Hne. by destruct (r =? 0).
    + destruct (Z.eqb_spec r 0) as [->|]; [|set_solver].
      intros _ Ha. rewrite !app_nil_r. by eapply terminal_accounts.
  - intros id. eapply framing_inv; [|done]. by eapply session_send_spec.
  - intros id'. rewrite app_nil_r. destruct (close_out id t id') as [Heq|Hcl].
    + destruct (Hinv id') as [? ?]. constructor; rewrite ?Heq; done.
    + destruct (Hinv id') as [? ?]. constructor; rewrite ?Hcl; done.
  - intros id. rewrite app_nil_r. destruct (Hinv id) as [Hp Ho], (Hfr id) as (Hc&He&Hs&Hf&Hv&Hz&Hx).
    constructor; [done|]. rewrite Hc. intros Hb Hcl. specialize (Ho Hb Hcl).
    unfold encoder_accounts, buf_ok, backlog in *. by rewrite He, Hs, Hf, Hv, Hz, Hx.
Qed.

Lemma send_run_inv evs t e t' :
  (forall id, out_inv id evs t) -> send_run t e t' -> forall id, out_inv id (evs ++ e) t'.
Proof.
  intros Hinv Hrun. revert evs Hinv.
  induction Hrun as [t|t1 e t2 e' t3 Hstep Hrun IH]; intros evs Hinv; [by rewrite app_nil_r|].
  rewrite app_assoc. apply IH. by eapply send_step_inv.
Qed.

Lemma new_transport_inv is_server id : out_inv id [] (new_transport is_server).
Proof.
  constructor; unfold h2_get_stream; simpl; rewrite ?lookup_empty; simpl.
  - by rewrite contents_nil.
  - intros _ _. split; [split; simpl; lia|done].
Qed.

Lemma reachable_inv is_server evs t :
  send_run (new_transport is_server) evs t -> forall id, out_inv id evs t.
Proof. intros Hrun. apply (send_run_inv [] (new_transport is_server)); [apply new_transport_inv|done]. Qed.
End SendLaws.

(** * Operations are runs *)

Section Refinement.
Context `{Zstd}.
Variable nghttp2 : h2_transport -> session_answer.
Variable others : h2_transport -> h2_transport.

Definition lane_ready (id : Z) (t : h2_transport) : Prop :=
  encoder_started (s_out (h2_get_stream t id)) = true /\
  encoder_finished (s_out (h2_get_stream t id)) = false.

(** A lane has one writer: the other threads do not write to it, nor end it. *)
Definition leave_lane (id : Z) : Prop :=
  forall t, exists evs, send_run t evs (others t) /\ accepted id evs = [] /\
    (Broken id ∉ evs) /\ (lane_ready id t -> lane_ready id (others t)).

(** What an operation on lane [id] did, having written [data] if it succeeded. *)
Definition wrote (id : Z) (data : list byte) (t : h2_transport) (r : Z) (t' : h2_transport)
    : Prop :=
  exists evs, send_run t evs t' /\ (lane_ready id t -> lane_ready id t') /\
    (r = 0 -> accepted id evs = data /\ (Broken id ∉ evs)).

Lemma wrote_trans id d1 d2 t1 t2 t3 r :
  wrote id d1 t1 0 t2 -> wrote id d2 t2 r t3 -> wrote id (d1 ++ d2) t1 r t3.
Proof.
  intros (e1&Hr1&Hl1&Ha1) (e2&Hr2&Hl2&Ha2). exists (e1 ++ e2). split_and!.
  - by eapply send_run_trans.
  - auto.
  - intros Hr. destruct (Ha1 eq_refl), (Ha2 Hr) as [? ?]. rewrite accepted_app.
    split; [congruence|]. rewrite elem_of_app. tauto.
Qed.

Lemma wrote_failed id d1 d2 t1 t2 t3 r :
  wrote id d1 t1 0 t2 -> wrote id d2 t2 r t3 -> wrote id d1 t1 (-1) t3.
Proof.
  intros (e1&Hr1&Hl1&_) (e2&Hr2&Hl2&_). exists (e1 ++ e2).
  split_and!; [by eapply send_run_trans|auto|done].
Qed.

Lemma wrote_nothing id t : wrote id [] t 0 t.
Proof. exists []. split_and!; [constructor|done|]. intros _. split; [done|set_solver]. Qed.

Lemma others_wrote id t : leave_lane id -> wrote id [] t 0 (others t).
Proof. intros Hl. destruct (Hl t) as (evs&?&?&?&?). exists evs. by split_and!. Qed.

Lemma reserve_flags n o :
  encoder_started (h2_reserve_encoded n o) = encoder_started o /\
  encoder_finished (h2_reserve_encoded n o) = encoder_finished o.
Proof. unfold h2_reserve_encoded. by destruct (_ && _ && _); case_if. Qed.

Lemma encode_flags fuel c data o r o' :
  h2_encode_locked fuel c data o = Some (r, o') ->
  encoder_started o' = encoder_started o /\ encoder_finished o' = encoder_finished o /\
  (r = 0 \/ r = -1).
Proof.
  revert c data o. induction fuel as [|fuel IH]; intros c data o He; [done|]. simpl in He.
  destruct (reserve_flags ZSTD_CStreamOutSize o) as [Hs Hf].
  destruct (ZSTD_compressStream2 _ _ _ _) as [c1 [[[n bs] rem]|]].
  - case_bool_decide; [injection He as <- <-; simpl; auto|].
    destruct (IH _ _ _ He) as (->&->&?). simpl. auto.
  - injection He as <- <-. simpl. auto.
Qed.

Lemma terminal_flags fuel c finish o r o' :
  h2_encode_terminal_locked fuel c finish o = Some (r, o') ->
  encoder_started o' = encoder_started o /\
  (finish = false -> encoder_finished o' = encoder_finished o) /\ (r = 0 \/ r = -1).
Proof.
  revert c o. induction fuel as [|fuel IH]; intros c o He; [done|]. simpl in He.
  destruct (reserve_flags ZSTD_CStreamOutSize o) as [Hs Hf].
  destruct (ZSTD_compressStream2 _ _ _ _) as [c1 [[[n bs] rem]|]].
  - destruct (rem =? 0)%nat.
    + injection He as <- <-. destruct finish; simpl; (split_and!; [done|done|by left]).
    + destruct (IH _ _ He) as (->&He2&?). simpl. split_and!; [done|auto..].
      intros Hfin. rewrite (He2 Hfin). done.
  - injection He as <- <-. simpl. auto.
Qed.

(** Output of the session and bookkeeping write nothing. *)
Lemma quiet_wrote id t t' r : send_frame t t' -> wrote id [] t r t'.
Proof.
  intros Hf. exists []. split_and!; [by apply send_run_one, send_other| |].
  - destruct (Hf id) as (_&_&Hs&He&_). unfold lane_ready. by rewrite Hs, He.
  - intros _. split; [done|set_solver].
Qed.

Lemma update_quiet id f t :
  (forall o, encoder (f o) = encoder o /\ encoder_started (f o) = encoder_started o /\
    encoder_finished (f o) = encoder_finished o /\ encoded (f o) = encoded o /\
    encoded_size (f o) = encoded_size o /\ encoded_offset (f o) = encoded_offset o) ->
  send_frame t (update_out id f t).
Proof.
  intros Hf id'. simpl. rewrite get_update_out. case_decide; subst; simpl; [|by split_and!].
  split; [done|apply Hf].
Qed.

Lemma session_wrote id plan t ok frames t' r :
  session_send plan t = (ok, frames, t') -> wrote id [] t r t'.
Proof.
  intros Hs. exists (map Framed frames). split_and!.
  - by eapply send_run_one, send_session.
  - destruct (session_send_spec _ _ _ _ _ Hs id) as (_&_&_&H1&H2&_).
    unfold lane_ready. by rewrite H1, H2.
  - intros _. split; [apply accepted_map|]. intros Hin. apply list_elem_of_fmap in Hin.
    by destruct Hin as (?&?&_).
Qed.

Lemma flush_session_wrote id t r frames t' r' :
  h2_flush_session_locked nghttp2 t = (r, frames, t') -> wrote id [] t r' t'.
Proof.
  unfold h2_flush_session_locked. destruct (session_send _ t) as [[ok fs] t1] eqn:Es.
  intros [= <- <- <-]. by eapply session_wrote.
Qed.

Lemma pump_wrote id id' t r frames t' r' :
  h2_pump_stream_locked nghttp2 id' t = (r, frames, t') -> wrote id [] t r' t'.
Proof.
  unfold h2_pump_stream_locked. intros Hp.
  assert (forall t1, wrote id [] t 0 t1 -> h2_flush_session_locked nghttp2 t1 = (r, frames, t') ->
            wrote id [] t r' t') as Hgo.
  { intros t1 Hw Hfl. eapply (wrote_trans _ [] []); [done|]. by eapply flush_session_wrote. }
  assert (wrote id [] t r' t) as Hstop by (by apply quiet_wrote).
  repeat case_if_in Hp; try (by injection Hp as <- <- <-).
  1, 2: eapply Hgo; [|done]; by apply quiet_wrote, update_quiet.
  eapply Hgo; [apply wrote_nothing|done].
Qed.

Lemma pump_run id t r frames t' :
  h2_pump_stream_locked nghttp2 id t = (r, frames, t') ->
  exists evs, send_run t evs t' /\ (forall id', accepted id' evs = []) /\ (forall id', Broken id' ∉ evs).
Proof.
  unfold h2_pump_stream_locked. intros Hp.
  assert (forall t1, send_run t [] t1 -> h2_flush_session_locked nghttp2 t1 = (r, frames, t') ->
            exists evs, send_run t evs t' /\ (forall id', accepted id' evs = []) /\
              (forall id', Broken id' ∉ evs)) as Hgo.
  { intros t1 Hrun Hfl. exists (map Framed frames).
    split_and!; [|intros; apply accepted_map|intros id' (?&?&_)%list_elem_of_fmap; done].
    eapply (send_run_trans _ []); [done|]. unfold h2_flush_session_locked in Hfl.
    destruct (session_send _ _) as [[ok fs] t2] eqn:Es. injection Hfl as _ <- <-.
    by eapply send_run_one, send_session. }
  repeat case_if_in Hp;
    try (injection Hp as <- <- <-; exists []; split_and!; [constructor|done|intros; apply not_elem_of_nil]);
    eapply Hgo; [|done| |done| |done]; try (by apply send_run_nil);
    by apply send_run_one, send_other, update_quiet.
Qed.

Lemma write_block_wrote fuel id data t r t' :
  write_block nghttp2 fuel id data t = Some (r, t') ->
  closed (h2_get_stream t id) = false -> lane_ready id t ->
  (r = 0 \/ r = -1) /\ wrote id data t r t'.
Proof.
  intros Hw Hc [Hs Hf]. unfold write_block in Hw.
  destruct (encoder _) as [c|] eqn:Ee.
  2: { injection Hw as <- <-. split; [by right|]. exists [].
       split_and!; [constructor|done..]. }
  destruct (h2_encode_locked _ _ _ _) as [[re o']|] eqn:Eenc; [|done]. simpl in Hw.
  set (t1 := update_out id (fun _ => o') t) in *.
  assert (wrote id data t re t1) as Hw1.
  { exists [if re =? 0 then Accepted id data else Broken id]. split_and!.
    - apply send_run_one. by eapply send_encode.
    - intros _. unfold t1, lane_ready. rewrite get_update_out, decide_True by done. simpl.
      destruct (encode_flags _ _ _ _ _ _ Eenc) as (->&->&_). done.
    - intros ->. simpl. rewrite Z.eqb_refl, app_nil_r. by rewrite list_elem_of_singleton. }
  destruct (encode_flags _ _ _ _ _ _ Eenc) as (_&_&[-> | ->]); simpl in Hw; cycle 1.
  { injection Hw as <- <-. auto. }
  case_if_in Hw; [injection Hw as <- <-; auto|].
  destruct (h2_pump_stream_locked _ id t1) as [[rp fs] t2] eqn:Ep. injection Hw as <- <-.
  split; [destruct (rp <? 0); auto|]. rewrite <- (app_nil_r data).
  eapply wrote_trans; [done|]. by eapply pump_wrote.
Qed.

Lemma wait_wrote fuel id condition t t' :
  leave_lane id -> wait_while others fuel condition t = Some t' -> wrote id [] t 0 t'.
Proof.
  intros Hl. revert t. induction fuel as [|fuel IH]; intros t Hw; simpl in Hw;
    case_if_in Hw; simplify_eq; [apply wrote_nothing| |apply wrote_nothing].
  eapply (wrote_trans _ [] []); [by apply others_wrote|by apply IH].
Qed.

Lemma wrote_ready id data t r t' : wrote id data t r t' -> lane_ready id t -> lane_ready id t'.
Proof. intros (?&_&?&_). done. Qed.

Lemma write_bytes_wrote turns fuel id data t r t' :
  leave_lane id -> write_bytes nghttp2 others turns fuel id data t = Some (r, t') ->
  closed (h2_get_stream t id) = false -> lane_ready id t ->
  (r = 0 /\ closed (h2_get_stream t' id) = false \/ r = -1) /\ wrote id data t r t'.
Proof.
  intros Hl. revert data t. induction turns as [|turns IH]; intros data t Hw Hc Hr;
    simpl in Hw; case_bool_decide as Hd; try done.
  1, 2: injection Hw as <- <-; subst; split; [by left|apply wrote_nothing].
  destruct (write_block _ _ _ _ _) as [[rb t1]|] eqn:Eb; [|done]. simpl in Hw.
  destruct (write_block_wrote _ _ _ _ _ _ Eb Hc Hr) as [[-> | ->] Hw1]; simpl in Hw; cycle 1.
  { injection Hw as <- <-. split; [by right|]. destruct Hw1 as (e&?&?&_). by exists e. }
  destruct (wait_while _ _ (lane_congested id) t1) as [t2|] eqn:E2; [|done]. simpl in Hw.
  destruct (wait_while _ _ output_congested t2) as [t3|] eqn:E3; [|done]. simpl in Hw.
  apply (wait_wrote _ id) in E2; [|done]. apply (wait_wrote _ id) in E3; [|done].
  pose proof (wrote_trans _ _ _ _ _ _ _ Hw1 (wrote_trans _ [] [] _ _ _ _ E2 E3)) as Hw3.
  rewrite app_nil_r in Hw3. case_if_in Hw.
  { injection Hw as <- <-. split; [by right|]. destruct Hw3 as (e&?&?&_). by exists e. }
  assert (lane_ready id t3) as Hr3 by (by eapply wrote_ready).
  destruct (IH _ _ Hw) as [Hres Hw4]; [done..|].
  split; [done|]. rewrite <- (take_drop kH2CompressionBlockBytes data).
  by eapply wrote_trans.
Qed.

(** The bytes a cursor supplies: its own, then those of its refills up to the
    end of input. *)
Fixpoint refill_data (answers : list (Z * list byte)) : list byte :=
  match answers with
  | [] => []
  | (refill, bytes) :: answers => if refill =? 0 then [] else bytes ++ refill_data answers
  end.

Definition cursor_data (c : write_cursor) : list byte :=
  cursor_bytes c ++ match cursor_refill c with None => [] | Some answers => refill_data answers end.

Lemma wrote_any id d1 d2 t t' r : wrote id d1 t r t' -> wrote id d2 t (-1) t'.
Proof. intros (e&?&?&_). by exists e. Qed.

Lemma write_refills_wrote turns fuel id answers t r t' :
  leave_lane id -> write_refills nghttp2 others turns fuel id answers t = Some (r, t') ->
  lane_ready id t ->
  (r = 0 /\ closed (h2_get_stream t' id) = false \/ r = -1) /\
  wrote id (refill_data answers) t r t'.
Proof.
  intros Hl. revert t. induction answers as [|[code bytes] answers IH]; intros t Hw Hr; simpl in Hw.
  all: pose proof (others_wrote id t Hl) as Ho.
  - destruct (transport_failed _ || _) eqn:E; injection Hw as <- <-.
    + split; [by right|]. by eapply wrote_any.
    + apply orb_false_iff in E as [_ ?]. split; [by left|done].
  - destruct (_ || _ || _ || _ || _) eqn:E.
    { injection Hw as <- <-. split; [by right|]. by eapply wrote_any. }
    breflect. simpl. destruct (code =? 0).
    { injection Hw as <- <-. split; [by left|done]. }
    destruct (write_bytes _ _ _ _ _ _ _) as [[rb t1]|] eqn:Eb; [|done]. simpl in Hw.
    assert (lane_ready id (others t)) as Hr0 by (by eapply wrote_ready).
    destruct (write_bytes_wrote _ _ _ _ _ _ _ Hl Eb) as [[[-> _] | ->] Hw1]; [done..| |];
      simpl in Hw; cycle 1.
    { injection Hw as <- <-. split; [by right|]. eapply (wrote_any _ bytes).
      by eapply (wrote_trans _ [] bytes). }
    assert (lane_ready id t1) as Hr1 by (by eapply wrote_ready).
    destruct (IH _ Hw Hr1) as [? Hw2]. split; [done|].
    eapply (wrote_trans _ []); [done|]. by eapply wrote_trans.
Qed.

Lemma write_cursors_wrote turns fuel id cursors t r t' :
  leave_lane id -> write_cursors nghttp2 others turns fuel id cursors t = Some (r, t') ->
  closed (h2_get_stream t id) = false -> lane_ready id t ->
  (r = 0 \/ r = -1) /\ wrote id (cursors ≫= cursor_data) t r t'.
Proof.
  intros Hl. revert t. induction cursors as [|c cursors IH]; intros t Hw Hc Hr; simpl in Hw.
  { injection Hw as <- <-. split; [by left|apply wrote_nothing]. }
  destruct (write_bytes _ _ _ _ _ _ _) as [[rb t1]|] eqn:Eb; [|done]. simpl in Hw.
  destruct (write_bytes_wrote _ _ _ _ _ _ _ Hl Eb Hc Hr) as [[[-> Hc1] | ->] Hw1];
    simpl in Hw; cycle 1.
  { injection Hw as <- <-. split; [by right|]. by eapply wrote_any. }
  assert (lane_ready id t1) as Hr1 by (by eapply wrote_ready).
  assert (exists rr t2, match cursor_refill c with
            | None => Some (0, t1)
            | Some answers => write_refills nghttp2 others turns fuel id answers t1
            end = Some (rr, t2) /\
          (rr = 0 /\ closed (h2_get_stream t2 id) = false \/ rr = -1) /\
          wrote id (match cursor_refill c with None => [] | Some a => refill_data a end) t1 rr t2)
    as (rr&t2&Erf&Hrr&Hw2).
  { destruct (cursor_refill c) as [answers|]; simpl in Hw.
    - destruct (write_refills _ _ _ _ _ _ _) as [[rr t2]|] eqn:Erf; [|done].
      destruct (write_refills_wrote _ _ _ _ _ _ _ Hl Erf Hr1). by exists rr, t2.
    - exists 0, t1. split_and!; [done|by left|apply wrote_nothing]. }
  rewrite Erf in Hw. simpl in Hw.
  destruct Hrr as [[-> Hc2] | ->]; simpl in Hw; cycle 1.
  { injection Hw as <- <-. split; [by right|]. eapply wrote_any. by eapply wrote_trans. }
  destruct (IH _ Hw Hc2) as [? Hw3]; [by eapply wrote_ready|]. split; [done|].
  simpl. eapply wrote_trans; [|done]. unfold cursor_data. by eapply wrote_trans.
Qed.

Variable created configured : bool.

Lemma ready_encoder_wrote id t r t' :
  ready_encoder created configured id t = (r, t') ->
  (r = 0 \/ r = -1) /\ wrote id [] t r t' /\
  (r = 0 -> lane_ready id t' /\ closed (h2_get_stream t' id) = false).
Proof.
  unfold ready_encoder. intros Hr.
  assert (forall q, wrote id [] t q (update_out id (fun o => o) t)) as Htouch.
  { intros q. by apply quiet_wrote, update_quiet. }
  assert (h2_get_stream (update_out id (fun o => o) t) id = h2_get_stream t id) as Hget.
  { rewrite get_update_out, decide_True by done. by destruct (h2_get_stream t id). }
  case_if_in Hr; [injection Hr as <- <-; split_and!; [by right|done|done]|]. breflect.
  case_if_in Hr.
  { injection Hr as <- <-. unfold lane_ready. rewrite Hget. split_and!; [by left|done|done]. }
  destruct (h2_start_encoder_locked _ _ _) as [rs o] eqn:Es. injection Hr as <- <-.
  assert (o = (h2_start_encoder_locked created configured (s_out (h2_get_stream t id))).2) as Ho
    by by rewrite Es.
  assert (update_out id (fun _ => o) t =
          update_out id (fun o => (h2_start_encoder_locked created configured o).2) t) as Hup.
  { unfold update_out. by rewrite Ho. }
  split; [|split].
  - revert Es. unfold h2_start_encoder_locked. repeat case_if; intros [= <- _]; auto.
  - exists []. split_and!; [rewrite Hup; by apply send_run_one, send_start| |].
    + intros [Hst _]. congruence.
    + intros _. split; [done|apply not_elem_of_nil].
  - intros ->. unfold lane_ready. rewrite get_update_out, decide_True by done. simpl.
    revert Es. unfold h2_start_encoder_locked. repeat case_if; intros [= <-]. done.
Qed.

Lemma queue_flush_wrote id t : wrote id [] t 0 (queue_flush id t).
Proof.
  unfold queue_flush. case_if; [apply wrote_nothing|]. apply quiet_wrote.
  intros id'. change (h2_get_stream t id') with (h2_get_stream (set_flush_pending (flush_pending t ++ [id]) t) id').
  by apply update_quiet.
Qed.

Lemma write_stream_wrote turns fuel id cursors t r t' :
  leave_lane id ->
  rpc_http2_write_stream nghttp2 others created configured turns fuel id cursors t = Some (r, t') ->
  wrote id (cursors ≫= cursor_data) t r t'.
Proof.
  intros Hl Hw. unfold rpc_http2_write_stream in Hw. destruct (forallb _ _) eqn:Ea.
  { injection Hw as <- <-. assert (cursors ≫= cursor_data = []) as ->; [|apply wrote_nothing].
    rewrite forallb_forall in Ea. induction cursors as [|c cursors IH]; [done|].
    change (cursor_data c ++ (cursors ≫= cursor_data) = []). rewrite IH by (intros; apply Ea; by right). specialize (Ea c ltac:(by left)).
    unfold cursor_data, cursor_pending in *. breflect. rewrite app_nil_r.
    match goal with Hb : cursor_bytes c = [] |- _ => rewrite Hb end.
    destruct (cursor_refill c); [|done].
    match goal with Hn : ~ is_Some _ |- _ => by destruct Hn end. }
  unfold h2_write_stream_locked in Hw. destruct (ready_encoder _ _ _ _) as [r0 t0] eqn:E0.
  destruct (ready_encoder_wrote _ _ _ _ E0) as ([-> | ->]&Hw0&Hready); simpl in Hw; cycle 1.
  { injection Hw as <- <-. by eapply wrote_any. }
  destruct (Hready eq_refl) as [Hr0 Hc0].
  destruct (write_cursors _ _ _ _ _ _ _) as [[rc t1]|] eqn:Ec; [|done]. simpl in Hw.
  destruct (write_cursors_wrote _ _ _ _ _ _ _ Hl Ec Hc0 Hr0) as [[-> | ->] Hw1]; simpl in Hw;
    injection Hw as <- <-; cycle 1.
  { by eapply (wrote_trans _ []). }
  pose proof (wrote_trans _ _ _ _ _ _ _ Hw0
    (wrote_trans _ _ _ _ _ _ _ Hw1 (queue_flush_wrote id t1))) as Hall.
  rewrite app_nil_r in Hall. exact Hall.
Qed.

(** Ending or flushing a lane whose encoder is open. *)
Lemma finish_or_flush_run fuel finish id t r t' :
  finish_or_flush nghttp2 fuel finish id t = Some (r, t') ->
  closed (h2_get_stream t id) = false -> lane_ready id t ->
  exists evs, send_run t evs t' /\ (forall id', accepted id' evs = []).
Proof.
  unfold finish_or_flush. intros Hw Hc [Hs Hf].
  destruct (encoder _) as [c|] eqn:Ee; [|injection Hw as <- <-; exists []; split; [constructor|done]].
  destruct (h2_encode_terminal_locked _ _ _ _) as [[re o']|] eqn:Et; [|done]. simpl in Hw.
  set (t1 := update_out id (fun _ => o') t) in *.
  assert (send_run t (if re =? 0 then [] else [Broken id]) t1) as Hrun.
  { apply send_run_one. by eapply send_terminal. }
  assert (forall id', accepted id' (if re =? 0 then [] else [Broken id]) = []) as Hacc.
  { intros id'. by destruct (re =? 0). }
  case_if_in Hw; [injection Hw as <- <-; by eexists|].
  destruct (h2_pump_stream_locked _ id t1) as [[rp fs] t2] eqn:Ep. injection Hw as <- <-.
  destruct (pump_run _ _ _ _ _ Ep) as (evs&Hrun2&Hacc2&_).
  eexists. split; [by eapply send_run_trans|]. intros id'. by rewrite accepted_app, Hacc, Hacc2.
Qed.

(** An encoder that was started stays so. *)
Lemma send_run_started t evs t' id :
  send_run t evs t' -> encoder_started (s_out (h2_get_stream t id)) = true ->
  encoder_started (s_out (h2_get_stream t' id)) = true.
Proof.
  induction 1 as [|t1 e t2 evs t3 Hstep _ IH]; [done|]. intros Hs. apply IH. clear IH.
  destruct Hstep as [? ? id' t ? ? Hs'|fuel id' c data t r o _ Henc|fuel id' c finish t r o _ Henc
    |plan t ok frames t' Hp|id' t|t t' Hf].
  - rewrite get_update_out. case_decide; [subst; congruence|done].
  - rewrite get_update_out. case_decide; [subst|done]. simpl.
    by rewrite (proj1 (encode_flags _ _ _ _ _ _ Henc)).
  - rewrite get_update_out. case_decide; [subst|done]. simpl.
    by rewrite (proj1 (terminal_flags _ _ _ _ _ _ Henc)).
  - destruct (session_send_spec _ _ _ _ _ Hp id) as (_&_&_&->&_). done.
  - unfold h2_on_stream_close_callback. rewrite fail_unless, get_put. by case_decide; subst.
  - destruct (Hf id) as (_&_&->&_). done.
Qed.

Lemma flush_streams_run fuel ids result t r t' :
  flush_streams nghttp2 fuel ids result t = Some (r, t') ->
  (forall id, id ∈ ids -> encoder_started (s_out (h2_get_stream t id)) = true) ->
  exists evs, send_run t evs t' /\ (forall id, accepted id evs = []).
Proof.
  revert result t. induction ids as [|id ids IH]; intros result t Hf Hst; simpl in Hf.
  { injection Hf as <- <-. exists []. split; [constructor|done]. }
  set (t1 := update_out id (set_flush_queued false) t) in *.
  assert (send_run t [] t1) as Hq by (by apply send_run_one, send_other, update_quiet).
  assert (forall id', encoder_started (s_out (h2_get_stream t id')) = true ->
            encoder_started (s_out (h2_get_stream t1 id')) = true) as Hst1
    by (intros ?; by eapply send_run_started).
  destruct (closed (h2_get_stream t1 id) || _) eqn:Ec.
  - destruct (IH _ _ Hf) as (evs&Hrun&Hacc); [intros; apply Hst1, Hst; by right|].
    exists evs. split; [by eapply (send_run_trans _ [])|done].
  - breflect. destruct (finish_or_flush _ _ _ _ _) as [[rf t2]|] eqn:Ef; [|done]. simpl in Hf.
    destruct (finish_or_flush_run _ _ _ _ _ _ Ef) as (e1&Hr1&Ha1); [done| |].
    { split; [apply Hst1, Hst; by left|done]. }
    destruct (IH _ _ Hf) as (e2&Hr2&Ha2).
    { intros id' Hin. eapply send_run_started; [done|]. apply Hst1, Hst. by right. }
    exists (e1 ++ e2). split; [eapply (send_run_trans _ []); [done|by eapply send_run_trans]|].
    intros id'. by rewrite accepted_app, Ha1, Ha2.
Qed.

(** The flush of the write thread and the end of a lane are runs that accept
    nothing. *)
Lemma flush_pending_run fuel t r t' :
  h2_flush_pending_locked nghttp2 fuel t = Some (r, t') ->
  (forall id, id ∈ flush_pending t -> encoder_started (s_out (h2_get_stream t id)) = true) ->
  exists evs, send_run t evs t' /\ (forall id, accepted id evs = []).
Proof.
  unfold h2_flush_pending_locked. intros Hf Hst.
  destruct (flush_streams _ _ _ _ _) as [[rf t1]|] eqn:Ef; [|done]. injection Hf as <- <-.
  destruct (flush_streams_run _ _ _ _ _ _ Ef Hst) as (evs&Hrun&Hacc).
  exists (evs ++ []). split; [|by rewrite app_nil_r].
  eapply send_run_trans; [done|]. by apply send_run_one, send_other.
Qed.

Lemma end_stream_run fuel id t r t' :
  h2_end_stream_locked nghttp2 created configured fuel id t = Some (r, t') ->
  exists evs, send_run t evs t' /\ (r = 0 -> accepted id evs = []).
Proof.
  unfold h2_end_stream_locked. destruct (ready_encoder _ _ _ _) as [r0 t0] eqn:E0.
  destruct (ready_encoder_wrote _ _ _ _ E0) as ([-> | ->]&(e0&Hr0&_&Ha0)&Hready); simpl; cycle 1.
  { intros [= <- <-]. by exists e0. }
  destruct (Hready eq_refl), (Ha0 eq_refl) as [Ha0' _]. intros Hf.
  destruct (finish_or_flush_run _ _ _ _ _ _ Hf) as (e1&Hr1&Ha1); [done..|].
  exists (e0 ++ e1). split; [by eapply send_run_trans|]. intros _.
  by rewrite accepted_app, Ha0', Ha1.
Qed.
End Refinement.

(** * A write returns *)

(** A computation with fuel that returns the same for all fuel from some on. *)
Definition settles {A} (f : nat -> option A) : Prop :=
  exists x least, forall fuel, (least <= fuel)%nat -> f fuel = Some x.

Lemma settles_ret {A} (x : A) : settles (fun _ => Some x).
Proof. by exists x, O. Qed.

Lemma settles_bind {A B} (f : nat -> option A) (g : nat -> A -> option B) :
  settles f -> (forall x fuel, f fuel = Some x -> settles (fun fuel => g fuel x)) ->
  settles (fun fuel => f fuel ≫= g fuel).
Proof.
  intros (x&n&Hf) Hg. destruct (Hg x n (Hf n ltac:(lia))) as (y&m&Hy).
  exists y, (n + m)%nat. intros fuel Hle. rewrite Hf by lia. apply Hy. lia.
Qed.

Lemma block_positive : (0 < kH2CompressionBlockBytes)%nat.
Proof. unfold kH2CompressionBlockBytes. lia. Qed.

Section Returns.
Context `{ZstdLaws}.
Variable nghttp2 : h2_transport -> session_answer.
Variable others : h2_transport -> h2_transport.
Variable is_server : bool.
Variable id : Z.
Hypothesis Hothers : leave_lane others id.
(** The writer of the transport and the peer get rid of what is ahead. *)
Hypothesis Hlane : forall t, exists n, lane_congested id (Nat.iter n others t) = false.
Hypothesis Houtput : forall t, exists n, output_congested (Nat.iter n others t) = false.

(** A transport that was reached without a failure of the lane's compressor. *)
Definition reached (t : h2_transport) : Prop :=
  exists evs, send_run (new_transport is_server) evs t /\ (Broken id ∉ evs).

Lemma wrote_reached data t t' : reached t -> wrote id data t 0 t' -> reached t'.
Proof.
  intros (evs&Hrun&Hb) (e&Hrun'&_&He). destruct (He eq_refl) as [_ Hb'].
  exists (evs ++ e). split; [by eapply send_run_trans|set_solver].
Qed.

Lemma encode_more fuel fuel' c data o x :
  h2_encode_locked fuel c data o = Some x -> (fuel <= fuel')%nat ->
  h2_encode_locked fuel' c data o = Some x.
Proof.
  revert fuel' c data o. induction fuel as [|fuel IH]; intros [|fuel'] c data o He Hle; try done; [lia|].
  simpl in *. destruct (ZSTD_compressStream2 _ _ _ _) as [c1 [[[n bs] rem]|]]; [|done].
  case_bool_decide; [done|]. by apply IH; [|lia].
Qed.

Lemma block_settles data t :
  reached t -> closed (h2_get_stream t id) = false -> lane_ready id t ->
  settles (fun fuel => write_block nghttp2 fuel id data t).
Proof.
  intros (evs&Hrun&Hb) Hc [Hs Hf]. unfold write_block.
  destruct (out_open _ _ _ (reachable_inv _ _ _ Hrun id) Hb Hc) as [_ Ha].
  rewrite Hs in Ha. destruct Ha as (c&->&_&_&_&Hok&_).
  apply settles_bind.
  - destruct (encode_total (S (length data + cctx_bound c data)) c data (s_out (h2_get_stream t id)))
      as [x Hx]; [by apply Hok|lia|]. exists x, (S (length data + cctx_bound c data)).
    intros fuel Hle. by eapply encode_more.
  - intros [r o'] _ _. case_if; [apply settles_ret|]. case_if; [apply settles_ret|].
    destruct (h2_pump_stream_locked _ _ _) as [[? ?] ?]. apply settles_ret.
Qed.

Lemma wait_settles condition t :
  (exists n, condition (Nat.iter n others t) = false) ->
  settles (fun fuel => wait_while others fuel condition t).
Proof.
  intros [n Hn]. revert t Hn. induction n as [|n IH]; intros t Hn.
  - exists t, O. intros fuel _. simpl in Hn. destruct fuel; simpl; by rewrite Hn.
  - destruct (condition t) eqn:E; [|exists t, O; intros [] _; simpl; by rewrite E].
    rewrite Nat.iter_succ_r in Hn. destruct (IH _ Hn) as (x&m&Hx). exists x, (S m).
    intros [|fuel] Hle; [lia|]. simpl. rewrite E. apply Hx. lia.
Qed.

Lemma bytes_settle turns data t :
  (length data <= turns)%nat ->
  reached t -> closed (h2_get_stream t id) = false -> lane_ready id t ->
  settles (fun fuel => write_bytes nghttp2 others turns fuel id data t).
Proof.
  revert data t. induction turns as [|turns IH]; intros data t Hle Hre Hc Hr; simpl.
  all: case_bool_decide as Hd; [apply settles_ret|]; destruct data as [|b data]; try done.
  { simpl in Hle. lia. }
  apply settles_bind; [by apply block_settles|]. intros [r t1] fuel Hw.
  apply write_block_wrote in Hw as [[-> | ->] Hw1]; [|apply settles_ret|done..].
  apply settles_bind; [by apply wait_settles|]. intros t2 ? E2%(wait_wrote nghttp2 others _ id); [|done].
  apply settles_bind; [by apply wait_settles|]. intros t3 ? E3%(wait_wrote nghttp2 others _ id); [|done].
  destruct (transport_failed t3 || _) eqn:E; [apply settles_ret|]. breflect.
  pose proof (wrote_trans nghttp2 others _ _ _ _ _ _ _ Hw1
    (wrote_trans nghttp2 others _ [] [] _ _ _ _ E2 E3)) as Hw3.
  apply IH; [|by eapply wrote_reached|done|by eapply wrote_ready].
  rewrite length_drop. pose proof block_positive. lia.
Qed.

Lemma refills_settle turns answers t :
  (forall code bytes, (code, bytes) ∈ answers -> (length bytes <= turns)%nat) ->
  reached t -> lane_ready id t ->
  settles (fun fuel => write_refills nghttp2 others turns fuel id answers t).
Proof.
  revert t. induction answers as [|[code bytes] answers IH]; intros t Hle Hre Hr; simpl;
    [apply settles_ret|].
  pose proof (others_wrote others id t Hothers) as Ho.
  destruct (_ || _ || _ || _ || _) eqn:E; [apply settles_ret|]. breflect.
  destruct (code =? 0); [apply settles_ret|].
  assert (lane_ready id (others t)) by (by eapply wrote_ready).
  apply settles_bind; [apply bytes_settle; [by eapply Hle, list_elem_of_here|by eapply wrote_reached|done..]|].
  intros [r t1] fuel Hw. apply write_bytes_wrote in Hw as [[[-> _] | ->] Hw1];
    [|apply settles_ret|done..].
  apply IH; [|eapply wrote_reached; [|done]; by eapply wrote_reached|by eapply wrote_ready].
  intros code' bytes' Hin. eapply Hle. by apply list_elem_of_further.
Qed.
Definition cursor_fits (turns : nat) (c : write_cursor) : Prop :=
  (length (cursor_bytes c) <= turns)%nat /\
  forall answers, cursor_refill c = Some answers ->
    forall code bytes, (code, bytes) ∈ answers -> (length bytes <= turns)%nat.

Lemma cursors_settle turns cursors t :
  Forall (cursor_fits turns) cursors ->
  reached t -> closed (h2_get_stream t id) = false -> lane_ready id t ->
  settles (fun fuel => write_cursors nghttp2 others turns fuel id cursors t).
Proof.
  intros Hall. revert t. induction Hall as [|c cursors [Hb Ha] _ IH]; intros t Hre Hc Hr; simpl;
    [apply settles_ret|].
  apply settles_bind; [by apply bytes_settle|]. intros [r t1] fuel Hw.
  apply write_bytes_wrote in Hw as [[[-> Hc1] | ->] Hw1]; [|apply settles_ret|done..]. simpl.
  pose proof (wrote_reached _ _ _ Hre Hw1) as Hre1.
  assert (lane_ready id t1) as Hr1 by (by eapply wrote_ready).
  apply settles_bind.
  - destruct (cursor_refill c) as [answers|]; [|apply settles_ret].
    apply refills_settle; [by apply Ha|done..].
  - intros [r t2] fuel' Hw. destruct (cursor_refill c) as [answers|].
    + apply write_refills_wrote in Hw as [[[-> Hc2] | ->] Hw2]; [|apply settles_ret|done..].
      apply IH; [by eapply wrote_reached|done|by eapply wrote_ready].
    + injection Hw as <- <-. by apply IH.
Qed.

(** The bytes of all parts of the cursors, enough turns for each of them. *)
Definition cursor_turns (c : write_cursor) : nat :=
  (length (cursor_bytes c) + length (concat (default [] (cursor_refill c)).*2))%nat.

Lemma cursor_turns_fit cursors : Forall (cursor_fits (sum_list_with cursor_turns cursors)) cursors.
Proof.
  apply Forall_forall. intros c Hin. apply (sum_list_with_in c cursor_turns) in Hin.
  unfold cursor_turns at 1 in Hin. split; [lia|].
  intros answers Ha code bytes Hb. rewrite Ha in Hin. simpl in Hin.
  assert (length bytes <= length (concat answers.*2))%nat; [|lia].
  apply (list_elem_of_fmap_2 snd) in Hb. simpl in Hb.
  clear -Hb. induction Hb; simpl; rewrite length_app; lia.
Qed.

Lemma write_stream_settles created configured cursors t :
  reached t -> settles (fun fuel => rpc_http2_write_stream nghttp2 others created configured
    (sum_list_with cursor_turns cursors) fuel id cursors t).
Proof.
  intros Hre. unfold rpc_http2_write_stream. case_if; [apply settles_ret|].
  unfold h2_write_stream_locked. destruct (ready_encoder _ _ _ _) as [r t0] eqn:Er.
  apply ready_encoder_wrote in Er as ([-> | ->]&Hw&Hready); [|apply settles_ret].
  destruct (Hready eq_refl). simpl.
  apply settles_bind; [|intros [r t1] _ _; apply settles_ret].
  apply cursors_settle; [apply cursor_turns_fit|by eapply wrote_reached|done..].
Qed.
End Returns.

(** What a stream frames decodes to what was written.  In every run in which
    its compressor does not fail, the payload framed on a stream decodes to a
    prefix of the bytes it accepted; and flushing or ending its encoder returns,
    and leaves encoded bytes behind which everything accepted so far can be
    decoded, however the vector was compacted and however the session cut it. *)
Theorem framed_payload_decodes `{ZstdLaws} is_server evs t id :
  send_run (new_transport is_server) evs t -> (Broken id ∉ evs) ->
  contents (framed id evs) `prefix_of` accepted id evs /\
  forall c finish, encoder_open id t c ->
    (exists fuel, is_Some (h2_encode_terminal_locked fuel c finish (s_out (h2_get_stream t id)))) /\
    forall fuel o,
      h2_encode_terminal_locked fuel c finish (s_out (h2_get_stream t id)) = Some (0, o) ->
      contents (framed id evs ++ backlog o) = accepted id evs.
Proof.
  intros Hrun Hb. destruct (reachable_inv _ _ _ Hrun id) as [Hp Ho]. split; [by apply Hp|].
  intros c finish (Hc&Hs&Hf&He). specialize (Ho Hb Hc). split.
  - destruct Ho as [_ Ha]. rewrite Hs in Ha. destruct Ha as (c0&Hc0&_&_&_&Hok&_).
    assert (c0 = c) as -> by congruence. exists (S (cctx_bound c [])). apply terminal_total; [by apply Hok|lia].
  - intros fuel o Ht. by eapply terminal_accounts.
Qed.

(** A write hands over its cursors and returns.  [rpc_http2_write_stream], with
    the session, the waits and the refills releasing the mutex to other threads
    that leave this lane alone, is a run of the stream; when it returns 0 the
    stream's encoder has accepted exactly the bytes of the cursors and of their
    refills, in order.  If the output ahead of it drains, it does return: a turn
    per byte of the cursors is enough. *)
Theorem write_stream_accepts_cursors `{ZstdLaws} nghttp2 others created configured is_server
    evs0 id cursors t :
  send_run (new_transport is_server) evs0 t -> (Broken id ∉ evs0) -> leave_lane others id ->
  (forall turns fuel r t',
     rpc_http2_write_stream nghttp2 others created configured turns fuel id cursors t =
       Some (r, t') ->
     exists evs, send_run t evs t' /\
       (r = 0 -> accepted id evs = cursors ≫= cursor_data /\ (Broken id ∉ evs))) /\
  ((forall t, exists n, lane_congested id (Nat.iter n others t) = false) ->
   (forall t, exists n, output_congested (Nat.iter n others t) = false) ->
   exists least, forall fuel, (least <= fuel)%nat ->
     is_Some (rpc_http2_write_stream nghttp2 others created configured
                (sum_list_with cursor_turns cursors) fuel id cursors t)).
Proof.
  intros Hrun Hb Hl. split.
  - intros turns fuel r t' Hw. apply write_stream_wrote in Hw as (evs&?&_&?); eauto.
  - intros Hlane Hout. destruct (write_stream_settles nghttp2 others is_server id Hl Hlane Hout
      created configured cursors t) as (x&least&Hx); [by exists evs0|].
    exists least. intros fuel Hle. by rewrite Hx.
Qed.

(** DATA frames respect the peer.  A frame that the session sends for a stream
    carries at least one byte and at most what the stream and connection windows,
    the peer's frame size and the frame limit allow; it carries the front of the
    backlog; and it ends the stream exactly when the encoder has finished and
    nothing is left. *)
Theorem data_frame_bounds `{Zstd} id session_window stream_window max_frame framehd t ok frame t' :
  session_frame (SessionData id session_window stream_window max_frame framehd) t =
    (ok, [frame], t') ->
  buf_ok (s_out (h2_get_stream t id)) -> 1 <= max_frame ->
  let n := Z.of_nat (length (df_payload frame)) in
  1 <= n <= Z.min (Z.min session_window stream_window) (Z.min max_frame kH2MaxDataFrameBytes) /\
  df_stream frame = id /\
  outbound t' = outbound t ++ framehd ++ df_payload frame /\
  backlog (s_out (h2_get_stream t id)) =
    df_payload frame ++ backlog (s_out (h2_get_stream t' id)) /\
  (df_end frame = true <-> encoder_finished (s_out (h2_get_stream t id)) = true /\
     backlog (s_out (h2_get_stream t' id)) = []).
Proof.
  intros Hs Hb Hmf. pose proof (session_frame_spec _ _ _ _ _ Hs id) as (_&_&_&_&_&Hfr).
  specialize (Hfr Hb). destruct Hfr as [Hb' Hbk]. revert Hs. simpl.
  destruct (_ || _ || _); [done|]. set (o := s_out (h2_get_stream t id)) in *.
  set (len := h2_data_source_read_length_callback _ _ _ _ t). destruct (Z.leb_spec len 0); [done|].
  unfold h2_data_source_read_callback, h2_send_data_callback. fold o.
  destruct (encoded_size o - encoded_offset o =? 0)%nat eqn:Ea; [done|].
  apply Nat.eqb_neq in Ea. rewrite get_update_out, decide_True by done.
  set (avail := (encoded_size o - encoded_offset o)%nat) in *.
  set (n := (avail `min` Z.to_nat len)%nat). simpl. fold o. intros [= <- <- <-]. simpl in *.
  unfold framed_by, frame_part in Hbk. simpl in Hbk. rewrite Z.eqb_refl, app_nil_r in Hbk.
  assert (length (take n (drop (encoded_offset o) (encoded o))) = n) as Hn.
  { rewrite length_take, length_drop. destruct Hb. unfold n, avail. lia. }
  assert (length (backlog o) = avail) as Hlb.
  { unfold backlog. rewrite length_take, length_drop. destruct Hb. unfold avail. lia. }
  pose proof (f_equal length Hbk) as Hlen. rewrite length_app, Hn, Hlb in Hlen.
  rewrite Hn. split_and!; try done.
  - lia.
  - unfold len, h2_data_source_read_length_callback in *.
    destruct (Z.leb_spec (Z.min session_window stream_window) 0);
      unfold NGHTTP2_ERR_CALLBACK_FAILURE, kH2MaxDataFrameBytes, backlog_size in *; lia.
  - destruct (n =? avail)%nat eqn:En; [apply Nat.eqb_eq in En|apply Nat.eqb_neq in En]; simpl.
    + split; [|by intros [? _]]. intros ->. split; [done|]. apply nil_length_inv. lia.
    + split; [done|]. intros [_ Hnil]. rewrite Hnil in Hlen. simpl in Hlen. lia.
Qed.

(** * A run *)

(** With the storing codec: two bytes are written to stream 3 and flushed; the
    session's window cuts the payload inside a symbol, and a server reads it. *)
Module SendSample.
Import Stored.

Definition started : h2_transport :=
  update_out 3 (fun o => (h2_start_encoder_locked true true o).2) (new_transport false).

Definition half (t : h2_transport) : h2_outbound := s_out (h2_get_stream t 3).

Definition context (t : h2_transport) : stored_cctx :=
  default ([], [], false) (encoder (half t)).

Definition result_of (r : option (Z * h2_outbound)) : h2_outbound :=
  match r with Some (_, o) => o | None => s_out new_stream end.

Definition written : h2_transport :=
  update_out 3 (fun _ => result_of (h2_encode_locked 4 (context started) [7; 8] (half started)))
    started.

Definition flushed : h2_transport :=
  update_out 3
    (fun _ => result_of (h2_encode_terminal_locked 8 (context written) false (half written))) written.

Definition submitted : h2_transport := update_out 3 (set_provider true false) flushed.

Definition grants : list session_output :=
  [SessionData 3 3 100 16384 [0]; SessionData 3 100 100 16384 [0]].

Definition drained : h2_transport := (session_send grants submitted).2.

Definition drained_events : list send_event :=
  [Accepted 3 [7; 8]; Framed (DataFrame 3 [1; 7; 1] false); Framed (DataFrame 3 [8] false)].

Lemma submitted_run : send_run (new_transport false) [Accepted 3 [7; 8]] submitted.
Proof.
  apply (send_run_step _ [] started); [by apply send_start|].
  apply (send_run_step _ [Accepted 3 [7; 8]] written).
  { apply (@send_encode stored 4 3 (context started) [7; 8] started 0); [split_and!|]; by vm_compute. }
  apply (send_run_step _ [] flushed).
  { apply (@send_terminal stored 8 3 (context written) false written 0); [split_and!|]; by vm_compute. }
  apply send_run_one, send_other. unfold submitted. by apply update_quiet.
Qed.

Lemma drained_run : send_run (new_transport false) drained_events drained.
Proof.
  apply (send_run_trans _ [Accepted 3 [7; 8]] submitted); [apply submitted_run|].
  apply send_run_one.
  apply (send_session grants submitted true
    [DataFrame 3 [1; 7; 1] false; DataFrame 3 [8] false] drained). by vm_compute.
Qed.

Lemma unbroken : Broken 3 ∉ drained_events.
Proof. unfold drained_events. rewrite !elem_of_cons, elem_of_nil. intuition congruence. Qed.

Definition arrived : h2_transport :=
  Sample.feed [8] (Sample.feed [1; 7; 1] (Sample.opened true)).

Definition arrived_events : list recv_event := [Received 3 [1; 7; 1]; Received 3 [8]].

Lemma arrived_run : recv_run true arrived_events arrived.
Proof.
  apply (Sample.feed_run _ [Received 3 [1; 7; 1]]); [|by vm_compute..].
  apply (Sample.feed_run _ []); [apply Sample.opened_run|by vm_compute..].
Qed.

Definition cursors : list write_cursor := [Cursor [7] (Some [(1, [8]); (0, [])])].

Definition session (t : h2_transport) : session_answer := SessionAnswer true grants true.

Lemma alone id : leave_lane (fun t => t) id.
Proof.
  intros t. exists []. split_and!; [constructor|done|apply not_elem_of_nil|done].
Qed.

(** The other threads give the connection up. *)
Definition lost (t : h2_transport) : h2_transport :=
  H2Transport (server t) (dispatch_stream_id t) (streams t) (incoming_streams t)
    (local_lanes t) (buffer_pool t) (buffer_pool_bytes t) (outbound t) (flush_pending t)
    true true.

Lemma lost_leaves id : leave_lane lost id.
Proof.
  intros t. exists []. split_and!; [|done|apply not_elem_of_nil|done].
  apply send_run_one, send_other. intros id'. by split_and!.
Qed.

Definition sent_cursors : option (Z * h2_transport) :=
  rpc_http2_write_stream session (fun t => t) true true 2 8 3 cursors (new_transport false).
End SendSample.
Import Stored.

Lemma framed_payload_decodes_witness :
  stored_contents [1; 7; 1; 8] `prefix_of` [7; 8] /\
  stored_contents ([1; 7; 1; 8] ++ []) = [7; 8].
Proof.
  destruct (framed_payload_decodes false _ _ 3 SendSample.drained_run) as [Hpre Hflush].
  - exact SendSample.unbroken.
  - split; [exact Hpre|].
    destruct (Hflush (SendSample.context SendSample.drained) false) as [_ Hall].
    { split_and!; by vm_compute. }
    apply (Hall 4%nat (SendSample.half SendSample.drained)). by vm_compute.
Defined.

Lemma write_stream_accepts_cursors_witness :
  (exists t' evs, SendSample.sent_cursors = Some (0, t') /\
    send_run (new_transport false) evs t' /\ accepted 3 evs = [7; 8]) /\
  exists least, forall fuel, (least <= fuel)%nat ->
    is_Some (rpc_http2_write_stream SendSample.session SendSample.lost true true 2 fuel 3
      [Cursor [7; 8] None] SendSample.drained).
Proof.
  split.
  - destruct SendSample.sent_cursors as [[r t']|] eqn:E; [|by vm_compute in E].
    destruct (proj1 (write_stream_accepts_cursors SendSample.session (fun t => t) true true false []
      3 SendSample.cursors (new_transport false) (send_run_nil _) (not_elem_of_nil _)
      (SendSample.alone 3)) 2%nat 8%nat r t' E) as (evs&Hrun&Hacc).
    assert (r = 0) as Hr by (by vm_compute in E; injection E).
    exists t', evs. rewrite Hr in *. split_and!; [done|done|]. exact (proj1 (Hacc eq_refl)).
  - apply (proj2 (write_stream_accepts_cursors SendSample.session SendSample.lost true true false
      SendSample.drained_events 3 [Cursor [7; 8] None] SendSample.drained SendSample.drained_run
      SendSample.unbroken (SendSample.lost_leaves 3))); intros t; by exists 1%nat.
Defined.

Lemma data_frame_bounds_witness :
  1 <= 3 <= Z.min (Z.min 3 100) (Z.min 16384 kH2MaxDataFrameBytes).
Proof.
  refine (proj1 (data_frame_bounds 3 3 100 16384 [0] SendSample.submitted true
    (DataFrame 3 [1; 7; 1] false)
    (session_frame (SessionData 3 3 100 16384 [0]) SendSample.submitted).2 _ _ _)).
  - by vm_compute.
  - vm_compute. lia.
  - lia.
Defined.
