(* ===== verification/LaneEnd.v ===== *)
(** A lane from end to end: the calls of a writer ([rpc_http2_write_stream]) and the flush of the
    write thread ([h2_flush_pending_locked]) at one end of an HTTP/2 connection, in either
    direction, against the readers at the other end. *)
From S2P Require Import Prelude H2State H2Receive H2Send.

Abbreviation out t id := (s_out (h2_get_stream t id)).

(** * What an encoder has put out *)

Section Output.
Context `{ZstdLaws}.

Lemma step_closed t e t' id :
  send_step t e t' -> closed (h2_get_stream t id) = true -> closed (h2_get_stream t' id) = true.
Proof.
  intros Hstep Hc. destruct Hstep as [? ? id' t _ _ _|fuel id' c data t r o _ _|fuel id' c finish t r o _ _
    |plan t ok frames t' Hp|id' t|t t' Hf].
  1, 2, 3: rewrite get_update_out; case_decide; by subst.
  - by rewrite (proj1 (session_send_spec _ _ _ _ _ Hp id)).
  - destruct (close_out id' t id) as [->|?]; done.
  - by rewrite (proj1 (Hf id)).
Qed.

Lemma run_closed t evs t' id :
  send_run t evs t' -> closed (h2_get_stream t' id) = false -> closed (h2_get_stream t id) = false.
Proof.
  induction 1 as [|t1 e t2 evs t3 Hstep _ IH]; [done|]. intros Hc. apply IH in Hc.
  destruct (closed (h2_get_stream t1 id)) eqn:E; [|done]. by rewrite (step_closed _ _ _ _ Hstep E) in Hc.
Qed.

(** Output is taken off only by frames. *)
Lemma output_grows evs t e t' id :
  out_inv id evs t -> send_step t e t' -> (Broken id ∉ evs ++ e) ->
  closed (h2_get_stream t' id) = false ->
  (framed id evs ++ backlog (out t id)) `prefix_of` (framed id (evs ++ e) ++ backlog (out t' id)).
Proof.
  intros Hinv Hstep Hb Hc.
  assert (Hc0 : closed (h2_get_stream t id) = false).
  { destruct (closed (h2_get_stream t id)) eqn:E; [|done]. by rewrite (step_closed _ _ _ _ Hstep E) in Hc. }
  assert (Hb0 : Broken id ∉ evs) by set_solver.
  destruct (out_open _ _ _ Hinv Hb0 Hc0) as [Hbuf Ha]. rewrite framed_app.
  destruct Hstep as [created configured id' t _ _ _|fuel id' c data t r o (_&Hs&Hf&He) Henc
    |fuel id' c finish t r o (_&Hs&Hf&He) Henc|plan t ok frames t' Hp|id' t|t t' Hfr].
  - rewrite app_nil_r. rewrite get_update_out. case_decide; subst; [|done]. simpl.
    unfold h2_start_encoder_locked. by repeat case_if.
  - assert (framed id [if r =? 0 then Accepted id' data else Broken id'] = []) as -> by (by destruct (r =? 0)).
    rewrite app_nil_r, get_update_out. case_decide; subst; [|done]. simpl.
    destruct (Z.eqb_spec r 0) as [->|]; [|set_solver]. rewrite Hs in Ha. destruct Ha as (c0&Hc1&_&_&_&Hok&_).
    assert (c0 = c) as -> by congruence.
    destruct (encode_spec _ _ _ _ _ _ Henc eq_refl Hbuf (Hok Hf)) as (_&c'&(_&_&_&(bs&_&->)&_)&_).
    apply prefix_app, prefix_app_r. done.
  - assert (framed id (if r =? 0 then [] else [Broken id']) = []) as -> by (by destruct (r =? 0)).
    rewrite app_nil_r, get_update_out. case_decide; subst; [|done]. simpl.
    destruct (Z.eqb_spec r 0) as [->|]; [|set_solver]. rewrite Hs in Ha. destruct Ha as (c0&Hc1&_&_&_&Hok&_).
    assert (c0 = c) as -> by congruence.
    destruct (terminal_spec _ _ _ _ _ _ Henc eq_refl Hbuf (Hok Hf _)) as (_&_&_&_&c'&(_&_&_&(bs&_&->)&_)&_).
    apply prefix_app, prefix_app_r. done.
  - destruct (session_send_spec _ _ _ _ _ Hp id) as (_&_&_&_&_&Hfr). destruct (Hfr Hbuf) as [_ ->].
    by rewrite framed_map, app_assoc.
  - rewrite app_nil_r. destruct (close_out id' t id) as [->|?]; [done|congruence].
  - rewrite app_nil_r. destruct (Hfr id) as (_&_&_&_&Hv&Hz&Hx). unfold backlog. by rewrite Hv, Hz, Hx.
Qed.

(** Once everything accepted can be decoded from the output it stays so. *)
Lemma all_out_run evs t e t' id :
  (forall i, out_inv i evs t) -> send_run t e t' -> (Broken id ∉ evs ++ e) ->
  closed (h2_get_stream t' id) = false -> accepted id e = [] ->
  contents (framed id evs ++ backlog (out t id)) = accepted id evs ->
  contents (framed id (evs ++ e) ++ backlog (out t' id)) = accepted id (evs ++ e).
Proof.
  intros Hinv Hrun. revert evs Hinv. induction Hrun as [t|t1 e t2 e' t3 Hstep Hrun IH]; intros evs Hinv Hb Hc Hacc Hall.
  { by rewrite app_nil_r. }
  rewrite accepted_app in Hacc. apply app_nil in Hacc as [Ha1 Ha2]. rewrite app_assoc in Hb |- *.
  assert (Hc2 := run_closed _ _ _ _ Hrun Hc). assert (Hb2 : Broken id ∉ evs ++ e) by set_solver.
  assert (Hinv2 := send_step_inv _ _ _ _ Hinv Hstep).
  apply IH; [done..|]. destruct (out_open _ _ _ (Hinv2 id) Hb2 Hc2) as [_ Hout].
  apply (anti_symm prefix).
  - destruct (encoder_started _).
    + destruct Hout as (c&_&<-&<-&Hp&_). done.
    + destruct Hout as (_&->&->&_). rewrite contents_nil. apply prefix_nil.
  - rewrite accepted_app, Ha1, app_nil_r, <- Hall.
    destruct (output_grows _ _ _ _ _ (Hinv id) Hstep Hb2 Hc2) as [k ->]. apply contents_mono.
Qed.
End Output.

(** * The queue of flushes *)

Section Queue.
Context `{ZstdLaws}.
Variable nghttp2 : h2_transport -> session_answer.
Variable others : h2_transport -> h2_transport.
Variable created configured : bool.

(** Streams that wait for a flush have an encoder, and those marked so are in the queue. *)
Definition queue_ok (t : h2_transport) : Prop :=
  (forall id, id ∈ flush_pending t -> encoder_started (out t id) = true) /\
  (forall id, flush_queued (out t id) = true -> id ∈ flush_pending t).

Definition same_queue (t t' : h2_transport) : Prop :=
  flush_pending t' = flush_pending t /\ forall id, flush_queued (out t' id) = flush_queued (out t id).

Lemma same_queue_trans t1 t2 t3 : same_queue t1 t2 -> same_queue t2 t3 -> same_queue t1 t3.
Proof. intros [H1 H2] [H3 H4]. split; [congruence|]. intros id. by rewrite H4. Qed.

Lemma same_queue_ok t evs t' : same_queue t t' -> send_run t evs t' -> queue_ok t -> queue_ok t'.
Proof.
  intros [Hp Hq] Hrun [H1 H2]. split; intros id; rewrite ?Hp, ?Hq; [|by auto].
  intros Hin. by eapply send_run_started; [|apply H1].
Qed.

Lemma update_same_queue id f t :
  flush_queued (f (out t id)) = flush_queued (out t id) -> same_queue t (update_out id f t).
Proof. intros Hf. split; [done|]. intros id'. rewrite get_update_out. case_decide; by subst. Qed.

Lemma session_frame_queue o t ok frames t' : session_frame o t = (ok, frames, t') -> same_queue t t'.
Proof.
  destruct o as [data|id sw stw mf hd]; simpl; [by intros [= <- <- <-]|].
  destruct (_ || _ || _); [by intros [= <- <- <-]|]. case_if; [by intros [= <- <- <-]|].
  unfold h2_data_source_read_callback, h2_send_data_callback. case_if; intros [= <- <- <-].
  { by apply update_same_queue. }
  eapply (same_queue_trans _ (update_out id (fun o => o) t)); [by apply update_same_queue|].
  match goal with |- same_queue ?t1 (update_out id ?f (h2_queue_output ?b ?t1)) =>
    apply (same_queue_trans _ (h2_queue_output b t1)); [done|] end.
  apply update_same_queue. unfold frame_encoded. by case_if.
Qed.

Lemma session_send_queue plan t ok frames t' : session_send plan t = (ok, frames, t') -> same_queue t t'.
Proof.
  revert t ok frames t'. induction plan as [|o plan IH]; intros t ok frames t' Hs; simpl in Hs; [by injection Hs as <- <- <-|].
  destruct (session_frame o t) as [[ok1 f1] t1] eqn:Ef. apply session_frame_queue in Ef.
  destruct ok1; [|by injection Hs as <- <- <-].
  destruct (session_send plan t1) as [[ok2 f2] t2] eqn:Er. injection Hs as <- <- <-.
  eapply same_queue_trans; [done|]. by eapply IH.
Qed.

Lemma pump_queue id t r frames t' : h2_pump_stream_locked nghttp2 id t = (r, frames, t') -> same_queue t t'.
Proof.
  unfold h2_pump_stream_locked, h2_flush_session_locked. intros Hp.
  assert (Hgo : forall t1, same_queue t t1 ->
    (let '(ok, fs, t2) := session_send (sends (nghttp2 t1)) t1 in
     (if ok && sent (nghttp2 t1) then 0 else -1, fs, t2)) = (r, frames, t') -> same_queue t t').
  { intros t1 Hq Hs. destruct (session_send _ t1) as [[ok fs] t2] eqn:Es. injection Hs as <- <- <-.
    eapply same_queue_trans; [done|]. by eapply session_send_queue. }
  repeat case_if_in Hp; try (by injection Hp as <- <- <-); (eapply Hgo; [|exact Hp]; first [done|by apply update_same_queue]).
Qed.

Lemma reserve_queued n o : flush_queued (h2_reserve_encoded n o) = flush_queued o.
Proof. unfold h2_reserve_encoded. by destruct (_ && _ && _); case_if. Qed.

Lemma encode_queued fuel c data o r o' :
  h2_encode_locked fuel c data o = Some (r, o') -> flush_queued o' = flush_queued o.
Proof.
  revert c data o. induction fuel as [|fuel IH]; intros c data o He; [done|]. simpl in He.
  rewrite <- (reserve_queued ZSTD_CStreamOutSize o).
  destruct (ZSTD_compressStream2 _ _ _ _) as [c1 [[[n bs] rem]|]]; [|by injection He as <- <-].
  case_bool_decide; [by injection He as <- <-|]. by rewrite (IH _ _ _ He).
Qed.

Lemma write_block_queue fuel id data t r t' :
  write_block nghttp2 fuel id data t = Some (r, t') -> same_queue t t'.
Proof.
  unfold write_block. destruct (encoder _) as [c|]; [|by intros [= <- <-]].
  destruct (h2_encode_locked _ _ _ _) as [[re o']|] eqn:Ee; [|done]. simpl.
  assert (same_queue t (update_out id (fun _ => o') t)) as Hq
    by (apply update_same_queue; by eapply encode_queued).
  case_if; [by intros [= <- <-]|]. case_if; [by intros [= <- <-]|].
  destruct (h2_pump_stream_locked _ _ _) as [[rp fs] t2] eqn:Ep. intros [= <- <-].
  eapply same_queue_trans; [done|]. by eapply pump_queue.
Qed.

Hypothesis others_queue : forall t, queue_ok t -> queue_ok (others t).

Lemma wait_queue fuel condition t t' :
  wait_while others fuel condition t = Some t' -> queue_ok t -> queue_ok t'.
Proof.
  revert t. induction fuel as [|fuel IH]; intros t Hw Hq; simpl in Hw; case_if_in Hw; simplify_eq; [done| |done].
  by apply (IH (others t)); [|apply others_queue].
Qed.

Variable id : Z.
Hypothesis others_leave : leave_lane others id.

(** A lane that can be written to, with its queue. *)
Definition writing (t : h2_transport) : Prop :=
  lane_ready id t /\ closed (h2_get_stream t id) = false /\ queue_ok t.

Lemma write_bytes_queue turns fuel data t r t' :
  write_bytes nghttp2 others turns fuel id data t = Some (r, t') -> writing t -> r = 0 -> writing t'.
Proof.
  revert data t. induction turns as [|turns IH]; intros data t Hw (Hr&Hc&Hq) ->; simpl in Hw; case_bool_decide; try done.
  1, 2: by injection Hw as <-.
  destruct (write_block _ _ _ _ _) as [[rb t1]|] eqn:Eb; [|done]. simpl in Hw.
  pose proof (write_block_queue _ _ _ _ _ _ Eb) as Hsq.
  assert ((rb = 0 \/ rb = -1) /\ wrote id (take kH2CompressionBlockBytes data) t rb t1) as [[-> | ->] Hw1]
    by (by eapply write_block_wrote); [|done]. simpl in Hw.
  destruct (wait_while _ _ (lane_congested id) t1) as [t2|] eqn:E2; [|done]. simpl in Hw.
  destruct (wait_while _ _ output_congested t2) as [t3|] eqn:E3; [|done]. simpl in Hw.
  case_if_in Hw; [done|]. apply (IH _ _ Hw); [|done]. split_and!; [|done|].
  - do 3 (eapply wrote_ready; [first [by eapply wait_wrote|done]|]). done.
  - eapply wait_queue; [done|]. eapply wait_queue; [done|]. destruct Hw1 as (evs&Hrun&_). by eapply same_queue_ok.
Qed.

Lemma write_refills_queue turns fuel answers t r t' :
  write_refills nghttp2 others turns fuel id answers t = Some (r, t') -> writing t -> r = 0 -> writing t'.
Proof.
  revert t. induction answers as [|[code bytes] answers IH]; intros t Hw (Hr&Hc&Hq) ->; simpl in Hw.
  all: assert (Hr' : lane_ready id (others t)) by (eapply wrote_ready; [by apply others_wrote|done]).
  all: pose proof (others_queue t Hq) as Hq'.
  - destruct (_ || _) eqn:E; [done|]. injection Hw as <-. by breflect.
  - destruct (_ || _ || _ || _ || _) eqn:E; [done|]. breflect. destruct (code =? 0); [by injection Hw as <-|].
    destruct (write_bytes _ _ _ _ _ _ _) as [[rb t1]|] eqn:Eb; [|done]. simpl in Hw.
    assert ((rb = 0 /\ closed (h2_get_stream t1 id) = false \/ rb = -1) /\ wrote id bytes (others t) rb t1)
      as [[[-> _] | ->] _] by (by eapply write_bytes_wrote); [|done]. simpl in Hw.
    apply (IH _ Hw); [|done]. by eapply write_bytes_queue.
Qed.

Lemma write_cursors_queue turns fuel cursors t r t' :
  write_cursors nghttp2 others turns fuel id cursors t = Some (r, t') -> writing t -> r = 0 -> writing t'.
Proof.
  revert t. induction cursors as [|c cursors IH]; intros t Hw Hwr ->; simpl in Hw; [by injection Hw as <-|].
  destruct (write_bytes _ _ _ _ _ _ _) as [[rb t1]|] eqn:Eb; [|done]. simpl in Hw.
  assert ((rb = 0 /\ closed (h2_get_stream t1 id) = false \/ rb = -1) /\ wrote id (cursor_bytes c) t rb t1)
    as [[[-> _] | ->] _] by (destruct Hwr as (?&?&?); by eapply write_bytes_wrote); [|done]. simpl in Hw.
  assert (Hwr1 : writing t1) by (by eapply write_bytes_queue). destruct (cursor_refill c) as [answers|]; simpl in Hw.
  - destruct (write_refills _ _ _ _ _ _ _) as [[rr t2]|] eqn:Er; [|done]. simpl in Hw.
    assert ((rr = 0 /\ closed (h2_get_stream t2 id) = false \/ rr = -1) /\ wrote id (refill_data answers) t1 rr t2)
      as [[[-> _] | ->] _] by (destruct Hwr1 as (?&?&?); by eapply write_refills_wrote); [|done]. simpl in Hw.
    apply (IH _ Hw); [|done]. by eapply write_refills_queue.
  - by apply (IH _ Hw).
Qed.

Lemma queue_flush_ok t : writing t -> queue_ok (queue_flush id t) /\ id ∈ flush_pending (queue_flush id t).
Proof.
  intros ([Hs _]&_&[H1 H2]). unfold queue_flush.
  case_if; [split; [done|by apply H2]|]. split; [|simpl; set_solver]. split; intros id'.
  - simpl. rewrite elem_of_app, list_elem_of_singleton. rewrite get_update_out. case_decide; [by subst|].
    change (h2_get_stream (set_flush_pending _ t) id') with (h2_get_stream t id'). intros [?|?]; [by auto|congruence].
  - simpl. rewrite elem_of_app, list_elem_of_singleton. rewrite get_update_out. case_decide; [by auto|].
    change (h2_get_stream (set_flush_pending _ t) id') with (h2_get_stream t id'). auto.
Qed.

Lemma write_stream_queued turns fuel cursors t t' :
  rpc_http2_write_stream nghttp2 others created configured turns fuel id cursors t = Some (0, t') ->
  queue_ok t ->
  queue_ok t' /\ (existsb cursor_pending cursors = true -> id ∈ flush_pending t' /\ lane_ready id t') /\
  (existsb cursor_pending cursors = false -> t' = t).
Proof.
  intros Hw Hq. unfold rpc_http2_write_stream in Hw. destruct (forallb _ cursors) eqn:Ea.
  { injection Hw as <-. split_and!; [done| |done]. intros (c&Hin&Hc)%existsb_exists.
    rewrite forallb_forall in Ea. specialize (Ea c Hin). by rewrite Hc in Ea. }
  assert (Hex : existsb cursor_pending cursors = true).
  { destruct (existsb _ _) eqn:E; [done|]. rewrite <- Ea. apply forallb_forall. intros c Hin.
    apply negb_true_iff. destruct (cursor_pending c) eqn:Ec; [|done].
    rewrite <- E. symmetry. apply existsb_exists. eauto. }
  rewrite Hex. unfold h2_write_stream_locked in Hw. destruct (ready_encoder _ _ _ _) as [r0 t0] eqn:E0.
  assert (Hsq : same_queue t t0).
  { unfold ready_encoder in E0. repeat case_if_in E0; try (injection E0 as _ <-; by apply update_same_queue).
    destruct (h2_start_encoder_locked _ _ _) as [rs o] eqn:Es. injection E0 as _ <-. apply update_same_queue.
    revert Es. unfold h2_start_encoder_locked. repeat case_if; by intros [= _ <-]. }
  destruct (ready_encoder_wrote _ _ _ _ _ _ E0) as ([-> | ->]&(evs&Hrun&_)&Hready); [|done]. simpl in Hw.
  destruct (Hready eq_refl). assert (Hwr : writing t0) by (split_and!; [done..|by eapply same_queue_ok]).
  destruct (write_cursors _ _ _ _ _ _ _) as [[rc t1]|] eqn:Ec; [|done]. simpl in Hw.
  assert ((rc = 0 \/ rc = -1) /\ wrote id (cursors ≫= cursor_data) t0 rc t1) as [[-> | ->] _]
    by (destruct Hwr as (?&?&?); by eapply write_cursors_wrote); [|done]. simpl in Hw. injection Hw as <-.
  assert (Hwr1 : writing t1) by (by eapply write_cursors_queue).
  destruct (queue_flush_ok t1 Hwr1). split_and!; [done| |done]. intros _. split; [done|].
  destruct Hwr1 as ([Hs Hf]&_&_). unfold queue_flush, lane_ready. case_if; [done|].
  rewrite get_update_out, decide_True by done. done.
Qed.

(** ** The writes of a lane, one after the other, all of which return 0 *)

Fixpoint write_all (turns fuel : nat) (ws : list (list write_cursor)) (t : h2_transport) : option h2_transport :=
  match ws with
  | [] => Some t
  | w :: ws =>
      '(r, t) ← rpc_http2_write_stream nghttp2 others created configured turns fuel id w t;
      if r =? 0 then write_all turns fuel ws t else None
  end.

Definition written_data (ws : list (list write_cursor)) : list byte := ws ≫= fun w => w ≫= cursor_data.

Lemma write_all_run turns fuel ws t t' :
  write_all turns fuel ws t = Some t' -> queue_ok t ->
  exists evs, send_run t evs t' /\ accepted id evs = written_data ws /\ (Broken id ∉ evs) /\ queue_ok t' /\
    (id ∈ flush_pending t /\ lane_ready id t \/ existsb (existsb cursor_pending) ws = true ->
     id ∈ flush_pending t' /\ lane_ready id t').
Proof.
  revert t. induction ws as [|w ws IH]; intros t Hw Hq; simpl in Hw.
  { injection Hw as <-. exists []. split_and!; [constructor|done|apply not_elem_of_nil|done|]. by intros [?|?]. }
  destruct (rpc_http2_write_stream _ _ _ _ _ _ _ _ _) as [[r t1]|] eqn:E1; [|done]. simpl in Hw.
  case_if_in Hw; [|done]. subst r.
  assert (wrote id (w ≫= cursor_data) t 0 t1) as (e1&Hr1&_&Ha1) by (by eapply write_stream_wrote).
  destruct (Ha1 eq_refl) as [Ha1' Hb1]. destruct (write_stream_queued _ _ _ _ _ E1 Hq) as (Hq1&Hp1&Hsame).
  destruct (IH _ Hw Hq1) as (e2&Hr2&Ha2&Hb2&Hq2&Hp2). exists (e1 ++ e2). split_and!.
  - by eapply send_run_trans.
  - rewrite accepted_app, Ha1', Ha2. done.
  - set_solver.
  - done.
  - intros Hor. apply Hp2. simpl in Hor. destruct (existsb cursor_pending w) eqn:Ew; [by left; apply Hp1|].
    rewrite (Hsame eq_refl). destruct Hor as [?|?]; [by left|by right].
Qed.

(** ** The flush of the write thread *)

Lemma finish_or_flush_out fuel i t r t' :
  finish_or_flush nghttp2 fuel false i t = Some (r, t') -> (r <? 0) = false ->
  closed (h2_get_stream t i) = false -> lane_ready i t ->
  exists evs, send_run t evs t' /\ (forall i', accepted i' evs = []) /\ (forall i', Broken i' ∉ evs) /\
    (forall j, lane_ready j t -> lane_ready j t') /\
    forall evs0, (forall j, out_inv j evs0 t) -> (Broken i ∉ evs0) -> closed (h2_get_stream t' i) = false ->
      contents (framed i (evs0 ++ evs) ++ backlog (out t' i)) = accepted i (evs0 ++ evs).
Proof.
  unfold finish_or_flush. intros Hw Hr Hc [Hs Hf].
  destruct (encoder _) as [c|] eqn:Ee; [|injection Hw as <- <-; done].
  destruct (h2_encode_terminal_locked _ _ _ _) as [[re o']|] eqn:Et; [|done]. simpl in Hw.
  set (t1 := update_out i (fun _ => o') t) in *.
  destruct (terminal_flags _ _ _ _ _ _ Et) as (Hs1&Hf1&[-> | ->]); simpl in Hw; [|by injection Hw as <- <-].
  assert (Hstep : send_step t [] t1) by (by apply (send_terminal fuel i c false t 0)).
  destruct (h2_pump_stream_locked _ i t1) as [[rp fs] t2] eqn:Ep. injection Hw as <- <-.
  destruct (pump_run _ _ _ _ _ _ Ep) as (evs&Hrun&Hacc&Hbr).
  assert (Hready : forall j, wrote j [] t1 0 t2) by (intros j; by eapply pump_wrote).
  exists evs. split_and!; [|done|done| |].
  - eapply (send_run_step _ []); [exact Hstep|done].
  - intros j Hj. eapply wrote_ready; [apply Hready|]. unfold t1, lane_ready. rewrite get_update_out.
    case_decide; [subst j|done]. simpl. by rewrite Hs1, Hf1.
  - intros evs0 Hinv Hb Hc2.
    assert (Hinv1 : forall j, out_inv j (evs0 ++ []) t1) by (by apply (send_step_inv evs0 t)).
    setoid_rewrite app_nil_r in Hinv1. apply (all_out_run evs0 t1); [done..| |done|done|].
    + rewrite elem_of_app. specialize (Hbr i). tauto.
    + unfold t1. rewrite get_update_out, decide_True by done. simpl.
      destruct (out_open _ _ _ (Hinv i) Hb Hc) as [Hbuf Ha].
      by apply (terminal_accounts fuel c false (accepted i evs0) (framed i evs0) (out t i) o').
Qed.

Lemma flush_streams_failed fuel ids t r t' : flush_streams nghttp2 fuel ids (-1) t = Some (r, t') -> r = -1.
Proof.
  revert t. induction ids as [|i ids IH]; intros t Hf; simpl in Hf; [by injection Hf as <-|]. case_if_in Hf; [by eapply IH|].
  destruct (finish_or_flush _ _ _ _ _) as [[rf t2]|]; [|done]. simpl in Hf. case_if_in Hf; by eapply IH.
Qed.

(** A flush that succeeds has put out all that a stream in the queue has accepted. *)
Lemma flush_streams_out fuel ids result t t' :
  flush_streams nghttp2 fuel ids result t = Some (0, t') ->
  (forall i, i ∈ ids -> encoder_started (out t i) = true) ->
  exists evs, send_run t evs t' /\ (forall i, accepted i evs = []) /\ (forall i, Broken i ∉ evs) /\
    forall evs0, (forall j, out_inv j evs0 t) -> id ∈ ids -> lane_ready id t ->
      (Broken id ∉ evs0) -> closed (h2_get_stream t' id) = false ->
      contents (framed id (evs0 ++ evs) ++ backlog (out t' id)) = accepted id (evs0 ++ evs).
Proof.
  revert result t. induction ids as [|i ids IH]; intros result t Hf Hst; simpl in Hf.
  { injection Hf as _ <-. exists []. split_and!; [constructor|done|intros; apply not_elem_of_nil|].
    intros evs0 _ Hin. by apply not_elem_of_nil in Hin. }
  set (t1 := update_out i (set_flush_queued false) t) in *.
  assert (Hq : send_step t [] t1) by (by apply send_other, update_quiet).
  assert (Hready1 : forall j, lane_ready j t -> lane_ready j t1).
  { intros j. unfold lane_ready, t1. rewrite get_update_out. case_decide; [subst j|]; done. }
  assert (Hinv1 : forall evs0, (forall j, out_inv j evs0 t) -> forall j, out_inv j evs0 t1).
  { intros evs0 Hinv j. rewrite <- (app_nil_r evs0). by apply (send_step_inv evs0 t). }
  assert (Hst1 : forall j, encoder_started (out t j) = true -> encoder_started (out t1 j) = true)
    by (intros j; eapply send_run_started; by apply send_run_one).
  destruct (closed (h2_get_stream t1 i) || _) eqn:Ec.
  - destruct (IH _ _ Hf) as (evs&Hrun&Hacc&Hbr&Hout); [intros; apply Hst1, Hst; by right|].
    exists evs. split_and!; [by apply (send_run_step _ [] t1)|done..|]. intros evs0 Hinv Hin Hr Hb Hc.
    apply Hout; auto. apply elem_of_cons in Hin as [->|?]; [|done].
    exfalso. rewrite (run_closed _ _ _ _ Hrun Hc), (proj2 (Hready1 _ Hr)) in Ec. done.
  - apply orb_false_iff in Ec as [Hc1 Hf1].
    destruct (finish_or_flush _ _ _ _ _) as [[rf t2]|] eqn:Ef; [|done]. simpl in Hf.
    case_if_in Hf; [by apply flush_streams_failed in Hf|].
    destruct (finish_or_flush_out _ _ _ _ _ Ef) as (e1&Hr1&Ha1&Hb1&Hl1&Ho1); [lia|done| |].
    { split; [|done]. apply Hst1, Hst. by left. }
    destruct (IH _ _ Hf) as (e2&Hr2&Ha2&Hb2&Ho2).
    { intros j Hin. eapply send_run_started; [done|]. apply Hst1, Hst. by right. }
    exists (e1 ++ e2). split_and!.
    + apply (send_run_step _ [] t1); [done|]. by eapply send_run_trans.
    + intros j. by rewrite accepted_app, Ha1, Ha2.
    + intros j. rewrite elem_of_app. specialize (Hb1 j). specialize (Hb2 j). tauto.
    + intros evs0 Hinv Hin Hr Hb Hc. rewrite app_assoc. specialize (Hinv1 _ Hinv).
      assert (Hinv2 : forall j, out_inv j (evs0 ++ e1) t2) by (by apply (send_run_inv evs0 t1)).
      assert (Hb' : Broken id ∉ evs0 ++ e1) by (rewrite elem_of_app; specialize (Hb1 id); tauto).
      apply elem_of_cons in Hin as [<-|Hin]; [|by apply Ho2; auto].
      apply (all_out_run (evs0 ++ e1) t2); [done..| |done|done|].
      * rewrite elem_of_app. specialize (Hb2 id). tauto.
      * apply Ho1; [done..|]. by eapply run_closed.
Qed.

Lemma flush_pending_out fuel t t' :
  h2_flush_pending_locked nghttp2 fuel t = Some (0, t') ->
  (forall i, i ∈ flush_pending t -> encoder_started (out t i) = true) ->
  exists evs, send_run t evs t' /\ (forall i, accepted i evs = []) /\ (forall i, Broken i ∉ evs) /\
    forall evs0, (forall j, out_inv j evs0 t) -> id ∈ flush_pending t -> lane_ready id t ->
      (Broken id ∉ evs0) -> closed (h2_get_stream t' id) = false ->
      contents (framed id (evs0 ++ evs) ++ backlog (out t' id)) = accepted id (evs0 ++ evs).
Proof.
  unfold h2_flush_pending_locked. intros Hf Hst.
  destruct (flush_streams _ _ _ _ _) as [[rf t1]|] eqn:Ef; [|done]. injection Hf as -> <-.
  destruct (flush_streams_out _ _ _ _ _ Ef Hst) as (evs&Hrun&Hacc&Hbr&Hout).
  exists evs. split_and!; [|done..]. rewrite <- (app_nil_r evs).
  eapply send_run_trans; [done|]. by apply send_run_one, send_other.
Qed.

Lemma written_nothing ws : existsb (existsb cursor_pending) ws = false -> written_data ws = [].
Proof.
  unfold written_data. induction ws as [|w ws IH]; [done|]. simpl. intros [Hw Hws]%orb_false_iff.
  change ((w ≫= cursor_data) ++ (ws ≫= fun w => w ≫= cursor_data) = []). rewrite (IH Hws), app_nil_r. clear IH Hws.
  induction w as [|c w IH]; [done|]. simpl in Hw. apply orb_false_iff in Hw as [Hc Hw].
  change (cursor_data c ++ (w ≫= cursor_data) = []). rewrite (IH Hw), app_nil_r.
  unfold cursor_pending in Hc. unfold cursor_data. apply orb_false_iff in Hc as [Hc1 Hc2].
  apply negb_false_iff, bool_decide_eq_true_1 in Hc1 as ->. apply bool_decide_eq_false_1 in Hc2.
  destruct (cursor_refill c); [by destruct Hc2|done].
Qed.
End Queue.

(** C10: a lane end to end.  At one end of a connection, client or server, a lane [id] that has not been written to is
    written to by any sequence of calls of [rpc_http2_write_stream] that return 0, while other threads do
    what they like with the other lanes; the write thread flushes; and whatever happens then, no more
    is written to the lane and the session sends its backlog.  Then what the readers at the other end
    get of the lane, as long as what arrives is a prefix of what was framed, is a prefix of the bytes of
    the cursors and of their refills; and when all has arrived, what they got and what waits for
    them is exactly these bytes. *)
Theorem lane_end_to_end `{ZstdLaws} nghttp2 others created configured id is_server evs0 t0 turns fuel ws t1 t2 evs t3 :
  (forall t, queue_ok t -> queue_ok (others t)) -> leave_lane others id ->
  send_run (new_transport is_server) evs0 t0 -> queue_ok t0 -> accepted id evs0 = [] -> (Broken id ∉ evs0) ->
  write_all nghttp2 others created configured id turns fuel ws t0 = Some t1 ->
  h2_flush_pending_locked nghttp2 fuel t1 = Some (0, t2) ->
  send_run t2 evs t3 -> accepted id evs = [] -> (Broken id ∉ evs) ->
  closed (h2_get_stream t3 id) = false -> backlog (out t3 id) = [] ->
  exists sent, send_run (new_transport is_server) sent t3 /\ (Broken id ∉ sent) /\
    forall tr tc, recv_run (negb is_server) tr tc ->
      (received id tr `prefix_of` framed id sent -> handed id tr `prefix_of` written_data ws) /\
      (received id tr = framed id sent -> closed (h2_get_stream tc id) = false -> transport_failed tc = false ->
       handed id tr ++ unread (s_in (h2_get_stream tc id)) = written_data ws).
Proof.
  intros Hoq Hl Hr0 Hq0 Ha0 Hb0 Hw Hf H3 Ha3 Hb3 Hc3 Hbk.
  destruct (write_all_run _ _ _ _ Hoq _ Hl _ _ _ _ _ Hw Hq0) as (e1&Hr1&Ha1&Hb1&Hq1&Hp1).
  destruct (flush_pending_out _ _ _ Hl _ _ _ Hf (proj1 Hq1)) as (e2&Hr2&Ha2&Hb2&Ho2).
  assert (Hb : Broken id ∉ (evs0 ++ e1) ++ e2) by (rewrite !elem_of_app; specialize (Hb2 id); tauto).
  assert (Hrun : send_run (new_transport is_server) ((evs0 ++ e1) ++ e2) t2)
    by (eapply send_run_trans; [by eapply send_run_trans|done]).
  assert (Hacc : accepted id (((evs0 ++ e1) ++ e2) ++ evs) = written_data ws)
    by (by rewrite !accepted_app, Ha0, Ha1, Ha2, Ha3, !app_nil_r).
  assert (Hbs : Broken id ∉ ((evs0 ++ e1) ++ e2) ++ evs) by (rewrite elem_of_app; tauto).
  assert (Hsent : send_run (new_transport is_server) (((evs0 ++ e1) ++ e2) ++ evs) t3) by (by eapply send_run_trans).
  assert (Hall : contents (framed id (((evs0 ++ e1) ++ e2) ++ evs)) = written_data ws).
  { destruct (existsb (existsb cursor_pending) ws) eqn:Ew.
    - destruct (Hp1 (or_intror eq_refl)) as [Hin Hready].
      rewrite <- Hacc, <- (app_nil_r (framed id _)), <- Hbk. apply (all_out_run _ t2); [by eapply reachable_inv|done..|].
      apply Ho2; [|done|done| |by eapply run_closed].
      + by apply (reachable_inv is_server), (send_run_trans _ evs0 t0).
      + rewrite elem_of_app. tauto.
    - pose proof (out_prefix _ _ _ (reachable_inv _ _ _ Hsent id) Hbs) as Hp. rewrite Hacc, (written_nothing _ Ew) in *.
      by apply prefix_nil_inv in Hp. }
  eexists. split_and!; [exact Hsent|done|]. intros tr tc Hr. destruct (run_keeps_inv _ _ _ Hr) as [_ Hk].
  destruct (Hk id) as [_ Hpre Hopen]. split.
  - intros [k Hk']. transitivity (contents (received id tr)); [etrans; [|exact Hpre]; by eexists|].
    rewrite <- Hall, Hk'. apply contents_mono.
  - intros Heq Hc Hf'. destruct (Hopen Hc Hf') as [-> _]. by rewrite Heq.
Qed.

(** * A run

    Two bytes are written by a client, from a cursor and its refill, and flushed; a server reads them. *)
Import Stored.

Definition sample_writes : list (list write_cursor) := [SendSample.cursors].

Definition sample_written : h2_transport :=
  default (new_transport false)
    (write_all SendSample.session (fun t => t) true true 3 4 16 sample_writes (new_transport false)).

Definition sample_flushed : h2_transport :=
  match h2_flush_pending_locked SendSample.session 16 sample_written with Some (_, t) => t | None => sample_written end.

Lemma sample_framed sent :
  send_run (new_transport false) sent sample_flushed -> (Broken 3 ∉ sent) -> framed 3 sent = [1; 7; 1; 8].
Proof.
  intros Hr Hb. destruct (out_open _ _ _ (reachable_inv _ _ _ Hr 3) Hb) as [_ Ha]; [by vm_compute|].
  assert (encoder_started (out sample_flushed 3) = true) as Hs by (by vm_compute). rewrite Hs in Ha.
  destruct Ha as (c&Hc&_&Ho&_). assert (backlog (out sample_flushed 3) = []) as Hbk by (by vm_compute).
  rewrite Hbk, app_nil_r in Ho. rewrite <- Ho. vm_compute in Hc. injection Hc as <-. by vm_compute.
Qed.

Lemma lane_end_to_end_witness :
  [] ++ unread (s_in (h2_get_stream SendSample.arrived 3)) = [7; 8] /\ written_data sample_writes = [7; 8].
Proof.
  destruct (lane_end_to_end SendSample.session (fun t => t) true true 3 false [] (new_transport false) 4 16
    sample_writes sample_written sample_flushed [] sample_flushed) as (sent&Hs&Hb&Hrecv).
  - intros t Hq. exact Hq.
  - exact (SendSample.alone 3).
  - constructor.
  - split; intros i Hi; [by apply not_elem_of_nil in Hi|]. by unfold h2_get_stream in Hi.
  - reflexivity.
  - apply not_elem_of_nil.
  - by vm_compute.
  - by vm_compute.
  - constructor.
  - reflexivity.
  - apply not_elem_of_nil.
  - by vm_compute.
  - by vm_compute.
  - split; [|by vm_compute].
    refine (proj2 (Hrecv SendSample.arrived_events SendSample.arrived SendSample.arrived_run) _ _ _).
    + rewrite (sample_framed sent Hs Hb). by vm_compute.
    + by vm_compute.
    + by vm_compute.
Defined.
