(* ===== verification/H2Handoff.v ===== *)
(** The write thread and the process-handoff controls of [h2.cpp].  A control
    frame outside the HTTP/2 session marks a barrier in the output: the writer
    sends everything up to the barrier on the old socket, then pauses, and what is
    produced meanwhile waits for the replacement.  The theorems show that a
    control frame arrives as it was sent, and that the output is cut exactly
    behind the barrier, with nothing lost or sent twice. *)
From S2P Require Import Prelude VisibleDevices H2State H2Receive H2Send.

Definition LUPINE_HANDOFF_CONTROL_FRAME : Z := 0xf0.
Definition LUPINE_HANDOFF_DRAIN_REQUEST : Z := 0x4c504d02.
Definition LUPINE_INVALID_SOCKET : Z := -1.

(** The fields of [h2_transport] that the writer and the handoff use. *)
Record h2_control := Control {
  netfd : Z;
  write_stop : bool;
  write_busy : bool;
  writer_paused : bool;
  pause_after_bytes : nat;
  read_stop : bool;
  checkpoint_pending : bool;
  socket_parked : bool;
  requests_paused : bool;
  freeze_checkpoint : list Z;
  control_payload : list Z;
  process_controls : list (Z * list Z);
  resumed_calls : nat;
}.

Definition new_control (fd : Z) : h2_control :=
  Control fd false false false 0 false false false false [] [] [] 0.

Definition set_pause (paused : bool) (after : nat) (c : h2_control) : h2_control :=
  Control (netfd c) (write_stop c) (write_busy c) paused after (read_stop c)
    (checkpoint_pending c) (socket_parked c) (requests_paused c) (freeze_checkpoint c)
    (control_payload c) (process_controls c) (resumed_calls c).

Definition set_busy (busy : bool) (c : h2_control) : h2_control :=
  Control (netfd c) (write_stop c) busy (writer_paused c) (pause_after_bytes c) (read_stop c)
    (checkpoint_pending c) (socket_parked c) (requests_paused c) (freeze_checkpoint c)
    (control_payload c) (process_controls c) (resumed_calls c).

Definition set_parked (fd : Z) (pending parked : bool) (c : h2_control) : h2_control :=
  Control fd (write_stop c) (write_busy c) (writer_paused c) (pause_after_bytes c) (read_stop c)
    pending parked (requests_paused c) (freeze_checkpoint c) (control_payload c)
    (process_controls c) (resumed_calls c).

Definition set_payload (payload : list Z) (c : h2_control) : h2_control :=
  Control (netfd c) (write_stop c) (write_busy c) (writer_paused c) (pause_after_bytes c)
    (read_stop c) (checkpoint_pending c) (socket_parked c) (requests_paused c)
    (freeze_checkpoint c) payload (process_controls c) (resumed_calls c).

Definition set_freeze (checkpoint : list Z) (c : h2_control) : h2_control :=
  Control (netfd c) (write_stop c) (write_busy c) (writer_paused c) (pause_after_bytes c)
    (read_stop c) (checkpoint_pending c) (socket_parked c) (requests_paused c) checkpoint
    (control_payload c) (process_controls c) (resumed_calls c).

Definition set_controls (controls : list (Z * list Z)) (c : h2_control) : h2_control :=
  Control (netfd c) (write_stop c) (write_busy c) (writer_paused c) (pause_after_bytes c)
    (read_stop c) (checkpoint_pending c) (socket_parked c) (requests_paused c)
    (freeze_checkpoint c) (control_payload c) controls (resumed_calls c).

Definition set_requests_paused (paused : bool) (c : h2_control) : h2_control :=
  Control (netfd c) (write_stop c) (write_busy c) (writer_paused c) (pause_after_bytes c)
    (read_stop c) (checkpoint_pending c) (socket_parked c) paused (freeze_checkpoint c)
    (control_payload c) (process_controls c) (resumed_calls c).

Section Handoff.
Context `{Zstd}.

Definition set_outbound (bytes : list byte) (t : h2_transport) : h2_transport :=
  H2Transport (server t) (dispatch_stream_id t) (streams t) (incoming_streams t)
    (local_lanes t) (buffer_pool t) (buffer_pool_bytes t) bytes (flush_pending t)
    (write_failed t) (transport_failed t).

Definition set_write_failed (t : h2_transport) : h2_transport :=
  H2Transport (server t) (dispatch_stream_id t) (streams t) (incoming_streams t)
    (local_lanes t) (buffer_pool t) (buffer_pool_bytes t) (outbound t) (flush_pending t)
    true (transport_failed t).

(** * Control frames *)

(** The frame's header and first payload byte, as the array of the code. *)
Definition control_frame (command : Z) (checkpoint : list Z) : list byte :=
  let length := Z.of_nat (length checkpoint + 1) in
  [0; Z.shiftr length 8 mod 256; length mod 256; LUPINE_HANDOFF_CONTROL_FRAME;
   0; 0; 0; 0; 0; command] ++ checkpoint.

Definition h2_queue_process_control_locked (command : Z) (checkpoint : list Z) (pause : bool)
    (t : h2_transport) (c : h2_control) : h2_transport * h2_control :=
  let t := set_outbound (outbound t ++ control_frame command checkpoint) t in
  (t, if pause then set_pause (writer_paused c) (length (outbound t)) c else c).

(** The extension callback: a piece of the payload of a frame with this header. *)
Definition on_extension_chunk (stream_id flags length : Z) (data : list byte) (c : h2_control)
    : Z * h2_control :=
  if negb (stream_id =? 0) || negb (flags =? 0) || (512 <? length)
     || (length <? Z.of_nat (List.length (control_payload c)) + Z.of_nat (List.length data))
  then (NGHTTP2_ERR_CALLBACK_FAILURE, c)
  else (0, set_payload (control_payload c ++ data) c).

Definition ch_A : Z := 65.
Definition ch_B : Z := 66.
Definition ch_C : Z := 67.
Definition ch_D : Z := 68.
Definition ch_F : Z := 70.
Definition ch_P : Z := 80.
Definition ch_R : Z := 82.
Definition ch_S : Z := 83.
Definition ch_X : Z := 88.

(** The whole control frame has arrived.  [resumes] says whether a callback for
    the resume of the process is registered. *)
Definition on_control_frame (is_server resumes : bool) (c : h2_control) : Z * h2_control :=
  match control_payload c with
  | [] => (NGHTTP2_ERR_CALLBACK_FAILURE, c)
  | command :: checkpoint =>
      let c := set_payload [] c in
      if is_server then
        if (command =? ch_S) && bool_decide (freeze_checkpoint c = [])
        then (0, set_freeze checkpoint c)
        else if negb (command =? ch_R) then (NGHTTP2_ERR_CALLBACK_FAILURE, c)
        else
          let c := set_pause false (pause_after_bytes c) c in
          (0, if resumes
              then Control (netfd c) (write_stop c) (write_busy c) (writer_paused c)
                     (pause_after_bytes c) (read_stop c) (checkpoint_pending c) (socket_parked c)
                     (requests_paused c) (freeze_checkpoint c) (control_payload c)
                     (process_controls c) (S (resumed_calls c))
              else c)
      else
        let deliver c := (0, set_controls (process_controls c ++ [(command, checkpoint)]) c) in
        if (command =? ch_P) && negb (checkpoint_pending c)
        then deliver (set_parked (netfd c) true (socket_parked c) c)
        else if (command =? ch_C) && checkpoint_pending c
        then deliver (set_parked (netfd c) true true c)
        else if (command =? ch_F) && checkpoint_pending c then deliver c
        else if (command =? ch_X) && checkpoint_pending c
        then deliver (set_pause false (pause_after_bytes c)
                        (set_parked (netfd c) false (socket_parked c) c))
        else (NGHTTP2_ERR_CALLBACK_FAILURE, c)
  end.

(** * The write thread *)

Inductive writer_turn :=
  | WriterWaits
  | WriterStops
  | WriterIdle (t : h2_transport) (c : h2_control)
  | WriterWrites (chunk : list byte) (t : h2_transport) (c : h2_control)
  | WriterFails (t : h2_transport).

(** The part of a turn that moves output into the chunk. *)
Definition take_chunk (t : h2_transport) (c : h2_control)
    : list byte * h2_transport * h2_control :=
  if negb (pause_after_bytes c =? 0)%nat then
    (take (pause_after_bytes c) (outbound t),
     set_outbound (drop (pause_after_bytes c) (outbound t)) t,
     set_pause true 0 (set_busy true c))
  else (outbound t, set_outbound [] t, set_busy true c).

(** One turn of [h2_write_main] up to the write, which runs without the mutex.
    The answer is [None] when the flush runs out of fuel. *)
Definition h2_write_main_turn (nghttp2 : h2_transport -> session_answer) (fuel : nat)
    (t : h2_transport) (c : h2_control) : option writer_turn :=
  if writer_paused c && negb (write_stop c) then Some WriterWaits
  else if bool_decide (outbound t = []) && bool_decide (flush_pending t = [])
          && negb (write_stop c) then Some WriterWaits
  else if write_stop c then Some WriterStops
  else
    '(result, t) ← h2_flush_pending_locked nghttp2 fuel t;
    Some (if result =? 0 then
            if bool_decide (outbound t = []) then WriterIdle t c
            else let '(chunk, t, c) := take_chunk t c in WriterWrites chunk t c
          else WriterFails (h2_fail_transport_locked (set_write_failed t))).

(** After the write; [written] is whether the socket took the whole chunk. *)
Definition h2_write_main_done (written : bool) (t : h2_transport) (c : h2_control)
    : h2_transport * h2_control :=
  (if written then t else h2_fail_transport_locked (set_write_failed t), set_busy false c).

(** [h2_drain_output_locked] may return. *)
Definition output_drained (t : h2_transport) (c : h2_control) : bool :=
  (bool_decide (outbound t = []) && bool_decide (flush_pending t = []) && negb (write_busy c))
  || write_failed t.

(** * Handoff operations *)

(** The barrier is on the wire. *)
Definition barrier_passed (t : h2_transport) (c : h2_control) : bool :=
  (writer_paused c && negb (write_busy c) && (pause_after_bytes c =? 0)%nat) || write_failed t.

(** [lupine_handoff_send_control] up to its wait: the failure of the flush, or the
    state in which it waits for the barrier ('A') or for the drain. *)
Definition send_control_begin (nghttp2 : h2_transport -> session_answer) (fuel : nat)
    (command : Z) (checkpoint : list Z) (t : h2_transport) (c : h2_control)
    : option (Z * h2_transport * h2_control) :=
  if (511 <? Z.of_nat (length checkpoint)) then Some (-1, t, c)
  else
    '(result, t) ← h2_flush_pending_locked nghttp2 fuel t;
    Some (if (result =? 0) && negb (transport_failed t) then
            let '(t, c) := h2_queue_process_control_locked command checkpoint (command =? ch_A) t c in
            (0, t, c)
          else (-1, t, c)).

(** The end of its wait; [None] while it goes on. *)
Definition send_control_end (command : Z) (t : h2_transport) (c : h2_control) : option Z :=
  if if command =? ch_A then barrier_passed t c else output_drained t c
  then Some (if write_failed t then -1 else 0) else None.

Definition lupine_handoff_receive_control (t : h2_transport) (c : h2_control)
    : option (option (Z * list Z) * h2_control) :=
  if bool_decide (process_controls c = []) && negb (transport_failed t) then None
  else
    match process_controls c with
    | control :: rest =>
        if transport_failed t then Some (None, c) else Some (Some control, set_controls rest c)
    | [] => Some (None, c)
    end.

Definition lupine_handoff_park_socket (t : h2_transport) (c : h2_control)
    : option (Z * h2_control) :=
  if (negb (socket_parked c) || write_busy c) && negb (transport_failed t) then None
  else Some (if transport_failed t then -1 else 0,
             set_parked LUPINE_INVALID_SOCKET (checkpoint_pending c) (socket_parked c) c).

Definition lupine_handoff_resume_socket (connfd : Z) (t : h2_transport) (c : h2_control)
    : Z * h2_control :=
  if transport_failed t then (-1, c)
  else (0, set_pause false (pause_after_bytes c) (set_parked connfd false false c)).

Definition lupine_handoff_pause_requests (conn_closed : bool) (c : h2_control)
    : Z * h2_control := (if conn_closed then -1 else 0, set_requests_paused true c).

Definition lupine_handoff_resume_requests (c : h2_control) : h2_control :=
  set_requests_paused false c.

(** Whether a request may start: [Some 0], not any more, or it waits. *)
Definition lupine_handoff_request_begin (async_cancelled : bool) (op : Z) (callback : bool)
    (t : h2_transport) (c : h2_control) : option Z :=
  if server t || callback || (op =? LUPINE_HANDOFF_DRAIN_REQUEST) then Some 0
  else if negb (requests_paused c) then Some 0
  else if async_cancelled then Some (-1) else None.

(** What [h2_read_main] does after a batch of frames of a server: a freeze
    request becomes the barrier. *)
Definition read_main_freeze (nghttp2 : h2_transport -> session_answer) (fuel : nat)
    (t : h2_transport) (c : h2_control) : option (h2_transport * h2_control) :=
  if bool_decide (freeze_checkpoint c = []) then Some (t, c)
  else
    '(result, t) ← h2_flush_pending_locked nghttp2 fuel t;
    Some (if result <? 0 then (h2_fail_transport_locked t, c)
          else
            let '(t, c) := h2_queue_process_control_locked ch_B (freeze_checkpoint c) true t c in
            (t, set_freeze [] c)).

(** * Output only grows at its end *)

Definition appends (t t' : h2_transport) : Prop :=
  exists bs, outbound t' = outbound t ++ bs.

Lemma appends_refl t t' : outbound t' = outbound t -> appends t t'.
Proof. intros Heq. exists []. by rewrite Heq, app_nil_r. Qed.

Lemma appends_trans t1 t2 t3 : appends t1 t2 -> appends t2 t3 -> appends t1 t3.
Proof. intros [a Ha] [b Hb]. exists (a ++ b). by rewrite Hb, Ha, app_assoc. Qed.

Lemma session_frame_appends out t ok frames t' :
  session_frame out t = (ok, frames, t') -> appends t t'.
Proof.
  destruct out as [data|id sw stw mf hd]; simpl; [intros [= <- <- <-]; by eexists|].
  repeat case_if; try (intros [= <- <- <-]; by apply appends_refl).
  unfold h2_data_source_read_callback. case_if; intros [= <- <- <-]; [by apply appends_refl|].
  eexists. simpl. done.
Qed.

Lemma session_send_appends plan t ok frames t' :
  session_send plan t = (ok, frames, t') -> appends t t'.
Proof.
  revert t ok frames t'. induction plan as [|out plan IH]; intros t ok frames t' Hs; simpl in Hs.
  { injection Hs as <- <- <-. by apply appends_refl. }
  destruct (session_frame out t) as [[ok1 f1] t1] eqn:Ef. apply session_frame_appends in Ef.
  destruct ok1; [|by injection Hs as <- <- <-].
  destruct (session_send plan t1) as [[ok2 f2] t2] eqn:Er. injection Hs as <- <- <-.
  eapply appends_trans; [done|]. by eapply IH.
Qed.

Lemma flush_session_appends nghttp2 t r frames t' :
  h2_flush_session_locked nghttp2 t = (r, frames, t') -> appends t t'.
Proof.
  unfold h2_flush_session_locked. destruct (session_send _ t) as [[ok fs] t1] eqn:Es.
  intros [= <- <- <-]. by eapply session_send_appends.
Qed.

Lemma pump_appends nghttp2 id t r frames t' :
  h2_pump_stream_locked nghttp2 id t = (r, frames, t') -> appends t t'.
Proof.
  unfold h2_pump_stream_locked. intros Hp.
  repeat case_if_in Hp; try (injection Hp as <- <- <-; by apply appends_refl).
  1, 2: eapply appends_trans; [|by eapply flush_session_appends]; by apply appends_refl.
  by eapply flush_session_appends.
Qed.

Lemma finish_or_flush_appends nghttp2 fuel finish id t r t' :
  finish_or_flush nghttp2 fuel finish id t = Some (r, t') -> appends t t'.
Proof.
  unfold finish_or_flush. intros Hf. destruct (encoder _) as [c|].
  2: { injection Hf as <- <-. by apply appends_refl. }
  destruct (h2_encode_terminal_locked _ _ _ _) as [[re o]|]; [|done]. simpl in Hf.
  case_if_in Hf; [injection Hf as <- <-; by apply appends_refl|].
  destruct (h2_pump_stream_locked _ _ _) as [[rp fs] t2] eqn:Ep. injection Hf as <- <-.
  eapply appends_trans; [|by eapply pump_appends]. by apply appends_refl.
Qed.

Lemma flush_pending_appends nghttp2 fuel t r t' :
  h2_flush_pending_locked nghttp2 fuel t = Some (r, t') -> appends t t'.
Proof.
  unfold h2_flush_pending_locked. intros Hf.
  destruct (flush_streams _ _ _ _ _) as [[rf t1]|] eqn:Ef; [|done]. injection Hf as <- <-.
  cut (appends t t1); [by intros; eapply appends_trans; [|by apply appends_refl]|].
  revert Ef. generalize (flush_pending t). intros ids. generalize 0 as result. revert t.
  induction ids as [|id ids IH]; intros t result Hf; simpl in Hf.
  { injection Hf as <- <-. by apply appends_refl. }
  apply (appends_trans _ (update_out id (set_flush_queued false) t)); [by apply appends_refl|].
  case_if_in Hf; [by eapply IH|].
  destruct (finish_or_flush _ _ _ _ _) as [[rx tx]|] eqn:Ex; [|done]. simpl in Hf.
  eapply appends_trans; [by eapply finish_or_flush_appends|by eapply IH].
Qed.
End Handoff.

(** * The wire *)

(** A requested barrier: what had been produced before it, and its control frame. *)
Record barrier_request := Barrier { before_barrier : list byte; barrier_command : Z; barrier_checkpoint : list Z }.

(** The output up to and with the barrier. *)
Definition cut_bytes (r : barrier_request) : list byte :=
  before_barrier r ++ control_frame (barrier_command r) (barrier_checkpoint r).

(** Where the client's checkpoint thread is: outside a handoff or before its
    acknowledgement, waiting for the barrier, past it, told to go on, with its socket
    parked; or it has given the connection up. *)
Inductive handoff :=
  | HIdle | HWaiting (r : barrier_request) | HPassed (r : barrier_request)
  | HReady (r : barrier_request) | HParked (r : barrier_request) | HClosed.

(** The socket that has to get the byte at [k] of the output: the first one up to the
    barrier of the first handoff, and from there on the one it was replaced by. *)
Fixpoint socket_at (fd : Z) (handoffs : list (barrier_request * Z)) (k : nat) : Z :=
  match handoffs with
  | [] => fd
  | (r, replacement) :: handoffs =>
      if (k <? length (cut_bytes r))%nat then fd else socket_at replacement handoffs k
  end.

Definition current_socket (fd : Z) (handoffs : list (barrier_request * Z)) : Z :=
  match last handoffs with Some (_, replacement) => replacement | None => fd end.

Section WireSteps.
Context `{Zstd} (is_server : bool).

(** The transport with every byte that was written and the socket it was written to, the
    rest of the chunk being written, all output ever produced, the barriers requested,
    the one at which the writer paused, the thread of the handoffs and the handoffs
    completed, each with the socket it went on with. *)
Record wire := Wire {
  wt : h2_transport;
  wc : h2_control;
  sent : list (Z * byte);
  inflight : list byte;
  produced : list byte;
  barriers : list barrier_request;
  paused_at : option barrier_request;
  writer_dead : bool;
  thread : handoff;
  handoffs : list (barrier_request * Z);
}.

Definition new_wire (fd : Z) : wire :=
  Wire (new_transport is_server) (new_control fd) [] [] [] [] None false HIdle [].

Definition with_control (c : h2_control) (w : wire) : wire :=
  Wire (wt w) c (sent w) (inflight w) (produced w) (barriers w) (paused_at w) (writer_dead w) (thread w) (handoffs w).

Definition with_thread (h : handoff) (w : wire) : wire :=
  Wire (wt w) (wc w) (sent w) (inflight w) (produced w) (barriers w) (paused_at w) (writer_dead w) h (handoffs w).

(** A control frame is queued; [pause] makes it a barrier. *)
Definition queue_control (command : Z) (checkpoint : list Z) (pause : bool) (w : wire) : wire :=
  let '(t, c) := h2_queue_process_control_locked command checkpoint pause (wt w) (wc w) in
  Wire t c (sent w) (inflight w) (produced w ++ control_frame command checkpoint)
    (if pause then barriers w ++ [Barrier (produced w) command checkpoint] else barriers w)
    (paused_at w) (writer_dead w) (thread w) (handoffs w).

(** What the checkpoint thread does with a control it receives after its acknowledgement. *)
Definition after_control (r : barrier_request) (command : Z) (checkpoint : list Z) : handoff :=
  if negb (bool_decide (checkpoint = barrier_checkpoint r)) then HClosed
  else if command =? ch_X then HIdle else if command =? ch_C then HReady r else HClosed.

(** [h2_write_socket] reads the transport's descriptor at each write, without the mutex, and
    a write to no socket fails.  The peer commits a checkpoint once, and does not cancel it
    after that ([wire_frame]). *)
Inductive wire_step : wire -> wire -> Prop :=
  | wire_output w t bs : outbound t = outbound (wt w) ++ bs ->
      (transport_failed (wt w) = true -> transport_failed t = true) ->
      wire_step w (Wire t (wc w) (sent w) (inflight w) (produced w ++ bs) (barriers w) (paused_at w) (writer_dead w)
                     (thread w) (handoffs w))
  | wire_control w command checkpoint : wire_step w (queue_control command checkpoint false w)
  | wire_freeze w checkpoint : is_server = true -> wire_step w (queue_control ch_B checkpoint true w)
  | wire_take w nghttp2 fuel t1 bs chunk t c : writer_dead w = false -> write_busy (wc w) = false ->
      h2_flush_pending_locked nghttp2 fuel (wt w) = Some (0, t1) -> outbound t1 = outbound (wt w) ++ bs ->
      h2_write_main_turn nghttp2 fuel (wt w) (wc w) = Some (WriterWrites chunk t c) ->
      wire_step w (Wire t c (sent w) chunk (produced w ++ bs) (barriers w)
                     (if (pause_after_bytes (wc w) =? 0)%nat then paused_at w else last (barriers w)) false
                     (thread w) (handoffs w))
  | wire_write w n : write_busy (wc w) = true -> netfd (wc w) <> LUPINE_INVALID_SOCKET ->
      wire_step w (Wire (wt w) (wc w) (sent w ++ (pair (netfd (wc w)) <$> take n (inflight w))) (drop n (inflight w))
                     (produced w) (barriers w) (paused_at w) (writer_dead w) (thread w) (handoffs w))
  | wire_done w t c : write_busy (wc w) = true -> inflight w = [] -> h2_write_main_done true (wt w) (wc w) = (t, c) ->
      wire_step w (Wire t c (sent w) [] (produced w) (barriers w) (paused_at w) (writer_dead w) (thread w) (handoffs w))
  | wire_failed w t c : write_busy (wc w) = true -> h2_write_main_done false (wt w) (wc w) = (t, c) ->
      wire_step w (Wire t c (sent w) (inflight w) (produced w) (barriers w) (paused_at w) true (thread w) (handoffs w))
  | wire_frame w resumes command checkpoint c : control_payload (wc w) = command :: checkpoint ->
      (command = ch_C \/ command = ch_X -> socket_parked (wc w) = false) ->
      on_control_frame is_server resumes (wc w) = (0, c) -> wire_step w (with_control c w)
  | wire_acknowledge w checkpoint : is_server = false -> thread w = HIdle ->
      wire_step w (with_thread (HWaiting (Barrier (produced w) ch_A checkpoint)) (queue_control ch_A checkpoint true w))
  | wire_passed w r : thread w = HWaiting r -> send_control_end ch_A (wt w) (wc w) = Some 0 ->
      wire_step w (with_thread (HPassed r) w)
  | wire_receive w command checkpoint c h :
      lupine_handoff_receive_control (wt w) (wc w) = Some (Some (command, checkpoint), c) ->
      (thread w = HIdle /\ h = HIdle \/ exists r, thread w = HPassed r /\ h = after_control r command checkpoint) ->
      wire_step w (with_thread h (with_control c w))
  | wire_park w r c : thread w = HReady r -> lupine_handoff_park_socket (wt w) (wc w) = Some (0, c) ->
      wire_step w (with_thread (HParked r) (with_control c w))
  | wire_resume w r connfd c : thread w = HParked r ->
      lupine_handoff_resume_socket connfd (wt w) (wc w) = (0, c) ->
      wire_step w (Wire (wt w) c (sent w) (inflight w) (produced w) (barriers w) (paused_at w) (writer_dead w) HIdle
                     (handoffs w ++ [(r, connfd)]))
  | wire_park_failed w c : lupine_handoff_park_socket (wt w) (wc w) = Some (-1, c) ->
      wire_step w (with_thread HClosed (with_control c w))
  | wire_give_up w : wire_step w (with_thread HClosed w)
  | wire_shutdown w : wire_step w
      (Wire (h2_fail_transport_locked (wt w)) (set_pause false (pause_after_bytes (wc w)) (wc w)) (sent w) (inflight w)
         (produced w) (barriers w) (paused_at w) (writer_dead w) HClosed (handoffs w))
  | wire_other w c : netfd c = netfd (wc w) -> writer_paused c = writer_paused (wc w) ->
      pause_after_bytes c = pause_after_bytes (wc w) -> write_busy c = write_busy (wc w) ->
      socket_parked c = socket_parked (wc w) -> process_controls c = process_controls (wc w) ->
      wire_step w (with_control c w).

(** ** What holds on every run *)

(** A cancellation that the checkpoint thread meets before a commit. *)
Definition cancelled (q : list (Z * list Z)) : Prop :=
  exists a k b, q = a ++ (ch_X, k) :: b /\ Forall (fun e => e.1 <> ch_C) a.

(** The writer stands behind the barrier [r]. *)
Definition stands_at (r : barrier_request) (w : wire) : Prop :=
  paused_at w = Some r /\ writer_paused (wc w) = true.

Definition thread_ok (w : wire) : Prop :=
  match thread w with
  | HIdle | HClosed => True
  | HWaiting r => barrier_command r = ch_A /\ last (barriers w) = Some r /\
      (pause_after_bytes (wc w) = O -> paused_at w = Some r)
  | HPassed r => barrier_command r = ch_A /\ pause_after_bytes (wc w) = O /\
      (cancelled (process_controls (wc w)) \/ stands_at r w)
  | HReady r => barrier_command r = ch_A /\ pause_after_bytes (wc w) = O /\ stands_at r w /\
      socket_parked (wc w) = true /\ Forall (fun e => e.1 <> ch_C) (process_controls (wc w))
  | HParked r => barrier_command r = ch_A /\ pause_after_bytes (wc w) = O /\ stands_at r w /\
      socket_parked (wc w) = true /\ Forall (fun e => e.1 <> ch_C) (process_controls (wc w)) /\
      write_busy (wc w) = false /\ writer_dead w = false
  end.

(** Everything produced is written, being written or waiting, in order; a requested
    barrier lies ahead in the output; a paused writer stopped at its barrier; every byte
    went to the socket it has to go to. *)
Record wire_inv (fd : Z) (w : wire) : Prop := WireInv {
  wire_all : produced w = (sent w).*2 ++ inflight w ++ outbound (wt w);
  wire_quiet : write_busy (wc w) = false -> inflight w = [] \/ writer_dead w = true;
  wire_dead : writer_dead w = true -> transport_failed (wt w) = true;
  wire_ahead : pause_after_bytes (wc w) <> O -> (pause_after_bytes (wc w) <= length (outbound (wt w)))%nat /\
    exists r, last (barriers w) = Some r /\
      cut_bytes r = (sent w).*2 ++ inflight w ++ take (pause_after_bytes (wc w)) (outbound (wt w));
  wire_paused : writer_paused (wc w) = true ->
    exists r, paused_at w = Some r /\ r ∈ barriers w /\ (sent w).*2 ++ inflight w = cut_bytes r;
  wire_sockets : forall k f b, sent w !! k = Some (f, b) -> f = socket_at fd (handoffs w) k;
  wire_handoffs : forall r f, (r, f) ∈ handoffs w ->
    r ∈ barriers w /\ barrier_command r = ch_A /\ cut_bytes r `prefix_of` (sent w).*2;
  wire_socket : netfd (wc w) = current_socket fd (handoffs w) \/ netfd (wc w) = LUPINE_INVALID_SOCKET;
  wire_thread : thread_ok w;
  wire_client : is_server = true -> thread w = HIdle \/ thread w = HClosed;
  wire_once : (length (filter (fun e : Z * list Z => e.1 = ch_C) (process_controls (wc w))) <= 1)%nat;
  wire_commit : Exists (fun e => e.1 = ch_C) (process_controls (wc w)) -> socket_parked (wc w) = true }.

Lemma new_wire_inv fd : wire_inv fd (new_wire fd).
Proof.
  constructor; simpl; try done; auto; [set_solver|]. by intros ?%Exists_nil.
Qed.

Lemma cancelled_app q l : cancelled q -> cancelled (q ++ l).
Proof. intros (a & k & b & -> & Ha). exists a, k, (b ++ l). by rewrite <- app_assoc. Qed.

Lemma no_commit (q : list (Z * list Z)) : ~ Exists (fun e => e.1 = ch_C) q -> Forall (fun e => e.1 <> ch_C) q.
Proof. intros Hn. by apply Forall_Exists_neg. Qed.

Lemma socket_at_snoc fd hs r f k : (k < length (cut_bytes r))%nat -> socket_at fd (hs ++ [(r, f)]) k = socket_at fd hs k.
Proof.
  intros Hk. revert fd. induction hs as [|[r' f'] hs IH]; intros fd; simpl; [|by rewrite IH].
  by rewrite (proj2 (Nat.ltb_lt _ _) Hk).
Qed.

(** Behind every barrier the byte is for the current socket. *)
Lemma socket_at_end fd hs k : (forall r f, (r, f) ∈ hs -> (length (cut_bytes r) <= k)%nat) ->
  socket_at fd hs k = current_socket fd hs.
Proof.
  revert fd. induction hs as [|[r f] hs IH]; intros fd Hle; [done|]. simpl.
  rewrite (proj2 (Nat.ltb_ge _ _)) by (apply (Hle r f); set_solver). rewrite IH by set_solver.
  unfold current_socket. rewrite last_cons. by destruct (last hs) as [[? ?]|].
Qed.

(** Output that follows does not move a barrier. *)
Lemma output_inv fd w t bs : wire_inv fd w -> outbound t = outbound (wt w) ++ bs ->
  (transport_failed (wt w) = true -> transport_failed t = true) ->
  wire_inv fd (Wire t (wc w) (sent w) (inflight w) (produced w ++ bs) (barriers w) (paused_at w) (writer_dead w)
                 (thread w) (handoffs w)).
Proof.
  intros [H1 H2 H3 H4 H5 H6 H7 H8 H9 Hc Ho H10] Hout Hf. constructor; try done; simpl.
  - by rewrite Hout, H1, !app_assoc.
  - auto.
  - intros Hne. destruct (H4 Hne) as (Hle & r & Hr & Hb). rewrite Hout, length_app. split; [lia|].
    exists r. split; [done|]. by rewrite take_app_le.
Qed.

Lemma queue_inv fd w command checkpoint pause : wire_inv fd w ->
  (pause = true -> thread w = HIdle \/ thread w = HClosed) -> wire_inv fd (queue_control command checkpoint pause w).
Proof.
  intros Hi Hp. destruct pause; [specialize (Hp eq_refl)|clear Hp; by apply (output_inv fd w _ _ Hi)].
  destruct Hi as [H1 H2 H3 H4 H5 H6 H7 H8 H9 Hc Ho H10].
  unfold queue_control, h2_queue_process_control_locked. constructor; simpl; try done.
  - by rewrite H1, <- !app_assoc.
  - intros _. split; [done|]. eexists. rewrite last_snoc. split; [done|].
    rewrite firstn_all. unfold cut_bytes. simpl. by rewrite H1, <- !app_assoc.
  - intros Hw. destruct (H5 Hw) as (r & E & Hin & Hc'). exists r. set_solver.
  - intros r f Hin. destruct (H7 r f Hin) as (? & ? & ?). set_solver.
  - unfold thread_ok. simpl. by destruct Hp as [-> | ->].
Qed.

(** The chunk that the writer takes ends at the barrier. *)
Lemma take_inv fd w nghttp2 fuel t1 bs chunk t c : wire_inv fd w -> writer_dead w = false -> write_busy (wc w) = false ->
  h2_flush_pending_locked nghttp2 fuel (wt w) = Some (0, t1) -> outbound t1 = outbound (wt w) ++ bs ->
  h2_write_main_turn nghttp2 fuel (wt w) (wc w) = Some (WriterWrites chunk t c) ->
  wire_inv fd (Wire t c (sent w) chunk (produced w ++ bs) (barriers w)
    (if (pause_after_bytes (wc w) =? 0)%nat then paused_at w else last (barriers w)) false (thread w) (handoffs w)).
Proof.
  intros [H1 H2 H3 H4 H5 H6 H7 H8 H9 Hc Ho H10] Hd Hb Hfl Hout Hturn.
  destruct (H2 Hb) as [Hin|]; [|congruence]. rewrite Hin in *. simpl in *.
  unfold h2_write_main_turn in Hturn. destruct (writer_paused (wc w)) eqn:Ep; simpl in Hturn.
  { destruct (write_stop (wc w)); simpl in Hturn; [|done]. by rewrite andb_false_r in Hturn. }
  case_if_in Hturn; [done|]. destruct (write_stop (wc w)); [done|]. rewrite Hfl in Hturn. simpl in Hturn.
  case_bool_decide; [done|]. unfold take_chunk in Hturn. destruct (Nat.eqb_spec (pause_after_bytes (wc w)) 0) as [E0|E0];
    simpl in Hturn; injection Hturn as <- <- <-.
  - constructor; simpl; try done; [by rewrite Hout, H1, !app_assoc, app_nil_r|by rewrite Ep|].
    unfold thread_ok, stands_at in *. simpl. destruct (thread w); naive_solver congruence.
  - destruct (H4 E0) as (Hle & r & Hr & Hbar). constructor; simpl; try done.
    + by rewrite Hout, H1, take_drop, !app_assoc.
    + intros _. exists r. split; [done|]. split; [by apply last_Some_elem_of in Hr|].
      by rewrite Hbar, Hout, take_app_le.
    + unfold thread_ok in *. simpl. destruct (thread w); try done; [by destruct H9 as (? & ? & _)| | |]; by destruct H9 as (? & ? & _).
Qed.

Lemma write_inv fd w n : wire_inv fd w -> netfd (wc w) <> LUPINE_INVALID_SOCKET ->
  wire_inv fd (Wire (wt w) (wc w) (sent w ++ (pair (netfd (wc w)) <$> take n (inflight w))) (drop n (inflight w))
    (produced w) (barriers w) (paused_at w) (writer_dead w) (thread w) (handoffs w)).
Proof.
  intros [H1 H2 H3 H4 H5 H6 H7 H8 H9 Hc Ho H10] Hv. destruct H8 as [H8|]; [|done].
  assert (E : (sent w ++ (pair (netfd (wc w)) <$> take n (inflight w))).*2 = (sent w).*2 ++ take n (inflight w)).
  { rewrite fmap_app, <- list_fmap_compose. f_equal. apply list_fmap_id. }
  assert (E' : forall x, ((sent w).*2 ++ take n (inflight w)) ++ drop n (inflight w) ++ x = (sent w).*2 ++ inflight w ++ x).
  { intros x. rewrite <- app_assoc. f_equal. by rewrite app_assoc, take_drop. }
  constructor; simpl; rewrite ?E, ?E'; try done; auto.
  - intros Hb. destruct (H2 Hb) as [->|]; [left; by rewrite drop_nil|by right].
  - intros Hw. destruct (H5 Hw) as (r & ? & ? & Er). exists r. split_and!; [done|done|].
    rewrite <- (app_nil_r (drop n (inflight w))), E', app_nil_r. done.
  - intros k f b Hk. apply lookup_app_Some in Hk as [Hk|[Hle Hk]]; [by eapply H6|].
    apply list_lookup_fmap_Some in Hk as (b' & [= -> ->] & _). rewrite H8. symmetry. apply socket_at_end.
    intros r f Hin. destruct (H7 r f Hin) as (_ & _ & Hp%prefix_length). rewrite length_fmap in Hp. lia.
  - intros r f Hin. destruct (H7 r f Hin) as (? & ? & ?). split_and!; [done|done|by apply prefix_app_r].
Qed.

Lemma commits_none (q : list (Z * list Z)) :
  length (filter (fun e => e.1 = ch_C) q) = O <-> Forall (fun e => e.1 <> ch_C) q.
Proof.
  induction q as [|e q IH]; [split; [constructor|done]|]. rewrite filter_cons, Forall_cons, <- IH. case_decide; simpl; naive_solver lia.
Qed.

(** A change of the control fields, with the thread. *)
Lemma control_inv fd w c h : wire_inv fd w ->
  pause_after_bytes c = pause_after_bytes (wc w) -> write_busy c = write_busy (wc w) ->
  (netfd c = netfd (wc w) \/ netfd c = LUPINE_INVALID_SOCKET) ->
  (writer_paused c = true -> writer_paused (wc w) = true) ->
  (length (filter (fun e : Z * list Z => e.1 = ch_C) (process_controls c)) <= 1)%nat ->
  (Exists (fun e => e.1 = ch_C) (process_controls c) -> socket_parked c = true) ->
  (is_server = true -> h = HIdle \/ h = HClosed) ->
  thread_ok (with_thread h (with_control c w)) -> wire_inv fd (with_thread h (with_control c w)).
Proof.
  intros [H1 H2 H3 H4 H5 H6 H7 H8 H9 Hc Ho H10] Ha Hb Hn Hp Hq Hx Hh Ht. constructor; simpl; rewrite ?Ha, ?Hb; auto.
  destruct Hn as [->|Hn]; [done|by right].
Qed.

Lemma frame_effect resumes command checkpoint c c' : control_payload c = command :: checkpoint ->
  on_control_frame is_server resumes c = (0, c') ->
  netfd c' = netfd c /\ pause_after_bytes c' = pause_after_bytes c /\ write_busy c' = write_busy c /\
  (writer_paused c' = writer_paused c \/ writer_paused c' = false /\ (is_server = true \/ command = ch_X)) /\
  (is_server = true -> process_controls c' = process_controls c /\ socket_parked c' = socket_parked c) /\
  (is_server = false -> process_controls c' = process_controls c ++ [(command, checkpoint)] /\
     socket_parked c' = if command =? ch_C then true else socket_parked c).
Proof.
  intros Hp. unfold on_control_frame. rewrite Hp. destruct is_server.
  - case_match; [intros [= <-]; split_and!; by auto|]. case_match; [done|].
    intros [= <-]. destruct resumes; split_and!; simpl; by auto.
  - case_match eqn:E1; [|case_match eqn:E2; [|case_match eqn:E3; [|case_match eqn:E4; [|done]]]]; intros [= <-]; breflect; subst command;
      split_and!; simpl; by auto.
Qed.

Lemma control_frame_inv fd w resumes command checkpoint c : wire_inv fd w -> control_payload (wc w) = command :: checkpoint ->
  (command = ch_C \/ command = ch_X -> socket_parked (wc w) = false) ->
  on_control_frame is_server resumes (wc w) = (0, c) -> wire_inv fd (with_control c w).
Proof.
  intros Hi Hpl Hg Hf. destruct (frame_effect _ _ _ _ _ Hpl Hf) as (E1 & E2 & E3 & E4 & Es & Ec).
  change (wire_inv fd (with_thread (thread w) (with_control c w))).
  pose proof (wire_thread fd w Hi) as Ht. pose proof (wire_once fd w Hi) as Ho. pose proof (wire_commit fd w Hi) as Hc.
  assert (Hq : is_server = false -> socket_parked (wc w) = false -> Forall (fun e => e.1 <> ch_C) (process_controls (wc w))).
  { intros _ Hs. apply no_commit. intros Hx. rewrite (Hc Hx) in Hs. done. }
  apply control_inv; try done; [by left|by destruct E4 as [->|[-> _]]| | |by apply (wire_client fd w Hi)|].
  - destruct is_server; [by destruct Es as [-> _]|]. destruct Ec as [-> _]; [done|]. rewrite filter_app, length_app.
    destruct (decide (command = ch_C)) as [->|Hne].
    + rewrite (proj2 (commits_none _)) by (apply Hq; auto). done.
    + rewrite filter_cons_False by done. simpl. lia.
  - destruct is_server; [by destruct Es as [-> ->]|]. destruct Ec as [-> ->]; [done|].
    destruct (Z.eqb_spec command ch_C) as [|Hne]; [done|]. rewrite Exists_app, Exists_cons, Exists_nil. simpl. naive_solver.
  - unfold thread_ok, stands_at in *. simpl. destruct is_server eqn:Eis.
    { destruct (wire_client fd w Hi Eis) as [E|E]; by rewrite E. }
    destruct Ec as [Eq Ek]; [done|]. rewrite E2, E3, Eq, Ek.
    assert (Hsp : socket_parked (wc w) = true -> command <> ch_C /\ command <> ch_X) by (intros Hs; split; intros ->; rewrite Hg in Hs; auto; done).
    destruct (thread w) as [|r|r|r|r|]; try done.
    + destruct Ht as (? & ? & [?|[? ?]]); split_and!; try done; [left; by apply cancelled_app|].
      destruct E4 as [E4|[_ [?|Ex]]]; [right; by rewrite E4|done|left].
      exists (process_controls (wc w)), checkpoint, []. split; [by rewrite Ex|]. apply Hq; auto.
    + destruct Ht as (? & ? & [? ?] & Hs & ?). destruct (Hsp Hs) as [Hnc Hnx]. rewrite (proj2 (Z.eqb_neq _ _) Hnc).
      split_and!; try done; [by destruct E4 as [->|[_ [?|?]]]|]. apply Forall_app. by split; [|constructor].
    + destruct Ht as (? & ? & [? ?] & Hs & ? & ? & ?). destruct (Hsp Hs) as [Hnc Hnx]. rewrite (proj2 (Z.eqb_neq _ _) Hnc).
      split_and!; try done; [by destruct E4 as [->|[_ [?|?]]]|]. apply Forall_app. by split; [|constructor].
Qed.

Lemma receive_inv fd w command checkpoint c h : wire_inv fd w ->
  lupine_handoff_receive_control (wt w) (wc w) = Some (Some (command, checkpoint), c) ->
  (thread w = HIdle /\ h = HIdle \/ exists r, thread w = HPassed r /\ h = after_control r command checkpoint) ->
  wire_inv fd (with_thread h (with_control c w)).
Proof.
  intros Hi Hr Hh. pose proof (wire_thread fd w Hi) as Ht. pose proof (wire_once fd w Hi) as Ho. pose proof (wire_commit fd w Hi) as Hc.
  unfold lupine_handoff_receive_control in Hr. destruct (process_controls (wc w)) as [|control rest] eqn:Eq; [by repeat case_match|].
  case_match; [done|]. case_match; [done|]. injection Hr as -> <-.
  assert (Hcl : is_server = true -> h = HIdle \/ h = HClosed).
  { intros Es. destruct Hh as [[_ ->]|(r & E & _)]; [by left|]. destruct (wire_client fd w Hi Es); congruence. }
  apply control_inv; try done; [by left| | |].
  - simpl. rewrite filter_cons in Ho. case_decide; simpl in Ho; lia.
  - simpl. intros Hx. apply Hc. by constructor 2.
  - destruct Hh as [[_ ->]|(r & E & ->)]; [done|]. unfold after_control. case_match; [done|]. case_match; [done|].
    destruct (Z.eqb_spec command ch_C) as [->|]; [|done]. unfold thread_ok in *. rewrite E in Ht. simpl.
    destruct Ht as (? & ? & Ht). rewrite Eq in Ht.
    assert (Hs : stands_at r w).
    { destruct Ht as [(a & k & b & E' & Ha)|]; [|done]. destruct a as [|x a]; [done|]. injection E' as <- _. by inversion Ha. }
    split_and!; [done|done|exact Hs|apply Hc; by constructor|].
    rewrite filter_cons_True in Ho by done. simpl in Ho. apply commits_none. lia.
Qed.

Lemma resume_inv fd w r connfd c : wire_inv fd w -> thread w = HParked r ->
  lupine_handoff_resume_socket connfd (wt w) (wc w) = (0, c) ->
  wire_inv fd (Wire (wt w) c (sent w) (inflight w) (produced w) (barriers w) (paused_at w) (writer_dead w) HIdle
    (handoffs w ++ [(r, connfd)])).
Proof.
  intros [H1 H2 H3 H4 H5 H6 H7 H8 H9 Hc Ho H10] Hth Hr. unfold thread_ok in H9. rewrite Hth in H9.
  destruct H9 as (Hcmd & Hpa & [Hat Hw] & Hs & Hq & Hb & Hd). destruct (H5 Hw) as (r' & E & Hin & Hcut).
  rewrite Hat in E. injection E as <-. destruct (H2 Hb) as [Hfl|]; [|congruence]. rewrite Hfl, app_nil_r in Hcut.
  unfold lupine_handoff_resume_socket in Hr. destruct (transport_failed (wt w)); [done|]. injection Hr as <-.
  constructor; simpl; try done.
  - by rewrite Hd.
  - intros k f b Hk. rewrite socket_at_snoc; [by eapply H6|]. rewrite <- Hcut, length_fmap. by eapply lookup_lt_Some.
  - intros r' f [Hr'|[= -> ->]%list_elem_of_singleton]%elem_of_app; [by apply (H7 r' f)|]. rewrite Hcut. by split_and!.
  - left. unfold current_socket. by rewrite last_snoc.
  - by left.
  - intros Hx. exfalso. apply Exists_exists in Hx as (e & He & Ee). rewrite Forall_forall in Hq. by apply (Hq e He).
Qed.

Lemma wire_step_inv fd w w' : wire_inv fd w -> wire_step w w' -> wire_inv fd w'.
Proof.
  intros Hi Hstep. pose proof Hi as [H1 H2 H3 H4 H5 H6 H7 H8 H9 Hc Ho H10]. destruct Hstep as [w t bs Hout Hf|w command checkpoint
    |w checkpoint Hs|w nghttp2 fuel t1 bs chunk t c Hd Hb Hfl Hout Hturn|w n Hb Hv|w t c Hb Hin Hd|w t c Hb Hd
    |w resumes command checkpoint c Hp Hg Hf|w checkpoint Hs Hth|w r Hth Hend|w command checkpoint c h Hr Hh
    |w r c Hth Hpark|w r connfd c Hth Hres|w c Hpark|w|w|w c E1 E2 E3 E4 E5 E6].
  - by apply output_inv.
  - by apply queue_inv.
  - apply queue_inv; [done|by intros _; apply Hc].
  - by eapply take_inv.
  - by apply write_inv.
  - injection Hd as <- <-. rewrite Hin in *. constructor; simpl; auto.
    unfold thread_ok, stands_at in *. simpl. destruct (thread w); naive_solver.
  - injection Hd as <- <-. constructor; simpl; auto.
    unfold thread_ok, stands_at in *. simpl. destruct (thread w); naive_solver congruence.
  - by eapply control_frame_inv.
  - destruct (queue_inv fd w ch_A checkpoint true Hi) as [Q1 Q2 Q3 Q4 Q5 Q6 Q7 Q8 Q9 Qc Qo Q10]; [by left|].
    constructor; try done; [|by rewrite Hs]. unfold thread_ok. simpl. split; [done|]. rewrite last_snoc. split; [done|].
    rewrite length_app. simpl. lia.
  - change (wire_inv fd (with_thread (HPassed r) (with_control (wc w) w))). unfold thread_ok in H9. rewrite Hth in H9.
    destruct H9 as (? & ? & Hat). unfold send_control_end, barrier_passed in Hend. simpl in Hend.
    destruct (write_failed (wt w)); [by rewrite orb_true_r in Hend|]. rewrite orb_false_r in Hend.
    case_match eqn:E; [|done]. apply andb_true_iff in E as [[E1 E2]%andb_true_iff E3]. apply Nat.eqb_eq in E3.
    apply control_inv; try done; [by left|intros Es; destruct (Hc Es); congruence|].
    unfold thread_ok, stands_at. simpl. auto 10.
  - by eapply receive_inv.
  - unfold lupine_handoff_park_socket in Hpark. destruct (transport_failed (wt w)) eqn:Ef; [by rewrite andb_false_r in Hpark|].
    rewrite andb_true_r in Hpark. destruct (negb (socket_parked (wc w)) || write_busy (wc w)) eqn:Eb; [done|].
    injection Hpark as <-. apply orb_false_iff in Eb as [Es Eb]. apply negb_false_iff in Es.
    apply control_inv; try done; [by right|intros Ec; destruct (Hc Ec); congruence|].
    unfold thread_ok, stands_at in *. simpl. rewrite Hth in H9. destruct (writer_dead w) eqn:Ed; [by specialize (H3 eq_refl)|]. naive_solver.
  - by apply resume_inv.
  - unfold lupine_handoff_park_socket in Hpark. case_match; [done|]. injection Hpark as _ <-.
    by apply control_inv; auto.
  - by apply (control_inv fd w (wc w) HClosed); auto.
  - constructor; simpl; by auto.
  - apply (control_inv fd w c (thread w)); rewrite ?E1, ?E2, ?E6, ?E5; auto.
    unfold thread_ok, stands_at in *. simpl. by rewrite ?E1, ?E2, ?E3, ?E4, ?E5, ?E6.
Qed.

Lemma wire_run_inv fd w : rtc wire_step (new_wire fd) w -> wire_inv fd w.
Proof.
  intros Hr. apply rtc_ind_r with (P := wire_inv fd) in Hr; [done|apply new_wire_inv|].
  intros w1 w2 _ Hs Hi. by eapply wire_step_inv.
Qed.
End WireSteps.

(** C32: the output is cut at the barrier, socket by socket.  In every interleaving of
    output, control frames, single writes, handoffs that complete, are cancelled or fail,
    and a shutdown: all output is written, being written or waiting, in the order it was
    produced; a completed handoff was made at a barrier that was acknowledged, everything
    up to and with its frame went to the socket in use before it and everything behind it
    to its replacement; and while the writer is paused, what was written and is being
    written is exactly the output up to a barrier that was requested, ending with that
    barrier's own frame, and the writer takes nothing. *)
Theorem handoff_cuts_output `{Zstd} (is_server : bool) (fd : Z) (w : wire)
  (H_run : rtc (wire_step is_server) (new_wire is_server fd) w) :
  produced w = (sent w).*2 ++ inflight w ++ outbound (wt w) /\
  (forall k f b, sent w !! k = Some (f, b) -> f = socket_at fd (handoffs w) k) /\
  (forall r f, (r, f) ∈ handoffs w ->
     r ∈ barriers w /\ barrier_command r = ch_A /\ cut_bytes r `prefix_of` (sent w).*2) /\
  (writer_paused (wc w) = true ->
     (exists r, r ∈ barriers w /\ (sent w).*2 ++ inflight w = cut_bytes r) /\
     forall nghttp2 fuel, write_stop (wc w) = false ->
       h2_write_main_turn nghttp2 fuel (wt w) (wc w) = Some WriterWaits).
Proof.
  apply wire_run_inv in H_run as [H1 _ _ _ H5 H6 H7 _ _ _ _ _]. split_and!; [done|done|done|].
  intros Hp. destruct (H5 Hp) as (r & _ & Hr & E). split; [by exists r|]. intros nghttp2 fuel Hs.
  unfold h2_write_main_turn. by rewrite Hp, Hs.
Qed.

(** A requested barrier is reached.  With a barrier requested and the writer
    running, its next turn writes exactly what is left up to the barrier, however
    much output follows it, and once the socket took it the wait for the barrier
    ends successfully. *)
Theorem barrier_reached_in_one_turn `{Zstd} is_server fd w nghttp2 fuel t1 :
  rtc (wire_step is_server) (new_wire is_server fd) w ->
  inflight w = [] -> pause_after_bytes (wc w) <> O ->
  writer_paused (wc w) = false -> write_stop (wc w) = false -> write_failed t1 = false ->
  h2_flush_pending_locked nghttp2 fuel (wt w) = Some (0, t1) ->
  exists r chunk t2 c2, last (barriers w) = Some r /\
    h2_write_main_turn nghttp2 fuel (wt w) (wc w) = Some (WriterWrites chunk t2 c2) /\
    (sent w).*2 ++ chunk = cut_bytes r /\
    let '(t3, c3) := h2_write_main_done true t2 c2 in send_control_end ch_A t3 c3 = Some 0.
Proof.
  intros [_ _ _ Hbar _ _ _ _ _ _ _ _]%wire_run_inv Hfl Hne Hnp Hns Hnf Hflush.
  destruct (Hbar Hne) as (Hle & r & Hr & Hb). rewrite Hfl in Hb. simpl in Hb.
  destruct (flush_pending_appends _ _ _ _ _ Hflush) as [bs Hout].
  assert (outbound (wt w) <> []) as Ho by (intros E; rewrite E in Hle; simpl in Hle; lia).
  assert (outbound t1 <> []) as Ho1 by (rewrite Hout; by destruct (outbound (wt w))).
  unfold h2_write_main_turn. rewrite Hnp, Hns, Hflush. simpl.
  rewrite (bool_decide_eq_false_2 _ Ho), (bool_decide_eq_false_2 _ Ho1). simpl.
  unfold take_chunk. rewrite (proj2 (Nat.eqb_neq _ _) Hne). simpl.
  eexists r, _, _, _. split_and!; [done|done| |].
  - by rewrite Hb, Hout, take_app_le.
  - unfold send_control_end, barrier_passed. simpl. by rewrite Hnf.
Qed.

(** * Control frames on the wire *)

(** The header fields of a frame, as HTTP/2 lays them out. *)
Definition frame_length (bytes : list byte) : Z :=
  match bytes with a :: b :: c :: _ => a * 65536 + b * 256 + c | _ => 0 end.

Definition feed_extension (stream_id flags length : Z) (chunks : list (list byte))
    (c : h2_control) : Z * h2_control :=
  fold_left (fun acc data =>
    if acc.1 =? 0 then on_extension_chunk stream_id flags length data acc.2 else acc)
    chunks (0, c).

Lemma feed_extension_spec length chunks c :
  length <= 512 ->
  Z.of_nat (List.length (control_payload c)) + Z.of_nat (List.length (concat chunks)) <= length ->
  feed_extension 0 0 length chunks c = (0, set_payload (control_payload c ++ concat chunks) c).
Proof.
  intros H512. unfold feed_extension. revert c. induction chunks as [|data chunks IH]; intros c Hl; simpl.
  { rewrite app_nil_r. by destruct c. }
  simpl in Hl. rewrite length_app in Hl. unfold on_extension_chunk at 2. simpl.
  rewrite (proj2 (Z.ltb_ge 512 length)), (proj2 (Z.ltb_ge length _)) by lia. simpl.
  rewrite IH; simpl; [by rewrite app_assoc|]. rewrite length_app. lia.
Qed.

(** A control frame arrives as it was sent.  The bytes that are queued carry a
    header whose length is the payload's; whatever pieces the payload arrives in,
    the receiver assembles the command and the checkpoint name, and a client that
    expects the command delivers exactly them. *)
Theorem control_frame_roundtrip command checkpoint chunks c :
  (length checkpoint <= 511)%nat -> control_payload c = [] ->
  drop 9 (control_frame command checkpoint) = concat chunks ->
  let frame := control_frame command checkpoint in
  frame_length frame = Z.of_nat (length (drop 9 frame)) /\
  frame !! 3%nat = Some LUPINE_HANDOFF_CONTROL_FRAME /\
  let '(r, c1) := feed_extension 0 0 (frame_length frame) chunks c in
  r = 0 /\ control_payload c1 = command :: checkpoint /\
  (checkpoint_pending c = negb (command =? ch_P) ->
   command ∈ [ch_P; ch_C; ch_F; ch_X] ->
   let '(r, c2) := on_control_frame false false c1 in
   r = 0 /\ process_controls c2 = process_controls c ++ [(command, checkpoint)] /\
   control_payload c2 = []).
Proof.
  intros Hlen Hemp Hch. simpl in Hch. set (frame := control_frame command checkpoint).
  assert (frame_length frame = Z.of_nat (length checkpoint + 1)) as Hfl.
  { unfold frame, control_frame, frame_length. simpl.
    rewrite Z.shiftr_div_pow2 by lia. change (2 ^ 8) with 256.
    rewrite (Z.mod_small (_ / 256)) by (split; [apply Z.div_pos|apply Z.div_lt_upper_bound]; lia).
    pose proof (Z.div_mod (Z.of_nat (length checkpoint + 1)) 256 ltac:(lia)). lia. }
  split; [rewrite Hfl; unfold frame, control_frame; simpl; lia|]. split; [done|].
  rewrite feed_extension_spec; rewrite ?Hemp, ?Hfl; [|lia|rewrite <- Hch; simpl; lia].
  rewrite <- Hch. split_and!; [done|done|]. intros Hpend Hin. unfold on_control_frame. simpl.
  rewrite Hpend. apply elem_of_cons in Hin as [-> |Hin]; [done|].
  apply elem_of_cons in Hin as [-> |Hin]; [done|]. apply elem_of_cons in Hin as [-> |Hin]; [done|].
  by apply list_elem_of_singleton in Hin as ->.
Qed.

(** * Runs *)

Module HandoffSample.
Import Stored.

Definition quiet (t : h2_transport) : session_answer := SessionAnswer true [] true.
Definition checkpoint : list Z := [49].
Definition frame : list byte := control_frame ch_A checkpoint.

(** Two bytes of output, the barrier of checkpoint 1, one more byte. *)
Definition before : h2_transport := set_outbound [1; 2] (new_transport false).
Definition pending : h2_control := set_controls [] (set_parked 5 true false (new_control 5)).
Definition request : barrier_request := Barrier [1; 2] ch_A checkpoint.
Definition queued : h2_transport * h2_control := h2_queue_process_control_locked ch_A checkpoint true before pending.
Definition after : h2_transport := set_outbound (outbound queued.1 ++ [3]) queued.1.

Definition armed : wire :=
  Wire after queued.2 [] [] (([1; 2] ++ frame) ++ [3]) [request] None false (HWaiting request) [].

(** The peer's frame arrives in one piece. *)
Lemma receive_frame w command c : control_payload (wc w) = [] ->
  (command = ch_C \/ command = ch_X -> socket_parked (wc w) = false) ->
  on_control_frame false false (set_payload (command :: checkpoint) (wc w)) = (0, c) ->
  rtc (wire_step false) w (with_control c w).
Proof.
  intros Hp Hg Hf. eapply rtc_l; [by apply (wire_other false w (set_payload (command :: checkpoint) (wc w)))|].
  apply rtc_once. change (with_control c w) with (with_control c (with_control (set_payload (command :: checkpoint) (wc w)) w)).
  by apply (wire_frame false _ false command checkpoint).
Qed.

Lemma armed_run : rtc (wire_step false) (new_wire false 5) armed.
Proof.
  etrans; [by apply (receive_frame (new_wire false 5) ch_P (set_controls [(ch_P, checkpoint)] pending)); naive_solver|].
  eapply rtc_l; [by apply (wire_receive false _ ch_P checkpoint pending HIdle); [|left]|].
  eapply rtc_l; [by apply (wire_output false _ before [1; 2])|].
  eapply rtc_l; [by apply (wire_acknowledge false _ checkpoint)|].
  apply rtc_once. refine (wire_output false _ after [3] _ _); done.
Qed.

(** The writer's turn, the barrier's bytes in two writes, the commit, and the replacement. *)
Definition taken : list byte * h2_transport * h2_control := take_chunk after queued.2.
Definition stopped : h2_control := set_busy false taken.2.
Definition committed : h2_control := set_controls [(ch_C, checkpoint)] (set_parked 5 true true stopped).
Definition resumed : h2_control := set_pause false 0 (set_parked 9 false false (set_controls [] committed)).

Definition at_barrier (c : h2_control) (h : handoff) : wire :=
  Wire taken.1.2 c (pair 5 <$> [1; 2] ++ frame) [] ((([1; 2] ++ frame) ++ [3]) ++ []) [request] (Some request) false h [].

Lemma barrier_run : rtc (wire_step false) (new_wire false 5) (at_barrier stopped (HPassed request)).
Proof.
  etrans; [apply armed_run|].
  eapply rtc_l; [by apply (wire_take false armed quiet 1 (set_flush_pending [] after) [] taken.1.1 taken.1.2 taken.2)|].
  eapply rtc_l; [by apply (wire_write false _ 4)|].
  eapply rtc_l; [by apply (wire_write false _ 20)|].
  eapply rtc_l; [by apply (wire_done false _ taken.1.2 stopped)|].
  apply rtc_once. by apply (wire_passed false (at_barrier stopped (HWaiting request)) request).
Qed.

Definition finished : wire :=
  Wire (set_outbound [] taken.1.2) (set_busy true resumed) ((pair 5 <$> [1; 2] ++ frame) ++ [(9, 3)]) []
    (((([1; 2] ++ frame) ++ [3]) ++ []) ++ []) [request] (Some request) false HIdle [(request, 9)].

Lemma finished_run : rtc (wire_step false) (new_wire false 5) finished.
Proof.
  etrans; [apply barrier_run|].
  etrans; [by apply (receive_frame _ ch_C committed)|].
  eapply rtc_l; [apply (wire_receive false _ ch_C checkpoint (set_controls [] committed) (HReady request)); [done|right; by exists request]|].
  eapply rtc_l; [by apply (wire_park false _ request (set_parked LUPINE_INVALID_SOCKET true true (set_controls [] committed)))|].
  eapply rtc_l; [by apply (wire_resume false _ request 9 resumed)|].
  eapply rtc_l; [by apply (wire_take false _ quiet 1 (set_flush_pending [] taken.1.2) [] [3] (set_outbound [] taken.1.2) (set_busy true resumed))|].
  apply rtc_once. refine (wire_write false _ 1 _ _); done.
Qed.
End HandoffSample.
Import Stored.

Lemma handoff_cuts_output_witness :
  let w := HandoffSample.finished in
  sent w = (pair 5 <$> [1; 2] ++ control_frame ch_A [49]) ++ [(9, 3)] /\
  (forall k f b, sent w !! k = Some (f, b) -> f = if (k <? 13)%nat then 5 else 9) /\
  cut_bytes HandoffSample.request `prefix_of` (sent w).*2 /\
  h2_write_main_turn HandoffSample.quiet 1 (wt (HandoffSample.at_barrier HandoffSample.stopped (HPassed HandoffSample.request)))
    HandoffSample.stopped = Some WriterWaits.
Proof.
  destruct (handoff_cuts_output false 5 _ HandoffSample.finished_run) as (_ & Hs & Hh & _).
  destruct (handoff_cuts_output false 5 _ HandoffSample.barrier_run) as (_ & _ & _ & Hp).
  split; [reflexivity|]. split; [exact Hs|]. split; [|by apply Hp].
  apply (Hh HandoffSample.request 9). apply list_elem_of_here.
Defined.

Lemma barrier_reached_in_one_turn_witness :
  exists r chunk t2 c2, last (barriers HandoffSample.armed) = Some r /\
    h2_write_main_turn HandoffSample.quiet 1 HandoffSample.after HandoffSample.queued.2 =
      Some (WriterWrites chunk t2 c2) /\
    [] ++ chunk = cut_bytes r /\
    let '(t3, c3) := h2_write_main_done true t2 c2 in send_control_end ch_A t3 c3 = Some 0.
Proof.
  apply (barrier_reached_in_one_turn false 5 HandoffSample.armed HandoffSample.quiet 1
    (set_flush_pending [] HandoffSample.after) HandoffSample.armed_run); done.
Defined.

(** A cancellation that arrives while the acknowledgement is still queued does not take its
    barrier back: [pause_after_bytes] stays, the writer pauses at it afterwards, and nothing
    of the cancelled checkpoint lets it run again. *)
Theorem cancel_before_barrier_pauses :
  let c := (on_control_frame false false (set_payload (ch_X :: HandoffSample.checkpoint) HandoffSample.queued.2)).2 in
  checkpoint_pending c = false /\ process_controls c = [(ch_X, HandoffSample.checkpoint)] /\
  exists chunk t' c', h2_write_main_turn HandoffSample.quiet 1 HandoffSample.after c = Some (WriterWrites chunk t' c') /\
    writer_paused c' = true /\ outbound t' = [3] /\ checkpoint_pending c' = false /\
    h2_write_main_turn HandoffSample.quiet 1 t' (set_busy false c') = Some WriterWaits.
Proof. cbv zeta. split; [reflexivity|]. split; [reflexivity|]. eexists _, _, _. by split_and!. Qed.

Lemma control_frame_roundtrip_witness :
  frame_length (control_frame ch_P [49; 50]) = 3 /\
  let '(r, c1) := feed_extension 0 0 3 [[ch_P; 49]; [50]] (new_control 5) in
  r = 0 /\ control_payload c1 = [ch_P; 49; 50].
Proof.
  destruct (control_frame_roundtrip ch_P [49; 50] [[ch_P; 49]; [50]] (new_control 5))
    as (Hl&_&Hr&Hp&_); [simpl; lia|done|done|].
  split; [exact Hl|]. split; [exact Hr|exact Hp].
Defined.
