(* ===== verification/H2Handshake.v ===== *)
(** The handshake of [h2.cpp]: the headers a client and a server exchange before
    any payload flows, how the server decides a request (content encoding, client
    bundle, address arena), how the client judges the answer, and the frame
    callback that ties these to the streams and to the handoff controls. *)
From S2P Require Import Prelude VisibleDevices Va Dispatch H2State H2Receive H2Send H2Handoff.

(** * Hexadecimal numbers in headers *)

Definition hex_digit (d : Z) : Z := if d <? 10 then ch_0 + d else 87 + d.

Fixpoint hex_digits (n : nat) (value : Z) (acc : list Z) : list Z :=
  match n with
  | O => acc
  | S n =>
      let acc := hex_digit (value mod 16) :: acc in
      if value / 16 =? 0 then acc else hex_digits n (value / 16) acc
  end.

(** [ostream << std::hex] of a 64-bit value. *)
Definition h2_hex (value : Z) : list Z := hex_digits 16 value [].

Definition hex_value (c : Z) : option Z :=
  if is_digit c then Some (c - ch_0)
  else if (97 <=? c) && (c <=? 102) then Some (c - 87)
  else if (65 <=? c) && (c <=? 70) then Some (c - 55)
  else None.

(** [isspace] of the C locale. *)
Definition is_space (c : Z) : bool := (c =? 32) || ((9 <=? c) && (c <=? 13)).

(** The digits at the front, their value, and the rest. *)
Fixpoint hex_prefix (acc : Z) (s : list Z) : Z * list Z :=
  match s with
  | c :: rest => match hex_value c with
                 | Some d => hex_prefix (acc * 16 + d) rest
                 | None => (acc, s)
                 end
  | [] => (acc, [])
  end.

(** [strtoull] in base 16: the value, whether it was out of range, and where it
    stopped; [None] when there was nothing to convert. *)
Definition strtoull16 (s : list Z) : option (Z * bool * list Z) :=
  let s := drop_while is_space s in
  let '(negative, s) :=
    match s with
    | c :: rest => if c =? 45 then (true, rest) else if c =? 43 then (false, rest) else (false, s)
    | [] => (false, s)
    end in
  let digits :=
    match s with
    | c :: x :: d :: rest =>
        if (c =? ch_0) && ((x =? 120) || (x =? 88)) && bool_decide (is_Some (hex_value d))
        then d :: rest else s
    | _ => s
    end in
  match digits with
  | c :: _ =>
      if bool_decide (is_Some (hex_value c)) then
        let '(number, rest) := hex_prefix 0 digits in
        if 2 ^ 64 <=? number then Some (2 ^ 64 - 1, true, rest)
        else Some (if negative then wrap64 (- number) else number, false, rest)
      else None
  | [] => None
  end.

(** The C string of a [std::string]. *)
Fixpoint c_str (s : list Z) : list Z :=
  match s with
  | c :: rest => if c =? 0 then [] else c :: c_str rest
  | [] => []
  end.

Definition h2_parse_hex64 (value : list Z) : option Z :=
  if bool_decide (value = []) then None
  else match strtoull16 (c_str value) with
       | Some (number, out_of_range, rest) =>
           if out_of_range || negb (bool_decide (rest = [])) then None else Some number
       | None => None
       end.

Definition UINTPTR_MAX : Z := 2 ^ 64 - 1.

Definition h2_parse_hex (value : list Z) : option Z :=
  match h2_parse_hex64 value with
  | Some number => if UINTPTR_MAX <? number then None else Some number
  | None => None
  end.

(** * The strings of a transport *)

Inductive h2_string :=
  | peer_cuda_version | peer_bulk_token | peer_client_etag
  | peer_va_base | peer_va_size | peer_window_base | peer_window_size
  | client_etag | client_platform | session_id
  | expected_client_etag | server_version | server_bulk_token.

#[export] Instance h2_string_eq_dec : EqDecision h2_string.
Proof. solve_decision. Defined.

Record h2_peer := Peer {
  strings : h2_string -> list Z;
  bundles : option lupine_client_bundle_registry;
  request_received : bool;
  request_handled : bool;
  request_status : Z;
  shutdown_acknowledged : bool;
}.

Definition set_string (f : h2_string) (value : list Z) (p : h2_peer) : h2_peer :=
  Peer (fun g => if decide (g = f) then value else strings p g) (bundles p)
    (request_received p) (request_handled p) (request_status p) (shutdown_acknowledged p).

Definition set_request (received handled : bool) (status : Z) (p : h2_peer) : h2_peer :=
  Peer (strings p) (bundles p) received handled status (shutdown_acknowledged p).

(** A server's strings are its metadata, a client's are empty. *)
Definition server_peer (version token : option (list Z))
    (registry : option lupine_client_bundle_registry) : h2_peer :=
  set_string server_version (default [] version)
    (set_string server_bulk_token (default [] token)
       (Peer (fun _ => []) registry false false 0 false)).

Definition client_peer : h2_peer := Peer (fun _ => []) None false false 0 false.

(** * Headers *)

Definition kContentEncodingHeader : list Z := chars "content-encoding".
Definition kZstdEncoding : list Z := chars "zstd".
Definition kLupineCudaVersionHeader : list Z := chars "x-lupine-cuda-version".
Definition kLupineSessionHeader : list Z := chars "x-lupine-session".
Definition kLupineVaBaseHeader : list Z := chars "x-lupine-va-base".
Definition kLupineVaSizeHeader : list Z := chars "x-lupine-va-size".
Definition kLupineBulkTokenHeader : list Z := chars "x-lupine-bulk-token".
Definition kLupineClientEtagHeader : list Z := chars "x-lupine-client-etag".
Definition kLupineClientPlatformHeader : list Z := chars "x-lupine-client-platform".
Definition kLupineVaWindowBaseHeader : list Z := chars "x-lupine-va-window-base".
Definition kLupineVaWindowSizeHeader : list Z := chars "x-lupine-va-window-size".
Definition kStatusHeader : list Z := chars ":status".

Definition same_name (a b : list Z) : bool := bool_decide (a = b).

Definition header : Type := list Z * list Z.

(** The category of a HEADERS frame. *)
Inductive headers_category := CatRequest | CatResponse | CatOther.

Definition set_head (h : h2_headers) `{Zstd} (s : h2_stream) : h2_stream :=
  Stream (s_in s) (s_out s) h (closed s) (remote_end s).

(** The number in the front digits of a status; the loop leaves at the first
    character that is not a digit. *)
Fixpoint status_number (acc : Z) (value : list Z) : Z :=
  match value with
  | c :: rest => if is_digit c then status_number (acc * 10 + (c - ch_0)) rest else acc
  | [] => acc
  end.

Section Headers.
Context `{Zstd}.

Definition update_head (id : Z) (f : h2_headers -> h2_headers) (t : h2_transport)
    : h2_transport :=
  let s := h2_get_stream t id in put_stream id (set_head (f (s_head s)) s) t.

Definition encoding_header (value : list Z) (h : h2_headers) : h2_headers :=
  Headers true (negb (content_encoding_seen h) && bool_decide (value = kZstdEncoding))
    (response_received h) (response_sent h) (response_status h) (requested_va_base h)
    (requested_va_size h).

Definition set_requested_base (value : list Z) (h : h2_headers) : h2_headers :=
  Headers (content_encoding_seen h) (zstd_encoded h) (response_received h) (response_sent h)
    (response_status h) value (requested_va_size h).

Definition set_requested_size (value : list Z) (h : h2_headers) : h2_headers :=
  Headers (content_encoding_seen h) (zstd_encoded h) (response_received h) (response_sent h)
    (response_status h) (requested_va_base h) value.

Definition set_response_status (status : Z) (h : h2_headers) : h2_headers :=
  Headers (content_encoding_seen h) (zstd_encoded h) (response_received h) (response_sent h)
    status (requested_va_base h) (requested_va_size h).

(** [is_headers]: the frame is a HEADERS frame; the callback always succeeds. *)
Definition h2_on_header_callback (is_headers : bool) (cat : headers_category) (id : Z)
    (h : header) (st : h2_transport * h2_peer) : h2_transport * h2_peer :=
  let '(t, p) := st in
  let '(name, value) := h in
  if negb is_headers then (t, p)
  else if same_name name kContentEncodingHeader
  then (update_head id (encoding_header value) t, p)
  else
    let touched := update_head id (fun h => h) t in
    if server t then
      match cat with
      | CatRequest =>
          if same_name name kLupineSessionHeader then (touched, set_string session_id value p)
          else if same_name name kLupineClientEtagHeader
          then (touched, set_string client_etag value p)
          else if same_name name kLupineClientPlatformHeader
          then (touched, set_string client_platform value p)
          else if same_name name kLupineVaBaseHeader
          then (update_head id (set_requested_base value) t, p)
          else if same_name name kLupineVaSizeHeader
          then (update_head id (set_requested_size value) t, p)
          else (touched, p)
      | _ => (touched, p)
      end
    else
      match cat with
      | CatResponse =>
          if same_name name kLupineCudaVersionHeader
          then (touched, set_string peer_cuda_version value p)
          else if same_name name kLupineClientEtagHeader
          then (touched, set_string peer_client_etag value p)
          else if same_name name kLupineBulkTokenHeader
          then (touched, set_string peer_bulk_token value p)
          else if same_name name kLupineVaWindowBaseHeader
          then (touched, set_string peer_window_base value p)
          else if same_name name kLupineVaWindowSizeHeader
          then (touched, set_string peer_window_size value p)
          else if same_name name kLupineVaBaseHeader
          then (touched, set_string peer_va_base value p)
          else if same_name name kLupineVaSizeHeader
          then (touched, set_string peer_va_size value p)
          else if same_name name kStatusHeader
          then (update_head id (set_response_status (status_number 0 value)) t, p)
          else (touched, p)
      | _ => (touched, p)
      end.

Definition on_headers (cat : headers_category) (id : Z) (hs : list header)
    (st : h2_transport * h2_peer) : h2_transport * h2_peer :=
  fold_left (fun st h => h2_on_header_callback true cat id h st) hs st.

(** The headers of a response. *)
Definition response_headers (status : Z) (end_stream : bool) (p : h2_peer) (c : va_fields)
    : list header :=
  let text := if status =? 200 then chars "200" else if status =? 409 then chars "409"
              else if status =? 426 then chars "426" else chars "400" in
  let optional name f := if bool_decide (strings p f = []) then [] else [(name, strings p f)] in
  let window := lupine_va_local_window in
  [(kStatusHeader, text)]
  ++ (if end_stream then [] else [(kContentEncodingHeader, kZstdEncoding)])
  ++ optional kLupineCudaVersionHeader server_version
  ++ optional kLupineClientEtagHeader expected_client_etag
  ++ optional kLupineBulkTokenHeader server_bulk_token
  ++ (if win_size window =? 0 then []
      else [(kLupineVaWindowBaseHeader, h2_hex (win_base window));
            (kLupineVaWindowSizeHeader, h2_hex (win_size window))])
  ++ (if (status =? 200) && negb (va_size c =? 0)
      then [(kLupineVaBaseHeader, h2_hex (va_base c)); (kLupineVaSizeHeader, h2_hex (va_size c))]
      else []).

(** The headers of a client's handshake request; the environment's strings may be
    unset. *)
Record client_environment := ClientEnvironment {
  env_client_etag : option (list Z);
  env_client_platform : option (list Z);
  env_session : option (list Z);
}.

Definition request_headers (probe tls : bool) (env : client_environment) (c : va_fields)
    : list header :=
  let optional name (value : option (list Z)) :=
    let value := default [] value in if bool_decide (value = []) then [] else [(name, value)] in
  [(chars ":method", if probe then chars "HEAD" else chars "POST");
   (chars ":scheme", if tls then chars "https" else chars "http");
   (chars ":path", chars "/"); (chars ":authority", chars "lupine")]
  ++ (if probe then []
      else
        [(kContentEncodingHeader, kZstdEncoding)]
        ++ optional kLupineClientEtagHeader (env_client_etag env)
        ++ optional kLupineClientPlatformHeader (env_client_platform env)
        ++ optional kLupineSessionHeader (env_session env)
        ++ (if va_size c =? 0 then []
            else [(kLupineVaBaseHeader, h2_hex (va_base c));
                  (kLupineVaSizeHeader, h2_hex (va_size c))])).
End Headers.

(** * Sessions *)

Definition LUPINE_RPC_HTTP2_CLIENT_MISMATCH : Z := -4.

Section Sessions.
Context `{Zstd} {M : Type} `{AddressSpace M}.

(** A transport with its connection's arena and the process's address space. *)
Record h2_session := Session {
  hs_t : h2_transport;
  hs_p : h2_peer;
  hs_c : h2_control;
  hs_va : va_fields;
  hs_m : M;
}.

Definition with_t (t : h2_transport) (s : h2_session) : h2_session :=
  Session t (hs_p s) (hs_c s) (hs_va s) (hs_m s).

Definition with_p (p : h2_peer) (s : h2_session) : h2_session :=
  Session (hs_t s) p (hs_c s) (hs_va s) (hs_m s).

Definition set_response_sent (h : h2_headers) : h2_headers :=
  Headers (content_encoding_seen h) (zstd_encoded h) (response_received h) true
    (response_status h) (requested_va_base h) (requested_va_size h).

Definition set_response_received (h : h2_headers) : h2_headers :=
  Headers (content_encoding_seen h) (zstd_encoded h) true (response_sent h)
    (response_status h) (requested_va_base h) (requested_va_size h).

Definition set_dispatch (id : Z) (t : h2_transport) : h2_transport :=
  H2Transport (server t) id (streams t) (incoming_streams t) (local_lanes t) (buffer_pool t)
    (buffer_pool_bytes t) (outbound t) (flush_pending t) (write_failed t) (transport_failed t).

Definition push_incoming (id : Z) (t : h2_transport) : h2_transport :=
  H2Transport (server t) (dispatch_stream_id t) (streams t) (incoming_streams t ++ [id])
    (local_lanes t) (buffer_pool t) (buffer_pool_bytes t) (outbound t) (flush_pending t)
    (write_failed t) (transport_failed t).

(** [submitted]: the session accepted the headers.  The answer carries them. *)
Definition h2_submit_server_response (submitted : bool) (id status : Z) (end_stream : bool)
    (s : h2_session) : Z * list header * h2_session :=
  let hs := response_headers status end_stream (hs_p s) (hs_va s) in
  if submitted then (0, hs, with_t (update_head id set_response_sent (hs_t s)) s)
  else (-1, [], with_t (update_head id (fun h => h) (hs_t s)) s).

(** The bundle check of a request that names its client: the status, and the
    etag the server expects when it knows the platform. *)
Definition bundle_status (status : Z) (p : h2_peer) : Z * h2_peer :=
  let complete := negb (bool_decide (strings p client_etag = []))
                  && negb (bool_decide (strings p client_platform = [])) in
  match (if complete
         then lupine_client_bundle_lookup (bundles p) (strings p client_platform) else None) with
  | Some bundle =>
      (if bool_decide (strings p client_etag = etag bundle) then status else 426,
       set_string expected_client_etag (etag bundle) p)
  | None => (426, p)
  end.

(** The arena a request asks for: the status and the reservation. *)
Definition arena_status (status : Z) (h : h2_headers) (c : va_fields) (m : M)
    : Z * va_fields * M :=
  match (if bool_decide (requested_va_base h = []) || bool_decide (requested_va_size h = [])
         then None
         else match h2_parse_hex (requested_va_base h), h2_parse_hex (requested_va_size h) with
              | Some base, Some size => Some (base, size)
              | _, _ => None
              end) with
  | None => (400, c, m)
  | Some (base, size) =>
      let '(r, c, m) := lupine_va_reserve_server base size c m in
      (if r <? 0 then 409 else status, c, m)
  end.

(** A request's headers are complete. *)
Definition on_request_headers (submitted : bool) (id : Z) (probe : bool) (s : h2_session)
    : Z * list header * h2_session :=
  let t := update_head id (fun h => h) (hs_t s) in
  let h := s_head (h2_get_stream t id) in
  let p := hs_p s in
  let status := if zstd_encoded h || probe then 200 else 400 in
  let '(status, p) :=
    if negb probe && (status =? 200)
       && (negb (bool_decide (strings p client_etag = []))
           || negb (bool_decide (strings p client_platform = [])))
    then bundle_status status p else (status, p) in
  let '(status, c, m) :=
    if negb probe && (negb (bool_decide (requested_va_base h = []))
                      || negb (bool_decide (requested_va_size h = [])))
    then arena_status status h (hs_va s) (hs_m s) else (status, hs_va s, hs_m s) in
  let dispatch := (status =? 200) && negb probe && (dispatch_stream_id t <? 0) in
  let p := set_request true (probe || (negb (status =? 200) && negb (status =? 409))) status p in
  let t := if dispatch then set_dispatch id t
           else if (status =? 200) && negb probe then push_incoming id t else t in
  let s := Session t p (hs_c s) c m in
  if negb (response_sent h) then
    let '(r, hs, s) := h2_submit_server_response submitted id status
                         (probe || negb (status =? 200)) s in
    (if r <? 0 then NGHTTP2_ERR_CALLBACK_FAILURE else 0, hs, s)
  else (0, [], s).

(** A response's headers are complete. *)
Definition on_response_headers (id : Z) (end_stream : bool) (t : h2_transport)
    : Z * h2_transport :=
  let h := s_head (h2_get_stream t id) in
  if negb end_stream && negb (zstd_encoded h)
  then (NGHTTP2_ERR_CALLBACK_FAILURE, update_head id (fun h => h) t)
  else (0, update_head id set_response_received t).

(** The peer ended the stream. *)
Definition on_end_stream (id : Z) (t : h2_transport) : Z * h2_transport :=
  let s := h2_get_stream t id in
  if zstd_encoded (s_head s) && negb (decoder_finished (s_in s))
  then (NGHTTP2_ERR_CALLBACK_FAILURE, put_stream id s t)
  else
    let s := Stream (s_in s) (s_out s) (s_head s) (closed s) true in
    let t := put_stream id s t in
    (0, if (id =? dispatch_stream_id t) && negb (h2_retryable_handshake_rejection t s)
        then h2_fail_transport_locked t else t).

Inductive h2_frame :=
  | FrameControl
  | FrameShutdownAck
  | FrameHeaders (cat : headers_category) (id : Z) (end_stream : bool)
  | FrameData (id : Z) (end_stream : bool)
  | FrameOther.

(** The callback for a complete frame, with the headers it submits. *)
Definition h2_on_frame_recv_callback (submitted resumes : bool) (frame : h2_frame)
    (s : h2_session) : Z * list header * h2_session :=
  let finish (r : Z) hs id (end_stream : bool) (s : h2_session) :=
    if negb (r =? 0) then (r, hs, s)
    else if end_stream then let '(r, t) := on_end_stream id (hs_t s) in (r, hs, with_t t s)
    else (0, hs, s) in
  match frame with
  | FrameControl =>
      let '(r, c) := on_control_frame (server (hs_t s)) resumes (hs_c s) in
      (r, [], Session (hs_t s) (hs_p s) c (hs_va s) (hs_m s))
  | FrameShutdownAck =>
      let p := hs_p s in
      (0, [], if server (hs_t s)
              then with_p (Peer (strings p) (bundles p) (request_received p) (request_handled p)
                             (request_status p) true) s
              else s)
  | FrameHeaders cat id end_stream =>
      match server (hs_t s), cat with
      | true, CatRequest =>
          let '(r, hs, s) := on_request_headers submitted id end_stream s in
          finish r hs id end_stream s
      | false, CatResponse =>
          let '(r, t) := on_response_headers id end_stream (hs_t s) in
          finish r [] id end_stream (with_t t s)
      | _, _ => finish 0 [] id end_stream s
      end
  | FrameData id end_stream => finish 0 [] id end_stream s
  | FrameOther => (0, [], s)
  end.

(** [fresh] is the stream the session opens, negative when it refuses. *)
Definition h2_submit_client_handshake (fresh : Z) (probe tls : bool) (env : client_environment)
    (s : h2_session) : Z * list header * h2_session :=
  let p := fold_right (fun f p => set_string f [] p) (hs_p s)
             [peer_cuda_version; peer_bulk_token; peer_client_etag; peer_va_base; peer_va_size;
              peer_window_base; peer_window_size] in
  let p := if probe then p
           else set_string session_id (default [] (env_session env))
                  (set_string client_platform (default [] (env_client_platform env))
                     (set_string client_etag (default [] (env_client_etag env)) p)) in
  let s := with_p p s in
  if fresh <? 0 then (fresh, [], s)
  else (fresh, request_headers probe tls env (hs_va s),
        with_t (update_head fresh (fun h => h) (set_dispatch fresh (hs_t s))) s).

(** Waits for the answer to the handshake; [None] while it goes on. *)
Definition rpc_http2_client_await_ready (s : h2_session) : option Z :=
  let h := s_head (h2_get_stream (hs_t s) (dispatch_stream_id (hs_t s))) in
  if negb (response_received h) && negb (transport_failed (hs_t s)) then None
  else
    let responded := response_received h in
    let status := response_status h in
    let c := hs_va s in
    let arena_granted :=
      responded && (status =? 200)
      && match h2_parse_hex (strings (hs_p s) peer_va_base),
               h2_parse_hex (strings (hs_p s) peer_va_size) with
         | Some base, Some size => (base =? va_base c) && (size =? va_size c)
         | _, _ => false
         end in
    Some (if responded && (status =? 426) then LUPINE_RPC_HTTP2_CLIENT_MISMATCH
          else if va_size c =? 0 then (if responded && (status =? 200) then 0 else -1)
          else if arena_granted then 0
          else if responded && (status =? 409) then LUPINE_RPC_HTTP2_VA_CONFLICT else -1).

(** A second handshake on the same connection, up to its wait.  [reset]: the
    session accepted the reset of the rejected stream, [flushed]: it sent. *)
Definition rpc_http2_client_retry_handshake (reset : bool) (fresh : Z) (flushed tls : bool)
    (env : client_environment) (s : h2_session) : Z * list header * h2_session :=
  let t := hs_t s in
  let previous := h2_get_stream t (dispatch_stream_id t) in
  let s := with_t (update_head (dispatch_stream_id t) (fun h => h) t) s in
  if negb (server t) && negb (transport_failed t) && h2_retryable_handshake_rejection t previous
  then
    if reset then
      let '(id, hs, s) := h2_submit_client_handshake fresh false tls env s in
      if (0 <=? id) && flushed then (0, hs, s)
      else (-1, hs, with_t (h2_fail_transport_locked (hs_t s)) s)
    else (-1, [], with_t (h2_fail_transport_locked (hs_t s)) s)
  else (-1, [], s).

Definition rpc_http2_peer_va_window (p : h2_peer) : option lupine_va_window :=
  match h2_parse_hex (strings p peer_window_base), h2_parse_hex (strings p peer_window_size) with
  | Some base, Some size =>
      if (size =? 0) || (UINTPTR_MAX - size <? base) then None else Some (VaWindow base size)
  | _, _ => None
  end.

Definition rpc_http2_peer_bulk_token (p : h2_peer) : option (list Z) :=
  if bool_decide (strings p peer_bulk_token = []) then None else Some (strings p peer_bulk_token).

(** The version a probe learns, once answered. *)
Definition rpc_http2_client_probe (s : h2_session) : option (option (list Z)) :=
  let h := s_head (h2_get_stream (hs_t s) (dispatch_stream_id (hs_t s))) in
  if negb (response_received h) && negb (transport_failed (hs_t s)) then None
  else Some (if response_received h && (response_status h =? 200)
                && negb (bool_decide (strings (hs_p s) peer_cuda_version = []))
             then Some (strings (hs_p s) peer_cuda_version) else None).

(** One look of the server's wait for its first request: the result, or the
    state in which it waits again. *)
Definition server_init_look (s : h2_session) : Z + h2_session :=
  if transport_failed (hs_t s) then inl (-1)
  else if negb (request_received (hs_p s)) then inr s
  else if request_status (hs_p s) =? 409
  then inr (with_p (set_request false (request_handled (hs_p s)) 409 (hs_p s)) s)
  else inl (if request_handled (hs_p s) then 1 else 0).

Definition rpc_http2_session_id (p : h2_peer) : option (list Z) :=
  if bool_decide (strings p session_id = []) then None else Some (strings p session_id).
End Sessions.

(** * Numbers *)

Definition hex_char (c : Z) : Prop := 48 <= c <= 57 \/ 97 <= c <= 102.

Lemma hex_digit_spec d : 0 <= d < 16 -> hex_char (hex_digit d) /\ hex_value (hex_digit d) = Some d.
Proof.
  intros Hd. unfold hex_digit, hex_char, hex_value, is_digit, ch_0, ch_9.
  destruct (Z.ltb_spec d 10).
  - split; [lia|]. rewrite (proj2 (andb_true_iff _ _)) by (rewrite !Z.leb_le; lia). f_equal. lia.
  - split; [lia|].
    rewrite (proj2 (andb_false_iff (48 <=? 87 + d) _)) by (rewrite !Z.leb_gt; lia).
    rewrite (proj2 (andb_true_iff _ _)) by (rewrite !Z.leb_le; lia). f_equal. lia.
Qed.

Lemma hex_digits_spec n value acc :
  0 <= value < 16 ^ Z.of_nat (S n) -> Forall hex_char acc ->
  Forall hex_char (hex_digits (S n) value acc) /\ hex_digits (S n) value acc <> [] /\
  hex_prefix 0 (hex_digits (S n) value acc) = hex_prefix value acc.
Proof.
  revert value acc. induction n as [|n IH]; intros value acc Hv Hacc.
  all: destruct (hex_digit_spec (value mod 16)) as [Hc Hx]; [apply Z.mod_pos_bound; lia|].
  all: pose proof (Z.div_mod value 16 ltac:(lia)) as Hdm.
  all: assert (value / 16 = 0 ->
         hex_prefix 0 (hex_digit (value mod 16) :: acc) = hex_prefix value acc) as Hlast
         by (intros E; simpl; rewrite Hx; f_equal; lia).
  - assert (value / 16 = 0) as E by (apply Z.div_small; lia).
    cbn [hex_digits]. rewrite E. simpl. split_and!; [by constructor|done|auto].
  - cbn [hex_digits]. destruct (Z.eqb_spec (value / 16) 0) as [E|E].
    { split_and!; [by constructor|done|auto]. }
    destruct (IH (value / 16) (hex_digit (value mod 16) :: acc)) as (Hf&Hne&Hp).
    + split; [apply Z.div_pos; lia|]. apply Z.div_lt_upper_bound; [lia|].
      rewrite (Nat2Z.inj_succ (S n)), Z.pow_succ_r in Hv by lia. lia.
    + by constructor.
    + split_and!; [exact Hf|exact Hne|]. etrans; [exact Hp|]. simpl. rewrite Hx. f_equal. lia.
Qed.

Lemma hex_char_value c : hex_char c -> is_Some (hex_value c).
Proof.
  unfold hex_char, hex_value, is_digit, ch_0, ch_9. intros Hc.
  repeat case_if; eauto; exfalso; breflect; destruct_or?; lia.
Qed.

Lemma c_str_hex s : Forall hex_char s -> c_str s = s.
Proof.
  induction 1 as [|c s Hc _ IH]; [done|]. simpl.
  destruct (Z.eqb_spec c 0); [unfold hex_char in Hc; lia|by rewrite IH].
Qed.

(** A string of lower-case digits has no sign, space or prefix. *)
Lemma strtoull16_hex s number rest :
  Forall hex_char s -> s <> [] -> hex_prefix 0 s = (number, rest) -> number < 2 ^ 64 ->
  strtoull16 s = Some (number, false, rest).
Proof.
  intros Hs Hne Hp Hn. destruct s as [|c s]; [done|]. pose proof Hs as [Hc Hs']%Forall_cons.
  unfold strtoull16.
  assert (is_space c = false) as Hsp.
  { unfold is_space. unfold hex_char in Hc. repeat case_if; try done.
    apply orb_false_iff. split; [apply Z.eqb_neq; lia|].
    apply andb_false_iff. rewrite !Z.leb_gt. lia. }
  simpl drop_while. rewrite Hsp.
  destruct (Z.eqb_spec c 45); [unfold hex_char in Hc; lia|].
  destruct (Z.eqb_spec c 43); [unfold hex_char in Hc; lia|].
  assert (match c :: s with
          | c' :: x :: d :: rest' =>
              if (c' =? ch_0) && ((x =? 120) || (x =? 88)) && bool_decide (is_Some (hex_value d))
              then d :: rest' else c :: s
          | _ => c :: s
          end = c :: s) as ->.
  { destruct s as [|x [|d s]]; [done|done|]. apply Forall_cons in Hs' as [Hx _].
    unfold hex_char in Hx. destruct (Z.eqb_spec x 120); [lia|]. destruct (Z.eqb_spec x 88); [lia|].
    by rewrite andb_false_r. }
  rewrite bool_decide_eq_true_2 by (by apply hex_char_value). rewrite Hp.
  by destruct (Z.leb_spec (2 ^ 64) number); [lia|].
Qed.

Lemma parse_hex_hex value : is_u64 value -> h2_hex value <> [] /\ h2_parse_hex (h2_hex value) = Some value.
Proof.
  intros Hv. destruct (hex_digits_spec 15 value []) as (Hf&Hne&Hp); [exact Hv|constructor|].
  split; [exact Hne|]. unfold h2_parse_hex, h2_parse_hex64.
  rewrite bool_decide_eq_false_2 by exact Hne. rewrite c_str_hex by exact Hf.
  rewrite (strtoull16_hex _ value []); [|exact Hf|exact Hne|exact Hp|apply Hv]. simpl.
  unfold UINTPTR_MAX. unfold is_u64 in Hv. by destruct (Z.ltb_spec (2 ^ 64 - 1) value); [lia|].
Qed.

(** * Header callbacks *)

(** Decides comparisons of literal header names. *)
Ltac eval_names :=
  repeat match goal with
  | |- context [same_name ?a ?b] =>
      let v := eval vm_compute in (same_name a b) in
      lazymatch v with true => idtac | false => idtac end;
      change (same_name a b) with v; cbv iota beta
  end.

Section Exchange.
Context `{Zstd}.

Lemma update_head_update id f g t :
  update_head id f (update_head id g t) = update_head id (fun h => f (g h)) t.
Proof. unfold update_head. by rewrite get_put_same, put_put. Qed.

Lemma head_update id f t :
  s_head (h2_get_stream (update_head id f t) id) = f (s_head (h2_get_stream t id)).
Proof. unfold update_head. by rewrite get_put_same. Qed.

Lemma on_headers_app cat id a b st :
  on_headers cat id (a ++ b) st = on_headers cat id b (on_headers cat id a st).
Proof. apply fold_left_app. Qed.

Lemma on_headers_cons cat id h hs st :
  on_headers cat id (h :: hs) st = on_headers cat id hs (h2_on_header_callback true cat id h st).
Proof. done. Qed.

Lemma on_headers_nil cat id st : on_headers cat id [] st = st.
Proof. done. Qed.

Definition optional_header (name value : list Z) : list header :=
  if bool_decide (value = []) then [] else [(name, value)].

(** A server that got the optional header [name] for the string [f]. *)
Lemma server_optional id name f value t p F :
  server t = true -> strings p f = [] ->
  (forall q G, h2_on_header_callback true CatRequest id (name, value) (update_head id G t, q) =
     (update_head id (fun h => h) (update_head id G t), set_string f value q)) ->
  exists p', on_headers CatRequest id (optional_header name value) (update_head id F t, p) =
    (update_head id F t, p') /\ strings p' f = value /\
    (forall g, g <> f -> strings p' g = strings p g) /\ bundles p' = bundles p.
Proof.
  intros Hs Hf Hcb. unfold optional_header. case_bool_decide as Hv.
  - exists p. by subst.
  - rewrite on_headers_cons, Hcb, update_head_update. eexists. split; [done|]. simpl.
    split_and!; [by rewrite decide_True|intros g ?; by rewrite decide_False|done].
Qed.

Lemma server_callback id name value t p :
  server t = true ->
  h2_on_header_callback true CatRequest id (name, value) (t, p) =
    if same_name name kContentEncodingHeader
    then (update_head id (encoding_header value) t, p)
    else
      let touched := update_head id (fun h => h) t in
      if same_name name kLupineSessionHeader then (touched, set_string session_id value p)
      else if same_name name kLupineClientEtagHeader
      then (touched, set_string client_etag value p)
      else if same_name name kLupineClientPlatformHeader
      then (touched, set_string client_platform value p)
      else if same_name name kLupineVaBaseHeader
      then (update_head id (set_requested_base value) t, p)
      else if same_name name kLupineVaSizeHeader
      then (update_head id (set_requested_size value) t, p)
      else (touched, p).
Proof. intros Hs. unfold h2_on_header_callback. by rewrite Hs. Qed.

(** What a server knows once it has all headers of a handshake request. *)
Lemma server_gets_request id tls env c t p :
  server t = true ->
  strings p client_etag = [] -> strings p client_platform = [] -> strings p session_id = [] ->
  s_head (h2_get_stream t id) = s_head new_stream ->
  exists t' p', on_headers CatRequest id (request_headers false tls env c) (t, p) = (t', p') /\
    server t' = true /\ dispatch_stream_id t' = dispatch_stream_id t /\
    incoming_streams t' = incoming_streams t /\
    s_head (h2_get_stream t' id) =
      Headers true true false false 0
        (if va_size c =? 0 then [] else h2_hex (va_base c))
        (if va_size c =? 0 then [] else h2_hex (va_size c)) /\
    strings p' client_etag = default [] (env_client_etag env) /\
    strings p' client_platform = default [] (env_client_platform env) /\
    strings p' session_id = default [] (env_session env) /\ bundles p' = bundles p.
Proof.
  intros Hs He Hpl Hse Hh. unfold request_headers. cbv zeta.
  repeat match goal with |- context [if bool_decide (?v = []) then [] else [(?n, ?v)]] =>
    change (if bool_decide (v = []) then [] else [(n, v)]) with (optional_header n v) end.
  rewrite !on_headers_app, !on_headers_cons, !on_headers_nil.
  do 5 (rewrite server_callback by done; eval_names; cbv zeta).
  rewrite !update_head_update.
  set (F := fun h => encoding_header kZstdEncoding h).
  change (fun h => encoding_header _ _) with F.
  destruct (server_optional id kLupineClientEtagHeader client_etag
    (default [] (env_client_etag env)) t p F) as (p1&->&He1&Hr1&Hb1); [done|done| |].
  { intros q G. rewrite server_callback by done. by eval_names. }
  destruct (server_optional id kLupineClientPlatformHeader client_platform
    (default [] (env_client_platform env)) t p1 F) as (p2&->&He2&Hr2&Hb2);
    [done|by rewrite Hr1| |].
  { intros q G. rewrite server_callback by done. by eval_names. }
  destruct (server_optional id kLupineSessionHeader session_id
    (default [] (env_session env)) t p2 F) as (p3&->&He3&Hr3&Hb3);
    [done|by rewrite Hr2, Hr1| |].
  { intros q G. rewrite server_callback by done. by eval_names. }
  assert (strings p3 client_etag = default [] (env_client_etag env)) as Hq1
    by by rewrite Hr3, Hr2.
  assert (strings p3 client_platform = default [] (env_client_platform env)) as Hq2
    by by rewrite Hr3.
  destruct (va_size c =? 0).
  - exists (update_head id F t), p3. simpl on_headers. rewrite head_update, Hh.
    split_and!; done || congruence.
  - rewrite !on_headers_cons.
    do 2 (rewrite server_callback by done; eval_names). rewrite !update_head_update.
    eexists _, p3. split; [done|]. rewrite head_update, Hh. split_and!; done || congruence.
Qed.

Lemma client_callback id name value t p :
  server t = false ->
  h2_on_header_callback true CatResponse id (name, value) (t, p) =
    if same_name name kContentEncodingHeader
    then (update_head id (encoding_header value) t, p)
    else
      let touched := update_head id (fun h => h) t in
      if same_name name kLupineCudaVersionHeader
      then (touched, set_string peer_cuda_version value p)
      else if same_name name kLupineClientEtagHeader
      then (touched, set_string peer_client_etag value p)
      else if same_name name kLupineBulkTokenHeader
      then (touched, set_string peer_bulk_token value p)
      else if same_name name kLupineVaWindowBaseHeader
      then (touched, set_string peer_window_base value p)
      else if same_name name kLupineVaWindowSizeHeader
      then (touched, set_string peer_window_size value p)
      else if same_name name kLupineVaBaseHeader
      then (touched, set_string peer_va_base value p)
      else if same_name name kLupineVaSizeHeader
      then (touched, set_string peer_va_size value p)
      else if same_name name kStatusHeader
      then (update_head id (set_response_status (status_number 0 value)) t, p)
      else (touched, p).
Proof. intros Hs. unfold h2_on_header_callback. by rewrite Hs. Qed.

Lemma client_optional id name f value t p F :
  server t = false -> strings p f = [] ->
  (forall q G, h2_on_header_callback true CatResponse id (name, value) (update_head id G t, q) =
     (update_head id (fun h => h) (update_head id G t), set_string f value q)) ->
  exists p', on_headers CatResponse id (optional_header name value) (update_head id F t, p) =
    (update_head id F t, p') /\ strings p' f = value /\
    (forall g, g <> f -> strings p' g = strings p g).
Proof.
  intros Hs Hf Hcb. unfold optional_header. case_bool_decide as Hv.
  - exists p. by subst.
  - rewrite on_headers_cons, Hcb, update_head_update. eexists. split; [done|]. simpl.
    split_and!; [by rewrite decide_True|intros g ?; by rewrite decide_False].
Qed.

(** The statuses a server answers with. *)
Definition known_status (status : Z) : Prop :=
  status = 200 \/ status = 400 \/ status = 409 \/ status = 426.

(** What a client knows once it has all headers of the response. *)
Lemma client_gets_response id status end_stream p c t q :
  known_status status -> server t = false ->
  (forall f, f ∈ [peer_cuda_version; peer_client_etag; peer_bulk_token; peer_va_base; peer_va_size] ->
     strings q f = []) ->
  s_head (h2_get_stream t id) = s_head new_stream ->
  exists t' q', on_headers CatResponse id (response_headers status end_stream p c) (t, q) = (t', q') /\
    server t' = false /\ dispatch_stream_id t' = dispatch_stream_id t /\
    transport_failed t' = transport_failed t /\
    s_head (h2_get_stream t' id) =
      Headers (negb end_stream) (negb end_stream) false false status [] [] /\
    strings q' peer_client_etag = strings p expected_client_etag /\
    strings q' peer_cuda_version = strings p server_version /\
    strings q' peer_bulk_token = strings p server_bulk_token /\
    strings q' peer_window_base = h2_hex (win_base lupine_va_local_window) /\
    strings q' peer_window_size = h2_hex (win_size lupine_va_local_window) /\
    strings q' peer_va_base =
      (if (status =? 200) && negb (va_size c =? 0) then h2_hex (va_base c) else []) /\
    strings q' peer_va_size =
      (if (status =? 200) && negb (va_size c =? 0) then h2_hex (va_size c) else []).
Proof.
  intros Hst Hs Hq Hh. unfold response_headers. cbv zeta.
  repeat match goal with |- context [if bool_decide (?v = []) then [] else [(?n, ?v)]] =>
    change (if bool_decide (v = []) then [] else [(n, v)]) with (optional_header n v) end.
  set (text := if status =? 200 then _ else _).
  assert (status_number 0 text = status) as Htext.
  { unfold text. destruct Hst as [-> |[-> |[-> | ->]]]; reflexivity. }
  rewrite !on_headers_app, !on_headers_cons, !on_headers_nil.
  rewrite client_callback by done. eval_names. cbv zeta. rewrite Htext.
  match goal with |- context [on_headers CatResponse id ?l (update_head id ?f t, q)] =>
    assert (exists F, on_headers CatResponse id l (update_head id f t, q) =
      (update_head id F t, q) /\
      F (s_head new_stream) = Headers (negb end_stream) (negb end_stream) false false status [] [])
    as (F&->&HF) end.
  { destruct end_stream; [by eexists|]. rewrite on_headers_cons, client_callback by done.
    eval_names. rewrite update_head_update. by eexists. }
  destruct (client_optional id kLupineCudaVersionHeader peer_cuda_version
    (strings p server_version) t q F) as (p1&->&He1&Hr1); [done|by apply Hq; set_solver| |].
  { intros q' G. rewrite client_callback by done. by eval_names. }
  destruct (client_optional id kLupineClientEtagHeader peer_client_etag
    (strings p expected_client_etag) t p1 F) as (p2&->&He2&Hr2);
    [done|by rewrite Hr1, Hq by set_solver| |].
  { intros q' G. rewrite client_callback by done. by eval_names. }
  destruct (client_optional id kLupineBulkTokenHeader peer_bulk_token
    (strings p server_bulk_token) t p2 F) as (p3&->&He3&Hr3);
    [done|by rewrite Hr2, Hr1, Hq by set_solver| |].
  { intros q' G. rewrite client_callback by done. by eval_names. }
  change (win_size lupine_va_local_window =? 0) with false. cbv iota.
  rewrite !on_headers_cons, !on_headers_nil.
  do 2 (rewrite client_callback by done; eval_names; cbv zeta). rewrite !update_head_update.
  assert (strings p3 peer_va_base = [] /\ strings p3 peer_va_size = []) as [Hb0 Hz0].
  { split; by rewrite Hr3, Hr2, Hr1, Hq by set_solver. }
  assert (strings p3 peer_cuda_version = strings p server_version) by by rewrite Hr3, Hr2.
  assert (strings p3 peer_client_etag = strings p expected_client_etag) by by rewrite Hr3.
  destruct ((status =? 200) && negb (va_size c =? 0)).
  - rewrite !on_headers_cons, !on_headers_nil.
    do 2 (rewrite client_callback by done; eval_names; cbv zeta). rewrite !update_head_update.
    eexists _, _. split; [done|]. rewrite head_update, Hh. simpl strings.
    by split_and!.
  - rewrite on_headers_nil. eexists _, _. split; [done|]. rewrite head_update, Hh. simpl strings.
    by split_and!.
Qed.
End Exchange.

(** * The handshake of two sessions *)

Section Handshakes.
Context `{Zstd} {M : Type} `{AddressSpace M}.

(** A client's request on stream [fresh], the server's decision, its response, and
    the client's verdict. *)
Definition handshake (fresh : Z) (tls : bool) (env : client_environment)
    (client server : h2_session (M := M))
    : option Z * h2_session (M := M) * h2_session (M := M) :=
  let '(id, request, client) := h2_submit_client_handshake fresh false tls env client in
  let '(t, p) := on_headers CatRequest id request (hs_t server, hs_p server) in
  let '(_, response, server) :=
    h2_on_frame_recv_callback true false (FrameHeaders CatRequest id false)
      (Session t p (hs_c server) (hs_va server) (hs_m server)) in
  let '(t, p) := on_headers CatResponse id response (hs_t client, hs_p client) in
  let '(_, _, client) :=
    h2_on_frame_recv_callback true false
      (FrameHeaders CatResponse id (negb (request_status (hs_p server) =? 200)))
      (Session t p (hs_c client) (hs_va client) (hs_m client)) in
  (rpc_http2_client_await_ready client, client, server).

(** The client names itself but not as a bundle that the server carries. *)
Definition stale_client (env : client_environment)
    (registry : option lupine_client_bundle_registry) : bool :=
  let name := default [] (env_client_etag env) in
  let platform := default [] (env_client_platform env) in
  if bool_decide (name = []) && bool_decide (platform = []) then false
  else if bool_decide (name = []) || bool_decide (platform = []) then true
  else match lupine_client_bundle_lookup registry platform with
       | Some bundle => negb (bool_decide (name = etag bundle))
       | None => true
       end.

(** The arena that the server takes for the client's request. *)
Definition requested_arena (c cs : va_fields) (m : M) : Z * va_fields * M :=
  if va_size c =? 0 then (0, cs, m) else lupine_va_reserve_server (va_base c) (va_size c) cs m.

Lemma reserve_server_result base size cs m r c' m' :
  lupine_va_reserve_server base size cs m = (r, c', m') ->
  r = 0 /\ va_base c' = base /\ va_size c' = size \/ r = -1.
Proof.
  unfold lupine_va_reserve_server. repeat case_if; try (intros [= <- _ _]; by right).
  destruct (lupine_va_reserve_exact _ _ _) as [[] ?]; intros [= <- <- _]; [left|right]; done.
Qed.

(** The status of a request with everything in its headers. *)
Definition answer_status (conflict stale : bool) : Z :=
  if conflict then 409 else if stale then 426 else 200.

Lemma answer_status_known conflict stale :
  known_status (answer_status conflict stale) /\ answer_status conflict stale <> 400.
Proof. unfold known_status. destruct conflict, stale; simpl; lia. Qed.

Lemma bundle_status_stale p env :
  strings p client_etag = default [] (env_client_etag env) ->
  strings p client_platform = default [] (env_client_platform env) ->
  let named := negb (bool_decide (strings p client_etag = []))
               || negb (bool_decide (strings p client_platform = [])) in
  let '(status, p') := if named then bundle_status 200 p else (200, p) in
  status = (if stale_client env (bundles p) then 426 else 200) /\ strings p' client_etag = strings p client_etag.
Proof.
  intros He Hp. unfold bundle_status, stale_client. rewrite <- He, <- Hp. simpl.
  destruct (bool_decide (strings p client_etag = [])) eqn:E1,
    (bool_decide (strings p client_platform = [])) eqn:E2; simpl; try done.
  destruct (lupine_client_bundle_lookup _ _) as [b|]; [|done].
  by destruct (bool_decide (strings p client_etag = etag b)).
Qed.

Lemma server_decides id env c t p ctl cs m :
  server t = true -> is_u64 (va_base c) -> is_u64 (va_size c) ->
  s_head (h2_get_stream t id) =
    Headers true true false false 0 (if va_size c =? 0 then [] else h2_hex (va_base c))
      (if va_size c =? 0 then [] else h2_hex (va_size c)) ->
  strings p client_etag = default [] (env_client_etag env) ->
  strings p client_platform = default [] (env_client_platform env) ->
  let '(r0, c', m') := requested_arena c cs m in
  let status := answer_status (r0 <? 0) (stale_client env (bundles p)) in
  exists p' s', on_request_headers true id false (Session t p ctl cs m) =
    (0, response_headers status (negb (status =? 200)) p' c', s') /\
    request_status (hs_p s') = status /\ hs_va s' = c' /\ hs_m s' = m' /\
    dispatch_stream_id (hs_t s') =
      (if (status =? 200) && (dispatch_stream_id t <? 0) then id else dispatch_stream_id t) /\
    incoming_streams (hs_t s') =
      (incoming_streams t ++ if (status =? 200) && negb (dispatch_stream_id t <? 0) then [id] else []).
Proof.
  intros Hs Hub Huz Hh He Hp. destruct (requested_arena c cs m) as [[r0 c'] m'] eqn:Er.
  pose proof (bundle_status_stale p env He Hp) as Hb. cbv zeta in Hb.
  unfold on_request_headers. simpl hs_t. simpl hs_p. simpl hs_va. simpl hs_m. simpl hs_c.
  cbv zeta. rewrite head_update, Hh. simpl.
  destruct (if _ || _ then bundle_status 200 p else (200, p)) as [st p1] eqn:Est.
  destruct Hb as [Hst _]. set (stale := stale_client env (bundles p)) in *.
  assert (exists status, status = answer_status (r0 <? 0) stale /\
    (if negb (bool_decide ((if va_size c =? 0 then [] else h2_hex (va_base c)) = []))
        || negb (bool_decide ((if va_size c =? 0 then [] else h2_hex (va_size c)) = []))
     then arena_status st (Headers true true false false 0
            (if va_size c =? 0 then [] else h2_hex (va_base c))
            (if va_size c =? 0 then [] else h2_hex (va_size c))) cs m
     else (st, cs, m)) = (status, c', m')) as (status&Hstatus&Harena).
  { unfold requested_arena in Er. unfold arena_status, answer_status. destruct (va_size c =? 0).
    - injection Er as <- <- <-. simpl. by exists st.
    - destruct (parse_hex_hex _ Hub) as [Hn1 Hp1], (parse_hex_hex _ Huz) as [Hn2 Hp2].
      simpl. rewrite !(bool_decide_eq_false_2 _ Hn1), !(bool_decide_eq_false_2 _ Hn2). simpl.
      rewrite Hp1, Hp2, Er. subst st. by eexists. }
  rewrite Harena. clear Harena. rewrite <- Hstatus. simpl.
  exists (set_request true (negb (status =? 200) && negb (status =? 409)) status p1).
  eexists. split; [reflexivity|]. simpl.
  destruct (status =? 200), (dispatch_stream_id t <? 0); simpl; rewrite ?app_nil_r; by split_and!.
Qed.

(** The verdict of a client that holds the response. *)
Lemma client_judges id status p c t q ctl m :
  known_status status -> server t = false -> dispatch_stream_id t = id ->
  s_head (h2_get_stream t id) =
    Headers (status =? 200) (status =? 200) false false status [] [] ->
  strings q peer_va_base =
    (if (status =? 200) && negb (va_size p =? 0) then h2_hex (va_base p) else []) ->
  strings q peer_va_size =
    (if (status =? 200) && negb (va_size p =? 0) then h2_hex (va_size p) else []) ->
  (status = 200 -> va_size c <> 0 ->
     va_base p = va_base c /\ va_size p = va_size c /\ is_u64 (va_base c) /\ is_u64 (va_size c)) ->
  (status = 409 -> va_size c <> 0) -> (status <> 400) ->
  let '(_, _, s) := h2_on_frame_recv_callback true false
      (FrameHeaders CatResponse id (negb (status =? 200))) (Session t q ctl c m) in
  rpc_http2_client_await_ready s =
    Some (if status =? 409 then LUPINE_RPC_HTTP2_VA_CONFLICT
          else if status =? 426 then LUPINE_RPC_HTTP2_CLIENT_MISMATCH else 0).
Proof.
  intros Hk Hs Hd Hh Hqb Hqz Hva Hc4 H400. unfold h2_on_frame_recv_callback. simpl hs_t. rewrite Hs.
  unfold on_response_headers. rewrite Hh. simpl zstd_encoded. rewrite negb_involutive.
  rewrite andb_negb_r. cbv iota beta. simpl negb. cbv iota. unfold with_t. simpl.
  set (t1 := update_head id set_response_received t).
  assert (s_head (h2_get_stream t1 id) =
    Headers (status =? 200) (status =? 200) true false status [] []) as Hh1
    by (unfold t1; by rewrite head_update, Hh).
  assert (forall t2, dispatch_stream_id t2 = id -> s_head (h2_get_stream t2 id) = s_head (h2_get_stream t1 id) ->
    rpc_http2_client_await_ready (Session t2 q ctl c m) =
    Some (if status =? 409 then LUPINE_RPC_HTTP2_VA_CONFLICT
          else if status =? 426 then LUPINE_RPC_HTTP2_CLIENT_MISMATCH else 0)) as Hwait.
  { intros t2 Hd2 Hh2. unfold rpc_http2_client_await_ready. simpl. rewrite Hd2, Hh2, Hh1. simpl.
    rewrite Hqb, Hqz. destruct Hk as [-> |[-> |[-> | ->]]]; simpl; [|done| |done].
    - destruct (Z.eqb_spec (va_size c) 0) as [|Hne]; [done|].
      destruct (Hva eq_refl Hne) as (->&->&Hub&Huz).
      rewrite (proj2 (Z.eqb_neq _ _) Hne). simpl.
      rewrite (proj2 (parse_hex_hex _ Hub)), (proj2 (parse_hex_hex _ Huz)), !Z.eqb_refl. done.
    - destruct (Z.eqb_spec (va_size c) 0) as [E|]; [by destruct (Hc4 eq_refl)|done]. }
  destruct (status =? 200) eqn:E; simpl; [by apply Hwait|].
  unfold on_end_stream. rewrite Hh1. simpl. apply Hwait.
  - match goal with |- dispatch_stream_id (if ?b then _ else _) = _ => by destruct b end.
  - rewrite fail_unless. by rewrite get_put_same.
Qed.
(** What a client holds once its request is on its way. *)
Lemma client_submits fresh tls env (client : h2_session (M := M)) :
  0 <= fresh -> exists c1, h2_submit_client_handshake fresh false tls env client =
      (fresh, request_headers false tls env (hs_va client), c1) /\
    server (hs_t c1) = server (hs_t client) /\ dispatch_stream_id (hs_t c1) = fresh /\
    s_head (h2_get_stream (hs_t c1) fresh) = s_head (h2_get_stream (hs_t client) fresh) /\
    hs_va c1 = hs_va client /\
    forall f, f ∈ [peer_cuda_version; peer_client_etag; peer_bulk_token; peer_va_base; peer_va_size] ->
      strings (hs_p c1) f = [].
Proof.
  intros Hf. unfold h2_submit_client_handshake. rewrite (proj2 (Z.ltb_ge fresh 0) Hf).
  eexists. split; [done|]. split_and!; [done|done| |done|].
  - simpl. by rewrite head_update.
  - intros f Hin. by repeat (apply elem_of_cons in Hin as [-> |Hin]; [done|]); inversion Hin.
Qed.

Lemma request_frame id hs (s s' : h2_session (M := M)) :
  server (hs_t s) = true -> on_request_headers true id false s = (0, hs, s') ->
  h2_on_frame_recv_callback true false (FrameHeaders CatRequest id false) s = (0, hs, s').
Proof. intros Hs Hr. unfold h2_on_frame_recv_callback. by rewrite Hs, Hr. Qed.
End Handshakes.

(** What the code decides, arena before bundle. *)
Lemma handshake_verdict `{Zstd} {M : Type} `{AddressSpace M} fresh tls env
    (client server : h2_session (M := M)) :
  0 <= fresh -> H2State.server (hs_t client) = false -> H2State.server (hs_t server) = true ->
  s_head (h2_get_stream (hs_t client) fresh) = s_head new_stream ->
  s_head (h2_get_stream (hs_t server) fresh) = s_head new_stream ->
  (forall f, f ∈ [client_etag; client_platform; session_id] -> strings (hs_p server) f = []) ->
  is_u64 (va_base (hs_va client)) -> is_u64 (va_size (hs_va client)) ->
  let '(r, arena, space) := requested_arena (hs_va client) (hs_va server) (hs_m server) in
  let '(result, client', server') := handshake fresh tls env client server in
  result = Some (if r <? 0 then LUPINE_RPC_HTTP2_VA_CONFLICT
                 else if stale_client env (bundles (hs_p server))
                 then LUPINE_RPC_HTTP2_CLIENT_MISMATCH else 0) /\
  hs_va server' = arena /\ hs_m server' = space /\
  (result = Some 0 -> va_size (hs_va client) <> 0 ->
     va_base (hs_va server') = va_base (hs_va client) /\
     va_size (hs_va server') = va_size (hs_va client)) /\
  (result = Some 0 ->
     if dispatch_stream_id (hs_t server) <? 0
     then dispatch_stream_id (hs_t server') = fresh
     else incoming_streams (hs_t server') = incoming_streams (hs_t server) ++ [fresh]).
Proof.
  intros Hfresh Hsc Hss Hhc Hhs Hemp Hub Huz.
  destruct (requested_arena _ _ _) as [[r arena] space] eqn:Er.
  assert (r = 0 /\ (va_size (hs_va client) <> 0 -> va_base arena = va_base (hs_va client) /\
            va_size arena = va_size (hs_va client)) \/ r = -1 /\ va_size (hs_va client) <> 0) as Hr.
  { unfold requested_arena in Er. destruct (Z.eqb_spec (va_size (hs_va client)) 0) as [E|E].
    - injection Er as <- <- <-. by left.
    - destruct (reserve_server_result _ _ _ _ _ _ _ Er) as [(->&?&?)| ->]; auto. }
  destruct (client_submits fresh tls env client Hfresh) as (c1&Hsub&Hsc1&Hdc1&Hhc1&Hvc1&Hpc1).
  rewrite Hsc in Hsc1. rewrite Hhc in Hhc1. unfold handshake. rewrite Hsub. clear Hsub.
  destruct (server_gets_request fresh tls env (hs_va client) (hs_t server) (hs_p server) Hss)
    as (t1&p1&->&Hs1&Hd1&Hi1&Hh1&He1&Hp1&_&Hb1); [by apply Hemp; set_solver..|done|].
  pose proof (server_decides fresh env (hs_va client) t1 p1 (hs_c server) (hs_va server) (hs_m server)
    Hs1 Hub Huz Hh1 He1 Hp1) as Hdec. rewrite Er in Hdec. cbv zeta in Hdec.
  destruct Hdec as (p2&s2&Hrun&Hst2&Hva2&Hm2&Hd2&Hi2).
  pose proof (answer_status_known (r <? 0) (stale_client env (bundles (hs_p server)))) as [Hk Hk4].
  rewrite Hb1 in *. remember (answer_status _ _) as status eqn:Estatus.
  rewrite (request_frame _ _ (Session t1 p1 _ _ _) _ Hs1 Hrun), Hst2.
  destruct (client_gets_response fresh status (negb (status =? 200)) p2 arena (hs_t c1) (hs_p c1) Hk Hsc1 Hpc1
    Hhc1) as (t3&q3&->&Hs3&Hd3&_&Hh3&_&_&_&_&_&Hq3b&Hq3z).
  rewrite negb_involutive in Hh3. rewrite Hdc1 in Hd3.
  pose proof (client_judges fresh status arena (hs_va client) t3 q3 (hs_c c1) (hs_m c1)
    Hk Hs3 Hd3 Hh3 Hq3b Hq3z) as Hj. rewrite Hvc1.
  destruct (h2_on_frame_recv_callback _ _ (FrameHeaders CatResponse _ _) _) as [[? ?] client'].
  rewrite Hj; clear Hj; [|rewrite Estatus; unfold answer_status|rewrite Estatus; unfold answer_status|done].
  - rewrite Hva2, Hm2, Hd2, Hi2, Hd1, Hi1, Estatus. unfold answer_status.
    destruct Hr as [[-> Ha]|[-> Hz]]; simpl; [|by split_and!].
    destruct (stale_client _ _); simpl; [by split_and!|].
    split_and!; [done|done|done|by auto|].
    intros _. by destruct (dispatch_stream_id (hs_t server) <? 0).
  - destruct Hr as [[-> Ha]|[-> Hz]]; simpl; [|done]. intros _ Hne. destruct (Ha Hne). auto.
  - destruct Hr as [[-> Ha]|[-> Hz]]; simpl; [|done]. by destruct (stale_client _ _).
Qed.

(** C31: the two ends of a handshake agree.  Whatever the environment and the client's
    arena, the client's verdict on a fresh stream is decided by what the server knows: a
    mismatch exactly when the client's bundle is not the server's, else a conflict
    exactly when the server could not reserve the requested arena, and success
    otherwise; after a success with an arena both ends hold the same one, and the
    stream is the server's dispatch stream or is queued as a lane.  Excluded by
    [H_told] is a client that is stale and whose arena is taken besides: it is told of
    the arena ([stale_client_told_of_arena]), where the client's code means it to be
    told of its bundle. *)
Theorem handshake_agrees `{Zstd} {M : Type} `{AddressSpace M} fresh tls env
    (client server : h2_session (M := M))
  (H_fresh : 0 <= fresh) (H_client : H2State.server (hs_t client) = false)
  (H_server : H2State.server (hs_t server) = true)
  (H_client_new : s_head (h2_get_stream (hs_t client) fresh) = s_head new_stream)
  (H_server_new : s_head (h2_get_stream (hs_t server) fresh) = s_head new_stream)
  (H_unset : forall f, f ∈ [client_etag; client_platform; session_id] -> strings (hs_p server) f = [])
  (H_base : is_u64 (va_base (hs_va client))) (H_size : is_u64 (va_size (hs_va client))) :
  let '(r, arena, space) := requested_arena (hs_va client) (hs_va server) (hs_m server) in
  let stale := stale_client env (bundles (hs_p server)) in
  forall H_told : stale = true -> 0 <= r,
  let '(result, client', server') := handshake fresh tls env client server in
  result = Some (if stale then LUPINE_RPC_HTTP2_CLIENT_MISMATCH
                 else if r <? 0 then LUPINE_RPC_HTTP2_VA_CONFLICT else 0) /\
  hs_va server' = arena /\ hs_m server' = space /\
  (result = Some 0 -> va_size (hs_va client) <> 0 ->
     va_base (hs_va server') = va_base (hs_va client) /\
     va_size (hs_va server') = va_size (hs_va client)) /\
  (result = Some 0 ->
     if dispatch_stream_id (hs_t server) <? 0
     then dispatch_stream_id (hs_t server') = fresh
     else incoming_streams (hs_t server') = incoming_streams (hs_t server) ++ [fresh]).
Proof.
  pose proof (handshake_verdict fresh tls env client server H_fresh H_client H_server H_client_new H_server_new
    H_unset H_base H_size) as Hv.
  destruct (requested_arena _ _ _) as [[r arena] space]. cbv zeta. intros Ht.
  destruct (handshake _ _ _ _ _) as [[result client'] server'].
  destruct Hv as (-> & Hrest). split; [|exact Hrest]. f_equal.
  destruct (stale_client _ _); [|done]. by rewrite (proj2 (Z.ltb_ge r 0) (Ht eq_refl)).
Qed.

(** A client whose arena is taken is answered with the conflict whatever its bundle: the
    server looks at the arena even when it has turned the bundle down, and its answer to
    that replaces the first.  A stale client is told of its arena. *)
Theorem stale_client_told_of_arena `{Zstd} {M : Type} `{AddressSpace M} fresh tls env
    (client server : h2_session (M := M))
  (H_fresh : 0 <= fresh) (H_client : H2State.server (hs_t client) = false)
  (H_server : H2State.server (hs_t server) = true)
  (H_client_new : s_head (h2_get_stream (hs_t client) fresh) = s_head new_stream)
  (H_server_new : s_head (h2_get_stream (hs_t server) fresh) = s_head new_stream)
  (H_unset : forall f, f ∈ [client_etag; client_platform; session_id] -> strings (hs_p server) f = [])
  (H_base : is_u64 (va_base (hs_va client))) (H_size : is_u64 (va_size (hs_va client)))
  (H_taken : (requested_arena (hs_va client) (hs_va server) (hs_m server)).1.1 < 0) :
  (handshake fresh tls env client server).1.1 = Some LUPINE_RPC_HTTP2_VA_CONFLICT.
Proof.
  pose proof (handshake_verdict fresh tls env client server H_fresh H_client H_server H_client_new H_server_new
    H_unset H_base H_size) as Hv.
  destruct (requested_arena _ _ _) as [[r arena] space]. destruct (handshake _ _ _ _ _) as [[result client'] server'].
  destruct Hv as (-> & _). cbn [fst] in *. by rewrite (proj2 (Z.ltb_lt r 0) H_taken).
Qed.

(** * A concrete handshake *)

Module HandshakeSample.
Import Stored.

(** A session that has an arena of [size] bytes at [base]. *)
Definition session (is_server : bool) (registry : option lupine_client_bundle_registry)
    (base size : Z) : h2_session (M := list (Z * Z)) :=
  Session (new_transport is_server) (Peer (fun _ => []) registry false false 0 false)
    (new_control 7) (VaFields base size base 0) [].

Definition anonymous : client_environment := ClientEnvironment None None None.

Definition outdated : client_environment :=
  ClientEnvironment (Some (chars "old")) (Some (chars "linux")) None.

(** A server without bundles in whose process the arena is mapped already. *)
Definition taken_server : h2_session (M := list (Z * Z)) :=
  let s := session true None 0 0 in
  Session (hs_t s) (hs_p s) (hs_c s) (hs_va s) [(0x100000000000, 0x010000000000)].
End HandshakeSample.

Section HandshakeWitness.
Import Stored HandshakeSample.

(** A client with an arena of a terabyte, against a fresh server; one whose arena is
    taken; and one with an old bundle. *)
Lemma handshake_agrees_witness :
  let client := session false None 0x100000000000 0x010000000000 in
  let server := session true None 0 0 in
  (let '(result, client', server') := handshake 1 true anonymous client server in
   result = Some 0 /\
   va_base (hs_va server') = 0x100000000000 /\ va_size (hs_va server') = 0x010000000000 /\
   dispatch_stream_id (hs_t server') = 1) /\
  (handshake 1 true anonymous client taken_server).1.1 = Some LUPINE_RPC_HTTP2_VA_CONFLICT /\
  (handshake 1 true outdated client server).1.1 = Some LUPINE_RPC_HTTP2_CLIENT_MISMATCH.
Proof.
  intros client server.
  assert (Hc : is_u64 (va_base (hs_va client)) /\ is_u64 (va_size (hs_va client))) by (split; split; vm_compute; done).
  destruct Hc as [Hb Hz].
  assert (E1 : (requested_arena (hs_va client) (hs_va server) (hs_m server)).1.1 = 0) by (vm_compute; reflexivity).
  assert (E2 : (requested_arena (hs_va client) (hs_va taken_server) (hs_m taken_server)).1.1 = -1) by (vm_compute; reflexivity).
  split; [|split].
  - clear E2. pose proof (handshake_agrees 1 true anonymous client server ltac:(lia) eq_refl eq_refl eq_refl eq_refl ltac:(done) Hb Hz) as H.
    destruct (requested_arena _ _ _) as [[r arena] space]. change (r = 0) in E1. subst r. specialize (H ltac:(done)).
    destruct (handshake _ _ _ _ _) as [[result client'] server'].
    destruct H as (Hr&Ha&_&Hva&Hd). change (result = Some 0) in Hr. split; [exact Hr|].
    destruct (Hva Hr) as [Hb' Hz']; [done|]. split_and!; [exact Hb'|exact Hz'|exact (Hd Hr)].
  - clear E1. pose proof (handshake_agrees 1 true anonymous client taken_server ltac:(lia) eq_refl eq_refl eq_refl eq_refl ltac:(done) Hb Hz) as H.
    destruct (requested_arena _ _ _) as [[r arena] space]. change (r = -1) in E2. subst r. specialize (H ltac:(done)).
    destruct (handshake _ _ _ _ _) as [[result client'] server']. by destruct H as [-> _].
  - clear E2. pose proof (handshake_agrees 1 true outdated client server ltac:(lia) eq_refl eq_refl eq_refl eq_refl ltac:(done) Hb Hz) as H.
    destruct (requested_arena _ _ _) as [[r arena] space]. change (r = 0) in E1. subst r. specialize (H ltac:(done)).
    destruct (handshake _ _ _ _ _) as [[result client'] server']. by destruct H as [-> _].
Defined.

(** An outdated client whose arena is taken is answered with the conflict: the
    server looks at the arena even when it has turned the bundle down. *)
Example outdated_client_gets_conflict :
  let client := session false None 0x100000000000 0x010000000000 in
  (handshake 1 true outdated client taken_server).1.1 = Some LUPINE_RPC_HTTP2_VA_CONFLICT /\
  (handshake 1 true outdated client (session true None 0 0)).1.1 =
    Some LUPINE_RPC_HTTP2_CLIENT_MISMATCH.
Proof. vm_compute. done. Qed.
End HandshakeWitness.
