(* ===== verification/HostMem.v ===== *)
(** The registry of host allocations ([cuda_client_memcpy.cpp]): pinned, registered
    and managed memory that the client mirrors on a server, with the lookups by host
    address, by device address and by transport alias. *)
From S2P Require Import Prelude OrdMap.

Definition CUDA_SUCCESS : Z := 0.
Definition CUDA_ERROR_INVALID_VALUE : Z := 1.
Definition CUDA_ERROR_DEVICE_UNAVAILABLE : Z := 46.
Definition CUDA_ERROR_NOT_SUPPORTED : Z := 801.
Definition CUDA_ERROR_UNKNOWN : Z := 999.
Definition CU_MEMHOSTALLOC_PORTABLE : Z := 1.
Definition LUPINE_DEMAND_FETCH_CHUNK_BYTES : Z := 64 * 1024.
Definition LUPINE_DEMAND_FETCH_READAHEAD_CAP : Z := 4 * 1024 * 1024.
Definition LUPINE_MAX_MANAGED_HOST_FLUSH_ROUTES : Z := 16.

(** * Allocations *)

(** What an allocation is: fixed once it is in the registry, but for the device
    address and the routes that a portable allocation has been registered on. *)
Record host_backing := HostBacking {
  al_size : Z;
  storage_size : Z;
  user_base : Z;
  user_size : Z;
  data_offset : Z;
  page_size : Z;
  page_count : Z;
  flags : Z;
  owned : bool;
  owned_mmap : bool;
  io_alias : Z;
  managed : bool;
  local_cuda : bool;
  client_to_server_only : bool;
  server_host_ptr : Z;
  device_ptr : Z;
  device_alloc_base : Z;
  host_base : Z;
  route_id : Z;
  portable_routes : list Z;
}.

(** How the client keeps its view of it coherent.  [device_stale] is 0 fresh, 1
    invalidated, 2 fetching, 3 invalidating; [fresh_chunks] is [None] for the null
    pointer. *)
Record lupine_host_allocation := HostAllocation {
  backing : host_backing;
  tracking_enabled : bool;
  device_pointer_exposed : bool;
  fault_slot : Z;
  device_stale : Z;
  stale_fetch_conn : option Z;
  stale_fetch_context : Z;
  stale_fetch_stream : Z;
  stale_fetch_tid : Z;
  fresh_chunks : option (list bool);
  fetch_seq_next : Z;
  fetch_readahead : Z;
  full_dirty : bool;
  retiring : bool;
  pending_dirty_ranges : Z;
}.

(** The members of an allocation that is not tracked. *)
Definition untracked (b : host_backing) : lupine_host_allocation :=
  HostAllocation b false false (-1) 0 None 0 0 0 None 0 0 false false 0.

Definition lupine_round_up (value alignment : Z) : Z :=
  mask_down (wrap64 (value + alignment - 1)) alignment.

(** * Lookups *)

Abbreviation host_map := (list (Z * lupine_host_allocation)) (only parsing).

(** [std::prev] of an iterator, when there is an element before it. *)
Definition before (it : host_map * host_map) : option (Z * lupine_host_allocation) :=
  last it.1.

Definition lupine_find_host_allocation_locked (p : Z) (allocations : host_map)
    : option (Z * lupine_host_allocation) :=
  '(base, a) ← before (om_upper_bound p allocations);
  if (base <=? p) && (p <? wrap64 (base + al_size (backing a))) then Some (base, a) else None.

(** The registry with its two indices: device-side bases and transport aliases. *)
Record host_registry := HostRegistry {
  allocations : host_map;
  bases : list (Z * Z);
  aliases : list (Z * Z);
  generation : Z;
}.

Definition set_allocations (l : host_map) (g : host_registry) : host_registry :=
  HostRegistry l (bases g) (aliases g) (generation g).

Definition lupine_index_host_allocation_locked (host : Z) (a : host_backing) (add : bool)
    (g : host_registry) : host_registry :=
  let index base (l : list (Z * Z)) :=
    if (base =? 0) || (base =? host) then l
    else if add then om_set base host l else om_erase base l in
  let bases := index (server_host_ptr a) (index (device_ptr a) (bases g)) in
  let aliases := if io_alias a =? 0 then aliases g
                 else if add then om_set (io_alias a) host (aliases g)
                 else om_erase (io_alias a) (aliases g) in
  HostRegistry (allocations g) bases aliases (generation g).

(** A pointer of a kernel: an address of the host view, or of the device side. *)
Definition lupine_find_mapped_host_pointer_locked (pointer : Z) (g : host_registry)
    : option (Z * lupine_host_allocation * Z) :=
  let by_base :=
    '(base, host) ← last (om_upper_bound pointer (bases g)).1;
    a ← om_find host (allocations g);
    if pointer - base <? al_size (backing a) then Some (host, a, pointer - base) else None in
  match before (om_upper_bound pointer (allocations g)) with
  | Some (host, a) =>
      if pointer - host <? al_size (backing a) then Some (host, a, pointer - host) else by_base
  | None => by_base
  end.

Definition lupine_find_io_alias_locked (address bytes route : Z) (g : host_registry)
    : option (Z * lupine_host_allocation) :=
  '(alias, host) ← last (om_upper_bound address (aliases g)).1;
  a ← om_find host (allocations g);
  if (route_id (backing a) =? route) && (alias <=? address)
     && (address - alias <=? al_size (backing a))
     && (bytes <=? al_size (backing a) - (address - alias))
  then Some (host, a) else None.

(** Owned allocations reserve their padded storage. *)
Definition extent (a : lupine_host_allocation) : Z :=
  Z.max (al_size (backing a)) (storage_size (backing a)).

Definition lupine_host_range_registered_locked (base size : Z) (allocations : host_map) : bool :=
  let end_ := wrap64 (base + size) in
  let it := om_upper_bound base allocations in
  match before it with
  | Some (prev_base, a) => (prev_base =? base) || (base - prev_base <? extent a)
  | None => false
  end || match it.2 with
         | (next_base, _) :: _ => next_base <? end_
         | [] => false
         end.

Definition lupine_host_backing_for_route (a : host_backing) (route : Z) : Z :=
  if route_id a =? route then server_host_ptr a
  else if existsb (Z.eqb route) (portable_routes a) then device_ptr a
  else 0.

(** * Translation of pointers *)

Definition lupine_translate_client_host_ptr_to_server (ptr : Z) (g : host_registry)
    : option (Z * Z * Z) :=
  '(host, a) ← lupine_find_host_allocation_locked ptr (allocations g);
  if (server_host_ptr (backing a) =? 0) || local_cuda (backing a) then None
  else Some (wrap64 (server_host_ptr (backing a) + (ptr - host)), server_host_ptr (backing a),
             device_ptr (backing a)).

Definition lupine_translate_client_host_range_to_server (host_ptr size route : Z)
    (g : host_registry) : option Z :=
  if host_ptr =? 0 then None
  else
    '(base, a) ← lupine_find_host_allocation_locked host_ptr (allocations g);
    let offset := host_ptr - base in
    if (server_host_ptr (backing a) =? 0) || local_cuda (backing a)
       || negb (tracking_enabled a) || negb (route_id (backing a) =? route)
    then None
    else if (al_size (backing a) <? offset) || (al_size (backing a) - offset <? size) then None
    else Some (wrap64 (server_host_ptr (backing a) + offset)).

(** Whether the address is page-locked, and the alias and server address through
    which a copy of [bytes] on the connection of [route] can land. *)
Definition lupine_pinned_dtoh_destination (route : option Z) (destination bytes : Z)
    (g : host_registry) : bool * option (Z * Z) :=
  if destination =? 0 then (false, None)
  else
    match lupine_find_host_allocation_locked destination (allocations g) with
    | None => (false, None)
    | Some (host, a) =>
        let b := backing a in
        let page_locked := (user_base b <=? destination)
                           && (destination <? wrap64 (user_base b + user_size b)) in
        match route with
        | None => (page_locked, None)
        | Some r =>
            if negb page_locked || (bytes =? 0) then (page_locked, None)
            else if managed b || local_cuda b || (io_alias b =? 0) || (server_host_ptr b =? 0)
                    || negb (route_id b =? r) || retiring a
                    || (user_size b - (destination - user_base b) <? bytes)
            then (page_locked, None)
            else (page_locked, Some (wrap64 (io_alias b + (destination - host)),
                                     wrap64 (server_host_ptr b + (destination - host))))
        end
    end.

Definition lupine_host_ptr_is_page_locked (host : Z) (g : host_registry) : bool :=
  if host =? 0 then false
  else match lupine_find_host_allocation_locked host (allocations g) with
       | None => false
       | Some (_, a) => (user_base (backing a) <=? host)
                        && (host <? wrap64 (user_base (backing a) + user_size (backing a)))
       end.

Definition lupine_host_ptr_is_tracked (ptr : Z) (g : host_registry) : bool :=
  bool_decide (is_Some (lupine_find_host_allocation_locked ptr (allocations g))).

Definition lupine_is_managed_host_alias (ptr : Z) (g : host_registry) : bool :=
  match lupine_find_host_allocation_locked ptr (allocations g) with
  | Some (_, a) => managed (backing a)
  | None => false
  end.

(** The device base of the managed allocation around the address. *)
Definition lupine_managed_host_alias_base (ptr : Z) (g : host_registry) : option Z :=
  '(_, a) ← lupine_find_host_allocation_locked ptr (allocations g);
  if managed (backing a) then Some (device_ptr (backing a)) else None.

(** * Lookups against reference definitions *)

(** Allocations in address order that do not overlap, padding included. *)
Record registry_ok (l : host_map) : Prop := RegistryOk {
  ro_sorted : om_sorted l;
  ro_size : forall b a, (b, a) ∈ l -> 0 <= b /\ 0 < al_size (backing a) /\ b + extent a < 2 ^ 64;
  ro_apart : forall b1 a1 b2 a2, (b1, a1) ∈ l -> (b2, a2) ∈ l -> b1 < b2 -> b1 + extent a1 <= b2;
}.

Definition contains (p : Z) (e : Z * lupine_host_allocation) : bool :=
  (e.1 <=? p) && (p <? e.1 + al_size (backing e.2)).

Lemma extent_size a : al_size (backing a) <= extent a.
Proof. unfold extent. lia. Qed.

(** The entry before the upper bound is the one that contains the address. *)
Lemma before_contains p l b a :
  registry_ok l -> (b, a) ∈ l -> contains p (b, a) = true ->
  before (om_upper_bound p l) = Some (b, a).
Proof.
  unfold contains. simpl. intros Hr Hin Hc. breflect.
  apply om_before_upper; [apply Hr|done|lia|].
  intros [b' a'] Hin' Hb'. simpl in *. destruct (decide (b' <= b)) as [|Hgt]; [done|].
  pose proof (ro_apart _ Hr b a b' a' Hin Hin' ltac:(lia)). pose proof (extent_size a). lia.
Qed.

(** Looking an address up is a scan of the registry. *)
Lemma host_lookup_is_scan p l :
  registry_ok l ->
  lupine_find_host_allocation_locked p l = List.find (contains p) l.
Proof.
  intros Hr. unfold lupine_find_host_allocation_locked.
  assert (forall b a, (b, a) ∈ l -> wrap64 (b + al_size (backing a)) = b + al_size (backing a)) as Hw.
  { intros b a Hin. destruct (ro_size _ Hr b a Hin) as (?&?&?). pose proof (extent_size a).
    apply wrap64_id. unfold is_u64. lia. }
  destruct (List.find (contains p) l) as [[b a]|] eqn:Hf.
  - apply find_some in Hf as [Hin Hc]. apply list_elem_of_In in Hin.
    rewrite (before_contains p l b a) by done. simpl. rewrite Hw by done.
    unfold contains in Hc. simpl in Hc. by rewrite Hc.
  - destruct (before _) as [[b a]|] eqn:Hb; [|done]. simpl.
    apply om_before_in in Hb as [Hin _]; [|apply Hr]. rewrite Hw by done.
    pose proof (find_none _ _ Hf _ (proj1 (list_elem_of_In _ _) Hin)) as Hc.
    unfold contains in Hc. simpl in Hc. by rewrite Hc.
Qed.

(** The query before a registration is exact: it answers yes if and only if some
    allocation, with its padding, overlaps the range. *)
Theorem host_range_registered_iff base size l :
  registry_ok l -> 0 <= base -> 0 < size -> base + size < 2 ^ 64 ->
  lupine_host_range_registered_locked base size l = true <->
  exists b a, (b, a) ∈ l /\ b < base + size /\ base < b + extent a.
Proof.
  intros Hr Hb Hs He. unfold lupine_host_range_registered_locked.
  rewrite wrap64_id by (unfold is_u64; lia). unfold om_upper_bound.
  destruct (om_lower_bound (base + 1) l) as [c d] eqn:Hlb.
  destruct (om_lower_bound_spec _ _ _ _ (ro_sorted _ Hr) Hlb) as (El&Hc&Hd). simpl.
  rewrite Forall_forall in Hc, Hd. rewrite orb_true_iff.
  assert (forall b a, (b, a) ∈ c -> (b, a) ∈ l) as Hcl by (intros; rewrite El; apply elem_of_app; auto).
  assert (forall b a, (b, a) ∈ d -> (b, a) ∈ l) as Hdl by (intros; rewrite El; apply elem_of_app; auto).
  pose proof (ro_sorted _ Hr) as Hsort. rewrite El in Hsort.
  apply om_sorted_app in Hsort as (Hsc&Hsd&_). split.
  - intros [Hq|Hq].
    + unfold before in Hq. simpl in Hq. destruct (last c) as [[b a]|] eqn:E; [|done].
      apply last_Some in E as [c' Ec]. assert ((b, a) ∈ c) as Hin by (rewrite Ec; apply elem_of_app; right; left).
      specialize (Hc _ Hin). simpl in Hc. destruct (ro_size _ Hr b a (Hcl _ _ Hin)) as (_&?&_).
      pose proof (extent_size a). exists b, a. split; [auto|]. breflect. destruct Hq; breflect; lia.
    + destruct d as [|[b a] d]; [done|]. breflect. specialize (Hd (b, a) ltac:(left)). simpl in Hd.
      destruct (ro_size _ Hr b a (Hdl _ _ ltac:(left))) as (_&?&_). pose proof (extent_size a).
      exists b, a. split; [apply Hdl; left|lia].
  - intros (b&a&Hin&H1&H2). rewrite El in Hin. apply elem_of_app in Hin as [Hin|Hin].
    + left. unfold before. simpl.
      destruct c as [|[b' a'] c' _] using rev_ind; [by apply elem_of_nil in Hin|].
      rewrite last_snoc. apply om_sorted_app in Hsc as (_&_&Hlt).
      apply elem_of_app in Hin as [Hin|Hin%list_elem_of_singleton].
      * pose proof (Hlt (b, a) (b', a') Hin ltac:(left)) as Hbb. simpl in Hbb.
        assert ((b', a') ∈ c' ++ [(b', a')]) as Hin' by (apply elem_of_app; right; left).
        assert ((b, a) ∈ c' ++ [(b', a')]) as Hin2 by (apply elem_of_app; auto).
        pose proof (ro_apart _ Hr b a b' a' (Hcl _ _ Hin2) (Hcl _ _ Hin') Hbb).
        specialize (Hc _ Hin'). simpl in Hc. lia.
      * injection Hin as -> ->. apply orb_true_iff. right. apply Z.ltb_lt. lia.
    + right. destruct d as [|[b' a'] d]; [by apply elem_of_nil in Hin|]. apply Z.ltb_lt.
      apply om_sorted_cons in Hsd as [_ Hlt]. rewrite Forall_forall in Hlt.
      apply elem_of_cons in Hin as [[= -> ->]|Hin]; [lia|]. specialize (Hlt _ Hin). simpl in Hlt. lia.
Qed.

Lemma scan_contains p l b a :
  registry_ok l -> (b, a) ∈ l -> contains p (b, a) = true ->
  lupine_find_host_allocation_locked p l = Some (b, a).
Proof.
  intros Hr Hin Hc. unfold lupine_find_host_allocation_locked. rewrite (before_contains p l b a) by done.
  simpl. destruct (ro_size _ Hr b a Hin) as (?&?&?). pose proof (extent_size a).
  rewrite wrap64_id by (unfold is_u64; lia). unfold contains in Hc. simpl in Hc. by rewrite Hc.
Qed.

Lemma scan_found p l b a :
  registry_ok l -> lupine_find_host_allocation_locked p l = Some (b, a) ->
  (b, a) ∈ l /\ contains p (b, a) = true.
Proof.
  intros Hr. rewrite host_lookup_is_scan by done. intros [Hin Hc]%find_some.
  by apply list_elem_of_In in Hin.
Qed.

(** A range is sent as a server address exactly when it lies in one tracked
    allocation of that server, and then it is the same offset of the server's copy;
    a range that begins inside and runs over the end is refused. *)
Theorem host_range_translates p size route g s :
  registry_ok (allocations g) ->
  lupine_translate_client_host_range_to_server p size route g = Some s <->
  exists b a, (b, a) ∈ allocations g /\ b <= p < b + al_size (backing a) /\
    p + size <= b + al_size (backing a) /\ p <> 0 /\ server_host_ptr (backing a) <> 0 /\
    local_cuda (backing a) = false /\ tracking_enabled a = true /\ route_id (backing a) = route /\
    s = wrap64 (server_host_ptr (backing a) + (p - b)).
Proof.
  intros Hr. unfold lupine_translate_client_host_range_to_server. split.
  - case_if; [done|].
    destruct (lupine_find_host_allocation_locked p (allocations g)) as [[b a]|] eqn:Ef; simpl; [|done].
    destruct (scan_found _ _ _ _ Hr Ef) as [Hin Hc]. unfold contains in Hc. simpl in Hc.
    repeat case_if; try done. breflect. intros [= <-]. exists b, a. split_and!; try done; lia.
  - intros (b&a&Hin&Hp&Hsz&Hp0&Hsv&Hl&Ht&Hro&->). destruct (Z.eqb_spec p 0); [done|].
    rewrite (scan_contains p _ b a); [|done|done|].
    2:{ unfold contains. simpl. apply andb_true_iff. rewrite Z.leb_le, Z.ltb_lt. lia. }
    simpl. rewrite Hl, Ht, Hro, Z.eqb_refl.
    destruct (Z.eqb_spec (server_host_ptr (backing a)) 0); [done|]. simpl.
    destruct (Z.ltb_spec (al_size (backing a)) (p - b)); [lia|].
    destruct (Z.ltb_spec (al_size (backing a) - (p - b)) size); [lia|]. done.
Qed.

Module Sample2.
(** A pinned buffer with padding and a tracked managed one. *)
Definition low : host_backing :=
  HostBacking 5000 8192 65536 5000 0 4096 2 2 true true 0 false false false 327680 327680 327680
    65536 0 [].
Definition high : lupine_host_allocation :=
  HostAllocation
    (HostBacking 4096 4096 131072 4096 0 4096 1 1 true true 0 true false false 131072 131072 131072
       131072 0 []) true false 0 0 None 0 0 0 (Some [false]) 0 0 false false 0.
Definition registry2 : host_registry :=
  HostRegistry [(65536, untracked low); (131072, high)] [] [] 0.

Lemma registry2_ok : registry_ok (allocations registry2).
Proof.
  assert (forall b a, (b, a) ∈ allocations registry2 ->
    b = 65536 /\ a = untracked low \/ b = 131072 /\ a = high) as Hin.
  { intros b a Hin. simpl in Hin. apply elem_of_cons in Hin as [[= -> ->]|Hin]; [auto|].
    apply list_elem_of_singleton in Hin as [= -> ->]. auto. }
  constructor.
  - repeat constructor.
  - intros b a [[-> ->]|[-> ->]]%Hin; vm_compute; done.
  - intros b1 a1 b2 a2 [[-> ->]|[-> ->]]%Hin [[-> ->]|[-> ->]]%Hin Hlt; vm_compute; done.
Qed.
End Sample2.

Lemma host_range_registered_iff_witness :
  lupine_host_range_registered_locked 70600 100 (allocations Sample2.registry2) = true.
Proof.
  apply (proj2 (host_range_registered_iff 70600 100 (allocations Sample2.registry2)
    Sample2.registry2_ok ltac:(lia) ltac:(lia) ltac:(lia))).
  exists 65536, (untracked Sample2.low). split; [left|]. vm_compute. split; reflexivity.
Defined.

Lemma host_range_translates_witness :
  lupine_translate_client_host_range_to_server 131100 16 0 Sample2.registry2 = Some 131100 /\
  lupine_translate_client_host_range_to_server 131100 5000 0 Sample2.registry2 = None.
Proof.
  split; [|reflexivity].
  apply (proj2 (host_range_translates 131100 16 0 Sample2.registry2 131100 Sample2.registry2_ok)).
  exists 131072, Sample2.high. split; [right; left|].
  simpl. repeat split; try reflexivity; try lia; discriminate.
Defined.
