(* ===== verification/HostMirror.v ===== *)
(** The client's mirror of host allocations ([cuda_client_memcpy.cpp]): page
    protections, the fault handler, demand fetches, the queues of dirty ranges and
    their flush before a request, and the invalidation at synchronization.

    Client memory is indexed by the address of the host view; the transport alias is
    a second, always writable view of the same storage.  Operations run to
    completion one after the other, for any number of threads; where the code waits
    for another thread's transient state it never returns here ([None]).  Epochs
    count publications and are not wrapped. *)
From stdpp Require Import list.
From S2P Require Import Prelude OrdMap HostMem.

Definition LUPINE_MAX_MANAGED_HOST_DIRTY_RANGES : Z := 64 * 1024.
Definition LUPINE_MANAGED_HOST_FLUSH_BATCH_RANGES : Z := 1024.
Definition LUPINE_MAX_FAULT_ENTRIES : Z := 1024.
Definition LUPINE_BULK_COPY_MIN_BYTES : Z := 8 * 1024 * 1024.
Definition CU_STREAM_LEGACY : Z := 1.
Definition CU_STREAM_PER_THREAD : Z := 2.

Inductive protection := PROT_NONE | PROT_READ | PROT_WRITE.

#[export] Instance protection_eq_dec : EqDecision protection.
Proof. solve_decision. Defined.

(** * State *)

(** A range is named by the host address of its allocation. *)
Record lupine_dirty_host_range := DirtyRange {
  dr_allocation : Z;
  dr_start : Z;
  dr_end : Z;
}.

(** The slots from [start] to [next], all ready. *)
Record lupine_dirty_host_range_queue := DirtyQueue {
  ranges : list lupine_dirty_host_range;
  full_dirty_pending : bool;
}.

Record lupine_fault_entry := FaultEntry {
  fe_base : Z;
  fe_end : Z;
  fe_allocation : option Z;
}.

(** [server] is the memory of the server of a route; [host_writes] are the writes
    that a route's connection recorded; [requests] counts round trips. *)
Record mirror := Mirror {
  registry : host_registry;
  queues : Z -> lupine_dirty_host_range_queue;
  fault_entries : list lupine_fault_entry;
  dirty_epoch : Z;
  required_epoch : Z -> Z;
  flushed_epoch : Z;
  device_work_pending : bool;
  host_writes : Z -> list (Z * Z);
  client : Z -> byte;
  prot : Z -> protection;
  server : Z -> Z -> byte;
  requests : nat;
}.

Definition with_registry (g : host_registry) (w : mirror) : mirror :=
  Mirror g (queues w) (fault_entries w) (dirty_epoch w) (required_epoch w) (flushed_epoch w)
    (device_work_pending w) (host_writes w) (client w) (prot w) (server w) (requests w).

Definition set_queue (r : Z) (q : lupine_dirty_host_range_queue) (w : mirror) : mirror :=
  Mirror (registry w) (fun r' => if r' =? r then q else queues w r') (fault_entries w)
    (dirty_epoch w) (required_epoch w) (flushed_epoch w) (device_work_pending w) (host_writes w)
    (client w) (prot w) (server w) (requests w).

Definition set_fault_entries (l : list lupine_fault_entry) (w : mirror) : mirror :=
  Mirror (registry w) (queues w) l (dirty_epoch w) (required_epoch w) (flushed_epoch w)
    (device_work_pending w) (host_writes w) (client w) (prot w) (server w) (requests w).

Definition set_flushed (epoch : Z) (w : mirror) : mirror :=
  Mirror (registry w) (queues w) (fault_entries w) (dirty_epoch w) (required_epoch w) epoch
    (device_work_pending w) (host_writes w) (client w) (prot w) (server w) (requests w).

Definition set_work_pending (pending : bool) (w : mirror) : mirror :=
  Mirror (registry w) (queues w) (fault_entries w) (dirty_epoch w) (required_epoch w)
    (flushed_epoch w) pending (host_writes w) (client w) (prot w) (server w) (requests w).

Definition set_host_writes (r : Z) (l : list (Z * Z)) (w : mirror) : mirror :=
  Mirror (registry w) (queues w) (fault_entries w) (dirty_epoch w) (required_epoch w)
    (flushed_epoch w) (device_work_pending w) (fun r' => if r' =? r then l else host_writes w r')
    (client w) (prot w) (server w) (requests w).

Definition set_client (m : Z -> byte) (w : mirror) : mirror :=
  Mirror (registry w) (queues w) (fault_entries w) (dirty_epoch w) (required_epoch w)
    (flushed_epoch w) (device_work_pending w) (host_writes w) m (prot w) (server w) (requests w).

Definition set_prot (p : Z -> protection) (w : mirror) : mirror :=
  Mirror (registry w) (queues w) (fault_entries w) (dirty_epoch w) (required_epoch w)
    (flushed_epoch w) (device_work_pending w) (host_writes w) (client w) p (server w) (requests w).

Definition set_server (r : Z) (m : Z -> byte) (w : mirror) : mirror :=
  Mirror (registry w) (queues w) (fault_entries w) (dirty_epoch w) (required_epoch w)
    (flushed_epoch w) (device_work_pending w) (host_writes w) (client w) (prot w)
    (fun r' => if r' =? r then m else server w r') (requests w).

(** Members of an allocation. *)
Definition set_tracking (enabled : bool) (slot : Z) (chunks : option (list bool))
    (a : lupine_host_allocation) : lupine_host_allocation :=
  HostAllocation (backing a) enabled (device_pointer_exposed a) slot (device_stale a)
    (stale_fetch_conn a) (stale_fetch_context a) (stale_fetch_stream a) (stale_fetch_tid a)
    chunks (fetch_seq_next a) (fetch_readahead a) (full_dirty a) (retiring a)
    (pending_dirty_ranges a).

Definition set_exposed (a : lupine_host_allocation) : lupine_host_allocation :=
  HostAllocation (backing a) (tracking_enabled a) true (fault_slot a) (device_stale a)
    (stale_fetch_conn a) (stale_fetch_context a) (stale_fetch_stream a) (stale_fetch_tid a)
    (fresh_chunks a) (fetch_seq_next a) (fetch_readahead a) (full_dirty a) (retiring a)
    (pending_dirty_ranges a).

Definition set_stale (stale tid : Z) (a : lupine_host_allocation) : lupine_host_allocation :=
  HostAllocation (backing a) (tracking_enabled a) (device_pointer_exposed a) (fault_slot a) stale
    (stale_fetch_conn a) (stale_fetch_context a) (stale_fetch_stream a) tid
    (fresh_chunks a) (fetch_seq_next a) (fetch_readahead a) (full_dirty a) (retiring a)
    (pending_dirty_ranges a).

Definition set_fetch_target (conn : option Z) (context stream : Z) (a : lupine_host_allocation)
    : lupine_host_allocation :=
  HostAllocation (backing a) (tracking_enabled a) (device_pointer_exposed a) (fault_slot a)
    (device_stale a) conn context stream (stale_fetch_tid a) (fresh_chunks a)
    (fetch_seq_next a) (fetch_readahead a) (full_dirty a) (retiring a) (pending_dirty_ranges a).

Definition set_fetch (chunks : option (list bool)) (next readahead : Z)
    (a : lupine_host_allocation) : lupine_host_allocation :=
  HostAllocation (backing a) (tracking_enabled a) (device_pointer_exposed a) (fault_slot a)
    (device_stale a) (stale_fetch_conn a) (stale_fetch_context a) (stale_fetch_stream a)
    (stale_fetch_tid a) chunks next readahead (full_dirty a) (retiring a)
    (pending_dirty_ranges a).

Definition set_full_dirty (dirty : bool) (a : lupine_host_allocation) : lupine_host_allocation :=
  HostAllocation (backing a) (tracking_enabled a) (device_pointer_exposed a) (fault_slot a)
    (device_stale a) (stale_fetch_conn a) (stale_fetch_context a) (stale_fetch_stream a)
    (stale_fetch_tid a) (fresh_chunks a) (fetch_seq_next a) (fetch_readahead a) dirty
    (retiring a) (pending_dirty_ranges a).

(** The device address of an allocation, and one more route that it is registered on. *)
Definition set_device (p : Z) (routes : list Z) (a : lupine_host_allocation)
    : lupine_host_allocation :=
  let b := backing a in
  HostAllocation
    (HostBacking (al_size b) (storage_size b) (user_base b) (user_size b) (data_offset b)
       (page_size b) (page_count b) (flags b) (owned b) (owned_mmap b) (io_alias b) (managed b)
       (local_cuda b) (client_to_server_only b) (server_host_ptr b) p (device_alloc_base b)
       (host_base b) (route_id b) routes)
    (tracking_enabled a) (device_pointer_exposed a) (fault_slot a)
    (device_stale a) (stale_fetch_conn a) (stale_fetch_context a) (stale_fetch_stream a)
    (stale_fetch_tid a) (fresh_chunks a) (fetch_seq_next a) (fetch_readahead a) (full_dirty a)
    (retiring a) (pending_dirty_ranges a).

Definition add_pending (n : Z) (a : lupine_host_allocation) : lupine_host_allocation :=
  HostAllocation (backing a) (tracking_enabled a) (device_pointer_exposed a) (fault_slot a)
    (device_stale a) (stale_fetch_conn a) (stale_fetch_context a) (stale_fetch_stream a)
    (stale_fetch_tid a) (fresh_chunks a) (fetch_seq_next a) (fetch_readahead a) (full_dirty a)
    (retiring a) (pending_dirty_ranges a + n).

Definition set_retiring (a : lupine_host_allocation) : lupine_host_allocation :=
  HostAllocation (backing a) (tracking_enabled a) (device_pointer_exposed a) (fault_slot a)
    (device_stale a) (stale_fetch_conn a) (stale_fetch_context a) (stale_fetch_stream a)
    (stale_fetch_tid a) (fresh_chunks a) (fetch_seq_next a) (fetch_readahead a) (full_dirty a)
    true (pending_dirty_ranges a).

Definition find_alloc (b : Z) (w : mirror) : option lupine_host_allocation :=
  om_find b (allocations (registry w)).

Definition update_alloc (b : Z) (f : lupine_host_allocation -> lupine_host_allocation)
    (w : mirror) : mirror :=
  with_registry
    (set_allocations
       (map (fun e => if e.1 =? b then (e.1, f e.2) else e) (allocations (registry w)))
       (registry w)) w.

(** Copies [n] bytes from [s] in [src] to [d] in [dst]. *)
Definition copy_bytes (dst : Z -> byte) (d : Z) (src : Z -> byte) (s n : Z) : Z -> byte :=
  fun x => if (d <=? x) && (x <? d + n) then src (x - d + s) else dst x.

Definition mprotect (base size : Z) (p : protection) (w : mirror) : mirror :=
  set_prot (fun x => if (base <=? x) && (x <? base + size) then p else prot w x) w.

(** * Operations *)

(** What the mirror runs on: the page size; the number of connections; the outcome
    of a round trip, [None] when it succeeds and [Some n] when it fails after [n]
    units of its payload were applied; whether [mprotect] and [calloc] succeed;
    whether a connection has bulk lanes; whether a lane has a context bound; the
    context of a device address; the answers of the local CUDA driver to
    cuMemHostRegister and cuMemHostGetDevicePointer (result and address), and of a
    server to cuMemHostAlloc (host and device address, result). *)
Class MirrorEnv := {
  lupine_page_size : Z;
  rpc_size : Z;
  net : nat -> option nat;
  mprotect_ok : Z -> Z -> protection -> bool;
  calloc_ok : bool;
  bulk_lanes : Z -> bool;
  lane_context_matches : Z -> Z -> bool;
  lupine_demand_fetch_context : Z -> Z;
  real_cuMemHostRegister : Z -> Z -> Z;
  real_cuMemHostGetDevicePointer : Z -> Z * Z;
  remote_cuMemHostAlloc_reply : Z -> Z -> Z -> Z * Z * Z;
}.

Section Operations.
Context `{MirrorEnv}.

Definition remote_conn (r : Z) : option Z := if (0 <=? r) && (r <? rpc_size) then Some r else None.

Definition round_trip (w : mirror) : option nat * mirror :=
  (net (requests w),
   Mirror (registry w) (queues w) (fault_entries w) (dirty_epoch w) (required_epoch w)
     (flushed_epoch w) (device_work_pending w) (host_writes w) (client w) (prot w) (server w)
     (S (requests w))).

(** ** Dirty ranges *)

Definition lupine_require_dirty_host_flush (t : Z) (w : mirror) : mirror :=
  let epoch := dirty_epoch w + 1 in
  Mirror (registry w) (queues w) (fault_entries w) epoch
    (fun t' => if t' =? t then epoch else required_epoch w t') (flushed_epoch w)
    (device_work_pending w) (host_writes w) (client w) (prot w) (server w) (requests w).

Definition lupine_queue_dirty_host_range (t b : Z) (a : lupine_host_allocation)
    (start end_ : Z) (w : mirror) : mirror :=
  let r := route_id (backing a) in
  if (end_ <=? start) || (r <? 0) || (LUPINE_MAX_MANAGED_HOST_FLUSH_ROUTES <=? r) then w
  else
    let q := queues w r in
    if Z.of_nat (length (ranges q)) <? LUPINE_MAX_MANAGED_HOST_DIRTY_RANGES then
      lupine_require_dirty_host_flush t
        (set_queue r (DirtyQueue (ranges q ++ [DirtyRange b start end_]) (full_dirty_pending q))
           (update_alloc b (add_pending 1) w))
    else
      lupine_require_dirty_host_flush t
        (set_queue r (DirtyQueue (ranges q) true) (update_alloc b (set_full_dirty true) w)).

Definition lupine_protect_host_range (host size : Z) (p : protection) (w : mirror)
    : bool * mirror :=
  if (host =? 0) || (size =? 0) then (true, w)
  else
    let page_start := mask_down host lupine_page_size in
    let end_ := lupine_round_up (wrap64 (host + size)) lupine_page_size in
    if mprotect_ok page_start (end_ - page_start) p
    then (true, mprotect page_start (end_ - page_start) p w) else (false, w).

(** ** Demand fetches *)

(** Marks chunks [first] to [last - 1], those that exist. *)
Definition mark_fresh (first last : Z) (chunks : list bool) : list bool :=
  imap (fun i fresh => if (first <=? Z.of_nat i) && (Z.of_nat i <? last) then true else fresh) chunks.

(** A chunk beyond the table is never waited for. *)
Definition chunk_is_fresh (chunks : list bool) (offset : Z) : bool :=
  default true (chunks !! Z.to_nat (offset / LUPINE_DEMAND_FETCH_CHUNK_BYTES)).

(** What a round trip delivered of [n] bytes from [src] on the server of [r]. *)
Definition fetch_bytes (r dst src n : Z) (w : mirror) : bool * mirror :=
  let '(reply, w) := round_trip w in
  match reply with
  | None => (true, set_client (copy_bytes (client w) dst (server w r) src n) w)
  | Some k => (false, set_client (copy_bytes (client w) dst (server w r) src
                                    (Z.min (Z.of_nat k) n)) w)
  end.

Definition lupine_fetch_stale_range (a : lupine_host_allocation) (offset bytes : Z) (w : mirror)
    : bool * mirror :=
  let b := backing a in
  let end_ := Z.min (wrap64 (offset + bytes)) (wrap64 (data_offset b + user_size b)) in
  let offset := Z.max offset (data_offset b) in
  let bytes := wrap64 (end_ - offset) in
  if (host_base b =? 0) || (device_ptr b =? 0) then (false, w)
  else
    match stale_fetch_conn a with
    | None => (false, w)
    | Some r =>
        let dst := host_base b + offset in
        if negb (managed b) then fetch_bytes r dst (server_host_ptr b + offset) bytes w
        else
          let context := stale_fetch_context a in
          let '(bound, w) :=
            if negb (context =? 0) && negb (lane_context_matches (route_id b) context)
            then let '(reply, w) := round_trip w in (bool_decide (reply = None), w)
            else (true, w) in
          if negb bound then (false, w) else fetch_bytes r dst (device_ptr b + offset) bytes w
    end.

(** The end of the run of stale chunks from [position]. *)
Fixpoint stale_run (fuel : nat) (chunks : list bool) (position limit : Z) : Z :=
  match fuel with
  | O => position
  | S fuel =>
      if (position <? limit) && negb (chunk_is_fresh chunks position)
      then stale_run fuel chunks (position + LUPINE_DEMAND_FETCH_CHUNK_BYTES) limit
      else position
  end.

Definition lupine_finish_demand_fetch (b : Z) (span_start span_end : Z) (w : mirror) : mirror :=
  match find_alloc b w with
  | None => w
  | Some a =>
      let all_fresh := forallb id (default [] (fresh_chunks a)) in
      let w := if span_start <? span_end
               then mprotect (host_base (backing a) + span_start) (span_end - span_start)
                      PROT_READ w
               else w in
      update_alloc b (set_stale (if all_fresh then 0 else 1) (stale_fetch_tid a)) w
  end.

(** The chunks of a fetched run, with the position where a sequential fault would
    continue. *)
Definition fetched_chunks (chunks : list bool) (start end_ : Z) : list bool :=
  mark_fresh (start / LUPINE_DEMAND_FETCH_CHUNK_BYTES)
    ((end_ + LUPINE_DEMAND_FETCH_CHUNK_BYTES - 1) / LUPINE_DEMAND_FETCH_CHUNK_BYTES) chunks.

(** How far a fault at [start] reads ahead. *)
Definition readahead_limit (a : lupine_host_allocation) (start : Z) : Z * Z :=
  let chunk := LUPINE_DEMAND_FETCH_CHUNK_BYTES in
  let '(limit, readahead) :=
    if negb (start =? 0) && (start =? fetch_seq_next a) && (chunk <=? fetch_readahead a) then
      if LUPINE_DEMAND_FETCH_READAHEAD_CAP <=? fetch_readahead a
      then (storage_size (backing a), fetch_readahead a)
      else let readahead := Z.min (fetch_readahead a * 2) LUPINE_DEMAND_FETCH_READAHEAD_CAP in
           (start + readahead, readahead)
    else (start + chunk, chunk) in
  (Z.min limit (storage_size (backing a)), readahead).

(** Fetches the stale run at the fault; the span, or [None] for a failure. *)
Definition lupine_demand_fetch_run (b : Z) (a : lupine_host_allocation) (fault_offset : Z)
    (w : mirror) : option (Z * Z) * mirror :=
  let chunk := LUPINE_DEMAND_FETCH_CHUNK_BYTES in
  match fresh_chunks a with
  | None => (None, w)
  | Some chunks =>
      let start := fault_offset / chunk * chunk in
      let '(limit, readahead) := readahead_limit a start in
      let w := update_alloc b (set_fetch (Some chunks) (fetch_seq_next a) readahead) w in
      let end_ := Z.min (stale_run (S (length chunks)) chunks start limit)
                    (storage_size (backing a)) in
      if end_ <=? start then
        (Some (start, end_), update_alloc b (set_fetch (Some chunks) (start + chunk) readahead) w)
      else
        let w := if io_alias (backing a) =? 0
                 then mprotect (host_base (backing a) + start) (end_ - start) PROT_WRITE w
                 else w in
        let '(ok, w) := lupine_fetch_stale_range a start (end_ - start) w in
        if negb ok then (None, w)
        else (Some (start, end_),
              update_alloc b (set_fetch (Some (fetched_chunks chunks start end_)) end_ readahead) w)
  end.

(** The loop of [lupine_make_mapped_range_fresh]: what it fetched, and the end of
    the span that it made readable. *)
Fixpoint fetch_runs (fuel : nat) (b : Z) (a : lupine_host_allocation) (chunks : list bool)
    (position bound span_end : Z) (w : mirror) : option (bool * list bool * Z * mirror) :=
  match fuel with
  | O => None
  | S fuel =>
      if bound <=? position then Some (true, chunks, span_end, w)
      else if chunk_is_fresh chunks position
      then fetch_runs fuel b a chunks (position + LUPINE_DEMAND_FETCH_CHUNK_BYTES) bound span_end w
      else
        let run_end := Z.min (stale_run (S (length chunks)) chunks position bound)
                         (storage_size (backing a)) in
        let w := if io_alias (backing a) =? 0
                 then mprotect (host_base (backing a) + position) (run_end - position)
                        PROT_WRITE w
                 else w in
        let '(ok, w) := lupine_fetch_stale_range a position (run_end - position) w in
        if negb ok then Some (false, chunks, span_end, w)
        else fetch_runs fuel b a (fetched_chunks chunks position run_end) run_end bound run_end w
  end.

Definition lupine_make_mapped_range_fresh (t b start_offset end_offset : Z) (w : mirror)
    : option (bool * mirror) :=
  match find_alloc b w with
  | None => None
  | Some a =>
      if (device_stale a =? 0) || retiring a then Some (true, w)
      else if (device_stale a =? 2) || (device_stale a =? 3) then None
      else
        let chunk := LUPINE_DEMAND_FETCH_CHUNK_BYTES in
        let w := update_alloc b (set_stale 2 t) w in
        let position := start_offset / chunk * chunk in
        let bound := Z.min (lupine_round_up end_offset chunk) (storage_size (backing a)) in
        match fresh_chunks a with
        | None => Some (false, update_alloc b (set_stale 1 0) w)
        | Some chunks =>
            '(ok, chunks, span_end, w) ←
              fetch_runs (S (length chunks)) b a chunks position bound position w;
            let w := update_alloc b
                       (fun a => set_fetch (Some chunks) (fetch_seq_next a) (fetch_readahead a) a) w in
            let w := if (ok : bool) then lupine_finish_demand_fetch b position span_end w
                     else update_alloc b (set_stale 1 t) w in
            Some (ok, update_alloc b (fun a => set_stale (device_stale a) 0 a) w)
        end
  end.

(** ** Faults *)

Inductive fault_result := Handled | PreviousHandler.

(** The first entry that covers the address. *)
Fixpoint find_fault_entry (addr : Z) (entries : list lupine_fault_entry)
    : option (lupine_fault_entry * Z) :=
  match entries with
  | [] => None
  | entry :: entries =>
      match fe_allocation entry with
      | Some b => if (addr <? fe_base entry) || (fe_end entry <=? addr)
                  then find_fault_entry addr entries else Some (entry, b)
      | None => find_fault_entry addr entries
      end
  end.

Definition lupine_host_range_is_protected (start size : Z) (w : mirror) : bool :=
  existsb (fun entry => bool_decide (is_Some (fe_allocation entry))
                        && (fe_base entry <=? start) && (start <? fe_end entry)
                        && (size <=? fe_end entry - start)) (fault_entries w).

(** The handler in the fault of thread [t] at [addr]; [None] when it waits for a
    fetch or an invalidation of another thread. *)
Definition lupine_sigsegv_handler (t addr : Z) (w : mirror) : option (fault_result * mirror) :=
  match find_fault_entry addr (fault_entries w) with
  | None => Some (PreviousHandler, w)
  | Some (entry, b) =>
      match find_alloc b w with
      | None => Some (PreviousHandler, w)
      | Some a =>
          let page_index := (addr - fe_base entry) / page_size (backing a) in
          let r := route_id (backing a) in
          if (page_count (backing a) <=? page_index) || (r <? 0)
             || (LUPINE_MAX_MANAGED_HOST_FLUSH_ROUTES <=? r)
          then Some (PreviousHandler, w)
          else
            let page := fe_base entry + page_index * page_size (backing a) in
            let unprotect := mprotect page (page_size (backing a)) PROT_WRITE in
            if retiring a then Some (Handled, unprotect w)
            else
              let offset := addr - fe_base entry in
              let chunk_fresh :=
                match fresh_chunks a with
                | Some chunks =>
                    default false
                      (chunks !! Z.to_nat (offset / LUPINE_DEMAND_FETCH_CHUNK_BYTES))
                | None => false
                end in
              if negb (device_stale a =? 0) && negb chunk_fresh then
                if (device_stale a =? 2) && (stale_fetch_tid a =? t)
                then Some (Handled, unprotect w)
                else if device_stale a =? 1 then
                  let w := update_alloc b (set_stale 2 t) w in
                  let '(span, w) := lupine_demand_fetch_run b a offset w in
                  match span with
                  | Some (span_start, span_end) =>
                      let w := lupine_finish_demand_fetch b span_start span_end w in
                      Some (Handled, update_alloc b (fun a => set_stale (device_stale a) 0 a) w)
                  | None => Some (PreviousHandler, update_alloc b (set_stale 1 0) w)
                  end
                else None
              else
                Some (Handled,
                      unprotect (lupine_queue_dirty_host_range t b a page
                                   (page + page_size (backing a)) w))
      end
  end.

(** ** Tracking *)

(** The first free slot, at most [LUPINE_MAX_FAULT_ENTRIES]; -1 when there is none. *)
Fixpoint free_slot (i : Z) (entries : list lupine_fault_entry) : Z :=
  match entries with
  | [] => if i <? LUPINE_MAX_FAULT_ENTRIES then i else -1
  | entry :: entries =>
      if bool_decide (fe_allocation entry = None) then i else free_slot (i + 1) entries
  end.

Definition lupine_add_fault_entry (base size b : Z) (w : mirror) : Z * mirror :=
  let slot := free_slot 0 (fault_entries w) in
  if slot <? 0 then (-1, w)
  else
    let entry := FaultEntry base (wrap64 (base + size)) (Some b) in
    (slot, set_fault_entries
             (if (Z.to_nat slot <? length (fault_entries w))%nat
              then <[Z.to_nat slot := entry]> (fault_entries w)
              else fault_entries w ++ [entry]) w).

Definition lupine_retire_fault_entry (slot : Z) (w : mirror) : mirror :=
  if (slot <? 0) || (LUPINE_MAX_FAULT_ENTRIES <=? slot) then w
  else set_fault_entries
         (alter (fun e => FaultEntry (fe_base e) (fe_end e) None) (Z.to_nat slot)
            (fault_entries w)) w.

Definition lupine_enable_dirty_tracking_locked (host : Z) (a : lupine_host_allocation)
    (w : mirror) : bool * mirror :=
  let b := backing a in
  if (host =? 0) || (server_host_ptr b =? 0) || local_cuda b || tracking_enabled a
     || negb (host mod page_size b =? 0) || negb (storage_size b mod page_size b =? 0)
  then (true, w)
  else if negb calloc_ok then (false, w)
  else
    let count := lupine_round_up (storage_size b) LUPINE_DEMAND_FETCH_CHUNK_BYTES
                 / LUPINE_DEMAND_FETCH_CHUNK_BYTES in
    let '(slot, w) := lupine_add_fault_entry host (storage_size b) host w in
    if slot <? 0 then (false, w)
    else
      let '(ok, w) := lupine_protect_host_range host (storage_size b) PROT_READ w in
      if negb ok
      then (false, update_alloc host (set_tracking false (-1) None)
                     (lupine_retire_fault_entry slot w))
      else (true, update_alloc host
                    (set_tracking true slot (Some (replicate (Z.to_nat count) false))) w).

Definition lupine_disable_dirty_tracking (host : Z) (a : lupine_host_allocation) (w : mirror)
    : mirror :=
  if negb (tracking_enabled a) then w
  else
    let '(_, w) := lupine_protect_host_range host (storage_size (backing a)) PROT_WRITE w in
    update_alloc host (set_tracking false (-1) (fresh_chunks a))
      (lupine_retire_fault_entry (fault_slot a) w).

Definition lupine_expose_host_device_pointer (t host : Z) (w : mirror) : mirror :=
  match find_alloc host w with
  | None => w
  | Some a =>
      let b := backing a in
      if negb (device_pointer_exposed a) then
        let w := update_alloc host set_exposed w in
        let w :=
          if owned b && negb (managed b) && negb (local_cuda b) then
            let '(ok, w) := lupine_enable_dirty_tracking_locked host (set_exposed a) w in
            match find_alloc host w with
            | Some a =>
                if ok && tracking_enabled a
                then lupine_queue_dirty_host_range t host a (host_base b)
                       (host_base b + al_size b) w
                else w
            | None => w
            end
          else w in
        lupine_require_dirty_host_flush t w
      else if tracking_enabled a then w
      else lupine_require_dirty_host_flush t w
  end.

(** Exposes the allocation that a kernel argument points into: whether it is managed,
    and whether it is portable. *)
Definition lupine_prepare_mapped_host_pointer (t argument : Z) (w : mirror)
    : bool * bool * mirror :=
  match lupine_find_mapped_host_pointer_locked argument (registry w) with
  | None => (false, false, w)
  | Some (host, a, _) =>
      let w := lupine_expose_host_device_pointer t host w in
      (managed (backing a),
       negb (managed (backing a))
       && negb (Z.land (flags (backing a)) CU_MEMHOSTALLOC_PORTABLE =? 0), w)
  end.

(** ** Collecting the writes of responses *)

Definition collect_write (t r : Z) (write : Z * Z) (w : mirror) : option mirror :=
  let '(start, size) := write in
  let '(found, start, pinned) :=
    match lupine_find_host_allocation_locked start (allocations (registry w)) with
    | Some (base, a) => (Some (base, a), start, false)
    | None =>
        match lupine_find_io_alias_locked start size r (registry w) with
        | Some (base, a) => (Some (base, a), base + start - io_alias (backing a), true)
        | None => (None, start, false)
        end
    end in
  match found with
  | None => Some w
  | Some (base, a) =>
      let b := backing a in
      let offset := start - base in
      let bytes := Z.min size (al_size b - offset) in
      if negb (tracking_enabled a) || (bytes =? 0) then Some w
      else
        let end_ := start + bytes in
        let '(ok, w) :=
          if negb pinned then (true, lupine_queue_dirty_host_range t base a start end_ w)
          else
            let page_start := start - start mod page_size b in
            let page_end := lupine_round_up end_ (page_size b) in
            lupine_protect_host_range page_start (page_end - page_start) PROT_READ w in
        if negb ok then None
        else if negb (device_stale a =? 1) then Some w
        else
          let chunk := LUPINE_DEMAND_FETCH_CHUNK_BYTES in
          let w := update_alloc base
                     (fun a => set_fetch
                        (mark_fresh (lupine_round_up offset chunk / chunk) ((end_ - base) / chunk)
                           <$> fresh_chunks a) (fetch_seq_next a) (fetch_readahead a) a) w in
          let first_page := offset / page_size b in
          let last_page := (end_ - 1 - base) / page_size b in
          let '(_, w) := lupine_protect_host_range (base + first_page * page_size b)
                           ((last_page - first_page + 1) * page_size b) PROT_READ w in
          Some w
  end.

Fixpoint collect_writes (t r : Z) (writes : list (Z * Z)) (w : mirror) : Z * mirror :=
  match writes with
  | [] => (CUDA_SUCCESS, w)
  | write :: writes =>
      match collect_write t r write w with
      | Some w => collect_writes t r writes w
      | None => (CUDA_ERROR_UNKNOWN, w)
      end
  end.

Definition lupine_collect_host_allocation_writes (t r : Z) (w : mirror) : Z * mirror :=
  collect_writes t r (host_writes w r) (set_host_writes r [] w).

(** ** Flushes *)

(** Whether range [x] sorts before or with [y]: by allocation, start and end. *)
Definition range_le (x y : lupine_dirty_host_range) : bool :=
  if negb (dr_allocation x =? dr_allocation y) then dr_allocation x <? dr_allocation y
  else if negb (dr_start x =? dr_start y) then dr_start x <? dr_start y
  else dr_end x <=? dr_end y.

Fixpoint insert_range (x : lupine_dirty_host_range) (l : list lupine_dirty_host_range)
    : list lupine_dirty_host_range :=
  match l with
  | [] => [x]
  | y :: l' => if range_le x y then x :: l else y :: insert_range x l'
  end.

Definition sort_ranges (l : list lupine_dirty_host_range) : list lupine_dirty_host_range :=
  foldr insert_range [] l.

(** The ranges after [back], merged into it while they touch it. *)
Fixpoint merge_into (back : lupine_dirty_host_range) (l : list lupine_dirty_host_range)
    : list lupine_dirty_host_range :=
  match l with
  | [] => [back]
  | range :: l =>
      if negb (dr_allocation back =? dr_allocation range) || (dr_end back <? dr_start range)
      then back :: merge_into range l
      else merge_into (DirtyRange (dr_allocation back) (dr_start back)
                         (Z.max (dr_end back) (dr_end range))) l
  end.

Definition merge_ranges (l : list lupine_dirty_host_range) : list lupine_dirty_host_range :=
  match l with [] => [] | range :: l => merge_into range l end.

(** The allocations of the route that need a full flush, taken off their flag: their
    ranges, and those that must be fetched first. *)
Fixpoint full_dirty_ranges (r : Z) (l : host_map) (w : mirror)
    : list lupine_dirty_host_range * list Z * mirror :=
  match l with
  | [] => ([], [], w)
  | (host, a) :: l =>
      if negb (tracking_enabled a) || negb (route_id (backing a) =? r) || retiring a
         || negb (full_dirty a)
      then full_dirty_ranges r l w
      else
        let w := update_alloc host (fun a => add_pending 1 (set_full_dirty false a)) w in
        let '(rs, stale, w) := full_dirty_ranges r l w in
        (DirtyRange host (host_base (backing a))
           (host_base (backing a) + storage_size (backing a)) :: rs,
         if negb (device_stale a =? 0) then host :: stale else stale, w)
  end.

(** The allocations whose whole window goes over: untracked registrations and the
    portable mappings on routes other than their own. *)
Fixpoint window_ranges (r : Z) (l : host_map) (w : mirror) : list lupine_dirty_host_range * mirror :=
  match l with
  | [] => ([], w)
  | (host, a) :: l =>
      let b := backing a in
      let primary := route_id b =? r in
      if negb (device_pointer_exposed a) || retiring a
         || (lupine_host_backing_for_route b r =? 0)
         || (primary && (tracking_enabled a || local_cuda b))
      then window_ranges r l w
      else
        let w := update_alloc host (add_pending 1) w in
        let '(rs, w) := window_ranges r l w in
        (DirtyRange host (host_base b)
           (host_base b + if primary then al_size b else storage_size b) :: rs, w)
  end.

Fixpoint fetch_before_flush (t : Z) (stale : list Z) (w : mirror) : option mirror :=
  match stale with
  | [] => Some w
  | b :: stale =>
      match find_alloc b w with
      | None => None
      | Some a =>
          '(_, w) ← lupine_make_mapped_range_fresh t b 0 (al_size (backing a)) w;
          fetch_before_flush t stale w
      end
  end.

Definition release_ranges (r : Z) (restore : bool) (l : list lupine_dirty_host_range) (w : mirror)
    : mirror :=
  fold_left (fun w range =>
    let b := dr_allocation range in
    let w := match find_alloc b w with
             | Some a =>
                 if restore && tracking_enabled a && negb (retiring a)
                 then set_queue r (DirtyQueue (HostMirror.ranges (queues w r)) true)
                        (update_alloc b (set_full_dirty true) w)
                 else w
             | None => w
             end in
    update_alloc b (add_pending (-1)) w) l w.

(** Write-protects the tracked ranges. *)
Fixpoint protect_ranges (l : list lupine_dirty_host_range) (w : mirror) : bool * mirror :=
  match l with
  | [] => (true, w)
  | range :: l =>
      match find_alloc (dr_allocation range) w with
      | Some a =>
          if tracking_enabled a then
            let '(ok, w) := lupine_protect_host_range (dr_start range)
                              (dr_end range - dr_start range) PROT_READ w in
            if ok then protect_ranges l w else (false, w)
          else protect_ranges l w
      | None => protect_ranges l w
      end
  end.

(** A range on its way: where it goes on the server, where it is in client storage. *)
Record push := Push { pu_dst : Z; pu_src : Z; pu_bytes : Z }.

Definition apply_push (r : Z) (w : mirror) (p : push) : mirror :=
  set_server r (copy_bytes (server w r) (pu_dst p) (client w) (pu_src p) (pu_bytes p)) w.

Definition send_batch (r : Z) (batch : list push) (w : mirror) : Z * mirror :=
  match batch with
  | [] => (CUDA_SUCCESS, w)
  | _ =>
      let '(reply, w) := round_trip w in
      match reply with
      | None => (CUDA_SUCCESS, fold_left (apply_push r) batch w)
      | Some n => (CUDA_ERROR_DEVICE_UNAVAILABLE, fold_left (apply_push r) (take n batch) w)
      end
  end.

(** The chunks only stage; the copy is one request, which may run before its answer
    is lost. *)
Definition lupine_bulk_push (r : Z) (p : push) (w : mirror) : Z * mirror :=
  let '(reply, w) := round_trip w in
  match reply with
  | None => (CUDA_SUCCESS, apply_push r w p)
  | Some n => (CUDA_ERROR_DEVICE_UNAVAILABLE, if (n =? 0)%nat then w else apply_push r w p)
  end.

(** The part of a range that holds data, with its place on the server of [r]; an
    error when the allocation has none there. *)
Definition range_push (r : Z) (range : lupine_dirty_host_range) (w : mirror)
    : option (option push) :=
  a ← find_alloc (dr_allocation range) w;
  let b := backing a in
  let data_start := host_base b + data_offset b in
  let start := Z.max (dr_start range) data_start in
  let end_ := Z.min (dr_end range) (data_start + user_size b) in
  if end_ <=? start then Some None
  else
    let server_base := lupine_host_backing_for_route b r in
    if server_base =? 0 then None
    else Some (Some (Push (server_base + (start - host_base b)) start (end_ - start))).

Fixpoint send_ranges (r : Z) (l : list lupine_dirty_host_range) (batch : list push) (w : mirror)
    : Z * mirror :=
  match l with
  | [] => send_batch r batch w
  | range :: l =>
      match range_push r range w with
      | None => (CUDA_ERROR_INVALID_VALUE, w)
      | Some None => send_ranges r l batch w
      | Some (Some p) =>
          if (LUPINE_BULK_COPY_MIN_BYTES <=? pu_bytes p) && bulk_lanes r then
            let '(result, w) := send_batch r batch w in
            if negb (result =? CUDA_SUCCESS) then (result, w)
            else
              let '(result, w) := lupine_bulk_push r p w in
              if negb (result =? CUDA_SUCCESS) then (result, w) else send_ranges r l [] w
          else
            let batch := batch ++ [p] in
            if Z.of_nat (length batch) =? LUPINE_MANAGED_HOST_FLUSH_BATCH_RANGES then
              let '(result, w) := send_batch r batch w in
              if negb (result =? CUDA_SUCCESS) then (result, w) else send_ranges r l [] w
            else send_ranges r l batch w
      end
  end.

Definition lupine_flush_dirty_host_pages_to_route (t r : Z) (w : mirror) : option (Z * mirror) :=
  match remote_conn r with
  | None => Some (CUDA_ERROR_DEVICE_UNAVAILABLE, w)
  | Some _ =>
      let '(result, w) := lupine_collect_host_allocation_writes t r w in
      if negb (result =? CUDA_SUCCESS) then Some (result, w)
      else
        let q := queues w r in
        let w := set_queue r (DirtyQueue [] false) w in
        let '(full, stale, w) :=
          if full_dirty_pending q then full_dirty_ranges r (allocations (registry w)) w
          else ([], [], w) in
        let '(windows, w) := window_ranges r (allocations (registry w)) w in
        let all := HostMirror.ranges q ++ full ++ windows in
        if bool_decide (all = []) then Some (CUDA_SUCCESS, w)
        else
          w ← fetch_before_flush t stale w;
          let merged := merge_ranges (sort_ranges all) in
          let '(ok, w) := protect_ranges merged w in
          if negb ok then Some (CUDA_ERROR_UNKNOWN, release_ranges r true all w)
          else
            let '(result, w) := send_ranges r merged [] w in
            Some (result, release_ranges r (negb (result =? CUDA_SUCCESS)) all w)
  end.

(** All routes in order, up to the first failure. *)
Fixpoint flush_routes (t : Z) (routes : list Z) (w : mirror) : option (Z * mirror) :=
  match routes with
  | [] => Some (CUDA_SUCCESS, w)
  | r :: routes =>
      '(result, w) ← lupine_flush_dirty_host_pages_to_route t r w;
      if result =? CUDA_SUCCESS then flush_routes t routes w else Some (result, w)
  end.

Definition lupine_flush_dirty_host_pages_to_server (t : Z) (w : mirror) : option (Z * mirror) :=
  let epoch := dirty_epoch w in
  '(result, w) ← flush_routes t (seqZ 0 rpc_size) w;
  Some (if result =? CUDA_SUCCESS then (CUDA_SUCCESS, set_flushed epoch w) else (result, w)).

Fixpoint flush_until_required (fuel : nat) (t : Z) (w : mirror) : option (Z * mirror) :=
  if required_epoch w t <=? flushed_epoch w then Some (0, w)
  else
    match fuel with
    | O => None
    | S fuel =>
        let epoch := dirty_epoch w in
        '(result, w) ← flush_routes t (seqZ 0 rpc_size) w;
        if negb (result =? CUDA_SUCCESS) then Some (-1, w)
        else flush_until_required fuel t (set_flushed epoch w)
    end.

(** Before a request on the connection of route [r], [None] for a null one. *)
Definition lupine_prepare_rpc (fuel : nat) (t : Z) (r : option Z) (w : mirror)
    : option (Z * mirror) :=
  match r with
  | None => Some (-1, w)
  | Some r =>
      let w := set_work_pending true w in
      let '(result, w) :=
        if bool_decide (host_writes w r = []) then (CUDA_SUCCESS, w)
        else lupine_collect_host_allocation_writes t r w in
      if negb (result =? CUDA_SUCCESS) then Some (-1, w) else flush_until_required fuel t w
  end.

(** ** Launches *)

(** On a remote route; an older peer may ignore the requested address. *)
Definition lupine_remote_cuMemHostAlloc (fuel : nat) (t route requested bytes : Z) (w : mirror)
    : option (Z * mirror) :=
  '(prepared, w) ← lupine_prepare_rpc fuel t (remote_conn route) w;
  if prepared <? 0 then Some (CUDA_ERROR_DEVICE_UNAVAILABLE, w)
  else
    let '(reply, w) := round_trip w in
    Some (if negb (bool_decide (reply = None)) then (CUDA_ERROR_DEVICE_UNAVAILABLE, w)
          else
            let '(remote_host, device_ptr, result) :=
              remote_cuMemHostAlloc_reply route requested bytes in
            if (result =? CUDA_SUCCESS) && negb (requested =? 0)
               && (negb (remote_host =? requested) || negb (device_ptr =? requested))
            then (CUDA_ERROR_NOT_SUPPORTED, (round_trip w).2) else (result, w)).

(** Registers one portable allocation on [route]. *)
Definition register_portable (fuel : nat) (t route host : Z) (w : mirror) : option (Z * mirror) :=
  a ← find_alloc host w;
  let local := route =? -1 in
  let '(result, w) :=
    if local_cuda (backing a) && (device_ptr (backing a) =? 0) then
      let '(result, p) := real_cuMemHostGetDevicePointer host in
      (result, if result =? CUDA_SUCCESS
               then update_alloc host (fun a => set_device p (portable_routes (backing a)) a) w
               else w)
    else (CUDA_SUCCESS, w) in
  if negb (result =? CUDA_SUCCESS) then Some (result, w)
  else
    a ← find_alloc host w;
    let requested := device_ptr (backing a) in
    let bytes := storage_size (backing a) in
    if (requested =? 0) || (local && negb (requested =? host))
    then Some (CUDA_ERROR_NOT_SUPPORTED, w)
    else
      '(result, w) ←
        (if local then
           let result := real_cuMemHostRegister host bytes in
           if negb (result =? CUDA_SUCCESS) then Some (result, w)
           else let '(result, p) := real_cuMemHostGetDevicePointer host in
                Some (if (result =? CUDA_SUCCESS) && negb (p =? requested)
                      then CUDA_ERROR_NOT_SUPPORTED else result, w)
         else lupine_remote_cuMemHostAlloc fuel t route requested bytes w);
      Some (if negb (result =? CUDA_SUCCESS) then (result, w)
            else (CUDA_SUCCESS,
                  lupine_require_dirty_host_flush t
                    (update_alloc host
                       (fun a => set_device (device_ptr (backing a))
                                   (portable_routes (backing a) ++ [route]) a) w))).

Fixpoint portable_allocations (fuel : nat) (t route : Z) (expose_portable : bool)
    (hosts : list Z) (w : mirror) : option (Z * mirror) :=
  match hosts with
  | [] => Some (CUDA_SUCCESS, w)
  | host :: hosts =>
      a ← find_alloc host w;
      let b := backing a in
      if managed b || (al_size b =? 0) || (Z.land (flags b) CU_MEMHOSTALLOC_PORTABLE =? 0)
         || retiring a
      then portable_allocations fuel t route expose_portable hosts w
      else
        let w := if expose_portable then lupine_expose_host_device_pointer t host w else w in
        if negb (lupine_host_backing_for_route b route =? 0)
        then portable_allocations fuel t route expose_portable hosts w
        else
          '(result, w) ← register_portable fuel t route host w;
          if negb (result =? CUDA_SUCCESS) then Some (result, w)
          else portable_allocations fuel t route expose_portable hosts w
  end.

(** [complete] is the thread's vector of the generations at which each route, by its
    identity, had every portable allocation registered. *)
Definition lupine_prepare_portable_host_allocations (fuel : nat) (t route : Z)
    (expose_portable : bool) (complete : Z -> option Z) (w : mirror)
    : option (Z * (Z -> option Z) * mirror) :=
  if negb expose_portable && bool_decide (complete route = Some (HostMem.generation (registry w)))
  then Some (CUDA_SUCCESS, complete, w)
  else
    let generation := HostMem.generation (registry w) in
    '(result, w) ← portable_allocations fuel t route expose_portable
                     (allocations (registry w)).*1 w;
    Some (if negb (result =? CUDA_SUCCESS) then (result, complete, w)
          else (CUDA_SUCCESS,
                fun r => if r =? route then Some generation else complete r, w)).

(** The values of the pointer-sized parameters of a kernel: exposes what they point
    to; the managed ones among them. *)
Fixpoint prepare_pointers (t : Z) (values : list Z) (w : mirror) : list Z * bool * mirror :=
  match values with
  | [] => ([], false, w)
  | value :: values =>
      let '(is_managed, portable, w) := lupine_prepare_mapped_host_pointer t value w in
      let '(managed, portable', w) := prepare_pointers t values w in
      (if is_managed then value :: managed else managed, portable || portable', w)
  end.

Definition lupine_prepare_kernel_params (fuel : nat) (t route : Z) (values : list Z)
    (complete : Z -> option Z) (w : mirror)
    : option (Z * list Z * (Z -> option Z) * mirror) :=
  let '(managed, portable, w) := prepare_pointers t values w in
  '(result, complete, w) ←
    lupine_prepare_portable_host_allocations fuel t route portable complete w;
  Some (result, managed, complete, w).

(** ** Synchronization *)

(** [lupine_copy_dtoh_pageable] into the host view, by chunks or by bulk lanes. *)
Definition lupine_copy_dtoh_pageable (fuel : nat) (t r dst src bytes : Z) (w : mirror)
    : option (Z * mirror) :=
  '(prepared, w) ← lupine_prepare_rpc fuel t (remote_conn r) w;
  if prepared <? 0 then Some (CUDA_ERROR_DEVICE_UNAVAILABLE, w)
  else let '(ok, w) := fetch_bytes r dst src bytes w in
       Some (if ok then CUDA_SUCCESS else CUDA_ERROR_DEVICE_UNAVAILABLE, w).

(** The allocations that device work may have written. *)
Definition lupine_mapped_host_snapshots (w : mirror) : list Z :=
  omap (fun e : Z * lupine_host_allocation =>
    let b := backing e.2 in
    if negb (device_ptr b =? 0) && negb (local_cuda b) && negb (client_to_server_only b)
    then Some e.1 else None) (allocations (registry w)).

(** Takes the pages away, so that the next touch fetches; whether it did. *)
Definition invalidate (b : Z) (a : lupine_host_allocation) (conn : option Z) (context stream : Z)
    (w : mirror) : bool * mirror :=
  let w := update_alloc b
             (fun a => set_fetch ((fun l => replicate (length l) false) <$> fresh_chunks a) 0 0
                         (set_fetch_target conn context stream a)) w in
  let '(ok, w) := lupine_protect_host_range b (storage_size (backing a)) PROT_NONE w in
  (ok, if ok then update_alloc b (set_stale 1 (stale_fetch_tid a)) w else w).

Fixpoint sync_mappings (fuel : nat) (t : Z) (hosts : list Z) (w : mirror) : option (Z * mirror) :=
  match hosts with
  | [] => Some (CUDA_SUCCESS, w)
  | host :: hosts =>
      match find_alloc host w with
      | None => sync_mappings fuel t hosts w
      | Some a =>
          let b := backing a in
          if (user_size b =? 0) || (negb (managed b) && negb (device_pointer_exposed a))
             || retiring a
          then sync_mappings fuel t hosts w
          else
            let conn := remote_conn (route_id b) in
            let '(invalidated, w) :=
              if negb (tracking_enabled a) || bool_decide (conn = None) || (device_stale a =? 2)
              then (false, w)
              else invalidate host a conn (lupine_demand_fetch_context (device_ptr b))
                     CU_STREAM_PER_THREAD w in
            if (invalidated : bool) then sync_mappings fuel t hosts w
            else
              '(result, w) ← lupine_copy_dtoh_pageable fuel t (route_id b) (host + data_offset b)
                               (device_ptr b + data_offset b) (user_size b) w;
              if negb (result =? CUDA_SUCCESS) then Some (result, w)
              else sync_mappings fuel t hosts w
      end
  end.

Fixpoint collect_routes (t : Z) (routes : list Z) (w : mirror) : Z * mirror :=
  match routes with
  | [] => (CUDA_SUCCESS, w)
  | r :: routes =>
      let '(result, w) := lupine_collect_host_allocation_writes t r w in
      if result =? CUDA_SUCCESS then collect_routes t routes w else (result, w)
  end.

Definition lupine_sync_mapped_device_to_host (fuel : nat) (capturing : bool) (t : Z) (w : mirror)
    : option (Z * mirror) :=
  if capturing then Some (CUDA_SUCCESS, w)
  else if negb (device_work_pending w) then Some (CUDA_SUCCESS, w)
  else
    let w := set_work_pending false w in
    '(result, w) ← sync_mappings fuel t (lupine_mapped_host_snapshots w) w;
    Some (if negb (result =? CUDA_SUCCESS) then (result, w)
          else collect_routes t (seqZ 0 rpc_size) w).

(** After a launch on [stream] that was passed a pointer into managed memory. *)
Definition lupine_invalidate_launched_managed (capturing : bool) (pointer stream : Z) (w : mirror)
    : mirror :=
  if capturing then w
  else
    match lupine_find_host_allocation_locked pointer (allocations (registry w)) with
    | None => w
    | Some (host, a) =>
        let conn := remote_conn (route_id (backing a)) in
        if negb (tracking_enabled a) || bool_decide (conn = None) || (device_stale a =? 2) then w
        else
          let stream :=
            if (device_stale a =? 1) && negb (stale_fetch_stream a =? stream)
               && negb (stale_fetch_stream a =? CU_STREAM_PER_THREAD)
            then CU_STREAM_LEGACY else stream in
          (invalidate host a conn (lupine_demand_fetch_context pointer) stream w).2
    end.

(** [cuLaunchKernel] on a remote route, from the preparation of the parameters on;
    the request is fire-and-forget. *)
Definition cuLaunchKernel (fuel : nat) (capturing : bool) (t route stream : Z) (values : list Z)
    (complete : Z -> option Z) (w : mirror) : option (Z * (Z -> option Z) * mirror) :=
  '(status, managed, complete, w) ← lupine_prepare_kernel_params fuel t route values complete w;
  if negb (status =? CUDA_SUCCESS) then Some (status, complete, w)
  else
    '(prepared, w) ← lupine_prepare_rpc fuel t (remote_conn route) w;
    if prepared <? 0 then Some (CUDA_ERROR_DEVICE_UNAVAILABLE, complete, w)
    else
      let '(reply, w) := round_trip w in
      Some (if negb (bool_decide (reply = None))
            then (CUDA_ERROR_DEVICE_UNAVAILABLE, complete, w)
            else (CUDA_SUCCESS, complete,
                  fold_left (fun w pointer =>
                    lupine_invalidate_launched_managed capturing pointer stream w) managed w)).

(** [cuCtxSynchronize] on a remote route; its answer comes when the device is idle. *)
Definition cuCtxSynchronize (fuel : nat) (capturing : bool) (t route : Z) (w : mirror)
    : option (Z * mirror) :=
  '(prepared, w) ← lupine_prepare_rpc fuel t (remote_conn route) w;
  if prepared <? 0 then Some (CUDA_ERROR_DEVICE_UNAVAILABLE, w)
  else
    let '(reply, w) := round_trip w in
    if negb (bool_decide (reply = None)) then Some (CUDA_ERROR_DEVICE_UNAVAILABLE, w)
    else lupine_sync_mapped_device_to_host fuel capturing t w.

(** [cuEventQuery] on a remote route: [needed] when the completion is not cached,
    [answer] the status that the server then gives. *)
Definition cuEventQuery (fuel : nat) (capturing : bool) (t route : Z) (needed : bool) (answer : Z)
    (w : mirror) : option (Z * mirror) :=
  match remote_conn route with
  | None => Some (CUDA_ERROR_DEVICE_UNAVAILABLE, w)
  | Some r =>
      if negb needed then lupine_sync_mapped_device_to_host fuel capturing t w
      else
        '(prepared, w) ← lupine_prepare_rpc fuel t (Some r) w;
        if prepared <? 0 then Some (CUDA_ERROR_DEVICE_UNAVAILABLE, w)
        else
          let '(reply, w) := round_trip w in
          if negb (bool_decide (reply = None)) then Some (CUDA_ERROR_DEVICE_UNAVAILABLE, w)
          else if answer =? CUDA_SUCCESS then lupine_sync_mapped_device_to_host fuel capturing t w
          else Some (answer, w)
  end.

(** ** Reads from normal context *)

(** The tracked stale allocations that overlap the range, with the overlap. *)
Definition stale_overlaps (start size : Z) (w : mirror) : list (Z * Z * Z) :=
  omap (fun e : Z * lupine_host_allocation =>
    let a := e.2 in
    let n := al_size (backing a) in
    if negb (tracking_enabled a) || retiring a || (device_stale a =? 0)
       || (wrap64 (e.1 + n) <=? start) || (start + size <=? e.1)
    then None
    else Some (e.1, if e.1 <? start then start - e.1 else 0, Z.min (start + size - e.1) n))
    (allocations (registry w)).

Fixpoint make_fresh (t : Z) (l : list (Z * Z * Z)) (w : mirror) : option mirror :=
  match l with
  | [] => Some w
  | (b, s, e) :: l => '(_, w) ← lupine_make_mapped_range_fresh t b s e w; make_fresh t l w
  end.

(** The address to read [size] bytes at [host] from: the alias where there is one. *)
Definition lupine_mapped_host_read_source (t host size : Z) (w : mirror) : option (Z * mirror) :=
  if (host =? 0) || (size =? 0) || (2 ^ 64 - 1 - size <? host) then Some (host, w)
  else
    w ← make_fresh t (stale_overlaps host size w) w;
    Some (match lupine_find_host_allocation_locked host (allocations (registry w)) with
          | Some (base, a) =>
              if (io_alias (backing a) =? 0) || (base + al_size (backing a) <? host + size)
              then host else wrap64 (io_alias (backing a) + (host - base))
          | None => host
          end, w).

Definition lupine_materialize_host_allocations (t : Z) (w : mirror) : option mirror :=
  make_fresh t
    (omap (fun e : Z * lupine_host_allocation =>
       if tracking_enabled e.2 && negb (retiring e.2) && negb (device_stale e.2 =? 0)
       then Some (e.1, 0, al_size (backing e.2)) else None) (allocations (registry w))) w.

(** ** Accesses of the application *)

Definition permits (write : bool) (p : protection) : bool :=
  match p with PROT_NONE => false | PROT_READ => negb write | PROT_WRITE => true end.

(** The faults of an access at [addr] until the page permits it. *)
Fixpoint host_access (fuel : nat) (t : Z) (write : bool) (addr : Z) (w : mirror)
    : option (fault_result * mirror) :=
  if permits write (prot w addr) then Some (Handled, w)
  else
    match fuel with
    | O => None
    | S fuel =>
        '(result, w) ← lupine_sigsegv_handler t addr w;
        match result with
        | Handled => host_access fuel t write addr w
        | PreviousHandler => Some (PreviousHandler, w)
        end
    end.

Definition host_read (fuel : nat) (t addr : Z) (w : mirror) : option (option byte * mirror) :=
  '(result, w) ← host_access fuel t false addr w;
  Some (match result with Handled => Some (client w addr) | PreviousHandler => None end, w).

Definition host_write (fuel : nat) (t addr : Z) (v : byte) (w : mirror) : option (bool * mirror) :=
  '(result, w) ← host_access fuel t true addr w;
  Some (match result with
        | Handled => (true, set_client (fun x => if x =? addr then v else client w x) w)
        | PreviousHandler => (false, w)
        end).
End Operations.
