(* ===== verification/HostCoherence.v ===== *)
(** The mirror of host allocations is coherent: for a program that does not touch
    memory which the device may be writing, the client's views and the servers'
    copies behave as one memory. *)
From S2P Require Import Prelude OrdMap HostMem HostMirror.

Abbreviation CH := LUPINE_DEMAND_FETCH_CHUNK_BYTES (only parsing).

Class MirrorEnvLaws `{MirrorEnv} := {
  page_pow2 : exists k, 0 <= k <= 16 /\ lupine_page_size = 2 ^ k;
  net_succeeds : forall n, net n = None;
  mprotect_succeeds : forall base size p, mprotect_ok base size p = true;
  calloc_succeeds : calloc_ok = true;
}.

(** * Invariants *)

(** What no operation but the exposure of an allocation changes. *)
Record static_info := StaticInfo {
  si_backing : host_backing;
  si_tracking : bool;
  si_exposed : bool;
  si_retiring : bool;
}.

Definition info (a : lupine_host_allocation) : static_info :=
  StaticInfo (backing a) (tracking_enabled a) (device_pointer_exposed a) (retiring a).

Definition statics (w : mirror) : list (Z * static_info) :=
  (fun e => (e.1, info e.2)) <$> allocations (registry w).

Section Invariant.
Context `{MirrorEnv}.

(** An owned allocation on one of the connections, padded to whole pages. *)
Record static_ok (b : Z) (i : static_info) : Prop := StaticOk {
  so_base : host_base (si_backing i) = b /\ user_base (si_backing i) = b;
  so_data : data_offset (si_backing i) = 0 /\ user_size (si_backing i) = al_size (si_backing i);
  so_size : 0 < al_size (si_backing i) <= storage_size (si_backing i);
  so_padding : storage_size (si_backing i) < al_size (si_backing i) + lupine_page_size;
  so_pages : (lupine_page_size | b) /\ (lupine_page_size | storage_size (si_backing i));
  so_page : page_size (si_backing i) = lupine_page_size /\
            page_count (si_backing i) = storage_size (si_backing i) / lupine_page_size;
  so_range : 0 < b /\ b + storage_size (si_backing i) < 2 ^ 63;
  so_owned : owned (si_backing i) = true /\ local_cuda (si_backing i) = false /\
             client_to_server_only (si_backing i) = false /\ si_retiring i = false;
  so_alias : io_alias (si_backing i) <> 0 /\ portable_routes (si_backing i) = [];
  so_route : 0 <= route_id (si_backing i) < Z.min rpc_size LUPINE_MAX_MANAGED_HOST_FLUSH_ROUTES;
  so_server : server_host_ptr (si_backing i) <> 0 /\ device_ptr (si_backing i) <> 0 /\
              (managed (si_backing i) = true ->
               device_ptr (si_backing i) = server_host_ptr (si_backing i));
  so_tracked : si_tracking i = managed (si_backing i) || si_exposed i;
  so_portable : managed (si_backing i) = true \/
                Z.land (flags (si_backing i)) CU_MEMHOSTALLOC_PORTABLE = 0;
}.

(** Two allocations share no page of the client and no byte of a server. *)
Definition apart (b1 b2 : Z) (i1 i2 : static_info) : Prop :=
  (b1 + storage_size (si_backing i1) <= b2 \/ b2 + storage_size (si_backing i2) <= b1) /\
  (route_id (si_backing i1) = route_id (si_backing i2) ->
   server_host_ptr (si_backing i1) + al_size (si_backing i1) <= server_host_ptr (si_backing i2) \/
   server_host_ptr (si_backing i2) + al_size (si_backing i2) <= server_host_ptr (si_backing i1)).

Record shape (l : list (Z * static_info)) (entries : list lupine_fault_entry) : Prop := Shape {
  sh_sorted : om_sorted l;
  sh_ok : forall b i, (b, i) ∈ l -> static_ok b i;
  sh_apart : forall b1 i1 b2 i2, (b1, i1) ∈ l -> (b2, i2) ∈ l -> b1 <> b2 -> apart b1 b2 i1 i2;
  sh_faults : forall b i, (b, i) ∈ l -> si_tracking i = true ->
    FaultEntry b (b + storage_size (si_backing i)) (Some b) ∈ entries;
  sh_entries : forall entry b, entry ∈ entries -> fe_allocation entry = Some b ->
    exists i, (b, i) ∈ l /\ si_tracking i = true /\
      entry = FaultEntry b (b + storage_size (si_backing i)) (Some b);
  sh_room : Z.of_nat (length entries + length (List.filter (fun e => negb (si_tracking e.2)) l))
            <= LUPINE_MAX_FAULT_ENTRIES;
}.

(** The client's byte at [o] is not behind an invalidation. *)
Definition valid (a : lupine_host_allocation) (o : Z) : bool :=
  (device_stale a =? 0)
  || default false (default [] (fresh_chunks a) !! Z.to_nat (o / CH)).

(** Ranges in flight, and the allocations whose full flush is in flight. *)
Record in_flight := InFlight {
  fl_ranges : list lupine_dirty_host_range;
  fl_full : list Z;
}.

Definition nothing : in_flight := InFlight [] [].

Definition covers (b x : Z) (range : lupine_dirty_host_range) : Prop :=
  dr_allocation range = b /\ dr_start range <= x < dr_end range.

(** The byte is in a range that a flush has yet to send. *)
Definition queued (fl : in_flight) (w : mirror) (b : Z) (a : lupine_host_allocation) (x : Z)
    : Prop :=
  exists range, range ∈ fl_ranges fl ++ ranges (queues w (route_id (backing a))) /\
    covers b x range.

Definition fully_dirty (fl : in_flight) (b : Z) (a : lupine_host_allocation) : Prop :=
  full_dirty a = true \/ b ∈ fl_full fl.

(** Where the truth about a byte is.  [behind] are the allocations that the device
    may have written since the last synchronization. *)
Record byte_ok (behind : gset Z) (memory : Z -> byte) (fl : in_flight) (w : mirror) (b : Z)
    (a : lupine_host_allocation) (o : Z) : Prop := ByteOk {
  by_client : b ∉ behind -> valid a o = true -> client w (b + o) = memory (b + o);
  by_server : ~ queued fl w b a (b + o) -> (fully_dirty fl b a -> valid a o = true -> False) ->
    server w (route_id (backing a)) (server_host_ptr (backing a) + o) = memory (b + o);
  by_queued : queued fl w b a (b + o) -> valid a o = true /\ b ∉ behind;
  by_readable : prot w (b + o) <> PROT_NONE -> valid a o = true;
  by_writable : prot w (b + o) = PROT_WRITE ->
    (queued fl w b a (b + o) \/ fully_dirty fl b a) /\ b ∉ behind;
}.

Definition page_down (x : Z) : Z := x - x mod lupine_page_size.

(** The data on the pages of a queued range is all in the range. *)
Definition whole_pages (b n : Z) (range : lupine_dirty_host_range) : Prop :=
  forall x, b <= x < b + n ->
    page_down (dr_start range) <= x < page_down (dr_end range + lupine_page_size - 1) ->
    dr_start range <= x < dr_end range.

Definition range_ok (w : mirror) (r : Z) (range : lupine_dirty_host_range) : Prop :=
  exists a, find_alloc (dr_allocation range) w = Some a /\ tracking_enabled a = true /\
    route_id (backing a) = r /\
    dr_allocation range <= dr_start range < dr_end range /\
    dr_end range <= dr_allocation range + storage_size (backing a) /\
    whole_pages (dr_allocation range) (al_size (backing a)) range.

Definition chunks_of (n : Z) : nat := Z.to_nat ((n + CH - 1) / CH).

(** The dynamic members of a tracked allocation. *)
Definition fetch_ok (a : lupine_host_allocation) : Prop :=
  (device_stale a = 0 \/
   device_stale a = 1 /\ stale_fetch_conn a = Some (route_id (backing a))) /\
  exists l, fresh_chunks a = Some l /\ length l = chunks_of (storage_size (backing a)).

(** What holds of a tracked allocation. *)
Record tracked_ok (behind : gset Z) (memory : Z -> byte) (fl : in_flight) (w : mirror) (b : Z)
    (a : lupine_host_allocation) : Prop := TrackedOk {
  tk_fetch : fetch_ok a;
  tk_pending : full_dirty a = true -> full_dirty_pending (queues w (route_id (backing a))) = true;
  tk_full : fully_dirty fl b a -> b ∉ behind;
  tk_bytes : forall o, 0 <= o < al_size (backing a) -> byte_ok behind memory fl w b a o;
}.

Record coherent (t : Z) (behind : gset Z) (memory : Z -> byte) (fl : in_flight) (w : mirror)
    : Prop := Coherent {
  co_shape : shape (statics w) (fault_entries w);
  co_writes : forall r, host_writes w r = [];
  co_ranges : forall r range, range ∈ ranges (queues w r) -> range_ok w r range;
  co_epoch : (exists r range, range ∈ ranges (queues w r)) \/
             (exists b a, find_alloc b w = Some a /\ full_dirty a = true) ->
             flushed_epoch w < required_epoch w t;
  co_required : required_epoch w t <= dirty_epoch w /\ flushed_epoch w <= dirty_epoch w;
  co_behind : forall b, b ∈ behind -> exists a, find_alloc b w = Some a /\ tracking_enabled a = true;
  co_tracked : forall b a, find_alloc b w = Some a -> tracking_enabled a = true ->
    tracked_ok behind memory fl w b a;
  co_untracked : forall b a, find_alloc b w = Some a -> tracking_enabled a = false ->
    full_dirty a = false /\ device_stale a = 0 /\
    forall o, 0 <= o < al_size (backing a) ->
      prot w (b + o) = PROT_WRITE /\ client w (b + o) = memory (b + o);
}.
End Invariant.

(** * The registry under updates *)

Lemma find_update b f w b' :
  find_alloc b' (update_alloc b f w) =
    if b' =? b then f <$> find_alloc b' w else find_alloc b' w.
Proof.
  unfold find_alloc, update_alloc. simpl. induction (allocations (registry w)) as [|[k a] l IH];
    simpl; [by case_if|].
  destruct (Z.eqb_spec k b) as [->|Hk]; simpl.
  - destruct (Z.eqb_spec b b') as [->|Hb]; [by rewrite Z.eqb_refl|].
    rewrite IH. destruct (Z.eqb_spec b' b); [lia|done].
  - destruct (Z.eqb_spec k b') as [->|]; [|done].
    destruct (Z.eqb_spec b' b); [lia|done].
Qed.

Lemma find_update_same b f w a :
  find_alloc b w = Some a -> find_alloc b (update_alloc b f w) = Some (f a).
Proof. intros Ha. by rewrite find_update, Z.eqb_refl, Ha. Qed.

Lemma find_update_other b f w b' : b' <> b -> find_alloc b' (update_alloc b f w) = find_alloc b' w.
Proof. intros Hb. rewrite find_update. by destruct (Z.eqb_spec b' b). Qed.

(** Updates that keep what is static. *)
Lemma statics_update b f w :
  (forall a, info (f a) = info a) -> statics (update_alloc b f w) = statics w.
Proof.
  intros Hf. unfold statics, update_alloc. simpl.
  induction (allocations (registry w)) as [|[k a] l IH]; [done|]. csimpl.
  f_equal; [|exact IH]. by destruct (k =? b); simpl; rewrite ?Hf.
Qed.

(** An update that keeps what is static of the entry at hand. *)
Lemma statics_map b f w :
  (forall a, find_alloc b w = Some a -> info (f a) = info a) ->
  om_sorted (statics w) -> statics (update_alloc b f w) = statics w.
Proof.
  unfold find_alloc, statics, update_alloc. simpl.
  induction (allocations (registry w)) as [|[k a] l IH]; [done|]. csimpl. intros Hf Hs.
  apply om_sorted_cons in Hs as [Hs Hk]. destruct (Z.eqb_spec k b) as [->|Hne].
  - f_equal; [simpl; by rewrite Hf|]. clear IH Hf Hs. induction l as [|[k' a'] l IH]; [done|]. csimpl in *.
    apply Forall_cons in Hk as [Hk1 Hk2]. simpl in Hk1. destruct (Z.eqb_spec k' b); [lia|].
    f_equal. by apply IH.
  - f_equal. by apply IH.
Qed.

Lemma update_update b f g w :
  update_alloc b f (update_alloc b g w) = update_alloc b (fun a => f (g a)) w.
Proof.
  unfold update_alloc, with_registry, set_allocations. simpl. f_equal. f_equal.
  induction (allocations (registry w)) as [|[k a] l IH]; [done|]. simpl.
  rewrite IH. by destruct (Z.eqb_spec k b) as [->|Hne]; simpl;
    [rewrite Z.eqb_refl|destruct (Z.eqb_spec k b)].
Qed.

(** Only what an update does to the entry at hand matters. *)
Lemma update_at b f g w :
  om_sorted (statics w) -> (forall a, find_alloc b w = Some a -> f a = g a) ->
  update_alloc b f w = update_alloc b g w.
Proof.
  intros Hs Hf. unfold update_alloc. do 2 f_equal. revert Hs Hf. unfold find_alloc, statics.
  induction (allocations (registry w)) as [|[k a] l IH]; [done|]. csimpl. intros Hs Hf.
  apply om_sorted_cons in Hs as [Hs Hk]. destruct (Z.eqb_spec k b) as [->|Hne].
  - f_equal; [by rewrite Hf|]. clear IH Hf Hs. induction l as [|[k' a'] l IH]; [done|]. csimpl in *.
    apply Forall_cons in Hk as [Hk1 Hk2]. simpl in Hk1. destruct (Z.eqb_spec k' b); [lia|].
    f_equal. by apply IH.
  - f_equal. by apply IH.
Qed.

(** Worlds with one registry have the same allocations. *)
Lemma find_registry w w' b : registry w' = registry w -> find_alloc b w' = find_alloc b w.
Proof. unfold find_alloc. by intros ->. Qed.

Lemma update_registry w w' b f :
  registry w' = registry w -> registry (update_alloc b f w') = registry (update_alloc b f w).
Proof. unfold update_alloc. simpl. by intros ->. Qed.

Lemma statics_registry w w' : registry w' = registry w -> statics w' = statics w.
Proof. unfold statics. by intros ->. Qed.

Lemma statics_find w b :
  om_find b (statics w) = info <$> find_alloc b w.
Proof.
  unfold statics, find_alloc. induction (allocations (registry w)) as [|[k a] l IH]; simpl; [done|].
  by destruct (k =? b).
Qed.

Section Facts.
Context `{MirrorEnvLaws}.

Lemma page_positive : 0 < lupine_page_size.
Proof. destruct page_pow2 as (k&Hk&->). apply Z.pow_pos_nonneg; lia. Qed.

Lemma page_divides_chunk : (lupine_page_size | CH).
Proof.
  destruct page_pow2 as (k&Hk&->). exists (2 ^ (16 - k)). rewrite <- Z.pow_add_r by lia.
  by replace (16 - k + k) with 16 by lia.
Qed.

Lemma page_small : lupine_page_size <= 2 ^ 16.
Proof. destruct page_pow2 as (k&Hk&->). apply Z.pow_le_mono_r; lia. Qed.

Lemma found_static w b a :
  shape (statics w) (fault_entries w) -> find_alloc b w = Some a -> static_ok b (info a).
Proof.
  intros Hs Hf. apply (sh_ok _ _ Hs). apply (om_find_elem b); [by destruct Hs|].
  by rewrite statics_find, Hf.
Qed.

Lemma found_apart w b1 a1 b2 a2 :
  shape (statics w) (fault_entries w) -> find_alloc b1 w = Some a1 -> find_alloc b2 w = Some a2 ->
  b1 <> b2 -> apart b1 b2 (info a1) (info a2).
Proof.
  intros Hs H1 H2 Hne.
  apply (sh_apart _ _ Hs); [| |done]; apply om_find_elem;
    [by destruct Hs|by rewrite statics_find, H1|by destruct Hs|by rewrite statics_find, H2].
Qed.

(** The handler finds the entry of a tracked allocation. *)
Lemma shape_fault l entries b i x :
  shape l entries -> (b, i) ∈ l -> si_tracking i = true ->
  b <= x < b + storage_size (si_backing i) ->
  find_fault_entry x entries =
    Some (FaultEntry b (b + storage_size (si_backing i)) (Some b), b).
Proof.
  intros Hs Hin Ht Hx. pose proof (sh_faults _ _ Hs b i Hin Ht) as He.
  assert (forall entry b', entry ∈ entries -> fe_allocation entry = Some b' ->
    fe_base entry <= x < fe_end entry ->
    entry = FaultEntry b (b + storage_size (si_backing i)) (Some b)) as Huniq.
  { intros entry b' Hent Hal Hc. destruct (sh_entries _ _ Hs _ _ Hent Hal) as (i'&Hin'&_&->).
    simpl in Hc. destruct (decide (b' = b)) as [->|Hne].
    - apply om_find_elem in Hin, Hin'; [|apply Hs..]. by simplify_eq.
    - destruct (sh_apart _ _ Hs b' i' b i Hin' Hin Hne) as [? _]. lia. }
  clear Hs. induction entries as [|entry entries IH]; [by apply elem_of_nil in He|]. simpl.
  destruct (fe_allocation entry) as [b'|] eqn:Ea.
  - case_if.
    + apply IH; [|intros; eapply Huniq; [right|..]; eauto].
      apply elem_of_cons in He as [<-|]; [|done]. simpl in *. lia.
    + pose proof (Huniq entry b' ltac:(left) Ea ltac:(lia)) as ->. by injection Ea as <-.
  - apply IH; [|intros; eapply Huniq; [right|..]; eauto]. by apply elem_of_cons in He as [<-|].
Qed.

(** ** Pages *)

Lemma page_down_spec x : page_down x <= x < page_down x + lupine_page_size /\ (lupine_page_size | page_down x).
Proof.
  unfold page_down. pose proof page_positive as Hp. pose proof (Z.mod_pos_bound x _ Hp).
  split; [lia|]. exists (x / lupine_page_size). rewrite (Z.div_mod x lupine_page_size) at 1; lia.
Qed.

Lemma page_down_multiple x : (lupine_page_size | x) -> page_down x = x.
Proof. intros [q ->]. unfold page_down. rewrite Z_mod_mult. lia. Qed.

Lemma page_down_ge m x : (lupine_page_size | m) -> m <= x -> m <= page_down x.
Proof.
  intros [q ->] Hx. pose proof page_positive. destruct (page_down_spec x) as [Hp [u Hu]].
  rewrite Hu in *. assert (q <= u) by nia. nia.
Qed.

Lemma page_down_lt m x : (lupine_page_size | m) -> x < m -> page_down x + lupine_page_size <= m.
Proof.
  intros [q ->] Hx. pose proof page_positive. destruct (page_down_spec x) as [Hp [u Hu]].
  rewrite Hu in *. assert (u < q) by nia. nia.
Qed.

Lemma page_down_same x y :
  page_down x <= y < page_down x + lupine_page_size -> page_down y = page_down x.
Proof.
  intros Hy. destruct (page_down_spec x) as [_ Hd].
  pose proof (page_down_ge _ _ Hd (proj1 Hy)). destruct (page_down_spec y) as [_ Hd'].
  assert (lupine_page_size | page_down x + lupine_page_size) as Hd2
    by (apply Z.divide_add_r; [done|apply Z.divide_refl]).
  pose proof (page_down_lt _ _ Hd2 (proj2 Hy)). lia.
Qed.

Lemma page_up_multiple x : (lupine_page_size | x) -> page_down (x + lupine_page_size - 1) = x.
Proof.
  intros [q ->]. unfold page_down. pose proof page_positive.
  replace (q * lupine_page_size + lupine_page_size - 1)
    with ((lupine_page_size - 1) + q * lupine_page_size) by lia.
  rewrite Z_mod_plus_full, Z.mod_small by lia. lia.
Qed.

Lemma mask_page x : 0 <= x < 2 ^ 64 -> mask_down x lupine_page_size = page_down x.
Proof. destruct page_pow2 as (k&Hk&Hp). intros Hx. unfold page_down. rewrite Hp. apply mask_down_pow2; [done|lia]. Qed.

Lemma protect_spec host n p w :
  0 < host -> 0 < n -> host + n < 2 ^ 63 ->
  lupine_protect_host_range host n p w =
    (true, mprotect (page_down host)
             (page_down (host + n + lupine_page_size - 1) - page_down host) p w).
Proof.
  intros Hh Hn Hb. pose proof page_positive. pose proof page_small. unfold lupine_protect_host_range.
  destruct (Z.eqb_spec host 0); [lia|]. destruct (Z.eqb_spec n 0); [lia|]. simpl.
  unfold lupine_round_up. rewrite !wrap64_id by (unfold is_u64; rewrite ?wrap64_id by (unfold is_u64; lia); lia).
  rewrite !mask_page by lia. by rewrite mprotect_succeeds.
Qed.

Lemma prot_protect s e p w x :
  prot (mprotect s (e - s) p w) x = if decide (s <= x < e) then p else prot w x.
Proof.
  unfold mprotect. simpl. destruct (Z.leb_spec s x), (Z.ltb_spec x (s + (e - s))); simpl;
    case_decide; done || lia.
Qed.

(** ** Fetches *)

(** Only client memory and the number of round trips differ. *)
Record same_but_client (w w' : mirror) : Prop := SameButClient {
  sbc_registry : registry w' = registry w;
  sbc_queues : queues w' = queues w;
  sbc_entries : fault_entries w' = fault_entries w;
  sbc_dirty : dirty_epoch w' = dirty_epoch w;
  sbc_required : required_epoch w' = required_epoch w;
  sbc_flushed : flushed_epoch w' = flushed_epoch w;
  sbc_pending : device_work_pending w' = device_work_pending w;
  sbc_writes : host_writes w' = host_writes w;
  sbc_prot : prot w' = prot w;
  sbc_server : server w' = server w;
}.

Lemma fetch_bytes_spec r dst src n w :
  exists w', fetch_bytes r dst src n w = (true, w') /\ same_but_client w w' /\
    forall x, client w' x = if decide (dst <= x < dst + n) then server w r (x - dst + src)
                            else client w x.
Proof.
  unfold fetch_bytes, round_trip. rewrite net_succeeds. eexists. split; [done|]. split; [done|].
  intros x. simpl. unfold copy_bytes.
  destruct (Z.leb_spec dst x), (Z.ltb_spec x (dst + n)); simpl; case_decide; done || lia.
Qed.

(** Fetching offsets [s] to [e] brings the server's bytes in. *)
Lemma fetch_range_spec b a s e w :
  static_ok b (info a) -> stale_fetch_conn a = Some (route_id (backing a)) ->
  0 <= s < al_size (backing a) -> s < e <= storage_size (backing a) ->
  exists w', lupine_fetch_stale_range a s (e - s) w = (true, w') /\ same_but_client w w' /\
    forall x, client w' x =
      if decide (b + s <= x < b + Z.min e (al_size (backing a)))
      then server w (route_id (backing a)) (server_host_ptr (backing a) + (x - b))
      else client w x.
Proof.
  intros Hs Hc Hs0 Hse. destruct Hs as [[Hb _] [Hd Hu] Hz _ _ _ Hr _ _ _ (Hsp&Hdp&Hm) _ _]. simpl in *.
  unfold lupine_fetch_stale_range. rewrite Hd, Hu, Hb.
  rewrite (wrap64_id (s + (e - s))), (wrap64_id (0 + al_size (backing a)))
    by (unfold is_u64; lia).
  replace (s + (e - s)) with e by lia. rewrite Z.add_0_l, (Z.max_l s 0) by lia.
  rewrite wrap64_id by (unfold is_u64; lia).
  destruct (Z.eqb_spec b 0); [lia|]. destruct (Z.eqb_spec (device_ptr (backing a)) 0); [done|].
  simpl. rewrite Hc.
  assert (forall src w1, same_but_client w w1 -> client w1 = client w ->
    src = server_host_ptr (backing a) + s ->
    exists w', fetch_bytes (route_id (backing a)) (b + s) src (Z.min e (al_size (backing a)) - s) w1 =
      (true, w') /\ same_but_client w w' /\
      forall x, client w' x =
        if decide (b + s <= x < b + Z.min e (al_size (backing a)))
        then server w (route_id (backing a)) (server_host_ptr (backing a) + (x - b))
        else client w x) as Hgo.
  { intros src w1 Hw1 Hcl ->.
    destruct (fetch_bytes_spec (route_id (backing a)) (b + s) (server_host_ptr (backing a) + s)
      (Z.min e (al_size (backing a)) - s) w1) as (w'&->&Hsame&Hx).
    exists w'. split; [done|]. split.
    { destruct Hw1, Hsame. constructor; congruence. }
    intros x. rewrite Hx, Hcl, (sbc_server _ _ Hw1).
    repeat case_decide; try lia. f_equal. lia. }
  destruct (managed (backing a)) eqn:Em; simpl; [|by apply Hgo].
  rewrite (Hm eq_refl).
  destruct (negb (stale_fetch_context a =? 0) && _).
  - unfold round_trip. rewrite net_succeeds. by apply Hgo.
  - by apply Hgo.
Qed.

(** Chunks that a fetch of [s] to [e] has marked. *)
Lemma lookup_mark_fresh i j l k :
  mark_fresh i j l !! k =
    (fun fresh => if decide (i <= Z.of_nat k < j) then true else fresh) <$> l !! k.
Proof.
  unfold mark_fresh. rewrite list_lookup_imap. destruct (l !! k); simpl; [|done]. f_equal.
  destruct (Z.leb_spec i (Z.of_nat k)), (Z.ltb_spec (Z.of_nat k) j); simpl; case_decide; done || lia.
Qed.

Lemma length_mark_fresh i j l : length (mark_fresh i j l) = length l.
Proof. apply length_imap. Qed.

(** Other allocations do not notice a change of one. *)
Lemma queued_ext fl w w' b a a' x :
  queues w' = queues w -> backing a' = backing a ->
  queued fl w' b a' x <-> queued fl w b a x.
Proof. intros Hq Hb. unfold queued. by rewrite Hq, Hb. Qed.

Lemma byte_ok_ext behind memory fl w w' b a o :
  client w' (b + o) = client w (b + o) -> prot w' (b + o) = prot w (b + o) ->
  server w' (route_id (backing a)) (server_host_ptr (backing a) + o) =
    server w (route_id (backing a)) (server_host_ptr (backing a) + o) ->
  queues w' (route_id (backing a)) = queues w (route_id (backing a)) ->
  byte_ok behind memory fl w b a o -> byte_ok behind memory fl w' b a o.
Proof.
  intros Hc Hp Hs Hq [H1 H2 H3 H4 H5].
  assert (forall x, queued fl w' b a x <-> queued fl w b a x) as Hqq
    by (intros x; unfold queued; by rewrite Hq).
  constructor; rewrite ?Hc, ?Hp, ?Hs, ?Hqq; auto.
Qed.

(** The members of an allocation that its static part determines. *)
Lemma info_inj a a' :
  info a' = info a ->
  backing a' = backing a /\ tracking_enabled a' = tracking_enabled a.
Proof. intros Hi. by injection Hi as -> -> _ _. Qed.

(** ** Changes of one allocation *)

(** Only allocation [b] changes, and nothing that belongs to another one. *)
Record touches (b : Z) (a : lupine_host_allocation) (behind behind' : gset Z)
    (memory memory' : Z -> byte) (w w' : mirror) : Prop := Touches {
  to_writes : host_writes w' = host_writes w;
  to_others : forall b', b' <> b -> find_alloc b' w' = find_alloc b' w;
  to_behind : forall b', b' <> b -> b' ∈ behind' <-> b' ∈ behind;
  to_outside : forall x, ~ b <= x < b + storage_size (backing a) ->
    client w' x = client w x /\ prot w' x = prot w x /\ memory' x = memory x;
  to_server : server w' = server w;
  to_queues : forall r b' x, b' <> b ->
    (exists range, range ∈ ranges (queues w' r) /\ covers b' x range) <->
    (exists range, range ∈ ranges (queues w r) /\ covers b' x range);
  to_pending : forall r, full_dirty_pending (queues w r) = true ->
    full_dirty_pending (queues w' r) = true;
}.

Lemma queued_split fl w b a x :
  queued fl w b a x <->
  (exists range, range ∈ fl_ranges fl /\ covers b x range) \/
  (exists range, range ∈ ranges (queues w (route_id (backing a))) /\ covers b x range).
Proof. unfold queued. setoid_rewrite elem_of_app. naive_solver. Qed.

Section Touch.
Context (t b : Z) (a : lupine_host_allocation) (behind behind' : gset Z)
  (memory memory' : Z -> byte) (fl : in_flight) (w w' : mirror).
Hypothesis Hco : coherent t behind memory fl w.
Hypothesis Ha : find_alloc b w = Some a.
Hypothesis Ht : touches b a behind behind' memory memory' w w'.

(** Another allocation's bytes are where they were. *)
Lemma touches_outside b' a' o :
  find_alloc b' w = Some a' -> b' <> b -> 0 <= o < al_size (backing a') ->
  client w' (b' + o) = client w (b' + o) /\ prot w' (b' + o) = prot w (b' + o) /\
  memory' (b' + o) = memory (b' + o).
Proof.
  intros Hf Hne Ho. apply (to_outside _ _ _ _ _ _ _ _ Ht).
  destruct (found_apart _ _ _ _ _ (co_shape _ _ _ _ _ Hco) Hf Ha Hne) as [Hap _].
  pose proof (so_size _ _ (found_static _ _ _ (co_shape _ _ _ _ _ Hco) Hf)).
  pose proof (so_size _ _ (found_static _ _ _ (co_shape _ _ _ _ _ Hco) Ha)). simpl in *. lia.
Qed.

Lemma touches_byte b' a' o :
  find_alloc b' w = Some a' -> b' <> b -> 0 <= o < al_size (backing a') ->
  byte_ok behind memory fl w b' a' o -> byte_ok behind' memory' fl w' b' a' o.
Proof.
  intros Hf Hne Ho [H1 H2 H3 H4 H5].
  destruct (touches_outside _ _ _ Hf Hne Ho) as (Hc&Hp&Hm).
  assert (forall x, queued fl w' b' a' x <-> queued fl w b' a' x) as Hq.
  { intros x. rewrite !queued_split. by rewrite (to_queues _ _ _ _ _ _ _ _ Ht). }
  pose proof (to_behind _ _ _ _ _ _ _ _ Ht _ Hne) as Hb.
  constructor; rewrite ?Hc, ?Hp, ?Hm, ?Hq, ?Hb, ?(to_server _ _ _ _ _ _ _ _ Ht); auto.
Qed.

Lemma touches_shape_coherent a' :
  shape (statics w') (fault_entries w') ->
  find_alloc b w' = Some a' -> tracking_enabled a' = true ->
  tracked_ok behind' memory' fl w' b a' ->
  (forall r range, range ∈ ranges (queues w' r) -> range_ok w' r range) ->
  ((exists r range, range ∈ ranges (queues w' r)) \/
   (exists b' a1, find_alloc b' w' = Some a1 /\ full_dirty a1 = true) ->
   flushed_epoch w' < required_epoch w' t) ->
  required_epoch w' t <= dirty_epoch w' /\ flushed_epoch w' <= dirty_epoch w' ->
  coherent t behind' memory' fl w'.
Proof.
  intros Hsh Hf Ht' Hk Hrg He Hd.
  destruct Hco as [Hco1 Hco2 Hco3 Hco4 Hco5 Hco6 Hco7 Hco8]. constructor; [done| |done..| | |].
  - by rewrite (to_writes _ _ _ _ _ _ _ _ Ht).
  - intros b' Hin. destruct (decide (b' = b)) as [->|Hne]; [exists a'; by rewrite Ht'|].
    apply (to_behind _ _ _ _ _ _ _ _ Ht _ Hne) in Hin. rewrite (to_others _ _ _ _ _ _ _ _ Ht _ Hne). auto.
  - intros b' a1 Hf1 Ht1. destruct (decide (b' = b)) as [->|Hne].
    { rewrite Hf in Hf1. by injection Hf1 as <-. }
    rewrite (to_others _ _ _ _ _ _ _ _ Ht _ Hne) in Hf1.
    destruct (Hco7 _ _ Hf1 Ht1) as [? Hpe Hfd Hby]. constructor; [done| | |].
    + intros ?. by apply (to_pending _ _ _ _ _ _ _ _ Ht), Hpe.
    + intros ?. rewrite (to_behind _ _ _ _ _ _ _ _ Ht _ Hne). auto.
    + intros o Ho. by apply touches_byte, Hby.
  - intros b' a1 Hf1 Ht1. destruct (decide (b' = b)) as [->|Hne].
    { rewrite Hf in Hf1. injection Hf1 as <-. congruence. }
    rewrite (to_others _ _ _ _ _ _ _ _ Ht _ Hne) in Hf1.
    destruct (Hco8 _ _ Hf1 Ht1) as (?&?&Hby). split; [done|]. split; [done|]. intros o Ho.
    destruct (touches_outside _ _ _ Hf1 Hne Ho) as (->&->&->). auto.
Qed.

Lemma touches_coherent a' :
  statics w' = statics w -> fault_entries w' = fault_entries w ->
  find_alloc b w' = Some a' -> info a' = info a -> tracking_enabled a = true ->
  tracked_ok behind' memory' fl w' b a' ->
  (forall r range, range ∈ ranges (queues w' r) -> range_ok w' r range) ->
  ((exists r range, range ∈ ranges (queues w' r)) \/
   (exists b' a1, find_alloc b' w' = Some a1 /\ full_dirty a1 = true) ->
   flushed_epoch w' < required_epoch w' t) ->
  required_epoch w' t <= dirty_epoch w' /\ flushed_epoch w' <= dirty_epoch w' ->
  coherent t behind' memory' fl w'.
Proof.
  intros Hs He Hf Hi Htr. destruct (info_inj _ _ Hi) as [_ Ht'].
  apply touches_shape_coherent; [rewrite Hs, He; apply Hco|done|congruence].
Qed.
End Touch.

(** ** Fetched bytes *)

(** An update of one allocation that fetched the offsets [fetched], all of them
    stale, and made [shown] readable. *)
Record fetched_into (w w' : mirror) (b : Z) (a a' : lupine_host_allocation)
    (fetched shown : Z -> bool) : Prop := FetchedInto {
  fi_statics : statics w' = statics w;
  fi_entries : fault_entries w' = fault_entries w;
  fi_queues : queues w' = queues w;
  fi_writes : host_writes w' = host_writes w;
  fi_epochs : dirty_epoch w' = dirty_epoch w /\ required_epoch w' = required_epoch w /\
              flushed_epoch w' = flushed_epoch w;
  fi_work : device_work_pending w' = device_work_pending w;
  fi_server : server w' = server w;
  fi_found : find_alloc b w' = Some a';
  fi_others : forall b', b' <> b -> find_alloc b' w' = find_alloc b' w;
  fi_info : info a' = info a;
  fi_full : full_dirty a' = full_dirty a;
  fi_fetch : fetch_ok a';
  fi_client : forall x, client w' x =
    if decide (b <= x < b + al_size (backing a) /\ fetched (x - b) = true)
    then server w (route_id (backing a)) (server_host_ptr (backing a) + (x - b)) else client w x;
  fi_prot : forall x, prot w' x =
    if decide (b <= x < b + storage_size (backing a) /\ shown (x - b) = true)
    then PROT_READ else prot w x;
  fi_stale : forall o, 0 <= o < al_size (backing a) -> fetched o = true -> valid a o = false;
  fi_valid : forall o, 0 <= o < al_size (backing a) ->
    (valid a' o = true <-> valid a o = true \/ fetched o = true);
  fi_shown : forall o, 0 <= o < al_size (backing a) -> shown o = true -> valid a' o = true;
}.

Section Fetched.
Context (t b : Z) (a a' : lupine_host_allocation) (behind : gset Z) (memory : Z -> byte)
  (fl : in_flight) (w w' : mirror) (fetched shown : Z -> bool).
Hypothesis Hst : static_ok b (info a).
Hypothesis Hfi : fetched_into w w' b a a' fetched shown.

Lemma fetched_byte o :
  0 <= o < al_size (backing a) ->
  byte_ok behind memory fl w b a o -> byte_ok behind memory fl w' b a' o.
Proof.
  intros Ho [B1 B2 B3 B4 B5]. pose proof (so_size _ _ Hst) as Hz. simpl in Hz.
  destruct (info_inj _ _ (fi_info _ _ _ _ _ _ _ Hfi)) as [Hb _].
  destruct Hfi as [_ _ Hq _ _ _ Hsv _ _ _ Hfu _ Hc Hp Hs Hv Hsh]. specialize (Hv o Ho).
  assert (fully_dirty fl b a' <-> fully_dirty fl b a) as Hfd by (unfold fully_dirty; by rewrite Hfu).
  assert (prot w' (b + o) = if shown o then PROT_READ else prot w (b + o)) as Hpo.
  { rewrite Hp. replace (b + o - b) with o by lia.
    destruct (shown o); case_decide as Hd; try done; destruct Hd; [lia|done]. }
  constructor; rewrite ?(queued_ext fl w w' b a a'), ?Hfd, ?Hpo, ?Hsv, ?Hb by done.
  - intros Hbh Hva. rewrite Hc. replace (b + o - b) with o by lia. case_decide as Hd.
    + destruct Hd as [_ Hd]. specialize (Hs o Ho Hd). apply B2; [|congruence].
      intros Hqd. destruct (B3 Hqd). congruence.
    + apply B1; [done|]. apply Hv in Hva as [?|?]; [done|]. destruct Hd. split; [lia|done].
  - intros Hnq Hnf. apply B2; [done|]. intros ? ?. apply Hnf; [done|]. apply Hv. by left.
  - intros Hqd. destruct (B3 Hqd). split; [apply Hv; by left|done].
  - destruct (shown o) eqn:Es; intros Hpp; [by apply Hsh|]. apply Hv. left. by apply B4.
  - destruct (shown o); [done|]. apply B5.
Qed.

Lemma fetched_coherent :
  coherent t behind memory fl w -> find_alloc b w = Some a -> tracking_enabled a = true ->
  coherent t behind memory fl w'.
Proof.
  intros Hco Ha Ht. pose proof Hfi as Hfi'.
  destruct (info_inj _ _ (fi_info _ _ _ _ _ _ _ Hfi)) as [Hb Ht'].
  destruct Hfi' as [Hs He Hq Hw [Hd [Hr Hf]] _ Hsv Hfo Hot Hi Hfu Hfe Hc Hp _ _ _].
  pose proof (so_size _ _ Hst) as Hz. simpl in Hz.
  apply (touches_coherent t b a behind behind memory memory fl w w' Hco Ha) with (a' := a');
    [|done|done|done|done|done| | | |by rewrite Hr, Hd, Hf; apply Hco].
  - constructor; [done|done|done| |done|by rewrite Hq|by rewrite Hq].
    intros x Hx. rewrite Hc, Hp. split_and!; [| |done]; case_decide; lia || done.
  - destruct (co_tracked _ _ _ _ _ Hco _ _ Ha Ht) as [_ Hpe Hfd Hby].
    constructor; [done|by rewrite Hfu, Hq, Hb| |].
    + unfold fully_dirty. by rewrite Hfu.
    + rewrite Hb. intros o Ho. by apply fetched_byte, Hby.
  - rewrite Hq. intros r range Hin. destruct (co_ranges _ _ _ _ _ Hco _ _ Hin) as (a1&Hf1&Hrest).
    destruct (decide (dr_allocation range = b)) as [E|Hne].
    + rewrite E, Ha in Hf1. injection Hf1 as <-. exists a'. by rewrite E, Hb, Ht' in *.
    + exists a1. by rewrite (Hot _ Hne).
  - rewrite Hq, Hr, Hf. intros [?|(b'&a1&Hf1&Hd1)]; apply (co_epoch _ _ _ _ _ Hco); [by left|right].
    destruct (decide (b' = b)) as [->|Hne].
    + exists b, a. split; [done|]. congruence.
    + exists b', a1. by rewrite <- (Hot _ Hne).
Qed.
End Fetched.

(** ** Runs of chunks *)

Lemma chunk_positive : 0 < CH.
Proof. done. Qed.

Lemma stale_run_spec fuel l p limit :
  (CH | p) -> let e := stale_run fuel l p limit in
  (CH | e) /\ p <= e /\ (forall o, p <= o < e -> chunk_is_fresh l o = false) /\
  (p < e -> e < limit + CH).
Proof.
  revert p. induction fuel as [|fuel IH]; intros p Hp; simpl; [split_and!; [done|lia|lia|lia]|].
  case_if; [|split_and!; [done|lia|lia|lia]]. breflect.
  destruct (IH (p + CH)) as (H3&H4&H5&H6); [by apply Z.divide_add_r; [|apply Z.divide_refl]|].
  pose proof chunk_positive.
  split_and!; [done|lia| |].
  - intros o Ho. destruct (decide (o < p + CH)); [|apply H5; lia].
    destruct Hp as [q ->]. unfold chunk_is_fresh in *.
    replace (o / CH) with (q * CH / CH); [done|].
    rewrite Z.div_mul by lia. apply Z.div_unique with (o - q * CH); lia.
  - intros _. destruct (decide (p + CH < stale_run fuel l (p + CH) limit)); lia.
Qed.

(** The run does not end early. *)
Lemma stale_run_first fuel l p limit :
  p < limit -> chunk_is_fresh l p = false -> (CH | p) -> p + CH <= stale_run (S fuel) l p limit.
Proof.
  intros Hp Hf Hd. simpl. rewrite Hf. destruct (Z.ltb_spec p limit); [|lia]. simpl.
  apply (stale_run_spec fuel l (p + CH) limit). by apply Z.divide_add_r; [|apply Z.divide_refl].
Qed.

Lemma chunk_index n o : 0 <= o < n -> (Z.to_nat (o / CH) < chunks_of n)%nat.
Proof.
  intros Ho. unfold chunks_of. pose proof chunk_positive.
  assert (o / CH < (n + CH - 1) / CH); [|pose proof (Z.div_pos o CH); lia].
  apply Z.div_lt_upper_bound; [lia|]. pose proof (Z.div_mod (n + CH - 1) CH ltac:(lia)).
  pose proof (Z.mod_pos_bound (n + CH - 1) CH ltac:(lia)). lia.
Qed.

(** Inside the allocation a chunk is fresh or stale as its flag says. *)
Lemma chunk_flag l n o :
  length l = chunks_of n -> 0 <= o < n ->
  l !! Z.to_nat (o / CH) = Some (chunk_is_fresh l o).
Proof.
  intros Hl Ho. unfold chunk_is_fresh.
  destruct (l !! _) eqn:E; [done|]. apply lookup_ge_None in E. pose proof (chunk_index n o Ho). lia.
Qed.

Lemma fetched_flag l n s e o :
  length l = chunks_of n -> (CH | s) -> 0 <= s -> (CH | e) \/ e = n -> 0 <= o < n ->
  chunk_is_fresh (fetched_chunks l s e) o = chunk_is_fresh l o || bool_decide (s <= o < e).
Proof.
  intros Hl Hs Hs0 He Ho. pose proof chunk_positive.
  unfold chunk_is_fresh at 1, fetched_chunks. rewrite lookup_mark_fresh, (chunk_flag l n o Hl Ho). simpl.
  rewrite Z2Nat.id by (apply Z.div_pos; lia).
  assert (s / CH <= o / CH < (e + CH - 1) / CH <-> s <= o < e) as Hiff.
  { destruct Hs as [q ->]. rewrite Z.div_mul by lia.
    pose proof (Z.div_mod o CH ltac:(lia)). pose proof (Z.mod_pos_bound o CH ltac:(lia)).
    pose proof (Z.div_mod (e + CH - 1) CH ltac:(lia)).
    pose proof (Z.mod_pos_bound (e + CH - 1) CH ltac:(lia)).
    split.
    - intros [Hlo Hhi]. split; [nia|]. destruct He as [[u ->]| ->]; [|lia].
      replace (u * CH + CH - 1) with (CH - 1 + u * CH) in Hhi by lia.
      rewrite Z_div_plus_full, (Z.div_small (CH - 1)) in Hhi by lia. nia.
    - intros [Hlo Hhi]. split; nia. }
  case_decide as Hd; rewrite Hiff in Hd.
  - by rewrite bool_decide_eq_true_2, orb_true_r.
  - by rewrite bool_decide_eq_false_2, orb_false_r.
Qed.

Lemma forallb_flags l n o :
  length l = chunks_of n -> 0 <= o < n -> forallb id l = true -> chunk_is_fresh l o = true.
Proof.
  intros Hl Ho Hall. pose proof (chunk_flag l n o Hl Ho) as E.
  apply list_elem_of_lookup_2 in E. rewrite forallb_forall in Hall.
  apply list_elem_of_In in E. exact (Hall _ E).
Qed.

(** An allocation with the flags that a fetch leaves, and the stale state that they
    call for. *)
Definition fetched_alloc (l : list bool) (next readahead : Z) (a : lupine_host_allocation)
    : lupine_host_allocation :=
  set_stale (if forallb id l then 0 else 1) 0 (set_fetch (Some l) next readahead a).

Lemma valid_flag a l o :
  device_stale a = 1 -> fresh_chunks a = Some l ->
  length l = chunks_of (storage_size (backing a)) -> 0 <= o < storage_size (backing a) ->
  valid a o = chunk_is_fresh l o.
Proof.
  intros Hs Hl Hn Ho. unfold valid. rewrite Hs, Hl. simpl.
  by rewrite (chunk_flag l _ o Hn Ho).
Qed.

Lemma valid_fetched l next readahead a o :
  length l = chunks_of (storage_size (backing a)) -> 0 <= o < storage_size (backing a) ->
  valid (fetched_alloc l next readahead a) o = chunk_is_fresh l o.
Proof.
  intros Hn Ho. unfold valid, fetched_alloc. simpl. destruct (forallb id l) eqn:Ef; simpl.
  - by rewrite (forallb_flags _ _ _ Hn Ho Ef).
  - by rewrite (chunk_flag _ _ _ Hn Ho).
Qed.

(** A world in which the bytes have arrived and only the allocation changed is a
    fetch of the chunks that became fresh. *)
Lemma fetched_into_intro w w1 b a g l l' s e next readahead :
  om_sorted (statics w) -> static_ok b (info a) -> find_alloc b w = Some a ->
  device_stale a = 1 -> stale_fetch_conn a = Some (route_id (backing a)) ->
  fresh_chunks a = Some l -> length l = chunks_of (storage_size (backing a)) ->
  0 <= s -> e <= storage_size (backing a) -> length l' = length l ->
  let fetched o := chunk_is_fresh l' o && negb (chunk_is_fresh l o) in
  (forall o, 0 <= o < storage_size (backing a) -> chunk_is_fresh l o = true -> chunk_is_fresh l' o = true) ->
  (forall o, s <= o < e -> chunk_is_fresh l' o = true) ->
  same_but_client (update_alloc b g w) w1 ->
  (forall x, client w1 x = if decide (b <= x < b + al_size (backing a) /\ fetched (x - b) = true)
     then server w (route_id (backing a)) (server_host_ptr (backing a) + (x - b))
     else client w x) ->
  fetched_into w
    (update_alloc b (fun _ => fetched_alloc l' next readahead a)
       (if s <? e then mprotect (b + s) (e - s) PROT_READ w1 else w1))
    b a (fetched_alloc l' next readahead a) fetched (fun o => bool_decide (s <= o < e)).
Proof.
  intros Hsort Hst Ha Hs1 Hcn Hl Hn Hs0 He Hn' fetched Hkeep Hfresh Hsame Hc.
  pose proof (so_size _ _ Hst) as Hz. simpl in Hz.
  destruct Hsame as [S1 S2 S3 S4 S5 S6 S7 S8 S9 S10].
  set (w2 := if s <? e then mprotect (b + s) (e - s) PROT_READ w1 else w1).
  set (a' := fetched_alloc l' next readahead a).
  assert (registry (update_alloc b (fun _ => a') w2) = registry (update_alloc b (fun _ => a') w)) as Hreg.
  { rewrite (update_registry (update_alloc b g w)); [by rewrite update_update|].
    rewrite <- S1. unfold w2. by destruct (s <? e). }
  assert (forall x, prot w2 x = if decide (b + s <= x < b + e) then PROT_READ else prot w x) as Hp2.
  { intros x. change (prot w x) with (prot (update_alloc b g w) x). rewrite <- S9. unfold w2.
    destruct (Z.ltb_spec s e); [|by rewrite decide_False by lia].
    replace (e - s) with (b + e - (b + s)) by lia. apply prot_protect. }
  assert (queues w2 = queues w1 /\ fault_entries w2 = fault_entries w1 /\
    dirty_epoch w2 = dirty_epoch w1 /\ required_epoch w2 = required_epoch w1 /\
    flushed_epoch w2 = flushed_epoch w1 /\ host_writes w2 = host_writes w1 /\
    client w2 = client w1 /\ server w2 = server w1 /\
    device_work_pending w2 = device_work_pending w1) as (Q1&Q2&Q3&Q4&Q5&Q6&Q7&Q8&Q9)
    by (unfold w2; by destruct (s <? e)).
  constructor; simpl; rewrite ?Q1, ?Q2, ?Q3, ?Q4, ?Q5, ?Q6, ?Q7, ?Q8, ?Q9; try done.
  - rewrite (statics_registry _ _ Hreg). apply statics_map; [|done].
    intros a1 Ha1. rewrite Ha in Ha1. by injection Ha1 as <-.
  - rewrite (find_registry _ _ _ Hreg). exact (find_update_same b (fun _ => a') w a Ha).
  - intros b' Hb'. rewrite (find_registry _ _ _ Hreg). by apply find_update_other.
  - split; [|exists l'; split; [done|simpl; congruence]].
    unfold a', fetched_alloc. simpl. destruct (forallb id l'); auto.
  - intros x. rewrite Hp2. repeat case_decide; try done; rewrite bool_decide_eq_true in *; lia.
  - intros o Ho Hb. unfold fetched in Hb. rewrite (valid_flag a l o) by (done || lia).
    by destruct (chunk_is_fresh l o), (chunk_is_fresh l' o).
  - intros o Ho. unfold a', fetched. rewrite valid_fetched, (valid_flag a l o) by (congruence || lia).
    specialize (Hkeep o ltac:(lia)).
    destruct (chunk_is_fresh l o), (chunk_is_fresh l' o); naive_solver.
  - intros o Ho Hb. apply bool_decide_eq_true in Hb. unfold a'.
    rewrite valid_fetched by (congruence || lia). auto.
Qed.

(** ** The fault handler *)

(** The page that the handler opens. *)
Lemma fault_page b x :
  (lupine_page_size | b) -> b + (x - b) / lupine_page_size * lupine_page_size = page_down x.
Proof.
  intros [q ->]. pose proof page_positive. unfold page_down.
  replace (x - q * lupine_page_size) with (x + - q * lupine_page_size) by lia.
  rewrite Z_div_plus_full by lia. pose proof (Z.div_mod x lupine_page_size). lia.
Qed.

Section Queue.
Context (t b : Z) (a : lupine_host_allocation) (w : mirror).

(** The effect of queueing a range or, when the queue is full, the allocation. *)
Record queues_range (s e : Z) (w' : mirror) (a' : lupine_host_allocation) : Prop := QueuesRange {
  qr_statics : statics w' = statics w;
  qr_entries : fault_entries w' = fault_entries w;
  qr_writes : host_writes w' = host_writes w;
  qr_memory : client w' = client w /\ prot w' = prot w /\ server w' = server w;
  qr_epochs : required_epoch w' t = dirty_epoch w' /\ dirty_epoch w' = dirty_epoch w + 1 /\
              flushed_epoch w' = flushed_epoch w;
  qr_found : find_alloc b w' = Some a';
  qr_others : forall b', b' <> b -> find_alloc b' w' = find_alloc b' w;
  qr_info : info a' = info a;
  qr_fetch : device_stale a' = device_stale a /\ stale_fetch_conn a' = stale_fetch_conn a /\
             fresh_chunks a' = fresh_chunks a;
  qr_other_queues : forall r, r <> route_id (backing a) -> queues w' r = queues w r;
  qr_queue :
    let q := queues w (route_id (backing a)) in
    full_dirty a' = full_dirty a /\
      queues w' (route_id (backing a)) =
        DirtyQueue (ranges q ++ [DirtyRange b s e]) (full_dirty_pending q) \/
    full_dirty a' = true /\ queues w' (route_id (backing a)) = DirtyQueue (ranges q) true;
}.

Lemma queue_range_spec s e :
  find_alloc b w = Some a -> 0 <= route_id (backing a) < LUPINE_MAX_MANAGED_HOST_FLUSH_ROUTES ->
  s < e -> exists w' a', lupine_queue_dirty_host_range t b a s e w = w' /\ queues_range s e w' a'.
Proof.
  intros Ha Hr Hse.
  unfold lupine_queue_dirty_host_range. destruct (Z.leb_spec e s); [lia|].
  unfold LUPINE_MAX_MANAGED_HOST_FLUSH_ROUTES in *.
  destruct (Z.ltb_spec (route_id (backing a)) 0); [lia|].
  destruct (Z.leb_spec 16 (route_id (backing a))); [lia|]. simpl.
  case_if; [eexists _, (add_pending 1 a)|eexists _, (set_full_dirty true a)];
    (split; [done|]); constructor; simpl; try done.
  all: rewrite ?Z.eqb_refl; auto.
  all: try by apply (statics_update b).
  all: try by apply (find_update_same b _ w a Ha).
  all: try (intros b' Hb'; by apply (find_update_other b)).
  all: try (intros r Hne; by destruct (Z.eqb_spec r (route_id (backing a)))).
  all: first [by left|by right].
Qed.
End Queue.

Section Fault.
Context (t b : Z) (a : lupine_host_allocation) (behind : gset Z) (memory : Z -> byte)
  (fl : in_flight) (w : mirror).
Hypothesis Hco : coherent t behind memory fl w.
Hypothesis Ha : find_alloc b w = Some a.
Hypothesis Htr : tracking_enabled a = true.

Lemma fault_static : static_ok b (info a).
Proof. eapply found_static; [apply Hco|done]. Qed.

(** On a tracked allocation the handler queues the page, or fetches. *)
Lemma handler_cases addr :
  b <= addr < b + storage_size (backing a) ->
  lupine_sigsegv_handler t addr w =
    if valid a (addr - b) then
      Some (Handled, mprotect (page_down addr) lupine_page_size PROT_WRITE
        (lupine_queue_dirty_host_range t b a (page_down addr) (page_down addr + lupine_page_size) w))
    else
      let '(span, w) := lupine_demand_fetch_run b a (addr - b) (update_alloc b (set_stale 2 t) w) in
      match span with
      | Some (span_start, span_end) =>
          Some (Handled, update_alloc b (fun a => set_stale (device_stale a) 0 a)
                           (lupine_finish_demand_fetch b span_start span_end w))
      | None => Some (PreviousHandler, update_alloc b (set_stale 1 0) w)
      end.
Proof.
  intros Hx. pose proof fault_static as Hs.
  destruct Hs as [_ _ Hz _ [Hp Hps] [Hpg Hpc] Hr [_ (_&_&Hre)] _ Hro _ _ _]. simpl in *.
  destruct (co_tracked _ _ _ _ _ Hco _ _ Ha Htr) as [[Hst _] _ _ _].
  unfold lupine_sigsegv_handler.
  erewrite (shape_fault _ _ b (info a) addr (co_shape _ _ _ _ _ Hco));
    [|apply (om_find_elem b); [apply Hco|by rewrite statics_find, Ha]|done|done].
  rewrite Ha. simpl fe_base. rewrite Hpg, Hpc, Hre.
  pose proof page_positive. unfold LUPINE_MAX_MANAGED_HOST_FLUSH_ROUTES in *.
  destruct (Z.leb_spec (storage_size (backing a) / lupine_page_size)
    ((addr - b) / lupine_page_size)) as [Hle|_].
  { exfalso. destruct Hps as [q Hq]. rewrite Hq, Z.div_mul in Hle by lia.
    assert ((addr - b) / lupine_page_size < q) by (apply Z.div_lt_upper_bound; [done|]; rewrite Z.mul_comm; lia). lia. }
  destruct (Z.ltb_spec (route_id (backing a)) 0); [lia|].
  destruct (Z.leb_spec 16 (route_id (backing a))); [lia|]. simpl.
  rewrite fault_page by done. unfold valid.
  assert (match fresh_chunks a with
          | Some chunks => default false (chunks !! Z.to_nat ((addr - b) / CH))
          | None => false end =
          default false (default [] (fresh_chunks a) !! Z.to_nat ((addr - b) / CH))) as ->
    by (by destruct (fresh_chunks a)).
  rewrite <- negb_orb. destruct (_ || _) eqn:E; simpl; [done|].
  apply orb_false_iff in E as [E _]. destruct Hst as [Hst|[-> _]]; [by rewrite Hst in E|].
  simpl. by destruct (lupine_demand_fetch_run _ _ _ _) as [[[]|] ?].
Qed.

Lemma readahead_limit_spec start :
  0 <= start < storage_size (backing a) ->
  start < (readahead_limit a start).1 <= storage_size (backing a).
Proof.
  intros Hst. pose proof chunk_positive. unfold readahead_limit, LUPINE_DEMAND_FETCH_READAHEAD_CAP.
  repeat case_if; simpl; unfold CH in *; lia.
Qed.

(** A fault on a stale byte fetches a run of stale chunks around it. *)
Lemma handler_fetches addr :
  b <= addr < b + al_size (backing a) -> valid a (addr - b) = false ->
  exists w' a' fetched shown, lupine_sigsegv_handler t addr w = Some (Handled, w') /\
    fetched_into w w' b a a' fetched shown /\ shown (addr - b) = true /\ valid a' (addr - b) = true.
Proof.
  intros Hx Hv. pose proof fault_static as Hs. pose proof chunk_positive as HC.
  pose proof (so_size _ _ Hs) as Hz. simpl in Hz.
  rewrite handler_cases, Hv by lia.
  destruct (co_tracked _ _ _ _ _ Hco _ _ Ha Htr) as [[Hst (l&Hl&Hn)] _ _ _].
  assert (device_stale a = 1 /\ stale_fetch_conn a = Some (route_id (backing a))) as [Hs1 Hcn].
  { destruct Hst as [Hst|]; [|done]. unfold valid in Hv. by rewrite Hst in Hv. }
  set (o := addr - b) in *. set (s := o / CH * CH).
  assert (s <= o < s + CH) as Hso.
  { pose proof (Z.div_mod o CH ltac:(lia)). pose proof (Z.mod_pos_bound o CH ltac:(lia)). lia. }
  assert (0 <= s) as Hs0 by (pose proof (Z.div_pos o CH ltac:(lia)); lia).
  assert (CH | s) as Hds by (by exists (o / CH)).
  unfold lupine_demand_fetch_run. rewrite Hl. fold s.
  pose proof (readahead_limit_spec s ltac:(lia)) as Hlim.
  destruct (readahead_limit a s) as [limit ra]. simpl in Hlim.
  destruct (stale_run_spec (S (length l)) l s limit Hds) as (Hde&_&Hfr&_).
  assert (chunk_is_fresh l s = false) as Hf0.
  { rewrite (valid_flag a l o) in Hv by (done || lia). revert Hv. unfold chunk_is_fresh, s.
    by rewrite Z.div_mul by lia. }
  pose proof (stale_run_first (length l) l s limit ltac:(lia) Hf0 Hds) as Hge.
  set (run := stale_run (S (length l)) l s limit) in *.
  set (e := Z.min run (storage_size (backing a))).
  destruct (Z.leb_spec e s); [lia|].
  destruct (Z.eqb_spec (io_alias (backing a)) 0); [by destruct (so_alias _ _ Hs)|].
  destruct (fetch_range_spec b a s e
    (update_alloc b (set_fetch (Some l) (fetch_seq_next a) ra) (update_alloc b (set_stale 2 t) w))
    Hs Hcn ltac:(lia) ltac:(lia)) as (w1&->&Hsame&Hcl). simpl.
  pose proof (sh_sorted _ _ (co_shape _ _ _ _ _ Hco)) as Hsort.
  set (l' := fetched_chunks l s e).
  assert (length l' = length l) as Hn' by apply length_mark_fresh.
  assert ((CH | e) \/ e = storage_size (backing a)) as Hde'.
  { unfold e. destruct (Z.min_spec run (storage_size (backing a))) as [[_ ->]|[_ ->]]; auto. }
  assert (forall o, 0 <= o < storage_size (backing a) ->
    chunk_is_fresh l' o = chunk_is_fresh l o || bool_decide (s <= o < e)) as Hl'
    by (intros; by eapply fetched_flag).
  assert (forall o, 0 <= o < storage_size (backing a) ->
    chunk_is_fresh l' o && negb (chunk_is_fresh l o) = bool_decide (s <= o < e)) as Hf.
  { intros o' Ho'. rewrite Hl' by done. case_bool_decide.
    - rewrite Hfr by lia. done.
    - by destruct (chunk_is_fresh l o'). }
  exists (update_alloc b (fun _ => fetched_alloc l' e ra a)
    (if s <? e then mprotect (b + s) (e - s) PROT_READ w1 else w1)).
  exists (fetched_alloc l' e ra a), (fun o => chunk_is_fresh l' o && negb (chunk_is_fresh l o)),
    (fun o => bool_decide (s <= o < e)).
  rewrite update_update in Hsame. split.
  - unfold lupine_finish_demand_fetch.
    assert (find_alloc b w1 = Some (set_fetch (Some l) (fetch_seq_next a) ra (set_stale 2 t a))) as Hf1.
    { rewrite (find_registry _ _ b (sbc_registry _ _ Hsame)).
      by rewrite (find_update_same _ _ _ _ Ha). }
    erewrite find_update_same by exact Hf1. simpl fresh_chunks. simpl backing.
    destruct (so_base _ _ Hs) as [Hb _]. simpl in Hb. rewrite Hb. destruct (Z.ltb_spec s e); [|lia].
    do 2 f_equal.
    change (update_alloc b ?f (mprotect ?x ?y ?p ?v)) with (mprotect x y p (update_alloc b f v)).
    change (update_alloc b ?f (mprotect ?x ?y ?p ?v)) with (mprotect x y p (update_alloc b f v)).
    change (update_alloc b ?f (mprotect ?x ?y ?p ?v)) with (mprotect x y p (update_alloc b f v)).
    f_equal. rewrite !update_update. apply update_at.
    + rewrite (statics_registry _ _ (sbc_registry _ _ Hsame)). by rewrite statics_update.
    + intros a1 Ha1. rewrite Hf1 in Ha1. by injection Ha1 as <-.
  - split; [|split; [by rewrite bool_decide_eq_true_2 by lia|]].
    + eapply fetched_into_intro; try done; [lia| | |].
      * intros o' Ho' Hfo. by rewrite Hl', Hfo.
      * intros o' Ho'. rewrite Hl' by lia. by rewrite bool_decide_eq_true_2, orb_true_r.
      * intros x. rewrite Hcl. apply decide_ext. simpl. split; intros Hx'.
        -- split; [lia|]. rewrite Hf by lia. apply bool_decide_eq_true. lia.
        -- destruct Hx' as [? Hx']. rewrite Hf, bool_decide_eq_true in Hx' by lia. lia.
    + rewrite valid_fetched by (simpl; congruence || lia).
      rewrite Hl', bool_decide_eq_true_2 by lia. apply orb_true_r.
Qed.

(** Bytes of one page are fresh or stale together. *)
Lemma valid_page x y : page_down x = page_down y -> valid a (x - b) = valid a (y - b).
Proof.
  intros Hp. pose proof fault_static as Hs. destruct (so_pages _ _ Hs) as [Hb _].
  pose proof page_positive. destruct page_divides_chunk as [q Hq]. pose proof chunk_positive.
  assert ((x - b) / lupine_page_size = (y - b) / lupine_page_size) as Hd.
  { apply (Z.mul_reg_r _ _ lupine_page_size); [lia|].
    pose proof (fault_page b x Hb). pose proof (fault_page b y Hb). lia. }
  assert (0 < q) by nia.
  assert (forall z, z / CH = z / lupine_page_size / q) as Hdd
    by (intros z; rewrite Hq, Z.mul_comm, Z.div_div by lia; done).
  unfold valid. by rewrite !Hdd, Hd.
Qed.

Lemma page_inside x :
  b <= x < b + storage_size (backing a) ->
  b <= page_down x /\ page_down x + lupine_page_size <= b + storage_size (backing a).
Proof.
  intros Hx. destruct (so_pages _ _ fault_static) as [Hb Hs]. simpl in Hs.
  split; [apply page_down_ge; [done|lia]|apply page_down_lt; [by apply Z.divide_add_r|lia]].
Qed.

(** Queueing valid bytes of an allocation that the device is not writing. *)
Lemma queue_coherent s e w' a' :
  queues_range t b a w s e w' a' -> b ∉ behind ->
  b <= s < e -> e <= b + storage_size (backing a) -> whole_pages b (al_size (backing a)) (DirtyRange b s e) ->
  (forall o, 0 <= o < al_size (backing a) -> s <= b + o < e -> valid a o = true) ->
  coherent t behind memory fl w' /\
  forall x, s <= x < e -> queued fl w' b a' x \/ fully_dirty fl b a'.
Proof.
  intros [Q1 Q2 Q3 [Qc [Qp Qs]] [Qr [Qd Qf]] Qa Qo Qi [Qv [Qn Qh]] Qrs Qq] Hbh Hse Hen Hwp Hval.
  destruct (info_inj _ _ Qi) as [Hb Ht'].
  destruct (co_tracked _ _ _ _ _ Hco _ _ Ha Htr) as [Hfe Hpe Hfd Hby].
  destruct (co_required _ _ _ _ _ Hco) as [Hrq Hfl].
  set (r := route_id (backing a)) in *.
  assert (forall r' range, range ∈ ranges (queues w' r') ->
    range ∈ ranges (queues w r') \/ r' = r /\ range = DirtyRange b s e) as Hin.
  { intros r' range. destruct (decide (r' = r)) as [->|Hne]; [|rewrite Qrs by done; auto].
    destruct Qq as [[_ ->]|[_ ->]]; simpl; [|auto]. rewrite elem_of_app, list_elem_of_singleton. naive_solver. }
  assert (forall r' range, range ∈ ranges (queues w r') -> range ∈ ranges (queues w' r')) as Hout.
  { intros r' range. destruct (decide (r' = r)) as [->|Hne]; [|by rewrite Qrs].
    destruct Qq as [[_ ->]|[_ ->]]; simpl; [|auto]. rewrite elem_of_app. auto. }
  assert (forall o, valid a' o = valid a o) as Hv by (intros o; unfold valid; by rewrite Qv, Qh).
  assert (forall x, s <= x < e -> queued fl w' b a' x \/ fully_dirty fl b a') as Hnew.
  { intros x Hx. destruct Qq as [[_ Eq]|[Ef _]]; [left|right; by left].
    exists (DirtyRange b s e). rewrite Hb. fold r. rewrite Eq. simpl.
    rewrite !elem_of_app, list_elem_of_singleton. split; [auto|by split]. }
  assert (forall x, queued fl w b a x -> queued fl w' b a' x) as Hqm.
  { intros x. rewrite !queued_split, Hb. fold r. naive_solver. }
  assert (fully_dirty fl b a -> fully_dirty fl b a') as Hfm.
  { unfold fully_dirty. destruct Qq as [[-> _]|[-> _]]; naive_solver. }
  split; [|done].
  apply (touches_coherent t b a behind behind memory memory fl w w' Hco Ha) with (a' := a'); try done.
  - constructor; try done; [intros x _; by rewrite Qc, Qp| |].
    + intros r' b' x Hne. split; intros (range&Hr&Hc); exists range; [|by auto].
      apply Hin in Hr as [?|[_ ->]]; [done|]. destruct Hc as [Hc _]. by rewrite <- Hc in Hne.
    + intros r' Hp. destruct (decide (r' = r)) as [->|Hne]; [|by rewrite Qrs].
      by destruct Qq as [[_ ->]|[_ ->]].
  - constructor.
    + destruct Hfe as [? [l ?]]. unfold fetch_ok. rewrite Qv, Qn, Qh, Hb. eauto.
    + intros Hf. rewrite Hb. fold r. destruct Qq as [[E ->]|[_ ->]]; [|done]. simpl. apply Hpe. congruence.
    + done.
    + rewrite Hb. intros o Ho. destruct (Hby o Ho) as [B1 B2 B3 B4 B5].
      constructor; rewrite ?Hv, ?Qc, ?Qp, ?Qs, ?Hb; auto.
      * intros (range&Hr&Hc). apply elem_of_app in Hr as [Hr|Hr].
        { apply B3. exists range. split; [apply elem_of_app; auto|done]. }
        rewrite Hb in Hr. apply Hin in Hr as [Hr|[_ ->]].
        { apply B3. exists range. split; [apply elem_of_app; auto|done]. }
        destruct Hc as [_ Hc]. simpl in Hc. auto.
      * intros Hw. destruct (B5 Hw) as [[]]; auto.
  - intros r' range Hr. apply Hin in Hr as [Hr|[-> ->]].
    + destruct (co_ranges _ _ _ _ _ Hco _ _ Hr) as (a1&Hf1&Hrest).
      destruct (decide (dr_allocation range = b)) as [E|Hne].
      * rewrite E, Ha in Hf1. injection Hf1 as <-. exists a'. by rewrite E, Hb, Ht' in *.
      * exists a1. by rewrite (Qo _ Hne).
    + exists a'. simpl. rewrite Hb, Ht'. split_and!; try done; lia.
  - lia.
  - lia.
Qed.

(** Opening pages of bytes that are queued. *)
Lemma unprotect_coherent s e :
  b <= s -> e <= b + storage_size (backing a) -> b ∉ behind ->
  (forall o, 0 <= o < al_size (backing a) -> s <= b + o < e ->
    valid a o = true /\ (queued fl w b a (b + o) \/ fully_dirty fl b a)) ->
  coherent t behind memory fl (mprotect s (e - s) PROT_WRITE w).
Proof.
  intros Hs He Hbh Hok.
  apply (touches_coherent t b a behind behind memory memory fl w _ Hco Ha) with (a' := a); try done;
    [| |apply Hco..].
  - constructor; try done. intros x Hx. rewrite prot_protect. case_decide; [lia|done].
  - destruct (co_tracked _ _ _ _ _ Hco _ _ Ha Htr) as [Hfe Hpe Hfd Hby]. constructor; [done..|].
    intros o Ho. destruct (Hby o Ho) as [B1 B2 B3 B4 B5].
    constructor; rewrite ?prot_protect; auto; case_decide as Hd; auto; intros _;
      destruct (Hok o Ho Hd); auto.
Qed.

End Fault.

(** A fault on a valid byte queues its page and opens it. *)
Lemma handler_queues t b a behind memory fl w addr :
  coherent t behind memory fl w -> find_alloc b w = Some a -> tracking_enabled a = true ->
  b <= addr < b + al_size (backing a) -> valid a (addr - b) = true -> b ∉ behind ->
  exists w', lupine_sigsegv_handler t addr w = Some (Handled, w') /\
    coherent t behind memory fl w' /\ prot w' addr = PROT_WRITE /\ client w' = client w /\
    statics w' = statics w.
Proof.
  intros Hco Ha Htr Hx Hv Hbh.
  pose proof (so_size _ _ (found_static _ _ _ (co_shape _ _ _ _ _ Hco) Ha)) as Hz. simpl in Hz.
  destruct (page_down_spec addr) as [Hpd Hpm]. destruct (page_inside t b a behind memory fl w Hco Ha addr) as [Hpi Hpi']; [lia|].
  pose proof page_positive as HP.
  rewrite (handler_cases t b a behind memory fl w Hco Ha Htr addr), Hv by lia. set (p := page_down addr) in *.
  destruct (queue_range_spec t b a w p (p + lupine_page_size) Ha) as (w'&a'&->&Hq); [|lia|].
  { pose proof (so_route _ _ (found_static _ _ _ (co_shape _ _ _ _ _ Hco) Ha)) as Hr. simpl in Hr. lia. }
  exists (mprotect p lupine_page_size PROT_WRITE w'). split; [done|].
  assert (forall o, p <= b + o < p + lupine_page_size -> valid a o = true) as Hval.
  { intros o Ho. rewrite <- Hv. replace o with (b + o - b) by lia.
    apply (valid_page t b a behind memory fl w Hco Ha). unfold p in Ho. apply page_down_same in Ho. exact Ho. }
  destruct (queue_coherent t b a behind memory fl w Hco Ha Htr p (p + lupine_page_size) w' a' Hq Hbh) as [Hco' Hnew]; [lia|lia| |auto|].
  { intros x Hxx. simpl. rewrite page_down_multiple by done.
    rewrite page_up_multiple; [done|]. by apply Z.divide_add_r; [|apply Z.divide_refl]. }
  destruct Hq as [Q1 Q2 Q3 [Qc _] _ Qa _ Qi [Qv [_ Qh]] _ _]. destruct (info_inj _ _ Qi) as [Hb Ht'].
  split_and!; [|by unfold mprotect; simpl; rewrite (proj2 (Z.leb_le _ _)), (proj2 (Z.ltb_lt _ _)) by lia|done|done].
  replace (mprotect p lupine_page_size) with (mprotect p (p + lupine_page_size - p)) by (f_equal; lia).
  apply (unprotect_coherent t b a' behind memory fl w' Hco' Qa); rewrite ?Hb, ?Ht'; try done.
  intros o Ho Hpo. split; [|by apply Hnew]. unfold valid. rewrite Qv, Qh. by apply Hval.
Qed.

(** ** Fetches from normal context *)

Section Runs.
Context (b : Z) (a : lupine_host_allocation).
Hypothesis Hs : static_ok b (info a).
Hypothesis Hcn : stale_fetch_conn a = Some (route_id (backing a)).

(** What fetching turns flags [l] into [l'] did to client memory. *)
Definition chunks_fetched (l l' : list bool) (w w' : mirror) : Prop :=
  same_but_client w w' /\ length l' = length l /\
  (forall o, 0 <= o < storage_size (backing a) -> chunk_is_fresh l o = true ->
    chunk_is_fresh l' o = true) /\
  forall x, client w' x =
    if decide (b <= x < b + al_size (backing a) /\
               chunk_is_fresh l' (x - b) && negb (chunk_is_fresh l (x - b)) = true)
    then server w (route_id (backing a)) (server_host_ptr (backing a) + (x - b)) else client w x.

Lemma chunks_fetched_refl l w : chunks_fetched l l w w.
Proof.
  split_and!; [done..|]. intros x. case_decide as Hd; [|done]. destruct Hd as [_ Hd].
  by destruct (chunk_is_fresh l (x - b)).
Qed.

Lemma chunks_fetched_trans l l1 l2 w w1 w2 :
  chunks_fetched l l1 w w1 -> chunks_fetched l1 l2 w1 w2 -> chunks_fetched l l2 w w2.
Proof.
  intros (S1&N1&K1&C1) (S2&N2&K2&C2). pose proof (so_size _ _ Hs) as Hz. simpl in Hz.
  split_and!; [destruct S1, S2; constructor; congruence|congruence|auto|].
  intros x. rewrite C2, C1, (sbc_server _ _ S1).
  destruct (decide (b <= x < b + al_size (backing a))) as [Hx|Hx]; [|by rewrite !decide_False by tauto].
  specialize (K1 (x - b) ltac:(lia)). specialize (K2 (x - b) ltac:(lia)).
  destruct (chunk_is_fresh l (x - b)), (chunk_is_fresh l1 (x - b)), (chunk_is_fresh l2 (x - b));
    simpl; try (by specialize (K1 eq_refl)); try (by specialize (K2 eq_refl));
    repeat case_decide; tauto || (exfalso; intuition congruence).
Qed.

(** One run of stale chunks. *)
Lemma run_fetched l p e w :
  length l = chunks_of (storage_size (backing a)) -> (CH | p) -> 0 <= p < al_size (backing a) ->
  p < e <= storage_size (backing a) -> (CH | e) \/ e = storage_size (backing a) ->
  (forall o, p <= o < e -> chunk_is_fresh l o = false) ->
  exists w', lupine_fetch_stale_range a p (e - p) w = (true, w') /\
    chunks_fetched l (fetched_chunks l p e) w w' /\
    forall o, 0 <= o < storage_size (backing a) ->
      chunk_is_fresh (fetched_chunks l p e) o = chunk_is_fresh l o || bool_decide (p <= o < e).
Proof.
  intros Hn Hd Hp He Hde Hstale. pose proof (so_size _ _ Hs) as Hz. simpl in Hz.
  destruct (fetch_range_spec b a p e w Hs Hcn Hp He) as (w'&->&Hsame&Hc).
  assert (forall o, 0 <= o < storage_size (backing a) ->
    chunk_is_fresh (fetched_chunks l p e) o = chunk_is_fresh l o || bool_decide (p <= o < e)) as Hf.
  { intros o Ho. by apply fetched_flag with (storage_size (backing a)); [| |lia| |]. }
  exists w'. unfold chunks_fetched. split_and!; [done|done|apply length_mark_fresh| | |done].
  - intros o Ho Hfo. by rewrite Hf, Hfo.
  - intros x. rewrite Hc. apply decide_ext. split; intros Hx.
    + split; [lia|]. rewrite Hf, Hstale, bool_decide_eq_true_2 by lia. done.
    + destruct Hx as [Hx1 Hx]. rewrite Hf in Hx by lia. case_bool_decide; [lia|].
      by destruct (chunk_is_fresh l (x - b)).
Qed.

Lemma fetch_runs_spec fuel : forall l p bound span w,
  length l = chunks_of (storage_size (backing a)) -> (CH | p) \/ bound <= p -> 0 <= p ->
  bound <= storage_size (backing a) -> span <= storage_size (backing a) ->
  (forall q, (CH | q) -> q < bound -> q < al_size (backing a)) ->
  bound <= p + (Z.of_nat fuel - 1) * CH -> (0 < fuel)%nat ->
  exists l' e w', fetch_runs fuel b a l p bound span w = Some (true, l', e, w') /\
    chunks_fetched l l' w w' /\ e <= storage_size (backing a) /\
    (forall o, p <= o < bound -> chunk_is_fresh l' o = true) /\
    (e = span \/ p <= e /\ forall o, p <= o < e -> chunk_is_fresh l' o = true).
Proof.
  pose proof (so_size _ _ Hs) as Hz. simpl in Hz. pose proof chunk_positive as HC.
  induction fuel as [|fuel IH]; intros l p bound span w Hn Hp Hp0 Hb Hsp Hal Hfu Hf0; [lia|]. cbn [fetch_runs].
  assert (bound <= p + Z.of_nat fuel * CH) as Hfu' by (rewrite Nat2Z.inj_succ in Hfu; lia). clear Hfu.
  assert (p < bound -> (0 < fuel)%nat) by (intros; destruct fuel; [simpl in Hfu'; lia|lia]).
  destruct (Z.leb_spec bound p) as [Hle|Hlt].
  { exists l, span, w. split_and!; [done|apply chunks_fetched_refl|done|lia|auto]. }
  destruct Hp as [Hp|Hp]; [|lia]. pose proof (Hal p Hp Hlt).
  destruct (chunk_is_fresh l p) eqn:Efr.
  - assert (forall o, p <= o < p + CH -> chunk_is_fresh l o = true) as Hchunk.
    { intros o Ho. rewrite <- Efr. unfold chunk_is_fresh. do 3 f_equal.
      destruct Hp as [q ->]. rewrite Z.div_mul by lia. symmetry.
      apply Z.div_unique with (o - q * CH); lia. }
    destruct (IH l (p + CH) bound span w) as (l'&e&w'&->&Hcf&He&Hbo&Hsp'); try done; try lia.
    { left. by apply Z.divide_add_r; [|apply Z.divide_refl]. }
    exists l', e, w'. pose proof Hcf as (_&_&Hk&_). split_and!; try done.
    + intros o Ho. destruct (decide (o < p + CH)); [|apply Hbo; lia]. apply Hk; [lia|]. apply Hchunk. lia.
    + destruct Hsp' as [?|[Hge Hfr]]; [auto|right]. split; [lia|]. intros o Ho.
      destruct (decide (o < p + CH)); [|apply Hfr; lia]. apply Hk; [lia|]. apply Hchunk. lia.
  - destruct (stale_run_spec (S (length l)) l p bound Hp) as (Hde&_&Hstale&_).
    pose proof (stale_run_first (length l) l p bound Hlt Efr Hp) as Hge.
    set (run := stale_run (S (length l)) l p bound) in *.
    set (e1 := Z.min run (storage_size (backing a))).
    assert ((CH | e1) \/ e1 = storage_size (backing a)) as Hde1.
    { unfold e1. destruct (Z.min_spec run (storage_size (backing a))) as [[_ ->]|[_ ->]]; auto. }
    destruct (Z.eqb_spec (io_alias (backing a)) 0); [by destruct (so_alias _ _ Hs)|].
    destruct (run_fetched l p e1 w) as (w1&->&Hcf1&Hfl); try done; try lia.
    { intros; apply Hstale; lia. }
    simpl. destruct (IH (fetched_chunks l p e1) e1 bound e1 w1) as (l'&e&w'&->&Hcf&He&Hbo&Hsp');
      try done; try lia.
    { rewrite <- Hn. apply length_mark_fresh. }
    { destruct Hde1; [auto|right; lia]. }
    { assert (0 <= (Z.of_nat fuel - 1) * CH) by (apply Z.mul_nonneg_nonneg; lia). lia. }
    exists l', e, w'. pose proof Hcf as (_&_&Hk&_).
    assert (forall o, p <= o < e1 -> chunk_is_fresh l' o = true) as Hin.
    { intros o Ho. apply Hk; [lia|]. rewrite Hfl, bool_decide_eq_true_2 by lia. apply orb_true_r. }
    split_and!; [done|by eapply chunks_fetched_trans|done| |].
    + intros o Ho. destruct (decide (o < e1)); [apply Hin; lia|apply Hbo; lia].
    + right. destruct Hsp' as [->|[? Hfr]]; [split; [lia|done]|]. split; [lia|]. intros o Ho.
      destruct (decide (o < e1)); [apply Hin; lia|apply Hfr; lia].
Qed.
End Runs.

(** The end of a fetch: the flags are published and the span becomes readable. *)
Lemma finish_fetch_eq t b a l l' s e w w1 :
  om_sorted (statics w) -> find_alloc b w = Some a -> host_base (backing a) = b ->
  same_but_client (update_alloc b (set_stale 2 t) w) w1 -> fresh_chunks a = Some l ->
  update_alloc b (fun a => set_stale (device_stale a) 0 a)
    (lupine_finish_demand_fetch b s e
       (update_alloc b (fun a => set_fetch (Some l') (fetch_seq_next a) (fetch_readahead a) a) w1)) =
  update_alloc b (fun _ => fetched_alloc l' (fetch_seq_next a) (fetch_readahead a) a)
    (if s <? e then mprotect (b + s) (e - s) PROT_READ w1 else w1).
Proof.
  intros Hsort Ha Hb Hsame Hl.
  assert (find_alloc b w1 = Some (set_stale 2 t a)) as Hf1.
  { rewrite (find_registry _ _ b (sbc_registry _ _ Hsame)). by rewrite (find_update_same _ _ _ _ Ha). }
  assert (om_sorted (statics w1)) as Hsort1.
  { rewrite (statics_registry _ _ (sbc_registry _ _ Hsame)). by rewrite statics_update. }
  unfold lupine_finish_demand_fetch. erewrite find_update_same by exact Hf1. simpl fresh_chunks.
  simpl backing. rewrite Hb.
  assert (forall v, statics v = statics w1 -> find_alloc b v = find_alloc b w1 ->
    update_alloc b (fun a => set_stale (device_stale a) 0 a)
      (update_alloc b (set_stale (if forallb id l' then 0 else 1) t)
        (update_alloc b (fun a => set_fetch (Some l') (fetch_seq_next a) (fetch_readahead a) a) v)) =
    update_alloc b (fun _ => fetched_alloc l' (fetch_seq_next a) (fetch_readahead a) a) v) as Hgo.
  { intros v Hsv Hfv. rewrite !update_update. apply update_at; [by rewrite Hsv|].
    intros a1 Ha1. rewrite Hfv, Hf1 in Ha1. by injection Ha1 as <-. }
  destruct (s <? e); [|by apply Hgo].
  by apply (Hgo (mprotect (b + s) (e - s) PROT_READ w1)).
Qed.

Lemma fetched_into_refl w b a :
  find_alloc b w = Some a -> fetch_ok a ->
  fetched_into w w b a a (fun _ => false) (fun _ => false).
Proof.
  intros Ha Hf. constructor; try done.
  - intros x. by rewrite decide_False by naive_solver.
  - intros x. by rewrite decide_False by naive_solver.
  - naive_solver.
Qed.

Lemma round_up_chunk n :
  0 <= n < 2 ^ 63 -> n <= lupine_round_up n CH < n + CH /\ (CH | lupine_round_up n CH).
Proof.
  intros Hn. unfold lupine_round_up. change CH with (2 ^ 16).
  apply mask_up_spec; lia.
Qed.

(** Making a range fresh is a fetch, and leaves the range valid. *)
Lemma fresh_range_spec t behind memory fl w b a so eo :
  coherent t behind memory fl w -> find_alloc b w = Some a -> tracking_enabled a = true ->
  0 <= so <= eo -> eo <= al_size (backing a) ->
  exists w' a' fetched shown, lupine_make_mapped_range_fresh t b so eo w = Some (true, w') /\
    fetched_into w w' b a a' fetched shown /\ forall o, so <= o < eo -> valid a' o = true.
Proof.
  intros Hco Ha Htr Hso Heo. pose proof (found_static _ _ _ (co_shape _ _ _ _ _ Hco) Ha) as Hs.
  destruct (co_tracked _ _ _ _ _ Hco _ _ Ha Htr) as [Hfe _ _ _].
  destruct (so_owned _ _ Hs) as (_&_&_&Hre). simpl in Hre.
  pose proof (so_size _ _ Hs) as Hz. simpl in Hz. pose proof (so_range _ _ Hs) as Hrg. simpl in Hrg.
  pose proof (sh_sorted _ _ (co_shape _ _ _ _ _ Hco)) as Hsort. pose proof chunk_positive as HC.
  unfold lupine_make_mapped_range_fresh. rewrite Ha, Hre, orb_false_r.
  destruct (Z.eqb_spec (device_stale a) 0) as [E0|E0].
  { eexists w, a, _, _. split; [done|]. split; [by apply fetched_into_refl|].
    intros o _. unfold valid. by rewrite E0. }
  destruct Hfe as [[?|[Hs1 Hcn]] (l&Hl&Hn)]; [done|]. rewrite Hs1, Hl.
  change ((1 =? 2) || (1 =? 3)) with false. cbv iota zeta.
  set (p := so / CH * CH).
  assert (p <= so < p + CH) as Hp.
  { pose proof (Z.div_mod so CH ltac:(lia)). pose proof (Z.mod_pos_bound so CH ltac:(lia)). lia. }
  assert (0 <= p) as Hp0 by (pose proof (Z.div_pos so CH ltac:(lia)); lia).
  destruct (round_up_chunk eo) as [Hru Hdru]; [lia|].
  set (bound := Z.min (lupine_round_up eo CH) (storage_size (backing a))).
  destruct (fetch_runs_spec b a Hs Hcn (S (length l)) l p bound p (update_alloc b (set_stale 2 t) w))
    as (l'&e&w1&->&(Hsame&Hn'&Hk&Hc)&He&Hbo&Hsp); try done; try lia.
  { left. by exists (so / CH). }
  { intros q [k ->] Hq. destruct Hdru as [k' Hk']. assert (k < k') by nia. nia. }
  { rewrite Hn. unfold chunks_of. rewrite Nat2Z.inj_succ, Z2Nat.id by (apply Z.div_pos; lia).
    pose proof (Z.div_mod (storage_size (backing a) + CH - 1) CH ltac:(lia)).
    pose proof (Z.mod_pos_bound (storage_size (backing a) + CH - 1) CH ltac:(lia)). lia. }
  destruct (so_base _ _ Hs) as [Hb _]. simpl.
  erewrite finish_fetch_eq by done.
  eexists _, _, _, _. split; [done|]. split.
  - eapply fetched_into_intro; try done.
    intros o Ho. destruct Hsp as [->|[_ Hsp]]; [lia|auto].
  - intros o Ho. rewrite valid_fetched by (simpl; congruence || lia). apply Hbo. lia.
Qed.

(** ** Accesses of the application *)

Definition store (m : Z -> byte) (addr : Z) (v : byte) : Z -> byte :=
  fun x => if x =? addr then v else m x.

Lemma store_coherent t behind memory fl w addr v :
  coherent t behind memory fl w -> prot w addr = PROT_WRITE ->
  coherent t behind (store memory addr v) fl (set_client (store (client w) addr v) w).
Proof.
  intros [C1 C2 C3 C4 C5 C6 C7 C8] Hp. constructor; try done.
  - intros b a Ha Ht. destruct (C7 _ _ Ha Ht) as [T1 T2 T3 T4]. constructor; [done..|].
    intros o Ho. destruct (T4 o Ho) as [B1 B2 B3 B4 B5].
    assert (b + o = addr -> valid a o = true /\ (queued fl w b a (b + o) \/ fully_dirty fl b a)) as Hx.
    { intros Hx. rewrite Hx in *. split; [apply B4; by rewrite Hp|by apply B5]. }
    constructor; try done; unfold store; simpl; destruct (Z.eqb_spec (b + o) addr) as [E|E]; auto.
    intros Hnq Hnf. destruct (Hx E) as [Hv [?|?]]; [done|]. exfalso. auto.
  - intros b a Ha Ht. destruct (C8 _ _ Ha Ht) as (U1&U2&U3). split_and!; [done..|].
    intros o Ho. destruct (U3 o Ho). split; [done|]. unfold store. simpl. by destruct (_ =? _).
Qed.

Lemma permits_not_none write p : permits write p = true -> p <> PROT_NONE.
Proof. by destruct write, p. Qed.

(** An access to memory that the device is not writing is let through after at most
    two faults. *)
Lemma host_access_spec t behind memory fl w b a write addr :
  coherent t behind memory fl w -> find_alloc b w = Some a -> b ∉ behind ->
  b <= addr < b + al_size (backing a) ->
  exists w', host_access 2 t write addr w = Some (Handled, w') /\
    coherent t behind memory fl w' /\ permits write (prot w' addr) = true /\ statics w' = statics w.
Proof.
  intros Hco Ha Hbh Hx. destruct (tracking_enabled a) eqn:Htr.
  2:{ exists w. destruct (co_untracked _ _ _ _ _ Hco _ _ Ha Htr) as (_&_&Hu).
      destruct (Hu (addr - b)) as [Hp _]; [lia|]. replace (b + (addr - b)) with addr in Hp by lia.
      simpl. rewrite Hp. by destruct write. }
  assert (forall fuel w a, coherent t behind memory fl w -> find_alloc b w = Some a ->
    tracking_enabled a = true -> b <= addr < b + al_size (backing a) -> valid a (addr - b) = true ->
    exists w', host_access (S fuel) t write addr w = Some (Handled, w') /\
      coherent t behind memory fl w' /\ permits write (prot w' addr) = true /\ statics w' = statics w)
    as Hvalid.
  { clear w a Hco Ha Htr Hx. intros fuel w a Hco Ha Htr Hx Hv. simpl.
    destruct (permits write (prot w addr)) eqn:Ep; [by exists w|].
    destruct (handler_queues t b a behind memory fl w addr Hco Ha Htr Hx Hv Hbh)
      as (w'&->&Hco'&Hp&_&Hs).
    exists w'. simpl. split_and!; [|done|by rewrite Hp; destruct write|done].
    destruct fuel; simpl; rewrite Hp; by destruct write. }
  destruct (valid a (addr - b)) eqn:Hv; [by apply Hvalid with a|].
  assert (permits write (prot w addr) = false) as Hnp.
  { destruct (permits write (prot w addr)) eqn:Ep; [|done]. apply permits_not_none in Ep.
    destruct (tk_bytes _ _ _ _ _ _ (co_tracked _ _ _ _ _ Hco _ _ Ha Htr) (addr - b)) as [_ _ _ B4 _]; [lia|].
    replace (b + (addr - b)) with addr in B4 by lia. by rewrite B4 in Hv. }
  destruct (handler_fetches t b a behind memory fl w Hco Ha Htr addr Hx Hv) as (w1&a1&f&shown&Hh&Hfi&Hf&Hv1).
  destruct (info_inj _ _ (fi_info _ _ _ _ _ _ _ Hfi)) as [Hb Ht1].
  destruct (Hvalid 0%nat w1 a1) as (w'&Hacc&Hco'&Hp&Hs).
  - eapply fetched_coherent; [eapply found_static; [apply Hco|done]|done..].
  - apply Hfi.
  - congruence.
  - by rewrite Hb.
  - done.
  - exists w'. split_and!; [|done..|by rewrite Hs, (fi_statics _ _ _ _ _ _ _ Hfi)].
    rewrite <- Hacc. change (host_access 2 t write addr w) with
      (if permits write (prot w addr) then Some (Handled, w) else
       '(result, w) ← lupine_sigsegv_handler t addr w;
       match result with
       | Handled => host_access 1 t write addr w
       | PreviousHandler => Some (PreviousHandler, w)
       end). by rewrite Hnp, Hh.
Qed.

(** The byte that a read returns is the memory's. *)
Lemma readable_current t behind memory fl w b a addr :
  coherent t behind memory fl w -> find_alloc b w = Some a -> b ∉ behind ->
  b <= addr < b + al_size (backing a) -> prot w addr <> PROT_NONE -> client w addr = memory addr.
Proof.
  intros Hco Ha Hbh Hx Hp. replace addr with (b + (addr - b)) in * by lia.
  assert (0 <= addr - b < al_size (backing a)) as Ho by lia.
  destruct (tracking_enabled a) eqn:Htr.
  - destruct (tk_bytes _ _ _ _ _ _ (co_tracked _ _ _ _ _ Hco _ _ Ha Htr) _ Ho) as [B1 _ _ B4 _].
    auto.
  - destruct (co_untracked _ _ _ _ _ Hco _ _ Ha Htr) as (_&_&Hu). by apply Hu.
Qed.
End Facts.
