(* ===== verification/HostFlush.v ===== *)
(** Flushes of the mirror: the dirty ranges of a route, sorted and merged, reach the
    server, and the mirror stays coherent. *)
From S2P Require Import Prelude OrdMap HostMem HostMirror HostCoherence.

(** * Sorting and merging ranges *)

Definition range_key_le (x y : lupine_dirty_host_range) : Prop :=
  dr_allocation x < dr_allocation y \/
  dr_allocation x = dr_allocation y /\ dr_start x <= dr_start y.

#[global] Instance range_key_le_trans : Transitive range_key_le.
Proof. intros x y z. unfold range_key_le. lia. Qed.

Lemma range_le_key x y : range_le x y = true -> range_key_le x y.
Proof. unfold range_le, range_key_le. repeat case_if; intros; breflect; lia. Qed.

Lemma range_le_total x y : range_le x y = false -> range_key_le y x.
Proof. unfold range_le, range_key_le. repeat case_if; intros; breflect; lia. Qed.

Lemma insert_range_perm x l : insert_range x l ≡ₚ x :: l.
Proof.
  induction l as [|y l IH]; simpl; [done|]. destruct (range_le x y); [done|]. rewrite IH. constructor.
Qed.

Lemma sort_ranges_perm l : sort_ranges l ≡ₚ l.
Proof. induction l as [|x l IH]; simpl; [done|]. by rewrite insert_range_perm, IH. Qed.

Lemma insert_range_sorted x l :
  StronglySorted range_key_le l -> StronglySorted range_key_le (insert_range x l).
Proof.
  induction 1 as [|y l Hl IH Hy]; simpl; [by repeat constructor|].
  destruct (range_le x y) eqn:E.
  - apply range_le_key in E. constructor; [by constructor|].
    constructor; [done|]. eapply Forall_impl; [exact Hy|]. intros z. by apply transitivity.
  - apply range_le_total in E. constructor; [done|].
    rewrite insert_range_perm. by constructor.
Qed.

Lemma sort_ranges_sorted l : StronglySorted range_key_le (sort_ranges l).
Proof. induction l; simpl; [constructor|]. by apply insert_range_sorted. Qed.

(** Merging keeps the set of bytes that the ranges of each allocation cover. *)
Lemma merge_into_covers l : forall back b x,
  StronglySorted range_key_le (back :: l) ->
  Exists (covers b x) (merge_into back l) <-> Exists (covers b x) (back :: l).
Proof.
  induction l as [|y l IH]; intros back b x Hs; simpl; [done|].
  apply StronglySorted_inv in Hs as [Hs Hb]. apply Forall_cons in Hb as [Hby Hb].
  pose proof (StronglySorted_inv Hs) as [Hl Hy].
  destruct (Z.eqb_spec (dr_allocation back) (dr_allocation y)) as [Ea|Ea]; simpl.
  2:{ by rewrite !Exists_cons, IH, Exists_cons by done. }
  destruct (Z.ltb_spec (dr_end back) (dr_start y)).
  { by rewrite !Exists_cons, IH, Exists_cons by done. }
  rewrite IH.
  2:{ constructor; [done|]. eapply Forall_impl; [exact Hb|]. intros z. unfold range_key_le. simpl. done. }
  unfold range_key_le in Hby.
  assert (covers b x (DirtyRange (dr_allocation back) (dr_start back)
    (Z.max (dr_end back) (dr_end y))) <-> covers b x back \/ covers b x y) as Hm.
  { unfold covers. simpl. split; [|lia]. intros [Hal Hx].
    destruct (decide (x < dr_end back)); [left; lia|right; lia]. }
  rewrite !Exists_cons, Hm. tauto.
Qed.

Lemma merge_sorted_covers l b x :
  Exists (covers b x) (merge_ranges (sort_ranges l)) <-> Exists (covers b x) l.
Proof.
  pose proof (sort_ranges_sorted l) as Hs. rewrite <- (sort_ranges_perm l) at 2. destruct (sort_ranges l) as [|y l']; simpl; [done|].
  by apply merge_into_covers.
Qed.

(** A property that merging two touching ranges keeps holds of the merged ranges. *)
Lemma merge_into_forall (P : lupine_dirty_host_range -> Prop) l :
  (forall x y, P x -> P y -> dr_allocation x = dr_allocation y -> dr_start x <= dr_start y ->
    dr_start y <= dr_end x ->
    P (DirtyRange (dr_allocation x) (dr_start x) (Z.max (dr_end x) (dr_end y)))) ->
  forall back, StronglySorted range_key_le (back :: l) -> Forall P (back :: l) ->
  Forall P (merge_into back l).
Proof.
  intros HP. induction l as [|y l IH]; intros back Hs Hf; simpl; [done|].
  apply StronglySorted_inv in Hs as [Hs Hb]. apply Forall_cons in Hb as [Hby Hb].
  pose proof (StronglySorted_inv Hs) as [Hl Hy].
  apply Forall_cons in Hf as [Hf1 Hf2]. apply Forall_cons in Hf2 as [Hf2 Hf3].
  destruct (Z.eqb_spec (dr_allocation back) (dr_allocation y)) as [Ea|Ea]; simpl.
  2:{ constructor; [done|]. apply IH; [done|by constructor]. }
  destruct (Z.ltb_spec (dr_end back) (dr_start y)).
  { constructor; [done|]. apply IH; [done|by constructor]. }
  unfold range_key_le in Hby. apply IH.
  - constructor; [done|]. eapply Forall_impl; [exact Hb|]. intros z. unfold range_key_le. simpl. done.
  - constructor; [|done]. apply HP; auto; lia.
Qed.

Lemma merge_sorted_forall (P : lupine_dirty_host_range -> Prop) l :
  (forall x y, P x -> P y -> dr_allocation x = dr_allocation y -> dr_start x <= dr_start y ->
    dr_start y <= dr_end x ->
    P (DirtyRange (dr_allocation x) (dr_start x) (Z.max (dr_end x) (dr_end y)))) ->
  Forall P l -> Forall P (merge_ranges (sort_ranges l)).
Proof.
  intros HP Hl. pose proof (sort_ranges_sorted l) as Hs.
  rewrite <- (sort_ranges_perm l) in Hl. destruct (sort_ranges l) as [|y l']; simpl; [done|].
  by apply merge_into_forall.
Qed.

(** One range ends before the next one starts. *)
Definition range_before (x y : lupine_dirty_host_range) : Prop :=
  dr_allocation x < dr_allocation y \/ dr_allocation x = dr_allocation y /\ dr_end x < dr_start y.

Lemma merge_into_gaps l : forall back,
  StronglySorted range_key_le (back :: l) ->
  Sorted range_before (merge_into back l) /\
  exists e rest, merge_into back l = DirtyRange (dr_allocation back) (dr_start back) e :: rest.
Proof.
  induction l as [|y l IH]; intros back Hs; simpl.
  { split; [by repeat constructor|]. exists (dr_end back), []. by destruct back. }
  apply StronglySorted_inv in Hs as [Hs Hb]. apply Forall_cons in Hb as [Hby Hb].
  pose proof (StronglySorted_inv Hs) as [Hl Hy].
  assert (range_before back y -> Sorted range_before (back :: merge_into y l) /\
    exists e rest, back :: merge_into y l = DirtyRange (dr_allocation back) (dr_start back) e :: rest) as Hkeep.
  { intros Hlt. destruct (IH y Hs) as [Hsort (e&rest&E)]. split.
    - constructor; [done|]. rewrite E. constructor. unfold range_before in *. done.
    - exists (dr_end back), (merge_into y l). by destruct back. }
  unfold range_key_le in Hby. destruct (Z.eqb_spec (dr_allocation back) (dr_allocation y)) as [Ea|Ea]; simpl.
  2:{ apply Hkeep. left. lia. }
  destruct (Z.ltb_spec (dr_end back) (dr_start y)).
  { apply Hkeep. by right. }
  apply (IH (DirtyRange (dr_allocation back) (dr_start back) (Z.max (dr_end back) (dr_end y)))).
  constructor; [done|]. eapply Forall_impl; [exact Hb|]. intros z. unfold range_key_le. simpl. done.
Qed.

(** What a flush sends is exactly what was queued: the merged ranges cover the
    same bytes of the same allocations as the queued ones, in address order and with
    a gap between any two of them. *)
Theorem merged_ranges_exact l :
  (forall b x, Exists (covers b x) (merge_ranges (sort_ranges l)) <-> Exists (covers b x) l) /\
  Sorted range_before (merge_ranges (sort_ranges l)).
Proof.
  split; [intros; apply merge_sorted_covers|].
  pose proof (sort_ranges_sorted l) as Hs. destruct (sort_ranges l) as [|y l']; [constructor|].
  by apply merge_into_gaps.
Qed.

(** Worlds with the same static part have the same allocations. *)
Lemma statics_found w w' b a :
  statics w' = statics w -> find_alloc b w = Some a ->
  exists a', find_alloc b w' = Some a' /\ info a' = info a.
Proof.
  intros Hs Ha. pose proof (statics_find w' b) as Hf. rewrite Hs, statics_find, Ha in Hf.
  destruct (find_alloc b w') as [a'|]; [|done]. exists a'. split; [done|]. simpl in Hf. congruence.
Qed.

(** * Failures *)

(** Nothing here assumes that requests or protections succeed. *)
Section Failure.
Context `{MirrorEnv}.

Lemma statics_alloc w w' b f :
  registry w' = registry (update_alloc b f w) -> (forall a, info (f a) = info a) ->
  statics w' = statics w.
Proof. intros Hr Hf. rewrite (statics_registry _ _ Hr). by apply statics_update. Qed.

Lemma fetch_bytes_registry r dst src n w : registry (fetch_bytes r dst src n w).2 = registry w.
Proof. unfold fetch_bytes, round_trip. by destruct (net (requests w)). Qed.

Lemma fetch_range_registry a s n w : registry (lupine_fetch_stale_range a s n w).2 = registry w.
Proof.
  unfold lupine_fetch_stale_range. case_if; [done|]. destruct (stale_fetch_conn a); [|done].
  case_if; [apply fetch_bytes_registry|]. case_if; simpl.
  - case_if; [done|]. apply (fetch_bytes_registry _ _ _ _ (round_trip w).2).
  - apply fetch_bytes_registry.
Qed.

Lemma fetch_runs_registry fuel b a : forall l p bound span w ok l' e w',
  fetch_runs fuel b a l p bound span w = Some (ok, l', e, w') -> registry w' = registry w.
Proof.
  induction fuel as [|fuel IH]; intros l p bound span w ok l' e w'; [done|]. cbn [fetch_runs].
  case_if; [by intros [= <- <- <- <-]|]. case_if; [apply IH|].
  set (w1 := if io_alias (backing a) =? 0 then _ else w).
  assert (registry w1 = registry w) as E1 by (unfold w1; by case_if).
  set (n := _ - p). pose proof (fetch_range_registry a p n w1) as E2.
  destruct (lupine_fetch_stale_range a p n w1) as [ok1 w2]. simpl in E2.
  case_if; [intros [= <- <- <- <-]; congruence|]. intros Hr%IH. congruence.
Qed.

Lemma fresh_range_statics t b s e w ok w' :
  lupine_make_mapped_range_fresh t b s e w = Some (ok, w') -> statics w' = statics w.
Proof.
  unfold lupine_make_mapped_range_fresh. destruct (find_alloc b w) as [a|]; [|done].
  case_if; [by intros [= <- <-]|]. case_if; [done|]. destruct (fresh_chunks a) as [l|].
  2:{ intros [= <- <-]. by rewrite !statics_update. }
  destruct (fetch_runs _ _ _ _ _ _ _ _) as [[[[ok1 l1] e1] w1]|] eqn:Ef; simpl; [|done].
  apply fetch_runs_registry in Ef. intros [= <- <-]. rewrite statics_update by done.
  assert (statics w1 = statics w) as E1 by by eapply statics_alloc.
  case_if; [|by rewrite !statics_update].
  unfold lupine_finish_demand_fetch. destruct (find_alloc b _); [|by rewrite statics_update].
  rewrite statics_update by done. case_if; [change (statics (mprotect ?x ?y ?p ?v)) with (statics v)|];
    by rewrite statics_update.
Qed.

Lemma fetch_before_flush_statics t stale : forall w w',
  fetch_before_flush t stale w = Some w' -> statics w' = statics w.
Proof.
  induction stale as [|b stale IH]; intros w w'; simpl; [by intros [= <-]|].
  destruct (find_alloc b w) as [a|]; [|done].
  destruct (lupine_make_mapped_range_fresh t b 0 _ w) as [[ok w1]|] eqn:E; simpl; [|done].
  intros Hs%IH. apply fresh_range_statics in E. congruence.
Qed.

Lemma full_dirty_statics r l : forall w, statics (full_dirty_ranges r l w).2 = statics w.
Proof.
  induction l as [|[h a] l IH]; intros w; simpl; [done|]. case_if; [apply IH|].
  specialize (IH (update_alloc h (fun a => add_pending 1 (set_full_dirty false a)) w)).
  destruct (full_dirty_ranges r l _) as [[rs stale] w']. simpl in *. by rewrite IH, statics_update.
Qed.

Lemma window_statics r l : forall w, statics (window_ranges r l w).2 = statics w.
Proof.
  induction l as [|[h a] l IH]; intros w; simpl; [done|]. case_if; [apply IH|].
  specialize (IH (update_alloc h (add_pending 1) w)).
  destruct (window_ranges r l _) as [rs w']. simpl in *. by rewrite IH, statics_update.
Qed.

Lemma protect_registry l : forall w, registry (protect_ranges l w).2 = registry w.
Proof.
  induction l as [|range l IH]; intros w; simpl; [done|].
  destruct (find_alloc (dr_allocation range) w) as [a|]; [|apply IH]. case_if; [|apply IH].
  destruct (lupine_protect_host_range _ _ _ w) as [ok w1] eqn:Ep.
  assert (registry w1 = registry w) as E1.
  { revert Ep. unfold lupine_protect_host_range. repeat case_if; by intros [= <- <-]. }
  case_if; [by rewrite IH|done].
Qed.

Lemma push_registry r l : forall w, registry (fold_left (apply_push r) l w) = registry w.
Proof. induction l as [|p l IH]; intros w; simpl; [done|]. by rewrite IH. Qed.

Lemma send_batch_registry r l w : registry (send_batch r l w).2 = registry w.
Proof.
  unfold send_batch, round_trip. destruct l as [|p l]; [done|].
  destruct (net (requests w)); simpl snd; by rewrite push_registry.
Qed.

Lemma bulk_push_registry r p w : registry (lupine_bulk_push r p w).2 = registry w.
Proof. unfold lupine_bulk_push, round_trip. destruct (net (requests w)); [|done]. simpl. by case_if. Qed.

Lemma send_ranges_registry r l : forall batch w, registry (send_ranges r l batch w).2 = registry w.
Proof.
  induction l as [|range l IH]; intros batch w; cbn [send_ranges]; [apply send_batch_registry|].
  destruct (range_push r range w) as [[p|]|]; [|apply IH|done]. case_if.
  - pose proof (send_batch_registry r batch w) as E1. destruct (send_batch r batch w) as [e1 w1].
    simpl in E1. case_if; [done|].
    pose proof (bulk_push_registry r p w1) as E2. destruct (lupine_bulk_push r p w1) as [e2 w2].
    simpl in E2. case_if; [simpl; congruence|]. rewrite IH. congruence.
  - case_if; [|apply IH].
    pose proof (send_batch_registry r (batch ++ [p]) w) as E1.
    destruct (send_batch r (batch ++ [p]) w) as [e1 w1]. simpl in E1.
    case_if; [done|]. by rewrite IH.
Qed.

(** Everything that needed a flush still does. *)
Record dirtier (r : Z) (w w' : mirror) : Prop := Dirtier {
  di_statics : statics w' = statics w;
  di_full : forall b a, find_alloc b w = Some a -> full_dirty a = true ->
    exists a', find_alloc b w' = Some a' /\ full_dirty a' = true;
  di_pending : full_dirty_pending (queues w r) = true -> full_dirty_pending (queues w' r) = true;
}.

Lemma restored_range r range w a :
  find_alloc (dr_allocation range) w = Some a -> tracking_enabled a = true -> retiring a = false ->
  let w' := release_ranges r true [range] w in
  dirtier r w w' /\ full_dirty_pending (queues w' r) = true /\
  exists a', find_alloc (dr_allocation range) w' = Some a' /\ full_dirty a' = true.
Proof.
  intros Ha Ht Hr. simpl. rewrite Ha, Ht, Hr. simpl. set (b := dr_allocation range) in *.
  assert (find_alloc b (update_alloc b (add_pending (-1)) (set_queue r (DirtyQueue (ranges (queues w r)) true)
    (update_alloc b (set_full_dirty true) w))) = Some (add_pending (-1) (set_full_dirty true a))) as Hf.
  { apply find_update_same. by apply (find_update_same b). }
  split_and!.
  - constructor.
    + rewrite statics_update by done. by apply (statics_update b).
    + intros b' a1 Ha1 Hd. destruct (decide (b' = b)) as [->|Hne]; [eauto|].
      exists a1. rewrite find_update_other by done. split; [|done].
      by rewrite <- (find_update_other b (set_full_dirty true) w b' Hne) in Ha1.
    + simpl. by rewrite Z.eqb_refl.
  - simpl. by rewrite Z.eqb_refl.
  - eauto.
Qed.

Lemma released_range r range w : dirtier r w (release_ranges r true [range] w).
Proof.
  destruct (find_alloc (dr_allocation range) w) as [a|] eqn:Ha.
  - destruct (tracking_enabled a && negb (retiring a)) eqn:E.
    { apply andb_true_iff in E as [Ht Hr]. apply negb_true_iff in Hr. by apply restored_range with a. }
    simpl. rewrite Ha, E. constructor; [by apply statics_update| |done].
    intros b a1 Ha1 Hd. destruct (decide (b = dr_allocation range)) as [->|Hne].
    + exists (add_pending (-1) a). split; [by apply find_update_same|]. by rewrite Ha in Ha1; injection Ha1 as <-.
    + exists a1. by rewrite find_update_other.
  - simpl. rewrite Ha. constructor; [by apply statics_update| |done].
    intros b a1 Ha1 Hd. exists a1. rewrite find_update_other; [done|]. intros ->. congruence.
Qed.

Lemma dirtier_trans r w w1 w2 : dirtier r w w1 -> dirtier r w1 w2 -> dirtier r w w2.
Proof.
  intros [S1 F1 P1] [S2 F2 P2]. constructor; [congruence| |auto].
  intros b a Ha Hd. destruct (F1 b a Ha Hd) as (a1&?&?). eauto.
Qed.

Lemma release_dirtier r l : forall w, dirtier r w (release_ranges r true l w).
Proof.
  induction l as [|range l IH]; intros w; [constructor; eauto|].
  change (release_ranges r true (range :: l) w) with
    (release_ranges r true l (release_ranges r true [range] w)).
  eapply dirtier_trans; [apply released_range|apply IH].
Qed.

Lemma release_restores r l range : forall w a,
  range ∈ l -> find_alloc (dr_allocation range) w = Some a -> tracking_enabled a = true ->
  retiring a = false ->
  full_dirty_pending (queues (release_ranges r true l w) r) = true /\
  exists a', find_alloc (dr_allocation range) (release_ranges r true l w) = Some a' /\
    full_dirty a' = true.
Proof.
  induction l as [|y l IH]; intros w a Hin Ha Ht Hr; [by apply elem_of_nil in Hin|].
  change (release_ranges r true (y :: l) w) with
    (release_ranges r true l (release_ranges r true [y] w)).
  set (w1 := release_ranges r true [y] w). apply elem_of_cons in Hin as [->|Hin].
  - destruct (restored_range r y w a Ha Ht Hr) as (_&Hp&(a1&Ha1&Hd1)). fold w1 in Hp, Ha1.
    destruct (release_dirtier r l w1) as [_ Hf Hpe]. eauto.
  - destruct (released_range r y w) as [Hs _ _]. fold w1 in Hs.
    destruct (statics_found w w1 _ a Hs Ha) as (a1&Ha1&Hi). injection Hi as _ Ht1 _ Hr1.
    apply (IH w1 a1 Hin Ha1); congruence.
Qed.

Lemma full_dirty_in r l h a : forall w,
  (h, a) ∈ l -> tracking_enabled a = true -> route_id (backing a) = r -> retiring a = false ->
  full_dirty a = true ->
  exists range, range ∈ (full_dirty_ranges r l w).1.1 /\ dr_allocation range = h.
Proof.
  induction l as [|[h' a'] l IH]; intros w Hin Ht Hr Hre Hd; [by apply elem_of_nil in Hin|]. simpl.
  apply elem_of_cons in Hin as [[= -> ->]|Hin].
  - rewrite Ht, Hr, Z.eqb_refl, Hre, Hd. simpl.
    destruct (full_dirty_ranges r l _) as [[rs stale] w']. eexists. split; [left|done].
  - case_if; [by apply IH|].
    destruct (IH (update_alloc h' (fun a => add_pending 1 (set_full_dirty false a)) w) Hin Ht Hr Hre Hd)
      as (range&Hrg&Hal).
    destruct (full_dirty_ranges r l _) as [[rs stale] w']. exists range. split; [by right|done].
Qed.

(** C13: a flush that fails, wherever it fails, forgets nothing: every tracked
    allocation that had a range in the queue or was marked for a full flush is marked
    for one afterwards, and the queue of the route says so. *)
Theorem failed_flush_restores t r w result w' b a :
  host_writes w r = [] -> is_Some (remote_conn r) ->
  lupine_flush_dirty_host_pages_to_route t r w = Some (result, w') -> result <> CUDA_SUCCESS ->
  find_alloc b w = Some a -> tracking_enabled a = true -> retiring a = false ->
  (exists range, range ∈ ranges (queues w r) /\ dr_allocation range = b) \/
  full_dirty a = true /\ route_id (backing a) = r /\ full_dirty_pending (queues w r) = true ->
  full_dirty_pending (queues w' r) = true /\
  exists a', find_alloc b w' = Some a' /\ full_dirty a' = true.
Proof.
  intros Hw [conn Hconn] Hfl Hne Ha Ht Hr Hdirty. revert Hfl.
  unfold lupine_flush_dirty_host_pages_to_route, lupine_collect_host_allocation_writes.
  rewrite Hconn, Hw. simpl collect_writes. change (negb (CUDA_SUCCESS =? CUDA_SUCCESS)) with false.
  cbv iota zeta. set (w0 := set_queue r _ _).
  destruct (if full_dirty_pending _ then _ else _) as [[full stale] w1] eqn:Ef.
  assert (statics w1 = statics w /\
    (full_dirty a = true -> route_id (backing a) = r -> full_dirty_pending (queues w r) = true ->
     exists range, range ∈ full /\ dr_allocation range = b)) as [Hs1 Hfull].
  { revert Ef. simpl. destruct (full_dirty_pending (queues w r)); intros Ef.
    - split.
      + pose proof (full_dirty_statics r (allocations (registry w)) w0) as Hs. rewrite Ef in Hs. exact Hs.
      + intros Hd Hrt _. pose proof (full_dirty_in r (allocations (registry w)) b a w0
          (om_find_some _ _ _ Ha) Ht Hrt Hr Hd) as Hin. by rewrite Ef in Hin.
    - injection Ef as <- <- <-. split; [done|]. by intros _ _ ?. }
  pose proof (window_statics r (allocations (registry w1)) w1) as Hs2.
  destruct (window_ranges r (allocations (registry w1)) w1) as [windows w2]. simpl in Hs2.
  set (all := ranges _ ++ full ++ windows).
  assert (exists range, range ∈ all /\ dr_allocation range = b) as (range&Hin&Hal).
  { destruct Hdirty as [(range&?&?)|(?&?&?)].
    - exists range. split; [|done]. apply elem_of_app. by left.
    - destruct Hfull as (range&?&?); [done..|]. exists range. split; [|done].
      apply elem_of_app. right. apply elem_of_app. by left. }
  case_bool_decide as Hall; [rewrite Hall in Hin; by apply elem_of_nil in Hin|].
  destruct (fetch_before_flush t stale w2) as [w3|] eqn:Eb; simpl; [|done].
  apply fetch_before_flush_statics in Eb.
  pose proof (protect_registry (merge_ranges (sort_ranges all)) w3) as Hs4.
  destruct (protect_ranges _ w3) as [ok w4]. simpl in Hs4. apply statics_registry in Hs4.
  assert (forall v, statics v = statics w4 ->
    full_dirty_pending (queues (release_ranges r true all v) r) = true /\
    exists a', find_alloc b (release_ranges r true all v) = Some a' /\ full_dirty a' = true) as Hgo.
  { intros v Hv. destruct (statics_found w v b a) as (a1&Ha1&Hi); [congruence|done|].
    injection Hi as _ Ht1 _ Hr1. rewrite <- Hal in *. apply (release_restores r all range v a1); congruence. }
  case_if; [intros [= <- <-]; by apply Hgo|].
  pose proof (send_ranges_registry r (merge_ranges (sort_ranges all)) [] w4) as Hs5.
  destruct (send_ranges r _ [] w4) as [result' w5]. simpl in Hs5. apply statics_registry in Hs5.
  intros [= <- <-]. destruct (Z.eqb_spec result' CUDA_SUCCESS); [done|]. by apply Hgo.
Qed.
End Failure.

Section Flush.
Context `{MirrorEnvLaws}.

(** * Ranges of a world *)

Lemma range_ok_statics w w' r range :
  statics w' = statics w -> range_ok w r range -> range_ok w' r range.
Proof.
  intros Hs (a&Ha&Hok). destruct (statics_found w w' _ _ Hs Ha) as (a'&Ha'&Hi).
  destruct (info_inj _ _ Hi) as [Hb Ht]. exists a'. by rewrite Hb, Ht.
Qed.

Lemma range_ok_merge w r x y :
  range_ok w r x -> range_ok w r y -> dr_allocation x = dr_allocation y ->
  dr_start x <= dr_start y -> dr_start y <= dr_end x ->
  range_ok w r (DirtyRange (dr_allocation x) (dr_start x) (Z.max (dr_end x) (dr_end y))).
Proof.
  intros (a&Ha&Ht&Hr&Hx&Hx'&Wx) (a2&Ha2&_&_&Hy&Hy'&Wy) Ea Hs He.
  rewrite <- Ea in *. rewrite Ha in Ha2. injection Ha2 as <-. exists a. simpl.
  split_and!; try done; try lia.
  intros z Hz Hp. simpl in *. specialize (Wx z Hz). specialize (Wy z Hz).
  pose proof page_positive.
  pose proof (page_down_spec (dr_start x)) as [? _]. pose proof (page_down_spec (dr_start y)) as [? _].
  pose proof (page_down_spec (dr_end x + lupine_page_size - 1)) as [? _].
  destruct (Z.max_spec (dr_end x) (dr_end y)) as [[? Em]|[? Em]]; rewrite Em in *; lia.
Qed.

(** Coherence is not about the number of requests, the pending flag or the order of
    connections. *)
Lemma coherent_same t behind memory fl w w' :
  coherent t behind memory fl w ->
  registry w' = registry w -> queues w' = queues w -> fault_entries w' = fault_entries w ->
  dirty_epoch w' = dirty_epoch w -> required_epoch w' = required_epoch w ->
  flushed_epoch w' = flushed_epoch w -> client w' = client w -> prot w' = prot w ->
  server w' = server w -> (forall r, host_writes w' r = []) ->
  coherent t behind memory fl w'.
Proof.
  destruct w, w'. simpl. intros [C1 C2 C3 C4 C5 C6 C7 C8] -> -> -> -> -> -> -> -> -> Hw.
  constructor; try done.
  intros b a Ha Ht. destruct (C7 b a Ha Ht) as [T1 T2 T3 T4]. constructor; try done.
  intros o Ho. destruct (T4 o Ho). by constructor.
Qed.

(** * Allocations under updates that keep their fetch state *)

(** Only the registry differs. *)
Record same_but_registry (w w' : mirror) : Prop := SameButRegistry {
  sr_queues : queues w' = queues w;
  sr_entries : fault_entries w' = fault_entries w;
  sr_epochs : dirty_epoch w' = dirty_epoch w /\ required_epoch w' = required_epoch w /\
              flushed_epoch w' = flushed_epoch w;
  sr_work : device_work_pending w' = device_work_pending w;
  sr_writes : host_writes w' = host_writes w;
  sr_memory : client w' = client w /\ prot w' = prot w /\ server w' = server w;
}.

Definition same_fetch (a a' : lupine_host_allocation) : Prop :=
  info a' = info a /\ device_stale a' = device_stale a /\
  stale_fetch_conn a' = stale_fetch_conn a /\ fresh_chunks a' = fresh_chunks a.

Lemma same_fetch_valid a a' o : same_fetch a a' -> valid a' o = valid a o.
Proof. intros (_&Hs&_&Hc). unfold valid. by rewrite Hs, Hc. Qed.

Lemma update_coherent t behind memory fl w b a f :
  coherent t behind memory fl w -> find_alloc b w = Some a -> tracking_enabled a = true ->
  same_fetch a (f a) -> (full_dirty (f a) = true -> full_dirty a = true) ->
  (fully_dirty fl b a -> fully_dirty fl b (f a)) ->
  coherent t behind memory fl (update_alloc b f w).
Proof.
  intros Hco Ha Htr Hsf Hd Hfd. pose proof Hsf as (Hi&Hs&Hn&Hc).
  destruct (info_inj _ _ Hi) as [Hb Ht].
  assert (find_alloc b (update_alloc b f w) = Some (f a)) as Hf by by apply find_update_same.
  assert (statics (update_alloc b f w) = statics w) as Hst.
  { apply statics_map; [|apply Hco]. intros a1 Ha1. rewrite Ha in Ha1. by injection Ha1 as <-. }
  assert (fully_dirty fl b (f a) -> fully_dirty fl b a) as Hfd' by (unfold fully_dirty; naive_solver).
  apply (touches_coherent t b a behind behind memory memory fl w _ Hco Ha) with (a' := f a); try done.
  - constructor; try done. intros b' Hb'. by apply find_update_other.
  - destruct (co_tracked _ _ _ _ _ Hco _ _ Ha Htr) as [Hfe Hpe Hful Hby]. constructor.
    + unfold fetch_ok. by rewrite Hs, Hn, Hc, Hb.
    + rewrite Hb. auto.
    + auto.
    + rewrite Hb. intros o Ho. destruct (Hby o Ho) as [B1 B2 B3 B4 B5].
      assert (forall x, queued fl (update_alloc b f w) b (f a) x <-> queued fl w b a x) as Hq
        by (intros x; by apply queued_ext).
      constructor; rewrite ?(same_fetch_valid _ _ _ Hsf), ?Hq, ?Hb; auto. naive_solver.
  - intros r range Hr. apply (range_ok_statics w); [done|]. by apply Hco.
  - intros [Hq|(b'&a1&Hf1&Hd1)]; apply (co_epoch _ _ _ _ _ Hco); [by left|right].
    destruct (decide (b' = b)) as [->|Hne].
    + exists b, a. rewrite Hf in Hf1. injection Hf1 as <-. auto.
    + exists b', a1. by rewrite find_update_other in Hf1.
  - apply Hco.
Qed.

Lemma flight_ext t behind memory fl fl' w :
  coherent t behind memory fl w ->
  (forall b a, find_alloc b w = Some a -> tracking_enabled a = true ->
    (forall x, b <= x < b + al_size (backing a) -> queued fl' w b a x <-> queued fl w b a x) /\
    (fully_dirty fl' b a <-> fully_dirty fl b a)) ->
  coherent t behind memory fl' w.
Proof.
  intros [C1 C2 C3 C4 C5 C6 C7 C8] Hext. constructor; try done. intros b a Ha Ht.
  destruct (Hext b a Ha Ht) as [Hq Hf]. destruct (C7 b a Ha Ht) as [T1 T2 T3 T4].
  constructor; [done|done|by rewrite Hf|].
  intros o Ho. destruct (T4 o Ho) as [B1 B2 B3 B4 B5].
  specialize (Hq (b + o) ltac:(lia)). constructor; rewrite ?Hq, ?Hf; auto.
Qed.

(** * Taking the dirty state of a route *)

(** The allocations of a route that ask for a full flush. *)
Definition wants_full (r : Z) (a : lupine_host_allocation) : bool :=
  tracking_enabled a && (route_id (backing a) =? r) && negb (retiring a) && full_dirty a.

Lemma wants_full_spec r a :
  wants_full r a = true <->
  tracking_enabled a = true /\ route_id (backing a) = r /\ retiring a = false /\ full_dirty a = true.
Proof. unfold wants_full. rewrite !andb_true_iff, Z.eqb_eq, negb_true_iff. tauto. Qed.

Definition take_flag (a : lupine_host_allocation) : lupine_host_allocation :=
  add_pending 1 (set_full_dirty false a).

Definition full_range (h : Z) (a : lupine_host_allocation) : lupine_dirty_host_range :=
  DirtyRange h (host_base (backing a)) (host_base (backing a) + storage_size (backing a)).

(** The flags of the allocations in [l] are taken; nothing else changes. *)
Record flags_taken (r : Z) (l : host_map) (w w' : mirror) : Prop := FlagsTaken {
  ft_same : same_but_registry w w';
  ft_statics : statics w' = statics w;
  ft_found : forall b a, find_alloc b w = Some a -> exists a', find_alloc b w' = Some a' /\
    same_fetch a a' /\
    full_dirty a' = full_dirty a && negb (bool_decide (b ∈ l.*1) && wants_full r a);
}.

Lemma full_dirty_cons r h a l w :
  full_dirty_ranges r ((h, a) :: l) w =
    if wants_full r a then
      let '(rs, stale, w') := full_dirty_ranges r l (update_alloc h take_flag w) in
      (full_range h a :: rs, if negb (device_stale a =? 0) then h :: stale else stale, w')
    else full_dirty_ranges r l w.
Proof.
  simpl. unfold wants_full.
  by destruct (tracking_enabled a), (route_id (backing a) =? r), (retiring a), (full_dirty a).
Qed.

Lemma flags_taken_skip r h a l w w' :
  find_alloc h w = Some a -> wants_full r a = false ->
  flags_taken r l w w' -> flags_taken r ((h, a) :: l) w w'.
Proof.
  intros Ha Hw [F1 F2 F3]. constructor; [done|done|]. intros b a1 Ha1.
  destruct (F3 b a1 Ha1) as (a'&?&?&Hd). exists a'. split_and!; [done..|]. rewrite Hd. csimpl. f_equal. f_equal.
  destruct (wants_full r a1) eqn:E; [|by rewrite !andb_false_r].
  assert (b <> h) as Hne by (intros ->; congruence).
  rewrite !andb_true_r. apply bool_decide_ext. rewrite elem_of_cons. naive_solver.
Qed.

Lemma flags_taken_take r h a l w w' :
  find_alloc h w = Some a -> wants_full r a = true -> h ∉ l.*1 -> om_sorted (statics w) ->
  flags_taken r l (update_alloc h take_flag w) w' -> flags_taken r ((h, a) :: l) w w'.
Proof.
  intros Ha Hw Hh Hsort [[S1 S2 S3 S4 S5 S6] F2 F3]. constructor; [done| |].
  - rewrite F2. by apply statics_update.
  - intros b a1 Ha1. destruct (decide (b = h)) as [->|Hne].
    + rewrite Ha in Ha1. injection Ha1 as <-.
      destruct (F3 h (take_flag a)) as (a'&?&?&Hd); [by apply find_update_same|].
      exists a'. split_and!; [done..|]. rewrite Hd, Hw. csimpl.
      rewrite (bool_decide_eq_true_2 (h ∈ h :: l.*1)) by left. simpl.
      by rewrite andb_false_r.
    + destruct (F3 b a1) as (a'&?&?&Hd); [by rewrite find_update_other|].
      exists a'. split_and!; [done..|]. rewrite Hd. csimpl. do 3 f_equal.
      apply bool_decide_ext. rewrite elem_of_cons. naive_solver.
Qed.

Lemma pairs_cons {A} (P : Z -> A -> Prop) h a (l : list (Z * A)) :
  (exists h' a', (h', a') ∈ (h, a) :: l /\ P h' a') <->
  P h a \/ exists h' a', (h', a') ∈ l /\ P h' a'.
Proof.
  split.
  - intros (h'&a'&Hin&HP). apply elem_of_cons in Hin as [[= -> ->]|Hin]; [auto|right]. eauto.
  - intros [HP|(h'&a'&Hin&HP)]; [exists h, a; split; [by left|done]|].
    exists h', a'. split; [by right|done].
Qed.

Lemma full_dirty_ranges_spec t behind memory fl r l : forall w,
  coherent t behind memory fl w -> NoDup l.*1 ->
  (forall h a, (h, a) ∈ l -> find_alloc h w = Some a) ->
  (forall h a, (h, a) ∈ l -> wants_full r a = true -> h ∈ fl_full fl) ->
  exists rs stale w', full_dirty_ranges r l w = (rs, stale, w') /\
    coherent t behind memory fl w' /\ flags_taken r l w w' /\
    (forall range, range ∈ rs <->
      exists h a, (h, a) ∈ l /\ wants_full r a = true /\ range = full_range h a) /\
    (forall h, h ∈ stale <->
      exists a, (h, a) ∈ l /\ wants_full r a = true /\ device_stale a <> 0).
Proof.
  induction l as [|[h a] l IH]; intros w Hco Hnd Hin Hfull.
  { exists [], [], w. split_and!; [done|done| | |]; [|set_solver..].
    constructor; [done|done|]. intros b a Ha. exists a. split_and!; [done..|]. by rewrite andb_true_r. }
  apply NoDup_cons in Hnd as [Hh Hnd]. pose proof (Hin h a ltac:(left)) as Ha.
  rewrite full_dirty_cons. destruct (wants_full r a) eqn:Hw.
  - pose proof (proj1 (wants_full_spec r a) Hw) as (Htr&_&_&Hd).
    assert (coherent t behind memory fl (update_alloc h take_flag w)) as Hco1.
    { apply update_coherent with a; try done. intros _. right. by apply (Hfull h a ltac:(left)). }
    destruct (IH _ Hco1 Hnd) as (rs&stale&w'&->&Hco'&Hft&Hrs&Hst).
    { intros h' a' Hin'. rewrite find_update_other; [by apply Hin; right|].
      intros ->. apply Hh, list_elem_of_fmap. by exists (h, a'). }
    { intros h' a' Hin'. apply Hfull. by right. }
    eexists _, _, w'. split_and!; [done|done| | |].
    + eapply flags_taken_take; try done. apply Hco.
    + intros range. rewrite elem_of_cons, Hrs, pairs_cons. naive_solver.
    + intros h'. destruct (Z.eqb_spec (device_stale a) 0); simpl; rewrite ?elem_of_cons, Hst;
        setoid_rewrite elem_of_cons; naive_solver.
  - destruct (IH w Hco Hnd) as (rs&stale&w'&->&Hco'&Hft&Hrs&Hst).
    { intros h' a' Hin'. apply Hin. by right. }
    { intros h' a' Hin'. apply Hfull. by right. }
    eexists _, _, w'. split_and!; [done|done|by apply flags_taken_skip| |].
    + intros range. rewrite Hrs, pairs_cons. split; [auto|]. intros [[? _]|]; [congruence|done].
    + intros h'. rewrite Hst. split; intros (a'&Hin'&Hw'&?); exists a'; (split; [|done]).
      * by right.
      * apply elem_of_cons in Hin' as [[= -> ->]|]; [congruence|done].
Qed.

Lemma full_dirty_set_queue r l r' q w :
  full_dirty_ranges r l (set_queue r' q w) =
    let '(rs, stale, w') := full_dirty_ranges r l w in (rs, stale, set_queue r' q w').
Proof.
  revert w. induction l as [|[h a] l IH]; intros w; [done|]. rewrite !full_dirty_cons.
  destruct (wants_full r a); [|apply IH].
  change (update_alloc h take_flag (set_queue r' q w)) with (set_queue r' q (update_alloc h take_flag w)).
  rewrite IH. by destruct (full_dirty_ranges r l _) as [[rs stale] w'].
Qed.

(** Nothing of the route waits for a flush. *)
Definition clean (r : Z) (w : mirror) : Prop :=
  ranges (queues w r) = [] /\
  forall b a, find_alloc b w = Some a -> route_id (backing a) = r -> full_dirty a = false.

(** Ranges of one route say nothing about allocations of another. *)
Lemma other_route_uncovered w r l b a x :
  Forall (range_ok w r) l -> find_alloc b w = Some a -> route_id (backing a) <> r ->
  ~ Exists (covers b x) l.
Proof.
  intros Hl Ha Hr He. apply Exists_exists in He as (range&Hin&Hc&_).
  rewrite Forall_forall in Hl. destruct (Hl _ Hin) as (a1&Ha1&_&Hr1&_). congruence.
Qed.

Lemma queued_exists fl w b a x :
  queued fl w b a x <->
  Exists (covers b x) (fl_ranges fl) \/ Exists (covers b x) (ranges (queues w (route_id (backing a)))).
Proof. by rewrite queued_split, !Exists_exists. Qed.

Lemma move_queue t behind memory full r w :
  coherent t behind memory (InFlight [] full) w ->
  (forall b a, find_alloc b w = Some a -> route_id (backing a) = r -> full_dirty a = false) ->
  coherent t behind memory (InFlight (ranges (queues w r)) full) (set_queue r (DirtyQueue [] false) w).
Proof.
  intros [C1 C2 C3 C4 C5 C6 C7 C8] Hclean.
  assert (Forall (range_ok w r) (ranges (queues w r))) as Hrok by (apply Forall_forall; auto).
  assert (forall r' range, range ∈ ranges (queues (set_queue r (DirtyQueue [] false) w) r') ->
    range ∈ ranges (queues w r')) as Hsub.
  { intros r' range. simpl. destruct (r' =? r); [|done]. by intros ?%elem_of_nil. }
  constructor; try done.
  - intros r' range Hin. by apply C3, Hsub.
  - intros [(r'&range&Hin)|He]; apply C4; [left; eauto|by right].
  - intros b a Ha Ht. destruct (C7 b a Ha Ht) as [T1 T2 T3 T4].
    assert (forall x, queued (InFlight (ranges (queues w r)) full)
      (set_queue r (DirtyQueue [] false) w) b a x <-> queued (InFlight [] full) w b a x) as Hq.
    { intros x. rewrite !queued_exists. simpl. rewrite Exists_nil.
      destruct (Z.eqb_spec (route_id (backing a)) r) as [->|Hne]; simpl; [rewrite Exists_nil; tauto|].
      pose proof (other_route_uncovered w r _ b a x Hrok Ha Hne). tauto. }
    constructor; [done| |done|].
    + intros Hd. simpl. destruct (Z.eqb_spec (route_id (backing a)) r) as [E|Hne]; [|auto].
      by rewrite (Hclean b a Ha E) in Hd.
    + intros o Ho. destruct (T4 o Ho) as [B1 B2 B3 B4 B5]. constructor; rewrite ?Hq; auto.
Qed.

Lemma allocations_sorted w :
  om_sorted (statics w) -> om_sorted (allocations (registry w)).
Proof.
  unfold statics. induction (allocations (registry w)) as [|e l IH]; [intros _; apply om_sorted_nil|].
  csimpl. rewrite !om_sorted_cons, Forall_fmap. naive_solver.
Qed.

Lemma sorted_keys_nodup {A} (l : list (Z * A)) : om_sorted l -> NoDup l.*1.
Proof.
  induction l as [|e l IH]; csimpl; [constructor|]. rewrite om_sorted_cons. intros [Hs Hf].
  constructor; [|auto]. rewrite list_elem_of_fmap. intros (e'&He&Hin). rewrite Forall_forall in Hf.
  specialize (Hf _ Hin). lia.
Qed.

(** The allocations of the route with their flag up. *)
Definition full_hosts (r : Z) (w : mirror) : list Z :=
  (List.filter (fun e => wants_full r e.2) (allocations (registry w))).*1.

Lemma elem_of_full_hosts r w h :
  om_sorted (statics w) ->
  h ∈ full_hosts r w <-> exists a, find_alloc h w = Some a /\ wants_full r a = true.
Proof.
  intros Hs. apply allocations_sorted in Hs. unfold full_hosts. rewrite list_elem_of_fmap.
  setoid_rewrite list_elem_of_In. setoid_rewrite filter_In. setoid_rewrite <- list_elem_of_In. split.
  - intros ([h' a]&->&Hin&Hw). exists a. split; [by apply om_find_elem|done].
  - intros (a&Ha&Hw). exists (h, a). split_and!; [done| |done]. by apply om_find_elem.
Qed.

(** The dirty state of route [r] in flight. *)
Record taken (r : Z) (w w' : mirror) (full : list lupine_dirty_host_range) (stale : list Z)
    : Prop := Taken {
  tn_statics : statics w' = statics w;
  tn_entries : fault_entries w' = fault_entries w;
  tn_epochs : dirty_epoch w' = dirty_epoch w /\ required_epoch w' = required_epoch w /\
              flushed_epoch w' = flushed_epoch w;
  tn_work : device_work_pending w' = device_work_pending w;
  tn_clean : clean r w';
  tn_queues : forall r', r' <> r -> queues w' r' = queues w r';
  tn_found : forall b a, find_alloc b w = Some a -> exists a', find_alloc b w' = Some a' /\
    same_fetch a a' /\ (route_id (backing a) <> r -> full_dirty a' = full_dirty a);
  tn_full : forall range, range ∈ full <->
    exists h a, find_alloc h w = Some a /\ wants_full r a = true /\ range = full_range h a;
  tn_stale : forall h, h ∈ stale <->
    exists a, find_alloc h w = Some a /\ wants_full r a = true /\ device_stale a <> 0;
}.

Lemma take_route t behind memory r w :
  coherent t behind memory nothing w ->
  exists full stale w',
    (if full_dirty_pending (queues w r)
     then full_dirty_ranges r (allocations (registry w)) (set_queue r (DirtyQueue [] false) w)
     else ([], [], set_queue r (DirtyQueue [] false) w)) = (full, stale, w') /\
    coherent t behind memory (InFlight (ranges (queues w r)) (full_hosts r w)) w' /\
    taken r w w' full stale.
Proof.
  intros Hco. pose proof (sh_sorted _ _ (co_shape _ _ _ _ _ Hco)) as Hs.
  pose proof (allocations_sorted _ Hs) as Hsl.
  assert (coherent t behind memory (InFlight [] (full_hosts r w)) w) as Hco1.
  { apply flight_ext with nothing; [done|]. intros b a Ha Ht. split; [done|].
    unfold fully_dirty. simpl. rewrite elem_of_nil, (elem_of_full_hosts _ _ _ Hs). split; [|tauto].
    intros [?|(a'&Ha'&Hw)]; [auto|left]. apply wants_full_spec in Hw. naive_solver. }
  destruct (full_dirty_pending (queues w r)) eqn:Ep.
  - rewrite full_dirty_set_queue.
    destruct (full_dirty_ranges_spec t behind memory (InFlight [] (full_hosts r w)) r
      (allocations (registry w)) w Hco1) as (rs&stale&w1&->&Hco'&[[F1 F2 F3 F4 F5 F6] Fs Ff]&Hrs&Hst).
    { by apply sorted_keys_nodup. }
    { intros h a Hin. by apply om_find_elem. }
    { intros h a Hin Hw. simpl. apply elem_of_full_hosts; [done|]. exists a. split; [by apply om_find_elem|done]. }
    assert (forall b a, find_alloc b w1 = Some a -> route_id (backing a) = r -> full_dirty a = false) as Hcl.
    { intros b a' Ha' Hr. destruct (statics_found w1 w b a' (eq_sym Fs) Ha') as (a&Ha&Hi).
      destruct (Ff b a Ha) as (a2&Ha2&_&Hd). rewrite Ha' in Ha2. injection Ha2 as <-. rewrite Hd.
      destruct (full_dirty a) eqn:Ed; [|done]. simpl. apply negb_false_iff, andb_true_iff. split.
      - apply bool_decide_eq_true, list_elem_of_fmap. exists (b, a). split; [done|by apply om_find_elem].
      - injection Hi as Hi1 Hi2 _ Hi4. apply wants_full_spec. split_and!; try done.
        + destruct (tracking_enabled a) eqn:Et; [done|].
          destruct (co_untracked _ _ _ _ _ Hco b a Ha Et) as [? _]. congruence.
        + congruence.
        + pose proof (found_static _ _ _ (co_shape _ _ _ _ _ Hco) Ha) as Hso. by destruct (so_owned _ _ Hso) as (_&_&_&?). }
    exists rs, stale, (set_queue r (DirtyQueue [] false) w1). split; [done|]. split.
    + rewrite <- F1. by apply move_queue.
    + constructor; try done.
      * split; [simpl; by rewrite Z.eqb_refl|]. exact Hcl.
      * intros r' Hne. simpl. rewrite F1. by destruct (Z.eqb_spec r' r).
      * intros b a Ha. destruct (Ff b a Ha) as (a'&?&?&Hd). exists a'. split_and!; [done..|].
        intros Hne. rewrite Hd. unfold wants_full. destruct (Z.eqb_spec (route_id (backing a)) r); [done|].
        by rewrite andb_false_r; simpl; rewrite !andb_false_r; simpl; rewrite andb_true_r.
      * intros range. rewrite Hrs. by setoid_rewrite <- om_find_elem.
      * intros h. rewrite Hst. by setoid_rewrite <- om_find_elem.
  - assert (forall b a, find_alloc b w = Some a -> route_id (backing a) = r -> full_dirty a = false) as Hcl.
    { intros b a Ha Hr. destruct (full_dirty a) eqn:Ed; [|done].
      destruct (tracking_enabled a) eqn:Et.
      - pose proof (tk_pending _ _ _ _ _ _ (co_tracked _ _ _ _ _ Hco b a Ha Et) Ed). congruence.
      - destruct (co_untracked _ _ _ _ _ Hco b a Ha Et) as [? _]. congruence. }
    exists [], [], (set_queue r (DirtyQueue [] false) w). split; [done|].
    split; [by apply move_queue|]. constructor; try done.
    + split; [simpl; by rewrite Z.eqb_refl|]. exact Hcl.
    + intros r' Hne. simpl. by destruct (Z.eqb_spec r' r).
    + intros b a Ha. exists a. by split_and!.
    + intros range. rewrite elem_of_nil. split; [done|]. intros (h&a&Ha&(?&Hr&_&Hd)%wants_full_spec&_).
      by rewrite (Hcl h a Ha Hr) in Hd.
    + intros h. rewrite elem_of_nil. split; [done|]. intros (a&Ha&(?&Hr&_&Hd)%wants_full_spec&_).
      by rewrite (Hcl h a Ha Hr) in Hd.
Qed.

(** No window of a tracked or unexposed allocation goes over whole. *)
Lemma window_ranges_none r l w :
  (forall h a, (h, a) ∈ l -> static_ok h (info a)) -> window_ranges r l w = ([], w).
Proof.
  induction l as [|[h a] l IH]; intros Hok; [done|]. simpl.
  rewrite IH by (intros h' a' Hin; apply Hok; by right).
  destruct (Hok h a ltac:(left)) as [_ _ _ _ _ _ _ _ [_ Hpo] _ _ Htr _]. simpl in *.
  unfold lupine_host_backing_for_route. rewrite Hpo, Htr. simpl.
  destruct (device_pointer_exposed a); [|done]. simpl. rewrite orb_true_r. simpl.
  destruct (route_id (backing a) =? r); simpl; by rewrite ?orb_true_r.
Qed.

(** ** Fetching what a full flush needs *)

(** A fetch of some allocations: what was valid stays so. *)
Record fetched_some (w w' : mirror) : Prop := FetchedSome {
  fs_statics : statics w' = statics w;
  fs_entries : fault_entries w' = fault_entries w;
  fs_queues : queues w' = queues w;
  fs_epochs : dirty_epoch w' = dirty_epoch w /\ required_epoch w' = required_epoch w /\
              flushed_epoch w' = flushed_epoch w;
  fs_work : device_work_pending w' = device_work_pending w;
  fs_found : forall b a, find_alloc b w = Some a -> exists a', find_alloc b w' = Some a' /\
    info a' = info a /\ full_dirty a' = full_dirty a /\
    forall o, 0 <= o < al_size (backing a) -> valid a o = true -> valid a' o = true;
}.

Lemma fetched_some_refl w : fetched_some w w.
Proof. constructor; try done. intros b a Ha. exists a. by split_and!. Qed.

Lemma fetched_some_trans w w1 w2 : fetched_some w w1 -> fetched_some w1 w2 -> fetched_some w w2.
Proof.
  intros [S1 E1 Q1 [D1 [R1 L1]] W1 F1] [S2 E2 Q2 [D2 [R2 L2]] W2 F2].
  constructor; try congruence; [split_and!; congruence|].
  intros b a Ha. destruct (F1 b a Ha) as (a1&Ha1&I1&Fd1&V1).
  destruct (F2 b a1 Ha1) as (a2&Ha2&I2&Fd2&V2). destruct (info_inj _ _ I1) as [Hb _].
  exists a2. split_and!; [done|congruence|congruence|]. rewrite Hb in V2. auto.
Qed.

Lemma fetched_into_some w w' b a a' f g :
  find_alloc b w = Some a -> fetched_into w w' b a a' f g -> fetched_some w w'.
Proof.
  intros Ha [F1 F2 F3 F4 F5 F6 F7 F8 F9 F10 F11 F12 F13 F14 F15 F16 F17]. constructor; try done.
  intros b' a1 Ha1. destruct (decide (b' = b)) as [->|Hne].
  - rewrite Ha in Ha1. injection Ha1 as <-. exists a'. split_and!; [done..|].
    intros o Ho Hv. apply F16; auto.
  - exists a1. rewrite F9 by done. by split_and!.
Qed.

Lemma fetch_before_flush_spec t behind memory fl stale : forall w,
  coherent t behind memory fl w ->
  (forall h, h ∈ stale -> exists a, find_alloc h w = Some a /\ tracking_enabled a = true) ->
  exists w', fetch_before_flush t stale w = Some w' /\ coherent t behind memory fl w' /\
    fetched_some w w' /\
    forall h a, h ∈ stale -> find_alloc h w' = Some a ->
      forall o, 0 <= o < al_size (backing a) -> valid a o = true.
Proof.
  induction stale as [|h stale IH]; intros w Hco Hst.
  { exists w. split_and!; [done|done|apply fetched_some_refl|]. by intros h a ?%elem_of_nil. }
  destruct (Hst h ltac:(left)) as (a&Ha&Htr). simpl. rewrite Ha.
  pose proof (found_static _ _ _ (co_shape _ _ _ _ _ Hco) Ha) as Hso.
  pose proof (so_size _ _ Hso) as Hz. simpl in Hz.
  destruct (fresh_range_spec t behind memory fl w h a 0 (al_size (backing a)))
    as (w1&a1&f&g&->&Hfi&Hv); [done..|lia|lia|]. simpl.
  assert (coherent t behind memory fl w1) as Hco1 by (by eapply fetched_coherent).
  pose proof (fetched_into_some _ _ _ _ _ _ _ Ha Hfi) as Hfs.
  destruct (IH w1 Hco1) as (w'&->&Hco'&Hfs'&Hv').
  { intros h' Hin. destruct (Hst h') as (a2&Ha2&Ht2); [by right|].
    destruct (fs_found _ _ Hfs _ _ Ha2) as (a3&Ha3&Hi&_). destruct (info_inj _ _ Hi) as [_ Ht].
    exists a3. by rewrite Ht. }
  exists w'. split_and!; [done|done|by eapply fetched_some_trans|].
  intros h' a' Hin Ha' o Ho. apply elem_of_cons in Hin as [->|Hin]; [|by eapply Hv'].
  destruct (fs_found _ _ Hfs' _ _ (fi_found _ _ _ _ _ _ _ Hfi)) as (a2&Ha2&Hi&_&Hval).
  rewrite Ha' in Ha2. injection Ha2 as <-. destruct (info_inj _ _ Hi) as [Hb _].
  destruct (info_inj _ _ (fi_info _ _ _ _ _ _ _ Hfi)) as [Hb1 _]. rewrite Hb in Ho.
  apply Hval; [done|]. apply Hv. by rewrite <- Hb1.
Qed.

(** ** Protecting what is about to be sent *)

(** The data that a range covers is valid. *)
Definition range_valid (w : mirror) (range : lupine_dirty_host_range) : Prop :=
  forall a o, find_alloc (dr_allocation range) w = Some a -> 0 <= o < al_size (backing a) ->
    dr_start range <= dr_allocation range + o < dr_end range -> valid a o = true.

Lemma protect_range_coherent t behind memory fl w r range :
  coherent t behind memory fl w -> range_ok w r range -> range_valid w range ->
  exists p, lupine_protect_host_range (dr_start range) (dr_end range - dr_start range) PROT_READ w =
      (true, set_prot p w) /\
    coherent t behind memory fl (set_prot p w) /\
    forall x, p x = PROT_WRITE -> prot w x = PROT_WRITE /\ ~ dr_start range <= x < dr_end range.
Proof.
  intros Hco (a&Ha&Htr&Hr&Hse&He&Hwp) Hval. destruct range as [b s e]. simpl in *.
  pose proof (found_static _ _ _ (co_shape _ _ _ _ _ Hco) Ha) as Hso.
  pose proof (so_range _ _ Hso) as Hrg. pose proof (so_size _ _ Hso) as Hz.
  destruct (so_pages _ _ Hso) as [Hpb Hps]. simpl in *. pose proof page_positive as HP.
  rewrite protect_spec by lia. replace (s + (e - s)) with e by lia.
  set (ps := page_down s). set (pe := page_down (e + lupine_page_size - 1)).
  assert (b <= ps) as Hb by (apply page_down_ge; [done|lia]).
  assert (pe <= b + storage_size (backing a)) as Hpe.
  { assert (lupine_page_size | b + storage_size (backing a) + lupine_page_size) as Hd
      by (repeat apply Z.divide_add_r; try done; apply Z.divide_refl).
    pose proof (page_down_lt _ (e + lupine_page_size - 1) Hd). unfold pe. lia. }
  destruct (page_down_spec s) as [Hs1 _]. fold ps in Hs1.
  destruct (page_down_spec (e + lupine_page_size - 1)) as [He1 _]. fold pe in He1.
  exists (prot (mprotect ps (pe - ps) PROT_READ w)). split; [done|]. split.
  - change (coherent t behind memory fl (mprotect ps (pe - ps) PROT_READ w)).
    apply (touches_coherent t b a behind behind memory memory fl w _ Hco Ha) with (a' := a); try done;
      [| |apply Hco..].
    + constructor; try done. intros x Hx. rewrite prot_protect. case_decide; [lia|done].
    + destruct (co_tracked _ _ _ _ _ Hco _ _ Ha Htr) as [Hfe Hpd Hfd Hby]. constructor; [done..|].
      intros o Ho. destruct (Hby o Ho) as [B1 B2 B3 B4 B5].
      constructor; rewrite ?prot_protect; auto; case_decide as Hd; auto; try done.
      intros _. apply (Hval a o Ha Ho). apply (Hwp (b + o)); [lia|done].
  - intros x. rewrite prot_protect. case_decide as Hd; [done|]. split; [done|lia].
Qed.

Lemma protect_ranges_spec t behind memory fl r l : forall w,
  coherent t behind memory fl w -> Forall (range_ok w r) l -> Forall (range_valid w) l ->
  exists p, protect_ranges l w = (true, set_prot p w) /\
    coherent t behind memory fl (set_prot p w) /\
    forall x, p x = PROT_WRITE ->
      prot w x = PROT_WRITE /\ Forall (fun range => ~ dr_start range <= x < dr_end range) l.
Proof.
  induction l as [|range l IH]; intros w Hco Hok Hval.
  { exists (prot w). split; [by destruct w|]. split; [by destruct w|]. auto. }
  apply Forall_cons in Hok as [Hok1 Hok2]. apply Forall_cons in Hval as [Hv1 Hv2].
  destruct (protect_range_coherent t behind memory fl w r range Hco Hok1 Hv1) as (p&Hp&Hco1&Hx).
  destruct Hok1 as (a&Ha&Htr&_). simpl. rewrite Ha, Htr, Hp.
  destruct (IH (set_prot p w) Hco1 Hok2 Hv2) as (p'&->&Hco'&Hx'). exists p'. split_and!; [done|done|].
  intros x Hpx. destruct (Hx' x Hpx) as [Hpw Hl]. destruct (Hx x Hpw). auto.
Qed.

(** ** Sending *)

Definition covered (batch : list push) (x : Z) : bool :=
  existsb (fun p => (pu_src p <=? x) && (x <? pu_src p + pu_bytes p)) batch.

Definition coversb (b x : Z) (range : lupine_dirty_host_range) : bool :=
  (dr_allocation range =? b) && (dr_start range <=? x) && (x <? dr_end range).

(** Some bytes of the allocations of route [r] went to its server. *)
Record delivered (r : Z) (sent : Z -> Z -> bool) (w w' : mirror) : Prop := Delivered {
  dl_registry : registry w' = registry w;
  dl_queues : queues w' = queues w;
  dl_entries : fault_entries w' = fault_entries w;
  dl_epochs : dirty_epoch w' = dirty_epoch w /\ required_epoch w' = required_epoch w /\
              flushed_epoch w' = flushed_epoch w;
  dl_work : device_work_pending w' = device_work_pending w;
  dl_writes : host_writes w' = host_writes w;
  dl_client : client w' = client w /\ prot w' = prot w;
  dl_others : forall r', r' <> r -> server w' r' = server w r';
  dl_server : forall b a o, find_alloc b w = Some a -> route_id (backing a) = r ->
    0 <= o < al_size (backing a) ->
    server w' r (server_host_ptr (backing a) + o) =
      if sent b (b + o) then client w (b + o) else server w r (server_host_ptr (backing a) + o);
}.

(** A push from an allocation to its place on the server. *)
Definition push_ok (w : mirror) (r : Z) (p : push) : Prop :=
  exists b a, find_alloc b w = Some a /\ route_id (backing a) = r /\
    b <= pu_src p /\ 0 <= pu_bytes p /\ pu_src p + pu_bytes p <= b + al_size (backing a) /\
    pu_dst p = server_host_ptr (backing a) + (pu_src p - b).

Lemma delivered_trans r s1 s2 w w1 w2 :
  delivered r s1 w w1 -> delivered r s2 w1 w2 -> delivered r (fun b x => s1 b x || s2 b x) w w2.
Proof.
  intros [R1 Q1 E1 [D1 [N1 F1]] K1 W1 [C1 P1] O1 S1] [R2 Q2 E2 [D2 [N2 F2]] K2 W2 [C2 P2] O2 S2].
  constructor; try congruence; [split_and!; congruence|split; congruence| |].
  - intros r' Hne. by rewrite O2, O1.
  - intros b a o Ha Hr Ho. rewrite (S2 b a o), (S1 b a o), C1 by (done || by rewrite (find_registry _ _ _ R1)).
    by destruct (s1 b (b + o)), (s2 b (b + o)).
Qed.

Lemma delivered_ext r s1 s2 w w' :
  delivered r s1 w w' ->
  (forall b a o, find_alloc b w = Some a -> route_id (backing a) = r ->
    0 <= o < al_size (backing a) -> s1 b (b + o) = s2 b (b + o)) ->
  delivered r s2 w w'.
Proof.
  intros [D1 D2 D3 D4 D5 D6 D7 D8 D9] Hext. constructor; try done.
  intros b a o Ha Hr Ho. rewrite <- (Hext b a o) by done. by apply D9.
Qed.

Lemma push_ok_registry w w' r p : registry w' = registry w -> push_ok w r p -> push_ok w' r p.
Proof. intros Hr (b&a&Ha&Hp). exists b, a. by rewrite (find_registry _ _ _ Hr). Qed.

Lemma apply_push_delivered w r p :
  shape (statics w) (fault_entries w) -> push_ok w r p ->
  delivered r (fun _ x => covered [p] x) w (apply_push r w p).
Proof.
  intros Hsh (b1&a1&Ha1&Hr1&Hp1&Hp2&Hp3&Hp4). constructor; try done.
  - intros r' Hne. simpl. by destruct (Z.eqb_spec r' r).
  - intros b a o Ha Hr Ho. simpl. rewrite Z.eqb_refl, orb_false_r. unfold copy_bytes.
    destruct (decide (b = b1)) as [->|Hne].
    + rewrite Ha in Ha1. injection Ha1 as <-. rewrite Hp4.
      repeat case_if; f_equal; lia.
    + destruct (found_apart _ _ _ _ _ Hsh Ha Ha1 Hne) as [Hc Hs]. simpl in Hc, Hs.
      specialize (Hs ltac:(congruence)).
      pose proof (so_size _ _ (found_static _ _ _ Hsh Ha)).
      pose proof (so_size _ _ (found_static _ _ _ Hsh Ha1)). simpl in *.
      rewrite Hp4. repeat case_if; f_equal; lia.
Qed.

Lemma fold_push_delivered r batch : forall w,
  shape (statics w) (fault_entries w) -> Forall (push_ok w r) batch ->
  delivered r (fun _ x => covered batch x) w (fold_left (apply_push r) batch w).
Proof.
  induction batch as [|p batch IH]; intros w Hsh Hok; simpl; [by constructor|].
  apply Forall_cons in Hok as [Hok1 Hok2].
  pose proof (apply_push_delivered w r p Hsh Hok1) as H1.
  eapply delivered_ext; [eapply (delivered_trans r _ _ w (apply_push r w p)); [exact H1|by apply IH]|].
  intros b a o _ _ _. simpl. by rewrite orb_false_r.
Qed.

Lemma send_batch_spec r batch w :
  shape (statics w) (fault_entries w) -> Forall (push_ok w r) batch ->
  exists w', send_batch r batch w = (CUDA_SUCCESS, w') /\ delivered r (fun _ x => covered batch x) w w'.
Proof.
  intros Hsh Hok. unfold send_batch. destruct batch as [|p batch]; [exists w; split; [done|by constructor]|].
  unfold round_trip. rewrite net_succeeds. eexists. split; [done|].
  pose proof (fold_push_delivered r (p :: batch) (round_trip w).2 Hsh Hok) as [D1 D2 D3 D4 D5 D6 D7 D8 D9].
  by constructor.
Qed.

Lemma bulk_push_spec r p w :
  shape (statics w) (fault_entries w) -> push_ok w r p ->
  exists w', lupine_bulk_push r p w = (CUDA_SUCCESS, w') /\ delivered r (fun _ x => covered [p] x) w w'.
Proof.
  intros Hsh Hok. unfold lupine_bulk_push, round_trip. rewrite net_succeeds. eexists. split; [done|].
  pose proof (apply_push_delivered (round_trip w).2 r p Hsh Hok) as [D1 D2 D3 D4 D5 D6 D7 D8 D9].
  by constructor.
Qed.

(** The part of a range that goes over is the part with data. *)
Lemma range_push_spec w r range :
  shape (statics w) (fault_entries w) -> range_ok w r range ->
  exists p, range_push r range w = Some p /\
    (forall q, p = Some q -> push_ok w r q) /\
    forall b a o, find_alloc b w = Some a -> route_id (backing a) = r -> 0 <= o < al_size (backing a) ->
      coversb b (b + o) range = match p with Some q => covered [q] (b + o) | None => false end.
Proof.
  intros Hsh (a&Ha&Ht&Hr&Hse&He&_). pose proof (found_static _ _ _ Hsh Ha) as Hso.
  destruct (so_base _ _ Hso) as [Hb _]. destruct (so_data _ _ Hso) as [Hd Hu].
  destruct (so_server _ _ Hso) as [Hsv _]. pose proof (so_size _ _ Hso) as Hz. simpl in *.
  unfold range_push. rewrite Ha. simpl. rewrite Hb, Hd, Hu, Z.add_0_r, Z.max_l by lia.
  destruct range as [b1 s e]. simpl in *. unfold lupine_host_backing_for_route. rewrite Hr, Z.eqb_refl.
  assert (forall b a0 o, find_alloc b w = Some a0 -> route_id (backing a0) = r ->
    0 <= o < al_size (backing a0) ->
    coversb b (b + o) (DirtyRange b1 s e) =
      (s <=? b + o) && (b + o <? Z.min e (b1 + al_size (backing a)))) as Hcov.
  { intros b a2 o Ha2 Hr2 Ho. unfold coversb. simpl. destruct (Z.eqb_spec b1 b) as [->|Hne]; simpl.
    - rewrite Ha in Ha2. injection Ha2 as <-. repeat case_if; try done; lia.
    - destruct (found_apart _ _ _ _ _ Hsh Ha Ha2 Hne) as [Hc _]. simpl in Hc.
      pose proof (so_size _ _ (found_static _ _ _ Hsh Ha2)) as Hz2. simpl in Hz2.
      symmetry. apply andb_false_iff. rewrite Z.leb_gt, Z.ltb_ge. lia. }
  case_if.
  - exists None. split_and!; [done|done|]. intros b a2 o Ha2 Hr2 Ho. rewrite (Hcov b a2 o) by done.
    apply andb_false_iff. rewrite Z.leb_gt, Z.ltb_ge. lia.
  - destruct (Z.eqb_spec (server_host_ptr (backing a)) 0); [done|].
    eexists. split; [done|]. split.
    + intros q [= <-]. exists b1, a. simpl. split_and!; try done; lia.
    + intros b a2 o Ha2 Hr2 Ho. rewrite (Hcov b a2 o) by done. simpl. rewrite orb_false_r. do 2 f_equal. lia.
Qed.

Lemma covered_app l1 l2 x : covered (l1 ++ l2) x = covered l1 x || covered l2 x.
Proof. apply existsb_app. Qed.

Lemma delivered_shape r s w w' :
  delivered r s w w' -> shape (statics w) (fault_entries w) -> shape (statics w') (fault_entries w').
Proof. intros Hd. by rewrite (statics_registry _ _ (dl_registry _ _ _ _ Hd)), (dl_entries _ _ _ _ Hd). Qed.

Lemma delivered_ranges r s w w' l :
  delivered r s w w' -> Forall (range_ok w r) l -> Forall (range_ok w' r) l.
Proof.
  intros Hd Hl. eapply Forall_impl; [exact Hl|]. intros x. apply range_ok_statics.
  by rewrite (statics_registry _ _ (dl_registry _ _ _ _ Hd)).
Qed.

Lemma send_ranges_spec r l : forall batch w,
  shape (statics w) (fault_entries w) -> Forall (range_ok w r) l -> Forall (push_ok w r) batch ->
  exists w', send_ranges r l batch w = (CUDA_SUCCESS, w') /\
    delivered r (fun b x => covered batch x || existsb (coversb b x) l) w w'.
Proof.
  induction l as [|range l IH]; intros batch w Hsh Hok Hb.
  { destruct (send_batch_spec r batch w Hsh Hb) as (w'&?&Hd). exists w'. split; [done|].
    eapply delivered_ext; [exact Hd|]. intros b a o _ _ _. simpl. by rewrite orb_false_r. }
  apply Forall_cons in Hok as [Hok1 Hok2].
  assert (forall batch1 w1 s1, delivered r s1 w w1 ->
    Forall (push_ok w1 r) batch1 ->
    (forall b a o, find_alloc b w = Some a -> route_id (backing a) = r -> 0 <= o < al_size (backing a) ->
      s1 b (b + o) || covered batch1 (b + o) = covered batch (b + o) || coversb b (b + o) range) ->
    exists w', send_ranges r l batch1 w1 = (CUDA_SUCCESS, w') /\
      delivered r (fun b x => covered batch x || existsb (coversb b x) (range :: l)) w w') as Hgo.
  { intros batch1 w1 s1 Hd1 Hb1 Hs.
    destruct (IH batch1 w1) as (w'&Hw'&Hd2);
      [by eapply delivered_shape|by eapply delivered_ranges|done|].
    exists w'. split; [done|]. eapply delivered_ext; [by eapply delivered_trans|].
    intros b a o Ha Hr Ho. simpl. rewrite !orb_assoc. by rewrite (Hs b a o). }
  destruct (range_push_spec w r range Hsh Hok1) as ([q|]&Hp&Hq&Hcov); cbn [send_ranges]; rewrite Hp.
  2:{ apply (Hgo batch w (fun _ _ => false)); [by constructor|done|].
      intros b a o Ha Hr Ho. simpl. by rewrite (Hcov b a o Ha Hr Ho), orb_false_r. }
  specialize (Hq q eq_refl). case_if.
  - destruct (send_batch_spec r batch w Hsh Hb) as (w1&->&Hd1). simpl.
    destruct (bulk_push_spec r q w1) as (w2&->&Hd2);
      [by eapply delivered_shape|by eapply push_ok_registry; [apply Hd1|]|]. simpl.
    eapply (Hgo [] w2); [by eapply delivered_trans|done|].
    intros b a o Ha Hr Ho. by rewrite (Hcov b a o Ha Hr Ho), orb_false_r.
  - assert (Forall (push_ok w r) (batch ++ [q])) as Hbq by (apply Forall_app; auto).
    assert (forall b a o, find_alloc b w = Some a -> route_id (backing a) = r ->
      0 <= o < al_size (backing a) ->
      covered (batch ++ [q]) (b + o) = covered batch (b + o) || coversb b (b + o) range) as Hc.
    { intros b a o Ha Hr Ho. by rewrite covered_app, (Hcov b a o Ha Hr Ho). }
    case_if.
    + destruct (send_batch_spec r _ w Hsh Hbq) as (w1&->&Hd1). simpl.
      eapply (Hgo [] w1); [done|done|]. intros b a o Ha Hr Ho. simpl. rewrite orb_false_r. by apply (Hc b a).
    + eapply (Hgo (batch ++ [q]) w (fun _ _ => false)); [by constructor|done|].
      intros b a o Ha Hr Ho. simpl. by apply (Hc b a).
Qed.

(** ** After the answer *)

Lemma existsb_coversb b x l : existsb (coversb b x) l = true <-> Exists (covers b x) l.
Proof.
  rewrite existsb_exists, Exists_exists. setoid_rewrite list_elem_of_In.
  unfold coversb, covers. setoid_rewrite andb_true_iff. setoid_rewrite andb_true_iff.
  setoid_rewrite Z.eqb_eq. setoid_rewrite Z.leb_le. setoid_rewrite Z.ltb_lt.
  split; intros (y&?&?); exists y; tauto.
Qed.

Lemma release_ranges_coherent t behind memory fl r l : forall w,
  coherent t behind memory fl w -> Forall (range_ok w r) l ->
  coherent t behind memory fl (release_ranges r false l w) /\
  same_but_registry w (release_ranges r false l w) /\
  statics (release_ranges r false l w) = statics w /\
  forall b a, find_alloc b w = Some a -> exists a',
    find_alloc b (release_ranges r false l w) = Some a' /\ full_dirty a' = full_dirty a.
Proof.
  induction l as [|range l IH]; intros w Hco Hok; simpl; [split_and!; [done|done|done|eauto]|].
  apply Forall_cons in Hok as [Hok1 Hok2]. destruct Hok1 as (a&Ha&Ht&_).
  replace (match find_alloc (dr_allocation range) w with Some _ => w | None => w end) with w
    by by rewrite Ha.
  set (w1 := update_alloc (dr_allocation range) (add_pending (-1)) w).
  assert (coherent t behind memory fl w1) as Hco1 by by apply update_coherent with a.
  assert (statics w1 = statics w) as Hs by by apply statics_update.
  destruct (IH w1) as (Hco'&[S1 S2 S3 S4 S5 S6]&Hs'&Hf); [done| |].
  { eapply Forall_impl; [exact Hok2|]. intros x. by apply range_ok_statics. }
  split_and!; [done|by constructor|congruence|].
  intros b a1 Ha1. destruct (decide (b = dr_allocation range)) as [->|Hne].
  - destruct (Hf (dr_allocation range) (add_pending (-1) a)) as (a'&?&?); [by apply find_update_same|].
    exists a'. split; [done|]. rewrite Ha in Ha1. by injection Ha1 as <-.
  - apply Hf. unfold w1. by rewrite find_update_other.
Qed.

Lemma delivered_coherent t behind memory r l w w' :
  coherent t behind memory (InFlight l []) w -> Forall (range_ok w r) l ->
  delivered r (fun b x => existsb (coversb b x) l) w w' ->
  (forall b x, Exists (covers b x) l -> prot w x <> PROT_WRITE) ->
  coherent t behind memory nothing w'.
Proof.
  intros Hco Hok [D1 D2 D3 [D4 [D4' D4'']] D5 D6 [D7 D7'] D8 D9] Hprot.
  assert (statics w' = statics w) as Hs by by apply statics_registry.
  destruct Hco as [C1 C2 C3 C4 C5 C6 C7 C8].
  constructor; rewrite ?Hs, ?D2, ?D3, ?D4, ?D4', ?D4'', ?D6, ?D7, ?D7'; try done;
    try setoid_rewrite (find_registry _ _ _ D1); try done.
  - intros r' range Hin. apply (range_ok_statics w); auto.
  - intros b a Ha Ht. destruct (C7 b a Ha Ht) as [T1 T2 T3 T4]. constructor; [done|by rewrite D2| |].
    { unfold fully_dirty in *. naive_solver. }
    intros o Ho. destruct (T4 o Ho) as [B1 B2 B3 B4 B5].
    assert (fully_dirty nothing b a <-> fully_dirty (InFlight l []) b a) as Hfd by done.
    assert (forall x, queued (InFlight l []) w b a x <->
      Exists (covers b x) l \/ queued nothing w' b a x) as Hq.
    { intros x. rewrite !queued_exists, D2. simpl. rewrite Exists_nil. clear. tauto. }
    rewrite Hq in B2, B3, B5. constructor; rewrite ?D7, ?D7'; auto.
    + intros Hnq Hnf. destruct (decide (route_id (backing a) = r)) as [E|Hne].
      * rewrite E in *. rewrite (D9 b a o Ha E Ho). destruct (existsb _ l) eqn:Ex.
        -- apply existsb_coversb in Ex. destruct B3; auto.
        -- apply B2; [|done]. intros [Hex|?]; [|done]. apply existsb_coversb in Hex. congruence.
      * rewrite D8 by done. apply B2; [|done].
        pose proof (other_route_uncovered w r l b a (b + o) Hok Ha Hne). tauto.
    + intros Hw. destruct (B5 Hw) as [[[Hex|?]|?] ?]; auto. by destruct (Hprot b (b + o)).
Qed.

(** * The flush of a route *)

(** Allocations that are flushed whole are ranges once all of their data is valid. *)
Lemma land_full t behind memory l hosts full w :
  coherent t behind memory (InFlight l hosts) w ->
  (forall range, range ∈ full <->
    exists h a, h ∈ hosts /\ find_alloc h w = Some a /\ range = full_range h a) ->
  (forall h a, h ∈ hosts -> find_alloc h w = Some a ->
    forall o, 0 <= o < al_size (backing a) -> valid a o = true) ->
  coherent t behind memory (InFlight (l ++ full) []) w.
Proof.
  intros Hco Hfull Hval. pose proof Hco as [C1 C2 C3 C4 C5 C6 C7 C8]. constructor; try done.
  intros b a Ha Ht. destruct (C7 b a Ha Ht) as [T1 T2 T3 T4].
  constructor; [done|done|intros [?|?%elem_of_nil]; [apply T3; by left|done]|].
  intros o Ho. destruct (T4 o Ho) as [B1 B2 B3 B4 B5].
  pose proof (found_static _ _ _ C1 Ha) as Hso. pose proof (so_size _ _ Hso) as Hz.
  destruct (so_base _ _ Hso) as [Hb _]. simpl in *.
  assert (Exists (covers b (b + o)) full <-> b ∈ hosts) as Hcov.
  { rewrite Exists_exists. setoid_rewrite Hfull. split.
    - intros (range&(h&a1&Hin&_&->)&Hc&_). simpl in Hc. by subst.
    - intros Hin. exists (full_range b a). split; [by eauto|]. split; simpl; [done|lia]. }
  assert (queued (InFlight (l ++ full) []) w b a (b + o) <->
    queued (InFlight l hosts) w b a (b + o) \/ b ∈ hosts) as Hq.
  { rewrite !queued_exists. simpl. rewrite Exists_app, Hcov. clear. tauto. }
  constructor; rewrite ?Hq; auto.
  - intros Hnq Hnf. apply B2; [tauto|]. intros [?|?]; [|tauto]. apply Hnf. by left.
  - intros [?|Hin]; [auto|]. split; [by apply (Hval b a)|]. apply T3. by right.
  - intros Hw. destruct (B5 Hw) as [[?|[?|?]] ?]; unfold fully_dirty; auto.
Qed.

Lemma full_range_ok w r h a :
  shape (statics w) (fault_entries w) -> find_alloc h w = Some a -> wants_full r a = true ->
  range_ok w r (full_range h a).
Proof.
  intros Hsh Ha (Ht&Hr&_&_)%wants_full_spec. pose proof (found_static _ _ _ Hsh Ha) as Hso.
  pose proof (so_size _ _ Hso) as Hz. destruct (so_base _ _ Hso) as [Hb _]. simpl in *.
  exists a. unfold full_range, whole_pages. simpl. rewrite Hb. split_and!; try done; lia.
Qed.

(** What a flush of [r] leaves. *)
Record flushed_to (r : Z) (w w' : mirror) : Prop := FlushedTo {
  fh_statics : statics w' = statics w;
  fh_epochs : dirty_epoch w' = dirty_epoch w /\ required_epoch w' = required_epoch w /\
              flushed_epoch w' = flushed_epoch w;
  fh_work : device_work_pending w' = device_work_pending w;
  fh_clean : clean r w';
  fh_others : forall r', r' <> r -> clean r' w -> clean r' w';
}.

(** Sending what is in flight. *)
Lemma send_in_flight t behind memory r all w :
  coherent t behind memory (InFlight all []) w -> Forall (range_ok w r) all ->
  let merged := merge_ranges (sort_ranges all) in
  exists w1 w2, protect_ranges merged w = (true, w1) /\
    send_ranges r merged [] w1 = (CUDA_SUCCESS, w2) /\
    coherent t behind memory nothing w2 /\ registry w2 = registry w /\ queues w2 = queues w /\
    (dirty_epoch w2 = dirty_epoch w /\ required_epoch w2 = required_epoch w /\
     flushed_epoch w2 = flushed_epoch w) /\ device_work_pending w2 = device_work_pending w.
Proof.
  intros Hco Hok merged.
  assert (Forall (range_ok w r) merged) as Hm.
  { apply merge_sorted_forall; [|done]. intros; by apply range_ok_merge. }
  assert (forall b x, Exists (covers b x) merged <-> Exists (covers b x) all) as Hcov
    by (intros; apply merge_sorted_covers).
  assert (Forall (range_valid w) merged) as Hv.
  { apply Forall_forall. intros range Hin a o Ha Ho Hx. rewrite Forall_forall in Hm.
    destruct (Hm _ Hin) as (a1&Ha1&Ht&_). rewrite Ha in Ha1. injection Ha1 as <-.
    apply (tk_bytes _ _ _ _ _ _ (co_tracked _ _ _ _ _ Hco _ _ Ha Ht) o Ho).
    apply queued_exists. left. simpl. apply Hcov, Exists_exists. exists range. by split. }
  destruct (protect_ranges_spec t behind memory (InFlight all []) r merged w Hco Hm Hv)
    as (p&Hp&Hco1&Hx).
  destruct (send_ranges_spec r merged [] (set_prot p w)) as (w2&Hw2&Hd); [apply Hco|done|done|].
  exists (set_prot p w), w2. split_and!; try done; try apply Hd.
  eapply (delivered_coherent t behind memory r all (set_prot p w)); [done|done| |].
  - eapply delivered_ext; [exact Hd|]. intros b a o _ _ _. simpl.
    apply Bool.eq_true_iff_eq. rewrite !existsb_coversb. apply Hcov.
  - intros b x Hex Hpx. destruct (Hx x Hpx) as [_ Hf]. rewrite <- Hcov in Hex.
    apply Exists_exists in Hex as (range&Hin&_&Hr). rewrite Forall_forall in Hf. by apply (Hf range).
Qed.

Lemma clean_statics r w w' :
  statics w' = statics w -> ranges (queues w' r) = ranges (queues w r) ->
  (forall b a, find_alloc b w = Some a -> exists a', find_alloc b w' = Some a' /\
    (route_id (backing a) = r -> full_dirty a' = full_dirty a)) ->
  clean r w -> clean r w'.
Proof.
  intros Hs Hq Hf [C1 C2]. split; [by rewrite Hq|]. intros b a' Ha' Hr.
  destruct (statics_found w' w b a' (eq_sym Hs) Ha') as (a&Ha&Hi). destruct (info_inj _ _ Hi) as [Hb _].
  destruct (Hf b a Ha) as (a2&Ha2&Hd). rewrite Ha' in Ha2. injection Ha2 as <-.
  rewrite Hd by congruence. apply (C2 b a Ha). congruence.
Qed.

Section Route.
Context (t : Z) (behind : gset Z) (memory : Z -> byte) (r : Z) (w w1 : mirror)
  (full : list lupine_dirty_host_range) (stale : list Z).
Hypothesis Hco : coherent t behind memory nothing w.
Hypothesis Hco1 : coherent t behind memory (InFlight (ranges (queues w r)) (full_hosts r w)) w1.
Hypothesis Htn : taken r w w1 full stale.

Lemma taken_sorted : om_sorted (statics w).
Proof. apply Hco. Qed.

Lemma taken_ranges : Forall (range_ok w1 r) (ranges (queues w r) ++ full).
Proof.
  apply Forall_app. split; apply Forall_forall; intros range Hin;
    (apply (range_ok_statics w); [apply Htn|]).
  - by apply (co_ranges _ _ _ _ _ Hco).
  - apply (tn_full _ _ _ _ _ Htn) in Hin as (h&a&Ha&Hw&->). apply full_range_ok; [apply Hco|done..].
Qed.

(** Nothing was taken. *)
Lemma taken_nothing :
  ranges (queues w r) ++ full = [] -> coherent t behind memory nothing w1.
Proof.
  intros [Hq Hf]%app_eq_nil. rewrite Hq in Hco1. eapply flight_ext; [exact Hco1|].
  intros b a Ha Ht. split; [done|]. unfold fully_dirty. simpl. split; [intros [?|?%elem_of_nil]; auto|].
  intros [?|Hin]; [auto|]. apply (elem_of_full_hosts _ _ _ taken_sorted) in Hin as (a1&Ha1&Hw).
  assert (full_range b a1 ∈ full) as Hbad by (apply (tn_full _ _ _ _ _ Htn); eauto).
  rewrite Hf in Hbad. by apply elem_of_nil in Hbad.
Qed.

(** What was taken is in flight once the stale allocations are fetched. *)
Lemma taken_fetched :
  exists w2, fetch_before_flush t stale w1 = Some w2 /\
    coherent t behind memory (InFlight (ranges (queues w r) ++ full) []) w2 /\ fetched_some w1 w2.
Proof.
  destruct (fetch_before_flush_spec t behind memory _ stale w1 Hco1) as (w2&Hw2&Hco2&Hfs&Hv).
  { intros h Hin. apply (tn_stale _ _ _ _ _ Htn) in Hin as (a&Ha&(Ht&_)%wants_full_spec&_).
    destruct (tn_found _ _ _ _ _ Htn h a Ha) as (a'&?&(Hi&_)&_). exists a'. split; [done|].
    destruct (info_inj _ _ Hi). congruence. }
  exists w2. split_and!; [done| |done].
  assert (forall h a, h ∈ full_hosts r w -> find_alloc h w2 = Some a ->
    exists a0, find_alloc h w = Some a0 /\ wants_full r a0 = true /\ info a = info a0) as Hback.
  { intros h a Hin Ha. apply (elem_of_full_hosts _ _ _ taken_sorted) in Hin as (a0&Ha0&Hw).
    exists a0. split_and!; try done.
    destruct (statics_found w w2 h a0) as (a2&Ha2&Hi); [|done|].
    - by rewrite (fs_statics _ _ Hfs), (tn_statics _ _ _ _ _ Htn).
    - rewrite Ha in Ha2. by injection Ha2 as <-. }
  eapply land_full; [exact Hco2| |].
  - intros range. rewrite (tn_full _ _ _ _ _ Htn). split.
    + intros (h&a&Ha&Hw&->). destruct (statics_found w w2 h a) as (a2&Ha2&Hi); [|done|].
      { by rewrite (fs_statics _ _ Hfs), (tn_statics _ _ _ _ _ Htn). }
      exists h, a2. split; [by apply (elem_of_full_hosts _ _ _ taken_sorted); eauto|]. split; [done|].
      unfold full_range. by destruct (info_inj _ _ Hi) as [-> _].
    + intros (h&a&Hin&Ha&->). destruct (Hback h a Hin Ha) as (a0&Ha0&Hw&Hi). exists h, a0.
      split_and!; try done. unfold full_range. by destruct (info_inj _ _ Hi) as [-> _].
  - intros h a Hin Ha o Ho. destruct (Hback h a Hin Ha) as (a0&Ha0&Hw&Hi).
    destruct (decide (device_stale a0 = 0)) as [E|E].
    + destruct (tn_found _ _ _ _ _ Htn h a0 Ha0) as (a1&Ha1&Hsf&_).
      destruct (fs_found _ _ Hfs h a1 Ha1) as (a2&Ha2&Hi2&_&Hval). rewrite Ha in Ha2. injection Ha2 as <-.
      destruct (info_inj _ _ Hi2) as [Hb _]. apply Hval; [by rewrite <- Hb|].
      rewrite (same_fetch_valid _ _ _ Hsf). unfold valid. by rewrite E.
    + apply (Hv h a); [|done|done]. apply (tn_stale _ _ _ _ _ Htn). eauto.
Qed.

Lemma taken_flushed : flushed_to r w w1.
Proof.
  destruct Htn as [T1 T2 T3 T4 T5 T6 T7 T8 T9]. constructor; try done.
  intros r' Hne. apply clean_statics; [done|by rewrite T6|].
  intros b a Ha. destruct (T7 b a Ha) as (a'&?&_&Hd). exists a'. split; [done|]. intros Hr. apply Hd. congruence.
Qed.
End Route.

Lemma flushed_to_keep r w w1 w2 :
  flushed_to r w w1 -> statics w2 = statics w1 ->
  (dirty_epoch w2 = dirty_epoch w1 /\ required_epoch w2 = required_epoch w1 /\
   flushed_epoch w2 = flushed_epoch w1) -> device_work_pending w2 = device_work_pending w1 ->
  queues w2 = queues w1 ->
  (forall b a, find_alloc b w1 = Some a -> exists a', find_alloc b w2 = Some a' /\
    full_dirty a' = full_dirty a) ->
  flushed_to r w w2.
Proof.
  intros [F1 [F2 [F2' F2'']] F3 F4 F5] Hs (E1&E2&E3) Hw Hq Hf.
  assert (forall r', clean r' w1 -> clean r' w2) as Hc.
  { intros r'. apply clean_statics; [done|by rewrite Hq|]. intros b a Ha.
    destruct (Hf b a Ha) as (a'&?&?). eauto. }
  constructor; [congruence|split_and!; congruence|congruence|auto|auto].
Qed.

(** A flush succeeds, keeps the mirror coherent and leaves the route clean. *)
Lemma flush_route_spec t behind memory r w :
  coherent t behind memory nothing w -> 0 <= r < rpc_size ->
  exists w', lupine_flush_dirty_host_pages_to_route t r w = Some (CUDA_SUCCESS, w') /\
    coherent t behind memory nothing w' /\ flushed_to r w w'.
Proof.
  intros Hco Hr. unfold lupine_flush_dirty_host_pages_to_route, remote_conn.
  destruct (Z.leb_spec 0 r); [|lia]. destruct (Z.ltb_spec r rpc_size); [|lia]. simpl.
  unfold lupine_collect_host_allocation_writes. rewrite (co_writes _ _ _ _ _ Hco). simpl collect_writes.
  change (negb (CUDA_SUCCESS =? CUDA_SUCCESS)) with false. cbv iota zeta.
  set (w0 := set_host_writes r [] w).
  assert (coherent t behind memory nothing w0) as Hco0.
  { eapply coherent_same; [exact Hco|try done..]. intros r'. simpl.
    destruct (r' =? r); [done|apply Hco]. }
  destruct (take_route t behind memory r w0 Hco0) as (full&stale&w1&->&Hco1&Htn).
  rewrite (window_ranges_none r (allocations (registry w1)) w1).
  2:{ intros h a Hin. apply (found_static w1); [apply Hco1|]. apply om_find_elem; [|done].
      apply allocations_sorted, Hco1. }
  rewrite app_nil_r.
  assert (flushed_to r w w1) as Hfl by by destruct (taken_flushed r w0 w1 full stale Htn); constructor.
  case_bool_decide as Hall.
  { exists w1. split; [done|]. split; [|done]. by eapply (taken_nothing _ _ _ r w0). }
  destruct (taken_fetched t behind memory r w0 w1 full stale Hco0 Hco1 Htn) as (w2&->&Hco2&Hfs). simpl.
  set (all := ranges (queues w r) ++ full) in *.
  assert (Forall (range_ok w2 r) all) as Hok.
  { eapply Forall_impl; [by eapply (taken_ranges t behind memory r w0)|].
    intros x. apply range_ok_statics, Hfs. }
  destruct (send_in_flight t behind memory r all w2 Hco2 Hok)
    as (w3&w4&->&->&Hco4&Hreg&Hq&He&Hwk). simpl.
  assert (statics w4 = statics w2) as Hs4 by by apply statics_registry.
  destruct (release_ranges_coherent t behind memory nothing r all w4 Hco4)
    as (Hco5&[S1 S2 S3 S4 S5 S6]&Hs5&Hf5).
  { eapply Forall_impl; [exact Hok|]. intros x. by apply range_ok_statics. }
  eexists. split; [done|]. split; [done|].
  destruct Hfs as [G1 G2 G3 [G4 [G4' G4'']] G5 G6]. destruct He as (He1&He2&He3). destruct S3 as (S31&S32&S33).
  apply (flushed_to_keep r w w1); [exact Hfl|congruence|split_and!; congruence|congruence|congruence|].
  intros b a Ha. destruct (G6 b a Ha) as (a2&Ha2&_&Hd2&_).
  destruct (Hf5 b a2) as (a5&Ha5&Hd5); [by rewrite (find_registry _ _ _ Hreg)|].
  exists a5. split; [done|congruence].
Qed.

(** * Before a request *)

(** What flushing or sending changes is no business of the application's. *)
Record quiet (w w' : mirror) : Prop := Quiet {
  qu_statics : statics w' = statics w;
  qu_work : device_work_pending w' = device_work_pending w;
}.

Definition all_clean (w : mirror) : Prop := forall r, clean r w.

Lemma flush_routes_spec t behind memory routes : forall w,
  coherent t behind memory nothing w -> Forall (fun r => 0 <= r < rpc_size) routes ->
  exists w', flush_routes t routes w = Some (CUDA_SUCCESS, w') /\
    coherent t behind memory nothing w' /\ statics w' = statics w /\
    (dirty_epoch w' = dirty_epoch w /\ required_epoch w' = required_epoch w /\
     flushed_epoch w' = flushed_epoch w) /\ device_work_pending w' = device_work_pending w /\
    forall r, r ∈ routes \/ clean r w -> clean r w'.
Proof.
  induction routes as [|r routes IH]; intros w Hco Hr.
  { exists w. split_and!; try done. intros r [?%elem_of_nil|?]; done. }
  apply Forall_cons in Hr as [Hr1 Hr2]. simpl.
  destruct (flush_route_spec t behind memory r w Hco Hr1) as (w1&->&Hco1&[F1 (F2&F3&F4) F5 F6 F7]). simpl.
  destruct (IH w1 Hco1 Hr2) as (w'&->&Hco'&G1&(G2&G3&G4)&G5&G6).
  exists w'. split_and!; try done; try congruence.
  intros r' Hc. apply G6. destruct (decide (r' = r)) as [->|Hne]; [auto|].
  destruct Hc as [[->|?]%elem_of_cons|?]; [done|auto|auto].
Qed.

(** Allocations live on the connections, so clean connections are all there is. *)
Lemma connections_clean t behind memory w :
  coherent t behind memory nothing w -> (forall r, 0 <= r < rpc_size -> clean r w) -> all_clean w.
Proof.
  intros Hco Hc r.
  assert (forall b a, find_alloc b w = Some a -> 0 <= route_id (backing a) < rpc_size) as Hroute.
  { intros b a Ha. pose proof (so_route _ _ (found_static _ _ _ (co_shape _ _ _ _ _ Hco) Ha)) as Hso.
    simpl in Hso. lia. }
  split.
  - destruct (ranges (queues w r)) as [|range l] eqn:E; [done|exfalso].
    destruct (co_ranges _ _ _ _ _ Hco r range) as (a&Ha&_&Hr&_); [rewrite E; left|].
    pose proof (Hroute _ _ Ha) as Hrr. rewrite Hr in Hrr. destruct (Hc r Hrr) as [Hq _]. congruence.
  - intros b a Ha Hr. destruct (Hc _ (Hroute _ _ Ha)) as [_ Hd]. by apply (Hd b a).
Qed.

Lemma epoch_clean t behind memory w :
  coherent t behind memory nothing w -> required_epoch w t <= flushed_epoch w -> all_clean w.
Proof.
  intros Hco He r. split.
  - destruct (ranges (queues w r)) as [|range l] eqn:E; [done|exfalso].
    assert (flushed_epoch w < required_epoch w t); [|lia].
    apply (co_epoch _ _ _ _ _ Hco). left. exists r, range. rewrite E. left.
  - intros b a Ha _. destruct (full_dirty a) eqn:E; [exfalso|done].
    assert (flushed_epoch w < required_epoch w t); [|lia].
    apply (co_epoch _ _ _ _ _ Hco). right. eauto.
Qed.

Lemma set_flushed_coherent t behind memory w :
  coherent t behind memory nothing w -> all_clean w ->
  coherent t behind memory nothing (set_flushed (dirty_epoch w) w).
Proof.
  intros [C1 C2 C3 C4 C5 C6 C7 C8] Hc. constructor; try done.
  - intros [(r&range&Hin)|(b&a&Ha&Hd)].
    + simpl in Hin. destruct (Hc r) as [Hq _]. rewrite Hq in Hin. by apply elem_of_nil in Hin.
    + destruct (Hc (route_id (backing a))) as [_ Hf]. by rewrite (Hf b a Ha eq_refl) in Hd.
  - split; simpl; lia.
  - intros b a Ha Ht. destruct (C7 b a Ha Ht) as [T1 T2 T3 T4]. constructor; try done.
    intros o Ho. destruct (T4 o Ho). by constructor.
Qed.

Lemma flush_until_required_spec fuel t behind memory w :
  coherent t behind memory nothing w ->
  exists w', flush_until_required (S fuel) t w = Some (0, w') /\
    coherent t behind memory nothing w' /\ quiet w w' /\ all_clean w'.
Proof.
  intros Hco. cbn [flush_until_required]. destruct (Z.leb_spec (required_epoch w t) (flushed_epoch w)).
  { exists w. split_and!; [done|done|done|by eapply epoch_clean]. }
  destruct (flush_routes_spec t behind memory (seqZ 0 rpc_size) w Hco)
    as (w1&->&Hco1&Hs&(E1&E2&E3)&Hw&Hc).
  { apply Forall_forall. intros r Hin%elem_of_seqZ. lia. }
  simpl. assert (all_clean w1) as Hcl.
  { eapply connections_clean; [done|]. intros r Hr. apply Hc. left. apply elem_of_seqZ. lia. }
  destruct (co_required _ _ _ _ _ Hco) as [Hrq _].
  exists (set_flushed (dirty_epoch w) w1). split_and!; [|rewrite <- E1; by apply set_flushed_coherent|done|].
  - destruct fuel; simpl; rewrite E2; by destruct (Z.leb_spec (required_epoch w t) (dirty_epoch w)); [|lia].
  - intros r. apply Hcl.
Qed.

Lemma prepare_rpc_spec fuel t behind memory r w :
  coherent t behind memory nothing w ->
  exists w', lupine_prepare_rpc (S fuel) t (Some r) w = Some (0, w') /\
    coherent t behind memory nothing w' /\ all_clean w' /\ statics w' = statics w /\
    device_work_pending w' = true.
Proof.
  intros Hco. unfold lupine_prepare_rpc.
  change (host_writes (set_work_pending true w) r) with (host_writes w r).
  rewrite (co_writes _ _ _ _ _ Hco), bool_decide_eq_true_2 by done.
  change (negb (CUDA_SUCCESS =? CUDA_SUCCESS)) with false. cbv iota.
  destruct (flush_until_required_spec fuel t behind memory (set_work_pending true w))
    as (w'&->&Hco'&[Q1 Q2]&Hc).
  { eapply coherent_same; [exact Hco|try done..]. apply Hco. }
  exists w'. by split_and!.
Qed.

(** A clean server has the memory. *)
Lemma clean_server t behind memory w b a o :
  coherent t behind memory nothing w -> all_clean w ->
  find_alloc b w = Some a -> tracking_enabled a = true -> 0 <= o < al_size (backing a) ->
  server w (route_id (backing a)) (server_host_ptr (backing a) + o) = memory (b + o).
Proof.
  intros Hco Hc Ha Ht Ho. destruct (Hc (route_id (backing a))) as [Hq Hf].
  apply (tk_bytes _ _ _ _ _ _ (co_tracked _ _ _ _ _ Hco b a Ha Ht) o Ho).
  - rewrite queued_exists, Hq. simpl. rewrite Exists_nil. tauto.
  - intros [Hd|?%elem_of_nil] _; [|done]. by rewrite (Hf b a Ha eq_refl) in Hd.
Qed.
End Flush.
