(* ===== verification/HostExpose.v ===== *)
(** Exposing an allocation to the device: tracking of it begins, its fault entry is
    installed and its contents are queued. *)
From S2P Require Import Prelude OrdMap HostMem HostMirror HostCoherence HostFlush.

(** * The table of fault entries *)

Lemma free_slot_spec entries : forall i,
  0 <= i -> i + Z.of_nat (length entries) < LUPINE_MAX_FAULT_ENTRIES ->
  exists k, free_slot i entries = i + Z.of_nat k /\
    (k = length entries \/ exists e, entries !! k = Some e /\ fe_allocation e = None).
Proof.
  induction entries as [|e entries IH]; intros i Hi Hl; simpl in *.
  - exists 0%nat. case_if; [|lia]. split; [lia|auto].
  - case_bool_decide as He.
    + exists 0%nat. split; [lia|right]. eauto.
    + destruct (IH (i + 1)) as (k&->&Hk); [lia|lia|]. exists (S k). split; [lia|].
      destruct Hk as [->|Hk]; auto.
Qed.

(** A new entry takes the place of a dead one, or goes to the end. *)
Definition placed (entries entries' : list lupine_fault_entry) (new : lupine_fault_entry) : Prop :=
  (forall e b, fe_allocation e = Some b -> e ∈ entries -> e ∈ entries') /\ new ∈ entries' /\
  (forall e, e ∈ entries' -> e ∈ entries \/ e = new) /\ (length entries' <= S (length entries))%nat.

Lemma add_fault_entry_spec base size b w :
  Z.of_nat (length (fault_entries w)) < LUPINE_MAX_FAULT_ENTRIES -> is_u64 (base + size) ->
  exists slot entries', lupine_add_fault_entry base size b w = (slot, set_fault_entries entries' w) /\
    0 <= slot /\ placed (fault_entries w) entries' (FaultEntry base (base + size) (Some b)).
Proof.
  intros Hl Hu. unfold lupine_add_fault_entry.
  destruct (free_slot_spec (fault_entries w) 0) as (k&->&Hk); [lia|lia|].
  destruct (Z.ltb_spec (0 + Z.of_nat k) 0); [lia|].
  replace (Z.to_nat (0 + Z.of_nat k)) with k by lia. rewrite wrap64_id by done.
  eexists _, _. split; [done|]. split; [lia|].
  destruct (Nat.ltb_spec k (length (fault_entries w))) as [Hlt|Hge].
  - destruct Hk as [->|(e0&He0&Hn)]; [lia|]. split_and!.
    + intros e b' Hb Hin. apply list_elem_of_lookup in Hin as [j Hj].
      assert (j <> k) by (intros ->; congruence).
      apply (list_elem_of_lookup_2 _ j). by rewrite list_lookup_insert_ne.
    + apply (list_elem_of_lookup_2 _ k). by rewrite list_lookup_insert_eq.
    + intros e Hin. apply list_elem_of_lookup in Hin as [j Hj].
      destruct (decide (j = k)) as [->|Hne].
      * rewrite list_lookup_insert_eq in Hj by done. injection Hj as <-. auto.
      * rewrite list_lookup_insert_ne in Hj by done. left. by eapply list_elem_of_lookup_2.
    + rewrite length_insert. lia.
  - split_and!.
    + intros e b' _ Hin. apply elem_of_app. auto.
    + apply elem_of_app. right. left.
    + intros e [?|?%list_elem_of_singleton]%elem_of_app; auto.
    + rewrite length_app. simpl. lia.
Qed.

(** * The registry with one entry changed *)

Lemma elem_of_statics w b i :
  om_sorted (statics w) ->
  (b, i) ∈ statics w <-> exists a, find_alloc b w = Some a /\ info a = i.
Proof.
  intros Hs. rewrite <- om_find_elem, statics_find by done.
  destruct (find_alloc b w) as [a|]; simpl; split.
  - intros [= <-]. eauto.
  - intros (?&[= <-]&<-). done.
  - done.
  - by intros (?&?&_).
Qed.

Lemma sorted_update b f w : om_sorted (statics w) -> om_sorted (statics (update_alloc b f w)).
Proof.
  apply om_sorted_keys. unfold statics, update_alloc. simpl.
  induction (allocations (registry w)) as [|[k a] l IH]; [done|]. csimpl. rewrite IH.
  by destruct (k =? b).
Qed.

Definition untracked_count (l : list (Z * static_info)) : nat :=
  length (List.filter (fun e => negb (si_tracking e.2)) l).

Lemma untracked_update b a f w :
  om_sorted (statics w) -> find_alloc b w = Some a ->
  (untracked_count (statics (update_alloc b f w)) + Nat.b2n (negb (tracking_enabled a)) =
   untracked_count (statics w) + Nat.b2n (negb (tracking_enabled (f a))))%nat.
Proof.
  unfold find_alloc, statics, update_alloc, untracked_count. simpl.
  induction (allocations (registry w)) as [|[k a0] l IH]; [done|]. csimpl. intros Hs Hf.
  apply om_sorted_cons in Hs as [Hs Hk]. destruct (Z.eqb_spec k b) as [->|Hne].
  - injection Hf as ->. replace (map _ l) with l.
    { simpl. destruct (tracking_enabled a), (tracking_enabled (f a)); simpl; lia. }
    clear IH Hs. induction l as [|[k' a'] l IH]; [done|]. csimpl in *.
    apply Forall_cons in Hk as [Hk1 Hk2]. simpl in Hk1. destruct (Z.eqb_spec k' b); [lia|].
    f_equal. by apply IH.
  - specialize (IH Hs Hf). simpl. destruct (tracking_enabled a0); simpl; lia.
Qed.

Section Expose.
Context `{MirrorEnvLaws}.

Lemma shape_update w b a f entries' :
  shape (statics w) (fault_entries w) -> find_alloc b w = Some a ->
  backing (f a) = backing a -> static_ok b (info (f a)) ->
  (tracking_enabled (f a) = tracking_enabled a /\ entries' = fault_entries w \/
   tracking_enabled a = false /\ tracking_enabled (f a) = true /\
   placed (fault_entries w) entries' (FaultEntry b (b + storage_size (backing a)) (Some b))) ->
  shape (statics (update_alloc b f w)) entries'.
Proof.
  intros Hsh Ha Hb Hso Hcase. pose proof (sh_sorted _ _ Hsh) as Hs.
  pose proof (sorted_update b f w Hs) as Hs'.
  assert (forall b' i, (b', i) ∈ statics (update_alloc b f w) ->
    exists i0, (b', i0) ∈ statics w /\ si_backing i = si_backing i0 /\
      (b' = b /\ i = info (f a) /\ i0 = info a \/ b' <> b /\ i = i0)) as Hfrom.
  { intros b' i (a'&Ha'&<-)%elem_of_statics; [|done]. rewrite find_update in Ha'.
    destruct (Z.eqb_spec b' b) as [->|Hne].
    - rewrite Ha in Ha'. injection Ha' as <-. exists (info a). split; [apply elem_of_statics; eauto|].
      simpl. auto.
    - exists (info a'). split; [apply elem_of_statics; eauto|auto]. }
  assert (forall b' i, (b', i) ∈ statics w -> b' <> b -> (b', i) ∈ statics (update_alloc b f w)) as Hto.
  { intros b' i (a'&Ha'&<-)%elem_of_statics Hne; [|done]. apply elem_of_statics; [done|].
    exists a'. by rewrite find_update_other. }
  assert ((b, info (f a)) ∈ statics (update_alloc b f w)) as Hbin.
  { apply elem_of_statics; [done|]. exists (f a). split; [by apply find_update_same|done]. }
  constructor; [done| | | | |].
  - intros b' i Hin. destruct (Hfrom _ _ Hin) as (i0&Hin0&_&[(->&->&_)|(_&->)]); [done|].
    by apply Hsh.
  - intros b1 i1 b2 i2 H1 H2 Hne. destruct (Hfrom _ _ H1) as (j1&K1&E1&_).
    destruct (Hfrom _ _ H2) as (j2&K2&E2&_). unfold apart. rewrite E1, E2.
    by apply (sh_apart _ _ Hsh).
  - intros b' i Hin Ht. destruct (Hfrom _ _ Hin) as (i0&Hin0&Eb&Hi). rewrite Eb.
    destruct Hcase as [[Et ->]|(Et&Et'&Hpl)].
    + apply (sh_faults _ _ Hsh _ _ Hin0). destruct Hi as [(->&->&->)|(_&->)]; [|done]. simpl in *. congruence.
    + destruct Hi as [(->&->&->)|(Hne&->)]; [apply Hpl|].
      destruct Hpl as [Hkeep _]. eapply Hkeep; [done|]. by apply (sh_faults _ _ Hsh).
  - intros entry b' Hent Hal.
    assert (forall entry, entry ∈ fault_entries w -> fe_allocation entry = Some b' ->
      (tracking_enabled a = true -> tracking_enabled (f a) = true) ->
      exists i, (b', i) ∈ statics (update_alloc b f w) /\ si_tracking i = true /\
        entry = FaultEntry b' (b' + storage_size (si_backing i)) (Some b')) as Hold.
    { clear entry Hent Hal. intros entry Hent Hal Hmono.
      destruct (sh_entries _ _ Hsh _ _ Hent Hal) as (i0&Hin0&Ht0&->).
      destruct (decide (b' = b)) as [->|Hne]; [|exists i0; auto].
      apply elem_of_statics in Hin0 as (a0&Ha0&<-); [|done]. rewrite Ha in Ha0. injection Ha0 as <-.
      exists (info (f a)). simpl in *. split_and!; auto. by rewrite Hb. }
    destruct Hcase as [[Et ->]|(Et&Et'&_&_&Hpl&_)]; [apply Hold; [done..|congruence]|].
    destruct (Hpl _ Hent) as [?| ->]; [apply Hold; [done..|congruence]|].
    injection Hal as <-. exists (info (f a)). simpl. by rewrite Hb.
  - pose proof (untracked_update b a f w Hs Ha) as Hcnt. pose proof (sh_room _ _ Hsh) as Hroom.
    fold (untracked_count (statics w)) in Hroom.
    fold (untracked_count (statics (update_alloc b f w))).
    destruct Hcase as [[Et ->]|(Et&Et'&_&_&_&Hlen)]; [rewrite Et in Hcnt; lia|].
    rewrite Et, Et' in Hcnt. simpl in Hcnt. lia.
Qed.

(** While an allocation is untracked there is room for its entry. *)
Lemma room_for_entry w b a :
  shape (statics w) (fault_entries w) -> find_alloc b w = Some a -> tracking_enabled a = false ->
  Z.of_nat (length (fault_entries w)) < LUPINE_MAX_FAULT_ENTRIES.
Proof.
  intros Hsh Ha Ht. pose proof (sh_room _ _ Hsh) as Hroom.
  assert ((b, info a) ∈ statics w) as Hin by (apply elem_of_statics; [apply Hsh|eauto]).
  assert ((b, info a) ∈ List.filter (fun e => negb (si_tracking e.2)) (statics w)) as Hf.
  { apply list_elem_of_In, filter_In. split; [by apply list_elem_of_In|]. simpl. by rewrite Ht. }
  destruct (List.filter _ _); [by apply elem_of_nil in Hf|]. simpl in Hroom. lia.
Qed.

(** What exposing may change: allocations become tracked. *)
Record exposes (w w' : mirror) : Prop := Exposes {
  ex_found : forall b a, find_alloc b w = Some a -> exists a', find_alloc b w' = Some a' /\
    backing a' = backing a /\ (tracking_enabled a = true -> tracking_enabled a' = true);
  ex_back : forall b a', find_alloc b w' = Some a' -> exists a, find_alloc b w = Some a;
}.

Lemma exposes_refl w : exposes w w.
Proof. constructor; intros b a Ha; eauto. Qed.

Lemma exposes_trans w w1 w2 : exposes w w1 -> exposes w1 w2 -> exposes w w2.
Proof.
  intros [F1 B1] [F2 B2]. constructor.
  - intros b a Ha. destruct (F1 b a Ha) as (a1&Ha1&Hb1&Ht1). destruct (F2 b a1 Ha1) as (a2&?&?&?).
    exists a2. split_and!; [done|congruence|auto].
  - intros b a' Ha'. destruct (B2 b a' Ha') as (a1&Ha1). eauto.
Qed.

Lemma require_coherent t behind memory w :
  coherent t behind memory nothing w ->
  coherent t behind memory nothing (lupine_require_dirty_host_flush t w).
Proof.
  intros [C1 C2 C3 C4 C5 C6 C7 C8]. constructor; try done.
  - simpl. rewrite Z.eqb_refl. intros _. lia.
  - simpl. rewrite Z.eqb_refl. lia.
  - intros b a Ha Ht. destruct (C7 b a Ha Ht) as [T1 T2 T3 T4]. constructor; try done.
    intros o Ho. destruct (T4 o Ho). by constructor.
Qed.

(** Managed memory is tracked already. *)
Lemma expose_managed t behind memory w b a :
  coherent t behind memory nothing w -> find_alloc b w = Some a -> managed (backing a) = true ->
  coherent t behind memory nothing (update_alloc b set_exposed w).
Proof.
  intros Hco Ha Hm. pose proof (found_static _ _ _ (co_shape _ _ _ _ _ Hco) Ha) as Hso.
  assert (tracking_enabled a = true) as Ht.
  { pose proof (so_tracked _ _ Hso) as E. simpl in E. by rewrite Hm in E. }
  assert (find_alloc b (update_alloc b set_exposed w) = Some (set_exposed a)) as Hf
    by by apply find_update_same.
  apply (touches_shape_coherent t b a behind behind memory memory nothing w _ Hco Ha)
    with (a' := set_exposed a); try done.
  - constructor; try done. intros b' Hne. by apply find_update_other.
  - change (fault_entries (update_alloc b set_exposed w)) with (fault_entries w).
    apply (shape_update w b a set_exposed); [apply Hco|done|done| |auto].
    destruct Hso. constructor; try done. simpl in *. by rewrite Hm.
  - destruct (co_tracked _ _ _ _ _ Hco b a Ha Ht) as [T1 T2 T3 T4]. constructor; try done.
    intros o Ho. destruct (T4 o Ho). by constructor.
  - intros r range Hin. destruct (co_ranges _ _ _ _ _ Hco r range Hin) as (a1&Ha1&Hok).
    destruct (decide (dr_allocation range = b)) as [E|Hne].
    + rewrite E, Ha in Ha1. injection Ha1 as <-. exists (set_exposed a). by rewrite E in *.
    + exists a1. by rewrite find_update_other.
  - intros [Hq|(b'&a1&Ha1&Hd)]; apply (co_epoch _ _ _ _ _ Hco); [by left|right].
    destruct (decide (b' = b)) as [->|Hne].
    + exists b, a. rewrite Hf in Ha1. by injection Ha1 as <-.
    + exists b', a1. by rewrite find_update_other in Ha1.
  - apply Hco.
Qed.

(** The allocation as tracking begins. *)
Definition tracked_from (slot : Z) (a : lupine_host_allocation) : lupine_host_allocation :=
  set_tracking true slot (Some (replicate (chunks_of (storage_size (backing a))) false))
    (set_exposed a).

Lemma chunk_count n :
  0 <= n < 2 ^ 63 -> Z.to_nat (lupine_round_up n CH / CH) = chunks_of n.
Proof.
  intros Hn. unfold chunks_of, lupine_round_up. pose proof chunk_positive as HC.
  rewrite wrap64_id by (unfold is_u64, LUPINE_DEMAND_FETCH_CHUNK_BYTES; lia).
  change CH with (2 ^ 16) at 2. rewrite mask_down_pow2
    by (unfold is_u64, LUPINE_DEMAND_FETCH_CHUNK_BYTES; lia). change (2 ^ 16) with CH. f_equal.
  apply Z.mul_reg_r with CH; [lia|].
  pose proof (Z.div_mod (n + CH - 1) CH ltac:(lia)) as E.
  replace (n + CH - 1 - (n + CH - 1) mod CH) with ((n + CH - 1) / CH * CH) by lia.
  by rewrite Z.div_mul by lia.
Qed.

Lemma enable_tracking_spec w b a :
  shape (statics w) (fault_entries w) -> find_alloc b w = Some a -> tracking_enabled a = false ->
  exists slot entries',
    lupine_enable_dirty_tracking_locked b (set_exposed a) (update_alloc b set_exposed w) =
      (true, update_alloc b (tracked_from slot)
               (mprotect b (b + storage_size (backing a) - b) PROT_READ
                  (set_fault_entries entries' w))) /\
    placed (fault_entries w) entries' (FaultEntry b (b + storage_size (backing a)) (Some b)).
Proof.
  intros Hsh Ha Ht. pose proof (found_static _ _ _ Hsh Ha) as Hso.
  pose proof (so_size _ _ Hso) as Hz. pose proof (so_range _ _ Hso) as Hrg.
  destruct (so_pages _ _ Hso) as [Hpb Hps]. destruct (so_page _ _ Hso) as [Hpg _].
  destruct (so_owned _ _ Hso) as (_&Hlc&_&_). destruct (so_server _ _ Hso) as (Hsp&_&_). simpl in *.
  pose proof page_positive as HP. assert (lupine_page_size <> 0) as HP0 by lia.
  unfold lupine_enable_dirty_tracking_locked. simpl. rewrite Hpg, Hlc, Ht.
  rewrite (proj2 (Z.mod_divide b lupine_page_size HP0) Hpb).
  rewrite (proj2 (Z.mod_divide (storage_size (backing a)) lupine_page_size HP0) Hps).
  destruct (Z.eqb_spec b 0); [lia|]. destruct (Z.eqb_spec (server_host_ptr (backing a)) 0); [done|].
  simpl. rewrite calloc_succeeds. simpl.
  destruct (add_fault_entry_spec b (storage_size (backing a)) b (update_alloc b set_exposed w))
    as (slot&entries'&->&Hslot&Hpl);
    [by eapply (room_for_entry w)|unfold is_u64; lia|].
  destruct (Z.ltb_spec slot 0); [lia|]. rewrite protect_spec by lia.
  rewrite page_down_multiple, page_up_multiple by (done || by apply Z.divide_add_r). simpl.
  rewrite chunk_count by lia. exists slot, entries'. split; [|done]. f_equal.
  change (update_alloc b ?f (mprotect ?x ?y ?p (set_fault_entries ?l (update_alloc b ?g w)))) with
    (mprotect x y p (set_fault_entries l (update_alloc b f (update_alloc b g w)))).
  change (update_alloc b ?f (mprotect ?x ?y ?p (set_fault_entries ?l w))) with
    (mprotect x y p (set_fault_entries l (update_alloc b f w))).
  rewrite update_update. do 2 f_equal. apply update_at; [apply Hsh|].
  intros a1 Ha1. rewrite Ha in Ha1. by injection Ha1 as <-.
Qed.

(** Static facts of an allocation whose tracking begins. *)
Lemma tracked_static b a slot :
  static_ok b (info a) -> tracking_enabled a = false -> static_ok b (info (tracked_from slot a)).
Proof.
  intros Hso Ht. pose proof (so_tracked _ _ Hso) as E. destruct Hso. constructor; try done.
  simpl in *. rewrite Ht in E. by destruct (managed (backing a)).
Qed.

(** Tracking begins with all of the data queued, or with a full flush due. *)
Lemma tracking_coherent t behind memory w b a slot entries' w3 a3 :
  coherent t behind memory nothing w -> find_alloc b w = Some a -> tracking_enabled a = false ->
  placed (fault_entries w) entries' (FaultEntry b (b + storage_size (backing a)) (Some b)) ->
  queues_range t b (tracked_from slot a)
    (update_alloc b (tracked_from slot)
       (mprotect b (b + storage_size (backing a) - b) PROT_READ (set_fault_entries entries' w)))
    b (b + al_size (backing a)) w3 a3 ->
  coherent t behind memory nothing w3.
Proof.
  intros Hco Ha Ht Hpl [Q1 Q2 Q3 [Qc [Qp Qs]] [Qr [Qd Qf]] Qa Qo Qi [Qv [Qn Qh]] Qrs Qq].
  pose proof (found_static _ _ _ (co_shape _ _ _ _ _ Hco) Ha) as Hso.
  assert (forall x, prot w3 x =
    if decide (b <= x < b + storage_size (backing a)) then PROT_READ else prot w x) as Hprot.
  { intros x. rewrite Qp. exact (prot_protect b _ PROT_READ (set_fault_entries entries' w) x). }
  pose proof (so_size _ _ Hso) as Hz. simpl in Hz, Qc, Qs, Qd, Qf, Q2, Q3, Qv, Qn, Qh, Qrs, Qq.
  destruct (info_inj _ _ Qi) as [Hb Ht3]. simpl in Hb, Ht3.
  destruct (co_untracked _ _ _ _ _ Hco b a Ha Ht) as (Ud&Us&Ub).
  destruct (co_required _ _ _ _ _ Hco) as [Hrq Hfl].
  assert (forall o, valid a3 o = true) as Hval by (intros o; unfold valid; by rewrite Qv, Us).
  assert (b ∉ behind) as Hnb.
  { intros Hin. destruct (co_behind _ _ _ _ _ Hco b Hin) as (a0&Ha0&Ht0). congruence. }
  assert (forall b', b' <> b -> find_alloc b' w3 = find_alloc b' w) as Hoth.
  { intros b' Hne. rewrite Qo by done. by rewrite find_update_other. }
  assert (forall r' range, range ∈ ranges (queues w3 r') ->
    range ∈ ranges (queues w r') \/
    r' = route_id (backing a) /\ range = DirtyRange b b (b + al_size (backing a))) as Hin.
  { intros r' range. destruct (decide (r' = route_id (backing a))) as [->|Hne];
      [|rewrite Qrs by done; auto].
    destruct Qq as [[_ ->]|[_ ->]]; simpl; [|auto].
    rewrite elem_of_app, list_elem_of_singleton. naive_solver. }
  assert (forall r' range, range ∈ ranges (queues w r') -> range ∈ ranges (queues w3 r')) as Hout.
  { intros r' range. destruct (decide (r' = route_id (backing a))) as [->|Hne]; [|by rewrite Qrs].
    destruct Qq as [[_ ->]|[_ ->]]; simpl; [|auto]. rewrite elem_of_app. auto. }
  assert (forall r range, range ∈ ranges (queues w r) -> dr_allocation range <> b) as Hfree.
  { intros r range Hr Hd. destruct (co_ranges _ _ _ _ _ Hco r range Hr) as (a0&Ha0&Ht0&_).
    rewrite Hd in Ha0. congruence. }
  apply (touches_shape_coherent t b a behind behind memory memory nothing w w3 Hco Ha)
    with (a' := a3); try done.
  - constructor; try done.
    + intros x Hx. rewrite Qc, Hprot, decide_False by done. done.
    + intros r' b' x Hne. split; intros (range&Hr&Hc); exists range; [|by auto].
      apply Hin in Hr as [?|[_ ->]]; [done|]. destruct Hc as [Hc _]. by rewrite <- Hc in Hne.
    + intros r' Hp. destruct (decide (r' = route_id (backing a))) as [->|Hne]; [|by rewrite Qrs].
      by destruct Qq as [[_ ->]|[_ ->]].
  - rewrite Q1, Q2.
    apply (shape_update w b a (tracked_from slot) entries'); [apply Hco|done|done| |auto].
    by apply tracked_static.
  - constructor.
    + split; [left; by rewrite Qv|]. rewrite Qh, Hb. eexists. split; [done|]. by rewrite length_replicate.
    + rewrite Hb. intros Hd. destruct Qq as [[E _]|[_ ->]]; [|done]. rewrite Ud in E. congruence.
    + done.
    + rewrite Hb. intros o Ho. destruct (Ub o Ho) as [_ Hcl].
      assert (queued nothing w3 b a3 (b + o) \/ fully_dirty nothing b a3) as Hnew.
      { destruct Qq as [[_ Eq]|[Ef _]]; [left|right; by left].
        apply queued_exists. right. rewrite Hb, Eq. simpl. apply Exists_app. right.
        apply Exists_cons_hd. split; simpl; [done|lia]. }
      constructor; rewrite ?Hval, ?Qc, ?Hprot; try done.
      intros Hnq Hnf. destruct Hnew as [?|?]; [done|]. exfalso. auto.
  - intros r' range Hr. apply Hin in Hr as [Hr|[-> ->]].
    + destruct (co_ranges _ _ _ _ _ Hco r' range Hr) as (a0&Ha0&Hok). exists a0.
      by rewrite Hoth by (by eapply Hfree).
    + exists a3. simpl. rewrite Hb. split_and!; try done; try lia. intros x Hx _. simpl. lia.
  - lia.
  - lia.
Qed.

Lemma expose_spec t behind memory w b a :
  coherent t behind memory nothing w -> find_alloc b w = Some a ->
  exists w', lupine_expose_host_device_pointer t b w = w' /\ coherent t behind memory nothing w' /\
    exposes w w' /\ exists a', find_alloc b w' = Some a' /\ tracking_enabled a' = true.
Proof.
  intros Hco Ha. pose proof (found_static _ _ _ (co_shape _ _ _ _ _ Hco) Ha) as Hso.
  destruct (so_owned _ _ Hso) as (Hown&Hlc&_&_). destruct (so_base _ _ Hso) as [Hbase _].
  pose proof (so_tracked _ _ Hso) as Htr. pose proof (so_size _ _ Hso) as Hz.
  pose proof (so_route _ _ Hso) as Hr. simpl in *.
  unfold lupine_expose_host_device_pointer. rewrite Ha, Hown, Hlc, Hbase.
  destruct (device_pointer_exposed a) eqn:Ex; simpl.
  { rewrite orb_true_r in Htr. rewrite Htr. exists w. split_and!; [done|done|apply exposes_refl|eauto]. }
  rewrite orb_false_r in Htr. destruct (managed (backing a)) eqn:Hm; simpl.
  { eexists. split; [done|]. split; [apply require_coherent; by eapply expose_managed|].
    assert (find_alloc b (update_alloc b set_exposed w) = Some (set_exposed a)) as Hf
      by by apply find_update_same.
    split.
    - constructor.
      + intros b' a1 Ha1. destruct (decide (b' = b)) as [->|Hne].
        * rewrite Ha in Ha1. injection Ha1 as <-. exists (set_exposed a). by split_and!.
        * exists a1. split; [|done]. by rewrite <- (find_update_other b set_exposed w b' Hne) in Ha1.
      + intros b' a' Ha'. destruct (decide (b' = b)) as [->|Hne]; [eauto|].
        change (find_alloc b' (update_alloc b set_exposed w) = Some a') in Ha'.
        rewrite find_update_other in Ha' by done. eauto.
    - exists (set_exposed a). by split. }
  destruct (enable_tracking_spec w b a) as (slot&entries'&->&Hpl); [apply Hco|done|done|].
  set (w2 := update_alloc b (tracked_from slot) _).
  assert (find_alloc b w2 = Some (tracked_from slot a)) as Hf2 by by apply find_update_same.
  rewrite Hf2. simpl.
  destruct (queue_range_spec t b (tracked_from slot a) w2 b (b + al_size (backing a)) Hf2)
    as (w3&a3&->&Hq); [simpl; lia|lia|].
  pose proof (tracking_coherent t behind memory w b a slot entries' w3 a3 Hco Ha Htr Hpl Hq) as Hco3.
  destruct Hq as [_ _ _ _ _ Qa Qo Qi _ _ _]. destruct (info_inj _ _ Qi) as [Hb3 Ht3].
  eexists. split; [done|]. split; [by apply require_coherent|]. split; [|by exists a3].
  assert (forall b', b' <> b -> find_alloc b' w3 = find_alloc b' w) as Hoth.
  { intros b' Hne. rewrite Qo by done. unfold w2. by rewrite find_update_other. }
  constructor.
  - intros b' a1 Ha1. change (find_alloc b' (lupine_require_dirty_host_flush t w3)) with (find_alloc b' w3).
    destruct (decide (b' = b)) as [->|Hne]; [|exists a1; by rewrite Hoth].
    rewrite Ha in Ha1. injection Ha1 as <-. by exists a3.
  - intros b' a' Ha'. change (find_alloc b' w3 = Some a') in Ha'.
    destruct (decide (b' = b)) as [->|Hne]; [eauto|]. rewrite Hoth in Ha' by done. eauto.
Qed.
End Expose.
