(* ===== verification/HostShared.v ===== *)
(** The mirror as shared memory: for a program that leaves alone what the device may
    be writing, the views of the client and the copies on the servers behave as one
    memory. *)
From S2P Require Import Prelude OrdMap HostMem HostMirror HostCoherence HostFlush HostExpose.

Section Shared.
Context `{MirrorEnvLaws}.

(** * Invalidation *)

Definition invalidated (conn : option Z) (context stream : Z) (a : lupine_host_allocation)
    : lupine_host_allocation :=
  set_stale 1 (stale_fetch_tid a)
    (set_fetch ((fun l => replicate (length l) false) <$> fresh_chunks a) 0 0
       (set_fetch_target conn context stream a)).

Lemma clean_unqueued w b a x :
  all_clean w -> find_alloc b w = Some a ->
  ~ queued nothing w b a x /\ ~ fully_dirty nothing b a.
Proof.
  intros Hc Ha. destruct (Hc (route_id (backing a))) as [Hq Hf]. split.
  - rewrite queued_exists, Hq. simpl. rewrite Exists_nil. tauto.
  - intros [Hd|?%elem_of_nil]; [|done]. by rewrite (Hf b a Ha eq_refl) in Hd.
Qed.

Lemma invalidated_valid conn context stream a o :
  valid (invalidated conn context stream a) o = false.
Proof.
  unfold valid, invalidated. simpl. destruct (fresh_chunks a) as [l|]; simpl; [|done].
  destruct (replicate _ _ !! _) as [v|] eqn:E; [|done]. by apply lookup_replicate in E as [-> _].
Qed.

(** Without unsent writes, an allocation may be taken away from the client. *)
Lemma invalidate_spec t behind behind' memory w b a context stream :
  coherent t behind memory nothing w -> all_clean w ->
  find_alloc b w = Some a -> tracking_enabled a = true ->
  (forall b', b' <> b -> b' ∈ behind' <-> b' ∈ behind) ->
  exists w', invalidate b a (Some (route_id (backing a))) context stream w = (true, w') /\
    coherent t behind' memory nothing w' /\ all_clean w' /\ statics w' = statics w.
Proof.
  intros Hco Hc Ha Htr Hbh. pose proof (found_static _ _ _ (co_shape _ _ _ _ _ Hco) Ha) as Hso.
  pose proof (so_size _ _ Hso) as Hz. pose proof (so_range _ _ Hso) as Hrg.
  destruct (so_pages _ _ Hso) as [Hpb Hps]. simpl in *.
  unfold invalidate. rewrite protect_spec by lia.
  rewrite page_down_multiple, page_up_multiple by (done || by apply Z.divide_add_r).
  set (a' := invalidated (Some (route_id (backing a))) context stream a).
  match goal with |- exists w', (true, ?v) = _ /\ _ => set (w' := v) end.
  assert (w' = update_alloc b (fun _ => a') (mprotect b (b + storage_size (backing a) - b) PROT_NONE w)) as Hw'.
  { unfold w'. set (w1 := mprotect b _ PROT_NONE (update_alloc b _ w)).
    change w1 with (update_alloc b (fun a0 => set_fetch
      ((fun l => replicate (length l) false) <$> fresh_chunks a0) 0 0
      (set_fetch_target (Some (route_id (backing a))) context stream a0))
      (mprotect b (b + storage_size (backing a) - b) PROT_NONE w)).
    rewrite update_update. apply update_at; [apply Hco|].
    intros a1 Ha1. change (find_alloc b w = Some a1) in Ha1. rewrite Ha in Ha1. by injection Ha1 as <-. }
  assert (find_alloc b w' = Some a') as Hf'.
  { rewrite Hw'. erewrite find_update_same; [done|]. exact Ha. }
  assert (forall b', b' <> b -> find_alloc b' w' = find_alloc b' w) as Hoth.
  { intros b' Hne. rewrite Hw'. by rewrite find_update_other. }
  assert (statics w' = statics w) as Hst.
  { rewrite Hw'. apply (statics_map b (fun _ => a') (mprotect b _ PROT_NONE w)); [|apply Hco].
    intros a1 Ha1. change (find_alloc b w = Some a1) in Ha1. rewrite Ha in Ha1. by injection Ha1 as <-. }
  assert (queues w' = queues w /\ full_dirty a' = full_dirty a) as [Hq Hfd] by done.
  assert (all_clean w') as Hc'.
  { intros r. apply (clean_statics r w); [done|by rewrite Hq| |apply Hc].
    intros b1 a1 Ha1. destruct (decide (b1 = b)) as [->|Hne].
    - exists a'. rewrite Ha in Ha1. injection Ha1 as <-. done.
    - exists a1. by rewrite Hoth. }
  exists w'. split; [done|]. split; [|done].
  apply (touches_coherent t b a behind behind' memory memory nothing w w' Hco Ha) with (a' := a');
    try done; [| | | |apply Hco].
  - constructor; try done. intros x Hx. rewrite Hw'. simpl.
    change (client w x = client w x /\ prot (mprotect b (b + storage_size (backing a) - b) PROT_NONE w) x = prot w x /\ memory x = memory x).
    rewrite prot_protect. by rewrite decide_False.
  - destruct (co_tracked _ _ _ _ _ Hco b a Ha Htr) as [[_ (l&Hl&Hn)] _ _ Hby].
    constructor.
    + split; [by right|]. exists (replicate (length l) false). simpl. rewrite Hl. simpl.
      by rewrite length_replicate.
    + intros Hd. rewrite Hfd in Hd. destruct (clean_unqueued w b a 0 Hc Ha) as [_ Hnf]. destruct Hnf. by left.
    + intros Hd. by destruct (clean_unqueued w' b a' 0 Hc' Hf').
    + intros o Ho. simpl in Ho. change (backing a') with (backing a) in *.
      assert (prot w' (b + o) = PROT_NONE) as Hp.
      { rewrite Hw'. change (prot (mprotect b (b + storage_size (backing a) - b) PROT_NONE w) (b + o) = PROT_NONE).
        rewrite prot_protect, decide_True by lia. done. }
      pose proof (invalidated_valid (Some (route_id (backing a))) context stream a o) as Hv. fold a' in Hv.
      constructor; rewrite ?Hv, ?Hp; try done.
      * intros _ _. by apply (clean_server t behind memory w b a o).
      * intros Hqd. by destruct (clean_unqueued w' b a' (b + o) Hc' Hf').
  - intros r range Hin. apply (range_ok_statics w); [done|]. rewrite Hq in Hin. by apply Hco.
  - intros [(r&range&Hin)|(b1&a1&Ha1&Hd1)].
    + destruct (Hc' r) as [Hqr _]. rewrite Hqr in Hin. by apply elem_of_nil in Hin.
    + destruct (Hc' (route_id (backing a1))) as [_ Hf1]. by rewrite (Hf1 b1 a1 Ha1 eq_refl) in Hd1.
Qed.

(** * Synchronization *)

Lemma connection_of r : 0 <= r < rpc_size -> remote_conn r = Some r.
Proof.
  intros Hr. unfold remote_conn. destruct (Z.leb_spec 0 r), (Z.ltb_spec r rpc_size); done || lia.
Qed.

Lemma route_connection w b a :
  shape (statics w) (fault_entries w) -> find_alloc b w = Some a ->
  remote_conn (route_id (backing a)) = Some (route_id (backing a)).
Proof.
  intros Hsh Ha. pose proof (so_route _ _ (found_static _ _ _ Hsh Ha)) as Hr. simpl in Hr.
  apply connection_of. lia.
Qed.

Lemma stale_not_fetching t behind memory fl w b a :
  coherent t behind memory fl w -> find_alloc b w = Some a -> tracking_enabled a = true ->
  (device_stale a =? 2) = false.
Proof.
  intros Hco Ha Ht. destruct (co_tracked _ _ _ _ _ Hco b a Ha Ht) as [[[->|[-> _]] _] _ _ _]; done.
Qed.

Lemma behind_ext t behind behind' memory fl w :
  coherent t behind memory fl w -> (forall b, b ∈ behind' <-> b ∈ behind) ->
  coherent t behind' memory fl w.
Proof.
  intros [C1 C2 C3 C4 C5 C6 C7 C8] Hb. constructor; try done.
  - intros b. rewrite Hb. auto.
  - intros b a Ha Ht. destruct (C7 b a Ha Ht) as [T1 T2 T3 T4]. constructor; rewrite ?Hb; try done.
    intros o Ho. destruct (T4 o Ho). constructor; rewrite ?Hb; auto.
Qed.

Lemma sync_mappings_spec fuel t memory hosts : forall behind w,
  coherent t behind memory nothing w -> all_clean w ->
  exists w', sync_mappings fuel t hosts w = Some (CUDA_SUCCESS, w') /\
    coherent t (behind ∖ list_to_set hosts) memory nothing w' /\ all_clean w' /\
    statics w' = statics w.
Proof.
  induction hosts as [|h hosts IH]; intros behind w Hco Hc; cbn [sync_mappings].
  { exists w. split_and!; try done. eapply behind_ext; [done|]. set_solver. }
  assert (forall w1, coherent t (behind ∖ {[h]}) memory nothing w1 -> all_clean w1 ->
    statics w1 = statics w ->
    exists w', sync_mappings fuel t hosts w1 = Some (CUDA_SUCCESS, w') /\
      coherent t (behind ∖ list_to_set (h :: hosts)) memory nothing w' /\ all_clean w' /\
      statics w' = statics w) as Hgo.
  { intros w1 Hco1 Hc1 Hs1. destruct (IH _ w1 Hco1 Hc1) as (w'&->&Hco'&Hc'&Hs').
    exists w'. split_and!; [done| |done|congruence]. eapply behind_ext; [exact Hco'|]. set_solver. }
  assert (forall a, find_alloc h w = Some a -> tracking_enabled a = false \/ h ∉ behind ->
    coherent t (behind ∖ {[h]}) memory nothing w) as Hskip.
  { intros a Ha Hor. eapply behind_ext; [exact Hco|]. intros b. split; [set_solver|].
    intros Hb. apply elem_of_difference. split; [done|]. intros ->%elem_of_singleton.
    destruct (co_behind _ _ _ _ _ Hco h Hb) as (a'&Ha'&Ht'). rewrite Ha in Ha'. injection Ha' as <-.
    destruct Hor; congruence || done. }
  destruct (find_alloc h w) as [a|] eqn:Ha.
  2:{ apply Hgo; [|done|done]. eapply behind_ext; [exact Hco|]. intros b. split; [set_solver|].
      intros Hb. apply elem_of_difference. split; [done|]. intros ->%elem_of_singleton.
      destruct (co_behind _ _ _ _ _ Hco h Hb) as (a'&Ha'&_). congruence. }
  pose proof (found_static _ _ _ (co_shape _ _ _ _ _ Hco) Ha) as Hso.
  destruct (so_data _ _ Hso) as [_ Hu]. pose proof (so_size _ _ Hso) as Hz.
  destruct (so_owned _ _ Hso) as (_&_&_&Hre). pose proof (so_tracked _ _ Hso) as Htr. simpl in *.
  rewrite Hu, Hre. destruct (Z.eqb_spec (al_size (backing a)) 0); [lia|]. simpl. rewrite orb_false_r.
  rewrite <- negb_orb, <- Htr. destruct (tracking_enabled a) eqn:Ht; simpl.
  2:{ apply Hgo; [|done|done]. apply (Hskip a); auto. }
  rewrite (route_connection w h a) by (done || apply Hco).
  rewrite bool_decide_eq_false_2 by done. simpl.
  rewrite (stale_not_fetching _ _ _ _ _ _ _ Hco Ha Ht).
  destruct (invalidate_spec t behind (behind ∖ {[h]}) memory w h a
    (lupine_demand_fetch_context (device_ptr (backing a))) CU_STREAM_PER_THREAD Hco Hc Ha Ht)
    as (w1&->&Hco1&Hc1&Hs1); [set_solver|]. by apply Hgo.
Qed.

Lemma collect_routes_spec t behind memory routes : forall w,
  coherent t behind memory nothing w -> all_clean w ->
  exists w', collect_routes t routes w = (CUDA_SUCCESS, w') /\
    coherent t behind memory nothing w' /\ all_clean w' /\ statics w' = statics w.
Proof.
  induction routes as [|r routes IH]; intros w Hco Hc; [by exists w|].
  cbn [collect_routes]. unfold lupine_collect_host_allocation_writes.
  rewrite (co_writes _ _ _ _ _ Hco). simpl.
  apply (IH (set_host_writes r [] w)); [|done].
  eapply coherent_same; [exact Hco|try done..]. intros r'. simpl.
  destruct (r' =? r); [done|apply Hco].
Qed.

(** A synchronization after a flush leaves nothing behind. *)
Lemma sync_mapped_spec fuel t behind memory w :
  coherent t behind memory nothing w -> all_clean w -> device_work_pending w = true ->
  exists w', lupine_sync_mapped_device_to_host fuel false t w = Some (CUDA_SUCCESS, w') /\
    coherent t ∅ memory nothing w' /\ all_clean w' /\ statics w' = statics w.
Proof.
  intros Hco Hc Hw. unfold lupine_sync_mapped_device_to_host. rewrite Hw. simpl.
  set (w0 := set_work_pending false w).
  assert (coherent t behind memory nothing w0) as Hco0.
  { eapply coherent_same; [exact Hco|try done..]. apply Hco. }
  destruct (sync_mappings_spec fuel t memory (lupine_mapped_host_snapshots w0) behind w0 Hco0 Hc)
    as (w1&->&Hco1&Hc1&Hs1). simpl.
  destruct (collect_routes_spec t _ memory (seqZ 0 rpc_size) w1 Hco1 Hc1) as (w2&->&Hco2&Hc2&Hs2).
  exists w2. split_and!; [done| |done|by rewrite Hs2, Hs1].
  eapply behind_ext; [exact Hco2|]. intros b. split; [set_solver|]. rewrite elem_of_difference.
  intros [Hb Hnot]. destruct Hnot. apply elem_of_list_to_set, list_elem_of_omap.
  destruct (co_behind _ _ _ _ _ Hco b Hb) as (a&Ha&_). exists (b, a).
  split; [apply om_find_elem; [apply allocations_sorted, Hco|done]|]. simpl.
  pose proof (found_static _ _ _ (co_shape _ _ _ _ _ Hco) Ha) as Hso.
  destruct (so_server _ _ Hso) as (_&Hdp&_). destruct (so_owned _ _ Hso) as (_&Hl&Hcs&_). simpl in *.
  rewrite Hl, Hcs. by destruct (Z.eqb_spec (device_ptr (backing a)) 0).
Qed.

Lemma round_trip_coherent t behind memory fl w :
  coherent t behind memory fl w -> coherent t behind memory fl (round_trip w).2.
Proof.
  intros Hco. eapply coherent_same; [exact Hco|try done..]. apply Hco.
Qed.

Lemma synchronize_spec fuel t behind memory route w :
  coherent t behind memory nothing w -> 0 <= route < rpc_size ->
  exists w', cuCtxSynchronize (S fuel) false t route w = Some (CUDA_SUCCESS, w') /\
    coherent t ∅ memory nothing w' /\ all_clean w' /\ statics w' = statics w.
Proof.
  intros Hco Hr. unfold cuCtxSynchronize. rewrite connection_of by done.
  destruct (prepare_rpc_spec fuel t behind memory route w Hco) as (w1&->&Hco1&Hc1&Hs1&Hw1).
  cbn -[lupine_sync_mapped_device_to_host]. rewrite net_succeeds.
  rewrite bool_decide_eq_true_2 by done. cbn -[lupine_sync_mapped_device_to_host].
  destruct (sync_mapped_spec (S fuel) t behind memory (round_trip w1).2) as (w2&Hw2&Hco2&Hc2&Hs2);
    [by apply round_trip_coherent|done|done|].
  exists w2. by split_and!; [|..|rewrite Hs2].
Qed.

(** * Launches *)

Lemma shape_registry w :
  shape (statics w) (fault_entries w) -> registry_ok (allocations (registry w)).
Proof.
  intros Hsh. pose proof (allocations_sorted _ (sh_sorted _ _ Hsh)) as Hs.
  assert (forall b a, (b, a) ∈ allocations (registry w) -> find_alloc b w = Some a) as Hf
    by (intros b a Hin; by apply om_find_elem).
  assert (forall b a, (b, a) ∈ allocations (registry w) -> extent a = storage_size (backing a)) as He.
  { intros b a Hin. pose proof (so_size _ _ (found_static _ _ _ Hsh (Hf b a Hin))) as Hz.
    unfold extent. simpl in Hz. lia. }
  constructor; [done| |].
  - intros b a Hin. pose proof (found_static _ _ _ Hsh (Hf b a Hin)) as Hso.
    pose proof (so_size _ _ Hso). pose proof (so_range _ _ Hso). simpl in *. rewrite (He b a Hin). lia.
  - intros b1 a1 b2 a2 H1 H2 Hlt. rewrite (He b1 a1 H1).
    destruct (found_apart _ _ _ _ _ Hsh (Hf _ _ H1) (Hf _ _ H2)) as [Hap _]; [lia|].
    pose proof (so_size _ _ (found_static _ _ _ Hsh (Hf _ _ H2))). simpl in *. lia.
Qed.

(** A parameter that points into an allocation finds it. *)
Lemma find_mapped_spec w b a x :
  shape (statics w) (fault_entries w) -> find_alloc b w = Some a ->
  b <= x < b + al_size (backing a) ->
  lupine_find_mapped_host_pointer_locked x (registry w) = Some (b, a, x - b).
Proof.
  intros Hsh Ha Hx. unfold lupine_find_mapped_host_pointer_locked.
  rewrite (before_contains x _ b a); [|by apply shape_registry| |].
  - by destruct (Z.ltb_spec (x - b) (al_size (backing a))); [|lia].
  - apply om_find_elem; [|done]. apply allocations_sorted, Hsh.
  - unfold contains. simpl. apply andb_true_iff. rewrite Z.leb_le, Z.ltb_lt. lia.
Qed.

Lemma find_mapped_found w x b a o :
  om_sorted (statics w) ->
  lupine_find_mapped_host_pointer_locked x (registry w) = Some (b, a, o) -> find_alloc b w = Some a.
Proof.
  intros Hs. apply allocations_sorted in Hs. unfold lupine_find_mapped_host_pointer_locked.
  assert (('(base, host) ← last (om_upper_bound x (bases (registry w))).1;
    a0 ← om_find host (allocations (registry w));
    (if x - base <? al_size (backing a0) then Some (host, a0, x - base) else None)) = Some (b, a, o) ->
    find_alloc b w = Some a) as Hbase.
  { destruct (last _) as [[base host]|]; simpl; [|done].
    destruct (om_find host (allocations (registry w))) as [a0|] eqn:E; simpl; [|done].
    case_if; [|done]. by intros [= <- <- _]. }
  destruct (before _) as [[h a0]|] eqn:Eb; [|done]. case_if; [|done]. intros [= <- <- _].
  apply om_before_in in Eb as [Hin _]; [|done]. by apply om_find_elem.
Qed.

Lemma prepare_pointers_spec t behind memory values : forall w,
  coherent t behind memory nothing w ->
  exists managed w', prepare_pointers t values w = (managed, false, w') /\
    coherent t behind memory nothing w' /\ exposes w w' /\
    forall b a x, find_alloc b w = Some a -> x ∈ values -> b <= x < b + al_size (backing a) ->
      exists a', find_alloc b w' = Some a' /\ tracking_enabled a' = true.
Proof.
  induction values as [|v values IH]; intros w Hco; cbn [prepare_pointers].
  { exists [], w. split_and!; [done|done|apply exposes_refl|]. by intros b a x _ ?%elem_of_nil. }
  unfold lupine_prepare_mapped_host_pointer.
  destruct (lupine_find_mapped_host_pointer_locked v (registry w)) as [[[h a] o]|] eqn:Ef.
  - pose proof (find_mapped_found _ _ _ _ _ (sh_sorted _ _ (co_shape _ _ _ _ _ Hco)) Ef) as Ha.
    destruct (expose_spec t behind memory w h a Hco Ha) as (w1&->&Hco1&Hex1&(a1&Ha1&Ht1)).
    destruct (IH w1 Hco1) as (managed'&w'&->&Hco'&Hex&Htr).
    destruct (so_portable _ _ (found_static _ _ _ (co_shape _ _ _ _ _ Hco) Ha)) as [Hp|Hp];
      simpl in Hp; rewrite Hp; simpl; rewrite ?andb_false_r.
    all: eexists _, w'; split_and!; [done|done|by eapply exposes_trans|].
    all: intros b a0 x Ha0 Hin Hx; apply elem_of_cons in Hin as [->|Hin];
      [rewrite (find_mapped_spec w b a0 v) in Ef by (done || apply Hco); injection Ef as -> -> _;
       destruct (ex_found _ _ Hex h a1 Ha1) as (a2&?&_&Hm); eauto
      |destruct (ex_found _ _ Hex1 b a0 Ha0) as (a2&Ha2&Hb2&_); apply (Htr b a2 x); [done|done|by rewrite Hb2]].
  - destruct (IH w Hco) as (managed'&w'&->&Hco'&Hex&Htr). exists managed', w'.
    split_and!; [done..|]. intros b a0 x Ha0 Hin Hx. apply elem_of_cons in Hin as [->|Hin]; [|eauto].
    rewrite (find_mapped_spec w b a0 v) in Ef by (done || apply Hco). done.
Qed.

Lemma portable_allocations_none fuel t route expose hosts w :
  shape (statics w) (fault_entries w) ->
  (forall h, h ∈ hosts -> is_Some (find_alloc h w)) ->
  portable_allocations fuel t route expose hosts w = Some (CUDA_SUCCESS, w).
Proof.
  intros Hsh. induction hosts as [|h hosts IH]; intros Hin; [done|]. cbn [portable_allocations].
  destruct (Hin h ltac:(left)) as [a Ha]. rewrite Ha. simpl.
  rewrite IH by (intros h' Hh; apply Hin; by right).
  destruct (so_portable _ _ (found_static _ _ _ Hsh Ha)) as [Hp|Hp]; simpl in Hp; rewrite Hp; simpl;
    by rewrite ?orb_true_r.
Qed.

Lemma prepare_kernel_params_spec fuel t behind memory route values complete w :
  coherent t behind memory nothing w ->
  exists managed complete' w',
    lupine_prepare_kernel_params fuel t route values complete w =
      Some (CUDA_SUCCESS, managed, complete', w') /\
    coherent t behind memory nothing w' /\ exposes w w' /\
    forall b a x, find_alloc b w = Some a -> x ∈ values -> b <= x < b + al_size (backing a) ->
      exists a', find_alloc b w' = Some a' /\ tracking_enabled a' = true.
Proof.
  intros Hco. unfold lupine_prepare_kernel_params.
  destruct (prepare_pointers_spec t behind memory values w Hco) as (managed&w'&->&Hco'&Hex&Htr).
  unfold lupine_prepare_portable_host_allocations. simpl. case_bool_decide; simpl.
  { eexists _, _, w'. by split_and!. }
  rewrite portable_allocations_none; [|apply Hco'|].
  - simpl. eexists _, _, w'. by split_and!.
  - intros h Hin. apply list_elem_of_fmap in Hin as ([h' a]&->&Hin). exists a. simpl.
    apply om_find_elem; [|done]. apply allocations_sorted, Hco'.
Qed.

(** Managed parameters are taken away from the client after the launch. *)
Lemma invalidate_launched_spec t behind memory pointers stream : forall w,
  coherent t behind memory nothing w -> all_clean w ->
  exists w', fold_left (fun w pointer => lupine_invalidate_launched_managed false pointer stream w)
      pointers w = w' /\
    coherent t behind memory nothing w' /\ all_clean w' /\ statics w' = statics w.
Proof.
  induction pointers as [|p pointers IH]; intros w Hco Hc; cbn [fold_left]; [eauto|].
  assert (exists w1, lupine_invalidate_launched_managed false p stream w = w1 /\
    coherent t behind memory nothing w1 /\ all_clean w1 /\ statics w1 = statics w)
    as (w1&->&Hco1&Hc1&Hs1).
  { unfold lupine_invalidate_launched_managed.
    rewrite host_lookup_is_scan by apply shape_registry, Hco.
    destruct (List.find _ _) as [[b a]|] eqn:Ef; [|eauto].
    apply find_some in Ef as [Hin _]. apply list_elem_of_In in Hin.
    apply om_find_elem in Hin as Ha; [|apply allocations_sorted, Hco].
    destruct (tracking_enabled a) eqn:Ht; simpl; [|eauto].
    rewrite (route_connection w b a) by (done || apply Hco).
    rewrite bool_decide_eq_false_2 by done. simpl.
    rewrite (stale_not_fetching _ _ _ _ _ _ _ Hco Ha Ht).
    match goal with |- context [invalidate b a _ ?c ?s w] =>
      destruct (invalidate_spec t behind behind memory w b a c s Hco Hc Ha Ht) as (w1&Hw1&?&?&?) end;
      [done|].
    exists w1. by rewrite Hw1. }
  destruct (IH w1 Hco1 Hc1) as (w'&?&?&?&Hs'). exists w'. split_and!; [done..|congruence].
Qed.

Lemma exposes_statics w w' : statics w' = statics w -> exposes w w'.
Proof.
  intros Hs. constructor.
  - intros b a Ha. destruct (statics_found w w' b a Hs Ha) as (a'&Ha'&Hi).
    destruct (info_inj _ _ Hi) as [Hb Ht]. exists a'. by rewrite Ht.
  - intros b a' Ha'. destruct (statics_found w' w b a' (eq_sym Hs) Ha') as (a&Ha&_). eauto.
Qed.

Lemma launch_spec fuel t behind memory route stream values complete w :
  coherent t behind memory nothing w -> 0 <= route < rpc_size ->
  exists complete' w',
    cuLaunchKernel (S fuel) false t route stream values complete w =
      Some (CUDA_SUCCESS, complete', w') /\
    coherent t behind memory nothing w' /\ all_clean w' /\ exposes w w' /\
    forall b a x, find_alloc b w = Some a -> x ∈ values -> b <= x < b + al_size (backing a) ->
      exists a', find_alloc b w' = Some a' /\ tracking_enabled a' = true.
Proof.
  intros Hco Hr. unfold cuLaunchKernel.
  destruct (prepare_kernel_params_spec (S fuel) t behind memory route values complete w Hco)
    as (managed&complete'&w1&->&Hco1&Hex1&Htr).
  cbn -[lupine_prepare_rpc lupine_invalidate_launched_managed]. rewrite connection_of by done.
  destruct (prepare_rpc_spec fuel t behind memory route w1 Hco1) as (w2&->&Hco2&Hc2&Hs2&_).
  cbn -[lupine_invalidate_launched_managed]. rewrite net_succeeds, bool_decide_eq_true_2 by done.
  cbn -[lupine_invalidate_launched_managed].
  destruct (invalidate_launched_spec t behind memory managed stream (round_trip w2).2)
    as (w3&Hw3&Hco3&Hc3&Hs3); [by apply round_trip_coherent|done|].
  change (statics (round_trip w2).2) with (statics w2) in Hs3.
  exists complete', w3. split; [by rewrite <- Hw3|]. split_and!; [done|done| |].
  - eapply exposes_trans; [exact Hex1|]. apply exposes_statics. congruence.
  - intros b a x Ha Hin Hx. destruct (Htr b a x Ha Hin Hx) as (a1&Ha1&Ht1).
    destruct (statics_found w1 w3 b a1) as (a3&Ha3&Hi); [congruence|done|].
    exists a3. split; [done|]. destruct (info_inj _ _ Hi). congruence.
Qed.

(** After a flush, any tracked allocation may be left to the device. *)
Lemma behind_grow t behind new memory w :
  coherent t behind memory nothing w -> all_clean w ->
  (forall b, b ∈ new -> exists a, find_alloc b w = Some a /\ tracking_enabled a = true) ->
  coherent t (behind ∪ new) memory nothing w.
Proof.
  intros [C1 C2 C3 C4 C5 C6 C7 C8] Hc Hnew. constructor; try done.
  - intros b [?|?]%elem_of_union; auto.
  - intros b a Ha Ht. destruct (C7 b a Ha Ht) as [T1 T2 T3 T4].
    pose proof (fun x => proj1 (clean_unqueued w b a x Hc Ha)) as Hnq.
    pose proof (proj2 (clean_unqueued w b a 0 Hc Ha)) as Hnf.
    constructor; [done|done|done|]. intros o Ho. destruct (T4 o Ho) as [B1 B2 B3 B4 B5].
    constructor; try done.
    + intros Hb Hv. apply B1; [set_solver|done].
    + intros Hq. by destruct (Hnq (b + o)).
    + intros Hw. destruct (B5 Hw) as [[?|?] _]; [by destruct (Hnq (b + o))|done].
Qed.

(** * The device *)

(** A byte of an allocation on its server. *)
Definition device_load (w : mirror) (b o : Z) : byte :=
  match find_alloc b w with
  | Some a => server w (route_id (backing a)) (server_host_ptr (backing a) + o)
  | None => 0
  end.

Definition device_store (w : mirror) (s : Z * Z * byte) : mirror :=
  let '(b, o, v) := s in
  match find_alloc b w with
  | Some a => set_server (route_id (backing a))
                (store (server w (route_id (backing a))) (server_host_ptr (backing a) + o) v) w
  | None => w
  end.

Lemma device_store_spec t behind memory w b a o v :
  coherent t behind memory nothing w -> b ∈ behind -> find_alloc b w = Some a ->
  0 <= o < al_size (backing a) ->
  coherent t behind (store memory (b + o) v) nothing (device_store w (b, o, v)).
Proof.
  intros Hco Hb Ha Ho. pose proof (co_shape _ _ _ _ _ Hco) as Hsh.
  destruct (co_behind _ _ _ _ _ Hco b Hb) as (a0&Ha0&Ht0). rewrite Ha in Ha0. injection Ha0 as <-.
  simpl. rewrite Ha. set (w' := set_server _ _ w).
  assert (forall b' a' o', find_alloc b' w = Some a' -> 0 <= o' < al_size (backing a') ->
    b' <> b -> store memory (b + o) v (b' + o') = memory (b' + o') /\
    server w' (route_id (backing a')) (server_host_ptr (backing a') + o') =
    server w (route_id (backing a')) (server_host_ptr (backing a') + o')) as Hother.
  { intros b' a' o' Ha' Ho' Hne. destruct (found_apart _ _ _ _ _ Hsh Ha Ha') as [Hc Hs]; [done|].
    pose proof (so_size _ _ (found_static _ _ _ Hsh Ha)).
    pose proof (so_size _ _ (found_static _ _ _ Hsh Ha')). simpl in *. unfold store. split.
    - destruct (Z.eqb_spec (b' + o') (b + o)); [lia|done].
    - destruct (Z.eqb_spec (route_id (backing a')) (route_id (backing a))) as [E|]; [|done].
      rewrite E. destruct (Z.eqb_spec (server_host_ptr (backing a') + o') (server_host_ptr (backing a) + o));
        [|done]. specialize (Hs ltac:(congruence)). lia. }
  destruct Hco as [C1 C2 C3 C4 C5 C6 C7 C8]. constructor; try done.
  - intros b' a' Ha' Ht'. destruct (C7 b' a' Ha' Ht') as [T1 T2 T3 T4]. constructor; try done.
    intros o' Ho'. destruct (T4 o' Ho') as [B1 B2 B3 B4 B5].
    destruct (decide (b' = b)) as [->|Hne].
    + change (find_alloc b w = Some a') in Ha'. rewrite Ha in Ha'. injection Ha' as <-.
      constructor; try done. intros Hnq Hnf. simpl. rewrite Z.eqb_refl. unfold store.
      destruct (Z.eqb_spec (server_host_ptr (backing a) + o') (server_host_ptr (backing a) + o)),
        (Z.eqb_spec (b + o') (b + o)); try done; [lia|lia|auto].
    + destruct (Hother b' a' o' Ha' Ho' Hne) as [Em Es]. constructor; rewrite ?Em, ?Es; auto.
  - intros b' a' Ha' Ht'. destruct (C8 b' a' Ha' Ht') as (U1&U2&U3). split_and!; [done..|].
    intros o' Ho'. destruct (U3 o' Ho') as [U4 U5]. split; [done|].
    destruct (Hother b' a' o' Ha' Ho') as [-> _]; [|done]. intros ->.
    change (find_alloc b w = Some a') in Ha'. congruence.
Qed.

(** What is left to the device is on its server. *)
Lemma device_load_spec t behind memory w b a o :
  coherent t behind memory nothing w -> b ∈ behind -> find_alloc b w = Some a ->
  0 <= o < al_size (backing a) -> device_load w b o = memory (b + o).
Proof.
  intros Hco Hb Ha Ho. destruct (co_behind _ _ _ _ _ Hco b Hb) as (a0&Ha0&Ht). rewrite Ha in Ha0.
  injection Ha0 as <-. unfold device_load. rewrite Ha.
  destruct (co_tracked _ _ _ _ _ Hco b a Ha Ht) as [_ _ Hf Hby].
  destruct (Hby o Ho) as [_ B2 B3 _ _]. apply B2.
  - intros Hq. by destruct (B3 Hq).
  - intros Hd. by destruct (Hf Hd).
Qed.
End Shared.

(** * The mirror as one memory *)

(** A kernel: the values of its pointer-sized parameters, the allocations that it
    works on, and the stores that it makes given what it loads. *)
Record kernel := Kernel {
  k_route : Z;
  k_stream : Z;
  k_values : list Z;
  k_allocs : list Z;
  k_run : (Z -> Z -> byte) -> list (Z * Z * byte);
}.

(** What the application and the device do, one step at a time.  Addresses are an
    allocation and an offset. *)
Inductive op :=
  | Read (b o : Z)
  | Write (b o : Z) (v : byte)
  | Launch (k : kernel)
  | Device
  | Synchronize (route : Z).

(** ** The specification: one memory *)

(** [sm_behind] is what the device may be working on; [sm_tracked] what is known to
    have been exposed to it. *)
Record shared := Shared {
  sm_memory : Z -> byte;
  sm_behind : gset Z;
  sm_tracked : gset Z;
  sm_work : list kernel;
}.

Definition in_layout (layout : gmap Z Z) (b o : Z) : bool :=
  match layout !! b with Some n => (0 <=? o) && (o <? n) | None => false end.

(** A kernel reaches exposed allocations, and those that its parameters point to. *)
Definition reaches (layout : gmap Z Z) (tracked : gset Z) (k : kernel) (b : Z) : bool :=
  bool_decide (b ∈ tracked) || existsb (fun x => in_layout layout b (x - b)) (k_values k).

Definition shared_op (layout : gmap Z Z) (connections : Z) (p : op) (s : shared)
    : option (list byte * shared) :=
  match p with
  | Read b o =>
      if in_layout layout b o && negb (bool_decide (b ∈ sm_behind s))
      then Some ([sm_memory s (b + o)], s) else None
  | Write b o v =>
      if in_layout layout b o && negb (bool_decide (b ∈ sm_behind s))
      then Some ([], Shared (store (sm_memory s) (b + o) v) (sm_behind s) (sm_tracked s) (sm_work s))
      else None
  | Launch k =>
      if (0 <=? k_route k) && (k_route k <? connections)
         && forallb (reaches layout (sm_tracked s) k) (k_allocs k)
      then Some ([], Shared (sm_memory s) (sm_behind s ∪ list_to_set (k_allocs k))
                       (sm_tracked s ∪ list_to_set (k_allocs k)) (sm_work s ++ [k]))
      else None
  | Device =>
      match sm_work s with
      | [] => None
      | k :: work =>
          let m := sm_memory s in
          Some ([], Shared (fold_left (fun m '(b, o, v) => store m (b + o) v)
                              (k_run k (fun b o => m (b + o))) m)
                      (sm_behind s) (sm_tracked s) work)
      end
  | Synchronize route =>
      match sm_work s with
      | [] => if (0 <=? route) && (route <? connections)
              then Some ([], Shared (sm_memory s) ∅ (sm_tracked s) []) else None
      | _ => None
      end
  end.

Fixpoint shared_run (layout : gmap Z Z) (connections : Z) (l : list op) (s : shared)
    : option (list byte * shared) :=
  match l with
  | [] => Some ([], s)
  | p :: l =>
      '(seen, s) ← shared_op layout connections p s;
      '(seen', s) ← shared_run layout connections l s;
      Some (seen ++ seen', s)
  end.

(** ** The implementation: client, connections and servers *)

Record system := System {
  sy_mirror : mirror;
  sy_complete : Z -> option Z;
  sy_work : list kernel;
}.

Section System.
Context `{MirrorEnv}.

Definition system_op (t : Z) (p : op) (s : system) : option (list byte * system) :=
  match p with
  | Read b o =>
      '(v, w) ← host_read 2 t (b + o) (sy_mirror s);
      v ← v;
      Some ([v], System w (sy_complete s) (sy_work s))
  | Write b o v =>
      '(ok, w) ← host_write 2 t (b + o) v (sy_mirror s);
      if (ok : bool) then Some ([], System w (sy_complete s) (sy_work s)) else None
  | Launch k =>
      '(result, complete, w) ←
        cuLaunchKernel 1 false t (k_route k) (k_stream k) (k_values k) (sy_complete s) (sy_mirror s);
      if result =? CUDA_SUCCESS then Some ([], System w complete (sy_work s ++ [k])) else None
  | Device =>
      match sy_work s with
      | [] => None
      | k :: work =>
          let w := sy_mirror s in
          Some ([], System (fold_left device_store (k_run k (device_load w)) w) (sy_complete s) work)
      end
  | Synchronize route =>
      match sy_work s with
      | [] =>
          '(result, w) ← cuCtxSynchronize 1 false t route (sy_mirror s);
          if result =? CUDA_SUCCESS then Some ([], System w (sy_complete s) []) else None
      | _ => None
      end
  end.

Fixpoint system_run (t : Z) (l : list op) (s : system) : option (list byte * system) :=
  match l with
  | [] => Some ([], s)
  | p :: l =>
      '(seen, s) ← system_op t p s;
      '(seen', s) ← system_run t l s;
      Some (seen ++ seen', s)
  end.
End System.

(** ** Refinement *)

(** A kernel stays inside its allocations and is a function of what they hold. *)
Definition kernel_ok (layout : gmap Z Z) (k : kernel) : Prop :=
  (forall m b o v, (b, o, v) ∈ k_run k m -> b ∈ k_allocs k /\ in_layout layout b o = true) /\
  (forall m m', (forall b o, b ∈ k_allocs k -> in_layout layout b o = true -> m b o = m' b o) ->
    k_run k m = k_run k m').

Definition op_ok (layout : gmap Z Z) (p : op) : Prop :=
  match p with Launch k => kernel_ok layout k | _ => True end.

Section Refinement.
Context `{MirrorEnvLaws}.

Record related (t : Z) (layout : gmap Z Z) (s : shared) (y : system) : Prop := Related {
  rl_coherent : coherent t (sm_behind s) (sm_memory s) nothing (sy_mirror y);
  rl_layout : forall b, layout !! b = (fun a => al_size (backing a)) <$> find_alloc b (sy_mirror y);
  rl_tracked : forall b, b ∈ sm_tracked s ->
    exists a, find_alloc b (sy_mirror y) = Some a /\ tracking_enabled a = true;
  rl_work : sy_work y = sm_work s;
  rl_kernels : Forall (fun k => kernel_ok layout k /\ forall b, b ∈ k_allocs k -> b ∈ sm_behind s)
                 (sm_work s);
}.

Lemma layout_exposes (layout : gmap Z Z) w w' :
  exposes w w' ->
  (forall b, layout !! b = (fun a => al_size (backing a)) <$> find_alloc b w) ->
  forall b, layout !! b = (fun a => al_size (backing a)) <$> find_alloc b w'.
Proof.
  intros [Hf Hb] Hl b. rewrite Hl. destruct (find_alloc b w) as [a|] eqn:Ha.
  - destruct (Hf b a Ha) as (a'&->&E&_). simpl. by rewrite E.
  - destruct (find_alloc b w') as [a'|] eqn:Ha'; [|done]. destruct (Hb b a' Ha') as [a Ha2]. congruence.
Qed.

Lemma tracked_exposes w w' b :
  exposes w w' -> (exists a, find_alloc b w = Some a /\ tracking_enabled a = true) ->
  exists a, find_alloc b w' = Some a /\ tracking_enabled a = true.
Proof. intros [Hf _] (a&Ha&Ht). destruct (Hf b a Ha) as (a'&?&_&?). eauto. Qed.

Lemma in_layout_found (layout : gmap Z Z) w b o :
  (forall b, layout !! b = (fun a => al_size (backing a)) <$> find_alloc b w) ->
  in_layout layout b o = true ->
  exists a, find_alloc b w = Some a /\ 0 <= o < al_size (backing a).
Proof.
  intros Hl. unfold in_layout. rewrite Hl. destruct (find_alloc b w) as [a|]; simpl; [|done].
  intros Hb. breflect. exists a. split; [done|lia].
Qed.

(** The steps of the application that only touch memory. *)
Lemma access_related t layout s y b o write :
  related t layout s y -> in_layout layout b o = true -> b ∉ sm_behind s ->
  exists w', host_access 2 t write (b + o) (sy_mirror y) = Some (Handled, w') /\
    related t layout s (System w' (sy_complete y) (sy_work y)) /\
    permits write (prot w' (b + o)) = true /\ client w' (b + o) = sm_memory s (b + o).
Proof.
  intros [R1 R2 R3 R4 R5] Hin Hb. destruct (in_layout_found _ _ _ _ R2 Hin) as (a&Ha&Ho).
  destruct (host_access_spec t _ _ nothing (sy_mirror y) b a write (b + o) R1 Ha Hb)
    as (w'&Hw'&Hco&Hp&Hs); [lia|].
  pose proof (exposes_statics _ _ Hs) as Hex. exists w'. split_and!; [done| |done|].
  - constructor; simpl; [done|by eapply layout_exposes| |done|done].
    intros b' Hb'. by eapply tracked_exposes; [|apply R3].
  - destruct (ex_found _ _ Hex b a Ha) as (a'&Ha'&E&_).
    eapply (readable_current _ _ _ _ _ b a'); [done..|rewrite E; lia|]. by eapply permits_not_none.
Qed.

Lemma store_related t layout s w c work addr v :
  related t layout s (System w c work) -> prot w addr = PROT_WRITE ->
  related t layout (Shared (store (sm_memory s) addr v) (sm_behind s) (sm_tracked s) (sm_work s))
    (System (set_client (store (client w) addr v) w) c work).
Proof. intros [R1 R2 R3 R4 R5] Hp. constructor; try done. by apply store_coherent. Qed.

(** The stores of a kernel reach the servers and the memory alike. *)
Lemma stores_coherent t (layout : gmap Z Z) behind stores : forall memory w,
  coherent t behind memory nothing w ->
  (forall b, layout !! b = (fun a => al_size (backing a)) <$> find_alloc b w) ->
  (forall b o v, (b, o, v) ∈ stores -> b ∈ behind /\ in_layout layout b o = true) ->
  coherent t behind (fold_left (fun m '(b, o, v) => store m (b + o) v) stores memory) nothing
    (fold_left device_store stores w) /\
  registry (fold_left device_store stores w) = registry w.
Proof.
  induction stores as [|[[b o] v] stores IH]; intros memory w Hco Hl Hok; [done|].
  cbn [fold_left]. destruct (Hok b o v ltac:(left)) as [Hb Hin].
  destruct (in_layout_found _ _ _ _ Hl Hin) as (a&Ha&Ho).
  assert (registry (device_store w (b, o, v)) = registry w) as Hreg by (simpl; by rewrite Ha).
  destruct (IH (store memory (b + o) v) (device_store w (b, o, v))) as [Hco' Hreg'].
  - by apply (device_store_spec t behind memory w b a).
  - intros b'. by rewrite (find_registry _ _ _ Hreg).
  - intros b' o' v' Hin'. apply (Hok b' o' v'). by right.
  - split; [done|congruence].
Qed.

Lemma read_related t layout s y b o seen s' :
  related t layout s y -> shared_op layout rpc_size (Read b o) s = Some (seen, s') ->
  exists y', system_op t (Read b o) y = Some (seen, y') /\ related t layout s' y'.
Proof.
  intros Hr. simpl. case_if; [|done]. breflect. intros [= <- <-].
  destruct (access_related t layout s y b o false Hr) as (w'&Hw'&Hr'&_&Hc); [done..|].
  unfold host_read. rewrite Hw'. simpl. rewrite Hc. eauto.
Qed.

Lemma write_related t layout s y b o v seen s' :
  related t layout s y -> shared_op layout rpc_size (Write b o v) s = Some (seen, s') ->
  exists y', system_op t (Write b o v) y = Some (seen, y') /\ related t layout s' y'.
Proof.
  intros Hr. simpl. case_if; [|done]. breflect. intros [= <- <-].
  destruct (access_related t layout s y b o true Hr) as (w'&Hw'&Hr'&Hp&_); [done..|].
  unfold host_write. rewrite Hw'. simpl. eexists. split; [done|].
  apply (store_related t layout s w' (sy_complete y) (sy_work y) (b + o) v Hr').
  by destruct (prot w' (b + o)).
Qed.

Lemma launch_related t layout s y k seen s' :
  related t layout s y -> kernel_ok layout k ->
  shared_op layout rpc_size (Launch k) s = Some (seen, s') ->
  exists y', system_op t (Launch k) y = Some (seen, y') /\ related t layout s' y'.
Proof.
  intros [R1 R2 R3 R4 R5] Hk. simpl. case_if; [|done]. breflect. intros [= <- <-].
  destruct (launch_spec 0 t _ _ (k_route k) (k_stream k) (k_values k) (sy_complete y) _ R1)
    as (complete&w'&->&Hco&Hc&Hex&Htr); [lia|]. simpl. eexists. split; [done|].
  assert (forall b, b ∈ k_allocs k ->
    exists a, find_alloc b w' = Some a /\ tracking_enabled a = true) as Hnew.
  { intros b Hb. rewrite forallb_forall in *. match goal with Hf : forall x, In x _ -> _ |- _ =>
      specialize (Hf b (proj1 (list_elem_of_In _ _) Hb)); rename Hf into Hreach end.
    unfold reaches in Hreach. apply orb_true_iff in Hreach as [Hin|Hin]; breflect.
    - by eapply tracked_exposes; [|apply R3].
    - apply existsb_exists in Hin as (x&Hx&Hin). apply list_elem_of_In in Hx.
      destruct (in_layout_found _ _ _ _ R2 Hin) as (a&Ha&Ho). apply (Htr b a x Ha Hx). lia. }
  constructor; simpl.
  - apply behind_grow; [done|done|]. intros b Hb%elem_of_list_to_set. auto.
  - by eapply layout_exposes.
  - intros b [Hb|Hb%elem_of_list_to_set]%elem_of_union; [|auto].
    by eapply tracked_exposes; [|apply R3].
  - by rewrite R4.
  - apply Forall_app. split.
    + eapply Forall_impl; [exact R5|]. intros k' [? Hsub]. split; [done|]. set_solver.
    + constructor; [|done]. split; [done|]. set_solver.
Qed.

Lemma device_related t layout s y seen s' :
  related t layout s y -> shared_op layout rpc_size Device s = Some (seen, s') ->
  exists y', system_op t Device y = Some (seen, y') /\ related t layout s' y'.
Proof.
  intros [R1 R2 R3 R4 R5]. simpl. rewrite R4. destruct (sm_work s) as [|k work]; [done|].
  apply Forall_cons in R5 as [[[Hk1 Hk2] Hsub] R5]. intros [= <- <-]. eexists. split; [done|].
  rewrite (Hk2 (device_load (sy_mirror y)) (fun b o => sm_memory s (b + o))).
  2:{ intros b o Hb Hin. destruct (in_layout_found _ _ _ _ R2 Hin) as (a&Ha&Ho).
      eapply device_load_spec; [exact R1|auto|done|done]. }
  destruct (stores_coherent t layout (sm_behind s) (k_run k (fun b o => sm_memory s (b + o)))
    (sm_memory s) (sy_mirror y) R1 R2) as [Hco Hreg].
  { intros b o v Hin. destruct (Hk1 _ _ _ _ Hin). auto. }
  constructor; simpl; [done| | |done|done].
  - intros b. by rewrite (find_registry _ _ _ Hreg).
  - intros b Hb. rewrite (find_registry _ _ _ Hreg). auto.
Qed.

Lemma synchronize_related t layout s y route seen s' :
  related t layout s y -> shared_op layout rpc_size (Synchronize route) s = Some (seen, s') ->
  exists y', system_op t (Synchronize route) y = Some (seen, y') /\ related t layout s' y'.
Proof.
  intros [R1 R2 R3 R4 R5]. simpl. rewrite R4. destruct (sm_work s) as [|k work]; [|done].
  case_if; [|done]. breflect. intros [= <- <-].
  destruct (synchronize_spec 0 t _ _ route _ R1) as (w'&->&Hco&_&Hs); [lia|].
  simpl. eexists. split; [done|]. pose proof (exposes_statics _ _ Hs) as Hex.
  constructor; simpl; [done|by eapply layout_exposes| |done|done].
  intros b Hb. by eapply tracked_exposes; [|apply R3].
Qed.

Lemma op_related t layout s y p seen s' :
  related t layout s y -> op_ok layout p -> shared_op layout rpc_size p s = Some (seen, s') ->
  exists y', system_op t p y = Some (seen, y') /\ related t layout s' y'.
Proof.
  destruct p; intros Hr Hok; eauto using read_related, write_related, launch_related, device_related,
    synchronize_related.
Qed.

Lemma run_related t layout l : forall s y seen s',
  related t layout s y -> Forall (op_ok layout) l ->
  shared_run layout rpc_size l s = Some (seen, s') ->
  exists y', system_run t l y = Some (seen, y') /\ related t layout s' y'.
Proof.
  induction l as [|p l IH]; intros s y seen s' Hr Hok; simpl; [intros [= <- <-]; eauto|].
  apply Forall_cons in Hok as [Hok1 Hok2].
  destruct (shared_op layout rpc_size p s) as [[seen1 s1]|] eqn:E1; simpl; [|done].
  destruct (shared_run layout rpc_size l s1) as [[seen2 s2]|] eqn:E2; simpl; [|done].
  intros [= <- <-]. destruct (op_related t layout s y p seen1 s1 Hr Hok1 E1) as (y1&->&Hr1). simpl.
  destruct (IH s1 y1 seen2 s2 Hr1 Hok2 E2) as (y2&->&Hr2). simpl. eauto.
Qed.


(** Before a request goes out, everything that the thread wrote is on the servers:
    [lupine_prepare_rpc] returns 0 and afterwards the server of every tracked
    allocation holds the memory, byte for byte. *)
Theorem prepare_rpc_publishes fuel t behind memory r w :
  coherent t behind memory nothing w ->
  exists w', lupine_prepare_rpc (S fuel) t (Some r) w = Some (0, w') /\
    coherent t behind memory nothing w' /\ statics w' = statics w /\
    forall b a o, find_alloc b w' = Some a -> tracking_enabled a = true ->
      0 <= o < al_size (backing a) ->
      server w' (route_id (backing a)) (server_host_ptr (backing a) + o) = memory (b + o).
Proof.
  intros Hco. destruct (prepare_rpc_spec fuel t behind memory r w Hco) as (w'&?&Hco'&Hc&?&_).
  exists w'. split_and!; [done..|]. intros b a o Ha Ht Ho. by eapply clean_server.
Qed.


(** Exposing an allocation to the device makes it tracked, with its fault entry
    installed and its contents due for the next flush, and keeps the mirror coherent;
    tracked allocations stay tracked. *)
Theorem exposure_starts_tracking t behind memory w b a :
  coherent t behind memory nothing w -> find_alloc b w = Some a ->
  let w' := lupine_expose_host_device_pointer t b w in
  coherent t behind memory nothing w' /\ exposes w w' /\
  exists a', find_alloc b w' = Some a' /\ tracking_enabled a' = true.
Proof.
  intros Hco Ha. destruct (expose_spec t behind memory w b a Hco Ha) as (w'&<-&?&?&?). done.
Qed.
End Refinement.

(** * A first world *)

Section Start.
Context `{MirrorEnvLaws}.

(** With nothing queued and nothing stale, views that agree are coherent. *)
Lemma start_coherent t memory w :
  shape (statics w) (fault_entries w) ->
  (forall r, ranges (queues w r) = []) -> (forall r, host_writes w r = []) ->
  required_epoch w t <= dirty_epoch w /\ flushed_epoch w <= dirty_epoch w ->
  (forall b a, find_alloc b w = Some a ->
    full_dirty a = false /\ device_stale a = 0 /\
    (tracking_enabled a = true ->
     exists l, fresh_chunks a = Some l /\ length l = chunks_of (storage_size (backing a))) /\
    forall o, 0 <= o < al_size (backing a) ->
      client w (b + o) = memory (b + o) /\
      (tracking_enabled a = true ->
       prot w (b + o) <> PROT_WRITE /\
       server w (route_id (backing a)) (server_host_ptr (backing a) + o) = memory (b + o)) /\
      (tracking_enabled a = false -> prot w (b + o) = PROT_WRITE)) ->
  coherent t ∅ memory nothing w.
Proof.
  intros Hsh Hq Hw He Ha. constructor; try done.
  - intros r range. rewrite Hq. by intros ?%elem_of_nil.
  - intros [(r&range&Hin)|(b&a&Hf&Hd)].
    + rewrite Hq in Hin. by apply elem_of_nil in Hin.
    + destruct (Ha b a Hf) as [? _]. congruence.
  - intros b a Hf Ht. destruct (Ha b a Hf) as (Hd&Hs&Hl&Ho). constructor.
    + split; [auto|by apply Hl].
    + congruence.
    + intros [?|?%elem_of_nil]; [congruence|done].
    + intros o Hoo. destruct (Ho o Hoo) as (Hc&Htr&_). destruct (Htr Ht) as [Hp Hsv].
      assert (valid a o = true) as Hv by (unfold valid; by rewrite Hs).
      by constructor.
  - intros b a Hf Ht. destruct (Ha b a Hf) as (Hd&Hs&_&Ho). split_and!; [done..|].
    intros o Hoo. destruct (Ho o Hoo) as (Hc&_&Hp). auto.
Qed.
End Start.

Module Sample.

#[global] Instance env : MirrorEnv := {|
  lupine_page_size := 4096;
  rpc_size := 1;
  net := fun _ => None;
  mprotect_ok := fun _ _ _ => true;
  calloc_ok := true;
  bulk_lanes := fun _ => false;
  lane_context_matches := fun _ _ => true;
  lupine_demand_fetch_context := fun _ => 0;
  real_cuMemHostRegister := fun _ _ => 0;
  real_cuMemHostGetDevicePointer := fun p => (0, p);
  remote_cuMemHostAlloc_reply := fun _ p _ => (p, p, 0);
|}.

#[global] Instance env_laws : MirrorEnvLaws.
Proof. constructor; [by exists 12|done..]. Qed.

(** Two pages of managed memory, and a pinned buffer whose data ends inside a page. *)
Definition managed_base : Z := 65536.
Definition pinned_base : Z := 131072.

Definition managed_backing : host_backing :=
  HostBacking 8192 8192 managed_base 8192 0 4096 2 1 true true 9437184 true false false
    managed_base managed_base managed_base managed_base 0 [].

Definition pinned_backing : host_backing :=
  HostBacking 5000 8192 pinned_base 5000 0 4096 2 2 true true 9502720 false false false
    327680 327680 327680 pinned_base 0 [].

Definition managed_alloc : lupine_host_allocation :=
  HostAllocation managed_backing true false 0 0 None 0 0 0 (Some [false]) 0 0 false false 0.

Definition start_memory (x : Z) : byte := x mod 251.

(** Tracked memory is write-protected and current on the server. *)
Definition start : mirror :=
  Mirror
    (HostRegistry [(managed_base, managed_alloc); (pinned_base, untracked pinned_backing)]
       [(327680, pinned_base)] [(9437184, managed_base); (9502720, pinned_base)] 2)
    (fun _ => DirtyQueue [] false)
    [FaultEntry managed_base (managed_base + 8192) (Some managed_base)]
    0 (fun _ => 0) 0 false (fun _ => []) start_memory
    (fun x => if (managed_base <=? x) && (x <? managed_base + 8192) then PROT_READ else PROT_WRITE)
    (fun _ x => if (managed_base <=? x) && (x <? managed_base + 8192) then start_memory x else 0)
    0.

Definition layout : gmap Z Z := {[managed_base := 8192; pinned_base := 5000]}.

(** Adds a byte of each allocation into the other. *)
Definition add_kernel : kernel :=
  Kernel 0 7 [managed_base; pinned_base + 16; 3] [managed_base; pinned_base]
    (fun m => [(managed_base, 6, m managed_base 5 + m pinned_base 10);
               (pinned_base, 4999, m managed_base 6)]).

Lemma start_shape : shape (statics start) (fault_entries start).
Proof.
  assert (forall b i, (b, i) ∈ statics start ->
    b = managed_base /\ i = info managed_alloc \/
    b = pinned_base /\ i = info (untracked pinned_backing)) as Hin.
  { intros b i Hin. change (statics start) with
      [(managed_base, info managed_alloc); (pinned_base, info (untracked pinned_backing))] in Hin.
    apply elem_of_cons in Hin as [[= -> ->]|Hin]; [auto|].
    apply list_elem_of_singleton in Hin as [= -> ->]. auto. }
  constructor.
  - repeat constructor.
  - intros b i [[-> ->]|[-> ->]]%Hin; constructor; cbn; try done; try lia;
      try (split_and!; done || lia).
    all: try (split; [by exists 16|by exists 2]); try (split; [by exists 32|by exists 2]); auto.
  - intros b1 i1 b2 i2 [[-> ->]|[-> ->]]%Hin [[-> ->]|[-> ->]]%Hin Hne; try done;
      split; cbn; unfold managed_base, pinned_base in *; lia.
  - intros b i [[-> ->]|[-> ->]]%Hin Ht; [left|done].
  - intros entry b He Hal. apply list_elem_of_singleton in He as ->. injection Hal as <-.
    exists (info managed_alloc). split_and!; [left|done|done].
  - vm_compute. done.
Qed.

Lemma find_start b :
  find_alloc b start =
    if managed_base =? b then Some managed_alloc
    else if pinned_base =? b then Some (untracked pinned_backing) else None.
Proof. done. Qed.

Lemma start_coherent_sample : coherent 1 ∅ start_memory nothing start.
Proof.
  apply start_coherent; [apply start_shape|done|done|done|].
  intros b a. rewrite find_start.
  destruct (Z.eqb_spec managed_base b) as [<-|_].
  { intros [= <-]. split_and!; [done|done|intros _; by exists [false]|].
    simpl. intros o Ho. split_and!; [done| |done]. intros _.
    destruct (Z.leb_spec managed_base (managed_base + o)); [|lia].
    destruct (Z.ltb_spec (managed_base + o) (managed_base + 8192)); [|lia]. done. }
  destruct (Z.eqb_spec pinned_base b) as [<-|_]; [|done]. intros [= <-].
  split_and!; [done|done|done|]. simpl. intros o Ho. split_and!; [done|done|]. intros _.
  destruct (Z.ltb_spec (pinned_base + o) (managed_base + 8192)).
  - exfalso. unfold pinned_base, managed_base in *. lia.
  - by rewrite andb_false_r.
Qed.

Definition start_shared : shared := Shared start_memory ∅ {[managed_base]} [].
Definition start_system : system := System start (fun _ => None) [].

Lemma start_related : related 1 layout start_shared start_system.
Proof.
  constructor; [apply start_coherent_sample| | |done|constructor].
  - intros b. change (sy_mirror start_system) with start. rewrite find_start. unfold layout.
    destruct (Z.eqb_spec managed_base b) as [<-|Hm]; [by rewrite lookup_insert_eq|].
    rewrite lookup_insert_ne by done.
    destruct (Z.eqb_spec pinned_base b) as [<-|Hp]; [by rewrite lookup_singleton_eq|].
    by rewrite lookup_singleton_ne.
  - intros b Hb. simpl in Hb. apply elem_of_singleton in Hb as ->. by exists managed_alloc.
Qed.

Lemma add_kernel_ok : kernel_ok layout add_kernel.
Proof.
  split.
  - intros m b o v Hin. simpl in Hin. apply elem_of_cons in Hin as [[= -> -> _]|Hin].
    + split; [left|done].
    + apply list_elem_of_singleton in Hin as [= -> -> _]. split; [right; left|done].
  - intros m m' Hm. simpl. rewrite !Hm; try done; [left|right; left|left].
Qed.

(** A connection that is lost, and the managed memory with its first page written. *)
Definition failing : MirrorEnv := {|
  lupine_page_size := 4096;
  rpc_size := 1;
  net := fun _ => Some 0%nat;
  mprotect_ok := fun _ _ _ => true;
  calloc_ok := true;
  bulk_lanes := fun _ => false;
  lane_context_matches := fun _ _ => true;
  lupine_demand_fetch_context := fun _ => 0;
  real_cuMemHostRegister := fun _ _ => 0;
  real_cuMemHostGetDevicePointer := fun p => (0, p);
  remote_cuMemHostAlloc_reply := fun _ p _ => (p, p, 0);
|}.

Definition written : mirror :=
  match host_write 2 1 (managed_base + 5) 42 start with Some (_, w) => w | None => start end.

Definition program : list op :=
  [Write managed_base 5 42; Write pinned_base 10 9; Launch add_kernel; Device; Synchronize 0;
   Read managed_base 6; Read pinned_base 4999; Write pinned_base 0 1; Read managed_base 5;
   Launch add_kernel; Device; Synchronize 0; Read managed_base 6; Read pinned_base 0].

(** After its first kernel. *)
Definition first_kernel : list op := take 5 program.
Definition shared_after : shared :=
  match shared_run layout rpc_size first_kernel start_shared with Some (_, s) => s | None => start_shared end.
Definition system_after : system :=
  match system_run 1 first_kernel start_system with Some (_, y) => y | None => start_system end.
Definition changed : Z := managed_base + 6.

End Sample.


Lemma prepare_rpc_publishes_witness :
  exists w', lupine_prepare_rpc 1 1 (Some 0) Sample.start = Some (0, w') /\
    server w' 0 Sample.managed_base = Sample.start_memory Sample.managed_base.
Proof.
  destruct (prepare_rpc_publishes 0 1 ∅ Sample.start_memory 0 Sample.start
    Sample.start_coherent_sample) as (w'&Hw'&_&Hs&Hpub).
  exists w'. split; [exact Hw'|].
  destruct (statics_found Sample.start w' Sample.managed_base Sample.managed_alloc Hs eq_refl)
    as (a'&Ha'&Hi). destruct (info_inj _ _ Hi) as [Hb Ht].
  specialize (Hpub Sample.managed_base a' 0 Ha'). rewrite Hb, Ht in Hpub.
  apply Hpub; [reflexivity|]. simpl. lia.
Defined.

Lemma after_related : related 1 Sample.layout Sample.shared_after Sample.system_after.
Proof.
  unfold Sample.shared_after, Sample.system_after.
  destruct (shared_run Sample.layout rpc_size Sample.first_kernel Sample.start_shared) as [[seen s']|] eqn:E; cycle 1.
  { assert (is_Some (shared_run Sample.layout rpc_size Sample.first_kernel Sample.start_shared)) as [? Hs]
      by (vm_compute; eauto). congruence. }
  destruct (run_related 1 Sample.layout Sample.first_kernel Sample.start_shared Sample.start_system seen s')
    as (y&->&Hr); [apply Sample.start_related| |done|done].
  repeat (apply Forall_cons_2; [first [exact I|exact Sample.add_kernel_ok]|]). constructor.
Qed.


Lemma exposure_starts_tracking_witness :
  exists a', find_alloc Sample.pinned_base
      (lupine_expose_host_device_pointer 1 Sample.pinned_base Sample.start) = Some a' /\
    tracking_enabled a' = true.
Proof.
  destruct (exposure_starts_tracking 1 ∅ Sample.start_memory Sample.start Sample.pinned_base
    (untracked Sample.pinned_backing) Sample.start_coherent_sample eq_refl) as (_&_&Ha).
  exact Ha.
Defined.

(** A server that fails a flush after none of the payload. *)
Lemma failed_flush_restores_witness :
  exists w' a', lupine_flush_dirty_host_pages_to_route (H := Sample.failing) 1 0 Sample.written =
      Some (CUDA_ERROR_DEVICE_UNAVAILABLE, w') /\
    find_alloc Sample.managed_base w' = Some a' /\ full_dirty a' = true.
Proof.
  assert (fst <$> lupine_flush_dirty_host_pages_to_route (H := Sample.failing) 1 0 Sample.written =
    Some CUDA_ERROR_DEVICE_UNAVAILABLE) as Hr by (vm_compute; reflexivity).
  destruct (lupine_flush_dirty_host_pages_to_route (H := Sample.failing) 1 0 Sample.written)
    as [[result w']|] eqn:E; [|discriminate Hr]. injection Hr as ->.
  destruct (failed_flush_restores (H := Sample.failing) 1 0 Sample.written
    CUDA_ERROR_DEVICE_UNAVAILABLE w' Sample.managed_base (add_pending 1 Sample.managed_alloc))
    as (_&a'&Ha'&Hd).
  - reflexivity.
  - exists 0. reflexivity.
  - exact E.
  - discriminate.
  - reflexivity.
  - reflexivity.
  - reflexivity.
  - left. exists (DirtyRange Sample.managed_base Sample.managed_base (Sample.managed_base + 4096)).
    split; [left|reflexivity].
  - exists w', a'. split; [reflexivity|]. split; [exact Ha'|exact Hd].
Defined.

(** * Where the discipline is not kept *)

Module Lost.
Import Sample.

Definition byte5 : Z := managed_base + 5.

(** A request, a write to managed memory, and a query of an event whose completion is
    cached or has to be asked for; then the byte as it is read back. *)
Definition query_then_read (needed : bool) : option (option byte) :=
  '(_, w) ← lupine_prepare_rpc 1 1 (Some 0) start;
  '(_, w) ← host_write 2 1 byte5 42 w;
  '(_, w) ← cuEventQuery 1 false 1 0 needed CUDA_SUCCESS w;
  '(v, _) ← host_read 2 1 byte5 w;
  Some v.

(** Thread 1 launches, thread [t] writes, thread 1 synchronizes, thread [t] reads. *)
Definition write_then_read (t : Z) : option (option byte) :=
  '(_, _, w) ← cuLaunchKernel 1 false 1 0 7 [pinned_base] (fun _ => None) start;
  '(_, w) ← host_write 2 t byte5 42 w;
  '(_, w) ← cuCtxSynchronize 1 false 1 0 w;
  '(v, _) ← host_read 2 t byte5 w;
  Some v.

(** A kernel stores 77 at offset 200; the answer to the synchronization brings [n]
    bytes of a deferred copy into the allocation; the byte at offset 200 as read. *)
Definition copy_then_read (n : Z) : option (option byte) :=
  '(_, w) ← lupine_prepare_rpc 1 1 (Some 0) (device_store start (managed_base, 200, 77));
  let w := if n =? 0 then w else set_host_writes 0 [(managed_base, n)] w in
  '(_, w) ← lupine_sync_mapped_device_to_host 1 false 1 w;
  '(v, _) ← host_read 2 1 (managed_base + 200) w;
  Some v.

(** Three ways in which bytes are lost or stale outside the discipline above: a
    query of an event with a cached completion invalidates without flushing, so a
    write before it is gone, while a query that asks the server keeps it; a
    synchronization flushes for its own thread only, so the write of another thread is
    gone; a deferred copy into a part of a chunk makes its page readable although the
    rest of the page has not been fetched, so a kernel's byte next to it is not seen. *)
Theorem unflushed_writes_are_lost :
  query_then_read true = Some (Some 42) /\
  query_then_read false = Some (Some (start_memory byte5)) /\
  write_then_read 1 = Some (Some 42) /\
  write_then_read 2 = Some (Some (start_memory byte5)) /\
  copy_then_read 0 = Some (Some 77) /\
  copy_then_read 100 = Some (Some (start_memory (managed_base + 200))).
Proof. vm_compute. split_and!; reflexivity. Qed.
End Lost.
