(* ===== verification/RpcIds.v ===== *)
(** * Operation ids

    [codegen/gen_rpc_ids.h] numbers the operations; the generator ([write_rpc_ids] of
    [codegen/codegen.py]) derives a number from the operation's name.  Client and server
    are built apart, so the numbers are the only thing that ties a request to its handler. *)
From S2P Require Import Prelude.
From Stdlib Require Import Ascii String.

(** ** The hash *)

(** [zlib.crc32]: the reflected polynomial, bit by bit. *)
Definition crc_bit (c : Z) : Z :=
  if Z.odd c then Z.lxor (Z.shiftr c 1) 0xEDB88320 else Z.shiftr c 1.

Definition crc_byte (c b : Z) : Z := Nat.iter 8 crc_bit (Z.lxor c b).

Fixpoint crc_string (c : Z) (s : string) : Z :=
  match s with
  | EmptyString => c
  | String a s => crc_string (crc_byte c (Z.of_nat (nat_of_ascii a))) s
  end.

Definition crc32 (s : string) : Z := Z.lxor (crc_string 0xFFFFFFFF s) 0xFFFFFFFF.

Example crc32_check : crc32 "123456789" = 0xCBF43926.
Proof. reflexivity. Qed.

Definition rpc_id (operation : string) : Z := Z.land (crc32 operation) 0x7FFFFFFF.

(** The operation of a macro [RPC_x] or [LUPINE_RPC_x]. *)
Fixpoint strip_prefix (p s : string) : option string :=
  match p, s with
  | EmptyString, s => Some s
  | String a p, String b s => if ascii_dec a b then strip_prefix p s else None
  | _, _ => None
  end.

Definition operation_of (macro : string) : option string :=
  match strip_prefix "RPC_" macro with
  | Some s => Some s
  | None => strip_prefix "LUPINE_RPC_" macro
  end.

(** ** The table *)

Definition rpc_ids_1 : list (string * Z) :=
  [("RPC_cuGetErrorString", 135788162); ("RPC_cuGetErrorName", 946097382);
   ("RPC_cuInit", 1234315198); ("RPC_cuDriverGetVersion", 800684195);
   ("RPC_cuDeviceGet", 1639641968); ("RPC_cuDeviceGetCount", 649431947);
   ("RPC_cuDeviceGetName", 1804282097); ("RPC_cuDeviceGetUuid_v2", 176200573);
   ("RPC_cuDeviceGetLuid", 1237720644); ("RPC_cuDeviceTotalMem_v2", 1063922778);
   ("RPC_cuDeviceGetTexture1DLinearMaxWidth", 1710662973);
   ("RPC_cuDeviceGetAttribute", 550594029); ("RPC_cuDeviceSetMemPool", 1246991248);
   ("RPC_cuDeviceGetMemPool", 1679208962); ("RPC_cuDeviceGetDefaultMemPool", 1234428036);
   ("RPC_cuDeviceGetExecAffinitySupport", 278651062);
   ("RPC_cuFlushGPUDirectRDMAWrites", 434434783); ("RPC_cuDeviceGetProperties", 1934438172);
   ("RPC_cuDeviceComputeCapability", 542397003); ("RPC_cuDevicePrimaryCtxRetain", 322168396);
   ("RPC_cuDevicePrimaryCtxRelease_v2", 1487179514);
   ("RPC_cuDevicePrimaryCtxSetFlags_v2", 2054040901);
   ("RPC_cuDevicePrimaryCtxGetState", 1684173691);
   ("RPC_cuDevicePrimaryCtxReset_v2", 177299429); ("RPC_cuCtxDestroy_v2", 788939082);
   ("RPC_cuCtxPushCurrent_v2", 1543650374); ("RPC_cuCtxPopCurrent_v2", 328062314);
   ("RPC_cuCtxSetCurrent", 1801040174); ("RPC_cuCtxGetCurrent", 1159499964);
   ("RPC_cuCtxGetDevice", 1876605837); ("RPC_cuCtxGetDevice_v2", 566885354);
   ("RPC_cuCtxGetFlags", 492061685); ("RPC_cuCtxGetId", 1704852972);
   ("RPC_cuCtxSynchronize", 484046796); ("RPC_cuCtxSynchronize_v2", 357846365);
   ("RPC_cuCtxSetLimit", 288806398); ("RPC_cuCtxGetLimit", 1774709295);
   ("RPC_cuCtxGetCacheConfig", 1342146307); ("RPC_cuCtxSetCacheConfig", 820065396);
   ("RPC_cuCtxGetApiVersion", 900342868); ("RPC_cuCtxGetStreamPriorityRange", 1782496290);
   ("RPC_cuCtxResetPersistingL2Cache", 1127157402); ("RPC_cuCtxGetExecAffinity", 110995246);
   ("RPC_cuCtxRecordEvent", 64806754); ("RPC_cuCtxWaitEvent", 1390839162);
   ("RPC_cuCtxAttach", 1257564665); ("RPC_cuCtxDetach", 1203357304);
   ("RPC_cuCtxGetSharedMemConfig", 1986889819); ("RPC_cuCtxSetSharedMemConfig", 1399194437);
   ("RPC_cuModuleLoad", 597145261); ("RPC_cuModuleLoadData", 1869902472);
   ("RPC_cuModuleLoadDataEx", 1599651222); ("RPC_cuModuleUnload", 701323021);
   ("RPC_cuModuleGetLoadingMode", 753596623); ("RPC_cuModuleGetFunction", 1982690200);
   ("RPC_cuModuleGetGlobal_v2", 1149107027); ("RPC_cuLinkCreate_v2", 377584884);
   ("RPC_cuLinkAddData_v2", 393585137); ("RPC_cuLinkAddFile_v2", 860584353);
   ("RPC_cuLinkComplete", 1460078792); ("RPC_cuLinkDestroy", 1186931750);
   ("RPC_cuModuleGetTexRef", 1045070758); ("RPC_cuModuleGetSurfRef", 819563562);
   ("RPC_cuLibraryLoadData", 2017545720); ("RPC_cuLibraryUnload", 537528411);
   ("RPC_cuLibraryGetKernel", 1052861029); ("RPC_cuLibraryGetModule", 1865932518);
   ("RPC_cuKernelGetFunction", 1887699705); ("RPC_cuKernelGetLibrary", 1537366344);
   ("RPC_cuLibraryGetGlobal", 186020685); ("RPC_cuLibraryGetManaged", 1917807783);
   ("RPC_cuLibraryGetUnifiedFunction", 616076438); ("RPC_cuKernelGetAttribute", 1724498758);
   ("RPC_cuKernelSetAttribute", 1775703493); ("RPC_cuKernelSetCacheConfig", 1572033421);
   ("RPC_cuKernelGetName", 1923872670); ("RPC_cuKernelGetParamInfo", 89830551);
   ("RPC_cuMemGetInfo_v2", 969693882); ("RPC_cuMemAlloc_v2", 892243478);
   ("RPC_cuMemAllocPitch_v2", 1753237206); ("RPC_cuMemFree_v2", 2004586063);
   ("RPC_cuMemGetAddressRange_v2", 478064843); ("RPC_cuMemAllocHost_v2", 1588461222);
   ("RPC_cuMemFreeHost", 1411773626); ("RPC_cuMemHostAlloc", 1867040227);
   ("RPC_cuMemHostGetDevicePointer_v2", 823986421); ("RPC_cuMemHostGetFlags", 403353693);
   ("RPC_cuMemAllocManaged", 12010900); ("RPC_cuDeviceGetByPCIBusId", 1434831979);
   ("RPC_cuDeviceGetPCIBusId", 2039655364); ("RPC_cuIpcGetEventHandle", 795186540);
   ("RPC_cuIpcOpenEventHandle", 1765281479); ("RPC_cuIpcGetMemHandle", 1240684798);
   ("RPC_cuIpcOpenMemHandle_v2", 22885117); ("RPC_cuIpcCloseMemHandle", 1452607273);
   ("RPC_cuMemcpy", 1647938811); ("RPC_cuMemcpyPeer", 2065443627);
   ("RPC_cuMemcpyHtoD_v2", 2083621880); ("RPC_cuMemcpyDtoH_v2", 1900502580);
   ("RPC_cuMemcpyDtoD_v2", 999416204); ("RPC_cuMemcpyDtoA_v2", 206508478);
   ("RPC_cuMemcpyAtoD_v2", 1772736043); ("RPC_cuMemcpyAtoH_v2", 595554707);
   ("RPC_cuMemcpyAtoA_v2", 1584872985); ("RPC_cuMemcpy2D_v2", 8262226);
   ("RPC_cuMemcpy2DUnaligned_v2", 782089135); ("RPC_cuMemcpy3D_v2", 1025391586);
   ("RPC_cuMemcpy3DPeer", 298427422); ("RPC_cuMemcpyPeerAsync", 227080394);
   ("RPC_cuMemcpyHtoDAsync_v2", 625534283); ("RPC_cuMemcpyDtoHAsync_v2", 1182161886);
   ("RPC_cuMemcpyDtoDAsync_v2", 541239498); ("RPC_cuMemcpyAtoHAsync_v2", 1591028942);
   ("RPC_cuMemcpy2DAsync_v2", 668676181); ("RPC_cuMemcpy3DAsync_v2", 1209621355);
   ("RPC_cuMemcpy3DPeerAsync", 1159929255); ("RPC_cuMemsetD8_v2", 583436677);
   ("RPC_cuMemsetD16_v2", 1863459517); ("RPC_cuMemsetD32_v2", 447800970);
   ("RPC_cuMemsetD2D8_v2", 798268107); ("RPC_cuMemsetD2D16_v2", 2121997369);
   ("RPC_cuMemsetD2D32_v2", 198825998); ("RPC_cuMemsetD8Async", 676145800);
   ("RPC_cuMemsetD16Async", 2127962567); ("RPC_cuMemsetD32Async", 1926787832);
   ("RPC_cuMemsetD2D8Async", 1107887247); ("RPC_cuMemsetD2D16Async", 1616441418);
   ("RPC_cuMemsetD2D32Async", 1817617269); ("RPC_cuArrayCreate_v2", 1496612959);
   ("RPC_cuArrayGetDescriptor_v2", 1813477251); ("RPC_cuArrayGetSparseProperties", 1058015514);
   ("RPC_cuMipmappedArrayGetSparseProperties", 1105967930);
   ("RPC_cuArrayGetMemoryRequirements", 346546441);
   ("RPC_cuMipmappedArrayGetMemoryRequirements", 609020400); ("RPC_cuArrayGetPlane", 711476506);
   ("RPC_cuArrayDestroy", 796141167); ("RPC_cuArray3DCreate_v2", 1449787542);
   ("RPC_cuArray3DGetDescriptor_v2", 1952635135); ("RPC_cuMipmappedArrayCreate", 1284494309);
   ("RPC_cuMipmappedArrayGetLevel", 11097028); ("RPC_cuMipmappedArrayDestroy", 101114411);
   ("RPC_cuMemGetHandleForAddressRange", 835443611); ("RPC_cuMemAddressReserve", 58208592);
   ("RPC_cuMemAddressFree", 480872126); ("RPC_cuMemCreate", 1457401037);
   ("RPC_cuMemRelease", 1369742920); ("RPC_cuMemMap", 2062515365);
   ("RPC_cuMemMapArrayAsync", 148544159)].

Definition rpc_ids_2 : list (string * Z) :=
  [("RPC_cuMemUnmap", 2079607367); ("RPC_cuMemSetAccess", 1451145107);
   ("RPC_cuMemGetAccess", 659727598); ("RPC_cuMemExportToShareableHandle", 625805694);
   ("RPC_cuMemImportFromShareableHandle", 956879964);
   ("RPC_cuMemGetAllocationGranularity", 456804952);
   ("RPC_cuMemGetAllocationPropertiesFromHandle", 1832377395);
   ("RPC_cuMemRetainAllocationHandle", 1903553150); ("RPC_cuMemFreeAsync", 121394514);
   ("RPC_cuMemAllocAsync", 1816490266); ("RPC_cuMemPoolTrimTo", 1437163825);
   ("RPC_cuMemPoolSetAttribute", 1050377512); ("RPC_cuMemPoolGetAttribute", 830843819);
   ("RPC_cuMemPoolSetAccess", 933864100); ("RPC_cuMemPoolGetAccess", 1183166937);
   ("RPC_cuMemPoolCreate", 2112346226); ("RPC_cuMemPoolDestroy", 1759284423);
   ("RPC_cuMemAllocFromPoolAsync", 1326874906);
   ("RPC_cuMemPoolExportToShareableHandle", 216093383);
   ("RPC_cuMemPoolImportFromShareableHandle", 1891033213);
   ("RPC_cuMemPoolExportPointer", 858999363); ("RPC_cuMemPoolImportPointer", 1026713940);
   ("RPC_cuPointerGetAttribute", 599464150); ("RPC_cuMemPrefetchAsync_v2", 199313298);
   ("RPC_cuMemAdvise_v2", 1952016083); ("RPC_cuMemRangeGetAttribute", 1819983801);
   ("RPC_cuMemRangeGetAttributes", 694140572); ("RPC_cuPointerSetAttribute", 749063765);
   ("RPC_cuPointerGetAttributes", 1948058610); ("RPC_cuStreamCreate", 672328975);
   ("RPC_cuStreamCreateWithPriority", 475445991); ("RPC_cuStreamGetPriority", 1973857307);
   ("RPC_cuStreamGetDevice", 2047611888); ("RPC_cuStreamGetFlags", 1958132797);
   ("RPC_cuStreamGetId", 521704577); ("RPC_cuStreamGetCtx", 1361652262);
   ("RPC_cuStreamWaitEvent", 1194339591); ("RPC_cuStreamAddCallback", 1162798870);
   ("RPC_cuStreamBeginCapture_v2", 194882140);
   ("RPC_cuThreadExchangeStreamCaptureMode", 1237612350);
   ("RPC_cuStreamEndCapture", 1177265840); ("RPC_cuStreamIsCapturing", 1190314173);
   ("RPC_cuStreamAttachMemAsync", 95898005); ("RPC_cuStreamQuery", 1660021658);
   ("RPC_cuStreamSynchronize", 1581600379); ("RPC_cuStreamDestroy_v2", 19372643);
   ("RPC_cuStreamCopyAttributes", 1468207308); ("RPC_cuStreamGetAttribute", 1426232076);
   ("RPC_cuStreamSetAttribute", 1511802255); ("RPC_cuEventCreate", 786858160);
   ("RPC_cuEventRecord", 973406170); ("RPC_cuEventRecordWithFlags", 663009900);
   ("RPC_cuEventQuery", 539577311); ("RPC_cuEventSynchronize", 1628013290);
   ("RPC_cuEventDestroy_v2", 495590736); ("RPC_cuEventElapsedTime_v2", 461475650);
   ("RPC_cuImportExternalMemory", 101671296); ("RPC_cuExternalMemoryGetMappedBuffer", 31352314);
   ("RPC_cuExternalMemoryGetMappedMipmappedArray", 406291717);
   ("RPC_cuDestroyExternalMemory", 1718476548); ("RPC_cuImportExternalSemaphore", 1561992276);
   ("RPC_cuSignalExternalSemaphoresAsync", 2125146184);
   ("RPC_cuWaitExternalSemaphoresAsync", 1833543226);
   ("RPC_cuDestroyExternalSemaphore", 1658596394); ("RPC_cuStreamWaitValue32_v2", 1641833423);
   ("RPC_cuStreamWaitValue64_v2", 207074147); ("RPC_cuStreamWriteValue32_v2", 1208769495);
   ("RPC_cuStreamWriteValue64_v2", 629640059); ("RPC_cuStreamBatchMemOp_v2", 1959870789);
   ("RPC_cuFuncGetAttribute", 1113544593); ("RPC_cuFuncSetAttribute", 1296138514);
   ("RPC_cuFuncSetCacheConfig", 1688761246); ("RPC_cuFuncGetModule", 1933245726);
   ("RPC_cuFuncGetName", 1852767197); ("RPC_cuFuncGetParamInfo", 567025728);
   ("RPC_cuLaunchKernel", 732897317); ("RPC_cuLaunchKernelEx", 1100221233);
   ("RPC_cuLaunchCooperativeKernel", 1003615807); ("RPC_cuLaunchHostFunc", 1459790768);
   ("RPC_cuFuncSetBlockShape", 1591448334); ("RPC_cuFuncSetSharedSize", 1705340648);
   ("RPC_cuParamSetSize", 1767310842); ("RPC_cuParamSeti", 1839631570);
   ("RPC_cuParamSetf", 2098827587); ("RPC_cuParamSetv", 1622049063);
   ("RPC_cuLaunch", 1255109853); ("RPC_cuLaunchGrid", 1405072590);
   ("RPC_cuLaunchGridAsync", 251399172);
   ("RPC_cuLaunchCooperativeKernelMultiDevice", 671220858); ("RPC_cuParamSetTexRef", 811842488);
   ("RPC_cuFuncSetSharedMemConfig", 1389123837); ("RPC_cuGraphCreate", 1807883684);
   ("RPC_cuGraphAddKernelNode_v2", 1341270968);
   ("RPC_cuGraphKernelNodeGetParams_v2", 1688963673);
   ("RPC_cuGraphKernelNodeSetParams_v2", 1807047898); ("RPC_cuGraphAddMemcpyNode", 1347239889);
   ("RPC_cuGraphMemcpyNodeGetParams", 734460996);
   ("RPC_cuGraphMemcpyNodeSetParams", 1525346105); ("RPC_cuGraphAddMemsetNode", 471397510);
   ("RPC_cuGraphMemsetNodeGetParams", 234787653);
   ("RPC_cuGraphMemsetNodeSetParams", 2094170168); ("RPC_cuGraphAddHostNode", 1313301441);
   ("RPC_cuGraphHostNodeGetParams", 1040204693); ("RPC_cuGraphHostNodeSetParams", 1328304360);
   ("RPC_cuGraphAddChildGraphNode", 1642307952);
   ("RPC_cuGraphChildGraphNodeGetGraph", 378561055); ("RPC_cuGraphAddEmptyNode", 523519941);
   ("RPC_cuGraphAddEventRecordNode", 376649883);
   ("RPC_cuGraphEventRecordNodeGetEvent", 924070564);
   ("RPC_cuGraphEventRecordNodeSetEvent", 1340411253);
   ("RPC_cuGraphAddEventWaitNode", 2074907796);
   ("RPC_cuGraphEventWaitNodeGetEvent", 2003086414);
   ("RPC_cuGraphEventWaitNodeSetEvent", 261460895);
   ("RPC_cuGraphAddExternalSemaphoresSignalNode", 15688656);
   ("RPC_cuGraphExternalSemaphoresSignalNodeGetParams", 1667856372);
   ("RPC_cuGraphExternalSemaphoresSignalNodeSetParams", 306537609);
   ("RPC_cuGraphAddExternalSemaphoresWaitNode", 1449653465);
   ("RPC_cuGraphExternalSemaphoresWaitNodeGetParams", 1833776986);
   ("RPC_cuGraphExternalSemaphoresWaitNodeSetParams", 476128295);
   ("RPC_cuGraphAddBatchMemOpNode", 1631978327);
   ("RPC_cuGraphBatchMemOpNodeGetParams", 141012756);
   ("RPC_cuGraphBatchMemOpNodeSetParams", 2035006569);
   ("RPC_cuGraphExecBatchMemOpNodeSetParams", 1689160829);
   ("RPC_cuGraphAddMemAllocNode", 708373651); ("RPC_cuGraphMemAllocNodeGetParams", 1800775622);
   ("RPC_cuGraphAddMemFreeNode", 1997693490); ("RPC_cuGraphMemFreeNodeGetParams", 1901836585);
   ("RPC_cuDeviceGraphMemTrim", 64302920); ("RPC_cuDeviceGetGraphMemAttribute", 622504442);
   ("RPC_cuDeviceSetGraphMemAttribute", 187820422); ("RPC_cuGraphClone", 1985984852);
   ("RPC_cuGraphNodeFindInClone", 1346487083); ("RPC_cuGraphNodeGetType", 1733309030);
   ("RPC_cuGraphNodeGetContainingGraph", 2073783441); ("RPC_cuGraphNodeGetLocalId", 909459841);
   ("RPC_cuGraphNodeGetToolsId", 1122255545); ("RPC_cuGraphGetId", 1130798716);
   ("RPC_cuGraphExecGetId", 1513714907); ("RPC_cuGraphGetNodes", 314616981);
   ("RPC_cuGraphGetRootNodes", 1731117011); ("RPC_cuGraphGetEdges_v2", 316952113);
   ("RPC_cuGraphNodeGetDependencies_v2", 773232156);
   ("RPC_cuGraphNodeGetDependentNodes_v2", 310507977); ("RPC_cuGraphDestroyNode", 1083979368);
   ("RPC_cuGraphInstantiateWithFlags", 115605169);
   ("RPC_cuGraphInstantiateWithParams", 403780036); ("RPC_cuGraphExecGetFlags", 126546988);
   ("RPC_cuGraphExecKernelNodeSetParams_v2", 1559422815)].

Definition rpc_ids_3 : list (string * Z) :=
  [("RPC_cuGraphExecMemcpyNodeSetParams", 2124575903);
   ("RPC_cuGraphExecMemsetNodeSetParams", 1486494622);
   ("RPC_cuGraphExecHostNodeSetParams", 1319428019);
   ("RPC_cuGraphExecChildGraphNodeSetParams", 1635085303);
   ("RPC_cuGraphExecEventRecordNodeSetEvent", 1375747425);
   ("RPC_cuGraphExecEventWaitNodeSetEvent", 269870708);
   ("RPC_cuGraphExecExternalSemaphoresSignalNodeSetParams", 681046650);
   ("RPC_cuGraphExecExternalSemaphoresWaitNodeSetParams", 1359272676);
   ("RPC_cuGraphNodeSetEnabled", 401629509); ("RPC_cuGraphNodeGetEnabled", 968179927);
   ("RPC_cuGraphUpload", 1940462400); ("RPC_cuGraphLaunch", 497265322);
   ("RPC_cuGraphExecDestroy", 652470004); ("RPC_cuGraphDestroy", 125492963);
   ("RPC_cuGraphExecUpdate_v2", 1802350491); ("RPC_cuGraphKernelNodeCopyAttributes", 800820327);
   ("RPC_cuGraphKernelNodeGetAttribute", 1646220786);
   ("RPC_cuGraphKernelNodeSetAttribute", 1828815729); ("RPC_cuGraphDebugDotPrint", 861277981);
   ("RPC_cuUserObjectRetain", 1919887946); ("RPC_cuUserObjectRelease", 1470942030);
   ("RPC_cuGraphRetainUserObject", 430924800); ("RPC_cuGraphReleaseUserObject", 127294699);
   ("RPC_cuGraphNodeSetParams", 886812701); ("RPC_cuGraphExecNodeSetParams", 598468608);
   ("RPC_cuOccupancyMaxActiveBlocksPerMultiprocessor", 949228373);
   ("RPC_cuOccupancyMaxActiveBlocksPerMultiprocessorWithFlags", 1746375403);
   ("RPC_cuOccupancyMaxPotentialBlockSize", 2031689913);
   ("RPC_cuOccupancyMaxPotentialBlockSizeWithFlags", 311617137);
   ("RPC_cuOccupancyAvailableDynamicSMemPerBlock", 1751947789);
   ("RPC_cuOccupancyMaxPotentialClusterSize", 600198052);
   ("RPC_cuOccupancyMaxActiveClusters", 1268580669); ("RPC_cuTexRefSetArray", 1254781223);
   ("RPC_cuTexRefSetMipmappedArray", 602511400); ("RPC_cuTexRefSetAddress_v2", 501996374);
   ("RPC_cuTexRefSetAddress2D_v3", 16980569); ("RPC_cuTexRefSetFormat", 786310916);
   ("RPC_cuTexRefSetAddressMode", 1749653625); ("RPC_cuTexRefSetFilterMode", 977927873);
   ("RPC_cuTexRefSetMipmapFilterMode", 417485554);
   ("RPC_cuTexRefSetMipmapLevelBias", 697462731);
   ("RPC_cuTexRefSetMipmapLevelClamp", 1348989371); ("RPC_cuTexRefSetMaxAnisotropy", 683183816);
   ("RPC_cuTexRefSetBorderColor", 1851975707); ("RPC_cuTexRefSetFlags", 1623449130);
   ("RPC_cuTexRefGetAddress_v2", 1767184154); ("RPC_cuTexRefGetArray", 842747638);
   ("RPC_cuTexRefGetMipmappedArray", 1202726554); ("RPC_cuTexRefGetAddressMode", 391588622);
   ("RPC_cuTexRefGetFilterMode", 1324823181); ("RPC_cuTexRefGetFormat", 1609708665);
   ("RPC_cuTexRefGetMipmapFilterMode", 1657299994);
   ("RPC_cuTexRefGetMipmapLevelBias", 211412181);
   ("RPC_cuTexRefGetMipmapLevelClamp", 709740371); ("RPC_cuTexRefGetMaxAnisotropy", 447675601);
   ("RPC_cuTexRefGetBorderColor", 293362540); ("RPC_cuTexRefGetFlags", 405987835);
   ("RPC_cuTexRefCreate", 1758296153); ("RPC_cuTexRefDestroy", 1148542759);
   ("RPC_cuSurfRefSetArray", 744390045); ("RPC_cuSurfRefGetArray", 1420771916);
   ("RPC_cuTexObjectCreate", 1162222816); ("RPC_cuTexObjectDestroy", 1994776427);
   ("RPC_cuTexObjectGetResourceDesc", 6594881); ("RPC_cuTexObjectGetTextureDesc", 261422137);
   ("RPC_cuTexObjectGetResourceViewDesc", 1758800160); ("RPC_cuSurfObjectCreate", 1855246974);
   ("RPC_cuSurfObjectDestroy", 1635365862); ("RPC_cuSurfObjectGetResourceDesc", 1009289841);
   ("RPC_cuTensorMapEncodeTiled", 1386204641); ("RPC_cuTensorMapEncodeIm2col", 1203430832);
   ("RPC_cuTensorMapReplaceAddress", 1209139891); ("RPC_cuDeviceCanAccessPeer", 1419231701);
   ("RPC_cuCtxEnablePeerAccess", 1737933368); ("RPC_cuCtxDisablePeerAccess", 1900602041);
   ("RPC_cuDeviceGetP2PAttribute", 281845697); ("RPC_cuGraphicsUnregisterResource", 810484259);
   ("RPC_cuGraphicsSubResourceGetMappedArray", 65277060);
   ("RPC_cuGraphicsResourceGetMappedMipmappedArray", 2136009832);
   ("RPC_cuGraphicsResourceGetMappedPointer_v2", 1222294105);
   ("RPC_cuGraphicsResourceSetMapFlags_v2", 955282896);
   ("RPC_cuGraphicsMapResources", 156810469); ("RPC_cuGraphicsUnmapResources", 121118754);
   ("RPC_cuCoredumpGetAttributeGlobal", 2132238767);
   ("RPC_cuCoredumpSetAttributeGlobal", 1511844529); ("RPC_cuGreenCtxCreate", 1079242194);
   ("RPC_cuGreenCtxDestroy", 1043831578); ("RPC_cuCtxFromGreenCtx", 488721360);
   ("RPC_cuDeviceGetDevResource", 248376662); ("RPC_cuCtxGetDevResource", 299446088);
   ("RPC_cuGreenCtxGetDevResource", 1557019419);
   ("RPC_cuDevSmResourceSplitByCount", 2128109816); ("RPC_cuDevSmResourceSplit", 1230886197);
   ("RPC_cuDevResourceGenerateDesc", 1242809183); ("RPC_cuGreenCtxRecordEvent", 1473921838);
   ("RPC_cuGreenCtxWaitEvent", 1136327306); ("RPC_cuStreamGetGreenCtx", 1723357044);
   ("RPC_cuGreenCtxStreamCreate", 1433266945); ("RPC_cuGreenCtxGetId", 1724676806);
   ("RPC_cuStreamGetDevResource", 494275841); ("RPC_cuLogsRegisterCallback", 1180166835);
   ("RPC_cuLogsUnregisterCallback", 837442292); ("RPC_cuLogsCurrent", 1759869652);
   ("RPC_cuLogsDumpToFile", 995845771); ("RPC_cuLogsDumpToMemory", 330498516);
   ("RPC_cuGraphInstantiate_v2", 1599532620); ("RPC_cuGraphExecUpdate", 882549126);
   ("RPC_cuCtxCreate_v2", 804269166); ("RPC_cuCtxCreate_v3", 1492589816);
   ("RPC_cuGraphAddDependencies_v2", 1733357590); ("RPC_cuGraphAddNode_v2", 1958016248);
   ("RPC_cuGraphRemoveDependencies_v2", 1606074400); ("RPC_cuMemAdvise", 2001260778);
   ("RPC_cuMemPrefetchAsync", 596440383);
   ("RPC_cuStreamUpdateCaptureDependencies_v2", 434730116); ("RPC_nvmlInit_v2", 2103095296);
   ("RPC_nvmlInitWithFlags", 1768977338); ("RPC_nvmlShutdown", 999915332);
   ("RPC_nvmlSystemGetDriverVersion", 697104280); ("RPC_nvmlSystemGetNVMLVersion", 533181831);
   ("RPC_nvmlSystemGetCudaDriverVersion", 789458020);
   ("RPC_nvmlSystemGetCudaDriverVersion_v2", 943987221);
   ("RPC_nvmlDeviceGetCount_v2", 98120152); ("RPC_nvmlDeviceGetHandleByIndex_v2", 2092908111);
   ("RPC_nvmlDeviceGetHandleByUUID", 378153426);
   ("RPC_nvmlDeviceGetHandleByPciBusId_v2", 920217164); ("RPC_nvmlDeviceGetName", 1846965399);
   ("RPC_nvmlDeviceGetUUID", 2012027069); ("RPC_nvmlDeviceGetIndex", 122417625);
   ("RPC_nvmlDeviceGetMinorNumber", 1788364338); ("RPC_nvmlDeviceGetPciInfo_v3", 2006070920);
   ("RPC_nvmlDeviceGetMemoryInfo", 1622472062);
   ("RPC_nvmlDeviceGetUtilizationRates", 1071099370);
   ("RPC_nvmlDeviceGetTemperature", 1333836757); ("RPC_nvmlDeviceGetPowerUsage", 133448375);
   ("RPC_nvmlDeviceGetPowerManagementLimit", 1827855002);
   ("RPC_nvmlDeviceGetClockInfo", 756917670); ("RPC_nvmlDeviceGetMaxClockInfo", 1022897731);
   ("RPC_nvmlDeviceGetPerformanceState", 1118968960);
   ("RPC_nvmlDeviceGetComputeMode", 459409181); ("RPC_nvmlDeviceGetPersistenceMode", 796517793);
   ("RPC_nvmlDeviceGetFanSpeed", 1759480012); ("RPC_nvmlDeviceGetBrand", 459960192);
   ("RPC_nvmlDeviceGetVbiosVersion", 1810680486); ("RPC_nvmlDeviceGetSerial", 1543220140);
   ("RPC_nvmlDeviceGetBoardPartNumber", 1447794502);
   ("RPC_nvmlDeviceGetDisplayMode", 1594411916); ("RPC_nvmlDeviceGetDisplayActive", 1976945070)].

Definition rpc_ids_4 : list (string * Z) :=
  [("RPC_nvmlDeviceGetCurrPcieLinkGeneration", 1809282924);
   ("RPC_nvmlDeviceGetCurrPcieLinkWidth", 1948690486);
   ("RPC_nvmlDeviceGetMaxPcieLinkGeneration", 894528339);
   ("RPC_nvmlDeviceGetMaxPcieLinkWidth", 1143822398);
   ("RPC_nvmlDeviceGetPcieThroughput", 1508742809);
   ("RPC_nvmlDeviceGetPcieReplayCounter", 348659925);
   ("RPC_nvmlDeviceGetComputeRunningProcesses", 1734808954);
   ("RPC_nvmlDeviceGetComputeRunningProcesses_v2", 337035361);
   ("RPC_nvmlDeviceGetComputeRunningProcesses_v3", 1662120183);
   ("RPC_nvmlDeviceGetProcessUtilization", 986214394);
   ("RPC_nvmlDeviceGetGraphicsRunningProcesses", 1362373604);
   ("RPC_nvmlDeviceGetGraphicsRunningProcesses_v2", 1346129566);
   ("RPC_nvmlDeviceGetGraphicsRunningProcesses_v3", 658210312);
   ("RPC_nvmlDeviceGetMPSComputeRunningProcesses", 770735307);
   ("RPC_nvmlDeviceGetMPSComputeRunningProcesses_v2", 182354437);
   ("RPC_nvmlDeviceGetMPSComputeRunningProcesses_v3", 2111419027);
   ("RPC_nvmlEventSetCreate", 218928397); ("RPC_nvmlEventSetFree", 1100770030);
   ("RPC_nvmlEventSetWait_v2", 91923698); ("RPC_nvmlDeviceRegisterEvents", 419388018);
   ("RPC_nvmlDeviceGetMaxMigDeviceCount", 985332276);
   ("RPC_nvmlDeviceGetTotalEccErrors", 1379896477);
   ("RPC_nvmlDeviceGetDetailedEccErrors", 576452765);
   ("RPC_nvmlDeviceGetMemoryErrorCounter", 15905267); ("RPC_nvmlDeviceGetEccMode", 1377895810);
   ("RPC_nvmlDeviceGetTemperatureV", 645709228);
   ("RPC_nvmlDeviceGetEnforcedPowerLimit", 1601332534);
   ("RPC_nvmlDeviceGetMemoryInfo_v2", 1387993144); ("RPC_nvmlDeviceGetMigMode", 903204419);
   ("RPC_nvmlDeviceGetVirtualizationMode", 1861763383);
   ("RPC_nvmlDeviceIsMigDeviceHandle", 1693389219);
   ("RPC_nvmlDeviceGetNvLinkRemoteDeviceType", 65527014);
   ("RPC_nvmlDeviceGetNvLinkRemotePciInfo_v2", 1998574024);
   ("RPC_nvmlDeviceGetCudaComputeCapability", 1264755594); ("RPC_hipInit", 874444791);
   ("RPC_hipGetDeviceCount", 1401409107); ("RPC_hipDeviceGet", 1529875909);
   ("RPC_hipSetDevice", 2095695091); ("RPC_hipGetDevice", 231069582);
   ("RPC_hipGetLastError", 1798010550); ("RPC_hipExtGetLastError", 696469396);
   ("RPC_hipPeekAtLastError", 1304510228); ("RPC_hipGetErrorString", 2139246685);
   ("RPC_hipGetErrorName", 2091111978); ("RPC_hipGetDevicePropertiesR0600", 768204638);
   ("RPC_hipDeviceGetName", 2031968752); ("RPC_hipDeviceTotalMem", 53957243);
   ("RPC_hipDeviceGetAttribute", 1095006000); ("RPC_hipDriverGetVersion", 380424251);
   ("RPC_hipRuntimeGetVersion", 392869969); ("RPC_hipDeviceComputeCapability", 740251210);
   ("RPC_hipDeviceGetUuid", 1983991632); ("RPC_hipDeviceGetP2PAttribute", 1829514971);
   ("RPC_hipDeviceGetPCIBusId", 125805850); ("RPC_hipDeviceGetByPCIBusId", 763819792);
   ("RPC_hipDeviceSynchronize", 436026727); ("RPC_hipDeviceReset", 1799926473);
   ("RPC_hipDeviceGetDefaultMemPool", 1171842181); ("RPC_hipDeviceSetMemPool", 1933982472);
   ("RPC_hipDeviceGetMemPool", 1560484506);
   ("RPC_hipDeviceGetTexture1DLinearMaxWidth", 1191796348);
   ("RPC_hipDeviceSetCacheConfig", 1759141349); ("RPC_hipDeviceGetCacheConfig", 398782098);
   ("RPC_hipDeviceGetLimit", 728727894); ("RPC_hipDeviceSetLimit", 1402912391);
   ("RPC_hipDeviceGetSharedMemConfig", 2968555); ("RPC_hipGetDeviceFlags", 1566296971);
   ("RPC_hipDeviceSetSharedMemConfig", 623296757); ("RPC_hipSetDeviceFlags", 574978300);
   ("RPC_hipChooseDeviceR0600", 1790387120); ("RPC_hipExtGetLinkTypeAndHopCount", 766535824);
   ("RPC_hipDeviceGetStreamPriorityRange", 1073922701);
   ("RPC_hipDeviceGraphMemTrim", 1648377237); ("RPC_hipProfilerStart", 1453213330);
   ("RPC_hipProfilerStop", 922895952); ("RPC_hipIpcGetMemHandle", 1609040413);
   ("RPC_hipIpcOpenMemHandle", 1828712535); ("RPC_hipIpcCloseMemHandle", 678955511);
   ("RPC_hipIpcGetEventHandle", 1367907250); ("RPC_hipIpcOpenEventHandle", 145562650);
   ("RPC_hipStreamCreate", 1825929155); ("RPC_hipStreamCreateWithFlags", 1884959538);
   ("RPC_hipStreamCreateWithPriority", 1801306485); ("RPC_hipStreamDestroy", 1412119922);
   ("RPC_hipStreamQuery", 558257398); ("RPC_hipStreamSynchronize", 547897509);
   ("RPC_hipStreamWaitEvent", 1361803236); ("RPC_hipStreamGetFlags", 52632290);
   ("RPC_hipStreamGetId", 1554983917); ("RPC_hipStreamGetPriority", 189506245);
   ("RPC_hipStreamGetDevice", 1813465363); ("RPC_hipExtStreamCreateWithCUMask", 43519609);
   ("RPC_hipExtStreamGetCUMask", 1911123527); ("RPC_hipStreamSetAttribute", 998856530);
   ("RPC_hipStreamGetAttribute", 882344401); ("RPC_hipStreamCopyAttributes", 279755587);
   ("RPC_hipStreamWaitValue32", 1444899531); ("RPC_hipStreamWaitValue64", 1108032443);
   ("RPC_hipStreamWriteValue32", 939132198); ("RPC_hipStreamWriteValue64", 602821718);
   ("RPC_hipStreamBatchMemOp", 1917227439); ("RPC_hipGraphAddBatchMemOpNode", 475609756);
   ("RPC_hipGraphBatchMemOpNodeSetParams", 456339363);
   ("RPC_hipGraphExecBatchMemOpNodeSetParams", 1179744060);
   ("RPC_hipEventCreateWithFlags", 1357803094); ("RPC_hipEventCreate", 1834041308);
   ("RPC_hipEventRecordWithFlags", 1621823971); ("RPC_hipEventRecord", 2041790646);
   ("RPC_hipEventDestroy", 1503835343); ("RPC_hipEventSynchronize", 1478240882);
   ("RPC_hipEventElapsedTime", 1687863322); ("RPC_hipEventQuery", 454592034);
   ("RPC_hipPointerGetAttributes", 858957949); ("RPC_hipMalloc", 856237715);
   ("RPC_hipExtMallocWithFlags", 823589107); ("RPC_hipMallocManaged", 555095744);
   ("RPC_hipMemPrefetchAsync", 446258599); ("RPC_hipMemPrefetchAsync_v2", 1944222953);
   ("RPC_hipMemAdvise", 1304571487); ("RPC_hipMemAdvise_v2", 815725599);
   ("RPC_hipMemRangeGetAttribute", 726996022); ("RPC_hipStreamAttachMemAsync", 1117315610);
   ("RPC_hipMallocAsync", 1184587551); ("RPC_hipFreeAsync", 586005480);
   ("RPC_hipMemPoolTrimTo", 1195321392); ("RPC_hipMemPoolSetAccess", 247204412);
   ("RPC_hipMemPoolGetAccess", 2140150081); ("RPC_hipMemPoolCreate", 1869713779);
   ("RPC_hipMemPoolDestroy", 524888600); ("RPC_hipMallocFromPoolAsync", 181876695);
   ("RPC_hipMemPoolExportPointer", 1948049868); ("RPC_hipMemPoolImportPointer", 2048770779);
   ("RPC_hipMallocPitch", 236675648); ("RPC_hipMemAllocPitch", 911410500);
   ("RPC_hipFree", 1061474891); ("RPC_hipMemcpyHtoD", 2100375026);
   ("RPC_hipMemcpyDtoH", 1045552737); ("RPC_hipMemcpyDtoD", 937923146);
   ("RPC_hipMemcpyAtoD", 3760760); ("RPC_hipMemcpyDtoA", 1200449221);
   ("RPC_hipMemcpyAtoA", 1884526327); ("RPC_hipMemcpyDtoDAsync", 754793247);
   ("RPC_hipMemcpyAtoH", 160378451); ("RPC_hipMemcpyHtoA", 224123261);
   ("RPC_hipMemcpy2DArrayToArray", 1154570472); ("RPC_hipMemcpyPeer", 1076750038);
   ("RPC_hipMemcpyPeerAsync", 462660137); ("RPC_hipModuleGetGlobal", 1293905325)].

Definition rpc_ids_5 : list (string * Z) :=
  [("RPC_hipMemset", 276000310); ("RPC_hipMemsetD8", 1591274809);
   ("RPC_hipMemsetD8Async", 987456393); ("RPC_hipMemsetD16", 329355704);
   ("RPC_hipMemsetD16Async", 155420440); ("RPC_hipMemsetD32", 653932323);
   ("RPC_hipMemsetAsync", 1194567116); ("RPC_hipMemsetD32Async", 88986663);
   ("RPC_hipMemset2D", 2114850398); ("RPC_hipMemset2DAsync", 1233341218);
   ("RPC_hipMemset3D", 1729445663); ("RPC_hipMemset3DAsync", 1878278294);
   ("RPC_hipMemsetD2D8", 543582225); ("RPC_hipMemsetD2D8Async", 1410489964);
   ("RPC_hipMemsetD2D16", 652904391); ("RPC_hipMemsetD2D16Async", 1498241234);
   ("RPC_hipMemsetD2D32", 330375516); ("RPC_hipMemsetD2D32Async", 1430457325);
   ("RPC_hipMemGetInfo", 960193582); ("RPC_hipMemPtrGetInfo", 1288493502);
   ("RPC_hipMemGetAddressRange", 1691195591); ("RPC_hipMallocArray", 143143470);
   ("RPC_hipArrayCreate", 607498480); ("RPC_hipArrayDestroy", 1806941347);
   ("RPC_hipArray3DCreate", 376790905); ("RPC_hipMalloc3D", 1281531243);
   ("RPC_hipFreeArray", 1828640473); ("RPC_hipMalloc3DArray", 1452974545);
   ("RPC_hipArrayGetInfo", 1511001694); ("RPC_hipArrayGetDescriptor", 997553268);
   ("RPC_hipArray3DGetDescriptor", 1127750241); ("RPC_hipMallocMipmappedArray", 962339914);
   ("RPC_hipFreeMipmappedArray", 1351354847); ("RPC_hipGetMipmappedArrayLevel", 339859544);
   ("RPC_hipMipmappedArrayCreate", 195065962); ("RPC_hipMipmappedArrayDestroy", 2076594993);
   ("RPC_hipMipmappedArrayGetLevel", 2109106703); ("RPC_hipDeviceCanAccessPeer", 747961006);
   ("RPC_hipDeviceEnablePeerAccess", 1000503460); ("RPC_hipDeviceDisablePeerAccess", 145557868);
   ("RPC_hipCtxCreate", 560040758); ("RPC_hipCtxDestroy", 431066909);
   ("RPC_hipCtxPopCurrent", 60606280); ("RPC_hipCtxPushCurrent", 2004059877);
   ("RPC_hipCtxSetCurrent", 2043672623); ("RPC_hipCtxGetCurrent", 1468717501);
   ("RPC_hipCtxGetDevice", 723329345); ("RPC_hipCtxGetApiVersion", 213880012);
   ("RPC_hipCtxGetCacheConfig", 823298525); ("RPC_hipCtxSetCacheConfig", 1309424298);
   ("RPC_hipCtxSetSharedMemConfig", 782676575); ("RPC_hipCtxGetSharedMemConfig", 195901761);
   ("RPC_hipCtxSynchronize", 1800163603); ("RPC_hipCtxGetFlags", 1591999641);
   ("RPC_hipCtxEnablePeerAccess", 529922371); ("RPC_hipCtxDisablePeerAccess", 912738614);
   ("RPC_hipDevicePrimaryCtxGetState", 325650665);
   ("RPC_hipDevicePrimaryCtxRelease", 845493942); ("RPC_hipDevicePrimaryCtxRetain", 1848434567);
   ("RPC_hipDevicePrimaryCtxReset", 804348946); ("RPC_hipDevicePrimaryCtxSetFlags", 1125033081);
   ("RPC_hipModuleUnload", 1829424577); ("RPC_hipModuleGetFunction", 146832710);
   ("RPC_hipModuleGetFunctionCount", 1745566413); ("RPC_hipLibraryUnload", 849101146);
   ("RPC_hipLibraryGetKernel", 131386109); ("RPC_hipLibraryGetKernelCount", 680393411);
   ("RPC_hipLibraryEnumerateKernels", 1135426001); ("RPC_hipKernelGetLibrary", 1656222160);
   ("RPC_hipFuncGetAttribute", 2068512521);
   ("RPC_hipModuleOccupancyMaxPotentialBlockSize", 1064503195);
   ("RPC_hipModuleOccupancyMaxPotentialBlockSizeWithFlags", 626116889);
   ("RPC_hipModuleOccupancyMaxActiveBlocksPerMultiprocessor", 1046575200);
   ("RPC_hipModuleOccupancyMaxActiveBlocksPerMultiprocessorWithFlags", 1630494200);
   ("RPC_hipCreateTextureObject", 573267887); ("RPC_hipDestroyTextureObject", 1891956594);
   ("RPC_hipGetChannelDesc", 2026556736); ("RPC_hipGetTextureObjectResourceDesc", 1793437176);
   ("RPC_hipGetTextureObjectResourceViewDesc", 239792152);
   ("RPC_hipGetTextureObjectTextureDesc", 1052292904); ("RPC_hipTexObjectCreate", 1398621699);
   ("RPC_hipTexObjectDestroy", 1341159411); ("RPC_hipTexObjectGetResourceDesc", 2003819219);
   ("RPC_hipTexObjectGetResourceViewDesc", 179157738);
   ("RPC_hipTexObjectGetTextureDesc", 65009720); ("RPC_hipCreateSurfaceObject", 1401528210);
   ("RPC_hipDestroySurfaceObject", 23476047); ("RPC_hipStreamBeginCapture", 312570029);
   ("RPC_hipStreamBeginCaptureToGraph", 1252152054); ("RPC_hipStreamEndCapture", 2134773288);
   ("RPC_hipStreamGetCaptureInfo", 1658541744); ("RPC_hipStreamIsCapturing", 941608547);
   ("RPC_hipStreamUpdateCaptureDependencies", 484954770);
   ("RPC_hipThreadExchangeStreamCaptureMode", 1364083741); ("RPC_hipGraphCreate", 678798024);
   ("RPC_hipGraphDestroy", 1136477231); ("RPC_hipGraphAddDependencies", 1848149494);
   ("RPC_hipGraphRemoveDependencies", 1269245026); ("RPC_hipGraphGetEdges", 583134685);
   ("RPC_hipGraphGetNodes", 5694868); ("RPC_hipGraphGetRootNodes", 432255245);
   ("RPC_hipGraphNodeGetDependencies", 2121239528);
   ("RPC_hipGraphNodeGetDependentNodes", 1735681054); ("RPC_hipGraphNodeGetType", 1581619966);
   ("RPC_hipGraphDestroyNode", 2039062256); ("RPC_hipGraphClone", 1299084457);
   ("RPC_hipGraphNodeFindInClone", 393111716); ("RPC_hipGraphInstantiate", 1388188059);
   ("RPC_hipGraphInstantiateWithFlags", 412420002);
   ("RPC_hipGraphInstantiateWithParams", 481363683); ("RPC_hipGraphLaunch", 1578374598);
   ("RPC_hipGraphUpload", 807314476); ("RPC_hipGraphExecGetFlags", 2036857586);
   ("RPC_hipGraphExecDestroy", 536235628); ("RPC_hipGraphExecUpdate", 578943845);
   ("RPC_hipGraphAddMemsetNode", 2106451547); ("RPC_hipGraphMemsetNodeGetParams", 2062936279);
   ("RPC_hipGraphMemsetNodeSetParams", 198835114);
   ("RPC_hipGraphExecMemsetNodeSetParams", 987924564);
   ("RPC_hipGraphAddChildGraphNode", 486316219);
   ("RPC_hipGraphChildGraphNodeGetGraph", 857634627);
   ("RPC_hipGraphExecChildGraphNodeSetParams", 1133154486);
   ("RPC_hipGraphAddEmptyNode", 1641629979); ("RPC_hipGraphAddEventRecordNode", 439893146);
   ("RPC_hipGraphEventRecordNodeGetEvent", 1433182574);
   ("RPC_hipGraphEventRecordNodeSetEvent", 765304511);
   ("RPC_hipGraphExecEventRecordNodeSetEvent", 1895810592);
   ("RPC_hipGraphAddEventWaitNode", 107750798);
   ("RPC_hipGraphEventWaitNodeGetEvent", 1942264681);
   ("RPC_hipGraphEventWaitNodeSetEvent", 188064952);
   ("RPC_hipGraphExecEventWaitNodeSetEvent", 1208383798);
   ("RPC_hipGraphAddMemFreeNode", 252795209); ("RPC_hipGraphMemFreeNodeGetParams", 1865236538);
   ("RPC_hipGraphKernelNodeCopyAttributes", 1416159066);
   ("RPC_hipGraphNodeSetEnabled", 1878219326); ("RPC_hipGraphNodeGetEnabled", 1102478252);
   ("RPC_hipDrvGraphAddMemsetNode", 220693957); ("RPC_hipDrvGraphAddMemFreeNode", 416697705);
   ("RPC_hipDrvGraphExecMemsetNodeSetParams", 1468769792);
   ("RPC_hipMemAddressFree", 1799102561); ("RPC_hipMemAddressReserve", 2106933134);
   ("RPC_hipMemCreate", 1817498232); ("RPC_hipMemGetAccess", 1670725154);
   ("RPC_hipMemGetAllocationGranularity", 1052008196);
   ("RPC_hipMemGetAllocationPropertiesFromHandle", 1559380204); ("RPC_hipMemMap", 1569171377);
   ("RPC_hipMemMapArrayAsync", 835662343)].

Definition rpc_ids_6 : list (string * Z) :=
  [("RPC_hipMemRelease", 1788171189); ("RPC_hipMemRetainAllocationHandle", 1862472557);
   ("RPC_hipMemSetAccess", 314125663); ("RPC_hipMemUnmap", 1146827046);
   ("RPC_hipModuleLoadData", 417453143); ("RPC_hipModuleLaunchKernel", 348401074);
   ("RPC_hipLaunchKernel", 1869134569); ("RPC_ncclMemAlloc", 1326162165);
   ("RPC_ncclMemFree", 1631597426); ("RPC_ncclGetVersion", 260300160);
   ("RPC_ncclGetUniqueId", 657352580); ("RPC_ncclCommInitRankConfig", 1643502480);
   ("RPC_ncclCommInitRank", 148330077); ("RPC_ncclCommInitAll", 1891697224);
   ("RPC_ncclCommFinalize", 1990489677); ("RPC_ncclCommDestroy", 828174473);
   ("RPC_ncclCommAbort", 1808394778); ("RPC_ncclCommRevoke", 1367654471);
   ("RPC_ncclCommSplit", 545899567); ("RPC_ncclCommShrink", 1936254452);
   ("RPC_ncclCommGetUniqueId", 1495857969); ("RPC_ncclCommGrow", 26303924);
   ("RPC_ncclCommInitRankScalable", 378230815); ("RPC_ncclGetErrorString", 1866345705);
   ("RPC_ncclGetLastError", 1811818092); ("RPC_ncclResetDebugInit", 1177543916);
   ("RPC_ncclCommGetAsyncError", 1152202705); ("RPC_ncclCommCount", 346364508);
   ("RPC_ncclCommCuDevice", 1764298976); ("RPC_ncclCommUserRank", 1565047532);
   ("RPC_ncclCommRegister", 210224466); ("RPC_ncclCommDeregister", 743988152);
   ("RPC_ncclCommSuspend", 2095394664); ("RPC_ncclCommResume", 565293397);
   ("RPC_ncclCommMemStats", 1089613616); ("RPC_ncclCommWindowRegister", 1150252871);
   ("RPC_ncclCommWindowDeregister", 1048749828); ("RPC_ncclWinGetUserPtr", 1790926879);
   ("RPC_ncclGetLsaMultimemDevicePointer", 1288659017);
   ("RPC_ncclGetPeerDevicePointer", 484920634); ("RPC_ncclRedOpCreatePreMulSum", 352857648);
   ("RPC_ncclRedOpDestroy", 1759621512); ("RPC_ncclReduce", 1591367296);
   ("RPC_ncclBcast", 2020285786); ("RPC_ncclBroadcast", 1498009771);
   ("RPC_ncclAllReduce", 555321583); ("RPC_ncclReduceScatter", 1665720226);
   ("RPC_ncclAllGather", 384628986); ("RPC_ncclAlltoAll", 907223093);
   ("RPC_ncclGather", 1764697749); ("RPC_ncclScatter", 410260386);
   ("RPC_ncclAllReduceConfig", 557599884); ("RPC_ncclBroadcastConfig", 746174134);
   ("RPC_ncclReduceConfig", 876299582); ("RPC_ncclAllGatherConfig", 459877099);
   ("RPC_ncclReduceScatterConfig", 2035510284); ("RPC_ncclAlltoAllConfig", 1160767875);
   ("RPC_ncclGatherConfig", 242099033); ("RPC_ncclScatterConfig", 938453374);
   ("RPC_ncclSend", 1857722063); ("RPC_ncclRecv", 269614767); ("RPC_ncclPutSignal", 1793532297);
   ("RPC_ncclSignal", 425349501); ("RPC_ncclWaitSignal", 637000167);
   ("RPC_ncclGroupStart", 651597247); ("RPC_ncclGroupEnd", 1341624474);
   ("RPC_ncclGroupSimulateEnd", 1930460298); ("RPC_ncclParamBind", 1444214384);
   ("RPC_ncclParamGetI8", 427720280); ("RPC_ncclParamGetI16", 701720293);
   ("RPC_ncclParamGetI32", 478724222); ("RPC_ncclParamGetI64", 144478478);
   ("RPC_ncclParamGetU8", 2131305221); ("RPC_ncclParamGetU16", 1022311665);
   ("RPC_ncclParamGetU32", 162830954); ("RPC_ncclParamGetU64", 497077018);
   ("RPC_ncclParamGetStr", 1155366538); ("RPC_ncclParamGet", 438541439);
   ("RPC_ncclParamGetParameter", 1039902765); ("RPC_ncclParamGetAllParameterKeys", 757121552);
   ("RPC_ncclParamDumpAll", 8880191); ("LUPINE_RPC_cuGetExportTableMetadata", 565915314);
   ("LUPINE_RPC_cuGraphConditionalHandleCreate", 1689373620);
   ("LUPINE_RPC_cuPrivateGetModuleNode", 1986234018);
   ("LUPINE_RPC_cuStreamBeginCaptureToGraph", 1423223781);
   ("LUPINE_RPC_cuStreamGetCaptureInfo_v3", 1793131524);
   ("LUPINE_RPC_lupineDeviceSnapshot", 838398900);
   ("LUPINE_RPC_lupineFunctionAttributeSnapshot", 115640665);
   ("LUPINE_RPC_lupineFunctionParamLayoutSnapshot", 1930405904);
   ("LUPINE_RPC_lupineManagedHostFlush", 1450411892);
   ("LUPINE_RPC_lupineMemcpyDtoHAsyncPinned", 160311540);
   ("LUPINE_RPC_lupineBulkChunk", 748924565); ("LUPINE_RPC_lupineMemcpyHtoDBulk", 1887368726);
   ("LUPINE_RPC_lupineBulkRead", 1532818193); ("LUPINE_RPC_lupineMemcpyDtoHBulk", 1646333528);
   ("LUPINE_RPC_lupineStreamPoolInit", 394532239);
   ("LUPINE_RPC_lupineEventCreateBatch", 178746252);
   ("LUPINE_RPC_lupineLibraryLoadBatch", 1285236640);
   ("LUPINE_RPC_lupineDeviceOpen", 1273631741); ("LUPINE_RPC_lupineDeviceClose", 31060484);
   ("LUPINE_RPC_lupineDeviceIoctl", 1717277260)].

Definition rpc_ids : list (string * Z) :=
  rpc_ids_1 ++ rpc_ids_2 ++ rpc_ids_3 ++ rpc_ids_4 ++ rpc_ids_5 ++ rpc_ids_6.

Definition lookup_id (macro : string) : option Z :=
  snd <$> List.find (fun e => String.eqb e.1 macro) rpc_ids.

(** ** What the ids promise *)

(** A fact of every element, and no element twice, decided on a whole table. *)
Lemma forallb_elem {A} (f : A -> bool) (l : list A) x : forallb f l = true -> x ∈ l -> f x = true.
Proof. rewrite forallb_forall. intros Hf Hx. by apply Hf, list_elem_of_In. Qed.

Lemma rpc_ids_hashed :
  forallb (fun e => bool_decide (rpc_id <$> operation_of e.1 = Some e.2)) rpc_ids = true.
Proof. by vm_cast_no_check (@eq_refl bool true). Qed.

Lemma rpc_ids_nodup : bool_decide (NoDup rpc_ids.*2) = true.
Proof. by vm_cast_no_check (@eq_refl bool true). Qed.

Lemma NoDup_fmap_eq {A B} (f : A -> B) (l : list A) x y :
  NoDup (f <$> l) -> x ∈ l -> y ∈ l -> f x = f y -> x = y.
Proof.
  intros Hnd [i Hx]%list_elem_of_lookup [j Hy]%list_elem_of_lookup Hf.
  assert (i = j) as ->; [|congruence].
  apply (NoDup_lookup (f <$> l) i j (f x)); [done| |]; rewrite list_lookup_fmap.
  - by rewrite Hx.
  - by rewrite Hy, Hf.
Qed.

Lemma rpc_id_range operation : 0 <= rpc_id operation < 2 ^ 31.
Proof.
  unfold rpc_id. change 0x7FFFFFFF with (Z.ones 31). rewrite Z.land_ones by lia.
  apply Z.mod_pos_bound. lia.
Qed.

Lemma lookup_id_range macro i : lookup_id macro = Some i -> 0 <= i < 2 ^ 31.
Proof.
  unfold lookup_id. intros ([m i'] & Hf & ->)%fmap_Some. apply List.find_some in Hf as [Hin _].
  apply list_elem_of_In in Hin. pose proof (forallb_elem _ _ _ rpc_ids_hashed Hin) as Hh.
  apply bool_decide_eq_true_1, fmap_Some in Hh as (name & _ & Hi). simpl in Hi |- *. subst.
  apply rpc_id_range.
Qed.

(** Functional: the id of every operation is the 31-bit CRC-32 of its name, so that ends
    built apart agree on it; it is not negative, which is how [rpc_dispatch] reports an
    error; and two operations have the same id only if they are the same. *)
Theorem rpc_ids_identify m1 i1 m2 i2 :
  (m1, i1) ∈ rpc_ids -> (m2, i2) ∈ rpc_ids ->
  operation_of m1 <> None /\ (forall name, operation_of m1 = Some name -> i1 = rpc_id name) /\
  0 <= i1 < 2 ^ 31 /\ (i1 = i2 -> m1 = m2).
Proof.
  intros H1 H2. pose proof (forallb_elem _ _ _ rpc_ids_hashed H1) as Hh.
  apply bool_decide_eq_true_1, fmap_Some in Hh as (name & Hn & Hi1). simpl in Hn, Hi1.
  rewrite Hn. subst i1.
  split_and!; [done|by intros ? [= <-]|apply rpc_id_range|apply rpc_id_range|].
  intros Hi. pose proof rpc_ids_nodup as Hnd%bool_decide_eq_true_1.
  by pose proof (NoDup_fmap_eq snd _ _ _ Hnd H1 H2 Hi) as [= ->].
Qed.

Lemma rpc_ids_identify_witness :
  0 <= 1234315198 < 2 ^ 31 /\ 1234315198 = rpc_id "cuInit".
Proof.
  destruct (rpc_ids_identify "RPC_cuInit" 1234315198 "RPC_cuInit" 1234315198) as (_ & Hi & Hr & _).
  - apply (bool_decide_eq_true_1 ((("RPC_cuInit", 1234315198) : string * Z) ∈ rpc_ids)).
    vm_compute. reflexivity.
  - apply (bool_decide_eq_true_1 ((("RPC_cuInit", 1234315198) : string * Z) ∈ rpc_ids)).
    vm_compute. reflexivity.
  - split; [exact Hr|]. apply Hi. reflexivity.
Defined.
