(* ===== verification/Registry.v ===== *)
(** * The handler registry and the dispatch of a request

    [codegen/registry.cpp] lists which handler serves which operation, under the
    preprocessor conditions of a build; [rpc_server.cpp] checks the registry at start-up
    and [rpc_server_dispatch] of [server.cpp] runs the handler of a request. *)
From S2P Require Import Prelude RpcIds.

Inductive rpc_backend := cuda | nvml | hip | nccl.

#[export] Instance rpc_backend_eq_dec : EqDecision rpc_backend.
Proof. solve_decision. Defined.

(** [HANDLER(operation, handler, backend)]: the macro of the operation, the function. *)
Inductive registry_entry := Entry (operation handler : string) (backend : rpc_backend).

#[export] Instance registry_entry_eq_dec : EqDecision registry_entry.
Proof. solve_decision. Defined.

(** The conditions around single entries. *)
Inductive cond :=
| CudaVersion (n : Z)
| NcclVersion (n : Z)
| OnLinux.

#[export] Instance cond_eq_dec : EqDecision cond.
Proof. solve_decision. Defined.

(** ** The tables *)

Definition cuda_handlers_1 : list registry_entry :=
  [Entry "RPC_cuGetErrorString" "handle_cuGetErrorString" cuda;
   Entry "RPC_cuGetErrorName" "handle_cuGetErrorName" cuda;
   Entry "RPC_cuDevicePrimaryCtxRetain" "handle_cuDevicePrimaryCtxRetain" cuda;
   Entry "RPC_cuDevicePrimaryCtxRelease_v2" "handle_cuDevicePrimaryCtxRelease_v2" cuda;
   Entry "RPC_cuDevicePrimaryCtxReset_v2" "handle_cuDevicePrimaryCtxReset_v2" cuda;
   Entry "RPC_cuCtxCreate_v2" "handle_cuCtxCreate_v2" cuda;
   Entry "RPC_cuCtxDestroy_v2" "handle_cuCtxDestroy_v2" cuda;
   Entry "RPC_cuCtxAttach" "handle_cuCtxAttach" cuda;
   Entry "RPC_cuCtxDetach" "handle_cuCtxDetach" cuda;
   Entry "RPC_cuModuleLoad" "handle_cuModuleLoad" cuda;
   Entry "RPC_cuModuleLoadData" "handle_cuModuleLoadData" cuda;
   Entry "RPC_cuModuleLoadDataEx" "handle_cuModuleLoadDataEx" cuda;
   Entry "RPC_cuModuleGetGlobal_v2" "handle_cuModuleGetGlobal_v2" cuda;
   Entry "RPC_cuLinkCreate_v2" "handle_cuLinkCreate_v2" cuda;
   Entry "RPC_cuLinkAddData_v2" "handle_cuLinkAddData_v2" cuda;
   Entry "RPC_cuLinkAddFile_v2" "handle_cuLinkAddFile_v2" cuda;
   Entry "RPC_cuLinkComplete" "handle_cuLinkComplete" cuda;
   Entry "RPC_cuLinkDestroy" "handle_cuLinkDestroy" cuda;
   Entry "RPC_cuLibraryLoadData" "handle_cuLibraryLoadData" cuda;
   Entry "RPC_cuLibraryUnload" "handle_cuLibraryUnload" cuda;
   Entry "RPC_cuLibraryGetModule" "handle_cuLibraryGetModule" cuda;
   Entry "RPC_cuMemFree_v2" "handle_cuMemFree_v2" cuda;
   Entry "RPC_cuMemFreeHost" "handle_cuMemFreeHost" cuda;
   Entry "RPC_cuMemHostAlloc" "handle_cuMemHostAlloc" cuda;
   Entry "RPC_cuMemHostGetFlags" "handle_cuMemHostGetFlags" cuda;
   Entry "RPC_cuMemAllocManaged" "handle_cuMemAllocManaged" cuda;
   Entry "RPC_cuMemcpyHtoD_v2" "handle_cuMemcpyHtoD_v2" cuda;
   Entry "RPC_cuMemcpyDtoH_v2" "handle_cuMemcpyDtoH_v2" cuda;
   Entry "RPC_cuMemcpyAtoH_v2" "handle_cuMemcpyAtoH_v2" cuda;
   Entry "RPC_cuMemcpy2D_v2" "handle_cuMemcpy2D_v2" cuda;
   Entry "RPC_cuMemcpy2DUnaligned_v2" "handle_cuMemcpy2DUnaligned_v2" cuda;
   Entry "RPC_cuMemcpy3D_v2" "handle_cuMemcpy3D_v2" cuda;
   Entry "RPC_cuMemcpy3DPeer" "handle_cuMemcpy3DPeer" cuda;
   Entry "RPC_cuMemcpyHtoDAsync_v2" "handle_cuMemcpyHtoDAsync_v2" cuda;
   Entry "RPC_cuMemcpyDtoHAsync_v2" "handle_cuMemcpyDtoHAsync_v2" cuda;
   Entry "RPC_cuMemcpyAtoHAsync_v2" "handle_cuMemcpyAtoHAsync_v2" cuda;
   Entry "RPC_cuMemcpy2DAsync_v2" "handle_cuMemcpy2DAsync_v2" cuda;
   Entry "RPC_cuMemcpy3DAsync_v2" "handle_cuMemcpy3DAsync_v2" cuda;
   Entry "RPC_cuMemcpy3DPeerAsync" "handle_cuMemcpy3DPeerAsync" cuda;
   Entry "RPC_cuMemExportToShareableHandle" "handle_cuMemExportToShareableHandle" cuda;
   Entry "RPC_cuMemImportFromShareableHandle" "handle_cuMemImportFromShareableHandle" cuda;
   Entry "RPC_cuMemPoolSetAttribute" "handle_cuMemPoolSetAttribute" cuda;
   Entry "RPC_cuMemPoolGetAttribute" "handle_cuMemPoolGetAttribute" cuda;
   Entry "RPC_cuMemPoolExportToShareableHandle" "handle_cuMemPoolExportToShareableHandle" cuda;
   Entry "RPC_cuMemPoolImportFromShareableHandle" "handle_cuMemPoolImportFromShareableHandle" cuda;
   Entry "RPC_cuPointerGetAttribute" "handle_cuPointerGetAttribute" cuda;
   Entry "RPC_cuMemRangeGetAttributes" "handle_cuMemRangeGetAttributes" cuda;
   Entry "RPC_cuPointerSetAttribute" "handle_cuPointerSetAttribute" cuda;
   Entry "RPC_cuPointerGetAttributes" "handle_cuPointerGetAttributes" cuda;
   Entry "RPC_cuStreamWaitEvent" "handle_cuStreamWaitEvent" cuda;
   Entry "RPC_cuStreamAddCallback" "handle_cuStreamAddCallback" cuda;
   Entry "RPC_cuStreamBeginCapture_v2" "handle_cuStreamBeginCapture" cuda;
   Entry "RPC_cuStreamEndCapture" "handle_cuStreamEndCapture" cuda;
   Entry "RPC_cuEventRecord" "handle_cuEventRecord" cuda;
   Entry "RPC_cuEventRecordWithFlags" "handle_cuEventRecordWithFlags" cuda;
   Entry "RPC_cuEventQuery" "handle_cuEventQuery" cuda;
   Entry "RPC_cuEventDestroy_v2" "handle_cuEventDestroy_v2" cuda;
   Entry "RPC_cuLaunchKernel" "handle_cuLaunchKernel" cuda;
   Entry "RPC_cuLaunchKernelEx" "handle_cuLaunchKernelEx" cuda;
   Entry "RPC_cuLaunchCooperativeKernel" "handle_cuLaunchCooperativeKernel" cuda;
   Entry "RPC_cuLaunchHostFunc" "handle_cuLaunchHostFunc" cuda;
   Entry "RPC_cuGraphAddKernelNode_v2" "handle_cuGraphAddKernelNode" cuda;
   Entry "RPC_cuGraphKernelNodeGetParams_v2" "handle_cuGraphKernelNodeGetParams" cuda;
   Entry "RPC_cuGraphKernelNodeSetParams_v2" "handle_cuGraphKernelNodeSetParams" cuda;
   Entry "RPC_cuGraphAddMemcpyNode" "handle_cuGraphAddMemcpyNode" cuda;
   Entry "RPC_cuGraphAddMemsetNode" "handle_cuGraphAddMemsetNode" cuda;
   Entry "RPC_cuGraphAddHostNode" "handle_cuGraphAddHostNode" cuda;
   Entry "RPC_cuGraphHostNodeGetParams" "handle_cuGraphHostNodeGetParams" cuda;
   Entry "RPC_cuGraphHostNodeSetParams" "handle_cuGraphHostNodeSetParams" cuda;
   Entry "RPC_cuDeviceGetGraphMemAttribute" "handle_cuDeviceGetGraphMemAttribute" cuda;
   Entry "RPC_cuDeviceSetGraphMemAttribute" "handle_cuDeviceSetGraphMemAttribute" cuda;
   Entry "RPC_cuGraphClone" "handle_cuGraphClone" cuda;
   Entry "RPC_cuGraphInstantiate_v2" "handle_cuGraphInstantiate_v2" cuda;
   Entry "RPC_cuGraphInstantiateWithFlags" "handle_cuGraphInstantiateWithFlags" cuda;
   Entry "RPC_cuGraphInstantiateWithParams" "handle_cuGraphInstantiateWithParams" cuda;
   Entry "RPC_cuGraphExecKernelNodeSetParams_v2" "handle_cuGraphExecKernelNodeSetParams" cuda;
   Entry "RPC_cuGraphExecHostNodeSetParams" "handle_cuGraphExecHostNodeSetParams" cuda;
   Entry "RPC_cuGraphLaunch" "handle_cuGraphLaunch" cuda;
   Entry "RPC_cuGraphExecDestroy" "handle_cuGraphExecDestroy" cuda;
   Entry "RPC_cuGraphDestroy" "handle_cuGraphDestroy" cuda;
   Entry "RPC_cuOccupancyMaxPotentialBlockSize" "handle_cuOccupancyMaxPotentialBlockSize" cuda;
   Entry "RPC_cuOccupancyMaxPotentialBlockSizeWithFlags" "handle_cuOccupancyMaxPotentialBlockSizeWithFlags" cuda;
   Entry "LUPINE_RPC_cuGetExportTableMetadata" "handle_cuGetExportTableMetadata" cuda;
   Entry "LUPINE_RPC_cuPrivateGetModuleNode" "handle_cuPrivateGetModuleNode" cuda;
   Entry "LUPINE_RPC_lupineFunctionParamLayoutSnapshot" "handle_lupineFunctionParamLayoutSnapshot" cuda;
   Entry "LUPINE_RPC_lupineFunctionAttributeSnapshot" "handle_lupineFunctionAttributeSnapshot" cuda;
   Entry "LUPINE_RPC_cuGraphConditionalHandleCreate" "handle_cuGraphConditionalHandleCreate" cuda;
   Entry "RPC_cuGraphAddNode_v2" "handle_cuGraphAddNode" cuda;
   Entry "LUPINE_RPC_lupineStreamPoolInit" "handle_lupineStreamPoolInit" cuda;
   Entry "LUPINE_RPC_lupineEventCreateBatch" "handle_lupineEventCreateBatch" cuda;
   Entry "LUPINE_RPC_lupineLibraryLoadBatch" "handle_lupineLibraryLoadBatch" cuda;
   Entry "LUPINE_RPC_cuStreamBeginCaptureToGraph" "handle_cuStreamBeginCaptureToGraph" cuda;
   Entry "RPC_cuStreamUpdateCaptureDependencies_v2" "handle_cuStreamUpdateCaptureDependencies" cuda;
   Entry "LUPINE_RPC_cuStreamGetCaptureInfo_v3" "handle_cuStreamGetCaptureInfo" cuda;
   Entry "LUPINE_RPC_lupineManagedHostFlush" "handle_lupineManagedHostFlush" cuda;
   Entry "LUPINE_RPC_lupineMemcpyDtoHAsyncPinned" "handle_lupineMemcpyDtoHAsyncPinned" cuda;
   Entry "LUPINE_RPC_lupineDeviceSnapshot" "handle_lupineDeviceSnapshot" cuda;
   Entry "LUPINE_RPC_lupineBulkChunk" "handle_lupineBulkChunk" cuda;
   Entry "LUPINE_RPC_lupineMemcpyHtoDBulk" "handle_lupineMemcpyHtoDBulk" cuda;
   Entry "LUPINE_RPC_lupineBulkRead" "handle_lupineBulkRead" cuda;
   Entry "LUPINE_RPC_lupineMemcpyDtoHBulk" "handle_lupineMemcpyDtoHBulk" cuda;
   Entry "RPC_cuInit" "handle_cuInit" cuda;
   Entry "RPC_cuDriverGetVersion" "handle_cuDriverGetVersion" cuda;
   Entry "RPC_cuDeviceGet" "handle_cuDeviceGet" cuda;
   Entry "RPC_cuDeviceGetCount" "handle_cuDeviceGetCount" cuda;
   Entry "RPC_cuDeviceGetName" "handle_cuDeviceGetName" cuda;
   Entry "RPC_cuDeviceGetUuid_v2" "handle_cuDeviceGetUuid_v2" cuda;
   Entry "RPC_cuDeviceGetLuid" "handle_cuDeviceGetLuid" cuda;
   Entry "RPC_cuDeviceTotalMem_v2" "handle_cuDeviceTotalMem_v2" cuda;
   Entry "RPC_cuDeviceGetTexture1DLinearMaxWidth" "handle_cuDeviceGetTexture1DLinearMaxWidth" cuda;
   Entry "RPC_cuDeviceGetAttribute" "handle_cuDeviceGetAttribute" cuda;
   Entry "RPC_cuDeviceSetMemPool" "handle_cuDeviceSetMemPool" cuda;
   Entry "RPC_cuDeviceGetMemPool" "handle_cuDeviceGetMemPool" cuda;
   Entry "RPC_cuDeviceGetDefaultMemPool" "handle_cuDeviceGetDefaultMemPool" cuda;
   Entry "RPC_cuDeviceGetExecAffinitySupport" "handle_cuDeviceGetExecAffinitySupport" cuda;
   Entry "RPC_cuFlushGPUDirectRDMAWrites" "handle_cuFlushGPUDirectRDMAWrites" cuda;
   Entry "RPC_cuDeviceGetProperties" "handle_cuDeviceGetProperties" cuda;
   Entry "RPC_cuDeviceComputeCapability" "handle_cuDeviceComputeCapability" cuda;
   Entry "RPC_cuDevicePrimaryCtxSetFlags_v2" "handle_cuDevicePrimaryCtxSetFlags_v2" cuda;
   Entry "RPC_cuDevicePrimaryCtxGetState" "handle_cuDevicePrimaryCtxGetState" cuda;
   Entry "RPC_cuCtxPushCurrent_v2" "handle_cuCtxPushCurrent_v2" cuda;
   Entry "RPC_cuCtxPopCurrent_v2" "handle_cuCtxPopCurrent_v2" cuda;
   Entry "RPC_cuCtxSetCurrent" "handle_cuCtxSetCurrent" cuda;
   Entry "RPC_cuCtxGetCurrent" "handle_cuCtxGetCurrent" cuda;
   Entry "RPC_cuCtxGetDevice" "handle_cuCtxGetDevice" cuda;
   Entry "RPC_cuCtxGetFlags" "handle_cuCtxGetFlags" cuda;
   Entry "RPC_cuCtxGetId" "handle_cuCtxGetId" cuda;
   Entry "RPC_cuCtxSynchronize" "handle_cuCtxSynchronize" cuda;
   Entry "RPC_cuCtxSetLimit" "handle_cuCtxSetLimit" cuda;
   Entry "RPC_cuCtxGetLimit" "handle_cuCtxGetLimit" cuda;
   Entry "RPC_cuCtxGetCacheConfig" "handle_cuCtxGetCacheConfig" cuda;
   Entry "RPC_cuCtxSetCacheConfig" "handle_cuCtxSetCacheConfig" cuda;
   Entry "RPC_cuCtxGetApiVersion" "handle_cuCtxGetApiVersion" cuda;
   Entry "RPC_cuCtxGetStreamPriorityRange" "handle_cuCtxGetStreamPriorityRange" cuda;
   Entry "RPC_cuCtxResetPersistingL2Cache" "handle_cuCtxResetPersistingL2Cache" cuda;
   Entry "RPC_cuCtxGetExecAffinity" "handle_cuCtxGetExecAffinity" cuda;
   Entry "RPC_cuCtxGetSharedMemConfig" "handle_cuCtxGetSharedMemConfig" cuda;
   Entry "RPC_cuCtxSetSharedMemConfig" "handle_cuCtxSetSharedMemConfig" cuda;
   Entry "RPC_cuModuleUnload" "handle_cuModuleUnload" cuda;
   Entry "RPC_cuModuleGetLoadingMode" "handle_cuModuleGetLoadingMode" cuda;
   Entry "RPC_cuModuleGetFunction" "handle_cuModuleGetFunction" cuda;
   Entry "RPC_cuModuleGetTexRef" "handle_cuModuleGetTexRef" cuda;
   Entry "RPC_cuModuleGetSurfRef" "handle_cuModuleGetSurfRef" cuda;
   Entry "RPC_cuLibraryGetKernel" "handle_cuLibraryGetKernel" cuda;
   Entry "RPC_cuKernelGetFunction" "handle_cuKernelGetFunction" cuda;
   Entry "RPC_cuKernelGetLibrary" "handle_cuKernelGetLibrary" cuda;
   Entry "RPC_cuLibraryGetGlobal" "handle_cuLibraryGetGlobal" cuda;
   Entry "RPC_cuLibraryGetManaged" "handle_cuLibraryGetManaged" cuda].

Definition cuda_handlers_2 : list registry_entry :=
  [Entry "RPC_cuLibraryGetUnifiedFunction" "handle_cuLibraryGetUnifiedFunction" cuda;
   Entry "RPC_cuKernelGetAttribute" "handle_cuKernelGetAttribute" cuda;
   Entry "RPC_cuKernelSetAttribute" "handle_cuKernelSetAttribute" cuda;
   Entry "RPC_cuKernelSetCacheConfig" "handle_cuKernelSetCacheConfig" cuda;
   Entry "RPC_cuKernelGetName" "handle_cuKernelGetName" cuda;
   Entry "RPC_cuKernelGetParamInfo" "handle_cuKernelGetParamInfo" cuda;
   Entry "RPC_cuMemGetInfo_v2" "handle_cuMemGetInfo_v2" cuda;
   Entry "RPC_cuMemAlloc_v2" "handle_cuMemAlloc_v2" cuda;
   Entry "RPC_cuMemAllocPitch_v2" "handle_cuMemAllocPitch_v2" cuda;
   Entry "RPC_cuMemGetAddressRange_v2" "handle_cuMemGetAddressRange_v2" cuda;
   Entry "RPC_cuMemAllocHost_v2" "handle_cuMemAllocHost_v2" cuda;
   Entry "RPC_cuMemHostGetDevicePointer_v2" "handle_cuMemHostGetDevicePointer_v2" cuda;
   Entry "RPC_cuDeviceGetByPCIBusId" "handle_cuDeviceGetByPCIBusId" cuda;
   Entry "RPC_cuDeviceGetPCIBusId" "handle_cuDeviceGetPCIBusId" cuda;
   Entry "RPC_cuIpcGetEventHandle" "handle_cuIpcGetEventHandle" cuda;
   Entry "RPC_cuIpcOpenEventHandle" "handle_cuIpcOpenEventHandle" cuda;
   Entry "RPC_cuIpcGetMemHandle" "handle_cuIpcGetMemHandle" cuda;
   Entry "RPC_cuIpcOpenMemHandle_v2" "handle_cuIpcOpenMemHandle_v2" cuda;
   Entry "RPC_cuIpcCloseMemHandle" "handle_cuIpcCloseMemHandle" cuda;
   Entry "RPC_cuMemcpy" "handle_cuMemcpy" cuda;
   Entry "RPC_cuMemcpyPeer" "handle_cuMemcpyPeer" cuda;
   Entry "RPC_cuMemcpyDtoD_v2" "handle_cuMemcpyDtoD_v2" cuda;
   Entry "RPC_cuMemcpyDtoA_v2" "handle_cuMemcpyDtoA_v2" cuda;
   Entry "RPC_cuMemcpyAtoD_v2" "handle_cuMemcpyAtoD_v2" cuda;
   Entry "RPC_cuMemcpyAtoA_v2" "handle_cuMemcpyAtoA_v2" cuda;
   Entry "RPC_cuMemcpyPeerAsync" "handle_cuMemcpyPeerAsync" cuda;
   Entry "RPC_cuMemcpyDtoDAsync_v2" "handle_cuMemcpyDtoDAsync_v2" cuda;
   Entry "RPC_cuMemsetD8_v2" "handle_cuMemsetD8_v2" cuda;
   Entry "RPC_cuMemsetD16_v2" "handle_cuMemsetD16_v2" cuda;
   Entry "RPC_cuMemsetD32_v2" "handle_cuMemsetD32_v2" cuda;
   Entry "RPC_cuMemsetD2D8_v2" "handle_cuMemsetD2D8_v2" cuda;
   Entry "RPC_cuMemsetD2D16_v2" "handle_cuMemsetD2D16_v2" cuda;
   Entry "RPC_cuMemsetD2D32_v2" "handle_cuMemsetD2D32_v2" cuda;
   Entry "RPC_cuMemsetD8Async" "handle_cuMemsetD8Async" cuda;
   Entry "RPC_cuMemsetD16Async" "handle_cuMemsetD16Async" cuda;
   Entry "RPC_cuMemsetD32Async" "handle_cuMemsetD32Async" cuda;
   Entry "RPC_cuMemsetD2D8Async" "handle_cuMemsetD2D8Async" cuda;
   Entry "RPC_cuMemsetD2D16Async" "handle_cuMemsetD2D16Async" cuda;
   Entry "RPC_cuMemsetD2D32Async" "handle_cuMemsetD2D32Async" cuda;
   Entry "RPC_cuArrayCreate_v2" "handle_cuArrayCreate_v2" cuda;
   Entry "RPC_cuArrayGetDescriptor_v2" "handle_cuArrayGetDescriptor_v2" cuda;
   Entry "RPC_cuArrayGetSparseProperties" "handle_cuArrayGetSparseProperties" cuda;
   Entry "RPC_cuMipmappedArrayGetSparseProperties" "handle_cuMipmappedArrayGetSparseProperties" cuda;
   Entry "RPC_cuArrayGetMemoryRequirements" "handle_cuArrayGetMemoryRequirements" cuda;
   Entry "RPC_cuMipmappedArrayGetMemoryRequirements" "handle_cuMipmappedArrayGetMemoryRequirements" cuda;
   Entry "RPC_cuArrayGetPlane" "handle_cuArrayGetPlane" cuda;
   Entry "RPC_cuArrayDestroy" "handle_cuArrayDestroy" cuda;
   Entry "RPC_cuArray3DCreate_v2" "handle_cuArray3DCreate_v2" cuda;
   Entry "RPC_cuArray3DGetDescriptor_v2" "handle_cuArray3DGetDescriptor_v2" cuda;
   Entry "RPC_cuMipmappedArrayCreate" "handle_cuMipmappedArrayCreate" cuda;
   Entry "RPC_cuMipmappedArrayGetLevel" "handle_cuMipmappedArrayGetLevel" cuda;
   Entry "RPC_cuMipmappedArrayDestroy" "handle_cuMipmappedArrayDestroy" cuda;
   Entry "RPC_cuMemGetHandleForAddressRange" "handle_cuMemGetHandleForAddressRange" cuda;
   Entry "RPC_cuMemAddressReserve" "handle_cuMemAddressReserve" cuda;
   Entry "RPC_cuMemAddressFree" "handle_cuMemAddressFree" cuda;
   Entry "RPC_cuMemCreate" "handle_cuMemCreate" cuda;
   Entry "RPC_cuMemRelease" "handle_cuMemRelease" cuda;
   Entry "RPC_cuMemMap" "handle_cuMemMap" cuda;
   Entry "RPC_cuMemMapArrayAsync" "handle_cuMemMapArrayAsync" cuda;
   Entry "RPC_cuMemUnmap" "handle_cuMemUnmap" cuda;
   Entry "RPC_cuMemSetAccess" "handle_cuMemSetAccess" cuda;
   Entry "RPC_cuMemGetAccess" "handle_cuMemGetAccess" cuda;
   Entry "RPC_cuMemGetAllocationGranularity" "handle_cuMemGetAllocationGranularity" cuda;
   Entry "RPC_cuMemGetAllocationPropertiesFromHandle" "handle_cuMemGetAllocationPropertiesFromHandle" cuda;
   Entry "RPC_cuMemRetainAllocationHandle" "handle_cuMemRetainAllocationHandle" cuda;
   Entry "RPC_cuMemFreeAsync" "handle_cuMemFreeAsync" cuda;
   Entry "RPC_cuMemAllocAsync" "handle_cuMemAllocAsync" cuda;
   Entry "RPC_cuMemPoolTrimTo" "handle_cuMemPoolTrimTo" cuda;
   Entry "RPC_cuMemPoolSetAccess" "handle_cuMemPoolSetAccess" cuda;
   Entry "RPC_cuMemPoolGetAccess" "handle_cuMemPoolGetAccess" cuda;
   Entry "RPC_cuMemPoolCreate" "handle_cuMemPoolCreate" cuda;
   Entry "RPC_cuMemPoolDestroy" "handle_cuMemPoolDestroy" cuda;
   Entry "RPC_cuMemAllocFromPoolAsync" "handle_cuMemAllocFromPoolAsync" cuda;
   Entry "RPC_cuMemPoolExportPointer" "handle_cuMemPoolExportPointer" cuda;
   Entry "RPC_cuMemPoolImportPointer" "handle_cuMemPoolImportPointer" cuda;
   Entry "RPC_cuMemRangeGetAttribute" "handle_cuMemRangeGetAttribute" cuda;
   Entry "RPC_cuStreamCreate" "handle_cuStreamCreate" cuda;
   Entry "RPC_cuStreamCreateWithPriority" "handle_cuStreamCreateWithPriority" cuda;
   Entry "RPC_cuStreamGetPriority" "handle_cuStreamGetPriority" cuda;
   Entry "RPC_cuStreamGetDevice" "handle_cuStreamGetDevice" cuda;
   Entry "RPC_cuStreamGetFlags" "handle_cuStreamGetFlags" cuda;
   Entry "RPC_cuStreamGetId" "handle_cuStreamGetId" cuda;
   Entry "RPC_cuStreamGetCtx" "handle_cuStreamGetCtx" cuda;
   Entry "RPC_cuThreadExchangeStreamCaptureMode" "handle_cuThreadExchangeStreamCaptureMode" cuda;
   Entry "RPC_cuStreamIsCapturing" "handle_cuStreamIsCapturing" cuda;
   Entry "RPC_cuStreamAttachMemAsync" "handle_cuStreamAttachMemAsync" cuda;
   Entry "RPC_cuStreamQuery" "handle_cuStreamQuery" cuda;
   Entry "RPC_cuStreamSynchronize" "handle_cuStreamSynchronize" cuda;
   Entry "RPC_cuStreamDestroy_v2" "handle_cuStreamDestroy_v2" cuda;
   Entry "RPC_cuStreamCopyAttributes" "handle_cuStreamCopyAttributes" cuda;
   Entry "RPC_cuStreamGetAttribute" "handle_cuStreamGetAttribute" cuda;
   Entry "RPC_cuStreamSetAttribute" "handle_cuStreamSetAttribute" cuda;
   Entry "RPC_cuEventCreate" "handle_cuEventCreate" cuda;
   Entry "RPC_cuEventSynchronize" "handle_cuEventSynchronize" cuda;
   Entry "RPC_cuEventElapsedTime_v2" "handle_cuEventElapsedTime_v2" cuda;
   Entry "RPC_cuImportExternalMemory" "handle_cuImportExternalMemory" cuda;
   Entry "RPC_cuExternalMemoryGetMappedBuffer" "handle_cuExternalMemoryGetMappedBuffer" cuda;
   Entry "RPC_cuExternalMemoryGetMappedMipmappedArray" "handle_cuExternalMemoryGetMappedMipmappedArray" cuda;
   Entry "RPC_cuDestroyExternalMemory" "handle_cuDestroyExternalMemory" cuda;
   Entry "RPC_cuImportExternalSemaphore" "handle_cuImportExternalSemaphore" cuda;
   Entry "RPC_cuSignalExternalSemaphoresAsync" "handle_cuSignalExternalSemaphoresAsync" cuda;
   Entry "RPC_cuWaitExternalSemaphoresAsync" "handle_cuWaitExternalSemaphoresAsync" cuda;
   Entry "RPC_cuDestroyExternalSemaphore" "handle_cuDestroyExternalSemaphore" cuda;
   Entry "RPC_cuStreamWaitValue32_v2" "handle_cuStreamWaitValue32_v2" cuda;
   Entry "RPC_cuStreamWaitValue64_v2" "handle_cuStreamWaitValue64_v2" cuda;
   Entry "RPC_cuStreamWriteValue32_v2" "handle_cuStreamWriteValue32_v2" cuda;
   Entry "RPC_cuStreamWriteValue64_v2" "handle_cuStreamWriteValue64_v2" cuda;
   Entry "RPC_cuStreamBatchMemOp_v2" "handle_cuStreamBatchMemOp_v2" cuda;
   Entry "RPC_cuFuncGetAttribute" "handle_cuFuncGetAttribute" cuda;
   Entry "RPC_cuFuncSetAttribute" "handle_cuFuncSetAttribute" cuda;
   Entry "RPC_cuFuncSetCacheConfig" "handle_cuFuncSetCacheConfig" cuda;
   Entry "RPC_cuFuncGetModule" "handle_cuFuncGetModule" cuda;
   Entry "RPC_cuFuncGetName" "handle_cuFuncGetName" cuda;
   Entry "RPC_cuFuncGetParamInfo" "handle_cuFuncGetParamInfo" cuda;
   Entry "RPC_cuFuncSetBlockShape" "handle_cuFuncSetBlockShape" cuda;
   Entry "RPC_cuFuncSetSharedSize" "handle_cuFuncSetSharedSize" cuda;
   Entry "RPC_cuParamSetSize" "handle_cuParamSetSize" cuda;
   Entry "RPC_cuParamSeti" "handle_cuParamSeti" cuda;
   Entry "RPC_cuParamSetf" "handle_cuParamSetf" cuda;
   Entry "RPC_cuParamSetv" "handle_cuParamSetv" cuda;
   Entry "RPC_cuLaunch" "handle_cuLaunch" cuda;
   Entry "RPC_cuLaunchGrid" "handle_cuLaunchGrid" cuda;
   Entry "RPC_cuLaunchGridAsync" "handle_cuLaunchGridAsync" cuda;
   Entry "RPC_cuParamSetTexRef" "handle_cuParamSetTexRef" cuda;
   Entry "RPC_cuFuncSetSharedMemConfig" "handle_cuFuncSetSharedMemConfig" cuda;
   Entry "RPC_cuGraphCreate" "handle_cuGraphCreate" cuda;
   Entry "RPC_cuGraphMemcpyNodeGetParams" "handle_cuGraphMemcpyNodeGetParams" cuda;
   Entry "RPC_cuGraphMemcpyNodeSetParams" "handle_cuGraphMemcpyNodeSetParams" cuda;
   Entry "RPC_cuGraphMemsetNodeGetParams" "handle_cuGraphMemsetNodeGetParams" cuda;
   Entry "RPC_cuGraphMemsetNodeSetParams" "handle_cuGraphMemsetNodeSetParams" cuda;
   Entry "RPC_cuGraphAddChildGraphNode" "handle_cuGraphAddChildGraphNode" cuda;
   Entry "RPC_cuGraphChildGraphNodeGetGraph" "handle_cuGraphChildGraphNodeGetGraph" cuda;
   Entry "RPC_cuGraphAddEmptyNode" "handle_cuGraphAddEmptyNode" cuda;
   Entry "RPC_cuGraphAddEventRecordNode" "handle_cuGraphAddEventRecordNode" cuda;
   Entry "RPC_cuGraphEventRecordNodeGetEvent" "handle_cuGraphEventRecordNodeGetEvent" cuda;
   Entry "RPC_cuGraphEventRecordNodeSetEvent" "handle_cuGraphEventRecordNodeSetEvent" cuda;
   Entry "RPC_cuGraphAddEventWaitNode" "handle_cuGraphAddEventWaitNode" cuda;
   Entry "RPC_cuGraphEventWaitNodeGetEvent" "handle_cuGraphEventWaitNodeGetEvent" cuda;
   Entry "RPC_cuGraphEventWaitNodeSetEvent" "handle_cuGraphEventWaitNodeSetEvent" cuda;
   Entry "RPC_cuGraphAddExternalSemaphoresSignalNode" "handle_cuGraphAddExternalSemaphoresSignalNode" cuda;
   Entry "RPC_cuGraphExternalSemaphoresSignalNodeGetParams" "handle_cuGraphExternalSemaphoresSignalNodeGetParams" cuda;
   Entry "RPC_cuGraphExternalSemaphoresSignalNodeSetParams" "handle_cuGraphExternalSemaphoresSignalNodeSetParams" cuda;
   Entry "RPC_cuGraphAddExternalSemaphoresWaitNode" "handle_cuGraphAddExternalSemaphoresWaitNode" cuda;
   Entry "RPC_cuGraphExternalSemaphoresWaitNodeGetParams" "handle_cuGraphExternalSemaphoresWaitNodeGetParams" cuda;
   Entry "RPC_cuGraphExternalSemaphoresWaitNodeSetParams" "handle_cuGraphExternalSemaphoresWaitNodeSetParams" cuda;
   Entry "RPC_cuGraphAddBatchMemOpNode" "handle_cuGraphAddBatchMemOpNode" cuda;
   Entry "RPC_cuGraphBatchMemOpNodeGetParams" "handle_cuGraphBatchMemOpNodeGetParams" cuda;
   Entry "RPC_cuGraphBatchMemOpNodeSetParams" "handle_cuGraphBatchMemOpNodeSetParams" cuda].

Definition cuda_handlers_3 : list registry_entry :=
  [Entry "RPC_cuGraphExecBatchMemOpNodeSetParams" "handle_cuGraphExecBatchMemOpNodeSetParams" cuda;
   Entry "RPC_cuGraphAddMemAllocNode" "handle_cuGraphAddMemAllocNode" cuda;
   Entry "RPC_cuGraphMemAllocNodeGetParams" "handle_cuGraphMemAllocNodeGetParams" cuda;
   Entry "RPC_cuGraphAddMemFreeNode" "handle_cuGraphAddMemFreeNode" cuda;
   Entry "RPC_cuGraphMemFreeNodeGetParams" "handle_cuGraphMemFreeNodeGetParams" cuda;
   Entry "RPC_cuDeviceGraphMemTrim" "handle_cuDeviceGraphMemTrim" cuda;
   Entry "RPC_cuGraphNodeFindInClone" "handle_cuGraphNodeFindInClone" cuda;
   Entry "RPC_cuGraphNodeGetType" "handle_cuGraphNodeGetType" cuda;
   Entry "RPC_cuGraphGetNodes" "handle_cuGraphGetNodes" cuda;
   Entry "RPC_cuGraphGetRootNodes" "handle_cuGraphGetRootNodes" cuda;
   Entry "RPC_cuGraphGetEdges_v2" "handle_cuGraphGetEdges_v2" cuda;
   Entry "RPC_cuGraphNodeGetDependencies_v2" "handle_cuGraphNodeGetDependencies_v2" cuda;
   Entry "RPC_cuGraphNodeGetDependentNodes_v2" "handle_cuGraphNodeGetDependentNodes_v2" cuda;
   Entry "RPC_cuGraphDestroyNode" "handle_cuGraphDestroyNode" cuda;
   Entry "RPC_cuGraphExecGetFlags" "handle_cuGraphExecGetFlags" cuda;
   Entry "RPC_cuGraphExecMemcpyNodeSetParams" "handle_cuGraphExecMemcpyNodeSetParams" cuda;
   Entry "RPC_cuGraphExecMemsetNodeSetParams" "handle_cuGraphExecMemsetNodeSetParams" cuda;
   Entry "RPC_cuGraphExecChildGraphNodeSetParams" "handle_cuGraphExecChildGraphNodeSetParams" cuda;
   Entry "RPC_cuGraphExecEventRecordNodeSetEvent" "handle_cuGraphExecEventRecordNodeSetEvent" cuda;
   Entry "RPC_cuGraphExecEventWaitNodeSetEvent" "handle_cuGraphExecEventWaitNodeSetEvent" cuda;
   Entry "RPC_cuGraphExecExternalSemaphoresSignalNodeSetParams" "handle_cuGraphExecExternalSemaphoresSignalNodeSetParams" cuda;
   Entry "RPC_cuGraphExecExternalSemaphoresWaitNodeSetParams" "handle_cuGraphExecExternalSemaphoresWaitNodeSetParams" cuda;
   Entry "RPC_cuGraphNodeSetEnabled" "handle_cuGraphNodeSetEnabled" cuda;
   Entry "RPC_cuGraphNodeGetEnabled" "handle_cuGraphNodeGetEnabled" cuda;
   Entry "RPC_cuGraphUpload" "handle_cuGraphUpload" cuda;
   Entry "RPC_cuGraphExecUpdate_v2" "handle_cuGraphExecUpdate_v2" cuda;
   Entry "RPC_cuGraphKernelNodeCopyAttributes" "handle_cuGraphKernelNodeCopyAttributes" cuda;
   Entry "RPC_cuGraphKernelNodeGetAttribute" "handle_cuGraphKernelNodeGetAttribute" cuda;
   Entry "RPC_cuGraphKernelNodeSetAttribute" "handle_cuGraphKernelNodeSetAttribute" cuda;
   Entry "RPC_cuGraphDebugDotPrint" "handle_cuGraphDebugDotPrint" cuda;
   Entry "RPC_cuUserObjectRetain" "handle_cuUserObjectRetain" cuda;
   Entry "RPC_cuUserObjectRelease" "handle_cuUserObjectRelease" cuda;
   Entry "RPC_cuGraphRetainUserObject" "handle_cuGraphRetainUserObject" cuda;
   Entry "RPC_cuGraphReleaseUserObject" "handle_cuGraphReleaseUserObject" cuda;
   Entry "RPC_cuOccupancyMaxActiveBlocksPerMultiprocessor" "handle_cuOccupancyMaxActiveBlocksPerMultiprocessor" cuda;
   Entry "RPC_cuOccupancyMaxActiveBlocksPerMultiprocessorWithFlags" "handle_cuOccupancyMaxActiveBlocksPerMultiprocessorWithFlags" cuda;
   Entry "RPC_cuOccupancyAvailableDynamicSMemPerBlock" "handle_cuOccupancyAvailableDynamicSMemPerBlock" cuda;
   Entry "RPC_cuOccupancyMaxPotentialClusterSize" "handle_cuOccupancyMaxPotentialClusterSize" cuda;
   Entry "RPC_cuOccupancyMaxActiveClusters" "handle_cuOccupancyMaxActiveClusters" cuda;
   Entry "RPC_cuTexRefSetArray" "handle_cuTexRefSetArray" cuda;
   Entry "RPC_cuTexRefSetMipmappedArray" "handle_cuTexRefSetMipmappedArray" cuda;
   Entry "RPC_cuTexRefSetAddress_v2" "handle_cuTexRefSetAddress_v2" cuda;
   Entry "RPC_cuTexRefSetAddress2D_v3" "handle_cuTexRefSetAddress2D_v3" cuda;
   Entry "RPC_cuTexRefSetFormat" "handle_cuTexRefSetFormat" cuda;
   Entry "RPC_cuTexRefSetAddressMode" "handle_cuTexRefSetAddressMode" cuda;
   Entry "RPC_cuTexRefSetFilterMode" "handle_cuTexRefSetFilterMode" cuda;
   Entry "RPC_cuTexRefSetMipmapFilterMode" "handle_cuTexRefSetMipmapFilterMode" cuda;
   Entry "RPC_cuTexRefSetMipmapLevelBias" "handle_cuTexRefSetMipmapLevelBias" cuda;
   Entry "RPC_cuTexRefSetMipmapLevelClamp" "handle_cuTexRefSetMipmapLevelClamp" cuda;
   Entry "RPC_cuTexRefSetMaxAnisotropy" "handle_cuTexRefSetMaxAnisotropy" cuda;
   Entry "RPC_cuTexRefSetBorderColor" "handle_cuTexRefSetBorderColor" cuda;
   Entry "RPC_cuTexRefSetFlags" "handle_cuTexRefSetFlags" cuda;
   Entry "RPC_cuTexRefGetAddress_v2" "handle_cuTexRefGetAddress_v2" cuda;
   Entry "RPC_cuTexRefGetArray" "handle_cuTexRefGetArray" cuda;
   Entry "RPC_cuTexRefGetMipmappedArray" "handle_cuTexRefGetMipmappedArray" cuda;
   Entry "RPC_cuTexRefGetAddressMode" "handle_cuTexRefGetAddressMode" cuda;
   Entry "RPC_cuTexRefGetFilterMode" "handle_cuTexRefGetFilterMode" cuda;
   Entry "RPC_cuTexRefGetFormat" "handle_cuTexRefGetFormat" cuda;
   Entry "RPC_cuTexRefGetMipmapFilterMode" "handle_cuTexRefGetMipmapFilterMode" cuda;
   Entry "RPC_cuTexRefGetMipmapLevelBias" "handle_cuTexRefGetMipmapLevelBias" cuda;
   Entry "RPC_cuTexRefGetMipmapLevelClamp" "handle_cuTexRefGetMipmapLevelClamp" cuda;
   Entry "RPC_cuTexRefGetMaxAnisotropy" "handle_cuTexRefGetMaxAnisotropy" cuda;
   Entry "RPC_cuTexRefGetBorderColor" "handle_cuTexRefGetBorderColor" cuda;
   Entry "RPC_cuTexRefGetFlags" "handle_cuTexRefGetFlags" cuda;
   Entry "RPC_cuTexRefCreate" "handle_cuTexRefCreate" cuda;
   Entry "RPC_cuTexRefDestroy" "handle_cuTexRefDestroy" cuda;
   Entry "RPC_cuSurfRefSetArray" "handle_cuSurfRefSetArray" cuda;
   Entry "RPC_cuSurfRefGetArray" "handle_cuSurfRefGetArray" cuda;
   Entry "RPC_cuTexObjectCreate" "handle_cuTexObjectCreate" cuda;
   Entry "RPC_cuTexObjectDestroy" "handle_cuTexObjectDestroy" cuda;
   Entry "RPC_cuTexObjectGetResourceDesc" "handle_cuTexObjectGetResourceDesc" cuda;
   Entry "RPC_cuTexObjectGetTextureDesc" "handle_cuTexObjectGetTextureDesc" cuda;
   Entry "RPC_cuTexObjectGetResourceViewDesc" "handle_cuTexObjectGetResourceViewDesc" cuda;
   Entry "RPC_cuSurfObjectCreate" "handle_cuSurfObjectCreate" cuda;
   Entry "RPC_cuSurfObjectDestroy" "handle_cuSurfObjectDestroy" cuda;
   Entry "RPC_cuSurfObjectGetResourceDesc" "handle_cuSurfObjectGetResourceDesc" cuda;
   Entry "RPC_cuDeviceCanAccessPeer" "handle_cuDeviceCanAccessPeer" cuda;
   Entry "RPC_cuCtxEnablePeerAccess" "handle_cuCtxEnablePeerAccess" cuda;
   Entry "RPC_cuCtxDisablePeerAccess" "handle_cuCtxDisablePeerAccess" cuda;
   Entry "RPC_cuDeviceGetP2PAttribute" "handle_cuDeviceGetP2PAttribute" cuda;
   Entry "RPC_cuGraphicsUnregisterResource" "handle_cuGraphicsUnregisterResource" cuda;
   Entry "RPC_cuGraphicsSubResourceGetMappedArray" "handle_cuGraphicsSubResourceGetMappedArray" cuda;
   Entry "RPC_cuGraphicsResourceGetMappedMipmappedArray" "handle_cuGraphicsResourceGetMappedMipmappedArray" cuda;
   Entry "RPC_cuGraphicsResourceGetMappedPointer_v2" "handle_cuGraphicsResourceGetMappedPointer_v2" cuda;
   Entry "RPC_cuGraphicsResourceSetMapFlags_v2" "handle_cuGraphicsResourceSetMapFlags_v2" cuda;
   Entry "RPC_cuGraphicsMapResources" "handle_cuGraphicsMapResources" cuda;
   Entry "RPC_cuGraphicsUnmapResources" "handle_cuGraphicsUnmapResources" cuda;
   Entry "RPC_cuMemPrefetchAsync" "handle_cuMemPrefetchAsync" cuda;
   Entry "RPC_cuMemAdvise" "handle_cuMemAdvise" cuda;
   Entry "RPC_cuGraphExecUpdate" "handle_cuGraphExecUpdate" cuda].

Definition cuda_handlers : list registry_entry := cuda_handlers_1 ++ cuda_handlers_2 ++ cuda_handlers_3.

Definition nccl_handlers : list registry_entry :=
  [Entry "RPC_ncclGetErrorString" "handle_ncclGetErrorString" nccl;
   Entry "RPC_ncclGetLastError" "handle_ncclGetLastError" nccl;
   Entry "RPC_ncclGetVersion" "handle_ncclGetVersion" nccl;
   Entry "RPC_ncclGetUniqueId" "handle_ncclGetUniqueId" nccl;
   Entry "RPC_ncclCommInitRankConfig" "handle_ncclCommInitRankConfig" nccl;
   Entry "RPC_ncclCommInitRank" "handle_ncclCommInitRank" nccl;
   Entry "RPC_ncclCommInitAll" "handle_ncclCommInitAll" nccl;
   Entry "RPC_ncclCommFinalize" "handle_ncclCommFinalize" nccl;
   Entry "RPC_ncclCommDestroy" "handle_ncclCommDestroy" nccl;
   Entry "RPC_ncclCommAbort" "handle_ncclCommAbort" nccl;
   Entry "RPC_ncclCommGetAsyncError" "handle_ncclCommGetAsyncError" nccl;
   Entry "RPC_ncclCommCount" "handle_ncclCommCount" nccl;
   Entry "RPC_ncclCommCuDevice" "handle_ncclCommCuDevice" nccl;
   Entry "RPC_ncclCommUserRank" "handle_ncclCommUserRank" nccl;
   Entry "RPC_ncclRedOpCreatePreMulSum" "handle_ncclRedOpCreatePreMulSum" nccl;
   Entry "RPC_ncclRedOpDestroy" "handle_ncclRedOpDestroy" nccl;
   Entry "RPC_ncclReduce" "handle_ncclReduce" nccl;
   Entry "RPC_ncclBcast" "handle_ncclBcast" nccl;
   Entry "RPC_ncclBroadcast" "handle_ncclBroadcast" nccl;
   Entry "RPC_ncclAllReduce" "handle_ncclAllReduce" nccl;
   Entry "RPC_ncclReduceScatter" "handle_ncclReduceScatter" nccl;
   Entry "RPC_ncclAllGather" "handle_ncclAllGather" nccl;
   Entry "RPC_ncclSend" "handle_ncclSend" nccl;
   Entry "RPC_ncclRecv" "handle_ncclRecv" nccl;
   Entry "RPC_ncclGroupStart" "handle_ncclGroupStart" nccl;
   Entry "RPC_ncclGroupEnd" "handle_ncclGroupEnd" nccl].

Definition nvml_handlers : list registry_entry :=
  [Entry "RPC_nvmlInit_v2" "handle_nvmlInit_v2" nvml;
   Entry "RPC_nvmlInitWithFlags" "handle_nvmlInitWithFlags" nvml;
   Entry "RPC_nvmlShutdown" "handle_nvmlShutdown" nvml;
   Entry "RPC_nvmlSystemGetDriverVersion" "handle_nvmlSystemGetDriverVersion" nvml;
   Entry "RPC_nvmlSystemGetNVMLVersion" "handle_nvmlSystemGetNVMLVersion" nvml;
   Entry "RPC_nvmlSystemGetCudaDriverVersion" "handle_nvmlSystemGetCudaDriverVersion" nvml;
   Entry "RPC_nvmlSystemGetCudaDriverVersion_v2" "handle_nvmlSystemGetCudaDriverVersion_v2" nvml;
   Entry "RPC_nvmlDeviceGetCount_v2" "handle_nvmlDeviceGetCount_v2" nvml;
   Entry "RPC_nvmlDeviceGetHandleByIndex_v2" "handle_nvmlDeviceGetHandleByIndex_v2" nvml;
   Entry "RPC_nvmlDeviceGetHandleByUUID" "handle_nvmlDeviceGetHandleByUUID" nvml;
   Entry "RPC_nvmlDeviceGetHandleByPciBusId_v2" "handle_nvmlDeviceGetHandleByPciBusId_v2" nvml;
   Entry "RPC_nvmlDeviceGetName" "handle_nvmlDeviceGetName" nvml;
   Entry "RPC_nvmlDeviceGetUUID" "handle_nvmlDeviceGetUUID" nvml;
   Entry "RPC_nvmlDeviceGetIndex" "handle_nvmlDeviceGetIndex" nvml;
   Entry "RPC_nvmlDeviceGetMinorNumber" "handle_nvmlDeviceGetMinorNumber" nvml;
   Entry "RPC_nvmlDeviceGetPciInfo_v3" "handle_nvmlDeviceGetPciInfo_v3" nvml;
   Entry "RPC_nvmlDeviceGetMemoryInfo" "handle_nvmlDeviceGetMemoryInfo" nvml;
   Entry "RPC_nvmlDeviceGetUtilizationRates" "handle_nvmlDeviceGetUtilizationRates" nvml;
   Entry "RPC_nvmlDeviceGetTemperature" "handle_nvmlDeviceGetTemperature" nvml;
   Entry "RPC_nvmlDeviceGetPowerUsage" "handle_nvmlDeviceGetPowerUsage" nvml;
   Entry "RPC_nvmlDeviceGetPowerManagementLimit" "handle_nvmlDeviceGetPowerManagementLimit" nvml;
   Entry "RPC_nvmlDeviceGetClockInfo" "handle_nvmlDeviceGetClockInfo" nvml;
   Entry "RPC_nvmlDeviceGetMaxClockInfo" "handle_nvmlDeviceGetMaxClockInfo" nvml;
   Entry "RPC_nvmlDeviceGetPerformanceState" "handle_nvmlDeviceGetPerformanceState" nvml;
   Entry "RPC_nvmlDeviceGetComputeMode" "handle_nvmlDeviceGetComputeMode" nvml;
   Entry "RPC_nvmlDeviceGetPersistenceMode" "handle_nvmlDeviceGetPersistenceMode" nvml;
   Entry "RPC_nvmlDeviceGetFanSpeed" "handle_nvmlDeviceGetFanSpeed" nvml;
   Entry "RPC_nvmlDeviceGetBrand" "handle_nvmlDeviceGetBrand" nvml;
   Entry "RPC_nvmlDeviceGetVbiosVersion" "handle_nvmlDeviceGetVbiosVersion" nvml;
   Entry "RPC_nvmlDeviceGetSerial" "handle_nvmlDeviceGetSerial" nvml;
   Entry "RPC_nvmlDeviceGetBoardPartNumber" "handle_nvmlDeviceGetBoardPartNumber" nvml;
   Entry "RPC_nvmlDeviceGetDisplayMode" "handle_nvmlDeviceGetDisplayMode" nvml;
   Entry "RPC_nvmlDeviceGetDisplayActive" "handle_nvmlDeviceGetDisplayActive" nvml;
   Entry "RPC_nvmlDeviceGetCurrPcieLinkGeneration" "handle_nvmlDeviceGetCurrPcieLinkGeneration" nvml;
   Entry "RPC_nvmlDeviceGetCurrPcieLinkWidth" "handle_nvmlDeviceGetCurrPcieLinkWidth" nvml;
   Entry "RPC_nvmlDeviceGetMaxPcieLinkGeneration" "handle_nvmlDeviceGetMaxPcieLinkGeneration" nvml;
   Entry "RPC_nvmlDeviceGetMaxPcieLinkWidth" "handle_nvmlDeviceGetMaxPcieLinkWidth" nvml;
   Entry "RPC_nvmlDeviceGetPcieThroughput" "handle_nvmlDeviceGetPcieThroughput" nvml;
   Entry "RPC_nvmlDeviceGetPcieReplayCounter" "handle_nvmlDeviceGetPcieReplayCounter" nvml;
   Entry "RPC_nvmlDeviceGetComputeRunningProcesses" "handle_nvmlDeviceGetComputeRunningProcesses" nvml;
   Entry "RPC_nvmlDeviceGetComputeRunningProcesses_v2" "handle_nvmlDeviceGetComputeRunningProcesses_v2" nvml;
   Entry "RPC_nvmlDeviceGetComputeRunningProcesses_v3" "handle_nvmlDeviceGetComputeRunningProcesses_v3" nvml;
   Entry "RPC_nvmlDeviceGetProcessUtilization" "handle_nvmlDeviceGetProcessUtilization" nvml;
   Entry "RPC_nvmlDeviceGetGraphicsRunningProcesses" "handle_nvmlDeviceGetGraphicsRunningProcesses" nvml;
   Entry "RPC_nvmlDeviceGetGraphicsRunningProcesses_v2" "handle_nvmlDeviceGetGraphicsRunningProcesses_v2" nvml;
   Entry "RPC_nvmlDeviceGetGraphicsRunningProcesses_v3" "handle_nvmlDeviceGetGraphicsRunningProcesses_v3" nvml;
   Entry "RPC_nvmlDeviceGetMPSComputeRunningProcesses" "handle_nvmlDeviceGetMPSComputeRunningProcesses" nvml;
   Entry "RPC_nvmlDeviceGetMPSComputeRunningProcesses_v2" "handle_nvmlDeviceGetMPSComputeRunningProcesses_v2" nvml;
   Entry "RPC_nvmlDeviceGetMPSComputeRunningProcesses_v3" "handle_nvmlDeviceGetMPSComputeRunningProcesses_v3" nvml;
   Entry "RPC_nvmlEventSetCreate" "handle_nvmlEventSetCreate" nvml;
   Entry "RPC_nvmlEventSetFree" "handle_nvmlEventSetFree" nvml;
   Entry "RPC_nvmlEventSetWait_v2" "handle_nvmlEventSetWait_v2" nvml;
   Entry "RPC_nvmlDeviceRegisterEvents" "handle_nvmlDeviceRegisterEvents" nvml;
   Entry "RPC_nvmlDeviceGetMaxMigDeviceCount" "handle_nvmlDeviceGetMaxMigDeviceCount" nvml;
   Entry "RPC_nvmlDeviceGetTotalEccErrors" "handle_nvmlDeviceGetTotalEccErrors" nvml;
   Entry "RPC_nvmlDeviceGetDetailedEccErrors" "handle_nvmlDeviceGetDetailedEccErrors" nvml;
   Entry "RPC_nvmlDeviceGetMemoryErrorCounter" "handle_nvmlDeviceGetMemoryErrorCounter" nvml;
   Entry "RPC_nvmlDeviceGetEccMode" "handle_nvmlDeviceGetEccMode" nvml;
   Entry "RPC_nvmlDeviceGetTemperatureV" "handle_nvmlDeviceGetTemperatureV" nvml;
   Entry "RPC_nvmlDeviceGetEnforcedPowerLimit" "handle_nvmlDeviceGetEnforcedPowerLimit" nvml;
   Entry "RPC_nvmlDeviceGetMemoryInfo_v2" "handle_nvmlDeviceGetMemoryInfo_v2" nvml;
   Entry "RPC_nvmlDeviceGetMigMode" "handle_nvmlDeviceGetMigMode" nvml;
   Entry "RPC_nvmlDeviceGetVirtualizationMode" "handle_nvmlDeviceGetVirtualizationMode" nvml;
   Entry "RPC_nvmlDeviceIsMigDeviceHandle" "handle_nvmlDeviceIsMigDeviceHandle" nvml;
   Entry "RPC_nvmlDeviceGetNvLinkRemoteDeviceType" "handle_nvmlDeviceGetNvLinkRemoteDeviceType" nvml;
   Entry "RPC_nvmlDeviceGetNvLinkRemotePciInfo_v2" "handle_nvmlDeviceGetNvLinkRemotePciInfo_v2" nvml;
   Entry "RPC_nvmlDeviceGetCudaComputeCapability" "handle_nvmlDeviceGetCudaComputeCapability" nvml].

Definition hip_handlers_1 : list registry_entry :=
  [Entry "RPC_hipGetErrorString" "handle_hipGetErrorString" hip;
   Entry "RPC_hipGetErrorName" "handle_hipGetErrorName" hip;
   Entry "RPC_hipModuleUnload" "handle_hipModuleUnload" hip;
   Entry "RPC_hipModuleLoadData" "handle_hipModuleLoadData" hip;
   Entry "RPC_hipModuleLaunchKernel" "handle_hipModuleLaunchKernel" hip;
   Entry "RPC_hipLaunchKernel" "handle_hipModuleLaunchKernel" hip;
   Entry "RPC_hipInit" "handle_hipInit" hip;
   Entry "RPC_hipGetDeviceCount" "handle_hipGetDeviceCount" hip;
   Entry "RPC_hipDeviceGet" "handle_hipDeviceGet" hip;
   Entry "RPC_hipSetDevice" "handle_hipSetDevice" hip;
   Entry "RPC_hipGetDevice" "handle_hipGetDevice" hip;
   Entry "RPC_hipGetLastError" "handle_hipGetLastError" hip;
   Entry "RPC_hipExtGetLastError" "handle_hipExtGetLastError" hip;
   Entry "RPC_hipPeekAtLastError" "handle_hipPeekAtLastError" hip;
   Entry "RPC_hipGetDevicePropertiesR0600" "handle_hipGetDevicePropertiesR0600" hip;
   Entry "RPC_hipDeviceGetName" "handle_hipDeviceGetName" hip;
   Entry "RPC_hipDeviceTotalMem" "handle_hipDeviceTotalMem" hip;
   Entry "RPC_hipDeviceGetAttribute" "handle_hipDeviceGetAttribute" hip;
   Entry "RPC_hipDriverGetVersion" "handle_hipDriverGetVersion" hip;
   Entry "RPC_hipRuntimeGetVersion" "handle_hipRuntimeGetVersion" hip;
   Entry "RPC_hipDeviceComputeCapability" "handle_hipDeviceComputeCapability" hip;
   Entry "RPC_hipDeviceGetUuid" "handle_hipDeviceGetUuid" hip;
   Entry "RPC_hipDeviceGetP2PAttribute" "handle_hipDeviceGetP2PAttribute" hip;
   Entry "RPC_hipDeviceGetPCIBusId" "handle_hipDeviceGetPCIBusId" hip;
   Entry "RPC_hipDeviceGetByPCIBusId" "handle_hipDeviceGetByPCIBusId" hip;
   Entry "RPC_hipDeviceSynchronize" "handle_hipDeviceSynchronize" hip;
   Entry "RPC_hipDeviceReset" "handle_hipDeviceReset" hip;
   Entry "RPC_hipDeviceGetDefaultMemPool" "handle_hipDeviceGetDefaultMemPool" hip;
   Entry "RPC_hipDeviceSetMemPool" "handle_hipDeviceSetMemPool" hip;
   Entry "RPC_hipDeviceGetMemPool" "handle_hipDeviceGetMemPool" hip;
   Entry "RPC_hipDeviceGetTexture1DLinearMaxWidth" "handle_hipDeviceGetTexture1DLinearMaxWidth" hip;
   Entry "RPC_hipDeviceSetCacheConfig" "handle_hipDeviceSetCacheConfig" hip;
   Entry "RPC_hipDeviceGetCacheConfig" "handle_hipDeviceGetCacheConfig" hip;
   Entry "RPC_hipDeviceGetLimit" "handle_hipDeviceGetLimit" hip;
   Entry "RPC_hipDeviceSetLimit" "handle_hipDeviceSetLimit" hip;
   Entry "RPC_hipDeviceGetSharedMemConfig" "handle_hipDeviceGetSharedMemConfig" hip;
   Entry "RPC_hipGetDeviceFlags" "handle_hipGetDeviceFlags" hip;
   Entry "RPC_hipDeviceSetSharedMemConfig" "handle_hipDeviceSetSharedMemConfig" hip;
   Entry "RPC_hipSetDeviceFlags" "handle_hipSetDeviceFlags" hip;
   Entry "RPC_hipChooseDeviceR0600" "handle_hipChooseDeviceR0600" hip;
   Entry "RPC_hipExtGetLinkTypeAndHopCount" "handle_hipExtGetLinkTypeAndHopCount" hip;
   Entry "RPC_hipDeviceGetStreamPriorityRange" "handle_hipDeviceGetStreamPriorityRange" hip;
   Entry "RPC_hipDeviceGraphMemTrim" "handle_hipDeviceGraphMemTrim" hip;
   Entry "RPC_hipProfilerStart" "handle_hipProfilerStart" hip;
   Entry "RPC_hipProfilerStop" "handle_hipProfilerStop" hip;
   Entry "RPC_hipIpcGetMemHandle" "handle_hipIpcGetMemHandle" hip;
   Entry "RPC_hipIpcOpenMemHandle" "handle_hipIpcOpenMemHandle" hip;
   Entry "RPC_hipIpcCloseMemHandle" "handle_hipIpcCloseMemHandle" hip;
   Entry "RPC_hipIpcGetEventHandle" "handle_hipIpcGetEventHandle" hip;
   Entry "RPC_hipIpcOpenEventHandle" "handle_hipIpcOpenEventHandle" hip;
   Entry "RPC_hipStreamCreate" "handle_hipStreamCreate" hip;
   Entry "RPC_hipStreamCreateWithFlags" "handle_hipStreamCreateWithFlags" hip;
   Entry "RPC_hipStreamCreateWithPriority" "handle_hipStreamCreateWithPriority" hip;
   Entry "RPC_hipStreamDestroy" "handle_hipStreamDestroy" hip;
   Entry "RPC_hipStreamQuery" "handle_hipStreamQuery" hip;
   Entry "RPC_hipStreamSynchronize" "handle_hipStreamSynchronize" hip;
   Entry "RPC_hipStreamWaitEvent" "handle_hipStreamWaitEvent" hip;
   Entry "RPC_hipStreamGetFlags" "handle_hipStreamGetFlags" hip;
   Entry "RPC_hipStreamGetId" "handle_hipStreamGetId" hip;
   Entry "RPC_hipStreamGetPriority" "handle_hipStreamGetPriority" hip;
   Entry "RPC_hipStreamGetDevice" "handle_hipStreamGetDevice" hip;
   Entry "RPC_hipExtStreamCreateWithCUMask" "handle_hipExtStreamCreateWithCUMask" hip;
   Entry "RPC_hipExtStreamGetCUMask" "handle_hipExtStreamGetCUMask" hip;
   Entry "RPC_hipStreamSetAttribute" "handle_hipStreamSetAttribute" hip;
   Entry "RPC_hipStreamGetAttribute" "handle_hipStreamGetAttribute" hip;
   Entry "RPC_hipStreamCopyAttributes" "handle_hipStreamCopyAttributes" hip;
   Entry "RPC_hipStreamWaitValue32" "handle_hipStreamWaitValue32" hip;
   Entry "RPC_hipStreamWaitValue64" "handle_hipStreamWaitValue64" hip;
   Entry "RPC_hipStreamWriteValue32" "handle_hipStreamWriteValue32" hip;
   Entry "RPC_hipStreamWriteValue64" "handle_hipStreamWriteValue64" hip;
   Entry "RPC_hipStreamBatchMemOp" "handle_hipStreamBatchMemOp" hip;
   Entry "RPC_hipGraphAddBatchMemOpNode" "handle_hipGraphAddBatchMemOpNode" hip;
   Entry "RPC_hipGraphBatchMemOpNodeSetParams" "handle_hipGraphBatchMemOpNodeSetParams" hip;
   Entry "RPC_hipGraphExecBatchMemOpNodeSetParams" "handle_hipGraphExecBatchMemOpNodeSetParams" hip;
   Entry "RPC_hipEventCreateWithFlags" "handle_hipEventCreateWithFlags" hip;
   Entry "RPC_hipEventCreate" "handle_hipEventCreate" hip;
   Entry "RPC_hipEventRecordWithFlags" "handle_hipEventRecordWithFlags" hip;
   Entry "RPC_hipEventRecord" "handle_hipEventRecord" hip;
   Entry "RPC_hipEventDestroy" "handle_hipEventDestroy" hip;
   Entry "RPC_hipEventSynchronize" "handle_hipEventSynchronize" hip;
   Entry "RPC_hipEventElapsedTime" "handle_hipEventElapsedTime" hip;
   Entry "RPC_hipEventQuery" "handle_hipEventQuery" hip;
   Entry "RPC_hipPointerGetAttributes" "handle_hipPointerGetAttributes" hip;
   Entry "RPC_hipMalloc" "handle_hipMalloc" hip;
   Entry "RPC_hipExtMallocWithFlags" "handle_hipExtMallocWithFlags" hip;
   Entry "RPC_hipMallocManaged" "handle_hipMallocManaged" hip;
   Entry "RPC_hipMemPrefetchAsync" "handle_hipMemPrefetchAsync" hip;
   Entry "RPC_hipMemPrefetchAsync_v2" "handle_hipMemPrefetchAsync_v2" hip;
   Entry "RPC_hipMemAdvise" "handle_hipMemAdvise" hip;
   Entry "RPC_hipMemAdvise_v2" "handle_hipMemAdvise_v2" hip;
   Entry "RPC_hipMemRangeGetAttribute" "handle_hipMemRangeGetAttribute" hip;
   Entry "RPC_hipStreamAttachMemAsync" "handle_hipStreamAttachMemAsync" hip;
   Entry "RPC_hipMallocAsync" "handle_hipMallocAsync" hip;
   Entry "RPC_hipFreeAsync" "handle_hipFreeAsync" hip;
   Entry "RPC_hipMemPoolTrimTo" "handle_hipMemPoolTrimTo" hip;
   Entry "RPC_hipMemPoolSetAccess" "handle_hipMemPoolSetAccess" hip;
   Entry "RPC_hipMemPoolGetAccess" "handle_hipMemPoolGetAccess" hip;
   Entry "RPC_hipMemPoolCreate" "handle_hipMemPoolCreate" hip;
   Entry "RPC_hipMemPoolDestroy" "handle_hipMemPoolDestroy" hip;
   Entry "RPC_hipMallocFromPoolAsync" "handle_hipMallocFromPoolAsync" hip;
   Entry "RPC_hipMemPoolExportPointer" "handle_hipMemPoolExportPointer" hip;
   Entry "RPC_hipMemPoolImportPointer" "handle_hipMemPoolImportPointer" hip;
   Entry "RPC_hipMallocPitch" "handle_hipMallocPitch" hip;
   Entry "RPC_hipMemAllocPitch" "handle_hipMemAllocPitch" hip;
   Entry "RPC_hipFree" "handle_hipFree" hip;
   Entry "RPC_hipMemcpyHtoD" "handle_hipMemcpyHtoD" hip;
   Entry "RPC_hipMemcpyDtoH" "handle_hipMemcpyDtoH" hip;
   Entry "RPC_hipMemcpyDtoD" "handle_hipMemcpyDtoD" hip;
   Entry "RPC_hipMemcpyAtoD" "handle_hipMemcpyAtoD" hip;
   Entry "RPC_hipMemcpyDtoA" "handle_hipMemcpyDtoA" hip;
   Entry "RPC_hipMemcpyAtoA" "handle_hipMemcpyAtoA" hip;
   Entry "RPC_hipMemcpyDtoDAsync" "handle_hipMemcpyDtoDAsync" hip;
   Entry "RPC_hipMemcpyAtoH" "handle_hipMemcpyAtoH" hip;
   Entry "RPC_hipMemcpyHtoA" "handle_hipMemcpyHtoA" hip;
   Entry "RPC_hipMemcpy2DArrayToArray" "handle_hipMemcpy2DArrayToArray" hip;
   Entry "RPC_hipMemcpyPeer" "handle_hipMemcpyPeer" hip;
   Entry "RPC_hipMemcpyPeerAsync" "handle_hipMemcpyPeerAsync" hip;
   Entry "RPC_hipModuleGetGlobal" "handle_hipModuleGetGlobal" hip;
   Entry "RPC_hipMemset" "handle_hipMemset" hip;
   Entry "RPC_hipMemsetD8" "handle_hipMemsetD8" hip;
   Entry "RPC_hipMemsetD8Async" "handle_hipMemsetD8Async" hip;
   Entry "RPC_hipMemsetD16" "handle_hipMemsetD16" hip;
   Entry "RPC_hipMemsetD16Async" "handle_hipMemsetD16Async" hip;
   Entry "RPC_hipMemsetD32" "handle_hipMemsetD32" hip;
   Entry "RPC_hipMemsetAsync" "handle_hipMemsetAsync" hip;
   Entry "RPC_hipMemsetD32Async" "handle_hipMemsetD32Async" hip;
   Entry "RPC_hipMemset2D" "handle_hipMemset2D" hip;
   Entry "RPC_hipMemset2DAsync" "handle_hipMemset2DAsync" hip;
   Entry "RPC_hipMemset3D" "handle_hipMemset3D" hip;
   Entry "RPC_hipMemset3DAsync" "handle_hipMemset3DAsync" hip;
   Entry "RPC_hipMemsetD2D8" "handle_hipMemsetD2D8" hip;
   Entry "RPC_hipMemsetD2D8Async" "handle_hipMemsetD2D8Async" hip;
   Entry "RPC_hipMemsetD2D16" "handle_hipMemsetD2D16" hip;
   Entry "RPC_hipMemsetD2D16Async" "handle_hipMemsetD2D16Async" hip;
   Entry "RPC_hipMemsetD2D32" "handle_hipMemsetD2D32" hip;
   Entry "RPC_hipMemsetD2D32Async" "handle_hipMemsetD2D32Async" hip;
   Entry "RPC_hipMemGetInfo" "handle_hipMemGetInfo" hip;
   Entry "RPC_hipMemPtrGetInfo" "handle_hipMemPtrGetInfo" hip;
   Entry "RPC_hipMemGetAddressRange" "handle_hipMemGetAddressRange" hip;
   Entry "RPC_hipMallocArray" "handle_hipMallocArray" hip;
   Entry "RPC_hipArrayCreate" "handle_hipArrayCreate" hip;
   Entry "RPC_hipArrayDestroy" "handle_hipArrayDestroy" hip;
   Entry "RPC_hipArray3DCreate" "handle_hipArray3DCreate" hip;
   Entry "RPC_hipMalloc3D" "handle_hipMalloc3D" hip;
   Entry "RPC_hipFreeArray" "handle_hipFreeArray" hip;
   Entry "RPC_hipMalloc3DArray" "handle_hipMalloc3DArray" hip;
   Entry "RPC_hipArrayGetInfo" "handle_hipArrayGetInfo" hip;
   Entry "RPC_hipArrayGetDescriptor" "handle_hipArrayGetDescriptor" hip].

Definition hip_handlers_2 : list registry_entry :=
  [Entry "RPC_hipArray3DGetDescriptor" "handle_hipArray3DGetDescriptor" hip;
   Entry "RPC_hipMallocMipmappedArray" "handle_hipMallocMipmappedArray" hip;
   Entry "RPC_hipFreeMipmappedArray" "handle_hipFreeMipmappedArray" hip;
   Entry "RPC_hipGetMipmappedArrayLevel" "handle_hipGetMipmappedArrayLevel" hip;
   Entry "RPC_hipMipmappedArrayCreate" "handle_hipMipmappedArrayCreate" hip;
   Entry "RPC_hipMipmappedArrayDestroy" "handle_hipMipmappedArrayDestroy" hip;
   Entry "RPC_hipMipmappedArrayGetLevel" "handle_hipMipmappedArrayGetLevel" hip;
   Entry "RPC_hipDeviceCanAccessPeer" "handle_hipDeviceCanAccessPeer" hip;
   Entry "RPC_hipDeviceEnablePeerAccess" "handle_hipDeviceEnablePeerAccess" hip;
   Entry "RPC_hipDeviceDisablePeerAccess" "handle_hipDeviceDisablePeerAccess" hip;
   Entry "RPC_hipCtxCreate" "handle_hipCtxCreate" hip;
   Entry "RPC_hipCtxDestroy" "handle_hipCtxDestroy" hip;
   Entry "RPC_hipCtxPopCurrent" "handle_hipCtxPopCurrent" hip;
   Entry "RPC_hipCtxPushCurrent" "handle_hipCtxPushCurrent" hip;
   Entry "RPC_hipCtxSetCurrent" "handle_hipCtxSetCurrent" hip;
   Entry "RPC_hipCtxGetCurrent" "handle_hipCtxGetCurrent" hip;
   Entry "RPC_hipCtxGetDevice" "handle_hipCtxGetDevice" hip;
   Entry "RPC_hipCtxGetApiVersion" "handle_hipCtxGetApiVersion" hip;
   Entry "RPC_hipCtxGetCacheConfig" "handle_hipCtxGetCacheConfig" hip;
   Entry "RPC_hipCtxSetCacheConfig" "handle_hipCtxSetCacheConfig" hip;
   Entry "RPC_hipCtxSetSharedMemConfig" "handle_hipCtxSetSharedMemConfig" hip;
   Entry "RPC_hipCtxGetSharedMemConfig" "handle_hipCtxGetSharedMemConfig" hip;
   Entry "RPC_hipCtxSynchronize" "handle_hipCtxSynchronize" hip;
   Entry "RPC_hipCtxGetFlags" "handle_hipCtxGetFlags" hip;
   Entry "RPC_hipCtxEnablePeerAccess" "handle_hipCtxEnablePeerAccess" hip;
   Entry "RPC_hipCtxDisablePeerAccess" "handle_hipCtxDisablePeerAccess" hip;
   Entry "RPC_hipDevicePrimaryCtxGetState" "handle_hipDevicePrimaryCtxGetState" hip;
   Entry "RPC_hipDevicePrimaryCtxRelease" "handle_hipDevicePrimaryCtxRelease" hip;
   Entry "RPC_hipDevicePrimaryCtxRetain" "handle_hipDevicePrimaryCtxRetain" hip;
   Entry "RPC_hipDevicePrimaryCtxReset" "handle_hipDevicePrimaryCtxReset" hip;
   Entry "RPC_hipDevicePrimaryCtxSetFlags" "handle_hipDevicePrimaryCtxSetFlags" hip;
   Entry "RPC_hipModuleGetFunction" "handle_hipModuleGetFunction" hip;
   Entry "RPC_hipModuleGetFunctionCount" "handle_hipModuleGetFunctionCount" hip;
   Entry "RPC_hipLibraryUnload" "handle_hipLibraryUnload" hip;
   Entry "RPC_hipLibraryGetKernel" "handle_hipLibraryGetKernel" hip;
   Entry "RPC_hipLibraryGetKernelCount" "handle_hipLibraryGetKernelCount" hip;
   Entry "RPC_hipLibraryEnumerateKernels" "handle_hipLibraryEnumerateKernels" hip;
   Entry "RPC_hipKernelGetLibrary" "handle_hipKernelGetLibrary" hip;
   Entry "RPC_hipFuncGetAttribute" "handle_hipFuncGetAttribute" hip;
   Entry "RPC_hipModuleOccupancyMaxPotentialBlockSize" "handle_hipModuleOccupancyMaxPotentialBlockSize" hip;
   Entry "RPC_hipModuleOccupancyMaxPotentialBlockSizeWithFlags" "handle_hipModuleOccupancyMaxPotentialBlockSizeWithFlags" hip;
   Entry "RPC_hipModuleOccupancyMaxActiveBlocksPerMultiprocessor" "handle_hipModuleOccupancyMaxActiveBlocksPerMultiprocessor" hip;
   Entry "RPC_hipModuleOccupancyMaxActiveBlocksPerMultiprocessorWithFlags" "handle_hipModuleOccupancyMaxActiveBlocksPerMultiprocessorWithFlags" hip;
   Entry "RPC_hipCreateTextureObject" "handle_hipCreateTextureObject" hip;
   Entry "RPC_hipDestroyTextureObject" "handle_hipDestroyTextureObject" hip;
   Entry "RPC_hipGetChannelDesc" "handle_hipGetChannelDesc" hip;
   Entry "RPC_hipGetTextureObjectResourceDesc" "handle_hipGetTextureObjectResourceDesc" hip;
   Entry "RPC_hipGetTextureObjectResourceViewDesc" "handle_hipGetTextureObjectResourceViewDesc" hip;
   Entry "RPC_hipGetTextureObjectTextureDesc" "handle_hipGetTextureObjectTextureDesc" hip;
   Entry "RPC_hipTexObjectCreate" "handle_hipTexObjectCreate" hip;
   Entry "RPC_hipTexObjectDestroy" "handle_hipTexObjectDestroy" hip;
   Entry "RPC_hipTexObjectGetResourceDesc" "handle_hipTexObjectGetResourceDesc" hip;
   Entry "RPC_hipTexObjectGetResourceViewDesc" "handle_hipTexObjectGetResourceViewDesc" hip;
   Entry "RPC_hipTexObjectGetTextureDesc" "handle_hipTexObjectGetTextureDesc" hip;
   Entry "RPC_hipCreateSurfaceObject" "handle_hipCreateSurfaceObject" hip;
   Entry "RPC_hipDestroySurfaceObject" "handle_hipDestroySurfaceObject" hip;
   Entry "RPC_hipStreamBeginCapture" "handle_hipStreamBeginCapture" hip;
   Entry "RPC_hipStreamBeginCaptureToGraph" "handle_hipStreamBeginCaptureToGraph" hip;
   Entry "RPC_hipStreamEndCapture" "handle_hipStreamEndCapture" hip;
   Entry "RPC_hipStreamGetCaptureInfo" "handle_hipStreamGetCaptureInfo" hip;
   Entry "RPC_hipStreamIsCapturing" "handle_hipStreamIsCapturing" hip;
   Entry "RPC_hipStreamUpdateCaptureDependencies" "handle_hipStreamUpdateCaptureDependencies" hip;
   Entry "RPC_hipThreadExchangeStreamCaptureMode" "handle_hipThreadExchangeStreamCaptureMode" hip;
   Entry "RPC_hipGraphCreate" "handle_hipGraphCreate" hip;
   Entry "RPC_hipGraphDestroy" "handle_hipGraphDestroy" hip;
   Entry "RPC_hipGraphAddDependencies" "handle_hipGraphAddDependencies" hip;
   Entry "RPC_hipGraphRemoveDependencies" "handle_hipGraphRemoveDependencies" hip;
   Entry "RPC_hipGraphGetEdges" "handle_hipGraphGetEdges" hip;
   Entry "RPC_hipGraphGetNodes" "handle_hipGraphGetNodes" hip;
   Entry "RPC_hipGraphGetRootNodes" "handle_hipGraphGetRootNodes" hip;
   Entry "RPC_hipGraphNodeGetDependencies" "handle_hipGraphNodeGetDependencies" hip;
   Entry "RPC_hipGraphNodeGetDependentNodes" "handle_hipGraphNodeGetDependentNodes" hip;
   Entry "RPC_hipGraphNodeGetType" "handle_hipGraphNodeGetType" hip;
   Entry "RPC_hipGraphDestroyNode" "handle_hipGraphDestroyNode" hip;
   Entry "RPC_hipGraphClone" "handle_hipGraphClone" hip;
   Entry "RPC_hipGraphNodeFindInClone" "handle_hipGraphNodeFindInClone" hip;
   Entry "RPC_hipGraphInstantiate" "handle_hipGraphInstantiate" hip;
   Entry "RPC_hipGraphInstantiateWithFlags" "handle_hipGraphInstantiateWithFlags" hip;
   Entry "RPC_hipGraphInstantiateWithParams" "handle_hipGraphInstantiateWithParams" hip;
   Entry "RPC_hipGraphLaunch" "handle_hipGraphLaunch" hip;
   Entry "RPC_hipGraphUpload" "handle_hipGraphUpload" hip;
   Entry "RPC_hipGraphExecGetFlags" "handle_hipGraphExecGetFlags" hip;
   Entry "RPC_hipGraphExecDestroy" "handle_hipGraphExecDestroy" hip;
   Entry "RPC_hipGraphExecUpdate" "handle_hipGraphExecUpdate" hip;
   Entry "RPC_hipGraphAddMemsetNode" "handle_hipGraphAddMemsetNode" hip;
   Entry "RPC_hipGraphMemsetNodeGetParams" "handle_hipGraphMemsetNodeGetParams" hip;
   Entry "RPC_hipGraphMemsetNodeSetParams" "handle_hipGraphMemsetNodeSetParams" hip;
   Entry "RPC_hipGraphExecMemsetNodeSetParams" "handle_hipGraphExecMemsetNodeSetParams" hip;
   Entry "RPC_hipGraphAddChildGraphNode" "handle_hipGraphAddChildGraphNode" hip;
   Entry "RPC_hipGraphChildGraphNodeGetGraph" "handle_hipGraphChildGraphNodeGetGraph" hip;
   Entry "RPC_hipGraphExecChildGraphNodeSetParams" "handle_hipGraphExecChildGraphNodeSetParams" hip;
   Entry "RPC_hipGraphAddEmptyNode" "handle_hipGraphAddEmptyNode" hip;
   Entry "RPC_hipGraphAddEventRecordNode" "handle_hipGraphAddEventRecordNode" hip;
   Entry "RPC_hipGraphEventRecordNodeGetEvent" "handle_hipGraphEventRecordNodeGetEvent" hip;
   Entry "RPC_hipGraphEventRecordNodeSetEvent" "handle_hipGraphEventRecordNodeSetEvent" hip;
   Entry "RPC_hipGraphExecEventRecordNodeSetEvent" "handle_hipGraphExecEventRecordNodeSetEvent" hip;
   Entry "RPC_hipGraphAddEventWaitNode" "handle_hipGraphAddEventWaitNode" hip;
   Entry "RPC_hipGraphEventWaitNodeGetEvent" "handle_hipGraphEventWaitNodeGetEvent" hip;
   Entry "RPC_hipGraphEventWaitNodeSetEvent" "handle_hipGraphEventWaitNodeSetEvent" hip;
   Entry "RPC_hipGraphExecEventWaitNodeSetEvent" "handle_hipGraphExecEventWaitNodeSetEvent" hip;
   Entry "RPC_hipGraphAddMemFreeNode" "handle_hipGraphAddMemFreeNode" hip;
   Entry "RPC_hipGraphMemFreeNodeGetParams" "handle_hipGraphMemFreeNodeGetParams" hip;
   Entry "RPC_hipGraphKernelNodeCopyAttributes" "handle_hipGraphKernelNodeCopyAttributes" hip;
   Entry "RPC_hipGraphNodeSetEnabled" "handle_hipGraphNodeSetEnabled" hip;
   Entry "RPC_hipGraphNodeGetEnabled" "handle_hipGraphNodeGetEnabled" hip;
   Entry "RPC_hipDrvGraphAddMemsetNode" "handle_hipDrvGraphAddMemsetNode" hip;
   Entry "RPC_hipDrvGraphAddMemFreeNode" "handle_hipDrvGraphAddMemFreeNode" hip;
   Entry "RPC_hipDrvGraphExecMemsetNodeSetParams" "handle_hipDrvGraphExecMemsetNodeSetParams" hip;
   Entry "RPC_hipMemAddressFree" "handle_hipMemAddressFree" hip;
   Entry "RPC_hipMemAddressReserve" "handle_hipMemAddressReserve" hip;
   Entry "RPC_hipMemCreate" "handle_hipMemCreate" hip;
   Entry "RPC_hipMemGetAccess" "handle_hipMemGetAccess" hip;
   Entry "RPC_hipMemGetAllocationGranularity" "handle_hipMemGetAllocationGranularity" hip;
   Entry "RPC_hipMemGetAllocationPropertiesFromHandle" "handle_hipMemGetAllocationPropertiesFromHandle" hip;
   Entry "RPC_hipMemMap" "handle_hipMemMap" hip;
   Entry "RPC_hipMemMapArrayAsync" "handle_hipMemMapArrayAsync" hip;
   Entry "RPC_hipMemRelease" "handle_hipMemRelease" hip;
   Entry "RPC_hipMemRetainAllocationHandle" "handle_hipMemRetainAllocationHandle" hip;
   Entry "RPC_hipMemSetAccess" "handle_hipMemSetAccess" hip;
   Entry "RPC_hipMemUnmap" "handle_hipMemUnmap" hip].

Definition hip_handlers : list registry_entry := hip_handlers_1 ++ hip_handlers_2.

Definition cuda_declared_1 : list (cond * registry_entry) :=
  [(CudaVersion 12000, Entry "RPC_cuTensorMapEncodeTiled" "handle_cuTensorMapEncodeTiled" cuda);
   (CudaVersion 12000, Entry "RPC_cuTensorMapEncodeIm2col" "handle_cuTensorMapEncodeIm2col" cuda);
   (CudaVersion 12090, Entry "RPC_cuLogsRegisterCallback" "handle_cuLogsRegisterCallback" cuda);
   (CudaVersion 12090, Entry "RPC_cuLogsUnregisterCallback" "handle_cuLogsUnregisterCallback" cuda);
   (OnLinux, Entry "LUPINE_RPC_lupineDeviceOpen" "handle_lupineDeviceOpen" cuda);
   (OnLinux, Entry "LUPINE_RPC_lupineDeviceClose" "handle_lupineDeviceClose" cuda);
   (OnLinux, Entry "LUPINE_RPC_lupineDeviceIoctl" "handle_lupineDeviceIoctl" cuda);
   (CudaVersion 13000, Entry "RPC_cuCtxGetDevice_v2" "handle_cuCtxGetDevice_v2" cuda);
   (CudaVersion 13000, Entry "RPC_cuCtxSynchronize_v2" "handle_cuCtxSynchronize_v2" cuda);
   (CudaVersion 12050, Entry "RPC_cuCtxRecordEvent" "handle_cuCtxRecordEvent" cuda);
   (CudaVersion 12050, Entry "RPC_cuCtxWaitEvent" "handle_cuCtxWaitEvent" cuda);
   (CudaVersion 12020, Entry "RPC_cuMemPrefetchAsync_v2" "handle_cuMemPrefetchAsync_v2" cuda);
   (CudaVersion 12020, Entry "RPC_cuMemAdvise_v2" "handle_cuMemAdvise_v2" cuda);
   (CudaVersion 13010, Entry "RPC_cuGraphNodeGetContainingGraph" "handle_cuGraphNodeGetContainingGraph" cuda);
   (CudaVersion 13010, Entry "RPC_cuGraphNodeGetLocalId" "handle_cuGraphNodeGetLocalId" cuda);
   (CudaVersion 13010, Entry "RPC_cuGraphNodeGetToolsId" "handle_cuGraphNodeGetToolsId" cuda);
   (CudaVersion 13010, Entry "RPC_cuGraphGetId" "handle_cuGraphGetId" cuda);
   (CudaVersion 13010, Entry "RPC_cuGraphExecGetId" "handle_cuGraphExecGetId" cuda);
   (CudaVersion 12020, Entry "RPC_cuGraphNodeSetParams" "handle_cuGraphNodeSetParams" cuda);
   (CudaVersion 12020, Entry "RPC_cuGraphExecNodeSetParams" "handle_cuGraphExecNodeSetParams" cuda);
   (CudaVersion 12000, Entry "RPC_cuTensorMapReplaceAddress" "handle_cuTensorMapReplaceAddress" cuda);
   (CudaVersion 12010, Entry "RPC_cuCoredumpGetAttributeGlobal" "handle_cuCoredumpGetAttributeGlobal" cuda);
   (CudaVersion 12010, Entry "RPC_cuCoredumpSetAttributeGlobal" "handle_cuCoredumpSetAttributeGlobal" cuda);
   (CudaVersion 12040, Entry "RPC_cuGreenCtxCreate" "handle_cuGreenCtxCreate" cuda);
   (CudaVersion 12040, Entry "RPC_cuGreenCtxDestroy" "handle_cuGreenCtxDestroy" cuda);
   (CudaVersion 12040, Entry "RPC_cuCtxFromGreenCtx" "handle_cuCtxFromGreenCtx" cuda);
   (CudaVersion 12040, Entry "RPC_cuDeviceGetDevResource" "handle_cuDeviceGetDevResource" cuda);
   (CudaVersion 12040, Entry "RPC_cuCtxGetDevResource" "handle_cuCtxGetDevResource" cuda);
   (CudaVersion 12040, Entry "RPC_cuGreenCtxGetDevResource" "handle_cuGreenCtxGetDevResource" cuda);
   (CudaVersion 12040, Entry "RPC_cuDevSmResourceSplitByCount" "handle_cuDevSmResourceSplitByCount" cuda);
   (CudaVersion 13010, Entry "RPC_cuDevSmResourceSplit" "handle_cuDevSmResourceSplit" cuda);
   (CudaVersion 12040, Entry "RPC_cuDevResourceGenerateDesc" "handle_cuDevResourceGenerateDesc" cuda);
   (CudaVersion 12040, Entry "RPC_cuGreenCtxRecordEvent" "handle_cuGreenCtxRecordEvent" cuda);
   (CudaVersion 12040, Entry "RPC_cuGreenCtxWaitEvent" "handle_cuGreenCtxWaitEvent" cuda);
   (CudaVersion 12040, Entry "RPC_cuStreamGetGreenCtx" "handle_cuStreamGetGreenCtx" cuda);
   (CudaVersion 12050, Entry "RPC_cuGreenCtxStreamCreate" "handle_cuGreenCtxStreamCreate" cuda);
   (CudaVersion 13000, Entry "RPC_cuGreenCtxGetId" "handle_cuGreenCtxGetId" cuda)].

Definition cuda_declared_2 : list (cond * registry_entry) :=
  [(CudaVersion 13010, Entry "RPC_cuStreamGetDevResource" "handle_cuStreamGetDevResource" cuda);
   (CudaVersion 12090, Entry "RPC_cuLogsCurrent" "handle_cuLogsCurrent" cuda);
   (CudaVersion 12090, Entry "RPC_cuLogsDumpToFile" "handle_cuLogsDumpToFile" cuda);
   (CudaVersion 12090, Entry "RPC_cuLogsDumpToMemory" "handle_cuLogsDumpToMemory" cuda)].

Definition cuda_declared : list (cond * registry_entry) := cuda_declared_1 ++ cuda_declared_2.

Definition nccl_declared_1 : list (cond * registry_entry) :=
  [(NcclVersion 23007, Entry "RPC_ncclParamGetStr" "handle_ncclParamGetStr" nccl);
   (NcclVersion 23007, Entry "RPC_ncclParamGetParameter" "handle_ncclParamGetParameter" nccl);
   (NcclVersion 23007, Entry "RPC_ncclParamGetAllParameterKeys" "handle_ncclParamGetAllParameterKeys" nccl);
   (NcclVersion 21903, Entry "RPC_ncclMemAlloc" "handle_ncclMemAlloc" nccl);
   (NcclVersion 21903, Entry "RPC_ncclMemFree" "handle_ncclMemFree" nccl);
   (NcclVersion 22807, Entry "RPC_ncclCommRevoke" "handle_ncclCommRevoke" nccl);
   (NcclVersion 21801, Entry "RPC_ncclCommSplit" "handle_ncclCommSplit" nccl);
   (NcclVersion 22703, Entry "RPC_ncclCommShrink" "handle_ncclCommShrink" nccl);
   (NcclVersion 22902, Entry "RPC_ncclCommGetUniqueId" "handle_ncclCommGetUniqueId" nccl);
   (NcclVersion 22902, Entry "RPC_ncclCommGrow" "handle_ncclCommGrow" nccl);
   (NcclVersion 22304, Entry "RPC_ncclCommInitRankScalable" "handle_ncclCommInitRankScalable" nccl);
   (NcclVersion 22403, Entry "RPC_ncclResetDebugInit" "handle_ncclResetDebugInit" nccl);
   (NcclVersion 21903, Entry "RPC_ncclCommRegister" "handle_ncclCommRegister" nccl);
   (NcclVersion 21903, Entry "RPC_ncclCommDeregister" "handle_ncclCommDeregister" nccl);
   (NcclVersion 22907, Entry "RPC_ncclCommSuspend" "handle_ncclCommSuspend" nccl);
   (NcclVersion 22907, Entry "RPC_ncclCommResume" "handle_ncclCommResume" nccl);
   (NcclVersion 22907, Entry "RPC_ncclCommMemStats" "handle_ncclCommMemStats" nccl);
   (NcclVersion 22703, Entry "RPC_ncclCommWindowRegister" "handle_ncclCommWindowRegister" nccl);
   (NcclVersion 22703, Entry "RPC_ncclCommWindowDeregister" "handle_ncclCommWindowDeregister" nccl);
   (NcclVersion 22902, Entry "RPC_ncclWinGetUserPtr" "handle_ncclWinGetUserPtr" nccl);
   (NcclVersion 22900, Entry "RPC_ncclGetLsaMultimemDevicePointer" "handle_ncclGetLsaMultimemDevicePointer" nccl);
   (NcclVersion 22900, Entry "RPC_ncclGetPeerDevicePointer" "handle_ncclGetPeerDevicePointer" nccl);
   (NcclVersion 22803, Entry "RPC_ncclAlltoAll" "handle_ncclAlltoAll" nccl);
   (NcclVersion 22803, Entry "RPC_ncclGather" "handle_ncclGather" nccl);
   (NcclVersion 22803, Entry "RPC_ncclScatter" "handle_ncclScatter" nccl);
   (NcclVersion 23102, Entry "RPC_ncclAllReduceConfig" "handle_ncclAllReduceConfig" nccl);
   (NcclVersion 23102, Entry "RPC_ncclBroadcastConfig" "handle_ncclBroadcastConfig" nccl);
   (NcclVersion 23102, Entry "RPC_ncclReduceConfig" "handle_ncclReduceConfig" nccl);
   (NcclVersion 23102, Entry "RPC_ncclAllGatherConfig" "handle_ncclAllGatherConfig" nccl);
   (NcclVersion 23102, Entry "RPC_ncclReduceScatterConfig" "handle_ncclReduceScatterConfig" nccl);
   (NcclVersion 23102, Entry "RPC_ncclAlltoAllConfig" "handle_ncclAlltoAllConfig" nccl);
   (NcclVersion 23102, Entry "RPC_ncclGatherConfig" "handle_ncclGatherConfig" nccl);
   (NcclVersion 23102, Entry "RPC_ncclScatterConfig" "handle_ncclScatterConfig" nccl);
   (NcclVersion 22902, Entry "RPC_ncclPutSignal" "handle_ncclPutSignal" nccl);
   (NcclVersion 22902, Entry "RPC_ncclSignal" "handle_ncclSignal" nccl);
   (NcclVersion 22902, Entry "RPC_ncclWaitSignal" "handle_ncclWaitSignal" nccl);
   (NcclVersion 22203, Entry "RPC_ncclGroupSimulateEnd" "handle_ncclGroupSimulateEnd" nccl);
   (NcclVersion 23007, Entry "RPC_ncclParamBind" "handle_ncclParamBind" nccl)].

Definition nccl_declared_2 : list (cond * registry_entry) :=
  [(NcclVersion 23007, Entry "RPC_ncclParamGetI8" "handle_ncclParamGetI8" nccl);
   (NcclVersion 23007, Entry "RPC_ncclParamGetI16" "handle_ncclParamGetI16" nccl);
   (NcclVersion 23007, Entry "RPC_ncclParamGetI32" "handle_ncclParamGetI32" nccl);
   (NcclVersion 23007, Entry "RPC_ncclParamGetI64" "handle_ncclParamGetI64" nccl);
   (NcclVersion 23007, Entry "RPC_ncclParamGetU8" "handle_ncclParamGetU8" nccl);
   (NcclVersion 23007, Entry "RPC_ncclParamGetU16" "handle_ncclParamGetU16" nccl);
   (NcclVersion 23007, Entry "RPC_ncclParamGetU32" "handle_ncclParamGetU32" nccl);
   (NcclVersion 23007, Entry "RPC_ncclParamGetU64" "handle_ncclParamGetU64" nccl);
   (NcclVersion 23007, Entry "RPC_ncclParamGet" "handle_ncclParamGet" nccl);
   (NcclVersion 23007, Entry "RPC_ncclParamDumpAll" "handle_ncclParamDumpAll" nccl)].

Definition nccl_declared : list (cond * registry_entry) := nccl_declared_1 ++ nccl_declared_2.

Definition cuda_registered_1 : list (cond * registry_entry) :=
  [(CudaVersion 12000, Entry "RPC_cuTensorMapEncodeTiled" "handle_cuTensorMapEncodeTiled" cuda);
   (CudaVersion 12000, Entry "RPC_cuTensorMapEncodeIm2col" "handle_cuTensorMapEncodeIm2col" cuda);
   (CudaVersion 12090, Entry "RPC_cuLogsRegisterCallback" "handle_cuLogsRegisterCallback" cuda);
   (CudaVersion 12090, Entry "RPC_cuLogsUnregisterCallback" "handle_cuLogsUnregisterCallback" cuda);
   (OnLinux, Entry "LUPINE_RPC_lupineDeviceOpen" "handle_lupineDeviceOpen" cuda);
   (OnLinux, Entry "LUPINE_RPC_lupineDeviceClose" "handle_lupineDeviceClose" cuda);
   (OnLinux, Entry "LUPINE_RPC_lupineDeviceIoctl" "handle_lupineDeviceIoctl" cuda);
   (CudaVersion 13000, Entry "RPC_cuCtxGetDevice_v2" "handle_cuCtxGetDevice_v2" cuda);
   (CudaVersion 13000, Entry "RPC_cuCtxSynchronize_v2" "handle_cuCtxSynchronize_v2" cuda);
   (CudaVersion 12050, Entry "RPC_cuCtxRecordEvent" "handle_cuCtxRecordEvent" cuda);
   (CudaVersion 12050, Entry "RPC_cuCtxWaitEvent" "handle_cuCtxWaitEvent" cuda);
   (CudaVersion 12020, Entry "RPC_cuMemPrefetchAsync_v2" "handle_cuMemPrefetchAsync_v2" cuda);
   (CudaVersion 12020, Entry "RPC_cuMemAdvise_v2" "handle_cuMemAdvise_v2" cuda);
   (CudaVersion 13010, Entry "RPC_cuGraphNodeGetContainingGraph" "handle_cuGraphNodeGetContainingGraph" cuda);
   (CudaVersion 13010, Entry "RPC_cuGraphNodeGetLocalId" "handle_cuGraphNodeGetLocalId" cuda);
   (CudaVersion 13010, Entry "RPC_cuGraphNodeGetToolsId" "handle_cuGraphNodeGetToolsId" cuda);
   (CudaVersion 13010, Entry "RPC_cuGraphGetId" "handle_cuGraphGetId" cuda);
   (CudaVersion 13010, Entry "RPC_cuGraphExecGetId" "handle_cuGraphExecGetId" cuda);
   (CudaVersion 12020, Entry "RPC_cuGraphNodeSetParams" "handle_cuGraphNodeSetParams" cuda);
   (CudaVersion 12020, Entry "RPC_cuGraphExecNodeSetParams" "handle_cuGraphExecNodeSetParams" cuda);
   (CudaVersion 12000, Entry "RPC_cuTensorMapReplaceAddress" "handle_cuTensorMapReplaceAddress" cuda);
   (CudaVersion 12010, Entry "RPC_cuCoredumpGetAttributeGlobal" "handle_cuCoredumpGetAttributeGlobal" cuda);
   (CudaVersion 12010, Entry "RPC_cuCoredumpSetAttributeGlobal" "handle_cuCoredumpSetAttributeGlobal" cuda);
   (CudaVersion 12040, Entry "RPC_cuGreenCtxCreate" "handle_cuGreenCtxCreate" cuda);
   (CudaVersion 12040, Entry "RPC_cuGreenCtxDestroy" "handle_cuGreenCtxDestroy" cuda);
   (CudaVersion 12040, Entry "RPC_cuCtxFromGreenCtx" "handle_cuCtxFromGreenCtx" cuda);
   (CudaVersion 12040, Entry "RPC_cuDeviceGetDevResource" "handle_cuDeviceGetDevResource" cuda);
   (CudaVersion 12040, Entry "RPC_cuCtxGetDevResource" "handle_cuCtxGetDevResource" cuda);
   (CudaVersion 12040, Entry "RPC_cuGreenCtxGetDevResource" "handle_cuGreenCtxGetDevResource" cuda);
   (CudaVersion 12040, Entry "RPC_cuDevSmResourceSplitByCount" "handle_cuDevSmResourceSplitByCount" cuda);
   (CudaVersion 13010, Entry "RPC_cuDevSmResourceSplit" "handle_cuDevSmResourceSplit" cuda);
   (CudaVersion 12040, Entry "RPC_cuDevResourceGenerateDesc" "handle_cuDevResourceGenerateDesc" cuda);
   (CudaVersion 12040, Entry "RPC_cuGreenCtxRecordEvent" "handle_cuGreenCtxRecordEvent" cuda);
   (CudaVersion 12040, Entry "RPC_cuGreenCtxWaitEvent" "handle_cuGreenCtxWaitEvent" cuda);
   (CudaVersion 12040, Entry "RPC_cuStreamGetGreenCtx" "handle_cuStreamGetGreenCtx" cuda);
   (CudaVersion 12050, Entry "RPC_cuGreenCtxStreamCreate" "handle_cuGreenCtxStreamCreate" cuda);
   (CudaVersion 13000, Entry "RPC_cuGreenCtxGetId" "handle_cuGreenCtxGetId" cuda);
   (CudaVersion 13010, Entry "RPC_cuStreamGetDevResource" "handle_cuStreamGetDevResource" cuda);
   (CudaVersion 12090, Entry "RPC_cuLogsCurrent" "handle_cuLogsCurrent" cuda);
   (CudaVersion 12090, Entry "RPC_cuLogsDumpToFile" "handle_cuLogsDumpToFile" cuda);
   (CudaVersion 12090, Entry "RPC_cuLogsDumpToMemory" "handle_cuLogsDumpToMemory" cuda)].

Definition cuda_registered : list (cond * registry_entry) := cuda_registered_1.

Definition nccl_registered_1 : list (cond * registry_entry) :=
  [(NcclVersion 23007, Entry "RPC_ncclParamGetStr" "handle_ncclParamGetStr" nccl);
   (NcclVersion 23007, Entry "RPC_ncclParamGetParameter" "handle_ncclParamGetParameter" nccl);
   (NcclVersion 23007, Entry "RPC_ncclParamGetAllParameterKeys" "handle_ncclParamGetAllParameterKeys" nccl);
   (NcclVersion 21903, Entry "RPC_ncclMemAlloc" "handle_ncclMemAlloc" nccl);
   (NcclVersion 21903, Entry "RPC_ncclMemFree" "handle_ncclMemFree" nccl);
   (NcclVersion 22807, Entry "RPC_ncclCommRevoke" "handle_ncclCommRevoke" nccl);
   (NcclVersion 21801, Entry "RPC_ncclCommSplit" "handle_ncclCommSplit" nccl);
   (NcclVersion 22703, Entry "RPC_ncclCommShrink" "handle_ncclCommShrink" nccl);
   (NcclVersion 22902, Entry "RPC_ncclCommGetUniqueId" "handle_ncclCommGetUniqueId" nccl);
   (NcclVersion 22902, Entry "RPC_ncclCommGrow" "handle_ncclCommGrow" nccl);
   (NcclVersion 22304, Entry "RPC_ncclCommInitRankScalable" "handle_ncclCommInitRankScalable" nccl);
   (NcclVersion 22403, Entry "RPC_ncclResetDebugInit" "handle_ncclResetDebugInit" nccl);
   (NcclVersion 21903, Entry "RPC_ncclCommRegister" "handle_ncclCommRegister" nccl);
   (NcclVersion 21903, Entry "RPC_ncclCommDeregister" "handle_ncclCommDeregister" nccl);
   (NcclVersion 22907, Entry "RPC_ncclCommSuspend" "handle_ncclCommSuspend" nccl);
   (NcclVersion 22907, Entry "RPC_ncclCommResume" "handle_ncclCommResume" nccl);
   (NcclVersion 22907, Entry "RPC_ncclCommMemStats" "handle_ncclCommMemStats" nccl);
   (NcclVersion 22703, Entry "RPC_ncclCommWindowRegister" "handle_ncclCommWindowRegister" nccl);
   (NcclVersion 22703, Entry "RPC_ncclCommWindowDeregister" "handle_ncclCommWindowDeregister" nccl);
   (NcclVersion 22902, Entry "RPC_ncclWinGetUserPtr" "handle_ncclWinGetUserPtr" nccl);
   (NcclVersion 22900, Entry "RPC_ncclGetLsaMultimemDevicePointer" "handle_ncclGetLsaMultimemDevicePointer" nccl);
   (NcclVersion 22900, Entry "RPC_ncclGetPeerDevicePointer" "handle_ncclGetPeerDevicePointer" nccl);
   (NcclVersion 22803, Entry "RPC_ncclAlltoAll" "handle_ncclAlltoAll" nccl);
   (NcclVersion 22803, Entry "RPC_ncclGather" "handle_ncclGather" nccl);
   (NcclVersion 22803, Entry "RPC_ncclScatter" "handle_ncclScatter" nccl);
   (NcclVersion 23102, Entry "RPC_ncclAllReduceConfig" "handle_ncclAllReduceConfig" nccl);
   (NcclVersion 23102, Entry "RPC_ncclBroadcastConfig" "handle_ncclBroadcastConfig" nccl);
   (NcclVersion 23102, Entry "RPC_ncclReduceConfig" "handle_ncclReduceConfig" nccl);
   (NcclVersion 23102, Entry "RPC_ncclAllGatherConfig" "handle_ncclAllGatherConfig" nccl);
   (NcclVersion 23102, Entry "RPC_ncclReduceScatterConfig" "handle_ncclReduceScatterConfig" nccl);
   (NcclVersion 23102, Entry "RPC_ncclAlltoAllConfig" "handle_ncclAlltoAllConfig" nccl);
   (NcclVersion 23102, Entry "RPC_ncclGatherConfig" "handle_ncclGatherConfig" nccl);
   (NcclVersion 23102, Entry "RPC_ncclScatterConfig" "handle_ncclScatterConfig" nccl);
   (NcclVersion 22902, Entry "RPC_ncclPutSignal" "handle_ncclPutSignal" nccl);
   (NcclVersion 22902, Entry "RPC_ncclSignal" "handle_ncclSignal" nccl);
   (NcclVersion 22902, Entry "RPC_ncclWaitSignal" "handle_ncclWaitSignal" nccl);
   (NcclVersion 22203, Entry "RPC_ncclGroupSimulateEnd" "handle_ncclGroupSimulateEnd" nccl);
   (NcclVersion 23007, Entry "RPC_ncclParamBind" "handle_ncclParamBind" nccl);
   (NcclVersion 23007, Entry "RPC_ncclParamGetI8" "handle_ncclParamGetI8" nccl);
   (NcclVersion 23007, Entry "RPC_ncclParamGetI16" "handle_ncclParamGetI16" nccl);
   (NcclVersion 23007, Entry "RPC_ncclParamGetI32" "handle_ncclParamGetI32" nccl);
   (NcclVersion 23007, Entry "RPC_ncclParamGetI64" "handle_ncclParamGetI64" nccl);
   (NcclVersion 23007, Entry "RPC_ncclParamGetU8" "handle_ncclParamGetU8" nccl);
   (NcclVersion 23007, Entry "RPC_ncclParamGetU16" "handle_ncclParamGetU16" nccl);
   (NcclVersion 23007, Entry "RPC_ncclParamGetU32" "handle_ncclParamGetU32" nccl);
   (NcclVersion 23007, Entry "RPC_ncclParamGetU64" "handle_ncclParamGetU64" nccl);
   (NcclVersion 23007, Entry "RPC_ncclParamGet" "handle_ncclParamGet" nccl);
   (NcclVersion 23007, Entry "RPC_ncclParamDumpAll" "handle_ncclParamDumpAll" nccl)].

Definition nccl_registered : list (cond * registry_entry) := nccl_registered_1.

(** ** A build *)

Record build := Build {
  has_backend : rpc_backend -> bool;
  cuda_version : Z;
  nccl_version : Z;
  on_linux : bool }.

Definition cond_holds (b : build) (c : cond) : bool :=
  match c with
  | CudaVersion n => n <=? cuda_version b
  | NcclVersion n => n <=? nccl_version b
  | OnLinux => on_linux b
  end.

(** An entry with the conditions it stands under: its backend and at most one more. *)
Record conditional := Conditional {
  if_backend : rpc_backend;
  if_cond : option cond;
  entry : registry_entry }.

#[export] Instance conditional_eq_dec : EqDecision conditional.
Proof. solve_decision. Defined.

Definition enabled (b : build) (e : conditional) : bool :=
  has_backend b (if_backend e) &&
  match if_cond e with Some c => cond_holds b c | None => true end.

Definition plain (k : rpc_backend) (l : list registry_entry) : list conditional :=
  Conditional k None <$> l.
Definition guarded (k : rpc_backend) (l : list (cond * registry_entry)) : list conditional :=
  (fun e => Conditional k (Some e.1) e.2) <$> l.

(** The declarations of the handlers, and the initializer of the registry. *)
Definition declarations : list conditional :=
  plain cuda cuda_handlers ++ guarded cuda cuda_declared
  ++ plain nccl nccl_handlers ++ guarded nccl nccl_declared
  ++ plain nvml nvml_handlers ++ plain hip hip_handlers.

Definition registrations : list conditional :=
  plain cuda cuda_handlers ++ guarded cuda cuda_registered
  ++ plain nccl nccl_handlers ++ guarded nccl nccl_registered
  ++ plain nvml nvml_handlers ++ plain hip hip_handlers.

(** [struct rpc_handler]; [None] is a null function pointer. *)
Record rpc_handler := RpcHandler { handler : option string; backend : rpc_backend }.

#[export] Instance rpc_handler_eq_dec : EqDecision rpc_handler.
Proof. solve_decision. Defined.

(** [LUPINE_REGISTER_HANDLER]. *)
Definition register (e : registry_entry) : option (Z * rpc_handler) :=
  let '(Entry operation h k) := e in
  op ← lookup_id operation; Some (op, RpcHandler (Some h) k).

(** The [unordered_map] of a build; of two entries with the same key the first stays. *)
Definition lupine_rpc_handlers (b : build) : list (Z * rpc_handler) :=
  omap (fun e => if enabled b e then register (entry e) else None) registrations.

Definition find_handler (handlers : list (Z * rpc_handler)) (op : Z) : option rpc_handler :=
  snd <$> List.find (fun e => e.1 =? op) handlers.

Definition rpc_server_validate (handlers : list (Z * rpc_handler)) : bool :=
  forallb (fun e => match handler e.2 with
                    | None => false
                    | Some _ => match backend e.2 with cuda | nccl | nvml | hip => true end
                    end) handlers.

(** ** Dispatch *)

Definition LUPINE_RPC_CLIENT_METADATA : Z := 0x4c504d01.
Definition LUPINE_HANDOFF_DRAIN_REQUEST : Z := 0x4c504d02.

Definition bulk_ops : list (option Z) :=
  [lookup_id "LUPINE_RPC_lupineBulkChunk"; lookup_id "LUPINE_RPC_lupineBulkRead"].

(** What a dispatch does: drain the CUDA calls, answer, take the client's metadata, enter and
    leave the checkpoint gate ([cuda_call_guard]), run a handler. *)
Inductive dispatch_event :=
| DrainCalls
| Reply (result : Z)
| ReadMetadata
| EnterGate
| RunHandler (f : string)
| LeaveGate.

(** What [rpc_server_dispatch] calls: whether the answer to a drain could be sent, the
    result of the metadata handler and those of the handlers. *)
Record callees := Callees {
  reply_sent : bool;
  handle_lupine_client_metadata : Z;
  run_handler : string -> Z }.

Section Dispatch.
Context (b : build) (calls : callees).

Definition gated (h : option string) : list dispatch_event :=
  match h with Some f => [EnterGate; RunHandler f; LeaveGate] | None => [] end.
Definition ungated (h : option string) : list dispatch_event :=
  match h with Some f => [RunHandler f] | None => [] end.
Definition result_of (h : option string) : Z :=
  match h with Some f => run_handler calls f | None => -1 end.

(** The result and what was done, in order. *)
Definition rpc_server_dispatch (handlers : list (Z * rpc_handler)) (op : Z)
    : Z * list dispatch_event :=
  if op =? LUPINE_HANDOFF_DRAIN_REQUEST then
    ((if reply_sent calls then 0 else -1),
     (if has_backend b cuda then [DrainCalls] else []) ++ (if reply_sent calls then [Reply 0] else []))
  else if op =? LUPINE_RPC_CLIENT_METADATA then (handle_lupine_client_metadata calls, [ReadMetadata])
  else
    match find_handler handlers op with
    | None => (-1, [])
    | Some e =>
        let '(result, events) :=
          if has_backend b (backend e) then
            match backend e with
            | cuda =>
                if bool_decide (Some op ∈ bulk_ops)
                then (result_of (handler e), ungated (handler e))
                else (result_of (handler e), gated (handler e))
            | nccl => (result_of (handler e), gated (handler e))
            | nvml | hip => (result_of (handler e), ungated (handler e))
            end
          else (-1, []) in
        ((if 0 <=? result then 0 else -1), events)
    end.

End Dispatch.

(** ** The registry of every build *)

Definition op_of (e : conditional) : option Z :=
  let '(Entry operation _ _) := entry e in lookup_id operation.

Lemma ops_known : forallb (fun e => bool_decide (is_Some (op_of e))) registrations = true.
Proof. by vm_cast_no_check (@eq_refl bool true). Qed.

Lemma ops_nodup : bool_decide (NoDup (op_of <$> registrations)) = true.
Proof. by vm_cast_no_check (@eq_refl bool true). Qed.

Lemma backends_match :
  forallb (fun e => let '(Entry _ _ k) := entry e in bool_decide (k = if_backend e)) registrations
  = true.
Proof. by vm_cast_no_check (@eq_refl bool true). Qed.

Lemma control_ops_free :
  forallb (fun e => bool_decide (op_of e <> Some LUPINE_HANDOFF_DRAIN_REQUEST)
                    && bool_decide (op_of e <> Some LUPINE_RPC_CLIENT_METADATA)) registrations = true.
Proof. by vm_cast_no_check (@eq_refl bool true). Qed.

(** The conditional declarations and registrations come in the same order. *)
Lemma declared_alike :
  bool_decide (cuda_declared = cuda_registered) && bool_decide (nccl_declared = nccl_registered) = true.
Proof. by vm_cast_no_check (@eq_refl bool true). Qed.

Lemma declarations_registrations : declarations = registrations.
Proof.
  pose proof declared_alike as [Hc Hn]%andb_true_iff.
  apply bool_decide_eq_true_1 in Hc, Hn. unfold declarations, registrations. by rewrite Hc, Hn.
Qed.

Definition entry_handler (e : conditional) : rpc_handler :=
  let '(Entry _ h k) := entry e in RpcHandler (Some h) k.

Lemma register_op e : register (entry e) = op ← op_of e; Some (op, entry_handler e).
Proof. unfold register, op_of, entry_handler. by destruct (entry e). Qed.

(** Among entries with distinct operations, the one of an operation is found if it is
    enabled, and nothing else is. *)
Lemma find_registered b (l : list conditional) e op :
  NoDup (op_of <$> l) -> e ∈ l -> op_of e = Some op ->
  find_handler (omap (fun e => if enabled b e then register (entry e) else None) l) op
  = if enabled b e then Some (entry_handler e) else None.
Proof.
  unfold find_handler. induction l as [|e' l IH]; intros Hnd Hin Hop; [by apply not_elem_of_nil in Hin|].
  rewrite fmap_cons in Hnd. apply NoDup_cons in Hnd as [Hout Hnd]. simpl. rewrite register_op.
  apply elem_of_cons in Hin as [->|Hin].
  - rewrite Hop. simpl. destruct (enabled b e'); simpl; [by rewrite Z.eqb_refl|].
    destruct (List.find _ _) as [[op' h']|] eqn:Hf; [|done]. exfalso.
    apply List.find_some in Hf as [Hx Heq]. simpl in Heq. apply Z.eqb_eq in Heq as ->.
    apply list_elem_of_In, list_elem_of_omap in Hx as (e2 & Hin2 & Hr).
    destruct (enabled b e2); [|done]. rewrite register_op in Hr.
    apply bind_Some in Hr as (op2 & Hop2 & [= <- <-]). apply Hout. rewrite Hop, <- Hop2.
    by apply list_elem_of_fmap_2.
  - destruct (enabled b e'); [|by apply IH]. destruct (op_of e') as [op'|] eqn:Hop'; [|by apply IH].
    simpl. destruct (Z.eqb_spec op' op) as [->|]; [|by apply IH].
    destruct Hout. rewrite <- Hop. by apply list_elem_of_fmap_2.
Qed.

Lemma registered_op e : e ∈ registrations -> exists op, op_of e = Some op.
Proof.
  intros Hin. pose proof (forallb_elem _ _ _ ops_known Hin) as Hop.
  by apply bool_decide_eq_true_1 in Hop.
Qed.

Lemma find_own b e op : e ∈ registrations -> op_of e = Some op ->
  find_handler (lupine_rpc_handlers b) op = if enabled b e then Some (entry_handler e) else None.
Proof.
  intros Hin Hop. apply find_registered; [|done..].
  exact (bool_decide_eq_true_1 _ ops_nodup).
Qed.

(** ** Dispatching *)

(** The operations that run under the checkpoint gate. *)
Definition needs_gate (operation : string) (k : rpc_backend) : bool :=
  match k with
  | cuda => negb (String.eqb operation "LUPINE_RPC_lupineBulkChunk"
                  || String.eqb operation "LUPINE_RPC_lupineBulkRead")
  | nccl => true
  | nvml | hip => false
  end.

Lemma bulk_ops_ok :
  forallb (fun e => let '(Entry operation _ _) := entry e in
             bool_decide (bool_decide (op_of e ∈ bulk_ops) =
               (String.eqb operation "LUPINE_RPC_lupineBulkChunk"
                || String.eqb operation "LUPINE_RPC_lupineBulkRead"))) registrations = true.
Proof. by vm_cast_no_check (@eq_refl bool true). Qed.

Lemma entry_backend e operation f k :
  e ∈ registrations -> entry e = Entry operation f k -> k = if_backend e.
Proof.
  intros Hin He. pose proof (forallb_elem _ _ _ backends_match Hin) as Hk. simpl in Hk.
  rewrite He in Hk. by apply bool_decide_eq_true_1 in Hk.
Qed.

Lemma registered_not_control e op :
  e ∈ registrations -> op_of e = Some op ->
  (op =? LUPINE_HANDOFF_DRAIN_REQUEST) = false /\ (op =? LUPINE_RPC_CLIENT_METADATA) = false.
Proof.
  intros Hin Hop. pose proof (forallb_elem _ _ _ control_ops_free Hin) as Hc. simpl in Hc.
  rewrite Hop in Hc. apply andb_true_iff in Hc as [H1%bool_decide_eq_true_1 H2%bool_decide_eq_true_1].
  split; apply Z.eqb_neq; congruence.
Qed.

(** C8: Functional, in every build: a request with a registered operation runs that operation's
    handler and no other, if the conditions of the build include it, and else none; CUDA and
    NCCL handlers run inside the checkpoint gate but for the two bulk operations; the lane
    goes on exactly when the handler succeeds.  No registered operation is taken for a
    control operation, and handlers are declared under the conditions they are registered
    under. *)
Theorem dispatch_runs_own_handler b calls e operation f k op :
  e ∈ registrations -> entry e = Entry operation f k -> op_of e = Some op ->
  rpc_server_validate (lupine_rpc_handlers b) = true /\ e ∈ declarations /\
  rpc_server_dispatch b calls (lupine_rpc_handlers b) op =
    if enabled b e
    then ((if 0 <=? run_handler calls f then 0 else -1),
          if needs_gate operation k then [EnterGate; RunHandler f; LeaveGate] else [RunHandler f])
    else (-1, []).
Proof.
  intros Hin He Hop. split_and!.
  - unfold rpc_server_validate, lupine_rpc_handlers. apply forallb_forall. intros [op' h'] Hx.
    apply list_elem_of_In, list_elem_of_omap in Hx as (e' & _ & Hr).
    destruct (enabled b e'); [|done]. rewrite register_op in Hr. unfold entry_handler in Hr.
    destruct (entry e'). apply bind_Some in Hr as (? & _ & [= _ <-]). simpl. by destruct backend0.
  - rewrite declarations_registrations. exact Hin.
  - unfold rpc_server_dispatch. destruct (registered_not_control e op Hin Hop) as [-> ->].
    rewrite (find_own b e op Hin Hop). assert (Hk := entry_backend e operation f k Hin He).
    destruct (enabled b e) eqn:Hen; [|done]. apply andb_true_iff in Hen as [Hb _].
    rewrite <- Hk in Hb. unfold entry_handler. rewrite He. simpl. rewrite Hb.
    pose proof (forallb_elem _ _ _ bulk_ops_ok Hin) as Hbulk. simpl in Hbulk.
    rewrite He, Hop in Hbulk. apply bool_decide_eq_true_1 in Hbulk.
    destruct k; simpl; try done. rewrite Hbulk. by destruct (_ || _).
Qed.

Definition example_build : build := Build (fun _ => true) 12020 22000 true.

Lemma dispatch_runs_own_handler_witness :
  rpc_server_dispatch example_build (Callees true 0 (fun _ => 0)) (lupine_rpc_handlers example_build)
    1234315198
  = (0, [EnterGate; RunHandler "handle_cuInit"; LeaveGate]).
Proof.
  destruct (dispatch_runs_own_handler example_build (Callees true 0 (fun _ => 0))
              (Conditional cuda None (Entry "RPC_cuInit" "handle_cuInit" cuda))
              "RPC_cuInit" "handle_cuInit" cuda 1234315198) as (_ & _ & H).
  - apply (bool_decide_eq_true_1
      (Conditional cuda None (Entry "RPC_cuInit" "handle_cuInit" cuda) ∈ registrations)).
    vm_compute. reflexivity.
  - reflexivity.
  - vm_compute. reflexivity.
  - exact H.
Defined.
