(* ===== verification/Stub.v ===== *)
(** * Generated RPC stubs: their language

    The code generator emits one client function per CUDA call
    ([codegen/gen_cuda_client.cpp]) and one server handler per request
    ([codegen/gen_cuda_server.cpp]).  They are straight-line marshalling code of a
    few shapes.  This file gives the shapes as terms, so that a stub reads as the
    C++ function does, and their meaning as executable functions: what a client
    puts on the wire, what a handler takes off it, which arguments the driver is
    called with, and what comes back.  [StubSafe], [StubAgree] and [StubCall] decide
    safety and agreement of stubs, [StubClient] and [StubServer] hold the stubs themselves.

    Memory is a map from the objects that a stub names to their bytes: a variable,
    what a pointer points to, or the array that a member of a structure points to.
    Distinct pointer arguments point to distinct objects.  The bytes of pointer
    members themselves are not modelled, only the arrays behind them. *)
From S2P Require Import Prelude.

Definition CUDA_SUCCESS : Z := 0.
Definition CUDA_ERROR_INVALID_VALUE : Z := 1.
Definition CUDA_ERROR_DEVICE_UNAVAILABLE : Z := 46.
Definition CUDA_ERROR_INVALID_DEVICE : Z := 101.
Definition SIZE_MAX : Z := 2 ^ 64 - 1.

(** ** Syntax *)

(** [&x]; what [x] points to; what member [f] of the structure [x], or of the one [x]
    points to, points to. *)
Inductive obj :=
| Val (x : string)
| Ref (x : string)
| Sub (x f : string).

#[export] Instance obj_eq_dec : EqDecision obj.
Proof. solve_decision. Defined.

Inductive expr :=
| Num (n : Z)
| SizeOf (t : string)
| Load (t : string) (o : obj)
| Field (t f : string) (o : obj)
| Strlen (o : obj)
| IsNull (o : obj)
| Add (a b : expr)
| Mul (a b : expr)
| Div (a b : expr)
| Lt (a b : expr)
| Eq (a b : expr)
| And (a b : expr)
| Or (a b : expr)
| Not (a : expr)
| Cond (c a b : expr).

#[export] Instance expr_eq_dec : EqDecision expr.
Proof. solve_decision. Defined.

(** The items of the [||] chains and the statements between them.  [Fail c] leaves
    the function when [c] holds; [Alloc b n true] is [calloc(n, 1)] and
    [Alloc b n false] is [malloc(n)]; [Resize] is [std::vector::resize] and
    [Bind x f b] sets [x.f] to [b.data()]. *)
Inductive step :=
| Write (o : obj) (n : expr)
| Read (o : obj) (n : expr)
| When (c : expr) (s : step)
| Fail (c : expr)
| Let (x t : string) (e : expr)
| Alloc (b : string) (n : expr) (zeroed : bool)
| Calloc (b : string) (count size : expr)
| Resize (b : string) (n : expr)
| Bind (x f b : string).

(** The locals and early returns between the choice of the connection and the RPC.
    [Sequence x] is a local that [rpc_write_start_async_request] sets to the number of the
    request on its connection. *)
Inductive guard :=
| Local (x t : string) (e : expr)
| Sequence (x : string)
| Translate (x f : string)
| Check (c : expr) (code : Z).

#[export] Instance guard_eq_dec : EqDecision guard.
Proof. solve_decision. Defined.

(** Parameters; [Pointer x fs] with the members [fs] of [*x] that point to arrays. *)
Inductive param :=
| ByValue (x t : string)
| Pointer (x : string) (fs : list string).

(** How the connection is chosen; [ForDevice x] also replaces the virtual ordinal [x]
    by the server's. *)
Inductive route_key :=
| ForDefault
| ForCurrentContext
| ForOwner (kind x : string)
| ForDevice (x : string)
| IfHandle (x : string) (a b : route_key).

(** A bookkeeping call after the RPC: its condition, whether its result becomes the
    function's, its name and its arguments. *)
Inductive action_arg := ArgVal (o : obj) | ArgPtr (x : string) | Route.

Inductive action :=
| After (c : expr) (assigns : bool) (fn : string) (args : list action_arg).

#[export] Instance action_arg_eq_dec : EqDecision action_arg.
Proof. solve_decision. Defined.
#[export] Instance action_eq_dec : EqDecision action.
Proof. solve_decision. Defined.

Record client_stub := ClientStub {
  c_name : string;
  c_params : list param;
  c_route : route_key;
  c_local : list action;
  c_guards : list guard;
  c_async : bool;
  c_request : list step;
  c_response : list step;
  c_after : list action }.

(** Locals of a handler: [T x;], [T x{};] and [T *x = nullptr;]. *)
Inductive local :=
| Uninit (x t : string)
| Zeroed (x t : string)
| NullPtr (x : string).

(** Arguments of the driver call; [AddrOf x fs] is [&x] with the members [fs] of [x]
    that point to arrays. *)
Inductive call_arg :=
| ByVal (x : string)
| AddrOf (x : string) (fs : list string)
| BufPtr (b : string)
| UnlessZero (n : expr) (a : call_arg)
| IfArg (c : expr) (a : call_arg).

(** [h_rewrites]: a variable that is replaced by the result of a helper of two
    variables before the driver is called. *)
Record handler := Handler {
  h_name : string;
  h_locals : list local;
  h_async : bool;
  h_reads : list step;
  h_rewrites : list (string * string * string * string);
  h_call : list call_arg;
  h_reply : list step }.

#[export] Instance step_eq_dec : EqDecision step.
Proof. solve_decision. Defined.
#[export] Instance param_eq_dec : EqDecision param.
Proof. solve_decision. Defined.
#[export] Instance route_key_eq_dec : EqDecision route_key.
Proof. solve_decision. Defined.
#[export] Instance local_eq_dec : EqDecision local.
Proof. solve_decision. Defined.
#[export] Instance call_arg_eq_dec : EqDecision call_arg.
Proof. solve_decision. Defined.
#[export] Instance client_stub_eq_dec : EqDecision client_stub.
Proof. solve_decision. Defined.
#[export] Instance handler_eq_dec : EqDecision handler.
Proof. solve_decision. Defined.

(** ** Memory and expressions *)

Abbreviation env := (obj -> option (list byte)) (only parsing).

Definition upd (o : obj) (v : option (list byte)) (r : env) : env :=
  fun o' => if decide (o' = o) then v else r o'.

(** The types of [cuda.h]: their sizes, whether an integer of the type is signed, and
    the integer members of its structures. *)
Class CTypes := {
  sizeof : string -> nat;
  signed : string -> bool;
  member : string -> string -> list byte -> Z }.

(** Integer types whose values are not negative. *)
Definition unsigned_types : list string := ["size_t"; "unsigned int"; "uint8_t"].

Class CTypesLaws `{CTypes} := {
  sizeof_flag : sizeof "uint8_t" = 1%nat;
  sizeof_size : sizeof "size_t" = 8%nat;
  sizeof_bound t : Z.of_nat (sizeof t) < 2 ^ 64;
  unsigned_types_ok t : t ∈ unsigned_types -> signed t = false }.

Definition bool_num (b : bool) : Z := if b then 1 else 0.

Section Semantics.
Context `{CTypes}.

(** The number in the first bytes of an object. *)
Definition number (t : string) (v : list byte) : Z :=
  let z := le_val (take (sizeof t) v) in if signed t then sint32 z else wrap64 z.

Fixpoint c_strlen (v : list byte) : Z :=
  match v with
  | [] => 0
  | b :: v => if b =? 0 then 0 else 1 + c_strlen v
  end.

(** Arithmetic is on [size_t].  Reading through a null pointer has no meaning in C++;
    here it gives 0, and the theorems exclude it. *)
Fixpoint eval (r : env) (e : expr) : Z :=
  match e with
  | Num n => n
  | SizeOf t => Z.of_nat (sizeof t)
  | Load t o => number t (default [] (r o))
  | Field t f o => wrap64 (member t f (take (sizeof t) (default [] (r o))))
  | Strlen o => c_strlen (default [] (r o))
  | IsNull o => bool_num (bool_decide (r o = None))
  | Add a b => wrap64 (eval r a + eval r b)
  | Mul a b => wrap64 (eval r a * eval r b)
  | Div a b => eval r a / eval r b
  | Lt a b => bool_num (eval r a <? eval r b)
  | Eq a b => bool_num (eval r a =? eval r b)
  | And a b => bool_num (negb (eval r a =? 0) && negb (eval r b =? 0))
  | Or a b => bool_num (negb (eval r a =? 0) || negb (eval r b =? 0))
  | Not a => bool_num (eval r a =? 0)
  | Cond c a b => if eval r c =? 0 then eval r b else eval r a
  end.

Definition holds (r : env) (c : expr) : bool := negb (eval r c =? 0).

(** A size as [rpc_read], [rpc_write] and [malloc] take it. *)
Definition size_of (r : env) (e : expr) : nat := Z.to_nat (wrap64 (eval r e)).

(** ** Running steps *)

Record state := State { st_env : env; st_in : list byte; st_out : list byte }.

(** [Failed]: the chain of calls is left, since a check holds, the peer sent too
    little or memory ran out; [Stuck]: an access outside an object. *)
Inductive outcome := Ok (s : state) | Failed (s : state) | Stuck.

(** Whether the allocator has [n] bytes, and what fresh memory holds. *)
Class Allocator := { has_memory : nat -> bool; garbage : byte }.
Context `{Allocator}.

Definition write_step (o : obj) (n : nat) (s : state) : outcome :=
  match st_env s o with
  | None => if (n =? 0)%nat then Ok s else Stuck
  | Some v =>
      if (n <=? length v)%nat then Ok (State (st_env s) (st_in s) (st_out s ++ take n v))
      else Stuck
  end.

Definition read_step (o : obj) (n : nat) (s : state) : outcome :=
  match st_env s o with
  | None => if (n =? 0)%nat then Ok s else Stuck
  | Some v =>
      if (length v <? n)%nat then Stuck
      else if (length (st_in s) <? n)%nat then Failed s
      else Ok (State (upd o (Some (take n (st_in s) ++ drop n v)) (st_env s))
                 (drop n (st_in s)) (st_out s))
  end.

Definition with_env (s : state) (r : env) : state := State r (st_in s) (st_out s).

Fixpoint run_step (p : step) (s : state) : outcome :=
  let r := st_env s in
  match p with
  | Write o n => write_step o (size_of r n) s
  | Read o n => read_step o (size_of r n) s
  | When c p => if holds r c then run_step p s else Ok s
  | Fail c => if holds r c then Failed s else Ok s
  | Let x t e => Ok (with_env s (upd (Val x) (Some (le_bytes (sizeof t) (eval r e))) r))
  | Alloc b n zeroed =>
      let k := size_of r n in
      Ok (with_env s (upd (Ref b)
            (if has_memory k then Some (replicate k (if zeroed then 0 else garbage)) else None) r))
  | Calloc b count size =>
      let k := wrap64 (eval r count) * wrap64 (eval r size) in
      Ok (with_env s (upd (Ref b)
            (if (k <? 2 ^ 64) && has_memory (Z.to_nat k) then Some (replicate (Z.to_nat k) 0)
             else None) r))
  | Resize b n =>
      let k := size_of r n in
      if has_memory k then Ok (with_env s (upd (Ref b) (Some (replicate k 0)) r)) else Failed s
  | Bind x f b => Ok (with_env s (upd (Sub x f) (r (Ref b)) r))
  end.

Fixpoint run (l : list step) (s : state) : outcome :=
  match l with
  | [] => Ok s
  | p :: l => match run_step p s with Ok s => run l s | other => other end
  end.

(** ** The driver *)

(** An argument of a driver call: a value, a null pointer, or a pointer with what it
    points to and the arrays behind its members. *)
Inductive argument :=
| AVal (v : list byte)
| ANull
| APtr (v : list byte) (subs : list (string * option (list byte))).

(** What the stubs call.  A driver call gives a [CUresult] and leaves the objects behind
    its arguments changed; the same function serves a local call and a handler.
    [next_sequence] is the number that the connection gives to an asynchronous request. *)
Class Driver := {
  next_sequence : Z;
  driver : string -> list argument -> list byte * list argument;
  htod_graph_exec_node : list byte -> list byte -> list byte;
  private_function : list byte -> list byte }.

Inductive same_shape : argument -> argument -> Prop :=
| same_value v v' : same_shape (AVal v) (AVal v')
| same_null : same_shape ANull ANull
| same_pointer v v' subs subs' : length v = length v' -> subs.*1 = subs'.*1 ->
    same_shape (APtr v subs) (APtr v' subs').

(** The driver writes inside the objects it is given. *)
Class DriverLaws `{Driver} := {
  driver_status name args : length (driver name args).1 = sizeof "CUresult";
  driver_shape name args : Forall2 same_shape args (driver name args).2;
  translated_length v : length (private_function v) = length v;
  exec_node_length g v : length (htod_graph_exec_node g v) = length v }.

Context `{Driver}.

(** ** Handlers *)

Definition local_env (l : local) (r : env) : env :=
  match l with
  | Uninit x t => upd (Val x) (Some (replicate (sizeof t) garbage)) r
  | Zeroed x t => upd (Val x) (Some (replicate (sizeof t) 0)) r
  | NullPtr x => upd (Ref x) None r
  end.

Definition start_env (l : list local) : env := fold_right local_env (fun _ => None) l.

Fixpoint arg_value (r : env) (a : call_arg) : argument :=
  match a with
  | ByVal x => AVal (default [] (r (Val x)))
  | AddrOf x fs => APtr (default [] (r (Val x))) ((fun f => (f, r (Sub x f))) <$> fs)
  | BufPtr b => match r (Ref b) with Some v => APtr v [] | None => ANull end
  | UnlessZero n a => if holds r n then arg_value r a else ANull
  | IfArg c a => if holds r c then arg_value r a else ANull
  end.

Fixpoint store_subs (x : string) (subs : list (string * option (list byte))) (r : env) : env :=
  match subs with
  | [] => r
  | (f, v) :: subs => store_subs x subs (upd (Sub x f) v r)
  end.

(** What the driver left behind an argument, back in the handler's memory. *)
Fixpoint store_arg (r0 : env) (a : call_arg) (out : argument) (r : env) : env :=
  match a, out with
  | AddrOf x _, APtr v subs => store_subs x subs (upd (Val x) (Some v) r)
  | BufPtr b, APtr v _ => upd (Ref b) (Some v) r
  | UnlessZero n a, _ => if holds r0 n then store_arg r0 a out r else r
  | IfArg c a, _ => if holds r0 c then store_arg r0 a out r else r
  | _, _ => r
  end.

Fixpoint store_args (r0 : env) (l : list call_arg) (outs : list argument) (r : env) : env :=
  match l, outs with
  | a :: l, out :: outs => store_args r0 l outs (store_arg r0 a out r)
  | _, _ => r
  end.

Definition rewrite_env (w : string * string * string * string) (r : env) : env :=
  let '(x, _, g, y) := w in
  upd (Val x) (Some (htod_graph_exec_node (default [] (r (Val g))) (default [] (r (Val y))))) r.

Record call := Call { call_name : string; call_args : list argument }.

(** The memory of a handler after its driver call. *)
Definition called_env (h : handler) (r : env) : env :=
  let '(status, outs) := driver (h_name h) (arg_value r <$> h_call h) in
  upd (Val "return_value") (Some status) (store_args r (h_call h) outs r).

(** What becomes of a request: the driver call that was made, the reply and what is
    left on the lane; a request that is given up with its connection; an access
    outside an object. *)
Inductive served :=
| Served (c : call) (reply rest : list byte)
| Dropped
| Overrun.

(** The memory of a handler when it calls the driver. *)
Definition calling_env (h : handler) (r : env) : env :=
  fold_left (fun r w => rewrite_env w r) (h_rewrites h) r.

(** A handler on the bytes that come on its lane. *)
Definition serve (h : handler) (bytes : list byte) : served :=
  match run (h_reads h) (State (start_env (h_locals h)) bytes []) with
  | Ok s =>
      let r := calling_env h (st_env s) in
      let c := Call (h_name h) (arg_value r <$> h_call h) in
      if h_async h then Served c [] (st_in s)
      else
        match run (h_reply h) (State (called_env h r) (st_in s) []) with
        | Ok s' => Served c (st_out s') (st_in s')
        | Failed _ => Dropped
        | Stuck => Overrun
        end
  | Failed _ => Dropped
  | Stuck => Overrun
  end.

(** ** Clients *)

(** Either the code of an early return, or the memory with which the RPC starts. *)
Fixpoint run_guards (l : list guard) (r : env) : Z + env :=
  match l with
  | [] => inr r
  | Local x t e :: l => run_guards l (upd (Val x) (Some (le_bytes (sizeof t) (eval r e))) r)
  | Sequence x :: l =>
      run_guards l (upd (Val x) (Some (le_bytes (sizeof "uint64_t") next_sequence)) r)
  | Translate x f :: l =>
      run_guards l (upd (Val x) (Some (private_function (default [] (r (Val f))))) r)
  | Check c code :: l => if holds r c then inl code else run_guards l r
  end.

(** The request of a client: the bytes after its header. *)
Definition marshal (c : client_stub) (r : env) : outcome := run (c_request c) (State r [] []).

Definition return_value (r : env) : Z := eval r (Load "CUresult" (Val "return_value")).

(** A client on a remote route and the handler of its server, on lanes that carry
    nothing else and do not fail: [None] when the client accesses memory it does not
    have; else the result, the memory and whether the RPC was completed. *)
Definition remote_call (c : client_stub) (h : handler) (r : env) : option (Z * env * bool) :=
  match run_guards (c_guards c) r with
  | inl code => Some (code, r, false)
  | inr r =>
      match marshal c r with
      | Ok s =>
          match serve h (st_out s) with
          | Served _ reply _ =>
              if c_async c then Some (CUDA_SUCCESS, upd (Val "return_value")
                  (Some (le_bytes (sizeof "CUresult") CUDA_SUCCESS)) r, true)
              else
                match run (c_response c) (State r reply []) with
                | Ok s => Some (return_value (st_env s), st_env s, true)
                | Failed s => Some (CUDA_ERROR_DEVICE_UNAVAILABLE, st_env s, false)
                | Stuck => None
                end
          | _ => Some (CUDA_ERROR_DEVICE_UNAVAILABLE, r, false)
          end
      | Failed s => Some (CUDA_ERROR_DEVICE_UNAVAILABLE, st_env s, false)
      | Stuck => None
      end
  end.

(** ** Routes and bookkeeping *)

(** The routing of the client ([routing.cpp]) as the stubs use it; a negative
    identity is a local route. *)
Class Routes := {
  default_route : Z;
  current_context_route : Z;
  owner_route : string -> list byte -> Z;
  device_route : list byte -> option (Z * list byte);
  bookkeeping : string -> list (list byte) -> Z }.
Context `{Routes}.

Fixpoint choose (k : route_key) (r : env) : option (Z * env) :=
  match k with
  | ForDefault => Some (default_route, r)
  | ForCurrentContext => Some (current_context_route, r)
  | ForOwner kind x => Some (owner_route kind (default [] (r (Val x))), r)
  | ForDevice x =>
      '(route, v) ← device_route (default [] (r (Val x)));
      Some (route, upd (Val x) (Some v) r)
  | IfHandle x a b => if eval r (Load "void *" (Val x)) =? 0 then choose b r else choose a r
  end.

Definition action_value (route : Z) (r : env) (a : action_arg) : list byte :=
  match a with
  | ArgVal o => default [] (r o)
  | ArgPtr x => default [] (r (Ref x))
  | Route => le_bytes 8 route
  end.

(** The bookkeeping calls made, in order, and the memory with the final result. *)
Fixpoint run_actions (route : Z) (l : list action) (r : env)
    : list (string * list (list byte)) * env :=
  match l with
  | [] => ([], r)
  | After c assigns fn args :: l =>
      if holds r c then
        let values := action_value route r <$> args in
        let r := if assigns
                 then upd (Val "return_value")
                        (Some (le_bytes (sizeof "CUresult") (bookkeeping fn values))) r
                 else r in
        let '(events, r) := run_actions route l r in
        ((fn, values) :: events, r)
      else run_actions route l r
  end.

Definition param_value (r : env) (p : param) : argument :=
  match p with
  | ByValue x _ => AVal (default [] (r (Val x)))
  | Pointer x fs =>
      match r (Ref x) with
      | Some v => APtr v ((fun f => (f, r (Sub x f))) <$> fs)
      | None => ANull
      end
  end.

Fixpoint store_params (l : list param) (outs : list argument) (r : env) : env :=
  match l, outs with
  | Pointer x _ :: l, APtr v subs :: outs =>
      store_params l outs (store_subs x subs (upd (Ref x) (Some v) r))
  | _ :: l, _ :: outs => store_params l outs r
  | _, _ => r
  end.

(** A client function as it is written: the route, then the local driver or the
    server of the route, and the bookkeeping of a call that came through. *)
Definition client_call (c : client_stub) (h : handler) (r : env)
    : option (Z * env * list (string * list (list byte))) :=
  match choose (c_route c) r with
  | None => Some (CUDA_ERROR_INVALID_DEVICE, r, [])
  | Some (route, r) =>
      let r := upd (Val "return_value") (Some (replicate (sizeof "CUresult") garbage)) r in
      if route <? 0 then
        let '(status, outs) := driver (c_name c) (param_value r <$> c_params c) in
        let r := upd (Val "return_value") (Some status) (store_params (c_params c) outs r) in
        let '(events, r) := run_actions route (c_local c) r in
        Some (return_value r, r, events)
      else
        '(code, r, completed) ← remote_call c h r;
        if completed : bool then
          let '(events, r) := run_actions route (c_after c) r in
          Some (return_value r, r, events)
        else Some (code, r, [])
  end.

End Semantics.
