(* ===== verification/StubSafe.v ===== *)
(** * Generated RPC stubs: accesses stay inside their objects

    A handler acts on whatever bytes arrive on its lane.  [safe_handler] decides, from
    the text of a handler alone, that none of its reads and writes leaves the object
    it is about, and [safe_handler_sound] shows that this holds for every request,
    well-formed or not.  The analysis keeps, for each object, its length as an
    expression over the handler's variables, and forgets what a later assignment or
    the driver may have changed. *)
From S2P Require Import Prelude Stub.

(** ** Facts about lengths *)

(** [Len o e]: [o] has [e] bytes, or is null and [e] is 0.  [MayLen b e]: buffer [b] has
    [e] bytes or is null.  [LenIf b c n k]: when [c] holds, [b] has [n * k] bytes;
    [MayLenIf] the same, or it is null.  [IsSize x e]: the [size_t] variable [x] holds [e]. *)
Inductive fact :=
| Len (o : obj) (e : expr)
| MayLen (b : string) (e : expr)
| LenIf (b : string) (c n k : expr)
| MayLenIf (b : string) (c n k : expr)
| IsSize (x : string) (e : expr).

#[export] Instance fact_eq_dec : EqDecision fact.
Proof. solve_decision. Defined.

(** Whether the value of [e] can depend on [o]. *)
Fixpoint mentions (o : obj) (e : expr) : bool :=
  match e with
  | Num _ | SizeOf _ => false
  | Load _ o' | Field _ _ o' | Strlen o' | IsNull o' => bool_decide (o' = o)
  | Add a b | Mul a b | Div a b | Lt a b | Eq a b | And a b | Or a b =>
      mentions o a || mentions o b
  | Not a => mentions o a
  | Cond c a b => mentions o c || mentions o a || mentions o b
  end.

Definition subject (f : fact) : obj :=
  match f with
  | Len o _ => o
  | MayLen b _ | LenIf b _ _ _ | MayLenIf b _ _ _ => Ref b
  | IsSize x _ => Val x
  end.

Definition fact_mentions (o : obj) (f : fact) : bool :=
  match f with
  | Len _ e | MayLen _ e => mentions o e
  | IsSize x e => bool_decide (o = Val x) || mentions o e
  | LenIf _ c n k | MayLenIf _ c n k => mentions o c || mentions o n || mentions o k
  end.

(** After [o] got other contents of the same length; after [o] was replaced. *)
Definition forget (o : obj) (l : list fact) : list fact :=
  filter (fun f => fact_mentions o f = false) l.
Definition discard (o : obj) (l : list fact) : list fact :=
  filter (fun f => subject f <> o) (forget o l).

Definition has (f : fact) (l : list fact) : bool := bool_decide (f ∈ l).

Definition unsigned_load (e : expr) : bool :=
  match e with
  | Load t _ => bool_decide (t ∈ unsigned_types)
  | _ => false
  end.

(** [e] is at most [n * k], where [n] is [r != 0 ? r : 1]. *)
Definition within (n k e : expr) : bool :=
  match n, e with
  | Cond (Not (Eq r (Num 0))) r' (Num 1), Mul (Cond (Lt a b) a' b') k' =>
      bool_decide (r = r') && bool_decide (b = r) && bool_decide (b' = r)
      && bool_decide (a = a') && bool_decide (k' = k) && unsigned_load a && unsigned_load r
  | Cond (Not (Eq r (Num 0))) r' (Num 1), Mul b k' =>
      bool_decide (r = r') && bool_decide (b = r) && bool_decide (k' = k) && unsigned_load r
  | _, _ => false
  end.

(** ** The analysis *)

(** The expressions known to equal [e]. *)
Definition same_sizes (e : expr) (l : list fact) : list expr :=
  e :: flat_map (fun f =>
    match f with
    | IsSize x e' => if bool_decide (e = Load "size_t" (Val x)) then [e'] else []
    | _ => []
    end) l.

(** What is known after a check that [b] is not null when [a] holds. *)
Definition promote (a : expr) (b : string) (l : list fact) : list fact :=
  flat_map (fun f =>
    match f with
    | MayLen b' e =>
        if bool_decide (b' = b) && bool_decide (a = Not (Eq e (Num 0)))
        then Len (Ref b) <$> same_sizes e l else [f]
    | MayLenIf b' c n k =>
        if bool_decide (b' = b) && bool_decide (a = c) then [LenIf b c n k] else [f]
    | _ => [f]
    end) l.

Fixpoint safe_write (l : list fact) (c : option expr) (o : obj) (n : expr) : bool :=
  match l with
  | [] => false
  | f :: l =>
      match f, c with
      | Len o' e, _ => bool_decide (o' = o) && bool_decide (e = n)
      | LenIf b c' m k, Some c =>
          bool_decide (Ref b = o) && bool_decide (c' = c) && within m k n
      | _, _ => false
      end || safe_write l c o n
  end.

Definition bound_facts (x f b : string) (l : list fact) : list fact :=
  flat_map (fun fa =>
    match fa with
    | Len o e => if bool_decide (o = Ref b) then [Len (Sub x f) e] else []
    | _ => []
    end) l.

Definition safe_step (p : step) (l : list fact) : option (list fact) :=
  match p with
  | Read o n | When _ (Read o n) =>
      if has (Len o n) l && negb (mentions o n) then Some (forget o l) else None
  | Write o n => if safe_write l None o n then Some l else None
  | When c (Write o n) => if safe_write l (Some c) o n then Some l else None
  | When c (Calloc b n k) =>
      if mentions (Ref b) c || mentions (Ref b) n || mentions (Ref b) k then None
      else Some (MayLenIf b c n k :: discard (Ref b) l)
  | When _ _ => None
  | Fail (And a (IsNull (Ref b))) => Some (promote a b l)
  | Fail _ => Some l
  | Let x t e =>
      Some ((if bool_decide (t = "size_t") && negb (mentions (Val x) e) then [IsSize x e] else [])
            ++ Len (Val x) (SizeOf t) :: discard (Val x) l)
  | Alloc b n _ =>
      if mentions (Ref b) n then None else Some (MayLen b n :: discard (Ref b) l)
  | Calloc _ _ _ => None
  | Resize b n =>
      if mentions (Ref b) n then None else Some (Len (Ref b) n :: discard (Ref b) l)
  | Bind x f b => Some (bound_facts x f b (discard (Sub x f) l) ++ discard (Sub x f) l)
  end.

Fixpoint safe_steps (p : list step) (l : list fact) : option (list fact) :=
  match p with
  | [] => Some l
  | p :: ps => l ← safe_step p l; safe_steps ps l
  end.

Definition local_facts (x : local) (l : list fact) : list fact :=
  match x with
  | Uninit x t | Zeroed x t => Len (Val x) (SizeOf t) :: discard (Val x) l
  | NullPtr x => discard (Ref x) l
  end.

(** What the driver may have changed behind an argument. *)
Fixpoint arg_facts (a : call_arg) (l : list fact) : list fact :=
  match a with
  | ByVal _ => l
  | AddrOf x fs => fold_left (fun l f => discard (Sub x f) l) fs (forget (Val x) l)
  | BufPtr b => forget (Ref b) l
  | UnlessZero _ a | IfArg _ a => arg_facts a l
  end.

Definition rewrite_facts (w : string * string * string * string) (l : list fact)
    : option (list fact) :=
  let '(x, _, g, y) := w in if bool_decide (x = y) then Some (forget (Val x) l) else None.

Fixpoint rewrites_facts (ws : list (string * string * string * string)) (l : list fact)
    : option (list fact) :=
  match ws with
  | [] => Some l
  | w :: ws => l ← rewrite_facts w l; rewrites_facts ws l
  end.

Definition safe_handler (h : handler) : bool :=
  match l ← safe_steps (h_reads h) (fold_right local_facts [] (h_locals h));
        l ← rewrites_facts (h_rewrites h) l;
        safe_steps (h_reply h)
          (Len (Val "return_value") (SizeOf "CUresult")
           :: discard (Val "return_value") (fold_left (fun l a => arg_facts a l) (h_call h) l))
  with
  | Some _ => true
  | None => false
  end.

(** ** Soundness *)

Section Soundness.
Context {types : CTypes} {types_ok : CTypesLaws} {allocator : Allocator}
  {dev : Driver} {dev_ok : DriverLaws}.

(** The length of an object, and whether it is there. *)
Definition has_length (v : option (list byte)) (n : nat) : Prop :=
  match v with Some v => length v = n | None => n = 0%nat end.

Definition product (r : env) (n k : expr) : Z := wrap64 (eval r n) * wrap64 (eval r k).

Definition sized (r : env) (b : string) (n k : expr) : Prop :=
  exists v, r (Ref b) = Some v /\ Z.of_nat (length v) = product r n k /\ product r n k < 2 ^ 64.

Definition fact_ok (r : env) (f : fact) : Prop :=
  match f with
  | Len o e => has_length (r o) (size_of r e)
  | MayLen b e => r (Ref b) = None \/ has_length (r (Ref b)) (size_of r e)
  | LenIf b c n k => holds r c = true -> sized r b n k
  | MayLenIf b c n k => holds r c = true -> r (Ref b) = None \/ sized r b n k
  | IsSize x e => eval r (Load "size_t" (Val x)) = wrap64 (eval r e)
  end.

Abbreviation facts_ok r := (Forall (fact_ok r)).

Lemma eval_agree e r r' :
  (forall o, mentions o e = true -> r' o = r o) -> eval r' e = eval r e.
Proof.
  induction e; simpl; intros Hag; try done;
    repeat match goal with
    | IH : (forall o, mentions o ?e = true -> _) -> _ |- _ =>
        specialize (IH ltac:(intros o Ho; apply Hag; rewrite Ho, ?orb_true_r; done))
    end;
    try (by rewrite ?IHe, ?IHe1, ?IHe2, ?IHe3);
    by rewrite (Hag o) by (by case_bool_decide).
Qed.

Lemma upd_same o v r : upd o v r o = v.
Proof. unfold upd. by rewrite decide_True. Qed.
Lemma upd_other o o' v r : o' <> o -> upd o v r o' = r o'.
Proof. intros. unfold upd. by rewrite decide_False. Qed.

Lemma eval_upd o v r e : mentions o e = false -> eval (upd o v r) e = eval r e.
Proof.
  intros Hm. apply eval_agree. intros o' Ho'. apply upd_other. intros ->. congruence.
Qed.

(** [r'] differs from [r] at [o] at most. *)
Definition differs_at (o : obj) (r r' : env) : Prop := forall o', o' <> o -> r' o' = r o'.

Lemma upd_differs o v r : differs_at o r (upd o v r).
Proof. intros o' Ho'. by apply upd_other. Qed.

Lemma eval_differs o r r' e :
  differs_at o r r' -> mentions o e = false -> eval r' e = eval r e.
Proof.
  intros Hd Hm. apply eval_agree. intros o' Ho'. apply Hd. intros ->. congruence.
Qed.

(** A fact survives a change of [o] that it does not mention. *)
Lemma fact_differs o r r' f :
  differs_at o r r' -> fact_mentions o f = false -> r' (subject f) = r (subject f) ->
  fact_ok r f -> fact_ok r' f.
Proof.
  intros Hd Hm Hs.
  assert (He : forall e, mentions o e = false -> eval r' e = eval r e)
    by (intros; by apply eval_differs with o).
  destruct f; simpl in *; unfold sized, product, size_of, holds; rewrite ?orb_false_iff in Hm;
    rewrite ?Hs, ?He by tauto; done.
Qed.

Lemma discard_ok o r r' l :
  differs_at o r r' -> facts_ok r l -> facts_ok r' (discard o l).
Proof.
  intros Hd Hl. unfold discard, forget. apply Forall_forall. intros f Hf.
  apply list_elem_of_filter in Hf as [Hs [Hm Hin]%list_elem_of_filter].
  apply (fact_differs o r); [done..| by apply Hd |].
  by rewrite Forall_forall in Hl; apply Hl.
Qed.

Lemma discard_upd o v r l : facts_ok r l -> facts_ok (upd o v r) (discard o l).
Proof. apply discard_ok, upd_differs. Qed.

(** Contents of the same length; an empty variable may come into being. *)
Definition same_length (o : obj) (v v' : option (list byte)) : Prop :=
  match v, v' with
  | Some v, Some v' => length v = length v'
  | None, None => True
  | None, Some v' => v' = [] /\ exists x, o = Val x
  | Some _, None => False
  end.

Lemma same_length_refl o v : same_length o v v.
Proof. by destruct v. Qed.

Lemma fact_same_length o r r' f :
  differs_at o r r' -> same_length o (r o) (r' o) -> fact_mentions o f = false ->
  fact_ok r f -> fact_ok r' f.
Proof.
  intros Hd Hl Hm Hf. destruct (decide (subject f = o)) as [Ho|Ho].
  2: { apply (fact_differs o r); [done..|by apply Hd|done]. }
  assert (He : forall e, mentions o e = false -> eval r' e = eval r e)
    by (intros; by apply eval_differs with o).
  unfold same_length in Hl.
  destruct f; simpl in *; subst; unfold sized, product, size_of, holds in *;
    rewrite ?orb_false_iff in Hm; rewrite ?He by tauto;
    try (by case_bool_decide; naive_solver);
    destruct (r _), (r' _); simpl in *; simplify_eq/=; naive_solver congruence.
Qed.

Lemma forget_ok o r r' l :
  differs_at o r r' -> same_length o (r o) (r' o) -> facts_ok r l -> facts_ok r' (forget o l).
Proof.
  intros Hd Hl Hf. unfold forget. apply Forall_forall. intros f.
  intros [Hm Hin]%list_elem_of_filter. apply (fact_same_length o r); [done..|].
  by rewrite Forall_forall in Hf; apply Hf.
Qed.

Lemma forget_weaken o r l : facts_ok r l -> facts_ok r (forget o l).
Proof. intros Hf. apply (forget_ok o r); [by intros ? _|by apply same_length_refl|done]. Qed.

Lemma wrap64_idem z : wrap64 (wrap64 z) = wrap64 z.
Proof. unfold wrap64. by rewrite Z.mod_mod by lia. Qed.

Lemma wrap64_mul_r a b : wrap64 (a * wrap64 b) = wrap64 (a * b).
Proof. unfold wrap64. by rewrite Z.mul_mod_idemp_r by lia. Qed.

Lemma wrap64_bounds z : 0 <= wrap64 z < 2 ^ 64.
Proof. unfold wrap64. apply Z.mod_pos_bound. lia. Qed.

Lemma unsigned_load_bounds r e : unsigned_load e = true -> 0 <= eval r e < 2 ^ 64.
Proof.
  destruct e; try done. simpl. intros Ht%bool_decide_eq_true_1.
  unfold number. rewrite unsigned_types_ok by done. apply wrap64_bounds.
Qed.

Lemma size_of_mul r x k m :
  0 <= x <= m -> 0 <= m * wrap64 (eval r k) < 2 ^ 64 ->
  Z.of_nat (Z.to_nat (wrap64 (wrap64 (x * eval r k)))) <= m * wrap64 (eval r k).
Proof.
  intros Hx Hm. rewrite wrap64_idem, <- wrap64_mul_r.
  pose proof (wrap64_bounds (eval r k)) as Hk.
  assert (x * wrap64 (eval r k) <= m * wrap64 (eval r k)) by nia.
  assert (0 <= x * wrap64 (eval r k)) by nia.
  unfold wrap64 at 1. rewrite Z.mod_small by lia. lia.
Qed.

Lemma within_inv n k e : within n k e = true ->
  exists q, unsigned_load q = true /\ n = Cond (Not (Eq q (Num 0))) q (Num 1) /\
    (e = Mul q k \/ exists a, unsigned_load a = true /\ e = Mul (Cond (Lt a q) a q) k).
Proof.
  unfold within. intros Hw.
  repeat case_match; try done; subst; rewrite ?andb_true_iff in Hw; destruct_and?;
    repeat match goal with Hb : bool_decide _ = true |- _ => apply bool_decide_eq_true_1 in Hb end;
    subst; eauto 8.
Qed.

Lemma within_ok r n k e :
  within n k e = true -> product r n k < 2 ^ 64 -> Z.of_nat (size_of r e) <= product r n k.
Proof.
  intros (q & Hq & -> & He)%within_inv. unfold product, size_of. simpl.
  pose proof (unsigned_load_bounds r q Hq) as Hb.
  set (m := if bool_num (bool_num (eval r q =? 0) =? 0) =? 0 then 1 else eval r q).
  assert (Hm : eval r q <= m /\ 0 <= m < 2 ^ 64).
  { unfold m. destruct (Z.eqb_spec (eval r q) 0); simpl; lia. }
  replace (wrap64 m) with m by (symmetry; unfold wrap64; apply Z.mod_small; lia).
  pose proof (wrap64_bounds (eval r k)) as Hk. intros Hp.
  destruct He as [->|(a & Ha & ->)]; simpl; apply size_of_mul; try nia.
  pose proof (unsigned_load_bounds r a Ha).
  destruct (Z.ltb_spec (eval r a) (eval r q)); simpl; lia.
Qed.

(** What is known of an object makes a write of it possible. *)
Lemma safe_write_ok l c o n s :
  safe_write l c o n = true -> facts_ok (st_env s) l ->
  match c with Some c => holds (st_env s) c = true | None => True end ->
  exists out, write_step o (size_of (st_env s) n) s
              = Ok (State (st_env s) (st_in s) out).
Proof.
  induction l as [|f l IH]; simpl; [done|]. intros [Hf|Hl]%orb_true_iff Hok Hc.
  2: { by apply IH; [|inversion Hok|]. }
  apply Forall_cons in Hok as [Hok _]. unfold write_step.
  assert (Hbig : match st_env s o with
                 | Some v => (size_of (st_env s) n <= length v)%nat
                 | None => size_of (st_env s) n = 0%nat
                 end).
  { destruct f; try done.
    - apply andb_true_iff in Hf as [->%bool_decide_eq_true_1 ->%bool_decide_eq_true_1].
      simpl in Hok. unfold has_length in Hok. destruct (st_env s o); lia.
    - destruct c as [c|]; [|done]. rewrite !andb_true_iff in Hf.
      destruct Hf as [[<-%bool_decide_eq_true_1 ->%bool_decide_eq_true_1] Hw].
      destruct (Hok Hc) as (v & -> & Hv & Hp). apply within_ok with (r := st_env s) in Hw; lia. }
  destruct (st_env s o) as [v|].
  - rewrite (proj2 (Nat.leb_le _ _)) by done. eauto.
  - rewrite Hbig. simpl. destruct s. eauto.
Qed.

(** The outcome of a step keeps what [l] says and is not an access outside an object. *)
Definition safe_outcome (l : list fact) (out : outcome) : Prop :=
  match out with
  | Ok s => facts_ok (st_env s) l
  | Failed _ => True
  | Stuck => False
  end.

Lemma safe_read_ok l o n s :
  Len o n ∈ l -> mentions o n = false -> facts_ok (st_env s) l ->
  safe_outcome (forget o l) (read_step o (size_of (st_env s) n) s).
Proof.
  intros Hin Hm Hok. assert (Hlen := Hok). rewrite Forall_forall in Hlen.
  specialize (Hlen _ Hin). simpl in Hlen. unfold read_step, has_length in *.
  destruct (st_env s o) as [v|] eqn:Ho.
  - rewrite <- Hlen, Nat.ltb_irrefl. case_match; [done|]. simpl.
    apply (forget_ok o (st_env s)); [apply upd_differs| |done].
    unfold same_length. rewrite upd_same, Ho.
    apply Nat.ltb_ge in H. rewrite length_app, length_take, length_drop. lia.
  - rewrite Hlen. simpl. by apply forget_weaken.
Qed.

Lemma has_in f l : has f l = true -> f ∈ l.
Proof. apply bool_decide_eq_true_1. Qed.

Lemma bound_facts_ok r x f b l :
  facts_ok r l -> facts_ok (upd (Sub x f) (r (Ref b)) r)
                    (bound_facts x f b (discard (Sub x f) l) ++ discard (Sub x f) l).
Proof.
  intros Hok. assert (Hd := discard_upd (Sub x f) (r (Ref b)) r l Hok).
  apply Forall_app. split; [|done]. apply Forall_forall. intros g Hg.
  apply list_elem_of_In, in_flat_map in Hg as (fa & Hin & Hg).
  apply list_elem_of_In in Hin. rewrite Forall_forall in Hd. specialize (Hd _ Hin).
  destruct fa; try done. case_bool_decide; [|done]. destruct Hg as [<-|[]]. subst. simpl in *.
  by rewrite upd_same, <- (upd_other (Sub x f) (Ref b) (r (Ref b)) r) by done.
Qed.

Lemma same_sizes_ok r e l e' :
  facts_ok r l -> e' ∈ same_sizes e l -> size_of r e' = size_of r e.
Proof.
  intros Hok [->|Hin]%elem_of_cons; [done|].
  apply list_elem_of_In, in_flat_map in Hin as (f & Hf & Hin).
  apply list_elem_of_In in Hf. rewrite Forall_forall in Hok. specialize (Hok _ Hf).
  destruct f; try done. case_bool_decide; [|done]. destruct Hin as [<-|[]]. subst.
  unfold size_of. simpl in *. by rewrite Hok, wrap64_idem.
Qed.

(** A check that [b] is there when [a] holds turns what may hold into what holds. *)
Lemma promote_ok r a b l :
  holds r (And a (IsNull (Ref b))) = false -> facts_ok r l -> facts_ok r (promote a b l).
Proof.
  intros Hh Hok. apply Forall_forall. intros g Hg.
  apply list_elem_of_In, in_flat_map in Hg as (f & Hf & Hg).
  apply list_elem_of_In in Hf. assert (Hfa := Hok). rewrite Forall_forall in Hfa.
  specialize (Hfa _ Hf).
  assert (Hnull : r (Ref b) = None -> holds r a = false).
  { intros Hb. unfold holds in *. simpl in Hh. rewrite Hb in Hh. simpl in Hh.
    by destruct (eval r a =? 0). }
  destruct f; try (by destruct Hg as [<-|[]]).
  - destruct (bool_decide _ && bool_decide _) eqn:Hb in Hg; [|by destruct Hg as [<-|[]]].
    apply andb_true_iff in Hb as [->%bool_decide_eq_true_1 ->%bool_decide_eq_true_1].
    apply list_elem_of_In, list_elem_of_fmap in Hg as (e' & -> & He').
    simpl in *. rewrite (same_sizes_ok r e l) by done.
    destruct Hfa as [Hn|]; [|done]. rewrite Hn. simpl. specialize (Hnull Hn).
    unfold holds in Hnull. simpl in Hnull. unfold size_of.
    destruct (Z.eqb_spec (eval r e) 0) as [->|]; done.
  - destruct (bool_decide _ && bool_decide _) eqn:Hb in Hg; [|by destruct Hg as [<-|[]]].
    apply andb_true_iff in Hb as [->%bool_decide_eq_true_1 ->%bool_decide_eq_true_1].
    destruct Hg as [<-|[]]. simpl in *. intros Hc. destruct (Hfa Hc) as [Hn|]; [|done].
    by rewrite Hnull in Hc.
Qed.

Lemma calloc_ok r b c n k v :
  mentions (Ref b) c = false -> mentions (Ref b) n = false -> mentions (Ref b) k = false ->
  v = (if (product r n k <? 2 ^ 64) && has_memory (Z.to_nat (product r n k))
       then Some (replicate (Z.to_nat (product r n k)) 0) else None) ->
  fact_ok (upd (Ref b) v r) (MayLenIf b c n k).
Proof.
  intros Hc Hn Hk -> _. unfold sized, product. rewrite upd_same.
  rewrite !eval_upd by done. fold (product r n k).
  destruct (Z.ltb_spec (product r n k) (2 ^ 64)) as [Hlt|]; simpl; [|by left].
  case_match; [right|by left]. eexists. split; [done|]. rewrite length_replicate. split; [|done].
  rewrite Z2Nat.id; [done|]. unfold product.
  pose proof (wrap64_bounds (eval r n)). pose proof (wrap64_bounds (eval r k)). nia.
Qed.

Lemma let_size_ok r x e :
  mentions (Val x) e = false ->
  fact_ok (upd (Val x) (Some (le_bytes (sizeof "size_t") (eval r e))) r) (IsSize x e).
Proof.
  intros Hm. simpl. rewrite upd_same, eval_upd by done. unfold number. simpl.
  rewrite unsigned_types_ok by set_solver. rewrite take_ge by (by rewrite length_le_bytes).
  rewrite le_val_bytes, sizeof_size. unfold wrap64. change (256 ^ Z.of_nat 8) with (2 ^ 64).
  by rewrite Z.mod_mod by lia.
Qed.

Lemma size_of_sizeof r t : size_of r (SizeOf t) = sizeof t.
Proof.
  unfold size_of, wrap64. simpl. pose proof (sizeof_bound t). rewrite Z.mod_small by lia. lia.
Qed.

Lemma safe_step_ok p l l' s :
  safe_step p l = Some l' -> facts_ok (st_env s) l -> safe_outcome l' (run_step p s).
Proof.
  intros Hs Hok. destruct p as [o n|o n|c p|c|x t e|b n z|b n k|b n|x f b]; simpl in Hs.
  - destruct (safe_write l None o n) eqn:Hw; [|done]. injection Hs as <-. simpl.
    destruct (safe_write_ok l None o n s Hw Hok I) as [out ->]. done.
  - destruct (has _ _ && _) eqn:Hb; [|done]. injection Hs as <-.
    apply andb_true_iff in Hb as [Hi%has_in Hm%negb_true_iff]. by apply safe_read_ok.
  - destruct p as [o n|o n| | | | |b n k| |]; try done; simpl.
    + destruct (safe_write l (Some c) o n) eqn:Hw; [|done]. injection Hs as <-.
      destruct (holds (st_env s) c) eqn:Hc; [|done].
      destruct (safe_write_ok l (Some c) o n s Hw Hok Hc) as [out ->]. done.
    + destruct (has _ _ && _) eqn:Hb; [|done]. injection Hs as <-.
      apply andb_true_iff in Hb as [Hi%has_in Hm%negb_true_iff].
      case_match; [by apply safe_read_ok|by apply forget_weaken].
    + destruct (_ || _) eqn:Hm in Hs; [done|]. injection Hs as <-. rewrite !orb_false_iff in Hm.
      destruct Hm as [[Hmc Hmn] Hmk]. destruct (holds (st_env s) c) eqn:Hc; simpl.
      * constructor; [by eapply calloc_ok|by apply discard_upd].
      * constructor; [|by apply (discard_ok _ (st_env s))]. simpl. by rewrite Hc.
  - assert (Hgen : l' = l \/ exists a b, c = And a (IsNull (Ref b)) /\ l' = promote a b l).
    { repeat case_match; simplify_eq; eauto. }
    simpl. destruct (holds (st_env s) c) eqn:Hc; [done|]. simpl.
    destruct Hgen as [->|(a & b & -> & ->)]; [done|]. by apply promote_ok.
  - injection Hs as <-. simpl. apply Forall_app. split.
    + case_match eqn:Hb; [|done]. apply andb_true_iff in Hb as [->%bool_decide_eq_true_1 Hm].
      constructor; [|done]. apply let_size_ok. by apply negb_true_iff.
    + constructor; [|by apply discard_upd]. simpl. rewrite upd_same. simpl.
      by rewrite size_of_sizeof, length_le_bytes.
  - destruct (mentions (Ref b) n) eqn:Hm; [done|]. injection Hs as <-. simpl.
    constructor; [|by apply discard_upd]. simpl. rewrite upd_same.
    case_match; [right|by left]. simpl. unfold size_of. by rewrite length_replicate, eval_upd.
  - done.
  - destruct (mentions (Ref b) n) eqn:Hm; [done|]. injection Hs as <-. simpl.
    case_match; [|done]. constructor; [|by apply discard_upd]. simpl. rewrite upd_same. simpl.
    unfold size_of. by rewrite length_replicate, eval_upd.
  - injection Hs as <-. simpl. by apply bound_facts_ok.
Qed.

Lemma safe_steps_ok ps : forall l l' s,
  safe_steps ps l = Some l' -> facts_ok (st_env s) l -> safe_outcome l' (run ps s).
Proof.
  induction ps as [|p ps IH]; intros l l' s; simpl.
  - by intros [= <-].
  - destruct (safe_step p l) as [l1|] eqn:Hp; [|done]. simpl. intros Hs Hok.
    pose proof (safe_step_ok p l l1 s Hp Hok) as Hone.
    destruct (run_step p s); [|done|done]. by apply (IH l1).
Qed.

Lemma local_facts_ok xs : facts_ok (start_env xs) (fold_right local_facts [] xs).
Proof.
  induction xs as [|x xs IH]; simpl; [constructor|].
  destruct x; simpl; repeat constructor; try (by apply discard_upd); simpl;
    by rewrite upd_same, size_of_sizeof; simpl; rewrite length_replicate.
Qed.

(** ** The driver call *)

Definition same_lengths (r r' : env) : Prop :=
  forall o, (forall x f, o <> Sub x f) -> same_length o (r o) (r' o).

Lemma same_length_trans o v1 v2 v3 :
  same_length o v1 v2 -> same_length o v2 v3 -> same_length o v1 v3.
Proof.
  destruct v1, v2, v3; simpl; try done; [congruence|].
  intros [-> ?] Hl. by split; [apply nil_length_inv|].
Qed.

Lemma upd_same_lengths r0 o v r :
  same_lengths r0 r -> same_length o (r o) v -> same_lengths r0 (upd o v r).
Proof.
  intros Hr Hv o' Ho'. destruct (decide (o' = o)) as [->|].
  - rewrite upd_same. by apply same_length_trans with (r o); [apply Hr|].
  - rewrite upd_other by done. by apply Hr.
Qed.

Lemma store_subs_differs x subs : forall r o,
  (forall f, f ∈ subs.*1 -> o <> Sub x f) -> store_subs x subs r o = r o.
Proof.
  induction subs as [|[f v] subs IH]; intros r o Ho; simpl; [done|].
  rewrite IH by (intros; apply Ho; set_solver).
  apply upd_other. apply Ho. set_solver.
Qed.

Lemma store_subs_ok x subs : forall fs r l,
  subs.*1 = fs -> facts_ok r l ->
  facts_ok (store_subs x subs r) (fold_left (fun l f => discard (Sub x f) l) fs l).
Proof.
  induction subs as [|[f v] subs IH]; intros fs r l <- Hok; simpl; [done|].
  apply IH; [done|]. by apply discard_upd.
Qed.

Lemma discards_weaken x fs : forall r l,
  facts_ok r l -> facts_ok r (fold_left (fun l f => discard (Sub x f) l) fs l).
Proof.
  induction fs as [|f fs IH]; intros r l Hok; simpl; [done|].
  apply IH. by apply (discard_ok (Sub x f) r).
Qed.

Lemma arg_facts_weaken a r : forall l, facts_ok r l -> facts_ok r (arg_facts a l).
Proof.
  induction a; intros l Hok; simpl; auto using forget_weaken.
  by apply discards_weaken, forget_weaken.
Qed.

Lemma store_arg_ok r0 a : forall out r l,
  same_shape (arg_value r0 a) out -> same_lengths r0 r -> facts_ok r l ->
  facts_ok (store_arg r0 a out r) (arg_facts a l) /\ same_lengths r0 (store_arg r0 a out r).
Proof.
  induction a as [x|x fs|b|n a IH|c a IH]; intros out r l Hs Hr Hok; simpl in *.
  - done.
  - inversion Hs as [| |v v' subs subs' Hlen Hfs]; subst. rewrite <- list_fmap_compose in Hfs.
    assert (Hx : same_length (Val x) (r (Val x)) (Some v')).
    { specialize (Hr (Val x) ltac:(done)). destruct (r0 (Val x)) as [v0|], (r (Val x)) as [v1|];
        simpl in *; try done; [lia|destruct Hr as [-> _]; by destruct v'|].
      destruct v'; [|done]. naive_solver. }
    split.
    + apply store_subs_ok; [rewrite <- Hfs; apply list_fmap_id|].
      apply (forget_ok (Val x) r); [apply upd_differs| |done]. by rewrite upd_same.
    + intros o Ho. rewrite store_subs_differs by naive_solver. revert o Ho.
      by apply upd_same_lengths.
  - specialize (Hr (Ref b) ltac:(done)) as Hb. destruct (r0 (Ref b)) as [v0|]; inversion Hs; subst.
    + assert (Hx : same_length (Ref b) (r (Ref b)) (Some v')).
      { simpl in Hb. destruct (r (Ref b)); simpl in *; [lia|done]. }
      split; [|by apply upd_same_lengths].
      apply (forget_ok (Ref b) r); [apply upd_differs| |done]. by rewrite upd_same.
    + split; [by apply forget_weaken|done].
  - case_match; [by apply IH|]. split; [by apply arg_facts_weaken|done].
  - case_match; [by apply IH|]. split; [by apply arg_facts_weaken|done].
Qed.

Lemma store_args_ok r0 args : forall outs r l,
  Forall2 same_shape (arg_value r0 <$> args) outs -> same_lengths r0 r -> facts_ok r l ->
  facts_ok (store_args r0 args outs r) (fold_left (fun l a => arg_facts a l) args l).
Proof.
  induction args as [|a args IH]; intros outs r l Hs Hr Hok; simpl in *.
  - by inversion Hs.
  - inversion Hs as [|? out ? outs' Ha Hs']; subst.
    destruct (store_arg_ok r0 a out r l Ha Hr Hok). by apply IH.
Qed.

Lemma called_env_ok h r l :
  facts_ok r l ->
  facts_ok (called_env h r)
    (Len (Val "return_value") (SizeOf "CUresult")
     :: discard (Val "return_value") (fold_left (fun l a => arg_facts a l) (h_call h) l)).
Proof.
  intros Hok. unfold called_env.
  pose proof (driver_shape (h_name h) (arg_value r <$> h_call h)) as Hs.
  pose proof (driver_status (h_name h) (arg_value r <$> h_call h)) as Hl.
  destruct (driver _ _) as [status outs]. simpl in *. constructor.
  - unfold fact_ok. by rewrite upd_same, size_of_sizeof.
  - apply discard_upd, store_args_ok; [done| |done]. intros o _. apply same_length_refl.
Qed.

Lemma rewrites_ok ws : forall r l l',
  rewrites_facts ws l = Some l' -> facts_ok r l ->
  facts_ok (fold_left (fun r w => rewrite_env w r) ws r) l'.
Proof.
  induction ws as [|[[[x fn] g] y] ws IH]; intros r l l'; simpl; [by intros [= <-]|].
  case_bool_decide as Hx; [|done]. subst. simpl. intros Hw Hok. eapply IH; [done|].
  apply (forget_ok (Val y) r); [apply upd_differs| |done].
  rewrite upd_same. destruct (r (Val y)) as [v|]; simpl; [by rewrite exec_node_length|].
  split; [|by eexists]. apply nil_length_inv. by rewrite exec_node_length.
Qed.

(** A handler that the analysis accepts stays inside its objects, whatever the bytes
    on its lane are and whatever memory the allocator has. *)
Lemma safe_handler_sound h bytes : safe_handler h = true -> serve h bytes <> Overrun.
Proof.
  unfold safe_handler. intros Hh.
  destruct (safe_steps (h_reads h) _) as [l1|] eqn:H1; [|done]. simpl in Hh.
  destruct (rewrites_facts _ _) as [l2|] eqn:H2; [|done]. simpl in Hh.
  destruct (safe_steps (h_reply h) _) as [l3|] eqn:H3; [|done].
  unfold serve, calling_env.
  pose proof (safe_steps_ok _ _ _ (State (start_env (h_locals h)) bytes []) H1
                (local_facts_ok (h_locals h))) as Hr.
  destruct (run (h_reads h) _) as [s|s|]; [|done|done]. simpl in Hr.
  case_match; [done|].
  set (r := fold_left _ _ _).
  pose proof (safe_steps_ok _ _ _ (State (called_env h r) (st_in s) []) H3) as Hy.
  specialize (Hy (called_env_ok h r l2 (rewrites_ok _ _ _ _ H2 Hr))).
  by destruct (run (h_reply h) _).
Qed.

End Soundness.
