(* ===== verification/StubAgree.v ===== *)
(** * Generated RPC stubs: the two ends agree

    A client and its handler are emitted separately; nothing in the program checks that
    the one reads what the other writes.  [agree] decides it for two scripts, one that
    writes and one that reads, by keeping what is known of the reader's memory in terms
    of the writer's; [agree_sound] shows that the reader then takes exactly the bytes of
    the writer, into objects with the writer's contents.  It serves both directions. *)
From S2P Require Import Prelude Stub StubSafe.

(** ** Knowledge of the reader's memory in terms of the writer's *)

(** [KObj c ro wo n]: when [c] holds, the first [n] bytes of [ro] and [wo] are the same.
    [KNum t ro e]: the number of type [t] in [ro] is [e].  [KNull ro e]: [ro] is null when
    [e] is not 0.  [KThere c b]: when [c] holds, [b] is not null.  [KZero ro]: zeros.  The
    expressions are over the writer's memory. *)
Inductive kfact :=
| KObj (c : expr) (ro wo : obj) (n : expr)
| KNum (t : string) (ro : obj) (e : expr)
| KNull (ro : obj) (e : expr)
| KThere (c : expr) (b : string)
| KZero (ro : obj).

#[export] Instance kfact_eq_dec : EqDecision kfact.
Proof. solve_decision. Defined.

Definition about (k : kfact) : obj :=
  match k with
  | KObj _ ro _ _ | KNum _ ro _ | KNull ro _ | KZero ro => ro
  | KThere _ b => Ref b
  end.

(** Whether the fact is about the contents of its object, not only whether it is null. *)
Definition of_contents (k : kfact) : bool :=
  match k with KObj _ _ _ _ | KNum _ _ _ | KZero _ => true | _ => false end.

Definition kdrop (o : obj) (K : list kfact) : list kfact := filter (fun k => about k <> o) K.
Definition kchange (o : obj) (K : list kfact) : list kfact :=
  filter (fun k => ~ (about k = o /\ of_contents k = true)) K.
Definition khas (k : kfact) (K : list kfact) : bool := bool_decide (k ∈ K).

Fixpoint first_some {A B} (f : A -> option B) (l : list A) : option B :=
  match l with
  | [] => None
  | x :: l => match f x with Some y => Some y | None => first_some f l end
  end.

(** An expression of the reader over the writer's memory. *)
Definition tr_load (K : list kfact) (t : string) (o : obj) : option expr :=
  first_some (fun k =>
    match k with
    | KNum t' ro e => if bool_decide (t' = t /\ ro = o) then Some e else None
    | KObj (Num 1) ro wo n =>
        if bool_decide (ro = o /\ n = SizeOf t) then Some (Load t wo) else None
    | _ => None
    end) K.

Definition tr_field (K : list kfact) (t f : string) (o : obj) : option expr :=
  first_some (fun k =>
    match k with
    | KObj (Num 1) ro wo n =>
        if bool_decide (ro = o /\ n = SizeOf t) then Some (Field t f wo) else None
    | _ => None
    end) K.

Definition tr_null (K : list kfact) (o : obj) : option expr :=
  first_some (fun k =>
    match k with
    | KNull ro e => if bool_decide (ro = o) then Some (Not (Not e)) else None
    | _ => None
    end) K.

Fixpoint tr (K : list kfact) (e : expr) : option expr :=
  match e with
  | Num n => Some (Num n)
  | SizeOf t => Some (SizeOf t)
  | Load t o => tr_load K t o
  | Field t f o => tr_field K t f o
  | Strlen _ => None
  | IsNull o => tr_null K o
  | Add a b => a ← tr K a; b ← tr K b; Some (Add a b)
  | Mul a b => a ← tr K a; b ← tr K b; Some (Mul a b)
  | Div a b => a ← tr K a; b ← tr K b; Some (Div a b)
  | Lt a b => a ← tr K a; b ← tr K b; Some (Lt a b)
  | Eq a b => a ← tr K a; b ← tr K b; Some (Eq a b)
  | And a b => a ← tr K a; b ← tr K b; Some (And a b)
  | Or a b => a ← tr K a; b ← tr K b; Some (Or a b)
  | Not a => a ← tr K a; Some (Not a)
  | Cond c a b => c ← tr K c; a ← tr K a; b ← tr K b; Some (Cond c a b)
  end.

(** ** Guards *)

(** The conjuncts of a condition, without double negations. *)
Fixpoint strip_not (e : expr) : expr :=
  match e with
  | Not (Not a) => strip_not a
  | e => e
  end.

Fixpoint conjuncts (e : expr) : list expr :=
  match e with
  | And a b => conjuncts a ++ conjuncts b
  | Num 1 => []
  | e => [strip_not e]
  end.

(** [n] is 0 when [m] is. *)
Definition zero_with (m n : expr) : bool :=
  bool_decide (m = n) ||
  match n with
  | Mul (Cond (Lt a b) a' b') _ =>
      bool_decide (a = a' /\ b = b') && unsigned_load a && unsigned_load b
      && (bool_decide (m = a) || bool_decide (m = b))
  | Mul a _ => bool_decide (m = a)
  | _ => false
  end.

(** A conjunct that only keeps a transfer of nothing from being made. *)
Definition idle (n c : expr) : bool :=
  match c with
  | Not (Eq m (Num 0)) => zero_with m n
  | _ => false
  end.

Definition guards (n c : expr) : list expr :=
  filter (fun g => idle n g = false) (conjuncts c).

(** A transfer of a script: its condition, object and size. *)
Definition read_item (p : step) : option (expr * obj * expr) :=
  match p with
  | Read o n => Some (Num 1, o, n)
  | When c (Read o n) => Some (c, o, n)
  | _ => None
  end.

Definition write_item (p : step) : option (expr * obj * expr) :=
  match p with
  | Write o n => Some (Num 1, o, n)
  | When c (Write o n) => Some (c, o, n)
  | _ => None
  end.

Fixpoint all_of (l : list expr) : expr :=
  match l with
  | [] => Num 1
  | [g] => g
  | g :: l => And g (all_of l)
  end.

(** ** Agreement *)

(** What would make a reader give up a request that its writer can send. *)
Inductive refusal :=
| Refuse (c : expr)
| TooBig (c n k : expr).

(** The reads of [p] take what [q] writes. *)
Definition agree_item (K : list kfact) (p q : step) : option (list kfact) :=
  '(rc, ro, rn) ← read_item p;
  '(wc, wo, wn) ← write_item q;
  n ← tr K rn;
  c ← tr K rc;
  if bool_decide (n = wn) && bool_decide (guards n c = guards n wc)
  then Some (KObj (all_of (guards n wc)) ro wo n :: kchange ro K)
  else None.

(** Values that a variable of type [t] holds without loss. *)
Fixpoint fits (t : string) (e : expr) : bool :=
  match e with
  | Num n => bool_decide (t = "size_t") && (0 <=? n) && (n <? 2 ^ 64)
  | Mul _ _ | Add _ _ | Field _ _ _ | SizeOf _ => bool_decide (t = "size_t")
  | Load t' _ => bool_decide (t = "size_t") && bool_decide (t' ∈ unsigned_types)
  | Cond _ a b => fits t a && fits t b
  | _ => false
  end.

Definition null_before (K : list kfact) (b : string) : bool := khas (KNull (Ref b) (Num 1)) K.

(** [c] cannot hold, since the buffer it asks for is there. *)
Definition benign (K : list kfact) (c : expr) : bool :=
  match c with
  | And a (IsNull (Ref b)) =>
      khas (KThere (Num 1) b) K ||
      match tr K a with Some a => khas (KThere a b) K | None => false end
  | _ => false
  end.

Definition bound_kfacts (x f b : string) (K : list kfact) : list kfact :=
  flat_map (fun k =>
    match k with
    | KObj c ro wo n => if bool_decide (ro = Ref b) then [KObj c (Sub x f) wo n] else []
    | _ => []
    end) K.

(** The steps of the reader that transfer nothing. *)
Definition agree_local (K : list kfact) (p : step) : option (list kfact * list refusal) :=
  match p with
  | Fail c => if benign K c then Some (K, []) else c ← tr K c; Some (K, [Refuse c])
  | Let x t e =>
      Some (match tr K e with
            | Some e => if fits t e then [KNum t (Val x) e] else []
            | None => []
            end ++ kdrop (Val x) K, [])
  | Alloc b _ zeroed =>
      Some ((if zeroed then [KZero (Ref b)] else [])
            ++ KThere (Num 1) b :: kdrop (Ref b) K, [])
  | Resize b _ => Some (KZero (Ref b) :: KThere (Num 1) b :: kdrop (Ref b) K, [])
  | When c (Calloc b n k) =>
      c ← tr K c; n ← tr K n; k ← tr K k;
      if null_before K b
      then Some (KZero (Ref b) :: KThere c b :: KNull (Ref b) (Not c) :: kdrop (Ref b) K,
                 [TooBig c n k])
      else None
  | Bind x f b => let K := kdrop (Sub x f) K in Some (bound_kfacts x f b K ++ K, [])
  | _ => None
  end.

Fixpoint agree (K : list kfact) (rs ws : list step) : option (list kfact * list refusal) :=
  match rs with
  | [] => match ws with [] => Some (K, []) | _ => None end
  | p :: rs =>
      match read_item p with
      | Some _ =>
          match ws with
          | [] => None
          | q :: ws => K ← agree_item K p q; agree K rs ws
          end
      | None =>
          '(K, refusals) ← agree_local K p;
          '(K, more) ← agree K rs ws;
          Some (K, refusals ++ more)
      end
  end.

(** ** A client and its handler *)

Definition local_kfacts (x : local) (K : list kfact) : list kfact :=
  match x with
  | Uninit x _ => kdrop (Val x) K
  | Zeroed x _ => KZero (Val x) :: kdrop (Val x) K
  | NullPtr x => KZero (Ref x) :: KNull (Ref x) (Num 1) :: kdrop (Ref x) K
  end.

Definition start_kfacts (h : handler) : list kfact := fold_right local_kfacts [] (h_locals h).

(** The object behind an argument of the driver call. *)
Fixpoint arg_object (a : call_arg) : option obj :=
  match a with
  | ByVal _ => None
  | AddrOf x _ => Some (Val x)
  | BufPtr b => Some (Ref b)
  | UnlessZero _ a | IfArg _ a => arg_object a
  end.

(** The driver does not change [o], and neither does the result of the call. *)
Definition untouched (h : handler) (o : obj) : bool :=
  match o with Val x => negb (String.eqb x "return_value") | _ => false end
  && forallb (fun a => negb (bool_decide (arg_object a = Some o))) (h_call h).

(** The flags that tell a handler which pointers of its client are null. *)
Definition null_flag (g : guard) : option (string * obj * bool) :=
  match g with
  | Local f "uint8_t" (Cond (IsNull (Ref x)) (Num 1) (Num 0)) => Some (f, Ref x, true)
  | Local f "uint8_t" (Not (IsNull (Ref x))) => Some (f, Ref x, false)
  | _ => None
  end.

Definition sent_flag (h : handler) (K : list kfact) (f : string) : option string :=
  first_some (fun k =>
    match k with
    | KObj (Num 1) (Val y) (Val x) (SizeOf "uint8_t") =>
        if bool_decide (x = f) && untouched h (Val y) then Some y else None
    | _ => None
    end) K.

(** What the client's memory has to do with the handler's after the driver call, from
    what the handler's had to do with the client's before. *)
Definition return_kfacts (c : client_stub) (h : handler) (K : list kfact) : list kfact :=
  flat_map (fun k =>
    match k with
    | KObj (Num 1) so co (SizeOf t) =>
        if untouched h so && negb (bool_decide (co = Val "return_value"))
        then [KObj (Num 1) co so (SizeOf t)] else []
    | _ => []
    end) K
  ++ flat_map (fun g =>
    match null_flag g with
    | Some (f, o, is_null) =>
        match sent_flag h K f with
        | Some y =>
            let e := Load "uint8_t" (Val y) in [KNull o (if is_null then e else Not e)]
        | None => []
        end
    | None => []
    end) (c_guards c).

Definition request_agrees (c : client_stub) (h : handler) : option (list kfact * list refusal) :=
  agree (start_kfacts h) (h_reads h) (c_request c).

Definition response_agrees (c : client_stub) (h : handler) : option (list kfact) :=
  '(K, _) ← request_agrees c h;
  '(K, refusals) ← agree (return_kfacts c h K) (c_response c) (h_reply h);
  match refusals with [] => Some K | _ => None end.

(** ** Soundness *)

Section Soundness.
Context {types : CTypes} {types_ok : CTypesLaws} {allocator : Allocator}.
Context {dev : Driver} {dev_ok : DriverLaws}.

Abbreviation bytes_of r o := (default [] (r o : option (list byte))).

(** The first [n] bytes of an object of each memory are the same. *)
Definition same_prefix (n : nat) (v v' : list byte) : Prop :=
  (n <= length v)%nat /\ (n <= length v')%nat /\ take n v = take n v'.

Definition kfact_ok (w r : env) (k : kfact) : Prop :=
  match k with
  | KObj c ro wo n =>
      holds w c = true -> same_prefix (size_of w n) (bytes_of r ro) (bytes_of w wo)
  | KNum t ro e => number t (bytes_of r ro) = eval w e
  | KNull ro e => r ro = None <-> holds w e = true
  | KThere c b => holds w c = true -> r (Ref b) <> None
  | KZero ro => Forall (fun b => b = 0) (bytes_of r ro)
  end.

Abbreviation kfacts_ok w r := (Forall (kfact_ok w r)).

Lemma same_prefix_zero v v' : same_prefix 0 v v'.
Proof. by split_and!; [lia|lia|]. Qed.

Lemma same_prefix_sym n v v' : same_prefix n v v' -> same_prefix n v' v.
Proof. by intros (? & ? & ?). Qed.

Lemma first_some_in {A B} (f : A -> option B) l y :
  first_some f l = Some y -> exists x, x ∈ l /\ f x = Some y.
Proof.
  induction l as [|x l IH]; simpl; [done|]. destruct (f x) eqn:Hf.
  - intros [= ->]. exists x. split; [constructor|done].
  - intros (x' & Hin & Hx)%IH. exists x'. split; [by constructor|done].
Qed.

Lemma holds_one w : holds w (Num 1) = true.
Proof. done. Qed.

Lemma bool_num_holds b : negb (bool_num b =? 0) = b.
Proof. by destruct b. Qed.

Lemma same_prefix_number t v v' : same_prefix (sizeof t) v v' -> number t v = number t v'.
Proof. intros (_ & _ & Ht). unfold number. by rewrite Ht. Qed.

Lemma tr_load_sound w r K t o e :
  kfacts_ok w r K -> tr_load K t o = Some e -> number t (bytes_of r o) = eval w e.
Proof.
  intros HK (k & Hin & Hk)%first_some_in. rewrite Forall_forall in HK. specialize (HK _ Hin).
  destruct k as [c ro wo n|t' ro e'| | |]; try done.
  - destruct c as [[|[]|]| | | | | | | | | | | | | |]; try done.
    case_bool_decide as Hb; [|done]. destruct Hb as [-> ->]. simplify_eq. simpl in *.
    apply same_prefix_number. rewrite size_of_sizeof in HK. by apply HK.
  - case_bool_decide as Hb; [|done]. destruct Hb as [-> ->]. by simplify_eq.
Qed.

Lemma tr_field_sound w r K t f o e :
  kfacts_ok w r K -> tr_field K t f o = Some e -> eval r (Field t f o) = eval w e.
Proof.
  intros HK (k & Hin & Hk)%first_some_in. rewrite Forall_forall in HK. specialize (HK _ Hin).
  destruct k as [c ro wo n|t' ro e'| | |]; try done.
  destruct c as [[|[]|]| | | | | | | | | | | | | |]; try done.
  case_bool_decide as Hb; [|done]. destruct Hb as [-> ->]. simplify_eq. simpl in *.
  rewrite size_of_sizeof in HK. destruct (HK eq_refl) as (_ & _ & ->). done.
Qed.

Lemma tr_null_sound w r K o e :
  kfacts_ok w r K -> tr_null K o = Some e -> eval r (IsNull o) = eval w e.
Proof.
  intros HK (k & Hin & Hk)%first_some_in. rewrite Forall_forall in HK. specialize (HK _ Hin).
  destruct k; try done. case_bool_decide; [|done]. simplify_eq/=.
  unfold holds in HK. case_bool_decide as Hr.
  - by destruct (eval w e0 =? 0); [destruct HK as [HK _]; discriminate HK|].
  - destruct (eval w e0 =? 0) eqn:He; [done|]. by destruct Hr; apply HK.
Qed.

(** An expression of the reader has the value of its translation. *)
Lemma tr_sound w r K e : forall e',
  kfacts_ok w r K -> tr K e = Some e' -> eval r e = eval w e'.
Proof.
  induction e; intros e' HK; simpl;
    try (intros [= <-]; done);
    try (by apply tr_load_sound); try (by apply tr_field_sound); try (by apply tr_null_sound);
    try done;
    intros Hs; repeat match goal with
    | Hs : (_ ≫= _) = Some _ |- _ =>
        let H := fresh in apply bind_Some in Hs as (? & H & Hs)
    end; simplify_eq; simpl;
    repeat match goal with
    | IH : forall e', kfacts_ok w r K -> tr K ?e = Some e' -> _, H : tr K ?e = Some _ |- _ =>
        rewrite (IH _ HK H); clear IH
    end; done.
Qed.

Lemma tr_holds w r K e e' : kfacts_ok w r K -> tr K e = Some e' -> holds r e = holds w e'.
Proof. intros HK He. unfold holds. by rewrite (tr_sound w r K e e'). Qed.

Lemma tr_size w r K e e' : kfacts_ok w r K -> tr K e = Some e' -> size_of r e = size_of w e'.
Proof. intros HK He. unfold size_of. by rewrite (tr_sound w r K e e'). Qed.

(** A change of [o] keeps what is known of other objects. *)
Lemma kfact_differs w r r' k o :
  differs_at o r r' -> about k <> o -> kfact_ok w r k -> kfact_ok w r' k.
Proof. intros Hd Ho. destruct k; simpl in *; by rewrite Hd. Qed.

Lemma kdrop_ok w r r' o K : differs_at o r r' -> kfacts_ok w r K -> kfacts_ok w r' (kdrop o K).
Proof.
  intros Hd HK. apply Forall_forall. intros k [Ho Hin]%list_elem_of_filter.
  apply (kfact_differs w r r' k o); [done..|]. rewrite Forall_forall in HK. by apply HK.
Qed.

Lemma kdrop_upd w r o v K : kfacts_ok w r K -> kfacts_ok w (upd o v r) (kdrop o K).
Proof. apply kdrop_ok, upd_differs. Qed.

Lemma kchange_ok w r r' o K :
  differs_at o r r' -> (r o = None <-> r' o = None) -> kfacts_ok w r K ->
  kfacts_ok w r' (kchange o K).
Proof.
  intros Hd Hn HK. apply Forall_forall. intros k [Ho Hin]%list_elem_of_filter.
  rewrite Forall_forall in HK. specialize (HK _ Hin).
  destruct (decide (about k = o)) as [Ha|Ha]; [|by apply (kfact_differs w r r' k o)].
  destruct k; simpl in *; try tauto; subst; naive_solver.
Qed.

(** ** Guards of a transfer *)

Lemma strip_not_holds w e : holds w (strip_not e) = holds w e.
Proof.
  enough (holds w (strip_not e) = holds w e /\ holds w (strip_not (Not e)) = holds w (Not e))
    by tauto.
  induction e as [| | | | | | | | | | | | |a IH|]; try done.
  destruct IH as [IH1 IH2]. split; [done|]. simpl. rewrite IH1.
  unfold holds. simpl. by destruct (eval w a =? 0).
Qed.

Lemma conjuncts_holds w c : holds w c = forallb (holds w) (conjuncts c).
Proof.
  induction c; simpl; try (by rewrite ?andb_true_r).
  - repeat case_match; subst; simpl; by rewrite ?andb_true_r.
  - rewrite forallb_app, <- IHc1, <- IHc2. unfold holds. simpl. by rewrite bool_num_holds.
  - rewrite andb_true_r. change (match c with Not a => strip_not a | _ => Not c end)
      with (strip_not (Not c)). by rewrite strip_not_holds.
Qed.

Lemma zero_with_ok w m n : zero_with m n = true -> eval w m = 0 -> size_of w n = 0%nat.
Proof.
  unfold zero_with. intros [->%bool_decide_eq_true_1|Hn]%orb_true_iff Hm.
  { unfold size_of. by rewrite Hm. }
  destruct n as [| | | | | | |a k| | | | | | |]; try done.
  assert (Ha : eval w a = 0); [|by unfold size_of; simpl; rewrite Ha].
  destruct a as [| | | | | | | | | | | | | |l a b]; try (by apply bool_decide_eq_true_1 in Hn; subst).
  destruct l as [| | | | | | | | |x y| | | | |]; try (by apply bool_decide_eq_true_1 in Hn; subst).
  rewrite !andb_true_iff in Hn. destruct Hn as [[[Hb Hx] Hy] Hor].
  apply bool_decide_eq_true_1 in Hb as [-> ->].
  pose proof (unsigned_load_bounds w a Hx). pose proof (unsigned_load_bounds w b Hy). simpl.
  apply orb_true_iff in Hor as [->%bool_decide_eq_true_1 | ->%bool_decide_eq_true_1];
    destruct (Z.ltb_spec (eval w a) (eval w b)); simpl; lia.
Qed.

Lemma idle_ok w n g : idle n g = true -> size_of w n <> 0%nat -> holds w g = true.
Proof.
  unfold idle. intros Hi Hn. repeat case_match; try done. subst.
  unfold holds. simpl.
  match goal with H : zero_with ?m n = true |- _ =>
    destruct (eval w m =? 0) eqn:Hz; [|done]; destruct Hn; apply (zero_with_ok w m); [done|lia]
  end.
Qed.

(** The conjuncts that matter decide whether anything is transferred. *)
Lemma guards_ok w n c :
  size_of w n <> 0%nat -> holds w c = forallb (holds w) (guards n c).
Proof.
  intros Hn. rewrite conjuncts_holds. unfold guards.
  induction (conjuncts c) as [|g l IH]; simpl; [done|]. rewrite filter_cons, IH.
  case_decide as Hg; simpl; [done|]. apply not_false_is_true in Hg.
  by rewrite (idle_ok w n g).
Qed.

Lemma all_of_holds w l : holds w (all_of l) = forallb (holds w) l.
Proof.
  induction l as [|g l IH]; [done|]. destruct l as [|g' l].
  - simpl. by rewrite andb_true_r.
  - change (all_of (g :: g' :: l)) with (And g (all_of (g' :: l))).
    change (forallb (holds w) (g :: g' :: l)) with (holds w g && forallb (holds w) (g' :: l)).
    rewrite <- IH. unfold holds. simpl. by rewrite bool_num_holds.
Qed.

(** ** One transfer *)

(** The bytes that a step and a script of writes put on the wire. *)
Definition chunk (w : env) (q : step) : list byte :=
  match write_item q with
  | Some (c, o, n) => if holds w c then take (size_of w n) (bytes_of w o) else []
  | None => []
  end.

Definition emitted (w : env) (ws : list step) : list byte := ws ≫= chunk w.

Lemma write_item_run q c o n w i out s :
  write_item q = Some (c, o, n) -> run_step q (State w i out) = Ok s ->
  s = State w i (out ++ if holds w c then take (size_of w n) (bytes_of w o) else []) /\
  (holds w c = true -> (size_of w n <= length (bytes_of w o))%nat).
Proof.
  assert (Hw : forall s, write_step o (size_of w n) (State w i out) = Ok s ->
    s = State w i (out ++ take (size_of w n) (bytes_of w o)) /\
    (size_of w n <= length (bytes_of w o))%nat).
  { intros s'. unfold write_step. simpl. destruct (w o) as [v|]; simpl.
    - case_match eqn:Hl; [|done]. apply Nat.leb_le in Hl. by intros [= <-].
    - case_match eqn:Hz; [|done]. apply Nat.eqb_eq in Hz. rewrite Hz, take_0, app_nil_r.
      by intros [= <-]. }
  destruct q as [o' n'| |c' q| | | | | |]; try done.
  - intros [= <- -> ->] Hs. simpl in Hs. apply Hw in Hs as [-> ?]. by rewrite holds_one.
  - destruct q; try done. intros [= -> -> ->]. simpl.
    destruct (holds w c); [naive_solver|]. intros [= <-]. by rewrite app_nil_r.
Qed.

Lemma read_item_run p c o n s :
  read_item p = Some (c, o, n) ->
  run_step p s = if holds (st_env s) c then read_step o (size_of (st_env s) n) s else Ok s.
Proof.
  destruct p as [| |c' p| | | | | |]; try done.
  - by intros [= <- -> ->].
  - destruct p; try done. by intros [= -> -> ->].
Qed.

(** What a read of the right number of bytes does. *)
Lemma read_step_exact o n bs rest r out :
  length bs = n -> read_step o n (State r (bs ++ rest) out) <> Stuck ->
  exists r', read_step o n (State r (bs ++ rest) out) = Ok (State r' rest out) /\
    differs_at o r r' /\ (r o = None <-> r' o = None) /\
    (r o <> None -> r' o = Some (bs ++ drop n (bytes_of r o))) /\ (r o = None -> n = 0%nat).
Proof.
  intros Hl. unfold read_step. simpl. destruct (r o) as [v|] eqn:Ho.
  - case_match; [done|]. rewrite (proj2 (Nat.ltb_ge _ _)) by (rewrite length_app; lia). intros _.
    rewrite <- Hl, take_app_length, drop_app_length. eexists. split; [done|].
    split; [apply upd_differs|]. rewrite upd_same. naive_solver.
  - case_match eqn:Hn; [|done]. apply Nat.eqb_eq in Hn. intros _.
    exists r. subst. apply nil_length_inv in Hn as ->. simpl. split; [done|].
    split; [by intros ? _|]. naive_solver.
Qed.

Lemma agree_item_sound w r K K' p q i out s o2 rest :
  agree_item K p q = Some K' -> kfacts_ok w r K ->
  run_step q (State w i out) = Ok s ->
  s = State w i (out ++ chunk w q) /\
  (run_step p (State r (chunk w q ++ rest) o2) <> Stuck ->
   exists r', run_step p (State r (chunk w q ++ rest) o2) = Ok (State r' rest o2) /\
     kfacts_ok w r' K').
Proof.
  unfold agree_item. intros Ha HK Hq.
  apply bind_Some in Ha as ([[rc ro] rn] & Hp & Ha).
  apply bind_Some in Ha as ([[wc wo] wn] & Hw & Ha).
  apply bind_Some in Ha as (n & Hn & Ha). apply bind_Some in Ha as (c & Hc & Ha).
  destruct (bool_decide (n = wn)) eqn:Hnw; [|done]. apply bool_decide_eq_true_1 in Hnw as ->.
  destruct (bool_decide _) eqn:Hg in Ha; [|done]. apply bool_decide_eq_true_1 in Hg.
  injection Ha as <-. destruct (write_item_run q wc wo wn w i out s Hw Hq) as [-> Hlen].
  unfold chunk. rewrite Hw. split; [done|]. rewrite (read_item_run p rc ro rn _ Hp). simpl.
  rewrite (tr_size w r K rn wn HK Hn), (tr_holds w r K rc c HK Hc).
  assert (Hsame : size_of w wn <> 0%nat -> holds w c = holds w wc).
  { intros Hz. by rewrite !(guards_ok w wn) by done; rewrite Hg. }
  assert (Hskip : kfact_ok w r (KObj (all_of (guards wn wc)) ro wo wn) ->
    exists r', Ok (State r rest o2) = Ok (State r' rest o2) /\
      kfacts_ok w r' (KObj (all_of (guards wn wc)) ro wo wn :: kchange ro K)).
  { intros Hk. exists r. split; [done|]. constructor; [done|].
    by apply (kchange_ok w r r); [intros ? _| |]. }
  destruct (decide (size_of w wn = 0%nat)) as [Hz|Hz].
  - assert (Hk : forall r', kfact_ok w r' (KObj (all_of (guards wn wc)) ro wo wn)).
    { intros r' _. rewrite Hz. apply same_prefix_zero. }
    rewrite Hz, take_0. replace (if holds w wc then [] else []) with (@nil Z) by (by case_match).
    simpl. intros Hns. case_match; [|by apply Hskip].
    destruct (read_step_exact ro 0 [] rest r o2 eq_refl Hns) as (r' & Hr & Hd & Hnull & _).
    exists r'. split; [done|]. constructor; [apply Hk|by apply (kchange_ok w r)].
  - specialize (Hsame Hz). rewrite Hsame. destruct (holds w wc) eqn:Hwc.
    + intros Hns. specialize (Hlen eq_refl).
      assert (Hbl : length (take (size_of w wn) (bytes_of w wo)) = size_of w wn)
        by (rewrite length_take; lia).
      destruct (read_step_exact ro _ _ rest r o2 Hbl Hns) as (r' & Hr & Hd & Hnull & Hv & H0).
      exists r'. split; [done|]. constructor; [|by apply (kchange_ok w r)].
      intros _. assert (Hro : r ro <> None) by (intros Hn0; by apply Hz, H0).
      rewrite (Hv Hro). simpl. split_and!.
      * rewrite length_app, Hbl. lia.
      * lia.
      * by rewrite take_app_length'.
    + simpl. intros _. apply Hskip. intros Hall. rewrite all_of_holds in Hall.
      by rewrite (guards_ok w wn wc Hz), Hall in Hwc.
Qed.

(** ** Steps of the reader alone *)

(** The server does not run out of memory. *)
Hypothesis plenty : forall n, has_memory n = true.

Definition refusal_ok (w : env) (x : refusal) : Prop :=
  match x with
  | Refuse c => holds w c = false
  | TooBig c n k => holds w c = true -> product w n k < 2 ^ 64
  end.

Lemma fits_bounds t e w : fits t e = true -> t = "size_t" /\ 0 <= eval w e < 2 ^ 64.
Proof.
  induction e; simpl; try done; rewrite ?andb_true_iff;
    repeat match goal with
    | |- bool_decide _ = true -> _ => intros ?%bool_decide_eq_true_1
    | |- _ /\ _ -> _ => intros []
    | H : bool_decide _ = true |- _ => apply bool_decide_eq_true_1 in H
    | H : _ /\ _ |- _ => destruct H
    end; subst.
  - split; [done|lia].
  - split; [done|]. pose proof (sizeof_bound t0). lia.
  - split; [done|]. apply (unsigned_load_bounds w (Load t0 o)). simpl. by case_bool_decide.
  - split; [done|]. apply wrap64_bounds.
  - split; [done|]. apply wrap64_bounds.
  - split; [done|]. apply wrap64_bounds.
  - destruct IHe2 as [-> ?]; [done|]. destruct IHe3 as [_ ?]; [done|]. by case_match.
Qed.

Lemma let_kfact_ok w r K x t e :
  kfacts_ok w r K ->
  kfacts_ok w (upd (Val x) (Some (le_bytes (sizeof t) (eval r e))) r)
    (match tr K e with
     | Some e => if fits t e then [KNum t (Val x) e] else []
     | None => []
     end ++ kdrop (Val x) K).
Proof.
  intros HK. apply Forall_app. split; [|by apply kdrop_upd].
  destruct (tr K e) as [e'|] eqn:He; [|done]. destruct (fits t e') eqn:Hf; [|done].
  constructor; [|done]. simpl. rewrite upd_same. simpl.
  destruct (fits_bounds t e' w Hf) as [-> Hb]. rewrite (tr_sound w r K e e' HK He).
  unfold number. rewrite unsigned_types_ok by set_solver.
  rewrite take_ge by (by rewrite length_le_bytes). rewrite sizeof_size, le_val_bytes8 by done.
  unfold wrap64. by rewrite Z.mod_small.
Qed.

Lemma khas_in k K : khas k K = true -> k ∈ K.
Proof. apply bool_decide_eq_true_1. Qed.

Lemma benign_ok w r K c : kfacts_ok w r K -> benign K c = true -> holds r c = false.
Proof.
  intros HK Hb. destruct c as [| | | | | | | | | | |a d| | |]; try done.
  destruct d as [| | | | |o| | | | | | | | |]; try done. destruct o as [|b|]; try done.
  simpl in Hb. unfold holds. simpl. rewrite bool_num_holds.
  assert (Hgo : forall c, khas (KThere c b) K = true -> holds w c = true -> r (Ref b) <> None).
  { intros c Hc%khas_in. rewrite Forall_forall in HK. apply (HK _ Hc). }
  destruct (bool_decide_reflect (r (Ref b) = None)) as [Hn|]; [|by rewrite andb_false_r].
  rewrite andb_true_r. apply orb_true_iff in Hb as [Hb|Hb]; [by destruct (Hgo (Num 1))|].
  destruct (tr K a) as [a'|] eqn:Ha; [|done]. pose proof (Hgo a' Hb) as Hg.
  rewrite <- (tr_holds w r K a a' HK Ha) in Hg. unfold holds in Hg.
  by destruct (eval r a =? 0); [|destruct (Hg eq_refl)].
Qed.

Lemma calloc_kfact_ok w r K b c n k c' n' k' :
  kfacts_ok w r K -> tr K c = Some c' -> tr K n = Some n' -> tr K k = Some k' ->
  null_before K b = true -> refusal_ok w (TooBig c' n' k') ->
  exists r', (forall i o, run_step (When c (Calloc b n k)) (State r i o) = Ok (State r' i o)) /\
    kfacts_ok w r' (KZero (Ref b) :: KThere c' b :: KNull (Ref b) (Not c') :: kdrop (Ref b) K).
Proof.
  intros HK Hc Hn Hk Hnull Hbig. simpl in Hbig.
  rewrite <- (tr_holds w r K c c' HK Hc) in Hbig.
  assert (Hnot : holds w (Not c') = negb (holds r c)).
  { rewrite (tr_holds w r K c c' HK Hc). unfold holds. simpl. by destruct (eval w c' =? 0). }
  assert (Hthere : holds w c' = holds r c) by (symmetry; by apply (tr_holds w r K)).
  apply khas_in in Hnull. assert (Hb := HK). rewrite Forall_forall in Hb.
  specialize (Hb _ Hnull). simpl in Hb. destruct Hb as [_ Hb]. specialize (Hb eq_refl).
  simpl. destruct (holds r c) eqn:Hh.
  - specialize (Hbig eq_refl). unfold product in Hbig.
    rewrite <- (tr_sound w r K n n'), <- (tr_sound w r K k k') in Hbig by done.
    eexists. split; [intros i o; rewrite (proj2 (Z.ltb_lt _ _)), plenty by done; done|].
    repeat constructor; simpl; rewrite ?upd_same, ?Hnot; simpl; try done.
    + by apply Forall_replicate.
    + by apply kdrop_upd.
  - exists r. split; [done|]. repeat constructor; simpl; rewrite ?Hb, ?Hnot, ?Hthere; try done.
    by apply (kdrop_ok w r r); [intros ? _|].
Qed.

Lemma agree_local_sound w r K K' p refs i o :
  agree_local K p = Some (K', refs) -> kfacts_ok w r K -> Forall (refusal_ok w) refs ->
  exists r', run_step p (State r i o) = Ok (State r' i o) /\ kfacts_ok w r' K'.
Proof.
  intros Ha HK Hrefs.
  destruct p as [| |c p|c|x t e|b n z|b n k|b n|x f b]; try done; simpl in Ha.
  - destruct p as [| | | | | |b n k| |]; try done.
    apply bind_Some in Ha as (c' & Hc & Ha). apply bind_Some in Ha as (n' & Hn & Ha).
    apply bind_Some in Ha as (k' & Hk & Ha). destruct (null_before K b) eqn:Hb; [|done].
    injection Ha as <- <-. apply Forall_cons in Hrefs as [Hr _].
    destruct (calloc_kfact_ok w r K b c n k c' n' k') as (r' & Hrun & Hok); try done.
    exists r'. split; [apply Hrun|done].
  - destruct (benign K c) eqn:Hb.
    + injection Ha as <- <-. simpl. rewrite (benign_ok w r K c) by done. eauto.
    + apply bind_Some in Ha as (c' & Hc & Ha). injection Ha as <- <-.
      apply Forall_cons in Hrefs as [Hr _]. simpl in *.
      rewrite (tr_holds w r K c c' HK Hc), Hr. eauto.
  - injection Ha as <- <-. eexists. split; [done|]. by apply let_kfact_ok.
  - injection Ha as <- <-. eexists. split; [done|]. rewrite plenty. apply Forall_app. split.
    + case_match; [|done]. constructor; [|done]. simpl. rewrite upd_same. simpl.
      by apply Forall_replicate.
    + constructor; [by simpl; rewrite upd_same|by apply kdrop_upd].
  - injection Ha as <- <-. simpl. rewrite plenty. eexists. split; [done|].
    repeat constructor; simpl; rewrite ?upd_same; try done; [|by apply kdrop_upd].
    by apply Forall_replicate.
  - injection Ha as <- <-. eexists. split; [done|].
    assert (HK' := kdrop_upd w r (Sub x f) (r (Ref b)) K HK).
    apply Forall_app. split; [|done]. apply Forall_forall. intros k Hk.
    apply list_elem_of_In, in_flat_map in Hk as (k0 & Hin & Hk).
    apply list_elem_of_In in Hin. rewrite Forall_forall in HK'. specialize (HK' _ Hin).
    destruct k0; try done. case_bool_decide; [|done]. destruct Hk as [<-|[]]. subst. simpl in *.
    by rewrite upd_same, <- (upd_other (Sub x f) (Ref b) (r (Ref b)) r) by done.
Qed.

(** The reader takes exactly what the writer sends, and ends knowing [K']. *)
Lemma agree_sound w rs : forall K K' ws refs r i out s o2 rest,
  agree K rs ws = Some (K', refs) -> kfacts_ok w r K -> Forall (refusal_ok w) refs ->
  run ws (State w i out) = Ok s ->
  run rs (State r (emitted w ws ++ rest) o2) <> Stuck ->
  s = State w i (out ++ emitted w ws) /\
  exists r', run rs (State r (emitted w ws ++ rest) o2) = Ok (State r' rest o2) /\
    kfacts_ok w r' K'.
Proof.
  induction rs as [|p rs IH];
    intros K K' ws refs r i out s o2 rest Ha HK Hrefs Hs Hns; simpl in Ha.
  - destruct ws as [|q ws]; [|done]. injection Ha as <- <-. injection Hs as <-.
    rewrite app_nil_r. split; [done|]. simpl. eauto.
  - destruct (read_item p) as [it|] eqn:Hp.
    + destruct ws as [|q ws]; [done|]. apply bind_Some in Ha as (K1 & Hi & Ha). simpl in Hs.
      destruct (run_step q (State w i out)) as [s1|s1|] eqn:Hq; [|done|done].
      destruct (agree_item_sound w r K K1 p q i out s1 o2 (emitted w ws ++ rest) Hi HK Hq)
        as [-> Hread].
      simpl in Hns |- *. rewrite <- !app_assoc in Hns |- *.
      destruct Hread as (r1 & Hr1 & HK1).
      { intros Hst. by rewrite Hst in Hns. }
      rewrite Hr1 in Hns |- *. rewrite app_assoc. by eapply IH.
    + apply bind_Some in Ha as ([K1 ref1] & Hl & Ha).
      apply bind_Some in Ha as ([K2 more] & Ha & Hres). injection Hres as <- <-.
      apply Forall_app in Hrefs as [Href1 Hmore].
      destruct (agree_local_sound w r K K1 p ref1 (emitted w ws ++ rest) o2 Hl HK Href1)
        as (r1 & Hr1 & HK1).
      simpl in Hns |- *. rewrite Hr1 in Hns |- *. by eapply IH.
Qed.

End Soundness.
