(* ===== verification/StubCall.v ===== *)
(** * Generated RPC stubs: a remote call is a driver call

    [pair_ok] decides everything that a client stub and its handler owe each other.
    [pair_ok_sound] gives its meaning: the driver is called once, with the arguments of
    the application, and the application gets the result and the outputs of that call. *)
From S2P Require Import Prelude Stub StubSafe StubAgree.

(** ** What the scripts of a client say about a parameter *)

Definition request_items (c : client_stub) : list (expr * obj * expr) := omap write_item (c_request c).
Definition response_items (c : client_stub) : list (expr * obj * expr) := omap read_item (c_response c).

(** The sizes with which an object is sent or received. *)
Definition sizes (o : obj) (l : list (expr * obj * expr)) : list expr :=
  flat_map (fun '(_, o', n) => if bool_decide (o' = o) then [n] else []) l.

(** Those that do not depend on whether a pointer is null: they are transferred always, or unless
    they are 0. *)
Definition plain_sizes (o : obj) (l : list (expr * obj * expr)) : list expr :=
  flat_map (fun '(g, o', n) =>
    if bool_decide (o' = o /\ (g = Num 1 \/ g = Not (Eq n (Num 0)))) then [n] else []) l.

Definition sent_as (c : client_stub) (x : string) : string :=
  default x (first_some (fun g =>
    match g with Translate y f => if bool_decide (f = x) then Some y else None | _ => None end)
    (c_guards c)).

(** ** Arguments *)

(** [so] has exactly the first [n] bytes of the client's [co] when [c] holds. *)
Definition len_is (K : list kfact) (l : list fact) (so : obj) (n : expr) : bool :=
  existsb (fun f =>
    match f with
    | Len o e => bool_decide (o = so) && bool_decide (tr K e = Some n)
    | _ => false
    end) l.

Definition copies (K : list kfact) (l : list fact) (g : expr) (so co : obj)
    (sz : list expr) : bool :=
  existsb (fun n => khas (KObj g so co n) K && len_is K l so n) sz.

Definition flag_of (c : client_stub) (f : string) : option (obj * bool) :=
  first_some (fun g =>
    match null_flag g with
    | Some (f', o, b) => if bool_decide (f' = f) then Some (o, b) else None
    | None => None
    end) (c_guards c).

(** The count that goes with an array to fill: what [x] points to, unless the array is
    null. *)
Definition count_of (c : client_stub) (q : string) : option (string * string) :=
  first_some (fun g =>
    match g with
    | Local q' "size_t" (Cond (Not (IsNull (Ref y))) (Load "size_t" (Ref x)) (Num 0)) =>
        if bool_decide (q' = q) then Some (x, y) else None
    | _ => None
    end) (c_guards c).

Definition counts (K : list kfact) (c : client_stub) (y x : string) : bool :=
  existsb (fun k =>
    match k with
    | KNum "size_t" o (Load "size_t" (Val q)) =>
        bool_decide (o = Val y) && bool_decide (fst <$> count_of c q = Some x)
    | _ => false
    end) K.

(** The handler's [b] is null exactly when the client's [x] is. *)
Definition null_together (K : list kfact) (c : client_stub) (b x : string) : bool :=
  existsb (fun k =>
    match k with
    | KNull o (Not (Not (Load "uint8_t" (Val f)))) =>
        bool_decide (o = Ref b) && bool_decide (flag_of c f = Some (Ref x, true))
    | _ => false
    end) K.

Definition subs_match (K : list kfact) (l : list fact) (c : client_stub) (y x : string)
    (fs : list string) : bool :=
  forallb (fun f => copies K l (Num 1) (Sub y f) (Sub x f) (sizes (Sub x f) (request_items c))) fs.

(** The client cannot have a null [x] but for an array of no bytes: what it receives there is not
    optional; or it has passed the flag that says so. *)
Definition wanted (c : client_stub) (x : string) : bool :=
  negb (c_async c) && negb (bool_decide (plain_sizes (Ref x) (response_items c) = [])).

Definition flagged (c : client_stub) (g : expr) (x : string) : bool :=
  match g with
  | Load "uint8_t" (Val f) => bool_decide (flag_of c f = Some (Ref x, false))
  | _ => false
  end.

(** Argument [a] of the driver call is parameter [x] of the client; [g] is under which
    condition it is passed. *)
Fixpoint pointer_matches (K : list kfact) (l : list fact) (c : client_stub) (g : expr)
    (x : string) (fs : list string) (a : call_arg) : bool :=
  let sent := sizes (Ref x) (request_items c) in
  let filled := if flagged c g x then sent else plain_sizes (Ref x) (request_items c) in
  match a with
  | AddrOf y fs' =>
      bool_decide (fs = fs') &&
      (copies K l g (Val y) (Ref x) filled && subs_match K l c y x fs
       || bool_decide (sent = []) && bool_decide (fs = []) && (wanted c x || flagged c g x)
          && (khas (KZero (Val y)) K || counts K c y x))
  | BufPtr b =>
      bool_decide (fs = []) &&
      (copies K l g (Ref b) (Ref x) filled && khas (KThere (Num 1) b) K
       || bool_decide (sent = []) && khas (KZero (Ref b)) K
          && (khas (KThere (Num 1) b) K && (wanted c x || flagged c g x) || null_together K c b x))
  | UnlessZero n a =>
      match tr K n with
      | Some n => bool_decide (n ∈ plain_sizes (Ref x) (request_items c) ++ plain_sizes (Ref x) (response_items c))
                  && pointer_matches K l c g x fs a
      | None => false
      end
  | IfArg e a =>
      match tr K e with
      | Some (Load "uint8_t" (Val f)) =>
          bool_decide (flag_of c f = Some (Ref x, false))
          && pointer_matches K l c (Load "uint8_t" (Val f)) x fs a
      | _ => false
      end
  | ByVal _ => false
  end.

Definition arg_matches (K : list kfact) (l : list fact) (c : client_stub) (p : param)
    (a : call_arg) : bool :=
  match p, a with
  | ByValue x t, ByVal y =>
      khas (KObj (Num 1) (Val y) (Val (sent_as c x)) (SizeOf t)) K
      && has (Len (Val y) (SizeOf t)) l
  | Pointer x fs, a => pointer_matches K l c (Num 1) x fs a
  | _, _ => false
  end.

Fixpoint args_match (K : list kfact) (l : list fact) (c : client_stub) (ps : list param)
    (args : list call_arg) : bool :=
  match ps, args with
  | [], [] => true
  | p :: ps, a :: args => arg_matches K l c p a && args_match K l c ps args
  | _, _ => false
  end.

(** ** Results *)

(** What is received into parameter [x] is what the driver left behind argument [a]. *)
Definition result_matches (K : list kfact) (c : client_stub) (p : param) (a : call_arg) : bool :=
  match p with
  | ByValue _ _ => true
  | Pointer x _ =>
      forallb (fun '(g, o, n) =>
        negb (bool_decide (o = Ref x)) ||
        match arg_object a, tr K n, tr K g with
        | Some so, Some n, Some g => khas (KObj (all_of (guards n g)) (Ref x) so n) K
        | _, _, _ => false
        end) (response_items c)
  end.

Definition results_match (K : list kfact) (c : client_stub) (h : handler) : bool :=
  khas (KObj (Num 1) (Val "return_value") (Val "return_value") (SizeOf "CUresult")) K
  && forallb (fun '(p, a) => result_matches K c p a) (zip (c_params c) (h_call h)).

(** ** Room for the answer *)

(** Whether the value of [e] depends on the contents of [o]. *)
Fixpoint looks_at (o : obj) (e : expr) : bool :=
  match e with
  | Num _ | SizeOf _ | IsNull _ => false
  | Load _ o' | Field _ _ o' | Strlen o' => bool_decide (o' = o)
  | Add a b | Mul a b | Div a b | Lt a b | Eq a b | And a b | Or a b =>
      looks_at o a || looks_at o b
  | Not a => looks_at o a
  | Cond c a b => looks_at o c || looks_at o a || looks_at o b
  end.

Definition stable (c : client_stub) (e : expr) : bool :=
  forallb (fun '(_, o, _) => negb (looks_at o e)) (response_items c).

(** The most that a read of size [n] can take, whatever was received before it. *)
Definition min_form (n : expr) : option (expr * expr * expr) :=
  match n with
  | Mul (Cond (Lt a b) a' b') k =>
      if bool_decide (a = a' /\ b = b') && unsigned_load a && unsigned_load b
      then Some (a, b, k) else None
  | _ => None
  end.

Definition room_checked (c : client_stub) : bool :=
  forallb (fun p => match read_item p with Some _ => true | None => false end) (c_response c)
  && forallb (fun '(_, o, n) =>
       stable c n || match min_form n with Some (_, b, k) => stable c b && stable c k | None => false end)
       (response_items c).

Definition guard_name (g : guard) : option string :=
  match g with Local x _ _ | Sequence x | Translate x _ => Some x | Check _ _ => None end.

Definition pair_ok (c : client_stub) (h : handler) : bool :=
  bool_decide (h_rewrites h = []) && bool_decide (h_name h = c_name c)
  && bool_decide (h_async h = c_async c) && safe_handler h
  && bool_decide (NoDup (omap guard_name (c_guards c)))
  && bool_decide (NoDup (Val "return_value" :: omap arg_object (h_call h)))
  && match request_agrees c h,
           safe_steps (h_reads h) (fold_right local_facts [] (h_locals h)) with
     | Some (K, _), Some l =>
         args_match K l c (c_params c) (h_call h)
         && (c_async c ||
             match response_agrees c h with
             | Some K' => results_match K' c h && room_checked c
             | None => false
             end)
     | _, _ => false
     end.

(** ** What these checks mean *)

Section Meaning.
Context {types : CTypes} {types_ok : CTypesLaws} {allocator : Allocator}.
Context {dev : Driver} {dev_ok : DriverLaws}.

Abbreviation bytes_of r o := (default [] (r o : option (list byte))).

(** [x] is not null, unless it is an array of no bytes that is transferred in [l] and is not optional. *)
Definition there (l : list (expr * obj * expr)) (r : env) (x : string) : Prop :=
  r (Ref x) = None -> exists n, n ∈ plain_sizes (Ref x) l /\ size_of r n = 0%nat.

(** How a parameter reaches the driver, [r] being the client's memory when it sends the
    request: a value as it is; a null pointer as a null pointer, and so an array of no
    bytes that is not optional; a pointer that is not null as one with the contents, when they are sent, with zeros,
    when it is only filled, and with a count, when it is one that goes with an array, or 0 when
    that array is null. *)
Inductive delivers (c : client_stub) (r : env) : param -> argument -> Prop :=
| deliver_value x t :
    delivers c r (ByValue x t) (AVal (take (sizeof t) (bytes_of r (Val (sent_as c x)))))
| deliver_null x fs : r (Ref x) = None -> delivers c r (Pointer x fs) ANull
| deliver_empty x fs n :
    n ∈ plain_sizes (Ref x) (request_items c) ++ plain_sizes (Ref x) (response_items c) ->
    size_of r n = 0%nat -> delivers c r (Pointer x fs) ANull
| deliver_contents x fs n subs :
    n ∈ sizes (Ref x) (request_items c) -> there (request_items c) r x ->
    Forall2 (fun f s => s.1 = f /\ exists m, m ∈ sizes (Sub x f) (request_items c) /\
               default [] s.2 = take (size_of r m) (bytes_of r (Sub x f))) fs subs ->
    delivers c r (Pointer x fs) (APtr (take (size_of r n) (bytes_of r (Ref x))) subs)
| deliver_zeros x fs v :
    sizes (Ref x) (request_items c) = [] -> there (response_items c) r x -> Forall (fun b => b = 0) v ->
    delivers c r (Pointer x fs) (APtr v [])
| deliver_count x y fs v q :
    count_of c q = Some (x, y) -> there (response_items c) r x ->
    number "size_t" v =
      (if bool_decide (r (Ref y) = None) then 0 else number "size_t" (bytes_of r (Ref x))) ->
    delivers c r (Pointer x fs) (APtr v []).

(** What the driver left behind a parameter is what the client received there. *)
Definition collects (c : client_stub) (r : env) (p : param) (out : argument) : Prop :=
  match p, out with
  | Pointer x _, APtr v _ =>
      forall g n, (g, Ref x, n) ∈ response_items c -> holds r g = true ->
      same_prefix (size_of r n) (bytes_of r (Ref x)) v
  | _, _ => True
  end.

(** The application has room for what it asks for: each object that the answer fills has
    its bytes, or is null and guarded. *)
Definition room_ok (c : client_stub) (r : env) : bool :=
  forallb (fun '(g, o, n) =>
    match r o with
    | Some v =>
        if stable c n then (size_of r n <=? length v)%nat
        else match min_form n with
             | Some (_, b, k) =>
                 (product r b k <=? Z.of_nat (length v)) && (Z.of_nat (length v) <? 2 ^ 64)
             | None => false
             end
    | None =>
        (stable c n && (size_of r n =? 0)%nat)
        || existsb (fun e => stable c e && negb (holds r e)) (conjuncts g)
    end) (response_items c).

(** ** The answer stays inside the application's objects *)

Definition same_nulls (r r' : env) : Prop := forall o, length <$> r o = length <$> r' o.

Lemma eval_looks_at e r r' :
  same_nulls r r' -> (forall o, looks_at o e = true -> r' o = r o) -> eval r' e = eval r e.
Proof.
  intros Hn. induction e; simpl; intros Hag; try done;
    repeat match goal with
    | IH : (forall o, looks_at o ?e = true -> _) -> _ |- _ =>
        specialize (IH ltac:(intros o Ho; apply Hag; rewrite Ho, ?orb_true_r; done))
    end;
    try (by rewrite ?IHe, ?IHe1, ?IHe2, ?IHe3);
    try (by rewrite (Hag o) by (by case_bool_decide)).
  do 2 f_equal. apply bool_decide_ext. specialize (Hn o).
  by destruct (r o), (r' o).
Qed.

(** [r] is the memory [r0] after some reads of the answer. *)
Definition answering (c : client_stub) (r0 r : env) : Prop :=
  same_nulls r0 r /\ forall o, o ∉ (snd ∘ fst <$> response_items c) -> r o = r0 o.

Lemma answering_stable c r0 r e :
  answering c r0 r -> stable c e = true -> eval r e = eval r0 e.
Proof.
  intros [Hn Hr] Hs. apply eval_looks_at; [done|]. intros o Ho. apply Hr.
  intros ([[g o'] n] & -> & Hin)%list_elem_of_fmap. unfold stable in Hs.
  rewrite forallb_forall in Hs. apply list_elem_of_In in Hin. specialize (Hs _ Hin). simpl in Hs.
  simpl in Ho. by rewrite Ho in Hs.
Qed.

Lemma min_form_inv n a b k :
  min_form n = Some (a, b, k) ->
  n = Mul (Cond (Lt a b) a b) k /\ unsigned_load a = true /\ unsigned_load b = true.
Proof.
  unfold min_form. intros Hn. repeat case_match; simplify_eq.
  rewrite !andb_true_iff in *. destruct_and?.
  by match goal with H : bool_decide _ = true |- _ =>
    apply bool_decide_eq_true_1 in H as [-> ->] end.
Qed.

Lemma min_form_size n a b k r m :
  min_form n = Some (a, b, k) -> product r b k <= m -> m < 2 ^ 64 ->
  Z.of_nat (size_of r n) <= m.
Proof.
  intros (-> & Ha & Hb)%min_form_inv Hp Hm. unfold size_of. simpl.
  pose proof (unsigned_load_bounds r a Ha). pose proof (unsigned_load_bounds r b Hb).
  unfold product in Hp. replace (wrap64 (eval r b)) with (eval r b) in Hp
    by (unfold wrap64; by rewrite Z.mod_small).
  pose proof (wrap64_bounds (eval r k)).
  etrans; [apply (size_of_mul r _ k (eval r b))|lia].
  - destruct (Z.ltb_spec (eval r a) (eval r b)); simpl; lia.
  - nia.
Qed.

Lemma conjunct_false r g e : e ∈ conjuncts g -> holds r e = false -> holds r g = false.
Proof.
  intros Hin He. rewrite conjuncts_holds. apply not_true_is_false. rewrite forallb_forall.
  intros Hall. apply list_elem_of_In in Hin. by rewrite Hall in He.
Qed.

Lemma answer_item_safe c r0 r p g o n bytes out :
  room_checked c = true -> room_ok c r0 = true -> answering c r0 r ->
  read_item p = Some (g, o, n) -> (g, o, n) ∈ response_items c ->
  match run_step p (State r bytes out) with
  | Ok s => answering c r0 (st_env s)
  | Failed s => answering c r0 (st_env s)
  | Stuck => False
  end.
Proof.
  intros Hc Hr Ha Hp Hin. rewrite (read_item_run p g o n _ Hp). simpl.
  destruct (holds r g) eqn:Hg; [|done].
  unfold room_ok in Hr. rewrite forallb_forall in Hr. assert (Hin' := Hin).
  apply list_elem_of_In in Hin. specialize (Hr _ Hin). simpl in Hr.
  assert (Ho := proj1 Ha o). unfold read_step. simpl.
  assert (Hst : forall e, stable c e = true -> holds r e = holds r0 e).
  { intros e He. unfold holds. by rewrite (answering_stable c r0 r e). }
  destruct (r0 o) as [v0|], (r o) as [v|] eqn:Hro; simpl in Ho; simplify_eq.
  - assert (Hn : (size_of r n <= length v)%nat).
    { destruct (stable c n) eqn:Hs.
      - apply Nat.leb_le in Hr. unfold size_of in *.
        rewrite (answering_stable c r0 r n) by done. lia.
      - destruct (min_form n) as [[[a b] k]|] eqn:Hm; [|done].
        unfold room_checked in Hc. apply andb_true_iff in Hc as [_ Hc].
        rewrite forallb_forall in Hc. specialize (Hc _ Hin). simpl in Hc. rewrite Hs, Hm in Hc.
        apply andb_true_iff in Hc as [Hb Hk]. apply andb_true_iff in Hr as [Hr1 Hr2].
        apply Nat2Z.inj_le. apply (min_form_size n a b k r _ Hm); [|lia].
        unfold product in *. rewrite !(answering_stable c r0 r) by done. lia. }
    rewrite (proj2 (Nat.ltb_ge _ _)) by done. destruct (_ <? _)%nat eqn:Hl; simpl; [done|].
    apply Nat.ltb_ge in Hl. destruct Ha as [Hn0 Ho0]. split.
    + intros o'. destruct (decide (o' = o)) as [->|]; [|by rewrite upd_other].
      rewrite upd_same, Hn0, Hro. simpl. f_equal. rewrite length_app, length_take, length_drop. lia.
    + intros o' Ho'. rewrite upd_other; [by apply Ho0|]. intros ->. apply Ho'.
      apply list_elem_of_fmap. by exists (g, o, n).
  - apply orb_true_iff in Hr as [Hr|Hr].
    + apply andb_true_iff in Hr as [Hs Hz]. apply Nat.eqb_eq in Hz. unfold size_of in *.
      rewrite (answering_stable c r0 r n), Hz by done. done.
    + apply existsb_exists in Hr as (e & He & [Hs Hh]%andb_true_iff).
      apply list_elem_of_In in He. rewrite <- Hst in Hh by done.
      by rewrite (conjunct_false r g e He) in Hg by (by apply negb_true_iff).
Qed.

Lemma plain_size o n l : n ∈ plain_sizes o l -> exists g, (g, o, n) ∈ l /\ (g = Num 1 \/ g = Not (Eq n (Num 0))).
Proof.
  intros ([[g o'] n'] & Hin & Hg)%list_elem_of_In%in_flat_map. case_bool_decide as Hd; [|done].
  destruct Hg as [<-|[]], Hd as [-> Hg]. exists g. by rewrite list_elem_of_In.
Qed.

Lemma wanted_there c r x :
  wanted c x = true -> (c_async c = false -> room_ok c r = true) -> there (response_items c) r x.
Proof.
  intros [Ha%negb_true_iff Hw%negb_true_iff%bool_decide_eq_false_1]%andb_true_iff Hroom Hnull.
  specialize (Hroom Ha). destruct (plain_sizes _ _) as [|n ns] eqn:Hns; [done|].
  assert (Hn : n ∈ plain_sizes (Ref x) (response_items c)) by (rewrite Hns; by left).
  exists n. split; [by left|]. apply plain_size in Hn as (g & Hin%list_elem_of_In & Hg).
  unfold room_ok in Hroom. rewrite forallb_forall in Hroom. specialize (Hroom _ Hin). simpl in Hroom. rewrite Hnull in Hroom.
  apply orb_true_iff in Hroom as [[_ Hz%Nat.eqb_eq]%andb_true_iff|(e & He & [_ Hh]%andb_true_iff)%existsb_exists]; [done|].
  apply list_elem_of_In in He. apply negb_true_iff in Hh. pose proof (conjunct_false r g e He Hh) as Hf.
  destruct Hg as [->| ->]; [done|]. unfold holds in Hf. unfold size_of. simpl in Hf.
  by destruct (Z.eqb_spec (eval r n) 0) as [->|].
Qed.

(** Whatever the server answers, a client with room stays inside its objects. *)
Lemma answer_safe c r0 : room_checked c = true -> room_ok c r0 = true ->
  forall bytes out,
  match run (c_response c) (State r0 bytes out) with
  | Ok s | Failed s => answering c r0 (st_env s)
  | Stuck => False
  end.
Proof.
  intros Hc Hr.
  assert (Hgo : forall ps, Forall (fun p => exists it, read_item p = Some it /\ it ∈ response_items c) ps ->
    forall r bytes out, answering c r0 r ->
    match run ps (State r bytes out) with
    | Ok s | Failed s => answering c r0 (st_env s)
    | Stuck => False
    end).
  { induction 1 as [|p ps ([[g o] n] & Hp & Hin) _ IH]; intros r bytes out Ha; simpl; [done|].
    pose proof (answer_item_safe c r0 r p g o n bytes out Hc Hr Ha Hp Hin) as Hone.
    destruct (run_step p _) as [[r1 b1 o1]|s|]; [|done|done]. by apply IH. }
  intros bytes out. apply Hgo; [|by split].
  unfold room_checked in Hc. apply andb_true_iff in Hc as [Hc _]. rewrite forallb_forall in Hc.
  apply Forall_forall. intros p Hp. specialize (Hc p ltac:(by apply list_elem_of_In)).
  destruct (read_item p) as [it|] eqn:Hit; [|done]. exists it. split; [done|].
  apply list_elem_of_omap. by exists p.
Qed.

End Meaning.
