(* ===== verification/StubRefine.v ===== *)
(** * Generated RPC stubs: [pair_ok] is sound

    A client stub and a handler that pass [pair_ok] carry out one driver call: the server
    calls the driver once, with the arguments of the application, and the application
    gets the result and the outputs of that call, nothing else of its memory being
    changed ([pair_ok_sound]). *)
From S2P Require Import Prelude Stub StubSafe StubAgree StubCall.

Section Refinement.
Context {types : CTypes} {types_ok : CTypesLaws} {allocator : Allocator}.
Context {dev : Driver} {dev_ok : DriverLaws}.

Abbreviation bytes_of r o := (default [] (r o : option (list byte))).
Abbreviation kfacts_ok w r := (Forall (kfact_ok w r)).
Abbreviation facts_ok r := (Forall (fact_ok r)).

(** ** The locals of a client *)

Lemma run_guards_frame gs : forall r r1 o,
  run_guards gs r = inr r1 -> (forall x, o = Val x -> x ∉ omap guard_name gs) -> r1 o = r o.
Proof.
  induction gs as [|[x t e|x|x f|e code] gs IH]; simpl; intros r r1 o Hr Ho.
  - by injection Hr as <-.
  - rewrite (IH _ _ _ Hr) by (intros y ->; specialize (Ho y eq_refl); set_solver).
    apply upd_other. intros ->. specialize (Ho x eq_refl). set_solver.
  - rewrite (IH _ _ _ Hr) by (intros y ->; specialize (Ho y eq_refl); set_solver).
    apply upd_other. intros ->. specialize (Ho x eq_refl). set_solver.
  - rewrite (IH _ _ _ Hr) by (intros y ->; specialize (Ho y eq_refl); set_solver).
    apply upd_other. intros ->. specialize (Ho x eq_refl). set_solver.
  - destruct (holds r e); [done|]. by apply IH.
Qed.

Lemma guard_named q t e (gs : list guard) : Local q t e ∈ gs -> q ∈ omap guard_name gs.
Proof. intros Hin. apply list_elem_of_omap. by exists (Local q t e). Qed.

(** A local keeps the value it is initialized with. *)
Lemma run_guards_local gs : forall r r1 q t e,
  NoDup (omap guard_name gs) -> run_guards gs r = inr r1 -> Local q t e ∈ gs ->
  (forall x, mentions (Val x) e = false) ->
  r1 (Val q) = Some (le_bytes (sizeof t) (eval r1 e)).
Proof.
  induction gs as [|g gs IH]; intros r r1 q t e Hnd Hr Hin He; [by apply not_elem_of_nil in Hin|].
  destruct (decide (g = Local q t e)) as [->|Hne].
  - simpl in Hnd, Hr. apply NoDup_cons in Hnd as [Hq _].
    rewrite (run_guards_frame _ _ _ _ Hr) by (by intros ? [= <-]).
    rewrite upd_same. do 2 f_equal. apply eval_agree.
    intros [x|x|x f] Hm; [by rewrite He in Hm| |];
      rewrite (run_guards_frame _ _ _ _ Hr) by done; symmetry; by apply upd_other.
  - assert (Hin' : Local q t e ∈ gs) by set_solver. clear Hin Hne.
    destruct g as [x t' e'|x|x f|e' code]; simpl in Hnd, Hr.
    + apply NoDup_cons in Hnd as [_ Hnd]. by eapply IH.
    + apply NoDup_cons in Hnd as [_ Hnd]. by eapply IH.
    + apply NoDup_cons in Hnd as [_ Hnd]. by eapply IH.
    + destruct (holds r e'); [done|]. by eapply IH.
Qed.

(** ** What the locals tell *)

Section Client.
Context (c : client_stub) (r r1 : env).
Hypothesis named_once : NoDup (omap guard_name (c_guards c)).
Hypothesis guarded : run_guards (c_guards c) r = inr r1.

Definition is_null (o : obj) : bool := bool_decide (r1 o = None).

Lemma number_flag b : number "uint8_t" (le_bytes (sizeof "uint8_t") (bool_num b)) = bool_num b.
Proof.
  unfold number. rewrite unsigned_types_ok by set_solver.
  rewrite take_ge by (by rewrite length_le_bytes). rewrite sizeof_flag. by destruct b.
Qed.

Lemma null_flag_ok g f o b :
  g ∈ c_guards c -> null_flag g = Some (f, o, b) ->
  number "uint8_t" (bytes_of r1 (Val f)) = bool_num (if b then is_null o else negb (is_null o)).
Proof.
  unfold is_null. intros Hin Hg. unfold null_flag in Hg.
  repeat case_match; simplify_eq;
    rewrite (run_guards_local _ _ _ _ _ _ named_once guarded Hin) by done; simpl;
    case_bool_decide; apply (number_flag true) || apply (number_flag false).
Qed.

Lemma flag_of_ok f o b :
  flag_of c f = Some (o, b) ->
  number "uint8_t" (bytes_of r1 (Val f)) = bool_num (if b then is_null o else negb (is_null o)).
Proof.
  intros (g & Hin & Hg)%first_some_in.
  destruct (null_flag g) as [[[f' o'] b']|] eqn:Hn; [|done].
  case_bool_decide; [|done]. simplify_eq. by apply (null_flag_ok g).
Qed.

Lemma count_of_inv q x y :
  count_of c q = Some (x, y) ->
  Local q "size_t" (Cond (Not (IsNull (Ref y))) (Load "size_t" (Ref x)) (Num 0)) ∈ c_guards c.
Proof.
  intros (g & Hin & Hg)%first_some_in. repeat case_match; simplify_eq.
  match goal with H : bool_decide (_ = q) = true |- _ => by apply bool_decide_eq_true_1 in H as <- end.
Qed.

Lemma count_of_ok q x y :
  count_of c q = Some (x, y) ->
  number "size_t" (bytes_of r1 (Val q)) =
    if is_null (Ref y) then 0 else number "size_t" (bytes_of r1 (Ref x)).
Proof.
  unfold is_null. intros Hin%count_of_inv.
  rewrite (run_guards_local _ _ _ _ _ _ named_once guarded Hin) by done. simpl.
  set (z := if _ =? 0 then 0 else number _ _).
  assert (Hz : 0 <= z < 2 ^ 64).
  { subst z. case_match; [lia|]. apply (unsigned_load_bounds r1 (Load "size_t" (Ref x))).
    simpl. by case_bool_decide; [|set_solver]. }
  unfold number at 1. rewrite unsigned_types_ok by set_solver.
  rewrite take_ge by (by rewrite length_le_bytes). rewrite sizeof_size, le_val_bytes8 by done.
  unfold wrap64. rewrite Z.mod_small by done. subst z. by case_bool_decide.
Qed.

(** ** Arguments *)

Section Arguments.
Context (K : list kfact) (l : list fact) (rs : env).
Hypothesis known : kfacts_ok r1 rs K.
Hypothesis lengths : facts_ok rs l.
Hypothesis room : c_async c = false -> room_ok c r1 = true.

Lemma flagged_there g x : holds r1 g = true -> flagged c g x = true -> r1 (Ref x) <> None.
Proof.
  intros Hg Hf Hnull. unfold flagged in Hf. repeat (case_match; try done); subst.
  apply bool_decide_eq_true_1, flag_of_ok in Hf.
  unfold holds in Hg. simpl in Hg. rewrite Hf in Hg. unfold is_null in Hg. by rewrite Hnull in Hg.
Qed.

Lemma passed_there g x :
  holds r1 g = true -> wanted c x || flagged c g x = true -> there (response_items c) r1 x.
Proof.
  intros Hg [Hw|Hf]%orb_true_iff; [by apply wanted_there|]. intros Hnull. by destruct (flagged_there g x).
Qed.

Lemma plain_sizes_in o n its : n ∈ plain_sizes o its -> n ∈ sizes o its.
Proof.
  intros (g & Hin%list_elem_of_In & _)%plain_size. apply list_elem_of_In, in_flat_map.
  exists (g, o, n). split; [done|]. rewrite bool_decide_eq_true_2 by done. by left.
Qed.

(** What is sent behind a pointer is there. *)
Lemma filled_there g x n :
  holds r1 g = true ->
  n ∈ (if flagged c g x then sizes (Ref x) (request_items c) else plain_sizes (Ref x) (request_items c)) ->
  (size_of r1 n <= length (bytes_of r1 (Ref x)))%nat ->
  n ∈ sizes (Ref x) (request_items c) /\ there (request_items c) r1 x.
Proof.
  intros Hg Hn Hlen. destruct (flagged c g x) eqn:Hf.
  - split; [done|]. intros Hnull. by destruct (flagged_there g x).
  - split; [by apply plain_sizes_in|]. intros Hnull. exists n. split; [done|]. rewrite Hnull in Hlen. simpl in Hlen. lia.
Qed.

Lemma known_fact k : khas k K = true -> kfact_ok r1 rs k.
Proof. intros Hk%khas_in. rewrite Forall_forall in known. by apply known. Qed.

Lemma copies_ok g so co sz :
  copies K l g so co sz = true -> holds r1 g = true ->
  exists n, n ∈ sz /\ (size_of r1 n <= length (bytes_of r1 co))%nat /\
    bytes_of rs so = take (size_of r1 n) (bytes_of r1 co).
Proof.
  intros (n & Hn%list_elem_of_In & [Hk Hl]%andb_true_iff)%existsb_exists Hg.
  exists n. split; [done|]. apply existsb_exists in Hl as (f & Hf%list_elem_of_In & Hl).
  destruct f as [o e| | | |]; try done. apply andb_true_iff in Hl as [Ho He].
  apply bool_decide_eq_true_1 in Ho as ->, He.
  destruct (known_fact _ Hk Hg) as (_ & Hlen & <-). split; [done|]. rewrite Forall_forall in lengths.
  specialize (lengths _ Hf). simpl in lengths. rewrite (tr_size _ _ _ _ _ known He) in lengths.
  rewrite take_ge; [done|]. by destruct (rs so); simpl in *; lia.
Qed.

Lemma counts_ok y x :
  counts K c y x = true -> exists q z, count_of c q = Some (x, z) /\
    number "size_t" (bytes_of rs (Val y)) =
      if is_null (Ref z) then 0 else number "size_t" (bytes_of r1 (Ref x)).
Proof.
  intros (k & Hk%list_elem_of_In & Hc)%existsb_exists. rewrite Forall_forall in known.
  specialize (known _ Hk). repeat case_match; try done. subst.
  apply andb_true_iff in Hc as [->%bool_decide_eq_true_1 Hc%bool_decide_eq_true_1].
  apply fmap_Some in Hc as ([x' z] & Hc & ->). eexists _, z. split; [done|].
  simpl in *. rewrite known. by apply count_of_ok.
Qed.

Lemma null_together_ok b x :
  null_together K c b x = true -> rs (Ref b) = None <-> r1 (Ref x) = None.
Proof.
  intros (k & Hk%list_elem_of_In & Hc)%existsb_exists. rewrite Forall_forall in known.
  specialize (known _ Hk). repeat case_match; try done. subst.
  apply andb_true_iff in Hc as [->%bool_decide_eq_true_1 Hc%bool_decide_eq_true_1].
  simpl in known. rewrite known. unfold holds. simpl. rewrite (flag_of_ok _ _ _ Hc).
  unfold is_null. by case_bool_decide.
Qed.

Lemma subs_match_ok y x fs :
  subs_match K l c y x fs = true ->
  Forall2 (fun f s => s.1 = f /\ exists m, m ∈ sizes (Sub x f) (request_items c) /\
    default [] s.2 = take (size_of r1 m) (bytes_of r1 (Sub x f)))
    fs ((fun f => (f, rs (Sub y f))) <$> fs).
Proof.
  unfold subs_match. rewrite forallb_forall. intros Hs. apply Forall2_fmap_r, Forall_Forall2_diag.
  apply Forall_forall. intros f Hf. split; [done|].
  specialize (Hs f ltac:(by apply list_elem_of_In)).
  apply copies_ok in Hs as (m & ? & _ & ?); [by exists m|done].
Qed.

Lemma pointer_matches_ok x fs a : forall g,
  holds r1 g = true -> pointer_matches K l c g x fs a = true ->
  delivers c r1 (Pointer x fs) (arg_value rs a).
Proof.
  induction a as [y|y fs'|b|n a IH|e a IH]; intros g Hg Hm; simpl in Hm; [done|..].
  - apply andb_true_iff in Hm as [<-%bool_decide_eq_true_1 [Hm|Hm]%orb_true_iff].
    + apply andb_true_iff in Hm as [(n & Hn & Hsz & Hv)%copies_ok Hs]; [|done].
      destruct (filled_there g x n Hg Hn Hsz).
      simpl. rewrite Hv. apply deliver_contents; [done..|]. by apply subs_match_ok.
    + rewrite !andb_true_iff, (orb_true_iff (khas _ _)) in Hm.
      destruct Hm as [[[Hsent%bool_decide_eq_true_1 ->%bool_decide_eq_true_1] Hth] [Hz|Hc]]; simpl;
        apply (passed_there g x Hg) in Hth.
      * apply deliver_zeros; [done..|]. by apply known_fact in Hz.
      * apply counts_ok in Hc as (q & z & Hq & Hv). by apply (deliver_count _ _ _ z _ _ q).
  - apply andb_true_iff in Hm as [->%bool_decide_eq_true_1 [Hm|Hm]%orb_true_iff].
    + apply andb_true_iff in Hm as [(n & Hn & Hsz & Hv)%copies_ok Ht%known_fact]; [|done].
      destruct (filled_there g x n Hg Hn Hsz).
      simpl in *. destruct (rs (Ref b)) as [v|]; [|by destruct (Ht eq_refl)].
      simpl in Hv. rewrite Hv. by apply deliver_contents.
    + apply andb_true_iff in Hm as [[Hsent%bool_decide_eq_true_1 Hz%known_fact]%andb_true_iff Hm]. simpl in *.
      destruct (rs (Ref b)) as [v|] eqn:Hb.
      * apply deliver_zeros; [done| |done]. apply orb_true_iff in Hm as [Hm|Hn%null_together_ok].
        -- apply andb_true_iff in Hm as [_ Hth]. by apply (passed_there g).
        -- intros Hnull%Hn. congruence.
      * apply deliver_null. apply orb_true_iff in Hm as [[Ht%known_fact _]%andb_true_iff|Hn]; [by destruct (Ht eq_refl)|].
        by apply (null_together_ok b).
  - destruct (tr K n) as [n'|] eqn:Hn; [|done].
    apply andb_true_iff in Hm as [Hin%bool_decide_eq_true_1 Hm]. simpl.
    rewrite (tr_holds _ _ _ _ _ known Hn). destruct (holds r1 n') eqn:Hh; [by apply (IH g)|].
    apply (deliver_empty _ _ _ _ n'); [done|]. unfold holds in Hh. unfold size_of.
    destruct (Z.eqb_spec (eval r1 n') 0) as [->|]; done.
  - destruct (tr K e) as [e'|] eqn:He; [|done].
    repeat (case_match; try done); subst.
    apply andb_true_iff in Hm as [Hf%bool_decide_eq_true_1 Hm]. simpl.
    rewrite (tr_holds _ _ _ _ _ known He).
    destruct (holds r1 (Load _ _)) eqn:Hh; [by eapply IH|].
    apply deliver_null. unfold holds in Hh. simpl in Hh. rewrite (flag_of_ok _ _ _ Hf) in Hh.
    unfold is_null in Hh. by case_bool_decide.
Qed.

Lemma args_match_ok ps args :
  args_match K l c ps args = true -> Forall2 (delivers c r1) ps (arg_value rs <$> args).
Proof.
  revert args. induction ps as [|p ps IH]; intros [|a args] Hm; simpl in *; try done.
  apply andb_true_iff in Hm as [Ha Hm]. constructor; [|by apply IH]. clear IH Hm.
  destruct p as [x t|x fs]; simpl in Ha; [|by apply (pointer_matches_ok x fs a (Num 1))].
  destruct a as [y| | | |]; try done. apply andb_true_iff in Ha as [Hk Hl%has_in]. simpl.
  destruct (known_fact _ Hk (holds_one _)) as (_ & _ & Hv). rewrite size_of_sizeof in Hv.
  replace (bytes_of rs (Val y)) with (take (sizeof t) (bytes_of rs (Val y)));
    [rewrite Hv; constructor|].
  apply take_ge. rewrite Forall_forall in lengths. specialize (lengths _ Hl). simpl in lengths.
  rewrite size_of_sizeof in lengths. destruct (rs (Val y)); simpl in *; lia.
Qed.

End Arguments.

(** ** After the driver call *)

Section Results.
Context (h : handler) (rs : env).

Lemma store_arg_other r0 a out o : forall ra,
  arg_object a <> Some o -> (forall x f, o <> Sub x f) -> store_arg r0 a out ra o = ra o.
Proof.
  induction a as [x|x fs|b|n a IH|e a IH]; simpl; intros ra Ho Hsub; destruct out; try done;
    try (case_match; [by apply IH|done]).
  - rewrite store_subs_differs by done. apply upd_other. congruence.
  - apply upd_other. congruence.
Qed.

Lemma store_args_other r0 args o : forall outs ra,
  o ∉ omap arg_object args -> (forall x f, o <> Sub x f) -> store_args r0 args outs ra o = ra o.
Proof.
  induction args as [|a args IH]; intros [|out outs] ra Ho Hsub; simpl in *; try done.
  rewrite IH; [|by destruct (arg_object a); set_solver|done].
  apply store_arg_other; [|done]. intros Ha. rewrite Ha in Ho. set_solver.
Qed.

Lemma store_arg_here r0 a v subs o : forall ra,
  same_shape (arg_value r0 a) (APtr v subs) -> arg_object a = Some o ->
  store_arg r0 a (APtr v subs) ra o = Some v.
Proof.
  induction a as [x|x fs|b|n a IH|e a IH]; simpl; intros ra Hs Ho; simplify_eq;
    try (case_match; [by apply IH|by inversion Hs]).
  - rewrite store_subs_differs by done. apply upd_same.
  - apply upd_same.
Qed.

(** What the driver leaves behind an argument is in the object of the argument. *)
Lemma store_args_here r0 args : forall outs ra i a v subs o,
  NoDup (omap arg_object args) -> Forall2 same_shape (arg_value r0 <$> args) outs ->
  args !! i = Some a -> outs !! i = Some (APtr v subs) -> arg_object a = Some o ->
  (forall x f, o <> Sub x f) -> store_args r0 args outs ra o = Some v.
Proof.
  induction args as [|a0 args IH]; intros [|out outs] ra i a v subs o Hnd Hs Ha Hout Ho Hsub;
    simpl in *; try done.
  inversion_clear Hs as [|? ? ? ? Hs0 Hs1]. destruct i as [|i]; simpl in *; simplify_eq.
  - rewrite Ho in Hnd. apply NoDup_cons in Hnd as [Hnin _].
    rewrite store_args_other by done. by apply store_arg_here.
  - eapply IH; try done. by destruct (arg_object a0); [apply NoDup_cons in Hnd as [_ ?]|].
Qed.

Lemma arg_object_sub a x f : arg_object a <> Some (Sub x f).
Proof. by induction a. Qed.

Lemma untouched_ok o : untouched h o = true -> called_env h rs o = rs o.
Proof.
  unfold untouched, called_env. intros [Hv Ho]%andb_true_iff.
  destruct o as [x| |]; try done. apply negb_true_iff, String.eqb_neq in Hv.
  destruct (driver _ _) as [status outs]. rewrite upd_other by congruence.
  apply store_args_other; [|done]. intros (a & Ha & Hx)%list_elem_of_omap.
  rewrite forallb_forall in Ho. specialize (Ho a ltac:(by apply list_elem_of_In)).
  by rewrite bool_decide_eq_true_2 in Ho.
Qed.

Context (K : list kfact).
Hypothesis known : kfacts_ok r1 rs K.

Lemma sent_flag_ok f y :
  sent_flag h K f = Some y ->
  number "uint8_t" (bytes_of (called_env h rs) (Val y)) = number "uint8_t" (bytes_of r1 (Val f)).
Proof.
  intros (k & Hk & Hy)%first_some_in. pose proof (proj1 (Forall_forall _ _) known _ Hk) as Hkn.
  repeat (case_match; try done); simplify_eq.
  match goal with H : bool_decide _ && untouched _ _ = true |- _ => apply andb_true_iff in H as [Hb Hu] end.
  apply bool_decide_eq_true_1 in Hb as <-. rewrite untouched_ok by done. apply same_prefix_number. simpl in Hkn. rewrite size_of_sizeof in Hkn.
  by apply Hkn.
Qed.

(** The handler's memory after the call, seen from the client. *)
Lemma return_kfacts_ok : kfacts_ok (called_env h rs) r1 (return_kfacts c h K).
Proof.
  unfold return_kfacts. apply Forall_app. split; apply Forall_forall; intros k Hk;
    apply list_elem_of_In, in_flat_map in Hk as (k0 & Hin%list_elem_of_In & Hk).
  - pose proof (proj1 (Forall_forall _ _) known _ Hin) as Hkn.
    repeat (case_match; try done); subst. destruct Hk as [<-|[]].
    match goal with H : untouched _ _ && _ = true |- _ => apply andb_true_iff in H as [Hu _] end.
    intros _. rewrite untouched_ok, size_of_sizeof by done. apply same_prefix_sym.
    simpl in Hkn. rewrite size_of_sizeof in Hkn. by apply Hkn.
  - destruct (null_flag k0) as [[[f o] b]|] eqn:Hf; [|done].
    destruct (sent_flag h K f) as [y|] eqn:Hy; [|done]. destruct Hk as [<-|[]].
    apply sent_flag_ok in Hy. rewrite (null_flag_ok _ _ _ _ Hin Hf) in Hy.
    unfold is_null in Hy. simpl. unfold holds.
    destruct b; simpl; rewrite Hy; by case_bool_decide.
Qed.

(** ** The answer *)

Hypothesis objects_once : NoDup (Val "return_value" :: omap arg_object (h_call h)).

(** What is received for a parameter is what the driver left behind its argument. *)
Lemma result_matches_ok K' r' p a i out outs status :
  driver (h_name h) (arg_value rs <$> h_call h) = (status, outs) ->
  kfacts_ok (called_env h rs) r' K' -> result_matches K' c p a = true ->
  h_call h !! i = Some a -> outs !! i = Some out -> collects c r' p out.
Proof.
  intros Hd HK Hm Ha Hout. destruct p as [|x fs]; [done|]. destruct out as [| |v subs]; try done.
  intros g n Hin Hg. simpl in Hm. rewrite forallb_forall in Hm.
  specialize (Hm _ (proj1 (list_elem_of_In _ _) Hin)). simpl in Hm.
  rewrite bool_decide_eq_true_2 in Hm by done. simpl in Hm.
  destruct (arg_object a) as [so|] eqn:Hso; [|done].
  destruct (tr K' n) as [n'|] eqn:Hn; [|done]. destruct (tr K' g) as [g'|] eqn:Hg'; [|done].
  rewrite (tr_size _ _ _ _ _ HK Hn). rewrite (tr_holds _ _ _ _ _ HK Hg') in Hg.
  destruct (decide (size_of (called_env h rs) n' = 0%nat)) as [->|Hz];
    [apply same_prefix_zero|].
  apply khas_in in Hm. rewrite Forall_forall in HK. specialize (HK _ Hm). simpl in HK.
  rewrite all_of_holds, <- guards_ok in HK by done. specialize (HK Hg).
  assert (Hv : called_env h rs so = Some v); [|by rewrite Hv in HK].
  apply NoDup_cons in objects_once as [Hrv Hnd]. unfold called_env. rewrite Hd.
  rewrite upd_other.
  - eapply store_args_here; try done; [|by intros x' f ->; eapply arg_object_sub].
    pose proof (driver_shape (h_name h) (arg_value rs <$> h_call h)) as Hsh. by rewrite Hd in Hsh.
  - intros ->. apply Hrv. apply list_elem_of_omap. exists a.
    split; [by eapply list_elem_of_lookup_2|done].
Qed.

Lemma results_match_ok K' r' status outs :
  driver (h_name h) (arg_value rs <$> h_call h) = (status, outs) ->
  kfacts_ok (called_env h rs) r' K' -> results_match K' c h = true ->
  length (c_params c) = length (h_call h) ->
  return_value r' = number "CUresult" status /\ Forall2 (collects c r') (c_params c) outs.
Proof.
  intros Hd HK [Hret Hall]%andb_true_iff Hlen. split.
  - apply khas_in in Hret. rewrite Forall_forall in HK. specialize (HK _ Hret). simpl in HK.
    rewrite size_of_sizeof in HK. unfold return_value. simpl.
    rewrite (same_prefix_number _ _ _ (HK eq_refl)). unfold called_env. by rewrite Hd, upd_same.
  - pose proof (driver_shape (h_name h) (arg_value rs <$> h_call h)) as Hsh. rewrite Hd in Hsh.
    apply Forall2_length in Hsh. simpl in Hsh. rewrite length_fmap in Hsh.
    apply Forall2_same_length_lookup_2; [lia|]. intros i p out Hp Hout.
    destruct (lookup_lt_is_Some_2 (h_call h) i) as [a Ha];
      [apply lookup_lt_Some in Hp; lia|].
    eapply result_matches_ok; try done. rewrite forallb_forall in Hall.
    apply (Hall (p, a)), list_elem_of_In, (list_elem_of_lookup_2 _ i).
    by rewrite lookup_zip_with, Hp, Ha.
Qed.

End Results.

End Client.

(** ** Scripts of writes, and input that is left *)

Lemma agree_writes rs : forall K ws K' refs,
  agree K rs ws = Some (K', refs) -> Forall (fun q => is_Some (write_item q)) ws.
Proof.
  induction rs as [|p rs IH]; intros K ws K' refs Ha; simpl in Ha; [by destruct ws|].
  destruct (read_item p).
  - destruct ws as [|q ws]; [done|]. apply bind_Some in Ha as (K1 & Hi & Ha).
    constructor; [|by eapply IH]. unfold agree_item in Hi.
    apply bind_Some in Hi as ([[? ?] ?] & _ & Hi). by apply bind_Some in Hi as (? & -> & _).
  - apply bind_Some in Ha as ([K1 ?] & _ & Ha). apply bind_Some in Ha as ([K2 ?] & Ha & _).
    by eapply IH.
Qed.

Lemma run_writes ws : forall s,
  Forall (fun q => is_Some (write_item q)) ws -> run ws s <> Stuck -> exists s', run ws s = Ok s'.
Proof.
  induction ws as [|q ws IH]; intros s Hall Hns; simpl in *; [eauto|].
  apply Forall_cons in Hall as [[it Hq] Hall].
  assert (Hone : forall s', run_step q s <> Failed s').
  { intros s'. destruct q as [| |? q| | | | | |]; try done; [|destruct q; try done]; simpl;
      unfold write_step; repeat case_match; done. }
  destruct (run_step q s) as [s1|s1|]; [by apply IH|by destruct (Hone s1)|done].
Qed.

Lemma read_step_more o n r i out r' i' out' rest :
  read_step o n (State r i out) = Ok (State r' i' out') ->
  read_step o n (State r (i ++ rest) out) = Ok (State r' (i' ++ rest) out').
Proof.
  unfold read_step. simpl. destruct (r o) as [v|]; [|case_match; [|done]; by intros [= <- <- <-]].
  case_match; [done|]. destruct (length i <? n)%nat eqn:Hl; [done|].
  apply Nat.ltb_ge in Hl. intros [= <- <- <-].
  rewrite (proj2 (Nat.ltb_ge _ _)) by (rewrite length_app; lia).
  by rewrite take_app_le, drop_app_le.
Qed.

Lemma run_step_more p : forall r i out r' i' out' rest,
  run_step p (State r i out) = Ok (State r' i' out') ->
  run_step p (State r (i ++ rest) out) = Ok (State r' (i' ++ rest) out').
Proof.
  induction p as [o n|o n|e p IH|e|x t e|b n z|b n k|b n|x f b]; simpl;
    intros r i out r' i' out' rest Hr; try (by simplify_eq).
  - unfold write_step in *. simpl in *. repeat case_match; by simplify_eq.
  - by apply read_step_more.
  - destruct (holds r e); [by apply IH|by simplify_eq].
  - destruct (holds r e); [done|by simplify_eq].
  - destruct (has_memory _); by simplify_eq.
Qed.

(** A script that succeeds does not look at what comes after its input. *)
Lemma run_more ps : forall r i out r' i' out' rest,
  run ps (State r i out) = Ok (State r' i' out') ->
  run ps (State r (i ++ rest) out) = Ok (State r' (i' ++ rest) out').
Proof.
  induction ps as [|p ps IH]; simpl; intros r i out r' i' out' rest Hr; [by simplify_eq|].
  destruct (run_step p _) as [[r2 i2 o2]|s|] eqn:Hp; [|done|done].
  rewrite (run_step_more _ _ _ _ _ _ _ rest Hp). by apply IH.
Qed.

Lemma serve_more h bytes k reply left rest :
  serve h bytes = Served k reply left -> serve h (bytes ++ rest) = Served k reply (left ++ rest).
Proof.
  unfold serve. destruct (run (h_reads h) _) as [[r i o]|s|] eqn:Hr; [|done|done].
  rewrite (run_more _ _ _ _ _ _ _ rest Hr). simpl.
  destruct (h_async h); [by intros [= <- <- <-]|].
  destruct (run (h_reply h) _) as [[r' i' o']|s|] eqn:Hs; [|done|done].
  rewrite (run_more _ _ _ _ _ _ _ rest Hs). simpl. by intros [= <- <- <-].
Qed.

(** ** A client and its handler *)

Lemma start_kfacts_ok w h : kfacts_ok w (start_env (h_locals h)) (start_kfacts h).
Proof.
  unfold start_kfacts, start_env. induction (h_locals h) as [|x xs IH]; simpl; [done|].
  destruct x; simpl; repeat constructor; try (by apply kdrop_upd); simpl; rewrite ?upd_same;
    try done; simpl; by apply Forall_replicate.
Qed.

(** The server has the memory it asks for, and the handler has no reason to give the
    request up. *)
Hypothesis plenty : forall n, has_memory n = true.

Definition accepted (c : client_stub) (h : handler) (r1 : env) : Prop :=
  match request_agrees c h with
  | Some (_, refs) => Forall (refusal_ok r1) refs
  | None => False
  end.

(** The same, computed. *)
Definition accepted_here (c : client_stub) (h : handler) (r1 : env) : bool :=
  match request_agrees c h with
  | Some (_, refs) =>
      forallb (fun x => match x with
                        | Refuse e => negb (holds r1 e)
                        | TooBig e n k => negb (holds r1 e) || (product r1 n k <? 2 ^ 64)
                        end) refs
  | None => false
  end.

Lemma accepted_here_ok c h r1 : accepted_here c h r1 = true -> accepted c h r1.
Proof.
  unfold accepted_here, accepted. destruct (request_agrees c h) as [[_ refs]|]; [|done].
  rewrite forallb_forall. intros Hall. apply Forall_forall. intros x Hx.
  specialize (Hall x (proj1 (list_elem_of_In _ _) Hx)).
  destruct x as [e|e n k]; simpl; [by apply negb_true_iff|]. intros Hh. rewrite Hh in Hall.
  by apply Z.ltb_lt.
Qed.

(** The handler takes the request off the lane and knows the client's memory by it. *)
Lemma request_arrives c h r1 s K refs l :
  request_agrees c h = Some (K, refs) ->
  safe_steps (h_reads h) (fold_right local_facts [] (h_locals h)) = Some l ->
  Forall (refusal_ok r1) refs -> marshal c r1 = Ok s ->
  exists rs, run (h_reads h) (State (start_env (h_locals h)) (st_out s) []) = Ok (State rs [] []) /\
    kfacts_ok r1 rs K /\ facts_ok rs l.
Proof.
  intros Hreq Hl Hrefs Hm.
  pose proof (fun i => safe_steps_ok _ _ _ (State (start_env (h_locals h)) i []) Hl
                (local_facts_ok _)) as Hsafe.
  destruct (agree_sound plenty r1 (h_reads h) (start_kfacts h) K (c_request c) refs
              (start_env (h_locals h)) [] [] s [] []) as [-> (rs & Hrun & HK)]; try done.
  { apply start_kfacts_ok. }
  { specialize (Hsafe (emitted r1 (c_request c) ++ [])). by intros Hst; rewrite Hst in Hsafe. }
  simpl. rewrite app_nil_r in Hrun. exists rs. split_and!; [done..|].
  specialize (Hsafe (emitted r1 (c_request c))). by rewrite Hrun in Hsafe.
Qed.

(** The answer of a handler and its way into the client's memory. *)
Lemma answer_arrives c h r r1 rs K :
  NoDup (omap guard_name (c_guards c)) -> run_guards (c_guards c) r = inr r1 ->
  kfacts_ok r1 rs K -> room_checked c = true -> room_ok c r1 = true ->
  (exists refs, request_agrees c h = Some (K, refs)) ->
  run (h_reply h) (State (called_env h rs) [] []) <> Stuck ->
  forall K', response_agrees c h = Some K' ->
  exists s r', run (h_reply h) (State (called_env h rs) [] []) = Ok s /\ st_in s = [] /\
    run (c_response c) (State r1 (st_out s) []) = Ok (State r' [] []) /\
    kfacts_ok (called_env h rs) r' K' /\ answering c r1 r'.
Proof.
  intros Hnd Hg HK Hc Hroom [refs Hreq] Hns K' Hresp. unfold response_agrees in Hresp.
  rewrite Hreq in Hresp. simpl in Hresp. apply bind_Some in Hresp as ([K2 refs2] & Ha & Hresp).
  destruct refs2; [|done]. injection Hresp as ->.
  destruct (run_writes _ _ (agree_writes _ _ _ _ _ Ha) Hns) as [s Hs].
  pose proof (answer_safe c r1 Hc Hroom) as Hsafe.
  destruct (agree_sound plenty (called_env h rs) (c_response c) (return_kfacts c h K) K' (h_reply h)
              [] r1 [] [] s [] []) as [-> (r' & Hrun & HK')]; try done.
  { by apply (return_kfacts_ok c r). }
  { specialize (Hsafe (emitted (called_env h rs) (h_reply h) ++ []) []).
    by intros Hst; rewrite Hst in Hsafe. }
  rewrite app_nil_r in Hrun. eexists _, r'. split_and!; try done.
  specialize (Hsafe (emitted (called_env h rs) (h_reply h)) []). by rewrite Hrun in Hsafe.
Qed.

(** The remote call with request [request] is the driver call: the handler takes exactly the
    request off its lane and calls the driver once, with the arguments of the
    application; the application gets its result and outputs, and none of its other
    objects is changed.  An asynchronous call reports success at once. *)
Definition carried_out (c : client_stub) (h : handler) (r r1 : env) (request : list byte) : Prop :=
  exists args status outs reply r',
    Forall2 (delivers c r1) (c_params c) args /\
    driver (c_name c) args = (status, outs) /\
    (forall rest, serve h (request ++ rest) = Served (Call (c_name c) args) reply rest) /\
    remote_call c h r =
      Some (if c_async c then CUDA_SUCCESS else number "CUresult" status, r', true) /\
    if c_async c
    then reply = [] /\
         r' = upd (Val "return_value") (Some (le_bytes (sizeof "CUresult") CUDA_SUCCESS)) r1
    else return_value r' = number "CUresult" status /\
         Forall2 (collects c r') (c_params c) outs /\ answering c r1 r'.

Lemma pair_ok_sound c h r r1 s :
  pair_ok c h = true -> run_guards (c_guards c) r = inr r1 -> marshal c r1 = Ok s ->
  accepted c h r1 -> (c_async c = false -> room_ok c r1 = true) ->
  carried_out c h r r1 (st_out s).
Proof.
  unfold pair_ok, accepted. intros Hp Hg Hm Hacc Hroom. rewrite !andb_true_iff in Hp.
  destruct Hp as [[[[[[Hrw%bool_decide_eq_true_1 Hname%bool_decide_eq_true_1]
    Hasync%bool_decide_eq_true_1] Hsafe] Hnd%bool_decide_eq_true_1] Hobj%bool_decide_eq_true_1] Hp].
  destruct (request_agrees c h) as [[K refs]|] eqn:Hreq; [|done].
  destruct (safe_steps _ _) as [l|] eqn:Hl; [|done]. apply andb_true_iff in Hp as [Hargs Hresp].
  destruct (request_arrives c h r1 s K refs l) as (rs & Hrun & HK & Hlen); [done..|].
  pose proof (safe_handler_sound h (st_out s) Hsafe) as Hover.
  assert (Hn : length (c_params c) = length (h_call h)).
  { apply (args_match_ok c r r1 Hnd Hg K l rs HK Hlen Hroom), Forall2_length in Hargs.
    by rewrite length_fmap in Hargs. }
  assert (Hdel := args_match_ok c r r1 Hnd Hg K l rs HK Hlen Hroom _ _ Hargs).
  unfold carried_out. rewrite <- Hname.
  set (args := arg_value rs <$> h_call h) in *.
  destruct (driver (h_name h) args) as [status outs] eqn:Hd.
  assert (Hserve : serve h (st_out s) =
    if c_async c then Served (Call (h_name h) args) [] []
    else match run (h_reply h) (State (called_env h rs) [] []) with
         | Ok s' => Served (Call (h_name h) args) (st_out s') (st_in s')
         | Failed _ => Dropped
         | Stuck => Overrun
         end) by (unfold serve, calling_env; by rewrite Hrun, Hrw, Hasync).
  unfold remote_call. rewrite Hg, Hm. destruct (c_async c).
  - rewrite Hserve. eexists args, status, outs, [], _. split_and!; try done.
    intros rest. by apply (serve_more _ _ _ _ []).
  - destruct (response_agrees c h) as [K'|] eqn:Hr'; [|done].
    apply andb_true_iff in Hresp as [Hres Hc].
    destruct (answer_arrives c h r r1 rs K) with (K' := K')
      as (s2 & r' & Hrep & Hin & Hcl & HK' & Hans); eauto.
    { intros Hst. by rewrite Hserve, Hst in Hover. }
    rewrite Hrep, Hin in Hserve. rewrite Hserve, Hcl. simpl.
    assert (return_value r' = number "CUresult" status /\ Forall2 (collects c r') (c_params c) outs)
      as [Hret Hcol] by (by eapply results_match_ok).
    exists args, status, outs, (st_out s2), r'. rewrite Hret.
    split_and!; try done. intros rest. by apply (serve_more _ _ _ _ []).
Qed.

End Refinement.
