(* ===== verification/StubClient.v ===== *)
(** * Generated CUDA client stubs

    One definition per function of [codegen/gen_cuda_client.cpp] that has the shape of
    [client_stub], in the order of the file. *)
From S2P Require Import Prelude Stub.

Definition cuDeviceGetLuid : client_stub := {|
  c_name := "cuDeviceGetLuid";
  c_params := [Pointer "luid" []; Pointer "deviceNodeMask" []; ByValue "dev" "CUdevice"];
  c_route := ForDevice "dev";
  c_local := [];
  c_guards := [];
  c_async := false;
  c_request := [Write (Val "dev") (SizeOf "CUdevice")];
  c_response := [When (Not (Eq (Num 8) (Num 0))) (Read (Ref "luid") (Num 8));
                 Read (Ref "deviceNodeMask") (SizeOf "unsigned int");
                 Read (Val "return_value") (SizeOf "CUresult")];
  c_after := [] |}.

Definition cuDeviceGetTexture1DLinearMaxWidth : client_stub := {|
  c_name := "cuDeviceGetTexture1DLinearMaxWidth";
  c_params := [Pointer "maxWidthInElements" [];
               ByValue "format" "CUarray_format";
               ByValue "numChannels" "unsigned";
               ByValue "dev" "CUdevice"];
  c_route := ForDevice "dev";
  c_local := [];
  c_guards := [];
  c_async := false;
  c_request := [Write (Val "format") (SizeOf "CUarray_format");
                Write (Val "numChannels") (SizeOf "unsigned");
                Write (Val "dev") (SizeOf "CUdevice")];
  c_response := [Read (Ref "maxWidthInElements") (SizeOf "size_t");
                 Read (Val "return_value") (SizeOf "CUresult")];
  c_after := [] |}.

Definition cuDeviceSetMemPool : client_stub := {|
  c_name := "cuDeviceSetMemPool";
  c_params := [ByValue "dev" "CUdevice"; ByValue "pool" "CUmemoryPool"];
  c_route := ForDevice "dev";
  c_local := [];
  c_guards := [];
  c_async := false;
  c_request := [Write (Val "dev") (SizeOf "CUdevice");
                Write (Val "pool") (SizeOf "CUmemoryPool")];
  c_response := [Read (Val "return_value") (SizeOf "CUresult")];
  c_after := [] |}.

Definition cuDeviceGetMemPool : client_stub := {|
  c_name := "cuDeviceGetMemPool";
  c_params := [Pointer "pool" []; ByValue "dev" "CUdevice"];
  c_route := ForDevice "dev";
  c_local := [After (And (Eq (Load "CUresult" (Val "return_value")) (Num 0)) (Not (IsNull (Ref "pool")))) false "lupine_note_memory_pool_owner_route" [ArgVal (Ref "pool"); Route]];
  c_guards := [];
  c_async := false;
  c_request := [Write (Val "dev") (SizeOf "CUdevice")];
  c_response := [Read (Ref "pool") (SizeOf "CUmemoryPool");
                 Read (Val "return_value") (SizeOf "CUresult")];
  c_after := [After (And (Eq (Load "CUresult" (Val "return_value")) (Num 0)) (Not (IsNull (Ref "pool")))) false "lupine_note_memory_pool_owner_route" [ArgVal (Ref "pool"); Route]] |}.

Definition cuDeviceGetDefaultMemPool : client_stub := {|
  c_name := "cuDeviceGetDefaultMemPool";
  c_params := [Pointer "pool_out" []; ByValue "dev" "CUdevice"];
  c_route := ForDevice "dev";
  c_local := [After (And (Eq (Load "CUresult" (Val "return_value")) (Num 0)) (Not (IsNull (Ref "pool_out")))) false "lupine_note_memory_pool_owner_route" [ArgVal (Ref "pool_out"); Route]];
  c_guards := [];
  c_async := false;
  c_request := [Write (Val "dev") (SizeOf "CUdevice")];
  c_response := [Read (Ref "pool_out") (SizeOf "CUmemoryPool");
                 Read (Val "return_value") (SizeOf "CUresult")];
  c_after := [After (And (Eq (Load "CUresult" (Val "return_value")) (Num 0)) (Not (IsNull (Ref "pool_out")))) false "lupine_note_memory_pool_owner_route" [ArgVal (Ref "pool_out"); Route]] |}.

Definition cuDeviceGetExecAffinitySupport : client_stub := {|
  c_name := "cuDeviceGetExecAffinitySupport";
  c_params := [Pointer "pi" [];
               ByValue "type" "CUexecAffinityType";
               ByValue "dev" "CUdevice"];
  c_route := ForDevice "dev";
  c_local := [];
  c_guards := [];
  c_async := false;
  c_request := [Write (Val "type") (SizeOf "CUexecAffinityType");
                Write (Val "dev") (SizeOf "CUdevice")];
  c_response := [Read (Ref "pi") (SizeOf "int");
                 Read (Val "return_value") (SizeOf "CUresult")];
  c_after := [] |}.

Definition cuFlushGPUDirectRDMAWrites : client_stub := {|
  c_name := "cuFlushGPUDirectRDMAWrites";
  c_params := [ByValue "target" "CUflushGPUDirectRDMAWritesTarget";
               ByValue "scope" "CUflushGPUDirectRDMAWritesScope"];
  c_route := ForDefault;
  c_local := [];
  c_guards := [];
  c_async := false;
  c_request := [Write (Val "target") (SizeOf "CUflushGPUDirectRDMAWritesTarget");
                Write (Val "scope") (SizeOf "CUflushGPUDirectRDMAWritesScope")];
  c_response := [Read (Val "return_value") (SizeOf "CUresult")];
  c_after := [] |}.

Definition cuDeviceGetProperties : client_stub := {|
  c_name := "cuDeviceGetProperties";
  c_params := [Pointer "prop" []; ByValue "dev" "CUdevice"];
  c_route := ForDevice "dev";
  c_local := [];
  c_guards := [];
  c_async := false;
  c_request := [Write (Val "dev") (SizeOf "CUdevice")];
  c_response := [Read (Ref "prop") (SizeOf "CUdevprop");
                 Read (Val "return_value") (SizeOf "CUresult")];
  c_after := [] |}.

Definition cuDeviceComputeCapability : client_stub := {|
  c_name := "cuDeviceComputeCapability";
  c_params := [Pointer "major" []; Pointer "minor" []; ByValue "dev" "CUdevice"];
  c_route := ForDevice "dev";
  c_local := [];
  c_guards := [];
  c_async := false;
  c_request := [Write (Val "dev") (SizeOf "CUdevice")];
  c_response := [Read (Ref "major") (SizeOf "int");
                 Read (Ref "minor") (SizeOf "int");
                 Read (Val "return_value") (SizeOf "CUresult")];
  c_after := [] |}.

Definition cuCtxGetFlags : client_stub := {|
  c_name := "cuCtxGetFlags";
  c_params := [Pointer "flags" []];
  c_route := ForDefault;
  c_local := [];
  c_guards := [];
  c_async := false;
  c_request := [];
  c_response := [Read (Ref "flags") (SizeOf "unsigned int");
                 Read (Val "return_value") (SizeOf "CUresult")];
  c_after := [] |}.

Definition cuCtxGetId : client_stub := {|
  c_name := "cuCtxGetId";
  c_params := [ByValue "ctx" "CUcontext"; Pointer "ctxId" []];
  c_route := ForOwner "context" "ctx";
  c_local := [];
  c_guards := [];
  c_async := false;
  c_request := [Write (Val "ctx") (SizeOf "CUcontext")];
  c_response := [Read (Ref "ctxId") (SizeOf "unsigned long long");
                 Read (Val "return_value") (SizeOf "CUresult")];
  c_after := [] |}.

Definition cuCtxSetLimit : client_stub := {|
  c_name := "cuCtxSetLimit";
  c_params := [ByValue "limit" "CUlimit"; ByValue "value" "size_t"];
  c_route := ForDefault;
  c_local := [];
  c_guards := [];
  c_async := false;
  c_request := [Write (Val "limit") (SizeOf "CUlimit");
                Write (Val "value") (SizeOf "size_t")];
  c_response := [Read (Val "return_value") (SizeOf "CUresult")];
  c_after := [] |}.

Definition cuCtxGetLimit : client_stub := {|
  c_name := "cuCtxGetLimit";
  c_params := [Pointer "pvalue" []; ByValue "limit" "CUlimit"];
  c_route := ForDefault;
  c_local := [];
  c_guards := [];
  c_async := false;
  c_request := [Write (Val "limit") (SizeOf "CUlimit")];
  c_response := [Read (Ref "pvalue") (SizeOf "size_t");
                 Read (Val "return_value") (SizeOf "CUresult")];
  c_after := [] |}.

Definition cuCtxGetCacheConfig : client_stub := {|
  c_name := "cuCtxGetCacheConfig";
  c_params := [Pointer "pconfig" []];
  c_route := ForDefault;
  c_local := [];
  c_guards := [];
  c_async := false;
  c_request := [];
  c_response := [Read (Ref "pconfig") (SizeOf "CUfunc_cache");
                 Read (Val "return_value") (SizeOf "CUresult")];
  c_after := [] |}.

Definition cuCtxSetCacheConfig : client_stub := {|
  c_name := "cuCtxSetCacheConfig";
  c_params := [ByValue "config" "CUfunc_cache"];
  c_route := ForDefault;
  c_local := [After (Eq (Load "CUresult" (Val "return_value")) (Num 0)) false "lupine_disable_local_occupancy" []];
  c_guards := [];
  c_async := false;
  c_request := [Write (Val "config") (SizeOf "CUfunc_cache")];
  c_response := [Read (Val "return_value") (SizeOf "CUresult")];
  c_after := [After (Eq (Load "CUresult" (Val "return_value")) (Num 0)) false "lupine_disable_local_occupancy" []] |}.

Definition cuCtxGetApiVersion : client_stub := {|
  c_name := "cuCtxGetApiVersion";
  c_params := [ByValue "ctx" "CUcontext"; Pointer "version" []];
  c_route := ForOwner "context" "ctx";
  c_local := [];
  c_guards := [];
  c_async := false;
  c_request := [Write (Val "ctx") (SizeOf "CUcontext")];
  c_response := [Read (Ref "version") (SizeOf "unsigned int");
                 Read (Val "return_value") (SizeOf "CUresult")];
  c_after := [] |}.

Definition cuCtxResetPersistingL2Cache : client_stub := {|
  c_name := "cuCtxResetPersistingL2Cache";
  c_params := [];
  c_route := ForDefault;
  c_local := [];
  c_guards := [];
  c_async := false;
  c_request := [];
  c_response := [Read (Val "return_value") (SizeOf "CUresult")];
  c_after := [] |}.

Definition cuCtxGetExecAffinity : client_stub := {|
  c_name := "cuCtxGetExecAffinity";
  c_params := [Pointer "pExecAffinity" []; ByValue "type" "CUexecAffinityType"];
  c_route := ForDefault;
  c_local := [];
  c_guards := [];
  c_async := false;
  c_request := [Write (Val "type") (SizeOf "CUexecAffinityType")];
  c_response := [Read (Ref "pExecAffinity") (SizeOf "CUexecAffinityParam");
                 Read (Val "return_value") (SizeOf "CUresult")];
  c_after := [] |}.

Definition cuCtxRecordEvent : client_stub := {|
  c_name := "cuCtxRecordEvent";
  c_params := [ByValue "hCtx" "CUcontext"; ByValue "hEvent" "CUevent"];
  c_route := ForOwner "context" "hCtx";
  c_local := [];
  c_guards := [];
  c_async := false;
  c_request := [Write (Val "hCtx") (SizeOf "CUcontext");
                Write (Val "hEvent") (SizeOf "CUevent")];
  c_response := [Read (Val "return_value") (SizeOf "CUresult")];
  c_after := [] |}.

Definition cuCtxWaitEvent : client_stub := {|
  c_name := "cuCtxWaitEvent";
  c_params := [ByValue "hCtx" "CUcontext"; ByValue "hEvent" "CUevent"];
  c_route := ForOwner "context" "hCtx";
  c_local := [];
  c_guards := [];
  c_async := false;
  c_request := [Write (Val "hCtx") (SizeOf "CUcontext");
                Write (Val "hEvent") (SizeOf "CUevent")];
  c_response := [Read (Val "return_value") (SizeOf "CUresult")];
  c_after := [] |}.

Definition cuCtxAttach : client_stub := {|
  c_name := "cuCtxAttach";
  c_params := [Pointer "pctx" []; ByValue "flags" "unsigned int"];
  c_route := ForDefault;
  c_local := [];
  c_guards := [];
  c_async := false;
  c_request := [Write (Val "flags") (SizeOf "unsigned int")];
  c_response := [Read (Ref "pctx") (SizeOf "CUcontext");
                 Read (Val "return_value") (SizeOf "CUresult")];
  c_after := [] |}.

Definition cuCtxDetach : client_stub := {|
  c_name := "cuCtxDetach";
  c_params := [ByValue "ctx" "CUcontext"];
  c_route := ForOwner "context" "ctx";
  c_local := [After (Eq (Load "CUresult" (Val "return_value")) (Num 0)) false "lupine_invalidate_current_context_cache" []];
  c_guards := [];
  c_async := false;
  c_request := [Write (Val "ctx") (SizeOf "CUcontext")];
  c_response := [Read (Val "return_value") (SizeOf "CUresult")];
  c_after := [After (Eq (Load "CUresult" (Val "return_value")) (Num 0)) false "lupine_invalidate_current_context_cache" []] |}.

Definition cuCtxGetSharedMemConfig : client_stub := {|
  c_name := "cuCtxGetSharedMemConfig";
  c_params := [Pointer "pConfig" []];
  c_route := ForDefault;
  c_local := [];
  c_guards := [];
  c_async := false;
  c_request := [];
  c_response := [Read (Ref "pConfig") (SizeOf "CUsharedconfig");
                 Read (Val "return_value") (SizeOf "CUresult")];
  c_after := [] |}.

Definition cuCtxSetSharedMemConfig : client_stub := {|
  c_name := "cuCtxSetSharedMemConfig";
  c_params := [ByValue "config" "CUsharedconfig"];
  c_route := ForDefault;
  c_local := [];
  c_guards := [];
  c_async := false;
  c_request := [Write (Val "config") (SizeOf "CUsharedconfig")];
  c_response := [Read (Val "return_value") (SizeOf "CUresult")];
  c_after := [] |}.

Definition cuModuleUnload : client_stub := {|
  c_name := "cuModuleUnload";
  c_params := [ByValue "hmod" "CUmodule"];
  c_route := ForOwner "module" "hmod";
  c_local := [After (Eq (Load "CUresult" (Val "return_value")) (Num 0)) false "lupine_release_module_retained_strings" [ArgVal (Val "hmod")]];
  c_guards := [];
  c_async := false;
  c_request := [Write (Val "hmod") (SizeOf "CUmodule")];
  c_response := [Read (Val "return_value") (SizeOf "CUresult")];
  c_after := [After (Eq (Load "CUresult" (Val "return_value")) (Num 0)) false "lupine_release_module_retained_strings" [ArgVal (Val "hmod")]] |}.

Definition cuModuleGetTexRef : client_stub := {|
  c_name := "cuModuleGetTexRef";
  c_params := [Pointer "pTexRef" []; ByValue "hmod" "CUmodule"; Pointer "name" []];
  c_route := ForOwner "module" "hmod";
  c_local := [];
  c_guards := [Local "name_len" "size_t" (Add (Strlen (Ref "name")) (Num 1))];
  c_async := false;
  c_request := [Write (Val "hmod") (SizeOf "CUmodule");
                Write (Val "name_len") (SizeOf "size_t");
                Write (Ref "name") (Load "size_t" (Val "name_len"))];
  c_response := [Read (Ref "pTexRef") (SizeOf "CUtexref");
                 Read (Val "return_value") (SizeOf "CUresult")];
  c_after := [] |}.

Definition cuModuleGetSurfRef : client_stub := {|
  c_name := "cuModuleGetSurfRef";
  c_params := [Pointer "pSurfRef" []; ByValue "hmod" "CUmodule"; Pointer "name" []];
  c_route := ForOwner "module" "hmod";
  c_local := [];
  c_guards := [Local "name_len" "size_t" (Add (Strlen (Ref "name")) (Num 1))];
  c_async := false;
  c_request := [Write (Val "hmod") (SizeOf "CUmodule");
                Write (Val "name_len") (SizeOf "size_t");
                Write (Ref "name") (Load "size_t" (Val "name_len"))];
  c_response := [Read (Ref "pSurfRef") (SizeOf "CUsurfref");
                 Read (Val "return_value") (SizeOf "CUresult")];
  c_after := [] |}.

Definition cuLibraryUnload : client_stub := {|
  c_name := "cuLibraryUnload";
  c_params := [ByValue "library" "CUlibrary"];
  c_route := ForOwner "library" "library";
  c_local := [After (Eq (Load "CUresult" (Val "return_value")) (Num 0)) false "lupine_release_library_retained_strings" [ArgVal (Val "library")]];
  c_guards := [Sequence "async_sequence"];
  c_async := true;
  c_request := [Write (Val "async_sequence") (SizeOf "uint64_t");
                Write (Val "library") (SizeOf "CUlibrary")];
  c_response := [];
  c_after := [After (Eq (Load "CUresult" (Val "return_value")) (Num 0)) false "lupine_release_library_retained_strings" [ArgVal (Val "library")]] |}.

Definition cuLibraryGetUnifiedFunction : client_stub := {|
  c_name := "cuLibraryGetUnifiedFunction";
  c_params := [Pointer "fptr" []; ByValue "library" "CUlibrary"; Pointer "symbol" []];
  c_route := ForOwner "library" "library";
  c_local := [];
  c_guards := [Local "symbol_len" "size_t" (Add (Strlen (Ref "symbol")) (Num 1))];
  c_async := false;
  c_request := [Write (Val "library") (SizeOf "CUlibrary");
                Write (Val "symbol_len") (SizeOf "size_t");
                Write (Ref "symbol") (Load "size_t" (Val "symbol_len"))];
  c_response := [Read (Ref "fptr") (SizeOf "void *");
                 Read (Val "return_value") (SizeOf "CUresult")];
  c_after := [] |}.

Definition cuMemGetInfo_v2 : client_stub := {|
  c_name := "cuMemGetInfo_v2";
  c_params := [Pointer "free" []; Pointer "total" []];
  c_route := ForCurrentContext;
  c_local := [];
  c_guards := [];
  c_async := false;
  c_request := [Write (Ref "free") (SizeOf "size_t"); Write (Ref "total") (SizeOf "size_t")];
  c_response := [Read (Ref "free") (SizeOf "size_t");
                 Read (Ref "total") (SizeOf "size_t");
                 Read (Val "return_value") (SizeOf "CUresult")];
  c_after := [] |}.

Definition cuMemGetAddressRange_v2 : client_stub := {|
  c_name := "cuMemGetAddressRange_v2";
  c_params := [Pointer "pbase" []; Pointer "psize" []; ByValue "dptr" "CUdeviceptr"];
  c_route := ForOwner "deviceptr" "dptr";
  c_local := [];
  c_guards := [Local "pbase_present" "uint8_t" (Not (IsNull (Ref "pbase")));
               Local "psize_present" "uint8_t" (Not (IsNull (Ref "psize")))];
  c_async := false;
  c_request := [Write (Val "pbase_present") (SizeOf "uint8_t");
                When (Load "uint8_t" (Val "pbase_present")) (Write (Ref "pbase") (SizeOf "CUdeviceptr"));
                Write (Val "psize_present") (SizeOf "uint8_t");
                When (Load "uint8_t" (Val "psize_present")) (Write (Ref "psize") (SizeOf "size_t"));
                Write (Val "dptr") (SizeOf "CUdeviceptr")];
  c_response := [When (Load "uint8_t" (Val "pbase_present")) (Read (Ref "pbase") (SizeOf "CUdeviceptr"));
                 When (Load "uint8_t" (Val "psize_present")) (Read (Ref "psize") (SizeOf "size_t"));
                 Read (Val "return_value") (SizeOf "CUresult")];
  c_after := [] |}.

Definition cuDeviceGetPCIBusId : client_stub := {|
  c_name := "cuDeviceGetPCIBusId";
  c_params := [Pointer "pciBusId" []; ByValue "len" "int"; ByValue "dev" "CUdevice"];
  c_route := ForDevice "dev";
  c_local := [];
  c_guards := [];
  c_async := false;
  c_request := [Write (Val "len") (SizeOf "int"); Write (Val "dev") (SizeOf "CUdevice")];
  c_response := [When (Not (Eq (Mul (Load "int" (Val "len")) (SizeOf "char")) (Num 0))) (Read (Ref "pciBusId") (Mul (Load "int" (Val "len")) (SizeOf "char")));
                 Read (Val "return_value") (SizeOf "CUresult")];
  c_after := [] |}.

Definition cuIpcGetEventHandle : client_stub := {|
  c_name := "cuIpcGetEventHandle";
  c_params := [Pointer "pHandle" []; ByValue "event" "CUevent"];
  c_route := ForOwner "event" "event";
  c_local := [];
  c_guards := [];
  c_async := false;
  c_request := [Write (Ref "pHandle") (SizeOf "CUipcEventHandle");
                Write (Val "event") (SizeOf "CUevent")];
  c_response := [Read (Ref "pHandle") (SizeOf "CUipcEventHandle");
                 Read (Val "return_value") (SizeOf "CUresult")];
  c_after := [] |}.

Definition cuIpcOpenEventHandle : client_stub := {|
  c_name := "cuIpcOpenEventHandle";
  c_params := [Pointer "phEvent" []; ByValue "handle" "CUipcEventHandle"];
  c_route := ForDefault;
  c_local := [];
  c_guards := [];
  c_async := false;
  c_request := [Write (Ref "phEvent") (SizeOf "CUevent");
                Write (Val "handle") (SizeOf "CUipcEventHandle")];
  c_response := [Read (Ref "phEvent") (SizeOf "CUevent");
                 Read (Val "return_value") (SizeOf "CUresult")];
  c_after := [] |}.

Definition cuIpcGetMemHandle : client_stub := {|
  c_name := "cuIpcGetMemHandle";
  c_params := [Pointer "pHandle" []; ByValue "dptr" "CUdeviceptr"];
  c_route := ForOwner "deviceptr" "dptr";
  c_local := [];
  c_guards := [];
  c_async := false;
  c_request := [Write (Ref "pHandle") (SizeOf "CUipcMemHandle");
                Write (Val "dptr") (SizeOf "CUdeviceptr")];
  c_response := [Read (Ref "pHandle") (SizeOf "CUipcMemHandle");
                 Read (Val "return_value") (SizeOf "CUresult")];
  c_after := [] |}.

Definition cuIpcOpenMemHandle_v2 : client_stub := {|
  c_name := "cuIpcOpenMemHandle_v2";
  c_params := [Pointer "pdptr" [];
               ByValue "handle" "CUipcMemHandle";
               ByValue "Flags" "unsigned int"];
  c_route := ForDefault;
  c_local := [];
  c_guards := [];
  c_async := false;
  c_request := [Write (Ref "pdptr") (SizeOf "CUdeviceptr");
                Write (Val "handle") (SizeOf "CUipcMemHandle");
                Write (Val "Flags") (SizeOf "unsigned int")];
  c_response := [Read (Ref "pdptr") (SizeOf "CUdeviceptr");
                 Read (Val "return_value") (SizeOf "CUresult")];
  c_after := [] |}.

Definition cuIpcCloseMemHandle : client_stub := {|
  c_name := "cuIpcCloseMemHandle";
  c_params := [ByValue "dptr" "CUdeviceptr"];
  c_route := ForOwner "deviceptr" "dptr";
  c_local := [];
  c_guards := [];
  c_async := false;
  c_request := [Write (Val "dptr") (SizeOf "CUdeviceptr")];
  c_response := [Read (Val "return_value") (SizeOf "CUresult")];
  c_after := [] |}.

Definition cuMemcpyDtoA_v2 : client_stub := {|
  c_name := "cuMemcpyDtoA_v2";
  c_params := [ByValue "dstArray" "CUarray";
               ByValue "dstOffset" "size_t";
               ByValue "srcDevice" "CUdeviceptr";
               ByValue "ByteCount" "size_t"];
  c_route := ForOwner "deviceptr" "srcDevice";
  c_local := [];
  c_guards := [];
  c_async := false;
  c_request := [Write (Val "dstArray") (SizeOf "CUarray");
                Write (Val "dstOffset") (SizeOf "size_t");
                Write (Val "srcDevice") (SizeOf "CUdeviceptr");
                Write (Val "ByteCount") (SizeOf "size_t")];
  c_response := [Read (Val "return_value") (SizeOf "CUresult")];
  c_after := [] |}.

Definition cuMemcpyAtoD_v2 : client_stub := {|
  c_name := "cuMemcpyAtoD_v2";
  c_params := [ByValue "dstDevice" "CUdeviceptr";
               ByValue "srcArray" "CUarray";
               ByValue "srcOffset" "size_t";
               ByValue "ByteCount" "size_t"];
  c_route := ForOwner "deviceptr" "dstDevice";
  c_local := [];
  c_guards := [];
  c_async := false;
  c_request := [Write (Val "dstDevice") (SizeOf "CUdeviceptr");
                Write (Val "srcArray") (SizeOf "CUarray");
                Write (Val "srcOffset") (SizeOf "size_t");
                Write (Val "ByteCount") (SizeOf "size_t")];
  c_response := [Read (Val "return_value") (SizeOf "CUresult")];
  c_after := [] |}.

Definition cuMemcpyAtoA_v2 : client_stub := {|
  c_name := "cuMemcpyAtoA_v2";
  c_params := [ByValue "dstArray" "CUarray";
               ByValue "dstOffset" "size_t";
               ByValue "srcArray" "CUarray";
               ByValue "srcOffset" "size_t";
               ByValue "ByteCount" "size_t"];
  c_route := ForDefault;
  c_local := [];
  c_guards := [];
  c_async := false;
  c_request := [Write (Val "dstArray") (SizeOf "CUarray");
                Write (Val "dstOffset") (SizeOf "size_t");
                Write (Val "srcArray") (SizeOf "CUarray");
                Write (Val "srcOffset") (SizeOf "size_t");
                Write (Val "ByteCount") (SizeOf "size_t")];
  c_response := [Read (Val "return_value") (SizeOf "CUresult")];
  c_after := [] |}.

Definition cuMemsetD8_v2 : client_stub := {|
  c_name := "cuMemsetD8_v2";
  c_params := [ByValue "dstDevice" "CUdeviceptr";
               ByValue "uc" "unsigned char";
               ByValue "N" "size_t"];
  c_route := ForOwner "deviceptr" "dstDevice";
  c_local := [After (Eq (Load "CUresult" (Val "return_value")) (Num 0)) true "lupine_sync_mapped_device_to_host" []];
  c_guards := [];
  c_async := false;
  c_request := [Write (Val "dstDevice") (SizeOf "CUdeviceptr");
                Write (Val "uc") (SizeOf "unsigned char");
                Write (Val "N") (SizeOf "size_t")];
  c_response := [Read (Val "return_value") (SizeOf "CUresult")];
  c_after := [After (Eq (Load "CUresult" (Val "return_value")) (Num 0)) true "lupine_sync_mapped_device_to_host" []] |}.

Definition cuMemsetD16_v2 : client_stub := {|
  c_name := "cuMemsetD16_v2";
  c_params := [ByValue "dstDevice" "CUdeviceptr";
               ByValue "us" "unsigned short";
               ByValue "N" "size_t"];
  c_route := ForOwner "deviceptr" "dstDevice";
  c_local := [After (Eq (Load "CUresult" (Val "return_value")) (Num 0)) true "lupine_sync_mapped_device_to_host" []];
  c_guards := [];
  c_async := false;
  c_request := [Write (Val "dstDevice") (SizeOf "CUdeviceptr");
                Write (Val "us") (SizeOf "unsigned short");
                Write (Val "N") (SizeOf "size_t")];
  c_response := [Read (Val "return_value") (SizeOf "CUresult")];
  c_after := [After (Eq (Load "CUresult" (Val "return_value")) (Num 0)) true "lupine_sync_mapped_device_to_host" []] |}.

Definition cuMemsetD32_v2 : client_stub := {|
  c_name := "cuMemsetD32_v2";
  c_params := [ByValue "dstDevice" "CUdeviceptr";
               ByValue "ui" "unsigned int";
               ByValue "N" "size_t"];
  c_route := ForOwner "deviceptr" "dstDevice";
  c_local := [After (Eq (Load "CUresult" (Val "return_value")) (Num 0)) true "lupine_sync_mapped_device_to_host" []];
  c_guards := [];
  c_async := false;
  c_request := [Write (Val "dstDevice") (SizeOf "CUdeviceptr");
                Write (Val "ui") (SizeOf "unsigned int");
                Write (Val "N") (SizeOf "size_t")];
  c_response := [Read (Val "return_value") (SizeOf "CUresult")];
  c_after := [After (Eq (Load "CUresult" (Val "return_value")) (Num 0)) true "lupine_sync_mapped_device_to_host" []] |}.

Definition cuMemsetD2D8_v2 : client_stub := {|
  c_name := "cuMemsetD2D8_v2";
  c_params := [ByValue "dstDevice" "CUdeviceptr";
               ByValue "dstPitch" "size_t";
               ByValue "uc" "unsigned char";
               ByValue "Width" "size_t";
               ByValue "Height" "size_t"];
  c_route := ForOwner "deviceptr" "dstDevice";
  c_local := [After (Eq (Load "CUresult" (Val "return_value")) (Num 0)) true "lupine_sync_mapped_device_to_host" []];
  c_guards := [];
  c_async := false;
  c_request := [Write (Val "dstDevice") (SizeOf "CUdeviceptr");
                Write (Val "dstPitch") (SizeOf "size_t");
                Write (Val "uc") (SizeOf "unsigned char");
                Write (Val "Width") (SizeOf "size_t");
                Write (Val "Height") (SizeOf "size_t")];
  c_response := [Read (Val "return_value") (SizeOf "CUresult")];
  c_after := [After (Eq (Load "CUresult" (Val "return_value")) (Num 0)) true "lupine_sync_mapped_device_to_host" []] |}.

Definition cuMemsetD2D16_v2 : client_stub := {|
  c_name := "cuMemsetD2D16_v2";
  c_params := [ByValue "dstDevice" "CUdeviceptr";
               ByValue "dstPitch" "size_t";
               ByValue "us" "unsigned short";
               ByValue "Width" "size_t";
               ByValue "Height" "size_t"];
  c_route := ForOwner "deviceptr" "dstDevice";
  c_local := [After (Eq (Load "CUresult" (Val "return_value")) (Num 0)) true "lupine_sync_mapped_device_to_host" []];
  c_guards := [];
  c_async := false;
  c_request := [Write (Val "dstDevice") (SizeOf "CUdeviceptr");
                Write (Val "dstPitch") (SizeOf "size_t");
                Write (Val "us") (SizeOf "unsigned short");
                Write (Val "Width") (SizeOf "size_t");
                Write (Val "Height") (SizeOf "size_t")];
  c_response := [Read (Val "return_value") (SizeOf "CUresult")];
  c_after := [After (Eq (Load "CUresult" (Val "return_value")) (Num 0)) true "lupine_sync_mapped_device_to_host" []] |}.

Definition cuMemsetD2D32_v2 : client_stub := {|
  c_name := "cuMemsetD2D32_v2";
  c_params := [ByValue "dstDevice" "CUdeviceptr";
               ByValue "dstPitch" "size_t";
               ByValue "ui" "unsigned int";
               ByValue "Width" "size_t";
               ByValue "Height" "size_t"];
  c_route := ForOwner "deviceptr" "dstDevice";
  c_local := [After (Eq (Load "CUresult" (Val "return_value")) (Num 0)) true "lupine_sync_mapped_device_to_host" []];
  c_guards := [];
  c_async := false;
  c_request := [Write (Val "dstDevice") (SizeOf "CUdeviceptr");
                Write (Val "dstPitch") (SizeOf "size_t");
                Write (Val "ui") (SizeOf "unsigned int");
                Write (Val "Width") (SizeOf "size_t");
                Write (Val "Height") (SizeOf "size_t")];
  c_response := [Read (Val "return_value") (SizeOf "CUresult")];
  c_after := [After (Eq (Load "CUresult" (Val "return_value")) (Num 0)) true "lupine_sync_mapped_device_to_host" []] |}.

Definition cuMemsetD8Async : client_stub := {|
  c_name := "cuMemsetD8Async";
  c_params := [ByValue "dstDevice" "CUdeviceptr";
               ByValue "uc" "unsigned char";
               ByValue "N" "size_t";
               ByValue "hStream" "CUstream"];
  c_route := ForOwner "deviceptr" "dstDevice";
  c_local := [];
  c_guards := [Sequence "async_sequence"];
  c_async := true;
  c_request := [Write (Val "async_sequence") (SizeOf "uint64_t");
                Write (Val "dstDevice") (SizeOf "CUdeviceptr");
                Write (Val "uc") (SizeOf "unsigned char");
                Write (Val "N") (SizeOf "size_t");
                Write (Val "hStream") (SizeOf "CUstream")];
  c_response := [];
  c_after := [] |}.

Definition cuMemsetD16Async : client_stub := {|
  c_name := "cuMemsetD16Async";
  c_params := [ByValue "dstDevice" "CUdeviceptr";
               ByValue "us" "unsigned short";
               ByValue "N" "size_t";
               ByValue "hStream" "CUstream"];
  c_route := ForOwner "deviceptr" "dstDevice";
  c_local := [];
  c_guards := [Sequence "async_sequence"];
  c_async := true;
  c_request := [Write (Val "async_sequence") (SizeOf "uint64_t");
                Write (Val "dstDevice") (SizeOf "CUdeviceptr");
                Write (Val "us") (SizeOf "unsigned short");
                Write (Val "N") (SizeOf "size_t");
                Write (Val "hStream") (SizeOf "CUstream")];
  c_response := [];
  c_after := [] |}.

Definition cuMemsetD32Async : client_stub := {|
  c_name := "cuMemsetD32Async";
  c_params := [ByValue "dstDevice" "CUdeviceptr";
               ByValue "ui" "unsigned int";
               ByValue "N" "size_t";
               ByValue "hStream" "CUstream"];
  c_route := ForOwner "deviceptr" "dstDevice";
  c_local := [];
  c_guards := [Sequence "async_sequence"];
  c_async := true;
  c_request := [Write (Val "async_sequence") (SizeOf "uint64_t");
                Write (Val "dstDevice") (SizeOf "CUdeviceptr");
                Write (Val "ui") (SizeOf "unsigned int");
                Write (Val "N") (SizeOf "size_t");
                Write (Val "hStream") (SizeOf "CUstream")];
  c_response := [];
  c_after := [] |}.

Definition cuMemsetD2D8Async : client_stub := {|
  c_name := "cuMemsetD2D8Async";
  c_params := [ByValue "dstDevice" "CUdeviceptr";
               ByValue "dstPitch" "size_t";
               ByValue "uc" "unsigned char";
               ByValue "Width" "size_t";
               ByValue "Height" "size_t";
               ByValue "hStream" "CUstream"];
  c_route := ForOwner "deviceptr" "dstDevice";
  c_local := [];
  c_guards := [Sequence "async_sequence"];
  c_async := true;
  c_request := [Write (Val "async_sequence") (SizeOf "uint64_t");
                Write (Val "dstDevice") (SizeOf "CUdeviceptr");
                Write (Val "dstPitch") (SizeOf "size_t");
                Write (Val "uc") (SizeOf "unsigned char");
                Write (Val "Width") (SizeOf "size_t");
                Write (Val "Height") (SizeOf "size_t");
                Write (Val "hStream") (SizeOf "CUstream")];
  c_response := [];
  c_after := [] |}.

Definition cuMemsetD2D16Async : client_stub := {|
  c_name := "cuMemsetD2D16Async";
  c_params := [ByValue "dstDevice" "CUdeviceptr";
               ByValue "dstPitch" "size_t";
               ByValue "us" "unsigned short";
               ByValue "Width" "size_t";
               ByValue "Height" "size_t";
               ByValue "hStream" "CUstream"];
  c_route := ForOwner "deviceptr" "dstDevice";
  c_local := [];
  c_guards := [Sequence "async_sequence"];
  c_async := true;
  c_request := [Write (Val "async_sequence") (SizeOf "uint64_t");
                Write (Val "dstDevice") (SizeOf "CUdeviceptr");
                Write (Val "dstPitch") (SizeOf "size_t");
                Write (Val "us") (SizeOf "unsigned short");
                Write (Val "Width") (SizeOf "size_t");
                Write (Val "Height") (SizeOf "size_t");
                Write (Val "hStream") (SizeOf "CUstream")];
  c_response := [];
  c_after := [] |}.

Definition cuMemsetD2D32Async : client_stub := {|
  c_name := "cuMemsetD2D32Async";
  c_params := [ByValue "dstDevice" "CUdeviceptr";
               ByValue "dstPitch" "size_t";
               ByValue "ui" "unsigned int";
               ByValue "Width" "size_t";
               ByValue "Height" "size_t";
               ByValue "hStream" "CUstream"];
  c_route := ForOwner "deviceptr" "dstDevice";
  c_local := [];
  c_guards := [Sequence "async_sequence"];
  c_async := true;
  c_request := [Write (Val "async_sequence") (SizeOf "uint64_t");
                Write (Val "dstDevice") (SizeOf "CUdeviceptr");
                Write (Val "dstPitch") (SizeOf "size_t");
                Write (Val "ui") (SizeOf "unsigned int");
                Write (Val "Width") (SizeOf "size_t");
                Write (Val "Height") (SizeOf "size_t");
                Write (Val "hStream") (SizeOf "CUstream")];
  c_response := [];
  c_after := [] |}.

Definition cuArrayCreate_v2 : client_stub := {|
  c_name := "cuArrayCreate_v2";
  c_params := [Pointer "pHandle" []; Pointer "pAllocateArray" []];
  c_route := ForDefault;
  c_local := [];
  c_guards := [];
  c_async := false;
  c_request := [Write (Ref "pHandle") (SizeOf "CUarray");
                Write (Ref "pAllocateArray") (SizeOf "CUDA_ARRAY_DESCRIPTOR")];
  c_response := [Read (Ref "pHandle") (SizeOf "CUarray");
                 Read (Val "return_value") (SizeOf "CUresult")];
  c_after := [] |}.

Definition cuArrayGetDescriptor_v2 : client_stub := {|
  c_name := "cuArrayGetDescriptor_v2";
  c_params := [Pointer "pArrayDescriptor" []; ByValue "hArray" "CUarray"];
  c_route := ForDefault;
  c_local := [];
  c_guards := [];
  c_async := false;
  c_request := [Write (Ref "pArrayDescriptor") (SizeOf "CUDA_ARRAY_DESCRIPTOR");
                Write (Val "hArray") (SizeOf "CUarray")];
  c_response := [Read (Ref "pArrayDescriptor") (SizeOf "CUDA_ARRAY_DESCRIPTOR");
                 Read (Val "return_value") (SizeOf "CUresult")];
  c_after := [] |}.

Definition cuMipmappedArrayGetSparseProperties : client_stub := {|
  c_name := "cuMipmappedArrayGetSparseProperties";
  c_params := [Pointer "sparseProperties" []; ByValue "mipmap" "CUmipmappedArray"];
  c_route := ForDefault;
  c_local := [];
  c_guards := [];
  c_async := false;
  c_request := [Write (Ref "sparseProperties") (SizeOf "CUDA_ARRAY_SPARSE_PROPERTIES");
                Write (Val "mipmap") (SizeOf "CUmipmappedArray")];
  c_response := [Read (Ref "sparseProperties") (SizeOf "CUDA_ARRAY_SPARSE_PROPERTIES");
                 Read (Val "return_value") (SizeOf "CUresult")];
  c_after := [] |}.

Definition cuMipmappedArrayGetMemoryRequirements : client_stub := {|
  c_name := "cuMipmappedArrayGetMemoryRequirements";
  c_params := [Pointer "memoryRequirements" [];
               ByValue "mipmap" "CUmipmappedArray";
               ByValue "device" "CUdevice"];
  c_route := ForDevice "device";
  c_local := [];
  c_guards := [];
  c_async := false;
  c_request := [Write (Ref "memoryRequirements") (SizeOf "CUDA_ARRAY_MEMORY_REQUIREMENTS");
                Write (Val "mipmap") (SizeOf "CUmipmappedArray");
                Write (Val "device") (SizeOf "CUdevice")];
  c_response := [Read (Ref "memoryRequirements") (SizeOf "CUDA_ARRAY_MEMORY_REQUIREMENTS");
                 Read (Val "return_value") (SizeOf "CUresult")];
  c_after := [] |}.

Definition cuArrayGetPlane : client_stub := {|
  c_name := "cuArrayGetPlane";
  c_params := [Pointer "pPlaneArray" [];
               ByValue "hArray" "CUarray";
               ByValue "planeIdx" "unsigned int"];
  c_route := ForDefault;
  c_local := [];
  c_guards := [];
  c_async := false;
  c_request := [Write (Ref "pPlaneArray") (SizeOf "CUarray");
                Write (Val "hArray") (SizeOf "CUarray");
                Write (Val "planeIdx") (SizeOf "unsigned int")];
  c_response := [Read (Ref "pPlaneArray") (SizeOf "CUarray");
                 Read (Val "return_value") (SizeOf "CUresult")];
  c_after := [] |}.

Definition cuArrayDestroy : client_stub := {|
  c_name := "cuArrayDestroy";
  c_params := [ByValue "hArray" "CUarray"];
  c_route := ForDefault;
  c_local := [];
  c_guards := [];
  c_async := false;
  c_request := [Write (Val "hArray") (SizeOf "CUarray")];
  c_response := [Read (Val "return_value") (SizeOf "CUresult")];
  c_after := [] |}.

Definition cuArray3DCreate_v2 : client_stub := {|
  c_name := "cuArray3DCreate_v2";
  c_params := [Pointer "pHandle" []; Pointer "pAllocateArray" []];
  c_route := ForDefault;
  c_local := [];
  c_guards := [];
  c_async := false;
  c_request := [Write (Ref "pHandle") (SizeOf "CUarray");
                Write (Ref "pAllocateArray") (SizeOf "CUDA_ARRAY3D_DESCRIPTOR")];
  c_response := [Read (Ref "pHandle") (SizeOf "CUarray");
                 Read (Val "return_value") (SizeOf "CUresult")];
  c_after := [] |}.

Definition cuArray3DGetDescriptor_v2 : client_stub := {|
  c_name := "cuArray3DGetDescriptor_v2";
  c_params := [Pointer "pArrayDescriptor" []; ByValue "hArray" "CUarray"];
  c_route := ForDefault;
  c_local := [];
  c_guards := [];
  c_async := false;
  c_request := [Write (Ref "pArrayDescriptor") (SizeOf "CUDA_ARRAY3D_DESCRIPTOR");
                Write (Val "hArray") (SizeOf "CUarray")];
  c_response := [Read (Ref "pArrayDescriptor") (SizeOf "CUDA_ARRAY3D_DESCRIPTOR");
                 Read (Val "return_value") (SizeOf "CUresult")];
  c_after := [] |}.

Definition cuMipmappedArrayGetLevel : client_stub := {|
  c_name := "cuMipmappedArrayGetLevel";
  c_params := [Pointer "pLevelArray" [];
               ByValue "hMipmappedArray" "CUmipmappedArray";
               ByValue "level" "unsigned int"];
  c_route := ForDefault;
  c_local := [];
  c_guards := [];
  c_async := false;
  c_request := [Write (Ref "pLevelArray") (SizeOf "CUarray");
                Write (Val "hMipmappedArray") (SizeOf "CUmipmappedArray");
                Write (Val "level") (SizeOf "unsigned int")];
  c_response := [Read (Ref "pLevelArray") (SizeOf "CUarray");
                 Read (Val "return_value") (SizeOf "CUresult")];
  c_after := [] |}.

Definition cuMipmappedArrayDestroy : client_stub := {|
  c_name := "cuMipmappedArrayDestroy";
  c_params := [ByValue "hMipmappedArray" "CUmipmappedArray"];
  c_route := ForDefault;
  c_local := [];
  c_guards := [];
  c_async := false;
  c_request := [Write (Val "hMipmappedArray") (SizeOf "CUmipmappedArray")];
  c_response := [Read (Val "return_value") (SizeOf "CUresult")];
  c_after := [] |}.

Definition cuMemGetHandleForAddressRange : client_stub := {|
  c_name := "cuMemGetHandleForAddressRange";
  c_params := [Pointer "handle" [];
               ByValue "dptr" "CUdeviceptr";
               ByValue "size" "size_t";
               ByValue "handleType" "CUmemRangeHandleType";
               ByValue "flags" "unsigned long long"];
  c_route := ForOwner "deviceptr" "dptr";
  c_local := [];
  c_guards := [];
  c_async := false;
  c_request := [Write (Val "dptr") (SizeOf "CUdeviceptr");
                Write (Val "size") (SizeOf "size_t");
                Write (Val "handleType") (SizeOf "CUmemRangeHandleType");
                Write (Val "flags") (SizeOf "unsigned long long")];
  c_response := [When (Not (Eq (Num 4) (Num 0))) (Read (Ref "handle") (Num 4));
                 Read (Val "return_value") (SizeOf "CUresult")];
  c_after := [] |}.

Definition cuMemAddressReserve : client_stub := {|
  c_name := "cuMemAddressReserve";
  c_params := [Pointer "ptr" [];
               ByValue "size" "size_t";
               ByValue "alignment" "size_t";
               ByValue "addr" "CUdeviceptr";
               ByValue "flags" "unsigned long long"];
  c_route := ForOwner "deviceptr" "addr";
  c_local := [];
  c_guards := [];
  c_async := false;
  c_request := [Write (Ref "ptr") (SizeOf "CUdeviceptr");
                Write (Val "size") (SizeOf "size_t");
                Write (Val "alignment") (SizeOf "size_t");
                Write (Val "addr") (SizeOf "CUdeviceptr");
                Write (Val "flags") (SizeOf "unsigned long long")];
  c_response := [Read (Ref "ptr") (SizeOf "CUdeviceptr");
                 Read (Val "return_value") (SizeOf "CUresult")];
  c_after := [] |}.

Definition cuMemAddressFree : client_stub := {|
  c_name := "cuMemAddressFree";
  c_params := [ByValue "ptr" "CUdeviceptr"; ByValue "size" "size_t"];
  c_route := ForOwner "deviceptr" "ptr";
  c_local := [];
  c_guards := [];
  c_async := false;
  c_request := [Write (Val "ptr") (SizeOf "CUdeviceptr");
                Write (Val "size") (SizeOf "size_t")];
  c_response := [Read (Val "return_value") (SizeOf "CUresult")];
  c_after := [] |}.

Definition cuMemCreate : client_stub := {|
  c_name := "cuMemCreate";
  c_params := [Pointer "handle" [];
               ByValue "size" "size_t";
               Pointer "prop" [];
               ByValue "flags" "unsigned long long"];
  c_route := ForDefault;
  c_local := [];
  c_guards := [];
  c_async := false;
  c_request := [Write (Val "size") (SizeOf "size_t");
                Write (Ref "prop") (SizeOf "CUmemAllocationProp");
                Write (Val "flags") (SizeOf "unsigned long long")];
  c_response := [Read (Ref "handle") (SizeOf "CUmemGenericAllocationHandle");
                 Read (Val "return_value") (SizeOf "CUresult")];
  c_after := [] |}.

Definition cuMemRelease : client_stub := {|
  c_name := "cuMemRelease";
  c_params := [ByValue "handle" "CUmemGenericAllocationHandle"];
  c_route := ForDefault;
  c_local := [];
  c_guards := [];
  c_async := false;
  c_request := [Write (Val "handle") (SizeOf "CUmemGenericAllocationHandle")];
  c_response := [Read (Val "return_value") (SizeOf "CUresult")];
  c_after := [] |}.

Definition cuMemMap : client_stub := {|
  c_name := "cuMemMap";
  c_params := [ByValue "ptr" "CUdeviceptr";
               ByValue "size" "size_t";
               ByValue "offset" "size_t";
               ByValue "handle" "CUmemGenericAllocationHandle";
               ByValue "flags" "unsigned long long"];
  c_route := ForOwner "deviceptr" "ptr";
  c_local := [];
  c_guards := [];
  c_async := false;
  c_request := [Write (Val "ptr") (SizeOf "CUdeviceptr");
                Write (Val "size") (SizeOf "size_t");
                Write (Val "offset") (SizeOf "size_t");
                Write (Val "handle") (SizeOf "CUmemGenericAllocationHandle");
                Write (Val "flags") (SizeOf "unsigned long long")];
  c_response := [Read (Val "return_value") (SizeOf "CUresult")];
  c_after := [] |}.

Definition cuMemMapArrayAsync : client_stub := {|
  c_name := "cuMemMapArrayAsync";
  c_params := [Pointer "mapInfoList" [];
               ByValue "count" "unsigned int";
               ByValue "hStream" "CUstream"];
  c_route := IfHandle "hStream" (ForOwner "stream" "hStream") (ForDefault);
  c_local := [];
  c_guards := [Check (And (Not (Eq (Mul (Load "unsigned int" (Val "count")) (SizeOf "CUarrayMapInfo")) (Num 0))) (IsNull (Ref "mapInfoList"))) CUDA_ERROR_INVALID_VALUE];
  c_async := false;
  c_request := [Write (Val "count") (SizeOf "unsigned int");
                Write (Ref "mapInfoList") (Mul (Load "unsigned int" (Val "count")) (SizeOf "CUarrayMapInfo"));
                Write (Val "hStream") (SizeOf "CUstream")];
  c_response := [Read (Val "return_value") (SizeOf "CUresult")];
  c_after := [] |}.

Definition cuMemUnmap : client_stub := {|
  c_name := "cuMemUnmap";
  c_params := [ByValue "ptr" "CUdeviceptr"; ByValue "size" "size_t"];
  c_route := ForOwner "deviceptr" "ptr";
  c_local := [];
  c_guards := [];
  c_async := false;
  c_request := [Write (Val "ptr") (SizeOf "CUdeviceptr");
                Write (Val "size") (SizeOf "size_t")];
  c_response := [Read (Val "return_value") (SizeOf "CUresult")];
  c_after := [] |}.

Definition cuMemSetAccess : client_stub := {|
  c_name := "cuMemSetAccess";
  c_params := [ByValue "ptr" "CUdeviceptr";
               ByValue "size" "size_t";
               Pointer "desc" [];
               ByValue "count" "size_t"];
  c_route := ForOwner "deviceptr" "ptr";
  c_local := [];
  c_guards := [Check (And (Not (Eq (Mul (Load "size_t" (Val "count")) (SizeOf "CUmemAccessDesc")) (Num 0))) (IsNull (Ref "desc"))) CUDA_ERROR_INVALID_VALUE];
  c_async := false;
  c_request := [Write (Val "ptr") (SizeOf "CUdeviceptr");
                Write (Val "size") (SizeOf "size_t");
                Write (Val "count") (SizeOf "size_t");
                Write (Ref "desc") (Mul (Load "size_t" (Val "count")) (SizeOf "CUmemAccessDesc"))];
  c_response := [Read (Val "return_value") (SizeOf "CUresult")];
  c_after := [] |}.

Definition cuMemGetAccess : client_stub := {|
  c_name := "cuMemGetAccess";
  c_params := [Pointer "flags" []; Pointer "location" []; ByValue "ptr" "CUdeviceptr"];
  c_route := ForOwner "deviceptr" "ptr";
  c_local := [];
  c_guards := [];
  c_async := false;
  c_request := [Write (Ref "location") (SizeOf "CUmemLocation");
                Write (Val "ptr") (SizeOf "CUdeviceptr")];
  c_response := [Read (Ref "flags") (SizeOf "unsigned long long");
                 Read (Val "return_value") (SizeOf "CUresult")];
  c_after := [] |}.

Definition cuMemRetainAllocationHandle : client_stub := {|
  c_name := "cuMemRetainAllocationHandle";
  c_params := [Pointer "handle" []; ByValue "addr" "void *"];
  c_route := ForDefault;
  c_local := [];
  c_guards := [];
  c_async := false;
  c_request := [Write (Val "addr") (SizeOf "void *")];
  c_response := [Read (Ref "handle") (SizeOf "CUmemGenericAllocationHandle");
                 Read (Val "return_value") (SizeOf "CUresult")];
  c_after := [] |}.

Definition cuMemFreeAsync : client_stub := {|
  c_name := "cuMemFreeAsync";
  c_params := [ByValue "dptr" "CUdeviceptr"; ByValue "hStream" "CUstream"];
  c_route := ForOwner "deviceptr" "dptr";
  c_local := [After (Eq (Load "CUresult" (Val "return_value")) (Num 0)) false "lupine_forget_deviceptr_owner" [ArgVal (Val "dptr")]];
  c_guards := [];
  c_async := false;
  c_request := [Write (Val "dptr") (SizeOf "CUdeviceptr");
                Write (Val "hStream") (SizeOf "CUstream")];
  c_response := [Read (Val "return_value") (SizeOf "CUresult")];
  c_after := [After (Eq (Load "CUresult" (Val "return_value")) (Num 0)) false "lupine_forget_deviceptr_owner" [ArgVal (Val "dptr")]] |}.

Definition cuMemAllocAsync : client_stub := {|
  c_name := "cuMemAllocAsync";
  c_params := [Pointer "dptr" []; ByValue "bytesize" "size_t"; ByValue "hStream" "CUstream"];
  c_route := IfHandle "hStream" (ForOwner "stream" "hStream") (ForDefault);
  c_local := [After (And (Eq (Load "CUresult" (Val "return_value")) (Num 0)) (Not (IsNull (Ref "dptr")))) false "lupine_note_deviceptr_owner_route" [ArgVal (Ref "dptr"); Route];
              After (And (Eq (Load "CUresult" (Val "return_value")) (Num 0)) (Not (IsNull (Ref "dptr")))) false "lupine_note_deviceptr_allocation_route" [ArgVal (Ref "dptr"); ArgVal (Val "bytesize"); Route]];
  c_guards := [];
  c_async := false;
  c_request := [Write (Ref "dptr") (SizeOf "CUdeviceptr");
                Write (Val "bytesize") (SizeOf "size_t");
                Write (Val "hStream") (SizeOf "CUstream")];
  c_response := [Read (Ref "dptr") (SizeOf "CUdeviceptr");
                 Read (Val "return_value") (SizeOf "CUresult")];
  c_after := [After (And (Eq (Load "CUresult" (Val "return_value")) (Num 0)) (Not (IsNull (Ref "dptr")))) false "lupine_note_deviceptr_owner_route" [ArgVal (Ref "dptr"); Route];
              After (And (Eq (Load "CUresult" (Val "return_value")) (Num 0)) (Not (IsNull (Ref "dptr")))) false "lupine_note_deviceptr_allocation_route" [ArgVal (Ref "dptr"); ArgVal (Val "bytesize"); Route]] |}.

Definition cuMemPoolTrimTo : client_stub := {|
  c_name := "cuMemPoolTrimTo";
  c_params := [ByValue "pool" "CUmemoryPool"; ByValue "minBytesToKeep" "size_t"];
  c_route := ForOwner "memory_pool" "pool";
  c_local := [];
  c_guards := [];
  c_async := false;
  c_request := [Write (Val "pool") (SizeOf "CUmemoryPool");
                Write (Val "minBytesToKeep") (SizeOf "size_t")];
  c_response := [Read (Val "return_value") (SizeOf "CUresult")];
  c_after := [] |}.

Definition cuMemPoolDestroy : client_stub := {|
  c_name := "cuMemPoolDestroy";
  c_params := [ByValue "pool" "CUmemoryPool"];
  c_route := ForOwner "memory_pool" "pool";
  c_local := [];
  c_guards := [];
  c_async := false;
  c_request := [Write (Val "pool") (SizeOf "CUmemoryPool")];
  c_response := [Read (Val "return_value") (SizeOf "CUresult")];
  c_after := [] |}.

Definition cuMemAllocFromPoolAsync : client_stub := {|
  c_name := "cuMemAllocFromPoolAsync";
  c_params := [Pointer "dptr" [];
               ByValue "bytesize" "size_t";
               ByValue "pool" "CUmemoryPool";
               ByValue "hStream" "CUstream"];
  c_route := IfHandle "hStream" (ForOwner "stream" "hStream") (ForDefault);
  c_local := [After (And (Eq (Load "CUresult" (Val "return_value")) (Num 0)) (Not (IsNull (Ref "dptr")))) false "lupine_note_deviceptr_owner_route" [ArgVal (Ref "dptr"); Route];
              After (And (Eq (Load "CUresult" (Val "return_value")) (Num 0)) (Not (IsNull (Ref "dptr")))) false "lupine_note_deviceptr_allocation_route" [ArgVal (Ref "dptr"); ArgVal (Val "bytesize"); Route]];
  c_guards := [];
  c_async := false;
  c_request := [Write (Ref "dptr") (SizeOf "CUdeviceptr");
                Write (Val "bytesize") (SizeOf "size_t");
                Write (Val "pool") (SizeOf "CUmemoryPool");
                Write (Val "hStream") (SizeOf "CUstream")];
  c_response := [Read (Ref "dptr") (SizeOf "CUdeviceptr");
                 Read (Val "return_value") (SizeOf "CUresult")];
  c_after := [After (And (Eq (Load "CUresult" (Val "return_value")) (Num 0)) (Not (IsNull (Ref "dptr")))) false "lupine_note_deviceptr_owner_route" [ArgVal (Ref "dptr"); Route];
              After (And (Eq (Load "CUresult" (Val "return_value")) (Num 0)) (Not (IsNull (Ref "dptr")))) false "lupine_note_deviceptr_allocation_route" [ArgVal (Ref "dptr"); ArgVal (Val "bytesize"); Route]] |}.

Definition cuMemPoolExportPointer : client_stub := {|
  c_name := "cuMemPoolExportPointer";
  c_params := [Pointer "shareData_out" []; ByValue "ptr" "CUdeviceptr"];
  c_route := ForOwner "deviceptr" "ptr";
  c_local := [];
  c_guards := [];
  c_async := false;
  c_request := [Write (Ref "shareData_out") (SizeOf "CUmemPoolPtrExportData");
                Write (Val "ptr") (SizeOf "CUdeviceptr")];
  c_response := [Read (Ref "shareData_out") (SizeOf "CUmemPoolPtrExportData");
                 Read (Val "return_value") (SizeOf "CUresult")];
  c_after := [] |}.

Definition cuMemPoolImportPointer : client_stub := {|
  c_name := "cuMemPoolImportPointer";
  c_params := [Pointer "ptr_out" []; ByValue "pool" "CUmemoryPool"; Pointer "shareData" []];
  c_route := ForOwner "memory_pool" "pool";
  c_local := [];
  c_guards := [];
  c_async := false;
  c_request := [Write (Ref "ptr_out") (SizeOf "CUdeviceptr");
                Write (Val "pool") (SizeOf "CUmemoryPool");
                Write (Ref "shareData") (SizeOf "CUmemPoolPtrExportData")];
  c_response := [Read (Ref "ptr_out") (SizeOf "CUdeviceptr");
                 Read (Ref "shareData") (SizeOf "CUmemPoolPtrExportData");
                 Read (Val "return_value") (SizeOf "CUresult")];
  c_after := [] |}.

Definition cuStreamGetPriority : client_stub := {|
  c_name := "cuStreamGetPriority";
  c_params := [ByValue "hStream" "CUstream"; Pointer "priority" []];
  c_route := IfHandle "hStream" (ForOwner "stream" "hStream") (ForDefault);
  c_local := [];
  c_guards := [];
  c_async := false;
  c_request := [Write (Val "hStream") (SizeOf "CUstream");
                Write (Ref "priority") (SizeOf "int")];
  c_response := [Read (Ref "priority") (SizeOf "int");
                 Read (Val "return_value") (SizeOf "CUresult")];
  c_after := [] |}.

Definition cuStreamGetFlags : client_stub := {|
  c_name := "cuStreamGetFlags";
  c_params := [ByValue "hStream" "CUstream"; Pointer "flags" []];
  c_route := IfHandle "hStream" (ForOwner "stream" "hStream") (ForDefault);
  c_local := [];
  c_guards := [];
  c_async := false;
  c_request := [Write (Val "hStream") (SizeOf "CUstream");
                Write (Ref "flags") (SizeOf "unsigned int")];
  c_response := [Read (Ref "flags") (SizeOf "unsigned int");
                 Read (Val "return_value") (SizeOf "CUresult")];
  c_after := [] |}.

Definition cuStreamGetId : client_stub := {|
  c_name := "cuStreamGetId";
  c_params := [ByValue "hStream" "CUstream"; Pointer "streamId" []];
  c_route := IfHandle "hStream" (ForOwner "stream" "hStream") (ForDefault);
  c_local := [];
  c_guards := [];
  c_async := false;
  c_request := [Write (Val "hStream") (SizeOf "CUstream");
                Write (Ref "streamId") (SizeOf "unsigned long long")];
  c_response := [Read (Ref "streamId") (SizeOf "unsigned long long");
                 Read (Val "return_value") (SizeOf "CUresult")];
  c_after := [] |}.

Definition cuStreamGetCtx : client_stub := {|
  c_name := "cuStreamGetCtx";
  c_params := [ByValue "hStream" "CUstream"; Pointer "pctx" []];
  c_route := IfHandle "hStream" (ForOwner "stream" "hStream") (ForDefault);
  c_local := [];
  c_guards := [];
  c_async := false;
  c_request := [Write (Val "hStream") (SizeOf "CUstream");
                Write (Ref "pctx") (SizeOf "CUcontext")];
  c_response := [Read (Ref "pctx") (SizeOf "CUcontext");
                 Read (Val "return_value") (SizeOf "CUresult")];
  c_after := [] |}.

Definition cuStreamAttachMemAsync : client_stub := {|
  c_name := "cuStreamAttachMemAsync";
  c_params := [ByValue "hStream" "CUstream";
               ByValue "dptr" "CUdeviceptr";
               ByValue "length" "size_t";
               ByValue "flags" "unsigned int"];
  c_route := IfHandle "hStream" (ForOwner "stream" "hStream") (ForOwner "deviceptr" "dptr");
  c_local := [];
  c_guards := [];
  c_async := false;
  c_request := [Write (Val "hStream") (SizeOf "CUstream");
                Write (Val "dptr") (SizeOf "CUdeviceptr");
                Write (Val "length") (SizeOf "size_t");
                Write (Val "flags") (SizeOf "unsigned int")];
  c_response := [Read (Val "return_value") (SizeOf "CUresult")];
  c_after := [] |}.

Definition cuStreamDestroy_v2 : client_stub := {|
  c_name := "cuStreamDestroy_v2";
  c_params := [ByValue "hStream" "CUstream"];
  c_route := IfHandle "hStream" (ForOwner "stream" "hStream") (ForDefault);
  c_local := [After (Eq (Load "CUresult" (Val "return_value")) (Num 0)) false "lupine_forget_stream_owner" [ArgVal (Val "hStream")]];
  c_guards := [];
  c_async := false;
  c_request := [Write (Val "hStream") (SizeOf "CUstream")];
  c_response := [Read (Val "return_value") (SizeOf "CUresult")];
  c_after := [After (Eq (Load "CUresult" (Val "return_value")) (Num 0)) false "lupine_forget_stream_owner" [ArgVal (Val "hStream")]] |}.

Definition cuStreamCopyAttributes : client_stub := {|
  c_name := "cuStreamCopyAttributes";
  c_params := [ByValue "dst" "CUstream"; ByValue "src" "CUstream"];
  c_route := IfHandle "dst" (ForOwner "stream" "dst") (ForDefault);
  c_local := [];
  c_guards := [];
  c_async := false;
  c_request := [Write (Val "dst") (SizeOf "CUstream");
                Write (Val "src") (SizeOf "CUstream")];
  c_response := [Read (Val "return_value") (SizeOf "CUresult")];
  c_after := [] |}.

Definition cuStreamGetAttribute : client_stub := {|
  c_name := "cuStreamGetAttribute";
  c_params := [ByValue "hStream" "CUstream";
               ByValue "attr" "CUstreamAttrID";
               Pointer "value_out" []];
  c_route := IfHandle "hStream" (ForOwner "stream" "hStream") (ForDefault);
  c_local := [];
  c_guards := [];
  c_async := false;
  c_request := [Write (Val "hStream") (SizeOf "CUstream");
                Write (Val "attr") (SizeOf "CUstreamAttrID");
                Write (Ref "value_out") (SizeOf "CUstreamAttrValue")];
  c_response := [Read (Ref "value_out") (SizeOf "CUstreamAttrValue");
                 Read (Val "return_value") (SizeOf "CUresult")];
  c_after := [] |}.

Definition cuStreamSetAttribute : client_stub := {|
  c_name := "cuStreamSetAttribute";
  c_params := [ByValue "hStream" "CUstream";
               ByValue "attr" "CUstreamAttrID";
               Pointer "value" []];
  c_route := IfHandle "hStream" (ForOwner "stream" "hStream") (ForDefault);
  c_local := [];
  c_guards := [];
  c_async := false;
  c_request := [Write (Val "hStream") (SizeOf "CUstream");
                Write (Val "attr") (SizeOf "CUstreamAttrID");
                Write (Ref "value") (SizeOf "CUstreamAttrValue")];
  c_response := [Read (Val "return_value") (SizeOf "CUresult")];
  c_after := [] |}.

Definition cuEventElapsedTime_v2 : client_stub := {|
  c_name := "cuEventElapsedTime_v2";
  c_params := [Pointer "pMilliseconds" [];
               ByValue "hStart" "CUevent";
               ByValue "hEnd" "CUevent"];
  c_route := ForOwner "event" "hStart";
  c_local := [];
  c_guards := [];
  c_async := false;
  c_request := [Write (Ref "pMilliseconds") (SizeOf "float");
                Write (Val "hStart") (SizeOf "CUevent");
                Write (Val "hEnd") (SizeOf "CUevent")];
  c_response := [Read (Ref "pMilliseconds") (SizeOf "float");
                 Read (Val "return_value") (SizeOf "CUresult")];
  c_after := [] |}.

Definition cuExternalMemoryGetMappedBuffer : client_stub := {|
  c_name := "cuExternalMemoryGetMappedBuffer";
  c_params := [Pointer "devPtr" [];
               ByValue "extMem" "CUexternalMemory";
               Pointer "bufferDesc" []];
  c_route := ForDefault;
  c_local := [];
  c_guards := [];
  c_async := false;
  c_request := [Write (Ref "devPtr") (SizeOf "CUdeviceptr");
                Write (Val "extMem") (SizeOf "CUexternalMemory");
                Write (Ref "bufferDesc") (SizeOf "CUDA_EXTERNAL_MEMORY_BUFFER_DESC")];
  c_response := [Read (Ref "devPtr") (SizeOf "CUdeviceptr");
                 Read (Val "return_value") (SizeOf "CUresult")];
  c_after := [] |}.

Definition cuExternalMemoryGetMappedMipmappedArray : client_stub := {|
  c_name := "cuExternalMemoryGetMappedMipmappedArray";
  c_params := [Pointer "mipmap" [];
               ByValue "extMem" "CUexternalMemory";
               Pointer "mipmapDesc" []];
  c_route := ForDefault;
  c_local := [];
  c_guards := [];
  c_async := false;
  c_request := [Write (Ref "mipmap") (SizeOf "CUmipmappedArray");
                Write (Val "extMem") (SizeOf "CUexternalMemory");
                Write (Ref "mipmapDesc") (SizeOf "CUDA_EXTERNAL_MEMORY_MIPMAPPED_ARRAY_DESC")];
  c_response := [Read (Ref "mipmap") (SizeOf "CUmipmappedArray");
                 Read (Val "return_value") (SizeOf "CUresult")];
  c_after := [] |}.

Definition cuDestroyExternalMemory : client_stub := {|
  c_name := "cuDestroyExternalMemory";
  c_params := [ByValue "extMem" "CUexternalMemory"];
  c_route := ForDefault;
  c_local := [];
  c_guards := [];
  c_async := false;
  c_request := [Write (Val "extMem") (SizeOf "CUexternalMemory")];
  c_response := [Read (Val "return_value") (SizeOf "CUresult")];
  c_after := [] |}.

Definition cuImportExternalSemaphore : client_stub := {|
  c_name := "cuImportExternalSemaphore";
  c_params := [Pointer "extSem_out" []; Pointer "semHandleDesc" []];
  c_route := ForDefault;
  c_local := [];
  c_guards := [];
  c_async := false;
  c_request := [Write (Ref "extSem_out") (SizeOf "CUexternalSemaphore");
                Write (Ref "semHandleDesc") (SizeOf "CUDA_EXTERNAL_SEMAPHORE_HANDLE_DESC")];
  c_response := [Read (Ref "extSem_out") (SizeOf "CUexternalSemaphore");
                 Read (Val "return_value") (SizeOf "CUresult")];
  c_after := [] |}.

Definition cuSignalExternalSemaphoresAsync : client_stub := {|
  c_name := "cuSignalExternalSemaphoresAsync";
  c_params := [Pointer "extSemArray" [];
               Pointer "paramsArray" [];
               ByValue "numExtSems" "unsigned int";
               ByValue "stream" "CUstream"];
  c_route := IfHandle "stream" (ForOwner "stream" "stream") (ForDefault);
  c_local := [];
  c_guards := [Check (And (Not (Eq (Mul (Load "unsigned int" (Val "numExtSems")) (SizeOf "CUexternalSemaphore")) (Num 0))) (IsNull (Ref "extSemArray"))) CUDA_ERROR_INVALID_VALUE;
               Check (And (Not (Eq (Mul (Load "unsigned int" (Val "numExtSems")) (SizeOf "CUDA_EXTERNAL_SEMAPHORE_SIGNAL_PARAMS")) (Num 0))) (IsNull (Ref "paramsArray"))) CUDA_ERROR_INVALID_VALUE];
  c_async := false;
  c_request := [Write (Val "numExtSems") (SizeOf "unsigned int");
                Write (Ref "extSemArray") (Mul (Load "unsigned int" (Val "numExtSems")) (SizeOf "CUexternalSemaphore"));
                Write (Ref "paramsArray") (Mul (Load "unsigned int" (Val "numExtSems")) (SizeOf "CUDA_EXTERNAL_SEMAPHORE_SIGNAL_PARAMS"));
                Write (Val "stream") (SizeOf "CUstream")];
  c_response := [Read (Val "return_value") (SizeOf "CUresult")];
  c_after := [] |}.

Definition cuWaitExternalSemaphoresAsync : client_stub := {|
  c_name := "cuWaitExternalSemaphoresAsync";
  c_params := [Pointer "extSemArray" [];
               Pointer "paramsArray" [];
               ByValue "numExtSems" "unsigned int";
               ByValue "stream" "CUstream"];
  c_route := IfHandle "stream" (ForOwner "stream" "stream") (ForDefault);
  c_local := [];
  c_guards := [Check (And (Not (Eq (Mul (Load "unsigned int" (Val "numExtSems")) (SizeOf "CUexternalSemaphore")) (Num 0))) (IsNull (Ref "extSemArray"))) CUDA_ERROR_INVALID_VALUE;
               Check (And (Not (Eq (Mul (Load "unsigned int" (Val "numExtSems")) (SizeOf "CUDA_EXTERNAL_SEMAPHORE_WAIT_PARAMS")) (Num 0))) (IsNull (Ref "paramsArray"))) CUDA_ERROR_INVALID_VALUE];
  c_async := false;
  c_request := [Write (Val "numExtSems") (SizeOf "unsigned int");
                Write (Ref "extSemArray") (Mul (Load "unsigned int" (Val "numExtSems")) (SizeOf "CUexternalSemaphore"));
                Write (Ref "paramsArray") (Mul (Load "unsigned int" (Val "numExtSems")) (SizeOf "CUDA_EXTERNAL_SEMAPHORE_WAIT_PARAMS"));
                Write (Val "stream") (SizeOf "CUstream")];
  c_response := [Read (Val "return_value") (SizeOf "CUresult")];
  c_after := [] |}.

Definition cuDestroyExternalSemaphore : client_stub := {|
  c_name := "cuDestroyExternalSemaphore";
  c_params := [ByValue "extSem" "CUexternalSemaphore"];
  c_route := ForDefault;
  c_local := [];
  c_guards := [];
  c_async := false;
  c_request := [Write (Val "extSem") (SizeOf "CUexternalSemaphore")];
  c_response := [Read (Val "return_value") (SizeOf "CUresult")];
  c_after := [] |}.

Definition cuStreamWaitValue32_v2 : client_stub := {|
  c_name := "cuStreamWaitValue32_v2";
  c_params := [ByValue "stream" "CUstream";
               ByValue "addr" "CUdeviceptr";
               ByValue "value" "cuuint32_t";
               ByValue "flags" "unsigned int"];
  c_route := IfHandle "stream" (ForOwner "stream" "stream") (ForDefault);
  c_local := [];
  c_guards := [];
  c_async := false;
  c_request := [Write (Val "stream") (SizeOf "CUstream");
                Write (Val "addr") (SizeOf "CUdeviceptr");
                Write (Val "value") (SizeOf "cuuint32_t");
                Write (Val "flags") (SizeOf "unsigned int")];
  c_response := [Read (Val "return_value") (SizeOf "CUresult")];
  c_after := [] |}.

Definition cuStreamWaitValue64_v2 : client_stub := {|
  c_name := "cuStreamWaitValue64_v2";
  c_params := [ByValue "stream" "CUstream";
               ByValue "addr" "CUdeviceptr";
               ByValue "value" "cuuint64_t";
               ByValue "flags" "unsigned int"];
  c_route := IfHandle "stream" (ForOwner "stream" "stream") (ForDefault);
  c_local := [];
  c_guards := [];
  c_async := false;
  c_request := [Write (Val "stream") (SizeOf "CUstream");
                Write (Val "addr") (SizeOf "CUdeviceptr");
                Write (Val "value") (SizeOf "cuuint64_t");
                Write (Val "flags") (SizeOf "unsigned int")];
  c_response := [Read (Val "return_value") (SizeOf "CUresult")];
  c_after := [] |}.

Definition cuStreamWriteValue32_v2 : client_stub := {|
  c_name := "cuStreamWriteValue32_v2";
  c_params := [ByValue "stream" "CUstream";
               ByValue "addr" "CUdeviceptr";
               ByValue "value" "cuuint32_t";
               ByValue "flags" "unsigned int"];
  c_route := IfHandle "stream" (ForOwner "stream" "stream") (ForDefault);
  c_local := [];
  c_guards := [];
  c_async := false;
  c_request := [Write (Val "stream") (SizeOf "CUstream");
                Write (Val "addr") (SizeOf "CUdeviceptr");
                Write (Val "value") (SizeOf "cuuint32_t");
                Write (Val "flags") (SizeOf "unsigned int")];
  c_response := [Read (Val "return_value") (SizeOf "CUresult")];
  c_after := [] |}.

Definition cuStreamWriteValue64_v2 : client_stub := {|
  c_name := "cuStreamWriteValue64_v2";
  c_params := [ByValue "stream" "CUstream";
               ByValue "addr" "CUdeviceptr";
               ByValue "value" "cuuint64_t";
               ByValue "flags" "unsigned int"];
  c_route := IfHandle "stream" (ForOwner "stream" "stream") (ForDefault);
  c_local := [];
  c_guards := [];
  c_async := false;
  c_request := [Write (Val "stream") (SizeOf "CUstream");
                Write (Val "addr") (SizeOf "CUdeviceptr");
                Write (Val "value") (SizeOf "cuuint64_t");
                Write (Val "flags") (SizeOf "unsigned int")];
  c_response := [Read (Val "return_value") (SizeOf "CUresult")];
  c_after := [] |}.

Definition cuStreamBatchMemOp_v2 : client_stub := {|
  c_name := "cuStreamBatchMemOp_v2";
  c_params := [ByValue "stream" "CUstream";
               ByValue "count" "unsigned int";
               Pointer "paramArray" [];
               ByValue "flags" "unsigned int"];
  c_route := IfHandle "stream" (ForOwner "stream" "stream") (ForDefault);
  c_local := [];
  c_guards := [Check (And (Not (Eq (Mul (Load "unsigned int" (Val "count")) (SizeOf "CUstreamBatchMemOpParams")) (Num 0))) (IsNull (Ref "paramArray"))) CUDA_ERROR_INVALID_VALUE];
  c_async := false;
  c_request := [Write (Val "stream") (SizeOf "CUstream");
                Write (Val "count") (SizeOf "unsigned int");
                Write (Ref "paramArray") (Mul (Load "unsigned int" (Val "count")) (SizeOf "CUstreamBatchMemOpParams"));
                Write (Val "flags") (SizeOf "unsigned int")];
  c_response := [Read (Val "return_value") (SizeOf "CUresult")];
  c_after := [] |}.

Definition cuFuncSetCacheConfig : client_stub := {|
  c_name := "cuFuncSetCacheConfig";
  c_params := [ByValue "hfunc" "CUfunction"; ByValue "config" "CUfunc_cache"];
  c_route := ForOwner "function" "hfunc";
  c_local := [After (Eq (Load "CUresult" (Val "return_value")) (Num 0)) false "lupine_disable_local_occupancy" []];
  c_guards := [Translate "hfunc_rpc" "hfunc"];
  c_async := false;
  c_request := [Write (Val "hfunc_rpc") (SizeOf "CUfunction");
                Write (Val "config") (SizeOf "CUfunc_cache")];
  c_response := [Read (Val "return_value") (SizeOf "CUresult")];
  c_after := [After (Eq (Load "CUresult" (Val "return_value")) (Num 0)) false "lupine_disable_local_occupancy" []] |}.

Definition cuFuncGetModule : client_stub := {|
  c_name := "cuFuncGetModule";
  c_params := [Pointer "hmod" []; ByValue "hfunc" "CUfunction"];
  c_route := ForOwner "function" "hfunc";
  c_local := [After (And (Eq (Load "CUresult" (Val "return_value")) (Num 0)) (Not (IsNull (Ref "hmod")))) false "lupine_note_module_owner_route" [ArgVal (Ref "hmod"); Route]];
  c_guards := [Translate "hfunc_rpc" "hfunc"];
  c_async := false;
  c_request := [Write (Ref "hmod") (SizeOf "CUmodule");
                Write (Val "hfunc_rpc") (SizeOf "CUfunction")];
  c_response := [Read (Ref "hmod") (SizeOf "CUmodule");
                 Read (Val "return_value") (SizeOf "CUresult")];
  c_after := [After (And (Eq (Load "CUresult" (Val "return_value")) (Num 0)) (Not (IsNull (Ref "hmod")))) false "lupine_note_module_owner_route" [ArgVal (Ref "hmod"); Route]] |}.

Definition cuFuncSetBlockShape : client_stub := {|
  c_name := "cuFuncSetBlockShape";
  c_params := [ByValue "hfunc" "CUfunction";
               ByValue "x" "int";
               ByValue "y" "int";
               ByValue "z" "int"];
  c_route := ForOwner "function" "hfunc";
  c_local := [];
  c_guards := [Translate "hfunc_rpc" "hfunc"];
  c_async := false;
  c_request := [Write (Val "hfunc_rpc") (SizeOf "CUfunction");
                Write (Val "x") (SizeOf "int");
                Write (Val "y") (SizeOf "int");
                Write (Val "z") (SizeOf "int")];
  c_response := [Read (Val "return_value") (SizeOf "CUresult")];
  c_after := [] |}.

Definition cuFuncSetSharedSize : client_stub := {|
  c_name := "cuFuncSetSharedSize";
  c_params := [ByValue "hfunc" "CUfunction"; ByValue "bytes" "unsigned int"];
  c_route := ForOwner "function" "hfunc";
  c_local := [];
  c_guards := [Translate "hfunc_rpc" "hfunc"];
  c_async := false;
  c_request := [Write (Val "hfunc_rpc") (SizeOf "CUfunction");
                Write (Val "bytes") (SizeOf "unsigned int")];
  c_response := [Read (Val "return_value") (SizeOf "CUresult")];
  c_after := [] |}.

Definition cuParamSetSize : client_stub := {|
  c_name := "cuParamSetSize";
  c_params := [ByValue "hfunc" "CUfunction"; ByValue "numbytes" "unsigned int"];
  c_route := ForOwner "function" "hfunc";
  c_local := [];
  c_guards := [Translate "hfunc_rpc" "hfunc"];
  c_async := false;
  c_request := [Write (Val "hfunc_rpc") (SizeOf "CUfunction");
                Write (Val "numbytes") (SizeOf "unsigned int")];
  c_response := [Read (Val "return_value") (SizeOf "CUresult")];
  c_after := [] |}.

Definition cuParamSeti : client_stub := {|
  c_name := "cuParamSeti";
  c_params := [ByValue "hfunc" "CUfunction";
               ByValue "offset" "int";
               ByValue "value" "unsigned int"];
  c_route := ForOwner "function" "hfunc";
  c_local := [];
  c_guards := [Translate "hfunc_rpc" "hfunc"];
  c_async := false;
  c_request := [Write (Val "hfunc_rpc") (SizeOf "CUfunction");
                Write (Val "offset") (SizeOf "int");
                Write (Val "value") (SizeOf "unsigned int")];
  c_response := [Read (Val "return_value") (SizeOf "CUresult")];
  c_after := [] |}.

Definition cuParamSetf : client_stub := {|
  c_name := "cuParamSetf";
  c_params := [ByValue "hfunc" "CUfunction";
               ByValue "offset" "int";
               ByValue "value" "float"];
  c_route := ForOwner "function" "hfunc";
  c_local := [];
  c_guards := [Translate "hfunc_rpc" "hfunc"];
  c_async := false;
  c_request := [Write (Val "hfunc_rpc") (SizeOf "CUfunction");
                Write (Val "offset") (SizeOf "int");
                Write (Val "value") (SizeOf "float")];
  c_response := [Read (Val "return_value") (SizeOf "CUresult")];
  c_after := [] |}.

Definition cuParamSetv : client_stub := {|
  c_name := "cuParamSetv";
  c_params := [ByValue "hfunc" "CUfunction";
               ByValue "offset" "int";
               Pointer "ptr" [];
               ByValue "numbytes" "unsigned int"];
  c_route := ForOwner "function" "hfunc";
  c_local := [];
  c_guards := [Translate "hfunc_rpc" "hfunc";
               Check (And (Not (Eq (Load "unsigned int" (Val "numbytes")) (Num 0))) (IsNull (Ref "ptr"))) CUDA_ERROR_INVALID_VALUE];
  c_async := false;
  c_request := [Write (Val "hfunc_rpc") (SizeOf "CUfunction");
                Write (Val "offset") (SizeOf "int");
                Write (Val "numbytes") (SizeOf "unsigned int");
                Write (Ref "ptr") (Load "unsigned int" (Val "numbytes"))];
  c_response := [Read (Val "return_value") (SizeOf "CUresult")];
  c_after := [] |}.

Definition cuLaunch : client_stub := {|
  c_name := "cuLaunch";
  c_params := [ByValue "f" "CUfunction"];
  c_route := ForOwner "function" "f";
  c_local := [];
  c_guards := [Translate "f_rpc" "f"];
  c_async := false;
  c_request := [Write (Val "f_rpc") (SizeOf "CUfunction")];
  c_response := [Read (Val "return_value") (SizeOf "CUresult")];
  c_after := [] |}.

Definition cuLaunchGrid : client_stub := {|
  c_name := "cuLaunchGrid";
  c_params := [ByValue "f" "CUfunction";
               ByValue "grid_width" "int";
               ByValue "grid_height" "int"];
  c_route := ForOwner "function" "f";
  c_local := [];
  c_guards := [Translate "f_rpc" "f"];
  c_async := false;
  c_request := [Write (Val "f_rpc") (SizeOf "CUfunction");
                Write (Val "grid_width") (SizeOf "int");
                Write (Val "grid_height") (SizeOf "int")];
  c_response := [Read (Val "return_value") (SizeOf "CUresult")];
  c_after := [] |}.

Definition cuLaunchGridAsync : client_stub := {|
  c_name := "cuLaunchGridAsync";
  c_params := [ByValue "f" "CUfunction";
               ByValue "grid_width" "int";
               ByValue "grid_height" "int";
               ByValue "hStream" "CUstream"];
  c_route := ForOwner "function" "f";
  c_local := [];
  c_guards := [Translate "f_rpc" "f"];
  c_async := false;
  c_request := [Write (Val "f_rpc") (SizeOf "CUfunction");
                Write (Val "grid_width") (SizeOf "int");
                Write (Val "grid_height") (SizeOf "int");
                Write (Val "hStream") (SizeOf "CUstream")];
  c_response := [Read (Val "return_value") (SizeOf "CUresult")];
  c_after := [] |}.

Definition cuParamSetTexRef : client_stub := {|
  c_name := "cuParamSetTexRef";
  c_params := [ByValue "hfunc" "CUfunction";
               ByValue "texunit" "int";
               ByValue "hTexRef" "CUtexref"];
  c_route := ForOwner "function" "hfunc";
  c_local := [];
  c_guards := [Translate "hfunc_rpc" "hfunc"];
  c_async := false;
  c_request := [Write (Val "hfunc_rpc") (SizeOf "CUfunction");
                Write (Val "texunit") (SizeOf "int");
                Write (Val "hTexRef") (SizeOf "CUtexref")];
  c_response := [Read (Val "return_value") (SizeOf "CUresult")];
  c_after := [] |}.

Definition cuFuncSetSharedMemConfig : client_stub := {|
  c_name := "cuFuncSetSharedMemConfig";
  c_params := [ByValue "hfunc" "CUfunction"; ByValue "config" "CUsharedconfig"];
  c_route := ForOwner "function" "hfunc";
  c_local := [];
  c_guards := [Translate "hfunc_rpc" "hfunc"];
  c_async := false;
  c_request := [Write (Val "hfunc_rpc") (SizeOf "CUfunction");
                Write (Val "config") (SizeOf "CUsharedconfig")];
  c_response := [Read (Val "return_value") (SizeOf "CUresult")];
  c_after := [] |}.

Definition cuGraphCreate : client_stub := {|
  c_name := "cuGraphCreate";
  c_params := [Pointer "phGraph" []; ByValue "flags" "unsigned int"];
  c_route := ForDefault;
  c_local := [After (And (Eq (Load "CUresult" (Val "return_value")) (Num 0)) (Not (IsNull (Ref "phGraph")))) false "lupine_note_graph_owner_route" [ArgVal (Ref "phGraph"); Route]];
  c_guards := [];
  c_async := false;
  c_request := [Write (Ref "phGraph") (SizeOf "CUgraph");
                Write (Val "flags") (SizeOf "unsigned int")];
  c_response := [Read (Ref "phGraph") (SizeOf "CUgraph");
                 Read (Val "return_value") (SizeOf "CUresult")];
  c_after := [After (And (Eq (Load "CUresult" (Val "return_value")) (Num 0)) (Not (IsNull (Ref "phGraph")))) false "lupine_note_graph_owner_route" [ArgVal (Ref "phGraph"); Route]] |}.

Definition cuGraphMemcpyNodeGetParams : client_stub := {|
  c_name := "cuGraphMemcpyNodeGetParams";
  c_params := [ByValue "hNode" "CUgraphNode"; Pointer "nodeParams" []];
  c_route := ForOwner "graph_node" "hNode";
  c_local := [];
  c_guards := [];
  c_async := false;
  c_request := [Write (Val "hNode") (SizeOf "CUgraphNode");
                Write (Ref "nodeParams") (SizeOf "CUDA_MEMCPY3D")];
  c_response := [Read (Ref "nodeParams") (SizeOf "CUDA_MEMCPY3D");
                 Read (Val "return_value") (SizeOf "CUresult")];
  c_after := [] |}.

Definition cuGraphMemcpyNodeSetParams : client_stub := {|
  c_name := "cuGraphMemcpyNodeSetParams";
  c_params := [ByValue "hNode" "CUgraphNode"; Pointer "nodeParams" []];
  c_route := ForOwner "graph_node" "hNode";
  c_local := [];
  c_guards := [];
  c_async := false;
  c_request := [Write (Val "hNode") (SizeOf "CUgraphNode");
                Write (Ref "nodeParams") (SizeOf "CUDA_MEMCPY3D")];
  c_response := [Read (Val "return_value") (SizeOf "CUresult")];
  c_after := [] |}.

Definition cuGraphMemsetNodeGetParams : client_stub := {|
  c_name := "cuGraphMemsetNodeGetParams";
  c_params := [ByValue "hNode" "CUgraphNode"; Pointer "nodeParams" []];
  c_route := ForOwner "graph_node" "hNode";
  c_local := [];
  c_guards := [];
  c_async := false;
  c_request := [Write (Val "hNode") (SizeOf "CUgraphNode");
                Write (Ref "nodeParams") (SizeOf "CUDA_MEMSET_NODE_PARAMS")];
  c_response := [Read (Ref "nodeParams") (SizeOf "CUDA_MEMSET_NODE_PARAMS");
                 Read (Val "return_value") (SizeOf "CUresult")];
  c_after := [] |}.

Definition cuGraphMemsetNodeSetParams : client_stub := {|
  c_name := "cuGraphMemsetNodeSetParams";
  c_params := [ByValue "hNode" "CUgraphNode"; Pointer "nodeParams" []];
  c_route := ForOwner "graph_node" "hNode";
  c_local := [];
  c_guards := [];
  c_async := false;
  c_request := [Write (Val "hNode") (SizeOf "CUgraphNode");
                Write (Ref "nodeParams") (SizeOf "CUDA_MEMSET_NODE_PARAMS")];
  c_response := [Read (Val "return_value") (SizeOf "CUresult")];
  c_after := [] |}.

Definition cuGraphAddChildGraphNode : client_stub := {|
  c_name := "cuGraphAddChildGraphNode";
  c_params := [Pointer "phGraphNode" [];
               ByValue "hGraph" "CUgraph";
               Pointer "dependencies" [];
               ByValue "numDependencies" "size_t";
               ByValue "childGraph" "CUgraph"];
  c_route := ForOwner "graph" "hGraph";
  c_local := [After (And (Eq (Load "CUresult" (Val "return_value")) (Num 0)) (Not (IsNull (Ref "phGraphNode")))) false "lupine_note_graph_node_owner_route" [ArgVal (Ref "phGraphNode"); Route]];
  c_guards := [Check (And (Not (Eq (Mul (Load "size_t" (Val "numDependencies")) (SizeOf "CUgraphNode")) (Num 0))) (IsNull (Ref "dependencies"))) CUDA_ERROR_INVALID_VALUE];
  c_async := false;
  c_request := [Write (Ref "phGraphNode") (SizeOf "CUgraphNode");
                Write (Val "hGraph") (SizeOf "CUgraph");
                Write (Val "numDependencies") (SizeOf "size_t");
                Write (Ref "dependencies") (Mul (Load "size_t" (Val "numDependencies")) (SizeOf "CUgraphNode"));
                Write (Val "childGraph") (SizeOf "CUgraph")];
  c_response := [Read (Ref "phGraphNode") (SizeOf "CUgraphNode");
                 Read (Val "return_value") (SizeOf "CUresult")];
  c_after := [After (And (Eq (Load "CUresult" (Val "return_value")) (Num 0)) (Not (IsNull (Ref "phGraphNode")))) false "lupine_note_graph_node_owner_route" [ArgVal (Ref "phGraphNode"); Route]] |}.

Definition cuGraphChildGraphNodeGetGraph : client_stub := {|
  c_name := "cuGraphChildGraphNodeGetGraph";
  c_params := [ByValue "hNode" "CUgraphNode"; Pointer "phGraph" []];
  c_route := ForOwner "graph_node" "hNode";
  c_local := [After (And (Eq (Load "CUresult" (Val "return_value")) (Num 0)) (Not (IsNull (Ref "phGraph")))) false "lupine_note_graph_owner_route" [ArgVal (Ref "phGraph"); Route]];
  c_guards := [];
  c_async := false;
  c_request := [Write (Val "hNode") (SizeOf "CUgraphNode");
                Write (Ref "phGraph") (SizeOf "CUgraph")];
  c_response := [Read (Ref "phGraph") (SizeOf "CUgraph");
                 Read (Val "return_value") (SizeOf "CUresult")];
  c_after := [After (And (Eq (Load "CUresult" (Val "return_value")) (Num 0)) (Not (IsNull (Ref "phGraph")))) false "lupine_note_graph_owner_route" [ArgVal (Ref "phGraph"); Route]] |}.

Definition cuGraphAddEmptyNode : client_stub := {|
  c_name := "cuGraphAddEmptyNode";
  c_params := [Pointer "phGraphNode" [];
               ByValue "hGraph" "CUgraph";
               Pointer "dependencies" [];
               ByValue "numDependencies" "size_t"];
  c_route := ForOwner "graph" "hGraph";
  c_local := [After (And (Eq (Load "CUresult" (Val "return_value")) (Num 0)) (Not (IsNull (Ref "phGraphNode")))) false "lupine_note_graph_node_owner_route" [ArgVal (Ref "phGraphNode"); Route]];
  c_guards := [Check (And (Not (Eq (Mul (Load "size_t" (Val "numDependencies")) (SizeOf "CUgraphNode")) (Num 0))) (IsNull (Ref "dependencies"))) CUDA_ERROR_INVALID_VALUE];
  c_async := false;
  c_request := [Write (Ref "phGraphNode") (SizeOf "CUgraphNode");
                Write (Val "hGraph") (SizeOf "CUgraph");
                Write (Val "numDependencies") (SizeOf "size_t");
                Write (Ref "dependencies") (Mul (Load "size_t" (Val "numDependencies")) (SizeOf "CUgraphNode"))];
  c_response := [Read (Ref "phGraphNode") (SizeOf "CUgraphNode");
                 Read (Val "return_value") (SizeOf "CUresult")];
  c_after := [After (And (Eq (Load "CUresult" (Val "return_value")) (Num 0)) (Not (IsNull (Ref "phGraphNode")))) false "lupine_note_graph_node_owner_route" [ArgVal (Ref "phGraphNode"); Route]] |}.

Definition cuGraphAddEventRecordNode : client_stub := {|
  c_name := "cuGraphAddEventRecordNode";
  c_params := [Pointer "phGraphNode" [];
               ByValue "hGraph" "CUgraph";
               Pointer "dependencies" [];
               ByValue "numDependencies" "size_t";
               ByValue "event" "CUevent"];
  c_route := ForOwner "graph" "hGraph";
  c_local := [After (And (Eq (Load "CUresult" (Val "return_value")) (Num 0)) (Not (IsNull (Ref "phGraphNode")))) false "lupine_note_graph_node_owner_route" [ArgVal (Ref "phGraphNode"); Route]];
  c_guards := [Check (And (Not (Eq (Mul (Load "size_t" (Val "numDependencies")) (SizeOf "CUgraphNode")) (Num 0))) (IsNull (Ref "dependencies"))) CUDA_ERROR_INVALID_VALUE];
  c_async := false;
  c_request := [Write (Ref "phGraphNode") (SizeOf "CUgraphNode");
                Write (Val "hGraph") (SizeOf "CUgraph");
                Write (Val "numDependencies") (SizeOf "size_t");
                Write (Ref "dependencies") (Mul (Load "size_t" (Val "numDependencies")) (SizeOf "CUgraphNode"));
                Write (Val "event") (SizeOf "CUevent")];
  c_response := [Read (Ref "phGraphNode") (SizeOf "CUgraphNode");
                 Read (Val "return_value") (SizeOf "CUresult")];
  c_after := [After (And (Eq (Load "CUresult" (Val "return_value")) (Num 0)) (Not (IsNull (Ref "phGraphNode")))) false "lupine_note_graph_node_owner_route" [ArgVal (Ref "phGraphNode"); Route]] |}.

Definition cuGraphEventRecordNodeGetEvent : client_stub := {|
  c_name := "cuGraphEventRecordNodeGetEvent";
  c_params := [ByValue "hNode" "CUgraphNode"; Pointer "event_out" []];
  c_route := ForOwner "graph_node" "hNode";
  c_local := [];
  c_guards := [];
  c_async := false;
  c_request := [Write (Val "hNode") (SizeOf "CUgraphNode");
                Write (Ref "event_out") (SizeOf "CUevent")];
  c_response := [Read (Ref "event_out") (SizeOf "CUevent");
                 Read (Val "return_value") (SizeOf "CUresult")];
  c_after := [] |}.

Definition cuGraphEventRecordNodeSetEvent : client_stub := {|
  c_name := "cuGraphEventRecordNodeSetEvent";
  c_params := [ByValue "hNode" "CUgraphNode"; ByValue "event" "CUevent"];
  c_route := ForOwner "graph_node" "hNode";
  c_local := [];
  c_guards := [];
  c_async := false;
  c_request := [Write (Val "hNode") (SizeOf "CUgraphNode");
                Write (Val "event") (SizeOf "CUevent")];
  c_response := [Read (Val "return_value") (SizeOf "CUresult")];
  c_after := [] |}.

Definition cuGraphAddEventWaitNode : client_stub := {|
  c_name := "cuGraphAddEventWaitNode";
  c_params := [Pointer "phGraphNode" [];
               ByValue "hGraph" "CUgraph";
               Pointer "dependencies" [];
               ByValue "numDependencies" "size_t";
               ByValue "event" "CUevent"];
  c_route := ForOwner "graph" "hGraph";
  c_local := [After (And (Eq (Load "CUresult" (Val "return_value")) (Num 0)) (Not (IsNull (Ref "phGraphNode")))) false "lupine_note_graph_node_owner_route" [ArgVal (Ref "phGraphNode"); Route]];
  c_guards := [Check (And (Not (Eq (Mul (Load "size_t" (Val "numDependencies")) (SizeOf "CUgraphNode")) (Num 0))) (IsNull (Ref "dependencies"))) CUDA_ERROR_INVALID_VALUE];
  c_async := false;
  c_request := [Write (Ref "phGraphNode") (SizeOf "CUgraphNode");
                Write (Val "hGraph") (SizeOf "CUgraph");
                Write (Val "numDependencies") (SizeOf "size_t");
                Write (Ref "dependencies") (Mul (Load "size_t" (Val "numDependencies")) (SizeOf "CUgraphNode"));
                Write (Val "event") (SizeOf "CUevent")];
  c_response := [Read (Ref "phGraphNode") (SizeOf "CUgraphNode");
                 Read (Val "return_value") (SizeOf "CUresult")];
  c_after := [After (And (Eq (Load "CUresult" (Val "return_value")) (Num 0)) (Not (IsNull (Ref "phGraphNode")))) false "lupine_note_graph_node_owner_route" [ArgVal (Ref "phGraphNode"); Route]] |}.

Definition cuGraphEventWaitNodeGetEvent : client_stub := {|
  c_name := "cuGraphEventWaitNodeGetEvent";
  c_params := [ByValue "hNode" "CUgraphNode"; Pointer "event_out" []];
  c_route := ForOwner "graph_node" "hNode";
  c_local := [];
  c_guards := [];
  c_async := false;
  c_request := [Write (Val "hNode") (SizeOf "CUgraphNode");
                Write (Ref "event_out") (SizeOf "CUevent")];
  c_response := [Read (Ref "event_out") (SizeOf "CUevent");
                 Read (Val "return_value") (SizeOf "CUresult")];
  c_after := [] |}.

Definition cuGraphEventWaitNodeSetEvent : client_stub := {|
  c_name := "cuGraphEventWaitNodeSetEvent";
  c_params := [ByValue "hNode" "CUgraphNode"; ByValue "event" "CUevent"];
  c_route := ForOwner "graph_node" "hNode";
  c_local := [];
  c_guards := [];
  c_async := false;
  c_request := [Write (Val "hNode") (SizeOf "CUgraphNode");
                Write (Val "event") (SizeOf "CUevent")];
  c_response := [Read (Val "return_value") (SizeOf "CUresult")];
  c_after := [] |}.

Definition cuGraphAddExternalSemaphoresSignalNode : client_stub := {|
  c_name := "cuGraphAddExternalSemaphoresSignalNode";
  c_params := [Pointer "phGraphNode" [];
               ByValue "hGraph" "CUgraph";
               Pointer "dependencies" [];
               ByValue "numDependencies" "size_t";
               Pointer "nodeParams" ["extSemArray"; "paramsArray"]];
  c_route := ForOwner "graph" "hGraph";
  c_local := [After (And (Eq (Load "CUresult" (Val "return_value")) (Num 0)) (Not (IsNull (Ref "phGraphNode")))) false "lupine_note_graph_node_owner_route" [ArgVal (Ref "phGraphNode"); Route]];
  c_guards := [Check (IsNull (Ref "nodeParams")) CUDA_ERROR_INVALID_VALUE;
               Check (Or (Lt (Div (Num SIZE_MAX) (SizeOf "*CUDA_EXT_SEM_SIGNAL_NODE_PARAMS::extSemArray")) (Field "CUDA_EXT_SEM_SIGNAL_NODE_PARAMS" "numExtSems" (Ref "nodeParams"))) (And (Not (Eq (Field "CUDA_EXT_SEM_SIGNAL_NODE_PARAMS" "numExtSems" (Ref "nodeParams")) (Num 0))) (IsNull (Sub "nodeParams" "extSemArray")))) CUDA_ERROR_INVALID_VALUE;
               Check (Or (Lt (Div (Num SIZE_MAX) (SizeOf "*CUDA_EXT_SEM_SIGNAL_NODE_PARAMS::paramsArray")) (Field "CUDA_EXT_SEM_SIGNAL_NODE_PARAMS" "numExtSems" (Ref "nodeParams"))) (And (Not (Eq (Field "CUDA_EXT_SEM_SIGNAL_NODE_PARAMS" "numExtSems" (Ref "nodeParams")) (Num 0))) (IsNull (Sub "nodeParams" "paramsArray")))) CUDA_ERROR_INVALID_VALUE;
               Check (And (Not (Eq (Mul (Load "size_t" (Val "numDependencies")) (SizeOf "CUgraphNode")) (Num 0))) (IsNull (Ref "dependencies"))) CUDA_ERROR_INVALID_VALUE];
  c_async := false;
  c_request := [Write (Ref "phGraphNode") (SizeOf "CUgraphNode");
                Write (Val "hGraph") (SizeOf "CUgraph");
                Write (Val "numDependencies") (SizeOf "size_t");
                Write (Ref "dependencies") (Mul (Load "size_t" (Val "numDependencies")) (SizeOf "CUgraphNode"));
                Write (Ref "nodeParams") (SizeOf "CUDA_EXT_SEM_SIGNAL_NODE_PARAMS");
                Write (Sub "nodeParams" "extSemArray") (Mul (Field "CUDA_EXT_SEM_SIGNAL_NODE_PARAMS" "numExtSems" (Ref "nodeParams")) (SizeOf "*CUDA_EXT_SEM_SIGNAL_NODE_PARAMS::extSemArray"));
                Write (Sub "nodeParams" "paramsArray") (Mul (Field "CUDA_EXT_SEM_SIGNAL_NODE_PARAMS" "numExtSems" (Ref "nodeParams")) (SizeOf "*CUDA_EXT_SEM_SIGNAL_NODE_PARAMS::paramsArray"))];
  c_response := [Read (Ref "phGraphNode") (SizeOf "CUgraphNode");
                 Read (Val "return_value") (SizeOf "CUresult")];
  c_after := [After (And (Eq (Load "CUresult" (Val "return_value")) (Num 0)) (Not (IsNull (Ref "phGraphNode")))) false "lupine_note_graph_node_owner_route" [ArgVal (Ref "phGraphNode"); Route]] |}.

Definition cuGraphExternalSemaphoresSignalNodeSetParams : client_stub := {|
  c_name := "cuGraphExternalSemaphoresSignalNodeSetParams";
  c_params := [ByValue "hNode" "CUgraphNode";
               Pointer "nodeParams" ["extSemArray"; "paramsArray"]];
  c_route := ForOwner "graph_node" "hNode";
  c_local := [];
  c_guards := [Check (IsNull (Ref "nodeParams")) CUDA_ERROR_INVALID_VALUE;
               Check (Or (Lt (Div (Num SIZE_MAX) (SizeOf "*CUDA_EXT_SEM_SIGNAL_NODE_PARAMS::extSemArray")) (Field "CUDA_EXT_SEM_SIGNAL_NODE_PARAMS" "numExtSems" (Ref "nodeParams"))) (And (Not (Eq (Field "CUDA_EXT_SEM_SIGNAL_NODE_PARAMS" "numExtSems" (Ref "nodeParams")) (Num 0))) (IsNull (Sub "nodeParams" "extSemArray")))) CUDA_ERROR_INVALID_VALUE;
               Check (Or (Lt (Div (Num SIZE_MAX) (SizeOf "*CUDA_EXT_SEM_SIGNAL_NODE_PARAMS::paramsArray")) (Field "CUDA_EXT_SEM_SIGNAL_NODE_PARAMS" "numExtSems" (Ref "nodeParams"))) (And (Not (Eq (Field "CUDA_EXT_SEM_SIGNAL_NODE_PARAMS" "numExtSems" (Ref "nodeParams")) (Num 0))) (IsNull (Sub "nodeParams" "paramsArray")))) CUDA_ERROR_INVALID_VALUE];
  c_async := false;
  c_request := [Write (Val "hNode") (SizeOf "CUgraphNode");
                Write (Ref "nodeParams") (SizeOf "CUDA_EXT_SEM_SIGNAL_NODE_PARAMS");
                Write (Sub "nodeParams" "extSemArray") (Mul (Field "CUDA_EXT_SEM_SIGNAL_NODE_PARAMS" "numExtSems" (Ref "nodeParams")) (SizeOf "*CUDA_EXT_SEM_SIGNAL_NODE_PARAMS::extSemArray"));
                Write (Sub "nodeParams" "paramsArray") (Mul (Field "CUDA_EXT_SEM_SIGNAL_NODE_PARAMS" "numExtSems" (Ref "nodeParams")) (SizeOf "*CUDA_EXT_SEM_SIGNAL_NODE_PARAMS::paramsArray"))];
  c_response := [Read (Val "return_value") (SizeOf "CUresult")];
  c_after := [] |}.

Definition cuGraphAddExternalSemaphoresWaitNode : client_stub := {|
  c_name := "cuGraphAddExternalSemaphoresWaitNode";
  c_params := [Pointer "phGraphNode" [];
               ByValue "hGraph" "CUgraph";
               Pointer "dependencies" [];
               ByValue "numDependencies" "size_t";
               Pointer "nodeParams" ["extSemArray"; "paramsArray"]];
  c_route := ForOwner "graph" "hGraph";
  c_local := [After (And (Eq (Load "CUresult" (Val "return_value")) (Num 0)) (Not (IsNull (Ref "phGraphNode")))) false "lupine_note_graph_node_owner_route" [ArgVal (Ref "phGraphNode"); Route]];
  c_guards := [Check (IsNull (Ref "nodeParams")) CUDA_ERROR_INVALID_VALUE;
               Check (Or (Lt (Div (Num SIZE_MAX) (SizeOf "*CUDA_EXT_SEM_WAIT_NODE_PARAMS::extSemArray")) (Field "CUDA_EXT_SEM_WAIT_NODE_PARAMS" "numExtSems" (Ref "nodeParams"))) (And (Not (Eq (Field "CUDA_EXT_SEM_WAIT_NODE_PARAMS" "numExtSems" (Ref "nodeParams")) (Num 0))) (IsNull (Sub "nodeParams" "extSemArray")))) CUDA_ERROR_INVALID_VALUE;
               Check (Or (Lt (Div (Num SIZE_MAX) (SizeOf "*CUDA_EXT_SEM_WAIT_NODE_PARAMS::paramsArray")) (Field "CUDA_EXT_SEM_WAIT_NODE_PARAMS" "numExtSems" (Ref "nodeParams"))) (And (Not (Eq (Field "CUDA_EXT_SEM_WAIT_NODE_PARAMS" "numExtSems" (Ref "nodeParams")) (Num 0))) (IsNull (Sub "nodeParams" "paramsArray")))) CUDA_ERROR_INVALID_VALUE;
               Check (And (Not (Eq (Mul (Load "size_t" (Val "numDependencies")) (SizeOf "CUgraphNode")) (Num 0))) (IsNull (Ref "dependencies"))) CUDA_ERROR_INVALID_VALUE];
  c_async := false;
  c_request := [Write (Ref "phGraphNode") (SizeOf "CUgraphNode");
                Write (Val "hGraph") (SizeOf "CUgraph");
                Write (Val "numDependencies") (SizeOf "size_t");
                Write (Ref "dependencies") (Mul (Load "size_t" (Val "numDependencies")) (SizeOf "CUgraphNode"));
                Write (Ref "nodeParams") (SizeOf "CUDA_EXT_SEM_WAIT_NODE_PARAMS");
                Write (Sub "nodeParams" "extSemArray") (Mul (Field "CUDA_EXT_SEM_WAIT_NODE_PARAMS" "numExtSems" (Ref "nodeParams")) (SizeOf "*CUDA_EXT_SEM_WAIT_NODE_PARAMS::extSemArray"));
                Write (Sub "nodeParams" "paramsArray") (Mul (Field "CUDA_EXT_SEM_WAIT_NODE_PARAMS" "numExtSems" (Ref "nodeParams")) (SizeOf "*CUDA_EXT_SEM_WAIT_NODE_PARAMS::paramsArray"))];
  c_response := [Read (Ref "phGraphNode") (SizeOf "CUgraphNode");
                 Read (Val "return_value") (SizeOf "CUresult")];
  c_after := [After (And (Eq (Load "CUresult" (Val "return_value")) (Num 0)) (Not (IsNull (Ref "phGraphNode")))) false "lupine_note_graph_node_owner_route" [ArgVal (Ref "phGraphNode"); Route]] |}.

Definition cuGraphExternalSemaphoresWaitNodeSetParams : client_stub := {|
  c_name := "cuGraphExternalSemaphoresWaitNodeSetParams";
  c_params := [ByValue "hNode" "CUgraphNode";
               Pointer "nodeParams" ["extSemArray"; "paramsArray"]];
  c_route := ForOwner "graph_node" "hNode";
  c_local := [];
  c_guards := [Check (IsNull (Ref "nodeParams")) CUDA_ERROR_INVALID_VALUE;
               Check (Or (Lt (Div (Num SIZE_MAX) (SizeOf "*CUDA_EXT_SEM_WAIT_NODE_PARAMS::extSemArray")) (Field "CUDA_EXT_SEM_WAIT_NODE_PARAMS" "numExtSems" (Ref "nodeParams"))) (And (Not (Eq (Field "CUDA_EXT_SEM_WAIT_NODE_PARAMS" "numExtSems" (Ref "nodeParams")) (Num 0))) (IsNull (Sub "nodeParams" "extSemArray")))) CUDA_ERROR_INVALID_VALUE;
               Check (Or (Lt (Div (Num SIZE_MAX) (SizeOf "*CUDA_EXT_SEM_WAIT_NODE_PARAMS::paramsArray")) (Field "CUDA_EXT_SEM_WAIT_NODE_PARAMS" "numExtSems" (Ref "nodeParams"))) (And (Not (Eq (Field "CUDA_EXT_SEM_WAIT_NODE_PARAMS" "numExtSems" (Ref "nodeParams")) (Num 0))) (IsNull (Sub "nodeParams" "paramsArray")))) CUDA_ERROR_INVALID_VALUE];
  c_async := false;
  c_request := [Write (Val "hNode") (SizeOf "CUgraphNode");
                Write (Ref "nodeParams") (SizeOf "CUDA_EXT_SEM_WAIT_NODE_PARAMS");
                Write (Sub "nodeParams" "extSemArray") (Mul (Field "CUDA_EXT_SEM_WAIT_NODE_PARAMS" "numExtSems" (Ref "nodeParams")) (SizeOf "*CUDA_EXT_SEM_WAIT_NODE_PARAMS::extSemArray"));
                Write (Sub "nodeParams" "paramsArray") (Mul (Field "CUDA_EXT_SEM_WAIT_NODE_PARAMS" "numExtSems" (Ref "nodeParams")) (SizeOf "*CUDA_EXT_SEM_WAIT_NODE_PARAMS::paramsArray"))];
  c_response := [Read (Val "return_value") (SizeOf "CUresult")];
  c_after := [] |}.

Definition cuGraphAddBatchMemOpNode : client_stub := {|
  c_name := "cuGraphAddBatchMemOpNode";
  c_params := [Pointer "phGraphNode" [];
               ByValue "hGraph" "CUgraph";
               Pointer "dependencies" [];
               ByValue "numDependencies" "size_t";
               Pointer "nodeParams" ["paramArray"]];
  c_route := ForOwner "graph" "hGraph";
  c_local := [After (And (Eq (Load "CUresult" (Val "return_value")) (Num 0)) (Not (IsNull (Ref "phGraphNode")))) false "lupine_note_graph_node_owner_route" [ArgVal (Ref "phGraphNode"); Route]];
  c_guards := [Check (IsNull (Ref "nodeParams")) CUDA_ERROR_INVALID_VALUE;
               Check (Or (Lt (Div (Num SIZE_MAX) (SizeOf "*CUDA_BATCH_MEM_OP_NODE_PARAMS::paramArray")) (Field "CUDA_BATCH_MEM_OP_NODE_PARAMS" "count" (Ref "nodeParams"))) (And (Not (Eq (Field "CUDA_BATCH_MEM_OP_NODE_PARAMS" "count" (Ref "nodeParams")) (Num 0))) (IsNull (Sub "nodeParams" "paramArray")))) CUDA_ERROR_INVALID_VALUE;
               Check (And (Not (Eq (Mul (Load "size_t" (Val "numDependencies")) (SizeOf "CUgraphNode")) (Num 0))) (IsNull (Ref "dependencies"))) CUDA_ERROR_INVALID_VALUE];
  c_async := false;
  c_request := [Write (Ref "phGraphNode") (SizeOf "CUgraphNode");
                Write (Val "hGraph") (SizeOf "CUgraph");
                Write (Val "numDependencies") (SizeOf "size_t");
                Write (Ref "dependencies") (Mul (Load "size_t" (Val "numDependencies")) (SizeOf "CUgraphNode"));
                Write (Ref "nodeParams") (SizeOf "CUDA_BATCH_MEM_OP_NODE_PARAMS");
                Write (Sub "nodeParams" "paramArray") (Mul (Field "CUDA_BATCH_MEM_OP_NODE_PARAMS" "count" (Ref "nodeParams")) (SizeOf "*CUDA_BATCH_MEM_OP_NODE_PARAMS::paramArray"))];
  c_response := [Read (Ref "phGraphNode") (SizeOf "CUgraphNode");
                 Read (Val "return_value") (SizeOf "CUresult")];
  c_after := [After (And (Eq (Load "CUresult" (Val "return_value")) (Num 0)) (Not (IsNull (Ref "phGraphNode")))) false "lupine_note_graph_node_owner_route" [ArgVal (Ref "phGraphNode"); Route]] |}.

Definition cuGraphBatchMemOpNodeSetParams : client_stub := {|
  c_name := "cuGraphBatchMemOpNodeSetParams";
  c_params := [ByValue "hNode" "CUgraphNode"; Pointer "nodeParams" ["paramArray"]];
  c_route := ForOwner "graph_node" "hNode";
  c_local := [];
  c_guards := [Check (IsNull (Ref "nodeParams")) CUDA_ERROR_INVALID_VALUE;
               Check (Or (Lt (Div (Num SIZE_MAX) (SizeOf "*CUDA_BATCH_MEM_OP_NODE_PARAMS::paramArray")) (Field "CUDA_BATCH_MEM_OP_NODE_PARAMS" "count" (Ref "nodeParams"))) (And (Not (Eq (Field "CUDA_BATCH_MEM_OP_NODE_PARAMS" "count" (Ref "nodeParams")) (Num 0))) (IsNull (Sub "nodeParams" "paramArray")))) CUDA_ERROR_INVALID_VALUE];
  c_async := false;
  c_request := [Write (Val "hNode") (SizeOf "CUgraphNode");
                Write (Ref "nodeParams") (SizeOf "CUDA_BATCH_MEM_OP_NODE_PARAMS");
                Write (Sub "nodeParams" "paramArray") (Mul (Field "CUDA_BATCH_MEM_OP_NODE_PARAMS" "count" (Ref "nodeParams")) (SizeOf "*CUDA_BATCH_MEM_OP_NODE_PARAMS::paramArray"))];
  c_response := [Read (Val "return_value") (SizeOf "CUresult")];
  c_after := [] |}.

Definition cuGraphExecBatchMemOpNodeSetParams : client_stub := {|
  c_name := "cuGraphExecBatchMemOpNodeSetParams";
  c_params := [ByValue "hGraphExec" "CUgraphExec";
               ByValue "hNode" "CUgraphNode";
               Pointer "nodeParams" ["paramArray"]];
  c_route := ForOwner "graph_exec" "hGraphExec";
  c_local := [];
  c_guards := [Check (IsNull (Ref "nodeParams")) CUDA_ERROR_INVALID_VALUE;
               Check (Or (Lt (Div (Num SIZE_MAX) (SizeOf "*CUDA_BATCH_MEM_OP_NODE_PARAMS::paramArray")) (Field "CUDA_BATCH_MEM_OP_NODE_PARAMS" "count" (Ref "nodeParams"))) (And (Not (Eq (Field "CUDA_BATCH_MEM_OP_NODE_PARAMS" "count" (Ref "nodeParams")) (Num 0))) (IsNull (Sub "nodeParams" "paramArray")))) CUDA_ERROR_INVALID_VALUE];
  c_async := false;
  c_request := [Write (Val "hGraphExec") (SizeOf "CUgraphExec");
                Write (Val "hNode") (SizeOf "CUgraphNode");
                Write (Ref "nodeParams") (SizeOf "CUDA_BATCH_MEM_OP_NODE_PARAMS");
                Write (Sub "nodeParams" "paramArray") (Mul (Field "CUDA_BATCH_MEM_OP_NODE_PARAMS" "count" (Ref "nodeParams")) (SizeOf "*CUDA_BATCH_MEM_OP_NODE_PARAMS::paramArray"))];
  c_response := [Read (Val "return_value") (SizeOf "CUresult")];
  c_after := [] |}.

Definition cuGraphAddMemFreeNode : client_stub := {|
  c_name := "cuGraphAddMemFreeNode";
  c_params := [Pointer "phGraphNode" [];
               ByValue "hGraph" "CUgraph";
               Pointer "dependencies" [];
               ByValue "numDependencies" "size_t";
               ByValue "dptr" "CUdeviceptr"];
  c_route := ForOwner "graph" "hGraph";
  c_local := [After (And (Eq (Load "CUresult" (Val "return_value")) (Num 0)) (Not (IsNull (Ref "phGraphNode")))) false "lupine_note_graph_node_owner_route" [ArgVal (Ref "phGraphNode"); Route]];
  c_guards := [Check (And (Not (Eq (Mul (Load "size_t" (Val "numDependencies")) (SizeOf "CUgraphNode")) (Num 0))) (IsNull (Ref "dependencies"))) CUDA_ERROR_INVALID_VALUE];
  c_async := false;
  c_request := [Write (Ref "phGraphNode") (SizeOf "CUgraphNode");
                Write (Val "hGraph") (SizeOf "CUgraph");
                Write (Val "numDependencies") (SizeOf "size_t");
                Write (Ref "dependencies") (Mul (Load "size_t" (Val "numDependencies")) (SizeOf "CUgraphNode"));
                Write (Val "dptr") (SizeOf "CUdeviceptr")];
  c_response := [Read (Ref "phGraphNode") (SizeOf "CUgraphNode");
                 Read (Val "return_value") (SizeOf "CUresult")];
  c_after := [After (And (Eq (Load "CUresult" (Val "return_value")) (Num 0)) (Not (IsNull (Ref "phGraphNode")))) false "lupine_note_graph_node_owner_route" [ArgVal (Ref "phGraphNode"); Route]] |}.

Definition cuGraphMemFreeNodeGetParams : client_stub := {|
  c_name := "cuGraphMemFreeNodeGetParams";
  c_params := [ByValue "hNode" "CUgraphNode"; Pointer "dptr_out" []];
  c_route := ForOwner "graph_node" "hNode";
  c_local := [];
  c_guards := [];
  c_async := false;
  c_request := [Write (Val "hNode") (SizeOf "CUgraphNode");
                Write (Ref "dptr_out") (SizeOf "CUdeviceptr")];
  c_response := [Read (Ref "dptr_out") (SizeOf "CUdeviceptr");
                 Read (Val "return_value") (SizeOf "CUresult")];
  c_after := [] |}.

Definition cuDeviceGraphMemTrim : client_stub := {|
  c_name := "cuDeviceGraphMemTrim";
  c_params := [ByValue "device" "CUdevice"];
  c_route := ForDevice "device";
  c_local := [];
  c_guards := [];
  c_async := false;
  c_request := [Write (Val "device") (SizeOf "CUdevice")];
  c_response := [Read (Val "return_value") (SizeOf "CUresult")];
  c_after := [] |}.

Definition cuGraphClone : client_stub := {|
  c_name := "cuGraphClone";
  c_params := [Pointer "phGraphClone" []; ByValue "originalGraph" "CUgraph"];
  c_route := ForOwner "graph" "originalGraph";
  c_local := [After (And (Eq (Load "CUresult" (Val "return_value")) (Num 0)) (Not (IsNull (Ref "phGraphClone")))) false "lupine_note_graph_owner_route" [ArgVal (Ref "phGraphClone"); Route]];
  c_guards := [];
  c_async := false;
  c_request := [Write (Ref "phGraphClone") (SizeOf "CUgraph");
                Write (Val "originalGraph") (SizeOf "CUgraph")];
  c_response := [Read (Ref "phGraphClone") (SizeOf "CUgraph");
                 Read (Val "return_value") (SizeOf "CUresult")];
  c_after := [After (And (Eq (Load "CUresult" (Val "return_value")) (Num 0)) (Not (IsNull (Ref "phGraphClone")))) false "lupine_note_graph_owner_route" [ArgVal (Ref "phGraphClone"); Route]] |}.

Definition cuGraphNodeFindInClone : client_stub := {|
  c_name := "cuGraphNodeFindInClone";
  c_params := [Pointer "phNode" [];
               ByValue "hOriginalNode" "CUgraphNode";
               ByValue "hClonedGraph" "CUgraph"];
  c_route := ForOwner "graph_node" "hOriginalNode";
  c_local := [After (And (Eq (Load "CUresult" (Val "return_value")) (Num 0)) (Not (IsNull (Ref "phNode")))) false "lupine_note_graph_node_owner_route" [ArgVal (Ref "phNode"); Route]];
  c_guards := [];
  c_async := false;
  c_request := [Write (Ref "phNode") (SizeOf "CUgraphNode");
                Write (Val "hOriginalNode") (SizeOf "CUgraphNode");
                Write (Val "hClonedGraph") (SizeOf "CUgraph")];
  c_response := [Read (Ref "phNode") (SizeOf "CUgraphNode");
                 Read (Val "return_value") (SizeOf "CUresult")];
  c_after := [After (And (Eq (Load "CUresult" (Val "return_value")) (Num 0)) (Not (IsNull (Ref "phNode")))) false "lupine_note_graph_node_owner_route" [ArgVal (Ref "phNode"); Route]] |}.

Definition cuGraphNodeGetType : client_stub := {|
  c_name := "cuGraphNodeGetType";
  c_params := [ByValue "hNode" "CUgraphNode"; Pointer "type" []];
  c_route := ForOwner "graph_node" "hNode";
  c_local := [];
  c_guards := [];
  c_async := false;
  c_request := [Write (Val "hNode") (SizeOf "CUgraphNode");
                Write (Ref "type") (SizeOf "CUgraphNodeType")];
  c_response := [Read (Ref "type") (SizeOf "CUgraphNodeType");
                 Read (Val "return_value") (SizeOf "CUresult")];
  c_after := [] |}.

Definition cuGraphNodeGetContainingGraph : client_stub := {|
  c_name := "cuGraphNodeGetContainingGraph";
  c_params := [ByValue "hNode" "CUgraphNode"; Pointer "phGraph" []];
  c_route := ForOwner "graph_node" "hNode";
  c_local := [After (And (Eq (Load "CUresult" (Val "return_value")) (Num 0)) (Not (IsNull (Ref "phGraph")))) false "lupine_note_graph_owner_route" [ArgVal (Ref "phGraph"); Route]];
  c_guards := [];
  c_async := false;
  c_request := [Write (Val "hNode") (SizeOf "CUgraphNode")];
  c_response := [Read (Ref "phGraph") (SizeOf "CUgraph");
                 Read (Val "return_value") (SizeOf "CUresult")];
  c_after := [After (And (Eq (Load "CUresult" (Val "return_value")) (Num 0)) (Not (IsNull (Ref "phGraph")))) false "lupine_note_graph_owner_route" [ArgVal (Ref "phGraph"); Route]] |}.

Definition cuGraphNodeGetLocalId : client_stub := {|
  c_name := "cuGraphNodeGetLocalId";
  c_params := [ByValue "hNode" "CUgraphNode"; Pointer "nodeId" []];
  c_route := ForOwner "graph_node" "hNode";
  c_local := [];
  c_guards := [];
  c_async := false;
  c_request := [Write (Val "hNode") (SizeOf "CUgraphNode")];
  c_response := [Read (Ref "nodeId") (SizeOf "unsigned int");
                 Read (Val "return_value") (SizeOf "CUresult")];
  c_after := [] |}.

Definition cuGraphNodeGetToolsId : client_stub := {|
  c_name := "cuGraphNodeGetToolsId";
  c_params := [ByValue "hNode" "CUgraphNode"; Pointer "toolsNodeId" []];
  c_route := ForOwner "graph_node" "hNode";
  c_local := [];
  c_guards := [];
  c_async := false;
  c_request := [Write (Val "hNode") (SizeOf "CUgraphNode")];
  c_response := [Read (Ref "toolsNodeId") (SizeOf "unsigned long long");
                 Read (Val "return_value") (SizeOf "CUresult")];
  c_after := [] |}.

Definition cuGraphGetId : client_stub := {|
  c_name := "cuGraphGetId";
  c_params := [ByValue "hGraph" "CUgraph"; Pointer "graphId" []];
  c_route := ForOwner "graph" "hGraph";
  c_local := [];
  c_guards := [];
  c_async := false;
  c_request := [Write (Val "hGraph") (SizeOf "CUgraph")];
  c_response := [Read (Ref "graphId") (SizeOf "unsigned int");
                 Read (Val "return_value") (SizeOf "CUresult")];
  c_after := [] |}.

Definition cuGraphExecGetId : client_stub := {|
  c_name := "cuGraphExecGetId";
  c_params := [ByValue "hGraphExec" "CUgraphExec"; Pointer "graphId" []];
  c_route := ForOwner "graph_exec" "hGraphExec";
  c_local := [];
  c_guards := [];
  c_async := false;
  c_request := [Write (Val "hGraphExec") (SizeOf "CUgraphExec")];
  c_response := [Read (Ref "graphId") (SizeOf "unsigned int");
                 Read (Val "return_value") (SizeOf "CUresult")];
  c_after := [] |}.

Definition cuGraphGetNodes : client_stub := {|
  c_name := "cuGraphGetNodes";
  c_params := [ByValue "hGraph" "CUgraph"; Pointer "nodes" []; Pointer "numNodes" []];
  c_route := ForOwner "graph" "hGraph";
  c_local := [];
  c_guards := [Local "numNodes_requested" "size_t" (Cond (Not (IsNull (Ref "nodes"))) (Load "size_t" (Ref "numNodes")) (Num 0));
               Local "nodes_null" "uint8_t" (Cond (IsNull (Ref "nodes")) (Num 1) (Num 0))];
  c_async := false;
  c_request := [Write (Val "hGraph") (SizeOf "CUgraph");
                Write (Val "numNodes_requested") (SizeOf "size_t");
                Write (Val "nodes_null") (SizeOf "uint8_t")];
  c_response := [Read (Ref "numNodes") (SizeOf "size_t");
                 When (And (And (Not (IsNull (Ref "nodes"))) (Not (Eq (Load "size_t" (Val "numNodes_requested")) (Num 0)))) (Not (Eq (Load "size_t" (Ref "numNodes")) (Num 0)))) (Read (Ref "nodes") (Mul (Cond (Lt (Load "size_t" (Ref "numNodes")) (Load "size_t" (Val "numNodes_requested"))) (Load "size_t" (Ref "numNodes")) (Load "size_t" (Val "numNodes_requested"))) (SizeOf "CUgraphNode")));
                 Read (Val "return_value") (SizeOf "CUresult")];
  c_after := [] |}.

Definition cuGraphGetRootNodes : client_stub := {|
  c_name := "cuGraphGetRootNodes";
  c_params := [ByValue "hGraph" "CUgraph";
               Pointer "rootNodes" [];
               Pointer "numRootNodes" []];
  c_route := ForOwner "graph" "hGraph";
  c_local := [];
  c_guards := [Local "numRootNodes_requested" "size_t" (Cond (Not (IsNull (Ref "rootNodes"))) (Load "size_t" (Ref "numRootNodes")) (Num 0));
               Local "rootNodes_null" "uint8_t" (Cond (IsNull (Ref "rootNodes")) (Num 1) (Num 0))];
  c_async := false;
  c_request := [Write (Val "hGraph") (SizeOf "CUgraph");
                Write (Val "numRootNodes_requested") (SizeOf "size_t");
                Write (Val "rootNodes_null") (SizeOf "uint8_t")];
  c_response := [Read (Ref "numRootNodes") (SizeOf "size_t");
                 When (And (And (Not (IsNull (Ref "rootNodes"))) (Not (Eq (Load "size_t" (Val "numRootNodes_requested")) (Num 0)))) (Not (Eq (Load "size_t" (Ref "numRootNodes")) (Num 0)))) (Read (Ref "rootNodes") (Mul (Cond (Lt (Load "size_t" (Ref "numRootNodes")) (Load "size_t" (Val "numRootNodes_requested"))) (Load "size_t" (Ref "numRootNodes")) (Load "size_t" (Val "numRootNodes_requested"))) (SizeOf "CUgraphNode")));
                 Read (Val "return_value") (SizeOf "CUresult")];
  c_after := [] |}.

Definition cuGraphGetEdges_v2 : client_stub := {|
  c_name := "cuGraphGetEdges_v2";
  c_params := [ByValue "hGraph" "CUgraph";
               Pointer "from" [];
               Pointer "to" [];
               Pointer "edgeData" [];
               Pointer "numEdges" []];
  c_route := ForOwner "graph" "hGraph";
  c_local := [];
  c_guards := [Local "numEdges_requested" "size_t" (Cond (Not (IsNull (Ref "from"))) (Load "size_t" (Ref "numEdges")) (Num 0));
               Local "from_null" "uint8_t" (Cond (IsNull (Ref "from")) (Num 1) (Num 0));
               Local "to_null" "uint8_t" (Cond (IsNull (Ref "to")) (Num 1) (Num 0));
               Local "edgeData_null" "uint8_t" (Cond (IsNull (Ref "edgeData")) (Num 1) (Num 0))];
  c_async := false;
  c_request := [Write (Val "hGraph") (SizeOf "CUgraph");
                Write (Val "numEdges_requested") (SizeOf "size_t");
                Write (Val "from_null") (SizeOf "uint8_t");
                Write (Val "to_null") (SizeOf "uint8_t");
                Write (Val "edgeData_null") (SizeOf "uint8_t")];
  c_response := [Read (Ref "numEdges") (SizeOf "size_t");
                 When (And (And (Not (IsNull (Ref "from"))) (Not (Eq (Load "size_t" (Val "numEdges_requested")) (Num 0)))) (Not (Eq (Load "size_t" (Ref "numEdges")) (Num 0)))) (Read (Ref "from") (Mul (Cond (Lt (Load "size_t" (Ref "numEdges")) (Load "size_t" (Val "numEdges_requested"))) (Load "size_t" (Ref "numEdges")) (Load "size_t" (Val "numEdges_requested"))) (SizeOf "CUgraphNode")));
                 When (And (And (Not (IsNull (Ref "to"))) (Not (Eq (Load "size_t" (Val "numEdges_requested")) (Num 0)))) (Not (Eq (Load "size_t" (Ref "numEdges")) (Num 0)))) (Read (Ref "to") (Mul (Cond (Lt (Load "size_t" (Ref "numEdges")) (Load "size_t" (Val "numEdges_requested"))) (Load "size_t" (Ref "numEdges")) (Load "size_t" (Val "numEdges_requested"))) (SizeOf "CUgraphNode")));
                 When (And (And (Not (IsNull (Ref "edgeData"))) (Not (Eq (Load "size_t" (Val "numEdges_requested")) (Num 0)))) (Not (Eq (Load "size_t" (Ref "numEdges")) (Num 0)))) (Read (Ref "edgeData") (Mul (Cond (Lt (Load "size_t" (Ref "numEdges")) (Load "size_t" (Val "numEdges_requested"))) (Load "size_t" (Ref "numEdges")) (Load "size_t" (Val "numEdges_requested"))) (SizeOf "CUgraphEdgeData")));
                 Read (Val "return_value") (SizeOf "CUresult")];
  c_after := [] |}.

Definition cuGraphNodeGetDependencies_v2 : client_stub := {|
  c_name := "cuGraphNodeGetDependencies_v2";
  c_params := [ByValue "hNode" "CUgraphNode";
               Pointer "dependencies" [];
               Pointer "edgeData" [];
               Pointer "numDependencies" []];
  c_route := ForOwner "graph_node" "hNode";
  c_local := [];
  c_guards := [Local "numDependencies_requested" "size_t" (Cond (Not (IsNull (Ref "dependencies"))) (Load "size_t" (Ref "numDependencies")) (Num 0));
               Local "dependencies_null" "uint8_t" (Cond (IsNull (Ref "dependencies")) (Num 1) (Num 0));
               Local "edgeData_null" "uint8_t" (Cond (IsNull (Ref "edgeData")) (Num 1) (Num 0))];
  c_async := false;
  c_request := [Write (Val "hNode") (SizeOf "CUgraphNode");
                Write (Val "numDependencies_requested") (SizeOf "size_t");
                Write (Val "dependencies_null") (SizeOf "uint8_t");
                Write (Val "edgeData_null") (SizeOf "uint8_t")];
  c_response := [Read (Ref "numDependencies") (SizeOf "size_t");
                 When (And (And (Not (IsNull (Ref "dependencies"))) (Not (Eq (Load "size_t" (Val "numDependencies_requested")) (Num 0)))) (Not (Eq (Load "size_t" (Ref "numDependencies")) (Num 0)))) (Read (Ref "dependencies") (Mul (Cond (Lt (Load "size_t" (Ref "numDependencies")) (Load "size_t" (Val "numDependencies_requested"))) (Load "size_t" (Ref "numDependencies")) (Load "size_t" (Val "numDependencies_requested"))) (SizeOf "CUgraphNode")));
                 When (And (And (Not (IsNull (Ref "edgeData"))) (Not (Eq (Load "size_t" (Val "numDependencies_requested")) (Num 0)))) (Not (Eq (Load "size_t" (Ref "numDependencies")) (Num 0)))) (Read (Ref "edgeData") (Mul (Cond (Lt (Load "size_t" (Ref "numDependencies")) (Load "size_t" (Val "numDependencies_requested"))) (Load "size_t" (Ref "numDependencies")) (Load "size_t" (Val "numDependencies_requested"))) (SizeOf "CUgraphEdgeData")));
                 Read (Val "return_value") (SizeOf "CUresult")];
  c_after := [] |}.

Definition cuGraphNodeGetDependentNodes_v2 : client_stub := {|
  c_name := "cuGraphNodeGetDependentNodes_v2";
  c_params := [ByValue "hNode" "CUgraphNode";
               Pointer "dependentNodes" [];
               Pointer "edgeData" [];
               Pointer "numDependentNodes" []];
  c_route := ForOwner "graph_node" "hNode";
  c_local := [];
  c_guards := [Local "numDependentNodes_requested" "size_t" (Cond (Not (IsNull (Ref "dependentNodes"))) (Load "size_t" (Ref "numDependentNodes")) (Num 0));
               Local "dependentNodes_null" "uint8_t" (Cond (IsNull (Ref "dependentNodes")) (Num 1) (Num 0));
               Local "edgeData_null" "uint8_t" (Cond (IsNull (Ref "edgeData")) (Num 1) (Num 0))];
  c_async := false;
  c_request := [Write (Val "hNode") (SizeOf "CUgraphNode");
                Write (Val "numDependentNodes_requested") (SizeOf "size_t");
                Write (Val "dependentNodes_null") (SizeOf "uint8_t");
                Write (Val "edgeData_null") (SizeOf "uint8_t")];
  c_response := [Read (Ref "numDependentNodes") (SizeOf "size_t");
                 When (And (And (Not (IsNull (Ref "dependentNodes"))) (Not (Eq (Load "size_t" (Val "numDependentNodes_requested")) (Num 0)))) (Not (Eq (Load "size_t" (Ref "numDependentNodes")) (Num 0)))) (Read (Ref "dependentNodes") (Mul (Cond (Lt (Load "size_t" (Ref "numDependentNodes")) (Load "size_t" (Val "numDependentNodes_requested"))) (Load "size_t" (Ref "numDependentNodes")) (Load "size_t" (Val "numDependentNodes_requested"))) (SizeOf "CUgraphNode")));
                 When (And (And (Not (IsNull (Ref "edgeData"))) (Not (Eq (Load "size_t" (Val "numDependentNodes_requested")) (Num 0)))) (Not (Eq (Load "size_t" (Ref "numDependentNodes")) (Num 0)))) (Read (Ref "edgeData") (Mul (Cond (Lt (Load "size_t" (Ref "numDependentNodes")) (Load "size_t" (Val "numDependentNodes_requested"))) (Load "size_t" (Ref "numDependentNodes")) (Load "size_t" (Val "numDependentNodes_requested"))) (SizeOf "CUgraphEdgeData")));
                 Read (Val "return_value") (SizeOf "CUresult")];
  c_after := [] |}.

Definition cuGraphDestroyNode : client_stub := {|
  c_name := "cuGraphDestroyNode";
  c_params := [ByValue "hNode" "CUgraphNode"];
  c_route := ForOwner "graph_node" "hNode";
  c_local := [After (Eq (Load "CUresult" (Val "return_value")) (Num 0)) false "lupine_deep_node_cache_reset" [ArgVal (Val "hNode")]];
  c_guards := [];
  c_async := false;
  c_request := [Write (Val "hNode") (SizeOf "CUgraphNode")];
  c_response := [Read (Val "return_value") (SizeOf "CUresult")];
  c_after := [After (Eq (Load "CUresult" (Val "return_value")) (Num 0)) false "lupine_deep_node_cache_reset" [ArgVal (Val "hNode")]] |}.

Definition cuGraphInstantiateWithFlags : client_stub := {|
  c_name := "cuGraphInstantiateWithFlags";
  c_params := [Pointer "phGraphExec" [];
               ByValue "hGraph" "CUgraph";
               ByValue "flags" "unsigned long long"];
  c_route := ForOwner "graph" "hGraph";
  c_local := [After (And (Eq (Load "CUresult" (Val "return_value")) (Num 0)) (Not (IsNull (Ref "phGraphExec")))) false "lupine_note_graph_exec_owner_route" [ArgVal (Ref "phGraphExec"); Route]];
  c_guards := [];
  c_async := false;
  c_request := [Write (Ref "phGraphExec") (SizeOf "CUgraphExec");
                Write (Val "hGraph") (SizeOf "CUgraph");
                Write (Val "flags") (SizeOf "unsigned long long")];
  c_response := [Read (Ref "phGraphExec") (SizeOf "CUgraphExec");
                 Read (Val "return_value") (SizeOf "CUresult")];
  c_after := [After (And (Eq (Load "CUresult" (Val "return_value")) (Num 0)) (Not (IsNull (Ref "phGraphExec")))) false "lupine_note_graph_exec_owner_route" [ArgVal (Ref "phGraphExec"); Route]] |}.

Definition cuGraphExecGetFlags : client_stub := {|
  c_name := "cuGraphExecGetFlags";
  c_params := [ByValue "hGraphExec" "CUgraphExec"; Pointer "flags" []];
  c_route := ForOwner "graph_exec" "hGraphExec";
  c_local := [];
  c_guards := [];
  c_async := false;
  c_request := [Write (Val "hGraphExec") (SizeOf "CUgraphExec");
                Write (Ref "flags") (SizeOf "cuuint64_t")];
  c_response := [Read (Ref "flags") (SizeOf "cuuint64_t");
                 Read (Val "return_value") (SizeOf "CUresult")];
  c_after := [] |}.

Definition cuGraphExecMemcpyNodeSetParams : client_stub := {|
  c_name := "cuGraphExecMemcpyNodeSetParams";
  c_params := [ByValue "hGraphExec" "CUgraphExec";
               ByValue "hNode" "CUgraphNode";
               Pointer "copyParams" [];
               ByValue "ctx" "CUcontext"];
  c_route := ForOwner "graph_exec" "hGraphExec";
  c_local := [];
  c_guards := [];
  c_async := false;
  c_request := [Write (Val "hGraphExec") (SizeOf "CUgraphExec");
                Write (Val "hNode") (SizeOf "CUgraphNode");
                Write (Ref "copyParams") (SizeOf "CUDA_MEMCPY3D");
                Write (Val "ctx") (SizeOf "CUcontext")];
  c_response := [Read (Val "return_value") (SizeOf "CUresult")];
  c_after := [] |}.

Definition cuGraphExecChildGraphNodeSetParams : client_stub := {|
  c_name := "cuGraphExecChildGraphNodeSetParams";
  c_params := [ByValue "hGraphExec" "CUgraphExec";
               ByValue "hNode" "CUgraphNode";
               ByValue "childGraph" "CUgraph"];
  c_route := ForOwner "graph_exec" "hGraphExec";
  c_local := [];
  c_guards := [];
  c_async := false;
  c_request := [Write (Val "hGraphExec") (SizeOf "CUgraphExec");
                Write (Val "hNode") (SizeOf "CUgraphNode");
                Write (Val "childGraph") (SizeOf "CUgraph")];
  c_response := [Read (Val "return_value") (SizeOf "CUresult")];
  c_after := [] |}.

Definition cuGraphExecEventRecordNodeSetEvent : client_stub := {|
  c_name := "cuGraphExecEventRecordNodeSetEvent";
  c_params := [ByValue "hGraphExec" "CUgraphExec";
               ByValue "hNode" "CUgraphNode";
               ByValue "event" "CUevent"];
  c_route := ForOwner "graph_exec" "hGraphExec";
  c_local := [];
  c_guards := [];
  c_async := false;
  c_request := [Write (Val "hGraphExec") (SizeOf "CUgraphExec");
                Write (Val "hNode") (SizeOf "CUgraphNode");
                Write (Val "event") (SizeOf "CUevent")];
  c_response := [Read (Val "return_value") (SizeOf "CUresult")];
  c_after := [] |}.

Definition cuGraphExecEventWaitNodeSetEvent : client_stub := {|
  c_name := "cuGraphExecEventWaitNodeSetEvent";
  c_params := [ByValue "hGraphExec" "CUgraphExec";
               ByValue "hNode" "CUgraphNode";
               ByValue "event" "CUevent"];
  c_route := ForOwner "graph_exec" "hGraphExec";
  c_local := [];
  c_guards := [];
  c_async := false;
  c_request := [Write (Val "hGraphExec") (SizeOf "CUgraphExec");
                Write (Val "hNode") (SizeOf "CUgraphNode");
                Write (Val "event") (SizeOf "CUevent")];
  c_response := [Read (Val "return_value") (SizeOf "CUresult")];
  c_after := [] |}.

Definition cuGraphExecExternalSemaphoresSignalNodeSetParams : client_stub := {|
  c_name := "cuGraphExecExternalSemaphoresSignalNodeSetParams";
  c_params := [ByValue "hGraphExec" "CUgraphExec";
               ByValue "hNode" "CUgraphNode";
               Pointer "nodeParams" ["extSemArray"; "paramsArray"]];
  c_route := ForOwner "graph_exec" "hGraphExec";
  c_local := [];
  c_guards := [Check (IsNull (Ref "nodeParams")) CUDA_ERROR_INVALID_VALUE;
               Check (Or (Lt (Div (Num SIZE_MAX) (SizeOf "*CUDA_EXT_SEM_SIGNAL_NODE_PARAMS::extSemArray")) (Field "CUDA_EXT_SEM_SIGNAL_NODE_PARAMS" "numExtSems" (Ref "nodeParams"))) (And (Not (Eq (Field "CUDA_EXT_SEM_SIGNAL_NODE_PARAMS" "numExtSems" (Ref "nodeParams")) (Num 0))) (IsNull (Sub "nodeParams" "extSemArray")))) CUDA_ERROR_INVALID_VALUE;
               Check (Or (Lt (Div (Num SIZE_MAX) (SizeOf "*CUDA_EXT_SEM_SIGNAL_NODE_PARAMS::paramsArray")) (Field "CUDA_EXT_SEM_SIGNAL_NODE_PARAMS" "numExtSems" (Ref "nodeParams"))) (And (Not (Eq (Field "CUDA_EXT_SEM_SIGNAL_NODE_PARAMS" "numExtSems" (Ref "nodeParams")) (Num 0))) (IsNull (Sub "nodeParams" "paramsArray")))) CUDA_ERROR_INVALID_VALUE];
  c_async := false;
  c_request := [Write (Val "hGraphExec") (SizeOf "CUgraphExec");
                Write (Val "hNode") (SizeOf "CUgraphNode");
                Write (Ref "nodeParams") (SizeOf "CUDA_EXT_SEM_SIGNAL_NODE_PARAMS");
                Write (Sub "nodeParams" "extSemArray") (Mul (Field "CUDA_EXT_SEM_SIGNAL_NODE_PARAMS" "numExtSems" (Ref "nodeParams")) (SizeOf "*CUDA_EXT_SEM_SIGNAL_NODE_PARAMS::extSemArray"));
                Write (Sub "nodeParams" "paramsArray") (Mul (Field "CUDA_EXT_SEM_SIGNAL_NODE_PARAMS" "numExtSems" (Ref "nodeParams")) (SizeOf "*CUDA_EXT_SEM_SIGNAL_NODE_PARAMS::paramsArray"))];
  c_response := [Read (Val "return_value") (SizeOf "CUresult")];
  c_after := [] |}.

Definition cuGraphExecExternalSemaphoresWaitNodeSetParams : client_stub := {|
  c_name := "cuGraphExecExternalSemaphoresWaitNodeSetParams";
  c_params := [ByValue "hGraphExec" "CUgraphExec";
               ByValue "hNode" "CUgraphNode";
               Pointer "nodeParams" ["extSemArray"; "paramsArray"]];
  c_route := ForOwner "graph_exec" "hGraphExec";
  c_local := [];
  c_guards := [Check (IsNull (Ref "nodeParams")) CUDA_ERROR_INVALID_VALUE;
               Check (Or (Lt (Div (Num SIZE_MAX) (SizeOf "*CUDA_EXT_SEM_WAIT_NODE_PARAMS::extSemArray")) (Field "CUDA_EXT_SEM_WAIT_NODE_PARAMS" "numExtSems" (Ref "nodeParams"))) (And (Not (Eq (Field "CUDA_EXT_SEM_WAIT_NODE_PARAMS" "numExtSems" (Ref "nodeParams")) (Num 0))) (IsNull (Sub "nodeParams" "extSemArray")))) CUDA_ERROR_INVALID_VALUE;
               Check (Or (Lt (Div (Num SIZE_MAX) (SizeOf "*CUDA_EXT_SEM_WAIT_NODE_PARAMS::paramsArray")) (Field "CUDA_EXT_SEM_WAIT_NODE_PARAMS" "numExtSems" (Ref "nodeParams"))) (And (Not (Eq (Field "CUDA_EXT_SEM_WAIT_NODE_PARAMS" "numExtSems" (Ref "nodeParams")) (Num 0))) (IsNull (Sub "nodeParams" "paramsArray")))) CUDA_ERROR_INVALID_VALUE];
  c_async := false;
  c_request := [Write (Val "hGraphExec") (SizeOf "CUgraphExec");
                Write (Val "hNode") (SizeOf "CUgraphNode");
                Write (Ref "nodeParams") (SizeOf "CUDA_EXT_SEM_WAIT_NODE_PARAMS");
                Write (Sub "nodeParams" "extSemArray") (Mul (Field "CUDA_EXT_SEM_WAIT_NODE_PARAMS" "numExtSems" (Ref "nodeParams")) (SizeOf "*CUDA_EXT_SEM_WAIT_NODE_PARAMS::extSemArray"));
                Write (Sub "nodeParams" "paramsArray") (Mul (Field "CUDA_EXT_SEM_WAIT_NODE_PARAMS" "numExtSems" (Ref "nodeParams")) (SizeOf "*CUDA_EXT_SEM_WAIT_NODE_PARAMS::paramsArray"))];
  c_response := [Read (Val "return_value") (SizeOf "CUresult")];
  c_after := [] |}.

Definition cuGraphNodeSetEnabled : client_stub := {|
  c_name := "cuGraphNodeSetEnabled";
  c_params := [ByValue "hGraphExec" "CUgraphExec";
               ByValue "hNode" "CUgraphNode";
               ByValue "isEnabled" "unsigned int"];
  c_route := ForOwner "graph_exec" "hGraphExec";
  c_local := [];
  c_guards := [];
  c_async := false;
  c_request := [Write (Val "hGraphExec") (SizeOf "CUgraphExec");
                Write (Val "hNode") (SizeOf "CUgraphNode");
                Write (Val "isEnabled") (SizeOf "unsigned int")];
  c_response := [Read (Val "return_value") (SizeOf "CUresult")];
  c_after := [] |}.

Definition cuGraphNodeGetEnabled : client_stub := {|
  c_name := "cuGraphNodeGetEnabled";
  c_params := [ByValue "hGraphExec" "CUgraphExec";
               ByValue "hNode" "CUgraphNode";
               Pointer "isEnabled" []];
  c_route := ForOwner "graph_exec" "hGraphExec";
  c_local := [];
  c_guards := [];
  c_async := false;
  c_request := [Write (Val "hGraphExec") (SizeOf "CUgraphExec");
                Write (Val "hNode") (SizeOf "CUgraphNode");
                Write (Ref "isEnabled") (SizeOf "unsigned int")];
  c_response := [Read (Ref "isEnabled") (SizeOf "unsigned int");
                 Read (Val "return_value") (SizeOf "CUresult")];
  c_after := [] |}.

Definition cuGraphUpload : client_stub := {|
  c_name := "cuGraphUpload";
  c_params := [ByValue "hGraphExec" "CUgraphExec"; ByValue "hStream" "CUstream"];
  c_route := ForOwner "graph_exec" "hGraphExec";
  c_local := [];
  c_guards := [];
  c_async := false;
  c_request := [Write (Val "hGraphExec") (SizeOf "CUgraphExec");
                Write (Val "hStream") (SizeOf "CUstream")];
  c_response := [Read (Val "return_value") (SizeOf "CUresult")];
  c_after := [] |}.

Definition cuGraphLaunch : client_stub := {|
  c_name := "cuGraphLaunch";
  c_params := [ByValue "hGraphExec" "CUgraphExec"; ByValue "hStream" "CUstream"];
  c_route := ForOwner "graph_exec" "hGraphExec";
  c_local := [];
  c_guards := [Sequence "async_sequence"];
  c_async := true;
  c_request := [Write (Val "async_sequence") (SizeOf "uint64_t");
                Write (Val "hGraphExec") (SizeOf "CUgraphExec");
                Write (Val "hStream") (SizeOf "CUstream")];
  c_response := [];
  c_after := [] |}.

Definition cuGraphExecDestroy : client_stub := {|
  c_name := "cuGraphExecDestroy";
  c_params := [ByValue "hGraphExec" "CUgraphExec"];
  c_route := ForOwner "graph_exec" "hGraphExec";
  c_local := [];
  c_guards := [];
  c_async := false;
  c_request := [Write (Val "hGraphExec") (SizeOf "CUgraphExec")];
  c_response := [Read (Val "return_value") (SizeOf "CUresult")];
  c_after := [] |}.

Definition cuGraphExecUpdate_v2 : client_stub := {|
  c_name := "cuGraphExecUpdate_v2";
  c_params := [ByValue "hGraphExec" "CUgraphExec";
               ByValue "hGraph" "CUgraph";
               Pointer "resultInfo" []];
  c_route := ForOwner "graph_exec" "hGraphExec";
  c_local := [];
  c_guards := [];
  c_async := false;
  c_request := [Write (Val "hGraphExec") (SizeOf "CUgraphExec");
                Write (Val "hGraph") (SizeOf "CUgraph");
                Write (Ref "resultInfo") (SizeOf "CUgraphExecUpdateResultInfo")];
  c_response := [Read (Ref "resultInfo") (SizeOf "CUgraphExecUpdateResultInfo");
                 Read (Val "return_value") (SizeOf "CUresult")];
  c_after := [] |}.

Definition cuGraphKernelNodeCopyAttributes : client_stub := {|
  c_name := "cuGraphKernelNodeCopyAttributes";
  c_params := [ByValue "dst" "CUgraphNode"; ByValue "src" "CUgraphNode"];
  c_route := ForOwner "graph_node" "dst";
  c_local := [];
  c_guards := [];
  c_async := false;
  c_request := [Write (Val "dst") (SizeOf "CUgraphNode");
                Write (Val "src") (SizeOf "CUgraphNode")];
  c_response := [Read (Val "return_value") (SizeOf "CUresult")];
  c_after := [] |}.

Definition cuGraphKernelNodeGetAttribute : client_stub := {|
  c_name := "cuGraphKernelNodeGetAttribute";
  c_params := [ByValue "hNode" "CUgraphNode";
               ByValue "attr" "CUkernelNodeAttrID";
               Pointer "value_out" []];
  c_route := ForOwner "graph_node" "hNode";
  c_local := [];
  c_guards := [];
  c_async := false;
  c_request := [Write (Val "hNode") (SizeOf "CUgraphNode");
                Write (Val "attr") (SizeOf "CUkernelNodeAttrID");
                Write (Ref "value_out") (SizeOf "CUkernelNodeAttrValue")];
  c_response := [Read (Ref "value_out") (SizeOf "CUkernelNodeAttrValue");
                 Read (Val "return_value") (SizeOf "CUresult")];
  c_after := [] |}.

Definition cuGraphKernelNodeSetAttribute : client_stub := {|
  c_name := "cuGraphKernelNodeSetAttribute";
  c_params := [ByValue "hNode" "CUgraphNode";
               ByValue "attr" "CUkernelNodeAttrID";
               Pointer "value" []];
  c_route := ForOwner "graph_node" "hNode";
  c_local := [];
  c_guards := [];
  c_async := false;
  c_request := [Write (Val "hNode") (SizeOf "CUgraphNode");
                Write (Val "attr") (SizeOf "CUkernelNodeAttrID");
                Write (Ref "value") (SizeOf "CUkernelNodeAttrValue")];
  c_response := [Read (Val "return_value") (SizeOf "CUresult")];
  c_after := [] |}.

Definition cuGraphDebugDotPrint : client_stub := {|
  c_name := "cuGraphDebugDotPrint";
  c_params := [ByValue "hGraph" "CUgraph";
               Pointer "path" [];
               ByValue "flags" "unsigned int"];
  c_route := ForOwner "graph" "hGraph";
  c_local := [];
  c_guards := [Local "path_len" "size_t" (Add (Strlen (Ref "path")) (Num 1))];
  c_async := false;
  c_request := [Write (Val "hGraph") (SizeOf "CUgraph");
                Write (Val "path_len") (SizeOf "size_t");
                Write (Ref "path") (Load "size_t" (Val "path_len"));
                Write (Val "flags") (SizeOf "unsigned int")];
  c_response := [Read (Val "return_value") (SizeOf "CUresult")];
  c_after := [] |}.

Definition cuUserObjectRetain : client_stub := {|
  c_name := "cuUserObjectRetain";
  c_params := [ByValue "object" "CUuserObject"; ByValue "count" "unsigned int"];
  c_route := ForDefault;
  c_local := [];
  c_guards := [];
  c_async := false;
  c_request := [Write (Val "object") (SizeOf "CUuserObject");
                Write (Val "count") (SizeOf "unsigned int")];
  c_response := [Read (Val "return_value") (SizeOf "CUresult")];
  c_after := [] |}.

Definition cuUserObjectRelease : client_stub := {|
  c_name := "cuUserObjectRelease";
  c_params := [ByValue "object" "CUuserObject"; ByValue "count" "unsigned int"];
  c_route := ForDefault;
  c_local := [];
  c_guards := [];
  c_async := false;
  c_request := [Write (Val "object") (SizeOf "CUuserObject");
                Write (Val "count") (SizeOf "unsigned int")];
  c_response := [Read (Val "return_value") (SizeOf "CUresult")];
  c_after := [] |}.

Definition cuGraphRetainUserObject : client_stub := {|
  c_name := "cuGraphRetainUserObject";
  c_params := [ByValue "graph" "CUgraph";
               ByValue "object" "CUuserObject";
               ByValue "count" "unsigned int";
               ByValue "flags" "unsigned int"];
  c_route := ForOwner "graph" "graph";
  c_local := [];
  c_guards := [];
  c_async := false;
  c_request := [Write (Val "graph") (SizeOf "CUgraph");
                Write (Val "object") (SizeOf "CUuserObject");
                Write (Val "count") (SizeOf "unsigned int");
                Write (Val "flags") (SizeOf "unsigned int")];
  c_response := [Read (Val "return_value") (SizeOf "CUresult")];
  c_after := [] |}.

Definition cuGraphReleaseUserObject : client_stub := {|
  c_name := "cuGraphReleaseUserObject";
  c_params := [ByValue "graph" "CUgraph";
               ByValue "object" "CUuserObject";
               ByValue "count" "unsigned int"];
  c_route := ForOwner "graph" "graph";
  c_local := [];
  c_guards := [];
  c_async := false;
  c_request := [Write (Val "graph") (SizeOf "CUgraph");
                Write (Val "object") (SizeOf "CUuserObject");
                Write (Val "count") (SizeOf "unsigned int")];
  c_response := [Read (Val "return_value") (SizeOf "CUresult")];
  c_after := [] |}.

Definition cuGraphNodeSetParams : client_stub := {|
  c_name := "cuGraphNodeSetParams";
  c_params := [ByValue "hNode" "CUgraphNode"; Pointer "nodeParams" []];
  c_route := ForOwner "graph_node" "hNode";
  c_local := [];
  c_guards := [];
  c_async := false;
  c_request := [Write (Val "hNode") (SizeOf "CUgraphNode");
                Write (Ref "nodeParams") (SizeOf "CUgraphNodeParams")];
  c_response := [Read (Val "return_value") (SizeOf "CUresult")];
  c_after := [] |}.

Definition cuGraphExecNodeSetParams : client_stub := {|
  c_name := "cuGraphExecNodeSetParams";
  c_params := [ByValue "hGraphExec" "CUgraphExec";
               ByValue "hNode" "CUgraphNode";
               Pointer "nodeParams" []];
  c_route := ForOwner "graph_exec" "hGraphExec";
  c_local := [];
  c_guards := [];
  c_async := false;
  c_request := [Write (Val "hGraphExec") (SizeOf "CUgraphExec");
                Write (Val "hNode") (SizeOf "CUgraphNode");
                Write (Ref "nodeParams") (SizeOf "CUgraphNodeParams")];
  c_response := [Read (Val "return_value") (SizeOf "CUresult")];
  c_after := [] |}.

Definition cuOccupancyAvailableDynamicSMemPerBlock : client_stub := {|
  c_name := "cuOccupancyAvailableDynamicSMemPerBlock";
  c_params := [Pointer "dynamicSmemSize" [];
               ByValue "func" "CUfunction";
               ByValue "numBlocks" "int";
               ByValue "blockSize" "int"];
  c_route := ForOwner "function" "func";
  c_local := [];
  c_guards := [Translate "func_rpc" "func"];
  c_async := false;
  c_request := [Write (Ref "dynamicSmemSize") (SizeOf "size_t");
                Write (Val "func_rpc") (SizeOf "CUfunction");
                Write (Val "numBlocks") (SizeOf "int");
                Write (Val "blockSize") (SizeOf "int")];
  c_response := [Read (Ref "dynamicSmemSize") (SizeOf "size_t");
                 Read (Val "return_value") (SizeOf "CUresult")];
  c_after := [] |}.

Definition cuOccupancyMaxPotentialClusterSize : client_stub := {|
  c_name := "cuOccupancyMaxPotentialClusterSize";
  c_params := [Pointer "clusterSize" [];
               ByValue "func" "CUfunction";
               Pointer "config" ["attrs"]];
  c_route := ForOwner "function" "func";
  c_local := [];
  c_guards := [Translate "func_rpc" "func";
               Check (IsNull (Ref "config")) CUDA_ERROR_INVALID_VALUE;
               Check (Or (Lt (Div (Num SIZE_MAX) (SizeOf "*CUlaunchConfig::attrs")) (Field "CUlaunchConfig" "numAttrs" (Ref "config"))) (And (Not (Eq (Field "CUlaunchConfig" "numAttrs" (Ref "config")) (Num 0))) (IsNull (Sub "config" "attrs")))) CUDA_ERROR_INVALID_VALUE];
  c_async := false;
  c_request := [Write (Ref "clusterSize") (SizeOf "int");
                Write (Val "func_rpc") (SizeOf "CUfunction");
                Write (Ref "config") (SizeOf "CUlaunchConfig");
                Write (Sub "config" "attrs") (Mul (Field "CUlaunchConfig" "numAttrs" (Ref "config")) (SizeOf "*CUlaunchConfig::attrs"))];
  c_response := [Read (Ref "clusterSize") (SizeOf "int");
                 Read (Val "return_value") (SizeOf "CUresult")];
  c_after := [] |}.

Definition cuOccupancyMaxActiveClusters : client_stub := {|
  c_name := "cuOccupancyMaxActiveClusters";
  c_params := [Pointer "numClusters" [];
               ByValue "func" "CUfunction";
               Pointer "config" ["attrs"]];
  c_route := ForOwner "function" "func";
  c_local := [];
  c_guards := [Translate "func_rpc" "func";
               Check (IsNull (Ref "config")) CUDA_ERROR_INVALID_VALUE;
               Check (Or (Lt (Div (Num SIZE_MAX) (SizeOf "*CUlaunchConfig::attrs")) (Field "CUlaunchConfig" "numAttrs" (Ref "config"))) (And (Not (Eq (Field "CUlaunchConfig" "numAttrs" (Ref "config")) (Num 0))) (IsNull (Sub "config" "attrs")))) CUDA_ERROR_INVALID_VALUE];
  c_async := false;
  c_request := [Write (Ref "numClusters") (SizeOf "int");
                Write (Val "func_rpc") (SizeOf "CUfunction");
                Write (Ref "config") (SizeOf "CUlaunchConfig");
                Write (Sub "config" "attrs") (Mul (Field "CUlaunchConfig" "numAttrs" (Ref "config")) (SizeOf "*CUlaunchConfig::attrs"))];
  c_response := [Read (Ref "numClusters") (SizeOf "int");
                 Read (Val "return_value") (SizeOf "CUresult")];
  c_after := [] |}.

Definition cuTexRefSetArray : client_stub := {|
  c_name := "cuTexRefSetArray";
  c_params := [ByValue "hTexRef" "CUtexref";
               ByValue "hArray" "CUarray";
               ByValue "Flags" "unsigned int"];
  c_route := ForDefault;
  c_local := [];
  c_guards := [];
  c_async := false;
  c_request := [Write (Val "hTexRef") (SizeOf "CUtexref");
                Write (Val "hArray") (SizeOf "CUarray");
                Write (Val "Flags") (SizeOf "unsigned int")];
  c_response := [Read (Val "return_value") (SizeOf "CUresult")];
  c_after := [] |}.

Definition cuTexRefSetMipmappedArray : client_stub := {|
  c_name := "cuTexRefSetMipmappedArray";
  c_params := [ByValue "hTexRef" "CUtexref";
               ByValue "hMipmappedArray" "CUmipmappedArray";
               ByValue "Flags" "unsigned int"];
  c_route := ForDefault;
  c_local := [];
  c_guards := [];
  c_async := false;
  c_request := [Write (Val "hTexRef") (SizeOf "CUtexref");
                Write (Val "hMipmappedArray") (SizeOf "CUmipmappedArray");
                Write (Val "Flags") (SizeOf "unsigned int")];
  c_response := [Read (Val "return_value") (SizeOf "CUresult")];
  c_after := [] |}.

Definition cuTexRefSetAddress_v2 : client_stub := {|
  c_name := "cuTexRefSetAddress_v2";
  c_params := [Pointer "ByteOffset" [];
               ByValue "hTexRef" "CUtexref";
               ByValue "dptr" "CUdeviceptr";
               ByValue "bytes" "size_t"];
  c_route := ForOwner "deviceptr" "dptr";
  c_local := [];
  c_guards := [];
  c_async := false;
  c_request := [Write (Ref "ByteOffset") (SizeOf "size_t");
                Write (Val "hTexRef") (SizeOf "CUtexref");
                Write (Val "dptr") (SizeOf "CUdeviceptr");
                Write (Val "bytes") (SizeOf "size_t")];
  c_response := [Read (Ref "ByteOffset") (SizeOf "size_t");
                 Read (Val "return_value") (SizeOf "CUresult")];
  c_after := [] |}.

Definition cuTexRefSetAddress2D_v3 : client_stub := {|
  c_name := "cuTexRefSetAddress2D_v3";
  c_params := [ByValue "hTexRef" "CUtexref";
               Pointer "desc" [];
               ByValue "dptr" "CUdeviceptr";
               ByValue "Pitch" "size_t"];
  c_route := ForOwner "deviceptr" "dptr";
  c_local := [];
  c_guards := [];
  c_async := false;
  c_request := [Write (Val "hTexRef") (SizeOf "CUtexref");
                Write (Ref "desc") (SizeOf "CUDA_ARRAY_DESCRIPTOR");
                Write (Val "dptr") (SizeOf "CUdeviceptr");
                Write (Val "Pitch") (SizeOf "size_t")];
  c_response := [Read (Val "return_value") (SizeOf "CUresult")];
  c_after := [] |}.

Definition cuTexRefSetFormat : client_stub := {|
  c_name := "cuTexRefSetFormat";
  c_params := [ByValue "hTexRef" "CUtexref";
               ByValue "fmt" "CUarray_format";
               ByValue "NumPackedComponents" "int"];
  c_route := ForDefault;
  c_local := [];
  c_guards := [];
  c_async := false;
  c_request := [Write (Val "hTexRef") (SizeOf "CUtexref");
                Write (Val "fmt") (SizeOf "CUarray_format");
                Write (Val "NumPackedComponents") (SizeOf "int")];
  c_response := [Read (Val "return_value") (SizeOf "CUresult")];
  c_after := [] |}.

Definition cuTexRefSetAddressMode : client_stub := {|
  c_name := "cuTexRefSetAddressMode";
  c_params := [ByValue "hTexRef" "CUtexref";
               ByValue "dim" "int";
               ByValue "am" "CUaddress_mode"];
  c_route := ForDefault;
  c_local := [];
  c_guards := [];
  c_async := false;
  c_request := [Write (Val "hTexRef") (SizeOf "CUtexref");
                Write (Val "dim") (SizeOf "int");
                Write (Val "am") (SizeOf "CUaddress_mode")];
  c_response := [Read (Val "return_value") (SizeOf "CUresult")];
  c_after := [] |}.

Definition cuTexRefSetFilterMode : client_stub := {|
  c_name := "cuTexRefSetFilterMode";
  c_params := [ByValue "hTexRef" "CUtexref"; ByValue "fm" "CUfilter_mode"];
  c_route := ForDefault;
  c_local := [];
  c_guards := [];
  c_async := false;
  c_request := [Write (Val "hTexRef") (SizeOf "CUtexref");
                Write (Val "fm") (SizeOf "CUfilter_mode")];
  c_response := [Read (Val "return_value") (SizeOf "CUresult")];
  c_after := [] |}.

Definition cuTexRefSetMipmapFilterMode : client_stub := {|
  c_name := "cuTexRefSetMipmapFilterMode";
  c_params := [ByValue "hTexRef" "CUtexref"; ByValue "fm" "CUfilter_mode"];
  c_route := ForDefault;
  c_local := [];
  c_guards := [];
  c_async := false;
  c_request := [Write (Val "hTexRef") (SizeOf "CUtexref");
                Write (Val "fm") (SizeOf "CUfilter_mode")];
  c_response := [Read (Val "return_value") (SizeOf "CUresult")];
  c_after := [] |}.

Definition cuTexRefSetMipmapLevelBias : client_stub := {|
  c_name := "cuTexRefSetMipmapLevelBias";
  c_params := [ByValue "hTexRef" "CUtexref"; ByValue "bias" "float"];
  c_route := ForDefault;
  c_local := [];
  c_guards := [];
  c_async := false;
  c_request := [Write (Val "hTexRef") (SizeOf "CUtexref");
                Write (Val "bias") (SizeOf "float")];
  c_response := [Read (Val "return_value") (SizeOf "CUresult")];
  c_after := [] |}.

Definition cuTexRefSetMipmapLevelClamp : client_stub := {|
  c_name := "cuTexRefSetMipmapLevelClamp";
  c_params := [ByValue "hTexRef" "CUtexref";
               ByValue "minMipmapLevelClamp" "float";
               ByValue "maxMipmapLevelClamp" "float"];
  c_route := ForDefault;
  c_local := [];
  c_guards := [];
  c_async := false;
  c_request := [Write (Val "hTexRef") (SizeOf "CUtexref");
                Write (Val "minMipmapLevelClamp") (SizeOf "float");
                Write (Val "maxMipmapLevelClamp") (SizeOf "float")];
  c_response := [Read (Val "return_value") (SizeOf "CUresult")];
  c_after := [] |}.

Definition cuTexRefSetMaxAnisotropy : client_stub := {|
  c_name := "cuTexRefSetMaxAnisotropy";
  c_params := [ByValue "hTexRef" "CUtexref"; ByValue "maxAniso" "unsigned int"];
  c_route := ForDefault;
  c_local := [];
  c_guards := [];
  c_async := false;
  c_request := [Write (Val "hTexRef") (SizeOf "CUtexref");
                Write (Val "maxAniso") (SizeOf "unsigned int")];
  c_response := [Read (Val "return_value") (SizeOf "CUresult")];
  c_after := [] |}.

Definition cuTexRefSetBorderColor : client_stub := {|
  c_name := "cuTexRefSetBorderColor";
  c_params := [ByValue "hTexRef" "CUtexref"; Pointer "pBorderColor" []];
  c_route := ForDefault;
  c_local := [];
  c_guards := [];
  c_async := false;
  c_request := [Write (Val "hTexRef") (SizeOf "CUtexref");
                Write (Ref "pBorderColor") (Num 16)];
  c_response := [Read (Val "return_value") (SizeOf "CUresult")];
  c_after := [] |}.

Definition cuTexRefSetFlags : client_stub := {|
  c_name := "cuTexRefSetFlags";
  c_params := [ByValue "hTexRef" "CUtexref"; ByValue "Flags" "unsigned int"];
  c_route := ForDefault;
  c_local := [];
  c_guards := [];
  c_async := false;
  c_request := [Write (Val "hTexRef") (SizeOf "CUtexref");
                Write (Val "Flags") (SizeOf "unsigned int")];
  c_response := [Read (Val "return_value") (SizeOf "CUresult")];
  c_after := [] |}.

Definition cuTexRefGetAddress_v2 : client_stub := {|
  c_name := "cuTexRefGetAddress_v2";
  c_params := [Pointer "pdptr" []; ByValue "hTexRef" "CUtexref"];
  c_route := ForDefault;
  c_local := [];
  c_guards := [];
  c_async := false;
  c_request := [Write (Ref "pdptr") (SizeOf "CUdeviceptr");
                Write (Val "hTexRef") (SizeOf "CUtexref")];
  c_response := [Read (Ref "pdptr") (SizeOf "CUdeviceptr");
                 Read (Val "return_value") (SizeOf "CUresult")];
  c_after := [] |}.

Definition cuTexRefGetArray : client_stub := {|
  c_name := "cuTexRefGetArray";
  c_params := [Pointer "phArray" []; ByValue "hTexRef" "CUtexref"];
  c_route := ForDefault;
  c_local := [];
  c_guards := [];
  c_async := false;
  c_request := [Write (Ref "phArray") (SizeOf "CUarray");
                Write (Val "hTexRef") (SizeOf "CUtexref")];
  c_response := [Read (Ref "phArray") (SizeOf "CUarray");
                 Read (Val "return_value") (SizeOf "CUresult")];
  c_after := [] |}.

Definition cuTexRefGetMipmappedArray : client_stub := {|
  c_name := "cuTexRefGetMipmappedArray";
  c_params := [Pointer "phMipmappedArray" []; ByValue "hTexRef" "CUtexref"];
  c_route := ForDefault;
  c_local := [];
  c_guards := [];
  c_async := false;
  c_request := [Write (Ref "phMipmappedArray") (SizeOf "CUmipmappedArray");
                Write (Val "hTexRef") (SizeOf "CUtexref")];
  c_response := [Read (Ref "phMipmappedArray") (SizeOf "CUmipmappedArray");
                 Read (Val "return_value") (SizeOf "CUresult")];
  c_after := [] |}.

Definition cuTexRefGetAddressMode : client_stub := {|
  c_name := "cuTexRefGetAddressMode";
  c_params := [Pointer "pam" []; ByValue "hTexRef" "CUtexref"; ByValue "dim" "int"];
  c_route := ForDefault;
  c_local := [];
  c_guards := [];
  c_async := false;
  c_request := [Write (Ref "pam") (SizeOf "CUaddress_mode");
                Write (Val "hTexRef") (SizeOf "CUtexref");
                Write (Val "dim") (SizeOf "int")];
  c_response := [Read (Ref "pam") (SizeOf "CUaddress_mode");
                 Read (Val "return_value") (SizeOf "CUresult")];
  c_after := [] |}.

Definition cuTexRefGetFilterMode : client_stub := {|
  c_name := "cuTexRefGetFilterMode";
  c_params := [Pointer "pfm" []; ByValue "hTexRef" "CUtexref"];
  c_route := ForDefault;
  c_local := [];
  c_guards := [];
  c_async := false;
  c_request := [Write (Ref "pfm") (SizeOf "CUfilter_mode");
                Write (Val "hTexRef") (SizeOf "CUtexref")];
  c_response := [Read (Ref "pfm") (SizeOf "CUfilter_mode");
                 Read (Val "return_value") (SizeOf "CUresult")];
  c_after := [] |}.

Definition cuTexRefGetFormat : client_stub := {|
  c_name := "cuTexRefGetFormat";
  c_params := [Pointer "pFormat" [];
               Pointer "pNumChannels" [];
               ByValue "hTexRef" "CUtexref"];
  c_route := ForDefault;
  c_local := [];
  c_guards := [];
  c_async := false;
  c_request := [Write (Ref "pFormat") (SizeOf "CUarray_format");
                Write (Ref "pNumChannels") (SizeOf "int");
                Write (Val "hTexRef") (SizeOf "CUtexref")];
  c_response := [Read (Ref "pFormat") (SizeOf "CUarray_format");
                 Read (Ref "pNumChannels") (SizeOf "int");
                 Read (Val "return_value") (SizeOf "CUresult")];
  c_after := [] |}.

Definition cuTexRefGetMipmapFilterMode : client_stub := {|
  c_name := "cuTexRefGetMipmapFilterMode";
  c_params := [Pointer "pfm" []; ByValue "hTexRef" "CUtexref"];
  c_route := ForDefault;
  c_local := [];
  c_guards := [];
  c_async := false;
  c_request := [Write (Ref "pfm") (SizeOf "CUfilter_mode");
                Write (Val "hTexRef") (SizeOf "CUtexref")];
  c_response := [Read (Ref "pfm") (SizeOf "CUfilter_mode");
                 Read (Val "return_value") (SizeOf "CUresult")];
  c_after := [] |}.

Definition cuTexRefGetMipmapLevelBias : client_stub := {|
  c_name := "cuTexRefGetMipmapLevelBias";
  c_params := [Pointer "pbias" []; ByValue "hTexRef" "CUtexref"];
  c_route := ForDefault;
  c_local := [];
  c_guards := [];
  c_async := false;
  c_request := [Write (Ref "pbias") (SizeOf "float");
                Write (Val "hTexRef") (SizeOf "CUtexref")];
  c_response := [Read (Ref "pbias") (SizeOf "float");
                 Read (Val "return_value") (SizeOf "CUresult")];
  c_after := [] |}.

Definition cuTexRefGetMipmapLevelClamp : client_stub := {|
  c_name := "cuTexRefGetMipmapLevelClamp";
  c_params := [Pointer "pminMipmapLevelClamp" [];
               Pointer "pmaxMipmapLevelClamp" [];
               ByValue "hTexRef" "CUtexref"];
  c_route := ForDefault;
  c_local := [];
  c_guards := [];
  c_async := false;
  c_request := [Write (Ref "pminMipmapLevelClamp") (SizeOf "float");
                Write (Ref "pmaxMipmapLevelClamp") (SizeOf "float");
                Write (Val "hTexRef") (SizeOf "CUtexref")];
  c_response := [Read (Ref "pminMipmapLevelClamp") (SizeOf "float");
                 Read (Ref "pmaxMipmapLevelClamp") (SizeOf "float");
                 Read (Val "return_value") (SizeOf "CUresult")];
  c_after := [] |}.

Definition cuTexRefGetMaxAnisotropy : client_stub := {|
  c_name := "cuTexRefGetMaxAnisotropy";
  c_params := [Pointer "pmaxAniso" []; ByValue "hTexRef" "CUtexref"];
  c_route := ForDefault;
  c_local := [];
  c_guards := [];
  c_async := false;
  c_request := [Write (Ref "pmaxAniso") (SizeOf "int");
                Write (Val "hTexRef") (SizeOf "CUtexref")];
  c_response := [Read (Ref "pmaxAniso") (SizeOf "int");
                 Read (Val "return_value") (SizeOf "CUresult")];
  c_after := [] |}.

Definition cuTexRefGetBorderColor : client_stub := {|
  c_name := "cuTexRefGetBorderColor";
  c_params := [Pointer "pBorderColor" []; ByValue "hTexRef" "CUtexref"];
  c_route := ForDefault;
  c_local := [];
  c_guards := [];
  c_async := false;
  c_request := [Write (Val "hTexRef") (SizeOf "CUtexref")];
  c_response := [When (Not (Eq (Num 16) (Num 0))) (Read (Ref "pBorderColor") (Num 16));
                 Read (Val "return_value") (SizeOf "CUresult")];
  c_after := [] |}.

Definition cuTexRefGetFlags : client_stub := {|
  c_name := "cuTexRefGetFlags";
  c_params := [Pointer "pFlags" []; ByValue "hTexRef" "CUtexref"];
  c_route := ForDefault;
  c_local := [];
  c_guards := [];
  c_async := false;
  c_request := [Write (Ref "pFlags") (SizeOf "unsigned int");
                Write (Val "hTexRef") (SizeOf "CUtexref")];
  c_response := [Read (Ref "pFlags") (SizeOf "unsigned int");
                 Read (Val "return_value") (SizeOf "CUresult")];
  c_after := [] |}.

Definition cuTexRefCreate : client_stub := {|
  c_name := "cuTexRefCreate";
  c_params := [Pointer "pTexRef" []];
  c_route := ForDefault;
  c_local := [];
  c_guards := [];
  c_async := false;
  c_request := [Write (Ref "pTexRef") (SizeOf "CUtexref")];
  c_response := [Read (Ref "pTexRef") (SizeOf "CUtexref");
                 Read (Val "return_value") (SizeOf "CUresult")];
  c_after := [] |}.

Definition cuTexRefDestroy : client_stub := {|
  c_name := "cuTexRefDestroy";
  c_params := [ByValue "hTexRef" "CUtexref"];
  c_route := ForDefault;
  c_local := [];
  c_guards := [];
  c_async := false;
  c_request := [Write (Val "hTexRef") (SizeOf "CUtexref")];
  c_response := [Read (Val "return_value") (SizeOf "CUresult")];
  c_after := [] |}.

Definition cuSurfRefSetArray : client_stub := {|
  c_name := "cuSurfRefSetArray";
  c_params := [ByValue "hSurfRef" "CUsurfref";
               ByValue "hArray" "CUarray";
               ByValue "Flags" "unsigned int"];
  c_route := ForDefault;
  c_local := [];
  c_guards := [];
  c_async := false;
  c_request := [Write (Val "hSurfRef") (SizeOf "CUsurfref");
                Write (Val "hArray") (SizeOf "CUarray");
                Write (Val "Flags") (SizeOf "unsigned int")];
  c_response := [Read (Val "return_value") (SizeOf "CUresult")];
  c_after := [] |}.

Definition cuSurfRefGetArray : client_stub := {|
  c_name := "cuSurfRefGetArray";
  c_params := [Pointer "phArray" []; ByValue "hSurfRef" "CUsurfref"];
  c_route := ForDefault;
  c_local := [];
  c_guards := [];
  c_async := false;
  c_request := [Write (Ref "phArray") (SizeOf "CUarray");
                Write (Val "hSurfRef") (SizeOf "CUsurfref")];
  c_response := [Read (Ref "phArray") (SizeOf "CUarray");
                 Read (Val "return_value") (SizeOf "CUresult")];
  c_after := [] |}.

Definition cuTexObjectCreate : client_stub := {|
  c_name := "cuTexObjectCreate";
  c_params := [Pointer "pTexObject" [];
               Pointer "pResDesc" [];
               Pointer "pTexDesc" [];
               Pointer "pResViewDesc" []];
  c_route := ForDefault;
  c_local := [];
  c_guards := [Local "pTexDesc_present" "uint8_t" (Not (IsNull (Ref "pTexDesc")));
               Local "pResViewDesc_present" "uint8_t" (Not (IsNull (Ref "pResViewDesc")))];
  c_async := false;
  c_request := [Write (Ref "pTexObject") (SizeOf "CUtexObject");
                Write (Ref "pResDesc") (SizeOf "CUDA_RESOURCE_DESC");
                Write (Val "pTexDesc_present") (SizeOf "uint8_t");
                When (Load "uint8_t" (Val "pTexDesc_present")) (Write (Ref "pTexDesc") (SizeOf "CUDA_TEXTURE_DESC"));
                Write (Val "pResViewDesc_present") (SizeOf "uint8_t");
                When (Load "uint8_t" (Val "pResViewDesc_present")) (Write (Ref "pResViewDesc") (SizeOf "CUDA_RESOURCE_VIEW_DESC"))];
  c_response := [Read (Ref "pTexObject") (SizeOf "CUtexObject");
                 Read (Val "return_value") (SizeOf "CUresult")];
  c_after := [] |}.

Definition cuTexObjectDestroy : client_stub := {|
  c_name := "cuTexObjectDestroy";
  c_params := [ByValue "texObject" "CUtexObject"];
  c_route := ForDefault;
  c_local := [];
  c_guards := [];
  c_async := false;
  c_request := [Write (Val "texObject") (SizeOf "CUtexObject")];
  c_response := [Read (Val "return_value") (SizeOf "CUresult")];
  c_after := [] |}.

Definition cuTexObjectGetResourceDesc : client_stub := {|
  c_name := "cuTexObjectGetResourceDesc";
  c_params := [Pointer "pResDesc" []; ByValue "texObject" "CUtexObject"];
  c_route := ForDefault;
  c_local := [];
  c_guards := [];
  c_async := false;
  c_request := [Write (Ref "pResDesc") (SizeOf "CUDA_RESOURCE_DESC");
                Write (Val "texObject") (SizeOf "CUtexObject")];
  c_response := [Read (Ref "pResDesc") (SizeOf "CUDA_RESOURCE_DESC");
                 Read (Val "return_value") (SizeOf "CUresult")];
  c_after := [] |}.

Definition cuTexObjectGetTextureDesc : client_stub := {|
  c_name := "cuTexObjectGetTextureDesc";
  c_params := [Pointer "pTexDesc" []; ByValue "texObject" "CUtexObject"];
  c_route := ForDefault;
  c_local := [];
  c_guards := [];
  c_async := false;
  c_request := [Write (Ref "pTexDesc") (SizeOf "CUDA_TEXTURE_DESC");
                Write (Val "texObject") (SizeOf "CUtexObject")];
  c_response := [Read (Ref "pTexDesc") (SizeOf "CUDA_TEXTURE_DESC");
                 Read (Val "return_value") (SizeOf "CUresult")];
  c_after := [] |}.

Definition cuTexObjectGetResourceViewDesc : client_stub := {|
  c_name := "cuTexObjectGetResourceViewDesc";
  c_params := [Pointer "pResViewDesc" []; ByValue "texObject" "CUtexObject"];
  c_route := ForDefault;
  c_local := [];
  c_guards := [];
  c_async := false;
  c_request := [Write (Ref "pResViewDesc") (SizeOf "CUDA_RESOURCE_VIEW_DESC");
                Write (Val "texObject") (SizeOf "CUtexObject")];
  c_response := [Read (Ref "pResViewDesc") (SizeOf "CUDA_RESOURCE_VIEW_DESC");
                 Read (Val "return_value") (SizeOf "CUresult")];
  c_after := [] |}.

Definition cuSurfObjectCreate : client_stub := {|
  c_name := "cuSurfObjectCreate";
  c_params := [Pointer "pSurfObject" []; Pointer "pResDesc" []];
  c_route := ForDefault;
  c_local := [];
  c_guards := [];
  c_async := false;
  c_request := [Write (Ref "pSurfObject") (SizeOf "CUsurfObject");
                Write (Ref "pResDesc") (SizeOf "CUDA_RESOURCE_DESC")];
  c_response := [Read (Ref "pSurfObject") (SizeOf "CUsurfObject");
                 Read (Val "return_value") (SizeOf "CUresult")];
  c_after := [] |}.

Definition cuSurfObjectDestroy : client_stub := {|
  c_name := "cuSurfObjectDestroy";
  c_params := [ByValue "surfObject" "CUsurfObject"];
  c_route := ForDefault;
  c_local := [];
  c_guards := [];
  c_async := false;
  c_request := [Write (Val "surfObject") (SizeOf "CUsurfObject")];
  c_response := [Read (Val "return_value") (SizeOf "CUresult")];
  c_after := [] |}.

Definition cuSurfObjectGetResourceDesc : client_stub := {|
  c_name := "cuSurfObjectGetResourceDesc";
  c_params := [Pointer "pResDesc" []; ByValue "surfObject" "CUsurfObject"];
  c_route := ForDefault;
  c_local := [];
  c_guards := [];
  c_async := false;
  c_request := [Write (Ref "pResDesc") (SizeOf "CUDA_RESOURCE_DESC");
                Write (Val "surfObject") (SizeOf "CUsurfObject")];
  c_response := [Read (Ref "pResDesc") (SizeOf "CUDA_RESOURCE_DESC");
                 Read (Val "return_value") (SizeOf "CUresult")];
  c_after := [] |}.

Definition cuTensorMapReplaceAddress : client_stub := {|
  c_name := "cuTensorMapReplaceAddress";
  c_params := [Pointer "tensorMap" []; ByValue "globalAddress" "void *"];
  c_route := ForOwner "deviceptr" "globalAddress";
  c_local := [];
  c_guards := [];
  c_async := false;
  c_request := [Write (Ref "tensorMap") (SizeOf "CUtensorMap");
                Write (Val "globalAddress") (SizeOf "void *")];
  c_response := [Read (Ref "tensorMap") (SizeOf "CUtensorMap");
                 Read (Val "return_value") (SizeOf "CUresult")];
  c_after := [] |}.

Definition cuGraphicsUnregisterResource : client_stub := {|
  c_name := "cuGraphicsUnregisterResource";
  c_params := [ByValue "resource" "CUgraphicsResource"];
  c_route := ForDefault;
  c_local := [];
  c_guards := [];
  c_async := false;
  c_request := [Write (Val "resource") (SizeOf "CUgraphicsResource")];
  c_response := [Read (Val "return_value") (SizeOf "CUresult")];
  c_after := [] |}.

Definition cuGraphicsSubResourceGetMappedArray : client_stub := {|
  c_name := "cuGraphicsSubResourceGetMappedArray";
  c_params := [Pointer "pArray" [];
               ByValue "resource" "CUgraphicsResource";
               ByValue "arrayIndex" "unsigned int";
               ByValue "mipLevel" "unsigned int"];
  c_route := ForDefault;
  c_local := [];
  c_guards := [];
  c_async := false;
  c_request := [Write (Ref "pArray") (SizeOf "CUarray");
                Write (Val "resource") (SizeOf "CUgraphicsResource");
                Write (Val "arrayIndex") (SizeOf "unsigned int");
                Write (Val "mipLevel") (SizeOf "unsigned int")];
  c_response := [Read (Ref "pArray") (SizeOf "CUarray");
                 Read (Val "return_value") (SizeOf "CUresult")];
  c_after := [] |}.

Definition cuGraphicsResourceGetMappedPointer_v2 : client_stub := {|
  c_name := "cuGraphicsResourceGetMappedPointer_v2";
  c_params := [Pointer "pDevPtr" [];
               Pointer "pSize" [];
               ByValue "resource" "CUgraphicsResource"];
  c_route := ForDefault;
  c_local := [];
  c_guards := [];
  c_async := false;
  c_request := [Write (Ref "pDevPtr") (SizeOf "CUdeviceptr");
                Write (Ref "pSize") (SizeOf "size_t");
                Write (Val "resource") (SizeOf "CUgraphicsResource")];
  c_response := [Read (Ref "pDevPtr") (SizeOf "CUdeviceptr");
                 Read (Ref "pSize") (SizeOf "size_t");
                 Read (Val "return_value") (SizeOf "CUresult")];
  c_after := [] |}.

Definition cuGraphicsResourceSetMapFlags_v2 : client_stub := {|
  c_name := "cuGraphicsResourceSetMapFlags_v2";
  c_params := [ByValue "resource" "CUgraphicsResource"; ByValue "flags" "unsigned int"];
  c_route := ForDefault;
  c_local := [];
  c_guards := [];
  c_async := false;
  c_request := [Write (Val "resource") (SizeOf "CUgraphicsResource");
                Write (Val "flags") (SizeOf "unsigned int")];
  c_response := [Read (Val "return_value") (SizeOf "CUresult")];
  c_after := [] |}.

Definition cuGraphicsMapResources : client_stub := {|
  c_name := "cuGraphicsMapResources";
  c_params := [ByValue "count" "unsigned int";
               Pointer "resources" [];
               ByValue "hStream" "CUstream"];
  c_route := IfHandle "hStream" (ForOwner "stream" "hStream") (ForDefault);
  c_local := [];
  c_guards := [Check (And (Not (Eq (Mul (Load "unsigned int" (Val "count")) (SizeOf "CUgraphicsResource")) (Num 0))) (IsNull (Ref "resources"))) CUDA_ERROR_INVALID_VALUE];
  c_async := false;
  c_request := [Write (Val "count") (SizeOf "unsigned int");
                Write (Ref "resources") (Mul (Load "unsigned int" (Val "count")) (SizeOf "CUgraphicsResource"));
                Write (Val "hStream") (SizeOf "CUstream")];
  c_response := [Read (Val "return_value") (SizeOf "CUresult")];
  c_after := [] |}.

Definition cuGraphicsUnmapResources : client_stub := {|
  c_name := "cuGraphicsUnmapResources";
  c_params := [ByValue "count" "unsigned int";
               Pointer "resources" [];
               ByValue "hStream" "CUstream"];
  c_route := IfHandle "hStream" (ForOwner "stream" "hStream") (ForDefault);
  c_local := [];
  c_guards := [Check (And (Not (Eq (Mul (Load "unsigned int" (Val "count")) (SizeOf "CUgraphicsResource")) (Num 0))) (IsNull (Ref "resources"))) CUDA_ERROR_INVALID_VALUE];
  c_async := false;
  c_request := [Write (Val "count") (SizeOf "unsigned int");
                Write (Ref "resources") (Mul (Load "unsigned int" (Val "count")) (SizeOf "CUgraphicsResource"));
                Write (Val "hStream") (SizeOf "CUstream")];
  c_response := [Read (Val "return_value") (SizeOf "CUresult")];
  c_after := [] |}.

Definition cuCoredumpGetAttributeGlobal : client_stub := {|
  c_name := "cuCoredumpGetAttributeGlobal";
  c_params := [ByValue "attrib" "CUcoredumpSettings"; Pointer "value" []; Pointer "size" []];
  c_route := ForDefault;
  c_local := [];
  c_guards := [];
  c_async := false;
  c_request := [Write (Val "attrib") (SizeOf "CUcoredumpSettings");
                Write (Ref "size") (SizeOf "size_t")];
  c_response := [Read (Ref "size") (SizeOf "size_t");
                 When (Not (Eq (Load "size_t" (Ref "size")) (Num 0))) (Read (Ref "value") (Load "size_t" (Ref "size")));
                 Read (Val "return_value") (SizeOf "CUresult")];
  c_after := [] |}.

Definition cuCoredumpSetAttributeGlobal : client_stub := {|
  c_name := "cuCoredumpSetAttributeGlobal";
  c_params := [ByValue "attrib" "CUcoredumpSettings"; Pointer "value" []; Pointer "size" []];
  c_route := ForDefault;
  c_local := [];
  c_guards := [Check (And (Not (Eq (Load "size_t" (Ref "size")) (Num 0))) (IsNull (Ref "value"))) CUDA_ERROR_INVALID_VALUE];
  c_async := false;
  c_request := [Write (Val "attrib") (SizeOf "CUcoredumpSettings");
                Write (Ref "size") (SizeOf "size_t");
                Write (Ref "value") (Load "size_t" (Ref "size"))];
  c_response := [Read (Ref "size") (SizeOf "size_t");
                 Read (Val "return_value") (SizeOf "CUresult")];
  c_after := [] |}.

Definition cuGreenCtxCreate : client_stub := {|
  c_name := "cuGreenCtxCreate";
  c_params := [Pointer "phCtx" [];
               ByValue "desc" "CUdevResourceDesc";
               ByValue "dev" "CUdevice";
               ByValue "flags" "unsigned int"];
  c_route := ForDevice "dev";
  c_local := [];
  c_guards := [];
  c_async := false;
  c_request := [Write (Val "desc") (SizeOf "CUdevResourceDesc");
                Write (Val "dev") (SizeOf "CUdevice");
                Write (Val "flags") (SizeOf "unsigned int")];
  c_response := [Read (Ref "phCtx") (SizeOf "CUgreenCtx");
                 Read (Val "return_value") (SizeOf "CUresult")];
  c_after := [] |}.

Definition cuGreenCtxDestroy : client_stub := {|
  c_name := "cuGreenCtxDestroy";
  c_params := [ByValue "hCtx" "CUgreenCtx"];
  c_route := ForCurrentContext;
  c_local := [After (Eq (Load "CUresult" (Val "return_value")) (Num 0)) false "lupine_forget_destroyed_context" [ArgVal (Val "hCtx")]];
  c_guards := [];
  c_async := false;
  c_request := [Write (Val "hCtx") (SizeOf "CUgreenCtx")];
  c_response := [Read (Val "return_value") (SizeOf "CUresult")];
  c_after := [After (Eq (Load "CUresult" (Val "return_value")) (Num 0)) false "lupine_forget_destroyed_context" [ArgVal (Val "hCtx")]] |}.

Definition cuCtxFromGreenCtx : client_stub := {|
  c_name := "cuCtxFromGreenCtx";
  c_params := [Pointer "pContext" []; ByValue "hCtx" "CUgreenCtx"];
  c_route := ForCurrentContext;
  c_local := [After (And (Eq (Load "CUresult" (Val "return_value")) (Num 0)) (Not (IsNull (Ref "pContext")))) false "lupine_note_context_owner_route" [ArgVal (Ref "pContext"); Route];
              After (And (Eq (Load "CUresult" (Val "return_value")) (Num 0)) (Not (IsNull (Ref "pContext")))) false "lupine_mark_context_green" [ArgVal (Ref "pContext")]];
  c_guards := [];
  c_async := false;
  c_request := [Write (Val "hCtx") (SizeOf "CUgreenCtx")];
  c_response := [Read (Ref "pContext") (SizeOf "CUcontext");
                 Read (Val "return_value") (SizeOf "CUresult")];
  c_after := [After (And (Eq (Load "CUresult" (Val "return_value")) (Num 0)) (Not (IsNull (Ref "pContext")))) false "lupine_note_context_owner_route" [ArgVal (Ref "pContext"); Route];
              After (And (Eq (Load "CUresult" (Val "return_value")) (Num 0)) (Not (IsNull (Ref "pContext")))) false "lupine_mark_context_green" [ArgVal (Ref "pContext")]] |}.

Definition cuDeviceGetDevResource : client_stub := {|
  c_name := "cuDeviceGetDevResource";
  c_params := [ByValue "device" "CUdevice";
               Pointer "resource" [];
               ByValue "type" "CUdevResourceType"];
  c_route := ForDevice "device";
  c_local := [];
  c_guards := [];
  c_async := false;
  c_request := [Write (Val "device") (SizeOf "CUdevice");
                Write (Val "type") (SizeOf "CUdevResourceType")];
  c_response := [Read (Ref "resource") (SizeOf "CUdevResource");
                 Read (Val "return_value") (SizeOf "CUresult")];
  c_after := [] |}.

Definition cuCtxGetDevResource : client_stub := {|
  c_name := "cuCtxGetDevResource";
  c_params := [ByValue "hCtx" "CUcontext";
               Pointer "resource" [];
               ByValue "type" "CUdevResourceType"];
  c_route := ForOwner "context" "hCtx";
  c_local := [];
  c_guards := [];
  c_async := false;
  c_request := [Write (Val "hCtx") (SizeOf "CUcontext");
                Write (Val "type") (SizeOf "CUdevResourceType")];
  c_response := [Read (Ref "resource") (SizeOf "CUdevResource");
                 Read (Val "return_value") (SizeOf "CUresult")];
  c_after := [] |}.

Definition cuGreenCtxGetDevResource : client_stub := {|
  c_name := "cuGreenCtxGetDevResource";
  c_params := [ByValue "hCtx" "CUgreenCtx";
               Pointer "resource" [];
               ByValue "type" "CUdevResourceType"];
  c_route := ForCurrentContext;
  c_local := [];
  c_guards := [];
  c_async := false;
  c_request := [Write (Val "hCtx") (SizeOf "CUgreenCtx");
                Write (Val "type") (SizeOf "CUdevResourceType")];
  c_response := [Read (Ref "resource") (SizeOf "CUdevResource");
                 Read (Val "return_value") (SizeOf "CUresult")];
  c_after := [] |}.

Definition cuDevSmResourceSplitByCount : client_stub := {|
  c_name := "cuDevSmResourceSplitByCount";
  c_params := [Pointer "result" [];
               Pointer "nbGroups" [];
               Pointer "input" [];
               Pointer "remainder" [];
               ByValue "flags" "unsigned int";
               ByValue "minCount" "unsigned int"];
  c_route := ForCurrentContext;
  c_local := [];
  c_guards := [Local "nbGroups_requested" "unsigned int" (Cond (Not (IsNull (Ref "result"))) (Load "unsigned int" (Ref "nbGroups")) (Num 0));
               Local "result_null" "uint8_t" (Cond (IsNull (Ref "result")) (Num 1) (Num 0));
               Local "remainder_present" "uint8_t" (Not (IsNull (Ref "remainder")))];
  c_async := false;
  c_request := [Write (Val "nbGroups_requested") (SizeOf "unsigned int");
                Write (Val "result_null") (SizeOf "uint8_t");
                Write (Ref "input") (SizeOf "CUdevResource");
                Write (Val "remainder_present") (SizeOf "uint8_t");
                When (Load "uint8_t" (Val "remainder_present")) (Write (Ref "remainder") (SizeOf "CUdevResource"));
                Write (Val "flags") (SizeOf "unsigned int");
                Write (Val "minCount") (SizeOf "unsigned int")];
  c_response := [Read (Ref "nbGroups") (SizeOf "unsigned int");
                 When (And (And (Not (IsNull (Ref "result"))) (Not (Eq (Load "unsigned int" (Val "nbGroups_requested")) (Num 0)))) (Not (Eq (Load "unsigned int" (Ref "nbGroups")) (Num 0)))) (Read (Ref "result") (Mul (Cond (Lt (Load "unsigned int" (Ref "nbGroups")) (Load "unsigned int" (Val "nbGroups_requested"))) (Load "unsigned int" (Ref "nbGroups")) (Load "unsigned int" (Val "nbGroups_requested"))) (SizeOf "CUdevResource")));
                 When (Load "uint8_t" (Val "remainder_present")) (Read (Ref "remainder") (SizeOf "CUdevResource"));
                 Read (Val "return_value") (SizeOf "CUresult")];
  c_after := [] |}.

Definition cuDevSmResourceSplit : client_stub := {|
  c_name := "cuDevSmResourceSplit";
  c_params := [Pointer "result" [];
               ByValue "nbGroups" "unsigned int";
               Pointer "input" [];
               Pointer "remainder" [];
               ByValue "flags" "unsigned int";
               Pointer "groupParams" []];
  c_route := ForCurrentContext;
  c_local := [];
  c_guards := [Local "result_null" "uint8_t" (Cond (IsNull (Ref "result")) (Num 1) (Num 0));
               Local "remainder_present" "uint8_t" (Not (IsNull (Ref "remainder")));
               Check (And (Not (Eq (Mul (Load "unsigned int" (Val "nbGroups")) (SizeOf "CU_DEV_SM_RESOURCE_GROUP_PARAMS")) (Num 0))) (IsNull (Ref "groupParams"))) CUDA_ERROR_INVALID_VALUE];
  c_async := false;
  c_request := [Write (Val "nbGroups") (SizeOf "unsigned int");
                Write (Val "result_null") (SizeOf "uint8_t");
                Write (Ref "input") (SizeOf "CUdevResource");
                Write (Val "remainder_present") (SizeOf "uint8_t");
                When (Load "uint8_t" (Val "remainder_present")) (Write (Ref "remainder") (SizeOf "CUdevResource"));
                Write (Val "flags") (SizeOf "unsigned int");
                Write (Ref "groupParams") (Mul (Load "unsigned int" (Val "nbGroups")) (SizeOf "CU_DEV_SM_RESOURCE_GROUP_PARAMS"))];
  c_response := [When (And (Not (IsNull (Ref "result"))) (Not (Eq (Load "unsigned int" (Val "nbGroups")) (Num 0)))) (Read (Ref "result") (Mul (Load "unsigned int" (Val "nbGroups")) (SizeOf "CUdevResource")));
                 When (Load "uint8_t" (Val "remainder_present")) (Read (Ref "remainder") (SizeOf "CUdevResource"));
                 When (Not (Eq (Mul (Load "unsigned int" (Val "nbGroups")) (SizeOf "CU_DEV_SM_RESOURCE_GROUP_PARAMS")) (Num 0))) (Read (Ref "groupParams") (Mul (Load "unsigned int" (Val "nbGroups")) (SizeOf "CU_DEV_SM_RESOURCE_GROUP_PARAMS")));
                 Read (Val "return_value") (SizeOf "CUresult")];
  c_after := [] |}.

Definition cuDevResourceGenerateDesc : client_stub := {|
  c_name := "cuDevResourceGenerateDesc";
  c_params := [Pointer "phDesc" [];
               Pointer "resources" [];
               ByValue "nbResources" "unsigned int"];
  c_route := ForCurrentContext;
  c_local := [];
  c_guards := [Check (And (Not (Eq (Mul (Load "unsigned int" (Val "nbResources")) (SizeOf "CUdevResource")) (Num 0))) (IsNull (Ref "resources"))) CUDA_ERROR_INVALID_VALUE];
  c_async := false;
  c_request := [Write (Val "nbResources") (SizeOf "unsigned int");
                Write (Ref "resources") (Mul (Load "unsigned int" (Val "nbResources")) (SizeOf "CUdevResource"))];
  c_response := [Read (Ref "phDesc") (SizeOf "CUdevResourceDesc");
                 Read (Val "return_value") (SizeOf "CUresult")];
  c_after := [] |}.

Definition cuGreenCtxRecordEvent : client_stub := {|
  c_name := "cuGreenCtxRecordEvent";
  c_params := [ByValue "hCtx" "CUgreenCtx"; ByValue "hEvent" "CUevent"];
  c_route := ForCurrentContext;
  c_local := [];
  c_guards := [];
  c_async := false;
  c_request := [Write (Val "hCtx") (SizeOf "CUgreenCtx");
                Write (Val "hEvent") (SizeOf "CUevent")];
  c_response := [Read (Val "return_value") (SizeOf "CUresult")];
  c_after := [] |}.

Definition cuGreenCtxWaitEvent : client_stub := {|
  c_name := "cuGreenCtxWaitEvent";
  c_params := [ByValue "hCtx" "CUgreenCtx"; ByValue "hEvent" "CUevent"];
  c_route := ForCurrentContext;
  c_local := [];
  c_guards := [];
  c_async := false;
  c_request := [Write (Val "hCtx") (SizeOf "CUgreenCtx");
                Write (Val "hEvent") (SizeOf "CUevent")];
  c_response := [Read (Val "return_value") (SizeOf "CUresult")];
  c_after := [] |}.

Definition cuStreamGetGreenCtx : client_stub := {|
  c_name := "cuStreamGetGreenCtx";
  c_params := [ByValue "hStream" "CUstream"; Pointer "phCtx" []];
  c_route := IfHandle "hStream" (ForOwner "stream" "hStream") (ForDefault);
  c_local := [];
  c_guards := [];
  c_async := false;
  c_request := [Write (Val "hStream") (SizeOf "CUstream")];
  c_response := [Read (Ref "phCtx") (SizeOf "CUgreenCtx");
                 Read (Val "return_value") (SizeOf "CUresult")];
  c_after := [] |}.

Definition cuGreenCtxStreamCreate : client_stub := {|
  c_name := "cuGreenCtxStreamCreate";
  c_params := [Pointer "phStream" [];
               ByValue "greenCtx" "CUgreenCtx";
               ByValue "flags" "unsigned int";
               ByValue "priority" "int"];
  c_route := ForCurrentContext;
  c_local := [After (And (Eq (Load "CUresult" (Val "return_value")) (Num 0)) (Not (IsNull (Ref "phStream")))) false "lupine_note_stream_owner_route" [ArgVal (Ref "phStream"); Route]];
  c_guards := [];
  c_async := false;
  c_request := [Write (Val "greenCtx") (SizeOf "CUgreenCtx");
                Write (Val "flags") (SizeOf "unsigned int");
                Write (Val "priority") (SizeOf "int")];
  c_response := [Read (Ref "phStream") (SizeOf "CUstream");
                 Read (Val "return_value") (SizeOf "CUresult")];
  c_after := [After (And (Eq (Load "CUresult" (Val "return_value")) (Num 0)) (Not (IsNull (Ref "phStream")))) false "lupine_note_stream_owner_route" [ArgVal (Ref "phStream"); Route]] |}.

Definition cuGreenCtxGetId : client_stub := {|
  c_name := "cuGreenCtxGetId";
  c_params := [ByValue "greenCtx" "CUgreenCtx"; Pointer "greenCtxId" []];
  c_route := ForCurrentContext;
  c_local := [];
  c_guards := [];
  c_async := false;
  c_request := [Write (Val "greenCtx") (SizeOf "CUgreenCtx")];
  c_response := [Read (Ref "greenCtxId") (SizeOf "unsigned long long");
                 Read (Val "return_value") (SizeOf "CUresult")];
  c_after := [] |}.

Definition cuStreamGetDevResource : client_stub := {|
  c_name := "cuStreamGetDevResource";
  c_params := [ByValue "hStream" "CUstream";
               Pointer "resource" [];
               ByValue "type" "CUdevResourceType"];
  c_route := IfHandle "hStream" (ForOwner "stream" "hStream") (ForDefault);
  c_local := [];
  c_guards := [];
  c_async := false;
  c_request := [Write (Val "hStream") (SizeOf "CUstream");
                Write (Val "type") (SizeOf "CUdevResourceType")];
  c_response := [Read (Ref "resource") (SizeOf "CUdevResource");
                 Read (Val "return_value") (SizeOf "CUresult")];
  c_after := [] |}.

Definition cuLogsCurrent : client_stub := {|
  c_name := "cuLogsCurrent";
  c_params := [Pointer "iterator_out" []; ByValue "flags" "unsigned int"];
  c_route := ForDefault;
  c_local := [];
  c_guards := [Local "iterator_out_present" "uint8_t" (Not (IsNull (Ref "iterator_out")))];
  c_async := false;
  c_request := [Write (Val "iterator_out_present") (SizeOf "uint8_t");
                When (Load "uint8_t" (Val "iterator_out_present")) (Write (Ref "iterator_out") (SizeOf "CUlogIterator"));
                Write (Val "flags") (SizeOf "unsigned int")];
  c_response := [When (Load "uint8_t" (Val "iterator_out_present")) (Read (Ref "iterator_out") (SizeOf "CUlogIterator"));
                 Read (Val "return_value") (SizeOf "CUresult")];
  c_after := [] |}.

Definition cuGraphExecUpdate : client_stub := {|
  c_name := "cuGraphExecUpdate";
  c_params := [ByValue "hGraphExec" "CUgraphExec";
               ByValue "hGraph" "CUgraph";
               Pointer "hErrorNode_out" [];
               Pointer "updateResult_out" []];
  c_route := ForOwner "graph_exec" "hGraphExec";
  c_local := [];
  c_guards := [Local "hErrorNode_out_present" "uint8_t" (Not (IsNull (Ref "hErrorNode_out")));
               Local "updateResult_out_present" "uint8_t" (Not (IsNull (Ref "updateResult_out")))];
  c_async := false;
  c_request := [Write (Val "hGraphExec") (SizeOf "CUgraphExec");
                Write (Val "hGraph") (SizeOf "CUgraph");
                Write (Val "hErrorNode_out_present") (SizeOf "uint8_t");
                When (Load "uint8_t" (Val "hErrorNode_out_present")) (Write (Ref "hErrorNode_out") (SizeOf "CUgraphNode"));
                Write (Val "updateResult_out_present") (SizeOf "uint8_t");
                When (Load "uint8_t" (Val "updateResult_out_present")) (Write (Ref "updateResult_out") (SizeOf "CUgraphExecUpdateResult"))];
  c_response := [When (Load "uint8_t" (Val "hErrorNode_out_present")) (Read (Ref "hErrorNode_out") (SizeOf "CUgraphNode"));
                 When (Load "uint8_t" (Val "updateResult_out_present")) (Read (Ref "updateResult_out") (SizeOf "CUgraphExecUpdateResult"));
                 Read (Val "return_value") (SizeOf "CUresult")];
  c_after := [] |}.

Definition client_stubs : list client_stub :=
  [cuDeviceGetLuid;
   cuDeviceGetTexture1DLinearMaxWidth;
   cuDeviceSetMemPool;
   cuDeviceGetMemPool;
   cuDeviceGetDefaultMemPool;
   cuDeviceGetExecAffinitySupport;
   cuFlushGPUDirectRDMAWrites;
   cuDeviceGetProperties;
   cuDeviceComputeCapability;
   cuCtxGetFlags;
   cuCtxGetId;
   cuCtxSetLimit;
   cuCtxGetLimit;
   cuCtxGetCacheConfig;
   cuCtxSetCacheConfig;
   cuCtxGetApiVersion;
   cuCtxResetPersistingL2Cache;
   cuCtxGetExecAffinity;
   cuCtxRecordEvent;
   cuCtxWaitEvent;
   cuCtxAttach;
   cuCtxDetach;
   cuCtxGetSharedMemConfig;
   cuCtxSetSharedMemConfig;
   cuModuleUnload;
   cuModuleGetTexRef;
   cuModuleGetSurfRef;
   cuLibraryUnload;
   cuLibraryGetUnifiedFunction;
   cuMemGetInfo_v2;
   cuMemGetAddressRange_v2;
   cuDeviceGetPCIBusId;
   cuIpcGetEventHandle;
   cuIpcOpenEventHandle;
   cuIpcGetMemHandle;
   cuIpcOpenMemHandle_v2;
   cuIpcCloseMemHandle;
   cuMemcpyDtoA_v2;
   cuMemcpyAtoD_v2;
   cuMemcpyAtoA_v2;
   cuMemsetD8_v2;
   cuMemsetD16_v2;
   cuMemsetD32_v2;
   cuMemsetD2D8_v2;
   cuMemsetD2D16_v2;
   cuMemsetD2D32_v2;
   cuMemsetD8Async;
   cuMemsetD16Async;
   cuMemsetD32Async;
   cuMemsetD2D8Async;
   cuMemsetD2D16Async;
   cuMemsetD2D32Async;
   cuArrayCreate_v2;
   cuArrayGetDescriptor_v2;
   cuMipmappedArrayGetSparseProperties;
   cuMipmappedArrayGetMemoryRequirements;
   cuArrayGetPlane;
   cuArrayDestroy;
   cuArray3DCreate_v2;
   cuArray3DGetDescriptor_v2;
   cuMipmappedArrayGetLevel;
   cuMipmappedArrayDestroy;
   cuMemGetHandleForAddressRange;
   cuMemAddressReserve;
   cuMemAddressFree;
   cuMemCreate;
   cuMemRelease;
   cuMemMap;
   cuMemMapArrayAsync;
   cuMemUnmap;
   cuMemSetAccess;
   cuMemGetAccess;
   cuMemRetainAllocationHandle;
   cuMemFreeAsync;
   cuMemAllocAsync;
   cuMemPoolTrimTo;
   cuMemPoolDestroy;
   cuMemAllocFromPoolAsync;
   cuMemPoolExportPointer;
   cuMemPoolImportPointer;
   cuStreamGetPriority;
   cuStreamGetFlags;
   cuStreamGetId;
   cuStreamGetCtx;
   cuStreamAttachMemAsync;
   cuStreamDestroy_v2;
   cuStreamCopyAttributes;
   cuStreamGetAttribute;
   cuStreamSetAttribute;
   cuEventElapsedTime_v2;
   cuExternalMemoryGetMappedBuffer;
   cuExternalMemoryGetMappedMipmappedArray;
   cuDestroyExternalMemory;
   cuImportExternalSemaphore;
   cuSignalExternalSemaphoresAsync;
   cuWaitExternalSemaphoresAsync;
   cuDestroyExternalSemaphore;
   cuStreamWaitValue32_v2;
   cuStreamWaitValue64_v2;
   cuStreamWriteValue32_v2;
   cuStreamWriteValue64_v2;
   cuStreamBatchMemOp_v2;
   cuFuncSetCacheConfig;
   cuFuncGetModule;
   cuFuncSetBlockShape;
   cuFuncSetSharedSize;
   cuParamSetSize;
   cuParamSeti;
   cuParamSetf;
   cuParamSetv;
   cuLaunch;
   cuLaunchGrid;
   cuLaunchGridAsync;
   cuParamSetTexRef;
   cuFuncSetSharedMemConfig;
   cuGraphCreate;
   cuGraphMemcpyNodeGetParams;
   cuGraphMemcpyNodeSetParams;
   cuGraphMemsetNodeGetParams;
   cuGraphMemsetNodeSetParams;
   cuGraphAddChildGraphNode;
   cuGraphChildGraphNodeGetGraph;
   cuGraphAddEmptyNode;
   cuGraphAddEventRecordNode;
   cuGraphEventRecordNodeGetEvent;
   cuGraphEventRecordNodeSetEvent;
   cuGraphAddEventWaitNode;
   cuGraphEventWaitNodeGetEvent;
   cuGraphEventWaitNodeSetEvent;
   cuGraphAddExternalSemaphoresSignalNode;
   cuGraphExternalSemaphoresSignalNodeSetParams;
   cuGraphAddExternalSemaphoresWaitNode;
   cuGraphExternalSemaphoresWaitNodeSetParams;
   cuGraphAddBatchMemOpNode;
   cuGraphBatchMemOpNodeSetParams;
   cuGraphExecBatchMemOpNodeSetParams;
   cuGraphAddMemFreeNode;
   cuGraphMemFreeNodeGetParams;
   cuDeviceGraphMemTrim;
   cuGraphClone;
   cuGraphNodeFindInClone;
   cuGraphNodeGetType;
   cuGraphNodeGetContainingGraph;
   cuGraphNodeGetLocalId;
   cuGraphNodeGetToolsId;
   cuGraphGetId;
   cuGraphExecGetId;
   cuGraphGetNodes;
   cuGraphGetRootNodes;
   cuGraphGetEdges_v2;
   cuGraphNodeGetDependencies_v2;
   cuGraphNodeGetDependentNodes_v2;
   cuGraphDestroyNode;
   cuGraphInstantiateWithFlags;
   cuGraphExecGetFlags;
   cuGraphExecMemcpyNodeSetParams;
   cuGraphExecChildGraphNodeSetParams;
   cuGraphExecEventRecordNodeSetEvent;
   cuGraphExecEventWaitNodeSetEvent;
   cuGraphExecExternalSemaphoresSignalNodeSetParams;
   cuGraphExecExternalSemaphoresWaitNodeSetParams;
   cuGraphNodeSetEnabled;
   cuGraphNodeGetEnabled;
   cuGraphUpload;
   cuGraphLaunch;
   cuGraphExecDestroy;
   cuGraphExecUpdate_v2;
   cuGraphKernelNodeCopyAttributes;
   cuGraphKernelNodeGetAttribute;
   cuGraphKernelNodeSetAttribute;
   cuGraphDebugDotPrint;
   cuUserObjectRetain;
   cuUserObjectRelease;
   cuGraphRetainUserObject;
   cuGraphReleaseUserObject;
   cuGraphNodeSetParams;
   cuGraphExecNodeSetParams;
   cuOccupancyAvailableDynamicSMemPerBlock;
   cuOccupancyMaxPotentialClusterSize;
   cuOccupancyMaxActiveClusters;
   cuTexRefSetArray;
   cuTexRefSetMipmappedArray;
   cuTexRefSetAddress_v2;
   cuTexRefSetAddress2D_v3;
   cuTexRefSetFormat;
   cuTexRefSetAddressMode;
   cuTexRefSetFilterMode;
   cuTexRefSetMipmapFilterMode;
   cuTexRefSetMipmapLevelBias;
   cuTexRefSetMipmapLevelClamp;
   cuTexRefSetMaxAnisotropy;
   cuTexRefSetBorderColor;
   cuTexRefSetFlags;
   cuTexRefGetAddress_v2;
   cuTexRefGetArray;
   cuTexRefGetMipmappedArray;
   cuTexRefGetAddressMode;
   cuTexRefGetFilterMode;
   cuTexRefGetFormat;
   cuTexRefGetMipmapFilterMode;
   cuTexRefGetMipmapLevelBias;
   cuTexRefGetMipmapLevelClamp;
   cuTexRefGetMaxAnisotropy;
   cuTexRefGetBorderColor;
   cuTexRefGetFlags;
   cuTexRefCreate;
   cuTexRefDestroy;
   cuSurfRefSetArray;
   cuSurfRefGetArray;
   cuTexObjectCreate;
   cuTexObjectDestroy;
   cuTexObjectGetResourceDesc;
   cuTexObjectGetTextureDesc;
   cuTexObjectGetResourceViewDesc;
   cuSurfObjectCreate;
   cuSurfObjectDestroy;
   cuSurfObjectGetResourceDesc;
   cuTensorMapReplaceAddress;
   cuGraphicsUnregisterResource;
   cuGraphicsSubResourceGetMappedArray;
   cuGraphicsResourceGetMappedPointer_v2;
   cuGraphicsResourceSetMapFlags_v2;
   cuGraphicsMapResources;
   cuGraphicsUnmapResources;
   cuCoredumpGetAttributeGlobal;
   cuCoredumpSetAttributeGlobal;
   cuGreenCtxCreate;
   cuGreenCtxDestroy;
   cuCtxFromGreenCtx;
   cuDeviceGetDevResource;
   cuCtxGetDevResource;
   cuGreenCtxGetDevResource;
   cuDevSmResourceSplitByCount;
   cuDevSmResourceSplit;
   cuDevResourceGenerateDesc;
   cuGreenCtxRecordEvent;
   cuGreenCtxWaitEvent;
   cuStreamGetGreenCtx;
   cuGreenCtxStreamCreate;
   cuGreenCtxGetId;
   cuStreamGetDevResource;
   cuLogsCurrent;
   cuGraphExecUpdate].
