(* ===== verification/StubServer.v ===== *)
(** * Generated CUDA server handlers

    One definition per function of [codegen/gen_cuda_server.cpp] that has the shape of
    [handler], in the order of the file. *)
From S2P Require Import Prelude Stub.

Definition handle_cuInit : handler := {|
  h_name := "cuInit";
  h_locals := [Uninit "Flags" "unsigned int"];
  h_async := false;
  h_reads := [Read (Val "Flags") (SizeOf "unsigned int")];
  h_rewrites := [];
  h_call := [ByVal "Flags"];
  h_reply := [Write (Val "return_value") (SizeOf "CUresult")] |}.

Definition handle_cuDriverGetVersion : handler := {|
  h_name := "cuDriverGetVersion";
  h_locals := [Zeroed "driverVersion" "int"];
  h_async := false;
  h_reads := [];
  h_rewrites := [];
  h_call := [AddrOf "driverVersion" []];
  h_reply := [Write (Val "driverVersion") (SizeOf "int");
              Write (Val "return_value") (SizeOf "CUresult")] |}.

Definition handle_cuDeviceGet : handler := {|
  h_name := "cuDeviceGet";
  h_locals := [Zeroed "device" "CUdevice"; Uninit "ordinal" "int"];
  h_async := false;
  h_reads := [Read (Val "ordinal") (SizeOf "int")];
  h_rewrites := [];
  h_call := [AddrOf "device" []; ByVal "ordinal"];
  h_reply := [Write (Val "device") (SizeOf "CUdevice");
              Write (Val "return_value") (SizeOf "CUresult")] |}.

Definition handle_cuDeviceGetCount : handler := {|
  h_name := "cuDeviceGetCount";
  h_locals := [Zeroed "count" "int"];
  h_async := false;
  h_reads := [];
  h_rewrites := [];
  h_call := [AddrOf "count" []];
  h_reply := [Write (Val "count") (SizeOf "int");
              Write (Val "return_value") (SizeOf "CUresult")] |}.

Definition handle_cuDeviceGetName : handler := {|
  h_name := "cuDeviceGetName";
  h_locals := [Uninit "len" "int"; NullPtr "name"; Uninit "dev" "CUdevice"];
  h_async := false;
  h_reads := [Read (Val "len") (SizeOf "int");
              Fail (Lt (Load "int" (Val "len")) (Num 0));
              Alloc "name" (Mul (Load "int" (Val "len")) (SizeOf "char")) true;
              Fail (And (Not (Eq (Mul (Load "int" (Val "len")) (SizeOf "char")) (Num 0))) (IsNull (Ref "name")));
              Read (Val "dev") (SizeOf "CUdevice")];
  h_rewrites := [];
  h_call := [UnlessZero (Mul (Load "int" (Val "len")) (SizeOf "char")) (BufPtr "name");
             ByVal "len";
             ByVal "dev"];
  h_reply := [Write (Ref "name") (Mul (Load "int" (Val "len")) (SizeOf "char"));
              Write (Val "return_value") (SizeOf "CUresult")] |}.

Definition handle_cuDeviceGetUuid_v2 : handler := {|
  h_name := "cuDeviceGetUuid_v2";
  h_locals := [NullPtr "uuid"; Uninit "dev" "CUdevice"];
  h_async := false;
  h_reads := [Alloc "uuid" (Num 16) true;
              Fail (And (Not (Eq (Num 16) (Num 0))) (IsNull (Ref "uuid")));
              Read (Val "dev") (SizeOf "CUdevice")];
  h_rewrites := [];
  h_call := [BufPtr "uuid"; ByVal "dev"];
  h_reply := [Write (Ref "uuid") (Num 16); Write (Val "return_value") (SizeOf "CUresult")] |}.

Definition handle_cuDeviceGetLuid : handler := {|
  h_name := "cuDeviceGetLuid";
  h_locals := [NullPtr "luid";
               Zeroed "deviceNodeMask" "unsigned int";
               Uninit "dev" "CUdevice"];
  h_async := false;
  h_reads := [Alloc "luid" (Num 8) true;
              Fail (And (Not (Eq (Num 8) (Num 0))) (IsNull (Ref "luid")));
              Read (Val "dev") (SizeOf "CUdevice")];
  h_rewrites := [];
  h_call := [BufPtr "luid"; AddrOf "deviceNodeMask" []; ByVal "dev"];
  h_reply := [Write (Ref "luid") (Num 8);
              Write (Val "deviceNodeMask") (SizeOf "unsigned int");
              Write (Val "return_value") (SizeOf "CUresult")] |}.

Definition handle_cuDeviceTotalMem_v2 : handler := {|
  h_name := "cuDeviceTotalMem_v2";
  h_locals := [Zeroed "bytes" "size_t"; Uninit "dev" "CUdevice"];
  h_async := false;
  h_reads := [Read (Val "dev") (SizeOf "CUdevice")];
  h_rewrites := [];
  h_call := [AddrOf "bytes" []; ByVal "dev"];
  h_reply := [Write (Val "bytes") (SizeOf "size_t");
              Write (Val "return_value") (SizeOf "CUresult")] |}.

Definition handle_cuDeviceGetTexture1DLinearMaxWidth : handler := {|
  h_name := "cuDeviceGetTexture1DLinearMaxWidth";
  h_locals := [Zeroed "maxWidthInElements" "size_t";
               Uninit "format" "CUarray_format";
               Uninit "numChannels" "unsigned";
               Uninit "dev" "CUdevice"];
  h_async := false;
  h_reads := [Read (Val "format") (SizeOf "CUarray_format");
              Read (Val "numChannels") (SizeOf "unsigned");
              Read (Val "dev") (SizeOf "CUdevice")];
  h_rewrites := [];
  h_call := [AddrOf "maxWidthInElements" [];
             ByVal "format";
             ByVal "numChannels";
             ByVal "dev"];
  h_reply := [Write (Val "maxWidthInElements") (SizeOf "size_t");
              Write (Val "return_value") (SizeOf "CUresult")] |}.

Definition handle_cuDeviceGetAttribute : handler := {|
  h_name := "cuDeviceGetAttribute";
  h_locals := [Zeroed "pi" "int";
               Uninit "attrib" "CUdevice_attribute";
               Uninit "dev" "CUdevice"];
  h_async := false;
  h_reads := [Read (Val "attrib") (SizeOf "CUdevice_attribute");
              Read (Val "dev") (SizeOf "CUdevice")];
  h_rewrites := [];
  h_call := [AddrOf "pi" []; ByVal "attrib"; ByVal "dev"];
  h_reply := [Write (Val "pi") (SizeOf "int");
              Write (Val "return_value") (SizeOf "CUresult")] |}.

Definition handle_cuDeviceSetMemPool : handler := {|
  h_name := "cuDeviceSetMemPool";
  h_locals := [Uninit "dev" "CUdevice"; Uninit "pool" "CUmemoryPool"];
  h_async := false;
  h_reads := [Read (Val "dev") (SizeOf "CUdevice");
              Read (Val "pool") (SizeOf "CUmemoryPool")];
  h_rewrites := [];
  h_call := [ByVal "dev"; ByVal "pool"];
  h_reply := [Write (Val "return_value") (SizeOf "CUresult")] |}.

Definition handle_cuDeviceGetMemPool : handler := {|
  h_name := "cuDeviceGetMemPool";
  h_locals := [Zeroed "pool" "CUmemoryPool"; Uninit "dev" "CUdevice"];
  h_async := false;
  h_reads := [Read (Val "dev") (SizeOf "CUdevice")];
  h_rewrites := [];
  h_call := [AddrOf "pool" []; ByVal "dev"];
  h_reply := [Write (Val "pool") (SizeOf "CUmemoryPool");
              Write (Val "return_value") (SizeOf "CUresult")] |}.

Definition handle_cuDeviceGetDefaultMemPool : handler := {|
  h_name := "cuDeviceGetDefaultMemPool";
  h_locals := [Zeroed "pool_out" "CUmemoryPool"; Uninit "dev" "CUdevice"];
  h_async := false;
  h_reads := [Read (Val "dev") (SizeOf "CUdevice")];
  h_rewrites := [];
  h_call := [AddrOf "pool_out" []; ByVal "dev"];
  h_reply := [Write (Val "pool_out") (SizeOf "CUmemoryPool");
              Write (Val "return_value") (SizeOf "CUresult")] |}.

Definition handle_cuDeviceGetExecAffinitySupport : handler := {|
  h_name := "cuDeviceGetExecAffinitySupport";
  h_locals := [Zeroed "pi" "int";
               Uninit "type" "CUexecAffinityType";
               Uninit "dev" "CUdevice"];
  h_async := false;
  h_reads := [Read (Val "type") (SizeOf "CUexecAffinityType");
              Read (Val "dev") (SizeOf "CUdevice")];
  h_rewrites := [];
  h_call := [AddrOf "pi" []; ByVal "type"; ByVal "dev"];
  h_reply := [Write (Val "pi") (SizeOf "int");
              Write (Val "return_value") (SizeOf "CUresult")] |}.

Definition handle_cuFlushGPUDirectRDMAWrites : handler := {|
  h_name := "cuFlushGPUDirectRDMAWrites";
  h_locals := [Uninit "target" "CUflushGPUDirectRDMAWritesTarget";
               Uninit "scope" "CUflushGPUDirectRDMAWritesScope"];
  h_async := false;
  h_reads := [Read (Val "target") (SizeOf "CUflushGPUDirectRDMAWritesTarget");
              Read (Val "scope") (SizeOf "CUflushGPUDirectRDMAWritesScope")];
  h_rewrites := [];
  h_call := [ByVal "target"; ByVal "scope"];
  h_reply := [Write (Val "return_value") (SizeOf "CUresult")] |}.

Definition handle_cuDeviceGetProperties : handler := {|
  h_name := "cuDeviceGetProperties";
  h_locals := [Zeroed "prop" "CUdevprop"; Uninit "dev" "CUdevice"];
  h_async := false;
  h_reads := [Read (Val "dev") (SizeOf "CUdevice")];
  h_rewrites := [];
  h_call := [AddrOf "prop" []; ByVal "dev"];
  h_reply := [Write (Val "prop") (SizeOf "CUdevprop");
              Write (Val "return_value") (SizeOf "CUresult")] |}.

Definition handle_cuDeviceComputeCapability : handler := {|
  h_name := "cuDeviceComputeCapability";
  h_locals := [Zeroed "major" "int"; Zeroed "minor" "int"; Uninit "dev" "CUdevice"];
  h_async := false;
  h_reads := [Read (Val "dev") (SizeOf "CUdevice")];
  h_rewrites := [];
  h_call := [AddrOf "major" []; AddrOf "minor" []; ByVal "dev"];
  h_reply := [Write (Val "major") (SizeOf "int");
              Write (Val "minor") (SizeOf "int");
              Write (Val "return_value") (SizeOf "CUresult")] |}.

Definition handle_cuDevicePrimaryCtxSetFlags_v2 : handler := {|
  h_name := "cuDevicePrimaryCtxSetFlags_v2";
  h_locals := [Uninit "dev" "CUdevice"; Uninit "flags" "unsigned int"];
  h_async := false;
  h_reads := [Read (Val "dev") (SizeOf "CUdevice");
              Read (Val "flags") (SizeOf "unsigned int")];
  h_rewrites := [];
  h_call := [ByVal "dev"; ByVal "flags"];
  h_reply := [Write (Val "return_value") (SizeOf "CUresult")] |}.

Definition handle_cuDevicePrimaryCtxGetState : handler := {|
  h_name := "cuDevicePrimaryCtxGetState";
  h_locals := [Uninit "dev" "CUdevice";
               Zeroed "flags" "unsigned int";
               Zeroed "active" "int"];
  h_async := false;
  h_reads := [Read (Val "dev") (SizeOf "CUdevice")];
  h_rewrites := [];
  h_call := [ByVal "dev"; AddrOf "flags" []; AddrOf "active" []];
  h_reply := [Write (Val "flags") (SizeOf "unsigned int");
              Write (Val "active") (SizeOf "int");
              Write (Val "return_value") (SizeOf "CUresult")] |}.

Definition handle_cuCtxPushCurrent_v2 : handler := {|
  h_name := "cuCtxPushCurrent_v2";
  h_locals := [Uninit "ctx" "CUcontext"];
  h_async := false;
  h_reads := [Read (Val "ctx") (SizeOf "CUcontext")];
  h_rewrites := [];
  h_call := [ByVal "ctx"];
  h_reply := [Write (Val "return_value") (SizeOf "CUresult")] |}.

Definition handle_cuCtxPopCurrent_v2 : handler := {|
  h_name := "cuCtxPopCurrent_v2";
  h_locals := [Zeroed "pctx" "CUcontext"];
  h_async := false;
  h_reads := [];
  h_rewrites := [];
  h_call := [AddrOf "pctx" []];
  h_reply := [Write (Val "pctx") (SizeOf "CUcontext");
              Write (Val "return_value") (SizeOf "CUresult")] |}.

Definition handle_cuCtxSetCurrent : handler := {|
  h_name := "cuCtxSetCurrent";
  h_locals := [Uninit "ctx" "CUcontext"];
  h_async := false;
  h_reads := [Read (Val "ctx") (SizeOf "CUcontext")];
  h_rewrites := [];
  h_call := [ByVal "ctx"];
  h_reply := [Write (Val "return_value") (SizeOf "CUresult")] |}.

Definition handle_cuCtxGetCurrent : handler := {|
  h_name := "cuCtxGetCurrent";
  h_locals := [Zeroed "pctx" "CUcontext"];
  h_async := false;
  h_reads := [];
  h_rewrites := [];
  h_call := [AddrOf "pctx" []];
  h_reply := [Write (Val "pctx") (SizeOf "CUcontext");
              Write (Val "return_value") (SizeOf "CUresult")] |}.

Definition handle_cuCtxGetDevice : handler := {|
  h_name := "cuCtxGetDevice";
  h_locals := [Zeroed "device" "CUdevice"];
  h_async := false;
  h_reads := [];
  h_rewrites := [];
  h_call := [AddrOf "device" []];
  h_reply := [Write (Val "device") (SizeOf "CUdevice");
              Write (Val "return_value") (SizeOf "CUresult")] |}.

Definition handle_cuCtxGetDevice_v2 : handler := {|
  h_name := "cuCtxGetDevice_v2";
  h_locals := [Zeroed "device" "CUdevice"; Uninit "ctx" "CUcontext"];
  h_async := false;
  h_reads := [Read (Val "ctx") (SizeOf "CUcontext")];
  h_rewrites := [];
  h_call := [AddrOf "device" []; ByVal "ctx"];
  h_reply := [Write (Val "device") (SizeOf "CUdevice");
              Write (Val "return_value") (SizeOf "CUresult")] |}.

Definition handle_cuCtxGetFlags : handler := {|
  h_name := "cuCtxGetFlags";
  h_locals := [Zeroed "flags" "unsigned int"];
  h_async := false;
  h_reads := [];
  h_rewrites := [];
  h_call := [AddrOf "flags" []];
  h_reply := [Write (Val "flags") (SizeOf "unsigned int");
              Write (Val "return_value") (SizeOf "CUresult")] |}.

Definition handle_cuCtxGetId : handler := {|
  h_name := "cuCtxGetId";
  h_locals := [Uninit "ctx" "CUcontext"; Zeroed "ctxId" "unsigned long long"];
  h_async := false;
  h_reads := [Read (Val "ctx") (SizeOf "CUcontext")];
  h_rewrites := [];
  h_call := [ByVal "ctx"; AddrOf "ctxId" []];
  h_reply := [Write (Val "ctxId") (SizeOf "unsigned long long");
              Write (Val "return_value") (SizeOf "CUresult")] |}.

Definition handle_cuCtxSetLimit : handler := {|
  h_name := "cuCtxSetLimit";
  h_locals := [Uninit "limit" "CUlimit"; Uninit "value" "size_t"];
  h_async := false;
  h_reads := [Read (Val "limit") (SizeOf "CUlimit"); Read (Val "value") (SizeOf "size_t")];
  h_rewrites := [];
  h_call := [ByVal "limit"; ByVal "value"];
  h_reply := [Write (Val "return_value") (SizeOf "CUresult")] |}.

Definition handle_cuCtxGetLimit : handler := {|
  h_name := "cuCtxGetLimit";
  h_locals := [Zeroed "pvalue" "size_t"; Uninit "limit" "CUlimit"];
  h_async := false;
  h_reads := [Read (Val "limit") (SizeOf "CUlimit")];
  h_rewrites := [];
  h_call := [AddrOf "pvalue" []; ByVal "limit"];
  h_reply := [Write (Val "pvalue") (SizeOf "size_t");
              Write (Val "return_value") (SizeOf "CUresult")] |}.

Definition handle_cuCtxGetCacheConfig : handler := {|
  h_name := "cuCtxGetCacheConfig";
  h_locals := [Zeroed "pconfig" "CUfunc_cache"];
  h_async := false;
  h_reads := [];
  h_rewrites := [];
  h_call := [AddrOf "pconfig" []];
  h_reply := [Write (Val "pconfig") (SizeOf "CUfunc_cache");
              Write (Val "return_value") (SizeOf "CUresult")] |}.

Definition handle_cuCtxSetCacheConfig : handler := {|
  h_name := "cuCtxSetCacheConfig";
  h_locals := [Uninit "config" "CUfunc_cache"];
  h_async := false;
  h_reads := [Read (Val "config") (SizeOf "CUfunc_cache")];
  h_rewrites := [];
  h_call := [ByVal "config"];
  h_reply := [Write (Val "return_value") (SizeOf "CUresult")] |}.

Definition handle_cuCtxGetApiVersion : handler := {|
  h_name := "cuCtxGetApiVersion";
  h_locals := [Uninit "ctx" "CUcontext"; Zeroed "version" "unsigned int"];
  h_async := false;
  h_reads := [Read (Val "ctx") (SizeOf "CUcontext")];
  h_rewrites := [];
  h_call := [ByVal "ctx"; AddrOf "version" []];
  h_reply := [Write (Val "version") (SizeOf "unsigned int");
              Write (Val "return_value") (SizeOf "CUresult")] |}.

Definition handle_cuCtxGetStreamPriorityRange : handler := {|
  h_name := "cuCtxGetStreamPriorityRange";
  h_locals := [Zeroed "leastPriority" "int"; Zeroed "greatestPriority" "int"];
  h_async := false;
  h_reads := [];
  h_rewrites := [];
  h_call := [AddrOf "leastPriority" []; AddrOf "greatestPriority" []];
  h_reply := [Write (Val "leastPriority") (SizeOf "int");
              Write (Val "greatestPriority") (SizeOf "int");
              Write (Val "return_value") (SizeOf "CUresult")] |}.

Definition handle_cuCtxResetPersistingL2Cache : handler := {|
  h_name := "cuCtxResetPersistingL2Cache";
  h_locals := [];
  h_async := false;
  h_reads := [];
  h_rewrites := [];
  h_call := [];
  h_reply := [Write (Val "return_value") (SizeOf "CUresult")] |}.

Definition handle_cuCtxGetExecAffinity : handler := {|
  h_name := "cuCtxGetExecAffinity";
  h_locals := [Zeroed "pExecAffinity" "CUexecAffinityParam";
               Uninit "type" "CUexecAffinityType"];
  h_async := false;
  h_reads := [Read (Val "type") (SizeOf "CUexecAffinityType")];
  h_rewrites := [];
  h_call := [AddrOf "pExecAffinity" []; ByVal "type"];
  h_reply := [Write (Val "pExecAffinity") (SizeOf "CUexecAffinityParam");
              Write (Val "return_value") (SizeOf "CUresult")] |}.

Definition handle_cuCtxRecordEvent : handler := {|
  h_name := "cuCtxRecordEvent";
  h_locals := [Uninit "hCtx" "CUcontext"; Uninit "hEvent" "CUevent"];
  h_async := false;
  h_reads := [Read (Val "hCtx") (SizeOf "CUcontext");
              Read (Val "hEvent") (SizeOf "CUevent")];
  h_rewrites := [];
  h_call := [ByVal "hCtx"; ByVal "hEvent"];
  h_reply := [Write (Val "return_value") (SizeOf "CUresult")] |}.

Definition handle_cuCtxWaitEvent : handler := {|
  h_name := "cuCtxWaitEvent";
  h_locals := [Uninit "hCtx" "CUcontext"; Uninit "hEvent" "CUevent"];
  h_async := false;
  h_reads := [Read (Val "hCtx") (SizeOf "CUcontext");
              Read (Val "hEvent") (SizeOf "CUevent")];
  h_rewrites := [];
  h_call := [ByVal "hCtx"; ByVal "hEvent"];
  h_reply := [Write (Val "return_value") (SizeOf "CUresult")] |}.

Definition handle_cuCtxGetSharedMemConfig : handler := {|
  h_name := "cuCtxGetSharedMemConfig";
  h_locals := [Zeroed "pConfig" "CUsharedconfig"];
  h_async := false;
  h_reads := [];
  h_rewrites := [];
  h_call := [AddrOf "pConfig" []];
  h_reply := [Write (Val "pConfig") (SizeOf "CUsharedconfig");
              Write (Val "return_value") (SizeOf "CUresult")] |}.

Definition handle_cuCtxSetSharedMemConfig : handler := {|
  h_name := "cuCtxSetSharedMemConfig";
  h_locals := [Uninit "config" "CUsharedconfig"];
  h_async := false;
  h_reads := [Read (Val "config") (SizeOf "CUsharedconfig")];
  h_rewrites := [];
  h_call := [ByVal "config"];
  h_reply := [Write (Val "return_value") (SizeOf "CUresult")] |}.

Definition handle_cuModuleUnload : handler := {|
  h_name := "cuModuleUnload";
  h_locals := [Uninit "hmod" "CUmodule"];
  h_async := false;
  h_reads := [Read (Val "hmod") (SizeOf "CUmodule")];
  h_rewrites := [];
  h_call := [ByVal "hmod"];
  h_reply := [Write (Val "return_value") (SizeOf "CUresult")] |}.

Definition handle_cuModuleGetLoadingMode : handler := {|
  h_name := "cuModuleGetLoadingMode";
  h_locals := [Zeroed "mode" "CUmoduleLoadingMode"];
  h_async := false;
  h_reads := [];
  h_rewrites := [];
  h_call := [AddrOf "mode" []];
  h_reply := [Write (Val "mode") (SizeOf "CUmoduleLoadingMode");
              Write (Val "return_value") (SizeOf "CUresult")] |}.

Definition handle_cuModuleGetFunction : handler := {|
  h_name := "cuModuleGetFunction";
  h_locals := [Zeroed "hfunc" "CUfunction";
               Uninit "hmod" "CUmodule";
               NullPtr "name";
               Uninit "name_len" "size_t"];
  h_async := false;
  h_reads := [Read (Val "hmod") (SizeOf "CUmodule");
              Read (Val "name_len") (SizeOf "size_t");
              Alloc "name" (Load "size_t" (Val "name_len")) false;
              Fail (And (Not (Eq (Load "size_t" (Val "name_len")) (Num 0))) (IsNull (Ref "name")));
              Read (Ref "name") (Load "size_t" (Val "name_len"))];
  h_rewrites := [];
  h_call := [AddrOf "hfunc" []; ByVal "hmod"; BufPtr "name"];
  h_reply := [Write (Val "hfunc") (SizeOf "CUfunction");
              Write (Val "return_value") (SizeOf "CUresult")] |}.

Definition handle_cuModuleGetTexRef : handler := {|
  h_name := "cuModuleGetTexRef";
  h_locals := [Zeroed "pTexRef" "CUtexref";
               Uninit "hmod" "CUmodule";
               NullPtr "name";
               Uninit "name_len" "size_t"];
  h_async := false;
  h_reads := [Read (Val "hmod") (SizeOf "CUmodule");
              Read (Val "name_len") (SizeOf "size_t");
              Alloc "name" (Load "size_t" (Val "name_len")) false;
              Fail (And (Not (Eq (Load "size_t" (Val "name_len")) (Num 0))) (IsNull (Ref "name")));
              Read (Ref "name") (Load "size_t" (Val "name_len"))];
  h_rewrites := [];
  h_call := [AddrOf "pTexRef" []; ByVal "hmod"; BufPtr "name"];
  h_reply := [Write (Val "pTexRef") (SizeOf "CUtexref");
              Write (Val "return_value") (SizeOf "CUresult")] |}.

Definition handle_cuModuleGetSurfRef : handler := {|
  h_name := "cuModuleGetSurfRef";
  h_locals := [Zeroed "pSurfRef" "CUsurfref";
               Uninit "hmod" "CUmodule";
               NullPtr "name";
               Uninit "name_len" "size_t"];
  h_async := false;
  h_reads := [Read (Val "hmod") (SizeOf "CUmodule");
              Read (Val "name_len") (SizeOf "size_t");
              Alloc "name" (Load "size_t" (Val "name_len")) false;
              Fail (And (Not (Eq (Load "size_t" (Val "name_len")) (Num 0))) (IsNull (Ref "name")));
              Read (Ref "name") (Load "size_t" (Val "name_len"))];
  h_rewrites := [];
  h_call := [AddrOf "pSurfRef" []; ByVal "hmod"; BufPtr "name"];
  h_reply := [Write (Val "pSurfRef") (SizeOf "CUsurfref");
              Write (Val "return_value") (SizeOf "CUresult")] |}.

Definition handle_cuLibraryGetKernel : handler := {|
  h_name := "cuLibraryGetKernel";
  h_locals := [Zeroed "pKernel" "CUkernel";
               Uninit "library" "CUlibrary";
               NullPtr "name";
               Uninit "name_len" "size_t"];
  h_async := false;
  h_reads := [Read (Val "library") (SizeOf "CUlibrary");
              Read (Val "name_len") (SizeOf "size_t");
              Alloc "name" (Load "size_t" (Val "name_len")) false;
              Fail (And (Not (Eq (Load "size_t" (Val "name_len")) (Num 0))) (IsNull (Ref "name")));
              Read (Ref "name") (Load "size_t" (Val "name_len"))];
  h_rewrites := [];
  h_call := [AddrOf "pKernel" []; ByVal "library"; BufPtr "name"];
  h_reply := [Write (Val "pKernel") (SizeOf "CUkernel");
              Write (Val "return_value") (SizeOf "CUresult")] |}.

Definition handle_cuKernelGetFunction : handler := {|
  h_name := "cuKernelGetFunction";
  h_locals := [Zeroed "pFunc" "CUfunction"; Uninit "kernel" "CUkernel"];
  h_async := false;
  h_reads := [Read (Val "kernel") (SizeOf "CUkernel")];
  h_rewrites := [];
  h_call := [AddrOf "pFunc" []; ByVal "kernel"];
  h_reply := [Write (Val "pFunc") (SizeOf "CUfunction");
              Write (Val "return_value") (SizeOf "CUresult")] |}.

Definition handle_cuKernelGetLibrary : handler := {|
  h_name := "cuKernelGetLibrary";
  h_locals := [Zeroed "pLib" "CUlibrary"; Uninit "kernel" "CUkernel"];
  h_async := false;
  h_reads := [Read (Val "kernel") (SizeOf "CUkernel")];
  h_rewrites := [];
  h_call := [AddrOf "pLib" []; ByVal "kernel"];
  h_reply := [Write (Val "pLib") (SizeOf "CUlibrary");
              Write (Val "return_value") (SizeOf "CUresult")] |}.

Definition handle_cuLibraryGetGlobal : handler := {|
  h_name := "cuLibraryGetGlobal";
  h_locals := [Zeroed "dptr_present" "uint8_t";
               Uninit "dptr" "CUdeviceptr";
               Zeroed "bytes_present" "uint8_t";
               Uninit "bytes" "size_t";
               Uninit "library" "CUlibrary";
               NullPtr "name";
               Uninit "name_len" "size_t"];
  h_async := false;
  h_reads := [Read (Val "dptr_present") (SizeOf "uint8_t");
              When (Load "uint8_t" (Val "dptr_present")) (Read (Val "dptr") (SizeOf "CUdeviceptr"));
              Read (Val "bytes_present") (SizeOf "uint8_t");
              When (Load "uint8_t" (Val "bytes_present")) (Read (Val "bytes") (SizeOf "size_t"));
              Read (Val "library") (SizeOf "CUlibrary");
              Read (Val "name_len") (SizeOf "size_t");
              Alloc "name" (Load "size_t" (Val "name_len")) false;
              Fail (And (Not (Eq (Load "size_t" (Val "name_len")) (Num 0))) (IsNull (Ref "name")));
              Read (Ref "name") (Load "size_t" (Val "name_len"))];
  h_rewrites := [];
  h_call := [IfArg (Load "uint8_t" (Val "dptr_present")) (AddrOf "dptr" []);
             IfArg (Load "uint8_t" (Val "bytes_present")) (AddrOf "bytes" []);
             ByVal "library";
             BufPtr "name"];
  h_reply := [When (Load "uint8_t" (Val "dptr_present")) (Write (Val "dptr") (SizeOf "CUdeviceptr"));
              When (Load "uint8_t" (Val "bytes_present")) (Write (Val "bytes") (SizeOf "size_t"));
              Write (Val "return_value") (SizeOf "CUresult")] |}.

Definition handle_cuLibraryGetManaged : handler := {|
  h_name := "cuLibraryGetManaged";
  h_locals := [Zeroed "dptr_present" "uint8_t";
               Uninit "dptr" "CUdeviceptr";
               Zeroed "bytes_present" "uint8_t";
               Uninit "bytes" "size_t";
               Uninit "library" "CUlibrary";
               NullPtr "name";
               Uninit "name_len" "size_t"];
  h_async := false;
  h_reads := [Read (Val "dptr_present") (SizeOf "uint8_t");
              When (Load "uint8_t" (Val "dptr_present")) (Read (Val "dptr") (SizeOf "CUdeviceptr"));
              Read (Val "bytes_present") (SizeOf "uint8_t");
              When (Load "uint8_t" (Val "bytes_present")) (Read (Val "bytes") (SizeOf "size_t"));
              Read (Val "library") (SizeOf "CUlibrary");
              Read (Val "name_len") (SizeOf "size_t");
              Alloc "name" (Load "size_t" (Val "name_len")) false;
              Fail (And (Not (Eq (Load "size_t" (Val "name_len")) (Num 0))) (IsNull (Ref "name")));
              Read (Ref "name") (Load "size_t" (Val "name_len"))];
  h_rewrites := [];
  h_call := [IfArg (Load "uint8_t" (Val "dptr_present")) (AddrOf "dptr" []);
             IfArg (Load "uint8_t" (Val "bytes_present")) (AddrOf "bytes" []);
             ByVal "library";
             BufPtr "name"];
  h_reply := [When (Load "uint8_t" (Val "dptr_present")) (Write (Val "dptr") (SizeOf "CUdeviceptr"));
              When (Load "uint8_t" (Val "bytes_present")) (Write (Val "bytes") (SizeOf "size_t"));
              Write (Val "return_value") (SizeOf "CUresult")] |}.

Definition handle_cuLibraryGetUnifiedFunction : handler := {|
  h_name := "cuLibraryGetUnifiedFunction";
  h_locals := [Zeroed "fptr" "void *";
               Uninit "library" "CUlibrary";
               NullPtr "symbol";
               Uninit "symbol_len" "size_t"];
  h_async := false;
  h_reads := [Read (Val "library") (SizeOf "CUlibrary");
              Read (Val "symbol_len") (SizeOf "size_t");
              Alloc "symbol" (Load "size_t" (Val "symbol_len")) false;
              Fail (And (Not (Eq (Load "size_t" (Val "symbol_len")) (Num 0))) (IsNull (Ref "symbol")));
              Read (Ref "symbol") (Load "size_t" (Val "symbol_len"))];
  h_rewrites := [];
  h_call := [AddrOf "fptr" []; ByVal "library"; BufPtr "symbol"];
  h_reply := [Write (Val "fptr") (SizeOf "void *");
              Write (Val "return_value") (SizeOf "CUresult")] |}.

Definition handle_cuKernelGetAttribute : handler := {|
  h_name := "cuKernelGetAttribute";
  h_locals := [Zeroed "pi" "int";
               Uninit "attrib" "CUfunction_attribute";
               Uninit "kernel" "CUkernel";
               Uninit "dev" "CUdevice"];
  h_async := false;
  h_reads := [Read (Val "pi") (SizeOf "int");
              Read (Val "attrib") (SizeOf "CUfunction_attribute");
              Read (Val "kernel") (SizeOf "CUkernel");
              Read (Val "dev") (SizeOf "CUdevice")];
  h_rewrites := [];
  h_call := [AddrOf "pi" []; ByVal "attrib"; ByVal "kernel"; ByVal "dev"];
  h_reply := [Write (Val "pi") (SizeOf "int");
              Write (Val "return_value") (SizeOf "CUresult")] |}.

Definition handle_cuKernelSetAttribute : handler := {|
  h_name := "cuKernelSetAttribute";
  h_locals := [Uninit "attrib" "CUfunction_attribute";
               Uninit "val" "int";
               Uninit "kernel" "CUkernel";
               Uninit "dev" "CUdevice";
               Zeroed "async_sequence" "uint64_t"];
  h_async := true;
  h_reads := [Read (Val "async_sequence") (SizeOf "uint64_t");
              Read (Val "attrib") (SizeOf "CUfunction_attribute");
              Read (Val "val") (SizeOf "int");
              Read (Val "kernel") (SizeOf "CUkernel");
              Read (Val "dev") (SizeOf "CUdevice")];
  h_rewrites := [];
  h_call := [ByVal "attrib"; ByVal "val"; ByVal "kernel"; ByVal "dev"];
  h_reply := [] |}.

Definition handle_cuKernelSetCacheConfig : handler := {|
  h_name := "cuKernelSetCacheConfig";
  h_locals := [Uninit "kernel" "CUkernel";
               Uninit "config" "CUfunc_cache";
               Uninit "dev" "CUdevice"];
  h_async := false;
  h_reads := [Read (Val "kernel") (SizeOf "CUkernel");
              Read (Val "config") (SizeOf "CUfunc_cache");
              Read (Val "dev") (SizeOf "CUdevice")];
  h_rewrites := [];
  h_call := [ByVal "kernel"; ByVal "config"; ByVal "dev"];
  h_reply := [Write (Val "return_value") (SizeOf "CUresult")] |}.

Definition handle_cuKernelGetParamInfo : handler := {|
  h_name := "cuKernelGetParamInfo";
  h_locals := [Uninit "kernel" "CUkernel";
               Uninit "paramIndex" "size_t";
               Zeroed "paramOffset" "size_t";
               Zeroed "paramSize" "size_t"];
  h_async := false;
  h_reads := [Read (Val "kernel") (SizeOf "CUkernel");
              Read (Val "paramIndex") (SizeOf "size_t")];
  h_rewrites := [];
  h_call := [ByVal "kernel";
             ByVal "paramIndex";
             AddrOf "paramOffset" [];
             AddrOf "paramSize" []];
  h_reply := [Write (Val "paramOffset") (SizeOf "size_t");
              Write (Val "paramSize") (SizeOf "size_t");
              Write (Val "return_value") (SizeOf "CUresult")] |}.

Definition handle_cuMemGetInfo_v2 : handler := {|
  h_name := "cuMemGetInfo_v2";
  h_locals := [Zeroed "free" "size_t"; Zeroed "total" "size_t"];
  h_async := false;
  h_reads := [Read (Val "free") (SizeOf "size_t"); Read (Val "total") (SizeOf "size_t")];
  h_rewrites := [];
  h_call := [AddrOf "free" []; AddrOf "total" []];
  h_reply := [Write (Val "free") (SizeOf "size_t");
              Write (Val "total") (SizeOf "size_t");
              Write (Val "return_value") (SizeOf "CUresult")] |}.

Definition handle_cuMemAlloc_v2 : handler := {|
  h_name := "cuMemAlloc_v2";
  h_locals := [Zeroed "dptr" "CUdeviceptr"; Uninit "bytesize" "size_t"];
  h_async := false;
  h_reads := [Read (Val "dptr") (SizeOf "CUdeviceptr");
              Read (Val "bytesize") (SizeOf "size_t")];
  h_rewrites := [];
  h_call := [AddrOf "dptr" []; ByVal "bytesize"];
  h_reply := [Write (Val "dptr") (SizeOf "CUdeviceptr");
              Write (Val "return_value") (SizeOf "CUresult")] |}.

Definition handle_cuMemAllocPitch_v2 : handler := {|
  h_name := "cuMemAllocPitch_v2";
  h_locals := [Zeroed "dptr" "CUdeviceptr";
               Zeroed "pPitch" "size_t";
               Uninit "WidthInBytes" "size_t";
               Uninit "Height" "size_t";
               Uninit "ElementSizeBytes" "unsigned int"];
  h_async := false;
  h_reads := [Read (Val "dptr") (SizeOf "CUdeviceptr");
              Read (Val "pPitch") (SizeOf "size_t");
              Read (Val "WidthInBytes") (SizeOf "size_t");
              Read (Val "Height") (SizeOf "size_t");
              Read (Val "ElementSizeBytes") (SizeOf "unsigned int")];
  h_rewrites := [];
  h_call := [AddrOf "dptr" [];
             AddrOf "pPitch" [];
             ByVal "WidthInBytes";
             ByVal "Height";
             ByVal "ElementSizeBytes"];
  h_reply := [Write (Val "dptr") (SizeOf "CUdeviceptr");
              Write (Val "pPitch") (SizeOf "size_t");
              Write (Val "return_value") (SizeOf "CUresult")] |}.

Definition handle_cuMemGetAddressRange_v2 : handler := {|
  h_name := "cuMemGetAddressRange_v2";
  h_locals := [Zeroed "pbase_present" "uint8_t";
               Uninit "pbase" "CUdeviceptr";
               Zeroed "psize_present" "uint8_t";
               Uninit "psize" "size_t";
               Uninit "dptr" "CUdeviceptr"];
  h_async := false;
  h_reads := [Read (Val "pbase_present") (SizeOf "uint8_t");
              When (Load "uint8_t" (Val "pbase_present")) (Read (Val "pbase") (SizeOf "CUdeviceptr"));
              Read (Val "psize_present") (SizeOf "uint8_t");
              When (Load "uint8_t" (Val "psize_present")) (Read (Val "psize") (SizeOf "size_t"));
              Read (Val "dptr") (SizeOf "CUdeviceptr")];
  h_rewrites := [];
  h_call := [IfArg (Load "uint8_t" (Val "pbase_present")) (AddrOf "pbase" []);
             IfArg (Load "uint8_t" (Val "psize_present")) (AddrOf "psize" []);
             ByVal "dptr"];
  h_reply := [When (Load "uint8_t" (Val "pbase_present")) (Write (Val "pbase") (SizeOf "CUdeviceptr"));
              When (Load "uint8_t" (Val "psize_present")) (Write (Val "psize") (SizeOf "size_t"));
              Write (Val "return_value") (SizeOf "CUresult")] |}.

Definition handle_cuMemAllocHost_v2 : handler := {|
  h_name := "cuMemAllocHost_v2";
  h_locals := [Zeroed "pp" "void *"; Uninit "bytesize" "size_t"];
  h_async := false;
  h_reads := [Read (Val "pp") (SizeOf "void *"); Read (Val "bytesize") (SizeOf "size_t")];
  h_rewrites := [];
  h_call := [AddrOf "pp" []; ByVal "bytesize"];
  h_reply := [Write (Val "pp") (SizeOf "void *");
              Write (Val "return_value") (SizeOf "CUresult")] |}.

Definition handle_cuMemHostGetDevicePointer_v2 : handler := {|
  h_name := "cuMemHostGetDevicePointer_v2";
  h_locals := [Zeroed "pdptr" "CUdeviceptr";
               Uninit "p" "void *";
               Uninit "Flags" "unsigned int"];
  h_async := false;
  h_reads := [Read (Val "pdptr") (SizeOf "CUdeviceptr");
              Read (Val "p") (SizeOf "void *");
              Read (Val "Flags") (SizeOf "unsigned int")];
  h_rewrites := [];
  h_call := [AddrOf "pdptr" []; ByVal "p"; ByVal "Flags"];
  h_reply := [Write (Val "pdptr") (SizeOf "CUdeviceptr");
              Write (Val "return_value") (SizeOf "CUresult")] |}.

Definition handle_cuDeviceGetByPCIBusId : handler := {|
  h_name := "cuDeviceGetByPCIBusId";
  h_locals := [Zeroed "dev_present" "uint8_t";
               Uninit "dev" "CUdevice";
               NullPtr "pciBusId";
               Uninit "pciBusId_len" "size_t"];
  h_async := false;
  h_reads := [Read (Val "dev_present") (SizeOf "uint8_t");
              When (Load "uint8_t" (Val "dev_present")) (Read (Val "dev") (SizeOf "CUdevice"));
              Read (Val "pciBusId_len") (SizeOf "size_t");
              Alloc "pciBusId" (Load "size_t" (Val "pciBusId_len")) false;
              Fail (And (Not (Eq (Load "size_t" (Val "pciBusId_len")) (Num 0))) (IsNull (Ref "pciBusId")));
              Read (Ref "pciBusId") (Load "size_t" (Val "pciBusId_len"))];
  h_rewrites := [];
  h_call := [IfArg (Load "uint8_t" (Val "dev_present")) (AddrOf "dev" []);
             BufPtr "pciBusId"];
  h_reply := [When (Load "uint8_t" (Val "dev_present")) (Write (Val "dev") (SizeOf "CUdevice"));
              Write (Val "return_value") (SizeOf "CUresult")] |}.

Definition handle_cuDeviceGetPCIBusId : handler := {|
  h_name := "cuDeviceGetPCIBusId";
  h_locals := [Uninit "len" "int"; NullPtr "pciBusId"; Uninit "dev" "CUdevice"];
  h_async := false;
  h_reads := [Read (Val "len") (SizeOf "int");
              Fail (Lt (Load "int" (Val "len")) (Num 0));
              Alloc "pciBusId" (Mul (Load "int" (Val "len")) (SizeOf "char")) true;
              Fail (And (Not (Eq (Mul (Load "int" (Val "len")) (SizeOf "char")) (Num 0))) (IsNull (Ref "pciBusId")));
              Read (Val "dev") (SizeOf "CUdevice")];
  h_rewrites := [];
  h_call := [UnlessZero (Mul (Load "int" (Val "len")) (SizeOf "char")) (BufPtr "pciBusId");
             ByVal "len";
             ByVal "dev"];
  h_reply := [Write (Ref "pciBusId") (Mul (Load "int" (Val "len")) (SizeOf "char"));
              Write (Val "return_value") (SizeOf "CUresult")] |}.

Definition handle_cuIpcGetEventHandle : handler := {|
  h_name := "cuIpcGetEventHandle";
  h_locals := [Zeroed "pHandle" "CUipcEventHandle"; Uninit "event" "CUevent"];
  h_async := false;
  h_reads := [Read (Val "pHandle") (SizeOf "CUipcEventHandle");
              Read (Val "event") (SizeOf "CUevent")];
  h_rewrites := [];
  h_call := [AddrOf "pHandle" []; ByVal "event"];
  h_reply := [Write (Val "pHandle") (SizeOf "CUipcEventHandle");
              Write (Val "return_value") (SizeOf "CUresult")] |}.

Definition handle_cuIpcOpenEventHandle : handler := {|
  h_name := "cuIpcOpenEventHandle";
  h_locals := [Zeroed "phEvent" "CUevent"; Uninit "handle" "CUipcEventHandle"];
  h_async := false;
  h_reads := [Read (Val "phEvent") (SizeOf "CUevent");
              Read (Val "handle") (SizeOf "CUipcEventHandle")];
  h_rewrites := [];
  h_call := [AddrOf "phEvent" []; ByVal "handle"];
  h_reply := [Write (Val "phEvent") (SizeOf "CUevent");
              Write (Val "return_value") (SizeOf "CUresult")] |}.

Definition handle_cuIpcGetMemHandle : handler := {|
  h_name := "cuIpcGetMemHandle";
  h_locals := [Zeroed "pHandle" "CUipcMemHandle"; Uninit "dptr" "CUdeviceptr"];
  h_async := false;
  h_reads := [Read (Val "pHandle") (SizeOf "CUipcMemHandle");
              Read (Val "dptr") (SizeOf "CUdeviceptr")];
  h_rewrites := [];
  h_call := [AddrOf "pHandle" []; ByVal "dptr"];
  h_reply := [Write (Val "pHandle") (SizeOf "CUipcMemHandle");
              Write (Val "return_value") (SizeOf "CUresult")] |}.

Definition handle_cuIpcOpenMemHandle_v2 : handler := {|
  h_name := "cuIpcOpenMemHandle_v2";
  h_locals := [Zeroed "pdptr" "CUdeviceptr";
               Uninit "handle" "CUipcMemHandle";
               Uninit "Flags" "unsigned int"];
  h_async := false;
  h_reads := [Read (Val "pdptr") (SizeOf "CUdeviceptr");
              Read (Val "handle") (SizeOf "CUipcMemHandle");
              Read (Val "Flags") (SizeOf "unsigned int")];
  h_rewrites := [];
  h_call := [AddrOf "pdptr" []; ByVal "handle"; ByVal "Flags"];
  h_reply := [Write (Val "pdptr") (SizeOf "CUdeviceptr");
              Write (Val "return_value") (SizeOf "CUresult")] |}.

Definition handle_cuIpcCloseMemHandle : handler := {|
  h_name := "cuIpcCloseMemHandle";
  h_locals := [Uninit "dptr" "CUdeviceptr"];
  h_async := false;
  h_reads := [Read (Val "dptr") (SizeOf "CUdeviceptr")];
  h_rewrites := [];
  h_call := [ByVal "dptr"];
  h_reply := [Write (Val "return_value") (SizeOf "CUresult")] |}.

Definition handle_cuMemcpy : handler := {|
  h_name := "cuMemcpy";
  h_locals := [Uninit "dst" "CUdeviceptr";
               Uninit "src" "CUdeviceptr";
               Uninit "ByteCount" "size_t"];
  h_async := false;
  h_reads := [Read (Val "dst") (SizeOf "CUdeviceptr");
              Read (Val "src") (SizeOf "CUdeviceptr");
              Read (Val "ByteCount") (SizeOf "size_t")];
  h_rewrites := [];
  h_call := [ByVal "dst"; ByVal "src"; ByVal "ByteCount"];
  h_reply := [Write (Val "return_value") (SizeOf "CUresult")] |}.

Definition handle_cuMemcpyPeer : handler := {|
  h_name := "cuMemcpyPeer";
  h_locals := [Uninit "dstDevice" "CUdeviceptr";
               Uninit "dstContext" "CUcontext";
               Uninit "srcDevice" "CUdeviceptr";
               Uninit "srcContext" "CUcontext";
               Uninit "ByteCount" "size_t"];
  h_async := false;
  h_reads := [Read (Val "dstDevice") (SizeOf "CUdeviceptr");
              Read (Val "dstContext") (SizeOf "CUcontext");
              Read (Val "srcDevice") (SizeOf "CUdeviceptr");
              Read (Val "srcContext") (SizeOf "CUcontext");
              Read (Val "ByteCount") (SizeOf "size_t")];
  h_rewrites := [];
  h_call := [ByVal "dstDevice";
             ByVal "dstContext";
             ByVal "srcDevice";
             ByVal "srcContext";
             ByVal "ByteCount"];
  h_reply := [Write (Val "return_value") (SizeOf "CUresult")] |}.

Definition handle_cuMemcpyDtoD_v2 : handler := {|
  h_name := "cuMemcpyDtoD_v2";
  h_locals := [Uninit "dstDevice" "CUdeviceptr";
               Uninit "srcDevice" "CUdeviceptr";
               Uninit "ByteCount" "size_t"];
  h_async := false;
  h_reads := [Read (Val "dstDevice") (SizeOf "CUdeviceptr");
              Read (Val "srcDevice") (SizeOf "CUdeviceptr");
              Read (Val "ByteCount") (SizeOf "size_t")];
  h_rewrites := [];
  h_call := [ByVal "dstDevice"; ByVal "srcDevice"; ByVal "ByteCount"];
  h_reply := [Write (Val "return_value") (SizeOf "CUresult")] |}.

Definition handle_cuMemcpyDtoA_v2 : handler := {|
  h_name := "cuMemcpyDtoA_v2";
  h_locals := [Uninit "dstArray" "CUarray";
               Uninit "dstOffset" "size_t";
               Uninit "srcDevice" "CUdeviceptr";
               Uninit "ByteCount" "size_t"];
  h_async := false;
  h_reads := [Read (Val "dstArray") (SizeOf "CUarray");
              Read (Val "dstOffset") (SizeOf "size_t");
              Read (Val "srcDevice") (SizeOf "CUdeviceptr");
              Read (Val "ByteCount") (SizeOf "size_t")];
  h_rewrites := [];
  h_call := [ByVal "dstArray"; ByVal "dstOffset"; ByVal "srcDevice"; ByVal "ByteCount"];
  h_reply := [Write (Val "return_value") (SizeOf "CUresult")] |}.

Definition handle_cuMemcpyAtoD_v2 : handler := {|
  h_name := "cuMemcpyAtoD_v2";
  h_locals := [Uninit "dstDevice" "CUdeviceptr";
               Uninit "srcArray" "CUarray";
               Uninit "srcOffset" "size_t";
               Uninit "ByteCount" "size_t"];
  h_async := false;
  h_reads := [Read (Val "dstDevice") (SizeOf "CUdeviceptr");
              Read (Val "srcArray") (SizeOf "CUarray");
              Read (Val "srcOffset") (SizeOf "size_t");
              Read (Val "ByteCount") (SizeOf "size_t")];
  h_rewrites := [];
  h_call := [ByVal "dstDevice"; ByVal "srcArray"; ByVal "srcOffset"; ByVal "ByteCount"];
  h_reply := [Write (Val "return_value") (SizeOf "CUresult")] |}.

Definition handle_cuMemcpyAtoA_v2 : handler := {|
  h_name := "cuMemcpyAtoA_v2";
  h_locals := [Uninit "dstArray" "CUarray";
               Uninit "dstOffset" "size_t";
               Uninit "srcArray" "CUarray";
               Uninit "srcOffset" "size_t";
               Uninit "ByteCount" "size_t"];
  h_async := false;
  h_reads := [Read (Val "dstArray") (SizeOf "CUarray");
              Read (Val "dstOffset") (SizeOf "size_t");
              Read (Val "srcArray") (SizeOf "CUarray");
              Read (Val "srcOffset") (SizeOf "size_t");
              Read (Val "ByteCount") (SizeOf "size_t")];
  h_rewrites := [];
  h_call := [ByVal "dstArray";
             ByVal "dstOffset";
             ByVal "srcArray";
             ByVal "srcOffset";
             ByVal "ByteCount"];
  h_reply := [Write (Val "return_value") (SizeOf "CUresult")] |}.

Definition handle_cuMemcpyPeerAsync : handler := {|
  h_name := "cuMemcpyPeerAsync";
  h_locals := [Uninit "dstDevice" "CUdeviceptr";
               Uninit "dstContext" "CUcontext";
               Uninit "srcDevice" "CUdeviceptr";
               Uninit "srcContext" "CUcontext";
               Uninit "ByteCount" "size_t";
               Uninit "hStream" "CUstream"];
  h_async := false;
  h_reads := [Read (Val "dstDevice") (SizeOf "CUdeviceptr");
              Read (Val "dstContext") (SizeOf "CUcontext");
              Read (Val "srcDevice") (SizeOf "CUdeviceptr");
              Read (Val "srcContext") (SizeOf "CUcontext");
              Read (Val "ByteCount") (SizeOf "size_t");
              Read (Val "hStream") (SizeOf "CUstream")];
  h_rewrites := [];
  h_call := [ByVal "dstDevice";
             ByVal "dstContext";
             ByVal "srcDevice";
             ByVal "srcContext";
             ByVal "ByteCount";
             ByVal "hStream"];
  h_reply := [Write (Val "return_value") (SizeOf "CUresult")] |}.

Definition handle_cuMemcpyDtoDAsync_v2 : handler := {|
  h_name := "cuMemcpyDtoDAsync_v2";
  h_locals := [Uninit "dstDevice" "CUdeviceptr";
               Uninit "srcDevice" "CUdeviceptr";
               Uninit "ByteCount" "size_t";
               Uninit "hStream" "CUstream";
               Zeroed "async_sequence" "uint64_t"];
  h_async := true;
  h_reads := [Read (Val "async_sequence") (SizeOf "uint64_t");
              Read (Val "dstDevice") (SizeOf "CUdeviceptr");
              Read (Val "srcDevice") (SizeOf "CUdeviceptr");
              Read (Val "ByteCount") (SizeOf "size_t");
              Read (Val "hStream") (SizeOf "CUstream")];
  h_rewrites := [];
  h_call := [ByVal "dstDevice"; ByVal "srcDevice"; ByVal "ByteCount"; ByVal "hStream"];
  h_reply := [] |}.

Definition handle_cuMemsetD8_v2 : handler := {|
  h_name := "cuMemsetD8_v2";
  h_locals := [Uninit "dstDevice" "CUdeviceptr";
               Uninit "uc" "unsigned char";
               Uninit "N" "size_t"];
  h_async := false;
  h_reads := [Read (Val "dstDevice") (SizeOf "CUdeviceptr");
              Read (Val "uc") (SizeOf "unsigned char");
              Read (Val "N") (SizeOf "size_t")];
  h_rewrites := [];
  h_call := [ByVal "dstDevice"; ByVal "uc"; ByVal "N"];
  h_reply := [Write (Val "return_value") (SizeOf "CUresult")] |}.

Definition handle_cuMemsetD16_v2 : handler := {|
  h_name := "cuMemsetD16_v2";
  h_locals := [Uninit "dstDevice" "CUdeviceptr";
               Uninit "us" "unsigned short";
               Uninit "N" "size_t"];
  h_async := false;
  h_reads := [Read (Val "dstDevice") (SizeOf "CUdeviceptr");
              Read (Val "us") (SizeOf "unsigned short");
              Read (Val "N") (SizeOf "size_t")];
  h_rewrites := [];
  h_call := [ByVal "dstDevice"; ByVal "us"; ByVal "N"];
  h_reply := [Write (Val "return_value") (SizeOf "CUresult")] |}.

Definition handle_cuMemsetD32_v2 : handler := {|
  h_name := "cuMemsetD32_v2";
  h_locals := [Uninit "dstDevice" "CUdeviceptr";
               Uninit "ui" "unsigned int";
               Uninit "N" "size_t"];
  h_async := false;
  h_reads := [Read (Val "dstDevice") (SizeOf "CUdeviceptr");
              Read (Val "ui") (SizeOf "unsigned int");
              Read (Val "N") (SizeOf "size_t")];
  h_rewrites := [];
  h_call := [ByVal "dstDevice"; ByVal "ui"; ByVal "N"];
  h_reply := [Write (Val "return_value") (SizeOf "CUresult")] |}.

Definition handle_cuMemsetD2D8_v2 : handler := {|
  h_name := "cuMemsetD2D8_v2";
  h_locals := [Uninit "dstDevice" "CUdeviceptr";
               Uninit "dstPitch" "size_t";
               Uninit "uc" "unsigned char";
               Uninit "Width" "size_t";
               Uninit "Height" "size_t"];
  h_async := false;
  h_reads := [Read (Val "dstDevice") (SizeOf "CUdeviceptr");
              Read (Val "dstPitch") (SizeOf "size_t");
              Read (Val "uc") (SizeOf "unsigned char");
              Read (Val "Width") (SizeOf "size_t");
              Read (Val "Height") (SizeOf "size_t")];
  h_rewrites := [];
  h_call := [ByVal "dstDevice"; ByVal "dstPitch"; ByVal "uc"; ByVal "Width"; ByVal "Height"];
  h_reply := [Write (Val "return_value") (SizeOf "CUresult")] |}.

Definition handle_cuMemsetD2D16_v2 : handler := {|
  h_name := "cuMemsetD2D16_v2";
  h_locals := [Uninit "dstDevice" "CUdeviceptr";
               Uninit "dstPitch" "size_t";
               Uninit "us" "unsigned short";
               Uninit "Width" "size_t";
               Uninit "Height" "size_t"];
  h_async := false;
  h_reads := [Read (Val "dstDevice") (SizeOf "CUdeviceptr");
              Read (Val "dstPitch") (SizeOf "size_t");
              Read (Val "us") (SizeOf "unsigned short");
              Read (Val "Width") (SizeOf "size_t");
              Read (Val "Height") (SizeOf "size_t")];
  h_rewrites := [];
  h_call := [ByVal "dstDevice"; ByVal "dstPitch"; ByVal "us"; ByVal "Width"; ByVal "Height"];
  h_reply := [Write (Val "return_value") (SizeOf "CUresult")] |}.

Definition handle_cuMemsetD2D32_v2 : handler := {|
  h_name := "cuMemsetD2D32_v2";
  h_locals := [Uninit "dstDevice" "CUdeviceptr";
               Uninit "dstPitch" "size_t";
               Uninit "ui" "unsigned int";
               Uninit "Width" "size_t";
               Uninit "Height" "size_t"];
  h_async := false;
  h_reads := [Read (Val "dstDevice") (SizeOf "CUdeviceptr");
              Read (Val "dstPitch") (SizeOf "size_t");
              Read (Val "ui") (SizeOf "unsigned int");
              Read (Val "Width") (SizeOf "size_t");
              Read (Val "Height") (SizeOf "size_t")];
  h_rewrites := [];
  h_call := [ByVal "dstDevice"; ByVal "dstPitch"; ByVal "ui"; ByVal "Width"; ByVal "Height"];
  h_reply := [Write (Val "return_value") (SizeOf "CUresult")] |}.

Definition handle_cuMemsetD8Async : handler := {|
  h_name := "cuMemsetD8Async";
  h_locals := [Uninit "dstDevice" "CUdeviceptr";
               Uninit "uc" "unsigned char";
               Uninit "N" "size_t";
               Uninit "hStream" "CUstream";
               Zeroed "async_sequence" "uint64_t"];
  h_async := true;
  h_reads := [Read (Val "async_sequence") (SizeOf "uint64_t");
              Read (Val "dstDevice") (SizeOf "CUdeviceptr");
              Read (Val "uc") (SizeOf "unsigned char");
              Read (Val "N") (SizeOf "size_t");
              Read (Val "hStream") (SizeOf "CUstream")];
  h_rewrites := [];
  h_call := [ByVal "dstDevice"; ByVal "uc"; ByVal "N"; ByVal "hStream"];
  h_reply := [] |}.

Definition handle_cuMemsetD16Async : handler := {|
  h_name := "cuMemsetD16Async";
  h_locals := [Uninit "dstDevice" "CUdeviceptr";
               Uninit "us" "unsigned short";
               Uninit "N" "size_t";
               Uninit "hStream" "CUstream";
               Zeroed "async_sequence" "uint64_t"];
  h_async := true;
  h_reads := [Read (Val "async_sequence") (SizeOf "uint64_t");
              Read (Val "dstDevice") (SizeOf "CUdeviceptr");
              Read (Val "us") (SizeOf "unsigned short");
              Read (Val "N") (SizeOf "size_t");
              Read (Val "hStream") (SizeOf "CUstream")];
  h_rewrites := [];
  h_call := [ByVal "dstDevice"; ByVal "us"; ByVal "N"; ByVal "hStream"];
  h_reply := [] |}.

Definition handle_cuMemsetD32Async : handler := {|
  h_name := "cuMemsetD32Async";
  h_locals := [Uninit "dstDevice" "CUdeviceptr";
               Uninit "ui" "unsigned int";
               Uninit "N" "size_t";
               Uninit "hStream" "CUstream";
               Zeroed "async_sequence" "uint64_t"];
  h_async := true;
  h_reads := [Read (Val "async_sequence") (SizeOf "uint64_t");
              Read (Val "dstDevice") (SizeOf "CUdeviceptr");
              Read (Val "ui") (SizeOf "unsigned int");
              Read (Val "N") (SizeOf "size_t");
              Read (Val "hStream") (SizeOf "CUstream")];
  h_rewrites := [];
  h_call := [ByVal "dstDevice"; ByVal "ui"; ByVal "N"; ByVal "hStream"];
  h_reply := [] |}.

Definition handle_cuMemsetD2D8Async : handler := {|
  h_name := "cuMemsetD2D8Async";
  h_locals := [Uninit "dstDevice" "CUdeviceptr";
               Uninit "dstPitch" "size_t";
               Uninit "uc" "unsigned char";
               Uninit "Width" "size_t";
               Uninit "Height" "size_t";
               Uninit "hStream" "CUstream";
               Zeroed "async_sequence" "uint64_t"];
  h_async := true;
  h_reads := [Read (Val "async_sequence") (SizeOf "uint64_t");
              Read (Val "dstDevice") (SizeOf "CUdeviceptr");
              Read (Val "dstPitch") (SizeOf "size_t");
              Read (Val "uc") (SizeOf "unsigned char");
              Read (Val "Width") (SizeOf "size_t");
              Read (Val "Height") (SizeOf "size_t");
              Read (Val "hStream") (SizeOf "CUstream")];
  h_rewrites := [];
  h_call := [ByVal "dstDevice";
             ByVal "dstPitch";
             ByVal "uc";
             ByVal "Width";
             ByVal "Height";
             ByVal "hStream"];
  h_reply := [] |}.

Definition handle_cuMemsetD2D16Async : handler := {|
  h_name := "cuMemsetD2D16Async";
  h_locals := [Uninit "dstDevice" "CUdeviceptr";
               Uninit "dstPitch" "size_t";
               Uninit "us" "unsigned short";
               Uninit "Width" "size_t";
               Uninit "Height" "size_t";
               Uninit "hStream" "CUstream";
               Zeroed "async_sequence" "uint64_t"];
  h_async := true;
  h_reads := [Read (Val "async_sequence") (SizeOf "uint64_t");
              Read (Val "dstDevice") (SizeOf "CUdeviceptr");
              Read (Val "dstPitch") (SizeOf "size_t");
              Read (Val "us") (SizeOf "unsigned short");
              Read (Val "Width") (SizeOf "size_t");
              Read (Val "Height") (SizeOf "size_t");
              Read (Val "hStream") (SizeOf "CUstream")];
  h_rewrites := [];
  h_call := [ByVal "dstDevice";
             ByVal "dstPitch";
             ByVal "us";
             ByVal "Width";
             ByVal "Height";
             ByVal "hStream"];
  h_reply := [] |}.

Definition handle_cuMemsetD2D32Async : handler := {|
  h_name := "cuMemsetD2D32Async";
  h_locals := [Uninit "dstDevice" "CUdeviceptr";
               Uninit "dstPitch" "size_t";
               Uninit "ui" "unsigned int";
               Uninit "Width" "size_t";
               Uninit "Height" "size_t";
               Uninit "hStream" "CUstream";
               Zeroed "async_sequence" "uint64_t"];
  h_async := true;
  h_reads := [Read (Val "async_sequence") (SizeOf "uint64_t");
              Read (Val "dstDevice") (SizeOf "CUdeviceptr");
              Read (Val "dstPitch") (SizeOf "size_t");
              Read (Val "ui") (SizeOf "unsigned int");
              Read (Val "Width") (SizeOf "size_t");
              Read (Val "Height") (SizeOf "size_t");
              Read (Val "hStream") (SizeOf "CUstream")];
  h_rewrites := [];
  h_call := [ByVal "dstDevice";
             ByVal "dstPitch";
             ByVal "ui";
             ByVal "Width";
             ByVal "Height";
             ByVal "hStream"];
  h_reply := [] |}.

Definition handle_cuArrayCreate_v2 : handler := {|
  h_name := "cuArrayCreate_v2";
  h_locals := [Zeroed "pHandle" "CUarray"; Zeroed "pAllocateArray" "CUDA_ARRAY_DESCRIPTOR"];
  h_async := false;
  h_reads := [Read (Val "pHandle") (SizeOf "CUarray");
              Read (Val "pAllocateArray") (SizeOf "CUDA_ARRAY_DESCRIPTOR")];
  h_rewrites := [];
  h_call := [AddrOf "pHandle" []; AddrOf "pAllocateArray" []];
  h_reply := [Write (Val "pHandle") (SizeOf "CUarray");
              Write (Val "return_value") (SizeOf "CUresult")] |}.

Definition handle_cuArrayGetDescriptor_v2 : handler := {|
  h_name := "cuArrayGetDescriptor_v2";
  h_locals := [Zeroed "pArrayDescriptor" "CUDA_ARRAY_DESCRIPTOR"; Uninit "hArray" "CUarray"];
  h_async := false;
  h_reads := [Read (Val "pArrayDescriptor") (SizeOf "CUDA_ARRAY_DESCRIPTOR");
              Read (Val "hArray") (SizeOf "CUarray")];
  h_rewrites := [];
  h_call := [AddrOf "pArrayDescriptor" []; ByVal "hArray"];
  h_reply := [Write (Val "pArrayDescriptor") (SizeOf "CUDA_ARRAY_DESCRIPTOR");
              Write (Val "return_value") (SizeOf "CUresult")] |}.

Definition handle_cuArrayGetSparseProperties : handler := {|
  h_name := "cuArrayGetSparseProperties";
  h_locals := [Zeroed "sparseProperties" "CUDA_ARRAY_SPARSE_PROPERTIES";
               Uninit "array" "CUarray"];
  h_async := false;
  h_reads := [Read (Val "sparseProperties") (SizeOf "CUDA_ARRAY_SPARSE_PROPERTIES");
              Read (Val "array") (SizeOf "CUarray")];
  h_rewrites := [];
  h_call := [AddrOf "sparseProperties" []; ByVal "array"];
  h_reply := [Write (Val "sparseProperties") (SizeOf "CUDA_ARRAY_SPARSE_PROPERTIES");
              Write (Val "return_value") (SizeOf "CUresult")] |}.

Definition handle_cuMipmappedArrayGetSparseProperties : handler := {|
  h_name := "cuMipmappedArrayGetSparseProperties";
  h_locals := [Zeroed "sparseProperties" "CUDA_ARRAY_SPARSE_PROPERTIES";
               Uninit "mipmap" "CUmipmappedArray"];
  h_async := false;
  h_reads := [Read (Val "sparseProperties") (SizeOf "CUDA_ARRAY_SPARSE_PROPERTIES");
              Read (Val "mipmap") (SizeOf "CUmipmappedArray")];
  h_rewrites := [];
  h_call := [AddrOf "sparseProperties" []; ByVal "mipmap"];
  h_reply := [Write (Val "sparseProperties") (SizeOf "CUDA_ARRAY_SPARSE_PROPERTIES");
              Write (Val "return_value") (SizeOf "CUresult")] |}.

Definition handle_cuArrayGetMemoryRequirements : handler := {|
  h_name := "cuArrayGetMemoryRequirements";
  h_locals := [Zeroed "memoryRequirements" "CUDA_ARRAY_MEMORY_REQUIREMENTS";
               Uninit "array" "CUarray";
               Uninit "device" "CUdevice"];
  h_async := false;
  h_reads := [Read (Val "memoryRequirements") (SizeOf "CUDA_ARRAY_MEMORY_REQUIREMENTS");
              Read (Val "array") (SizeOf "CUarray");
              Read (Val "device") (SizeOf "CUdevice")];
  h_rewrites := [];
  h_call := [AddrOf "memoryRequirements" []; ByVal "array"; ByVal "device"];
  h_reply := [Write (Val "memoryRequirements") (SizeOf "CUDA_ARRAY_MEMORY_REQUIREMENTS");
              Write (Val "return_value") (SizeOf "CUresult")] |}.

Definition handle_cuMipmappedArrayGetMemoryRequirements : handler := {|
  h_name := "cuMipmappedArrayGetMemoryRequirements";
  h_locals := [Zeroed "memoryRequirements" "CUDA_ARRAY_MEMORY_REQUIREMENTS";
               Uninit "mipmap" "CUmipmappedArray";
               Uninit "device" "CUdevice"];
  h_async := false;
  h_reads := [Read (Val "memoryRequirements") (SizeOf "CUDA_ARRAY_MEMORY_REQUIREMENTS");
              Read (Val "mipmap") (SizeOf "CUmipmappedArray");
              Read (Val "device") (SizeOf "CUdevice")];
  h_rewrites := [];
  h_call := [AddrOf "memoryRequirements" []; ByVal "mipmap"; ByVal "device"];
  h_reply := [Write (Val "memoryRequirements") (SizeOf "CUDA_ARRAY_MEMORY_REQUIREMENTS");
              Write (Val "return_value") (SizeOf "CUresult")] |}.

Definition handle_cuArrayGetPlane : handler := {|
  h_name := "cuArrayGetPlane";
  h_locals := [Zeroed "pPlaneArray" "CUarray";
               Uninit "hArray" "CUarray";
               Uninit "planeIdx" "unsigned int"];
  h_async := false;
  h_reads := [Read (Val "pPlaneArray") (SizeOf "CUarray");
              Read (Val "hArray") (SizeOf "CUarray");
              Read (Val "planeIdx") (SizeOf "unsigned int")];
  h_rewrites := [];
  h_call := [AddrOf "pPlaneArray" []; ByVal "hArray"; ByVal "planeIdx"];
  h_reply := [Write (Val "pPlaneArray") (SizeOf "CUarray");
              Write (Val "return_value") (SizeOf "CUresult")] |}.

Definition handle_cuArrayDestroy : handler := {|
  h_name := "cuArrayDestroy";
  h_locals := [Uninit "hArray" "CUarray"];
  h_async := false;
  h_reads := [Read (Val "hArray") (SizeOf "CUarray")];
  h_rewrites := [];
  h_call := [ByVal "hArray"];
  h_reply := [Write (Val "return_value") (SizeOf "CUresult")] |}.

Definition handle_cuArray3DCreate_v2 : handler := {|
  h_name := "cuArray3DCreate_v2";
  h_locals := [Zeroed "pHandle" "CUarray";
               Zeroed "pAllocateArray" "CUDA_ARRAY3D_DESCRIPTOR"];
  h_async := false;
  h_reads := [Read (Val "pHandle") (SizeOf "CUarray");
              Read (Val "pAllocateArray") (SizeOf "CUDA_ARRAY3D_DESCRIPTOR")];
  h_rewrites := [];
  h_call := [AddrOf "pHandle" []; AddrOf "pAllocateArray" []];
  h_reply := [Write (Val "pHandle") (SizeOf "CUarray");
              Write (Val "return_value") (SizeOf "CUresult")] |}.

Definition handle_cuArray3DGetDescriptor_v2 : handler := {|
  h_name := "cuArray3DGetDescriptor_v2";
  h_locals := [Zeroed "pArrayDescriptor" "CUDA_ARRAY3D_DESCRIPTOR";
               Uninit "hArray" "CUarray"];
  h_async := false;
  h_reads := [Read (Val "pArrayDescriptor") (SizeOf "CUDA_ARRAY3D_DESCRIPTOR");
              Read (Val "hArray") (SizeOf "CUarray")];
  h_rewrites := [];
  h_call := [AddrOf "pArrayDescriptor" []; ByVal "hArray"];
  h_reply := [Write (Val "pArrayDescriptor") (SizeOf "CUDA_ARRAY3D_DESCRIPTOR");
              Write (Val "return_value") (SizeOf "CUresult")] |}.

Definition handle_cuMipmappedArrayCreate : handler := {|
  h_name := "cuMipmappedArrayCreate";
  h_locals := [Zeroed "pHandle" "CUmipmappedArray";
               Zeroed "pMipmappedArrayDesc" "CUDA_ARRAY3D_DESCRIPTOR";
               Uninit "numMipmapLevels" "unsigned int"];
  h_async := false;
  h_reads := [Read (Val "pHandle") (SizeOf "CUmipmappedArray");
              Read (Val "pMipmappedArrayDesc") (SizeOf "CUDA_ARRAY3D_DESCRIPTOR");
              Read (Val "numMipmapLevels") (SizeOf "unsigned int")];
  h_rewrites := [];
  h_call := [AddrOf "pHandle" []; AddrOf "pMipmappedArrayDesc" []; ByVal "numMipmapLevels"];
  h_reply := [Write (Val "pHandle") (SizeOf "CUmipmappedArray");
              Write (Val "return_value") (SizeOf "CUresult")] |}.

Definition handle_cuMipmappedArrayGetLevel : handler := {|
  h_name := "cuMipmappedArrayGetLevel";
  h_locals := [Zeroed "pLevelArray" "CUarray";
               Uninit "hMipmappedArray" "CUmipmappedArray";
               Uninit "level" "unsigned int"];
  h_async := false;
  h_reads := [Read (Val "pLevelArray") (SizeOf "CUarray");
              Read (Val "hMipmappedArray") (SizeOf "CUmipmappedArray");
              Read (Val "level") (SizeOf "unsigned int")];
  h_rewrites := [];
  h_call := [AddrOf "pLevelArray" []; ByVal "hMipmappedArray"; ByVal "level"];
  h_reply := [Write (Val "pLevelArray") (SizeOf "CUarray");
              Write (Val "return_value") (SizeOf "CUresult")] |}.

Definition handle_cuMipmappedArrayDestroy : handler := {|
  h_name := "cuMipmappedArrayDestroy";
  h_locals := [Uninit "hMipmappedArray" "CUmipmappedArray"];
  h_async := false;
  h_reads := [Read (Val "hMipmappedArray") (SizeOf "CUmipmappedArray")];
  h_rewrites := [];
  h_call := [ByVal "hMipmappedArray"];
  h_reply := [Write (Val "return_value") (SizeOf "CUresult")] |}.

Definition handle_cuMemGetHandleForAddressRange : handler := {|
  h_name := "cuMemGetHandleForAddressRange";
  h_locals := [Uninit "dptr" "CUdeviceptr";
               Uninit "size" "size_t";
               Uninit "handleType" "CUmemRangeHandleType";
               Uninit "flags" "unsigned long long";
               NullPtr "handle"];
  h_async := false;
  h_reads := [Read (Val "dptr") (SizeOf "CUdeviceptr");
              Read (Val "size") (SizeOf "size_t");
              Read (Val "handleType") (SizeOf "CUmemRangeHandleType");
              Read (Val "flags") (SizeOf "unsigned long long");
              Alloc "handle" (Num 4) true;
              Fail (And (Not (Eq (Num 4) (Num 0))) (IsNull (Ref "handle")))];
  h_rewrites := [];
  h_call := [BufPtr "handle"; ByVal "dptr"; ByVal "size"; ByVal "handleType"; ByVal "flags"];
  h_reply := [Write (Ref "handle") (Num 4); Write (Val "return_value") (SizeOf "CUresult")] |}.

Definition handle_cuMemAddressReserve : handler := {|
  h_name := "cuMemAddressReserve";
  h_locals := [Zeroed "ptr" "CUdeviceptr";
               Uninit "size" "size_t";
               Uninit "alignment" "size_t";
               Uninit "addr" "CUdeviceptr";
               Uninit "flags" "unsigned long long"];
  h_async := false;
  h_reads := [Read (Val "ptr") (SizeOf "CUdeviceptr");
              Read (Val "size") (SizeOf "size_t");
              Read (Val "alignment") (SizeOf "size_t");
              Read (Val "addr") (SizeOf "CUdeviceptr");
              Read (Val "flags") (SizeOf "unsigned long long")];
  h_rewrites := [];
  h_call := [AddrOf "ptr" []; ByVal "size"; ByVal "alignment"; ByVal "addr"; ByVal "flags"];
  h_reply := [Write (Val "ptr") (SizeOf "CUdeviceptr");
              Write (Val "return_value") (SizeOf "CUresult")] |}.

Definition handle_cuMemAddressFree : handler := {|
  h_name := "cuMemAddressFree";
  h_locals := [Uninit "ptr" "CUdeviceptr"; Uninit "size" "size_t"];
  h_async := false;
  h_reads := [Read (Val "ptr") (SizeOf "CUdeviceptr"); Read (Val "size") (SizeOf "size_t")];
  h_rewrites := [];
  h_call := [ByVal "ptr"; ByVal "size"];
  h_reply := [Write (Val "return_value") (SizeOf "CUresult")] |}.

Definition handle_cuMemCreate : handler := {|
  h_name := "cuMemCreate";
  h_locals := [Zeroed "handle" "CUmemGenericAllocationHandle";
               Uninit "size" "size_t";
               Zeroed "prop" "CUmemAllocationProp";
               Uninit "flags" "unsigned long long"];
  h_async := false;
  h_reads := [Read (Val "size") (SizeOf "size_t");
              Read (Val "prop") (SizeOf "CUmemAllocationProp");
              Read (Val "flags") (SizeOf "unsigned long long")];
  h_rewrites := [];
  h_call := [AddrOf "handle" []; ByVal "size"; AddrOf "prop" []; ByVal "flags"];
  h_reply := [Write (Val "handle") (SizeOf "CUmemGenericAllocationHandle");
              Write (Val "return_value") (SizeOf "CUresult")] |}.

Definition handle_cuMemRelease : handler := {|
  h_name := "cuMemRelease";
  h_locals := [Uninit "handle" "CUmemGenericAllocationHandle"];
  h_async := false;
  h_reads := [Read (Val "handle") (SizeOf "CUmemGenericAllocationHandle")];
  h_rewrites := [];
  h_call := [ByVal "handle"];
  h_reply := [Write (Val "return_value") (SizeOf "CUresult")] |}.

Definition handle_cuMemMap : handler := {|
  h_name := "cuMemMap";
  h_locals := [Uninit "ptr" "CUdeviceptr";
               Uninit "size" "size_t";
               Uninit "offset" "size_t";
               Uninit "handle" "CUmemGenericAllocationHandle";
               Uninit "flags" "unsigned long long"];
  h_async := false;
  h_reads := [Read (Val "ptr") (SizeOf "CUdeviceptr");
              Read (Val "size") (SizeOf "size_t");
              Read (Val "offset") (SizeOf "size_t");
              Read (Val "handle") (SizeOf "CUmemGenericAllocationHandle");
              Read (Val "flags") (SizeOf "unsigned long long")];
  h_rewrites := [];
  h_call := [ByVal "ptr"; ByVal "size"; ByVal "offset"; ByVal "handle"; ByVal "flags"];
  h_reply := [Write (Val "return_value") (SizeOf "CUresult")] |}.

Definition handle_cuMemMapArrayAsync : handler := {|
  h_name := "cuMemMapArrayAsync";
  h_locals := [Uninit "count" "unsigned int";
               NullPtr "mapInfoList";
               Uninit "mapInfoList_size" "size_t";
               Uninit "hStream" "CUstream"];
  h_async := false;
  h_reads := [Read (Val "count") (SizeOf "unsigned int");
              Let "mapInfoList_size" "size_t" (Mul (Load "unsigned int" (Val "count")) (SizeOf "CUarrayMapInfo"));
              Alloc "mapInfoList" (Load "size_t" (Val "mapInfoList_size")) false;
              Fail (And (Not (Eq (Load "size_t" (Val "mapInfoList_size")) (Num 0))) (IsNull (Ref "mapInfoList")));
              When (Not (Eq (Load "size_t" (Val "mapInfoList_size")) (Num 0))) (Read (Ref "mapInfoList") (Load "size_t" (Val "mapInfoList_size")));
              Read (Val "hStream") (SizeOf "CUstream")];
  h_rewrites := [];
  h_call := [UnlessZero (Mul (Load "unsigned int" (Val "count")) (SizeOf "CUarrayMapInfo")) (BufPtr "mapInfoList");
             ByVal "count";
             ByVal "hStream"];
  h_reply := [Write (Val "return_value") (SizeOf "CUresult")] |}.

Definition handle_cuMemUnmap : handler := {|
  h_name := "cuMemUnmap";
  h_locals := [Uninit "ptr" "CUdeviceptr"; Uninit "size" "size_t"];
  h_async := false;
  h_reads := [Read (Val "ptr") (SizeOf "CUdeviceptr"); Read (Val "size") (SizeOf "size_t")];
  h_rewrites := [];
  h_call := [ByVal "ptr"; ByVal "size"];
  h_reply := [Write (Val "return_value") (SizeOf "CUresult")] |}.

Definition handle_cuMemSetAccess : handler := {|
  h_name := "cuMemSetAccess";
  h_locals := [Uninit "ptr" "CUdeviceptr";
               Uninit "size" "size_t";
               Uninit "count" "size_t";
               NullPtr "desc";
               Uninit "desc_size" "size_t"];
  h_async := false;
  h_reads := [Read (Val "ptr") (SizeOf "CUdeviceptr");
              Read (Val "size") (SizeOf "size_t");
              Read (Val "count") (SizeOf "size_t");
              Let "desc_size" "size_t" (Mul (Load "size_t" (Val "count")) (SizeOf "CUmemAccessDesc"));
              Alloc "desc" (Load "size_t" (Val "desc_size")) false;
              Fail (And (Not (Eq (Load "size_t" (Val "desc_size")) (Num 0))) (IsNull (Ref "desc")));
              When (Not (Eq (Load "size_t" (Val "desc_size")) (Num 0))) (Read (Ref "desc") (Load "size_t" (Val "desc_size")))];
  h_rewrites := [];
  h_call := [ByVal "ptr";
             ByVal "size";
             UnlessZero (Mul (Load "size_t" (Val "count")) (SizeOf "CUmemAccessDesc")) (BufPtr "desc");
             ByVal "count"];
  h_reply := [Write (Val "return_value") (SizeOf "CUresult")] |}.

Definition handle_cuMemGetAccess : handler := {|
  h_name := "cuMemGetAccess";
  h_locals := [Zeroed "flags" "unsigned long long";
               Zeroed "location" "CUmemLocation";
               Uninit "ptr" "CUdeviceptr"];
  h_async := false;
  h_reads := [Read (Val "location") (SizeOf "CUmemLocation");
              Read (Val "ptr") (SizeOf "CUdeviceptr")];
  h_rewrites := [];
  h_call := [AddrOf "flags" []; AddrOf "location" []; ByVal "ptr"];
  h_reply := [Write (Val "flags") (SizeOf "unsigned long long");
              Write (Val "return_value") (SizeOf "CUresult")] |}.

Definition handle_cuMemGetAllocationGranularity : handler := {|
  h_name := "cuMemGetAllocationGranularity";
  h_locals := [Zeroed "granularity" "size_t";
               Zeroed "prop" "CUmemAllocationProp";
               Uninit "option" "CUmemAllocationGranularity_flags"];
  h_async := false;
  h_reads := [Read (Val "prop") (SizeOf "CUmemAllocationProp");
              Read (Val "option") (SizeOf "CUmemAllocationGranularity_flags")];
  h_rewrites := [];
  h_call := [AddrOf "granularity" []; AddrOf "prop" []; ByVal "option"];
  h_reply := [Write (Val "granularity") (SizeOf "size_t");
              Write (Val "return_value") (SizeOf "CUresult")] |}.

Definition handle_cuMemGetAllocationPropertiesFromHandle : handler := {|
  h_name := "cuMemGetAllocationPropertiesFromHandle";
  h_locals := [Zeroed "prop" "CUmemAllocationProp";
               Uninit "handle" "CUmemGenericAllocationHandle"];
  h_async := false;
  h_reads := [Read (Val "prop") (SizeOf "CUmemAllocationProp");
              Read (Val "handle") (SizeOf "CUmemGenericAllocationHandle")];
  h_rewrites := [];
  h_call := [AddrOf "prop" []; ByVal "handle"];
  h_reply := [Write (Val "prop") (SizeOf "CUmemAllocationProp");
              Write (Val "return_value") (SizeOf "CUresult")] |}.

Definition handle_cuMemRetainAllocationHandle : handler := {|
  h_name := "cuMemRetainAllocationHandle";
  h_locals := [Zeroed "handle" "CUmemGenericAllocationHandle"; Uninit "addr" "void *"];
  h_async := false;
  h_reads := [Read (Val "addr") (SizeOf "void *")];
  h_rewrites := [];
  h_call := [AddrOf "handle" []; ByVal "addr"];
  h_reply := [Write (Val "handle") (SizeOf "CUmemGenericAllocationHandle");
              Write (Val "return_value") (SizeOf "CUresult")] |}.

Definition handle_cuMemFreeAsync : handler := {|
  h_name := "cuMemFreeAsync";
  h_locals := [Uninit "dptr" "CUdeviceptr"; Uninit "hStream" "CUstream"];
  h_async := false;
  h_reads := [Read (Val "dptr") (SizeOf "CUdeviceptr");
              Read (Val "hStream") (SizeOf "CUstream")];
  h_rewrites := [];
  h_call := [ByVal "dptr"; ByVal "hStream"];
  h_reply := [Write (Val "return_value") (SizeOf "CUresult")] |}.

Definition handle_cuMemAllocAsync : handler := {|
  h_name := "cuMemAllocAsync";
  h_locals := [Zeroed "dptr" "CUdeviceptr";
               Uninit "bytesize" "size_t";
               Uninit "hStream" "CUstream"];
  h_async := false;
  h_reads := [Read (Val "dptr") (SizeOf "CUdeviceptr");
              Read (Val "bytesize") (SizeOf "size_t");
              Read (Val "hStream") (SizeOf "CUstream")];
  h_rewrites := [];
  h_call := [AddrOf "dptr" []; ByVal "bytesize"; ByVal "hStream"];
  h_reply := [Write (Val "dptr") (SizeOf "CUdeviceptr");
              Write (Val "return_value") (SizeOf "CUresult")] |}.

Definition handle_cuMemPoolTrimTo : handler := {|
  h_name := "cuMemPoolTrimTo";
  h_locals := [Uninit "pool" "CUmemoryPool"; Uninit "minBytesToKeep" "size_t"];
  h_async := false;
  h_reads := [Read (Val "pool") (SizeOf "CUmemoryPool");
              Read (Val "minBytesToKeep") (SizeOf "size_t")];
  h_rewrites := [];
  h_call := [ByVal "pool"; ByVal "minBytesToKeep"];
  h_reply := [Write (Val "return_value") (SizeOf "CUresult")] |}.

Definition handle_cuMemPoolSetAccess : handler := {|
  h_name := "cuMemPoolSetAccess";
  h_locals := [Uninit "pool" "CUmemoryPool";
               Uninit "count" "size_t";
               NullPtr "map";
               Uninit "map_size" "size_t"];
  h_async := false;
  h_reads := [Read (Val "pool") (SizeOf "CUmemoryPool");
              Read (Val "count") (SizeOf "size_t");
              Let "map_size" "size_t" (Mul (Load "size_t" (Val "count")) (SizeOf "CUmemAccessDesc"));
              Alloc "map" (Load "size_t" (Val "map_size")) false;
              Fail (And (Not (Eq (Load "size_t" (Val "map_size")) (Num 0))) (IsNull (Ref "map")));
              When (Not (Eq (Load "size_t" (Val "map_size")) (Num 0))) (Read (Ref "map") (Load "size_t" (Val "map_size")))];
  h_rewrites := [];
  h_call := [ByVal "pool";
             UnlessZero (Mul (Load "size_t" (Val "count")) (SizeOf "CUmemAccessDesc")) (BufPtr "map");
             ByVal "count"];
  h_reply := [Write (Val "return_value") (SizeOf "CUresult")] |}.

Definition handle_cuMemPoolGetAccess : handler := {|
  h_name := "cuMemPoolGetAccess";
  h_locals := [Zeroed "flags" "CUmemAccess_flags";
               Uninit "memPool" "CUmemoryPool";
               Zeroed "location" "CUmemLocation"];
  h_async := false;
  h_reads := [Read (Val "memPool") (SizeOf "CUmemoryPool");
              Read (Val "location") (SizeOf "CUmemLocation")];
  h_rewrites := [];
  h_call := [AddrOf "flags" []; ByVal "memPool"; AddrOf "location" []];
  h_reply := [Write (Val "flags") (SizeOf "CUmemAccess_flags");
              Write (Val "return_value") (SizeOf "CUresult")] |}.

Definition handle_cuMemPoolCreate : handler := {|
  h_name := "cuMemPoolCreate";
  h_locals := [Zeroed "pool" "CUmemoryPool"; Zeroed "poolProps" "CUmemPoolProps"];
  h_async := false;
  h_reads := [Read (Val "pool") (SizeOf "CUmemoryPool");
              Read (Val "poolProps") (SizeOf "CUmemPoolProps")];
  h_rewrites := [];
  h_call := [AddrOf "pool" []; AddrOf "poolProps" []];
  h_reply := [Write (Val "pool") (SizeOf "CUmemoryPool");
              Write (Val "return_value") (SizeOf "CUresult")] |}.

Definition handle_cuMemPoolDestroy : handler := {|
  h_name := "cuMemPoolDestroy";
  h_locals := [Uninit "pool" "CUmemoryPool"];
  h_async := false;
  h_reads := [Read (Val "pool") (SizeOf "CUmemoryPool")];
  h_rewrites := [];
  h_call := [ByVal "pool"];
  h_reply := [Write (Val "return_value") (SizeOf "CUresult")] |}.

Definition handle_cuMemAllocFromPoolAsync : handler := {|
  h_name := "cuMemAllocFromPoolAsync";
  h_locals := [Zeroed "dptr" "CUdeviceptr";
               Uninit "bytesize" "size_t";
               Uninit "pool" "CUmemoryPool";
               Uninit "hStream" "CUstream"];
  h_async := false;
  h_reads := [Read (Val "dptr") (SizeOf "CUdeviceptr");
              Read (Val "bytesize") (SizeOf "size_t");
              Read (Val "pool") (SizeOf "CUmemoryPool");
              Read (Val "hStream") (SizeOf "CUstream")];
  h_rewrites := [];
  h_call := [AddrOf "dptr" []; ByVal "bytesize"; ByVal "pool"; ByVal "hStream"];
  h_reply := [Write (Val "dptr") (SizeOf "CUdeviceptr");
              Write (Val "return_value") (SizeOf "CUresult")] |}.

Definition handle_cuMemPoolExportPointer : handler := {|
  h_name := "cuMemPoolExportPointer";
  h_locals := [Zeroed "shareData_out" "CUmemPoolPtrExportData"; Uninit "ptr" "CUdeviceptr"];
  h_async := false;
  h_reads := [Read (Val "shareData_out") (SizeOf "CUmemPoolPtrExportData");
              Read (Val "ptr") (SizeOf "CUdeviceptr")];
  h_rewrites := [];
  h_call := [AddrOf "shareData_out" []; ByVal "ptr"];
  h_reply := [Write (Val "shareData_out") (SizeOf "CUmemPoolPtrExportData");
              Write (Val "return_value") (SizeOf "CUresult")] |}.

Definition handle_cuMemPoolImportPointer : handler := {|
  h_name := "cuMemPoolImportPointer";
  h_locals := [Zeroed "ptr_out" "CUdeviceptr";
               Uninit "pool" "CUmemoryPool";
               Zeroed "shareData" "CUmemPoolPtrExportData"];
  h_async := false;
  h_reads := [Read (Val "ptr_out") (SizeOf "CUdeviceptr");
              Read (Val "pool") (SizeOf "CUmemoryPool");
              Read (Val "shareData") (SizeOf "CUmemPoolPtrExportData")];
  h_rewrites := [];
  h_call := [AddrOf "ptr_out" []; ByVal "pool"; AddrOf "shareData" []];
  h_reply := [Write (Val "ptr_out") (SizeOf "CUdeviceptr");
              Write (Val "shareData") (SizeOf "CUmemPoolPtrExportData");
              Write (Val "return_value") (SizeOf "CUresult")] |}.

Definition handle_cuMemPrefetchAsync_v2 : handler := {|
  h_name := "cuMemPrefetchAsync_v2";
  h_locals := [Uninit "devPtr" "CUdeviceptr";
               Uninit "count" "size_t";
               Uninit "location" "CUmemLocation";
               Uninit "flags" "unsigned int";
               Uninit "hStream" "CUstream"];
  h_async := false;
  h_reads := [Read (Val "devPtr") (SizeOf "CUdeviceptr");
              Read (Val "count") (SizeOf "size_t");
              Read (Val "location") (SizeOf "CUmemLocation");
              Read (Val "flags") (SizeOf "unsigned int");
              Read (Val "hStream") (SizeOf "CUstream")];
  h_rewrites := [];
  h_call := [ByVal "devPtr";
             ByVal "count";
             ByVal "location";
             ByVal "flags";
             ByVal "hStream"];
  h_reply := [Write (Val "return_value") (SizeOf "CUresult")] |}.

Definition handle_cuMemAdvise_v2 : handler := {|
  h_name := "cuMemAdvise_v2";
  h_locals := [Uninit "devPtr" "CUdeviceptr";
               Uninit "count" "size_t";
               Uninit "advice" "CUmem_advise";
               Uninit "location" "CUmemLocation"];
  h_async := false;
  h_reads := [Read (Val "devPtr") (SizeOf "CUdeviceptr");
              Read (Val "count") (SizeOf "size_t");
              Read (Val "advice") (SizeOf "CUmem_advise");
              Read (Val "location") (SizeOf "CUmemLocation")];
  h_rewrites := [];
  h_call := [ByVal "devPtr"; ByVal "count"; ByVal "advice"; ByVal "location"];
  h_reply := [Write (Val "return_value") (SizeOf "CUresult")] |}.

Definition handle_cuMemRangeGetAttribute : handler := {|
  h_name := "cuMemRangeGetAttribute";
  h_locals := [Uninit "dataSize" "size_t";
               NullPtr "data";
               Uninit "attribute" "CUmem_range_attribute";
               Uninit "devPtr" "CUdeviceptr";
               Uninit "count" "size_t"];
  h_async := false;
  h_reads := [Read (Val "dataSize") (SizeOf "size_t");
              Alloc "data" (Load "size_t" (Val "dataSize")) true;
              Fail (And (Not (Eq (Load "size_t" (Val "dataSize")) (Num 0))) (IsNull (Ref "data")));
              Read (Val "attribute") (SizeOf "CUmem_range_attribute");
              Read (Val "devPtr") (SizeOf "CUdeviceptr");
              Read (Val "count") (SizeOf "size_t")];
  h_rewrites := [];
  h_call := [UnlessZero (Load "size_t" (Val "dataSize")) (BufPtr "data");
             ByVal "dataSize";
             ByVal "attribute";
             ByVal "devPtr";
             ByVal "count"];
  h_reply := [Write (Ref "data") (Load "size_t" (Val "dataSize"));
              Write (Val "return_value") (SizeOf "CUresult")] |}.

Definition handle_cuStreamCreate : handler := {|
  h_name := "cuStreamCreate";
  h_locals := [Zeroed "phStream" "CUstream"; Uninit "Flags" "unsigned int"];
  h_async := false;
  h_reads := [Read (Val "phStream") (SizeOf "CUstream");
              Read (Val "Flags") (SizeOf "unsigned int")];
  h_rewrites := [];
  h_call := [AddrOf "phStream" []; ByVal "Flags"];
  h_reply := [Write (Val "phStream") (SizeOf "CUstream");
              Write (Val "return_value") (SizeOf "CUresult")] |}.

Definition handle_cuStreamCreateWithPriority : handler := {|
  h_name := "cuStreamCreateWithPriority";
  h_locals := [Zeroed "phStream" "CUstream";
               Uninit "flags" "unsigned int";
               Uninit "priority" "int"];
  h_async := false;
  h_reads := [Read (Val "phStream") (SizeOf "CUstream");
              Read (Val "flags") (SizeOf "unsigned int");
              Read (Val "priority") (SizeOf "int")];
  h_rewrites := [];
  h_call := [AddrOf "phStream" []; ByVal "flags"; ByVal "priority"];
  h_reply := [Write (Val "phStream") (SizeOf "CUstream");
              Write (Val "return_value") (SizeOf "CUresult")] |}.

Definition handle_cuStreamGetPriority : handler := {|
  h_name := "cuStreamGetPriority";
  h_locals := [Uninit "hStream" "CUstream"; Zeroed "priority" "int"];
  h_async := false;
  h_reads := [Read (Val "hStream") (SizeOf "CUstream");
              Read (Val "priority") (SizeOf "int")];
  h_rewrites := [];
  h_call := [ByVal "hStream"; AddrOf "priority" []];
  h_reply := [Write (Val "priority") (SizeOf "int");
              Write (Val "return_value") (SizeOf "CUresult")] |}.

Definition handle_cuStreamGetDevice : handler := {|
  h_name := "cuStreamGetDevice";
  h_locals := [Uninit "hStream" "CUstream"; Zeroed "device" "CUdevice"];
  h_async := false;
  h_reads := [Read (Val "hStream") (SizeOf "CUstream")];
  h_rewrites := [];
  h_call := [ByVal "hStream"; AddrOf "device" []];
  h_reply := [Write (Val "device") (SizeOf "CUdevice");
              Write (Val "return_value") (SizeOf "CUresult")] |}.

Definition handle_cuStreamGetFlags : handler := {|
  h_name := "cuStreamGetFlags";
  h_locals := [Uninit "hStream" "CUstream"; Zeroed "flags" "unsigned int"];
  h_async := false;
  h_reads := [Read (Val "hStream") (SizeOf "CUstream");
              Read (Val "flags") (SizeOf "unsigned int")];
  h_rewrites := [];
  h_call := [ByVal "hStream"; AddrOf "flags" []];
  h_reply := [Write (Val "flags") (SizeOf "unsigned int");
              Write (Val "return_value") (SizeOf "CUresult")] |}.

Definition handle_cuStreamGetId : handler := {|
  h_name := "cuStreamGetId";
  h_locals := [Uninit "hStream" "CUstream"; Zeroed "streamId" "unsigned long long"];
  h_async := false;
  h_reads := [Read (Val "hStream") (SizeOf "CUstream");
              Read (Val "streamId") (SizeOf "unsigned long long")];
  h_rewrites := [];
  h_call := [ByVal "hStream"; AddrOf "streamId" []];
  h_reply := [Write (Val "streamId") (SizeOf "unsigned long long");
              Write (Val "return_value") (SizeOf "CUresult")] |}.

Definition handle_cuStreamGetCtx : handler := {|
  h_name := "cuStreamGetCtx";
  h_locals := [Uninit "hStream" "CUstream"; Zeroed "pctx" "CUcontext"];
  h_async := false;
  h_reads := [Read (Val "hStream") (SizeOf "CUstream");
              Read (Val "pctx") (SizeOf "CUcontext")];
  h_rewrites := [];
  h_call := [ByVal "hStream"; AddrOf "pctx" []];
  h_reply := [Write (Val "pctx") (SizeOf "CUcontext");
              Write (Val "return_value") (SizeOf "CUresult")] |}.

Definition handle_cuThreadExchangeStreamCaptureMode : handler := {|
  h_name := "cuThreadExchangeStreamCaptureMode";
  h_locals := [Zeroed "mode" "CUstreamCaptureMode"; Zeroed "async_sequence" "uint64_t"];
  h_async := true;
  h_reads := [Read (Val "async_sequence") (SizeOf "uint64_t");
              Read (Val "mode") (SizeOf "CUstreamCaptureMode")];
  h_rewrites := [];
  h_call := [AddrOf "mode" []];
  h_reply := [] |}.

Definition handle_cuStreamIsCapturing : handler := {|
  h_name := "cuStreamIsCapturing";
  h_locals := [Uninit "hStream" "CUstream"; Zeroed "captureStatus" "CUstreamCaptureStatus"];
  h_async := false;
  h_reads := [Read (Val "hStream") (SizeOf "CUstream");
              Read (Val "captureStatus") (SizeOf "CUstreamCaptureStatus")];
  h_rewrites := [];
  h_call := [ByVal "hStream"; AddrOf "captureStatus" []];
  h_reply := [Write (Val "captureStatus") (SizeOf "CUstreamCaptureStatus");
              Write (Val "return_value") (SizeOf "CUresult")] |}.

Definition handle_cuStreamAttachMemAsync : handler := {|
  h_name := "cuStreamAttachMemAsync";
  h_locals := [Uninit "hStream" "CUstream";
               Uninit "dptr" "CUdeviceptr";
               Uninit "length" "size_t";
               Uninit "flags" "unsigned int"];
  h_async := false;
  h_reads := [Read (Val "hStream") (SizeOf "CUstream");
              Read (Val "dptr") (SizeOf "CUdeviceptr");
              Read (Val "length") (SizeOf "size_t");
              Read (Val "flags") (SizeOf "unsigned int")];
  h_rewrites := [];
  h_call := [ByVal "hStream"; ByVal "dptr"; ByVal "length"; ByVal "flags"];
  h_reply := [Write (Val "return_value") (SizeOf "CUresult")] |}.

Definition handle_cuStreamDestroy_v2 : handler := {|
  h_name := "cuStreamDestroy_v2";
  h_locals := [Uninit "hStream" "CUstream"];
  h_async := false;
  h_reads := [Read (Val "hStream") (SizeOf "CUstream")];
  h_rewrites := [];
  h_call := [ByVal "hStream"];
  h_reply := [Write (Val "return_value") (SizeOf "CUresult")] |}.

Definition handle_cuStreamCopyAttributes : handler := {|
  h_name := "cuStreamCopyAttributes";
  h_locals := [Uninit "dst" "CUstream"; Uninit "src" "CUstream"];
  h_async := false;
  h_reads := [Read (Val "dst") (SizeOf "CUstream"); Read (Val "src") (SizeOf "CUstream")];
  h_rewrites := [];
  h_call := [ByVal "dst"; ByVal "src"];
  h_reply := [Write (Val "return_value") (SizeOf "CUresult")] |}.

Definition handle_cuStreamGetAttribute : handler := {|
  h_name := "cuStreamGetAttribute";
  h_locals := [Uninit "hStream" "CUstream";
               Uninit "attr" "CUstreamAttrID";
               Zeroed "value_out" "CUstreamAttrValue"];
  h_async := false;
  h_reads := [Read (Val "hStream") (SizeOf "CUstream");
              Read (Val "attr") (SizeOf "CUstreamAttrID");
              Read (Val "value_out") (SizeOf "CUstreamAttrValue")];
  h_rewrites := [];
  h_call := [ByVal "hStream"; ByVal "attr"; AddrOf "value_out" []];
  h_reply := [Write (Val "value_out") (SizeOf "CUstreamAttrValue");
              Write (Val "return_value") (SizeOf "CUresult")] |}.

Definition handle_cuStreamSetAttribute : handler := {|
  h_name := "cuStreamSetAttribute";
  h_locals := [Uninit "hStream" "CUstream";
               Uninit "attr" "CUstreamAttrID";
               Zeroed "value" "CUstreamAttrValue"];
  h_async := false;
  h_reads := [Read (Val "hStream") (SizeOf "CUstream");
              Read (Val "attr") (SizeOf "CUstreamAttrID");
              Read (Val "value") (SizeOf "CUstreamAttrValue")];
  h_rewrites := [];
  h_call := [ByVal "hStream"; ByVal "attr"; AddrOf "value" []];
  h_reply := [Write (Val "return_value") (SizeOf "CUresult")] |}.

Definition handle_cuEventCreate : handler := {|
  h_name := "cuEventCreate";
  h_locals := [Zeroed "phEvent" "CUevent"; Uninit "Flags" "unsigned int"];
  h_async := false;
  h_reads := [Read (Val "phEvent") (SizeOf "CUevent");
              Read (Val "Flags") (SizeOf "unsigned int")];
  h_rewrites := [];
  h_call := [AddrOf "phEvent" []; ByVal "Flags"];
  h_reply := [Write (Val "phEvent") (SizeOf "CUevent");
              Write (Val "return_value") (SizeOf "CUresult")] |}.

Definition handle_cuImportExternalMemory : handler := {|
  h_name := "cuImportExternalMemory";
  h_locals := [Zeroed "extMem_out" "CUexternalMemory";
               Zeroed "memHandleDesc" "CUDA_EXTERNAL_MEMORY_HANDLE_DESC"];
  h_async := false;
  h_reads := [Read (Val "extMem_out") (SizeOf "CUexternalMemory");
              Read (Val "memHandleDesc") (SizeOf "CUDA_EXTERNAL_MEMORY_HANDLE_DESC")];
  h_rewrites := [];
  h_call := [AddrOf "extMem_out" []; AddrOf "memHandleDesc" []];
  h_reply := [Write (Val "extMem_out") (SizeOf "CUexternalMemory");
              Write (Val "return_value") (SizeOf "CUresult")] |}.

Definition handle_cuExternalMemoryGetMappedBuffer : handler := {|
  h_name := "cuExternalMemoryGetMappedBuffer";
  h_locals := [Zeroed "devPtr" "CUdeviceptr";
               Uninit "extMem" "CUexternalMemory";
               Zeroed "bufferDesc" "CUDA_EXTERNAL_MEMORY_BUFFER_DESC"];
  h_async := false;
  h_reads := [Read (Val "devPtr") (SizeOf "CUdeviceptr");
              Read (Val "extMem") (SizeOf "CUexternalMemory");
              Read (Val "bufferDesc") (SizeOf "CUDA_EXTERNAL_MEMORY_BUFFER_DESC")];
  h_rewrites := [];
  h_call := [AddrOf "devPtr" []; ByVal "extMem"; AddrOf "bufferDesc" []];
  h_reply := [Write (Val "devPtr") (SizeOf "CUdeviceptr");
              Write (Val "return_value") (SizeOf "CUresult")] |}.

Definition handle_cuExternalMemoryGetMappedMipmappedArray : handler := {|
  h_name := "cuExternalMemoryGetMappedMipmappedArray";
  h_locals := [Zeroed "mipmap" "CUmipmappedArray";
               Uninit "extMem" "CUexternalMemory";
               Zeroed "mipmapDesc" "CUDA_EXTERNAL_MEMORY_MIPMAPPED_ARRAY_DESC"];
  h_async := false;
  h_reads := [Read (Val "mipmap") (SizeOf "CUmipmappedArray");
              Read (Val "extMem") (SizeOf "CUexternalMemory");
              Read (Val "mipmapDesc") (SizeOf "CUDA_EXTERNAL_MEMORY_MIPMAPPED_ARRAY_DESC")];
  h_rewrites := [];
  h_call := [AddrOf "mipmap" []; ByVal "extMem"; AddrOf "mipmapDesc" []];
  h_reply := [Write (Val "mipmap") (SizeOf "CUmipmappedArray");
              Write (Val "return_value") (SizeOf "CUresult")] |}.

Definition handle_cuDestroyExternalMemory : handler := {|
  h_name := "cuDestroyExternalMemory";
  h_locals := [Uninit "extMem" "CUexternalMemory"];
  h_async := false;
  h_reads := [Read (Val "extMem") (SizeOf "CUexternalMemory")];
  h_rewrites := [];
  h_call := [ByVal "extMem"];
  h_reply := [Write (Val "return_value") (SizeOf "CUresult")] |}.

Definition handle_cuImportExternalSemaphore : handler := {|
  h_name := "cuImportExternalSemaphore";
  h_locals := [Zeroed "extSem_out" "CUexternalSemaphore";
               Zeroed "semHandleDesc" "CUDA_EXTERNAL_SEMAPHORE_HANDLE_DESC"];
  h_async := false;
  h_reads := [Read (Val "extSem_out") (SizeOf "CUexternalSemaphore");
              Read (Val "semHandleDesc") (SizeOf "CUDA_EXTERNAL_SEMAPHORE_HANDLE_DESC")];
  h_rewrites := [];
  h_call := [AddrOf "extSem_out" []; AddrOf "semHandleDesc" []];
  h_reply := [Write (Val "extSem_out") (SizeOf "CUexternalSemaphore");
              Write (Val "return_value") (SizeOf "CUresult")] |}.

Definition handle_cuSignalExternalSemaphoresAsync : handler := {|
  h_name := "cuSignalExternalSemaphoresAsync";
  h_locals := [Uninit "numExtSems" "unsigned int";
               NullPtr "extSemArray";
               Uninit "extSemArray_size" "size_t";
               NullPtr "paramsArray";
               Uninit "paramsArray_size" "size_t";
               Uninit "stream" "CUstream"];
  h_async := false;
  h_reads := [Read (Val "numExtSems") (SizeOf "unsigned int");
              Let "extSemArray_size" "size_t" (Mul (Load "unsigned int" (Val "numExtSems")) (SizeOf "CUexternalSemaphore"));
              Alloc "extSemArray" (Load "size_t" (Val "extSemArray_size")) false;
              Fail (And (Not (Eq (Load "size_t" (Val "extSemArray_size")) (Num 0))) (IsNull (Ref "extSemArray")));
              When (Not (Eq (Load "size_t" (Val "extSemArray_size")) (Num 0))) (Read (Ref "extSemArray") (Load "size_t" (Val "extSemArray_size")));
              Let "paramsArray_size" "size_t" (Mul (Load "unsigned int" (Val "numExtSems")) (SizeOf "CUDA_EXTERNAL_SEMAPHORE_SIGNAL_PARAMS"));
              Alloc "paramsArray" (Load "size_t" (Val "paramsArray_size")) false;
              Fail (And (Not (Eq (Load "size_t" (Val "paramsArray_size")) (Num 0))) (IsNull (Ref "paramsArray")));
              When (Not (Eq (Load "size_t" (Val "paramsArray_size")) (Num 0))) (Read (Ref "paramsArray") (Load "size_t" (Val "paramsArray_size")));
              Read (Val "stream") (SizeOf "CUstream")];
  h_rewrites := [];
  h_call := [UnlessZero (Mul (Load "unsigned int" (Val "numExtSems")) (SizeOf "CUexternalSemaphore")) (BufPtr "extSemArray");
             UnlessZero (Mul (Load "unsigned int" (Val "numExtSems")) (SizeOf "CUDA_EXTERNAL_SEMAPHORE_SIGNAL_PARAMS")) (BufPtr "paramsArray");
             ByVal "numExtSems";
             ByVal "stream"];
  h_reply := [Write (Val "return_value") (SizeOf "CUresult")] |}.

Definition handle_cuWaitExternalSemaphoresAsync : handler := {|
  h_name := "cuWaitExternalSemaphoresAsync";
  h_locals := [Uninit "numExtSems" "unsigned int";
               NullPtr "extSemArray";
               Uninit "extSemArray_size" "size_t";
               NullPtr "paramsArray";
               Uninit "paramsArray_size" "size_t";
               Uninit "stream" "CUstream"];
  h_async := false;
  h_reads := [Read (Val "numExtSems") (SizeOf "unsigned int");
              Let "extSemArray_size" "size_t" (Mul (Load "unsigned int" (Val "numExtSems")) (SizeOf "CUexternalSemaphore"));
              Alloc "extSemArray" (Load "size_t" (Val "extSemArray_size")) false;
              Fail (And (Not (Eq (Load "size_t" (Val "extSemArray_size")) (Num 0))) (IsNull (Ref "extSemArray")));
              When (Not (Eq (Load "size_t" (Val "extSemArray_size")) (Num 0))) (Read (Ref "extSemArray") (Load "size_t" (Val "extSemArray_size")));
              Let "paramsArray_size" "size_t" (Mul (Load "unsigned int" (Val "numExtSems")) (SizeOf "CUDA_EXTERNAL_SEMAPHORE_WAIT_PARAMS"));
              Alloc "paramsArray" (Load "size_t" (Val "paramsArray_size")) false;
              Fail (And (Not (Eq (Load "size_t" (Val "paramsArray_size")) (Num 0))) (IsNull (Ref "paramsArray")));
              When (Not (Eq (Load "size_t" (Val "paramsArray_size")) (Num 0))) (Read (Ref "paramsArray") (Load "size_t" (Val "paramsArray_size")));
              Read (Val "stream") (SizeOf "CUstream")];
  h_rewrites := [];
  h_call := [UnlessZero (Mul (Load "unsigned int" (Val "numExtSems")) (SizeOf "CUexternalSemaphore")) (BufPtr "extSemArray");
             UnlessZero (Mul (Load "unsigned int" (Val "numExtSems")) (SizeOf "CUDA_EXTERNAL_SEMAPHORE_WAIT_PARAMS")) (BufPtr "paramsArray");
             ByVal "numExtSems";
             ByVal "stream"];
  h_reply := [Write (Val "return_value") (SizeOf "CUresult")] |}.

Definition handle_cuDestroyExternalSemaphore : handler := {|
  h_name := "cuDestroyExternalSemaphore";
  h_locals := [Uninit "extSem" "CUexternalSemaphore"];
  h_async := false;
  h_reads := [Read (Val "extSem") (SizeOf "CUexternalSemaphore")];
  h_rewrites := [];
  h_call := [ByVal "extSem"];
  h_reply := [Write (Val "return_value") (SizeOf "CUresult")] |}.

Definition handle_cuStreamWaitValue32_v2 : handler := {|
  h_name := "cuStreamWaitValue32_v2";
  h_locals := [Uninit "stream" "CUstream";
               Uninit "addr" "CUdeviceptr";
               Uninit "value" "cuuint32_t";
               Uninit "flags" "unsigned int"];
  h_async := false;
  h_reads := [Read (Val "stream") (SizeOf "CUstream");
              Read (Val "addr") (SizeOf "CUdeviceptr");
              Read (Val "value") (SizeOf "cuuint32_t");
              Read (Val "flags") (SizeOf "unsigned int")];
  h_rewrites := [];
  h_call := [ByVal "stream"; ByVal "addr"; ByVal "value"; ByVal "flags"];
  h_reply := [Write (Val "return_value") (SizeOf "CUresult")] |}.

Definition handle_cuStreamWaitValue64_v2 : handler := {|
  h_name := "cuStreamWaitValue64_v2";
  h_locals := [Uninit "stream" "CUstream";
               Uninit "addr" "CUdeviceptr";
               Uninit "value" "cuuint64_t";
               Uninit "flags" "unsigned int"];
  h_async := false;
  h_reads := [Read (Val "stream") (SizeOf "CUstream");
              Read (Val "addr") (SizeOf "CUdeviceptr");
              Read (Val "value") (SizeOf "cuuint64_t");
              Read (Val "flags") (SizeOf "unsigned int")];
  h_rewrites := [];
  h_call := [ByVal "stream"; ByVal "addr"; ByVal "value"; ByVal "flags"];
  h_reply := [Write (Val "return_value") (SizeOf "CUresult")] |}.

Definition handle_cuStreamWriteValue32_v2 : handler := {|
  h_name := "cuStreamWriteValue32_v2";
  h_locals := [Uninit "stream" "CUstream";
               Uninit "addr" "CUdeviceptr";
               Uninit "value" "cuuint32_t";
               Uninit "flags" "unsigned int"];
  h_async := false;
  h_reads := [Read (Val "stream") (SizeOf "CUstream");
              Read (Val "addr") (SizeOf "CUdeviceptr");
              Read (Val "value") (SizeOf "cuuint32_t");
              Read (Val "flags") (SizeOf "unsigned int")];
  h_rewrites := [];
  h_call := [ByVal "stream"; ByVal "addr"; ByVal "value"; ByVal "flags"];
  h_reply := [Write (Val "return_value") (SizeOf "CUresult")] |}.

Definition handle_cuStreamWriteValue64_v2 : handler := {|
  h_name := "cuStreamWriteValue64_v2";
  h_locals := [Uninit "stream" "CUstream";
               Uninit "addr" "CUdeviceptr";
               Uninit "value" "cuuint64_t";
               Uninit "flags" "unsigned int"];
  h_async := false;
  h_reads := [Read (Val "stream") (SizeOf "CUstream");
              Read (Val "addr") (SizeOf "CUdeviceptr");
              Read (Val "value") (SizeOf "cuuint64_t");
              Read (Val "flags") (SizeOf "unsigned int")];
  h_rewrites := [];
  h_call := [ByVal "stream"; ByVal "addr"; ByVal "value"; ByVal "flags"];
  h_reply := [Write (Val "return_value") (SizeOf "CUresult")] |}.

Definition handle_cuStreamBatchMemOp_v2 : handler := {|
  h_name := "cuStreamBatchMemOp_v2";
  h_locals := [Uninit "stream" "CUstream";
               Uninit "count" "unsigned int";
               NullPtr "paramArray";
               Uninit "paramArray_size" "size_t";
               Uninit "flags" "unsigned int"];
  h_async := false;
  h_reads := [Read (Val "stream") (SizeOf "CUstream");
              Read (Val "count") (SizeOf "unsigned int");
              Let "paramArray_size" "size_t" (Mul (Load "unsigned int" (Val "count")) (SizeOf "CUstreamBatchMemOpParams"));
              Alloc "paramArray" (Load "size_t" (Val "paramArray_size")) false;
              Fail (And (Not (Eq (Load "size_t" (Val "paramArray_size")) (Num 0))) (IsNull (Ref "paramArray")));
              When (Not (Eq (Load "size_t" (Val "paramArray_size")) (Num 0))) (Read (Ref "paramArray") (Load "size_t" (Val "paramArray_size")));
              Read (Val "flags") (SizeOf "unsigned int")];
  h_rewrites := [];
  h_call := [ByVal "stream";
             ByVal "count";
             UnlessZero (Mul (Load "unsigned int" (Val "count")) (SizeOf "CUstreamBatchMemOpParams")) (BufPtr "paramArray");
             ByVal "flags"];
  h_reply := [Write (Val "return_value") (SizeOf "CUresult")] |}.

Definition handle_cuFuncGetAttribute : handler := {|
  h_name := "cuFuncGetAttribute";
  h_locals := [Zeroed "pi" "int";
               Uninit "attrib" "CUfunction_attribute";
               Uninit "hfunc" "CUfunction"];
  h_async := false;
  h_reads := [Read (Val "pi") (SizeOf "int");
              Read (Val "attrib") (SizeOf "CUfunction_attribute");
              Read (Val "hfunc") (SizeOf "CUfunction")];
  h_rewrites := [];
  h_call := [AddrOf "pi" []; ByVal "attrib"; ByVal "hfunc"];
  h_reply := [Write (Val "pi") (SizeOf "int");
              Write (Val "return_value") (SizeOf "CUresult")] |}.

Definition handle_cuFuncSetAttribute : handler := {|
  h_name := "cuFuncSetAttribute";
  h_locals := [Uninit "hfunc" "CUfunction";
               Uninit "attrib" "CUfunction_attribute";
               Uninit "value" "int"];
  h_async := false;
  h_reads := [Read (Val "hfunc") (SizeOf "CUfunction");
              Read (Val "attrib") (SizeOf "CUfunction_attribute");
              Read (Val "value") (SizeOf "int")];
  h_rewrites := [];
  h_call := [ByVal "hfunc"; ByVal "attrib"; ByVal "value"];
  h_reply := [Write (Val "return_value") (SizeOf "CUresult")] |}.

Definition handle_cuFuncSetCacheConfig : handler := {|
  h_name := "cuFuncSetCacheConfig";
  h_locals := [Uninit "hfunc" "CUfunction"; Uninit "config" "CUfunc_cache"];
  h_async := false;
  h_reads := [Read (Val "hfunc") (SizeOf "CUfunction");
              Read (Val "config") (SizeOf "CUfunc_cache")];
  h_rewrites := [];
  h_call := [ByVal "hfunc"; ByVal "config"];
  h_reply := [Write (Val "return_value") (SizeOf "CUresult")] |}.

Definition handle_cuFuncGetModule : handler := {|
  h_name := "cuFuncGetModule";
  h_locals := [Zeroed "hmod" "CUmodule"; Uninit "hfunc" "CUfunction"];
  h_async := false;
  h_reads := [Read (Val "hmod") (SizeOf "CUmodule");
              Read (Val "hfunc") (SizeOf "CUfunction")];
  h_rewrites := [];
  h_call := [AddrOf "hmod" []; ByVal "hfunc"];
  h_reply := [Write (Val "hmod") (SizeOf "CUmodule");
              Write (Val "return_value") (SizeOf "CUresult")] |}.

Definition handle_cuFuncGetParamInfo : handler := {|
  h_name := "cuFuncGetParamInfo";
  h_locals := [Uninit "func" "CUfunction";
               Uninit "paramIndex" "size_t";
               Zeroed "paramOffset" "size_t";
               Zeroed "paramSize" "size_t"];
  h_async := false;
  h_reads := [Read (Val "func") (SizeOf "CUfunction");
              Read (Val "paramIndex") (SizeOf "size_t")];
  h_rewrites := [];
  h_call := [ByVal "func";
             ByVal "paramIndex";
             AddrOf "paramOffset" [];
             AddrOf "paramSize" []];
  h_reply := [Write (Val "paramOffset") (SizeOf "size_t");
              Write (Val "paramSize") (SizeOf "size_t");
              Write (Val "return_value") (SizeOf "CUresult")] |}.

Definition handle_cuFuncSetBlockShape : handler := {|
  h_name := "cuFuncSetBlockShape";
  h_locals := [Uninit "hfunc" "CUfunction";
               Uninit "x" "int";
               Uninit "y" "int";
               Uninit "z" "int"];
  h_async := false;
  h_reads := [Read (Val "hfunc") (SizeOf "CUfunction");
              Read (Val "x") (SizeOf "int");
              Read (Val "y") (SizeOf "int");
              Read (Val "z") (SizeOf "int")];
  h_rewrites := [];
  h_call := [ByVal "hfunc"; ByVal "x"; ByVal "y"; ByVal "z"];
  h_reply := [Write (Val "return_value") (SizeOf "CUresult")] |}.

Definition handle_cuFuncSetSharedSize : handler := {|
  h_name := "cuFuncSetSharedSize";
  h_locals := [Uninit "hfunc" "CUfunction"; Uninit "bytes" "unsigned int"];
  h_async := false;
  h_reads := [Read (Val "hfunc") (SizeOf "CUfunction");
              Read (Val "bytes") (SizeOf "unsigned int")];
  h_rewrites := [];
  h_call := [ByVal "hfunc"; ByVal "bytes"];
  h_reply := [Write (Val "return_value") (SizeOf "CUresult")] |}.

Definition handle_cuParamSetSize : handler := {|
  h_name := "cuParamSetSize";
  h_locals := [Uninit "hfunc" "CUfunction"; Uninit "numbytes" "unsigned int"];
  h_async := false;
  h_reads := [Read (Val "hfunc") (SizeOf "CUfunction");
              Read (Val "numbytes") (SizeOf "unsigned int")];
  h_rewrites := [];
  h_call := [ByVal "hfunc"; ByVal "numbytes"];
  h_reply := [Write (Val "return_value") (SizeOf "CUresult")] |}.

Definition handle_cuParamSeti : handler := {|
  h_name := "cuParamSeti";
  h_locals := [Uninit "hfunc" "CUfunction";
               Uninit "offset" "int";
               Uninit "value" "unsigned int"];
  h_async := false;
  h_reads := [Read (Val "hfunc") (SizeOf "CUfunction");
              Read (Val "offset") (SizeOf "int");
              Read (Val "value") (SizeOf "unsigned int")];
  h_rewrites := [];
  h_call := [ByVal "hfunc"; ByVal "offset"; ByVal "value"];
  h_reply := [Write (Val "return_value") (SizeOf "CUresult")] |}.

Definition handle_cuParamSetf : handler := {|
  h_name := "cuParamSetf";
  h_locals := [Uninit "hfunc" "CUfunction"; Uninit "offset" "int"; Uninit "value" "float"];
  h_async := false;
  h_reads := [Read (Val "hfunc") (SizeOf "CUfunction");
              Read (Val "offset") (SizeOf "int");
              Read (Val "value") (SizeOf "float")];
  h_rewrites := [];
  h_call := [ByVal "hfunc"; ByVal "offset"; ByVal "value"];
  h_reply := [Write (Val "return_value") (SizeOf "CUresult")] |}.

Definition handle_cuParamSetv : handler := {|
  h_name := "cuParamSetv";
  h_locals := [Uninit "hfunc" "CUfunction";
               Uninit "offset" "int";
               Uninit "numbytes" "unsigned int";
               NullPtr "ptr";
               Uninit "ptr_size" "size_t"];
  h_async := false;
  h_reads := [Read (Val "hfunc") (SizeOf "CUfunction");
              Read (Val "offset") (SizeOf "int");
              Read (Val "numbytes") (SizeOf "unsigned int");
              Let "ptr_size" "size_t" (Load "unsigned int" (Val "numbytes"));
              Alloc "ptr" (Load "size_t" (Val "ptr_size")) false;
              Fail (And (Not (Eq (Load "size_t" (Val "ptr_size")) (Num 0))) (IsNull (Ref "ptr")));
              When (Not (Eq (Load "size_t" (Val "ptr_size")) (Num 0))) (Read (Ref "ptr") (Load "size_t" (Val "ptr_size")))];
  h_rewrites := [];
  h_call := [ByVal "hfunc";
             ByVal "offset";
             UnlessZero (Load "unsigned int" (Val "numbytes")) (BufPtr "ptr");
             ByVal "numbytes"];
  h_reply := [Write (Val "return_value") (SizeOf "CUresult")] |}.

Definition handle_cuLaunch : handler := {|
  h_name := "cuLaunch";
  h_locals := [Uninit "f" "CUfunction"];
  h_async := false;
  h_reads := [Read (Val "f") (SizeOf "CUfunction")];
  h_rewrites := [];
  h_call := [ByVal "f"];
  h_reply := [Write (Val "return_value") (SizeOf "CUresult")] |}.

Definition handle_cuLaunchGrid : handler := {|
  h_name := "cuLaunchGrid";
  h_locals := [Uninit "f" "CUfunction";
               Uninit "grid_width" "int";
               Uninit "grid_height" "int"];
  h_async := false;
  h_reads := [Read (Val "f") (SizeOf "CUfunction");
              Read (Val "grid_width") (SizeOf "int");
              Read (Val "grid_height") (SizeOf "int")];
  h_rewrites := [];
  h_call := [ByVal "f"; ByVal "grid_width"; ByVal "grid_height"];
  h_reply := [Write (Val "return_value") (SizeOf "CUresult")] |}.

Definition handle_cuLaunchGridAsync : handler := {|
  h_name := "cuLaunchGridAsync";
  h_locals := [Uninit "f" "CUfunction";
               Uninit "grid_width" "int";
               Uninit "grid_height" "int";
               Uninit "hStream" "CUstream"];
  h_async := false;
  h_reads := [Read (Val "f") (SizeOf "CUfunction");
              Read (Val "grid_width") (SizeOf "int");
              Read (Val "grid_height") (SizeOf "int");
              Read (Val "hStream") (SizeOf "CUstream")];
  h_rewrites := [];
  h_call := [ByVal "f"; ByVal "grid_width"; ByVal "grid_height"; ByVal "hStream"];
  h_reply := [Write (Val "return_value") (SizeOf "CUresult")] |}.

Definition handle_cuParamSetTexRef : handler := {|
  h_name := "cuParamSetTexRef";
  h_locals := [Uninit "hfunc" "CUfunction";
               Uninit "texunit" "int";
               Uninit "hTexRef" "CUtexref"];
  h_async := false;
  h_reads := [Read (Val "hfunc") (SizeOf "CUfunction");
              Read (Val "texunit") (SizeOf "int");
              Read (Val "hTexRef") (SizeOf "CUtexref")];
  h_rewrites := [];
  h_call := [ByVal "hfunc"; ByVal "texunit"; ByVal "hTexRef"];
  h_reply := [Write (Val "return_value") (SizeOf "CUresult")] |}.

Definition handle_cuFuncSetSharedMemConfig : handler := {|
  h_name := "cuFuncSetSharedMemConfig";
  h_locals := [Uninit "hfunc" "CUfunction"; Uninit "config" "CUsharedconfig"];
  h_async := false;
  h_reads := [Read (Val "hfunc") (SizeOf "CUfunction");
              Read (Val "config") (SizeOf "CUsharedconfig")];
  h_rewrites := [];
  h_call := [ByVal "hfunc"; ByVal "config"];
  h_reply := [Write (Val "return_value") (SizeOf "CUresult")] |}.

Definition handle_cuGraphCreate : handler := {|
  h_name := "cuGraphCreate";
  h_locals := [Zeroed "phGraph" "CUgraph"; Uninit "flags" "unsigned int"];
  h_async := false;
  h_reads := [Read (Val "phGraph") (SizeOf "CUgraph");
              Read (Val "flags") (SizeOf "unsigned int")];
  h_rewrites := [];
  h_call := [AddrOf "phGraph" []; ByVal "flags"];
  h_reply := [Write (Val "phGraph") (SizeOf "CUgraph");
              Write (Val "return_value") (SizeOf "CUresult")] |}.

Definition handle_cuGraphMemcpyNodeGetParams : handler := {|
  h_name := "cuGraphMemcpyNodeGetParams";
  h_locals := [Uninit "hNode" "CUgraphNode"; Zeroed "nodeParams" "CUDA_MEMCPY3D"];
  h_async := false;
  h_reads := [Read (Val "hNode") (SizeOf "CUgraphNode");
              Read (Val "nodeParams") (SizeOf "CUDA_MEMCPY3D")];
  h_rewrites := [];
  h_call := [ByVal "hNode"; AddrOf "nodeParams" []];
  h_reply := [Write (Val "nodeParams") (SizeOf "CUDA_MEMCPY3D");
              Write (Val "return_value") (SizeOf "CUresult")] |}.

Definition handle_cuGraphMemcpyNodeSetParams : handler := {|
  h_name := "cuGraphMemcpyNodeSetParams";
  h_locals := [Uninit "hNode" "CUgraphNode"; Zeroed "nodeParams" "CUDA_MEMCPY3D"];
  h_async := false;
  h_reads := [Read (Val "hNode") (SizeOf "CUgraphNode");
              Read (Val "nodeParams") (SizeOf "CUDA_MEMCPY3D")];
  h_rewrites := [];
  h_call := [ByVal "hNode"; AddrOf "nodeParams" []];
  h_reply := [Write (Val "return_value") (SizeOf "CUresult")] |}.

Definition handle_cuGraphMemsetNodeGetParams : handler := {|
  h_name := "cuGraphMemsetNodeGetParams";
  h_locals := [Uninit "hNode" "CUgraphNode"; Zeroed "nodeParams" "CUDA_MEMSET_NODE_PARAMS"];
  h_async := false;
  h_reads := [Read (Val "hNode") (SizeOf "CUgraphNode");
              Read (Val "nodeParams") (SizeOf "CUDA_MEMSET_NODE_PARAMS")];
  h_rewrites := [];
  h_call := [ByVal "hNode"; AddrOf "nodeParams" []];
  h_reply := [Write (Val "nodeParams") (SizeOf "CUDA_MEMSET_NODE_PARAMS");
              Write (Val "return_value") (SizeOf "CUresult")] |}.

Definition handle_cuGraphMemsetNodeSetParams : handler := {|
  h_name := "cuGraphMemsetNodeSetParams";
  h_locals := [Uninit "hNode" "CUgraphNode"; Zeroed "nodeParams" "CUDA_MEMSET_NODE_PARAMS"];
  h_async := false;
  h_reads := [Read (Val "hNode") (SizeOf "CUgraphNode");
              Read (Val "nodeParams") (SizeOf "CUDA_MEMSET_NODE_PARAMS")];
  h_rewrites := [];
  h_call := [ByVal "hNode"; AddrOf "nodeParams" []];
  h_reply := [Write (Val "return_value") (SizeOf "CUresult")] |}.

Definition handle_cuGraphAddChildGraphNode : handler := {|
  h_name := "cuGraphAddChildGraphNode";
  h_locals := [Zeroed "phGraphNode" "CUgraphNode";
               Uninit "hGraph" "CUgraph";
               Uninit "numDependencies" "size_t";
               NullPtr "dependencies";
               Uninit "dependencies_size" "size_t";
               Uninit "childGraph" "CUgraph"];
  h_async := false;
  h_reads := [Read (Val "phGraphNode") (SizeOf "CUgraphNode");
              Read (Val "hGraph") (SizeOf "CUgraph");
              Read (Val "numDependencies") (SizeOf "size_t");
              Let "dependencies_size" "size_t" (Mul (Load "size_t" (Val "numDependencies")) (SizeOf "CUgraphNode"));
              Alloc "dependencies" (Load "size_t" (Val "dependencies_size")) false;
              Fail (And (Not (Eq (Load "size_t" (Val "dependencies_size")) (Num 0))) (IsNull (Ref "dependencies")));
              When (Not (Eq (Load "size_t" (Val "dependencies_size")) (Num 0))) (Read (Ref "dependencies") (Load "size_t" (Val "dependencies_size")));
              Read (Val "childGraph") (SizeOf "CUgraph")];
  h_rewrites := [];
  h_call := [AddrOf "phGraphNode" [];
             ByVal "hGraph";
             UnlessZero (Mul (Load "size_t" (Val "numDependencies")) (SizeOf "CUgraphNode")) (BufPtr "dependencies");
             ByVal "numDependencies";
             ByVal "childGraph"];
  h_reply := [Write (Val "phGraphNode") (SizeOf "CUgraphNode");
              Write (Val "return_value") (SizeOf "CUresult")] |}.

Definition handle_cuGraphChildGraphNodeGetGraph : handler := {|
  h_name := "cuGraphChildGraphNodeGetGraph";
  h_locals := [Uninit "hNode" "CUgraphNode"; Zeroed "phGraph" "CUgraph"];
  h_async := false;
  h_reads := [Read (Val "hNode") (SizeOf "CUgraphNode");
              Read (Val "phGraph") (SizeOf "CUgraph")];
  h_rewrites := [];
  h_call := [ByVal "hNode"; AddrOf "phGraph" []];
  h_reply := [Write (Val "phGraph") (SizeOf "CUgraph");
              Write (Val "return_value") (SizeOf "CUresult")] |}.

Definition handle_cuGraphAddEmptyNode : handler := {|
  h_name := "cuGraphAddEmptyNode";
  h_locals := [Zeroed "phGraphNode" "CUgraphNode";
               Uninit "hGraph" "CUgraph";
               Uninit "numDependencies" "size_t";
               NullPtr "dependencies";
               Uninit "dependencies_size" "size_t"];
  h_async := false;
  h_reads := [Read (Val "phGraphNode") (SizeOf "CUgraphNode");
              Read (Val "hGraph") (SizeOf "CUgraph");
              Read (Val "numDependencies") (SizeOf "size_t");
              Let "dependencies_size" "size_t" (Mul (Load "size_t" (Val "numDependencies")) (SizeOf "CUgraphNode"));
              Alloc "dependencies" (Load "size_t" (Val "dependencies_size")) false;
              Fail (And (Not (Eq (Load "size_t" (Val "dependencies_size")) (Num 0))) (IsNull (Ref "dependencies")));
              When (Not (Eq (Load "size_t" (Val "dependencies_size")) (Num 0))) (Read (Ref "dependencies") (Load "size_t" (Val "dependencies_size")))];
  h_rewrites := [];
  h_call := [AddrOf "phGraphNode" [];
             ByVal "hGraph";
             UnlessZero (Mul (Load "size_t" (Val "numDependencies")) (SizeOf "CUgraphNode")) (BufPtr "dependencies");
             ByVal "numDependencies"];
  h_reply := [Write (Val "phGraphNode") (SizeOf "CUgraphNode");
              Write (Val "return_value") (SizeOf "CUresult")] |}.

Definition handle_cuGraphAddEventRecordNode : handler := {|
  h_name := "cuGraphAddEventRecordNode";
  h_locals := [Zeroed "phGraphNode" "CUgraphNode";
               Uninit "hGraph" "CUgraph";
               Uninit "numDependencies" "size_t";
               NullPtr "dependencies";
               Uninit "dependencies_size" "size_t";
               Uninit "event" "CUevent"];
  h_async := false;
  h_reads := [Read (Val "phGraphNode") (SizeOf "CUgraphNode");
              Read (Val "hGraph") (SizeOf "CUgraph");
              Read (Val "numDependencies") (SizeOf "size_t");
              Let "dependencies_size" "size_t" (Mul (Load "size_t" (Val "numDependencies")) (SizeOf "CUgraphNode"));
              Alloc "dependencies" (Load "size_t" (Val "dependencies_size")) false;
              Fail (And (Not (Eq (Load "size_t" (Val "dependencies_size")) (Num 0))) (IsNull (Ref "dependencies")));
              When (Not (Eq (Load "size_t" (Val "dependencies_size")) (Num 0))) (Read (Ref "dependencies") (Load "size_t" (Val "dependencies_size")));
              Read (Val "event") (SizeOf "CUevent")];
  h_rewrites := [];
  h_call := [AddrOf "phGraphNode" [];
             ByVal "hGraph";
             UnlessZero (Mul (Load "size_t" (Val "numDependencies")) (SizeOf "CUgraphNode")) (BufPtr "dependencies");
             ByVal "numDependencies";
             ByVal "event"];
  h_reply := [Write (Val "phGraphNode") (SizeOf "CUgraphNode");
              Write (Val "return_value") (SizeOf "CUresult")] |}.

Definition handle_cuGraphEventRecordNodeGetEvent : handler := {|
  h_name := "cuGraphEventRecordNodeGetEvent";
  h_locals := [Uninit "hNode" "CUgraphNode"; Zeroed "event_out" "CUevent"];
  h_async := false;
  h_reads := [Read (Val "hNode") (SizeOf "CUgraphNode");
              Read (Val "event_out") (SizeOf "CUevent")];
  h_rewrites := [];
  h_call := [ByVal "hNode"; AddrOf "event_out" []];
  h_reply := [Write (Val "event_out") (SizeOf "CUevent");
              Write (Val "return_value") (SizeOf "CUresult")] |}.

Definition handle_cuGraphEventRecordNodeSetEvent : handler := {|
  h_name := "cuGraphEventRecordNodeSetEvent";
  h_locals := [Uninit "hNode" "CUgraphNode"; Uninit "event" "CUevent"];
  h_async := false;
  h_reads := [Read (Val "hNode") (SizeOf "CUgraphNode");
              Read (Val "event") (SizeOf "CUevent")];
  h_rewrites := [];
  h_call := [ByVal "hNode"; ByVal "event"];
  h_reply := [Write (Val "return_value") (SizeOf "CUresult")] |}.

Definition handle_cuGraphAddEventWaitNode : handler := {|
  h_name := "cuGraphAddEventWaitNode";
  h_locals := [Zeroed "phGraphNode" "CUgraphNode";
               Uninit "hGraph" "CUgraph";
               Uninit "numDependencies" "size_t";
               NullPtr "dependencies";
               Uninit "dependencies_size" "size_t";
               Uninit "event" "CUevent"];
  h_async := false;
  h_reads := [Read (Val "phGraphNode") (SizeOf "CUgraphNode");
              Read (Val "hGraph") (SizeOf "CUgraph");
              Read (Val "numDependencies") (SizeOf "size_t");
              Let "dependencies_size" "size_t" (Mul (Load "size_t" (Val "numDependencies")) (SizeOf "CUgraphNode"));
              Alloc "dependencies" (Load "size_t" (Val "dependencies_size")) false;
              Fail (And (Not (Eq (Load "size_t" (Val "dependencies_size")) (Num 0))) (IsNull (Ref "dependencies")));
              When (Not (Eq (Load "size_t" (Val "dependencies_size")) (Num 0))) (Read (Ref "dependencies") (Load "size_t" (Val "dependencies_size")));
              Read (Val "event") (SizeOf "CUevent")];
  h_rewrites := [];
  h_call := [AddrOf "phGraphNode" [];
             ByVal "hGraph";
             UnlessZero (Mul (Load "size_t" (Val "numDependencies")) (SizeOf "CUgraphNode")) (BufPtr "dependencies");
             ByVal "numDependencies";
             ByVal "event"];
  h_reply := [Write (Val "phGraphNode") (SizeOf "CUgraphNode");
              Write (Val "return_value") (SizeOf "CUresult")] |}.

Definition handle_cuGraphEventWaitNodeGetEvent : handler := {|
  h_name := "cuGraphEventWaitNodeGetEvent";
  h_locals := [Uninit "hNode" "CUgraphNode"; Zeroed "event_out" "CUevent"];
  h_async := false;
  h_reads := [Read (Val "hNode") (SizeOf "CUgraphNode");
              Read (Val "event_out") (SizeOf "CUevent")];
  h_rewrites := [];
  h_call := [ByVal "hNode"; AddrOf "event_out" []];
  h_reply := [Write (Val "event_out") (SizeOf "CUevent");
              Write (Val "return_value") (SizeOf "CUresult")] |}.

Definition handle_cuGraphEventWaitNodeSetEvent : handler := {|
  h_name := "cuGraphEventWaitNodeSetEvent";
  h_locals := [Uninit "hNode" "CUgraphNode"; Uninit "event" "CUevent"];
  h_async := false;
  h_reads := [Read (Val "hNode") (SizeOf "CUgraphNode");
              Read (Val "event") (SizeOf "CUevent")];
  h_rewrites := [];
  h_call := [ByVal "hNode"; ByVal "event"];
  h_reply := [Write (Val "return_value") (SizeOf "CUresult")] |}.

Definition handle_cuGraphAddExternalSemaphoresSignalNode : handler := {|
  h_name := "cuGraphAddExternalSemaphoresSignalNode";
  h_locals := [Zeroed "phGraphNode" "CUgraphNode";
               Uninit "hGraph" "CUgraph";
               Uninit "numDependencies" "size_t";
               NullPtr "dependencies";
               Uninit "dependencies_size" "size_t";
               Zeroed "nodeParams" "CUDA_EXT_SEM_SIGNAL_NODE_PARAMS"];
  h_async := false;
  h_reads := [Read (Val "phGraphNode") (SizeOf "CUgraphNode");
              Read (Val "hGraph") (SizeOf "CUgraph");
              Read (Val "numDependencies") (SizeOf "size_t");
              Let "dependencies_size" "size_t" (Mul (Load "size_t" (Val "numDependencies")) (SizeOf "CUgraphNode"));
              Alloc "dependencies" (Load "size_t" (Val "dependencies_size")) false;
              Fail (And (Not (Eq (Load "size_t" (Val "dependencies_size")) (Num 0))) (IsNull (Ref "dependencies")));
              When (Not (Eq (Load "size_t" (Val "dependencies_size")) (Num 0))) (Read (Ref "dependencies") (Load "size_t" (Val "dependencies_size")));
              Read (Val "nodeParams") (SizeOf "CUDA_EXT_SEM_SIGNAL_NODE_PARAMS");
              Resize "nodeParams_extSemArray_buf" (Mul (Field "CUDA_EXT_SEM_SIGNAL_NODE_PARAMS" "numExtSems" (Val "nodeParams")) (SizeOf "*CUDA_EXT_SEM_SIGNAL_NODE_PARAMS::extSemArray"));
              When (Not (Eq (Field "CUDA_EXT_SEM_SIGNAL_NODE_PARAMS" "numExtSems" (Val "nodeParams")) (Num 0))) (Read (Ref "nodeParams_extSemArray_buf") (Mul (Field "CUDA_EXT_SEM_SIGNAL_NODE_PARAMS" "numExtSems" (Val "nodeParams")) (SizeOf "*CUDA_EXT_SEM_SIGNAL_NODE_PARAMS::extSemArray")));
              Bind "nodeParams" "extSemArray" "nodeParams_extSemArray_buf";
              Resize "nodeParams_paramsArray_buf" (Mul (Field "CUDA_EXT_SEM_SIGNAL_NODE_PARAMS" "numExtSems" (Val "nodeParams")) (SizeOf "*CUDA_EXT_SEM_SIGNAL_NODE_PARAMS::paramsArray"));
              When (Not (Eq (Field "CUDA_EXT_SEM_SIGNAL_NODE_PARAMS" "numExtSems" (Val "nodeParams")) (Num 0))) (Read (Ref "nodeParams_paramsArray_buf") (Mul (Field "CUDA_EXT_SEM_SIGNAL_NODE_PARAMS" "numExtSems" (Val "nodeParams")) (SizeOf "*CUDA_EXT_SEM_SIGNAL_NODE_PARAMS::paramsArray")));
              Bind "nodeParams" "paramsArray" "nodeParams_paramsArray_buf"];
  h_rewrites := [];
  h_call := [AddrOf "phGraphNode" [];
             ByVal "hGraph";
             UnlessZero (Mul (Load "size_t" (Val "numDependencies")) (SizeOf "CUgraphNode")) (BufPtr "dependencies");
             ByVal "numDependencies";
             AddrOf "nodeParams" ["extSemArray"; "paramsArray"]];
  h_reply := [Write (Val "phGraphNode") (SizeOf "CUgraphNode");
              Write (Val "return_value") (SizeOf "CUresult")] |}.

Definition handle_cuGraphExternalSemaphoresSignalNodeGetParams : handler := {|
  h_name := "cuGraphExternalSemaphoresSignalNodeGetParams";
  h_locals := [Uninit "hNode" "CUgraphNode";
               Zeroed "params_out" "CUDA_EXT_SEM_SIGNAL_NODE_PARAMS"];
  h_async := false;
  h_reads := [Read (Val "hNode") (SizeOf "CUgraphNode")];
  h_rewrites := [];
  h_call := [ByVal "hNode"; AddrOf "params_out" ["extSemArray"; "paramsArray"]];
  h_reply := [Write (Val "params_out") (SizeOf "CUDA_EXT_SEM_SIGNAL_NODE_PARAMS");
              Write (Sub "params_out" "extSemArray") (Mul (Field "CUDA_EXT_SEM_SIGNAL_NODE_PARAMS" "numExtSems" (Val "params_out")) (SizeOf "*CUDA_EXT_SEM_SIGNAL_NODE_PARAMS::extSemArray"));
              Write (Sub "params_out" "paramsArray") (Mul (Field "CUDA_EXT_SEM_SIGNAL_NODE_PARAMS" "numExtSems" (Val "params_out")) (SizeOf "*CUDA_EXT_SEM_SIGNAL_NODE_PARAMS::paramsArray"));
              Write (Val "return_value") (SizeOf "CUresult")] |}.

Definition handle_cuGraphExternalSemaphoresSignalNodeSetParams : handler := {|
  h_name := "cuGraphExternalSemaphoresSignalNodeSetParams";
  h_locals := [Uninit "hNode" "CUgraphNode";
               Zeroed "nodeParams" "CUDA_EXT_SEM_SIGNAL_NODE_PARAMS"];
  h_async := false;
  h_reads := [Read (Val "hNode") (SizeOf "CUgraphNode");
              Read (Val "nodeParams") (SizeOf "CUDA_EXT_SEM_SIGNAL_NODE_PARAMS");
              Resize "nodeParams_extSemArray_buf" (Mul (Field "CUDA_EXT_SEM_SIGNAL_NODE_PARAMS" "numExtSems" (Val "nodeParams")) (SizeOf "*CUDA_EXT_SEM_SIGNAL_NODE_PARAMS::extSemArray"));
              When (Not (Eq (Field "CUDA_EXT_SEM_SIGNAL_NODE_PARAMS" "numExtSems" (Val "nodeParams")) (Num 0))) (Read (Ref "nodeParams_extSemArray_buf") (Mul (Field "CUDA_EXT_SEM_SIGNAL_NODE_PARAMS" "numExtSems" (Val "nodeParams")) (SizeOf "*CUDA_EXT_SEM_SIGNAL_NODE_PARAMS::extSemArray")));
              Bind "nodeParams" "extSemArray" "nodeParams_extSemArray_buf";
              Resize "nodeParams_paramsArray_buf" (Mul (Field "CUDA_EXT_SEM_SIGNAL_NODE_PARAMS" "numExtSems" (Val "nodeParams")) (SizeOf "*CUDA_EXT_SEM_SIGNAL_NODE_PARAMS::paramsArray"));
              When (Not (Eq (Field "CUDA_EXT_SEM_SIGNAL_NODE_PARAMS" "numExtSems" (Val "nodeParams")) (Num 0))) (Read (Ref "nodeParams_paramsArray_buf") (Mul (Field "CUDA_EXT_SEM_SIGNAL_NODE_PARAMS" "numExtSems" (Val "nodeParams")) (SizeOf "*CUDA_EXT_SEM_SIGNAL_NODE_PARAMS::paramsArray")));
              Bind "nodeParams" "paramsArray" "nodeParams_paramsArray_buf"];
  h_rewrites := [];
  h_call := [ByVal "hNode"; AddrOf "nodeParams" ["extSemArray"; "paramsArray"]];
  h_reply := [Write (Val "return_value") (SizeOf "CUresult")] |}.

Definition handle_cuGraphAddExternalSemaphoresWaitNode : handler := {|
  h_name := "cuGraphAddExternalSemaphoresWaitNode";
  h_locals := [Zeroed "phGraphNode" "CUgraphNode";
               Uninit "hGraph" "CUgraph";
               Uninit "numDependencies" "size_t";
               NullPtr "dependencies";
               Uninit "dependencies_size" "size_t";
               Zeroed "nodeParams" "CUDA_EXT_SEM_WAIT_NODE_PARAMS"];
  h_async := false;
  h_reads := [Read (Val "phGraphNode") (SizeOf "CUgraphNode");
              Read (Val "hGraph") (SizeOf "CUgraph");
              Read (Val "numDependencies") (SizeOf "size_t");
              Let "dependencies_size" "size_t" (Mul (Load "size_t" (Val "numDependencies")) (SizeOf "CUgraphNode"));
              Alloc "dependencies" (Load "size_t" (Val "dependencies_size")) false;
              Fail (And (Not (Eq (Load "size_t" (Val "dependencies_size")) (Num 0))) (IsNull (Ref "dependencies")));
              When (Not (Eq (Load "size_t" (Val "dependencies_size")) (Num 0))) (Read (Ref "dependencies") (Load "size_t" (Val "dependencies_size")));
              Read (Val "nodeParams") (SizeOf "CUDA_EXT_SEM_WAIT_NODE_PARAMS");
              Resize "nodeParams_extSemArray_buf" (Mul (Field "CUDA_EXT_SEM_WAIT_NODE_PARAMS" "numExtSems" (Val "nodeParams")) (SizeOf "*CUDA_EXT_SEM_WAIT_NODE_PARAMS::extSemArray"));
              When (Not (Eq (Field "CUDA_EXT_SEM_WAIT_NODE_PARAMS" "numExtSems" (Val "nodeParams")) (Num 0))) (Read (Ref "nodeParams_extSemArray_buf") (Mul (Field "CUDA_EXT_SEM_WAIT_NODE_PARAMS" "numExtSems" (Val "nodeParams")) (SizeOf "*CUDA_EXT_SEM_WAIT_NODE_PARAMS::extSemArray")));
              Bind "nodeParams" "extSemArray" "nodeParams_extSemArray_buf";
              Resize "nodeParams_paramsArray_buf" (Mul (Field "CUDA_EXT_SEM_WAIT_NODE_PARAMS" "numExtSems" (Val "nodeParams")) (SizeOf "*CUDA_EXT_SEM_WAIT_NODE_PARAMS::paramsArray"));
              When (Not (Eq (Field "CUDA_EXT_SEM_WAIT_NODE_PARAMS" "numExtSems" (Val "nodeParams")) (Num 0))) (Read (Ref "nodeParams_paramsArray_buf") (Mul (Field "CUDA_EXT_SEM_WAIT_NODE_PARAMS" "numExtSems" (Val "nodeParams")) (SizeOf "*CUDA_EXT_SEM_WAIT_NODE_PARAMS::paramsArray")));
              Bind "nodeParams" "paramsArray" "nodeParams_paramsArray_buf"];
  h_rewrites := [];
  h_call := [AddrOf "phGraphNode" [];
             ByVal "hGraph";
             UnlessZero (Mul (Load "size_t" (Val "numDependencies")) (SizeOf "CUgraphNode")) (BufPtr "dependencies");
             ByVal "numDependencies";
             AddrOf "nodeParams" ["extSemArray"; "paramsArray"]];
  h_reply := [Write (Val "phGraphNode") (SizeOf "CUgraphNode");
              Write (Val "return_value") (SizeOf "CUresult")] |}.

Definition handle_cuGraphExternalSemaphoresWaitNodeGetParams : handler := {|
  h_name := "cuGraphExternalSemaphoresWaitNodeGetParams";
  h_locals := [Uninit "hNode" "CUgraphNode";
               Zeroed "params_out" "CUDA_EXT_SEM_WAIT_NODE_PARAMS"];
  h_async := false;
  h_reads := [Read (Val "hNode") (SizeOf "CUgraphNode")];
  h_rewrites := [];
  h_call := [ByVal "hNode"; AddrOf "params_out" ["extSemArray"; "paramsArray"]];
  h_reply := [Write (Val "params_out") (SizeOf "CUDA_EXT_SEM_WAIT_NODE_PARAMS");
              Write (Sub "params_out" "extSemArray") (Mul (Field "CUDA_EXT_SEM_WAIT_NODE_PARAMS" "numExtSems" (Val "params_out")) (SizeOf "*CUDA_EXT_SEM_WAIT_NODE_PARAMS::extSemArray"));
              Write (Sub "params_out" "paramsArray") (Mul (Field "CUDA_EXT_SEM_WAIT_NODE_PARAMS" "numExtSems" (Val "params_out")) (SizeOf "*CUDA_EXT_SEM_WAIT_NODE_PARAMS::paramsArray"));
              Write (Val "return_value") (SizeOf "CUresult")] |}.

Definition handle_cuGraphExternalSemaphoresWaitNodeSetParams : handler := {|
  h_name := "cuGraphExternalSemaphoresWaitNodeSetParams";
  h_locals := [Uninit "hNode" "CUgraphNode";
               Zeroed "nodeParams" "CUDA_EXT_SEM_WAIT_NODE_PARAMS"];
  h_async := false;
  h_reads := [Read (Val "hNode") (SizeOf "CUgraphNode");
              Read (Val "nodeParams") (SizeOf "CUDA_EXT_SEM_WAIT_NODE_PARAMS");
              Resize "nodeParams_extSemArray_buf" (Mul (Field "CUDA_EXT_SEM_WAIT_NODE_PARAMS" "numExtSems" (Val "nodeParams")) (SizeOf "*CUDA_EXT_SEM_WAIT_NODE_PARAMS::extSemArray"));
              When (Not (Eq (Field "CUDA_EXT_SEM_WAIT_NODE_PARAMS" "numExtSems" (Val "nodeParams")) (Num 0))) (Read (Ref "nodeParams_extSemArray_buf") (Mul (Field "CUDA_EXT_SEM_WAIT_NODE_PARAMS" "numExtSems" (Val "nodeParams")) (SizeOf "*CUDA_EXT_SEM_WAIT_NODE_PARAMS::extSemArray")));
              Bind "nodeParams" "extSemArray" "nodeParams_extSemArray_buf";
              Resize "nodeParams_paramsArray_buf" (Mul (Field "CUDA_EXT_SEM_WAIT_NODE_PARAMS" "numExtSems" (Val "nodeParams")) (SizeOf "*CUDA_EXT_SEM_WAIT_NODE_PARAMS::paramsArray"));
              When (Not (Eq (Field "CUDA_EXT_SEM_WAIT_NODE_PARAMS" "numExtSems" (Val "nodeParams")) (Num 0))) (Read (Ref "nodeParams_paramsArray_buf") (Mul (Field "CUDA_EXT_SEM_WAIT_NODE_PARAMS" "numExtSems" (Val "nodeParams")) (SizeOf "*CUDA_EXT_SEM_WAIT_NODE_PARAMS::paramsArray")));
              Bind "nodeParams" "paramsArray" "nodeParams_paramsArray_buf"];
  h_rewrites := [];
  h_call := [ByVal "hNode"; AddrOf "nodeParams" ["extSemArray"; "paramsArray"]];
  h_reply := [Write (Val "return_value") (SizeOf "CUresult")] |}.

Definition handle_cuGraphAddBatchMemOpNode : handler := {|
  h_name := "cuGraphAddBatchMemOpNode";
  h_locals := [Zeroed "phGraphNode" "CUgraphNode";
               Uninit "hGraph" "CUgraph";
               Uninit "numDependencies" "size_t";
               NullPtr "dependencies";
               Uninit "dependencies_size" "size_t";
               Zeroed "nodeParams" "CUDA_BATCH_MEM_OP_NODE_PARAMS"];
  h_async := false;
  h_reads := [Read (Val "phGraphNode") (SizeOf "CUgraphNode");
              Read (Val "hGraph") (SizeOf "CUgraph");
              Read (Val "numDependencies") (SizeOf "size_t");
              Let "dependencies_size" "size_t" (Mul (Load "size_t" (Val "numDependencies")) (SizeOf "CUgraphNode"));
              Alloc "dependencies" (Load "size_t" (Val "dependencies_size")) false;
              Fail (And (Not (Eq (Load "size_t" (Val "dependencies_size")) (Num 0))) (IsNull (Ref "dependencies")));
              When (Not (Eq (Load "size_t" (Val "dependencies_size")) (Num 0))) (Read (Ref "dependencies") (Load "size_t" (Val "dependencies_size")));
              Read (Val "nodeParams") (SizeOf "CUDA_BATCH_MEM_OP_NODE_PARAMS");
              Resize "nodeParams_paramArray_buf" (Mul (Field "CUDA_BATCH_MEM_OP_NODE_PARAMS" "count" (Val "nodeParams")) (SizeOf "*CUDA_BATCH_MEM_OP_NODE_PARAMS::paramArray"));
              When (Not (Eq (Field "CUDA_BATCH_MEM_OP_NODE_PARAMS" "count" (Val "nodeParams")) (Num 0))) (Read (Ref "nodeParams_paramArray_buf") (Mul (Field "CUDA_BATCH_MEM_OP_NODE_PARAMS" "count" (Val "nodeParams")) (SizeOf "*CUDA_BATCH_MEM_OP_NODE_PARAMS::paramArray")));
              Bind "nodeParams" "paramArray" "nodeParams_paramArray_buf"];
  h_rewrites := [];
  h_call := [AddrOf "phGraphNode" [];
             ByVal "hGraph";
             UnlessZero (Mul (Load "size_t" (Val "numDependencies")) (SizeOf "CUgraphNode")) (BufPtr "dependencies");
             ByVal "numDependencies";
             AddrOf "nodeParams" ["paramArray"]];
  h_reply := [Write (Val "phGraphNode") (SizeOf "CUgraphNode");
              Write (Val "return_value") (SizeOf "CUresult")] |}.

Definition handle_cuGraphBatchMemOpNodeGetParams : handler := {|
  h_name := "cuGraphBatchMemOpNodeGetParams";
  h_locals := [Uninit "hNode" "CUgraphNode";
               Zeroed "nodeParams_out" "CUDA_BATCH_MEM_OP_NODE_PARAMS"];
  h_async := false;
  h_reads := [Read (Val "hNode") (SizeOf "CUgraphNode")];
  h_rewrites := [];
  h_call := [ByVal "hNode"; AddrOf "nodeParams_out" ["paramArray"]];
  h_reply := [Write (Val "nodeParams_out") (SizeOf "CUDA_BATCH_MEM_OP_NODE_PARAMS");
              Write (Sub "nodeParams_out" "paramArray") (Mul (Field "CUDA_BATCH_MEM_OP_NODE_PARAMS" "count" (Val "nodeParams_out")) (SizeOf "*CUDA_BATCH_MEM_OP_NODE_PARAMS::paramArray"));
              Write (Val "return_value") (SizeOf "CUresult")] |}.

Definition handle_cuGraphBatchMemOpNodeSetParams : handler := {|
  h_name := "cuGraphBatchMemOpNodeSetParams";
  h_locals := [Uninit "hNode" "CUgraphNode";
               Zeroed "nodeParams" "CUDA_BATCH_MEM_OP_NODE_PARAMS"];
  h_async := false;
  h_reads := [Read (Val "hNode") (SizeOf "CUgraphNode");
              Read (Val "nodeParams") (SizeOf "CUDA_BATCH_MEM_OP_NODE_PARAMS");
              Resize "nodeParams_paramArray_buf" (Mul (Field "CUDA_BATCH_MEM_OP_NODE_PARAMS" "count" (Val "nodeParams")) (SizeOf "*CUDA_BATCH_MEM_OP_NODE_PARAMS::paramArray"));
              When (Not (Eq (Field "CUDA_BATCH_MEM_OP_NODE_PARAMS" "count" (Val "nodeParams")) (Num 0))) (Read (Ref "nodeParams_paramArray_buf") (Mul (Field "CUDA_BATCH_MEM_OP_NODE_PARAMS" "count" (Val "nodeParams")) (SizeOf "*CUDA_BATCH_MEM_OP_NODE_PARAMS::paramArray")));
              Bind "nodeParams" "paramArray" "nodeParams_paramArray_buf"];
  h_rewrites := [];
  h_call := [ByVal "hNode"; AddrOf "nodeParams" ["paramArray"]];
  h_reply := [Write (Val "return_value") (SizeOf "CUresult")] |}.

Definition handle_cuGraphExecBatchMemOpNodeSetParams : handler := {|
  h_name := "cuGraphExecBatchMemOpNodeSetParams";
  h_locals := [Uninit "hGraphExec" "CUgraphExec";
               Uninit "hNode" "CUgraphNode";
               Zeroed "nodeParams" "CUDA_BATCH_MEM_OP_NODE_PARAMS"];
  h_async := false;
  h_reads := [Read (Val "hGraphExec") (SizeOf "CUgraphExec");
              Read (Val "hNode") (SizeOf "CUgraphNode");
              Read (Val "nodeParams") (SizeOf "CUDA_BATCH_MEM_OP_NODE_PARAMS");
              Resize "nodeParams_paramArray_buf" (Mul (Field "CUDA_BATCH_MEM_OP_NODE_PARAMS" "count" (Val "nodeParams")) (SizeOf "*CUDA_BATCH_MEM_OP_NODE_PARAMS::paramArray"));
              When (Not (Eq (Field "CUDA_BATCH_MEM_OP_NODE_PARAMS" "count" (Val "nodeParams")) (Num 0))) (Read (Ref "nodeParams_paramArray_buf") (Mul (Field "CUDA_BATCH_MEM_OP_NODE_PARAMS" "count" (Val "nodeParams")) (SizeOf "*CUDA_BATCH_MEM_OP_NODE_PARAMS::paramArray")));
              Bind "nodeParams" "paramArray" "nodeParams_paramArray_buf"];
  h_rewrites := [("hNode", "lupine_htod_graph_exec_node", "hGraphExec", "hNode")];
  h_call := [ByVal "hGraphExec"; ByVal "hNode"; AddrOf "nodeParams" ["paramArray"]];
  h_reply := [Write (Val "return_value") (SizeOf "CUresult")] |}.

Definition handle_cuGraphAddMemAllocNode : handler := {|
  h_name := "cuGraphAddMemAllocNode";
  h_locals := [Zeroed "phGraphNode" "CUgraphNode";
               Uninit "hGraph" "CUgraph";
               Uninit "numDependencies" "size_t";
               NullPtr "dependencies";
               Uninit "dependencies_size" "size_t";
               Zeroed "nodeParams" "CUDA_MEM_ALLOC_NODE_PARAMS"];
  h_async := false;
  h_reads := [Read (Val "phGraphNode") (SizeOf "CUgraphNode");
              Read (Val "hGraph") (SizeOf "CUgraph");
              Read (Val "numDependencies") (SizeOf "size_t");
              Let "dependencies_size" "size_t" (Mul (Load "size_t" (Val "numDependencies")) (SizeOf "CUgraphNode"));
              Alloc "dependencies" (Load "size_t" (Val "dependencies_size")) false;
              Fail (And (Not (Eq (Load "size_t" (Val "dependencies_size")) (Num 0))) (IsNull (Ref "dependencies")));
              When (Not (Eq (Load "size_t" (Val "dependencies_size")) (Num 0))) (Read (Ref "dependencies") (Load "size_t" (Val "dependencies_size")));
              Read (Val "nodeParams") (SizeOf "CUDA_MEM_ALLOC_NODE_PARAMS");
              Resize "nodeParams_accessDescs_buf" (Mul (Field "CUDA_MEM_ALLOC_NODE_PARAMS" "accessDescCount" (Val "nodeParams")) (SizeOf "*CUDA_MEM_ALLOC_NODE_PARAMS::accessDescs"));
              When (Not (Eq (Field "CUDA_MEM_ALLOC_NODE_PARAMS" "accessDescCount" (Val "nodeParams")) (Num 0))) (Read (Ref "nodeParams_accessDescs_buf") (Mul (Field "CUDA_MEM_ALLOC_NODE_PARAMS" "accessDescCount" (Val "nodeParams")) (SizeOf "*CUDA_MEM_ALLOC_NODE_PARAMS::accessDescs")));
              Bind "nodeParams" "accessDescs" "nodeParams_accessDescs_buf"];
  h_rewrites := [];
  h_call := [AddrOf "phGraphNode" [];
             ByVal "hGraph";
             UnlessZero (Mul (Load "size_t" (Val "numDependencies")) (SizeOf "CUgraphNode")) (BufPtr "dependencies");
             ByVal "numDependencies";
             AddrOf "nodeParams" ["accessDescs"]];
  h_reply := [Write (Val "phGraphNode") (SizeOf "CUgraphNode");
              Write (Val "nodeParams") (SizeOf "CUDA_MEM_ALLOC_NODE_PARAMS");
              Write (Val "return_value") (SizeOf "CUresult")] |}.

Definition handle_cuGraphMemAllocNodeGetParams : handler := {|
  h_name := "cuGraphMemAllocNodeGetParams";
  h_locals := [Uninit "hNode" "CUgraphNode";
               Zeroed "params_out" "CUDA_MEM_ALLOC_NODE_PARAMS"];
  h_async := false;
  h_reads := [Read (Val "hNode") (SizeOf "CUgraphNode")];
  h_rewrites := [];
  h_call := [ByVal "hNode"; AddrOf "params_out" ["accessDescs"]];
  h_reply := [Write (Val "params_out") (SizeOf "CUDA_MEM_ALLOC_NODE_PARAMS");
              Write (Sub "params_out" "accessDescs") (Mul (Field "CUDA_MEM_ALLOC_NODE_PARAMS" "accessDescCount" (Val "params_out")) (SizeOf "*CUDA_MEM_ALLOC_NODE_PARAMS::accessDescs"));
              Write (Val "return_value") (SizeOf "CUresult")] |}.

Definition handle_cuGraphAddMemFreeNode : handler := {|
  h_name := "cuGraphAddMemFreeNode";
  h_locals := [Zeroed "phGraphNode" "CUgraphNode";
               Uninit "hGraph" "CUgraph";
               Uninit "numDependencies" "size_t";
               NullPtr "dependencies";
               Uninit "dependencies_size" "size_t";
               Uninit "dptr" "CUdeviceptr"];
  h_async := false;
  h_reads := [Read (Val "phGraphNode") (SizeOf "CUgraphNode");
              Read (Val "hGraph") (SizeOf "CUgraph");
              Read (Val "numDependencies") (SizeOf "size_t");
              Let "dependencies_size" "size_t" (Mul (Load "size_t" (Val "numDependencies")) (SizeOf "CUgraphNode"));
              Alloc "dependencies" (Load "size_t" (Val "dependencies_size")) false;
              Fail (And (Not (Eq (Load "size_t" (Val "dependencies_size")) (Num 0))) (IsNull (Ref "dependencies")));
              When (Not (Eq (Load "size_t" (Val "dependencies_size")) (Num 0))) (Read (Ref "dependencies") (Load "size_t" (Val "dependencies_size")));
              Read (Val "dptr") (SizeOf "CUdeviceptr")];
  h_rewrites := [];
  h_call := [AddrOf "phGraphNode" [];
             ByVal "hGraph";
             UnlessZero (Mul (Load "size_t" (Val "numDependencies")) (SizeOf "CUgraphNode")) (BufPtr "dependencies");
             ByVal "numDependencies";
             ByVal "dptr"];
  h_reply := [Write (Val "phGraphNode") (SizeOf "CUgraphNode");
              Write (Val "return_value") (SizeOf "CUresult")] |}.

Definition handle_cuGraphMemFreeNodeGetParams : handler := {|
  h_name := "cuGraphMemFreeNodeGetParams";
  h_locals := [Uninit "hNode" "CUgraphNode"; Zeroed "dptr_out" "CUdeviceptr"];
  h_async := false;
  h_reads := [Read (Val "hNode") (SizeOf "CUgraphNode");
              Read (Val "dptr_out") (SizeOf "CUdeviceptr")];
  h_rewrites := [];
  h_call := [ByVal "hNode"; AddrOf "dptr_out" []];
  h_reply := [Write (Val "dptr_out") (SizeOf "CUdeviceptr");
              Write (Val "return_value") (SizeOf "CUresult")] |}.

Definition handle_cuDeviceGraphMemTrim : handler := {|
  h_name := "cuDeviceGraphMemTrim";
  h_locals := [Uninit "device" "CUdevice"];
  h_async := false;
  h_reads := [Read (Val "device") (SizeOf "CUdevice")];
  h_rewrites := [];
  h_call := [ByVal "device"];
  h_reply := [Write (Val "return_value") (SizeOf "CUresult")] |}.

Definition handle_cuGraphNodeFindInClone : handler := {|
  h_name := "cuGraphNodeFindInClone";
  h_locals := [Zeroed "phNode" "CUgraphNode";
               Uninit "hOriginalNode" "CUgraphNode";
               Uninit "hClonedGraph" "CUgraph"];
  h_async := false;
  h_reads := [Read (Val "phNode") (SizeOf "CUgraphNode");
              Read (Val "hOriginalNode") (SizeOf "CUgraphNode");
              Read (Val "hClonedGraph") (SizeOf "CUgraph")];
  h_rewrites := [];
  h_call := [AddrOf "phNode" []; ByVal "hOriginalNode"; ByVal "hClonedGraph"];
  h_reply := [Write (Val "phNode") (SizeOf "CUgraphNode");
              Write (Val "return_value") (SizeOf "CUresult")] |}.

Definition handle_cuGraphNodeGetType : handler := {|
  h_name := "cuGraphNodeGetType";
  h_locals := [Uninit "hNode" "CUgraphNode"; Zeroed "type" "CUgraphNodeType"];
  h_async := false;
  h_reads := [Read (Val "hNode") (SizeOf "CUgraphNode");
              Read (Val "type") (SizeOf "CUgraphNodeType")];
  h_rewrites := [];
  h_call := [ByVal "hNode"; AddrOf "type" []];
  h_reply := [Write (Val "type") (SizeOf "CUgraphNodeType");
              Write (Val "return_value") (SizeOf "CUresult")] |}.

Definition handle_cuGraphNodeGetContainingGraph : handler := {|
  h_name := "cuGraphNodeGetContainingGraph";
  h_locals := [Uninit "hNode" "CUgraphNode"; Zeroed "phGraph" "CUgraph"];
  h_async := false;
  h_reads := [Read (Val "hNode") (SizeOf "CUgraphNode")];
  h_rewrites := [];
  h_call := [ByVal "hNode"; AddrOf "phGraph" []];
  h_reply := [Write (Val "phGraph") (SizeOf "CUgraph");
              Write (Val "return_value") (SizeOf "CUresult")] |}.

Definition handle_cuGraphNodeGetLocalId : handler := {|
  h_name := "cuGraphNodeGetLocalId";
  h_locals := [Uninit "hNode" "CUgraphNode"; Zeroed "nodeId" "unsigned int"];
  h_async := false;
  h_reads := [Read (Val "hNode") (SizeOf "CUgraphNode")];
  h_rewrites := [];
  h_call := [ByVal "hNode"; AddrOf "nodeId" []];
  h_reply := [Write (Val "nodeId") (SizeOf "unsigned int");
              Write (Val "return_value") (SizeOf "CUresult")] |}.

Definition handle_cuGraphNodeGetToolsId : handler := {|
  h_name := "cuGraphNodeGetToolsId";
  h_locals := [Uninit "hNode" "CUgraphNode"; Zeroed "toolsNodeId" "unsigned long long"];
  h_async := false;
  h_reads := [Read (Val "hNode") (SizeOf "CUgraphNode")];
  h_rewrites := [];
  h_call := [ByVal "hNode"; AddrOf "toolsNodeId" []];
  h_reply := [Write (Val "toolsNodeId") (SizeOf "unsigned long long");
              Write (Val "return_value") (SizeOf "CUresult")] |}.

Definition handle_cuGraphGetId : handler := {|
  h_name := "cuGraphGetId";
  h_locals := [Uninit "hGraph" "CUgraph"; Zeroed "graphId" "unsigned int"];
  h_async := false;
  h_reads := [Read (Val "hGraph") (SizeOf "CUgraph")];
  h_rewrites := [];
  h_call := [ByVal "hGraph"; AddrOf "graphId" []];
  h_reply := [Write (Val "graphId") (SizeOf "unsigned int");
              Write (Val "return_value") (SizeOf "CUresult")] |}.

Definition handle_cuGraphExecGetId : handler := {|
  h_name := "cuGraphExecGetId";
  h_locals := [Uninit "hGraphExec" "CUgraphExec"; Zeroed "graphId" "unsigned int"];
  h_async := false;
  h_reads := [Read (Val "hGraphExec") (SizeOf "CUgraphExec")];
  h_rewrites := [];
  h_call := [ByVal "hGraphExec"; AddrOf "graphId" []];
  h_reply := [Write (Val "graphId") (SizeOf "unsigned int");
              Write (Val "return_value") (SizeOf "CUresult")] |}.

Definition handle_cuGraphGetNodes : handler := {|
  h_name := "cuGraphGetNodes";
  h_locals := [Uninit "hGraph" "CUgraph";
               Zeroed "numNodes" "size_t";
               Zeroed "numNodes_requested" "size_t";
               NullPtr "nodes";
               Zeroed "nodes_null" "uint8_t"];
  h_async := false;
  h_reads := [Read (Val "hGraph") (SizeOf "CUgraph");
              Read (Val "numNodes_requested") (SizeOf "size_t");
              Let "numNodes" "size_t" (Load "size_t" (Val "numNodes_requested"));
              Read (Val "nodes_null") (SizeOf "uint8_t");
              When (Not (Load "uint8_t" (Val "nodes_null"))) (Calloc "nodes" (Cond (Not (Eq (Load "size_t" (Val "numNodes_requested")) (Num 0))) (Load "size_t" (Val "numNodes_requested")) (Num 1)) (SizeOf "CUgraphNode"));
              Fail (And (Not (Load "uint8_t" (Val "nodes_null"))) (IsNull (Ref "nodes")))];
  h_rewrites := [];
  h_call := [ByVal "hGraph"; BufPtr "nodes"; AddrOf "numNodes" []];
  h_reply := [Write (Val "numNodes") (SizeOf "size_t");
              When (Not (Load "uint8_t" (Val "nodes_null"))) (Write (Ref "nodes") (Mul (Cond (Lt (Load "size_t" (Val "numNodes")) (Load "size_t" (Val "numNodes_requested"))) (Load "size_t" (Val "numNodes")) (Load "size_t" (Val "numNodes_requested"))) (SizeOf "CUgraphNode")));
              Write (Val "return_value") (SizeOf "CUresult")] |}.

Definition handle_cuGraphGetRootNodes : handler := {|
  h_name := "cuGraphGetRootNodes";
  h_locals := [Uninit "hGraph" "CUgraph";
               Zeroed "numRootNodes" "size_t";
               Zeroed "numRootNodes_requested" "size_t";
               NullPtr "rootNodes";
               Zeroed "rootNodes_null" "uint8_t"];
  h_async := false;
  h_reads := [Read (Val "hGraph") (SizeOf "CUgraph");
              Read (Val "numRootNodes_requested") (SizeOf "size_t");
              Let "numRootNodes" "size_t" (Load "size_t" (Val "numRootNodes_requested"));
              Read (Val "rootNodes_null") (SizeOf "uint8_t");
              When (Not (Load "uint8_t" (Val "rootNodes_null"))) (Calloc "rootNodes" (Cond (Not (Eq (Load "size_t" (Val "numRootNodes_requested")) (Num 0))) (Load "size_t" (Val "numRootNodes_requested")) (Num 1)) (SizeOf "CUgraphNode"));
              Fail (And (Not (Load "uint8_t" (Val "rootNodes_null"))) (IsNull (Ref "rootNodes")))];
  h_rewrites := [];
  h_call := [ByVal "hGraph"; BufPtr "rootNodes"; AddrOf "numRootNodes" []];
  h_reply := [Write (Val "numRootNodes") (SizeOf "size_t");
              When (Not (Load "uint8_t" (Val "rootNodes_null"))) (Write (Ref "rootNodes") (Mul (Cond (Lt (Load "size_t" (Val "numRootNodes")) (Load "size_t" (Val "numRootNodes_requested"))) (Load "size_t" (Val "numRootNodes")) (Load "size_t" (Val "numRootNodes_requested"))) (SizeOf "CUgraphNode")));
              Write (Val "return_value") (SizeOf "CUresult")] |}.

Definition handle_cuGraphGetEdges_v2 : handler := {|
  h_name := "cuGraphGetEdges_v2";
  h_locals := [Uninit "hGraph" "CUgraph";
               Zeroed "numEdges" "size_t";
               Zeroed "numEdges_requested" "size_t";
               NullPtr "from";
               Zeroed "from_null" "uint8_t";
               NullPtr "to";
               Zeroed "to_null" "uint8_t";
               NullPtr "edgeData";
               Zeroed "edgeData_null" "uint8_t"];
  h_async := false;
  h_reads := [Read (Val "hGraph") (SizeOf "CUgraph");
              Read (Val "numEdges_requested") (SizeOf "size_t");
              Let "numEdges" "size_t" (Load "size_t" (Val "numEdges_requested"));
              Read (Val "from_null") (SizeOf "uint8_t");
              When (Not (Load "uint8_t" (Val "from_null"))) (Calloc "from" (Cond (Not (Eq (Load "size_t" (Val "numEdges_requested")) (Num 0))) (Load "size_t" (Val "numEdges_requested")) (Num 1)) (SizeOf "CUgraphNode"));
              Fail (And (Not (Load "uint8_t" (Val "from_null"))) (IsNull (Ref "from")));
              Read (Val "to_null") (SizeOf "uint8_t");
              When (Not (Load "uint8_t" (Val "to_null"))) (Calloc "to" (Cond (Not (Eq (Load "size_t" (Val "numEdges_requested")) (Num 0))) (Load "size_t" (Val "numEdges_requested")) (Num 1)) (SizeOf "CUgraphNode"));
              Fail (And (Not (Load "uint8_t" (Val "to_null"))) (IsNull (Ref "to")));
              Read (Val "edgeData_null") (SizeOf "uint8_t");
              When (Not (Load "uint8_t" (Val "edgeData_null"))) (Calloc "edgeData" (Cond (Not (Eq (Load "size_t" (Val "numEdges_requested")) (Num 0))) (Load "size_t" (Val "numEdges_requested")) (Num 1)) (SizeOf "CUgraphEdgeData"));
              Fail (And (Not (Load "uint8_t" (Val "edgeData_null"))) (IsNull (Ref "edgeData")))];
  h_rewrites := [];
  h_call := [ByVal "hGraph";
             BufPtr "from";
             BufPtr "to";
             BufPtr "edgeData";
             AddrOf "numEdges" []];
  h_reply := [Write (Val "numEdges") (SizeOf "size_t");
              When (Not (Load "uint8_t" (Val "from_null"))) (Write (Ref "from") (Mul (Cond (Lt (Load "size_t" (Val "numEdges")) (Load "size_t" (Val "numEdges_requested"))) (Load "size_t" (Val "numEdges")) (Load "size_t" (Val "numEdges_requested"))) (SizeOf "CUgraphNode")));
              When (Not (Load "uint8_t" (Val "to_null"))) (Write (Ref "to") (Mul (Cond (Lt (Load "size_t" (Val "numEdges")) (Load "size_t" (Val "numEdges_requested"))) (Load "size_t" (Val "numEdges")) (Load "size_t" (Val "numEdges_requested"))) (SizeOf "CUgraphNode")));
              When (Not (Load "uint8_t" (Val "edgeData_null"))) (Write (Ref "edgeData") (Mul (Cond (Lt (Load "size_t" (Val "numEdges")) (Load "size_t" (Val "numEdges_requested"))) (Load "size_t" (Val "numEdges")) (Load "size_t" (Val "numEdges_requested"))) (SizeOf "CUgraphEdgeData")));
              Write (Val "return_value") (SizeOf "CUresult")] |}.

Definition handle_cuGraphNodeGetDependencies_v2 : handler := {|
  h_name := "cuGraphNodeGetDependencies_v2";
  h_locals := [Uninit "hNode" "CUgraphNode";
               Zeroed "numDependencies" "size_t";
               Zeroed "numDependencies_requested" "size_t";
               NullPtr "dependencies";
               Zeroed "dependencies_null" "uint8_t";
               NullPtr "edgeData";
               Zeroed "edgeData_null" "uint8_t"];
  h_async := false;
  h_reads := [Read (Val "hNode") (SizeOf "CUgraphNode");
              Read (Val "numDependencies_requested") (SizeOf "size_t");
              Let "numDependencies" "size_t" (Load "size_t" (Val "numDependencies_requested"));
              Read (Val "dependencies_null") (SizeOf "uint8_t");
              When (Not (Load "uint8_t" (Val "dependencies_null"))) (Calloc "dependencies" (Cond (Not (Eq (Load "size_t" (Val "numDependencies_requested")) (Num 0))) (Load "size_t" (Val "numDependencies_requested")) (Num 1)) (SizeOf "CUgraphNode"));
              Fail (And (Not (Load "uint8_t" (Val "dependencies_null"))) (IsNull (Ref "dependencies")));
              Read (Val "edgeData_null") (SizeOf "uint8_t");
              When (Not (Load "uint8_t" (Val "edgeData_null"))) (Calloc "edgeData" (Cond (Not (Eq (Load "size_t" (Val "numDependencies_requested")) (Num 0))) (Load "size_t" (Val "numDependencies_requested")) (Num 1)) (SizeOf "CUgraphEdgeData"));
              Fail (And (Not (Load "uint8_t" (Val "edgeData_null"))) (IsNull (Ref "edgeData")))];
  h_rewrites := [];
  h_call := [ByVal "hNode";
             BufPtr "dependencies";
             BufPtr "edgeData";
             AddrOf "numDependencies" []];
  h_reply := [Write (Val "numDependencies") (SizeOf "size_t");
              When (Not (Load "uint8_t" (Val "dependencies_null"))) (Write (Ref "dependencies") (Mul (Cond (Lt (Load "size_t" (Val "numDependencies")) (Load "size_t" (Val "numDependencies_requested"))) (Load "size_t" (Val "numDependencies")) (Load "size_t" (Val "numDependencies_requested"))) (SizeOf "CUgraphNode")));
              When (Not (Load "uint8_t" (Val "edgeData_null"))) (Write (Ref "edgeData") (Mul (Cond (Lt (Load "size_t" (Val "numDependencies")) (Load "size_t" (Val "numDependencies_requested"))) (Load "size_t" (Val "numDependencies")) (Load "size_t" (Val "numDependencies_requested"))) (SizeOf "CUgraphEdgeData")));
              Write (Val "return_value") (SizeOf "CUresult")] |}.

Definition handle_cuGraphNodeGetDependentNodes_v2 : handler := {|
  h_name := "cuGraphNodeGetDependentNodes_v2";
  h_locals := [Uninit "hNode" "CUgraphNode";
               Zeroed "numDependentNodes" "size_t";
               Zeroed "numDependentNodes_requested" "size_t";
               NullPtr "dependentNodes";
               Zeroed "dependentNodes_null" "uint8_t";
               NullPtr "edgeData";
               Zeroed "edgeData_null" "uint8_t"];
  h_async := false;
  h_reads := [Read (Val "hNode") (SizeOf "CUgraphNode");
              Read (Val "numDependentNodes_requested") (SizeOf "size_t");
              Let "numDependentNodes" "size_t" (Load "size_t" (Val "numDependentNodes_requested"));
              Read (Val "dependentNodes_null") (SizeOf "uint8_t");
              When (Not (Load "uint8_t" (Val "dependentNodes_null"))) (Calloc "dependentNodes" (Cond (Not (Eq (Load "size_t" (Val "numDependentNodes_requested")) (Num 0))) (Load "size_t" (Val "numDependentNodes_requested")) (Num 1)) (SizeOf "CUgraphNode"));
              Fail (And (Not (Load "uint8_t" (Val "dependentNodes_null"))) (IsNull (Ref "dependentNodes")));
              Read (Val "edgeData_null") (SizeOf "uint8_t");
              When (Not (Load "uint8_t" (Val "edgeData_null"))) (Calloc "edgeData" (Cond (Not (Eq (Load "size_t" (Val "numDependentNodes_requested")) (Num 0))) (Load "size_t" (Val "numDependentNodes_requested")) (Num 1)) (SizeOf "CUgraphEdgeData"));
              Fail (And (Not (Load "uint8_t" (Val "edgeData_null"))) (IsNull (Ref "edgeData")))];
  h_rewrites := [];
  h_call := [ByVal "hNode";
             BufPtr "dependentNodes";
             BufPtr "edgeData";
             AddrOf "numDependentNodes" []];
  h_reply := [Write (Val "numDependentNodes") (SizeOf "size_t");
              When (Not (Load "uint8_t" (Val "dependentNodes_null"))) (Write (Ref "dependentNodes") (Mul (Cond (Lt (Load "size_t" (Val "numDependentNodes")) (Load "size_t" (Val "numDependentNodes_requested"))) (Load "size_t" (Val "numDependentNodes")) (Load "size_t" (Val "numDependentNodes_requested"))) (SizeOf "CUgraphNode")));
              When (Not (Load "uint8_t" (Val "edgeData_null"))) (Write (Ref "edgeData") (Mul (Cond (Lt (Load "size_t" (Val "numDependentNodes")) (Load "size_t" (Val "numDependentNodes_requested"))) (Load "size_t" (Val "numDependentNodes")) (Load "size_t" (Val "numDependentNodes_requested"))) (SizeOf "CUgraphEdgeData")));
              Write (Val "return_value") (SizeOf "CUresult")] |}.

Definition handle_cuGraphDestroyNode : handler := {|
  h_name := "cuGraphDestroyNode";
  h_locals := [Uninit "hNode" "CUgraphNode"];
  h_async := false;
  h_reads := [Read (Val "hNode") (SizeOf "CUgraphNode")];
  h_rewrites := [];
  h_call := [ByVal "hNode"];
  h_reply := [Write (Val "return_value") (SizeOf "CUresult")] |}.

Definition handle_cuGraphExecGetFlags : handler := {|
  h_name := "cuGraphExecGetFlags";
  h_locals := [Uninit "hGraphExec" "CUgraphExec"; Zeroed "flags" "cuuint64_t"];
  h_async := false;
  h_reads := [Read (Val "hGraphExec") (SizeOf "CUgraphExec");
              Read (Val "flags") (SizeOf "cuuint64_t")];
  h_rewrites := [];
  h_call := [ByVal "hGraphExec"; AddrOf "flags" []];
  h_reply := [Write (Val "flags") (SizeOf "cuuint64_t");
              Write (Val "return_value") (SizeOf "CUresult")] |}.

Definition handle_cuGraphExecMemcpyNodeSetParams : handler := {|
  h_name := "cuGraphExecMemcpyNodeSetParams";
  h_locals := [Uninit "hGraphExec" "CUgraphExec";
               Uninit "hNode" "CUgraphNode";
               Zeroed "copyParams" "CUDA_MEMCPY3D";
               Uninit "ctx" "CUcontext"];
  h_async := false;
  h_reads := [Read (Val "hGraphExec") (SizeOf "CUgraphExec");
              Read (Val "hNode") (SizeOf "CUgraphNode");
              Read (Val "copyParams") (SizeOf "CUDA_MEMCPY3D");
              Read (Val "ctx") (SizeOf "CUcontext")];
  h_rewrites := [("hNode", "lupine_htod_graph_exec_node", "hGraphExec", "hNode")];
  h_call := [ByVal "hGraphExec"; ByVal "hNode"; AddrOf "copyParams" []; ByVal "ctx"];
  h_reply := [Write (Val "return_value") (SizeOf "CUresult")] |}.

Definition handle_cuGraphExecMemsetNodeSetParams : handler := {|
  h_name := "cuGraphExecMemsetNodeSetParams";
  h_locals := [Uninit "hGraphExec" "CUgraphExec";
               Uninit "hNode" "CUgraphNode";
               Zeroed "memsetParams" "CUDA_MEMSET_NODE_PARAMS";
               Uninit "ctx" "CUcontext"];
  h_async := false;
  h_reads := [Read (Val "hGraphExec") (SizeOf "CUgraphExec");
              Read (Val "hNode") (SizeOf "CUgraphNode");
              Read (Val "memsetParams") (SizeOf "CUDA_MEMSET_NODE_PARAMS");
              Read (Val "ctx") (SizeOf "CUcontext")];
  h_rewrites := [("hNode", "lupine_htod_graph_exec_node", "hGraphExec", "hNode")];
  h_call := [ByVal "hGraphExec"; ByVal "hNode"; AddrOf "memsetParams" []; ByVal "ctx"];
  h_reply := [Write (Val "return_value") (SizeOf "CUresult")] |}.

Definition handle_cuGraphExecChildGraphNodeSetParams : handler := {|
  h_name := "cuGraphExecChildGraphNodeSetParams";
  h_locals := [Uninit "hGraphExec" "CUgraphExec";
               Uninit "hNode" "CUgraphNode";
               Uninit "childGraph" "CUgraph"];
  h_async := false;
  h_reads := [Read (Val "hGraphExec") (SizeOf "CUgraphExec");
              Read (Val "hNode") (SizeOf "CUgraphNode");
              Read (Val "childGraph") (SizeOf "CUgraph")];
  h_rewrites := [("hNode", "lupine_htod_graph_exec_node", "hGraphExec", "hNode")];
  h_call := [ByVal "hGraphExec"; ByVal "hNode"; ByVal "childGraph"];
  h_reply := [Write (Val "return_value") (SizeOf "CUresult")] |}.

Definition handle_cuGraphExecEventRecordNodeSetEvent : handler := {|
  h_name := "cuGraphExecEventRecordNodeSetEvent";
  h_locals := [Uninit "hGraphExec" "CUgraphExec";
               Uninit "hNode" "CUgraphNode";
               Uninit "event" "CUevent"];
  h_async := false;
  h_reads := [Read (Val "hGraphExec") (SizeOf "CUgraphExec");
              Read (Val "hNode") (SizeOf "CUgraphNode");
              Read (Val "event") (SizeOf "CUevent")];
  h_rewrites := [("hNode", "lupine_htod_graph_exec_node", "hGraphExec", "hNode")];
  h_call := [ByVal "hGraphExec"; ByVal "hNode"; ByVal "event"];
  h_reply := [Write (Val "return_value") (SizeOf "CUresult")] |}.

Definition handle_cuGraphExecEventWaitNodeSetEvent : handler := {|
  h_name := "cuGraphExecEventWaitNodeSetEvent";
  h_locals := [Uninit "hGraphExec" "CUgraphExec";
               Uninit "hNode" "CUgraphNode";
               Uninit "event" "CUevent"];
  h_async := false;
  h_reads := [Read (Val "hGraphExec") (SizeOf "CUgraphExec");
              Read (Val "hNode") (SizeOf "CUgraphNode");
              Read (Val "event") (SizeOf "CUevent")];
  h_rewrites := [("hNode", "lupine_htod_graph_exec_node", "hGraphExec", "hNode")];
  h_call := [ByVal "hGraphExec"; ByVal "hNode"; ByVal "event"];
  h_reply := [Write (Val "return_value") (SizeOf "CUresult")] |}.

Definition handle_cuGraphExecExternalSemaphoresSignalNodeSetParams : handler := {|
  h_name := "cuGraphExecExternalSemaphoresSignalNodeSetParams";
  h_locals := [Uninit "hGraphExec" "CUgraphExec";
               Uninit "hNode" "CUgraphNode";
               Zeroed "nodeParams" "CUDA_EXT_SEM_SIGNAL_NODE_PARAMS"];
  h_async := false;
  h_reads := [Read (Val "hGraphExec") (SizeOf "CUgraphExec");
              Read (Val "hNode") (SizeOf "CUgraphNode");
              Read (Val "nodeParams") (SizeOf "CUDA_EXT_SEM_SIGNAL_NODE_PARAMS");
              Resize "nodeParams_extSemArray_buf" (Mul (Field "CUDA_EXT_SEM_SIGNAL_NODE_PARAMS" "numExtSems" (Val "nodeParams")) (SizeOf "*CUDA_EXT_SEM_SIGNAL_NODE_PARAMS::extSemArray"));
              When (Not (Eq (Field "CUDA_EXT_SEM_SIGNAL_NODE_PARAMS" "numExtSems" (Val "nodeParams")) (Num 0))) (Read (Ref "nodeParams_extSemArray_buf") (Mul (Field "CUDA_EXT_SEM_SIGNAL_NODE_PARAMS" "numExtSems" (Val "nodeParams")) (SizeOf "*CUDA_EXT_SEM_SIGNAL_NODE_PARAMS::extSemArray")));
              Bind "nodeParams" "extSemArray" "nodeParams_extSemArray_buf";
              Resize "nodeParams_paramsArray_buf" (Mul (Field "CUDA_EXT_SEM_SIGNAL_NODE_PARAMS" "numExtSems" (Val "nodeParams")) (SizeOf "*CUDA_EXT_SEM_SIGNAL_NODE_PARAMS::paramsArray"));
              When (Not (Eq (Field "CUDA_EXT_SEM_SIGNAL_NODE_PARAMS" "numExtSems" (Val "nodeParams")) (Num 0))) (Read (Ref "nodeParams_paramsArray_buf") (Mul (Field "CUDA_EXT_SEM_SIGNAL_NODE_PARAMS" "numExtSems" (Val "nodeParams")) (SizeOf "*CUDA_EXT_SEM_SIGNAL_NODE_PARAMS::paramsArray")));
              Bind "nodeParams" "paramsArray" "nodeParams_paramsArray_buf"];
  h_rewrites := [("hNode", "lupine_htod_graph_exec_node", "hGraphExec", "hNode")];
  h_call := [ByVal "hGraphExec";
             ByVal "hNode";
             AddrOf "nodeParams" ["extSemArray"; "paramsArray"]];
  h_reply := [Write (Val "return_value") (SizeOf "CUresult")] |}.

Definition handle_cuGraphExecExternalSemaphoresWaitNodeSetParams : handler := {|
  h_name := "cuGraphExecExternalSemaphoresWaitNodeSetParams";
  h_locals := [Uninit "hGraphExec" "CUgraphExec";
               Uninit "hNode" "CUgraphNode";
               Zeroed "nodeParams" "CUDA_EXT_SEM_WAIT_NODE_PARAMS"];
  h_async := false;
  h_reads := [Read (Val "hGraphExec") (SizeOf "CUgraphExec");
              Read (Val "hNode") (SizeOf "CUgraphNode");
              Read (Val "nodeParams") (SizeOf "CUDA_EXT_SEM_WAIT_NODE_PARAMS");
              Resize "nodeParams_extSemArray_buf" (Mul (Field "CUDA_EXT_SEM_WAIT_NODE_PARAMS" "numExtSems" (Val "nodeParams")) (SizeOf "*CUDA_EXT_SEM_WAIT_NODE_PARAMS::extSemArray"));
              When (Not (Eq (Field "CUDA_EXT_SEM_WAIT_NODE_PARAMS" "numExtSems" (Val "nodeParams")) (Num 0))) (Read (Ref "nodeParams_extSemArray_buf") (Mul (Field "CUDA_EXT_SEM_WAIT_NODE_PARAMS" "numExtSems" (Val "nodeParams")) (SizeOf "*CUDA_EXT_SEM_WAIT_NODE_PARAMS::extSemArray")));
              Bind "nodeParams" "extSemArray" "nodeParams_extSemArray_buf";
              Resize "nodeParams_paramsArray_buf" (Mul (Field "CUDA_EXT_SEM_WAIT_NODE_PARAMS" "numExtSems" (Val "nodeParams")) (SizeOf "*CUDA_EXT_SEM_WAIT_NODE_PARAMS::paramsArray"));
              When (Not (Eq (Field "CUDA_EXT_SEM_WAIT_NODE_PARAMS" "numExtSems" (Val "nodeParams")) (Num 0))) (Read (Ref "nodeParams_paramsArray_buf") (Mul (Field "CUDA_EXT_SEM_WAIT_NODE_PARAMS" "numExtSems" (Val "nodeParams")) (SizeOf "*CUDA_EXT_SEM_WAIT_NODE_PARAMS::paramsArray")));
              Bind "nodeParams" "paramsArray" "nodeParams_paramsArray_buf"];
  h_rewrites := [("hNode", "lupine_htod_graph_exec_node", "hGraphExec", "hNode")];
  h_call := [ByVal "hGraphExec";
             ByVal "hNode";
             AddrOf "nodeParams" ["extSemArray"; "paramsArray"]];
  h_reply := [Write (Val "return_value") (SizeOf "CUresult")] |}.

Definition handle_cuGraphNodeSetEnabled : handler := {|
  h_name := "cuGraphNodeSetEnabled";
  h_locals := [Uninit "hGraphExec" "CUgraphExec";
               Uninit "hNode" "CUgraphNode";
               Uninit "isEnabled" "unsigned int"];
  h_async := false;
  h_reads := [Read (Val "hGraphExec") (SizeOf "CUgraphExec");
              Read (Val "hNode") (SizeOf "CUgraphNode");
              Read (Val "isEnabled") (SizeOf "unsigned int")];
  h_rewrites := [("hNode", "lupine_htod_graph_exec_node", "hGraphExec", "hNode")];
  h_call := [ByVal "hGraphExec"; ByVal "hNode"; ByVal "isEnabled"];
  h_reply := [Write (Val "return_value") (SizeOf "CUresult")] |}.

Definition handle_cuGraphNodeGetEnabled : handler := {|
  h_name := "cuGraphNodeGetEnabled";
  h_locals := [Uninit "hGraphExec" "CUgraphExec";
               Uninit "hNode" "CUgraphNode";
               Zeroed "isEnabled" "unsigned int"];
  h_async := false;
  h_reads := [Read (Val "hGraphExec") (SizeOf "CUgraphExec");
              Read (Val "hNode") (SizeOf "CUgraphNode");
              Read (Val "isEnabled") (SizeOf "unsigned int")];
  h_rewrites := [("hNode", "lupine_htod_graph_exec_node", "hGraphExec", "hNode")];
  h_call := [ByVal "hGraphExec"; ByVal "hNode"; AddrOf "isEnabled" []];
  h_reply := [Write (Val "isEnabled") (SizeOf "unsigned int");
              Write (Val "return_value") (SizeOf "CUresult")] |}.

Definition handle_cuGraphUpload : handler := {|
  h_name := "cuGraphUpload";
  h_locals := [Uninit "hGraphExec" "CUgraphExec"; Uninit "hStream" "CUstream"];
  h_async := false;
  h_reads := [Read (Val "hGraphExec") (SizeOf "CUgraphExec");
              Read (Val "hStream") (SizeOf "CUstream")];
  h_rewrites := [];
  h_call := [ByVal "hGraphExec"; ByVal "hStream"];
  h_reply := [Write (Val "return_value") (SizeOf "CUresult")] |}.

Definition handle_cuGraphKernelNodeCopyAttributes : handler := {|
  h_name := "cuGraphKernelNodeCopyAttributes";
  h_locals := [Uninit "dst" "CUgraphNode"; Uninit "src" "CUgraphNode"];
  h_async := false;
  h_reads := [Read (Val "dst") (SizeOf "CUgraphNode");
              Read (Val "src") (SizeOf "CUgraphNode")];
  h_rewrites := [];
  h_call := [ByVal "dst"; ByVal "src"];
  h_reply := [Write (Val "return_value") (SizeOf "CUresult")] |}.

Definition handle_cuGraphKernelNodeGetAttribute : handler := {|
  h_name := "cuGraphKernelNodeGetAttribute";
  h_locals := [Uninit "hNode" "CUgraphNode";
               Uninit "attr" "CUkernelNodeAttrID";
               Zeroed "value_out" "CUkernelNodeAttrValue"];
  h_async := false;
  h_reads := [Read (Val "hNode") (SizeOf "CUgraphNode");
              Read (Val "attr") (SizeOf "CUkernelNodeAttrID");
              Read (Val "value_out") (SizeOf "CUkernelNodeAttrValue")];
  h_rewrites := [];
  h_call := [ByVal "hNode"; ByVal "attr"; AddrOf "value_out" []];
  h_reply := [Write (Val "value_out") (SizeOf "CUkernelNodeAttrValue");
              Write (Val "return_value") (SizeOf "CUresult")] |}.

Definition handle_cuGraphKernelNodeSetAttribute : handler := {|
  h_name := "cuGraphKernelNodeSetAttribute";
  h_locals := [Uninit "hNode" "CUgraphNode";
               Uninit "attr" "CUkernelNodeAttrID";
               Zeroed "value" "CUkernelNodeAttrValue"];
  h_async := false;
  h_reads := [Read (Val "hNode") (SizeOf "CUgraphNode");
              Read (Val "attr") (SizeOf "CUkernelNodeAttrID");
              Read (Val "value") (SizeOf "CUkernelNodeAttrValue")];
  h_rewrites := [];
  h_call := [ByVal "hNode"; ByVal "attr"; AddrOf "value" []];
  h_reply := [Write (Val "return_value") (SizeOf "CUresult")] |}.

Definition handle_cuGraphDebugDotPrint : handler := {|
  h_name := "cuGraphDebugDotPrint";
  h_locals := [Uninit "hGraph" "CUgraph";
               NullPtr "path";
               Uninit "path_len" "size_t";
               Uninit "flags" "unsigned int"];
  h_async := false;
  h_reads := [Read (Val "hGraph") (SizeOf "CUgraph");
              Read (Val "path_len") (SizeOf "size_t");
              Alloc "path" (Load "size_t" (Val "path_len")) false;
              Fail (And (Not (Eq (Load "size_t" (Val "path_len")) (Num 0))) (IsNull (Ref "path")));
              Read (Ref "path") (Load "size_t" (Val "path_len"));
              Read (Val "flags") (SizeOf "unsigned int")];
  h_rewrites := [];
  h_call := [ByVal "hGraph"; BufPtr "path"; ByVal "flags"];
  h_reply := [Write (Val "return_value") (SizeOf "CUresult")] |}.

Definition handle_cuUserObjectRetain : handler := {|
  h_name := "cuUserObjectRetain";
  h_locals := [Uninit "object" "CUuserObject"; Uninit "count" "unsigned int"];
  h_async := false;
  h_reads := [Read (Val "object") (SizeOf "CUuserObject");
              Read (Val "count") (SizeOf "unsigned int")];
  h_rewrites := [];
  h_call := [ByVal "object"; ByVal "count"];
  h_reply := [Write (Val "return_value") (SizeOf "CUresult")] |}.

Definition handle_cuUserObjectRelease : handler := {|
  h_name := "cuUserObjectRelease";
  h_locals := [Uninit "object" "CUuserObject"; Uninit "count" "unsigned int"];
  h_async := false;
  h_reads := [Read (Val "object") (SizeOf "CUuserObject");
              Read (Val "count") (SizeOf "unsigned int")];
  h_rewrites := [];
  h_call := [ByVal "object"; ByVal "count"];
  h_reply := [Write (Val "return_value") (SizeOf "CUresult")] |}.

Definition handle_cuGraphRetainUserObject : handler := {|
  h_name := "cuGraphRetainUserObject";
  h_locals := [Uninit "graph" "CUgraph";
               Uninit "object" "CUuserObject";
               Uninit "count" "unsigned int";
               Uninit "flags" "unsigned int"];
  h_async := false;
  h_reads := [Read (Val "graph") (SizeOf "CUgraph");
              Read (Val "object") (SizeOf "CUuserObject");
              Read (Val "count") (SizeOf "unsigned int");
              Read (Val "flags") (SizeOf "unsigned int")];
  h_rewrites := [];
  h_call := [ByVal "graph"; ByVal "object"; ByVal "count"; ByVal "flags"];
  h_reply := [Write (Val "return_value") (SizeOf "CUresult")] |}.

Definition handle_cuGraphReleaseUserObject : handler := {|
  h_name := "cuGraphReleaseUserObject";
  h_locals := [Uninit "graph" "CUgraph";
               Uninit "object" "CUuserObject";
               Uninit "count" "unsigned int"];
  h_async := false;
  h_reads := [Read (Val "graph") (SizeOf "CUgraph");
              Read (Val "object") (SizeOf "CUuserObject");
              Read (Val "count") (SizeOf "unsigned int")];
  h_rewrites := [];
  h_call := [ByVal "graph"; ByVal "object"; ByVal "count"];
  h_reply := [Write (Val "return_value") (SizeOf "CUresult")] |}.

Definition handle_cuGraphNodeSetParams : handler := {|
  h_name := "cuGraphNodeSetParams";
  h_locals := [Uninit "hNode" "CUgraphNode"; Zeroed "nodeParams" "CUgraphNodeParams"];
  h_async := false;
  h_reads := [Read (Val "hNode") (SizeOf "CUgraphNode");
              Read (Val "nodeParams") (SizeOf "CUgraphNodeParams")];
  h_rewrites := [];
  h_call := [ByVal "hNode"; AddrOf "nodeParams" []];
  h_reply := [Write (Val "return_value") (SizeOf "CUresult")] |}.

Definition handle_cuGraphExecNodeSetParams : handler := {|
  h_name := "cuGraphExecNodeSetParams";
  h_locals := [Uninit "hGraphExec" "CUgraphExec";
               Uninit "hNode" "CUgraphNode";
               Zeroed "nodeParams" "CUgraphNodeParams"];
  h_async := false;
  h_reads := [Read (Val "hGraphExec") (SizeOf "CUgraphExec");
              Read (Val "hNode") (SizeOf "CUgraphNode");
              Read (Val "nodeParams") (SizeOf "CUgraphNodeParams")];
  h_rewrites := [];
  h_call := [ByVal "hGraphExec"; ByVal "hNode"; AddrOf "nodeParams" []];
  h_reply := [Write (Val "return_value") (SizeOf "CUresult")] |}.

Definition handle_cuOccupancyMaxActiveBlocksPerMultiprocessor : handler := {|
  h_name := "cuOccupancyMaxActiveBlocksPerMultiprocessor";
  h_locals := [Zeroed "numBlocks" "int";
               Uninit "func" "CUfunction";
               Uninit "blockSize" "int";
               Uninit "dynamicSMemSize" "size_t"];
  h_async := false;
  h_reads := [Read (Val "numBlocks") (SizeOf "int");
              Read (Val "func") (SizeOf "CUfunction");
              Read (Val "blockSize") (SizeOf "int");
              Read (Val "dynamicSMemSize") (SizeOf "size_t")];
  h_rewrites := [];
  h_call := [AddrOf "numBlocks" [];
             ByVal "func";
             ByVal "blockSize";
             ByVal "dynamicSMemSize"];
  h_reply := [Write (Val "numBlocks") (SizeOf "int");
              Write (Val "return_value") (SizeOf "CUresult")] |}.

Definition handle_cuOccupancyMaxActiveBlocksPerMultiprocessorWithFlags : handler := {|
  h_name := "cuOccupancyMaxActiveBlocksPerMultiprocessorWithFlags";
  h_locals := [Zeroed "numBlocks" "int";
               Uninit "func" "CUfunction";
               Uninit "blockSize" "int";
               Uninit "dynamicSMemSize" "size_t";
               Uninit "flags" "unsigned int"];
  h_async := false;
  h_reads := [Read (Val "numBlocks") (SizeOf "int");
              Read (Val "func") (SizeOf "CUfunction");
              Read (Val "blockSize") (SizeOf "int");
              Read (Val "dynamicSMemSize") (SizeOf "size_t");
              Read (Val "flags") (SizeOf "unsigned int")];
  h_rewrites := [];
  h_call := [AddrOf "numBlocks" [];
             ByVal "func";
             ByVal "blockSize";
             ByVal "dynamicSMemSize";
             ByVal "flags"];
  h_reply := [Write (Val "numBlocks") (SizeOf "int");
              Write (Val "return_value") (SizeOf "CUresult")] |}.

Definition handle_cuOccupancyAvailableDynamicSMemPerBlock : handler := {|
  h_name := "cuOccupancyAvailableDynamicSMemPerBlock";
  h_locals := [Zeroed "dynamicSmemSize" "size_t";
               Uninit "func" "CUfunction";
               Uninit "numBlocks" "int";
               Uninit "blockSize" "int"];
  h_async := false;
  h_reads := [Read (Val "dynamicSmemSize") (SizeOf "size_t");
              Read (Val "func") (SizeOf "CUfunction");
              Read (Val "numBlocks") (SizeOf "int");
              Read (Val "blockSize") (SizeOf "int")];
  h_rewrites := [];
  h_call := [AddrOf "dynamicSmemSize" [];
             ByVal "func";
             ByVal "numBlocks";
             ByVal "blockSize"];
  h_reply := [Write (Val "dynamicSmemSize") (SizeOf "size_t");
              Write (Val "return_value") (SizeOf "CUresult")] |}.

Definition handle_cuOccupancyMaxPotentialClusterSize : handler := {|
  h_name := "cuOccupancyMaxPotentialClusterSize";
  h_locals := [Zeroed "clusterSize" "int";
               Uninit "func" "CUfunction";
               Zeroed "config" "CUlaunchConfig"];
  h_async := false;
  h_reads := [Read (Val "clusterSize") (SizeOf "int");
              Read (Val "func") (SizeOf "CUfunction");
              Read (Val "config") (SizeOf "CUlaunchConfig");
              Resize "config_attrs_buf" (Mul (Field "CUlaunchConfig" "numAttrs" (Val "config")) (SizeOf "*CUlaunchConfig::attrs"));
              When (Not (Eq (Field "CUlaunchConfig" "numAttrs" (Val "config")) (Num 0))) (Read (Ref "config_attrs_buf") (Mul (Field "CUlaunchConfig" "numAttrs" (Val "config")) (SizeOf "*CUlaunchConfig::attrs")));
              Bind "config" "attrs" "config_attrs_buf"];
  h_rewrites := [];
  h_call := [AddrOf "clusterSize" []; ByVal "func"; AddrOf "config" ["attrs"]];
  h_reply := [Write (Val "clusterSize") (SizeOf "int");
              Write (Val "return_value") (SizeOf "CUresult")] |}.

Definition handle_cuOccupancyMaxActiveClusters : handler := {|
  h_name := "cuOccupancyMaxActiveClusters";
  h_locals := [Zeroed "numClusters" "int";
               Uninit "func" "CUfunction";
               Zeroed "config" "CUlaunchConfig"];
  h_async := false;
  h_reads := [Read (Val "numClusters") (SizeOf "int");
              Read (Val "func") (SizeOf "CUfunction");
              Read (Val "config") (SizeOf "CUlaunchConfig");
              Resize "config_attrs_buf" (Mul (Field "CUlaunchConfig" "numAttrs" (Val "config")) (SizeOf "*CUlaunchConfig::attrs"));
              When (Not (Eq (Field "CUlaunchConfig" "numAttrs" (Val "config")) (Num 0))) (Read (Ref "config_attrs_buf") (Mul (Field "CUlaunchConfig" "numAttrs" (Val "config")) (SizeOf "*CUlaunchConfig::attrs")));
              Bind "config" "attrs" "config_attrs_buf"];
  h_rewrites := [];
  h_call := [AddrOf "numClusters" []; ByVal "func"; AddrOf "config" ["attrs"]];
  h_reply := [Write (Val "numClusters") (SizeOf "int");
              Write (Val "return_value") (SizeOf "CUresult")] |}.

Definition handle_cuTexRefSetArray : handler := {|
  h_name := "cuTexRefSetArray";
  h_locals := [Uninit "hTexRef" "CUtexref";
               Uninit "hArray" "CUarray";
               Uninit "Flags" "unsigned int"];
  h_async := false;
  h_reads := [Read (Val "hTexRef") (SizeOf "CUtexref");
              Read (Val "hArray") (SizeOf "CUarray");
              Read (Val "Flags") (SizeOf "unsigned int")];
  h_rewrites := [];
  h_call := [ByVal "hTexRef"; ByVal "hArray"; ByVal "Flags"];
  h_reply := [Write (Val "return_value") (SizeOf "CUresult")] |}.

Definition handle_cuTexRefSetMipmappedArray : handler := {|
  h_name := "cuTexRefSetMipmappedArray";
  h_locals := [Uninit "hTexRef" "CUtexref";
               Uninit "hMipmappedArray" "CUmipmappedArray";
               Uninit "Flags" "unsigned int"];
  h_async := false;
  h_reads := [Read (Val "hTexRef") (SizeOf "CUtexref");
              Read (Val "hMipmappedArray") (SizeOf "CUmipmappedArray");
              Read (Val "Flags") (SizeOf "unsigned int")];
  h_rewrites := [];
  h_call := [ByVal "hTexRef"; ByVal "hMipmappedArray"; ByVal "Flags"];
  h_reply := [Write (Val "return_value") (SizeOf "CUresult")] |}.

Definition handle_cuTexRefSetAddress_v2 : handler := {|
  h_name := "cuTexRefSetAddress_v2";
  h_locals := [Zeroed "ByteOffset" "size_t";
               Uninit "hTexRef" "CUtexref";
               Uninit "dptr" "CUdeviceptr";
               Uninit "bytes" "size_t"];
  h_async := false;
  h_reads := [Read (Val "ByteOffset") (SizeOf "size_t");
              Read (Val "hTexRef") (SizeOf "CUtexref");
              Read (Val "dptr") (SizeOf "CUdeviceptr");
              Read (Val "bytes") (SizeOf "size_t")];
  h_rewrites := [];
  h_call := [AddrOf "ByteOffset" []; ByVal "hTexRef"; ByVal "dptr"; ByVal "bytes"];
  h_reply := [Write (Val "ByteOffset") (SizeOf "size_t");
              Write (Val "return_value") (SizeOf "CUresult")] |}.

Definition handle_cuTexRefSetAddress2D_v3 : handler := {|
  h_name := "cuTexRefSetAddress2D_v3";
  h_locals := [Uninit "hTexRef" "CUtexref";
               Zeroed "desc" "CUDA_ARRAY_DESCRIPTOR";
               Uninit "dptr" "CUdeviceptr";
               Uninit "Pitch" "size_t"];
  h_async := false;
  h_reads := [Read (Val "hTexRef") (SizeOf "CUtexref");
              Read (Val "desc") (SizeOf "CUDA_ARRAY_DESCRIPTOR");
              Read (Val "dptr") (SizeOf "CUdeviceptr");
              Read (Val "Pitch") (SizeOf "size_t")];
  h_rewrites := [];
  h_call := [ByVal "hTexRef"; AddrOf "desc" []; ByVal "dptr"; ByVal "Pitch"];
  h_reply := [Write (Val "return_value") (SizeOf "CUresult")] |}.

Definition handle_cuTexRefSetFormat : handler := {|
  h_name := "cuTexRefSetFormat";
  h_locals := [Uninit "hTexRef" "CUtexref";
               Uninit "fmt" "CUarray_format";
               Uninit "NumPackedComponents" "int"];
  h_async := false;
  h_reads := [Read (Val "hTexRef") (SizeOf "CUtexref");
              Read (Val "fmt") (SizeOf "CUarray_format");
              Read (Val "NumPackedComponents") (SizeOf "int")];
  h_rewrites := [];
  h_call := [ByVal "hTexRef"; ByVal "fmt"; ByVal "NumPackedComponents"];
  h_reply := [Write (Val "return_value") (SizeOf "CUresult")] |}.

Definition handle_cuTexRefSetAddressMode : handler := {|
  h_name := "cuTexRefSetAddressMode";
  h_locals := [Uninit "hTexRef" "CUtexref";
               Uninit "dim" "int";
               Uninit "am" "CUaddress_mode"];
  h_async := false;
  h_reads := [Read (Val "hTexRef") (SizeOf "CUtexref");
              Read (Val "dim") (SizeOf "int");
              Read (Val "am") (SizeOf "CUaddress_mode")];
  h_rewrites := [];
  h_call := [ByVal "hTexRef"; ByVal "dim"; ByVal "am"];
  h_reply := [Write (Val "return_value") (SizeOf "CUresult")] |}.

Definition handle_cuTexRefSetFilterMode : handler := {|
  h_name := "cuTexRefSetFilterMode";
  h_locals := [Uninit "hTexRef" "CUtexref"; Uninit "fm" "CUfilter_mode"];
  h_async := false;
  h_reads := [Read (Val "hTexRef") (SizeOf "CUtexref");
              Read (Val "fm") (SizeOf "CUfilter_mode")];
  h_rewrites := [];
  h_call := [ByVal "hTexRef"; ByVal "fm"];
  h_reply := [Write (Val "return_value") (SizeOf "CUresult")] |}.

Definition handle_cuTexRefSetMipmapFilterMode : handler := {|
  h_name := "cuTexRefSetMipmapFilterMode";
  h_locals := [Uninit "hTexRef" "CUtexref"; Uninit "fm" "CUfilter_mode"];
  h_async := false;
  h_reads := [Read (Val "hTexRef") (SizeOf "CUtexref");
              Read (Val "fm") (SizeOf "CUfilter_mode")];
  h_rewrites := [];
  h_call := [ByVal "hTexRef"; ByVal "fm"];
  h_reply := [Write (Val "return_value") (SizeOf "CUresult")] |}.

Definition handle_cuTexRefSetMipmapLevelBias : handler := {|
  h_name := "cuTexRefSetMipmapLevelBias";
  h_locals := [Uninit "hTexRef" "CUtexref"; Uninit "bias" "float"];
  h_async := false;
  h_reads := [Read (Val "hTexRef") (SizeOf "CUtexref"); Read (Val "bias") (SizeOf "float")];
  h_rewrites := [];
  h_call := [ByVal "hTexRef"; ByVal "bias"];
  h_reply := [Write (Val "return_value") (SizeOf "CUresult")] |}.

Definition handle_cuTexRefSetMipmapLevelClamp : handler := {|
  h_name := "cuTexRefSetMipmapLevelClamp";
  h_locals := [Uninit "hTexRef" "CUtexref";
               Uninit "minMipmapLevelClamp" "float";
               Uninit "maxMipmapLevelClamp" "float"];
  h_async := false;
  h_reads := [Read (Val "hTexRef") (SizeOf "CUtexref");
              Read (Val "minMipmapLevelClamp") (SizeOf "float");
              Read (Val "maxMipmapLevelClamp") (SizeOf "float")];
  h_rewrites := [];
  h_call := [ByVal "hTexRef"; ByVal "minMipmapLevelClamp"; ByVal "maxMipmapLevelClamp"];
  h_reply := [Write (Val "return_value") (SizeOf "CUresult")] |}.

Definition handle_cuTexRefSetMaxAnisotropy : handler := {|
  h_name := "cuTexRefSetMaxAnisotropy";
  h_locals := [Uninit "hTexRef" "CUtexref"; Uninit "maxAniso" "unsigned int"];
  h_async := false;
  h_reads := [Read (Val "hTexRef") (SizeOf "CUtexref");
              Read (Val "maxAniso") (SizeOf "unsigned int")];
  h_rewrites := [];
  h_call := [ByVal "hTexRef"; ByVal "maxAniso"];
  h_reply := [Write (Val "return_value") (SizeOf "CUresult")] |}.

Definition handle_cuTexRefSetBorderColor : handler := {|
  h_name := "cuTexRefSetBorderColor";
  h_locals := [Uninit "hTexRef" "CUtexref";
               NullPtr "pBorderColor";
               Uninit "pBorderColor_size" "size_t"];
  h_async := false;
  h_reads := [Read (Val "hTexRef") (SizeOf "CUtexref");
              Let "pBorderColor_size" "size_t" (Num 16);
              Alloc "pBorderColor" (Load "size_t" (Val "pBorderColor_size")) false;
              Fail (And (Not (Eq (Load "size_t" (Val "pBorderColor_size")) (Num 0))) (IsNull (Ref "pBorderColor")));
              When (Not (Eq (Load "size_t" (Val "pBorderColor_size")) (Num 0))) (Read (Ref "pBorderColor") (Load "size_t" (Val "pBorderColor_size")))];
  h_rewrites := [];
  h_call := [ByVal "hTexRef"; BufPtr "pBorderColor"];
  h_reply := [Write (Val "return_value") (SizeOf "CUresult")] |}.

Definition handle_cuTexRefSetFlags : handler := {|
  h_name := "cuTexRefSetFlags";
  h_locals := [Uninit "hTexRef" "CUtexref"; Uninit "Flags" "unsigned int"];
  h_async := false;
  h_reads := [Read (Val "hTexRef") (SizeOf "CUtexref");
              Read (Val "Flags") (SizeOf "unsigned int")];
  h_rewrites := [];
  h_call := [ByVal "hTexRef"; ByVal "Flags"];
  h_reply := [Write (Val "return_value") (SizeOf "CUresult")] |}.

Definition handle_cuTexRefGetAddress_v2 : handler := {|
  h_name := "cuTexRefGetAddress_v2";
  h_locals := [Zeroed "pdptr" "CUdeviceptr"; Uninit "hTexRef" "CUtexref"];
  h_async := false;
  h_reads := [Read (Val "pdptr") (SizeOf "CUdeviceptr");
              Read (Val "hTexRef") (SizeOf "CUtexref")];
  h_rewrites := [];
  h_call := [AddrOf "pdptr" []; ByVal "hTexRef"];
  h_reply := [Write (Val "pdptr") (SizeOf "CUdeviceptr");
              Write (Val "return_value") (SizeOf "CUresult")] |}.

Definition handle_cuTexRefGetArray : handler := {|
  h_name := "cuTexRefGetArray";
  h_locals := [Zeroed "phArray" "CUarray"; Uninit "hTexRef" "CUtexref"];
  h_async := false;
  h_reads := [Read (Val "phArray") (SizeOf "CUarray");
              Read (Val "hTexRef") (SizeOf "CUtexref")];
  h_rewrites := [];
  h_call := [AddrOf "phArray" []; ByVal "hTexRef"];
  h_reply := [Write (Val "phArray") (SizeOf "CUarray");
              Write (Val "return_value") (SizeOf "CUresult")] |}.

Definition handle_cuTexRefGetMipmappedArray : handler := {|
  h_name := "cuTexRefGetMipmappedArray";
  h_locals := [Zeroed "phMipmappedArray" "CUmipmappedArray"; Uninit "hTexRef" "CUtexref"];
  h_async := false;
  h_reads := [Read (Val "phMipmappedArray") (SizeOf "CUmipmappedArray");
              Read (Val "hTexRef") (SizeOf "CUtexref")];
  h_rewrites := [];
  h_call := [AddrOf "phMipmappedArray" []; ByVal "hTexRef"];
  h_reply := [Write (Val "phMipmappedArray") (SizeOf "CUmipmappedArray");
              Write (Val "return_value") (SizeOf "CUresult")] |}.

Definition handle_cuTexRefGetAddressMode : handler := {|
  h_name := "cuTexRefGetAddressMode";
  h_locals := [Zeroed "pam" "CUaddress_mode";
               Uninit "hTexRef" "CUtexref";
               Uninit "dim" "int"];
  h_async := false;
  h_reads := [Read (Val "pam") (SizeOf "CUaddress_mode");
              Read (Val "hTexRef") (SizeOf "CUtexref");
              Read (Val "dim") (SizeOf "int")];
  h_rewrites := [];
  h_call := [AddrOf "pam" []; ByVal "hTexRef"; ByVal "dim"];
  h_reply := [Write (Val "pam") (SizeOf "CUaddress_mode");
              Write (Val "return_value") (SizeOf "CUresult")] |}.

Definition handle_cuTexRefGetFilterMode : handler := {|
  h_name := "cuTexRefGetFilterMode";
  h_locals := [Zeroed "pfm" "CUfilter_mode"; Uninit "hTexRef" "CUtexref"];
  h_async := false;
  h_reads := [Read (Val "pfm") (SizeOf "CUfilter_mode");
              Read (Val "hTexRef") (SizeOf "CUtexref")];
  h_rewrites := [];
  h_call := [AddrOf "pfm" []; ByVal "hTexRef"];
  h_reply := [Write (Val "pfm") (SizeOf "CUfilter_mode");
              Write (Val "return_value") (SizeOf "CUresult")] |}.

Definition handle_cuTexRefGetFormat : handler := {|
  h_name := "cuTexRefGetFormat";
  h_locals := [Zeroed "pFormat" "CUarray_format";
               Zeroed "pNumChannels" "int";
               Uninit "hTexRef" "CUtexref"];
  h_async := false;
  h_reads := [Read (Val "pFormat") (SizeOf "CUarray_format");
              Read (Val "pNumChannels") (SizeOf "int");
              Read (Val "hTexRef") (SizeOf "CUtexref")];
  h_rewrites := [];
  h_call := [AddrOf "pFormat" []; AddrOf "pNumChannels" []; ByVal "hTexRef"];
  h_reply := [Write (Val "pFormat") (SizeOf "CUarray_format");
              Write (Val "pNumChannels") (SizeOf "int");
              Write (Val "return_value") (SizeOf "CUresult")] |}.

Definition handle_cuTexRefGetMipmapFilterMode : handler := {|
  h_name := "cuTexRefGetMipmapFilterMode";
  h_locals := [Zeroed "pfm" "CUfilter_mode"; Uninit "hTexRef" "CUtexref"];
  h_async := false;
  h_reads := [Read (Val "pfm") (SizeOf "CUfilter_mode");
              Read (Val "hTexRef") (SizeOf "CUtexref")];
  h_rewrites := [];
  h_call := [AddrOf "pfm" []; ByVal "hTexRef"];
  h_reply := [Write (Val "pfm") (SizeOf "CUfilter_mode");
              Write (Val "return_value") (SizeOf "CUresult")] |}.

Definition handle_cuTexRefGetMipmapLevelBias : handler := {|
  h_name := "cuTexRefGetMipmapLevelBias";
  h_locals := [Zeroed "pbias" "float"; Uninit "hTexRef" "CUtexref"];
  h_async := false;
  h_reads := [Read (Val "pbias") (SizeOf "float"); Read (Val "hTexRef") (SizeOf "CUtexref")];
  h_rewrites := [];
  h_call := [AddrOf "pbias" []; ByVal "hTexRef"];
  h_reply := [Write (Val "pbias") (SizeOf "float");
              Write (Val "return_value") (SizeOf "CUresult")] |}.

Definition handle_cuTexRefGetMipmapLevelClamp : handler := {|
  h_name := "cuTexRefGetMipmapLevelClamp";
  h_locals := [Zeroed "pminMipmapLevelClamp" "float";
               Zeroed "pmaxMipmapLevelClamp" "float";
               Uninit "hTexRef" "CUtexref"];
  h_async := false;
  h_reads := [Read (Val "pminMipmapLevelClamp") (SizeOf "float");
              Read (Val "pmaxMipmapLevelClamp") (SizeOf "float");
              Read (Val "hTexRef") (SizeOf "CUtexref")];
  h_rewrites := [];
  h_call := [AddrOf "pminMipmapLevelClamp" [];
             AddrOf "pmaxMipmapLevelClamp" [];
             ByVal "hTexRef"];
  h_reply := [Write (Val "pminMipmapLevelClamp") (SizeOf "float");
              Write (Val "pmaxMipmapLevelClamp") (SizeOf "float");
              Write (Val "return_value") (SizeOf "CUresult")] |}.

Definition handle_cuTexRefGetMaxAnisotropy : handler := {|
  h_name := "cuTexRefGetMaxAnisotropy";
  h_locals := [Zeroed "pmaxAniso" "int"; Uninit "hTexRef" "CUtexref"];
  h_async := false;
  h_reads := [Read (Val "pmaxAniso") (SizeOf "int");
              Read (Val "hTexRef") (SizeOf "CUtexref")];
  h_rewrites := [];
  h_call := [AddrOf "pmaxAniso" []; ByVal "hTexRef"];
  h_reply := [Write (Val "pmaxAniso") (SizeOf "int");
              Write (Val "return_value") (SizeOf "CUresult")] |}.

Definition handle_cuTexRefGetBorderColor : handler := {|
  h_name := "cuTexRefGetBorderColor";
  h_locals := [NullPtr "pBorderColor"; Uninit "hTexRef" "CUtexref"];
  h_async := false;
  h_reads := [Alloc "pBorderColor" (Num 16) true;
              Fail (And (Not (Eq (Num 16) (Num 0))) (IsNull (Ref "pBorderColor")));
              Read (Val "hTexRef") (SizeOf "CUtexref")];
  h_rewrites := [];
  h_call := [BufPtr "pBorderColor"; ByVal "hTexRef"];
  h_reply := [Write (Ref "pBorderColor") (Num 16);
              Write (Val "return_value") (SizeOf "CUresult")] |}.

Definition handle_cuTexRefGetFlags : handler := {|
  h_name := "cuTexRefGetFlags";
  h_locals := [Zeroed "pFlags" "unsigned int"; Uninit "hTexRef" "CUtexref"];
  h_async := false;
  h_reads := [Read (Val "pFlags") (SizeOf "unsigned int");
              Read (Val "hTexRef") (SizeOf "CUtexref")];
  h_rewrites := [];
  h_call := [AddrOf "pFlags" []; ByVal "hTexRef"];
  h_reply := [Write (Val "pFlags") (SizeOf "unsigned int");
              Write (Val "return_value") (SizeOf "CUresult")] |}.

Definition handle_cuTexRefCreate : handler := {|
  h_name := "cuTexRefCreate";
  h_locals := [Zeroed "pTexRef" "CUtexref"];
  h_async := false;
  h_reads := [Read (Val "pTexRef") (SizeOf "CUtexref")];
  h_rewrites := [];
  h_call := [AddrOf "pTexRef" []];
  h_reply := [Write (Val "pTexRef") (SizeOf "CUtexref");
              Write (Val "return_value") (SizeOf "CUresult")] |}.

Definition handle_cuTexRefDestroy : handler := {|
  h_name := "cuTexRefDestroy";
  h_locals := [Uninit "hTexRef" "CUtexref"];
  h_async := false;
  h_reads := [Read (Val "hTexRef") (SizeOf "CUtexref")];
  h_rewrites := [];
  h_call := [ByVal "hTexRef"];
  h_reply := [Write (Val "return_value") (SizeOf "CUresult")] |}.

Definition handle_cuSurfRefSetArray : handler := {|
  h_name := "cuSurfRefSetArray";
  h_locals := [Uninit "hSurfRef" "CUsurfref";
               Uninit "hArray" "CUarray";
               Uninit "Flags" "unsigned int"];
  h_async := false;
  h_reads := [Read (Val "hSurfRef") (SizeOf "CUsurfref");
              Read (Val "hArray") (SizeOf "CUarray");
              Read (Val "Flags") (SizeOf "unsigned int")];
  h_rewrites := [];
  h_call := [ByVal "hSurfRef"; ByVal "hArray"; ByVal "Flags"];
  h_reply := [Write (Val "return_value") (SizeOf "CUresult")] |}.

Definition handle_cuSurfRefGetArray : handler := {|
  h_name := "cuSurfRefGetArray";
  h_locals := [Zeroed "phArray" "CUarray"; Uninit "hSurfRef" "CUsurfref"];
  h_async := false;
  h_reads := [Read (Val "phArray") (SizeOf "CUarray");
              Read (Val "hSurfRef") (SizeOf "CUsurfref")];
  h_rewrites := [];
  h_call := [AddrOf "phArray" []; ByVal "hSurfRef"];
  h_reply := [Write (Val "phArray") (SizeOf "CUarray");
              Write (Val "return_value") (SizeOf "CUresult")] |}.

Definition handle_cuTexObjectCreate : handler := {|
  h_name := "cuTexObjectCreate";
  h_locals := [Zeroed "pTexObject" "CUtexObject";
               Zeroed "pResDesc" "CUDA_RESOURCE_DESC";
               Zeroed "pTexDesc_present" "uint8_t";
               Uninit "pTexDesc" "CUDA_TEXTURE_DESC";
               Zeroed "pResViewDesc_present" "uint8_t";
               Uninit "pResViewDesc" "CUDA_RESOURCE_VIEW_DESC"];
  h_async := false;
  h_reads := [Read (Val "pTexObject") (SizeOf "CUtexObject");
              Read (Val "pResDesc") (SizeOf "CUDA_RESOURCE_DESC");
              Read (Val "pTexDesc_present") (SizeOf "uint8_t");
              When (Load "uint8_t" (Val "pTexDesc_present")) (Read (Val "pTexDesc") (SizeOf "CUDA_TEXTURE_DESC"));
              Read (Val "pResViewDesc_present") (SizeOf "uint8_t");
              When (Load "uint8_t" (Val "pResViewDesc_present")) (Read (Val "pResViewDesc") (SizeOf "CUDA_RESOURCE_VIEW_DESC"))];
  h_rewrites := [];
  h_call := [AddrOf "pTexObject" [];
             AddrOf "pResDesc" [];
             IfArg (Load "uint8_t" (Val "pTexDesc_present")) (AddrOf "pTexDesc" []);
             IfArg (Load "uint8_t" (Val "pResViewDesc_present")) (AddrOf "pResViewDesc" [])];
  h_reply := [Write (Val "pTexObject") (SizeOf "CUtexObject");
              Write (Val "return_value") (SizeOf "CUresult")] |}.

Definition handle_cuTexObjectDestroy : handler := {|
  h_name := "cuTexObjectDestroy";
  h_locals := [Uninit "texObject" "CUtexObject"];
  h_async := false;
  h_reads := [Read (Val "texObject") (SizeOf "CUtexObject")];
  h_rewrites := [];
  h_call := [ByVal "texObject"];
  h_reply := [Write (Val "return_value") (SizeOf "CUresult")] |}.

Definition handle_cuTexObjectGetResourceDesc : handler := {|
  h_name := "cuTexObjectGetResourceDesc";
  h_locals := [Zeroed "pResDesc" "CUDA_RESOURCE_DESC"; Uninit "texObject" "CUtexObject"];
  h_async := false;
  h_reads := [Read (Val "pResDesc") (SizeOf "CUDA_RESOURCE_DESC");
              Read (Val "texObject") (SizeOf "CUtexObject")];
  h_rewrites := [];
  h_call := [AddrOf "pResDesc" []; ByVal "texObject"];
  h_reply := [Write (Val "pResDesc") (SizeOf "CUDA_RESOURCE_DESC");
              Write (Val "return_value") (SizeOf "CUresult")] |}.

Definition handle_cuTexObjectGetTextureDesc : handler := {|
  h_name := "cuTexObjectGetTextureDesc";
  h_locals := [Zeroed "pTexDesc" "CUDA_TEXTURE_DESC"; Uninit "texObject" "CUtexObject"];
  h_async := false;
  h_reads := [Read (Val "pTexDesc") (SizeOf "CUDA_TEXTURE_DESC");
              Read (Val "texObject") (SizeOf "CUtexObject")];
  h_rewrites := [];
  h_call := [AddrOf "pTexDesc" []; ByVal "texObject"];
  h_reply := [Write (Val "pTexDesc") (SizeOf "CUDA_TEXTURE_DESC");
              Write (Val "return_value") (SizeOf "CUresult")] |}.

Definition handle_cuTexObjectGetResourceViewDesc : handler := {|
  h_name := "cuTexObjectGetResourceViewDesc";
  h_locals := [Zeroed "pResViewDesc" "CUDA_RESOURCE_VIEW_DESC";
               Uninit "texObject" "CUtexObject"];
  h_async := false;
  h_reads := [Read (Val "pResViewDesc") (SizeOf "CUDA_RESOURCE_VIEW_DESC");
              Read (Val "texObject") (SizeOf "CUtexObject")];
  h_rewrites := [];
  h_call := [AddrOf "pResViewDesc" []; ByVal "texObject"];
  h_reply := [Write (Val "pResViewDesc") (SizeOf "CUDA_RESOURCE_VIEW_DESC");
              Write (Val "return_value") (SizeOf "CUresult")] |}.

Definition handle_cuSurfObjectCreate : handler := {|
  h_name := "cuSurfObjectCreate";
  h_locals := [Zeroed "pSurfObject" "CUsurfObject"; Zeroed "pResDesc" "CUDA_RESOURCE_DESC"];
  h_async := false;
  h_reads := [Read (Val "pSurfObject") (SizeOf "CUsurfObject");
              Read (Val "pResDesc") (SizeOf "CUDA_RESOURCE_DESC")];
  h_rewrites := [];
  h_call := [AddrOf "pSurfObject" []; AddrOf "pResDesc" []];
  h_reply := [Write (Val "pSurfObject") (SizeOf "CUsurfObject");
              Write (Val "return_value") (SizeOf "CUresult")] |}.

Definition handle_cuSurfObjectDestroy : handler := {|
  h_name := "cuSurfObjectDestroy";
  h_locals := [Uninit "surfObject" "CUsurfObject"];
  h_async := false;
  h_reads := [Read (Val "surfObject") (SizeOf "CUsurfObject")];
  h_rewrites := [];
  h_call := [ByVal "surfObject"];
  h_reply := [Write (Val "return_value") (SizeOf "CUresult")] |}.

Definition handle_cuSurfObjectGetResourceDesc : handler := {|
  h_name := "cuSurfObjectGetResourceDesc";
  h_locals := [Zeroed "pResDesc" "CUDA_RESOURCE_DESC"; Uninit "surfObject" "CUsurfObject"];
  h_async := false;
  h_reads := [Read (Val "pResDesc") (SizeOf "CUDA_RESOURCE_DESC");
              Read (Val "surfObject") (SizeOf "CUsurfObject")];
  h_rewrites := [];
  h_call := [AddrOf "pResDesc" []; ByVal "surfObject"];
  h_reply := [Write (Val "pResDesc") (SizeOf "CUDA_RESOURCE_DESC");
              Write (Val "return_value") (SizeOf "CUresult")] |}.

Definition handle_cuTensorMapReplaceAddress : handler := {|
  h_name := "cuTensorMapReplaceAddress";
  h_locals := [Zeroed "tensorMap" "CUtensorMap"; Uninit "globalAddress" "void *"];
  h_async := false;
  h_reads := [Read (Val "tensorMap") (SizeOf "CUtensorMap");
              Read (Val "globalAddress") (SizeOf "void *")];
  h_rewrites := [];
  h_call := [AddrOf "tensorMap" []; ByVal "globalAddress"];
  h_reply := [Write (Val "tensorMap") (SizeOf "CUtensorMap");
              Write (Val "return_value") (SizeOf "CUresult")] |}.

Definition handle_cuDeviceCanAccessPeer : handler := {|
  h_name := "cuDeviceCanAccessPeer";
  h_locals := [Zeroed "canAccessPeer" "int";
               Uninit "dev" "CUdevice";
               Uninit "peerDev" "CUdevice"];
  h_async := false;
  h_reads := [Read (Val "canAccessPeer") (SizeOf "int");
              Read (Val "dev") (SizeOf "CUdevice");
              Read (Val "peerDev") (SizeOf "CUdevice")];
  h_rewrites := [];
  h_call := [AddrOf "canAccessPeer" []; ByVal "dev"; ByVal "peerDev"];
  h_reply := [Write (Val "canAccessPeer") (SizeOf "int");
              Write (Val "return_value") (SizeOf "CUresult")] |}.

Definition handle_cuCtxEnablePeerAccess : handler := {|
  h_name := "cuCtxEnablePeerAccess";
  h_locals := [Uninit "peerContext" "CUcontext"; Uninit "Flags" "unsigned int"];
  h_async := false;
  h_reads := [Read (Val "peerContext") (SizeOf "CUcontext");
              Read (Val "Flags") (SizeOf "unsigned int")];
  h_rewrites := [];
  h_call := [ByVal "peerContext"; ByVal "Flags"];
  h_reply := [Write (Val "return_value") (SizeOf "CUresult")] |}.

Definition handle_cuCtxDisablePeerAccess : handler := {|
  h_name := "cuCtxDisablePeerAccess";
  h_locals := [Uninit "peerContext" "CUcontext"];
  h_async := false;
  h_reads := [Read (Val "peerContext") (SizeOf "CUcontext")];
  h_rewrites := [];
  h_call := [ByVal "peerContext"];
  h_reply := [Write (Val "return_value") (SizeOf "CUresult")] |}.

Definition handle_cuDeviceGetP2PAttribute : handler := {|
  h_name := "cuDeviceGetP2PAttribute";
  h_locals := [Zeroed "value" "int";
               Uninit "attrib" "CUdevice_P2PAttribute";
               Uninit "srcDevice" "CUdevice";
               Uninit "dstDevice" "CUdevice"];
  h_async := false;
  h_reads := [Read (Val "value") (SizeOf "int");
              Read (Val "attrib") (SizeOf "CUdevice_P2PAttribute");
              Read (Val "srcDevice") (SizeOf "CUdevice");
              Read (Val "dstDevice") (SizeOf "CUdevice")];
  h_rewrites := [];
  h_call := [AddrOf "value" []; ByVal "attrib"; ByVal "srcDevice"; ByVal "dstDevice"];
  h_reply := [Write (Val "value") (SizeOf "int");
              Write (Val "return_value") (SizeOf "CUresult")] |}.

Definition handle_cuGraphicsUnregisterResource : handler := {|
  h_name := "cuGraphicsUnregisterResource";
  h_locals := [Uninit "resource" "CUgraphicsResource"];
  h_async := false;
  h_reads := [Read (Val "resource") (SizeOf "CUgraphicsResource")];
  h_rewrites := [];
  h_call := [ByVal "resource"];
  h_reply := [Write (Val "return_value") (SizeOf "CUresult")] |}.

Definition handle_cuGraphicsSubResourceGetMappedArray : handler := {|
  h_name := "cuGraphicsSubResourceGetMappedArray";
  h_locals := [Zeroed "pArray" "CUarray";
               Uninit "resource" "CUgraphicsResource";
               Uninit "arrayIndex" "unsigned int";
               Uninit "mipLevel" "unsigned int"];
  h_async := false;
  h_reads := [Read (Val "pArray") (SizeOf "CUarray");
              Read (Val "resource") (SizeOf "CUgraphicsResource");
              Read (Val "arrayIndex") (SizeOf "unsigned int");
              Read (Val "mipLevel") (SizeOf "unsigned int")];
  h_rewrites := [];
  h_call := [AddrOf "pArray" []; ByVal "resource"; ByVal "arrayIndex"; ByVal "mipLevel"];
  h_reply := [Write (Val "pArray") (SizeOf "CUarray");
              Write (Val "return_value") (SizeOf "CUresult")] |}.

Definition handle_cuGraphicsResourceGetMappedMipmappedArray : handler := {|
  h_name := "cuGraphicsResourceGetMappedMipmappedArray";
  h_locals := [Zeroed "pMipmappedArray" "CUmipmappedArray";
               Uninit "resource" "CUgraphicsResource"];
  h_async := false;
  h_reads := [Read (Val "pMipmappedArray") (SizeOf "CUmipmappedArray");
              Read (Val "resource") (SizeOf "CUgraphicsResource")];
  h_rewrites := [];
  h_call := [AddrOf "pMipmappedArray" []; ByVal "resource"];
  h_reply := [Write (Val "pMipmappedArray") (SizeOf "CUmipmappedArray");
              Write (Val "return_value") (SizeOf "CUresult")] |}.

Definition handle_cuGraphicsResourceGetMappedPointer_v2 : handler := {|
  h_name := "cuGraphicsResourceGetMappedPointer_v2";
  h_locals := [Zeroed "pDevPtr" "CUdeviceptr";
               Zeroed "pSize" "size_t";
               Uninit "resource" "CUgraphicsResource"];
  h_async := false;
  h_reads := [Read (Val "pDevPtr") (SizeOf "CUdeviceptr");
              Read (Val "pSize") (SizeOf "size_t");
              Read (Val "resource") (SizeOf "CUgraphicsResource")];
  h_rewrites := [];
  h_call := [AddrOf "pDevPtr" []; AddrOf "pSize" []; ByVal "resource"];
  h_reply := [Write (Val "pDevPtr") (SizeOf "CUdeviceptr");
              Write (Val "pSize") (SizeOf "size_t");
              Write (Val "return_value") (SizeOf "CUresult")] |}.

Definition handle_cuGraphicsResourceSetMapFlags_v2 : handler := {|
  h_name := "cuGraphicsResourceSetMapFlags_v2";
  h_locals := [Uninit "resource" "CUgraphicsResource"; Uninit "flags" "unsigned int"];
  h_async := false;
  h_reads := [Read (Val "resource") (SizeOf "CUgraphicsResource");
              Read (Val "flags") (SizeOf "unsigned int")];
  h_rewrites := [];
  h_call := [ByVal "resource"; ByVal "flags"];
  h_reply := [Write (Val "return_value") (SizeOf "CUresult")] |}.

Definition handle_cuGraphicsMapResources : handler := {|
  h_name := "cuGraphicsMapResources";
  h_locals := [Uninit "count" "unsigned int";
               NullPtr "resources";
               Uninit "resources_size" "size_t";
               Uninit "hStream" "CUstream"];
  h_async := false;
  h_reads := [Read (Val "count") (SizeOf "unsigned int");
              Let "resources_size" "size_t" (Mul (Load "unsigned int" (Val "count")) (SizeOf "CUgraphicsResource"));
              Alloc "resources" (Load "size_t" (Val "resources_size")) false;
              Fail (And (Not (Eq (Load "size_t" (Val "resources_size")) (Num 0))) (IsNull (Ref "resources")));
              When (Not (Eq (Load "size_t" (Val "resources_size")) (Num 0))) (Read (Ref "resources") (Load "size_t" (Val "resources_size")));
              Read (Val "hStream") (SizeOf "CUstream")];
  h_rewrites := [];
  h_call := [ByVal "count";
             UnlessZero (Mul (Load "unsigned int" (Val "count")) (SizeOf "CUgraphicsResource")) (BufPtr "resources");
             ByVal "hStream"];
  h_reply := [Write (Val "return_value") (SizeOf "CUresult")] |}.

Definition handle_cuGraphicsUnmapResources : handler := {|
  h_name := "cuGraphicsUnmapResources";
  h_locals := [Uninit "count" "unsigned int";
               NullPtr "resources";
               Uninit "resources_size" "size_t";
               Uninit "hStream" "CUstream"];
  h_async := false;
  h_reads := [Read (Val "count") (SizeOf "unsigned int");
              Let "resources_size" "size_t" (Mul (Load "unsigned int" (Val "count")) (SizeOf "CUgraphicsResource"));
              Alloc "resources" (Load "size_t" (Val "resources_size")) false;
              Fail (And (Not (Eq (Load "size_t" (Val "resources_size")) (Num 0))) (IsNull (Ref "resources")));
              When (Not (Eq (Load "size_t" (Val "resources_size")) (Num 0))) (Read (Ref "resources") (Load "size_t" (Val "resources_size")));
              Read (Val "hStream") (SizeOf "CUstream")];
  h_rewrites := [];
  h_call := [ByVal "count";
             UnlessZero (Mul (Load "unsigned int" (Val "count")) (SizeOf "CUgraphicsResource")) (BufPtr "resources");
             ByVal "hStream"];
  h_reply := [Write (Val "return_value") (SizeOf "CUresult")] |}.

Definition handle_cuCoredumpGetAttributeGlobal : handler := {|
  h_name := "cuCoredumpGetAttributeGlobal";
  h_locals := [Uninit "attrib" "CUcoredumpSettings";
               Zeroed "size" "size_t";
               NullPtr "value"];
  h_async := false;
  h_reads := [Read (Val "attrib") (SizeOf "CUcoredumpSettings");
              Read (Val "size") (SizeOf "size_t");
              Alloc "value" (Load "size_t" (Val "size")) true;
              Fail (And (Not (Eq (Load "size_t" (Val "size")) (Num 0))) (IsNull (Ref "value")))];
  h_rewrites := [];
  h_call := [ByVal "attrib";
             UnlessZero (Load "size_t" (Val "size")) (BufPtr "value");
             AddrOf "size" []];
  h_reply := [Write (Val "size") (SizeOf "size_t");
              Write (Ref "value") (Load "size_t" (Val "size"));
              Write (Val "return_value") (SizeOf "CUresult")] |}.

Definition handle_cuCoredumpSetAttributeGlobal : handler := {|
  h_name := "cuCoredumpSetAttributeGlobal";
  h_locals := [Uninit "attrib" "CUcoredumpSettings";
               Zeroed "size" "size_t";
               NullPtr "value";
               Uninit "value_size" "size_t"];
  h_async := false;
  h_reads := [Read (Val "attrib") (SizeOf "CUcoredumpSettings");
              Read (Val "size") (SizeOf "size_t");
              Let "value_size" "size_t" (Load "size_t" (Val "size"));
              Alloc "value" (Load "size_t" (Val "value_size")) false;
              Fail (And (Not (Eq (Load "size_t" (Val "value_size")) (Num 0))) (IsNull (Ref "value")));
              When (Not (Eq (Load "size_t" (Val "value_size")) (Num 0))) (Read (Ref "value") (Load "size_t" (Val "value_size")))];
  h_rewrites := [];
  h_call := [ByVal "attrib";
             UnlessZero (Load "size_t" (Val "size")) (BufPtr "value");
             AddrOf "size" []];
  h_reply := [Write (Val "size") (SizeOf "size_t");
              Write (Val "return_value") (SizeOf "CUresult")] |}.

Definition handle_cuGreenCtxCreate : handler := {|
  h_name := "cuGreenCtxCreate";
  h_locals := [Zeroed "phCtx" "CUgreenCtx";
               Uninit "desc" "CUdevResourceDesc";
               Uninit "dev" "CUdevice";
               Uninit "flags" "unsigned int"];
  h_async := false;
  h_reads := [Read (Val "desc") (SizeOf "CUdevResourceDesc");
              Read (Val "dev") (SizeOf "CUdevice");
              Read (Val "flags") (SizeOf "unsigned int")];
  h_rewrites := [];
  h_call := [AddrOf "phCtx" []; ByVal "desc"; ByVal "dev"; ByVal "flags"];
  h_reply := [Write (Val "phCtx") (SizeOf "CUgreenCtx");
              Write (Val "return_value") (SizeOf "CUresult")] |}.

Definition handle_cuGreenCtxDestroy : handler := {|
  h_name := "cuGreenCtxDestroy";
  h_locals := [Uninit "hCtx" "CUgreenCtx"];
  h_async := false;
  h_reads := [Read (Val "hCtx") (SizeOf "CUgreenCtx")];
  h_rewrites := [];
  h_call := [ByVal "hCtx"];
  h_reply := [Write (Val "return_value") (SizeOf "CUresult")] |}.

Definition handle_cuCtxFromGreenCtx : handler := {|
  h_name := "cuCtxFromGreenCtx";
  h_locals := [Zeroed "pContext" "CUcontext"; Uninit "hCtx" "CUgreenCtx"];
  h_async := false;
  h_reads := [Read (Val "hCtx") (SizeOf "CUgreenCtx")];
  h_rewrites := [];
  h_call := [AddrOf "pContext" []; ByVal "hCtx"];
  h_reply := [Write (Val "pContext") (SizeOf "CUcontext");
              Write (Val "return_value") (SizeOf "CUresult")] |}.

Definition handle_cuDeviceGetDevResource : handler := {|
  h_name := "cuDeviceGetDevResource";
  h_locals := [Uninit "device" "CUdevice";
               Zeroed "resource" "CUdevResource";
               Uninit "type" "CUdevResourceType"];
  h_async := false;
  h_reads := [Read (Val "device") (SizeOf "CUdevice");
              Read (Val "type") (SizeOf "CUdevResourceType")];
  h_rewrites := [];
  h_call := [ByVal "device"; AddrOf "resource" []; ByVal "type"];
  h_reply := [Write (Val "resource") (SizeOf "CUdevResource");
              Write (Val "return_value") (SizeOf "CUresult")] |}.

Definition handle_cuCtxGetDevResource : handler := {|
  h_name := "cuCtxGetDevResource";
  h_locals := [Uninit "hCtx" "CUcontext";
               Zeroed "resource" "CUdevResource";
               Uninit "type" "CUdevResourceType"];
  h_async := false;
  h_reads := [Read (Val "hCtx") (SizeOf "CUcontext");
              Read (Val "type") (SizeOf "CUdevResourceType")];
  h_rewrites := [];
  h_call := [ByVal "hCtx"; AddrOf "resource" []; ByVal "type"];
  h_reply := [Write (Val "resource") (SizeOf "CUdevResource");
              Write (Val "return_value") (SizeOf "CUresult")] |}.

Definition handle_cuGreenCtxGetDevResource : handler := {|
  h_name := "cuGreenCtxGetDevResource";
  h_locals := [Uninit "hCtx" "CUgreenCtx";
               Zeroed "resource" "CUdevResource";
               Uninit "type" "CUdevResourceType"];
  h_async := false;
  h_reads := [Read (Val "hCtx") (SizeOf "CUgreenCtx");
              Read (Val "type") (SizeOf "CUdevResourceType")];
  h_rewrites := [];
  h_call := [ByVal "hCtx"; AddrOf "resource" []; ByVal "type"];
  h_reply := [Write (Val "resource") (SizeOf "CUdevResource");
              Write (Val "return_value") (SizeOf "CUresult")] |}.

Definition handle_cuDevSmResourceSplitByCount : handler := {|
  h_name := "cuDevSmResourceSplitByCount";
  h_locals := [Zeroed "nbGroups" "unsigned int";
               Zeroed "nbGroups_requested" "unsigned int";
               NullPtr "result";
               Zeroed "result_null" "uint8_t";
               Zeroed "input" "CUdevResource";
               Zeroed "remainder_present" "uint8_t";
               Uninit "remainder" "CUdevResource";
               Uninit "flags" "unsigned int";
               Uninit "minCount" "unsigned int"];
  h_async := false;
  h_reads := [Read (Val "nbGroups_requested") (SizeOf "unsigned int");
              Let "nbGroups" "unsigned int" (Load "unsigned int" (Val "nbGroups_requested"));
              Read (Val "result_null") (SizeOf "uint8_t");
              When (Not (Load "uint8_t" (Val "result_null"))) (Calloc "result" (Cond (Not (Eq (Load "unsigned int" (Val "nbGroups_requested")) (Num 0))) (Load "unsigned int" (Val "nbGroups_requested")) (Num 1)) (SizeOf "CUdevResource"));
              Fail (And (Not (Load "uint8_t" (Val "result_null"))) (IsNull (Ref "result")));
              Read (Val "input") (SizeOf "CUdevResource");
              Read (Val "remainder_present") (SizeOf "uint8_t");
              When (Load "uint8_t" (Val "remainder_present")) (Read (Val "remainder") (SizeOf "CUdevResource"));
              Read (Val "flags") (SizeOf "unsigned int");
              Read (Val "minCount") (SizeOf "unsigned int")];
  h_rewrites := [];
  h_call := [BufPtr "result";
             AddrOf "nbGroups" [];
             AddrOf "input" [];
             IfArg (Load "uint8_t" (Val "remainder_present")) (AddrOf "remainder" []);
             ByVal "flags";
             ByVal "minCount"];
  h_reply := [Write (Val "nbGroups") (SizeOf "unsigned int");
              When (Not (Load "uint8_t" (Val "result_null"))) (Write (Ref "result") (Mul (Cond (Lt (Load "unsigned int" (Val "nbGroups")) (Load "unsigned int" (Val "nbGroups_requested"))) (Load "unsigned int" (Val "nbGroups")) (Load "unsigned int" (Val "nbGroups_requested"))) (SizeOf "CUdevResource")));
              When (Load "uint8_t" (Val "remainder_present")) (Write (Val "remainder") (SizeOf "CUdevResource"));
              Write (Val "return_value") (SizeOf "CUresult")] |}.

Definition handle_cuDevSmResourceSplit : handler := {|
  h_name := "cuDevSmResourceSplit";
  h_locals := [Uninit "nbGroups" "unsigned int";
               NullPtr "result";
               Zeroed "result_null" "uint8_t";
               Zeroed "input" "CUdevResource";
               Zeroed "remainder_present" "uint8_t";
               Uninit "remainder" "CUdevResource";
               Uninit "flags" "unsigned int";
               NullPtr "groupParams";
               Uninit "groupParams_size" "size_t"];
  h_async := false;
  h_reads := [Read (Val "nbGroups") (SizeOf "unsigned int");
              Read (Val "result_null") (SizeOf "uint8_t");
              When (Not (Load "uint8_t" (Val "result_null"))) (Calloc "result" (Cond (Not (Eq (Load "unsigned int" (Val "nbGroups")) (Num 0))) (Load "unsigned int" (Val "nbGroups")) (Num 1)) (SizeOf "CUdevResource"));
              Fail (And (Not (Load "uint8_t" (Val "result_null"))) (IsNull (Ref "result")));
              Read (Val "input") (SizeOf "CUdevResource");
              Read (Val "remainder_present") (SizeOf "uint8_t");
              When (Load "uint8_t" (Val "remainder_present")) (Read (Val "remainder") (SizeOf "CUdevResource"));
              Read (Val "flags") (SizeOf "unsigned int");
              Let "groupParams_size" "size_t" (Mul (Load "unsigned int" (Val "nbGroups")) (SizeOf "CU_DEV_SM_RESOURCE_GROUP_PARAMS"));
              Alloc "groupParams" (Load "size_t" (Val "groupParams_size")) false;
              Fail (And (Not (Eq (Load "size_t" (Val "groupParams_size")) (Num 0))) (IsNull (Ref "groupParams")));
              When (Not (Eq (Load "size_t" (Val "groupParams_size")) (Num 0))) (Read (Ref "groupParams") (Load "size_t" (Val "groupParams_size")))];
  h_rewrites := [];
  h_call := [BufPtr "result";
             ByVal "nbGroups";
             AddrOf "input" [];
             IfArg (Load "uint8_t" (Val "remainder_present")) (AddrOf "remainder" []);
             ByVal "flags";
             UnlessZero (Mul (Load "unsigned int" (Val "nbGroups")) (SizeOf "CU_DEV_SM_RESOURCE_GROUP_PARAMS")) (BufPtr "groupParams")];
  h_reply := [When (Not (Load "uint8_t" (Val "result_null"))) (Write (Ref "result") (Mul (Load "unsigned int" (Val "nbGroups")) (SizeOf "CUdevResource")));
              When (Load "uint8_t" (Val "remainder_present")) (Write (Val "remainder") (SizeOf "CUdevResource"));
              Write (Ref "groupParams") (Mul (Load "unsigned int" (Val "nbGroups")) (SizeOf "CU_DEV_SM_RESOURCE_GROUP_PARAMS"));
              Write (Val "return_value") (SizeOf "CUresult")] |}.

Definition handle_cuDevResourceGenerateDesc : handler := {|
  h_name := "cuDevResourceGenerateDesc";
  h_locals := [Uninit "nbResources" "unsigned int";
               NullPtr "resources";
               Uninit "resources_size" "size_t";
               Zeroed "phDesc" "CUdevResourceDesc"];
  h_async := false;
  h_reads := [Read (Val "nbResources") (SizeOf "unsigned int");
              Let "resources_size" "size_t" (Mul (Load "unsigned int" (Val "nbResources")) (SizeOf "CUdevResource"));
              Alloc "resources" (Load "size_t" (Val "resources_size")) false;
              Fail (And (Not (Eq (Load "size_t" (Val "resources_size")) (Num 0))) (IsNull (Ref "resources")));
              When (Not (Eq (Load "size_t" (Val "resources_size")) (Num 0))) (Read (Ref "resources") (Load "size_t" (Val "resources_size")))];
  h_rewrites := [];
  h_call := [AddrOf "phDesc" [];
             UnlessZero (Mul (Load "unsigned int" (Val "nbResources")) (SizeOf "CUdevResource")) (BufPtr "resources");
             ByVal "nbResources"];
  h_reply := [Write (Val "phDesc") (SizeOf "CUdevResourceDesc");
              Write (Val "return_value") (SizeOf "CUresult")] |}.

Definition handle_cuGreenCtxRecordEvent : handler := {|
  h_name := "cuGreenCtxRecordEvent";
  h_locals := [Uninit "hCtx" "CUgreenCtx"; Uninit "hEvent" "CUevent"];
  h_async := false;
  h_reads := [Read (Val "hCtx") (SizeOf "CUgreenCtx");
              Read (Val "hEvent") (SizeOf "CUevent")];
  h_rewrites := [];
  h_call := [ByVal "hCtx"; ByVal "hEvent"];
  h_reply := [Write (Val "return_value") (SizeOf "CUresult")] |}.

Definition handle_cuGreenCtxWaitEvent : handler := {|
  h_name := "cuGreenCtxWaitEvent";
  h_locals := [Uninit "hCtx" "CUgreenCtx"; Uninit "hEvent" "CUevent"];
  h_async := false;
  h_reads := [Read (Val "hCtx") (SizeOf "CUgreenCtx");
              Read (Val "hEvent") (SizeOf "CUevent")];
  h_rewrites := [];
  h_call := [ByVal "hCtx"; ByVal "hEvent"];
  h_reply := [Write (Val "return_value") (SizeOf "CUresult")] |}.

Definition handle_cuStreamGetGreenCtx : handler := {|
  h_name := "cuStreamGetGreenCtx";
  h_locals := [Uninit "hStream" "CUstream"; Zeroed "phCtx" "CUgreenCtx"];
  h_async := false;
  h_reads := [Read (Val "hStream") (SizeOf "CUstream")];
  h_rewrites := [];
  h_call := [ByVal "hStream"; AddrOf "phCtx" []];
  h_reply := [Write (Val "phCtx") (SizeOf "CUgreenCtx");
              Write (Val "return_value") (SizeOf "CUresult")] |}.

Definition handle_cuGreenCtxStreamCreate : handler := {|
  h_name := "cuGreenCtxStreamCreate";
  h_locals := [Zeroed "phStream" "CUstream";
               Uninit "greenCtx" "CUgreenCtx";
               Uninit "flags" "unsigned int";
               Uninit "priority" "int"];
  h_async := false;
  h_reads := [Read (Val "greenCtx") (SizeOf "CUgreenCtx");
              Read (Val "flags") (SizeOf "unsigned int");
              Read (Val "priority") (SizeOf "int")];
  h_rewrites := [];
  h_call := [AddrOf "phStream" []; ByVal "greenCtx"; ByVal "flags"; ByVal "priority"];
  h_reply := [Write (Val "phStream") (SizeOf "CUstream");
              Write (Val "return_value") (SizeOf "CUresult")] |}.

Definition handle_cuGreenCtxGetId : handler := {|
  h_name := "cuGreenCtxGetId";
  h_locals := [Uninit "greenCtx" "CUgreenCtx"; Zeroed "greenCtxId" "unsigned long long"];
  h_async := false;
  h_reads := [Read (Val "greenCtx") (SizeOf "CUgreenCtx")];
  h_rewrites := [];
  h_call := [ByVal "greenCtx"; AddrOf "greenCtxId" []];
  h_reply := [Write (Val "greenCtxId") (SizeOf "unsigned long long");
              Write (Val "return_value") (SizeOf "CUresult")] |}.

Definition handle_cuStreamGetDevResource : handler := {|
  h_name := "cuStreamGetDevResource";
  h_locals := [Uninit "hStream" "CUstream";
               Zeroed "resource" "CUdevResource";
               Uninit "type" "CUdevResourceType"];
  h_async := false;
  h_reads := [Read (Val "hStream") (SizeOf "CUstream");
              Read (Val "type") (SizeOf "CUdevResourceType")];
  h_rewrites := [];
  h_call := [ByVal "hStream"; AddrOf "resource" []; ByVal "type"];
  h_reply := [Write (Val "resource") (SizeOf "CUdevResource");
              Write (Val "return_value") (SizeOf "CUresult")] |}.

Definition handle_cuLogsCurrent : handler := {|
  h_name := "cuLogsCurrent";
  h_locals := [Zeroed "iterator_out_present" "uint8_t";
               Uninit "iterator_out" "CUlogIterator";
               Uninit "flags" "unsigned int"];
  h_async := false;
  h_reads := [Read (Val "iterator_out_present") (SizeOf "uint8_t");
              When (Load "uint8_t" (Val "iterator_out_present")) (Read (Val "iterator_out") (SizeOf "CUlogIterator"));
              Read (Val "flags") (SizeOf "unsigned int")];
  h_rewrites := [];
  h_call := [IfArg (Load "uint8_t" (Val "iterator_out_present")) (AddrOf "iterator_out" []);
             ByVal "flags"];
  h_reply := [When (Load "uint8_t" (Val "iterator_out_present")) (Write (Val "iterator_out") (SizeOf "CUlogIterator"));
              Write (Val "return_value") (SizeOf "CUresult")] |}.

Definition handle_cuLogsDumpToFile : handler := {|
  h_name := "cuLogsDumpToFile";
  h_locals := [Zeroed "iterator_present" "uint8_t";
               Uninit "iterator" "CUlogIterator";
               NullPtr "pathToFile";
               Uninit "pathToFile_len" "size_t";
               Uninit "flags" "unsigned int"];
  h_async := false;
  h_reads := [Read (Val "iterator_present") (SizeOf "uint8_t");
              When (Load "uint8_t" (Val "iterator_present")) (Read (Val "iterator") (SizeOf "CUlogIterator"));
              Read (Val "pathToFile_len") (SizeOf "size_t");
              Alloc "pathToFile" (Load "size_t" (Val "pathToFile_len")) false;
              Fail (And (Not (Eq (Load "size_t" (Val "pathToFile_len")) (Num 0))) (IsNull (Ref "pathToFile")));
              Read (Ref "pathToFile") (Load "size_t" (Val "pathToFile_len"));
              Read (Val "flags") (SizeOf "unsigned int")];
  h_rewrites := [];
  h_call := [IfArg (Load "uint8_t" (Val "iterator_present")) (AddrOf "iterator" []);
             BufPtr "pathToFile";
             ByVal "flags"];
  h_reply := [When (Load "uint8_t" (Val "iterator_present")) (Write (Val "iterator") (SizeOf "CUlogIterator"));
              Write (Val "return_value") (SizeOf "CUresult")] |}.

Definition handle_cuLogsDumpToMemory : handler := {|
  h_name := "cuLogsDumpToMemory";
  h_locals := [Zeroed "iterator_present" "uint8_t";
               Uninit "iterator" "CUlogIterator";
               Zeroed "size" "size_t";
               Zeroed "size_requested" "size_t";
               NullPtr "buffer";
               Zeroed "buffer_null" "uint8_t";
               Uninit "flags" "unsigned int"];
  h_async := false;
  h_reads := [Read (Val "iterator_present") (SizeOf "uint8_t");
              When (Load "uint8_t" (Val "iterator_present")) (Read (Val "iterator") (SizeOf "CUlogIterator"));
              Read (Val "size_requested") (SizeOf "size_t");
              Let "size" "size_t" (Load "size_t" (Val "size_requested"));
              Read (Val "buffer_null") (SizeOf "uint8_t");
              When (Not (Load "uint8_t" (Val "buffer_null"))) (Calloc "buffer" (Cond (Not (Eq (Load "size_t" (Val "size_requested")) (Num 0))) (Load "size_t" (Val "size_requested")) (Num 1)) (SizeOf "char"));
              Fail (And (Not (Load "uint8_t" (Val "buffer_null"))) (IsNull (Ref "buffer")));
              Read (Val "flags") (SizeOf "unsigned int")];
  h_rewrites := [];
  h_call := [IfArg (Load "uint8_t" (Val "iterator_present")) (AddrOf "iterator" []);
             BufPtr "buffer";
             AddrOf "size" [];
             ByVal "flags"];
  h_reply := [When (Load "uint8_t" (Val "iterator_present")) (Write (Val "iterator") (SizeOf "CUlogIterator"));
              Write (Val "size") (SizeOf "size_t");
              When (Not (Load "uint8_t" (Val "buffer_null"))) (Write (Ref "buffer") (Mul (Cond (Lt (Load "size_t" (Val "size")) (Load "size_t" (Val "size_requested"))) (Load "size_t" (Val "size")) (Load "size_t" (Val "size_requested"))) (SizeOf "char")));
              Write (Val "return_value") (SizeOf "CUresult")] |}.

Definition handle_cuMemPrefetchAsync : handler := {|
  h_name := "cuMemPrefetchAsync";
  h_locals := [Uninit "devPtr" "CUdeviceptr";
               Uninit "count" "size_t";
               Uninit "dstDevice" "CUdevice";
               Uninit "hStream" "CUstream"];
  h_async := false;
  h_reads := [Read (Val "devPtr") (SizeOf "CUdeviceptr");
              Read (Val "count") (SizeOf "size_t");
              Read (Val "dstDevice") (SizeOf "CUdevice");
              Read (Val "hStream") (SizeOf "CUstream")];
  h_rewrites := [];
  h_call := [ByVal "devPtr"; ByVal "count"; ByVal "dstDevice"; ByVal "hStream"];
  h_reply := [Write (Val "return_value") (SizeOf "CUresult")] |}.

Definition handle_cuMemAdvise : handler := {|
  h_name := "cuMemAdvise";
  h_locals := [Uninit "devPtr" "CUdeviceptr";
               Uninit "count" "size_t";
               Uninit "advice" "CUmem_advise";
               Uninit "device" "CUdevice"];
  h_async := false;
  h_reads := [Read (Val "devPtr") (SizeOf "CUdeviceptr");
              Read (Val "count") (SizeOf "size_t");
              Read (Val "advice") (SizeOf "CUmem_advise");
              Read (Val "device") (SizeOf "CUdevice")];
  h_rewrites := [];
  h_call := [ByVal "devPtr"; ByVal "count"; ByVal "advice"; ByVal "device"];
  h_reply := [Write (Val "return_value") (SizeOf "CUresult")] |}.

Definition handlers : list handler :=
  [handle_cuInit;
   handle_cuDriverGetVersion;
   handle_cuDeviceGet;
   handle_cuDeviceGetCount;
   handle_cuDeviceGetName;
   handle_cuDeviceGetUuid_v2;
   handle_cuDeviceGetLuid;
   handle_cuDeviceTotalMem_v2;
   handle_cuDeviceGetTexture1DLinearMaxWidth;
   handle_cuDeviceGetAttribute;
   handle_cuDeviceSetMemPool;
   handle_cuDeviceGetMemPool;
   handle_cuDeviceGetDefaultMemPool;
   handle_cuDeviceGetExecAffinitySupport;
   handle_cuFlushGPUDirectRDMAWrites;
   handle_cuDeviceGetProperties;
   handle_cuDeviceComputeCapability;
   handle_cuDevicePrimaryCtxSetFlags_v2;
   handle_cuDevicePrimaryCtxGetState;
   handle_cuCtxPushCurrent_v2;
   handle_cuCtxPopCurrent_v2;
   handle_cuCtxSetCurrent;
   handle_cuCtxGetCurrent;
   handle_cuCtxGetDevice;
   handle_cuCtxGetDevice_v2;
   handle_cuCtxGetFlags;
   handle_cuCtxGetId;
   handle_cuCtxSetLimit;
   handle_cuCtxGetLimit;
   handle_cuCtxGetCacheConfig;
   handle_cuCtxSetCacheConfig;
   handle_cuCtxGetApiVersion;
   handle_cuCtxGetStreamPriorityRange;
   handle_cuCtxResetPersistingL2Cache;
   handle_cuCtxGetExecAffinity;
   handle_cuCtxRecordEvent;
   handle_cuCtxWaitEvent;
   handle_cuCtxGetSharedMemConfig;
   handle_cuCtxSetSharedMemConfig;
   handle_cuModuleUnload;
   handle_cuModuleGetLoadingMode;
   handle_cuModuleGetFunction;
   handle_cuModuleGetTexRef;
   handle_cuModuleGetSurfRef;
   handle_cuLibraryGetKernel;
   handle_cuKernelGetFunction;
   handle_cuKernelGetLibrary;
   handle_cuLibraryGetGlobal;
   handle_cuLibraryGetManaged;
   handle_cuLibraryGetUnifiedFunction;
   handle_cuKernelGetAttribute;
   handle_cuKernelSetAttribute;
   handle_cuKernelSetCacheConfig;
   handle_cuKernelGetParamInfo;
   handle_cuMemGetInfo_v2;
   handle_cuMemAlloc_v2;
   handle_cuMemAllocPitch_v2;
   handle_cuMemGetAddressRange_v2;
   handle_cuMemAllocHost_v2;
   handle_cuMemHostGetDevicePointer_v2;
   handle_cuDeviceGetByPCIBusId;
   handle_cuDeviceGetPCIBusId;
   handle_cuIpcGetEventHandle;
   handle_cuIpcOpenEventHandle;
   handle_cuIpcGetMemHandle;
   handle_cuIpcOpenMemHandle_v2;
   handle_cuIpcCloseMemHandle;
   handle_cuMemcpy;
   handle_cuMemcpyPeer;
   handle_cuMemcpyDtoD_v2;
   handle_cuMemcpyDtoA_v2;
   handle_cuMemcpyAtoD_v2;
   handle_cuMemcpyAtoA_v2;
   handle_cuMemcpyPeerAsync;
   handle_cuMemcpyDtoDAsync_v2;
   handle_cuMemsetD8_v2;
   handle_cuMemsetD16_v2;
   handle_cuMemsetD32_v2;
   handle_cuMemsetD2D8_v2;
   handle_cuMemsetD2D16_v2;
   handle_cuMemsetD2D32_v2;
   handle_cuMemsetD8Async;
   handle_cuMemsetD16Async;
   handle_cuMemsetD32Async;
   handle_cuMemsetD2D8Async;
   handle_cuMemsetD2D16Async;
   handle_cuMemsetD2D32Async;
   handle_cuArrayCreate_v2;
   handle_cuArrayGetDescriptor_v2;
   handle_cuArrayGetSparseProperties;
   handle_cuMipmappedArrayGetSparseProperties;
   handle_cuArrayGetMemoryRequirements;
   handle_cuMipmappedArrayGetMemoryRequirements;
   handle_cuArrayGetPlane;
   handle_cuArrayDestroy;
   handle_cuArray3DCreate_v2;
   handle_cuArray3DGetDescriptor_v2;
   handle_cuMipmappedArrayCreate;
   handle_cuMipmappedArrayGetLevel;
   handle_cuMipmappedArrayDestroy;
   handle_cuMemGetHandleForAddressRange;
   handle_cuMemAddressReserve;
   handle_cuMemAddressFree;
   handle_cuMemCreate;
   handle_cuMemRelease;
   handle_cuMemMap;
   handle_cuMemMapArrayAsync;
   handle_cuMemUnmap;
   handle_cuMemSetAccess;
   handle_cuMemGetAccess;
   handle_cuMemGetAllocationGranularity;
   handle_cuMemGetAllocationPropertiesFromHandle;
   handle_cuMemRetainAllocationHandle;
   handle_cuMemFreeAsync;
   handle_cuMemAllocAsync;
   handle_cuMemPoolTrimTo;
   handle_cuMemPoolSetAccess;
   handle_cuMemPoolGetAccess;
   handle_cuMemPoolCreate;
   handle_cuMemPoolDestroy;
   handle_cuMemAllocFromPoolAsync;
   handle_cuMemPoolExportPointer;
   handle_cuMemPoolImportPointer;
   handle_cuMemPrefetchAsync_v2;
   handle_cuMemAdvise_v2;
   handle_cuMemRangeGetAttribute;
   handle_cuStreamCreate;
   handle_cuStreamCreateWithPriority;
   handle_cuStreamGetPriority;
   handle_cuStreamGetDevice;
   handle_cuStreamGetFlags;
   handle_cuStreamGetId;
   handle_cuStreamGetCtx;
   handle_cuThreadExchangeStreamCaptureMode;
   handle_cuStreamIsCapturing;
   handle_cuStreamAttachMemAsync;
   handle_cuStreamDestroy_v2;
   handle_cuStreamCopyAttributes;
   handle_cuStreamGetAttribute;
   handle_cuStreamSetAttribute;
   handle_cuEventCreate;
   handle_cuImportExternalMemory;
   handle_cuExternalMemoryGetMappedBuffer;
   handle_cuExternalMemoryGetMappedMipmappedArray;
   handle_cuDestroyExternalMemory;
   handle_cuImportExternalSemaphore;
   handle_cuSignalExternalSemaphoresAsync;
   handle_cuWaitExternalSemaphoresAsync;
   handle_cuDestroyExternalSemaphore;
   handle_cuStreamWaitValue32_v2;
   handle_cuStreamWaitValue64_v2;
   handle_cuStreamWriteValue32_v2;
   handle_cuStreamWriteValue64_v2;
   handle_cuStreamBatchMemOp_v2;
   handle_cuFuncGetAttribute;
   handle_cuFuncSetAttribute;
   handle_cuFuncSetCacheConfig;
   handle_cuFuncGetModule;
   handle_cuFuncGetParamInfo;
   handle_cuFuncSetBlockShape;
   handle_cuFuncSetSharedSize;
   handle_cuParamSetSize;
   handle_cuParamSeti;
   handle_cuParamSetf;
   handle_cuParamSetv;
   handle_cuLaunch;
   handle_cuLaunchGrid;
   handle_cuLaunchGridAsync;
   handle_cuParamSetTexRef;
   handle_cuFuncSetSharedMemConfig;
   handle_cuGraphCreate;
   handle_cuGraphMemcpyNodeGetParams;
   handle_cuGraphMemcpyNodeSetParams;
   handle_cuGraphMemsetNodeGetParams;
   handle_cuGraphMemsetNodeSetParams;
   handle_cuGraphAddChildGraphNode;
   handle_cuGraphChildGraphNodeGetGraph;
   handle_cuGraphAddEmptyNode;
   handle_cuGraphAddEventRecordNode;
   handle_cuGraphEventRecordNodeGetEvent;
   handle_cuGraphEventRecordNodeSetEvent;
   handle_cuGraphAddEventWaitNode;
   handle_cuGraphEventWaitNodeGetEvent;
   handle_cuGraphEventWaitNodeSetEvent;
   handle_cuGraphAddExternalSemaphoresSignalNode;
   handle_cuGraphExternalSemaphoresSignalNodeGetParams;
   handle_cuGraphExternalSemaphoresSignalNodeSetParams;
   handle_cuGraphAddExternalSemaphoresWaitNode;
   handle_cuGraphExternalSemaphoresWaitNodeGetParams;
   handle_cuGraphExternalSemaphoresWaitNodeSetParams;
   handle_cuGraphAddBatchMemOpNode;
   handle_cuGraphBatchMemOpNodeGetParams;
   handle_cuGraphBatchMemOpNodeSetParams;
   handle_cuGraphExecBatchMemOpNodeSetParams;
   handle_cuGraphAddMemAllocNode;
   handle_cuGraphMemAllocNodeGetParams;
   handle_cuGraphAddMemFreeNode;
   handle_cuGraphMemFreeNodeGetParams;
   handle_cuDeviceGraphMemTrim;
   handle_cuGraphNodeFindInClone;
   handle_cuGraphNodeGetType;
   handle_cuGraphNodeGetContainingGraph;
   handle_cuGraphNodeGetLocalId;
   handle_cuGraphNodeGetToolsId;
   handle_cuGraphGetId;
   handle_cuGraphExecGetId;
   handle_cuGraphGetNodes;
   handle_cuGraphGetRootNodes;
   handle_cuGraphGetEdges_v2;
   handle_cuGraphNodeGetDependencies_v2;
   handle_cuGraphNodeGetDependentNodes_v2;
   handle_cuGraphDestroyNode;
   handle_cuGraphExecGetFlags;
   handle_cuGraphExecMemcpyNodeSetParams;
   handle_cuGraphExecMemsetNodeSetParams;
   handle_cuGraphExecChildGraphNodeSetParams;
   handle_cuGraphExecEventRecordNodeSetEvent;
   handle_cuGraphExecEventWaitNodeSetEvent;
   handle_cuGraphExecExternalSemaphoresSignalNodeSetParams;
   handle_cuGraphExecExternalSemaphoresWaitNodeSetParams;
   handle_cuGraphNodeSetEnabled;
   handle_cuGraphNodeGetEnabled;
   handle_cuGraphUpload;
   handle_cuGraphKernelNodeCopyAttributes;
   handle_cuGraphKernelNodeGetAttribute;
   handle_cuGraphKernelNodeSetAttribute;
   handle_cuGraphDebugDotPrint;
   handle_cuUserObjectRetain;
   handle_cuUserObjectRelease;
   handle_cuGraphRetainUserObject;
   handle_cuGraphReleaseUserObject;
   handle_cuGraphNodeSetParams;
   handle_cuGraphExecNodeSetParams;
   handle_cuOccupancyMaxActiveBlocksPerMultiprocessor;
   handle_cuOccupancyMaxActiveBlocksPerMultiprocessorWithFlags;
   handle_cuOccupancyAvailableDynamicSMemPerBlock;
   handle_cuOccupancyMaxPotentialClusterSize;
   handle_cuOccupancyMaxActiveClusters;
   handle_cuTexRefSetArray;
   handle_cuTexRefSetMipmappedArray;
   handle_cuTexRefSetAddress_v2;
   handle_cuTexRefSetAddress2D_v3;
   handle_cuTexRefSetFormat;
   handle_cuTexRefSetAddressMode;
   handle_cuTexRefSetFilterMode;
   handle_cuTexRefSetMipmapFilterMode;
   handle_cuTexRefSetMipmapLevelBias;
   handle_cuTexRefSetMipmapLevelClamp;
   handle_cuTexRefSetMaxAnisotropy;
   handle_cuTexRefSetBorderColor;
   handle_cuTexRefSetFlags;
   handle_cuTexRefGetAddress_v2;
   handle_cuTexRefGetArray;
   handle_cuTexRefGetMipmappedArray;
   handle_cuTexRefGetAddressMode;
   handle_cuTexRefGetFilterMode;
   handle_cuTexRefGetFormat;
   handle_cuTexRefGetMipmapFilterMode;
   handle_cuTexRefGetMipmapLevelBias;
   handle_cuTexRefGetMipmapLevelClamp;
   handle_cuTexRefGetMaxAnisotropy;
   handle_cuTexRefGetBorderColor;
   handle_cuTexRefGetFlags;
   handle_cuTexRefCreate;
   handle_cuTexRefDestroy;
   handle_cuSurfRefSetArray;
   handle_cuSurfRefGetArray;
   handle_cuTexObjectCreate;
   handle_cuTexObjectDestroy;
   handle_cuTexObjectGetResourceDesc;
   handle_cuTexObjectGetTextureDesc;
   handle_cuTexObjectGetResourceViewDesc;
   handle_cuSurfObjectCreate;
   handle_cuSurfObjectDestroy;
   handle_cuSurfObjectGetResourceDesc;
   handle_cuTensorMapReplaceAddress;
   handle_cuDeviceCanAccessPeer;
   handle_cuCtxEnablePeerAccess;
   handle_cuCtxDisablePeerAccess;
   handle_cuDeviceGetP2PAttribute;
   handle_cuGraphicsUnregisterResource;
   handle_cuGraphicsSubResourceGetMappedArray;
   handle_cuGraphicsResourceGetMappedMipmappedArray;
   handle_cuGraphicsResourceGetMappedPointer_v2;
   handle_cuGraphicsResourceSetMapFlags_v2;
   handle_cuGraphicsMapResources;
   handle_cuGraphicsUnmapResources;
   handle_cuCoredumpGetAttributeGlobal;
   handle_cuCoredumpSetAttributeGlobal;
   handle_cuGreenCtxCreate;
   handle_cuGreenCtxDestroy;
   handle_cuCtxFromGreenCtx;
   handle_cuDeviceGetDevResource;
   handle_cuCtxGetDevResource;
   handle_cuGreenCtxGetDevResource;
   handle_cuDevSmResourceSplitByCount;
   handle_cuDevSmResourceSplit;
   handle_cuDevResourceGenerateDesc;
   handle_cuGreenCtxRecordEvent;
   handle_cuGreenCtxWaitEvent;
   handle_cuStreamGetGreenCtx;
   handle_cuGreenCtxStreamCreate;
   handle_cuGreenCtxGetId;
   handle_cuStreamGetDevResource;
   handle_cuLogsCurrent;
   handle_cuLogsDumpToFile;
   handle_cuLogsDumpToMemory;
   handle_cuMemPrefetchAsync;
   handle_cuMemAdvise].
