(* ===== verification/Stubs.v ===== *)
(** * The generated CUDA calls

    The client stubs of [codegen/gen_cuda_client.cpp] against the handlers of
    [codegen/gen_cuda_server.cpp].  The checks of [StubSafe], [StubAgree] and [StubCall] are
    evaluated on all of them; their soundness turns the results into statements about every
    request and every driver. *)
From S2P Require Import Prelude RpcIds Registry Stub StubSafe StubAgree StubCall StubRefine StubClient StubServer.

(** ** The pairs *)

Definition handler_of (c : client_stub) : option handler :=
  List.find (fun h => String.eqb (h_name h) (c_name c)) handlers.

Definition stub_pairs : list (client_stub * handler) :=
  omap (fun c => h ← handler_of c; Some (c, h)) client_stubs.

(** Calls that translate a node of an instantiated graph before the driver is called; a
    size that the driver may raise; a count of another type. *)
Definition translated_nodes : list string :=
  ["cuGraphExecBatchMemOpNodeSetParams"; "cuGraphExecMemcpyNodeSetParams";
   "cuGraphExecChildGraphNodeSetParams"; "cuGraphExecEventRecordNodeSetEvent";
   "cuGraphExecEventWaitNodeSetEvent"; "cuGraphExecExternalSemaphoresSignalNodeSetParams";
   "cuGraphExecExternalSemaphoresWaitNodeSetParams"; "cuGraphNodeSetEnabled";
   "cuGraphNodeGetEnabled"].
Definition raised_size : string := "cuCoredumpGetAttributeGlobal".
Definition other_pairs : list string :=
  raised_size :: "cuDevSmResourceSplitByCount" :: translated_nodes.

(** Handlers that answer with an array which the driver owns. *)
Definition driver_arrays : list string :=
  ["cuGraphExternalSemaphoresSignalNodeGetParams"; "cuGraphExternalSemaphoresWaitNodeGetParams";
   "cuGraphBatchMemOpNodeGetParams"; "cuGraphMemAllocNodeGetParams"].

Lemma pairs_ok :
  forallb (fun '(c, h) => bool_decide (c_name c ∈ other_pairs) || pair_ok c h) stub_pairs = true.
Proof. by vm_cast_no_check (@eq_refl bool true). Qed.

Lemma handlers_safe :
  forallb (fun h => bool_decide (h_name h ∈ raised_size :: driver_arrays) || safe_handler h) handlers
  = true.
Proof. by vm_cast_no_check (@eq_refl bool true). Qed.

Lemma clients_room :
  forallb (fun c => bool_decide (c_name c = raised_size) || room_checked c) client_stubs = true.
Proof. by vm_cast_no_check (@eq_refl bool true). Qed.

Lemma clients_same_bookkeeping :
  forallb (fun c => bool_decide (c_local c = c_after c)) client_stubs = true.
Proof. by vm_cast_no_check (@eq_refl bool true). Qed.

Lemma stub_pairs_client c h : (c, h) ∈ stub_pairs -> c ∈ client_stubs /\ handler_of c = Some h.
Proof.
  unfold stub_pairs. generalize client_stubs. intros l Hin.
  apply list_elem_of_omap in Hin as (c' & Hc & Hp).
  destruct (handler_of c') as [h'|] eqn:Hh; simplify_eq/=. done.
Qed.

(** ** Types of a driver call *)

Inductive well_typed `{CTypes} : param -> argument -> Prop :=
| typed_value x t v : length v = sizeof t -> well_typed (ByValue x t) (AVal v)
| typed_null x fs : well_typed (Pointer x fs) ANull
| typed_pointer x fs v subs : subs.*1 = fs -> well_typed (Pointer x fs) (APtr v subs).

Fixpoint pointer_typed (fs : list string) (a : call_arg) : bool :=
  match a with
  | ByVal _ => false
  | AddrOf _ fs' => bool_decide (fs = fs')
  | BufPtr _ => bool_decide (fs = [])
  | UnlessZero _ a | IfArg _ a => pointer_typed fs a
  end.

Definition arg_typed (l : list fact) (p : param) (a : call_arg) : bool :=
  match p, a with
  | ByValue _ t, ByVal y => has (Len (Val y) (SizeOf t)) l
  | Pointer _ fs, a => pointer_typed fs a
  | _, _ => false
  end.

Fixpoint args_typed (l : list fact) (ps : list param) (args : list call_arg) : bool :=
  match ps, args with
  | [], [] => true
  | p :: ps, a :: args => arg_typed l p a && args_typed l ps args
  | _, _ => false
  end.

Definition call_typed (c : client_stub) (h : handler) : bool :=
  bool_decide (h_name h = c_name c) &&
  match l ← safe_steps (h_reads h) (fold_right local_facts [] (h_locals h));
        rewrites_facts (h_rewrites h) l with
  | Some l => args_typed l (c_params c) (h_call h)
  | None => false
  end.

Lemma calls_typed : forallb (fun '(c, h) => call_typed c h) stub_pairs = true.
Proof. by vm_cast_no_check (@eq_refl bool true). Qed.

Section Typing.
Context {types : CTypes} {types_ok : CTypesLaws} {allocator : Allocator}.
Context {dev : Driver} {dev_ok : DriverLaws}.

Lemma pointer_typed_ok r x fs a :
  pointer_typed fs a = true -> well_typed (Pointer x fs) (arg_value r a).
Proof.
  induction a as [y|y fs'|b|n a IH|e a IH]; simpl; intros Ht; try done.
  - apply bool_decide_eq_true_1 in Ht as <-. constructor. rewrite <- list_fmap_compose.
    apply list_fmap_id.
  - apply bool_decide_eq_true_1 in Ht as ->. case_match; by constructor.
  - case_match; [by apply IH|constructor].
  - case_match; [by apply IH|constructor].
Qed.

Lemma args_typed_ok r l : Forall (fact_ok r) l ->
  forall ps args, args_typed l ps args = true -> Forall2 well_typed ps (arg_value r <$> args).
Proof.
  intros Hl. induction ps as [|p ps IH]; intros [|a args] Ht; simpl in *; try done.
  apply andb_true_iff in Ht as [Ha Ht]. constructor; [|by apply IH].
  destruct p as [x t|x fs]; [|by apply pointer_typed_ok]. destruct a as [y| | | |]; try done.
  apply has_in in Ha. rewrite Forall_forall in Hl. specialize (Hl _ Ha). simpl in Hl.
  rewrite size_of_sizeof in Hl. constructor. by destruct (r (Val y)).
Qed.

Lemma call_typed_ok c h bytes k reply rest :
  call_typed c h = true -> serve h bytes = Served k reply rest ->
  call_name k = c_name c /\ Forall2 well_typed (c_params c) (call_args k).
Proof.
  unfold call_typed, serve, calling_env. intros [<-%bool_decide_eq_true_1 Ht]%andb_true_iff Hs.
  destruct (safe_steps _ _) as [l|] eqn:Hl; [|done]. simpl in Ht.
  destruct (rewrites_facts _ _) as [l'|] eqn:Hl'; [|done].
  pose proof (safe_steps_ok _ _ _ (State (start_env (h_locals h)) bytes []) Hl (local_facts_ok _)) as Hok.
  destruct (run (h_reads h) _) as [s|s|]; [|done|done]. simpl in Hok.
  pose proof (rewrites_ok _ _ _ _ Hl' Hok) as Hok'.
  assert (k = Call (h_name h) (arg_value (fold_left (fun r w => rewrite_env w r) (h_rewrites h) (st_env s))
                                 <$> h_call h)) as ->
    by (repeat case_match; by simplify_eq).
  split; [done|]. by apply (args_typed_ok _ l').
Qed.

End Typing.

(** ** A platform *)

(** Sizes of the types on x86-64, a server with memory, and a driver that leaves the
    number [n] at the start of whatever it is given and reports success. *)
Module Example.

Definition int_types : list string := ["int"; "CUresult"; "CUdevice"].
Definition four_byte_types : list string := ["unsigned int"; "CUcoredumpSettings"] ++ int_types.

#[export] Instance types : CTypes := {|
  sizeof t := if bool_decide (t = "uint8_t") then 1%nat
              else if bool_decide (t ∈ four_byte_types) then 4%nat else 8%nat;
  signed t := bool_decide (t ∈ int_types);
  member _ _ _ := 0 |}.

#[export] Instance types_ok : CTypesLaws.
Proof.
  split; try reflexivity.
  - intros t. unfold sizeof, types. repeat case_bool_decide; lia.
  - intros t Ht. unfold unsigned_types in Ht. repeat apply elem_of_cons in Ht as [->|Ht]; try done.
    by apply not_elem_of_nil in Ht.
Qed.

#[export] Instance memory : Allocator := {| has_memory _ := true; garbage := 170 |}.

Definition left_behind (n : Z) (v : list byte) : list byte :=
  take (length v) (le_bytes 8 n ++ replicate (length v) 0).

Definition leaving (n : Z) : Driver := {|
  next_sequence := 7;
  driver _ args :=
    (le_bytes 4 0,
     (fun a => match a with APtr v subs => APtr (left_behind n v) subs | a => a end) <$> args);
  htod_graph_exec_node _ v := v;
  private_function v := v |}.

Lemma leaving_ok n : @DriverLaws types (leaving n).
Proof.
  split; try done. intros name args. simpl. apply Forall2_fmap_r, Forall_Forall2_diag.
  apply Forall_forall. intros [v| |v subs] _; constructor; [|done].
  unfold left_behind. rewrite length_take, length_app, length_replicate. lia.
Qed.

#[export] Instance leaving_one : Driver := leaving 1.
#[export] Instance leaving_one_ok : DriverLaws := leaving_ok 1.

#[export] Instance routes : Routes := {|
  default_route := 0; current_context_route := 0;
  owner_route _ _ := 3; device_route v := Some (3, v); bookkeeping _ _ := 0 |}.

(** An application that calls [cuGraphGetNodes] with room for two nodes. *)
Definition application : obj -> option (list byte) := fun o =>
  match o with
  | Val "hGraph" => Some (le_bytes 8 4096)
  | Val "return_value" => Some (replicate 4 170)
  | Ref "nodes" => Some (replicate 16 9)
  | Ref "numNodes" => Some (le_bytes 8 2)
  | _ => None
  end.

(** One that asks how many nodes there are. *)
Definition counting : obj -> option (list byte) := fun o =>
  match o with Ref "nodes" => None | _ => application o end.

(** The memory with which the RPC starts, and the state after the request was sent. *)
Definition guarded (c : client_stub) (r : obj -> option (list byte)) :=
  match run_guards (c_guards c) r with inr r1 => r1 | inl _ => r end.
Definition sent (c : client_stub) (r : obj -> option (list byte)) : state :=
  match marshal c r with Ok s | Failed s => s | Stuck => State r [] [] end.

Lemma guarded_ok c r :
  match run_guards (c_guards c) r with inr _ => true | inl _ => false end = true ->
  run_guards (c_guards c) r = inr (guarded c r).
Proof. unfold guarded. by destruct (run_guards _ _). Qed.

Lemma sent_ok c r :
  match marshal c r with Ok _ => true | _ => false end = true -> marshal c r = Ok (sent c r).
Proof. unfold sent. by destruct (marshal _ _). Qed.

(** An application that asks for the memory pool of device 0, and its memory after the RPC. *)
Definition pool_memory : obj -> option (list byte) := fun o =>
  match o with
  | Val "dev" => Some (le_bytes 4 0)
  | Ref "pool" => Some (replicate 8 0)
  | _ => None
  end.
Definition pool_call :=
  remote_call cuDeviceGetMemPool handle_cuDeviceGetMemPool
    (upd (Val "return_value") (Some (replicate (sizeof "CUresult") garbage))
       (upd (Val "dev") (Some (le_bytes 4 0)) pool_memory)).
Definition pool_left := match pool_call with Some (_, r, _) => r | None => pool_memory end.

Lemma pool_completed :
  match pool_call with Some (code, _, completed) => (code =? 0) && completed | None => false end = true ->
  pool_call = Some (0, pool_left, true).
Proof.
  unfold pool_left. destruct pool_call as [[[code r] completed]|]; [|done].
  by intros [->%Z.eqb_eq ->]%andb_true_iff.
Qed.

Definition nodes_memory := guarded cuGraphGetNodes application.
Definition counting_memory := guarded cuGraphGetNodes counting.
Definition nodes_request : list byte := st_out (sent cuGraphGetNodes nodes_memory).

End Example.

(** ** The calls of the application *)

Section Calls.
Context {types : CTypes} {types_ok : CTypesLaws} {allocator : Allocator}.
Context {dev : Driver} {dev_ok : DriverLaws}.

(** C3: Refinement, for 222 generated functions: when the early returns of the stub pass, its
    pointers have the memory it sends and receives and the handler has no reason to refuse,
    the handler takes exactly the request off its lane and calls the driver once with the
    arguments of the application; the application receives that call's result and outputs and
    nothing else of its memory changes ([carried_out]).  Any driver, any argument values. *)
Theorem generated_calls_transparent c h r r1 s :
  (forall n, has_memory n = true) ->
  (c, h) ∈ stub_pairs -> c_name c ∉ other_pairs ->
  run_guards (c_guards c) r = inr r1 -> marshal c r1 = Ok s -> accepted c h r1 ->
  (c_async c = false -> room_ok c r1 = true) ->
  carried_out c h r r1 (st_out s).
Proof.
  intros Hmem Hin Hname. pose proof (forallb_elem _ _ _ pairs_ok Hin) as Hok. simpl in Hok.
  rewrite bool_decide_eq_false_2 in Hok by done. by apply pair_ok_sound.
Qed.

(** C5: Safety: whatever bytes arrive on its lane, a generated handler reads and writes inside
    its objects; the five exceptions answer with a length that the driver chose. *)
Theorem generated_handlers_memory_safe h bytes :
  h ∈ handlers -> h_name h ∉ raised_size :: driver_arrays -> serve h bytes <> Overrun.
Proof.
  intros Hin Hname. pose proof (forallb_elem _ _ _ handlers_safe Hin) as Hok. simpl in Hok.
  rewrite bool_decide_eq_false_2 in Hok by done. by apply safe_handler_sound.
Qed.

(** Type: whatever bytes arrive, the driver function that a generated handler calls is the
    one its client names, with as many arguments, each value of its type's size, each
    pointer null or with the arrays behind its members. *)
Theorem generated_calls_well_typed c h bytes k reply rest :
  (c, h) ∈ stub_pairs -> serve h bytes = Served k reply rest ->
  call_name k = c_name c /\ Forall2 well_typed (c_params c) (call_args k).
Proof.
  intros Hin. apply call_typed_ok. exact (forallb_elem _ _ _ calls_typed Hin).
Qed.

(** C6: Bounds: whatever the server answers, a generated client function that has room for what
    it asks for stays inside the application's objects, and leaves every object that the
    answer is not about as it was. *)
Theorem generated_clients_stay_inside c r bytes :
  c ∈ client_stubs -> c_name c <> raised_size -> room_ok c r = true ->
  match run (c_response c) (State r bytes []) with
  | Ok s | Failed s => answering c r (st_env s)
  | Stuck => False
  end.
Proof.
  intros Hin Hname. pose proof (forallb_elem _ _ _ clients_room Hin) as Hok. simpl in Hok.
  rewrite bool_decide_eq_false_2 in Hok by done. intros Hroom. by apply answer_safe.
Qed.

End Calls.

(** ** Bookkeeping *)

Section Bookkeeping.
Context {types : CTypes} {allocator : Allocator} {dev : Driver} {routes : Routes}.

(** The end of a client function: its bookkeeping on the memory [r] of a completed call. *)
Definition finish (c : client_stub) (route : Z) (r : env)
    : Z * env * list (string * list (list byte)) :=
  let '(events, r') := run_actions route (c_local c) r in (return_value r', r', events).

(** Equivalence: a generated function keeps the same books whether its driver call was
    made locally or by a server: on either route it ends with the bookkeeping of the local
    path applied to the memory that the driver call left. *)
Theorem bookkeeping_route_independent c h r route r1 code r2 :
  c ∈ client_stubs -> choose (c_route c) r = Some (route, r1) ->
  let r1 := upd (Val "return_value") (Some (replicate (sizeof "CUresult") garbage)) r1 in
  let call := driver (c_name c) (param_value r1 <$> c_params c) in
  (route < 0 ->
     client_call c h r = Some (finish c route
       (upd (Val "return_value") (Some call.1) (store_params (c_params c) call.2 r1)))) /\
  (0 <= route -> remote_call c h r1 = Some (code, r2, true) ->
     client_call c h r = Some (finish c route r2)).
Proof.
  intros Hin Hroute. pose proof (forallb_elem _ _ _ clients_same_bookkeeping Hin) as Hbook.
  apply bool_decide_eq_true_1 in Hbook. unfold client_call, finish. rewrite Hroute.
  split; intros Hr.
  - rewrite (proj2 (Z.ltb_lt _ _) Hr). destruct (driver _ _). simpl. by destruct (run_actions _ _ _).
  - rewrite (proj2 (Z.ltb_ge _ _) Hr). intros ->. simpl. rewrite Hbook.
    by destruct (run_actions _ _ _).
Qed.

End Bookkeeping.

(** ** A size that is not checked *)

Section Coredump.
Import Example.

Definition coredump_request : list byte := le_bytes 4 1 ++ le_bytes 8 4.
Definition coredump_application : obj -> option (list byte) := fun o =>
  match o with
  | Val "attrib" => Some (le_bytes 4 1)
  | Val "return_value" => Some (replicate 4 170)
  | Ref "value" => Some (replicate 4 9)
  | Ref "size" => Some (le_bytes 8 4)
  | _ => None
  end.

(** Error: [cuCoredumpGetAttributeGlobal] trusts a size that comes back.  The handler answers
    with as many bytes of its buffer as the driver leaves in [size], also when that is more
    than the buffer has; and the client takes as many bytes into the application's buffer as
    the server says, also when it was given fewer. *)
Theorem coredump_size_unchecked :
  (exists dev : Driver, DriverLaws /\
     serve handle_cuCoredumpGetAttributeGlobal coredump_request = Overrun) /\
  run (c_response cuCoredumpGetAttributeGlobal)
    (State coredump_application (le_bytes 8 5 ++ replicate 5 0 ++ le_bytes 4 0) []) = Stuck.
Proof.
  split; [|vm_compute; reflexivity].
  exists (leaving 5). split; [exact (leaving_ok 5)|]. vm_compute. reflexivity.
Qed.

End Coredump.

(** ** The theorems at work *)

Ltac decided P := apply (bool_decide_eq_true_1 P); vm_compute; reflexivity.

Section Witnesses.
Import Example.

Lemma generated_calls_transparent_witness :
  nodes_request = le_bytes 8 4096 ++ le_bytes 8 2 ++ [0] /\
  carried_out cuGraphGetNodes handle_cuGraphGetNodes application nodes_memory nodes_request.
Proof.
  split; [vm_compute; reflexivity|].
  apply (generated_calls_transparent cuGraphGetNodes handle_cuGraphGetNodes).
  - reflexivity.
  - decided ((cuGraphGetNodes, handle_cuGraphGetNodes) ∈ stub_pairs).
  - decided (c_name cuGraphGetNodes ∉ other_pairs).
  - apply guarded_ok. vm_compute. reflexivity.
  - apply sent_ok. vm_compute. reflexivity.
  - apply accepted_here_ok. vm_compute. reflexivity.
  - intros _. vm_compute. reflexivity.
Defined.

Lemma generated_handlers_memory_safe_witness :
  serve handle_cuGraphGetNodes (replicate 17 255) <> Overrun.
Proof.
  apply (generated_handlers_memory_safe handle_cuGraphGetNodes).
  - decided (handle_cuGraphGetNodes ∈ handlers).
  - decided (h_name handle_cuGraphGetNodes ∉ raised_size :: driver_arrays).
Defined.

Lemma generated_calls_well_typed_witness :
  exists k reply, serve handle_cuGraphGetNodes nodes_request = Served k reply [] /\
    Forall2 well_typed (c_params cuGraphGetNodes) (call_args k).
Proof.
  eexists _, _. split; [vm_compute; reflexivity|].
  eapply (generated_calls_well_typed cuGraphGetNodes handle_cuGraphGetNodes nodes_request).
  - decided ((cuGraphGetNodes, handle_cuGraphGetNodes) ∈ stub_pairs).
  - vm_compute. reflexivity.
Defined.

Lemma generated_clients_stay_inside_witness :
  match run (c_response cuGraphGetNodes) (State nodes_memory (replicate 40 255) []) with
  | Ok s | Failed s => answering cuGraphGetNodes nodes_memory (st_env s)
  | Stuck => False
  end.
Proof.
  apply (generated_clients_stay_inside cuGraphGetNodes nodes_memory (replicate 40 255)).
  - decided (cuGraphGetNodes ∈ client_stubs).
  - decided (c_name cuGraphGetNodes <> raised_size).
  - vm_compute. reflexivity.
Defined.

Lemma bookkeeping_route_independent_witness :
  client_call cuDeviceGetMemPool handle_cuDeviceGetMemPool pool_memory
  = Some (finish cuDeviceGetMemPool 3 pool_left).
Proof.
  apply (bookkeeping_route_independent cuDeviceGetMemPool handle_cuDeviceGetMemPool pool_memory 3
           (upd (Val "dev") (Some (le_bytes 4 0)) pool_memory) 0).
  - decided (cuDeviceGetMemPool ∈ client_stubs).
  - reflexivity.
  - lia.
  - apply pool_completed. vm_compute. reflexivity.
Defined.

End Witnesses.
