(* ===== verification/Symbols.v ===== *)
(** * Symbol resolution

    Applications reach the client through [dlsym] and [cuGetProcAddress], which
    [cuda_client.cpp] interposes: a table of the generated functions
    ([codegen/gen_cuda_client.cpp]), one of the hand-written functions, one of unsupported
    ones, and the loader's own symbols. *)
From S2P Require Import Prelude RpcIds.
From Stdlib Require Import Ascii String.

(** The condition on [CUDA_VERSION] under which an entry is compiled. *)
Inductive version_cond := Always | Since (n : Z) | Before (n : Z).

(** An entry of a table: a name and the function it stands for. *)
Inductive symbol := Sym (c : version_cond) (name function : string).

(** [CUresult name(parameters) { return target(arguments); }]. *)
Inductive forward :=
| Forward (name : string) (parameters : list string) (target : string) (arguments : list string).

(** ** The tables *)

Definition functionMap_1 : list symbol :=
  [Sym Always "cuGetErrorString" "cuGetErrorString";
   Sym Always "cuGetErrorName" "cuGetErrorName";
   Sym Always "cuInit" "cuInit";
   Sym Always "cuDriverGetVersion" "cuDriverGetVersion";
   Sym Always "cuDeviceGet" "cuDeviceGet";
   Sym Always "cuDeviceGetCount" "cuDeviceGetCount";
   Sym Always "cuDeviceGetName" "cuDeviceGetName";
   Sym Always "cuDeviceGetUuid_v2" "cuDeviceGetUuid_v2";
   Sym Always "cuDeviceGetLuid" "cuDeviceGetLuid";
   Sym Always "cuDeviceTotalMem_v2" "cuDeviceTotalMem_v2";
   Sym Always "cuDeviceGetTexture1DLinearMaxWidth" "cuDeviceGetTexture1DLinearMaxWidth";
   Sym Always "cuDeviceGetAttribute" "cuDeviceGetAttribute";
   Sym Always "cuDeviceSetMemPool" "cuDeviceSetMemPool";
   Sym Always "cuDeviceGetMemPool" "cuDeviceGetMemPool";
   Sym Always "cuDeviceGetDefaultMemPool" "cuDeviceGetDefaultMemPool";
   Sym Always "cuDeviceGetExecAffinitySupport" "cuDeviceGetExecAffinitySupport";
   Sym Always "cuFlushGPUDirectRDMAWrites" "cuFlushGPUDirectRDMAWrites";
   Sym Always "cuDeviceGetProperties" "cuDeviceGetProperties";
   Sym Always "cuDeviceComputeCapability" "cuDeviceComputeCapability";
   Sym Always "cuDevicePrimaryCtxRetain" "cuDevicePrimaryCtxRetain";
   Sym Always "cuDevicePrimaryCtxRelease_v2" "cuDevicePrimaryCtxRelease_v2";
   Sym Always "cuDevicePrimaryCtxSetFlags_v2" "cuDevicePrimaryCtxSetFlags_v2";
   Sym Always "cuDevicePrimaryCtxGetState" "cuDevicePrimaryCtxGetState";
   Sym Always "cuDevicePrimaryCtxReset_v2" "cuDevicePrimaryCtxReset_v2";
   Sym Always "cuCtxDestroy_v2" "cuCtxDestroy_v2";
   Sym Always "cuCtxPushCurrent_v2" "cuCtxPushCurrent_v2";
   Sym Always "cuCtxPopCurrent_v2" "cuCtxPopCurrent_v2";
   Sym Always "cuCtxSetCurrent" "cuCtxSetCurrent";
   Sym Always "cuCtxGetCurrent" "cuCtxGetCurrent";
   Sym Always "cuCtxGetDevice" "cuCtxGetDevice";
   Sym (Since 13000) "cuCtxGetDevice_v2" "cuCtxGetDevice_v2";
   Sym Always "cuCtxGetFlags" "cuCtxGetFlags";
   Sym Always "cuCtxGetId" "cuCtxGetId";
   Sym Always "cuCtxSynchronize" "cuCtxSynchronize";
   Sym (Since 13000) "cuCtxSynchronize_v2" "cuCtxSynchronize_v2";
   Sym Always "cuCtxSetLimit" "cuCtxSetLimit";
   Sym Always "cuCtxGetLimit" "cuCtxGetLimit";
   Sym Always "cuCtxGetCacheConfig" "cuCtxGetCacheConfig";
   Sym Always "cuCtxSetCacheConfig" "cuCtxSetCacheConfig";
   Sym Always "cuCtxGetApiVersion" "cuCtxGetApiVersion";
   Sym Always "cuCtxGetStreamPriorityRange" "cuCtxGetStreamPriorityRange";
   Sym Always "cuCtxResetPersistingL2Cache" "cuCtxResetPersistingL2Cache";
   Sym Always "cuCtxGetExecAffinity" "cuCtxGetExecAffinity";
   Sym (Since 12050) "cuCtxRecordEvent" "cuCtxRecordEvent";
   Sym (Since 12050) "cuCtxWaitEvent" "cuCtxWaitEvent";
   Sym Always "cuCtxAttach" "cuCtxAttach";
   Sym Always "cuCtxDetach" "cuCtxDetach";
   Sym Always "cuCtxGetSharedMemConfig" "cuCtxGetSharedMemConfig";
   Sym Always "cuCtxSetSharedMemConfig" "cuCtxSetSharedMemConfig";
   Sym Always "cuModuleLoad" "cuModuleLoad";
   Sym Always "cuModuleLoadData" "cuModuleLoadData";
   Sym Always "cuModuleLoadDataEx" "cuModuleLoadDataEx";
   Sym Always "cuModuleUnload" "cuModuleUnload";
   Sym Always "cuModuleGetLoadingMode" "cuModuleGetLoadingMode";
   Sym Always "cuModuleGetFunction" "cuModuleGetFunction";
   Sym Always "cuModuleGetGlobal_v2" "cuModuleGetGlobal_v2";
   Sym Always "cuLinkCreate_v2" "cuLinkCreate_v2";
   Sym Always "cuLinkAddData_v2" "cuLinkAddData_v2";
   Sym Always "cuLinkAddFile_v2" "cuLinkAddFile_v2";
   Sym Always "cuLinkComplete" "cuLinkComplete";
   Sym Always "cuLinkDestroy" "cuLinkDestroy";
   Sym Always "cuModuleGetTexRef" "cuModuleGetTexRef";
   Sym Always "cuModuleGetSurfRef" "cuModuleGetSurfRef";
   Sym Always "cuLibraryLoadData" "cuLibraryLoadData";
   Sym Always "cuLibraryUnload" "cuLibraryUnload";
   Sym Always "cuLibraryGetKernel" "cuLibraryGetKernel";
   Sym Always "cuLibraryGetModule" "cuLibraryGetModule";
   Sym Always "cuKernelGetFunction" "cuKernelGetFunction";
   Sym Always "cuKernelGetLibrary" "cuKernelGetLibrary";
   Sym Always "cuLibraryGetGlobal" "cuLibraryGetGlobal";
   Sym Always "cuLibraryGetManaged" "cuLibraryGetManaged";
   Sym Always "cuLibraryGetUnifiedFunction" "cuLibraryGetUnifiedFunction";
   Sym Always "cuKernelGetAttribute" "cuKernelGetAttribute";
   Sym Always "cuKernelSetAttribute" "cuKernelSetAttribute";
   Sym Always "cuKernelSetCacheConfig" "cuKernelSetCacheConfig";
   Sym Always "cuKernelGetName" "cuKernelGetName";
   Sym Always "cuKernelGetParamInfo" "cuKernelGetParamInfo";
   Sym Always "cuMemGetInfo_v2" "cuMemGetInfo_v2";
   Sym Always "cuMemAlloc_v2" "cuMemAlloc_v2";
   Sym Always "cuMemAllocPitch_v2" "cuMemAllocPitch_v2";
   Sym Always "cuMemFree_v2" "cuMemFree_v2";
   Sym Always "cuMemGetAddressRange_v2" "cuMemGetAddressRange_v2";
   Sym Always "cuMemAllocHost_v2" "cuMemAllocHost_v2";
   Sym Always "cuMemFreeHost" "cuMemFreeHost";
   Sym Always "cuMemHostAlloc" "cuMemHostAlloc";
   Sym Always "cuMemHostGetDevicePointer_v2" "cuMemHostGetDevicePointer_v2";
   Sym Always "cuMemHostGetFlags" "cuMemHostGetFlags";
   Sym Always "cuMemAllocManaged" "cuMemAllocManaged";
   Sym Always "cuDeviceGetByPCIBusId" "cuDeviceGetByPCIBusId";
   Sym Always "cuDeviceGetPCIBusId" "cuDeviceGetPCIBusId";
   Sym Always "cuIpcGetEventHandle" "cuIpcGetEventHandle";
   Sym Always "cuIpcOpenEventHandle" "cuIpcOpenEventHandle";
   Sym Always "cuIpcGetMemHandle" "cuIpcGetMemHandle";
   Sym Always "cuIpcOpenMemHandle_v2" "cuIpcOpenMemHandle_v2";
   Sym Always "cuIpcCloseMemHandle" "cuIpcCloseMemHandle";
   Sym Always "cuMemcpy" "cuMemcpy";
   Sym Always "cuMemcpyPeer" "cuMemcpyPeer";
   Sym Always "cuMemcpyHtoD_v2" "cuMemcpyHtoD_v2";
   Sym Always "cuMemcpyDtoH_v2" "cuMemcpyDtoH_v2";
   Sym Always "cuMemcpyDtoD_v2" "cuMemcpyDtoD_v2";
   Sym Always "cuMemcpyDtoA_v2" "cuMemcpyDtoA_v2";
   Sym Always "cuMemcpyAtoD_v2" "cuMemcpyAtoD_v2";
   Sym Always "cuMemcpyAtoH_v2" "cuMemcpyAtoH_v2";
   Sym Always "cuMemcpyAtoA_v2" "cuMemcpyAtoA_v2";
   Sym Always "cuMemcpy2D_v2" "cuMemcpy2D_v2";
   Sym Always "cuMemcpy2DUnaligned_v2" "cuMemcpy2DUnaligned_v2";
   Sym Always "cuMemcpy3D_v2" "cuMemcpy3D_v2";
   Sym Always "cuMemcpy3DPeer" "cuMemcpy3DPeer";
   Sym Always "cuMemcpyPeerAsync" "cuMemcpyPeerAsync";
   Sym Always "cuMemcpyHtoDAsync_v2" "cuMemcpyHtoDAsync_v2";
   Sym Always "cuMemcpyDtoHAsync_v2" "cuMemcpyDtoHAsync_v2";
   Sym Always "cuMemcpyDtoDAsync_v2" "cuMemcpyDtoDAsync_v2";
   Sym Always "cuMemcpyAtoHAsync_v2" "cuMemcpyAtoHAsync_v2";
   Sym Always "cuMemcpy2DAsync_v2" "cuMemcpy2DAsync_v2";
   Sym Always "cuMemcpy3DAsync_v2" "cuMemcpy3DAsync_v2";
   Sym Always "cuMemcpy3DPeerAsync" "cuMemcpy3DPeerAsync";
   Sym Always "cuMemsetD8_v2" "cuMemsetD8_v2";
   Sym Always "cuMemsetD16_v2" "cuMemsetD16_v2";
   Sym Always "cuMemsetD32_v2" "cuMemsetD32_v2";
   Sym Always "cuMemsetD2D8_v2" "cuMemsetD2D8_v2";
   Sym Always "cuMemsetD2D16_v2" "cuMemsetD2D16_v2";
   Sym Always "cuMemsetD2D32_v2" "cuMemsetD2D32_v2";
   Sym Always "cuMemsetD8Async" "cuMemsetD8Async";
   Sym Always "cuMemsetD16Async" "cuMemsetD16Async";
   Sym Always "cuMemsetD32Async" "cuMemsetD32Async";
   Sym Always "cuMemsetD2D8Async" "cuMemsetD2D8Async";
   Sym Always "cuMemsetD2D16Async" "cuMemsetD2D16Async";
   Sym Always "cuMemsetD2D32Async" "cuMemsetD2D32Async";
   Sym Always "cuArrayCreate_v2" "cuArrayCreate_v2";
   Sym Always "cuArrayGetDescriptor_v2" "cuArrayGetDescriptor_v2";
   Sym Always "cuArrayGetSparseProperties" "cuArrayGetSparseProperties";
   Sym Always "cuMipmappedArrayGetSparseProperties" "cuMipmappedArrayGetSparseProperties";
   Sym Always "cuArrayGetMemoryRequirements" "cuArrayGetMemoryRequirements";
   Sym Always "cuMipmappedArrayGetMemoryRequirements" "cuMipmappedArrayGetMemoryRequirements";
   Sym Always "cuArrayGetPlane" "cuArrayGetPlane";
   Sym Always "cuArrayDestroy" "cuArrayDestroy";
   Sym Always "cuArray3DCreate_v2" "cuArray3DCreate_v2";
   Sym Always "cuArray3DGetDescriptor_v2" "cuArray3DGetDescriptor_v2"].

Definition functionMap_2 : list symbol :=
  [Sym Always "cuMipmappedArrayCreate" "cuMipmappedArrayCreate";
   Sym Always "cuMipmappedArrayGetLevel" "cuMipmappedArrayGetLevel";
   Sym Always "cuMipmappedArrayDestroy" "cuMipmappedArrayDestroy";
   Sym Always "cuMemGetHandleForAddressRange" "cuMemGetHandleForAddressRange";
   Sym Always "cuMemAddressReserve" "cuMemAddressReserve";
   Sym Always "cuMemAddressFree" "cuMemAddressFree";
   Sym Always "cuMemCreate" "cuMemCreate";
   Sym Always "cuMemRelease" "cuMemRelease";
   Sym Always "cuMemMap" "cuMemMap";
   Sym Always "cuMemMapArrayAsync" "cuMemMapArrayAsync";
   Sym Always "cuMemUnmap" "cuMemUnmap";
   Sym Always "cuMemSetAccess" "cuMemSetAccess";
   Sym Always "cuMemGetAccess" "cuMemGetAccess";
   Sym Always "cuMemExportToShareableHandle" "cuMemExportToShareableHandle";
   Sym Always "cuMemImportFromShareableHandle" "cuMemImportFromShareableHandle";
   Sym Always "cuMemGetAllocationGranularity" "cuMemGetAllocationGranularity";
   Sym Always "cuMemGetAllocationPropertiesFromHandle" "cuMemGetAllocationPropertiesFromHandle";
   Sym Always "cuMemRetainAllocationHandle" "cuMemRetainAllocationHandle";
   Sym Always "cuMemFreeAsync" "cuMemFreeAsync";
   Sym Always "cuMemAllocAsync" "cuMemAllocAsync";
   Sym Always "cuMemPoolTrimTo" "cuMemPoolTrimTo";
   Sym Always "cuMemPoolSetAttribute" "cuMemPoolSetAttribute";
   Sym Always "cuMemPoolGetAttribute" "cuMemPoolGetAttribute";
   Sym Always "cuMemPoolSetAccess" "cuMemPoolSetAccess";
   Sym Always "cuMemPoolGetAccess" "cuMemPoolGetAccess";
   Sym Always "cuMemPoolCreate" "cuMemPoolCreate";
   Sym Always "cuMemPoolDestroy" "cuMemPoolDestroy";
   Sym Always "cuMemAllocFromPoolAsync" "cuMemAllocFromPoolAsync";
   Sym Always "cuMemPoolExportToShareableHandle" "cuMemPoolExportToShareableHandle";
   Sym Always "cuMemPoolImportFromShareableHandle" "cuMemPoolImportFromShareableHandle";
   Sym Always "cuMemPoolExportPointer" "cuMemPoolExportPointer";
   Sym Always "cuMemPoolImportPointer" "cuMemPoolImportPointer";
   Sym Always "cuPointerGetAttribute" "cuPointerGetAttribute";
   Sym (Since 12020) "cuMemPrefetchAsync_v2" "cuMemPrefetchAsync_v2";
   Sym (Since 12020) "cuMemAdvise_v2" "cuMemAdvise_v2";
   Sym Always "cuMemRangeGetAttribute" "cuMemRangeGetAttribute";
   Sym Always "cuMemRangeGetAttributes" "cuMemRangeGetAttributes";
   Sym Always "cuPointerSetAttribute" "cuPointerSetAttribute";
   Sym Always "cuPointerGetAttributes" "cuPointerGetAttributes";
   Sym Always "cuStreamCreate" "cuStreamCreate";
   Sym Always "cuStreamCreateWithPriority" "cuStreamCreateWithPriority";
   Sym Always "cuStreamGetPriority" "cuStreamGetPriority";
   Sym Always "cuStreamGetDevice" "cuStreamGetDevice";
   Sym Always "cuStreamGetFlags" "cuStreamGetFlags";
   Sym Always "cuStreamGetId" "cuStreamGetId";
   Sym Always "cuStreamGetCtx" "cuStreamGetCtx";
   Sym Always "cuStreamWaitEvent" "cuStreamWaitEvent";
   Sym Always "cuStreamAddCallback" "cuStreamAddCallback";
   Sym Always "cuStreamBeginCapture_v2" "cuStreamBeginCapture_v2";
   Sym Always "cuThreadExchangeStreamCaptureMode" "cuThreadExchangeStreamCaptureMode";
   Sym Always "cuStreamEndCapture" "cuStreamEndCapture";
   Sym Always "cuStreamIsCapturing" "cuStreamIsCapturing";
   Sym Always "cuStreamAttachMemAsync" "cuStreamAttachMemAsync";
   Sym Always "cuStreamQuery" "cuStreamQuery";
   Sym Always "cuStreamSynchronize" "cuStreamSynchronize";
   Sym Always "cuStreamDestroy_v2" "cuStreamDestroy_v2";
   Sym Always "cuStreamCopyAttributes" "cuStreamCopyAttributes";
   Sym Always "cuStreamGetAttribute" "cuStreamGetAttribute";
   Sym Always "cuStreamSetAttribute" "cuStreamSetAttribute";
   Sym Always "cuEventCreate" "cuEventCreate";
   Sym Always "cuEventRecord" "cuEventRecord";
   Sym Always "cuEventRecordWithFlags" "cuEventRecordWithFlags";
   Sym Always "cuEventQuery" "cuEventQuery";
   Sym Always "cuEventSynchronize" "cuEventSynchronize";
   Sym Always "cuEventDestroy_v2" "cuEventDestroy_v2";
   Sym Always "cuEventElapsedTime_v2" "cuEventElapsedTime_v2";
   Sym Always "cuImportExternalMemory" "cuImportExternalMemory";
   Sym Always "cuExternalMemoryGetMappedBuffer" "cuExternalMemoryGetMappedBuffer";
   Sym Always "cuExternalMemoryGetMappedMipmappedArray" "cuExternalMemoryGetMappedMipmappedArray";
   Sym Always "cuDestroyExternalMemory" "cuDestroyExternalMemory";
   Sym Always "cuImportExternalSemaphore" "cuImportExternalSemaphore";
   Sym Always "cuSignalExternalSemaphoresAsync" "cuSignalExternalSemaphoresAsync";
   Sym Always "cuWaitExternalSemaphoresAsync" "cuWaitExternalSemaphoresAsync";
   Sym Always "cuDestroyExternalSemaphore" "cuDestroyExternalSemaphore";
   Sym Always "cuStreamWaitValue32_v2" "cuStreamWaitValue32_v2";
   Sym Always "cuStreamWaitValue64_v2" "cuStreamWaitValue64_v2";
   Sym Always "cuStreamWriteValue32_v2" "cuStreamWriteValue32_v2";
   Sym Always "cuStreamWriteValue64_v2" "cuStreamWriteValue64_v2";
   Sym Always "cuStreamBatchMemOp_v2" "cuStreamBatchMemOp_v2";
   Sym Always "cuFuncGetAttribute" "cuFuncGetAttribute";
   Sym Always "cuFuncSetAttribute" "cuFuncSetAttribute";
   Sym Always "cuFuncSetCacheConfig" "cuFuncSetCacheConfig";
   Sym Always "cuFuncGetModule" "cuFuncGetModule";
   Sym Always "cuFuncGetName" "cuFuncGetName";
   Sym Always "cuFuncGetParamInfo" "cuFuncGetParamInfo";
   Sym Always "cuLaunchKernel" "cuLaunchKernel";
   Sym Always "cuLaunchKernelEx" "cuLaunchKernelEx";
   Sym Always "cuLaunchCooperativeKernel" "cuLaunchCooperativeKernel";
   Sym Always "cuLaunchHostFunc" "cuLaunchHostFunc";
   Sym Always "cuFuncSetBlockShape" "cuFuncSetBlockShape";
   Sym Always "cuFuncSetSharedSize" "cuFuncSetSharedSize";
   Sym Always "cuParamSetSize" "cuParamSetSize";
   Sym Always "cuParamSeti" "cuParamSeti";
   Sym Always "cuParamSetf" "cuParamSetf";
   Sym Always "cuParamSetv" "cuParamSetv";
   Sym Always "cuLaunch" "cuLaunch";
   Sym Always "cuLaunchGrid" "cuLaunchGrid";
   Sym Always "cuLaunchGridAsync" "cuLaunchGridAsync";
   Sym Always "cuLaunchCooperativeKernelMultiDevice" "cuLaunchCooperativeKernelMultiDevice";
   Sym Always "cuParamSetTexRef" "cuParamSetTexRef";
   Sym Always "cuFuncSetSharedMemConfig" "cuFuncSetSharedMemConfig";
   Sym Always "cuGraphCreate" "cuGraphCreate";
   Sym Always "cuGraphAddKernelNode_v2" "cuGraphAddKernelNode_v2";
   Sym Always "cuGraphKernelNodeGetParams_v2" "cuGraphKernelNodeGetParams_v2";
   Sym Always "cuGraphKernelNodeSetParams_v2" "cuGraphKernelNodeSetParams_v2";
   Sym Always "cuGraphAddMemcpyNode" "cuGraphAddMemcpyNode";
   Sym Always "cuGraphMemcpyNodeGetParams" "cuGraphMemcpyNodeGetParams";
   Sym Always "cuGraphMemcpyNodeSetParams" "cuGraphMemcpyNodeSetParams";
   Sym Always "cuGraphAddMemsetNode" "cuGraphAddMemsetNode";
   Sym Always "cuGraphMemsetNodeGetParams" "cuGraphMemsetNodeGetParams";
   Sym Always "cuGraphMemsetNodeSetParams" "cuGraphMemsetNodeSetParams";
   Sym Always "cuGraphAddHostNode" "cuGraphAddHostNode";
   Sym Always "cuGraphHostNodeGetParams" "cuGraphHostNodeGetParams";
   Sym Always "cuGraphHostNodeSetParams" "cuGraphHostNodeSetParams";
   Sym Always "cuGraphAddChildGraphNode" "cuGraphAddChildGraphNode";
   Sym Always "cuGraphChildGraphNodeGetGraph" "cuGraphChildGraphNodeGetGraph";
   Sym Always "cuGraphAddEmptyNode" "cuGraphAddEmptyNode";
   Sym Always "cuGraphAddEventRecordNode" "cuGraphAddEventRecordNode";
   Sym Always "cuGraphEventRecordNodeGetEvent" "cuGraphEventRecordNodeGetEvent";
   Sym Always "cuGraphEventRecordNodeSetEvent" "cuGraphEventRecordNodeSetEvent";
   Sym Always "cuGraphAddEventWaitNode" "cuGraphAddEventWaitNode";
   Sym Always "cuGraphEventWaitNodeGetEvent" "cuGraphEventWaitNodeGetEvent";
   Sym Always "cuGraphEventWaitNodeSetEvent" "cuGraphEventWaitNodeSetEvent";
   Sym Always "cuGraphAddExternalSemaphoresSignalNode" "cuGraphAddExternalSemaphoresSignalNode";
   Sym Always "cuGraphExternalSemaphoresSignalNodeGetParams" "cuGraphExternalSemaphoresSignalNodeGetParams";
   Sym Always "cuGraphExternalSemaphoresSignalNodeSetParams" "cuGraphExternalSemaphoresSignalNodeSetParams";
   Sym Always "cuGraphAddExternalSemaphoresWaitNode" "cuGraphAddExternalSemaphoresWaitNode";
   Sym Always "cuGraphExternalSemaphoresWaitNodeGetParams" "cuGraphExternalSemaphoresWaitNodeGetParams";
   Sym Always "cuGraphExternalSemaphoresWaitNodeSetParams" "cuGraphExternalSemaphoresWaitNodeSetParams";
   Sym Always "cuGraphAddBatchMemOpNode" "cuGraphAddBatchMemOpNode";
   Sym Always "cuGraphBatchMemOpNodeGetParams" "cuGraphBatchMemOpNodeGetParams"].

Definition functionMap_3 : list symbol :=
  [Sym Always "cuGraphBatchMemOpNodeSetParams" "cuGraphBatchMemOpNodeSetParams";
   Sym Always "cuGraphExecBatchMemOpNodeSetParams" "cuGraphExecBatchMemOpNodeSetParams";
   Sym Always "cuGraphAddMemAllocNode" "cuGraphAddMemAllocNode";
   Sym Always "cuGraphMemAllocNodeGetParams" "cuGraphMemAllocNodeGetParams";
   Sym Always "cuGraphAddMemFreeNode" "cuGraphAddMemFreeNode";
   Sym Always "cuGraphMemFreeNodeGetParams" "cuGraphMemFreeNodeGetParams";
   Sym Always "cuDeviceGraphMemTrim" "cuDeviceGraphMemTrim";
   Sym Always "cuDeviceGetGraphMemAttribute" "cuDeviceGetGraphMemAttribute";
   Sym Always "cuDeviceSetGraphMemAttribute" "cuDeviceSetGraphMemAttribute";
   Sym Always "cuGraphClone" "cuGraphClone";
   Sym Always "cuGraphNodeFindInClone" "cuGraphNodeFindInClone";
   Sym Always "cuGraphNodeGetType" "cuGraphNodeGetType";
   Sym (Since 13010) "cuGraphNodeGetContainingGraph" "cuGraphNodeGetContainingGraph";
   Sym (Since 13010) "cuGraphNodeGetLocalId" "cuGraphNodeGetLocalId";
   Sym (Since 13010) "cuGraphNodeGetToolsId" "cuGraphNodeGetToolsId";
   Sym (Since 13010) "cuGraphGetId" "cuGraphGetId";
   Sym (Since 13010) "cuGraphExecGetId" "cuGraphExecGetId";
   Sym Always "cuGraphGetNodes" "cuGraphGetNodes";
   Sym Always "cuGraphGetRootNodes" "cuGraphGetRootNodes";
   Sym Always "cuGraphGetEdges_v2" "cuGraphGetEdges_v2";
   Sym Always "cuGraphNodeGetDependencies_v2" "cuGraphNodeGetDependencies_v2";
   Sym Always "cuGraphNodeGetDependentNodes_v2" "cuGraphNodeGetDependentNodes_v2";
   Sym Always "cuGraphDestroyNode" "cuGraphDestroyNode";
   Sym Always "cuGraphInstantiateWithFlags" "cuGraphInstantiateWithFlags";
   Sym Always "cuGraphInstantiateWithParams" "cuGraphInstantiateWithParams";
   Sym Always "cuGraphExecGetFlags" "cuGraphExecGetFlags";
   Sym Always "cuGraphExecKernelNodeSetParams_v2" "cuGraphExecKernelNodeSetParams_v2";
   Sym Always "cuGraphExecMemcpyNodeSetParams" "cuGraphExecMemcpyNodeSetParams";
   Sym Always "cuGraphExecMemsetNodeSetParams" "cuGraphExecMemsetNodeSetParams";
   Sym Always "cuGraphExecHostNodeSetParams" "cuGraphExecHostNodeSetParams";
   Sym Always "cuGraphExecChildGraphNodeSetParams" "cuGraphExecChildGraphNodeSetParams";
   Sym Always "cuGraphExecEventRecordNodeSetEvent" "cuGraphExecEventRecordNodeSetEvent";
   Sym Always "cuGraphExecEventWaitNodeSetEvent" "cuGraphExecEventWaitNodeSetEvent";
   Sym Always "cuGraphExecExternalSemaphoresSignalNodeSetParams" "cuGraphExecExternalSemaphoresSignalNodeSetParams";
   Sym Always "cuGraphExecExternalSemaphoresWaitNodeSetParams" "cuGraphExecExternalSemaphoresWaitNodeSetParams";
   Sym Always "cuGraphNodeSetEnabled" "cuGraphNodeSetEnabled";
   Sym Always "cuGraphNodeGetEnabled" "cuGraphNodeGetEnabled";
   Sym Always "cuGraphUpload" "cuGraphUpload";
   Sym Always "cuGraphLaunch" "cuGraphLaunch";
   Sym Always "cuGraphExecDestroy" "cuGraphExecDestroy";
   Sym Always "cuGraphDestroy" "cuGraphDestroy";
   Sym Always "cuGraphExecUpdate_v2" "cuGraphExecUpdate_v2";
   Sym Always "cuGraphKernelNodeCopyAttributes" "cuGraphKernelNodeCopyAttributes";
   Sym Always "cuGraphKernelNodeGetAttribute" "cuGraphKernelNodeGetAttribute";
   Sym Always "cuGraphKernelNodeSetAttribute" "cuGraphKernelNodeSetAttribute";
   Sym Always "cuGraphDebugDotPrint" "cuGraphDebugDotPrint";
   Sym Always "cuUserObjectRetain" "cuUserObjectRetain";
   Sym Always "cuUserObjectRelease" "cuUserObjectRelease";
   Sym Always "cuGraphRetainUserObject" "cuGraphRetainUserObject";
   Sym Always "cuGraphReleaseUserObject" "cuGraphReleaseUserObject";
   Sym (Since 12020) "cuGraphNodeSetParams" "cuGraphNodeSetParams";
   Sym (Since 12020) "cuGraphExecNodeSetParams" "cuGraphExecNodeSetParams";
   Sym Always "cuOccupancyMaxActiveBlocksPerMultiprocessor" "cuOccupancyMaxActiveBlocksPerMultiprocessor";
   Sym Always "cuOccupancyMaxActiveBlocksPerMultiprocessorWithFlags" "cuOccupancyMaxActiveBlocksPerMultiprocessorWithFlags";
   Sym Always "cuOccupancyMaxPotentialBlockSize" "cuOccupancyMaxPotentialBlockSize";
   Sym Always "cuOccupancyMaxPotentialBlockSizeWithFlags" "cuOccupancyMaxPotentialBlockSizeWithFlags";
   Sym Always "cuOccupancyAvailableDynamicSMemPerBlock" "cuOccupancyAvailableDynamicSMemPerBlock";
   Sym Always "cuOccupancyMaxPotentialClusterSize" "cuOccupancyMaxPotentialClusterSize";
   Sym Always "cuOccupancyMaxActiveClusters" "cuOccupancyMaxActiveClusters";
   Sym Always "cuTexRefSetArray" "cuTexRefSetArray";
   Sym Always "cuTexRefSetMipmappedArray" "cuTexRefSetMipmappedArray";
   Sym Always "cuTexRefSetAddress_v2" "cuTexRefSetAddress_v2";
   Sym Always "cuTexRefSetAddress2D_v3" "cuTexRefSetAddress2D_v3";
   Sym Always "cuTexRefSetFormat" "cuTexRefSetFormat";
   Sym Always "cuTexRefSetAddressMode" "cuTexRefSetAddressMode";
   Sym Always "cuTexRefSetFilterMode" "cuTexRefSetFilterMode";
   Sym Always "cuTexRefSetMipmapFilterMode" "cuTexRefSetMipmapFilterMode";
   Sym Always "cuTexRefSetMipmapLevelBias" "cuTexRefSetMipmapLevelBias";
   Sym Always "cuTexRefSetMipmapLevelClamp" "cuTexRefSetMipmapLevelClamp";
   Sym Always "cuTexRefSetMaxAnisotropy" "cuTexRefSetMaxAnisotropy";
   Sym Always "cuTexRefSetBorderColor" "cuTexRefSetBorderColor";
   Sym Always "cuTexRefSetFlags" "cuTexRefSetFlags";
   Sym Always "cuTexRefGetAddress_v2" "cuTexRefGetAddress_v2";
   Sym Always "cuTexRefGetArray" "cuTexRefGetArray";
   Sym Always "cuTexRefGetMipmappedArray" "cuTexRefGetMipmappedArray";
   Sym Always "cuTexRefGetAddressMode" "cuTexRefGetAddressMode";
   Sym Always "cuTexRefGetFilterMode" "cuTexRefGetFilterMode";
   Sym Always "cuTexRefGetFormat" "cuTexRefGetFormat";
   Sym Always "cuTexRefGetMipmapFilterMode" "cuTexRefGetMipmapFilterMode";
   Sym Always "cuTexRefGetMipmapLevelBias" "cuTexRefGetMipmapLevelBias";
   Sym Always "cuTexRefGetMipmapLevelClamp" "cuTexRefGetMipmapLevelClamp";
   Sym Always "cuTexRefGetMaxAnisotropy" "cuTexRefGetMaxAnisotropy";
   Sym Always "cuTexRefGetBorderColor" "cuTexRefGetBorderColor";
   Sym Always "cuTexRefGetFlags" "cuTexRefGetFlags";
   Sym Always "cuTexRefCreate" "cuTexRefCreate";
   Sym Always "cuTexRefDestroy" "cuTexRefDestroy";
   Sym Always "cuSurfRefSetArray" "cuSurfRefSetArray";
   Sym Always "cuSurfRefGetArray" "cuSurfRefGetArray";
   Sym Always "cuTexObjectCreate" "cuTexObjectCreate";
   Sym Always "cuTexObjectDestroy" "cuTexObjectDestroy";
   Sym Always "cuTexObjectGetResourceDesc" "cuTexObjectGetResourceDesc";
   Sym Always "cuTexObjectGetTextureDesc" "cuTexObjectGetTextureDesc";
   Sym Always "cuTexObjectGetResourceViewDesc" "cuTexObjectGetResourceViewDesc";
   Sym Always "cuSurfObjectCreate" "cuSurfObjectCreate";
   Sym Always "cuSurfObjectDestroy" "cuSurfObjectDestroy";
   Sym Always "cuSurfObjectGetResourceDesc" "cuSurfObjectGetResourceDesc";
   Sym (Since 12000) "cuTensorMapEncodeTiled" "cuTensorMapEncodeTiled";
   Sym (Since 12000) "cuTensorMapEncodeIm2col" "cuTensorMapEncodeIm2col";
   Sym (Since 12000) "cuTensorMapReplaceAddress" "cuTensorMapReplaceAddress";
   Sym Always "cuDeviceCanAccessPeer" "cuDeviceCanAccessPeer";
   Sym Always "cuCtxEnablePeerAccess" "cuCtxEnablePeerAccess";
   Sym Always "cuCtxDisablePeerAccess" "cuCtxDisablePeerAccess";
   Sym Always "cuDeviceGetP2PAttribute" "cuDeviceGetP2PAttribute";
   Sym Always "cuGraphicsUnregisterResource" "cuGraphicsUnregisterResource";
   Sym Always "cuGraphicsSubResourceGetMappedArray" "cuGraphicsSubResourceGetMappedArray";
   Sym Always "cuGraphicsResourceGetMappedMipmappedArray" "cuGraphicsResourceGetMappedMipmappedArray";
   Sym Always "cuGraphicsResourceGetMappedPointer_v2" "cuGraphicsResourceGetMappedPointer_v2";
   Sym Always "cuGraphicsResourceSetMapFlags_v2" "cuGraphicsResourceSetMapFlags_v2";
   Sym Always "cuGraphicsMapResources" "cuGraphicsMapResources";
   Sym Always "cuGraphicsUnmapResources" "cuGraphicsUnmapResources"].

Definition functionMap_4 : list symbol :=
  [Sym (Since 12010) "cuCoredumpGetAttributeGlobal" "cuCoredumpGetAttributeGlobal";
   Sym (Since 12010) "cuCoredumpSetAttributeGlobal" "cuCoredumpSetAttributeGlobal";
   Sym (Since 12040) "cuGreenCtxCreate" "cuGreenCtxCreate";
   Sym (Since 12040) "cuGreenCtxDestroy" "cuGreenCtxDestroy";
   Sym (Since 12040) "cuCtxFromGreenCtx" "cuCtxFromGreenCtx";
   Sym (Since 12040) "cuDeviceGetDevResource" "cuDeviceGetDevResource";
   Sym (Since 12040) "cuCtxGetDevResource" "cuCtxGetDevResource";
   Sym (Since 12040) "cuGreenCtxGetDevResource" "cuGreenCtxGetDevResource";
   Sym (Since 12040) "cuDevSmResourceSplitByCount" "cuDevSmResourceSplitByCount";
   Sym (Since 13010) "cuDevSmResourceSplit" "cuDevSmResourceSplit";
   Sym (Since 12040) "cuDevResourceGenerateDesc" "cuDevResourceGenerateDesc";
   Sym (Since 12040) "cuGreenCtxRecordEvent" "cuGreenCtxRecordEvent";
   Sym (Since 12040) "cuGreenCtxWaitEvent" "cuGreenCtxWaitEvent";
   Sym (Since 12040) "cuStreamGetGreenCtx" "cuStreamGetGreenCtx";
   Sym (Since 12050) "cuGreenCtxStreamCreate" "cuGreenCtxStreamCreate";
   Sym (Since 13000) "cuGreenCtxGetId" "cuGreenCtxGetId";
   Sym (Since 13010) "cuStreamGetDevResource" "cuStreamGetDevResource";
   Sym (Since 12090) "cuLogsRegisterCallback" "cuLogsRegisterCallback";
   Sym (Since 12090) "cuLogsUnregisterCallback" "cuLogsUnregisterCallback";
   Sym (Since 12090) "cuLogsCurrent" "cuLogsCurrent";
   Sym (Since 12090) "cuLogsDumpToFile" "cuLogsDumpToFile";
   Sym (Since 12090) "cuLogsDumpToMemory" "cuLogsDumpToMemory";
   Sym Always "cuGraphInstantiate_v2" "cuGraphInstantiate_v2";
   Sym Always "cuGraphExecUpdate" "cuGraphExecUpdate";
   Sym Always "cuCtxDestroy" "cuCtxDestroy_v2";
   Sym Always "cuModuleGetGlobal" "cuModuleGetGlobal_v2";
   Sym Always "cuMemAlloc" "cuMemAlloc_v2";
   Sym Always "cuMemAllocPitch" "cuMemAllocPitch_v2";
   Sym Always "cuMemcpyDtoD" "cuMemcpyDtoD_v2";
   Sym Always "cuMemcpyDtoDAsync" "cuMemcpyDtoDAsync_v2";
   Sym Always "cuMemsetD8" "cuMemsetD8_v2";
   Sym Always "cuMemsetD2D8" "cuMemsetD2D8_v2";
   Sym Always "cuMemsetD2D16" "cuMemsetD2D16_v2";
   Sym Always "cuMemsetD2D32" "cuMemsetD2D32_v2";
   Sym Always "cuIpcOpenMemHandle" "cuIpcOpenMemHandle_v2";
   Sym Always "cuMemcpyPeer_ptds" "cuMemcpyPeer";
   Sym Always "cuMemcpyPeerAsync_ptsz" "cuMemcpyPeerAsync";
   Sym Always "cuMemsetD8Async_ptsz" "cuMemsetD8Async";
   Sym Always "cuMemsetD16Async_ptsz" "cuMemsetD16Async";
   Sym Always "cuMemsetD32Async_ptsz" "cuMemsetD32Async";
   Sym Always "cuMemsetD2D8Async_ptsz" "cuMemsetD2D8Async";
   Sym Always "cuMemsetD2D16Async_ptsz" "cuMemsetD2D16Async";
   Sym Always "cuMemsetD2D32Async_ptsz" "cuMemsetD2D32Async";
   Sym Always "cuStreamGetPriority_ptsz" "cuStreamGetPriority";
   Sym Always "cuStreamGetId_ptsz" "cuStreamGetId";
   Sym Always "cuStreamGetFlags_ptsz" "cuStreamGetFlags";
   Sym Always "cuStreamGetCtx_ptsz" "cuStreamGetCtx";
   Sym Always "cuStreamAttachMemAsync_ptsz" "cuStreamAttachMemAsync";
   Sym Always "cuStreamQuery_ptsz" "cuStreamQuery";
   Sym Always "cuStreamSynchronize_ptsz" "cuStreamSynchronize";
   Sym Always "cuGraphicsMapResources_ptsz" "cuGraphicsMapResources";
   Sym Always "cuGraphicsUnmapResources_ptsz" "cuGraphicsUnmapResources";
   Sym Always "cuSignalExternalSemaphoresAsync_ptsz" "cuSignalExternalSemaphoresAsync";
   Sym Always "cuWaitExternalSemaphoresAsync_ptsz" "cuWaitExternalSemaphoresAsync";
   Sym Always "cuGraphInstantiateWithParams_ptsz" "cuGraphInstantiateWithParams";
   Sym Always "cuGraphUpload_ptsz" "cuGraphUpload";
   Sym Always "cuGraphLaunch_ptsz" "cuGraphLaunch";
   Sym Always "cuStreamCopyAttributes_ptsz" "cuStreamCopyAttributes";
   Sym Always "cuStreamGetAttribute_ptsz" "cuStreamGetAttribute";
   Sym Always "cuStreamSetAttribute_ptsz" "cuStreamSetAttribute";
   Sym Always "cuMemMapArrayAsync_ptsz" "cuMemMapArrayAsync";
   Sym Always "cuMemFreeAsync_ptsz" "cuMemFreeAsync";
   Sym Always "cuMemAllocAsync_ptsz" "cuMemAllocAsync";
   Sym Always "cuMemAllocFromPoolAsync_ptsz" "cuMemAllocFromPoolAsync";
   Sym (Since 12030) "cuGraphGetEdges" "cuGraphGetEdges_v2";
   Sym (Since 12030) "cuGraphNodeGetDependencies" "cuGraphNodeGetDependencies_v2";
   Sym (Since 12030) "cuGraphNodeGetDependentNodes" "cuGraphNodeGetDependentNodes_v2"].

Definition functionMap : list symbol := functionMap_1 ++ functionMap_2 ++ functionMap_3 ++ functionMap_4.

Definition manual_function_map_1 : list symbol :=
  [Sym (Since 12050) "cuCtxCreate" "cuCtxCreate_v4";
   Sym (Since 12050) "cuCtxCreate_v4" "cuCtxCreate_v4";
   Sym (Before 12050) "cuCtxCreate" "cuCtxCreate_v2";
   Sym Always "cuCtxCreate_v2" "cuCtxCreate_v2";
   Sym Always "cuCtxPushCurrent" "cuCtxPushCurrent_v2";
   Sym Always "cuCtxPopCurrent" "cuCtxPopCurrent_v2";
   Sym Always "cuOccupancyMaxPotentialBlockSize" "cuOccupancyMaxPotentialBlockSize";
   Sym Always "cuOccupancyMaxPotentialBlockSizeWithFlags" "cuOccupancyMaxPotentialBlockSizeWithFlags";
   Sym Always "cuMemExportToShareableHandle" "cuMemExportToShareableHandle";
   Sym Always "cuMemImportFromShareableHandle" "cuMemImportFromShareableHandle";
   Sym Always "cuMemPoolExportToShareableHandle" "cuMemPoolExportToShareableHandle";
   Sym Always "cuMemPoolImportFromShareableHandle" "cuMemPoolImportFromShareableHandle";
   Sym Always "cuProfilerInitialize" "cuProfilerInitialize";
   Sym Always "cuProfilerStart" "cuProfilerStart";
   Sym Always "cuProfilerStop" "cuProfilerStop";
   Sym Always "cuStreamCreateWithPriority" "cuStreamCreateWithPriority";
   Sym Always "cuStreamDestroy" "cuStreamDestroy";
   Sym Always "cuEventDestroy" "cuEventDestroy";
   Sym Always "cuEventDestroy_v2" "cuEventDestroy_v2";
   Sym Always "cuEventElapsedTime" "cuEventElapsedTime";
   Sym Always "cuMemPoolSetAttribute" "cuMemPoolSetAttribute";
   Sym Always "cuMemPoolGetAttribute" "cuMemPoolGetAttribute";
   Sym Always "cuStreamQuery" "cuStreamQuery";
   Sym Always "cuStreamQuery_ptsz" "cuStreamQuery_ptsz";
   Sym Always "cuMemAllocHost" "cuMemAllocHost_v2";
   Sym Always "cuMemAllocHost_v2" "cuMemAllocHost_v2";
   Sym Always "cuMemFree" "cuMemFree_v2";
   Sym Always "cuMemFree_v2" "cuMemFree_v2";
   Sym Always "cuMemFreeHost" "cuMemFreeHost";
   Sym Always "cuMemHostAlloc" "cuMemHostAlloc";
   Sym Always "cuMemHostGetDevicePointer" "cuMemHostGetDevicePointer_v2";
   Sym Always "cuMemHostGetDevicePointer_v2" "cuMemHostGetDevicePointer_v2";
   Sym Always "cuMemHostGetFlags" "cuMemHostGetFlags";
   Sym Always "cuMemHostRegister" "cuMemHostRegister";
   Sym Always "cuMemHostRegister_v2" "cuMemHostRegister_v2";
   Sym Always "cuMemHostUnregister" "cuMemHostUnregister";
   Sym Always "cuMemGetAddressRange" "cuMemGetAddressRange";
   Sym Always "cuMemGetInfo" "cuMemGetInfo";
   Sym Always "cuMemAdvise" "cuMemAdvise";
   Sym Always "cuMemPrefetchAsync" "cuMemPrefetchAsync";
   Sym Always "cuMemPrefetchAsync_ptsz" "cuMemPrefetchAsync_ptsz";
   Sym Always "cuMemRangeGetAttributes" "cuMemRangeGetAttributes";
   Sym Always "cuArrayCreate" "cuArrayCreate_v2";
   Sym Always "cuArrayCreate_v2" "cuArrayCreate_v2";
   Sym Always "cuArray3DCreate" "cuArray3DCreate_v2";
   Sym Always "cuArray3DCreate_v2" "cuArray3DCreate_v2";
   Sym Always "cuArray3DGetDescriptor" "cuArray3DGetDescriptor_v2";
   Sym Always "cuArray3DGetDescriptor_v2" "cuArray3DGetDescriptor_v2";
   Sym Always "cuDeviceGetUuid" "cuDeviceGetUuid_v2";
   Sym Always "cuDeviceTotalMem" "cuDeviceTotalMem_v2";
   Sym Always "cuDevicePrimaryCtxRetain" "cuDevicePrimaryCtxRetain";
   Sym Always "cuDevicePrimaryCtxRelease" "cuDevicePrimaryCtxRelease_v2";
   Sym Always "cuDevicePrimaryCtxRelease_v2" "cuDevicePrimaryCtxRelease_v2";
   Sym Always "cuDevicePrimaryCtxSetFlags" "cuDevicePrimaryCtxSetFlags_v2";
   Sym Always "cuDevicePrimaryCtxReset" "cuDevicePrimaryCtxReset_v2";
   Sym Always "cuDevicePrimaryCtxReset_v2" "cuDevicePrimaryCtxReset_v2";
   Sym Always "cuMemcpyHtoD" "cuMemcpyHtoD_v2";
   Sym Always "cuMemcpyHtoD_v2" "cuMemcpyHtoD_v2";
   Sym Always "cuMemcpy" "cuMemcpy";
   Sym Always "cuMemcpy_ptds" "cuMemcpy";
   Sym Always "cuMemcpyDtoH" "cuMemcpyDtoH_v2";
   Sym Always "cuMemcpyDtoH_v2" "cuMemcpyDtoH_v2";
   Sym Always "cuMemcpyDtoA" "cuMemcpyDtoA_v2";
   Sym Always "cuMemcpyDtoA_v2" "cuMemcpyDtoA_v2";
   Sym Always "cuMemcpyAtoD" "cuMemcpyAtoD_v2";
   Sym Always "cuMemcpyAtoD_v2" "cuMemcpyAtoD_v2";
   Sym Always "cuMemcpyAtoH" "cuMemcpyAtoH_v2";
   Sym Always "cuMemcpyAtoH_v2" "cuMemcpyAtoH_v2";
   Sym Always "cuMemcpyAtoA" "cuMemcpyAtoA_v2";
   Sym Always "cuMemcpyAtoA_v2" "cuMemcpyAtoA_v2";
   Sym Always "cuMemcpy2D" "cuMemcpy2D_v2";
   Sym Always "cuMemcpy2D_v2" "cuMemcpy2D_v2";
   Sym Always "cuMemcpy2DUnaligned" "cuMemcpy2DUnaligned_v2";
   Sym Always "cuMemcpy2DUnaligned_v2" "cuMemcpy2DUnaligned_v2";
   Sym Always "cuMemcpy2DAsync" "cuMemcpy2DAsync_v2";
   Sym Always "cuMemcpy2DAsync_v2" "cuMemcpy2DAsync_v2";
   Sym Always "cuMemcpy2DAsync_ptsz" "cuMemcpy2DAsync_v2";
   Sym Always "cuMemcpy3D" "cuMemcpy3D_v2";
   Sym Always "cuMemcpy3D_v2" "cuMemcpy3D_v2";
   Sym Always "cuMemcpy3DAsync" "cuMemcpy3DAsync_v2";
   Sym Always "cuMemcpy3DAsync_v2" "cuMemcpy3DAsync_v2";
   Sym Always "cuMemcpy3DAsync_ptsz" "cuMemcpy3DAsync_v2";
   Sym Always "cuMemcpy3DPeer" "cuMemcpy3DPeer";
   Sym Always "cuMemcpy3DPeer_ptds" "cuMemcpy3DPeer";
   Sym Always "cuMemcpy3DPeerAsync" "cuMemcpy3DPeerAsync";
   Sym Always "cuMemcpy3DPeerAsync_ptsz" "cuMemcpy3DPeerAsync";
   Sym Always "cuPointerGetAttribute" "cuPointerGetAttribute";
   Sym Always "cuPointerSetAttribute" "cuPointerSetAttribute";
   Sym Always "cuGetExportTable" "cuGetExportTable";
   Sym Always "cuModuleLoad" "cuModuleLoad";
   Sym Always "cuModuleLoadData" "cuModuleLoadData";
   Sym Always "cuModuleLoadFatBinary" "cuModuleLoadFatBinary";
   Sym Always "cuModuleLoadDataEx" "cuModuleLoadDataEx";
   Sym Always "cuLibraryLoadData" "cuLibraryLoadData";
   Sym Always "cuLibraryLoadFromFile" "cuLibraryLoadFromFile";
   Sym Always "cuLibraryGetKernelCount" "cuLibraryGetKernelCount";
   Sym Always "cuLibraryEnumerateKernels" "cuLibraryEnumerateKernels";
   Sym Always "cuLinkCreate" "cuLinkCreate_v2";
   Sym Always "cuLinkAddData" "cuLinkAddData_v2";
   Sym Always "cuLinkAddFile" "cuLinkAddFile_v2";
   Sym Always "cuLaunchKernel" "cuLaunchKernel";
   Sym Always "cuLaunchKernelEx" "cuLaunchKernelEx";
   Sym Always "cuLaunchCooperativeKernel_ptsz" "cuLaunchCooperativeKernel_ptsz";
   Sym Always "cuMemcpyAsync" "cuMemcpyAsync";
   Sym Always "cuMemcpyAsync_ptsz" "cuMemcpyAsync";
   Sym Always "cuMemcpyHtoDAsync" "cuMemcpyHtoDAsync_v2";
   Sym Always "cuMemcpyHtoDAsync_v2" "cuMemcpyHtoDAsync_v2";
   Sym Always "cuMemcpyDtoHAsync" "cuMemcpyDtoHAsync_v2";
   Sym Always "cuMemcpyDtoHAsync_v2" "cuMemcpyDtoHAsync_v2";
   Sym Always "cuMemcpyAtoHAsync" "cuMemcpyAtoHAsync_v2";
   Sym Always "cuStreamWaitValue32" "cuStreamWaitValue32_v2";
   Sym Always "cuStreamWaitValue64" "cuStreamWaitValue64_v2";
   Sym Always "cuStreamWaitEvent" "cuStreamWaitEvent";
   Sym Always "cuStreamWaitEvent_ptsz" "cuStreamWaitEvent_ptsz";
   Sym Always "cuEventRecord" "cuEventRecord";
   Sym Always "cuEventRecord_ptsz" "cuEventRecord_ptsz";
   Sym Always "cuEventRecordWithFlags" "cuEventRecordWithFlags";
   Sym Always "cuEventRecordWithFlags_ptsz" "cuEventRecordWithFlags_ptsz";
   Sym Always "cuStreamWriteValue32" "cuStreamWriteValue32_v2";
   Sym Always "cuStreamWriteValue64" "cuStreamWriteValue64_v2";
   Sym Always "cuStreamBatchMemOp" "cuStreamBatchMemOp_v2";
   Sym Always "cuStreamGetCaptureInfo" "cuStreamGetCaptureInfo";
   Sym Always "cuStreamGetCaptureInfo_v2" "cuStreamGetCaptureInfo_v2";
   Sym Always "cuStreamGetCaptureInfo_v3" "cuStreamGetCaptureInfo_v3";
   Sym Always "cuCtxSynchronize" "cuCtxSynchronize";
   Sym Always "cuStreamSynchronize" "cuStreamSynchronize";
   Sym Always "cuStreamSynchronize_ptsz" "cuStreamSynchronize_ptsz";
   Sym Always "cuStreamGetDevice_ptsz" "cuStreamGetDevice_ptsz";
   Sym Always "cuEventQuery" "cuEventQuery";
   Sym Always "cuEventSynchronize" "cuEventSynchronize";
   Sym Always "cuGetErrorName" "cuGetErrorName";
   Sym Always "cuGetErrorString" "cuGetErrorString";
   Sym Always "cuGraphAddKernelNode" "cuGraphAddKernelNode_v2";
   Sym Always "cuGraphAddKernelNode_v2" "cuGraphAddKernelNode_v2";
   Sym (Before 12030) "cuGraphGetEdges" "cuGraphGetEdges";
   Sym (Before 12030) "cuGraphNodeGetDependencies" "cuGraphNodeGetDependencies";
   Sym (Before 12030) "cuGraphNodeGetDependentNodes" "cuGraphNodeGetDependentNodes";
   Sym Always "cuGraphAddNode" "cuGraphAddNode"].

Definition manual_function_map_2 : list symbol :=
  [Sym Always "cuGraphAddNode_v2" "cuGraphAddNode_v2";
   Sym Always "cuGraphConditionalHandleCreate" "cuGraphConditionalHandleCreate";
   Sym Always "cuGraphAddMemcpyNode" "cuGraphAddMemcpyNode";
   Sym Always "cuGraphAddMemsetNode" "cuGraphAddMemsetNode";
   Sym Always "cuGraphAddHostNode" "cuGraphAddHostNode";
   Sym Always "cuGraphAddMemAllocNode" "cuGraphAddMemAllocNode";
   Sym Always "cuGraphAddMemFreeNode" "cuGraphAddMemFreeNode";
   Sym Always "cuDeviceGetGraphMemAttribute" "cuDeviceGetGraphMemAttribute";
   Sym Always "cuDeviceSetGraphMemAttribute" "cuDeviceSetGraphMemAttribute";
   Sym Always "cuGraphKernelNodeGetParams" "cuGraphKernelNodeGetParams_v2";
   Sym Always "cuGraphKernelNodeGetParams_v2" "cuGraphKernelNodeGetParams_v2";
   Sym Always "cuGraphKernelNodeSetParams" "cuGraphKernelNodeSetParams_v2";
   Sym Always "cuGraphKernelNodeSetParams_v2" "cuGraphKernelNodeSetParams_v2";
   Sym Always "cuGraphExecKernelNodeSetParams" "cuGraphExecKernelNodeSetParams_v2";
   Sym Always "cuGraphExecKernelNodeSetParams_v2" "cuGraphExecKernelNodeSetParams_v2";
   Sym Always "cuGraphGetNodes" "cuGraphGetNodes";
   Sym Always "cuGraphGetRootNodes" "cuGraphGetRootNodes";
   Sym Always "cuGraphAddExternalSemaphoresSignalNode" "cuGraphAddExternalSemaphoresSignalNode";
   Sym Always "cuGraphExternalSemaphoresSignalNodeGetParams" "cuGraphExternalSemaphoresSignalNodeGetParams";
   Sym Always "cuGraphExternalSemaphoresSignalNodeSetParams" "cuGraphExternalSemaphoresSignalNodeSetParams";
   Sym Always "cuGraphExecExternalSemaphoresSignalNodeSetParams" "cuGraphExecExternalSemaphoresSignalNodeSetParams";
   Sym Always "cuGraphAddExternalSemaphoresWaitNode" "cuGraphAddExternalSemaphoresWaitNode";
   Sym Always "cuGraphExternalSemaphoresWaitNodeGetParams" "cuGraphExternalSemaphoresWaitNodeGetParams";
   Sym Always "cuGraphExternalSemaphoresWaitNodeSetParams" "cuGraphExternalSemaphoresWaitNodeSetParams";
   Sym Always "cuGraphExecExternalSemaphoresWaitNodeSetParams" "cuGraphExecExternalSemaphoresWaitNodeSetParams";
   Sym Always "cuGraphAddBatchMemOpNode" "cuGraphAddBatchMemOpNode";
   Sym Always "cuGraphBatchMemOpNodeGetParams" "cuGraphBatchMemOpNodeGetParams";
   Sym Always "cuGraphBatchMemOpNodeSetParams" "cuGraphBatchMemOpNodeSetParams";
   Sym Always "cuGraphExecBatchMemOpNodeSetParams" "cuGraphExecBatchMemOpNodeSetParams";
   Sym Always "cuGraphHostNodeGetParams" "cuGraphHostNodeGetParams";
   Sym Always "cuGraphHostNodeSetParams" "cuGraphHostNodeSetParams";
   Sym Always "cuGraphExecHostNodeSetParams" "cuGraphExecHostNodeSetParams";
   Sym Always "cuGraphInstantiate" "cuGraphInstantiate";
   Sym Always "cuKernelGetLibrary" "cuKernelGetLibrary";
   Sym Always "cuLaunchHostFunc" "cuLaunchHostFunc";
   Sym Always "cuLaunchHostFunc_ptsz" "cuLaunchHostFunc";
   Sym Always "cuStreamAddCallback" "cuStreamAddCallback";
   Sym Always "cuStreamAddCallback_ptsz" "cuStreamAddCallback";
   Sym (Since 12090) "cuLogsRegisterCallback" "cuLogsRegisterCallback";
   Sym (Since 12090) "cuLogsUnregisterCallback" "cuLogsUnregisterCallback";
   Sym Always "cuStreamBeginCapture" "cuStreamBeginCapture_v2";
   Sym Always "cuStreamEndCapture_ptsz" "cuStreamEndCapture";
   Sym Always "cuStreamIsCapturing_ptsz" "cuStreamIsCapturing";
   Sym Always "cuStreamBeginCaptureToGraph" "cuStreamBeginCaptureToGraph";
   Sym Always "cuStreamBeginCaptureToGraph_ptsz" "cuStreamBeginCaptureToGraph";
   Sym Always "cuStreamUpdateCaptureDependencies" "cuStreamUpdateCaptureDependencies";
   Sym Always "cuStreamUpdateCaptureDependencies_v2" "cuStreamUpdateCaptureDependencies_v2";
   Sym Always "cuStreamUpdateCaptureDependencies_ptsz" "cuStreamUpdateCaptureDependencies_ptsz";
   Sym (Since 12000) "cuTensorMapEncodeTiled" "cuTensorMapEncodeTiled"].

Definition manual_function_map : list symbol := manual_function_map_1 ++ manual_function_map_2.

Definition unsupported_stubs : list symbol :=
  [Sym Always "cuCtxCreate" "lupine_unsupported_cuCtxCreate";
   Sym Always "cuModuleLoadData" "lupine_unsupported_cuModuleLoadData";
   Sym Always "cuLibraryLoadData" "lupine_unsupported_cuLibraryLoadData";
   Sym Always "cuLinkCreate" "lupine_unsupported_cuLinkCreate";
   Sym Always "cuLinkAddData" "lupine_unsupported_cuLinkAddData";
   Sym Always "cuLinkAddFile" "lupine_unsupported_cuLinkAddFile";
   Sym Always "cuMemGetInfo" "lupine_unsupported_cuMemGetInfo";
   Sym Always "cuMemGetAddressRange" "lupine_unsupported_cuMemGetAddressRange";
   Sym Always "cuMemHostGetDevicePointer" "lupine_unsupported_cuMemHostGetDevicePointer";
   Sym Always "cuMemHostRegister" "lupine_unsupported_cuMemHostRegister";
   Sym Always "cuMemHostUnregister" "lupine_unsupported_cuMemHostUnregister";
   Sym Always "cuPointerGetAttribute" "lupine_unsupported_cuPointerGetAttribute";
   Sym Always "cuMemcpyDtoHAsync" "lupine_unsupported_cuMemcpyDtoHAsync";
   Sym Always "cuMemcpy2DUnaligned" "lupine_unsupported_cuMemcpy2DUnaligned";
   Sym Always "cuMemcpy2DAsync" "lupine_unsupported_cuMemcpy2DAsync";
   Sym Always "cuMemcpy3D" "lupine_unsupported_cuMemcpy3D";
   Sym Always "cuGetErrorString" "lupine_unsupported_cuGetErrorString";
   Sym Always "cuGetErrorName" "lupine_unsupported_cuGetErrorName";
   Sym Always "cuGraphInstantiate" "lupine_unsupported_cuGraphInstantiate";
   Sym Always "cuUserObjectCreate" "lupine_unsupported_cuUserObjectCreate";
   Sym Always "cuStreamBeginCaptureToGraph" "lupine_unsupported_cuStreamBeginCaptureToGraph";
   Sym Always "cuStreamGetCaptureInfo" "lupine_unsupported_cuStreamGetCaptureInfo";
   Sym Always "cuStreamUpdateCaptureDependencies" "lupine_unsupported_cuStreamUpdateCaptureDependencies";
   Sym Always "cuGraphExecKernelNodeSetParams" "lupine_unsupported_cuGraphExecKernelNodeSetParams";
   Sym Always "cuGraphAddNode" "lupine_unsupported_cuGraphAddNode";
   Sym Always "cuGraphNodeSetParams" "lupine_unsupported_cuGraphNodeSetParams";
   Sym Always "cuGraphExecNodeSetParams" "lupine_unsupported_cuGraphExecNodeSetParams";
   Sym Always "cuGraphConditionalHandleCreate" "lupine_unsupported_cuGraphConditionalHandleCreate";
   Sym Always "cuDeviceRegisterAsyncNotification" "lupine_unsupported_cuDeviceRegisterAsyncNotification";
   Sym Always "cuDeviceUnregisterAsyncNotification" "lupine_unsupported_cuDeviceUnregisterAsyncNotification";
   Sym (Before 12090) "cuLogsRegisterCallback" "lupine_unsupported_cuLogsRegisterCallback";
   Sym (Before 12090) "cuLogsUnregisterCallback" "lupine_unsupported_cuLogsUnregisterCallback";
   Sym (Before 12090) "cuLogsCurrent" "lupine_unsupported_cuLogsCurrent";
   Sym (Before 12090) "cuLogsDumpToFile" "lupine_unsupported_cuLogsDumpToFile";
   Sym (Before 12090) "cuLogsDumpToMemory" "lupine_unsupported_cuLogsDumpToMemory";
   Sym Always "cuGreenCtxGetId" "lupine_unsupported_cuGreenCtxGetId";
   Sym Always "cuCtxRecordEvent" "lupine_unsupported_cuCtxRecordEvent";
   Sym Always "cuCtxWaitEvent" "lupine_unsupported_cuCtxWaitEvent";
   Sym Always "cuGreenCtxRecordEvent" "lupine_unsupported_cuGreenCtxRecordEvent";
   Sym Always "cuGreenCtxWaitEvent" "lupine_unsupported_cuGreenCtxWaitEvent";
   Sym Always "cuDeviceGetHostAtomicCapabilities" "lupine_unsupported_cuDeviceGetHostAtomicCapabilities";
   Sym Always "cuDeviceGetP2PAtomicCapabilities" "lupine_unsupported_cuDeviceGetP2PAtomicCapabilities"].

Definition forwards_1 : list forward :=
  [Forward "cuCtxDestroy" ["ctx"]
     "cuCtxDestroy_v2" ["ctx"];
   Forward "cuModuleGetGlobal" ["dptr"; "bytes"; "hmod"; "name"]
     "cuModuleGetGlobal_v2" ["dptr"; "bytes"; "hmod"; "name"];
   Forward "cuMemAlloc" ["dptr"; "bytesize"]
     "cuMemAlloc_v2" ["dptr"; "bytesize"];
   Forward "cuMemAllocPitch" ["dptr"; "pPitch"; "WidthInBytes"; "Height"; "ElementSizeBytes"]
     "cuMemAllocPitch_v2" ["dptr"; "pPitch"; "WidthInBytes"; "Height"; "ElementSizeBytes"];
   Forward "cuMemcpyDtoD" ["dstDevice"; "srcDevice"; "ByteCount"]
     "cuMemcpyDtoD_v2" ["dstDevice"; "srcDevice"; "ByteCount"];
   Forward "cuMemcpyDtoDAsync" ["dstDevice"; "srcDevice"; "ByteCount"; "hStream"]
     "cuMemcpyDtoDAsync_v2" ["dstDevice"; "srcDevice"; "ByteCount"; "hStream"];
   Forward "cuMemsetD8" ["dstDevice"; "uc"; "N"]
     "cuMemsetD8_v2" ["dstDevice"; "uc"; "N"];
   Forward "cuMemsetD2D8" ["dstDevice"; "dstPitch"; "uc"; "Width"; "Height"]
     "cuMemsetD2D8_v2" ["dstDevice"; "dstPitch"; "uc"; "Width"; "Height"];
   Forward "cuMemsetD2D16" ["dstDevice"; "dstPitch"; "us"; "Width"; "Height"]
     "cuMemsetD2D16_v2" ["dstDevice"; "dstPitch"; "us"; "Width"; "Height"];
   Forward "cuMemsetD2D32" ["dstDevice"; "dstPitch"; "ui"; "Width"; "Height"]
     "cuMemsetD2D32_v2" ["dstDevice"; "dstPitch"; "ui"; "Width"; "Height"];
   Forward "cuIpcOpenMemHandle" ["pdptr"; "handle"; "Flags"]
     "cuIpcOpenMemHandle_v2" ["pdptr"; "handle"; "Flags"];
   Forward "cuMemcpyPeer_ptds" ["dstDevice"; "dstContext"; "srcDevice"; "srcContext"; "ByteCount"]
     "cuMemcpyPeer" ["dstDevice"; "dstContext"; "srcDevice"; "srcContext"; "ByteCount"];
   Forward "cuMemcpyPeerAsync_ptsz" ["dstDevice"; "dstContext"; "srcDevice"; "srcContext"; "ByteCount"; "hStream"]
     "cuMemcpyPeerAsync" ["dstDevice"; "dstContext"; "srcDevice"; "srcContext"; "ByteCount"; "hStream"];
   Forward "cuMemsetD8Async_ptsz" ["dstDevice"; "uc"; "N"; "hStream"]
     "cuMemsetD8Async" ["dstDevice"; "uc"; "N"; "hStream"];
   Forward "cuMemsetD16Async_ptsz" ["dstDevice"; "us"; "N"; "hStream"]
     "cuMemsetD16Async" ["dstDevice"; "us"; "N"; "hStream"];
   Forward "cuMemsetD32Async_ptsz" ["dstDevice"; "ui"; "N"; "hStream"]
     "cuMemsetD32Async" ["dstDevice"; "ui"; "N"; "hStream"];
   Forward "cuMemsetD2D8Async_ptsz" ["dstDevice"; "dstPitch"; "uc"; "Width"; "Height"; "hStream"]
     "cuMemsetD2D8Async" ["dstDevice"; "dstPitch"; "uc"; "Width"; "Height"; "hStream"]].

Definition forwards_2 : list forward :=
  [Forward "cuMemsetD2D16Async_ptsz" ["dstDevice"; "dstPitch"; "us"; "Width"; "Height"; "hStream"]
     "cuMemsetD2D16Async" ["dstDevice"; "dstPitch"; "us"; "Width"; "Height"; "hStream"];
   Forward "cuMemsetD2D32Async_ptsz" ["dstDevice"; "dstPitch"; "ui"; "Width"; "Height"; "hStream"]
     "cuMemsetD2D32Async" ["dstDevice"; "dstPitch"; "ui"; "Width"; "Height"; "hStream"];
   Forward "cuStreamGetPriority_ptsz" ["hStream"; "priority"]
     "cuStreamGetPriority" ["hStream"; "priority"];
   Forward "cuStreamGetId_ptsz" ["hStream"; "streamId"]
     "cuStreamGetId" ["hStream"; "streamId"];
   Forward "cuStreamGetFlags_ptsz" ["hStream"; "flags"]
     "cuStreamGetFlags" ["hStream"; "flags"];
   Forward "cuStreamGetCtx_ptsz" ["hStream"; "pctx"]
     "cuStreamGetCtx" ["hStream"; "pctx"];
   Forward "cuStreamAttachMemAsync_ptsz" ["hStream"; "dptr"; "length"; "flags"]
     "cuStreamAttachMemAsync" ["hStream"; "dptr"; "length"; "flags"];
   Forward "cuStreamQuery_ptsz" ["hStream"]
     "cuStreamQuery" ["hStream"];
   Forward "cuStreamSynchronize_ptsz" ["hStream"]
     "cuStreamSynchronize" ["hStream"];
   Forward "cuGraphicsMapResources_ptsz" ["count"; "resources"; "hStream"]
     "cuGraphicsMapResources" ["count"; "resources"; "hStream"];
   Forward "cuGraphicsUnmapResources_ptsz" ["count"; "resources"; "hStream"]
     "cuGraphicsUnmapResources" ["count"; "resources"; "hStream"];
   Forward "cuSignalExternalSemaphoresAsync_ptsz" ["extSemArray"; "paramsArray"; "numExtSems"; "stream"]
     "cuSignalExternalSemaphoresAsync" ["extSemArray"; "paramsArray"; "numExtSems"; "stream"];
   Forward "cuWaitExternalSemaphoresAsync_ptsz" ["extSemArray"; "paramsArray"; "numExtSems"; "stream"]
     "cuWaitExternalSemaphoresAsync" ["extSemArray"; "paramsArray"; "numExtSems"; "stream"];
   Forward "cuGraphInstantiateWithParams_ptsz" ["phGraphExec"; "hGraph"; "instantiateParams"]
     "cuGraphInstantiateWithParams" ["phGraphExec"; "hGraph"; "instantiateParams"];
   Forward "cuGraphUpload_ptsz" ["hGraphExec"; "hStream"]
     "cuGraphUpload" ["hGraphExec"; "hStream"];
   Forward "cuGraphLaunch_ptsz" ["hGraphExec"; "hStream"]
     "cuGraphLaunch" ["hGraphExec"; "hStream"];
   Forward "cuStreamCopyAttributes_ptsz" ["dst"; "src"]
     "cuStreamCopyAttributes" ["dst"; "src"]].

Definition forwards_3 : list forward :=
  [Forward "cuStreamGetAttribute_ptsz" ["hStream"; "attr"; "value_out"]
     "cuStreamGetAttribute" ["hStream"; "attr"; "value_out"];
   Forward "cuStreamSetAttribute_ptsz" ["hStream"; "attr"; "value"]
     "cuStreamSetAttribute" ["hStream"; "attr"; "value"];
   Forward "cuMemMapArrayAsync_ptsz" ["mapInfoList"; "count"; "hStream"]
     "cuMemMapArrayAsync" ["mapInfoList"; "count"; "hStream"];
   Forward "cuMemFreeAsync_ptsz" ["dptr"; "hStream"]
     "cuMemFreeAsync" ["dptr"; "hStream"];
   Forward "cuMemAllocAsync_ptsz" ["dptr"; "bytesize"; "hStream"]
     "cuMemAllocAsync" ["dptr"; "bytesize"; "hStream"];
   Forward "cuMemAllocFromPoolAsync_ptsz" ["dptr"; "bytesize"; "pool"; "hStream"]
     "cuMemAllocFromPoolAsync" ["dptr"; "bytesize"; "pool"; "hStream"]].

Definition forwards : list forward := forwards_1 ++ forwards_2 ++ forwards_3.

(** ** Lookups *)


(** [CUDA_VERSION] of the build. *)
Section Build.
Context (CUDA_VERSION : Z).

Definition compiled (c : version_cond) : bool :=
  match c with
  | Always => true
  | Since n => n <=? CUDA_VERSION
  | Before n => CUDA_VERSION <? n
  end.

(** What a symbol resolves to: null, a function of the client, a stub made for a missing
    function, or an address of the loader. *)
Inductive pointer :=
| Null
| Fn (f : string)
| MissingStub (name : string)
| Loaded (address : Z).

(** [unordered_map::find]; of two entries with the same key the first is kept. *)
Fixpoint find_symbol (table : list symbol) (name : string) : option string :=
  match table with
  | [] => None
  | Sym c n f :: table =>
      if compiled c && String.eqb n name then Some f else find_symbol table name
  end.

Definition to_pointer (f : option string) : pointer :=
  match f with Some f => Fn f | None => Null end.

Definition get_function_pointer (name : string) : pointer :=
  to_pointer (find_symbol functionMap name).

Definition lupine_get_unsupported_stub (name : string) : option string :=
  find_symbol unsupported_stubs name.

(** The loader: the symbols of the process and of [libcuda.so], if it can be loaded,
    [LUPINE_STUB_MISSING], and whether a stub can be mapped. *)
Record loader := Loader {
  real_default : string -> option Z;
  real_handle : string -> option Z;
  libcuda : option (string -> option Z);
  stub_missing_enabled : bool;
  can_map : bool }.

Definition is_upper (a : ascii) : bool :=
  (65 <=? nat_of_ascii a)%nat && (nat_of_ascii a <=? 90)%nat.

Definition lupine_symbol_looks_like_driver_api (s : string) : bool :=
  match s with
  | String c (String u (String x _)) =>
      Ascii.eqb c "c"%char && Ascii.eqb u "u"%char && is_upper x
  | _ => false
  end.

Definition lupine_make_missing_stub (ld : loader) (s : string) : pointer :=
  if can_map ld then MissingStub s else Fn "lupine_unsupported_driver_api".

(** ** [cuGetProcAddress] *)

(** [CU_GET_PROC_ADDRESS_SUCCESS] or [CU_GET_PROC_ADDRESS_SYMBOL_NOT_FOUND]. *)
Inductive query_result := QuerySuccess | SymbolNotFound.

(** The functions whose ABI depends on the version that is asked for, and the replacements of
    single functions, up to the table of generated functions. *)
Definition special_address (cudaVersion : Z) (s : string) : option pointer :=
  let graph_query candidate edge_data :=
    if String.eqb s candidate
    then Some (Fn (if 12030 <=? cudaVersion then edge_data else candidate)) else None in
  if String.eqb s "cuStreamGetCaptureInfo" then
    Some (Fn (if 12030 <=? cudaVersion then "cuStreamGetCaptureInfo_v3"
              else if 11030 <=? cudaVersion then "cuStreamGetCaptureInfo_v2"
              else "cuStreamGetCaptureInfo"))
  else
  match graph_query "cuGraphGetEdges" "cuGraphGetEdges_v2" with
  | Some p => Some p
  | None =>
  match graph_query "cuGraphNodeGetDependencies" "cuGraphNodeGetDependencies_v2" with
  | Some p => Some p
  | None =>
  match graph_query "cuGraphNodeGetDependentNodes" "cuGraphNodeGetDependentNodes_v2" with
  | Some p => Some p
  | None =>
  if (13000 <=? CUDA_VERSION) && (13000 <=? cudaVersion) && String.eqb s "cuCtxGetDevice" then
    Some (Fn "cuCtxGetDevice_v2")
  else if (13000 <=? CUDA_VERSION) && (13000 <=? cudaVersion) && String.eqb s "cuCtxSynchronize" then
    Some (Fn "cuCtxSynchronize_v2")
  else if (cudaVersion <? 12000) && String.eqb s "cuGraphInstantiate" then
    Some (get_function_pointer "cuGraphInstantiate_v2")
  else if String.eqb s "cuGraphExecUpdate" then
    Some (get_function_pointer
            (if cudaVersion <? 12000 then "cuGraphExecUpdate" else "cuGraphExecUpdate_v2"))
  else if String.eqb s "cuFuncGetAttribute" then Some (Fn "lupine_cuFuncGetAttribute_safe")
  else if String.eqb s "cuPointerGetAttributes" then Some (Fn "cuPointerGetAttributes")
  else if String.eqb s "cuOccupancyMaxActiveBlocksPerMultiprocessor" then
    Some (Fn "lupine_cuOccupancyMaxActiveBlocksPerMultiprocessor_safe")
  else if String.eqb s "cuOccupancyMaxActiveBlocksPerMultiprocessorWithFlags" then
    Some (Fn "lupine_cuOccupancyMaxActiveBlocksPerMultiprocessorWithFlags_safe")
  else if (12020 <=? CUDA_VERSION) && (12020 <=? cudaVersion)
          && (String.eqb s "cuMemPrefetchAsync" || String.eqb s "cuMemPrefetchAsync_ptsz") then
    Some (Fn "cuMemPrefetchAsync_v2")
  else if (12020 <=? CUDA_VERSION) && (12020 <=? cudaVersion) && String.eqb s "cuMemAdvise" then
    Some (Fn "cuMemAdvise_v2")
  else None
  end end end.

(** The loader's symbol, and then a stub or nothing. *)
Definition loaded_address (ld : loader) (s : string) : pointer * query_result :=
  let missing :=
    if stub_missing_enabled ld && lupine_symbol_looks_like_driver_api s
    then (lupine_make_missing_stub ld s, QuerySuccess)
    else (Null, SymbolNotFound) in
  match real_default ld s with
  | Some a => (Loaded a, QuerySuccess)
  | None =>
      match libcuda ld with
      | None => missing
      | Some symbols =>
          match symbols s with
          | Some a => (Loaded a, QuerySuccess)
          | None => missing
          end
      end
  end.

(** The function returns [CUDA_SUCCESS] whatever it finds. *)
Definition cuGetProcAddress_v2 (ld : loader) (s : string) (cudaVersion : Z) : pointer * query_result :=
  match special_address cudaVersion s with
  | Some p => (p, QuerySuccess)
  | None =>
  match find_symbol functionMap s with
  | Some f => (Fn f, QuerySuccess)
  | None =>
  match find_symbol manual_function_map s with
  | Some f => (Fn f, QuerySuccess)
  | None =>
  match lupine_get_unsupported_stub s with
  | Some f => (Fn f, QuerySuccess)
  | None =>
      if String.eqb s "cuGetProcAddress_v2" then (Fn "cuGetProcAddress_v2", QuerySuccess)
      else if String.eqb s "cuGetProcAddress" then
        (Fn (if 12000 <=? cudaVersion then "cuGetProcAddress_v2" else "cuGetProcAddress"), QuerySuccess)
      else loaded_address ld s
  end end end end.

Definition CUDA_ERROR_NOT_FOUND : Z := 500.

(** The result and what is stored in [*pfn], if anything. *)
Definition cuGetProcAddress (ld : loader) (s : string) (cudaVersion : Z) : Z * option pointer :=
  let '(resolved, status) := cuGetProcAddress_v2 ld s cudaVersion in
  match status with
  | SymbolNotFound => (CUDA_ERROR_NOT_FOUND, None)
  | QuerySuccess => (0, Some resolved)
  end.

(** ** [dlsym] *)

Definition of_loader (a : option Z) : pointer :=
  match a with Some a => Loaded a | None => Null end.

Definition dlsym (ld : loader) (s : string) : pointer :=
  if negb (lupine_symbol_looks_like_driver_api s) then of_loader (real_handle ld s)
  else if String.eqb s "cuFuncGetAttribute" then Fn "lupine_cuFuncGetAttribute_safe"
  else if String.eqb s "cuPointerGetAttributes" then Fn "cuPointerGetAttributes"
  else if String.eqb s "cuOccupancyMaxActiveBlocksPerMultiprocessor" then
    Fn "lupine_cuOccupancyMaxActiveBlocksPerMultiprocessor_safe"
  else if String.eqb s "cuOccupancyMaxActiveBlocksPerMultiprocessorWithFlags" then
    Fn "lupine_cuOccupancyMaxActiveBlocksPerMultiprocessorWithFlags_safe"
  else if String.eqb s "cuGetProcAddress_v2" then Fn "cuGetProcAddress_v2"
  else if String.eqb s "cuGetProcAddress" then Fn "cuGetProcAddress"
  else
  match find_symbol functionMap s with
  | Some f => Fn f
  | None =>
  match find_symbol manual_function_map s with
  | Some f => Fn f
  | None =>
  match lupine_get_unsupported_stub s with
  | Some f => Fn f
  | None =>
      if stub_missing_enabled ld && lupine_symbol_looks_like_driver_api s
      then lupine_make_missing_stub ld s
      else of_loader (real_handle ld s)
  end end end.

End Build.

Definition symbol_name (e : symbol) : string := let '(Sym _ n _) := e in n.
Definition symbol_function (e : symbol) : string := let '(Sym _ _ f) := e in f.

(** The names whose meaning depends on the version that is asked for. *)
Definition versioned_names : list string :=
  ["cuStreamGetCaptureInfo"; "cuGraphGetEdges"; "cuGraphNodeGetDependencies";
   "cuGraphNodeGetDependentNodes"; "cuCtxGetDevice"; "cuCtxSynchronize"; "cuGraphInstantiate";
   "cuGraphExecUpdate"; "cuMemPrefetchAsync"; "cuMemPrefetchAsync_ptsz"; "cuMemAdvise";
   "cuGetProcAddress"].


(** The names with a function of their own in the client. *)
Definition replaced_names : list string :=
  ["cuFuncGetAttribute"; "cuPointerGetAttributes"; "cuOccupancyMaxActiveBlocksPerMultiprocessor";
   "cuOccupancyMaxActiveBlocksPerMultiprocessorWithFlags"].

(** ** What is found *)

#[export] Instance version_cond_eq_dec : EqDecision version_cond.
Proof. solve_decision. Defined.
#[export] Instance symbol_eq_dec : EqDecision symbol.
Proof. solve_decision. Defined.

Lemma symbol_in e : bool_decide (e ∈ functionMap) = true -> e ∈ functionMap.
Proof. apply bool_decide_eq_true_1. Qed.

Lemma forwards_ok :
  forallb (fun '(Forward n ps t args) =>
    bool_decide (ps = args)
    && existsb (fun '(Sym _ n' f) => String.eqb n n' && String.eqb t f) functionMap) forwards = true.
Proof. by vm_cast_no_check (@eq_refl bool true). Qed.

Lemma functionMap_nodup : bool_decide (NoDup (symbol_name <$> functionMap)) = true.
Proof. by vm_cast_no_check (@eq_refl bool true). Qed.

Lemma functionMap_driver_names :
  forallb (fun e => lupine_symbol_looks_like_driver_api (symbol_name e)) functionMap = true.
Proof. by vm_cast_no_check (@eq_refl bool true). Qed.

(** No entry is about a name that [dlsym] takes before it looks at the table, but with the
    same function. *)
Lemma functionMap_replacements :
  forallb (fun e => negb (bool_decide
    (symbol_name e ∈ replaced_names ++ ["cuGetProcAddress_v2"; "cuGetProcAddress"]))
    || bool_decide (symbol_name e ∈ replaced_names)) functionMap = true.
Proof. by vm_cast_no_check (@eq_refl bool true). Qed.

Lemma find_symbol_in cv table c n f :
  NoDup (symbol_name <$> table) -> Sym c n f ∈ table ->
  find_symbol cv table n = if compiled cv c then Some f else None.
Proof.
  induction table as [|[c' n' f'] table IH]; intros Hnd Hin; [by apply not_elem_of_nil in Hin|].
  rewrite fmap_cons in Hnd. apply NoDup_cons in Hnd as [Hout Hnd].
  assert (Hnone : forall l, n ∉ (symbol_name <$> l) -> find_symbol cv l n = None).
  { clear. induction l as [|[c n' f] l IH]; simpl; [done|]. intros [Hn Hl]%not_elem_of_cons.
    rewrite (proj2 (String.eqb_neq n' n)) by (intros ->; by apply Hn). rewrite andb_false_r. by apply IH. }
  apply elem_of_cons in Hin as [[= -> -> ->]|Hin]; simpl.
  - rewrite String.eqb_refl, andb_true_r. destruct (compiled cv c'); [done|]. by apply Hnone.
  - assert (n' <> n).
    { intros ->. apply Hout. by apply (list_elem_of_fmap_2 symbol_name _ (Sym c n f)). }
    rewrite (proj2 (String.eqb_neq n' n)) by done. rewrite andb_false_r. by apply IH.
Qed.

Lemma functionMap_find cv c n f :
  Sym c n f ∈ functionMap ->
  find_symbol cv functionMap n = if compiled cv c then Some f else None.
Proof. apply find_symbol_in. exact (bool_decide_eq_true_1 _ functionMap_nodup). Qed.

(** Away from the versioned and the replaced names nothing comes before the tables. *)
Lemma special_address_none cv v s :
  s ∉ versioned_names -> s ∉ replaced_names -> special_address cv v s = None.
Proof.
  intros Hv Hr. unfold special_address.
  assert (Hne : forall n, n ∈ versioned_names ++ replaced_names -> String.eqb s n = false).
  { intros n Hn. apply String.eqb_neq. intros ->. set_solver. }
  rewrite !Hne by (vm_compute; repeat (constructor || right)). by rewrite !andb_false_r.
Qed.

(** Equivalence: a function of the generated table, whose name is not one that the program
    treats by version or replaces, is the same for an application that asks [dlsym], for
    one that asks either version of [cuGetProcAddress] with any version, and for one that
    calls an exported alias, which passes its arguments on unchanged. *)
Theorem symbol_resolution_agrees cv ld v c n f :
  Sym c n f ∈ functionMap -> compiled cv c = true ->
  n ∉ versioned_names -> n ∉ replaced_names ->
  dlsym cv ld n = Fn f /\ cuGetProcAddress_v2 cv ld n v = (Fn f, QuerySuccess) /\
  cuGetProcAddress cv ld n v = (0, Some (Fn f)) /\
  (forall ps t args, Forward n ps t args ∈ forwards -> t = f /\ args = ps).
Proof.
  intros Hin Hc Hv Hr. assert (Hf := functionMap_find cv c n f Hin). rewrite Hc in Hf.
  assert (Hp : cuGetProcAddress_v2 cv ld n v = (Fn f, QuerySuccess)).
  { unfold cuGetProcAddress_v2. by rewrite special_address_none, Hf by done. }
  split_and!; [|done| |].
  - unfold dlsym. pose proof (forallb_elem _ _ _ functionMap_driver_names Hin) as Hd. simpl in Hd.
    rewrite Hd, Hf. simpl.
    assert (Hne : forall m, m ∈ replaced_names ++ ["cuGetProcAddress_v2"; "cuGetProcAddress"] ->
      String.eqb n m = false).
    { intros m Hm. apply String.eqb_neq. intros ->.
      pose proof (forallb_elem _ _ _ functionMap_replacements Hin) as Hrep. simpl in Hrep.
      rewrite orb_true_iff, negb_true_iff in Hrep.
      destruct Hrep as [Hrep%bool_decide_eq_false_1|Hrep%bool_decide_eq_true_1]; [|done].
      by apply Hrep. }
    rewrite !Hne by (vm_compute; repeat (constructor || right)). done.
  - unfold cuGetProcAddress. by rewrite Hp.
  - intros ps t args Hfw. pose proof (forallb_elem _ _ _ forwards_ok Hfw) as Ho. cbv beta iota in Ho.
    apply andb_true_iff in Ho as [<-%bool_decide_eq_true_1 Ho]. split; [|done].
    apply existsb_exists in Ho as ([c' n' f'] & Hin' & [->%String.eqb_eq ->%String.eqb_eq]%andb_true_iff).
    apply list_elem_of_In in Hin'.
    pose proof (NoDup_fmap_eq symbol_name _ _ _ (bool_decide_eq_true_1 _ functionMap_nodup) Hin Hin'
                  eq_refl) as Heq. by injection Heq as _ ->.
Qed.

Lemma symbol_resolution_agrees_witness :
  dlsym 12040 (Loader (fun _ => None) (fun _ => None) None true true) "cuMemFreeAsync_ptsz"
  = Fn "cuMemFreeAsync".
Proof.
  apply (symbol_resolution_agrees 12040 _ 12040 Always "cuMemFreeAsync_ptsz" "cuMemFreeAsync").
  - apply symbol_in. vm_compute. reflexivity.
  - reflexivity.
  - apply (bool_decide_eq_true_1 ("cuMemFreeAsync_ptsz" ∉ versioned_names)). vm_compute. reflexivity.
  - apply (bool_decide_eq_true_1 ("cuMemFreeAsync_ptsz" ∉ replaced_names)). vm_compute. reflexivity.
Defined.

(** Error: [dlsym] gives an application the functions of another ABI.  For the three graph
    queries that got an [edgeData] argument in CUDA 12.3, a build against 12.3 or later
    resolves the legacy name to the new function, while [cuGetProcAddress] with an earlier
    version gives the legacy one. *)
Theorem dlsym_ignores_abi cv ld v n :
  n ∈ ["cuGraphGetEdges"; "cuGraphNodeGetDependencies"; "cuGraphNodeGetDependentNodes"] ->
  12030 <= cv -> v < 12030 ->
  dlsym cv ld n = Fn (String.append n "_v2") /\ cuGetProcAddress_v2 cv ld n v = (Fn n, QuerySuccess).
Proof.
  intros Hn Hcv Hv.
  assert (Hf : find_symbol cv functionMap n = Some (String.append n "_v2")).
  { rewrite (functionMap_find cv (Since 12030) n (String.append n "_v2")).
    - simpl. by rewrite (proj2 (Z.leb_le _ _)).
    - repeat (apply elem_of_cons in Hn as [->|Hn]);
        [apply symbol_in; vm_compute; reflexivity..|by apply not_elem_of_nil in Hn]. }
  unfold cuGetProcAddress_v2, special_address, dlsym. rewrite Hf, (proj2 (Z.leb_gt _ _)) by done.
  by repeat (apply elem_of_cons in Hn as [->|Hn]); [..|apply not_elem_of_nil in Hn].
Qed.

Lemma dlsym_ignores_abi_witness :
  dlsym 13000 (Loader (fun _ => None) (fun _ => None) None true true) "cuGraphGetEdges"
  = Fn "cuGraphGetEdges_v2".
Proof.
  apply (dlsym_ignores_abi 13000 (Loader (fun _ => None) (fun _ => None) None true true) 12000
           "cuGraphGetEdges").
  - left.
  - lia.
  - lia.
Defined.
