(* ===== verification/Lane.v ===== *)
(** * A lane of requests

    The loop of a lane's worker ([lupine_serve_lanes] of [server.cpp]): it takes the header of
    a request ([rpc_dispatch]), looks the operation up in the registry, and lets the handler
    take the rest.  Nothing on the wire separates one request from the next: a lane stays in
    step only because every handler takes exactly what its client sent. *)
From S2P Require Import Prelude RpcIds Registry Stub StubSafe StubAgree StubCall StubRefine.
From S2P Require Import StubClient StubServer Stubs.

(** The handler function of a name, if it is one of the generated ones. *)
Definition generated_handler (f : string) : option handler :=
  List.find (fun h => String.eqb (String.append "handle_" (h_name h)) f) handlers.

(** The macro and the id of the operation of a client function. *)
Definition operation_macro (c : client_stub) : string := String.append "RPC_" (c_name c).

Definition registration_of (c : client_stub) : option conditional :=
  List.find (fun e => let '(Entry operation _ _) := entry e in
                      String.eqb operation (operation_macro c)) registrations.

(** Whether a build has the server side of a client function. *)
Definition served_by (b : build) (c : client_stub) : bool :=
  match registration_of c with Some e => enabled b e | None => false end.

Section Lane.
Context {types : CTypes} {types_ok : CTypesLaws} {allocator : Allocator}.
Context {dev : Driver} {dev_ok : DriverLaws}.
Context (b : build).

(** One turn of the worker: the driver call it led to, the answer and the rest of the lane;
    [None] when the lane is given up. *)
Definition serve_request (lane : list byte) : option (call * list byte * list byte) :=
  if (length lane <? 8)%nat then None
  else
    let id := sint32 (le_val (take 4 lane)) in
    let op := sint32 (le_val (take 4 (drop 4 lane))) in
    if (id <? 2) || Z.odd id || (op <? 0) then None
    else
      e ← find_handler (lupine_rpc_handlers b) op;
      f ← Registry.handler e;
      h ← generated_handler f;
      match serve h (drop 8 lane) with
      | Served k reply rest => Some (k, reply, rest)
      | _ => None
      end.

(** A worker that takes [n] requests. *)
Fixpoint serve_lane (n : nat) (lane : list byte) : option (list call * list byte) :=
  match n with
  | O => Some ([], lane)
  | S n =>
      '(k, _, lane) ← serve_request lane;
      '(ks, lane) ← serve_lane n lane;
      Some (k :: ks, lane)
  end.

(** A call of an application that its stub sends: the stub and its handler, the memory before
    the call and when the request is sent, the state after it and the request's id. *)
Record pending := Pending {
  p_client : client_stub;
  p_handler : handler;
  p_before : obj -> option (list byte);
  p_memory : obj -> option (list byte);
  p_sent : state;
  p_id : Z }.

Record sendable (p : pending) : Prop := {
  s_pair : (p_client p, p_handler p) ∈ stub_pairs;
  s_covered : c_name (p_client p) ∉ other_pairs;
  s_served : served_by b (p_client p) = true;
  s_guards : run_guards (c_guards (p_client p)) (p_before p) = inr (p_memory p);
  s_marshal : marshal (p_client p) (p_memory p) = Ok (p_sent p);
  s_accepted : accepted (p_client p) (p_handler p) (p_memory p);
  s_room : c_async (p_client p) = false -> room_ok (p_client p) (p_memory p) = true;
  s_id : 2 <= p_id p < 2 ^ 31 /\ Z.odd (p_id p) = false }.

(** What [rpc_write_end] puts on the wire: the header and the request. *)
Definition frame (p : pending) : list byte :=
  le_bytes 4 (p_id p)
  ++ le_bytes 4 (default 0 (lookup_id (operation_macro (p_client p))))
  ++ st_out (p_sent p).

End Lane.

(** ** Every generated pair is registered *)

Lemma pairs_registered :
  forallb (fun '(c, h) =>
    match registration_of c with
    | Some e =>
        bool_decide (e ∈ registrations) && bool_decide (op_of e = lookup_id (operation_macro c))
        && bool_decide ((Registry.handler (entry_handler e) ≫= generated_handler) = Some h)
    | None => false
    end) stub_pairs = true.
Proof. by vm_cast_no_check (@eq_refl bool true). Qed.

Lemma pair_registered c h b :
  (c, h) ∈ stub_pairs -> served_by b c = true ->
  exists op e f, lookup_id (operation_macro c) = Some op /\ 0 <= op < 2 ^ 31 /\
    find_handler (lupine_rpc_handlers b) op = Some e /\
    Registry.handler e = Some f /\ generated_handler f = Some h.
Proof.
  unfold served_by. intros Hin Hb. pose proof (forallb_elem _ _ _ pairs_registered Hin) as Hr.
  simpl in Hr. destruct (registration_of c) as [e|]; [|done]. rewrite !andb_true_iff in Hr.
  destruct Hr as [[He%bool_decide_eq_true_1 Hop%bool_decide_eq_true_1] Hf%bool_decide_eq_true_1].
  destruct (registered_op e He) as [op Hop']. apply bind_Some in Hf as (f & Hf & Hh).
  exists op, (entry_handler e), f. rewrite <- Hop, Hop'. split_and!; try done.
  - apply (lookup_id_range (operation_macro c)). by rewrite <- Hop.
  - apply (lookup_id_range (operation_macro c)). by rewrite <- Hop.
  - by rewrite (find_own b e op He Hop'), Hb.
Qed.

Section Lanes.
Context {types : CTypes} {types_ok : CTypesLaws} {allocator : Allocator}.
Context {dev : Driver} {dev_ok : DriverLaws}.
Context (b : build).
Hypothesis plenty : forall n, has_memory n = true.

(** The worker turns the frame of a call into that driver call and stops where it ends. *)
Lemma serve_frame p rest :
  sendable b p ->
  exists args reply,
    serve_request b (frame p ++ rest) = Some (Call (c_name (p_client p)) args, reply, rest) /\
    Forall2 (delivers (p_client p) (p_memory p)) (c_params (p_client p)) args.
Proof.
  intros [Hpair Hcov Hserved Hg Hm Hacc Hroom [Hid Heven]].
  destruct (pair_registered _ _ b Hpair Hserved) as (op & e & f & Hop & Hrange & Hfind & Hf & Hh).
  pose proof (forallb_elem _ _ _ pairs_ok Hpair) as Hok. simpl in Hok.
  rewrite bool_decide_eq_false_2 in Hok by done. simpl in Hok.
  destruct (pair_ok_sound plenty _ _ _ _ _ Hok Hg Hm Hacc Hroom)
    as (args & status & outs & reply & r' & Hdel & _ & Hserve & _).
  exists args, reply. split; [|done].
  unfold serve_request, frame. rewrite Hop. simpl default. rewrite <- !app_assoc.
  rewrite (proj2 (Nat.ltb_ge _ _)) by (rewrite !length_app, !length_le_bytes; lia).
  rewrite take_app_length', drop_app_length', take_app_length' by (by rewrite length_le_bytes).
  rewrite !sint32_le_bytes by (unfold is_int; lia).
  rewrite Heven, (proj2 (Z.ltb_ge _ _)), (proj2 (Z.ltb_ge _ _)) by lia. simpl.
  rewrite Hfind. simpl. rewrite Hf. simpl. rewrite Hh. simpl.
  by rewrite drop_0, Hserve.
Qed.


End Lanes.

(** ** Two calls on a lane *)

Section Witness.
Import Example.

Definition nodes_call (id : Z) : pending :=
  Pending cuGraphGetNodes handle_cuGraphGetNodes application nodes_memory
    (sent cuGraphGetNodes nodes_memory) id.

Definition counting_call (id : Z) : pending :=
  Pending cuGraphGetNodes handle_cuGraphGetNodes counting counting_memory
    (sent cuGraphGetNodes counting_memory) id.

Ltac sendable_here :=
  split; cbn [p_client p_handler p_before p_memory p_sent p_id nodes_call counting_call];
  [ decided ((cuGraphGetNodes, handle_cuGraphGetNodes) ∈ stub_pairs)
  | decided (c_name cuGraphGetNodes ∉ other_pairs)
  | vm_compute; reflexivity
  | apply guarded_ok; vm_compute; reflexivity
  | apply sent_ok; vm_compute; reflexivity
  | apply accepted_here_ok; vm_compute; reflexivity
  | intros _; vm_compute; reflexivity
  | done ].

Lemma nodes_call_sendable id :
  2 <= id < 2 ^ 31 -> Z.odd id = false -> sendable example_build (nodes_call id).
Proof. intros Hid Heven. sendable_here. Qed.

Lemma counting_call_sendable id :
  2 <= id < 2 ^ 31 -> Z.odd id = false -> sendable example_build (counting_call id).
Proof. intros Hid Heven. sendable_here. Qed.

Lemma counting_delivers a :
  delivers cuGraphGetNodes counting_memory (Pointer "nodes" []) a -> a = ANull.
Proof.
  intros Hd.
  assert (Hnull : counting_memory (Ref "nodes") = None) by (vm_compute; reflexivity).
  assert (Hplain : forall n, n ∈ plain_sizes (Ref "nodes") (response_items cuGraphGetNodes) -> False)
    by (intros n Hn; vm_compute in Hn; inversion Hn).
  inversion Hd as [| | |? ? n ? Hn|? ? ? ? Hth|? ? ? ? q Hq]; subst; try done.
  - vm_compute in Hn. inversion Hn.
  - destruct (Hth Hnull) as (n & Hn & _). by destruct (Hplain n).
  - apply count_of_inv in Hq. repeat apply elem_of_cons in Hq as [Hq|Hq]; try done. by apply not_elem_of_nil in Hq.
Qed.


End Witness.
