(* ===== verification/Annotations.v ===== *)
(** * The annotations of the CUDA calls

    [codegen/annotations_cuda.h] says for each call what crosses the wire; the code
    generator turns it into a client function and a handler.  The meaning of the
    annotations is documented in [codegen/README.md]. *)
From S2P Require Import Prelude.

Inductive direction := SEND_ONLY | RECV_ONLY | SEND_RECV.

Inductive attribute :=
| LENGTH (count : string)
| SIZE (n : Z)
| NULLABLE
| NULL_TERMINATED
| DEREF
| DEREFERENCE
| ON_ERROR.

#[export] Instance attribute_eq_dec : EqDecision attribute.
Proof. solve_decision. Defined.

(** [@param x DIRECTION attributes]. *)
Inductive param_annotation := Param (x : string) (d : direction) (attributes : list attribute).

Inductive tag :=
| Synchronize (what : list string)
| GraphExecNode (exec node : string)
| GraphExecUpdate (exec graph error : string)
| CrossServerCopy (args : list string)
| RoutingFallback (kind x : string)
| Retain (args : list string)
| Release (args : list string)
| RecordParent (args : list string).

(** The declaration and its comment: the parameters with their types, [@param], [@routingkey],
    [@async], [@recordowner], [@deeparray], the other tags, and which of the two ends is
    generated; [an_body]: the declaration has a body around the generated call. *)
Record annotation := Annotation {
  an_function : string;
  an_signature : list (string * string);
  an_params : list param_annotation;
  an_routing : option (string * string);
  an_async : bool;
  an_owners : list (string * string);
  an_deep : list (string * string * string);
  an_tags : list tag;
  an_client : bool;
  an_server : bool;
  an_body : bool }.

Definition ann_cuGetErrorString : annotation := {|
  an_function := "cuGetErrorString";
  an_signature := [("error", "CUresult"); ("pStr", "const char **")];
  an_params := [Param "error" SEND_ONLY []; Param "pStr" SEND_RECV []];
  an_routing := None;
  an_async := false;
  an_owners := [];
  an_deep := [];
  an_tags := [];
  an_client := false;
  an_server := false;
  an_body := false |}.

Definition ann_cuGetErrorName : annotation := {|
  an_function := "cuGetErrorName";
  an_signature := [("error", "CUresult"); ("pStr", "const char **")];
  an_params := [Param "error" SEND_ONLY []; Param "pStr" SEND_RECV []];
  an_routing := None;
  an_async := false;
  an_owners := [];
  an_deep := [];
  an_tags := [];
  an_client := false;
  an_server := false;
  an_body := false |}.

Definition ann_cuInit : annotation := {|
  an_function := "cuInit";
  an_signature := [("Flags", "unsigned int")];
  an_params := [Param "Flags" SEND_ONLY []];
  an_routing := None;
  an_async := false;
  an_owners := [];
  an_deep := [];
  an_tags := [];
  an_client := false;
  an_server := true;
  an_body := false |}.

Definition ann_cuDriverGetVersion : annotation := {|
  an_function := "cuDriverGetVersion";
  an_signature := [("driverVersion", "int *")];
  an_params := [Param "driverVersion" RECV_ONLY []];
  an_routing := None;
  an_async := false;
  an_owners := [];
  an_deep := [];
  an_tags := [];
  an_client := false;
  an_server := true;
  an_body := false |}.

Definition ann_cuDeviceGet : annotation := {|
  an_function := "cuDeviceGet";
  an_signature := [("device", "CUdevice *"); ("ordinal", "int")];
  an_params := [Param "device" RECV_ONLY []; Param "ordinal" SEND_ONLY []];
  an_routing := None;
  an_async := false;
  an_owners := [];
  an_deep := [];
  an_tags := [];
  an_client := false;
  an_server := true;
  an_body := false |}.

Definition ann_cuDeviceGetCount : annotation := {|
  an_function := "cuDeviceGetCount";
  an_signature := [("count", "int *")];
  an_params := [Param "count" RECV_ONLY []];
  an_routing := None;
  an_async := false;
  an_owners := [];
  an_deep := [];
  an_tags := [];
  an_client := false;
  an_server := true;
  an_body := false |}.

Definition ann_cuDeviceGetName : annotation := {|
  an_function := "cuDeviceGetName";
  an_signature := [("name", "char *"); ("len", "int"); ("dev", "CUdevice")];
  an_params := [Param "len" SEND_ONLY [];
                Param "name" RECV_ONLY [LENGTH "len"];
                Param "dev" SEND_ONLY []];
  an_routing := None;
  an_async := false;
  an_owners := [];
  an_deep := [];
  an_tags := [];
  an_client := false;
  an_server := true;
  an_body := false |}.

Definition ann_cuDeviceGetUuid : annotation := {|
  an_function := "cuDeviceGetUuid";
  an_signature := [("uuid", "CUuuid *"); ("dev", "CUdevice")];
  an_params := [Param "uuid" RECV_ONLY [SIZE 16]; Param "dev" SEND_ONLY []];
  an_routing := None;
  an_async := false;
  an_owners := [];
  an_deep := [];
  an_tags := [];
  an_client := false;
  an_server := true;
  an_body := false |}.

Definition ann_cuDeviceGetUuid_v2 : annotation := {|
  an_function := "cuDeviceGetUuid_v2";
  an_signature := [("uuid", "CUuuid *"); ("dev", "CUdevice")];
  an_params := [Param "uuid" RECV_ONLY [SIZE 16]; Param "dev" SEND_ONLY []];
  an_routing := None;
  an_async := false;
  an_owners := [];
  an_deep := [];
  an_tags := [];
  an_client := false;
  an_server := true;
  an_body := false |}.

Definition ann_cuDeviceGetLuid : annotation := {|
  an_function := "cuDeviceGetLuid";
  an_signature := [("luid", "char *");
                   ("deviceNodeMask", "unsigned int *");
                   ("dev", "CUdevice")];
  an_params := [Param "luid" RECV_ONLY [SIZE 8];
                Param "deviceNodeMask" RECV_ONLY [];
                Param "dev" SEND_ONLY []];
  an_routing := None;
  an_async := false;
  an_owners := [];
  an_deep := [];
  an_tags := [];
  an_client := true;
  an_server := true;
  an_body := false |}.

Definition ann_cuDeviceTotalMem_v2 : annotation := {|
  an_function := "cuDeviceTotalMem_v2";
  an_signature := [("bytes", "size_t *"); ("dev", "CUdevice")];
  an_params := [Param "bytes" RECV_ONLY []; Param "dev" SEND_ONLY []];
  an_routing := None;
  an_async := false;
  an_owners := [];
  an_deep := [];
  an_tags := [];
  an_client := false;
  an_server := true;
  an_body := false |}.

Definition ann_cuDeviceGetTexture1DLinearMaxWidth : annotation := {|
  an_function := "cuDeviceGetTexture1DLinearMaxWidth";
  an_signature := [("maxWidthInElements", "size_t *");
                   ("format", "CUarray_format");
                   ("numChannels", "unsigned");
                   ("dev", "CUdevice")];
  an_params := [Param "maxWidthInElements" RECV_ONLY [];
                Param "format" SEND_ONLY [];
                Param "numChannels" SEND_ONLY [];
                Param "dev" SEND_ONLY []];
  an_routing := None;
  an_async := false;
  an_owners := [];
  an_deep := [];
  an_tags := [];
  an_client := true;
  an_server := true;
  an_body := false |}.

Definition ann_cuDeviceGetAttribute : annotation := {|
  an_function := "cuDeviceGetAttribute";
  an_signature := [("pi", "int *"); ("attrib", "CUdevice_attribute"); ("dev", "CUdevice")];
  an_params := [Param "pi" RECV_ONLY [];
                Param "attrib" SEND_ONLY [];
                Param "dev" SEND_ONLY []];
  an_routing := None;
  an_async := false;
  an_owners := [];
  an_deep := [];
  an_tags := [];
  an_client := false;
  an_server := true;
  an_body := false |}.

Definition ann_cuDeviceSetMemPool : annotation := {|
  an_function := "cuDeviceSetMemPool";
  an_signature := [("dev", "CUdevice"); ("pool", "CUmemoryPool")];
  an_params := [Param "dev" SEND_ONLY []; Param "pool" SEND_ONLY []];
  an_routing := None;
  an_async := false;
  an_owners := [];
  an_deep := [];
  an_tags := [];
  an_client := true;
  an_server := true;
  an_body := false |}.

Definition ann_cuDeviceGetMemPool : annotation := {|
  an_function := "cuDeviceGetMemPool";
  an_signature := [("pool", "CUmemoryPool *"); ("dev", "CUdevice")];
  an_params := [Param "pool" RECV_ONLY []; Param "dev" SEND_ONLY []];
  an_routing := None;
  an_async := false;
  an_owners := [("MEMORY_POOL", "pool")];
  an_deep := [];
  an_tags := [];
  an_client := true;
  an_server := true;
  an_body := false |}.

Definition ann_cuDeviceGetDefaultMemPool : annotation := {|
  an_function := "cuDeviceGetDefaultMemPool";
  an_signature := [("pool_out", "CUmemoryPool *"); ("dev", "CUdevice")];
  an_params := [Param "pool_out" RECV_ONLY []; Param "dev" SEND_ONLY []];
  an_routing := None;
  an_async := false;
  an_owners := [("MEMORY_POOL", "pool_out")];
  an_deep := [];
  an_tags := [];
  an_client := true;
  an_server := true;
  an_body := false |}.

Definition ann_cuDeviceGetExecAffinitySupport : annotation := {|
  an_function := "cuDeviceGetExecAffinitySupport";
  an_signature := [("pi", "int *"); ("type", "CUexecAffinityType"); ("dev", "CUdevice")];
  an_params := [Param "pi" RECV_ONLY [];
                Param "type" SEND_ONLY [];
                Param "dev" SEND_ONLY []];
  an_routing := None;
  an_async := false;
  an_owners := [];
  an_deep := [];
  an_tags := [];
  an_client := true;
  an_server := true;
  an_body := false |}.

Definition ann_cuFlushGPUDirectRDMAWrites : annotation := {|
  an_function := "cuFlushGPUDirectRDMAWrites";
  an_signature := [("target", "CUflushGPUDirectRDMAWritesTarget");
                   ("scope", "CUflushGPUDirectRDMAWritesScope")];
  an_params := [Param "target" SEND_ONLY []; Param "scope" SEND_ONLY []];
  an_routing := None;
  an_async := false;
  an_owners := [];
  an_deep := [];
  an_tags := [];
  an_client := true;
  an_server := true;
  an_body := false |}.

Definition ann_cuDeviceGetProperties : annotation := {|
  an_function := "cuDeviceGetProperties";
  an_signature := [("prop", "CUdevprop *"); ("dev", "CUdevice")];
  an_params := [Param "prop" RECV_ONLY []; Param "dev" SEND_ONLY []];
  an_routing := None;
  an_async := false;
  an_owners := [];
  an_deep := [];
  an_tags := [];
  an_client := true;
  an_server := true;
  an_body := false |}.

Definition ann_cuDeviceComputeCapability : annotation := {|
  an_function := "cuDeviceComputeCapability";
  an_signature := [("major", "int *"); ("minor", "int *"); ("dev", "CUdevice")];
  an_params := [Param "major" RECV_ONLY [];
                Param "minor" RECV_ONLY [];
                Param "dev" SEND_ONLY []];
  an_routing := None;
  an_async := false;
  an_owners := [];
  an_deep := [];
  an_tags := [];
  an_client := true;
  an_server := true;
  an_body := false |}.

Definition ann_cuDevicePrimaryCtxRetain : annotation := {|
  an_function := "cuDevicePrimaryCtxRetain";
  an_signature := [("pctx", "CUcontext *"); ("dev", "CUdevice")];
  an_params := [Param "pctx" RECV_ONLY []; Param "dev" SEND_ONLY []];
  an_routing := None;
  an_async := false;
  an_owners := [("CONTEXT", "pctx")];
  an_deep := [];
  an_tags := [];
  an_client := false;
  an_server := false;
  an_body := false |}.

Definition ann_cuDevicePrimaryCtxRelease_v2 : annotation := {|
  an_function := "cuDevicePrimaryCtxRelease_v2";
  an_signature := [("dev", "CUdevice")];
  an_params := [Param "dev" SEND_ONLY []];
  an_routing := None;
  an_async := false;
  an_owners := [];
  an_deep := [];
  an_tags := [];
  an_client := false;
  an_server := false;
  an_body := false |}.

Definition ann_cuDevicePrimaryCtxSetFlags_v2 : annotation := {|
  an_function := "cuDevicePrimaryCtxSetFlags_v2";
  an_signature := [("dev", "CUdevice"); ("flags", "unsigned int")];
  an_params := [Param "dev" SEND_ONLY []; Param "flags" SEND_ONLY []];
  an_routing := None;
  an_async := false;
  an_owners := [];
  an_deep := [];
  an_tags := [];
  an_client := false;
  an_server := true;
  an_body := false |}.

Definition ann_cuDevicePrimaryCtxGetState : annotation := {|
  an_function := "cuDevicePrimaryCtxGetState";
  an_signature := [("dev", "CUdevice"); ("flags", "unsigned int *"); ("active", "int *")];
  an_params := [Param "dev" SEND_ONLY [];
                Param "flags" RECV_ONLY [];
                Param "active" RECV_ONLY []];
  an_routing := None;
  an_async := false;
  an_owners := [];
  an_deep := [];
  an_tags := [];
  an_client := false;
  an_server := true;
  an_body := false |}.

Definition ann_cuDevicePrimaryCtxReset_v2 : annotation := {|
  an_function := "cuDevicePrimaryCtxReset_v2";
  an_signature := [("dev", "CUdevice")];
  an_params := [Param "dev" SEND_ONLY []];
  an_routing := None;
  an_async := false;
  an_owners := [];
  an_deep := [];
  an_tags := [];
  an_client := false;
  an_server := false;
  an_body := false |}.

Definition ann_cuCtxCreate_v2 : annotation := {|
  an_function := "cuCtxCreate_v2";
  an_signature := [("pctx", "CUcontext *"); ("flags", "unsigned int"); ("dev", "CUdevice")];
  an_params := [Param "pctx" RECV_ONLY [];
                Param "flags" SEND_ONLY [];
                Param "dev" SEND_ONLY []];
  an_routing := None;
  an_async := false;
  an_owners := [("CONTEXT", "pctx")];
  an_deep := [];
  an_tags := [];
  an_client := false;
  an_server := false;
  an_body := false |}.

Definition ann_cuCtxCreate_v3 : annotation := {|
  an_function := "cuCtxCreate_v3";
  an_signature := [("pctx", "CUcontext *");
                   ("paramsArray", "CUexecAffinityParam *");
                   ("numParams", "int");
                   ("flags", "unsigned int");
                   ("dev", "CUdevice")];
  an_params := [Param "pctx" RECV_ONLY [];
                Param "numParams" SEND_ONLY [];
                Param "paramsArray" RECV_ONLY [LENGTH "numParams"];
                Param "flags" SEND_ONLY [];
                Param "dev" SEND_ONLY []];
  an_routing := None;
  an_async := false;
  an_owners := [];
  an_deep := [];
  an_tags := [];
  an_client := true;
  an_server := true;
  an_body := false |}.

Definition ann_cuCtxDestroy_v2 : annotation := {|
  an_function := "cuCtxDestroy_v2";
  an_signature := [("ctx", "CUcontext")];
  an_params := [Param "ctx" SEND_ONLY []];
  an_routing := None;
  an_async := false;
  an_owners := [];
  an_deep := [];
  an_tags := [];
  an_client := true;
  an_server := false;
  an_body := true |}.

Definition ann_cuCtxPushCurrent_v2 : annotation := {|
  an_function := "cuCtxPushCurrent_v2";
  an_signature := [("ctx", "CUcontext")];
  an_params := [Param "ctx" SEND_ONLY []];
  an_routing := None;
  an_async := false;
  an_owners := [];
  an_deep := [];
  an_tags := [];
  an_client := false;
  an_server := true;
  an_body := false |}.

Definition ann_cuCtxPopCurrent_v2 : annotation := {|
  an_function := "cuCtxPopCurrent_v2";
  an_signature := [("pctx", "CUcontext *")];
  an_params := [Param "pctx" RECV_ONLY []];
  an_routing := None;
  an_async := false;
  an_owners := [];
  an_deep := [];
  an_tags := [];
  an_client := false;
  an_server := true;
  an_body := false |}.

Definition ann_cuCtxSetCurrent : annotation := {|
  an_function := "cuCtxSetCurrent";
  an_signature := [("ctx", "CUcontext")];
  an_params := [Param "ctx" SEND_ONLY []];
  an_routing := None;
  an_async := false;
  an_owners := [];
  an_deep := [];
  an_tags := [];
  an_client := false;
  an_server := true;
  an_body := false |}.

Definition ann_cuCtxGetCurrent : annotation := {|
  an_function := "cuCtxGetCurrent";
  an_signature := [("pctx", "CUcontext *")];
  an_params := [Param "pctx" RECV_ONLY []];
  an_routing := None;
  an_async := false;
  an_owners := [];
  an_deep := [];
  an_tags := [];
  an_client := false;
  an_server := true;
  an_body := false |}.

Definition ann_cuCtxGetDevice : annotation := {|
  an_function := "cuCtxGetDevice";
  an_signature := [("device", "CUdevice *")];
  an_params := [Param "device" RECV_ONLY []];
  an_routing := None;
  an_async := false;
  an_owners := [];
  an_deep := [];
  an_tags := [];
  an_client := false;
  an_server := true;
  an_body := false |}.

Definition ann_cuCtxGetDevice_v2 : annotation := {|
  an_function := "cuCtxGetDevice_v2";
  an_signature := [("device", "CUdevice *"); ("ctx", "CUcontext")];
  an_params := [Param "device" RECV_ONLY []; Param "ctx" SEND_ONLY []];
  an_routing := Some ("CONTEXT", "ctx");
  an_async := false;
  an_owners := [];
  an_deep := [];
  an_tags := [];
  an_client := false;
  an_server := true;
  an_body := false |}.

Definition ann_cuCtxGetFlags : annotation := {|
  an_function := "cuCtxGetFlags";
  an_signature := [("flags", "unsigned int *")];
  an_params := [Param "flags" RECV_ONLY []];
  an_routing := None;
  an_async := false;
  an_owners := [];
  an_deep := [];
  an_tags := [];
  an_client := true;
  an_server := true;
  an_body := false |}.

Definition ann_cuCtxGetId : annotation := {|
  an_function := "cuCtxGetId";
  an_signature := [("ctx", "CUcontext"); ("ctxId", "unsigned long long *")];
  an_params := [Param "ctx" SEND_ONLY []; Param "ctxId" RECV_ONLY []];
  an_routing := None;
  an_async := false;
  an_owners := [];
  an_deep := [];
  an_tags := [];
  an_client := true;
  an_server := true;
  an_body := false |}.

Definition ann_cuCtxRecordEvent : annotation := {|
  an_function := "cuCtxRecordEvent";
  an_signature := [("hCtx", "CUcontext"); ("hEvent", "CUevent")];
  an_params := [Param "hCtx" SEND_ONLY []; Param "hEvent" SEND_ONLY []];
  an_routing := None;
  an_async := false;
  an_owners := [];
  an_deep := [];
  an_tags := [];
  an_client := true;
  an_server := true;
  an_body := false |}.

Definition ann_cuCtxWaitEvent : annotation := {|
  an_function := "cuCtxWaitEvent";
  an_signature := [("hCtx", "CUcontext"); ("hEvent", "CUevent")];
  an_params := [Param "hCtx" SEND_ONLY []; Param "hEvent" SEND_ONLY []];
  an_routing := None;
  an_async := false;
  an_owners := [];
  an_deep := [];
  an_tags := [];
  an_client := true;
  an_server := true;
  an_body := false |}.

Definition ann_cuCtxSynchronize : annotation := {|
  an_function := "cuCtxSynchronize";
  an_signature := [];
  an_params := [];
  an_routing := Some ("CURRENT_CONTEXT", "");
  an_async := false;
  an_owners := [];
  an_deep := [];
  an_tags := [Synchronize ["DEFERRED_DTOH"; "STDOUT"]];
  an_client := true;
  an_server := true;
  an_body := false |}.

Definition ann_cuCtxSynchronize_v2 : annotation := {|
  an_function := "cuCtxSynchronize_v2";
  an_signature := [("ctx", "CUcontext")];
  an_params := [Param "ctx" SEND_ONLY []];
  an_routing := Some ("CONTEXT", "ctx");
  an_async := false;
  an_owners := [];
  an_deep := [];
  an_tags := [Synchronize ["DEFERRED_DTOH"; "STDOUT"]];
  an_client := true;
  an_server := true;
  an_body := false |}.

Definition ann_cuCtxSetLimit : annotation := {|
  an_function := "cuCtxSetLimit";
  an_signature := [("limit", "CUlimit"); ("value", "size_t")];
  an_params := [Param "limit" SEND_ONLY []; Param "value" SEND_ONLY []];
  an_routing := None;
  an_async := false;
  an_owners := [];
  an_deep := [];
  an_tags := [];
  an_client := true;
  an_server := true;
  an_body := false |}.

Definition ann_cuCtxGetLimit : annotation := {|
  an_function := "cuCtxGetLimit";
  an_signature := [("pvalue", "size_t *"); ("limit", "CUlimit")];
  an_params := [Param "pvalue" RECV_ONLY []; Param "limit" SEND_ONLY []];
  an_routing := None;
  an_async := false;
  an_owners := [];
  an_deep := [];
  an_tags := [];
  an_client := true;
  an_server := true;
  an_body := false |}.

Definition ann_cuCtxGetCacheConfig : annotation := {|
  an_function := "cuCtxGetCacheConfig";
  an_signature := [("pconfig", "CUfunc_cache *")];
  an_params := [Param "pconfig" RECV_ONLY []];
  an_routing := None;
  an_async := false;
  an_owners := [];
  an_deep := [];
  an_tags := [];
  an_client := true;
  an_server := true;
  an_body := false |}.

Definition ann_cuCtxSetCacheConfig : annotation := {|
  an_function := "cuCtxSetCacheConfig";
  an_signature := [("config", "CUfunc_cache")];
  an_params := [Param "config" SEND_ONLY []];
  an_routing := None;
  an_async := false;
  an_owners := [];
  an_deep := [];
  an_tags := [];
  an_client := true;
  an_server := true;
  an_body := true |}.

Definition ann_cuCtxGetSharedMemConfig : annotation := {|
  an_function := "cuCtxGetSharedMemConfig";
  an_signature := [("pConfig", "CUsharedconfig *")];
  an_params := [Param "pConfig" RECV_ONLY []];
  an_routing := None;
  an_async := false;
  an_owners := [];
  an_deep := [];
  an_tags := [];
  an_client := true;
  an_server := true;
  an_body := false |}.

Definition ann_cuCtxSetSharedMemConfig : annotation := {|
  an_function := "cuCtxSetSharedMemConfig";
  an_signature := [("config", "CUsharedconfig")];
  an_params := [Param "config" SEND_ONLY []];
  an_routing := None;
  an_async := false;
  an_owners := [];
  an_deep := [];
  an_tags := [];
  an_client := true;
  an_server := true;
  an_body := false |}.

Definition ann_cuCtxGetApiVersion : annotation := {|
  an_function := "cuCtxGetApiVersion";
  an_signature := [("ctx", "CUcontext"); ("version", "unsigned int *")];
  an_params := [Param "ctx" SEND_ONLY []; Param "version" RECV_ONLY []];
  an_routing := None;
  an_async := false;
  an_owners := [];
  an_deep := [];
  an_tags := [];
  an_client := true;
  an_server := true;
  an_body := false |}.

Definition ann_cuCtxGetStreamPriorityRange : annotation := {|
  an_function := "cuCtxGetStreamPriorityRange";
  an_signature := [("leastPriority", "int *"); ("greatestPriority", "int *")];
  an_params := [Param "leastPriority" RECV_ONLY []; Param "greatestPriority" RECV_ONLY []];
  an_routing := None;
  an_async := false;
  an_owners := [];
  an_deep := [];
  an_tags := [];
  an_client := false;
  an_server := true;
  an_body := false |}.

Definition ann_cuCtxResetPersistingL2Cache : annotation := {|
  an_function := "cuCtxResetPersistingL2Cache";
  an_signature := [];
  an_params := [];
  an_routing := None;
  an_async := false;
  an_owners := [];
  an_deep := [];
  an_tags := [];
  an_client := true;
  an_server := true;
  an_body := false |}.

Definition ann_cuCtxGetExecAffinity : annotation := {|
  an_function := "cuCtxGetExecAffinity";
  an_signature := [("pExecAffinity", "CUexecAffinityParam *");
                   ("type", "CUexecAffinityType")];
  an_params := [Param "pExecAffinity" RECV_ONLY []; Param "type" SEND_ONLY []];
  an_routing := None;
  an_async := false;
  an_owners := [];
  an_deep := [];
  an_tags := [];
  an_client := true;
  an_server := true;
  an_body := false |}.

Definition ann_cuCtxAttach : annotation := {|
  an_function := "cuCtxAttach";
  an_signature := [("pctx", "CUcontext *"); ("flags", "unsigned int")];
  an_params := [Param "pctx" RECV_ONLY []; Param "flags" SEND_ONLY []];
  an_routing := None;
  an_async := false;
  an_owners := [];
  an_deep := [];
  an_tags := [];
  an_client := true;
  an_server := false;
  an_body := false |}.

Definition ann_cuCtxDetach : annotation := {|
  an_function := "cuCtxDetach";
  an_signature := [("ctx", "CUcontext")];
  an_params := [Param "ctx" SEND_ONLY []];
  an_routing := None;
  an_async := false;
  an_owners := [];
  an_deep := [];
  an_tags := [];
  an_client := true;
  an_server := false;
  an_body := true |}.

Definition ann_cuModuleLoad : annotation := {|
  an_function := "cuModuleLoad";
  an_signature := [("module", "CUmodule *"); ("fname", "const char *")];
  an_params := [Param "module" RECV_ONLY []; Param "fname" SEND_ONLY [NULL_TERMINATED]];
  an_routing := None;
  an_async := false;
  an_owners := [];
  an_deep := [];
  an_tags := [];
  an_client := false;
  an_server := false;
  an_body := false |}.

Definition ann_cuModuleLoadData : annotation := {|
  an_function := "cuModuleLoadData";
  an_signature := [("module", "CUmodule *"); ("image", "const void *")];
  an_params := [Param "module" RECV_ONLY []; Param "image" SEND_ONLY []];
  an_routing := None;
  an_async := false;
  an_owners := [];
  an_deep := [];
  an_tags := [];
  an_client := false;
  an_server := false;
  an_body := false |}.

Definition ann_cuModuleLoadDataEx : annotation := {|
  an_function := "cuModuleLoadDataEx";
  an_signature := [("module", "CUmodule *");
                   ("image", "const void *");
                   ("numOptions", "unsigned int");
                   ("options", "CUjit_option *");
                   ("optionValues", "void **")];
  an_params := [Param "module" RECV_ONLY [];
                Param "image" SEND_ONLY [NULL_TERMINATED];
                Param "numOptions" SEND_ONLY [];
                Param "options" SEND_ONLY [LENGTH "numOptions"];
                Param "optionValues" SEND_RECV []];
  an_routing := None;
  an_async := false;
  an_owners := [];
  an_deep := [];
  an_tags := [];
  an_client := false;
  an_server := false;
  an_body := false |}.

Definition ann_cuModuleUnload : annotation := {|
  an_function := "cuModuleUnload";
  an_signature := [("hmod", "CUmodule")];
  an_params := [Param "hmod" SEND_ONLY []];
  an_routing := Some ("MODULE", "hmod");
  an_async := false;
  an_owners := [];
  an_deep := [];
  an_tags := [Release ["MODULE"; "hmod"]];
  an_client := true;
  an_server := true;
  an_body := false |}.

Definition ann_cuModuleGetLoadingMode : annotation := {|
  an_function := "cuModuleGetLoadingMode";
  an_signature := [("mode", "CUmoduleLoadingMode *")];
  an_params := [Param "mode" RECV_ONLY []];
  an_routing := None;
  an_async := false;
  an_owners := [];
  an_deep := [];
  an_tags := [];
  an_client := false;
  an_server := true;
  an_body := false |}.

Definition ann_cuModuleGetFunction : annotation := {|
  an_function := "cuModuleGetFunction";
  an_signature := [("hfunc", "CUfunction *");
                   ("hmod", "CUmodule");
                   ("name", "const char *")];
  an_params := [Param "hfunc" RECV_ONLY [];
                Param "hmod" SEND_ONLY [];
                Param "name" SEND_ONLY [NULL_TERMINATED]];
  an_routing := Some ("MODULE", "hmod");
  an_async := false;
  an_owners := [("FUNCTION", "hfunc")];
  an_deep := [];
  an_tags := [];
  an_client := false;
  an_server := true;
  an_body := false |}.

Definition ann_cuModuleGetGlobal_v2 : annotation := {|
  an_function := "cuModuleGetGlobal_v2";
  an_signature := [("dptr", "CUdeviceptr *");
                   ("bytes", "size_t *");
                   ("hmod", "CUmodule");
                   ("name", "const char *")];
  an_params := [Param "dptr" RECV_ONLY [NULLABLE];
                Param "bytes" RECV_ONLY [NULLABLE];
                Param "hmod" SEND_ONLY [];
                Param "name" SEND_ONLY [NULL_TERMINATED]];
  an_routing := Some ("MODULE", "hmod");
  an_async := false;
  an_owners := [("DEVICEPTR", "dptr")];
  an_deep := [];
  an_tags := [];
  an_client := true;
  an_server := false;
  an_body := true |}.

Definition ann_cuLinkCreate_v2 : annotation := {|
  an_function := "cuLinkCreate_v2";
  an_signature := [("numOptions", "unsigned int");
                   ("options", "CUjit_option *");
                   ("optionValues", "void **");
                   ("stateOut", "CUlinkState *")];
  an_params := [Param "numOptions" SEND_ONLY [];
                Param "options" SEND_RECV [];
                Param "optionValues" SEND_RECV [];
                Param "stateOut" SEND_RECV []];
  an_routing := None;
  an_async := false;
  an_owners := [];
  an_deep := [];
  an_tags := [];
  an_client := false;
  an_server := false;
  an_body := false |}.

Definition ann_cuLinkAddData_v2 : annotation := {|
  an_function := "cuLinkAddData_v2";
  an_signature := [("state", "CUlinkState");
                   ("type", "CUjitInputType");
                   ("data", "void *");
                   ("size", "size_t");
                   ("name", "const char *");
                   ("numOptions", "unsigned int");
                   ("options", "CUjit_option *");
                   ("optionValues", "void **")];
  an_params := [Param "state" SEND_ONLY [];
                Param "type" SEND_ONLY [];
                Param "data" SEND_ONLY [];
                Param "size" SEND_ONLY [];
                Param "name" SEND_ONLY [NULL_TERMINATED];
                Param "numOptions" SEND_ONLY [];
                Param "options" SEND_ONLY [LENGTH "numOptions"];
                Param "optionValues" SEND_ONLY [LENGTH "numOptions"]];
  an_routing := None;
  an_async := false;
  an_owners := [];
  an_deep := [];
  an_tags := [];
  an_client := false;
  an_server := false;
  an_body := false |}.

Definition ann_cuLinkAddFile_v2 : annotation := {|
  an_function := "cuLinkAddFile_v2";
  an_signature := [("state", "CUlinkState");
                   ("type", "CUjitInputType");
                   ("path", "const char *");
                   ("numOptions", "unsigned int");
                   ("options", "CUjit_option *");
                   ("optionValues", "void **")];
  an_params := [Param "state" SEND_ONLY [];
                Param "type" SEND_ONLY [];
                Param "path" SEND_ONLY [NULL_TERMINATED];
                Param "numOptions" SEND_ONLY [];
                Param "options" SEND_ONLY [LENGTH "numOptions"];
                Param "optionValues" SEND_ONLY [LENGTH "numOptions"]];
  an_routing := None;
  an_async := false;
  an_owners := [];
  an_deep := [];
  an_tags := [];
  an_client := false;
  an_server := false;
  an_body := false |}.

Definition ann_cuLinkComplete : annotation := {|
  an_function := "cuLinkComplete";
  an_signature := [("state", "CUlinkState");
                   ("cubinOut", "void **");
                   ("sizeOut", "size_t *")];
  an_params := [Param "state" SEND_ONLY [];
                Param "cubinOut" RECV_ONLY [];
                Param "sizeOut" RECV_ONLY []];
  an_routing := None;
  an_async := false;
  an_owners := [];
  an_deep := [];
  an_tags := [];
  an_client := false;
  an_server := false;
  an_body := false |}.

Definition ann_cuLinkDestroy : annotation := {|
  an_function := "cuLinkDestroy";
  an_signature := [("state", "CUlinkState")];
  an_params := [Param "state" SEND_ONLY []];
  an_routing := None;
  an_async := false;
  an_owners := [];
  an_deep := [];
  an_tags := [];
  an_client := false;
  an_server := false;
  an_body := false |}.

Definition ann_cuModuleGetTexRef : annotation := {|
  an_function := "cuModuleGetTexRef";
  an_signature := [("pTexRef", "CUtexref *");
                   ("hmod", "CUmodule");
                   ("name", "const char *")];
  an_params := [Param "pTexRef" RECV_ONLY [];
                Param "hmod" SEND_ONLY [];
                Param "name" SEND_ONLY [NULL_TERMINATED]];
  an_routing := None;
  an_async := false;
  an_owners := [];
  an_deep := [];
  an_tags := [];
  an_client := true;
  an_server := true;
  an_body := false |}.

Definition ann_cuModuleGetSurfRef : annotation := {|
  an_function := "cuModuleGetSurfRef";
  an_signature := [("pSurfRef", "CUsurfref *");
                   ("hmod", "CUmodule");
                   ("name", "const char *")];
  an_params := [Param "pSurfRef" RECV_ONLY [];
                Param "hmod" SEND_ONLY [];
                Param "name" SEND_ONLY [NULL_TERMINATED]];
  an_routing := None;
  an_async := false;
  an_owners := [];
  an_deep := [];
  an_tags := [];
  an_client := true;
  an_server := true;
  an_body := false |}.

Definition ann_cuLibraryLoadData : annotation := {|
  an_function := "cuLibraryLoadData";
  an_signature := [("library", "CUlibrary *");
                   ("code", "const void *");
                   ("jitOptions", "CUjit_option *");
                   ("jitOptionsValues", "void **");
                   ("numJitOptions", "unsigned int");
                   ("libraryOptions", "CUlibraryOption *");
                   ("libraryOptionValues", "void **");
                   ("numLibraryOptions", "unsigned int")];
  an_params := [Param "library" RECV_ONLY [];
                Param "code" SEND_ONLY [];
                Param "numJitOptions" SEND_ONLY [];
                Param "jitOptions" SEND_ONLY [LENGTH "numJitOptions"];
                Param "jitOptionsValues" SEND_ONLY [LENGTH "numJitOptions"];
                Param "numLibraryOptions" SEND_ONLY [];
                Param "libraryOptions" SEND_ONLY [LENGTH "numLibraryOptions"];
                Param "libraryOptionValues" SEND_ONLY [LENGTH "numLibraryOptions"]];
  an_routing := None;
  an_async := false;
  an_owners := [];
  an_deep := [];
  an_tags := [];
  an_client := false;
  an_server := false;
  an_body := false |}.

Definition ann_cuLibraryUnload : annotation := {|
  an_function := "cuLibraryUnload";
  an_signature := [("library", "CUlibrary")];
  an_params := [Param "library" SEND_ONLY []];
  an_routing := Some ("LIBRARY", "library");
  an_async := true;
  an_owners := [];
  an_deep := [];
  an_tags := [Release ["LIBRARY"; "library"]];
  an_client := true;
  an_server := false;
  an_body := false |}.

Definition ann_cuLibraryGetKernel : annotation := {|
  an_function := "cuLibraryGetKernel";
  an_signature := [("pKernel", "CUkernel *");
                   ("library", "CUlibrary");
                   ("name", "const char *")];
  an_params := [Param "pKernel" RECV_ONLY [];
                Param "library" SEND_ONLY [];
                Param "name" SEND_ONLY [NULL_TERMINATED]];
  an_routing := Some ("LIBRARY", "library");
  an_async := false;
  an_owners := [];
  an_deep := [];
  an_tags := [];
  an_client := false;
  an_server := true;
  an_body := false |}.

Definition ann_cuLibraryGetModule : annotation := {|
  an_function := "cuLibraryGetModule";
  an_signature := [("pMod", "CUmodule *"); ("library", "CUlibrary")];
  an_params := [Param "pMod" RECV_ONLY []; Param "library" SEND_ONLY []];
  an_routing := Some ("CURRENT_CONTEXT", "");
  an_async := false;
  an_owners := [("MODULE", "pMod")];
  an_deep := [];
  an_tags := [RecordParent ["LIBRARY"; "pMod"; "library"]];
  an_client := true;
  an_server := false;
  an_body := true |}.

Definition ann_cuKernelGetFunction : annotation := {|
  an_function := "cuKernelGetFunction";
  an_signature := [("pFunc", "CUfunction *"); ("kernel", "CUkernel")];
  an_params := [Param "pFunc" RECV_ONLY []; Param "kernel" SEND_ONLY []];
  an_routing := None;
  an_async := false;
  an_owners := [];
  an_deep := [];
  an_tags := [];
  an_client := false;
  an_server := true;
  an_body := false |}.

Definition ann_cuKernelGetLibrary : annotation := {|
  an_function := "cuKernelGetLibrary";
  an_signature := [("pLib", "CUlibrary *"); ("kernel", "CUkernel")];
  an_params := [Param "pLib" RECV_ONLY []; Param "kernel" SEND_ONLY []];
  an_routing := None;
  an_async := false;
  an_owners := [];
  an_deep := [];
  an_tags := [];
  an_client := false;
  an_server := true;
  an_body := false |}.

Definition ann_cuKernelGetParamInfo : annotation := {|
  an_function := "cuKernelGetParamInfo";
  an_signature := [("kernel", "CUkernel");
                   ("paramIndex", "size_t");
                   ("paramOffset", "size_t *");
                   ("paramSize", "size_t *")];
  an_params := [Param "kernel" SEND_ONLY [];
                Param "paramIndex" SEND_ONLY [];
                Param "paramOffset" RECV_ONLY [];
                Param "paramSize" RECV_ONLY []];
  an_routing := Some ("FUNCTION", "kernel");
  an_async := false;
  an_owners := [];
  an_deep := [];
  an_tags := [];
  an_client := false;
  an_server := true;
  an_body := false |}.

Definition ann_cuFuncGetParamInfo : annotation := {|
  an_function := "cuFuncGetParamInfo";
  an_signature := [("func", "CUfunction");
                   ("paramIndex", "size_t");
                   ("paramOffset", "size_t *");
                   ("paramSize", "size_t *")];
  an_params := [Param "func" SEND_ONLY [];
                Param "paramIndex" SEND_ONLY [];
                Param "paramOffset" RECV_ONLY [];
                Param "paramSize" RECV_ONLY []];
  an_routing := Some ("FUNCTION", "func");
  an_async := false;
  an_owners := [];
  an_deep := [];
  an_tags := [];
  an_client := false;
  an_server := true;
  an_body := false |}.

Definition ann_cuLibraryGetGlobal : annotation := {|
  an_function := "cuLibraryGetGlobal";
  an_signature := [("dptr", "CUdeviceptr *");
                   ("bytes", "size_t *");
                   ("library", "CUlibrary");
                   ("name", "const char *")];
  an_params := [Param "dptr" RECV_ONLY [NULLABLE];
                Param "bytes" RECV_ONLY [NULLABLE];
                Param "library" SEND_ONLY [];
                Param "name" SEND_ONLY [NULL_TERMINATED]];
  an_routing := Some ("CURRENT_CONTEXT", "");
  an_async := false;
  an_owners := [("DEVICEPTR", "dptr")];
  an_deep := [];
  an_tags := [];
  an_client := true;
  an_server := true;
  an_body := true |}.

Definition ann_cuLibraryGetManaged : annotation := {|
  an_function := "cuLibraryGetManaged";
  an_signature := [("dptr", "CUdeviceptr *");
                   ("bytes", "size_t *");
                   ("library", "CUlibrary");
                   ("name", "const char *")];
  an_params := [Param "dptr" RECV_ONLY [NULLABLE];
                Param "bytes" RECV_ONLY [NULLABLE];
                Param "library" SEND_ONLY [];
                Param "name" SEND_ONLY [NULL_TERMINATED]];
  an_routing := Some ("LIBRARY", "library");
  an_async := false;
  an_owners := [("DEVICEPTR", "dptr")];
  an_deep := [];
  an_tags := [];
  an_client := true;
  an_server := true;
  an_body := true |}.

Definition ann_cuLibraryGetUnifiedFunction : annotation := {|
  an_function := "cuLibraryGetUnifiedFunction";
  an_signature := [("fptr", "void **");
                   ("library", "CUlibrary");
                   ("symbol", "const char *")];
  an_params := [Param "fptr" RECV_ONLY [];
                Param "library" SEND_ONLY [];
                Param "symbol" SEND_ONLY [NULL_TERMINATED]];
  an_routing := Some ("LIBRARY", "library");
  an_async := false;
  an_owners := [];
  an_deep := [];
  an_tags := [];
  an_client := true;
  an_server := true;
  an_body := false |}.

Definition ann_cuKernelGetAttribute : annotation := {|
  an_function := "cuKernelGetAttribute";
  an_signature := [("pi", "int *");
                   ("attrib", "CUfunction_attribute");
                   ("kernel", "CUkernel");
                   ("dev", "CUdevice")];
  an_params := [Param "pi" SEND_RECV [];
                Param "attrib" SEND_ONLY [];
                Param "kernel" SEND_ONLY [];
                Param "dev" SEND_ONLY []];
  an_routing := None;
  an_async := false;
  an_owners := [];
  an_deep := [];
  an_tags := [];
  an_client := false;
  an_server := true;
  an_body := false |}.

Definition ann_cuKernelSetAttribute : annotation := {|
  an_function := "cuKernelSetAttribute";
  an_signature := [("attrib", "CUfunction_attribute");
                   ("val", "int");
                   ("kernel", "CUkernel");
                   ("dev", "CUdevice")];
  an_params := [Param "attrib" SEND_ONLY [];
                Param "val" SEND_ONLY [];
                Param "kernel" SEND_ONLY [];
                Param "dev" SEND_ONLY []];
  an_routing := None;
  an_async := true;
  an_owners := [];
  an_deep := [];
  an_tags := [];
  an_client := true;
  an_server := true;
  an_body := true |}.

Definition ann_cuKernelSetCacheConfig : annotation := {|
  an_function := "cuKernelSetCacheConfig";
  an_signature := [("kernel", "CUkernel"); ("config", "CUfunc_cache"); ("dev", "CUdevice")];
  an_params := [Param "kernel" SEND_ONLY [];
                Param "config" SEND_ONLY [];
                Param "dev" SEND_ONLY []];
  an_routing := None;
  an_async := false;
  an_owners := [];
  an_deep := [];
  an_tags := [];
  an_client := true;
  an_server := true;
  an_body := true |}.

Definition ann_cuKernelGetName : annotation := {|
  an_function := "cuKernelGetName";
  an_signature := [("name", "const char **"); ("hfunc", "CUkernel")];
  an_params := [Param "name" RECV_ONLY [NULL_TERMINATED]; Param "hfunc" SEND_ONLY []];
  an_routing := Some ("FUNCTION", "hfunc");
  an_async := false;
  an_owners := [];
  an_deep := [];
  an_tags := [Retain ["name"; "hfunc"]];
  an_client := true;
  an_server := true;
  an_body := false |}.

Definition ann_cuMemGetInfo_v2 : annotation := {|
  an_function := "cuMemGetInfo_v2";
  an_signature := [("free", "size_t *"); ("total", "size_t *")];
  an_params := [Param "free" SEND_RECV []; Param "total" SEND_RECV []];
  an_routing := Some ("CURRENT_CONTEXT", "");
  an_async := false;
  an_owners := [];
  an_deep := [];
  an_tags := [];
  an_client := true;
  an_server := true;
  an_body := false |}.

Definition ann_cuMemAlloc_v2 : annotation := {|
  an_function := "cuMemAlloc_v2";
  an_signature := [("dptr", "CUdeviceptr *"); ("bytesize", "size_t")];
  an_params := [Param "dptr" SEND_RECV []; Param "bytesize" SEND_ONLY []];
  an_routing := Some ("CURRENT_CONTEXT", "");
  an_async := false;
  an_owners := [];
  an_deep := [];
  an_tags := [];
  an_client := true;
  an_server := true;
  an_body := true |}.

Definition ann_cuMemAllocPitch_v2 : annotation := {|
  an_function := "cuMemAllocPitch_v2";
  an_signature := [("dptr", "CUdeviceptr *");
                   ("pPitch", "size_t *");
                   ("WidthInBytes", "size_t");
                   ("Height", "size_t");
                   ("ElementSizeBytes", "unsigned int")];
  an_params := [Param "dptr" SEND_RECV [];
                Param "pPitch" SEND_RECV [];
                Param "WidthInBytes" SEND_ONLY [];
                Param "Height" SEND_ONLY [];
                Param "ElementSizeBytes" SEND_ONLY []];
  an_routing := Some ("CURRENT_CONTEXT", "");
  an_async := false;
  an_owners := [];
  an_deep := [];
  an_tags := [];
  an_client := true;
  an_server := true;
  an_body := true |}.

Definition ann_cuMemFree_v2 : annotation := {|
  an_function := "cuMemFree_v2";
  an_signature := [("dptr", "CUdeviceptr")];
  an_params := [Param "dptr" SEND_ONLY []];
  an_routing := None;
  an_async := false;
  an_owners := [];
  an_deep := [];
  an_tags := [];
  an_client := false;
  an_server := false;
  an_body := false |}.

Definition ann_cuMemGetAddressRange_v2 : annotation := {|
  an_function := "cuMemGetAddressRange_v2";
  an_signature := [("pbase", "CUdeviceptr *");
                   ("psize", "size_t *");
                   ("dptr", "CUdeviceptr")];
  an_params := [Param "pbase" RECV_ONLY [NULLABLE];
                Param "psize" RECV_ONLY [NULLABLE];
                Param "dptr" SEND_ONLY []];
  an_routing := Some ("DEVICEPTR", "dptr");
  an_async := false;
  an_owners := [];
  an_deep := [];
  an_tags := [];
  an_client := true;
  an_server := true;
  an_body := false |}.

Definition ann_cuMemAllocHost_v2 : annotation := {|
  an_function := "cuMemAllocHost_v2";
  an_signature := [("pp", "void **"); ("bytesize", "size_t")];
  an_params := [Param "pp" SEND_RECV []; Param "bytesize" SEND_ONLY []];
  an_routing := None;
  an_async := false;
  an_owners := [];
  an_deep := [];
  an_tags := [];
  an_client := false;
  an_server := true;
  an_body := false |}.

Definition ann_cuMemFreeHost : annotation := {|
  an_function := "cuMemFreeHost";
  an_signature := [("p", "void *")];
  an_params := [Param "p" SEND_ONLY []];
  an_routing := None;
  an_async := false;
  an_owners := [];
  an_deep := [];
  an_tags := [];
  an_client := false;
  an_server := false;
  an_body := false |}.

Definition ann_cuMemHostAlloc : annotation := {|
  an_function := "cuMemHostAlloc";
  an_signature := [("pp", "void **"); ("bytesize", "size_t"); ("Flags", "unsigned int")];
  an_params := [Param "pp" SEND_RECV [];
                Param "bytesize" SEND_ONLY [];
                Param "Flags" SEND_ONLY []];
  an_routing := None;
  an_async := false;
  an_owners := [];
  an_deep := [];
  an_tags := [];
  an_client := false;
  an_server := false;
  an_body := false |}.

Definition ann_cuMemHostGetDevicePointer_v2 : annotation := {|
  an_function := "cuMemHostGetDevicePointer_v2";
  an_signature := [("pdptr", "CUdeviceptr *"); ("p", "void *"); ("Flags", "unsigned int")];
  an_params := [Param "pdptr" SEND_RECV [];
                Param "p" SEND_ONLY [];
                Param "Flags" SEND_ONLY []];
  an_routing := None;
  an_async := false;
  an_owners := [];
  an_deep := [];
  an_tags := [];
  an_client := false;
  an_server := true;
  an_body := false |}.

Definition ann_cuMemHostGetFlags : annotation := {|
  an_function := "cuMemHostGetFlags";
  an_signature := [("pFlags", "unsigned int *"); ("p", "void *")];
  an_params := [Param "pFlags" SEND_RECV []; Param "p" SEND_ONLY []];
  an_routing := None;
  an_async := false;
  an_owners := [];
  an_deep := [];
  an_tags := [];
  an_client := false;
  an_server := false;
  an_body := false |}.

Definition ann_cuMemAllocManaged : annotation := {|
  an_function := "cuMemAllocManaged";
  an_signature := [("dptr", "CUdeviceptr *");
                   ("bytesize", "size_t");
                   ("flags", "unsigned int")];
  an_params := [Param "dptr" SEND_RECV [];
                Param "bytesize" SEND_ONLY [];
                Param "flags" SEND_ONLY []];
  an_routing := None;
  an_async := false;
  an_owners := [];
  an_deep := [];
  an_tags := [];
  an_client := false;
  an_server := false;
  an_body := false |}.

Definition ann_cuDeviceGetByPCIBusId : annotation := {|
  an_function := "cuDeviceGetByPCIBusId";
  an_signature := [("dev", "CUdevice *"); ("pciBusId", "const char *")];
  an_params := [Param "dev" RECV_ONLY [NULLABLE];
                Param "pciBusId" SEND_ONLY [NULL_TERMINATED]];
  an_routing := Some ("ALL", "dev");
  an_async := false;
  an_owners := [];
  an_deep := [];
  an_tags := [];
  an_client := true;
  an_server := true;
  an_body := false |}.

Definition ann_cuDeviceGetPCIBusId : annotation := {|
  an_function := "cuDeviceGetPCIBusId";
  an_signature := [("pciBusId", "char *"); ("len", "int"); ("dev", "CUdevice")];
  an_params := [Param "len" SEND_ONLY [];
                Param "pciBusId" RECV_ONLY [LENGTH "len"];
                Param "dev" SEND_ONLY []];
  an_routing := None;
  an_async := false;
  an_owners := [];
  an_deep := [];
  an_tags := [];
  an_client := true;
  an_server := true;
  an_body := false |}.

Definition ann_cuIpcGetEventHandle : annotation := {|
  an_function := "cuIpcGetEventHandle";
  an_signature := [("pHandle", "CUipcEventHandle *"); ("event", "CUevent")];
  an_params := [Param "pHandle" SEND_RECV []; Param "event" SEND_ONLY []];
  an_routing := None;
  an_async := false;
  an_owners := [];
  an_deep := [];
  an_tags := [];
  an_client := true;
  an_server := true;
  an_body := false |}.

Definition ann_cuIpcOpenEventHandle : annotation := {|
  an_function := "cuIpcOpenEventHandle";
  an_signature := [("phEvent", "CUevent *"); ("handle", "CUipcEventHandle")];
  an_params := [Param "phEvent" SEND_RECV []; Param "handle" SEND_ONLY []];
  an_routing := None;
  an_async := false;
  an_owners := [];
  an_deep := [];
  an_tags := [];
  an_client := true;
  an_server := true;
  an_body := false |}.

Definition ann_cuIpcGetMemHandle : annotation := {|
  an_function := "cuIpcGetMemHandle";
  an_signature := [("pHandle", "CUipcMemHandle *"); ("dptr", "CUdeviceptr")];
  an_params := [Param "pHandle" SEND_RECV []; Param "dptr" SEND_ONLY []];
  an_routing := None;
  an_async := false;
  an_owners := [];
  an_deep := [];
  an_tags := [];
  an_client := true;
  an_server := true;
  an_body := false |}.

Definition ann_cuIpcOpenMemHandle_v2 : annotation := {|
  an_function := "cuIpcOpenMemHandle_v2";
  an_signature := [("pdptr", "CUdeviceptr *");
                   ("handle", "CUipcMemHandle");
                   ("Flags", "unsigned int")];
  an_params := [Param "pdptr" SEND_RECV [];
                Param "handle" SEND_ONLY [];
                Param "Flags" SEND_ONLY []];
  an_routing := None;
  an_async := false;
  an_owners := [];
  an_deep := [];
  an_tags := [];
  an_client := true;
  an_server := true;
  an_body := false |}.

Definition ann_cuIpcCloseMemHandle : annotation := {|
  an_function := "cuIpcCloseMemHandle";
  an_signature := [("dptr", "CUdeviceptr")];
  an_params := [Param "dptr" SEND_ONLY []];
  an_routing := None;
  an_async := false;
  an_owners := [];
  an_deep := [];
  an_tags := [];
  an_client := true;
  an_server := true;
  an_body := false |}.

Definition ann_cuMemcpy : annotation := {|
  an_function := "cuMemcpy";
  an_signature := [("dst", "CUdeviceptr"); ("src", "CUdeviceptr"); ("ByteCount", "size_t")];
  an_params := [Param "dst" SEND_ONLY [];
                Param "src" SEND_ONLY [];
                Param "ByteCount" SEND_ONLY []];
  an_routing := Some ("DEVICEPTR", "dst");
  an_async := false;
  an_owners := [];
  an_deep := [];
  an_tags := [CrossServerCopy ["dst"; "src"; "ByteCount"]];
  an_client := false;
  an_server := true;
  an_body := false |}.

Definition ann_cuMemcpyPeer : annotation := {|
  an_function := "cuMemcpyPeer";
  an_signature := [("dstDevice", "CUdeviceptr");
                   ("dstContext", "CUcontext");
                   ("srcDevice", "CUdeviceptr");
                   ("srcContext", "CUcontext");
                   ("ByteCount", "size_t")];
  an_params := [Param "dstDevice" SEND_ONLY [];
                Param "dstContext" SEND_ONLY [];
                Param "srcDevice" SEND_ONLY [];
                Param "srcContext" SEND_ONLY [];
                Param "ByteCount" SEND_ONLY []];
  an_routing := None;
  an_async := false;
  an_owners := [];
  an_deep := [];
  an_tags := [CrossServerCopy ["dstDevice"; "srcDevice"; "ByteCount"]];
  an_client := true;
  an_server := true;
  an_body := false |}.

Definition ann_cuMemcpyHtoD_v2 : annotation := {|
  an_function := "cuMemcpyHtoD_v2";
  an_signature := [("dstDevice", "CUdeviceptr");
                   ("srcHost", "const void *");
                   ("ByteCount", "size_t")];
  an_params := [Param "dstDevice" SEND_ONLY [];
                Param "ByteCount" SEND_ONLY [];
                Param "srcHost" SEND_ONLY [LENGTH "ByteCount"]];
  an_routing := Some ("DEVICEPTR", "dstDevice");
  an_async := false;
  an_owners := [];
  an_deep := [];
  an_tags := [Synchronize []];
  an_client := false;
  an_server := false;
  an_body := false |}.

Definition ann_cuMemcpyDtoH_v2 : annotation := {|
  an_function := "cuMemcpyDtoH_v2";
  an_signature := [("dstHost", "void *");
                   ("srcDevice", "CUdeviceptr");
                   ("ByteCount", "size_t")];
  an_params := [Param "srcDevice" SEND_ONLY [];
                Param "ByteCount" SEND_ONLY [];
                Param "dstHost" RECV_ONLY [LENGTH "ByteCount"]];
  an_routing := Some ("DEVICEPTR", "srcDevice");
  an_async := false;
  an_owners := [];
  an_deep := [];
  an_tags := [];
  an_client := false;
  an_server := false;
  an_body := false |}.

Definition ann_cuMemcpyDtoD_v2 : annotation := {|
  an_function := "cuMemcpyDtoD_v2";
  an_signature := [("dstDevice", "CUdeviceptr");
                   ("srcDevice", "CUdeviceptr");
                   ("ByteCount", "size_t")];
  an_params := [Param "dstDevice" SEND_ONLY [];
                Param "srcDevice" SEND_ONLY [];
                Param "ByteCount" SEND_ONLY []];
  an_routing := Some ("DEVICEPTR", "dstDevice");
  an_async := false;
  an_owners := [];
  an_deep := [];
  an_tags := [Synchronize []; CrossServerCopy ["dstDevice"; "srcDevice"; "ByteCount"]];
  an_client := true;
  an_server := true;
  an_body := false |}.

Definition ann_cuMemcpyDtoA_v2 : annotation := {|
  an_function := "cuMemcpyDtoA_v2";
  an_signature := [("dstArray", "CUarray");
                   ("dstOffset", "size_t");
                   ("srcDevice", "CUdeviceptr");
                   ("ByteCount", "size_t")];
  an_params := [Param "dstArray" SEND_ONLY [];
                Param "dstOffset" SEND_ONLY [];
                Param "srcDevice" SEND_ONLY [];
                Param "ByteCount" SEND_ONLY []];
  an_routing := Some ("DEVICEPTR", "srcDevice");
  an_async := false;
  an_owners := [];
  an_deep := [];
  an_tags := [];
  an_client := true;
  an_server := true;
  an_body := false |}.

Definition ann_cuMemcpyAtoD_v2 : annotation := {|
  an_function := "cuMemcpyAtoD_v2";
  an_signature := [("dstDevice", "CUdeviceptr");
                   ("srcArray", "CUarray");
                   ("srcOffset", "size_t");
                   ("ByteCount", "size_t")];
  an_params := [Param "dstDevice" SEND_ONLY [];
                Param "srcArray" SEND_ONLY [];
                Param "srcOffset" SEND_ONLY [];
                Param "ByteCount" SEND_ONLY []];
  an_routing := Some ("DEVICEPTR", "dstDevice");
  an_async := false;
  an_owners := [];
  an_deep := [];
  an_tags := [];
  an_client := true;
  an_server := true;
  an_body := false |}.

Definition ann_cuMemcpyAtoH_v2 : annotation := {|
  an_function := "cuMemcpyAtoH_v2";
  an_signature := [("dstHost", "void *");
                   ("srcArray", "CUarray");
                   ("srcOffset", "size_t");
                   ("ByteCount", "size_t")];
  an_params := [Param "srcArray" SEND_ONLY [];
                Param "srcOffset" SEND_ONLY [];
                Param "ByteCount" SEND_ONLY [];
                Param "dstHost" RECV_ONLY [LENGTH "ByteCount"]];
  an_routing := None;
  an_async := false;
  an_owners := [];
  an_deep := [];
  an_tags := [];
  an_client := false;
  an_server := false;
  an_body := false |}.

Definition ann_cuMemcpyAtoA_v2 : annotation := {|
  an_function := "cuMemcpyAtoA_v2";
  an_signature := [("dstArray", "CUarray");
                   ("dstOffset", "size_t");
                   ("srcArray", "CUarray");
                   ("srcOffset", "size_t");
                   ("ByteCount", "size_t")];
  an_params := [Param "dstArray" SEND_ONLY [];
                Param "dstOffset" SEND_ONLY [];
                Param "srcArray" SEND_ONLY [];
                Param "srcOffset" SEND_ONLY [];
                Param "ByteCount" SEND_ONLY []];
  an_routing := None;
  an_async := false;
  an_owners := [];
  an_deep := [];
  an_tags := [];
  an_client := true;
  an_server := true;
  an_body := false |}.

Definition ann_cuMemcpy2D_v2 : annotation := {|
  an_function := "cuMemcpy2D_v2";
  an_signature := [("pCopy", "const CUDA_MEMCPY2D *")];
  an_params := [Param "pCopy" SEND_ONLY [DEREF]];
  an_routing := None;
  an_async := false;
  an_owners := [];
  an_deep := [];
  an_tags := [];
  an_client := false;
  an_server := false;
  an_body := false |}.

Definition ann_cuMemcpy2DUnaligned_v2 : annotation := {|
  an_function := "cuMemcpy2DUnaligned_v2";
  an_signature := [("pCopy", "const CUDA_MEMCPY2D *")];
  an_params := [Param "pCopy" SEND_ONLY [DEREF]];
  an_routing := None;
  an_async := false;
  an_owners := [];
  an_deep := [];
  an_tags := [];
  an_client := false;
  an_server := false;
  an_body := false |}.

Definition ann_cuMemcpy3D_v2 : annotation := {|
  an_function := "cuMemcpy3D_v2";
  an_signature := [("pCopy", "const CUDA_MEMCPY3D *")];
  an_params := [Param "pCopy" SEND_ONLY []];
  an_routing := None;
  an_async := false;
  an_owners := [];
  an_deep := [];
  an_tags := [];
  an_client := false;
  an_server := false;
  an_body := false |}.

Definition ann_cuMemcpy3DPeer : annotation := {|
  an_function := "cuMemcpy3DPeer";
  an_signature := [("pCopy", "const CUDA_MEMCPY3D_PEER *")];
  an_params := [Param "pCopy" SEND_ONLY []];
  an_routing := None;
  an_async := false;
  an_owners := [];
  an_deep := [];
  an_tags := [];
  an_client := false;
  an_server := false;
  an_body := false |}.

Definition ann_cuMemcpyPeerAsync : annotation := {|
  an_function := "cuMemcpyPeerAsync";
  an_signature := [("dstDevice", "CUdeviceptr");
                   ("dstContext", "CUcontext");
                   ("srcDevice", "CUdeviceptr");
                   ("srcContext", "CUcontext");
                   ("ByteCount", "size_t");
                   ("hStream", "CUstream")];
  an_params := [Param "dstDevice" SEND_ONLY [];
                Param "dstContext" SEND_ONLY [];
                Param "srcDevice" SEND_ONLY [];
                Param "srcContext" SEND_ONLY [];
                Param "ByteCount" SEND_ONLY [];
                Param "hStream" SEND_ONLY []];
  an_routing := None;
  an_async := false;
  an_owners := [];
  an_deep := [];
  an_tags := [CrossServerCopy ["dstDevice"; "srcDevice"; "ByteCount"; "STREAM:hStream"; "ASYNC"]];
  an_client := true;
  an_server := true;
  an_body := false |}.

Definition ann_cuMemcpyHtoDAsync_v2 : annotation := {|
  an_function := "cuMemcpyHtoDAsync_v2";
  an_signature := [("dstDevice", "CUdeviceptr");
                   ("srcHost", "const void *");
                   ("ByteCount", "size_t");
                   ("hStream", "CUstream")];
  an_params := [Param "dstDevice" SEND_ONLY [];
                Param "ByteCount" SEND_ONLY [];
                Param "srcHost" SEND_ONLY [LENGTH "ByteCount"];
                Param "hStream" SEND_ONLY []];
  an_routing := Some ("DEVICEPTR", "dstDevice");
  an_async := false;
  an_owners := [];
  an_deep := [];
  an_tags := [];
  an_client := false;
  an_server := false;
  an_body := false |}.

Definition ann_cuMemcpyDtoHAsync_v2 : annotation := {|
  an_function := "cuMemcpyDtoHAsync_v2";
  an_signature := [("dstHost", "void *");
                   ("srcDevice", "CUdeviceptr");
                   ("ByteCount", "size_t");
                   ("hStream", "CUstream")];
  an_params := [Param "srcDevice" SEND_ONLY [];
                Param "ByteCount" SEND_ONLY [];
                Param "dstHost" RECV_ONLY [LENGTH "ByteCount"];
                Param "hStream" SEND_ONLY []];
  an_routing := None;
  an_async := false;
  an_owners := [];
  an_deep := [];
  an_tags := [];
  an_client := false;
  an_server := false;
  an_body := false |}.

Definition ann_cuMemcpyDtoDAsync_v2 : annotation := {|
  an_function := "cuMemcpyDtoDAsync_v2";
  an_signature := [("dstDevice", "CUdeviceptr");
                   ("srcDevice", "CUdeviceptr");
                   ("ByteCount", "size_t");
                   ("hStream", "CUstream")];
  an_params := [Param "dstDevice" SEND_ONLY [];
                Param "srcDevice" SEND_ONLY [];
                Param "ByteCount" SEND_ONLY [];
                Param "hStream" SEND_ONLY []];
  an_routing := Some ("DEVICEPTR", "dstDevice");
  an_async := true;
  an_owners := [];
  an_deep := [];
  an_tags := [CrossServerCopy ["dstDevice"; "srcDevice"; "ByteCount"; "STREAM:hStream"; "ASYNC"]];
  an_client := true;
  an_server := true;
  an_body := false |}.

Definition ann_cuMemcpyAtoHAsync_v2 : annotation := {|
  an_function := "cuMemcpyAtoHAsync_v2";
  an_signature := [("dstHost", "void *");
                   ("srcArray", "CUarray");
                   ("srcOffset", "size_t");
                   ("ByteCount", "size_t");
                   ("hStream", "CUstream")];
  an_params := [Param "srcArray" SEND_ONLY [];
                Param "srcOffset" SEND_ONLY [];
                Param "ByteCount" SEND_ONLY [];
                Param "hStream" SEND_ONLY [];
                Param "dstHost" RECV_ONLY [LENGTH "ByteCount"]];
  an_routing := None;
  an_async := false;
  an_owners := [];
  an_deep := [];
  an_tags := [];
  an_client := false;
  an_server := false;
  an_body := false |}.

Definition ann_cuMemcpy2DAsync_v2 : annotation := {|
  an_function := "cuMemcpy2DAsync_v2";
  an_signature := [("pCopy", "const CUDA_MEMCPY2D *"); ("hStream", "CUstream")];
  an_params := [Param "pCopy" SEND_ONLY []; Param "hStream" SEND_ONLY []];
  an_routing := None;
  an_async := false;
  an_owners := [];
  an_deep := [];
  an_tags := [];
  an_client := false;
  an_server := false;
  an_body := false |}.

Definition ann_cuMemcpy3DAsync_v2 : annotation := {|
  an_function := "cuMemcpy3DAsync_v2";
  an_signature := [("pCopy", "const CUDA_MEMCPY3D *"); ("hStream", "CUstream")];
  an_params := [Param "pCopy" SEND_ONLY []; Param "hStream" SEND_ONLY []];
  an_routing := None;
  an_async := false;
  an_owners := [];
  an_deep := [];
  an_tags := [];
  an_client := false;
  an_server := false;
  an_body := false |}.

Definition ann_cuMemcpy3DPeerAsync : annotation := {|
  an_function := "cuMemcpy3DPeerAsync";
  an_signature := [("pCopy", "const CUDA_MEMCPY3D_PEER *"); ("hStream", "CUstream")];
  an_params := [Param "pCopy" SEND_ONLY []; Param "hStream" SEND_ONLY []];
  an_routing := None;
  an_async := false;
  an_owners := [];
  an_deep := [];
  an_tags := [];
  an_client := false;
  an_server := false;
  an_body := false |}.

Definition ann_cuMemsetD8_v2 : annotation := {|
  an_function := "cuMemsetD8_v2";
  an_signature := [("dstDevice", "CUdeviceptr"); ("uc", "unsigned char"); ("N", "size_t")];
  an_params := [Param "dstDevice" SEND_ONLY [];
                Param "uc" SEND_ONLY [];
                Param "N" SEND_ONLY []];
  an_routing := Some ("DEVICEPTR", "dstDevice");
  an_async := false;
  an_owners := [];
  an_deep := [];
  an_tags := [Synchronize []];
  an_client := true;
  an_server := true;
  an_body := false |}.

Definition ann_cuMemsetD16_v2 : annotation := {|
  an_function := "cuMemsetD16_v2";
  an_signature := [("dstDevice", "CUdeviceptr"); ("us", "unsigned short"); ("N", "size_t")];
  an_params := [Param "dstDevice" SEND_ONLY [];
                Param "us" SEND_ONLY [];
                Param "N" SEND_ONLY []];
  an_routing := Some ("DEVICEPTR", "dstDevice");
  an_async := false;
  an_owners := [];
  an_deep := [];
  an_tags := [Synchronize []];
  an_client := true;
  an_server := true;
  an_body := false |}.

Definition ann_cuMemsetD32_v2 : annotation := {|
  an_function := "cuMemsetD32_v2";
  an_signature := [("dstDevice", "CUdeviceptr"); ("ui", "unsigned int"); ("N", "size_t")];
  an_params := [Param "dstDevice" SEND_ONLY [];
                Param "ui" SEND_ONLY [];
                Param "N" SEND_ONLY []];
  an_routing := Some ("DEVICEPTR", "dstDevice");
  an_async := false;
  an_owners := [];
  an_deep := [];
  an_tags := [Synchronize []];
  an_client := true;
  an_server := true;
  an_body := false |}.

Definition ann_cuMemsetD2D8_v2 : annotation := {|
  an_function := "cuMemsetD2D8_v2";
  an_signature := [("dstDevice", "CUdeviceptr");
                   ("dstPitch", "size_t");
                   ("uc", "unsigned char");
                   ("Width", "size_t");
                   ("Height", "size_t")];
  an_params := [Param "dstDevice" SEND_ONLY [];
                Param "dstPitch" SEND_ONLY [];
                Param "uc" SEND_ONLY [];
                Param "Width" SEND_ONLY [];
                Param "Height" SEND_ONLY []];
  an_routing := Some ("DEVICEPTR", "dstDevice");
  an_async := false;
  an_owners := [];
  an_deep := [];
  an_tags := [Synchronize []];
  an_client := true;
  an_server := true;
  an_body := false |}.

Definition ann_cuMemsetD2D16_v2 : annotation := {|
  an_function := "cuMemsetD2D16_v2";
  an_signature := [("dstDevice", "CUdeviceptr");
                   ("dstPitch", "size_t");
                   ("us", "unsigned short");
                   ("Width", "size_t");
                   ("Height", "size_t")];
  an_params := [Param "dstDevice" SEND_ONLY [];
                Param "dstPitch" SEND_ONLY [];
                Param "us" SEND_ONLY [];
                Param "Width" SEND_ONLY [];
                Param "Height" SEND_ONLY []];
  an_routing := Some ("DEVICEPTR", "dstDevice");
  an_async := false;
  an_owners := [];
  an_deep := [];
  an_tags := [Synchronize []];
  an_client := true;
  an_server := true;
  an_body := false |}.

Definition ann_cuMemsetD2D32_v2 : annotation := {|
  an_function := "cuMemsetD2D32_v2";
  an_signature := [("dstDevice", "CUdeviceptr");
                   ("dstPitch", "size_t");
                   ("ui", "unsigned int");
                   ("Width", "size_t");
                   ("Height", "size_t")];
  an_params := [Param "dstDevice" SEND_ONLY [];
                Param "dstPitch" SEND_ONLY [];
                Param "ui" SEND_ONLY [];
                Param "Width" SEND_ONLY [];
                Param "Height" SEND_ONLY []];
  an_routing := Some ("DEVICEPTR", "dstDevice");
  an_async := false;
  an_owners := [];
  an_deep := [];
  an_tags := [Synchronize []];
  an_client := true;
  an_server := true;
  an_body := false |}.

Definition ann_cuMemsetD8Async : annotation := {|
  an_function := "cuMemsetD8Async";
  an_signature := [("dstDevice", "CUdeviceptr");
                   ("uc", "unsigned char");
                   ("N", "size_t");
                   ("hStream", "CUstream")];
  an_params := [Param "dstDevice" SEND_ONLY [];
                Param "uc" SEND_ONLY [];
                Param "N" SEND_ONLY [];
                Param "hStream" SEND_ONLY []];
  an_routing := Some ("DEVICEPTR", "dstDevice");
  an_async := true;
  an_owners := [];
  an_deep := [];
  an_tags := [];
  an_client := true;
  an_server := true;
  an_body := false |}.

Definition ann_cuMemsetD16Async : annotation := {|
  an_function := "cuMemsetD16Async";
  an_signature := [("dstDevice", "CUdeviceptr");
                   ("us", "unsigned short");
                   ("N", "size_t");
                   ("hStream", "CUstream")];
  an_params := [Param "dstDevice" SEND_ONLY [];
                Param "us" SEND_ONLY [];
                Param "N" SEND_ONLY [];
                Param "hStream" SEND_ONLY []];
  an_routing := Some ("DEVICEPTR", "dstDevice");
  an_async := true;
  an_owners := [];
  an_deep := [];
  an_tags := [];
  an_client := true;
  an_server := true;
  an_body := false |}.

Definition ann_cuMemsetD32Async : annotation := {|
  an_function := "cuMemsetD32Async";
  an_signature := [("dstDevice", "CUdeviceptr");
                   ("ui", "unsigned int");
                   ("N", "size_t");
                   ("hStream", "CUstream")];
  an_params := [Param "dstDevice" SEND_ONLY [];
                Param "ui" SEND_ONLY [];
                Param "N" SEND_ONLY [];
                Param "hStream" SEND_ONLY []];
  an_routing := Some ("DEVICEPTR", "dstDevice");
  an_async := true;
  an_owners := [];
  an_deep := [];
  an_tags := [];
  an_client := true;
  an_server := true;
  an_body := false |}.

Definition ann_cuMemsetD2D8Async : annotation := {|
  an_function := "cuMemsetD2D8Async";
  an_signature := [("dstDevice", "CUdeviceptr");
                   ("dstPitch", "size_t");
                   ("uc", "unsigned char");
                   ("Width", "size_t");
                   ("Height", "size_t");
                   ("hStream", "CUstream")];
  an_params := [Param "dstDevice" SEND_ONLY [];
                Param "dstPitch" SEND_ONLY [];
                Param "uc" SEND_ONLY [];
                Param "Width" SEND_ONLY [];
                Param "Height" SEND_ONLY [];
                Param "hStream" SEND_ONLY []];
  an_routing := Some ("DEVICEPTR", "dstDevice");
  an_async := true;
  an_owners := [];
  an_deep := [];
  an_tags := [];
  an_client := true;
  an_server := true;
  an_body := false |}.

Definition ann_cuMemsetD2D16Async : annotation := {|
  an_function := "cuMemsetD2D16Async";
  an_signature := [("dstDevice", "CUdeviceptr");
                   ("dstPitch", "size_t");
                   ("us", "unsigned short");
                   ("Width", "size_t");
                   ("Height", "size_t");
                   ("hStream", "CUstream")];
  an_params := [Param "dstDevice" SEND_ONLY [];
                Param "dstPitch" SEND_ONLY [];
                Param "us" SEND_ONLY [];
                Param "Width" SEND_ONLY [];
                Param "Height" SEND_ONLY [];
                Param "hStream" SEND_ONLY []];
  an_routing := Some ("DEVICEPTR", "dstDevice");
  an_async := true;
  an_owners := [];
  an_deep := [];
  an_tags := [];
  an_client := true;
  an_server := true;
  an_body := false |}.

Definition ann_cuMemsetD2D32Async : annotation := {|
  an_function := "cuMemsetD2D32Async";
  an_signature := [("dstDevice", "CUdeviceptr");
                   ("dstPitch", "size_t");
                   ("ui", "unsigned int");
                   ("Width", "size_t");
                   ("Height", "size_t");
                   ("hStream", "CUstream")];
  an_params := [Param "dstDevice" SEND_ONLY [];
                Param "dstPitch" SEND_ONLY [];
                Param "ui" SEND_ONLY [];
                Param "Width" SEND_ONLY [];
                Param "Height" SEND_ONLY [];
                Param "hStream" SEND_ONLY []];
  an_routing := Some ("DEVICEPTR", "dstDevice");
  an_async := true;
  an_owners := [];
  an_deep := [];
  an_tags := [];
  an_client := true;
  an_server := true;
  an_body := false |}.

Definition ann_cuArrayCreate_v2 : annotation := {|
  an_function := "cuArrayCreate_v2";
  an_signature := [("pHandle", "CUarray *");
                   ("pAllocateArray", "const CUDA_ARRAY_DESCRIPTOR *")];
  an_params := [Param "pHandle" SEND_RECV []; Param "pAllocateArray" SEND_ONLY [DEREF]];
  an_routing := None;
  an_async := false;
  an_owners := [];
  an_deep := [];
  an_tags := [];
  an_client := true;
  an_server := true;
  an_body := false |}.

Definition ann_cuArrayGetDescriptor_v2 : annotation := {|
  an_function := "cuArrayGetDescriptor_v2";
  an_signature := [("pArrayDescriptor", "CUDA_ARRAY_DESCRIPTOR *"); ("hArray", "CUarray")];
  an_params := [Param "pArrayDescriptor" SEND_RECV []; Param "hArray" SEND_ONLY []];
  an_routing := None;
  an_async := false;
  an_owners := [];
  an_deep := [];
  an_tags := [];
  an_client := true;
  an_server := true;
  an_body := false |}.

Definition ann_cuArrayGetSparseProperties : annotation := {|
  an_function := "cuArrayGetSparseProperties";
  an_signature := [("sparseProperties", "CUDA_ARRAY_SPARSE_PROPERTIES *");
                   ("array", "CUarray")];
  an_params := [Param "sparseProperties" SEND_RECV []; Param "array" SEND_ONLY []];
  an_routing := None;
  an_async := false;
  an_owners := [];
  an_deep := [];
  an_tags := [];
  an_client := true;
  an_server := true;
  an_body := false |}.

Definition ann_cuMipmappedArrayGetSparseProperties : annotation := {|
  an_function := "cuMipmappedArrayGetSparseProperties";
  an_signature := [("sparseProperties", "CUDA_ARRAY_SPARSE_PROPERTIES *");
                   ("mipmap", "CUmipmappedArray")];
  an_params := [Param "sparseProperties" SEND_RECV []; Param "mipmap" SEND_ONLY []];
  an_routing := None;
  an_async := false;
  an_owners := [];
  an_deep := [];
  an_tags := [];
  an_client := true;
  an_server := true;
  an_body := false |}.

Definition ann_cuArrayGetMemoryRequirements : annotation := {|
  an_function := "cuArrayGetMemoryRequirements";
  an_signature := [("memoryRequirements", "CUDA_ARRAY_MEMORY_REQUIREMENTS *");
                   ("array", "CUarray");
                   ("device", "CUdevice")];
  an_params := [Param "memoryRequirements" SEND_RECV [];
                Param "array" SEND_ONLY [];
                Param "device" SEND_ONLY []];
  an_routing := None;
  an_async := false;
  an_owners := [];
  an_deep := [];
  an_tags := [];
  an_client := true;
  an_server := true;
  an_body := false |}.

Definition ann_cuMipmappedArrayGetMemoryRequirements : annotation := {|
  an_function := "cuMipmappedArrayGetMemoryRequirements";
  an_signature := [("memoryRequirements", "CUDA_ARRAY_MEMORY_REQUIREMENTS *");
                   ("mipmap", "CUmipmappedArray");
                   ("device", "CUdevice")];
  an_params := [Param "memoryRequirements" SEND_RECV [];
                Param "mipmap" SEND_ONLY [];
                Param "device" SEND_ONLY []];
  an_routing := None;
  an_async := false;
  an_owners := [];
  an_deep := [];
  an_tags := [];
  an_client := true;
  an_server := true;
  an_body := false |}.

Definition ann_cuArrayGetPlane : annotation := {|
  an_function := "cuArrayGetPlane";
  an_signature := [("pPlaneArray", "CUarray *");
                   ("hArray", "CUarray");
                   ("planeIdx", "unsigned int")];
  an_params := [Param "pPlaneArray" SEND_RECV [];
                Param "hArray" SEND_ONLY [];
                Param "planeIdx" SEND_ONLY []];
  an_routing := None;
  an_async := false;
  an_owners := [];
  an_deep := [];
  an_tags := [];
  an_client := true;
  an_server := true;
  an_body := false |}.

Definition ann_cuArrayDestroy : annotation := {|
  an_function := "cuArrayDestroy";
  an_signature := [("hArray", "CUarray")];
  an_params := [Param "hArray" SEND_ONLY []];
  an_routing := None;
  an_async := false;
  an_owners := [];
  an_deep := [];
  an_tags := [];
  an_client := true;
  an_server := true;
  an_body := false |}.

Definition ann_cuArray3DCreate_v2 : annotation := {|
  an_function := "cuArray3DCreate_v2";
  an_signature := [("pHandle", "CUarray *");
                   ("pAllocateArray", "const CUDA_ARRAY3D_DESCRIPTOR *")];
  an_params := [Param "pHandle" SEND_RECV []; Param "pAllocateArray" SEND_ONLY [DEREF]];
  an_routing := None;
  an_async := false;
  an_owners := [];
  an_deep := [];
  an_tags := [];
  an_client := true;
  an_server := true;
  an_body := false |}.

Definition ann_cuArray3DGetDescriptor_v2 : annotation := {|
  an_function := "cuArray3DGetDescriptor_v2";
  an_signature := [("pArrayDescriptor", "CUDA_ARRAY3D_DESCRIPTOR *"); ("hArray", "CUarray")];
  an_params := [Param "pArrayDescriptor" SEND_RECV []; Param "hArray" SEND_ONLY []];
  an_routing := None;
  an_async := false;
  an_owners := [];
  an_deep := [];
  an_tags := [];
  an_client := true;
  an_server := true;
  an_body := false |}.

Definition ann_cuMipmappedArrayCreate : annotation := {|
  an_function := "cuMipmappedArrayCreate";
  an_signature := [("pHandle", "CUmipmappedArray *");
                   ("pMipmappedArrayDesc", "const CUDA_ARRAY3D_DESCRIPTOR *");
                   ("numMipmapLevels", "unsigned int")];
  an_params := [Param "pHandle" SEND_RECV [];
                Param "pMipmappedArrayDesc" SEND_ONLY [DEREF];
                Param "numMipmapLevels" SEND_ONLY []];
  an_routing := None;
  an_async := false;
  an_owners := [];
  an_deep := [];
  an_tags := [];
  an_client := true;
  an_server := true;
  an_body := false |}.

Definition ann_cuMipmappedArrayGetLevel : annotation := {|
  an_function := "cuMipmappedArrayGetLevel";
  an_signature := [("pLevelArray", "CUarray *");
                   ("hMipmappedArray", "CUmipmappedArray");
                   ("level", "unsigned int")];
  an_params := [Param "pLevelArray" SEND_RECV [];
                Param "hMipmappedArray" SEND_ONLY [];
                Param "level" SEND_ONLY []];
  an_routing := None;
  an_async := false;
  an_owners := [];
  an_deep := [];
  an_tags := [];
  an_client := true;
  an_server := true;
  an_body := false |}.

Definition ann_cuMipmappedArrayDestroy : annotation := {|
  an_function := "cuMipmappedArrayDestroy";
  an_signature := [("hMipmappedArray", "CUmipmappedArray")];
  an_params := [Param "hMipmappedArray" SEND_ONLY []];
  an_routing := None;
  an_async := false;
  an_owners := [];
  an_deep := [];
  an_tags := [];
  an_client := true;
  an_server := true;
  an_body := false |}.

Definition ann_cuMemGetHandleForAddressRange : annotation := {|
  an_function := "cuMemGetHandleForAddressRange";
  an_signature := [("handle", "void *");
                   ("dptr", "CUdeviceptr");
                   ("size", "size_t");
                   ("handleType", "CUmemRangeHandleType");
                   ("flags", "unsigned long long")];
  an_params := [Param "dptr" SEND_ONLY [];
                Param "size" SEND_ONLY [];
                Param "handleType" SEND_ONLY [];
                Param "flags" SEND_ONLY [];
                Param "handle" RECV_ONLY [SIZE 4]];
  an_routing := None;
  an_async := false;
  an_owners := [];
  an_deep := [];
  an_tags := [];
  an_client := true;
  an_server := true;
  an_body := false |}.

Definition ann_cuMemAddressReserve : annotation := {|
  an_function := "cuMemAddressReserve";
  an_signature := [("ptr", "CUdeviceptr *");
                   ("size", "size_t");
                   ("alignment", "size_t");
                   ("addr", "CUdeviceptr");
                   ("flags", "unsigned long long")];
  an_params := [Param "ptr" SEND_RECV [];
                Param "size" SEND_ONLY [];
                Param "alignment" SEND_ONLY [];
                Param "addr" SEND_ONLY [];
                Param "flags" SEND_ONLY []];
  an_routing := None;
  an_async := false;
  an_owners := [];
  an_deep := [];
  an_tags := [];
  an_client := true;
  an_server := true;
  an_body := false |}.

Definition ann_cuMemAddressFree : annotation := {|
  an_function := "cuMemAddressFree";
  an_signature := [("ptr", "CUdeviceptr"); ("size", "size_t")];
  an_params := [Param "ptr" SEND_ONLY []; Param "size" SEND_ONLY []];
  an_routing := None;
  an_async := false;
  an_owners := [];
  an_deep := [];
  an_tags := [];
  an_client := true;
  an_server := true;
  an_body := false |}.

Definition ann_cuMemCreate : annotation := {|
  an_function := "cuMemCreate";
  an_signature := [("handle", "CUmemGenericAllocationHandle *");
                   ("size", "size_t");
                   ("prop", "const CUmemAllocationProp *");
                   ("flags", "unsigned long long")];
  an_params := [Param "handle" RECV_ONLY [];
                Param "size" SEND_ONLY [];
                Param "prop" SEND_ONLY [DEREF];
                Param "flags" SEND_ONLY []];
  an_routing := None;
  an_async := false;
  an_owners := [];
  an_deep := [];
  an_tags := [];
  an_client := true;
  an_server := true;
  an_body := false |}.

Definition ann_cuMemRelease : annotation := {|
  an_function := "cuMemRelease";
  an_signature := [("handle", "CUmemGenericAllocationHandle")];
  an_params := [Param "handle" SEND_ONLY []];
  an_routing := None;
  an_async := false;
  an_owners := [];
  an_deep := [];
  an_tags := [];
  an_client := true;
  an_server := true;
  an_body := false |}.

Definition ann_cuMemMap : annotation := {|
  an_function := "cuMemMap";
  an_signature := [("ptr", "CUdeviceptr");
                   ("size", "size_t");
                   ("offset", "size_t");
                   ("handle", "CUmemGenericAllocationHandle");
                   ("flags", "unsigned long long")];
  an_params := [Param "ptr" SEND_ONLY [];
                Param "size" SEND_ONLY [];
                Param "offset" SEND_ONLY [];
                Param "handle" SEND_ONLY [];
                Param "flags" SEND_ONLY []];
  an_routing := None;
  an_async := false;
  an_owners := [];
  an_deep := [];
  an_tags := [];
  an_client := true;
  an_server := true;
  an_body := false |}.

Definition ann_cuMemMapArrayAsync : annotation := {|
  an_function := "cuMemMapArrayAsync";
  an_signature := [("mapInfoList", "CUarrayMapInfo *");
                   ("count", "unsigned int");
                   ("hStream", "CUstream")];
  an_params := [Param "count" SEND_ONLY [];
                Param "mapInfoList" SEND_ONLY [LENGTH "count"];
                Param "hStream" SEND_ONLY []];
  an_routing := None;
  an_async := false;
  an_owners := [];
  an_deep := [];
  an_tags := [];
  an_client := true;
  an_server := true;
  an_body := false |}.

Definition ann_cuMemUnmap : annotation := {|
  an_function := "cuMemUnmap";
  an_signature := [("ptr", "CUdeviceptr"); ("size", "size_t")];
  an_params := [Param "ptr" SEND_ONLY []; Param "size" SEND_ONLY []];
  an_routing := None;
  an_async := false;
  an_owners := [];
  an_deep := [];
  an_tags := [];
  an_client := true;
  an_server := true;
  an_body := false |}.

Definition ann_cuMemSetAccess : annotation := {|
  an_function := "cuMemSetAccess";
  an_signature := [("ptr", "CUdeviceptr");
                   ("size", "size_t");
                   ("desc", "const CUmemAccessDesc *");
                   ("count", "size_t")];
  an_params := [Param "ptr" SEND_ONLY [];
                Param "size" SEND_ONLY [];
                Param "count" SEND_ONLY [];
                Param "desc" SEND_ONLY [LENGTH "count"]];
  an_routing := None;
  an_async := false;
  an_owners := [];
  an_deep := [];
  an_tags := [];
  an_client := true;
  an_server := true;
  an_body := false |}.

Definition ann_cuMemGetAccess : annotation := {|
  an_function := "cuMemGetAccess";
  an_signature := [("flags", "unsigned long long *");
                   ("location", "const CUmemLocation *");
                   ("ptr", "CUdeviceptr")];
  an_params := [Param "flags" RECV_ONLY [];
                Param "location" SEND_ONLY [DEREF];
                Param "ptr" SEND_ONLY []];
  an_routing := None;
  an_async := false;
  an_owners := [];
  an_deep := [];
  an_tags := [];
  an_client := true;
  an_server := true;
  an_body := false |}.

Definition ann_cuMemExportToShareableHandle : annotation := {|
  an_function := "cuMemExportToShareableHandle";
  an_signature := [("shareableHandle", "void *");
                   ("handle", "CUmemGenericAllocationHandle");
                   ("handleType", "CUmemAllocationHandleType");
                   ("flags", "unsigned long long")];
  an_params := [];
  an_routing := None;
  an_async := false;
  an_owners := [];
  an_deep := [];
  an_tags := [];
  an_client := false;
  an_server := false;
  an_body := false |}.

Definition ann_cuMemImportFromShareableHandle : annotation := {|
  an_function := "cuMemImportFromShareableHandle";
  an_signature := [("handle", "CUmemGenericAllocationHandle *");
                   ("osHandle", "void *");
                   ("shHandleType", "CUmemAllocationHandleType")];
  an_params := [];
  an_routing := None;
  an_async := false;
  an_owners := [];
  an_deep := [];
  an_tags := [];
  an_client := false;
  an_server := false;
  an_body := false |}.

Definition ann_cuMemGetAllocationGranularity : annotation := {|
  an_function := "cuMemGetAllocationGranularity";
  an_signature := [("granularity", "size_t *");
                   ("prop", "const CUmemAllocationProp *");
                   ("option", "CUmemAllocationGranularity_flags")];
  an_params := [Param "granularity" RECV_ONLY [];
                Param "prop" SEND_ONLY [DEREF];
                Param "option" SEND_ONLY []];
  an_routing := None;
  an_async := false;
  an_owners := [];
  an_deep := [];
  an_tags := [];
  an_client := true;
  an_server := true;
  an_body := false |}.

Definition ann_cuMemGetAllocationPropertiesFromHandle : annotation := {|
  an_function := "cuMemGetAllocationPropertiesFromHandle";
  an_signature := [("prop", "CUmemAllocationProp *");
                   ("handle", "CUmemGenericAllocationHandle")];
  an_params := [Param "prop" SEND_RECV []; Param "handle" SEND_ONLY []];
  an_routing := None;
  an_async := false;
  an_owners := [];
  an_deep := [];
  an_tags := [];
  an_client := true;
  an_server := true;
  an_body := false |}.

Definition ann_cuMemRetainAllocationHandle : annotation := {|
  an_function := "cuMemRetainAllocationHandle";
  an_signature := [("handle", "CUmemGenericAllocationHandle *"); ("addr", "void *")];
  an_params := [Param "handle" RECV_ONLY []; Param "addr" SEND_ONLY []];
  an_routing := None;
  an_async := false;
  an_owners := [];
  an_deep := [];
  an_tags := [];
  an_client := true;
  an_server := true;
  an_body := false |}.

Definition ann_cuMemFreeAsync : annotation := {|
  an_function := "cuMemFreeAsync";
  an_signature := [("dptr", "CUdeviceptr"); ("hStream", "CUstream")];
  an_params := [Param "dptr" SEND_ONLY []; Param "hStream" SEND_ONLY []];
  an_routing := Some ("DEVICEPTR", "dptr");
  an_async := false;
  an_owners := [];
  an_deep := [];
  an_tags := [];
  an_client := true;
  an_server := true;
  an_body := true |}.

Definition ann_cuMemAllocAsync : annotation := {|
  an_function := "cuMemAllocAsync";
  an_signature := [("dptr", "CUdeviceptr *");
                   ("bytesize", "size_t");
                   ("hStream", "CUstream")];
  an_params := [Param "dptr" SEND_RECV [];
                Param "bytesize" SEND_ONLY [];
                Param "hStream" SEND_ONLY []];
  an_routing := Some ("STREAM", "hStream");
  an_async := false;
  an_owners := [("DEVICEPTR", "dptr")];
  an_deep := [];
  an_tags := [];
  an_client := true;
  an_server := true;
  an_body := true |}.

Definition ann_cuMemPoolTrimTo : annotation := {|
  an_function := "cuMemPoolTrimTo";
  an_signature := [("pool", "CUmemoryPool"); ("minBytesToKeep", "size_t")];
  an_params := [Param "pool" SEND_ONLY []; Param "minBytesToKeep" SEND_ONLY []];
  an_routing := None;
  an_async := false;
  an_owners := [];
  an_deep := [];
  an_tags := [];
  an_client := true;
  an_server := true;
  an_body := false |}.

Definition ann_cuMemPoolSetAttribute : annotation := {|
  an_function := "cuMemPoolSetAttribute";
  an_signature := [("pool", "CUmemoryPool");
                   ("attr", "CUmemPool_attribute");
                   ("value", "void *")];
  an_params := [Param "pool" SEND_ONLY []; Param "attr" SEND_ONLY []];
  an_routing := None;
  an_async := false;
  an_owners := [];
  an_deep := [];
  an_tags := [];
  an_client := false;
  an_server := false;
  an_body := false |}.

Definition ann_cuMemPoolGetAttribute : annotation := {|
  an_function := "cuMemPoolGetAttribute";
  an_signature := [("pool", "CUmemoryPool");
                   ("attr", "CUmemPool_attribute");
                   ("value", "void *")];
  an_params := [Param "pool" SEND_ONLY []; Param "attr" SEND_ONLY []];
  an_routing := None;
  an_async := false;
  an_owners := [];
  an_deep := [];
  an_tags := [];
  an_client := false;
  an_server := false;
  an_body := false |}.

Definition ann_cuMemPoolSetAccess : annotation := {|
  an_function := "cuMemPoolSetAccess";
  an_signature := [("pool", "CUmemoryPool");
                   ("map", "const CUmemAccessDesc *");
                   ("count", "size_t")];
  an_params := [Param "pool" SEND_ONLY [];
                Param "map" SEND_ONLY [LENGTH "count"];
                Param "count" SEND_ONLY []];
  an_routing := None;
  an_async := false;
  an_owners := [];
  an_deep := [];
  an_tags := [];
  an_client := true;
  an_server := true;
  an_body := true |}.

Definition ann_cuMemPoolGetAccess : annotation := {|
  an_function := "cuMemPoolGetAccess";
  an_signature := [("flags", "CUmemAccess_flags *");
                   ("memPool", "CUmemoryPool");
                   ("location", "CUmemLocation *")];
  an_params := [Param "flags" RECV_ONLY [];
                Param "memPool" SEND_ONLY [];
                Param "location" SEND_ONLY [DEREF]];
  an_routing := None;
  an_async := false;
  an_owners := [];
  an_deep := [];
  an_tags := [];
  an_client := true;
  an_server := true;
  an_body := true |}.

Definition ann_cuMemPoolCreate : annotation := {|
  an_function := "cuMemPoolCreate";
  an_signature := [("pool", "CUmemoryPool *"); ("poolProps", "const CUmemPoolProps *")];
  an_params := [Param "pool" SEND_RECV []; Param "poolProps" SEND_ONLY [DEREF]];
  an_routing := None;
  an_async := false;
  an_owners := [("MEMORY_POOL", "pool")];
  an_deep := [];
  an_tags := [];
  an_client := true;
  an_server := true;
  an_body := true |}.

Definition ann_cuMemPoolDestroy : annotation := {|
  an_function := "cuMemPoolDestroy";
  an_signature := [("pool", "CUmemoryPool")];
  an_params := [Param "pool" SEND_ONLY []];
  an_routing := None;
  an_async := false;
  an_owners := [];
  an_deep := [];
  an_tags := [];
  an_client := true;
  an_server := true;
  an_body := false |}.

Definition ann_cuMemAllocFromPoolAsync : annotation := {|
  an_function := "cuMemAllocFromPoolAsync";
  an_signature := [("dptr", "CUdeviceptr *");
                   ("bytesize", "size_t");
                   ("pool", "CUmemoryPool");
                   ("hStream", "CUstream")];
  an_params := [Param "dptr" SEND_RECV [];
                Param "bytesize" SEND_ONLY [];
                Param "pool" SEND_ONLY [];
                Param "hStream" SEND_ONLY []];
  an_routing := Some ("STREAM", "hStream");
  an_async := false;
  an_owners := [("DEVICEPTR", "dptr")];
  an_deep := [];
  an_tags := [];
  an_client := true;
  an_server := true;
  an_body := true |}.

Definition ann_cuMemPoolExportToShareableHandle : annotation := {|
  an_function := "cuMemPoolExportToShareableHandle";
  an_signature := [("handle_out", "void *");
                   ("pool", "CUmemoryPool");
                   ("handleType", "CUmemAllocationHandleType");
                   ("flags", "unsigned long long")];
  an_params := [];
  an_routing := None;
  an_async := false;
  an_owners := [];
  an_deep := [];
  an_tags := [];
  an_client := false;
  an_server := false;
  an_body := false |}.

Definition ann_cuMemPoolImportFromShareableHandle : annotation := {|
  an_function := "cuMemPoolImportFromShareableHandle";
  an_signature := [("pool_out", "CUmemoryPool *");
                   ("handle", "void *");
                   ("handleType", "CUmemAllocationHandleType");
                   ("flags", "unsigned long long")];
  an_params := [];
  an_routing := None;
  an_async := false;
  an_owners := [];
  an_deep := [];
  an_tags := [];
  an_client := false;
  an_server := false;
  an_body := false |}.

Definition ann_cuMemPoolExportPointer : annotation := {|
  an_function := "cuMemPoolExportPointer";
  an_signature := [("shareData_out", "CUmemPoolPtrExportData *"); ("ptr", "CUdeviceptr")];
  an_params := [Param "shareData_out" SEND_RECV []; Param "ptr" SEND_ONLY []];
  an_routing := None;
  an_async := false;
  an_owners := [];
  an_deep := [];
  an_tags := [];
  an_client := true;
  an_server := true;
  an_body := false |}.

Definition ann_cuMemPoolImportPointer : annotation := {|
  an_function := "cuMemPoolImportPointer";
  an_signature := [("ptr_out", "CUdeviceptr *");
                   ("pool", "CUmemoryPool");
                   ("shareData", "CUmemPoolPtrExportData *")];
  an_params := [Param "ptr_out" SEND_RECV [];
                Param "pool" SEND_ONLY [];
                Param "shareData" SEND_RECV []];
  an_routing := None;
  an_async := false;
  an_owners := [];
  an_deep := [];
  an_tags := [];
  an_client := true;
  an_server := true;
  an_body := false |}.

Definition ann_cuPointerGetAttribute : annotation := {|
  an_function := "cuPointerGetAttribute";
  an_signature := [("data", "void *");
                   ("attribute", "CUpointer_attribute");
                   ("ptr", "CUdeviceptr")];
  an_params := [Param "attribute" SEND_ONLY []; Param "ptr" SEND_ONLY []];
  an_routing := None;
  an_async := false;
  an_owners := [];
  an_deep := [];
  an_tags := [];
  an_client := false;
  an_server := false;
  an_body := false |}.

Definition ann_cuMemPrefetchAsync : annotation := {|
  an_function := "cuMemPrefetchAsync";
  an_signature := [("devPtr", "CUdeviceptr");
                   ("count", "size_t");
                   ("dstDevice", "CUdevice");
                   ("hStream", "CUstream")];
  an_params := [Param "devPtr" SEND_ONLY [];
                Param "count" SEND_ONLY [];
                Param "dstDevice" SEND_ONLY [];
                Param "hStream" SEND_ONLY []];
  an_routing := None;
  an_async := false;
  an_owners := [];
  an_deep := [];
  an_tags := [];
  an_client := false;
  an_server := true;
  an_body := false |}.

Definition ann_cuMemPrefetchAsync_v2 : annotation := {|
  an_function := "cuMemPrefetchAsync_v2";
  an_signature := [("devPtr", "CUdeviceptr");
                   ("count", "size_t");
                   ("location", "CUmemLocation");
                   ("flags", "unsigned int");
                   ("hStream", "CUstream")];
  an_params := [Param "devPtr" SEND_ONLY [];
                Param "count" SEND_ONLY [];
                Param "location" SEND_ONLY [];
                Param "flags" SEND_ONLY [];
                Param "hStream" SEND_ONLY []];
  an_routing := None;
  an_async := false;
  an_owners := [];
  an_deep := [];
  an_tags := [];
  an_client := false;
  an_server := true;
  an_body := false |}.

Definition ann_cuMemAdvise : annotation := {|
  an_function := "cuMemAdvise";
  an_signature := [("devPtr", "CUdeviceptr");
                   ("count", "size_t");
                   ("advice", "CUmem_advise");
                   ("device", "CUdevice")];
  an_params := [Param "devPtr" SEND_ONLY [];
                Param "count" SEND_ONLY [];
                Param "advice" SEND_ONLY [];
                Param "device" SEND_ONLY []];
  an_routing := None;
  an_async := false;
  an_owners := [];
  an_deep := [];
  an_tags := [];
  an_client := false;
  an_server := true;
  an_body := false |}.

Definition ann_cuMemAdvise_v2 : annotation := {|
  an_function := "cuMemAdvise_v2";
  an_signature := [("devPtr", "CUdeviceptr");
                   ("count", "size_t");
                   ("advice", "CUmem_advise");
                   ("location", "CUmemLocation")];
  an_params := [Param "devPtr" SEND_ONLY [];
                Param "count" SEND_ONLY [];
                Param "advice" SEND_ONLY [];
                Param "location" SEND_ONLY []];
  an_routing := None;
  an_async := false;
  an_owners := [];
  an_deep := [];
  an_tags := [];
  an_client := false;
  an_server := true;
  an_body := false |}.

Definition ann_cuMemRangeGetAttribute : annotation := {|
  an_function := "cuMemRangeGetAttribute";
  an_signature := [("data", "void *");
                   ("dataSize", "size_t");
                   ("attribute", "CUmem_range_attribute");
                   ("devPtr", "CUdeviceptr");
                   ("count", "size_t")];
  an_params := [Param "dataSize" SEND_ONLY [];
                Param "data" RECV_ONLY [LENGTH "dataSize"];
                Param "attribute" SEND_ONLY [];
                Param "devPtr" SEND_ONLY [];
                Param "count" SEND_ONLY []];
  an_routing := Some ("DEVICEPTR", "devPtr");
  an_async := false;
  an_owners := [];
  an_deep := [];
  an_tags := [];
  an_client := true;
  an_server := true;
  an_body := true |}.

Definition ann_cuMemRangeGetAttributes : annotation := {|
  an_function := "cuMemRangeGetAttributes";
  an_signature := [("data", "void **");
                   ("dataSizes", "size_t *");
                   ("attributes", "CUmem_range_attribute *");
                   ("numAttributes", "size_t");
                   ("devPtr", "CUdeviceptr");
                   ("count", "size_t")];
  an_params := [Param "data" SEND_RECV [];
                Param "dataSizes" SEND_RECV [];
                Param "attributes" SEND_RECV [];
                Param "numAttributes" SEND_ONLY [];
                Param "devPtr" SEND_ONLY [];
                Param "count" SEND_ONLY []];
  an_routing := None;
  an_async := false;
  an_owners := [];
  an_deep := [];
  an_tags := [];
  an_client := false;
  an_server := false;
  an_body := false |}.

Definition ann_cuPointerSetAttribute : annotation := {|
  an_function := "cuPointerSetAttribute";
  an_signature := [("value", "const void *");
                   ("attribute", "CUpointer_attribute");
                   ("ptr", "CUdeviceptr")];
  an_params := [Param "value" SEND_ONLY [];
                Param "attribute" SEND_ONLY [];
                Param "ptr" SEND_ONLY []];
  an_routing := None;
  an_async := false;
  an_owners := [];
  an_deep := [];
  an_tags := [];
  an_client := false;
  an_server := false;
  an_body := false |}.

Definition ann_cuPointerGetAttributes : annotation := {|
  an_function := "cuPointerGetAttributes";
  an_signature := [("numAttributes", "unsigned int");
                   ("attributes", "CUpointer_attribute *");
                   ("data", "void **");
                   ("ptr", "CUdeviceptr")];
  an_params := [Param "numAttributes" SEND_ONLY [];
                Param "attributes" SEND_RECV [];
                Param "data" SEND_RECV [];
                Param "ptr" SEND_ONLY []];
  an_routing := None;
  an_async := false;
  an_owners := [];
  an_deep := [];
  an_tags := [];
  an_client := false;
  an_server := false;
  an_body := false |}.

Definition ann_cuStreamCreate : annotation := {|
  an_function := "cuStreamCreate";
  an_signature := [("phStream", "CUstream *"); ("Flags", "unsigned int")];
  an_params := [Param "phStream" SEND_RECV []; Param "Flags" SEND_ONLY []];
  an_routing := Some ("CURRENT_CONTEXT", "");
  an_async := false;
  an_owners := [("STREAM", "phStream")];
  an_deep := [];
  an_tags := [];
  an_client := false;
  an_server := true;
  an_body := false |}.

Definition ann_cuStreamCreateWithPriority : annotation := {|
  an_function := "cuStreamCreateWithPriority";
  an_signature := [("phStream", "CUstream *");
                   ("flags", "unsigned int");
                   ("priority", "int")];
  an_params := [Param "phStream" SEND_RECV [];
                Param "flags" SEND_ONLY [];
                Param "priority" SEND_ONLY []];
  an_routing := Some ("CURRENT_CONTEXT", "");
  an_async := false;
  an_owners := [("STREAM", "phStream")];
  an_deep := [];
  an_tags := [];
  an_client := false;
  an_server := true;
  an_body := false |}.

Definition ann_cuStreamGetPriority : annotation := {|
  an_function := "cuStreamGetPriority";
  an_signature := [("hStream", "CUstream"); ("priority", "int *")];
  an_params := [Param "hStream" SEND_ONLY []; Param "priority" SEND_RECV []];
  an_routing := Some ("STREAM", "hStream");
  an_async := false;
  an_owners := [];
  an_deep := [];
  an_tags := [];
  an_client := true;
  an_server := true;
  an_body := false |}.

Definition ann_cuStreamGetFlags : annotation := {|
  an_function := "cuStreamGetFlags";
  an_signature := [("hStream", "CUstream"); ("flags", "unsigned int *")];
  an_params := [Param "hStream" SEND_ONLY []; Param "flags" SEND_RECV []];
  an_routing := Some ("STREAM", "hStream");
  an_async := false;
  an_owners := [];
  an_deep := [];
  an_tags := [];
  an_client := true;
  an_server := true;
  an_body := false |}.

Definition ann_cuStreamGetId : annotation := {|
  an_function := "cuStreamGetId";
  an_signature := [("hStream", "CUstream"); ("streamId", "unsigned long long *")];
  an_params := [Param "hStream" SEND_ONLY []; Param "streamId" SEND_RECV []];
  an_routing := Some ("STREAM", "hStream");
  an_async := false;
  an_owners := [];
  an_deep := [];
  an_tags := [];
  an_client := true;
  an_server := true;
  an_body := false |}.

Definition ann_cuStreamGetCtx : annotation := {|
  an_function := "cuStreamGetCtx";
  an_signature := [("hStream", "CUstream"); ("pctx", "CUcontext *")];
  an_params := [Param "hStream" SEND_ONLY []; Param "pctx" SEND_RECV []];
  an_routing := Some ("STREAM", "hStream");
  an_async := false;
  an_owners := [];
  an_deep := [];
  an_tags := [];
  an_client := true;
  an_server := true;
  an_body := false |}.

Definition ann_cuStreamGetDevice : annotation := {|
  an_function := "cuStreamGetDevice";
  an_signature := [("hStream", "CUstream"); ("device", "CUdevice *")];
  an_params := [Param "hStream" SEND_ONLY []; Param "device" RECV_ONLY []];
  an_routing := Some ("STREAM", "hStream");
  an_async := false;
  an_owners := [];
  an_deep := [];
  an_tags := [];
  an_client := false;
  an_server := true;
  an_body := false |}.

Definition ann_cuStreamGetDevResource : annotation := {|
  an_function := "cuStreamGetDevResource";
  an_signature := [("hStream", "CUstream");
                   ("resource", "CUdevResource *");
                   ("type", "CUdevResourceType")];
  an_params := [Param "hStream" SEND_ONLY [];
                Param "resource" RECV_ONLY [];
                Param "type" SEND_ONLY []];
  an_routing := Some ("STREAM", "hStream");
  an_async := false;
  an_owners := [];
  an_deep := [];
  an_tags := [];
  an_client := true;
  an_server := true;
  an_body := false |}.

Definition ann_cuStreamGetGreenCtx : annotation := {|
  an_function := "cuStreamGetGreenCtx";
  an_signature := [("hStream", "CUstream"); ("phCtx", "CUgreenCtx *")];
  an_params := [Param "hStream" SEND_ONLY []; Param "phCtx" RECV_ONLY []];
  an_routing := Some ("STREAM", "hStream");
  an_async := false;
  an_owners := [];
  an_deep := [];
  an_tags := [];
  an_client := true;
  an_server := true;
  an_body := false |}.

Definition ann_cuGreenCtxGetDevResource : annotation := {|
  an_function := "cuGreenCtxGetDevResource";
  an_signature := [("hCtx", "CUgreenCtx");
                   ("resource", "CUdevResource *");
                   ("type", "CUdevResourceType")];
  an_params := [Param "hCtx" SEND_ONLY [];
                Param "resource" RECV_ONLY [];
                Param "type" SEND_ONLY []];
  an_routing := Some ("CURRENT_CONTEXT", "");
  an_async := false;
  an_owners := [];
  an_deep := [];
  an_tags := [];
  an_client := true;
  an_server := true;
  an_body := false |}.

Definition ann_cuDeviceGetDevResource : annotation := {|
  an_function := "cuDeviceGetDevResource";
  an_signature := [("device", "CUdevice");
                   ("resource", "CUdevResource *");
                   ("type", "CUdevResourceType")];
  an_params := [Param "device" SEND_ONLY [];
                Param "resource" RECV_ONLY [];
                Param "type" SEND_ONLY []];
  an_routing := None;
  an_async := false;
  an_owners := [];
  an_deep := [];
  an_tags := [];
  an_client := true;
  an_server := true;
  an_body := false |}.

Definition ann_cuCtxGetDevResource : annotation := {|
  an_function := "cuCtxGetDevResource";
  an_signature := [("hCtx", "CUcontext");
                   ("resource", "CUdevResource *");
                   ("type", "CUdevResourceType")];
  an_params := [Param "hCtx" SEND_ONLY [];
                Param "resource" RECV_ONLY [];
                Param "type" SEND_ONLY []];
  an_routing := None;
  an_async := false;
  an_owners := [];
  an_deep := [];
  an_tags := [];
  an_client := true;
  an_server := true;
  an_body := false |}.

Definition ann_cuDevSmResourceSplitByCount : annotation := {|
  an_function := "cuDevSmResourceSplitByCount";
  an_signature := [("result", "CUdevResource *");
                   ("nbGroups", "unsigned int *");
                   ("input", "const CUdevResource *");
                   ("remainder", "CUdevResource *");
                   ("flags", "unsigned int");
                   ("minCount", "unsigned int")];
  an_params := [Param "nbGroups" SEND_RECV [];
                Param "result" RECV_ONLY [NULLABLE; LENGTH "nbGroups"];
                Param "input" SEND_ONLY [DEREF];
                Param "remainder" RECV_ONLY [NULLABLE];
                Param "flags" SEND_ONLY [];
                Param "minCount" SEND_ONLY []];
  an_routing := Some ("CURRENT_CONTEXT", "");
  an_async := false;
  an_owners := [];
  an_deep := [];
  an_tags := [];
  an_client := true;
  an_server := true;
  an_body := false |}.

Definition ann_cuDevSmResourceSplit : annotation := {|
  an_function := "cuDevSmResourceSplit";
  an_signature := [("result", "CUdevResource *");
                   ("nbGroups", "unsigned int");
                   ("input", "const CUdevResource *");
                   ("remainder", "CUdevResource *");
                   ("flags", "unsigned int");
                   ("groupParams", "CU_DEV_SM_RESOURCE_GROUP_PARAMS *")];
  an_params := [Param "nbGroups" SEND_ONLY [];
                Param "result" RECV_ONLY [NULLABLE; LENGTH "nbGroups"];
                Param "input" SEND_ONLY [DEREF];
                Param "remainder" RECV_ONLY [NULLABLE];
                Param "flags" SEND_ONLY [];
                Param "groupParams" SEND_RECV [LENGTH "nbGroups"]];
  an_routing := Some ("CURRENT_CONTEXT", "");
  an_async := false;
  an_owners := [];
  an_deep := [];
  an_tags := [];
  an_client := true;
  an_server := true;
  an_body := false |}.

Definition ann_cuDevResourceGenerateDesc : annotation := {|
  an_function := "cuDevResourceGenerateDesc";
  an_signature := [("phDesc", "CUdevResourceDesc *");
                   ("resources", "CUdevResource *");
                   ("nbResources", "unsigned int")];
  an_params := [Param "nbResources" SEND_ONLY [];
                Param "resources" SEND_ONLY [LENGTH "nbResources"];
                Param "phDesc" RECV_ONLY []];
  an_routing := Some ("CURRENT_CONTEXT", "");
  an_async := false;
  an_owners := [];
  an_deep := [];
  an_tags := [];
  an_client := true;
  an_server := true;
  an_body := false |}.

Definition ann_cuGreenCtxCreate : annotation := {|
  an_function := "cuGreenCtxCreate";
  an_signature := [("phCtx", "CUgreenCtx *");
                   ("desc", "CUdevResourceDesc");
                   ("dev", "CUdevice");
                   ("flags", "unsigned int")];
  an_params := [Param "phCtx" RECV_ONLY [];
                Param "desc" SEND_ONLY [];
                Param "dev" SEND_ONLY [];
                Param "flags" SEND_ONLY []];
  an_routing := None;
  an_async := false;
  an_owners := [];
  an_deep := [];
  an_tags := [];
  an_client := true;
  an_server := true;
  an_body := false |}.

Definition ann_cuCtxFromGreenCtx : annotation := {|
  an_function := "cuCtxFromGreenCtx";
  an_signature := [("pContext", "CUcontext *"); ("hCtx", "CUgreenCtx")];
  an_params := [Param "pContext" RECV_ONLY []; Param "hCtx" SEND_ONLY []];
  an_routing := Some ("CURRENT_CONTEXT", "");
  an_async := false;
  an_owners := [("CONTEXT", "pContext")];
  an_deep := [];
  an_tags := [];
  an_client := true;
  an_server := true;
  an_body := true |}.

Definition ann_cuGreenCtxDestroy : annotation := {|
  an_function := "cuGreenCtxDestroy";
  an_signature := [("hCtx", "CUgreenCtx")];
  an_params := [Param "hCtx" SEND_ONLY []];
  an_routing := Some ("CURRENT_CONTEXT", "");
  an_async := false;
  an_owners := [];
  an_deep := [];
  an_tags := [];
  an_client := true;
  an_server := true;
  an_body := true |}.

Definition ann_cuGreenCtxStreamCreate : annotation := {|
  an_function := "cuGreenCtxStreamCreate";
  an_signature := [("phStream", "CUstream *");
                   ("greenCtx", "CUgreenCtx");
                   ("flags", "unsigned int");
                   ("priority", "int")];
  an_params := [Param "phStream" RECV_ONLY [];
                Param "greenCtx" SEND_ONLY [];
                Param "flags" SEND_ONLY [];
                Param "priority" SEND_ONLY []];
  an_routing := Some ("CURRENT_CONTEXT", "");
  an_async := false;
  an_owners := [("STREAM", "phStream")];
  an_deep := [];
  an_tags := [];
  an_client := true;
  an_server := true;
  an_body := false |}.

Definition ann_cuGreenCtxGetId : annotation := {|
  an_function := "cuGreenCtxGetId";
  an_signature := [("greenCtx", "CUgreenCtx"); ("greenCtxId", "unsigned long long *")];
  an_params := [Param "greenCtx" SEND_ONLY []; Param "greenCtxId" RECV_ONLY []];
  an_routing := Some ("CURRENT_CONTEXT", "");
  an_async := false;
  an_owners := [];
  an_deep := [];
  an_tags := [];
  an_client := true;
  an_server := true;
  an_body := false |}.

Definition ann_cuGreenCtxRecordEvent : annotation := {|
  an_function := "cuGreenCtxRecordEvent";
  an_signature := [("hCtx", "CUgreenCtx"); ("hEvent", "CUevent")];
  an_params := [Param "hCtx" SEND_ONLY []; Param "hEvent" SEND_ONLY []];
  an_routing := Some ("CURRENT_CONTEXT", "");
  an_async := false;
  an_owners := [];
  an_deep := [];
  an_tags := [];
  an_client := true;
  an_server := true;
  an_body := false |}.

Definition ann_cuGreenCtxWaitEvent : annotation := {|
  an_function := "cuGreenCtxWaitEvent";
  an_signature := [("hCtx", "CUgreenCtx"); ("hEvent", "CUevent")];
  an_params := [Param "hCtx" SEND_ONLY []; Param "hEvent" SEND_ONLY []];
  an_routing := Some ("CURRENT_CONTEXT", "");
  an_async := false;
  an_owners := [];
  an_deep := [];
  an_tags := [];
  an_client := true;
  an_server := true;
  an_body := false |}.

Definition ann_cuStreamWaitEvent : annotation := {|
  an_function := "cuStreamWaitEvent";
  an_signature := [("hStream", "CUstream");
                   ("hEvent", "CUevent");
                   ("Flags", "unsigned int")];
  an_params := [Param "hStream" SEND_ONLY [];
                Param "hEvent" SEND_ONLY [];
                Param "Flags" SEND_ONLY []];
  an_routing := Some ("STREAM", "hStream");
  an_async := false;
  an_owners := [];
  an_deep := [];
  an_tags := [];
  an_client := false;
  an_server := false;
  an_body := false |}.

Definition ann_cuStreamAddCallback : annotation := {|
  an_function := "cuStreamAddCallback";
  an_signature := [("hStream", "CUstream");
                   ("callback", "CUstreamCallback");
                   ("userData", "void *");
                   ("flags", "unsigned int")];
  an_params := [Param "hStream" SEND_ONLY [];
                Param "callback" SEND_ONLY [];
                Param "flags" SEND_ONLY []];
  an_routing := Some ("STREAM", "hStream");
  an_async := false;
  an_owners := [];
  an_deep := [];
  an_tags := [];
  an_client := false;
  an_server := false;
  an_body := false |}.

Definition ann_cuStreamBeginCapture_v2 : annotation := {|
  an_function := "cuStreamBeginCapture_v2";
  an_signature := [("hStream", "CUstream"); ("mode", "CUstreamCaptureMode")];
  an_params := [Param "hStream" SEND_ONLY []; Param "mode" SEND_ONLY []];
  an_routing := Some ("STREAM", "hStream");
  an_async := false;
  an_owners := [];
  an_deep := [];
  an_tags := [];
  an_client := false;
  an_server := false;
  an_body := false |}.

Definition ann_cuThreadExchangeStreamCaptureMode : annotation := {|
  an_function := "cuThreadExchangeStreamCaptureMode";
  an_signature := [("mode", "CUstreamCaptureMode *")];
  an_params := [Param "mode" SEND_ONLY [DEREF]];
  an_routing := None;
  an_async := true;
  an_owners := [];
  an_deep := [];
  an_tags := [];
  an_client := false;
  an_server := true;
  an_body := false |}.

Definition ann_cuStreamEndCapture : annotation := {|
  an_function := "cuStreamEndCapture";
  an_signature := [("hStream", "CUstream"); ("phGraph", "CUgraph *")];
  an_params := [Param "hStream" SEND_ONLY []; Param "phGraph" SEND_RECV [NULLABLE]];
  an_routing := Some ("STREAM", "hStream");
  an_async := false;
  an_owners := [("GRAPH", "phGraph")];
  an_deep := [];
  an_tags := [];
  an_client := false;
  an_server := false;
  an_body := false |}.

Definition ann_cuStreamIsCapturing : annotation := {|
  an_function := "cuStreamIsCapturing";
  an_signature := [("hStream", "CUstream"); ("captureStatus", "CUstreamCaptureStatus *")];
  an_params := [Param "hStream" SEND_ONLY []; Param "captureStatus" SEND_RECV []];
  an_routing := Some ("STREAM", "hStream");
  an_async := false;
  an_owners := [];
  an_deep := [];
  an_tags := [];
  an_client := false;
  an_server := true;
  an_body := false |}.

Definition ann_cuStreamUpdateCaptureDependencies : annotation := {|
  an_function := "cuStreamUpdateCaptureDependencies";
  an_signature := [("hStream", "CUstream");
                   ("dependencies", "CUgraphNode *");
                   ("numDependencies", "size_t");
                   ("flags", "unsigned int")];
  an_params := [Param "hStream" SEND_ONLY [];
                Param "dependencies" SEND_RECV [];
                Param "numDependencies" SEND_ONLY [];
                Param "flags" SEND_ONLY []];
  an_routing := Some ("STREAM", "hStream");
  an_async := false;
  an_owners := [];
  an_deep := [];
  an_tags := [];
  an_client := true;
  an_server := true;
  an_body := false |}.

Definition ann_cuStreamAttachMemAsync : annotation := {|
  an_function := "cuStreamAttachMemAsync";
  an_signature := [("hStream", "CUstream");
                   ("dptr", "CUdeviceptr");
                   ("length", "size_t");
                   ("flags", "unsigned int")];
  an_params := [Param "hStream" SEND_ONLY [];
                Param "dptr" SEND_ONLY [];
                Param "length" SEND_ONLY [];
                Param "flags" SEND_ONLY []];
  an_routing := Some ("STREAM", "hStream");
  an_async := false;
  an_owners := [];
  an_deep := [];
  an_tags := [RoutingFallback "DEVICEPTR" "dptr"];
  an_client := true;
  an_server := true;
  an_body := false |}.

Definition ann_cuStreamQuery : annotation := {|
  an_function := "cuStreamQuery";
  an_signature := [("hStream", "CUstream")];
  an_params := [Param "hStream" SEND_ONLY []];
  an_routing := Some ("STREAM", "hStream");
  an_async := false;
  an_owners := [];
  an_deep := [];
  an_tags := [Synchronize ["DEFERRED_DTOH"]];
  an_client := true;
  an_server := true;
  an_body := false |}.

Definition ann_cuStreamSynchronize : annotation := {|
  an_function := "cuStreamSynchronize";
  an_signature := [("hStream", "CUstream")];
  an_params := [Param "hStream" SEND_ONLY []];
  an_routing := Some ("STREAM", "hStream");
  an_async := false;
  an_owners := [];
  an_deep := [];
  an_tags := [Synchronize ["DEFERRED_DTOH"; "STDOUT"]];
  an_client := true;
  an_server := true;
  an_body := false |}.

Definition ann_cuStreamDestroy_v2 : annotation := {|
  an_function := "cuStreamDestroy_v2";
  an_signature := [("hStream", "CUstream")];
  an_params := [Param "hStream" SEND_ONLY []];
  an_routing := Some ("STREAM", "hStream");
  an_async := false;
  an_owners := [];
  an_deep := [];
  an_tags := [];
  an_client := true;
  an_server := true;
  an_body := true |}.

Definition ann_cuStreamCopyAttributes : annotation := {|
  an_function := "cuStreamCopyAttributes";
  an_signature := [("dst", "CUstream"); ("src", "CUstream")];
  an_params := [Param "dst" SEND_ONLY []; Param "src" SEND_ONLY []];
  an_routing := Some ("STREAM", "dst");
  an_async := false;
  an_owners := [];
  an_deep := [];
  an_tags := [];
  an_client := true;
  an_server := true;
  an_body := false |}.

Definition ann_cuStreamGetAttribute : annotation := {|
  an_function := "cuStreamGetAttribute";
  an_signature := [("hStream", "CUstream");
                   ("attr", "CUstreamAttrID");
                   ("value_out", "CUstreamAttrValue *")];
  an_params := [Param "hStream" SEND_ONLY [];
                Param "attr" SEND_ONLY [];
                Param "value_out" SEND_RECV []];
  an_routing := Some ("STREAM", "hStream");
  an_async := false;
  an_owners := [];
  an_deep := [];
  an_tags := [];
  an_client := true;
  an_server := true;
  an_body := false |}.

Definition ann_cuStreamSetAttribute : annotation := {|
  an_function := "cuStreamSetAttribute";
  an_signature := [("hStream", "CUstream");
                   ("attr", "CUstreamAttrID");
                   ("value", "const CUstreamAttrValue *")];
  an_params := [Param "hStream" SEND_ONLY [];
                Param "attr" SEND_ONLY [];
                Param "value" SEND_ONLY [DEREF]];
  an_routing := Some ("STREAM", "hStream");
  an_async := false;
  an_owners := [];
  an_deep := [];
  an_tags := [];
  an_client := true;
  an_server := true;
  an_body := false |}.

Definition ann_cuEventCreate : annotation := {|
  an_function := "cuEventCreate";
  an_signature := [("phEvent", "CUevent *"); ("Flags", "unsigned int")];
  an_params := [Param "phEvent" SEND_RECV []; Param "Flags" SEND_ONLY []];
  an_routing := Some ("CURRENT_CONTEXT", "");
  an_async := false;
  an_owners := [("EVENT", "phEvent")];
  an_deep := [];
  an_tags := [];
  an_client := false;
  an_server := true;
  an_body := false |}.

Definition ann_cuEventRecord : annotation := {|
  an_function := "cuEventRecord";
  an_signature := [("hEvent", "CUevent"); ("hStream", "CUstream")];
  an_params := [Param "hEvent" SEND_ONLY []; Param "hStream" SEND_ONLY []];
  an_routing := Some ("STREAM", "hStream");
  an_async := true;
  an_owners := [];
  an_deep := [];
  an_tags := [];
  an_client := false;
  an_server := false;
  an_body := false |}.

Definition ann_cuEventRecordWithFlags : annotation := {|
  an_function := "cuEventRecordWithFlags";
  an_signature := [("hEvent", "CUevent");
                   ("hStream", "CUstream");
                   ("flags", "unsigned int")];
  an_params := [Param "hEvent" SEND_ONLY [];
                Param "hStream" SEND_ONLY [];
                Param "flags" SEND_ONLY []];
  an_routing := Some ("STREAM", "hStream");
  an_async := true;
  an_owners := [];
  an_deep := [];
  an_tags := [];
  an_client := false;
  an_server := false;
  an_body := false |}.

Definition ann_cuEventQuery : annotation := {|
  an_function := "cuEventQuery";
  an_signature := [("hEvent", "CUevent")];
  an_params := [Param "hEvent" SEND_ONLY []];
  an_routing := Some ("EVENT", "hEvent");
  an_async := false;
  an_owners := [];
  an_deep := [];
  an_tags := [Synchronize ["DEFERRED_DTOH"]];
  an_client := false;
  an_server := false;
  an_body := false |}.

Definition ann_cuEventSynchronize : annotation := {|
  an_function := "cuEventSynchronize";
  an_signature := [("hEvent", "CUevent")];
  an_params := [Param "hEvent" SEND_ONLY []];
  an_routing := Some ("EVENT", "hEvent");
  an_async := false;
  an_owners := [];
  an_deep := [];
  an_tags := [Synchronize ["DEFERRED_DTOH"; "STDOUT"]];
  an_client := true;
  an_server := true;
  an_body := false |}.

Definition ann_cuEventDestroy_v2 : annotation := {|
  an_function := "cuEventDestroy_v2";
  an_signature := [("hEvent", "CUevent")];
  an_params := [Param "hEvent" SEND_ONLY []];
  an_routing := Some ("EVENT", "hEvent");
  an_async := false;
  an_owners := [];
  an_deep := [];
  an_tags := [];
  an_client := false;
  an_server := false;
  an_body := false |}.

Definition ann_cuEventElapsedTime : annotation := {|
  an_function := "cuEventElapsedTime";
  an_signature := [("pMilliseconds", "float *"); ("hStart", "CUevent"); ("hEnd", "CUevent")];
  an_params := [Param "pMilliseconds" SEND_RECV [];
                Param "hStart" SEND_ONLY [];
                Param "hEnd" SEND_ONLY []];
  an_routing := None;
  an_async := false;
  an_owners := [];
  an_deep := [];
  an_tags := [];
  an_client := true;
  an_server := true;
  an_body := false |}.

Definition ann_cuImportExternalMemory : annotation := {|
  an_function := "cuImportExternalMemory";
  an_signature := [("extMem_out", "CUexternalMemory *");
                   ("memHandleDesc", "const CUDA_EXTERNAL_MEMORY_HANDLE_DESC *")];
  an_params := [Param "extMem_out" SEND_RECV []; Param "memHandleDesc" SEND_ONLY [DEREF]];
  an_routing := None;
  an_async := false;
  an_owners := [];
  an_deep := [];
  an_tags := [];
  an_client := true;
  an_server := true;
  an_body := false |}.

Definition ann_cuExternalMemoryGetMappedBuffer : annotation := {|
  an_function := "cuExternalMemoryGetMappedBuffer";
  an_signature := [("devPtr", "CUdeviceptr *");
                   ("extMem", "CUexternalMemory");
                   ("bufferDesc", "const CUDA_EXTERNAL_MEMORY_BUFFER_DESC *")];
  an_params := [Param "devPtr" SEND_RECV [];
                Param "extMem" SEND_ONLY [];
                Param "bufferDesc" SEND_ONLY [DEREF]];
  an_routing := None;
  an_async := false;
  an_owners := [];
  an_deep := [];
  an_tags := [];
  an_client := true;
  an_server := true;
  an_body := false |}.

Definition ann_cuExternalMemoryGetMappedMipmappedArray : annotation := {|
  an_function := "cuExternalMemoryGetMappedMipmappedArray";
  an_signature := [("mipmap", "CUmipmappedArray *");
                   ("extMem", "CUexternalMemory");
                   ("mipmapDesc", "const CUDA_EXTERNAL_MEMORY_MIPMAPPED_ARRAY_DESC *")];
  an_params := [Param "mipmap" SEND_RECV [];
                Param "extMem" SEND_ONLY [];
                Param "mipmapDesc" SEND_ONLY [DEREF]];
  an_routing := None;
  an_async := false;
  an_owners := [];
  an_deep := [];
  an_tags := [];
  an_client := true;
  an_server := true;
  an_body := false |}.

Definition ann_cuDestroyExternalMemory : annotation := {|
  an_function := "cuDestroyExternalMemory";
  an_signature := [("extMem", "CUexternalMemory")];
  an_params := [Param "extMem" SEND_ONLY []];
  an_routing := None;
  an_async := false;
  an_owners := [];
  an_deep := [];
  an_tags := [];
  an_client := true;
  an_server := true;
  an_body := false |}.

Definition ann_cuImportExternalSemaphore : annotation := {|
  an_function := "cuImportExternalSemaphore";
  an_signature := [("extSem_out", "CUexternalSemaphore *");
                   ("semHandleDesc", "const CUDA_EXTERNAL_SEMAPHORE_HANDLE_DESC *")];
  an_params := [Param "extSem_out" SEND_RECV []; Param "semHandleDesc" SEND_ONLY [DEREF]];
  an_routing := None;
  an_async := false;
  an_owners := [];
  an_deep := [];
  an_tags := [];
  an_client := true;
  an_server := true;
  an_body := false |}.

Definition ann_cuSignalExternalSemaphoresAsync : annotation := {|
  an_function := "cuSignalExternalSemaphoresAsync";
  an_signature := [("extSemArray", "const CUexternalSemaphore *");
                   ("paramsArray", "const CUDA_EXTERNAL_SEMAPHORE_SIGNAL_PARAMS *");
                   ("numExtSems", "unsigned int");
                   ("stream", "CUstream")];
  an_params := [Param "extSemArray" SEND_ONLY [LENGTH "numExtSems"];
                Param "paramsArray" SEND_ONLY [LENGTH "numExtSems"];
                Param "numExtSems" SEND_ONLY [];
                Param "stream" SEND_ONLY []];
  an_routing := None;
  an_async := false;
  an_owners := [];
  an_deep := [];
  an_tags := [];
  an_client := true;
  an_server := true;
  an_body := false |}.

Definition ann_cuWaitExternalSemaphoresAsync : annotation := {|
  an_function := "cuWaitExternalSemaphoresAsync";
  an_signature := [("extSemArray", "const CUexternalSemaphore *");
                   ("paramsArray", "const CUDA_EXTERNAL_SEMAPHORE_WAIT_PARAMS *");
                   ("numExtSems", "unsigned int");
                   ("stream", "CUstream")];
  an_params := [Param "extSemArray" SEND_ONLY [LENGTH "numExtSems"];
                Param "paramsArray" SEND_ONLY [LENGTH "numExtSems"];
                Param "numExtSems" SEND_ONLY [];
                Param "stream" SEND_ONLY []];
  an_routing := None;
  an_async := false;
  an_owners := [];
  an_deep := [];
  an_tags := [];
  an_client := true;
  an_server := true;
  an_body := false |}.

Definition ann_cuDestroyExternalSemaphore : annotation := {|
  an_function := "cuDestroyExternalSemaphore";
  an_signature := [("extSem", "CUexternalSemaphore")];
  an_params := [Param "extSem" SEND_ONLY []];
  an_routing := None;
  an_async := false;
  an_owners := [];
  an_deep := [];
  an_tags := [];
  an_client := true;
  an_server := true;
  an_body := false |}.

Definition ann_cuStreamWaitValue32_v2 : annotation := {|
  an_function := "cuStreamWaitValue32_v2";
  an_signature := [("stream", "CUstream");
                   ("addr", "CUdeviceptr");
                   ("value", "cuuint32_t");
                   ("flags", "unsigned int")];
  an_params := [Param "stream" SEND_ONLY [];
                Param "addr" SEND_ONLY [];
                Param "value" SEND_ONLY [];
                Param "flags" SEND_ONLY []];
  an_routing := None;
  an_async := false;
  an_owners := [];
  an_deep := [];
  an_tags := [];
  an_client := true;
  an_server := true;
  an_body := false |}.

Definition ann_cuStreamWaitValue64_v2 : annotation := {|
  an_function := "cuStreamWaitValue64_v2";
  an_signature := [("stream", "CUstream");
                   ("addr", "CUdeviceptr");
                   ("value", "cuuint64_t");
                   ("flags", "unsigned int")];
  an_params := [Param "stream" SEND_ONLY [];
                Param "addr" SEND_ONLY [];
                Param "value" SEND_ONLY [];
                Param "flags" SEND_ONLY []];
  an_routing := None;
  an_async := false;
  an_owners := [];
  an_deep := [];
  an_tags := [];
  an_client := true;
  an_server := true;
  an_body := false |}.

Definition ann_cuStreamWriteValue32_v2 : annotation := {|
  an_function := "cuStreamWriteValue32_v2";
  an_signature := [("stream", "CUstream");
                   ("addr", "CUdeviceptr");
                   ("value", "cuuint32_t");
                   ("flags", "unsigned int")];
  an_params := [Param "stream" SEND_ONLY [];
                Param "addr" SEND_ONLY [];
                Param "value" SEND_ONLY [];
                Param "flags" SEND_ONLY []];
  an_routing := None;
  an_async := false;
  an_owners := [];
  an_deep := [];
  an_tags := [];
  an_client := true;
  an_server := true;
  an_body := false |}.

Definition ann_cuStreamWriteValue64_v2 : annotation := {|
  an_function := "cuStreamWriteValue64_v2";
  an_signature := [("stream", "CUstream");
                   ("addr", "CUdeviceptr");
                   ("value", "cuuint64_t");
                   ("flags", "unsigned int")];
  an_params := [Param "stream" SEND_ONLY [];
                Param "addr" SEND_ONLY [];
                Param "value" SEND_ONLY [];
                Param "flags" SEND_ONLY []];
  an_routing := None;
  an_async := false;
  an_owners := [];
  an_deep := [];
  an_tags := [];
  an_client := true;
  an_server := true;
  an_body := false |}.

Definition ann_cuStreamBatchMemOp_v2 : annotation := {|
  an_function := "cuStreamBatchMemOp_v2";
  an_signature := [("stream", "CUstream");
                   ("count", "unsigned int");
                   ("paramArray", "CUstreamBatchMemOpParams *");
                   ("flags", "unsigned int")];
  an_params := [Param "stream" SEND_ONLY [];
                Param "count" SEND_ONLY [];
                Param "paramArray" SEND_ONLY [LENGTH "count"];
                Param "flags" SEND_ONLY []];
  an_routing := None;
  an_async := false;
  an_owners := [];
  an_deep := [];
  an_tags := [];
  an_client := true;
  an_server := true;
  an_body := false |}.

Definition ann_cuFuncGetAttribute : annotation := {|
  an_function := "cuFuncGetAttribute";
  an_signature := [("pi", "int *");
                   ("attrib", "CUfunction_attribute");
                   ("hfunc", "CUfunction")];
  an_params := [Param "pi" SEND_RECV [];
                Param "attrib" SEND_ONLY [];
                Param "hfunc" SEND_ONLY []];
  an_routing := Some ("FUNCTION", "hfunc");
  an_async := false;
  an_owners := [];
  an_deep := [];
  an_tags := [];
  an_client := true;
  an_server := true;
  an_body := true |}.

Definition ann_cuFuncSetAttribute : annotation := {|
  an_function := "cuFuncSetAttribute";
  an_signature := [("hfunc", "CUfunction");
                   ("attrib", "CUfunction_attribute");
                   ("value", "int")];
  an_params := [Param "hfunc" SEND_ONLY [];
                Param "attrib" SEND_ONLY [];
                Param "value" SEND_ONLY []];
  an_routing := Some ("FUNCTION", "hfunc");
  an_async := false;
  an_owners := [];
  an_deep := [];
  an_tags := [];
  an_client := true;
  an_server := true;
  an_body := true |}.

Definition ann_cuFuncSetCacheConfig : annotation := {|
  an_function := "cuFuncSetCacheConfig";
  an_signature := [("hfunc", "CUfunction"); ("config", "CUfunc_cache")];
  an_params := [Param "hfunc" SEND_ONLY []; Param "config" SEND_ONLY []];
  an_routing := Some ("FUNCTION", "hfunc");
  an_async := false;
  an_owners := [];
  an_deep := [];
  an_tags := [];
  an_client := true;
  an_server := true;
  an_body := true |}.

Definition ann_cuFuncSetSharedMemConfig : annotation := {|
  an_function := "cuFuncSetSharedMemConfig";
  an_signature := [("hfunc", "CUfunction"); ("config", "CUsharedconfig")];
  an_params := [Param "hfunc" SEND_ONLY []; Param "config" SEND_ONLY []];
  an_routing := Some ("FUNCTION", "hfunc");
  an_async := false;
  an_owners := [];
  an_deep := [];
  an_tags := [];
  an_client := true;
  an_server := true;
  an_body := false |}.

Definition ann_cuFuncGetModule : annotation := {|
  an_function := "cuFuncGetModule";
  an_signature := [("hmod", "CUmodule *"); ("hfunc", "CUfunction")];
  an_params := [Param "hmod" SEND_RECV []; Param "hfunc" SEND_ONLY []];
  an_routing := Some ("FUNCTION", "hfunc");
  an_async := false;
  an_owners := [("MODULE", "hmod")];
  an_deep := [];
  an_tags := [];
  an_client := true;
  an_server := true;
  an_body := false |}.

Definition ann_cuFuncGetName : annotation := {|
  an_function := "cuFuncGetName";
  an_signature := [("name", "const char **"); ("hfunc", "CUfunction")];
  an_params := [Param "name" RECV_ONLY [NULL_TERMINATED]; Param "hfunc" SEND_ONLY []];
  an_routing := Some ("FUNCTION", "hfunc");
  an_async := false;
  an_owners := [];
  an_deep := [];
  an_tags := [Retain ["name"; "hfunc"]];
  an_client := true;
  an_server := true;
  an_body := false |}.

Definition ann_cuLaunchKernel : annotation := {|
  an_function := "cuLaunchKernel";
  an_signature := [("f", "CUfunction");
                   ("gridDimX", "unsigned int");
                   ("gridDimY", "unsigned int");
                   ("gridDimZ", "unsigned int");
                   ("blockDimX", "unsigned int");
                   ("blockDimY", "unsigned int");
                   ("blockDimZ", "unsigned int");
                   ("sharedMemBytes", "unsigned int");
                   ("hStream", "CUstream");
                   ("kernelParams", "void **");
                   ("extra", "void **")];
  an_params := [Param "f" SEND_ONLY [];
                Param "gridDimX" SEND_ONLY [];
                Param "gridDimY" SEND_ONLY [];
                Param "gridDimZ" SEND_ONLY [];
                Param "blockDimX" SEND_ONLY [];
                Param "blockDimY" SEND_ONLY [];
                Param "blockDimZ" SEND_ONLY [];
                Param "sharedMemBytes" SEND_ONLY [];
                Param "hStream" SEND_ONLY [];
                Param "kernelParams" SEND_ONLY [];
                Param "extra" SEND_ONLY []];
  an_routing := None;
  an_async := false;
  an_owners := [];
  an_deep := [];
  an_tags := [];
  an_client := false;
  an_server := false;
  an_body := false |}.

Definition ann_cuLaunchKernelEx : annotation := {|
  an_function := "cuLaunchKernelEx";
  an_signature := [("config", "const CUlaunchConfig *");
                   ("f", "CUfunction");
                   ("kernelParams", "void **");
                   ("extra", "void **")];
  an_params := [Param "config" SEND_ONLY [DEREFERENCE];
                Param "f" SEND_ONLY [];
                Param "kernelParams" SEND_ONLY [];
                Param "extra" SEND_ONLY []];
  an_routing := None;
  an_async := false;
  an_owners := [];
  an_deep := [];
  an_tags := [];
  an_client := false;
  an_server := false;
  an_body := false |}.

Definition ann_cuLaunchCooperativeKernel : annotation := {|
  an_function := "cuLaunchCooperativeKernel";
  an_signature := [("f", "CUfunction");
                   ("gridDimX", "unsigned int");
                   ("gridDimY", "unsigned int");
                   ("gridDimZ", "unsigned int");
                   ("blockDimX", "unsigned int");
                   ("blockDimY", "unsigned int");
                   ("blockDimZ", "unsigned int");
                   ("sharedMemBytes", "unsigned int");
                   ("hStream", "CUstream");
                   ("kernelParams", "void **")];
  an_params := [Param "f" SEND_ONLY [];
                Param "gridDimX" SEND_ONLY [];
                Param "gridDimY" SEND_ONLY [];
                Param "gridDimZ" SEND_ONLY [];
                Param "blockDimX" SEND_ONLY [];
                Param "blockDimY" SEND_ONLY [];
                Param "blockDimZ" SEND_ONLY [];
                Param "sharedMemBytes" SEND_ONLY [];
                Param "hStream" SEND_ONLY [];
                Param "kernelParams" SEND_RECV []];
  an_routing := None;
  an_async := false;
  an_owners := [];
  an_deep := [];
  an_tags := [];
  an_client := false;
  an_server := false;
  an_body := false |}.

Definition ann_cuLaunchCooperativeKernelMultiDevice : annotation := {|
  an_function := "cuLaunchCooperativeKernelMultiDevice";
  an_signature := [("launchParamsList", "CUDA_LAUNCH_PARAMS *");
                   ("numDevices", "unsigned int");
                   ("flags", "unsigned int")];
  an_params := [];
  an_routing := None;
  an_async := false;
  an_owners := [];
  an_deep := [];
  an_tags := [];
  an_client := true;
  an_server := true;
  an_body := false |}.

Definition ann_cuLaunchHostFunc : annotation := {|
  an_function := "cuLaunchHostFunc";
  an_signature := [("hStream", "CUstream"); ("fn", "CUhostFn"); ("userData", "void *")];
  an_params := [Param "hStream" SEND_ONLY []; Param "fn" SEND_ONLY []];
  an_routing := None;
  an_async := false;
  an_owners := [];
  an_deep := [];
  an_tags := [];
  an_client := false;
  an_server := false;
  an_body := false |}.

Definition ann_cuFuncSetBlockShape : annotation := {|
  an_function := "cuFuncSetBlockShape";
  an_signature := [("hfunc", "CUfunction"); ("x", "int"); ("y", "int"); ("z", "int")];
  an_params := [Param "hfunc" SEND_ONLY [];
                Param "x" SEND_ONLY [];
                Param "y" SEND_ONLY [];
                Param "z" SEND_ONLY []];
  an_routing := None;
  an_async := false;
  an_owners := [];
  an_deep := [];
  an_tags := [];
  an_client := true;
  an_server := true;
  an_body := false |}.

Definition ann_cuFuncSetSharedSize : annotation := {|
  an_function := "cuFuncSetSharedSize";
  an_signature := [("hfunc", "CUfunction"); ("bytes", "unsigned int")];
  an_params := [Param "hfunc" SEND_ONLY []; Param "bytes" SEND_ONLY []];
  an_routing := None;
  an_async := false;
  an_owners := [];
  an_deep := [];
  an_tags := [];
  an_client := true;
  an_server := true;
  an_body := false |}.

Definition ann_cuParamSetSize : annotation := {|
  an_function := "cuParamSetSize";
  an_signature := [("hfunc", "CUfunction"); ("numbytes", "unsigned int")];
  an_params := [Param "hfunc" SEND_ONLY []; Param "numbytes" SEND_ONLY []];
  an_routing := None;
  an_async := false;
  an_owners := [];
  an_deep := [];
  an_tags := [];
  an_client := true;
  an_server := true;
  an_body := false |}.

Definition ann_cuParamSeti : annotation := {|
  an_function := "cuParamSeti";
  an_signature := [("hfunc", "CUfunction"); ("offset", "int"); ("value", "unsigned int")];
  an_params := [Param "hfunc" SEND_ONLY [];
                Param "offset" SEND_ONLY [];
                Param "value" SEND_ONLY []];
  an_routing := None;
  an_async := false;
  an_owners := [];
  an_deep := [];
  an_tags := [];
  an_client := true;
  an_server := true;
  an_body := false |}.

Definition ann_cuParamSetf : annotation := {|
  an_function := "cuParamSetf";
  an_signature := [("hfunc", "CUfunction"); ("offset", "int"); ("value", "float")];
  an_params := [Param "hfunc" SEND_ONLY [];
                Param "offset" SEND_ONLY [];
                Param "value" SEND_ONLY []];
  an_routing := None;
  an_async := false;
  an_owners := [];
  an_deep := [];
  an_tags := [];
  an_client := true;
  an_server := true;
  an_body := false |}.

Definition ann_cuParamSetv : annotation := {|
  an_function := "cuParamSetv";
  an_signature := [("hfunc", "CUfunction");
                   ("offset", "int");
                   ("ptr", "void *");
                   ("numbytes", "unsigned int")];
  an_params := [Param "hfunc" SEND_ONLY [];
                Param "offset" SEND_ONLY [];
                Param "numbytes" SEND_ONLY [];
                Param "ptr" SEND_ONLY [LENGTH "numbytes"]];
  an_routing := None;
  an_async := false;
  an_owners := [];
  an_deep := [];
  an_tags := [];
  an_client := true;
  an_server := true;
  an_body := false |}.

Definition ann_cuLaunch : annotation := {|
  an_function := "cuLaunch";
  an_signature := [("f", "CUfunction")];
  an_params := [Param "f" SEND_ONLY []];
  an_routing := None;
  an_async := false;
  an_owners := [];
  an_deep := [];
  an_tags := [];
  an_client := true;
  an_server := true;
  an_body := false |}.

Definition ann_cuLaunchGrid : annotation := {|
  an_function := "cuLaunchGrid";
  an_signature := [("f", "CUfunction"); ("grid_width", "int"); ("grid_height", "int")];
  an_params := [Param "f" SEND_ONLY [];
                Param "grid_width" SEND_ONLY [];
                Param "grid_height" SEND_ONLY []];
  an_routing := None;
  an_async := false;
  an_owners := [];
  an_deep := [];
  an_tags := [];
  an_client := true;
  an_server := true;
  an_body := false |}.

Definition ann_cuLaunchGridAsync : annotation := {|
  an_function := "cuLaunchGridAsync";
  an_signature := [("f", "CUfunction");
                   ("grid_width", "int");
                   ("grid_height", "int");
                   ("hStream", "CUstream")];
  an_params := [Param "f" SEND_ONLY [];
                Param "grid_width" SEND_ONLY [];
                Param "grid_height" SEND_ONLY [];
                Param "hStream" SEND_ONLY []];
  an_routing := None;
  an_async := false;
  an_owners := [];
  an_deep := [];
  an_tags := [];
  an_client := true;
  an_server := true;
  an_body := false |}.

Definition ann_cuParamSetTexRef : annotation := {|
  an_function := "cuParamSetTexRef";
  an_signature := [("hfunc", "CUfunction"); ("texunit", "int"); ("hTexRef", "CUtexref")];
  an_params := [Param "hfunc" SEND_ONLY [];
                Param "texunit" SEND_ONLY [];
                Param "hTexRef" SEND_ONLY []];
  an_routing := None;
  an_async := false;
  an_owners := [];
  an_deep := [];
  an_tags := [];
  an_client := true;
  an_server := true;
  an_body := false |}.

Definition ann_cuGraphCreate : annotation := {|
  an_function := "cuGraphCreate";
  an_signature := [("phGraph", "CUgraph *"); ("flags", "unsigned int")];
  an_params := [Param "phGraph" SEND_RECV []; Param "flags" SEND_ONLY []];
  an_routing := None;
  an_async := false;
  an_owners := [("GRAPH", "phGraph")];
  an_deep := [];
  an_tags := [];
  an_client := true;
  an_server := true;
  an_body := false |}.

Definition ann_cuGraphAddKernelNode_v2 : annotation := {|
  an_function := "cuGraphAddKernelNode_v2";
  an_signature := [("phGraphNode", "CUgraphNode *");
                   ("hGraph", "CUgraph");
                   ("dependencies", "const CUgraphNode *");
                   ("numDependencies", "size_t");
                   ("nodeParams", "const CUDA_KERNEL_NODE_PARAMS *")];
  an_params := [Param "phGraphNode" SEND_RECV [];
                Param "hGraph" SEND_ONLY [];
                Param "dependencies" SEND_RECV [];
                Param "numDependencies" SEND_ONLY [];
                Param "nodeParams" SEND_RECV []];
  an_routing := None;
  an_async := false;
  an_owners := [];
  an_deep := [];
  an_tags := [];
  an_client := false;
  an_server := false;
  an_body := false |}.

Definition ann_cuGraphKernelNodeGetParams_v2 : annotation := {|
  an_function := "cuGraphKernelNodeGetParams_v2";
  an_signature := [("hNode", "CUgraphNode"); ("nodeParams", "CUDA_KERNEL_NODE_PARAMS *")];
  an_params := [Param "hNode" SEND_ONLY []; Param "nodeParams" SEND_RECV []];
  an_routing := None;
  an_async := false;
  an_owners := [];
  an_deep := [];
  an_tags := [];
  an_client := false;
  an_server := false;
  an_body := false |}.

Definition ann_cuGraphKernelNodeSetParams_v2 : annotation := {|
  an_function := "cuGraphKernelNodeSetParams_v2";
  an_signature := [("hNode", "CUgraphNode");
                   ("nodeParams", "const CUDA_KERNEL_NODE_PARAMS *")];
  an_params := [Param "hNode" SEND_ONLY []; Param "nodeParams" SEND_ONLY [DEREF]];
  an_routing := None;
  an_async := false;
  an_owners := [];
  an_deep := [];
  an_tags := [];
  an_client := false;
  an_server := false;
  an_body := false |}.

Definition ann_cuGraphAddMemcpyNode : annotation := {|
  an_function := "cuGraphAddMemcpyNode";
  an_signature := [("phGraphNode", "CUgraphNode *");
                   ("hGraph", "CUgraph");
                   ("dependencies", "const CUgraphNode *");
                   ("numDependencies", "size_t");
                   ("copyParams", "const CUDA_MEMCPY3D *");
                   ("ctx", "CUcontext")];
  an_params := [Param "phGraphNode" SEND_RECV [];
                Param "hGraph" SEND_ONLY [];
                Param "dependencies" SEND_RECV [];
                Param "numDependencies" SEND_ONLY [];
                Param "copyParams" SEND_RECV [];
                Param "ctx" SEND_ONLY []];
  an_routing := None;
  an_async := false;
  an_owners := [];
  an_deep := [];
  an_tags := [];
  an_client := false;
  an_server := false;
  an_body := false |}.

Definition ann_cuGraphMemcpyNodeGetParams : annotation := {|
  an_function := "cuGraphMemcpyNodeGetParams";
  an_signature := [("hNode", "CUgraphNode"); ("nodeParams", "CUDA_MEMCPY3D *")];
  an_params := [Param "hNode" SEND_ONLY []; Param "nodeParams" SEND_RECV []];
  an_routing := None;
  an_async := false;
  an_owners := [];
  an_deep := [];
  an_tags := [];
  an_client := true;
  an_server := true;
  an_body := false |}.

Definition ann_cuGraphMemcpyNodeSetParams : annotation := {|
  an_function := "cuGraphMemcpyNodeSetParams";
  an_signature := [("hNode", "CUgraphNode"); ("nodeParams", "const CUDA_MEMCPY3D *")];
  an_params := [Param "hNode" SEND_ONLY []; Param "nodeParams" SEND_ONLY [DEREF]];
  an_routing := None;
  an_async := false;
  an_owners := [];
  an_deep := [];
  an_tags := [];
  an_client := true;
  an_server := true;
  an_body := false |}.

Definition ann_cuGraphAddMemsetNode : annotation := {|
  an_function := "cuGraphAddMemsetNode";
  an_signature := [("phGraphNode", "CUgraphNode *");
                   ("hGraph", "CUgraph");
                   ("dependencies", "const CUgraphNode *");
                   ("numDependencies", "size_t");
                   ("memsetParams", "const CUDA_MEMSET_NODE_PARAMS *");
                   ("ctx", "CUcontext")];
  an_params := [Param "phGraphNode" SEND_RECV [];
                Param "hGraph" SEND_ONLY [];
                Param "dependencies" SEND_RECV [];
                Param "numDependencies" SEND_ONLY [];
                Param "memsetParams" SEND_RECV [];
                Param "ctx" SEND_ONLY []];
  an_routing := None;
  an_async := false;
  an_owners := [];
  an_deep := [];
  an_tags := [];
  an_client := false;
  an_server := false;
  an_body := false |}.

Definition ann_cuGraphMemsetNodeGetParams : annotation := {|
  an_function := "cuGraphMemsetNodeGetParams";
  an_signature := [("hNode", "CUgraphNode"); ("nodeParams", "CUDA_MEMSET_NODE_PARAMS *")];
  an_params := [Param "hNode" SEND_ONLY []; Param "nodeParams" SEND_RECV []];
  an_routing := None;
  an_async := false;
  an_owners := [];
  an_deep := [];
  an_tags := [];
  an_client := true;
  an_server := true;
  an_body := false |}.

Definition ann_cuGraphMemsetNodeSetParams : annotation := {|
  an_function := "cuGraphMemsetNodeSetParams";
  an_signature := [("hNode", "CUgraphNode");
                   ("nodeParams", "const CUDA_MEMSET_NODE_PARAMS *")];
  an_params := [Param "hNode" SEND_ONLY []; Param "nodeParams" SEND_ONLY [DEREF]];
  an_routing := None;
  an_async := false;
  an_owners := [];
  an_deep := [];
  an_tags := [];
  an_client := true;
  an_server := true;
  an_body := false |}.

Definition ann_cuGraphAddHostNode : annotation := {|
  an_function := "cuGraphAddHostNode";
  an_signature := [("phGraphNode", "CUgraphNode *");
                   ("hGraph", "CUgraph");
                   ("dependencies", "const CUgraphNode *");
                   ("numDependencies", "size_t");
                   ("nodeParams", "const CUDA_HOST_NODE_PARAMS *")];
  an_params := [Param "phGraphNode" SEND_RECV [];
                Param "hGraph" SEND_ONLY [];
                Param "dependencies" SEND_RECV [];
                Param "numDependencies" SEND_ONLY [];
                Param "nodeParams" SEND_RECV []];
  an_routing := None;
  an_async := false;
  an_owners := [];
  an_deep := [];
  an_tags := [];
  an_client := false;
  an_server := false;
  an_body := false |}.

Definition ann_cuGraphHostNodeGetParams : annotation := {|
  an_function := "cuGraphHostNodeGetParams";
  an_signature := [("hNode", "CUgraphNode"); ("nodeParams", "CUDA_HOST_NODE_PARAMS *")];
  an_params := [Param "hNode" SEND_ONLY []; Param "nodeParams" SEND_RECV []];
  an_routing := None;
  an_async := false;
  an_owners := [];
  an_deep := [];
  an_tags := [];
  an_client := false;
  an_server := false;
  an_body := false |}.

Definition ann_cuGraphHostNodeSetParams : annotation := {|
  an_function := "cuGraphHostNodeSetParams";
  an_signature := [("hNode", "CUgraphNode");
                   ("nodeParams", "const CUDA_HOST_NODE_PARAMS *")];
  an_params := [Param "hNode" SEND_ONLY []; Param "nodeParams" SEND_RECV []];
  an_routing := None;
  an_async := false;
  an_owners := [];
  an_deep := [];
  an_tags := [];
  an_client := false;
  an_server := false;
  an_body := false |}.

Definition ann_cuGraphAddChildGraphNode : annotation := {|
  an_function := "cuGraphAddChildGraphNode";
  an_signature := [("phGraphNode", "CUgraphNode *");
                   ("hGraph", "CUgraph");
                   ("dependencies", "const CUgraphNode *");
                   ("numDependencies", "size_t");
                   ("childGraph", "CUgraph")];
  an_params := [Param "phGraphNode" SEND_RECV [];
                Param "hGraph" SEND_ONLY [];
                Param "numDependencies" SEND_ONLY [];
                Param "dependencies" SEND_ONLY [LENGTH "numDependencies"];
                Param "childGraph" SEND_ONLY []];
  an_routing := None;
  an_async := false;
  an_owners := [("GRAPH_NODE", "phGraphNode")];
  an_deep := [];
  an_tags := [];
  an_client := true;
  an_server := true;
  an_body := false |}.

Definition ann_cuGraphChildGraphNodeGetGraph : annotation := {|
  an_function := "cuGraphChildGraphNodeGetGraph";
  an_signature := [("hNode", "CUgraphNode"); ("phGraph", "CUgraph *")];
  an_params := [Param "hNode" SEND_ONLY []; Param "phGraph" SEND_RECV []];
  an_routing := None;
  an_async := false;
  an_owners := [("GRAPH", "phGraph")];
  an_deep := [];
  an_tags := [];
  an_client := true;
  an_server := true;
  an_body := false |}.

Definition ann_cuGraphAddEmptyNode : annotation := {|
  an_function := "cuGraphAddEmptyNode";
  an_signature := [("phGraphNode", "CUgraphNode *");
                   ("hGraph", "CUgraph");
                   ("dependencies", "const CUgraphNode *");
                   ("numDependencies", "size_t")];
  an_params := [Param "phGraphNode" SEND_RECV [];
                Param "hGraph" SEND_ONLY [];
                Param "numDependencies" SEND_ONLY [];
                Param "dependencies" SEND_ONLY [LENGTH "numDependencies"]];
  an_routing := None;
  an_async := false;
  an_owners := [("GRAPH_NODE", "phGraphNode")];
  an_deep := [];
  an_tags := [];
  an_client := true;
  an_server := true;
  an_body := false |}.

Definition ann_cuGraphAddEventRecordNode : annotation := {|
  an_function := "cuGraphAddEventRecordNode";
  an_signature := [("phGraphNode", "CUgraphNode *");
                   ("hGraph", "CUgraph");
                   ("dependencies", "const CUgraphNode *");
                   ("numDependencies", "size_t");
                   ("event", "CUevent")];
  an_params := [Param "phGraphNode" SEND_RECV [];
                Param "hGraph" SEND_ONLY [];
                Param "numDependencies" SEND_ONLY [];
                Param "dependencies" SEND_ONLY [LENGTH "numDependencies"];
                Param "event" SEND_ONLY []];
  an_routing := None;
  an_async := false;
  an_owners := [("GRAPH_NODE", "phGraphNode")];
  an_deep := [];
  an_tags := [];
  an_client := true;
  an_server := true;
  an_body := false |}.

Definition ann_cuGraphEventRecordNodeGetEvent : annotation := {|
  an_function := "cuGraphEventRecordNodeGetEvent";
  an_signature := [("hNode", "CUgraphNode"); ("event_out", "CUevent *")];
  an_params := [Param "hNode" SEND_ONLY []; Param "event_out" SEND_RECV []];
  an_routing := None;
  an_async := false;
  an_owners := [];
  an_deep := [];
  an_tags := [];
  an_client := true;
  an_server := true;
  an_body := false |}.

Definition ann_cuGraphEventRecordNodeSetEvent : annotation := {|
  an_function := "cuGraphEventRecordNodeSetEvent";
  an_signature := [("hNode", "CUgraphNode"); ("event", "CUevent")];
  an_params := [Param "hNode" SEND_ONLY []; Param "event" SEND_ONLY []];
  an_routing := None;
  an_async := false;
  an_owners := [];
  an_deep := [];
  an_tags := [];
  an_client := true;
  an_server := true;
  an_body := false |}.

Definition ann_cuGraphAddEventWaitNode : annotation := {|
  an_function := "cuGraphAddEventWaitNode";
  an_signature := [("phGraphNode", "CUgraphNode *");
                   ("hGraph", "CUgraph");
                   ("dependencies", "const CUgraphNode *");
                   ("numDependencies", "size_t");
                   ("event", "CUevent")];
  an_params := [Param "phGraphNode" SEND_RECV [];
                Param "hGraph" SEND_ONLY [];
                Param "numDependencies" SEND_ONLY [];
                Param "dependencies" SEND_ONLY [LENGTH "numDependencies"];
                Param "event" SEND_ONLY []];
  an_routing := None;
  an_async := false;
  an_owners := [("GRAPH_NODE", "phGraphNode")];
  an_deep := [];
  an_tags := [];
  an_client := true;
  an_server := true;
  an_body := false |}.

Definition ann_cuGraphEventWaitNodeGetEvent : annotation := {|
  an_function := "cuGraphEventWaitNodeGetEvent";
  an_signature := [("hNode", "CUgraphNode"); ("event_out", "CUevent *")];
  an_params := [Param "hNode" SEND_ONLY []; Param "event_out" SEND_RECV []];
  an_routing := None;
  an_async := false;
  an_owners := [];
  an_deep := [];
  an_tags := [];
  an_client := true;
  an_server := true;
  an_body := false |}.

Definition ann_cuGraphEventWaitNodeSetEvent : annotation := {|
  an_function := "cuGraphEventWaitNodeSetEvent";
  an_signature := [("hNode", "CUgraphNode"); ("event", "CUevent")];
  an_params := [Param "hNode" SEND_ONLY []; Param "event" SEND_ONLY []];
  an_routing := None;
  an_async := false;
  an_owners := [];
  an_deep := [];
  an_tags := [];
  an_client := true;
  an_server := true;
  an_body := false |}.

Definition ann_cuGraphAddExternalSemaphoresSignalNode : annotation := {|
  an_function := "cuGraphAddExternalSemaphoresSignalNode";
  an_signature := [("phGraphNode", "CUgraphNode *");
                   ("hGraph", "CUgraph");
                   ("dependencies", "const CUgraphNode *");
                   ("numDependencies", "size_t");
                   ("nodeParams", "const CUDA_EXT_SEM_SIGNAL_NODE_PARAMS *")];
  an_params := [Param "phGraphNode" SEND_RECV [];
                Param "hGraph" SEND_ONLY [];
                Param "numDependencies" SEND_ONLY [];
                Param "dependencies" SEND_ONLY [LENGTH "numDependencies"];
                Param "nodeParams" SEND_ONLY []];
  an_routing := None;
  an_async := false;
  an_owners := [("GRAPH_NODE", "phGraphNode")];
  an_deep := [("nodeParams", "extSemArray", "numExtSems");
              ("nodeParams", "paramsArray", "numExtSems")];
  an_tags := [];
  an_client := true;
  an_server := true;
  an_body := false |}.

Definition ann_cuGraphExternalSemaphoresSignalNodeGetParams : annotation := {|
  an_function := "cuGraphExternalSemaphoresSignalNodeGetParams";
  an_signature := [("hNode", "CUgraphNode");
                   ("params_out", "CUDA_EXT_SEM_SIGNAL_NODE_PARAMS *")];
  an_params := [Param "hNode" SEND_ONLY []; Param "params_out" RECV_ONLY []];
  an_routing := None;
  an_async := false;
  an_owners := [];
  an_deep := [("params_out", "extSemArray", "numExtSems");
              ("params_out", "paramsArray", "numExtSems")];
  an_tags := [];
  an_client := true;
  an_server := true;
  an_body := false |}.

Definition ann_cuGraphExternalSemaphoresSignalNodeSetParams : annotation := {|
  an_function := "cuGraphExternalSemaphoresSignalNodeSetParams";
  an_signature := [("hNode", "CUgraphNode");
                   ("nodeParams", "const CUDA_EXT_SEM_SIGNAL_NODE_PARAMS *")];
  an_params := [Param "hNode" SEND_ONLY []; Param "nodeParams" SEND_ONLY []];
  an_routing := None;
  an_async := false;
  an_owners := [];
  an_deep := [("nodeParams", "extSemArray", "numExtSems");
              ("nodeParams", "paramsArray", "numExtSems")];
  an_tags := [];
  an_client := true;
  an_server := true;
  an_body := false |}.

Definition ann_cuGraphAddExternalSemaphoresWaitNode : annotation := {|
  an_function := "cuGraphAddExternalSemaphoresWaitNode";
  an_signature := [("phGraphNode", "CUgraphNode *");
                   ("hGraph", "CUgraph");
                   ("dependencies", "const CUgraphNode *");
                   ("numDependencies", "size_t");
                   ("nodeParams", "const CUDA_EXT_SEM_WAIT_NODE_PARAMS *")];
  an_params := [Param "phGraphNode" SEND_RECV [];
                Param "hGraph" SEND_ONLY [];
                Param "numDependencies" SEND_ONLY [];
                Param "dependencies" SEND_ONLY [LENGTH "numDependencies"];
                Param "nodeParams" SEND_ONLY []];
  an_routing := None;
  an_async := false;
  an_owners := [("GRAPH_NODE", "phGraphNode")];
  an_deep := [("nodeParams", "extSemArray", "numExtSems");
              ("nodeParams", "paramsArray", "numExtSems")];
  an_tags := [];
  an_client := true;
  an_server := true;
  an_body := false |}.

Definition ann_cuGraphExternalSemaphoresWaitNodeGetParams : annotation := {|
  an_function := "cuGraphExternalSemaphoresWaitNodeGetParams";
  an_signature := [("hNode", "CUgraphNode");
                   ("params_out", "CUDA_EXT_SEM_WAIT_NODE_PARAMS *")];
  an_params := [Param "hNode" SEND_ONLY []; Param "params_out" RECV_ONLY []];
  an_routing := None;
  an_async := false;
  an_owners := [];
  an_deep := [("params_out", "extSemArray", "numExtSems");
              ("params_out", "paramsArray", "numExtSems")];
  an_tags := [];
  an_client := true;
  an_server := true;
  an_body := false |}.

Definition ann_cuGraphExternalSemaphoresWaitNodeSetParams : annotation := {|
  an_function := "cuGraphExternalSemaphoresWaitNodeSetParams";
  an_signature := [("hNode", "CUgraphNode");
                   ("nodeParams", "const CUDA_EXT_SEM_WAIT_NODE_PARAMS *")];
  an_params := [Param "hNode" SEND_ONLY []; Param "nodeParams" SEND_ONLY []];
  an_routing := None;
  an_async := false;
  an_owners := [];
  an_deep := [("nodeParams", "extSemArray", "numExtSems");
              ("nodeParams", "paramsArray", "numExtSems")];
  an_tags := [];
  an_client := true;
  an_server := true;
  an_body := false |}.

Definition ann_cuGraphAddBatchMemOpNode : annotation := {|
  an_function := "cuGraphAddBatchMemOpNode";
  an_signature := [("phGraphNode", "CUgraphNode *");
                   ("hGraph", "CUgraph");
                   ("dependencies", "const CUgraphNode *");
                   ("numDependencies", "size_t");
                   ("nodeParams", "const CUDA_BATCH_MEM_OP_NODE_PARAMS *")];
  an_params := [Param "phGraphNode" SEND_RECV [];
                Param "hGraph" SEND_ONLY [];
                Param "numDependencies" SEND_ONLY [];
                Param "dependencies" SEND_ONLY [LENGTH "numDependencies"];
                Param "nodeParams" SEND_ONLY []];
  an_routing := None;
  an_async := false;
  an_owners := [("GRAPH_NODE", "phGraphNode")];
  an_deep := [("nodeParams", "paramArray", "count")];
  an_tags := [];
  an_client := true;
  an_server := true;
  an_body := false |}.

Definition ann_cuGraphBatchMemOpNodeGetParams : annotation := {|
  an_function := "cuGraphBatchMemOpNodeGetParams";
  an_signature := [("hNode", "CUgraphNode");
                   ("nodeParams_out", "CUDA_BATCH_MEM_OP_NODE_PARAMS *")];
  an_params := [Param "hNode" SEND_ONLY []; Param "nodeParams_out" RECV_ONLY []];
  an_routing := None;
  an_async := false;
  an_owners := [];
  an_deep := [("nodeParams_out", "paramArray", "count")];
  an_tags := [];
  an_client := true;
  an_server := true;
  an_body := false |}.

Definition ann_cuGraphBatchMemOpNodeSetParams : annotation := {|
  an_function := "cuGraphBatchMemOpNodeSetParams";
  an_signature := [("hNode", "CUgraphNode");
                   ("nodeParams", "const CUDA_BATCH_MEM_OP_NODE_PARAMS *")];
  an_params := [Param "hNode" SEND_ONLY []; Param "nodeParams" SEND_ONLY []];
  an_routing := None;
  an_async := false;
  an_owners := [];
  an_deep := [("nodeParams", "paramArray", "count")];
  an_tags := [];
  an_client := true;
  an_server := true;
  an_body := false |}.

Definition ann_cuGraphExecBatchMemOpNodeSetParams : annotation := {|
  an_function := "cuGraphExecBatchMemOpNodeSetParams";
  an_signature := [("hGraphExec", "CUgraphExec");
                   ("hNode", "CUgraphNode");
                   ("nodeParams", "const CUDA_BATCH_MEM_OP_NODE_PARAMS *")];
  an_params := [Param "hGraphExec" SEND_ONLY [];
                Param "hNode" SEND_ONLY [];
                Param "nodeParams" SEND_ONLY []];
  an_routing := None;
  an_async := false;
  an_owners := [];
  an_deep := [("nodeParams", "paramArray", "count")];
  an_tags := [GraphExecNode "hGraphExec" "hNode"];
  an_client := true;
  an_server := true;
  an_body := false |}.

Definition ann_cuGraphAddMemAllocNode : annotation := {|
  an_function := "cuGraphAddMemAllocNode";
  an_signature := [("phGraphNode", "CUgraphNode *");
                   ("hGraph", "CUgraph");
                   ("dependencies", "const CUgraphNode *");
                   ("numDependencies", "size_t");
                   ("nodeParams", "CUDA_MEM_ALLOC_NODE_PARAMS *")];
  an_params := [Param "phGraphNode" SEND_RECV [];
                Param "hGraph" SEND_ONLY [];
                Param "numDependencies" SEND_ONLY [];
                Param "dependencies" SEND_ONLY [LENGTH "numDependencies"];
                Param "nodeParams" SEND_RECV []];
  an_routing := None;
  an_async := false;
  an_owners := [("GRAPH_NODE", "phGraphNode")];
  an_deep := [("nodeParams", "accessDescs", "accessDescCount")];
  an_tags := [];
  an_client := true;
  an_server := true;
  an_body := true |}.

Definition ann_cuGraphMemAllocNodeGetParams : annotation := {|
  an_function := "cuGraphMemAllocNodeGetParams";
  an_signature := [("hNode", "CUgraphNode"); ("params_out", "CUDA_MEM_ALLOC_NODE_PARAMS *")];
  an_params := [Param "hNode" SEND_ONLY []; Param "params_out" RECV_ONLY []];
  an_routing := None;
  an_async := false;
  an_owners := [];
  an_deep := [("params_out", "accessDescs", "accessDescCount")];
  an_tags := [];
  an_client := true;
  an_server := true;
  an_body := true |}.

Definition ann_cuGraphAddMemFreeNode : annotation := {|
  an_function := "cuGraphAddMemFreeNode";
  an_signature := [("phGraphNode", "CUgraphNode *");
                   ("hGraph", "CUgraph");
                   ("dependencies", "const CUgraphNode *");
                   ("numDependencies", "size_t");
                   ("dptr", "CUdeviceptr")];
  an_params := [Param "phGraphNode" SEND_RECV [];
                Param "hGraph" SEND_ONLY [];
                Param "numDependencies" SEND_ONLY [];
                Param "dependencies" SEND_ONLY [LENGTH "numDependencies"];
                Param "dptr" SEND_ONLY []];
  an_routing := None;
  an_async := false;
  an_owners := [("GRAPH_NODE", "phGraphNode")];
  an_deep := [];
  an_tags := [];
  an_client := true;
  an_server := true;
  an_body := false |}.

Definition ann_cuGraphMemFreeNodeGetParams : annotation := {|
  an_function := "cuGraphMemFreeNodeGetParams";
  an_signature := [("hNode", "CUgraphNode"); ("dptr_out", "CUdeviceptr *")];
  an_params := [Param "hNode" SEND_ONLY []; Param "dptr_out" SEND_RECV []];
  an_routing := None;
  an_async := false;
  an_owners := [];
  an_deep := [];
  an_tags := [];
  an_client := true;
  an_server := true;
  an_body := false |}.

Definition ann_cuDeviceGraphMemTrim : annotation := {|
  an_function := "cuDeviceGraphMemTrim";
  an_signature := [("device", "CUdevice")];
  an_params := [Param "device" SEND_ONLY []];
  an_routing := None;
  an_async := false;
  an_owners := [];
  an_deep := [];
  an_tags := [];
  an_client := true;
  an_server := true;
  an_body := false |}.

Definition ann_cuDeviceGetGraphMemAttribute : annotation := {|
  an_function := "cuDeviceGetGraphMemAttribute";
  an_signature := [("device", "CUdevice");
                   ("attr", "CUgraphMem_attribute");
                   ("value", "void *")];
  an_params := [Param "device" SEND_ONLY []; Param "attr" SEND_ONLY []];
  an_routing := None;
  an_async := false;
  an_owners := [];
  an_deep := [];
  an_tags := [];
  an_client := false;
  an_server := false;
  an_body := false |}.

Definition ann_cuDeviceSetGraphMemAttribute : annotation := {|
  an_function := "cuDeviceSetGraphMemAttribute";
  an_signature := [("device", "CUdevice");
                   ("attr", "CUgraphMem_attribute");
                   ("value", "void *")];
  an_params := [Param "device" SEND_ONLY []; Param "attr" SEND_ONLY []];
  an_routing := None;
  an_async := false;
  an_owners := [];
  an_deep := [];
  an_tags := [];
  an_client := false;
  an_server := false;
  an_body := false |}.

Definition ann_cuGraphClone : annotation := {|
  an_function := "cuGraphClone";
  an_signature := [("phGraphClone", "CUgraph *"); ("originalGraph", "CUgraph")];
  an_params := [Param "phGraphClone" SEND_RECV []; Param "originalGraph" SEND_ONLY []];
  an_routing := None;
  an_async := false;
  an_owners := [("GRAPH", "phGraphClone")];
  an_deep := [];
  an_tags := [];
  an_client := true;
  an_server := false;
  an_body := false |}.

Definition ann_cuGraphNodeFindInClone : annotation := {|
  an_function := "cuGraphNodeFindInClone";
  an_signature := [("phNode", "CUgraphNode *");
                   ("hOriginalNode", "CUgraphNode");
                   ("hClonedGraph", "CUgraph")];
  an_params := [Param "phNode" SEND_RECV [];
                Param "hOriginalNode" SEND_ONLY [];
                Param "hClonedGraph" SEND_ONLY []];
  an_routing := None;
  an_async := false;
  an_owners := [("GRAPH_NODE", "phNode")];
  an_deep := [];
  an_tags := [];
  an_client := true;
  an_server := true;
  an_body := false |}.

Definition ann_cuGraphNodeGetType : annotation := {|
  an_function := "cuGraphNodeGetType";
  an_signature := [("hNode", "CUgraphNode"); ("type", "CUgraphNodeType *")];
  an_params := [Param "hNode" SEND_ONLY []; Param "type" SEND_RECV []];
  an_routing := None;
  an_async := false;
  an_owners := [];
  an_deep := [];
  an_tags := [];
  an_client := true;
  an_server := true;
  an_body := false |}.

Definition ann_cuGraphNodeGetContainingGraph : annotation := {|
  an_function := "cuGraphNodeGetContainingGraph";
  an_signature := [("hNode", "CUgraphNode"); ("phGraph", "CUgraph *")];
  an_params := [Param "hNode" SEND_ONLY []; Param "phGraph" RECV_ONLY []];
  an_routing := None;
  an_async := false;
  an_owners := [("GRAPH", "phGraph")];
  an_deep := [];
  an_tags := [];
  an_client := true;
  an_server := true;
  an_body := false |}.

Definition ann_cuGraphNodeGetLocalId : annotation := {|
  an_function := "cuGraphNodeGetLocalId";
  an_signature := [("hNode", "CUgraphNode"); ("nodeId", "unsigned int *")];
  an_params := [Param "hNode" SEND_ONLY []; Param "nodeId" RECV_ONLY []];
  an_routing := None;
  an_async := false;
  an_owners := [];
  an_deep := [];
  an_tags := [];
  an_client := true;
  an_server := true;
  an_body := false |}.

Definition ann_cuGraphNodeGetToolsId : annotation := {|
  an_function := "cuGraphNodeGetToolsId";
  an_signature := [("hNode", "CUgraphNode"); ("toolsNodeId", "unsigned long long *")];
  an_params := [Param "hNode" SEND_ONLY []; Param "toolsNodeId" RECV_ONLY []];
  an_routing := None;
  an_async := false;
  an_owners := [];
  an_deep := [];
  an_tags := [];
  an_client := true;
  an_server := true;
  an_body := false |}.

Definition ann_cuGraphGetId : annotation := {|
  an_function := "cuGraphGetId";
  an_signature := [("hGraph", "CUgraph"); ("graphId", "unsigned int *")];
  an_params := [Param "hGraph" SEND_ONLY []; Param "graphId" RECV_ONLY []];
  an_routing := None;
  an_async := false;
  an_owners := [];
  an_deep := [];
  an_tags := [];
  an_client := true;
  an_server := true;
  an_body := false |}.

Definition ann_cuGraphExecGetId : annotation := {|
  an_function := "cuGraphExecGetId";
  an_signature := [("hGraphExec", "CUgraphExec"); ("graphId", "unsigned int *")];
  an_params := [Param "hGraphExec" SEND_ONLY []; Param "graphId" RECV_ONLY []];
  an_routing := None;
  an_async := false;
  an_owners := [];
  an_deep := [];
  an_tags := [];
  an_client := true;
  an_server := true;
  an_body := false |}.

Definition ann_cuGraphGetNodes : annotation := {|
  an_function := "cuGraphGetNodes";
  an_signature := [("hGraph", "CUgraph");
                   ("nodes", "CUgraphNode *");
                   ("numNodes", "size_t *")];
  an_params := [Param "hGraph" SEND_ONLY [];
                Param "numNodes" SEND_RECV [];
                Param "nodes" RECV_ONLY [NULLABLE; LENGTH "numNodes"]];
  an_routing := None;
  an_async := false;
  an_owners := [];
  an_deep := [];
  an_tags := [];
  an_client := true;
  an_server := true;
  an_body := false |}.

Definition ann_cuGraphGetRootNodes : annotation := {|
  an_function := "cuGraphGetRootNodes";
  an_signature := [("hGraph", "CUgraph");
                   ("rootNodes", "CUgraphNode *");
                   ("numRootNodes", "size_t *")];
  an_params := [Param "hGraph" SEND_ONLY [];
                Param "numRootNodes" SEND_RECV [];
                Param "rootNodes" RECV_ONLY [NULLABLE; LENGTH "numRootNodes"]];
  an_routing := None;
  an_async := false;
  an_owners := [];
  an_deep := [];
  an_tags := [];
  an_client := true;
  an_server := true;
  an_body := false |}.

Definition ann_cuGraphGetEdges : annotation := {|
  an_function := "cuGraphGetEdges";
  an_signature := [("hGraph", "CUgraph");
                   ("from", "CUgraphNode *");
                   ("to", "CUgraphNode *");
                   ("edgeData", "CUgraphEdgeData *");
                   ("numEdges", "size_t *")];
  an_params := [Param "hGraph" SEND_ONLY [];
                Param "numEdges" SEND_RECV [];
                Param "from" RECV_ONLY [NULLABLE; LENGTH "numEdges"];
                Param "to" RECV_ONLY [NULLABLE; LENGTH "numEdges"];
                Param "edgeData" RECV_ONLY [NULLABLE; LENGTH "numEdges"]];
  an_routing := None;
  an_async := false;
  an_owners := [];
  an_deep := [];
  an_tags := [];
  an_client := true;
  an_server := true;
  an_body := false |}.

Definition ann_cuGraphNodeGetDependencies : annotation := {|
  an_function := "cuGraphNodeGetDependencies";
  an_signature := [("hNode", "CUgraphNode");
                   ("dependencies", "CUgraphNode *");
                   ("edgeData", "CUgraphEdgeData *");
                   ("numDependencies", "size_t *")];
  an_params := [Param "hNode" SEND_ONLY [];
                Param "numDependencies" SEND_RECV [];
                Param "dependencies" RECV_ONLY [NULLABLE; LENGTH "numDependencies"];
                Param "edgeData" RECV_ONLY [NULLABLE; LENGTH "numDependencies"]];
  an_routing := None;
  an_async := false;
  an_owners := [];
  an_deep := [];
  an_tags := [];
  an_client := true;
  an_server := true;
  an_body := false |}.

Definition ann_cuGraphNodeGetDependentNodes : annotation := {|
  an_function := "cuGraphNodeGetDependentNodes";
  an_signature := [("hNode", "CUgraphNode");
                   ("dependentNodes", "CUgraphNode *");
                   ("edgeData", "CUgraphEdgeData *");
                   ("numDependentNodes", "size_t *")];
  an_params := [Param "hNode" SEND_ONLY [];
                Param "numDependentNodes" SEND_RECV [];
                Param "dependentNodes" RECV_ONLY [NULLABLE; LENGTH "numDependentNodes"];
                Param "edgeData" RECV_ONLY [NULLABLE; LENGTH "numDependentNodes"]];
  an_routing := None;
  an_async := false;
  an_owners := [];
  an_deep := [];
  an_tags := [];
  an_client := true;
  an_server := true;
  an_body := false |}.

Definition ann_cuGraphAddDependencies : annotation := {|
  an_function := "cuGraphAddDependencies";
  an_signature := [("hGraph", "CUgraph");
                   ("from", "const CUgraphNode *");
                   ("to", "const CUgraphNode *");
                   ("numDependencies", "size_t")];
  an_params := [Param "hGraph" SEND_ONLY [];
                Param "numDependencies" SEND_ONLY [];
                Param "from" SEND_ONLY [LENGTH "numDependencies"];
                Param "to" SEND_ONLY [LENGTH "numDependencies"]];
  an_routing := None;
  an_async := false;
  an_owners := [];
  an_deep := [];
  an_tags := [];
  an_client := true;
  an_server := true;
  an_body := false |}.

Definition ann_cuGraphRemoveDependencies : annotation := {|
  an_function := "cuGraphRemoveDependencies";
  an_signature := [("hGraph", "CUgraph");
                   ("from", "const CUgraphNode *");
                   ("to", "const CUgraphNode *");
                   ("numDependencies", "size_t")];
  an_params := [Param "hGraph" SEND_ONLY [];
                Param "numDependencies" SEND_ONLY [];
                Param "from" SEND_ONLY [LENGTH "numDependencies"];
                Param "to" SEND_ONLY [LENGTH "numDependencies"]];
  an_routing := None;
  an_async := false;
  an_owners := [];
  an_deep := [];
  an_tags := [];
  an_client := true;
  an_server := true;
  an_body := false |}.

Definition ann_cuGraphDestroyNode : annotation := {|
  an_function := "cuGraphDestroyNode";
  an_signature := [("hNode", "CUgraphNode")];
  an_params := [Param "hNode" SEND_ONLY []];
  an_routing := None;
  an_async := false;
  an_owners := [];
  an_deep := [];
  an_tags := [];
  an_client := true;
  an_server := true;
  an_body := true |}.

Definition ann_cuGraphInstantiate_v2 : annotation := {|
  an_function := "cuGraphInstantiate_v2";
  an_signature := [("phGraphExec", "CUgraphExec *");
                   ("hGraph", "CUgraph");
                   ("phErrorNode", "CUgraphNode *");
                   ("logBuffer", "char *");
                   ("bufferSize", "size_t")];
  an_params := [Param "phGraphExec" RECV_ONLY [];
                Param "hGraph" SEND_ONLY [];
                Param "phErrorNode" RECV_ONLY [NULLABLE];
                Param "bufferSize" SEND_ONLY [];
                Param "logBuffer" RECV_ONLY [NULLABLE; LENGTH "bufferSize"; ON_ERROR]];
  an_routing := None;
  an_async := false;
  an_owners := [("GRAPH_EXEC", "phGraphExec")];
  an_deep := [];
  an_tags := [];
  an_client := true;
  an_server := false;
  an_body := false |}.

Definition ann_cuGraphInstantiateWithFlags : annotation := {|
  an_function := "cuGraphInstantiateWithFlags";
  an_signature := [("phGraphExec", "CUgraphExec *");
                   ("hGraph", "CUgraph");
                   ("flags", "unsigned long long")];
  an_params := [Param "phGraphExec" SEND_RECV [];
                Param "hGraph" SEND_ONLY [];
                Param "flags" SEND_ONLY []];
  an_routing := None;
  an_async := false;
  an_owners := [("GRAPH_EXEC", "phGraphExec")];
  an_deep := [];
  an_tags := [];
  an_client := true;
  an_server := false;
  an_body := false |}.

Definition ann_cuGraphInstantiateWithParams : annotation := {|
  an_function := "cuGraphInstantiateWithParams";
  an_signature := [("phGraphExec", "CUgraphExec *");
                   ("hGraph", "CUgraph");
                   ("instantiateParams", "CUDA_GRAPH_INSTANTIATE_PARAMS *")];
  an_params := [Param "phGraphExec" SEND_RECV [];
                Param "hGraph" SEND_ONLY [];
                Param "instantiateParams" SEND_RECV []];
  an_routing := None;
  an_async := false;
  an_owners := [("GRAPH_EXEC", "phGraphExec")];
  an_deep := [];
  an_tags := [];
  an_client := true;
  an_server := false;
  an_body := false |}.

Definition ann_cuGraphExecGetFlags : annotation := {|
  an_function := "cuGraphExecGetFlags";
  an_signature := [("hGraphExec", "CUgraphExec"); ("flags", "cuuint64_t *")];
  an_params := [Param "hGraphExec" SEND_ONLY []; Param "flags" SEND_RECV []];
  an_routing := None;
  an_async := false;
  an_owners := [];
  an_deep := [];
  an_tags := [];
  an_client := true;
  an_server := true;
  an_body := false |}.

Definition ann_cuGraphNodeSetParams : annotation := {|
  an_function := "cuGraphNodeSetParams";
  an_signature := [("hNode", "CUgraphNode"); ("nodeParams", "CUgraphNodeParams *")];
  an_params := [Param "hNode" SEND_ONLY []; Param "nodeParams" SEND_ONLY [DEREF]];
  an_routing := None;
  an_async := false;
  an_owners := [];
  an_deep := [];
  an_tags := [];
  an_client := true;
  an_server := true;
  an_body := false |}.

Definition ann_cuGraphExecNodeSetParams : annotation := {|
  an_function := "cuGraphExecNodeSetParams";
  an_signature := [("hGraphExec", "CUgraphExec");
                   ("hNode", "CUgraphNode");
                   ("nodeParams", "CUgraphNodeParams *")];
  an_params := [Param "hGraphExec" SEND_ONLY [];
                Param "hNode" SEND_ONLY [];
                Param "nodeParams" SEND_ONLY [DEREF]];
  an_routing := None;
  an_async := false;
  an_owners := [];
  an_deep := [];
  an_tags := [];
  an_client := true;
  an_server := true;
  an_body := false |}.

Definition ann_cuGraphExecKernelNodeSetParams_v2 : annotation := {|
  an_function := "cuGraphExecKernelNodeSetParams_v2";
  an_signature := [("hGraphExec", "CUgraphExec");
                   ("hNode", "CUgraphNode");
                   ("nodeParams", "const CUDA_KERNEL_NODE_PARAMS *")];
  an_params := [Param "hGraphExec" SEND_ONLY [];
                Param "hNode" SEND_ONLY [];
                Param "nodeParams" SEND_ONLY [DEREF]];
  an_routing := None;
  an_async := false;
  an_owners := [];
  an_deep := [];
  an_tags := [];
  an_client := false;
  an_server := false;
  an_body := false |}.

Definition ann_cuGraphExecMemcpyNodeSetParams : annotation := {|
  an_function := "cuGraphExecMemcpyNodeSetParams";
  an_signature := [("hGraphExec", "CUgraphExec");
                   ("hNode", "CUgraphNode");
                   ("copyParams", "const CUDA_MEMCPY3D *");
                   ("ctx", "CUcontext")];
  an_params := [Param "hGraphExec" SEND_ONLY [];
                Param "hNode" SEND_ONLY [];
                Param "copyParams" SEND_ONLY [DEREF];
                Param "ctx" SEND_ONLY []];
  an_routing := None;
  an_async := false;
  an_owners := [];
  an_deep := [];
  an_tags := [GraphExecNode "hGraphExec" "hNode"];
  an_client := true;
  an_server := true;
  an_body := false |}.

Definition ann_cuGraphExecMemsetNodeSetParams : annotation := {|
  an_function := "cuGraphExecMemsetNodeSetParams";
  an_signature := [("hGraphExec", "CUgraphExec");
                   ("hNode", "CUgraphNode");
                   ("memsetParams", "const CUDA_MEMSET_NODE_PARAMS *");
                   ("ctx", "CUcontext")];
  an_params := [Param "hGraphExec" SEND_ONLY [];
                Param "hNode" SEND_ONLY [];
                Param "memsetParams" SEND_ONLY [DEREF];
                Param "ctx" SEND_ONLY []];
  an_routing := None;
  an_async := false;
  an_owners := [];
  an_deep := [];
  an_tags := [GraphExecNode "hGraphExec" "hNode"];
  an_client := true;
  an_server := true;
  an_body := false |}.

Definition ann_cuGraphExecHostNodeSetParams : annotation := {|
  an_function := "cuGraphExecHostNodeSetParams";
  an_signature := [("hGraphExec", "CUgraphExec");
                   ("hNode", "CUgraphNode");
                   ("nodeParams", "const CUDA_HOST_NODE_PARAMS *")];
  an_params := [Param "hGraphExec" SEND_ONLY [];
                Param "hNode" SEND_ONLY [];
                Param "nodeParams" SEND_ONLY [DEREF]];
  an_routing := None;
  an_async := false;
  an_owners := [];
  an_deep := [];
  an_tags := [];
  an_client := false;
  an_server := false;
  an_body := false |}.

Definition ann_cuGraphExecChildGraphNodeSetParams : annotation := {|
  an_function := "cuGraphExecChildGraphNodeSetParams";
  an_signature := [("hGraphExec", "CUgraphExec");
                   ("hNode", "CUgraphNode");
                   ("childGraph", "CUgraph")];
  an_params := [Param "hGraphExec" SEND_ONLY [];
                Param "hNode" SEND_ONLY [];
                Param "childGraph" SEND_ONLY []];
  an_routing := None;
  an_async := false;
  an_owners := [];
  an_deep := [];
  an_tags := [GraphExecNode "hGraphExec" "hNode"];
  an_client := true;
  an_server := true;
  an_body := false |}.

Definition ann_cuGraphExecEventRecordNodeSetEvent : annotation := {|
  an_function := "cuGraphExecEventRecordNodeSetEvent";
  an_signature := [("hGraphExec", "CUgraphExec");
                   ("hNode", "CUgraphNode");
                   ("event", "CUevent")];
  an_params := [Param "hGraphExec" SEND_ONLY [];
                Param "hNode" SEND_ONLY [];
                Param "event" SEND_ONLY []];
  an_routing := None;
  an_async := false;
  an_owners := [];
  an_deep := [];
  an_tags := [GraphExecNode "hGraphExec" "hNode"];
  an_client := true;
  an_server := true;
  an_body := false |}.

Definition ann_cuGraphExecEventWaitNodeSetEvent : annotation := {|
  an_function := "cuGraphExecEventWaitNodeSetEvent";
  an_signature := [("hGraphExec", "CUgraphExec");
                   ("hNode", "CUgraphNode");
                   ("event", "CUevent")];
  an_params := [Param "hGraphExec" SEND_ONLY [];
                Param "hNode" SEND_ONLY [];
                Param "event" SEND_ONLY []];
  an_routing := None;
  an_async := false;
  an_owners := [];
  an_deep := [];
  an_tags := [GraphExecNode "hGraphExec" "hNode"];
  an_client := true;
  an_server := true;
  an_body := false |}.

Definition ann_cuGraphExecExternalSemaphoresSignalNodeSetParams : annotation := {|
  an_function := "cuGraphExecExternalSemaphoresSignalNodeSetParams";
  an_signature := [("hGraphExec", "CUgraphExec");
                   ("hNode", "CUgraphNode");
                   ("nodeParams", "const CUDA_EXT_SEM_SIGNAL_NODE_PARAMS *")];
  an_params := [Param "hGraphExec" SEND_ONLY [];
                Param "hNode" SEND_ONLY [];
                Param "nodeParams" SEND_ONLY []];
  an_routing := None;
  an_async := false;
  an_owners := [];
  an_deep := [("nodeParams", "extSemArray", "numExtSems");
              ("nodeParams", "paramsArray", "numExtSems")];
  an_tags := [GraphExecNode "hGraphExec" "hNode"];
  an_client := true;
  an_server := true;
  an_body := false |}.

Definition ann_cuGraphExecExternalSemaphoresWaitNodeSetParams : annotation := {|
  an_function := "cuGraphExecExternalSemaphoresWaitNodeSetParams";
  an_signature := [("hGraphExec", "CUgraphExec");
                   ("hNode", "CUgraphNode");
                   ("nodeParams", "const CUDA_EXT_SEM_WAIT_NODE_PARAMS *")];
  an_params := [Param "hGraphExec" SEND_ONLY [];
                Param "hNode" SEND_ONLY [];
                Param "nodeParams" SEND_ONLY []];
  an_routing := None;
  an_async := false;
  an_owners := [];
  an_deep := [("nodeParams", "extSemArray", "numExtSems");
              ("nodeParams", "paramsArray", "numExtSems")];
  an_tags := [GraphExecNode "hGraphExec" "hNode"];
  an_client := true;
  an_server := true;
  an_body := false |}.

Definition ann_cuGraphNodeSetEnabled : annotation := {|
  an_function := "cuGraphNodeSetEnabled";
  an_signature := [("hGraphExec", "CUgraphExec");
                   ("hNode", "CUgraphNode");
                   ("isEnabled", "unsigned int")];
  an_params := [Param "hGraphExec" SEND_ONLY [];
                Param "hNode" SEND_ONLY [];
                Param "isEnabled" SEND_ONLY []];
  an_routing := None;
  an_async := false;
  an_owners := [];
  an_deep := [];
  an_tags := [GraphExecNode "hGraphExec" "hNode"];
  an_client := true;
  an_server := true;
  an_body := false |}.

Definition ann_cuGraphNodeGetEnabled : annotation := {|
  an_function := "cuGraphNodeGetEnabled";
  an_signature := [("hGraphExec", "CUgraphExec");
                   ("hNode", "CUgraphNode");
                   ("isEnabled", "unsigned int *")];
  an_params := [Param "hGraphExec" SEND_ONLY [];
                Param "hNode" SEND_ONLY [];
                Param "isEnabled" SEND_RECV []];
  an_routing := None;
  an_async := false;
  an_owners := [];
  an_deep := [];
  an_tags := [GraphExecNode "hGraphExec" "hNode"];
  an_client := true;
  an_server := true;
  an_body := false |}.

Definition ann_cuGraphUpload : annotation := {|
  an_function := "cuGraphUpload";
  an_signature := [("hGraphExec", "CUgraphExec"); ("hStream", "CUstream")];
  an_params := [Param "hGraphExec" SEND_ONLY []; Param "hStream" SEND_ONLY []];
  an_routing := None;
  an_async := false;
  an_owners := [];
  an_deep := [];
  an_tags := [];
  an_client := true;
  an_server := true;
  an_body := false |}.

Definition ann_cuGraphLaunch : annotation := {|
  an_function := "cuGraphLaunch";
  an_signature := [("hGraphExec", "CUgraphExec"); ("hStream", "CUstream")];
  an_params := [Param "hGraphExec" SEND_ONLY []; Param "hStream" SEND_ONLY []];
  an_routing := None;
  an_async := true;
  an_owners := [];
  an_deep := [];
  an_tags := [];
  an_client := true;
  an_server := false;
  an_body := false |}.

Definition ann_cuGraphExecDestroy : annotation := {|
  an_function := "cuGraphExecDestroy";
  an_signature := [("hGraphExec", "CUgraphExec")];
  an_params := [Param "hGraphExec" SEND_ONLY []];
  an_routing := None;
  an_async := false;
  an_owners := [];
  an_deep := [];
  an_tags := [];
  an_client := true;
  an_server := false;
  an_body := false |}.

Definition ann_cuGraphDestroy : annotation := {|
  an_function := "cuGraphDestroy";
  an_signature := [("hGraph", "CUgraph")];
  an_params := [Param "hGraph" SEND_ONLY []];
  an_routing := None;
  an_async := false;
  an_owners := [];
  an_deep := [];
  an_tags := [];
  an_client := true;
  an_server := false;
  an_body := true |}.

Definition ann_cuGraphExecUpdate : annotation := {|
  an_function := "cuGraphExecUpdate";
  an_signature := [("hGraphExec", "CUgraphExec");
                   ("hGraph", "CUgraph");
                   ("hErrorNode_out", "CUgraphNode *");
                   ("updateResult_out", "CUgraphExecUpdateResult *")];
  an_params := [Param "hGraphExec" SEND_ONLY [];
                Param "hGraph" SEND_ONLY [];
                Param "hErrorNode_out" RECV_ONLY [NULLABLE];
                Param "updateResult_out" RECV_ONLY [NULLABLE]];
  an_routing := None;
  an_async := false;
  an_owners := [];
  an_deep := [];
  an_tags := [GraphExecUpdate "hGraphExec" "hGraph" "hErrorNode_out"];
  an_client := true;
  an_server := true;
  an_body := false |}.

Definition ann_cuGraphExecUpdate_v2 : annotation := {|
  an_function := "cuGraphExecUpdate_v2";
  an_signature := [("hGraphExec", "CUgraphExec");
                   ("hGraph", "CUgraph");
                   ("resultInfo", "CUgraphExecUpdateResultInfo *")];
  an_params := [Param "hGraphExec" SEND_ONLY [];
                Param "hGraph" SEND_ONLY [];
                Param "resultInfo" SEND_RECV []];
  an_routing := None;
  an_async := false;
  an_owners := [];
  an_deep := [];
  an_tags := [GraphExecUpdate "hGraphExec" "hGraph" "resultInfo"];
  an_client := true;
  an_server := true;
  an_body := false |}.

Definition ann_cuGraphKernelNodeCopyAttributes : annotation := {|
  an_function := "cuGraphKernelNodeCopyAttributes";
  an_signature := [("dst", "CUgraphNode"); ("src", "CUgraphNode")];
  an_params := [Param "dst" SEND_ONLY []; Param "src" SEND_ONLY []];
  an_routing := None;
  an_async := false;
  an_owners := [];
  an_deep := [];
  an_tags := [];
  an_client := true;
  an_server := true;
  an_body := false |}.

Definition ann_cuGraphKernelNodeGetAttribute : annotation := {|
  an_function := "cuGraphKernelNodeGetAttribute";
  an_signature := [("hNode", "CUgraphNode");
                   ("attr", "CUkernelNodeAttrID");
                   ("value_out", "CUkernelNodeAttrValue *")];
  an_params := [Param "hNode" SEND_ONLY [];
                Param "attr" SEND_ONLY [];
                Param "value_out" SEND_RECV []];
  an_routing := None;
  an_async := false;
  an_owners := [];
  an_deep := [];
  an_tags := [];
  an_client := true;
  an_server := true;
  an_body := false |}.

Definition ann_cuGraphKernelNodeSetAttribute : annotation := {|
  an_function := "cuGraphKernelNodeSetAttribute";
  an_signature := [("hNode", "CUgraphNode");
                   ("attr", "CUkernelNodeAttrID");
                   ("value", "const CUkernelNodeAttrValue *")];
  an_params := [Param "hNode" SEND_ONLY [];
                Param "attr" SEND_ONLY [];
                Param "value" SEND_ONLY [DEREF]];
  an_routing := None;
  an_async := false;
  an_owners := [];
  an_deep := [];
  an_tags := [];
  an_client := true;
  an_server := true;
  an_body := false |}.

Definition ann_cuGraphDebugDotPrint : annotation := {|
  an_function := "cuGraphDebugDotPrint";
  an_signature := [("hGraph", "CUgraph");
                   ("path", "const char *");
                   ("flags", "unsigned int")];
  an_params := [Param "hGraph" SEND_ONLY [];
                Param "path" SEND_ONLY [NULL_TERMINATED];
                Param "flags" SEND_ONLY []];
  an_routing := None;
  an_async := false;
  an_owners := [];
  an_deep := [];
  an_tags := [];
  an_client := true;
  an_server := true;
  an_body := false |}.

Definition ann_cuUserObjectRetain : annotation := {|
  an_function := "cuUserObjectRetain";
  an_signature := [("object", "CUuserObject"); ("count", "unsigned int")];
  an_params := [Param "object" SEND_ONLY []; Param "count" SEND_ONLY []];
  an_routing := None;
  an_async := false;
  an_owners := [];
  an_deep := [];
  an_tags := [];
  an_client := true;
  an_server := true;
  an_body := false |}.

Definition ann_cuUserObjectRelease : annotation := {|
  an_function := "cuUserObjectRelease";
  an_signature := [("object", "CUuserObject"); ("count", "unsigned int")];
  an_params := [Param "object" SEND_ONLY []; Param "count" SEND_ONLY []];
  an_routing := None;
  an_async := false;
  an_owners := [];
  an_deep := [];
  an_tags := [];
  an_client := true;
  an_server := true;
  an_body := false |}.

Definition ann_cuGraphRetainUserObject : annotation := {|
  an_function := "cuGraphRetainUserObject";
  an_signature := [("graph", "CUgraph");
                   ("object", "CUuserObject");
                   ("count", "unsigned int");
                   ("flags", "unsigned int")];
  an_params := [Param "graph" SEND_ONLY [];
                Param "object" SEND_ONLY [];
                Param "count" SEND_ONLY [];
                Param "flags" SEND_ONLY []];
  an_routing := None;
  an_async := false;
  an_owners := [];
  an_deep := [];
  an_tags := [];
  an_client := true;
  an_server := true;
  an_body := false |}.

Definition ann_cuGraphReleaseUserObject : annotation := {|
  an_function := "cuGraphReleaseUserObject";
  an_signature := [("graph", "CUgraph");
                   ("object", "CUuserObject");
                   ("count", "unsigned int")];
  an_params := [Param "graph" SEND_ONLY [];
                Param "object" SEND_ONLY [];
                Param "count" SEND_ONLY []];
  an_routing := None;
  an_async := false;
  an_owners := [];
  an_deep := [];
  an_tags := [];
  an_client := true;
  an_server := true;
  an_body := false |}.

Definition ann_cuOccupancyMaxActiveBlocksPerMultiprocessor : annotation := {|
  an_function := "cuOccupancyMaxActiveBlocksPerMultiprocessor";
  an_signature := [("numBlocks", "int *");
                   ("func", "CUfunction");
                   ("blockSize", "int");
                   ("dynamicSMemSize", "size_t")];
  an_params := [Param "numBlocks" SEND_RECV [];
                Param "func" SEND_ONLY [];
                Param "blockSize" SEND_ONLY [];
                Param "dynamicSMemSize" SEND_ONLY []];
  an_routing := None;
  an_async := false;
  an_owners := [];
  an_deep := [];
  an_tags := [];
  an_client := false;
  an_server := true;
  an_body := false |}.

Definition ann_cuOccupancyMaxActiveBlocksPerMultiprocessorWithFlags : annotation := {|
  an_function := "cuOccupancyMaxActiveBlocksPerMultiprocessorWithFlags";
  an_signature := [("numBlocks", "int *");
                   ("func", "CUfunction");
                   ("blockSize", "int");
                   ("dynamicSMemSize", "size_t");
                   ("flags", "unsigned int")];
  an_params := [Param "numBlocks" SEND_RECV [];
                Param "func" SEND_ONLY [];
                Param "blockSize" SEND_ONLY [];
                Param "dynamicSMemSize" SEND_ONLY [];
                Param "flags" SEND_ONLY []];
  an_routing := None;
  an_async := false;
  an_owners := [];
  an_deep := [];
  an_tags := [];
  an_client := false;
  an_server := true;
  an_body := false |}.

Definition ann_cuOccupancyMaxPotentialBlockSize : annotation := {|
  an_function := "cuOccupancyMaxPotentialBlockSize";
  an_signature := [("minGridSize", "int *");
                   ("blockSize", "int *");
                   ("func", "CUfunction");
                   ("blockSizeToDynamicSMemSize", "CUoccupancyB2DSize");
                   ("dynamicSMemSize", "size_t");
                   ("blockSizeLimit", "int")];
  an_params := [Param "minGridSize" SEND_RECV [];
                Param "blockSize" SEND_RECV [];
                Param "func" SEND_ONLY [];
                Param "blockSizeToDynamicSMemSize" SEND_ONLY [];
                Param "dynamicSMemSize" SEND_ONLY [];
                Param "blockSizeLimit" SEND_ONLY []];
  an_routing := None;
  an_async := false;
  an_owners := [];
  an_deep := [];
  an_tags := [];
  an_client := false;
  an_server := false;
  an_body := false |}.

Definition ann_cuOccupancyMaxPotentialBlockSizeWithFlags : annotation := {|
  an_function := "cuOccupancyMaxPotentialBlockSizeWithFlags";
  an_signature := [("minGridSize", "int *");
                   ("blockSize", "int *");
                   ("func", "CUfunction");
                   ("blockSizeToDynamicSMemSize", "CUoccupancyB2DSize");
                   ("dynamicSMemSize", "size_t");
                   ("blockSizeLimit", "int");
                   ("flags", "unsigned int")];
  an_params := [Param "minGridSize" SEND_RECV [];
                Param "blockSize" SEND_RECV [];
                Param "func" SEND_ONLY [];
                Param "blockSizeToDynamicSMemSize" SEND_ONLY [];
                Param "dynamicSMemSize" SEND_ONLY [];
                Param "blockSizeLimit" SEND_ONLY [];
                Param "flags" SEND_ONLY []];
  an_routing := None;
  an_async := false;
  an_owners := [];
  an_deep := [];
  an_tags := [];
  an_client := false;
  an_server := false;
  an_body := false |}.

Definition ann_cuOccupancyAvailableDynamicSMemPerBlock : annotation := {|
  an_function := "cuOccupancyAvailableDynamicSMemPerBlock";
  an_signature := [("dynamicSmemSize", "size_t *");
                   ("func", "CUfunction");
                   ("numBlocks", "int");
                   ("blockSize", "int")];
  an_params := [Param "dynamicSmemSize" SEND_RECV [];
                Param "func" SEND_ONLY [];
                Param "numBlocks" SEND_ONLY [];
                Param "blockSize" SEND_ONLY []];
  an_routing := None;
  an_async := false;
  an_owners := [];
  an_deep := [];
  an_tags := [];
  an_client := true;
  an_server := true;
  an_body := false |}.

Definition ann_cuOccupancyMaxPotentialClusterSize : annotation := {|
  an_function := "cuOccupancyMaxPotentialClusterSize";
  an_signature := [("clusterSize", "int *");
                   ("func", "CUfunction");
                   ("config", "const CUlaunchConfig *")];
  an_params := [Param "clusterSize" SEND_RECV [];
                Param "func" SEND_ONLY [];
                Param "config" SEND_ONLY []];
  an_routing := None;
  an_async := false;
  an_owners := [];
  an_deep := [("config", "attrs", "numAttrs")];
  an_tags := [];
  an_client := true;
  an_server := true;
  an_body := false |}.

Definition ann_cuOccupancyMaxActiveClusters : annotation := {|
  an_function := "cuOccupancyMaxActiveClusters";
  an_signature := [("numClusters", "int *");
                   ("func", "CUfunction");
                   ("config", "const CUlaunchConfig *")];
  an_params := [Param "numClusters" SEND_RECV [];
                Param "func" SEND_ONLY [];
                Param "config" SEND_ONLY []];
  an_routing := None;
  an_async := false;
  an_owners := [];
  an_deep := [("config", "attrs", "numAttrs")];
  an_tags := [];
  an_client := true;
  an_server := true;
  an_body := false |}.

Definition ann_cuTexRefSetArray : annotation := {|
  an_function := "cuTexRefSetArray";
  an_signature := [("hTexRef", "CUtexref");
                   ("hArray", "CUarray");
                   ("Flags", "unsigned int")];
  an_params := [Param "hTexRef" SEND_ONLY [];
                Param "hArray" SEND_ONLY [];
                Param "Flags" SEND_ONLY []];
  an_routing := None;
  an_async := false;
  an_owners := [];
  an_deep := [];
  an_tags := [];
  an_client := true;
  an_server := true;
  an_body := false |}.

Definition ann_cuTexRefSetMipmappedArray : annotation := {|
  an_function := "cuTexRefSetMipmappedArray";
  an_signature := [("hTexRef", "CUtexref");
                   ("hMipmappedArray", "CUmipmappedArray");
                   ("Flags", "unsigned int")];
  an_params := [Param "hTexRef" SEND_ONLY [];
                Param "hMipmappedArray" SEND_ONLY [];
                Param "Flags" SEND_ONLY []];
  an_routing := None;
  an_async := false;
  an_owners := [];
  an_deep := [];
  an_tags := [];
  an_client := true;
  an_server := true;
  an_body := false |}.

Definition ann_cuTexRefSetAddress_v2 : annotation := {|
  an_function := "cuTexRefSetAddress_v2";
  an_signature := [("ByteOffset", "size_t *");
                   ("hTexRef", "CUtexref");
                   ("dptr", "CUdeviceptr");
                   ("bytes", "size_t")];
  an_params := [Param "ByteOffset" SEND_RECV [];
                Param "hTexRef" SEND_ONLY [];
                Param "dptr" SEND_ONLY [];
                Param "bytes" SEND_ONLY []];
  an_routing := None;
  an_async := false;
  an_owners := [];
  an_deep := [];
  an_tags := [];
  an_client := true;
  an_server := true;
  an_body := false |}.

Definition ann_cuTexRefSetAddress2D_v3 : annotation := {|
  an_function := "cuTexRefSetAddress2D_v3";
  an_signature := [("hTexRef", "CUtexref");
                   ("desc", "const CUDA_ARRAY_DESCRIPTOR *");
                   ("dptr", "CUdeviceptr");
                   ("Pitch", "size_t")];
  an_params := [Param "hTexRef" SEND_ONLY [];
                Param "desc" SEND_ONLY [DEREF];
                Param "dptr" SEND_ONLY [];
                Param "Pitch" SEND_ONLY []];
  an_routing := None;
  an_async := false;
  an_owners := [];
  an_deep := [];
  an_tags := [];
  an_client := true;
  an_server := true;
  an_body := false |}.

Definition ann_cuTexRefSetFormat : annotation := {|
  an_function := "cuTexRefSetFormat";
  an_signature := [("hTexRef", "CUtexref");
                   ("fmt", "CUarray_format");
                   ("NumPackedComponents", "int")];
  an_params := [Param "hTexRef" SEND_ONLY [];
                Param "fmt" SEND_ONLY [];
                Param "NumPackedComponents" SEND_ONLY []];
  an_routing := None;
  an_async := false;
  an_owners := [];
  an_deep := [];
  an_tags := [];
  an_client := true;
  an_server := true;
  an_body := false |}.

Definition ann_cuTexRefSetAddressMode : annotation := {|
  an_function := "cuTexRefSetAddressMode";
  an_signature := [("hTexRef", "CUtexref"); ("dim", "int"); ("am", "CUaddress_mode")];
  an_params := [Param "hTexRef" SEND_ONLY [];
                Param "dim" SEND_ONLY [];
                Param "am" SEND_ONLY []];
  an_routing := None;
  an_async := false;
  an_owners := [];
  an_deep := [];
  an_tags := [];
  an_client := true;
  an_server := true;
  an_body := false |}.

Definition ann_cuTexRefSetFilterMode : annotation := {|
  an_function := "cuTexRefSetFilterMode";
  an_signature := [("hTexRef", "CUtexref"); ("fm", "CUfilter_mode")];
  an_params := [Param "hTexRef" SEND_ONLY []; Param "fm" SEND_ONLY []];
  an_routing := None;
  an_async := false;
  an_owners := [];
  an_deep := [];
  an_tags := [];
  an_client := true;
  an_server := true;
  an_body := false |}.

Definition ann_cuTexRefSetMipmapFilterMode : annotation := {|
  an_function := "cuTexRefSetMipmapFilterMode";
  an_signature := [("hTexRef", "CUtexref"); ("fm", "CUfilter_mode")];
  an_params := [Param "hTexRef" SEND_ONLY []; Param "fm" SEND_ONLY []];
  an_routing := None;
  an_async := false;
  an_owners := [];
  an_deep := [];
  an_tags := [];
  an_client := true;
  an_server := true;
  an_body := false |}.

Definition ann_cuTexRefSetMipmapLevelBias : annotation := {|
  an_function := "cuTexRefSetMipmapLevelBias";
  an_signature := [("hTexRef", "CUtexref"); ("bias", "float")];
  an_params := [Param "hTexRef" SEND_ONLY []; Param "bias" SEND_ONLY []];
  an_routing := None;
  an_async := false;
  an_owners := [];
  an_deep := [];
  an_tags := [];
  an_client := true;
  an_server := true;
  an_body := false |}.

Definition ann_cuTexRefSetMipmapLevelClamp : annotation := {|
  an_function := "cuTexRefSetMipmapLevelClamp";
  an_signature := [("hTexRef", "CUtexref");
                   ("minMipmapLevelClamp", "float");
                   ("maxMipmapLevelClamp", "float")];
  an_params := [Param "hTexRef" SEND_ONLY [];
                Param "minMipmapLevelClamp" SEND_ONLY [];
                Param "maxMipmapLevelClamp" SEND_ONLY []];
  an_routing := None;
  an_async := false;
  an_owners := [];
  an_deep := [];
  an_tags := [];
  an_client := true;
  an_server := true;
  an_body := false |}.

Definition ann_cuTexRefSetMaxAnisotropy : annotation := {|
  an_function := "cuTexRefSetMaxAnisotropy";
  an_signature := [("hTexRef", "CUtexref"); ("maxAniso", "unsigned int")];
  an_params := [Param "hTexRef" SEND_ONLY []; Param "maxAniso" SEND_ONLY []];
  an_routing := None;
  an_async := false;
  an_owners := [];
  an_deep := [];
  an_tags := [];
  an_client := true;
  an_server := true;
  an_body := false |}.

Definition ann_cuTexRefSetBorderColor : annotation := {|
  an_function := "cuTexRefSetBorderColor";
  an_signature := [("hTexRef", "CUtexref"); ("pBorderColor", "float *")];
  an_params := [Param "hTexRef" SEND_ONLY []; Param "pBorderColor" SEND_ONLY [SIZE 16]];
  an_routing := None;
  an_async := false;
  an_owners := [];
  an_deep := [];
  an_tags := [];
  an_client := true;
  an_server := true;
  an_body := false |}.

Definition ann_cuTexRefSetFlags : annotation := {|
  an_function := "cuTexRefSetFlags";
  an_signature := [("hTexRef", "CUtexref"); ("Flags", "unsigned int")];
  an_params := [Param "hTexRef" SEND_ONLY []; Param "Flags" SEND_ONLY []];
  an_routing := None;
  an_async := false;
  an_owners := [];
  an_deep := [];
  an_tags := [];
  an_client := true;
  an_server := true;
  an_body := false |}.

Definition ann_cuTexRefGetAddress_v2 : annotation := {|
  an_function := "cuTexRefGetAddress_v2";
  an_signature := [("pdptr", "CUdeviceptr *"); ("hTexRef", "CUtexref")];
  an_params := [Param "pdptr" SEND_RECV []; Param "hTexRef" SEND_ONLY []];
  an_routing := None;
  an_async := false;
  an_owners := [];
  an_deep := [];
  an_tags := [];
  an_client := true;
  an_server := true;
  an_body := false |}.

Definition ann_cuTexRefGetArray : annotation := {|
  an_function := "cuTexRefGetArray";
  an_signature := [("phArray", "CUarray *"); ("hTexRef", "CUtexref")];
  an_params := [Param "phArray" SEND_RECV []; Param "hTexRef" SEND_ONLY []];
  an_routing := None;
  an_async := false;
  an_owners := [];
  an_deep := [];
  an_tags := [];
  an_client := true;
  an_server := true;
  an_body := false |}.

Definition ann_cuTexRefGetMipmappedArray : annotation := {|
  an_function := "cuTexRefGetMipmappedArray";
  an_signature := [("phMipmappedArray", "CUmipmappedArray *"); ("hTexRef", "CUtexref")];
  an_params := [Param "phMipmappedArray" SEND_RECV []; Param "hTexRef" SEND_ONLY []];
  an_routing := None;
  an_async := false;
  an_owners := [];
  an_deep := [];
  an_tags := [];
  an_client := true;
  an_server := true;
  an_body := false |}.

Definition ann_cuTexRefGetAddressMode : annotation := {|
  an_function := "cuTexRefGetAddressMode";
  an_signature := [("pam", "CUaddress_mode *"); ("hTexRef", "CUtexref"); ("dim", "int")];
  an_params := [Param "pam" SEND_RECV [];
                Param "hTexRef" SEND_ONLY [];
                Param "dim" SEND_ONLY []];
  an_routing := None;
  an_async := false;
  an_owners := [];
  an_deep := [];
  an_tags := [];
  an_client := true;
  an_server := true;
  an_body := false |}.

Definition ann_cuTexRefGetFilterMode : annotation := {|
  an_function := "cuTexRefGetFilterMode";
  an_signature := [("pfm", "CUfilter_mode *"); ("hTexRef", "CUtexref")];
  an_params := [Param "pfm" SEND_RECV []; Param "hTexRef" SEND_ONLY []];
  an_routing := None;
  an_async := false;
  an_owners := [];
  an_deep := [];
  an_tags := [];
  an_client := true;
  an_server := true;
  an_body := false |}.

Definition ann_cuTexRefGetFormat : annotation := {|
  an_function := "cuTexRefGetFormat";
  an_signature := [("pFormat", "CUarray_format *");
                   ("pNumChannels", "int *");
                   ("hTexRef", "CUtexref")];
  an_params := [Param "pFormat" SEND_RECV [];
                Param "pNumChannels" SEND_RECV [];
                Param "hTexRef" SEND_ONLY []];
  an_routing := None;
  an_async := false;
  an_owners := [];
  an_deep := [];
  an_tags := [];
  an_client := true;
  an_server := true;
  an_body := false |}.

Definition ann_cuTexRefGetMipmapFilterMode : annotation := {|
  an_function := "cuTexRefGetMipmapFilterMode";
  an_signature := [("pfm", "CUfilter_mode *"); ("hTexRef", "CUtexref")];
  an_params := [Param "pfm" SEND_RECV []; Param "hTexRef" SEND_ONLY []];
  an_routing := None;
  an_async := false;
  an_owners := [];
  an_deep := [];
  an_tags := [];
  an_client := true;
  an_server := true;
  an_body := false |}.

Definition ann_cuTexRefGetMipmapLevelBias : annotation := {|
  an_function := "cuTexRefGetMipmapLevelBias";
  an_signature := [("pbias", "float *"); ("hTexRef", "CUtexref")];
  an_params := [Param "pbias" SEND_RECV []; Param "hTexRef" SEND_ONLY []];
  an_routing := None;
  an_async := false;
  an_owners := [];
  an_deep := [];
  an_tags := [];
  an_client := true;
  an_server := true;
  an_body := false |}.

Definition ann_cuTexRefGetMipmapLevelClamp : annotation := {|
  an_function := "cuTexRefGetMipmapLevelClamp";
  an_signature := [("pminMipmapLevelClamp", "float *");
                   ("pmaxMipmapLevelClamp", "float *");
                   ("hTexRef", "CUtexref")];
  an_params := [Param "pminMipmapLevelClamp" SEND_RECV [];
                Param "pmaxMipmapLevelClamp" SEND_RECV [];
                Param "hTexRef" SEND_ONLY []];
  an_routing := None;
  an_async := false;
  an_owners := [];
  an_deep := [];
  an_tags := [];
  an_client := true;
  an_server := true;
  an_body := false |}.

Definition ann_cuTexRefGetMaxAnisotropy : annotation := {|
  an_function := "cuTexRefGetMaxAnisotropy";
  an_signature := [("pmaxAniso", "int *"); ("hTexRef", "CUtexref")];
  an_params := [Param "pmaxAniso" SEND_RECV []; Param "hTexRef" SEND_ONLY []];
  an_routing := None;
  an_async := false;
  an_owners := [];
  an_deep := [];
  an_tags := [];
  an_client := true;
  an_server := true;
  an_body := false |}.

Definition ann_cuTexRefGetBorderColor : annotation := {|
  an_function := "cuTexRefGetBorderColor";
  an_signature := [("pBorderColor", "float *"); ("hTexRef", "CUtexref")];
  an_params := [Param "pBorderColor" RECV_ONLY [SIZE 16]; Param "hTexRef" SEND_ONLY []];
  an_routing := None;
  an_async := false;
  an_owners := [];
  an_deep := [];
  an_tags := [];
  an_client := true;
  an_server := true;
  an_body := false |}.

Definition ann_cuTexRefGetFlags : annotation := {|
  an_function := "cuTexRefGetFlags";
  an_signature := [("pFlags", "unsigned int *"); ("hTexRef", "CUtexref")];
  an_params := [Param "pFlags" SEND_RECV []; Param "hTexRef" SEND_ONLY []];
  an_routing := None;
  an_async := false;
  an_owners := [];
  an_deep := [];
  an_tags := [];
  an_client := true;
  an_server := true;
  an_body := false |}.

Definition ann_cuTexRefCreate : annotation := {|
  an_function := "cuTexRefCreate";
  an_signature := [("pTexRef", "CUtexref *")];
  an_params := [Param "pTexRef" SEND_RECV []];
  an_routing := None;
  an_async := false;
  an_owners := [];
  an_deep := [];
  an_tags := [];
  an_client := true;
  an_server := true;
  an_body := false |}.

Definition ann_cuTexRefDestroy : annotation := {|
  an_function := "cuTexRefDestroy";
  an_signature := [("hTexRef", "CUtexref")];
  an_params := [Param "hTexRef" SEND_ONLY []];
  an_routing := None;
  an_async := false;
  an_owners := [];
  an_deep := [];
  an_tags := [];
  an_client := true;
  an_server := true;
  an_body := false |}.

Definition ann_cuSurfRefSetArray : annotation := {|
  an_function := "cuSurfRefSetArray";
  an_signature := [("hSurfRef", "CUsurfref");
                   ("hArray", "CUarray");
                   ("Flags", "unsigned int")];
  an_params := [Param "hSurfRef" SEND_ONLY [];
                Param "hArray" SEND_ONLY [];
                Param "Flags" SEND_ONLY []];
  an_routing := None;
  an_async := false;
  an_owners := [];
  an_deep := [];
  an_tags := [];
  an_client := true;
  an_server := true;
  an_body := false |}.

Definition ann_cuSurfRefGetArray : annotation := {|
  an_function := "cuSurfRefGetArray";
  an_signature := [("phArray", "CUarray *"); ("hSurfRef", "CUsurfref")];
  an_params := [Param "phArray" SEND_RECV []; Param "hSurfRef" SEND_ONLY []];
  an_routing := None;
  an_async := false;
  an_owners := [];
  an_deep := [];
  an_tags := [];
  an_client := true;
  an_server := true;
  an_body := false |}.

Definition ann_cuTexObjectCreate : annotation := {|
  an_function := "cuTexObjectCreate";
  an_signature := [("pTexObject", "CUtexObject *");
                   ("pResDesc", "const CUDA_RESOURCE_DESC *");
                   ("pTexDesc", "const CUDA_TEXTURE_DESC *");
                   ("pResViewDesc", "const CUDA_RESOURCE_VIEW_DESC *")];
  an_params := [Param "pTexObject" SEND_RECV [];
                Param "pResDesc" SEND_ONLY [DEREF];
                Param "pTexDesc" SEND_ONLY [NULLABLE];
                Param "pResViewDesc" SEND_ONLY [NULLABLE]];
  an_routing := None;
  an_async := false;
  an_owners := [];
  an_deep := [];
  an_tags := [];
  an_client := true;
  an_server := true;
  an_body := false |}.

Definition ann_cuTexObjectDestroy : annotation := {|
  an_function := "cuTexObjectDestroy";
  an_signature := [("texObject", "CUtexObject")];
  an_params := [Param "texObject" SEND_ONLY []];
  an_routing := None;
  an_async := false;
  an_owners := [];
  an_deep := [];
  an_tags := [];
  an_client := true;
  an_server := true;
  an_body := false |}.

Definition ann_cuTexObjectGetResourceDesc : annotation := {|
  an_function := "cuTexObjectGetResourceDesc";
  an_signature := [("pResDesc", "CUDA_RESOURCE_DESC *"); ("texObject", "CUtexObject")];
  an_params := [Param "pResDesc" SEND_RECV []; Param "texObject" SEND_ONLY []];
  an_routing := None;
  an_async := false;
  an_owners := [];
  an_deep := [];
  an_tags := [];
  an_client := true;
  an_server := true;
  an_body := false |}.

Definition ann_cuTexObjectGetTextureDesc : annotation := {|
  an_function := "cuTexObjectGetTextureDesc";
  an_signature := [("pTexDesc", "CUDA_TEXTURE_DESC *"); ("texObject", "CUtexObject")];
  an_params := [Param "pTexDesc" SEND_RECV []; Param "texObject" SEND_ONLY []];
  an_routing := None;
  an_async := false;
  an_owners := [];
  an_deep := [];
  an_tags := [];
  an_client := true;
  an_server := true;
  an_body := false |}.

Definition ann_cuTexObjectGetResourceViewDesc : annotation := {|
  an_function := "cuTexObjectGetResourceViewDesc";
  an_signature := [("pResViewDesc", "CUDA_RESOURCE_VIEW_DESC *");
                   ("texObject", "CUtexObject")];
  an_params := [Param "pResViewDesc" SEND_RECV []; Param "texObject" SEND_ONLY []];
  an_routing := None;
  an_async := false;
  an_owners := [];
  an_deep := [];
  an_tags := [];
  an_client := true;
  an_server := true;
  an_body := false |}.

Definition ann_cuSurfObjectCreate : annotation := {|
  an_function := "cuSurfObjectCreate";
  an_signature := [("pSurfObject", "CUsurfObject *");
                   ("pResDesc", "const CUDA_RESOURCE_DESC *")];
  an_params := [Param "pSurfObject" SEND_RECV []; Param "pResDesc" SEND_ONLY [DEREF]];
  an_routing := None;
  an_async := false;
  an_owners := [];
  an_deep := [];
  an_tags := [];
  an_client := true;
  an_server := true;
  an_body := false |}.

Definition ann_cuSurfObjectDestroy : annotation := {|
  an_function := "cuSurfObjectDestroy";
  an_signature := [("surfObject", "CUsurfObject")];
  an_params := [Param "surfObject" SEND_ONLY []];
  an_routing := None;
  an_async := false;
  an_owners := [];
  an_deep := [];
  an_tags := [];
  an_client := true;
  an_server := true;
  an_body := false |}.

Definition ann_cuSurfObjectGetResourceDesc : annotation := {|
  an_function := "cuSurfObjectGetResourceDesc";
  an_signature := [("pResDesc", "CUDA_RESOURCE_DESC *"); ("surfObject", "CUsurfObject")];
  an_params := [Param "pResDesc" SEND_RECV []; Param "surfObject" SEND_ONLY []];
  an_routing := None;
  an_async := false;
  an_owners := [];
  an_deep := [];
  an_tags := [];
  an_client := true;
  an_server := true;
  an_body := false |}.

Definition ann_cuTensorMapEncodeTiled : annotation := {|
  an_function := "cuTensorMapEncodeTiled";
  an_signature := [("tensorMap", "CUtensorMap *");
                   ("tensorDataType", "CUtensorMapDataType");
                   ("tensorRank", "cuuint32_t");
                   ("globalAddress", "void *");
                   ("globalDim", "const cuuint64_t *");
                   ("globalStrides", "const cuuint64_t *");
                   ("boxDim", "const cuuint32_t *");
                   ("elementStrides", "const cuuint32_t *");
                   ("interleave", "CUtensorMapInterleave");
                   ("swizzle", "CUtensorMapSwizzle");
                   ("l2Promotion", "CUtensorMapL2promotion");
                   ("oobFill", "CUtensorMapFloatOOBfill")];
  an_params := [Param "tensorMap" SEND_RECV [];
                Param "tensorDataType" SEND_ONLY [];
                Param "tensorRank" SEND_ONLY [];
                Param "globalAddress" SEND_ONLY [];
                Param "globalDim" SEND_RECV [];
                Param "globalStrides" SEND_RECV [];
                Param "boxDim" SEND_RECV [];
                Param "elementStrides" SEND_RECV [];
                Param "interleave" SEND_ONLY [];
                Param "swizzle" SEND_ONLY [];
                Param "l2Promotion" SEND_ONLY [];
                Param "oobFill" SEND_ONLY []];
  an_routing := None;
  an_async := false;
  an_owners := [];
  an_deep := [];
  an_tags := [];
  an_client := false;
  an_server := false;
  an_body := false |}.

Definition ann_cuTensorMapEncodeIm2col : annotation := {|
  an_function := "cuTensorMapEncodeIm2col";
  an_signature := [("tensorMap", "CUtensorMap *");
                   ("tensorDataType", "CUtensorMapDataType");
                   ("tensorRank", "cuuint32_t");
                   ("globalAddress", "void *");
                   ("globalDim", "const cuuint64_t *");
                   ("globalStrides", "const cuuint64_t *");
                   ("pixelBoxLowerCorner", "const int *");
                   ("pixelBoxUpperCorner", "const int *");
                   ("channelsPerPixel", "cuuint32_t");
                   ("pixelsPerColumn", "cuuint32_t");
                   ("elementStrides", "const cuuint32_t *");
                   ("interleave", "CUtensorMapInterleave");
                   ("swizzle", "CUtensorMapSwizzle");
                   ("l2Promotion", "CUtensorMapL2promotion");
                   ("oobFill", "CUtensorMapFloatOOBfill")];
  an_params := [Param "tensorMap" SEND_RECV [];
                Param "tensorDataType" SEND_ONLY [];
                Param "tensorRank" SEND_ONLY [];
                Param "globalAddress" SEND_ONLY [];
                Param "globalDim" SEND_RECV [];
                Param "globalStrides" SEND_RECV [];
                Param "pixelBoxLowerCorner" SEND_RECV [];
                Param "pixelBoxUpperCorner" SEND_RECV [];
                Param "channelsPerPixel" SEND_ONLY [];
                Param "pixelsPerColumn" SEND_ONLY [];
                Param "elementStrides" SEND_RECV [];
                Param "interleave" SEND_ONLY [];
                Param "swizzle" SEND_ONLY [];
                Param "l2Promotion" SEND_ONLY [];
                Param "oobFill" SEND_ONLY []];
  an_routing := None;
  an_async := false;
  an_owners := [];
  an_deep := [];
  an_tags := [];
  an_client := false;
  an_server := false;
  an_body := false |}.

Definition ann_cuTensorMapReplaceAddress : annotation := {|
  an_function := "cuTensorMapReplaceAddress";
  an_signature := [("tensorMap", "CUtensorMap *"); ("globalAddress", "void *")];
  an_params := [Param "tensorMap" SEND_RECV []; Param "globalAddress" SEND_ONLY []];
  an_routing := Some ("DEVICEPTR", "globalAddress");
  an_async := false;
  an_owners := [];
  an_deep := [];
  an_tags := [];
  an_client := true;
  an_server := true;
  an_body := false |}.

Definition ann_cuDeviceCanAccessPeer : annotation := {|
  an_function := "cuDeviceCanAccessPeer";
  an_signature := [("canAccessPeer", "int *"); ("dev", "CUdevice"); ("peerDev", "CUdevice")];
  an_params := [Param "canAccessPeer" SEND_RECV [];
                Param "dev" SEND_ONLY [];
                Param "peerDev" SEND_ONLY []];
  an_routing := None;
  an_async := false;
  an_owners := [];
  an_deep := [];
  an_tags := [];
  an_client := false;
  an_server := true;
  an_body := false |}.

Definition ann_cuCtxEnablePeerAccess : annotation := {|
  an_function := "cuCtxEnablePeerAccess";
  an_signature := [("peerContext", "CUcontext"); ("Flags", "unsigned int")];
  an_params := [Param "peerContext" SEND_ONLY []; Param "Flags" SEND_ONLY []];
  an_routing := None;
  an_async := false;
  an_owners := [];
  an_deep := [];
  an_tags := [];
  an_client := false;
  an_server := true;
  an_body := false |}.

Definition ann_cuCtxDisablePeerAccess : annotation := {|
  an_function := "cuCtxDisablePeerAccess";
  an_signature := [("peerContext", "CUcontext")];
  an_params := [Param "peerContext" SEND_ONLY []];
  an_routing := None;
  an_async := false;
  an_owners := [];
  an_deep := [];
  an_tags := [];
  an_client := false;
  an_server := true;
  an_body := false |}.

Definition ann_cuDeviceGetP2PAttribute : annotation := {|
  an_function := "cuDeviceGetP2PAttribute";
  an_signature := [("value", "int *");
                   ("attrib", "CUdevice_P2PAttribute");
                   ("srcDevice", "CUdevice");
                   ("dstDevice", "CUdevice")];
  an_params := [Param "value" SEND_RECV [];
                Param "attrib" SEND_ONLY [];
                Param "srcDevice" SEND_ONLY [];
                Param "dstDevice" SEND_ONLY []];
  an_routing := None;
  an_async := false;
  an_owners := [];
  an_deep := [];
  an_tags := [];
  an_client := false;
  an_server := true;
  an_body := false |}.

Definition ann_cuGraphicsUnregisterResource : annotation := {|
  an_function := "cuGraphicsUnregisterResource";
  an_signature := [("resource", "CUgraphicsResource")];
  an_params := [Param "resource" SEND_ONLY []];
  an_routing := None;
  an_async := false;
  an_owners := [];
  an_deep := [];
  an_tags := [];
  an_client := true;
  an_server := true;
  an_body := false |}.

Definition ann_cuGraphicsSubResourceGetMappedArray : annotation := {|
  an_function := "cuGraphicsSubResourceGetMappedArray";
  an_signature := [("pArray", "CUarray *");
                   ("resource", "CUgraphicsResource");
                   ("arrayIndex", "unsigned int");
                   ("mipLevel", "unsigned int")];
  an_params := [Param "pArray" SEND_RECV [];
                Param "resource" SEND_ONLY [];
                Param "arrayIndex" SEND_ONLY [];
                Param "mipLevel" SEND_ONLY []];
  an_routing := None;
  an_async := false;
  an_owners := [];
  an_deep := [];
  an_tags := [];
  an_client := true;
  an_server := true;
  an_body := false |}.

Definition ann_cuGraphicsResourceGetMappedMipmappedArray : annotation := {|
  an_function := "cuGraphicsResourceGetMappedMipmappedArray";
  an_signature := [("pMipmappedArray", "CUmipmappedArray *");
                   ("resource", "CUgraphicsResource")];
  an_params := [Param "pMipmappedArray" SEND_RECV []; Param "resource" SEND_ONLY []];
  an_routing := None;
  an_async := false;
  an_owners := [];
  an_deep := [];
  an_tags := [];
  an_client := true;
  an_server := true;
  an_body := false |}.

Definition ann_cuGraphicsResourceGetMappedPointer_v2 : annotation := {|
  an_function := "cuGraphicsResourceGetMappedPointer_v2";
  an_signature := [("pDevPtr", "CUdeviceptr *");
                   ("pSize", "size_t *");
                   ("resource", "CUgraphicsResource")];
  an_params := [Param "pDevPtr" SEND_RECV [];
                Param "pSize" SEND_RECV [];
                Param "resource" SEND_ONLY []];
  an_routing := None;
  an_async := false;
  an_owners := [];
  an_deep := [];
  an_tags := [];
  an_client := true;
  an_server := true;
  an_body := false |}.

Definition ann_cuGraphicsResourceSetMapFlags_v2 : annotation := {|
  an_function := "cuGraphicsResourceSetMapFlags_v2";
  an_signature := [("resource", "CUgraphicsResource"); ("flags", "unsigned int")];
  an_params := [Param "resource" SEND_ONLY []; Param "flags" SEND_ONLY []];
  an_routing := None;
  an_async := false;
  an_owners := [];
  an_deep := [];
  an_tags := [];
  an_client := true;
  an_server := true;
  an_body := false |}.

Definition ann_cuGraphicsMapResources : annotation := {|
  an_function := "cuGraphicsMapResources";
  an_signature := [("count", "unsigned int");
                   ("resources", "CUgraphicsResource *");
                   ("hStream", "CUstream")];
  an_params := [Param "count" SEND_ONLY [];
                Param "resources" SEND_ONLY [LENGTH "count"];
                Param "hStream" SEND_ONLY []];
  an_routing := None;
  an_async := false;
  an_owners := [];
  an_deep := [];
  an_tags := [];
  an_client := true;
  an_server := true;
  an_body := false |}.

Definition ann_cuGraphicsUnmapResources : annotation := {|
  an_function := "cuGraphicsUnmapResources";
  an_signature := [("count", "unsigned int");
                   ("resources", "CUgraphicsResource *");
                   ("hStream", "CUstream")];
  an_params := [Param "count" SEND_ONLY [];
                Param "resources" SEND_ONLY [LENGTH "count"];
                Param "hStream" SEND_ONLY []];
  an_routing := None;
  an_async := false;
  an_owners := [];
  an_deep := [];
  an_tags := [];
  an_client := true;
  an_server := true;
  an_body := false |}.

Definition ann_cuLogsRegisterCallback : annotation := {|
  an_function := "cuLogsRegisterCallback";
  an_signature := [("callbackFunc", "CUlogsCallback");
                   ("userData", "void *");
                   ("callback_out", "CUlogsCallbackHandle *")];
  an_params := [];
  an_routing := None;
  an_async := false;
  an_owners := [];
  an_deep := [];
  an_tags := [];
  an_client := false;
  an_server := false;
  an_body := false |}.

Definition ann_cuLogsUnregisterCallback : annotation := {|
  an_function := "cuLogsUnregisterCallback";
  an_signature := [("callback", "CUlogsCallbackHandle")];
  an_params := [];
  an_routing := None;
  an_async := false;
  an_owners := [];
  an_deep := [];
  an_tags := [];
  an_client := false;
  an_server := false;
  an_body := false |}.

Definition ann_cuLogsCurrent : annotation := {|
  an_function := "cuLogsCurrent";
  an_signature := [("iterator_out", "CUlogIterator *"); ("flags", "unsigned int")];
  an_params := [Param "iterator_out" RECV_ONLY [NULLABLE]; Param "flags" SEND_ONLY []];
  an_routing := None;
  an_async := false;
  an_owners := [];
  an_deep := [];
  an_tags := [];
  an_client := true;
  an_server := true;
  an_body := false |}.

Definition ann_cuLogsDumpToFile : annotation := {|
  an_function := "cuLogsDumpToFile";
  an_signature := [("iterator", "CUlogIterator *");
                   ("pathToFile", "const char *");
                   ("flags", "unsigned int")];
  an_params := [Param "iterator" SEND_RECV [NULLABLE];
                Param "pathToFile" SEND_ONLY [NULL_TERMINATED];
                Param "flags" SEND_ONLY []];
  an_routing := None;
  an_async := false;
  an_owners := [];
  an_deep := [];
  an_tags := [];
  an_client := true;
  an_server := true;
  an_body := true |}.

Definition ann_cuLogsDumpToMemory : annotation := {|
  an_function := "cuLogsDumpToMemory";
  an_signature := [("iterator", "CUlogIterator *");
                   ("buffer", "char *");
                   ("size", "size_t *");
                   ("flags", "unsigned int")];
  an_params := [Param "iterator" SEND_RECV [NULLABLE];
                Param "size" SEND_RECV [];
                Param "buffer" RECV_ONLY [NULLABLE; LENGTH "size"];
                Param "flags" SEND_ONLY []];
  an_routing := None;
  an_async := false;
  an_owners := [];
  an_deep := [];
  an_tags := [];
  an_client := true;
  an_server := true;
  an_body := true |}.

Definition ann_cuCoredumpGetAttributeGlobal : annotation := {|
  an_function := "cuCoredumpGetAttributeGlobal";
  an_signature := [("attrib", "CUcoredumpSettings");
                   ("value", "void *");
                   ("size", "size_t *")];
  an_params := [Param "attrib" SEND_ONLY [];
                Param "size" SEND_RECV [];
                Param "value" RECV_ONLY [LENGTH "size"]];
  an_routing := None;
  an_async := false;
  an_owners := [];
  an_deep := [];
  an_tags := [];
  an_client := true;
  an_server := true;
  an_body := false |}.

Definition ann_cuCoredumpSetAttributeGlobal : annotation := {|
  an_function := "cuCoredumpSetAttributeGlobal";
  an_signature := [("attrib", "CUcoredumpSettings");
                   ("value", "void *");
                   ("size", "size_t *")];
  an_params := [Param "attrib" SEND_ONLY [];
                Param "size" SEND_RECV [];
                Param "value" SEND_ONLY [LENGTH "size"]];
  an_routing := None;
  an_async := false;
  an_owners := [];
  an_deep := [];
  an_tags := [];
  an_client := true;
  an_server := true;
  an_body := false |}.

Definition annotations : list annotation :=
  [ann_cuGetErrorString;
   ann_cuGetErrorName;
   ann_cuInit;
   ann_cuDriverGetVersion;
   ann_cuDeviceGet;
   ann_cuDeviceGetCount;
   ann_cuDeviceGetName;
   ann_cuDeviceGetUuid;
   ann_cuDeviceGetUuid_v2;
   ann_cuDeviceGetLuid;
   ann_cuDeviceTotalMem_v2;
   ann_cuDeviceGetTexture1DLinearMaxWidth;
   ann_cuDeviceGetAttribute;
   ann_cuDeviceSetMemPool;
   ann_cuDeviceGetMemPool;
   ann_cuDeviceGetDefaultMemPool;
   ann_cuDeviceGetExecAffinitySupport;
   ann_cuFlushGPUDirectRDMAWrites;
   ann_cuDeviceGetProperties;
   ann_cuDeviceComputeCapability;
   ann_cuDevicePrimaryCtxRetain;
   ann_cuDevicePrimaryCtxRelease_v2;
   ann_cuDevicePrimaryCtxSetFlags_v2;
   ann_cuDevicePrimaryCtxGetState;
   ann_cuDevicePrimaryCtxReset_v2;
   ann_cuCtxCreate_v2;
   ann_cuCtxCreate_v3;
   ann_cuCtxDestroy_v2;
   ann_cuCtxPushCurrent_v2;
   ann_cuCtxPopCurrent_v2;
   ann_cuCtxSetCurrent;
   ann_cuCtxGetCurrent;
   ann_cuCtxGetDevice;
   ann_cuCtxGetDevice_v2;
   ann_cuCtxGetFlags;
   ann_cuCtxGetId;
   ann_cuCtxRecordEvent;
   ann_cuCtxWaitEvent;
   ann_cuCtxSynchronize;
   ann_cuCtxSynchronize_v2;
   ann_cuCtxSetLimit;
   ann_cuCtxGetLimit;
   ann_cuCtxGetCacheConfig;
   ann_cuCtxSetCacheConfig;
   ann_cuCtxGetSharedMemConfig;
   ann_cuCtxSetSharedMemConfig;
   ann_cuCtxGetApiVersion;
   ann_cuCtxGetStreamPriorityRange;
   ann_cuCtxResetPersistingL2Cache;
   ann_cuCtxGetExecAffinity;
   ann_cuCtxAttach;
   ann_cuCtxDetach;
   ann_cuModuleLoad;
   ann_cuModuleLoadData;
   ann_cuModuleLoadDataEx;
   ann_cuModuleUnload;
   ann_cuModuleGetLoadingMode;
   ann_cuModuleGetFunction;
   ann_cuModuleGetGlobal_v2;
   ann_cuLinkCreate_v2;
   ann_cuLinkAddData_v2;
   ann_cuLinkAddFile_v2;
   ann_cuLinkComplete;
   ann_cuLinkDestroy;
   ann_cuModuleGetTexRef;
   ann_cuModuleGetSurfRef;
   ann_cuLibraryLoadData;
   ann_cuLibraryUnload;
   ann_cuLibraryGetKernel;
   ann_cuLibraryGetModule;
   ann_cuKernelGetFunction;
   ann_cuKernelGetLibrary;
   ann_cuKernelGetParamInfo;
   ann_cuFuncGetParamInfo;
   ann_cuLibraryGetGlobal;
   ann_cuLibraryGetManaged;
   ann_cuLibraryGetUnifiedFunction;
   ann_cuKernelGetAttribute;
   ann_cuKernelSetAttribute;
   ann_cuKernelSetCacheConfig;
   ann_cuKernelGetName;
   ann_cuMemGetInfo_v2;
   ann_cuMemAlloc_v2;
   ann_cuMemAllocPitch_v2;
   ann_cuMemFree_v2;
   ann_cuMemGetAddressRange_v2;
   ann_cuMemAllocHost_v2;
   ann_cuMemFreeHost;
   ann_cuMemHostAlloc;
   ann_cuMemHostGetDevicePointer_v2;
   ann_cuMemHostGetFlags;
   ann_cuMemAllocManaged;
   ann_cuDeviceGetByPCIBusId;
   ann_cuDeviceGetPCIBusId;
   ann_cuIpcGetEventHandle;
   ann_cuIpcOpenEventHandle;
   ann_cuIpcGetMemHandle;
   ann_cuIpcOpenMemHandle_v2;
   ann_cuIpcCloseMemHandle;
   ann_cuMemcpy;
   ann_cuMemcpyPeer;
   ann_cuMemcpyHtoD_v2;
   ann_cuMemcpyDtoH_v2;
   ann_cuMemcpyDtoD_v2;
   ann_cuMemcpyDtoA_v2;
   ann_cuMemcpyAtoD_v2;
   ann_cuMemcpyAtoH_v2;
   ann_cuMemcpyAtoA_v2;
   ann_cuMemcpy2D_v2;
   ann_cuMemcpy2DUnaligned_v2;
   ann_cuMemcpy3D_v2;
   ann_cuMemcpy3DPeer;
   ann_cuMemcpyPeerAsync;
   ann_cuMemcpyHtoDAsync_v2;
   ann_cuMemcpyDtoHAsync_v2;
   ann_cuMemcpyDtoDAsync_v2;
   ann_cuMemcpyAtoHAsync_v2;
   ann_cuMemcpy2DAsync_v2;
   ann_cuMemcpy3DAsync_v2;
   ann_cuMemcpy3DPeerAsync;
   ann_cuMemsetD8_v2;
   ann_cuMemsetD16_v2;
   ann_cuMemsetD32_v2;
   ann_cuMemsetD2D8_v2;
   ann_cuMemsetD2D16_v2;
   ann_cuMemsetD2D32_v2;
   ann_cuMemsetD8Async;
   ann_cuMemsetD16Async;
   ann_cuMemsetD32Async;
   ann_cuMemsetD2D8Async;
   ann_cuMemsetD2D16Async;
   ann_cuMemsetD2D32Async;
   ann_cuArrayCreate_v2;
   ann_cuArrayGetDescriptor_v2;
   ann_cuArrayGetSparseProperties;
   ann_cuMipmappedArrayGetSparseProperties;
   ann_cuArrayGetMemoryRequirements;
   ann_cuMipmappedArrayGetMemoryRequirements;
   ann_cuArrayGetPlane;
   ann_cuArrayDestroy;
   ann_cuArray3DCreate_v2;
   ann_cuArray3DGetDescriptor_v2;
   ann_cuMipmappedArrayCreate;
   ann_cuMipmappedArrayGetLevel;
   ann_cuMipmappedArrayDestroy;
   ann_cuMemGetHandleForAddressRange;
   ann_cuMemAddressReserve;
   ann_cuMemAddressFree;
   ann_cuMemCreate;
   ann_cuMemRelease;
   ann_cuMemMap;
   ann_cuMemMapArrayAsync;
   ann_cuMemUnmap;
   ann_cuMemSetAccess;
   ann_cuMemGetAccess;
   ann_cuMemExportToShareableHandle;
   ann_cuMemImportFromShareableHandle;
   ann_cuMemGetAllocationGranularity;
   ann_cuMemGetAllocationPropertiesFromHandle;
   ann_cuMemRetainAllocationHandle;
   ann_cuMemFreeAsync;
   ann_cuMemAllocAsync;
   ann_cuMemPoolTrimTo;
   ann_cuMemPoolSetAttribute;
   ann_cuMemPoolGetAttribute;
   ann_cuMemPoolSetAccess;
   ann_cuMemPoolGetAccess;
   ann_cuMemPoolCreate;
   ann_cuMemPoolDestroy;
   ann_cuMemAllocFromPoolAsync;
   ann_cuMemPoolExportToShareableHandle;
   ann_cuMemPoolImportFromShareableHandle;
   ann_cuMemPoolExportPointer;
   ann_cuMemPoolImportPointer;
   ann_cuPointerGetAttribute;
   ann_cuMemPrefetchAsync;
   ann_cuMemPrefetchAsync_v2;
   ann_cuMemAdvise;
   ann_cuMemAdvise_v2;
   ann_cuMemRangeGetAttribute;
   ann_cuMemRangeGetAttributes;
   ann_cuPointerSetAttribute;
   ann_cuPointerGetAttributes;
   ann_cuStreamCreate;
   ann_cuStreamCreateWithPriority;
   ann_cuStreamGetPriority;
   ann_cuStreamGetFlags;
   ann_cuStreamGetId;
   ann_cuStreamGetCtx;
   ann_cuStreamGetDevice;
   ann_cuStreamGetDevResource;
   ann_cuStreamGetGreenCtx;
   ann_cuGreenCtxGetDevResource;
   ann_cuDeviceGetDevResource;
   ann_cuCtxGetDevResource;
   ann_cuDevSmResourceSplitByCount;
   ann_cuDevSmResourceSplit;
   ann_cuDevResourceGenerateDesc;
   ann_cuGreenCtxCreate;
   ann_cuCtxFromGreenCtx;
   ann_cuGreenCtxDestroy;
   ann_cuGreenCtxStreamCreate;
   ann_cuGreenCtxGetId;
   ann_cuGreenCtxRecordEvent;
   ann_cuGreenCtxWaitEvent;
   ann_cuStreamWaitEvent;
   ann_cuStreamAddCallback;
   ann_cuStreamBeginCapture_v2;
   ann_cuThreadExchangeStreamCaptureMode;
   ann_cuStreamEndCapture;
   ann_cuStreamIsCapturing;
   ann_cuStreamUpdateCaptureDependencies;
   ann_cuStreamAttachMemAsync;
   ann_cuStreamQuery;
   ann_cuStreamSynchronize;
   ann_cuStreamDestroy_v2;
   ann_cuStreamCopyAttributes;
   ann_cuStreamGetAttribute;
   ann_cuStreamSetAttribute;
   ann_cuEventCreate;
   ann_cuEventRecord;
   ann_cuEventRecordWithFlags;
   ann_cuEventQuery;
   ann_cuEventSynchronize;
   ann_cuEventDestroy_v2;
   ann_cuEventElapsedTime;
   ann_cuImportExternalMemory;
   ann_cuExternalMemoryGetMappedBuffer;
   ann_cuExternalMemoryGetMappedMipmappedArray;
   ann_cuDestroyExternalMemory;
   ann_cuImportExternalSemaphore;
   ann_cuSignalExternalSemaphoresAsync;
   ann_cuWaitExternalSemaphoresAsync;
   ann_cuDestroyExternalSemaphore;
   ann_cuStreamWaitValue32_v2;
   ann_cuStreamWaitValue64_v2;
   ann_cuStreamWriteValue32_v2;
   ann_cuStreamWriteValue64_v2;
   ann_cuStreamBatchMemOp_v2;
   ann_cuFuncGetAttribute;
   ann_cuFuncSetAttribute;
   ann_cuFuncSetCacheConfig;
   ann_cuFuncSetSharedMemConfig;
   ann_cuFuncGetModule;
   ann_cuFuncGetName;
   ann_cuLaunchKernel;
   ann_cuLaunchKernelEx;
   ann_cuLaunchCooperativeKernel;
   ann_cuLaunchCooperativeKernelMultiDevice;
   ann_cuLaunchHostFunc;
   ann_cuFuncSetBlockShape;
   ann_cuFuncSetSharedSize;
   ann_cuParamSetSize;
   ann_cuParamSeti;
   ann_cuParamSetf;
   ann_cuParamSetv;
   ann_cuLaunch;
   ann_cuLaunchGrid;
   ann_cuLaunchGridAsync;
   ann_cuParamSetTexRef;
   ann_cuGraphCreate;
   ann_cuGraphAddKernelNode_v2;
   ann_cuGraphKernelNodeGetParams_v2;
   ann_cuGraphKernelNodeSetParams_v2;
   ann_cuGraphAddMemcpyNode;
   ann_cuGraphMemcpyNodeGetParams;
   ann_cuGraphMemcpyNodeSetParams;
   ann_cuGraphAddMemsetNode;
   ann_cuGraphMemsetNodeGetParams;
   ann_cuGraphMemsetNodeSetParams;
   ann_cuGraphAddHostNode;
   ann_cuGraphHostNodeGetParams;
   ann_cuGraphHostNodeSetParams;
   ann_cuGraphAddChildGraphNode;
   ann_cuGraphChildGraphNodeGetGraph;
   ann_cuGraphAddEmptyNode;
   ann_cuGraphAddEventRecordNode;
   ann_cuGraphEventRecordNodeGetEvent;
   ann_cuGraphEventRecordNodeSetEvent;
   ann_cuGraphAddEventWaitNode;
   ann_cuGraphEventWaitNodeGetEvent;
   ann_cuGraphEventWaitNodeSetEvent;
   ann_cuGraphAddExternalSemaphoresSignalNode;
   ann_cuGraphExternalSemaphoresSignalNodeGetParams;
   ann_cuGraphExternalSemaphoresSignalNodeSetParams;
   ann_cuGraphAddExternalSemaphoresWaitNode;
   ann_cuGraphExternalSemaphoresWaitNodeGetParams;
   ann_cuGraphExternalSemaphoresWaitNodeSetParams;
   ann_cuGraphAddBatchMemOpNode;
   ann_cuGraphBatchMemOpNodeGetParams;
   ann_cuGraphBatchMemOpNodeSetParams;
   ann_cuGraphExecBatchMemOpNodeSetParams;
   ann_cuGraphAddMemAllocNode;
   ann_cuGraphMemAllocNodeGetParams;
   ann_cuGraphAddMemFreeNode;
   ann_cuGraphMemFreeNodeGetParams;
   ann_cuDeviceGraphMemTrim;
   ann_cuDeviceGetGraphMemAttribute;
   ann_cuDeviceSetGraphMemAttribute;
   ann_cuGraphClone;
   ann_cuGraphNodeFindInClone;
   ann_cuGraphNodeGetType;
   ann_cuGraphNodeGetContainingGraph;
   ann_cuGraphNodeGetLocalId;
   ann_cuGraphNodeGetToolsId;
   ann_cuGraphGetId;
   ann_cuGraphExecGetId;
   ann_cuGraphGetNodes;
   ann_cuGraphGetRootNodes;
   ann_cuGraphGetEdges;
   ann_cuGraphNodeGetDependencies;
   ann_cuGraphNodeGetDependentNodes;
   ann_cuGraphAddDependencies;
   ann_cuGraphRemoveDependencies;
   ann_cuGraphDestroyNode;
   ann_cuGraphInstantiate_v2;
   ann_cuGraphInstantiateWithFlags;
   ann_cuGraphInstantiateWithParams;
   ann_cuGraphExecGetFlags;
   ann_cuGraphNodeSetParams;
   ann_cuGraphExecNodeSetParams;
   ann_cuGraphExecKernelNodeSetParams_v2;
   ann_cuGraphExecMemcpyNodeSetParams;
   ann_cuGraphExecMemsetNodeSetParams;
   ann_cuGraphExecHostNodeSetParams;
   ann_cuGraphExecChildGraphNodeSetParams;
   ann_cuGraphExecEventRecordNodeSetEvent;
   ann_cuGraphExecEventWaitNodeSetEvent;
   ann_cuGraphExecExternalSemaphoresSignalNodeSetParams;
   ann_cuGraphExecExternalSemaphoresWaitNodeSetParams;
   ann_cuGraphNodeSetEnabled;
   ann_cuGraphNodeGetEnabled;
   ann_cuGraphUpload;
   ann_cuGraphLaunch;
   ann_cuGraphExecDestroy;
   ann_cuGraphDestroy;
   ann_cuGraphExecUpdate;
   ann_cuGraphExecUpdate_v2;
   ann_cuGraphKernelNodeCopyAttributes;
   ann_cuGraphKernelNodeGetAttribute;
   ann_cuGraphKernelNodeSetAttribute;
   ann_cuGraphDebugDotPrint;
   ann_cuUserObjectRetain;
   ann_cuUserObjectRelease;
   ann_cuGraphRetainUserObject;
   ann_cuGraphReleaseUserObject;
   ann_cuOccupancyMaxActiveBlocksPerMultiprocessor;
   ann_cuOccupancyMaxActiveBlocksPerMultiprocessorWithFlags;
   ann_cuOccupancyMaxPotentialBlockSize;
   ann_cuOccupancyMaxPotentialBlockSizeWithFlags;
   ann_cuOccupancyAvailableDynamicSMemPerBlock;
   ann_cuOccupancyMaxPotentialClusterSize;
   ann_cuOccupancyMaxActiveClusters;
   ann_cuTexRefSetArray;
   ann_cuTexRefSetMipmappedArray;
   ann_cuTexRefSetAddress_v2;
   ann_cuTexRefSetAddress2D_v3;
   ann_cuTexRefSetFormat;
   ann_cuTexRefSetAddressMode;
   ann_cuTexRefSetFilterMode;
   ann_cuTexRefSetMipmapFilterMode;
   ann_cuTexRefSetMipmapLevelBias;
   ann_cuTexRefSetMipmapLevelClamp;
   ann_cuTexRefSetMaxAnisotropy;
   ann_cuTexRefSetBorderColor;
   ann_cuTexRefSetFlags;
   ann_cuTexRefGetAddress_v2;
   ann_cuTexRefGetArray;
   ann_cuTexRefGetMipmappedArray;
   ann_cuTexRefGetAddressMode;
   ann_cuTexRefGetFilterMode;
   ann_cuTexRefGetFormat;
   ann_cuTexRefGetMipmapFilterMode;
   ann_cuTexRefGetMipmapLevelBias;
   ann_cuTexRefGetMipmapLevelClamp;
   ann_cuTexRefGetMaxAnisotropy;
   ann_cuTexRefGetBorderColor;
   ann_cuTexRefGetFlags;
   ann_cuTexRefCreate;
   ann_cuTexRefDestroy;
   ann_cuSurfRefSetArray;
   ann_cuSurfRefGetArray;
   ann_cuTexObjectCreate;
   ann_cuTexObjectDestroy;
   ann_cuTexObjectGetResourceDesc;
   ann_cuTexObjectGetTextureDesc;
   ann_cuTexObjectGetResourceViewDesc;
   ann_cuSurfObjectCreate;
   ann_cuSurfObjectDestroy;
   ann_cuSurfObjectGetResourceDesc;
   ann_cuTensorMapEncodeTiled;
   ann_cuTensorMapEncodeIm2col;
   ann_cuTensorMapReplaceAddress;
   ann_cuDeviceCanAccessPeer;
   ann_cuCtxEnablePeerAccess;
   ann_cuCtxDisablePeerAccess;
   ann_cuDeviceGetP2PAttribute;
   ann_cuGraphicsUnregisterResource;
   ann_cuGraphicsSubResourceGetMappedArray;
   ann_cuGraphicsResourceGetMappedMipmappedArray;
   ann_cuGraphicsResourceGetMappedPointer_v2;
   ann_cuGraphicsResourceSetMapFlags_v2;
   ann_cuGraphicsMapResources;
   ann_cuGraphicsUnmapResources;
   ann_cuLogsRegisterCallback;
   ann_cuLogsUnregisterCallback;
   ann_cuLogsCurrent;
   ann_cuLogsDumpToFile;
   ann_cuLogsDumpToMemory;
   ann_cuCoredumpGetAttributeGlobal;
   ann_cuCoredumpSetAttributeGlobal].
