(* ===== verification/Codegen.v ===== *)
(** * The code generator

    [codegen/codegen.py] turns an annotation into a list of marshalling operations
    ([codegen/ops.py]) and writes a client function and a handler from that list.  This file
    models the generator as functions into the language of [Stub]: [parse_annotation],
    [write_cuda_client] and [write_server_handler].  A result of [None] stands for an
    exception of the generator, and for what the language of [Stub] has no word for: strings
    that are returned, structures with arrays that are returned, [ALL] routing,
    [@crossservercopy], [@graphexecupdate], deferred copies and captured output.

    The body that a declaration may have around the generated call is its client call
    template ([client_templates.py]); [client_call_templates] has those of the functions of
    [StubClient].  [cuda.h] renames some declarations with macros: [renamed]. *)
From S2P Require Import Prelude Stub StubClient StubServer Annotations.
From Stdlib Require Import Ascii String.

(** ** Types *)

Definition is_const (t : string) : bool := String.prefix "const " t.

Definition unconst (t : string) : string :=
  if is_const t then String.substring 6 (String.length t - 6) t else t.

(** The type that a pointer type points to, as it is written. *)
Fixpoint pointee (t : string) : option string :=
  if String.eqb t " *" then Some EmptyString
  else if String.eqb t " **" then Some " *"%string
  else match t with
       | EmptyString => None
       | String a t => String a <$> pointee t
       end.

Definition is_pointer (t : string) : bool := bool_decide (is_Some (pointee t)).

(** [const T *] points to a constant, [const T **] does not. *)
Definition pointee_const (t : string) : bool :=
  match pointee t with Some u => is_const u && negb (is_pointer u) | None => false end.

Definition lower (a : ascii) : ascii :=
  let n := nat_of_ascii a in
  if (65 <=? n)%nat && (n <=? 90)%nat then ascii_of_nat (n + 32) else a.

Fixpoint lowercase (s : string) : string :=
  match s with EmptyString => EmptyString | String a s => String (lower a) (lowercase s) end.

Definition is_void (t : string) : bool := String.eqb (unconst t) "void".

(** ** Operations *)

(** The classes of [ops.py]; [t] is the type of the element that a pointer points to, for an
    opaque value its own type.  The length of an array is a number of bytes or a parameter
    with its type; [anchor] is the array that tells a query from a fill. *)
Inductive operation :=
| NullableOperation (send recv : bool) (x t : string)
| ArrayOperation (send recv : bool) (x t : string) (length : Z + string * string) (nullable : bool)
| InOutCountOperation (x t anchor : string)
| NullableArrayOperation (x t count count_type : string) (on_error : bool)
| DeepStructOperation (send recv : bool) (x t : string) (members : list (string * string))
| NullTerminatedOperation (send recv : bool) (x : string)
| OpaqueTypeOperation (send recv : bool) (x t : string)
| DereferenceOperation (send recv : bool) (x t : string).

#[export] Instance operation_eq_dec : EqDecision operation.
Proof. solve_decision. Defined.

Definition op_name (o : operation) : string :=
  match o with
  | NullableOperation _ _ x _ | ArrayOperation _ _ x _ _ _ | InOutCountOperation x _ _
  | NullableArrayOperation x _ _ _ _ | DeepStructOperation _ _ x _ _
  | NullTerminatedOperation _ _ x | OpaqueTypeOperation _ _ x _
  | DereferenceOperation _ _ x _ => x
  end.

Definition op_send (o : operation) : bool :=
  match o with
  | NullableOperation s _ _ _ | ArrayOperation s _ _ _ _ _ | DeepStructOperation s _ _ _ _
  | NullTerminatedOperation s _ _ | OpaqueTypeOperation s _ _ _ | DereferenceOperation s _ _ _ => s
  | InOutCountOperation _ _ _ | NullableArrayOperation _ _ _ _ _ => true
  end.

Definition op_recv (o : operation) : bool :=
  match o with
  | NullableOperation _ r _ _ | ArrayOperation _ r _ _ _ _ | DeepStructOperation _ r _ _ _
  | NullTerminatedOperation _ r _ | OpaqueTypeOperation _ r _ _ | DereferenceOperation _ r _ _ => r
  | InOutCountOperation _ _ _ => true
  | NullableArrayOperation _ _ _ _ _ => false
  end.

Definition sends (d : direction) : bool := match d with RECV_ONLY => false | _ => true end.
Definition receives (d : direction) : bool := match d with SEND_ONLY => false | _ => true end.

(** A declaration whose name [cuda.h] defines as a macro. *)
Definition renamed (name : string) (a : annotation) : annotation := {|
  an_function := name; an_signature := an_signature a; an_params := an_params a;
  an_routing := an_routing a; an_async := an_async a; an_owners := an_owners a;
  an_deep := an_deep a; an_tags := an_tags a; an_client := an_client a;
  an_server := an_server a; an_body := an_body a |}.

Section Parse.
Context (a : annotation).

Definition annotation_param (x : string) : option string :=
  snd <$> List.find (fun e => String.eqb e.1 x) (an_signature a).

Definition length_attribute (l : list attribute) : option string :=
  head (omap (fun k => match k with LENGTH n => Some n | _ => None end) l).
Definition size_attribute (l : list attribute) : option Z :=
  head (omap (fun k => match k with SIZE n => Some n | _ => None end) l).

Definition has (k : attribute) (l : list attribute) : bool := bool_decide (k ∈ l).

(** One [@param] line.  Of [LENGTH], [SIZE], [NULL_TERMINATED] and [NULLABLE] only [NULLABLE]
    and [LENGTH] go together; [DEREFERENCE] is not an argument that the generator knows. *)
Definition parse_param (p : param_annotation) : option operation :=
  let '(Param x d l) := p in
  t ← annotation_param x;
  match pointee t with
  | None => Some (OpaqueTypeOperation (sends d) (receives d) x t)
  | Some u =>
      let send := sends d in
      let recv := receives d && negb (pointee_const t) in
      let len := length_attribute l in
      let size := size_attribute l in
      let nullable := has NULLABLE l in
      let kinds := (Nat.b2n (bool_decide (is_Some len)) + Nat.b2n (bool_decide (is_Some size))
                    + Nat.b2n (has NULL_TERMINATED l) + Nat.b2n nullable)%nat in
      if (1 <? kinds)%nat
         && negb (nullable && bool_decide (is_Some len) && bool_decide (size = None)
                  && negb (has NULL_TERMINATED l))
      then None
      else if has DEREF l then Some (DereferenceOperation send recv x u)
      else
      match len, size with
      | Some n, _ =>
          nt ← annotation_param n;
          if nullable && send then
            if recv then None else Some (ArrayOperation true false x u (inr (n, nt)) true)
          else if nullable then
            if recv then Some (NullableArrayOperation x u n nt (has ON_ERROR l)) else None
          else Some (ArrayOperation send recv x u (inr (n, nt)) false)
      | None, Some k => Some (ArrayOperation send recv x u (inl k) false)
      | None, None =>
          if has NULL_TERMINATED l then
            if recv && (send || negb (bool_decide (pointee u = Some "const char"%string)))
            then None else Some (NullTerminatedOperation send recv x)
          else if nullable then Some (NullableOperation send recv x u)
          else if recv then
            if is_void u && negb (is_const u) then None else Some (DereferenceOperation send recv x u)
          else Some (OpaqueTypeOperation send recv x t)
      end
  end.

(** Applies [f] to the first element that it is defined on. *)
Fixpoint update_first {A} (f : A -> option A) (l : list A) : list A :=
  match l with
  | [] => []
  | x :: l => match f x with Some y => y :: l | None => x :: update_first f l end
  end.

(** The counts of optional arrays, each with the first array that it counts. *)
Definition anchors (ops : list operation) : list (string * string) :=
  fold_left (fun acc o =>
    match o with
    | NullableArrayOperation x _ n _ _ =>
        if existsb (fun e => String.eqb e.1 n) acc then acc else acc ++ [(n, x)]
    | _ => acc
    end) ops [].

Definition promote_count (ops : list operation) (e : string * string) : list operation :=
  update_first (fun o =>
    match o with
    | DereferenceOperation _ _ x t =>
        if String.eqb x e.1 then Some (InOutCountOperation x t e.2) else None
    | _ => None
    end) ops.

Definition promote_counts (ops : list operation) : list operation :=
  fold_left promote_count (anchors ops) ops.

(** [@deeparray] lines, grouped by their parameter. *)
Definition deep_arrays (x : string) : list (string * string) :=
  omap (fun '(y, m, n) => if String.eqb y x then Some (m, n) else None) (an_deep a).

Definition deep_params : list string :=
  fold_left (fun acc '(y, _, _) => if bool_decide (y ∈ acc) then acc else acc ++ [y]) (an_deep a) [].

Definition promote_deep (ops : list operation) (x : string) : list operation :=
  update_first (fun o =>
    if String.eqb (op_name o) x
    then Some (DeepStructOperation (op_send o) (op_recv o) x
                 (default EmptyString (t ← annotation_param x; pointee t)) (deep_arrays x))
    else None) ops.

(** An array is sized from another parameter, which has to be on the wire before it. *)
Definition hoist_at (ops : list operation) (i : nat) : list operation :=
  match ops !! i with
  | Some (ArrayOperation _ _ _ _ (inr (n, _)) _) =>
      match list_find (fun o => op_name o = n) ops with
      | Some (j, source) =>
          if (i <? j)%nat then take i ops ++ source :: drop i (delete j ops) else ops
      | None => ops
      end
  | _ => ops
  end.

Definition hoist (ops : list operation) : list operation :=
  fold_left hoist_at (seq 0 (List.length ops)) ops.

Definition parse_annotation : option (list operation) :=
  ops ← mapM parse_param (an_params a);
  Some (hoist (fold_left promote_deep deep_params (promote_counts ops))).
End Parse.

(** ** Names and expressions that both ends write *)

Definition local_of (x suffix : string) : string := String.append x suffix.
Definition nonzero (e : expr) : expr := Not (Eq e (Num 0)).
Definition flag (x suffix : string) : expr := Load "uint8_t" (Val (local_of x suffix)).
Definition size_local (x suffix : string) : expr := Load "size_t" (Val (local_of x suffix)).

(** [sizeof] of an element. *)
Definition element (t : string) : expr := SizeOf (unconst t).
Definition member_type (t m : string) : string :=
  String.append "*" (String.append (unconst t) (String.append "::" m)).

(** [transfer_size_expr] and [server_transfer_size_expr]: the count is [*n] at the client
    when it is a pointer, and a variable at the server. *)
Definition transfer_size (client : bool) (t : string) (length : Z + string * string) : expr :=
  match length with
  | inl k => Num k
  | inr (n, nt) =>
      let count :=
        match pointee nt with
        | Some u => Load (unconst u) (if client then Ref n else Val n)
        | None => Load nt (Val n)
        end in
      if is_void t then count else Mul count (element t)
  end.

Definition requested_count (n nt : string) : expr :=
  match pointee nt with
  | Some u => Load (unconst u) (Val (local_of n "_requested"))
  | None => Load nt (Val n)
  end.

(** [transfer_count_expr]. *)
Definition transfer_count (client : bool) (n nt : string) : expr :=
  match pointee nt with
  | Some u =>
      let returned := Load (unconst u) (if client then Ref n else Val n) in
      Cond (Lt returned (requested_count n nt)) returned (requested_count n nt)
  | None => requested_count n nt
  end.

(** ** The client function *)

Definition client_declaration (o : operation) : list guard :=
  match o with
  | OpaqueTypeOperation s _ x t =>
      if s && String.eqb (unconst t) "CUfunction" then [Translate (local_of x "_rpc") x] else []
  | InOutCountOperation x t anchor =>
      [Local (local_of x "_requested") (unconst t)
         (Cond (Not (IsNull (Ref anchor))) (Load (unconst t) (Ref x)) (Num 0))]
  | NullableArrayOperation x _ _ _ _ =>
      [Local (local_of x "_null") "uint8_t" (Cond (IsNull (Ref x)) (Num 1) (Num 0))]
  | NullableOperation _ _ x _ => [Local (local_of x "_present") "uint8_t" (Not (IsNull (Ref x)))]
  | DeepStructOperation s _ x t members =>
      Check (IsNull (Ref x)) CUDA_ERROR_INVALID_VALUE
      :: (if s then
            map (fun '(m, n) =>
              let count := Field (unconst t) n (Ref x) in
              Check (Or (Lt (Div (Num SIZE_MAX) (SizeOf (member_type t m))) count)
                        (And (nonzero count) (IsNull (Sub x m))))
                CUDA_ERROR_INVALID_VALUE) members
          else [])
  | _ => []
  end.

Definition client_length (o : operation) : list guard :=
  match o with
  | NullTerminatedOperation true _ x =>
      [Local (local_of x "_len") "size_t" (Add (Strlen (Ref x)) (Num 1))]
  | _ => []
  end.

Definition client_preflight (o : operation) : list guard :=
  match o with
  | ArrayOperation true _ x t (inr n) false =>
      [Check (And (nonzero (transfer_size true t (inr n))) (IsNull (Ref x))) CUDA_ERROR_INVALID_VALUE]
  | _ => []
  end.

Definition client_rpc_write (o : operation) : option (list step) :=
  match o with
  | NullableOperation _ _ x t =>
      Some [Write (Val (local_of x "_present")) (SizeOf "uint8_t");
            When (flag x "_present") (Write (Ref x) (element t))]
  | ArrayOperation s _ x t n nullable =>
      if negb s then Some []
      else if nullable then None
      else Some [Write (Ref x) (transfer_size true t n)]
  | InOutCountOperation x t _ => Some [Write (Val (local_of x "_requested")) (element t)]
  | NullableArrayOperation x _ _ _ _ => Some [Write (Val (local_of x "_null")) (SizeOf "uint8_t")]
  | DeepStructOperation s _ x t members =>
      Some (if s then
              Write (Ref x) (element t)
              :: map (fun '(m, n) =>
                   Write (Sub x m) (Mul (Field (unconst t) n (Ref x)) (SizeOf (member_type t m))))
                   members
            else [])
  | NullTerminatedOperation s _ x =>
      Some (if s then [Write (Val (local_of x "_len")) (SizeOf "size_t");
                       Write (Ref x) (size_local x "_len")]
            else [])
  | OpaqueTypeOperation s _ x t =>
      Some (if s then [Write (Val (if String.eqb (unconst t) "CUfunction" then local_of x "_rpc" else x))
                         (element t)]
            else [])
  | DereferenceOperation s _ x t => Some (if s then [Write (Ref x) (element t)] else [])
  end.

Definition client_rpc_read (o : operation) : option (list step) :=
  match o with
  | NullableOperation _ r x t =>
      Some (if r then [When (flag x "_present") (Read (Ref x) (element t))] else [])
  | ArrayOperation _ r x t n _ =>
      let e := transfer_size true t n in
      Some (if r then [When (nonzero e) (Read (Ref x) e)] else [])
  | InOutCountOperation x t _ => Some [Read (Ref x) (element t)]
  | NullableArrayOperation x t n nt on_error =>
      if on_error then None
      else
        let wanted := And (Not (IsNull (Ref x))) (nonzero (requested_count n nt)) in
        let present :=
          match pointee nt with
          | Some u => And wanted (nonzero (Load (unconst u) (Ref n)))
          | None => wanted
          end in
        Some [When present (Read (Ref x) (Mul (transfer_count true n nt) (element t)))]
  | DeepStructOperation _ r _ _ _ => if r then None else Some []
  | NullTerminatedOperation _ r _ => if r then None else Some []
  | OpaqueTypeOperation _ _ _ _ => Some []
  | DereferenceOperation _ r x t => Some (if r then [Read (Ref x) (element t)] else [])
  end.

(** ** The handler *)

Definition server_declaration (o : operation) : list local :=
  match o with
  | NullableOperation _ _ x t =>
      [Zeroed (local_of x "_present") "uint8_t"; Uninit x (unconst t)]
  | ArrayOperation s _ x _ _ nullable =>
      NullPtr x :: (if s then [Uninit (local_of x "_size") "size_t"] else [])
      ++ (if nullable then [Zeroed (local_of x "_null") "uint8_t"] else [])
  | InOutCountOperation x t _ => [Zeroed x (unconst t); Zeroed (local_of x "_requested") (unconst t)]
  | NullableArrayOperation x _ _ _ on_error =>
      [NullPtr x; Zeroed (local_of x "_null") "uint8_t"]
      ++ (if on_error then [Zeroed (local_of x "_has_data") "uint8_t"] else [])
  | DeepStructOperation _ _ x t _ => [Zeroed x (unconst t)]
  | NullTerminatedOperation _ _ x => [NullPtr x; Uninit (local_of x "_len") "size_t"]
  | OpaqueTypeOperation _ _ x t => [Uninit x (unconst t)]
  | DereferenceOperation _ _ x t => [Zeroed x (unconst t)]
  end.

(** A signed element count is rejected when it is negative, before its array is read. *)
Definition signed_length (o : operation) : list step :=
  match o with
  | ArrayOperation _ _ _ _ (inr (n, nt)) _ =>
      if String.eqb nt "int" then [Fail (Lt (Load "int" (Val n)) (Num 0))] else []
  | _ => []
  end.

Definition server_rpc_read (o : operation) : option (list step) :=
  match o with
  | NullableOperation _ _ x t =>
      Some [Read (Val (local_of x "_present")) (SizeOf "uint8_t");
            When (flag x "_present") (Read (Val x) (element t))]
  | ArrayOperation s _ x t n nullable =>
      let e := transfer_size false t n in
      let size := size_local x "_size" in
      if nullable then None
      else if negb s then
        Some [Alloc x e true; Fail (And (nonzero e) (IsNull (Ref x)))]
      else
        Some [Let (local_of x "_size") "size_t" e; Alloc x size false;
              Fail (And (nonzero size) (IsNull (Ref x)));
              When (nonzero size) (Read (Ref x) size)]
  | InOutCountOperation x t _ =>
      Some [Read (Val (local_of x "_requested")) (element t);
            Let x (unconst t) (Load (unconst t) (Val (local_of x "_requested")))]
  | NullableArrayOperation x t n nt _ =>
      let requested := requested_count n nt in
      let wanted := Not (flag x "_null") in
      Some [Read (Val (local_of x "_null")) (SizeOf "uint8_t");
            When wanted (Calloc x (Cond (nonzero requested) requested (Num 1)) (element t));
            Fail (And wanted (IsNull (Ref x)))]
  | DeepStructOperation s _ x t members =>
      Some (if s then
              Read (Val x) (element t)
              :: flat_map (fun '(m, n) =>
                   let buf := String.append x (String.append "_" (local_of m "_buf")) in
                   let count := Field (unconst t) n (Val x) in
                   let bytes := Mul count (SizeOf (member_type t m)) in
                   [Resize buf bytes; When (nonzero count) (Read (Ref buf) bytes); Bind x m buf])
                   members
            else [])
  | NullTerminatedOperation s _ x =>
      let len := size_local x "_len" in
      Some (if s then [Read (Val (local_of x "_len")) (SizeOf "size_t"); Alloc x len false;
                       Fail (And (nonzero len) (IsNull (Ref x))); Read (Ref x) len]
            else [])
  | OpaqueTypeOperation s _ x t | DereferenceOperation s _ x t =>
      Some (if s then [Read (Val x) (element t)] else [])
  end.

Definition server_reference (o : operation) : call_arg :=
  match o with
  | NullableOperation _ _ x _ => IfArg (flag x "_present") (AddrOf x [])
  | ArrayOperation _ _ x t n _ =>
      match n with
      | inl _ => BufPtr x
      | inr _ => UnlessZero (transfer_size false t n) (BufPtr x)
      end
  | InOutCountOperation x _ _ | DereferenceOperation _ _ x _ => AddrOf x []
  | NullableArrayOperation x _ _ _ _ => BufPtr x
  | DeepStructOperation _ _ x _ members => AddrOf x members.*1
  | NullTerminatedOperation _ _ x => BufPtr x
  | OpaqueTypeOperation _ _ x _ => ByVal x
  end.

Definition server_rpc_write (o : operation) : option (list step) :=
  match o with
  | NullableOperation _ r x t =>
      Some (if r then [When (flag x "_present") (Write (Val x) (element t))] else [])
  | ArrayOperation _ r x t n _ =>
      Some (if r then [Write (Ref x) (transfer_size false t n)] else [])
  | InOutCountOperation x t _ => Some [Write (Val x) (element t)]
  | NullableArrayOperation x t n nt on_error =>
      if on_error then None
      else Some [When (Not (flag x "_null"))
                   (Write (Ref x) (Mul (transfer_count false n nt) (element t)))]
  | DeepStructOperation s r x t members =>
      Some (if r then
              Write (Val x) (element t)
              :: (if s then []
                  else map (fun '(m, n) =>
                         Write (Sub x m) (Mul (Field (unconst t) n (Val x)) (SizeOf (member_type t m))))
                         members)
            else [])
  | NullTerminatedOperation _ r _ => if r then None else Some []
  | OpaqueTypeOperation _ _ _ _ => Some []
  | DereferenceOperation _ r x t => Some (if r then [Write (Val x) (element t)] else [])
  end.

(** ** Functions *)

Section Generator.
Context (a : annotation).

(** [client_record_owner_stmt]: the kinds of handles that route a call, and the routing key. *)
Definition handle_kinds : list (string * string) :=
  [("CUdevice", "DEVICE"); ("CUcontext", "CONTEXT"); ("CUmodule", "MODULE");
   ("CUlibrary", "LIBRARY"); ("CUfunction", "FUNCTION"); ("CUstream", "STREAM");
   ("CUevent", "EVENT"); ("CUmemoryPool", "MEMORY_POOL"); ("CUgraph", "GRAPH");
   ("CUgraphNode", "GRAPH_NODE"); ("CUgraphExec", "GRAPH_EXEC"); ("CUdeviceptr", "DEVICEPTR")]%string.

Definition infer_routing_key : option (string * string) :=
  head (omap (fun '(x, t) =>
    k ← List.find (fun e => String.eqb e.1 t) handle_kinds; Some (k.2, x)) (an_signature a)).

Definition routing_key : option (string * string) :=
  match an_routing a with Some k => Some k | None => infer_routing_key end.

Definition routing_fallback : option (string * string) :=
  head (omap (fun t => match t with RoutingFallback k x => Some (k, x) | _ => None end) (an_tags a)).

Definition selector (k x : string) : route_key :=
  if String.eqb k "CURRENT_CONTEXT" then ForCurrentContext
  else if String.eqb k "DEVICE" then ForDevice x
  else ForOwner (lowercase k) x.

Definition client_routing_key_expr : option route_key :=
  match routing_key with
  | None => Some ForDefault
  | Some (k, x) =>
      if String.eqb k "ALL" then None
      else if String.eqb k "STREAM" then
        Some (IfHandle x (ForOwner "stream" x)
                (match routing_fallback with Some (k, y) => selector k y | None => ForDefault end))
      else Some (selector k x)
  end.

Definition succeeded : expr := Eq (Load "CUresult" (Val "return_value")) (Num 0).

Definition client_record_owner_stmt (o : string * string) : action :=
  let '(k, x) := o in
  let fn := String.append "lupine_note_" (String.append (lowercase k) "_owner_route") in
  if is_pointer (default EmptyString (annotation_param a x))
  then After (And succeeded (Not (IsNull (Ref x)))) false fn [ArgVal (Ref x); Route]
  else After succeeded false fn [ArgVal (Val x); Route].

Definition parent_stmt (t : tag) : list action :=
  match t with
  | RecordParent [k; child; parent] =>
      [After (And succeeded (Not (IsNull (Ref child)))) false "lupine_record_library_module"
         [ArgVal (Ref child); ArgVal (Val parent)]]
  | _ => []
  end.

Definition release_stmt (t : tag) : list action :=
  match t with
  | Release [k; x] =>
      [After succeeded false
         (String.append "lupine_release_" (String.append (lowercase k) "_retained_strings"))
         [ArgVal (Val x)]]
  | _ => []
  end.

Definition synchronize_stmt (t : tag) : list action :=
  match t with
  | Synchronize _ => [After succeeded true "lupine_sync_mapped_device_to_host" []]
  | _ => []
  end.

(** The client call templates of the functions of [StubClient]: what the body of a
    declaration does after the generated call. *)
Definition client_call_templates : list (string * list action) :=
  let noted x := And succeeded (Not (IsNull (Ref x))) in
  [("cuCtxSetCacheConfig", [After succeeded false "lupine_disable_local_occupancy" []]);
   ("cuCtxDetach", [After succeeded false "lupine_invalidate_current_context_cache" []]);
   ("cuMemFreeAsync", [After succeeded false "lupine_forget_deviceptr_owner" [ArgVal (Val "dptr")]]);
   ("cuMemAllocAsync",
     [After (noted "dptr") false "lupine_note_deviceptr_allocation_route"
        [ArgVal (Ref "dptr"); ArgVal (Val "bytesize"); Route]]);
   ("cuMemAllocFromPoolAsync",
     [After (noted "dptr") false "lupine_note_deviceptr_allocation_route"
        [ArgVal (Ref "dptr"); ArgVal (Val "bytesize"); Route]]);
   ("cuStreamDestroy_v2", [After succeeded false "lupine_forget_stream_owner" [ArgVal (Val "hStream")]]);
   ("cuFuncSetCacheConfig", [After succeeded false "lupine_disable_local_occupancy" []]);
   ("cuGraphDestroyNode", [After succeeded false "lupine_deep_node_cache_reset" [ArgVal (Val "hNode")]]);
   ("cuGreenCtxDestroy", [After succeeded false "lupine_forget_destroyed_context" [ArgVal (Val "hCtx")]]);
   ("cuCtxFromGreenCtx", [After (noted "pContext") false "lupine_mark_context_green" [ArgVal (Ref "pContext")]])]%string.

Definition client_call_template : option (list action) :=
  if an_body a
  then snd <$> List.find (fun e => String.eqb e.1 (an_function a)) client_call_templates
  else Some [].

(** [write_client_post_call], with the statements [after] of the client call template. *)
Definition client_post_call (after : list action) : list action :=
  map client_record_owner_stmt (an_owners a)
  ++ flat_map parent_stmt (an_tags a) ++ flat_map release_stmt (an_tags a)
  ++ after ++ flat_map synchronize_stmt (an_tags a).

(** Parameters as the function declares them: a pointer that is sent as a value is one. *)
Definition client_param (ops : list operation) (e : string * string) : param :=
  let '(x, t) := e in
  match List.find (fun o => String.eqb (op_name o) x) ops with
  | Some (OpaqueTypeOperation _ _ _ _) | None => ByValue x (unconst t)
  | Some (DeepStructOperation _ _ _ _ members) => Pointer x members.*1
  | Some _ => Pointer x []
  end.

(** Tags whose code is outside the language of stubs. *)
Definition client_tag (t : tag) : bool :=
  match t with
  | Synchronize what => bool_decide (what = [])
  | CrossServerCopy _ | Retain _ => false
  | _ => true
  end.

Definition server_tag (t : tag) : bool :=
  match t with
  | Synchronize what => bool_decide (what = [])
  | GraphExecUpdate _ _ _ => false
  | _ => true
  end.

Definition write_cuda_client : option client_stub :=
  if negb (an_client a && forallb client_tag (an_tags a)) then None
  else
    ops ← parse_annotation a;
    after ← client_call_template;
    route ← client_routing_key_expr;
    writes ← mapM client_rpc_write ops;
    reads ← mapM client_rpc_read ops;
    Some {|
      c_name := an_function a;
      c_params := map (client_param ops) (an_signature a);
      c_route := route;
      c_local := client_post_call after;
      c_guards := flat_map client_declaration ops ++ flat_map client_length ops
                  ++ flat_map client_preflight ops
                  ++ (if an_async a then [Sequence "async_sequence"] else []);
      c_async := an_async a;
      c_request := (if an_async a then [Write (Val "async_sequence") (SizeOf "uint64_t")] else [])
                   ++ mjoin writes;
      c_response := if an_async a then []
                    else mjoin reads ++ [Read (Val "return_value") (SizeOf "CUresult")];
      c_after := client_post_call after |}.

Definition graph_exec_node (t : tag) : list (string * string * string * string) :=
  match t with
  | GraphExecNode exec node => [(node, "lupine_htod_graph_exec_node", exec, node)]%string
  | _ => []
  end.

Definition server_argument (ops : list operation) (e : string * string) : option call_arg :=
  server_reference <$> List.find (fun o => String.eqb (op_name o) e.1) ops.

Definition write_server_handler : option handler :=
  if negb (an_server a && forallb server_tag (an_tags a)) then None
  else
    ops ← parse_annotation a;
    reads ← mapM (fun o => app (signed_length o) <$> server_rpc_read o) ops;
    args ← mapM (server_argument ops) (an_signature a);
    writes ← mapM server_rpc_write ops;
    Some {|
      h_name := an_function a;
      h_locals := flat_map server_declaration ops
                  ++ (if an_async a then [Zeroed "async_sequence" "uint64_t"] else []);
      h_async := an_async a;
      h_reads := (if an_async a then [Read (Val "async_sequence") (SizeOf "uint64_t")] else [])
                 ++ mjoin reads;
      h_rewrites := flat_map graph_exec_node (an_tags a);
      h_call := args;
      h_reply := if an_async a then []
                 else mjoin writes ++ [Write (Val "return_value") (SizeOf "CUresult")] |}.
End Generator.

(** ** The order on the wire *)

Definition is_array (o : operation) : Prop :=
  match o with ArrayOperation _ _ _ _ _ _ => True | _ => False end.

Definition array_length (o : operation) : option string :=
  match o with ArrayOperation _ _ _ _ (inr (n, _)) _ => Some n | _ => None end.

(** Below [k], the parameter that sizes an array comes before the array. *)
Definition sized_below (k : nat) (ops : list operation) : Prop :=
  forall i o n j source, (i < k)%nat -> ops !! i = Some o -> array_length o = Some n ->
    ops !! j = Some source -> op_name source = n -> (j < i)%nat.

(** Names are distinct and what sizes an array is not an array. *)
Definition scalar_lengths (ops : list operation) : Prop :=
  NoDup (map op_name ops) /\
  forall o n source, o ∈ ops -> array_length o = Some n -> source ∈ ops -> op_name source = n ->
    array_length source = None.

Lemma scalar_lengths_perm ops ops' : ops ≡ₚ ops' -> scalar_lengths ops -> scalar_lengths ops'.
Proof.
  intros P [N S]. split; [by rewrite <- P |].
  intros o n source Ho Hn Hs E. rewrite <- P in Ho, Hs. by eapply (S o n source).
Qed.

Lemma name_position ops i j o o' : NoDup (map op_name ops) ->
  ops !! i = Some o -> ops !! j = Some o' -> op_name o = op_name o' -> i = j.
Proof.
  intros N Hi Hj E. eapply (NoDup_lookup _ _ _ (op_name o)); [exact N | |].
  - by rewrite list_lookup_fmap, Hi.
  - by rewrite list_lookup_fmap, Hj, E.
Qed.

Lemma hoist_at_eq ops i o n j source : ops !! i = Some o -> array_length o = Some n ->
  list_find (fun o => op_name o = n) ops = Some (j, source) ->
  hoist_at ops i = if (i <? j)%nat then take i ops ++ source :: drop i (delete j ops) else ops.
Proof.
  intros Hi Hn Hf. unfold hoist_at. rewrite Hi.
  destruct o; try discriminate. destruct length as [|[n' nt]]; try discriminate.
  simpl in Hn. simplify_eq. by rewrite Hf.
Qed.

Lemma move_perm {A} (l : list A) i j x : l !! j = Some x -> (i < j)%nat ->
  take i l ++ x :: drop i (delete j l) ≡ₚ l.
Proof.
  intros Hj Hij. rewrite <- Permutation_middle.
  assert (take i l = take i (delete j l)) as ->.
  { rewrite delete_take_drop, take_app_le by (rewrite length_take; apply lookup_lt_Some in Hj; lia).
    rewrite take_take. f_equal. lia. }
  rewrite take_drop. symmetry. by apply delete_Permutation.
Qed.

(** One position further: either the source is already before it, or it comes to [i]. *)
Lemma hoist_at_sized ops i : scalar_lengths ops -> sized_below i ops ->
  hoist_at ops i ≡ₚ ops /\ sized_below (S i) (hoist_at ops i).
Proof.
  intros [N S] B.
  assert (Stay : (forall o n j source, ops !! i = Some o -> array_length o = Some n ->
            ops !! j = Some source -> op_name source = n -> (j < i)%nat) -> sized_below (Datatypes.S i) ops).
  { intros H i' o n j source Hi' Ho Hn Hs E.
    destruct (decide (i' = i)) as [-> |]; [by eapply H | eapply B; eauto; lia]. }
  destruct (ops !! i) as [o |] eqn:Hi; cycle 1.
  { unfold hoist_at. rewrite Hi. split; [done |]. apply Stay. congruence. }
  destruct (array_length o) as [n |] eqn:Hn; cycle 1.
  { assert (hoist_at ops i = ops) as ->.
    { unfold hoist_at. rewrite Hi. destruct o as [| ? ? ? ? [|[]] | | | | | |]; done. }
    split; [done |]. apply Stay. congruence. }
  destruct (list_find (fun o => op_name o = n) ops) as [[j source] |] eqn:Hf; cycle 1.
  { assert (hoist_at ops i = ops) as ->.
    { unfold hoist_at. rewrite Hi. destruct o; try done. destruct length as [|[]]; try done.
      simpl in Hn. simplify_eq. by rewrite Hf. }
    split; [done |]. apply Stay. intros o' n' j source Ho' Hn' Hs E. simplify_eq.
    apply list_find_None in Hf. rewrite Forall_lookup in Hf. by destruct (Hf _ _ Hs). }
  rewrite (hoist_at_eq _ _ _ _ _ _ Hi Hn Hf).
  apply list_find_Some in Hf as (Hj & E & _).
  destruct (Nat.ltb_spec i j) as [Hij | Hij]; cycle 1.
  { split; [done |]. apply Stay. intros o' n' j' source' Ho' Hn' Hs E'. simplify_eq.
    assert (j' = j) as -> by (eapply name_position; eauto; congruence).
    destruct (decide (j = i)) as [-> |]; [| lia]. simplify_eq.
    apply list_elem_of_lookup_2 in Hi as Hin.
    assert (array_length o' = None) by by eapply (S o' _ o'). congruence. }
  split; [by apply move_perm |].
  assert (Hl : List.length (take i ops) = i) by (rewrite length_take; apply lookup_lt_Some in Hj; lia).
  assert (N' : NoDup (map op_name (take i ops ++ source :: drop i (delete j ops))))
    by (rewrite move_perm by done; done).
  assert (At : forall k, (k < i)%nat -> (take i ops ++ source :: drop i (delete j ops)) !! k = ops !! k).
  { intros k Hk. rewrite lookup_app_l by lia. by rewrite lookup_take_lt. }
  intros i' o' n' j' source' Hi' Ho' Hn' Hs E'.
  destruct (decide (i' = i)) as [-> |].
  { rewrite lookup_app_r, Hl, Nat.sub_diag in Ho' by lia. simpl in Ho'. simplify_eq.
    assert (array_length o' = None); [| congruence].
    eapply (S o (op_name o') o'); eauto using list_elem_of_lookup_2. }
  rewrite At in Ho' by lia.
  assert (exists j0, ops !! j0 = Some source') as [j0 Hj0].
  { apply list_elem_of_lookup_1. rewrite <- (move_perm ops i j source Hj Hij).
    by eapply list_elem_of_lookup_2. }
  assert ((j0 < i')%nat) by (eapply (B i'); eauto; lia).
  assert (j' = j0) as ->; [| done].
  eapply name_position; [exact N' | exact Hs | rewrite At by lia; exact Hj0 | done].
Qed.

Lemma hoist_from ops i n : scalar_lengths ops -> sized_below i ops ->
  fold_left hoist_at (seq i n) ops ≡ₚ ops /\
  sized_below (i + n) (fold_left hoist_at (seq i n) ops).
Proof.
  revert ops i. induction n as [|n IH]; intros ops i HS HB; simpl.
  - rewrite Nat.add_0_r. done.
  - destruct (hoist_at_sized ops i HS HB) as [P B].
    destruct (IH (hoist_at ops i) (S i)) as [P' B']; [by eapply scalar_lengths_perm | done |].
    split; [by rewrite P', P | by rewrite Nat.add_succ_r].
Qed.

(** The parameter that sizes an array is on the wire before the array: for operations
    with distinct names whose lengths are not arrays, [hoist] keeps the operations, and in
    its result no array comes before its length, wherever the annotation put the two. *)
Theorem hoist_sizes_first (ops : list operation) (HS : scalar_lengths ops) :
  hoist ops ≡ₚ ops /\
  forall i j o n source, hoist ops !! i = Some o -> array_length o = Some n ->
    hoist ops !! j = Some source -> op_name source = n -> (j < i)%nat.
Proof.
  destruct (hoist_from ops 0 (List.length ops) HS) as [P B]; [intros ?; lia |].
  split; [exact P |]. intros i j o n source Hi Hn Hj E. eapply B; eauto.
  apply lookup_lt_Some in Hi. unfold hoist in Hi. rewrite P in Hi. lia.
Qed.

(** [cuSignalExternalSemaphoresAsync]: two arrays and then their count. *)
Definition semaphore_operations : list operation :=
  default [] (mapM (parse_param ann_cuSignalExternalSemaphoresAsync)
                (an_params ann_cuSignalExternalSemaphoresAsync)).

Lemma hoist_sizes_first_witness :
  map op_name semaphore_operations = ["extSemArray"; "paramsArray"; "numExtSems"; "stream"] /\
  map op_name (hoist semaphore_operations) = ["numExtSems"; "extSemArray"; "paramsArray"; "stream"] /\
  hoist semaphore_operations ≡ₚ semaphore_operations.
Proof.
  split; [vm_compute; reflexivity |]. split; [vm_compute; reflexivity |].
  refine (proj1 (hoist_sizes_first semaphore_operations _)).
  split; [apply (bool_decide_unpack _); vm_compute; reflexivity |].
  intros o n source Ho Hn Hs E.
  assert (H : Forall (fun o => Forall (fun source => array_length o = Some (op_name source) ->
              array_length source = None) semaphore_operations) semaphore_operations)
    by (apply (bool_decide_unpack _); vm_compute; reflexivity).
  rewrite Forall_forall in H. specialize (H o Ho). rewrite Forall_forall in H.
  apply (H source Hs). congruence.
Defined.

(** ** The functions that are checked in *)

(** The annotation of a function: [cuda.h] declares [f_v2] as [f]. *)
Definition annotates (name : string) (a : annotation) : bool :=
  String.eqb name (an_function a) || String.eqb name (String.append (an_function a) "_v2").

Definition client_generated (c : client_stub) : bool :=
  existsb (fun a => if annotates (c_name c) a
                    then bool_decide (write_cuda_client (renamed (c_name c) a) = Some c)
                    else false) annotations.

Definition handler_generated (h : handler) : bool :=
  existsb (fun a => if annotates (h_name h) a
                    then bool_decide (write_server_handler (renamed (h_name h) a) = Some h)
                    else false) annotations.

Lemma clients_generated : forallb client_generated client_stubs = true.
Proof. by vm_cast_no_check (@eq_refl bool true). Qed.

Lemma handlers_generated : forallb handler_generated handlers = true.
Proof. by vm_cast_no_check (@eq_refl bool true). Qed.

Lemma generated_from `{EqDecision A} (name : string) (f : annotation -> option A) (v : A) :
  existsb (fun a => if annotates name a
                    then bool_decide (f a = Some v)
                    else false) annotations = true ->
  exists a, a ∈ annotations /\ annotates name a = true /\ f a = Some v.
Proof.
  intros H. apply existsb_exists in H as (a & Ha & H). destruct (annotates name a) eqn:N; [| done].
  apply bool_decide_eq_true in H. exists a. rewrite list_elem_of_In. done.
Qed.

(** C7: The checked-in client functions and handlers are what the generator makes of the
    annotations: each of the 243 client functions of [StubClient] is [write_cuda_client], and
    each of the 309 handlers of [StubServer] is [write_server_handler], of an annotation of
    that name in [annotations_cuda.h], field by field: parameters, routing, guards, the order
    of the fields on the wire, the driver's arguments and the bookkeeping. *)
Theorem checked_in_code_is_generated :
  (forall c, c ∈ client_stubs -> exists a, a ∈ annotations /\ annotates (c_name c) a = true /\
     write_cuda_client (renamed (c_name c) a) = Some c) /\
  (forall h, h ∈ handlers -> exists a, a ∈ annotations /\ annotates (h_name h) a = true /\
     write_server_handler (renamed (h_name h) a) = Some h).
Proof.
  split; intros f Hf; apply list_elem_of_In in Hf.
  - pose proof clients_generated as H. rewrite forallb_forall in H.
    apply (generated_from (c_name f) (fun a => write_cuda_client (renamed (c_name f) a))), H, Hf.
  - pose proof handlers_generated as H. rewrite forallb_forall in H.
    apply (generated_from (h_name f) (fun a => write_server_handler (renamed (h_name f) a))), H, Hf.
Qed.

(** Both ends of [cuGraphGetEdges_v2]. *)
Lemma checked_in_code_is_generated_witness :
  (exists a, a ∈ annotations /\ annotates "cuGraphGetEdges_v2" a = true /\
     write_cuda_client (renamed "cuGraphGetEdges_v2" a) = Some cuGraphGetEdges_v2) /\
  (exists a, a ∈ annotations /\ annotates "cuGraphGetEdges_v2" a = true /\
     write_server_handler (renamed "cuGraphGetEdges_v2" a) = Some handle_cuGraphGetEdges_v2).
Proof.
  split.
  - apply (proj1 checked_in_code_is_generated cuGraphGetEdges_v2).
    apply (bool_decide_unpack _). vm_compute. exact I.
  - apply (proj2 checked_in_code_is_generated handle_cuGraphGetEdges_v2).
    apply (bool_decide_unpack _). vm_compute. exact I.
Defined.
