(* ===== verification/DtohPipe.v ===== *)
(** * Device-to-host copies

    A copy from device memory to pageable memory of the client.  The server
    ([cuda_server_memcpy.cpp]) answers with chunks, each led by its result: a large copy
    through two pinned slots, so that the DMA of one chunk overlaps the sending of the one
    before it, and otherwise, or when the pipeline cannot be set up, one chunk after the
    other.  The client ([cuda_client_memcpy.cpp]) puts the chunks together.

    What the driver and the connection do is a script of answers, one for each call: a
    result, whether a rejected copy was queued nevertheless, and how many queued DMAs come
    to their end meanwhile; DMAs of a stream end in order.  The theorems hold for every
    script.  The chunk size is a parameter, which the code sets to
    [LUPINE_RPC_TRANSFER_CHUNK_BYTES]. *)
From S2P Require Import Prelude.

Definition CUDA_SUCCESS : Z := 0.
Definition CUDA_ERROR_OUT_OF_MEMORY : Z := 2.
Definition CUDA_ERROR_DEVICE_UNAVAILABLE : Z := 46.
Definition LUPINE_RPC_TRANSFER_CHUNK_BYTES : Z := 4 * 1024 * 1024.
Definition LUPINE_DTOH_PIPELINE_SLOT_COUNT : nat := 2.

Record answer := Answer { a_result : Z; a_queued : bool; a_landed : nat }.

(** A DMA of [d_bytes] bytes at [d_offset] of the source into a slot. *)
Record dma := Dma { d_slot : nat; d_offset : nat; d_bytes : nat }.

Inductive pinned_storage := Unallocated | Live | Freed.

(** [recorded i]: how many DMAs the event of slot [i] waits for.  [stray]: a DMA ended after
    its slot had been freed.  [responses]: the response frames sent. *)
Record world := World {
  script : list answer;
  submitted : list dma;
  landed : nat;
  pinned : list (list byte);
  recorded : nat -> nat;
  store : pinned_storage;
  stray : bool;
  responses : list (Z * list byte) }.

Definition M (A : Type) : Type := world -> A * world.
#[export] Instance M_ret : MRet M := fun A x w => (x, w).
#[export] Instance M_bind : MBind M := fun A B f m w => let '(x, w') := m w in f x w'.

(** [lupine_dtoh_pipeline_slot]; its data is the slot of the same index. *)
Record slot := Slot {
  s_offset : nat;
  s_bytes : nat;
  in_flight : bool;
  event_recorded : bool }.

Definition empty_slot : slot := Slot 0 0 false false.

Section Server.
Context (K : nat) (data : list byte).

Definition bytes : nat := length data.

(** ** The driver and the connection *)

Definition segment (offset n : nat) : list byte := take n (drop offset data).

Definition land (w : world) : world :=
  match submitted w !! landed w with
  | None => w
  | Some d =>
      World (script w) (submitted w) (S (landed w))
        (alter (fun buf => segment (d_offset d) (d_bytes d) ++ drop (d_bytes d) buf) (d_slot d) (pinned w))
        (recorded w) (store w)
        (stray w || match store w with Live => false | _ => true end) (responses w)
  end.

Fixpoint land_n (n : nat) (w : world) : world :=
  match n with O => w | S n => land_n n (land w) end.

Definition land_to (n : nat) (w : world) : world := land_n (n - landed w) w.

Definition ask : M answer := fun w =>
  match script w with
  | [] => (Answer 0 true 0, w)
  | a :: s =>
      (a, land_n (a_landed a)
            (World s (submitted w) (landed w) (pinned w) (recorded w) (store w) (stray w) (responses w)))
  end.

Definition modify (f : world -> world) : M unit := fun w => (tt, f w).

Definition set_store (s : pinned_storage) (w : world) : world :=
  World (script w) (submitted w) (landed w) (pinned w) (recorded w) s (stray w) (responses w).

Definition cuMemAllocHost : M Z :=
  a ← ask;
  if a_result a =? CUDA_SUCCESS then modify (set_store Live) ;; mret CUDA_SUCCESS
  else mret (a_result a).

Definition cuMemFreeHost : M Z :=
  a ← ask;
  if a_result a =? CUDA_SUCCESS then modify (set_store Freed) ;; mret CUDA_SUCCESS
  else mret (a_result a).

Definition cuEventCreate : M Z := a ← ask; mret (a_result a).

(** An error may come from earlier work: the copy can have been queued with it. *)
Definition cuMemcpyDtoHAsync_v2 (i offset n : nat) : M Z :=
  a ← ask;
  (if (a_result a =? CUDA_SUCCESS) || a_queued a
   then modify (fun w => World (script w) (submitted w ++ [Dma i offset n]) (landed w) (pinned w)
                           (recorded w) (store w) (stray w) (responses w))
   else mret tt : M unit) ;;
  mret (a_result a).

Definition cuEventRecord (i : nat) : M Z :=
  a ← ask;
  if a_result a =? CUDA_SUCCESS
  then modify (fun w => World (script w) (submitted w) (landed w) (pinned w)
                          (fun i' => if (i' =? i)%nat then length (submitted w) else recorded w i')
                          (store w) (stray w) (responses w)) ;;
       mret CUDA_SUCCESS
  else mret (a_result a).

Definition cuEventSynchronize (i : nat) : M Z :=
  a ← ask;
  if a_result a =? CUDA_SUCCESS
  then modify (fun w => land_to (recorded w i) w) ;; mret CUDA_SUCCESS
  else mret (a_result a).

Definition cuStreamSynchronize : M Z :=
  a ← ask;
  if a_result a =? CUDA_SUCCESS
  then modify (fun w => land_to (length (submitted w)) w) ;; mret CUDA_SUCCESS
  else mret (a_result a).

(** ** Responses *)

Definition respond (result : Z) (payload : list byte) : M Z :=
  a ← ask;
  if a_result a =? 0
  then modify (fun w => World (script w) (submitted w) (landed w) (pinned w) (recorded w) (store w)
                          (stray w) (responses w ++ [(result, payload)])) ;;
       mret 0
  else mret (-1).

Definition lupine_write_dtoh_chunk_response (result : Z) (payload : list byte) : M Z :=
  respond result (if result =? CUDA_SUCCESS then payload else []).

(** ** One chunk after the other *)

(** The copy into pageable memory has landed when it returns; [cuMemcpyDtoHAsync_v2] on
    pageable memory is not queued. *)
Definition copy_chunk (offset n : nat) : M (Z * list byte) :=
  a ← ask; mret (a_result a, segment offset n).

Fixpoint write_dtoh_chunks (fuel : nat) (staging_size offset : nat) : M (option Z) :=
  match fuel with
  | O => mret None
  | S fuel =>
      let chunk := Nat.min (bytes - offset) staging_size in
      '(result, payload) ← copy_chunk offset chunk;
      sent ← lupine_write_dtoh_chunk_response result payload;
      if sent <? 0 then mret (Some (-1))
      else if negb (result =? CUDA_SUCCESS) then mret (Some 0)
      else if (offset + chunk <? bytes)%nat then write_dtoh_chunks fuel staging_size (offset + chunk)
      else mret (Some 0)
  end.

Definition lupine_write_dtoh_chunks (offset : nat) : M (option Z) :=
  if (bytes <? offset)%nat then mret (Some (-1))
  else
    let staging_size := Nat.min (bytes - offset) K in
    a ← ask;
    if negb (a_result a =? 0) then
      sent ← lupine_write_dtoh_chunk_response CUDA_ERROR_OUT_OF_MEMORY [];
      mret (Some sent)
    else write_dtoh_chunks (S bytes) staging_size offset.

Definition lupine_copy_dtoh_serial (offset : nat) : M (option Z) := lupine_write_dtoh_chunks offset.

(** ** The pipeline *)

Fixpoint wait_slots (i : nat) (slots : list slot) : M (Z * bool) :=
  match slots with
  | [] => mret (CUDA_SUCCESS, true)
  | s :: slots =>
      if negb (in_flight s) || negb (event_recorded s) then wait_slots (S i) slots
      else
        result ← cuEventSynchronize i;
        if result =? CUDA_SUCCESS then wait_slots (S i) slots
        else
          stream_result ← cuStreamSynchronize;
          mret (result, stream_result =? CUDA_SUCCESS)
  end.

Definition lupine_cleanup_dtoh_pipeline (slots : list slot) (synchronize_stream : bool) : M Z :=
  let synchronize_stream :=
    synchronize_stream || existsb (fun s => in_flight s && negb (event_recorded s)) slots in
  '(completion_result, completion_confirmed) ←
    (if synchronize_stream
     then result ← cuStreamSynchronize; mret (result, result =? CUDA_SUCCESS)
     else wait_slots 0 slots) : M (Z * bool);
  (if completion_confirmed : bool then cuMemFreeHost else mret 0 : M Z) ;;
  mret completion_result.

(** The result, whether recording the event failed, and the slots. *)
Definition submit (i offset : nat) (slots : list slot) : M (Z * bool * list slot) :=
  let n := Nat.min K (bytes - offset) in
  let slots := <[i := Slot offset n true false]> slots in
  result ← cuMemcpyDtoHAsync_v2 i offset n;
  if negb (result =? CUDA_SUCCESS) then mret (result, false, slots)
  else
    record ← cuEventRecord i;
    if negb (record =? CUDA_SUCCESS) then mret (CUDA_SUCCESS, true, slots)
    else mret (CUDA_SUCCESS, false, <[i := Slot offset n true true]> slots).

(** [Done]: the return value; [Fallback]: 1, and the offset at which the serial copy resumes. *)
Inductive pipelined := Done (code : Z) | Fallback (offset : nat).

(** Gives up after a failed event: drains the stream, and falls back or reports. *)
Definition abandon (slots : list slot) (sent_offset : nat) : M pipelined :=
  cleanup ← lupine_cleanup_dtoh_pipeline slots true;
  if negb (cleanup =? CUDA_SUCCESS)
  then code ← lupine_write_dtoh_chunk_response cleanup []; mret (Done code)
  else mret (Fallback sent_offset).

(** The loop that fills the slots: the slots, how much is submitted and the error that is to
    be reported at an offset, or the end of the copy. *)
Inductive primed :=
| Primed (slots : list slot) (submitted_offset : nat) (terminal_error : option (nat * Z))
| Ended (p : pipelined).

Fixpoint prime (todo : list nat) (slots : list slot) (submitted_offset : nat) : M primed :=
  match todo with
  | [] => mret (Primed slots submitted_offset None)
  | i :: todo =>
      if (submitted_offset =? bytes)%nat then mret (Primed slots submitted_offset None)
      else
        '(result, event_record_failed, slots) ← submit i submitted_offset slots;
        if event_record_failed : bool then p ← abandon slots 0; mret (Ended p)
        else if negb (result =? CUDA_SUCCESS)
        then mret (Primed slots submitted_offset (Some (submitted_offset, result)))
        else prime todo slots (submitted_offset + Nat.min K (bytes - submitted_offset))
  end.

Definition slot_of (offset : nat) : nat := ((offset / K) mod LUPINE_DTOH_PIPELINE_SLOT_COUNT)%nat.

(** One turn of the loop that sends what has landed. *)
Inductive turn :=
| Again (slots : list slot) (sent_offset submitted_offset : nat) (terminal_error : option (nat * Z))
| Stop (p : pipelined).

(** After a slot has been sent it takes the next chunk. *)
Definition refill (i : nat) (slots : list slot) (sent_offset submitted_offset : nat)
    (terminal_error : option (nat * Z)) : M turn :=
  if (submitted_offset <? bytes)%nat && bool_decide (terminal_error = None) then
    '(result, event_record_failed, slots) ← submit i submitted_offset slots;
    if event_record_failed : bool then p ← abandon slots sent_offset; mret (Stop p)
    else if negb (result =? CUDA_SUCCESS)
    then mret (Again slots sent_offset submitted_offset (Some (submitted_offset, result)))
    else mret (Again slots sent_offset (submitted_offset + Nat.min K (bytes - submitted_offset)) None)
  else mret (Again slots sent_offset submitted_offset terminal_error).

Definition send_slot (i : nat) (s : slot) (slots : list slot) (sent_offset submitted_offset : nat)
    (terminal_error : option (nat * Z)) : M turn :=
  result ← cuEventSynchronize i;
  if negb (result =? CUDA_SUCCESS) then
    write_result ← lupine_write_dtoh_chunk_response result [];
    lupine_cleanup_dtoh_pipeline slots true ;; mret (Stop (Done write_result))
  else
    w ← (fun w => (w, w));
    sent ← lupine_write_dtoh_chunk_response CUDA_SUCCESS
             (take (s_bytes s) (default [] (pinned w !! i)));
    if sent <? 0 then lupine_cleanup_dtoh_pipeline slots false ;; mret (Stop (Done (-1)))
    else
      refill i (<[i := Slot (s_offset s) (s_bytes s) false false]> slots)
        (sent_offset + s_bytes s) submitted_offset terminal_error.

Definition drain_turn (slots : list slot) (sent_offset submitted_offset : nat)
    (terminal_error : option (nat * Z)) : M turn :=
  let continue :=
    let i := slot_of sent_offset in
    match slots !! i with
    | Some s =>
        if negb (in_flight s) || negb (event_recorded s) || negb (s_offset s =? sent_offset)%nat
        then p ← abandon slots sent_offset; mret (Stop p)
        else send_slot i s slots sent_offset submitted_offset terminal_error
    | None => p ← abandon slots sent_offset; mret (Stop p)
    end in
  match terminal_error with
  | Some (offset, error) =>
      if (offset =? sent_offset)%nat then
        write_result ← lupine_write_dtoh_chunk_response error [];
        lupine_cleanup_dtoh_pipeline slots false ;; mret (Stop (Done write_result))
      else continue
  | None => continue
  end.

Fixpoint drain (fuel : nat) (slots : list slot) (sent_offset submitted_offset : nat)
    (terminal_error : option (nat * Z)) : M (option pipelined) :=
  if (bytes <=? sent_offset)%nat then
    lupine_cleanup_dtoh_pipeline slots false ;; mret (Some (Done 0))
  else
    match fuel with
    | O => mret None
    | S fuel =>
        t ← drain_turn slots sent_offset submitted_offset terminal_error;
        match t with
        | Stop p => mret (Some p)
        | Again slots sent submitted terminal => drain fuel slots sent submitted terminal
        end
    end.

(** Creating the events of the slots; on failure the storage is released. *)
Fixpoint create_events (todo : list nat) (slots : list slot) : M bool :=
  match todo with
  | [] => mret true
  | i :: todo =>
      result ← cuEventCreate;
      if negb (result =? CUDA_SUCCESS)
      then lupine_cleanup_dtoh_pipeline slots false ;; mret false
      else create_events todo slots
  end.

Definition slot_indices : list nat := seq 0 LUPINE_DTOH_PIPELINE_SLOT_COUNT.

Definition lupine_copy_dtoh_pipelined : M (option pipelined) :=
  let slots := replicate LUPINE_DTOH_PIPELINE_SLOT_COUNT empty_slot in
  result ← cuMemAllocHost;
  if negb (result =? CUDA_SUCCESS) then mret (Some (Fallback 0))
  else
    created ← create_events slot_indices slots;
    if negb created then mret (Some (Fallback 0))
    else
      p ← prime slot_indices slots 0;
      match p with
      | Ended p => mret (Some p)
      | Primed slots submitted_offset terminal_error => drain bytes slots 0 submitted_offset terminal_error
      end.

(** [handle_cuMemcpyDtoH_v2] after it has read its request. *)
Definition handle_cuMemcpyDtoH_v2 (min_bytes : nat) : M (option Z) :=
  if (min_bytes <=? bytes)%nat then
    r ← lupine_copy_dtoh_pipelined;
    match r with
    | None => mret None
    | Some (Done code) => mret (Some code)
    | Some (Fallback offset) => lupine_copy_dtoh_serial offset
    end
  else lupine_copy_dtoh_serial 0.
End Server.

(** ** The client *)

(** [lupine_read_dtoh_chunks]: the result, and what the destination holds. [frames] are the
    responses that arrive; when there are no more, reading fails. *)
Fixpoint read_chunks (K bytes : nat) (frames : list (Z * list byte)) (dst : list byte) (offset : nat)
    : Z * list byte :=
  match frames with
  | [] => (CUDA_ERROR_DEVICE_UNAVAILABLE, dst)
  | (result, payload) :: frames =>
      let chunk := Nat.min (bytes - offset) K in
      if negb (result =? CUDA_SUCCESS) then (result, dst)
      else if (length payload <? chunk)%nat
      then (CUDA_ERROR_DEVICE_UNAVAILABLE,
            take offset dst ++ payload ++ drop (offset + length payload) dst)
      else
        let dst := take offset dst ++ take chunk payload ++ drop (offset + chunk) dst in
        if (offset + chunk <? bytes)%nat
        then read_chunks K bytes frames dst (offset + chunk)
        else (result, dst)
  end.

Definition lupine_read_dtoh_chunks (K bytes : nat) (frames : list (Z * list byte)) (dst : list byte)
    : Z * list byte := read_chunks K bytes frames dst 0.

(** ** Reasoning about runs *)

(** [m] started in [w] ends with a value and a world that satisfy [Q]. *)
Definition after {A} (m : M A) (Q : A -> world -> Prop) (w : world) : Prop := Q (m w).1 (m w).2.

Lemma after_ret {A} (x : A) Q w : Q x w -> after (mret x) Q w.
Proof. done. Qed.

Lemma after_bind {A B} (m : M A) (f : A -> M B) Q w :
  after m (fun x => after (f x) Q) w -> after (m ≫= f) Q w.
Proof. unfold after, mbind, M_bind. by destruct (m w). Qed.

Lemma after_mono {A} (m : M A) (Q Q' : A -> world -> Prop) w :
  after m Q w -> (forall x w', Q x w' -> Q' x w') -> after m Q' w.
Proof. unfold after. auto. Qed.

(** Runs [m] by its specification [H] and goes on with its result. *)
Ltac step_by H := apply after_bind; eapply after_mono; [apply H | cbv beta].

Section Proofs.
Local Arguments Nat.modulo : simpl never.
Context (K : nat) (K_pos : (0 < K)%nat) (data : list byte).
Abbreviation bytes := (bytes data).
Abbreviation segment := (segment data).
Abbreviation land := (land data).
Abbreviation ask := (ask data).

Definition dma_ok (d : dma) : Prop :=
  (d_slot d < 2 /\ d_bytes d <= K /\ d_offset d + d_bytes d <= bytes)%nat.

(** The last DMA of slot [i] that has landed left its bytes there. *)
Definition content_ok (w : world) : Prop :=
  forall j d, submitted w !! j = Some d -> (j < landed w)%nat ->
    (forall j' d', (j < j' < landed w)%nat -> submitted w !! j' = Some d' -> d_slot d' <> d_slot d) ->
    take (d_bytes d) (default [] (pinned w !! d_slot d)) = segment (d_offset d) (d_bytes d).

Record ok (w : world) : Prop := {
  ok_landed : (landed w <= length (submitted w))%nat;
  ok_pinned : length (pinned w) = 2%nat;
  ok_dmas : Forall dma_ok (submitted w);
  ok_content : content_ok w;
  ok_stray : stray w = false;
  ok_live : (landed w < length (submitted w))%nat -> store w = Live }.

(** What waiting changes: DMAs land. *)
Record quiet (w w' : world) : Prop := {
  q_submitted : submitted w' = submitted w;
  q_recorded : recorded w' = recorded w;
  q_store : store w' = store w;
  q_responses : responses w' = responses w;
  q_landed : (landed w <= landed w')%nat }.

Lemma quiet_refl w : quiet w w.
Proof. by constructor. Qed.

Lemma quiet_trans w1 w2 w3 : quiet w1 w2 -> quiet w2 w3 -> quiet w1 w3.
Proof. intros [] []. constructor; try congruence; lia. Qed.

Lemma length_segment o n : (o + n <= bytes)%nat -> length (segment o n) = n.
Proof. intros H. unfold DtohPipe.segment. rewrite length_take, length_drop. unfold DtohPipe.bytes in H. lia. Qed.

Lemma land_ok w : ok w -> ok (land w) /\ quiet w (land w) /\
  landed (land w) = Nat.min (S (landed w)) (length (submitted w)).
Proof.
  intros [L P D C St V]. unfold DtohPipe.land.
  destruct (submitted w !! landed w) as [d|] eqn:E; cycle 1.
  { apply lookup_ge_None in E. split; [by constructor|]. split; [apply quiet_refl | lia]. }
  assert (Hl := lookup_lt_Some _ _ _ E). assert (Hd := proj1 (Forall_lookup _ _) D _ _ E).
  destruct Hd as (Hs & Hb & Ho).
  split; [| split; [constructor; simpl; try done; cbn -[Nat.min]; lia | cbn -[Nat.min]; lia]].
  constructor; simpl; try done.
  - by rewrite length_alter.
  - intros j d' Hj Hlt Hlast. simpl in *. destruct (decide (j = landed w)) as [-> |].
    + simplify_eq. destruct (lookup_lt_is_Some_2 (pinned w) (d_slot d)) as [buf Hbuf]; [lia|].
      rewrite list_lookup_alter_eq, Hbuf. simpl. rewrite take_app_le by (rewrite length_segment; lia).
      apply take_ge. rewrite length_segment; lia.
    + assert (d_slot d <> d_slot d') by (apply (Hlast (landed w)); [simpl; lia | done]).
      rewrite list_lookup_alter_ne by done. apply (C j); [done | lia |].
      intros j' d'' Hj'. apply Hlast. simpl. lia.
  - rewrite St, V by done. done.
  - intros. apply V. done.
Qed.

Lemma land_n_ok n w : ok w -> ok (land_n data n w) /\ quiet w (land_n data n w) /\
  landed (land_n data n w) = Nat.min (n + landed w) (length (submitted w)).
Proof.
  revert w. induction n as [|n IH]; intros w O; cbn [land_n].
  - split; [done|]. split; [apply quiet_refl|]. pose proof (ok_landed w O). lia.
  - destruct (land_ok w O) as (O' & Q' & L'). destruct (IH _ O') as (O2 & Q2 & L2).
    split; [done|]. split; [by eapply quiet_trans|]. rewrite L2, (q_submitted _ _ Q'), L'. lia.
Qed.

Lemma ask_spec w : ok w -> after ask (fun _ w' => ok w' /\ quiet w w') w.
Proof.
  intros O. unfold after, DtohPipe.ask. destruct (script w) as [|a s]; simpl; [by split; [|apply quiet_refl]|].
  match goal with |- context [land_n _ _ ?w0] => destruct (land_n_ok (a_landed a) w0) as (O' & Q' & _) end.
  { destruct O. by constructor. }
  split; [done|]. destruct Q'. by constructor.
Qed.

Lemma land_to_ok n w : ok w -> ok (land_to data n w) /\ quiet w (land_to data n w) /\
  (forall j, (j < n)%nat -> (j < length (submitted w))%nat -> (j < landed (land_to data n w))%nat).
Proof.
  intros O. unfold DtohPipe.land_to. destruct (land_n_ok (n - landed w) w O) as (O' & Q' & L').
  split; [done|]. split; [done|]. intros j Hj Hl. rewrite L'. lia.
Qed.

(** ** The calls *)

Ltac ask_then O O' Q' := step_by ask_spec; [exact O |]; intros a ?w [O' Q'].

Lemma cuEventSynchronize_spec i w : ok w -> after (cuEventSynchronize data i) (fun r w' =>
  ok w' /\ quiet w w' /\
  (r = CUDA_SUCCESS -> forall j, (j < recorded w i)%nat -> (j < length (submitted w))%nat ->
     (j < landed w')%nat)) w.
Proof.
  intros O. ask_then O O' Q'. destruct (Z.eqb_spec (a_result a) CUDA_SUCCESS) as [E|E].
  - destruct (land_to_ok (recorded w0 i) w0 O') as (O2 & Q2 & L2). unfold after. simpl.
    split; [done|]. split; [by eapply quiet_trans|]. intros _ j Hj Hl.
    apply L2; [by rewrite (q_recorded _ _ Q') | by rewrite (q_submitted _ _ Q')].
  - by apply after_ret.
Qed.

Lemma cuStreamSynchronize_spec w : ok w -> after (cuStreamSynchronize data) (fun r w' =>
  ok w' /\ quiet w w' /\ (r = CUDA_SUCCESS -> landed w' = length (submitted w'))) w.
Proof.
  intros O. ask_then O O' Q'. destruct (Z.eqb_spec (a_result a) CUDA_SUCCESS) as [E|E].
  - destruct (land_to_ok (length (submitted w0)) w0 O') as (O2 & Q2 & L2). unfold after. simpl.
    split; [done|]. split; [by eapply quiet_trans|]. intros _.
    pose proof (ok_landed _ O2) as H. rewrite (q_submitted _ _ Q2) in *.
    destruct (decide (length (submitted w0) = 0%nat)); [lia|].
    pose proof (L2 (length (submitted w0) - 1)%nat). lia.
  - by apply after_ret.
Qed.

(** Freeing is safe when nothing is queued. *)
Lemma cuMemFreeHost_spec w : ok w -> landed w = length (submitted w) ->
  after (cuMemFreeHost data) (fun _ w' => ok w' /\ responses w' = responses w) w.
Proof.
  intros O L. ask_then O O' Q'. destruct (Z.eqb_spec (a_result a) CUDA_SUCCESS) as [E|E].
  - unfold after. simpl. split; [|apply Q'].
    pose proof (ok_landed _ O'). pose proof (q_landed _ _ Q'). rewrite (q_submitted _ _ Q') in *.
    destruct O'. constructor; simpl; try done. intros. rewrite (q_submitted _ _ Q') in *. lia.
  - apply after_ret. split; [done | apply Q'].
Qed.

Lemma respond_spec result payload w : ok w -> after (lupine_write_dtoh_chunk_response data result payload)
  (fun sent w' => ok w' /\ submitted w' = submitted w /\ recorded w' = recorded w /\ store w' = store w /\
     (landed w <= landed w')%nat /\
     ((sent = 0 /\ responses w' = responses w ++ [(result, if result =? CUDA_SUCCESS then payload else [])])
      \/ (sent = -1 /\ responses w' = responses w))) w.
Proof.
  intros O. ask_then O O' Q'. destruct (Z.eqb_spec (a_result a) 0) as [E|E].
  - unfold after. simpl. split; [by destruct O'; constructor|]. destruct Q' as [-> -> -> -> ?]. split_and!; try done.
    by left.
  - apply after_ret. destruct Q'. split_and!; try done. by right.
Qed.

(** ** Slots *)

(** A DMA that has not landed belongs to a slot in flight, before its event. *)
Definition pending (slots : list slot) (w : world) : Prop :=
  forall j d, submitted w !! j = Some d -> (landed w <= j)%nat ->
    exists s, slots !! d_slot d = Some s /\ in_flight s = true /\
      (event_recorded s = true -> (j < recorded w (d_slot d))%nat).

(** The last DMA of slot [i] brings [n] bytes from offset [o], and its event waits for it. *)
Definition loaded (w : world) (i o n : nat) : Prop :=
  exists j, submitted w !! j = Some (Dma i o n) /\ (j < recorded w i)%nat /\
    forall j' d', (j < j')%nat -> submitted w !! j' = Some d' -> d_slot d' <> i.

Lemma pending_quiet slots w w' : submitted w' = submitted w -> recorded w' = recorded w ->
  (landed w <= landed w')%nat -> pending slots w -> pending slots w'.
Proof. intros Es Er Hl P j d. rewrite Es, Er. intros Hj Hlt. apply P; [done | lia]. Qed.

Lemma loaded_quiet w w' i o n : submitted w' = submitted w -> recorded w' = recorded w ->
  loaded w i o n -> loaded w' i o n.
Proof. intros Es Er. unfold loaded. by rewrite Es, Er. Qed.

Lemma wait_slots_spec slots i w : ok w -> after (wait_slots data i slots) (fun r w' =>
  ok w' /\ quiet w w' /\
  (r.2 = true -> landed w' = length (submitted w') \/
     forall k s, slots !! k = Some s -> in_flight s = true -> event_recorded s = true ->
       forall j, (j < recorded w (i + k))%nat -> (j < length (submitted w))%nat -> (j < landed w')%nat)) w.
Proof.
  revert i w. induction slots as [|s slots IH]; intros i w O; simpl.
  { apply after_ret. split; [done|]. split; [apply quiet_refl|]. intros _. right. intros k s Hk. done. }
  destruct (in_flight s && event_recorded s) eqn:E.
  - apply andb_true_iff in E as [Ef Er]. rewrite Ef, Er. simpl.
    step_by cuEventSynchronize_spec; [exact O|]. intros r w1 (O1 & Q1 & L1).
    destruct (Z.eqb_spec r CUDA_SUCCESS) as [Hr|Hr].
    + eapply after_mono; [by apply IH|]. intros r' w2 (O2 & Q2 & L2). split; [done|].
      split; [by eapply quiet_trans|]. intros Hc. destruct (L2 Hc) as [H|H]; [by left|right].
      intros [|k] s' Hk Hf He j Hj Hl.
      * rewrite Nat.add_0_r in Hj. pose proof (L1 Hr j Hj Hl). pose proof (q_landed _ _ Q2). lia.
      * apply (H k s'); try done; rewrite ?(q_recorded _ _ Q1), ?(q_submitted _ _ Q1); [|done].
        by rewrite Nat.add_succ_comm.
    + step_by cuStreamSynchronize_spec; [exact O1|]. intros r2 w2 (O2 & Q2 & L2). apply after_ret.
      split; [done|]. split; [by eapply quiet_trans|]. simpl. intros ->%Z.eqb_eq. left. by apply L2.
  - assert (negb (in_flight s) || negb (event_recorded s) = true) as ->
      by (rewrite <- negb_andb; by rewrite E).
    eapply after_mono; [by apply IH|]. intros r' w2 (O2 & Q2 & L2). split; [done|].
    split; [done|]. intros Hc. destruct (L2 Hc) as [H|H]; [by left|right].
    intros [|k] s' Hk Hf He; [simplify_eq/=; by rewrite Hf, He in E|].
    rewrite <- Nat.add_succ_comm. by apply H with s'.
Qed.

(** The storage is freed only when every DMA has landed. *)
Lemma cleanup_spec slots b w : ok w -> pending slots w ->
  after (lupine_cleanup_dtoh_pipeline data slots b) (fun _ w' => ok w' /\ responses w' = responses w) w.
Proof.
  intros O P. unfold lupine_cleanup_dtoh_pipeline.
  assert (Hw : after (if b || existsb (fun s => in_flight s && negb (event_recorded s)) slots
      then r ← cuStreamSynchronize data; mret (r, r =? CUDA_SUCCESS)
      else wait_slots data 0 slots) (fun r w' => ok w' /\ responses w' = responses w /\
        (r.2 = true -> landed w' = length (submitted w'))) w).
  { destruct (b || _) eqn:E.
    - step_by cuStreamSynchronize_spec; [exact O|]. intros r w1 (O1 & Q1 & L1). apply after_ret.
      split; [done|]. split; [apply Q1|]. simpl. by intros ->%Z.eqb_eq; apply L1.
    - eapply after_mono; [by apply wait_slots_spec|]. intros r w1 (O1 & Q1 & L1).
      split; [done|]. split; [apply Q1|]. intros Hr. destruct (L1 Hr) as [H|H]; [done|].
      pose proof (ok_landed _ O1). destruct (decide (landed w1 < length (submitted w1))%nat) as [Hlt|]; [|lia].
      destruct (lookup_lt_is_Some_2 (submitted w1) (landed w1) Hlt) as [d Hd].
      rewrite (q_submitted _ _ Q1) in *. destruct (P (landed w1) d Hd (q_landed _ _ Q1)) as (s & Hs & Hf & He).
      apply orb_false_iff in E as [_ E].
      assert (event_recorded s = true) as Hev.
      { destruct (event_recorded s) eqn:Ev; [done|]. exfalso.
        apply not_true_iff_false in E. apply E, existsb_exists. exists s.
        split; [apply list_elem_of_In; by eapply list_elem_of_lookup_2 | by rewrite Hf, Ev]. }
      specialize (H (d_slot d) s Hs Hf Hev (landed w1) (He Hev) Hlt). lia. }
  apply after_bind. eapply after_mono; [exact Hw|]. intros [r c] w1 (O1 & R1 & L1). simpl in L1.
  destruct c.
  - step_by cuMemFreeHost_spec; [exact O1 | by apply L1 |]. intros _ w2 [O2 R2]. apply after_ret.
    split; [done | congruence].
  - by apply after_ret.
Qed.

Lemma pending_insert slots i s w : (i < length slots)%nat -> in_flight s = true ->
  (event_recorded s = true -> forall j, (j < length (submitted w))%nat -> (j < recorded w i)%nat) ->
  pending slots w -> pending (<[i := s]> slots) w.
Proof.
  intros Hi Hf He P j d Hj Hl. destruct (P j d Hj Hl) as (s' & Hs & Hf' & He').
  destruct (decide (d_slot d = i)) as [-> |].
  - exists s. rewrite list_lookup_insert_eq by done. split_and!; try done. intros Hev. apply He; [done|].
    by eapply lookup_lt_Some.
  - exists s'. by rewrite list_lookup_insert_ne.
Qed.

(** A copy that is queued, or not, for a slot in flight. *)
Lemma queue_spec slots i o n w : ok w -> pending slots w -> store w = Live -> dma_ok (Dma i o n) ->
  slots !! i = Some (Slot o n true false) ->
  after (cuMemcpyDtoHAsync_v2 data i o n) (fun r w' =>
    ok w' /\ pending slots w' /\ store w' = Live /\ responses w' = responses w /\
    (forall k o n, k <> i -> loaded w k o n -> loaded w' k o n) /\
    (r = CUDA_SUCCESS -> exists l, submitted w' = l ++ [Dma i o n])) w.
Proof.
  intros O P V D At. unfold cuMemcpyDtoHAsync_v2. ask_then O O1 Q1.
  assert (P1 : pending slots w0) by (eapply pending_quiet; [apply Q1..|done]).
  assert (V1 : store w0 = Live) by (by rewrite (q_store _ _ Q1)).
  destruct ((a_result a =? CUDA_SUCCESS) || a_queued a) eqn:E; unfold after; simpl.
  - split_and!; try done; [| | apply Q1 | | by eexists].
    + destruct O1 as [A B C C' F G]. constructor; simpl; try done.
      * rewrite length_app. simpl. lia.
      * apply Forall_app. split; [done | by constructor].
      * intros j d Hj Hl Hlast. simpl in *. rewrite lookup_app_l in Hj by lia.
        apply (C' j); try done. intros j' d' Hj' Hd'. apply (Hlast j'); [done|].
        by rewrite lookup_app_l by (apply lookup_lt_Some in Hd'; lia).
    + intros j d Hj Hl. simpl in *. apply lookup_app_Some in Hj as [Hj | [Hj Hd]]; [by apply P1|].
      apply list_lookup_singleton_Some in Hd as [_ <-]. simpl. by eexists.
    + intros k o' n' Hk (j & Hj & Hr & Hn). exists j. simpl. rewrite (q_submitted _ _ Q1), (q_recorded _ _ Q1).
      split; [by rewrite lookup_app_l by (by eapply lookup_lt_Some)|]. split; [done|].
      intros j' d' Hj' Hd'. apply lookup_app_Some in Hd' as [Hd' | [_ Hd']]; [by eapply Hn|].
      apply list_lookup_singleton_Some in Hd' as [_ <-]. simpl. congruence.
  - apply orb_false_iff in E as [E _]. apply Z.eqb_neq in E.
    split_and!; try done; [apply Q1|]. intros. eapply loaded_quiet; [apply Q1..|done].
Qed.

(** An event behind the copy: the slot is loaded. *)
Lemma cuEventRecord_spec slots i o n w l : ok w -> pending slots w -> (i < length slots)%nat ->
  submitted w = l ++ [Dma i o n] ->
  after (cuEventRecord data i) (fun r w' =>
    ok w' /\ pending slots w' /\ store w' = store w /\ responses w' = responses w /\
    (forall k o n, k <> i -> loaded w k o n -> loaded w' k o n) /\
    (r = CUDA_SUCCESS -> loaded w' i o n /\ pending (<[i := Slot o n true true]> slots) w')) w.
Proof.
  intros O P Hi Es. unfold cuEventRecord. ask_then O O1 Q1.
  assert (P1 : pending slots w0) by (eapply pending_quiet; [apply Q1..|done]).
  destruct (Z.eqb_spec (a_result a) CUDA_SUCCESS) as [E|E]; unfold after; simpl; cycle 1.
  { split_and!; try done; try apply Q1. intros. eapply loaded_quiet; [apply Q1..|done]. }
  set (w1 := World _ _ _ _ _ _ _ _).
  assert (Es1 : submitted w1 = l ++ [Dma i o n]) by (simpl; by rewrite (q_submitted _ _ Q1)).
  assert (P2 : pending slots w1).
  { intros j d Hj Hl. simpl in *. destruct (P1 j d Hj Hl) as (s & Hs & Hf & He). exists s.
    split_and!; try done. intros Hev. destruct (Nat.eqb_spec (d_slot d) i); [|by apply He].
    by eapply lookup_lt_Some. }
  split_and!; try apply Q1; try done.
  - by destruct O1; constructor.
  - intros k o' n' Hk Hlo. destruct (loaded_quiet w w0 k o' n') as (j & Hj & Hr & Hn); [apply Q1..|done|].
    exists j. simpl. split_and!; try done. by destruct (Nat.eqb_spec k i).
  - split.
    + exists (length l). rewrite Es1. split; [by rewrite lookup_app_r, Nat.sub_diag by lia|].
      simpl. rewrite Nat.eqb_refl. simpl in Es1. rewrite Es1, length_app. simpl. split; [lia|].
      intros j' d' Hj' Hd'. apply lookup_lt_Some in Hd'. rewrite length_app in Hd'. simpl in Hd'. lia.
    + apply pending_insert; try done. intros _ j Hj. simpl in *. by rewrite Nat.eqb_refl.
Qed.

(** A submission leaves the other slots as they are; when it succeeds the slot is loaded. *)
Lemma submit_spec slots i o w : ok w -> pending slots w -> store w = Live -> length slots = 2%nat ->
  (i < 2)%nat -> (o < bytes)%nat ->
  after (submit K data i o slots) (fun r w' => let '(result, failed, slots') := r in
    ok w' /\ pending slots' w' /\ store w' = Live /\ length slots' = 2%nat /\
    responses w' = responses w /\
    (forall k o n, k <> i -> loaded w k o n -> loaded w' k o n) /\
    (forall k, k <> i -> slots' !! k = slots !! k) /\
    (result = CUDA_SUCCESS -> failed = false ->
       slots' !! i = Some (Slot o (Nat.min K (bytes - o)) true true) /\
       loaded w' i o (Nat.min K (bytes - o)))) w.
Proof.
  intros O P V Ls Hi Ho. unfold submit. set (n := Nat.min K (bytes - o)).
  set (slots1 := <[i := Slot o n true false]> slots).
  assert (In1 : forall k, k <> i -> slots1 !! k = slots !! k)
    by (intros; unfold slots1; by rewrite list_lookup_insert_ne).
  assert (Ls1 : length slots1 = 2%nat) by (unfold slots1; by rewrite length_insert).
  step_by (queue_spec slots1 i o n w O); [| exact V | | apply list_lookup_insert_eq; lia |].
  { apply pending_insert; [lia | done | done | exact P]. }
  { unfold dma_ok, n. simpl. lia. }
  intros r w1 (O1 & P1 & V1 & R1 & Lo1 & Sub1).
  destruct (Z.eqb_spec r CUDA_SUCCESS) as [->|E]; simpl; [|by apply after_ret; split_and!].
  destruct Sub1 as [l Sub1]; [done|].
  step_by (cuEventRecord_spec slots1 i o n w1 l O1 P1); [lia | exact Sub1 |].
  intros e w2 (O2 & P2 & V2 & R2 & Lo2 & Rec2).
  destruct (Z.eqb_spec e CUDA_SUCCESS) as [->|E]; simpl; apply after_ret.
  - destruct Rec2 as [Lo P3]; [done|].
    split_and!; try done; try congruence; auto; [by rewrite length_insert | |].
    + intros k Hk. rewrite list_lookup_insert_ne by done. auto.
    + intros _ _. split; [apply list_lookup_insert_eq; lia | done].
  - split_and!; try done; try congruence; auto.
Qed.

(** ** What is sent *)

(** The first [m] chunks. *)
Definition served (m : nat) : list (Z * list byte) :=
  map (fun i => (CUDA_SUCCESS, segment (i * K) K)) (seq 0 m).

Definition chunk_count : nat := Nat.max 1 ((bytes + K - 1) / K).

(** The end of the answer: all chunks, or some and an error, or a failed connection. *)
Definition finished (code : Z) (sent : list (Z * list byte)) : Prop :=
  (code = 0 /\ sent = served chunk_count) \/
  (exists m e, code = 0 /\ (m < chunk_count)%nat /\ e <> CUDA_SUCCESS /\ sent = served m ++ [(e, [])]) \/
  (exists m, code = -1 /\ (m < chunk_count)%nat /\ sent = served m).

Lemma served_S m n : Nat.min n K = Nat.min (bytes - m * K) K -> 
  served m ++ [(CUDA_SUCCESS, segment (m * K) (Nat.min n K))] = served (S m).
Proof.
  intros ->. unfold served. rewrite seq_S, map_app. simpl. do 3 f_equal. unfold DtohPipe.segment.
  assert (length (drop (m * K) data) = (bytes - m * K)%nat) as L by apply length_drop.
  destruct (Nat.min_spec (bytes - m * K) K) as [[? ->]|[? ->]]; [|done]. rewrite !take_ge; [done|lia..].
Qed.

Lemma below_count m : (m * K < bytes)%nat -> (m < chunk_count)%nat.
Proof.
  intros H. unfold chunk_count. apply Nat.lt_le_trans with (S m); [lia|].
  etrans; [|apply Nat.le_max_r]. apply Nat.div_le_lower_bound; lia.
Qed.

Lemma at_count m : (m * K < bytes)%nat -> (bytes <= S m * K)%nat -> chunk_count = S m.
Proof.
  intros H H'. unfold chunk_count. rewrite Nat.max_r.
  - symmetry. apply Nat.div_unique with (bytes + K - 1 - K * S m)%nat; lia.
  - apply Nat.div_le_lower_bound; lia.
Qed.

(** An error is reported and the pipeline is given up, in either order. *)
Lemma report_spec e w m : ok w -> e <> CUDA_SUCCESS -> responses w = served m -> (m < chunk_count)%nat ->
  after (lupine_write_dtoh_chunk_response data e []) (fun code w' =>
    ok w' /\ finished code (responses w') /\
    forall slots, pending slots w -> pending slots w') w.
Proof.
  intros O He R Hm. eapply after_mono; [by apply respond_spec|].
  intros code w' (O' & Es & Er & _ & Hl & Hc). split; [done|]. split.
  - destruct Hc as [[-> Hr]|[-> Hr]]; rewrite R in Hr.
    + right. left. exists m, e. split_and!; try done. rewrite Hr. by destruct (e =? CUDA_SUCCESS).
    + right. right. by exists m.
  - intros slots. by apply pending_quiet.
Qed.

Definition ended (p : pipelined) (w : world) : Prop :=
  ok w /\ match p with
          | Done code => finished code (responses w)
          | Fallback o => exists m, o = (m * K)%nat /\ responses w = served m /\ (m = 0%nat \/ (o < bytes)%nat)
          end.

Lemma abandon_spec slots m w : ok w -> pending slots w -> responses w = served m -> (m < chunk_count)%nat ->
  (m = 0%nat \/ (m * K < bytes)%nat) -> after (abandon data slots (m * K)) ended w.
Proof.
  intros O P R Hm Hb. step_by cleanup_spec; [exact O | exact P |]. intros r w1 [O1 R1].
  destruct (Z.eqb_spec r CUDA_SUCCESS) as [E|E]; simpl.
  - apply after_ret. split; [done|]. exists m. split_and!; try done. congruence.
  - step_by (report_spec r w1 m); [done | done | congruence | done |]. intros c w2 (O2 & F2 & _).
    by apply after_ret.
Qed.

(** Every way to stop with an error and a cleanup. *)
Lemma stop_spec e slots b w m : ok w -> pending slots w -> e <> CUDA_SUCCESS -> responses w = served m ->
  (m < chunk_count)%nat ->
  after (c ← lupine_write_dtoh_chunk_response data e [];
         lupine_cleanup_dtoh_pipeline data slots b ;; mret (Stop (Done c)))
    (fun t w' => match t with Stop p => ended p w' | Again _ _ _ _ => False end) w.
Proof.
  intros O P He R Hm. step_by (report_spec e w m O He R Hm). intros c w1 (O1 & F1 & P1).
  step_by cleanup_spec; [exact O1 | by apply P1 |]. intros _ w2 [O2 R2]. apply after_ret.
  split; [done|]. by rewrite R2.
Qed.

(** ** The loops *)

(** [m] chunks are sent and everything up to [sub] is submitted: the chunks between are in
    their slots. *)
Record loop_ok (m sub : nat) (slots : list slot) (w : world) : Prop := {
  l_ok : ok w;
  l_pending : pending slots w;
  l_live : store w = Live;
  l_slots : length slots = 2%nat;
  l_sent : responses w = served m;
  l_more : (m * K < bytes)%nat;
  l_sub : (m * K <= sub <= bytes)%nat;
  l_ahead : (sub <= (m + 2) * K)%nat;
  l_window : forall q, (m <= q)%nat -> (q * K < sub)%nat ->
    slots !! (q mod 2)%nat = Some (Slot (q * K) (Nat.min K (bytes - q * K)) true true) /\
    loaded w (q mod 2)%nat (q * K) (Nat.min K (bytes - q * K)) }.

Lemma next_slot m q q' : (m <= q' < q)%nat -> (q < m + 2)%nat -> (q' mod 2 <> q mod 2)%nat.
Proof.
  intros H H'. assert (q = S q')%nat as -> by lia.
  pose proof (Nat.div_mod_eq q' 2). pose proof (Nat.div_mod_eq (S q') 2). intros E. lia.
Qed.

(** The next chunk goes into its slot. *)
Lemma submit_loop m q slots w : loop_ok m (q * K) slots w -> (m <= q < m + 2)%nat -> (q * K < bytes)%nat ->
  after (submit K data (q mod 2)%nat (q * K) slots) (fun r w' => let '(result, failed, slots') := r in
    loop_ok m (q * K) slots' w' /\
    (result = CUDA_SUCCESS -> failed = false ->
       loop_ok m (q * K + Nat.min K (bytes - q * K)) slots' w')) w.
Proof.
  intros [] Hq Hb. eapply after_mono; [apply submit_spec; try done; by apply Nat.mod_upper_bound|].
  intros [[r f] slots'] w' (O & P & V & Ls & R & Lo & In & Hok).
  assert (W : forall q', (m <= q')%nat -> (q' * K < q * K)%nat ->
    slots' !! (q' mod 2)%nat = Some (Slot (q' * K) (Nat.min K (bytes - q' * K)) true true) /\
    loaded w' (q' mod 2)%nat (q' * K) (Nat.min K (bytes - q' * K))).
  { intros q' Hm Hlt. assert (q' mod 2 <> q mod 2)%nat as Hne by (apply (next_slot m); nia).
    destruct (l_window0 q' Hm Hlt). rewrite In by done. split; [done | by apply Lo]. }
  split; [constructor; try done; congruence|].
  intros Hr Hf. destruct (Hok Hr Hf) as [Hs Hl]. constructor; try done; [congruence | lia | nia |].
  intros q' Hm Hlt. destruct (decide (q' = q)) as [-> |]; [done|]. apply W; [done|]. nia.
Qed.

(** What the pending error says: everything is ahead, or submission stopped at [sub]. *)
Definition terminal_ok (m sub : nat) (terminal_error : option (nat * Z)) : Prop :=
  match terminal_error with
  | None => sub = Nat.min bytes ((m + 2) * K)
  | Some (o, e) => o = sub /\ e <> CUDA_SUCCESS /\ (sub < bytes)%nat /\ exists q, sub = (q * K)%nat
  end.

Lemma loop_count m sub slots w : loop_ok m sub slots w -> (m < chunk_count)%nat.
Proof. intros L. apply below_count, L. Qed.

Lemma prime_spec n k slots sub w : (k + n = 2)%nat -> loop_ok 0 sub slots w -> sub = Nat.min bytes (k * K) ->
  after (prime K data (seq k n) slots sub) (fun p w' =>
    match p with
    | Ended p => ended p w'
    | Primed slots sub term => loop_ok 0 sub slots w' /\ terminal_ok 0 sub term
    end) w.
Proof.
  revert k slots sub w. induction n as [|n IH]; intros k slots sub w Hk L Es; cbn [seq prime].
  { apply after_ret. split; [done|]. simpl. rewrite Es. f_equal. lia. }
  destruct (Nat.eqb_spec sub bytes) as [->|Hne].
  { apply after_ret. split; [done|]. simpl. pose proof (l_ahead _ _ _ _ L). nia. }
  assert (sub = (k * K)%nat) as -> by lia. assert ((k * K < bytes)%nat) by lia.
  assert (Hmod : (k mod 2 = k)%nat) by (apply Nat.mod_small; lia).
  pose proof (submit_loop 0 k slots w L) as Sub. rewrite Hmod in Sub.
  step_by Sub; [lia | lia |]. intros [[r f] slots'] w' [L1 L2].
  destruct f.
  { apply after_bind. eapply after_mono; [apply (abandon_spec slots' 0); try apply L1; [by eapply loop_count | by left]|].
    intros p w2 E. by apply after_ret. }
  destruct (Z.eqb_spec r CUDA_SUCCESS) as [E|E]; simpl.
  - apply IH; [lia | by apply L2 | lia].
  - apply after_ret. split; [done|]. split; [done|]. split; [done|]. split; [lia|]. by exists k.
Qed.

(** A slot that has been sent is out of the pipeline. *)
Lemma pending_sent slots i s o n w : pending slots w -> slots !! i = Some s -> event_recorded s = true ->
  (forall j, (j < recorded w i)%nat -> (j < length (submitted w))%nat -> (j < landed w)%nat) ->
  pending (<[i := Slot o n false false]> slots) w.
Proof.
  intros P Hs Hev Hl j d Hj Hlt. destruct (P j d Hj Hlt) as (s' & Hs' & Hf & He).
  assert (d_slot d <> i) as Hne.
  { intros E. rewrite E in *. simplify_eq. pose proof (lookup_lt_Some _ _ _ Hj).
    specialize (Hl j (He Hev)). lia. }
  exists s'. by rewrite list_lookup_insert_ne.
Qed.

(** The last landed DMA of the slot is its chunk. *)
Lemma loaded_content w i o n : ok w -> loaded w i o n ->
  (forall j, (j < recorded w i)%nat -> (j < length (submitted w))%nat -> (j < landed w)%nat) ->
  take n (default [] (pinned w !! i)) = segment o n.
Proof.
  intros O (j & Hj & Hr & Hn) Hl. refine (ok_content _ O j (Dma i o n) Hj _ _).
  - apply Hl; [done | by eapply lookup_lt_Some].
  - intros j' d' [? _]. by apply Hn.
Qed.

Definition turn_ok (m : nat) (t : turn) (w : world) : Prop :=
  match t with
  | Stop p => ended p w
  | Again slots sent sub term =>
      (sent = bytes /\ ok w /\ pending slots w /\ responses w = served chunk_count) \/
      (sent = (S m * K)%nat /\ loop_ok (S m) sub slots w /\ terminal_ok (S m) sub term)
  end.

Lemma refill_spec m sub slots w term : loop_ok (S m) sub slots w ->
  match term with
  | None => sub = Nat.min bytes ((m + 2) * K)
  | Some _ => terminal_ok (S m) sub term
  end ->
  after (refill K data (m mod 2)%nat slots (S m * K) sub term) (turn_ok m) w.
Proof.
  intros L T. unfold refill. destruct (Nat.ltb_spec sub bytes) as [Hlt|Hge]; simpl; cycle 1.
  { apply after_ret. right. split_and!; try done. destruct term as [[o e]|]; [done|]. simpl. nia. }
  destruct term as [[o e]|]; simpl; [by apply after_ret; right|].
  assert (sub = (S m + 1) * K)%nat as -> by lia.
  assert (Hmod : ((S m + 1) mod 2 = m mod 2)%nat).
  { replace (S m + 1)%nat with (m + 1 * 2)%nat by lia. apply Nat.Div0.mod_add. }
  pose proof (submit_loop (S m) (S m + 1) slots w L) as Sub. rewrite Hmod in Sub.
  step_by Sub; [lia | lia |]. intros [[r f] slots'] w' [L1 L2]. destruct f.
  { apply after_bind. eapply after_mono.
    { apply (abandon_spec slots' (S m)); try apply L1; [by eapply loop_count | right; apply L1]. }
    intros p w2 E. by apply after_ret. }
  destruct (Z.eqb_spec r CUDA_SUCCESS) as [E|E]; simpl; apply after_ret; right.
  - split_and!; [done | by apply L2 |]. simpl. lia.
  - split; [done|]. split; [done|]. split; [done|]. split; [done|]. split; [lia|].
    by exists (S m + 1)%nat.
Qed.

(** Sending moves the window by one chunk. *)
Lemma loop_sent m sub slots w w' s : loop_ok m sub slots w -> slots !! (m mod 2)%nat = Some s ->
  event_recorded s = true -> ok w' -> submitted w' = submitted w -> recorded w' = recorded w ->
  store w' = store w -> (landed w <= landed w')%nat ->
  (forall j, (j < recorded w (m mod 2))%nat -> (j < length (submitted w))%nat -> (j < landed w')%nat) ->
  responses w' = served (S m) -> (S m * K < bytes)%nat -> (S m * K <= sub)%nat ->
  loop_ok (S m) sub (<[(m mod 2)%nat := Slot (s_offset s) (s_bytes s) false false]> slots) w'.
Proof.
  intros [O P V Ls R Mo Su Ah W] Hs Hev O' Es Er Est Hl Hland R' Hm Hsub.
  constructor; try done; [| congruence | by rewrite length_insert | lia | lia |].
  - eapply pending_sent; [by eapply pending_quiet | done | done |]. by rewrite Er, Es.
  - intros q Hq Hlt. assert (q = S m) as -> by nia.
    assert ((S m) mod 2 <> m mod 2)%nat as Hne by (apply not_eq_sym, (next_slot m); lia).
    destruct (W (S m)) as [Hw Hlo]; [lia | done |]. rewrite list_lookup_insert_ne by done.
    split; [done|]. by eapply loaded_quiet.
Qed.

Lemma next_chunk m q : (m * K < q * K)%nat -> (S m * K <= q * K)%nat.
Proof. intros H. apply Nat.mul_le_mono_r. destruct (decide (q <= m)%nat); [|lia]. nia. Qed.

Lemma send_slot_spec m sub slots w s term : loop_ok m sub slots w -> (m * K < sub)%nat ->
  slots !! (m mod 2)%nat = Some s -> terminal_ok m sub term ->
  after (send_slot K data (m mod 2) s slots (m * K) sub term) (turn_ok m) w.
Proof.
  intros L Hlt Hs T. pose proof (l_window _ _ _ _ L m (Nat.le_refl m) Hlt) as [Hs' Hlo].
  rewrite Hs in Hs'. injection Hs' as ->. set (n := Nat.min K (bytes - m * K)) in *.
  pose proof (loop_count _ _ _ _ L) as Hcount. pose proof (l_more _ _ _ _ L) as Hmore.
  unfold send_slot. step_by cuEventSynchronize_spec; [apply L|]. intros r w1 (O1 & Q1 & L1).
  assert (P1 : pending slots w1) by (eapply pending_quiet; [apply Q1..|apply L]).
  assert (R1 : responses w1 = served m) by (rewrite (q_responses _ _ Q1); apply L).
  destruct (Z.eqb_spec r CUDA_SUCCESS) as [Hr|Hr]; simpl; cycle 1.
  { eapply after_mono; [by apply (stop_spec r slots true w1 m)|]. intros [] w2 E; [done|exact E]. }
  specialize (L1 Hr). apply after_bind. unfold after at 1. cbn [fst snd].
  assert (C1 : take n (default [] (pinned w1 !! (m mod 2)%nat)) = segment (m * K) n).
  { apply loaded_content; [done | by eapply loaded_quiet; [apply Q1..|] |].
    by rewrite (q_recorded _ _ Q1), (q_submitted _ _ Q1). }
  cbn [s_bytes s_offset]. rewrite C1.
  step_by respond_spec; [exact O1|]. intros c w2 (O2 & Es & Er & Est & Hl & [[-> R2]|[-> R2]]); simpl; cycle 1.
  { step_by cleanup_spec; [exact O2 | by eapply pending_quiet |]. intros _ w3 [O3 R3]. apply after_ret.
    split; [done|]. right. right. exists m. split_and!; try done. congruence. }
  assert (R2' : responses w2 = served (S m)).
  { rewrite R2, R1. simpl. rewrite <- (served_S m (bytes - m * K)) by done.
    unfold n. by rewrite Nat.min_comm. }
  rewrite (q_submitted _ _ Q1), (q_recorded _ _ Q1), (q_store _ _ Q1) in *.
  pose proof (q_landed _ _ Q1).
  destruct (decide (S m * K < bytes)%nat) as [Hmo|Hmo].
  - replace (m * K + n)%nat with (S m * K)%nat by (unfold n; lia).
    assert (S m * K <= sub)%nat as Hsub.
    { destruct term as [[o e]|]; simpl in T; [|lia]. destruct T as (_ & _ & _ & q & ->). by apply next_chunk. }
    apply refill_spec; [|by destruct term as [[o e]|]].
    apply (loop_sent m sub slots w w2 (Slot (m * K) n true true)); try done; [lia|].
    intros j Hj Hlj. specialize (L1 j Hj Hlj). lia.
  - replace (m * K + n)%nat with bytes by (unfold n; lia).
    assert (Hsub : sub = bytes).
    { pose proof (l_sub _ _ _ _ L). destruct term as [[o e]|]; simpl in T; [|lia].
      destruct T as (_ & _ & ? & q & ->). pose proof (next_chunk _ _ Hlt). lia. }
    unfold refill. destruct (Nat.ltb_spec sub bytes); [lia|]. simpl. apply after_ret. left.
    split_and!; try done.
    + eapply (pending_sent _ _ (Slot (m * K) n true true)); try done.
      * eapply pending_quiet; [..|apply L]; try done. lia.
      * rewrite Es, Er. intros j Hj Hlj. specialize (L1 j Hj Hlj). lia.
    + rewrite R2'. f_equal. symmetry. apply at_count; lia.
Qed.

Lemma slot_of_chunk m : slot_of K (m * K) = (m mod 2)%nat.
Proof. unfold slot_of. by rewrite Nat.div_mul by lia. Qed.

Lemma drain_turn_spec m sub slots w term : loop_ok m sub slots w -> terminal_ok m sub term ->
  after (drain_turn K data slots (m * K) sub term) (turn_ok m) w.
Proof.
  intros L T. pose proof (loop_count _ _ _ _ L) as Hcount. pose proof (l_more _ _ _ _ L) as Hmore.
  assert (Go : (m * K < sub)%nat -> after (let i := slot_of K (m * K) in
    match slots !! i with
    | Some s =>
        if negb (in_flight s) || negb (event_recorded s) || negb (s_offset s =? m * K)%nat
        then p ← abandon data slots (m * K); mret (Stop p)
        else send_slot K data i s slots (m * K) sub term
    | None => p ← abandon data slots (m * K); mret (Stop p)
    end) (turn_ok m) w).
  { intros Hlt. rewrite slot_of_chunk. destruct (l_window _ _ _ _ L m (Nat.le_refl m) Hlt) as [Hs _].
    simpl. rewrite Hs. simpl. rewrite Nat.eqb_refl. simpl. by apply send_slot_spec. }
  unfold drain_turn. destruct term as [[o e]|].
  - destruct T as (-> & He & Hb & q & Hq). destruct (Nat.eqb_spec sub (m * K)) as [Heq|Hne].
    + eapply after_mono; [apply (stop_spec e slots false w m); try apply L; done|].
      intros [] w2 E; [done|exact E].
    + apply Go. pose proof (l_sub _ _ _ _ L). lia.
  - apply Go. simpl in T. nia.
Qed.

Lemma drain_spec fuel m sub slots w term : loop_ok m sub slots w -> terminal_ok m sub term ->
  (bytes <= fuel + m * K)%nat ->
  after (drain K data fuel slots (m * K) sub term) (fun p w' => exists p', p = Some p' /\ ended p' w') w.
Proof.
  revert m sub slots w term. induction fuel as [|fuel IH]; intros m sub slots w term L T Hf;
    pose proof (l_more _ _ _ _ L) as Hmore; [simpl in Hf; lia|]. cbn [drain].
  destruct (Nat.leb_spec bytes (m * K)); [lia|].
  step_by drain_turn_spec; [exact L | exact T |].
  intros [slots' sent sub' term'|p] w1 H1; [|apply after_ret; by exists p].
  destruct H1 as [(-> & O1 & P1 & R1)|(-> & L1 & T1)].
  - assert (drain K data fuel slots' bytes sub' term' =
      (lupine_cleanup_dtoh_pipeline data slots' false ;; mret (Some (Done 0)))) as ->
      by (destruct fuel; cbn [drain]; by rewrite Nat.leb_refl).
    step_by cleanup_spec; [exact O1 | exact P1 |]. intros _ w2 [O2 R2]. apply after_ret.
    eexists. split; [done|]. split; [done|]. left. split; [done | congruence].
  - apply IH; try done. lia.
Qed.

(** ** The whole copy *)

Lemma pending_none slots w : submitted w = [] -> pending slots w.
Proof. intros E j d. by rewrite E. Qed.

Lemma create_events_spec todo slots w : ok w -> submitted w = [] ->
  after (create_events data todo slots) (fun created w' => ok w' /\ responses w' = responses w /\
    (created = true -> submitted w' = [] /\ store w' = store w)) w.
Proof.
  revert w. induction todo as [|i todo IH]; intros w O E; cbn [create_events]; [by apply after_ret|].
  apply after_bind. ask_then O O1 Q1. apply after_ret.
  assert (E1 : submitted w0 = []) by (by rewrite (q_submitted _ _ Q1)).
  destruct (a_result a =? CUDA_SUCCESS); simpl.
  - eapply after_mono; [by apply IH|]. intros c w2 (O2 & R2 & H2). split; [done|].
    rewrite R2, (q_responses _ _ Q1). split; [done|]. intros Hc. destruct (H2 Hc) as [? ->].
    split; [done | apply Q1].
  - step_by cleanup_spec; [exact O1 | by apply pending_none |]. intros _ w2 [O2 R2]. apply after_ret.
    split; [done|]. split; [|done]. rewrite R2. apply Q1.
Qed.

Lemma cuMemAllocHost_spec w : ok w -> after (cuMemAllocHost data) (fun r w' =>
  ok w' /\ submitted w' = submitted w /\ responses w' = responses w /\
  (r = CUDA_SUCCESS -> store w' = Live)) w.
Proof.
  intros O. ask_then O O1 Q1. destruct (Z.eqb_spec (a_result a) CUDA_SUCCESS) as [E|E].
  - unfold after. simpl. split; [by destruct O1; constructor|]. split_and!; try apply Q1. done.
  - apply after_ret. split_and!; try done; apply Q1.
Qed.

Lemma pipelined_spec w : ok w -> submitted w = [] -> responses w = [] -> (0 < bytes)%nat ->
  after (lupine_copy_dtoh_pipelined K data) (fun p w' => exists p', p = Some p' /\ ended p' w') w.
Proof.
  intros O E R Hb. unfold lupine_copy_dtoh_pipelined.
  assert (F0 : forall w', ok w' -> responses w' = [] -> exists p', Some (Fallback 0) = Some p' /\ ended p' w').
  { intros w' O' R'. eexists. split; [done|]. split; [done|]. exists 0%nat. split_and!; try done. by left. }
  step_by cuMemAllocHost_spec; [exact O|]. intros r w1 (O1 & E1 & R1 & V1). rewrite E in E1. rewrite R in R1.
  destruct (Z.eqb_spec r CUDA_SUCCESS) as [Hr|Hr]; cbn [negb]; [|apply after_ret; by apply F0].
  step_by create_events_spec; [exact O1 | done |]. intros created w2 (O3 & R3 & H3).
  assert (R3' : responses w2 = []) by (by rewrite R3).
  destruct created; cbn [negb]; [|apply after_ret; by apply F0]. destruct H3 as [E3 V3]; [done|].
  rewrite (V1 Hr) in V3.
  assert (L : loop_ok 0 0 (replicate 2 empty_slot) w2).
  { constructor; try done; try lia. by apply pending_none. }
  step_by (prime_spec 2 0 (replicate 2 empty_slot) 0 w2); [done | exact L | lia |].
  intros [slots sub term|p] w3 H4.
  - destruct H4 as [L4 T4]. apply (drain_spec bytes 0 sub slots w3 term L4 T4). lia.
  - apply after_ret. by exists p.
Qed.

Lemma write_chunks_spec fuel staging m w : ok w -> responses w = served m ->
  (m = 0%nat \/ (m * K < bytes)%nat) -> (m * K <= bytes)%nat -> (bytes < fuel + m * K)%nat ->
  (Nat.min (bytes - m * K) K <= staging <= K)%nat ->
  after (write_dtoh_chunks data fuel staging (m * K)) (fun c w' =>
    exists code, c = Some code /\ ok w' /\ finished code (responses w')) w.
Proof.
  revert m w. induction fuel as [|fuel IH]; intros m w O R Hm Hle Hf Hs; [lia|]. cbn [write_dtoh_chunks].
  assert (Hcount : (m < chunk_count)%nat).
  { destruct Hm as [->|Hm]; [unfold chunk_count; lia | by apply below_count]. }
  apply after_bind. apply after_bind. eapply after_mono; [by apply ask_spec|]. intros a w1 [O1 Q1].
  apply after_ret. assert (R1 : responses w1 = served m) by (by rewrite (q_responses _ _ Q1)).
  set (chunk := Nat.min (bytes - m * K) staging). assert (Hc : chunk = Nat.min (bytes - m * K) K) by lia.
  step_by respond_spec; [exact O1|]. intros sent w2 (O2 & _ & _ & _ & _ & [[-> R2]|[-> R2]]); simpl; cycle 1.
  { apply after_ret. eexists. split; [done|]. split; [done|]. right. right. exists m. split_and!; try done.
    congruence. }
  rewrite R1 in R2. destruct (Z.eqb_spec (a_result a) CUDA_SUCCESS) as [Ha|Ha]; simpl; cycle 1.
  { apply after_ret. eexists. split; [done|]. split; [done|]. right. left. exists m, (a_result a). done. }
  assert (R2' : responses w2 = served (S m)).
  { rewrite R2, Ha, Hc. apply served_S. lia. }
  destruct (Nat.ltb_spec (m * K + chunk) bytes) as [Hlt|Hge].
  - replace (m * K + chunk)%nat with (S m * K)%nat in * by lia. apply IH; try done; [by right | lia | lia | lia].
  - apply after_ret. eexists. split; [done|]. split; [done|]. left. split; [done|]. rewrite R2'. f_equal.
    destruct (decide (m * K < bytes)%nat); [symmetry; apply at_count; lia|].
    destruct Hm as [->|]; [|lia]. unfold chunk_count. rewrite Nat.max_l; [done|].
    apply Nat.lt_succ_r, Nat.Div0.div_lt_upper_bound; lia.
Qed.

Lemma serial_spec m w : ok w -> responses w = served m -> (m = 0%nat \/ (m * K < bytes)%nat) ->
  after (lupine_copy_dtoh_serial K data (m * K)) (fun c w' =>
    exists code, c = Some code /\ ok w' /\ finished code (responses w')) w.
Proof.
  intros O R Hm. unfold lupine_copy_dtoh_serial, lupine_write_dtoh_chunks.
  destruct (Nat.ltb_spec bytes (m * K)); [lia|].
  assert (Hcount : (m < chunk_count)%nat).
  { destruct Hm as [->|Hm]; [unfold chunk_count; lia | by apply below_count]. }
  ask_then O O1 Q1. assert (R1 : responses w0 = served m) by (by rewrite (q_responses _ _ Q1)).
  destruct (a_result a =? 0); cbn [negb].
  - apply write_chunks_spec; try done; lia.
  - step_by (report_spec CUDA_ERROR_OUT_OF_MEMORY w0 m); try done. intros c w2 (O2 & F2 & _).
    apply after_ret. by exists c.
Qed.

Lemma handle_spec min_bytes w : (0 < min_bytes)%nat -> ok w -> submitted w = [] -> responses w = [] ->
  after (handle_cuMemcpyDtoH_v2 K data min_bytes) (fun c w' =>
    exists code, c = Some code /\ ok w' /\ finished code (responses w')) w.
Proof.
  intros Hmin O E R. unfold handle_cuMemcpyDtoH_v2.
  destruct (Nat.leb_spec min_bytes bytes) as [Hle|Hlt].
  - step_by pipelined_spec; [exact O | exact E | exact R | lia |]. intros p w1 (p' & -> & O1 & H1).
    destruct p' as [code|o]; [apply after_ret; by exists code|].
    destruct H1 as (m & -> & R1 & Hm). by apply serial_spec.
  - apply (serial_spec 0); [done | done | by left].
Qed.

(** ** The client *)

(** What the destination holds when the first [k] bytes have arrived. *)
Definition filled (k : nat) (dst : list byte) : list byte := take k data ++ drop k dst.

Lemma filled_chunk m dst : length dst = bytes -> (m * K <= bytes)%nat ->
  let chunk := Nat.min (bytes - m * K) K in
  take (m * K) (filled (m * K) dst) ++ take chunk (segment (m * K) K)
    ++ drop (m * K + chunk) (filled (m * K) dst) = filled (m * K + chunk) dst.
Proof.
  intros Hd Hm chunk. unfold filled.
  assert (Ht : length (take (m * K) data) = (m * K)%nat) by (rewrite length_take; fold bytes; lia).
  rewrite take_app_le by lia. rewrite (take_ge (take (m * K) data)) by lia.
  rewrite drop_app_ge, Ht, drop_drop by lia.
  unfold DtohPipe.segment. rewrite take_take, Nat.min_l by lia.
  rewrite <- take_take_drop, <- app_assoc. do 2 f_equal. f_equal. lia.
Qed.

Lemma read_chunk m frames dst : length dst = bytes -> (m * K <= bytes)%nat ->
  read_chunks K bytes ((CUDA_SUCCESS, segment (m * K) K) :: frames) (filled (m * K) dst) (m * K) =
  if (S m * K <? bytes)%nat then read_chunks K bytes frames (filled (S m * K) dst) (S m * K)
  else (CUDA_SUCCESS, data).
Proof.
  intros Hd Hm. cbn [read_chunks]. rewrite Z.eqb_refl. cbn [negb].
  assert (Hl : length (segment (m * K) K) = Nat.min (bytes - m * K) K).
  { unfold DtohPipe.segment. rewrite length_take, length_drop. fold bytes. lia. }
  rewrite Hl, Nat.ltb_irrefl. rewrite filled_chunk by done.
  destruct (Nat.ltb_spec (S m * K) bytes) as [H|H].
  - replace (m * K + Nat.min (bytes - m * K) K)%nat with (S m * K)%nat by lia.
    by destruct (Nat.ltb_spec (S m * K) bytes); [|lia].
  - replace (m * K + Nat.min (bytes - m * K) K)%nat with bytes by lia. rewrite Nat.ltb_irrefl.
    unfold filled. rewrite firstn_all, drop_ge by lia. by rewrite app_nil_r.
Qed.

Lemma read_served n m rest dst : length dst = bytes -> (n + m < chunk_count)%nat ->
  read_chunks K bytes (map (fun i => (CUDA_SUCCESS, segment (i * K) K)) (seq m n) ++ rest)
    (filled (m * K) dst) (m * K) =
  read_chunks K bytes rest (filled ((n + m) * K) dst) ((n + m) * K).
Proof.
  intros Hd. revert m. induction n as [|n IH]; intros m Hc; [done|].
  assert (Hb : (S m * K < bytes)%nat).
  { destruct (decide (S m * K < bytes)%nat) as [|H]; [done|]. exfalso.
    assert (chunk_count <= S m)%nat; [|lia]. unfold chunk_count. apply Nat.max_lub; [lia|].
    apply Nat.lt_succ_r, Nat.Div0.div_lt_upper_bound. nia. }
  cbn [seq map app]. rewrite read_chunk by lia.
  destruct (Nat.ltb_spec (S m * K) bytes); [|lia]. rewrite IH by lia. by rewrite Nat.add_succ_comm.
Qed.

(** What the client makes of an answer. *)
Lemma read_finished code sent dst : length dst = bytes -> finished code sent ->
  let '(r, dst') := lupine_read_dtoh_chunks K bytes sent dst in
  (r = CUDA_SUCCESS -> dst' = data) /\ (exists k, dst' = filled k dst) /\
  (code = -1 -> r = CUDA_ERROR_DEVICE_UNAVAILABLE) /\
  (code = 0 -> r = CUDA_SUCCESS \/ exists m, sent = served m ++ [(r, [])]).
Proof.
  intros Hd F. unfold lupine_read_dtoh_chunks.
  assert (Start : read_chunks K bytes sent dst 0 = read_chunks K bytes sent (filled (0 * K) dst) (0 * K)) by done.
  rewrite Start. clear Start.
  destruct F as [[-> ->]|[(m & e & -> & Hm & He & ->)|(m & -> & Hm & ->)]].
  - destruct chunk_count as [|n] eqn:Ec; [unfold chunk_count in Ec; lia|].
    unfold served. rewrite seq_S, map_app. rewrite read_served by lia.
    cbn [map]. rewrite !Nat.add_0_r, Nat.add_0_l.
    assert (n * K <= bytes)%nat as Hn.
    { destruct n as [|n]; [lia|]. destruct (decide (S n * K <= bytes)%nat) as [|H]; [done|]. exfalso.
      assert (chunk_count <= S n)%nat; [|lia]. unfold chunk_count. apply Nat.max_lub; [lia|].
      apply Nat.lt_succ_r, Nat.Div0.div_lt_upper_bound. nia. }
    rewrite read_chunk by done.
    assert (bytes <= S n * K)%nat.
    { destruct (decide (bytes <= S n * K)%nat) as [|H]; [done|]. pose proof (below_count (S n)). lia. }
    destruct (Nat.ltb_spec (S n * K) bytes); [lia|]. split_and!; try done; [|by left].
    exists bytes. unfold filled. rewrite firstn_all, drop_ge by lia. by rewrite app_nil_r.
  - unfold served. rewrite read_served by lia. cbn [read_chunks].
    destruct (Z.eqb_spec e CUDA_SUCCESS); [done|]. cbn [negb]. split_and!; try done; [by eexists|].
    right. by exists m.
  - unfold served. rewrite <- (app_nil_r (map _ _)). rewrite read_served by lia. cbn [read_chunks].
    split_and!; try done. by eexists.
Qed.
End Proofs.

(** ** Theorems *)

(** The server before the copy; the slots hold anything. *)
Definition start (K : nat) (s : list answer) (garbage : list byte) : world :=
  World s [] 0 [take K garbage; take K (drop K garbage)] (fun _ => 0%nat) Unallocated false [].

Lemma start_ok K data s garbage : ok K data (start K s garbage).
Proof. constructor; simpl; try done; lia. Qed.

(** C14: A device-to-host copy delivers the device's bytes, for every chunk size, every
    threshold, every script of results of driver and connection, and whenever DMAs land: the
    handler ends, the client that reads its answer reports success only when the
    destination holds exactly the device's bytes, never puts anything but a prefix of them
    there, and fails when the connection failed; when the handler could answer, the client
    has success or the error that the handler sent.  So the pipeline, its fallbacks in
    the middle and the serial copy are one copy to the client. *)
Theorem dtoh_copy_delivers (K min_bytes : nat) (data garbage dst : list byte) (s : list answer)
    (HK : (0 < K)%nat) (Hmin : (0 < min_bytes)%nat) (Hdst : length dst = length data) :
  exists code w,
    handle_cuMemcpyDtoH_v2 K data min_bytes (start K s garbage) = (Some code, w) /\
    let '(r, dst') := lupine_read_dtoh_chunks K (length data) (responses w) dst in
    (r = CUDA_SUCCESS -> dst' = data) /\
    (exists k, dst' = take k data ++ drop k dst) /\
    ((code = 0 /\ (r = CUDA_SUCCESS \/ exists m, responses w = served K data m ++ [(r, [])])) \/
     (code = -1 /\ r = CUDA_ERROR_DEVICE_UNAVAILABLE)).
Proof.
  pose proof (handle_spec K HK data min_bytes (start K s garbage) Hmin (start_ok K data s garbage)
    eq_refl eq_refl) as H. unfold after in H.
  destruct (handle_cuMemcpyDtoH_v2 K data min_bytes (start K s garbage)) as [c w].
  cbn [fst snd] in H. destruct H as (code & -> & O & F). exists code, w. split; [done|].
  pose proof (read_finished K HK data code _ dst Hdst F) as R.
  destruct (lupine_read_dtoh_chunks _ _ _ _) as [r dst']. destruct R as (R1 & R2 & R3 & R4).
  split; [done|]. split; [done|].
  assert (code = 0 \/ code = -1) as [-> | ->] by (destruct F as [[? _]|[(?&?&?&_)|(?&?&_)]]; auto); auto.
Qed.

(** Three chunks of a pipeline whose second event cannot be recorded: the rest is copied
    serially and everything arrives. *)
Lemma dtoh_copy_delivers_witness :
  let s := [Answer 0 true 0; Answer 0 true 0; Answer 0 true 0; Answer 0 true 0; Answer 0 true 0;
            Answer 0 true 0; Answer 7 true 0] in
  exists code w,
    handle_cuMemcpyDtoH_v2 2 [1; 2; 3; 4; 5] 1 (start 2 s [9; 9; 9; 9]) = (Some code, w) /\
    lupine_read_dtoh_chunks 2 5 (responses w) [0; 0; 0; 0; 0] = (CUDA_SUCCESS, [1; 2; 3; 4; 5]).
Proof.
  intros s.
  destruct (dtoh_copy_delivers 2 1 [1; 2; 3; 4; 5] [9; 9; 9; 9] [0; 0; 0; 0; 0] s)
    as (code & w & E & H); [lia | lia | reflexivity |].
  exists code, w. split; [exact E|].
  vm_compute in E. injection E as <- <-. vm_compute. reflexivity.
Defined.

(** C15: The pinned slots are freed only when no DMA into them is queued: whatever the
    driver answers, and although a rejected copy may have been queued, no DMA lands in
    freed memory while the copy runs or at any time after it. *)
Theorem dtoh_no_dma_after_free (K min_bytes : nat) (data garbage : list byte) (s : list answer)
    (HK : (0 < K)%nat) (Hmin : (0 < min_bytes)%nat) (n : nat) :
  stray (land_n data n (handle_cuMemcpyDtoH_v2 K data min_bytes (start K s garbage)).2) = false.
Proof.
  pose proof (handle_spec K HK data min_bytes (start K s garbage) Hmin (start_ok K data s garbage)
    eq_refl eq_refl) as (code & _ & O & _).
  apply (ok_stray _ _ _ (proj1 (land_n_ok K HK data n _ O))).
Qed.

(** A copy that the driver rejects and queues nevertheless. *)
Lemma dtoh_no_dma_after_free_witness :
  stray (land_n [1; 2; 3; 4; 5] 9
    (handle_cuMemcpyDtoH_v2 2 [1; 2; 3; 4; 5] 1
      (start 2 [Answer 0 true 0; Answer 0 true 0; Answer 0 true 0; Answer 9 true 0] [0; 0; 0; 0])).2) = false.
Proof. apply (dtoh_no_dma_after_free 2 1); lia. Defined.
