(* ===== verification/Bulk.v ===== *)
(** * Striped copies to the device

    Large copies from pageable client memory are striped over extra connections
    ([lupine_bulk_push] of [cuda_client_memcpy.cpp], [handle_lupineBulkChunk] and
    [handle_lupineMemcpyHtoDBulk] of [cuda_server_memcpy.cpp]).  Client threads, the
    handlers of the chunks and the handler on the caller's lane run interleaved, each step
    being what a thread does between two points where others can come between: under the
    mutex, a read of the connection, a driver call, or a frame.  The arithmetic of chunks at
    the top is shared with [BulkPull].

    The chunk size is a parameter, as in [DtohPipe]. *)
From S2P Require Import Prelude DtohPipe.

(** [offset] and [bytes] of chunk [i] of a copy of [total] bytes. *)
Definition chunk_offset (K i : nat) : nat := i * K.
Definition chunk_bytes (K total i : nat) : nat := Nat.min K (total - i * K).
Definition chunks (K total : nat) : nat := ((total + K - 1) / K)%nat.

(** Bytes put into a buffer at an offset. *)
Definition splice (offset : nat) (payload buf : list byte) : list byte :=
  take offset buf ++ payload ++ drop (offset + length payload) buf.

(** The part of a buffer that is chunk [i]. *)
Definition chunk_of (K i : nat) (buf : list byte) : list byte :=
  take (chunk_bytes K (length buf) i) (drop (i * K) buf).

Lemma lookup_segment {A} (l : list A) o n p : (p < n)%nat -> take n (drop o l) !! p = l !! (o + p)%nat.
Proof. intros H. rewrite lookup_take_lt by done. apply lookup_drop. Qed.

Lemma length_splice o payload buf : (o + length payload <= length buf)%nat ->
  length (splice o payload buf) = length buf.
Proof. intros H. unfold splice. rewrite !length_app, length_take, length_drop. lia. Qed.

Lemma lookup_splice o payload buf p : (o + length payload <= length buf)%nat ->
  splice o payload buf !! p =
  if decide (o <= p < o + length payload)%nat then payload !! (p - o)%nat else buf !! p.
Proof.
  intros H. unfold splice. assert (Ht : length (take o buf) = o) by (rewrite length_take; lia).
  case_decide as Hp.
  - rewrite lookup_app_r, Ht by lia. by rewrite lookup_app_l by lia.
  - destruct (decide (p < o)%nat).
    + rewrite lookup_app_l by lia. by rewrite lookup_take_lt.
    + rewrite lookup_app_r, Ht, lookup_app_r, lookup_drop by lia. f_equal. lia.
Qed.

Section Chunks.
Context (K : nat) (K_pos : (0 < K)%nat).

Lemma stripe_positive total i : (i < chunks K total)%nat -> (i * K < total)%nat.
Proof.
  intros H. destruct (decide (i * K < total)%nat) as [|Hge]; [done|]. exfalso.
  assert (chunks K total <= i)%nat; [|lia]. apply Nat.lt_succ_r. unfold chunks.
  apply Nat.Div0.div_lt_upper_bound. nia.
Qed.

Lemma chunks_last total i : (i * K < total)%nat -> (i < chunks K total)%nat.
Proof. intros H. unfold chunks. apply Nat.div_le_lower_bound; nia. Qed.

Lemma chunk_sum total : sum_list_with (chunk_bytes K total) (seq 0 (chunks K total)) = total.
Proof.
  assert (H : forall n, sum_list_with (chunk_bytes K total) (seq 0 n) = Nat.min (n * K) total).
  { induction n as [|n IH]; [done|]. rewrite seq_S, sum_list_with_app, IH. simpl. unfold chunk_bytes. lia. }
  rewrite H. destruct (decide (chunks K total * K < total)%nat) as [Hlt|]; [|lia].
  apply chunks_last in Hlt. lia.
Qed.

(** Buffers with the same chunks are the same. *)
Lemma chunks_cover buf src : length buf = length src ->
  (forall i, (i < chunks K (length src))%nat -> chunk_of K i buf = chunk_of K i src) -> buf = src.
Proof.
  intros El H. apply list_eq. intros p. destruct (decide (p < length src)%nat) as [Hp|Hp]; cycle 1.
  { rewrite !lookup_ge_None_2; [done|lia..]. }
  set (i := (p / K)%nat). pose proof (Nat.div_mod_eq p K) as E. pose proof (Nat.mod_upper_bound p K).
  fold i in E. assert (Hi : (i < chunks K (length src))%nat) by (apply chunks_last; lia).
  specialize (H i Hi). unfold chunk_of in H. rewrite El in H.
  apply (f_equal (fun l => l !! (p - i * K)%nat)) in H.
  rewrite !lookup_segment in H by (unfold chunk_bytes; lia).
  by replace (i * K + (p - i * K))%nat with p in H by lia.
Qed.

(** Putting a chunk in its place sets it and no other. *)
Lemma splice_chunk i src buf j : length buf = length src -> (i < chunks K (length src))%nat ->
  (j < chunks K (length src))%nat ->
  chunk_of K j (splice (i * K) (chunk_of K i src) buf) =
  if decide (j = i) then chunk_of K i src else chunk_of K j buf.
Proof.
  intros El Hi Hj. pose proof (stripe_positive _ _ Hi). pose proof (stripe_positive _ _ Hj).
  assert (Lc : length (chunk_of K i src) = chunk_bytes K (length src) i).
  { unfold chunk_of. rewrite length_take, length_drop. unfold chunk_bytes. lia. }
  assert (Hfit : (i * K + length (chunk_of K i src) <= length buf)%nat)
    by (rewrite Lc; unfold chunk_bytes; lia).
  unfold chunk_of at 1. rewrite length_splice by done. apply list_eq. intros p.
  destruct (decide (p < chunk_bytes K (length buf) j)%nat) as [Hp|Hp]; cycle 1.
  { rewrite lookup_ge_None_2 by (rewrite length_take; lia). symmetry. apply lookup_ge_None_2. case_decide as Hji.
    - subst j. rewrite Lc, <- El. lia.
    - unfold chunk_of. rewrite length_take. lia. }
  rewrite lookup_segment, lookup_splice, Lc by done. unfold chunk_bytes in *.
  destruct (decide (j = i)) as [->|Hji].
  - rewrite decide_True by lia. f_equal. lia.
  - rewrite decide_False by nia. unfold chunk_of, chunk_bytes. by rewrite lookup_segment.
Qed.

End Chunks.

Lemma sum_ext (f g : nat -> nat) l : (forall i, i ∈ l -> f i = g i) ->
  sum_list_with f l = sum_list_with g l.
Proof.
  induction l as [|x l IH]; intros H; simpl; [done|].
  rewrite H, IH; [done| |by left]. intros i Hi. apply H. by right.
Qed.

(** A sum in which one term changes. *)
Lemma sum_update (f g : nat -> nat) n i : (i < n)%nat -> (forall j, j <> i -> g j = f j) ->
  (sum_list_with g (seq 0 n) + f i = sum_list_with f (seq 0 n) + g i)%nat.
Proof.
  intros Hi H. replace n with (i + S (n - S i))%nat by lia. rewrite seq_app, !sum_list_with_app. simpl.
  rewrite (sum_ext g f (seq 0 i)) by (intros j Hj%elem_of_seq; apply H; lia).
  rewrite (sum_ext g f (seq (S i) _)) by (intros j Hj%elem_of_seq; apply H; lia). lia.
Qed.

(** A sum of positive terms over some of the indices that is the whole sum has them all. *)
Lemma sum_all (f : nat -> nat) (c : nat -> bool) l :
  (forall i, i ∈ l -> (0 < f i)%nat) ->
  (sum_list_with (fun i => if c i then f i else 0) l <= sum_list_with f l)%nat /\
  (sum_list_with (fun i => if c i then f i else 0)%nat l = sum_list_with f l ->
   forall i, i ∈ l -> c i = true).
Proof.
  induction l as [|x l IH]; intros Hp; simpl; [split; [done|]; intros _ i Hi; by apply not_elem_of_nil in Hi|].
  destruct IH as [Hle Hall]; [intros; apply Hp; by right|]. pose proof (Hp x (list_elem_of_here x l)).
  destruct (c x) eqn:E; simpl.
  - split; [lia|]. intros Heq i [->|Hi]%elem_of_cons; [done|]. apply Hall; [lia|done].
  - split; [lia|]. intros Heq. lia.
Qed.

(** ** To the device *)
Module Push.

(** [lupine_bulk_staging]; a null [data] is [None]. *)
Record staging := Staging { block : option nat; total : nat; landed : nat }.

(** A chunk: not taken from the counter, taken by a feeder, on its way, its bytes being read
    into a block, read but not counted, counted; or its connection failed. *)
Inductive request := Unsent | Claimed | OnWire | Receiving (b : nat) | Received | Counted | Gone.

(** [handle_lupineMemcpyHtoDBulk]: not requested, waiting, past the wait with the block it
    took, answered. *)
Inductive caller := NotAsked | Waiting | Took (b : option nat) | Answered (result : Z).

(** Per copy, the counter [next_chunk], the flag [queued], the chunks, the request on the
    caller's lane and what the destination holds; then the stagings, the heap and
    [lupine_bulk_connection_lost].  [bad]: memory was written after it had been freed. *)
Record state := State {
  next_chunk : Z -> nat;
  queued : Z -> bool;
  chunk : Z -> nat -> request;
  main : Z -> caller;
  device : Z -> option (list byte);
  stagings : gmap Z staging;
  heap : gmap nat (list byte);
  next_block : nat;
  lost : bool;
  bad : bool }.

(** The steps of the threads. *)
Inductive event :=
| Claim (id : Z) | Write (id : Z) (i : nat) (ok : bool) | Ask (id : Z)
| Open (id : Z) (i : nat) | Read (id : Z) (i : nat) | Close (id : Z) (i : nat) | Count (id : Z) (i : nat)
| Lose | Take (id : Z) | Copy (id : Z) (to_host : bool) (driver : Z).

Definition set {A B} `{EqDecision A} (a : A) (b : B) (f : A -> B) : A -> B :=
  fun x => if decide (x = a) then b else f x.

Definition with_client (s : state) (next : Z -> nat) (q : Z -> bool) (c : Z -> nat -> request) : state :=
  State next q c (main s) (device s) (stagings s) (heap s) (next_block s) (lost s) (bad s).

Definition with_chunk (id : Z) (i : nat) (r : request) (s : state) : state :=
  with_client s (next_chunk s) (queued s) (set id (set i r (chunk s id)) (chunk s)).

Definition with_main (id : Z) (m : caller) (s : state) : state :=
  State (next_chunk s) (queued s) (chunk s) (set id m (main s)) (device s) (stagings s) (heap s)
    (next_block s) (lost s) (bad s).

Definition with_device (id : Z) (d : option (list byte)) (s : state) : state :=
  State (next_chunk s) (queued s) (chunk s) (main s) (set id d (device s)) (stagings s) (heap s)
    (next_block s) (lost s) (bad s).

Definition with_memory (s : state) (st : gmap Z staging) (h : gmap nat (list byte)) (n : nat) : state :=
  State (next_chunk s) (queued s) (chunk s) (main s) (device s) st h n (lost s) (bad s).

Definition with_flags (s : state) (l b : bool) : state :=
  State (next_chunk s) (queued s) (chunk s) (main s) (device s) (stagings s) (heap s) (next_block s) l b.

Section System.
Context (K : nat) (source : Z -> list byte) (garbage : nat -> list byte).

Definition size (id : Z) : nat := length (source id).
Definition count (id : Z) : nat := chunks K (size id).
Definition bytes_of (id : Z) (i : nat) : nat := chunk_bytes K (size id) i.
Definition part (id : Z) (i : nat) : list byte := chunk_of K i (source id).

(** *** The client *)

(** [next_chunk.fetch_add(1)] and the condition of the loop of [feed]. *)
Definition feed_claim (id : Z) (s : state) : option state :=
  let i := next_chunk s id in
  let next := set id (S i) (next_chunk s) in
  if (i <? count id)%nat && queued s id
  then Some (with_client s next (queued s) (set id (set i Claimed (chunk s id)) (chunk s)))
  else Some (with_client s next (queued s) (chunk s)).

(** The body of the loop; [ok] is the result of writing the frame. *)
Definition feed_write (id : Z) (i : nat) (ok : bool) (s : state) : option state :=
  match chunk s id i with
  | Claimed =>
      Some (if ok then with_chunk id i OnWire s
            else with_client s (next_chunk s) (set id false (queued s))
                   (set id (set i Gone (chunk s id)) (chunk s)))
  | _ => None
  end.

(** Every feeder has left its loop: no chunk is in its hands. *)
Definition feeders_joined (id : Z) (s : state) : bool :=
  (count id <=? next_chunk s id)%nat &&
  forallb (fun i => match chunk s id i with Claimed => false | _ => true end) (seq 0 (count id)).

(** The request on the caller's lane. *)
Definition request_copy (id : Z) (s : state) : option state :=
  match main s id with
  | NotAsked => if feeders_joined id s && queued s id then Some (with_main id Waiting s) else None
  | _ => None
  end.

(** *** [handle_lupineBulkChunk] *)

(** Under the mutex: the first chunk makes the staging. *)
Definition chunk_open (id : Z) (i : nat) (s : state) : option state :=
  match chunk s id i with
  | OnWire =>
      let st := default (Staging None 0 0) (stagings s !! id) in
      match block st with
      | Some b =>
          Some (with_memory (with_chunk id i (Receiving b) s) (<[id := st]> (stagings s)) (heap s)
                  (next_block s))
      | None =>
          let b := next_block s in
          Some (with_memory (with_chunk id i (Receiving b) s)
                  (<[id := Staging (Some b) (size id) (landed st)]> (stagings s))
                  (<[b := take (size id) (garbage b ++ replicate (size id) 0)]> (heap s)) (S b))
      end
  | _ => None
  end.

(** [rpc_read] into the block. *)
Definition chunk_read (id : Z) (i : nat) (s : state) : option state :=
  match chunk s id i with
  | Receiving b =>
      match heap s !! b with
      | Some buf =>
          Some (with_memory (with_chunk id i Received s) (stagings s)
                  (<[b := splice (i * K) (part id i) buf]> (heap s)) (next_block s))
      | None => Some (with_flags s (lost s) true)
      end
  | _ => None
  end.

(** The connection ends before the bytes are there. *)
Definition chunk_gone (id : Z) (i : nat) (s : state) : option state :=
  match chunk s id i with
  | OnWire | Receiving _ => Some (with_chunk id i Gone s)
  | _ => None
  end.

(** Under the mutex again: the bytes count. *)
Definition chunk_count (id : Z) (i : nat) (s : state) : option state :=
  match chunk s id i with
  | Received =>
      let st := default (Staging None 0 0) (stagings s !! id) in
      Some (with_memory (with_chunk id i Counted s)
              (<[id := Staging (block st) (total st) (landed st + bytes_of id i)]> (stagings s)) (heap s)
              (next_block s))
  | _ => None
  end.

Definition lupine_server_bulk_connection_lost (s : state) : option state := Some (with_flags s true (bad s)).

(** *** [handle_lupineMemcpyHtoDBulk] *)

(** [it != end() && it->second.landed == it->second.total]. *)
Definition landed_whole (id : Z) (s : state) : bool :=
  match stagings s !! id with Some st => (landed st =? total st)%nat | None => false end.

(** The end of the wait: the staging is taken out, and freed when it is incomplete. *)
Definition main_take (id : Z) (s : state) : option state :=
  match main s id with
  | Waiting =>
      if lost s || landed_whole id s then
        match stagings s !! id with
        | Some st =>
            if (landed st =? total st)%nat
            then Some (with_memory (with_main id (Took (block st)) s) (delete id (stagings s)) (heap s)
                         (next_block s))
            else Some (with_memory (with_main id (Took None) s) (delete id (stagings s))
                         (match block st with Some b => delete b (heap s) | None => heap s end)
                         (next_block s))
        | None => Some (with_main id (Took None) s)
        end
      else None
  | _ => None
  end.

(** The copy, the release and the answer; [driver] is what [cuMemcpyHtoD_v2] returns. *)
Definition main_copy (id : Z) (to_host : bool) (driver : Z) (s : state) : option state :=
  match main s id with
  | Took None => Some (with_main id (Answered CUDA_ERROR_DEVICE_UNAVAILABLE) s)
  | Took (Some b) =>
      let result := if to_host then CUDA_SUCCESS else driver in
      let s' := with_memory (with_main id (Answered result) s) (stagings s) (delete b (heap s))
                  (next_block s) in
      Some (if result =? CUDA_SUCCESS then with_device id (take (size id) <$> heap s !! b) s' else s')
  | _ => None
  end.

(** What a thread can do next. *)
Definition perform (e : event) : state -> option state :=
  match e with
  | Claim id => feed_claim id
  | Write id i ok => feed_write id i ok
  | Ask id => request_copy id
  | Open id i => chunk_open id i
  | Read id i => chunk_read id i
  | Close id i => chunk_gone id i
  | Count id i => chunk_count id i
  | Lose => lupine_server_bulk_connection_lost
  | Take id => main_take id
  | Copy id to_host driver => main_copy id to_host driver
  end.

Definition init : state :=
  State (fun _ => 0%nat) (fun _ => true) (fun _ _ => Unsent) (fun _ => NotAsked) (fun _ => None) ∅ ∅ 0
    false false.

(** Nothing is said about a run that has written freed memory. *)
Inductive reachable : state -> Prop :=
| reach_init : reachable init
| reach_step s e s' : reachable s -> bad s = false -> perform e s = Some s' -> reachable s'.

Fixpoint run (es : list event) (s : state) : option state :=
  match es with
  | [] => Some s
  | e :: es => if bad s then None else s' ← perform e s; run es s'
  end.

(** *** What holds of every run *)

Definition complete (id : Z) (c : nat -> request) : Prop := forall i, (i < count id)%nat -> c i = Counted.

Definition taken (m : caller) : bool := match m with Took _ | Answered _ => true | _ => false end.

(** The blocks a copy can reach. *)
Definition uses (c : nat -> request) (st : option staging) (m : caller) (b : nat) : Prop :=
  (exists i, c i = Receiving b) \/ (exists e, st = Some e /\ block e = Some b) \/ m = Took (Some b).

(** What the staging says of a chunk. *)
Definition chunk_fine (id : Z) (b : nat) (buf : list byte) (i : nat) (r : request) : Prop :=
  match r with
  | Receiving b' => b' = b
  | Received | Counted => chunk_of K i buf = part id i
  | _ => True
  end.

Definition counted_bytes (id : Z) (c : nat -> request) : nat :=
  sum_list_with (fun i => if match c i with Counted => true | _ => false end then bytes_of id i else 0)%nat
    (seq 0 (count id)).

(** A staging before the caller's handler has taken it. *)
Definition entry_ok (id : Z) (h : gmap nat (list byte)) (c : nat -> request) (st : option staging) : Prop :=
  match st with
  | None => forall i, match c i with Receiving _ | Received | Counted => False | _ => True end
  | Some e => exists b buf, block e = Some b /\ h !! b = Some buf /\ total e = size id /\
      landed e = counted_bytes id c /\ forall i, chunk_fine id b buf i (c i)
  end.

Record copy_ok (id : Z) (h : gmap nat (list byte)) (l : bool) (next : nat) (c : nat -> request)
    (st : option staging) (m : caller) (d : option (list byte)) : Prop := CopyOk {
  ok_sent : forall i, c i <> Unsent -> (i < next)%nat /\ (i < count id)%nat;
  ok_entry : taken m = false -> entry_ok id h c st;
  ok_took : forall b, m = Took (Some b) -> h !! b = Some (source id) /\ complete id c;
  ok_taken : taken m = true -> complete id c \/ l = true;
  ok_answer : m = Answered CUDA_SUCCESS -> d = Some (source id) }.

Definition uses_of (s : state) (id : Z) (b : nat) : Prop :=
  uses (chunk s id) (stagings s !! id) (main s id) b.

(** Blocks belong to one copy and are as long as it. *)
Definition own (s : state) : Prop := forall id b, uses_of s id b ->
  (b < next_block s)%nat /\ (forall buf, heap s !! b = Some buf -> length buf = size id) /\
  (forall id', uses_of s id' b -> id' = id).

Definition ok_of (s : state) (id : Z) : Prop :=
  copy_ok id (heap s) (lost s) (next_chunk s id) (chunk s id) (stagings s !! id) (main s id) (device s id).

Record inv (s : state) : Prop := Inv {
  inv_own : own s;
  inv_copy : forall id, ok_of s id;
  inv_bad : bad s = true -> lost s = true }.

Context (K_pos : (0 < K)%nat).

Lemma set_eq {A B} `{EqDecision A} (a : A) (b : B) f : set a b f a = b.
Proof. unfold set. by rewrite decide_True. Qed.

Lemma set_ne {A B} `{EqDecision A} (a : A) (b : B) f x : x <> a -> set a b f x = f x.
Proof. intros. unfold set. by rewrite decide_False. Qed.

(** A copy is as before when its blocks are. *)
Lemma copy_frame id h h' l l' next c st m d : copy_ok id h l next c st m d ->
  (forall b, uses c st m b -> h' !! b = h !! b) -> (l = true -> l' = true) ->
  copy_ok id h' l' next c st m d.
Proof.
  intros [H1 H2 H3 H4 H5] Hh Hl. split; [done| | | |done].
  - intros E. specialize (H2 E). destruct st as [e|]; [|done]. destruct H2 as (b & buf & Eb & Hb & R).
    exists b, buf. split; [done|]. split; [|done]. rewrite Hh; [done|]. right. left. eauto.
  - intros b E. rewrite Hh; [by apply H3|]. by right; right.
  - intros E. destruct (H4 E); auto.
Qed.

(** A step of one copy that reaches no new block, or only a fresh one. *)
Lemma own_step id s s' : own s ->
  (forall id', id' <> id -> forall b, uses_of s' id' b -> uses_of s id' b /\ heap s' !! b = heap s !! b) ->
  (next_block s <= next_block s')%nat ->
  (forall b, uses_of s' id b ->
     uses_of s id b \/ (b = next_block s /\ next_block s' = S (next_block s))) ->
  (forall b buf, uses_of s' id b -> heap s' !! b = Some buf -> length buf = size id) ->
  own s'.
Proof.
  intros Ho Hother Hn Hid Hlen id' b Hu. destruct (decide (id' = id)) as [->|Hne].
  - split; [|split].
    + destruct (Hid b Hu) as [H|[-> ->]]; [destruct (Ho id b H); lia|lia].
    + intros buf Hb. by eapply Hlen.
    + intros id'' Hu'. destruct (decide (id'' = id)) as [|Hne]; [done|].
      destruct (Hother _ Hne _ Hu') as [Hu'' _]. destruct (Hid b Hu) as [H|[-> _]].
      * by apply (Ho id b H).
      * destruct (Ho _ _ Hu''); lia.
  - destruct (Hother _ Hne _ Hu) as [Hu' Eh]. destruct (Ho _ _ Hu') as (H1 & H2 & H3).
    split; [lia|]. split; [intros buf; rewrite Eh; apply H2|].
    intros id'' Hu''. destruct (decide (id'' = id)) as [->|Hne'].
    + destruct (Hid b Hu'') as [H|[-> _]]; [by apply H3|lia].
    + apply H3. by destruct (Hother _ Hne' _ Hu'').
Qed.

(** The other copies do not see a step of this one. *)
Lemma others_step id s s' : own s -> (forall id', ok_of s id') -> (bad s' = true -> lost s' = true) ->
  (forall id', id' <> id -> next_chunk s' id' = next_chunk s id' /\ chunk s' id' = chunk s id' /\
     stagings s' !! id' = stagings s !! id' /\ main s' id' = main s id' /\ device s' id' = device s id') ->
  lost s' = lost s -> (next_block s <= next_block s')%nat ->
  (forall b, heap s' !! b <> heap s !! b -> uses_of s id b \/ b = next_block s) ->
  (forall b, uses_of s' id b ->
     uses_of s id b \/ (b = next_block s /\ next_block s' = S (next_block s))) ->
  (forall b buf, uses_of s' id b -> heap s' !! b = Some buf -> length buf = size id) ->
  ok_of s' id -> inv s'.
Proof.
  intros Ho Hc Hbad Hf El Hn Hh Hid Hlen Hok.
  assert (Hheap : forall id' b, id' <> id -> uses_of s id' b -> heap s' !! b = heap s !! b).
  { intros id' b Hne Hu. destruct (decide (heap s' !! b = heap s !! b)) as [|Hd]; [done|].
    destruct (Ho _ _ Hu) as (Hlt & _ & Hu'). destruct (Hh b Hd) as [Hi| ->]; [|lia].
    by specialize (Hu' _ Hi). }
  split; [|intros id'; destruct (decide (id' = id)) as [->|Hne]; [done|]|done].
  - apply (own_step id s); try done. intros id' Hne b. destruct (Hf id' Hne) as (_ & E1 & E2 & E3 & _).
    unfold uses_of at 1. rewrite E1, E2, E3. intros Hu. split; [done|]. by eapply Hheap.
  - destruct (Hf id' Hne) as (E0 & E1 & E2 & E3 & E4). unfold ok_of. rewrite E0, E1, E2, E3, E4, El.
    eapply copy_frame; [apply Hc| |done]. intros b Hu. by eapply Hheap.
Qed.

Definition is_counted (r : request) : bool := match r with Counted => true | _ => false end.

Lemma counted_same id c c' : (forall i, (i < count id)%nat -> is_counted (c' i) = is_counted (c i)) ->
  counted_bytes id c' = counted_bytes id c.
Proof.
  intros H. unfold counted_bytes. apply sum_ext. intros i Hi%elem_of_seq.
  specialize (H i ltac:(lia)). unfold is_counted in H. by rewrite H.
Qed.

Lemma counted_set_same id c i r : is_counted r = is_counted (c i) ->
  counted_bytes id (set i r c) = counted_bytes id c.
Proof.
  intros H. apply counted_same. intros j _. unfold set. by case_decide; [subst j|].
Qed.

(** Counting a chunk adds its bytes. *)
Lemma counted_set_new id c i : (i < count id)%nat -> is_counted (c i) = false ->
  counted_bytes id (set i Counted c) = (counted_bytes id c + bytes_of id i)%nat.
Proof.
  intros Hi Hc. pose proof (sum_update
    (fun i => if match c i with Counted => true | _ => false end then bytes_of id i else 0)%nat
    (fun j => if match set i Counted c j with Counted => true | _ => false end then bytes_of id j else 0)%nat
    (count id) i Hi) as H. unfold counted_bytes. simpl in H. rewrite set_eq in H. unfold is_counted in Hc.
  rewrite Hc in H. rewrite <- H by (intros j Hj; by rewrite set_ne). lia.
Qed.

(** All the bytes counted are all the chunks. *)
Lemma counted_complete id c : counted_bytes id c = size id -> complete id c.
Proof.
  intros H i Hi. pose proof (sum_all (bytes_of id) (fun i => is_counted (c i)) (seq 0 (count id))) as [_ Hall].
  - intros j Hj%elem_of_seq. unfold bytes_of, chunk_bytes.
    pose proof (stripe_positive K K_pos (size id) j ltac:(unfold count in *; lia)). lia.
  - specialize (Hall ltac:(etrans; [exact H|symmetry; by apply chunk_sum]) i).
    assert (Hc : is_counted (c i) = true) by (apply Hall, elem_of_seq; lia).
    by destruct (c i).
Qed.

Lemma uses_set c i r st m b : uses (set i r c) st m b -> r = Receiving b \/ uses c st m b.
Proof.
  intros [[j Hj]|H]; [|by right; right]. unfold set in Hj. case_decide; [by left|]. right. left. eauto.
Qed.

Lemma sent_set id next c i r : (forall j, c j <> Unsent -> (j < next)%nat /\ (j < count id)%nat) ->
  c i <> Unsent -> forall j, set i r c j <> Unsent -> (j < next)%nat /\ (j < count id)%nat.
Proof. intros H Hi j. unfold set. case_decide; [subst; auto|auto]. Qed.

(** A complete copy has no chunk in another state. *)
Lemma complete_not id next c i : complete id c ->
  (forall j, c j <> Unsent -> (j < next)%nat /\ (j < count id)%nat) -> c i <> Unsent -> c i = Counted.
Proof. intros Hc Hs Hu. apply Hc. by apply Hs. Qed.

Lemma taken_lost id h l next c st m d i : copy_ok id h l next c st m d -> taken m = true -> c i <> Unsent ->
  c i <> Counted -> l = true.
Proof.
  intros [H1 _ _ H4 _] Ht Hu Hc. destruct (H4 Ht) as [Hcomp|]; [|done].
  destruct (H1 i Hu) as [_ Hi]. by rewrite Hcomp in Hc.
Qed.

(** The chunk [i] of a copy goes on without the server's memory changing. *)
Lemma chunk_moves id i r s next q : inv s ->
  (chunk s id i <> Unsent \/ (i = next_chunk s id /\ (i < count id)%nat /\ next id = S i)) ->
  (next_chunk s id <= next id)%nat -> (forall id', id' <> id -> next id' = next_chunk s id') ->
  is_counted (chunk s id i) = false ->
  match r with Claimed | OnWire | Gone => True | _ => False end ->
  inv (with_client s next q (set id (set i r (chunk s id)) (chunk s))).
Proof.
  intros [Ho Hc Hb] Hi Hn Hne Hcnt Hr. pose proof (Hc id) as [H1 H2 H3 H4 H5].
  apply (others_step id s); simpl; try done.
  - intros id' Hd. by rewrite set_ne, Hne.
  - intros b. unfold uses_of. simpl. rewrite set_eq. intros [->|Hu]%uses_set; [done|by left].
  - intros b buf. unfold uses_of. simpl. rewrite set_eq. intros [->|Hu]%uses_set; [done|].
    by apply (Ho id b).
  - unfold ok_of. simpl. rewrite set_eq. split; try done.
    + intros j. unfold set. case_decide as Hj.
      * subst j. intros _. destruct Hi as [Hi|(-> & ? & ->)]; [destruct (H1 i Hi); lia|lia].
      * intros Hu. destruct (H1 j Hu); lia.
    + intros Ht. specialize (H2 Ht). destruct (stagings s !! id) as [e|] eqn:Ee; simpl in *.
      * destruct H2 as (b & buf & R1 & R2 & R3 & R4 & R5). exists b, buf. repeat split; try done.
        -- rewrite counted_set_same; [done|]. rewrite Hcnt. by destruct r.
        -- intros j. unfold set. case_decide; [|done]. by destruct r.
      * intros j. unfold set. case_decide; [by destruct r|apply H2].
    + intros b Hm. destruct (H3 _ Hm) as [_ Hcomp]. rewrite Hcomp in Hcnt; [done|].
      destruct Hi as [Hi|(_ & ? & _)]; [by apply H1|done].
    + intros Ht. destruct (H4 Ht) as [Hcomp|]; [|by right]. left. intros j Hj.
      unfold set. case_decide as Hji; [subst j|by apply Hcomp]. by rewrite (Hcomp i Hj) in Hcnt.
Qed.

Lemma feed_claim_inv id s s' : inv s -> feed_claim id s = Some s' -> inv s'.
Proof.
  intros Hi. unfold feed_claim. destruct (_ && _) eqn:E; intros [= <-].
  - apply andb_true_iff in E as [E%Nat.ltb_lt _]. apply chunk_moves; try done; rewrite ?set_eq.
    + by right.
    + lia.
    + intros. by rewrite set_ne.
    + destruct (chunk s id _) eqn:Ec; try done. exfalso.
      destruct (ok_sent _ _ _ _ _ _ _ _ (inv_copy _ Hi id) (next_chunk s id)); [by rewrite Ec|lia].
  - destruct Hi as [Ho Hc Hb]. apply (others_step id s); simpl; try done.
    + intros id' Hd. by rewrite set_ne.
    + by left.
    + intros b buf Hu. by apply (Ho id b).
    + destruct (Hc id) as [H1 H2 H3 H4 H5]. split; simpl; try done. rewrite set_eq. intros i Hu.
      destruct (H1 i Hu). lia.
Qed.

Lemma feed_write_inv id i ok s s' : inv s -> feed_write id i ok s = Some s' -> inv s'.
Proof.
  intros Hi. unfold feed_write. destruct (chunk s id i) eqn:E; try done. intros [= <-].
  destruct ok; apply chunk_moves; try done; rewrite ?E; try done; by left.
Qed.

Lemma chunk_gone_inv id i s s' : inv s -> chunk_gone id i s = Some s' -> inv s'.
Proof.
  intros Hi. unfold chunk_gone. destruct (chunk s id i) eqn:E; try done; intros [= <-];
    apply chunk_moves; try done; rewrite ?E; try done; by left.
Qed.

(** The caller's handler goes on without the memory changing. *)
Lemma main_moves id m s : inv s -> (forall b, m <> Took (Some b)) -> m <> Answered CUDA_SUCCESS ->
  (taken m = false -> taken (main s id) = false) ->
  (taken m = true -> taken (main s id) = true \/ lost s = true) -> inv (with_main id m s).
Proof.
  intros [Ho Hc Hb] Hm1 Hm2 Hm3 Hm4. assert (Hsub : forall b, uses_of (with_main id m s) id b -> uses_of s id b).
  { intros b. unfold uses_of. simpl. rewrite set_eq. intros [H|[H|H]]; [by left|by right; left|by apply Hm1 in H]. }
  apply (others_step id s); simpl; try done.
  - intros id' Hd. by rewrite set_ne.
  - left. by apply Hsub.
  - intros b buf Hu. apply (Ho id b). by apply Hsub.
  - destruct (Hc id) as [H1 H2 H3 H4 H5]. unfold ok_of. simpl. rewrite set_eq. split; try done.
    + auto.
    + intros b Hb'. by apply Hm1 in Hb'.
    + intros Ht. destruct (Hm4 Ht); auto.
Qed.

Lemma request_copy_inv id s s' : inv s -> request_copy id s = Some s' -> inv s'.
Proof.
  intros Hi. unfold request_copy. destruct (main s id) eqn:E; try done. destruct (_ && _); [|done].
  intros [= <-]. apply main_moves; try done. by rewrite E.
Qed.

Lemma connection_lost_inv s s' : inv s -> lupine_server_bulk_connection_lost s = Some s' -> inv s'.
Proof.
  intros [Ho Hc Hb] [= <-]. split; [done| |done]. intros id. eapply copy_frame; [apply Hc|done|done].
Qed.

Lemma entry_ok_open id h c i b buf e : c i = OnWire -> entry_ok id h c (Some e) -> block e = Some b ->
  h !! b = Some buf -> entry_ok id h (set i (Receiving b) c) (Some e).
Proof.
  intros Hc (b0 & buf0 & R1 & R2 & R3 & R4 & R5) Eb Hb. rewrite Eb in R1. injection R1 as <-. rewrite Hb in R2. injection R2 as <-. exists b, buf.
  repeat split; try done; [rewrite counted_set_same; [done|by rewrite Hc]|].
  intros j. unfold set. by case_decide.
Qed.

Lemma taken_set id c i r l m : c i <> Counted -> (forall j, c j <> Unsent -> (j < count id)%nat) ->
  c i <> Unsent -> (taken m = true -> complete id c \/ l = true) ->
  taken m = true -> complete id (set i r c) \/ l = true.
Proof.
  intros Hc Hs Hu H Ht. destruct (H Ht) as [Hcomp|]; [|by right].
  by rewrite (Hcomp i (Hs i Hu)) in Hc.
Qed.

(** A later chunk of a staging. *)
Lemma open_known id i b e s : inv s -> chunk s id i = OnWire -> stagings s !! id = Some e ->
  block e = Some b -> inv (with_chunk id i (Receiving b) s).
Proof.
  intros Hinv E Ee Eb. pose proof Hinv as [Ho Hc Hb]. destruct (Hc id) as [H1 H2 H3 H4 H5].
  assert (Hu0 : uses_of s id b) by (right; left; rewrite Ee; eauto).
  assert (Hsub : forall b', uses (set i (Receiving b) (chunk s id)) (stagings s !! id) (main s id) b' ->
    uses_of s id b') by (intros b' [Hq|Hu]%uses_set; [by injection Hq as <-|done]).
  apply (others_step id s); simpl; try done.
  - intros id' Hd. by rewrite set_ne.
  - intros b'. unfold uses_of at 1. simpl. rewrite set_eq. left. by apply Hsub.
  - intros b' buf. unfold uses_of at 1. simpl. rewrite set_eq. intros Hu. apply (Ho id b'). by apply Hsub.
  - unfold ok_of. simpl. rewrite set_eq, Ee in *. split; try done.
    + apply sent_set; [done|by rewrite E].
    + intros Ht. specialize (H2 Ht). destruct H2 as (b0 & buf & R1 & R2 & R).
      assert (b0 = b) as -> by congruence. eapply entry_ok_open; [done|exists b, buf; by split|done|done].
    + intros b' Hm. destruct (H3 _ Hm) as [_ Hcomp].
      pose proof (complete_not _ _ _ i Hcomp H1 ltac:(by rewrite E)). congruence.
    + apply taken_set; [by rewrite E|intros; by apply H1|by rewrite E|done].
Qed.

(** Only a staging whose copy is over has no block. *)
Lemma open_none id s : inv s -> block (default (Staging None 0 0) (stagings s !! id)) = None ->
  taken (main s id) = false -> stagings s !! id = None.
Proof.
  intros [_ Hc _] Eb Ht. destruct (Hc id) as [_ H2 _ _ _]. specialize (H2 Ht).
  destruct (stagings s !! id) as [e|]; [|done]. destruct H2 as (b0 & buf & R1 & _). simpl in Eb. congruence.
Qed.

Lemma entry_ok_fresh id h c i b buf : c i = OnWire -> entry_ok id h c None -> h !! b = Some buf ->
  entry_ok id h (set i (Receiving b) c) (Some (Staging (Some b) (size id) 0)).
Proof.
  intros E H2 Hb. exists b, buf. repeat split; try done.
  - rewrite counted_set_same by (by rewrite E). unfold counted_bytes. symmetry.
    rewrite (sum_ext _ (fun _ => 0%nat)); [by induction (seq _ _)|].
    intros j _. specialize (H2 j). by destruct (c j).
  - intros j. unfold set. case_decide; [done|]. specialize (H2 j). by destruct (c j).
Qed.

(** The first chunk of a staging. *)
Lemma open_fresh id i st buf s : inv s -> chunk s id i = OnWire -> length buf = size id ->
  st = default (Staging None 0 0) (stagings s !! id) -> block st = None ->
  inv (with_memory (with_chunk id i (Receiving (next_block s)) s)
         (<[id := Staging (Some (next_block s)) (size id) (landed st)]> (stagings s))
         (<[next_block s := buf]> (heap s)) (S (next_block s))).
Proof.
  intros Hinv E Lf -> Eb. pose proof (open_none _ _ Hinv Eb) as Hnone. pose proof Hinv as [Ho Hc Hb].
  destruct (Hc id) as [H1 H2 H3 H4 H5].
  remember (next_block s) as b eqn:Enb.
  assert (Hsub : forall b' n l, uses (set i (Receiving b) (chunk s id)) (Some (Staging (Some b) n l))
    (main s id) b' -> uses_of s id b' \/ b' = b).
  { intros b' n l [Hq|[Hu|[(e & [= <-] & Hq)|Hu]]]%uses_set; [right; by injection Hq| |right; by injection Hq|].
    - left. by left.
    - left. by right; right. }
  apply (others_step id s); simpl; rewrite <- ?Enb; try done.
  - intros id' Hd. by rewrite set_ne, lookup_insert_ne.
  - lia.
  - intros b' Hd. destruct (decide (b' = b)); [by right|]. by rewrite lookup_insert_ne in Hd.
  - intros b'. unfold uses_of at 1. simpl. rewrite set_eq, lookup_insert_eq. intros [?| ->]%Hsub; auto.
  - intros b' buf'. unfold uses_of at 1. simpl. rewrite set_eq, lookup_insert_eq. intros Hu.
    destruct (decide (b' = b)) as [->|Hn]; [rewrite lookup_insert_eq; by intros [= <-]|].
    rewrite lookup_insert_ne by done. destruct (Hsub _ _ _ Hu); [by apply (Ho id b')|done].
  - unfold ok_of. simpl. rewrite set_eq, lookup_insert_eq. split; try done.
    + apply sent_set; [done|by rewrite E].
    + intros Ht. specialize (H2 Ht). rewrite (Hnone Ht) in *.
      eapply entry_ok_fresh; [done|done|by rewrite lookup_insert_eq].
    + intros b' Hm. destruct (H3 _ Hm) as [_ Hcomp].
      pose proof (complete_not _ _ _ i Hcomp H1 ltac:(by rewrite E)). congruence.
    + apply taken_set; [by rewrite E|intros; by apply H1|by rewrite E|done].
Qed.

Lemma chunk_open_inv id i s s' : inv s -> chunk_open id i s = Some s' -> inv s'.
Proof.
  intros Hinv. unfold chunk_open. destruct (chunk s id i) eqn:E; try done.
  destruct (block (default _ _)) as [b|] eqn:Eb; intros [= <-].
  - destruct (stagings s !! id) as [e|] eqn:Ee; [|done]. simpl in *. rewrite insert_id by done.
    by eapply (open_known id i b e s).
  - apply open_fresh; try done. rewrite length_take, length_app, length_replicate. lia.
Qed.

Lemma part_length id i : (i < count id)%nat -> (i * K + length (part id i) <= size id)%nat.
Proof.
  intros Hi. pose proof (stripe_positive K K_pos _ _ Hi). unfold part, chunk_of.
  rewrite length_take, length_drop. unfold chunk_bytes, size in *. lia.
Qed.

Lemma chunk_fine_read id b buf c i j : length buf = size id -> (forall k, c k <> Unsent -> (k < count id)%nat) ->
  c i = Receiving b -> (forall k, chunk_fine id b buf k (c k)) ->
  chunk_fine id b (splice (i * K) (part id i) buf) j (set i Received c j).
Proof.
  intros L Hs Hi Hf. assert (Hic : (i < count id)%nat) by (apply Hs; by rewrite Hi).
  unfold set. case_decide as Hji.
  - subst j. simpl. unfold part. rewrite splice_chunk by done. by rewrite decide_True.
  - specialize (Hf j). destruct (c j) eqn:Ej; try done; simpl in *;
      (assert (Hjc : (j < count id)%nat) by (apply Hs; by rewrite Ej));
      unfold part; rewrite splice_chunk by done; by rewrite decide_False.
Qed.

Lemma entry_ok_read id h b buf c i e : h !! b = Some buf -> length buf = size id ->
  (forall k, c k <> Unsent -> (k < count id)%nat) -> c i = Receiving b -> entry_ok id h c (Some e) ->
  entry_ok id (<[b := splice (i * K) (part id i) buf]> h) (set i Received c) (Some e).
Proof.
  intros Hb L Hs Hi (b0 & buf0 & R1 & R2 & R3 & R4 & R5).
  assert (b0 = b) as -> by (specialize (R5 i); by rewrite Hi in R5). rewrite Hb in R2. injection R2 as <-.
  exists b, (splice (i * K) (part id i) buf). rewrite lookup_insert_eq. repeat split; try done.
  - rewrite counted_set_same; [done|by rewrite Hi].
  - intros j. by apply chunk_fine_read.
Qed.

Lemma chunk_read_inv id i s s' : inv s -> chunk_read id i s = Some s' -> inv s'.
Proof.
  intros Hinv. unfold chunk_read. destruct (chunk s id i) as [| | |b| | |] eqn:E; try done.
  pose proof Hinv as [Ho Hc Hb]. pose proof (Hc id) as [H1 H2 H3 H4 H5].
  assert (Hs : forall j, chunk s id j <> Unsent -> (j < count id)%nat) by (intros j Hj; by apply H1).
  assert (Hub : uses_of s id b) by (left; eauto). pose proof (Ho _ _ Hub) as (_ & Hlen & _).
  destruct (heap s !! b) as [buf|] eqn:Eh; intros [= <-]; cycle 1.
  { split; [done|done|]. simpl. intros _. destruct (taken (main s id)) eqn:Ht.
    - eapply taken_lost; [apply (Hc id)|done|by rewrite E|by rewrite E].
    - specialize (H2 eq_refl). destruct (stagings s !! id) as [e|]; [|specialize (H2 i); by rewrite E in H2].
      destruct H2 as (b0 & buf & _ & R2 & _ & _ & R5). specialize (R5 i). rewrite E in R5. simpl in R5. congruence. }
  specialize (Hlen buf eq_refl).
  assert (Hsub : forall b', uses (set i Received (chunk s id)) (stagings s !! id) (main s id) b' ->
    uses_of s id b') by (intros b' [Hq|Hu]%uses_set; done).
  apply (others_step id s); simpl; try done.
  - intros id' Hd. by rewrite set_ne.
  - intros b' Hd. destruct (decide (b' = b)) as [->|]; [by left|]. by rewrite lookup_insert_ne in Hd.
  - intros b'. unfold uses_of at 1. simpl. rewrite set_eq. left. by apply Hsub.
  - intros b' buf'. unfold uses_of at 1. simpl. rewrite set_eq. intros Hu.
    destruct (decide (b' = b)) as [->|]; [|rewrite lookup_insert_ne by done; by apply (Ho id b'), Hsub].
    rewrite lookup_insert_eq. intros [= <-]. rewrite length_splice; [done|]. rewrite Hlen. apply part_length, Hs.
    by rewrite E.
  - unfold ok_of. simpl. rewrite set_eq. split; try done.
    + apply sent_set; [done|by rewrite E].
    + intros Ht. specialize (H2 Ht). destruct (stagings s !! id) as [e|]; [by apply entry_ok_read|].
      specialize (H2 i). by rewrite E in H2.
    + intros b' Hm. destruct (H3 _ Hm) as [_ Hcomp].
      pose proof (complete_not _ _ _ i Hcomp H1 ltac:(by rewrite E)). congruence.
    + apply taken_set; [by rewrite E|done|by rewrite E|done].
Qed.

Lemma entry_ok_count id h c i e : (i < count id)%nat -> c i = Received -> entry_ok id h c (Some e) ->
  entry_ok id h (set i Counted c) (Some (Staging (block e) (total e) (landed e + bytes_of id i))).
Proof.
  intros Hi E (b & buf & R1 & R2 & R3 & R4 & R5). exists b, buf. repeat split; try done.
  - simpl. rewrite counted_set_new by (by rewrite ?E). lia.
  - intros j. specialize (R5 j). unfold set. case_decide; [subst j; by rewrite E in R5|done].
Qed.

Lemma chunk_count_inv id i s s' : inv s -> chunk_count id i s = Some s' -> inv s'.
Proof.
  intros Hinv. unfold chunk_count. destruct (chunk s id i) eqn:E; try done. intros [= <-].
  pose proof Hinv as [Ho Hc Hb]. pose proof (Hc id) as [H1 H2 H3 H4 H5].
  assert (Hs : forall j, chunk s id j <> Unsent -> (j < count id)%nat) by (intros j Hj; by apply H1).
  set (st := default _ _).
  assert (Hsub : forall b n, uses (set i Counted (chunk s id)) (Some (Staging (block st) (total st) n))
    (main s id) b -> uses_of s id b).
  { intros b n [Hq|[Hu|[(e & [= <-] & Hq)|Hu]]]%uses_set; [done|by left| |by right; right].
    right. left. simpl in Hq. unfold st in Hq. destruct (stagings s !! id); [eauto|done]. }
  apply (others_step id s); simpl; try done.
  - intros id' Hd. by rewrite set_ne, lookup_insert_ne.
  - intros b. unfold uses_of at 1. simpl. rewrite set_eq, lookup_insert_eq. left. by eapply Hsub.
  - intros b buf. unfold uses_of at 1. simpl. rewrite set_eq, lookup_insert_eq. intros Hu.
    by eapply (Ho id b), Hsub.
  - unfold ok_of. simpl. rewrite set_eq, lookup_insert_eq. split; try done.
    + apply sent_set; [done|by rewrite E].
    + intros Ht. specialize (H2 Ht). unfold st. destruct (stagings s !! id) as [e|].
      * apply entry_ok_count; [apply Hs; by rewrite E|done|done].
      * specialize (H2 i). by rewrite E in H2.
    + intros b' Hm. destruct (H3 _ Hm) as [_ Hcomp].
      pose proof (complete_not _ _ _ i Hcomp H1 ltac:(by rewrite E)). congruence.
    + apply taken_set; [by rewrite E|done|by rewrite E|done].
Qed.

(** A staging with all its bytes holds the source. *)
Lemma entry_whole id h c e : entry_ok id h c (Some e) -> landed e = total e ->
  (forall b buf, block e = Some b -> h !! b = Some buf -> length buf = size id) ->
  exists b, block e = Some b /\ h !! b = Some (source id) /\ complete id c.
Proof.
  intros (b & buf & R1 & R2 & R3 & R4 & R5) Hl Hlen. exists b. split; [done|].
  assert (Hcomp : complete id c) by (apply counted_complete; congruence). split; [|done].
  rewrite R2. f_equal. apply (chunks_cover K K_pos); [by eapply Hlen|].
  intros i Hi. specialize (R5 i). by rewrite (Hcomp i Hi) in R5.
Qed.

Lemma take_whole id e s : inv s -> main s id = Waiting -> stagings s !! id = Some e -> landed e = total e ->
  inv (with_memory (with_main id (Took (block e)) s) (delete id (stagings s)) (heap s) (next_block s)).
Proof.
  intros [Ho Hc Hb] Em Ee Hl. pose proof (Hc id) as [H1 H2 H3 H4 H5]. rewrite Em, Ee in *.
  specialize (H2 eq_refl).
  assert (Hu0 : forall b, block e = Some b -> uses_of s id b) by (intros b; right; left; rewrite Ee; eauto).
  destruct (entry_whole _ _ _ _ H2 Hl) as (b & Eb & Hbuf & Hcomp).
  { intros b buf Eb Hbuf. by apply (Ho id b); [apply Hu0|]. }
  assert (Hsub : forall b', uses (chunk s id) None (Took (block e)) b' -> uses_of s id b').
  { intros b' [H|[(? & ? & _)|[= H]]]; [by left|done|by apply Hu0]. }
  apply (others_step id s); simpl; try done.
  - intros id' Hd. by rewrite set_ne, lookup_delete_ne.
  - intros b'. unfold uses_of at 1. simpl. rewrite set_eq, lookup_delete_eq. left. by apply Hsub.
  - intros b' buf. unfold uses_of at 1. simpl. rewrite set_eq, lookup_delete_eq. intros Hu.
    by apply (Ho id b'), Hsub.
  - unfold ok_of. simpl. rewrite set_eq, lookup_delete_eq. split; try done.
    + intros b' [= Hb']. split; [congruence|done].
    + by left.
Qed.

Lemma take_partial id e s : inv s -> main s id = Waiting -> stagings s !! id = Some e -> lost s = true ->
  inv (with_memory (with_main id (Took None) s) (delete id (stagings s))
         (match block e with Some b => delete b (heap s) | None => heap s end) (next_block s)).
Proof.
  intros [Ho Hc Hb] Em Ee Hl. pose proof (Hc id) as [H1 H2 H3 H4 H5]. rewrite Em, Ee in *.
  specialize (H2 eq_refl). destruct H2 as (b & buf & Eb & Hbuf & _). rewrite Eb.
  assert (Hu0 : uses_of s id b) by (right; left; rewrite Ee; eauto).
  assert (Hsub : forall b', uses (chunk s id) None (Took None) b' -> uses_of s id b').
  { intros b' [H|[(? & ? & _)|?]]; [by left|done|done]. }
  apply (others_step id s); simpl; try done.
  - intros id' Hd. by rewrite set_ne, lookup_delete_ne.
  - intros b' Hd. destruct (decide (b' = b)) as [->|]; [by left|]. by rewrite lookup_delete_ne in Hd.
  - intros b'. unfold uses_of at 1. simpl. rewrite set_eq, lookup_delete_eq. left. by apply Hsub.
  - intros b' buf'. unfold uses_of at 1. simpl. rewrite set_eq, lookup_delete_eq. intros Hu.
    rewrite lookup_delete_Some. intros [_ ?]. by apply (Ho id b'); [apply Hsub|].
  - unfold ok_of. simpl. rewrite set_eq, lookup_delete_eq. split; try done. by right.
Qed.

Lemma main_take_inv id s s' : inv s -> main_take id s = Some s' -> inv s'.
Proof.
  intros Hinv. unfold main_take, landed_whole. destruct (main s id) eqn:Em; try done.
  destruct (stagings s !! id) as [e|] eqn:Ee.
  - destruct (landed e =? total e)%nat eqn:El; destruct (lost s) eqn:Hl; intros [= <-].
    + apply take_whole; try done. by apply Nat.eqb_eq.
    + apply take_whole; try done. by apply Nat.eqb_eq.
    + by apply take_partial.
  - destruct (lost s) eqn:Hl; intros [= <-]. apply main_moves; try done. by right.
Qed.

Lemma main_copy_inv id to_host driver s s' : inv s -> main_copy id to_host driver s = Some s' -> inv s'.
Proof.
  intros Hinv. unfold main_copy. destruct (main s id) as [| |[b|]|] eqn:Em; try done; intros [= <-]; cycle 1.
  { apply main_moves; try done. rewrite Em. by left. }
  set (result := if to_host then CUDA_SUCCESS else driver). pose proof Hinv as [Ho Hc Hb].
  pose proof (Hc id) as [H1 H2 H3 H4 H5]. destruct (H3 _ Em) as [Hbuf Hcomp].
  assert (Hsub : forall b', uses (chunk s id) (stagings s !! id) (Answered result) b' -> uses_of s id b').
  { intros b' [H|[H|?]]; [by left|by right; left|done]. }
  rewrite Hbuf. simpl. rewrite take_ge by (unfold size; lia).
  destruct (result =? CUDA_SUCCESS) eqn:Er; apply (others_step id s); simpl; try done.
  all: try (intros id' Hd; rewrite !set_ne by done; done).
  all: try (intros b' Hd; destruct (decide (b' = b)) as [->|]; [left; by right; right|];
            by rewrite lookup_delete_ne in Hd).
  all: try (intros b'; unfold uses_of at 1; simpl; rewrite set_eq; left; by apply Hsub).
  all: try (intros b' buf'; unfold uses_of at 1; simpl; rewrite set_eq; intros Hu;
            rewrite lookup_delete_Some; intros [_ ?]; by apply (Ho id b'); [apply Hsub|]).
  all: unfold ok_of; simpl; rewrite !set_eq; split; try done; try by left.
  intros [= ->]. done.
Qed.

Lemma perform_inv e s s' : inv s -> perform e s = Some s' -> inv s'.
Proof.
  intros Hi. destruct e; simpl; intros H.
  - by eapply feed_claim_inv.
  - by eapply feed_write_inv.
  - by eapply request_copy_inv.
  - by eapply chunk_open_inv.
  - by eapply chunk_read_inv.
  - by eapply chunk_gone_inv.
  - by eapply chunk_count_inv.
  - by eapply connection_lost_inv.
  - by eapply main_take_inv.
  - by eapply main_copy_inv.
Qed.

Lemma init_inv : inv init.
Proof.
  split; [|intros id|done].
  - intros id b [[i Hi]|[(e & He & _)|Hm]]; [done| |done].
    simpl in He. by rewrite lookup_empty in He.
  - split; simpl; try done. intros _. by rewrite lookup_empty.
Qed.

Lemma push_reachable_inv s : reachable s -> inv s.
Proof. induction 1 as [|s e s' _ IH _ Hs]; [apply init_inv|by eapply perform_inv]. Qed.
End System.

Section Runs.
Context (K : nat) (source : Z -> list byte) (garbage : nat -> list byte).

Lemma run_reachable es s s' : reachable K source garbage s -> run K source garbage es s = Some s' ->
  reachable K source garbage s'.
Proof.
  revert s. induction es as [|e es IH]; simpl; intros s Hs; [by intros [= <-]|].
  destruct (bad s) eqn:Eb; [done|]. destruct (perform _ _ _ e s) as [s1|] eqn:Ep; [|done].
  apply IH. by eapply reach_step.
Qed.
End Runs.

(** C29: A striped copy to the device that the server answers with success has put the source
    into the destination, however the chunks were spread over the connections, in whatever
    order they landed, whatever other copies were under way and whether or not a connection
    was lost; and as long as no connection is lost no memory is written after it was freed. *)
Theorem bulk_push_delivers (K : nat) (source : Z -> list byte) (garbage : nat -> list byte) (s : state)
  (H_chunk : (0 < K)%nat) (H_run : reachable K source garbage s) :
  (forall id, main s id = Answered CUDA_SUCCESS -> device s id = Some (source id)) /\
  (lost s = false -> bad s = false).
Proof.
  pose proof (push_reachable_inv K source garbage H_chunk s H_run) as [_ Hc Hb]. split.
  - intros id. apply (ok_answer _ _ _ _ _ _ _ _ _ _ (Hc id)).
  - intros Hl. destruct (bad s); [by rewrite Hb in Hl|done].
Qed.

(** Two copies at once, their chunks landing out of order. *)
Definition two_copies : list event :=
  [Claim 1; Claim 1; Write 1 1 true; Claim 2; Write 1 0 true; Write 2 0 true; Claim 1; Claim 2; Ask 2; Ask 1;
   Open 1 1; Open 2 0; Open 1 0; Read 1 0; Read 2 0; Count 1 0; Read 1 1; Count 2 0; Take 2; Count 1 1;
   Take 1; Copy 1 false 0; Copy 2 true 700].

Definition two_sources (id : Z) : list byte := if id =? 1 then [10; 20; 30] else [40; 50].

Lemma bulk_push_delivers_witness :
  exists s, run 2 two_sources (fun _ => []) two_copies init = Some s /\
    main s 1 = Answered CUDA_SUCCESS /\ device s 1 = Some [10; 20; 30] /\ bad s = false.
Proof.
  destruct (run 2 two_sources (fun _ => []) two_copies init) as [s|] eqn:E; [|by vm_compute in E].
  assert (Hm : main s 1 = Answered CUDA_SUCCESS /\ lost s = false).
  { revert E. vm_compute. intros [= <-]. done. }
  destruct Hm as [Hm Hl]. exists s. split; [done|]. split; [done|].
  destruct (bulk_push_delivers 2 two_sources (fun _ => []) s) as [H1 H2].
  - lia.
  - eapply run_reachable; [apply reach_init|exact E].
  - split; [exact (H1 1 Hm)|exact (H2 Hl)].
Defined.

(** When a bulk connection is lost, the handler on the caller's lane frees the staging of
    its copy while the handler of another chunk, on a connection that is well, is still
    reading into it: that read writes freed memory. *)
Theorem bulk_lost_connection_writes_freed_staging :
  exists s, reachable 1 (fun _ => [1; 2]) (fun _ => []) s /\ bad s = true.
Proof.
  set (es := [Claim 1; Write 1 0 true; Claim 1; Write 1 1 true; Claim 1; Ask 1; Open 1 0; Open 1 1;
              Close 1 0; Lose; Take 1; Read 1 1]).
  destruct (run 1 (fun _ => [1; 2]) (fun _ => []) es init) as [s|] eqn:E; [|by vm_compute in E].
  exists s. split; [eapply run_reachable; [apply reach_init|exact E]|].
  revert E. vm_compute. by intros [= <-].
Qed.
End Push.
