(* ===== verification/BulkPull.v ===== *)
(** * Striped copies from the device

    [lupine_bulk_pull] of [cuda_client_memcpy.cpp], [handle_lupineBulkRead] and
    [handle_lupineMemcpyDtoHBulk] of [cuda_server_memcpy.cpp]: the handler on the caller's
    lane makes the copy known and waits while one reader per connection takes chunks from
    a shared counter, copies them and sends them back with their offsets.  Threads
    interleave as in [Bulk]; frames are in order on a connection, which can end anywhere. *)
From S2P Require Import Prelude DtohPipe Bulk.

Module Pull.

(** [lupine_bulk_read]; the context, source and stream it also carries are those of the
    request, and the device copies go through them unchanged. *)
Record bulk_read := BulkRead {
  ready : bool;
  total : nat;
  next : nat;
  arrived : nat;
  finished : nat;
  result : Z }.

Definition new_read : bulk_read := BulkRead false 0 0 0 0 CUDA_SUCCESS.

(** [handle_lupineBulkRead] on a connection: not requested, on its way, waiting, binding the
    context, about to test the condition of the loop, copying a chunk, about to take the
    mutex again with the result of the copy and of the frame, past the loop, and over: with
    the last frame written, or with a frame that could not be. *)
Inductive phase :=
| Idle | OnWire | Arrived | Binding | Looping | Copying (offset bytes : nat)
| Relock (r : Z) (sent : bool) | Finishing | Done | Broken.

(** [pull] on a connection of the client. *)
Inductive puller := Pulling | Ended | Failed.

(** A connection: the handler, the frames on it and the client's thread.  The last frame has
    no bytes. *)
Record lane := Lane { at_phase : phase; wire : list (nat * list byte); client : puller }.

(** [handle_lupineMemcpyDtoHBulk]. *)
Inductive caller := Requested | Waiting | Answered (r : Z).

(** [bad]: the entry of [lupine_bulk_reads] was erased while a handler held a reference to it. *)
Record state := State {
  lanes : nat -> lane;
  entry : option bulk_read;
  main : caller;
  lost : bool;
  destination : list byte;
  bad : bool }.

Inductive event :=
| Request (l : nat) (ok : bool) | Arrive (l : nat) | Wake (l : nat) | Bind (l : nat) (r : Z) | Turn (l : nat)
| CopyChunk (l : nat) (r : Z) (sent : bool) | Lock (l : nat) | Terminate (l : nat) (ok : bool)
| Frame (l : nat) | Fails (l : nat) | Start (r : Z) | Finish | Lose.

Definition at_lane (l : nat) (x : lane) (s : state) : state :=
  State (Push.set l x (lanes s)) (entry s) (main s) (lost s) (destination s) (bad s).

Definition with_entry (e : bulk_read) (s : state) : state :=
  State (lanes s) (Some e) (main s) (lost s) (destination s) (bad s).

Definition at_handler (l : nat) (p : phase) (s : state) : state :=
  at_lane l (Lane p (wire (lanes s l)) (client (lanes s l))) s.

(** [if (result != CUDA_SUCCESS && read.result == CUDA_SUCCESS) read.result = result]. *)
Definition note (r : Z) (e : bulk_read) : bulk_read :=
  BulkRead (ready e) (total e) (next e) (arrived e) (finished e)
    (if negb (r =? CUDA_SUCCESS) && (result e =? CUDA_SUCCESS) then r else result e).

Definition one_finished (e : bulk_read) : bulk_read :=
  BulkRead (ready e) (total e) (next e) (arrived e) (S (finished e)) (result e).

(** A handler refers to the entry while it is in one of these phases. *)
Definition holds_entry (p : phase) : bool :=
  match p with Arrived | Binding | Looping | Copying _ _ | Relock _ _ => true | _ => false end.

Section System.
Context (K readers : nat) (data : list byte).

(** *** [handle_lupineBulkRead] *)

(** [++read.arrived]. *)
Definition arrive (l : nat) (s : state) : option state :=
  match at_phase (lanes s l) with
  | OnWire =>
      let e := default new_read (entry s) in
      Some (at_handler l Arrived (with_entry (BulkRead (ready e) (total e) (next e) (S (arrived e)) (finished e)
                                                (result e)) s))
  | _ => None
  end.

(** The end of its wait. *)
Definition wake (l : nat) (s : state) : option state :=
  match at_phase (lanes s l), entry s with
  | Arrived, Some e =>
      if ready e || lost s
      then Some (at_handler l (if ready e && (result e =? CUDA_SUCCESS) then Binding else Looping) s)
      else None
  | _, _ => None
  end.

(** [cuCtxSetCurrent]. *)
Definition bind (l : nat) (r : Z) (s : state) : option state :=
  match at_phase (lanes s l), entry s with
  | Binding, Some e => Some (at_handler l Looping (with_entry (note r e) s))
  | _, _ => None
  end.

(** The condition of the loop: a chunk is taken, or the reader has finished. *)
Definition turn (l : nat) (s : state) : option state :=
  match at_phase (lanes s l), entry s with
  | Looping, Some e =>
      if ready e && negb (lost s) && (result e =? CUDA_SUCCESS) && (next e <? total e)%nat then
        let bytes := Nat.min K (total e - next e) in
        Some (at_handler l (Copying (next e) bytes)
                (with_entry (BulkRead (ready e) (total e) (next e + bytes) (arrived e) (finished e) (result e)) s))
      else Some (at_handler l Finishing (with_entry (one_finished e) s))
  | _, _ => None
  end.

(** The device copy and the frame; [sent] is whether the frame could be written. *)
Definition copy_chunk (l : nat) (r : Z) (sent : bool) (s : state) : option state :=
  match at_phase (lanes s l) with
  | Copying offset bytes =>
      let x := lanes s l in
      Some (if r =? CUDA_SUCCESS then
              if sent
              then at_lane l (Lane (Relock r true) (wire x ++ [(offset, take bytes (drop offset data))]) (client x)) s
              else at_handler l (Relock r false) s
            else at_handler l (Relock r true) s)
  | _ => None
  end.

(** Under the mutex again; a frame that could not be written ends the loop. *)
Definition relock (l : nat) (s : state) : option state :=
  match at_phase (lanes s l), entry s with
  | Relock r sent, Some e =>
      Some (if sent then at_handler l Looping (with_entry (note r e) s)
            else at_handler l Broken (with_entry (one_finished (note r e)) s))
  | _, _ => None
  end.

(** The frame without bytes. *)
Definition terminate (l : nat) (ok : bool) (s : state) : option state :=
  match at_phase (lanes s l) with
  | Finishing =>
      let x := lanes s l in
      Some (if ok then at_lane l (Lane Done (wire x ++ [(0%nat, [])]) (client x)) s
            else at_handler l Broken s)
  | _ => None
  end.

(** *** [handle_lupineMemcpyDtoHBulk] *)

(** The entry is filled in; [r] is the result of [cuCtxGetCurrent]. *)
Definition start (r : Z) (s : state) : option state :=
  match main s with
  | Requested =>
      let e := default new_read (entry s) in
      Some (State (lanes s) (Some (BulkRead true (length data) (next e) (arrived e) (finished e) r)) Waiting
              (lost s) (destination s) (bad s))
  | _ => None
  end.

(** The end of the wait, the result and the end of the entry. *)
Definition finish (s : state) : option state :=
  match main s, entry s with
  | Waiting, Some e =>
      if (finished e =? readers)%nat || (lost s && (finished e =? arrived e)%nat) then
        let r := if (result e =? CUDA_SUCCESS) && (next e <? total e)%nat
                 then CUDA_ERROR_DEVICE_UNAVAILABLE else result e in
        Some (State (lanes s) None (Answered r) (lost s) (destination s)
                (bad s || existsb (fun l => holds_entry (at_phase (lanes s l))) (seq 0 readers)))
      else None
  | _, _ => None
  end.

(** *** [lupine_bulk_pull] *)

(** The request of a lane. *)
Definition request (l : nat) (ok : bool) (s : state) : option state :=
  match at_phase (lanes s l), client (lanes s l) with
  | Idle, Pulling =>
      if (l <? readers)%nat
      then Some (at_lane l (if ok then Lane OnWire [] Pulling else Lane Idle [] Failed) s)
      else None
  | _, _ => None
  end.

(** A frame: its bytes go to their offset, the one without bytes is the last. *)
Definition frame (l : nat) (s : state) : option state :=
  let x := lanes s l in
  match client x, wire x with
  | Pulling, (offset, bytes) :: rest =>
      let s' := State (lanes s) (entry s) (main s) (lost s) (splice offset bytes (destination s)) (bad s) in
      Some (at_lane l (Lane (at_phase x) rest (if (length bytes =? 0)%nat then Ended else Pulling)) s')
  | _, _ => None
  end.

(** The connection fails under the client. *)
Definition fails (l : nat) (s : state) : option state :=
  let x := lanes s l in
  match client x with
  | Pulling => Some (at_lane l (Lane (at_phase x) (wire x) Failed) s)
  | _ => None
  end.

Definition perform (e : event) : state -> option state :=
  match e with
  | Request l ok => request l ok
  | Arrive l => arrive l
  | Wake l => wake l
  | Bind l r => bind l r
  | Turn l => turn l
  | CopyChunk l r sent => copy_chunk l r sent
  | Lock l => relock l
  | Terminate l ok => terminate l ok
  | Frame l => frame l
  | Fails l => fails l
  | Start r => start r
  | Finish => finish
  | Lose => fun s => Some (State (lanes s) (entry s) (main s) true (destination s) (bad s))
  end.

(** What [lupine_bulk_pull] returns once its threads are joined: [noted] is the result of
    [rpc_note_host_allocation_write] where the destination has an alias, [answered] whether the
    answer could be read. *)
Definition lupine_bulk_pull (noted answered : bool) (s : state) : option Z :=
  let pullers := map (fun l => client (lanes s l)) (seq 0 readers) in
  if existsb (fun p => match p with Pulling => true | _ => false end) pullers then None
  else
    let received := forallb (fun p => match p with Ended => true | _ => false end) pullers && noted in
    if negb answered then Some CUDA_ERROR_DEVICE_UNAVAILABLE
    else match main s with
         | Answered r => Some (if received then r else CUDA_ERROR_DEVICE_UNAVAILABLE)
         | _ => None
         end.

Definition init (before : list byte) : state :=
  State (fun _ => Lane Idle [] Pulling) None Requested false before false.

Inductive reachable (before : list byte) : state -> Prop :=
| reach_init : reachable before (init before)
| reach_step s e s' : reachable before s -> perform e s = Some s' -> reachable before s'.

Fixpoint run (es : list event) (s : state) : option state :=
  match es with
  | [] => Some s
  | e :: es => s' ← perform e s; run es s'
  end.

(** *** What holds of every run *)

Definition size : nat := length data.
Definition count : nat := chunks K size.
Definition part (k : nat) : list byte := chunk_of K k data.

Definition over (p : phase) : bool := match p with Finishing | Done | Broken => true | _ => false end.

(** How many handlers are in a phase of a kind. *)
Definition tally (f : phase -> bool) (ls : nat -> lane) : nat :=
  sum_list_with (fun l => Nat.b2n (f (at_phase (ls l)))) (seq 0 readers).

(** A frame with a chunk. *)
Definition good_frame (f : nat * list byte) : Prop := exists k, (k < count)%nat /\ f = ((k * K)%nat, part k).

(** A chunk is with a lane: on the wire, being copied, or given up there. *)
Definition with_lane (k : nat) (x : lane) : Prop :=
  ((k * K)%nat, part k) ∈ wire x \/
  match at_phase x with
  | Copying o _ => o = (k * K)%nat
  | Relock r sent => r <> CUDA_SUCCESS \/ sent = false
  | Broken => True
  | _ => False
  end.

Definition accounted (s : state) (k : nat) : Prop :=
  chunk_of K k (destination s) = part k \/ exists l, with_lane k (lanes s l).

Record lane_ok (l : nat) (x : lane) : Prop := LaneOk {
  lane_known : at_phase x <> Idle -> (l < readers)%nat;
  lane_idle : at_phase x = Idle -> wire x = [];
  lane_copy : forall o b, at_phase x = Copying o b -> exists k, (k < count)%nat /\ o = (k * K)%nat /\
    b = chunk_bytes K size k;
  lane_wire : exists fs, Forall good_frame fs /\
    wire x = fs ++ (if match at_phase x, client x with Done, Ended => false | Done, _ => true | _, _ => false end
                    then [(0%nat, [])] else []);
  lane_end : client x = Ended -> at_phase x = Done /\ wire x = [] }.

(** The counters of the entry. *)
Record entry_ok (s : state) (e : bulk_read) : Prop := EntryOk {
  entry_finished : finished e = tally over (lanes s);
  entry_arrived : arrived e = (tally over (lanes s) + tally holds_entry (lanes s))%nat;
  entry_ready : ready e = match main s with Waiting => true | _ => false end;
  entry_total : total e = if ready e then size else 0%nat;
  entry_next : exists n, next e = Nat.min (n * K) (total e);
  entry_chunks : forall k, (k < count)%nat -> (k * K < next e)%nat ->
    accounted s k \/ result e <> CUDA_SUCCESS }.

(** No handler is at work on a chunk. *)
Definition at_rest (p : phase) : bool := match p with Copying _ _ | Relock _ _ | Binding => false | _ => true end.

Definition main_ok (s : state) : Prop :=
  match main s with
  | Answered r =>
      (forall e, entry s = Some e -> ready e = false) /\
      (r = CUDA_SUCCESS -> forall k, (k < count)%nat -> accounted s k)
  | _ =>
      match entry s with
      | Some e => entry_ok s e
      | None => main s = Requested /\ tally over (lanes s) = 0%nat /\ tally holds_entry (lanes s) = 0%nat
      end
  end.

Record inv (s : state) : Prop := Inv {
  inv_size : length (destination s) = size;
  inv_lanes : forall l, lane_ok l (lanes s l);
  inv_main : main_ok s;
  inv_rest : main s <> Waiting -> forall l, at_rest (at_phase (lanes s l)) = true;
  inv_bad : bad s = false }.

Context (K_pos : (0 < K)%nat).

Lemma tally_set f ls l x : (l < readers)%nat ->
  (tally f (Push.set l x ls) + Nat.b2n (f (at_phase (ls l))) = tally f ls + Nat.b2n (f (at_phase x)))%nat.
Proof.
  intros Hl. pose proof (sum_update (fun j => Nat.b2n (f (at_phase (ls j))))
    (fun j => Nat.b2n (f (at_phase (Push.set l x ls j)))) readers l Hl) as H.
  simpl in H. rewrite Push.set_eq in H. apply H. intros j Hj. by rewrite Push.set_ne.
Qed.

Lemma tally_same f ls l x : f (at_phase x) = f (at_phase (ls l)) -> tally f (Push.set l x ls) = tally f ls.
Proof.
  intros H. unfold tally. apply sum_ext. intros j _. unfold Push.set. case_decide; [subst j; by rewrite H|done].
Qed.

Lemma tally_zero f ls : tally f ls = 0%nat -> forall l, (l < readers)%nat -> f (at_phase (ls l)) = false.
Proof.
  unfold tally. intros H l Hl. assert (Hin : l ∈ seq 0 readers) by (apply elem_of_seq; lia).
  revert H Hin. induction (seq 0 readers) as [|y ys IH]; simpl; [intros _ []%not_elem_of_nil|].
  intros H [->|Hin]%elem_of_cons; [destruct (f _); [simpl in H; lia|done]|apply IH; [lia|done]].
Qed.

(** Finished and working handlers are not more than there are. *)
Lemma tally_bound ls : (tally over ls + tally holds_entry ls <= readers)%nat.
Proof.
  unfold tally. rewrite <- (length_seq readers 0) at 3. induction (seq 0 readers) as [|y ys IH]; simpl; [lia|].
  destruct (at_phase (ls y)); simpl; lia.
Qed.

(** A chunk stays accounted for when a lane takes a step. *)
Lemma accounted_lane s l x k : accounted s k -> (with_lane k (lanes s l) -> with_lane k x) ->
  forall s', destination s' = destination s -> lanes s' = Push.set l x (lanes s) -> accounted s' k.
Proof.
  intros [H|[l' H]] Hx s' Ed El; [left; by rewrite Ed|]. right. rewrite El. destruct (decide (l' = l)) as [->|Hn].
  - exists l. rewrite Push.set_eq. auto.
  - exists l'. by rewrite Push.set_ne.
Qed.

Lemma set_lane_ok s l x : (forall l', lane_ok l' (lanes s l')) -> lane_ok l x ->
  forall l', lane_ok l' (Push.set l x (lanes s) l').
Proof. intros H Hx l'. unfold Push.set. case_decide; [by subst|done]. Qed.

Lemma set_rest s l x : (forall l', at_rest (at_phase (lanes s l')) = true) -> at_rest (at_phase x) = true ->
  forall l', at_rest (at_phase (Push.set l x (lanes s) l')) = true.
Proof. intros H Hx l'. unfold Push.set. by case_decide. Qed.

(** A step of one lane that leaves the entry as it is. *)
Lemma lane_inv s s' l x : inv s -> lanes s' = Push.set l x (lanes s) -> entry s' = entry s ->
  main s' = main s -> bad s' = bad s -> length (destination s') = size -> lane_ok l x ->
  (forall k, (k < count)%nat -> accounted s k -> accounted s' k) ->
  over (at_phase x) = over (at_phase (lanes s l)) ->
  holds_entry (at_phase x) = holds_entry (at_phase (lanes s l)) ->
  (main s <> Waiting -> at_rest (at_phase x) = true) -> inv s'.
Proof.
  intros [I1 I2 I3 IR I4] El Ee Em Eb Hd Hx Ha Ho Hh Hr. split; [done| | | |by rewrite Eb].
  - rewrite El. by apply set_lane_ok.
  - assert (Et1 : tally over (lanes s') = tally over (lanes s)) by (rewrite El; by apply tally_same).
    assert (Et2 : tally holds_entry (lanes s') = tally holds_entry (lanes s)) by (rewrite El; by apply tally_same).
    unfold main_ok in *. rewrite Em, Ee, Et1, Et2. destruct (main s) as [| |r] eqn:E.
    1-2: destruct (entry s) as [e|]; [|done]; destruct I3 as [J1 J2 J3 J4 J5 J6]; rewrite E in J3; split;
      rewrite ?Em, ?E, ?Et1, ?Et2; try done; intros k Hk Hn; destruct (J6 k Hk Hn); auto.
    destruct I3 as (J2 & J3). auto.
  - rewrite Em, El. intros Hm. by apply set_rest; auto.
Qed.

Definition answered (m : caller) : bool := match m with Answered _ => true | _ => false end.

(** A step of one lane and of the entry, before the answer. *)
Lemma entry_inv s s' l x e e' : inv s -> entry s = Some e -> entry s' = Some e' -> answered (main s) = false ->
  main s' = main s -> destination s' = destination s -> bad s' = bad s ->
  lanes s' = Push.set l x (lanes s) -> (l < readers)%nat -> lane_ok l x ->
  (main s <> Waiting -> at_rest (at_phase x) = true) ->
  (finished e' + Nat.b2n (over (at_phase (lanes s l))) = finished e + Nat.b2n (over (at_phase x)))%nat ->
  (arrived e' + Nat.b2n (over (at_phase (lanes s l))) + Nat.b2n (holds_entry (at_phase (lanes s l))) =
   arrived e + Nat.b2n (over (at_phase x)) + Nat.b2n (holds_entry (at_phase x)))%nat ->
  ready e' = ready e -> total e' = total e -> (exists n, next e' = Nat.min (n * K) (total e')) ->
  (forall k, (k < count)%nat -> (k * K < next e')%nat ->
     ((k * K < next e)%nat -> accounted s k \/ result e <> CUDA_SUCCESS) ->
     accounted s' k \/ result e' <> CUDA_SUCCESS) -> inv s'.
Proof.
  intros [I1 I2 I3 IR I4] Ee Ee' Em Em' Ed Eb El Hl Hx Hr Hf Ha Er Et Hn Hk.
  pose proof (tally_set over (lanes s) l x Hl) as T1. pose proof (tally_set holds_entry (lanes s) l x Hl) as T2.
  rewrite <- El in T1, T2. split; [by rewrite Ed|rewrite El; by apply set_lane_ok| | |by rewrite Eb].
  - unfold main_ok in *. rewrite Em', Ee'. rewrite Ee in I3.
    assert (HJ : entry_ok s e) by (by destruct (main s)). destruct HJ as [J1 J2 J3 J4 J5 J6].
    assert (HJ : entry_ok s' e').
    { split; [lia|lia|by rewrite Em', Er, J3|by rewrite Et, Er, J4|done|auto]. }
    by destruct (main s).
  - rewrite Em', El. intros Hm. by apply set_rest; auto.
Qed.

(** A step of a handler that comes after the answer. *)
Lemma late_inv s s' l x e' : inv s -> answered (main s) = true -> entry s' = Some e' -> ready e' = false ->
  main s' = main s -> destination s' = destination s -> bad s' = bad s ->
  lanes s' = Push.set l x (lanes s) -> lane_ok l x -> at_rest (at_phase x) = true ->
  (forall k, with_lane k (lanes s l) -> with_lane k x) -> inv s'.
Proof.
  intros [I1 I2 I3 IR I4] Em Ee Er Em' Ed Eb El Hx Hr Hw.
  split; [by rewrite Ed|rewrite El; by apply set_lane_ok| | |by rewrite Eb].
  - unfold main_ok in *. rewrite Em', Ee. destruct (main s) as [| |r]; try done.
    destruct I3 as (_ & J). split; [by intros e [= <-]|]. intros H0 k Hk.
    eapply accounted_lane; [by apply J| |done|done]. apply Hw.
  - rewrite Em', El. intros Hm. by apply set_rest; auto.
Qed.

(** A lane whose frames stay. *)
Lemma lane_ok_phase l x p c : lane_ok l x -> at_phase x <> Idle -> at_phase x <> Done ->
  match p with Idle | Done | Copying _ _ => False | _ => True end -> c <> Ended -> lane_ok l (Lane p (wire x) c).
Proof.
  intros [H1 H2 H3 (fs & Hf & Hw) H5] Hi Hd Hp Hc. split; simpl.
  - intros _. by apply H1.
  - by intros ->.
  - by intros o b ->.
  - exists fs. split; [done|]. rewrite Hw. by destruct (at_phase x), p.
  - done.
Qed.

Lemma client_open l x : lane_ok l x -> at_phase x <> Done -> client x <> Ended.
Proof. intros [_ _ _ _ H] Hd Hc. by destruct (H Hc). Qed.

(** The part of a lane's accounting that is on the wire. *)
Lemma with_lane_wire k x p c : (with_lane k x -> (k * K, part k)%nat ∈ wire x) ->
  with_lane k x -> with_lane k (Lane p (wire x) c).
Proof. intros H Hx. left. by apply H. Qed.

Lemma part_nonempty k : (k < count)%nat -> (0 < length (part k))%nat.
Proof.
  intros Hk. pose proof (stripe_positive K K_pos _ _ Hk). unfold part, chunk_of.
  rewrite length_take, length_drop. unfold chunk_bytes, size in *. lia.
Qed.

Lemma part_bound k : (k < count)%nat -> (k * K + length (part k) <= size)%nat.
Proof.
  intros Hk. pose proof (stripe_positive K K_pos _ _ Hk). unfold part, chunk_of.
  rewrite length_take, length_drop. unfold chunk_bytes, size in *. lia.
Qed.

Lemma request_inv l ok s s' : inv s -> request l ok s = Some s' -> inv s'.
Proof.
  intros Hinv. unfold request. destruct (at_phase (lanes s l)) eqn:Ep; try done.
  destruct (client (lanes s l)) eqn:Ec; try done. destruct (l <? readers)%nat eqn:El; [|done].
  apply Nat.ltb_lt in El. intros [= <-]. pose proof (lane_idle _ _ (inv_lanes _ Hinv l) Ep) as Ew.
  eapply (lane_inv s _ l); try done; try (rewrite Ep; by destruct ok).
  - apply Hinv.
  - split; [done|by destruct ok|by destruct ok|exists []; split; [done|by destruct ok]|by destruct ok].
  - intros k Hk Ha. eapply accounted_lane; [exact Ha| |done|done]. unfold with_lane. rewrite Ep, Ew.
    intros [[]%not_elem_of_nil|[]].
  - by destruct ok.
Qed.

Lemma arrive_inv l s s' : inv s -> arrive l s = Some s' -> inv s'.
Proof.
  intros Hinv. unfold arrive. destruct (at_phase (lanes s l)) eqn:Ep; try done. intros [= <-].
  pose proof (inv_lanes _ Hinv l) as Hl. pose proof (lane_known _ _ Hl ltac:(by rewrite Ep)) as Hlr.
  assert (Hx : lane_ok l (Lane Arrived (wire (lanes s l)) (client (lanes s l)))).
  { apply lane_ok_phase; try done; rewrite ?Ep; try done. eapply client_open; [done|by rewrite Ep]. }
  assert (Hw : forall k, with_lane k (lanes s l) -> with_lane k (Lane Arrived (wire (lanes s l)) (client (lanes s l)))).
  { intros k. apply with_lane_wire. unfold with_lane. rewrite Ep. by intros [|[]]. }
  destruct (answered (main s)) eqn:Em.
  - eapply (late_inv s _ l); try done. simpl. pose proof (inv_main _ Hinv) as HM. unfold main_ok in HM.
    destruct (main s) as [| |r]; try done. destruct HM as [HM _]. by destruct (entry s); [apply HM|].
  - destruct (entry s) as [e|] eqn:Ee.
    + eapply (entry_inv s _ l _ e); try done; rewrite ?Ep; simpl; try lia.
      * pose proof (inv_main _ Hinv) as HM. unfold main_ok in HM. rewrite Ee in HM.
        destruct (main s); try done; apply HM.
      * intros k Hk Hn H. destruct (H Hn) as [Ha|]; [|by right]. left.
        eapply accounted_lane; [exact Ha|apply Hw|done|done].
    + pose proof Hinv as [I1 I2 I3 IR I4]. unfold main_ok in I3. rewrite Ee in I3.
      assert (I3' : main s = Requested /\ tally over (lanes s) = 0%nat /\ tally holds_entry (lanes s) = 0%nat)
        by (by destruct (main s)). destruct I3' as (Er & T1 & T2).
      pose proof (tally_set over (lanes s) l (Lane Arrived (wire (lanes s l)) (client (lanes s l))) Hlr) as U1.
      pose proof (tally_set holds_entry (lanes s) l (Lane Arrived (wire (lanes s l)) (client (lanes s l))) Hlr) as U2.
      rewrite Ep in U1, U2. simpl in U1, U2. split; simpl; try done.
      * by apply set_lane_ok.
      * unfold main_ok. simpl. rewrite Er. split; simpl; rewrite ?Er; try lia. by exists 0%nat.
      * intros Hm. apply set_rest; [auto|done].
Qed.

Lemma wake_inv l s s' : inv s -> wake l s = Some s' -> inv s'.
Proof.
  intros Hinv. unfold wake. destruct (at_phase (lanes s l)) eqn:Ep; try done.
  destruct (entry s) as [e|] eqn:Ee; [|done]. destruct (_ || _) eqn:Ew; [|done]. intros [= <-].
  pose proof (inv_lanes _ Hinv l) as Hl. set (p := (if ready e && (result e =? CUDA_SUCCESS) then Binding else Looping)).
  assert (Hp : p = Binding \/ p = Looping) by (unfold p; case_match; auto).
  eapply (lane_inv s _ l); try done; rewrite ?Ep; simpl.
  - apply Hinv.
  - apply lane_ok_phase; try done; rewrite ?Ep; try done; [by destruct Hp as [-> | ->]|].
    eapply client_open; [done|by rewrite Ep].
  - intros k Hk Ha. eapply accounted_lane; [exact Ha| |done|done]. apply with_lane_wire. unfold with_lane.
    rewrite Ep. by intros [|[]].
  - by destruct Hp as [-> | ->].
  - by destruct Hp as [-> | ->].
  - intros Hm. unfold p. destruct (ready e) eqn:Er; [|done]. exfalso.
    pose proof (inv_main _ Hinv) as HM. unfold main_ok in HM. rewrite Ee in HM. destruct (main s) eqn:Em.
    + destruct HM as [_ _ J _ _ _]. rewrite Em in J. congruence.
    + done.
    + destruct HM as [J _]. specialize (J e eq_refl). congruence.
Qed.

(** Only before the answer and with a ready entry is a handler at work. *)
Lemma working_waits s l e : inv s -> at_rest (at_phase (lanes s l)) = false -> entry s = Some e ->
  main s = Waiting /\ entry_ok s e.
Proof.
  intros Hinv Hr Ee. destruct (main s) eqn:Em.
  1,3: pose proof (inv_rest _ Hinv ltac:(by rewrite Em) l); congruence.
  split; [done|]. pose proof (inv_main _ Hinv) as HM. unfold main_ok in HM. by rewrite Em, Ee in HM.
Qed.

Lemma note_result r e : result e <> CUDA_SUCCESS -> result (note r e) <> CUDA_SUCCESS.
Proof. intros H. simpl. apply Z.eqb_neq in H. rewrite H, andb_false_r. by apply Z.eqb_neq. Qed.

Lemma note_fails r e : r <> CUDA_SUCCESS -> result (note r e) <> CUDA_SUCCESS.
Proof.
  intros H. simpl. apply Z.eqb_neq in H as H'. rewrite H'. simpl.
  destruct (result e =? CUDA_SUCCESS) eqn:E; [done|by apply Z.eqb_neq].
Qed.

Lemma bind_inv l r s s' : inv s -> bind l r s = Some s' -> inv s'.
Proof.
  intros Hinv. unfold bind. destruct (at_phase (lanes s l)) eqn:Ep; try done.
  destruct (entry s) as [e|] eqn:Ee; [|done]. intros [= <-].
  pose proof (inv_lanes _ Hinv l) as Hl. pose proof (lane_known _ _ Hl ltac:(by rewrite Ep)) as Hlr.
  destruct (working_waits s l e Hinv ltac:(by rewrite Ep) Ee) as [Em [J1 J2 J3 J4 J5 J6]].
  eapply (entry_inv s _ l _ e); try done; rewrite ?Ep, ?Em; simpl; try lia; try done.
  - apply lane_ok_phase; try done; rewrite ?Ep; try done. eapply client_open; [done|by rewrite Ep].
  - intros k Hk Hn H. destruct (H Hn) as [Ha|]; [|right; by apply (note_result r e)]. left.
    eapply accounted_lane; [exact Ha| |done|done]. apply (with_lane_wire k (lanes s l)). unfold with_lane.
    rewrite Ep. by intros [|[]].
Qed.

Lemma relock_inv l s s' : inv s -> relock l s = Some s' -> inv s'.
Proof.
  intros Hinv. unfold relock. destruct (at_phase (lanes s l)) as [| | | | | |r sent| | |] eqn:Ep; try done.
  destruct (entry s) as [e|] eqn:Ee; [|done]. intros [= <-].
  pose proof (inv_lanes _ Hinv l) as Hl. pose proof (lane_known _ _ Hl ltac:(by rewrite Ep)) as Hlr.
  destruct (working_waits s l e Hinv ltac:(by rewrite Ep) Ee) as [Em [J1 J2 J3 J4 J5 J6]].
  assert (Hc : client (lanes s l) <> Ended) by (eapply client_open; [done|by rewrite Ep]).
  destruct (decide (r = CUDA_SUCCESS)) as [Hr|Hr].
  - destruct sent; eapply (entry_inv s _ l _ e); try done; rewrite ?Ep, ?Em; simpl; try lia; try done.
    1,3: apply lane_ok_phase; try done; by rewrite ?Ep.
    all: intros k Hk Hn H; destruct (H Hn) as [Ha|]; [|right; by apply (note_result r e)]; left;
      eapply accounted_lane; [exact Ha| |done|done]; unfold with_lane; rewrite Ep; simpl.
    + by intros [|[|]]; [left| |].
    + by right.
  - destruct sent; eapply (entry_inv s _ l _ e); try done; rewrite ?Ep, ?Em; simpl; try lia; try done.
    1,3: apply lane_ok_phase; try done; by rewrite ?Ep.
    all: intros k Hk Hn H; right; by apply (note_fails r e).
Qed.

(** Taking a chunk. *)
Lemma claim_inv l e s : inv s -> at_phase (lanes s l) = Looping -> entry s = Some e -> ready e = true ->
  (next e < total e)%nat ->
  inv (at_handler l (Copying (next e) (Nat.min K (total e - next e)))
         (with_entry (BulkRead (ready e) (total e) (next e + Nat.min K (total e - next e)) (arrived e) (finished e)
                        (result e)) s)).
Proof.
  intros Hinv Ep Ee Er Hlt. pose proof (inv_lanes _ Hinv l) as Hl.
  pose proof (lane_known _ _ Hl ltac:(by rewrite Ep)) as Hlr.
  assert (HM : main s = Waiting /\ entry_ok s e).
  { pose proof (inv_main _ Hinv) as HM. unfold main_ok in HM. rewrite Ee in HM. destruct (main s) eqn:Em.
    - destruct HM as [_ _ J _ _ _]. rewrite Em in J. congruence.
    - done.
    - destruct HM as [J _]. specialize (J e eq_refl). congruence. }
  destruct HM as [Em [J1 J2 J3 J4 [n J5] J6]]. rewrite Er in J4. rewrite J4 in *.
  assert (En : next e = (n * K)%nat) by lia. assert (Hn : (n < count)%nat) by (apply chunks_last; lia).
  eapply (entry_inv s _ l _ e); try done; rewrite ?Ep, ?Em; simpl; rewrite ?J4; try lia; try done.
  - destruct Hl as [H1 H2 H3 (fs & Hf & Hw) H5]. split; simpl; try done.
    + intros o b [= <- <-]. exists n. split; [done|]. by rewrite En.
    + exists fs. split; [done|]. rewrite Hw. by rewrite Ep.
    + intros Hc. destruct (H5 Hc). congruence.
  - exists (S n). lia.
  - intros k Hk Hkn H. destruct (decide (k = n)) as [->|Hne].
    + left. right. exists l. simpl. rewrite Push.set_eq. right. simpl. done.
    + destruct H as [Ha|]; [nia| |by right]. left. eapply accounted_lane; [exact Ha| |done|done].
      apply (with_lane_wire k (lanes s l)). unfold with_lane. rewrite Ep. by intros [|[]].
Qed.

Lemma turn_inv l s s' : inv s -> turn l s = Some s' -> inv s'.
Proof.
  intros Hinv. unfold turn. destruct (at_phase (lanes s l)) eqn:Ep; try done.
  destruct (entry s) as [e|] eqn:Ee; [|done]. destruct (_ && _) eqn:Ec; intros [= <-].
  { repeat (apply andb_true_iff in Ec as [Ec ?]). apply claim_inv; try done. by apply Nat.ltb_lt. }
  pose proof (inv_lanes _ Hinv l) as Hl. pose proof (lane_known _ _ Hl ltac:(by rewrite Ep)) as Hlr.
  assert (Hx : lane_ok l (Lane Finishing (wire (lanes s l)) (client (lanes s l)))).
  { apply lane_ok_phase; try done; rewrite ?Ep; try done. eapply client_open; [done|by rewrite Ep]. }
  assert (Hw : forall k, with_lane k (lanes s l) -> with_lane k (Lane Finishing (wire (lanes s l)) (client (lanes s l)))).
  { intros k. apply with_lane_wire. unfold with_lane. rewrite Ep. by intros [|[]]. }
  pose proof (inv_main _ Hinv) as HM. unfold main_ok in HM. rewrite Ee in HM.
  destruct (answered (main s)) eqn:Em.
  - eapply (late_inv s _ l); try done. simpl. destruct (main s) as [| |r]; try done. destruct HM as [HM _].
    by apply HM.
  - assert (HJ : entry_ok s e) by (by destruct (main s)). destruct HJ as [J1 J2 J3 J4 J5 J6].
    eapply (entry_inv s _ l _ e); try done; rewrite ?Ep; simpl; try lia; try done.
    intros k Hk Hn H. destruct (H Hn) as [Ha|]; [|by right]. left.
    eapply accounted_lane; [exact Ha|apply Hw|done|done].
Qed.

Lemma copy_chunk_inv l r sent s s' : inv s -> copy_chunk l r sent s = Some s' -> inv s'.
Proof.
  intros Hinv. unfold copy_chunk. destruct (at_phase (lanes s l)) as [| | | | |o b| | | |] eqn:Ep; try done.
  pose proof (inv_lanes _ Hinv l) as Hl.
  assert (Hc : client (lanes s l) <> Ended) by (eapply client_open; [done|by rewrite Ep]).
  destruct (lane_copy _ _ Hl o b Ep) as (k0 & Hk0 & -> & ->).
  assert (Hm : main s = Waiting).
  { destruct (main s) eqn:Em; [|done|]; pose proof (inv_rest _ Hinv ltac:(by rewrite Em) l) as HR;
      by rewrite Ep in HR. }
  intros [= <-]. destruct (r =? CUDA_SUCCESS) eqn:Er; [destruct sent|].
  - eapply (lane_inv s _ l); try done; rewrite ?Ep; simpl; try done; [apply Hinv| |].
    + destruct Hl as [H1 H2 H3 (fs & Hf & Hw) H5]. split; simpl; try done.
      * intros _. apply H1. by rewrite Ep.
      * exists (fs ++ [((k0 * K)%nat, part k0)]). split; [apply Forall_app; split; [done|]; apply Forall_singleton;
          by exists k0|]. rewrite Hw, Ep, !app_nil_r. done.
    + intros k Hk Ha. eapply accounted_lane; [exact Ha| |done|done]. unfold with_lane. rewrite Ep. simpl.
      intros [Hi|Hi]; left; apply elem_of_app; [by left|right]. assert (k = k0) as -> by nia.
      by apply list_elem_of_singleton.
  - eapply (lane_inv s _ l); try done; rewrite ?Ep; simpl; try done; [apply Hinv| |].
    + apply lane_ok_phase; try done; by rewrite ?Ep.
    + intros k Hk Ha. eapply accounted_lane; [exact Ha| |done|done]. right. simpl. by right.
  - eapply (lane_inv s _ l); try done; rewrite ?Ep; simpl; try done; [apply Hinv| |].
    + apply lane_ok_phase; try done; by rewrite ?Ep.
    + intros k Hk Ha. eapply accounted_lane; [exact Ha| |done|done]. right. simpl. left. by apply Z.eqb_neq.
Qed.

Lemma terminate_inv l ok s s' : inv s -> terminate l ok s = Some s' -> inv s'.
Proof.
  intros Hinv. unfold terminate. destruct (at_phase (lanes s l)) eqn:Ep; try done. intros [= <-].
  pose proof (inv_lanes _ Hinv l) as Hl.
  assert (Hc : client (lanes s l) <> Ended) by (eapply client_open; [done|by rewrite Ep]).
  destruct ok; eapply (lane_inv s _ l); try done; rewrite ?Ep; simpl; try done; try apply Hinv.
  - destruct Hl as [H1 H2 H3 (fs & Hf & Hw) H5]. split; simpl; try done.
    + intros _. apply H1. by rewrite Ep.
    + exists fs. split; [done|]. rewrite Hw, Ep, app_nil_r. by destruct (client (lanes s l)).
  - intros k Hk Ha. eapply accounted_lane; [exact Ha| |done|done]. unfold with_lane. rewrite Ep. simpl.
    intros [Hi|[]]. left. apply elem_of_app. by left.
  - apply lane_ok_phase; try done; by rewrite ?Ep.
  - intros k Hk Ha. eapply accounted_lane; [exact Ha| |done|done]. by right.
Qed.

Lemma fails_inv l s s' : inv s -> fails l s = Some s' -> inv s'.
Proof.
  intros Hinv. unfold fails. destruct (client (lanes s l)) eqn:Ec; try done. intros [= <-].
  eapply (lane_inv s _ l); try done; simpl; try apply Hinv.
  - pose proof (inv_lanes _ Hinv l) as [H1 H2 H3 (fs & Hf & Hw) H5]. split; simpl; try done.
    exists fs. split; [done|]. rewrite Hw, Ec. done.
  - intros k Hk Ha. eapply accounted_lane; [exact Ha| |done|done]. done.
  - intros Hm. by apply Hinv.
Qed.

(** A frame with a chunk goes to its place. *)
Lemma frame_chunk_inv l k0 rest s : inv s -> client (lanes s l) = Pulling -> (k0 < count)%nat ->
  wire (lanes s l) = ((k0 * K)%nat, part k0) :: rest ->
  inv (at_lane l (Lane (at_phase (lanes s l)) rest Pulling)
    (State (lanes s) (entry s) (main s) (lost s) (splice (k0 * K) (part k0) (destination s)) (bad s))).
Proof.
  intros Hinv Ec Hk0 Ew. pose proof (inv_size _ Hinv) as Hsz. pose proof (part_bound k0 Hk0) as Hfit.
  pose proof (part_nonempty k0 Hk0) as Hpos.
  assert (Hput : forall k, (k < count)%nat -> chunk_of K k (splice (k0 * K) (part k0) (destination s)) =
    if decide (k = k0) then part k0 else chunk_of K k (destination s)) by (intros; by apply splice_chunk).
  eapply (lane_inv s _ l); try done; simpl.
  - by rewrite length_splice by lia.
  - pose proof (inv_lanes _ Hinv l) as [H1 H2 H3 (fs & Hf & Hw) H5]. split; simpl; try done.
    + intros Hi. by rewrite (H2 Hi) in Ew.
    + rewrite Ew, Ec in Hw. destruct fs as [|f fs]; simpl in Hw.
      * destruct (at_phase (lanes s l)); try done. injection Hw as Hw1 Hw2 Hw3. rewrite Hw2 in Hpos. simpl in Hpos. lia.
      * injection Hw as Hf' ->. exists fs. split; [by inversion Hf|done].
  - intros k Hk [Ha|[l' Ha]].
    + left. simpl. rewrite Hput by done. by case_decide; [subst|].
    + destruct (decide (k = k0)) as [->|Hne].
      * left. simpl. rewrite Hput by done. by rewrite decide_True.
      * right. exists l'. simpl. unfold Push.set. case_decide; [subst l'|done]. unfold with_lane in *. simpl.
        destruct Ha as [Ha|Ha]; [|by right]. left. rewrite Ew in Ha.
        apply elem_of_cons in Ha as [[= Hq _]|Ha]; [|done]. nia.
  - intros Hm. by apply Hinv.
Qed.

(** The last frame. *)
Lemma frame_last_inv l s : inv s -> client (lanes s l) = Pulling -> wire (lanes s l) = [(0%nat, [])] ->
  at_phase (lanes s l) = Done ->
  inv (at_lane l (Lane Done [] Ended)
    (State (lanes s) (entry s) (main s) (lost s) (splice 0 [] (destination s)) (bad s))).
Proof.
  intros Hinv Ec Ew Ep. pose proof (inv_size _ Hinv) as Hsz.
  eapply (lane_inv s _ l); try done; rewrite ?Ep; simpl; try done.
  - split; simpl; try done.
    + intros _. apply (inv_lanes _ Hinv l). by rewrite Ep.
    + by exists [].
  - intros k Hk Ha. eapply accounted_lane; [exact Ha| |done|done]. unfold with_lane. rewrite Ep, Ew. simpl.
    intros [Hi|[]]. apply list_elem_of_singleton in Hi. injection Hi as _ Hi. pose proof (part_nonempty k Hk) as Hp.
    rewrite Hi in Hp. simpl in Hp. lia.
Qed.

Lemma frame_inv l s s' : inv s -> frame l s = Some s' -> inv s'.
Proof.
  intros Hinv. unfold frame. destruct (client (lanes s l)) eqn:Ec; try done.
  destruct (wire (lanes s l)) as [|[o bs] rest] eqn:Ew; [done|]. intros [= <-].
  pose proof (inv_lanes _ Hinv l) as [H1 H2 H3 (fs & Hf & Hw) H5]. rewrite Ew, Ec in Hw.
  destruct fs as [|f fs]; simpl in Hw.
  - destruct (at_phase (lanes s l)) eqn:Ep; try done. injection Hw as -> -> ->. simpl.
    by apply frame_last_inv.
  - injection Hw as <- ->. apply Forall_cons in Hf as [(k & Hk & [= -> ->]) Hf].
    pose proof (part_nonempty k Hk) as Hp.
    destruct (length (part k) =? 0)%nat eqn:El; [apply Nat.eqb_eq in El; lia|]. by apply frame_chunk_inv.
Qed.

Lemma pull_start_inv r s s' : inv s -> start r s = Some s' -> inv s'.
Proof.
  intros Hinv. unfold start. destruct (main s) eqn:Em; try done. intros [= <-].
  pose proof Hinv as [I1 I2 I3 IR I4]. split; simpl; try done.
  unfold main_ok in *. simpl. rewrite Em in I3. destruct (entry s) as [e|]; simpl.
  - destruct I3 as [J1 J2 J3 J4 [n J5] J6]. rewrite Em in J3. rewrite J3 in J4. rewrite J4 in J5.
    split; simpl; try done; [exists 0%nat; lia|]. intros k _ Hk. lia.
  - destruct I3 as (_ & T1 & T2). split; simpl; rewrite ?T1, ?T2; try done; [by exists 0%nat|]. intros k _ Hk. lia.
Qed.

(** When the wait ends no handler refers to the entry. *)
Lemma finish_alone s e : inv s -> main s = Waiting -> entry s = Some e ->
  (finished e =? readers)%nat || (lost s && (finished e =? arrived e)%nat) = true ->
  forall l, holds_entry (at_phase (lanes s l)) = false.
Proof.
  intros Hinv Em Ee Hc l. pose proof (inv_main _ Hinv) as HM. unfold main_ok in HM. rewrite Em, Ee in HM.
  destruct HM as [J1 J2 _ _ _ _]. pose proof (tally_bound (lanes s)) as Hb.
  assert (Hz : tally holds_entry (lanes s) = 0%nat).
  { apply orb_true_iff in Hc as [Hc|Hc]; [apply Nat.eqb_eq in Hc; lia|].
    apply andb_true_iff in Hc as [_ Hc%Nat.eqb_eq]. lia. }
  destruct (decide (l < readers)%nat); [by apply tally_zero|].
  destruct (at_phase (lanes s l)) eqn:Ep; try done;
    pose proof (lane_known _ _ (inv_lanes _ Hinv l) ltac:(by rewrite Ep)); lia.
Qed.

Lemma finish_inv s s' : inv s -> finish s = Some s' -> inv s'.
Proof.
  intros Hinv. unfold finish. destruct (main s) eqn:Em; try done. destruct (entry s) as [e|] eqn:Ee; [|done].
  destruct (_ || _) eqn:Ec; [|done]. intros [= <-]. pose proof (finish_alone s e Hinv Em Ee Ec) as Hh.
  pose proof Hinv as [I1 I2 I3 IR I4]. unfold main_ok in I3. rewrite Em, Ee in I3.
  destruct I3 as [J1 J2 J3 J4 [n J5] J6]. rewrite Em in J3. rewrite J3 in J4. split; simpl; try done.
  - unfold main_ok. simpl. split; [done|]. intros Hr k Hk.
    destruct (result e =? CUDA_SUCCESS) eqn:Er; simpl in Hr; [|by rewrite Hr in Er].
    destruct (next e <? total e)%nat eqn:En; [done|]. apply Nat.ltb_ge in En.
    pose proof (stripe_positive K K_pos _ _ Hk). apply Z.eqb_eq in Er.
    destruct (J6 k Hk) as [Ha|]; [lia| |done]. done.
  - intros _ l. specialize (Hh l). by destruct (at_phase (lanes s l)).
  - rewrite I4. simpl. apply not_true_is_false. intros (l & _ & Hl)%existsb_exists. by rewrite Hh in Hl.
Qed.

Lemma lose_inv s : inv s -> inv (State (lanes s) (entry s) (main s) true (destination s) (bad s)).
Proof. intros [I1 I2 I3 IR I4]. split; simpl; try done. unfold main_ok in *. simpl.
  destruct (main s) eqn:Em, (entry s); simpl in *; try done; destruct I3 as [J1 J2 J3 J4 J5 J6]; split; simpl;
    rewrite ?Em in *; done.
Qed.

Lemma pull_perform_inv e s s' : inv s -> perform e s = Some s' -> inv s'.
Proof.
  intros Hi. destruct e; simpl; intros H.
  - by eapply request_inv.
  - by eapply arrive_inv.
  - by eapply wake_inv.
  - by eapply bind_inv.
  - by eapply turn_inv.
  - by eapply copy_chunk_inv.
  - by eapply relock_inv.
  - by eapply terminate_inv.
  - by eapply frame_inv.
  - by eapply fails_inv.
  - by eapply pull_start_inv.
  - by eapply finish_inv.
  - injection H as <-. by apply lose_inv.
Qed.

Lemma tally_nil f : f Idle = false -> tally f (fun _ => Lane Idle [] Pulling) = 0%nat.
Proof. intros H. unfold tally. simpl. rewrite H. by induction (seq 0 readers). Qed.

Lemma pull_init_inv before : length before = size -> inv (init before).
Proof.
  intros H. split; simpl; try done.
  - intros l. split; simpl; try done. by exists [].
  - unfold main_ok. simpl. by rewrite !tally_nil.
Qed.

Lemma pull_reachable_inv before s : length before = size -> reachable before s -> inv s.
Proof.
  intros Hb. induction 1 as [|s e s' _ IH Hp]; [by apply pull_init_inv|by eapply pull_perform_inv].
Qed.

(** All threads of the client at their end and success at the server: nothing is left on a wire. *)
Lemma all_ended s : inv s -> main s = Answered CUDA_SUCCESS ->
  (forall l, (l < readers)%nat -> client (lanes s l) = Ended) -> destination s = data.
Proof.
  intros Hinv Em Hend. pose proof (inv_main _ Hinv) as HM. unfold main_ok in HM. rewrite Em in HM.
  destruct HM as [_ HM]. apply (chunks_cover K K_pos); [apply Hinv|]. intros k Hk.
  destruct (HM eq_refl k Hk) as [Ha|[l Hl]]; [done|]. exfalso. pose proof (inv_lanes _ Hinv l) as Hlane.
  destruct (decide (l < readers)%nat) as [Hlt|Hge].
  - destruct (lane_end _ _ Hlane (Hend l Hlt)) as [Ep Ew]. unfold with_lane in Hl. rewrite Ep, Ew in Hl.
    by destruct Hl as [[]%not_elem_of_nil|[]].
  - assert (Ep : at_phase (lanes s l) = Idle)
      by (destruct (at_phase (lanes s l)) eqn:Ep; try done;
          pose proof (lane_known _ _ Hlane ltac:(by rewrite Ep)); lia).
    unfold with_lane in Hl. rewrite Ep, (lane_idle _ _ Hlane Ep) in Hl. by destruct Hl as [[]%not_elem_of_nil|[]].
Qed.

Lemma pull_success noted answered s : lupine_bulk_pull noted answered s = Some CUDA_SUCCESS ->
  main s = Answered CUDA_SUCCESS /\ forall l, (l < readers)%nat -> client (lanes s l) = Ended.
Proof.
  unfold lupine_bulk_pull. destruct (existsb _ _); [done|]. destruct answered; simpl; [|done].
  destruct (main s) as [| |r]; try done. destruct (forallb _ _) eqn:Ef; simpl; [|done].
  destruct noted; [|done]. intros [= ->]. split; [done|]. intros l Hl.
  rewrite forallb_forall in Ef. specialize (Ef (client (lanes s l))).
  destruct (client (lanes s l)) eqn:Ec; [|done|]; exfalso; assert (H : false = true); try done; apply Ef;
    apply in_map_iff; exists l; (split; [done|]); apply in_seq; lia.
Qed.

(** A handler that holds the entry can go on. *)
Lemma holder_moves l e s : inv s -> main s = Waiting -> entry s = Some e ->
  holds_entry (at_phase (lanes s l)) = true -> exists ev, is_Some (perform ev s).
Proof.
  intros Hinv Em Ee Hh. pose proof (inv_main _ Hinv) as HM. unfold main_ok in HM. rewrite Em, Ee in HM.
  pose proof (entry_ready _ _ HM) as Hr. rewrite Em in Hr.
  destruct (at_phase (lanes s l)) eqn:Ep; try done.
  - exists (Wake l). simpl. unfold wake. rewrite Ep, Ee, Hr. by eexists.
  - exists (Bind l 0). simpl. unfold bind. rewrite Ep, Ee. by eexists.
  - exists (Turn l). simpl. unfold turn. rewrite Ep, Ee. by case_match; eexists.
  - exists (CopyChunk l 0 true). simpl. unfold copy_chunk. rewrite Ep. by eexists.
  - exists (Lock l). simpl. unfold relock. rewrite Ep, Ee. by eexists.
Qed.

Lemma tally_pos f ls : tally f ls <> 0%nat -> exists l, (l < readers)%nat /\ f (at_phase (ls l)) = true.
Proof.
  unfold tally. intros H. assert (He : exists l, l ∈ seq 0 readers /\ f (at_phase (ls l)) = true).
  { revert H. induction (seq 0 readers) as [|y ys IH]; simpl; [done|].
    destruct (f (at_phase (ls y))) eqn:E; simpl; [intros _; exists y; split; [by left|done]|].
    intros (l & Hl & Hf)%IH. exists l. split; [by right|done]. }
  destruct He as (l & Hl%elem_of_seq & Hf). exists l. split; [lia|done].
Qed.

Lemma tally_compl ls : (tally over ls + tally (fun p => negb (over p)) ls = readers)%nat.
Proof.
  unfold tally. rewrite <- (length_seq readers 0) at 3. induction (seq 0 readers) as [|y ys IH]; simpl; [done|].
  destruct (over (at_phase (ls y))); simpl; lia.
Qed.
End System.

Section Runs.
Context (K readers : nat) (data before : list byte).

Lemma pull_run_reachable es s s' : reachable K readers data before s -> run K readers data es s = Some s' ->
  reachable K readers data before s'.
Proof.
  revert s. induction es as [|e es IH]; simpl; intros s Hs; [by intros [= <-]|].
  destruct (perform _ _ _ e s) as [s1|] eqn:Ep; [|done]. apply IH. by eapply reach_step.
Qed.
End Runs.

(** C30: When a striped copy from the device returns success to the client, the destination
    holds the device's bytes: however the readers share the chunks, however their frames
    interleave, and even when a connection was lost on the way.  In no run is the entry of
    the copy erased while a reader still refers to it. *)
Theorem bulk_pull_delivers (K readers : nat) (data before : list byte) (s : state) (noted answered : bool)
  (H_chunk : (0 < K)%nat) (H_room : length before = length data)
  (H_run : reachable K readers data before s) :
  bad s = false /\
  (lupine_bulk_pull readers noted answered s = Some CUDA_SUCCESS -> destination s = data).
Proof.
  pose proof (pull_reachable_inv K readers data H_chunk before s H_room H_run) as Hinv.
  split; [apply Hinv|]. intros H. destruct (pull_success K _ H_chunk _ _ _ H) as [Em Hend]. by eapply all_ended.
Qed.

(** Two readers, the second taking the last chunk first. *)
Definition two_readers : list event :=
  [Request 0 true; Request 1 true; Arrive 1; Start 0; Arrive 0; Wake 1; Wake 0; Bind 0 0; Bind 1 0; Turn 1;
   Turn 0; CopyChunk 0 0 true; Frame 0; CopyChunk 1 0 true; Lock 1; Lock 0; Turn 0; Turn 1; Finish; Terminate 1 true;
   Frame 1; Terminate 0 true; Frame 0; Frame 1].

Lemma bulk_pull_delivers_witness :
  exists s, run 2 2 [5; 6; 7] two_readers (init [0; 0; 0]) = Some s /\
    lupine_bulk_pull 2 true true s = Some CUDA_SUCCESS /\ destination s = [5; 6; 7] /\ bad s = false.
Proof.
  destruct (run 2 2 [5; 6; 7] two_readers (init [0; 0; 0])) as [s|] eqn:E; [|by vm_compute in E].
  assert (Hm : lupine_bulk_pull 2 true true s = Some CUDA_SUCCESS).
  { revert E. vm_compute. intros [= <-]. done. }
  exists s. split; [done|]. split; [done|].
  destruct (bulk_pull_delivers 2 2 [5; 6; 7] [0; 0; 0] s true true) as [H1 H2].
  - lia.
  - reflexivity.
  - eapply pull_run_reachable; [apply reach_init|exact E].
  - split; [exact (H2 Hm)|exact H1].
Defined.

(** The handler on the caller's lane never waits for nothing: as long as it waits, and
    every reader was asked for or a connection was lost, some thread can take a step. *)
Theorem bulk_pull_not_stuck (K readers : nat) (data before : list byte) (s : state)
  (H_chunk : (0 < K)%nat) (H_room : length before = length data)
  (H_run : reachable K readers data before s) (H_waits : main s = Waiting)
  (H_readers : lost s = true \/ forall l, (l < readers)%nat -> at_phase (lanes s l) <> Idle) :
  exists e, is_Some (perform K readers data e s).
Proof.
  pose proof (pull_reachable_inv K readers data H_chunk before s H_room H_run) as Hinv.
  pose proof (inv_main _ _ _ _ Hinv) as HM. unfold main_ok in HM. rewrite H_waits in HM.
  destruct (entry s) as [e|] eqn:Ee; [|by destruct HM].
  destruct (decide (tally readers holds_entry (lanes s) = 0%nat)) as [Hz|Hz]; cycle 1.
  { apply (tally_pos K readers H_chunk) in Hz as (l & Hl & Hh). by eapply holder_moves. }
  destruct HM as [J1 J2 _ _ _ _].
  destruct ((finished e =? readers)%nat || (lost s && (finished e =? arrived e)%nat)) eqn:Ec.
  { exists Finish. simpl. unfold finish. rewrite H_waits, Ee, Ec. by eexists. }
  apply orb_false_iff in Ec as [Ef%Nat.eqb_neq Ea]. destruct H_readers as [Hl|Hi].
  { rewrite Hl in Ea. simpl in Ea. apply Nat.eqb_neq in Ea. lia. }
  pose proof (tally_compl K readers H_chunk (lanes s)) as Hc.
  destruct (tally_pos K readers H_chunk (fun p => negb (over p)) (lanes s)) as (l & Hlt & Hn); [lia|].
  pose proof (tally_zero K readers H_chunk holds_entry (lanes s) Hz l Hlt) as Hh. specialize (Hi l Hlt).
  exists (Arrive l). simpl. unfold arrive. destruct (at_phase (lanes s l)); try done; by eexists.
Qed.

Lemma bulk_pull_not_stuck_witness :
  exists s, run 2 1 [5; 6; 7] [Start 0; Request 0 true] (init [0; 0; 0]) = Some s /\
    exists e, is_Some (perform 2 1 [5; 6; 7] e s).
Proof.
  destruct (run 2 1 [5; 6; 7] [Start 0; Request 0 true] (init [0; 0; 0])) as [s|] eqn:E; [|by vm_compute in E].
  exists s. split; [done|]. apply (bulk_pull_not_stuck 2 1 [5; 6; 7] [0; 0; 0]).
  - lia.
  - reflexivity.
  - eapply pull_run_reachable; [apply reach_init|exact E].
  - revert E. vm_compute. by intros [= <-].
  - right. revert E. vm_compute. intros [= <-] l Hl. destruct l; [done|]. simpl in *. lia.
Defined.
End Pull.
