(* ===== verification/Smemcpy.v ===== *)
(** * Scatter copies on the device

    [ops/smemcpy_dispatch.cpp], [ops/cuda_smemcpy.cu] and [ops/smemcpy_module.cpp]: a packed
    fragment of a copy, in a slot that the device can read, is scattered over the rows and
    slices of its destination.  The dispatcher chooses between a contiguous copy and a
    family of kernels; a kernel is here what each of its threads does, as a list of
    accesses, and a launch is the accesses of all its threads in no particular order.

    Bytes of memory are a function of the address. *)
From stdpp Require Import pretty strings.
From S2P Require Import Prelude.

(** ** Parameters and launches *)

Record lupine_smemcpy_params := Params {
  destination : Z;
  source : Z;
  logical_offset : Z;
  bytes : Z;
  width : Z;
  rows : Z;
  destination_row_stride : Z;
  destination_slice_stride : Z }.

Record lupine_smemcpy_device := Device { major : Z; minor : Z; is_l4 : bool }.

Inductive lupine_smemcpy_kernel_kind :=
| KERNEL_3D | KERNEL_2D | KERNEL_PITCHED | KERNEL_NARROW_2D | KERNEL_NARROW_3D
| KERNEL_ATOMIC_NARROW_2D | KERNEL_ATOMIC_ROWS.

Record lupine_smemcpy_launch_descriptor := Launch {
  params : lupine_smemcpy_params;
  use_cuda_memcpy : bool;
  kernel : lupine_smemcpy_kernel_kind;
  blocks : Z;
  threads : Z;
  word_bytes : Z;
  l_width : Z;
  items : Z;
  byte_offset : Z;
  group_threads : Z }.

Definition kThreadsPerBlock : Z := 256.
Definition kMaximumBlocks : Z := 65535.
Definition kNarrowItemsPerThread : Z := 4.
Definition size_max : Z := 2 ^ 64 - 1.

(** ** The dispatcher *)

Definition blocks_for (bytes bytes_per_thread : Z) : Z :=
  let block_bytes := kThreadsPerBlock * bytes_per_thread in
  let blocks := bytes / block_bytes + (if bytes mod block_bytes =? 0 then 0 else 1) in
  Z.min (Z.max blocks 1) kMaximumBlocks.

Definition destination_at (p : lupine_smemcpy_params) (logical : Z) : Z :=
  let row_index := logical / width p in
  let x := logical - row_index * width p in
  let slice := row_index / rows p in
  let row := row_index - slice * rows p in
  wrap64 (destination p + slice * destination_slice_stride p + row * destination_row_stride p + x).

Definition contiguous_destination (p : lupine_smemcpy_params) (slice_bytes : Z) : bool :=
  let first_row := logical_offset p / width p in
  let last_row := (logical_offset p + bytes p - 1) / width p in
  if first_row =? last_row then true
  else if negb (destination_row_stride p =? width p) then false
  else (first_row / rows p =? last_row / rows p) || (destination_slice_stride p =? slice_bytes).

Definition can_vectorize_pitched (W : Z) (p : lupine_smemcpy_params) (first_destination : Z) : bool :=
  let mask := W - 1 in
  (Z.land (width p) mask =? 0) && (Z.land (destination p) mask =? 0) &&
  (Z.land (destination_row_stride p) mask =? 0) && (Z.land (destination_slice_stride p) mask =? 0) &&
  (Z.land (Z.lxor (source p) first_destination) mask =? 0).

Definition set_pitched_vector_launch (W : Z) (l : lupine_smemcpy_launch_descriptor)
    : lupine_smemcpy_launch_descriptor :=
  Launch (params l) (use_cuda_memcpy l) KERNEL_PITCHED (blocks_for (bytes (params l)) W) (threads l) W
    (l_width l) (items l) (byte_offset l) (group_threads l).

Definition select_pitched_vector_launch (l : lupine_smemcpy_launch_descriptor) (first_destination : Z)
    : option lupine_smemcpy_launch_descriptor :=
  if can_vectorize_pitched 16 (params l) first_destination then Some (set_pitched_vector_launch 16 l)
  else if can_vectorize_pitched 8 (params l) first_destination then Some (set_pitched_vector_launch 8 l)
  else if can_vectorize_pitched 4 (params l) first_destination then Some (set_pitched_vector_launch 4 l)
  else if can_vectorize_pitched 2 (params l) first_destination then Some (set_pitched_vector_launch 2 l)
  else None.

Definition set_narrow_launch (l : lupine_smemcpy_launch_descriptor) (is_3d : bool) (width items : Z)
    : lupine_smemcpy_launch_descriptor :=
  Launch (params l) (use_cuda_memcpy l) (if is_3d then KERNEL_NARROW_3D else KERNEL_NARROW_2D)
    (blocks_for (bytes (params l)) items) (threads l) (word_bytes l) width items (byte_offset l)
    (group_threads l).

Definition set_atomic_launch (l : lupine_smemcpy_launch_descriptor) (width byte_offset group_threads : Z)
    : lupine_smemcpy_launch_descriptor :=
  Launch (params l) (use_cuda_memcpy l) (if width =? 1 then KERNEL_ATOMIC_NARROW_2D else KERNEL_ATOMIC_ROWS)
    (blocks_for (bytes (params l)) width) (threads l) (word_bytes l) width (items l) byte_offset
    group_threads.

Inductive atomic_narrow_target :=
| atomic_none | atomic_pascal | atomic_volta | atomic_turing | atomic_ampere | atomic_l4.

Definition atomic_target_for (device : option lupine_smemcpy_device) : atomic_narrow_target :=
  match device with
  | None => atomic_none
  | Some d =>
      if (major d =? 6) && (minor d =? 0) then atomic_pascal
      else if (major d =? 7) && (minor d =? 0) then atomic_volta
      else if (major d =? 7) && (minor d =? 5) then atomic_turing
      else if (major d =? 8) && (minor d =? 0) then atomic_ampere
      else if (major d =? 8) && (minor d =? 9) && is_l4 d then atomic_l4
      else atomic_none
  end.

Definition atomic_group_threads (target : atomic_narrow_target) (width stride : Z) : Z :=
  if (stride <? 64) || (512 <? stride) || negb (Z.land stride (stride - 1) =? 0) then 0
  else
    match target with
    | atomic_pascal =>
        if width =? 1 then (if 128 <=? stride then 4 else 0) else if stride =? 64 then 8 else 4
    | atomic_volta =>
        if width =? 1 then (if 128 <=? stride then 4 else 0)
        else if (stride =? 64) || ((width =? 3) && (stride =? 128)) then 16
        else if stride =? 128 then 8 else 4
    | atomic_turing =>
        if width =? 1 then (if stride =? 64 then 8 else 4)
        else if width =? 2 then (if (stride =? 128) || (stride =? 256) then 4 else 0)
        else if stride =? 64 then 16 else 4
    | atomic_ampere => if (width =? 1) && (256 <=? stride) then 8 else 0
    | atomic_l4 => if width =? 1 then (if stride =? 64 then 16 else 8) else 16
    | atomic_none => 0
    end.

Definition rows_fit_atomic_word (p : lupine_smemcpy_params) (first_destination : Z) : bool :=
  let owns_complete_rows := (logical_offset p mod width p =? 0) && (bytes p mod width p =? 0) in
  let byte_offset := Z.land first_destination 3 in
  (width p <=? 3) && owns_complete_rows && (byte_offset + width p <=? 4).

Definition with_params (p : lupine_smemcpy_params) (l : lupine_smemcpy_launch_descriptor)
    : lupine_smemcpy_launch_descriptor :=
  Launch p (use_cuda_memcpy l) (kernel l) (blocks l) (threads l) (word_bytes l) (l_width l) (items l)
    (byte_offset l) (group_threads l).

Definition plain_launch (k : lupine_smemcpy_kernel_kind) (l : lupine_smemcpy_launch_descriptor)
    : lupine_smemcpy_launch_descriptor :=
  Launch (params l) (use_cuda_memcpy l) k (blocks_for (bytes (params l)) 1) (threads l) (word_bytes l)
    (l_width l) (items l) (byte_offset l) (group_threads l).

(** The condition under which it returns [CUDA_ERROR_INVALID_VALUE]. *)
Definition invalid_params (p : lupine_smemcpy_params) : bool :=
  (width p =? 0) || (rows p =? 0) ||
  (negb (bytes p =? 0) && ((source p =? 0) || (destination p =? 0))) ||
  (size_max / rows p <? width p) || (size_max - logical_offset p <? bytes p).

(** The number of threads of the atomic path, zero for the ordinary one. *)
Definition atomic_threads_for (p : lupine_smemcpy_params) (device : option lupine_smemcpy_device)
    (first_destination first_slice last_slice : Z) : Z :=
  let atomic_threads :=
    if width p <=? 3
    then
      let n := atomic_group_threads (atomic_target_for device) (width p) (destination_row_stride p) in
      if negb (n =? 0) && negb (rows_fit_atomic_word p first_destination) then 0 else n
    else 0 in
  let regular_rows_across_slices :=
    (destination_row_stride p <=? size_max / rows p) &&
    (destination_slice_stride p =? destination_row_stride p * rows p) in
  if negb (atomic_threads =? 0) && negb (first_slice =? last_slice) && negb regular_rows_across_slices
  then 0 else atomic_threads.

(** The kernel for rows of at most three bytes, or [wide]. *)
Definition narrow_or (l : lupine_smemcpy_launch_descriptor) (p : lupine_smemcpy_params) (is_3d : bool)
    (first_destination atomic_threads : Z) (latency_hiding_narrow : bool)
    (wide : lupine_smemcpy_kernel_kind) : lupine_smemcpy_launch_descriptor :=
  if width p <=? 3 then
    if negb (atomic_threads =? 0)
    then set_atomic_launch l (width p) (Z.land first_destination 3) atomic_threads
    else set_narrow_launch l is_3d (width p) (if latency_hiding_narrow then kNarrowItemsPerThread else 1)
  else plain_launch wide l.

(** [None] is [CUDA_ERROR_INVALID_VALUE]. *)
Definition lupine_smemcpy_prepare_descriptor (p : lupine_smemcpy_params)
    (device : option lupine_smemcpy_device) : option lupine_smemcpy_launch_descriptor :=
  if invalid_params p then None
  else
    let launch := Launch p false KERNEL_3D 0 kThreadsPerBlock 0 0 0 0 0 in
    if bytes p =? 0 then Some launch
    else
      let slice_bytes := width p * rows p in
      let first_destination := destination_at p (logical_offset p) in
      if contiguous_destination p slice_bytes then
        Some (Launch (Params first_destination (source p) 0 (bytes p) (width p) (rows p)
                        (destination_row_stride p) (destination_slice_stride p))
                true KERNEL_3D 0 kThreadsPerBlock 0 0 0 0 0)
      else
        let first_row_index := logical_offset p / width p in
        let first_slice := first_row_index / rows p in
        let last_logical := logical_offset p + bytes p - 1 in
        let last_row_index := last_logical / width p in
        let last_slice := last_row_index / rows p in
        let latency_hiding_narrow :=
          (width p <=? 3) && match device with Some d => major d <? 8 | None => false end in
        let atomic_threads := atomic_threads_for p device first_destination first_slice last_slice in
        match (if (atomic_threads =? 0) && negb latency_hiding_narrow
               then select_pitched_vector_launch launch first_destination else None) with
        | Some vector => Some vector
        | None =>
            if first_slice =? last_slice then
              let first_row := first_row_index - first_slice * rows p in
              let first_x := logical_offset p - first_row_index * width p in
              let p' := Params (wrap64 (destination p + first_slice * destination_slice_stride p +
                                        first_row * destination_row_stride p))
                          (source p) first_x (bytes p) (width p) (rows p) (destination_row_stride p)
                          (destination_slice_stride p) in
              Some (narrow_or (with_params p' launch) p false first_destination atomic_threads
                      latency_hiding_narrow KERNEL_2D)
            else
              let p' := if negb (first_slice =? 0)
                        then Params (wrap64 (destination p + first_slice * destination_slice_stride p))
                               (source p) (logical_offset p - first_slice * slice_bytes) (bytes p) (width p)
                               (rows p) (destination_row_stride p) (destination_slice_stride p)
                        else p in
              Some (narrow_or (with_params p' launch) p true first_destination atomic_threads
                      latency_hiding_narrow KERNEL_3D)
        end.

(** ** The kernels *)

(** An access of a thread: a byte, an aligned word copied from the source, or bytes put into
    their aligned 32-bit word with compare-and-swap, the other bytes of it staying. *)
Inductive access :=
| StoreByte (a : Z) (v : byte)
| StoreWord (a s : Z) (vs : list byte)
| Cas (word offset : Z) (vs : list byte).

Definition put (a : Z) (vs : list byte) : list (Z * byte) :=
  imap (fun j v => (wrap64 (a + Z.of_nat j), v)) vs.

(** The bytes an access changes. *)
Definition writes (x : access) : list (Z * byte) :=
  match x with
  | StoreByte a v => [(a, v)]
  | StoreWord a _ vs => put a vs
  | Cas w o vs => put (w + o) vs
  end.

(** The device traps on a word that is not aligned. *)
Definition aligned (x : access) : bool :=
  match x with
  | StoreByte _ _ => true
  | StoreWord a s vs => let W := Z.of_nat (length vs) in (a mod W =? 0) && (s mod W =? 0)
  | Cas w _ _ => w mod 4 =? 0
  end.

(** [for (index = i; index < limit; index += step)]; as many turns as the limit are enough. *)
Fixpoint grid_loop (fuel : nat) (i step limit : Z) : list Z :=
  match fuel with
  | O => []
  | S fuel => if i <? limit then i :: grid_loop fuel (i + step) step limit else []
  end.

Definition grid (i step limit : Z) : list Z := grid_loop (Z.to_nat limit) i step limit.

Definition warpSize : Z := 32.

Definition kSourceTransactionAlignment : Z := 128.

Definition source_prefix (source bytes : Z) : Z :=
  let prefix := Z.land (wrap64 (- source)) (kSourceTransactionAlignment - 1) in
  if prefix <? bytes then prefix else bytes.

Section Kernels.
Context (memory : Z -> byte).

(** [source[index]]. *)
Definition load (p : lupine_smemcpy_params) (index : Z) : byte := memory (wrap64 (source p + index)).

Definition scatter_byte (p : lupine_smemcpy_params) (index : Z) : access :=
  StoreByte (destination_at p (logical_offset p + index)) (load p index).

(** The address in one slice, for rows of [W] bytes. *)
Definition row_address (W : Z) (p : lupine_smemcpy_params) (index : Z) : Z :=
  let logical := logical_offset p + index in
  let row := logical / W in
  let x := logical - row * W in
  wrap64 (destination p + row * destination_row_stride p + x).

Definition scatter_2d_byte (p : lupine_smemcpy_params) (index : Z) : access :=
  StoreByte (row_address (width p) p index) (load p index).

Definition scatter_narrow_store (W : Z) (p : lupine_smemcpy_params) (index : Z) (value : byte) : access :=
  StoreByte (row_address W p index) value.

Definition scatter_narrow_3d_store (W : Z) (p : lupine_smemcpy_params) (index : Z) (value : byte) : access :=
  let logical := logical_offset p + index in
  let row_index := logical / W in
  let x := logical - row_index * W in
  let slice := row_index / rows p in
  let row := row_index - slice * rows p in
  StoreByte (wrap64 (destination p + slice * destination_slice_stride p + row * destination_row_stride p + x))
    value.

Definition atomic_store_byte (byte_offset a accessible_begin : Z) (value : byte) : access :=
  if negb (byte_offset =? 0) && (a <? wrap64 (accessible_begin + byte_offset)) then StoreByte a value
  else Cas (wrap64 (a - byte_offset)) byte_offset [value].

(** The bytes of a row, from the value they were packed into. *)
Definition atomic_store_row (byte_offset a accessible_begin : Z) (value : list byte) : list access :=
  if negb (byte_offset =? 0) && (a <? wrap64 (accessible_begin + byte_offset))
  then imap (fun x v => StoreByte (wrap64 (a + Z.of_nat x)) v) value
  else [Cas (wrap64 (a - byte_offset)) byte_offset value].

Definition scatter_atomic_2d_store (byte_offset : Z) (p : lupine_smemcpy_params) (index : Z) (value : byte)
    : access :=
  let row := logical_offset p + index in
  atomic_store_byte byte_offset (wrap64 (destination p + row * destination_row_stride p)) (destination p)
    value.

(** One turn for each group of lanes of a warp, in which only the lanes of the group store. *)
Definition staggered (group_threads lane : Z) (store : list access) : list access :=
  grid 0 group_threads warpSize ≫= fun group =>
    if (group <=? lane) && (lane <? group + group_threads) then store else [].

(** A thread of a launch of [n] threads. *)
Definition smemcpy_pitched_vector_body (W : Z) (p : lupine_smemcpy_params) (n thread : Z) : list access :=
  let prefix := source_prefix (source p) (bytes p) in
  let bulk_bytes := mask_down (bytes p - prefix) W in
  let tail := bytes p - prefix - bulk_bytes in
  (if thread <? prefix then [scatter_byte p thread] else []) ++
  ((fun index => StoreWord (destination_at p (logical_offset p + index)) (wrap64 (source p + index))
                   (load p <$> seqZ index W)) <$> grid (prefix + thread * W) (n * W) (prefix + bulk_bytes)) ++
  (if thread <? tail then [scatter_byte p (prefix + bulk_bytes + thread)] else []).

Definition smemcpy_2d_body (p : lupine_smemcpy_params) (n thread : Z) : list access :=
  let prefix := source_prefix (source p) (bytes p) in
  (if thread <? prefix then [scatter_2d_byte p thread] else []) ++
  (scatter_2d_byte p <$> grid (prefix + thread) n (bytes p)).

Definition smemcpy_3d_body (p : lupine_smemcpy_params) (n thread : Z) : list access :=
  let prefix := source_prefix (source p) (bytes p) in
  (if thread <? prefix then [scatter_byte p thread] else []) ++
  (scatter_byte p <$> grid (prefix + thread) n (bytes p)).

(** The narrow kernels differ in [store] only. *)
Definition narrow_body (store : Z -> byte -> access) (W Items : Z) (p : lupine_smemcpy_params) (n thread : Z)
    : list access :=
  let prefix := source_prefix (source p) (bytes p) in
  let lane := (thread mod kThreadsPerBlock) mod warpSize in
  (if thread <? prefix then [store thread (load p thread)] else []) ++
  (seqZ 0 Items ≫= fun item =>
     let index := prefix + thread + item * n in
     if (Items =? 1) || (W =? 3) then (if index <? bytes p then [store index (load p index)] else [])
     else staggered (if W =? 1 then 4 else 8) lane
            (if index <? bytes p then [store index (load p index)] else [])).

Definition smemcpy_narrow_2d_body (W Items : Z) (p : lupine_smemcpy_params) : Z -> Z -> list access :=
  narrow_body (scatter_narrow_store W p) W Items p.

Definition smemcpy_narrow_3d_body (W Items : Z) (p : lupine_smemcpy_params) : Z -> Z -> list access :=
  narrow_body (scatter_narrow_3d_store W p) W Items p.

Definition smemcpy_atomic_narrow_2d_body (byte_offset group_threads : Z) (p : lupine_smemcpy_params)
    (n thread : Z) : list access :=
  let prefix := source_prefix (source p) (bytes p) in
  let lane := (thread mod kThreadsPerBlock) mod warpSize in
  (if thread <? prefix
   then [if thread + 1 =? bytes p then scatter_narrow_store 1 p thread (load p thread)
         else scatter_atomic_2d_store byte_offset p thread (load p thread)]
   else []) ++
  (grid (prefix + thread) n (bytes p) ≫= fun index =>
     if index + 1 =? bytes p then [scatter_narrow_store 1 p index (load p index)]
     else staggered group_threads lane [scatter_atomic_2d_store byte_offset p index (load p index)]).

Definition smemcpy_atomic_rows_body (W byte_offset group_threads : Z) (p : lupine_smemcpy_params)
    (n thread : Z) : list access :=
  let copy_rows := bytes p / W in
  let lane := (thread mod kThreadsPerBlock) mod warpSize in
  grid thread n copy_rows ≫= fun copy_row =>
    let value := load p <$> seqZ (copy_row * W) W in
    let destination_row := logical_offset p / W + copy_row in
    let output := wrap64 (destination p + destination_row * destination_row_stride p) in
    if copy_row + 1 =? copy_rows then imap (fun x v => StoreByte (wrap64 (output + Z.of_nat x)) v) value
    else staggered group_threads lane (atomic_store_row byte_offset output (destination p) value).

(** ** The exported kernels *)

Definition body : Type := lupine_smemcpy_params -> Z -> Z -> list access.

Definition pitched_entry (W : Z) : string * body :=
  ("lupine_smemcpy_pitched_" +:+ pretty W, smemcpy_pitched_vector_body W).

Definition narrow_entries (W Items : Z) : list (string * body) :=
  [("lupine_smemcpy_narrow_2d_" +:+ pretty W +:+ "_" +:+ pretty Items, smemcpy_narrow_2d_body W Items);
   ("lupine_smemcpy_narrow_3d_" +:+ pretty W +:+ "_" +:+ pretty Items, smemcpy_narrow_3d_body W Items)]%string.

Definition atomic_2d_entry (offset group : Z) : string * body :=
  ("lupine_smemcpy_atomic_2d_" +:+ pretty offset +:+ "_" +:+ pretty group,
   smemcpy_atomic_narrow_2d_body offset group).

Definition atomic_rows_entry (W offset group : Z) : string * body :=
  ("lupine_smemcpy_atomic_rows_" +:+ pretty W +:+ "_" +:+ pretty offset +:+ "_" +:+ pretty group,
   smemcpy_atomic_rows_body W offset group).

Definition kKernels : list (string * body) :=
  [("lupine_smemcpy_3d", smemcpy_3d_body); ("lupine_smemcpy_2d", smemcpy_2d_body);
   pitched_entry 2; pitched_entry 4; pitched_entry 8; pitched_entry 16] ++
  (W ← [1; 2; 3]; Items ← [1; 4]; narrow_entries W Items) ++
  (group ← [4; 8; 16]; offset ← [0; 1; 2; 3]; [atomic_2d_entry offset group]) ++
  (group ← [4; 8; 16];
   [atomic_rows_entry 2 0 group; atomic_rows_entry 2 1 group; atomic_rows_entry 2 2 group;
    atomic_rows_entry 3 0 group; atomic_rows_entry 3 1 group]).

(** The switch of [lupine_smemcpy_kernel_name]. *)
Definition kernel_string (l : lupine_smemcpy_launch_descriptor) : string :=
  match kernel l with
  | KERNEL_3D => "lupine_smemcpy_3d"
  | KERNEL_2D => "lupine_smemcpy_2d"
  | KERNEL_PITCHED => "lupine_smemcpy_pitched_" +:+ pretty (word_bytes l)
  | KERNEL_NARROW_2D => "lupine_smemcpy_narrow_2d_" +:+ pretty (l_width l) +:+ "_" +:+ pretty (items l)
  | KERNEL_NARROW_3D => "lupine_smemcpy_narrow_3d_" +:+ pretty (l_width l) +:+ "_" +:+ pretty (items l)
  | KERNEL_ATOMIC_NARROW_2D =>
      "lupine_smemcpy_atomic_2d_" +:+ pretty (byte_offset l) +:+ "_" +:+ pretty (group_threads l)
  | KERNEL_ATOMIC_ROWS =>
      "lupine_smemcpy_atomic_rows_" +:+ pretty (l_width l) +:+ "_" +:+ pretty (byte_offset l) +:+ "_" +:+
      pretty (group_threads l)
  end%string.

Definition lupine_smemcpy_kernel_name (l : lupine_smemcpy_launch_descriptor) : option string :=
  if use_cuda_memcpy l || (blocks l =? 0) then None else Some (kernel_string l).

Fixpoint find_kernel (name : string) (entries : list (string * body)) : option body :=
  match entries with
  | [] => None
  | (n, f) :: entries => if decide (n = name) then Some f else find_kernel name entries
  end.

Definition runtime_kernel (l : lupine_smemcpy_launch_descriptor) : option body :=
  name ← lupine_smemcpy_kernel_name l; find_kernel name kKernels.

(** What a prepared launch does: the copy of the contiguous case, or the threads of the grid.
    [None]: there is no such kernel. *)
Definition lupine_smemcpy_async (l : lupine_smemcpy_launch_descriptor) : option (list access) :=
  let p := params l in
  if use_cuda_memcpy l
  then Some ((fun i => StoreByte (wrap64 (destination p + i)) (load p i)) <$> seqZ 0 (bytes p))
  else if blocks l =? 0 then Some []
  else
    k ← runtime_kernel l;
    let n := blocks l * threads l in
    Some (seqZ 0 n ≫= k p n).
End Kernels.

(** ** Sharing indices among threads *)

Lemma grid_loop_elem fuel i step limit j : 0 < step -> limit - i <= Z.of_nat fuel ->
  j ∈ grid_loop fuel i step limit <-> i <= j < limit /\ (j - i) mod step = 0.
Proof.
  revert i. induction fuel as [|fuel IH]; intros i Hs Hf; simpl.
  - rewrite elem_of_nil. split; [done|]. lia.
  - destruct (Z.ltb_spec i limit) as [Hlt|Hge]; [|rewrite elem_of_nil; split; [done|lia]].
    rewrite elem_of_cons, IH by lia. replace (j - i) with (j - (i + step) + 1 * step) by lia.
    rewrite Z_mod_plus_full. split.
    + intros [->|[? ?]]; [|lia]. split; [lia|]. replace (i - (i + step)) with (-1 * step) by lia.
      by rewrite Z_mod_mult.
    + intros [Hj Hm]. destruct (decide (j = i)) as [|Hne]; [by left|right]. split; [|done].
      pose proof (Z.div_mod (j - (i + step)) step ltac:(lia)) as E. rewrite Hm in E.
      set (q := (j - (i + step)) / step) in *. assert (0 <= q) by nia. nia.
Qed.

Lemma grid_elem i step limit j : 0 < step -> 0 <= i ->
  j ∈ grid i step limit <-> i <= j < limit /\ (j - i) mod step = 0.
Proof. intros Hs Hi. apply grid_loop_elem; lia. Qed.

Lemma grid_loop_NoDup fuel i step limit : 0 < step -> NoDup (grid_loop fuel i step limit).
Proof.
  intros Hs. assert (H : forall fuel i, NoDup (grid_loop fuel i step limit) /\
    forall j, j ∈ grid_loop fuel i step limit -> i <= j).
  { clear fuel i. induction fuel as [|fuel IH]; intros i; simpl.
    - split; [constructor|]. intros j Hj. by apply elem_of_nil in Hj.
    - destruct (i <? limit); [|split; [constructor|intros j Hj; by apply elem_of_nil in Hj]].
      destruct (IH (i + step)) as [Hn Hle]. split.
      + constructor; [|done]. intros Hin. apply Hle in Hin. lia.
      + intros j [->|Hj]%elem_of_cons; [lia|]. apply Hle in Hj. lia. }
  apply H.
Qed.

Lemma grid_NoDup i step limit : 0 < step -> NoDup (grid i step limit).
Proof. apply grid_loop_NoDup. Qed.

Lemma NoDup_bind {A B} (f : A -> list B) l : NoDup l -> (forall x, x ∈ l -> NoDup (f x)) ->
  (forall x y z, x ∈ l -> y ∈ l -> z ∈ f x -> z ∈ f y -> x = y) -> NoDup (l ≫= f).
Proof.
  induction l as [|x l IH]; intros Hl Hf Hd; simpl; [constructor|].
  apply NoDup_cons in Hl as [Hx Hl]. apply NoDup_app. split; [apply Hf; by left|]. split.
  - intros z Hz (y & Hzy & Hy)%list_elem_of_bind. assert (x = y) as -> by (eapply Hd; [by left|by right|done|done]).
    done.
  - apply IH; [done| |]; intros; [apply Hf; by right|]. eapply Hd; [by right|by right|done|done].
Qed.

(** Threads that share out an interval: every index is some thread's, and one thread's. *)
Lemma shared_interval (f : Z -> list Z) n a m :
  (forall t, 0 <= t < n -> NoDup (f t)) ->
  (forall t t' j, 0 <= t < n -> 0 <= t' < n -> j ∈ f t -> j ∈ f t' -> t = t') ->
  (forall j, (exists t, 0 <= t < n /\ j ∈ f t) <-> a <= j < a + m) ->
  seqZ 0 n ≫= f ≡ₚ seqZ a m.
Proof.
  intros Hn Hd Hj. apply NoDup_Permutation.
  - apply NoDup_bind; [apply NoDup_seqZ| |].
    + intros t Ht%elem_of_seqZ. apply Hn. lia.
    + intros t t' j Ht%elem_of_seqZ Ht'%elem_of_seqZ. apply Hd; lia.
  - apply NoDup_seqZ.
  - intros j. rewrite elem_of_seqZ, <- Hj, list_elem_of_bind. split.
    + intros (t & Hjt & Ht%elem_of_seqZ). exists t. split; [lia|done].
    + intros (t & Ht & Hjt). exists t. split; [done|]. apply elem_of_seqZ. lia.
Qed.

(** [t] and [k * n] give the residue and the quotient by [n]. *)
Lemma split_index j n : 0 < n -> 0 <= j -> exists t k, 0 <= t < n /\ 0 <= k /\ j = t + k * n.
Proof.
  intros Hn Hj. exists (j mod n), (j / n). pose proof (Z.div_mod j n ltac:(lia)).
  pose proof (Z.mod_pos_bound j n Hn). pose proof (Z.div_pos j n). nia.
Qed.

Lemma split_unique n t k t' k' : 0 <= t < n -> 0 <= t' < n -> t + k * n = t' + k' * n -> t = t' /\ k = k'.
Proof. intros Ht Ht' H. destruct (Z.lt_trichotomy k k') as [Hk|[Hk|Hk]]; nia. Qed.

Lemma prefix_shared n prefix : 0 <= prefix <= n ->
  seqZ 0 n ≫= (fun t => if t <? prefix then [t] else []) ≡ₚ seqZ 0 prefix.
Proof.
  intros Hp. apply shared_interval.
  - intros t _. destruct (t <? prefix); [apply NoDup_singleton|constructor].
  - intros t t' j _ _. destruct (t <? prefix), (t' <? prefix); rewrite ?list_elem_of_singleton, ?elem_of_nil; try done; congruence.
  - intros j. split.
    + intros (t & Ht & Hj). destruct (Z.ltb_spec t prefix); [|by apply elem_of_nil in Hj].
      apply list_elem_of_singleton in Hj. lia.
    + intros Hj. exists j. split; [lia|]. destruct (Z.ltb_spec j prefix); [by apply list_elem_of_singleton|lia].
Qed.

(** The same with an offset, for the bytes after the whole words. *)
Lemma tail_shared n a tail : 0 <= tail <= n ->
  seqZ 0 n ≫= (fun t => if t <? tail then [a + t] else []) ≡ₚ seqZ a tail.
Proof.
  intros Hp. apply shared_interval.
  - intros t _. destruct (t <? tail); [apply NoDup_singleton|constructor].
  - intros t t' j _ _. destruct (t <? tail), (t' <? tail); rewrite ?list_elem_of_singleton, ?elem_of_nil; try done; lia.
  - intros j. split.
    + intros (t & Ht & Hj). destruct (Z.ltb_spec t tail); [|by apply elem_of_nil in Hj].
      apply list_elem_of_singleton in Hj. lia.
    + intros Hj. exists (j - a). split; [lia|]. destruct (Z.ltb_spec (j - a) tail); [|lia].
      apply list_elem_of_singleton. lia.
Qed.

Lemma unit_unique a W q q' j : 0 < W -> a + q * W <= j < a + q * W + W -> a + q' * W <= j < a + q' * W + W ->
  q = q'.
Proof. intros HW H H'. destruct (Z.lt_trichotomy q q') as [Hq|[Hq|Hq]]; nia. Qed.

(** Grid-stride loops over units of [W] indices. *)
Lemma words_shared n W a m : 0 < n -> 0 < W -> 0 <= a -> 0 <= m -> m mod W = 0 ->
  seqZ 0 n ≫= (fun t => grid (a + t * W) (n * W) (a + m) ≫= fun i => seqZ i W) ≡ₚ seqZ a m.
Proof.
  intros Hn HW Ha Hm Hmod.
  assert (Hchar : forall t j, 0 <= t < n -> j ∈ (grid (a + t * W) (n * W) (a + m) ≫= fun i => seqZ i W) <->
    exists k, 0 <= k /\ a + (t + k * n) * W <= j < a + (t + k * n) * W + W /\ a + (t + k * n) * W < a + m).
  { intros t j Ht. rewrite list_elem_of_bind. split.
    - intros (i & Hj%elem_of_seqZ & [Hi Hi0]%grid_elem); [|nia|nia].
      apply Z.div_exact in Hi0; [|nia]. set (k := (i - (a + t * W)) / (n * W)) in *.
      exists k. assert (0 <= k) by nia. split; [done|]. nia.
    - intros (k & Hk & Hj & Hlt). exists (a + (t + k * n) * W). split; [apply elem_of_seqZ; lia|].
      apply grid_elem; [nia|nia|]. split; [nia|].
      replace (a + (t + k * n) * W - (a + t * W)) with (k * (n * W)) by ring. by rewrite Z_mod_mult. }
  apply shared_interval.
  - intros t Ht. apply NoDup_bind; [apply grid_NoDup; nia|intros; apply NoDup_seqZ|].
    intros i i' j [Hi Hi0]%grid_elem [Hi' Hi0']%grid_elem; [|nia..]. rewrite !elem_of_seqZ. intros Hj Hj'.
    apply Z.div_exact in Hi0; [|nia]. apply Z.div_exact in Hi0'; [|nia].
    set (k := (i - (a + t * W)) / (n * W)) in *. set (k' := (i' - (a + t * W)) / (n * W)) in *.
    assert (Ei : i = a + (t + k * n) * W) by lia. assert (Ei' : i' = a + (t + k' * n) * W) by lia.
    rewrite Ei, Ei' in *. f_equal. f_equal. by apply (unit_unique a W _ _ j).
  - intros t t' j Ht Ht' (k & Hk & Hj & _)%Hchar (k' & Hk' & Hj' & _)%Hchar; [|done..].
    pose proof (unit_unique a W _ _ j HW Hj Hj') as E. by destruct (split_unique n t k t' k').
  - intros j. split.
    + intros (t & Ht & (k & Hk & Hj & Hlt)%Hchar); [|done]. apply Z.div_exact in Hmod; [|lia].
      assert (t + k * n < m / W) by nia. nia.
    + intros Hj. destruct (split_index ((j - a) / W) n) as (t & k & Ht & Hk & E); [done|apply Z.div_pos; lia|].
      exists t. split; [done|]. apply Hchar; [done|]. exists k. split; [done|]. rewrite <- E.
      pose proof (Z.div_mod (j - a) W ltac:(lia)). pose proof (Z.mod_pos_bound (j - a) W HW). nia.
Qed.

(** ** Addresses *)

Record params_ok (p : lupine_smemcpy_params) : Prop := ParamsOk {
  ok_source : is_u64 (source p);
  ok_destination : is_u64 (destination p);
  ok_offset : 0 <= logical_offset p;
  ok_bytes : 0 < bytes p;
  ok_end : logical_offset p + bytes p <= size_max;
  ok_width : 0 < width p;
  ok_rows : 0 < rows p }.

Lemma valid_params p : invalid_params p = false -> is_u64 (source p) -> is_u64 (destination p) ->
  is_u64 (logical_offset p) -> is_u64 (bytes p) -> is_u64 (width p) -> is_u64 (rows p) -> bytes p <> 0 ->
  params_ok p.
Proof.
  unfold invalid_params, is_u64. rewrite !orb_false_iff. intros ((((H1 & H2) & H3) & H4) & H5). intros.
  apply Z.eqb_neq in H1, H2. apply Z.ltb_ge in H4, H5. split; unfold is_u64; lia.
Qed.

(** Quotient and remainder of a sum with a multiple. *)
Lemma div_shift a q w : 0 < w -> (q * w + a) / w = q + a / w.
Proof. intros. rewrite Z.add_comm, Z_div_plus_full by lia. lia. Qed.

Section Rebase.
Context (p : lupine_smemcpy_params) (Hp : params_ok p).

Local Abbreviation W := (width p).
Local Abbreviation R := (rows p).
Local Abbreviation lo := (logical_offset p).

Definition first_row_index : Z := lo / W.
Definition first_x : Z := lo - first_row_index * W.
Definition first_slice : Z := first_row_index / R.
Definition last_slice : Z := (lo + bytes p - 1) / W / R.

Lemma first_x_bounds : 0 <= first_x < W.
Proof.
  destruct Hp. unfold first_x, first_row_index. pose proof (Z.div_mod lo W ltac:(lia)).
  pose proof (Z.mod_pos_bound lo W ltac:(lia)). lia.
Qed.

Lemma first_row_index_nonneg : 0 <= first_row_index.
Proof. destruct Hp. apply Z.div_pos; lia. Qed.

(** The coordinates of a byte relative to the first row. *)
Lemma row_index_from_first i : (lo + i) / W = first_row_index + (first_x + i) / W.
Proof.
  destruct Hp. replace (lo + i) with (first_row_index * W + (first_x + i)) by (unfold first_x; ring).
  by apply div_shift.
Qed.

Lemma rebase_2d i : first_slice = last_slice -> 0 <= i < bytes p ->
  row_address W (Params (wrap64 (destination p + first_slice * destination_slice_stride p +
      (first_row_index - first_slice * R) * destination_row_stride p)) (source p) first_x (bytes p) W R
      (destination_row_stride p) (destination_slice_stride p)) i =
  destination_at p (lo + i).
Proof.
  intros Hs Hi. destruct Hp as [_ _ Ho Hb He HW HR]. unfold row_address, destination_at. simpl.
  assert (Hslice : (lo + i) / W / R = first_slice).
  { apply Z.le_antisymm.
    - rewrite Hs. unfold last_slice. apply Z.div_le_mono; [lia|]. apply Z.div_le_mono; lia.
    - unfold first_slice, first_row_index. apply Z.div_le_mono; [lia|]. apply Z.div_le_mono; lia. }
  rewrite Hslice, row_index_from_first. set (q := (first_x + i) / W).
  rewrite <- Z.add_assoc, wrap64_wrap64_add. f_equal. unfold first_x. ring.
Qed.

Lemma rebase_3d i : 0 <= i ->
  destination_at (Params (wrap64 (destination p + first_slice * destination_slice_stride p)) (source p)
      (lo - first_slice * (W * R)) (bytes p) W R (destination_row_stride p) (destination_slice_stride p))
    (lo - first_slice * (W * R) + i) =
  destination_at p (lo + i).
Proof.
  intros Hi. destruct Hp as [_ _ Ho Hb He HW HR]. unfold destination_at. simpl.
  replace (lo + i) with ((first_slice * R) * W + (lo - first_slice * (W * R) + i)) by ring.
  set (l := lo - first_slice * (W * R) + i). rewrite div_shift, div_shift by lia. set (ri := l / W).
  rewrite <- !Z.add_assoc, wrap64_wrap64_add. f_equal. ring.
Qed.

(** Where slices follow one another like rows, one row index is enough. *)
Lemma regular_rows q i : destination_slice_stride q = destination_row_stride q * rows q ->
  row_address (width q) q i = destination_at q (logical_offset q + i).
Proof.
  intros E. unfold row_address, destination_at. simpl. rewrite E. f_equal. ring.
Qed.

Lemma rows_below_slices a : 0 <= a -> 0 <= a / W / R.
Proof. destruct Hp. intros. apply Z.div_pos; [apply Z.div_pos; lia|lia]. Qed.

(** A contiguous fragment. *)
Lemma contiguous_ok i : contiguous_destination p (W * R) = true -> 0 <= i < bytes p ->
  wrap64 (destination_at p lo + i) = destination_at p (lo + i).
Proof.
  intros Hc Hi. destruct Hp as [_ _ Ho Hb He HW HR]. unfold destination_at at 1. fold first_row_index.
  rewrite wrap64_wrap64_add. unfold destination_at. rewrite row_index_from_first.
  unfold contiguous_destination in Hc. fold first_row_index first_slice in Hc.
  replace (lo + bytes p - 1) with (lo + (bytes p - 1)) in Hc by ring.
  rewrite row_index_from_first in Hc. pose proof first_x_bounds as Hx.
  assert (Hmono : 0 <= (first_x + i) / W <= (first_x + (bytes p - 1)) / W).
  { split; [apply Z.div_pos; lia|]. apply Z.div_le_mono; lia. }
  set (q := (first_x + i) / W) in *. set (ql := (first_x + (bytes p - 1)) / W) in *.
  destruct (Z.eqb_spec first_row_index (first_row_index + ql)) as [Eq|_].
  { assert (q = 0) as -> by lia. rewrite Z.add_0_r. f_equal. ring. }
  destruct (Z.eqb_spec (destination_row_stride p) W) as [Er|_]; simpl in Hc; [|done]. rewrite Er.
  apply orb_true_iff in Hc as [Hc|Hc]; apply Z.eqb_eq in Hc.
  - assert (Hs : (first_row_index + q) / R = first_slice).
    { apply Z.le_antisymm; [rewrite Hc|unfold first_slice]; apply Z.div_le_mono; lia. }
    rewrite Hs. unfold first_slice. f_equal. ring.
  - rewrite Hc. f_equal. ring.
Qed.
End Rebase.

(** ** What the kernels write *)

Lemma land_pow2 x k : 0 <= k -> Z.land x (2 ^ k - 1) = x mod 2 ^ k.
Proof. intros. rewrite <- Z.land_ones by lia. by rewrite Z.ones_equiv, Z.sub_1_r. Qed.

Lemma wrap64_mod_pow2 x k : 0 <= k <= 64 -> wrap64 x mod 2 ^ k = x mod 2 ^ k.
Proof.
  intros Hk. unfold wrap64. replace (2 ^ 64) with (2 ^ (64 - k) * 2 ^ k).
  - rewrite (Z.mul_comm (2 ^ (64 - k))). pose proof (Z.pow_pos_nonneg 2 k ltac:(lia) ltac:(lia)).
    pose proof (Z.pow_pos_nonneg 2 (64 - k) ltac:(lia) ltac:(lia)). rewrite Z.rem_mul_r by lia.
    rewrite Z.mul_comm, Z_mod_plus_full. by apply Zmod_mod.
  - rewrite <- Z.pow_add_r by lia. f_equal. lia.
Qed.

Lemma source_prefix_bounds s b : 0 < b -> 0 <= source_prefix s b <= b /\ source_prefix s b <= 127.
Proof.
  intros Hb. unfold source_prefix, kSourceTransactionAlignment. simpl. change (128 - 1) with (2 ^ 7 - 1).
  rewrite (land_pow2 _ 7) by lia. pose proof (Z.mod_pos_bound (wrap64 (- s)) (2 ^ 7) ltac:(lia)).
  destruct (Z.ltb_spec (wrap64 (- s) mod 2 ^ 7) b); lia.
Qed.

Lemma source_prefix_aligns s b : source_prefix s b < b -> (s + source_prefix s b) mod 128 = 0.
Proof.
  unfold source_prefix, kSourceTransactionAlignment. change (128 - 1) with (2 ^ 7 - 1).
  rewrite (land_pow2 _ 7) by lia. rewrite (wrap64_mod_pow2 _ 7) by lia.
  destruct (Z.ltb_spec ((- s) mod 2 ^ 7) b); [|lia]. intros _. rewrite Zplus_mod_idemp_r.
  by replace (s + - s) with 0 by lia.
Qed.

Lemma bind_app_perm {A B} (f g : A -> list B) l : l ≫= (fun x => f x ++ g x) ≡ₚ (l ≫= f) ++ (l ≫= g).
Proof.
  induction l as [|x l IH]; simpl; [done|]. rewrite IH. rewrite <- !app_assoc. apply Permutation_app_head.
  rewrite !app_assoc. apply Permutation_app_tail. apply Permutation_app_comm.
Qed.

Lemma bind_ext {A B} (f g : A -> list B) l : (forall x, x ∈ l -> f x = g x) -> l ≫= f = l ≫= g.
Proof.
  induction l as [|x l IH]; intros H; csimpl; [done|]. rewrite H by (by left). f_equal. apply IH.
  intros y Hy. apply H. by right.
Qed.

Lemma fmap_bind {A B C} (f : B -> C) (g : A -> list B) l : f <$> (l ≫= g) = l ≫= (fun x => f <$> g x).
Proof. induction l as [|x l IH]; csimpl; [done|]. by rewrite fmap_app, IH. Qed.

Lemma bind_assoc {A B C} (f : A -> list B) (g : B -> list C) l : (l ≫= f) ≫= g = l ≫= (fun x => f x ≫= g).
Proof. induction l as [|x l IH]; csimpl; [done|]. by rewrite bind_app, IH. Qed.

Lemma bind_single {A B} (f : A -> B) l : l ≫= (fun x => [f x]) = f <$> l.
Proof. induction l as [|x l IH]; csimpl; [done|]. by rewrite IH. Qed.

(** Threads each of which writes the cells of its indices. *)
Lemma threads_write (cell : Z -> Z * byte) (body : Z -> list access) (idx : Z -> list Z) n m :
  (forall t, 0 <= t < n -> body t ≫= writes = cell <$> idx t) -> seqZ 0 n ≫= idx ≡ₚ seqZ 0 m ->
  (seqZ 0 n ≫= body) ≫= writes ≡ₚ cell <$> seqZ 0 m.
Proof.
  intros Hb Hi. rewrite bind_assoc.
  rewrite (bind_ext _ (fun t => cell <$> idx t)) by (intros t Ht%elem_of_seqZ; apply Hb; lia).
  rewrite <- fmap_bind. by apply fmap_Permutation.
Qed.

(** The prefix, and then a grid-stride loop over units of [W]. *)
Lemma prefix_then_words n W prefix m : 0 < n -> 0 < W -> 0 <= prefix <= n -> 0 <= m -> m mod W = 0 ->
  seqZ 0 n ≫= (fun t => (if t <? prefix then [t] else []) ++
                        (grid (prefix + t * W) (n * W) (prefix + m) ≫= fun i => seqZ i W)) ≡ₚ
  seqZ 0 (prefix + m).
Proof.
  intros Hn HW Hp Hm Hmod. rewrite bind_app_perm, prefix_shared, words_shared by lia.
  by rewrite seqZ_app by lia.
Qed.

Lemma seqZ_one i : seqZ i 1 = [i].
Proof. reflexivity. Qed.

Lemma prefix_then_loop n prefix limit : 0 < n -> 0 <= prefix <= n -> prefix <= limit ->
  seqZ 0 n ≫= (fun t => (if t <? prefix then [t] else []) ++ grid (prefix + t) n limit) ≡ₚ seqZ 0 limit.
Proof.
  intros Hn Hp Hl. pose proof (prefix_then_words n 1 prefix (limit - prefix) Hn ltac:(lia) Hp ltac:(lia)
    ltac:(apply Z.mod_1_r)) as H. replace (prefix + (limit - prefix)) with limit in H by lia. rewrite <- H.
  apply eq_subrelation; [apply _|]. apply bind_ext. intros t _. f_equal. rewrite !Z.mul_1_r.
  rewrite (bind_ext _ (fun i => [id i])) by (intros; apply seqZ_one). rewrite bind_single. by rewrite list_fmap_id.
Qed.

(** Items at distance [n]. *)
Lemma items_shared n Items a m : 0 < n -> 0 <= a -> 0 <= m <= n * Items ->
  seqZ 0 n ≫= (fun t => seqZ 0 Items ≫= fun item =>
                 if a + t + item * n <? a + m then [a + t + item * n] else []) ≡ₚ seqZ a m.
Proof.
  intros Hn Ha Hm.
  assert (Hchar : forall t j, j ∈ (seqZ 0 Items ≫= fun item =>
      if a + t + item * n <? a + m then [a + t + item * n] else []) <->
    exists k, 0 <= k < Items /\ j = a + t + k * n /\ j < a + m).
  { intros t j. rewrite list_elem_of_bind. split.
    - intros (k & Hj & Hk%elem_of_seqZ). exists k. destruct (Z.ltb_spec (a + t + k * n) (a + m));
        [apply list_elem_of_singleton in Hj; lia|by apply elem_of_nil in Hj].
    - intros (k & Hk & -> & Hlt). exists k. split; [|apply elem_of_seqZ; lia].
      destruct (Z.ltb_spec (a + t + k * n) (a + m)); [by apply list_elem_of_singleton|lia]. }
  apply shared_interval.
  - intros t Ht. apply NoDup_bind; [apply NoDup_seqZ| |].
    + intros k _. destruct (_ <? _); [apply NoDup_singleton|constructor].
    + intros k k' j _ _. destruct (_ <? _), (_ <? _); rewrite ?list_elem_of_singleton, ?elem_of_nil; try done.
      intros -> E. nia.
  - intros t t' j Ht Ht' (k & _ & Hj & _)%Hchar (k' & _ & Hj' & _)%Hchar.
    destruct (split_unique n t k t' k'); lia.
  - intros j. split.
    + intros (t & Ht & (k & Hk & -> & Hlt)%Hchar). nia.
    + intros Hj. destruct (split_index (j - a) n) as (t & k & Ht & Hk & E); [done|lia|].
      exists t. split; [done|]. apply Hchar. exists k. nia.
Qed.

(** *** Words *)

Section Words.
Context (k W : Z) (Hk : 0 <= k <= 7) (HW : W = 2 ^ k).

Lemma W_pos : 0 < W.
Proof. subst W. apply Z.pow_pos_nonneg; lia. Qed.

Lemma mask_zero x : (Z.land x (W - 1) =? 0) = true -> (W | x).
Proof.
  intros H%Z.eqb_eq. rewrite HW, land_pow2 in H by lia. apply Z.mod_divide; [|by rewrite HW].
  pose proof W_pos. lia.
Qed.

Lemma mask_congruent a b : (Z.land (Z.lxor a b) (W - 1) =? 0) = true -> (W | a - b).
Proof.
  intros H%Z.eqb_eq. pose proof W_pos.
  assert (E : Z.land a (W - 1) = Z.land b (W - 1)).
  { apply Z.lxor_eq. rewrite <- H. apply Z.bits_inj'. intros n Hn. rewrite !Z.lxor_spec, !Z.land_spec, Z.lxor_spec.
    by destruct (Z.testbit a n), (Z.testbit b n), (Z.testbit (W - 1) n). }
  rewrite HW, !land_pow2 in E by lia. rewrite <- HW in E.
  exists (a / W - b / W). pose proof (Z.div_mod a W ltac:(lia)). pose proof (Z.div_mod b W ltac:(lia)). lia.
Qed.

Lemma wrap64_divide x : (W | x) -> (W | wrap64 x).
Proof.
  intros Hx. pose proof W_pos. apply Z.mod_divide; [lia|]. rewrite HW, wrap64_mod_pow2 by lia.
  rewrite <- HW. apply Z.mod_divide; [lia|done].
Qed.

Context (p : lupine_smemcpy_params) (Hp : params_ok p).

(** The strides and the width of [p] are multiples of [W], and the source and the first
    destination are congruent. *)
Record vectorizable : Prop := Vectorizable {
  vec_width : (W | width p);
  vec_destination : (W | destination p);
  vec_row : (W | destination_row_stride p);
  vec_slice : (W | destination_slice_stride p);
  vec_source : (W | source p - destination_at p (logical_offset p)) }.

Lemma can_vectorize_sound : can_vectorize_pitched W p (destination_at p (logical_offset p)) = true -> vectorizable.
Proof.
  unfold can_vectorize_pitched. rewrite !andb_true_iff. intros ((((H1 & H2) & H3) & H4) & H5).
  split; try by apply mask_zero. by apply mask_congruent.
Qed.

Context (Hv : vectorizable).

(** The offset in a row of an address is its offset in the copy, up to multiples of [W]. *)
Lemma destination_congruent l : (W | l - destination_at p l).
Proof.
  destruct Hv as [V1 V2 V3 V4 _]. apply Z.divide_opp_r. replace (- (l - destination_at p l)) with (destination_at p l - l) by lia.
  assert (H : (W | destination_at p l - l - 0)); [|by rewrite Z.sub_0_r in H].
  unfold destination_at. set (ri := l / width p). set (sl := ri / rows p).
  set (e := destination p + sl * destination_slice_stride p + (ri - sl * rows p) * destination_row_stride p +
            (l - ri * width p)).
  assert (He : (W | e - l)).
  { unfold e. replace (_ - l) with (destination p + sl * destination_slice_stride p +
      (ri - sl * rows p) * destination_row_stride p + - ri * width p) by ring.
    repeat apply Z.divide_add_r; try done; by apply Z.divide_mul_r. }
  rewrite Z.sub_0_r. unfold wrap64. pose proof (Z.div_mod e (2 ^ 64) ltac:(lia)) as E.
  replace (e mod 2 ^ 64 - l) with (e - l + 2 ^ 64 * - (e / 2 ^ 64)) by lia.
  apply Z.divide_add_r; [done|]. apply Z.divide_mul_l. exists (2 ^ (64 - k)). rewrite HW, <- Z.pow_add_r by lia.
  f_equal. lia.
Qed.

(** After the prefix, whole words of the source go to whole words of rows. *)
Lemma word_offset index q : source_prefix (source p) (bytes p) < bytes p ->
  index = source_prefix (source p) (bytes p) + q * W ->
  (W | logical_offset p + index) /\ (W | source p + index).
Proof.
  intros Hlt ->. pose proof (source_prefix_aligns _ _ Hlt) as Ha. set (x := source_prefix _ _) in *.
  assert (Hs : (W | source p + x)).
  { apply Z.divide_trans with 128; [|by apply Z.mod_divide]. exists (2 ^ (7 - k)).
    rewrite HW, <- Z.pow_add_r by lia. by replace (7 - k + k) with 7 by lia. }
  assert (Hl : (W | source p - logical_offset p)).
  { replace (source p - logical_offset p) with ((source p - destination_at p (logical_offset p)) -
      (logical_offset p - destination_at p (logical_offset p))) by lia.
    apply Z.divide_sub_r; [apply Hv|apply destination_congruent]. }
  split.
  - replace (logical_offset p + (x + q * W)) with (source p + x - (source p - logical_offset p) + q * W) by ring.
    apply Z.divide_add_r; [by apply Z.divide_sub_r|by exists q].
  - replace (source p + (x + q * W)) with (source p + x + q * W) by ring.
    apply Z.divide_add_r; [done|by exists q].
Qed.

Lemma word_in_row l x : (W | l) -> 0 <= l -> 0 <= x < W ->
  wrap64 (destination_at p l + x) = destination_at p (l + x).
Proof.
  intros [a ->] Hl Hx. destruct Hv as [[b Eb] _ _ _ _]. pose proof W_pos.
  assert (Hb : 0 < b) by (destruct Hp; nia).
  assert (E : (a * W + x) / width p = a * W / width p).
  { rewrite Eb, (Z.mul_comm b W), <- !Z.div_div by lia. f_equal. rewrite Z.div_mul by lia.
    rewrite div_shift by lia. rewrite (Z.div_small x W) by lia. lia. }
  unfold destination_at. rewrite E, wrap64_wrap64_add. f_equal. ring.
Qed.
End Words.

(** *** Each kernel *)

Section Writes.
Context (memory : Z -> byte).

Local Abbreviation load := (load memory).

Lemma Forall_bind_each {A B} (P : B -> Prop) (f : A -> list B) l : (forall x, x ∈ l -> Forall P (f x)) ->
  Forall P (l ≫= f).
Proof.
  intros H. apply Forall_forall. intros y (x & Hy & Hx)%list_elem_of_bind. specialize (H x Hx).
  rewrite Forall_forall in H. by apply H.
Qed.

Lemma imap_aligned (f : nat -> Z) vs :
  Forall (fun x => aligned x = true) (imap (fun x v => StoreByte (f x) v) vs).
Proof.
  revert f. induction vs as [|v vs IH]; intros f; simpl; constructor; [done|]. apply (IH (fun x => f (S x))).
Qed.

(** The bytes of a fragment and the addresses a kernel gives them. *)
Definition cells (address : Z -> Z) (p : lupine_smemcpy_params) : list (Z * byte) :=
  (fun i => (address i, load p i)) <$> seqZ 0 (bytes p).

(** What the copy is to write. *)
Definition scatter (p : lupine_smemcpy_params) : list (Z * byte) :=
  cells (fun i => destination_at p (logical_offset p + i)) p.

Lemma put_seqZ a f i W : put a (f <$> seqZ i W) = (fun j => (wrap64 (a + (j - i)), f j)) <$> seqZ i W.
Proof.
  unfold put. apply list_eq. intros n. rewrite list_lookup_imap, !list_lookup_fmap.
  destruct (seqZ i W !! n) as [j|] eqn:E; [|done]. apply lookup_seqZ in E as [-> _]. simpl.
  do 3 f_equal. lia.
Qed.

Lemma if_single (b : bool) (x : access) (c : Z * byte) : writes x = [c] ->
  (if b then [x] else []) ≫= writes = if b then [c] else [].
Proof. intros H. destruct b; [|done]. simpl. by rewrite H. Qed.

Lemma if_cell (b : bool) (f : Z -> Z * byte) i : f <$> (if b then [i] else []) = if b then [f i] else [].
Proof. by destruct b. Qed.

Lemma fmap_writes (st : Z -> access) (f : Z -> Z * byte) l : (forall i, i ∈ l -> writes (st i) = [f i]) ->
  (st <$> l) ≫= writes = f <$> l.
Proof.
  intros H. rewrite list_fmap_bind, <- bind_single. apply bind_ext. intros i Hi. by apply H.
Qed.

(** The kernels that store byte by byte in a grid-stride loop. *)
Lemma byte_loop_writes (st : Z -> access) address p n : 256 <= n -> params_ok p ->
  (forall i, writes (st i) = [(address i, load p i)]) ->
  let prefix := source_prefix (source p) (bytes p) in
  (seqZ 0 n ≫= fun t => (if t <? prefix then [st t] else []) ++ (st <$> grid (prefix + t) n (bytes p)))
    ≫= writes ≡ₚ cells address p.
Proof.
  intros Hn Hp Hst prefix. pose proof (source_prefix_bounds (source p) (bytes p) (ok_bytes _ Hp)) as Hpre.
  fold prefix in Hpre. apply (threads_write (fun i => (address i, load p i)) _
    (fun t => (if t <? prefix then [t] else []) ++ grid (prefix + t) n (bytes p))).
  - intros t Ht. rewrite bind_app, fmap_app, if_cell, (if_single _ _ (address t, load p t)) by done.
    f_equal. by apply fmap_writes.
  - apply prefix_then_loop; lia.
Qed.

Lemma smemcpy_3d_writes p n : 256 <= n -> params_ok p ->
  (seqZ 0 n ≫= smemcpy_3d_body memory p n) ≫= writes ≡ₚ
  cells (fun i => destination_at p (logical_offset p + i)) p.
Proof. intros Hn Hp. by apply (byte_loop_writes (scatter_byte memory p)). Qed.

Lemma smemcpy_2d_writes p n : 256 <= n -> params_ok p ->
  (seqZ 0 n ≫= smemcpy_2d_body memory p n) ≫= writes ≡ₚ cells (row_address (width p) p) p.
Proof. intros Hn Hp. by apply (byte_loop_writes (scatter_2d_byte memory p)). Qed.

(** Every lane of a warp is in one group. *)
Lemma staggered_once g lane s : g = 4 \/ g = 8 \/ g = 16 -> 0 <= lane < 32 -> staggered g lane s = s.
Proof.
  intros Hg Hl. assert (Hin : lane ∈ seqZ 0 32) by (apply elem_of_seqZ; lia). revert lane Hin Hl.
  assert (H : Forall (fun lane => staggered g lane s = s) (seqZ 0 32)).
  { unfold staggered. destruct Hg as [-> |[-> | ->]]; (let l := eval vm_compute in (seqZ 0 32) in change (seqZ 0 32) with l);
      (let l := eval vm_compute in (grid 0 4 warpSize) in change (grid 0 4 warpSize) with l);
      (let l := eval vm_compute in (grid 0 8 warpSize) in change (grid 0 8 warpSize) with l);
      (let l := eval vm_compute in (grid 0 16 warpSize) in change (grid 0 16 warpSize) with l);
      repeat (constructor; [simpl; by rewrite ?app_nil_r|]); constructor. }
  rewrite Forall_forall in H. intros lane Hin _. by apply H.
Qed.

Lemma lane_bounds t : 0 <= (t mod kThreadsPerBlock) mod warpSize < 32.
Proof. apply Z.mod_pos_bound. done. Qed.

Lemma narrow_writes store W Items address p n : 256 <= n -> params_ok p ->
  (forall i v, writes (store i v) = [(address i, v)]) -> bytes p <= n * Items ->
  (seqZ 0 n ≫= narrow_body memory store W Items p n) ≫= writes ≡ₚ cells address p.
Proof.
  intros Hn Hp Hst Hcap. pose proof (source_prefix_bounds (source p) (bytes p) (ok_bytes _ Hp)) as Hpre.
  set (prefix := source_prefix (source p) (bytes p)) in *.
  apply (threads_write (fun i => (address i, load p i)) _
    (fun t => (if t <? prefix then [t] else []) ++
              (seqZ 0 Items ≫= fun item => if prefix + t + item * n <? prefix + (bytes p - prefix)
                                           then [prefix + t + item * n] else []))).
  - intros t Ht. unfold narrow_body. fold prefix.
    rewrite bind_app, fmap_app, if_cell, (if_single _ _ (address t, load p t)) by done. f_equal.
    rewrite bind_assoc, fmap_bind. apply bind_ext. intros item _. rewrite if_cell.
    replace (prefix + (bytes p - prefix)) with (bytes p) by lia.
    rewrite staggered_once by (destruct (W =? 1); auto using lane_bounds). by case_match; apply if_single.
  - rewrite bind_app_perm, prefix_shared, items_shared by nia. rewrite <- seqZ_app by lia.
    by replace (prefix + (bytes p - prefix)) with (bytes p) by lia.
Qed.

Lemma smemcpy_pitched_writes k W p n : 1 <= k <= 4 -> W = 2 ^ k -> 256 <= n -> params_ok p -> vectorizable W p ->
  (seqZ 0 n ≫= smemcpy_pitched_vector_body memory W p n) ≫= writes ≡ₚ
    cells (fun i => destination_at p (logical_offset p + i)) p /\
  Forall (fun x => aligned x = true) (seqZ 0 n ≫= smemcpy_pitched_vector_body memory W p n).
Proof.
  intros Hk HW Hn Hp Hv. pose proof (source_prefix_bounds (source p) (bytes p) (ok_bytes _ Hp)) as Hpre.
  pose proof (W_pos k W ltac:(lia) HW) as HW0. assert (HW16 : W <= 16).
  { rewrite HW. change 16 with (2 ^ 4). apply Z.pow_le_mono_r; lia. }
  set (prefix := source_prefix (source p) (bytes p)) in *.
  assert (Hu : is_u64 (bytes p - prefix)) by (destruct Hp; unfold is_u64, size_max in *; lia).
  set (bulk := mask_down (bytes p - prefix) W).
  assert (Eb : bulk = bytes p - prefix - (bytes p - prefix) mod W)
    by (unfold bulk; rewrite HW, mask_down_pow2; [done|done|lia]).
  pose proof (Z.mod_pos_bound (bytes p - prefix) W HW0) as Hm.
  pose proof (Z.div_mod (bytes p - prefix) W ltac:(lia)) as Hdm.
  assert (Hb0 : 0 <= bulk). { rewrite Eb. pose proof (Z.mod_le (bytes p - prefix) W). lia. }
  assert (Hbm : bulk mod W = 0).
  { replace bulk with ((bytes p - prefix) / W * W) by lia. by apply Z_mod_mult. }
  assert (Hword : forall t i, i ∈ grid (prefix + t * W) (n * W) (prefix + bulk) -> 0 <= t ->
    0 <= i /\ (W | logical_offset p + i) /\ (W | source p + i)).
  { intros t i Hin Ht. apply grid_elem in Hin as [Hi Hi0]; [|nia|nia]. split; [nia|].
    apply Z.div_exact in Hi0; [|nia]. eapply (word_offset k W); try done; [lia|fold prefix; lia|].
    fold prefix. instantiate (1 := t + n * ((i - (prefix + t * W)) / (n * W))). lia. }
  split.
  - apply (threads_write (fun i => (destination_at p (logical_offset p + i), load p i)) _
      (fun t => (if t <? prefix then [t] else []) ++
                ((grid (prefix + t * W) (n * W) (prefix + bulk) ≫= fun i => seqZ i W) ++
                 if t <? bytes p - prefix - bulk then [prefix + bulk + t] else []))).
    + intros t Ht. unfold smemcpy_pitched_vector_body. fold prefix bulk.
      rewrite !bind_app, !fmap_app, !if_cell. f_equal; [by apply if_single|]. f_equal; [|by apply if_single].
      rewrite list_fmap_bind, fmap_bind. apply bind_ext. intros i Hi. simpl. rewrite put_seqZ.
      destruct (Hword t i Hi) as (Hi0 & Hl & _); [lia|]. apply list_fmap_ext. intros q j Hj.
      apply lookup_seqZ in Hj as [-> Hj]. f_equal.
      rewrite (word_in_row k W) by (try done; try lia; destruct Hp; lia). f_equal. lia.
    + rewrite bind_app_perm, prefix_shared, bind_app_perm, words_shared, tail_shared by lia.
      rewrite <- seqZ_app by lia. rewrite <- seqZ_app by lia.
      by replace (prefix + (bulk + (bytes p - prefix - bulk))) with (bytes p) by lia.
  - apply Forall_forall. intros x (t & Hx & Ht%elem_of_seqZ)%list_elem_of_bind.
    unfold smemcpy_pitched_vector_body in Hx. fold prefix bulk in Hx.
    apply elem_of_app in Hx as [Hx|[Hx|Hx]%elem_of_app].
    1,3: by destruct (_ <? _); [apply list_elem_of_singleton in Hx as ->|apply elem_of_nil in Hx].
    apply list_elem_of_fmap in Hx as (i & -> & Hi). destruct (Hword t i Hi) as (Hi0 & Hl & Hs); [lia|].
    simpl. rewrite length_fmap, length_seqZ, Z2Nat.id by lia. apply andb_true_iff. split; apply Z.eqb_eq.
    + apply Z.mod_divide; [lia|]. pose proof (destination_congruent k W ltac:(lia) HW p Hv (logical_offset p + i)) as Hc.
      replace (destination_at p (logical_offset p + i)) with
        (logical_offset p + i - (logical_offset p + i - destination_at p (logical_offset p + i))) by lia.
      by apply Z.divide_sub_r.
    + apply Z.mod_divide; [lia|]. by apply (wrap64_divide k W ltac:(lia) HW).
Qed.

Lemma rows_flatten W R : 0 <= R -> 0 <= W -> seqZ 0 R ≫= (fun r => seqZ (r * W) W) = seqZ 0 (R * W).
Proof.
  intros HR HW. pattern R. apply natlike_ind; [done| |done]. clear R HR. intros R HR IH.
  rewrite <- Z.add_1_r, seqZ_app, bind_app, IH by lia. rewrite Z.add_0_l, seqZ_one. csimpl.
  rewrite app_nil_r. replace ((R + 1) * W) with (R * W + W) by ring. by rewrite seqZ_app by nia.
Qed.

Lemma rows_shared n W R : 0 < n -> 0 <= R -> 0 <= W ->
  (seqZ 0 n ≫= fun t => grid t n R) ≫= (fun r => seqZ (r * W) W) ≡ₚ seqZ 0 (R * W).
Proof.
  intros Hn HR HW. rewrite <- rows_flatten by done. apply bind_Permutation.
  rewrite <- (prefix_then_loop n 0 R) by lia. apply eq_subrelation; [apply _|]. apply bind_ext.
  intros t Ht%elem_of_seqZ. destruct (Z.ltb_spec t 0); [lia|done].
Qed.

(** *** Compare-and-swap *)

Section Atomic.
Context (off g : Z) (p : lupine_smemcpy_params) (n : Z).
Context (Hg : g = 4 \/ g = 8 \/ g = 16) (Hn : 256 <= n) (Hp : params_ok p).

Lemma cas_put a vs : is_u64 a -> put (wrap64 (a - off) + off) vs = put a vs.
Proof.
  intros Ha. unfold put. apply imap_ext. intros j v _. f_equal.
  rewrite <- Z.add_assoc, wrap64_wrap64_add. f_equal. lia.
Qed.

Lemma put_one a v : is_u64 a -> put a [v] = [(a, v)].
Proof. intros Ha. unfold put. simpl. by rewrite Z.add_0_r, wrap64_id. Qed.

Lemma atomic_byte_writes a b v : is_u64 a -> writes (atomic_store_byte off a b v) = [(a, v)].
Proof.
  intros Ha. unfold atomic_store_byte. destruct (_ && _); [done|]. simpl. by rewrite cas_put, put_one.
Qed.

Lemma imap_store_writes a vs : imap (fun x v => StoreByte (wrap64 (a + Z.of_nat x)) v) vs ≫= writes = put a vs.
Proof.
  unfold put. cut (forall (f : nat -> Z), imap (fun x v => StoreByte (f x) v) vs ≫= writes =
    imap (fun x v => (f x, v)) vs); [intros H; apply (H (fun x => wrap64 (a + Z.of_nat x)))|].
  induction vs as [|v vs IH]; intros f; simpl; [done|]. f_equal. apply (IH (fun x => f (S x))).
Qed.

Lemma atomic_row_writes a b vs : is_u64 a -> atomic_store_row off a b vs ≫= writes = put a vs.
Proof.
  intros Ha. unfold atomic_store_row. destruct (_ && _); [apply imap_store_writes|]. simpl.
  by rewrite cas_put, app_nil_r.
Qed.

Lemma cas_aligned a vs : (4 | a - off) -> aligned (Cas (wrap64 (a - off)) off vs) = true.
Proof.
  intros Ha. simpl. apply Z.eqb_eq, Z.mod_divide; [lia|]. by apply (wrap64_divide 2 4 ltac:(lia) eq_refl).
Qed.

(** Rows of one byte. *)
Lemma smemcpy_atomic_2d_writes :
  (seqZ 0 n ≫= smemcpy_atomic_narrow_2d_body memory off g p n) ≫= writes ≡ₚ cells (row_address 1 p) p.
Proof.
  pose proof (source_prefix_bounds (source p) (bytes p) (ok_bytes _ Hp)) as Hpre.
  set (prefix := source_prefix (source p) (bytes p)) in *.
  assert (Hst : forall i (b : bool), writes (if b then scatter_narrow_store 1 p i (load p i)
      else scatter_atomic_2d_store off p i (load p i)) = [(row_address 1 p i, load p i)]).
  { intros i b. destruct b; [done|]. unfold scatter_atomic_2d_store.
    rewrite atomic_byte_writes by apply wrap64_range. do 2 f_equal. unfold row_address. rewrite Z.div_1_r. f_equal. lia. }
  apply (threads_write (fun i => (row_address 1 p i, load p i)) _
    (fun t => (if t <? prefix then [t] else []) ++ grid (prefix + t) n (bytes p))).
  - intros t Ht. unfold smemcpy_atomic_narrow_2d_body. fold prefix.
    rewrite bind_app, fmap_app, if_cell, (if_single _ _ (row_address 1 p t, load p t)) by apply Hst. f_equal.
    rewrite bind_assoc, <- bind_single. apply bind_ext. intros i _.
    rewrite staggered_once by (done || apply lane_bounds).
    transitivity (writes (if i + 1 =? bytes p then scatter_narrow_store 1 p i (load p i)
      else scatter_atomic_2d_store off p i (load p i))); [|apply Hst].
    destruct (_ =? _); simpl; by rewrite ?app_nil_r.
  - apply prefix_then_loop; lia.
Qed.

(** Whole rows of two or three bytes. *)
Lemma smemcpy_atomic_rows_writes W : 0 < W -> logical_offset p mod W = 0 -> bytes p mod W = 0 ->
  (seqZ 0 n ≫= smemcpy_atomic_rows_body memory W off g p n) ≫= writes ≡ₚ cells (row_address W p) p.
Proof.
  intros HW Ho Hb. apply Z.div_exact in Ho; [|lia]. apply Z.div_exact in Hb as Hb'; [|lia].
  apply (threads_write (fun i => (row_address W p i, load p i)) _
    (fun t => grid t n (bytes p / W) ≫= fun r => seqZ (r * W) W)).
  - intros t Ht. unfold smemcpy_atomic_rows_body. rewrite bind_assoc, fmap_bind.
    apply bind_ext. intros r Hr. rewrite staggered_once by (done || apply lane_bounds).
    set (out := wrap64 _). transitivity (put out (load p <$> seqZ (r * W) W)).
    + destruct (_ =? _); [apply imap_store_writes|apply atomic_row_writes, wrap64_range].
    + rewrite put_seqZ. apply list_fmap_ext. intros q j Hj. apply lookup_seqZ in Hj as [-> Hj]. f_equal.
      unfold out, row_address. rewrite wrap64_wrap64_add. set (L := logical_offset p / W) in *.
      assert (Eq : (logical_offset p + (r * W + Z.of_nat q)) / W = L + r).
      { rewrite Ho. replace (W * L + (r * W + Z.of_nat q)) with ((L + r) * W + Z.of_nat q) by ring.
        rewrite div_shift, Z.div_small by lia. lia. }
      rewrite Eq. f_equal. rewrite Ho. ring.
  - rewrite <- bind_assoc. rewrite (rows_shared n) by (try lia; apply Z.div_pos; destruct Hp; lia).
    rewrite Hb' at 2. by rewrite Z.mul_comm.
Qed.

Context (Hoff : (4 | destination p - off)) (Hstride : (4 | destination_row_stride p)).

Lemma row_congruent r : (4 | wrap64 (destination p + r * destination_row_stride p) - off).
Proof.
  set (e := destination p + r * destination_row_stride p).
  assert (He : (4 | e - off)).
  { unfold e. replace (_ - off) with (destination p - off + r * destination_row_stride p) by ring.
    apply Z.divide_add_r; [done|by apply Z.divide_mul_r]. }
  unfold wrap64. pose proof (Z.div_mod e (2 ^ 64) ltac:(lia)).
  replace (e mod 2 ^ 64 - off) with (e - off + 2 ^ 64 * - (e / 2 ^ 64)) by lia.
  apply Z.divide_add_r; [done|]. apply Z.divide_mul_l. by exists (2 ^ 62).
Qed.

Lemma atomic_2d_aligned :
  Forall (fun x => aligned x = true) (seqZ 0 n ≫= smemcpy_atomic_narrow_2d_body memory off g p n).
Proof.
  assert (Hst : forall i v, aligned (scatter_atomic_2d_store off p i v) = true).
  { intros i v. unfold scatter_atomic_2d_store, atomic_store_byte. destruct (_ && _); [done|].
    apply cas_aligned, row_congruent. }
  apply Forall_bind_each. intros t Ht. unfold smemcpy_atomic_narrow_2d_body. apply Forall_app. split.
  - destruct (_ <? _); constructor; [|done]. by destruct (_ =? _).
  - apply Forall_bind_each. intros i _. rewrite staggered_once by (done || apply lane_bounds).
    destruct (_ =? _); by repeat constructor.
Qed.

Lemma atomic_rows_aligned W :
  Forall (fun x => aligned x = true) (seqZ 0 n ≫= smemcpy_atomic_rows_body memory W off g p n).
Proof.
  apply Forall_bind_each. intros t Ht. unfold smemcpy_atomic_rows_body. apply Forall_bind_each. intros r _.
  cbv zeta. rewrite staggered_once by (done || apply lane_bounds).
  destruct (_ =? _); [apply imap_aligned|]. unfold atomic_store_row.
  destruct (_ && _); [apply imap_aligned|]. constructor; [|done]. apply cas_aligned, row_congruent.
Qed.
End Atomic.

(** The other kernels store bytes only. *)
Lemma byte_loop_aligned (st : Z -> access) p n prefix : (forall i, aligned (st i) = true) ->
  Forall (fun x => aligned x = true)
    (seqZ 0 n ≫= fun t => (if t <? prefix then [st t] else []) ++ (st <$> grid (prefix + t) n (bytes p))).
Proof.
  intros Hst. apply Forall_bind_each. intros t _. apply Forall_app. split.
  - destruct (_ <? _); by repeat constructor.
  - apply Forall_fmap, Forall_true. intros i. apply Hst.
Qed.

Lemma narrow_aligned store W Items p n : (forall i v, aligned (store i v) = true) ->
  Forall (fun x => aligned x = true) (seqZ 0 n ≫= narrow_body memory store W Items p n).
Proof.
  intros Hst. apply Forall_bind_each. intros t _. unfold narrow_body. apply Forall_app. split.
  - destruct (_ <? _); by repeat constructor.
  - apply Forall_bind_each. intros i _.
    rewrite staggered_once by (destruct (W =? 1); auto using lane_bounds).
    destruct (_ || _), (_ <? _); by repeat constructor.
Qed.
End Writes.

(** Projections of a launch. *)
Ltac fields := cbn [params use_cuda_memcpy kernel blocks threads word_bytes l_width items byte_offset group_threads
  set_atomic_launch set_narrow_launch set_pitched_vector_launch plain_launch with_params].

(** ** Launches *)

Section Launches.
Context (memory : Z -> byte).

(** A launch that writes what the copy is to write, with no access that traps. *)
Definition good_launch (l : lupine_smemcpy_launch_descriptor) (p : lupine_smemcpy_params) : Prop :=
  exists accesses, lupine_smemcpy_async memory l = Some accesses /\
    accesses ≫= writes ≡ₚ scatter memory p /\ Forall (fun x => aligned x = true) accesses.

Lemma good_kernel l k p : use_cuda_memcpy l = false -> 1 <= blocks l -> runtime_kernel memory l = Some k ->
  (seqZ 0 (blocks l * threads l) ≫= k (params l) (blocks l * threads l)) ≫= writes ≡ₚ scatter memory p ->
  Forall (fun x => aligned x = true) (seqZ 0 (blocks l * threads l) ≫= k (params l) (blocks l * threads l)) ->
  good_launch l p.
Proof.
  intros Hu Hb Hk Hw Ha. unfold good_launch, lupine_smemcpy_async. rewrite Hu.
  destruct (Z.eqb_spec (blocks l) 0); [lia|]. rewrite Hk. simpl. by eexists.
Qed.

Lemma blocks_for_pos b i : 1 <= blocks_for b i.
Proof. unfold blocks_for, kMaximumBlocks. lia. Qed.

(** The limit on the size of the grid does not cut a copy of this size off. *)
Lemma blocks_for_enough b i : 0 <= b <= kMaximumBlocks * kThreadsPerBlock -> 1 <= i ->
  b <= blocks_for b i * kThreadsPerBlock * i.
Proof.
  intros Hb Hi. unfold blocks_for, kMaximumBlocks, kThreadsPerBlock in *. set (w := 256 * i).
  pose proof (Z.div_mod b w ltac:(lia)) as E. pose proof (Z.mod_pos_bound b w ltac:(lia)).
  assert (b / w <= 65535) by (apply Z.div_le_upper_bound; nia).
  destruct (Z.eqb_spec (b mod w) 0) as [E0|]; [|destruct (decide (b / w = 65535))]; nia.
Qed.

(** *** Names *)

Lemma find_pitched W : W ∈ [2; 4; 8; 16] ->
  find_kernel ("lupine_smemcpy_pitched_" +:+ pretty W) (kKernels memory) =
  Some (smemcpy_pitched_vector_body memory W).
Proof. rewrite !elem_of_cons. by intros [->|[->|[->|[->|[]%elem_of_nil]]]]. Qed.

Lemma find_narrow (is_3d : bool) W Items : W ∈ [1; 2; 3] -> Items ∈ [1; 4] ->
  find_kernel ((if is_3d then "lupine_smemcpy_narrow_3d_" else "lupine_smemcpy_narrow_2d_") +:+ pretty W +:+ "_" +:+
               pretty Items) (kKernels memory) =
  Some (if is_3d then smemcpy_narrow_3d_body memory W Items else smemcpy_narrow_2d_body memory W Items).
Proof.
  rewrite !elem_of_cons. intros [->|[->|[->|[]%elem_of_nil]]] [->|[->|[]%elem_of_nil]]; by destruct is_3d.
Qed.

Lemma find_atomic_2d off g : off ∈ [0; 1; 2; 3] -> g ∈ [4; 8; 16] ->
  find_kernel ("lupine_smemcpy_atomic_2d_" +:+ pretty off +:+ "_" +:+ pretty g) (kKernels memory) =
  Some (smemcpy_atomic_narrow_2d_body memory off g).
Proof.
  rewrite !elem_of_cons. intros [->|[->|[->|[->|[]%elem_of_nil]]]] [->|[->|[->|[]%elem_of_nil]]]; reflexivity.
Qed.

Lemma find_atomic_rows W off g : W ∈ [2; 3] -> off ∈ [0; 1; 2; 3] -> off + W <= 4 -> g ∈ [4; 8; 16] ->
  find_kernel ("lupine_smemcpy_atomic_rows_" +:+ pretty W +:+ "_" +:+ pretty off +:+ "_" +:+ pretty g)
    (kKernels memory) = Some (smemcpy_atomic_rows_body memory W off g).
Proof.
  rewrite !elem_of_cons. intros [->|[->|[]%elem_of_nil]] [->|[->|[->|[->|[]%elem_of_nil]]]] H
    [->|[->|[->|[]%elem_of_nil]]]; try lia; reflexivity.
Qed.

Lemma runtime_kernel_find l : use_cuda_memcpy l = false -> 1 <= blocks l ->
  runtime_kernel memory l = find_kernel (kernel_string l) (kKernels memory).
Proof.
  intros Hu Hb. unfold runtime_kernel, lupine_smemcpy_kernel_name. rewrite Hu.
  destruct (Z.eqb_spec (blocks l) 0); [lia|done].
Qed.

(** *** The kernels chosen *)

Lemma narrow_widths W : 0 < W -> (W <=? 3) = true -> W ∈ [1; 2; 3].
Proof. intros H H'%Z.leb_le. assert (W = 1 \/ W = 2 \/ W = 3) as [->|[->| ->]] by lia; set_solver. Qed.

Lemma atomic_group_sizes t w st : atomic_group_threads t w st <> 0 ->
  atomic_group_threads t w st ∈ [4; 8; 16] /\ (4 | st).
Proof.
  unfold atomic_group_threads. destruct (st <? 64) eqn:E1; [done|]. destruct (512 <? st) eqn:E2; [done|].
  destruct (Z.land st (st - 1) =? 0) eqn:E3; [|done]. simpl. apply Z.ltb_ge in E1. apply Z.eqb_eq in E3.
  intros Hn. split.
  - destruct t; repeat case_match; set_solver.
  - destruct (land_pred_pow2 st ltac:(lia) E3) as (k & Hk & ->).
    assert (2 <= k). { destruct (Z_le_gt_dec 2 k); [done|]. assert (k = 0 \/ k = 1) as [->| ->] by lia; simpl in E1; lia. }
    exists (2 ^ (k - 2)). change 4 with (2 ^ 2). rewrite <- Z.pow_add_r by lia. f_equal. lia.
Qed.

(** What makes the atomic path right for the rebased parameters [q]. *)
Record atomic_ok (off g : Z) (q : lupine_smemcpy_params) : Prop := AtomicOk {
  at_group : g ∈ [4; 8; 16];
  at_offset : off ∈ [0; 1; 2; 3];
  at_fits : off + width q <= 4;
  at_rows : logical_offset q mod width q = 0;
  at_bytes : bytes q mod width q = 0;
  at_destination : (4 | destination q - off);
  at_stride : (4 | destination_row_stride q) }.

Lemma atomic_launch_good off g l p : let q := params l in
  use_cuda_memcpy l = false -> threads l = kThreadsPerBlock -> params_ok q -> width q <= 3 -> atomic_ok off g q ->
  cells memory (row_address (width q) q) q = scatter memory p ->
  good_launch (set_atomic_launch l (width q) off g) p.
Proof.
  intros q Hu Ht Hq Hw3 [A1 A2 A3 A4 A5 A6 A7] E. pose proof (blocks_for_pos (bytes q) (width q)) as Hb.
  assert (Hn : 256 <= blocks_for (bytes q) (width q) * threads l) by (rewrite Ht; unfold kThreadsPerBlock; lia).
  assert (Hg : g = 4 \/ g = 8 \/ g = 16) by set_solver.
  assert (HW : width q ∈ [1; 2; 3]) by (apply narrow_widths; [apply Hq|by apply Z.leb_le]).
  destruct (Z.eqb_spec (width q) 1) as [E1|E1].
  - apply (good_kernel _ (smemcpy_atomic_narrow_2d_body memory off g)); [exact Hu|exact Hb| | |]; fields.
    + rewrite runtime_kernel_find by done. unfold kernel_string. fields. rewrite E1, Z.eqb_refl.
      by apply find_atomic_2d.
    + fold q. rewrite <- E. rewrite E1. apply smemcpy_atomic_2d_writes; try done. by rewrite <- E1.
    + fold q. by apply atomic_2d_aligned.
  - apply (good_kernel _ (smemcpy_atomic_rows_body memory (width q) off g)); [exact Hu|exact Hb| | |]; fields.
    + rewrite runtime_kernel_find by done. unfold kernel_string. fields.
      destruct (Z.eqb_spec (width q) 1); [done|]. apply find_atomic_rows; try done. set_solver.
    + fold q. rewrite <- E. apply smemcpy_atomic_rows_writes; try done. apply Hq.
    + fold q. by apply atomic_rows_aligned.
Qed.

Lemma narrow_launch_good (is_3d lat : bool) l p : let q := params l in
  let Items := if lat then kNarrowItemsPerThread else 1 in
  use_cuda_memcpy l = false -> threads l = kThreadsPerBlock -> params_ok q -> width q <= 3 ->
  bytes q <= kMaximumBlocks * kThreadsPerBlock ->
  cells memory (if is_3d then fun i => destination_at q (logical_offset q + i) else row_address (width q) q) q =
    scatter memory p ->
  good_launch (set_narrow_launch l is_3d (width q) Items) p.
Proof.
  intros q Items Hu Ht Hq Hw3 Hlim E. pose proof (blocks_for_pos (bytes q) Items) as Hb.
  assert (HI : Items ∈ [1; 4]) by (unfold Items, kNarrowItemsPerThread; destruct lat; set_solver).
  assert (Hn : 256 <= blocks_for (bytes q) Items * threads l) by (rewrite Ht; unfold kThreadsPerBlock; lia).
  assert (HW : width q ∈ [1; 2; 3]) by (apply narrow_widths; [apply Hq|by apply Z.leb_le]).
  assert (Hcap : bytes q <= blocks_for (bytes q) Items * threads l * Items).
  { rewrite Ht. apply blocks_for_enough; [destruct Hq; lia|]. set_solver by lia. }
  apply (good_kernel _ (if is_3d then smemcpy_narrow_3d_body memory (width q) Items
                          else smemcpy_narrow_2d_body memory (width q) Items)); [exact Hu|exact Hb| | |]; fields.
  - rewrite runtime_kernel_find by done. unfold kernel_string. fields. etransitivity; [|by apply (find_narrow is_3d (width q) Items)].
    by destruct is_3d.
  - fold q. rewrite <- E. destruct is_3d; by apply narrow_writes.
  - fold q. destruct is_3d; by apply narrow_aligned.
Qed.

Lemma plain_launch_good (is_3d : bool) l p : let q := params l in
  use_cuda_memcpy l = false -> threads l = kThreadsPerBlock -> params_ok q ->
  cells memory (if is_3d then fun i => destination_at q (logical_offset q + i) else row_address (width q) q) q =
    scatter memory p ->
  good_launch (plain_launch (if is_3d then KERNEL_3D else KERNEL_2D) l) p.
Proof.
  intros q Hu Ht Hq E. pose proof (blocks_for_pos (bytes q) 1) as Hb.
  assert (Hn : 256 <= blocks_for (bytes q) 1 * threads l) by (rewrite Ht; unfold kThreadsPerBlock; lia).
  apply (good_kernel _ (if is_3d then smemcpy_3d_body memory else smemcpy_2d_body memory)); [exact Hu|exact Hb| | |]; fields.
  - rewrite runtime_kernel_find by done. unfold kernel_string. fields. by destruct is_3d.
  - fold q. rewrite <- E. destruct is_3d; [by apply smemcpy_3d_writes|by apply smemcpy_2d_writes].
  - fold q. destruct is_3d; by apply byte_loop_aligned.
Qed.

Lemma pitched_launch_good W k l : let q := params l in
  use_cuda_memcpy l = false -> threads l = kThreadsPerBlock -> params_ok q -> 1 <= k <= 4 -> W = 2 ^ k ->
  can_vectorize_pitched W q (destination_at q (logical_offset q)) = true ->
  good_launch (set_pitched_vector_launch W l) q.
Proof.
  intros q Hu Ht Hq Hk HW Hc. pose proof (blocks_for_pos (bytes q) W) as Hb.
  assert (Hn : 256 <= blocks_for (bytes q) W * threads l) by (rewrite Ht; unfold kThreadsPerBlock; lia).
  pose proof (can_vectorize_sound k W ltac:(lia) HW q Hc) as Hv.
  destruct (smemcpy_pitched_writes memory k W q (blocks_for (bytes q) W * threads l) Hk HW Hn Hq Hv) as [H1 H2].
  apply (good_kernel _ (smemcpy_pitched_vector_body memory W)); [exact Hu|exact Hb| |exact H1|exact H2].
  rewrite runtime_kernel_find by done. unfold kernel_string. fields. apply find_pitched.
  assert (k = 1 \/ k = 2 \/ k = 3 \/ k = 4) as [->|[->|[->| ->]]] by lia; subst W; set_solver.
Qed.

Lemma select_vector_good l vector : let q := params l in
  use_cuda_memcpy l = false -> threads l = kThreadsPerBlock -> params_ok q ->
  select_pitched_vector_launch l (destination_at q (logical_offset q)) = Some vector -> good_launch vector q.
Proof.
  intros q Hu Ht Hq. unfold select_pitched_vector_launch. fold q.
  destruct (can_vectorize_pitched 16 _ _) eqn:E16; [intros [= <-]; by apply (pitched_launch_good 16 4)|].
  destruct (can_vectorize_pitched 8 _ _) eqn:E8; [intros [= <-]; by apply (pitched_launch_good 8 3)|].
  destruct (can_vectorize_pitched 4 _ _) eqn:E4; [intros [= <-]; by apply (pitched_launch_good 4 2)|].
  destruct (can_vectorize_pitched 2 _ _) eqn:E2; [intros [= <-]; by apply (pitched_launch_good 2 1)|done].
Qed.

(** *** The dispatcher *)

Lemma cells_scatter address q p : source q = source p -> bytes q = bytes p ->
  (forall i, 0 <= i < bytes p -> address i = destination_at p (logical_offset p + i)) ->
  cells memory address q = scatter memory p.
Proof.
  intros Es Eb H. unfold scatter, cells, load. rewrite Es, Eb. apply list_fmap_ext. intros n i Hi.
  apply lookup_seqZ in Hi as [-> Hi]. f_equal. apply H. lia.
Qed.

Lemma narrow_or_good l p (is_3d lat : bool) fd at_ : let q := params l in
  use_cuda_memcpy l = false -> threads l = kThreadsPerBlock -> params_ok q -> width q = width p ->
  bytes q <= kMaximumBlocks * kThreadsPerBlock ->
  cells memory (if is_3d then fun i => destination_at q (logical_offset q + i) else row_address (width q) q) q =
    scatter memory p ->
  (at_ <> 0 -> atomic_ok (Z.land fd 3) at_ q /\ cells memory (row_address (width q) q) q = scatter memory p) ->
  good_launch (narrow_or l p is_3d fd at_ lat (if is_3d then KERNEL_3D else KERNEL_2D)) p.
Proof.
  intros q Hu Ht Hq Ew Hlim E Hat. unfold narrow_or. rewrite <- Ew.
  destruct (Z.leb_spec (width q) 3); [|by apply plain_launch_good].
  destruct (Z.eqb_spec at_ 0) as [->|Hn]; simpl.
  - by apply narrow_launch_good.
  - destruct (Hat Hn). by apply atomic_launch_good.
Qed.

(** Multiples of four keep the place of a row in its word. *)
Lemma row_offset x r st : (4 | st) -> (4 | x - Z.land (wrap64 (x + r * st)) 3).
Proof.
  intros Hst. change 3 with (2 ^ 2 - 1). rewrite land_pow2, wrap64_mod_pow2 by lia. change (2 ^ 2) with 4.
  pose proof (Z.div_mod (x + r * st) 4 ltac:(lia)).
  replace (x - (x + r * st) mod 4) with (4 * ((x + r * st) / 4) - r * st) by lia.
  apply Z.divide_sub_r; [by apply Z.divide_factor_l|by apply Z.divide_mul_r].
Qed.

Lemma land_3 x : Z.land x 3 ∈ [0; 1; 2; 3].
Proof.
  change 3 with (2 ^ 2 - 1) at 1. rewrite land_pow2 by lia. pose proof (Z.mod_pos_bound x (2 ^ 2) ltac:(lia)).
  change (2 ^ 2) with 4 in *. assert (x mod 4 = 0 \/ x mod 4 = 1 \/ x mod 4 = 2 \/ x mod 4 = 3) by lia. set_solver.
Qed.

(** When the atomic path is taken. *)
Lemma atomic_threads_sound p device fd fs ls : atomic_threads_for p device fd fs ls <> 0 ->
  atomic_threads_for p device fd fs ls ∈ [4; 8; 16] /\ (4 | destination_row_stride p) /\
  Z.land fd 3 + width p <= 4 /\ logical_offset p mod width p = 0 /\ bytes p mod width p = 0 /\
  (fs = ls \/ destination_slice_stride p = destination_row_stride p * rows p).
Proof.
  unfold atomic_threads_for. destruct (width p <=? 3) eqn:Ew; [|by destruct (_ && _)].
  set (g := atomic_group_threads _ _ _). destruct (Z.eqb_spec g 0) as [Eg|Eg]; [rewrite Eg; by destruct (_ && _)|].
  destruct (rows_fit_atomic_word p fd) eqn:Ef; simpl; [|done].
  destruct (Z.eqb_spec g 0) as [|_]; [done|]. simpl. unfold rows_fit_atomic_word in Ef.
  rewrite !andb_true_iff in Ef. destruct Ef as ((_ & E1 & E2) & E3).
  apply Z.eqb_eq in E1, E2. apply Z.leb_le in E3. destruct (atomic_group_sizes _ _ _ Eg) as [Hs Hd].
  destruct (Z.eqb_spec fs ls) as [|Hne]; simpl; [intros _; repeat split; auto|].
  destruct (_ && (destination_slice_stride p =? _)) eqn:Er; simpl; [|done]. intros _.
  apply andb_true_iff in Er as [_ Er%Z.eqb_eq]. repeat split; auto.
Qed.

(** The parameters for a fragment in one slice. *)
Definition rebased_2d (p : lupine_smemcpy_params) : lupine_smemcpy_params :=
  Params (wrap64 (destination p + first_slice p * destination_slice_stride p +
                  (first_row_index p - first_slice p * rows p) * destination_row_stride p))
    (source p) (first_x p) (bytes p) (width p) (rows p) (destination_row_stride p) (destination_slice_stride p).

(** The parameters from the first slice on. *)
Definition rebased_3d (p : lupine_smemcpy_params) : lupine_smemcpy_params :=
  Params (wrap64 (destination p + first_slice p * destination_slice_stride p)) (source p)
    (logical_offset p - first_slice p * (width p * rows p)) (bytes p) (width p) (rows p)
    (destination_row_stride p) (destination_slice_stride p).

Lemma slices_before p : params_ok p -> 0 <= first_slice p * (width p * rows p) <= logical_offset p.
Proof.
  intros [_ _ Ho _ _ HW HR]. unfold first_slice, first_row_index.
  pose proof (Z.mul_div_le (logical_offset p) (width p) HW).
  pose proof (Z.mul_div_le (logical_offset p / width p) (rows p) HR).
  pose proof (Z.div_pos (logical_offset p) (width p) Ho HW). pose proof (Z.div_pos (logical_offset p / width p) (rows p) ltac:(lia) HR).
  nia.
Qed.

Lemma rebased_2d_ok p : params_ok p -> params_ok (rebased_2d p).
Proof.
  intros Hp. pose proof (first_x_bounds p Hp). pose proof Hp as [H1 H2 Ho Hb He HW HR].
  split; simpl; try done; [apply wrap64_range|lia|].
  assert (first_x p <= logical_offset p); [|lia]. unfold first_x.
  pose proof (first_row_index_nonneg p Hp). nia.
Qed.

Lemma rebased_3d_ok p : params_ok p -> params_ok (rebased_3d p).
Proof.
  intros Hp. pose proof (slices_before p Hp). pose proof Hp as [H1 H2 Ho Hb He HW HR].
  split; simpl; try done; [apply wrap64_range|lia|lia].
Qed.

Lemma first_x_mod p : params_ok p -> first_x p = logical_offset p mod width p.
Proof. intros [_ _ _ _ _ HW _]. unfold first_x, first_row_index. rewrite Z.mod_eq by lia. ring. Qed.

Lemma atomic_2d_ok p device ls : params_ok p ->
  let fd := destination_at p (logical_offset p) in
  let g := atomic_threads_for p device fd (first_slice p) ls in
  g <> 0 -> atomic_ok (Z.land fd 3) g (rebased_2d p).
Proof.
  intros Hp fd g Hg. destruct (atomic_threads_sound _ _ _ _ _ Hg) as (G1 & G2 & G3 & G4 & G5 & _).
  split; simpl; try done; [apply land_3| |].
  - rewrite first_x_mod by done. by rewrite Zmod_mod.
  - unfold fd. assert (E : destination_at p (logical_offset p) = destination (rebased_2d p)).
    { simpl. unfold destination_at. fold (first_row_index p) (first_slice p) (first_x p).
      rewrite first_x_mod by done. by rewrite G4, Z.add_0_r. }
    rewrite E. simpl. set (x := wrap64 _). replace x with (wrap64 (x + 0 * destination_row_stride p)) at 2.
    + by apply row_offset.
    + rewrite Z.mul_0_l, Z.add_0_r. unfold x. apply wrap64_id, wrap64_range.
Qed.

Lemma atomic_3d_ok p device ls : params_ok p ->
  let fd := destination_at p (logical_offset p) in
  let g := atomic_threads_for p device fd (first_slice p) ls in
  g <> 0 -> atomic_ok (Z.land fd 3) g (rebased_3d p).
Proof.
  intros Hp fd g Hg. destruct (atomic_threads_sound _ _ _ _ _ Hg) as (G1 & G2 & G3 & G4 & G5 & _).
  pose proof (ok_width _ Hp) as HW. split; simpl; try done; [apply land_3| |].
  - replace (logical_offset p - first_slice p * (width p * rows p)) with
      (logical_offset p + (- first_slice p * rows p) * width p) by ring. by rewrite Z_mod_plus_full.
  - set (x := wrap64 _). assert (E : fd = wrap64 (x + (first_row_index p - first_slice p * rows p) * destination_row_stride p)).
    { unfold fd, destination_at, x. fold (first_row_index p) (first_slice p) (first_x p).
      rewrite first_x_mod by done. rewrite G4, Z.add_0_r. by rewrite wrap64_wrap64_add. }
    rewrite E. by apply row_offset.
Qed.

Lemma rebased_3d_first p : is_u64 (destination p) -> first_slice p = 0 -> rebased_3d p = p.
Proof.
  intros Hd E. unfold rebased_3d. rewrite E. destruct p; simpl in *. by rewrite Z.mul_0_l, Z.add_0_r, Z.sub_0_r, wrap64_id.
Qed.

Lemma contiguous_good p k b t w lw it bo g : params_ok p -> contiguous_destination p (width p * rows p) = true ->
  good_launch (Launch (Params (destination_at p (logical_offset p)) (source p) 0 (bytes p) (width p) (rows p)
    (destination_row_stride p) (destination_slice_stride p)) true k b t w lw it bo g) p.
Proof.
  intros Hp Hc. eexists. split; [reflexivity|]. split.
  - apply eq_subrelation; [apply _|]. etransitivity; [apply fmap_writes; intros i _; reflexivity|].
    unfold scatter, cells, load. simpl. apply list_fmap_ext. intros n i Hi. apply lookup_seqZ in Hi as [-> Hi].
    f_equal. by apply contiguous_ok; [..|lia].
  - apply Forall_fmap, Forall_true. done.
Qed.
End Launches.

(** The contiguous case is the only one that is left to [cuMemcpyAsync]. *)
Lemma contiguous_params p device l :
  lupine_smemcpy_prepare_descriptor p device = Some l -> use_cuda_memcpy l = true ->
  params l = Params (destination_at p (logical_offset p)) (source p) 0 (bytes p) (width p) (rows p)
    (destination_row_stride p) (destination_slice_stride p).
Proof.
  unfold lupine_smemcpy_prepare_descriptor, narrow_or, select_pitched_vector_launch.
  repeat case_match; simplify_eq; intros [= <-]; try done.
Qed.

(** What the dispatcher prepares is good. *)
Lemma prepared_good (memory : Z -> byte) p device l :
  is_u64 (source p) -> is_u64 (destination p) -> is_u64 (logical_offset p) -> is_u64 (bytes p) ->
  is_u64 (width p) -> is_u64 (rows p) -> bytes p <> 0 -> bytes p <= kMaximumBlocks * kThreadsPerBlock ->
  lupine_smemcpy_prepare_descriptor p device = Some l -> good_launch memory l p.
Proof.
  intros H_source H_destination H_offset H_bytes H_width H_rows H_some H_limit.
  unfold lupine_smemcpy_prepare_descriptor. destruct (invalid_params p) eqn:Ei; [done|].
  pose proof (valid_params p Ei H_source H_destination H_offset H_bytes H_width H_rows H_some) as Hp.
  destruct (Z.eqb_spec (bytes p) 0) as [|_]; [done|].
  destruct (contiguous_destination _ _) eqn:Ec; [intros [= <-]; by apply contiguous_good|].
  fold (first_row_index p) (first_slice p) (first_x p) (last_slice p).
  set (fd := destination_at p (logical_offset p)). set (at_ := atomic_threads_for _ _ _ _ _).
  set (lat := (width p <=? 3) && _). set (launch := Launch p false KERNEL_3D 0 kThreadsPerBlock 0 0 0 0 0).
  destruct (if (at_ =? 0) && negb lat then select_pitched_vector_launch launch fd else None) as [v|] eqn:Ev.
  { intros [= <-]. destruct ((at_ =? 0) && negb lat); [|done]. by apply (select_vector_good memory launch). }
  destruct (Z.eqb_spec (first_slice p) (last_slice p)) as [Es|Es]; intros [= <-].
  - assert (E : cells memory (row_address (width p) (rebased_2d p)) (rebased_2d p) = scatter memory p).
    { apply cells_scatter; try done. intros i Hi. by apply rebase_2d. }
    apply (narrow_or_good memory (with_params (rebased_2d p) launch) p false); try done.
    + by apply rebased_2d_ok.
    + intros Hg. split; [by apply atomic_2d_ok|done].
  - assert (Eq : (if negb (first_slice p =? 0) then rebased_3d p else p) = rebased_3d p).
    { destruct (Z.eqb_spec (first_slice p) 0); [by rewrite rebased_3d_first|done]. }
    fold (rebased_3d p). rewrite Eq.
    assert (E : cells memory (fun i => destination_at (rebased_3d p) (logical_offset (rebased_3d p) + i)) (rebased_3d p) =
      scatter memory p) by (apply cells_scatter; try done; intros i Hi; apply rebase_3d; [done|lia]).
    apply (narrow_or_good memory (with_params (rebased_3d p) launch) p true); try done.
    + by apply rebased_3d_ok.
    + intros Hg. split; [by apply atomic_3d_ok|]. rewrite <- E.
      destruct (atomic_threads_sound memory _ _ _ _ _ Hg) as (_ & _ & _ & _ & _ & [|Hreg]); [done|].
      unfold cells. apply list_fmap_ext. intros n i _. f_equal. by apply regular_rows.
Qed.

(** C21: Whatever the shape, the alignment and the device, a launch that the dispatcher prepares
    names an exported kernel, and its threads together write every byte of the fragment once,
    to the address its row, slice and column have in the destination, and nothing else; no
    word they access is misaligned.  The fragment is at most as large as a grid of single
    bytes. *)
Theorem smemcpy_launch_scatters (memory : Z -> byte) (p : lupine_smemcpy_params)
  (device : option lupine_smemcpy_device) (l : lupine_smemcpy_launch_descriptor)
  (H_source : is_u64 (source p)) (H_destination : is_u64 (destination p))
  (H_offset : is_u64 (logical_offset p)) (H_bytes : is_u64 (bytes p)) (H_width : is_u64 (width p))
  (H_rows : is_u64 (rows p)) (H_some : bytes p <> 0) (H_limit : bytes p <= kMaximumBlocks * kThreadsPerBlock)
  (H_launch : lupine_smemcpy_prepare_descriptor p device = Some l) :
  exists accesses, lupine_smemcpy_async memory l = Some accesses /\
    accesses ≫= writes ≡ₚ scatter memory p /\ Forall (fun x => aligned x = true) accesses.
Proof. by apply (prepared_good memory p device l). Qed.

(** Rows of two bytes, from the middle of a row to the middle of another, on a device that
    stores rows with compare-and-swap where it can. *)
Definition sample_params : lupine_smemcpy_params := Params 4096 8193 1 4 2 3 64 192.

Lemma smemcpy_launch_scatters_witness :
  exists l, lupine_smemcpy_prepare_descriptor sample_params (Some (Device 7 5 false)) = Some l /\
    exists accesses, lupine_smemcpy_async (fun a => a mod 256) l = Some accesses /\
      accesses ≫= writes ≡ₚ [(4097, 1); (4160, 2); (4161, 3); (4224, 4)].
Proof.
  destruct (lupine_smemcpy_prepare_descriptor sample_params (Some (Device 7 5 false))) as [l|] eqn:E;
    [|by vm_compute in E].
  exists l. split; [done|].
  destruct (smemcpy_launch_scatters (fun a => a mod 256) sample_params (Some (Device 7 5 false)) l) as (accs & H1 & H2 & _);
    [unfold is_u64; simpl; lia..|done|unfold kMaximumBlocks, kThreadsPerBlock; simpl; lia|exact E|].
  exists accs. split; [exact H1|exact H2].
Defined.

(** One more row of one byte than a grid has threads. *)
Definition long_params : lupine_smemcpy_params :=
  Params 4096 8192 0 (kMaximumBlocks * kThreadsPerBlock + 1) 1 (2 ^ 32) 3 (2 ^ 34).

Lemma long_launch : lupine_smemcpy_prepare_descriptor long_params None =
  Some (Launch long_params false KERNEL_NARROW_2D 65535 256 0 1 1 0 0).
Proof. vm_compute. reflexivity. Qed.

(** The kernels for rows of at most three bytes have no loop, and the grid has at most
    65535 blocks: of a longer copy they leave bytes out. *)
Theorem smemcpy_narrow_leaves_bytes_out (memory : Z -> byte) :
  exists l accesses, lupine_smemcpy_prepare_descriptor long_params None = Some l /\
    lupine_smemcpy_async memory l = Some accesses /\
    exists cell, cell ∈ scatter memory long_params /\ cell ∉ accesses ≫= writes.
Proof.
  set (k := smemcpy_narrow_2d_body memory 1 1). set (n := 65535 * 256).
  eexists _, (seqZ 0 n ≫= k long_params n). split; [exact long_launch|]. split.
  { unfold lupine_smemcpy_async. rewrite runtime_kernel_find by done. unfold kernel_string. fields.
    rewrite (find_narrow memory false 1 1) by set_solver. reflexivity. }
  exists (destination_at long_params n, load memory long_params n). split.
  { unfold scatter, cells. apply list_elem_of_fmap. exists n. split; [done|]. apply elem_of_seqZ. simpl.
    unfold kMaximumBlocks, kThreadsPerBlock, n. lia. }
  intros (x & Hx & Hin)%list_elem_of_bind. apply list_elem_of_bind in Hin as (t & Hin & Ht%elem_of_seqZ).
  assert (Hst : x = scatter_narrow_store 1 long_params t (load memory long_params t)).
  { unfold k, smemcpy_narrow_2d_body, narrow_body in Hin. apply elem_of_app in Hin as [Hin|Hin].
    - destruct (_ <? _); [by apply list_elem_of_singleton in Hin|by apply elem_of_nil in Hin].
    - apply list_elem_of_bind in Hin as (item & Hin & Hi%elem_of_seqZ). assert (item = 0) as -> by lia. simpl in Hin.
      destruct (_ <? _); [|by apply elem_of_nil in Hin]. apply list_elem_of_singleton in Hin. rewrite Hin.
      by rewrite !Z.add_0_r. }
  assert (En : destination_at long_params n = 4096 + 3 * n) by (vm_compute; reflexivity).
  subst x. simpl in Hx. apply list_elem_of_singleton in Hx. rewrite En in Hx. injection Hx as Ha _. revert Ha.
  unfold row_address. rewrite Z.div_1_r. simpl. unfold n in *.
  rewrite wrap64_id by (unfold is_u64; lia). lia.
Qed.
