(* ===== verification/Htod.v ===== *)
(** * Host-to-device copies

    [cuda_server_memcpy.cpp]: a copy from client memory is cut into fragments that fit a
    staging ring ([lupine_htod_copy::fragment]).  For each fragment a callback on the ring's
    stream fetches the bytes from the client ([lupine_htod_side_effect_ring::fetch]), laying
    over them the device-to-host copies that have run but have not been delivered yet, and
    the fragment is then copied or scattered to the destination
    ([lupine_enqueue_htod_fragment], [Smemcpy]).  A linear copy of pageable memory instead
    comes with the request ([lupine_copy_pushed_host_to_device]).

    Memory is a function of the address; driver calls take their results from a list. *)
From S2P Require Import Prelude DtohPipe Smemcpy.

(** ** Copies and fragments *)

Record lupine_htod_fragment := Fragment {
  f_offset : Z;
  f_bytes : Z;
  f_x : Z;
  f_row : Z;
  f_slice : Z;
  f_width : Z;
  f_rows : Z;
  f_slices : Z }.

(** [None] for [destination_array] is a null pointer; the level of detail of an array is passed
    through. *)
Record lupine_htod_copy := Copy {
  c_source : Z;
  source_row_stride : Z;
  source_slice_stride : Z;
  c_slices : Z;
  c_bytes : Z;
  c_use_cuda_memcpy : bool;
  destination_array : option Z;
  destination_x : Z;
  destination_y : Z;
  destination_z : Z;
  smemcpy : lupine_smemcpy_params }.

(** The row, the column in it and so on of a byte of the packed copy. *)
Definition row_index_of (c : lupine_htod_copy) (logical : Z) : Z := logical / width (smemcpy c).
Definition x_of (c : lupine_htod_copy) (logical : Z) : Z := logical - row_index_of c logical * width (smemcpy c).
Definition slice_of (c : lupine_htod_copy) (logical : Z) : Z := row_index_of c logical / rows (smemcpy c).
Definition row_of (c : lupine_htod_copy) (logical : Z) : Z :=
  row_index_of c logical - slice_of c logical * rows (smemcpy c).

Definition fragment (c : lupine_htod_copy) (offset capacity : Z) : lupine_htod_fragment :=
  let w := width (smemcpy c) in
  let h := rows (smemcpy c) in
  let x := x_of c offset in
  let row := row_of c offset in
  let slice := slice_of c offset in
  if negb (c_use_cuda_memcpy c) then Fragment offset (Z.min capacity (c_bytes c - offset)) x row slice 0 0 0
  else if negb (x =? 0) || (capacity <? w) then
    let n := Z.min (Z.min capacity (w - x)) (c_bytes c - offset) in
    Fragment offset n x row slice n 1 1
  else
    let rows_per_fragment := capacity / w in
    if negb (row =? 0) || (rows_per_fragment <? h) then
      let n := Z.min rows_per_fragment (h - row) in
      Fragment offset (w * n) x row slice w n 1
    else
      let slice_bytes := w * h in
      let n := Z.min (capacity / slice_bytes) (c_slices c - slice) in
      Fragment offset (slice_bytes * n) x row slice w h n.

(** [lupine_htod_side_effect_ring]. *)
Definition fragment_bytes : Z := 8 * 1024 * 1024.
Definition storage_headroom : Z := 15.
Definition storage_bytes : Z := mask_down (fragment_bytes + storage_headroom + 127) 128.

Definition ring_offset (c : lupine_htod_copy) (logical_offset : Z) : Z :=
  match destination_array c with
  | None => Z.land (destination_at (smemcpy c) logical_offset) 15
  | Some _ => 0
  end.

Definition lupine_make_linear_htod_copy (destination source bytes : Z) : lupine_htod_copy :=
  Copy source bytes bytes 1 bytes true None 0 0 0 (Params destination 0 0 0 bytes 1 bytes bytes).

(** The fields of [CUDA_MEMCPY3D] with a host source; [dstArray] is given when
    [dstMemoryType] is [CU_MEMORYTYPE_ARRAY]. *)
Record CUDA_MEMCPY3D := Memcpy3D {
  srcXInBytes : Z; srcY : Z; srcZ : Z; srcHost : Z; srcPitch : Z; srcHeight : Z;
  dstXInBytes : Z; dstY : Z; dstZ : Z; dstDevice : Z; dstArray : option Z; dstPitch : Z; dstHeight : Z;
  WidthInBytes : Z; Height : Z; Depth : Z }.

Definition lupine_make_3d_htod_copy (o : CUDA_MEMCPY3D) : lupine_htod_copy :=
  let bytes := wrap64 (WidthInBytes o * Height o * Depth o) in
  if bytes =? 0 then Copy 0 0 0 0 0 false None 0 0 0 (Params 0 0 0 0 0 0 0 0)
  else
    let slice_stride := wrap64 (srcHeight o * srcPitch o) in
    let source := wrap64 (srcHost o + srcZ o * slice_stride + srcY o * srcPitch o + srcXInBytes o) in
    match dstArray o with
    | Some array =>
        Copy source (srcPitch o) slice_stride (Depth o) bytes true (Some array) (dstXInBytes o) (dstY o) (dstZ o)
          (Params 0 0 0 0 (WidthInBytes o) (Height o) (WidthInBytes o) (wrap64 (WidthInBytes o * Height o)))
    | None =>
        Copy source (srcPitch o) slice_stride (Depth o) bytes false None 0 0 0
          (Params (wrap64 (dstDevice o + dstZ o * dstHeight o * dstPitch o + dstY o * dstPitch o + dstXInBytes o))
             0 0 0 (WidthInBytes o) (Height o) (dstPitch o) (wrap64 (dstPitch o * dstHeight o)))
    end.

(** ** Undelivered device-to-host copies *)

(** [lupine_host_rows] of [rpc.h]. *)
Record lupine_host_rows := HostRows {
  dst : Z;
  r_width : Z;
  height : Z;
  pitch : Z;
  depth : Z;
  slice : Z }.

Definition row (r : lupine_host_rows) (index : Z) : Z :=
  dst r + index / height r * slice r + index mod height r * pitch r.

(** [lupine_undelivered_dtoh]; the dense bytes at [server_src]. *)
Record lupine_undelivered_dtoh := Undelivered {
  u_conn : Z;
  u_client : lupine_host_rows;
  server_src : Z -> byte }.

Definition blit (at_ n : Z) (bytes : Z -> byte) (m : Z -> byte) : Z -> byte :=
  fun a => if (at_ <=? a) && (a <? at_ + n) then bytes (a - at_) else m a.

(** The address in client memory of a byte of the copy. *)
Definition source_at (c : lupine_htod_copy) (logical : Z) : Z :=
  c_source c + slice_of c logical * source_slice_stride c + row_of c logical * source_row_stride c + x_of c logical.

(** The rows of an undelivered copy against a run of [chunk] bytes from [begin], which the ring
    has from [at_] on. *)
Fixpoint overlay_rows (u : lupine_undelivered_dtoh) (at_ begin chunk : Z) (indices : list Z)
    (acc : (Z -> byte) * Z) : (Z -> byte) * Z :=
  match indices with
  | [] => acc
  | index :: indices =>
      let r := row (u_client u) index in
      let lo := Z.max begin r in
      let hi := Z.min (begin + chunk) (r + r_width (u_client u)) in
      overlay_rows u at_ begin chunk indices
        (if lo <? hi
         then (blit (at_ + (lo - begin)) (hi - lo)
                 (fun j => server_src u (index * r_width (u_client u) + (lo - r) + j)) acc.1,
               acc.2 + (hi - lo))
         else acc)
  end.

(** The loop over the rows of the fragment; each turn takes at least a byte. *)
Fixpoint overlay_chunks (fuel : nat) (c : lupine_htod_copy) (f : lupine_htod_fragment)
    (u : lupine_undelivered_dtoh) (offset remaining : Z) (acc : (Z -> byte) * Z) : (Z -> byte) * Z :=
  match fuel with
  | O => acc
  | S fuel =>
      if remaining =? 0 then acc
      else
        let chunk := Z.min remaining (width (smemcpy c) - x_of c offset) in
        overlay_chunks fuel c f u (offset + chunk) (remaining - chunk)
          (overlay_rows u (offset - f_offset f) (source_at c offset) chunk
             (seqZ 0 (height (u_client u) * depth (u_client u))) acc)
  end.

(** The ring after the overlays, and whether one of them covered the fragment. *)
Fixpoint lupine_overlay_undelivered_dtoh (conn : Z) (c : lupine_htod_copy) (f : lupine_htod_fragment)
    (list_ : list lupine_undelivered_dtoh) (ring : Z -> byte) : (Z -> byte) * bool :=
  match list_ with
  | [] => (ring, false)
  | u :: list_ =>
      if negb (u_conn u =? conn) then lupine_overlay_undelivered_dtoh conn c f list_ ring
      else
        let '(ring, covered_bytes) :=
          overlay_chunks (Z.to_nat (f_bytes f)) c f u (f_offset f) (f_bytes f) (ring, 0) in
        let '(ring, covered) := lupine_overlay_undelivered_dtoh conn c f list_ ring in
        (ring, (covered_bytes =? f_bytes f) || covered)
  end.

(** The client's side of [LUPINE_SIDE_EFFECT_READ_HOST_MEMORY]: the payload of the answer. *)
Fixpoint read_host_memory (fuel : nat) (c : lupine_htod_copy) (client : Z -> byte) (offset remaining : Z)
    : list byte :=
  match fuel with
  | O => []
  | S fuel =>
      if remaining =? 0 then []
      else
        let chunk := Z.min remaining (width (smemcpy c) - x_of c offset) in
        ((fun j => client (source_at c offset + j)) <$> seqZ 0 chunk) ++
        read_host_memory fuel c client (offset + chunk) (remaining - chunk)
  end.

(** [answered] is whether the request and the answer went through; an answer that breaks off after
    some of its bytes is not told from one that does not come. *)
Definition fetch (conn : Z) (c : lupine_htod_copy) (f : lupine_htod_fragment)
    (undelivered : list lupine_undelivered_dtoh) (client : Z -> byte) (answered : bool) (ring : Z -> byte)
    : Z * (Z -> byte) :=
  let '(ring, covered) := lupine_overlay_undelivered_dtoh conn c f undelivered ring in
  if covered then (0, ring)
  else if negb answered then (-1, ring)
  else
    let payload := read_host_memory (Z.to_nat (f_bytes f)) c client (f_offset f) (f_bytes f) in
    let ring := blit 0 (f_bytes f) (fun j => nth (Z.to_nat j) payload 0) ring in
    (0, (lupine_overlay_undelivered_dtoh conn c f undelivered ring).1).

(** ** Delivery

    [lupine_read_deferred_rows] of [cuda_client_memcpy.cpp]: what the client does with an
    undelivered copy when it gets it. *)

Definition rows_blit (u : lupine_undelivered_dtoh) (indices : list Z) (m : Z -> byte) : Z -> byte :=
  foldl (fun m index => blit (row (u_client u) index) (r_width (u_client u))
                          (fun j => server_src u (index * r_width (u_client u) + j)) m) m indices.

Definition lupine_read_deferred_rows (u : lupine_undelivered_dtoh) (m : Z -> byte) : Z -> byte :=
  let r := u_client u in
  if (r_width r =? 0) || (height r =? 0) || (depth r =? 0) then m
  else if ((height r =? 1) && (depth r =? 1)) || ((depth r =? 1) && (pitch r =? r_width r)) ||
          ((pitch r =? r_width r) && (slice r =? height r * pitch r))
  then blit (dst r) (r_width r * height r * depth r) (server_src u) m
  else rows_blit u (seqZ 0 (height r * depth r)) m.

(** The undelivered copies of a connection, in the order they ran. *)
Definition deliver (conn : Z) (list_ : list lupine_undelivered_dtoh) (m : Z -> byte) : Z -> byte :=
  foldl (fun m u => if u_conn u =? conn then lupine_read_deferred_rows u m else m) m list_.

Record rows_ok (r : lupine_host_rows) : Prop := RowsOk {
  rows_width : 0 <= r_width r;
  rows_height : 0 <= height r;
  rows_depth : 0 <= depth r;
  rows_disjoint : forall i j a, 0 <= i < height r * depth r -> 0 <= j < height r * depth r ->
    row r i <= a < row r i + r_width r -> row r j <= a < row r j + r_width r -> i = j }.

Lemma blit_in at_ n b m a : at_ <= a < at_ + n -> blit at_ n b m a = b (a - at_).
Proof. intros H. unfold blit. by rewrite (proj2 (Z.leb_le _ _)), (proj2 (Z.ltb_lt _ _)) by lia. Qed.

Lemma blit_out at_ n b m a : ~ at_ <= a < at_ + n -> blit at_ n b m a = m a.
Proof.
  intros H. unfold blit. destruct (Z.leb_spec at_ a); [|done]. destruct (Z.ltb_spec a (at_ + n)); [lia|done].
Qed.

(** Consecutive rows without gaps. *)
Lemma rows_dense u (n : nat) m a : 0 < r_width (u_client u) ->
  (forall i, 0 <= i < Z.of_nat n -> row (u_client u) i = dst (u_client u) + i * r_width (u_client u)) ->
  rows_blit u (seqZ 0 (Z.of_nat n)) m a =
  blit (dst (u_client u)) (r_width (u_client u) * Z.of_nat n) (server_src u) m a.
Proof.
  intros Hw. induction n as [|n IH]; intros Hr.
  - rewrite blit_out by lia. done.
  - unfold rows_blit. rewrite seqZ_S, foldl_app. simpl. fold (rows_blit u (seqZ 0 (Z.of_nat n)) m).
    rewrite Z.add_0_l. set (w := r_width (u_client u)) in *. set (d := dst (u_client u)) in *.
    pose proof (Hr (Z.of_nat n) ltac:(lia)) as En. rewrite En, Nat2Z.inj_succ, Z.mul_succ_r.
    destruct (decide (d + Z.of_nat n * w <= a < d + Z.of_nat n * w + w)) as [Hin|Hout].
    + rewrite !blit_in by lia. f_equal. lia.
    + rewrite blit_out by done. rewrite IH by (intros; apply Hr; lia).
      destruct (decide (d <= a < d + w * Z.of_nat n)); [rewrite !blit_in by lia; done|].
      rewrite !blit_out by lia. done.
Qed.

Lemma row_dense r i : 0 < height r -> pitch r = r_width r -> (slice r = height r * pitch r \/ 0 <= i < height r) ->
  row r i = dst r + i * r_width r.
Proof.
  intros Hh Hp H. unfold row. pose proof (Z.div_mod i (height r) ltac:(lia)) as E. destruct H as [Hs|Hs].
  - rewrite Hs, Hp. rewrite E at 3. ring.
  - rewrite Z.div_small, Z.mod_small by lia. rewrite Hp. ring.
Qed.

(** The contiguous case of the client is no special case. *)
Lemma deferred_rows u m a : rows_ok (u_client u) ->
  lupine_read_deferred_rows u m a = rows_blit u (seqZ 0 (height (u_client u) * depth (u_client u))) m a.
Proof.
  intros [Hw Hh Hd _]. unfold lupine_read_deferred_rows. set (r := u_client u) in *.
  destruct (Z.eqb_spec (r_width r) 0) as [E|Ew]; simpl.
  { unfold rows_blit. fold r. rewrite E. induction (seqZ 0 (height r * depth r)) as [|i l IH] using rev_ind; [done|].
    rewrite foldl_app. simpl. rewrite blit_out by lia. done. }
  destruct (Z.eqb_spec (height r) 0) as [E|Eh]; simpl; [by rewrite E|].
  destruct (Z.eqb_spec (depth r) 0) as [E|Ed]; simpl; [by rewrite E, Z.mul_0_r|].
  destruct (_ || _) eqn:Ec; [|done]. rewrite <- (Z2Nat.id (height r * depth r)) by nia.
  rewrite rows_dense; fold r; [|lia|].
  - rewrite Z2Nat.id by nia. by rewrite Z.mul_assoc.
  - rewrite Z2Nat.id by nia. intros i Hi. rewrite !orb_true_iff, !andb_true_iff, !Z.eqb_eq in Ec.
    destruct Ec as [[[E1 E2]|[E1 E2]]|[E1 E2]].
    + assert (i = 0) as -> by nia. unfold row. rewrite E1, Z.div_1_r, Z.mod_1_r. lia.
    + apply row_dense; [lia|done|]. right. nia.
    + apply row_dense; [lia|done|by left].
Qed.

(** ** Fetching *)

Lemma blit_ext at_ n b b' m a : (forall j, 0 <= j < n -> b j = b' j) -> blit at_ n b m a = blit at_ n b' m a.
Proof.
  intros H. destruct (decide (at_ <= a < at_ + n)); [rewrite !blit_in by done; apply H; lia|by rewrite !blit_out].
Qed.

Definition covers (u : lupine_undelivered_dtoh) (a index : Z) : bool :=
  (row (u_client u) index <=? a) && (a <? row (u_client u) index + r_width (u_client u)).

Lemma covers_spec u a index : covers u a index = true <->
  row (u_client u) index <= a < row (u_client u) index + r_width (u_client u).
Proof. unfold covers. rewrite andb_true_iff, Z.leb_le, Z.ltb_lt. done. Qed.

Lemma rows_blit_out u indices m a : existsb (covers u a) indices = false -> rows_blit u indices m a = m a.
Proof.
  revert m. induction indices as [|i indices IH]; intros m; simpl; [done|].
  rewrite orb_false_iff. intros [Hc He]. etransitivity; [by apply IH|]. apply blit_out. rewrite <- covers_spec. congruence.
Qed.

(** In the run, the ring follows the memory; outside it stays. *)
Lemma overlay_rows_at u at_ b n indices m k mem x : 0 <= n ->
  (overlay_rows u at_ b n indices (m, k)).1 x =
  if decide (at_ <= x < at_ + n)
  then (if existsb (covers u (b + (x - at_))) indices then rows_blit u indices mem (b + (x - at_)) else m x)
  else m x.
Proof.
  intros Hn. revert m k mem. induction indices as [|i indices IH]; intros m k mem; simpl; [by case_decide|].
  set (r := row (u_client u) i). set (w := r_width (u_client u)).
  set (mem' := blit r w (fun j => server_src u (i * w + j)) mem). set (a := b + (x - at_)).
  fold (rows_blit u indices mem'). destruct (Z.ltb_spec (Z.max b r) (Z.min (b + n) (r + w))) as [Hlt|Hge].
  - simpl. rewrite (IH _ _ mem'). fold a. case_decide as Hx; [|rewrite blit_out by lia; done].
    destruct (existsb (covers u a) indices) eqn:Ee; [by rewrite orb_true_r|]. rewrite orb_false_r.
    destruct (covers u a i) eqn:Ec.
    + apply covers_spec in Ec. fold r w in Ec. rewrite blit_in by lia.
      rewrite rows_blit_out by done. unfold mem'. rewrite blit_in by lia. f_equal. lia.
    + rewrite blit_out; [done|]. intros Hin. assert (covers u a i = true); [|congruence].
      apply covers_spec. fold r w. lia.
  - rewrite (IH _ _ mem'). fold a. case_decide as Hx; [|done].
    destruct (covers u a i) eqn:Ec; [|done]. exfalso. apply covers_spec in Ec. fold r w in Ec. lia.
Qed.

Definition sumZ (f : Z -> Z) (l : list Z) : Z := foldr (fun x s => f x + s) 0 l.

Lemma sumZ_app f l l' : sumZ f (l ++ l') = sumZ f l + sumZ f l'.
Proof. induction l as [|x l IH]; simpl; [done|]. rewrite IH. lia. Qed.

Lemma sumZ_ext f g l : (forall x, x ∈ l -> f x = g x) -> sumZ f l = sumZ g l.
Proof.
  induction l as [|x l IH]; intros H; simpl; [done|]. rewrite H, IH; [done| |by left]. intros y Hy. apply H. by right.
Qed.

Lemma sumZ_add f g l : sumZ (fun x => f x + g x) l = sumZ f l + sumZ g l.
Proof. induction l as [|x l IH]; simpl; [done|]. rewrite IH. lia. Qed.

Lemma sumZ_shift f a n : sumZ (fun j => f (a + j)) (seqZ 0 n) = sumZ f (seqZ a n).
Proof.
  replace (seqZ a n) with (Z.add a <$> seqZ 0 n) by (rewrite fmap_add_seqZ; f_equal; lia). induction (seqZ 0 n) as [|x l IH]; simpl; [done|].
  by rewrite IH.
Qed.

(** A sum of zeros and ones that is as large as it can be has only ones. *)
Lemma sumZ_full f l : (forall x, x ∈ l -> f x <= 1) -> sumZ f l = Z.of_nat (length l) -> forall x, x ∈ l -> f x = 1.
Proof.
  intros Hle. assert (Hb : forall l', (forall x, x ∈ l' -> f x <= 1) -> sumZ f l' <= Z.of_nat (length l')).
  { clear. induction l' as [|y l' IH]; intros H; simpl; [lia|]. pose proof (H y ltac:(by left)).
    specialize (IH ltac:(intros; apply H; by right)). lia. }
  induction l as [|y l IH]; simpl; intros Hs x Hx; [by apply elem_of_nil in Hx|].
  pose proof (Hle y ltac:(by left)). pose proof (Hb l ltac:(intros; apply Hle; by right)).
  apply elem_of_cons in Hx as [->|Hx]; [lia|]. apply IH; [intros; apply Hle; by right|lia|done].
Qed.

Definition b2z (b : bool) : Z := if b then 1 else 0.

(** How many rows cover an address. *)
Definition coverage (u : lupine_undelivered_dtoh) (indices : list Z) (a : Z) : Z :=
  sumZ (fun i => b2z (covers u a i)) indices.

(** The length of an overlap is the number of its bytes. *)
Lemma overlap_length b n r w : 0 <= n -> 0 <= w ->
  sumZ (fun a => b2z ((r <=? a) && (a <? r + w))) (seqZ b n) =
  (if Z.max b r <? Z.min (b + n) (r + w) then Z.min (b + n) (r + w) - Z.max b r else 0).
Proof.
  intros Hn Hw. pattern n. apply natlike_ind; [|clear n Hn; intros n Hn IH|done].
  - simpl. destruct (Z.ltb_spec (Z.max b r) (Z.min (b + 0) (r + w))); lia.
  - rewrite <- Z.add_1_r, seqZ_app, sumZ_app, IH by lia. rewrite seqZ_one. simpl.
    destruct (Z.leb_spec r (b + n)), (Z.ltb_spec (b + n) (r + w)); simpl;
      destruct (Z.ltb_spec (Z.max b r) (Z.min (b + n) (r + w))),
        (Z.ltb_spec (Z.max b r) (Z.min (b + (n + 1)) (r + w))); lia.
Qed.

Lemma overlay_rows_count u at_ b n indices m k : 0 <= n -> 0 <= r_width (u_client u) ->
  (overlay_rows u at_ b n indices (m, k)).2 = k + sumZ (coverage u indices) (seqZ b n).
Proof.
  intros Hn Hw. revert m k. induction indices as [|i indices IH]; intros m k; simpl.
  - unfold coverage. simpl. enough (sumZ (fun _ => 0) (seqZ b n) = 0) by lia. by induction (seqZ b n).
  - rewrite (sumZ_ext (coverage u (i :: indices)) (fun a => b2z (covers u a i) + coverage u indices a)) by done.
    rewrite sumZ_add. unfold covers at 1. rewrite overlap_length by done.
    destruct (_ <? _); rewrite IH; lia.
Qed.

(** Disjoint rows cover an address at most once. *)
Lemma coverage_once u a : rows_ok (u_client u) ->
  coverage u (seqZ 0 (height (u_client u) * depth (u_client u))) a =
  b2z (existsb (covers u a) (seqZ 0 (height (u_client u) * depth (u_client u)))).
Proof.
  intros [_ _ _ Hd]. unfold coverage. set (n := height (u_client u) * depth (u_client u)) in *.
  assert (H : forall l, NoDup l -> (forall i, i ∈ l -> 0 <= i < n) ->
    sumZ (fun i => b2z (covers u a i)) l = b2z (existsb (covers u a) l)).
  { induction l as [|i l IH]; intros Hn Hb; simpl; [done|]. apply NoDup_cons in Hn as [Hi Hn].
    rewrite IH by (try done; intros; apply Hb; by right).
    destruct (covers u a i) eqn:Ec; simpl; [|lia]. destruct (existsb (covers u a) l) eqn:Ee; [|done].
    apply existsb_exists in Ee as (j & Hj%list_elem_of_In & Ecj). exfalso. apply Hi.
    apply covers_spec in Ec, Ecj. rewrite (Hd i j a); [done| |by apply Hb; right|done|done].
    apply Hb. by left. }
  apply H; [apply NoDup_seqZ|]. intros i Hi%elem_of_seqZ. lia.
Qed.

(** A copy of rows and slices that are there. *)
Record copy_ok (c : lupine_htod_copy) : Prop := CopyOk {
  copy_width : 0 < width (smemcpy c);
  copy_rows : 0 < rows (smemcpy c);
  copy_slices : 0 <= c_slices c;
  copy_bytes : c_bytes c = width (smemcpy c) * rows (smemcpy c) * c_slices c }.

Lemma x_of_bounds c l : 0 < width (smemcpy c) -> 0 <= x_of c l < width (smemcpy c).
Proof.
  intros Hw. unfold x_of, row_index_of. pose proof (Z.div_mod l (width (smemcpy c)) ltac:(lia)).
  pose proof (Z.mod_pos_bound l (width (smemcpy c)) Hw). lia.
Qed.

Lemma same_row c l j : 0 < width (smemcpy c) -> 0 <= j < width (smemcpy c) - x_of c l ->
  row_index_of c (l + j) = row_index_of c l.
Proof.
  intros Hw Hj. pose proof (x_of_bounds c l Hw) as Hx. unfold x_of, row_index_of in *.
  set (q := l / width (smemcpy c)) in *.
  replace (l + j) with (q * width (smemcpy c) + (l - q * width (smemcpy c) + j)) by ring.
  rewrite div_shift, Z.div_small by lia. lia.
Qed.

(** The bytes of a row are next to one another in client memory. *)
Lemma source_at_run c l j : 0 < width (smemcpy c) -> 0 <= j < width (smemcpy c) - x_of c l ->
  source_at c (l + j) = source_at c l + j.
Proof.
  intros Hw Hj. pose proof (same_row c l j Hw Hj) as E. unfold source_at, row_of, slice_of, x_of. rewrite E. ring.
Qed.

Section Fetch.
Context (c : lupine_htod_copy) (Hc : copy_ok c) (f : lupine_htod_fragment).

Definition all_rows (u : lupine_undelivered_dtoh) : list Z := seqZ 0 (height (u_client u) * depth (u_client u)).

Lemma overlay_chunks_spec u mem : rows_ok (u_client u) -> forall fuel offset remaining m k,
  0 <= remaining <= Z.of_nat fuel ->
  let r := overlay_chunks fuel c f u offset remaining (m, k) in
  (forall x, r.1 x =
     if decide (offset <= f_offset f + x < offset + remaining)
     then (if existsb (covers u (source_at c (f_offset f + x))) (all_rows u)
           then rows_blit u (all_rows u) mem (source_at c (f_offset f + x)) else m x)
     else m x) /\
  r.2 = k + sumZ (fun l => coverage u (all_rows u) (source_at c l)) (seqZ offset remaining).
Proof.
  intros Hu. destruct Hc as [HW _ _ _]. induction fuel as [|fuel IH]; intros offset remaining m k Hr; simpl.
  { assert (remaining = 0) as -> by lia. split; [intros x; case_decide; [lia|done]|simpl; lia]. }
  destruct (Z.eqb_spec remaining 0) as [->|Hne].
  { split; [intros x; case_decide; [lia|done]|simpl; lia]. }
  pose proof (x_of_bounds c offset HW) as Hx. set (chunk := Z.min remaining (width (smemcpy c) - x_of c offset)).
  assert (Hch : 1 <= chunk <= remaining) by lia.
  destruct (overlay_rows u (offset - f_offset f) (source_at c offset) chunk (seqZ 0 (height (u_client u) * depth (u_client u))) (m, k))
    as [m1 k1] eqn:E1.
  destruct (IH (offset + chunk) (remaining - chunk) m1 k1 ltac:(lia)) as [Ha Hb]. split.
  - intros x. rewrite Ha. pose proof (overlay_rows_at u (offset - f_offset f) (source_at c offset) chunk
      (seqZ 0 (height (u_client u) * depth (u_client u))) m k mem x ltac:(lia)) as Hrow. rewrite E1 in Hrow. simpl in Hrow.
    fold (all_rows u) in Hrow. rewrite Hrow.
    destruct (decide (offset - f_offset f <= x < offset - f_offset f + chunk)) as [Hin|Hout].
    + rewrite (decide_False (P := offset + chunk <= _ < _)) by lia. rewrite decide_True by lia.
      replace (source_at c offset + (x - (offset - f_offset f))) with (source_at c (f_offset f + x)); [done|].
      rewrite <- source_at_run by lia. f_equal. lia.
    + destruct (decide (offset + chunk <= f_offset f + x < offset + chunk + (remaining - chunk))) as [H2|H2].
      * rewrite decide_True by lia. done.
      * rewrite decide_False by lia. done.
  - rewrite Hb. pose proof (overlay_rows_count u (offset - f_offset f) (source_at c offset) chunk
      (seqZ 0 (height (u_client u) * depth (u_client u))) m k ltac:(lia) (rows_width _ Hu)) as Hcnt.
    rewrite E1 in Hcnt. simpl in Hcnt. fold (all_rows u) in Hcnt. rewrite Hcnt.
    replace remaining with (chunk + (remaining - chunk)) at 2 by lia. rewrite seqZ_app, sumZ_app by lia.
    rewrite <- (sumZ_shift (coverage u (all_rows u)) (source_at c offset)), <- (sumZ_shift _ offset chunk).
    rewrite (sumZ_ext (fun j => coverage u (all_rows u) (source_at c offset + j))
      (fun j => coverage u (all_rows u) (source_at c (offset + j)))); [lia|].
    intros j Hj%elem_of_seqZ. by rewrite source_at_run by lia.
Qed.

(** The ring agrees with client memory on the fragment. *)
Definition agrees (ring mem : Z -> byte) : Prop :=
  forall x, 0 <= x < f_bytes f -> ring x = mem (source_at c (f_offset f + x)).

Lemma overlay_one u ring mem : rows_ok (u_client u) -> 0 <= f_bytes f ->
  let r := overlay_chunks (Z.to_nat (f_bytes f)) c f u (f_offset f) (f_bytes f) (ring, 0) in
  agrees ring mem \/ r.2 = f_bytes f -> agrees r.1 (lupine_read_deferred_rows u mem).
Proof.
  intros Hu Hb r H. destruct (overlay_chunks_spec u mem Hu (Z.to_nat (f_bytes f)) (f_offset f) (f_bytes f) ring 0 ltac:(lia))
    as [Ha Hk]. fold r in Ha, Hk. intros x Hx. rewrite Ha, decide_True by lia. rewrite deferred_rows by done.
  fold (all_rows u). set (a := source_at c (f_offset f + x)).
  destruct (existsb (covers u a) (all_rows u)) eqn:Ee; [done|]. rewrite rows_blit_out by done.
  destruct H as [H|H]; [by apply H|]. exfalso. rewrite H in Hk.
  assert (Hone : coverage u (all_rows u) a = 1).
  { apply (sumZ_full (fun l => coverage u (all_rows u) (source_at c l)) (seqZ (f_offset f) (f_bytes f))).
    - intros l _. cbv beta. unfold all_rows. rewrite coverage_once by done. unfold b2z. case_match; simpl; lia.
    - rewrite length_seqZ, Z2Nat.id by lia. lia.
    - apply elem_of_seqZ. lia. }
  unfold all_rows in Hone. rewrite coverage_once in Hone by done. unfold all_rows in Ee. by rewrite Ee in Hone.
Qed.

Lemma overlay_agrees conn us : Forall (fun u => rows_ok (u_client u)) us -> 0 <= f_bytes f -> forall ring mem,
  let r := lupine_overlay_undelivered_dtoh conn c f us ring in
  agrees ring mem \/ r.2 = true -> agrees r.1 (deliver conn us mem).
Proof.
  intros Hus Hb. induction Hus as [|u us Hu _ IH]; intros ring mem; simpl; [by intros [|]|].
  destruct (Z.eqb_spec (u_conn u) conn); simpl; [|apply IH].
  destruct (overlay_chunks _ c f u _ _ (ring, 0)) as [ring1 k1] eqn:E1.
  pose proof (overlay_one u ring mem Hu Hb) as H1. simpl in H1. rewrite E1 in H1. simpl in H1.
  specialize (IH ring1 (lupine_read_deferred_rows u mem)).
  destruct (lupine_overlay_undelivered_dtoh conn c f us ring1) as [ring2 covered]. simpl in *.
  intros [H|H]; [auto|]. apply orb_true_iff in H as [H%Z.eqb_eq|H]; auto.
Qed.

(** The answer of the client is the bytes of the fragment. *)
Lemma read_host_memory_spec client : forall fuel offset remaining, 0 <= remaining <= Z.of_nat fuel ->
  read_host_memory fuel c client offset remaining = (fun l => client (source_at c l)) <$> seqZ offset remaining.
Proof.
  destruct Hc as [HW _ _ _]. induction fuel as [|fuel IH]; intros offset remaining Hr; simpl.
  { by assert (remaining = 0) as -> by lia. }
  destruct (Z.eqb_spec remaining 0) as [->|Hne]; [done|]. pose proof (x_of_bounds c offset HW) as Hx.
  set (chunk := Z.min remaining (width (smemcpy c) - x_of c offset)). rewrite IH by lia.
  replace remaining with (chunk + (remaining - chunk)) at 2 by lia. rewrite seqZ_app, fmap_app by lia. f_equal.
  replace (seqZ offset chunk) with (Z.add offset <$> seqZ 0 chunk) by (rewrite fmap_add_seqZ; f_equal; lia).
  rewrite <- list_fmap_compose. apply list_fmap_ext. intros n j Hj. apply lookup_seqZ in Hj as [-> Hj]. simpl.
  by rewrite source_at_run by lia.
Qed.
End Fetch.

Lemma fetch_agrees conn c f undelivered client (answered : bool) ring :
  copy_ok c -> Forall (fun u => rows_ok (u_client u)) undelivered -> 0 <= f_bytes f ->
  (fetch conn c f undelivered client answered ring).1 = 0 ->
  agrees c f (fetch conn c f undelivered client answered ring).2 (deliver conn undelivered client).
Proof.
  intros H_copy H_rows H_bytes. unfold fetch. pose proof (overlay_agrees c H_copy f conn undelivered H_rows H_bytes ring client) as H1.
  destruct (lupine_overlay_undelivered_dtoh conn c f undelivered ring) as [ring1 covered]. simpl in H1.
  destruct covered; [intros _; apply H1; by right|]. destruct answered; simpl; [|done]. intros _.
  apply overlay_agrees; try done. left. intros x Hx. rewrite blit_in by lia.
  rewrite read_host_memory_spec by (done || lia). rewrite Z.sub_0_r.
  rewrite nth_lookup, list_lookup_fmap, lookup_seqZ_lt by lia. simpl. by rewrite Z2Nat.id by lia.
Qed.

(** A fetch that succeeds leaves in the ring what the client's memory will hold once every
    device-to-host copy that has run is delivered to it: the bytes of undelivered copies
    come from the server in the order the copies ran, the others from the client, and the
    client is only passed over when one copy covers the whole fragment. *)
Theorem fetch_sees_undelivered (conn : Z) (c : lupine_htod_copy) (f : lupine_htod_fragment)
  (undelivered : list lupine_undelivered_dtoh) (client : Z -> byte) (answered : bool) (ring : Z -> byte)
  (H_copy : copy_ok c) (H_rows : Forall (fun u => rows_ok (u_client u)) undelivered) (H_bytes : 0 <= f_bytes f)
  (H_fetch : (fetch conn c f undelivered client answered ring).1 = 0) :
  forall x, 0 <= x < f_bytes f ->
    (fetch conn c f undelivered client answered ring).2 x =
    deliver conn undelivered client (source_at c (f_offset f + x)).
Proof. by apply fetch_agrees. Qed.

(** Two runs of two rows of three bytes; the last row of the copy is covered by an
    undelivered row. *)
Definition sample_copy : lupine_htod_copy :=
  lupine_make_3d_htod_copy (Memcpy3D 1 0 0 1000 8 4 2 1 0 40960 None 64 8 3 2 2).

Definition sample_undelivered : lupine_undelivered_dtoh :=
  Undelivered 7 (HostRows 1041 4 1 0 1 0) (fun j => 200 + j).

Lemma fetch_sees_undelivered_witness :
  let f := fragment sample_copy 4 100 in
  let r := fetch 7 sample_copy f [sample_undelivered] (fun a => a mod 100) true (fun _ => 0) in
  r.1 = 0 /\ r.2 <$> seqZ 0 (f_bytes f) = [10; 11; 33; 34; 35; 200; 201; 202].
Proof.
  set (f := fragment sample_copy 4 100).
  assert (H0 : (fetch 7 sample_copy f [sample_undelivered] (fun a => a mod 100) true (fun _ => 0)).1 = 0)
    by (vm_compute; reflexivity).
  split; [exact H0|].
  pose proof (fetch_sees_undelivered 7 sample_copy f [sample_undelivered] (fun a => a mod 100) true (fun _ => 0)) as H.
  transitivity ((fun x => deliver 7 [sample_undelivered] (fun a => a mod 100) (source_at sample_copy (f_offset f + x)))
    <$> seqZ 0 (f_bytes f)); [|vm_compute; reflexivity].
  apply list_fmap_ext. intros n x Hx. apply lookup_seqZ in Hx as [-> Hx]. apply H; [| | |exact H0|lia].
  - split; vm_compute; done.
  - constructor; [|constructor]. split; [vm_compute; done..|]. simpl. lia.
  - vm_compute. done.
Defined.

(** ** Fragments *)

Lemma row_index_shift c l i : 0 < width (smemcpy c) -> x_of c l = 0 ->
  row_index_of c (l + i) = row_index_of c l + i / width (smemcpy c) /\ x_of c (l + i) = i mod width (smemcpy c).
Proof.
  intros Hw Hx. assert (E : row_index_of c (l + i) = row_index_of c l + i / width (smemcpy c)).
  { unfold x_of, row_index_of in *. set (q := l / width (smemcpy c)) in *.
    replace (l + i) with (q * width (smemcpy c) + i) by lia. by apply div_shift. }
  split; [done|]. unfold x_of in *. rewrite E. rewrite Z.mod_eq by lia. lia.
Qed.

(** What a fragment at an offset is. *)
Record fragment_ok (c : lupine_htod_copy) (offset capacity : Z) (f : lupine_htod_fragment) : Prop := FragmentOk {
  frag_offset : f_offset f = offset;
  frag_some : 0 < f_bytes f <= capacity;
  frag_inside : offset + f_bytes f <= c_bytes c;
  frag_box : c_use_cuda_memcpy c = true ->
    0 < f_width f /\ 0 < f_rows f /\ f_bytes f = f_width f * f_rows f * f_slices f /\
    forall i, 0 <= i < f_bytes f ->
      x_of c (offset + i) = f_x f + i mod f_width f /\
      row_of c (offset + i) = f_row f + (i / f_width f) mod f_rows f /\
      slice_of c (offset + i) = f_slice f + i / f_width f / f_rows f }.

Section Fragments.
Context (c : lupine_htod_copy) (Hc : copy_ok c) (offset capacity : Z).
Context (Hoff : 0 <= offset < c_bytes c) (Hcap : 0 < capacity).

Local Abbreviation W := (width (smemcpy c)).
Local Abbreviation R := (rows (smemcpy c)).

Lemma row_of_bounds l : 0 <= row_of c l < R.
Proof.
  destruct Hc as [_ HR _ _]. unfold row_of, slice_of. pose proof (Z.div_mod (row_index_of c l) R ltac:(lia)).
  pose proof (Z.mod_pos_bound (row_index_of c l) R HR). lia.
Qed.

Lemma logical_split l : l = (slice_of c l * R + row_of c l) * W + x_of c l.
Proof. unfold row_of, x_of. ring. Qed.

Lemma slice_bound : slice_of c offset < c_slices c.
Proof.
  pose proof (logical_split offset) as E. pose proof (row_of_bounds offset). pose proof Hc as [HW HR HS HB].
  pose proof (x_of_bounds c offset HW).
  destruct (Z_lt_ge_dec (slice_of c offset) (c_slices c)) as [|Hge]; [done|exfalso].
  assert (W * R * c_slices c <= W * R * slice_of c offset) by (apply Z.mul_le_mono_nonneg_l; nia).
  assert (0 <= row_of c offset * W) by nia. lia.
Qed.

(** Part of a row. *)
Lemma fragment_in_row n : 0 < n -> n <= capacity -> n <= W - x_of c offset -> n <= c_bytes c - offset ->
  fragment_ok c offset capacity
    (Fragment offset n (x_of c offset) (row_of c offset) (slice_of c offset) n 1 1).
Proof.
  intros Hn H1 H2 H3. pose proof Hc as [HW HR HS HB]. split; simpl; try lia. intros _. repeat split; try lia.
  all: rewrite ?Z.mod_1_r, ?Z.div_1_r, ?(Z.mod_small i n), ?(Z.div_small i n) by lia;
    pose proof (same_row c offset i HW ltac:(lia)) as E; unfold x_of, row_of, slice_of; rewrite ?E; lia.
Qed.

(** Whole rows of a slice. *)
Lemma fragment_rows n : x_of c offset = 0 -> 0 < n -> W * n <= capacity -> row_of c offset + n <= R ->
  fragment_ok c offset capacity
    (Fragment offset (W * n) (x_of c offset) (row_of c offset) (slice_of c offset) W n 1).
Proof.
  intros Hx Hn H1 H2. pose proof Hc as [HW HR HS HB]. pose proof (logical_split offset) as E. pose proof slice_bound.
  assert (Hin : offset + W * n <= c_bytes c).
  { assert ((slice_of c offset * R + (row_of c offset + n)) * W <= (c_slices c * R) * W); [|lia].
    apply Z.mul_le_mono_nonneg_r; [lia|]. assert ((slice_of c offset + 1) * R <= c_slices c * R); [|lia].
    apply Z.mul_le_mono_nonneg_r; lia. }
  split; simpl; try nia. intros _. repeat split; try lia.
  all: destruct (row_index_shift c offset i HW Hx) as [Er Ex];
    assert (Hq : 0 <= i / W < n) by (split; [apply Z.div_pos; lia|apply Z.div_lt_upper_bound; lia]);
    assert (Es : slice_of c (offset + i) = slice_of c offset);
    [unfold slice_of; rewrite Er; pose proof (row_of_bounds offset);
     unfold row_of, slice_of in *; set (s := row_index_of c offset / R) in *;
     replace (row_index_of c offset + i / W) with (s * R + (row_index_of c offset - s * R + i / W)) by ring;
     rewrite div_shift, (Z.div_small (row_index_of c offset - s * R + i / W)) by lia; lia|].
  - rewrite Ex. lia.
  - unfold row_of. rewrite Es, Er, (Z.mod_small (i / W)) by lia. unfold row_of in *. lia.
  - rewrite Es, (Z.div_small (i / W)) by lia. lia.
Qed.

(** Whole slices. *)
Lemma fragment_slices n : x_of c offset = 0 -> row_of c offset = 0 -> 0 < n -> W * R * n <= capacity ->
  slice_of c offset + n <= c_slices c ->
  fragment_ok c offset capacity
    (Fragment offset (W * R * n) (x_of c offset) (row_of c offset) (slice_of c offset) W R n).
Proof.
  intros Hx Hrow Hn H1 H2. pose proof Hc as [HW HR HS HB]. pose proof (logical_split offset) as E.
  assert (Hin : offset + W * R * n <= c_bytes c).
  { assert ((W * R) * (slice_of c offset + n) <= (W * R) * c_slices c) by (apply Z.mul_le_mono_nonneg_l; nia). lia. }
  split; simpl; try nia. intros _. repeat split; try lia.
  all: destruct (row_index_shift c offset i HW Hx) as [Er Ex];
    assert (Es : slice_of c (offset + i) = slice_of c offset + i / W / R);
    [unfold slice_of; rewrite Er; unfold row_of, slice_of in Hrow; set (s := row_index_of c offset / R) in *;
     replace (row_index_of c offset) with (s * R) by lia; by rewrite div_shift by lia|].
  - rewrite Ex. lia.
  - unfold row_of at 1. rewrite Es, Er, Z.mod_eq by lia. unfold row_of in *. lia.
  - done.
Qed.

Lemma fragment_sound : fragment_ok c offset capacity (fragment c offset capacity).
Proof.
  pose proof Hc as [HW HR HS HB]. unfold fragment. pose proof (x_of_bounds c offset HW) as Hx.
  pose proof (row_of_bounds offset) as Hrow. pose proof slice_bound as Hsl.
  destruct (c_use_cuda_memcpy c) eqn:Eu; simpl.
  2: { split; simpl; try lia. by rewrite Eu. }
  destruct (Z.eqb_spec (x_of c offset) 0) as [Ex|Ex]; simpl; [|apply fragment_in_row; lia].
  destruct (Z.ltb_spec capacity W); [apply fragment_in_row; lia|].
  assert (H1 : 1 <= capacity / W) by (apply Z.div_le_lower_bound; lia).
  pose proof (Z.mul_div_le capacity W HW) as H2.
  destruct (Z.eqb_spec (row_of c offset) 0) as [Er|Er]; simpl; [|apply fragment_rows; try done; nia].
  destruct (Z.ltb_spec (capacity / W) R); [apply fragment_rows; try done; nia|].
  assert (H3 : 1 <= capacity / (W * R)) by (apply Z.div_le_lower_bound; nia).
  pose proof (Z.mul_div_le capacity (W * R) ltac:(nia)) as H4. apply fragment_slices; try done; nia.
Qed.
End Fragments.
