(* ===== verification/HtodCopy.v ===== *)
(** * Running a host-to-device copy

    The loops of [cuda_server_memcpy.cpp] over the fragments of [Htod]: the copies that pull
    their bytes from the client ([lupine_copy_client_host_to_device],
    [lupine_enqueue_client_htod_copy]) and the ones whose bytes come with the request
    ([lupine_copy_pushed_host_to_device]), outside of stream capture.  The ring's stream runs
    its work in order, so a fragment is fetched and then copied; driver calls return the next
    result of a list, which can be any.  Setting up the context, the staging operation and
    the ring are one result each. *)
From S2P Require Import Prelude DtohPipe Smemcpy Htod.

Definition CUDA_ERROR_INVALID_VALUE : Z := 1.
Definition CUDA_ERROR_INVALID_CONTEXT : Z := 201.

(** Where a byte is put: at an address, or in an array. *)
Inductive place := At (a : Z) | Texel (array x y z : Z).

(** The results to come of driver calls and of fetches, the bytes of the request that are still
    on the lane, and what has been written. *)
Record world := World {
  answers : list Z;
  fetches : list bool;
  lane : list byte;
  performed : list (place * byte) }.

Definition T (A : Type) : Type := world -> A * world.
#[export] Instance T_ret : MRet T := fun A x w => (x, w).
#[export] Instance T_bind : MBind T := fun A B f m w => let '(x, w') := m w in f x w'.

Definition call : T Z := fun w =>
  match answers w with
  | [] => (CUDA_SUCCESS, w)
  | r :: rs => (r, World rs (fetches w) (lane w) (performed w))
  end.

Definition fetch_result : T bool := fun w =>
  match fetches w with
  | [] => (true, w)
  | b :: bs => (b, World (answers w) bs (lane w) (performed w))
  end.

Definition perform (ws : list (place * byte)) : T unit := fun w =>
  (tt, World (answers w) (fetches w) (lane w) (performed w ++ ws)).

(** [rpc_read] or [rpc_drain] of [n] bytes; [None] when the connection ends before. *)
Definition read (n : Z) : T (option (list byte)) := fun w =>
  if Z.of_nat (length (lane w)) <? n then (None, w)
  else (Some (take (Z.to_nat n) (lane w)),
        World (answers w) (fetches w) (drop (Z.to_nat n) (lane w)) (performed w)).

Section Ring.
Context (features : lupine_smemcpy_device) (device_storage : Z).

(** ** A fragment *)

(** [ops/smemcpy_module.cpp]. *)
Definition lupine_smemcpy_prepare_driver_launch (p : lupine_smemcpy_params)
    : T (Z + lupine_smemcpy_launch_descriptor) :=
  match lupine_smemcpy_prepare_descriptor p None with
  | None => mret (inl CUDA_ERROR_INVALID_VALUE)
  | Some l =>
      if (bytes p =? 0) || (3 <? width p) || use_cuda_memcpy l then mret (inr l)
      else
        device ← call;
        if negb (device =? CUDA_SUCCESS) then mret (inl device)
        else
          major ← call;
          minor ← (if major =? CUDA_SUCCESS then call else mret major);
          name ← (if minor =? CUDA_SUCCESS then call else mret minor);
          if negb (name =? CUDA_SUCCESS) then mret (inl name)
          else
            match lupine_smemcpy_prepare_descriptor p (Some features) with
            | None => mret (inl CUDA_ERROR_INVALID_VALUE)
            | Some l => mret (inr l)
            end
  end.

(** [lupine_smemcpy_module_function]. *)
Definition lupine_smemcpy_module_function (l : lupine_smemcpy_launch_descriptor) : T Z :=
  match lupine_smemcpy_kernel_name l with
  | None => mret CUDA_ERROR_INVALID_VALUE
  | Some _ => call
  end.

Definition fragment_params (c : lupine_htod_copy) (f : lupine_htod_fragment) : lupine_smemcpy_params :=
  let p := smemcpy c in
  Params (destination p) (wrap64 (device_storage + ring_offset c (f_offset f))) (f_offset f) (f_bytes f) (width p)
    (rows p) (destination_row_stride p) (destination_slice_stride p).

Definition bytes_at (ws : list (Z * byte)) : list (place * byte) := (fun '(a, v) => (At a, v)) <$> ws.

(** The box of an array that [cuMemcpy3DAsync_v2] fills from a packed source. *)
Definition box (array : Z) (c : lupine_htod_copy) (f : lupine_htod_fragment) (ring : Z -> byte)
    : list (place * byte) :=
  seqZ 0 (f_slices f) ≫= fun z => seqZ 0 (f_rows f) ≫= fun y => (fun x =>
    (Texel array (wrap64 (destination_x c + f_x f) + x) (wrap64 (destination_y c + f_row f) + y)
       (wrap64 (destination_z c + f_slice f) + z),
     ring ((z * f_rows f + y) * f_width f + x))) <$> seqZ 0 (f_width f).

(** [ring] has the bytes of the fragment from 0 on. *)
Definition lupine_enqueue_htod_fragment (c : lupine_htod_copy) (f : lupine_htod_fragment) (ring : Z -> byte) : T Z :=
  let contiguous a := (fun i => (At (wrap64 (a + i)), ring i)) <$> seqZ 0 (f_bytes f) in
  if c_use_cuda_memcpy c then
    result ← call;
    (if result =? CUDA_SUCCESS
     then perform (match destination_array c with
                   | None => contiguous (destination_at (smemcpy c) (f_offset f))
                   | Some array => box array c f ring
                   end)
     else mret tt) ;;
    mret result
  else
    let p := fragment_params c f in
    prepared ← lupine_smemcpy_prepare_driver_launch p;
    match prepared with
    | inl error => mret error
    | inr launch =>
        if use_cuda_memcpy launch then
          result ← call;
          (if result =? CUDA_SUCCESS then perform (contiguous (destination (params launch))) else mret tt) ;;
          mret result
        else
          found ← lupine_smemcpy_module_function launch;
          if negb (found =? CUDA_SUCCESS) then mret found
          else
            result ← call;
            (if result =? CUDA_SUCCESS
             then perform (bytes_at (default [] (lupine_smemcpy_async (fun a => ring (wrap64 (a - source p))) launch)
                                       ≫= writes))
             else mret tt) ;;
            mret result
    end.

(** The loop of [lupine_prepare_htod_copy]; a fragment has at least a byte. *)
Fixpoint prepare_loop (fuel : nat) (c : lupine_htod_copy) (offset : Z) : T Z :=
  match fuel with
  | O => mret CUDA_SUCCESS
  | S fuel =>
      if offset <? c_bytes c then
        let f := fragment c offset fragment_bytes in
        prepared ← lupine_smemcpy_prepare_driver_launch (fragment_params c f);
        match prepared with
        | inl error => mret error
        | inr launch =>
            result ← (if use_cuda_memcpy launch then mret CUDA_SUCCESS else lupine_smemcpy_module_function launch);
            if negb (result =? CUDA_SUCCESS) then mret result else prepare_loop fuel c (offset + f_bytes f)
        end
      else mret CUDA_SUCCESS
  end.

Definition lupine_prepare_htod_copy (c : lupine_htod_copy) : T Z :=
  if c_use_cuda_memcpy c then mret CUDA_SUCCESS else prepare_loop (Z.to_nat (c_bytes c)) c 0.

(** ** Bytes that come with the request *)

(** The result, and whether the loop was left because the connection ended. *)
Fixpoint push_loop (fuel : nat) (c : lupine_htod_copy) (offset result : Z) : T Z :=
  match fuel with
  | O => mret result
  | S fuel =>
      if offset <? c_bytes c then
        let f := fragment c offset fragment_bytes in
        payload ← read (f_bytes f);
        match payload with
        | None => mret CUDA_ERROR_DEVICE_UNAVAILABLE
        | Some payload =>
            result ← (if result =? CUDA_SUCCESS
                      then lupine_enqueue_htod_fragment c f (fun j => nth (Z.to_nat j) payload 0) else mret result);
            result ← (if result =? CUDA_SUCCESS then call else mret result);
            push_loop fuel c (offset + f_bytes f) result
        end
      else mret result
  end.

Definition and_then (result : Z) (next : T Z) : T Z :=
  if result =? CUDA_SUCCESS then next else mret result.

Definition lupine_copy_pushed_host_to_device (c : lupine_htod_copy) : T Z :=
  result ← call;
  result ← and_then result call;
  if negb (result =? CUDA_SUCCESS) then
    drained ← read (c_bytes c);
    mret match drained with None => CUDA_ERROR_DEVICE_UNAVAILABLE | Some _ => result end
  else
    result ← call;
    result ← and_then result (acquired ← call;
                              mret (if acquired =? CUDA_SUCCESS then CUDA_SUCCESS else CUDA_ERROR_INVALID_CONTEXT));
    result ← and_then result call;
    result ← and_then result (lupine_prepare_htod_copy c);
    let executing := result =? CUDA_SUCCESS in
    result ← and_then result (recorded ← call; and_then recorded call);
    result ← push_loop (Z.to_nat (c_bytes c)) c 0 result;
    (if executing : bool then call else mret CUDA_SUCCESS) ;;
    restore ← call;
    mret (if result =? CUDA_SUCCESS then restore else result).

(** ** Bytes that are pulled from the client *)

Context (conn : Z) (undelivered : list lupine_undelivered_dtoh) (client : Z -> byte).

(** The callback and the copy of each fragment; the callback only logs a fetch that fails.
    [ring] is the whole ring, of which a fragment uses the part from its offset on. *)
Fixpoint pull_loop (fuel : nat) (c : lupine_htod_copy) (offset : Z) (ring : Z -> byte) : T Z :=
  match fuel with
  | O => mret CUDA_SUCCESS
  | S fuel =>
      if offset <? c_bytes c then
        let f := fragment c offset fragment_bytes in
        result ← call;
        if negb (result =? CUDA_SUCCESS) then mret result
        else
          answered ← fetch_result;
          let slot := ring_offset c offset in
          let filled := (fetch conn c f undelivered client answered (fun j => ring (slot + j))).2 in
          let ring := fun j => filled (j - slot) in
          result ← lupine_enqueue_htod_fragment c f filled;
          if negb (result =? CUDA_SUCCESS) then mret result else pull_loop fuel c (offset + f_bytes f) ring
      else mret CUDA_SUCCESS
  end.

(** [synchronize] before the ring is released after an error. *)
Definition release_after (result : Z) : T Z := call ;; mret result.

Definition lupine_enqueue_client_htod_copy (c : lupine_htod_copy) (ring : Z -> byte) : T Z :=
  if c_bytes c =? 0 then mret CUDA_SUCCESS
  else
    result ← call;
    result ← and_then result (lupine_prepare_htod_copy c);
    result ← and_then result (recorded ← call; and_then recorded call);
    if negb (result =? CUDA_SUCCESS) then mret result
    else
      result ← pull_loop (Z.to_nat (c_bytes c)) c 0 ring;
      if negb (result =? CUDA_SUCCESS) then release_after result
      else
        result ← call;
        result ← and_then result call;
        if negb (result =? CUDA_SUCCESS) then release_after result else call.

Definition lupine_copy_client_host_to_device (c : lupine_htod_copy) (ring : Z -> byte) : T Z :=
  result ← call;
  result ← and_then result call;
  if negb (result =? CUDA_SUCCESS) then mret result
  else
    result ← call;
    result ← and_then result (acquired ← call;
                              mret (if acquired =? CUDA_SUCCESS then CUDA_SUCCESS else CUDA_ERROR_INVALID_CONTEXT));
    result ← and_then result (lupine_enqueue_client_htod_copy c ring);
    restore ← call;
    mret (if result =? CUDA_SUCCESS then restore else result).
End Ring.

(** ** What a copy writes *)

(** The place of a byte of the packed copy. *)
Definition place_of (c : lupine_htod_copy) (l : Z) : place :=
  match destination_array c with
  | None => At (destination_at (smemcpy c) l)
  | Some array => Texel array (destination_x c + x_of c l) (destination_y c + row_of c l) (destination_z c + slice_of c l)
  end.

Definition fragment_cells (c : lupine_htod_copy) (offset n : Z) (bytes : Z -> byte) : list (place * byte) :=
  (fun i => (place_of c (offset + i), bytes i)) <$> seqZ 0 n.

(** A copy as [lupine_make_linear_htod_copy] and [lupine_make_3d_htod_copy] make it. *)
Record copy_wf (c : lupine_htod_copy) : Prop := CopyWf {
  wf_ok : copy_ok c;
  wf_destination : is_u64 (destination (smemcpy c));
  wf_width : is_u64 (width (smemcpy c));
  wf_rows : is_u64 (rows (smemcpy c));
  wf_bytes : is_u64 (c_bytes c);
  wf_kernels : c_use_cuda_memcpy c = false -> destination_array c = None;
  wf_linear : c_use_cuda_memcpy c = true -> destination_array c = None -> width (smemcpy c) = c_bytes c;
  wf_x : 0 <= destination_x c /\ destination_x c + width (smemcpy c) <= 2 ^ 64;
  wf_y : 0 <= destination_y c /\ destination_y c + rows (smemcpy c) <= 2 ^ 64;
  wf_z : 0 <= destination_z c /\ destination_z c + c_slices c <= 2 ^ 64 }.

Lemma linear_copy_wf destination source n : is_u64 destination -> 0 < n < 2 ^ 64 ->
  copy_wf (lupine_make_linear_htod_copy destination source n).
Proof.
  intros Hd Hn. split; simpl; unfold is_u64 in *; try (done || lia).
  split; simpl; lia.
Qed.

Lemma copy_3d_wf o : 0 < WidthInBytes o -> 0 < Height o -> 0 < Depth o ->
  WidthInBytes o * Height o * Depth o < 2 ^ 64 ->
  (forall array, dstArray o = Some array -> 0 <= dstXInBytes o /\ dstXInBytes o + WidthInBytes o <= 2 ^ 64 /\
    0 <= dstY o /\ dstY o + Height o <= 2 ^ 64 /\ 0 <= dstZ o /\ dstZ o + Depth o <= 2 ^ 64) ->
  copy_wf (lupine_make_3d_htod_copy o).
Proof.
  intros Hw Hh Hd Hn Ha. unfold lupine_make_3d_htod_copy.
  assert (H0 : WidthInBytes o <= WidthInBytes o * Height o /\ Height o <= WidthInBytes o * Height o) by nia.
  assert (H1 : WidthInBytes o * Height o <= WidthInBytes o * Height o * Depth o) by nia.
  rewrite wrap64_id by (unfold is_u64; lia).
  destruct (Z.eqb_spec (WidthInBytes o * Height o * Depth o) 0) as [|_]; [lia|].
  destruct (dstArray o) as [array|].
  - specialize (Ha array eq_refl). split; simpl; unfold is_u64 in *; try (done || lia). split; simpl; lia.
  - split; simpl; try (done || (unfold is_u64; lia)); [split; simpl; lia|apply wrap64_range].
Qed.

(** *** Weakest preconditions *)

Definition wp {A} (m : T A) (Q : A -> world -> Prop) (w : world) : Prop := Q (m w).1 (m w).2.

Lemma wp_ret {A} (x : A) (Q : A -> world -> Prop) w : Q x w -> wp (mret x) Q w.
Proof. done. Qed.

Lemma wp_bind {A B} (m : T A) (k : A -> T B) (Q : B -> world -> Prop) w :
  wp m (fun x => wp (k x) Q) w -> wp (m ≫= k) Q w.
Proof. unfold wp, mbind, T_bind. by destruct (m w). Qed.

Lemma wp_assoc {A B C} (m : T A) (n : A -> T B) (k : B -> T C) (Q : C -> world -> Prop) w :
  wp (m ≫= n) (fun x => wp (k x) Q) w -> wp (m ≫= fun x => n x ≫= k) Q w.
Proof. unfold wp, mbind, T_bind. destruct (m w) as [x w']. by destruct (n x w'). Qed.

Lemma wp_mono {A} (m : T A) (P Q : A -> world -> Prop) w : wp m P w -> (forall x w', P x w' -> Q x w') -> wp m Q w.
Proof. unfold wp. auto. Qed.

(** Nothing changes but the results to come. *)
Definition same (w w' : world) : Prop :=
  lane w' = lane w /\ fetches w' = fetches w /\ performed w' = performed w.

Definition quiet {A} (m : T A) : Prop := forall w, same w (m w).2.

Lemma wp_quiet {A} (m : T A) (Q : A -> world -> Prop) w :
  quiet m -> (forall x w', same w w' -> Q x w') -> wp m Q w.
Proof. unfold wp. intros Hm H. apply H, Hm. Qed.

Lemma same_trans w w1 w2 : same w w1 -> same w1 w2 -> same w w2.
Proof. unfold same. intuition congruence. Qed.

Lemma quiet_ret {A} (x : A) : quiet (mret x).
Proof. done. Qed.

Lemma quiet_bind {A B} (m : T A) (k : A -> T B) : quiet m -> (forall x, quiet (k x)) -> quiet (m ≫= k).
Proof.
  intros Hm Hk w. unfold mbind, T_bind. specialize (Hm w). destruct (m w) as [x w']. eapply same_trans, Hk. done.
Qed.

Lemma quiet_call : quiet call.
Proof. intros w. unfold call. by destruct (answers w). Qed.

Lemma quiet_and_then r m : quiet m -> quiet (and_then r m).
Proof. intros H. unfold and_then. case_match; [done|apply quiet_ret]. Qed.

Create HintDb quiet.
#[export] Hint Resolve quiet_ret quiet_call : quiet.

Ltac quieten :=
  repeat first [apply quiet_bind; [|intros ?] | apply quiet_and_then | case_match | solve [auto with quiet]].

(** Step over a computation that only takes results; [H] relates the world to the first one. *)
Ltac quiet_step H :=
  apply wp_bind, wp_quiet; [solve [quieten]|];
  let r := fresh "r" in let w := fresh "w" in let H' := fresh "H" in
  intros r w H'; pose proof (same_trans _ _ _ H H') as H''; clear H H'; rename H'' into H.

Section Quiet.
Context (features : lupine_smemcpy_device) (device_storage : Z).

Lemma quiet_prepare_launch p : quiet (lupine_smemcpy_prepare_driver_launch features p).
Proof. unfold lupine_smemcpy_prepare_driver_launch. quieten. Qed.

Lemma quiet_module_function l : quiet (lupine_smemcpy_module_function l).
Proof. unfold lupine_smemcpy_module_function. quieten. Qed.
Hint Resolve quiet_prepare_launch quiet_module_function : quiet.

Lemma quiet_prepare_loop fuel c : forall offset, quiet (prepare_loop features device_storage fuel c offset).
Proof. induction fuel as [|fuel IH]; intros offset; cbn [prepare_loop]; quieten. Qed.
Hint Resolve quiet_prepare_loop : quiet.

Lemma quiet_prepare c : quiet (lupine_prepare_htod_copy features device_storage c).
Proof. unfold lupine_prepare_htod_copy. quieten. Qed.

(** A launch that is prepared is one the dispatcher made. *)
Lemma prepared_by p w : wp (lupine_smemcpy_prepare_driver_launch features p) (fun r w' => same w w' /\
  match r with
  | inr l => exists device, lupine_smemcpy_prepare_descriptor p device = Some l
  | inl e => e <> CUDA_SUCCESS
  end) w.
Proof.
  split; [apply quiet_prepare_launch|]. unfold lupine_smemcpy_prepare_driver_launch.
  destruct (lupine_smemcpy_prepare_descriptor p None) as [l0|] eqn:E0; [|done].
  destruct ((bytes p =? 0) || _ || _); [by exists None|].
  unfold mbind, T_bind. destruct (call w) as [d w1]. destruct (Z.eqb_spec d CUDA_SUCCESS); simpl; [|done].
  destruct (call w1) as [x w2]. destruct ((if x =? CUDA_SUCCESS then call else mret x) w2) as [y w3].
  destruct ((if y =? CUDA_SUCCESS then call else mret y) w3) as [z w4]. destruct (Z.eqb_spec z CUDA_SUCCESS); simpl; [|done].
  destruct (lupine_smemcpy_prepare_descriptor p (Some features)) as [l1|] eqn:E1; [by exists (Some features)|done].
Qed.
End Quiet.
#[export] Hint Resolve quiet_prepare_launch quiet_module_function quiet_prepare_loop quiet_prepare : quiet.

(** *** One fragment *)

Lemma box_flatten {A} (g : Z -> A) W R S : 0 <= W -> 0 <= R -> 0 <= S ->
  seqZ 0 S ≫= (fun z => seqZ 0 R ≫= fun y => (fun x => g ((z * R + y) * W + x)) <$> seqZ 0 W) =
  g <$> seqZ 0 (W * R * S).
Proof.
  intros HW HR HS.
  assert (Hrow : forall k, (fun x => g (k * W + x)) <$> seqZ 0 W = g <$> seqZ (k * W) W).
  { intros k. replace (seqZ (k * W) W) with (Z.add (k * W) <$> seqZ 0 W) by (rewrite fmap_add_seqZ; f_equal; lia).
    by rewrite <- list_fmap_compose. }
  replace (W * R * S) with (S * R * W) by ring. rewrite <- (rows_flatten W (S * R)) by nia.
  rewrite <- (rows_flatten R S) by done. rewrite bind_assoc, fmap_bind. apply bind_ext. intros z _. rewrite fmap_bind.
  replace (seqZ (z * R) R) with (Z.add (z * R) <$> seqZ 0 R) by (rewrite fmap_add_seqZ; f_equal; lia).
  rewrite list_fmap_bind. apply bind_ext. intros y _. apply Hrow.
Qed.

Lemma box_index x y z W R S : 0 <= x < W -> 0 <= y < R -> 0 <= z < S -> 0 <= (z * R + y) * W + x < W * R * S.
Proof.
  intros Hx Hy Hz. assert (H : 0 <= z * R + y <= S * R - 1) by nia. set (k := z * R + y) in *.
  assert (k * W <= (S * R - 1) * W) by nia. nia.
Qed.

Section Fragment.
Context (features : lupine_smemcpy_device) (device_storage : Z).
Context (c : lupine_htod_copy) (Hc : copy_wf c) (offset : Z) (Hoff : 0 <= offset < c_bytes c).

Local Abbreviation f := (fragment c offset fragment_bytes).

Lemma fragment_fits : fragment_ok c offset fragment_bytes f.
Proof. apply fragment_sound; [apply Hc|done|done]. Qed.

(** The box of an array is the bytes of the fragment. *)
Lemma box_cells array ring : c_use_cuda_memcpy c = true -> destination_array c = Some array ->
  box array c f ring = fragment_cells c offset (f_bytes f) ring.
Proof.
  intros Hu Ha. destruct fragment_fits as [_ Hb Hin Hbox]. destruct (Hbox Hu) as (Hw & Hr & Eb & Hi).
  destruct (Hi 0 ltac:(lia)) as (X0 & Y0 & Z0). rewrite Z.add_0_r, ?Z.mod_0_l, ?Z.div_0_l, ?Z.mod_0_l, ?Z.add_0_r in X0, Y0, Z0 by lia.
  pose proof Hc as [Hok _ _ _ _ _ _ Hx Hy Hz]. pose proof (x_of_bounds c offset (copy_width _ Hok)).
  pose proof (row_of_bounds c Hok offset). pose proof (slice_bound c Hok offset Hoff).
  assert (Hs : 0 <= slice_of c offset).
  { unfold slice_of, row_index_of. destruct Hok. repeat apply Z.div_pos; lia. }
  assert (HS : 0 <= f_slices f) by nia.
  unfold fragment_cells. rewrite Eb, <- box_flatten by lia. unfold box.
  rewrite X0, Y0, Z0 in * |-.
  apply bind_ext. intros z Hzz%elem_of_seqZ. apply bind_ext. intros y Hyy%elem_of_seqZ.
  apply list_fmap_ext. intros n x Hxx. apply lookup_seqZ in Hxx as [-> Hxx]. rewrite Z.add_0_l in *. f_equal.
  set (i := (z * f_rows f + y) * f_width f + Z.of_nat n).
  assert (E1 : i / f_width f = z * f_rows f + y) by (unfold i; rewrite div_shift, Z.div_small by lia; lia).
  assert (E2 : i mod f_width f = Z.of_nat n) by (rewrite Z.mod_eq, E1 by lia; unfold i; lia).
  assert (Hii : 0 <= i < f_bytes f) by (rewrite Eb; apply box_index; lia).
  destruct (Hi i Hii) as (Xi & Yi & Zi). unfold place_of. rewrite Ha, Xi, Yi, Zi, E1, E2.
  rewrite Z.mod_eq, div_shift, (Z.div_small y) by lia. rewrite !wrap64_id by (unfold is_u64; lia). f_equal; lia.
Qed.

(** A linear copy goes to consecutive addresses. *)
Lemma linear_cells ring : c_use_cuda_memcpy c = true -> destination_array c = None ->
  (fun i => (At (wrap64 (destination_at (smemcpy c) (f_offset f) + i)), ring i)) <$> seqZ 0 (f_bytes f) =
  fragment_cells c offset (f_bytes f) ring.
Proof.
  intros Hu Ha. destruct fragment_fits as [Eo Hb Hin _]. pose proof (wf_linear _ Hc Hu Ha) as Hl. rewrite Eo.
  apply list_fmap_ext. intros n i Hi. apply lookup_seqZ in Hi as [-> Hi]. rewrite Z.add_0_l. f_equal.
  unfold place_of. rewrite Ha. f_equal. unfold destination_at. pose proof (copy_rows _ (wf_ok _ Hc)).
  rewrite !Hl, !(Z.div_small _ (c_bytes c)), !Z.div_0_l by lia.
  rewrite wrap64_wrap64_add. f_equal. lia.
Qed.

(** A byte of the slot, by its address. *)
Lemma slot_byte (ring : Z -> byte) s i : 0 <= i < f_bytes f -> ring (wrap64 (wrap64 (s + i) - s)) = ring i.
Proof.
  intros Hi. destruct fragment_fits as [_ Hb _ _]. f_equal. unfold Z.sub. rewrite wrap64_wrap64_add.
  replace (s + i + - s) with i by lia. apply wrap64_id. assert (fragment_bytes < 2 ^ 64) by done. unfold is_u64. lia.
Qed.

(** What the kernels scatter. *)
Lemma scatter_cells ring : c_use_cuda_memcpy c = false ->
  bytes_at (scatter (fun a => ring (wrap64 (a - source (fragment_params device_storage c f)))) (fragment_params device_storage c f)) =
  fragment_cells c offset (f_bytes f) ring.
Proof.
  intros Hu. destruct fragment_fits as [Eo Hb Hin _]. unfold bytes_at, scatter, cells, fragment_cells.
  rewrite <- list_fmap_compose. apply list_fmap_ext. intros n i Hi. apply lookup_seqZ in Hi as [-> Hi].
  simpl in *. rewrite Z.add_0_l in *. unfold place_of. rewrite (wf_kernels _ Hc Hu). unfold load. simpl.
  rewrite Eo, slot_byte by lia. done.
Qed.

Lemma source_params_good ring l device : c_use_cuda_memcpy c = false ->
  lupine_smemcpy_prepare_descriptor (fragment_params device_storage c f) device = Some l ->
  exists accesses, lupine_smemcpy_async (fun a => ring (wrap64 (a - source (fragment_params device_storage c f)))) l
      = Some accesses /\ bytes_at (accesses ≫= writes) ≡ₚ fragment_cells c offset (f_bytes f) ring.
Proof.
  intros Hu Hl. destruct fragment_fits as [Eo Hb Hin _]. pose proof Hc as [Hok H1 H2 H3 H4 _ _ _ _ _].
  set (p := fragment_params _ _ _) in *. set (memory := fun a : Z => ring _).
  assert (fragment_bytes <= kMaximumBlocks * kThreadsPerBlock) by done.
  assert (Hgood : good_launch memory l p).
  { apply (prepared_good memory p device); simpl; rewrite ?Eo; try done; try (unfold is_u64 in *; lia).
    apply wrap64_range. }
  destruct Hgood as (accs & Ha & Hw & _).
  exists accs. split; [done|]. rewrite <- scatter_cells by done. unfold bytes_at. by apply fmap_Permutation.
Qed.

(** What [cuMemcpyHtoDAsync_v2] does in the contiguous case of the dispatcher. *)
Lemma contiguous_cells ring l device : c_use_cuda_memcpy c = false -> use_cuda_memcpy l = true ->
  lupine_smemcpy_prepare_descriptor (fragment_params device_storage c f) device = Some l ->
  (fun i => (At (wrap64 (destination (params l) + i)), ring i)) <$> seqZ 0 (f_bytes f) ≡ₚ
  fragment_cells c offset (f_bytes f) ring.
Proof.
  intros Hu Hm Hl. destruct (source_params_good ring l device Hu Hl) as (accs & Ha & <-).
  revert Ha. unfold lupine_smemcpy_async. rewrite Hm. intros [= <-].
  rewrite (contiguous_params _ _ _ Hl Hm). simpl. apply eq_subrelation; [apply _|].
  rewrite (fmap_writes _ (fun i => (wrap64 (destination_at (smemcpy c) (f_offset f) + i), ring i))).
  - unfold bytes_at. by rewrite <- list_fmap_compose.
  - intros i Hi%elem_of_seqZ. simpl. unfold load. simpl. by rewrite slot_byte by lia.
Qed.
(** What a step leaves behind when it ends with success. *)
Definition delivers (w : world) (cells : list (place * byte)) (result : Z) (w' : world) : Prop :=
  lane w' = lane w /\ fetches w' = fetches w /\
  (result = CUDA_SUCCESS -> performed w' ≡ₚ performed w ++ cells).

Lemma call_perform w w0 ws cells : same w0 w -> ws ≡ₚ cells ->
  wp (result ← call; (if result =? CUDA_SUCCESS then perform ws else mret tt) ;; mret result) (delivers w0 cells) w.
Proof.
  intros (E1 & E2 & E3) Hp. apply wp_bind, wp_quiet; [apply quiet_call|]. intros x w' (F1 & F2 & F3).
  unfold delivers, wp, mbind, T_bind. destruct (Z.eqb_spec x CUDA_SUCCESS); simpl; split_and!; try congruence.
  intros _. by rewrite F3, E3, Hp.
Qed.

(** A fragment that is copied with success has every byte at its place. *)
Lemma enqueue_fragment ring w :
  wp (lupine_enqueue_htod_fragment features device_storage c f ring)
    (delivers w (fragment_cells c offset (f_bytes f) ring)) w.
Proof.
  unfold lupine_enqueue_htod_fragment. destruct (c_use_cuda_memcpy c) eqn:Hu.
  { destruct (destination_array c) as [array|] eqn:Ha; apply call_perform; try done.
    - by rewrite (box_cells array ring Hu Ha).
    - by rewrite (linear_cells ring Hu Ha). }
  apply wp_bind. eapply wp_mono; [apply prepared_by|]. intros [e|l] w1 [Hw1 H]; simpl in H.
  { apply wp_ret. destruct Hw1 as (? & ? & ?). by split_and!. }
  destruct H as (device & Hl). destruct (use_cuda_memcpy l) eqn:Hm.
  { apply call_perform; [done|]. by apply (contiguous_cells ring l device). }
  apply wp_bind, wp_quiet; [apply quiet_module_function|]. intros found w2 Hw2.
  pose proof (same_trans _ _ _ Hw1 Hw2) as Hw. destruct (Z.eqb_spec found CUDA_SUCCESS); cbn [negb].
  - destruct (source_params_good ring l device Hu Hl) as (accs & Ha & Hcells). rewrite Ha. by apply call_perform.
  - apply wp_ret. destruct Hw as (? & ? & ?). by split_and!.
Qed.
End Fragment.

(** Consecutive fragments. *)
Lemma fragment_cells_app c offset n m (g : Z -> byte) : 0 <= n -> 0 <= m ->
  fragment_cells c offset (n + m) g =
  fragment_cells c offset n g ++ fragment_cells c (offset + n) m (fun i => g (n + i)).
Proof.
  intros Hn Hm. unfold fragment_cells. rewrite seqZ_app, fmap_app by done. f_equal.
  replace (seqZ (0 + n) m) with (Z.add n <$> seqZ 0 m) by (rewrite fmap_add_seqZ; f_equal; lia).
  rewrite <- list_fmap_compose. apply list_fmap_ext. intros k i _. simpl. by rewrite Z.add_assoc.
Qed.

Lemma fragment_cells_ext c offset n (g g' : Z -> byte) : (forall i, 0 <= i < n -> g i = g' i) ->
  fragment_cells c offset n g = fragment_cells c offset n g'.
Proof.
  intros H. apply list_fmap_ext. intros k i Hi. apply lookup_seqZ in Hi as [-> Hi]. f_equal. apply H. lia.
Qed.

(** *** Bytes that come with the request *)

Definition payload (l : list byte) (i : Z) : byte := nth (Z.to_nat i) l 0.

Section Pushed.
Context (features : lupine_smemcpy_device) (device_storage : Z) (c : lupine_htod_copy) (Hc : copy_wf c).

(** From [offset] on: the rest of the body is taken off the lane when it is there, and only a
    loop that has it all and meets no error ends with success. *)
Definition pushes (w : world) (offset result : Z) (r : Z) (w' : world) : Prop :=
  let rest := c_bytes c - offset in
  (rest <= Z.of_nat (length (lane w)) -> lane w' = drop (Z.to_nat rest) (lane w)) /\
  (r = CUDA_SUCCESS -> result = CUDA_SUCCESS /\ rest <= Z.of_nat (length (lane w)) /\
    performed w' ≡ₚ performed w ++ fragment_cells c offset rest (payload (lane w))).

(** A step of the loop between the read and the next turn. *)
Lemma push_fragment offset result bytes w : 0 <= offset < c_bytes c ->
  let f := fragment c offset fragment_bytes in
  wp (r ← (if result =? CUDA_SUCCESS
           then lupine_enqueue_htod_fragment features device_storage c f bytes else mret result);
      if r =? CUDA_SUCCESS then call else mret r)
    (fun r w' => lane w' = lane w /\ (r = CUDA_SUCCESS -> result = CUDA_SUCCESS /\
       performed w' ≡ₚ performed w ++ fragment_cells c offset (f_bytes f) bytes)) w.
Proof.
  intros Ho f. apply wp_bind. destruct (Z.eqb_spec result CUDA_SUCCESS) as [Er|Er].
  - eapply wp_mono; [apply enqueue_fragment; done|]. intros r w1 (E1 & E2 & E3).
    destruct (Z.eqb_spec r CUDA_SUCCESS) as [Hr|Hr]; [|by apply wp_ret].
    apply wp_quiet; [apply quiet_call|]. intros x w2 (F1 & F2 & F3). split; [congruence|]. intros _. split; [done|].
    rewrite F3. by apply E3.
  - apply wp_ret. destruct (Z.eqb_spec result CUDA_SUCCESS); [done|]. by apply wp_ret.
Qed.

Lemma pushes_end w offset result : c_bytes c - offset = 0 -> pushes w offset result result w.
Proof. intros Hz. unfold pushes. rewrite Hz. split; [done|]. intros ->. split_and!; [done|lia|by rewrite app_nil_r]. Qed.

(** A fragment taken off the lane and copied, and the rest. *)
Lemma pushes_step w w1 w' offset result r r' n : 0 <= n -> n <= c_bytes c - offset ->
  n <= Z.of_nat (length (lane w)) -> lane w1 = drop (Z.to_nat n) (lane w) ->
  (r = CUDA_SUCCESS -> result = CUDA_SUCCESS /\
     performed w1 ≡ₚ performed w ++ fragment_cells c offset n (payload (take (Z.to_nat n) (lane w)))) ->
  pushes w1 (offset + n) r r' w' -> pushes w offset result r' w'.
Proof.
  intros Hn Hle Hlen Hl Hr [H1 H2]. unfold pushes in *. rewrite Hl, length_drop in H1, H2.
  replace (c_bytes c - (offset + n)) with (c_bytes c - offset - n) in * by lia. split.
  - intros Hrest. rewrite H1, drop_drop by lia. f_equal. lia.
  - intros Hs. destruct (H2 Hs) as (H3 & H4 & H5). destruct (Hr H3) as [H6 H7]. split_and!; [done|lia|].
    rewrite H5, H7, <- app_assoc.
    replace (c_bytes c - offset) with (n + (c_bytes c - offset - n)) at 2 by lia. rewrite fragment_cells_app by lia.
    erewrite (fragment_cells_ext c offset n), (fragment_cells_ext c (offset + n)); [done| |]; intros i Hi; unfold payload.
    + rewrite !nth_lookup, lookup_drop. do 2 f_equal. lia.
    + rewrite !nth_lookup, lookup_take_lt by lia. done.
Qed.

Lemma push_loop_spec fuel : forall offset result w,
  0 <= offset -> 0 <= c_bytes c - offset <= Z.of_nat fuel ->
  wp (push_loop features device_storage fuel c offset result) (pushes w offset result) w.
Proof.
  induction fuel as [|fuel IH]; intros offset result w Ho Hf; cbn [push_loop]; [apply wp_ret, pushes_end; lia|].
  destruct (Z.ltb_spec offset (c_bytes c)) as [Hlt|Hge]; [|apply wp_ret, pushes_end; lia].
  set (f := fragment c offset fragment_bytes).
  destruct (fragment_fits c Hc offset ltac:(lia)) as [_ Hb Hin _]. fold f in Hb, Hin.
  apply wp_bind. unfold wp at 1, read. destruct (Z.ltb_spec (Z.of_nat (length (lane w))) (f_bytes f)); simpl.
  { apply wp_ret. split; [lia|done]. }
  apply wp_assoc. eapply wp_mono; [by apply push_fragment|]. intros r w1 [E1 E2]. fold f in E2. simpl in E1, E2.
  eapply wp_mono; [apply IH; lia|]. intros r' w'. by apply pushes_step; [lia..| |].
Qed.

Lemma pushes_same w w1 w2 w3 result r r' : same w w1 -> pushes w1 0 result r w2 -> same w2 w3 ->
  (r' = CUDA_SUCCESS -> r = CUDA_SUCCESS) -> pushes w 0 CUDA_SUCCESS r' w3.
Proof.
  unfold pushes. intros (-> & _ & ->) [H1 H2] (-> & _ & ->) Hr. split; [done|]. intros E.
  destruct (H2 (Hr E)) as (_ & H3 & H4). done.
Qed.

Lemma pushed_copy w : wp (lupine_copy_pushed_host_to_device features device_storage c) (pushes w 0 CUDA_SUCCESS) w.
Proof.
  pose proof (wf_bytes _ Hc) as Hn. unfold is_u64 in Hn. unfold lupine_copy_pushed_host_to_device.
  assert (Hw : same w w) by done. do 2 quiet_step Hw. destruct (Z.eqb_spec r0 CUDA_SUCCESS); cbn [negb].
  2: { apply wp_bind. unfold wp at 1, read. rewrite (proj1 Hw). unfold pushes. rewrite Z.sub_0_r.
       destruct (Z.ltb_spec (Z.of_nat (length (lane w))) (c_bytes c)); split; simpl; try done; lia. }
  do 5 quiet_step Hw. apply wp_bind. eapply wp_mono; [apply push_loop_spec; lia|]. intros result wn Hp.
  assert (Hwn : same wn wn) by done. do 2 quiet_step Hwn. apply wp_ret.
  eapply pushes_same; [done..|]. by destruct (Z.eqb_spec result CUDA_SUCCESS).
Qed.
End Pushed.

(** *** Bytes that are pulled from the client *)

Section Pulled.
Context (features : lupine_smemcpy_device) (device_storage : Z) (c : lupine_htod_copy) (Hc : copy_wf c).
Context (conn : Z) (undelivered : list lupine_undelivered_dtoh) (client : Z -> byte).
Context (Hrows : Forall (fun u => rows_ok (u_client u)) undelivered).

(** The bytes of the copy once every device-to-host copy is delivered. *)
Definition client_byte (i : Z) : byte := deliver conn undelivered client (source_at c i).

(** Every fetch to come is answered. *)
Definition answered (w : world) : Prop := Forall (eq true) (fetches w).

Definition pulls (w : world) (offset : Z) (r : Z) (w' : world) : Prop :=
  r = CUDA_SUCCESS ->
  performed w' ≡ₚ performed w ++ fragment_cells c offset (c_bytes c - offset) (fun i => client_byte (offset + i)).

Lemma fetch_result_answered w : answered w ->
  wp fetch_result (fun b w' => b = true /\ answered w' /\ performed w' = performed w) w.
Proof.
  unfold answered, wp, fetch_result. destruct (fetches w) as [|b bs] eqn:E; simpl; [by rewrite E|].
  by intros [-> H]%Forall_cons.
Qed.

Lemma fetch_answered f ring : (fetch conn c f undelivered client true ring).1 = 0.
Proof. unfold fetch. destruct (lupine_overlay_undelivered_dtoh _ _ _ _ _) as [r covered]. by destruct covered. Qed.

Lemma pulls_end w offset r : c_bytes c - offset = 0 -> pulls w offset r w.
Proof. intros Hz. unfold pulls. rewrite Hz. intros _. by rewrite app_nil_r. Qed.

Lemma pull_loop_spec fuel : forall offset ring w,
  0 <= offset -> 0 <= c_bytes c - offset <= Z.of_nat fuel -> answered w ->
  wp (pull_loop features device_storage conn undelivered client fuel c offset ring) (pulls w offset) w.
Proof.
  induction fuel as [|fuel IH]; intros offset ring w Ho Hf Hans; cbn [pull_loop]; [apply wp_ret, pulls_end; lia|].
  destruct (Z.ltb_spec offset (c_bytes c)) as [Hlt|Hge]; [|apply wp_ret, pulls_end; lia].
  set (f := fragment c offset fragment_bytes).
  destruct (fragment_fits c Hc offset ltac:(lia)) as [Eo Hb Hin _]. fold f in Eo, Hb, Hin.
  apply wp_bind, wp_quiet; [apply quiet_call|]. intros r1 w1 (_ & F1 & P1).
  destruct (Z.eqb_spec r1 CUDA_SUCCESS); cbn [negb]; [|by apply wp_ret; intros ?].
  apply wp_bind. eapply wp_mono; [apply fetch_result_answered; unfold answered; by rewrite F1|].
  intros b w2 (-> & F2 & P2). cbv zeta.
  match goal with |- context [fetch _ _ _ _ _ true ?ring] => set (slot := ring) end.
  pose proof (fetch_agrees conn c f undelivered client true slot (wf_ok _ Hc) Hrows ltac:(lia) (fetch_answered f slot)) as Hag.
  set (filled := (fetch _ _ _ _ _ _ _).2) in *.
  apply wp_bind. eapply wp_mono; [apply enqueue_fragment; [done|lia]|]. fold f. intros r3 w3 (_ & F3 & P3).
  destruct (Z.eqb_spec r3 CUDA_SUCCESS) as [Er|]; cbn [negb]; [|by apply wp_ret; intros ?].
  eapply wp_mono; [apply IH; [lia|lia|unfold answered; by rewrite F3]|]. intros r w' Hr E.
  rewrite (Hr E), (P3 Er), P2, P1, <- app_assoc.
  replace (c_bytes c - offset) with (f_bytes f + (c_bytes c - (offset + f_bytes f))) by lia.
  rewrite fragment_cells_app by lia.
  rewrite (fragment_cells_ext c offset (f_bytes f) filled (fun i => client_byte (offset + i))).
  - erewrite (fragment_cells_ext c (offset + f_bytes f)); [done|]. intros i _. cbv beta. f_equal. lia.
  - intros i Hi. rewrite (Hag i Hi), Eo. done.
Qed.

Lemma pulls_same w w1 w2 w3 r r' : same w w1 -> pulls w1 0 r w2 -> same w2 w3 ->
  (r' = CUDA_SUCCESS -> r = CUDA_SUCCESS) -> pulls w 0 r' w3.
Proof. unfold pulls. intros (_ & _ & ->) H (_ & _ & ->) Hr E. auto. Qed.

Lemma same_answered w w' : same w w' -> answered w -> answered w'.
Proof. unfold answered. by intros (_ & -> & _). Qed.

Lemma enqueue_client ring w : answered w ->
  wp (lupine_enqueue_client_htod_copy features device_storage conn undelivered client c ring) (pulls w 0) w.
Proof.
  intros Hans. pose proof (wf_bytes _ Hc) as Hn. unfold is_u64 in Hn. unfold lupine_enqueue_client_htod_copy.
  destruct (Z.eqb_spec (c_bytes c) 0); [apply wp_ret, pulls_end; lia|].
  assert (Hw : same w w) by done. do 3 quiet_step Hw.
  destruct (Z.eqb_spec r1 CUDA_SUCCESS); cbn [negb]; [|by apply wp_ret; intros ?].
  apply wp_bind. eapply wp_mono; [apply pull_loop_spec; [lia|lia|by eapply same_answered]|]. intros result wn Hp.
  destruct (Z.eqb_spec result CUDA_SUCCESS); cbn [negb].
  - assert (Hwn : same wn wn) by done. do 2 quiet_step Hwn. destruct (Z.eqb_spec r3 CUDA_SUCCESS); cbn [negb].
    + apply wp_quiet; [apply quiet_call|]. intros x w' H'. eapply pulls_same; [done|done|by eapply same_trans|done].
    + apply wp_bind, wp_quiet; [apply quiet_call|]. intros x w' _. by apply wp_ret; intros ?.
  - apply wp_bind, wp_quiet; [apply quiet_call|]. intros x w' _. by apply wp_ret; intros ?.
Qed.

Lemma client_copy ring w : answered w ->
  wp (lupine_copy_client_host_to_device features device_storage conn undelivered client c ring) (pulls w 0) w.
Proof.
  intros Hans. unfold lupine_copy_client_host_to_device. assert (Hw : same w w) by done. do 2 quiet_step Hw.
  destruct (Z.eqb_spec r0 CUDA_SUCCESS); cbn [negb]; [|by apply wp_ret; intros ?]. do 2 quiet_step Hw.
  apply wp_bind. unfold and_then. destruct (Z.eqb_spec r2 CUDA_SUCCESS).
  - eapply wp_mono; [apply enqueue_client; by eapply same_answered|]. intros result wn Hp.
    assert (Hwn : same wn wn) by done. quiet_step Hwn. apply wp_ret.
    eapply pulls_same; [done..|]. by destruct (Z.eqb_spec result CUDA_SUCCESS).
  - apply wp_ret. apply wp_bind, wp_quiet; [apply quiet_call|]. intros x w' _. apply wp_ret.
    destruct (Z.eqb_spec r2 CUDA_SUCCESS); [done|]. by intros ?.
Qed.
End Pulled.

(** ** Properties *)

(** C19: A copy whose bytes come with the request and that ends with success has put every byte
    of the request at the address, or in the cell of the array, that its row, slice and
    column have, and nothing anywhere else, whatever the shape and the number of fragments. *)
Theorem pushed_copy_delivers (features : lupine_smemcpy_device) (device_storage : Z) (c : lupine_htod_copy)
  (w : world) (H_copy : copy_wf c)
  (H_success : (lupine_copy_pushed_host_to_device features device_storage c w).1 = CUDA_SUCCESS) :
  performed (lupine_copy_pushed_host_to_device features device_storage c w).2 ≡ₚ
  performed w ++ fragment_cells c 0 (c_bytes c) (payload (lane w)).
Proof.
  destruct (pushed_copy features device_storage c H_copy w) as [_ H]. destruct (H H_success) as (_ & _ & E).
  by rewrite Z.sub_0_r in E.
Qed.

(** Four rows of two bytes on a device with the narrow kernels, after a byte of another copy. *)
Definition sample_push : lupine_htod_copy :=
  lupine_make_3d_htod_copy (Memcpy3D 0 0 0 1000 2 4 2 1 0 40960 None 64 8 2 2 2).

Definition sample_world : world := World [] [] [10; 11; 12; 13; 14; 15; 16; 17; 99] [(At 7, 5)].

Lemma sample_push_wf : copy_wf sample_push.
Proof. apply copy_3d_wf; simpl; done || lia. Qed.

Lemma pushed_copy_delivers_witness :
  performed (lupine_copy_pushed_host_to_device (Device 7 5 false) 65536 sample_push sample_world).2 ≡ₚ
  [(At 7, 5); (At 41026, 10); (At 41027, 11); (At 41090, 12); (At 41091, 13);
   (At 41538, 14); (At 41539, 15); (At 41602, 16); (At 41603, 17)].
Proof.
  apply (pushed_copy_delivers (Device 7 5 false) 65536 sample_push sample_world sample_push_wf).
  vm_compute. reflexivity.
Defined.

(** C20: Whatever the driver answers, a copy whose bytes come with the request takes exactly
    these bytes off the lane, if they arrive: the next request on the lane is found where it
    starts. *)
Theorem pushed_copy_consumes (features : lupine_smemcpy_device) (device_storage : Z) (c : lupine_htod_copy)
  (w : world) (H_copy : copy_wf c) (H_body : c_bytes c <= Z.of_nat (length (lane w))) :
  lane (lupine_copy_pushed_host_to_device features device_storage c w).2 = drop (Z.to_nat (c_bytes c)) (lane w).
Proof.
  destruct (pushed_copy features device_storage c H_copy w) as [H _]. rewrite Z.sub_0_r in H. by apply H.
Qed.

(** A driver error while the copy is prepared, and the next request on the lane. *)
Definition failing_world : world := World [0; 0; 0; 0; 0; 700] [] [10; 11; 12; 13; 14; 15; 16; 17; 99] [].

Lemma pushed_copy_consumes_witness :
  let r := lupine_copy_pushed_host_to_device (Device 7 5 false) 65536 sample_push failing_world in
  r.1 <> CUDA_SUCCESS /\ lane r.2 = [99].
Proof.
  split; [vm_compute; discriminate|].
  apply (pushed_copy_consumes (Device 7 5 false) 65536 sample_push failing_world sample_push_wf).
  vm_compute. discriminate.
Defined.

(** C18: A copy that pulls its bytes, with every fetch answered, and that ends with success has
    put at each place of the destination what the client's memory holds at the
    corresponding address once the device-to-host copies that have run are delivered. *)
Theorem pulled_copy_delivers (features : lupine_smemcpy_device) (device_storage conn : Z)
  (undelivered : list lupine_undelivered_dtoh) (client : Z -> byte) (c : lupine_htod_copy) (ring : Z -> byte)
  (w : world) (H_copy : copy_wf c) (H_rows : Forall (fun u => rows_ok (u_client u)) undelivered)
  (H_answered : Forall (eq true) (fetches w))
  (H_success : (lupine_copy_client_host_to_device features device_storage conn undelivered client c ring w).1 = CUDA_SUCCESS) :
  performed (lupine_copy_client_host_to_device features device_storage conn undelivered client c ring w).2 ≡ₚ
  performed w ++ fragment_cells c 0 (c_bytes c) (fun i => deliver conn undelivered client (source_at c i)).
Proof.
  pose proof (client_copy features device_storage c H_copy conn undelivered client H_rows ring w H_answered H_success) as E.
  by rewrite Z.sub_0_r in E.
Qed.

(** The copy of [Htod.sample_copy], whose last row is not delivered yet. *)
Lemma pulled_copy_delivers_witness :
  performed (lupine_copy_client_host_to_device (Device 8 0 false) 65536 7 [sample_undelivered] (fun a => a mod 100)
    sample_copy (fun _ => 0) (World [] [true] [] [])).2 ≡ₚ
  [(At 41026, 1); (At 41027, 2); (At 41028, 3); (At 41090, 9); (At 41091, 10); (At 41092, 11);
   (At 41538, 33); (At 41539, 34); (At 41540, 35); (At 41602, 200); (At 41603, 201); (At 41604, 202)].
Proof.
  apply (pulled_copy_delivers (Device 8 0 false) 65536 7 [sample_undelivered] (fun a => a mod 100) sample_copy
    (fun _ => 0) (World [] [true] [] [])).
  - apply copy_3d_wf; simpl; done || lia.
  - constructor; [|constructor]. split; [vm_compute; done..|]. simpl. lia.
  - constructor; [done|constructor].
  - vm_compute. reflexivity.
Defined.

(** A linear copy of at most a fragment. *)
Lemma one_fragment destination source n : 0 < n <= fragment_bytes ->
  fragment (lupine_make_linear_htod_copy destination source n) 0 fragment_bytes = Fragment 0 n 0 0 0 n 1 1.
Proof.
  intros Hn. assert (H1 : 1 <= fragment_bytes / n) by (apply Z.div_le_lower_bound; lia).
  unfold fragment, x_of, row_of, slice_of, row_index_of. cbn -[fragment_bytes Z.mul Z.div].
  rewrite !Z.div_0_l, ?Z.mul_0_l, ?Z.sub_0_r, !Z.mul_1_r by lia. cbn -[fragment_bytes Z.mul Z.div].
  destruct (Z.ltb_spec fragment_bytes n); [lia|]. destruct (Z.ltb_spec (fragment_bytes / n) 1); [lia|].
  cbn -[fragment_bytes Z.mul Z.div]. rewrite (Z.min_r _ 1) by lia. by rewrite Z.mul_1_r.
Qed.

(** A fetch that fails is only logged: the copy ends with success and what is copied is
    whatever the staging ring held before, for any linear copy of one fragment. *)
Theorem failed_fetch_copies_stale (features : lupine_smemcpy_device) (device_storage conn : Z) (client : Z -> byte)
  (destination source n : Z) (ring : Z -> byte) (H_n : 0 < n <= fragment_bytes) :
  let c := lupine_make_linear_htod_copy destination source n in
  lupine_copy_client_host_to_device features device_storage conn [] client c ring (World [] [false] [] []) =
  (CUDA_SUCCESS,
   World [] [] [] ((fun i => (At (wrap64 (wrap64 destination + i)), ring (Z.land (wrap64 destination) 15 + i))) <$> seqZ 0 n)).
Proof.
  intros c. pose proof (one_fragment destination source n H_n) as Hf. fold c in Hf.
  assert (Hd : destination_at (smemcpy c) 0 = wrap64 destination).
  { unfold destination_at. simpl. rewrite Z.div_0_l by lia. simpl. f_equal. lia. }
  set (w' := World [] [] [] _).
  assert (Hl : pull_loop features device_storage conn [] client (S (Z.to_nat (n - 1))) c 0 ring (World [] [false] [] []) =
    (CUDA_SUCCESS, w')).
  { cbn [pull_loop]. change (c_bytes c) with n. destruct (Z.ltb_spec 0 n); [|lia]. rewrite Hf.
    unfold lupine_enqueue_htod_fragment, ring_offset, mbind, T_bind. cbn -[pull_loop c destination_at Z.land].
    change (c_use_cuda_memcpy c) with true. change (destination_array c) with (@None Z).
    cbn -[pull_loop c destination_at Z.land]. rewrite !Hd.
    destruct (Z.to_nat (n - 1)); cbn [pull_loop]; [done|]. change (c_bytes c) with n. by rewrite Z.ltb_irrefl. }
  unfold lupine_copy_client_host_to_device, lupine_enqueue_client_htod_copy.
  change (c_bytes c) with n. destruct (Z.eqb_spec n 0); [lia|].
  replace (Z.to_nat n) with (S (Z.to_nat (n - 1))) by lia.
  unfold lupine_prepare_htod_copy. change (c_use_cuda_memcpy c) with true.
  unfold mbind, T_bind. cbn -[pull_loop c]. rewrite Hl. done.
Qed.

(** Four stale bytes. *)
Lemma failed_fetch_copies_stale_witness :
  lupine_copy_client_host_to_device (Device 8 0 false) 65536 7 [] (fun _ => 1) (lupine_make_linear_htod_copy 4096 1000 4)
    (fun _ => 0) (World [] [false] [] []) =
  (CUDA_SUCCESS, World [] [] [] [(At 4096, 0); (At 4097, 0); (At 4098, 0); (At 4099, 0)]).
Proof.
  apply (failed_fetch_copies_stale (Device 8 0 false) 65536 7 (fun _ => 1) 4096 1000 4 (fun _ => 0)).
  unfold fragment_bytes. lia.
Defined.
