(* ===== verification/DeviceIoctl.v ===== *)
(** * Proxies of device files

    [device_ioctl_preload.cpp], [device_ioctl_proxy.cpp] and [device_ioctl_client.cpp]: open,
    close, the dup family and ioctl of the application are interposed; a descriptor of
    /dev/nvidia-uvm or /dev/nvidiactl stands for a descriptor of a server, which the server
    keeps under a token ([device_ioctl_server.cpp]).  Behind it is a memfd in the kernel's
    table and an entry in a registry of shared proxies, whose last reference releases the
    token.

    Each section under the registry's mutex is one step, with the system calls that the code
    makes beside it outside the mutex (the memfd of a new proxy, the lookup and the native
    close of a descriptor), and an ioctl is two, one before and one after its request, with
    any steps of other threads between them.  The kernel's calls
    are modelled as far as the proxy needs them: the lowest free descriptor is taken, close
    frees the descriptor also when it reports an error, and close-on-exec flags are left
    out. *)
From S2P Require Import Prelude.

Definition EIO : Z := 5.
Definition EBADF : Z := 9.
Definition EFAULT : Z := 14.
Definition EINVAL : Z := 22.
Definition EMFILE : Z := 24.
Definition ENOTTY : Z := 25.
Definition ENOTSUP : Z := 95.

Definition O_CREAT : Z := 64.
Definition O_EXCL : Z := 128.
Definition O_TRUNC : Z := 512.
Definition O_TMPFILE : Z := 4259840.
Definition O_CLOEXEC : Z := 524288.

(** A result, or -1 with [errno]. *)
Inductive ret := Value (v : Z) | Errno (e : Z).

(** ** The kernel's table of descriptors

    [A] is what descriptors refer to. *)

Record os (A : Type) := Os { files : gmap Z A; limit : Z }.
Arguments Os {A}.
Arguments files {A}.
Arguments limit {A}.

Section Kernel.
Context {A : Type}.

Definition lowest (from : Z) (s : os A) : option Z :=
  find (fun fd => bool_decide (files s !! fd = None)) (seqZ from (limit s - from)).

Definition set_file (fd : Z) (f : A) (s : os A) : os A := Os (<[fd := f]> (files s)) (limit s).

Definition sys_open (f : A) (s : os A) : ret * os A :=
  match lowest 0 s with
  | None => (Errno EMFILE, s)
  | Some fd => (Value fd, set_file fd f s)
  end.

(** [fails] is the error that close reports for an open descriptor. *)
Definition sys_close (fd : Z) (fails : option Z) (s : os A) : ret * os A :=
  match files s !! fd with
  | None => (Errno EBADF, s)
  | Some _ => (match fails with None => Value 0 | Some e => Errno e end, Os (delete fd (files s)) (limit s))
  end.

(** [F_DUPFD] and [F_DUPFD_CLOEXEC]. *)
Definition sys_dupfd (fd from : Z) (s : os A) : ret * os A :=
  match files s !! fd with
  | None => (Errno EBADF, s)
  | Some f =>
      if (from <? 0) || (limit s <=? from) then (Errno EINVAL, s)
      else match lowest from s with
           | None => (Errno EMFILE, s)
           | Some n => (Value n, set_file n f s)
           end
  end.

(** [F_GETFD]. *)
Definition sys_getfd (fd : Z) (s : os A) : ret :=
  match files s !! fd with None => Errno EBADF | Some _ => Value 0 end.

Definition sys_dup3 (fd target flags : Z) (s : os A) : ret * os A :=
  if negb (Z.land flags (Z.lnot O_CLOEXEC) =? 0) || (fd =? target) then (Errno EINVAL, s)
  else if (target <? 0) || (limit s <=? target) then (Errno EBADF, s)
  else match files s !! fd with
       | None => (Errno EBADF, s)
       | Some f => (Value target, set_file target f s)
       end.
End Kernel.

(** ** The server's descriptors *)

Record descriptor := Descriptor { d_fd : Z; d_uvm : bool }.

Record server := Server { table : gmap Z descriptor; next_token : Z }.

(** The token, zero with [errno] when there is none; [duplicate] is what fcntl returns. *)
Definition retain (duplicate : ret) (uvm : bool) (s : server) : Z * Z * server :=
  match duplicate with
  | Errno e => (0, e, s)
  | Value fd =>
      if 4096 <=? Z.of_nat (size (table s)) then (0, EMFILE, s)
      else (next_token s, 0,
            Server (<[next_token s := Descriptor fd uvm]> (table s)) (wrap64 (next_token s + 1)))
  end.

(** [native] is what [find_native_fd] returns. *)
Definition handle_lupineDeviceOpen (kind : Z) (native duplicate : ret) (s : server) : Z * Z * server :=
  if kind <=? 1 then
    match native with
    | Errno e => (0, e, s)
    | Value _ =>
        let '(token, errno, s) := retain duplicate (kind =? 1) s in
        (token, if token =? 0 then errno else 0, s)
    end
  else (0, EINVAL, s).

Definition handle_lupineDeviceClose (token : Z) (s : server) : server :=
  Server (delete token (table s)) (next_token s).

(** [lupine_uvm]. *)
Definition uvm_map : Z := 33.
Definition uvm_free : Z := 34.
Definition uvm_unmap : Z := 66.
Definition uvm_reserve : Z := 73.
Definition uvm_sparse : Z := 74.
Definition map_size : Z := 9264.
Definition rm_fd_offset : Z := 9248.

#[global] Arguments map_size : simpl never.
#[global] Arguments rm_fd_offset : simpl never.

Record schema := Schema { s_size : Z; s_status : Z }.

Definition describe (command : Z) : schema :=
  if command =? uvm_map then Schema map_size (map_size - 4)
  else if command =? uvm_free then Schema 16 8
  else if command =? uvm_reserve then Schema 24 16
  else if (command =? uvm_unmap) || (command =? uvm_sparse) then Schema 40 32
  else Schema 0 0.

Definition get_field (n : nat) (buffer : list byte) (offset : Z) : Z :=
  le_val (take n (drop (Z.to_nat offset) buffer)).

Definition put (buffer : list byte) (offset : Z) (value : list byte) : list byte :=
  take (Z.to_nat offset) buffer ++ value ++ drop (Z.to_nat offset + length value) buffer.

(** The driver's ioctl: the result and the buffer it leaves. *)
Class UvmDriver := uvm_ioctl : Z -> Z -> list byte -> ret * list byte.

(** -1 is its only negative result. *)
Class UvmDriverLaws `{UvmDriver} := ioctl_result fd command buffer v :
  (uvm_ioctl fd command buffer).1 = Value v -> 0 <= v.

(** Result, [errno] and buffer of the answer; [None] closes the connection. *)
Definition handle_lupineDeviceIoctl `{UvmDriver} (token command size rm_token : Z) (buffer : list byte) (s : server)
    : option (Z * Z * list byte) :=
  let layout := describe command in
  if (s_size layout =? 0) || negb (size =? s_size layout) then None
  else
    match table s !! token with
    | None => Some (-1, EBADF, buffer)
    | Some fd =>
        if negb (d_uvm fd) then Some (-1, EBADF, buffer)
        else if command =? uvm_map then
          match table s !! rm_token with
          | None => Some (-1, EBADF, buffer)
          | Some rm =>
              if d_uvm rm then Some (-1, EBADF, buffer)
              else
                match uvm_ioctl (d_fd fd) command (put buffer rm_fd_offset (le_bytes 4 (d_fd rm))) with
                | (Value result, buffer) => Some (result, 0, buffer)
                | (Errno e, buffer) => Some (-1, e, buffer)
                end
          end
        else
          match uvm_ioctl (d_fd fd) command buffer with
          | (Value result, buffer) => Some (result, 0, buffer)
          | (Errno e, buffer) => Some (-1, e, buffer)
          end
    end.

(** ** The client *)

Record lupine_device_proxy := Proxy { route : Z; token : Z; uvm : bool }.
#[export] Instance proxy_eq_dec : EqDecision lupine_device_proxy.
Proof. solve_decision. Defined.

Inductive file := Memfd | File (n : Z).

(** An ioctl between its two steps, with the proxies that it holds. *)
Record call := Call {
  c_proxy : lupine_device_proxy;
  c_rm : option lupine_device_proxy;
  c_command : Z;
  c_buffer : list byte;
  c_original_rm_fd : Z }.

(** [process] is the process that made the registry, [getpid] the one that runs. *)
Record client := Client {
  sys : os file;
  process : Z;
  getpid : Z;
  descriptors : gmap Z lupine_device_proxy;
  calls : list call }.

(** The client and its servers, by the identity of a route. *)
Record world := World { app : client; servers : Z -> server }.

Definition with_app (c : client) (w : world) : world := World c (servers w).
Definition with_sys (s : os file) (c : client) : client := Client s (process c) (getpid c) (descriptors c) (calls c).
Definition with_descriptors (d : gmap Z lupine_device_proxy) (c : client) : client :=
  Client (sys c) (process c) (getpid c) d (calls c).
Definition with_calls (l : list call) (c : client) : client :=
  Client (sys c) (process c) (getpid c) (descriptors c) l.
Definition with_server (r : Z) (s : server) (w : world) : world :=
  World (app w) (fun r' => if r' =? r then s else servers w r').

(** What becomes of a request. *)
Inductive fate := Delivered | Unsent | Unanswered.

Definition lupine_device_proxy_remote_close (r t : Z) (f : fate) (w : world) : world :=
  match f with
  | Unsent => w
  | _ => with_server r (handle_lupineDeviceClose t (servers w r)) w
  end.

Definition call_refs (c : call) : list lupine_device_proxy := c_proxy c :: option_list (c_rm c).

Definition referenced (p : lupine_device_proxy) (c : client) : Prop :=
  p ∈ calls c ≫= call_refs \/ exists fd, descriptors c !! fd = Some p.

Lemma referenced_exists p c :
  p ∈ calls c ≫= call_refs \/ map_Exists (fun _ q => q = p) (descriptors c) <-> referenced p c.
Proof.
  unfold referenced. split; (intros [H|H]; [by left|right]).
  - destruct H as (fd & q & H & ->). by exists fd.
  - destruct H as (fd & H). by exists fd, p.
Qed.

#[export] Instance referenced_dec p c : Decision (referenced p c).
Proof.
  destruct (decide (p ∈ calls c ≫= call_refs \/ map_Exists (fun _ q => q = p) (descriptors c))) as [H|H];
    [left|right]; by rewrite <- referenced_exists.
Defined.

(** A reference of the shared pointer goes away; the last one runs the deleter. *)
Definition release (p : lupine_device_proxy) (f : fate) (w : world) : world :=
  if decide (referenced p (app w)) then w else lupine_device_proxy_remote_close (route p) (token p) f w.

Definition release_option (p : option lupine_device_proxy) (f : fate) (w : world) : world :=
  match p with None => w | Some p => release p f w end.

Definition lupine_device_proxy_get (fd : Z) (c : client) : option lupine_device_proxy :=
  if process c =? getpid c then descriptors c !! fd else None.

Definition emplace (fd : Z) (p : lupine_device_proxy) (d : gmap Z lupine_device_proxy) : gmap Z lupine_device_proxy :=
  match d !! fd with None => <[fd := p]> d | Some _ => d end.

Definition lupine_device_proxy_create (p : lupine_device_proxy) (f : fate) (w : world) : ret * world :=
  let c := app w in
  if negb (process c =? getpid c) then (Errno ENOTSUP, w)
  else
    match sys_open Memfd (sys c) with
    | (Errno e, _) => (Errno e, w)
    | (Value fd, s) =>
        (Value fd, release p f (with_app (with_descriptors (emplace fd p (descriptors c)) (with_sys s c)) w))
    end.

Definition lupine_device_proxy_close (fd : Z) (fails : option Z) (f : fate) (w : world) : ret * world :=
  let c := app w in
  let '(result, s) := sys_close fd fails (sys c) in
  if negb (process c =? getpid c) then (result, with_app (with_sys s c) w)
  else
    let removed := descriptors c !! fd in
    (result, release_option removed f (with_app (with_descriptors (delete fd (descriptors c)) (with_sys s c)) w)).

(** [F_GETFD] of a descriptor that is duplicated to itself. *)
Definition same_fd (fd : Z) (c : client) : ret :=
  match sys_getfd fd (sys c) with Errno e => Errno e | Value _ => Value fd end.

Definition lupine_device_proxy_dup (fd target flags : Z) (fixed : bool) (f : fate) (w : world) : ret * world :=
  let c := app w in
  if fixed && (fd =? target) && (flags =? 0) then (same_fd fd c, w)
  else
    let '(result, s) := if fixed then sys_dup3 fd target flags (sys c) else sys_dupfd fd 0 (sys c) in
    if negb (process c =? getpid c) then (result, with_app (with_sys s c) w)
    else
      match result with
      | Errno e => (Errno e, w)
      | Value n =>
          let owner := descriptors c !! fd in
          let replaced := descriptors c !! n in
          let d := delete n (descriptors c) in
          let d := match owner with None => d | Some p => emplace n p d end in
          (Value n, release_option replaced f (with_app (with_descriptors d (with_sys s c)) w))
      end.

(** The entry point passes the two duplicating commands only. *)
Definition lupine_device_proxy_fcntl (fd argument : Z) (w : world) : ret * world :=
  let c := app w in
  let '(result, s) := sys_dupfd fd argument (sys c) in
  if negb (process c =? getpid c) then (result, with_app (with_sys s c) w)
  else
    match result with
    | Errno e => (Errno e, w)
    | Value n =>
        let d := match descriptors c !! fd with None => descriptors c | Some p => emplace n p (descriptors c) end in
        (Value n, with_app (with_descriptors d (with_sys s c)) w)
    end.

(** [r] is the route of the current context, [None] the local one; [n] names the file that a
    local open gives; [native] and [duplicate] are the server's, [f] and [f'] the fates of the
    request and of the release after a failure. *)
Definition lupine_device_open (kind flags : Z) (r : option Z) (n : Z) (native duplicate : ret) (f f' : fate) (w : world)
    : ret * world :=
  if negb (Z.land flags (Z.lor O_CREAT (Z.lor O_TRUNC O_EXCL)) =? 0) || (Z.land flags O_TMPFILE =? O_TMPFILE)
  then (Errno EINVAL, w)
  else
    match r with
    | None => let '(result, s) := sys_open (File n) (sys (app w)) in (result, with_app (with_sys s (app w)) w)
    | Some r =>
        match f with
        | Unsent => (Errno EIO, w)
        | _ =>
            let '(token, error, s) := handle_lupineDeviceOpen kind native duplicate (servers w r) in
            let w := with_server r s w in
            match f with
            | Unanswered => (Errno EIO, w)
            | _ =>
                if negb (error =? 0) then (Errno error, w)
                else
                  match lupine_device_proxy_create (Proxy r token (kind =? 1)) f' w with
                  | (Errno e, w) => (Errno e, lupine_device_proxy_remote_close r token f' w)
                  | (Value fd, w) => (Value fd, w)
                  end
            end
        end
    end.

(** *** The interposed open

    [depth] is the depth of native CUDA calls of the thread, [env] LUPINE_SERVER. *)

Definition uvm_path : string := "/dev/nvidia-uvm".

Definition is_remote_device (depth : Z) (env : option string) (path : string) : bool :=
  if negb (depth =? 0) then false
  else
    match env with
    | None => false
    | Some server => bool_decide (server <> "") && (bool_decide (path = uvm_path) || bool_decide (path = "/dev/nvidiactl"))
    end%string.

(** The path as [lupine_device_open] sends it. *)
Definition device_kind (path : string) : Z := if decide (path = uvm_path) then 1 else 0.

Definition open_device (depth : Z) (env : option string) (path : string) (flags : Z) (r : option Z) (n : Z)
    (native duplicate : ret) (f f' : fate) (w : world) : ret * world :=
  if is_remote_device depth env path
  then lupine_device_open (device_kind path) flags r n native duplicate f f' w
  else let '(result, s) := sys_open (File n) (sys (app w)) in (result, with_app (with_sys s (app w)) w).

(** *** ioctl *)

(** The checks of [lupine_device_ioctl] before its request; [argument] is the memory at the
    pointer, if it can be read, and [get] the lookup of a proxy. *)
Definition ioctl_check (get : Z -> option lupine_device_proxy) (fd command : Z) (argument : option (Z -> byte))
    : Z + call :=
  let layout := describe command in
  match get fd with
  | None => inl ENOTTY
  | Some proxy =>
      if negb (uvm proxy) || (s_size layout =? 0) then inl ENOTTY
      else
        match argument with
        | None => inl EFAULT
        | Some memory =>
            let buffer := memory <$> seqZ 0 (s_size layout) in
            if command =? uvm_map then
              let original := sint32 (get_field 4 buffer rm_fd_offset) in
              match get original with
              | None => inl EBADF
              | Some rm =>
                  if uvm rm || negb (route rm =? route proxy) then inl EBADF
                  else inr (Call proxy (Some rm) command buffer original)
              end
            else inr (Call proxy None command buffer (-1))
        end
  end.

(** The first step of an ioctl. *)
Definition ioctl_enter (fd command : Z) (argument : option (Z -> byte)) (w : world) : ret * world :=
  let c := app w in
  match ioctl_check (fun fd => lupine_device_proxy_get fd c) fd command argument with
  | inl e => (Errno e, w)
  | inr call => (Value 0, with_app (with_calls (calls c ++ [call]) c) w)
  end.

(** The interposed ioctl; [None] when the call goes to the kernel. *)
Definition lupine_ioctl_entry (fd command : Z) (argument : option (Z -> byte)) (w : world) : option (ret * world) :=
  match lupine_device_proxy_get fd (app w) with
  | None => None
  | Some _ => Some (if 2 ^ 32 - 1 <? command then (Errno ENOTTY, w) else ioctl_enter fd command argument w)
  end.

(** The changes to the routing of device pointers. *)
Inductive bookkeeping := NoteAllocation (address size route : Z) | ForgetOwner (address : Z).

Definition ioctl_notes (c : call) (result : Z) (buffer : list byte) : list bookkeeping :=
  let layout := describe (c_command c) in
  if (result =? 0) && (get_field 4 buffer (s_status layout) =? 0) then
    let address := get_field 8 buffer 0 in
    (if (c_command c =? uvm_map) || (c_command c =? uvm_sparse)
     then [NoteAllocation address (get_field 8 buffer 8) (route (c_proxy c))] else []) ++
    (if c_command c =? uvm_free then [ForgetOwner address] else [])
  else [].

(** What the application sees of an ioctl: the result and, when its argument was written, the
    bytes. *)
Record outcome := Outcome { o_result : ret; o_argument : option (list byte); o_notes : list bookkeeping }.

Definition rm_token (c : call) : Z := match c_rm c with None => 0 | Some rm => token rm end.

Definition ioctl_answer `{UvmDriver} (c : call) (f : fate) (writable : bool) (w : world) : outcome :=
  let size := s_size (describe (c_command c)) in
  match f with
  | Delivered =>
      match handle_lupineDeviceIoctl (token (c_proxy c)) (c_command c) size (rm_token c) (c_buffer c)
              (servers w (route (c_proxy c))) with
      | None => Outcome (Errno EIO) None []
      | Some (result, error, buffer) =>
          let buffer := if c_command c =? uvm_map then put buffer rm_fd_offset (le_bytes 4 (c_original_rm_fd c))
                        else buffer in
          if negb writable then Outcome (Errno EFAULT) None []
          else Outcome (if result <? 0 then Errno error else Value result) (Some buffer) (ioctl_notes c result buffer)
      end
  | _ => Outcome (Errno EIO) None []
  end.

(** The request of the call at position [i], and the end of its references. *)
Definition ioctl_leave `{UvmDriver} (i : nat) (f f' : fate) (writable : bool) (w : world) : option (outcome * world) :=
  c ← calls (app w) !! i;
  let o := ioctl_answer c f writable w in
  let w := with_app (with_calls (delete i (calls (app w))) (app w)) w in
  Some (o, release (c_proxy c) f' (release_option (c_rm c) f' w)).

(** *** The interposed functions *)

Definition close (fd : Z) (fails : option Z) (f : fate) (w : world) : ret * world :=
  match lupine_device_proxy_get fd (app w) with
  | Some _ => lupine_device_proxy_close fd fails f w
  | None => let '(result, s) := sys_close fd fails (sys (app w)) in (result, with_app (with_sys s (app w)) w)
  end.

Definition dup (fd : Z) (f : fate) : world -> ret * world := lupine_device_proxy_dup fd (-1) 0 false f.
Definition dup2 (fd target : Z) (f : fate) : world -> ret * world := lupine_device_proxy_dup fd target 0 true f.

Definition dup3 (fd target flags : Z) (f : fate) (w : world) : ret * world :=
  if fd =? target then (Errno EINVAL, w) else lupine_device_proxy_dup fd target flags true f w.

(** mmap of a proxy; [None] when the call goes to the kernel. *)
Definition mmap (anonymous : bool) (fd : Z) (w : world) : option ret :=
  if negb anonymous && bool_decide (is_Some (lupine_device_proxy_get fd (app w))) then Some (Errno 19) else None.

(** A call of the application, with the answers of its surroundings. *)
Inductive op :=
| OpNative (n : Z)
| OpOpen (depth : Z) (env : option string) (path : string) (flags : Z) (r : option Z) (n : Z)
    (native duplicate : ret) (f f' : fate)
| OpClose (fd : Z) (fails : option Z) (f : fate)
| OpDup (fd : Z) (f : fate)
| OpDup2 (fd target : Z) (f : fate)
| OpDup3 (fd target flags : Z) (f : fate)
| OpFcntl (fd argument : Z)
| OpEnter (fd command : Z) (argument : option (Z -> byte))
| OpLeave (i : nat) (f f' : fate) (writable : bool).

Definition step `{UvmDriver} (o : op) (w : world) : ret * world :=
  match o with
  | OpNative n => let '(result, s) := sys_open (File n) (sys (app w)) in (result, with_app (with_sys s (app w)) w)
  | OpOpen depth env path flags r n native duplicate f f' =>
      open_device depth env path flags r n native duplicate f f' w
  | OpClose fd fails f => close fd fails f w
  | OpDup fd f => dup fd f w
  | OpDup2 fd target f => dup2 fd target f w
  | OpDup3 fd target flags f => dup3 fd target flags f w
  | OpFcntl fd argument => lupine_device_proxy_fcntl fd argument w
  | OpEnter fd command argument => ioctl_enter fd command argument w
  | OpLeave i f f' writable =>
      match ioctl_leave i f f' writable w with
      | None => (Errno EINVAL, w)
      | Some (o, w) => (o_result o, w)
      end
  end.

Fixpoint run `{UvmDriver} (ops : list op) (w : world) : list ret * world :=
  match ops with
  | [] => ([], w)
  | o :: ops => let '(r, w) := step o w in let '(rs, w) := run ops w in (r :: rs, w)
  end.

(** ** The specification

    A device that is open through a server is a file description like any other: the calls
    do to a table of descriptions what the kernel's own calls do. *)

Inductive desc := Native (f : file) | Device (p : lupine_device_proxy).

(** The table that the application sees. *)
Definition view (c : client) : os desc :=
  Os (map_imap (fun fd f => Some (match descriptors c !! fd with Some p => Device p | None => Native f end))
        (files (sys c))) (limit (sys c)).

Definition device (k : os desc) (fd : Z) : option lupine_device_proxy :=
  match files k !! fd with Some (Device p) => Some p | _ => None end.

(** Descriptors and calls in flight. *)
Definition spec_state : Type := os desc * list call.

Definition abs (w : world) : spec_state := (view (app w), calls (app w)).

Definition unused (p : lupine_device_proxy) (k : spec_state) : Prop :=
  (forall fd, files k.1 !! fd <> Some (Device p)) /\ p ∉ k.2 ≫= call_refs.

Definition table_op (m : os desc -> ret * os desc) (r : ret) (k k' : spec_state) : Prop :=
  (r, k'.1) = m k.1 /\ k'.2 = k.2.

(** An open of a device, on the local route or on another. *)
Definition opens (rt : option Z) (kind : bool) (n : Z) (r : ret) (k k' : spec_state) : Prop :=
  match rt with
  | None => table_op (sys_open (Native (File n))) r k k'
  | Some rt => exists p, route p = rt /\ uvm p = kind /\ unused p k /\ table_op (sys_open (Device p)) r k k'
  end.

Definition kernel (o : op) (r : ret) (k k' : spec_state) : Prop :=
  match o with
  | OpNative n => table_op (sys_open (Native (File n))) r k k'
  | OpOpen depth env path _ rt n _ _ _ _ =>
      if is_remote_device depth env path
      then (exists e, r = Errno e /\ k' = k) \/ opens rt (device_kind path =? 1) n r k k'
      else table_op (sys_open (Native (File n))) r k k'
  | OpClose fd fails _ => table_op (sys_close fd fails) r k k'
  | OpDup fd _ => table_op (sys_dupfd fd 0) r k k'
  | OpDup2 fd target _ =>
      if fd =? target
      then k' = k /\ r = match sys_getfd fd k.1 with Errno e => Errno e | Value _ => Value fd end
      else table_op (sys_dup3 fd target 0) r k k'
  | OpDup3 fd target flags _ => table_op (sys_dup3 fd target flags) r k k'
  | OpFcntl fd argument => table_op (sys_dupfd fd argument) r k k'
  | OpEnter fd command argument =>
      match ioctl_check (device k.1) fd command argument with
      | inl e => r = Errno e /\ k' = k
      | inr c => r = Value 0 /\ k' = (k.1, k.2 ++ [c])
      end
  | OpLeave i _ _ _ => k' = (k.1, delete i k.2)
  end.

Fixpoint kernel_run (ops : list op) (rs : list ret) (k k' : spec_state) : Prop :=
  match ops, rs with
  | [], [] => k' = k
  | o :: ops, r :: rs => exists k1, kernel o r k k1 /\ kernel_run ops rs k1 k'
  | _, _ => False
  end.

(** ** The invariant *)

Definition call_ok (c : call) : Prop :=
  uvm (c_proxy c) = true /\ s_size (describe (c_command c)) <> 0 /\
  Z.of_nat (length (c_buffer c)) = s_size (describe (c_command c)) /\
  if c_command c =? uvm_map
  then c_original_rm_fd c = sint32 (get_field 4 (c_buffer c) rm_fd_offset) /\
       exists rm, c_rm c = Some rm /\ uvm rm = false /\ route rm = route (c_proxy c)
  else c_rm c = None.

(** A reference of the registry, of a call in flight or of a variable. *)
Definition in_use (loose : list lupine_device_proxy) (c : client) (p : lupine_device_proxy) : Prop :=
  referenced p c \/ p ∈ loose.

(** [loose] are proxies that variables refer to; [ideal]: no request was lost; [n] opens are
    still possible before tokens run out. *)
Record inv (ideal : bool) (n : Z) (loose : list lupine_device_proxy) (w : world) : Prop := Inv {
  inv_process : process (app w) = getpid (app w);
  inv_open : forall fd p, descriptors (app w) !! fd = Some p -> is_Some (files (sys (app w)) !! fd);
  inv_calls : Forall call_ok (calls (app w));
  inv_live : forall p, in_use loose (app w) p ->
    exists d, table (servers w (route p)) !! token p = Some d /\ d_uvm d = uvm p;
  inv_exact : ideal = true -> forall r t, is_Some (table (servers w r) !! t) ->
    exists p, in_use loose (app w) p /\ route p = r /\ token p = t;
  inv_tokens : forall r t, is_Some (table (servers w r) !! t) -> 0 < t < next_token (servers w r);
  inv_room : forall r, 0 < next_token (servers w r) /\ next_token (servers w r) + n < 2 ^ 64 }.

(** The requests of a call were not lost. *)
Definition ideal_op (o : op) : bool :=
  let ok f := match f with Delivered => true | _ => false end in
  match o with
  | OpOpen _ _ _ _ _ _ _ _ f f' => ok f && ok f'
  | OpClose _ _ f | OpDup _ f | OpDup2 _ _ f | OpDup3 _ _ _ f => ok f
  | OpLeave _ f f' _ => ok f && ok f'
  | _ => true
  end.

(** *** Tables *)

Lemma lowest_ext {A B} from (s : os A) (t : os B) : limit s = limit t ->
  (forall fd, files s !! fd = None <-> files t !! fd = None) -> lowest from s = lowest from t.
Proof.
  intros Hl H. unfold lowest. rewrite Hl. induction (seqZ from (limit t - from)) as [|fd l IH]; simpl; [done|].
  rewrite (bool_decide_ext _ _ (H fd)), IH. done.
Qed.

Lemma lowest_free {A} from (s : os A) fd : lowest from s = Some fd -> files s !! fd = None.
Proof. unfold lowest. intros [_ H]%find_some. by apply bool_decide_eq_true in H. Qed.

Lemma view_lookup c fd : files (view c) !! fd =
  (fun f => match descriptors c !! fd with Some p => Device p | None => Native f end) <$> files (sys c) !! fd.
Proof. simpl. rewrite map_lookup_imap. by destruct (files (sys c) !! fd). Qed.

Lemma view_none c fd : files (view c) !! fd = None <-> files (sys c) !! fd = None.
Proof. rewrite view_lookup. by destruct (files (sys c) !! fd). Qed.

Lemma view_lowest c from : lowest from (view c) = lowest from (sys c).
Proof. apply lowest_ext; [done|]. apply view_none. Qed.

Lemma os_eq {A} (s t : os A) : limit s = limit t -> (forall fd, files s !! fd = files t !! fd) -> s = t.
Proof. destruct s, t; simpl. intros -> H. f_equal. by apply map_eq. Qed.

Lemma view_set n f d c : (forall m, m <> n -> d !! m = descriptors c !! m) ->
  view (with_descriptors d (with_sys (set_file n f (sys c)) c)) =
  set_file n (match d !! n with Some p => Device p | None => Native f end) (view c).
Proof.
  intros Hd. apply os_eq; [done|]. intros fd. rewrite view_lookup. cbn [files set_file sys with_descriptors with_sys descriptors].
  destruct (decide (fd = n)) as [->|Hne]; [by rewrite !lookup_insert_eq|].
  rewrite !lookup_insert_ne by done. by rewrite view_lookup, Hd.
Qed.

Lemma view_delete fd c :
  view (with_descriptors (delete fd (descriptors c)) (with_sys (Os (delete fd (files (sys c))) (limit (sys c))) c)) =
  Os (delete fd (files (view c))) (limit (view c)).
Proof.
  apply os_eq; [done|]. intros m. rewrite view_lookup. cbn [files sys with_descriptors with_sys descriptors].
  destruct (decide (m = fd)) as [->|Hne]; [by rewrite !lookup_delete_eq|].
  rewrite !lookup_delete_ne by done. by rewrite view_lookup.
Qed.

Lemma view_calls l c : view (with_calls l c) = view c.
Proof. done. Qed.

Lemma with_descriptors_id c s : with_descriptors (descriptors c) (with_sys s c) = with_sys s c.
Proof. done. Qed.

(** *** References *)

Lemma release_app p f w : app (release p f w) = app w.
Proof. unfold release, lupine_device_proxy_remote_close. repeat case_match; done. Qed.

Lemma release_option_app p f w : app (release_option p f w) = app w.
Proof. destruct p; [apply release_app|done]. Qed.

(** Other state of the client with the same proxies in use. *)
Lemma inv_app ideal n loose loose' w c : inv ideal n loose w -> process c = getpid c ->
  (forall fd p, descriptors c !! fd = Some p -> is_Some (files (sys c) !! fd)) -> Forall call_ok (calls c) ->
  (forall p, in_use loose' c p <-> in_use loose (app w) p) -> inv ideal n loose' (with_app c w).
Proof.
  intros [_ _ _ Hl He Ht Hr] Hp Ho Hc Hu. split; try done.
  - intros p H. by apply Hl, Hu.
  - intros Hi r t H. destruct (He Hi r t H) as (p & H1 & H2). exists p. split; [by apply Hu|done].
Qed.

Lemma with_server_same r s w : servers (with_server r s w) r = s.
Proof. simpl. by rewrite Z.eqb_refl. Qed.

Lemma with_server_other r r' s w : r' <> r -> servers (with_server r s w) r' = servers w r'.
Proof. simpl. intros H. by rewrite (proj2 (Z.eqb_neq r' r)). Qed.

(** The deleter runs for a proxy that nothing refers to. *)
Lemma remote_close_inv ideal n loose p f w : inv ideal n (p :: loose) w -> ~ in_use loose (app w) p ->
  (ideal = true -> f = Delivered) -> inv ideal n loose (lupine_device_proxy_remote_close (route p) (token p) f w).
Proof.
  intros [Hp Ho Hc Hl He Ht Hr] Hn Hf.
  assert (Hsub : forall q, in_use loose (app w) q -> in_use (p :: loose) (app w) q).
  { intros q [|]; [by left|right; by right]. }
  assert (Hne : forall q, in_use loose (app w) q -> route q = route p -> token q <> token p).
  { intros q Hq Er Et. destruct (Hl q (Hsub q Hq)) as (d & Hd & Hu). destruct (Hl p) as (d' & Hd' & Hu'); [right; by left|].
    rewrite Er, Et, Hd' in Hd. injection Hd as ->. apply Hn. replace p with q; [done|]. destruct q, p; simpl in *. congruence. }
  destruct f; simpl.
  2: { split; try done; [by intros q Hq; apply Hl, Hsub|]. intros Hi. by specialize (Hf Hi). }
  all: split; try done; cbn [app with_server].
  all: try (intros q Hq; destruct (Hl q (Hsub q Hq)) as (d & Hd & Hu); exists d; split; [|done];
    destruct (decide (route q = route p)) as [Er|Er]; [|by rewrite with_server_other];
    rewrite Er, with_server_same; simpl; rewrite lookup_delete_ne by (symmetry; by apply Hne); by rewrite <- Er).
  all: try (intros Hi r t; destruct (decide (r = route p)) as [->|Er];
    [rewrite with_server_same; simpl; intros [d Hd]; apply lookup_delete_Some in Hd as [Hd1 Hd2]
    |rewrite with_server_other by done; intros [d Hd2]];
    (destruct (He Hi _ t ltac:(by eexists)) as (q & [Hq|Hq] & H1 & H2);
     [exists q; split; [by left|done]|]; apply elem_of_cons in Hq as [->|Hq]; [congruence|];
     exists q; split; [by right|done])).
  all: try (intros r t; destruct (decide (r = route p)) as [->|Er];
    [rewrite with_server_same; simpl; intros [d Hd]; apply lookup_delete_Some in Hd as [_ Hd]; apply Ht; by eexists
    |rewrite with_server_other by done; apply Ht]).
  all: intros r; destruct (decide (r = route p)) as [->|Er]; [rewrite with_server_same; apply Hr|rewrite with_server_other by done; apply Hr].
Qed.

Lemma release_inv ideal n loose p f w : inv ideal n (p :: loose) w -> p ∉ loose ->
  (ideal = true -> f = Delivered) -> inv ideal n loose (release p f w).
Proof.
  intros Hi Hp Hf. unfold release. case_decide as Hd.
  - assert (E : with_app (app w) w = w) by (by destruct w). rewrite <- E.
    apply (inv_app _ _ (p :: loose)); [done|apply Hi|apply Hi|apply Hi|].
    intros q. unfold in_use. rewrite elem_of_cons. intuition congruence.
  - apply remote_close_inv; try done. by intros [|].
Qed.

Lemma release_option_inv ideal n p f w : inv ideal n (option_list p) w ->
  (ideal = true -> f = Delivered) -> inv ideal n [] (release_option p f w).
Proof. destruct p as [p|]; [|done]. intros Hi Hf. apply release_inv; [done|by apply not_elem_of_nil|done]. Qed.

(** *** The calls *)

Section Calls.
Context (ideal : bool) (n : Z).

(** A free descriptor has no proxy. *)
Lemma free_no_proxy loose w fd : inv ideal n loose w -> files (sys (app w)) !! fd = None ->
  descriptors (app w) !! fd = None.
Proof.
  intros Hi Hf. destruct (descriptors (app w) !! fd) as [p|] eqn:E; [|done].
  destruct (inv_open _ _ _ _ Hi fd p E) as [f Ef]. congruence.
Qed.

(** A descriptor for another file. *)
Lemma native_open m loose w : inv ideal n loose w ->
  let '(r, s) := sys_open (File m) (sys (app w)) in
  let w' := with_app (with_sys s (app w)) w in
  inv ideal n loose w' /\ table_op (sys_open (Native (File m))) r (abs w) (abs w').
Proof.
  intros Hi. unfold sys_open. destruct (lowest 0 (sys (app w))) as [fd|] eqn:El; cbv zeta.
  - pose proof (free_no_proxy loose w fd Hi (lowest_free _ _ _ El)) as Hn. split.
    + apply (inv_app _ _ loose); [done|apply Hi| |apply Hi|done]. intros m' p Hp. simpl in *.
      destruct (decide (m' = fd)) as [->|]; [congruence|]. rewrite lookup_insert_ne by done. by apply (inv_open _ _ _ _ Hi _ p).
    + split; [|done]. unfold sys_open. simpl. rewrite view_lowest, El. f_equal.
      rewrite <- with_descriptors_id, view_set by done. by rewrite Hn.
  - split; [by destruct w as [[] ?]|]. split; [|done]. unfold sys_open. simpl. rewrite view_lowest, El. by destruct (app w).
Qed.

(** A close that the kernel or the registry sees. *)
Lemma close_ok fd fails f w : inv ideal n [] w -> (ideal = true -> f = Delivered) ->
  let '(r, w') := close fd fails f w in
  inv ideal n [] w' /\ table_op (sys_close fd fails) r (abs w) (abs w').
Proof.
  intros Hi Hf. unfold close, lupine_device_proxy_get, lupine_device_proxy_close.
  rewrite (inv_process _ _ _ _ Hi), Z.eqb_refl. cbn [negb]. unfold sys_close.
  destruct (files (sys (app w)) !! fd) as [fl|] eqn:Ef; [|rewrite (free_no_proxy [] w fd Hi Ef)].
  2: { split; [by destruct w as [[] ?]|]. split; [|done]. unfold sys_close. cbn [abs fst]. rewrite (proj2 (view_none _ _) Ef). by destruct (app w). }
  set (s := Os (delete fd (files (sys (app w)))) (limit (sys (app w)))).
  set (c' := with_descriptors (delete fd (descriptors (app w))) (with_sys s (app w))).
  assert (Hc : inv ideal n (option_list (descriptors (app w) !! fd)) (with_app c' w)).
  { apply (inv_app _ _ []); [done|apply Hi| |apply Hi|].
    - intros m p Hp. simpl in *. apply lookup_delete_Some in Hp as [Hne Hp]. rewrite lookup_delete_ne by done. by apply (inv_open _ _ _ _ Hi _ p).
    - intros p. unfold in_use, referenced. simpl. setoid_rewrite lookup_delete_Some. split.
      + intros [[|(m & _ & Hm)]|Hp]; [by left; left|left; right; by exists m|].
        left. right. exists fd. destruct (descriptors (app w) !! fd); simpl in Hp; [|by apply elem_of_nil in Hp].
        by apply list_elem_of_singleton in Hp as ->.
      + intros [[|(m & Hm)]|Hp]; [by left; left| |by apply elem_of_nil in Hp].
        destruct (decide (fd = m)) as [->|]; [right; rewrite Hm; by left|left; right; by exists m]. }
  assert (Hk : table_op (sys_close fd fails) (match fails with None => Value 0 | Some e => Errno e end) (abs w)
    (abs (with_app c' w))).
  { split; [|done]. unfold sys_close. cbn [abs fst app with_app]. rewrite view_lookup, Ef. simpl.
    unfold c', s. by rewrite view_delete. }
  destruct (descriptors (app w) !! fd) as [p|] eqn:Ep.
  - split; [by apply (release_option_inv _ _ (Some p))|]. unfold abs. by rewrite release_option_app.
  - assert (E : c' = with_sys s (app w)) by (unfold c'; by rewrite delete_id). by rewrite <- E.
Qed.

(** The registry after [fd] was duplicated to [m]. *)
Definition duplicated (fd m : Z) (ds : gmap Z lupine_device_proxy) : gmap Z lupine_device_proxy :=
  match ds !! fd with None => delete m ds | Some p => emplace m p (delete m ds) end.

Lemma duplicated_lookup fd m ds k :
  duplicated fd m ds !! k = if decide (k = m) then ds !! fd else ds !! k.
Proof.
  unfold duplicated, emplace. rewrite lookup_delete_eq. case_decide as Hk; [subst k|].
  - destruct (ds !! fd); [by rewrite lookup_insert_eq|by rewrite lookup_delete_eq].
  - destruct (ds !! fd); rewrite ?lookup_insert_ne, lookup_delete_ne by done; done.
Qed.

Lemma duplicate_ok fd m f w : inv ideal n [] w -> files (sys (app w)) !! fd = Some f -> fd <> m ->
  let c' := with_descriptors (duplicated fd m (descriptors (app w))) (with_sys (set_file m f (sys (app w))) (app w)) in
  inv ideal n (option_list (descriptors (app w) !! m)) (with_app c' w) /\
  exists d, files (view (app w)) !! fd = Some d /\ view c' = set_file m d (view (app w)).
Proof.
  intros Hi Ef Hne c'. split.
  - apply (inv_app _ _ []); [done|apply Hi| |apply Hi|].
    + intros k p Hp. simpl in *. rewrite duplicated_lookup in Hp. destruct (decide (k = m)) as [->|Hk].
      * by rewrite lookup_insert_eq.
      * rewrite lookup_insert_ne by done. by apply (inv_open _ _ _ _ Hi _ p).
    + intros p. unfold in_use, referenced. simpl. setoid_rewrite duplicated_lookup. split.
      * intros [[|(k & Hk)]|Hp]; [by left; left| |].
        -- left. right. case_decide; [by exists fd|by exists k].
        -- left. right. exists m. destruct (descriptors (app w) !! m); simpl in Hp; [|by apply elem_of_nil in Hp].
           by apply list_elem_of_singleton in Hp as ->.
      * intros [[|(k & Hk)]|Hp]; [by left; left| |by apply elem_of_nil in Hp].
        destruct (decide (k = m)) as [->|Hkm]; [right; rewrite Hk; by left|].
        left. right. exists k. by rewrite decide_False.
  - rewrite view_lookup, Ef. simpl. eexists. split; [done|]. unfold c'. rewrite view_set.
    + rewrite duplicated_lookup, decide_True by done. done.
    + intros k Hk. by rewrite duplicated_lookup, decide_False.
Qed.

(** Duplicating to the lowest free descriptor. *)
Lemma dupfd_ok fd from w : inv ideal n [] w ->
  let '(r, s) := sys_dupfd fd from (sys (app w)) in
  match r with
  | Errno e => s = sys (app w) /\ table_op (sys_dupfd fd from) r (abs w) (abs w)
  | Value m =>
      descriptors (app w) !! m = None /\
      let w' := with_app (with_descriptors (duplicated fd m (descriptors (app w))) (with_sys s (app w))) w in
      inv ideal n [] w' /\ table_op (sys_dupfd fd from) r (abs w) (abs w')
  end.
Proof.
  intros Hi. unfold table_op, abs. cbn [fst snd]. unfold sys_dupfd at 1.
  destruct (files (sys (app w)) !! fd) as [f|] eqn:Ef.
  2: { split; [done|]. split; [|done]. unfold sys_dupfd. by rewrite (proj2 (view_none _ _) Ef). }
  destruct ((from <? 0) || (limit (sys (app w)) <=? from)) eqn:Er.
  { split; [done|]. split; [|done]. unfold sys_dupfd. by rewrite view_lookup, Ef; simpl; rewrite Er. }
  destruct (lowest from (sys (app w))) as [m|] eqn:El.
  2: { split; [done|]. split; [|done]. unfold sys_dupfd. rewrite view_lookup, Ef; simpl; rewrite Er, view_lowest, El. done. }
  pose proof (free_no_proxy [] w m Hi (lowest_free _ _ _ El)) as Hm. split; [done|].
  assert (Hne : fd <> m) by (intros ->; pose proof (lowest_free _ _ _ El); congruence).
  destruct (duplicate_ok fd m f w Hi Ef Hne) as (H1 & d & Hd & H2). rewrite Hm in H1. split; [done|].
  split; [|done]. unfold sys_dupfd. cbn [app with_app]. by rewrite Hd, H2, view_lowest; simpl; rewrite Er, El.
Qed.

Lemma abs_release p f w : abs (release_option p f w) = abs w.
Proof. unfold abs. by rewrite release_option_app. Qed.

Lemma dup_ok fd f w : inv ideal n [] w ->
  let '(r, w') := dup fd f w in inv ideal n [] w' /\ table_op (sys_dupfd fd 0) r (abs w) (abs w').
Proof.
  intros Hi. pose proof (dupfd_ok fd 0 w Hi) as H. unfold dup, lupine_device_proxy_dup. cbn [andb].
  destruct (sys_dupfd fd 0 (sys (app w))) as [[m|e] s]; rewrite (inv_process _ _ _ _ Hi), Z.eqb_refl; cbn [negb].
  - destruct H as (Hm & H). rewrite Hm. exact H.
  - by destruct H as [_ H].
Qed.

Lemma fcntl_ok fd argument w : inv ideal n [] w ->
  let '(r, w') := lupine_device_proxy_fcntl fd argument w in
  inv ideal n [] w' /\ table_op (sys_dupfd fd argument) r (abs w) (abs w').
Proof.
  intros Hi. pose proof (dupfd_ok fd argument w Hi) as H. unfold lupine_device_proxy_fcntl.
  destruct (sys_dupfd fd argument (sys (app w))) as [[m|e] s]; rewrite (inv_process _ _ _ _ Hi), Z.eqb_refl; cbn [negb].
  - destruct H as (Hm & H). unfold duplicated in H. by rewrite delete_id in H by done.
  - by destruct H as [_ H].
Qed.

Lemma fixed_ok fd target flags f w : inv ideal n [] w -> (ideal = true -> f = Delivered) ->
  (fd = target -> flags <> 0) ->
  let '(r, w') := lupine_device_proxy_dup fd target flags true f w in
  inv ideal n [] w' /\ table_op (sys_dup3 fd target flags) r (abs w) (abs w').
Proof.
  intros Hi Hf Hfl. unfold lupine_device_proxy_dup. cbn [andb].
  assert (E : (fd =? target) && (flags =? 0) = false).
  { destruct (Z.eqb_spec fd target) as [H|]; [|done]. by apply Z.eqb_neq, Hfl. }
  rewrite E, (inv_process _ _ _ _ Hi), Z.eqb_refl. cbn [negb]. unfold table_op. unfold sys_dup3 at 1.
  destruct (negb _ || (fd =? target)) eqn:E1.
  { split; [done|]. split; [|done]. unfold sys_dup3. by rewrite E1. }
  destruct ((target <? 0) || (limit (sys (app w)) <=? target)) eqn:E2.
  { split; [done|]. split; [|done]. unfold sys_dup3. rewrite E1. cbn [abs fst]. simpl. by rewrite E2. }
  destruct (files (sys (app w)) !! fd) as [fl|] eqn:Ef.
  2: { split; [done|]. split; [|done]. unfold sys_dup3. rewrite E1. cbn [abs fst]. rewrite (proj2 (view_none _ _) Ef). simpl. by rewrite E2. }
  assert (Hne : fd <> target) by (apply orb_false_iff in E1 as [_ E1]; by apply Z.eqb_neq).
  destruct (duplicate_ok fd target fl w Hi Ef Hne) as (H1 & d & Hd & H2). split.
  - by apply release_option_inv.
  - rewrite abs_release. split; [|done]. unfold sys_dup3. rewrite E1. cbn [abs fst app with_app].
    unfold duplicated in H2. rewrite H2, Hd. simpl. by rewrite E2.
Qed.

Lemma dup2_ok fd target f w : inv ideal n [] w -> (ideal = true -> f = Delivered) ->
  let '(r, w') := dup2 fd target f w in inv ideal n [] w' /\ kernel (OpDup2 fd target f) r (abs w) (abs w').
Proof.
  intros Hi Hf. unfold kernel. destruct (Z.eqb_spec fd target) as [<-|Hne].
  - unfold dup2, lupine_device_proxy_dup. rewrite !Z.eqb_refl. cbn [andb]. split; [done|]. split; [done|].
    unfold same_fd, sys_getfd. cbn [abs fst]. rewrite view_lookup. by destruct (files (sys (app w)) !! fd).
  - by apply fixed_ok.
Qed.

Lemma dup3_ok fd target flags f w : inv ideal n [] w -> (ideal = true -> f = Delivered) ->
  let '(r, w') := dup3 fd target flags f w in
  inv ideal n [] w' /\ table_op (sys_dup3 fd target flags) r (abs w) (abs w').
Proof.
  intros Hi Hf. unfold dup3. destruct (Z.eqb_spec fd target) as [E|Hne]; [|by apply fixed_ok].
  split; [done|]. split; [|done]. unfold sys_dup3. by rewrite (proj2 (Z.eqb_eq _ _) E), orb_true_r.
Qed.

(** *** ioctl *)

Lemma get_device loose w fd : inv ideal n loose w -> lupine_device_proxy_get fd (app w) = device (view (app w)) fd.
Proof.
  intros Hi. unfold lupine_device_proxy_get, device. rewrite (inv_process _ _ _ _ Hi), Z.eqb_refl, view_lookup.
  destruct (files (sys (app w)) !! fd) as [f|] eqn:Ef; simpl; [by destruct (descriptors (app w) !! fd)|].
  by rewrite (free_no_proxy loose w fd Hi Ef).
Qed.

Lemma ioctl_check_ext get get' fd command argument : (forall fd, get fd = get' fd) ->
  ioctl_check get fd command argument = ioctl_check get' fd command argument.
Proof. intros H. unfold ioctl_check. rewrite H. repeat case_match; try done; rewrite H in *; congruence. Qed.

Lemma ioctl_check_ok get fd command argument c : ioctl_check get fd command argument = inr c ->
  call_ok c /\ forall p, p ∈ call_refs c -> exists fd, get fd = Some p.
Proof.
  unfold ioctl_check. destruct (get fd) as [proxy|] eqn:Eg; [|done].
  destruct (negb (uvm proxy) || (s_size (describe command) =? 0)) eqn:Eu; [done|].
  apply orb_false_iff in Eu as [Eu%negb_false_iff Es%Z.eqb_neq]. destruct argument as [memory|]; [|done].
  assert (Hlen : Z.of_nat (length (memory <$> seqZ 0 (s_size (describe command)))) = s_size (describe command)).
  { rewrite length_fmap, length_seqZ. assert (0 <= s_size (describe command)); [|lia].
    unfold describe. repeat case_match; simpl; unfold map_size; lia. }
  destruct (command =? uvm_map) eqn:Em.
  - destruct (get (sint32 _)) as [rm|] eqn:Er; [|done]. destruct (uvm rm || _) eqn:Ev; [done|]. intros [= <-].
    apply orb_false_iff in Ev as [Ev1 Ev2%negb_false_iff%Z.eqb_eq]. split.
    + unfold call_ok. cbn [c_proxy c_rm c_command c_buffer c_original_rm_fd]. rewrite Em. eauto 10.
    + intros p [->|[->|[]%elem_of_nil]%elem_of_cons]%elem_of_cons; eauto.
  - intros [= <-]. split.
    + unfold call_ok. cbn [c_proxy c_rm c_command c_buffer c_original_rm_fd]. by rewrite Em.
    + intros p [->|[]%elem_of_nil]%elem_of_cons. eauto.
Qed.

Lemma enter_ok fd command argument w : inv ideal n [] w ->
  let '(r, w') := ioctl_enter fd command argument w in
  inv ideal n [] w' /\ kernel (OpEnter fd command argument) r (abs w) (abs w').
Proof.
  intros Hi. unfold ioctl_enter, kernel. cbn [abs fst snd].
  rewrite <- (ioctl_check_ext _ _ _ _ _ (fun fd => get_device [] w fd Hi)).
  destruct (ioctl_check _ fd command argument) as [e|c] eqn:Ec; [done|].
  destruct (ioctl_check_ok _ _ _ _ _ Ec) as [Hc Hr]. split; [|done].
  apply (inv_app _ _ []); [done|apply Hi|apply Hi| |].
  - apply Forall_app. split; [apply Hi|by constructor].
  - intros p. unfold in_use, referenced. simpl. rewrite bind_app, elem_of_app. simpl. rewrite app_nil_r.
    split; [|tauto]. intros [[[|Hp]|]|]; try tauto. destruct (Hr p Hp) as (fd' & Hfd).
    unfold lupine_device_proxy_get in Hfd. rewrite (inv_process _ _ _ _ Hi), Z.eqb_refl in Hfd. left. right. by exists fd'.
Qed.

Lemma refs_delete i c l p : l !! i = Some c ->
  p ∈ l ≫= call_refs <-> p ∈ delete i l ≫= call_refs \/ p ∈ call_refs c.
Proof.
  intros Ei%delete_Permutation. revert Ei. generalize (delete i l). intros rest E.
  rewrite E. simpl. rewrite elem_of_cons, !elem_of_app. unfold call_refs at 3. rewrite elem_of_cons. tauto.
Qed.

Lemma leave_ok `{UvmDriver} i f f' writable w o w' : inv ideal n [] w -> (ideal = true -> f' = Delivered) ->
  ioctl_leave i f f' writable w = Some (o, w') ->
  inv ideal n [] w' /\ abs w' = ((abs w).1, delete i (abs w).2).
Proof.
  intros Hi Hf. unfold ioctl_leave. destruct (calls (app w) !! i) as [c|] eqn:Ei; [|done]. simpl. intros [= <- <-].
  pose proof (proj1 (Forall_lookup _ _) (inv_calls _ _ _ _ Hi) i c Ei) as Hc. split.
  2: { unfold abs. rewrite release_app, release_option_app. done. }
  set (c' := with_calls _ _).
  assert (H1 : inv ideal n (option_list (c_rm c) ++ [c_proxy c]) (with_app c' w)).
  { apply (inv_app _ _ []); [done|apply Hi|apply Hi|by apply Forall_delete, Hi|].
    intros p. unfold in_use, referenced. simpl.
    rewrite (refs_delete i c _ p Ei), elem_of_app, list_elem_of_singleton. unfold call_refs at 3. rewrite elem_of_cons, elem_of_nil. tauto. }
  apply release_inv; [|by apply not_elem_of_nil|done]. destruct (c_rm c) as [rm|] eqn:Er; [|done].
  apply release_inv; [done| |done]. intros ->%list_elem_of_singleton. unfold call_ok in Hc. rewrite Er in Hc.
  destruct Hc as (Hu & _ & _ & Hc). destruct (c_command c =? uvm_map); [|done].
  destruct Hc as (_ & rm & [= <-] & Hv & _). congruence.
Qed.
End Calls.

(** *** open *)

Lemma inv_fewer ideal n n' loose w : inv ideal n loose w -> n' <= n -> inv ideal n' loose w.
Proof. intros [H1 H2 H3 H4 H5 H6 H7] Hn. split; try done. intros r. specialize (H7 r). lia. Qed.

Lemma inv_lost n p loose w : inv false n (p :: loose) w -> inv false n loose w.
Proof.
  intros [H1 H2 H3 H4 H5 H6 H7]. split; try done. intros q [Hq|Hq]; apply H4; [by left|right; by right].
Qed.

(** A new descriptor of the server. *)
Lemma retain_inv ideal n r fd u w : inv ideal n [] w -> 1 <= n ->
  let s := servers w r in
  let p := Proxy r (next_token s) u in
  inv ideal (n - 1) [p]
    (with_server r (Server (<[next_token s := Descriptor fd u]> (table s)) (wrap64 (next_token s + 1))) w) /\
  ~ referenced p (app w).
Proof.
  intros [Hp Ho Hc Hl He Ht Hr] Hn s p. destruct (Hr r) as [Hr1 Hr2]. fold s in Hr1, Hr2.
  rewrite wrap64_id by (unfold is_u64; lia).
  assert (Hfresh : table s !! next_token s = None).
  { apply eq_None_not_Some. intros Hs. specialize (Ht r _ Hs). fold s in Ht. lia. }
  assert (Hunref : ~ referenced p (app w)).
  { intros Hp'. destruct (Hl p) as (d & Hd & _); [by left|]. simpl in Hd. fold s in Hd. congruence. }
  split; [|done]. split; try done; cbn [app with_server].
  - intros q [Hq|Hq].
    + destruct (Hl q) as (d & Hd & Hu); [by left|]. exists d. split; [|done].
      destruct (decide (route q = r)) as [Er|Er]; [|by rewrite with_server_other].
      rewrite Er, with_server_same in *. simpl. rewrite lookup_insert_ne; [done|]. intros E. fold s in Hd. congruence.
    + apply list_elem_of_singleton in Hq as ->. cbn [route token uvm p]. rewrite with_server_same. simpl.
      rewrite lookup_insert_eq. eauto.
  - intros Hi r' t. destruct (decide (r' = r)) as [->|Er]; [rewrite with_server_same; simpl|rewrite with_server_other by done].
    + destruct (decide (t = next_token s)) as [->|Hne]; [intros _; exists p; split; [right; by left|done]|].
      rewrite lookup_insert_ne by done. intros Hs. destruct (He Hi r t Hs) as (q & [Hq|Hq] & H); [|by apply elem_of_nil in Hq].
      exists q. split; [by left|done].
    + intros Hs. destruct (He Hi r' t Hs) as (q & [Hq|Hq] & H); [|by apply elem_of_nil in Hq]. exists q. split; [by left|done].
  - intros r' t. destruct (decide (r' = r)) as [->|Er]; [rewrite with_server_same; simpl|rewrite with_server_other by done; apply Ht].
    destruct (decide (t = next_token s)) as [->|Hne]; [lia|]. rewrite lookup_insert_ne by done. intros Hs.
    specialize (Ht r t Hs). fold s in Ht. lia.
  - intros r'. destruct (decide (r' = r)) as [->|Er]; [rewrite with_server_same; simpl; lia|rewrite with_server_other by done].
    specialize (Hr r'). lia.
Qed.

(** [errno] is not zero after a failure. *)
Definition errno_set (r : ret) : Prop := match r with Errno e => e <> 0 | Value _ => True end.

Lemma inv_servers ideal n loose w w' : app w' = app w -> (forall r, servers w' r = servers w r) ->
  inv ideal n loose w -> inv ideal n loose w'.
Proof.
  intros Ha Hs [H1 H2 H3 H4 H5 H6 H7]. split; rewrite ?Ha; try done.
  - intros p Hp. rewrite Hs. auto.
  - intros Hi r t. rewrite Hs. auto.
  - intros r t. rewrite Hs. auto.
  - intros r. rewrite Hs. auto.
Qed.

Lemma with_server_id r w r' : servers (with_server r (servers w r) w) r' = servers w r'.
Proof. simpl. by destruct (Z.eqb_spec r' r) as [->|]. Qed.

(** What the server's answer to an open says. *)
Lemma handle_open_inv ideal n kind native duplicate r w t e s : inv ideal n [] w -> 1 <= n ->
  errno_set native -> errno_set duplicate ->
  handle_lupineDeviceOpen kind native duplicate (servers w r) = (t, e, s) ->
  let p := Proxy r t (kind =? 1) in
  (e <> 0 /\ inv ideal (n - 1) [] (with_server r s w)) \/
  (e = 0 /\ inv ideal (n - 1) [p] (with_server r s w) /\ ~ referenced p (app w)).
Proof.
  intros Hi Hn H1 H2. cbv zeta. assert (Hsame : inv ideal (n - 1) [] (with_server r (servers w r) w)).
  { apply (inv_servers _ _ _ w); [done|intros r'; apply with_server_id|apply (inv_fewer _ n); [done|lia]]. }
  unfold handle_lupineDeviceOpen. destruct (kind <=? 1); [|intros [= <- <- <-]; by left].
  destruct native as [v|e0]; [|intros [= <- <- <-]; by left].
  unfold retain. destruct duplicate as [fd|e0]; [|intros [= <- <- <-]; by left].
  destruct (4096 <=? _); [intros [= <- <- <-]; by left|]. intros [= <- <- <-]. right.
  destruct (inv_room _ _ _ _ Hi r) as [Hr _]. rewrite (proj2 (Z.eqb_neq _ 0)) by lia. split; [done|].
  by apply retain_inv.
Qed.

(** The client's part. *)
Lemma create_ok ideal n p f w : inv ideal n [p] w -> ~ referenced p (app w) -> (ideal = true -> f = Delivered) ->
  match lupine_device_proxy_create p f w with
  | (Errno e, w') =>
      inv ideal n [] (lupine_device_proxy_remote_close (route p) (token p) f w') /\
      abs (lupine_device_proxy_remote_close (route p) (token p) f w') = abs w
  | (Value fd, w') => inv ideal n [] w' /\ table_op (sys_open (Device p)) (Value fd) (abs w) (abs w')
  end.
Proof.
  intros Hi Hn Hf. unfold lupine_device_proxy_create. rewrite (inv_process _ _ _ _ Hi), Z.eqb_refl. cbn [negb].
  unfold sys_open at 1. destruct (lowest 0 (sys (app w))) as [fd|] eqn:El.
  2: { split; [|by destruct f]. apply remote_close_inv; [done| |done]. intros [|[]%elem_of_nil]. done. }
  pose proof (free_no_proxy _ _ _ w fd Hi (lowest_free _ _ _ El)) as Hfd. unfold emplace. rewrite Hfd.
  set (c' := with_descriptors (<[fd:=p]> (descriptors (app w))) (with_sys (set_file fd Memfd (sys (app w))) (app w))).
  assert (Hr : referenced p c') by (right; exists fd; simpl; by rewrite lookup_insert_eq).
  unfold release. rewrite decide_True by done. split.
  - apply (inv_app _ _ [p]); [done|apply Hi| |apply Hi|].
    + intros m q Hq. simpl in *. destruct (decide (m = fd)) as [->|]; [by rewrite lookup_insert_eq|].
      rewrite lookup_insert_ne in Hq by done. rewrite lookup_insert_ne by done. by apply (inv_open _ _ _ _ Hi _ q).
    + intros q. unfold in_use. rewrite list_elem_of_singleton. split.
      * intros [[Hq|(m & Hq)]|[]%elem_of_nil]; [left; by left|]. simpl in Hq.
        apply lookup_insert_Some in Hq as [[_ ->]|[_ Hq]]; [by right|left; right; by exists m].
      * intros [[Hq|(m & Hq)]| ->]; [left; by left| |by left]. left. right. exists m. simpl.
        rewrite lookup_insert_ne; [done|]. intros <-. congruence.
  - split; [|done]. unfold sys_open. cbn [abs fst app with_app]. rewrite view_lowest, El. f_equal. unfold c'.
    rewrite view_set; [by rewrite lookup_insert_eq|]. intros m Hm. by rewrite lookup_insert_ne.
Qed.

Lemma unused_abs p w : ~ referenced p (app w) -> unused p (abs w).
Proof.
  intros H. split.
  - intros fd. cbn [abs fst]. rewrite view_lookup. destruct (files (sys (app w)) !! fd); simpl; [|done].
    destruct (descriptors (app w) !! fd) as [q|] eqn:E; [|done]. intros [= ->]. apply H. right. by exists fd.
  - intros Hp. apply H. by left.
Qed.

Lemma open_ok ideal n kind flags r m native duplicate f f' w : inv ideal n [] w -> 1 <= n ->
  errno_set native -> errno_set duplicate -> (ideal = true -> f = Delivered /\ f' = Delivered) ->
  let '(res, w') := lupine_device_open kind flags r m native duplicate f f' w in
  inv ideal (n - 1) [] w' /\
  ((exists e, res = Errno e /\ abs w' = abs w) \/ opens r (kind =? 1) m res (abs w) (abs w')).
Proof.
  intros Hi Hn H1 H2 Hf. pose proof (inv_fewer _ _ (n - 1) _ _ Hi ltac:(lia)) as Hi'. unfold lupine_device_open.
  destruct (_ || _). { split; [done|]. left. by eexists. }
  destruct r as [r|].
  2: { pose proof (native_open ideal (n - 1) m [] w Hi') as H. destruct (sys_open (File m) (sys (app w))) as [res s].
       destruct H as [Ha Hb]. split; [done|by right]. }
  destruct (handle_lupineDeviceOpen kind native duplicate (servers w r)) as [[t e] s] eqn:Eh.
  pose proof (handle_open_inv ideal n kind native duplicate r w t e s Hi Hn H1 H2 Eh) as Ho. cbv zeta in Ho.
  set (w1 := with_server r s w) in *. change (abs w) with (abs w1).
  destruct f.
  - destruct (Z.eqb_spec e 0) as [->|He]; cbn [negb]; [|destruct Ho as [[_ Ho]|[Ho _]]; [split; [exact Ho|left; by eexists]|by rewrite Ho in He]].
    destruct Ho as [[Ho _]|(_ & Hw1 & Hp)]; [done|]. set (p := Proxy r t (kind =? 1)) in *.
    pose proof (create_ok ideal (n - 1) p f' w1 Hw1 Hp (fun E => proj2 (Hf E))) as Hc.
    destruct (lupine_device_proxy_create p f' w1) as [[fd|e] w2]; destruct Hc as [Hc1 Hc2]; (split; [done|]).
    + right. exists p. split_and!; [done|done|by apply unused_abs|done].
    + left. eexists. split; [done|]. exact Hc2.
  - split; [done|left; by eexists].
  - split; [|left; by eexists]. destruct ideal; [by destruct (Hf eq_refl)|].
    destruct Ho as [[_ Ho]|(_ & Ho & _)]; [done|by apply inv_lost in Ho].
Qed.

(** *** Any sequence *)

Definition op_ok (o : op) : Prop :=
  match o with OpOpen _ _ _ _ _ _ native duplicate _ _ => errno_set native /\ errno_set duplicate | _ => True end.

Lemma delete_beyond {A} (l : list A) i : l !! i = None -> delete i l = l.
Proof. revert i. induction l as [|x l IH]; intros [|i] Hi; simpl in *; try done. by rewrite IH. Qed.

Section Run.
Context `{UvmDriver}.

Lemma step_ok ideal n o w : inv ideal n [] w -> 1 <= n -> op_ok o -> (ideal = true -> ideal_op o = true) ->
  let '(r, w') := step o w in inv ideal (n - 1) [] w' /\ kernel o r (abs w) (abs w').
Proof.
  intros Hi Hn Ho Hd. pose proof (inv_fewer _ _ (n - 1) _ _ Hi ltac:(lia)) as Hi'.
  assert (Hok : forall f, match f with Delivered => true | _ => false end = true -> f = Delivered) by (by intros []).
  destruct o as [m|depth env path flags r m native duplicate f f'|fd fails f|fd f|fd target f|fd target flags f|fd argument
    |fd command argument|i f f' writable]; simpl in Hd; cbn [step].
  - pose proof (native_open ideal (n - 1) m [] w Hi') as Hs. by destruct (sys_open (File m) (sys (app w))).
  - destruct Ho. unfold open_device, kernel. destruct (is_remote_device depth env path).
    2: { pose proof (native_open ideal (n - 1) m [] w Hi') as Hs. by destruct (sys_open (File m) (sys (app w))). }
    apply open_ok; try done. intros E. specialize (Hd E). apply andb_true_iff in Hd as [? ?]. auto.
  - apply close_ok; auto.
  - by apply dup_ok.
  - apply dup2_ok; auto.
  - apply dup3_ok; auto.
  - by apply fcntl_ok.
  - by apply enter_ok.
  - destruct (ioctl_leave i f f' writable w) as [[o w']|] eqn:El.
    + destruct (leave_ok ideal (n - 1) i f f' writable w o w' Hi') as [Ha Hb]; [|done|].
      { intros E. specialize (Hd E). apply andb_true_iff in Hd as [? ?]. auto. }
      split; [done|]. exact Hb.
    + split; [done|]. unfold ioctl_leave in El. destruct (calls (app w) !! i) eqn:Ei; [done|].
      cbn [kernel abs fst snd]. by rewrite delete_beyond.
Qed.

Lemma run_ok ideal ops : forall n w, inv ideal n [] w -> Z.of_nat (length ops) <= n -> Forall op_ok ops ->
  (ideal = true -> forallb ideal_op ops = true) ->
  let '(rs, w') := run ops w in inv ideal (n - Z.of_nat (length ops)) [] w' /\ kernel_run ops rs (abs w) (abs w').
Proof.
  induction ops as [|o ops IH]; intros n w Hi Hn Ho Hd; cbn [run length]; [by rewrite Z.sub_0_r|].
  apply Forall_cons in Ho as [Ho Hos]. cbn [length] in Hn. rewrite Nat2Z.inj_succ in *. simpl in Hd.
  pose proof (step_ok ideal n o w Hi ltac:(lia) Ho (fun E => proj1 (andb_prop _ _ (Hd E)))) as Hs.
  destruct (step o w) as [r w1]. destruct Hs as [H1 H2].
  pose proof (IH (n - 1) w1 H1 ltac:(lia) Hos (fun E => proj2 (andb_prop _ _ (Hd E)))) as Hr.
  destruct (run ops w1) as [rs w2]. destruct Hr as [H3 H4]. split.
  - by replace (n - Z.succ (Z.of_nat (length ops))) with (n - 1 - Z.of_nat (length ops)) by lia.
  - by exists (abs w1).
Qed.
End Run.

(** ** Properties *)

(** A process before it opens a device, and servers that it has just been connected to. *)
Definition fresh (w : world) : Prop :=
  process (app w) = getpid (app w) /\ descriptors (app w) = ∅ /\ calls (app w) = [] /\
  forall r, servers w r = Server ∅ 1.

Lemma fresh_inv ideal n w : fresh w -> n < 2 ^ 64 - 1 -> inv ideal n [] w.
Proof.
  intros (Hp & Hd & Hc & Hs) Hn. split; rewrite ?Hd, ?Hc; try done.
  - intros p [[Hr|(fd & Hfd)]|[]%elem_of_nil].
    + rewrite Hc in Hr. by apply elem_of_nil in Hr.
    + by rewrite Hd in Hfd.
  - intros _ r t. rewrite Hs. simpl. intros [d Hd']. done.
  - intros r t. rewrite Hs. simpl. intros [d Hd']. done.
  - intros r. rewrite Hs. simpl. lia.
Qed.

(** C22: Whatever the application does with its descriptors, in whatever order and whatever is
    lost on the way, it gets the results and has the table of descriptors that the kernel
    would give it if the devices of the servers were local files: a descriptor of a device
    can be duplicated, overwritten and closed like any other, and an ioctl finds the device
    behind it exactly when there is one. *)
Theorem device_descriptors_refine `{UvmDriver} (ops : list op) (w : world) (H_fresh : fresh w)
  (H_ops : Forall op_ok ops) (H_few : Z.of_nat (length ops) < 2 ^ 64 - 1) :
  kernel_run ops (run ops w).1 (abs w) (abs (run ops w).2).
Proof.
  pose proof (run_ok false ops _ w (fresh_inv false _ w H_fresh H_few) ltac:(lia) H_ops ltac:(done)) as Hr.
  destruct (run ops w). apply Hr.
Qed.

(** C23: After any such sequence every device that a descriptor or an ioctl in flight refers to
    is still open at its server, under its token and with its kind, and as long as no
    request is lost the server keeps nothing else open: the last reference releases the
    device, not an earlier one. *)
Theorem device_tokens_exact `{UvmDriver} (ops : list op) (w : world) (H_fresh : fresh w)
  (H_ops : Forall op_ok ops) (H_few : Z.of_nat (length ops) < 2 ^ 64 - 1) :
  let w' := (run ops w).2 in
  let used p := (exists fd, device (view (app w')) fd = Some p) \/ p ∈ calls (app w') ≫= call_refs in
  (forall p, used p -> exists d, table (servers w' (route p)) !! token p = Some d /\ d_uvm d = uvm p) /\
  (forallb ideal_op ops = true -> forall r t, is_Some (table (servers w' r) !! t) ->
     exists p, used p /\ route p = r /\ token p = t).
Proof.
  assert (Hinv : forall ideal, (ideal = true -> forallb ideal_op ops = true) -> exists n, inv ideal n [] (run ops w).2).
  { intros ideal Hd. pose proof (run_ok ideal ops _ w (fresh_inv ideal _ w H_fresh H_few) ltac:(lia) H_ops Hd) as Hr.
    destruct (run ops w) as [rs w']. destruct Hr as [Hr _]. by eexists. }
  intros w' used. assert (Hu : forall ideal n, inv ideal n [] w' -> forall p, used p <-> in_use [] (app w') p).
  { intros ideal n Hi p. unfold used, in_use, referenced. rewrite elem_of_nil.
    assert (E : forall fd, device (view (app w')) fd = descriptors (app w') !! fd).
    { intros fd. rewrite <- (get_device ideal n [] w' fd Hi). unfold lupine_device_proxy_get.
      by rewrite (inv_process _ _ _ _ Hi), Z.eqb_refl. }
    setoid_rewrite E. tauto. }
  split.
  - destruct (Hinv false ltac:(done)) as [n Hi]. intros p Hp. apply (inv_live _ _ _ _ Hi). by apply (Hu _ _ Hi).
  - intros Hd. destruct (Hinv true ltac:(done)) as [n Hi]. intros r t Ht.
    destruct (inv_exact _ _ _ _ Hi eq_refl r t Ht) as (p & Hp & H1). exists p. split; [by apply (Hu _ _ Hi)|done].
Qed.

Lemma le_bytes_mod k a b : a mod 256 ^ Z.of_nat k = b mod 256 ^ Z.of_nat k -> le_bytes k a = le_bytes k b.
Proof.
  intros H. rewrite <- (le_bytes_val (le_bytes k a)), <- (le_bytes_val (le_bytes k b)) by apply le_bytes_is_byte.
  by rewrite !length_le_bytes, !le_val_bytes, H.
Qed.

(** The four bytes of the descriptor number go back as they were. *)
Lemma original_bytes (buffer : list byte) : Forall is_byte buffer -> (Z.to_nat rm_fd_offset + 4 <= length buffer)%nat ->
  le_bytes 4 (sint32 (get_field 4 buffer rm_fd_offset)) = take 4 (drop (Z.to_nat rm_fd_offset) buffer).
Proof.
  intros Hb Hl. unfold get_field. set (bs := take 4 (drop (Z.to_nat rm_fd_offset) buffer)).
  assert (Hbs : Forall is_byte bs) by (apply Forall_take, Forall_drop; done).
  assert (Hlen : length bs = 4%nat) by (unfold bs; rewrite length_take, length_drop; lia).
  pose proof (le_val_range bs Hbs) as Hr. rewrite Hlen in Hr. change (256 ^ Z.of_nat 4) with (2 ^ 32) in Hr.
  rewrite <- (le_bytes_val bs Hbs) at 2. rewrite Hlen. apply le_bytes_mod. change (256 ^ Z.of_nat 4) with (2 ^ 32).
  unfold sint32, wrap32. rewrite (Z.mod_small (le_val bs)) by lia. case_match; [by apply Z.mod_small|].
  rewrite <- (Z_mod_plus_full _ 1). rewrite Z.mod_small; lia.
Qed.

(** C24: An ioctl in flight, whatever happened to its descriptors since it began, is one ioctl of
    the driver on the server's descriptor of the device: the application gets its result and
    the bytes it left.  Where the argument names a descriptor of its own, the driver sees the
    server's descriptor of that device and the application its own number. *)
Theorem device_ioctl_transparent `{UvmDriverLaws} (ops : list op) (w : world) (i : nat) (f' : fate) (c : call)
  (H_fresh : fresh w) (H_ops : Forall op_ok ops) (H_few : Z.of_nat (length ops) < 2 ^ 64 - 1)
  (H_call : calls (app (run ops w).2) !! i = Some c) (H_bytes : Forall is_byte (c_buffer c)) :
  let w' := (run ops w).2 in
  let server := servers w' (route (c_proxy c)) in
  exists o w'' d input output final,
    ioctl_leave i Delivered f' true w' = Some (o, w'') /\
    table server !! token (c_proxy c) = Some d /\ d_uvm d = true /\
    o_result o = (uvm_ioctl (d_fd d) (c_command c) input).1 /\
    output = (uvm_ioctl (d_fd d) (c_command c) input).2 /\ o_argument o = Some final /\
    (if c_command c =? uvm_map
     then exists rm rm_d, c_rm c = Some rm /\ table server !! token rm = Some rm_d /\ d_uvm rm_d = false /\
            input = put (c_buffer c) rm_fd_offset (le_bytes 4 (d_fd rm_d)) /\
            final = put output rm_fd_offset (take 4 (drop (Z.to_nat rm_fd_offset) (c_buffer c)))
     else input = c_buffer c /\ final = output).
Proof.
  pose proof (run_ok false ops _ w (fresh_inv false _ w H_fresh H_few) ltac:(lia) H_ops ltac:(done)) as Hr.
  destruct (run ops w) as [rs w']. cbn [fst snd] in *. destruct Hr as [Hi _].
  pose proof (proj1 (Forall_lookup _ _) (inv_calls _ _ _ _ Hi) i c H_call) as (Hu & Hz & Hlen & Hm).
  assert (Href : forall p, p ∈ call_refs c -> in_use [] (app w') p).
  { intros p Hp. left. left. apply (refs_delete i c); [done|by right]. }
  destruct (inv_live _ _ _ _ Hi (c_proxy c)) as (d & Hd & Hdu); [apply Href; by left|]. rewrite Hu in Hdu.
  cbv zeta. unfold ioctl_leave. rewrite H_call. cbn [mbind option_bind].
  unfold ioctl_answer, handle_lupineDeviceIoctl. rewrite (proj2 (Z.eqb_neq _ 0) Hz), Z.eqb_refl. cbn [negb orb].
  rewrite Hd, Hdu. cbn [negb].
  destruct (Z.eqb_spec (c_command c) uvm_map) as [Em|Em].
  - destruct Hm as (Ho & rm & Er & Hv & Hroute).
    destruct (inv_live _ _ _ _ Hi rm) as (rm_d & Hrd & Hru); [apply Href; right; rewrite Er; by left|].
    rewrite Hv in Hru. rewrite Hroute in Hrd. unfold rm_token. rewrite Er, Hrd, Hru.
    set (input := put _ _ _). pose proof (ioctl_result (d_fd d) (c_command c) input) as Hres.
    rewrite Ho, original_bytes by (done || (rewrite Em in Hlen; unfold describe in Hlen; simpl in Hlen; unfold map_size, rm_fd_offset in *; lia)).
    destruct (uvm_ioctl (d_fd d) (c_command c) input) as [[v|e] output] eqn:Eo; cbn [fst snd] in *;
      (eexists _, _, d, input, output, _; split_and!; [reflexivity|done|done| |by rewrite Eo|reflexivity|by exists rm, rm_d]).
    + rewrite Eo. cbn. rewrite (proj2 (Z.ltb_ge v 0)); [done|]. by apply Hres.
    + by rewrite Eo.
  - set (input := c_buffer c). pose proof (ioctl_result (d_fd d) (c_command c) input) as Hres.
    destruct (uvm_ioctl (d_fd d) (c_command c) input) as [[v|e] output] eqn:Eo; cbn [fst snd] in *;
      (eexists _, _, d, input, output, _; split_and!; [reflexivity|done|done| |by rewrite Eo|reflexivity|done|done]).
    + rewrite Eo. cbn. rewrite (proj2 (Z.ltb_ge v 0)); [done|]. by apply Hres.
    + by rewrite Eo.
Qed.

(** *** Examples *)

(** A driver that leaves a zero status and does nothing else. *)
#[local] Instance sample_driver : UvmDriver := fun _ _ buffer => (Value 0, buffer).

#[local] Instance sample_driver_laws : UvmDriverLaws.
Proof. intros fd command buffer v [= <-]. lia. Qed.

Definition sample_world : world :=
  World (Client (Os {[0 := File 0; 1 := File 1; 2 := File 2]} 1024) 77 77 ∅ []) (fun _ => Server ∅ 1).

Lemma sample_fresh : fresh sample_world.
Proof. done. Qed.

(** Open a device, duplicate it, close the first descriptor, begin an ioctl on the other, put
    another file over it. *)
Definition sample_ops : list op :=
  [OpOpen 0 (Some "server"%string) uvm_path 0 (Some 5) 0 (Value 9) (Value 10) Delivered Delivered; OpDup 3 Delivered; OpClose 3 None Delivered;
   OpEnter 4 uvm_reserve (Some (fun j => j)); OpDup2 1 4 Delivered].

Lemma sample_ops_ok : Forall op_ok sample_ops /\ Z.of_nat (length sample_ops) < 2 ^ 64 - 1.
Proof. split; [repeat constructor|done]. Qed.

Lemma device_descriptors_refine_witness :
  (run sample_ops sample_world).1 = [Value 3; Value 4; Value 0; Value 0; Value 4] /\
  kernel_run sample_ops (run sample_ops sample_world).1 (abs sample_world) (abs (run sample_ops sample_world).2).
Proof.
  split; [vm_compute; reflexivity|].
  apply (device_descriptors_refine sample_ops sample_world sample_fresh); apply sample_ops_ok.
Defined.

Lemma device_tokens_exact_witness :
  let w := (run sample_ops sample_world).2 in
  Proxy 5 1 true ∈ calls (app w) ≫= call_refs /\ device (view (app w)) 4 = None /\
  exists d, table (servers w 5) !! 1 = Some d /\ d_uvm d = true.
Proof.
  assert (H : Proxy 5 1 true ∈ calls (app (run sample_ops sample_world).2) ≫= call_refs) by (vm_compute; left).
  split; [exact H|]. split; [vm_compute; reflexivity|].
  pose proof (device_tokens_exact sample_ops sample_world sample_fresh (proj1 sample_ops_ok) (proj2 sample_ops_ok)) as [T _].
  exact (T (Proxy 5 1 true) (or_intror H)).
Defined.

Definition sample_call : call := Call (Proxy 5 1 true) None uvm_reserve (seqZ 0 24) (-1).

Lemma device_ioctl_transparent_witness :
  calls (app (run sample_ops sample_world).2) !! 0%nat = Some sample_call /\
  exists o w'' d input output final,
    ioctl_leave 0 Delivered Delivered true (run sample_ops sample_world).2 = Some (o, w'') /\
    table (servers (run sample_ops sample_world).2 5) !! 1 = Some d /\ d_uvm d = true /\
    o_result o = (uvm_ioctl (d_fd d) uvm_reserve input).1 /\ output = (uvm_ioctl (d_fd d) uvm_reserve input).2 /\
    o_argument o = Some final /\ input = seqZ 0 24 /\ final = output.
Proof.
  assert (H : calls (app (run sample_ops sample_world).2) !! 0%nat = Some sample_call) by (vm_compute; reflexivity).
  split; [exact H|].
  apply (device_ioctl_transparent sample_ops sample_world 0 Delivered sample_call sample_fresh
    (proj1 sample_ops_ok) (proj2 sample_ops_ok) H).
  cbn [c_buffer sample_call]. apply Forall_forall. intros x Hx%elem_of_seqZ. unfold is_byte. lia.
Defined.

(** The registry refuses a process that was forked from the one that made it, but only after
    [lupine_device_open] has sent its request: the server has opened a descriptor, and a
    second request closes it again. *)
Theorem child_open_sends_requests (w : world) (r fd dup : Z) (H_child : process (app w) <> getpid (app w))
  (H_room : Z.of_nat (size (table (servers w r))) < 4096) (H_next : 0 < next_token (servers w r) < 2 ^ 64 - 1) :
  let '(res, w') := lupine_device_open 1 0 (Some r) 0 (Value fd) (Value dup) Delivered Delivered w in
  res = Errno ENOTSUP /\ next_token (servers w' r) = next_token (servers w r) + 1.
Proof.
  unfold lupine_device_open. cbn -[lupine_device_proxy_create]. unfold retain.
  destruct (Z.leb_spec 4096 (Z.of_nat (size (table (servers w r))))); [lia|].
  destruct (Z.eqb_spec (next_token (servers w r)) 0); [lia|]. cbn -[lupine_device_proxy_create].
  unfold lupine_device_proxy_create. cbn. rewrite (proj2 (Z.eqb_neq _ _) H_child). cbn. rewrite !Z.eqb_refl. cbn.
  split; [done|]. rewrite with_server_same. apply wrap64_id. unfold is_u64. lia.
Qed.
