(* ===== verification/Monitor.v ===== *)
(** * Monitoring

    [monitoring.h], [monitor_client.cpp] and [monitor_server.cpp]: what a client reports about
    itself and how the server decodes it, the registry of server processes that the parent
    and its children share, the discovery of a child's process id on the host, and the
    labels and samples of the metrics.  Text is a list of bytes; a C string ends before its
    first zero. *)
From S2P Require Import Prelude VisibleDevices.

(** ** Client metadata *)

Definition LUPINE_CLIENT_METADATA_VERSION : Z := 1.
Definition LUPINE_CLIENT_METADATA_MAX_PAYLOAD : Z := 1024.
Definition LUPINE_WORKLOAD_ID_MAX_BYTES : Z := 256.

Record lupine_client_metadata_header := Header { version : Z; payload_size : Z }.

Record lupine_client_metadata := Metadata {
  client_pid : Z;
  client_pid_namespace_inode : Z;
  connection_kind : list byte;
  client_process_name : list byte;
  client_hostname : list byte }.

(** Sizes of the arrays, and the image of the structure in memory. *)
Definition kind_size : nat := 16.
Definition name_size : nat := 128.
Definition metadata_bytes (m : lupine_client_metadata) : list byte :=
  le_bytes 8 (client_pid m) ++ le_bytes 8 (client_pid_namespace_inode m) ++
  connection_kind m ++ client_process_name m ++ client_hostname m.

Definition metadata_size : Z := 288.
(** [offsetof(lupine_client_metadata_extended, workload_id_size)] and [workload_id]. *)
Definition workload_id_size_offset : Z := 288.
Definition workload_id_offset : Z := 292.

Definition sub_bytes (offset n : nat) (bs : list byte) : list byte := take n (drop offset bs).

Definition metadata_of (bs : list byte) : lupine_client_metadata :=
  Metadata (le_val (sub_bytes 0 8 bs)) (le_val (sub_bytes 8 8 bs)) (sub_bytes 16 kind_size bs)
    (sub_bytes 32 name_size bs) (sub_bytes 160 name_size bs).

(** *** Workload ids *)

(** The continuation bytes of a character. *)
Fixpoint continuation (remaining : nat) (cp : Z) (bs : list byte) : option (Z * list byte) :=
  match remaining, bs with
  | O, _ => Some (cp, bs)
  | S remaining, [] => None
  | S remaining, c :: bs =>
      if negb (Z.land c 192 =? 128) then None
      else continuation remaining (Z.lor (Z.shiftl cp 6) (Z.land c 63)) bs
  end.

(** What the first byte says: the number of bytes to come, the bits it carries and the
    smallest character of this length. *)
Definition lead (c : Z) : option (nat * Z * Z) :=
  if (194 <=? c) && (c <=? 223) then Some (1%nat, Z.land c 31, 128)
  else if (224 <=? c) && (c <=? 239) then Some (2%nat, Z.land c 15, 2048)
  else if (240 <=? c) && (c <=? 244) then Some (3%nat, Z.land c 7, 65536)
  else None.

Fixpoint valid_loop (fuel : nat) (bs : list byte) : bool :=
  match bs with
  | [] => true
  | c :: bs =>
      match fuel with
      | O => false
      | S fuel =>
          if c =? 0 then false
          else if c <? 128 then valid_loop fuel bs
          else
            match lead c with
            | None => false
            | Some (remaining, cp, minimum) =>
                if (length bs <? remaining)%nat then false
                else
                  match continuation remaining cp bs with
                  | None => false
                  | Some (cp, bs) =>
                      if (cp <? minimum) || (1114111 <? cp) || ((55296 <=? cp) && (cp <=? 57343)) then false
                      else valid_loop fuel bs
                  end
            end
      end
  end.

(** Each turn takes at least a byte. *)
Definition lupine_valid_workload_id (data : list byte) : bool :=
  if LUPINE_WORKLOAD_ID_MAX_BYTES <? Z.of_nat (length data) then false else valid_loop (length data) data.

(** *** Decoding *)

(** The metadata and the workload id; [None] when the header is not accepted. *)
Definition lupine_decode_client_metadata (header : lupine_client_metadata_header) (payload : list byte)
    : option (lupine_client_metadata * list byte) :=
  if (payload_size header <? metadata_size) || (LUPINE_CLIENT_METADATA_MAX_PAYLOAD <? payload_size header) ||
     negb (version header =? LUPINE_CLIENT_METADATA_VERSION)
  then None
  else
    let workload_id :=
      if workload_id_offset <=? payload_size header then
        let size := le_val (sub_bytes (Z.to_nat workload_id_size_offset) 4 payload) in
        let id := sub_bytes (Z.to_nat workload_id_offset) (Z.to_nat size) payload in
        if (size <=? LUPINE_WORKLOAD_ID_MAX_BYTES) && (payload_size header =? workload_id_offset + size) &&
           lupine_valid_workload_id id
        then id else []
      else [] in
    Some (metadata_of payload, workload_id).

(** *** The client's report *)

(** [copy_value] into an array of [n] zeros; a null pointer is like an empty string. *)
Definition copy_value (n : nat) (value : list byte) : list byte :=
  let copied := take (n - 1) value in copied ++ replicate (n - length copied) 0.

(** What the client asks of its system, on Linux: [getpid], the inode of its namespace, the
    link of its executable and the name of its host ([None] when the call fails), and
    LUPINE_WORKLOAD_ID. *)
Record client_env := ClientEnvironment {
  process_id : Z; pid_namespace_inode : Z; e_kind : list byte; exe_link : option (list byte);
  hostname : option (list byte); workload_env : option (list byte) }.

(** What follows the last slash. *)
Fixpoint base_name (path : list byte) : list byte :=
  match path with
  | [] => []
  | _ :: rest => if existsb (fun c => c =? 47) path then base_name rest else path
  end.

Definition process_name (e : client_env) : list byte :=
  match exe_link e with None => [] | Some path => base_name (take 4095 path) end.

Definition fill_process_name (n : nat) (e : client_env) : list byte := copy_value n (process_name e).

Definition fill_hostname (n : nat) (e : client_env) : list byte :=
  match hostname e with None => replicate n 0 | Some name => copy_value n name end.

Definition reported_metadata (e : client_env) : lupine_client_metadata :=
  Metadata (process_id e) (pid_namespace_inode e) (copy_value kind_size (e_kind e))
    (fill_process_name name_size e) (fill_hostname name_size e).

(** [strnlen] stops one byte beyond the longest id. *)
Definition workload_size (e : client_env) : Z :=
  match workload_env e with
  | None => 0
  | Some id => Z.min (Z.of_nat (length id)) (LUPINE_WORKLOAD_ID_MAX_BYTES + 1)
  end.

Definition workload_sent (e : client_env) : list byte :=
  let id := take (Z.to_nat (workload_size e)) (default [] (workload_env e)) in
  if lupine_valid_workload_id id then id else [].

(** The header and the payload of the request. *)
Definition lupine_report_client_metadata (e : client_env) : lupine_client_metadata_header * list byte :=
  let id := workload_sent e in
  let size := Z.of_nat (length id) in
  (Header LUPINE_CLIENT_METADATA_VERSION (wrap32 (workload_id_offset + size)),
   metadata_bytes (reported_metadata e) ++ le_bytes 4 size ++ id).

(** A C string of at most the bytes given. *)
Fixpoint c_string (bs : list byte) : list byte :=
  match bs with [] => [] | b :: bs => if b =? 0 then [] else b :: c_string bs end.

(** *** UTF-8 *)

(** The characters an id may have, and their encoding. *)
Definition scalar (cp : Z) : Prop := 0 < cp <= 1114111 /\ ~ 55296 <= cp <= 57343.

Definition utf8_encode (cp : Z) : list byte :=
  if cp <? 128 then [cp]
  else if cp <? 2048 then [192 + cp / 64; 128 + cp mod 64]
  else if cp <? 65536 then [224 + cp / 4096; 128 + cp / 64 mod 64; 128 + cp mod 64]
  else [240 + cp / 262144; 128 + cp / 4096 mod 64; 128 + cp / 64 mod 64; 128 + cp mod 64].

Lemma land_ones x k : 0 <= k -> Z.land x (Z.ones k) = x mod 2 ^ k.
Proof. intros Hk. by apply Z.land_ones. Qed.

Lemma shift_add cp b : 0 <= b < 64 -> Z.lor (Z.shiftl cp 6) b = cp * 64 + b.
Proof.
  intros Hb. pose proof (Z.add_lor_land (Z.shiftl cp 6) b) as Ha.
  assert (E : Z.land (Z.shiftl cp 6) b = 0).
  { apply Z.bits_inj'. intros i Hi. rewrite Z.land_spec, Z.bits_0, Z.shiftl_spec by lia.
    destruct (Z.ltb_spec i 6); [by rewrite Z.testbit_neg_r by lia|].
    rewrite (proj2 (Z.testbit_false b i Hi)), andb_false_r; [done|].
    rewrite Z.div_small; [done|]. assert (2 ^ 6 <= 2 ^ i) by (apply Z.pow_le_mono_r; lia). lia. }
  rewrite E, (Z.shiftl_mul_pow2 cp 6) in Ha by lia. rewrite (Z.shiftl_mul_pow2 cp 6) by lia. lia.
Qed.

Lemma continuation_byte c : is_byte c -> (Z.land c 192 =? 128) = (128 <=? c) && (c <? 192).
Proof.
  intros Hc. assert (H : forallb (fun c => Bool.eqb (Z.land c 192 =? 128) ((128 <=? c) && (c <? 192))) (seqZ 0 256) = true)
    by (vm_compute; reflexivity).
  rewrite forallb_forall in H. apply eqb_prop, H. apply list_elem_of_In, elem_of_seqZ. unfold is_byte in Hc. lia.
Qed.

Lemma continuation_step n cp c bs : is_byte c ->
  continuation (S n) cp (c :: bs) =
  if (128 <=? c) && (c <? 192) then continuation n (cp * 64 + (c - 128)) bs else None.
Proof.
  intros Hc. cbn [continuation]. rewrite continuation_byte by done.
  destruct ((128 <=? c) && (c <? 192)) eqn:E; [|done]. cbn [negb]. breflect.
  change 63 with (Z.ones 6). rewrite land_ones, shift_add by (try lia; apply Z.mod_pos_bound; lia).
  replace (c mod 2 ^ 6) with (c - 128); [done|]. change (2 ^ 6) with 64.
  apply (Z.mod_unique_pos _ _ 2); lia.
Qed.

Lemma lead_spec c : lead c =
  if (194 <=? c) && (c <=? 223) then Some (1%nat, c - 192, 128)
  else if (224 <=? c) && (c <=? 239) then Some (2%nat, c - 224, 2048)
  else if (240 <=? c) && (c <=? 244) then Some (3%nat, c - 240, 65536)
  else None.
Proof.
  unfold lead. change 31 with (Z.ones 5). change 15 with (Z.ones 4). change 7 with (Z.ones 3).
  rewrite !land_ones by lia. change (2 ^ 5) with 32. change (2 ^ 4) with 16. change (2 ^ 3) with 8.
  destruct ((194 <=? c) && (c <=? 223)) eqn:E1.
  { breflect. do 3 f_equal. symmetry. apply (Z.mod_unique_pos _ _ 6); lia. }
  destruct ((224 <=? c) && (c <=? 239)) eqn:E2.
  { breflect. do 3 f_equal. symmetry. apply (Z.mod_unique_pos _ _ 14); lia. }
  destruct ((240 <=? c) && (c <=? 244)) eqn:E3; [|done].
  breflect. do 3 f_equal. symmetry. apply (Z.mod_unique_pos _ _ 30); lia.
Qed.

(** A character that is accepted is the encoding of a scalar value. *)
Lemma utf8_take fuel c bs : Forall is_byte (c :: bs) -> valid_loop (S fuel) (c :: bs) = true ->
  exists cp rest, scalar cp /\ c :: bs = utf8_encode cp ++ rest /\ valid_loop fuel rest = true.
Proof.
  intros [Hc Hbs]%Forall_cons. cbn [valid_loop]. destruct (Z.eqb_spec c 0) as [|Hz]; [done|].
  unfold is_byte in Hc. destruct (Z.ltb_spec c 128) as [Hl|Hl].
  { intros Hv. exists c, bs. unfold utf8_encode, scalar. rewrite (proj2 (Z.ltb_lt c 128)) by done. split; [lia|done]. }
  rewrite lead_spec. destruct ((194 <=? c) && (c <=? 223)) eqn:E1; [|destruct ((224 <=? c) && (c <=? 239)) eqn:E2;
    [|destruct ((240 <=? c) && (c <=? 244)) eqn:E3; [|done]]]; breflect.
  - destruct bs as [|b1 bs]; [done|]. apply Forall_cons in Hbs as [H1 _]. cbn [length Nat.ltb Nat.leb].
    rewrite continuation_step by done. destruct ((128 <=? b1) && (b1 <? 192)) eqn:F1; [|done]. cbn [continuation].
    set (cp := (c - 192) * 64 + (b1 - 128)). destruct (_ || _) eqn:Eg; [done|]. intros Hv. breflect.
    exists cp, bs. split; [unfold scalar, cp in *; lia|]. split; [|done].
    unfold utf8_encode. rewrite (proj2 (Z.ltb_ge cp 128)), (proj2 (Z.ltb_lt cp 2048)) by (unfold cp; lia).
    simpl. unfold cp. f_equal; [|f_equal]; Z.div_mod_to_equations; lia.
  - destruct bs as [|b1 [|b2 bs]]; [done|done|]. apply Forall_cons in Hbs as [H1 [H2 _]%Forall_cons]. cbn [length Nat.ltb Nat.leb].
    rewrite continuation_step by done. destruct ((128 <=? b1) && (b1 <? 192)) eqn:F1; [|done].
    rewrite continuation_step by done. destruct ((128 <=? b2) && (b2 <? 192)) eqn:F2; [|done]. cbn [continuation].
    set (cp := ((c - 224) * 64 + (b1 - 128)) * 64 + (b2 - 128)). destruct (_ || _) eqn:Eg; [done|]. intros Hv. breflect.
    exists cp, bs. split; [unfold scalar, cp in *; lia|]. split; [|done].
    unfold utf8_encode. rewrite (proj2 (Z.ltb_ge cp 128)), (proj2 (Z.ltb_ge cp 2048)), (proj2 (Z.ltb_lt cp 65536)) by (unfold cp in *; lia).
    simpl. unfold cp. f_equal; [|f_equal; [|f_equal]]; Z.div_mod_to_equations; lia.
  - destruct bs as [|b1 [|b2 [|b3 bs]]]; [done..|].
    apply Forall_cons in Hbs as [H1 [H2 [H3 _]%Forall_cons]%Forall_cons]. cbn [length Nat.ltb Nat.leb].
    rewrite continuation_step by done. destruct ((128 <=? b1) && (b1 <? 192)) eqn:F1; [|done].
    rewrite continuation_step by done. destruct ((128 <=? b2) && (b2 <? 192)) eqn:F2; [|done].
    rewrite continuation_step by done. destruct ((128 <=? b3) && (b3 <? 192)) eqn:F3; [|done]. cbn [continuation].
    set (cp := (((c - 240) * 64 + (b1 - 128)) * 64 + (b2 - 128)) * 64 + (b3 - 128)).
    destruct (_ || _) eqn:Eg; [done|]. intros Hv. breflect.
    exists cp, bs. split; [unfold scalar, cp in *; lia|]. split; [|done].
    unfold utf8_encode. rewrite (proj2 (Z.ltb_ge cp 128)), (proj2 (Z.ltb_ge cp 2048)), (proj2 (Z.ltb_ge cp 65536)) by (unfold cp in *; lia).
    simpl. unfold cp. f_equal; [|f_equal; [|f_equal; [|f_equal]]]; Z.div_mod_to_equations; lia.
Qed.

(** The encoding of a scalar value is accepted. *)
Lemma utf8_put fuel cp rest : scalar cp -> valid_loop (S fuel) (utf8_encode cp ++ rest) = valid_loop fuel rest.
Proof.
  intros [Hcp Hs]. unfold utf8_encode. destruct (Z.ltb_spec cp 128) as [H1|H1].
  { cbn [app valid_loop]. rewrite (proj2 (Z.eqb_neq cp 0)), (proj2 (Z.ltb_lt cp 128)) by lia. done. }
  assert (Hrange : (cp <? 128) || (1114111 <? cp) || ((55296 <=? cp) && (cp <=? 57343)) = false).
  { rewrite (proj2 (Z.ltb_ge cp 128)), (proj2 (Z.ltb_ge 1114111 cp)) by lia. simpl.
    destruct (Z.leb_spec 55296 cp); [|done]. destruct (Z.leb_spec cp 57343); [lia|done]. }
  assert (Hmin : forall m, m <= cp -> (cp <? m) || (1114111 <? cp) || ((55296 <=? cp) && (cp <=? 57343)) = false).
  { intros m Hm. rewrite (proj2 (Z.ltb_ge cp m)) by lia. by rewrite (proj2 (Z.ltb_ge cp 128)) in Hrange by lia. }
  assert (Hstep : forall n a x bs, 0 <= x < 64 -> continuation (S n) a (128 + x :: bs) = continuation n (a * 64 + x) bs).
  { intros n a x bs Hx. rewrite continuation_step by (unfold is_byte; lia).
    rewrite (proj2 (Z.leb_le 128 (128 + x))), (proj2 (Z.ltb_lt (128 + x) 192)) by lia. simpl. do 2 f_equal. lia. }
  assert (Hm : forall y, 0 <= y mod 64 < 64) by (intros y; apply Z.mod_pos_bound; lia).
  destruct (Z.ltb_spec cp 2048) as [H2|H2]; [|destruct (Z.ltb_spec cp 65536) as [H3|H3]].
  - assert (194 <= 192 + cp / 64 <= 223) by (Z.div_mod_to_equations; lia).
    cbn [app valid_loop]. rewrite (proj2 (Z.eqb_neq (192 + cp / 64) 0)), (proj2 (Z.ltb_ge (192 + cp / 64) 128)) by lia.
    rewrite lead_spec, (proj2 (Z.leb_le 194 _)), (proj2 (Z.leb_le _ 223)) by lia. cbn [andb length Nat.ltb Nat.leb].
    rewrite Hstep by apply Hm. cbn [continuation].
    replace ((192 + cp / 64 - 192) * 64 + cp mod 64) with cp by (Z.div_mod_to_equations; lia). by rewrite Hmin.
  - assert (224 <= 224 + cp / 4096 <= 239) by (Z.div_mod_to_equations; lia).
    cbn [app valid_loop]. rewrite (proj2 (Z.eqb_neq (224 + cp / 4096) 0)), (proj2 (Z.ltb_ge (224 + cp / 4096) 128)) by lia.
    rewrite lead_spec, (proj2 (Z.leb_gt _ 223)), andb_false_r by lia.
    rewrite (proj2 (Z.leb_le 224 _)), (proj2 (Z.leb_le _ 239)) by lia. cbn [andb length Nat.ltb Nat.leb].
    rewrite !Hstep by apply Hm. cbn [continuation].
    replace (((224 + cp / 4096 - 224) * 64 + cp / 64 mod 64) * 64 + cp mod 64) with cp by (Z.div_mod_to_equations; lia).
    by rewrite Hmin.
  - assert (240 <= 240 + cp / 262144 <= 244) by (Z.div_mod_to_equations; lia).
    cbn [app valid_loop]. rewrite (proj2 (Z.eqb_neq (240 + cp / 262144) 0)), (proj2 (Z.ltb_ge (240 + cp / 262144) 128)) by lia.
    rewrite lead_spec, (proj2 (Z.leb_gt _ 223)), andb_false_r, (proj2 (Z.leb_gt _ 239)), andb_false_r by lia.
    rewrite (proj2 (Z.leb_le 240 _)), (proj2 (Z.leb_le _ 244)) by lia. cbn [andb length Nat.ltb Nat.leb].
    rewrite !Hstep by apply Hm. cbn [continuation].
    replace ((((240 + cp / 262144 - 240) * 64 + cp / 4096 mod 64) * 64 + cp / 64 mod 64) * 64 + cp mod 64) with cp
      by (Z.div_mod_to_equations; lia).
    by rewrite Hmin.
Qed.

Lemma utf8_nonempty cp : utf8_encode cp <> [].
Proof. unfold utf8_encode. by repeat case_match. Qed.

Lemma valid_loop_iff fuel : forall bs, Forall is_byte bs -> (length bs <= fuel)%nat ->
  valid_loop fuel bs = true <-> exists cps, Forall scalar cps /\ bs = cps ≫= utf8_encode.
Proof.
  induction fuel as [|fuel IH]; intros bs Hb Hl.
  { destruct bs; [|simpl in Hl; lia]. split; [intros _; by exists []|done]. }
  destruct bs as [|c bs]; [split; [intros _; by exists []|done]|]. split.
  - intros Hv. destruct (utf8_take fuel c bs Hb Hv) as (cp & rest & Hs & E & Hr).
    rewrite E in Hb, Hl. apply Forall_app in Hb as [_ Hb]. rewrite length_app in Hl.
    assert (length (utf8_encode cp) <> 0)%nat by (pose proof (utf8_nonempty cp); by destruct (utf8_encode cp)).
    apply (IH rest Hb ltac:(lia)) in Hr as (cps & Hcps & ->). exists (cp :: cps). split; [by constructor|done].
  - intros ([|cp cps] & Hcps & E); [done|]. apply Forall_cons in Hcps as [Hs Hcps]. rewrite E in *. cbn [mbind list_bind] in *.
    rewrite utf8_put by done. apply Forall_app in Hb as [_ Hb]. rewrite length_app in Hl.
    assert (length (utf8_encode cp) <> 0)%nat by (pose proof (utf8_nonempty cp); by destruct (utf8_encode cp)).
    apply IH; [done|lia|by exists cps].
Qed.

(** C27: A workload id is accepted exactly when it has at most 256 bytes and is the UTF-8 encoding
    of a sequence of Unicode scalar values other than zero: no overlong form, no surrogate,
    nothing cut off. *)
Theorem workload_id_is_utf8 (data : list byte) (H_bytes : Forall is_byte data) :
  lupine_valid_workload_id data = true <->
  Z.of_nat (length data) <= LUPINE_WORKLOAD_ID_MAX_BYTES /\ exists cps, Forall scalar cps /\ data = cps ≫= utf8_encode.
Proof.
  unfold lupine_valid_workload_id. destruct (Z.ltb_spec LUPINE_WORKLOAD_ID_MAX_BYTES (Z.of_nat (length data))).
  - split; [done|lia].
  - rewrite valid_loop_iff by done. naive_solver lia.
Qed.

(** The euro sign and a letter. *)
Lemma workload_id_is_utf8_witness :
  lupine_valid_workload_id [226; 130; 172; 97] = true /\
  exists cps, Forall scalar cps /\ [226; 130; 172; 97] = cps ≫= utf8_encode.
Proof.
  assert (H : lupine_valid_workload_id [226; 130; 172; 97] = true) by (vm_compute; reflexivity).
  split; [exact H|]. apply (workload_id_is_utf8 [226; 130; 172; 97]); [|exact H].
  repeat (apply Forall_cons; split; [unfold is_byte; lia|]). apply Forall_nil_2.
Defined.

(** *** Round trip *)

Lemma base_name_suffix path : exists l, path = l ++ base_name path.
Proof.
  induction path as [|c path [l IH]]; [by exists []|]. cbn [base_name].
  case_match; [exists (c :: l); simpl; by f_equal|by exists []].
Qed.

Lemma process_name_nonzero e : Forall (fun b => b <> 0) (default [] (exe_link e)) ->
  Forall (fun b => b <> 0) (process_name e).
Proof.
  unfold process_name. destruct (exe_link e) as [path|]; [|done]. simpl. intros Hp.
  destruct (base_name_suffix (take 4095 path)) as [l E]. apply (Forall_take _ 4095) in Hp.
  rewrite E in Hp. by apply Forall_app in Hp as [_ Hp].
Qed.

Lemma copy_value_length n value : (0 < n)%nat -> length (copy_value n value) = n.
Proof. intros Hn. unfold copy_value. rewrite length_app, length_replicate, length_take. lia. Qed.

Lemma c_string_app bs : Forall (fun b => b <> 0) bs -> forall rest, c_string (bs ++ 0 :: rest) = bs.
Proof.
  induction 1 as [|b bs Hb _ IH]; intros rest; simpl; [done|]. by rewrite (proj2 (Z.eqb_neq b 0)), IH.
Qed.

Lemma c_string_copy n value : (0 < n)%nat -> Forall (fun b => b <> 0) value ->
  c_string (copy_value n value) = take (n - 1) value.
Proof.
  intros Hn Hv. unfold copy_value. set (copied := take (n - 1) value).
  assert (length copied < n)%nat by (unfold copied; rewrite length_take; lia).
  destruct (n - length copied)%nat as [|k] eqn:E; [lia|]. simpl. apply c_string_app. by apply Forall_take.
Qed.

Lemma fill_hostname_length n e : (0 < n)%nat -> length (fill_hostname n e) = n.
Proof.
  intros Hn. unfold fill_hostname. destruct (hostname e); [by apply copy_value_length|apply length_replicate].
Qed.

Lemma c_string_hostname n e : (0 < n)%nat -> Forall (fun b => b <> 0) (default [] (hostname e)) ->
  c_string (fill_hostname n e) = take (n - 1) (default [] (hostname e)).
Proof.
  intros Hn. unfold fill_hostname. destruct (hostname e) as [name|]; simpl; [by apply c_string_copy|].
  intros _. rewrite take_nil. by destruct n.
Qed.

Lemma reported_lengths e (m := reported_metadata e) :
  length (connection_kind m) = kind_size /\ length (client_process_name m) = name_size /\
  length (client_hostname m) = name_size.
Proof.
  split_and!; [apply copy_value_length|apply copy_value_length|apply fill_hostname_length]; unfold kind_size, name_size; lia.
Qed.

Lemma sub_bytes_app (a b c : list byte) : sub_bytes (length a) (length b) (a ++ b ++ c) = b.
Proof. unfold sub_bytes. rewrite drop_app_length. by rewrite take_app_length. Qed.

Lemma sub_bytes_at offset n (a b c : list byte) : length a = offset -> length b = n -> sub_bytes offset n (a ++ b ++ c) = b.
Proof. intros <- <-. apply sub_bytes_app. Qed.

(** The image of a structure is read back. *)
Lemma metadata_read m rest : is_u64 (client_pid m) -> is_u64 (client_pid_namespace_inode m) ->
  length (connection_kind m) = kind_size -> length (client_process_name m) = name_size ->
  length (client_hostname m) = name_size -> metadata_of (metadata_bytes m ++ rest) = m.
Proof.
  intros H1 H2 H3 H4 H5. assert (L8 : forall z, length (le_bytes 8 z) = 8%nat) by (intros; apply length_le_bytes).
  assert (E : metadata_bytes m ++ rest = le_bytes 8 (client_pid m) ++ le_bytes 8 (client_pid_namespace_inode m) ++
    connection_kind m ++ client_process_name m ++ client_hostname m ++ rest) by (unfold metadata_bytes; by rewrite <- !app_assoc).
  unfold metadata_of. rewrite E. clear E. destruct m as [pid inode kind name host].
  cbn [client_pid client_pid_namespace_inode connection_kind client_process_name client_hostname] in *. f_equal.
  - pose proof (sub_bytes_at 0 8 [] (le_bytes 8 pid) (le_bytes 8 inode ++ kind ++ name ++ host ++ rest) eq_refl (L8 _)) as E.
    cbn [app] in E. rewrite E. by apply le_val_bytes8.
  - rewrite (sub_bytes_at 8 8); [by apply le_val_bytes8|apply L8|apply L8].
  - rewrite app_assoc. rewrite (sub_bytes_at 16 kind_size); [done| |done]. by rewrite length_app, !L8.
  - rewrite 2!app_assoc. rewrite (sub_bytes_at 32 name_size); [done| |done]. by rewrite !length_app, !L8, H3.
  - rewrite 3!app_assoc. rewrite (sub_bytes_at 160 name_size); [done| |done]. by rewrite !length_app, !L8, H3, H4.
Qed.

Lemma metadata_length m : length (connection_kind m) = kind_size -> length (client_process_name m) = name_size ->
  length (client_hostname m) = name_size -> length (metadata_bytes m) = Z.to_nat metadata_size.
Proof. intros H1 H2 H3. unfold metadata_bytes. rewrite !length_app, !length_le_bytes, H1, H2, H3. done. Qed.

Lemma workload_sent_ok e : lupine_valid_workload_id (workload_sent e) = true /\
  Z.of_nat (length (workload_sent e)) <= LUPINE_WORKLOAD_ID_MAX_BYTES.
Proof.
  unfold workload_sent. destruct (lupine_valid_workload_id (take _ _)) eqn:E; [|done]. split; [done|].
  unfold lupine_valid_workload_id in E. case_match eqn:El; [done|]. by apply Z.ltb_ge in El.
Qed.

(** What a client reports arrives: the server decodes the process and its namespace, the
    names cut to the size of their arrays, and the value of LUPINE_WORKLOAD_ID when it is
    valid and nothing otherwise. *)
Theorem metadata_roundtrip (e : client_env) (H_pid : is_u64 (process_id e)) (H_inode : is_u64 (pid_namespace_inode e))
  (H_kind : Forall (fun b => b <> 0) (e_kind e)) (H_exe : Forall (fun b => b <> 0) (default [] (exe_link e)))
  (H_host : Forall (fun b => b <> 0) (default [] (hostname e))) :
  let '(header, payload) := lupine_report_client_metadata e in
  Z.of_nat (length payload) = payload_size header /\
  exists m, lupine_decode_client_metadata header payload =
      Some (m, match workload_env e with
               | Some id => if lupine_valid_workload_id id then id else []
               | None => []
               end) /\
    client_pid m = process_id e /\ client_pid_namespace_inode m = pid_namespace_inode e /\
    c_string (connection_kind m) = take 15 (e_kind e) /\
    c_string (client_process_name m) = take 127 (process_name e) /\
    c_string (client_hostname m) = take 127 (default [] (hostname e)).
Proof.
  unfold lupine_report_client_metadata. set (m := reported_metadata e). set (id := workload_sent e).
  destruct (workload_sent_ok e) as [Hv Hlen]. fold id in Hv, Hlen. unfold LUPINE_WORKLOAD_ID_MAX_BYTES in Hlen.
  assert (Hm : length (metadata_bytes m) = 288%nat) by (destruct (reported_lengths e) as (? & ? & ?); by apply metadata_length).
  assert (Hw : wrap32 (workload_id_offset + Z.of_nat (length id)) = workload_id_offset + Z.of_nat (length id)).
  { apply Z.mod_small. unfold workload_id_offset. lia. }
  assert (Hid : id = match workload_env e with Some id => if lupine_valid_workload_id id then id else [] | None => [] end).
  { unfold id, workload_sent, workload_size. destruct (workload_env e) as [x|]; simpl; [|done].
    destruct (Z.leb_spec (Z.of_nat (length x)) 256) as [Hx|Hx].
    - by rewrite (take_ge x) by (unfold LUPINE_WORKLOAD_ID_MAX_BYTES; lia).
    - unfold lupine_valid_workload_id. rewrite length_take. unfold LUPINE_WORKLOAD_ID_MAX_BYTES.
      rewrite !(proj2 (Z.ltb_lt 256 _)) by lia. done. }
  rewrite <- Hid. rewrite Hw. split.
  { rewrite !length_app, Hm, length_le_bytes. simpl. unfold workload_id_offset. lia. }
  exists m. split.
  - unfold lupine_decode_client_metadata. cbn [payload_size version].
    unfold metadata_size, LUPINE_CLIENT_METADATA_MAX_PAYLOAD, workload_id_offset, workload_id_size_offset.
    rewrite (proj2 (Z.ltb_ge _ 288)), (proj2 (Z.ltb_ge 1024 _)), Z.eqb_refl by lia. cbn [orb negb].
    rewrite (proj2 (Z.leb_le 292 _)) by lia.
    rewrite (sub_bytes_at (Z.to_nat 288) 4) by (rewrite ?Hm, ?length_le_bytes; done).
    rewrite le_val_bytes4 by (unfold is_u32; lia).
    assert (E : sub_bytes (Z.to_nat 292) (Z.to_nat (Z.of_nat (length id)))
      (metadata_bytes m ++ le_bytes 4 (Z.of_nat (length id)) ++ id) = id).
    { pose proof (sub_bytes_at 292 (length id) (metadata_bytes m ++ le_bytes 4 (Z.of_nat (length id))) id []) as E.
      rewrite app_nil_r, <- app_assoc in E. rewrite Nat2Z.id. apply E; [|done]. by rewrite length_app, Hm, length_le_bytes. }
    rewrite E.
    unfold LUPINE_WORKLOAD_ID_MAX_BYTES. rewrite (proj2 (Z.leb_le _ 256)), Z.eqb_refl, Hv by lia. cbn [andb].
    destruct (reported_lengths e) as (? & ? & ?). by rewrite metadata_read.
  - split_and!; [done|done| | |].
    + apply c_string_copy; [unfold kind_size; lia|done].
    + apply c_string_copy; [unfold name_size; lia|by apply process_name_nonzero].
    + apply c_string_hostname; [unfold name_size; lia|done].
Qed.

Definition sample_env : client_env :=
  ClientEnvironment 4711 4026531836 (chars "cuda") (Some (chars "/usr/bin/python3")) (Some (chars "worker")) (Some (chars "job")).

Lemma metadata_roundtrip_witness :
  let '(header, payload) := lupine_report_client_metadata sample_env in
  payload_size header = 295 /\
  exists m, lupine_decode_client_metadata header payload = Some (m, chars "job") /\ client_pid m = 4711 /\
    c_string (client_process_name m) = chars "python3".
Proof.
  assert (Hnz : forall s, forallb (fun b => negb (b =? 0)) s = true -> Forall (fun b => b <> 0) s).
  { intros s Hs. apply Forall_forall. intros b Hb%list_elem_of_In. rewrite forallb_forall in Hs.
    specialize (Hs b Hb). apply negb_true_iff in Hs. by apply Z.eqb_neq. }
  pose proof (metadata_roundtrip sample_env ltac:(unfold is_u64; simpl; lia) ltac:(unfold is_u64; simpl; lia)
    (Hnz (e_kind sample_env) eq_refl) (Hnz (default [] (exe_link sample_env)) eq_refl) (Hnz (default [] (hostname sample_env)) eq_refl)) as H.
  destruct (lupine_report_client_metadata sample_env) as [header payload] eqn:E.
  destruct H as (H1 & m & H2 & H3 & _ & _ & H4 & _). split; [by injection E as <- _|].
  exists m. split; [exact H2|]. split; [exact H3|exact H4].
Defined.

(** ** Labels *)

Definition ch_quote : Z := 34.
Definition ch_backslash : Z := 92.
Definition ch_newline : Z := 10.
Definition ch_n : Z := 110.
Definition ch_equals : Z := 61.

Fixpoint prometheus_escape (value : list byte) : list byte :=
  match value with
  | [] => []
  | c :: value =>
      if c =? 0 then []
      else if c =? ch_backslash then ch_backslash :: ch_backslash :: prometheus_escape value
      else if c =? ch_quote then ch_backslash :: ch_quote :: prometheus_escape value
      else if c =? ch_newline then ch_backslash :: ch_n :: prometheus_escape value
      else if (32 <=? c) && negb (c =? 127) then c :: prometheus_escape value
      else prometheus_escape value
  end.

Definition label (name value : list byte) : list byte :=
  name ++ [ch_equals; ch_quote] ++ prometheus_escape value ++ [ch_quote].

Record client_key := ClientKey {
  k_client_id : list byte;
  k_client_address : list byte;
  k_client_hostname : list byte;
  k_client_process_name : list byte;
  k_device_index : Z;
  k_device_uuid : list byte }.

Definition client_labels (k : client_key) : list byte :=
  label (chars "client_id") (k_client_id k) ++ [ch_comma] ++
  label (chars "client_address") (k_client_address k) ++ [ch_comma] ++
  label (chars "client_hostname") (k_client_hostname k) ++ [ch_comma] ++
  label (chars "client_name") (k_client_process_name k) ++ [ch_comma] ++
  label (chars "device_uuid") (k_device_uuid k) ++ [ch_comma] ++
  chars "device_index=" ++ [ch_quote] ++ decimal (k_device_index k) ++ [ch_quote].

(** *** How labels are read

    A label value of the Prometheus text format, after its opening quote, and what follows its
    closing one. *)
Fixpoint parse_value (s : list byte) : option (list byte * list byte) :=
  let put c r := match r with None => None | Some (v, rest) => Some (c :: v, rest) end in
  match s with
  | [] => None
  | c :: s =>
      if c =? ch_quote then Some ([], s)
      else if c =? ch_newline then None
      else if c =? ch_backslash then
        match s with
        | [] => None
        | d :: s =>
            if d =? ch_backslash then put ch_backslash (parse_value s)
            else if d =? ch_quote then put ch_quote (parse_value s)
            else if d =? ch_n then put ch_newline (parse_value s)
            else None
        end
      else put c (parse_value s)
  end.

Fixpoint parse_name (s : list byte) : option (list byte * list byte) :=
  match s with
  | [] => None
  | c :: s =>
      if c =? ch_equals then match s with q :: s => if q =? ch_quote then Some ([], s) else None | [] => None end
      else match parse_name s with None => None | Some (n, rest) => Some (c :: n, rest) end
  end.

(** Labels with commas between them; every label takes bytes. *)
Fixpoint parse_labels (fuel : nat) (s : list byte) : option (list (list byte * list byte)) :=
  match fuel with
  | O => None
  | S fuel =>
      '(name, s) ← parse_name s;
      '(value, s) ← parse_value s;
      match s with
      | [] => Some [(name, value)]
      | c :: s => if c =? ch_comma then cons (name, value) <$> parse_labels fuel s else None
      end
  end.

(** The characters of a value that are kept. *)
Definition visible (value : list byte) : list byte :=
  filter (fun c => c = ch_newline \/ 32 <= c /\ c <> 127) (c_string value).

Lemma parse_escaped value rest :
  parse_value (prometheus_escape value ++ ch_quote :: rest) = Some (visible value, rest).
Proof.
  induction value as [|c value IH]; [done|]. unfold visible in *. cbn [prometheus_escape c_string].
  destruct (Z.eqb_spec c 0) as [|H0]; [done|].
  destruct (Z.eqb_spec c ch_backslash) as [->|H1]; [cbn [app parse_value]; simpl; by rewrite IH|].
  destruct (Z.eqb_spec c ch_quote) as [->|H2]; [cbn [app parse_value]; simpl; by rewrite IH|].
  destruct (Z.eqb_spec c ch_newline) as [->|H3]; [cbn [app parse_value]; simpl; by rewrite IH|].
  destruct (Z.leb_spec 32 c); cbn [andb].
  - destruct (Z.eqb_spec c 127) as [->|H4]; cbn [negb].
    + rewrite filter_cons_False by (unfold ch_newline; lia). done.
    + rewrite filter_cons_True by lia. cbn [app parse_value].
      rewrite (proj2 (Z.eqb_neq c ch_quote)), (proj2 (Z.eqb_neq c ch_newline)), (proj2 (Z.eqb_neq c ch_backslash)) by done.
      by rewrite IH.
  - rewrite filter_cons_False by lia. done.
Qed.

Lemma parse_name_ok name rest : Forall (fun c => c <> ch_equals) name ->
  parse_name (name ++ ch_equals :: ch_quote :: rest) = Some (name, rest).
Proof.
  induction 1 as [|c name Hc _ IH]; [done|]. cbn [app parse_name]. by rewrite (proj2 (Z.eqb_neq c ch_equals)), IH.
Qed.

(** A list of labels is read back. *)
Lemma parse_joined fuel (pairs : list (list byte * list byte)) : pairs <> [] -> (length pairs <= fuel)%nat ->
  Forall (fun p => Forall (fun c => c <> ch_equals) p.1) pairs ->
  parse_labels fuel (join_commas ((fun p => label p.1 p.2) <$> pairs)) = Some ((fun p => (p.1, visible p.2)) <$> pairs).
Proof.
  revert fuel. induction pairs as [|[name value] pairs IH]; intros fuel Hne Hf Hn; [done|].
  destruct fuel as [|fuel]; [simpl in Hf; lia|]. apply Forall_cons in Hn as [Hn Hns].
  assert (E : join_commas ((fun p => label p.1 p.2) <$> (name, value) :: pairs) = name ++ ch_equals :: ch_quote ::
    prometheus_escape value ++ ch_quote ::
    match pairs with [] => [] | _ => ch_comma :: join_commas ((fun p => label p.1 p.2) <$> pairs) end).
  { destruct pairs as [|q pairs]; simpl; unfold label; rewrite <- ?app_assoc; done. }
  rewrite E. cbn [parse_labels]. rewrite parse_name_ok by done. cbn. rewrite parse_escaped. cbn.
  destruct pairs as [|q pairs]; [done|]. rewrite Z.eqb_refl. rewrite IH; [done|done|simpl in *; lia|done].
Qed.

Lemma escape_digits l : Forall (fun c => is_digit c = true) l -> prometheus_escape l = l.
Proof.
  induction 1 as [|c l Hc _ IH]; [done|]. cbn [prometheus_escape]. unfold is_digit, ch_0, ch_9 in Hc. breflect.
  rewrite (proj2 (Z.eqb_neq c 0)), (proj2 (Z.eqb_neq c ch_backslash)), (proj2 (Z.eqb_neq c ch_quote)),
    (proj2 (Z.eqb_neq c ch_newline)), (proj2 (Z.leb_le 32 c)), (proj2 (Z.eqb_neq c 127)), IH
    by (unfold ch_backslash, ch_quote, ch_newline; lia). done.
Qed.

Lemma visible_digits l : Forall (fun c => is_digit c = true) l -> visible l = l.
Proof.
  unfold visible. induction 1 as [|c l Hc _ IH]; [done|]. unfold is_digit, ch_0, ch_9 in Hc. breflect. cbn [c_string].
  rewrite (proj2 (Z.eqb_neq c 0)) by lia. rewrite filter_cons_True by lia. by rewrite IH.
Qed.



(** ** The registry of server processes *)

Definition kMaxServerChildren : nat := Z.to_nat 4096.

(** [state] is whether a slot is active. *)
Record monitor_slot := Slot {
  state : bool;
  server_pid : Z;
  host_pid : Z;
  client_address : list byte;
  metadata : lupine_client_metadata;
  workload_id : list byte }.

Definition no_metadata : lupine_client_metadata := metadata_of [].
Definition free_slot : monitor_slot := Slot false 0 0 [] no_metadata [].

Record monitor_registry := Registry {
  slots : list monitor_slot;
  dropped_connections : Z;
  host_pid_discovery_failures : Z;
  host_pid_discovery_ambiguities : Z }.

Definition with_slots (l : list monitor_slot) (r : monitor_registry) : monitor_registry :=
  Registry l (dropped_connections r) (host_pid_discovery_failures r) (host_pid_discovery_ambiguities r).

(** [lupine_monitoring_initialize], once the memory and the mutexes are there. *)
Definition lupine_monitoring_initialize : monitor_registry :=
  Registry (replicate kMaxServerChildren free_slot) 0 0 0.

(** [child_slot], -1 without a slot; [initial]: the process is in the initial PID namespace. *)
Definition lupine_monitoring_register_child (pid : Z) (initial : bool) (r : monitor_registry) : Z * monitor_registry :=
  match list_find (fun s => state s = false) (slots r) with
  | Some (index, _) =>
      (Z.of_nat index,
       with_slots (<[index := Slot true pid (if initial then pid else 0) [] no_metadata []]> (slots r)) r)
  | None =>
      (-1, Registry (slots r) (wrap64 (dropped_connections r + 1)) (host_pid_discovery_failures r)
             (host_pid_discovery_ambiguities r))
  end.

Definition lupine_monitoring_unregister_pid (pid : Z) (r : monitor_registry) : monitor_registry :=
  if pid <=? 0 then r
  else
    match list_find (fun s => state s = true /\ server_pid s = pid) (slots r) with
    | Some (index, _) => with_slots (<[index := free_slot]> (slots r)) r
    | None => r
    end.

(** An active slot with an index in range. *)
Definition active_slot (slot_index : Z) (r : monitor_registry) : option (nat * monitor_slot) :=
  if (slot_index <? 0) || (Z.of_nat kMaxServerChildren <=? slot_index) then None
  else
    match slots r !! Z.to_nat slot_index with
    | Some s => if state s then Some (Z.to_nat slot_index, s) else None
    | None => None
    end.

Definition terminated (n : nat) (l : list byte) : list byte := take (n - 1) l ++ [0].

Definition terminate_strings (m : lupine_client_metadata) : lupine_client_metadata :=
  Metadata (client_pid m) (client_pid_namespace_inode m) (terminated kind_size (connection_kind m))
    (terminated name_size (client_process_name m)) (terminated name_size (client_hostname m)).

Definition address_size : nat := 64.

Definition store_metadata (slot_index : Z) (m : lupine_client_metadata) (address workload : list byte)
    (r : monitor_registry) : bool * monitor_registry :=
  match active_slot slot_index r with
  | None => (false, r)
  | Some (i, s) =>
      (true, with_slots (<[i := Slot true (server_pid s) (host_pid s) (take (address_size - 1) (c_string address)) m workload]>
                           (slots r)) r)
  end.

Definition store_host_pid (slot_index host : Z) (r : monitor_registry) : bool * monitor_registry :=
  if host <=? 0 then (false, r)
  else
    match active_slot slot_index r with
    | None => (false, r)
    | Some (i, s) =>
        (true, with_slots (<[i := Slot true (server_pid s) host (client_address s) (metadata s) (workload_id s)]>
                             (slots r)) r)
    end.

Definition slot_has_host_pid (slot_index : Z) (r : monitor_registry) : bool :=
  match active_slot slot_index r with None => false | Some (_, s) => 0 <? host_pid s end.

Definition host_pid_owned_by_other_slot (host slot_index : Z) (r : monitor_registry) : bool :=
  if host <=? 0 then false
  else existsb (fun '(i, s) => negb (Z.of_nat i =? slot_index) && state s && (host_pid s =? host))
         (imap pair (slots r)).

(** [handle_lupine_client_metadata] with a request of header and payload; [lane] is what the
    connection has, and the result is what is left of it. *)
Definition handle_lupine_client_metadata (child_slot : Z) (address lane : list byte) (r : monitor_registry)
    : option (list byte * monitor_registry) :=
  if (length lane <? 8)%nat then None
  else
    let header := Header (le_val (sub_bytes 0 4 lane)) (le_val (sub_bytes 4 4 lane)) in
    let lane := drop 8 lane in
    let n := Z.to_nat (payload_size header) in
    if (length lane <? n)%nat then None
    else if LUPINE_CLIENT_METADATA_MAX_PAYLOAD <? payload_size header then Some (drop n lane, r)
    else
      match lupine_decode_client_metadata header (take n lane) with
      | None => Some (drop n lane, r)
      | Some (m, workload) =>
          Some (drop n lane, (store_metadata child_slot (terminate_strings m) address workload r).2)
      end.

(** *** Discovery of the process id on the host

    [begin_context_probe] takes the discovery mutex and notes the processes on the device;
    [end_context_probe] looks for one that is new.  [after] is what each query returns. *)

Record host_pid_probe := Probe { slot_index : Z; before_pids : list Z }.

(** A probe that is not needed, one that fails, which is counted, and one that is begun. *)
Inductive beginning := NoProbe | ProbeFailed | Begun (p : host_pid_probe).

(** [active]: the thread has a probe; [ready]: the library, the device and the mutex could be
    had.  The registry is [r] at first and [r'] once the mutex is held, and [before] are the
    processes on the device then. *)
Definition begin_context_probe (child_slot : Z) (active primary_active ready : bool) (before : option (list Z))
    (r r' : monitor_registry) : beginning :=
  if (child_slot <? 0) || slot_has_host_pid child_slot r || active || primary_active then NoProbe
  else if negb ready then ProbeFailed
  else if slot_has_host_pid child_slot r' then NoProbe
  else match before with None => ProbeFailed | Some pids => Begun (Probe child_slot pids) end.

(** At most fifty queries: the candidate, or whether the search was ambiguous. *)
Inductive search := Candidate (pid : Z) | Ambiguous | NotFound.

Fixpoint find_candidate (attempts : nat) (p : host_pid_probe) (after : list (option (list Z))) : search :=
  match attempts, after with
  | S attempts, Some pids :: after =>
      match filter (fun pid => pid ∉ before_pids p) pids with
      | [pid] => Candidate (sint32 pid)
      | [] => find_candidate attempts p after
      | _ => Ambiguous
      end
  | _, _ => NotFound
  end.

(** Whether the candidate is stored. *)
Definition accept_candidate (p : host_pid_probe) (s : search) (r : monitor_registry) : option Z :=
  match s with
  | Candidate pid => if (0 <? pid) && negb (host_pid_owned_by_other_slot pid (slot_index p) r) then Some pid else None
  | _ => None
  end.

(** Whether the search ends without a candidate that is one. *)
Definition is_ambiguous (s : search) : bool := match s with NotFound => false | _ => true end.

(** The counters after a probe that did not resolve. *)
Definition note_unresolved (ambiguous : bool) (r : monitor_registry) : monitor_registry :=
  Registry (slots r) (dropped_connections r) (wrap64 (host_pid_discovery_failures r + 1))
    (if ambiguous then wrap64 (host_pid_discovery_ambiguities r + 1) else host_pid_discovery_ambiguities r).

(** The probe's end when nothing happens between its sections. *)
Definition end_context_probe (context_created : bool) (p : host_pid_probe) (after : list (option (list Z)))
    (r : monitor_registry) : monitor_registry :=
  if context_created then
    let found := find_candidate 50 p after in
    match accept_candidate p found r with
    | Some pid =>
        let '(resolved, r) := store_host_pid (slot_index p) pid r in
        if resolved then r else note_unresolved false r
    | None => note_unresolved (is_ambiguous found) r
    end
  else r.

(** *** The processes of a server

    The discovery mutex is held from the beginning of a probe to its end, and the check of a
    candidate and its store are two sections of the registry's mutex; both are robust, so a
    process that dies leaves them free.  A new process does not have the id of a registered
    one, and a process probes while it is registered. *)

Inductive phase := Probing | Storing (pid : Z).

Record system := System { reg : monitor_registry; holder : option (host_pid_probe * phase) }.

Section Server.
Context (initial : bool).

Inductive step : system -> system -> Prop :=
| register_step r h pid : 0 < pid -> (forall i s, slots r !! i = Some s -> state s = true -> server_pid s <> pid) ->
    step (System r h) (System (lupine_monitoring_register_child pid initial r).2 h)
| unregister_step r h pid : step (System r h) (System (lupine_monitoring_unregister_pid pid r) h)
| death_step r h : step (System r h) (System r None)
| metadata_step r h i address lane lane' r' : handle_lupine_client_metadata i address lane r = Some (lane', r') ->
    step (System r h) (System r' h)
| begin_step r0 r i active primary ready before p s j : active_slot i r = Some (j, s) ->
    begin_context_probe i active primary ready before r0 r = Begun p -> step (System r None) (System r (Some (p, Probing)))
| check_step r p after pid : accept_candidate p (find_candidate 50 p after) r = Some pid ->
    step (System r (Some (p, Probing))) (System r (Some (p, Storing pid)))
| store_step r p pid : step (System r (Some (p, Storing pid))) (System (store_host_pid (slot_index p) pid r).2 None)
| failure_step r h : step (System r h) (System (note_unresolved false r) h)
| unresolved_step r p after : accept_candidate p (find_candidate 50 p after) r = None ->
    step (System r (Some (p, Probing))) (System (note_unresolved (is_ambiguous (find_candidate 50 p after)) r) None).

(** The end of a probe is a run of the system. *)
Lemma end_context_probe_steps created p after r :
  rtc step (System r (Some (p, Probing))) (System (end_context_probe created p after r) None).
Proof.
  unfold end_context_probe. destruct created; [|apply rtc_once, death_step].
  destruct (accept_candidate p (find_candidate 50 p after) r) as [pid|] eqn:E; [|by apply rtc_once, unresolved_step].
  apply (rtc_l _ _ (System r (Some (p, Storing pid)))); [by apply (check_step r p after)|].
  pose proof (store_step r p pid) as Hs. destruct (store_host_pid (slot_index p) pid r) as [[] r']; [by apply rtc_once|].
  apply (rtc_l _ _ _ _ Hs), rtc_once, failure_step.
Qed.

Definition distinct_hosts (l : list monitor_slot) : Prop :=
  forall i j s t, l !! i = Some s -> l !! j = Some t -> state s = true -> state t = true ->
    0 < host_pid s -> host_pid s = host_pid t -> i = j.

Record registry_inv (y : system) : Prop := RegistryInv {
  reg_length : length (slots (reg y)) = kMaxServerChildren;
  reg_pids : forall i s, slots (reg y) !! i = Some s -> state s = true -> 0 < server_pid s;
  reg_servers : forall i j s t, slots (reg y) !! i = Some s -> slots (reg y) !! j = Some t ->
    state s = true -> state t = true -> server_pid s = server_pid t -> i = j;
  reg_hosts : distinct_hosts (slots (reg y));
  reg_initial : initial = true -> holder y = None /\
    forall i s, slots (reg y) !! i = Some s -> state s = true -> host_pid s = server_pid s;
  reg_storing : forall p pid, holder y = Some (p, Storing pid) -> 0 < pid /\
    forall i s, slots (reg y) !! i = Some s -> state s = true -> Z.of_nat i <> slot_index p -> host_pid s <> pid }.

(** Slots that keep their process or are freed. *)
Lemma inv_sub y r h : registry_inv y -> length (slots r) = length (slots (reg y)) ->
  (forall i s, slots r !! i = Some s -> state s = true -> exists s', slots (reg y) !! i = Some s' /\ state s' = true /\
     server_pid s = server_pid s' /\ host_pid s = host_pid s') ->
  (h = holder y \/ h = None) -> registry_inv (System r h).
Proof.
  intros [H1 H2 H3 H4 H5 H6] Hl Hs Hh. split; cbn [reg holder].
  - congruence.
  - intros i s Hi Hst. destruct (Hs i s Hi Hst) as (s' & E & Et & Ep & _). rewrite Ep. by apply (H2 i).
  - intros i j s t Hi Hj Hst Ht E. destruct (Hs i s Hi Hst) as (s' & Es & Ess & Eps & _).
    destruct (Hs j t Hj Ht) as (t' & Et & Ett & Ept & _). apply (H3 i j s' t'); congruence.
  - intros i j s t Hi Hj Hst Ht Hp E. destruct (Hs i s Hi Hst) as (s' & Es & Ess & _ & Eps).
    destruct (Hs j t Hj Ht) as (t' & Et & Ett & _ & Ept). apply (H4 i j s' t'); congruence.
  - intros Hi. destruct (H5 Hi) as [E5 F5]. split; [by destruct Hh as [->| ->]|]. intros i s Hs' Hst.
    destruct (Hs i s Hs' Hst) as (s' & Es & Ess & Ep & Eh). rewrite Ep, Eh. by apply (F5 i).
  - intros p pid E. destruct Hh as [->| ->]; [|done]. destruct (H6 p pid E) as [Hpos H6']. split; [done|].
    intros i s Hi Hst Hne. destruct (Hs i s Hi Hst) as (s' & Es & Ess & _ & Eh). rewrite Eh. by apply (H6' i).
Qed.

Lemma active_slot_some k r i s : active_slot k r = Some (i, s) -> slots r !! i = Some s /\ state s = true /\ k = Z.of_nat i.
Proof.
  unfold active_slot. destruct (_ || _) eqn:E; [done|]. breflect. destruct (slots r !! Z.to_nat k) as [t|] eqn:Et; [|done].
  destruct (state t) eqn:Est; [|done]. intros [= <- <-]. split_and!; [done|done|lia].
Qed.

Lemma register_inv r h pid : registry_inv (System r h) -> 0 < pid ->
  (forall i s, slots r !! i = Some s -> state s = true -> server_pid s <> pid) ->
  registry_inv (System (lupine_monitoring_register_child pid initial r).2 h).
Proof.
  intros Hi Hp Hf. unfold lupine_monitoring_register_child.
  destruct (list_find _ (slots r)) as [[k f]|] eqn:El; [|apply (inv_sub (System r h)); eauto 10].
  apply list_find_Some in El as (Hk & Hst & _). pose proof (lookup_lt_Some _ _ _ Hk) as Hlt.
  destruct Hi as [H1 H2 H3 H4 H5 H6]. cbn [reg holder] in *. set (new := Slot true pid _ _ _ _).
  assert (Hl : forall i s, <[k:=new]> (slots r) !! i = Some s -> state s = true ->
    (i = k /\ s = new) \/ (i <> k /\ slots r !! i = Some s)).
  { intros i s. destruct (decide (i = k)) as [->|Hne].
    - rewrite list_lookup_insert_eq by done. intros [= <-]. by left.
    - rewrite list_lookup_insert_ne by done. by right. }
  assert (Hnew : 0 < host_pid new -> initial = true /\ host_pid new = pid) by (simpl; destruct initial; [done|lia]).
  split; cbn [reg holder snd with_slots slots].
  - by rewrite length_insert.
  - intros i s Hi Hs. destruct (Hl i s Hi Hs) as [[-> ->]|[_ Hi']]; [done|by apply (H2 i)].
  - intros i j s t Hi Hj Hs Ht E.
    destruct (Hl i s Hi Hs) as [[-> ->]|[_ Hi']], (Hl j t Hj Ht) as [[-> ->]|[_ Hj']]; [done| | |by apply (H3 i j s t)].
    + destruct (Hf j t Hj' Ht). by rewrite <- E.
    + destruct (Hf i s Hi' Hs). by rewrite E.
  - intros i j s t Hi Hj Hs Ht Hpos E.
    destruct (Hl i s Hi Hs) as [[-> ->]|[_ Hi']], (Hl j t Hj Ht) as [[-> ->]|[_ Hj']]; [done| | |by apply (H4 i j s t)].
    + destruct (Hnew Hpos) as [Hin En]. destruct (Hf j t Hj' Ht). rewrite <- (proj2 (H5 Hin) j t Hj' Ht). congruence.
    + destruct (Hnew ltac:(lia)) as [Hin En]. destruct (Hf i s Hi' Hs). rewrite <- (proj2 (H5 Hin) i s Hi' Hs). congruence.
  - intros Hin. destruct (H5 Hin) as [E5 F5]. split; [done|]. intros i s Hi Hs.
    destruct (Hl i s Hi Hs) as [[-> ->]|[_ Hi']]; [simpl; by rewrite Hin|by apply (F5 i)].
  - intros p q E. destruct (H6 p q E) as [Hpos H6']. split; [done|]. intros i s Hi Hs Hne.
    destruct (Hl i s Hi Hs) as [[-> ->]|[_ Hi']]; [|by apply (H6' i)].
    simpl. destruct initial; [|lia]. destruct (H5 eq_refl). congruence.
Qed.

Lemma not_owned pid k r i s : host_pid_owned_by_other_slot pid k r = false -> 0 < pid -> slots r !! i = Some s ->
  state s = true -> Z.of_nat i <> k -> host_pid s <> pid.
Proof.
  unfold host_pid_owned_by_other_slot. destruct (Z.leb_spec pid 0); [lia|]. intros He _ Hi Hs Hne E.
  assert (Hex : existsb (fun '(i, s) => negb (Z.of_nat i =? k) && state s && (host_pid s =? pid)) (imap pair (slots r)) = true).
  { apply existsb_exists. exists (i, s). split.
    - apply list_elem_of_In, list_elem_of_lookup. exists i. by rewrite list_lookup_imap, Hi.
    - rewrite (proj2 (Z.eqb_neq _ _) Hne), Hs, E, Z.eqb_refl. done. }
  congruence.
Qed.

Lemma store_inv r p pid : registry_inv (System r (Some (p, Storing pid))) ->
  registry_inv (System (store_host_pid (slot_index p) pid r).2 None).
Proof.
  intros Hi. pose proof Hi as [H1 H2 H3 H4 H5 H6]. cbn [reg holder] in *. destruct (H6 p pid eq_refl) as [Hpos Hoth].
  unfold store_host_pid. destruct (Z.leb_spec pid 0); [lia|].
  destruct (active_slot (slot_index p) r) as [[k f]|] eqn:Ea; [|apply (inv_sub _ _ _ Hi); eauto 10].
  apply active_slot_some in Ea as (Hk & Hf & Ek). pose proof (lookup_lt_Some _ _ _ Hk) as Hlt.
  set (new := Slot true _ _ _ _ _).
  assert (Hl : forall i s, <[k:=new]> (slots r) !! i = Some s -> state s = true ->
    (i = k /\ s = new) \/ (i <> k /\ slots r !! i = Some s)).
  { intros i s. destruct (decide (i = k)) as [->|Hne].
    - rewrite list_lookup_insert_eq by done. intros [= <-]. by left.
    - rewrite list_lookup_insert_ne by done. by right. }
  split; cbn [reg holder snd with_slots slots]; try done.
  - by rewrite length_insert.
  - intros i s Hii Hs. destruct (Hl i s Hii Hs) as [[-> ->]|[_ Hi']]; [by apply (H2 k f)|by apply (H2 i)].
  - intros i j s t Hii Hj Hs Ht E.
    destruct (Hl i s Hii Hs) as [[-> ->]|[_ Hi']], (Hl j t Hj Ht) as [[-> ->]|[_ Hj']];
      [done|by apply (H3 k j f t)|by apply (H3 i k s f)|by apply (H3 i j s t)].
  - intros i j s t Hii Hj Hs Ht Hp E.
    destruct (Hl i s Hii Hs) as [[-> ->]|[Hni Hi']], (Hl j t Hj Ht) as [[-> ->]|[Hnj Hj']]; [done| | |by apply (H4 i j s t)].
    + destruct (Hoth j t Hj' Ht ltac:(lia)). by rewrite <- E.
    + destruct (Hoth i s Hi' Hs ltac:(lia)). by rewrite E.
  - intros Hin. by destruct (H5 Hin).
Qed.

Lemma metadata_sub k address lane lane' r r' : handle_lupine_client_metadata k address lane r = Some (lane', r') ->
  length (slots r') = length (slots r) /\
  forall i s, slots r' !! i = Some s -> state s = true -> exists s', slots r !! i = Some s' /\ state s' = true /\
    server_pid s = server_pid s' /\ host_pid s = host_pid s'.
Proof.
  assert (Hsame : length (slots r) = length (slots r) /\
    forall i s, slots r !! i = Some s -> state s = true -> exists s', slots r !! i = Some s' /\ state s' = true /\
      server_pid s = server_pid s' /\ host_pid s = host_pid s') by eauto 10.
  unfold handle_lupine_client_metadata. do 2 (case_match; [done|]). case_match; [by intros [= _ <-]|].
  destruct (lupine_decode_client_metadata _ _) as [[m workload]|]; [|by intros [= _ <-]].
  unfold store_metadata. destruct (active_slot k r) as [[j f]|] eqn:Ea; [|by intros [= _ <-]]. intros [= _ <-].
  apply active_slot_some in Ea as (Hk & Hf & _). pose proof (lookup_lt_Some _ _ _ Hk) as Hlt.
  split; [by cbn; rewrite length_insert|]. intros i s. cbn. destruct (decide (i = j)) as [->|Hne].
  - rewrite list_lookup_insert_eq by done. intros [= <-] _. by exists f.
  - rewrite list_lookup_insert_ne by done. eauto.
Qed.

Lemma unregister_sub pid r : let r' := lupine_monitoring_unregister_pid pid r in
  length (slots r') = length (slots r) /\
  forall i s, slots r' !! i = Some s -> state s = true -> exists s', slots r !! i = Some s' /\ state s' = true /\
    server_pid s = server_pid s' /\ host_pid s = host_pid s'.
Proof.
  cbv zeta. unfold lupine_monitoring_unregister_pid. case_match; [eauto 10|].
  destruct (list_find _ (slots r)) as [[k f]|] eqn:El; [|eauto 10]. apply list_find_Some in El as (Hk & _ & _).
  pose proof (lookup_lt_Some _ _ _ Hk) as Hlt. split; [by cbn; rewrite length_insert|]. intros i s. cbn.
  destruct (decide (i = k)) as [->|Hne].
  - rewrite list_lookup_insert_eq by done. by intros [= <-].
  - rewrite list_lookup_insert_ne by done. eauto.
Qed.

Lemma registry_step_inv y y' : step y y' -> registry_inv y -> registry_inv y'.
Proof.
  intros Hs Hi. destruct Hs as [r h pid Hp Hf|r h pid|r h|r h i address lane lane' r' Hm|r0 r i active primary ready before p s j Ha Hb
    |r p after pid Ha|r p pid|r h|r p after Ha].
  - by apply register_inv.
  - destruct (unregister_sub pid r) as [Hl Hu]. apply (inv_sub _ _ _ Hi); auto.
  - apply (inv_sub _ _ _ Hi); eauto 10.
  - destruct (metadata_sub _ _ _ _ _ _ Hm) as [Hl Hu]. apply (inv_sub _ _ _ Hi); auto.
  - destruct Hi as [H1 H2 H3 H4 H5 H6]. split; cbn [reg holder] in *; try done. intros Hin. exfalso.
    destruct (H5 Hin) as [_ F5]. assert (Hh : slot_has_host_pid i r = true).
    { unfold slot_has_host_pid. rewrite Ha. apply active_slot_some in Ha as (Hk & Hst & _).
      rewrite (F5 j s Hk Hst). by apply Z.ltb_lt, (H2 j). }
    unfold begin_context_probe in Hb. rewrite Hh in Hb. by repeat case_match.
  - destruct Hi as [H1 H2 H3 H4 H5 H6]. split; cbn [reg holder] in *; try done.
    + intros Hin. by destruct (H5 Hin).
    + intros p' pid' [= <- <-]. unfold accept_candidate in Ha. destruct (find_candidate 50 p after); try done.
      destruct ((0 <? pid0) && _) eqn:E; [|done]. injection Ha as <-. breflect. split; [done|]. intros i s Hi Hst Hne.
      by apply (not_owned pid0 (slot_index p) r i s).
  - by apply store_inv.
  - apply (inv_sub _ _ _ Hi); eauto 10.
  - apply (inv_sub _ _ _ Hi); eauto 10.
Qed.
End Server.

Lemma initial_inv initial : registry_inv initial (System lupine_monitoring_initialize None).
Proof.
  assert (H : forall i s, slots lupine_monitoring_initialize !! i = Some s -> state s = false).
  { intros i s Hs. unfold lupine_monitoring_initialize in Hs. cbn [slots] in Hs. by apply lookup_replicate in Hs as [-> _]. }
  split; cbn [reg holder]; [apply length_replicate| | | | |done].
  - intros i s Hi Hs. rewrite (H i s Hi) in Hs. done.
  - intros i j s t Hi _ Hs. rewrite (H i s Hi) in Hs. done.
  - intros i j s t Hi _ Hs. rewrite (H i s Hi) in Hs. done.
  - intros _. split; [done|]. intros i s Hi Hs. rewrite (H i s Hi) in Hs. done.
Qed.

Lemma reachable_registry initial y : rtc (step initial) (System lupine_monitoring_initialize None) y ->
  registry_inv initial y.
Proof. apply rtc_ind_r; [apply initial_inv|]. intros x z _ Hs Hx. by apply (registry_step_inv initial x). Qed.

(** However processes come, report, are probed and die, a process id of the host belongs to
    at most one active slot, and so does a process of the server: what the metrics say of a
    host process is said of one connection. *)
Theorem host_pids_distinct (initial : bool) (y : system)
  (H_reachable : rtc (step initial) (System lupine_monitoring_initialize None) y) :
  forall i j s t, slots (reg y) !! i = Some s -> slots (reg y) !! j = Some t -> state s = true -> state t = true ->
    (0 < host_pid s /\ host_pid s = host_pid t) \/ server_pid s = server_pid t -> i = j.
Proof.
  pose proof (reachable_registry initial y H_reachable) as Hi.
  intros i j s t Hs Ht Hss Htt [[Hp E]|E]; [by apply (reg_hosts _ _ Hi i j s t)|by apply (reg_servers _ _ Hi i j s t)].
Qed.

Lemma host_pids_distinct_witness :
  let y := System (lupine_monitoring_register_child 100 true lupine_monitoring_initialize).2 None in
  rtc (step true) (System lupine_monitoring_initialize None) y /\
  exists s, slots (reg y) !! 0%nat = Some s /\ state s = true /\ host_pid s = 100 /\
    forall j t, slots (reg y) !! j = Some t -> state t = true -> host_pid t = 100 -> 0%nat = j.
Proof.
  set (y := System (lupine_monitoring_register_child 100 true lupine_monitoring_initialize).2 None).
  assert (H : rtc (step true) (System lupine_monitoring_initialize None) y).
  { apply rtc_once. apply register_step; [lia|]. intros i s Hs Hst. unfold lupine_monitoring_initialize in Hs. cbn [slots] in Hs.
    by apply lookup_replicate in Hs as [-> _]. }
  split; [exact H|]. exists (Slot true 100 100 [] no_metadata []).
  assert (E : slots (reg y) !! 0%nat = Some (Slot true 100 100 [] no_metadata [])) by reflexivity.
  split; [exact E|]. split; [reflexivity|]. split; [reflexivity|]. intros j t Hj Ht Hh.
  apply (host_pids_distinct true y H 0%nat j _ t E Hj eq_refl Ht). left. split; [done|]. by rewrite Hh.
Defined.

(** ** Workload ids of a process

    The connections of one client process must agree on their workload id. *)

Definition or_unknown (l : list byte) : list byte := match c_string l with [] => chars "unknown" | _ => c_string l end.

Definition connection_id (s : monitor_slot) : list byte :=
  chars "connection:" ++ client_address s ++ chars ":" ++ decimal (server_pid s).

Definition process_key_for (s : monitor_slot) : list byte :=
  let m := metadata s in
  if 0 <? client_pid m
  then client_address s ++ chars ":" ++ or_unknown (client_hostname m) ++
       (if 0 <? client_pid_namespace_inode m then chars ":" ++ decimal (client_pid_namespace_inode m) else []) ++
       chars ":" ++ decimal (client_pid m)
  else connection_id s.

(** Identities by process and the processes whose connections do not agree. *)
Definition note_identity (acc : gmap (list Z) (list byte) * gset (list Z)) (child : monitor_slot)
    : gmap (list Z) (list byte) * gset (list Z) :=
  let id := process_key_for child in
  match acc.1 !! id with
  | None => (<[id := c_string (workload_id child)]> acc.1, acc.2)
  | Some w => (acc.1, if decide (w = c_string (workload_id child)) then acc.2 else {[id]} ∪ acc.2)
  end.

Definition clear_workload (s : monitor_slot) : monitor_slot :=
  Slot (state s) (server_pid s) (host_pid s) (client_address s) (metadata s) [].

Definition resolve_identities (children : list monitor_slot) : list monitor_slot :=
  let conflicts := (foldl note_identity (∅, ∅) children).2 in
  (fun child => if decide (process_key_for child ∈ conflicts) then clear_workload child else child) <$> children.

Lemma note_identities children : forall acc c,
  let acc' := foldl note_identity acc children in
  (forall id w, acc.1 !! id = Some w -> acc'.1 !! id = Some w) /\ acc.2 ⊆ acc'.2 /\
  (c ∈ children -> process_key_for c ∈ acc'.2 \/ acc'.1 !! process_key_for c = Some (c_string (workload_id c))).
Proof.
  induction children as [|x children IH]; intros acc c; simpl; [split_and!; [done|done|by intros []%elem_of_nil]|].
  destruct (IH (note_identity acc x) c) as (H1 & H2 & H3).
  assert (Hx : (forall id w, acc.1 !! id = Some w -> (note_identity acc x).1 !! id = Some w) /\ acc.2 ⊆ (note_identity acc x).2 /\
    (process_key_for x ∈ (note_identity acc x).2 \/
     (note_identity acc x).1 !! process_key_for x = Some (c_string (workload_id x)))).
  { unfold note_identity. destruct (acc.1 !! process_key_for x) as [w|] eqn:E; simpl.
    - case_decide as Hw; (split_and!; [done|set_solver|]); [right; by rewrite E, Hw|left; set_solver].
    - split_and!; [|done|right; by rewrite lookup_insert_eq]. intros id w Hid.
      rewrite lookup_insert_ne; [done|]. intros <-. congruence. }
  destruct Hx as (X1 & X2 & X3). split_and!; [auto|set_solver|].
  intros [->|Hc]%elem_of_cons; [|auto]. destruct X3 as [X3|X3]; [left; set_solver|right; auto].
Qed.

(** After conflicts are resolved the connections of a process have one workload id. *)
Theorem workload_ids_agree (children : list monitor_slot) (s t : monitor_slot)
  (H_s : s ∈ resolve_identities children) (H_t : t ∈ resolve_identities children)
  (H_process : process_key_for s = process_key_for t) :
  c_string (workload_id s) = c_string (workload_id t).
Proof.
  unfold resolve_identities in *. set (conflicts := (foldl note_identity (∅, ∅) children).2) in *.
  apply list_elem_of_fmap in H_s as (x & -> & Hx). apply list_elem_of_fmap in H_t as (y & -> & Hy).
  assert (Hk : process_key_for x = process_key_for y) by (revert H_process; by repeat case_decide).
  rewrite Hk in *. case_decide as Hd; [done|].
  destruct (note_identities children (∅, ∅) x) as (_ & _ & Ax), (note_identities children (∅, ∅) y) as (_ & _ & Ay).
  destruct (Ax Hx) as [Bx|Bx]; [by rewrite Hk in Bx|]. destruct (Ay Hy) as [By|By]; [done|]. rewrite Hk in Bx. congruence.
Qed.

(** ** Snapshots

    What the metrics are made of: the active slots with their strings terminated, and the child
    of each process of the host. *)

Record registry_snapshot := RegistrySnapshot {
  children : list monitor_slot;
  snap_dropped_connections : Z;
  snap_host_pid_discovery_failures : Z;
  snap_host_pid_discovery_ambiguities : Z }.

Definition child_snapshot (s : monitor_slot) : monitor_slot :=
  Slot (state s) (server_pid s) (host_pid s) (take (address_size - 1) (client_address s)) (terminate_strings (metadata s))
    (workload_id s).

Definition snapshot_registry (r : monitor_registry) : registry_snapshot :=
  RegistrySnapshot (child_snapshot <$> filter (fun s => state s = true /\ 0 < server_pid s) (slots r))
    (dropped_connections r) (host_pid_discovery_failures r) (host_pid_discovery_ambiguities r).

(** The children once the conflicts are resolved, and [by_pid]: the last child of a process. *)
Definition resolved_children (r : monitor_registry) : list monitor_slot :=
  resolve_identities (children (snapshot_registry r)).

Definition note_pid (m : gmap Z monitor_slot) (child : monitor_slot) : gmap Z monitor_slot :=
  if 0 <? host_pid child then <[host_pid child := child]> m else m.

Definition children_by_pid (l : list monitor_slot) : gmap Z monitor_slot := foldl note_pid ∅ l.

Lemma by_pid_sound l : forall pid c, children_by_pid l !! pid = Some c -> c ∈ l /\ 0 < pid /\ host_pid c = pid.
Proof.
  unfold children_by_pid. induction l as [|x l IH] using rev_ind; [done|]. intros pid c. rewrite foldl_snoc.
  unfold note_pid at 1. destruct (Z.ltb_spec 0 (host_pid x)) as [Hp|Hp].
  - rewrite lookup_insert_Some. intros [[<- <-]|[_ Hc]]; [set_solver|]. destruct (IH pid c Hc). set_solver.
  - intros Hc. destruct (IH pid c Hc). set_solver.
Qed.

Lemma by_pid_complete l c : c ∈ l -> 0 < host_pid c -> is_Some (children_by_pid l !! host_pid c).
Proof.
  unfold children_by_pid. induction l as [|x l IH] using rev_ind; [by intros ?%elem_of_nil|].
  intros Hc Hp. rewrite foldl_snoc. unfold note_pid at 1.
  apply elem_of_app in Hc as [Hl| ->%list_elem_of_singleton].
  - case_match; [|by apply IH].
    rewrite lookup_insert_is_Some. destruct (decide (host_pid x = host_pid c)); [by left|right]. by split; [|apply IH].
  - rewrite (proj2 (Z.ltb_lt _ _) Hp), lookup_insert_eq. by eexists.
Qed.

(** *** Which process is which

    What the server can not see: [truth] gives the process id on the host of the child of each
    slot, and [listed] the processes that the device library lists on each device.  A child is
    unregistered after it has been reaped, so a process that holds the discovery mutex is still
    registered.  [joined] are the processes that came onto the probed device since the probe
    began; a query lists none but these and those of the beginning.

    The conditions of the discovery are in [w_join] and [w_unregister]: while a device is probed the processes
    that come onto it are the probing child and children whose process is known already, which
    may make contexts without the mutex, and these are not reaped before the probe's end. *)

Record world := World {
  sys : system; truth : gmap nat Z; listed : gset (Z * Z); probed : Z; joined : gset Z }.

Definition with_sys (y : system) (w : world) : world := World y (truth w) (listed w) (probed w) (joined w).

Definition child_at (w : world) (i : nat) (s : monitor_slot) : Prop :=
  slots (reg (sys w)) !! i = Some s /\ state s = true.

(** A process id is a positive [int32_t]. *)
Definition is_process_id (pid : Z) : Prop := 0 < pid < 2 ^ 31.

(** The probe of a device, and the slot of its process. *)
Definition probing_slot (w : world) : option nat :=
  match holder (sys w) with Some (p, _) => Some (Z.to_nat (slot_index p)) | None => None end.

(** The process of the probing child, or that of a known one. *)
Definition may_join (w : world) (k : nat) (pid : Z) : Prop :=
  truth w !! k = Some pid \/ exists i s, i <> k /\ child_at w i s /\ 0 < host_pid s /\ truth w !! i = Some pid.

Section World.
Context (initial : bool).

Inductive world_step : world -> world -> Prop :=
| w_register w pid host k r : 0 < pid -> (forall i s, child_at w i s -> server_pid s <> pid) ->
    is_process_id host -> (forall i s, child_at w i s -> truth w !! i <> Some host) -> (initial = true -> host = pid) ->
    lupine_monitoring_register_child pid initial (reg (sys w)) = (k, r) ->
    world_step w (World (System r (holder (sys w))) (if k <? 0 then truth w else <[Z.to_nat k := host]> (truth w))
                    (listed w) (probed w) (joined w))
| w_unregister w pid :
    (forall i s h k, child_at w i s -> server_pid s = pid -> truth w !! i = Some h -> probing_slot w = Some k ->
       i <> k /\ h ∉ joined w) ->
    world_step w (with_sys (System (lupine_monitoring_unregister_pid pid (reg (sys w))) (holder (sys w))) w)
| w_death w : world_step w (with_sys (System (reg (sys w)) None) w)
| w_metadata w i address lane lane' r : handle_lupine_client_metadata i address lane (reg (sys w)) = Some (lane', r) ->
    world_step w (with_sys (System r (holder (sys w))) w)
| w_begin w device r0 i active primary ready before p s j : holder (sys w) = None ->
    (forall pid, pid ∈ before <-> (device, pid) ∈ listed w) -> active_slot i (reg (sys w)) = Some (j, s) ->
    begin_context_probe i active primary ready (Some before) r0 (reg (sys w)) = Begun p ->
    world_step w (World (System (reg (sys w)) (Some (p, Probing))) (truth w) (listed w) device ∅)
| w_join w device pid : (forall k, probing_slot w = Some k -> device = probed w -> may_join w k pid) ->
    world_step w (World (sys w) (truth w) ({[(device, pid)]} ∪ listed w) (probed w)
                    (if decide (device = probed w) then {[pid]} ∪ joined w else joined w))
| w_leave w device pid :
    world_step w (World (sys w) (truth w) (listed w ∖ {[(device, pid)]}) (probed w) (joined w))
| w_check w p after pid : holder (sys w) = Some (p, Probing) ->
    (forall pids q, Some pids ∈ after -> q ∈ pids -> q ∈ before_pids p \/ q ∈ joined w) ->
    accept_candidate p (find_candidate 50 p after) (reg (sys w)) = Some pid ->
    world_step w (with_sys (System (reg (sys w)) (Some (p, Storing pid))) w)
| w_store w p pid : holder (sys w) = Some (p, Storing pid) ->
    world_step w (with_sys (System (store_host_pid (slot_index p) pid (reg (sys w))).2 None) w)
| w_failure w : world_step w (with_sys (System (note_unresolved false (reg (sys w))) (holder (sys w))) w)
| w_unresolved w p after : holder (sys w) = Some (p, Probing) ->
    accept_candidate p (find_candidate 50 p after) (reg (sys w)) = None ->
    world_step w (with_sys (System (note_unresolved (is_ambiguous (find_candidate 50 p after)) (reg (sys w))) None) w).

(** What the world does is what the server does, or nothing to it. *)
Lemma world_step_system w w' : world_step w w' -> rtc (step initial) (sys w) (sys w').
Proof.
  destruct 1 as [w pid host k r Hp Hf Hh Hn Hi Er|w pid Hu|w|w i address lane lane' r Hm|w device r0 i active primary ready before p s j Hh Hl Ha Hb
    |w device pid Hj|w device pid|w p after pid Hh Hq Ha|w p pid Hh|w|w p after Hh Ha]; destruct w as [[r1 h] t l d jn];
    cbn [sys reg holder with_sys] in *; try reflexivity; subst; try apply rtc_once.
  - pose proof (register_step initial r1 h pid Hp) as Hs. rewrite Er in Hs.
    apply Hs. intros i s Hx Hst. by apply (Hf i s).
  - apply unregister_step.
  - apply death_step.
  - by eapply metadata_step.
  - by eapply begin_step.
  - by eapply check_step.
  - apply store_step.
  - apply failure_step.
  - by eapply unresolved_step.
Qed.

Record world_inv (w : world) : Prop := WorldInv {
  w_true : forall i s, child_at w i s -> exists h, truth w !! i = Some h /\ is_process_id h;
  w_apart : forall i j s t, child_at w i s -> child_at w j t -> truth w !! i = truth w !! j -> i = j;
  w_known : forall i s, child_at w i s -> 0 < host_pid s -> truth w !! i = Some (host_pid s);
  w_holder : forall p ph, holder (sys w) = Some (p, ph) -> 0 <= slot_index p /\
    exists s, child_at w (Z.to_nat (slot_index p)) s;
  w_joined : forall k pid, probing_slot w = Some k -> pid ∈ joined w -> may_join w k pid;
  w_stored : forall p pid, holder (sys w) = Some (p, Storing pid) -> truth w !! Z.to_nat (slot_index p) = Some pid }.

(** Slots that keep their process, of which those that the probe speaks of stay. *)
Lemma world_sub w r h : world_inv w ->
  (forall i s, slots r !! i = Some s -> state s = true -> exists s', child_at w i s' /\ host_pid s = host_pid s') ->
  (h = None \/ h = holder (sys w) /\ forall i s, child_at w i s ->
     (exists hp, slots r !! i = Some hp /\ state hp = true /\ host_pid hp = host_pid s) \/
     (forall k pid, probing_slot w = Some k -> truth w !! i = Some pid -> i <> k /\ pid ∉ joined w)) ->
  world_inv (with_sys (System r h) w).
Proof.
  intros [H1 H2 H3 H4 H5 H6] Hs Hh. split; unfold child_at, may_join, probing_slot; cbn [sys reg holder with_sys truth joined].
  - intros i s [Hi Hst]. destruct (Hs i s Hi Hst) as (s' & Hc & _). by apply (H1 i s').
  - intros i j s t [Hi Hst] [Hj Ht]. destruct (Hs i s Hi Hst) as (s' & Hc & _), (Hs j t Hj Ht) as (t' & Hd & _). by apply (H2 i j s' t').
  - intros i s [Hi Hst] Hp. destruct (Hs i s Hi Hst) as (s' & Hc & E). rewrite E in *. by apply (H3 i s').
  - intros p ph E. destruct Hh as [->|[-> Hh]]; [done|]. destruct (H4 p ph E) as (Hk & s & Hc). split; [done|].
    destruct (Hh _ s Hc) as [(hp & X & Y & _)|Hno]; [by exists hp|]. destruct (H1 _ s Hc) as (x & Ex & _).
    destruct (Hno (Z.to_nat (slot_index p)) x) as [[] _]; [unfold probing_slot; by rewrite E|done|done].
  - intros k pid Hk Hj. destruct Hh as [->|[-> Hh]]; [done|].
    assert (Hk' : probing_slot w = Some k) by (unfold probing_slot; done).
    destruct (H5 k pid Hk' Hj) as [Hown|(i & s & Hne & Hc & Hp & Ht)]; [by left|right].
    destruct (Hh i s Hc) as [(hp & X & Y & E)|Hno]; [|by destruct (Hno k pid Hk' Ht)].
    exists i, hp. rewrite E. done.
  - intros p pid E. destruct Hh as [->|[-> Hh]]; [done|]. by apply H6.
Qed.

(** The candidate of a search came onto the device since the probe began. *)
Lemma candidate_new n p after pid : find_candidate n p after = Candidate pid ->
  exists pids q, Some pids ∈ after /\ q ∈ pids /\ q ∉ before_pids p /\ pid = sint32 q.
Proof.
  revert after. induction n as [|n IH]; intros [|[pids|] after]; try done. cbn [find_candidate].
  destruct (filter _ pids) as [|q [|]] eqn:E; [|intros [= <-]|done].
  - intros Hc. destruct (IH after Hc) as (l & q & Hl & Hq). exists l, q. set_solver.
  - assert (Hq : q ∈ filter (fun x => x ∉ before_pids p) pids) by (rewrite E; set_solver).
    apply list_elem_of_filter in Hq as [Hn Hq]. exists pids, q. set_solver.
Qed.

Lemma sint32_process pid : is_process_id pid -> sint32 pid = pid.
Proof. intros H. unfold is_process_id in H. apply sint32_id. unfold is_int. lia. Qed.

(** What is accepted is the process of the probing child. *)
Lemma accepted_true w p after pid : world_inv w -> holder (sys w) = Some (p, Probing) ->
  (forall pids q, Some pids ∈ after -> q ∈ pids -> q ∈ before_pids p \/ q ∈ joined w) ->
  accept_candidate p (find_candidate 50 p after) (reg (sys w)) = Some pid ->
  truth w !! Z.to_nat (slot_index p) = Some pid.
Proof.
  intros Hi Hh Hq Ha. unfold accept_candidate in Ha. destruct (find_candidate 50 p after) as [c| |] eqn:Ec; try done.
  destruct ((0 <? c) && _) eqn:E; [|done]. injection Ha as <-. breflect.
  destruct (candidate_new _ _ _ _ Ec) as (pids & q & Hl & Hin & Hn & ->). destruct (Hq pids q Hl Hin) as [|Hj]; [done|].
  destruct (w_holder w Hi p Probing Hh) as (Hk & s0 & Hc0).
  assert (Hk' : probing_slot w = Some (Z.to_nat (slot_index p))) by (unfold probing_slot; by rewrite Hh).
  destruct (w_joined w Hi _ q Hk' Hj) as [Hown|(i & s & Hne & Hc & Hp & Ht)].
  - destruct (w_true w Hi _ s0 Hc0) as (h & Eh & Hpid). rewrite Hown in Eh. injection Eh as <-. by rewrite sint32_process.
  - exfalso. destruct (w_true w Hi i s Hc) as (h & Eh & Hpid). rewrite Ht in Eh. injection Eh as <-.
    rewrite sint32_process in * by done. pose proof (w_known w Hi i s Hc Hp) as Hkn. rewrite Ht in Hkn. injection Hkn as Hkn.
    by apply (not_owned q (slot_index p) (reg (sys w)) i s); [| |apply Hc|apply Hc|lia|].
Qed.
Lemma register_slot pid r k r' : lupine_monitoring_register_child pid initial r = (k, r') ->
  (k = -1 /\ slots r' = slots r) \/
  (exists i f, k = Z.of_nat i /\ slots r !! i = Some f /\ state f = false /\
     slots r' = <[i := Slot true pid (if initial then pid else 0) [] no_metadata []]> (slots r)).
Proof.
  unfold lupine_monitoring_register_child. destruct (list_find _ (slots r)) as [[i f]|] eqn:El; intros [= <- <-]; [right|by left].
  apply list_find_Some in El as (Hk & Hst & _). by exists i, f.
Qed.

Lemma register_world w pid host k r : world_inv w -> is_process_id host ->
  (forall i s, child_at w i s -> truth w !! i <> Some host) -> (initial = true -> host = pid) ->
  lupine_monitoring_register_child pid initial (reg (sys w)) = (k, r) ->
  world_inv (World (System r (holder (sys w))) (if k <? 0 then truth w else <[Z.to_nat k := host]> (truth w))
               (listed w) (probed w) (joined w)).
Proof.
  intros Hw Hh Hn Hi Er. destruct (register_slot _ _ _ _ Er) as [[-> Es]|(i & f & -> & Hf & Hff & Es)].
  { change (-1 <? 0) with true. cbv iota. apply (world_sub w r (holder (sys w)) Hw).
    - intros i s. rewrite Es. intros Hx Hst. by exists s.
    - right. split; [done|]. intros j s [Hj Hst]. left. exists s. by rewrite Es. }
  rewrite (proj2 (Z.ltb_ge (Z.of_nat i) 0)) by lia. rewrite Nat2Z.id. set (new := Slot true pid _ _ _ _) in Es.
  pose proof (lookup_lt_Some _ _ _ Hf) as Hlt. destruct Hw as [H1 H2 H3 H4 H5 H6].
  assert (Hfree : forall s, ~ child_at w i s) by (intros s [E F]; congruence).
  assert (Hl : forall j s, slots r !! j = Some s -> state s = true ->
    (j = i /\ s = new) \/ (j <> i /\ child_at w j s)).
  { intros j s. rewrite Es. destruct (decide (j = i)) as [->|Hne].
    - rewrite list_lookup_insert_eq by done. intros [= <-]. by left.
    - rewrite list_lookup_insert_ne by done. by right. }
  assert (Hold : forall j s, child_at w j s -> j <> i /\ slots r !! j = Some s /\ state s = true).
  { intros j s Hc. assert (j <> i) by (intros ->; by destruct (Hfree s)). split; [done|]. rewrite Es.
    by rewrite list_lookup_insert_ne. }
  assert (Hcase : forall j s, child_at w j s -> <[i := host]> (truth w) !! j = truth w !! j).
  { intros j s Hc. apply lookup_insert_ne. by destruct (Hold j s Hc) as [? _]. }
  split; unfold child_at, may_join, probing_slot; cbn [sys reg holder truth joined].
  - intros j s [Hj Hst]. destruct (Hl j s Hj Hst) as [[-> ->]|[Hne Hc]]; [exists host; by rewrite lookup_insert_eq|].
    rewrite lookup_insert_ne by done. by apply (H1 j s).
  - intros j k s t [Hj Hst] [Hk Ht]. destruct (Hl j s Hj Hst) as [[-> ->]|[Hne Hc]], (Hl k t Hk Ht) as [[-> ->]|[Hnk Hd]];
      rewrite ?lookup_insert_eq, ?lookup_insert_ne by done; [done| | |by apply (H2 j k s t)].
    + intros E. by destruct (Hn k t Hd).
    + intros E. by destruct (Hn j s Hc).
  - intros j s [Hj Hst] Hp. destruct (Hl j s Hj Hst) as [[-> ->]|[Hne Hc]].
    + rewrite lookup_insert_eq. revert Hp. unfold new. cbn [host_pid]. destruct initial; [by intros _; rewrite Hi|lia].
    + rewrite lookup_insert_ne by done. by apply (H3 j s).
  - intros p ph E. destruct (H4 p ph E) as (Hk & s & Hc). split; [done|]. exists s. by destruct (Hold _ s Hc).
  - intros k q Hk Hj. assert (Hk' : probing_slot w = Some k) by exact Hk.
    assert (Hck : exists s, child_at w k s).
    { revert Hk'. unfold probing_slot. destruct (holder (sys w)) as [[p ph]|] eqn:E; [|done]. intros [= <-]. by destruct (H4 p ph eq_refl). }
    destruct Hck as [sk Hck]. destruct (H5 k q Hk' Hj) as [Hown|(j & s & Hne & Hc & Hp & Ht)].
    + left. by rewrite (Hcase k sk).
    + right. exists j, s. destruct (Hold j s Hc) as (_ & X & Y). by rewrite (Hcase j s).
  - intros p q E. destruct (H4 p _ E) as (_ & s & Hc). rewrite (Hcase _ s Hc). by apply H6.
Qed.

Lemma unregister_keeps pid r i s : slots r !! i = Some s -> state s = true -> server_pid s <> pid ->
  slots (lupine_monitoring_unregister_pid pid r) !! i = Some s.
Proof.
  intros Hi Hs Hne. unfold lupine_monitoring_unregister_pid. case_match; [done|].
  destruct (list_find _ (slots r)) as [[k f]|] eqn:El; [|done]. apply list_find_Some in El as (Hk & [_ Hp] & _). cbn [slots with_slots].
  rewrite list_lookup_insert_ne; [done|]. intros ->. congruence.
Qed.

Lemma metadata_keeps k address lane lane' r r' i s : handle_lupine_client_metadata k address lane r = Some (lane', r') ->
  slots r !! i = Some s -> state s = true ->
  exists s', slots r' !! i = Some s' /\ state s' = true /\ host_pid s' = host_pid s.
Proof.
  intros Hm Hi Hs. revert Hm. unfold handle_lupine_client_metadata. do 2 (case_match; [done|]).
  case_match; [intros [= _ <-]; by exists s|].
  destruct (lupine_decode_client_metadata _ _) as [[m workload]|]; [|intros [= _ <-]; by exists s].
  unfold store_metadata. destruct (active_slot k r) as [[j f]|] eqn:Ea; intros [= _ <-]; [|by exists s].
  apply active_slot_some in Ea as (Hk & Hf & _). cbn [slots with_slots snd]. destruct (decide (i = j)) as [->|Hne].
  - rewrite list_lookup_insert_eq by (by eapply lookup_lt_Some). eexists. split; [done|]. simpl. split; [done|congruence].
  - rewrite list_lookup_insert_ne by done. by exists s.
Qed.

Lemma store_world w p pid : world_inv w -> holder (sys w) = Some (p, Storing pid) ->
  world_inv (with_sys (System (store_host_pid (slot_index p) pid (reg (sys w))).2 None) w).
Proof.
  intros Hw Hh. unfold store_host_pid. destruct (pid <=? 0); [apply world_sub; [done|intros i s ? ?; by exists s|by left]|].
  destruct (active_slot (slot_index p) (reg (sys w))) as [[k f]|] eqn:Ea; [|apply world_sub; [done|intros i s ? ?; by exists s|by left]].
  apply active_slot_some in Ea as (Hk & Hf & Ek). pose proof (w_stored w Hw p pid Hh) as Ht. rewrite Ek, Nat2Z.id in Ht.
  set (new := Slot true _ _ _ _ _). pose proof (lookup_lt_Some _ _ _ Hk) as Hlt.
  assert (Hl : forall i s, <[k:=new]> (slots (reg (sys w))) !! i = Some s -> state s = true ->
    child_at w i s \/ i = k /\ s = new).
  { intros i s. destruct (decide (i = k)) as [->|Hne].
    - rewrite list_lookup_insert_eq by done. intros [= <-]. by right.
    - rewrite list_lookup_insert_ne by done. by left. }
  assert (Hc : forall i s, child_at w i s \/ i = k /\ s = new -> exists s', child_at w i s') by (intros i s [?|[-> _]]; [by exists s|by exists f]).
  destruct Hw as [H1 H2 H3 H4 H5 H6]. split; unfold child_at, probing_slot; cbn [sys reg holder truth with_sys with_slots slots snd]; try done.
  - intros i s [Hi Hs]. destruct (Hc i s (Hl i s Hi Hs)) as [s' Hs']. by apply (H1 i s').
  - intros i j s t [Hi Hs] [Hj Hst]. destruct (Hc i s (Hl i s Hi Hs)) as [s' Hs'], (Hc j t (Hl j t Hj Hst)) as [t' Ht'].
    by apply (H2 i j s' t').
  - intros i s [Hi Hs] Hp. destruct (Hl i s Hi Hs) as [Hx|[-> ->]]; [by apply (H3 i s)|done].
Qed.

Lemma begin_slot i active primary ready before r0 r p :
  begin_context_probe i active primary ready before r0 r = Begun p -> slot_index p = i.
Proof. unfold begin_context_probe. repeat case_match; try done. by intros [= <-]. Qed.

Lemma world_step_inv w w' : world_step w w' -> world_inv w -> world_inv w'.
Proof.
  intros Hst Hw. destruct Hst as [w pid host k r Hp Hf Hh Hn Hi Er|w pid Hu|w|w i address lane lane' r Hm
    |w device r0 i active primary ready before p s j Hh Hl Ha Hb
    |w device pid Hj|w device pid|w p after pid Hh Hq Ha|w p pid Hh|w|w p after Hh Ha].
  - by apply (register_world w pid).
  - apply world_sub; [done| |right; split; [done|]].
    + intros i s Hi Hs. destruct (proj2 (unregister_sub pid (reg (sys w))) i s Hi Hs) as (s' & E & F & _ & G). by exists s'.
    + intros i s Hc. destruct (decide (server_pid s = pid)) as [E|E]; [right; intros k q Hk Ht; by apply (Hu i s q k)|left].
      exists s. destruct Hc. split; [by apply unregister_keeps|done].
  - apply world_sub; [done|intros i s ? ?; by exists s|by left].
  - apply world_sub; [done| |right; split; [done|]].
    + intros j s Hi Hs. destruct (proj2 (metadata_sub _ _ _ _ _ _ Hm) j s Hi Hs) as (s' & E & F & _ & G). by exists s'.
    + intros j s [Hc Hs]. left. by apply (metadata_keeps _ _ _ _ _ _ _ _ Hm).
  - destruct Hw as [H1 H2 H3 H4 H5 H6]. split; try done; unfold probing_slot; cbn [sys holder joined].
    intros p' ph [= <- <-]. rewrite (begin_slot _ _ _ _ _ _ _ _ Hb).
    apply active_slot_some in Ha as (Hx & Hs & ->). split; [lia|]. exists s. by rewrite Nat2Z.id.
  - destruct Hw as [H1 H2 H3 H4 H5 H6]. split; try done. intros k q Hk. change (probing_slot w = Some k) in Hk.
    change (may_join _ k q) with (may_join w k q). cbn [joined]. case_decide as Hd; [|by apply H5].
    intros [->%elem_of_singleton|Hin]%elem_of_union; [by apply Hj|by apply H5].
  - by destruct Hw.
  - pose proof (accepted_true w p after pid Hw Hh Hq Ha) as Ht. destruct Hw as [H1 H2 H3 H4 H5 H6].
    split; try done; unfold probing_slot; cbn [sys holder joined with_sys].
    + intros p' ph [= <- <-]. by apply (H4 p Probing).
    + intros k q [= <-] Hin. apply (H5 (Z.to_nat (slot_index p)) q); [unfold probing_slot; by rewrite Hh|done].
    + by intros p' pid' [= <- <-].
  - by apply store_world.
  - apply world_sub; [done|intros i s ? ?; by exists s|right; split; [done|]]. intros i s [Hc Hs]. left. by exists s.
  - apply world_sub; [done|intros i s ? ?; by exists s|by left].
Qed.

(** No child and nothing listed. *)
Definition first_world : world := World (System lupine_monitoring_initialize None) ∅ ∅ 0 ∅.

Lemma no_child i s : ~ child_at first_world i s.
Proof. intros [Hi Hs]. cbn in Hi. apply lookup_replicate in Hi as [-> _]. done. Qed.

Lemma world_reachable w : rtc world_step first_world w -> world_inv w /\ registry_inv initial (sys w).
Proof.
  apply (rtc_ind_r (fun w => world_inv w /\ registry_inv initial (sys w))); [split; [|apply initial_inv]|].
  - split; try done; intros; exfalso; by eapply no_child.
  - intros x y _ Hs [Hx Hr]. split; [by apply (world_step_inv x)|].
    apply world_step_system in Hs. clear -Hr Hs. revert Hr.
    induction Hs as [|a b c H1 _ IH]; [done|]. intros H. by apply IH, (registry_step_inv initial a).
Qed.
End World.

(** A child as the metrics see it comes from one slot. *)
Lemma resolved_slot r c : c ∈ resolved_children r -> exists i s, slots r !! i = Some s /\ state s = true /\
  host_pid c = host_pid s /\ server_pid c = server_pid s.
Proof.
  unfold resolved_children, resolve_identities. intros (x & -> & Hx)%list_elem_of_fmap. unfold snapshot_registry in Hx.
  cbn [children] in Hx. apply list_elem_of_fmap in Hx as (s & -> & [[Hst _] [i Hs]%list_elem_of_lookup]%list_elem_of_filter).
  exists i, s. by case_decide.
Qed.

Lemma slot_resolved r i s : slots r !! i = Some s -> state s = true -> 0 < server_pid s ->
  exists c, c ∈ resolved_children r /\ host_pid c = host_pid s /\ server_pid c = server_pid s.
Proof.
  intros Hi Hs Hp. set (x := child_snapshot s). assert (Hx : x ∈ children (snapshot_registry r)).
  { unfold snapshot_registry. cbn [children]. apply list_elem_of_fmap. exists s. split; [done|].
    apply list_elem_of_filter. split; [done|]. apply list_elem_of_lookup. by exists i. }
  unfold resolved_children, resolve_identities.
  exists (if decide (process_key_for x ∈ (foldl note_identity (∅, ∅) (children (snapshot_registry r))).2) then clear_workload x else x).
  split; [apply list_elem_of_fmap; by exists x|by case_decide].
Qed.

(** Children with one process id are one. *)
Lemma resolved_unique r c c' : (forall i j s t, slots r !! i = Some s -> slots r !! j = Some t -> state s = true ->
    state t = true -> server_pid s = server_pid t -> i = j) ->
  c ∈ resolved_children r -> c' ∈ resolved_children r -> server_pid c = server_pid c' -> c = c'.
Proof.
  intros Hd. unfold resolved_children, resolve_identities.
  intros (x & -> & Hx)%list_elem_of_fmap (x' & -> & Hx')%list_elem_of_fmap Ep. unfold snapshot_registry in Hx, Hx'.
  cbn [children] in Hx, Hx'. apply list_elem_of_fmap in Hx as (s & -> & [[Hst _] [i Hs]%list_elem_of_lookup]%list_elem_of_filter).
  apply list_elem_of_fmap in Hx' as (s' & -> & [[Hst' _] [j Hs']%list_elem_of_lookup]%list_elem_of_filter).
  assert (i = j) as -> by (apply (Hd i j s s'); try done; revert Ep; by repeat case_decide).
  by assert (s' = s) as -> by congruence.
Qed.


(** Two children in a namespace of their own, on a device with a process 900 of another program.
    The first is known as 501; while the second, 502, is probed, the first comes onto the device
    too and leaves. *)
Module SampleProbes.
Definition one : monitor_registry := (lupine_monitoring_register_child 11 false lupine_monitoring_initialize).2.
Definition two : monitor_registry := (lupine_monitoring_register_child 12 false one).2.
Definition first_known : monitor_registry := (store_host_pid 0 501 two).2.
Definition both_known : monitor_registry := (store_host_pid 1 502 first_known).2.
Definition truths : gmap nat Z := <[1%nat := 502]> (<[0%nat := 501]> ∅).
Definition device0 : gset (Z * Z) := {[(0, 900)]} ∪ ∅.

Definition w_two : world := World (System two None) truths ∅ 0 ∅.
Definition w_other : world := World (System two None) truths device0 0 ({[900]} ∪ ∅).
Definition w_probe0 (h : phase) : world := World (System two (Some (Probe 0 [900], h))) truths ({[(0, 501)]} ∪ device0) 0 ({[501]} ∪ ∅).
Definition device0' : gset (Z * Z) := ({[(0, 501)]} ∪ device0) ∖ {[(0, 501)]}.
Definition w_known0 : world := World (System first_known None) truths device0' 0 ({[501]} ∪ ∅).
Definition w_probe1 : world := World (System first_known (Some (Probe 1 [900], Probing))) truths device0' 0 ∅.
Definition device0'' : gset (Z * Z) := {[(0, 502)]} ∪ ({[(0, 501)]} ∪ device0') ∖ {[(0, 501)]}.
Definition w_joined1 (h : phase) : world :=
  World (System first_known (Some (Probe 1 [900], h))) truths device0'' 0 ({[502]} ∪ ({[501]} ∪ ∅)).
Definition w_found : world := World (System both_known None) truths device0'' 0 ({[502]} ∪ ({[501]} ∪ ∅)).

Lemma two_registered : rtc (world_step false) first_world w_two.
Proof.
  apply (rtc_l _ _ (World (System one None) (<[0%nat := 501]> ∅) ∅ 0 ∅)).
  { apply (w_register false first_world 11 501 0 one); [lia| |unfold is_process_id; lia| |done|reflexivity];
      intros i s Hc; by destruct (no_child i s). }
  set (w1 := World (System one None) (<[0%nat := 501]> ∅) ∅ 0 ∅). apply rtc_once.
  assert (Hone : forall i s, child_at w1 i s -> i = 0%nat /\ server_pid s = 11).
  { intros i s [Hi Hs]. destruct i as [|i]; [by injection Hi as <-|].
    change (slots (reg (sys w1)) !! S i) with (replicate (kMaxServerChildren - 1) free_slot !! i) in Hi.
    apply lookup_replicate in Hi as [-> _]. done. }
  refine (w_register false w1 12 502 1 two _ _ _ _ _ _); [lia| |unfold is_process_id; lia| |done|reflexivity].
  - intros i s Hc. destruct (Hone i s Hc) as [_ ->]. done.
  - intros i s Hc. destruct (Hone i s Hc) as [-> _]. done.
Qed.

Lemma first_probed : rtc (world_step false) w_two w_known0.
Proof.
  apply (rtc_l _ _ w_other); [by apply (w_join false w_two 0 900)|].
  apply (rtc_l _ _ (World (System two (Some (Probe 0 [900], Probing))) truths device0 0 ∅)).
  { apply (w_begin false w_other 0 two 0 false false true [900] _ (Slot true 11 0 [] no_metadata []) 0%nat); try reflexivity.
    intros pid. unfold w_other, device0. cbn [listed]. set_solver. }
  apply (rtc_l _ _ (w_probe0 Probing)).
  { apply (w_join false (World (System two (Some (Probe 0 [900], Probing))) truths device0 0 ∅) 0 501).
    intros k [= <-] _. left. reflexivity. }
  apply (rtc_l _ _ (w_probe0 (Storing 501))).
  { apply (w_check false (w_probe0 Probing) _ [Some [900; 501]]); [reflexivity| |vm_compute; reflexivity].
    intros pids q Hp Hq. unfold w_probe0. cbn [joined before_pids]. apply list_elem_of_singleton in Hp as [= ->]. set_solver. }
  apply (rtc_l _ _ (World (System first_known None) truths ({[(0, 501)]} ∪ device0) 0 ({[501]} ∪ ∅))).
  { by apply (w_store false (w_probe0 (Storing 501)) (Probe 0 [900])). }
  apply rtc_once. exact (w_leave false (World (System first_known None) truths ({[(0, 501)]} ∪ device0) 0 ({[501]} ∪ ∅)) 0 501).
Qed.

Lemma second_probed : rtc (world_step false) w_known0 w_found.
Proof.
  apply (rtc_l _ _ w_probe1).
  { apply (w_begin false w_known0 0 first_known 1 false false true [900] _ (Slot true 12 0 [] no_metadata []) 1%nat); try reflexivity.
    intros pid. unfold w_known0, device0', device0. cbn [listed]. set_solver. }
  set (with_first := World (sys w_probe1) truths ({[(0, 501)]} ∪ device0') 0 ({[501]} ∪ ∅)).
  apply (rtc_l _ _ with_first).
  { apply (w_join false w_probe1 0 501). intros k [= <-] _. right.
    exists 0%nat, (Slot true 11 501 [] no_metadata []). split; [done|]. split; [by split|]. split; [simpl; lia|reflexivity]. }
  set (without := World (sys w_probe1) truths (({[(0, 501)]} ∪ device0') ∖ {[(0, 501)]}) 0 ({[501]} ∪ ∅)).
  apply (rtc_l _ _ without); [exact (w_leave false with_first 0 501)|].
  apply (rtc_l _ _ (w_joined1 Probing)).
  { apply (w_join false without 0 502). intros k [= <-] _. left. reflexivity. }
  apply (rtc_l _ _ (w_joined1 (Storing 502))).
  { apply (w_check false (w_joined1 Probing) _ [Some [900]; Some [900; 502]]); [reflexivity| |vm_compute; reflexivity].
    intros pids q Hp Hq. unfold w_joined1. cbn [joined before_pids].
    apply elem_of_cons in Hp as [[= ->]|[= ->]%list_elem_of_singleton]; set_solver. }
  apply rtc_once. by apply (w_store false (w_joined1 (Storing 502)) (Probe 1 [900])).
Qed.
End SampleProbes.


(** ** Queries of processes

    The device library is asked for a count first and then for that many entries; [count n] and
    [fetch n size] are what the calls of the [n]th attempt return. *)

Inductive nvml_status := NVML_SUCCESS | NVML_ERROR_INSUFFICIENT_SIZE | NVML_ERROR_NOT_FOUND | NVML_ERROR_NOT_SUPPORTED
  | NVML_ERROR_FUNCTION_NOT_FOUND | NVML_ERROR_OTHER.
#[export] Instance nvml_status_eq_dec : EqDecision nvml_status.
Proof. solve_decision. Defined.

(** The entries asked for. *)
Definition query_size (n : Z) : Z := Z.min (wrap32 (n + 16)) 65536.

Section Query.
Context {A : Type} (count : nat -> nvml_status * Z) (fetch : nat -> Z -> nvml_status * Z * list A).

Definition fetched (n : nat) (size : Z) : list A :=
  let '(_, returned, l) := fetch n size in take (Z.to_nat (Z.min returned size)) l.

(** [None] when the query is not [query_ok]. *)
Fixpoint query_processes (more attempt : nat) : option (list A) :=
  match more with
  | O => None
  | S more =>
      let '(status, n) := count attempt in
      if decide (status = NVML_SUCCESS /\ n = 0) then Some []
      else if decide (status <> NVML_ERROR_INSUFFICIENT_SIZE \/ n = 0) then None
      else
        let status := (fetch attempt (query_size n)).1.1 in
        if decide (status = NVML_SUCCESS) then Some (fetched attempt (query_size n))
        else if decide (status <> NVML_ERROR_INSUFFICIENT_SIZE) then None
        else query_processes more (S attempt)
  end.

Definition running_processes : option (list A) := query_processes 4 0.

(** The samples, whether utilization is supported and whether the answer is valid. *)
Fixpoint query_utilization (more attempt : nat) (supported : bool) : list A * bool * bool :=
  match more with
  | O => ([], supported, false)
  | S more =>
      let '(status, n) := count attempt in
      if decide (status = NVML_ERROR_NOT_SUPPORTED \/ status = NVML_ERROR_FUNCTION_NOT_FOUND) then ([], supported, false)
      else if decide (status = NVML_ERROR_NOT_FOUND \/ status = NVML_SUCCESS /\ n = 0) then ([], true, true)
      else if decide (status <> NVML_ERROR_INSUFFICIENT_SIZE \/ n = 0) then ([], true, false)
      else
        let status := (fetch attempt (query_size n)).1.1 in
        if decide (status = NVML_SUCCESS) then (fetched attempt (query_size n), true, true)
        else if decide (status = NVML_ERROR_NOT_FOUND) then ([], true, true)
        else if decide (status <> NVML_ERROR_INSUFFICIENT_SIZE) then ([], true, false)
        else query_utilization more (S attempt) true
  end.
End Query.

(** A sample of a process: its id, the time and the utilization. *)
Record util_sample := UtilSample { u_pid : Z; timeStamp : Z; smUtil : Z }.

Definition note_sample (latest : gmap Z (Z * Z)) (s : util_sample) : gmap Z (Z * Z) :=
  let entry := default (0, 0) (latest !! u_pid s) in
  <[u_pid s := if fst entry <=? timeStamp s then (timeStamp s, smUtil s) else entry]> latest.

Definition process_utilization (count : nat -> nvml_status * Z) (fetch : nat -> Z -> nvml_status * Z * list util_sample)
    : list (Z * Z) * bool * bool :=
  let '(samples, supported, valid) := query_utilization count fetch 4 0 false in
  if valid
  then ((fun e : Z * (Z * Z) => (fst e, snd (snd e))) <$> map_to_list (foldl note_sample ∅ samples), supported, valid)
  else ([], supported, valid).

Lemma latest_sample samples : Forall (fun s => 0 <= timeStamp s) samples -> forall pid,
  match foldl note_sample ∅ samples !! pid with
  | Some (t, u) => UtilSample pid t u ∈ samples /\ forall s, s ∈ samples -> u_pid s = pid -> timeStamp s <= t
  | None => forall s, s ∈ samples -> u_pid s <> pid
  end.
Proof.
  induction samples as [|x samples IH] using rev_ind; [intros _ pid; simpl; rewrite lookup_empty; by intros s ?%elem_of_nil|].
  intros [Hf Hx]%Forall_app pid. apply Forall_cons in Hx as [Hx _]. specialize (IH Hf pid). rewrite foldl_snoc. unfold note_sample at 1.
  destruct (decide (u_pid x = pid)) as [<-|Hne].
  - rewrite lookup_insert_eq. destruct (foldl note_sample ∅ samples !! u_pid x) as [[t u]|]; cbn [from_option id fst].
    + destruct IH as [H1 H2]. destruct (Z.leb_spec t (timeStamp x)) as [Ht|Ht]; (split; [destruct x; set_solver|]);
        intros s [Hs| ->%list_elem_of_singleton]%elem_of_app Ep; try lia; specialize (H2 s Hs Ep); lia.
    + rewrite (proj2 (Z.leb_le 0 _) Hx). split; [destruct x; set_solver|].
      intros s [Hs| ->%list_elem_of_singleton]%elem_of_app Ep; [by destruct (IH s Hs)|lia].
  - rewrite lookup_insert_ne by done. destruct (foldl note_sample ∅ samples !! pid) as [[t u]|].
    + destruct IH as [H1 H2]. split; [set_solver|]. intros s [Hs| ->%list_elem_of_singleton]%elem_of_app Ep; [by apply H2|done].
    + intros s [Hs| ->%list_elem_of_singleton]%elem_of_app; [by apply IH|done].
Qed.

(** The utilization reported for a process is that of its newest sample. *)
Theorem utilization_is_newest count fetch samples supported
  (H_query : query_utilization count fetch 4 0 false = (samples, supported, true))
  (H_times : Forall (fun s => 0 <= timeStamp s) samples) (pid u : Z)
  (H_in : (pid, u) ∈ (process_utilization count fetch).1.1) :
  exists t, UtilSample pid t u ∈ samples /\ forall s, s ∈ samples -> u_pid s = pid -> timeStamp s <= t.
Proof.
  unfold process_utilization in H_in. rewrite H_query in H_in. cbn in H_in.
  apply list_elem_of_fmap in H_in as ([pid' [t u']] & [= -> ->] & Hm%elem_of_map_to_list).
  exists t. pose proof (latest_sample samples H_times pid') as H. by rewrite Hm in H.
Qed.

(** ** Samples

    The part of [lupine_monitoring_render_metrics] that adds up what the processes of a client
    use of a device. *)

#[export] Instance client_key_eq_dec : EqDecision client_key.
Proof. solve_decision. Defined.

#[export] Instance client_key_countable : Countable client_key.
Proof.
  refine (inj_countable'
    (fun k => (k_client_id k, k_client_address k, k_client_hostname k, k_client_process_name k, k_device_index k, k_device_uuid k))
    (fun '(a, b, c, d, e, f) => ClientKey a b c d e f) _).
  by intros [].
Defined.

Record process_sample := Sample {
  s_memory_used : Z; sm_percent : Z; s_memory_valid : bool; s_utilization_valid : bool }.
Definition no_sample : process_sample := Sample 0 0 false false.

(** A device with its processes, each with its memory ([None] when it is not available), and
    the utilization of processes. *)
Record device_snapshot := DeviceSnapshot {
  d_index : Z; d_uuid : list byte; processes_valid : bool; process_utilization_valid : bool;
  processes : list (Z * option Z); process_utils : list (Z * Z) }.

Definition client_id_for (s : monitor_slot) : list byte :=
  match c_string (workload_id s) with
  | [] => if 0 <? client_pid (metadata s) then decimal (client_pid (metadata s)) else connection_id s
  | _ => c_string (workload_id s)
  end.

Definition client_key_for (s : monitor_slot) (d : device_snapshot) : client_key :=
  ClientKey (client_id_for s) (or_unknown (client_address s)) (or_unknown (client_hostname (metadata s)))
    (or_unknown (client_process_name (metadata s))) (d_index d) (d_uuid d).

Section Samples.
(** [by_pid]. *)
Context (by_pid : Z -> option monitor_slot).

Definition add_process (d : device_snapshot) (clients : gmap client_key process_sample) (process : Z * option Z)
    : gmap client_key process_sample :=
  match by_pid (sint32 process.1) with
  | None => clients
  | Some child =>
      let key := client_key_for child d in
      let s := default no_sample (clients !! key) in
      let s := match process.2 with
               | Some used => Sample (wrap64 (s_memory_used s + used)) (sm_percent s) true (s_utilization_valid s)
               | None => s
               end in
      <[key := Sample (s_memory_used s) (sm_percent s) (s_memory_valid s)
                 (s_utilization_valid s || process_utilization_valid d)]> clients
  end.

Definition add_utilization (d : device_snapshot) (clients : gmap client_key process_sample) (utilization : Z * Z)
    : gmap client_key process_sample :=
  match by_pid (sint32 utilization.1) with
  | None => clients
  | Some child =>
      let key := client_key_for child d in
      let s := default no_sample (clients !! key) in
      <[key := Sample (s_memory_used s) (Z.min 100 (sm_percent s + Z.min 100 utilization.2)) (s_memory_valid s) true]> clients
  end.

Definition add_device (clients : gmap client_key process_sample) (d : device_snapshot) : gmap client_key process_sample :=
  let clients := if processes_valid d then foldl (add_process d) clients (processes d) else clients in
  if process_utilization_valid d then foldl (add_utilization d) clients (process_utils d) else clients.

Definition client_samples (devices : list device_snapshot) : gmap client_key process_sample := foldl add_device ∅ devices.

(** What a client uses, as sums. *)
Definition total {A} (f : A -> Z) (l : list A) : Z := foldr (fun x n => f x + n) 0 l.

Definition owned (key : client_key) (d : device_snapshot) (pid : Z) : bool :=
  match by_pid (sint32 pid) with None => false | Some child => bool_decide (client_key_for child d = key) end.

Definition memory_of (key : client_key) (d : device_snapshot) : Z :=
  if processes_valid d then total (fun p => if owned key d p.1 then default 0 p.2 else 0) (processes d) else 0.

Definition utilization_of (key : client_key) (d : device_snapshot) : Z :=
  if process_utilization_valid d
  then total (fun u => if owned key d u.1 then Z.min 100 u.2 else 0) (process_utils d) else 0.

(** The sample of a client so far. *)
Definition sums (key : client_key) (clients : gmap client_key process_sample) (memory sm : Z) : Prop :=
  let s := default no_sample (clients !! key) in
  s_memory_used s = wrap64 memory /\ sm_percent s = Z.min 100 sm /\ 0 <= sm.

Lemma sums_process key d clients memory sm p : sums key clients memory sm ->
  sums key (add_process d clients p) (memory + (if owned key d p.1 then default 0 p.2 else 0)) sm.
Proof.
  unfold sums, add_process, owned. intros (H1 & H2 & H3). destruct (by_pid (sint32 p.1)) as [child|]; [|by rewrite Z.add_0_r].
  case_bool_decide as Hk; [subst key; rewrite lookup_insert_eq|rewrite lookup_insert_ne, Z.add_0_r by done; done].
  destruct p.2 as [used|]; cbn [from_option id s_memory_used sm_percent]; [|by rewrite Z.add_0_r].
  by rewrite H1, wrap64_wrap64_add.
Qed.

Lemma sums_utilization key d clients memory sm u : sums key clients memory sm -> 0 <= u.2 ->
  sums key (add_utilization d clients u) memory (sm + (if owned key d u.1 then Z.min 100 u.2 else 0)).
Proof.
  unfold sums, add_utilization, owned. intros (H1 & H2 & H3) Hu.
  destruct (by_pid (sint32 u.1)) as [child|]; [|by rewrite Z.add_0_r].
  case_bool_decide as Hk; [subst key; rewrite lookup_insert_eq|rewrite lookup_insert_ne, Z.add_0_r by done; done].
  cbn [from_option id s_memory_used sm_percent]. split_and!; [done|rewrite H2; lia|lia].
Qed.

Lemma sums_processes key d l : forall clients memory sm, sums key clients memory sm ->
  sums key (foldl (add_process d) clients l) (memory + total (fun p => if owned key d p.1 then default 0 p.2 else 0) l) sm.
Proof.
  induction l as [|p l IH]; intros clients memory sm Hs; simpl; [by rewrite Z.add_0_r|].
  rewrite Z.add_assoc. by apply IH, sums_process.
Qed.

Lemma sums_utilizations key d l : Forall (fun u : Z * Z => 0 <= u.2) l -> forall clients memory sm, sums key clients memory sm ->
  sums key (foldl (add_utilization d) clients l) memory (sm + total (fun u => if owned key d u.1 then Z.min 100 u.2 else 0) l).
Proof.
  induction 1 as [|u l Hu _ IH]; intros clients memory sm Hs; simpl; [by rewrite Z.add_0_r|].
  rewrite Z.add_assoc. by apply IH, sums_utilization.
Qed.

Lemma sums_devices key devices : Forall (fun d => Forall (fun u => 0 <= u.2) (process_utils d)) devices ->
  forall clients memory sm, sums key clients memory sm ->
  sums key (foldl add_device clients devices) (memory + total (memory_of key) devices) (sm + total (utilization_of key) devices).
Proof.
  induction 1 as [|d devices Hd _ IH]; intros clients memory sm Hs; simpl; [by rewrite !Z.add_0_r|].
  rewrite !Z.add_assoc. apply IH. unfold add_device, memory_of, utilization_of.
  destruct (processes_valid d); [apply (sums_processes key d (processes d)) in Hs|];
    (destruct (process_utilization_valid d); [apply (sums_utilizations key d (process_utils d) Hd) in Hs|]);
    by rewrite ?Z.add_0_r.
Qed.
End Samples.

(** The samples of the metrics. *)
Definition metrics_clients (r : monitor_registry) (devices : list device_snapshot) : gmap client_key process_sample :=
  client_samples (fun pid => children_by_pid (resolved_children r) !! pid) devices.

(** The memory reported for a client on a device is the sum, over the processes of the
    device that are its own, of what they use, and its utilization is the sum of theirs, at
    most 100, whatever the order in which processes and samples come. *)
Theorem client_samples_are_sums (by_pid : Z -> option monitor_slot) (devices : list device_snapshot) (key : client_key)
  (H_unsigned : Forall (fun d => Forall (fun u => 0 <= u.2) (process_utils d)) devices) :
  let s := default no_sample (client_samples by_pid devices !! key) in
  s_memory_used s = wrap64 (total (memory_of by_pid key) devices) /\
  sm_percent s = Z.min 100 (total (utilization_of by_pid key) devices) /\ sm_percent s <= 100.
Proof.
  destruct (sums_devices by_pid key devices H_unsigned ∅ 0 0) as (H1 & H2 & _).
  { unfold sums. by rewrite lookup_empty. }
  rewrite !Z.add_0_l in H1, H2. split_and!; [exact H1|exact H2|]. cbv zeta. unfold client_samples. rewrite H2. apply Z.le_min_l.
Qed.

(** Two processes of one client on one device. *)
Definition sample_slot : monitor_slot := Slot true 10 20 (chars "10.0.0.1") (metadata_of []) (chars "job").

Definition sample_device : device_snapshot :=
  DeviceSnapshot 0 (chars "GPU-1") true true [(20, Some 4096); (21, Some 7); (22, Some 100)] [(20, 70); (22, 80)].

Lemma client_samples_are_sums_witness :
  let by_pid pid := if (pid =? 20) || (pid =? 22) then Some sample_slot else None in
  let s := default no_sample (client_samples by_pid [sample_device] !! client_key_for sample_slot sample_device) in
  s_memory_used s = 4196 /\ sm_percent s = 100.
Proof.
  set (by_pid := fun pid => if (pid =? 20) || (pid =? 22) then Some sample_slot else None).
  destruct (client_samples_are_sums by_pid [sample_device] (client_key_for sample_slot sample_device)) as (H1 & H2 & _).
  { repeat (apply Forall_cons; split; [|by apply Forall_nil_2]).
    repeat (apply Forall_cons; split; [cbn; lia|]). by apply Forall_nil_2. }
  cbv zeta. split; [rewrite H1|rewrite H2]; vm_compute; reflexivity.
Defined.

