(* ===== verification/ParamLayout.v ===== *)
(** * Parameter layouts of kernels

    The client asks for the offset and the size of each parameter of a function or kernel,
    which a launch needs, once, and keeps the answers: [lupine_cuGetParamInfo_cached] and the
    caches it fills in [cuda_client.cpp], with the snapshots of [cuda_server.cpp] that fill
    them ahead and what unloading a module, a library or a context takes out of them.
    What the same code notes of attributes, of functions by context and of the routes of handles
    is left out.  Handles are addresses; a handle with [true] is a [CUkernel] and with [false] a
    [CUfunction]. *)
From S2P Require Import Prelude.

Definition CUDA_SUCCESS : Z := 0.
Definition CUDA_ERROR_INVALID_VALUE : Z := 1.
Definition CUDA_ERROR_DEVICE_UNAVAILABLE : Z := 46.
Definition CUDA_ERROR_INVALID_HANDLE : Z := 400.
Definition CUDA_ERROR_NOT_FOUND : Z := 500.

(** ** The driver at the server

    The handles that are loaded with the offsets and sizes of their parameters, the modules of
    functions and the libraries of handles. *)
Record driver := Driver {
  layouts : gmap (Z * bool) (list (Z * Z));
  module_of : gmap Z Z;
  library_of : gmap (Z * bool) Z }.

Definition no_driver : driver := Driver ∅ ∅ ∅.

(** [cuFuncGetParamInfo] and [cuKernelGetParamInfo] of the driver: result, offset and size. *)
Definition driver_param_info (d : driver) (handle : Z) (kernel : bool) (index : Z) : Z * Z * Z :=
  match layouts d !! (handle, kernel) with
  | None => (CUDA_ERROR_INVALID_HANDLE, 0, 0)
  | Some l =>
      match l !! Z.to_nat index with
      | Some (offset, size) => (CUDA_SUCCESS, offset, size)
      | None => (CUDA_ERROR_INVALID_VALUE, 0, 0)
      end
  end.

(** The driver answers with success at most so often. *)
Definition query_fuel (d : driver) (handle : Z) (kernel : bool) : nat :=
  S (length (default [] (layouts d !! (handle, kernel)))).

(** *** The server's queries *)

Fixpoint collect_params (fuel : nat) (d : driver) (handle : Z) (kernel : bool) (index : Z) : list (Z * Z) :=
  match fuel with
  | O => []
  | S fuel =>
      let '(result, offset, size) := driver_param_info d handle kernel index in
      if result =? CUDA_SUCCESS then (offset, size) :: collect_params fuel d handle kernel (index + 1) else []
  end.

Definition lupine_collect_params (d : driver) (handle : Z) (kernel : bool) : list (Z * Z) :=
  collect_params (query_fuel d handle kernel) d handle kernel 0.

(** The answer to a request for the layout of a function: offset, size and result for each
    parameter and once more. *)
Fixpoint layout_answer (fuel : nat) (d : driver) (function index : Z) : list (Z * Z * Z) :=
  match fuel with
  | O => []
  | S fuel =>
      let '(result, offset, size) := driver_param_info d function false index in
      (offset, size, result) :: (if result =? CUDA_SUCCESS then layout_answer fuel d function (index + 1) else [])
  end.

Definition handle_lupineFunctionParamLayoutSnapshot (d : driver) (function : Z) : list (Z * Z * Z) :=
  layout_answer (query_fuel d function false) d function 0.

Record lupine_kernel_record := KernelRecord {
  r_name : list Z; r_kernel : Z; r_function : Z; r_params : list (Z * Z) }.

(** [lupine_collect_module] for the functions that have a name and load. *)
Definition lupine_collect_module (d : driver) (functions : list (list Z * Z)) : list lupine_kernel_record :=
  (fun '(name, function) => KernelRecord name 0 function (lupine_collect_params d function false)) <$> functions.

(** [lupine_collect_library] for the kernels that have a name, with their functions, 0 for none. *)
Definition lupine_collect_library (d : driver) (kernels : list (list Z * Z * Z)) : list lupine_kernel_record :=
  (fun '(name, kernel, function) => KernelRecord name kernel function (lupine_collect_params d kernel true)) <$> kernels.

(** ** The client's caches *)

Record client := Client {
  param_info : gmap (Z * Z * bool) (Z * Z);
  layout_count : gmap (Z * bool) Z;
  module_function_names : gmap (Z * list Z) Z;
  module_functions : gmap Z Z;
  library_kernels : gmap Z Z;
  library_kernel_names : gmap (Z * list Z) Z;
  library_functions : gmap Z Z;
  library_modules : gmap Z Z }.

Definition no_client : client := Client ∅ ∅ ∅ ∅ ∅ ∅ ∅ ∅.

Definition with_param_info f (c : client) : client :=
  Client (f (param_info c)) (layout_count c) (module_function_names c) (module_functions c) (library_kernels c)
    (library_kernel_names c) (library_functions c) (library_modules c).
Definition with_layout_count f (c : client) : client :=
  Client (param_info c) (f (layout_count c)) (module_function_names c) (module_functions c) (library_kernels c)
    (library_kernel_names c) (library_functions c) (library_modules c).
Definition with_function_names f (c : client) : client :=
  Client (param_info c) (layout_count c) (f (module_function_names c)) (module_functions c) (library_kernels c)
    (library_kernel_names c) (library_functions c) (library_modules c).
Definition with_module_functions f (c : client) : client :=
  Client (param_info c) (layout_count c) (module_function_names c) (f (module_functions c)) (library_kernels c)
    (library_kernel_names c) (library_functions c) (library_modules c).
Definition with_libraries kernels names functions modules (c : client) : client :=
  Client (param_info c) (layout_count c) (module_function_names c) (module_functions c) (kernels (library_kernels c))
    (names (library_kernel_names c)) (functions (library_functions c)) (modules (library_modules c)).

(** *** Queries *)

(** On a remote route; [up]: the request is answered. *)
Definition lupine_cuGetParamInfo_cached (up : bool) (d : driver) (handle index : Z) (kernel : bool) (c : client)
    : Z * Z * Z * client :=
  match param_info c !! (handle, index, kernel) with
  | Some (offset, size) => (CUDA_SUCCESS, offset, size, c)
  | None =>
      if match layout_count c !! (handle, kernel) with Some count => count <=? index | None => false end
      then (CUDA_ERROR_INVALID_VALUE, 0, 0, c)
      else if negb up then (CUDA_ERROR_DEVICE_UNAVAILABLE, 0, 0, c)
      else
        let '(result, offset, size) := driver_param_info d handle kernel index in
        if result =? CUDA_SUCCESS
        then (result, offset, size, with_param_info <[(handle, index, kernel) := (offset, size)]> c)
        else (result, 0, 0, c)
  end.

(** [lupine_read_func_param_sizes] and [lupine_read_kernel_param_sizes]: the result, the sizes and the offsets;
    [up i]: a request for parameter [i] is answered. *)
Fixpoint read_param_sizes (fuel : nat) (up : Z -> bool) (d : driver) (handle : Z) (kernel : bool) (i : Z)
    (sizes offsets : list Z) (c : client) : option (Z * list Z * list Z * client) :=
  match fuel with
  | O => None
  | S fuel =>
      let '(result, offset, size, c) := lupine_cuGetParamInfo_cached (up i) d handle i kernel c in
      if result =? CUDA_ERROR_INVALID_VALUE
      then Some (CUDA_SUCCESS, sizes, offsets, with_layout_count <[(handle, kernel) := Z.of_nat (length sizes)]> c)
      else if negb (result =? CUDA_SUCCESS) then Some (result, sizes, offsets, c)
      else read_param_sizes fuel up d handle kernel (wrap32 (i + 1)) (sizes ++ [size]) (offsets ++ [offset]) c
  end.

Definition lupine_read_param_sizes (fuel : nat) (up : Z -> bool) (d : driver) (handle : Z) (kernel : bool) (c : client)
    : option (Z * list Z * list Z * client) := read_param_sizes fuel up d handle kernel 0 [] [] c.

(** [lupine_warm_func_param_info] and [lupine_warm_kernel_param_info]. *)
Fixpoint warm_param_info (fuel : nat) (up : Z -> bool) (d : driver) (handle : Z) (kernel : bool) (i : Z) (c : client)
    : option (Z * client) :=
  match fuel with
  | O => None
  | S fuel =>
      let '(result, _, _, c) := lupine_cuGetParamInfo_cached (up i) d handle i kernel c in
      if result =? CUDA_ERROR_INVALID_VALUE
      then Some (CUDA_SUCCESS, with_layout_count <[(handle, kernel) := i]> c)
      else if negb (result =? CUDA_SUCCESS) then Some (result, c)
      else warm_param_info fuel up d handle kernel (wrap64 (i + 1)) c
  end.

(** *** Snapshots *)

(** The records of an answer; [None] when they end before the last one. *)
Fixpoint read_layout (answer : list (Z * Z * Z)) (handle index : Z) (c : client) : option (Z * Z) * client :=
  match answer with
  | [] => (None, c)
  | (offset, size, result) :: answer =>
      if negb (result =? CUDA_SUCCESS) then (Some (index, result), c)
      else read_layout answer handle (index + 1) (with_param_info <[(handle, index, false) := (offset, size)]> c)
  end.

(** [n] is how many records of the answer arrive. *)
Definition lupine_prefetch_function_param_layout (n : nat) (d : driver) (function : Z) (c : client) : client :=
  match read_layout (take n (handle_lupineFunctionParamLayoutSnapshot d function)) function 0 c with
  | (Some (count, result), c) =>
      if result =? CUDA_ERROR_INVALID_VALUE then with_layout_count <[(function, false) := count]> c else c
  | (None, c) => c
  end.

(** The parameters of a record, for each of its handles. *)
Definition note_params (handle : Z) (kernel : bool) (params : list (Z * Z)) (c : client) : client :=
  with_param_info (fun m => foldl (fun m '(i, p) => <[(handle, Z.of_nat i, kernel) := p]> m) m (imap pair params)) c.

Definition note_count (handle : Z) (kernel : bool) (params : list (Z * Z)) (c : client) : client :=
  with_layout_count <[(handle, kernel) := Z.of_nat (length params)]> c.

Definition read_module_function (module : Z) (c : client) (r : lupine_kernel_record) : client :=
  with_function_names <[(module, r_name r) := r_function r]>
    (note_count (r_function r) false (r_params r) (note_params (r_function r) false (r_params r) c)).

Definition lupine_read_module_functions (module : Z) (records : list lupine_kernel_record) (c : client) : client :=
  foldl (read_module_function module) c records.

Definition lupine_record_module_function (function module : Z) (c : client) : client :=
  if (function =? 0) || (module =? 0) then c else with_module_functions <[function := module]> c.

(** [cuModuleGetFunction] on a remote route: [found] is the function the server finds and [n] the
    records of its layout that arrive. *)
Definition cuModuleGetFunction (n : nat) (d : driver) (module : Z) (name : list Z) (found : option Z) (c : client)
    : Z * Z * client :=
  match module_function_names c !! (module, name) with
  | Some cached => (CUDA_SUCCESS, cached, lupine_record_module_function cached module c)
  | None =>
      match found with
      | None => (CUDA_ERROR_NOT_FOUND, 0, c)
      | Some function =>
          (CUDA_SUCCESS, function,
           lupine_prefetch_function_param_layout n d function (lupine_record_module_function function module c))
      end
  end.

Definition read_library_kernel (library : Z) (c : client) (r : lupine_kernel_record) : client :=
  let c := note_params (r_kernel r) true (r_params r) c in
  let c := if r_function r =? 0 then c else note_params (r_function r) false (r_params r) c in
  let c := note_count (r_kernel r) true (r_params r) c in
  let c := if r_function r =? 0 then c else note_count (r_function r) false (r_params r) c in
  with_libraries <[r_kernel r := library]> <[(library, r_name r) := r_kernel r]>
    (if r_function r =? 0 then id else <[r_function r := library]>) id c.

Definition lupine_read_library (library : Z) (records : list lupine_kernel_record) (c : client) : client :=
  foldl (read_library_kernel library) c records.

(** [cuLibraryGetKernel] on a remote route. *)
Definition cuLibraryGetKernel (fuel : nat) (up : Z -> bool) (d : driver) (library : Z) (name : list Z) (found : option Z)
    (c : client) : option (Z * Z * client) :=
  match library_kernel_names c !! (library, name) with
  | Some cached => Some (CUDA_SUCCESS, cached, c)
  | None =>
      match found with
      | None => Some (CUDA_ERROR_NOT_FOUND, 0, c)
      | Some kernel =>
          '(result, c) ← warm_param_info fuel up d kernel true 0 c;
          Some (if negb (result =? CUDA_SUCCESS) then (result, kernel, c)
                else (CUDA_SUCCESS, kernel, with_libraries <[kernel := library]> id id id c))
      end
  end.

(** *** Unloading *)

(** The functions that a module's names and the functions looked up in it give. *)
Definition unloaded_functions (module : Z) (c : client) : gset Z :=
  map_img (filter (fun e => e.1.1 = module) (module_function_names c)) ∪
  dom (filter (fun e => e.2 = module) (module_functions c)).

Definition lupine_release_module_retained_strings (module : Z) (c : client) : client :=
  let unloaded := unloaded_functions module c in
  Client (filter (fun e => ~ (e.1.2 = false /\ e.1.1.1 ∈ unloaded)) (param_info c))
    (filter (fun e => ~ (e.1.2 = false /\ e.1.1 ∈ unloaded)) (layout_count c))
    (filter (fun e => e.1.1 <> module) (module_function_names c))
    (filter (fun e => e.2 <> module) (module_functions c))
    (library_kernels c) (library_kernel_names c) (library_functions c) (delete module (library_modules c)).

Definition lupine_release_library_retained_strings (library : Z) (c : client) : client :=
  Client (param_info c) (layout_count c) (module_function_names c)
    (filter (fun e => library_modules c !! e.2 <> Some library) (module_functions c))
    (filter (fun e => e.2 <> library) (library_kernels c)) (library_kernel_names c)
    (filter (fun e => e.2 <> library) (library_functions c))
    (filter (fun e => e.2 <> library) (library_modules c)).

(** When a context is destroyed ([cuCtxDestroy]) or a primary context reset. *)
Definition lupine_invalidate_function_caches (c : client) : client :=
  Client ∅ ∅ ∅ (module_functions c) (library_kernels c) (library_kernel_names c) (library_functions c) (library_modules c).

(** ** The system

    What applications do with modules, libraries and contexts.  The driver gives a new object
    a handle that no loaded object has, and may use the handle of one that was unloaded.
    A context ends when it is destroyed or reset.  Unloading a library and the last release of a primary
    context are not among the steps: see [library_unload_leaves_layouts] and
    [primary_release_leaves_layouts]. *)

(** A module with its functions: name, handle and layout. *)
Definition add_module (module : Z) (fs : list (list Z * Z * list (Z * Z))) (d : driver) : driver :=
  Driver (list_to_map ((fun '(_, f, l) => ((f, false), l)) <$> fs) ∪ layouts d)
    (list_to_map ((fun '(_, f, _) => (f, module)) <$> fs) ∪ module_of d) (library_of d).

Definition remove_module (module : Z) (d : driver) : driver :=
  Driver (filter (fun e => ~ (e.1.2 = false /\ module_of d !! e.1.1 = Some module)) (layouts d))
    (filter (fun e => e.2 <> module) (module_of d)) (library_of d).

(** A library with its kernels: name, kernel, function (0 for none) and layout. *)
Definition library_handles (ks : list (list Z * Z * Z * list (Z * Z))) : list (Z * bool * list (Z * Z)) :=
  ks ≫= fun '(_, k, f, l) => ((k, true), l) :: (if f =? 0 then [] else [((f, false), l)]).

Definition add_library (library : Z) (ks : list (list Z * Z * Z * list (Z * Z))) (d : driver) : driver :=
  Driver (list_to_map (library_handles ks) ∪ layouts d) (module_of d)
    (list_to_map ((fun e => (e.1, library)) <$> library_handles ks) ∪ library_of d).

Definition remove_library (library : Z) (d : driver) : driver :=
  Driver (filter (fun e => library_of d !! e.1 <> Some library) (layouts d)) (module_of d)
    (filter (fun e => e.2 <> library) (library_of d)).

Definition remove_handles (gone : gset (Z * bool)) (d : driver) : driver :=
  Driver (filter (fun e => e.1 ∉ gone) (layouts d)) (filter (fun e => (e.1, false) ∉ gone) (module_of d)) (library_of d).

(** A handle the application has: of a module's function only after it looked the function up. *)
Definition obtained (c : client) (d : driver) (handle : Z) (kernel : bool) (l : list (Z * Z)) : Prop :=
  layouts d !! (handle, kernel) = Some l /\ Z.of_nat (length l) < 2 ^ 32 /\
  (kernel = false -> forall module, module_of d !! handle = Some module -> module_functions c !! handle = Some module).

Inductive step : client * driver -> client * driver -> Prop :=
| load_module_step c d module fs chosen :
    (forall f, module_of d !! f <> Some module) -> module <> 0 ->
    NoDup ((fun '(_, f, _) => f) <$> fs : list Z) -> NoDup chosen.*1 ->
    (forall name f l, (name, f, l) ∈ fs -> layouts d !! (f, false) = None /\ f <> 0) ->
    (forall name f, (name, f) ∈ chosen -> exists l, (name, f, l) ∈ fs) ->
    step (c, d) (lupine_read_module_functions module (lupine_collect_module (add_module module fs d) chosen) c,
                 add_module module fs d)
| get_function_step c d n module name found :
    (forall f, found = Some f -> module_of d !! f = Some module /\ f <> 0) -> module <> 0 ->
    step (c, d) ((cuModuleGetFunction n d module name found c).2, d)
| unload_module_step c d module :
    step (c, d) (lupine_release_module_retained_strings module c, remove_module module d)
| load_library_step c d library ks chosen :
    NoDup (library_handles ks).*1 ->
    (forall h l, (h, l) ∈ library_handles ks -> layouts d !! h = None) ->
    (forall name k f, (name, k, f) ∈ chosen -> exists l, (name, k, f, l) ∈ ks) ->
    step (c, d) (lupine_read_library library (lupine_collect_library (add_library library ks d) chosen) c,
                 add_library library ks d)
| get_kernel_step c d fuel up library name found result kernel c' :
    (forall k, found = Some k -> exists l, obtained c d k true l) ->
    cuLibraryGetKernel fuel up d library name found c = Some (result, kernel, c') -> step (c, d) (c', d)
| query_step c d up handle index kernel l : obtained c d handle kernel l -> 0 <= index ->
    step (c, d) ((lupine_cuGetParamInfo_cached up d handle index kernel c).2, d)
| read_sizes_step c d fuel up handle kernel l result sizes offsets c' : obtained c d handle kernel l ->
    lupine_read_param_sizes fuel up d handle kernel c = Some (result, sizes, offsets, c') -> step (c, d) (c', d)
| destroy_context_step c d gone : step (c, d) (lupine_invalidate_function_caches c, remove_handles gone d).

(** *** The invariant *)

(** The client can tell that [f] is a function of [module]. *)
Definition named (c : client) (f module : Z) : Prop :=
  module_functions c !! f = Some module \/ exists name, module_function_names c !! (module, name) = Some f.

Definition cached (c : client) (f : Z) : Prop :=
  (exists i p, param_info c !! (f, i, false) = Some p) \/ is_Some (layout_count c !! (f, false)).

Record ok (c : client) (d : driver) : Prop := Ok {
  ok_params : forall h i k p, param_info c !! (h, i, k) = Some p ->
    exists l, layouts d !! (h, k) = Some l /\ 0 <= i /\ l !! Z.to_nat i = Some p;
  ok_counts : forall h k n, layout_count c !! (h, k) = Some n ->
    exists l, layouts d !! (h, k) = Some l /\ n = Z.of_nat (length l);
  ok_cached : forall f module, module_of d !! f = Some module -> cached c f -> named c f module;
  ok_names : forall module name f, module_function_names c !! (module, name) = Some f -> module_of d !! f = Some module /\ f <> 0;
  ok_live : forall f module, module_of d !! f = Some module -> is_Some (layouts d !! (f, false)) }.

Lemma cached_live c d f : ok c d -> cached c f -> is_Some (layouts d !! (f, false)).
Proof.
  intros H [(i & p & Hp)|[n Hn]].
  - destruct (ok_params _ _ H _ _ _ _ Hp) as (l & -> & _). by eexists.
  - destruct (ok_counts _ _ H _ _ _ Hn) as (l & -> & _). by eexists.
Qed.

(** Entries that the driver gave. *)
Lemma ok_with_param c d h k i p l : ok c d -> layouts d !! (h, k) = Some l -> 0 <= i -> l !! Z.to_nat i = Some p ->
  (k = false -> forall module, module_of d !! h = Some module -> named c h module) ->
  ok (with_param_info <[(h, i, k) := p]> c) d.
Proof.
  intros H Hl Hi Hp Hn. split; try apply H; cbn [param_info with_param_info].
  - intros h' i' k' p'. rewrite lookup_insert_Some. intros [[[= <- <- <-] <-]|[_ Hp']]; [by exists l|].
    by apply (ok_params _ _ H).
  - intros f module Hm [(i' & p' & Hp')|Hc]; [|apply (ok_cached _ _ H f module Hm); by right].
    cbn in Hp'. apply lookup_insert_Some in Hp' as [[[= -> <- Ek] <-]|[_ Hp']]; [by apply Hn|].
    apply (ok_cached _ _ H f module Hm). left. by exists i', p'.
Qed.

Lemma ok_with_count c d h k n l : ok c d -> layouts d !! (h, k) = Some l -> n = Z.of_nat (length l) ->
  (k = false -> forall module, module_of d !! h = Some module -> named c h module) ->
  ok (with_layout_count <[(h, k) := n]> c) d.
Proof.
  intros H Hl -> Hn. split; try apply H; cbn [layout_count with_layout_count].
  - intros h' k' n'. rewrite lookup_insert_Some. intros [[[= <- <-] <-]|[_ Hc]]; [by exists l|]. by apply (ok_counts _ _ H).
  - intros f module Hm [Hc|[n' Hn']]; [apply (ok_cached _ _ H f module Hm); by left|].
    cbn in Hn'. apply lookup_insert_Some in Hn' as [[[= -> Ek] <-]|[_ Hc]]; [by apply Hn|].
    apply (ok_cached _ _ H f module Hm). right. by exists n'.
Qed.

Lemma ok_note_params c d h k l : ok c d -> layouts d !! (h, k) = Some l ->
  (k = false -> forall module, module_of d !! h = Some module -> named c h module) -> ok (note_params h k l c) d.
Proof.
  intros H Hl Hn. unfold note_params.
  assert (Hall : Forall (fun '(i, p) => l !! i = Some p) (imap pair l)).
  { apply Forall_lookup. intros j [i p]. rewrite list_lookup_imap. destruct (l !! j) eqn:E; [|done]. by intros [= <- <-]. }
  revert c H Hn. induction Hall as [|[i p] es Hp _ IH]; intros c H Hn.
  { by destruct c. }
  apply (IH (with_param_info <[(h, Z.of_nat i, k) := p]> c)); [|by destruct c].
  apply (ok_with_param c d h k _ p l); [done|done|lia|by rewrite Nat2Z.id|done].
Qed.

Lemma ok_note_count c d h k l : ok c d -> layouts d !! (h, k) = Some l ->
  (k = false -> forall module, module_of d !! h = Some module -> named c h module) -> ok (note_count h k l c) d.
Proof. intros H Hl Hn. by apply (ok_with_count c d h k _ l). Qed.

(** The server tells its layouts. *)
Lemma collect_params_all d h k l n : layouts d !! (h, k) = Some l -> (n <= length l)%nat ->
  forall fuel, (length l - n < fuel)%nat -> collect_params fuel d h k (Z.of_nat n) = drop n l.
Proof.
  intros Hl Hn fuel. revert n Hn. induction fuel as [|fuel IH]; intros n Hn Hf; [lia|]. cbn [collect_params].
  unfold driver_param_info. rewrite Hl, Nat2Z.id. destruct (l !! n) as [[o s]|] eqn:E.
  - cbn. replace (Z.of_nat n + 1) with (Z.of_nat (S n)) by lia. apply lookup_lt_Some in E as Hlt.
    rewrite IH by lia. by apply drop_S in E as ->.
  - cbn. apply lookup_ge_None in E. by rewrite drop_ge.
Qed.

Lemma collect_params_layout d h k l : layouts d !! (h, k) = Some l -> lupine_collect_params d h k = l.
Proof.
  intros Hl. unfold lupine_collect_params, query_fuel. rewrite Hl. cbn [default from_option id].
  by rewrite (collect_params_all d h k l 0 Hl) by lia.
Qed.

(** *** Queries keep it *)

(** The bookkeeping of names, which queries leave alone. *)
Definition same_names (c c' : client) : Prop :=
  module_functions c' = module_functions c /\ module_function_names c' = module_function_names c.

Lemma named_same c c' f module : same_names c c' -> named c f module -> named c' f module.
Proof. unfold named. by intros [-> ->]. Qed.

Lemma obtained_named c d h k l : obtained c d h k l ->
  k = false -> forall module, module_of d !! h = Some module -> named c h module.
Proof. intros (_ & _ & H) Hk module Hm. left. by apply H. Qed.

Lemma query_ok up c d h i k l : ok c d -> layouts d !! (h, k) = Some l -> 0 <= i ->
  (k = false -> forall module, module_of d !! h = Some module -> named c h module) ->
  let '(result, offset, size, c') := lupine_cuGetParamInfo_cached up d h i k c in
  ok c' d /\ same_names c c' /\
  ((result, offset, size) = driver_param_info d h k i \/ result = CUDA_ERROR_DEVICE_UNAVAILABLE /\ up = false).
Proof.
  intros H Hl Hi Hn. unfold lupine_cuGetParamInfo_cached, driver_param_info. rewrite Hl.
  destruct (param_info c !! (h, i, k)) as [[o s]|] eqn:E.
  { destruct (ok_params _ _ H _ _ _ _ E) as (l' & Hl' & _ & Hp). simplify_eq. rewrite Hp. split; [done|]. split; [done|by left]. }
  destruct (match layout_count c !! (h, k) with Some count => count <=? i | None => false end) eqn:Ec.
  { destruct (layout_count c !! (h, k)) as [n|] eqn:En; [|done]. destruct (ok_counts _ _ H _ _ _ En) as (l' & Hl' & ->).
    simplify_eq. apply Z.leb_le in Ec. rewrite lookup_ge_None_2 by lia. split; [done|]. split; [done|by left]. }
  destruct up; cbn [negb]; [|split; [done|]; split; [done|by right]].
  destruct (l !! Z.to_nat i) as [[o s]|] eqn:Ep; cbn; (split; [|split; [done|by left]]); [|done].
  by apply (ok_with_param c d h k i (o, s) l).
Qed.

Lemma read_sizes_ok fuel up d h k l : layouts d !! (h, k) = Some l -> Z.of_nat (length l) < 2 ^ 32 -> forall n c,
  ok c d -> (n <= length l)%nat -> (k = false -> forall module, module_of d !! h = Some module -> named c h module) ->
  match read_param_sizes fuel up d h k (Z.of_nat n) (take n l).*2 (take n l).*1 c with
  | None => (fuel <= length l - n)%nat
  | Some (result, sizes, offsets, c') => ok c' d /\ same_names c c' /\
      (result = CUDA_SUCCESS /\ sizes = l.*2 /\ offsets = l.*1 \/
       result = CUDA_ERROR_DEVICE_UNAVAILABLE /\ exists i, up i = false)
  end.
Proof.
  intros Hl Hlen. induction fuel as [|fuel IH]; intros n c H Hn Hk; cbn [read_param_sizes]; [lia|].
  pose proof (query_ok (up (Z.of_nat n)) c d h (Z.of_nat n) k l H Hl ltac:(lia) Hk) as Hq.
  destruct (lupine_cuGetParamInfo_cached _ _ _ _ _ _) as [[[result o] s] c1]. destruct Hq as (H1 & Hs1 & Hr).
  assert (Hk1 : k = false -> forall module, module_of d !! h = Some module -> named c1 h module).
  { intros E module Hm. by apply (named_same c), Hk. }
  destruct Hr as [Hr|[-> Hu]]; [|cbn; split; [done|]; split; [done|right]; eauto].
  unfold driver_param_info in Hr. rewrite Hl, Nat2Z.id in Hr. destruct (l !! n) as [[o' s']|] eqn:E.
  - injection Hr as -> -> ->. cbn. apply lookup_lt_Some in E as Hlt.
    specialize (IH (S n) c1 H1 ltac:(lia) Hk1). rewrite (take_S_r l n (o', s')), !fmap_app in IH by done. cbn [fmap list_fmap fst snd] in IH.
    replace (wrap32 (Z.of_nat n + 1)) with (Z.of_nat (S n)) by (unfold wrap32; rewrite Z.mod_small; lia).
    destruct (read_param_sizes _ _ _ _ _ _ _ _ _) as [[[[r ss] os] c2]|]; [|lia].
    destruct IH as (H2 & [Hs2 Hs2'] & IH). destruct Hs1. split; [done|]. split; [split; congruence|done].
  - injection Hr as -> -> ->. cbn. apply lookup_ge_None in E. rewrite take_ge by lia. split_and!.
    + apply (ok_with_count c1 d h k _ l); [done|done|by rewrite length_fmap|done].
    + by destruct Hs1.
    + by left.
Qed.

Lemma warm_ok fuel up d h k l : layouts d !! (h, k) = Some l -> Z.of_nat (length l) < 2 ^ 32 -> forall n c,
  ok c d -> (n <= length l)%nat -> (k = false -> forall module, module_of d !! h = Some module -> named c h module) ->
  forall result c', warm_param_info fuel up d h k (Z.of_nat n) c = Some (result, c') -> ok c' d.
Proof.
  intros Hl Hlen. induction fuel as [|fuel IH]; intros n c H Hn Hk result c'; cbn [warm_param_info]; [done|].
  pose proof (query_ok (up (Z.of_nat n)) c d h (Z.of_nat n) k l H Hl ltac:(lia) Hk) as Hq.
  destruct (lupine_cuGetParamInfo_cached _ _ _ _ _ _) as [[[r o] s] c1]. destruct Hq as (H1 & Hs1 & Hr).
  assert (Hk1 : k = false -> forall module, module_of d !! h = Some module -> named c1 h module).
  { intros E module Hm. by apply (named_same c), Hk. }
  destruct Hr as [Hr|[-> Hu]]; [|cbn; by intros [= _ <-]].
  unfold driver_param_info in Hr. rewrite Hl, Nat2Z.id in Hr. destruct (l !! n) as [[o' s']|] eqn:E.
  - injection Hr as -> -> ->. cbn. apply lookup_lt_Some in E as Hlt.
    replace (wrap64 (Z.of_nat n + 1)) with (Z.of_nat (S n)) by (unfold wrap64; rewrite Z.mod_small; lia).
    by apply (IH (S n) c1 H1 ltac:(lia) Hk1).
  - injection Hr as -> -> ->. cbn. apply lookup_ge_None in E. intros [= _ <-].
    by apply (ok_with_count c1 d h k _ l); [..|lia|].
Qed.

(** The answer of a layout request, or what arrives of it. *)
Lemma layout_answer_ok d f l : layouts d !! (f, false) = Some l -> forall fuel m n c, ok c d -> (n <= length l)%nat ->
  (forall module, module_of d !! f = Some module -> named c f module) ->
  let '(got, c') := read_layout (take m (layout_answer fuel d f (Z.of_nat n))) f (Z.of_nat n) c in
  ok c' d /\ same_names c c' /\ forall count, got = Some (count, CUDA_ERROR_INVALID_VALUE) -> count = Z.of_nat (length l).
Proof.
  intros Hl. induction fuel as [|fuel IH]; intros m n c H Hn Hk; cbn [layout_answer].
  { rewrite take_nil. cbn. done. }
  destruct m as [|m]; [done|]. unfold driver_param_info. rewrite Hl, Nat2Z.id. destruct (l !! n) as [[o s]|] eqn:E.
  - cbn. apply lookup_lt_Some in E as Hlt. replace (Z.of_nat n + 1) with (Z.of_nat (S n)) by lia.
    assert (H1 : ok (with_param_info <[(f, Z.of_nat n, false) := (o, s)]> c) d).
    { apply (ok_with_param c d f false _ (o, s) l); [done|done|lia|by rewrite Nat2Z.id|done]. }
    specialize (IH m (S n) _ H1 ltac:(lia)). destruct (read_layout _ _ _ _) as [got c'].
    destruct IH as (H2 & Hs & Hg); [|done]. intros module Hm. exact (Hk module Hm).
  - cbn. rewrite take_nil || idtac. cbn. apply lookup_ge_None in E. split; [done|]. split; [done|]. intros count [= <-]. lia.
Qed.

Lemma prefetch_ok n d f l c : ok c d -> layouts d !! (f, false) = Some l ->
  (forall module, module_of d !! f = Some module -> named c f module) -> ok (lupine_prefetch_function_param_layout n d f c) d.
Proof.
  intros H Hl Hk. unfold lupine_prefetch_function_param_layout, handle_lupineFunctionParamLayoutSnapshot.
  pose proof (layout_answer_ok d f l Hl (query_fuel d f false) n 0 c H ltac:(lia) Hk) as Ha.
  change (Z.of_nat 0) with 0 in Ha. destruct (read_layout _ _ _ _) as [[[count r]|] c']; destruct Ha as (H1 & Hs & Hg); [|done].
  destruct (Z.eqb_spec r CUDA_ERROR_INVALID_VALUE) as [->|]; [|done].
  apply (ok_with_count c' d f false count l); [done|done|by apply Hg|]. intros _ module Hm. by apply (named_same c), Hk.
Qed.

Lemma ok_record c d f module : ok c d -> module_of d !! f = Some module -> ok (lupine_record_module_function f module c) d.
Proof.
  intros H Hm. unfold lupine_record_module_function. case_match; [done|]. split; try apply H.
  intros g module' Hg Hc. destruct (decide (g = f)) as [->|Hne].
  - left. cbn. rewrite lookup_insert_eq. congruence.
  - destruct (ok_cached _ _ H g module' Hg Hc) as [Hf|Hf]; [left|by right]. cbn. by rewrite lookup_insert_ne.
Qed.

Lemma get_function_ok n c d module name found : ok c d -> module <> 0 ->
  (forall f, found = Some f -> module_of d !! f = Some module /\ f <> 0) -> ok (cuModuleGetFunction n d module name found c).2 d.
Proof.
  intros H Hm Hf. unfold cuModuleGetFunction. destruct (module_function_names c !! (module, name)) as [f|] eqn:E.
  { cbn. apply ok_record; [done|]. by apply (ok_names _ _ H module name). }
  destruct found as [f|]; [|done]. cbn. destruct (Hf f eq_refl) as [Hmo Hf0]. destruct (ok_live _ _ H f module Hmo) as [l Hl].
  apply (prefetch_ok n d f l); [by apply ok_record|done|]. intros module' Hm'. left. unfold lupine_record_module_function.
  rewrite (proj2 (Z.eqb_neq f 0)), (proj2 (Z.eqb_neq module 0)) by done. cbn. rewrite lookup_insert_eq. congruence.
Qed.

(** *** Loading and unloading keep it *)

Lemma ok_grow c d d' : ok c d -> (forall h l, layouts d !! h = Some l -> layouts d' !! h = Some l) ->
  (forall f, is_Some (layouts d !! (f, false)) -> module_of d' !! f = module_of d !! f) ->
  (forall f module, module_of d' !! f = Some module -> is_Some (layouts d' !! (f, false))) -> ok c d'.
Proof.
  intros H Hl Hm Hlive. split; [| | | |done].
  - intros h i k p Hp. destruct (ok_params _ _ H _ _ _ _ Hp) as (l & Hll & Hi & He). exists l. auto.
  - intros h k n Hn. destruct (ok_counts _ _ H _ _ _ Hn) as (l & Hll & He). exists l. auto.
  - intros f module Hmo Hc. apply (ok_cached _ _ H f module); [|done]. rewrite <- Hm; [done|]. by apply (cached_live c d).
  - intros module name f Hn. destruct (ok_names _ _ H _ _ _ Hn) as [Hmo H0]. split; [|done].
    rewrite Hm; [done|]. by apply (ok_live _ _ H f module).
Qed.

Lemma union_old {A} `{Countable K} (l : list (K * A)) (m : gmap K A) k x :
  (forall x, (k, x) ∈ l -> False) -> m !! k = Some x -> (list_to_map l ∪ m) !! k = Some x.
Proof.
  intros Hf Hx. apply lookup_union_Some_raw. right. split; [|done].
  destruct (list_to_map l !! k) as [y|] eqn:E; [|done]. apply elem_of_list_to_map_2 in E. by destruct (Hf y).
Qed.

Lemma union_new {A} `{Countable K} (l : list (K * A)) (m : gmap K A) k x :
  NoDup l.*1 -> (k, x) ∈ l -> (list_to_map l ∪ m) !! k = Some x.
Proof. intros Hn Hx. apply lookup_union_Some_raw. left. by apply elem_of_list_to_map_1. Qed.

Section LoadModule.
Context (module : Z) (fs : list (list Z * Z * list (Z * Z))) (c : client) (d : driver).
Hypothesis (H_ok : ok c d) (H_module : forall f, module_of d !! f <> Some module)
  (H_distinct : NoDup ((fun '(_, f, _) => f) <$> fs : list Z))
  (H_fresh : forall name f l, (name, f, l) ∈ fs -> layouts d !! (f, false) = None /\ f <> 0).
Let d' := add_module module fs d.

Lemma new_function name f l : (name, f, l) ∈ fs -> layouts d' !! (f, false) = Some l /\ module_of d' !! f = Some module.
Proof.
  intros Hf. split; apply union_new.
  - replace (((fun '(_, f, l) => ((f, false), l)) <$> fs).*1) with ((fun f : Z => (f, false)) <$> ((fun '(_, f, _) => f) <$> fs)).
    + apply NoDup_fmap_2; [|done]. by intros ?? [= ->].
    + rewrite <- !list_fmap_compose. apply list_fmap_ext. by intros i [[? ?] ?] _.
  - apply list_elem_of_fmap. by exists (name, f, l).
  - replace (((fun '(_, f, _) => (f, module)) <$> fs).*1) with ((fun '(_, f, _) => f) <$> fs : list Z); [done|].
    rewrite <- list_fmap_compose. apply list_fmap_ext. by intros i [[? ?] ?] _.
  - apply list_elem_of_fmap. by exists (name, f, l).
Qed.

Lemma add_module_ok : ok c d'.
Proof.
  apply (ok_grow c d); [done| | |].
  - intros h l Hl. apply union_old; [|done]. intros l' ([[name f] l''] & [= -> ->] & Hf)%list_elem_of_fmap.
    destruct (H_fresh name f l'' Hf). congruence.
  - intros f [l Hl]. cbn. rewrite lookup_union_r; [done|]. apply not_elem_of_list_to_map_1.
    intros ([g mo] & -> & ([[name f'] l'] & [= -> ->] & Hf)%list_elem_of_fmap)%list_elem_of_fmap.
    destruct (H_fresh name f' l' Hf). cbn in *. congruence.
  - intros f mo Hmo. cbn in Hmo. apply lookup_union_Some_raw in Hmo as [Hmo|[_ Hmo]].
    + apply elem_of_list_to_map_2, list_elem_of_fmap in Hmo as ([[name f'] l'] & [= -> ->] & Hf).
      destruct (new_function _ _ _ Hf) as [-> _]. by eexists.
    + destruct (ok_live _ _ H_ok f mo Hmo) as [l Hl]. exists l. apply union_old; [|done].
      intros l' ([[name f'] l''] & [= -> ->] & Hf)%list_elem_of_fmap. destruct (H_fresh _ _ _ Hf). congruence.
Qed.

Lemma read_module_ok chosen : NoDup chosen.*1 -> (forall name f, (name, f) ∈ chosen -> exists l, (name, f, l) ∈ fs) ->
  ok (lupine_read_module_functions module (lupine_collect_module d' chosen) c) d'.
Proof.
  intros Hn Hc. assert (Hfree : forall name, name ∈ chosen.*1 -> module_function_names c !! (module, name) = None).
  { intros name _. destruct (module_function_names c !! (module, name)) as [f|] eqn:E; [|done].
    destruct (ok_names _ _ H_ok _ _ _ E) as [Hmo _]. by destruct (H_module f). }
  pose proof add_module_ok as Hok. revert Hok Hfree. generalize c as c0. induction chosen as [|[name f] chosen IH]; intros c0 Hok Hfree; [done|].
  apply NoDup_cons in Hn as [Hnot Hn]. destruct (Hc name f ltac:(by left)) as [l Hf].
  destruct (new_function name f l Hf) as [Hl Hmo]. destruct (H_fresh name f l Hf) as [_ H0].
  cbn [lupine_collect_module fmap list_fmap lupine_read_module_functions foldl].
  apply IH; [done|intros; apply Hc; by right| |].
  - unfold read_module_function. cbn [r_name r_function r_params]. rewrite (collect_params_layout d' f false l Hl).
    assert (Hname : named (with_function_names <[(module, name) := f]> c0) f module).
    { right. exists name. cbn. by rewrite lookup_insert_eq. }
    assert (H1 : ok (with_function_names <[(module, name) := f]> c0) d').
    { split; try apply Hok.
      - intros g mo Hg Hcg. destruct (ok_cached _ _ Hok g mo Hg Hcg) as [Hx|[n Hx]]; [by left|right].
        exists n. cbn. rewrite lookup_insert_ne; [done|]. intros [= <- <-]. rewrite Hfree in Hx; [done|by left].
      - intros mo n g. cbn. rewrite lookup_insert_Some. intros [[[= <- <-] <-]|[_ Hx]]; [done|]. by apply (ok_names _ _ Hok mo n). }
    change (ok (note_count f false l (note_params f false l (with_function_names <[(module, name) := f]> c0))) d').
    apply (ok_note_count (note_params f false l (with_function_names <[(module, name) := f]> c0)) d' f false l); [|done|].
    + apply ok_note_params; [done|done|]. intros _ mo Hm. rewrite Hmo in Hm. by injection Hm as <-.
    + intros _ mo Hm. rewrite Hmo in Hm. by injection Hm as <-.
  - intros n Hin. cbn. rewrite lookup_insert_ne; [apply Hfree; by right|]. intros [= <-]. done.
Qed.
End LoadModule.

Lemma unload_module_ok c d module : ok c d -> ok (lupine_release_module_retained_strings module c) (remove_module module d).
Proof.
  intros H. set (u := unloaded_functions module c).
  assert (Hu : forall f, module_of d !! f = Some module -> cached c f -> f ∈ u).
  { intros f Hm Hc. unfold u, unloaded_functions. apply elem_of_union.
    destruct (ok_cached _ _ H f module Hm Hc) as [Hf|[name Hf]]; [right|left].
    - apply elem_of_dom. exists module. by apply map_lookup_filter_Some.
    - apply elem_of_map_img. exists (module, name). by apply map_lookup_filter_Some. }
  assert (Hkeep : forall h k l, layouts d !! (h, k) = Some l -> ~ (k = false /\ module_of d !! h = Some module) ->
    layouts (remove_module module d) !! (h, k) = Some l).
  { intros h k l Hl Hn. by apply map_lookup_filter_Some. }
  split; cbn [param_info layout_count module_function_names module_functions lupine_release_module_retained_strings].
  - intros h i k p [Hp Hn]%map_lookup_filter_Some. cbn in Hn. destruct (ok_params _ _ H _ _ _ _ Hp) as (l & Hl & Hi & He).
    exists l. split; [|done]. apply Hkeep; [done|]. intros [-> Hm]. apply Hn. split; [done|]. apply Hu; [done|]. left. by exists i, p.
  - intros h k n [Hp Hn]%map_lookup_filter_Some. cbn in Hn. destruct (ok_counts _ _ H _ _ _ Hp) as (l & Hl & He).
    exists l. split; [|done]. apply Hkeep; [done|]. intros [-> Hm]. apply Hn. split; [done|]. apply Hu; [done|]. right. by exists n.
  - intros f mo [Hm Hne]%map_lookup_filter_Some Hc. cbn in Hne. assert (Hc' : cached c f).
    { destruct Hc as [(i & p & [Hp _]%map_lookup_filter_Some)|[n [Hp _]%map_lookup_filter_Some]]; [left; by exists i, p|right; by exists n]. }
    destruct (ok_cached _ _ H f mo Hm Hc') as [Hf|[name Hf]]; [left|right; exists name]; by apply map_lookup_filter_Some.
  - intros mo name f [Hf Hne]%map_lookup_filter_Some. cbn in Hne. destruct (ok_names _ _ H _ _ _ Hf) as [Hm H0].
    split; [|done]. by apply map_lookup_filter_Some.
  - intros f mo [Hm Hne]%map_lookup_filter_Some. cbn in Hne. destruct (ok_live _ _ H f mo Hm) as [l Hl]. exists l.
    apply Hkeep; [done|]. intros [_ Hm']. congruence.
Qed.

Lemma read_library_ok c d library ks chosen : ok c d -> NoDup (library_handles ks).*1 ->
  (forall h l, (h, l) ∈ library_handles ks -> layouts d !! h = None) ->
  (forall name k f, (name, k, f) ∈ chosen -> exists l, (name, k, f, l) ∈ ks) ->
  ok (lupine_read_library library (lupine_collect_library (add_library library ks d) chosen) c) (add_library library ks d).
Proof.
  intros H Hn Hf Hc. set (d' := add_library library ks d).
  assert (Hmod : forall f l, ((f, false), l) ∈ library_handles ks -> module_of d' !! f = None).
  { intros f l Hin. cbn. destruct (module_of d !! f) as [mo|] eqn:E; [|done]. destruct (ok_live _ _ H f mo E) as [l' Hl'].
    rewrite (Hf _ _ Hin) in Hl'. done. }
  assert (H' : ok c d').
  { apply (ok_grow c d); [done| |done|].
    - intros h l Hl. apply union_old; [|done]. intros l' Hin. rewrite (Hf _ _ Hin) in Hl. done.
    - intros f mo Hm. destruct (ok_live _ _ H f mo Hm) as [l Hl]. exists l. apply union_old; [|done].
      intros l' Hin. rewrite (Hf _ _ Hin) in Hl. done. }
  clear H. revert c H'. induction chosen as [|[[name k] f] chosen IH]; intros c H'; [done|].
  destruct (Hc name k f ltac:(by left)) as [l Hl].
  assert (Hk : ((k, true), l) ∈ library_handles ks).
  { apply list_elem_of_bind. exists (name, k, f, l). split; [by left|done]. }
  assert (Hlk : layouts d' !! (k, true) = Some l) by by apply union_new.
  assert (Hlf : f <> 0 -> layouts d' !! (f, false) = Some l /\ module_of d' !! f = None).
  { intros H0. assert (Hin : ((f, false), l) ∈ library_handles ks).
    { apply list_elem_of_bind. exists (name, k, f, l). split; [|done]. rewrite (proj2 (Z.eqb_neq f 0) H0). right. by left. }
    split; [by apply union_new|by apply (Hmod f l)]. }
  cbn [lupine_collect_library fmap list_fmap lupine_read_library foldl].
  apply IH; [intros; apply Hc; by right|]. unfold read_library_kernel. cbn [r_name r_function r_kernel r_params].
  rewrite (collect_params_layout d' k true l Hlk).
  assert (Hlib : forall a b e g c, ok c d' -> ok (with_libraries a b e g c) d') by (intros ? ? ? ? ? []; done).
  apply Hlib. destruct (Z.eqb_spec f 0) as [->|H0]; [apply ok_note_count; [by apply ok_note_params|done|done]|].
  destruct (Hlf H0) as [Hl' Hm']. apply ok_note_count; [|done|by rewrite Hm'].
  apply ok_note_count; [|done|done]. apply ok_note_params; [|done|by rewrite Hm']. by apply ok_note_params.
Qed.

Lemma destroy_ok c d gone : ok c d -> ok (lupine_invalidate_function_caches c) (remove_handles gone d).
Proof.
  intros H. split; cbn [param_info layout_count module_function_names lupine_invalidate_function_caches].
  - by intros h i k p []%lookup_empty_Some.
  - by intros h k n []%lookup_empty_Some.
  - intros f mo _ [(i & p & Hp)|[n Hn]]; [cbn in Hp|cbn in Hn]; by simplify_map_eq.
  - by intros mo name f []%lookup_empty_Some.
  - intros f mo [Hm Hg]%map_lookup_filter_Some. cbn in Hg. destruct (ok_live _ _ H f mo Hm) as [l Hl]. exists l.
    by apply map_lookup_filter_Some.
Qed.

Lemma layout_step_ok x y : step x y -> ok x.1 x.2 -> ok y.1 y.2.
Proof.
  intros Hs H. destruct Hs as [c d module fs chosen Hm H0 Hd Hn Hf Hc|c d n module name found Hf Hm|c d module
    |c d library ks chosen Hn Hf Hc|c d fuel up library name found result kernel c' Hf Hg|c d up h i k l Ho Hi
    |c d fuel up h k l result sizes offsets c' Ho Hr|c d gone]; cbn [fst snd] in *.
  - by apply read_module_ok.
  - by apply get_function_ok.
  - by apply unload_module_ok.
  - by apply read_library_ok.
  - unfold cuLibraryGetKernel in Hg. destruct (library_kernel_names c !! (library, name)); [by simplify_eq|].
    destruct found as [k|]; [|by simplify_eq]. destruct (Hf k eq_refl) as [l Ho].
    destruct (warm_param_info fuel up d k true 0 c) as [[r c1]|] eqn:E; [|done]. cbn in Hg.
    assert (H1 : ok c1 d).
    { destruct Ho as (Hl & Hlen & Hk). by apply (warm_ok fuel up d k true l Hl Hlen 0 c H ltac:(lia) ltac:(done) r). }
    destruct (r =? CUDA_SUCCESS); cbn in Hg; injection Hg as _ _ <-; [|done]. by destruct H1.
  - pose proof (query_ok up c d h i k l H (proj1 Ho) Hi (obtained_named _ _ _ _ _ Ho)) as Hq.
    destruct (lupine_cuGetParamInfo_cached _ _ _ _ _ _) as [[[r o] s] c']. by destruct Hq.
  - pose proof (read_sizes_ok fuel up d h k l (proj1 Ho) (proj1 (proj2 Ho)) 0 c H ltac:(lia) (obtained_named _ _ _ _ _ Ho)) as Hq.
    change (read_param_sizes _ _ _ _ _ _ _ _ _) with (lupine_read_param_sizes fuel up d h k c) in Hq. rewrite Hr in Hq. by destruct Hq.
  - by apply destroy_ok.
Qed.

Lemma no_client_ok : ok no_client no_driver.
Proof.
  split; cbn.
  - by intros h i k p []%lookup_empty_Some.
  - by intros h k n []%lookup_empty_Some.
  - by intros f mo []%lookup_empty_Some.
  - by intros mo name f []%lookup_empty_Some.
  - by intros f mo []%lookup_empty_Some.
Qed.

(** ** The layouts a launch uses *)

Lemma layout_read c d handle kernel l fuel up : rtc step (no_client, no_driver) (c, d) -> obtained c d handle kernel l ->
  (length l < fuel)%nat ->
  exists result sizes offsets c', lupine_read_param_sizes fuel up d handle kernel c = Some (result, sizes, offsets, c') /\
    (result = CUDA_SUCCESS /\ sizes = l.*2 /\ offsets = l.*1 \/
     result = CUDA_ERROR_DEVICE_UNAVAILABLE /\ exists i, up i = false).
Proof.
  intros H_reachable H_obtained H_fuel. assert (Hok : ok (c, d).1 (c, d).2).
  { revert H_reachable. apply (rtc_ind_r (fun y => ok y.1 y.2)); [apply no_client_ok|]. intros x z _ Hs. by apply layout_step_ok. }
  pose proof (read_sizes_ok fuel up d handle kernel l (proj1 H_obtained) (proj1 (proj2 H_obtained)) 0 c Hok ltac:(lia)
    (obtained_named _ _ _ _ _ H_obtained)) as H.
  change (read_param_sizes _ _ _ _ _ _ _ _ _) with (lupine_read_param_sizes fuel up d handle kernel c) in H.
  destruct (lupine_read_param_sizes fuel up d handle kernel c) as [[[[r s] o] c']|]; [|lia].
  exists r, s, o, c'. by destruct H as (_ & _ & H).
Qed.

(** C17: Whatever modules and libraries were loaded, modules unloaded and contexts destroyed or reset,
    and whichever of their handles the driver used again, the sizes and offsets that a launch reads
    through the caches are those of the function or kernel that the handle stands for now; the
    only other outcome is an error, when a request was not answered.  No library has been unloaded and
    no primary context has ended by its last release: then it can fail ([library_unload_leaves_layouts],
    [primary_release_leaves_layouts]). *)
Theorem param_sizes_exact (c : client) (d : driver) (handle : Z) (kernel : bool) (l : list (Z * Z)) (fuel : nat) (up : Z -> bool)
  (H_reachable : rtc step (no_client, no_driver) (c, d)) (H_obtained : obtained c d handle kernel l)
  (H_fuel : (length l < fuel)%nat) :
  exists result sizes offsets c', lupine_read_param_sizes fuel up d handle kernel c = Some (result, sizes, offsets, c') /\
    (result = CUDA_SUCCESS /\ sizes = l.*2 /\ offsets = l.*1 \/
     result = CUDA_ERROR_DEVICE_UNAVAILABLE /\ exists i, up i = false).
Proof. by apply layout_read. Qed.

(** A module is loaded, its function looked up and the module unloaded; another module gets its handles. *)
Definition first_functions : list (list Z * Z * list (Z * Z)) := [([102], 100, [(0, 8); (8, 4)])].
Definition second_functions : list (list Z * Z * list (Z * Z)) := [([103], 100, [(0, 4)])].

Definition loaded (module : Z) (fs : list (list Z * Z * list (Z * Z))) (name : list Z) (x : client * driver) : client * driver :=
  let d := add_module module fs x.2 in
  let c := lupine_read_module_functions module (lupine_collect_module d [(name, 100)]) x.1 in
  ((cuModuleGetFunction 0 d module name None c).2, d).

Definition unloaded (module : Z) (x : client * driver) : client * driver :=
  (lupine_release_module_retained_strings module x.1, remove_module module x.2).

Definition reused : client * driver := loaded 7 second_functions [103] (unloaded 7 (loaded 7 first_functions [102] (no_client, no_driver))).

Lemma loaded_steps module name l c d : module <> 0 -> (forall f, module_of d !! f <> Some module) -> layouts d !! (100, false) = None ->
  rtc step (c, d) (loaded module [(name, 100, l)] name (c, d)).
Proof.
  intros H0 Hm Hl. eapply rtc_l; [apply (load_module_step c d module [(name, 100, l)] [(name, 100)]); try done|].
  - apply NoDup_singleton.
  - apply NoDup_singleton.
  - by intros name' f l' [= -> -> ->]%list_elem_of_singleton.
  - intros name' f [= -> ->]%list_elem_of_singleton. exists l. by apply list_elem_of_singleton.
  - apply rtc_once. by apply get_function_step.
Qed.

Lemma reused_reachable : rtc step (no_client, no_driver) reused.
Proof.
  unfold reused. etrans; [|apply loaded_steps].
  - etrans; [apply (loaded_steps 7 [102] [(0, 8); (8, 4)]); try done|].
    apply rtc_once. apply unload_module_step.
  - done.
  - intros f. vm_compute. by destruct f.
  - reflexivity.
Qed.

Lemma param_sizes_exact_witness :
  exists c', lupine_read_param_sizes 2 (fun _ => true) reused.2 100 false reused.1 = Some (CUDA_SUCCESS, [4], [0], c').
Proof.
  destruct (param_sizes_exact reused.1 reused.2 100 false [(0, 4)] 2 (fun _ => true)) as (r & s & o & c' & E & H).
  - exact reused_reachable.
  - split; [reflexivity|]. split; [reflexivity|]. intros _ module Hm. exact Hm.
  - cbn. lia.
  - destruct H as [(-> & -> & ->)|(_ & i & Hi)]; [|discriminate Hi]. exists c'. exact E.
Defined.

(** Unloading a library leaves the layouts of its kernels: a kernel that gets the handle of one
    with more parameters is taken to have those too, and a library that gets the handle of
    another is taken to have its kernels. *)
Theorem library_unload_leaves_layouts :
  let d := add_library 1 [([97], 100, 0, [(0, 8); (8, 8)])] no_driver in
  let c := lupine_read_library 1 (lupine_collect_library d [([97], 100, 0)]) no_client in
  let '(c, d) := (lupine_release_library_retained_strings 1 c, remove_library 1 d) in
  let d := add_library 1 [([98], 100, 0, [(0, 8)])] d in
  let c := lupine_read_library 1 (lupine_collect_library d [([98], 100, 0)]) c in
  layouts d !! (100, true) = Some [(0, 8)] /\
  (exists c', lupine_read_param_sizes 5 (fun _ => true) d 100 true c = Some (CUDA_SUCCESS, [8; 8], [0; 8], c')) /\
  cuLibraryGetKernel 5 (fun _ => true) d 1 [97] None c = Some (CUDA_SUCCESS, 100, c).
Proof. split; [vm_compute; reflexivity|]. split; [eexists|]; vm_compute; reflexivity. Qed.

(** The last release of a primary context ends it with its modules, but takes nothing out of the caches: a
    function of a module loaded later that gets the handle of one with more parameters is taken to have
    those too. *)
Theorem primary_release_leaves_layouts :
  let '(c, d) := loaded 7 first_functions [102] (no_client, no_driver) in
  let d := remove_handles {[(100, false)]} d in
  let '(c, d) := loaded 8 second_functions [103] (c, d) in
  obtained c d 100 false [(0, 4)] /\
  exists c', lupine_read_param_sizes 5 (fun _ => true) d 100 false c = Some (CUDA_SUCCESS, [4; 4], [0; 8], c').
Proof.
  destruct (loaded 7 first_functions [102] (no_client, no_driver)) as [c d] eqn:E.
  assert (E1 : c = (loaded 7 first_functions [102] (no_client, no_driver)).1) by by rewrite E.
  assert (E2 : d = (loaded 7 first_functions [102] (no_client, no_driver)).2) by by rewrite E.
  subst c d. cbv zeta. destruct (loaded 8 _ _ _) as [c d] eqn:F.
  assert (F1 : c = (loaded 8 second_functions [103] ((loaded 7 first_functions [102] (no_client, no_driver)).1,
    remove_handles {[(100, false)]} (loaded 7 first_functions [102] (no_client, no_driver)).2)).1) by by rewrite F.
  assert (F2 : d = (loaded 8 second_functions [103] ((loaded 7 first_functions [102] (no_client, no_driver)).1,
    remove_handles {[(100, false)]} (loaded 7 first_functions [102] (no_client, no_driver)).2)).2) by by rewrite F.
  subst c d. split; [|eexists; vm_compute; reflexivity].
  split; [vm_compute; reflexivity|]. split; [vm_compute; reflexivity|]. intros _ module Hm. vm_compute in Hm |- *. exact Hm.
Qed.
