(* ===== verification/Launch.v ===== *)
(** * Kernel launches

    [cuLaunchKernel], [cuLaunchKernelEx] and [cuLaunchCooperativeKernel] of [cuda_client.cpp]
    with their handlers in [cuda_server.cpp]: a launch reads the layout of its parameters,
    takes each argument from the application's memory, and goes out as a request that is not
    answered; the handler rebuilds the array of arguments and calls the driver, and an error
    is kept for the next answer that synchronizes; and the handlers of event records, waits,
    graph launches and event queries, as far as results and errors go.  The route of a launch and the function on
    it are given, and what exposing the pointers among the arguments does is in
    [HostMirror]. *)
From S2P Require Import Prelude ParamLayout.

(** ** Arguments in the application's memory *)

Definition CU_LAUNCH_PARAM_END : Z := 0.
Definition CU_LAUNCH_PARAM_BUFFER_POINTER : Z := 1.

Section Client.
Context (mem : Z -> byte).

Definition bytes_at (address size : Z) : list byte := (fun i => mem (wrap64 (address + i))) <$> seqZ 0 size.
Definition pointer_at (address : Z) : Z := le_val (bytes_at address 8).
Definition array_at (address i : Z) : Z := pointer_at (address + 8 * i).

(** The last buffer before the end of [extra]. *)
Fixpoint param_buffer (fuel : nat) (extra i buffer : Z) : option Z :=
  match fuel with
  | O => None
  | S fuel =>
      if array_at extra i =? CU_LAUNCH_PARAM_END then Some buffer
      else
        let buffer := if array_at extra i =? CU_LAUNCH_PARAM_BUFFER_POINTER then array_at extra (i + 1) else buffer in
        param_buffer fuel extra (i + 2) buffer
  end.

(** An array of pointers, [None] when it is null. *)
Definition lupine_params_from_param_buffer (fuel : nat) (extra : Z) (offsets : list Z) : option (option (list Z)) :=
  buffer ← param_buffer fuel extra 0 0;
  Some (if buffer =? 0 then None else Some ((fun offset => wrap64 (buffer + offset)) <$> offsets)).

(** What the application passes: an array of pointers or a buffer described by [extra], each 0 when
    it is null; the pointers of [n] arguments. *)
Definition kernel_params (fuel : nat) (kernelParams extra : Z) (n : nat) (offsets : list Z) : option (option (list Z)) :=
  if extra =? 0
  then Some (if kernelParams =? 0 then None else Some (array_at kernelParams <$> seqZ 0 (Z.of_nat n)))
  else lupine_params_from_param_buffer fuel extra offsets.

(** The checks on the pointers of arguments of these sizes. *)
Definition checked_params (sizes : list Z) (params : option (list Z)) : option (list Z) :=
  match sizes, params with
  | [], _ => Some []
  | _, None => None
  | _, Some l => if existsb (fun p => p =? 0) l then None else Some l
  end.

(** The values that may be pointers into mapped memory. *)
Definition pointer_values (sizes params : list Z) : list Z :=
  omap (fun '(size, p) => if size =? 8 then Some (pointer_at p) else None) (zip sizes params).

(** What [lupine_kernel_param_cursors] points at. *)
Definition lupine_kernel_param_cursors (sizes params : list Z) : list (list byte) :=
  (fun '(size, p) => bytes_at p size) <$> zip sizes params.

(** ** Requests *)

Record geometry := Geometry {
  gridDimX : Z; gridDimY : Z; gridDimZ : Z; blockDimX : Z; blockDimY : Z; blockDimZ : Z; sharedMemBytes : Z; hStream : Z }.

Definition geometry_bytes (g : geometry) : list byte :=
  le_bytes 4 (gridDimX g) ++ le_bytes 4 (gridDimY g) ++ le_bytes 4 (gridDimZ g) ++
  le_bytes 4 (blockDimX g) ++ le_bytes 4 (blockDimY g) ++ le_bytes 4 (blockDimZ g) ++
  le_bytes 4 (sharedMemBytes g) ++ le_bytes 8 (hStream g).

(** The count, the sizes and the arguments. *)
Definition params_bytes (sizes : list Z) (args : list (list byte)) : list byte :=
  le_bytes 4 (wrap32 (Z.of_nat (length sizes))) ++ (sizes ≫= le_bytes 8) ++ concat args.

(** What a launch does: it fails, calls the driver of this machine with its arguments, or sends a
    request. *)
Inductive outcome :=
| Failed (result : Z)
| Local (function : Z) (params : list Z)
| Sent (request : list byte).

(** What happens around a launch: [status] and [function] from the resolution of the function on its
    route, [kernel] whether it is a library's kernel, [local] whether the route is, [prepare] the
    result of exposing these pointers, [ready] whether the connection is prepared, [written]
    whether the request can be written, [sequence] its number. *)
Record surroundings := Around {
  status : Z; function : Z; kernel : bool; local : bool; prepare : list Z -> Z; ready : bool; written : bool; sequence : Z }.

(** The layout, the arguments and the checks; the sizes and the pointers, or an error. *)
Definition launch_arguments (fuel : nat) (up : Z -> bool) (d : driver) (a : surroundings) (kernelParams extra : Z) (c : client)
    : option ((Z + list Z * list Z) * client) :=
  '(result, sizes, offsets, c) ← lupine_read_param_sizes fuel up d (function a) (kernel a) c;
  if negb (result =? CUDA_SUCCESS) then Some (inl result, c)
  else
    params ← kernel_params fuel kernelParams extra (length sizes) offsets;
    Some (match checked_params sizes params with
          | None => inl CUDA_ERROR_INVALID_VALUE
          | Some params => inr (sizes, params)
          end, c).

(** From the arguments on, with the request's bytes before them. *)
Definition send_launch (a : surroundings) (head : list byte) (arguments : Z + list Z * list Z) : outcome :=
  match arguments with
  | inl error => Failed error
  | inr (sizes, params) =>
      let prepared := prepare a (pointer_values sizes params) in
      if negb (prepared =? CUDA_SUCCESS) then Failed prepared
      else if local a then Local (function a) params
      else if negb (ready a) then Failed CUDA_ERROR_DEVICE_UNAVAILABLE
      else if negb (written a) then Failed CUDA_ERROR_DEVICE_UNAVAILABLE
      else Sent (le_bytes 8 (sequence a) ++ head ++ params_bytes sizes (lupine_kernel_param_cursors sizes params))
  end.

Definition cuLaunchKernel (fuel : nat) (up : Z -> bool) (d : driver) (a : surroundings) (g : geometry) (kernelParams extra : Z)
    (c : client) : option (outcome * client) :=
  if negb (status a =? CUDA_SUCCESS) then Some (Failed (status a), c)
  else
    '(arguments, c) ← launch_arguments fuel up d a kernelParams extra c;
    Some (send_launch a (le_bytes 8 (function a) ++ geometry_bytes g) arguments, c).

(** The launch configuration is the image of a [CUlaunchConfig] and the attributes it points to; [None]
    when it is null. *)
Definition cuLaunchKernelEx (fuel : nat) (up : Z -> bool) (d : driver) (a : surroundings) (config : option (list byte * list byte))
    (kernelParams extra : Z) (c : client) : option (outcome * client) :=
  match config with
  | None => Some (Failed CUDA_ERROR_INVALID_VALUE, c)
  | Some (config, attributes) =>
      if negb (status a =? CUDA_SUCCESS) then Some (Failed (status a), c)
      else
        '(arguments, c) ← launch_arguments fuel up d a kernelParams extra c;
        Some (send_launch a (config ++ attributes ++ le_bytes 8 (function a)) arguments, c)
  end.

(** The function is not resolved for another route. *)
Definition cuLaunchCooperativeKernel (fuel : nat) (up : Z -> bool) (d : driver) (a : surroundings) (g : geometry) (kernelParams : Z)
    (c : client) : option (outcome * client) :=
  '(arguments, c) ← launch_arguments fuel up d a kernelParams 0 c;
  Some (send_launch a (le_bytes 8 (function a) ++ geometry_bytes g) arguments, c).
End Client.

(** ** Handlers *)

(** [rpc_read] of [n] bytes. *)
Definition read (n : Z) (lane : list byte) : option (list byte * list byte) :=
  if Z.of_nat (length lane) <? n then None else Some (take (Z.to_nat n) lane, drop (Z.to_nat n) lane).

Definition read_number (n : Z) (lane : list byte) : option (Z * list byte) :=
  '(bs, lane) ← read n lane; Some (le_val bs, lane).

Definition read_geometry (lane : list byte) : option (geometry * list byte) :=
  '(gx, lane) ← read_number 4 lane; '(gy, lane) ← read_number 4 lane; '(gz, lane) ← read_number 4 lane;
  '(bx, lane) ← read_number 4 lane; '(by_, lane) ← read_number 4 lane; '(bz, lane) ← read_number 4 lane;
  '(shared, lane) ← read_number 4 lane; '(stream, lane) ← read_number 8 lane;
  Some (Geometry gx gy gz bx by_ bz shared stream, lane).

Fixpoint sizes_of (n : nat) (bs : list byte) : list Z :=
  match n with O => [] | S n => le_val (take 8 bs) :: sizes_of n (drop 8 bs) end.

(** The offsets of the pointers in the storage. *)
Fixpoint param_pointers (cursor : Z) (sizes : list Z) : list Z :=
  match sizes with [] => [] | size :: sizes => cursor :: param_pointers (wrap64 (cursor + size)) sizes end.

(** The storage of the arguments and where the pointers that the driver gets point in it. *)
Record arguments := Arguments { storage : list byte; pointers : list Z }.

Definition storage_size (sizes : list Z) : Z := foldl (fun n size => wrap64 (n + size)) 0 sizes.

Definition read_params (lane : list byte) : option (arguments * list byte) :=
  '(param_count, lane) ← read_number 4 lane;
  '(bs, lane) ← read (param_count * 8) lane;
  let sizes := sizes_of (Z.to_nat param_count) bs in
  '(storage, lane) ← read (storage_size sizes) lane;
  Some (Arguments storage (param_pointers 0 sizes), lane).

(** What the driver reads of an argument of a size. *)
Definition argument (a : arguments) (i : nat) (size : Z) : list byte :=
  take (Z.to_nat size) (drop (Z.to_nat (default 0 (pointers a !! i))) (storage a)).

(** A fire-and-forget failure is kept until it is taken; 0 is none. *)
Definition lupine_keep_async_error (result first_async_error : Z) : Z :=
  if (result =? CUDA_SUCCESS) || negb (first_async_error =? 0) then first_async_error else result.

(** The result and the register after. *)
Definition lupine_take_async_error (result first_async_error : Z) : Z * Z :=
  if first_async_error =? 0 then (result, first_async_error) else (first_async_error, 0).

Inductive driver_launch :=
| LaunchKernel (f : Z) (g : geometry) (a : arguments)
| LaunchKernelEx (config attributes : list byte) (f : Z) (a : arguments)
| LaunchCooperativeKernel (f : Z) (g : geometry) (a : arguments).

(** [begun]: [rpc_async_sequence_begin] succeeds; the call of the driver, what is left on the lane and
    the register after, [None] when the handler fails. *)
Definition handle_cuLaunchKernel (begun : bool) (cuda : driver_launch -> Z) (lane : list byte) (error : Z)
    : option (driver_launch * list byte * Z) :=
  '(async_sequence, lane) ← read_number 8 lane;
  '(f, lane) ← read_number 8 lane;
  '(g, lane) ← read_geometry lane;
  '(a, lane) ← read_params lane;
  if negb begun then None
  else let launch := LaunchKernel f g a in Some (launch, lane, lupine_keep_async_error (cuda launch) error).

Definition handle_cuLaunchCooperativeKernel (begun : bool) (cuda : driver_launch -> Z) (lane : list byte) (error : Z)
    : option (driver_launch * list byte * Z) :=
  '(async_sequence, lane) ← read_number 8 lane;
  '(f, lane) ← read_number 8 lane;
  '(g, lane) ← read_geometry lane;
  '(a, lane) ← read_params lane;
  if negb begun then None else Some (LaunchCooperativeKernel f g a, lane, error).

Section Ex.
(** The size of a [CUlaunchConfig], its number of attributes and the size of each. *)
Context (config_size attribute_size : Z) (numAttrs : list byte -> Z).

Definition handle_cuLaunchKernelEx (begun : bool) (cuda : driver_launch -> Z) (lane : list byte) (error : Z)
    : option (driver_launch * list byte * Z) :=
  '(async_sequence, lane) ← read_number 8 lane;
  '(config, lane) ← read config_size lane;
  '(attributes, lane) ← read (wrap64 (numAttrs config * attribute_size)) lane;
  '(f, lane) ← read_number 8 lane;
  '(a, lane) ← read_params lane;
  if negb begun then None
  else let launch := LaunchKernelEx config attributes f a in Some (launch, lane, lupine_keep_async_error (cuda launch) error).
End Ex.

(** ** Reading back *)

Lemma read_app n bs rest : Z.of_nat (length bs) = n -> read n (bs ++ rest) = Some (bs, rest).
Proof.
  intros <-. unfold read. rewrite length_app, (proj2 (Z.ltb_ge _ _)) by lia. rewrite Nat2Z.id, take_app_length, drop_app_length. done.
Qed.

Lemma read_u32 z rest : is_u32 z -> read_number 4 (le_bytes 4 z ++ rest) = Some (z, rest).
Proof. intros Hz. unfold read_number. rewrite read_app by (by rewrite length_le_bytes). cbn. by rewrite le_val_bytes4. Qed.

Lemma read_u64 z rest : is_u64 z -> read_number 8 (le_bytes 8 z ++ rest) = Some (z, rest).
Proof. intros Hz. unfold read_number. rewrite read_app by (by rewrite length_le_bytes). cbn. by rewrite le_val_bytes8. Qed.

Definition geometry_ok (g : geometry) : Prop :=
  is_u32 (gridDimX g) /\ is_u32 (gridDimY g) /\ is_u32 (gridDimZ g) /\ is_u32 (blockDimX g) /\ is_u32 (blockDimY g) /\
  is_u32 (blockDimZ g) /\ is_u32 (sharedMemBytes g) /\ is_u64 (hStream g).

Lemma read_geometry_bytes g rest : geometry_ok g -> read_geometry (geometry_bytes g ++ rest) = Some (g, rest).
Proof.
  intros (H1 & H2 & H3 & H4 & H5 & H6 & H7 & H8). unfold read_geometry, geometry_bytes. rewrite <- !app_assoc.
  do 7 (rewrite read_u32 by done; cbn [mbind option_bind]). rewrite read_u64 by done. cbn. by destruct g.
Qed.

Lemma sizes_of_bytes sizes : Forall is_u64 sizes -> sizes_of (length sizes) (sizes ≫= le_bytes 8) = sizes.
Proof.
  induction 1 as [|size sizes Hs _ IH]; [done|].
  change ((size :: sizes) ≫= le_bytes 8) with (le_bytes 8 size ++ (sizes ≫= le_bytes 8)).
  cbn [length sizes_of]. rewrite take_app_length', drop_app_length' by (by rewrite length_le_bytes). by rewrite le_val_bytes8, IH.
Qed.

Definition total (sizes : list Z) : Z := foldr Z.add 0 sizes.

Lemma total_nonneg sizes : Forall is_u64 sizes -> 0 <= total sizes.
Proof. induction 1 as [|s sizes Hs _ IH]; cbn; [done|]. unfold is_u64 in Hs. unfold total in IH. lia. Qed.

Lemma storage_size_total sizes n : 0 <= n -> Forall is_u64 sizes -> n + total sizes < 2 ^ 64 ->
  foldl (fun n size => wrap64 (n + size)) n sizes = n + total sizes.
Proof.
  intros Hn H. revert n Hn. induction H as [|s sizes Hs Hss IH]; intros n Hn Ht; cbn in *; [lia|].
  pose proof (total_nonneg sizes Hss) as Hp. unfold total in *. unfold is_u64 in Hs. unfold wrap64 at 2. rewrite Z.mod_small by lia.
  rewrite IH by lia. lia.
Qed.

(** Where the pointers point and what is there. *)
Lemma argument_at sizes args : Forall2 (fun size arg => Z.of_nat (length arg) = size) sizes args -> forall before n i size,
  Z.of_nat (length before) = n -> n + total sizes < 2 ^ 64 -> sizes !! i = Some size ->
  argument (Arguments (before ++ concat args) (param_pointers n sizes)) i size = default [] (args !! i).
Proof.
  induction 1 as [|s arg sizes args Hs Hf IH]; intros before n i size Hb Ht Hi; [done|].
  assert (Hp : 0 <= total sizes).
  { clear -Hf. induction Hf; cbn; [done|]. unfold total in IHHf. lia. }
  destruct i as [|i]; cbn [lookup list_lookup param_pointers] in *.
  - injection Hi as ->. unfold argument. cbn [pointers storage lookup list_lookup default from_option id concat].
    rewrite <- Hb, Nat2Z.id, drop_app_length, <- Hs, Nat2Z.id. by rewrite take_app_length.
  - cbn in Ht. unfold total in *. assert (Hw : wrap64 (n + s) = n + s) by (unfold wrap64; apply Z.mod_small; lia).
    rewrite Hw. specialize (IH (before ++ arg) (n + s) i size). rewrite <- app_assoc in IH. cbn [concat].
    unfold argument in *. cbn [pointers storage lookup list_lookup] in *. apply IH; [rewrite length_app; lia|lia|done].
Qed.

Lemma read_params_bytes sizes args rest : Forall is_u64 sizes -> Z.of_nat (length sizes) < 2 ^ 32 -> total sizes < 2 ^ 64 ->
  Forall2 (fun size arg => Z.of_nat (length arg) = size) sizes args ->
  read_params (params_bytes sizes args ++ rest) = Some (Arguments (concat args) (param_pointers 0 sizes), rest).
Proof.
  intros Hu Hn Ht Hf. unfold read_params, params_bytes. rewrite <- !app_assoc.
  assert (Hw : wrap32 (Z.of_nat (length sizes)) = Z.of_nat (length sizes)) by (unfold wrap32; apply Z.mod_small; lia).
  rewrite Hw, read_u32 by (unfold is_u32; lia). cbn [mbind option_bind].
  rewrite read_app.
  2:{ clear. induction sizes as [|s sizes IH]; [done|]. change ((s :: sizes) ≫= le_bytes 8) with (le_bytes 8 s ++ (sizes ≫= le_bytes 8)).
      rewrite length_app, length_le_bytes. cbn [length] in *. lia. }
  cbn [mbind option_bind]. rewrite Nat2Z.id, sizes_of_bytes by done.
  unfold storage_size. rewrite (storage_size_total sizes 0) by (done || lia). rewrite Z.add_0_l, read_app; [done|].
  clear -Hf. induction Hf as [|s arg sizes args Hs _ IH]; [done|]. cbn. rewrite length_app. unfold total in IH. lia.
Qed.

Lemma cursors_sized mem sizes params : Forall is_u64 sizes -> length params = length sizes ->
  Forall2 (fun size arg => Z.of_nat (length arg) = size) sizes (lupine_kernel_param_cursors mem sizes params).
Proof.
  intros Hu. revert params. induction Hu as [|s sizes Hs _ IH]; intros params Hl.
  { destruct params; [constructor|done]. }
  destruct params as [|p params]; [done|]. injection Hl as Hl. cbn. constructor; [|by apply IH]. unfold bytes_at. rewrite length_fmap, length_seqZ. unfold is_u64 in Hs. lia.
Qed.

Lemma cursor_at mem sizes params i size p : sizes !! i = Some size -> params !! i = Some p ->
  lupine_kernel_param_cursors mem sizes params !! i = Some (bytes_at mem p size).
Proof. intros Hs Hp. unfold lupine_kernel_param_cursors. rewrite list_lookup_fmap, lookup_zip_with, Hs, Hp. done. Qed.

(** ** Delivery *)

(** What the driver at the server finds for each parameter of the layout is what the application
    passed. *)
Definition arguments_delivered (mem : Z -> byte) (l : list (Z * Z)) (params : list Z) (a : arguments) : Prop :=
  length (pointers a) = length l /\
  forall i offset size p, l !! i = Some (offset, size) -> params !! i = Some p -> argument a i size = bytes_at mem p size.

(** Where the application says that its arguments are: behind the pointers of an array, or at the offsets of
    the layout in the buffer that a list of keys and values, ended by [CU_LAUNCH_PARAM_END], names last.
    A function without parameters needs neither. *)
Definition word (mem : Z -> byte) (address : Z) : Z := le_val (bytes_at mem address 8).

Fixpoint keys_and_values (mem : Z -> byte) (extra : Z) (pairs : list (Z * Z)) : Prop :=
  match pairs with
  | [] => word mem extra = CU_LAUNCH_PARAM_END
  | (key, value) :: pairs =>
      word mem extra = key /\ key <> CU_LAUNCH_PARAM_END /\ word mem (extra + 8) = value /\
      keys_and_values mem (extra + 16) pairs
  end.

Definition buffers (pairs : list (Z * Z)) : list Z :=
  omap (fun '(key, value) => if key =? CU_LAUNCH_PARAM_BUFFER_POINTER then Some value else None) pairs.

Definition passed_in_array (mem : Z -> byte) (kernelParams : Z) (l : list (Z * Z)) (params : list Z) : Prop :=
  kernelParams <> 0 /\ length params = length l /\
  forall i p, params !! i = Some p -> p = word mem (kernelParams + 8 * Z.of_nat i) /\ p <> 0.

Definition passed_in_buffer (mem : Z -> byte) (extra : Z) (l : list (Z * Z)) (params : list Z) (keys : nat) : Prop :=
  exists pairs buffer, keys_and_values mem extra pairs /\ (length pairs < keys)%nat /\
    last (buffers pairs) = Some buffer /\ buffer <> 0 /\ params = (fun e => wrap64 (buffer + e.1)) <$> l /\
    Forall (fun p => p <> 0) params.

Lemma param_buffer_last mem keys extra pairs : keys_and_values mem extra pairs -> (length pairs < keys)%nat ->
  forall i buffer, param_buffer mem keys (extra - 8 * i) i buffer = Some (default buffer (last (buffers pairs))).
Proof.
  revert extra keys. induction pairs as [|[key value] pairs IH]; intros extra [|keys] Hk Hf i buffer; try (cbn in Hf; lia).
  - cbn [param_buffer]. unfold array_at, pointer_at. replace (extra - 8 * i + 8 * i) with extra by lia.
    unfold keys_and_values, word in Hk. by rewrite Hk.
  - destruct Hk as (H1 & H2 & H3 & Hk). cbn [param_buffer]. unfold array_at, pointer_at.
    replace (extra - 8 * i + 8 * i) with extra by lia. replace (extra - 8 * i + 8 * (i + 1)) with (extra + 8) by lia.
    unfold word in H1, H3. rewrite H1, H3, (proj2 (Z.eqb_neq _ _) H2).
    replace (extra - 8 * i) with (extra + 16 - 8 * (i + 2)) by lia. rewrite (IH (extra + 16) keys Hk) by (cbn in Hf; lia).
    unfold buffers. cbn [omap list_omap]. destruct (key =? CU_LAUNCH_PARAM_BUFFER_POINTER); [|done].
    fold (buffers pairs). rewrite last_cons. by destruct (last (buffers pairs)).
Qed.

Section Delivery.
Context (mem : Z -> byte) (c : client) (d : driver) (a : surroundings) (kernelParams extra : Z) (l : list (Z * Z))
  (params : list Z) (fuel : nat) (up : Z -> bool).

(** The launch has what it needs: a reachable client, a handle with layout [l] whose arguments are at
    [params] and not null, and a connection. *)
Record launchable : Prop := Launchable {
  la_reachable : rtc step (no_client, no_driver) (c, d);
  la_obtained : obtained c d (function a) (kernel a) l;
  la_fuel : (length l < fuel)%nat;
  la_up : forall i, up i = true;
  la_params :
    if extra =? 0 then l = [] /\ params = [] \/ passed_in_array mem kernelParams l params
    else passed_in_buffer mem extra l params fuel;
  la_sizes : Forall is_u64 l.*2;
  la_total : total l.*2 < 2 ^ 64;
  la_prepare : forall values, prepare a values = CUDA_SUCCESS;
  la_remote : local a = false;
  la_ready : ready a = true;
  la_written : written a = true;
  la_function : is_u64 (function a);
  la_sequence : is_u64 (sequence a) }.

Lemma param_pointers_length sizes : forall n, length (param_pointers n sizes) = length sizes.
Proof. induction sizes as [|s sizes IH]; intros n; [done|]. cbn. by rewrite IH. Qed.

Lemma params_length (H : launchable) : length params = length l.
Proof.
  pose proof (la_params H) as Hp. destruct (extra =? 0).
  - destruct Hp as [[-> ->]|(_ & Hl & _)]; done.
  - destruct Hp as (pairs & buffer & _ & _ & _ & _ & -> & _). by rewrite length_fmap.
Qed.

Lemma params_found (H : launchable) : exists array,
  kernel_params mem fuel kernelParams extra (length l) l.*1 = Some array /\ checked_params l.*2 array = Some params.
Proof.
  pose proof (la_params H) as Hp. unfold kernel_params. destruct (extra =? 0).
  - eexists. split; [reflexivity|]. destruct Hp as [[El ->]|(H0 & Hl & Hp)]; [by rewrite El|].
    rewrite (proj2 (Z.eqb_neq _ _) H0). unfold checked_params.
    assert (E : array_at mem kernelParams <$> seqZ 0 (Z.of_nat (length l)) = params).
    { apply list_eq. intros i. rewrite list_lookup_fmap. destruct (params !! i) as [p|] eqn:Ei.
      - apply lookup_lt_Some in Ei as Hlt. rewrite lookup_seqZ_lt by lia. cbn. f_equal. destruct (Hp i p Ei) as [-> _]. done.
      - apply lookup_ge_None in Ei. by rewrite lookup_seqZ_ge by lia. }
    rewrite E. destruct (l.*2) eqn:E2; [destruct l; [|done]; destruct params; done|].
    destruct (existsb _ params) eqn:Ex; [|done]. apply existsb_exists in Ex as (p & Hin & Hz%Z.eqb_eq).
    apply list_elem_of_In, list_elem_of_lookup in Hin as [i Hi]. by destruct (Hp i p Hi).
  - destruct Hp as (pairs & buffer & Hk & Hf & Hb & H0 & Hp & Hn). unfold lupine_params_from_param_buffer.
    pose proof (param_buffer_last mem fuel extra pairs Hk Hf 0 0) as Hbuf. rewrite Z.mul_0_r, Z.sub_0_r, Hb in Hbuf.
    rewrite Hbuf. cbn [mbind option_bind default from_option id]. rewrite (proj2 (Z.eqb_neq _ _) H0).
    eexists. split; [reflexivity|]. rewrite <- list_fmap_compose.
    replace ((fun offset => wrap64 (buffer + offset)) ∘ fst <$> l) with params by done. unfold checked_params.
    destruct (l.*2) eqn:E2; [destruct l; [|done]; by rewrite Hp|].
    destruct (existsb _ params) eqn:Ex; [|done]. apply existsb_exists in Ex as (p & Hin & Hz%Z.eqb_eq).
    rewrite Forall_forall in Hn. by destruct (Hn p ltac:(by apply list_elem_of_In)).
Qed.

Lemma launch_arguments_ok (H : launchable) :
  exists c', launch_arguments mem fuel up d a kernelParams extra c = Some (inr (l.*2, params), c').
Proof.
  destruct (layout_read c d (function a) (kernel a) l fuel up (la_reachable H) (la_obtained H) (la_fuel H))
    as (r & s & o & c' & E & [(-> & -> & ->)|(_ & i & Hi)]); [|by rewrite (la_up H) in Hi].
  exists c'. unfold launch_arguments. rewrite E. cbn [mbind option_bind]. destruct (params_found H) as (array & Hk & Hc).
  rewrite length_fmap, Hk. cbn. by rewrite Hc.
Qed.

Lemma sent_delivered (H : launchable) head lane :
  exists args, send_launch mem a head (inr (l.*2, params)) =
      Sent (le_bytes 8 (sequence a) ++ head ++ params_bytes l.*2 (lupine_kernel_param_cursors mem l.*2 params)) /\
    read_params (params_bytes l.*2 (lupine_kernel_param_cursors mem l.*2 params) ++ lane) = Some (args, lane) /\
    arguments_delivered mem l params args.
Proof.
  pose proof (params_length H) as Hlen. pose proof (cursors_sized mem l.*2 params (la_sizes H)) as Hf.
  rewrite length_fmap in Hf. specialize (Hf Hlen). eexists. split_and!.
  - unfold send_launch. by rewrite (la_prepare H), (la_remote H), (la_ready H), (la_written H).
  - apply read_params_bytes; [apply H|rewrite length_fmap; apply (la_obtained H)|apply H|done].
  - split; [rewrite <- (length_fmap snd l); apply param_pointers_length|].
    intros i offset size p Hi Hp. assert (Hs : l.*2 !! i = Some size) by by rewrite list_lookup_fmap, Hi.
    pose proof (argument_at _ _ Hf [] 0 i size eq_refl ltac:(rewrite Z.add_0_l; apply H) Hs) as Ha. cbn [app] in Ha.
    rewrite Ha. by rewrite (cursor_at mem _ _ i size p).
Qed.
End Delivery.

(** C16: A kernel launch goes through: when the connection is up and the caches are in a state that loads, module
    unloads and ends of contexts other than the last release of a primary context lead to, the request
    of a launch, whether its arguments are behind an array of pointers or at their offsets in a packed
    buffer, makes the handler call the driver with the same function, dimensions, shared memory and
    stream, and with each argument having the bytes that it has in the application, and nothing of the
    lane beyond it is read. *)
Theorem kernel_launch_delivered (mem : Z -> byte) (c : client) (d : driver) (a : surroundings) (g : geometry)
  (kernelParams extra : Z) (l : list (Z * Z)) (params : list Z) (fuel : nat) (up : Z -> bool) (cuda : driver_launch -> Z)
  (lane : list byte) (error : Z) (H_launch : launchable mem c d a kernelParams extra l params fuel up)
  (H_status : status a = CUDA_SUCCESS) (H_geometry : geometry_ok g) :
  exists request c' args, cuLaunchKernel mem fuel up d a g kernelParams extra c = Some (Sent request, c') /\
    handle_cuLaunchKernel true cuda (request ++ lane) error =
      Some (LaunchKernel (function a) g args, lane,
            lupine_keep_async_error (cuda (LaunchKernel (function a) g args)) error) /\
    arguments_delivered mem l params args.
Proof.
  destruct (launch_arguments_ok _ _ _ _ _ _ _ _ _ _ H_launch) as [c' Ea].
  destruct (sent_delivered _ _ _ _ _ _ _ _ _ _ H_launch (le_bytes 8 (function a) ++ geometry_bytes g) lane) as (args & Es & Er & Hd).
  eexists _, c', args. split; [|split; [|done]].
  - unfold cuLaunchKernel. rewrite H_status, Ea. cbn [mbind option_bind]. rewrite Es. reflexivity.
  - unfold handle_cuLaunchKernel. rewrite <- !app_assoc. rewrite read_u64 by apply H_launch. cbn [mbind option_bind].
    rewrite read_u64 by apply H_launch. cbn [mbind option_bind]. rewrite read_geometry_bytes by done. cbn [mbind option_bind].
    rewrite Er. done.
Qed.

(** The same for cooperative launches, whose result goes nowhere. *)
Theorem cooperative_launch_delivered (mem : Z -> byte) (c : client) (d : driver) (a : surroundings) (g : geometry)
  (kernelParams : Z) (l : list (Z * Z)) (params : list Z) (fuel : nat) (up : Z -> bool) (cuda : driver_launch -> Z)
  (lane : list byte) (error : Z) (H_launch : launchable mem c d a kernelParams 0 l params fuel up) (H_geometry : geometry_ok g) :
  exists request c' args, cuLaunchCooperativeKernel mem fuel up d a g kernelParams c = Some (Sent request, c') /\
    handle_cuLaunchCooperativeKernel true cuda (request ++ lane) error =
      Some (LaunchCooperativeKernel (function a) g args, lane, error) /\
    arguments_delivered mem l params args.
Proof.
  destruct (launch_arguments_ok _ _ _ _ _ _ _ _ _ _ H_launch) as [c' Ea].
  destruct (sent_delivered _ _ _ _ _ _ _ _ _ _ H_launch (le_bytes 8 (function a) ++ geometry_bytes g) lane) as (args & Es & Er & Hd).
  eexists _, c', args. split; [|split; [|done]].
  - unfold cuLaunchCooperativeKernel. rewrite Ea. cbn [mbind option_bind]. rewrite Es. reflexivity.
  - unfold handle_cuLaunchCooperativeKernel. rewrite <- !app_assoc. rewrite read_u64 by apply H_launch. cbn [mbind option_bind].
    rewrite read_u64 by apply H_launch. cbn [mbind option_bind]. rewrite read_geometry_bytes by done. cbn [mbind option_bind].
    rewrite Er. done.
Qed.

(** The same for launches with a configuration and its attributes. *)
Theorem configured_launch_delivered (config_size attribute_size : Z) (numAttrs : list byte -> Z)
  (mem : Z -> byte) (c : client) (d : driver) (a : surroundings) (config attributes : list byte)
  (kernelParams extra : Z) (l : list (Z * Z)) (params : list Z) (fuel : nat) (up : Z -> bool) (cuda : driver_launch -> Z)
  (lane : list byte) (error : Z) (H_launch : launchable mem c d a kernelParams extra l params fuel up)
  (H_status : status a = CUDA_SUCCESS) (H_config : Z.of_nat (length config) = config_size)
  (H_attributes : Z.of_nat (length attributes) = wrap64 (numAttrs config * attribute_size)) :
  exists request c' args, cuLaunchKernelEx mem fuel up d a (Some (config, attributes)) kernelParams extra c = Some (Sent request, c') /\
    handle_cuLaunchKernelEx config_size attribute_size numAttrs true cuda (request ++ lane) error =
      Some (LaunchKernelEx config attributes (function a) args, lane,
            lupine_keep_async_error (cuda (LaunchKernelEx config attributes (function a) args)) error) /\
    arguments_delivered mem l params args.
Proof.
  destruct (launch_arguments_ok _ _ _ _ _ _ _ _ _ _ H_launch) as [c' Ea].
  destruct (sent_delivered _ _ _ _ _ _ _ _ _ _ H_launch (config ++ attributes ++ le_bytes 8 (function a)) lane) as (args & Es & Er & Hd).
  eexists _, c', args. split; [|split; [|done]].
  - unfold cuLaunchKernelEx. rewrite H_status, Ea. cbn [mbind option_bind]. rewrite Es. reflexivity.
  - unfold handle_cuLaunchKernelEx. rewrite <- !app_assoc. rewrite read_u64 by apply H_launch. cbn [mbind option_bind].
    rewrite read_app by done. cbn [mbind option_bind]. rewrite read_app by done. cbn [mbind option_bind].
    rewrite read_u64 by apply H_launch. cbn [mbind option_bind]. rewrite Er. done.
Qed.

(** Launches of the function with the reused handle: its argument is 42, behind a pointer in the array at 1000,
    or 43, in the buffer at 4000 that the list at 3000 names. *)
Definition sample_mem (address : Z) : byte :=
  default 0 (list_find (fun e => e.1 = address)
    [(1000, 208); (1001, 7); (2000, 42); (3000, 1); (3008, 160); (3009, 15); (4000, 43)] ≫= fun e => Some e.2.2).
Definition sample_around : surroundings := Around CUDA_SUCCESS 100 false false (fun _ => CUDA_SUCCESS) true true 5.
Definition sample_geometry : geometry := Geometry 1 1 1 32 1 1 0 0.

Lemma sample_launchable kernelParams extra params :
  (if extra =? 0 then [(0, 4)] = [] /\ params = [] \/ passed_in_array sample_mem kernelParams [(0, 4)] params
   else passed_in_buffer sample_mem extra [(0, 4)] params 2) ->
  launchable sample_mem reused.1 reused.2 sample_around kernelParams extra [(0, 4)] params 2 (fun _ => true).
Proof.
  intros Hp. apply Launchable; [exact reused_reachable| |cbn; lia|reflexivity|exact Hp| |reflexivity..| |].
  - split; [reflexivity|]. split; [reflexivity|]. intros _ module Hm. exact Hm.
  - apply Forall_cons. split; [unfold is_u64; cbn; lia|by apply Forall_nil_2].
  - unfold is_u64; cbn; lia.
  - unfold is_u64; cbn; lia.
Qed.

Lemma sample_in_array : passed_in_array sample_mem 1000 [(0, 4)] [2000].
Proof. split; [done|]. split; [done|]. intros [|i] p; [|done]. intros [= <-]. by vm_compute. Qed.

Lemma sample_in_buffer : passed_in_buffer sample_mem 3000 [(0, 4)] [4000] 2.
Proof.
  exists [(1, 4000)], 4000. split_and!; try (by vm_compute). repeat constructor; done.
Qed.

Lemma kernel_launch_delivered_witness :
  (exists request c' args, cuLaunchKernel sample_mem 2 (fun _ => true) reused.2 sample_around sample_geometry 1000 0 reused.1 =
      Some (Sent request, c') /\
    handle_cuLaunchKernel true (fun _ => CUDA_SUCCESS) (request ++ [9]) 0 = Some (LaunchKernel 100 sample_geometry args, [9], 0) /\
    argument args 0 4 = [42; 0; 0; 0]) /\
  (exists request c' args, cuLaunchKernel sample_mem 2 (fun _ => true) reused.2 sample_around sample_geometry 0 3000 reused.1 =
      Some (Sent request, c') /\
    handle_cuLaunchKernel true (fun _ => CUDA_SUCCESS) (request ++ [9]) 0 = Some (LaunchKernel 100 sample_geometry args, [9], 0) /\
    argument args 0 4 = [43; 0; 0; 0]).
Proof.
  assert (Hg : geometry_ok sample_geometry) by (unfold geometry_ok, is_u32, is_u64; cbn; lia). split.
  - destruct (kernel_launch_delivered sample_mem reused.1 reused.2 sample_around sample_geometry 1000 0 [(0, 4)] [2000] 2
      (fun _ => true) (fun _ => CUDA_SUCCESS) [9] 0 (sample_launchable 1000 0 [2000] (or_intror sample_in_array)) eq_refl Hg)
      as (request & c' & args & H1 & H2 & _ & H3).
    exists request, c', args. split; [exact H1|]. split; [exact H2|].
    rewrite (H3 0%nat 0 4 2000 eq_refl eq_refl). vm_compute. reflexivity.
  - destruct (kernel_launch_delivered sample_mem reused.1 reused.2 sample_around sample_geometry 0 3000 [(0, 4)] [4000] 2
      (fun _ => true) (fun _ => CUDA_SUCCESS) [9] 0 (sample_launchable 0 3000 [4000] sample_in_buffer) eq_refl Hg)
      as (request & c' & args & H1 & H2 & _ & H3).
    exists request, c', args. split; [exact H1|]. split; [exact H2|].
    rewrite (H3 0%nat 0 4 4000 eq_refl eq_refl). vm_compute. reflexivity.
Defined.

(** ** Errors of launches

    Lanes run at once and share the register of their connection; keeping is an atomic comparison
    and taking an atomic exchange.  [stored] and [reported] are what was put in and what answers
    took out. *)
Record register := Register { first : Z; stored : list Z; reported : list Z }.

Inductive register_step : register -> register -> Prop :=
| keep_step e s r result :
    register_step (Register e s r)
      (Register (lupine_keep_async_error result e)
         (if (result =? CUDA_SUCCESS) || negb (e =? 0) then s else s ++ [result]) r)
| take_step e s r result :
    register_step (Register e s r)
      (Register (lupine_take_async_error result e).2 s (if e =? 0 then r else r ++ [(lupine_take_async_error result e).1])).

(** Under every interleaving of launches and synchronizing answers, each error that was stored is
    reported by exactly one answer, in order, and at most one waits to be. *)
Theorem async_errors_reported_once (y : register) (H_reachable : rtc register_step (Register 0 [] []) y) :
  stored y = reported y ++ (if first y =? 0 then [] else [first y]).
Proof.
  revert H_reachable. apply (rtc_ind_r (fun y => stored y = reported y ++ (if first y =? 0 then [] else [first y]))); [done|].
  intros x z _ Hs Hx. destruct Hs as [e s r result|e s r result]; cbn [stored reported first] in *.
  - revert Hx. unfold lupine_keep_async_error, CUDA_SUCCESS. destruct (Z.eqb_spec result 0) as [->|Hr]; cbn [orb]; [done|].
    destruct (Z.eqb_spec e 0) as [->|He]; cbn [negb]; intros ->.
    + by rewrite (proj2 (Z.eqb_neq result 0) Hr), app_nil_r.
    + by rewrite (proj2 (Z.eqb_neq e 0) He).
  - revert Hx. unfold lupine_take_async_error. destruct (Z.eqb_spec e 0) as [->|Hne]; cbn; [done|]. intros ->. by rewrite app_nil_r.
Qed.

Lemma async_errors_reported_once_witness :
  rtc register_step (Register 0 [] []) (Register 0 [700] [700]) /\ stored (Register 0 [700] [700]) = [700] ++ [].
Proof.
  assert (H : rtc register_step (Register 0 [] []) (Register 0 [700] [700])).
  { eapply rtc_l; [exact (keep_step 0 [] [] 700)|]. eapply rtc_l; [exact (keep_step 700 [700] [] 719)|].
    apply rtc_once. exact (take_step 700 [700] [] 0). }
  split; [exact H|]. exact (async_errors_reported_once _ H).
Defined.

(** The failure of a cooperative launch is not kept, so no answer reports it, while the client has
    already returned success. *)
Theorem cooperative_error_lost (cuda : driver_launch -> Z) (lane : list byte) (error : Z) launch lane' error'
  (H_handled : handle_cuLaunchCooperativeKernel true cuda lane error = Some (launch, lane', error')) :
  error' = error.
Proof.
  unfold handle_cuLaunchCooperativeKernel in H_handled.
  repeat match type of H_handled with context [read_number ?n ?l] => destruct (read_number n l) as [[? ?]|]; [cbn in H_handled|done] end.
  destruct (read_geometry _) as [[? ?]|]; [cbn in H_handled|done]. destruct (read_params _) as [[? ?]|]; [cbn in H_handled|done].
  by injection H_handled.
Qed.

(** Sizes whose sum wraps around give the driver a pointer outside the storage of the arguments. *)
Theorem launch_sizes_wrap :
  exists a, read_params (le_bytes 4 2 ++ le_bytes 8 (2 ^ 64 - 8) ++ le_bytes 8 16 ++ replicate 8 0) = Some (a, []) /\
    length (storage a) = 8%nat /\ pointers a = [0; 2 ^ 64 - 8].
Proof. eexists. split; [vm_compute; reflexivity|]. split; reflexivity. Qed.

(** ** Events and waits

    The other hand-written requests that are not answered, and the query that reports their errors. *)

Inductive event_call :=
| EventRecord (event stream : Z)
| EventRecordWithFlags (event stream flags : Z)
| StreamWaitEvent (stream event flags : Z)
| GraphLaunch (exec stream : Z).

Definition handle_cuEventRecordCommon (with_flags begun : bool) (cuda : event_call -> Z) (lane : list byte) (error : Z)
    : option (event_call * list byte * Z) :=
  '(async_sequence, lane) ← read_number 8 lane;
  '(event, lane) ← read_number 8 lane;
  '(stream, lane) ← read_number 8 lane;
  '(flags, lane) ← (if with_flags then read_number 4 lane else Some (0, lane));
  if negb begun then None
  else let call := if with_flags then EventRecordWithFlags event stream flags else EventRecord event stream in
       Some (call, lane, lupine_keep_async_error (cuda call) error).

Definition handle_cuGraphLaunch (begun : bool) (cuda : event_call -> Z) (lane : list byte) (error : Z)
    : option (event_call * list byte * Z) :=
  '(async_sequence, lane) ← read_number 8 lane;
  '(exec, lane) ← read_number 8 lane;
  '(stream, lane) ← read_number 8 lane;
  if negb begun then None
  else let call := GraphLaunch exec stream in Some (call, lane, lupine_keep_async_error (cuda call) error).

Definition handle_cuStreamWaitEvent (begun : bool) (cuda : event_call -> Z) (lane : list byte) (error : Z)
    : option (event_call * list byte * Z) :=
  '(async_sequence, lane) ← read_number 8 lane;
  '(stream, lane) ← read_number 8 lane;
  '(event, lane) ← read_number 8 lane;
  '(flags, lane) ← read_number 4 lane;
  if negb begun then None else Some (StreamWaitEvent stream event flags, lane, error).

(** *** Queries *)

Definition kLupineEventQueryBatch : nat := 16.
Definition CUDA_ERROR_NOT_READY : Z := 600.

(** The events, and whether they were written beyond the array that holds them. *)
Definition read_events (lane : list byte) : option (list Z * bool * list byte) :=
  '(event, lane) ← read_number 8 lane;
  '(count, lane) ← read_number 4 lane;
  '(bs, lane) ← read (count * 8) lane;
  Some (event :: sizes_of (Z.to_nat count) bs, Z.of_nat kLupineEventQueryBatch <? count, lane).

(** [owes]: copies to the client are due with the event. *)
Definition handle_cuEventQuery (query : Z -> Z) (owes : Z -> bool) (lane : list byte) (error : Z)
    : option (list Z * bool * list byte * Z) :=
  '(events, overflow, lane) ← read_events lane;
  match events with
  | [] => None
  | event :: others =>
      let '(result, error) := lupine_take_async_error (query event) error in
      Some (result :: ((fun e => if (query e =? CUDA_SUCCESS) && owes e then CUDA_ERROR_NOT_READY else query e) <$> others),
            overflow, lane, error)
  end.

(** The client's request for an event and the others that ride along. *)
Definition event_query_request (event : Z) (others : list Z) : list byte :=
  le_bytes 8 event ++ le_bytes 4 (Z.of_nat (length others)) ++ (others ≫= le_bytes 8).

(** A query of at most so many events is answered with the result of each, except that the first error of
    launches, records and graph launches before it takes the place of its own. *)
Theorem event_query_answers (query : Z -> Z) (owes : Z -> bool) (event : Z) (others : list Z) (lane : list byte) (error : Z)
  (H_event : is_u64 event) (H_others : Forall is_u64 others) (H_batch : (length others <= kLupineEventQueryBatch)%nat) :
  handle_cuEventQuery query owes (event_query_request event others ++ lane) error =
  Some ((if error =? 0 then query event else error) ::
        ((fun e => if (query e =? CUDA_SUCCESS) && owes e then CUDA_ERROR_NOT_READY else query e) <$> others), false, lane, 0).
Proof.
  unfold handle_cuEventQuery, read_events, event_query_request, kLupineEventQueryBatch in *. rewrite <- !app_assoc.
  rewrite read_u64 by done. cbn [mbind option_bind]. rewrite read_u32 by (unfold is_u32; lia). cbn [mbind option_bind].
  rewrite read_app.
  2:{ clear. induction others as [|e others IH]; [done|]. rewrite bind_cons, length_app, length_le_bytes. cbn [length] in *. lia. }
  cbn [mbind option_bind]. rewrite Nat2Z.id, sizes_of_bytes by done. rewrite (proj2 (Z.ltb_ge _ _)) by lia.
  unfold lupine_take_async_error. destruct (Z.eqb_spec error 0) as [->|]; done.
Qed.

(** The failure of a wait for an event is not kept either. *)
Theorem wait_event_error_lost (cuda : event_call -> Z) (lane : list byte) (error : Z) call lane' error'
  (H_handled : handle_cuStreamWaitEvent true cuda lane error = Some (call, lane', error')) : error' = error.
Proof.
  unfold handle_cuStreamWaitEvent in H_handled.
  repeat match type of H_handled with context [read_number ?n ?l] => destruct (read_number n l) as [[? ?]|]; [cbn in H_handled|done] end.
  by injection H_handled.
Qed.

(** The count of a query is not checked: a request with more events writes beyond the array on the stack. *)
Theorem event_query_count_unchecked (query : Z -> Z) (owes : Z -> bool) :
  exists lane results, handle_cuEventQuery query owes lane 0 = Some (results, true, [], 0).
Proof. exists (event_query_request 1 (replicate 17 2)). eexists. vm_compute. reflexivity. Qed.
