(* ===== verification/GraphNode.v ===== *)
(** * Kernel nodes of graphs

    [cuGraphAddKernelNode_v2], [cuGraphKernelNodeSetParams_v2], [cuGraphExecKernelNodeSetParams_v2]
    and [cuGraphKernelNodeGetParams_v2] of [cuda_client.cpp] with their handlers in
    [cuda_server.cpp].  The arguments of a node travel as records of size, result and bytes, in
    both directions, that a record without success ends.  The structure of a node's
    parameters is that of the CUDA headers: it is passed as its image, and the fields that the
    code looks at are parameters. *)
From S2P Require Import Prelude ParamLayout Launch.

Definition CUDA_ERROR_NOT_SUPPORTED : Z := 801.

(** ** Records of arguments *)

Definition node_param (arg : list byte) : list byte :=
  le_bytes 8 (Z.of_nat (length arg)) ++ le_bytes 4 CUDA_SUCCESS ++ arg.

Definition node_params_end (result : Z) : list byte := le_bytes 8 0 ++ le_bytes 4 result.

(** The arguments from [i] on at the pointers of an array. *)
Fixpoint write_node_params (mem : Z -> byte) (params i : Z) (sizes : list Z) : list byte :=
  match sizes with
  | [] => node_params_end CUDA_ERROR_INVALID_VALUE
  | size :: sizes =>
      le_bytes 8 size ++ le_bytes 4 CUDA_SUCCESS ++ bytes_at mem (array_at mem params i) size ++
      write_node_params mem params (i + 1) sizes
  end.

Definition lupine_write_kernel_node_params (mem : Z -> byte) (params : Z) (sizes : list Z) : list byte :=
  write_node_params mem params 0 sizes.

(** The loop that the handlers and the client share: the result, the arguments and what is left;
    each turn takes bytes. *)
Fixpoint read_node_params (fuel : nat) (lane : list byte) : option (Z * list (list byte) * list byte) :=
  match fuel with
  | O => None
  | S fuel =>
      '(param_size, lane) ← read_number 8 lane;
      '(param_result, lane) ← read_number 4 lane;
      if negb (param_result =? CUDA_SUCCESS)
      then Some (if param_result =? CUDA_ERROR_INVALID_VALUE then CUDA_SUCCESS else param_result, [], lane)
      else
        '(arg, lane) ← read param_size lane;
        '(result, args, lane) ← read_node_params fuel lane;
        Some (result, arg :: args, lane)
  end.

Definition node_params (lane : list byte) : option (Z * list (list byte) * list byte) := read_node_params (S (length lane)) lane.

(** ** Dependencies *)

Definition lupine_validate_graph_dependencies (dependencies numDependencies : Z) : Z :=
  if negb (numDependencies =? 0) && (dependencies =? 0) then CUDA_ERROR_INVALID_VALUE else CUDA_SUCCESS.

Definition lupine_queue_graph_dependencies (mem : Z -> byte) (dependencies numDependencies : Z) : list byte :=
  le_bytes 8 numDependencies ++
  (if numDependencies =? 0 then [] else bytes_at mem dependencies (wrap64 (numDependencies * 8))).

Definition lupine_read_graph_dependencies (lane : list byte) : option (list Z * list byte) :=
  '(count, lane) ← read_number 8 lane;
  if count =? 0 then Some ([], lane)
  else '(bs, lane) ← read (wrap64 (count * 8)) lane; Some (sizes_of (Z.to_nat count) bs, lane).

Section Nodes.
(** The size of a [CUDA_KERNEL_NODE_PARAMS] and its fields. *)
Context (node_size : Z) (func kern kernelParams extra : list byte -> Z).

(** ** The client *)

Definition lupine_kernel_node_param_sizes (fuel : nat) (up : Z -> bool) (d : driver) (node : list byte) (c : client)
    : option (Z * list Z * client) :=
  if negb (extra node =? 0) then Some (CUDA_ERROR_NOT_SUPPORTED, [], c)
  else if negb (func node =? 0) then
    '(result, sizes, _, c) ← lupine_read_param_sizes fuel up d (func node) false c; Some (result, sizes, c)
  else if negb (kern node =? 0) then
    '(result, sizes, _, c) ← lupine_read_param_sizes fuel up d (kern node) true c; Some (result, sizes, c)
  else Some (CUDA_ERROR_INVALID_HANDLE, [], c).

(** What the client does on a remote route: it fails, or sends a request and waits. *)
Inductive node_call := NodeFailed (result : Z) | NodeRequest (request : list byte).

(** [node]: the structure, [None] when the pointer is null; [ready]: the connection is prepared. *)
Definition send_node (mem : Z -> byte) (fuel : nat) (up : Z -> bool) (d : driver) (ready : bool) (head node : list byte) (c : client)
    : option (node_call * client) :=
  '(result, sizes, c) ← lupine_kernel_node_param_sizes fuel up d node c;
  Some (if negb (result =? CUDA_SUCCESS) then NodeFailed result
        else if negb ready then NodeFailed CUDA_ERROR_DEVICE_UNAVAILABLE
        else NodeRequest (head ++ node ++ lupine_write_kernel_node_params mem (kernelParams node) sizes), c).

Definition cuGraphAddKernelNode_v2 (mem : Z -> byte) (fuel : nat) (up : Z -> bool) (d : driver) (ready : bool) (phGraphNode hGraph : Z)
    (dependencies numDependencies : Z) (node : option (list byte)) (c : client) : option (node_call * client) :=
  match node with
  | None => Some (NodeFailed CUDA_ERROR_INVALID_VALUE, c)
  | Some node =>
      if phGraphNode =? 0 then Some (NodeFailed CUDA_ERROR_INVALID_VALUE, c)
      else
        let status := lupine_validate_graph_dependencies dependencies numDependencies in
        if negb (status =? CUDA_SUCCESS) then Some (NodeFailed status, c)
        else send_node mem fuel up d ready
               (le_bytes 8 hGraph ++ lupine_queue_graph_dependencies mem dependencies numDependencies) node c
  end.

Definition cuGraphKernelNodeSetParams_v2 (mem : Z -> byte) (fuel : nat) (up : Z -> bool) (d : driver) (ready : bool) (hNode : Z)
    (node : option (list byte)) (c : client) : option (node_call * client) :=
  match node with
  | None => Some (NodeFailed CUDA_ERROR_INVALID_VALUE, c)
  | Some node => send_node mem fuel up d ready (le_bytes 8 hNode) node c
  end.

Definition cuGraphExecKernelNodeSetParams_v2 (mem : Z -> byte) (fuel : nat) (up : Z -> bool) (d : driver) (ready : bool)
    (hGraphExec hNode : Z) (node : option (list byte)) (c : client) : option (node_call * client) :=
  match node with
  | None => Some (NodeFailed CUDA_ERROR_INVALID_VALUE, c)
  | Some node => send_node mem fuel up d ready (le_bytes 8 hGraphExec ++ le_bytes 8 hNode) node c
  end.

(** ** Handlers *)

(** A call of the driver with the node's structure, whose arguments are in [args]. *)
Inductive node_driver :=
| AddKernelNode (graph : Z) (deps : list Z) (node : list byte) (args : list (list byte))
| SetParams (node_handle : Z) (node : list byte) (args : list (list byte))
| ExecSetParams (exec node_handle : Z) (node : list byte) (args : list (list byte)).

(** The answer and what is left of the lane, with the call that was made if any; [cuda] gives the result of
    a call and the handle of a new node. *)
Definition handle_cuGraphAddKernelNode (cuda : node_driver -> Z * Z) (lane : list byte)
    : option (list byte * list byte * option node_driver) :=
  '(hGraph, lane) ← read_number 8 lane;
  '(deps, lane) ← lupine_read_graph_dependencies lane;
  '(node, lane) ← read node_size lane;
  '(result, args, lane) ← node_params lane;
  let call := AddKernelNode hGraph deps node args in
  Some (if result =? CUDA_SUCCESS
        then (le_bytes 8 (cuda call).2 ++ le_bytes 4 (cuda call).1, lane, Some call)
        else (le_bytes 8 0 ++ le_bytes 4 result, lane, None)).

Definition handle_cuGraphKernelNodeSetParams (cuda : node_driver -> Z * Z) (lane : list byte)
    : option (list byte * list byte * option node_driver) :=
  '(hNode, lane) ← read_number 8 lane;
  '(node, lane) ← read node_size lane;
  '(result, args, lane) ← node_params lane;
  let call := SetParams hNode node args in
  Some (if result =? CUDA_SUCCESS then (le_bytes 4 (cuda call).1, lane, Some call) else (le_bytes 4 result, lane, None)).

(** [exec_node] is [lupine_htod_graph_exec_node]. *)
Definition handle_cuGraphExecKernelNodeSetParams (exec_node : Z -> Z -> Z) (cuda : node_driver -> Z * Z) (lane : list byte)
    : option (list byte * list byte * option node_driver) :=
  '(hGraphExec, lane) ← read_number 8 lane;
  '(hNode, lane) ← read_number 8 lane;
  '(node, lane) ← read node_size lane;
  '(result, args, lane) ← node_params lane;
  let call := ExecSetParams hGraphExec (exec_node hGraphExec hNode) node args in
  Some (if result =? CUDA_SUCCESS then (le_bytes 4 (cuda call).1, lane, Some call) else (le_bytes 4 result, lane, None)).

(** *** Parameters of a node *)

(** The records that the server writes for the arguments it finds at [server]'s pointers. *)
Fixpoint answer_params (fuel : nat) (d : driver) (handle : Z) (kernel : bool) (server : Z -> byte) (params i : Z) : list byte :=
  match fuel with
  | O => []
  | S fuel =>
      let '(result, _, size) :=
        if handle =? 0 then (CUDA_ERROR_INVALID_HANDLE, 0, 0) else driver_param_info d handle kernel i in
      if negb (result =? CUDA_SUCCESS) then le_bytes 8 size ++ le_bytes 4 result
      else le_bytes 8 size ++ le_bytes 4 result ++ bytes_at server (array_at server params i) size ++
           answer_params fuel d handle kernel server params (i + 1)
  end.

(** The handle whose layout the node's arguments have. *)
Definition node_handle (node : list byte) : Z * bool := if negb (func node =? 0) then (func node, false) else (kern node, true).

(** The answer for a node that the driver describes with [result] and [node]. *)
Definition handle_cuGraphKernelNodeGetParams (d : driver) (server : Z -> byte) (result : Z) (node : list byte) : list byte :=
  let result := if (result =? CUDA_SUCCESS) && negb (extra node =? 0) then CUDA_ERROR_NOT_SUPPORTED else result in
  le_bytes 4 result ++ node ++
  (if result =? CUDA_SUCCESS
   then let '(handle, kernel) := node_handle node in
        answer_params (query_fuel d handle kernel) d handle kernel server (kernelParams node) 0
   else []).

(** The client's result, the structure and the arguments it keeps for the node; [None] when the answer
    ends early. *)
Definition cuGraphKernelNodeGetParams_v2 (answer : list byte) : option (Z * list byte * list (list byte) * list byte) :=
  '(return_value, answer) ← read_number 4 answer;
  '(node, answer) ← read node_size answer;
  if return_value =? CUDA_SUCCESS
  then
    '(param_info_result, args, answer) ← node_params answer;
    Some (param_info_result, node, args, answer)
  else Some (return_value, node, [], answer).

(** ** Theorems *)

Lemma read_node_params_all args : Forall (fun arg => is_u64 (Z.of_nat (length arg))) args -> forall fuel result lane,
  (length args < fuel)%nat -> is_u32 result -> result <> CUDA_SUCCESS ->
  read_node_params fuel ((args ≫= node_param) ++ node_params_end result ++ lane) =
    Some (if result =? CUDA_ERROR_INVALID_VALUE then CUDA_SUCCESS else result, args, lane).
Proof.
  induction 1 as [|arg args Ha _ IH]; intros fuel result lane Hf Hr Hn; (destruct fuel as [|fuel]; [cbn in Hf; lia|]).
  - cbn [mbind list_bind app read_node_params]. unfold node_params_end. rewrite <- app_assoc, read_u64 by (unfold is_u64; lia).
    cbn [mbind option_bind]. rewrite read_u32 by done. cbn [mbind option_bind]. by rewrite (proj2 (Z.eqb_neq _ _) Hn).
  - change ((arg :: args) ≫= node_param) with (node_param arg ++ (args ≫= node_param)). unfold node_param at 1.
    rewrite <- !app_assoc. cbn [read_node_params]. rewrite read_u64 by done. cbn [mbind option_bind].
    rewrite read_u32 by (unfold is_u32, CUDA_SUCCESS; lia). cbn [mbind option_bind]. rewrite read_app by done. cbn [mbind option_bind].
    rewrite IH by (done || (cbn in Hf; lia)). done.
Qed.

Lemma node_params_all args result lane : Forall (fun arg => is_u64 (Z.of_nat (length arg))) args -> is_u32 result ->
  result <> CUDA_SUCCESS -> node_params ((args ≫= node_param) ++ node_params_end result ++ lane) =
    Some (if result =? CUDA_ERROR_INVALID_VALUE then CUDA_SUCCESS else result, args, lane).
Proof.
  intros Ha Hr Hn. apply read_node_params_all; [done| |done|done]. rewrite !length_app.
  assert (length args <= length (args ≫= node_param))%nat; [|lia].
  clear. induction args as [|a args IH]; [done|]. change ((a :: args) ≫= node_param) with (node_param a ++ (args ≫= node_param)).
  unfold node_param at 1. rewrite !length_app, !length_le_bytes. cbn. lia.
Qed.
End Nodes.

(** *** Arguments in memory *)

Lemma bytes_at_app mem a m n : 0 <= m -> 0 <= n -> bytes_at mem a (m + n) = bytes_at mem a m ++ bytes_at mem (a + m) n.
Proof.
  intros Hm Hn. unfold bytes_at. rewrite seqZ_app by done. rewrite fmap_app. f_equal. rewrite Z.add_0_l.
  rewrite <- (Z.add_0_r m) at 1. rewrite <- fmap_add_seqZ, <- list_fmap_compose. apply list_fmap_ext. intros _ x _. cbn. by rewrite Z.add_assoc.
Qed.

Lemma bytes_at_length mem a n : 0 <= n -> length (bytes_at mem a n) = Z.to_nat n.
Proof. intros Hn. unfold bytes_at. by rewrite length_fmap, length_seqZ. Qed.

Lemma sizes_of_array mem (n : nat) : forall a,
  sizes_of n (bytes_at mem a (8 * Z.of_nat n)) = array_at mem a <$> seqZ 0 (Z.of_nat n).
Proof.
  induction n as [|n IH]; intros a; [done|]. replace (8 * Z.of_nat (S n)) with (8 + 8 * Z.of_nat n) by lia.
  rewrite bytes_at_app by lia. cbn [sizes_of].
  rewrite take_app_length' by (by rewrite bytes_at_length by lia). rewrite drop_app_length' by (by rewrite bytes_at_length by lia). rewrite IH.
  replace (Z.of_nat (S n)) with (1 + Z.of_nat n) by lia. rewrite seqZ_app by lia. cbn [seqZ seq fmap list_fmap app].
  change (seqZ 0 1) with [0]. cbn [fmap list_fmap app]. f_equal.
  - unfold array_at, pointer_at. by rewrite Z.mul_0_r, Z.add_0_r.
  - rewrite Z.add_0_l. rewrite <- (Z.add_0_r 1) at 1. rewrite <- fmap_add_seqZ, <- list_fmap_compose. apply list_fmap_ext. intros _ x _. cbn.
    unfold array_at. f_equal. lia.
Qed.

(** The arguments of a layout behind an array of pointers. *)
Fixpoint array_args (mem : Z -> byte) (params i : Z) (l : list (Z * Z)) : list (list byte) :=
  match l with [] => [] | e :: l => bytes_at mem (array_at mem params i) e.2 :: array_args mem params (i + 1) l end.

Lemma array_args_sized mem params l : Forall is_u64 l.*2 -> forall i,
  Forall (fun arg => is_u64 (Z.of_nat (length arg))) (array_args mem params i l).
Proof.
  induction l as [|[o s] l IH]; intros Hu i; [constructor|]. apply Forall_cons in Hu as [Hs Hu]. constructor; [|by apply IH].
  unfold is_u64 in *. cbn [snd] in *. rewrite bytes_at_length by lia. lia.
Qed.

Lemma array_args_at mem params l : forall i j o s, l !! j = Some (o, s) ->
  array_args mem params i l !! j = Some (bytes_at mem (array_at mem params (i + Z.of_nat j)) s).
Proof.
  induction l as [|e l IH]; intros i j o s Hj; [done|]. destruct j as [|j].
  - injection Hj as ->. cbn. by rewrite Z.add_0_r.
  - etrans; [exact (IH (i + 1) j o s Hj)|]. do 3 f_equal. lia.
Qed.

Lemma written_params mem params l : Forall is_u64 l.*2 -> forall i,
  write_node_params mem params i l.*2 = (array_args mem params i l ≫= node_param) ++ node_params_end CUDA_ERROR_INVALID_VALUE.
Proof.
  induction l as [|[o s] l IH]; intros Hu i; [done|]. apply Forall_cons in Hu as [Hs Hu].
  cbn [fmap list_fmap write_node_params array_args snd]. rewrite bind_cons.
  unfold node_param at 1. cbn [snd] in Hs. unfold is_u64 in Hs. rewrite bytes_at_length, Z2Nat.id by lia.
  rewrite <- !app_assoc. do 3 f_equal. by apply IH.
Qed.

Section NodeTheorems.
Context (node_size : Z) (func kern kernelParams extra : list byte -> Z).
Context (mem : Z -> byte) (c : client) (d : driver) (node : list byte) (l : list (Z * Z)) (fuel : nat) (up : Z -> bool).

(** The node's structure and the handle it names with layout [l], and a connection. *)
Record node_ready : Prop := NodeReady {
  nr_reachable : rtc step (no_client, no_driver) (c, d);
  nr_node : Z.of_nat (length node) = node_size;
  nr_extra : extra node = 0;
  nr_handle : (node_handle func kern node).1 <> 0;
  nr_obtained : obtained c d (node_handle func kern node).1 (node_handle func kern node).2 l;
  nr_fuel : (length l < fuel)%nat;
  nr_up : forall i, up i = true;
  nr_sizes : Forall is_u64 l.*2 }.

Lemma node_sizes (H : node_ready) : exists c', lupine_kernel_node_param_sizes func kern extra fuel up d node c = Some (CUDA_SUCCESS, l.*2, c').
Proof.
  destruct (layout_read c d _ _ l fuel up (nr_reachable H) (nr_obtained H) (nr_fuel H))
    as (r & s & o & c' & E & [(-> & -> & ->)|(_ & i & Hi)]); [|by rewrite (nr_up H) in Hi].
  exists c'. unfold lupine_kernel_node_param_sizes. rewrite (nr_extra H). cbn [Z.eqb negb].
  pose proof (nr_handle H) as Hh. unfold node_handle in E, Hh. destruct (func node =? 0) eqn:Ef; cbn [negb fst snd] in *.
  - rewrite (proj2 (Z.eqb_neq _ _) Hh). cbn [negb]. by rewrite E.
  - by rewrite E.
Qed.

Lemma node_sent (H : node_ready) head lane : exists request c',
  send_node func kern kernelParams extra mem fuel up d true head node c = Some (NodeRequest request, c') /\
  exists body, request ++ lane = head ++ node ++ body /\ node_params body = Some (CUDA_SUCCESS, array_args mem (kernelParams node) 0 l, lane).
Proof.
  destruct (node_sizes H) as [c' E]. unfold send_node. rewrite E. cbn [mbind option_bind Z.eqb negb].
  eexists _, c'. split; [reflexivity|]. exists (lupine_write_kernel_node_params mem (kernelParams node) l.*2 ++ lane).
  split; [by rewrite <- !app_assoc|]. unfold lupine_write_kernel_node_params. rewrite written_params, <- app_assoc by apply H.
  by rewrite node_params_all by first [by apply array_args_sized, H|unfold is_u32, CUDA_ERROR_INVALID_VALUE; lia|done].
Qed.
End NodeTheorems.

(** A kernel node is added to the graph that the application named, after the nodes it named, with its
    structure and with the bytes of its arguments, one for each parameter of the kernel, and the
    lane is left behind the request. *)
Theorem kernel_node_delivered (node_size : Z) (func kern kernelParams extra : list byte -> Z) (mem : Z -> byte) (c : client)
  (d : driver) (node : list byte) (l : list (Z * Z)) (fuel : nat) (up : Z -> bool) (phGraphNode hGraph dependencies : Z)
  (numDependencies : nat) (cuda : node_driver -> Z * Z) (lane : list byte)
  (H_node : node_ready node_size func kern extra c d node l fuel up) (H_output : phGraphNode <> 0) (H_graph : is_u64 hGraph)
  (H_dependencies : dependencies <> 0) (H_count : 8 * Z.of_nat numDependencies < 2 ^ 64) :
  exists request c', cuGraphAddKernelNode_v2 func kern kernelParams extra mem fuel up d true phGraphNode hGraph dependencies
      (Z.of_nat numDependencies) (Some node) c = Some (NodeRequest request, c') /\
    let call := AddKernelNode hGraph (array_at mem dependencies <$> seqZ 0 (Z.of_nat numDependencies)) node
                  (array_args mem (kernelParams node) 0 l) in
    handle_cuGraphAddKernelNode node_size cuda (request ++ lane) =
      Some (le_bytes 8 (cuda call).2 ++ le_bytes 4 (cuda call).1, lane, Some call).
Proof.
  destruct (node_sent node_size func kern kernelParams extra mem c d node l fuel up H_node
    (le_bytes 8 hGraph ++ lupine_queue_graph_dependencies mem dependencies (Z.of_nat numDependencies)) lane)
    as (request & c' & Es & body & Er & Eb).
  exists request, c'. split.
  - unfold cuGraphAddKernelNode_v2, lupine_validate_graph_dependencies.
    rewrite (proj2 (Z.eqb_neq _ _) H_output), (proj2 (Z.eqb_neq _ _) H_dependencies), andb_false_r. exact Es.
  - cbv zeta. unfold handle_cuGraphAddKernelNode. rewrite Er, <- !app_assoc. rewrite read_u64 by done. cbn [mbind option_bind].
    unfold lupine_read_graph_dependencies, lupine_queue_graph_dependencies. rewrite <- !app_assoc.
    rewrite read_u64 by (unfold is_u64; lia). cbn [mbind option_bind]. destruct (Z.eqb_spec (Z.of_nat numDependencies) 0) as [E0|E0].
    + cbn [app mbind option_bind]. rewrite read_app by apply H_node. cbn [mbind option_bind]. rewrite Eb. cbn [mbind option_bind].
      destruct numDependencies; [done|lia].
    + assert (Hw : wrap64 (Z.of_nat numDependencies * 8) = 8 * Z.of_nat numDependencies).
      { unfold wrap64. rewrite Z.mod_small; lia. }
      rewrite Hw, read_app by (rewrite bytes_at_length; lia). cbn [mbind option_bind]. rewrite Nat2Z.id, sizes_of_array.
      rewrite read_app by apply H_node. cbn [mbind option_bind]. rewrite Eb. done.
Qed.

(** The parameters of a node and of an executable graph's node are set in the same way. *)
Theorem kernel_node_set_delivered (node_size : Z) (func kern kernelParams extra : list byte -> Z) (mem : Z -> byte) (c : client)
  (d : driver) (node : list byte) (l : list (Z * Z)) (fuel : nat) (up : Z -> bool) (hGraphExec hNode : Z)
  (exec_node : Z -> Z -> Z) (cuda : node_driver -> Z * Z) (lane : list byte)
  (H_node : node_ready node_size func kern extra c d node l fuel up) (H_exec : is_u64 hGraphExec) (H_handle : is_u64 hNode) :
  (exists request c', cuGraphKernelNodeSetParams_v2 func kern kernelParams extra mem fuel up d true hNode (Some node) c =
      Some (NodeRequest request, c') /\
    let call := SetParams hNode node (array_args mem (kernelParams node) 0 l) in
    handle_cuGraphKernelNodeSetParams node_size cuda (request ++ lane) = Some (le_bytes 4 (cuda call).1, lane, Some call)) /\
  (exists request c', cuGraphExecKernelNodeSetParams_v2 func kern kernelParams extra mem fuel up d true hGraphExec hNode (Some node) c =
      Some (NodeRequest request, c') /\
    let call := ExecSetParams hGraphExec (exec_node hGraphExec hNode) node (array_args mem (kernelParams node) 0 l) in
    handle_cuGraphExecKernelNodeSetParams node_size exec_node cuda (request ++ lane) =
      Some (le_bytes 4 (cuda call).1, lane, Some call)).
Proof.
  split.
  - destruct (node_sent node_size func kern kernelParams extra mem c d node l fuel up H_node (le_bytes 8 hNode) lane)
      as (request & c' & Es & body & Er & Eb).
    exists request, c'. split; [exact Es|]. unfold handle_cuGraphKernelNodeSetParams. rewrite Er, read_u64 by done.
    cbn [mbind option_bind]. rewrite read_app by apply H_node. cbn [mbind option_bind]. by rewrite Eb.
  - destruct (node_sent node_size func kern kernelParams extra mem c d node l fuel up H_node (le_bytes 8 hGraphExec ++ le_bytes 8 hNode) lane)
      as (request & c' & Es & body & Er & Eb).
    exists request, c'. split; [exact Es|]. unfold handle_cuGraphExecKernelNodeSetParams. rewrite Er, <- app_assoc, read_u64 by done.
    cbn [mbind option_bind]. rewrite read_u64 by done. cbn [mbind option_bind]. rewrite read_app by apply H_node. cbn [mbind option_bind].
    by rewrite Eb.
Qed.

(** The server's records are those of the arguments. *)
Lemma answered_params d h k l server params : h <> 0 -> layouts d !! (h, k) = Some l -> Forall is_u64 l.*2 ->
  forall n fuel, (n <= length l)%nat -> (length l - n < fuel)%nat ->
  answer_params fuel d h k server params (Z.of_nat n) =
    (array_args server params (Z.of_nat n) (drop n l) ≫= node_param) ++ node_params_end CUDA_ERROR_INVALID_VALUE.
Proof.
  intros H0 Hl Hu n fuel. revert n. induction fuel as [|fuel IH]; intros n Hn Hf; [lia|]. cbn [answer_params].
  rewrite (proj2 (Z.eqb_neq _ _) H0). unfold driver_param_info. rewrite Hl, Nat2Z.id. destruct (l !! n) as [[o s]|] eqn:E.
  - cbn [Z.eqb negb]. apply lookup_lt_Some in E as Hlt. rewrite (drop_S _ _ _ E). cbn [array_args snd]. rewrite bind_cons.
    unfold node_param at 1. assert (Hs : is_u64 s).
    { rewrite Forall_lookup in Hu. apply (Hu n). by rewrite list_lookup_fmap, E. }
    unfold is_u64 in Hs. rewrite bytes_at_length, Z2Nat.id by lia. rewrite <- !app_assoc. change (0 =? 0) with true. cbn [negb].
    do 3 f_equal. replace (Z.of_nat n + 1) with (Z.of_nat (S n)) by lia. apply IH; lia.
  - apply lookup_ge_None in E. by rewrite drop_ge.
Qed.

(** The parameters of a kernel node come back as the driver has them: its structure, and each argument
    with the bytes it has at the server. *)
Theorem kernel_node_read_back (node_size : Z) (func kern kernelParams extra : list byte -> Z) (d : driver) (server : Z -> byte)
  (node : list byte) (l : list (Z * Z)) (lane : list byte) (H_node : Z.of_nat (length node) = node_size)
  (H_extra : extra node = 0) (H_handle : (node_handle func kern node).1 <> 0) (H_live : layouts d !! node_handle func kern node = Some l)
  (H_sizes : Forall is_u64 l.*2) :
  cuGraphKernelNodeGetParams_v2 node_size
    (handle_cuGraphKernelNodeGetParams func kern kernelParams extra d server CUDA_SUCCESS node ++ lane) =
  Some (CUDA_SUCCESS, node, array_args server (kernelParams node) 0 l, lane).
Proof.
  unfold handle_cuGraphKernelNodeGetParams, cuGraphKernelNodeGetParams_v2. rewrite H_extra. cbn [Z.eqb negb andb].
  destruct (node_handle func kern node) as [h k] eqn:Eh. change (CUDA_SUCCESS =? CUDA_SUCCESS) with true. cbn [andb fst] in *.
  rewrite <- !app_assoc. rewrite read_u32 by (unfold is_u32, CUDA_SUCCESS; lia). cbn [mbind option_bind]. rewrite read_app by done.
  cbn [mbind option_bind]. change (CUDA_SUCCESS =? CUDA_SUCCESS) with true. cbn match.
  rewrite (answered_params d h k l server (kernelParams node) H_handle H_live H_sizes 0) by (unfold query_fuel; rewrite ?H_live; cbn; lia).
  rewrite <- app_assoc. rewrite drop_0, node_params_all by first [by apply array_args_sized|unfold is_u32, CUDA_ERROR_INVALID_VALUE; lia|done].
  done.
Qed.
