(* ===== verification/Contexts.v ===== *)
(** * Primary contexts and the context stack

    The client counts the retains of a device's primary context and forwards the first one and
    the release that drops the last, and it keeps the state of the context that queries ask
    for: [cuDevicePrimaryCtxRetain] and its relatives in [cuda_client.cpp], for one device.  The
    stack of current contexts of a thread is kept on the client too: [cuCtxPushCurrent_v2] and its
    relatives.  Contexts are addresses, 0 for none; the places that an application gives for
    results are there.  Other components (owners, pools of streams and events, local storage, the
    caches of functions and of current contexts) are told what happens through a list of notes,
    the latest first; the binding of a context on its route, which is in [Routing], is an argument. *)
From S2P Require Import Prelude.

Definition CUDA_SUCCESS : Z := 0.
Definition CUDA_ERROR_INVALID_VALUE : Z := 1.
Definition CUDA_ERROR_OUT_OF_MEMORY : Z := 2.
Definition CUDA_ERROR_NOT_INITIALIZED : Z := 3.
Definition CUDA_ERROR_DEVICE_UNAVAILABLE : Z := 46.
Definition CUDA_ERROR_INVALID_DEVICE : Z := 101.
Definition CUDA_ERROR_INVALID_CONTEXT : Z := 201.

Inductive note :=
  | OwnerNoted (ctx : Z)
  | OwnerForgotten (ctx : Z)
  | StreamPoolInit (ctx : Z)
  | StreamPoolDiscard (ctx : Z)
  | EventPoolDiscard (ctx : Z)
  | StorageForgotten (ctx : Z)
  | FunctionCachesInvalidated
  | CurrentContextsInvalidated
  | DeviceBindingChanged
  | LaneContextStored (ctx : Z).

(** ** The primary context of a device at a driver

    What the CUDA documentation says of it, with what the comment on [lupine_primary_ctx_retain] adds:
    a retain makes the context active, the release of the last retain ends it, and a reset ends it
    without changing the number of retains. *)
Record primary := Primary { refs : Z; handle : Z; active : bool; flags : Z }.

(** [made]: the handle of a context that has to be made, if there is memory for it. *)
Definition documented_retain (made : option Z) (p : primary) : Z * Z * primary :=
  if active p then (CUDA_SUCCESS, handle p, Primary (refs p + 1) (handle p) true (flags p))
  else match made with
       | Some h => (CUDA_SUCCESS, h, Primary (refs p + 1) h true (flags p))
       | None => (CUDA_ERROR_OUT_OF_MEMORY, 0, p)
       end.

Definition documented_release (p : primary) : Z * primary :=
  if refs p <=? 0 then (CUDA_ERROR_INVALID_CONTEXT, p)
  else (CUDA_SUCCESS, Primary (refs p - 1) (handle p) (active p && (1 <? refs p)) (flags p)).

Definition documented_reset (p : primary) : Z * primary :=
  (CUDA_SUCCESS, Primary (refs p) (handle p) false (flags p)).

Definition documented_set_flags (f : Z) (p : primary) : Z * primary :=
  (CUDA_SUCCESS, Primary (refs p) (handle p) (active p) f).

(** A driver: its calls give a result and what they return. *)
Class PrimaryDriver (D : Type) := {
  driver_retain : option Z -> D -> Z * Z * D;
  driver_release : D -> Z * D;
  driver_reset : D -> Z * D;
  driver_set_flags : Z -> D -> Z * D;
  driver_get_state : D -> Z * (Z * bool);
}.

(** It behaves as documented, seen through [view]. *)
Class PrimaryDriverLaws (D : Type) {drv : PrimaryDriver D} := {
  view : D -> primary;
  view_retain made d : let '(r, h, d') := driver_retain made d in (r, h, view d') = documented_retain made (view d);
  view_release d : let '(r, d') := driver_release d in (r, view d') = documented_release (view d);
  view_reset d : let '(r, d') := driver_reset d in (r, view d') = documented_reset (view d);
  view_set_flags f d : let '(r, d') := driver_set_flags f d in (r, view d') = documented_set_flags f (view d);
  view_get_state d : driver_get_state d = (CUDA_SUCCESS, (flags (view d), active (view d)));
}.

(** ** The client *)

Record lupine_primary_ctx_retain := Retained { context : Z; count : Z; forwarded : bool }.

(** The retains of the device, counted without the bound of the code's [int], the cached state (flags and whether the context is active) and the
    notes to other components. *)
Record client := Client
  { retains : option lupine_primary_ctx_retain; state_cache : option (Z * bool); notes : list note }.

Definition with_retains (r : option lupine_primary_ctx_retain) (c : client) : client := Client r (state_cache c) (notes c).

Definition tell (n : note) (c : client) : client := Client (retains c) (state_cache c) (n :: notes c).

Definition lupine_invalidate_primary_ctx_state (c : client) : client := Client (retains c) None (notes c).

Inductive route_kind := UnknownDevice | Local | Remote.

(** [kind]: the route of the device, whose driver is the state [D]; [up]: a server answers. *)
Section Calls.
Context {D : Type} {drv : PrimaryDriver D} (kind : route_kind) (up : bool).

Definition note_if (result : Z) (n : note) (c : client) : client := if result =? CUDA_SUCCESS then tell n c else c.

(** The result and the context. *)
Definition cuDevicePrimaryCtxRetain (made : option Z) (c : client) (d : D) : Z * Z * client * D :=
  match kind with
  | UnknownDevice => (CUDA_ERROR_INVALID_DEVICE, 0, c, d)
  | Local =>
      let c := lupine_invalidate_primary_ctx_state c in
      let '(result, h, d) := driver_retain made d in
      (result, h, note_if result (OwnerNoted h) c, d)
  | Remote =>
      match retains c with
      | Some (Retained h n true) => (CUDA_SUCCESS, h, with_retains (Some (Retained h (n + 1) true)) c, d)
      | r =>
          let c := lupine_invalidate_primary_ctx_state c in
          if negb up then (CUDA_ERROR_DEVICE_UNAVAILABLE, 0, c, d)
          else
            let '(result, h, d) := driver_retain made d in
            if negb (result =? CUDA_SUCCESS) then (result, 0, c, d)
            else
              let c := tell (StreamPoolInit h) (tell (OwnerNoted h) c) in
              let n := match r with Some r => count r | None => 0 end in
              (CUDA_SUCCESS, h, with_retains (Some (Retained h (n + 1) true)) c, d)
      end
  end.

(** The part of a release on a remote route before its request: whether there is one to be sent. *)
Definition release_begin (c : client) : bool * client :=
  let send ctx c := (true, tell (StorageForgotten ctx) (lupine_invalidate_primary_ctx_state c)) in
  match retains c with
  | Some r =>
      if 0 <? count r - 1 then (false, with_retains (Some (Retained (context r) (count r - 1) (forwarded r))) c)
      else if forwarded r then send (context r) (with_retains None c) else (false, with_retains None c)
  | None => send 0 c
  end.

Definition lupine_remote_primary_ctx_release (c : client) (d : D) : Z * client * D :=
  if negb up then (CUDA_ERROR_DEVICE_UNAVAILABLE, c, d)
  else let '(result, d) := driver_release d in (result, note_if result CurrentContextsInvalidated c, d).

Definition cuDevicePrimaryCtxRelease_v2 (c : client) (d : D) : Z * client * D :=
  match kind with
  | UnknownDevice => (CUDA_ERROR_INVALID_DEVICE, c, d)
  | Local =>
      let c := lupine_invalidate_primary_ctx_state c in
      let '(result, d) := driver_release d in
      (result, note_if result CurrentContextsInvalidated c, d)
  | Remote =>
      let '(send, c) := release_begin c in
      if negb send then (CUDA_SUCCESS, c, d)
      else
        let '(result, c, d) := lupine_remote_primary_ctx_release c d in
        (result, tell (EventPoolDiscard 0) (tell (StreamPoolDiscard 0) c), d)
  end.

Definition cuDevicePrimaryCtxSetFlags_v2 (f : Z) (c : client) (d : D) : Z * client * D :=
  match kind with
  | UnknownDevice => (CUDA_ERROR_INVALID_DEVICE, c, d)
  | Local =>
      let '(result, d) := driver_set_flags f d in (result, lupine_invalidate_primary_ctx_state c, d)
  | Remote =>
      let c := lupine_invalidate_primary_ctx_state c in
      if negb up then (CUDA_ERROR_DEVICE_UNAVAILABLE, c, d)
      else let '(result, d) := driver_set_flags f d in (result, c, d)
  end.

(** The result, and the flags and whether the context is active, for a caller that asks for
    both; the cache serves no other. *)
Definition cuDevicePrimaryCtxGetState (c : client) (d : D) : Z * (Z * bool) * client :=
  match kind with
  | UnknownDevice => (CUDA_ERROR_INVALID_DEVICE, (0, false), c)
  | Local => (driver_get_state d, c)
  | Remote =>
      match state_cache c with
      | Some cached => (CUDA_SUCCESS, cached, c)
      | None =>
          if negb up then (CUDA_ERROR_DEVICE_UNAVAILABLE, (0, false), c)
          else
            let '(result, state) := driver_get_state d in
            (result, state, if result =? CUDA_SUCCESS then Client (retains c) (Some state) (notes c) else c)
      end
  end.

Definition cuDevicePrimaryCtxReset_v2 (c : client) (d : D) : Z * client * D :=
  match kind with
  | UnknownDevice => (CUDA_ERROR_INVALID_DEVICE, c, d)
  | Local =>
      let c := tell FunctionCachesInvalidated (lupine_invalidate_primary_ctx_state c) in
      let '(result, d) := driver_reset d in
      (result, note_if result CurrentContextsInvalidated c, d)
  | Remote =>
      let c := tell FunctionCachesInvalidated (lupine_invalidate_primary_ctx_state c) in
      if negb up then (CUDA_ERROR_DEVICE_UNAVAILABLE, c, d)
      else
        let '(result, d) := driver_reset d in
        let c := tell (EventPoolDiscard 0) (tell (StreamPoolDiscard 0) c) in
        if negb (result =? CUDA_SUCCESS) then (result, c, d)
        else
          let c := tell CurrentContextsInvalidated c in
          match retains c with
          | Some (Retained h n true) =>
              let c := tell (StorageForgotten h) (with_retains (Some (Retained h n false)) c) in
              let '(_, c, d) := lupine_remote_primary_ctx_release c d in (result, c, d)
          | _ => (result, c, d)
          end
  end.
End Calls.

(** ** Programs

    The calls of an application and what it gets from each: the result, a context, and a state. *)
Inductive call := Retain (made : option Z) | Release | SetFlags (f : Z) | GetState | Reset.

Definition answer : Type := Z * Z * (Z * bool).

Section Programs.
Context {D : Type} {drv : PrimaryDriver D}.

Definition client_call (kind : route_kind) (o : call) (x : client * D) : answer * (client * D) :=
  let '(c, d) := x in
  match o with
  | Retain made => let '(r, h, c, d) := cuDevicePrimaryCtxRetain kind true made c d in ((r, h, (0, false)), (c, d))
  | Release => let '(r, c, d) := cuDevicePrimaryCtxRelease_v2 kind true c d in ((r, 0, (0, false)), (c, d))
  | SetFlags f => let '(r, c, d) := cuDevicePrimaryCtxSetFlags_v2 kind true f c d in ((r, 0, (0, false)), (c, d))
  | GetState => let '(r, s, c) := cuDevicePrimaryCtxGetState kind true c d in ((r, 0, s), (c, d))
  | Reset => let '(r, c, d) := cuDevicePrimaryCtxReset_v2 kind true c d in ((r, 0, (0, false)), (c, d))
  end.
End Programs.

(** The same call as it is documented. *)
Definition documented_call (o : call) (p : primary) : answer * primary :=
  match o with
  | Retain made => let '(r, h, p) := documented_retain made p in ((r, h, (0, false)), p)
  | Release => let '(r, p) := documented_release p in ((r, 0, (0, false)), p)
  | SetFlags f => let '(r, p) := documented_set_flags f p in ((r, 0, (0, false)), p)
  | GetState => ((CUDA_SUCCESS, 0, (flags p, active p)), p)
  | Reset => let '(r, p) := documented_reset p in ((r, 0, (0, false)), p)
  end.

Fixpoint run {S} (step : call -> S -> answer * S) (os : list call) (s : S) : list answer * S :=
  match os with
  | [] => ([], s)
  | o :: os => let '(a, s) := step o s in let '(l, s) := run step os s in (a :: l, s)
  end.

(** The driver itself is a documented one. *)
#[global] Instance primary_driver : PrimaryDriver primary := {
  driver_retain := documented_retain;
  driver_release := documented_release;
  driver_reset := documented_reset;
  driver_set_flags := documented_set_flags;
  driver_get_state p := (CUDA_SUCCESS, (flags p, active p));
}.

#[global, refine] Instance primary_driver_laws : PrimaryDriverLaws primary := {| view p := p |}.
Proof.
  - intros. cbn. by destruct (documented_retain made d) as [[??]?].
  - intros. cbn. by destruct (documented_release d).
  - done.
  - done.
  - done.
Defined.

(** ** A remote device looks like one on this machine *)

Section Transparent.
Context {D : Type} `{PrimaryDriverLaws D}.

(** The driver on the server stands for the documented one of the application: it is retained once while
    the client has forwarded a retain and not at all otherwise, and is active when the other is. *)
Definition related (x : client * D) (q : primary) : Prop :=
  let '(c, d) := x in
  let p := view d in
  active p = active q /\ flags p = flags q /\ (forall s, state_cache c = Some s -> s = (flags q, active q)) /\
  match retains c with
  | None => refs p = 0 /\ refs q = 0 /\ active q = false
  | Some (Retained h n forwarded) =>
      0 < n /\ refs q = n /\ active q = forwarded /\ refs p = (if forwarded then 1 else 0) /\
      (forwarded = true -> h = handle q /\ h = handle p)
  end.

Definition goes_well (o : call) (x : client * D) (q : primary) : Prop :=
  (client_call Remote o x).1 = (documented_call o q).1 /\ related (client_call Remote o x).2 (documented_call o q).2.

Lemma related_retain made x q : related x q -> goes_well (Retain made) x q.
Proof.
  destruct x as [[r s l] d], q as [qr qh qa qf]. unfold goes_well. intros (Ha & Hf & Hc & Hr). cbn in *.
  pose proof (view_retain made d) as V. destruct (driver_retain made d) as [[res h'] d']. unfold documented_retain in *.
  destruct r as [[h n [|]]|]; cbn in *.
  - destruct Hr as (Hn & -> & -> & E & Hh). destruct (Hh eq_refl) as [-> Hp]. cbn. split; [done|]. split_and!; done || lia.
  - destruct Hr as (Hn & -> & -> & E & _). rewrite Ha in V. destruct made as [m|]; injection V as -> -> V; cbn; (split; [done|]);
      rewrite V; cbn; split_and!; done || lia.
  - destruct Hr as (E & -> & ->). rewrite Ha in V. destruct made as [m|]; injection V as -> -> V; cbn; (split; [done|]);
      rewrite V; cbn; split_and!; done || lia.
Qed.

Lemma related_release x q : related x q -> goes_well Release x q.
Proof.
  destruct x as [[r s l] d], q as [qr qh qa qf]. unfold goes_well. intros (Ha & Hf & Hc & Hr). cbn in *.
  unfold cuDevicePrimaryCtxRelease_v2, lupine_remote_primary_ctx_release, release_begin, note_if.
  pose proof (view_release d) as V. destruct (driver_release d) as [res d']. unfold documented_release in *.
  destruct r as [[h n fw]|]; cbn in *.
  - destruct Hr as (Hn & -> & -> & E & Hh). rewrite (proj2 (Z.leb_gt n 0)) by done.
    destruct (Z.ltb_spec 0 (n - 1)) as [H1|H1]; cbn.
    + split; [done|]. rewrite (proj2 (Z.ltb_lt 1 n)), andb_true_r by lia. split_and!; done || lia.
    + assert (n = 1) as -> by lia. destruct fw; rewrite E in V; cbn in V.
      * injection V as -> V. cbn. split; [done|]. rewrite V, Ha. cbn. by split_and!.
      * cbn. split; [done|]. split_and!; done.
  - destruct Hr as (E & -> & ->). rewrite E in V. injection V as -> V. cbn. split; [done|]. rewrite V. split_and!; done.
Qed.

Lemma related_set_flags f x q : related x q -> goes_well (SetFlags f) x q.
Proof.
  destruct x as [[r s l] d], q as [qr qh qa qf]. unfold goes_well. intros (Ha & Hf & Hc & Hr). cbn in *.
  unfold cuDevicePrimaryCtxSetFlags_v2. pose proof (view_set_flags f d) as V. destruct (driver_set_flags f d) as [res d'].
  injection V as -> V. cbn. split; [done|]. rewrite V. by split_and!.
Qed.

Lemma related_get_state x q : related x q -> goes_well GetState x q.
Proof.
  destruct x as [[r s l] d], q as [qr qh qa qf]. unfold goes_well. intros (Ha & Hf & Hc & Hr). cbn in *.
  unfold cuDevicePrimaryCtxGetState. rewrite view_get_state. destruct s as [st|]; cbn.
  - split; [by rewrite (Hc st eq_refl)|]. by split_and!.
  - rewrite Ha, Hf. split; [done|]. split_and!; try done. by intros ? [= <-].
Qed.

Lemma related_reset x q : related x q -> goes_well Reset x q.
Proof.
  destruct x as [[r s l] d], q as [qr qh qa qf]. unfold goes_well. intros (Ha & Hf & Hc & Hr). cbn in *.
  unfold cuDevicePrimaryCtxReset_v2, lupine_remote_primary_ctx_release, note_if. pose proof (view_reset d) as V.
  destruct (driver_reset d) as [res d1]. injection V as -> V. cbn. pose proof (view_release d1) as W.
  destruct (driver_release d1) as [res2 d2]. rewrite V in W. unfold documented_release in W. cbn in W.
  destruct r as [[h n [|]]|]; cbn in *.
  - destruct Hr as (Hn & -> & -> & E & Hh). rewrite E in W. cbn in W. injection W as -> W. cbn. split; [done|].
    rewrite W. by split_and!.
  - destruct Hr as (Hn & -> & -> & E & Hh). split; [done|]. rewrite V. by split_and!.
  - destruct Hr as (E & -> & ->). split; [done|]. rewrite V. by split_and!.
Qed.

Lemma related_call o x q : related x q -> goes_well o x q.
Proof.
  destruct o; [apply related_retain|apply related_release|apply related_set_flags|apply related_get_state|apply related_reset].
Qed.

Lemma related_run os : forall x q, related x q -> (run (client_call Remote) os x).1 = (run documented_call os q).1.
Proof.
  induction os as [|o os IH]; intros x q R; [done|]. cbn. destruct (related_call o x q R) as [E R'].
  destruct (client_call Remote o x) as [a x'], (documented_call o q) as [b q']. cbn in E, R'. subst b.
  specialize (IH x' q' R'). destruct (run (client_call Remote) os x'), (run documented_call os q'). cbn in *. by f_equal.
Qed.

(** C28: A program of retains, releases, resets, changes of flags and queries of the primary context
    of a remote device gets, from a server whose driver behaves as documented and has not made the
    context yet, the results, contexts and states that the documentation promises; the server
    sees only the first retains and last releases. *)
Theorem primary_context_transparent (os : list call) (d : D) (H_fresh : refs (view d) = 0 /\ active (view d) = false) :
  (run (client_call Remote) os (Client None None [], d)).1 = (run documented_call os (view d)).1.
Proof. apply related_run. destruct H_fresh as [E1 E2]. cbn. by split_and!. Qed.
End Transparent.

Lemma primary_context_transparent_witness :
  let os := [Retain (Some 7); Retain (Some 8); GetState; Reset; GetState; Release; Retain (Some 9); GetState; Release; Release; Release] in
  (run (client_call Remote) os (Client None None [], Primary 0 0 false 4)).1 =
    [(CUDA_SUCCESS, 7, (0, false)); (CUDA_SUCCESS, 7, (0, false)); (CUDA_SUCCESS, 0, (4, true)); (CUDA_SUCCESS, 0, (0, false));
     (CUDA_SUCCESS, 0, (4, false)); (CUDA_SUCCESS, 0, (0, false)); (CUDA_SUCCESS, 9, (0, false)); (CUDA_SUCCESS, 0, (4, true));
     (CUDA_SUCCESS, 0, (0, false)); (CUDA_SUCCESS, 0, (0, false)); (CUDA_ERROR_INVALID_CONTEXT, 0, (0, false))].
Proof. intros os. rewrite (primary_context_transparent os (Primary 0 0 false 4)) by done. reflexivity. Defined.

(** A call that changes the state takes the cached one out before its request, so a query of another
    thread in between puts the old state back: from then on the context is reported active although
    it has ended, until the next such call. *)
Theorem stale_primary_state (h f : Z) (l : list note) :
  let c := Client (Some (Retained h 1 true)) None l in
  let p := Primary 1 h true f in
  let '(send, c) := release_begin c in
  let '(_, _, c) := cuDevicePrimaryCtxGetState Remote true c p in
  let '(result, c, p) := lupine_remote_primary_ctx_release true c p in
  send = true /\ result = CUDA_SUCCESS /\ active p = false /\
  cuDevicePrimaryCtxGetState Remote true c p = (CUDA_SUCCESS, (f, true), c).
Proof. done. Qed.

(** ** The context stack of a thread *)

Record thread := Thread
  { current : Z; stack : list Z; default_hint : Z; global_hint : Z; told : list note }.

(** The latest context is current; one that is not null becomes the default of this thread and of all. *)
Definition make_current (ctx : Z) (st : list Z) (t : thread) : thread :=
  if ctx =? 0 then Thread ctx st (default_hint t) (global_hint t) (told t) else Thread ctx st ctx ctx (told t).

Definition tell_thread (ns : list note) (t : thread) : thread :=
  Thread (current t) (stack t) (default_hint t) (global_hint t) (rev ns ++ told t).

(** [initialized]: the library is; [bind by ctx]: the result of making [ctx] current on the route of the
    context [by]. *)
Section Stack.
Context (initialized : bool) (bind : Z -> Z -> Z).

Definition lupine_set_remote_current_context (ctx : Z) (t : thread) : Z :=
  bind (if ctx =? 0 then current t else ctx) ctx.

Definition cuCtxPushCurrent_v2 (ctx : Z) (t : thread) : Z * thread :=
  if negb initialized then (CUDA_ERROR_NOT_INITIALIZED, t)
  else
    let result := lupine_set_remote_current_context ctx t in
    (result, if result =? CUDA_SUCCESS then make_current ctx (current t :: stack t) t else t).

(** The result and, when there is one, the context popped. *)
Definition cuCtxPopCurrent_v2 (t : thread) : Z * option Z * thread :=
  if negb initialized then (CUDA_ERROR_NOT_INITIALIZED, None, t)
  else
    let '(previous, rest) := match stack t with [] => (0, []) | c :: rest => (c, rest) end in
    let result := lupine_set_remote_current_context previous t in
    (result, Some (current t),
     if result =? CUDA_SUCCESS then make_current previous rest t
     else Thread (current t) (previous :: rest) (default_hint t) (global_hint t) (told t)).

Definition cuCtxSetCurrent (ctx : Z) (t : thread) : Z * thread :=
  if negb initialized then (CUDA_ERROR_NOT_INITIALIZED, t)
  else
    let result := lupine_set_remote_current_context ctx t in
    (result, if result =? CUDA_SUCCESS then make_current ctx (stack t) t else t).

(** [wanted]: the application gives a place for the context. *)
Definition cuCtxGetCurrent (wanted : bool) (t : thread) : Z * option Z :=
  if negb initialized then (CUDA_ERROR_NOT_INITIALIZED, None)
  else if negb wanted then (CUDA_ERROR_INVALID_VALUE, None)
  else (CUDA_SUCCESS, Some (current t)).
End Stack.

Definition lupine_note_ctx_create_route (ctx : Z) (t : thread) : thread :=
  make_current ctx (current t :: stack t) (tell_thread [DeviceBindingChanged; OwnerNoted ctx; LaneContextStored ctx] t).

Definition lupine_forget_destroyed_context (ctx : Z) (t : thread) : thread :=
  if ctx =? 0 then t
  else
    let t := tell_thread [FunctionCachesInvalidated; CurrentContextsInvalidated; EventPoolDiscard ctx; OwnerForgotten ctx;
                          StorageForgotten ctx; StreamPoolDiscard ctx] t in
    Thread (if current t =? ctx then 0 else current t) (filter (fun c => c <> ctx) (stack t))
      (if default_hint t =? ctx then 0 else default_hint t) (if global_hint t =? ctx then 0 else global_hint t) (told t).

(** *** The stack as it is documented

    Its top is current.  A call whose context cannot be made current has no effect; making no
    context current pops the top. *)
Inductive stack_call := Push (ctx : Z) | Pop | SetTop (ctx : Z) | Created (ctx : Z).

Definition documented_stack (o : stack_call) (result : Z) (s : list Z) : list Z :=
  if negb (result =? CUDA_SUCCESS) then s
  else match o with
       | Push ctx | Created ctx => ctx :: s
       | Pop => tail s
       | SetTop ctx => if ctx =? 0 then tail s else ctx :: tail s
       end.

(** A creation is noted when it has succeeded. *)
Definition client_stack (o : stack_call) (bind : Z -> Z -> Z) (t : thread) : Z * thread :=
  match o with
  | Push ctx => cuCtxPushCurrent_v2 true bind ctx t
  | Pop => let '(result, _, t) := cuCtxPopCurrent_v2 true bind t in (result, t)
  | SetTop ctx => cuCtxSetCurrent true bind ctx t
  | Created ctx => (CUDA_SUCCESS, lupine_note_ctx_create_route ctx t)
  end.

(** Both run, with the results that the client's calls have. *)
Fixpoint run_both (os : list (stack_call * (Z -> Z -> Z))) (t : thread) (s : list Z) : thread * list Z :=
  match os with
  | [] => (t, s)
  | (o, bind) :: os => let '(result, t) := client_stack o bind t in run_both os t (documented_stack o result s)
  end.

Definition of_context (o : stack_call) : Prop :=
  match o with Push ctx | SetTop ctx | Created ctx => ctx <> 0 | Pop => True end.

(** The client's stack is the documented one above entries for no context. *)
Definition stands_for (t : thread) (s : list Z) : Prop :=
  exists n, current t :: stack t = s ++ replicate n 0 /\ (s = [] -> (0 < n)%nat).

Lemma make_current_fields ctx st t : current (make_current ctx st t) :: stack (make_current ctx st t) = ctx :: st.
Proof. unfold make_current. by case_match. Qed.

Lemma stands_replaced t t' s : stands_for t s -> current t' :: stack t' = current t :: stack t -> stands_for t' s.
Proof. intros (n & E & Hn) E'. exists n. by rewrite E', E. Qed.

Lemma stands_pushed ctx t t' s : stands_for t s -> current t' :: stack t' = ctx :: current t :: stack t ->
  stands_for t' (ctx :: s).
Proof. intros (n & E & Hn) E'. exists n. rewrite E', E. by split. Qed.

Lemma stands_set ctx t t' s : stands_for t s -> current t' :: stack t' = ctx :: stack t -> stands_for t' (ctx :: tail s).
Proof.
  intros (n & E & Hn) E'. destruct s as [|x s]; cbn in *.
  - destruct n as [|n]; [specialize (Hn eq_refl); lia|]. injection E as _ E. exists n. by rewrite E', E.
  - injection E as _ E. exists n. by rewrite E', E.
Qed.

Lemma stands_popped t t' s : stands_for t s ->
  current t' :: stack t' = match stack t with [] => [0] | st => st end -> stands_for t' (tail s).
Proof.
  intros (n & E & Hn) E'. destruct s as [|x s]; cbn in *.
  - destruct n as [|n]; [specialize (Hn eq_refl); lia|]. injection E as _ E. rewrite E in E'.
    exists (Nat.max 1 n). rewrite E'. destruct n; split; done || (intros; lia).
  - injection E as _ E. destruct (stack t) as [|y st].
    + symmetry in E. apply app_eq_nil in E as [-> _]. exists 1%nat. split; [done|lia].
    + exists n. rewrite E'. split; [done|]. intros ->. destruct n; [done|lia].
Qed.

Lemma stands_grown t t' s : stands_for t s -> current t' :: stack t' = (current t :: stack t) ++ [0] -> stands_for t' s.
Proof.
  intros (n & E & Hn) E'. exists (S n). rewrite E', E, <- app_assoc, replicate_S_end. split; [done|lia].
Qed.

Lemma stack_call_stands o bind t s : of_context o -> stands_for t s ->
  stands_for (client_stack o bind t).2 (documented_stack o (client_stack o bind t).1 s).
Proof.
  intros Ho R. destruct o as [ctx| |ctx|ctx]; cbn in *; unfold cuCtxPopCurrent_v2, documented_stack; cbn.
  - destruct (_ =? CUDA_SUCCESS); cbn; [|done]. apply (stands_pushed ctx t), make_current_fields; done.
  - destruct (stack t) as [|y st] eqn:E; cbn; destruct (_ =? CUDA_SUCCESS); cbn.
    + apply (stands_popped t); [done|]. by rewrite E.
    + apply (stands_grown t); [done|]. cbn. by rewrite E.
    + apply (stands_popped t); [done|]. by rewrite make_current_fields, E.
    + apply (stands_replaced t); [done|]. cbn. by rewrite E.
  - destruct (_ =? CUDA_SUCCESS); cbn; [|done]. destruct (Z.eqb_spec ctx 0); [done|]. apply (stands_set ctx t), make_current_fields; done.
  - apply (stands_pushed ctx t); [done|]. unfold lupine_note_ctx_create_route. by rewrite make_current_fields.
Qed.

Lemma run_both_stands os : forall t s, Forall (fun o => of_context o.1) os -> stands_for t s ->
  let '(t', s') := run_both os t s in stands_for t' s'.
Proof.
  induction os as [|[o bind] os IH]; intros t s Hos R; [done|]. inversion_clear Hos as [|?? Ho Hos']. cbn.
  pose proof (stack_call_stands o bind t s Ho R) as R'. destruct (client_stack o bind t) as [result t']. by apply IH.
Qed.

(** After every sequence of pushes, pops, creations and changes of the current context to another one, some
    of which may be refused by the server, the current context of the thread is the top of the documented
    stack, and none when that is empty. *)
Theorem context_stack_refines (os : list (stack_call * (Z -> Z -> Z)))
  (H_contexts : Forall (fun o => of_context o.1) os) :
  let '(t, s) := run_both os (Thread 0 [] 0 0 []) [] in
  cuCtxGetCurrent true true t = (CUDA_SUCCESS, Some (default 0 (head s))).
Proof.
  assert (R : stands_for (Thread 0 [] 0 0 []) []) by (exists 1%nat; split; [done|lia]).
  pose proof (run_both_stands os _ _ H_contexts R) as Hr. destruct (run_both os _ _) as [t s].
  destruct Hr as (n & E & Hn). cbn. do 2 f_equal. destruct s as [|x s]; cbn in *; [|by injection E].
  destruct n; [specialize (Hn eq_refl); lia|]. by injection E.
Qed.

Lemma context_stack_refines_witness :
  let ok := (fun _ _ : Z => CUDA_SUCCESS) in
  let no := (fun _ _ : Z => CUDA_ERROR_INVALID_CONTEXT) in
  let os := [(Created 5, ok); (Push 6, ok); (Push 7, no); (Pop, no); (SetTop 8, ok); (Pop, ok)] in
  let '(t, s) := run_both os (Thread 0 [] 0 0 []) [] in
  s = [5] /\ cuCtxGetCurrent true true t = (CUDA_SUCCESS, Some 5).
Proof.
  intros ok no os. assert (H : Forall (fun o => of_context o.1) os) by (repeat constructor; discriminate).
  pose proof (context_stack_refines os H) as R. split; [reflexivity|exact R].
Defined.

(** Making no context current leaves the rest of the stack below it, where the documentation pops: the context
    that was pushed first is not current afterwards. *)
Theorem set_current_null_keeps_stack (a b : Z) (t : thread) (s : list Z) :
  let ok := (fun _ _ : Z => CUDA_SUCCESS) in
  let '(t, s) := run_both [(Push a, ok); (Push b, ok); (SetTop 0, ok)] t s in
  cuCtxGetCurrent true true t = (CUDA_SUCCESS, Some 0) /\ head s = Some a.
Proof. by cbn; destruct (a =? 0), (b =? 0). Qed.
